(* ===== verification/_CoqProject ===== *)
-Q . S2P
Prelude.v
GoStrings.v
Float.v
DnsDial.v
ErrMask.v
Atomic.v
Lifecycle.v
Warmup.v
ShardHash.v
Rtt.v
Congestion.v
Conn.v
Rendezvous.v
Pool.v
PoolResurrect.v
PoolStandby.v
PoolSelect.v
PoolLists.v
PoolReport.v
PoolHealth.v
PoolCap.v
PoolNext.v
PolicyPool.v
PoolSteps.v
TtlCache.v
KeyHash.v
Operation.v
Routes.v
RouteTable.v
Discovery.v
DiscoveryPool.v
Policy.v
Router.v
Stream.v
StreamRun.v
StreamRouter.v
StreamSpec.v
BulkIndexer.v
BulkSpec.v
BulkRuns.v
BulkWire.v
BulkClose.v
ShardMap.v
Score.v
IndexCache.v
ShardRouting.v
RouterPolicy.v
RouterConfig.v
DiscoverFlight.v
Paths.v
PathsCore.v
PathsIndices.v
PathsSecurity.v
PathsML.v
PathsPlugins.v
PathSpec.v
ReqBuild.v
ApiRequest.v
ApiDocs.v
ApiCluster.v
ApiIndices.v
ApiLifecycle.v
ApiSecurity.v
ApiML.v
ApiRanking.v
ApiPlugins.v
ApiSpec.v
Json.v
JsonPrint.v
Errors.v
Client.v
ClientSpec.v
ApiErrors.v
ApiPartial.v
ApiErrSpec.v
ClientConfig.v
Unions.v
UnionsMarked.v
UnionsTried.v
UnionSpec.v
