(* ===== verification/Prelude.v ===== *)
(** * The client of opensearch-go: typed requests, routing, pools and discovery

    This library models the client-side load balancing of opensearch-go
    (package opensearchtransport, with opensearchutil/shardhash and
    internal/ttlcache), the bulk indexer of opensearchutil, the error masks of
    errmask, and the path builders, requests, responses and errors of the typed API,
    and proves what makes them correct. Every definition is translated from the Go source; the
    theorems are about those definitions. Definitions compute, so the lemmas
    named [_witness] evaluate them on concrete inputs.

    ** The program

    The transport keeps a [Connection] per node. A connection carries an atomic
    64-bit word (lifecycle bits and two warmup managers), a ring of recent RTT
    measurements, per-thread-pool congestion windows and a few atomics. A
    [multiServerPool] keeps pointers to connections in a ready list, split by
    [activeCount] into an active and a standby partition, and in a dead list.
    A request asks the pool for a connection ([Next]) and reports the outcome
    ([OnSuccess], [OnFailure]); background goroutines check health, resurrect
    dead connections, promote standby ones, enforce the active cap and demote
    overloaded nodes. Several pools share the same connections: one is the
    inventory discovery maintains (allConns), the others belong to the leaf
    policies of a router. Discovery resolves the nodes a cluster reports against
    the inventory, swaps the inventory and passes the difference to the router,
    whose policies update their own pools. A request is matched against a route
    table and handed down a tree of policies until one of them answers with a
    connection of its pool. The scored routers (IndexRouter, DocRouter and the
    poolRouter that wraps a policy) resolve the routing value of a request to a
    shard with the placement discovery reads from /_cat/shards, which they keep
    per index in an [indexSlotCache]; where that is not possible they pick, for
    a routing key, the best k candidates by shard locality, RTT tier and
    rendezvous weight. Among the candidates the least score wins: RTT times
    utilisation of the congestion window times shard cost. Congestion windows
    follow the node statistics (AIMD). On top of the client a [bulkIndexer]
    queues items on its workers, which send them in bulk requests.

    ** Files

    - Prelude.v: fixed-width integers with their wrap-around, bit and field
      lemmas, the state-and-panic monad [M] with its [wp] rules and tactics.
    - GoStrings.v, Float.v: the functions of strings and strconv the components
      use, and float64 with its order.
    - DnsDial.v: dnscache.go and parse_duration.go. The settings, the dial function
      and the race of dialParallel.
    - ErrMask.v: errmask.go, the mask of error categories and its text form.
    - Atomic.v: the load / compute / compare-and-swap loop, for any decision
      function: linearizable, lock-free.
    - Lifecycle.v: connection_lifecycle.go. The packed word, its accessors and
      [casLifecycle] as a step machine against concurrent writers.
    - Warmup.v: connection_warmup.go. startWarmup, tryWarmupSkip, clearWarmup
      and the smoothstep curve in wrapping int64 arithmetic.
    - ShardHash.v: opensearchutil/shardhash and opensearchtransport/murmur3.go.
      UTF-16 encoding, Murmur3 in int32 arithmetic, and shard numbers.
    - Rtt.v: duration.go, connection_rtt.go. RTT buckets and the ring.
    - Congestion.v: pool_congestion.go and its callers. Windows, the registry,
      429 handling, in-flight counting.
    - Conn.v: connection.go and the role sets of discovery.go. The
      [Connection] record and the heap of connections.
    - Rendezvous.v: rendezvous_hash.go.
    - Pool.v, PoolResurrect.v, PoolStandby.v, PoolSelect.v: the definitions of
      pool_multi_server.go, pool_selector*.go, pool_resurrect.go,
      pool_standby.go, pool_selection.go and pool_single_server.go.
    - PoolLists.v: the abstract contents of a pool, and a Hoare triple for each
      list operation.
    - PoolReport.v, PoolHealth.v, PoolCap.v, PoolNext.v, PoolSteps.v: the
      theorems about reports, health checks, cap and overload, selection, and
      interleavings (of a policy's pool, discovery's sections of PolicyPool.v
      included).
    - TtlCache.v, KeyHash.v: internal/ttlcache. The reference-counted cache as
      machines (callers, releases, the sweep) over one shared state, and the
      key builder.
    - Operation.v: operation.go. Identifiers and names.
    - Routes.v: policy_mux_trie.go and the route builder of policy_mux.go. The
      trie against a list of routes.
    - RouteTable.v: the route table of router.go, and classify.go.
    - PolicyPool.v: the DiscoveryUpdate of the leaf policies on their pools
      (policy_roundrobin.go, policy_role.go, policy_cluster_coordinator.go) and
      the policy state word (policy_override_env.go).
    - Discovery.v, DiscoveryPool.v: discovery.go from the list of discovered
      nodes on, with the pool promotion and demotion of opensearchtransport.go.
    - DiscoverFlight.v: the single flight of DiscoverNodes and tryDiscoverNodes, a
      machine over the mutex, the flag and the condition variable.
    - Policy.v: the interface Policy and every policy but the scored ones, over
      one heap, the leaves' pools and the policy words; the law [chooses] that
      a policy only ever picks a pool, and how each combinator composes it.
    - Router.v: the mux router and the round-robin router of router.go.
    - ShardMap.v: the shard placement of discovery.go and mergeShardMap.
    - Score.v: shard_cost_config.go's tables and score functions, connScoreSelect
      and sortConnectionsByRTT of policy_index_router.go.
    - IndexCache.v: router_score.go's counters, index_routing_cache.go, and the
      walk over the tree of NewDefaultPolicy that feeds the caches.
    - ShardRouting.v: the routing value of a query and the index and document of
      a path (opensearchtransport.go, policy_doc_router.go), and the candidates
      of shard_routing.go.
    - RouterPolicy.v: IndexRouter, DocRouter, poolRouter and their topology updates.
    - RouterConfig.v: feature_config.go, parseShardCostConfig and the router
      options of router.go with their environment variables.
    - BulkIndexer.v: bulk_indexer.go, the workers, the flusher and Close as a
      machine; BulkSpec.v, BulkRuns.v, BulkWire.v, BulkClose.v: its invariants,
      what its runs do, what is on the wire, and Close.
    - Stream.v: Stream, Request, the retry loop and the seed fallback of
      opensearchtransport.go, over a router or a pool.
    - StreamRun.v: what the loop relies on of its router and pool, as classes
      with laws, and its rules of proof; StreamRouter.v: the mux router and the
      multi-server pool meet those laws; StreamSpec.v: the theorems.

    - Paths.v: the runtime of internal/path/builders_gen.go, the path templates of
      an API description, and the class [builder] of path types with the law
      [Lawful] that Build follows the templates; PathsCore.v, PathsIndices.v,
      PathsSecurity.v, PathsML.v, PathsPlugins.v: the 480 path types, each with its
      instance; PathSpec.v: what they build.
    - ReqBuild.v: internal/build/request.go, what net/http writes for its requests,
      and what the transport's scored routers read from them.

    - ApiRequest.v: the encoders of internal/params and the shape of the generated
      GetRequest methods; the class [operation] of request types with its laws.
      ApiDocs.v, ApiCluster.v, ApiIndices.v, ApiLifecycle.v, ApiSecurity.v, ApiML.v,
      ApiRanking.v, ApiPlugins.v: the 480 request types of opensearchapi and
      plugins; ApiSpec.v: what they send.

    - Json.v, JsonPrint.v: what is used of encoding/json, the scanner and the
      decoding into fields; and that it reads what a server writes.
    - Errors.v: Go errors as trees with errors.As and errors.Is; the error types of
      error.go and opensearchapi/errors.go.
    - Client.v: response.go, error.go, Execute of opensearch.go and [request] of
      opensearchapi/api.go; ClientSpec.v: ParseError reads error bodies back.
    - ClientConfig.v: Config, the environment, credentials and configKey of
      opensearch.go.
    - ApiErrors.v: opensearchapi/errors.go, the mask of a client, and the class of
      responses with partial failures; ApiPartial.v: its 22 instances;
      ApiErrSpec.v: what the error of a call carries.
    - Unions.v: the methods of the generated union types, once, on descriptions
      of them, and the key probes of internal/build/union.go; UnionsMarked.v,
      UnionsTried.v: the 146 types (unions_gen.go and the files of single
      operations), one definition each, the branches and cases of the long ones in
      several; UnionSpec.v: their theorems.

    ** How state and operations correspond

    Go integers are [Z], each operation that can leave its type followed by the
    conversion ([wrap32], [wrap64], [u32], ...). Times are Unix nanoseconds
    with 0 for the zero time, as the atomics store them; [w_now] is time.Now().
    float64 arithmetic (Float.v) is IEEE binary64 of SpecFloat. A pointer
    to a connection is a [loc] into the heap of the [World]; a write through a
    pointer is seen by every holder. A run-time panic (index out of range,
    division by zero, nil call) is [None], so [wp m Q s] says that [m] does not
    panic. Each pool operation is one critical section of its lock; where the
    code releases the lock, for a network call or between two sections, the
    definition is cut in two ([OnFailure_demote] and the rest of [OnFailure],
    [healthCheck_start] / [healthCheck_finish], [resurrect_begin] /
    [resurrect_end], ...). [go f()] appends a [task] to the world. The
    lock-free loops run as step machines with interference.

    The specification of a pool is [lists A S D]: the active, standby and dead
    entries as multisets, with the boundary in range. The definitions that
    permute slices in place (shuffles, swaps, compaction) are shown to refine
    it, and the theorems about handlers are stated on it. The interface
    poolSelector is the class [PoolSelector]; [PoolSelectorLaws] is what
    selection relies on, and the round-robin selector is shown to meet it. The
    order in which Go ranges over a map is a parameter, the class [MapRange],
    whose instances enumerate the map once.

    A request runs over a [Call]: the system, the caller's request as the loop
    rewrites it (URL, headers, the read position of its body), the health
    checks and refreshes it asked for, and the log of its events, one per
    in-flight increment and decrement, wire send, closed body and report to a
    pool. What the
    network, the signer, the timers and the caller's GetBody answer is the
    [Environment]: the i-th attempt finds its own answer there.

    A scored router is a [RouterState]: the heap, the cache, the jitter counter,
    the sorted connections and the policy word. The cache is a [gmap] from index
    names to slots; one step of a counter is one successful pass of its CAS loop.
    An Eval is one step, with the inner policy of a poolRouter as a function on
    the heap; the interleaving of getOrCreate's two map operations, and of
    mergeShardMap with other writers, is modelled apart.

    An error is a tree: a leaf of a concrete type, a node around one error, or a
    node around several. A response is a value with what is left to read of its
    body; ParseError and String give its new state. Execute and [request] run over
    any transport, a computation over a state of its own. Of a response type the
    model has the fields its failures are read from, as an instance of
    [partial_response], whose laws are [lawful_response]; [documented_response] lists, by the bits of
    errmask.go, the reports of the response and has the law that the generated
    PartialFailures reports these.

    A path type is a record with its Build method as an instance of [builder]; the
    instance also names its fields as the API description does and lists the
    description's path templates, so the law [Lawful] is the refinement of that
    description. A request type is likewise an instance of [operation]. The
    templates, methods and query parameters are those of opensearch-openapi.yaml,
    less the paths it marks deprecated or superseded where another path has the same
    parameters. json.Marshal of a typed body is what the body holds.

    A bulk indexer is a [bulkIndexer]: the queues and workers, the statistics, the
    flusher, Close and the log of what it sent and which callbacks it made. Every
    Add, receive, tick and part of Close is a step; an execution is a sequence of
    steps in any order the code allows ([enabled]).

    The shared state of a router is [System]: the heap, a pool per leaf policy
    and a policy word per policy, addressed by number. A [Policy] is a record of
    the interface's methods over it. [chooses policy c] is the specification of
    a policy: [c] is a function of state and request that names a pool or
    passes, and Eval is exactly "ask that pool". The routers' specification is
    composed from the leaves' along the combinators. [Transport] is the part of
    the client discovery changes.

    ** What the theorems show

    - Pools (PoolReport, PoolHealth, PoolCap, PoolNext, PoolSteps): what each
      handler does to the partitions and to the connection on every branch;
      Next returns only connections that may serve, always returns one while
      the active ones are usable, and deals requests out by weight; no
      interleaving of the critical sections of a policy's pool (reports, health
      checks, cap, rotation, discovery's updates) panics, breaks the boundary,
      or loses a connection but those discovery removes. The inventory pool,
      whose lists discovery swaps from outside, is not such a pool:
      DiscoveryPool.v proves that this swap can put the boundary out of range.
      Stale reports can duplicate a connection, and that is proved too.
    - Rendezvous: the result is the best k, minimal disruption on a leave,
      round robin of the ties.
    - Lifecycle word: casLifecycle against concurrent warmup writers.
    - Warmup: the exact ramp; the curve is exact and never overflows.
    - Hashing: Murmur3 equals the published algorithm; shard numbers are in
      range and stable under index splitting.
    - RTT: the median of the last n buckets; bucketing round trip.
    - TTL cache: a value somebody holds is never closed, nothing leaks, the
      sweep evicts exactly the idle entries, under every interleaving.
    - Routes: the trie implements the list of routes; every shipped route is
      reached; classification respects the method.
    - Policies and routers: after a DiscoveryUpdate a policy's pool holds
      exactly the connections the policy admits; once updated, the routers ask the
      pool their documentation names, on every request.
    - Requests: at most MaxRetries + 1 attempts and one seed attempt, no
      panic, in-flight counts that pair up, one report per attempt, and a retry
      only after a retryable answer; no response body is left open; what each
      attempt puts on the wire, the base path accumulated by retries included.
    - Discovery: a cycle installs exactly the discovered nodes and reports the
      exact difference; weights are proportional to cores; three flaws of the
      swap are proved as theorems about it. Concurrent callers share one discovery,
      get a result that is theirs to have, and all return.
    - Dialing: dialParallel returns and leaves no connection open but the one it
      returns; a cancelled caller can wait for ever, and that is proved too.
    - Scored routers: the placement of rows and the merge of shard maps; the
      least score is chosen and only the ramps of the tried candidates move;
      behind the default policy a request with a routing value reaches a node that
      has its shard, once discovery has placed it; what a topology change leaves
      in the list; slots are evicted only when idle; fan-out bounds; a
      configuration that parses is usable. What the cache does not do
      (prune after an index shrinks, feed standalone routers, decay once per
      cycle) is proved too.
    - Bulk indexer: the statistics and callbacks account for every item, the
      actions on a document keep their order, requests read back as their items
      (bodies that are readable and on one line), Close ends and then no worker holds an item.
    - Path builders: a Build method succeeds exactly when the fields that are set
      are the parameters of a path of the API description, and the path decodes to
      that path with the values in place, so that no value can add a segment.
    - Requests of the typed API: the path, the parameters and the body reach the
      server unchanged; the routers read index, id and routing value back, where
      these are ordinary names. Every operation sends a method, path and query
      parameters that opensearch-openapi.yaml has for it, each parameter under its
      key with its value in its type's text, and every parameter it has can be set.
    - Responses: error bodies are read back as the errors they stand for; a call
      returns exactly the failures in the documented reports of its response
      that the mask lets through, and only when the response was whole and decoded;
      Errors and RequireSuccessRate see every report. Configurations without a
      field that cannot be compared have one key stream only when they agree in
      every field, headers up to the order of values.
    - Unions: of the 139 types that tell their branch, a union holds one branch or
      none and only the accessor of that branch gives a value; a decode stores the
      branch the payload selects; what a constructor made is read back as the same
      branch, but for the five branches whose discriminator is left out, which is
      proved too. The other 7 leave the branch to the request; a wrong accessor
      of theirs can be silent, which is a lemma and a finding.
    - Error mask: parsing the text of a mask gives the mask.
    - Congestion: windows stay in bounds, AIMD converges, updates do not
      depend on map order, in-flight counts pair up on a stable registry.

    ** Bounds and fuel

    Counters and cursors that Go wraps are wrapped; theorems that need them
    not to wrap say so ([next_budget]: the int64 request counter; the RTT
    cursor below 2^31). Loops are structural on the list or count the code
    iterates over; [evict_loop] and [next_attempts] take exactly the number of
    iterations the code computes, so no fuel can run out; [gcd] takes a fuel of
    its second argument plus one and is shown equal to the gcd. The JSON scanner
    has twice the bytes of its text as fuel; more changes nothing ([parse_fuel]).
    Loops that wait for
    the network take their answers as a list.

    ** What is not modelled

    HTTP, TLS, DNS, contexts and timers (what a request sees of them is
    a parameter); decoding a response into its type, which is an argument; the
    construction of a client beyond its addresses, credentials and key; observers, metrics output and
    debug logging, which only read; the environment overrides' parsing;
    discovery's requests, address resolution and loop; the OnFlush hooks and
    buffers of the bulk indexer; the generated response types (what encoding/json does with the type of a
    branch is an argument of the unions);
    development tools. math.Exp, math.Pow, strconv.ParseFloat and the unstable
    slices.SortFunc are arguments of the definitions that call them. The
    float64 back-off of calculateResurrectTimeout and rttRingSizeFor are left
    out. rotateStandby and checkDead run their workers one after the other;
    PoolSteps.v covers the interleavings of their critical sections. *)

(** Shared vocabulary of the development: Go's fixed-width integers with their
    wrap-around, the bit lemmas the packed words need, the state-and-panic
    monad in which the stateful code is written (a run-time panic is [None]),
    its weakest-precondition calculus, and small list and arithmetic lemmas. *)

From stdpp Require Import base gmap list strings sorting.
From Stdlib Require Import ZArith Lia.

Open Scope Z_scope.

(** * Go integers

    Values of every Go integer type are kept as [Z]; an operation that can
    leave the type's range is followed by the conversion that brings it
    back. *)

(** Conversion to int32 / int64 (two's complement) and uint32 / uint64. *)
Definition wrap32 (z : Z) : Z := (z + 2 ^ 31) mod 2 ^ 32 - 2 ^ 31.
Definition wrap64 (z : Z) : Z := (z + 2 ^ 63) mod 2 ^ 64 - 2 ^ 63.
Definition u8 (z : Z) : Z := z mod 2 ^ 8.
Definition u32 (z : Z) : Z := z mod 2 ^ 32.
Definition u64 (z : Z) : Z := z mod 2 ^ 64.

Definition int32_range (z : Z) : Prop := - 2 ^ 31 <= z < 2 ^ 31.
Definition int64_range (z : Z) : Prop := - 2 ^ 63 <= z < 2 ^ 63.

Lemma wrap32_range z : int32_range (wrap32 z).
Proof. unfold int32_range, wrap32. pose proof (Z.mod_pos_bound (z + 2 ^ 31) (2 ^ 32)). lia. Qed.

Lemma wrap64_range z : int64_range (wrap64 z).
Proof. unfold int64_range, wrap64. pose proof (Z.mod_pos_bound (z + 2 ^ 63) (2 ^ 64)). lia. Qed.

Lemma wrap32_id z : int32_range z -> wrap32 z = z.
Proof. unfold int32_range, wrap32. intros H. rewrite Z.mod_small; lia. Qed.

Lemma wrap64_id z : int64_range z -> wrap64 z = z.
Proof. unfold int64_range, wrap64. intros H. rewrite Z.mod_small; lia. Qed.

Lemma u32_range z : 0 <= u32 z < 2 ^ 32.
Proof. unfold u32. apply Z.mod_pos_bound. lia. Qed.

Lemma u64_range z : 0 <= u64 z < 2 ^ 64.
Proof. unfold u64. apply Z.mod_pos_bound. lia. Qed.

Lemma u64_u64 n : u64 (u64 n) = u64 n.
Proof. unfold u64. apply Zmod_mod. Qed.

Lemma u8_range z : 0 <= u8 z < 2 ^ 8.
Proof. unfold u8. apply Z.mod_pos_bound. lia. Qed.

Lemma u32_wrap32 z : u32 (wrap32 z) = u32 z.
Proof.
  unfold u32, wrap32.
  rewrite Zminus_mod, Zmod_mod, <- Zminus_mod. f_equal. lia.
Qed.

Lemma u64_wrap64 z : u64 (wrap64 z) = u64 z.
Proof.
  unfold u64, wrap64.
  rewrite Zminus_mod, Zmod_mod, <- Zminus_mod. f_equal. lia.
Qed.

(** Two int64 words with the same bits are the same word. *)
Lemma int64_inj a b : int64_range a -> int64_range b -> u64 a = u64 b -> a = b.
Proof.
  unfold int64_range, u64. intros Ha Hb H.
  pose proof (Z.div_mod a (2 ^ 64)). pose proof (Z.div_mod b (2 ^ 64)).
  pose proof (Z.mod_pos_bound a (2 ^ 64)). lia.
Qed.

Lemma int32_inj a b : int32_range a -> int32_range b -> u32 a = u32 b -> a = b.
Proof.
  unfold int32_range, u32. intros Ha Hb H.
  pose proof (Z.div_mod a (2 ^ 32)). pose proof (Z.div_mod b (2 ^ 32)).
  pose proof (Z.mod_pos_bound a (2 ^ 32)). lia.
Qed.

(** * Bits *)

Lemma testbit_u64 z i : Z.testbit (u64 z) i = (i <? 64) && Z.testbit z i.
Proof.
  unfold u64. destruct (Z.ltb_spec i 64).
  - by rewrite Z.mod_pow2_bits_low by lia.
  - by rewrite Z.mod_pow2_bits_high by lia.
Qed.

Lemma testbit_wrap64 z i : i < 64 -> Z.testbit (wrap64 z) i = Z.testbit z i.
Proof.
  intros Hi. pose proof (f_equal (fun x => Z.testbit x i) (u64_wrap64 z)) as H.
  cbv beta in H. rewrite !testbit_u64 in H.
  by destruct (Z.ltb_spec i 64); [| lia].
Qed.

Lemma testbit_u32 z i : Z.testbit (u32 z) i = (i <? 32) && Z.testbit z i.
Proof.
  unfold u32. destruct (Z.ltb_spec i 32).
  - by rewrite Z.mod_pow2_bits_low by lia.
  - by rewrite Z.mod_pow2_bits_high by lia.
Qed.

Lemma testbit_wrap32 z i : i < 32 -> Z.testbit (wrap32 z) i = Z.testbit z i.
Proof.
  intros Hi. pose proof (f_equal (fun x => Z.testbit x i) (u32_wrap32 z)) as H.
  cbv beta in H. rewrite !testbit_u32 in H.
  by destruct (Z.ltb_spec i 32); [| lia].
Qed.

(** A field of [n] bits at offset [k] of an int64 word, as Go reads it:
    arithmetic shift right, then mask. *)
Definition field (w k n : Z) : Z := Z.land (Z.shiftr w k) (Z.ones n).

Lemma testbit_field w k n i :
  0 <= k -> 0 <= n -> 0 <= i ->
  Z.testbit (field w k n) i = (i <? n) && Z.testbit w (i + k).
Proof.
  intros. unfold field. rewrite Z.land_spec, Z.shiftr_spec by lia.
  rewrite Z.testbit_ones_nonneg by lia. by rewrite andb_comm.
Qed.

Lemma field_range w k n : 0 <= n -> 0 <= field w k n < 2 ^ n.
Proof.
  intros. unfold field. rewrite Z.land_ones by lia. apply Z.mod_pos_bound. lia.
Qed.

Lemma field_wrap64 w k n : 0 <= k -> 0 <= n -> k + n <= 64 -> field (wrap64 w) k n = field w k n.
Proof.
  intros. apply Z.bits_inj'. intros i Hi. rewrite !testbit_field by lia.
  destruct (Z.ltb_spec i n); [| done]. cbn. by rewrite testbit_wrap64 by lia.
Qed.

Lemma field_small w n : 0 <= w < 2 ^ n -> field w 0 n = w.
Proof.
  intros H. unfold field. rewrite Z.shiftr_0_r.
  destruct (Z.le_gt_cases 0 n).
  - rewrite Z.land_ones by lia. apply Z.mod_small. lia.
  - rewrite Z.pow_neg_r in H by lia. lia.
Qed.

Lemma testbit_above w n i : 0 <= w < 2 ^ n -> n <= i -> Z.testbit w i = false.
Proof.
  intros Hw Hi. destruct (Z.eq_dec w 0) as [-> | Hn]; [apply Z.bits_0 |].
  apply Z.bits_above_log2; [lia |].
  assert (Z.log2 w < n); [| lia]. apply Z.log2_lt_pow2; lia.
Qed.

(** Small non-negative words, by their bits. *)
Lemma small_bits w n :
  0 <= n -> (0 <= w < 2 ^ n <-> forall i, n <= i -> Z.testbit w i = false).
Proof.
  intros Hn. split; [intros; by eapply testbit_above |].
  intros H. replace w with (w mod 2 ^ n); [apply Z.mod_pos_bound; lia |].
  apply Z.bits_inj'. intros i Hi. destruct (Z.lt_ge_cases i n).
  - by rewrite Z.mod_pow2_bits_low.
  - by rewrite Z.mod_pow2_bits_high, H by lia.
Qed.

(** Disjoint fields: or is addition. *)
Lemma lor_shiftl_add a b n : 0 <= n -> 0 <= a < 2 ^ n -> Z.lor a (Z.shiftl b n) = a + b * 2 ^ n.
Proof.
  intros Hn Ha. rewrite <- Z.shiftl_mul_pow2 by done.
  assert (Z.land a (Z.shiftl b n) = 0) as Hd.
  { apply Z.bits_inj'. intros i Hi. rewrite Z.land_spec, Z.shiftl_spec, Z.bits_0 by done.
    destruct (Z.lt_ge_cases i n).
    - rewrite (Z.testbit_neg_r b) by lia. apply andb_false_r.
    - by rewrite (testbit_above a n i) by lia. }
  by rewrite Z.add_nocarry_lxor, Z.lxor_lor by done.
Qed.

Create HintDb bool.
#[export] Hint Rewrite andb_true_r andb_false_r andb_true_l andb_false_l
  orb_true_r orb_false_r orb_true_l orb_false_l negb_true_iff negb_false_iff : bool.

(** Case analysis on the comparisons produced by the bit lemmas. *)
Ltac bool_cases :=
  repeat match goal with
  | |- context [Z.ltb ?a ?b] => destruct (Z.ltb_spec a b)
  | |- context [Z.leb ?a ?b] => destruct (Z.leb_spec a b)
  | |- context [Z.eqb ?a ?b] => destruct (Z.eqb_spec a b)
  end.

(** Case analysis on every conditional of the goal, innermost conditions
    first. *)
Ltac split_ifs :=
  repeat match goal with
  | |- context [if ?b then _ else _] =>
    lazymatch b with context [if _ then _ else _] => fail | _ => destruct b eqn:? end
  end.

Ltac bit_solve :=
  apply Z.bits_inj'; intros i Hi;
  repeat first
    [ rewrite Z.lor_spec | rewrite Z.land_spec | rewrite Z.ldiff_spec
    | rewrite Z.lxor_spec
    | rewrite Z.shiftl_spec by lia | rewrite Z.shiftr_spec by lia
    | rewrite testbit_field by lia | rewrite Z.testbit_ones_nonneg by lia ].

(** An int64 is a word whose bits above 62 are all the sign bit. *)
Lemma int64_range_shiftr z :
  int64_range z <-> Z.shiftr z 63 = 0 \/ Z.shiftr z 63 = -1.
Proof.
  unfold int64_range. rewrite Z.shiftr_div_pow2 by lia.
  pose proof (Z.div_mod z (2 ^ 63)). pose proof (Z.mod_pos_bound z (2 ^ 63)). lia.
Qed.

Lemma lor_int64 a b : int64_range a -> int64_range b -> int64_range (Z.lor a b).
Proof.
  rewrite !int64_range_shiftr, Z.shiftr_lor. intros [-> | ->] [-> | ->]; cbn; auto.
Qed.

Lemma land_int64_small a n : 0 <= n <= 63 -> int64_range (Z.land a (Z.ones n)).
Proof.
  intros Hn. rewrite Z.land_ones by lia. unfold int64_range.
  pose proof (Z.mod_pos_bound a (2 ^ n)). pose proof (Z.pow_le_mono_r 2 n 63). lia.
Qed.

Lemma int64_ext a b :
  int64_range a -> int64_range b ->
  (forall i, 0 <= i < 64 -> Z.testbit a i = Z.testbit b i) -> a = b.
Proof.
  intros Ha Hb H. apply int64_inj; [done .. |]. apply Z.bits_inj'. intros i Hi.
  rewrite !testbit_u64. destruct (Z.ltb_spec i 64); [| done]. cbn. apply H. lia.
Qed.

(** The sign of an int64 is its bit 63. *)
Lemma int64_neg_testbit z : int64_range z -> (z <? 0) = Z.testbit z 63.
Proof.
  unfold int64_range. intros H.
  pose proof (Z.testbit_spec' z 63 ltac:(lia)) as Hb.
  pose proof (Z.div_mod z (2 ^ 63)). pose proof (Z.mod_pos_bound z (2 ^ 63)).
  destruct (Z.ltb_spec z 0), (Z.testbit z 63); try done.
  - assert (z / 2 ^ 63 = -1) as E by lia. by rewrite E in Hb.
  - assert (z / 2 ^ 63 = 0) as E by lia. by rewrite E in Hb.
Qed.

(** ** Congruence modulo 2^32

    Signed and unsigned 32-bit arithmetic agree up to [eq32]; the ring and the
    bitwise operations respect it, so a computation in int32 can be rewritten
    into the same computation in uint32. *)

Definition eq32 (a b : Z) : Prop := u32 a = u32 b.

#[export] Instance eq32_equiv : Equivalence eq32.
Proof. split; unfold eq32; [by intros ? | by intros ? ? -> | by intros ? ? ? -> ->]. Qed.

#[export] Instance eq32_add : Proper (eq32 ==> eq32 ==> eq32) Z.add.
Proof.
  unfold eq32, u32. intros a a' Ha b b' Hb.
  by rewrite Zplus_mod, Ha, Hb, <- Zplus_mod.
Qed.
#[export] Instance eq32_mul : Proper (eq32 ==> eq32 ==> eq32) Z.mul.
Proof.
  unfold eq32, u32. intros a a' Ha b b' Hb.
  by rewrite Zmult_mod, Ha, Hb, <- Zmult_mod.
Qed.
#[export] Instance eq32_u32 : Proper (eq32 ==> eq) u32.
Proof. by intros a b H. Qed.

Lemma eq32_bits a b : eq32 a b <-> (forall i, 0 <= i < 32 -> Z.testbit a i = Z.testbit b i).
Proof.
  unfold eq32. split.
  - intros H i Hi. apply (f_equal (fun x => Z.testbit x i)) in H.
    rewrite !testbit_u32 in H. by destruct (Z.ltb_spec i 32); [| lia].
  - intros H. apply Z.bits_inj'. intros i Hi. rewrite !testbit_u32.
    destruct (Z.ltb_spec i 32); [| done]. cbn. apply H. lia.
Qed.

#[export] Instance eq32_lxor : Proper (eq32 ==> eq32 ==> eq32) Z.lxor.
Proof.
  intros a a' Ha b b' Hb. rewrite eq32_bits in *. intros i Hi.
  by rewrite !Z.lxor_spec, Ha, Hb.
Qed.
#[export] Instance eq32_lor : Proper (eq32 ==> eq32 ==> eq32) Z.lor.
Proof.
  intros a a' Ha b b' Hb. rewrite eq32_bits in *. intros i Hi.
  by rewrite !Z.lor_spec, Ha, Hb.
Qed.

Lemma eq32_shiftl a b k : 0 <= k -> eq32 a b -> eq32 (Z.shiftl a k) (Z.shiftl b k).
Proof. intros Hk H. rewrite !Z.shiftl_mul_pow2 by done. by rewrite H. Qed.

Lemma eq32_wrap32 a : eq32 (wrap32 a) a.
Proof. apply u32_wrap32. Qed.

Lemma eq32_of_u32 a : eq32 (u32 a) a.
Proof. unfold eq32, u32. apply Zmod_mod. Qed.

Lemma u32_id a : 0 <= a < 2 ^ 32 -> u32 a = a.
Proof. apply Z.mod_small. Qed.

(** An int32 is a word whose bits above 30 are all the sign bit. *)
Lemma int32_range_shiftr z :
  int32_range z <-> Z.shiftr z 31 = 0 \/ Z.shiftr z 31 = -1.
Proof.
  unfold int32_range. rewrite Z.shiftr_div_pow2 by lia.
  pose proof (Z.div_mod z (2 ^ 31)). pose proof (Z.mod_pos_bound z (2 ^ 31)). lia.
Qed.

Lemma lxor_int32 a b : int32_range a -> int32_range b -> int32_range (Z.lxor a b).
Proof.
  rewrite !int32_range_shiftr, Z.shiftr_lxor. intros [-> | ->] [-> | ->]; cbn; auto.
Qed.

Lemma lor_int32 a b : int32_range a -> int32_range b -> int32_range (Z.lor a b).
Proof.
  rewrite !int32_range_shiftr, Z.shiftr_lor. intros [-> | ->] [-> | ->]; cbn; auto.
Qed.

(** * State and panic monad

    [M S A] is a computation over a state [S] that either panics ([None], Go's
    run-time panic) or returns the new state and a value. *)

Definition M (S A : Type) : Type := S -> option (S * A).

Definition ret {S A} (a : A) : M S A := fun s => Some (s, a).
Definition bind {S A B} (m : M S A) (k : A -> M S B) : M S B :=
  fun s => match m s with Some (s', a) => k a s' | None => None end.
Definition panic {S A} : M S A := fun _ => None.
Definition gets {S A} (f : S -> A) : M S A := fun s => Some (s, f s).
Definition modify {S} (f : S -> S) : M S unit := fun s => Some (f s, tt).
(** A partial read: a panic where it is undefined (nil dereference, index out
    of range). *)
Definition getsM {S A} (f : S -> option A) : M S A :=
  fun s => match f s with Some a => Some (s, a) | None => None end.

Declare Scope go_scope.
Delimit Scope go_scope with go.
Notation "'let*' x := m 'in' k" := (bind m (fun x => k))
  (at level 200, x name, m at level 100, k at level 200) : go_scope.
Notation "'let*' ' p := m 'in' k" := (bind m (fun x => let 'p := x in k))
  (at level 200, p pattern, m at level 100, k at level 200) : go_scope.
Notation "m ;;; k" := (bind m (fun _ => k))
  (at level 60, right associativity) : go_scope.
Open Scope go_scope.

(** if-without-else statement. *)
Definition whenM {S} (b : bool) (m : M S unit) : M S unit := if b then m else ret tt.

(** A [for range] loop over a list snapshot. *)
Fixpoint forM {S A} (l : list A) (body : A -> M S unit) : M S unit :=
  match l with
  | [] => ret tt
  | x :: l' => body x ;;; forM l' body
  end.

(** Weakest precondition: the computation does not panic and its result
    satisfies [Q]. *)
Definition wp {S A} (m : M S A) (Q : S -> A -> Prop) (s : S) : Prop :=
  match m s with Some (s', a) => Q s' a | None => False end.

Section Wp.
Context {S : Type}.

Lemma wp_ret {A} (a : A) Q (s : S) : Q s a -> wp (ret a) Q s.
Proof. done. Qed.

Lemma wp_bind {A B} (m : M S A) (k : A -> M S B) Q s :
  wp m (fun s' a => wp (k a) Q s') s -> wp (bind m k) Q s.
Proof. unfold wp, bind. by destruct (m s) as [[s' a] |]. Qed.

Lemma wp_gets {A} (f : S -> A) Q s : Q s (f s) -> wp (gets f) Q s.
Proof. done. Qed.

Lemma wp_modify (f : S -> S) Q s : Q (f s) tt -> wp (modify f) Q s.
Proof. done. Qed.

Lemma wp_getsM {A} (f : S -> option A) Q s a :
  f s = Some a -> Q s a -> wp (getsM f) Q s.
Proof. unfold wp, getsM. by intros ->. Qed.

Lemma wp_mono {A} (m : M S A) (Q R : S -> A -> Prop) s :
  wp m Q s -> (forall s' a, Q s' a -> R s' a) -> wp m R s.
Proof. unfold wp. destruct (m s) as [[s' a] |]; auto. Qed.

Lemma wp_when b (m : M S unit) Q s :
  (b = true -> wp m Q s) -> (b = false -> Q s tt) -> wp (whenM b m) Q s.
Proof. destruct b; cbn; auto. Qed.

(** Loop rule: an invariant over the elements already visited. *)
Lemma wp_forM {A} (l : list A) (body : A -> M S unit) (I : list A -> S -> Prop) s :
  I [] s ->
  (forall visited x rest s', l = visited ++ x :: rest -> I visited s' ->
     wp (body x) (fun s'' _ => I (visited ++ [x]) s'') s') ->
  wp (forM l body) (fun s' _ => I l s') s.
Proof.
  intros H0 Hstep.
  assert (forall rest visited s', l = visited ++ rest -> I visited s' ->
    wp (forM rest body) (fun s'' _ => I l s'') s') as Hgen; [| by apply (Hgen l [] s)].
  induction rest as [| x rest IH]; intros visited s' Hl HI; cbn.
  - unfold wp, ret. by rewrite Hl, app_nil_r.
  - apply wp_bind. apply (wp_mono _ _ _ _ (Hstep visited x rest s' Hl HI)).
    intros s'' _ HI'. apply (IH (visited ++ [x])); [by rewrite <- app_assoc | done].
Qed.

(** Running a computation whose precondition holds. *)
Lemma wp_run {A} (m : M S A) Q s :
  wp m Q s <-> exists s' a, m s = Some (s', a) /\ Q s' a.
Proof.
  unfold wp. destruct (m s) as [[s' a] |]; split.
  - intros H. by exists s', a.
  - by intros (? & ? & [= -> ->] & ?).
  - done.
  - by intros (? & ? & ? & ?).
Qed.

Lemma wp_and {A} (m : M S A) (Q R : S -> A -> Prop) s :
  wp m Q s -> wp m R s -> wp m (fun s' a => Q s' a /\ R s' a) s.
Proof. unfold wp. by destruct (m s) as [[s' a] |]. Qed.
End Wp.

Create HintDb wp discriminated.
#[export] Hint Resolve wp_ret wp_gets wp_modify : wp.

(** One step of symbolic execution. *)
Ltac wp_step :=
  lazymatch goal with
  | |- wp (bind _ _) _ _ => apply wp_bind
  | |- wp (ret _) _ _ => apply wp_ret
  | |- wp (gets _) _ _ => apply wp_gets
  | |- wp (modify _) _ _ => apply wp_modify
  | |- wp (whenM _ _) _ _ => apply wp_when; intros ?
  | |- wp (if ?b then _ else _) _ _ => destruct b eqn:?
  | |- wp (match ?x with _ => _ end) _ _ => destruct x eqn:?
  end; cbn beta iota.
Ltac wp_steps := repeat wp_step.

(** Fold over a list with an accumulator, for loops that only read the
    state. *)
Lemma foldl_invariant {A B} (f : A -> B -> A) (P : A -> Prop) l a :
  P a -> (forall a x, x ∈ l -> P a -> P (f a x)) -> P (foldl f a l).
Proof.
  revert a. induction l as [| x l IH]; intros a Ha Hf; cbn; [done |].
  apply IH; [apply Hf; [set_solver | done] |]. intros; apply Hf; set_solver.
Qed.

(** Sums over a list that one update changes. *)
Lemma sum_insert {A} (f : A -> nat) (l : list A) i w w' :
  l !! i = Some w -> (sum_list_with f (<[i := w']> l) + f w = sum_list_with f l + f w')%nat.
Proof.
  revert i. induction l as [|x l IH]; intros [|i] H; try done.
  - injection H as ->. cbn. lia.
  - specialize (IH i H). change (sum_list_with f (<[S i := w']> (x :: l))) with (f x + sum_list_with f (<[i := w']> l))%nat.
    change (sum_list_with f (x :: l)) with (f x + sum_list_with f l)%nat. lia.
Qed.

Lemma sum_ge {A} (f : A -> nat) (l : list A) i w : l !! i = Some w -> (f w <= sum_list_with f l)%nat.
Proof.
  revert i. induction l as [|x l IH]; intros [|i] H; try done; cbn [sum_list_with].
  - injection H as ->. lia.
  - specialize (IH i H). lia.
Qed.

Lemma sum_replicate {A} (f : A -> nat) n a : sum_list_with f (replicate n a) = (n * f a)%nat.
Proof. induction n as [|n IH]; cbn [replicate sum_list_with]; lia. Qed.

Lemma sum_pos {A} (f : A -> nat) (l : list A) : (0 < sum_list_with f l)%nat -> exists i w, l !! i = Some w /\ (0 < f w)%nat.
Proof.
  induction l as [|x l IH]; cbn [sum_list_with]; [lia|]. intros H. destruct (decide (0 < f x)%nat) as [Hx|Hx]; [by exists 0%nat, x|].
  destruct IH as (i & w & Hi & Hw); [lia|]. by exists (S i), w.
Qed.

Lemma sum_below_length {A} (f : A -> nat) (l : list A) :
  (sum_list_with f l < length l)%nat -> exists i w, l !! i = Some w /\ f w = 0%nat.
Proof.
  induction l as [|x l IH]; cbn [sum_list_with length]; [lia|]. intros H. destruct (decide (f x = 0%nat)) as [Hx|Hx]; [by exists 0%nat, x|].
  destruct IH as (i & w & Hi & Hw); [lia|]. by exists (S i), w.
Qed.

Lemma sum_disjoint {A} (f g : A -> nat) (l : list A) :
  (forall a, (f a + g a <= 1)%nat) -> (sum_list_with f l + sum_list_with g l <= length l)%nat.
Proof. intros H. induction l as [|x l IH]; cbn [sum_list_with length]; [lia|]. specialize (H x). lia. Qed.
