(* ===== verification/GoStrings.v ===== *)
(** * Strings of the Go library

    The functions of packages strings and unicode that several components use,
    on strings of bytes: Split, Join, Cut, Contains, TrimSpace. A Go string
    is the string of its bytes; TrimSpace works on the UTF-8 encodings of the
    white space code points, which decode from those bytes and no others. *)

From Stdlib Require Import Ascii String.
From stdpp Require Import base list strings.
From Stdlib Require Import ZArith Lia.
From S2P Require Import Prelude.

Definition str_has (c : ascii) (s : string) : bool := existsb (Ascii.eqb c) (list_ascii_of_string s).

(** strings.Split and SplitSeq, for a separator of one byte. *)
Fixpoint Split (c : ascii) (s : string) : list string :=
  match s with
  | EmptyString => [""]
  | String x s' =>
    if Ascii.eqb x c then "" :: Split c s'
    else match Split c s' with a :: l => String x a :: l | [] => [String x ""] end
  end.

(** strings.Cut, for a separator of one byte. *)
Fixpoint Cut (c : ascii) (s : string) : string * string * bool :=
  match s with
  | EmptyString => ("", "", false)
  | String x s' => if Ascii.eqb x c then ("", s', true) else let '(a, b, ok) := Cut c s' in (String x a, b, ok)
  end.

Fixpoint strip_prefix (p s : string) : option string :=
  match p, s with
  | EmptyString, _ => Some s
  | String a p', String b s' => if Ascii.eqb a b then strip_prefix p' s' else None
  | _, _ => None
  end.

Definition srev (s : string) : string := string_of_list_ascii (rev (list_ascii_of_string s)).

Definition bytes (l : list Z) : string := string_of_list_ascii (map (fun b => ascii_of_nat (Z.to_nat b)) l).

(** unicode.IsSpace, as UTF-8. *)
Definition space_runes : list string :=
  map bytes [[9]; [10]; [11]; [12]; [13]; [32]; [194; 133]; [194; 160]; [225; 154; 128];
    [226; 128; 128]; [226; 128; 129]; [226; 128; 130]; [226; 128; 131]; [226; 128; 132]; [226; 128; 133];
    [226; 128; 134]; [226; 128; 135]; [226; 128; 136]; [226; 128; 137]; [226; 128; 138];
    [226; 128; 168]; [226; 128; 169]; [226; 128; 175]; [226; 129; 159]; [227; 128; 128]].

Fixpoint strip_any (l : list string) (s : string) : option string :=
  match l with [] => None | p :: l' => match strip_prefix p s with Some s' => Some s' | None => strip_any l' s end end.

Fixpoint trim_loop (fuel : nat) (l : list string) (s : string) : string :=
  match fuel with
  | O => s
  | S n => match strip_any l s with Some s' => trim_loop n l s' | None => s end
  end.

Definition trim_left (l : list string) (s : string) : string := trim_loop (String.length s) l s.
Definition TrimSpace (s : string) : string := srev (trim_left (map srev space_runes) (srev (trim_left space_runes s))).

(** The bytes of a string. *)
Definition lit (s : string) : list Z := map (fun a => Z.of_nat (nat_of_ascii a)) (list_ascii_of_string s).
Definition is_byte (b : Z) : Prop := (0 <= b < 256)%Z.

Lemma lit_bytes s : Forall is_byte (lit s).
Proof.
  unfold lit. apply Forall_fmap, Forall_true. intros a. unfold is_byte; cbn. pose proof (nat_ascii_bounded a). lia.
Qed.

(** strconv.Atoi: an optional sign and decimal digits, in the range of int. *)
Definition digit (a : ascii) : option Z :=
  let d := (Z.of_nat (nat_of_ascii a) - 48)%Z in if ((0 <=? d) && (d <=? 9))%Z then Some d else None.
Fixpoint atoi_digits (acc : Z) (s : string) : option Z :=
  match s with
  | EmptyString => Some acc
  | String a s' => d ← digit a; atoi_digits (acc * 10 + d)%Z s'
  end.
Definition Atoi (s : string) : option Z :=
  let '(neg, body) := match s with
    | String a s' => if Ascii.eqb a "-" then (true, s') else if Ascii.eqb a "+" then (false, s') else (false, s)
    | EmptyString => (false, s) end in
  if decide (body = "") then None
  else v ← atoi_digits 0 body; let v := if neg : bool then (- v)%Z else v in
    if ((- 2 ^ 63 <=? v) && (v <? 2 ^ 63))%Z then Some v else None.

(** The value of a hexadecimal digit, and the digit in upper case. *)
Definition code (a : ascii) : Z := Z.of_nat (nat_of_ascii a).
Definition chr (z : Z) : ascii := ascii_of_nat (Z.to_nat z).
Definition hex_digit (a : ascii) : option Z :=
  let c := code a in
  if ((48 <=? c) && (c <=? 57))%Z then Some (c - 48)%Z
  else if ((97 <=? c) && (c <=? 102))%Z then Some (c - 87)%Z
  else if ((65 <=? c) && (c <=? 70))%Z then Some (c - 55)%Z
  else None.
Definition hex_upper (d : Z) : ascii := if (d <? 10)%Z then chr (48 + d) else chr (55 + d).

(** * Facts *)

Lemma str_has_cons c x s : str_has c (String x s) = Ascii.eqb c x || str_has c s.
Proof. done. Qed.

Lemma Split_nonempty c s : Split c s <> [].
Proof. destruct s as [|x s]; simpl; [done|]. destruct (Ascii.eqb x c), (Split c s); done. Qed.

Lemma Split_plain c s : str_has c s = false -> Split c s = [s].
Proof.
  induction s as [|x s IH]; [done|]. rewrite str_has_cons. intros [Hx Hs]%orb_false_iff. simpl.
  rewrite Ascii.eqb_sym, Hx, (IH Hs). done.
Qed.

Lemma append_cons x s t : String.append (String x s) t = String x (String.append s t).
Proof. done. Qed.
Lemma append_nil s : String.append "" s = s.
Proof. done. Qed.

Lemma append_assoc s t u : String.append (String.append s t) u = String.append s (String.append t u).
Proof. induction s as [|x s IH]; [done|]. rewrite !append_cons, IH. done. Qed.

Lemma append_empty_r s : String.append s "" = s.
Proof. induction s as [|x s IH]; [done|]. rewrite append_cons, IH. done. Qed.

Lemma Split_append c s t : Split c (String.append s (String c t)) = Split c s ++ Split c t.
Proof.
  induction s as [|x s IH].
  - rewrite append_nil. simpl. rewrite Ascii.eqb_refl. done.
  - rewrite append_cons. simpl. rewrite IH. destruct (Ascii.eqb x c); [done|].
    pose proof (Split_nonempty c s). destruct (Split c s); done.
Qed.

(** Splitting what Join made gives the parts back. *)
Lemma Split_concat c l :
  l <> [] -> Forall (fun s => str_has c s = false) l -> Split c (String.concat (String c "") l) = l.
Proof.
  intros Hl Hall. induction l as [|s l IH]; [done|]. inversion Hall as [|? ? Hs Hr]; subst.
  destruct l as [|t l]; [apply Split_plain, Hs|].
  change (String.concat (String c "") (s :: t :: l)) with (String.append s (String c (String.concat (String c "") (t :: l)))).
  rewrite Split_append, IH, Split_plain by done. done.
Qed.

Lemma bytes_lit s : bytes (lit s) = s.
Proof.
  unfold bytes, lit. rewrite map_map. rewrite <- (string_of_list_ascii_of_string s) at 2. f_equal.
  induction (list_ascii_of_string s) as [|a l IH]; [done|]. cbn [map]. rewrite IH, Nat2Z.id, ascii_nat_embedding. done.
Qed.

Lemma lit_inj s t : lit s = lit t -> s = t.
Proof. intros H. by rewrite <- (bytes_lit s), H, bytes_lit. Qed.
