(* ===== verification/Float.v ===== *)
(** * float64

    Go's float64 as SpecFloat computes it: IEEE-754 binary64, every operation
    rounded to nearest even by itself. The Go compiler may fuse a product and a
    sum on some machines; on amd64 it does not. The order of the numbers is that
    of a triple of integers, from which the order laws follow. *)

From Stdlib Require Import ZArith Lia SpecFloat.
From stdpp Require Import base list.
From S2P Require Import Prelude.

Open Scope list_scope.
Open Scope Z_scope.

Definition f64 : Type := spec_float.
Definition f64_of_Z (z : Z) : f64 := binary_normalize 53 1024 z 0 false.
Definition f64_div (a b : f64) : f64 := SFdiv 53 1024 a b.
Definition f64_mul (a b : f64) : f64 := SFmul 53 1024 a b.
Definition f64_add (a b : f64) : f64 := SFadd 53 1024 a b.
Definition f64_sub (a b : f64) : f64 := SFsub 53 1024 a b.
Definition f64_geb (a b : f64) : bool := SFleb b a.
Definition f64_ltb (a b : f64) : bool := SFltb a b.
Definition f64_leb (a b : f64) : bool := SFleb a b.

(** A decimal constant [n / d] of the source. *)
Definition f64_ratio (n d : Z) : f64 := f64_div (f64_of_Z n) (f64_of_Z d).
Definition f64_inf : f64 := S754_infinity false.
Definition MaxFloat64 : f64 := S754_finite false (2 ^ 53 - 1)%positive 971.
Definition is_nan (x : f64) : bool := match x with S754_nan => true | _ => false end.
Definition is_inf (x : f64) : bool := match x with S754_infinity _ => true | _ => false end.
Definition sign_bit (x : f64) : bool :=
  match x with S754_zero s | S754_infinity s | S754_finite s _ _ => s | S754_nan => false end.

(** The built-in min and max: NaN wins, and -0 is below +0. *)
Definition f64_min (a b : f64) : f64 :=
  if is_nan a || is_nan b then S754_nan
  else if f64_ltb a b then a else if f64_ltb b a then b else if sign_bit a then a else b.
Definition f64_max (a b : f64) : f64 :=
  if is_nan a || is_nan b then S754_nan
  else if f64_ltb a b then b else if f64_ltb b a then a else if sign_bit a then b else a.

(** int(x): the integer part. Out of range the result is that of amd64's
    conversion. *)
Definition f64_trunc (x : f64) : option Z :=
  match x with
  | S754_zero _ => Some 0
  | S754_finite s m e =>
    let v := if 0 <=? e then Z.shiftl (Zpos m) e else Z.shiftr (Zpos m) (- e) in Some (if s then - v else v)
  | _ => None
  end.
Definition f64_to_int (x : f64) : Z :=
  match f64_trunc x with
  | Some v => if (- 2 ^ 63 <=? v) && (v <? 2 ^ 63) then v else - 2 ^ 63
  | None => - 2 ^ 63
  end.

(** * The order *)

Definition f64_key (x : f64) : Z * Z * Z :=
  match x with
  | S754_infinity true => (-2, 0, 0)
  | S754_finite true m e => (-1, - e, - Zpos m)
  | S754_zero _ => (0, 0, 0)
  | S754_finite false m e => (1, e, Zpos m)
  | S754_infinity false => (2, 0, 0)
  | S754_nan => (0, 0, 0)
  end.
Definition key_lt (a b : Z * Z * Z) : Prop :=
  let '(a1, a2, a3) := a in let '(b1, b2, b3) := b in
  a1 < b1 \/ (a1 = b1 /\ (a2 < b2 \/ (a2 = b2 /\ a3 < b3))).

Lemma f64_ltb_key a b :
  f64_ltb a b = true <-> is_nan a = false /\ is_nan b = false /\ key_lt (f64_key a) (f64_key b).
Proof.
  unfold f64_ltb, SFltb, SFcompare, key_lt, f64_key.
  destruct a as [sa|[]| |[] ma ea], b as [sb|[]| |[] mb eb]; cbn [is_nan];
    try (split; [intros H|intros (H1 & H2 & H)]; try done; try lia; repeat split; lia).
  - destruct (Z.compare_spec ea eb) as [->|H|H].
    + change (Pos.compare_cont Eq ma mb) with (Pos.compare ma mb). destruct (Pos.compare_spec ma mb) as [->|H|H]; cbn;
        (split; [intros H'|intros (H1 & H2 & H')]; try done; try lia; repeat split; lia).
    + split; [done|intros (_ & _ & H'); lia].
    + split; [intros _; repeat split; lia|done].
  - destruct (Z.compare_spec ea eb) as [->|H|H].
    + change (Pos.compare_cont Eq ma mb) with (Pos.compare ma mb). destruct (Pos.compare_spec ma mb) as [->|H|H]; cbn;
        (split; [intros H'|intros (H1 & H2 & H')]; try done; try lia; repeat split; lia).
    + split; [intros _; repeat split; lia|done].
    + split; [done|intros (_ & _ & H'); lia].
Qed.

Lemma f64_ltb_irrefl a : f64_ltb a a = false.
Proof.
  destruct (f64_ltb a a) eqn:H; [|done]. apply f64_ltb_key in H as (_ & _ & H).
  destruct (f64_key a) as [[]]. unfold key_lt in H. lia.
Qed.

Lemma f64_ltb_trans a b c : f64_ltb a b = true -> f64_ltb b c = true -> f64_ltb a c = true.
Proof.
  rewrite !f64_ltb_key. intros (H1 & H2 & H) (_ & H4 & H'). split; [done|split; [done|]].
  destruct (f64_key a) as [[]], (f64_key b) as [[]], (f64_key c) as [[]]. unfold key_lt in *. lia.
Qed.

(** What lies strictly below is below what is not below. *)
Lemma f64_ltb_not_below a b c :
  is_nan c = false -> f64_ltb a b = true -> f64_ltb c b = false -> f64_ltb a c = true.
Proof.
  intros Hc Hab Hcb. apply f64_ltb_key in Hab as (Ha & Hb & Hk). apply f64_ltb_key.
  split; [done|split; [done|]].
  assert (~ key_lt (f64_key c) (f64_key b)) as Hn by (intros Hk'; rewrite (proj2 (f64_ltb_key c b)) in Hcb by done; done).
  destruct (f64_key a) as [[]], (f64_key b) as [[]], (f64_key c) as [[]]. unfold key_lt in *. lia.
Qed.

Lemma f64_ltb_nan a b : f64_ltb a b = true -> is_nan a = false /\ is_nan b = false.
Proof. rewrite f64_ltb_key. tauto. Qed.
