(* ===== verification/DnsDial.v ===== *)
(** * The caching dialer

    dnscache.go: the settings, the dial function over the cached addresses of a
    host, and dialParallel, which races several addresses, as a machine of its
    goroutines and its receiver. parse_duration.go.

    The resolver, the dialer and the two number parsers of the standard library
    are arguments; the outcome of each dial is chosen by the run. *)

From Stdlib Require Import ZArith Lia String SpecFloat.
From stdpp Require Import base strings list sets.
From S2P Require Import Prelude.
From S2P Require Import GoStrings.
From S2P Require Import Float.
Open Scope list_scope.
Open Scope Z_scope.

(** * Settings *)

Definition second : Z := 1000000000.

Section Durations.
(** time.ParseDuration and strconv.ParseFloat; [None] is an error. *)
Context (ParseDuration : string -> option Z) (ParseFloat : string -> option f64).

Definition parseDuration (s : string) : option Z :=
  match ParseDuration s with
  | Some d => Some d
  | None =>
    match Atoi s with
    | Some secs => Some (wrap64 (secs * second))
    | None => match ParseFloat s with Some f => Some (f64_to_int (f64_mul f (f64_of_Z second))) | None => None end
    end
  end.

Definition defaultDNSCacheRefresh : Z := 60 * second.
Definition defaultDNSDialTimeout : Z := 30 * second.
Definition defaultDNSKeepAlive : Z := 30 * second.
Definition defaultDNSTimeout : Z := 10 * second.

(** The configured value, unless the environment has one that parses. *)
Definition env_duration (envVal : option string) (cfg : Z) : Z :=
  match envVal with
  | Some v => if String.eqb v "" then cfg else default cfg (parseDuration v)
  | None => cfg
  end.

Definition resolveDNSCacheRefresh (envVal : option string) (cfg : Z) : Z :=
  let refresh := env_duration envVal cfg in
  if refresh =? 0 then defaultDNSCacheRefresh else if refresh <? 0 then 0 else refresh.
Definition resolveDNSDialTimeout (envVal : option string) (cfg : Z) : Z :=
  let timeout := env_duration envVal cfg in
  if timeout =? 0 then defaultDNSDialTimeout else if timeout <? 0 then 0 else timeout.
Definition resolveDNSKeepAlive (envVal : option string) (cfg : Z) : Z :=
  let keepAlive := env_duration envVal cfg in
  if keepAlive =? 0 then defaultDNSKeepAlive else if keepAlive <? 0 then -1 else keepAlive.
Definition resolveDNSTimeout (envVal : option string) (cfg : Z) : Z :=
  let timeout := env_duration envVal cfg in
  if timeout =? 0 then defaultDNSTimeout else if timeout <? 0 then 0 else timeout.

Record dnsCacheSettings := MkDns { dns_refresh : Z; dns_dialTimeout : Z; dns_keepAlive : Z; dns_dnsTimeout : Z }.
Definition resolveDNSCacheSettings (env1 env2 env3 env4 : option string) (refreshCfg dialTimeoutCfg keepAliveCfg dnsTimeoutCfg : Z) : dnsCacheSettings :=
  MkDns (resolveDNSCacheRefresh env1 refreshCfg) (resolveDNSDialTimeout env2 dialTimeoutCfg)
    (resolveDNSKeepAlive env3 keepAliveCfg) (resolveDNSTimeout env4 dnsTimeoutCfg).
End Durations.

(** * The addresses raced *)

Definition maxParallelDials : Z := 3.

Definition dial_count (len : nat) (maxDials : Z) : nat :=
  if (0 <? maxDials) && (maxDials <? Z.of_nat len) then Z.to_nat maxDials else len.
Definition dial_index (len offset i : nat) : nat := (offset + i) mod len.
Definition dialed {A} (ips : list A) (offset : nat) (maxDials : Z) : list A :=
  omap (fun i => ips !! dial_index (length ips) offset i) (seq 0 (dial_count (length ips) maxDials)).

(** What the dial function does with the answer of LookupHost: the counters of
    lookups and lookup errors, and the next action. [offset] is rand.IntN. *)
Inductive dial_action := LookupFailed | NoAddresses | DialOne (ip : string) | DialRace (ips : list string).
Definition dial_dns (lookup : option (list string)) (offset : nat) : Z * dial_action :=
  match lookup with
  | None => (1, LookupFailed)
  | Some [] => (1, NoAddresses)
  | Some [ip] => (0, DialOne ip)
  | Some ips => (0, DialRace (dialed ips offset maxParallelDials))
  end.

(** * The race *)

(** A goroutine dials, then offers its result ([true]: a connection), and either
    hands it over or gives up, closing its connection. *)
Inductive attempt := Dialing | Offering (ok : bool) | Delivered (ok : bool) | GaveUp (ok : bool).
(** The caller counts the errors received; [Won j] and [Failed] are returns. *)
Inductive receiver := Receiving (errs : list nat) | Won (j : nat) | Failed (errs : list nat).

(** [rc_done]: the context of the dials is cancelled, by the caller's context or
    by the deferred cancel of a return. *)
Record dial_race := MkRace { rc_attempts : list attempt; rc_receiver : receiver; rc_done : bool }.
Definition dialParallel (n : nat) : dial_race := MkRace (replicate n Dialing) (Receiving []) false.

Inductive dial_op := Finish (j : nat) (ok : bool) | Deliver (j : nat) | GiveUp (j : nat) | Cancel.

Definition set_attempt (j : nat) (a : attempt) (r : dial_race) : dial_race :=
  MkRace (<[j := a]> (rc_attempts r)) (rc_receiver r) (rc_done r).

(** The receive loop ends at the first connection, or after one error of each
    attempt; the return cancels the dials. *)
Definition received (j : nat) (ok : bool) (errs : list nat) (r : dial_race) : dial_race :=
  if ok then MkRace (rc_attempts r) (Won j) true
  else
    let errs := errs ++ [j] in
    if (length errs =? length (rc_attempts r))%nat then MkRace (rc_attempts r) (Failed errs) true
    else MkRace (rc_attempts r) (Receiving errs) (rc_done r).

Definition race_step (r : dial_race) (o : dial_op) : option dial_race :=
  match o with
  | Finish j ok => match rc_attempts r !! j with Some Dialing => Some (set_attempt j (Offering ok) r) | _ => None end
  | Deliver j =>
    match rc_attempts r !! j, rc_receiver r with
    | Some (Offering ok), Receiving errs => Some (received j ok errs (set_attempt j (Delivered ok) r))
    | _, _ => None
    end
  | GiveUp j =>
    match rc_attempts r !! j with
    | Some (Offering ok) => if rc_done r then Some (set_attempt j (GaveUp ok) r) else None
    | _ => None
    end
  | Cancel => Some (MkRace (rc_attempts r) (rc_receiver r) true)
  end.

Fixpoint race_run (ops : list dial_op) (r : dial_race) : option dial_race :=
  match ops with [] => Some r | o :: ops => r ← race_step r o; race_run ops r end.

(** The connections that were opened and neither closed nor returned. *)
Definition open_attempt (a : attempt) : bool := match a with Offering true => true | _ => false end.
Definition returned (r : dial_race) : option nat := match rc_receiver r with Won j => Some j | _ => None end.
(** Nothing but the caller's cancellation can happen any more. *)
Definition settled_attempt (a : attempt) : bool := match a with Delivered _ | GaveUp _ => true | _ => false end.
Definition finished (r : dial_race) : bool :=
  forallb settled_attempt (rc_attempts r) && match rc_receiver r with Receiving _ => false | _ => true end.
Definition cancels (ops : list dial_op) : bool := existsb (fun o => match o with Cancel => true | _ => false end) ops.

(** * Invariant *)

Definition is_delivered (ok : bool) (a : attempt) : nat := match a with Delivered b => if Bool.eqb b ok then 1 else 0 | _ => 0 end.
Definition has_gone (a : attempt) : nat := match a with GaveUp _ => 1 | _ => 0 end.
Definition delivered (ok : bool) (r : dial_race) : nat := sum_list_with (is_delivered ok) (rc_attempts r).
Definition gone (r : dial_race) : nat := sum_list_with has_gone (rc_attempts r).

(** The outcome of an attempt that has one. *)
Definition outcome (a : attempt) : option bool := match a with Dialing => None | Offering ok | Delivered ok | GaveUp ok => Some ok end.

Definition errors_of (r : dial_race) (errs : list nat) : Prop :=
  NoDup errs /\ length errs = delivered false r /\ forall j, j ∈ errs -> rc_attempts r !! j = Some (Delivered false).

Record race_inv (n : nat) (r : dial_race) : Prop := {
  ri_length : length (rc_attempts r) = n;
  ri_gone : (0 < gone r)%nat -> rc_done r = true;
  ri_receiver :
    match rc_receiver r with
    | Receiving errs => delivered true r = 0%nat /\ errors_of r errs /\ (length errs < n)%nat
    | Won j => delivered true r = 1%nat /\ rc_attempts r !! j = Some (Delivered true) /\ rc_done r = true
    | Failed errs => delivered true r = 0%nat /\ errors_of r errs /\ length errs = n /\ rc_done r = true
    end }.

Lemma race_inv_init n : (0 < n)%nat -> race_inv n (dialParallel n).
Proof.
  intros Hn. split; cbn [dialParallel rc_attempts rc_receiver rc_done].
  - apply length_replicate.
  - unfold gone. cbn [dialParallel rc_attempts]. rewrite sum_replicate. cbn. lia.
  - unfold errors_of, delivered. cbn [dialParallel rc_attempts]. rewrite !sum_replicate. cbn.
    split; [lia|]. split; [|done]. split; [constructor|]. split; [lia|]. intros j. by rewrite elem_of_nil.
Qed.

(** An attempt that has not delivered can move on without the receiver. *)
Lemma race_inv_set n r j a b :
  race_inv n r -> rc_attempts r !! j = Some a -> (forall ok, is_delivered ok a = 0%nat) -> (forall ok, is_delivered ok b = 0%nat) ->
  (has_gone b = 1%nat -> rc_done r = true) -> race_inv n (set_attempt j b r).
Proof.
  intros [Hl Hg Hr] Ha Hna Hnb Hgone. unfold set_attempt.
  assert (Hd : forall ok, delivered ok (MkRace (<[j := b]> (rc_attempts r)) (rc_receiver r) (rc_done r)) = delivered ok r).
  { intros ok. unfold delivered. cbn [rc_attempts]. pose proof (sum_insert (is_delivered ok) _ j a b Ha) as H. rewrite Hna, Hnb in H. lia. }
  assert (He : forall errs, errors_of r errs -> errors_of (MkRace (<[j := b]> (rc_attempts r)) (rc_receiver r) (rc_done r)) errs).
  { intros errs (H1 & H2 & H3). split; [done|]. rewrite Hd. split; [done|]. intros i Hi. cbn [rc_attempts].
    rewrite list_lookup_insert_ne; [by apply H3|]. intros <-. specialize (H3 _ Hi). rewrite Ha in H3. injection H3 as ->.
    by specialize (Hna false). }
  split; cbn [rc_attempts rc_receiver rc_done].
  - by rewrite length_insert.
  - unfold gone. cbn [rc_attempts]. pose proof (sum_insert has_gone _ j a b Ha) as H. intros Hpos. destruct (has_gone b) as [|[|k]] eqn:Hb.
    + apply Hg. unfold gone. lia.
    + by apply Hgone.
    + by destruct b.
  - rewrite !Hd. destruct (rc_receiver r) as [errs|i|errs].
    + destruct Hr as (? & ? & ?). eauto.
    + destruct Hr as (? & Hi & ?). split; [done|split; [|done]]. rewrite list_lookup_insert_ne; [done|]. intros <-. rewrite Ha in Hi.
      injection Hi as ->. by specialize (Hna true).
    + destruct Hr as (? & ? & ? & ?). eauto.
Qed.

Lemma race_inv_deliver n r j ok errs :
  race_inv n r -> rc_attempts r !! j = Some (Offering ok) -> rc_receiver r = Receiving errs ->
  race_inv n (received j ok errs (set_attempt j (Delivered ok) r)).
Proof.
  intros [Hl Hg Hr] Ha Hrec. rewrite Hrec in Hr. destruct Hr as (Ht & (Hnd & Hlen & Hin) & Hlt).
  pose proof (sum_insert (is_delivered true) _ j (Offering ok) (Delivered ok) Ha) as H1.
  pose proof (sum_insert (is_delivered false) _ j (Offering ok) (Delivered ok) Ha) as H2.
  pose proof (sum_insert has_gone _ j (Offering ok) (Delivered ok) Ha) as H3.
  assert (Hj : (j < length (rc_attempts r))%nat) by (by apply lookup_lt_Some in Ha).
  unfold delivered, gone in *. unfold received, set_attempt. cbn [rc_attempts rc_receiver rc_done]. destruct ok.
  - cbn in H1, H2, H3. split; cbn [rc_attempts rc_receiver rc_done].
    + by rewrite length_insert.
    + done.
    + unfold delivered. cbn [rc_attempts]. split; [lia|]. split; [by apply list_lookup_insert_eq|done].
  - cbn in H1, H2, H3. rewrite length_insert, length_app. cbn [length].
    assert (He : NoDup (errs ++ [j]) /\ length (errs ++ [j]) = sum_list_with (is_delivered false) (<[j := Delivered false]> (rc_attempts r))
      /\ forall i, i ∈ errs ++ [j] -> <[j := Delivered false]> (rc_attempts r) !! i = Some (Delivered false)).
    { assert (Hnj : j ∉ errs) by (intros Hin'; specialize (Hin _ Hin'); congruence).
      split; [apply NoDup_app; split; [done|]; split; [intros i Hi Hj'; apply list_elem_of_singleton in Hj' as ->; done|apply NoDup_singleton]|].
      split; [rewrite length_app; cbn [length]; lia|]. intros i Hi. apply elem_of_app in Hi as [Hi|Hi]; [|apply list_elem_of_singleton in Hi as ->; by apply list_lookup_insert_eq].
      rewrite list_lookup_insert_ne; [by apply Hin|]. intros <-. by apply Hnj. }
    destruct (Nat.eqb_spec (length errs + 1) (length (rc_attempts r))) as [E|E]; (split; cbn [rc_attempts rc_receiver rc_done]);
      unfold delivered, gone, errors_of; cbn [rc_attempts]; rewrite ?length_insert, ?length_app; cbn [length]; try done.
    + split; [lia|]. split; [by rewrite length_app in He|]. split; [lia|done].
    + intros Hpos. apply Hg. lia.
    + split; [lia|]. split; [by rewrite length_app in He|lia].
Qed.

Lemma race_inv_step n r o r' : race_inv n r -> race_step r o = Some r' -> race_inv n r'.
Proof.
  intros Hi. destruct o as [j ok|j|j|]; cbn [race_step].
  - destruct (rc_attempts r !! j) as [[]|] eqn:Ha; try done. intros [= <-]. by apply (race_inv_set n r j Dialing).
  - destruct (rc_attempts r !! j) as [[|ok| |]|] eqn:Ha; try done. destruct (rc_receiver r) as [errs| |] eqn:Hr; try done. intros [= <-].
    by apply race_inv_deliver.
  - destruct (rc_attempts r !! j) as [[|ok| |]|] eqn:Ha; try done. destruct (rc_done r) eqn:Hd; [|done]. intros [= <-].
    by apply (race_inv_set n r j (Offering ok)).
  - intros [= <-]. destruct Hi as [Hl Hg Hr]. split; [done|done|]. cbn [rc_receiver rc_attempts rc_done].
    unfold errors_of, delivered in *. cbn [rc_attempts]. destruct (rc_receiver r); tauto.
Qed.

Lemma race_run_inv (P : dial_race -> Prop) ops r r' :
  (forall r o r', P r -> race_step r o = Some r' -> P r') -> P r -> race_run ops r = Some r' -> P r'.
Proof.
  intros Hs. revert r. induction ops as [|o ops IH]; intros r Hr; cbn [race_run]; [by intros [= <-]|].
  destruct (race_step r o) as [r1|] eqn:E; cbn [mbind option_bind]; [|done]. apply IH. by apply (Hs r o).
Qed.

Lemma race_reachable n ops r : (0 < n)%nat -> race_run ops (dialParallel n) = Some r -> race_inv n r.
Proof. intros Hn. apply race_run_inv; [apply race_inv_step|by apply race_inv_init]. Qed.

(** * What a race returns *)

Lemma race_run_app ops1 ops2 r : race_run (ops1 ++ ops2) r = (r' ← race_run ops1 r; race_run ops2 r').
Proof.
  revert r. induction ops1 as [|o ops IH]; intros r; cbn [race_run app]; [done|].
  destruct (race_step r o); cbn [mbind option_bind]; [apply IH|done].
Qed.

(** The state of an attempt agrees with what its dial answered. *)
Definition agrees (ops : list dial_op) (r : dial_race) : Prop :=
  forall j a ok, rc_attempts r !! j = Some a -> (Finish j ok ∈ ops <-> outcome a = Some ok).

Lemma agrees_set ops o j b r :
  agrees ops r -> (forall ok, Finish j ok ∈ ops ++ [o] <-> outcome b = Some ok) -> (forall i ok, o = Finish i ok -> i = j) ->
  agrees (ops ++ [o]) (set_attempt j b r).
Proof.
  intros H Hb Ho i a ok. unfold set_attempt. cbn [rc_attempts]. destruct (decide (i = j)) as [->|Hne].
  - intros Ha. destruct (decide (j < length (rc_attempts r))%nat) as [Hj|Hj].
    + rewrite list_lookup_insert_eq in Ha by done. injection Ha as <-. apply Hb.
    + rewrite list_insert_ge in Ha by lia. apply lookup_lt_Some in Ha. lia.
  - rewrite list_lookup_insert_ne by done. intros Ha. rewrite <- (H i a ok Ha), elem_of_app, list_elem_of_singleton.
    split; [|by left]. intros [|<-]; [done|]. by specialize (Ho i ok eq_refl).
Qed.

(** A step of an attempt that keeps its outcome. *)
Lemma agrees_keep ops o j a b r :
  agrees ops r -> rc_attempts r !! j = Some a -> outcome b = outcome a -> (forall i ok, o <> Finish i ok) ->
  agrees (ops ++ [o]) (set_attempt j b r).
Proof.
  intros H Ha Hab Ho. apply agrees_set; [done| |intros i ok ->; by destruct (Ho i ok)].
  intros ok. rewrite elem_of_app, list_elem_of_singleton, Hab, <- (H j a ok Ha). split; [intros [|E]; [done|]; by destruct (Ho j ok)|by left].
Qed.

Lemma agrees_received ops j ok errs r : agrees ops r -> agrees ops (received j ok errs r).
Proof. unfold received, agrees. destruct ok; [done|]. by destruct (_ =? _)%nat. Qed.

Lemma race_agrees n ops r : race_run ops (dialParallel n) = Some r -> agrees ops r.
Proof.
  revert r. induction ops as [|o ops IH] using rev_ind; intros r.
  - intros [= <-] j a ok. cbn [dialParallel rc_attempts]. intros [-> _]%lookup_replicate. cbn [outcome]. by rewrite elem_of_nil.
  - rewrite race_run_app. destruct (race_run ops _) as [r1|]; cbn [mbind option_bind]; [|done]. specialize (IH r1 eq_refl).
    cbn [race_run]. destruct (race_step r1 o) as [r2|] eqn:Hs; cbn [mbind option_bind]; [|done]. intros [= <-].
    destruct o as [j ok|j|j|]; cbn [race_step] in Hs.
    + destruct (rc_attempts r1 !! j) as [[]|] eqn:Ha; try done. injection Hs as <-. apply agrees_set; [done| |by intros i ok' [= -> _]].
      intros ok'. rewrite elem_of_app, list_elem_of_singleton, (IH j Dialing ok' Ha). cbn [outcome].
      split; [by intros [|[= ->]]|intros [= ->]; by right].
    + destruct (rc_attempts r1 !! j) as [[|ok| |]|] eqn:Ha; try done. destruct (rc_receiver r1); try done. injection Hs as <-.
      apply agrees_received. by apply (agrees_keep ops _ j (Offering ok)).
    + destruct (rc_attempts r1 !! j) as [[|ok| |]|] eqn:Ha; try done. destruct (rc_done r1); [|done]. injection Hs as <-.
      by apply (agrees_keep ops _ j (Offering ok)).
    + injection Hs as <-. intros i a ok Hi. rewrite <- (IH i a ok Hi), elem_of_app, list_elem_of_singleton. split; [by intros [|]|by left].
Qed.

Lemma delivered_one r i j :
  delivered true r = 1%nat -> rc_attempts r !! i = Some (Delivered true) -> rc_attempts r !! j = Some (Delivered true) -> i = j.
Proof.
  intros H Hi Hj. destruct (decide (i = j)) as [|Hne]; [done|]. exfalso.
  pose proof (sum_insert (is_delivered true) _ i _ Dialing Hi) as Hs. cbn [is_delivered Bool.eqb] in Hs.
  assert (Hj' : <[i := Dialing]> (rc_attempts r) !! j = Some (Delivered true)) by (by rewrite list_lookup_insert_ne).
  pose proof (sum_ge (is_delivered true) _ _ _ Hj') as Hg. cbn [is_delivered Bool.eqb] in Hg. unfold delivered in H. lia.
Qed.

Lemma dial_race_errors n ops r errs :
  (0 < n)%nat -> race_run ops (dialParallel n) = Some r -> rc_receiver r = Failed errs ->
  errs ≡ₚ seq 0 n /\ forall j, (j < n)%nat -> Finish j false ∈ ops.
Proof.
  intros Hn Hrun He. pose proof (race_reachable n ops r Hn Hrun) as [Hl Hg Hr]. pose proof (race_agrees n ops r Hrun) as Ha.
  rewrite He in Hr. destruct Hr as (_ & (Hnd & Hlen & Hin) & Hn' & _).
  assert (Hp : errs ≡ₚ seq 0 n).
  { apply submseteq_length_Permutation; [|rewrite length_seq; lia]. apply NoDup_submseteq; [done|]. intros j Hj.
    apply Hin, lookup_lt_Some in Hj. apply elem_of_seq. lia. }
  split; [done|]. intros j Hj. assert (Hje : j ∈ errs) by (rewrite Hp; apply elem_of_seq; lia). by apply (Ha j _ false (Hin j Hje)).
Qed.

(** C27: The connection that dialParallel returns is the only one left open: in every
    interleaving of the dials, the receiver and the caller's cancellation, a
    connection that was opened is the one returned, is closed, or waits in the
    select of its goroutine, and when the goroutines have ended none waits. It
    returns errors only when every address has failed, one error for each. *)
Theorem dial_race_no_leak (n : nat) (ops : list dial_op) (r : dial_race) :
  (0 < n)%nat -> race_run ops (dialParallel n) = Some r ->
  (forall j, Finish j true ∈ ops -> (j < n)%nat ->
     returned r = Some j \/ rc_attempts r !! j = Some (GaveUp true) \/ rc_attempts r !! j = Some (Offering true))
  /\ (forall j, returned r = Some j -> Finish j true ∈ ops /\ rc_attempts r !! j = Some (Delivered true))
  /\ (finished r = true -> forall a, a ∈ rc_attempts r -> open_attempt a = false)
  /\ (forall errs, rc_receiver r = Failed errs -> errs ≡ₚ seq 0 n /\ forall j, (j < n)%nat -> Finish j false ∈ ops).
Proof.
  intros Hn Hrun. pose proof (race_reachable n ops r Hn Hrun) as [Hl Hg Hr]. pose proof (race_agrees n ops r Hrun) as Ha.
  assert (Hat : forall j, (j < n)%nat -> exists a, rc_attempts r !! j = Some a) by (intros j Hj; apply lookup_lt_is_Some; lia).
  split; [|split; [|split]].
  - intros j Hj Hlt. destruct (Hat j Hlt) as [a Hja]. apply (Ha j a true Hja) in Hj. destruct a as [|ok|ok|ok]; cbn [outcome] in Hj; simplify_eq; [by right; right| |by right; left].
    left. unfold returned. pose proof (sum_ge (is_delivered true) _ _ _ Hja) as Hs. cbn [is_delivered Bool.eqb] in Hs.
    destruct (rc_receiver r) as [errs|i|errs]; destruct Hr as (H0 & H1); unfold delivered in H0; try lia. f_equal. apply (delivered_one r); [done|apply H1|done].
  - intros j. unfold returned. destruct (rc_receiver r) as [errs|i|errs]; try done. destruct Hr as (_ & Hi & _). intros [= <-].
    split; [|done]. by apply (Ha i _ true Hi).
  - unfold finished. intros [Hf _]%andb_prop a Hin. rewrite forallb_forall in Hf. specialize (Hf a). rewrite <- list_elem_of_In in Hf.
    by destruct a; specialize (Hf Hin).
  - intros errs He. by apply (dial_race_errors n ops r errs).
Qed.

(** Nothing more can happen but a cancellation by the caller. *)
Definition stuck (r : dial_race) : Prop := forall o, o <> Cancel -> race_step r o = None.

Definition steps_left (a : attempt) : nat := match a with Dialing => 2 | Offering _ => 1 | _ => 0 end.
Definition race_work (r : dial_race) : nat := sum_list_with steps_left (rc_attempts r).

Lemma race_work_step r o r' : o <> Cancel -> race_step r o = Some r' -> race_work r = S (race_work r').
Proof.
  intros Ho. unfold race_work. destruct o as [j ok|j|j|]; cbn [race_step]; [| | |done].
  - destruct (rc_attempts r !! j) as [[]|] eqn:Ha; try done. intros [= <-]. pose proof (sum_insert steps_left _ j _ (Offering ok) Ha) as H.
    cbn in *. lia.
  - destruct (rc_attempts r !! j) as [[|ok| |]|] eqn:Ha; try done. destruct (rc_receiver r); try done. intros [= <-].
    pose proof (sum_insert steps_left _ j _ (Delivered ok) Ha) as H. cbn in H. unfold received. destruct ok; [cbn; lia|].
    destruct (_ =? _)%nat; cbn; lia.
  - destruct (rc_attempts r !! j) as [[|ok| |]|] eqn:Ha; try done. destruct (rc_done r); [|done]. intros [= <-].
    pose proof (sum_insert steps_left _ j _ (GaveUp ok) Ha) as H. cbn in *. lia.
Qed.

Lemma race_work_run ops r r' : cancels ops = false -> race_run ops r = Some r' -> (race_work r = length ops + race_work r')%nat.
Proof.
  revert r. induction ops as [|o ops IH]; intros r; cbn [race_run cancels existsb length]; [by intros _ [= ->]|].
  intros [Ho Hc]%orb_false_iff. destruct (race_step r o) as [r1|] eqn:Hs; cbn [mbind option_bind]; [|done].
  intros Hrun. rewrite (race_work_step r o r1 ltac:(intros ->; done) Hs). by rewrite (IH r1 Hc Hrun).
Qed.

(** Without a cancellation by the caller, the dials are cancelled by the return. *)
Lemma uncancelled ops n r :
  cancels ops = false -> race_run ops (dialParallel n) = Some r -> rc_done r = true -> match rc_receiver r with Receiving _ => False | _ => True end.
Proof.
  revert r. induction ops as [|o ops IH] using rev_ind; intros r; [by intros _ [= <-]|].
  rewrite race_run_app. unfold cancels. rewrite existsb_app. intros [Hc Ho]%orb_false_iff.
  destruct (race_run ops _) as [r1|]; cbn [mbind option_bind]; [|done]. specialize (IH r1 Hc eq_refl).
  cbn [race_run]. destruct (race_step r1 o) as [r2|] eqn:Hs; cbn [mbind option_bind]; [|done]. intros [= <-].
  destruct o as [j ok|j|j|]; cbn [race_step] in Hs; [| | |done].
  - destruct (rc_attempts r1 !! j) as [[]|]; try done. by injection Hs as <-.
  - destruct (rc_attempts r1 !! j) as [[|ok| |]|]; try done. destruct (rc_receiver r1) as [errs| |] eqn:Hrec; try done. injection Hs as <-.
    unfold received. destruct ok; [done|]. destruct (_ =? _)%nat; [done|]. cbn. exact IH.
  - destruct (rc_attempts r1 !! j) as [[|ok| |]|]; try done. destruct (rc_done r1); [|done]. injection Hs as <-. intros _. by apply IH.
Qed.

(** C26: dialParallel returns. Unless the caller cancels, a race of n addresses takes
    at most 2n steps in any order, and it can only stop when every goroutine has
    ended and dialParallel has returned: a connection that was opened, or the
    errors of all the addresses. *)
Theorem dial_race_returns (n : nat) (ops : list dial_op) (r : dial_race) :
  (0 < n)%nat -> cancels ops = false -> race_run ops (dialParallel n) = Some r ->
  (length ops <= 2 * n)%nat
  /\ (stuck r -> finished r = true /\
      match rc_receiver r with
      | Won j => Finish j true ∈ ops
      | Failed errs => forall j, (j < n)%nat -> Finish j false ∈ ops
      | Receiving _ => False
      end).
Proof.
  intros Hn Hc Hrun. split.
  { pose proof (race_work_run _ _ _ Hc Hrun) as H. unfold race_work in H at 1. cbn [dialParallel rc_attempts] in H. rewrite sum_replicate in H.
    cbn [steps_left] in H. lia. }
  intros Hst. pose proof (race_reachable n ops r Hn Hrun) as Hi. pose proof Hi as [Hl Hg Hr].
  pose proof (race_agrees n ops r Hrun) as Ha. pose proof (uncancelled ops n r Hc Hrun) as Hu.
  assert (Hd : forall j, rc_attempts r !! j <> Some Dialing).
  { intros j Hj. specialize (Hst (Finish j true) ltac:(done)). cbn [race_step] in Hst. by rewrite Hj in Hst. }
  assert (Hnot : match rc_receiver r with Receiving _ => False | _ => True end).
  { destruct (rc_receiver r) as [errs|i|errs] eqn:Hrec; [|done|done]. destruct Hr as (H0 & (_ & Hlen & _) & Hlt).
    destruct (sum_below_length (is_delivered false) (rc_attempts r)) as (j & a & Hj & Hz); [unfold delivered in Hlen; lia|].
    destruct a as [|ok|ok|ok]; [by apply (Hd j)| | |].
    - specialize (Hst (Deliver j) ltac:(done)). cbn [race_step] in Hst. by rewrite Hj, Hrec in Hst.
    - destruct ok; [|done]. pose proof (sum_ge (is_delivered true) _ _ _ Hj) as H1. cbn in H1. unfold delivered in H0. lia.
    - apply Hu, Hg. pose proof (sum_ge has_gone _ _ _ Hj) as H1. cbn in H1. unfold gone. lia. }
  assert (Hdone : rc_done r = true) by (destruct (rc_receiver r); [done|apply Hr|apply Hr]).
  split.
  - unfold finished. apply andb_true_iff. split; [|by destruct (rc_receiver r)]. apply forallb_forall. intros a Hin.
    apply list_elem_of_In, list_elem_of_lookup in Hin as [j Hj]. destruct a as [|ok|ok|ok]; [by destruct (Hd j)| |done|done].
    specialize (Hst (GiveUp j) ltac:(done)). cbn [race_step] in Hst. by rewrite Hj, Hdone in Hst.
  - destruct (rc_receiver r) as [errs|i|errs] eqn:Hrec; [done| |].
    + destruct Hr as (_ & Hj & _). by apply (Ha i _ true Hj).
    + by apply (dial_race_errors n ops r errs).
Qed.

(** * Cancellation by the caller *)

Lemma gone_step r o r' : race_step r o = Some r' -> (gone r <= gone r')%nat.
Proof.
  unfold gone. destruct o as [j ok|j|j|]; cbn [race_step]; [| | |by intros [= <-]].
  - destruct (rc_attempts r !! j) as [[]|] eqn:Ha; try done. intros [= <-]. pose proof (sum_insert has_gone _ j _ (Offering ok) Ha) as H. cbn in *. lia.
  - destruct (rc_attempts r !! j) as [[|ok| |]|] eqn:Ha; try done. destruct (rc_receiver r); try done. intros [= <-].
    pose proof (sum_insert has_gone _ j _ (Delivered ok) Ha) as H. cbn in H. unfold received. destruct ok; [cbn; lia|]. destruct (_ =? _)%nat; cbn; lia.
  - destruct (rc_attempts r !! j) as [[|ok| |]|] eqn:Ha; try done. destruct (rc_done r); [|done]. intros [= <-].
    pose proof (sum_insert has_gone _ j _ (GaveUp ok) Ha) as H. cbn in *. lia.
Qed.

Lemma gave_up_never_fails n r errs : race_inv n r -> (0 < gone r)%nat -> rc_receiver r <> Failed errs.
Proof.
  intros [Hl _ Hr] Hg Hf. rewrite Hf in Hr. destruct Hr as (_ & (_ & Hlen & _) & Hn & _).
  pose proof (sum_disjoint (is_delivered false) has_gone (rc_attempts r)) as H. unfold delivered, gone in *.
  assert (Hx : forall a, (is_delivered false a + has_gone a <= 1)%nat) by (by intros [|[]|[]|[]]; cbn; lia). specialize (H Hx). lia.
Qed.

Lemma give_up_all gone_ones n :
  exists ops r, race_run ops (MkRace (replicate gone_ones (GaveUp false) ++ replicate n Dialing) (Receiving []) true) = Some r
    /\ rc_receiver r = Receiving [] /\ rc_attempts r = replicate (gone_ones + n) (GaveUp false).
Proof.
  revert gone_ones. induction n as [|n IH]; intros k.
  - exists [], (MkRace (replicate k (GaveUp false) ++ []) (Receiving []) true). cbn. rewrite app_nil_r, Nat.add_0_r. done.
  - destruct (IH (S k)) as (ops & r & Hrun & Hr & Ha). exists (Finish k false :: GiveUp k :: ops), r.
    assert (Hk : forall (a b : attempt) l, <[k := b]> (replicate k (GaveUp false) ++ a :: l) = replicate k (GaveUp false) ++ b :: l).
    { intros a b l. rewrite insert_app_r_alt by (by rewrite length_replicate). by rewrite length_replicate, Nat.sub_diag. }
    assert (Hat : forall a l, (replicate k (GaveUp false) ++ a :: l) !! k = Some a).
    { intros a l. rewrite lookup_app_r by (by rewrite length_replicate). by rewrite length_replicate, Nat.sub_diag. }
    set (at_ a := MkRace (replicate k (GaveUp false) ++ a :: replicate n Dialing) (Receiving []) true).
    assert (H1 : race_step (at_ Dialing) (Finish k false) = Some (at_ (Offering false))).
    { unfold at_, race_step, set_attempt. cbn [rc_attempts rc_receiver rc_done]. by rewrite Hat, Hk. }
    assert (H2 : race_step (at_ (Offering false)) (GiveUp k) = Some (at_ (GaveUp false))).
    { unfold at_, race_step, set_attempt. cbn [rc_attempts rc_receiver rc_done]. by rewrite Hat, Hk. }
    change (MkRace (replicate k (GaveUp false) ++ replicate (S n) Dialing) (Receiving []) true) with (at_ Dialing).
    cbn [race_run]. rewrite H1. cbn [mbind option_bind]. rewrite H2. cbn [mbind option_bind].
    split; [|split; [done|by rewrite Ha, Nat.add_succ_comm]]. rewrite <- Hrun. unfold at_.
    change (replicate (S k) (GaveUp false)) with (GaveUp false :: replicate k (GaveUp false)).
    by rewrite (replicate_cons_app k), <- (assoc_L (++)).
Qed.

(** A caller that cancels can wait for ever. When the caller's context is
    cancelled, a goroutine whose dial has ended can take the branch of its select
    that drops the result while the receiver waits for it. From then on
    dialParallel does not return an error in any continuation; and for every number
    of addresses there is a run in which all the dials have ended, nothing can
    happen any more, and the receiver still waits. *)
Theorem dial_cancel_hangs (n : nat) :
  (0 < n)%nat ->
  (forall ops r ops' r' errs, race_run ops (dialParallel n) = Some r -> (0 < gone r)%nat -> race_run ops' r = Some r' -> rc_receiver r' <> Failed errs)
  /\ exists ops r, race_run ops (dialParallel n) = Some r /\ rc_receiver r = Receiving [] /\ stuck r
       /\ forall a, a ∈ rc_attempts r -> settled_attempt a = true.
Proof.
  intros Hn. split.
  - intros ops r ops' r' errs Hrun Hg Hrun'. pose proof (race_reachable n ops r Hn Hrun) as Hi.
    assert (H : race_inv n r' /\ (0 < gone r')%nat).
    { revert Hrun'. apply (race_run_inv (fun r => race_inv n r /\ (0 < gone r)%nat)); [|done]. intros r1 o r2 [H1 H2] Hs.
      split; [by apply (race_inv_step n r1 o)|]. pose proof (gone_step r1 o r2 Hs). lia. }
    destruct H as [H1 H2]. by apply (gave_up_never_fails n).
  - destruct (give_up_all 0 n) as (ops & r & Hrun & Hr & Ha). exists (Cancel :: ops), r. split; [exact Hrun|]. split; [done|].
    assert (Hall : forall j a, rc_attempts r !! j = Some a -> a = GaveUp false) by (intros j a; rewrite Ha; by intros [-> _]%lookup_replicate).
    split.
    + intros [j ok|j|j|] Ho; cbn [race_step]; [| | |done]; by destruct (rc_attempts r !! j) as [a|] eqn:Hj; [rewrite (Hall j a Hj)|].
    + intros a [j Hj]%list_elem_of_lookup. by rewrite (Hall j a Hj).
Qed.

(** * The addresses *)

(** At most maxDials addresses are raced, at different places of the list. *)
Lemma dial_index_inj len offset i j :
  (i < len)%nat -> (j < len)%nat -> dial_index len offset i = dial_index len offset j -> i = j.
Proof.
  unfold dial_index. intros Hi Hj H.
  pose proof (Nat.div_mod_eq (offset + i) len). pose proof (Nat.div_mod_eq (offset + j) len).
  assert ((offset + i) / len = (offset + j) / len \/ (offset + i) / len < (offset + j) / len \/ (offset + j) / len < (offset + i) / len)%nat by lia. nia.
Qed.

Lemma dialed_length {A} (ips : list A) offset maxDials :
  length (dialed ips offset maxDials) = dial_count (length ips) maxDials
  /\ (0 < maxDials -> (dial_count (length ips) maxDials <= Z.to_nat maxDials)%nat)
  /\ (0 < length ips -> 0 < dial_count (length ips) maxDials)%nat.
Proof.
  split; [|split].
  - unfold dialed. set (n := dial_count (length ips) maxDials).
    assert (Hall : forall l, (forall i, i ∈ l -> (i < length ips)%nat) ->
      length (omap (fun i => ips !! dial_index (length ips) offset i) l) = length l).
    { induction l as [|i l IH]; intros Hl; [done|]. cbn [omap list_omap].
      assert (Hi : (dial_index (length ips) offset i < length ips)%nat).
      { unfold dial_index. apply Nat.mod_upper_bound. specialize (Hl i ltac:(set_solver)). lia. }
      destruct (lookup_lt_is_Some_2 _ _ Hi) as [ip ->]. cbn [length]. rewrite IH; [done|]. intros j Hj. apply Hl. set_solver. }
    rewrite Hall, length_seq; [done|]. intros i [_ Hi]%elem_of_seq. unfold n, dial_count in Hi.
    destruct ((0 <? maxDials) && (maxDials <? Z.of_nat (length ips))) eqn:E; lia.
  - intros H. unfold dial_count. destruct ((0 <? maxDials) && (maxDials <? Z.of_nat (length ips))) eqn:E; lia.
  - unfold dial_count. destruct ((0 <? maxDials) && (maxDials <? Z.of_nat (length ips))) eqn:E; lia.
Qed.

Lemma NoDup_omap_inj {A B} (f : A -> option B) l :
  NoDup l -> (forall i j y, i ∈ l -> j ∈ l -> f i = Some y -> f j = Some y -> i = j) -> NoDup (omap f l).
Proof.
  induction 1 as [|i l Hi Hl IH]; intros Hf; [constructor|]. cbn [omap list_omap].
  assert (IH' : NoDup (omap f l)) by (apply IH; intros a b y Ha Hb; apply Hf; set_solver).
  destruct (f i) as [y|] eqn:E; [|done]. constructor; [|done]. intros (j & Hj & Hy)%list_elem_of_omap.
  apply Hi. by rewrite (Hf i j y ltac:(set_solver) ltac:(set_solver) E Hy).
Qed.

Lemma dialed_distinct {A} (ips : list A) offset maxDials : NoDup ips -> NoDup (dialed ips offset maxDials).
Proof.
  intros Hnd. unfold dialed. apply NoDup_omap_inj; [apply NoDup_seq|]. intros i j ip Hi Hj Hx Hy.
  assert (Hlt : forall i, i ∈ seq 0 (dial_count (length ips) maxDials) -> (i < length ips)%nat).
  { intros x [_ H]%elem_of_seq. unfold dial_count in H. destruct ((0 <? maxDials) && (maxDials <? Z.of_nat (length ips))) eqn:E; lia. }
  apply (dial_index_inj (length ips) offset); [by apply Hlt|by apply Hlt|]. by apply (NoDup_lookup ips _ _ ip).
Qed.

(** * Witnesses *)

(** Three addresses: the second fails, the third wins, the first is closed. *)
Definition ex_race : list dial_op := [Finish 1 false; Deliver 1; Finish 2 true; Finish 0 true; Deliver 2; GiveUp 0].
Definition ex_raced : dial_race := default (dialParallel 3) (race_run ex_race (dialParallel 3)).

Lemma dial_race_no_leak_witness :
  returned ex_raced = Some 2%nat /\ (returned ex_raced = Some 0%nat \/ rc_attempts ex_raced !! 0%nat = Some (GaveUp true)
    \/ rc_attempts ex_raced !! 0%nat = Some (Offering true)).
Proof.
  split; [vm_compute; reflexivity|].
  destruct (dial_race_no_leak 3 ex_race ex_raced) as (H & _); [lia|vm_compute; reflexivity|].
  apply H; [unfold ex_race; set_solver|lia].
Defined.

Lemma dial_race_returns_witness :
  (length ex_race <= 2 * 3)%nat /\ (stuck ex_raced -> finished ex_raced = true).
Proof.
  destruct (dial_race_returns 3 ex_race ex_raced) as (H1 & H2); [lia|vm_compute; reflexivity|vm_compute; reflexivity|].
  split; [exact H1|]. intros Hs. exact (proj1 (H2 Hs)).
Defined.

Lemma dial_cancel_hangs_witness :
  exists ops r, race_run ops (dialParallel 2) = Some r /\ rc_receiver r = Receiving [] /\ stuck r.
Proof.
  destruct (dial_cancel_hangs 2) as (_ & ops & r & H1 & H2 & H3 & _); [lia|]. exists ops, r. split; [exact H1|split; [exact H2|exact H3]].
Defined.
