(* ===== verification/ErrMask.v ===== *)
(** * The error mask

    Package errmask: the bit field of partial failures a caller tolerates, its
    text form and its parser, with [resolveErrorMask] of opensearchapi/api.go,
    which applies the environment variable. A mask is the Z of its uint32. *)

From Stdlib Require Import Ascii String.
From stdpp Require Import base list strings.
From Stdlib Require Import ZArith Lia.
From S2P Require Import Prelude.
From S2P Require Import GoStrings.
Open Scope Z_scope.

(** * Definitions *)

Definition New (bits : list Z) : Z := foldl Z.lor 0 bits.

Definition BulkItems : Z := Z.shiftl 1 0.
Definition SearchShards : Z := Z.shiftl 1 1.
Definition WriteShards : Z := Z.shiftl 1 2.
Definition BroadcastShards : Z := Z.shiftl 1 3.
Definition NodeFailures : Z := Z.shiftl 1 4.
Definition BulkByScrollFailures : Z := Z.shiftl 1 5.
Definition TaskFailures : Z := Z.shiftl 1 6.
Definition MultiSearchItems : Z := Z.shiftl 1 7.
Definition MultiDocItems : Z := Z.shiftl 1 8.
Definition SnapshotCreateShardFailures : Z := Z.shiftl 1 9.
Definition SnapshotGetShardFailures : Z := Z.shiftl 1 10.
Definition SimulateDocFailures : Z := Z.shiftl 1 11.
Definition RankEvalFailures : Z := Z.shiftl 1 12.
Definition IngestionShardFailures : Z := Z.shiftl 1 13.
Definition PitNodeFailures : Z := Z.shiftl 1 14.

Definition Empty : Z := 0.

Definition All : Z :=
  foldl Z.lor 0 [BulkItems; SearchShards; WriteShards; BroadcastShards; NodeFailures; BulkByScrollFailures;
    TaskFailures; MultiSearchItems; MultiDocItems; SnapshotCreateShardFailures; SnapshotGetShardFailures;
    SimulateDocFailures; RankEvalFailures; IngestionShardFailures; PitNodeFailures].

Definition TokenAll : string := "all".
Definition TokenEmpty : string := "empty".
Definition TokenNone : string := "none".
Definition TokenUnknown : string := "unknown".
Definition PrefixSet : ascii := "+".
Definition PrefixClear : ascii := "-".

Definition tokenOrder : list (Z * string) := [
  (BulkItems, "bulk_items");
  (SearchShards, "search_shards");
  (WriteShards, "write_shards");
  (BroadcastShards, "broadcast_shards");
  (NodeFailures, "node_failures");
  (BulkByScrollFailures, "bulk_by_scroll_failures");
  (TaskFailures, "task_failures");
  (MultiSearchItems, "multi_search_items");
  (MultiDocItems, "multi_doc_items");
  (SnapshotCreateShardFailures, "snapshot_create_shard_failures");
  (SnapshotGetShardFailures, "snapshot_get_shard_failures");
  (SimulateDocFailures, "simulate_doc_failures");
  (RankEvalFailures, "rank_eval_failures");
  (IngestionShardFailures, "ingestion_shard_failures");
  (PitNodeFailures, "pit_node_failures")].

Definition Has (m mask : Z) : bool := Z.land m mask =? mask.

Definition Mask_String (m : Z) : string :=
  if m =? Empty then TokenEmpty
  else String.concat "," (map snd (filter (fun e => Has m e.1) tokenOrder)).

(** The bit pattern of a name, whether it resets, whether it is known. *)
Definition nameToBit (name : string) : Z * bool * bool :=
  if decide (name = TokenAll) then (All, false, true)
  else if decide (name = TokenEmpty \/ name = TokenNone \/ name = TokenUnknown) then (0, true, true)
  else match List.find (fun e => bool_decide (name = e.2)) tokenOrder with
       | Some e => (e.1, false, true)
       | None => (0, false, false)
       end.

(** One turn of the loop of Parse. *)
Definition parse_token (raw : string) (st : Z * list string) : Z * list string :=
  let '(out, unknown) := st in
  match TrimSpace raw with
  | EmptyString => (out, unknown)
  | String c rest as tok =>
    let '(set, tok) :=
      if Ascii.eqb c PrefixSet then (true, rest) else if Ascii.eqb c PrefixClear then (false, rest) else (true, tok) in
    let '(bit, isReset, ok) := nameToBit tok in
    if negb ok then (out, unknown ++ [raw])
    else if isReset : bool then (Empty, unknown)
    else if set : bool then (Z.lor out bit, unknown)
    else (Z.ldiff out bit, unknown)
  end.

Definition Parse (s : string) (base : Z) : Z * list string :=
  if decide (s = "") then (base, [])
  else foldl (fun st raw => parse_token raw st) (base, []) (Split "," s).

(** opensearchapi: the configured mask and the environment variable. *)
Definition resolveErrorMask (errors : option Z) (env : option string) : Z :=
  let base := match errors with None => Empty | Some m => m end in
  match env with
  | Some v => if decide (v <> "") then (Parse v base).1 else base
  | None => base
  end.

(** * The text form *)

Definition categories (m : Z) : list (Z * string) := filter (fun e => Has m e.1) tokenOrder.

Lemma token_facts :
  Forall (fun e => TrimSpace e.2 = e.2 /\ str_has "," e.2 = false /\ nameToBit e.2 = (e.1, false, true) /\
                   match e.2 with String c _ => Ascii.eqb c PrefixSet = false /\ Ascii.eqb c PrefixClear = false | "" => False end)
    tokenOrder.
Proof. repeat constructor; vm_compute; reflexivity. Qed.

Lemma parse_token_set e st : e ∈ tokenOrder -> parse_token e.2 st = (Z.lor st.1 e.1, st.2).
Proof.
  intros He. pose proof token_facts as Hf. rewrite Forall_forall in Hf. destruct (Hf e He) as (Ht & _ & Hn & Hc).
  unfold parse_token. rewrite Ht. destruct st as [out unk]. destruct (e.2) as [|c r]; [done|].
  destruct Hc as [-> ->]. rewrite Hn. done.
Qed.

Lemma parse_tokens l st :
  (forall e, e ∈ l -> e ∈ tokenOrder) ->
  foldl (fun st raw => parse_token raw st) st (map snd l) = (foldl Z.lor st.1 (map fst l), st.2).
Proof.
  revert st. induction l as [|e l IH]; intros st Hl; simpl; [destruct st; done|].
  rewrite parse_token_set by (apply Hl; left). rewrite IH; [done|]. intros x Hx. apply Hl. by right.
Qed.

Lemma foldl_lor_testbit l a i : Z.testbit (foldl Z.lor a l) i = Z.testbit a i || existsb (fun b => Z.testbit b i) l.
Proof.
  revert a. induction l as [|b l IH]; intros a; simpl; [rewrite orb_false_r; done|].
  rewrite IH, Z.lor_spec, orb_assoc. done.
Qed.

Lemma token_bits : map fst tokenOrder = (fun k => Z.shiftl 1 (Z.of_nat k)) <$> seq 0 15.
Proof. reflexivity. Qed.

Lemma Has_bit m k : 0 <= k -> Has m (Z.shiftl 1 k) = Z.testbit m k.
Proof.
  intros Hk. unfold Has. rewrite Z.shiftl_1_l. destruct (Z.testbit m k) eqn:Ht.
  - apply Z.eqb_eq, Z.bits_inj'. intros i Hi. rewrite Z.land_spec, Z.pow2_bits_eqb by lia. destruct (Z.eqb_spec k i); subst; simpl; [rewrite Ht; done|].
    apply andb_false_r.
  - apply Z.eqb_neq. intros E. apply (f_equal (fun z => Z.testbit z k)) in E.
    rewrite Z.land_spec, Ht, Z.pow2_bits_true in E by lia. done.
Qed.

(** The categories a mask names are its bits. *)
Lemma categories_mask m : foldl Z.lor 0 (map fst (categories m)) = Z.land m All.
Proof.
  apply Z.bits_inj'. intros i Hi. rewrite foldl_lor_testbit, Z.land_spec, Z.bits_0. simpl (false || _).
  assert (Hall : Z.testbit All i = (i <? 15)).
  { change All with (Z.ones 15). destruct (Z.ltb_spec i 15); [apply Z.ones_spec_low | apply Z.ones_spec_high]; lia. }
  rewrite Hall. apply eq_iff_eq_true. rewrite existsb_exists, andb_true_iff, Z.ltb_lt. split.
  - intros (b & (e & <- & He)%in_map_iff & Hb). apply list_elem_of_In, list_elem_of_filter in He as [Hm He].
    assert (Hin : e.1 ∈ map fst tokenOrder) by (apply list_elem_of_In, in_map, list_elem_of_In, He).
    rewrite token_bits in Hin. apply list_elem_of_fmap in Hin as (k & Ek & Hk%elem_of_seq). rewrite Ek in Hm, Hb.
    apply Is_true_true in Hm. rewrite Has_bit in Hm by lia.
    rewrite Z.shiftl_1_l, Z.pow2_bits_eqb in Hb by lia. apply Z.eqb_eq in Hb. subst i. split; [done | lia].
  - intros [Hm Hlt]. assert (Hin : Z.shiftl 1 i ∈ map fst tokenOrder).
    { rewrite token_bits. apply list_elem_of_fmap. exists (Z.to_nat i). rewrite Z2Nat.id, elem_of_seq by lia.
      split; [done | lia]. }
    apply list_elem_of_In, in_map_iff in Hin as (e & Ee & He). exists (Z.shiftl 1 i). split.
    + apply in_map_iff. exists e. split; [done|]. apply list_elem_of_In, list_elem_of_filter. split; [|by apply list_elem_of_In].
      rewrite Ee, Has_bit by lia. by apply Is_true_true.
    + rewrite Z.shiftl_1_l, Z.pow2_bits_true by lia. done.
Qed.

Lemma lor_foldl l a b : foldl Z.lor (Z.lor a b) l = Z.lor a (foldl Z.lor b l).
Proof. revert b. induction l as [|c l IH]; intros b; simpl; [done|]. rewrite <- Z.lor_assoc, IH. done. Qed.

(** Parsing the text of a mask sets exactly its defined categories on any base, and reports nothing unknown; only the empty mask, whose text is a reset, ignores the base. On an empty base the round trip is the identity on the defined bits. *)
Theorem Parse_String m base :
  Parse (Mask_String m) base = ((if m =? 0 then 0 else Z.lor base (Z.land m All)), []) /\
  (Z.ldiff m All = 0 -> Parse (Mask_String m) Empty = (m, [])).
Proof.
  assert (Hmain : forall base, Parse (Mask_String m) base = ((if m =? 0 then 0 else Z.lor base (Z.land m All)), [])).
  { clear base. intros base. unfold Mask_String, Empty. destruct (Z.eqb_spec m 0) as [->|Hm]; [reflexivity|].
    fold (categories m). rewrite <- categories_mask.
    assert (Hin : forall e, e ∈ categories m -> e ∈ tokenOrder) by (intros e [_ He]%list_elem_of_filter; done).
    revert Hin. generalize (categories m) as cs. intros [|e l] Hin; [simpl; rewrite Z.lor_0_r; reflexivity|].
    pose proof token_facts as Hf. rewrite Forall_forall in Hf.
    set (toks := map snd (e :: l)).
    assert (Hs : Split "," (String.concat "," toks) = toks).
    { apply Split_concat; [done|]. apply Forall_forall. intros s (x & <- & Hx)%list_elem_of_In%in_map_iff.
      apply list_elem_of_In, Hin, Hf in Hx as (_ & Hc & _). done. }
    unfold Parse. rewrite decide_False; cycle 1.
    { intros E. rewrite E in Hs. injection Hs as Hs _. destruct (Hf e) as (_ & _ & _ & Hc); [apply Hin; left|].
      rewrite <- Hs in Hc. done. }
    rewrite Hs. unfold toks. rewrite parse_tokens by done. rewrite <- lor_foldl, Z.lor_0_r. done. }
  split; [done|]. intros Hd. rewrite Hmain. f_equal. destruct (Z.eqb_spec m 0) as [->|_]; [done|].
  rewrite Z.lor_0_l. apply Z.bits_inj'. intros i Hi. apply (f_equal (fun z => Z.testbit z i)) in Hd.
  rewrite Z.ldiff_spec, Z.bits_0 in Hd. rewrite Z.land_spec. destruct (Z.testbit m i), (Z.testbit All i); done.
Qed.

Lemma Parse_String_witness :
  Parse (Mask_String (New [SearchShards; MultiSearchItems])) Empty = (130, []).
Proof. apply (proj2 (Parse_String 130 Empty)). reflexivity. Defined.
