(* ===== verification/Atomic.v ===== *)
(** The retry loops of the lock-free code, once: load the word, compute what to
    store, compare-and-swap, start again when the swap lost a race.
    startWarmup, clearWarmup, tryWarmupSkip and decrementDrainingQuiescing are
    instances ([rmw_fun]); the theorems say that such a loop takes effect at a
    single instant, whatever the other goroutines do in between. *)

From stdpp Require Import base list.
From Stdlib Require Import ZArith Lia.
From S2P Require Import Prelude.

Open Scope Z_scope.

(** What one pass decides from the loaded word: return without storing, or try
    to store a new word. *)
Inductive rmw_decision (A : Type) :=
  | RmwReturn (a : A)
  | RmwStore (target : Z) (a : A).
Arguments RmwReturn {A} _.
Arguments RmwStore {A} _ _.

(** The loop's own program counter. *)
Inductive rmw_pc (A : Type) :=
  | RmwLoad
  | RmwCAS (raw target : Z) (a : A)
  | RmwDone (a : A).
Arguments RmwLoad {A}.
Arguments RmwCAS {A} _ _ _.
Arguments RmwDone {A} _.

(** The whole loop when nobody interferes: one pass. *)
Definition rmw_run {A} (f : Z -> rmw_decision A) (word : Z) : Z * A :=
  match f word with
  | RmwReturn a => (word, a)
  | RmwStore target a => (target, a)
  end.

Section Loop.
Context {A : Type} (f : Z -> rmw_decision A) (R : Z -> Z -> Prop).

Definition rmw_step (word : Z) (pc : rmw_pc A) : Z * rmw_pc A :=
  match pc with
  | RmwLoad =>
    match f word with
    | RmwReturn a => (word, RmwDone a)
    | RmwStore target a => (word, RmwCAS word target a)
    end
  | RmwCAS raw target a =>
    if word =? raw then (target, RmwDone a) else (word, RmwLoad)
  | RmwDone a => (word, RmwDone a)
  end.

(** An execution: [e] steps of the others and [t] of the loop; the
    loop's effect is the pair of words around its store, once it has
    happened. *)
Inductive rmw_exec : nat -> nat -> Z -> option (Z * Z) -> Z * rmw_pc A -> Prop :=
| rexec_start w : rmw_exec 0 0 w None (w, RmwLoad)
| rexec_env e t w0 eff w pc w' :
    rmw_exec e t w0 eff (w, pc) -> R w w' -> rmw_exec (S e) t w0 eff (w', pc)
| rexec_thread e t w0 eff w pc :
    rmw_exec e t w0 eff (w, pc) -> (forall a, pc <> RmwDone a) ->
    rmw_exec e (S t) w0
      (if decide ((rmw_step w pc).1 = w) then eff else Some (w, (rmw_step w pc).1))
      (rmw_step w pc).

(** The loop's store, if any, is exactly one pass of [f] applied to the word
    it replaces. *)
Lemma rmw_exec_effect e t w0 eff s :
  rmw_exec e t w0 eff s ->
  match s.2 with
  | RmwLoad => eff = None
  | RmwCAS raw target a => eff = None /\ f raw = RmwStore target a
  | RmwDone a =>
      match eff with
      | Some (w, w') => rmw_run f w = (w', a)
      | None => exists w, rmw_run f w = (w, a)
      end
  end.
Proof.
  induction 1 as [w | e t w0 eff w pc w' Hex IH Hr | e t w0 eff w pc Hex IH Hpc]; [done | done |].
  destruct pc as [| raw target a | a]; cbn in *; [| | by destruct (Hpc a)].
  - destruct (f w) as [a | target a] eqn:Hf; cbn; rewrite decide_True by done; subst eff.
    + exists w. unfold rmw_run. by rewrite Hf.
    + done.
  - destruct IH as [-> Hf]. destruct (Z.eqb_spec w raw) as [-> | Hne]; cbn.
    + case_decide as Hd; [exists raw; subst; unfold rmw_run; by rewrite Hf |].
      unfold rmw_run. by rewrite Hf.
    + by rewrite decide_True.
Qed.

Definition rmw_potential (s : Z * rmw_pc A) : nat :=
  match s.2 with
  | RmwDone _ => 0
  | RmwCAS raw _ _ => if decide (s.1 = raw) then 1 else 3
  | RmwLoad => 2
  end.

(** Lock freedom: every pass the loop repeats is paid for by a step of some
    other goroutine. *)
Lemma rmw_exec_steps e t w0 eff s :
  rmw_exec e t w0 eff s -> (t + rmw_potential s <= 2 + 2 * e)%nat.
Proof.
  induction 1 as [w | e t w0 eff w pc w' Hex IH Hr | e t w0 eff w pc Hex IH Hpc]; [cbn; lia | |].
  - enough (rmw_potential (w', pc) <= rmw_potential (w, pc) + 2)%nat by lia.
    unfold rmw_potential. destruct pc; cbn; repeat case_decide; lia.
  - enough (S (rmw_potential (rmw_step w pc)) <= rmw_potential (w, pc))%nat by lia.
    unfold rmw_potential. destruct pc as [| raw target a | a]; cbn; [| | by destruct (Hpc a)].
    + destruct (f w); cbn; [lia |]. rewrite decide_True by done. lia.
    + destruct (Z.eqb_spec w raw); cbn; repeat case_decide; try done; lia.
Qed.
End Loop.
