(* ===== verification/Lifecycle.v ===== *)
(** connection_lifecycle.go: the packed 64-bit connection state word, its
    lifecycle bits and warmup managers, and the compare-and-swap loop
    [casLifecycle] run against concurrent writers of the same word. *)

From stdpp Require Import base list strings.
From Stdlib Require Import ZArith Lia Ascii String.
From S2P Require Import Prelude.

Open Scope list_scope.
Open Scope Z_scope.

(** * connLifecycle: the 13 lifecycle bits *)

Definition lcReady : Z := 0x01.
Definition lcUnknown : Z := 0x02.
Definition lcActive : Z := 0x04.
Definition lcStandby : Z := 0x08.
Definition lcNeedsWarmup : Z := 0x0010.
Definition lcOverloaded : Z := 0x0020.
Definition lcHealthChecking : Z := 0x0040.
Definition lcDraining : Z := 0x0080.
Definition lcNeedsHardware : Z := 0x0100.
Definition lcNeedsCatUpdate : Z := 0x0200.
Definition lcClusterHealthProbed : Z := 0x0400.
Definition lcClusterHealthAvailable : Z := 0x0800.
Definition lcViable : Z := 0x1000.
Definition lcDead : Z := lcUnknown.

Infix "|||" := Z.lor (at level 50, left associativity) : go_scope.

(** [lc&flags == flags] *)
Definition has (lc flags : Z) : bool := Z.land lc flags =? flags.
(** [lc&flags != 0] *)
Definition hasAny (lc flags : Z) : bool := negb (Z.land lc flags =? 0).

Definition connLifecycleBits : list (Z * string) :=
  [ (lcReady, "ready"%string); (lcUnknown, "unknown"%string);
    (lcActive, "active"%string); (lcStandby, "standby"%string);
    (lcNeedsWarmup, "needsWarmup"%string); (lcOverloaded, "overloaded"%string);
    (lcHealthChecking, "healthChecking"%string); (lcDraining, "draining"%string);
    (lcNeedsHardware, "needsHardware"%string);
    (lcNeedsCatUpdate, "needsCatUpdate"%string);
    (lcClusterHealthProbed, "clusterHealthProbed"%string);
    (lcClusterHealthAvailable, "clusterHealthAvailable"%string);
    (lcViable, "viable"%string) ].

(** fmt's [%013b] of [uint16(lc)]: binary digits, most significant first,
    zero-padded to 13 places. *)
Fixpoint binary_digits (n : nat) (z : Z) : string :=
  match n with
  | O => EmptyString
  | S n' => String (if Z.testbit z (Z.of_nat n') then "1"%char else "0"%char)
                   (binary_digits n' z)
  end.
(** The width fmt prints: 13, or as many digits as a larger value needs. *)
Definition binary_width (z : Z) : nat :=
  if z =? 0 then 13%nat else Nat.max 13 (Z.to_nat (Z.log2 z + 1)).

Definition lifecycle_names (lc : Z) : string :=
  let b := foldl (fun (acc : string) (entry : Z * string) =>
    if has lc entry.1 then
      (if String.eqb acc EmptyString then entry.2 else acc ++ "+" ++ entry.2)%string
    else acc) EmptyString connLifecycleBits in
  if String.eqb b EmptyString then "none"%string else b.

Definition lifecycle_String (lc : Z) : string :=
  let u := lc mod 2 ^ 16 in
  (lifecycle_names lc ++ " (" ++ binary_digits (binary_width u) u ++ ")")%string.

(** * warmupManager: rounds and skipCount, 8 bits each, in an int32 *)

Definition wmRoundsShift : Z := 8.
Definition wmRoundsMask : Z := 0xFF.
Definition wmSkipCountMask : Z := 0xFF.

Definition packWarmupManager (rounds skipCount : Z) : Z :=
  wrap32 (Z.shiftl (Z.land (wrap32 rounds) wmRoundsMask) wmRoundsShift
          ||| Z.land (wrap32 skipCount) wmSkipCountMask).
Definition wm_rounds (wm : Z) : Z := Z.land (Z.shiftr wm wmRoundsShift) wmRoundsMask.
Definition wm_skipCount (wm : Z) : Z := Z.land wm wmSkipCountMask.
Definition wm_isZero (wm : Z) : bool := wm =? 0.
Definition wm_withRounds (wm rounds : Z) : Z :=
  wrap32 (Z.shiftl (Z.land (wrap32 rounds) wmRoundsMask) wmRoundsShift
          ||| Z.land wm wmSkipCountMask).
Definition wm_withSkipCount (wm skipCount : Z) : Z :=
  wrap32 (Z.shiftl (Z.land (Z.shiftr wm wmRoundsShift) wmRoundsMask) wmRoundsShift
          ||| Z.land (wrap32 skipCount) wmSkipCountMask).

(** * connState: the packed int64 word *)

Definition csLifecycleShift : Z := 51.
Definition csLifecycleMask : Z := 0x1FFF.
Definition csLifecycleMgrShift : Z := 26.
Definition csLifecycleMgrMask : Z := 0x01FFFFFF.
Definition csRoundMgrShift : Z := 0.
Definition csRoundMgrMask : Z := 0x03FFFFFF.
Definition csLowerBitsMask : Z := Z.shiftl 1 csLifecycleShift - 1.

Definition newConnState (lc : Z) : Z :=
  wrap64 (Z.shiftl (Z.land lc csLifecycleMask) csLifecycleShift).
Definition packConnState (lc lcMgr rdMgr : Z) : Z :=
  wrap64 (Z.shiftl (Z.land lc csLifecycleMask) csLifecycleShift)
  ||| wrap64 (Z.shiftl (Z.land lcMgr csLifecycleMgrMask) csLifecycleMgrShift)
  ||| wrap64 (Z.shiftl (Z.land rdMgr csRoundMgrMask) csRoundMgrShift).
Definition lifecycle (s : Z) : Z := Z.land (Z.shiftr s csLifecycleShift) csLifecycleMask.
(** The two manager accessors convert to warmupManager, an int32. *)
Definition lifecycleManager (s : Z) : Z :=
  wrap32 (Z.land (Z.shiftr s csLifecycleMgrShift) csLifecycleMgrMask).
Definition roundManager (s : Z) : Z :=
  wrap32 (Z.land (Z.shiftr s csRoundMgrShift) csRoundMgrMask).
Definition withLifecycle (s lc : Z) : Z :=
  wrap64 (Z.shiftl (Z.land lc csLifecycleMask) csLifecycleShift)
  ||| Z.land s csLowerBitsMask.
Definition withManagers (s lcMgr rdMgr : Z) : Z := packConnState (lifecycle s) lcMgr rdMgr.
Definition isWarmingUp (s : Z) : bool := negb (lifecycleManager s =? 0).
Definition warmupState (lc maxRounds maxSkipCount : Z) : Z :=
  let lcMgr := packWarmupManager maxRounds maxSkipCount in
  let rdMgr := packWarmupManager maxRounds maxSkipCount in
  packConnState lc lcMgr rdMgr.

(** ConnState: the exported snapshot. *)
Definition IsWarmingUp (s : Z) : bool := isWarmingUp s.
Definition IsHealthChecking (s : Z) : bool := has (lifecycle s) lcHealthChecking.
Definition WarmupRoundsRemaining (s : Z) : Z := wm_rounds (roundManager s).
Definition WarmupSkipRemaining (s : Z) : Z := wm_skipCount (roundManager s).

(** ConnState.String; [%d] of the two 8-bit counters. *)
Fixpoint dec_digits (fuel : nat) (n : Z) (acc : string) : string :=
  match fuel with
  | O => acc
  | S f =>
    let acc' := String (ascii_of_nat (48 + Z.to_nat (n mod 10))) acc in
    if n / 10 =? 0 then acc' else dec_digits f (n / 10) acc'
  end.
Definition fmt_d (n : Z) : string := dec_digits 20 n EmptyString.
Definition ConnState_String (s : Z) : string :=
  let lc := lifecycle s in
  if negb (IsWarmingUp s) then lifecycle_String lc
  else (lifecycle_String lc ++ "(warmup: rounds=" ++ fmt_d (WarmupRoundsRemaining s)
        ++ ", skip=" ++ fmt_d (WarmupSkipRemaining s) ++ ")")%string.

(** * Fields of the word *)

Lemma mask13 : csLifecycleMask = Z.ones 13. Proof. reflexivity. Qed.
Lemma mask25 : csLifecycleMgrMask = Z.ones 25. Proof. reflexivity. Qed.
Lemma mask26 : csRoundMgrMask = Z.ones 26. Proof. reflexivity. Qed.
Lemma mask51 : csLowerBitsMask = Z.ones 51. Proof. reflexivity. Qed.
Lemma mask8 : wmRoundsMask = Z.ones 8. Proof. reflexivity. Qed.
Lemma mask8' : wmSkipCountMask = Z.ones 8. Proof. reflexivity. Qed.

Lemma lifecycle_field s : lifecycle s = field s 51 13.
Proof. reflexivity. Qed.

Lemma lifecycleManager_field s : lifecycleManager s = field s 26 25.
Proof.
  unfold lifecycleManager. rewrite mask25. change csLifecycleMgrShift with 26.
  fold (field s 26 25). apply wrap32_id. pose proof (field_range s 26 25). unfold int32_range. lia.
Qed.

Lemma roundManager_field s : roundManager s = field s 0 26.
Proof.
  unfold roundManager. rewrite mask26. change csRoundMgrShift with 0.
  fold (field s 0 26). apply wrap32_id. pose proof (field_range s 0 26). unfold int32_range. lia.
Qed.

Lemma lifecycle_range s : 0 <= lifecycle s < 2 ^ 13.
Proof. rewrite lifecycle_field. apply field_range. lia. Qed.

(** Bit [i] of the packed word. *)
Lemma testbit_pack lc a b i :
  0 <= i < 64 ->
  Z.testbit (packConnState lc a b) i =
    if i <? 26 then Z.testbit b i
    else if i <? 51 then Z.testbit a (i - 26) else Z.testbit lc (i - 51).
Proof.
  intros Hi. unfold packConnState.
  rewrite !Z.lor_spec, !testbit_wrap64 by lia.
  unfold csLifecycleShift, csLifecycleMgrShift, csRoundMgrShift.
  rewrite !Z.shiftl_spec by lia. rewrite !Z.land_spec.
  rewrite mask13, mask25, mask26, Z.sub_0_r.
  rewrite (Z.testbit_ones 13), (Z.testbit_ones 25), (Z.testbit_ones 26) by lia.
  destruct (Z.ltb_spec i 26), (Z.ltb_spec i 51); try lia.
  - rewrite !(Z.testbit_neg_r _ (i - 51)), !(Z.testbit_neg_r _ (i - 26)) by lia.
    destruct (Z.leb_spec 0 i); [| lia]. by autorewrite with bool.
  - rewrite !(Z.testbit_neg_r _ (i - 51)) by lia.
    destruct (Z.leb_spec 0 (i - 26)), (Z.ltb_spec (i - 26) 25); try lia.
    by autorewrite with bool.
  - destruct (Z.leb_spec 0 (i - 51)), (Z.ltb_spec (i - 51) 13),
      (Z.ltb_spec (i - 26) 25); try lia.
    by autorewrite with bool.
Qed.

Lemma testbit_withLifecycle s lc i :
  0 <= i < 64 ->
  Z.testbit (withLifecycle s lc) i =
    if i <? 51 then Z.testbit s i else Z.testbit lc (i - 51).
Proof.
  intros Hi. unfold withLifecycle, csLifecycleShift.
  rewrite Z.lor_spec, testbit_wrap64, Z.shiftl_spec, !Z.land_spec by lia.
  rewrite mask13, mask51, !Z.testbit_ones by lia.
  destruct (Z.ltb_spec i 51).
  - rewrite !(Z.testbit_neg_r _ (i - 51)) by lia.
    destruct (Z.leb_spec 0 i); [| lia]. by autorewrite with bool.
  - destruct (Z.leb_spec 0 (i - 51)), (Z.ltb_spec (i - 51) 13), (Z.leb_spec 0 i); try lia.
    by autorewrite with bool.
Qed.

Lemma pack_int64 lc a b : int64_range (packConnState lc a b).
Proof. repeat apply lor_int64; apply wrap64_range. Qed.

Lemma new_int64 lc : int64_range (newConnState lc).
Proof. apply wrap64_range. Qed.

Lemma withLifecycle_int64 s lc : int64_range (withLifecycle s lc).
Proof.
  apply lor_int64; [apply wrap64_range |]. rewrite mask51. apply land_int64_small. lia.
Qed.

(** Reading the fields of packed, updated and fresh words. *)
Lemma lifecycle_pack lc a b : lifecycle (packConnState lc a b) = field lc 0 13.
Proof.
  rewrite lifecycle_field. bit_solve. destruct (Z.ltb_spec i 13); [| done]. cbn.
  rewrite testbit_pack by lia. bool_cases; try lia. f_equal; lia.
Qed.

Lemma lifecycleManager_pack lc a b : lifecycleManager (packConnState lc a b) = field a 0 25.
Proof.
  rewrite lifecycleManager_field. bit_solve. destruct (Z.ltb_spec i 25); [| done]. cbn.
  rewrite testbit_pack by lia. bool_cases; try lia. f_equal; lia.
Qed.

Lemma roundManager_pack lc a b : roundManager (packConnState lc a b) = field b 0 26.
Proof.
  rewrite roundManager_field. bit_solve. destruct (Z.ltb_spec i 26); [| done]. cbn.
  rewrite testbit_pack by lia. bool_cases; try lia. f_equal; lia.
Qed.

Lemma lifecycle_with s lc : lifecycle (withLifecycle s lc) = field lc 0 13.
Proof.
  rewrite lifecycle_field. bit_solve. destruct (Z.ltb_spec i 13); [| done]. cbn.
  rewrite testbit_withLifecycle by lia. bool_cases; try lia. f_equal; lia.
Qed.

Lemma lifecycleManager_with s lc : lifecycleManager (withLifecycle s lc) = lifecycleManager s.
Proof.
  rewrite !lifecycleManager_field. bit_solve. destruct (Z.ltb_spec i 25); [| done]. cbn.
  rewrite testbit_withLifecycle by lia. bool_cases; [done | lia].
Qed.

Lemma roundManager_with s lc : roundManager (withLifecycle s lc) = roundManager s.
Proof.
  rewrite !roundManager_field. bit_solve. destruct (Z.ltb_spec i 26); [| done]. cbn.
  rewrite testbit_withLifecycle by lia. bool_cases; [done | lia].
Qed.

Lemma newConnState_pack lc : newConnState lc = packConnState lc 0 0.
Proof. unfold newConnState, packConnState. cbn. by rewrite !Z.lor_0_r. Qed.

Lemma lifecycle_new lc : lifecycle (newConnState lc) = field lc 0 13.
Proof. rewrite newConnState_pack. apply lifecycle_pack. Qed.

Lemma isWarmingUp_new lc : isWarmingUp (newConnState lc) = false.
Proof. unfold isWarmingUp. by rewrite newConnState_pack, lifecycleManager_pack. Qed.

(** A word is determined by its three fields. *)
Lemma connState_ext s t :
  int64_range s -> int64_range t ->
  lifecycle s = lifecycle t -> lifecycleManager s = lifecycleManager t ->
  roundManager s = roundManager t -> s = t.
Proof.
  rewrite !lifecycle_field, !lifecycleManager_field, !roundManager_field.
  intros Hs Ht H1 H2 H3. apply int64_ext; [done .. |]. intros i Hi.
  destruct (Z.lt_ge_cases i 26); [| destruct (Z.lt_ge_cases i 51)].
  - apply (f_equal (fun x => Z.testbit x i)) in H3. rewrite !testbit_field in H3 by lia.
    destruct (Z.ltb_spec i 26); [| lia]. by rewrite Z.add_0_r in H3.
  - apply (f_equal (fun x => Z.testbit x (i - 26))) in H2. rewrite !testbit_field in H2 by lia.
    destruct (Z.ltb_spec (i - 26) 25); [| lia]. by rewrite Z.sub_add in H2.
  - apply (f_equal (fun x => Z.testbit x (i - 51))) in H1. rewrite !testbit_field in H1 by lia.
    destruct (Z.ltb_spec (i - 51) 13); [| lia]. by rewrite Z.sub_add in H1.
Qed.

Create HintDb conn discriminated.
#[export] Hint Rewrite lifecycle_pack lifecycleManager_pack roundManager_pack
  lifecycle_with lifecycleManager_with roundManager_with lifecycle_new : conn.
#[export] Hint Resolve pack_int64 new_int64 withLifecycle_int64 wrap64_range wrap32_range : conn.

(** * casLifecycle: the compare-and-swap loop

    The loop is written as the small steps of one goroutine on a shared word,
    so that it can be interleaved with the lock-free writers of the same
    word. *)

Inductive cas_err := errLifecycleConflict | errLifecycleNoop.
#[export] Instance cas_err_eq_dec : EqDecision cas_err.
Proof. solve_decision. Defined.

(** The arguments the loop keeps: mask = conflict|set|clr and the masked bits
    of the snapshot. *)
Record cas_frame := CasFrame { cf_mask : Z; cf_initialMasked : Z; cf_set : Z; cf_clr : Z }.

Inductive cas_pc :=
  | CasCheck (raw : Z)              (* top of the for loop, raw loaded *)
  | CasSwap (raw target : Z)        (* about to CompareAndSwap(raw, target) *)
  | CasReload                       (* CAS failed, about to re-load *)
  | CasDone (err : option cas_err). (* returned; None is a nil error *)

(** next = (lc | set) &^ clr *)
Definition cas_next (lc set clr : Z) : Z := Z.ldiff (lc ||| set) clr.

Definition cas_start (current conflict set clr : Z) : cas_frame * cas_pc :=
  let mask := conflict ||| set ||| clr in
  (CasFrame mask (Z.land (lifecycle current) mask) set clr, CasCheck current).

Definition cas_step (fr : cas_frame) (word : Z) (pc : cas_pc) : Z * cas_pc :=
  match pc with
  | CasCheck raw =>
    let lc := lifecycle raw in
    if negb (Z.land lc (cf_mask fr) =? cf_initialMasked fr)
    then (word, CasDone (Some errLifecycleConflict))
    else
      let next := cas_next lc (cf_set fr) (cf_clr fr) in
      if next =? lc then (word, CasDone (Some errLifecycleNoop))
      else (word, CasSwap raw (withLifecycle raw next))
  | CasSwap raw target =>
    if word =? raw then (target, CasDone None) else (word, CasReload)
  | CasReload => (word, CasCheck word)
  | CasDone err => (word, CasDone err)
  end.

(** The call with no other writer: five steps always suffice. *)
Fixpoint cas_run (fuel : nat) (fr : cas_frame) (word : Z) (pc : cas_pc) : Z * cas_pc :=
  match fuel, pc with
  | O, _ | _, CasDone _ => (word, pc)
  | S f, _ => let '(word', pc') := cas_step fr word pc in cas_run f fr word' pc'
  end.
Definition casLifecycle (word current conflict set clr : Z) : Z * option cas_err :=
  let '(fr, pc) := cas_start current conflict set clr in
  match cas_run 5 fr word pc with
  | (word', CasDone err) => (word', err)
  | (word', _) => (word', Some errLifecycleConflict) (* unreachable: cas_run_done *)
  end.

Definition setLifecycleBit (word bit : Z) : Z * option cas_err :=
  casLifecycle word word 0 bit 0.
Definition clearLifecycleBit (word bit : Z) : Z * option cas_err :=
  casLifecycle word word 0 0 bit.
Definition setNeedsCatUpdate (word : Z) : Z * option cas_err :=
  setLifecycleBit word lcNeedsCatUpdate.
Definition clearNeedsCatUpdate (word : Z) : Z * option cas_err :=
  clearLifecycleBit word lcNeedsCatUpdate.

(** Predicates read off the word. *)
Definition isReady (word : Z) : bool :=
  let lc := lifecycle word in has lc lcActive || has lc lcStandby.
Definition needsCatUpdate (word : Z) : bool := has (lifecycle word) lcNeedsCatUpdate.
Definition hasClusterHealth (word : Z) : bool :=
  let lc := lifecycle word in has lc lcClusterHealthProbed && has lc lcClusterHealthAvailable.
Definition clusterHealthPending (word : Z) : bool :=
  let lc := lifecycle word in
  negb (has lc lcClusterHealthProbed) && negb (has lc lcClusterHealthAvailable).
Definition clusterHealthUnavailable (word : Z) : bool :=
  let lc := lifecycle word in
  has lc lcClusterHealthProbed && negb (has lc lcClusterHealthAvailable).

(** ** The loop among other writers *)

Section Interference.
(** What the other goroutines may do to the word in one step. *)
Context (R : Z -> Z -> Prop) (fr : cas_frame).

(** [cas_exec e t s s']: from [s] to [s'] with [e] steps of the others and
    [t] steps of the loop, in some interleaving. *)
Inductive cas_exec : nat -> nat -> Z * cas_pc -> Z * cas_pc -> Prop :=
| exec_refl s : cas_exec 0 0 s s
| exec_env e t s w pc w' : cas_exec e t s (w, pc) -> R w w' -> cas_exec (S e) t s (w', pc)
| exec_thread e t s w pc :
    cas_exec e t s (w, pc) -> (forall err, pc <> CasDone err) ->
    cas_exec e (S t) s (cas_step fr w pc).

Lemma exec_thread_eq e t s w pc s' :
  cas_step fr w pc = s' -> (forall err, pc <> CasDone err) ->
  cas_exec e t s (w, pc) -> cas_exec e (S t) s s'.
Proof. intros <-. intros. by apply exec_thread. Qed.
End Interference.

(** *** Bits of a 13-bit lifecycle *)

Lemma field_lifecycle_id s : field (lifecycle s) 0 13 = lifecycle s.
Proof. apply field_small, lifecycle_range. Qed.

Definition lc_bits (z : Z) : Prop := 0 <= z < 2 ^ 13.

Lemma lc_bits_lifecycle s : lc_bits (lifecycle s).
Proof. apply lifecycle_range. Qed.

Lemma lc_bits_spec z : lc_bits z <-> forall i, 13 <= i -> Z.testbit z i = false.
Proof. by apply small_bits. Qed.

Lemma lc_bits_lor a b : lc_bits a -> lc_bits b -> lc_bits (a ||| b).
Proof.
  rewrite !lc_bits_spec. intros Ha Hb i Hi. by rewrite Z.lor_spec, Ha, Hb.
Qed.

Lemma lc_bits_ldiff a b : lc_bits a -> lc_bits (Z.ldiff a b).
Proof. rewrite !lc_bits_spec. intros Ha i Hi. by rewrite Z.ldiff_spec, Ha. Qed.

Lemma lc_bits_next lc set clr : lc_bits lc -> lc_bits set -> lc_bits (cas_next lc set clr).
Proof. intros. by apply lc_bits_ldiff, lc_bits_lor. Qed.

Lemma lifecycle_with_next s set clr :
  lc_bits set ->
  lifecycle (withLifecycle s (cas_next (lifecycle s) set clr)) = cas_next (lifecycle s) set clr.
Proof.
  intros. rewrite lifecycle_with. apply field_small, lc_bits_next; [apply lc_bits_lifecycle | done].
Qed.

(** [has] on an updated lifecycle: a cleared bit is off, a set bit is on, the
    others are as before. *)
Lemma has_spec lc flags :
  has lc flags = true <-> (forall i, 0 <= i -> Z.testbit flags i = true -> Z.testbit lc i = true).
Proof.
  unfold has. rewrite Z.eqb_eq. split.
  - intros H i Hi Hf. apply (f_equal (fun x => Z.testbit x i)) in H.
    by rewrite Z.land_spec, Hf, andb_true_r in H.
  - intros H. bit_solve. specialize (H i Hi).
    destruct (Z.testbit flags i) eqn:E, (Z.testbit lc i) eqn:E2; naive_solver.
Qed.

#[export] Hint Resolve lc_bits_lifecycle lc_bits_lor lc_bits_ldiff lc_bits_next : conn.

(** *** The loop without interference *)

(** Called on the current word the loop decides in one pass: the guard on the
    masked bits cannot fail, and only the lifecycle field changes. *)
Lemma casLifecycle_current w conflict set clr :
  casLifecycle w w conflict set clr =
    let next := cas_next (lifecycle w) set clr in
    if next =? lifecycle w then (w, Some errLifecycleNoop)
    else (withLifecycle w next, None).
Proof.
  unfold casLifecycle, cas_start. cbn -[withLifecycle cas_next lifecycle].
  rewrite Z.eqb_refl. cbn -[withLifecycle cas_next lifecycle].
  destruct (cas_next (lifecycle w) set clr =? lifecycle w);
    cbn -[withLifecycle cas_next lifecycle]; [done |].
  by rewrite Z.eqb_refl.
Qed.

(** Five steps always end the undisturbed loop, whatever snapshot it is given. *)
Lemma cas_run_done fr w pc :
  (forall raw t, pc <> CasSwap raw t) -> pc <> CasReload ->
  exists w' err, cas_run 5 fr w pc = (w', CasDone err).
Proof.
  intros H1 H2. destruct pc as [raw | raw t | | err]; [| by destruct (H1 raw t) | done | by eexists _, _].
  cbn -[withLifecycle cas_next lifecycle].
  repeat (match goal with |- context [if ?b then _ else _] => destruct b eqn:? end;
    cbn -[withLifecycle cas_next lifecycle]; eauto).
  by rewrite Z.eqb_refl in *.
Qed.

(** The lifecycle after an undisturbed call is [next] whether or not the call
    reports a no-op. *)
Lemma casLifecycle_lifecycle w conflict set clr :
  lc_bits set ->
  lifecycle (casLifecycle w w conflict set clr).1 = cas_next (lifecycle w) set clr.
Proof.
  intros Hs. rewrite casLifecycle_current. cbn zeta.
  destruct (Z.eqb_spec (cas_next (lifecycle w) set clr) (lifecycle w)) as [-> | ?]; [done |].
  by apply lifecycle_with_next.
Qed.

Lemma casLifecycle_managers w conflict set clr :
  lifecycleManager (casLifecycle w w conflict set clr).1 = lifecycleManager w /\
  roundManager (casLifecycle w w conflict set clr).1 = roundManager w.
Proof.
  rewrite casLifecycle_current. cbn zeta. case_match; [done |]. cbn.
  by rewrite lifecycleManager_with, roundManager_with.
Qed.

Lemma casLifecycle_int64 w conflict set clr :
  int64_range w -> int64_range (casLifecycle w w conflict set clr).1.
Proof.
  intros. rewrite casLifecycle_current. cbn zeta. case_match; [done |]. apply withLifecycle_int64.
Qed.

Lemma casLifecycle_err w conflict set clr :
  (casLifecycle w w conflict set clr).2 =
    if cas_next (lifecycle w) set clr =? lifecycle w then Some errLifecycleNoop else None.
Proof. rewrite casLifecycle_current. cbn zeta. by case_match. Qed.

(** *** The loop under interference *)

Section Linearise.
Context (R : Z -> Z -> Prop) (conflict set clr : Z).
Let mask := conflict ||| set ||| clr.
Hypothesis (Hset : lc_bits set).
(** The other writers leave the masked lifecycle bits alone (they do not hold
    c.mu), and store int64 words. *)
Hypothesis (HR : forall w w', R w w' ->
  Z.land (lifecycle w') mask = Z.land (lifecycle w) mask /\ int64_range w').

(** The requested bits are in force. *)
Definition cas_in_force (m0 : Z) (w : Z) : Prop :=
  Z.land (lifecycle w) mask = Z.land (cas_next m0 set clr) mask.

Lemma next_masked lc :
  Z.land (cas_next lc set clr) mask = Z.land (cas_next (Z.land lc mask) set clr) mask.
Proof.
  unfold cas_next. bit_solve. unfold mask. rewrite !Z.lor_spec.
  destruct (Z.testbit lc i), (Z.testbit set i), (Z.testbit clr i), (Z.testbit conflict i); done.
Qed.

Definition cas_inv (m0 : Z) (s : Z * cas_pc) : Prop :=
  match s.2 with
  | CasCheck raw => Z.land (lifecycle raw) mask = m0 /\ Z.land (lifecycle s.1) mask = m0
  | CasSwap raw t => Z.land (lifecycle raw) mask = m0 /\ Z.land (lifecycle s.1) mask = m0 /\
      t = withLifecycle raw (cas_next (lifecycle raw) set clr)
  | CasReload => Z.land (lifecycle s.1) mask = m0
  | CasDone err => err <> Some errLifecycleConflict /\ cas_in_force m0 s.1
  end.

Lemma cas_exec_inv e t w0 s :
  cas_exec R (cas_start w0 conflict set clr).1 e t (w0, (cas_start w0 conflict set clr).2) s ->
  cas_inv (Z.land (lifecycle w0) mask) s.
Proof.
  set (m0 := Z.land (lifecycle w0) mask). set (fr := (cas_start w0 conflict set clr).1).
  intros H. remember (w0, (cas_start w0 conflict set clr).2) as s0 eqn:Hs0.
  induction H as [s | e t s w pc w' Hex IH Hr | e t s w pc Hex IH Hpc]; subst.
  - by split.
  - specialize (IH eq_refl). apply HR in Hr as [Hm _].
    destruct pc; unfold cas_inv, cas_in_force in *; cbn in *; rewrite Hm; naive_solver.
  - specialize (IH eq_refl).
    destruct pc as [raw | raw t' | | err]; unfold cas_inv, cas_in_force in *; cbn -[lifecycle withLifecycle] in *.
    + destruct IH as [H1 H2]. unfold fr, cas_start. cbn [cf_mask cf_initialMasked cf_set cf_clr fst].
      fold mask m0. rewrite H1, Z.eqb_refl. cbn [negb].
      destruct (Z.eqb_spec (cas_next (lifecycle raw) set clr) (lifecycle raw)) as [E | E]; cbn -[lifecycle withLifecycle].
      * split; [done |]. rewrite H2, <- H1, <- next_masked. by rewrite E.
      * done.
    + destruct IH as (H1 & H2 & ->).
      destruct (Z.eqb_spec w raw) as [-> | ?]; cbn -[lifecycle withLifecycle]; [| done].
      split; [done |]. rewrite lifecycle_with_next by done. by rewrite next_masked, H1.
    + done.
    + by destruct (Hpc err).
Qed.

(** What a thread step may change: the loop stores only its target, which
    differs from the word it replaces in the lifecycle bits of set|clr. *)
Lemma cas_step_frame m0 fr w pc :
  cas_inv m0 (w, pc) ->
  let w' := (cas_step fr w pc).1 in
  lifecycleManager w' = lifecycleManager w /\ roundManager w' = roundManager w /\
  Z.ldiff (lifecycle w') (set ||| clr) = Z.ldiff (lifecycle w) (set ||| clr).
Proof.
  intros Hi. destruct pc as [raw | raw t | | err]; cbn -[lifecycle withLifecycle]; try done.
  - repeat case_match; done.
  - destruct (Z.eqb_spec w raw) as [-> | ?]; cbn -[lifecycle withLifecycle]; [| done].
    destruct Hi as (_ & _ & ->).
    rewrite lifecycleManager_with, roundManager_with, lifecycle_with_next by done.
    split_and!; [done .. |]. unfold cas_next. bit_solve.
    destruct (Z.testbit (lifecycle raw) i), (Z.testbit set i), (Z.testbit clr i); done.
Qed.
End Linearise.

(** Steps the loop still needs if left alone. *)
Definition cas_potential (s : Z * cas_pc) : nat :=
  match s.2 with
  | CasDone _ => 0
  | CasSwap raw _ => if decide (s.1 = raw) then 1 else 4
  | CasReload => 3
  | CasCheck raw => if decide (s.1 = raw) then 2 else 5
  end.

Lemma cas_exec_potential R fr e t s s' :
  cas_exec R fr e t s s' -> (t + cas_potential s' <= cas_potential s + 3 * e)%nat.
Proof.
  induction 1 as [s | e t s w pc w' Hex IH Hr | e t s w pc Hex IH Hpc]; [lia | |].
  - enough (cas_potential (w', pc) <= cas_potential (w, pc) + 3)%nat by lia.
    unfold cas_potential; destruct pc; cbn; repeat case_decide; lia.
  - enough (S (cas_potential (cas_step fr w pc)) <= cas_potential (w, pc))%nat by lia.
    unfold cas_potential; destruct pc as [raw | raw t' | | err]; cbn -[lifecycle withLifecycle];
      [| | | by destruct (Hpc err)].
    + repeat match goal with |- context [if ?b then _ else _] => destruct b eqn:? end;
        cbn -[lifecycle withLifecycle] in *; repeat case_decide; try done; lia.
    + destruct (Z.eqb_spec w raw); cbn; repeat case_decide; try done; lia.
    + by case_decide.
Qed.
