(* ===== verification/Warmup.v ===== *)
(** connection_warmup.go: the warmup ramp of a connection. The word-level
    operations are instances of the retry loop of Atomic.v; the theorems give
    the exact accept/skip schedule a warming connection follows, its
    termination, and how the lock-free warmup writers interleave with
    [casLifecycle]. *)

From stdpp Require Import base list.
From Stdlib Require Import ZArith Lia.
From S2P Require Import Prelude.
From S2P Require Import Atomic.
From S2P Require Import Lifecycle.

Open Scope Z_scope.

Definition defaultWarmupRounds : Z := 16.
Definition defaultWarmupSkipCount : Z := 32.
Definition minWarmupRounds : Z := 4.
Definition maxWarmupRounds : Z := defaultWarmupRounds.
Definition warmupSkipMultiple : Z := 2.

Inductive warmupResult := warmupSkipped | warmupAccepted | warmupInactive.
#[export] Instance warmupResult_eq_dec : EqDecision warmupResult.
Proof. solve_decision. Defined.

(** One pass of startWarmup's loop. *)
Definition startWarmup_pass (maxRounds maxSkipCount : Z) (current : Z) : rmw_decision unit :=
  let lcMgr := packWarmupManager maxRounds maxSkipCount in
  let rdMgr := packWarmupManager maxRounds maxSkipCount in
  if negb (has (lifecycle current) lcNeedsWarmup) then RmwReturn tt
  else if isWarmingUp current then RmwReturn tt
  else RmwStore (packConnState (lifecycle current) lcMgr rdMgr) tt.
Definition startWarmup (maxRounds maxSkipCount : Z) (word : Z) : Z :=
  (rmw_run (startWarmup_pass maxRounds maxSkipCount) word).1.

(** One pass of clearWarmup's loop. *)
Definition clearWarmup_pass (current : Z) : rmw_decision unit :=
  RmwStore (newConnState (lifecycle current)) tt.
Definition clearWarmup (word : Z) : Z := (rmw_run clearWarmup_pass word).1.

(** Go int arithmetic: the products wrap at 64 bits. A zero [r3] would be a
    division by zero; it cannot arise from 8-bit round counts
    ([smoothstep_cube]). *)
Definition smoothstepSkip (maxSkip maxRounds delta : Z) : Z :=
  if maxRounds <=? 0 then 0
  else
    let r3 := wrap64 (maxRounds * maxRounds * maxRounds) in
    let num := wrap64 (maxSkip *
      (r3 - 3 * delta * delta * maxRounds + 2 * delta * delta * delta)) in
    let result := Z.quot num r3 in
    if result <? 0 then 0 else result.

(** One pass of tryWarmupSkip's loop. *)
Definition tryWarmupSkip_pass (raw : Z) : rmw_decision warmupResult :=
  let lcMgr := lifecycleManager raw in
  let rdMgr := roundManager raw in
  if wm_isZero lcMgr then RmwReturn warmupInactive
  else
    let remSkip := wm_skipCount rdMgr in
    if 0 <? remSkip then
      let newRdMgr := wm_withSkipCount rdMgr (remSkip - 1) in
      RmwStore (withManagers raw lcMgr newRdMgr) warmupSkipped
    else
      let newRounds := wm_rounds rdMgr - 1 in
      if newRounds <=? 0 then
        let lc := Z.ldiff (lifecycle raw) lcNeedsWarmup ||| lcReady in
        RmwStore (newConnState lc) warmupAccepted
      else
        let delta := wm_rounds lcMgr - newRounds in
        let newSkip := smoothstepSkip (wm_skipCount lcMgr) (wm_rounds lcMgr) delta in
        let newRdMgr := packWarmupManager newRounds newSkip in
        RmwStore (withManagers raw lcMgr newRdMgr) warmupAccepted.
Definition tryWarmupSkip (word : Z) : Z * warmupResult := rmw_run tryWarmupSkip_pass word.

(** [n] calls in a row, with their results in order. *)
Fixpoint warmup_calls (n : nat) (word : Z) : Z * list warmupResult :=
  match n with
  | O => (word, [])
  | S n' => let '(w1, r) := tryWarmupSkip word in
            let '(w2, rs) := warmup_calls n' w1 in (w2, r :: rs)
  end.

(** The smoothstep skip count of round [k] (0-based), and what one round of the
    ramp answers. *)
Definition round_skip (maxRounds maxSkip : Z) (k : Z) : Z := smoothstepSkip maxSkip maxRounds k.
Definition round_results (skip : Z) : list warmupResult :=
  replicate (Z.to_nat skip) warmupSkipped ++ [warmupAccepted].
(** The schedule of the [n] rounds that start at round [k]. *)
Fixpoint schedule (maxRounds maxSkip k : Z) (n : nat) : list warmupResult :=
  match n with
  | O => []
  | S n' => round_results (round_skip maxRounds maxSkip k) ++ schedule maxRounds maxSkip (k + 1) n'
  end.

(** * Warmup manager fields *)

Definition byte_range (z : Z) : Prop := 0 <= z <= 255.

Lemma land_ones8 z : Z.land z wmRoundsMask = z mod 256.
Proof. rewrite mask8. by rewrite Z.land_ones. Qed.

Lemma land_byte z : Z.land (wrap32 z) wmRoundsMask = z mod 256.
Proof.
  rewrite land_ones8. unfold wrap32.
  rewrite Zminus_mod. change (2 ^ 31 mod 256) with 0. rewrite Z.sub_0_r, Zmod_mod.
  rewrite <- Znumtheory.Zmod_div_mod; [| lia | lia | by exists (2 ^ 24)].
  rewrite Zplus_mod. change (2 ^ 31 mod 256) with 0. by rewrite Z.add_0_r, Zmod_mod.
Qed.

Lemma lor_shift8 a b : 0 <= a -> 0 <= b < 256 -> Z.shiftl a 8 ||| b = a * 256 + b.
Proof.
  intros Ha Hb. rewrite Z.lor_comm, lor_shiftl_add by (cbn; lia). cbn. lia.
Qed.

Lemma packWarmupManager_val r s :
  byte_range r -> byte_range s -> packWarmupManager r s = r * 256 + s.
Proof.
  intros Hr Hs. unfold packWarmupManager, byte_range in *.
  change wmSkipCountMask with wmRoundsMask. rewrite !land_byte.
  rewrite !Z.mod_small by lia. change wmRoundsShift with 8.
  rewrite lor_shift8 by lia. apply wrap32_id. unfold int32_range. lia.
Qed.

Lemma wm_rounds_val r s : byte_range r -> byte_range s -> wm_rounds (r * 256 + s) = r.
Proof.
  unfold byte_range, wm_rounds. intros. rewrite land_ones8, Z.shiftr_div_pow2 by done.
  change (2 ^ wmRoundsShift) with 256. rewrite Z.div_add_l, Z.div_small by lia.
  rewrite Z.mod_small; lia.
Qed.

Lemma wm_skipCount_val r s : byte_range s -> wm_skipCount (r * 256 + s) = s.
Proof.
  unfold byte_range, wm_skipCount. intros. change wmSkipCountMask with wmRoundsMask.
  rewrite land_ones8, Z.add_comm, Z_mod_plus_full. apply Z.mod_small. lia.
Qed.

Lemma wm_withSkipCount_val r s s' :
  byte_range r -> byte_range s -> byte_range s' ->
  wm_withSkipCount (r * 256 + s) s' = r * 256 + s'.
Proof.
  intros Hr Hs Hs'. unfold wm_withSkipCount. fold (wm_rounds (r * 256 + s)).
  rewrite wm_rounds_val by done. change wmSkipCountMask with wmRoundsMask.
  rewrite land_byte. unfold byte_range in *. rewrite Z.mod_small by lia.
  change wmRoundsShift with 8. rewrite lor_shift8 by lia.
  apply wrap32_id. unfold int32_range. lia.
Qed.

(** * smoothstepSkip *)

(** The numerator is S (R-d)^2 (R+2d): no defensive clamp is ever needed. *)
Lemma smoothstep_cube R : 1 <= R <= 255 -> wrap64 (R * R * R) = R * R * R /\ 0 < R * R * R.
Proof.
  intros HR. assert (0 < R * R * R <= 255 * 255 * 255) by nia.
  split; [| lia]. apply wrap64_id. unfold int64_range. lia.
Qed.

Lemma smoothstep_num_factor S R d :
  S * (R * R * R - 3 * d * d * R + 2 * d * d * d) = S * ((R - d) * (R - d) * (R + 2 * d)).
Proof. ring. Qed.

Lemma smoothstep_hermite_bound R d :
  0 <= d <= R -> 0 <= (R - d) * (R - d) * (R + 2 * d) <= R * R * R.
Proof.
  intros. split; [repeat apply Z.mul_nonneg_nonneg; lia |].
  replace (R * R * R) with ((R - d) * (R - d) * (R + 2 * d) + d * d * (3 * R - 2 * d)) by ring.
  assert (0 <= d * d * (3 * R - 2 * d)) by (repeat apply Z.mul_nonneg_nonneg; lia). lia.
Qed.

Lemma smoothstepSkip_val S R d :
  1 <= R <= 255 -> 0 <= S <= 255 -> 0 <= d <= R ->
  smoothstepSkip S R d = S * ((R - d) * (R - d) * (R + 2 * d)) / (R * R * R).
Proof.
  intros HR HS Hd. unfold smoothstepSkip.
  destruct (Z.leb_spec R 0); [lia |]. destruct (smoothstep_cube R HR) as [-> Hc].
  cbn zeta. rewrite smoothstep_num_factor.
  pose proof (smoothstep_hermite_bound R d Hd) as Hb.
  set (h := (R - d) * (R - d) * (R + 2 * d)) in *.
  assert (0 <= S * h <= 255 * (255 * 255 * 255)) by nia.
  rewrite wrap64_id by (unfold int64_range; lia).
  rewrite Z.quot_div_nonneg by lia.
  destruct (Z.ltb_spec (S * h / (R * R * R)) 0) as [Hneg |]; [| done].
  pose proof (Z.div_pos (S * h) (R * R * R)). lia.
Qed.

Lemma smoothstepSkip_bounds S R d :
  1 <= R <= 255 -> 0 <= S <= 255 -> 0 <= d <= R -> 0 <= smoothstepSkip S R d <= S.
Proof.
  intros HR HS Hd. rewrite smoothstepSkip_val by done.
  pose proof (smoothstep_hermite_bound R d Hd). destruct (smoothstep_cube R HR) as [_ Hc].
  set (h := (R - d) * (R - d) * (R + 2 * d)) in *.
  split; [apply Z.div_pos; nia |]. apply Z.div_le_upper_bound; nia.
Qed.

Lemma smoothstepSkip_start S R : 1 <= R <= 255 -> 0 <= S <= 255 -> smoothstepSkip S R 0 = S.
Proof.
  intros. rewrite smoothstepSkip_val by lia. rewrite Z.sub_0_r, Z.mul_0_r, Z.add_0_r.
  apply Z.div_mul. nia.
Qed.

Lemma smoothstepSkip_mono S R d d' :
  1 <= R <= 255 -> 0 <= S <= 255 -> 0 <= d <= d' -> d' <= R ->
  smoothstepSkip S R d' <= smoothstepSkip S R d.
Proof.
  intros HR HS Hd Hd'. rewrite !smoothstepSkip_val by lia.
  destruct (smoothstep_cube R HR) as [_ Hc].
  apply Z.div_le_mono; [done |]. apply Z.mul_le_mono_nonneg_l; [lia |].
  replace ((R - d) * (R - d) * (R + 2 * d)) with
    ((R - d') * (R - d') * (R + 2 * d') +
     (d' - d) * (3 * d' * (R - d') + 3 * d * (R - d') + 3 * d * (d' - d) + (d' - d) * (d' - d))) by ring.
  assert (0 <= (d' - d) * (3 * d' * (R - d') + 3 * d * (R - d') + 3 * d * (d' - d) + (d' - d) * (d' - d)));
    [| lia].
  apply Z.mul_nonneg_nonneg; [lia |].
  repeat apply Z.add_nonneg_nonneg; repeat apply Z.mul_nonneg_nonneg; lia.
Qed.

(** * One call on a warming word *)

(** The word of a connection with lifecycle [lc], template [R]/[S] and working
    counters [r]/[s]. *)
Definition warming (lc R S r s : Z) : Z := packConnState lc (R * 256 + S) (r * 256 + s).

Lemma field_byte_pair r s n : byte_range r -> byte_range s -> 16 <= n -> field (r * 256 + s) 0 n = r * 256 + s.
Proof.
  unfold byte_range. intros Hr Hs Hn. apply field_small.
  pose proof (Z.pow_le_mono_r 2 16 n ltac:(lia) Hn). lia.
Qed.

Lemma warming_fields lc R S r s :
  lc_bits lc -> byte_range R -> byte_range S -> byte_range r -> byte_range s ->
  lifecycle (warming lc R S r s) = lc /\
  lifecycleManager (warming lc R S r s) = R * 256 + S /\
  roundManager (warming lc R S r s) = r * 256 + s.
Proof.
  intros Hlc HR HS Hr Hs. unfold warming.
  rewrite lifecycle_pack, lifecycleManager_pack, roundManager_pack.
  rewrite !field_byte_pair by (done || lia). by rewrite field_small.
Qed.

Lemma tryWarmupSkip_skip lc R S r s :
  lc_bits lc -> byte_range R -> byte_range S -> byte_range r -> byte_range s ->
  0 < R -> 0 < s ->
  tryWarmupSkip (warming lc R S r s) = (warming lc R S r (s - 1), warmupSkipped).
Proof.
  intros Hlc HR HS Hr Hs HR0 Hs0.
  destruct (warming_fields lc R S r s) as (E1 & E2 & E3); [done .. |].
  unfold tryWarmupSkip, rmw_run, tryWarmupSkip_pass. rewrite E2, E3.
  unfold wm_isZero. destruct (Z.eqb_spec (R * 256 + S) 0); [unfold byte_range in *; lia |].
  rewrite wm_skipCount_val by done. destruct (Z.ltb_spec 0 s); [| lia].
  unfold withManagers. rewrite E1, wm_withSkipCount_val by (unfold byte_range in *; lia). done.
Qed.

Lemma tryWarmupSkip_accept lc R S r :
  lc_bits lc -> byte_range R -> byte_range S -> 1 < r <= R ->
  tryWarmupSkip (warming lc R S r 0) =
    (warming lc R S (r - 1) (smoothstepSkip S R (R - (r - 1))), warmupAccepted).
Proof.
  intros Hlc HR HS Hr. assert (byte_range r) as Hrb by (unfold byte_range in *; lia).
  destruct (warming_fields lc R S r 0) as (E1 & E2 & E3); [done .. |].
  unfold tryWarmupSkip, rmw_run, tryWarmupSkip_pass. rewrite E2, E3.
  unfold wm_isZero. destruct (Z.eqb_spec (R * 256 + S) 0); [unfold byte_range in *; lia |].
  rewrite !wm_skipCount_val, !wm_rounds_val by done. cbn [Z.ltb Z.compare].
  destruct (Z.leb_spec (r - 1) 0); [lia |]. unfold byte_range in *.
  pose proof (smoothstepSkip_bounds S R (R - (r - 1)) ltac:(lia) ltac:(lia) ltac:(lia)).
  unfold withManagers. rewrite E1, packWarmupManager_val by (unfold byte_range; lia). done.
Qed.

Lemma tryWarmupSkip_complete lc R S r :
  lc_bits lc -> byte_range R -> byte_range S -> 0 < R -> 0 <= r <= 1 ->
  tryWarmupSkip (warming lc R S r 0) =
    (newConnState (Z.ldiff lc lcNeedsWarmup ||| lcReady), warmupAccepted).
Proof.
  intros Hlc HR HS HR0 Hr. assert (byte_range r) as Hrb by (unfold byte_range in *; lia).
  destruct (warming_fields lc R S r 0) as (E1 & E2 & E3); [done .. |].
  unfold tryWarmupSkip, rmw_run, tryWarmupSkip_pass. rewrite E1, E2, E3.
  unfold wm_isZero. destruct (Z.eqb_spec (R * 256 + S) 0); [unfold byte_range in *; lia |].
  rewrite !wm_skipCount_val, !wm_rounds_val by done. cbn [Z.ltb Z.compare].
  by destruct (Z.leb_spec (r - 1) 0); [| lia].
Qed.

(** * The whole ramp *)

Lemma warmup_calls_app n m w :
  warmup_calls (n + m) w =
    let '(w1, r1) := warmup_calls n w in
    let '(w2, r2) := warmup_calls m w1 in (w2, r1 ++ r2).
Proof.
  revert w. induction n as [| n IH]; intros w; cbn; [by destruct (warmup_calls m w) |].
  destruct (tryWarmupSkip w) as [w1 r]. rewrite IH.
  destruct (warmup_calls n w1) as [w2 r2]. by destruct (warmup_calls m w2).
Qed.

(** The skips of one round. *)
Lemma warmup_calls_skips lc R S r (k : nat) :
  lc_bits lc -> byte_range R -> byte_range S -> byte_range r -> 0 < R -> byte_range (Z.of_nat k) ->
  warmup_calls k (warming lc R S r (Z.of_nat k)) = (warming lc R S r 0, replicate k warmupSkipped).
Proof.
  intros Hlc HR HS Hr HR0. induction k as [| k IH]; intros Hk; [done |].
  cbn [warmup_calls]. rewrite tryWarmupSkip_skip by (done || lia).
  replace (Z.of_nat (Datatypes.S k) - 1) with (Z.of_nat k) by lia.
  rewrite IH by (unfold byte_range in *; lia). done.
Qed.

Lemma schedule_length_S R S k n :
  length (schedule R S k (Datatypes.S n)) =
    (Z.to_nat (round_skip R S k) + 1 + length (schedule R S (k + 1) n))%nat.
Proof. cbn [schedule]. unfold round_results. rewrite !length_app, length_replicate. done. Qed.

(** From round [k] on ([n] rounds left, skip count of round [k] loaded), the
    calls follow the schedule and end unpacked, ready and not warming. *)
Lemma warmup_calls_schedule lc R S (n : nat) :
  forall k, lc_bits lc -> 1 <= R <= 255 -> byte_range S -> (1 <= n)%nat -> 0 <= k -> k + Z.of_nat n = R ->
  warmup_calls (length (schedule R S k n))
      (warming lc R S (Z.of_nat n) (round_skip R S k)) =
    (newConnState (Z.ldiff lc lcNeedsWarmup ||| lcReady), schedule R S k n).
Proof.
  induction n as [| n IH]; intros k Hlc HR HS Hn Hk Hkn; [lia |].
  assert (byte_range R) as HRb by (unfold byte_range; lia).
  pose proof (smoothstepSkip_bounds S R k HR HS ltac:(lia)) as Hsk. fold (round_skip R S k) in Hsk.
  assert (byte_range (Z.of_nat (Datatypes.S n))) as Hnb by (unfold byte_range; lia).
  rewrite schedule_length_S, warmup_calls_app, warmup_calls_app.
  rewrite <- (Z2Nat.id (round_skip R S k)) at 2 by lia.
  rewrite warmup_calls_skips by (done || unfold byte_range in *; lia).
  cbn [schedule]. unfold round_results. destruct n as [| n].
  - cbn [warmup_calls]. rewrite tryWarmupSkip_complete by (done || lia).
    cbn. by rewrite app_nil_r.
  - cbn [warmup_calls]. rewrite tryWarmupSkip_accept by (done || lia).
    replace (R - (Z.of_nat (Datatypes.S (Datatypes.S n)) - 1)) with (k + 1) by lia.
    fold (round_skip R S (k + 1)).
    replace (Z.of_nat (Datatypes.S (Datatypes.S n)) - 1) with (Z.of_nat (Datatypes.S n)) by lia.
    by rewrite IH by (done || lia).
Qed.

Lemma count_schedule_accepted R S k n :
  length (filter (fun r => r = warmupAccepted) (schedule R S k n)) = n.
Proof.
  revert k. induction n as [| n IH]; intros k; [done |].
  cbn [schedule]. unfold round_results. rewrite !filter_app, !length_app, IH.
  enough (filter (fun r => r = warmupAccepted)
    (replicate (Z.to_nat (round_skip R S k)) warmupSkipped) = []) as -> by done.
  induction (Z.to_nat (round_skip R S k)) as [| m IHm]; [done |]. cbn. by rewrite decide_False.
Qed.

(** * startWarmup and clearWarmup on words *)

Lemma startWarmup_fresh R S w :
  has (lifecycle w) lcNeedsWarmup = true -> isWarmingUp w = false ->
  byte_range R -> byte_range S ->
  startWarmup R S w = warming (lifecycle w) R S R S.
Proof.
  intros Hn Hw HR HS. unfold startWarmup, rmw_run, startWarmup_pass. rewrite Hn, Hw.
  cbn [negb]. by rewrite packWarmupManager_val.
Qed.

Lemma startWarmup_lifecycle R S w : lifecycle (startWarmup R S w) = lifecycle w.
Proof.
  unfold startWarmup, rmw_run, startWarmup_pass. split_ifs; try done.
  cbn [fst]. by rewrite lifecycle_pack, field_lifecycle_id.
Qed.

Lemma clearWarmup_lifecycle w : lifecycle (clearWarmup w) = lifecycle w.
Proof. unfold clearWarmup. cbn. by rewrite lifecycle_new, field_lifecycle_id. Qed.

Lemma clearWarmup_not_warming w : isWarmingUp (clearWarmup w) = false.
Proof. apply isWarmingUp_new. Qed.

Lemma startWarmup_int64 R S w : int64_range w -> int64_range (startWarmup R S w).
Proof.
  intros. unfold startWarmup, rmw_run, startWarmup_pass. split_ifs; try done.
  apply pack_int64.
Qed.

Lemma clearWarmup_int64 w : int64_range (clearWarmup w).
Proof. unfold clearWarmup. cbn. apply wrap64_range. Qed.

Lemma tryWarmupSkip_int64 w : int64_range w -> int64_range (tryWarmupSkip w).1.
Proof.
  intros. unfold tryWarmupSkip, rmw_run, tryWarmupSkip_pass, withManagers.
  cbn zeta. split_ifs; cbn [fst]; auto with conn.
Qed.

Definition warmup_done_lc (lc : Z) : Z := Z.ldiff lc lcNeedsWarmup ||| lcReady.

(** A warmup tick either keeps the lifecycle or ends the warmup. *)
Lemma tryWarmupSkip_lifecycle w :
  lifecycle (tryWarmupSkip w).1 = lifecycle w \/
  (lifecycle (tryWarmupSkip w).1 = warmup_done_lc (lifecycle w) /\
   isWarmingUp (tryWarmupSkip w).1 = false).
Proof.
  unfold tryWarmupSkip, rmw_run, tryWarmupSkip_pass, withManagers.
  cbn zeta. split_ifs; cbn [fst]; auto.
  - left. by rewrite lifecycle_pack, field_lifecycle_id.
  - right. rewrite isWarmingUp_new, lifecycle_new. split; [| done].
    apply field_small, lc_bits_lor; [apply lc_bits_ldiff, lc_bits_lifecycle | done].
  - left. by rewrite lifecycle_pack, field_lifecycle_id.
Qed.

Lemma tryWarmupSkip_inactive w :
  isWarmingUp w = false -> tryWarmupSkip w = (w, warmupInactive).
Proof.
  unfold isWarmingUp. rewrite negb_false_iff. intros H.
  unfold tryWarmupSkip, rmw_run, tryWarmupSkip_pass, wm_isZero. by rewrite H.
Qed.

(** The lock-free writers of the state word: warmup ticks from Next and from
    health checks, warmup start and reset. *)
Inductive warmup_writer : Z -> Z -> Prop :=
  | writer_tick w : warmup_writer w (tryWarmupSkip w).1
  | writer_start R S w : warmup_writer w (startWarmup R S w)
  | writer_clear w : warmup_writer w (clearWarmup w).

Lemma warmup_writer_bits w w' mask :
  Z.land mask (lcReady ||| lcNeedsWarmup) = 0 -> warmup_writer w w' ->
  Z.land (lifecycle w') mask = Z.land (lifecycle w) mask.
Proof.
  intros Hm Hw. destruct Hw as [w | R S w | w].
  - destruct (tryWarmupSkip_lifecycle w) as [-> | [-> _]]; [done |].
    unfold warmup_done_lc. bit_solve.
    apply (f_equal (fun x => Z.testbit x i)) in Hm.
    rewrite Z.land_spec, Z.lor_spec, Z.bits_0 in Hm.
    destruct (Z.testbit mask i), (Z.testbit (lifecycle w) i),
      (Z.testbit lcNeedsWarmup i), (Z.testbit lcReady i); done.
  - by rewrite startWarmup_lifecycle.
  - by rewrite clearWarmup_lifecycle.
Qed.

(** * Properties *)

(** C9: the warmup ramp runs to completion on an exact schedule. After
    startWarmup(R, S) on a connection that needs warmup, the first N calls of
    tryWarmupSkip, N being the length of the schedule, answer for each round
    k = 0..R-1 smoothstepSkip(S, R, k) skips followed by one accept; R requests
    are accepted in all; the ramp then leaves both managers zero, lcNeedsWarmup
    cleared and lcReady set, and every later call answers warmupInactive. *)
Theorem warmup_ramp w R S :
  has (lifecycle w) lcNeedsWarmup = true -> isWarmingUp w = false ->
  1 <= R <= 255 -> 0 <= S <= 255 ->
  let sched := schedule R S 0 (Z.to_nat R) in
  let '(w', results) := warmup_calls (length sched) (startWarmup R S w) in
  results = sched /\
  length (filter (fun r => r = warmupAccepted) results) = Z.to_nat R /\
  w' = newConnState (Z.ldiff (lifecycle w) lcNeedsWarmup ||| lcReady) /\
  isWarmingUp w' = false /\ tryWarmupSkip w' = (w', warmupInactive).
Proof.
  intros Hn Hw HR HS sched.
  rewrite startWarmup_fresh by (done || unfold byte_range; lia).
  assert (smoothstepSkip S R 0 = S) as Hs0 by (by apply smoothstepSkip_start).
  pose proof (warmup_calls_schedule (lifecycle w) R S (Z.to_nat R) 0
    (lc_bits_lifecycle w) HR HS ltac:(lia) ltac:(lia) ltac:(lia)) as Hrun.
  unfold round_skip in Hrun. rewrite Hs0, Z2Nat.id in Hrun by lia.
  fold sched in Hrun. rewrite Hrun. split_and!; [done | apply count_schedule_accepted | done | |].
  - apply isWarmingUp_new.
  - apply tryWarmupSkip_inactive, isWarmingUp_new.
Qed.

Lemma warmup_ramp_witness :
  let w := newConnState (lcActive ||| lcNeedsWarmup) in
  length (schedule 4 8 0 4) = 23%nat /\
  let '(w', results) := warmup_calls 23 (startWarmup 4 8 w) in
  results = schedule 4 8 0 4 /\ w' = newConnState (lcActive ||| lcReady).
Proof.
  split; [vm_compute; reflexivity |].
  pose proof (warmup_ramp (newConnState (lcActive ||| lcNeedsWarmup)) 4 8
    ltac:(vm_compute; reflexivity) ltac:(vm_compute; reflexivity) ltac:(lia) ltac:(lia)) as H.
  vm_compute in H |- *. exact (conj (proj1 H) (proj1 (proj2 (proj2 H)))).
Defined.

(** the smoothstep curve, computed in wrapping 64-bit integers, never
    overflows for 8-bit parameters: it equals the exact quotient
    S (R-d)^2 (R+2d) / R^3, stays within [0, S], starts at S, ends at 0 and
    never increases from one round to the next. *)
Theorem smoothstepSkip_curve S R d :
  1 <= R <= 255 -> 0 <= S <= 255 -> 0 <= d < R ->
  smoothstepSkip S R d = S * ((R - d) * (R - d) * (R + 2 * d)) / (R * R * R) /\
  0 <= smoothstepSkip S R (d + 1) <= smoothstepSkip S R d /\ smoothstepSkip S R d <= S /\
  smoothstepSkip S R 0 = S /\ smoothstepSkip S R R = 0.
Proof.
  intros HR HS Hd. split_and!.
  - apply smoothstepSkip_val; lia.
  - apply smoothstepSkip_bounds; lia.
  - apply smoothstepSkip_mono; lia.
  - apply smoothstepSkip_bounds; lia.
  - by apply smoothstepSkip_start.
  - rewrite smoothstepSkip_val by lia. rewrite Z.sub_diag, !Z.mul_0_l, Z.mul_0_r.
    apply Z.div_0_l. nia.
Qed.

Lemma smoothstepSkip_curve_witness :
  smoothstepSkip 32 16 1 = 31 /\ smoothstepSkip 32 16 2 <= smoothstepSkip 32 16 1.
Proof.
  split; [vm_compute; reflexivity |].
  apply (smoothstepSkip_curve 32 16 1); lia.
Defined.

(** C10: a lifecycle transition made under c.mu is atomic with respect to the
    lock-free warmup writers, as long as it does not watch lcReady or
    lcNeedsWarmup: in every interleaving the call ends without
    errLifecycleConflict and with the requested bits in force, it takes at most
    2 + 3e steps when the others take e, and its steps never touch the warmup
    managers or any bit outside set|clr. The transition of OnFailure does watch
    them, and [onFailure_lifecycle_conflict] shows it failing. *)
Theorem casLifecycle_vs_warmup w0 conflict set clr e t w pc :
  lc_bits set ->
  Z.land (conflict ||| set ||| clr) (lcReady ||| lcNeedsWarmup) = 0 ->
  let '(fr, pc0) := cas_start w0 conflict set clr in
  cas_exec (fun a b => warmup_writer a b /\ int64_range b) fr e t (w0, pc0) (w, pc) ->
  (t <= 2 + 3 * e)%nat /\
  (forall err, pc = CasDone err ->
     err <> Some errLifecycleConflict /\
     Z.land (lifecycle w) (set ||| clr) = Z.ldiff set clr) /\
  lifecycleManager (cas_step fr w pc).1 = lifecycleManager w /\
  roundManager (cas_step fr w pc).1 = roundManager w /\
  Z.ldiff (lifecycle (cas_step fr w pc).1) (set ||| clr) = Z.ldiff (lifecycle w) (set ||| clr).
Proof.
  intros Hset Hm. destruct (cas_start w0 conflict set clr) as [fr pc0] eqn:Hst. intros Hex.
  pose proof (cas_exec_potential _ _ _ _ _ _ Hex) as Hpot.
  assert (fr = (cas_start w0 conflict set clr).1 /\ pc0 = (cas_start w0 conflict set clr).2)
    as [Hfr Hpc0] by by rewrite Hst.
  assert (cas_potential (w0, pc0) = 2%nat) as Hp0.
  { rewrite Hpc0. cbn. by rewrite decide_True. }
  rewrite Hfr, Hpc0 in Hex. apply cas_exec_inv in Hex as Hinv; [| done |].
  2: { intros a b [Hab Hb]. split; [by eapply warmup_writer_bits | done]. }
  split; [lia |]. split.
  - intros err ->. destruct Hinv as [Hne Hf]. split; [done |].
    unfold cas_in_force in Hf. apply Z.bits_inj'. intros i Hi.
    apply (f_equal (fun x => Z.testbit x i)) in Hf. unfold cas_next in Hf.
    cbn [fst] in Hf. rewrite !Z.land_spec, Z.ldiff_spec, !Z.lor_spec, !Z.land_spec, !Z.lor_spec in Hf.
    rewrite Z.land_spec, Z.ldiff_spec, Z.lor_spec.
    destruct (Z.testbit (lifecycle w) i), (Z.testbit (lifecycle w0) i),
      (Z.testbit set i), (Z.testbit clr i), (Z.testbit conflict i); done.
  - eapply cas_step_frame; [done | exact Hinv].
Qed.

(** The transition of demoteOverloaded (set lcStandby|lcOverloaded, clear
    lcActive) racing one warmup tick: the swap is retried once and succeeds,
    keeping the tick. *)
Lemma demote_race_exec :
  let w0 := warmupState lcActive 4 8 in
  let start := cas_start w0 0 (lcStandby ||| lcOverloaded) lcActive in
  cas_exec (fun a b => warmup_writer a b /\ int64_range b) start.1 1 5 (w0, start.2)
    (withLifecycle (tryWarmupSkip w0).1 (lcStandby ||| lcOverloaded), CasDone None).
Proof.
  intros w0 start. set (w1 := (tryWarmupSkip w0).1).
  set (t0 := withLifecycle w0 (lcStandby ||| lcOverloaded)).
  set (t1 := withLifecycle w1 (lcStandby ||| lcOverloaded)).
  eapply (exec_thread_eq _ _ 1 4 _ w1 (CasSwap w1 t1)); [vm_compute; reflexivity | done |].
  eapply (exec_thread_eq _ _ 1 3 _ w1 (CasCheck w1)); [vm_compute; reflexivity | done |].
  eapply (exec_thread_eq _ _ 1 2 _ w1 CasReload); [vm_compute; reflexivity | done |].
  eapply (exec_thread_eq _ _ 1 1 _ w1 (CasSwap w0 t0)); [vm_compute; reflexivity | done |].
  eapply exec_env; [| split; [apply (writer_tick w0) | by apply tryWarmupSkip_int64]].
  eapply (exec_thread_eq _ _ 0 0 _ w0 (CasCheck w0)); [vm_compute; reflexivity | done |].
  apply exec_refl.
Qed.

Lemma casLifecycle_vs_warmup_witness :
  let w0 := warmupState lcActive 4 8 in
  let w2 := withLifecycle (tryWarmupSkip w0).1 (lcStandby ||| lcOverloaded) in
  roundManager w2 <> roundManager w0 /\
  Z.land (lifecycle w2) (lcStandby ||| lcOverloaded ||| lcActive) =
    Z.ldiff (lcStandby ||| lcOverloaded) lcActive.
Proof.
  intros w0 w2. split; [vm_compute; congruence |].
  pose proof (casLifecycle_vs_warmup w0 0 (lcStandby ||| lcOverloaded) lcActive 1 5 w2 (CasDone None)
    ltac:(split; vm_compute; congruence) ltac:(vm_compute; reflexivity) demote_race_exec) as H.
  exact (proj2 (proj1 (proj2 H) None eq_refl)).
Defined.

(** the same transition is not safe when it watches lcReady. OnFailure
    sets lcDead|lcNeedsWarmup|lcNeedsHardware and clears
    lcReady|lcActive|lcStandby|lcOverloaded under c.mu; a request that completes
    the connection's warmup between OnFailure's load and its swap sets lcReady
    without the lock, the call answers errLifecycleConflict, and OnFailure
    returns without demoting the failed connection. *)
Theorem onFailure_lifecycle_conflict :
  exists w0 w,
    let '(fr, pc0) := cas_start w0 0 (lcDead ||| lcNeedsWarmup ||| lcNeedsHardware)
                        (lcReady ||| lcActive ||| lcStandby ||| lcOverloaded) in
    cas_exec (fun a b => b = (tryWarmupSkip a).1) fr 1 4 (w0, pc0)
      (w, CasDone (Some errLifecycleConflict)) /\
    has (lifecycle w) lcActive = true /\ has (lifecycle w) lcUnknown = false.
Proof.
  set (w0 := packConnState (lcActive ||| lcNeedsWarmup) (4 * 256 + 8) (1 * 256)).
  exists w0, (tryWarmupSkip w0).1.
  destruct (cas_start w0 0 (lcDead ||| lcNeedsWarmup ||| lcNeedsHardware)
    (lcReady ||| lcActive ||| lcStandby ||| lcOverloaded)) as [fr pc0] eqn:Hst.
  injection Hst as <- <-. split; [| vm_compute; done].
  set (w1 := (tryWarmupSkip w0).1).
  set (t0 := withLifecycle w0 (lcDead ||| lcNeedsWarmup ||| lcNeedsHardware)).
  eapply (exec_thread_eq _ _ 1 3 _ w1 (CasCheck w1)); [vm_compute; reflexivity | done |].
  eapply (exec_thread_eq _ _ 1 2 _ w1 CasReload); [vm_compute; reflexivity | done |].
  eapply (exec_thread_eq _ _ 1 1 _ w1 (CasSwap w0 t0)); [vm_compute; reflexivity | done |].
  eapply exec_env; [| reflexivity].
  eapply (exec_thread_eq _ _ 0 0 _ w0 (CasCheck w0)); [vm_compute; reflexivity | done |].
  apply exec_refl.
Qed.
