(* ===== verification/ShardHash.v ===== *)
(** opensearchutil/shardhash: MurmurHash3 x86 32-bit in signed 32-bit
    arithmetic, the UTF-16LE encoding of a routing value, and the shard number
    computed from it; opensearchtransport/murmur3.go delegates to it.

    A Go string is its bytes, a [list Z] of values in [0, 256). Reads and
    writes outside a slice, and division by zero, are panics ([None]). *)

From stdpp Require Import base list.
From Stdlib Require Import ZArith Lia Znumtheory.
From S2P Require Import Prelude.
From S2P Require Import GoStrings.

Open Scope Z_scope.

Notation gostring := (list Z).

(** * MurmurHash3 *)

Definition c1 : Z := -862048943.
Definition c2 : Z := 0x1b873593.

(** [(k << r) | int32(uint32(k) >> (32-r))] *)
Definition rot (k r : Z) : Z :=
  Z.lor (wrap32 (Z.shiftl k r)) (wrap32 (Z.shiftr (u32 k) (32 - r))).

(** data[i] *)
Definition byte_at (data : gostring) (i : nat) : option Z := data !! i.

(** The scrambling of a block: k1 *= c1; rotate 15; k1 *= c2. *)
Definition mix_k1 (k1 : Z) : Z :=
  let k1 := wrap32 (k1 * c1) in
  let k1 := rot k1 15 in
  wrap32 (k1 * c2).

(** One iteration of the body loop at block [i]. *)
Definition murmur_block (data : gostring) (i : nat) (h1 : Z) : option Z :=
  let offset := (i * 4)%nat in
  b0 ← byte_at data offset;
  b1 ← byte_at data (offset + 1)%nat;
  b2 ← byte_at data (offset + 2)%nat;
  b3 ← byte_at data (offset + 3)%nat;
  let k1 := Z.lor (Z.lor (Z.lor b0 (wrap32 (Z.shiftl b1 8))) (wrap32 (Z.shiftl b2 16)))
                  (wrap32 (Z.shiftl b3 24)) in
  let h1 := Z.lxor h1 (mix_k1 k1) in
  let h1 := rot h1 13 in
  Some (wrap32 (h1 * 5 + -430675100)).

Fixpoint murmur_body (data : gostring) (i n : nat) (h1 : Z) : option Z :=
  match n with
  | O => Some h1
  | S n' => h1' ← murmur_block data i h1; murmur_body data (S i) n' h1'
  end.

(** The switch on length & 3 with its fallthroughs. *)
Definition murmur_tail (data : gostring) (tail : nat) (rem : nat) (h1 : Z) : option Z :=
  let case1 (k1 : Z) : option Z :=
    b0 ← byte_at data tail;
    let k1 := Z.lxor k1 b0 in
    Some (Z.lxor h1 (mix_k1 k1)) in
  let case2 (k1 : Z) : option Z :=
    b1 ← byte_at data (tail + 1)%nat;
    case1 (Z.lxor k1 (wrap32 (Z.shiftl b1 8))) in
  let case3 (k1 : Z) : option Z :=
    b2 ← byte_at data (tail + 2)%nat;
    case2 (Z.lxor k1 (wrap32 (Z.shiftl b2 16))) in
  match rem with
  | 3%nat => case3 0
  | 2%nat => case2 0
  | 1%nat => case1 0
  | _ => Some h1
  end.

Definition fmix32 (h : Z) : Z :=
  let h := Z.lxor h (wrap32 (Z.shiftr (u32 h) 16)) in
  let h := wrap32 (h * -2048144789) in
  let h := Z.lxor h (wrap32 (Z.shiftr (u32 h) 13)) in
  let h := wrap32 (h * -1028477387) in
  Z.lxor h (wrap32 (Z.shiftr (u32 h) 16)).

Definition murmurhash3X86_32 (data : gostring) (seed : Z) : option Z :=
  let length := length data in
  let nblocks := (length / 4)%nat in
  h1 ← murmur_body data 0 nblocks seed;
  let tail := (nblocks * 4)%nat in
  h1 ← murmur_tail data tail (length mod 4)%nat h1;
  let h1 := Z.lxor h1 (wrap32 (Z.of_nat length)) in
  Some (fmix32 h1).

(** * Strings: Go's range loop over UTF-8, and UTF-16LE *)

Definition RuneError : Z := 0xFFFD.
Definition is_cont (lo hi b : Z) : bool := (lo <=? b) && (b <=? hi).

(** One step of Go's [range] over a string: the rune at the head of a
    non-empty byte string and its width. Invalid or truncated encodings give
    U+FFFD and advance by one byte (Go language specification; the accepted
    second-byte ranges exclude overlong forms and surrogates). *)
Definition decode_rune (b0 : Z) (rest : gostring) : Z * nat :=
  let second_range : Z * Z :=
    if b0 =? 0xE0 then (0xA0, 0xBF) else if b0 =? 0xED then (0x80, 0x9F)
    else if b0 =? 0xF0 then (0x90, 0xBF) else if b0 =? 0xF4 then (0x80, 0x8F)
    else (0x80, 0xBF) in
  if b0 <? 0x80 then (b0, 1%nat)
  else match rest with
  | b1 :: rest1 =>
    if negb (is_cont second_range.1 second_range.2 b1) then (RuneError, 1%nat)
    else if (0xC2 <=? b0) && (b0 <=? 0xDF) then
      (Z.lor (Z.shiftl (Z.land b0 0x1F) 6) (Z.land b1 0x3F), 2%nat)
    else match rest1 with
    | b2 :: rest2 =>
      if negb (is_cont 0x80 0xBF b2) then (RuneError, 1%nat)
      else if (0xE0 <=? b0) && (b0 <=? 0xEF) then
        (Z.lor (Z.lor (Z.shiftl (Z.land b0 0x0F) 12) (Z.shiftl (Z.land b1 0x3F) 6))
               (Z.land b2 0x3F), 3%nat)
      else match rest2 with
      | b3 :: _ =>
        if negb (is_cont 0x80 0xBF b3) then (RuneError, 1%nat)
        else if (0xF0 <=? b0) && (b0 <=? 0xF4) then
          (Z.lor (Z.lor (Z.lor (Z.shiftl (Z.land b0 0x07) 18) (Z.shiftl (Z.land b1 0x3F) 12))
                        (Z.shiftl (Z.land b2 0x3F) 6)) (Z.land b3 0x3F), 4%nat)
        else (RuneError, 1%nat)
      | [] => (RuneError, 1%nat)
      end
    | [] => (RuneError, 1%nat)
    end
  | [] => (RuneError, 1%nat)
  end.

(** The runes the range loop visits; the fuel is the number of bytes. *)
Fixpoint runes_fuel (fuel : nat) (s : gostring) : list Z :=
  match fuel, s with
  | S f, b0 :: rest => let '(r, w) := decode_rune b0 rest in r :: runes_fuel f (drop w s)
  | _, _ => []
  end.
Definition runes (s : gostring) : list Z := runes_fuel (length s) s.

(** buf[j] = byte(v) *)
Definition buf_set (buf : gostring) (j : nat) (v : Z) : option gostring :=
  if decide (j < length buf)%nat then Some (<[j := u8 v]> buf) else None.

(** The body of the encoding loop for one rune: the new buffer and index. *)
Definition encode_rune (r : Z) (buf : gostring) (j : nat) : option (gostring * nat) :=
  if r <=? 0xFFFF then
    buf ← buf_set buf j r;
    buf ← buf_set buf (j + 1)%nat (Z.shiftr r 8);
    Some (buf, (j + 2)%nat)
  else
    let r := r - 0x10000 in
    let hi := 0xD800 + Z.land (Z.shiftr r 10) 0x3FF in
    let lo := 0xDC00 + Z.land r 0x3FF in
    buf ← buf_set buf j hi;
    buf ← buf_set buf (j + 1)%nat (Z.shiftr hi 8);
    buf ← buf_set buf (j + 2)%nat lo;
    buf ← buf_set buf (j + 3)%nat (Z.shiftr lo 8);
    Some (buf, (j + 4)%nat).

Fixpoint encode_runes (rs : list Z) (buf : gostring) (j : nat) : option (gostring * nat) :=
  match rs with
  | [] => Some (buf, j)
  | r :: rs' => '(buf, j) ← encode_rune r buf j; encode_runes rs' buf j
  end.

(** The buffer is the zeroed 128-byte stack array or a fresh slice of the same
    length: [n] zero bytes either way. *)
Definition Hash (routing : gostring) : option Z :=
  let n := (length routing * 2)%nat in
  '(buf, j) ← encode_runes (runes routing) (replicate n 0) 0;
  murmurhash3X86_32 (take j buf) 0.

Definition floorMod (a b : Z) : option Z :=
  if b =? 0 then None
  else
    let m := Z.rem a b in
    Some (if m <? 0 then wrap64 (m + b) else m).

Definition ForRouting (routing : gostring) (routingNumShards numPrimaryShards : Z) : option Z :=
  hash ← Hash routing;
  if numPrimaryShards =? 0 then None
  else
    let routingFactor := wrap64 (Z.quot routingNumShards numPrimaryShards) in
    m ← floorMod hash routingNumShards;
    if routingFactor =? 0 then None else Some (wrap64 (Z.quot m routingFactor)).

Definition opensearchShardHash (routing : gostring) : option Z := Hash routing.
Definition shardForRouting (routing : gostring) (routingNumShards numPrimaryShards : Z) : option Z :=
  ForRouting routing routingNumShards numPrimaryShards.

(** * Reference definitions

    MurmurHash3 x86_32 as published, in unsigned 32-bit arithmetic and by
    recursion on the blocks; UTF-16LE by recursion on the code points. *)

Definition rotl32 (x r : Z) : Z := u32 (Z.lor (Z.shiftl x r) (Z.shiftr x (32 - r))).
Definition ref_mix (k : Z) : Z := u32 (rotl32 (u32 (k * 0xcc9e2d51)) 15 * 0x1b873593).
Definition ref_round (h k : Z) : Z := u32 (rotl32 (Z.lxor h (ref_mix k)) 13 * 5 + 0xe6546b64).
Definition le_word (bs : list Z) : Z := foldr (fun b acc => b + 256 * acc) 0 bs.
Fixpoint ref_blocks (data : list Z) (h : Z) : Z * list Z :=
  match data with
  | b0 :: b1 :: b2 :: b3 :: rest => ref_blocks rest (ref_round h (le_word [b0; b1; b2; b3]))
  | tail => (h, tail)
  end.
Definition ref_fmix (h : Z) : Z :=
  let h := Z.lxor h (Z.shiftr h 16) in
  let h := u32 (h * 0x85ebca6b) in
  let h := Z.lxor h (Z.shiftr h 13) in
  let h := u32 (h * 0xc2b2ae35) in
  Z.lxor h (Z.shiftr h 16).
Definition murmur3_x86_32 (data : list Z) (seed : Z) : Z :=
  let '(h, tail) := ref_blocks data seed in
  let h := match tail with [] => h | _ => Z.lxor h (ref_mix (le_word tail)) end in
  ref_fmix (Z.lxor h (u32 (Z.of_nat (length data)))).

Definition utf16le_rune (r : Z) : list Z :=
  if r <=? 0xFFFF then [r mod 256; r / 256 mod 256]
  else
    let hi := 0xD800 + (r - 0x10000) / 2 ^ 10 mod 2 ^ 10 in
    let lo := 0xDC00 + (r - 0x10000) mod 2 ^ 10 in
    [hi mod 256; hi / 256 mod 256; lo mod 256; lo / 256 mod 256].
Definition utf16le (rs : list Z) : list Z := rs ≫= utf16le_rune.

(** * Signed against unsigned *)

Lemma rot_u32 k r : 0 < r < 32 -> u32 (rot k r) = rotl32 (u32 k) r.
Proof.
  intros Hr. unfold rot, rotl32. change (u32 ?a = u32 ?b) with (eq32 a b).
  rewrite !eq32_wrap32. apply eq32_lor; [| done].
  apply eq32_shiftl; [lia |]. by rewrite eq32_of_u32.
Qed.

Lemma u32_mul_const a c c' : eq32 c c' -> u32 (wrap32 (a * c)) = u32 (u32 a * c').
Proof.
  intros H. rewrite u32_wrap32. change (u32 ?x = u32 ?y) with (eq32 x y).
  by rewrite H, eq32_of_u32.
Qed.

Lemma mix_k1_u32 k : u32 (mix_k1 k) = ref_mix (u32 k).
Proof.
  unfold mix_k1, ref_mix. rewrite (u32_mul_const _ _ 0x1b873593), rot_u32 by done.
  by rewrite (u32_mul_const _ _ 0xcc9e2d51).
Qed.

Lemma u32_lxor a b : u32 (Z.lxor a b) = Z.lxor (u32 a) (u32 b).
Proof.
  apply Z.bits_inj'. intros i Hi.
  rewrite !testbit_u32, !Z.lxor_spec, !testbit_u32. by destruct (i <? 32).
Qed.

Lemma u32_shiftr a k : 0 <= k -> u32 (wrap32 (Z.shiftr (u32 a) k)) = Z.shiftr (u32 a) k.
Proof.
  intros Hk. rewrite u32_wrap32. apply u32_id. pose proof (u32_range a).
  rewrite Z.shiftr_div_pow2 by done. split; [apply Z.div_pos; lia |].
  apply Z.div_lt_upper_bound; [lia |]. pose proof (Z.pow_pos_nonneg 2 k). nia.
Qed.

Lemma round_u32 h k :
  u32 (wrap32 (rot (Z.lxor h (mix_k1 k)) 13 * 5 + -430675100)) = ref_round (u32 h) (u32 k).
Proof.
  unfold ref_round. rewrite u32_wrap32.
  rewrite <- mix_k1_u32, <- u32_lxor, <- rot_u32 by done.
  change (u32 ?a = u32 ?b) with (eq32 a b). apply eq32_add; [| done].
  by rewrite eq32_of_u32.
Qed.

Lemma fmix32_u32 h : u32 (fmix32 h) = ref_fmix (u32 h).
Proof.
  unfold fmix32, ref_fmix.
  rewrite u32_lxor, u32_shiftr, (u32_mul_const _ _ 0xc2b2ae35) by done.
  rewrite u32_lxor, u32_shiftr, (u32_mul_const _ _ 0x85ebca6b) by done.
  by rewrite u32_lxor, u32_shiftr by done.
Qed.

Lemma fmix32_int32 h : int32_range h -> int32_range (fmix32 h).
Proof. intros. unfold fmix32. apply lxor_int32; apply wrap32_range || apply lxor_int32; apply wrap32_range. Qed.

(** * The body and the tail *)

Lemma le_word_cons b bs : le_word (b :: bs) = b + 256 * le_word bs.
Proof. done. Qed.

Lemma block_word_u32 b0 b1 b2 b3 :
  is_byte b0 -> is_byte b1 -> is_byte b2 -> is_byte b3 ->
  u32 (Z.lor (Z.lor (Z.lor b0 (wrap32 (Z.shiftl b1 8))) (wrap32 (Z.shiftl b2 16)))
             (wrap32 (Z.shiftl b3 24))) = le_word [b0; b1; b2; b3].
Proof.
  unfold is_byte. intros. change (u32 ?a = ?b) with (u32 a = b).
  transitivity (u32 (Z.lor (Z.lor (Z.lor b0 (Z.shiftl b1 8)) (Z.shiftl b2 16)) (Z.shiftl b3 24))).
  { change (u32 ?a = u32 ?b) with (eq32 a b). by rewrite !eq32_wrap32. }
  rewrite (lor_shiftl_add b0) by (cbn; lia).
  rewrite (lor_shiftl_add _ b2) by (cbn; lia).
  rewrite (lor_shiftl_add _ b3) by (cbn; lia).
  rewrite u32_id by (cbn; lia). cbn. lia.
Qed.

Lemma murmur_block_Some data i h b0 b1 b2 b3 rest :
  Forall is_byte data -> drop (i * 4) data = b0 :: b1 :: b2 :: b3 :: rest ->
  exists h', murmur_block data i h = Some h' /\
    u32 h' = ref_round (u32 h) (le_word [b0; b1; b2; b3]) /\ int32_range h'.
Proof.
  intros Hb Hd.
  assert (forall k, data !! (i * 4 + k)%nat = drop (i * 4) data !! k) as Hk
    by (intros; by rewrite lookup_drop).
  assert (Forall is_byte (b0 :: b1 :: b2 :: b3 :: rest)) as Hf by (rewrite <- Hd; by apply Forall_drop).
  rewrite !Forall_cons in Hf. destruct Hf as (? & ? & ? & ? & _).
  unfold murmur_block, byte_at.
  replace (data !! (i * 4)%nat) with (Some b0).
  2: { pose proof (Hk 0%nat) as E. rewrite Nat.add_0_r in E. by rewrite E, Hd. }
  rewrite !Hk, Hd. cbn -[Z.shiftl]. eexists. split; [reflexivity |].
  split; [by rewrite round_u32, block_word_u32 | apply wrap32_range].
Qed.

Lemma murmur_body_ref n : forall data i h,
  Forall is_byte data -> (i * 4 + n * 4 <= length data)%nat -> (length data < i * 4 + n * 4 + 4)%nat ->
  int32_range h ->
  exists h', murmur_body data i n h = Some h' /\ int32_range h' /\
    ref_blocks (drop (i * 4) data) (u32 h) = (u32 h', drop (i * 4 + n * 4) data).
Proof.
  induction n as [| n IH]; intros data i h Hb Hlo Hhi Hh; cbn [murmur_body].
  - exists h. split_and!; [done .. |]. rewrite Nat.mul_0_l, Nat.add_0_r.
    assert (length (drop (i * 4) data) < 4)%nat by (rewrite length_drop; lia).
    destruct (drop (i * 4) data) as [| ? [| ? [| ? [| ? ?]]]]; cbn in *; try done; lia.
  - assert (4 <= length (drop (i * 4) data))%nat by (rewrite length_drop; lia).
    destruct (drop (i * 4) data) as [| b0 [| b1 [| b2 [| b3 rest]]]] eqn:Hd; cbn in *; try lia.
    destruct (murmur_block_Some data i h b0 b1 b2 b3 rest Hb Hd) as (h1 & -> & Hr & Hh1).
    cbn. destruct (IH data (S i) h1) as (h' & -> & Hh' & Href); [done | lia .. | done |].
    exists h'. split_and!; [done .. |].
    assert (rest = drop (S i * 4) data) as ->.
    { replace (S i * 4)%nat with (i * 4 + 4)%nat by lia. by rewrite <- drop_drop, Hd. }
    cbn in Hr. rewrite <- Hr, Href. f_equal. f_equal. lia.
Qed.

(** The tail's xors are the little-endian word of the remaining bytes. *)
Lemma tail_word_u32 b0 b1 b2 :
  is_byte b0 -> is_byte b1 -> is_byte b2 ->
  u32 (Z.lxor (Z.lxor (Z.lxor 0 (wrap32 (Z.shiftl b2 16))) (wrap32 (Z.shiftl b1 8))) b0) =
    b0 + 256 * (b1 + 256 * (b2 + 256 * 0)).
Proof.
  intros H0 H1 H2. pose proof (block_word_u32 b0 b1 b2 0 H0 H1 H2 ltac:(done)) as H.
  cbn [le_word foldr] in H. replace (b0 + _) with (b0 + 256 * (b1 + 256 * (b2 + 256 * (0 + 256 * 0)))) by lia.
  rewrite <- H. rewrite Z.shiftl_0_l. change (wrap32 0) with 0. rewrite Z.lxor_0_l, Z.lor_0_r.
  apply eq32_bits. intros i Hi. unfold is_byte in *.
  rewrite !Z.lxor_spec, !Z.lor_spec, !testbit_wrap32, !Z.shiftl_spec by lia.
  destruct (Z.lt_ge_cases i 8); [| destruct (Z.lt_ge_cases i 16)].
  - rewrite !(Z.testbit_neg_r b1), !(Z.testbit_neg_r b2) by lia. by destruct (Z.testbit b0 i).
  - rewrite !(Z.testbit_neg_r b2), (testbit_above b0 8 i) by (cbn; lia).
    by destruct (Z.testbit b1 (i - 8)).
  - rewrite (testbit_above b0 8 i), (testbit_above b1 8 (i - 8)) by (cbn; lia).
    by destruct (Z.testbit b2 (i - 16)).
Qed.

Lemma murmur_tail_ref data tail h :
  Forall is_byte data -> (tail <= length data)%nat -> (length data - tail < 4)%nat -> int32_range h ->
  exists h', murmur_tail data tail (length data - tail) h = Some h' /\ int32_range h' /\
    u32 h' = match drop tail data with
             | [] => u32 h
             | bs => Z.lxor (u32 h) (ref_mix (le_word bs))
             end.
Proof.
  intros Hb Hlo Hhi Hh.
  assert (forall k, data !! (tail + k)%nat = drop tail data !! k) as Hk
    by (intros; by rewrite lookup_drop).
  assert (length (drop tail data) = (length data - tail)%nat) as Hlen by apply length_drop.
  assert (Forall is_byte (drop tail data)) as Hf by by apply Forall_drop.
  rewrite <- Hlen in *. clear Hlo.
  pose proof (Hk 0%nat) as H0. rewrite Nat.add_0_r in H0.
  assert (forall k1 w, u32 k1 = w -> u32 (Z.lxor h (mix_k1 k1)) = Z.lxor (u32 h) (ref_mix w) /\
    int32_range (Z.lxor h (mix_k1 k1))) as Hfin.
  { intros k1 w <-. split; [by rewrite u32_lxor, mix_k1_u32 |].
    apply lxor_int32; [done | apply wrap32_range]. }
  unfold murmur_tail, byte_at. rewrite H0, !Hk. clear Hk H0.
  destruct (drop tail data) as [| b0 [| b1 [| b2 [| ? ?]]]]; cbn -[Z.shiftl Z.lxor] in *;
    try lia; [by exists h | ..];
    rewrite !Forall_cons in Hf; destruct_and? Hf;
    (eexists; split; [reflexivity |]; apply and_comm, Hfin).
  - rewrite Z.lxor_0_l, u32_id; unfold is_byte in *; lia.
  - exact (tail_word_u32 b0 b1 0 ltac:(done) ltac:(done) ltac:(done)).
  - by apply tail_word_u32.
Qed.

Lemma ref_blocks_tail_short data h : (length (ref_blocks data h).2 < 4)%nat.
Proof.
  revert h. induction data as [data IH] using (induction_ltof1 _ (@length Z)); intros h.
  destruct data as [| b0 [| b1 [| b2 [| b3 rest]]]]; cbn; try lia.
  apply IH. unfold ltof. cbn. lia.
Qed.

(** The Go function on any bytes computes the published hash. *)
Lemma murmurhash3_ref data seed :
  Forall is_byte data -> int32_range seed ->
  exists h, murmurhash3X86_32 data seed = Some h /\ int32_range h /\
    u32 h = murmur3_x86_32 data (u32 seed).
Proof.
  intros Hb Hs. unfold murmurhash3X86_32.
  pose proof (Nat.div_mod_eq (length data) 4). pose proof (Nat.mod_upper_bound (length data) 4 ltac:(lia)).
  destruct (murmur_body_ref (length data / 4) data 0 seed) as (h1 & -> & Hh1 & Href); [done | lia .. | done |].
  cbn [mbind option_bind].
  destruct (murmur_tail_ref data (length data / 4 * 4) h1) as (h2 & E & Hh2 & Htail); [done | lia .. | done |].
  replace (length data - length data / 4 * 4)%nat with (length data mod 4)%nat in E by lia.
  rewrite E. cbn [mbind option_bind]. eexists. split; [reflexivity |].
  assert (int32_range (Z.lxor h2 (wrap32 (Z.of_nat (length data))))) as Hx
    by (apply lxor_int32; [done | apply wrap32_range]).
  split; [by apply fmix32_int32 |].
  rewrite fmix32_u32, u32_lxor, u32_wrap32. unfold murmur3_x86_32.
  rewrite Nat.mul_0_l, Nat.add_0_l, drop_0 in Href. rewrite Href, Htail.
  by destruct (drop _ data).
Qed.

(** * The encoding loop *)

Lemma decode_rune_width b0 rest :
  is_byte b0 -> let '(r, w) := decode_rune b0 rest in
  (1 <= w)%nat /\ 0 <= r /\ (0xFFFF < r -> w = 4%nat).
Proof.
  intros Hb. unfold is_byte in *. unfold decode_rune, RuneError. cbn zeta.
  destruct (Z.ltb_spec b0 0x80); [lia |].
  assert (forall x n, 0 <= n -> 0 <= Z.land x (Z.ones n) < 2 ^ n) as Hl.
  { intros. rewrite Z.land_ones by done. apply Z.mod_pos_bound. lia. }
  set (sr := if b0 =? 0xE0 then _ else _). clearbody sr.
  destruct rest as [| x1 rest1]; [lia |].
  pose proof (Hl b0 5 ltac:(lia)) as H5. pose proof (Hl b0 4 ltac:(lia)) as H4.
  pose proof (Hl b0 3 ltac:(lia)) as H3. pose proof (Hl x1 6 ltac:(lia)) as Hx1.
  change (Z.ones 5) with 0x1F in H5. change (Z.ones 4) with 0x0F in H4.
  change (Z.ones 3) with 0x07 in H3. change (Z.ones 6) with 0x3F in Hx1.
  destruct (negb (is_cont sr.1 sr.2 x1)); [lia |].
  destruct ((0xC2 <=? b0) && (b0 <=? 0xDF)).
  { rewrite Z.lor_comm, lor_shiftl_add by (cbn in *; lia). cbn in *. lia. }
  destruct rest1 as [| x2 rest2]; [lia |].
  pose proof (Hl x2 6 ltac:(lia)) as Hx2. change (Z.ones 6) with 0x3F in Hx2.
  destruct (negb (is_cont 0x80 0xBF x2)); [lia |].
  destruct ((0xE0 <=? b0) && (b0 <=? 0xEF)).
  { rewrite (Z.lor_comm (Z.lor _ _)), (Z.lor_comm (Z.shiftl _ 12)), Z.lor_assoc.
    rewrite (lor_shiftl_add _ _ 6), lor_shiftl_add by (cbn in *; lia). cbn in *. lia. }
  destruct rest2 as [| x3 rest3]; [lia |].
  pose proof (Hl x3 6 ltac:(lia)) as Hx3. change (Z.ones 6) with 0x3F in Hx3.
  destruct (negb (is_cont 0x80 0xBF x3)); [lia |].
  destruct ((0xF0 <=? b0) && (b0 <=? 0xF4)); [| lia].
  split; [lia |]. split; [| done]. rewrite !Z.lor_nonneg, !Z.shiftl_nonneg. cbn in *. lia.
Qed.

Lemma buf_set_take buf j v :
  (j < length buf)%nat ->
  exists buf', buf_set buf j v = Some buf' /\ length buf' = length buf /\
    take (S j) buf' = take j buf ++ [u8 v].
Proof.
  intros Hj. unfold buf_set. rewrite decide_True by done. eexists. split; [reflexivity |].
  split; [apply length_insert |].
  rewrite (take_S_r _ _ (u8 v)) by (by apply list_lookup_insert_eq).
  by rewrite take_insert_ge by done.
Qed.

Ltac buf_step :=
  match goal with
  | |- context [buf_set ?b ?j ?v] =>
    let b' := fresh "buf" in let E := fresh "E" in let L := fresh "L" in let T := fresh "T" in
    destruct (buf_set_take b j v) as (b' & E & L & T); [lia |];
    rewrite E; cbn [mbind option_bind]
  end.

Lemma u8_shiftr8 r : u8 (Z.shiftr r 8) = r / 256 mod 256.
Proof. by rewrite Z.shiftr_div_pow2. Qed.

Lemma encode_rune_spec r buf j :
  0 <= r -> (j + length (utf16le_rune r) <= length buf)%nat ->
  exists buf', encode_rune r buf j = Some (buf', (j + length (utf16le_rune r))%nat) /\
    length buf' = length buf /\
    take (j + length (utf16le_rune r)) buf' = take j buf ++ utf16le_rune r.
Proof.
  intros Hr. unfold encode_rune, utf16le_rune. destruct (Z.leb_spec r 0xFFFF); cbn [length]; intros Hj.
  - repeat buf_step. eexists. split; [reflexivity |]. split; [lia |].
    replace (j + 2)%nat with (S (j + 1)) by lia. rewrite T0, Nat.add_1_r, T.
    rewrite u8_shiftr8. by rewrite <- app_assoc.
  - change 0x3FF with (Z.ones 10). rewrite !Z.land_ones, !Z.shiftr_div_pow2 by done.
    repeat buf_step. eexists. split; [reflexivity |]. split; [lia |].
    replace (j + 4)%nat with (S (j + 3)) by lia. rewrite T2.
    replace (j + 3)%nat with (S (j + 2)) by lia. rewrite T1.
    replace (j + 2)%nat with (S (j + 1)) by lia. rewrite T0.
    replace (j + 1)%nat with (S j) by lia. rewrite T.
    by rewrite <- !app_assoc.
Qed.

Lemma encode_runes_spec rs : forall buf j,
  Forall (fun r => 0 <= r) rs -> (j + length (utf16le rs) <= length buf)%nat ->
  exists buf', encode_runes rs buf j = Some (buf', (j + length (utf16le rs))%nat) /\
    take (j + length (utf16le rs)) buf' = take j buf ++ utf16le rs.
Proof.
  induction rs as [| r rs IH]; intros buf j Hrs Hj; cbn [encode_runes].
  - cbn. rewrite Nat.add_0_r, app_nil_r. by eexists.
  - apply Forall_cons in Hrs as [Hr Hrs].
    change (utf16le (r :: rs)) with (utf16le_rune r ++ utf16le rs) in *.
    rewrite length_app in *.
    destruct (encode_rune_spec r buf j Hr) as (b1 & E & L & T); [lia |]. rewrite E.
    cbn [mbind option_bind].
    destruct (IH b1 (j + length (utf16le_rune r))%nat Hrs) as (b2 & E2 & T2); [lia |].
    rewrite E2, Nat.add_assoc. eexists. split; [reflexivity |].
    by rewrite T2, T, <- app_assoc.
Qed.

(** Two bytes of UTF-16 per byte of UTF-8 are always enough. *)
Lemma runes_fuel_bound n : forall s,
  Forall is_byte s -> (length s <= n)%nat ->
  Forall (fun r => 0 <= r) (runes_fuel n s) /\
  (length (utf16le (runes_fuel n s)) <= 2 * length s)%nat.
Proof.
  induction n as [| n IH]; intros s Hs Hn; [split; [constructor | cbn; lia] |].
  destruct s as [| b0 rest]; [split; [constructor | cbn; lia] |].
  cbn [runes_fuel]. pose proof (decode_rune_width b0 rest) as Hw.
  apply Forall_cons in Hs as Hs'. destruct Hs' as [Hb0 Hrest]. specialize (Hw Hb0).
  destruct (decode_rune b0 rest) as [r w] eqn:Hd. destruct Hw as (Hw1 & Hr & Hw4).
  destruct (IH (drop w (b0 :: rest))) as [IH1 IH2];
    [by apply Forall_drop | rewrite length_drop; cbn in *; lia |].
  split; [by constructor |].
  change (utf16le (r :: ?l)) with (utf16le_rune r ++ utf16le l).
  rewrite length_app, length_drop in *. cbn [length] in *.
  assert (w <= S (length rest))%nat as Hwl.
  { revert Hd. unfold decode_rune. cbn zeta. clear.
    destruct rest as [| ? [| ? [| ? ?]]]; cbn [length]; split_ifs; intros [= <- <-]; lia. }
  assert (length (utf16le_rune r) <= 2 * w)%nat; [| lia].
  unfold utf16le_rune. destruct (Z.leb_spec r 0xFFFF); cbn; lia.
Qed.

Lemma utf16le_rune_bytes r : Forall is_byte (utf16le_rune r).
Proof.
  unfold utf16le_rune. destruct (r <=? 0xFFFF);
    repeat (apply Forall_cons_2 || apply Forall_nil_2); by apply Z.mod_pos_bound.
Qed.

Lemma utf16le_bytes rs : Forall is_byte (utf16le rs).
Proof. apply Forall_bind, Forall_true. intros r. apply utf16le_rune_bytes. Qed.

Lemma Hash_spec routing :
  Forall is_byte routing ->
  exists h, Hash routing = Some h /\ int32_range h /\
    u32 h = murmur3_x86_32 (utf16le (runes routing)) 0.
Proof.
  intros Hb. unfold Hash.
  destruct (runes_fuel_bound (length routing) routing Hb ltac:(lia)) as [Hr Hl].
  destruct (encode_runes_spec (runes routing) (replicate (length routing * 2) 0) 0 Hr)
    as (buf & E & T); [unfold runes; rewrite length_replicate; lia |].
  rewrite E. cbn [mbind option_bind]. cbn [Nat.add] in *. rewrite T. cbn [take app].
  apply murmurhash3_ref; [apply utf16le_bytes |]. unfold int32_range. lia.
Qed.

(** * Properties *)

(** C12: Hash never panics (all its slice reads and writes are in bounds, for
    every byte string, valid UTF-8 or not, including the 2n-byte buffer) and
    computes, in signed arithmetic, the published unsigned MurmurHash3 x86_32
    with seed 0 of the UTF-16LE encoding of the routing value. *)
Theorem Hash_is_murmur3 routing :
  Forall is_byte routing ->
  exists h, Hash routing = Some h /\ int32_range h /\
    u32 h = murmur3_x86_32 (utf16le (runes routing)) 0.
Proof. apply Hash_spec. Qed.

(** The vectors of the repository's tests for "hell" and a truncated, invalid
    byte string. *)
Lemma Hash_is_murmur3_witness :
  Hash [104; 101; 108; 108] = Some 0x5a0cb7c3 /\
  exists h, Hash [0xF0; 0x9F; 0xFF] = Some h /\ int32_range h /\
    u32 h = murmur3_x86_32 [0xFD; 0xFF; 0xFD; 0xFF; 0xFD; 0xFF] 0.
Proof.
  split; [vm_compute; reflexivity |].
  apply (Hash_is_murmur3 [0xF0; 0x9F; 0xFF]). repeat constructor; unfold is_byte; lia.
Defined.

Lemma floorMod_mod a b : 0 < b < 2 ^ 62 -> int32_range a -> floorMod a b = Some (a mod b).
Proof.
  intros Hb Ha. unfold floorMod. destruct (Z.eqb_spec b 0); [lia |]. f_equal. cbn zeta.
  pose proof (Z.rem_bound_abs a b ltac:(lia)) as Hr.
  pose proof (Z.quot_rem' a b) as Hq. pose proof (Z.mod_pos_bound a b ltac:(lia)).
  pose proof (Z.div_mod a b ltac:(lia)).
  destruct (Z.ltb_spec (Z.rem a b) 0) as [Hn | Hn].
  - rewrite wrap64_id by (unfold int64_range; lia).
    apply (Z.mod_unique _ _ (Z.quot a b - 1)); lia.
  - apply (Z.mod_unique _ _ (Z.quot a b)); lia.
Qed.

Lemma ForRouting_val routing rns p :
  Forall is_byte routing -> 0 < p <= rns -> rns < 2 ^ 62 ->
  exists h, Hash routing = Some h /\ int32_range h /\
    ForRouting routing rns p = Some (h mod rns / (rns / p)).
Proof.
  intros Hb Hp Hr. destruct (Hash_spec routing Hb) as (h & E & Hh & _).
  exists h. split_and!; [done .. |]. unfold ForRouting. rewrite E. cbn [mbind option_bind].
  destruct (Z.eqb_spec p 0); [lia |].
  assert (0 < rns / p <= rns) as Hq.
  { split; [apply Z.div_str_pos; lia |]. apply Z.div_le_upper_bound; nia. }
  rewrite Z.quot_div_nonneg, wrap64_id by (unfold int64_range; lia).
  rewrite floorMod_mod by (done || lia). cbn [mbind option_bind].
  destruct (Z.eqb_spec (rns / p) 0); [lia |].
  pose proof (Z.mod_pos_bound h rns ltac:(lia)).
  assert (0 <= h mod rns / (rns / p) <= h mod rns).
  { split; [apply Z.div_pos; lia |]. apply Z.div_le_upper_bound; nia. }
  rewrite Z.quot_div_nonneg, wrap64_id by (unfold int64_range; lia). done.
Qed.

(** for an index whose primary count divides its routing shard count,
    ForRouting returns a valid primary shard number, and splitting the index by
    a factor k sends every document of shard s to one of the shards
    s*k .. s*k + k-1. *)
Theorem ForRouting_split routing p k f :
  Forall is_byte routing -> 0 < p -> 0 < k -> 0 < f -> p * k * f < 2 ^ 62 ->
  exists s s', ForRouting routing (p * k * f) p = Some s /\
    ForRouting routing (p * k * f) (p * k) = Some s' /\
    0 <= s < p /\ 0 <= s' < p * k /\ s' / k = s.
Proof.
  intros Hb Hp Hk Hf Hr.
  assert (0 < k * f /\ 0 < p * k /\ 0 < p * k * f) as (Hkf & Hpk & HN)
    by (split_and!; repeat apply Z.mul_pos_pos; lia).
  assert (p <= p * k * f) as Hle1 by (rewrite <- Z.mul_assoc; apply Z.le_mul_diag_r; lia).
  assert (p * k <= p * k * f) as Hle2 by (apply Z.le_mul_diag_r; lia).
  destruct (ForRouting_val routing (p * k * f) p) as (h & E & Hh & E1); [done | lia | done |].
  destruct (ForRouting_val routing (p * k * f) (p * k)) as (h2 & E' & _ & E2); [done | lia | done |].
  assert (h2 = h) as -> by congruence.
  exists (h mod (p * k * f) / (k * f)), (h mod (p * k * f) / f).
  pose proof (Z.mod_pos_bound h (p * k * f) HN) as Hm.
  replace (p * k * f / p) with (k * f) in E1 by (apply Z.div_unique_exact; [lia | ring]).
  replace (p * k * f / (p * k)) with f in E2 by (apply Z.div_unique_exact; [lia | ring]).
  set (m := h mod (p * k * f)) in *. clearbody m.
  split_and!; [done | done | apply Z.div_pos; lia |
    apply Z.div_lt_upper_bound; [lia | replace (k * f * p) with (p * k * f) by ring; lia] |
    apply Z.div_pos; lia |
    apply Z.div_lt_upper_bound; [lia | replace (f * (p * k)) with (p * k * f) by ring; lia] |].
  rewrite Z.div_div by lia. by rewrite Z.mul_comm.
Qed.

(** The 5-shard index of the source's comment: 640 routing shards, factor 128;
    document "hello". *)
Lemma ForRouting_split_witness :
  ForRouting [104; 101; 108; 108; 111] 640 5 = Some 4 /\
  exists s s', ForRouting [104; 101; 108; 108; 111] (5 * 2 * 64) 5 = Some s /\
    ForRouting [104; 101; 108; 108; 111] (5 * 2 * 64) (5 * 2) = Some s' /\
    0 <= s < 5 /\ 0 <= s' < 5 * 2 /\ s' / 2 = s.
Proof.
  split; [vm_compute; reflexivity |].
  apply (ForRouting_split [104; 101; 108; 108; 111] 5 2 64); try lia.
  repeat constructor; unfold is_byte; lia.
Defined.
