(* ===== verification/Rtt.v ===== *)
(** duration.go and connection_rtt.go: unit-typed durations, power-of-two RTT
    buckets, and the lock-free ring buffer of recent buckets with its median.

    time.Duration, durationNanos, durationMicros and rttBucket are integers;
    [None] is a run-time panic. *)

From stdpp Require Import base list sorting.
From Stdlib Require Import ZArith Lia.
From S2P Require Import Prelude.

Open Scope Z_scope.

(** * duration.go *)

Definition durationFromStd (d : Z) : Z := d.
Definition nanos_Micros (n : Z) : Z := Z.quot n 1000.
Definition nanos_Duration (n : Z) : Z := n.
Definition nanos_IsPositive (n : Z) : bool := 0 <? n.

Definition rttBucketFloor : Z := 8.
Definition rttBucketUnknown : Z := Z.shiftl 1 30.

(** math/bits.Len: the number of bits of an unsigned value. *)
Definition bits_Len (x : Z) : Z := if x =? 0 then 0 else Z.log2 x + 1.

Definition micros_Bucket (m : Z) : Z :=
  if m <=? 0 then rttBucketUnknown
  else
    let bucket := bits_Len m - 1 in
    if bucket <? rttBucketFloor then rttBucketFloor else bucket.
Definition micros_Nanos (m : Z) : Z := wrap64 (m * 1000).
Definition micros_Duration (m : Z) : Z := wrap64 (m * 1000).
Definition micros_IsPositive (m : Z) : bool := 0 <? m.

Definition bucket_IsUnknown (b : Z) : bool := b =? rttBucketUnknown.
(** [1 << uint(b)] in int64: a shift of 64 or more gives 0. *)
Definition bucket_Micros (b : Z) : Z :=
  if b <=? 0 then 0 else if 64 <=? b then 0 else wrap64 (Z.shiftl 1 b).
Definition bucket_Int64 (b : Z) : Z := b.
Definition rttBucketFromInt64 (v : Z) : Z := v.

Definition rttBucketOf (d : Z) : Z := micros_Bucket (nanos_Micros (durationFromStd d)).

(** * connection_rtt.go *)

Definition defaultRTTRingSize : Z := 12.

(** buckets: the slots; cursor: the int32 write counter. A nil ring is handled
    by the callers' option. *)
Record rttRing := RttRing { rr_buckets : list Z; rr_cursor : Z }.

Definition newRTTRing (size : Z) : rttRing :=
  let size := if size <=? 0 then 1 else size in
  RttRing (replicate (Z.to_nat size) (bucket_Int64 rttBucketUnknown)) 0.

Definition ring_add (r : rttRing) (d : Z) : option rttRing :=
  let bucket := micros_Bucket (nanos_Micros (durationFromStd d)) in
  let cursor := wrap32 (rr_cursor r + 1) in
  let n := Z.of_nat (length (rr_buckets r)) in
  if n =? 0 then None
  else
    let idx := Z.rem (wrap32 (cursor - 1)) n in
    if (0 <=? idx) && (idx <? n)
    then Some (RttRing (<[Z.to_nat idx := bucket_Int64 bucket]> (rr_buckets r)) cursor)
    else None.

(** r.buckets[((cur-1-i)%n + n) % n] for i < written, most recent first. *)
Fixpoint ring_collect (r : rttRing) (cur i : Z) (written : nat) : option (list Z) :=
  match written with
  | O => Some []
  | S w =>
    let n := Z.of_nat (length (rr_buckets r)) in
    let idx := Z.rem (Z.rem (cur - 1 - i) n + n) n in
    if idx <? 0 then None
    else
      v ← rr_buckets r !! Z.to_nat idx;
      vs ← ring_collect r cur (i + 1) w;
      Some (v :: vs)
  end.

Definition medianBucket (r : rttRing) : option Z :=
  let n := Z.of_nat (length (rr_buckets r)) in
  let cur := rr_cursor r in
  let written := Z.min cur n in
  if written =? 0 then Some rttBucketUnknown
  else if written <? 0 then None
  else
    vals ← ring_collect r cur 0 (Z.to_nat written);
    v ← merge_sort Z.le vals !! Z.to_nat (Z.quot written 2);
    Some (rttBucketFromInt64 v).

(** Connection.RTTMedian and Connection.RTTBucket on the connection's ring. *)
Definition RTTMedian (ring : option rttRing) : option Z :=
  match ring with
  | None => Some (-1)
  | Some r =>
    bucket ← medianBucket r;
    Some (if bucket_IsUnknown bucket then -1 else micros_Duration (bucket_Micros bucket))
  end.
Definition RTTBucket (ring : option rttRing) : option Z :=
  match ring with
  | None => Some (-1)
  | Some r =>
    bucket ← medianBucket r;
    Some (if bucket_IsUnknown bucket then -1 else bucket_Int64 bucket)
  end.

(** * Buckets *)

Lemma micros_Bucket_pos m :
  0 < m < 2 ^ 63 -> micros_Bucket m = Z.max rttBucketFloor (Z.log2 m) /\ 8 <= micros_Bucket m < 63.
Proof.
  intros Hm. assert (Z.log2 m < 63) by (apply Z.log2_lt_pow2; lia).
  unfold micros_Bucket, bits_Len, rttBucketFloor.
  destruct (Z.leb_spec m 0); [lia |]. destruct (Z.eqb_spec m 0); [lia |].
  destruct (Z.ltb_spec (Z.log2 m + 1 - 1) 8); lia.
Qed.

Lemma bucket_Micros_val b : 0 < b < 63 -> bucket_Micros b = 2 ^ b.
Proof.
  intros Hb. unfold bucket_Micros. destruct (Z.leb_spec b 0), (Z.leb_spec 64 b); try lia.
  rewrite Z.shiftl_1_l. apply wrap64_id. unfold int64_range.
  pose proof (Z.pow_pos_nonneg 2 b). pose proof (Z.pow_lt_mono_r 2 b 63). lia.
Qed.

(** * The ring holds the most recent measurements *)

(** [h] is the list of buckets written so far, oldest first. *)
Definition ring_repr (r : rttRing) (h : list Z) : Prop :=
  let n := length (rr_buckets r) in
  (0 < n)%nat /\ Z.of_nat (length h) < 2 ^ 31 /\ rr_cursor r = Z.of_nat (length h) /\
  forall i, (length h <= i + n)%nat -> (i < length h)%nat -> rr_buckets r !! (i mod n)%nat = h !! i.

Lemma newRTTRing_repr size : ring_repr (newRTTRing size) [].
Proof.
  unfold ring_repr, newRTTRing. cbn. rewrite length_replicate.
  split_and!; [destruct (Z.leb_spec size 0); lia | lia | done |]. intros; lia.
Qed.

Lemma mod_window_ne i j n : (i < j)%nat -> (j < i + n)%nat -> (i mod n)%nat <> (j mod n)%nat.
Proof.
  intros H1 H2 E. pose proof (Nat.div_mod_eq i n). pose proof (Nat.div_mod_eq j n).
  assert (i / n < j / n \/ i / n = j / n \/ j / n < i / n)%nat as [? | [? | ?]] by lia; nia.
Qed.

Lemma ring_add_repr r h d :
  ring_repr r h -> Z.of_nat (length h) + 1 < 2 ^ 31 ->
  exists r', ring_add r d = Some r' /\ ring_repr r' (h ++ [rttBucketOf d]) /\
    length (rr_buckets r') = length (rr_buckets r).
Proof.
  intros (Hn & Hh & Hc & Hslots) Hmax. unfold ring_add. rewrite Hc.
  rewrite (wrap32_id (Z.of_nat (length h) + 1)) by (unfold int32_range; lia).
  rewrite Z.add_simpl_r, wrap32_id by (unfold int32_range; lia).
  destruct (Z.eqb_spec (Z.of_nat (length (rr_buckets r))) 0); [lia |]. cbn zeta.
  rewrite Z.rem_mod_nonneg, <- Nat2Z.inj_mod by lia.
  pose proof (Nat.mod_upper_bound (length h) (length (rr_buckets r)) ltac:(lia)) as Hlt.
  destruct (Z.leb_spec 0 (Z.of_nat (length h mod length (rr_buckets r)))); [| lia].
  destruct (Z.ltb_spec (Z.of_nat (length h mod length (rr_buckets r)))
                       (Z.of_nat (length (rr_buckets r)))); [| lia].
  cbn [andb]. eexists. split; [reflexivity |]. rewrite Nat2Z.id. cbn [rr_buckets rr_cursor].
  split; [| apply length_insert].
  unfold ring_repr. cbn [rr_buckets rr_cursor]. rewrite length_insert, length_app. cbn [length].
  split_and!; [done | lia | lia |]. intros i Hi1 Hi2.
  destruct (decide (i = length h)) as [-> | Hne].
  - rewrite list_lookup_insert_eq by done. rewrite lookup_app_r by lia. by rewrite Nat.sub_diag.
  - rewrite list_lookup_insert_ne by (apply not_eq_sym, mod_window_ne; lia).
    rewrite lookup_app_l by lia. apply Hslots; lia.
Qed.

(** The window the median reads, most recent first. *)
Lemma ring_collect_repr r h (w : nat) : forall i : nat,
  ring_repr r h -> (i + w <= length h)%nat -> (i + w <= length (rr_buckets r))%nat ->
  ring_collect r (rr_cursor r) (Z.of_nat i) w = Some (take w (drop i (reverse h))).
Proof.
  induction w as [| w IH]; intros i Hr Hh Hn; [done |].
  pose proof Hr as (Hpos & _ & Hc & Hslots). cbn [ring_collect]. rewrite Hc.
  set (n := length (rr_buckets r)) in *.
  assert (Z.rem (Z.rem (Z.of_nat (length h) - 1 - Z.of_nat i) (Z.of_nat n) + Z.of_nat n) (Z.of_nat n)
    = Z.of_nat ((length h - 1 - i) mod n)) as ->.
  { replace (Z.of_nat (length h) - 1 - Z.of_nat i) with (Z.of_nat (length h - 1 - i)) by lia.
    rewrite (Z.rem_mod_nonneg (Z.of_nat (length h - 1 - i))) by lia.
    pose proof (Z.mod_pos_bound (Z.of_nat (length h - 1 - i)) (Z.of_nat n) ltac:(lia)).
    rewrite Z.rem_mod_nonneg by lia. rewrite Nat2Z.inj_mod.
    replace (Z.of_nat (length h - 1 - i) mod Z.of_nat n + Z.of_nat n)
      with (Z.of_nat (length h - 1 - i) mod Z.of_nat n + 1 * Z.of_nat n) by lia.
    by rewrite Z.mod_add, Z.mod_mod by lia. }
  destruct (Z.ltb_spec (Z.of_nat ((length h - 1 - i) mod n)) 0); [lia |].
  rewrite Nat2Z.id, Hslots by lia.
  assert (reverse h !! i = h !! (length h - 1 - i)%nat) as Hrev.
  { rewrite reverse_lookup by lia. f_equal. lia. }
  destruct (h !! (length h - 1 - i)%nat) as [v |] eqn:Hv;
    [| apply lookup_ge_None in Hv; lia].
  cbn [mbind option_bind]. rewrite <- Hc. replace (Z.of_nat i + 1) with (Z.of_nat (S i)) by lia.
  rewrite IH by (done || lia). cbn [mbind option_bind].
  by rewrite (drop_S (reverse h) v i) by done.
Qed.

(** The median of the last [min (writes) (ring size)] measurements. *)
Definition spec_median (n : nat) (h : list Z) : Z :=
  let recent := take n (reverse h) in
  match recent with
  | [] => rttBucketUnknown
  | _ => merge_sort Z.le recent !!! (length recent / 2)%nat
  end.

Lemma medianBucket_repr r h :
  ring_repr r h -> medianBucket r = Some (spec_median (length (rr_buckets r)) h).
Proof.
  intros Hr. pose proof Hr as (Hpos & Hmax & Hc & _). unfold medianBucket.
  set (n := length (rr_buckets r)) in *. unfold spec_median.
  assert (length (take n (reverse h)) = (n `min` length h)%nat) as Hlen
    by (rewrite length_take, length_reverse; lia).
  destruct (decide (length h = 0%nat)) as [Hz | Hz].
  - destruct h as [| ? ?]; [| done]. cbn [length] in Hc. rewrite Hc.
    rewrite Z.min_l by lia. rewrite reverse_nil. by rewrite take_nil.
  - destruct (Z.eqb_spec (Z.min (rr_cursor r) (Z.of_nat n)) 0); [lia |].
    destruct (Z.ltb_spec (Z.min (rr_cursor r) (Z.of_nat n)) 0); [lia |].
    replace (Z.to_nat (Z.min (rr_cursor r) (Z.of_nat n))) with (n `min` length h)%nat by lia.
    change 0 with (Z.of_nat 0) at 1.
    rewrite (ring_collect_repr r h) by (done || lia). rewrite drop_0. cbn [mbind option_bind].
    assert (take (n `min` length h) (reverse h) = take n (reverse h)) as ->.
    { destruct (Nat.le_ge_cases n (length h)); [by rewrite Nat.min_l |].
      rewrite Nat.min_r by done. rewrite !take_ge by (rewrite length_reverse; lia). done. }
    rewrite Z.quot_div_nonneg by lia.
    replace (Z.to_nat (Z.min (rr_cursor r) (Z.of_nat n) / 2)) with (length (take n (reverse h)) / 2)%nat.
    2: { rewrite Hlen, Hc, <- Nat2Z.inj_min, Z2Nat.inj_div, Nat2Z.id by lia. f_equal. lia. }
    destruct (take n (reverse h)) as [| x l] eqn:E; [cbn in Hlen; lia |].
    rewrite (list_lookup_lookup_total_lt (merge_sort Z.le (x :: l))); [done |].
    rewrite (merge_sort_Permutation Z.le (x :: l)). apply Nat.div_lt; cbn; lia.
Qed.

(** Writing a list of durations into a ring. *)
Fixpoint ring_adds (r : rttRing) (ds : list Z) : option rttRing :=
  match ds with [] => Some r | d :: ds' => r' ← ring_add r d; ring_adds r' ds' end.

Lemma ring_adds_repr ds : forall r h,
  ring_repr r h -> Z.of_nat (length h + length ds) < 2 ^ 31 ->
  exists r', ring_adds r ds = Some r' /\ ring_repr r' (h ++ map rttBucketOf ds) /\
    length (rr_buckets r') = length (rr_buckets r).
Proof.
  induction ds as [| d ds IH]; intros r h Hr Hmax; cbn [ring_adds].
  - exists r. by rewrite app_nil_r.
  - destruct (ring_add_repr r h d Hr) as (r1 & -> & Hr1 & Hl1); [cbn in *; lia |].
    cbn [mbind option_bind].
    destruct (IH r1 (h ++ [rttBucketOf d])) as (r2 & -> & Hr2 & Hl2);
      [done | rewrite length_app; cbn in *; lia |].
    exists r2. split_and!; [done | by rewrite <- app_assoc in Hr2 | congruence].
Qed.

(** * Properties *)

(** the RTT ring is a sliding-window median. After any sequence of fewer
    than 2^31 measurements on a fresh ring of a given size, no operation
    panics, and medianBucket is the upper median of the buckets of the last
    min(writes, size) measurements, unknown only before the first write. *)
Theorem rttRing_median size ds :
  0 < size -> Z.of_nat (length ds) < 2 ^ 31 ->
  exists r, ring_adds (newRTTRing size) ds = Some r /\
    medianBucket r = Some (spec_median (Z.to_nat size) (map rttBucketOf ds)) /\
    (ds = [] <-> take (Z.to_nat size) (reverse (map rttBucketOf ds)) = []).
Proof.
  intros Hs Hd.
  destruct (ring_adds_repr ds (newRTTRing size) [] (newRTTRing_repr size)) as (r & E & Hr & Hl);
    [cbn; lia |].
  exists r. split_and!; [done | |].
  - rewrite (medianBucket_repr r _ Hr), Hl. unfold newRTTRing. cbn [rr_buckets].
    rewrite length_replicate. by destruct (Z.leb_spec size 0); [lia |].
  - split; [intros ->; exact (take_nil _) |].
    destruct ds as [| d ds]; [done |]. intros H. apply (f_equal length) in H. rewrite length_take, length_reverse in H. cbn in H. lia.
Qed.

Lemma rttRing_median_witness :
  exists r, ring_adds (newRTTRing 3) [900000; 300000; 5000000; 20000000] = Some r /\
    medianBucket r = Some 12.
Proof.
  destruct (rttRing_median 3 [900000; 300000; 5000000; 20000000] ltac:(lia) ltac:(cbn; lia))
    as (r & E & M & _).
  exists r. split; [exact E |]. rewrite M. vm_compute. reflexivity.
Defined.

(** bucketing is a floor to a power of two. A positive microsecond count m
    falls in bucket max(8, floor(log2 m)); converting the bucket back gives a
    power of two p with p <= max(m, 256) < 2p, and no int64 overflow. *)
Theorem bucket_roundtrip m :
  0 < m < 2 ^ 63 ->
  let b := micros_Bucket m in
  b = Z.max 8 (Z.log2 m) /\ bucket_IsUnknown b = false /\
  bucket_Micros b = 2 ^ b /\ bucket_Micros b <= Z.max m 256 < 2 * bucket_Micros b /\
  micros_Bucket (bucket_Micros b) = b.
Proof.
  intros Hm. destruct (micros_Bucket_pos m Hm) as [Hb Hr]. cbn zeta.
  rewrite bucket_Micros_val by lia.
  assert (bucket_IsUnknown (micros_Bucket m) = false) as Hu.
  { unfold bucket_IsUnknown. apply Z.eqb_neq. change rttBucketUnknown with (2 ^ 30). lia. }
  pose proof (Z.log2_spec m ltac:(lia)) as Hl. rewrite Z.pow_succ_r in Hl by apply Z.log2_nonneg.
  split_and!; [done | done | done | | |].
  - rewrite Hb. unfold rttBucketFloor. destruct (Z.max_spec 8 (Z.log2 m)) as [[? ->] | [? ->]]; [lia |].
    change (2 ^ 8) with 256. lia.
  - rewrite Hb. unfold rttBucketFloor. destruct (Z.max_spec 8 (Z.log2 m)) as [[? ->] | [? ->]].
    + pose proof (Z.pow_le_mono_r 2 8 (Z.log2 m)). lia.
    + pose proof (Z.pow_le_mono_r 2 (Z.succ (Z.log2 m)) 9). rewrite Z.pow_succ_r in * by apply Z.log2_nonneg. lia.
  - pose proof (Z.pow_lt_mono_r 2 (micros_Bucket m) 63). pose proof (Z.pow_pos_nonneg 2 (micros_Bucket m)).
    destruct (micros_Bucket_pos (2 ^ micros_Bucket m)) as [-> _]; [lia |].
    rewrite Z.log2_pow2 by lia. unfold rttBucketFloor. lia.
Qed.

Lemma bucket_roundtrip_witness :
  micros_Bucket 5000 = 12 /\ bucket_Micros (micros_Bucket 5000) <= Z.max 5000 256.
Proof. split; [reflexivity |]. apply (bucket_roundtrip 5000). lia. Defined.
