(* ===== verification/Congestion.v ===== *)
(** pool_congestion.go: per-thread-pool AIMD congestion windows of a
    connection, the registry that holds them, and the cluster-wide window of
    clusterSearchAIMD; the in-flight and window accessors of connection.go.

    The wait time per request is a float64 quotient (Float.v). *)

From stdpp Require Import base gmap list strings.
From Stdlib Require Import ZArith Lia SpecFloat.
From S2P Require Import Prelude.
From S2P Require Import Float.

Open Scope list_scope.
Open Scope Z_scope.

(** * Per-pool state *)

Definition waitThresholdNanos : Z := 1000000.
Definition defaultSyntheticCwndMultiplier : Z := 4.
Definition defaultServerCoreCount : Z := 8.

Record poolCongestion := PoolCongestion {
  pc_cwnd : Z; pc_inFlight : Z; pc_overloaded : bool;
  pc_maxCwnd : Z; pc_ssthresh : Z;
  pc_prevCompleted : Z; pc_prevRejected : Z; pc_prevWaitTimeNano : Z;
  pc_hasWaitTime : bool }.

(** &poolCongestion{}: all fields zero. *)
Definition pc_zero : poolCongestion := PoolCongestion 0 0 false 0 0 0 0 0 false.
Definition pc_with_cwnd (pc : poolCongestion) (v : Z) : poolCongestion :=
  PoolCongestion v (pc_inFlight pc) (pc_overloaded pc) (pc_maxCwnd pc) (pc_ssthresh pc)
    (pc_prevCompleted pc) (pc_prevRejected pc) (pc_prevWaitTimeNano pc) (pc_hasWaitTime pc).
Definition pc_with_inFlight (pc : poolCongestion) (v : Z) : poolCongestion :=
  PoolCongestion (pc_cwnd pc) v (pc_overloaded pc) (pc_maxCwnd pc) (pc_ssthresh pc)
    (pc_prevCompleted pc) (pc_prevRejected pc) (pc_prevWaitTimeNano pc) (pc_hasWaitTime pc).
Definition pc_with_overloaded (pc : poolCongestion) (v : bool) : poolCongestion :=
  PoolCongestion (pc_cwnd pc) (pc_inFlight pc) v (pc_maxCwnd pc) (pc_ssthresh pc)
    (pc_prevCompleted pc) (pc_prevRejected pc) (pc_prevWaitTimeNano pc) (pc_hasWaitTime pc).
Definition pc_with_limits (pc : poolCongestion) (maxCwnd ssthresh : Z) : poolCongestion :=
  PoolCongestion (pc_cwnd pc) (pc_inFlight pc) (pc_overloaded pc) maxCwnd ssthresh
    (pc_prevCompleted pc) (pc_prevRejected pc) (pc_prevWaitTimeNano pc) (pc_hasWaitTime pc).
Definition pc_with_prev (pc : poolCongestion) (completed rejected : Z) : poolCongestion :=
  PoolCongestion (pc_cwnd pc) (pc_inFlight pc) (pc_overloaded pc) (pc_maxCwnd pc) (pc_ssthresh pc)
    completed rejected (pc_prevWaitTimeNano pc) (pc_hasWaitTime pc).
Definition pc_with_wait (pc : poolCongestion) (nanos : Z) : poolCongestion :=
  PoolCongestion (pc_cwnd pc) (pc_inFlight pc) (pc_overloaded pc) (pc_maxCwnd pc) (pc_ssthresh pc)
    (pc_prevCompleted pc) (pc_prevRejected pc) nanos true.

(** A connection's registry: the sync.Map of named pools and the default
    pool. *)
Record poolRegistry := PoolRegistry {
  pr_pools : gmap string poolCongestion;
  pr_defaultPool : poolCongestion }.
Definition pr_zero : poolRegistry := PoolRegistry ∅ pc_zero.

Definition pr_get (r : poolRegistry) (name : string) : option poolCongestion :=
  if String.eqb name "" then Some (pr_defaultPool r) else pr_pools r !! name.
(** The returned pointer is the registry's entry; creation stores cwnd 1. *)
Definition pr_getOrCreate (r : poolRegistry) (name : string) : poolRegistry * poolCongestion :=
  if String.eqb name "" then (r, pr_defaultPool r)
  else match pr_pools r !! name with
  | Some pc => (r, pc)
  | None =>
    let pc := pc_with_cwnd pc_zero 1 in
    (PoolRegistry (<[name := pc]> (pr_pools r)) (pr_defaultPool r), pc)
  end.
Definition pr_getForScoring (r : poolRegistry) (name : string) : poolCongestion :=
  if String.eqb name "" then pr_defaultPool r
  else match pr_pools r !! name with Some pc => pc | None => pr_defaultPool r end.
Definition pr_remove (r : poolRegistry) (name : string) : poolRegistry :=
  PoolRegistry (delete name (pr_pools r)) (pr_defaultPool r).

(** Writing through the pointer obtained from getOrCreate / getForScoring. *)
Definition pr_write (r : poolRegistry) (name : string) (pc : poolCongestion) : poolRegistry :=
  if String.eqb name "" then PoolRegistry (pr_pools r) pc
  else PoolRegistry (<[name := pc]> (pr_pools r)) (pr_defaultPool r).
Definition pr_write_scoring (r : poolRegistry) (name : string) (pc : poolCongestion) : poolRegistry :=
  if String.eqb name "" then PoolRegistry (pr_pools r) pc
  else match pr_pools r !! name with
  | Some _ => PoolRegistry (<[name := pc]> (pr_pools r)) (pr_defaultPool r)
  | None => PoolRegistry (pr_pools r) pc
  end.

Definition pr_setMaxCwnd (r : poolRegistry) (name : string) (size : Z) : poolRegistry :=
  let '(r, pc) := pr_getOrCreate r name in
  let oldCwnd := pc_cwnd pc in
  let pc := pc_with_limits pc size (pc_ssthresh pc) in
  let pc := if size <? oldCwnd then pc_with_cwnd pc size else pc in
  let pc := pc_with_limits pc (pc_maxCwnd pc) size in
  pr_write r name pc.

Definition maxCwndOrDefault (maxCwnd : Z) : Z :=
  if 0 <? maxCwnd then maxCwnd else defaultSyntheticCwndMultiplier * defaultServerCoreCount.

(** connection.go: in-flight counters (int32 atomics) and window. *)
Definition addInFlight (r : poolRegistry) (poolName : string) : poolRegistry * Z :=
  let pc := pr_getForScoring r poolName in
  let v := wrap32 (pc_inFlight pc + 1) in
  (pr_write_scoring r poolName (pc_with_inFlight pc v), v).
Definition releaseInFlight (r : poolRegistry) (poolName : string) : poolRegistry * Z :=
  let pc := pr_getForScoring r poolName in
  let v := wrap32 (pc_inFlight pc + -1) in
  (pr_write_scoring r poolName (pc_with_inFlight pc v), v).
Definition loadInFlight (r : poolRegistry) (poolName : string) : Z :=
  pc_inFlight (pr_getForScoring r poolName).
Definition loadCwnd (r : poolRegistry) (allocatedProcessors : Z) (poolName : string)
    (poolInfoReady : bool) : Z :=
  if negb poolInfoReady then
    let procs := if allocatedProcessors <=? 0 then defaultServerCoreCount else allocatedProcessors in
    Z.max (wrap32 (defaultSyntheticCwndMultiplier * procs)) 1
  else
    let cwnd := pc_cwnd (pr_getForScoring r poolName) in
    if cwnd <? 1 then 1 else cwnd.
Definition isPoolOverloaded (r : poolRegistry) (poolName : string) : bool :=
  pc_overloaded (pr_getForScoring r poolName).
Definition storeMaxCwnd (r : poolRegistry) (poolName : string) (size : Z) : poolRegistry :=
  pr_setMaxCwnd r poolName (wrap32 size).

(** * applyPoolAIMD *)

Record ThreadPoolStats := MkThreadPoolStats {
  tp_Threads : Z; tp_Queue : Z; tp_Active : Z; tp_Rejected : Z; tp_Largest : Z;
  tp_Completed : Z; tp_TotalWaitTimeInNanos : option Z }.

(** waitPerCompleted >= waitThresholdNanos *)
Definition wait_congested (deltaWait deltaCompleted : Z) : bool :=
  f64_geb (f64_div (f64_of_Z deltaWait) (f64_of_Z deltaCompleted)) (f64_of_Z waitThresholdNanos).

Definition applyPoolAIMD (pc : poolCongestion) (stats : ThreadPoolStats) : poolCongestion :=
  let deltaCompleted := wrap64 (tp_Completed stats - pc_prevCompleted pc) in
  let deltaRejected := wrap64 (tp_Rejected stats - pc_prevRejected pc) in
  let pc := pc_with_prev pc (tp_Completed stats) (tp_Rejected stats) in
  let cwnd := Z.max (pc_cwnd pc) 1 in
  let maxCwnd := pc_maxCwnd pc in
  let ssthresh := if pc_ssthresh pc <? 1 then maxCwndOrDefault maxCwnd else pc_ssthresh pc in
  if 0 <? deltaRejected then
    let pc := pc_with_overloaded pc true in
    let newCwnd := Z.max (Z.quot cwnd 2) 1 in
    let pc := pc_with_cwnd pc newCwnd in
    pc_with_limits pc (pc_maxCwnd pc) newCwnd
  else
    let pc := pc_with_overloaded pc false in
    if deltaCompleted <=? 0 then pc
    else
      let '(pc, congested) :=
        match tp_TotalWaitTimeInNanos stats with
        | Some total =>
          let deltaWait := wrap64 (total - pc_prevWaitTimeNano pc) in
          let pc := pc_with_wait pc total in
          (pc, if 0 <? deltaCompleted then wait_congested deltaWait deltaCompleted else false)
        | None =>
          if negb (pc_hasWaitTime pc) then
            let active := wrap32 (Z.min (tp_Active stats) (2 ^ 31 - 1)) in
            (pc, (0 <? tp_Queue stats) && (maxCwndOrDefault maxCwnd <=? active))
          else (pc, false)
        end in
      if congested then
        let newCwnd := Z.max (Z.quot cwnd 2) 1 in
        let pc := pc_with_cwnd pc newCwnd in
        pc_with_limits pc (pc_maxCwnd pc) newCwnd
      else if cwnd <? ssthresh then
        pc_with_cwnd pc (Z.min (wrap32 (cwnd * 2)) (maxCwndOrDefault maxCwnd))
      else
        pc_with_cwnd pc (Z.min (wrap32 (cwnd + 1)) (maxCwndOrDefault maxCwnd)).

(** The two loops of updatePoolCongestion. Go visits the entries of the stats
    map in an unspecified order, so the model takes the order as an argument:
    [order] is the list of the map's entries. *)
Definition updatePoolCongestion_one (r : poolRegistry) (e : string * ThreadPoolStats) : poolRegistry :=
  let '(r, pc) := pr_getOrCreate r e.1 in
  pr_write r e.1 (applyPoolAIMD pc e.2).
Definition updatePoolCongestion (r : poolRegistry)
    (threadPools : option (gmap string ThreadPoolStats))
    (order : list (string * ThreadPoolStats)) : poolRegistry :=
  match threadPools with
  | None => r
  | Some tps =>
    let r := foldl updatePoolCongestion_one r order in
    PoolRegistry (filter (fun kv => is_Some (tps !! kv.1)) (pr_pools r)) (pr_defaultPool r)
  end.

(** The 429 handler of Transport.Stream: under TryLock, the first 429 marks the
    pool overloaded and halves its window. [tryLock] is the outcome of
    pc.mu.TryLock. *)
Definition mark429 (r : poolRegistry) (poolName : string) (tryLock : bool) : poolRegistry :=
  if String.eqb poolName "" then r
  else match pr_get r poolName with
  | None => r
  | Some pc =>
    if negb tryLock then r
    else if pc_overloaded pc then r
    else
      let pc := pc_with_overloaded pc true in
      let newCwnd := Z.max (Z.quot (pc_cwnd pc) 2) 1 in
      let pc := pc_with_cwnd pc newCwnd in
      pr_write r poolName (pc_with_limits pc (pc_maxCwnd pc) newCwnd)
  end.

(** * clusterSearchAIMD *)

Record clusterNodeSearchEpoch := Epoch {
  ep_prevCompleted : Z; ep_prevWaitTimeNano : Z; ep_hasWaitTime : bool }.
Definition ep_zero : clusterNodeSearchEpoch := Epoch 0 0 false.

(** conn is the connection pointer, the key of the nodes map. *)
Record nodeSearchSample := MkNodeSearchSample { ns_conn : nat; ns_stats : ThreadPoolStats; ns_maxCwnd : Z }.

Record clusterSearchAIMD := ClusterSearchAIMD {
  ca_cwnd : Z; ca_maxCwnd : Z; ca_ssthresh : Z; ca_nodes : gmap nat clusterNodeSearchEpoch }.

(** The accumulators of the sampling loop. *)
Record cluster_totals := ClusterTotals {
  ct_nodes : gmap nat clusterNodeSearchEpoch; ct_polled : gset nat;
  ct_deltaCompleted : Z; ct_deltaWait : Z; ct_maxCwnd : Z; ct_hasWaitTime : bool }.

Definition cluster_sample (t : cluster_totals) (s : nodeSearchSample) : cluster_totals :=
  let polled := {[ns_conn s]} ∪ ct_polled t in
  let nodeMax := maxCwndOrDefault (ns_maxCwnd s) in
  let maxCwnd := if ct_maxCwnd t <? nodeMax then nodeMax else ct_maxCwnd t in
  let known := ct_nodes t !! ns_conn s in
  let epoch := default ep_zero known in
  let newEpoch :=
    match tp_TotalWaitTimeInNanos (ns_stats s) with
    | Some total => Epoch (tp_Completed (ns_stats s)) total true
    | None => Epoch (tp_Completed (ns_stats s)) (ep_prevWaitTimeNano epoch) (ep_hasWaitTime epoch)
    end in
  let nodes := <[ns_conn s := newEpoch]> (ct_nodes t) in
  let t' := ClusterTotals nodes polled (ct_deltaCompleted t) (ct_deltaWait t) maxCwnd (ct_hasWaitTime t) in
  match known with
  | None => t'
  | Some _ =>
    let deltaCompleted := wrap64 (tp_Completed (ns_stats s) - ep_prevCompleted epoch) in
    if deltaCompleted <=? 0 then t'
    else
      let totalDeltaCompleted := wrap64 (ct_deltaCompleted t + deltaCompleted) in
      match tp_TotalWaitTimeInNanos (ns_stats s) with
      | Some total =>
        if ep_hasWaitTime epoch then
          ClusterTotals nodes polled totalDeltaCompleted
            (wrap64 (ct_deltaWait t + wrap64 (total - ep_prevWaitTimeNano epoch))) maxCwnd true
        else ClusterTotals nodes polled totalDeltaCompleted (ct_deltaWait t) maxCwnd (ct_hasWaitTime t)
      | None => ClusterTotals nodes polled totalDeltaCompleted (ct_deltaWait t) maxCwnd (ct_hasWaitTime t)
      end
  end.

Definition cluster_update (c : clusterSearchAIMD) (polled : list nodeSearchSample) : clusterSearchAIMD :=
  let t := foldl cluster_sample (ClusterTotals (ca_nodes c) ∅ 0 0 0 false) polled in
  let nodes := filter (fun kv => kv.1 ∈ ct_polled t) (ct_nodes t) in
  let c := ClusterSearchAIMD (ca_cwnd c) (ct_maxCwnd t) (ca_ssthresh c) nodes in
  if ct_deltaCompleted t <=? 0 then c
  else
    let cwnd := Z.max (ca_cwnd c) 1 in
    let ssthresh := if ca_ssthresh c <? 1 then ct_maxCwnd t else ca_ssthresh c in
    let congested :=
      if ct_hasWaitTime t && (0 <? ct_deltaCompleted t)
      then wait_congested (ct_deltaWait t) (ct_deltaCompleted t) else false in
    if congested then
      let newCwnd := Z.max (Z.quot cwnd 2) 1 in
      ClusterSearchAIMD newCwnd (ca_maxCwnd c) newCwnd (ca_nodes c)
    else if cwnd <? ssthresh then
      ClusterSearchAIMD (Z.min (wrap32 (cwnd * 2)) (ct_maxCwnd t)) (ca_maxCwnd c) (ca_ssthresh c) (ca_nodes c)
    else
      ClusterSearchAIMD (Z.min (wrap32 (cwnd + 1)) (ct_maxCwnd t)) (ca_maxCwnd c) (ca_ssthresh c) (ca_nodes c).

(** * The window of one pool *)

Definition ceiling (pc : poolCongestion) : Z := maxCwndOrDefault (pc_maxCwnd pc).

(** The window never exceeds the ceiling, and the ceiling leaves room to double
    in int32. *)
Definition aimd_wf (pc : poolCongestion) : Prop :=
  - 2 ^ 31 <= pc_cwnd pc <= ceiling pc /\ ceiling pc < 2 ^ 30.

Lemma ceiling_pos m : 1 <= maxCwndOrDefault m.
Proof.
  unfold maxCwndOrDefault, defaultSyntheticCwndMultiplier, defaultServerCoreCount.
  destruct (Z.ltb_spec 0 m); lia.
Qed.

Lemma halve_bounds c m : c <= m -> 1 <= m -> 1 <= Z.max (Z.quot (Z.max c 1) 2) 1 <= m.
Proof. intros. rewrite Z.quot_div_nonneg by lia. pose proof (Z.div_lt (Z.max c 1) 2). lia. Qed.

Ltac pc_simpl := cbn [pc_cwnd pc_inFlight pc_overloaded pc_maxCwnd pc_ssthresh
  pc_prevCompleted pc_prevRejected pc_prevWaitTimeNano pc_hasWaitTime
  pc_with_cwnd pc_with_inFlight pc_with_overloaded pc_with_limits pc_with_prev pc_with_wait
  negb fst snd].

(** Everything applyPoolAIMD may do to the window, one case per branch. *)
Lemma applyPoolAIMD_cases pc stats :
  let pc' := applyPoolAIMD pc stats in
  let cwnd := Z.max (pc_cwnd pc) 1 in
  let half := Z.max (Z.quot cwnd 2) 1 in
  pc_maxCwnd pc' = pc_maxCwnd pc /\ pc_inFlight pc' = pc_inFlight pc /\
  pc_prevCompleted pc' = tp_Completed stats /\ pc_prevRejected pc' = tp_Rejected stats /\
  pc_overloaded pc' = (0 <? wrap64 (tp_Rejected stats - pc_prevRejected pc)) /\
  (pc_cwnd pc' = half /\ pc_ssthresh pc' = half \/
   pc_overloaded pc' = false /\ pc_ssthresh pc' = pc_ssthresh pc /\
     (pc_cwnd pc' = pc_cwnd pc \/
      pc_cwnd pc' = Z.min (wrap32 (cwnd * 2)) (ceiling pc) \/
      pc_cwnd pc' = Z.min (wrap32 (cwnd + 1)) (ceiling pc))).
Proof.
  cbn zeta. unfold applyPoolAIMD, ceiling. cbn zeta.
  destruct (0 <? wrap64 (tp_Rejected stats - _)); [pc_simpl; auto 10 |].
  destruct (wrap64 (tp_Completed stats - _) <=? 0); [pc_simpl; auto 10 |].
  set (sig := match tp_TotalWaitTimeInNanos stats with Some _ => _ | None => _ end).
  assert (exists pc1 b, sig = (pc1, b) /\ pc_maxCwnd pc1 = pc_maxCwnd pc /\
    pc_inFlight pc1 = pc_inFlight pc /\ pc_prevCompleted pc1 = tp_Completed stats /\
    pc_prevRejected pc1 = tp_Rejected stats /\ pc_overloaded pc1 = false /\
    pc_cwnd pc1 = pc_cwnd pc /\ pc_ssthresh pc1 = pc_ssthresh pc)
    as (pc1 & b & -> & E1 & E2 & E3 & E4 & E5 & E6 & E7).
  { unfold sig. destruct (tp_TotalWaitTimeInNanos stats); [by eexists _, _ |].
    pc_simpl. destruct (pc_hasWaitTime pc); by eexists _, _. }
  pc_simpl.
  destruct b; [| destruct (Z.max (pc_cwnd pc) 1 <? _)]; pc_simpl;
    rewrite ?E1, ?E2, ?E3, ?E4, ?E5, ?E7; auto 12.
Qed.

Lemma applyPoolAIMD_bounds pc stats :
  aimd_wf pc ->
  aimd_wf (applyPoolAIMD pc stats) /\
  (pc_cwnd (applyPoolAIMD pc stats) = pc_cwnd pc \/
   1 <= pc_cwnd (applyPoolAIMD pc stats) <= ceiling pc).
Proof.
  intros [Hc Hm]. pose proof (applyPoolAIMD_cases pc stats) as (E1 & _ & _ & _ & _ & Hcases).
  pose proof (ceiling_pos (pc_maxCwnd pc)) as Hpos. fold (ceiling pc) in Hpos.
  assert (ceiling (applyPoolAIMD pc stats) = ceiling pc) as Ec by (unfold ceiling; by rewrite E1).
  pose proof (halve_bounds (pc_cwnd pc) (ceiling pc) ltac:(lia) Hpos).
  unfold aimd_wf. rewrite Ec. rewrite !wrap32_id in Hcases by (unfold int32_range; lia). lia.
Qed.

(** A poll that drives the window up: completions, no rejections, and no
    congestion signal. *)
Definition good_poll (pc : poolCongestion) (stats : ThreadPoolStats) : Prop :=
  wrap64 (tp_Rejected stats - pc_prevRejected pc) <= 0 /\
  0 < wrap64 (tp_Completed stats - pc_prevCompleted pc) /\
  match tp_TotalWaitTimeInNanos stats with
  | Some total => wait_congested (wrap64 (total - pc_prevWaitTimeNano pc))
                    (wrap64 (tp_Completed stats - pc_prevCompleted pc)) = false
  | None => tp_Queue stats <= 0
  end.

Lemma good_poll_grows pc stats :
  aimd_wf pc -> good_poll pc stats ->
  Z.min (ceiling pc) (Z.max (pc_cwnd pc) 1 + 1) <= pc_cwnd (applyPoolAIMD pc stats) /\
  Z.min (ceiling pc) (pc_cwnd pc) <= pc_cwnd (applyPoolAIMD pc stats) /\
  pc_overloaded (applyPoolAIMD pc stats) = false.
Proof.
  intros [Hc Hm] (Hr & Hcomp & Hsig). unfold applyPoolAIMD. cbn zeta.
  destruct (Z.ltb_spec 0 (wrap64 (tp_Rejected stats - pc_prevRejected pc))); [lia |].
  destruct (Z.leb_spec (wrap64 (tp_Completed stats - pc_prevCompleted pc)) 0); [lia |].
  destruct (Z.ltb_spec 0 (wrap64 (tp_Completed stats - pc_prevCompleted pc))); [| lia].
  set (sig := match tp_TotalWaitTimeInNanos stats with Some _ => _ | None => _ end).
  assert (exists pc1, sig = (pc1, false) /\ pc_overloaded pc1 = false) as (pc1 & -> & Ho).
  { unfold sig. destruct (tp_TotalWaitTimeInNanos stats) as [total |].
    - pc_simpl. rewrite Hsig. by eexists.
    - pc_simpl. destruct (Z.ltb_spec 0 (tp_Queue stats)); [lia |].
      destruct (pc_hasWaitTime pc); by eexists. }
  pc_simpl.
  destruct (Z.max (pc_cwnd pc) 1 <? _); pc_simpl; rewrite wrap32_id by (unfold int32_range; lia);
    fold (ceiling pc); split_and!; try done; lia.
Qed.

(** A run of polls, each satisfying [P] in the state it finds. *)
Inductive polls (P : poolCongestion -> ThreadPoolStats -> Prop) :
    poolCongestion -> list ThreadPoolStats -> poolCongestion -> Prop :=
  | polls_nil pc : polls P pc [] pc
  | polls_cons pc s ss pc' :
      P pc s -> polls P (applyPoolAIMD pc s) ss pc' -> polls P pc (s :: ss) pc'.

Lemma good_polls_reach pc ss pc' :
  aimd_wf pc -> polls good_poll pc ss pc' ->
  aimd_wf pc' /\ ceiling pc' = ceiling pc /\
  Z.min (ceiling pc) (Z.max (pc_cwnd pc) 1 + Z.of_nat (length ss)) <= Z.max (pc_cwnd pc') 1.
Proof.
  intros Hwf Hp. induction Hp as [pc | pc s ss pc' Hs Hp IH]; [cbn; split_and!; [done | done | lia] |].
  destruct (good_poll_grows pc s Hwf Hs) as (Hg & _ & _).
  destruct (applyPoolAIMD_bounds pc s Hwf) as [Hwf1 _].
  pose proof (applyPoolAIMD_cases pc s) as (E1 & _).
  assert (ceiling (applyPoolAIMD pc s) = ceiling pc) as Ec by (unfold ceiling; by rewrite E1).
  destruct (IH Hwf1) as (Hwf2 & Ec2 & Hr). rewrite Ec in *. split_and!; [done | done |].
  cbn [length]. lia.
Qed.

(** A poll that reports rejections. *)
Definition rejected_poll (pc : poolCongestion) (stats : ThreadPoolStats) : Prop :=
  0 < wrap64 (tp_Rejected stats - pc_prevRejected pc).

Lemma rejected_poll_halves pc stats :
  rejected_poll pc stats ->
  pc_cwnd (applyPoolAIMD pc stats) = Z.max (Z.max (pc_cwnd pc) 1 / 2) 1 /\
  pc_overloaded (applyPoolAIMD pc stats) = true.
Proof.
  unfold rejected_poll. intros H. unfold applyPoolAIMD. cbn zeta.
  destruct (Z.ltb_spec 0 (wrap64 (tp_Rejected stats - pc_prevRejected pc))); [| lia].
  pc_simpl. split; [| done]. by rewrite Z.quot_div_nonneg by lia.
Qed.

Lemma rejected_polls_shrink pc ss pc' :
  polls rejected_poll pc ss pc' -> ss <> [] ->
  pc_cwnd pc' = Z.max (Z.max (pc_cwnd pc) 1 / 2 ^ Z.of_nat (length ss)) 1 /\ pc_overloaded pc' = true.
Proof.
  induction 1 as [| pc s ss pc' Hs Hp IH]; [done |]. intros _.
  destruct (rejected_poll_halves pc s Hs) as [E1 E2].
  destruct ss as [| s2 ss].
  - inversion Hp; subst. by rewrite E1, E2.
  - destruct IH as [E3 E4]; [done |]. split; [| done]. rewrite E3, E1.
    rewrite (Z.max_l (Z.max (Z.max (pc_cwnd pc) 1 / 2) 1) 1) by lia.
    change (length (s :: s2 :: ss)) with (S (length (s2 :: ss))).
    rewrite Nat2Z.inj_succ, Z.pow_succ_r, <- Z.div_div by lia.
    assert (0 < 2 ^ Z.of_nat (length (s2 :: ss))) by (apply Z.pow_pos_nonneg; lia).
    destruct (Z.max_spec (Z.max (pc_cwnd pc) 1 / 2) 1) as [[Hlt ->] | [_ ->]]; [| done].
    assert (0 <= Z.max (pc_cwnd pc) 1 / 2) by (apply Z.div_pos; lia).
    assert (Z.max (pc_cwnd pc) 1 / 2 = 0) as -> by lia. rewrite Z.div_0_l by lia.
    assert (2 <= 2 ^ Z.of_nat (length (s2 :: ss))).
    { cbn [length]. rewrite Nat2Z.inj_succ, Z.pow_succ_r by lia.
      pose proof (Z.pow_pos_nonneg 2 (Z.of_nat (length ss))). lia. }
    by rewrite Z.div_small by lia.
Qed.

(** * The registry *)

(** The entry a name denotes, if any. *)
Definition pr_fresh : poolCongestion := pc_with_cwnd pc_zero 1.
Definition entry_after (old : option poolCongestion) (s : ThreadPoolStats) : poolCongestion :=
  applyPoolAIMD (default pr_fresh old) s.

Lemma update_one_pools r k s name :
  k <> ""%string ->
  pr_pools (updatePoolCongestion_one r (k, s)) !! name =
    (if decide (name = k) then Some (entry_after (pr_pools r !! k) s) else pr_pools r !! name) /\
  pr_defaultPool (updatePoolCongestion_one r (k, s)) = pr_defaultPool r.
Proof.
  intros Hk. unfold updatePoolCongestion_one, pr_getOrCreate, pr_write, entry_after. cbn [fst snd].
  apply String.eqb_neq in Hk. rewrite Hk.
  destruct (pr_pools r !! k) as [pc |] eqn:E; cbn; (split; [| done]).
  - case_decide as Hd; [subst; by rewrite lookup_insert_eq | by rewrite lookup_insert_ne].
  - case_decide as Hd; [subst; by rewrite lookup_insert_eq |].
    by rewrite !lookup_insert_ne.
Qed.

Lemma update_one_default r s :
  pr_pools (updatePoolCongestion_one r (""%string, s)) = pr_pools r /\
  pr_defaultPool (updatePoolCongestion_one r (""%string, s)) = applyPoolAIMD (pr_defaultPool r) s.
Proof. done. Qed.

Lemma update_fold_lookup order : forall r name,
  NoDup order.*1 -> name <> ""%string ->
  pr_pools (foldl updatePoolCongestion_one r order) !! name =
    match list_find (fun e => e.1 = name) order with
    | Some (_, (_, s)) => Some (entry_after (pr_pools r !! name) s)
    | None => pr_pools r !! name
    end.
Proof.
  induction order as [| [k s] order IH]; intros r name Hnd Hne; [done |].
  apply NoDup_cons in Hnd as [Hk Hnd]. cbn [foldl]. rewrite IH by done. cbn [list_find fst].
  assert (pr_pools (updatePoolCongestion_one r (k, s)) !! name =
    if decide (name = k) then Some (entry_after (pr_pools r !! k) s) else pr_pools r !! name) as ->.
  { destruct (decide (k = ""%string)) as [-> | Hke]; [| by apply update_one_pools].
    rewrite decide_False by done. by destruct (update_one_default r s) as [-> _]. }
  destruct (decide (k = name)) as [-> | Hkn].
  - rewrite decide_True by done. destruct (list_find _ order) as [[i [k' s']] |] eqn:Ef; [| done].
    apply list_find_Some in Ef as (Hl & Hk' & _). cbn in Hk'. subst.
    destruct Hk. apply list_elem_of_fmap. exists (name, s'). split; [done |].
    by eapply list_elem_of_lookup_2.
  - rewrite decide_False by done. by destruct (list_find _ order) as [[i [k' s']] |].
Qed.

(** The entry found in an enumeration of a map is the map's. *)
Lemma list_find_order (tps : gmap string ThreadPoolStats) order name :
  order ≡ₚ map_to_list tps ->
  match list_find (fun e => e.1 = name) order with
  | Some (_, (_, s)) => tps !! name = Some s
  | None => tps !! name = None
  end.
Proof.
  intros Hp. destruct (list_find _ order) as [[i [k s]] |] eqn:E.
  - apply list_find_Some in E as (Hl & Hk & _). cbn in Hk. subst.
    apply elem_of_map_to_list. rewrite <- Hp. by eapply list_elem_of_lookup_2.
  - apply list_find_None in E. rewrite Forall_forall in E.
    destruct (tps !! name) as [s |] eqn:Ht; [| done]. apply elem_of_map_to_list in Ht.
    rewrite <- Hp in Ht. by destruct (E _ Ht).
Qed.

Lemma update_fold_default order : forall r,
  (forall e, e ∈ order -> e.1 <> ""%string) ->
  pr_defaultPool (foldl updatePoolCongestion_one r order) = pr_defaultPool r.
Proof.
  induction order as [| [k s] order IH]; intros r H; [done |]. cbn [foldl].
  rewrite IH by set_solver. apply (update_one_pools r k s ""%string). by apply (H (k, s)); left.
Qed.

(** * Properties *)

(** one stats poll keeps the window well formed and moves it as AIMD
    prescribes: on new rejections the pool is marked overloaded and the window
    halves (never below 1); otherwise the overloaded mark is cleared and the
    window is left alone, halved, doubled or incremented, always within
    [1, ceiling] once touched, with no int32 overflow. *)
Theorem applyPoolAIMD_window pc stats :
  aimd_wf pc ->
  let pc' := applyPoolAIMD pc stats in
  let half := Z.max (Z.max (pc_cwnd pc) 1 / 2) 1 in
  aimd_wf pc' /\
  (pc_cwnd pc' = pc_cwnd pc \/ 1 <= pc_cwnd pc' <= ceiling pc) /\
  pc_overloaded pc' = (0 <? wrap64 (tp_Rejected stats - pc_prevRejected pc)) /\
  (pc_overloaded pc' = true -> pc_cwnd pc' = half /\ pc_ssthresh pc' = half) /\
  pc_cwnd pc' ∈ [pc_cwnd pc; half; Z.min (Z.max (pc_cwnd pc) 1 * 2) (ceiling pc);
                 Z.min (Z.max (pc_cwnd pc) 1 + 1) (ceiling pc)].
Proof.
  intros Hwf. cbn zeta. destruct (applyPoolAIMD_bounds pc stats Hwf) as [H1 H2].
  pose proof (applyPoolAIMD_cases pc stats) as (_ & _ & _ & _ & E & Hcases).
  destruct Hwf as [Hc Hm]. rewrite !wrap32_id in Hcases by (unfold int32_range; lia).
  rewrite Z.quot_div_nonneg in Hcases by lia.
  split_and!; [done | done | done | |].
  - intros Ho. destruct Hcases as [H | [Hf _]]; [done | congruence].
  - rewrite !elem_of_cons. destruct Hcases as [[-> _] | (_ & _ & [-> | [-> | ->]])]; auto.
Qed.

Lemma applyPoolAIMD_window_witness :
  let pc := PoolCongestion 8 0 false 13 13 100 2 0 false in
  let s := MkThreadPoolStats 13 0 5 3 13 200 None in
  aimd_wf pc /\ pc_cwnd (applyPoolAIMD pc s) = 4 /\ pc_overloaded (applyPoolAIMD pc s) = true.
Proof.
  intros pc s. assert (aimd_wf pc) as Hwf by (unfold aimd_wf, ceiling; cbn; lia).
  destruct (applyPoolAIMD_window pc s Hwf) as (_ & _ & Ho & Hh & _).
  split; [exact Hwf |].
  assert (pc_overloaded (applyPoolAIMD pc s) = true) as E by (rewrite Ho; vm_compute; reflexivity).
  split; [exact (proj1 (Hh E)) | exact E].
Defined.

(** C11: the window converges. From any well-formed state, n polls with
    completions and no congestion raise the window to at least
    min(ceiling, cwnd + n), so it reaches the ceiling; and n > 0 polls with new
    rejections leave exactly max(1, cwnd / 2^n), so it collapses to 1. *)
Theorem aimd_convergence pc ss pc' :
  aimd_wf pc -> ss <> [] ->
  (polls good_poll pc ss pc' ->
     ceiling pc' = ceiling pc /\
     (ceiling pc - Z.max (pc_cwnd pc) 1 <= Z.of_nat (length ss) -> pc_cwnd pc' = ceiling pc \/ ceiling pc = 1)) /\
  (polls rejected_poll pc ss pc' ->
     pc_overloaded pc' = true /\
     pc_cwnd pc' = Z.max (Z.max (pc_cwnd pc) 1 / 2 ^ Z.of_nat (length ss)) 1).
Proof.
  intros Hwf Hne. split; intros Hp.
  - destruct (good_polls_reach pc ss pc' Hwf Hp) as ([Hc' _] & Ec & Hr).
    split; [done |]. intros Hn. rewrite Ec in Hc'.
    pose proof (ceiling_pos (pc_maxCwnd pc)) as Hpos. fold (ceiling pc) in Hpos. lia.
  - destruct (rejected_polls_shrink pc ss pc' Hp Hne). done.
Qed.

Lemma aimd_convergence_witness :
  let pc := PoolCongestion 1 0 false 4 4 0 0 0 false in
  let s n := MkThreadPoolStats 4 0 0 0 4 n None in
  pc_cwnd (foldl applyPoolAIMD pc [s 1; s 2; s 3]) = 4 \/ ceiling pc = 1.
Proof.
  intros pc s. assert (aimd_wf pc) as Hwf by (unfold aimd_wf, ceiling; cbn; lia).
  refine (proj2 (proj1 (aimd_convergence pc [s 1; s 2; s 3]
    (foldl applyPoolAIMD pc [s 1; s 2; s 3]) Hwf ltac:(done)) _) _).
  - repeat (constructor; [vm_compute; repeat split; congruence |]). constructor.
  - vm_compute. congruence.
Defined.

(** updatePoolCongestion does not depend on the order in which Go visits
    the stats map, and leaves exactly the pools the node reports: each reported
    pool gets one applyPoolAIMD step (from a fresh window of 1 if it is new),
    every other named pool is removed, the default pool is untouched. *)
Theorem updatePoolCongestion_spec r tps order name :
  order ≡ₚ map_to_list tps -> tps !! ""%string = None -> name <> ""%string ->
  let r' := updatePoolCongestion r (Some tps) order in
  pr_pools r' !! name = (fun s => entry_after (pr_pools r !! name) s) <$> tps !! name /\
  pr_defaultPool r' = pr_defaultPool r.
Proof.
  intros Hp He Hne. cbn zeta. unfold updatePoolCongestion. cbn [pr_pools pr_defaultPool]. split.
  - assert (NoDup order.*1) as Hnd by (rewrite Hp; apply NoDup_fst_map_to_list).
    pose proof (list_find_order tps order name Hp) as Hf.
    pose proof (update_fold_lookup order r name Hnd Hne) as Hl.
    destruct (list_find _ order) as [[i [k s]] |]; rewrite Hf; cbn.
    + apply map_lookup_filter_Some. split; [done | by eexists].
    + apply map_lookup_filter_None. right. intros x _. cbn. rewrite Hf. by intros [].
  - apply update_fold_default. intros [k s] Hin. rewrite Hp in Hin.
    apply elem_of_map_to_list in Hin. cbn. congruence.
Qed.

Lemma updatePoolCongestion_spec_witness :
  let s := MkThreadPoolStats 4 0 0 0 4 10 None in
  let tps : gmap string ThreadPoolStats := {[ "search"%string := s ]} in
  let r := PoolRegistry {[ "write"%string := pr_fresh ]} pc_zero in
  let r' := updatePoolCongestion r (Some tps) (map_to_list tps) in
  pr_pools r' !! "write"%string = None /\
  pr_pools r' !! "search"%string = Some (entry_after None s).
Proof.
  intros s tps r r'. split.
  - exact (proj1 (updatePoolCongestion_spec r tps (map_to_list tps) "write"%string
      (reflexivity _) eq_refl ltac:(done))).
  - exact (proj1 (updatePoolCongestion_spec r tps (map_to_list tps) "search"%string
      (reflexivity _) eq_refl ltac:(done))).
Defined.

(** in-flight accounting is exact only while the pool's registry entry is
    stable. addInFlight and releaseInFlight look the pool up by name
    separately: paired on an unchanged registry they cancel out, but when the
    first stats poll creates the pool between the two calls the request's
    increment stays on the default pool and the new pool is left at -1. *)
Theorem inFlight_pairing r name procs_stats :
  name <> ""%string ->
  (int32_range (loadInFlight r name) ->
   loadInFlight (releaseInFlight (addInFlight r name).1 name).1 name = loadInFlight r name) /\
  (pr_pools r !! name = None ->
   let r1 := (addInFlight r name).1 in
   let r2 := updatePoolCongestion r1 (Some {[name := procs_stats]}) [(name, procs_stats)] in
   let r3 := (releaseInFlight r2 name).1 in
   loadInFlight r3 name = -1 /\
   pc_inFlight (pr_defaultPool r3) = wrap32 (pc_inFlight (pr_defaultPool r) + 1)).
Proof.
  intros Hne. apply String.eqb_neq in Hne. split.
  - unfold loadInFlight, releaseInFlight, addInFlight, pr_write_scoring, pr_getForScoring.
    cbn [fst]. rewrite Hne. intros Hr.
    destruct (pr_pools r !! name) as [pc |] eqn:E; cbn [pr_pools pr_defaultPool].
    + rewrite lookup_insert_eq. cbn [pr_pools]. rewrite lookup_insert_eq. pc_simpl.
      unfold int32_range, wrap32 in *. Z.div_mod_to_equations. lia.
    + rewrite E. cbn [pr_pools pr_defaultPool]. rewrite E. pc_simpl.
      unfold int32_range, wrap32 in *. Z.div_mod_to_equations. lia.
  - intros Hn. cbn zeta.
    pose proof (updatePoolCongestion_spec (addInFlight r name).1 {[name := procs_stats]}
      [(name, procs_stats)] name) as Hu.
    destruct Hu as [Hu1 Hu2]; [by rewrite map_to_list_singleton | | by apply String.eqb_neq |].
    { apply lookup_singleton_ne. by apply String.eqb_neq. }
    set (r2 := updatePoolCongestion _ _ _) in *. rewrite lookup_singleton_eq in Hu1. cbn [fmap option_fmap option_map] in Hu1.
    assert ((addInFlight r name).1 = PoolRegistry (pr_pools r)
      (pc_with_inFlight (pr_defaultPool r) (wrap32 (pc_inFlight (pr_defaultPool r) + 1)))) as Ea.
    { unfold addInFlight, pr_write_scoring, pr_getForScoring. by rewrite Hne, Hn. }
    rewrite Ea in Hu1, Hu2. cbn [pr_pools pr_defaultPool] in Hu1, Hu2. rewrite Hn in Hu1.
    unfold loadInFlight, releaseInFlight, pr_write_scoring, pr_getForScoring. cbn [fst].
    rewrite Hne, Hu1. cbn [pr_pools pr_defaultPool]. rewrite lookup_insert_eq, Hu2. pc_simpl.
    split; [| done].
    pose proof (applyPoolAIMD_cases pr_fresh procs_stats) as (_ & Ei & _).
    unfold entry_after. cbn [default]. by rewrite Ei.
Qed.

Lemma inFlight_pairing_witness :
  let s := MkThreadPoolStats 4 0 0 0 4 10 None in
  let r1 := (addInFlight pr_zero "search").1 in
  let r2 := updatePoolCongestion r1 (Some {[ "search"%string := s ]}) [("search"%string, s)] in
  loadInFlight (releaseInFlight r2 "search").1 "search" = -1.
Proof.
  intros s r1 r2.
  exact (proj1 (proj2 (inFlight_pairing pr_zero "search" s ltac:(done)) eq_refl)).
Defined.
