(* ===== verification/Conn.v ===== *)
(** connection.go: the Connection record, the heap of connections the pools
    share, node roles, and the small state operations on one connection.

    Pools hold *Connection pointers, and several pools hold the same ones, so
    connections live in a heap indexed by their address and every pool operation
    threads that heap. Times are Unix nanoseconds with 0 for the zero time, as
    the deadSinceNano / overloadedAtNano atomics store them. *)

From stdpp Require Import base gmap list strings sorting.
From Stdlib Require Import ZArith Lia String.
From S2P Require Import Prelude.
From S2P Require Import Atomic.
From S2P Require Import Lifecycle.
From S2P Require Import Warmup.
From S2P Require Import Rtt.
From S2P Require Import Congestion.

Open Scope list_scope.
Open Scope Z_scope.

(** * Roles (discovery.go) *)

Definition RoleData : string := "data".
Definition RoleIngest : string := "ingest".
Definition RoleClusterManager : string := "cluster_manager".
Definition RoleWarm : string := "warm".
Definition RoleSearch : string := "search".
Definition RoleML : string := "ml".
Definition RoleMaster : string := "master".
Definition workRoles : list string := [RoleData; RoleIngest; RoleWarm; RoleSearch; RoleML].

Notation roleSet := (gset string).

Definition newRoleSet (roles : list string) : roleSet :=
  foldl (fun (rs : roleSet) role =>
    let rs := {[role]} ∪ rs in
    if String.eqb role RoleMaster then {[RoleClusterManager]} ∪ rs else rs) ∅ roles.
Definition roleSet_has (rs : roleSet) (roleName : string) : bool := bool_decide (roleName ∈ rs).
(** The range over the map is unordered; the result is sorted. *)
Definition roleSet_toSlice (rs : roleSet) : list string :=
  merge_sort String.le
    (filter (fun role => ~ (role = RoleClusterManager /\ RoleMaster ∈ rs)) (elements rs)).
Definition isDedicatedClusterManager (rs : roleSet) : bool :=
  if negb (roleSet_has rs RoleClusterManager) then false
  else negb (existsb (roleSet_has rs) workRoles).

(** * Connection *)

Notation loc := nat.

Record Connection := MkConnection {
  c_URLString : string;
  c_ID : string;
  c_Name : string;
  c_Roles : roleSet;
  c_weight : Z;                (* atomic.Int32 *)
  c_allocatedProcessors : Z;   (* atomic.Int32 *)
  c_rttRing : option rttRing;
  c_pools : poolRegistry;
  c_failures : Z;              (* atomic.Int64 *)
  c_state : Z;                 (* packed connState *)
  c_deadSinceNano : Z;
  c_overloadedAtNano : Z;
  c_drainingQuiescingRemaining : Z;
  c_checkStartedAt : Z;        (* mu.checkStartedAt *)
  c_seed : bool }.

Definition conn_zero : Connection :=
  MkConnection "" "" "" ∅ 0 0 None pr_zero 0 0 0 0 0 0 false.

Definition set_state (c : Connection) (v : Z) : Connection :=
  MkConnection (c_URLString c) (c_ID c) (c_Name c) (c_Roles c) (c_weight c) (c_allocatedProcessors c)
    (c_rttRing c) (c_pools c) (c_failures c) v (c_deadSinceNano c) (c_overloadedAtNano c)
    (c_drainingQuiescingRemaining c) (c_checkStartedAt c) (c_seed c).
Definition set_failures (c : Connection) (v : Z) : Connection :=
  MkConnection (c_URLString c) (c_ID c) (c_Name c) (c_Roles c) (c_weight c) (c_allocatedProcessors c)
    (c_rttRing c) (c_pools c) v (c_state c) (c_deadSinceNano c) (c_overloadedAtNano c)
    (c_drainingQuiescingRemaining c) (c_checkStartedAt c) (c_seed c).
Definition set_deadSince (c : Connection) (v : Z) : Connection :=
  MkConnection (c_URLString c) (c_ID c) (c_Name c) (c_Roles c) (c_weight c) (c_allocatedProcessors c)
    (c_rttRing c) (c_pools c) (c_failures c) (c_state c) v (c_overloadedAtNano c)
    (c_drainingQuiescingRemaining c) (c_checkStartedAt c) (c_seed c).
Definition set_overloadedAt (c : Connection) (v : Z) : Connection :=
  MkConnection (c_URLString c) (c_ID c) (c_Name c) (c_Roles c) (c_weight c) (c_allocatedProcessors c)
    (c_rttRing c) (c_pools c) (c_failures c) (c_state c) (c_deadSinceNano c) v
    (c_drainingQuiescingRemaining c) (c_checkStartedAt c) (c_seed c).
Definition set_draining (c : Connection) (v : Z) : Connection :=
  MkConnection (c_URLString c) (c_ID c) (c_Name c) (c_Roles c) (c_weight c) (c_allocatedProcessors c)
    (c_rttRing c) (c_pools c) (c_failures c) (c_state c) (c_deadSinceNano c) (c_overloadedAtNano c)
    v (c_checkStartedAt c) (c_seed c).
Definition set_checkStartedAt (c : Connection) (v : Z) : Connection :=
  MkConnection (c_URLString c) (c_ID c) (c_Name c) (c_Roles c) (c_weight c) (c_allocatedProcessors c)
    (c_rttRing c) (c_pools c) (c_failures c) (c_state c) (c_deadSinceNano c) (c_overloadedAtNano c)
    (c_drainingQuiescingRemaining c) v (c_seed c).
Definition set_rttRing (c : Connection) (v : option rttRing) : Connection :=
  MkConnection (c_URLString c) (c_ID c) (c_Name c) (c_Roles c) (c_weight c) (c_allocatedProcessors c)
    v (c_pools c) (c_failures c) (c_state c) (c_deadSinceNano c) (c_overloadedAtNano c)
    (c_drainingQuiescingRemaining c) (c_checkStartedAt c) (c_seed c).

(** The heap of connections. *)
Notation heap := (gmap loc Connection).
Definition deref (h : heap) (l : loc) : Connection := default conn_zero (h !! l).

(** c.rttRing.medianBucket(), nil-safe; the ring's own panics (a cursor past
    2^31) are excluded by [rttRing_median]. *)
Definition conn_bucket (c : Connection) : Z :=
  match c_rttRing c with
  | None => rttBucketUnknown
  | Some r => default rttBucketUnknown (medianBucket r)
  end.

Definition defaultDrainingQuiescingChecks : Z := 3.

Definition timeToNano (t : Z) : Z := if t =? 0 then 0 else t.
Definition nanoToTime (n : Z) : Z := if n =? 0 then 0 else n.
Definition loadDeadSince (c : Connection) : Z := nanoToTime (c_deadSinceNano c).
Definition storeDeadSince (c : Connection) (t : Z) : Connection := set_deadSince c (timeToNano t).
Definition deadSinceIsZero (c : Connection) : bool := c_deadSinceNano c =? 0.
Definition loadOverloadedAt (c : Connection) : Z := nanoToTime (c_overloadedAtNano c).
Definition storeOverloadedAt (c : Connection) (t : Z) : Connection := set_overloadedAt c (timeToNano t).

Definition effectiveWeight (c : Connection) : Z :=
  let w := c_weight c in if w <=? 0 then 1 else w.

(** One pass of decrementDrainingQuiescing's loop on its own counter. *)
Definition decrementDrainingQuiescing_pass (current : Z) : rmw_decision Z :=
  if current <=? 0 then RmwReturn 0 else RmwStore (current - 1) (current - 1).
Definition decrementDrainingQuiescing (c : Connection) : Connection * Z :=
  let '(v, r) := rmw_run decrementDrainingQuiescing_pass (c_drainingQuiescingRemaining c) in
  (set_draining c v, r).

(** Lifecycle transitions of a connection, called on its current word. *)
Definition conn_lifecycle (c : Connection) : Z := lifecycle (c_state c).
Definition conn_cas (c : Connection) (conflict set clr : Z) : Connection * option cas_err :=
  let '(w, err) := casLifecycle (c_state c) (c_state c) conflict set clr in (set_state c w, err).
Definition conn_set_bit (c : Connection) (bit : Z) : Connection := (conn_cas c 0 bit 0).1.
Definition conn_clear_bit (c : Connection) (bit : Z) : Connection := (conn_cas c 0 0 bit).1.
Definition conn_startWarmup (c : Connection) (rounds skip : Z) : Connection :=
  set_state c (startWarmup rounds skip (c_state c)).
Definition conn_clearWarmup (c : Connection) : Connection := set_state c (clearWarmup (c_state c)).
Definition conn_tryWarmupSkip (c : Connection) : Connection * warmupResult :=
  let '(w, r) := tryWarmupSkip (c_state c) in (set_state c w, r).

(** [now] is time.Now() in nanoseconds. *)
Definition markAsDeadWithLock (now : Z) (c : Connection) : Connection :=
  let c := if deadSinceIsZero c then storeDeadSince c now else c in
  set_failures c (wrap64 (c_failures c + 1)).
Definition markAsReadyWithLock (c : Connection) : Connection :=
  let c := storeDeadSince c 0 in conn_set_bit c lcViable.
Definition markAsHealthyWithLock (c : Connection) : Connection :=
  let c := storeDeadSince c 0 in
  let c := set_failures c 0 in
  conn_set_bit c lcViable.

Definition availableForRouting (c : Connection) : bool :=
  if c_seed c then true else has (conn_lifecycle c) lcViable.

(** * Lifecycle of a connection after a transition *)

Lemma conn_cas_lifecycle c conflict set clr :
  lc_bits set -> conn_lifecycle (conn_cas c conflict set clr).1 = cas_next (conn_lifecycle c) set clr.
Proof.
  intros Hs. unfold conn_cas, conn_lifecycle.
  pose proof (casLifecycle_lifecycle (c_state c) conflict set clr Hs) as H.
  by destruct (casLifecycle (c_state c) (c_state c) conflict set clr).
Qed.

Lemma conn_cas_err c conflict set clr :
  (conn_cas c conflict set clr).2 =
    if cas_next (conn_lifecycle c) set clr =? conn_lifecycle c then Some errLifecycleNoop else None.
Proof.
  unfold conn_cas, conn_lifecycle. rewrite <- (casLifecycle_err (c_state c) conflict set clr).
  by destruct (casLifecycle (c_state c) (c_state c) conflict set clr).
Qed.

(** A transition changes nothing but the state word. *)
Lemma conn_cas_state c conflict set clr :
  exists w, (conn_cas c conflict set clr).1 = set_state c w /\
    w = (casLifecycle (c_state c) (c_state c) conflict set clr).1.
Proof. unfold conn_cas. destruct (casLifecycle _ _ _ _ _). by eexists. Qed.

(** * Reading single lifecycle bits *)

Lemma has_bit lc k : 0 <= k -> has lc (2 ^ k) = Z.testbit lc k.
Proof.
  intros Hk. apply eq_true_iff_eq. rewrite has_spec. split.
  - intros H. apply H; [done |]. by rewrite Z.pow2_bits_true.
  - intros H i Hi. rewrite Z.pow2_bits_eqb by done. by intros ->%Z.eqb_eq.
Qed.

Lemma has_lcReady lc : has lc lcReady = Z.testbit lc 0. Proof. by apply (has_bit lc 0). Qed.
Lemma has_lcUnknown lc : has lc lcUnknown = Z.testbit lc 1. Proof. by apply (has_bit lc 1). Qed.
Lemma has_lcActive lc : has lc lcActive = Z.testbit lc 2. Proof. by apply (has_bit lc 2). Qed.
Lemma has_lcStandby lc : has lc lcStandby = Z.testbit lc 3. Proof. by apply (has_bit lc 3). Qed.
Lemma has_lcNeedsWarmup lc : has lc lcNeedsWarmup = Z.testbit lc 4. Proof. by apply (has_bit lc 4). Qed.
Lemma has_lcOverloaded lc : has lc lcOverloaded = Z.testbit lc 5. Proof. by apply (has_bit lc 5). Qed.
Lemma has_lcHealthChecking lc : has lc lcHealthChecking = Z.testbit lc 6. Proof. by apply (has_bit lc 6). Qed.
Lemma has_lcNeedsHardware lc : has lc lcNeedsHardware = Z.testbit lc 8. Proof. by apply (has_bit lc 8). Qed.
Lemma has_lcViable lc : has lc lcViable = Z.testbit lc 12. Proof. by apply (has_bit lc 12). Qed.

Create HintDb lcbits discriminated.
#[export] Hint Rewrite has_lcReady has_lcUnknown has_lcActive has_lcStandby has_lcNeedsWarmup
  has_lcOverloaded has_lcHealthChecking has_lcNeedsHardware has_lcViable : lcbits.

Lemma testbit_cas_next lc set clr i :
  Z.testbit (cas_next lc set clr) i = (Z.testbit lc i || Z.testbit set i) && negb (Z.testbit clr i).
Proof. unfold cas_next. by rewrite Z.ldiff_spec, Z.lor_spec. Qed.

(** Evaluate the bits of the constant masks. *)
Ltac eval_mask_bits :=
  repeat match goal with
  | |- context [Z.testbit ?c ?k] =>
    let v := eval vm_compute in (Z.testbit c k) in
    lazymatch v with
    | true => change (Z.testbit c k) with true
    | false => change (Z.testbit c k) with false
    end
  end.
Ltac lc_solve :=
  autorewrite with lcbits; rewrite ?testbit_cas_next; eval_mask_bits; autorewrite with bool; try done.

Lemma conn_cas_fields c conflict set clr (f : Connection -> Z) :
  (forall c w, f (set_state c w) = f c) -> f (conn_cas c conflict set clr).1 = f c.
Proof. intros Hf. destruct (conn_cas_state c conflict set clr) as (w & -> & _). apply Hf. Qed.
