(* ===== verification/Rendezvous.v ===== *)
(** rendezvous_hash.go: the FNV-1a rendezvous weight, the ranking of an RTT
    tier, and the selection of the top-k connections for a key, with the
    in-place sort of the caller's slice kept as an output. *)

From Stdlib Require Import ZArith Lia Ascii String.
From stdpp Require Import base gmap list strings sorting.
From S2P Require Import Prelude.
From S2P Require Import Lifecycle.
From S2P Require Import Rtt.
From S2P Require Import Congestion.
From S2P Require Import Conn.

Open Scope list_scope.
Open Scope Z_scope.

(** * The weight *)

Definition offset64 : Z := 14695981039346656037.
Definition prime64 : Z := 1099511628211.

(** [h ^= uint64(b); h *= prime64] *)
Definition fnv_byte (h b : Z) : Z := u64 (Z.lxor h b * prime64).

(** for i := range len(s) *)
Fixpoint fnv_string (h : Z) (s : string) : Z :=
  match s with
  | EmptyString => h
  | String c s' => fnv_string (fnv_byte h (Z.of_N (N_of_ascii c))) s'
  end.

Definition rendezvousWeight (keyA keyB nodeURL : string) : Z :=
  let h := offset64 in
  let h := fnv_string h keyA in
  let h := if negb (String.eqb keyB "")
           then fnv_string (fnv_byte h 47) keyB else h in
  let h := fnv_byte h 0 in
  fnv_string h nodeURL.

(** * Ranking and selection *)

Section WithHeap.
Context (h : heap).

Definition bucketOf (l : loc) : Z := conn_bucket (deref h l).
Definition urlOf (l : loc) : string := c_URLString (deref h l).

(** The sort key of rankByHash: weight descending, then URL ascending; [a]
    may precede [b] when the comparison function does not return 1. *)
Definition rank_le (keyA keyB : string) (a b : loc) : Prop :=
  let wa := rendezvousWeight keyA keyB (urlOf a) in
  let wb := rendezvousWeight keyA keyB (urlOf b) in
  wa > wb \/ (wa = wb /\ String.le (urlOf a) (urlOf b)).

#[export] Instance rank_le_dec keyA keyB a b : Decision (rank_le keyA keyB a b).
Proof. unfold rank_le. apply _. Defined.

Definition rankByHash (keyA keyB : string) (conns : list loc) : list loc :=
  merge_sort (rank_le keyA keyB) conns.

(** The extent of the current RTT tier: the connections from the head on that
    share its bucket, and what follows. *)
Fixpoint take_tier (b : Z) (conns : list loc) : list loc * list loc :=
  match conns with
  | c :: rest =>
    if bucketOf c =? b then let '(t, r) := take_tier b rest in (c :: t, r) else ([], conns)
  | [] => ([], [])
  end.

(** The loop over the tiers. It returns the new dst, the remaining count, and
    the input slice as the in-place sorts leave it. *)
Fixpoint fill_loop (fuel : nat) (keyA keyB : string) (conns dst : list loc) (remaining : nat)
    : list loc * nat * list loc :=
  match fuel, conns with
  | S f, c :: _ =>
    if (remaining =? 0)%nat then (dst, remaining, conns)
    else
      let '(tierConns, rest) := take_tier (bucketOf c) conns in
      if (length tierConns <=? remaining)%nat then
        let '(dst', remaining', rest') :=
          fill_loop f keyA keyB rest (dst ++ tierConns) (remaining - length tierConns) in
        (dst', remaining', tierConns ++ rest')
      else
        let ranked := rankByHash keyA keyB tierConns in
        (dst ++ take remaining ranked, 0%nat, ranked ++ rest)
  | _, _ => (dst, remaining, conns)
  end.
Definition fillSlotsFromTiers (keyA keyB : string) (conns dst : list loc) (remaining : nat)
    : list loc * nat * list loc :=
  fill_loop (length conns) keyA keyB conns dst remaining.

Definition filterNeedsCatUpdate (conns : list loc) : list loc :=
  let flagged c := needsCatUpdate (c_state (deref h c)) in
  if negb (existsb flagged conns) then conns
  else List.filter (fun c => negb (flagged c)) conns.

(** Rotation left by [offset]: three reversals. *)
Definition rotateConns (s : list loc) (offset : nat) : list loc :=
  rev (rev (take offset s) ++ rev (drop offset s)).

(** int((jitter.Add(1) - 1) % int64(n)), then made non-negative. *)
Definition jitter_offset (jitter : Z) (n : Z) : Z :=
  let offset := Z.rem (wrap64 (wrap64 (jitter + 1) - 1)) n in
  if offset <? 0 then offset + n else offset.

Definition topK_partition (shardNodeNames : gset string) (conns : list loc) : list loc * list loc :=
  if (0 <? size shardNodeNames)%nat then
    let inShard c := bool_decide (c_Name (deref h c) ∈ shardNodeNames) in
    (List.filter inShard conns, List.filter (fun c => negb (inShard c)) conns)
  else (conns, []).

(** The result: nil or the slots, the new jitter, and the caller's slice. *)
Definition rendezvousTopK (keyA keyB : string) (conns : list loc) (k : Z) (jitter : option Z)
    (shardNodeNames : gset string) : list loc * option Z * list loc :=
  if ((length conns =? 0)%nat || (k <=? 0)) then ([], jitter, conns)
  else
    let cands := filterNeedsCatUpdate conns in
    if (length cands =? 0)%nat then ([], jitter, conns)
    else
      let k := Nat.min (Z.to_nat k) (length cands) in
      let '(shard, nonShard) := topK_partition shardNodeNames cands in
      let '(slots, remaining, shard') := fillSlotsFromTiers keyA keyB shard [] k in
      let slots :=
        if ((0 <? remaining)%nat && negb (length nonShard =? 0)%nat)
        then (fillSlotsFromTiers keyA keyB nonShard slots remaining).1.1 else slots in
      (* the sort is in place: it reaches the caller's array only when neither
         the filter nor the partition copied it *)
      let shared := negb (existsb (fun c => needsCatUpdate (c_state (deref h c))) conns)
                    && negb (0 <? size shardNodeNames)%nat in
      let conns' := if shared then shard' else conns in
      let n := length slots in
      match jitter with
      | Some j =>
        if (1 <? n)%nat then
          let offset := jitter_offset j (Z.of_nat n) in
          ((if 0 <? offset then rotateConns slots (Z.to_nat offset) else slots),
           Some (wrap64 (j + 1)), conns')
        else (slots, jitter, conns')
      | None => (slots, jitter, conns')
      end.
End WithHeap.

(** * Selecting the least k of a list *)

Section Select.
Context {A : Type} `{EqDecision A} (lt : A -> A -> Prop) `{!RelDecision lt}.

(** How many elements of [l] come before [y]. *)
Definition rank_in (y : A) (l : list A) : nat := length (filter (fun z => lt z y) l).

Lemma rank_in_Permutation y l l' : l ≡ₚ l' -> rank_in y l = rank_in y l'.
Proof. unfold rank_in. by intros ->. Qed.

Lemma rank_in_app y l l' : rank_in y (l ++ l') = (rank_in y l + rank_in y l')%nat.
Proof. unfold rank_in. by rewrite filter_app, length_app. Qed.

Lemma rank_in_lt y l : y ∈ l -> ~ lt y y -> (rank_in y l < length l)%nat.
Proof. intros Hy Hlt. by apply length_filter_lt with y. Qed.

Lemma rank_in_all y l : (forall z, z ∈ l -> lt z y) -> rank_in y l = length l.
Proof.
  intros H. unfold rank_in. f_equal. induction l as [| x l IH]; [done |].
  rewrite filter_cons_True by (apply H; set_solver). f_equal. apply IH. set_solver.
Qed.

Lemma rank_in_none y l : (forall z, z ∈ l -> ~ lt z y) -> rank_in y l = 0%nat.
Proof.
  intros H. unfold rank_in. induction l as [| x l IH]; [done |].
  rewrite filter_cons_False by (apply H; set_solver). apply IH. set_solver.
Qed.

(** A split of [c] into the part [s] whose members all precede those of [t]
    is the split by rank. *)
Lemma select_rank (s t c : list A) k y :
  s ++ t ≡ₚ c -> length s = Nat.min k (length c) ->
  (forall a b, a ∈ s -> b ∈ t -> lt a b /\ ~ lt b a) -> ~ lt y y ->
  y ∈ s <-> y ∈ c /\ (rank_in y c < k)%nat.
Proof.
  intros Hp Hlen Hst Hirr. rewrite <- (rank_in_Permutation y _ _ Hp), rank_in_app.
  assert (length c = length s + length t)%nat as Hc by (by rewrite <- Hp, length_app).
  split.
  - intros Hy. split; [rewrite <- Hp; set_solver |].
    rewrite (rank_in_none y t) by (intros z Hz; exact (proj2 (Hst y z Hy Hz))).
    pose proof (rank_in_lt y s Hy Hirr). lia.
  - intros [Hy Hk]. rewrite <- Hp in Hy. apply elem_of_app in Hy as [Hy | Hy]; [done |].
    rewrite (rank_in_all y s) in Hk by (intros z Hz; exact (proj1 (Hst z y Hz Hy))).
    destruct t; [set_solver |]. cbn in Hc. lia.
Qed.
End Select.

(** * The tiers *)

Section Tiers.
Context (h : heap) (keyA keyB : string).

#[local] Notation bucket := (bucketOf h).
#[local] Notation rk := (rank_le h keyA keyB).

#[export] Instance rank_le_trans : Transitive rk.
Proof.
  intros a b c. unfold rank_le. intros [H1 | [H1 L1]] [H2 | [H2 L2]]; [left; lia .. |].
  right. split; [congruence | by etrans].
Qed.

#[export] Instance rank_le_total : Total rk.
Proof.
  intros a b. unfold rank_le.
  destruct (Z.lt_total (rendezvousWeight keyA keyB (urlOf h a)) (rendezvousWeight keyA keyB (urlOf h b)))
    as [H | [-> | H]]; [right; left; lia | | left; left; lia].
  destruct (total String.le (urlOf h a) (urlOf h b)); [left | right]; auto.
Qed.

Lemma rank_le_antisym a b : rk a b -> rk b a -> urlOf h a = urlOf h b.
Proof.
  unfold rank_le. intros [H1 | [H1 L1]] [H2 | [H2 L2]]; try lia. by apply (anti_symm String.le).
Qed.

Definition bucket_sorted (l : list loc) : Prop := StronglySorted (fun a b => bucket a <= bucket b) l.

Lemma bucket_sorted_map l l' : map bucket l = map bucket l' -> bucket_sorted l -> bucket_sorted l'.
Proof.
  unfold bucket_sorted. revert l'. induction l as [| a l IH]; intros [| a' l']; try done.
  cbn. intros [= Ha Hl] [Hs Hf]%StronglySorted_inv. constructor; [by apply IH |].
  rewrite Forall_forall in *. intros x Hx. rewrite <- Ha.
  assert (bucket x ∈ map bucket l) as Hin.
  { rewrite Hl. apply list_elem_of_fmap. eauto. }
  apply list_elem_of_fmap in Hin as (z & -> & Hz). by apply Hf.
Qed.

Lemma take_tier_spec b l :
  let '(t, r) := take_tier h b l in
  l = t ++ r /\ (forall x, x ∈ t -> bucket x = b) /\
  match r with [] => True | c :: _ => bucket c <> b end.
Proof.
  induction l as [| c l IH]; cbn; [set_solver |].
  destruct (Z.eqb_spec (bucket c) b) as [Hb | Hb]; [| set_solver].
  destruct (take_tier h b l) as [t r]. destruct IH as (-> & Ht & Hr).
  split_and!; [done | | done]. intros x [-> | Hx]%elem_of_cons; auto.
Qed.

Lemma rankByHash_split n l :
  forall a b, a ∈ take n (rankByHash h keyA keyB l) -> b ∈ drop n (rankByHash h keyA keyB l) -> rk a b.
Proof.
  assert (StronglySorted rk (rankByHash h keyA keyB l)) as Hs by apply (StronglySorted_merge_sort rk).
  rewrite <- (take_drop n (rankByHash h keyA keyB l)) in Hs.
  intros a b Ha Hb. by eapply StronglySorted_app_1_elem_of.
Qed.

(** A connection precedes another of the same partition when its tier is
    nearer, or in the same tier when it ranks before. *)
Definition tier_le (a b : loc) : Prop := bucket a < bucket b \/ (bucket a = bucket b /\ rk a b).

#[export] Instance tier_le_dec : RelDecision tier_le.
Proof. intros a b. unfold tier_le. apply _. Defined.

(** What the fill loop promises. *)
Definition fill_spec (conns dst : list loc) (remaining : nat) (res : list loc * nat * list loc) : Prop :=
  let '(dst', remaining', conns') := res in
  exists sel rest,
    dst' = dst ++ sel /\ sel ++ rest ≡ₚ conns /\
    length sel = Nat.min remaining (length conns) /\
    remaining' = (remaining - length sel)%nat /\
    (forall a b, a ∈ sel -> b ∈ rest -> tier_le a b) /\
    conns' ≡ₚ conns /\ map bucket conns' = map bucket conns.

Lemma map_bucket_const (l : list loc) b :
  (forall x, x ∈ l -> bucket x = b) -> map bucket l = replicate (length l) b.
Proof.
  induction l as [| x l IH]; intros H; cbn; [done |]. f_equal; [apply H; set_solver |].
  apply IH. set_solver.
Qed.

Lemma fill_spec_nothing conns dst remaining :
  conns = [] \/ remaining = 0%nat -> fill_spec conns dst remaining (dst, remaining, conns).
Proof.
  intros H. exists [], conns. rewrite app_nil_r.
  split_and!; try done; [destruct H as [-> | ->]; cbn; lia | cbn; lia | set_solver].
Qed.

Lemma fill_loop_spec fuel conns dst remaining :
  (length conns <= fuel)%nat -> bucket_sorted conns ->
  fill_spec conns dst remaining (fill_loop h fuel keyA keyB conns dst remaining).
Proof.
  revert conns dst remaining. induction fuel as [| f IH]; intros conns dst remaining Hfuel Hs.
  { destruct conns; [apply fill_spec_nothing; auto | cbn in Hfuel; lia]. }
  destruct conns as [| c conns]; [apply fill_spec_nothing; auto |].
  cbn [fill_loop]. destruct (Nat.eqb_spec remaining 0) as [-> | Hr].
  { apply fill_spec_nothing. auto. }
  pose proof (take_tier_spec (bucket c) (c :: conns)) as Ht.
  assert ((take_tier h (bucket c) (c :: conns)).1 <> []) as Hne.
  { cbn. rewrite Z.eqb_refl. by destruct (take_tier h (bucket c) conns). }
  destruct (take_tier h (bucket c) (c :: conns)) as [t r]. cbn in Hne.
  destruct Ht as (Hl & Htb & Hrb). rewrite Hl in Hs, Hfuel |- *.
  assert (forall x, x ∈ r -> bucket c < bucket x) as Hrgt.
  { destruct r as [| c' r']; [set_solver |].
    assert (bucket c <= bucket c') as Hle.
    { destruct t as [| c0 t']; [done |]. rewrite <- (Htb c0) by set_solver.
      apply (StronglySorted_app_1_elem_of _ _ _ c0 c' Hs); set_solver. }
    apply StronglySorted_app_1_r, StronglySorted_inv in Hs as [_ Hf].
    intros x [-> | Hx]%elem_of_cons; [lia |]. rewrite Forall_forall in Hf. specialize (Hf x Hx). cbn in Hf. lia. }
  rewrite length_app in Hfuel.
  destruct (Nat.leb_spec (length t) remaining) as [Hle | Hgt].
  - assert (length r <= f)%nat as Hf by (destruct t; cbn in *; [done | lia]).
    specialize (IH r (dst ++ t) (remaining - length t)%nat Hf (StronglySorted_app_1_r _ _ _ Hs)).
    destruct (fill_loop h f keyA keyB r (dst ++ t) (remaining - length t)) as [[dst' rem'] r'].
    destruct IH as (sel & rest & -> & Hp & Hlen & -> & Hord & Hp' & Hm).
    exists (t ++ sel), rest. split_and!.
    + by rewrite <- app_assoc.
    + by rewrite <- app_assoc, Hp.
    + rewrite !length_app. lia.
    + rewrite length_app. lia.
    + intros a b [Ha | Ha]%elem_of_app Hb; [| by apply Hord].
      left. rewrite (Htb a Ha). apply Hrgt. rewrite <- Hp. set_solver.
    + by rewrite Hp'.
    + by rewrite !map_app, Hm.
  - assert (rankByHash h keyA keyB t ≡ₚ t) as Hp by apply merge_sort_Permutation.
    exists (take remaining (rankByHash h keyA keyB t)), (drop remaining (rankByHash h keyA keyB t) ++ r).
    split_and!; [done | | | | | | ].
    + by rewrite app_assoc, take_drop, Hp.
    + rewrite length_take, Hp, length_app. lia.
    + rewrite length_take, Hp. lia.
    + intros a b Ha [Hb | Hb]%elem_of_app.
      * right. split; [| by apply (rankByHash_split remaining t)].
        trans (bucket c); [apply Htb | symmetry; apply Htb];
          rewrite <- Hp, <- (take_drop remaining (rankByHash h keyA keyB t)); set_solver.
      * left. rewrite (Htb a); [by apply Hrgt |]. rewrite <- Hp, <- (take_drop remaining (rankByHash h keyA keyB t)). set_solver.
    + by rewrite Hp.
    + rewrite !map_app. f_equal. rewrite (map_bucket_const t (bucket c)) by done.
      rewrite (map_bucket_const _ (bucket c)); [by rewrite Hp |].
      intros x. rewrite Hp. apply Htb.
Qed.
End Tiers.

(** * What the selection promises *)

Section TopK.
Context (h : heap) (keyA keyB : string) (names : gset string).

Definition in_shard (l : loc) : bool := bool_decide (c_Name (deref h l) ∈ names).
Definition not_flagged (l : loc) : bool := negb (needsCatUpdate (c_state (deref h l))).

(** The order of preference: shard-hosting nodes, then nearer tiers, then
    higher rendezvous weight. *)
Definition topK_before (a b : loc) : Prop :=
  (in_shard a = true /\ in_shard b = false) \/
  (in_shard a = in_shard b /\ tier_le h keyA keyB a b).

(** Strict preference, as a relation with decisions for [rank_in]. *)
Definition topK_lt (a b : loc) : Prop := a <> b /\ topK_before a b.

#[export] Instance topK_lt_dec : RelDecision topK_lt.
Proof. intros a b. unfold topK_lt, topK_before. apply _. Defined.

Definition url_inj (l : list loc) : Prop :=
  forall a b, a ∈ l -> b ∈ l -> urlOf h a = urlOf h b -> a = b.

Lemma topK_before_antisym a b : topK_before a b -> topK_before b a -> urlOf h a = urlOf h b.
Proof.
  unfold topK_before, tier_le. intros [[H1 H2] | [H1 H2]] [[H3 H4] | [H3 H4]]; try congruence.
  destruct H2 as [? | [? ?]], H4 as [? | [? ?]]; try lia. by apply (rank_le_antisym h keyA keyB).
Qed.

Lemma filterNeedsCatUpdate_filter conns :
  filterNeedsCatUpdate h conns = List.filter not_flagged conns.
Proof.
  unfold filterNeedsCatUpdate. destruct (existsb _ conns) eqn:E; cbn; [done |].
  induction conns as [| c l IH]; [done |]. cbn in *. apply orb_false_iff in E as [E1 E2].
  unfold not_flagged at 1. rewrite E1. cbn. f_equal. by apply IH.
Qed.

Lemma elem_of_List_filter {A} (f : A -> bool) x l : x ∈ List.filter f l <-> x ∈ l /\ f x = true.
Proof. by rewrite !list_elem_of_In, filter_In. Qed.

Lemma StronglySorted_List_filter {A} (R : A -> A -> Prop) f (l : list A) :
  StronglySorted R l -> StronglySorted R (List.filter f l).
Proof.
  induction 1 as [| a l Hs IH Hf]; cbn; [constructor |]. destruct (f a); [| done].
  constructor; [done |]. rewrite Forall_forall in *. intros x [Hx _]%elem_of_List_filter. auto.
Qed.

Lemma filter_partition {A} (f : A -> bool) (l : list A) :
  List.filter f l ++ List.filter (fun x => negb (f x)) l ≡ₚ l.
Proof.
  induction l as [| a l IH]; cbn; [done |].
  destruct (f a); cbn; [by rewrite IH |]. by rewrite <- Permutation_middle, IH.
Qed.

Lemma List_filter_NoDup {A} f (l : list A) : NoDup l -> NoDup (List.filter f l).
Proof.
  induction 1 as [| a l Ha Hn IH]; cbn; [constructor |]. destruct (f a); [| done].
  constructor; [| done]. rewrite elem_of_List_filter. naive_solver.
Qed.

Lemma rotateConns_rotate (s : list loc) o : rotateConns s o = drop o s ++ take o s.
Proof. unfold rotateConns. by rewrite rev_app_distr, !rev_involutive. Qed.

Lemma rotateConns_Permutation (s : list loc) o : rotateConns s o ≡ₚ s.
Proof. by rewrite rotateConns_rotate, Permutation_app_comm, take_drop. Qed.

Lemma jitter_offset_mod j n : int64_range j -> 0 < n < 2 ^ 63 -> jitter_offset j n = j mod n.
Proof.
  intros Hj Hn. unfold jitter_offset.
  assert (wrap64 (wrap64 (j + 1) - 1) = j) as ->.
  { unfold int64_range in Hj. destruct (Z.eq_dec j (2 ^ 63 - 1)) as [-> | Hne]; [reflexivity |].
    rewrite (wrap64_id (j + 1)) by (unfold int64_range; lia).
    rewrite wrap64_id by (unfold int64_range; lia). lia. }
  pose proof (Z.quot_rem j n ltac:(lia)) as Hq.
  pose proof (Z.rem_bound_abs j n ltac:(lia)).
  destruct (Z.ltb_spec (Z.rem j n) 0).
  - apply (Z.mod_unique_pos _ _ (Z.quot j n - 1)); lia.
  - apply (Z.mod_unique_pos _ _ (Z.quot j n)); lia.
Qed.
End TopK.

Section Choose.
Context (h : heap) (keyA keyB : string) (names : gset string).

(** The chosen slots before rotation, the rest of the candidates, and the
    caller's slice afterwards. *)
Definition topK_slots (conns : list loc) (k : Z) : list loc :=
  (rendezvousTopK h keyA keyB conns k None names).1.1.

Lemma topK_partition_spec cands :
  let '(shard, nonShard) := topK_partition h names cands in
  shard ++ nonShard ≡ₚ cands /\
  (forall a b, a ∈ shard -> b ∈ nonShard -> in_shard h names a = true /\ in_shard h names b = false) /\
  (forall a b, a ∈ shard -> b ∈ shard -> in_shard h names a = in_shard h names b) /\
  (forall a b, a ∈ nonShard -> b ∈ nonShard -> in_shard h names a = in_shard h names b) /\
  (bucket_sorted h cands -> bucket_sorted h shard /\ bucket_sorted h nonShard).
Proof.
  unfold topK_partition. destruct (Nat.ltb_spec 0 (size names)) as [Hn | Hn].
  - split_and!.
    + apply filter_partition.
    + intros a b [_ Ha]%elem_of_List_filter [_ Hb]%elem_of_List_filter.
      unfold in_shard. by rewrite Ha, <- negb_true_iff.
    + intros a b [_ Ha]%elem_of_List_filter [_ Hb]%elem_of_List_filter.
      unfold in_shard. by rewrite Ha, Hb.
    + intros a b [_ Ha]%elem_of_List_filter [_ Hb]%elem_of_List_filter.
      rewrite negb_true_iff in Ha, Hb. unfold in_shard. by rewrite Ha, Hb.
    + intros Hs. split; by apply StronglySorted_List_filter.
  - assert (names ≡ ∅) as Hemp by (apply size_empty_iff; lia).
    assert (forall a, in_shard h names a = false) as Hf.
    { intros a. unfold in_shard. apply bool_decide_eq_false. set_solver. }
    split_and!; [by rewrite app_nil_r | set_solver | | set_solver | ].
    + intros a b _ _. by rewrite !Hf.
    + intros Hs. split; [done | constructor].
Qed.

(** The two fill phases choose the first [k] candidates in preference order. *)
Lemma topK_fill cands k :
  bucket_sorted h cands ->
  let '(shard, nonShard) := topK_partition h names cands in
  let '(slots, remaining, shard') := fillSlotsFromTiers h keyA keyB shard [] k in
  let slots' := if ((0 <? remaining)%nat && negb (length nonShard =? 0)%nat)
    then (fillSlotsFromTiers h keyA keyB nonShard slots remaining).1.1 else slots in
  exists rest, slots' ++ rest ≡ₚ cands /\ length slots' = Nat.min k (length cands) /\
    (forall a b, a ∈ slots' -> b ∈ rest -> topK_before h keyA keyB names a b) /\
    shard' ≡ₚ shard /\ map (bucketOf h) shard' = map (bucketOf h) shard.
Proof.
  intros Hs. pose proof (topK_partition_spec cands) as Hp.
  destruct (topK_partition h names cands) as [shard nonShard].
  destruct Hp as (Hp & Hsn & Hss & Hnn & Hsorted). destruct (Hsorted Hs) as [Hs1 Hs2].
  pose proof (fill_loop_spec h keyA keyB (length shard) shard [] k ltac:(done) Hs1) as Hf1.
  unfold fillSlotsFromTiers at 1. destruct (fill_loop _ _ _ _ _ _ _) as [[slots remaining] shard'].
  destruct Hf1 as (sel & rest & -> & Hp1 & Hlen1 & -> & Hord1 & Hp1' & Hm1).
  rewrite app_nil_l. cbv zeta.
  pose proof (Permutation_length Hp) as Hlen. rewrite length_app in Hlen.
  pose proof (Permutation_length Hp1) as Hl1. rewrite length_app in Hl1.
  destruct (Nat.ltb_spec 0 (k - length sel)) as [Hr | Hr].
  - assert (rest = []) as -> by (destruct rest; [done | cbn in *; lia]).
    rewrite app_nil_r in Hp1.
    destruct (Nat.eqb_spec (length nonShard) 0) as [Hz | Hz]; cbn [negb andb].
    + destruct nonShard; [| done]. exists []. rewrite app_nil_r in *.
      split_and!; [by rewrite Hp1 | cbn in *; lia | set_solver | done | done].
    + pose proof (fill_loop_spec h keyA keyB (length nonShard) nonShard sel (k - length sel) ltac:(done) Hs2) as Hf2.
      unfold fillSlotsFromTiers. destruct (fill_loop _ _ _ _ _ _ _) as [[slots2 remaining2] ns'].
      destruct Hf2 as (sel2 & rest2 & -> & Hp2 & Hlen2 & _ & Hord2 & _ & _).
      exists rest2. cbn [fst snd]. split_and!; [| | | done | done].
      * by rewrite <- app_assoc, Hp2, Hp1.
      * rewrite length_app. lia.
      * intros a b [Ha | Ha]%elem_of_app Hb.
        -- left. apply Hsn; [by rewrite <- Hp1 | rewrite <- Hp2; set_solver].
        -- right. split; [apply Hnn; rewrite <- Hp2; set_solver | by apply Hord2].
  - cbn [andb]. exists (rest ++ nonShard). split_and!; [| | | done | done].
    + by rewrite app_assoc, Hp1.
    + lia.
    + intros a b Ha [Hb | Hb]%elem_of_app.
      * right. split; [apply Hss; rewrite <- Hp1; set_solver | by apply Hord1].
      * left. apply Hsn; [rewrite <- Hp1; set_solver | done].
Qed.
Lemma bucket_sorted_filter conns :
  bucket_sorted h conns -> bucket_sorted h (filterNeedsCatUpdate h conns).
Proof. rewrite filterNeedsCatUpdate_filter. apply StronglySorted_List_filter. Qed.

(** The selection splits the candidates into the chosen and the rest. *)
Lemma rendezvousTopK_split conns k jitter :
  bucket_sorted h conns ->
  let '(slots, jitter', conns') := rendezvousTopK h keyA keyB conns k jitter names in
  let cands := filterNeedsCatUpdate h conns in
  (exists rest, slots ++ rest ≡ₚ cands /\ length slots = Nat.min (Z.to_nat k) (length cands) /\
    (forall a b, a ∈ slots -> b ∈ rest -> topK_before h keyA keyB names a b)) /\
  conns' ≡ₚ conns /\ map (bucketOf h) conns' = map (bucketOf h) conns.
Proof.
  intros Hs. unfold rendezvousTopK.
  assert (forall n, n = 0%nat -> exists rest : list loc,
    [] ++ rest ≡ₚ filterNeedsCatUpdate h conns /\ length (@nil loc) = n /\
    (forall a b, a ∈ @nil loc -> b ∈ rest -> topK_before h keyA keyB names a b)) as Hnil.
  { intros n ->. exists (filterNeedsCatUpdate h conns). set_solver. }
  destruct (_ || _)%bool eqn:E.
  { split; [apply Hnil | done]. apply orb_true_iff in E as [->%Nat.eqb_eq%nil_length_inv | E%Z.leb_le]; cbn; lia. }
  destruct (Nat.eqb_spec (length (filterNeedsCatUpdate h conns)) 0) as [E0 | E0].
  { split; [apply Hnil; lia | done]. }
  pose proof (topK_fill (filterNeedsCatUpdate h conns)
    (Z.to_nat k `min` length (filterNeedsCatUpdate h conns))%nat (bucket_sorted_filter conns Hs)) as Hf.
  destruct (topK_partition h names (filterNeedsCatUpdate h conns)) as [shard nonShard] eqn:Epart.
  destruct (fillSlotsFromTiers h keyA keyB shard [] _) as [[slots remaining] shard'].
  destruct Hf as (rest & Hp & Hlen & Hord & Hp' & Hm).
  match goal with |- context [if ?b then shard' else conns] =>
    assert ((if b then shard' else conns) ≡ₚ conns /\
      map (bucketOf h) (if b then shard' else conns) = map (bucketOf h) conns) as Hcs end.
  { destruct (negb (existsb _ conns)) eqn:E1, (0 <? size names)%nat eqn:E2; cbn; try done.
    unfold filterNeedsCatUpdate, topK_partition in Epart. rewrite E1, E2 in Epart.
    injection Epart as <- <-. done. }
  set (slots' := if _ : bool then _ else slots) in *.
  assert (forall s, s ≡ₚ slots' -> exists rest0,
    s ++ rest0 ≡ₚ filterNeedsCatUpdate h conns /\
    length s = Nat.min (Z.to_nat k) (length (filterNeedsCatUpdate h conns)) /\
    (forall a b, a ∈ s -> b ∈ rest0 -> topK_before h keyA keyB names a b)) as Hok.
  { intros s Hse. exists rest. rewrite Hse. split_and!; [done | lia |].
    intros a b Ha. apply Hord. by rewrite <- Hse. }
  destruct jitter as [j |]; [| by split; [apply Hok |]].
  destruct (1 <? length slots')%nat; [| by split; [apply Hok |]].
  split; [| done]. apply Hok. destruct (0 <? _); [apply rotateConns_Permutation | done].
Qed.
End Choose.

(** What the theorems assume of the caller's slice. *)
Definition topK_input (h : heap) (conns : list loc) : Prop :=
  bucket_sorted h conns /\ NoDup conns /\ url_inj h conns.

Lemma elem_of_candidates h conns y :
  y ∈ filterNeedsCatUpdate h conns <-> y ∈ conns /\ needsCatUpdate (c_state (deref h y)) = false.
Proof.
  rewrite filterNeedsCatUpdate_filter, elem_of_List_filter. unfold not_flagged. by rewrite negb_true_iff.
Qed.

Lemma candidates_NoDup h conns : NoDup conns -> NoDup (filterNeedsCatUpdate h conns).
Proof. rewrite filterNeedsCatUpdate_filter. apply List_filter_NoDup. Qed.

Lemma rendezvousTopK_rank h keyA keyB names conns k jitter :
  topK_input h conns ->
  let slots := (rendezvousTopK h keyA keyB conns k jitter names).1.1 in
  let cands := filterNeedsCatUpdate h conns in
  NoDup slots /\ length slots = Nat.min (Z.to_nat k) (length cands) /\
  (forall y, y ∈ slots <->
     y ∈ cands /\ (rank_in (topK_lt h keyA keyB names) y cands < Z.to_nat k)%nat).
Proof.
  intros (Hs & Hnd & Hinj).
  pose proof (rendezvousTopK_split h keyA keyB names conns k jitter Hs) as H.
  destruct (rendezvousTopK _ _ _ _ _ _ _) as [[slots jitter'] conns']. cbv zeta. cbn [fst].
  destruct H as [(rest & Hp & Hlen & Hord) _].
  pose proof (candidates_NoDup h conns Hnd) as Hnd2. rewrite <- Hp in Hnd2.
  apply NoDup_app in Hnd2 as (Hn1 & Hdisj & _).
  split_and!; [done | done |].
  intros y. apply (select_rank _ slots rest); [done | done | | by intros [? _]].
  intros a b Ha Hb. assert (a <> b) as Hab by (intros ->; by apply (Hdisj b)).
  split; [split; [done | by apply Hord] |]. intros [_ Hba].
  apply Hab, Hinj; [| | by apply (topK_before_antisym h keyA keyB names); [apply Hord |]];
    eapply elem_of_candidates; rewrite <- Hp; apply elem_of_app; auto.
Qed.

Definition without (x : loc) (conns : list loc) : list loc := List.filter (fun c => negb (c =? x)%nat) conns.

Lemma elem_of_without x y l : y ∈ without x l <-> y ∈ l /\ y <> x.
Proof. unfold without. rewrite elem_of_List_filter. destruct (Nat.eqb_spec y x); naive_solver. Qed.

Lemma topK_input_without h x conns : topK_input h conns -> topK_input h (without x conns).
Proof.
  intros (Hs & Hnd & Hinj). split_and!.
  - by apply StronglySorted_List_filter.
  - by apply List_filter_NoDup.
  - intros a b [Ha _]%elem_of_without [Hb _]%elem_of_without. by apply Hinj.
Qed.

Lemma candidates_without h x conns :
  filterNeedsCatUpdate h (without x conns) = without x (filterNeedsCatUpdate h conns).
Proof.
  rewrite !filterNeedsCatUpdate_filter. unfold without.
  induction conns as [| c l IH]; [done |]. cbn.
  destruct (negb (c =? x)%nat) eqn:E1, (not_flagged h c) eqn:E2; cbn; rewrite ?E1, ?E2; by rewrite IH.
Qed.

Lemma without_submseteq x l : NoDup l -> without x l ⊆+ l.
Proof.
  intros Hl. apply NoDup_submseteq; [by apply List_filter_NoDup |]. intros y [? _]%elem_of_without. done.
Qed.

Lemma length_without x l : NoDup l -> (length l <= S (length (without x l)))%nat.
Proof.
  intros Hl. assert (l ⊆+ x :: without x l) as H; [| by apply submseteq_length in H].
  apply NoDup_submseteq; [done |]. intros y Hy. rewrite elem_of_cons, elem_of_without.
  destruct (decide (y = x)); auto.
Qed.

Lemma rank_in_submseteq {A} (lt : A -> A -> Prop) `{!RelDecision lt} y l l' :
  l ⊆+ l' -> (rank_in lt y l <= rank_in lt y l')%nat.
Proof.
  intros H. unfold rank_in. apply submseteq_Permutation in H as [k ->].
  rewrite filter_app, length_app. lia.
Qed.

(** * Theorems *)

(** C7: The chosen slots are exactly the k best candidates. On a slice sorted by
    RTT bucket whose connections have different URLs, rendezvousTopK returns
    min(k, candidates) different connections, none of them flagged for a shard
    refresh, and a candidate is chosen if and only if fewer than k candidates
    are preferred to it: shard-hosting nodes first, then nearer RTT tiers, then
    higher rendezvous weight. The answer therefore does not depend on the order
    within a tier; and the caller's slice is left a permutation of itself that
    is still sorted by bucket, even when the ranking sorted it in place. *)
Theorem rendezvousTopK_best h keyA keyB names conns k jitter :
  topK_input h conns ->
  let '(slots, jitter', conns') := rendezvousTopK h keyA keyB conns k jitter names in
  let cands := filterNeedsCatUpdate h conns in
  NoDup slots /\ length slots = Nat.min (Z.to_nat k) (length cands) /\
  (forall y, y ∈ slots <->
     y ∈ cands /\ (rank_in (topK_lt h keyA keyB names) y cands < Z.to_nat k)%nat) /\
  (forall y, y ∈ cands <-> y ∈ conns /\ needsCatUpdate (c_state (deref h y)) = false) /\
  conns' ≡ₚ conns /\ bucket_sorted h conns'.
Proof.
  intros Hin. pose proof Hin as (Hs & _).
  pose proof (rendezvousTopK_split h keyA keyB names conns k jitter Hs) as H.
  pose proof (rendezvousTopK_rank h keyA keyB names conns k jitter Hin) as Hr.
  destruct (rendezvousTopK _ _ _ _ _ _ _) as [[slots jitter'] conns']. cbv zeta in Hr. cbn [fst] in Hr.
  destruct H as (_ & Hp' & Hm), Hr as (H1 & H2 & H3).
  split_and!; [done | done | done | apply elem_of_candidates | done | by apply (bucket_sorted_map h conns)].
Qed.

(** C8: Minimal disruption, the promise of rendezvous hashing. When a
    connection x leaves the cluster, every other chosen connection stays
    chosen, at most one new connection takes a slot, and when x was not chosen
    nothing changes. Read backwards it bounds what a joining node displaces. *)
Theorem rendezvousTopK_minimal_disruption h keyA keyB names conns k j j' x :
  topK_input h conns ->
  let slots := (rendezvousTopK h keyA keyB conns k j names).1.1 in
  let slots' := (rendezvousTopK h keyA keyB (without x conns) k j' names).1.1 in
  (forall y, y ∈ slots -> y <> x -> y ∈ slots') /\
  (forall y z, y ∈ slots' -> y ∉ slots -> z ∈ slots' -> z ∉ slots -> y = z) /\
  (x ∉ slots -> slots' ≡ₚ slots).
Proof.
  intros Hin.
  pose proof (rendezvousTopK_rank h keyA keyB names conns k j Hin) as (Hn & Hlen & Hr).
  pose proof (rendezvousTopK_rank h keyA keyB names (without x conns) k j'
    (topK_input_without h x conns Hin)) as (Hn' & Hlen' & Hr').
  rewrite candidates_without in Hlen', Hr'. cbv zeta in *.
  set (slots := (rendezvousTopK h keyA keyB conns k j names).1.1) in *.
  set (slots' := (rendezvousTopK h keyA keyB (without x conns) k j' names).1.1) in *.
  destruct Hin as (_ & Hnd & _). pose proof (candidates_NoDup h conns Hnd) as Hc.
  pose proof (without_submseteq x _ Hc) as Hsub. pose proof (submseteq_length _ _ Hsub) as Hsl.
  assert (length slots' <= length slots)%nat as Hle by lia.
  assert (forall y, y ∈ slots -> y <> x -> y ∈ slots') as Hkeep.
  { intros y Hy Hne. apply Hr in Hy as [Hy Hk]. apply Hr'. rewrite elem_of_without.
    split; [done |]. pose proof (rank_in_submseteq (topK_lt h keyA keyB names) y _ _ Hsub). lia. }
  split_and!; [done | |].
  - intros y z Hy Hny Hz Hnz. destruct (decide (y = z)) as [| Hne]; [done | exfalso].
    assert (y :: z :: without x slots ⊆+ slots') as Hs.
    { apply NoDup_submseteq.
      - constructor; [| constructor; [| by apply List_filter_NoDup]]; rewrite ?elem_of_cons, elem_of_without; naive_solver.
      - intros w. rewrite !elem_of_cons, elem_of_without. naive_solver. }
    apply submseteq_length in Hs. cbn in Hs. pose proof (length_without x slots Hn). lia.
  - intros Hx. symmetry. apply submseteq_length_Permutation; [| done].
    apply NoDup_submseteq; [done |]. intros y Hy. apply Hkeep; [done |]. by intros ->.
Qed.

(** Jitter only rotates the slots. *)
Lemma rendezvousTopK_jitter h keyA keyB names conns k j :
  let slots := topK_slots h keyA keyB names conns k in
  int64_range j -> (1 < length slots)%nat -> Z.of_nat (length slots) < 2 ^ 63 ->
  let o := Z.to_nat (j mod Z.of_nat (length slots)) in
  (rendezvousTopK h keyA keyB conns k (Some j) names).1 = (drop o slots ++ take o slots, Some (wrap64 (j + 1))).
Proof.
  unfold topK_slots, rendezvousTopK.
  destruct (_ || _)%bool; [cbn; lia |]. destruct (length (filterNeedsCatUpdate h conns) =? 0)%nat; [cbn; lia |].
  destruct (topK_partition _ _ _). destruct (fillSlotsFromTiers _ _ _ _ _ _) as [[slots remaining] shard'].
  cbn [fst snd].
  set (s := if _ : bool then _ else slots). clearbody s. intros Hj Hn Hb.
  destruct (Nat.ltb_spec 1 (length s)); [| lia]. cbn [fst snd].
  rewrite jitter_offset_mod by (done || lia). f_equal.
  pose proof (Z.mod_pos_bound j (Z.of_nat (length s)) ltac:(lia)).
  destruct (Z.ltb_spec 0 (j mod Z.of_nat (length s))) as [Hp | Hz].
  - apply rotateConns_rotate.
  - assert (j mod Z.of_nat (length s) = 0) as -> by lia. cbn. by rewrite drop_0, take_0, app_nil_r.
Qed.

Lemma head_rotate {A} (s : list A) o : (o < length s)%nat -> head (drop o s ++ take o s) = s !! o.
Proof.
  intros Ho. destruct (lookup_lt_is_Some_2 s o Ho) as [x Hx].
  by rewrite (drop_S s x o Hx), Hx.
Qed.

(** The jitter spreads the load evenly. Over n consecutive calls for the
    same key on an unchanged slice, with n chosen slots, every chosen
    connection is the first choice exactly once; each call advances the shared
    counter by one and returns a rotation of the same slots. *)
Theorem rendezvousTopK_round_robin h keyA keyB names conns k j :
  topK_input h conns ->
  let slots := topK_slots h keyA keyB names conns k in
  let n := length slots in
  (1 < n)%nat -> - 2 ^ 63 <= j -> j + Z.of_nat n < 2 ^ 63 -> Z.of_nat n < 2 ^ 63 ->
  let call i := rendezvousTopK h keyA keyB conns k (Some (j + Z.of_nat i)) names in
  (forall i, (i < n)%nat -> (call i).1.2 = Some (j + Z.of_nat i + 1) /\ (call i).1.1 ≡ₚ slots) /\
  (forall c, c ∈ slots -> exists! i, (i < n)%nat /\ head (call i).1.1 = Some c).
Proof.
  intros Hin slots n Hn Hlo Hhi Hnb call.
  assert (NoDup slots) as Hnd by apply (rendezvousTopK_rank h keyA keyB names conns k None Hin).
  set (o i := Z.to_nat ((j + Z.of_nat i) mod Z.of_nat n)).
  assert (forall i, (i < n)%nat ->
    (call i).1 = (drop (o i) slots ++ take (o i) slots, Some (j + Z.of_nat i + 1))) as Hcall.
  { intros i Hi. unfold call.
    rewrite rendezvousTopK_jitter by (unfold int64_range; done || lia).
    rewrite wrap64_id by (unfold int64_range; lia). done. }
  assert (forall i, (o i < n)%nat) as Ho.
  { intros i. unfold o. pose proof (Z.mod_pos_bound (j + Z.of_nat i) (Z.of_nat n)). lia. }
  split.
  - intros i Hi. rewrite Hcall by done. cbn [fst snd].
    split; [done |]. by rewrite Permutation_app_comm, take_drop.
  - intros c [p Hp]%list_elem_of_lookup_1. pose proof (lookup_lt_Some _ _ _ Hp) as Hpn. fold n in Hpn.
    set (i := Z.to_nat ((Z.of_nat p - j) mod Z.of_nat n)).
    pose proof (Z.mod_pos_bound (Z.of_nat p - j) (Z.of_nat n) ltac:(lia)) as Hib.
    exists i. split.
    + split; [lia |]. rewrite Hcall by lia. cbn [fst]. rewrite head_rotate by apply Ho.
      enough (o i = p) as -> by done. unfold o, i. rewrite Z2Nat.id by lia.
      rewrite Z.add_mod_idemp_r by lia.
      replace (j + (Z.of_nat p - j)) with (Z.of_nat p) by lia. rewrite Z.mod_small by lia. lia.
    + intros i' [Hi' Hh]. rewrite Hcall in Hh by done. cbn [fst] in Hh. rewrite head_rotate in Hh by apply Ho.
      assert (o i' = p) as Hop by (eapply NoDup_lookup; [exact Hnd | done | done]).
      unfold i. rewrite <- Hop. unfold o. rewrite Z2Nat.id by (apply Z.mod_pos_bound; lia).
      rewrite Zminus_mod_idemp_l. replace (j + Z.of_nat i' - j) with (Z.of_nat i') by lia.
      rewrite Z.mod_small by lia. lia.
Qed.

(** * Concrete runs *)

(** Five nodes: one near, four in a farther tier; node 3 is flagged. *)
Definition ex_conn (url : string) (bucket state : Z) : Connection :=
  MkConnection url url url ∅ 1 8 (Some (RttRing [bucket] 1)) pr_zero 0 state 0 0 0 0 false.
Definition ex_heap : heap :=
  {[ 0%nat := ex_conn "http://n0:9200" 9 (newConnState lcActive);
     1%nat := ex_conn "http://n1:9200" 12 (newConnState lcActive);
     2%nat := ex_conn "http://n2:9200" 12 (newConnState lcActive);
     3%nat := ex_conn "http://n3:9200" 12 (newConnState (Z.lor lcActive lcNeedsCatUpdate));
     4%nat := ex_conn "http://n4:9200" 12 (newConnState lcActive) ]}.
Definition ex_conns : list loc := [0; 1; 2; 3; 4]%nat.

Lemma ex_input : topK_input ex_heap ex_conns.
Proof.
  split_and!.
  - repeat constructor; vm_compute; discriminate.
  - by apply (bool_decide_unpack _).
  - unfold url_inj. intros a b Ha Hb. unfold ex_conns in *.
    repeat (apply elem_of_cons in Ha as [-> | Ha]); try (by apply elem_of_nil in Ha);
    repeat (apply elem_of_cons in Hb as [-> | Hb]); try (by apply elem_of_nil in Hb); by vm_compute.
Qed.

Lemma rendezvousTopK_best_witness :
  topK_input ex_heap ex_conns /\
  rendezvousTopK ex_heap "logs" "doc-1" ex_conns 3 (Some 7) ∅ = ([1; 2; 0]%nat, Some 8, ex_conns) /\
  (forall y, y ∈ [1; 2; 0]%nat <-> y ∈ filterNeedsCatUpdate ex_heap ex_conns /\
     (rank_in (topK_lt ex_heap "logs" "doc-1" ∅) y (filterNeedsCatUpdate ex_heap ex_conns) < 3)%nat).
Proof.
  split; [exact ex_input |].
  assert (rendezvousTopK ex_heap "logs" "doc-1" ex_conns 3 (Some 7) ∅ = ([1; 2; 0]%nat, Some 8, ex_conns))
    as E by (vm_compute; reflexivity).
  split; [exact E |].
  pose proof (rendezvousTopK_best ex_heap "logs" "doc-1" ∅ ex_conns 3 (Some 7) ex_input) as H.
  rewrite E in H. exact (proj1 (proj2 (proj2 H))).
Defined.

(** Node 1 leaves: node 2 keeps its slot for the key "logs/a". *)
Lemma rendezvousTopK_minimal_disruption_witness :
  (rendezvousTopK ex_heap "logs" "a" ex_conns 2 None ∅).1.1 = [0; 2]%nat /\
  (rendezvousTopK ex_heap "logs" "a" (without 1 ex_conns) 2 None ∅).1.1 ≡ₚ
    (rendezvousTopK ex_heap "logs" "a" ex_conns 2 None ∅).1.1.
Proof.
  split; [vm_compute; reflexivity |].
  apply (proj2 (proj2 (rendezvousTopK_minimal_disruption ex_heap "logs" "a" ∅ ex_conns 2 None None 1 ex_input))).
  apply (bool_decide_unpack _). vm_compute. exact I.
Defined.

Lemma rendezvousTopK_round_robin_witness :
  exists! i, (i < 3)%nat /\
    head (rendezvousTopK ex_heap "logs" "doc-1" ex_conns 3 (Some (100 + Z.of_nat i)) ∅).1.1 = Some 1%nat.
Proof.
  assert (length (topK_slots ex_heap "logs" "doc-1" ∅ ex_conns 3) = 3%nat) as E by (vm_compute; reflexivity).
  pose proof (rendezvousTopK_round_robin ex_heap "logs" "doc-1" ∅ ex_conns 3 100 ex_input) as H.
  cbv zeta in H. rewrite E in H.
  apply H; [lia | lia | lia | lia |].
  apply (bool_decide_unpack _). vm_compute. exact I.
Defined.

(** With no flagged connection and no shard data the ranking sorts the slice
    of the caller itself. *)
Lemma rendezvousTopK_sorts_input :
  (rendezvousTopK ex_heap "logs" "a" [0; 1; 2; 4]%nat 2 None ∅).2 = [0; 2; 1; 4]%nat.
Proof. vm_compute. reflexivity. Qed.
