(* ===== verification/Pool.v ===== *)
(** pool_multi_server.go, pool_selector.go, pool_selector_round_robin.go: the
    state of a multi-server pool and the operations on its lists.

    A pool operation is a computation of the monad [M World]: the world holds
    the heap of connections, the pool's own fields, the clock, the random
    source, and the goroutines the operation has started (each runs later, as
    a step of its own). An index out of range is the panic of the monad. Each
    definition covers one critical section of the code; observers and debug
    logging, which only read, are left out. *)

From Stdlib Require Import ZArith Lia Ascii String.
From stdpp Require Import base gmap list strings sorting.
From S2P Require Import Prelude.
From S2P Require Import Atomic.
From S2P Require Import Lifecycle.
From S2P Require Import Warmup.
From S2P Require Import Rtt.
From S2P Require Import Congestion.
From S2P Require Import Conn.

Open Scope list_scope.
Open Scope Z_scope.

(** * Selectors (pool_selector.go) *)

Definition capShrink : Z := -1.
Definition capRemain : Z := 0.
Definition capGrow : Z := 1.

(** The poolSelector interface. The selector's own state is an int64; an outer
    [None] is a panic, an inner [None] is a non-nil error, otherwise
    (conn, activeCap, standbyCap). *)
Class PoolSelector := selectNext :
  Z -> list loc -> Z -> option (Z * option (loc * Z * Z)).

(** A slice read: [None] is the index-out-of-range panic. *)
Definition index {A} (l : list A) (i : Z) : option A :=
  if i <? 0 then None else l !! Z.to_nat i.

(** poolRoundRobin.selectNext; Go's [%] truncates, a zero divisor panics. *)
Definition poolRoundRobin_selectNext (counter : Z) (ready : list loc) (activeCount : Z)
    : option (Z * option (loc * Z * Z)) :=
  let counter := wrap64 (counter + 1) in
  let next := counter in
  if activeCount =? 0 then None
  else
    let idx := Z.rem (wrap64 (next - 1)) activeCount in
    match index ready idx with
    | Some c => Some (counter, Some (c, capRemain, capRemain))
    | None => None
    end.
#[export] Instance poolRoundRobin : PoolSelector := poolRoundRobin_selectNext.

(** * State *)

(** Goroutines an operation starts with [go], and the TryLock attempt of
    triggerCapEnforcement. *)
Inductive task :=
  | TaskStandbyPromotion            (* go cp.deferredStandbyPromotion() *)
  | TaskCapEnforcement              (* triggerCapEnforcement *)
  | TaskRTTProbe (c : loc)          (* go cp.scheduleRTTProbe(c) *)
  | TaskResurrect (c : loc)         (* the goroutine of scheduleResurrect *)
  | TaskPromoteStandby.             (* go cp.asyncPromoteStandby(ctx) *)

(** The struct guarded by cp.mu. *)
Record PoolMu := MkPoolMu {
  ready : list loc;
  dead : list loc;
  activeCount : Z;
  members : gset loc;
  activeListCap : Z;
  warmupRounds : Z;
  warmupSkipCount : Z;
  healthCheck : bool }.             (* cp.mu.healthCheck != nil *)

Record metrics := MkMetrics {
  connectionsPromoted : Z;
  connectionsDemoted : Z;
  zombieConnections : Z;
  standbyPromotions : Z;
  standbyDemotions : Z }.

Record counters := MkCounters {
  poolRequests : Z; poolSuccesses : Z; poolFailures : Z;
  poolWarmupSkips : Z; poolWarmupAccepts : Z }.

Record World := MkWorld {
  w_heap : heap;
  w_mu : PoolMu;
  w_selector : option Z;            (* the selector and its state, or nil *)
  w_nextReady : Z;
  w_activeListCapConfig : option Z;
  w_standbyPromotionChecks : Z;
  w_counters : counters;
  w_metrics : option metrics;
  w_now : Z;                        (* time.Now() *)
  w_rng : list Z;                   (* what math/rand/v2 will draw *)
  w_tasks : list task }.

Definition mu_ready (m : PoolMu) (v : list loc) : PoolMu :=
  MkPoolMu v (dead m) (activeCount m) (members m) (activeListCap m) (warmupRounds m) (warmupSkipCount m) (healthCheck m).
Definition mu_dead (m : PoolMu) (v : list loc) : PoolMu :=
  MkPoolMu (ready m) v (activeCount m) (members m) (activeListCap m) (warmupRounds m) (warmupSkipCount m) (healthCheck m).
Definition mu_activeCount (m : PoolMu) (v : Z) : PoolMu :=
  MkPoolMu (ready m) (dead m) v (members m) (activeListCap m) (warmupRounds m) (warmupSkipCount m) (healthCheck m).
Definition mu_activeListCap (m : PoolMu) (v : Z) : PoolMu :=
  MkPoolMu (ready m) (dead m) (activeCount m) (members m) v (warmupRounds m) (warmupSkipCount m) (healthCheck m).
Definition mu_warmup (m : PoolMu) (rounds skip : Z) : PoolMu :=
  MkPoolMu (ready m) (dead m) (activeCount m) (members m) (activeListCap m) rounds skip (healthCheck m).

Definition with_heap (s : World) (h : heap) : World :=
  MkWorld h (w_mu s) (w_selector s) (w_nextReady s) (w_activeListCapConfig s) (w_standbyPromotionChecks s) (w_counters s) (w_metrics s) (w_now s) (w_rng s) (w_tasks s).
Definition with_mu (s : World) (m : PoolMu) : World :=
  MkWorld (w_heap s) m (w_selector s) (w_nextReady s) (w_activeListCapConfig s) (w_standbyPromotionChecks s) (w_counters s) (w_metrics s) (w_now s) (w_rng s) (w_tasks s).
Definition with_selector (s : World) (v : option Z) : World :=
  MkWorld (w_heap s) (w_mu s) v (w_nextReady s) (w_activeListCapConfig s) (w_standbyPromotionChecks s) (w_counters s) (w_metrics s) (w_now s) (w_rng s) (w_tasks s).
Definition with_nextReady (s : World) (v : Z) : World :=
  MkWorld (w_heap s) (w_mu s) (w_selector s) v (w_activeListCapConfig s) (w_standbyPromotionChecks s) (w_counters s) (w_metrics s) (w_now s) (w_rng s) (w_tasks s).
Definition with_counters (s : World) (v : counters) : World :=
  MkWorld (w_heap s) (w_mu s) (w_selector s) (w_nextReady s) (w_activeListCapConfig s) (w_standbyPromotionChecks s) v (w_metrics s) (w_now s) (w_rng s) (w_tasks s).
Definition with_metrics (s : World) (v : option metrics) : World :=
  MkWorld (w_heap s) (w_mu s) (w_selector s) (w_nextReady s) (w_activeListCapConfig s) (w_standbyPromotionChecks s) (w_counters s) v (w_now s) (w_rng s) (w_tasks s).
Definition with_rng (s : World) (v : list Z) : World :=
  MkWorld (w_heap s) (w_mu s) (w_selector s) (w_nextReady s) (w_activeListCapConfig s) (w_standbyPromotionChecks s) (w_counters s) (w_metrics s) (w_now s) v (w_tasks s).
Definition with_tasks (s : World) (v : list task) : World :=
  MkWorld (w_heap s) (w_mu s) (w_selector s) (w_nextReady s) (w_activeListCapConfig s) (w_standbyPromotionChecks s) (w_counters s) (w_metrics s) (w_now s) (w_rng s) v.

(** The connection a pointer refers to, and a write through it. *)
Definition conn_at (s : World) (c : loc) : Connection := deref (w_heap s) c.
Definition upd_conn (c : loc) (f : Connection -> Connection) : M World unit :=
  modify (fun s => with_heap s (<[c := f (conn_at s c)]> (w_heap s))).
Definition upd_mu (f : PoolMu -> PoolMu) : M World unit := modify (fun s => with_mu s (f (w_mu s))).
Definition upd_counters (f : counters -> counters) : M World unit :=
  modify (fun s => with_counters s (f (w_counters s))).
(** [if cp.metrics != nil { ... }] *)
Definition upd_metrics (f : metrics -> metrics) : M World unit :=
  modify (fun s => with_metrics s (option_map f (w_metrics s))).
(** [go ...] *)
Definition spawn (t : task) : M World unit := modify (fun s => with_tasks s (w_tasks s ++ [t])).

Definition incr_requests (k : counters) : counters :=
  MkCounters (wrap64 (poolRequests k + 1)) (poolSuccesses k) (poolFailures k) (poolWarmupSkips k) (poolWarmupAccepts k).
Definition incr_successes (k : counters) : counters :=
  MkCounters (poolRequests k) (wrap64 (poolSuccesses k + 1)) (poolFailures k) (poolWarmupSkips k) (poolWarmupAccepts k).
Definition incr_failures (k : counters) : counters :=
  MkCounters (poolRequests k) (poolSuccesses k) (wrap64 (poolFailures k + 1)) (poolWarmupSkips k) (poolWarmupAccepts k).
Definition incr_skips (k : counters) : counters :=
  MkCounters (poolRequests k) (poolSuccesses k) (poolFailures k) (wrap64 (poolWarmupSkips k + 1)) (poolWarmupAccepts k).
Definition incr_accepts (k : counters) : counters :=
  MkCounters (poolRequests k) (poolSuccesses k) (poolFailures k) (poolWarmupSkips k) (wrap64 (poolWarmupAccepts k + 1)).

Definition add_promoted (m : metrics) : metrics :=
  MkMetrics (wrap64 (connectionsPromoted m + 1)) (connectionsDemoted m) (zombieConnections m) (standbyPromotions m) (standbyDemotions m).
Definition add_demoted (m : metrics) : metrics :=
  MkMetrics (connectionsPromoted m) (wrap64 (connectionsDemoted m + 1)) (zombieConnections m) (standbyPromotions m) (standbyDemotions m).
Definition add_zombie (m : metrics) : metrics :=
  MkMetrics (connectionsPromoted m) (connectionsDemoted m) (wrap64 (zombieConnections m + 1)) (standbyPromotions m) (standbyDemotions m).
Definition add_standbyPromotion (m : metrics) : metrics :=
  MkMetrics (connectionsPromoted m) (connectionsDemoted m) (zombieConnections m) (wrap64 (standbyPromotions m + 1)) (standbyDemotions m).
Definition add_standbyDemotions (n : Z) (m : metrics) : metrics :=
  MkMetrics (connectionsPromoted m) (connectionsDemoted m) (zombieConnections m) (standbyPromotions m) (wrap64 (standbyDemotions m + n)).

(** * Slices *)

(** l[i], l[j] = l[j], l[i] *)
Definition swap_at (l : list loc) (i j : Z) : option (list loc) :=
  match index l i, index l j with
  | Some a, Some b => Some (<[Z.to_nat j := a]> (<[Z.to_nat i := b]> l))
  | _, _ => None
  end.

Definition swap_ready (i j : Z) : M World unit :=
  let* l := getsM (fun s => swap_at (ready (w_mu s)) i j) in
  upd_mu (fun m => mu_ready m l).

(** rand.Shuffle: for i := n - 1; i > 0; i-- { swap(i, rand(0..i)) } *)
Definition draw (bound : Z) : M World Z :=
  let* r := gets (fun s => hd 0 (w_rng s)) in
  modify (fun s => with_rng s (tl (w_rng s))) ;;;
  ret (r mod bound).
Fixpoint rand_Shuffle (i : nat) : M World unit :=
  match i with
  | O => ret tt
  | S i' =>
    let* j := draw (Z.of_nat i + 1) in
    swap_ready (Z.of_nat i) j ;;;
    rand_Shuffle i'
  end.
Definition shuffleActiveWithLock : M World unit :=
  let* n := gets (fun s => activeCount (w_mu s)) in
  if n <=? 1 then ret tt else rand_Shuffle (Z.to_nat (n - 1)).

(** The compaction loop of removeFromReadyWithLock from [readIdx] on: the
    entries kept, in order, and how many removed ones were active. *)
Fixpoint remove_entries (c : loc) (activeCount readIdx : Z) (l : list loc) : list loc * Z :=
  match l with
  | [] => ([], 0)
  | x :: l' =>
    let '(kept, activeRemoved) := remove_entries c activeCount (readIdx + 1) l' in
    if (x =? c)%nat
    then (kept, if readIdx <? activeCount then activeRemoved + 1 else activeRemoved)
    else (x :: kept, activeRemoved)
  end.
Definition removeFromReadyWithLock (c : loc) : M World unit :=
  upd_mu (fun m =>
    let '(kept, activeRemoved) := remove_entries c (activeCount m) 0 (ready m) in
    if (length kept =? length (ready m))%nat then m
    else mu_activeCount (mu_ready m kept) (activeCount m - activeRemoved)).

(** slices.Backward: the index of the last occurrence. *)
Fixpoint last_index (c : loc) (l : list loc) : option nat :=
  match l with
  | [] => None
  | x :: l' =>
    match last_index c l' with
    | Some i => Some (S i)
    | None => if (x =? c)%nat then Some O else None
    end
  end.
Definition removeFromDeadWithLock (c : loc) : M World unit :=
  upd_mu (fun m =>
    match last_index c (dead m) with
    | None => m
    | Some idx =>
      let last := (length (dead m) - 1)%nat in
      let d := if (idx =? last)%nat then dead m
               else match dead m !! last with
                    | Some x => <[idx := x]> (dead m)
                    | None => dead m
                    end in
      mu_dead m (take last d)
    end).

(** The RTT probe of a connection that has never been measured. *)
Definition probe_unknown_rtt (c : loc) : M World unit :=
  let* need := gets (fun s =>
    match c_rttRing (conn_at s c) with
    | None => false
    | Some _ => bucket_IsUnknown (conn_bucket (conn_at s c)) && healthCheck (w_mu s)
    end) in
  whenM need (spawn (TaskRTTProbe c)).

(** One iteration of [for range w]: append, then swap with the boundary. *)
Definition append_active_entry (c : loc) : M World unit :=
  upd_mu (fun m => mu_ready m (ready m ++ [c])) ;;;
  let* m := gets w_mu in
  swap_ready (Z.of_nat (length (ready m)) - 1) (activeCount m) ;;;
  upd_mu (fun m => mu_activeCount m (activeCount m + 1)).
Definition appendToReadyActiveWithLock (c : loc) : M World unit :=
  probe_unknown_rtt c ;;;
  let* w := gets (fun s => effectiveWeight (conn_at s c)) in
  forM (seq 0 (Z.to_nat w)) (fun _ => append_active_entry c).
Definition appendToReadyStandbyWithLock (c : loc) : M World unit :=
  probe_unknown_rtt c ;;;
  let* w := gets (fun s => effectiveWeight (conn_at s c)) in
  forM (seq 0 (Z.to_nat w)) (fun _ => upd_mu (fun m => mu_ready m (ready m ++ [c]))).

Definition dead_invariant (now : Z) (c : Connection) : Connection :=
  let c := if deadSinceIsZero c then storeDeadSince c now else c in
  if has (conn_lifecycle c) lcUnknown then c else conn_set_bit c lcUnknown.
Definition appendToDeadWithLock (c : loc) : M World unit :=
  let* now := gets w_now in
  upd_conn c (dead_invariant now) ;;;
  upd_mu (fun m => mu_dead m (dead m ++ [c])).

(** * Counting and configuration *)

Record lifecycleCounts := MkCounts {
  n_active : Z; n_standby : Z; n_dead : Z; n_warming : Z; n_healthCheck : Z; n_overloaded : Z }.

Definition count_position (lc : Z) (k : lifecycleCounts) : lifecycleCounts :=
  if has lc lcActive then MkCounts (n_active k + 1) (n_standby k) (n_dead k) (n_warming k) (n_healthCheck k) (n_overloaded k)
  else if has lc lcStandby then MkCounts (n_active k) (n_standby k + 1) (n_dead k) (n_warming k) (n_healthCheck k) (n_overloaded k)
  else MkCounts (n_active k) (n_standby k) (n_dead k + 1) (n_warming k) (n_healthCheck k) (n_overloaded k).
Definition count_flags (warming healthChecking overloaded : bool) (k : lifecycleCounts) : lifecycleCounts :=
  MkCounts (n_active k) (n_standby k) (n_dead k)
    (if warming then n_warming k + 1 else n_warming k)
    (if healthChecking then n_healthCheck k + 1 else n_healthCheck k)
    (if overloaded then n_overloaded k + 1 else n_overloaded k).
Definition countByLifecycleWithLock (s : World) : lifecycleCounts :=
  let count_ready k c :=
    let cs := c_state (conn_at s c) in
    let lc := lifecycle cs in
    count_flags (isWarmingUp cs) (has lc lcHealthChecking) (has lc lcOverloaded) (count_position lc k) in
  let count_dead k c :=
    let lc := lifecycle (c_state (conn_at s c)) in
    count_flags false (has lc lcHealthChecking) (has lc lcOverloaded) (count_position lc k) in
  foldl count_dead (foldl count_ready (MkCounts 0 0 0 0 0 0) (ready (w_mu s))) (dead (w_mu s)).

(** snapshot: the counts, the cap and the counters, read under RLock. *)
Definition snapshot (s : World) : lifecycleCounts * Z * counters :=
  (countByLifecycleWithLock s, activeListCap (w_mu s), w_counters s).

Definition hasAvailableConnsWithLock (s : World) : bool :=
  if (0 <? length (ready (w_mu s)))%nat then true
  else existsb (fun c => availableForRouting (conn_at s c)) (dead (w_mu s)).

Definition recalculateWarmupParamsWithLock (poolSize : Z) : M World unit :=
  let* config := gets w_activeListCapConfig in
  whenM (match config with None => 0 <? poolSize | Some _ => false end)
    (upd_mu (fun m => mu_activeListCap m poolSize)) ;;;
  let* cap := gets (fun s => activeListCap (w_mu s)) in
  let n := poolSize in
  let n := if (0 <? cap) && (cap <? n) then cap else n in
  let n := if n <=? 0 then minWarmupRounds else n in
  let rounds := Z.max (Z.min n maxWarmupRounds) minWarmupRounds in
  upd_mu (fun m => mu_warmup m rounds (rounds * warmupSkipMultiple)).

Definition getWarmupParamsWithLock (m : PoolMu) : Z * Z :=
  let rounds := if warmupRounds m <=? 0 then defaultWarmupRounds else warmupRounds m in
  let skipCount := if warmupSkipCount m <=? 0 then defaultWarmupSkipCount else warmupSkipCount m in
  (rounds, skipCount).

(** URLs, connections, connectionsByState: snapshots under RLock. *)
Definition URLs (s : World) : list string :=
  map (fun c => c_URLString (conn_at s c)) (ready (w_mu s)) ++
  map (fun c => c_URLString (conn_at s c)) (dead (w_mu s)).
Definition connections (s : World) : list loc := ready (w_mu s) ++ dead (w_mu s).
Definition connectionsByState (s : World) : list loc * list loc := (ready (w_mu s), dead (w_mu s)).

(** NewConnectionPool with two or more connections (one connection makes a
    singleServerPool). *)
Definition NewConnectionPool_mu (conns : list loc) : PoolMu :=
  MkPoolMu conns [] (Z.of_nat (length conns)) (list_to_set conns) 0 0 0 false.

(** * Selection of the next active entry *)

Section Selector.
Context `{sel : PoolSelector}.

(** The connection, or nil on a selector error, and whether the caller must
    enforce the cap. *)
Definition getNextActiveConnWithLock : M World (option loc * bool) :=
  let* sel_state := gets w_selector in
  match sel_state with
  | Some st =>
    let* r := getsM (fun s => selectNext st (ready (w_mu s)) (activeCount (w_mu s))) in
    let '(st', res) := r in
    modify (fun s => with_selector s (Some st')) ;;;
    match res with
    | None => ret (None, false)
    | Some (conn, activeCap, _) =>
      if activeCap =? capGrow then spawn TaskStandbyPromotion ;;; ret (Some conn, false)
      else if activeCap =? capShrink then ret (Some conn, true)
      else ret (Some conn, false)
    end
  | None =>
    modify (fun s => with_nextReady s (wrap64 (w_nextReady s + 1))) ;;;
    let* c := getsM (fun s =>
      if activeCount (w_mu s) =? 0 then None
      else index (ready (w_mu s)) (Z.rem (wrap64 (w_nextReady s - 1)) (activeCount (w_mu s)))) in
    ret (Some c, false)
  end.
End Selector.

Definition deferredStandbyPromotion : M World unit :=
  let* m := gets w_mu in
  if Z.of_nat (length (ready m)) <=? activeCount m then ret tt
  else
    let* c := getsM (fun s => index (ready (w_mu s)) (activeCount (w_mu s))) in
    upd_conn c (fun c => (conn_cas c 0 lcActive (lcStandby ||| lcNeedsWarmup)).1) ;;;
    upd_mu (fun m => mu_activeCount m (activeCount m + 1)) ;;;
    upd_mu (fun m => if (0 <? activeListCap m) && (activeListCap m <? activeCount m)
                     then mu_activeListCap m (activeCount m) else m) ;;;
    upd_metrics add_standbyPromotion.

(** * Resurrection and reporting *)

(** Caller holds the pool lock and the connection lock. *)
Definition resurrectWithLock (c : loc) : M World unit :=
  upd_conn c (fun c => storeOverloadedAt c 0) ;;;
  upd_conn c markAsReadyWithLock ;;;
  removeFromDeadWithLock c ;;;
  upd_metrics add_promoted ;;;
  let* m := gets w_mu in
  if (activeListCap m <=? 0) || (activeCount m <? activeListCap m) then
    upd_conn c (fun c => (conn_cas c 0 lcActive (lcUnknown ||| lcStandby)).1) ;;;
    (let* p := gets (fun s => getWarmupParamsWithLock (w_mu s)) in
     upd_conn c (fun c => conn_startWarmup c p.1 p.2)) ;;;
    appendToReadyActiveWithLock c ;;;
    shuffleActiveWithLock
  else
    upd_conn c (fun c => (conn_cas c 0 lcStandby (lcUnknown ||| lcActive)).1) ;;;
    appendToReadyStandbyWithLock c.

Definition shouldSkipDraining (c : Connection) : bool := 0 <? c_drainingQuiescingRemaining c.
Definition shouldSkipOverloaded (c : Connection) : bool := has (conn_lifecycle c) lcOverloaded.

Definition OnSuccess (c : loc) : M World unit :=
  let* conn := gets (fun s => conn_at s c) in
  if deadSinceIsZero conn then ret tt
  else if shouldSkipDraining conn then ret tt
  else if shouldSkipOverloaded conn then ret tt
  else
    upd_conn c markAsHealthyWithLock ;;;
    resurrectWithLock c ;;;
    upd_counters incr_successes.

(** scheduleResurrect up to the [go]: claim the health check of [c]. *)
Definition scheduleResurrect (c : loc) : M World unit :=
  let* busy := gets (fun s => negb (c_checkStartedAt (conn_at s c) =? 0)) in
  if busy then ret tt
  else
    let* now := gets w_now in
    upd_conn c (fun c => conn_set_bit (set_checkStartedAt c now) lcHealthChecking) ;;;
    spawn (TaskResurrect c).

(** The transition OnFailure requests. *)
Definition failure_set : Z := lcDead ||| lcNeedsWarmup ||| lcNeedsHardware.
Definition failure_clr : Z := lcReady ||| lcActive ||| lcStandby ||| lcOverloaded.
Definition failures_le (h : heap) (a b : loc) : Prop := c_failures (deref h b) <= c_failures (deref h a).
#[export] Instance failures_le_dec h a b : Decision (failures_le h a b).
Proof. unfold failures_le. apply _. Defined.

(** Under the pool's lock: the transition to dead. The answer is [None] when
    there is nothing to do, otherwise whether a standby connection is left. *)
Definition OnFailure_demote (c : loc) : M World (option bool) :=
  let* conn := gets (fun s => conn_at s c) in
  if has (conn_lifecycle conn) lcUnknown then ret None
  else
    let '(conn', err) := conn_cas conn 0 failure_set failure_clr in
    match err with
    | Some _ => ret None
    | None =>
      let* now := gets w_now in
      upd_conn c (fun _ => markAsDeadWithLock now (storeOverloadedAt conn' 0)) ;;;
      removeFromReadyWithLock c ;;;
      appendToDeadWithLock c ;;;
      upd_counters incr_failures ;;;
      upd_metrics add_demoted ;;;
      modify (fun s => with_mu s (mu_dead (w_mu s) (merge_sort (failures_le (w_heap s)) (dead (w_mu s))))) ;;;
      let* hasStandby := gets (fun s => activeCount (w_mu s) <? Z.of_nat (length (ready (w_mu s)))) in
      ret (Some hasStandby)
    end.

(** After it is released: under the connection's lock, then under none. *)
Definition OnFailure (c : loc) : M World unit :=
  let* demoted := OnFailure_demote c in
  match demoted with
  | None => ret tt
  | Some hasStandby =>
    scheduleResurrect c ;;;
    whenM hasStandby (spawn TaskPromoteStandby)
  end.
