(* ===== verification/PoolResurrect.v ===== *)
(** pool_resurrect.go: health checks, checkDead, and the retry loop of
    scheduleResurrect, cut at the points where the code releases its locks.

    The answer of the network is an argument: [None] is an error, [Some rtt] a
    response after [rtt] nanoseconds. The server version the response carries
    is not modelled (no connection field of the model depends on it). *)

From Stdlib Require Import ZArith Lia Ascii String.
From stdpp Require Import base gmap list strings sorting.
From S2P Require Import Prelude.
From S2P Require Import Atomic.
From S2P Require Import Lifecycle.
From S2P Require Import Warmup.
From S2P Require Import Rtt.
From S2P Require Import Congestion.
From S2P Require Import Conn.
From S2P Require Import Pool.

Open Scope list_scope.
Open Scope Z_scope.

(** A nil HealthCheckFunc cannot be called; add() on a ring of no slots
    divides by zero; add() on a nil ring does nothing. *)
Definition performHealthCheck (c : loc) (outcome : option Z) (recordRTT : bool) : M World bool :=
  let* hc := gets (fun s => healthCheck (w_mu s)) in
  if negb hc then panic
  else
    match outcome with
    | None => ret false
    | Some rtt =>
      (if recordRTT then
         let* conn := gets (fun s => conn_at s c) in
         match c_rttRing conn with
         | None => ret tt
         | Some r =>
           let* r' := getsM (fun _ => ring_add r rtt) in
           upd_conn c (fun c => set_rttRing c (Some r'))
         end
       else ret tt) ;;;
      upd_conn c (fun c => (decrementDrainingQuiescing c).1) ;;;
      upd_conn c (fun c => if isWarmingUp (c_state c) then (conn_tryWarmupSkip c).1 else c) ;;;
      ret true
    end.

(** scheduleRTTProbe: the goroutine's two probes; the first is not recorded. *)
Definition scheduleRTTProbe (c : loc) (tryLock : bool) (first second : option Z) : M World unit :=
  if negb tryLock then ret tt
  else
    performHealthCheck c first false ;;;
    performHealthCheck c second true ;;;
    ret tt.

(** ** Connection.healthCheck

    Up to the network call: [None] when a check is already in progress,
    otherwise the deadSince seen before it. *)
Definition healthCheck_start (c : loc) : M World (option Z) :=
  let* conn := gets (fun s => conn_at s c) in
  if negb (c_checkStartedAt conn =? 0) then ret None
  else
    let* now := gets w_now in
    upd_conn c (fun c => conn_set_bit (set_checkStartedAt c now) lcHealthChecking) ;;;
    ret (Some (loadDeadSince conn)).

(** After it; the deferred reset of the check runs on every return. The result
    says whether healthCheck returned an error. *)
Definition healthCheck_finish (c : loc) (originalDeadSince : Z) (failed : bool) : M World bool :=
  let* conn := gets (fun s => conn_at s c) in
  let* now := gets w_now in
  let finish (conn : Connection) := conn_clear_bit (set_checkStartedAt conn 0) lcHealthChecking in
  if originalDeadSince <? loadDeadSince conn then
    upd_conn c finish ;;; ret false
  else if failed then
    upd_conn c (fun c => finish (if deadSinceIsZero c then storeDeadSince c now else c)) ;;; ret true
  else
    upd_conn c (fun c => finish (if deadSinceIsZero c then c else storeDeadSince c 0)) ;;; ret false.

(** ** checkDead

    The snapshot of the dead list, the fast path for one of its connections
    ([true]: it still needs a check), and the end of checkDeadOne after a
    passed check. *)
Definition checkDead_snapshot (s : World) : list loc := dead (w_mu s).
Definition checkDead_promote (c : loc) : M World unit :=
  let* conn := gets (fun s => conn_at s c) in
  if isReady (c_state conn) then
    upd_conn c markAsHealthyWithLock ;;;
    resurrectWithLock c
  else ret tt.
Definition checkDead_fast (c : loc) : M World bool :=
  let* ready := gets (fun s => isReady (c_state (conn_at s c))) in
  if ready then checkDead_promote c ;;; ret false else ret true.
Fixpoint checkDead_sync (deadConns : list loc) : M World (list loc) :=
  match deadConns with
  | [] => ret []
  | c :: rest =>
    let* need := checkDead_fast c in
    let* needsCheck := checkDead_sync rest in
    ret (if need then c :: needsCheck else needsCheck)
  end.

Definition checkDeadOne_resurrect (c : loc) : M World unit :=
  let* conn := gets (fun s => conn_at s c) in
  if deadSinceIsZero conn then resurrectWithLock c else ret tt.
Definition checkDeadOne_after (c : loc) (failed : bool) : M World unit :=
  if failed then ret tt
  else
    let* r := gets (fun s => (decrementDrainingQuiescing (conn_at s c)).2) in
    upd_conn c (fun c => (decrementDrainingQuiescing c).1) ;;;
    if 0 <? r then ret tt
    else
      let* isDead := gets (fun s => negb (deadSinceIsZero (conn_at s c))) in
      if isDead then ret tt else checkDeadOne_resurrect c.
(** The whole call when no other goroutine intervenes. *)
Definition checkDeadOne (c : loc) (failed : bool) : M World unit :=
  let* started := healthCheck_start c in
  match started with
  | None => ret tt
  | Some original =>
    let* err := healthCheck_finish c original failed in
    checkDeadOne_after c err
  end.

(** checkDead with its workers run one after the other, [answers] being the
    failures of the health checks in order. *)
Fixpoint checkDead_slow (needsCheck : list loc) (answers : list bool) : M World unit :=
  match needsCheck, answers with
  | c :: rest, failed :: answers' => checkDeadOne c failed ;;; checkDead_slow rest answers'
  | _, _ => ret tt
  end.
(** [true] when it returns an error: a nil health check function. *)
Definition checkDead (hasCheck : bool) (answers : list bool) : M World bool :=
  if negb hasCheck then ret true
  else
    let* deadConns := gets checkDead_snapshot in
    let* needsCheck := checkDead_sync deadConns in
    checkDead_slow needsCheck answers ;;;
    ret false.

(** ** The goroutine of scheduleResurrect

    One iteration after its timeout. *)
Inductive attempt := AttemptReturn | AttemptProbe.

(** Both locks held, up to the release for the health check. *)
Definition resurrect_begin (c : loc) : M World attempt :=
  let* s := gets (fun s => s) in
  if deadSinceIsZero (conn_at s c) then ret AttemptReturn
  else if negb (bool_decide (c ∈ ready (w_mu s)) || bool_decide (c ∈ dead (w_mu s))) then ret AttemptReturn
  else if has (conn_lifecycle (conn_at s c)) lcOverloaded then ret AttemptReturn
  else if healthCheck (w_mu s) then ret AttemptProbe
  else resurrectWithLock c ;;; ret AttemptReturn.

(** attemptHealthCheckWithRelock after re-acquiring the locks, and the
    resurrection it allows: [true] leaves the loop, [false] retries. *)
Definition resurrect_end (c : loc) (healthCheckPassed : bool) : M World bool :=
  if negb healthCheckPassed then
    upd_conn c (fun c => set_failures c (wrap64 (c_failures c + 1))) ;;; ret false
  else
    let* s := gets (fun s => s) in
    if deadSinceIsZero (conn_at s c) then ret true
    else if negb (bool_decide (c ∈ ready (w_mu s)) || bool_decide (c ∈ dead (w_mu s))) then ret true
    else if 0 <? c_drainingQuiescingRemaining (conn_at s c) then ret false
    else resurrectWithLock c ;;; ret true.

(** The deferred reset when the goroutine returns. *)
Definition resurrect_exit (c : loc) : M World unit :=
  upd_conn c (fun c => conn_clear_bit (set_checkStartedAt c 0) lcHealthChecking).

(** The goroutine, undisturbed, over the answers of successive health checks
    (a cancelled context ends it where the answers end). *)
Fixpoint resurrect_loop (c : loc) (answers : list (option Z)) : M World unit :=
  match answers with
  | [] => resurrect_exit c
  | a :: answers' =>
    let* st := resurrect_begin c in
    match st with
    | AttemptReturn => resurrect_exit c
    | AttemptProbe =>
      let* passed := performHealthCheck c a true in
      let* exit := resurrect_end c passed in
      if exit then resurrect_exit c else resurrect_loop c answers'
    end
  end.
