(* ===== verification/PoolStandby.v ===== *)
(** pool_standby.go: overload demotion, the active cap, and the promotion of
    standby connections. *)

From Stdlib Require Import ZArith Lia Ascii String.
From stdpp Require Import base gmap list strings sorting.
From S2P Require Import Prelude.
From S2P Require Import Atomic.
From S2P Require Import Lifecycle.
From S2P Require Import Warmup.
From S2P Require Import Rtt.
From S2P Require Import Congestion.
From S2P Require Import Conn.
From S2P Require Import Pool.
From S2P Require Import PoolResurrect.

Open Scope list_scope.
Open Scope Z_scope.

Inductive rotation_err :=
  | ErrRotationHealthCheckFailed | ErrRotationPromotionRace
  | ErrRotationStateChanged | ErrRotationNoCandidate.

(** ** The active cap *)

Definition is_warming (s : World) (c : loc) : bool := isWarmingUp (c_state (conn_at s c)).

(** The loop that partitions ready[:activeCount] in place: for i from [i] on,
    a warming entry is swapped to position warmCount. *)
Fixpoint partition_warming (n : nat) (i warmCount : Z) : M World Z :=
  match n with
  | O => ret warmCount
  | S n' =>
    let* c := getsM (fun s => index (ready (w_mu s)) i) in
    let* warming := gets (fun s => is_warming s c) in
    if warming then
      whenM (negb (i =? warmCount)) (swap_ready i warmCount) ;;;
      partition_warming n' (i + 1) (warmCount + 1)
    else partition_warming n' (i + 1) warmCount
  end.

(** The transition of one overflow entry. *)
Definition demote_capped (c : Connection) : Connection :=
  conn_clearWarmup (conn_cas c 0 (lcStandby ||| lcNeedsWarmup) lcActive).1.
Fixpoint demote_overflow (n : nat) (i : Z) : M World unit :=
  match n with
  | O => ret tt
  | S n' =>
    let* c := getsM (fun s => index (ready (w_mu s)) i) in
    upd_conn c demote_capped ;;;
    demote_overflow n' (i + 1)
  end.

Definition enforceActiveCapWithLock : M World unit :=
  let* m := gets w_mu in
  if (activeListCap m <=? 0) || (activeCount m <=? activeListCap m) then ret tt
  else
    let* nonWarmCount := getsM (fun s =>
      if (activeCount m <=? Z.of_nat (length (ready m)))
      then Some (Z.of_nat (length (filter (fun c => is_warming s c = false) (take (Z.to_nat (activeCount m)) (ready m)))))
      else None) in
    if nonWarmCount <=? activeListCap m then ret tt
    else
      let* warmCount := partition_warming (Z.to_nat (activeCount m)) 0 0 in
      let newActiveCount := warmCount + activeListCap m in
      let overflow := activeCount m - newActiveCount in
      demote_overflow (Z.to_nat overflow) newActiveCount ;;;
      upd_mu (fun m => mu_activeCount m newActiveCount) ;;;
      shuffleActiveWithLock ;;;
      upd_metrics (add_standbyDemotions overflow).

(** ** Promotion *)

Definition tryStandbyWithLock : M World (option loc) :=
  let* m := gets w_mu in
  if Z.of_nat (length (ready m)) <=? activeCount m then ret None
  else
    let* c := getsM (fun s => index (ready (w_mu s)) (activeCount (w_mu s))) in
    upd_conn c (fun c => (conn_cas c 0 lcActive (lcStandby ||| lcNeedsWarmup)).1) ;;;
    upd_mu (fun m => mu_activeCount m (activeCount m + 1)) ;;;
    upd_metrics add_standbyPromotion ;;;
    ret (Some c).

(** The backward search of the standby portion: the last index >= activeCount
    that holds [c]. *)
Definition find_standby (m : PoolMu) (c : loc) : option Z :=
  match last_index c (ready m) with
  | Some idx => if activeCount m <=? Z.of_nat idx then Some (Z.of_nat idx) else None
  | None => None
  end.

Definition promoteStandbyWithLock (c : loc) : M World bool :=
  let* m := gets w_mu in
  match find_standby m c with
  | None => ret false
  | Some idx =>
    whenM (negb (idx =? activeCount m)) (swap_ready idx (activeCount m)) ;;;
    upd_conn c (fun c => (conn_cas c 0 lcActive lcStandby).1) ;;;
    (let* p := gets (fun s => getWarmupParamsWithLock (w_mu s)) in
     upd_conn c (fun c => conn_startWarmup c p.1 p.2)) ;;;
    upd_mu (fun m => mu_activeCount m (activeCount m + 1)) ;;;
    shuffleActiveWithLock ;;;
    upd_metrics add_standbyPromotion ;;;
    ret true
  end.

(** ** Overload *)

Definition demoteOverloaded (c : loc) : M World unit :=
  let* conn := gets (fun s => conn_at s c) in
  let* now := gets w_now in
  let lc := conn_lifecycle conn in
  if has lc lcUnknown || has lc lcStandby then
    upd_conn c (fun c => storeOverloadedAt (conn_set_bit c lcOverloaded) now)
  else
    let '(conn', err) := conn_cas conn 0 (lcStandby ||| lcOverloaded) lcActive in
    match err with
    | Some _ => ret tt
    | None =>
      upd_conn c (fun _ => storeOverloadedAt conn' now) ;;;
      removeFromReadyWithLock c ;;;
      appendToReadyStandbyWithLock c ;;;
      upd_metrics (add_standbyDemotions 1) ;;;
      tryStandbyWithLock ;;;
      ret tt
    end.

Definition promoteFromOverloaded (c : loc) : M World unit :=
  let* conn := gets (fun s => conn_at s c) in
  if negb (has (conn_lifecycle conn) lcOverloaded) then ret tt
  else upd_conn c (fun c => storeOverloadedAt (conn_clear_bit c lcOverloaded) 0).

(** ** Rotation *)

(** The candidate passes run backward from the tail; [rev] of the standby
    portion is the order in which they look at it. *)
Definition standby_backward (m : PoolMu) : list loc := rev (drop (Z.to_nat (activeCount m)) (ready m)).
Definition idle_standby (s : World) (c : loc) : bool :=
  negb (hasAny (conn_lifecycle (conn_at s c)) (lcOverloaded ||| lcUnknown ||| lcHealthChecking)).
Definition checking_standby (s : World) (c : loc) : bool :=
  let lc := conn_lifecycle (conn_at s c) in
  negb (hasAny lc (lcOverloaded ||| lcUnknown) || negb (has lc lcHealthChecking)).

Definition findActiveCandidate : M World (option loc) :=
  let* s := gets (fun s => s) in
  match List.find (idle_standby s) (standby_backward (w_mu s)) with
  | Some c =>
    upd_conn c (fun c =>
      (conn_cas c (lcOverloaded ||| lcUnknown) (lcHealthChecking ||| lcNeedsWarmup) 0).1) ;;;
    ret (Some c)
  | None => ret (List.find (checking_standby s) (standby_backward (w_mu s)))
  end.

Definition evictUnknownFromReadyWithLock (c : loc) : M World unit :=
  let* now := gets w_now in
  upd_conn c (markAsDeadWithLock now) ;;;
  removeFromReadyWithLock c ;;;
  appendToDeadWithLock c.

(** performStandbyHealthCheck: [standbyPromotionChecks] consecutive probes;
    running out of answers is a failed probe. *)
Fixpoint standby_probes (n : nat) (c : loc) (answers : list (option Z)) : M World bool :=
  match n with
  | O => ret true
  | S n' =>
    let* ok := performHealthCheck c (hd None answers) true in
    if ok then standby_probes n' c (tl answers) else ret false
  end.
Definition performStandbyHealthCheck (c : loc) (answers : list (option Z)) : M World bool :=
  let* hc := gets (fun s => healthCheck (w_mu s)) in
  if negb hc then ret true
  else
    let* n := gets w_standbyPromotionChecks in
    standby_probes (Z.to_nat n) c answers.

(** healthcheckStart after the probes, with the pool lock re-acquired. *)
Definition healthcheckStart_finish (candidate : loc) (healthy : bool) : M World (loc + rotation_err) :=
  upd_conn candidate (fun c => conn_clear_bit c lcHealthChecking) ;;;
  let* s := gets (fun s => s) in
  let conn := conn_at s candidate in
  if negb (bool_decide (candidate ∈ ready (w_mu s))) then ret (inr ErrRotationPromotionRace)
  else if has (conn_lifecycle conn) lcUnknown then
    evictUnknownFromReadyWithLock candidate ;;;
    scheduleResurrect candidate ;;;
    ret (inr ErrRotationStateChanged)
  else if negb healthy then
    let '(conn', err) := conn_cas conn 0 (lcDead ||| lcNeedsWarmup) (lcReady ||| lcActive ||| lcStandby) in
    match err with
    | Some _ => ret (inr ErrRotationStateChanged)
    | None =>
      upd_conn candidate (fun _ => markAsDeadWithLock (w_now s) conn') ;;;
      removeFromReadyWithLock candidate ;;;
      appendToDeadWithLock candidate ;;;
      scheduleResurrect candidate ;;;
      ret (inr ErrRotationHealthCheckFailed)
    end
  else
    match find_standby (w_mu s) candidate with
    | Some _ => ret (inl candidate)
    | None =>
      upd_conn candidate (fun c => conn_clear_bit c lcNeedsWarmup) ;;;
      ret (inr ErrRotationPromotionRace)
    end.

Definition healthcheckStart (answers : list (option Z)) : M World (loc + rotation_err) :=
  let* candidate := findActiveCandidate in
  match candidate with
  | None => ret (inr ErrRotationNoCandidate)
  | Some c =>
    let* healthy := performStandbyHealthCheck c answers in
    healthcheckStart_finish c healthy
  end.

(** (attempted, rotated, error), undisturbed. *)
Definition rotateStandbyOnce (answers : list (option Z)) : M World (bool * bool * option rotation_err) :=
  let* r := healthcheckStart answers in
  match r with
  | inr ErrRotationNoCandidate => ret (false, false, None)
  | inr err => ret (true, false, Some err)
  | inl candidate =>
    let* ok := promoteStandbyWithLock candidate in
    if ok then ret (true, true, None) else ret (true, false, Some ErrRotationPromotionRace)
  end.

(** One goroutine of rotateStandby: retry with the next candidate until one is
    promoted or none is left; [answers] is what the probes of each attempt
    hear. It returns how many were rotated and the errors met. *)
Fixpoint rotateStandby_worker (answers : list (list (option Z))) : M World (nat * list rotation_err) :=
  match answers with
  | [] => ret (0%nat, [])   (* the context is cancelled *)
  | a :: answers' =>
    let* r := rotateStandbyOnce a in
    let '(attempted, success, err) := r in
    let errs := match err with Some e => [e] | None => [] end in
    if negb attempted then ret (0%nat, errs)
    else if success then ret (1%nat, errs)
    else
      let* rest := rotateStandby_worker answers' in
      ret (rest.1, errs ++ rest.2)
  end.
(** rotateStandby with its goroutines run one after the other. *)
Fixpoint rotateStandby_workers (answers : list (list (list (option Z)))) (count : nat) (rotated : nat)
    (errs : list rotation_err) : M World (nat * list rotation_err) :=
  match answers with
  | [] => ret (rotated, errs)
  | a :: answers' =>
    if (count <=? rotated)%nat then ret (rotated, errs)
    else
      let* r := rotateStandby_worker a in
      rotateStandby_workers answers' count (rotated + r.1)%nat (errs ++ r.2)
  end.
Definition rotateStandby (count : Z) (answers : list (list (list (option Z)))) : M World (nat * list rotation_err) :=
  if count <=? 0 then ret (0%nat, [])
  else rotateStandby_workers (take (Z.to_nat count) answers) (Z.to_nat count) 0 [].

Definition asyncPromoteStandby (answers : list (option Z)) : M World unit :=
  let* r := healthcheckStart answers in
  match r with
  | inr _ => ret tt
  | inl candidate => promoteStandbyWithLock candidate ;;; ret tt
  end.

Definition promoteStandbyGracefullyWithLock (gap : Z) : M World unit :=
  let* m := gets w_mu in
  let standbyCount := Z.of_nat (length (ready m)) - activeCount m in
  if (gap <=? 0) || (standbyCount <=? 0) then ret tt
  else forM (seq 0 (Z.to_nat (Z.min gap standbyCount))) (fun _ => spawn TaskPromoteStandby).
