(* ===== verification/PoolSelect.v ===== *)
(** pool_selection.go and pool_single_server.go: Next and its fallbacks. *)

From Stdlib Require Import ZArith Lia Ascii String.
From stdpp Require Import base gmap list strings sorting.
From S2P Require Import Prelude.
From S2P Require Import Atomic.
From S2P Require Import Lifecycle.
From S2P Require Import Warmup.
From S2P Require Import Rtt.
From S2P Require Import Congestion.
From S2P Require Import Conn.
From S2P Require Import Pool.
From S2P Require Import PoolResurrect.
From S2P Require Import PoolStandby.

Open Scope list_scope.
Open Scope Z_scope.

(** Dedicated cluster managers serve no request traffic; a seed may. *)
Definition serves_traffic (c : Connection) : bool :=
  c_seed c || negb (isDedicatedClusterManager (c_Roles c)).
(** state.lifecycle()&(lcActive|lcStandby) != 0 *)
Definition has_position (c : Connection) : bool :=
  hasAny (conn_lifecycle c) (lcActive ||| lcStandby).

Definition evictExternallyDemotedWithLock (c : loc) : M World unit :=
  removeFromReadyWithLock c ;;;
  appendToDeadWithLock c ;;;
  upd_metrics add_demoted.

(** The rotation of the dead list: at most one turn. *)
Fixpoint tryZombie_loop (n : nat) : M World (option loc) :=
  match n with
  | O => ret None
  | S n' =>
    let* c := getsM (fun s => head (dead (w_mu s))) in
    upd_mu (fun m => mu_dead m (tl (dead m) ++ [c])) ;;;
    let* ok := gets (fun s => availableForRouting (conn_at s c)) in
    if ok then upd_metrics add_zombie ;;; ret (Some c) else tryZombie_loop n'
  end.
Definition tryZombieWithLock : M World (option loc) :=
  let* n := gets (fun s => length (dead (w_mu s))) in tryZombie_loop n.

(** [None] is ErrNoConnections. *)
Definition nextFallbackWithLock : M World (option loc) :=
  let* st := tryStandbyWithLock in
  let zombie : M World (option loc) :=
    let* z := tryZombieWithLock in
    match z with
    | Some c =>
      let* ok := gets (fun s => serves_traffic (conn_at s c)) in
      if ok then upd_counters incr_requests ;;; ret (Some c) else ret None
    | None => ret None
    end in
  match st with
  | Some c =>
    let* ok := gets (fun s => serves_traffic (conn_at s c)) in
    if ok then upd_counters incr_requests ;;; ret (Some c) else zombie
  | None => zombie
  end.

Section Selection.
Context `{sel : PoolSelector}.

(** [for range maxSkips] over the active entries with the write lock held. *)
Fixpoint evict_loop (n : nat) : M World (option loc) :=
  match n with
  | O => nextFallbackWithLock
  | S n' =>
    let* ac := gets (fun s => activeCount (w_mu s)) in
    if ac <=? 0 then nextFallbackWithLock
    else
      let* r := getNextActiveConnWithLock in
      match r.1 with
      | None => evict_loop n'
      | Some c =>
        let* conn := gets (fun s => conn_at s c) in
        if negb (serves_traffic conn) then evict_loop n'
        else if has_position conn then
          whenM r.2 enforceActiveCapWithLock ;;;
          upd_counters incr_requests ;;;
          ret (Some c)
        else evictExternallyDemotedWithLock c ;;; evict_loop n'
      end
  end.

Definition nextWithEviction : M World (option loc) :=
  let* n := gets (fun s => activeCount (w_mu s)) in evict_loop (Z.to_nat n).

Definition nextFallback : M World (option loc) :=
  let* n := gets (fun s => activeCount (w_mu s)) in
  if n <=? 0 then nextFallbackWithLock else evict_loop (Z.to_nat (n + 1)).

(** What Next does after its read-locked part. *)
Inductive next_out :=
  | NextConn (c : loc)          (* return conn, nil *)
  | NextEvict                   (* RUnlock; nextWithEviction *)
  | NextFallback                (* RUnlock; nextFallback *)
  | NextNone.                   (* ErrNoConnections *)

Definition next_done (c : loc) (needsCapEnforce : bool) : M World next_out :=
  upd_counters incr_requests ;;;
  whenM needsCapEnforce (spawn TaskCapEnforcement) ;;;
  ret (NextConn c).

Definition maxInt : Z := 2 ^ 63 - 1.

(** The attempts over the active entries. [best] is (bestWarmingRemSkip,
    bestWarmingConn). *)
Fixpoint next_attempts (n : nat) (best : Z * option loc) (needsCapEnforce : bool) : M World next_out :=
  match n with
  | O =>
    match best.2 with
    | Some c => next_done c needsCapEnforce
    | None =>
      let* m := gets w_mu in
      ret (if (length (ready m) =? 0)%nat && (length (dead m) =? 0)%nat then NextNone else NextFallback)
    end
  | S n' =>
    let* r := getNextActiveConnWithLock in
    let needsCapEnforce := needsCapEnforce || r.2 in
    match r.1 with
    | None => next_attempts n' best needsCapEnforce
    | Some c =>
      let* conn := gets (fun s => conn_at s c) in
      if negb (serves_traffic conn) then next_attempts n' best needsCapEnforce
      else if negb (has_position conn) then ret NextEvict
      else if negb (isWarmingUp (c_state conn)) then next_done c needsCapEnforce
      else
        let* res := gets (fun s => (conn_tryWarmupSkip (conn_at s c)).2) in
        upd_conn c (fun c => (conn_tryWarmupSkip c).1) ;;;
        match res with
        | warmupAccepted =>
          upd_counters incr_accepts ;;;
          let* done := gets (fun s => negb (isWarmingUp (c_state (conn_at s c)))) in
          let* over := gets (fun s => (0 <? activeListCap (w_mu s)) && (activeListCap (w_mu s) <? activeCount (w_mu s))) in
          next_done c (needsCapEnforce || (done && over))
        | warmupInactive => next_done c needsCapEnforce
        | warmupSkipped =>
          upd_counters incr_skips ;;;
          let* remSkip := gets (fun s => wm_skipCount (roundManager (c_state (conn_at s c)))) in
          next_attempts n' (if remSkip <=? best.1 then (remSkip, Some c) else best) needsCapEnforce
        end
    end
  end.

Definition next_read : M World next_out :=
  let* n := gets (fun s => activeCount (w_mu s)) in
  next_attempts (Z.to_nat n) (maxInt, None) false.

(** Next, with no other goroutine between its two critical sections. *)
Definition Next : M World (option loc) :=
  let* r := next_read in
  match r with
  | NextConn c => ret (Some c)
  | NextEvict => nextWithEviction
  | NextFallback => nextFallback
  | NextNone => ret None
  end.
End Selection.

(** * singleServerPool (pool_single_server.go) *)

Definition newSingleServerPool (conn : option Connection) : option Connection :=
  option_map (fun c => (conn_cas c 0 lcActive (lcUnknown ||| lcStandby)).1) conn.
Definition single_Next (conn : option Connection) : option Connection :=
  match conn with
  | Some c => if availableForRouting c then Some c else None
  | None => None
  end.
Definition single_OnSuccess (conn : option Connection) : option Connection := conn.
Definition single_OnFailure (conn : option Connection) : option Connection := conn.
(** A nil connection is a nil dereference. *)
Definition single_URLs (conn : option Connection) : option (list string) :=
  option_map (fun c => [c_URLString c]) conn.
