(* ===== verification/PoolLists.v ===== *)
(** The pool's lists against their abstract contents: the active partition, the
    standby partition and the dead list as multisets. Every list operation of
    Pool.v, PoolStandby.v and PoolSelect.v gets a Hoare triple in terms of
    [lists A S D], from which the properties of the handlers follow. *)

From Stdlib Require Import ZArith Lia.
From stdpp Require Import base gmap list strings sorting.
From S2P Require Import Prelude.
From S2P Require Import Lifecycle.
From S2P Require Import Warmup.
From S2P Require Import Rtt.
From S2P Require Import Conn.
From S2P Require Import Pool.
From S2P Require Import PoolResurrect.
From S2P Require Import PoolStandby.
From S2P Require Import PoolSelect.

Open Scope list_scope.
Open Scope Z_scope.

(** * Lists *)

Lemma insert_delete_Permutation {A} (l : list A) i x :
  (i < length l)%nat -> <[i := x]> l ≡ₚ x :: delete i l.
Proof.
  intros Hi. rewrite (delete_Permutation (<[i := x]> l) i x) by (by apply list_lookup_insert_eq).
  f_equiv. by rewrite !delete_take_drop, take_insert_ge, drop_insert_lt by lia.
Qed.

Lemma swap_Permutation {A} (l : list A) i j a b :
  l !! i = Some a -> l !! j = Some b -> <[j := a]> (<[i := b]> l) ≡ₚ l.
Proof.
  intros Ha Hb. pose proof (lookup_lt_Some _ _ _ Ha) as Hi. pose proof (lookup_lt_Some _ _ _ Hb) as Hj.
  assert (<[i := b]> l !! j = Some b) as Hb'.
  { destruct (decide (i = j)) as [-> |]; [by apply list_lookup_insert_eq | by rewrite list_lookup_insert_ne]. }
  rewrite insert_delete_Permutation by (by rewrite length_insert).
  trans (a :: delete i l); [| symmetry; by apply delete_Permutation]. f_equiv.
  apply Permutation_cons_inv with b.
  by rewrite <- (delete_Permutation _ _ _ Hb'), <- insert_delete_Permutation.
Qed.

Lemma index_Some {A} (l : list A) i x : index l i = Some x <-> 0 <= i /\ l !! Z.to_nat i = Some x.
Proof. unfold index. destruct (Z.ltb_spec i 0); split; intros; [done | lia | auto | tauto]. Qed.

Lemma index_lt {A} (l : list A) i : 0 <= i < Z.of_nat (length l) -> exists x, index l i = Some x.
Proof.
  intros Hi. destruct (lookup_lt_is_Some_2 l (Z.to_nat i)) as [x Hx]; [lia |].
  exists x. apply index_Some. split; [lia | done].
Qed.

(** Swapping two entries below [n] permutes the first [n] and keeps the rest. *)
Lemma swap_at_below (l : list loc) i j (n : nat) :
  0 <= i < Z.of_nat n -> 0 <= j < Z.of_nat n -> (n <= length l)%nat ->
  exists l', swap_at l i j = Some l' /\ take n l' ≡ₚ take n l /\ drop n l' = drop n l.
Proof.
  intros Hi Hj Hn. unfold swap_at.
  destruct (index_lt l i) as [a Ha]; [lia |]. destruct (index_lt l j) as [b Hb]; [lia |].
  rewrite Ha, Hb. eexists. split; [done |].
  apply index_Some in Ha as [_ Ha], Hb as [_ Hb].
  split.
  - rewrite !take_insert_lt by lia.
    apply swap_Permutation; rewrite lookup_take_lt by lia; done.
  - rewrite !drop_insert_lt by lia. done.
Qed.

Lemma forM_replicate {S} (n : nat) k (body : M S unit) :
  forM (seq k n) (fun _ => body) = forM (replicate n tt) (fun _ => body).
Proof. revert k. induction n as [| n IH]; intros k; cbn; [done |]. by rewrite IH. Qed.

(** Loop rule for [for range n] with an invariant indexed by the iteration. *)
Lemma wp_for_range {S} (n k : nat) (body : M S unit) (I : nat -> S -> Prop) s :
  I 0%nat s ->
  (forall i s', (i < n)%nat -> I i s' -> wp body (fun s'' _ => I (Datatypes.S i) s'') s') ->
  wp (forM (seq k n) (fun _ => body)) (fun s' _ => I n s') s.
Proof.
  intros H0 Hstep. rewrite forM_replicate.
  apply (wp_mono _ (fun s' _ => I (length (replicate n tt)) s'));
    [| intros s' _; by rewrite length_replicate].
  apply (wp_forM _ _ (fun visited => I (length visited))); [done |].
  intros visited x rest s' Hl HI. rewrite length_app, Nat.add_1_r. apply Hstep; [| done].
  apply (f_equal length) in Hl. rewrite length_replicate, length_app in Hl. cbn in Hl. lia.
Qed.

(** * The abstract contents *)

Definition active_part (m : PoolMu) : list loc := take (Z.to_nat (activeCount m)) (ready m).
Definition standby_part (m : PoolMu) : list loc := drop (Z.to_nat (activeCount m)) (ready m).

(** The partition boundary lies inside the ready list. *)
Definition pool_bounds (m : PoolMu) : Prop := 0 <= activeCount m <= Z.of_nat (length (ready m)).

(** The multisets held by a pool. *)
Definition lists (A S D : list loc) (m : PoolMu) : Prop :=
  pool_bounds m /\ active_part m ≡ₚ A /\ standby_part m ≡ₚ S /\ dead m ≡ₚ D.

#[export] Instance lists_Proper :
  Proper ((≡ₚ) ==> (≡ₚ) ==> (≡ₚ) ==> eq ==> iff) lists.
Proof.
  intros A A' HA S S' HS D D' HD m ? <-. unfold lists. by rewrite HA, HS, HD.
Qed.

Lemma ready_parts m : ready m = active_part m ++ standby_part m.
Proof. unfold active_part, standby_part. by rewrite take_drop. Qed.

Lemma lists_self m : pool_bounds m -> lists (active_part m) (standby_part m) (dead m) m.
Proof. done. Qed.

Lemma lists_ready A S D m : lists A S D m -> ready m ≡ₚ A ++ S.
Proof. intros (Hb & HA & HS & _). by rewrite <- HA, <- HS, <- ready_parts. Qed.

Lemma lists_count A S D m : lists A S D m ->
  activeCount m = Z.of_nat (length A) /\ length (ready m) = (length A + length S)%nat.
Proof.
  intros H. pose proof (lists_ready _ _ _ _ H) as Hr. destruct H as (Hb & HA & _ & _).
  rewrite Hr, length_app. split; [| done].
  apply Permutation_length in HA. unfold active_part in HA. rewrite length_take in HA.
  unfold pool_bounds in Hb. lia.
Qed.

(** Building the contents from a split ready list. *)
Lemma lists_intro A S D m a b :
  ready m = a ++ b -> activeCount m = Z.of_nat (length a) -> a ≡ₚ A -> b ≡ₚ S -> dead m ≡ₚ D ->
  lists A S D m.
Proof.
  intros Hr Hc Ha Hb Hd. unfold lists, pool_bounds, active_part, standby_part.
  rewrite Hc, Hr, Nat2Z.id, take_app_length, drop_app_length, length_app.
  split_and!; [lia | lia | done | done | done].
Qed.

Lemma lists_split A S D m :
  lists A S D m -> exists a b, ready m = a ++ b /\ activeCount m = Z.of_nat (length a) /\ a ≡ₚ A /\ b ≡ₚ S /\ dead m ≡ₚ D.
Proof.
  intros H. pose proof (lists_count _ _ _ _ H) as [Hc _]. destruct H as (Hb & HA & HS & HD).
  exists (active_part m), (standby_part m). split_and!; [apply ready_parts | | done | done | done].
  rewrite Hc. f_equal. by rewrite HA.
Qed.

Lemma parts_of_split m a b :
  ready m = a ++ b -> activeCount m = Z.of_nat (length a) -> active_part m = a /\ standby_part m = b.
Proof.
  intros Hr Hc. unfold active_part, standby_part. rewrite Hr, Hc, Nat2Z.id.
  by rewrite take_app_length, drop_app_length.
Qed.

(** * What the list operations leave alone *)

(** The configuration of a world: everything but the heap, the lists, the
    random source, the goroutines and the statistics. *)
Definition conf (s : World) :=
  (members (w_mu s), activeListCap (w_mu s), warmupRounds (w_mu s), warmupSkipCount (w_mu s),
   healthCheck (w_mu s), (w_selector s, w_nextReady s, w_activeListCapConfig s),
   w_standbyPromotionChecks s, w_now s).

(** A pure list operation: same heap, configuration and statistics. *)
Definition same (s s' : World) : Prop :=
  conf s' = conf s /\ w_heap s' = w_heap s /\ w_counters s' = w_counters s /\ w_metrics s' = w_metrics s.

#[export] Instance same_preorder : PreOrder same.
Proof. split; [done |]. intros s1 s2 s3 (?&?&?&?) (?&?&?&?). split_and!; congruence. Qed.

Lemma same_conn_at s s' c : same s s' -> conn_at s' c = conn_at s c.
Proof. intros (_ & H & _). unfold conn_at. by rewrite H. Qed.

Lemma same_cap s s' : same s s' -> activeListCap (w_mu s') = activeListCap (w_mu s).
Proof. intros ([= ] & _). done. Qed.

(** * Triples of the list operations *)

Lemma wp_swap_ready A S D i j s (Q : World -> unit -> Prop) :
  lists A S D (w_mu s) -> 0 <= i < activeCount (w_mu s) -> 0 <= j < activeCount (w_mu s) ->
  (forall s', lists A S D (w_mu s') -> same s s' -> activeCount (w_mu s') = activeCount (w_mu s) ->
     w_tasks s' = w_tasks s -> Q s' tt) ->
  wp (swap_ready i j) Q s.
Proof.
  intros Hl Hi Hj HQ. unfold swap_ready. wp_step.
  destruct Hl as (Hb & HA & HS & HD). unfold pool_bounds in Hb.
  destruct (swap_at_below (ready (w_mu s)) i j (Z.to_nat (activeCount (w_mu s)))) as (l & Hs & Ht & Hd); [lia .. |].
  eapply wp_getsM; [exact Hs |]. unfold upd_mu. wp_step.
  pose proof (f_equal length Hd) as Hlen. rewrite !length_drop in Hlen.
  apply HQ; [| by split_and! | done | done].
  unfold lists, pool_bounds, active_part, standby_part in *. cbn.
  rewrite Ht, Hd. split_and!; [lia | | done | done | done].
  apply Permutation_length in Ht. rewrite !length_take in Ht. lia.
Qed.

Lemma wp_rand_Shuffle A S D i s (Q : World -> unit -> Prop) :
  lists A S D (w_mu s) -> (Z.of_nat i < activeCount (w_mu s) \/ i = 0%nat) ->
  (forall s', lists A S D (w_mu s') -> same s s' -> w_tasks s' = w_tasks s -> Q s' tt) ->
  wp (rand_Shuffle i) Q s.
Proof.
  revert s. induction i as [| i IH]; intros s Hl Hi HQ.
  - cbn. apply wp_ret, HQ; done.
  - cbn [rand_Shuffle]. unfold draw. do 7 wp_step.
    set (j := hd 0 (w_rng s) mod (Z.of_nat (Datatypes.S i) + 1)).
    pose proof (Z.mod_pos_bound (hd 0 (w_rng s)) (Z.of_nat (Datatypes.S i) + 1) ltac:(lia)) as Hj.
    fold j in Hj. clearbody j.
    apply (wp_swap_ready A S D); [done | cbn; lia | cbn; lia |].
    intros s1 Hl1 Hs1 Hc1 Ht1. apply IH; [done | cbn in Hc1; rewrite Hc1; lia |].
    intros s2 Hl2 Hs2 Ht2. apply HQ; [done | | by rewrite Ht2, Ht1].
    etrans; [| exact Hs2]. etrans; [| exact Hs1]. by split_and!.
Qed.

Lemma wp_shuffleActive A S D s (Q : World -> unit -> Prop) :
  lists A S D (w_mu s) ->
  (forall s', lists A S D (w_mu s') -> same s s' -> w_tasks s' = w_tasks s -> Q s' tt) ->
  wp shuffleActiveWithLock Q s.
Proof.
  intros Hl HQ. unfold shuffleActiveWithLock. do 2 wp_step.
  destruct (Z.leb_spec (activeCount (w_mu s)) 1).
  - apply wp_ret, HQ; done.
  - apply (wp_rand_Shuffle A S D); [done | lia | done].
Qed.

(** ** removeFromReadyWithLock *)

Lemma remove_entries_spec c ac i l :
  remove_entries c ac i l =
    (filter (fun x => x <> c) l,
     Z.of_nat (length (filter (fun x => x = c) (take (Z.to_nat (ac - i)) l)))).
Proof.
  revert i. induction l as [| x l IH]; intros i; cbn [remove_entries].
  { by rewrite take_nil. }
  rewrite IH. destruct (Nat.eqb_spec x c) as [-> | Hne].
  - rewrite filter_cons_False by congruence. f_equal.
    destruct (Z.ltb_spec i ac).
    + replace (Z.to_nat (ac - i)) with (S (Z.to_nat (ac - (i + 1)))) by lia.
      cbn [take]. rewrite filter_cons_True by done. cbn [length]. lia.
    + replace (Z.to_nat (ac - i)) with 0%nat by lia. replace (Z.to_nat (ac - (i + 1))) with 0%nat by lia. done.
  - rewrite filter_cons_True by done. f_equal.
    destruct (Z.ltb_spec i ac).
    + replace (Z.to_nat (ac - i)) with (S (Z.to_nat (ac - (i + 1)))) by lia.
      cbn [take]. by rewrite filter_cons_False by done.
    + replace (Z.to_nat (ac - i)) with 0%nat by lia. replace (Z.to_nat (ac - (i + 1))) with 0%nat by lia. done.
Qed.

Lemma length_filter_neq (c : loc) (l : list loc) :
  (length (filter (fun x => x <> c) l) + length (filter (fun x => x = c) l) = length l)%nat.
Proof.
  induction l as [| x l IH]; [done |].
  destruct (decide (x = c)).
  - rewrite filter_cons_False by (by intros []). rewrite filter_cons_True by done. cbn. lia.
  - rewrite filter_cons_True by done. rewrite filter_cons_False by done. cbn. lia.
Qed.

Lemma filter_neq_absent (c : loc) (l : list loc) : c ∉ l -> filter (fun x => x <> c) l = l.
Proof.
  induction l as [| x l IH]; [done |]. intros H. rewrite filter_cons_True by set_solver.
  f_equal. apply IH. set_solver.
Qed.

Lemma filter_neq_length_same (c : loc) (l : list loc) :
  length (filter (fun x => x <> c) l) = length l -> filter (fun x => x <> c) l = l.
Proof.
  intros H. apply filter_neq_absent. intros Hin.
  pose proof (length_filter_neq c l) as Hl.
  assert (c ∈ filter (fun x => x = c) l) as Hf by (by apply list_elem_of_filter).
  destruct (filter (fun x => x = c) l); [set_solver | cbn in Hl; lia].
Qed.

Notation removed c l := (filter (fun x => x <> c) l).

Lemma wp_removeFromReady A S D c s (Q : World -> unit -> Prop) :
  lists A S D (w_mu s) ->
  (forall s', lists (removed c A) (removed c S) D (w_mu s') -> same s s' -> w_tasks s' = w_tasks s ->
     dead (w_mu s') = dead (w_mu s) ->
     standby_part (w_mu s') = removed c (standby_part (w_mu s)) -> Q s' tt) ->
  wp (removeFromReadyWithLock c) Q s.
Proof.
  intros Hl HQ. unfold removeFromReadyWithLock, upd_mu. wp_step.
  destruct (lists_split _ _ _ _ Hl) as (a & b & Hr & Hc & Ha & Hb & Hd).
  assert (forall m', ready m' = removed c a ++ removed c b -> activeCount m' = Z.of_nat (length (removed c a)) ->
    dead m' = dead (w_mu s) -> lists (removed c A) (removed c S) D m') as Hok.
  { intros m' H1 H2 H3. apply (lists_intro _ _ _ _ (removed c a) (removed c b)); [done | done | | | by rewrite H3].
    - by rewrite Ha.
    - by rewrite Hb. }
  destruct (parts_of_split _ _ _ Hr Hc) as [_ Hsb].
  rewrite remove_entries_spec. cbv zeta beta iota.
  destruct (Nat.eqb_spec (length (removed c (ready (w_mu s)))) (length (ready (w_mu s)))) as [E | E].
  - apply filter_neq_length_same in E. rewrite Hr, filter_app in E.
    assert (removed c a = a) as Ea.
    { apply filter_neq_length_same. apply (f_equal length) in E. rewrite !length_app in E.
      pose proof (length_filter_neq c a). pose proof (length_filter_neq c b). lia. }
    apply HQ; [| by split_and! | done | done |].
    + apply Hok; cbn; [by rewrite E | by rewrite Ea | done].
    + cbn. rewrite Hsb. rewrite Ea in E. by apply app_inv_head in E.
  - apply HQ; [| by split_and! | done | done |]; cycle 1.
    { cbn. rewrite Hsb. apply (parts_of_split _ (removed c a)); cbn; [by rewrite Hr, filter_app |].
      rewrite Hr, Hc, Z.sub_0_r, Nat2Z.id, take_app_length. pose proof (length_filter_neq c a). lia. }
    apply Hok; cbn.
    + by rewrite Hr, filter_app.
    + rewrite Hr, Hc, Z.sub_0_r, Nat2Z.id, take_app_length.
      pose proof (length_filter_neq c a). lia.
    + done.
Qed.

(** ** removeFromDeadWithLock *)

(** One occurrence less. *)
Fixpoint remove_one (c : loc) (l : list loc) : list loc :=
  match l with
  | [] => []
  | x :: l' => if decide (x = c) then l' else x :: remove_one c l'
  end.

Lemma remove_one_in c l : c ∈ l -> l ≡ₚ c :: remove_one c l.
Proof.
  induction l as [| x l IH]; intros H; cbn; [set_solver |].
  destruct (decide (x = c)) as [-> |]; [done |].
  apply elem_of_cons in H as [| H]; [done |]. rewrite Permutation_swap. f_equiv. by apply IH.
Qed.

Lemma remove_one_notin c l : c ∉ l -> remove_one c l = l.
Proof.
  induction l as [| x l IH]; intros H; cbn; [done |].
  destruct (decide (x = c)); [set_solver |]. f_equal. apply IH. set_solver.
Qed.

#[export] Instance remove_one_Proper c : Proper ((≡ₚ) ==> (≡ₚ)) (remove_one c).
Proof.
  intros l l' H. destruct (decide (c ∈ l)) as [Hin | Hin].
  - apply Permutation_cons_inv with c. rewrite <- remove_one_in by done.
    rewrite <- remove_one_in by (by rewrite <- H). done.
  - rewrite !remove_one_notin; [done | by rewrite <- H | done].
Qed.

Lemma last_index_Some c l i : last_index c l = Some i -> l !! i = Some c.
Proof.
  revert i. induction l as [| x l IH]; intros i; cbn; [done |].
  destruct (last_index c l) as [j |].
  - intros [= <-]. cbn. by apply IH.
  - destruct (Nat.eqb_spec x c) as [-> |]; [by intros [= <-] | done].
Qed.

Lemma last_index_None c l : last_index c l = None <-> c ∉ l.
Proof.
  induction l as [| x l IH]; cbn; [set_solver |].
  destruct (last_index c l) as [j |].
  - split; [done |]. intros H. assert (c ∉ l) as Hn by set_solver. apply IH in Hn. done.
  - destruct (Nat.eqb_spec x c) as [-> |]; [set_solver |]. rewrite elem_of_cons. naive_solver.
Qed.

(** Swap-with-last removes exactly the found entry. *)
Lemma swap_last_Permutation (l : list loc) i c :
  l !! i = Some c ->
  c :: take (length l - 1) (if (i =? length l - 1)%nat then l
       else match l !! (length l - 1)%nat with Some x => <[i := x]> l | None => l end) ≡ₚ l.
Proof.
  intros Hi. pose proof (lookup_lt_Some _ _ _ Hi) as Hlt.
  destruct (lookup_lt_is_Some_2 l (length l - 1)) as [x Hx]; [lia |].
  assert (l = take (length l - 1) l ++ [x]) as Hl.
  { rewrite <- (take_drop (length l - 1) l) at 1. f_equal.
    rewrite (drop_S l x) by done. f_equal. apply drop_ge. lia. }
  destruct (Nat.eqb_spec i (length l - 1)) as [-> | Hne].
  - assert (x = c) as -> by congruence. by rewrite Permutation_cons_append, <- Hl.
  - rewrite Hx, take_insert_lt by lia.
    rewrite insert_delete_Permutation by (rewrite length_take; lia).
    rewrite Permutation_swap.
    rewrite <- (delete_Permutation (take (length l - 1) l) i c) by (rewrite lookup_take_lt by lia; done).
    by rewrite Permutation_cons_append, <- Hl.
Qed.

Lemma wp_removeFromDead A S D c s (Q : World -> unit -> Prop) :
  lists A S D (w_mu s) ->
  (forall s', lists A S (remove_one c D) (w_mu s') -> same s s' -> w_tasks s' = w_tasks s ->
     ready (w_mu s') = ready (w_mu s) -> activeCount (w_mu s') = activeCount (w_mu s) -> Q s' tt) ->
  wp (removeFromDeadWithLock c) Q s.
Proof.
  intros Hl HQ. unfold removeFromDeadWithLock, upd_mu. wp_step.
  destruct (last_index c (dead (w_mu s))) as [i |] eqn:Hi.
  - apply last_index_Some in Hi. apply HQ; [| by split_and! | done ..].
    destruct Hl as (Hb & HA & HS & HD). split_and!; [done .. |]. cbn.
    apply Permutation_cons_inv with c. rewrite swap_last_Permutation by done.
    rewrite HD. apply remove_one_in. rewrite <- HD. by apply list_elem_of_lookup_2 in Hi.
  - apply last_index_None in Hi. apply HQ; [| by split_and! | done ..].
    destruct Hl as (Hb & HA & HS & HD). split_and!; [done .. |]. cbn.
    rewrite remove_one_notin; [done |]. by rewrite <- HD.
Qed.

(** ** Appending *)

Definition entries (c : loc) (n : Z) : list loc := replicate (Z.to_nat n) c.

Definition no_new_probe (c : loc) (s : World) : Prop :=
  c_rttRing (conn_at s c) = None \/ healthCheck (w_mu s) = false.

(** The probe only starts a goroutine. *)
Definition probed (c : loc) (ts ts' : list task) : Prop := ts' = ts \/ ts' = ts ++ [TaskRTTProbe c].

Lemma wp_probe_unknown_rtt A S D c s (Q : World -> unit -> Prop) :
  lists A S D (w_mu s) ->
  (forall s', lists A S D (w_mu s') -> same s s' -> w_mu s' = w_mu s ->
    probed c (w_tasks s) (w_tasks s') -> Q s' tt) ->
  wp (probe_unknown_rtt c) Q s.
Proof.
  intros Hl HQ. unfold probe_unknown_rtt, spawn. do 3 wp_step; [wp_step |];
    apply HQ; try done; [by right | by left].
Qed.

Lemma insert_last {A} (l : list A) x y : <[length l := y]> (l ++ [x]) = l ++ [y].
Proof. rewrite insert_app_r_alt by lia. by rewrite Nat.sub_diag. Qed.

(** Appending at the end and swapping with the boundary moves the first
    standby entry to the tail. *)
Lemma wp_append_active_entry A S D c s (Q : World -> unit -> Prop) :
  lists A S D (w_mu s) ->
  (forall s', lists (A ++ [c]) S D (w_mu s') -> same s s' -> w_tasks s' = w_tasks s -> Q s' tt) ->
  wp (append_active_entry c) Q s.
Proof.
  intros Hl HQ. unfold append_active_entry, upd_mu, swap_ready. do 5 wp_step.
  destruct (lists_split _ _ _ _ Hl) as (a & b & Hr & Hc & Ha & Hb & Hd). cbn.
  rewrite Hr, Hc, !length_app. cbn [length].
  assert (exists b', b' ≡ₚ b /\ swap_at ((a ++ b) ++ [c])
    (Z.of_nat (length a + length b + 1) - 1) (Z.of_nat (length a)) = Some (a ++ c :: b')) as (b' & Hb' & Hs).
  { unfold swap_at, index. rewrite !Nat2Z.id.
    destruct (Z.ltb_spec (Z.of_nat (length a + length b + 1) - 1) 0); [lia |].
    destruct (Z.ltb_spec (Z.of_nat (length a)) 0); [lia |].
    replace (Z.to_nat (Z.of_nat (length a + length b + 1) - 1)) with (length (a ++ b) + 0)%nat
      by (rewrite length_app; lia).
    rewrite lookup_app_r, Nat.add_0_r, Nat.sub_diag by lia. cbn.
    destruct b as [| x b].
    - exists []. split; [done |]. rewrite !app_nil_r.
      rewrite lookup_app_r, Nat.sub_diag by lia. cbn.
      rewrite !insert_app_r_alt by (rewrite ?length_app, ?length_insert; cbn; lia).
      rewrite Nat.sub_diag. done.
    - exists (b ++ [x]). split; [by rewrite Permutation_app_comm |].
      rewrite <- app_assoc, lookup_app_r, Nat.sub_diag by lia. cbn.
      rewrite insert_app_r_alt by (rewrite length_app; cbn; lia).
      rewrite insert_app_r_alt by lia. rewrite Nat.sub_diag. cbn.
      rewrite length_app. cbn.
      replace (length a + Datatypes.S (length b) - length a)%nat with (Datatypes.S (length b)) by lia. cbn.
      exact (f_equal (fun z => Some (a ++ c :: z)) (insert_last b c x)). }
  apply wp_bind. eapply wp_getsM; [exact Hs |].
  apply HQ; [| by split_and! | done].
  apply (lists_intro _ _ _ _ (a ++ [c]) b'); cbn.
  - by rewrite <- app_assoc.
  - rewrite Hc, length_app. cbn. lia.
  - by rewrite Ha.
  - by rewrite Hb'.
  - done.
Qed.

Lemma entries_S c n : 0 <= n -> entries c n ++ [c] = entries c (n + 1).
Proof.
  intros Hn. unfold entries. replace (Z.to_nat (n + 1)) with (Z.to_nat n + 1)%nat by lia.
  by rewrite replicate_add.
Qed.

Lemma effectiveWeight_pos c : 1 <= effectiveWeight c.
Proof. unfold effectiveWeight. destruct (Z.leb_spec (c_weight c) 0); lia. Qed.

Lemma wp_appendToReadyActive A S D c s (Q : World -> unit -> Prop) :
  lists A S D (w_mu s) ->
  (forall s', lists (A ++ entries c (effectiveWeight (conn_at s c))) S D (w_mu s') -> same s s' ->
     probed c (w_tasks s) (w_tasks s') -> Q s' tt) ->
  wp (appendToReadyActiveWithLock c) Q s.
Proof.
  intros Hl HQ. unfold appendToReadyActiveWithLock. wp_step.
  apply (wp_probe_unknown_rtt A S D); [done |]. intros s1 Hl1 Hs1 _ Hp. do 2 wp_step.
  rewrite (same_conn_at _ _ _ Hs1). pose proof (effectiveWeight_pos (conn_at s c)) as Hw.
  eapply wp_mono.
  - apply (wp_for_range _ _ _ (fun i s' =>
      lists (A ++ entries c (Z.of_nat i)) S D (w_mu s') /\ same s s' /\ w_tasks s' = w_tasks s1)).
    + cbn. by rewrite app_nil_r.
    + intros i s2 _ (Hl2 & Hs2 & Ht2). eapply wp_append_active_entry; [exact Hl2 |].
      intros s3 Hl3 Hs3 Ht3. rewrite <- app_assoc, entries_S in Hl3 by lia.
      split_and!; [| by etrans | congruence].
      by replace (Z.of_nat (Datatypes.S i)) with (Z.of_nat i + 1) by lia.
  - intros s2 [] (Hl2 & Hs2 & Ht2). rewrite Z2Nat.id in Hl2 by lia.
    apply HQ; [done | done |]. by rewrite Ht2.
Qed.

Lemma wp_appendToReadyStandby A S D c s (Q : World -> unit -> Prop) :
  lists A S D (w_mu s) ->
  (forall s', lists A (S ++ entries c (effectiveWeight (conn_at s c))) D (w_mu s') -> same s s' ->
     active_part (w_mu s') = active_part (w_mu s) ->
     standby_part (w_mu s') = standby_part (w_mu s) ++ entries c (effectiveWeight (conn_at s c)) ->
     probed c (w_tasks s) (w_tasks s') -> Q s' tt) ->
  wp (appendToReadyStandbyWithLock c) Q s.
Proof.
  intros Hl HQ. unfold appendToReadyStandbyWithLock. wp_step.
  apply (wp_probe_unknown_rtt A S D); [done |]. intros s1 Hl1 Hs1 Hm1 Hp. do 2 wp_step.
  rewrite (same_conn_at _ _ _ Hs1). pose proof (effectiveWeight_pos (conn_at s c)) as Hw.
  destruct (lists_split _ _ _ _ Hl1) as (a & b & Hr & Hc & Ha & Hb & Hd).
  eapply wp_mono.
  - apply (wp_for_range _ _ _ (fun i s' =>
      ready (w_mu s') = (a ++ b) ++ entries c (Z.of_nat i) /\ dead (w_mu s') = dead (w_mu s1) /\
      activeCount (w_mu s') = activeCount (w_mu s1) /\ same s s' /\ w_tasks s' = w_tasks s1)).
    + by rewrite app_nil_r.
    + intros i s2 _ (Hr2 & Hd2 & Hc2 & Hs2 & Ht2). unfold upd_mu. wp_step. cbn.
      split_and!; [| done | done | | done].
      * rewrite Hr2, <- app_assoc, entries_S by lia.
        by replace (Z.of_nat (Datatypes.S i)) with (Z.of_nat i + 1) by lia.
      * etrans; [exact Hs2 |]. by split_and!.
  - intros s2 [] (Hr2 & Hd2 & Hc2 & Hs2 & Ht2). rewrite Z2Nat.id in Hr2 by lia.
    rewrite <- app_assoc in Hr2.
    apply HQ; [| done | | | by rewrite Ht2].
    + apply (lists_intro _ _ _ _ a (b ++ entries c (effectiveWeight (conn_at s c)))); [done | congruence | done | by rewrite Hb | by rewrite Hd2].
    + unfold active_part. rewrite Hr2, Hc2, <- Hm1, Hr, Hc, Nat2Z.id. by rewrite !take_app_length.
    + unfold standby_part. rewrite Hr2, Hc2, <- Hm1, Hr, Hc, Nat2Z.id. by rewrite !drop_app_length.
Qed.

(** ** Operations that also write one connection *)

(** Only connection [c] and the lists changed; the statistics may. *)
Definition touches (c : loc) (s s' : World) : Prop :=
  conf s' = conf s /\ forall c', c' <> c -> conn_at s' c' = conn_at s c'.

#[export] Instance touches_preorder c : PreOrder (touches c).
Proof.
  split; [done |]. intros s1 s2 s3 [H1 H2] [H3 H4]. split; [congruence |].
  intros c' Hne. rewrite H4, H2 by done. done.
Qed.

Lemma same_touches c s s' : same s s' -> touches c s s'.
Proof. intros Hs. split; [apply Hs |]. intros. by apply same_conn_at. Qed.

Definition same_stats (s s' : World) : Prop := w_counters s' = w_counters s /\ w_metrics s' = w_metrics s.

Lemma deref_insert h c x : deref (<[c := x]> h) c = x.
Proof. unfold deref. by rewrite lookup_insert_eq. Qed.

Lemma deref_insert_ne h c c' x : c' <> c -> deref (<[c := x]> h) c' = deref h c'.
Proof. intros. unfold deref. by rewrite lookup_insert_ne by congruence. Qed.

Lemma wp_upd_conn c f s (Q : World -> unit -> Prop) :
  (forall s', conn_at s' c = f (conn_at s c) -> touches c s s' -> w_mu s' = w_mu s -> same_stats s s' ->
     w_tasks s' = w_tasks s -> w_rng s' = w_rng s -> Q s' tt) ->
  wp (upd_conn c f) Q s.
Proof.
  intros HQ. unfold upd_conn. wp_step. apply HQ; try done.
  - unfold conn_at. cbn. apply deref_insert.
  - split; [done |]. intros c' Hne. unfold conn_at. cbn. by apply deref_insert_ne.
Qed.

Lemma wp_appendToDead A S D c s (Q : World -> unit -> Prop) :
  lists A S D (w_mu s) ->
  (forall s', lists A S (D ++ [c]) (w_mu s') -> touches c s s' -> same_stats s s' ->
     conn_at s' c = dead_invariant (w_now s) (conn_at s c) -> w_tasks s' = w_tasks s ->
     ready (w_mu s') = ready (w_mu s) -> activeCount (w_mu s') = activeCount (w_mu s) ->
     dead (w_mu s') = dead (w_mu s) ++ [c] -> Q s' tt) ->
  wp (appendToDeadWithLock c) Q s.
Proof.
  intros Hl HQ. unfold appendToDeadWithLock. do 3 wp_step.
  apply wp_upd_conn. intros s1 Hc1 Ht1 Hm1 Hst1 Htk1 _. unfold upd_mu. wp_step.
  apply HQ; cbn; rewrite ?Hm1; try done.
  - destruct Hl as (Hb & HA & HS & HD). split_and!; cbn; [done .. |]. by rewrite HD.
  - etrans; [exact Ht1 |]. split; [| done]. unfold conf. cbn. by rewrite Hm1.
Qed.

(** ** Resurrection *)

(** What resurrectWithLock makes of the connection: ready and reachable, then
    active with warmup or standby. *)
Definition resurrected (to_active : bool) (p : Z * Z) (c : Connection) : Connection :=
  let c := markAsReadyWithLock (storeOverloadedAt c 0) in
  if to_active then conn_startWarmup (conn_cas c 0 lcActive (lcUnknown ||| lcStandby)).1 p.1 p.2
  else (conn_cas c 0 lcStandby (lcUnknown ||| lcActive)).1.

Definition below_cap (m : PoolMu) : bool := (activeListCap m <=? 0) || (activeCount m <? activeListCap m).

Lemma conn_cas_weight c conflict set clr : c_weight (conn_cas c conflict set clr).1 = c_weight c.
Proof. unfold conn_cas. by destruct (casLifecycle _ _ _ _ _). Qed.

Lemma effectiveWeight_ext c c' : c_weight c' = c_weight c -> effectiveWeight c' = effectiveWeight c.
Proof. unfold effectiveWeight. by intros ->. Qed.

Lemma resurrected_weight b p c : effectiveWeight (resurrected b p c) = effectiveWeight c.
Proof.
  apply effectiveWeight_ext. unfold resurrected, markAsReadyWithLock, conn_set_bit. cbv zeta.
  destruct b; cbn -[conn_cas]; rewrite ?conn_cas_weight; cbn -[conn_cas]; by rewrite ?conn_cas_weight.
Qed.

Lemma wp_resurrect A S D c s (Q : World -> unit -> Prop) :
  lists A S D (w_mu s) ->
  (forall s',
     let b := below_cap (w_mu s) in
     let e := entries c (effectiveWeight (conn_at s c)) in
     lists (if b then A ++ e else A) (if b then S else S ++ e) (remove_one c D) (w_mu s') ->
     touches c s s' -> w_counters s' = w_counters s ->
     w_metrics s' = option_map add_promoted (w_metrics s) ->
     conn_at s' c = resurrected b (getWarmupParamsWithLock (w_mu s)) (conn_at s c) ->
     probed c (w_tasks s) (w_tasks s') -> Q s' tt) ->
  wp (resurrectWithLock c) Q s.
Proof.
  intros Hl HQ. unfold resurrectWithLock, upd_metrics.
  wp_step. apply wp_upd_conn. intros s1 Hc1 Ht1 Hm1 Hst1 Htk1 _. rewrite <- Hm1 in Hl.
  wp_step. apply wp_upd_conn. intros s2 Hc2 Ht2 Hm2 Hst2 Htk2 _. rewrite <- Hm2 in Hl.
  wp_step. apply (wp_removeFromDead A S D); [done |]. intros s3 Hl3 Hs3 Htk3 Hr3 Ha3.
  do 4 wp_step.
  set (s4 := with_metrics s3 (option_map add_promoted (w_metrics s3))).
  assert (touches c s s4) as Ht4.
  { etrans; [exact Ht1 |]. etrans; [exact Ht2 |]. exact (same_touches c s2 s3 Hs3). }
  assert (w_counters s4 = w_counters s /\ w_metrics s4 = option_map add_promoted (w_metrics s)) as [Hk4 Hme4].
  { destruct Hs3 as (_ & _ & H1 & H2), Hst1, Hst2. cbn. split; congruence. }
  assert (conn_at s4 c = markAsReadyWithLock (storeOverloadedAt (conn_at s c) 0)) as Hc4.
  { change (conn_at s3 c = markAsReadyWithLock (storeOverloadedAt (conn_at s c) 0)).
    rewrite (same_conn_at _ _ _ Hs3). congruence. }
  assert (w_tasks s4 = w_tasks s) as Htk4 by (cbn; congruence).
  assert (lists A S (remove_one c D) (w_mu s4)) as Hl4 by exact Hl3.
  assert (below_cap (w_mu s4) = below_cap (w_mu s)) as Hbc.
  { change (w_mu s4) with (w_mu s3). unfold below_cap. rewrite Ha3, Hm2, Hm1. rewrite (same_cap _ _ Hs3), Hm2, Hm1. done. }
  assert (getWarmupParamsWithLock (w_mu s4) = getWarmupParamsWithLock (w_mu s)) as Hp4.
  { destruct Ht4 as [[= _ _ E1 E2 _ _ _ _ _ _] _]. unfold getWarmupParamsWithLock. cbn in E1, E2 |- *. by rewrite E1, E2. }
  fold (below_cap (w_mu s4)). rewrite Hbc. clearbody s4. clear dependent s3. clear dependent s2. clear dependent s1.
  destruct (below_cap (w_mu s)) eqn:Hb.
  - wp_step. apply wp_upd_conn. intros s5 Hc5 Ht5 Hm5 Hst5 Htk5 _.
    do 3 wp_step. apply wp_upd_conn. intros s6 Hc6 Ht6 Hm6 Hst6 Htk6 _.
    assert (conn_at s6 c = resurrected true (getWarmupParamsWithLock (w_mu s)) (conn_at s c)) as Hc6'.
    { rewrite Hc6, Hc5, Hc4, Hm5, Hp4. done. }
    wp_step. apply (wp_appendToReadyActive A S (remove_one c D)); [by rewrite Hm6, Hm5 |].
    intros s7 Hl7 Hs7 Hp7. rewrite Hc6', resurrected_weight in Hl7.
    eapply wp_shuffleActive; [exact Hl7 |]. intros s8 Hl8 Hs8 Htk8.
    assert (same s6 s8) as Hs by (by etrans).
    apply HQ; [exact Hl8 | | | | | ].
    + do 3 (etrans; [eassumption |]). by apply same_touches.
    + destruct Hs as (_ & _ & H1 & H2), Hst5, Hst6. congruence.
    + destruct Hs as (_ & _ & H1 & H2), Hst5, Hst6. congruence.
    + by rewrite (same_conn_at _ _ _ Hs).
    + unfold probed in *. rewrite Htk8. by rewrite <- Htk4, <- Htk5, <- Htk6.
  - wp_step. apply wp_upd_conn. intros s5 Hc5 Ht5 Hm5 Hst5 Htk5 _.
    assert (conn_at s5 c = resurrected false (getWarmupParamsWithLock (w_mu s)) (conn_at s c)) as Hc5'.
    { by rewrite Hc5, Hc4. }
    apply (wp_appendToReadyStandby A S (remove_one c D)); [by rewrite Hm5 |].
    intros s6 Hl6 Hs6 _ _ Hp6. rewrite Hc5', resurrected_weight in Hl6.
    apply HQ; [exact Hl6 | | | | | ].
    + do 2 (etrans; [eassumption |]). by apply same_touches.
    + destruct Hs6 as (_ & _ & H1 & H2), Hst5. congruence.
    + destruct Hs6 as (_ & _ & H1 & H2), Hst5. congruence.
    + by rewrite (same_conn_at _ _ _ Hs6).
    + by rewrite <- Htk4, <- Htk5.
Qed.
