(* ===== verification/PoolReport.v ===== *)
(** OnSuccess, OnFailure and the list of dead connections: what the reporting
    handlers do to the pool's contents and to the connection, on every branch. *)

From Stdlib Require Import ZArith Lia.
From stdpp Require Import base gmap list strings sorting.
From S2P Require Import Prelude.
From S2P Require Import Lifecycle.
From S2P Require Import Warmup.
From S2P Require Import Rtt.
From S2P Require Import Congestion.
From S2P Require Import Conn.
From S2P Require Import Pool.
From S2P Require Import PoolResurrect.
From S2P Require Import PoolStandby.
From S2P Require Import PoolSelect.
From S2P Require Import PoolLists.

Open Scope list_scope.
Open Scope Z_scope.

Notation lc_at s c := (conn_lifecycle (conn_at s c)).

(** * The connection after each handler *)

Lemma conn_startWarmup_lifecycle c r k : conn_lifecycle (conn_startWarmup c r k) = conn_lifecycle c.
Proof. unfold conn_startWarmup, conn_lifecycle. cbn. apply startWarmup_lifecycle. Qed.

Lemma conn_set_bit_lifecycle c bit : lc_bits bit -> conn_lifecycle (conn_set_bit c bit) = cas_next (conn_lifecycle c) bit 0.
Proof. intros. unfold conn_set_bit. by rewrite conn_cas_lifecycle. Qed.

Lemma conn_clear_bit_lifecycle c bit : conn_lifecycle (conn_clear_bit c bit) = cas_next (conn_lifecycle c) 0 bit.
Proof. intros. unfold conn_clear_bit. rewrite conn_cas_lifecycle; [done |]. unfold lc_bits. lia. Qed.

(** A transition seen from the fields it does not change. *)
Ltac cas_fields :=
  repeat match goal with
  | |- context [(conn_cas ?c ?x ?y ?z).1] =>
    let w := fresh "w" in destruct (conn_cas_state c x y z) as (w & -> & _)
  end.
Ltac lc_bits_const := unfold lc_bits; vm_compute; split; congruence.

Lemma resurrected_lifecycle b p c :
  conn_lifecycle (resurrected b p c) =
    cas_next (cas_next (conn_lifecycle c) lcViable 0)
      (if b then lcActive else lcStandby) (lcUnknown ||| (if b then lcStandby else lcActive)).
Proof.
  unfold resurrected, markAsReadyWithLock. cbv zeta.
  destruct b; rewrite ?conn_startWarmup_lifecycle, conn_cas_lifecycle by lc_bits_const;
    by rewrite conn_set_bit_lifecycle by lc_bits_const.
Qed.

(** The lifecycle fields a resurrection decides. *)
Lemma resurrected_bits b p c :
  let lc := conn_lifecycle (resurrected b p c) in
  has lc lcActive = b /\ has lc lcStandby = negb b /\ has lc lcUnknown = false /\
  has lc lcViable = true /\ has lc lcReady = has (conn_lifecycle c) lcReady.
Proof. cbv zeta. rewrite resurrected_lifecycle. destruct b; split_and!; lc_solve. Qed.

Lemma resurrected_fields b p c :
  c_deadSinceNano (resurrected b p c) = 0 /\ c_overloadedAtNano (resurrected b p c) = 0 /\
  c_failures (resurrected b p c) = c_failures c.
Proof.
  unfold resurrected, markAsReadyWithLock, conn_set_bit. cbv zeta.
  destruct b; unfold conn_startWarmup; split_and!; by cas_fields.
Qed.

(** ** scheduleResurrect *)

Definition claimed (now : Z) (c : Connection) : Connection :=
  if c_checkStartedAt c =? 0 then conn_set_bit (set_checkStartedAt c now) lcHealthChecking else c.
(** The goroutine started, if the claim succeeded. *)
Definition claim_task (c : loc) (conn : Connection) : list task :=
  if c_checkStartedAt conn =? 0 then [TaskResurrect c] else [].

Lemma wp_scheduleResurrect c s (Q : World -> unit -> Prop) :
  (forall s', conn_at s' c = claimed (w_now s) (conn_at s c) -> touches c s s' -> w_mu s' = w_mu s ->
     same_stats s s' -> w_tasks s' = w_tasks s ++ claim_task c (conn_at s c) -> Q s' tt) ->
  wp (scheduleResurrect c) Q s.
Proof.
  intros HQ. unfold scheduleResurrect, claimed, claim_task in *. do 2 wp_step.
  destruct (c_checkStartedAt (conn_at s c) =? 0); cbn [negb].
  - do 3 wp_step. apply wp_upd_conn. intros s1 Hc1 Ht1 Hm1 Hst1 Htk1 _.
    unfold spawn. wp_step. apply HQ; cbn; [done | done | done | done |]. by rewrite Htk1.
  - wp_step. by apply HQ; rewrite ?app_nil_r.
Qed.

Lemma claimed_bits now c :
  let c' := claimed now c in
  c_failures c' = c_failures c /\ c_deadSinceNano c' = c_deadSinceNano c /\
  c_overloadedAtNano c' = c_overloadedAtNano c /\
  forall i, i <> 6 -> Z.testbit (conn_lifecycle c') i = Z.testbit (conn_lifecycle c) i.
Proof.
  unfold claimed. cbv zeta. destruct (c_checkStartedAt c =? 0); [| done].
  pose proof (conn_set_bit_lifecycle (set_checkStartedAt c now) lcHealthChecking ltac:(lc_bits_const)) as Hl.
  unfold conn_set_bit in *.
  destruct (conn_cas_state (set_checkStartedAt c now) 0 lcHealthChecking 0) as (w & E & _).
  rewrite Hl, E. split_and!; [done .. |]. intros i Hi. rewrite testbit_cas_next.
  change lcHealthChecking with (2 ^ 6). rewrite Z.bits_0.
  destruct (Z.lt_ge_cases i 0); [by rewrite !Z.testbit_neg_r |].
  rewrite Z.pow2_bits_false by lia. by autorewrite with bool.
Qed.

(** ** The failed connection *)

Definition failed (now : Z) (c : Connection) : Connection :=
  dead_invariant now (markAsDeadWithLock now (storeOverloadedAt (conn_cas c 0 failure_set failure_clr).1 0)).

Lemma failure_cas c :
  has (conn_lifecycle c) lcUnknown = false -> (conn_cas c 0 failure_set failure_clr).2 = None.
Proof.
  intros Hu. rewrite conn_cas_err. destruct (Z.eqb_spec (cas_next (conn_lifecycle c) failure_set failure_clr) (conn_lifecycle c)) as [E | ]; [| done].
  exfalso. rewrite <- E in Hu. revert Hu. autorewrite with lcbits. rewrite testbit_cas_next.
  eval_mask_bits. by autorewrite with bool.
Qed.

Lemma markAsDead_state now c : c_state (markAsDeadWithLock now c) = c_state c.
Proof. unfold markAsDeadWithLock. by destruct (deadSinceIsZero c). Qed.

Lemma failed_lifecycle now c :
  conn_lifecycle (failed now c) = cas_next (conn_lifecycle c) failure_set failure_clr.
Proof.
  unfold failed, dead_invariant. cbv zeta.
  set (c1 := markAsDeadWithLock now _).
  assert (conn_lifecycle c1 = cas_next (conn_lifecycle c) failure_set failure_clr) as H1.
  { unfold conn_lifecycle at 1, c1. rewrite markAsDead_state.
    change (conn_lifecycle (conn_cas c 0 failure_set failure_clr).1 = cas_next (conn_lifecycle c) failure_set failure_clr).
    by apply conn_cas_lifecycle; lc_bits_const. }
  assert (conn_lifecycle (if deadSinceIsZero c1 then storeDeadSince c1 now else c1) = conn_lifecycle c1) as ->
    by (by destruct (deadSinceIsZero c1)).
  rewrite H1. replace (has (cas_next _ _ _) lcUnknown) with true; [by destruct (deadSinceIsZero c1) |].
  by lc_solve.
Qed.

Lemma failed_bits now c :
  let lc := conn_lifecycle (failed now c) in
  has lc lcUnknown = true /\ has lc lcNeedsWarmup = true /\ has lc lcNeedsHardware = true /\
  has lc lcReady = false /\ has lc lcActive = false /\ has lc lcStandby = false /\ has lc lcOverloaded = false.
Proof. cbv zeta. rewrite failed_lifecycle. split_and!; lc_solve. Qed.

Lemma dead_invariant_fields now c :
  now <> 0 ->
  c_failures (dead_invariant now c) = c_failures c /\
  c_overloadedAtNano (dead_invariant now c) = c_overloadedAtNano c /\
  c_deadSinceNano (dead_invariant now c) = (if c_deadSinceNano c =? 0 then now else c_deadSinceNano c).
Proof.
  intros Hn. unfold dead_invariant, deadSinceIsZero, storeDeadSince, timeToNano. cbv zeta.
  rewrite (proj2 (Z.eqb_neq now 0)) by done.
  destruct (c_deadSinceNano c =? 0); case_match; try done; unfold conn_set_bit; by cas_fields.
Qed.

Lemma markAsDead_fields now c :
  now <> 0 ->
  c_failures (markAsDeadWithLock now c) = wrap64 (c_failures c + 1) /\
  c_overloadedAtNano (markAsDeadWithLock now c) = c_overloadedAtNano c /\
  c_deadSinceNano (markAsDeadWithLock now c) = (if c_deadSinceNano c =? 0 then now else c_deadSinceNano c).
Proof.
  intros Hn. unfold markAsDeadWithLock, deadSinceIsZero, storeDeadSince, timeToNano. cbv zeta.
  rewrite (proj2 (Z.eqb_neq now 0)) by done. by destruct (c_deadSinceNano c =? 0).
Qed.

Lemma failed_fields now c : now <> 0 ->
  c_failures (failed now c) = wrap64 (c_failures c + 1) /\ c_overloadedAtNano (failed now c) = 0 /\
  c_deadSinceNano (failed now c) = (if c_deadSinceNano c =? 0 then now else c_deadSinceNano c).
Proof.
  intros Hn. unfold failed.
  destruct (conn_cas_state c 0 failure_set failure_clr) as (w & -> & _).
  set (c1 := storeOverloadedAt (set_state c w) 0).
  destruct (dead_invariant_fields now (markAsDeadWithLock now c1) Hn) as (-> & -> & ->).
  destruct (markAsDead_fields now c1 Hn) as (-> & -> & ->).
  change (c_failures c1) with (c_failures c). change (c_overloadedAtNano c1) with 0.
  change (c_deadSinceNano c1) with (c_deadSinceNano c).
  split_and!; [done | done |].
  destruct (Z.eqb_spec (c_deadSinceNano c) 0); [by rewrite (proj2 (Z.eqb_neq now 0)) |].
  by rewrite (proj2 (Z.eqb_neq (c_deadSinceNano c) 0)).
Qed.

(** * The handlers *)

Lemma markAsHealthy_lifecycle c :
  conn_lifecycle (markAsHealthyWithLock c) = cas_next (conn_lifecycle c) lcViable 0.
Proof. unfold markAsHealthyWithLock. cbv zeta. by rewrite conn_set_bit_lifecycle by lc_bits_const. Qed.

Lemma markAsHealthy_fields c :
  c_failures (markAsHealthyWithLock c) = 0 /\ effectiveWeight (markAsHealthyWithLock c) = effectiveWeight c.
Proof.
  unfold markAsHealthyWithLock, conn_set_bit, effectiveWeight. cbv zeta. by cas_fields.
Qed.

Definition skip_success (c : Connection) : bool :=
  deadSinceIsZero c || shouldSkipDraining c || shouldSkipOverloaded c.

(** What OnSuccess establishes when it does not skip the connection. *)
Definition success_post (c : loc) (s : World) (A S D : list loc) (s' : World) : Prop :=
  let conn := conn_at s c in
  let b := below_cap (w_mu s) in
  let e := entries c (effectiveWeight conn) in
  lists (if b then A ++ e else A) (if b then S else S ++ e) (remove_one c D) (w_mu s') /\
  touches c s s' /\ w_counters s' = incr_successes (w_counters s) /\
  let conn' := conn_at s' c in
  let lc := conn_lifecycle conn' in
  c_deadSinceNano conn' = 0 /\ c_overloadedAtNano conn' = 0 /\ c_failures conn' = 0 /\
  has lc lcActive = b /\ has lc lcStandby = negb b /\ has lc lcUnknown = false /\
  has lc lcViable = true /\ has lc lcReady = has (conn_lifecycle conn) lcReady.

Lemma wp_OnSuccess c s A S D :
  lists A S D (w_mu s) -> skip_success (conn_at s c) = false ->
  wp (OnSuccess c) (fun s' _ => success_post c s A S D s') s.
Proof.
  intros Hl H. unfold OnSuccess, success_post. cbv zeta.
  unfold skip_success in H. apply orb_false_iff in H as [[H1 H2]%orb_false_iff H3].
  do 2 wp_step. rewrite H1, H2, H3. wp_step. apply wp_upd_conn.
  intros s1 Hc1 Ht1 Hm1 Hst1 Htk1 _. rewrite <- Hm1 in Hl |- *.
  wp_step. apply (wp_resurrect A S D); [done |]. cbv zeta.
  intros s2 Hl2 Ht2 Hk2 Hme2 Hc2 Hp2. unfold upd_counters. wp_step.
  rewrite Hc1 in Hl2, Hc2. destruct (markAsHealthy_fields (conn_at s c)) as [Hf Hw]. rewrite Hw in Hl2.
  destruct (resurrected_bits (below_cap (w_mu s1)) (getWarmupParamsWithLock (w_mu s1)) (markAsHealthyWithLock (conn_at s c)))
    as (B1 & B2 & B3 & B4 & B5).
  destruct (resurrected_fields (below_cap (w_mu s1)) (getWarmupParamsWithLock (w_mu s1)) (markAsHealthyWithLock (conn_at s c)))
    as (F1 & F2 & F3).
  split_and!; [done | by etrans | cbn; rewrite Hk2; by destruct Hst1 as [-> _] |..];
    change (conn_at (with_counters s2 _) c) with (conn_at s2 c); rewrite Hc2; try done.
  - by rewrite F3.
  - rewrite B5, markAsHealthy_lifecycle. lc_solve.
Qed.

Lemma failed_checkStartedAt now c : c_checkStartedAt (failed now c) = c_checkStartedAt c.
Proof.
  unfold failed, dead_invariant, markAsDeadWithLock. cbv zeta.
  destruct (conn_cas_state c 0 failure_set failure_clr) as (w & -> & _).
  repeat case_match; unfold conn_set_bit; by cas_fields.
Qed.

Lemma claim_task_ext c x y : c_checkStartedAt x = c_checkStartedAt y -> claim_task c x = claim_task c y.
Proof. unfold claim_task. by intros ->. Qed.

(** There is a standby entry exactly when the boundary is not at the end. *)
Lemma standby_left A S D m :
  lists A S D m -> (activeCount m <? Z.of_nat (length (ready m))) = negb (bool_decide (S = [])).
Proof.
  intros H. destruct (lists_count _ _ _ _ H) as [-> ->].
  destruct (Z.ltb_spec (Z.of_nat (length A)) (Z.of_nat (length A + length S))), (decide (S = [])) as [-> | Hne];
    rewrite ?bool_decide_true, ?bool_decide_false by done; cbn in *; try done; [lia |].
  destruct S; [done | cbn in *; lia].
Qed.

Definition sorted_by_failures (h : heap) (l : list loc) : Prop := Sorted (failures_le h) l.

Lemma sorted_by_failures_ext h h' l :
  (forall x, c_failures (deref h x) = c_failures (deref h' x)) ->
  sorted_by_failures h l -> sorted_by_failures h' l.
Proof.
  intros Hext. unfold sorted_by_failures. induction 1 as [| x l Hs IH Hd]; constructor; [done |].
  destruct Hd as [| y l Hxy]; constructor. unfold failures_le in *. by rewrite <- !Hext.
Qed.

#[export] Instance failures_le_total h : Total (failures_le h).
Proof. intros a b. unfold failures_le. lia. Qed.

(** What OnFailure establishes on a connection not yet unknown. *)
Definition failure_post (c : loc) (s : World) (A S D : list loc) (s' : World) : Prop :=
  let conn := conn_at s c in
  lists (removed c A) (removed c S) (D ++ [c]) (w_mu s') /\
  touches c s s' /\
  w_counters s' = incr_failures (w_counters s) /\ w_metrics s' = option_map add_demoted (w_metrics s) /\
  w_tasks s' = w_tasks s ++ claim_task c conn ++
    (if decide (removed c S = []) then [] else [TaskPromoteStandby]) /\
  let conn' := conn_at s' c in
  let lc := conn_lifecycle conn' in
  has lc lcUnknown = true /\ has lc lcReady = false /\ has lc lcActive = false /\
  has lc lcStandby = false /\ has lc lcOverloaded = false /\ has lc lcNeedsWarmup = true /\
  has lc lcNeedsHardware = true /\
  c_failures conn' = wrap64 (c_failures conn + 1) /\ c_overloadedAtNano conn' = 0 /\
  c_deadSinceNano conn' = (if c_deadSinceNano conn =? 0 then w_now s else c_deadSinceNano conn) /\
  sorted_by_failures (w_heap s') (dead (w_mu s')).

Lemma wp_OnFailure c s A S D :
  lists A S D (w_mu s) -> w_now s <> 0 -> has (lc_at s c) lcUnknown = false ->
  wp (OnFailure c) (fun s' _ => failure_post c s A S D s') s.
Proof.
  intros Hl Hnow Hu. unfold OnFailure, OnFailure_demote, failure_post. cbv zeta.
  do 3 wp_step. rewrite Hu.
  pose proof (failure_cas _ Hu) as He.
  destruct (conn_cas (conn_at s c) 0 failure_set failure_clr) as [conn' err] eqn:Hcas. cbn in He. subst err.
  do 3 wp_step. apply wp_upd_conn. intros s1 Hc1 Ht1 Hm1 Hst1 Htk1 _. rewrite <- Hm1 in Hl.
  wp_step. apply (wp_removeFromReady A S D); [done |]. intros s2 Hl2 Hs2 Htk2 _ _.
  wp_step. eapply wp_appendToDead; [exact Hl2 |].
  intros s3 Hl3 Ht3 Hst3 Hc3 Htk3 Hr3 Ha3 Hd3. unfold upd_counters, upd_metrics. do 8 wp_step.
  set (s4 := with_mu _ _).
  assert (touches c s s4) as Ht4.
  { etrans; [exact Ht1 |]. etrans; [exact (same_touches c s1 s2 Hs2) |]. exact Ht3. }
  assert (w_now s2 = w_now s) as Hn2.
  { destruct Hs2 as ([= ? ? ? ? ? ? ? ? ? E1] & _), Ht1 as [[= ? ? ? ? ? ? ? ? ? E2] _]. congruence. }
  assert (conn_at s4 c = failed (w_now s) (conn_at s c)) as Hc4.
  { change (conn_at s4 c) with (conn_at s3 c). rewrite Hc3, Hn2, (same_conn_at _ _ _ Hs2), Hc1.
    unfold failed. by rewrite Hcas. }
  assert (lists (removed c A) (removed c S) (D ++ [c]) (w_mu s4)) as Hl4.
  { destruct Hl3 as (E1 & E2 & E3 & E4). split_and!; [exact E1 | exact E2 | exact E3 |].
    cbn. by rewrite merge_sort_Permutation. }
  assert (sorted_by_failures (w_heap s4) (dead (w_mu s4))) as Hsort4.
  { apply (Sorted_merge_sort (failures_le (w_heap s3))). }
  assert (w_tasks s4 = w_tasks s) as Htk4 by (cbn; congruence).
  assert (w_counters s4 = incr_failures (w_counters s) /\ w_metrics s4 = option_map add_demoted (w_metrics s)) as [Hk4 Hme4].
  { destruct Hs2 as (_ & _ & E1 & E2), Hst1, Hst3. cbn. split; congruence. }
  change (activeCount (w_mu s3) <? Z.of_nat (length (ready (w_mu s3))))
    with (activeCount (w_mu s4) <? Z.of_nat (length (ready (w_mu s4)))).
  clearbody s4. clear dependent s3. clear dependent s2. clear dependent s1.
  do 2 wp_step. apply wp_scheduleResurrect. intros s5 Hc5 Ht5 Hm5 Hst5 Htk5.
  destruct (claimed_bits (w_now s4) (conn_at s4 c)) as (F1 & F2 & F3 & Hbits).
  rewrite <- Hc5 in F1, F2, F3, Hbits. rewrite Hc4 in F1, F2, F3, Hbits, Htk5.
  destruct (failed_fields (w_now s) (conn_at s c) Hnow) as (G1 & G2 & G3).
  destruct (failed_bits (w_now s) (conn_at s c)) as (B1 & B2 & B3 & B4 & B5 & B6 & B7).
  rewrite (claim_task_ext c (failed (w_now s) (conn_at s c)) (conn_at s c)) in Htk5 by apply failed_checkStartedAt.
  rewrite (standby_left _ _ _ _ Hl4).
  assert (sorted_by_failures (w_heap s5) (dead (w_mu s5))) as Hsort5.
  { rewrite Hm5. apply (sorted_by_failures_ext (w_heap s4)); [| done]. intros x.
    change (c_failures (conn_at s4 x) = c_failures (conn_at s5 x)).
    destruct (decide (x = c)) as [-> | Hne]; [by rewrite F1, Hc4 |].
    by rewrite (proj2 Ht5 x Hne). }
  rewrite <- Hm5 in Hl4. destruct Hst5 as [Hk5 Hme5].
  assert (touches c s s5) as Ht05 by (by etrans).
  assert (let conn' := conn_at s5 c in let lc := conn_lifecycle conn' in
    has lc lcUnknown = true /\ has lc lcReady = false /\ has lc lcActive = false /\
    has lc lcStandby = false /\ has lc lcOverloaded = false /\ has lc lcNeedsWarmup = true /\
    has lc lcNeedsHardware = true /\
    c_failures conn' = wrap64 (c_failures (conn_at s c) + 1) /\ c_overloadedAtNano conn' = 0 /\
    c_deadSinceNano conn' =
      (if c_deadSinceNano (conn_at s c) =? 0 then w_now s else c_deadSinceNano (conn_at s c)) /\
    sorted_by_failures (w_heap s5) (dead (w_mu s5))) as Hpost.
  { cbv zeta. autorewrite with lcbits in *. rewrite !Hbits by done.
    split_and!; try done; congruence. }
  rewrite Htk4 in Htk5. apply wp_when; intros Hb.
  - apply wp_modify. split_and!; [exact Hl4 | exact Ht05 | cbn; congruence | cbn; congruence | | apply Hpost ..].
    cbn. rewrite Htk5, <- app_assoc. case_decide; [by rewrite bool_decide_true in Hb | done].
  - split_and!; [exact Hl4 | exact Ht05 | congruence | congruence | | apply Hpost ..].
    rewrite Htk5. case_decide; [by rewrite app_nil_r | by rewrite bool_decide_false in Hb].
Qed.

(** * Theorems *)

(** C4: OnSuccess resurrects exactly when it should. On a connection that is
    not dead, is draining or is overload-demoted it changes nothing at all. On
    any other it never panics, takes one entry of the connection off the dead
    list, appends its weight in entries to the active partition when the cap
    leaves room and to standby otherwise, leaves every other connection and
    the configuration alone, and leaves the connection alive, reachable and
    without failures, with exactly the position bit of the partition it went
    to. The readiness bit lcReady is not set (it stays as it was). *)
Theorem OnSuccess_resurrects c s A S D :
  lists A S D (w_mu s) ->
  (skip_success (conn_at s c) = true -> OnSuccess c s = Some (s, tt)) /\
  (skip_success (conn_at s c) = false ->
   wp (OnSuccess c) (fun s' _ => success_post c s A S D s') s).
Proof.
  intros Hl. split; [| by apply wp_OnSuccess].
  unfold skip_success, OnSuccess, bind, gets. intros H. destruct (deadSinceIsZero _); [done |].
  destruct (shouldSkipDraining _); [done |]. by destruct (shouldSkipOverloaded _).
Qed.

(** C3: OnFailure demotes a connection that is not yet dead. On a connection
    already marked unknown it changes nothing. On any other it never panics
    and never meets a lifecycle error: every entry of the connection leaves
    the ready list, active and standby alike, one entry joins the dead list,
    which ends up sorted with the most failures first; the connection is
    unknown, neither ready, active, standby nor overloaded, needs warmup and a
    hardware probe, carries one more failure and the time of its first death;
    no other connection changes; and the resurrection loop starts unless a
    check is already under way, with an asynchronous standby promotion exactly
    when some other standby connection is left. *)
Theorem OnFailure_demotes c s A S D :
  lists A S D (w_mu s) -> w_now s <> 0 ->
  (has (lc_at s c) lcUnknown = true -> OnFailure c s = Some (s, tt)) /\
  (has (lc_at s c) lcUnknown = false ->
   wp (OnFailure c) (fun s' _ => failure_post c s A S D s') s).
Proof.
  intros Hl Hnow. split; [| by apply wp_OnFailure].
  unfold OnFailure, OnFailure_demote, bind, gets. by intros ->.
Qed.

(** How many entries of [c] a list holds. *)
Definition count (c : loc) (l : list loc) : nat := length (filter (fun x => x = c) l).

#[export] Instance count_Proper c : Proper ((≡ₚ) ==> eq) (count c).
Proof. unfold count. by intros l l' ->. Qed.

Lemma count_app c l l' : count c (l ++ l') = (count c l + count c l')%nat.
Proof. unfold count. by rewrite filter_app, length_app. Qed.

Lemma count_entries c n : count c (entries c n) = Z.to_nat n.
Proof.
  unfold count, entries. induction (Z.to_nat n) as [| k IH]; cbn [replicate]; [done |].
  rewrite filter_cons_True by done. cbn. by rewrite IH.
Qed.

Lemma count_in c l : c ∈ l -> (1 <= count c l)%nat.
Proof.
  intros H. unfold count. assert (c ∈ filter (fun x => x = c) l) as Hf by (by apply list_elem_of_filter).
  destruct (filter _ l); [set_solver | cbn; lia].
Qed.

Lemma count_removed c (l : list loc) : c ∉ removed c l.
Proof. intros [[] _]%list_elem_of_filter. done. Qed.

(** The resurrection of checkDead's fast path, on a connection that another
    goroutine may have moved since the snapshot. *)
Lemma wp_checkDead_promote c s A S D :
  lists A S D (w_mu s) -> isReady (c_state (conn_at s c)) = true ->
  wp (checkDead_promote c) (fun s' _ =>
    let b := below_cap (w_mu s) in
    let e := entries c (effectiveWeight (conn_at s c)) in
    lists (if b then A ++ e else A) (if b then S else S ++ e) (remove_one c D) (w_mu s') /\
    touches c s s') s.
Proof.
  intros Hl Hr. unfold checkDead_promote. do 2 wp_step. rewrite Hr.
  wp_step. apply wp_upd_conn. intros s1 Hc1 Ht1 Hm1 Hst1 Htk1 _. rewrite <- Hm1 in Hl |- *.
  apply (wp_resurrect A S D); [done |]. cbv zeta. intros s2 Hl2 Ht2 _ _ _ _.
  rewrite Hc1 in Hl2. rewrite (proj2 (markAsHealthy_fields (conn_at s c))) in Hl2.
  split; [done | by etrans].
Qed.

(** The handlers do not check where the connection is, so stale reports
    duplicate it. (1) When another pool has resurrected a connection that this
    pool still lists as dead, OnFailure lists it dead once more. (2) When the
    snapshot of checkDead is stale and the connection is already back in the
    ready list, the fast path resurrects it again: the ready list gains its
    whole weight a second time, and no entry leaves the dead list. *)
Theorem stale_reports_duplicate c s A S D :
  lists A S D (w_mu s) -> w_now s <> 0 ->
  (c ∈ dead (w_mu s) -> has (lc_at s c) lcUnknown = false ->
   wp (OnFailure c) (fun s' _ =>
     count c (dead (w_mu s')) = Datatypes.S (count c (dead (w_mu s))) /\
     (2 <= count c (dead (w_mu s')))%nat) s) /\
  (c ∈ ready (w_mu s) -> c ∉ dead (w_mu s) -> isReady (c_state (conn_at s c)) = true ->
   wp (checkDead_promote c) (fun s' _ =>
     count c (ready (w_mu s')) =
       (count c (ready (w_mu s)) + Z.to_nat (effectiveWeight (conn_at s c)))%nat /\
     dead (w_mu s') ≡ₚ dead (w_mu s)) s).
Proof.
  intros Hl Hnow. split.
  - intros Hd Hu. eapply wp_mono; [by apply (wp_OnFailure c s A S D) |].
    intros s' [] (Hl' & _). destruct Hl as (_ & _ & _ & HD), Hl' as (_ & _ & _ & HD').
    assert (count c [c] = 1%nat) as H1 by (unfold count; by rewrite filter_cons_True).
    rewrite HD in Hd. pose proof (count_in c D Hd). rewrite HD', HD, count_app, H1. lia.
  - intros Hr Hd Hre. eapply wp_mono; [by apply (wp_checkDead_promote c s A S D) |].
    intros s' [] [Hl' _]. rewrite (lists_ready _ _ _ _ Hl'), (lists_ready _ _ _ _ Hl).
    assert (D ≡ₚ dead (w_mu s)) as HD by (by destruct Hl as (_ & _ & _ & <-)).
    destruct Hl' as (_ & _ & _ & ->). rewrite HD, remove_one_notin by done. split; [| done].
    destruct (below_cap (w_mu s)); rewrite !count_app, count_entries; lia.
Qed.

(** * A concrete pool *)

Definition ex_node (url : string) (lc weight failures deadSince : Z) : Connection :=
  MkConnection url url url ∅ weight 8 (Some (newRTTRing 4)) pr_zero failures (newConnState lc) deadSince 0 0 0 false.
(** Two active nodes (the second of weight 2), one standby, two dead. *)
Definition ex_pool_heap : heap :=
  {[ 0%nat := ex_node "http://n0:9200" (lcReady ||| lcActive ||| lcViable) 1 0 0;
     1%nat := ex_node "http://n1:9200" (lcReady ||| lcActive ||| lcViable) 2 0 0;
     2%nat := ex_node "http://n2:9200" (lcReady ||| lcStandby ||| lcViable) 1 0 0;
     3%nat := ex_node "http://n3:9200" (lcDead ||| lcNeedsWarmup) 1 2 50;
     4%nat := ex_node "http://n4:9200" (lcDead ||| lcNeedsWarmup) 1 7 60 ]}.
Definition ex_pool_mu : PoolMu :=
  MkPoolMu [0; 1; 1; 2]%nat [4; 3]%nat 3 (list_to_set [0; 1; 2; 3; 4]%nat) 3 8 16 true.
Definition ex_world : World :=
  MkWorld ex_pool_heap ex_pool_mu None 0 None 3 (MkCounters 0 0 0 0 0) (Some (MkMetrics 0 0 0 0 0)) 100 [5; 2; 9] [].

Lemma ex_world_lists : lists [0; 1; 1]%nat [2]%nat [4; 3]%nat (w_mu ex_world).
Proof. split; [vm_compute; split; congruence | by split_and!]. Qed.

(** The lists an operation leaves. *)
Definition lists_after {A} (r : option (World * A)) : option (list loc * Z * list loc) :=
  match r with Some (s, _) => Some (ready (w_mu s), activeCount (w_mu s), dead (w_mu s)) | None => None end.

Lemma OnSuccess_resurrects_witness :
  lists_after (OnSuccess 3%nat ex_world) = Some ([0; 1; 1; 2; 3]%nat, 3, [4]%nat) /\
  wp (OnSuccess 3%nat) (fun s' _ => success_post 3%nat ex_world [0; 1; 1]%nat [2]%nat [4; 3]%nat s') ex_world.
Proof.
  split; [vm_compute; reflexivity |].
  apply (OnSuccess_resurrects 3%nat ex_world _ _ _ ex_world_lists). vm_compute. reflexivity.
Defined.

Lemma OnFailure_demotes_witness :
  lists_after (OnFailure 1%nat ex_world) = Some ([0; 2]%nat, 1, [4; 3; 1]%nat) /\
  wp (OnFailure 1%nat) (fun s' _ => failure_post 1%nat ex_world [0; 1; 1]%nat [2]%nat [4; 3]%nat s') ex_world.
Proof.
  split; [vm_compute; reflexivity |].
  apply (OnFailure_demotes 1%nat ex_world _ _ _ ex_world_lists); [vm_compute; congruence |].
  vm_compute. reflexivity.
Defined.

(** The scenario of a shared connection: node 3 is in this pool's dead list,
    another pool has made it active again, a request on it fails here; and
    node 1 is resurrected from a stale snapshot. *)
Definition ex_world_shared : World :=
  with_heap ex_world (<[3%nat := ex_node "http://n3:9200" (lcActive ||| lcViable) 1 0 0]> ex_pool_heap).

Lemma ex_world_shared_lists : lists [0; 1; 1]%nat [2]%nat [4; 3]%nat (w_mu ex_world_shared).
Proof. split; [vm_compute; split; congruence | by split_and!]. Qed.

Lemma stale_reports_duplicate_witness :
  lists_after (OnFailure 3%nat ex_world_shared) = Some ([0; 1; 1; 2]%nat, 3, [4; 3; 3]%nat) /\
  lists_after (checkDead_promote 1%nat ex_world) = Some ([0; 1; 1; 2; 1; 1]%nat, 3, [4; 3]%nat) /\
  wp (OnFailure 3%nat) (fun s' _ =>
     count 3%nat (dead (w_mu s')) = Datatypes.S (count 3%nat (dead (w_mu ex_world_shared))) /\
     (2 <= count 3%nat (dead (w_mu s')))%nat) ex_world_shared.
Proof.
  split; [vm_compute; reflexivity |]. split; [vm_compute; reflexivity |].
  refine (proj1 (stale_reports_duplicate 3%nat ex_world_shared _ _ _ ex_world_shared_lists _) _ _).
  - vm_compute. congruence.
  - apply (bool_decide_unpack _). vm_compute. exact I.
  - vm_compute. reflexivity.
Defined.
