(* ===== verification/PoolHealth.v ===== *)
(** The verdict of a health check: what Connection.healthCheck and checkDeadOne
    do with an answer, whether or not the connection was reported dead while
    the check was under way. *)

From Stdlib Require Import ZArith Lia.
From stdpp Require Import base gmap list strings sorting.
From S2P Require Import Prelude.
From S2P Require Import Atomic.
From S2P Require Import Lifecycle.
From S2P Require Import Warmup.
From S2P Require Import Rtt.
From S2P Require Import Congestion.
From S2P Require Import Conn.
From S2P Require Import Pool.
From S2P Require Import PoolResurrect.
From S2P Require Import PoolLists.
From S2P Require Import PoolReport.

Open Scope list_scope.
Open Scope Z_scope.

(** The end of a check that started when deadSince was [original]. *)
Definition check_verdict (c : loc) (original : Z) (failed : bool) : M World unit :=
  let* err := healthCheck_finish c original failed in checkDeadOne_after c err.

(** The draining counter after one decrement. *)
Definition drained (r : Z) : Z := if r <=? 0 then r else r - 1.

Lemma decrementDraining_spec c :
  decrementDrainingQuiescing c =
    (set_draining c (drained (c_drainingQuiescingRemaining c)),
     Z.max 0 (c_drainingQuiescingRemaining c - 1)).
Proof.
  unfold decrementDrainingQuiescing, rmw_run, decrementDrainingQuiescing_pass, drained.
  destruct (Z.leb_spec (c_drainingQuiescingRemaining c) 0); cbv beta iota; f_equal; lia.
Qed.

(** The claim of the check is released. *)
Definition released (conn : Connection) : Prop :=
  c_checkStartedAt conn = 0 /\ has (conn_lifecycle conn) lcHealthChecking = false.

Lemma release_spec conn :
  let conn' := conn_clear_bit (set_checkStartedAt conn 0) lcHealthChecking in
  released conn' /\ c_deadSinceNano conn' = c_deadSinceNano conn /\
  c_drainingQuiescingRemaining conn' = c_drainingQuiescingRemaining conn /\ c_weight conn' = c_weight conn.
Proof.
  cbv zeta. unfold released. rewrite conn_clear_bit_lifecycle.
  unfold conn_clear_bit. split_and!; try (by cas_fields). lc_solve.
Qed.

Lemma resurrected_released b p c : released c -> released (resurrected b p c).
Proof.
  unfold released. rewrite resurrected_lifecycle. intros [H1 H2]. split.
  - unfold resurrected, markAsReadyWithLock, conn_set_bit. cbv zeta.
    destruct b; unfold conn_startWarmup; by cas_fields.
  - revert H2. autorewrite with lcbits. rewrite !testbit_cas_next. intros ->. by destruct b.
Qed.
Lemma resurrected_draining b p c : c_drainingQuiescingRemaining (resurrected b p c) = c_drainingQuiescingRemaining c.
Proof.
  unfold resurrected, markAsReadyWithLock, conn_set_bit. cbv zeta.
  destruct b; unfold conn_startWarmup; by cas_fields.
Qed.

(** What a finished check leaves. *)
Definition verdict_post (c : loc) (original : Z) (failed : bool) (A S D : list loc) (s s' : World) : Prop :=
  let conn := conn_at s c in
  let conn' := conn_at s' c in
  let r := c_drainingQuiescingRemaining conn in
  released conn' /\ touches c s s' /\
  if original <? c_deadSinceNano conn then
    (* reported dead during the check: the result is discarded *)
    w_mu s' = w_mu s /\ c_deadSinceNano conn' = c_deadSinceNano conn /\
    c_drainingQuiescingRemaining conn' = drained r
  else if failed then
    w_mu s' = w_mu s /\ c_drainingQuiescingRemaining conn' = r /\
    c_deadSinceNano conn' = (if c_deadSinceNano conn =? 0 then w_now s else c_deadSinceNano conn)
  else
    c_deadSinceNano conn' = 0 /\ c_drainingQuiescingRemaining conn' = drained r /\
    if 1 <? r then w_mu s' = w_mu s
    else
      let b := below_cap (w_mu s) in
      let e := entries c (effectiveWeight conn) in
      lists (if b then A ++ e else A) (if b then S else S ++ e) (remove_one c D) (w_mu s').

Lemma touches_upd c s s1 s2 : touches c s s1 -> touches c s1 s2 -> touches c s s2.
Proof. by etrans. Qed.

Lemma loadDeadSince_nano c : loadDeadSince c = c_deadSinceNano c.
Proof. unfold loadDeadSince, nanoToTime. by destruct (Z.eqb_spec (c_deadSinceNano c) 0). Qed.

Lemma timeToNano_id t : timeToNano t = t.
Proof. unfold timeToNano. by destruct (Z.eqb_spec t 0). Qed.

(** The tail of checkDeadOne once healthCheck has returned without an error. *)
Lemma wp_after_ok c s A S D (Q : World -> unit -> Prop) :
  lists A S D (w_mu s) -> released (conn_at s c) ->
  (forall s',
     let conn := conn_at s c in
     let conn' := conn_at s' c in
     let r := c_drainingQuiescingRemaining conn in
     released conn' -> touches c s s' ->
     c_drainingQuiescingRemaining conn' = drained r -> c_deadSinceNano conn' = c_deadSinceNano conn ->
     (if (1 <? r) || negb (c_deadSinceNano conn =? 0) then w_mu s' = w_mu s
      else
        let b := below_cap (w_mu s) in
        let e := entries c (effectiveWeight conn) in
        lists (if b then A ++ e else A) (if b then S else S ++ e) (remove_one c D) (w_mu s')) ->
     Q s' tt) ->
  wp (checkDeadOne_after c false) Q s.
Proof.
  intros Hl Hrel HQ. unfold checkDeadOne_after, checkDeadOne_resurrect. do 2 wp_step.
  rewrite decrementDraining_spec. cbn [snd].
  wp_step. apply wp_upd_conn. intros s1 Hc1 Ht1 Hm1 _ _ _. rewrite decrementDraining_spec in Hc1. cbn [fst] in Hc1.
  assert (c_deadSinceNano (conn_at s1 c) = c_deadSinceNano (conn_at s c)) as Hd1 by (by rewrite Hc1).
  set (r := c_drainingQuiescingRemaining (conn_at s c)) in *.
  assert ((0 <? Z.max 0 (r - 1)) = (1 <? r)) as -> by (destruct (Z.ltb_spec 0 (Z.max 0 (r - 1))), (Z.ltb_spec 1 r); lia).
  destruct (1 <? r) eqn:Hr.
  { apply wp_ret, HQ; rewrite ?Hc1; try done. fold r. by rewrite Hr. }
  do 2 wp_step. unfold deadSinceIsZero. rewrite Hd1. destruct (c_deadSinceNano (conn_at s c) =? 0) eqn:Hz; cbn [negb].
  2: { apply wp_ret, HQ; rewrite ?Hc1; try done. fold r. by rewrite Hz, orb_true_r. }
  do 2 wp_step. rewrite Hd1, Hz. eapply wp_resurrect; [rewrite Hm1; exact Hl |]. cbv zeta.
  intros s2 Hl2 Ht2 _ _ Hc2 _. apply HQ; rewrite ?Hc2.
  - apply resurrected_released. by rewrite Hc1.
  - by etrans.
  - by rewrite resurrected_draining, Hc1.
  - apply Z.eqb_eq in Hz. rewrite Hz. apply resurrected_fields.
  - fold r. rewrite Hr, Hz. cbn [orb negb]. rewrite Hm1, Hc1 in Hl2. exact Hl2.
Qed.

Lemma wp_check_verdict c original failed s A S D :
  lists A S D (w_mu s) -> 0 <= original ->
  wp (check_verdict c original failed) (fun s' _ => verdict_post c original failed A S D s s') s.
Proof.
  intros Hl H0. unfold check_verdict, healthCheck_finish, verdict_post. cbv zeta. do 5 wp_step.
  rewrite loadDeadSince_nano.
  destruct (Z.ltb_spec original (c_deadSinceNano (conn_at s c))) as [Hraced | Hraced]; [| destruct failed].
  - wp_step. apply wp_upd_conn. intros s1 Hc1 Ht1 Hm1 _ _ _. wp_step.
    destruct (release_spec (conn_at s c)) as (R1 & R2 & R3 & R4). rewrite <- Hc1 in R1, R2, R3, R4.
    apply (wp_after_ok c s1 A S D); [by rewrite Hm1 | done |]. cbv zeta. intros s2 Hrel Ht2 Hdr Hds Hmu.
    assert ((c_deadSinceNano (conn_at s1 c) =? 0) = false) as Hz by (apply Z.eqb_neq; lia).
    rewrite Hz, orb_true_r in Hmu. split; [done |]. split; [by etrans |].
    split_and!; congruence.
  - wp_step. apply wp_upd_conn. intros s1 Hc1 Ht1 Hm1 _ _ _. wp_step. apply wp_ret.
    match type of Hc1 with _ = conn_clear_bit (set_checkStartedAt ?x 0) _ =>
      destruct (release_spec x) as (R1 & R2 & R3 & R4) end.
    rewrite <- Hc1 in R1, R2, R3, R4. split; [done |]. split; [done |]. split; [done |].
    split; [rewrite R3; by case_match |]. rewrite R2. unfold deadSinceIsZero.
    destruct (c_deadSinceNano (conn_at s c) =? 0); [cbn; apply timeToNano_id | done].
  - wp_step. apply wp_upd_conn. intros s1 Hc1 Ht1 Hm1 _ _ _. wp_step.
    match type of Hc1 with _ = conn_clear_bit (set_checkStartedAt ?x 0) _ =>
      destruct (release_spec x) as (R1 & R2 & R3 & R4);
      assert (c_deadSinceNano x = 0 /\ c_drainingQuiescingRemaining x = c_drainingQuiescingRemaining (conn_at s c) /\
        c_weight x = c_weight (conn_at s c)) as (X1 & X2 & X3)
        by (unfold deadSinceIsZero; destruct (Z.eqb_spec (c_deadSinceNano (conn_at s c)) 0); done) end.
    rewrite <- Hc1 in R1, R2, R3, R4.
    apply (wp_after_ok c s1 A S D); [by rewrite Hm1 | done |]. cbv zeta. intros s2 Hrel Ht2 Hdr Hds Hmu.
    rewrite (effectiveWeight_ext (conn_at s c) (conn_at s1 c)) in Hmu by congruence.
    rewrite R2, R3, X1, X2, Hm1 in Hmu. cbn [Z.eqb negb] in Hmu. rewrite orb_false_r in Hmu.
    split; [done |]. split; [by etrans |]. split_and!; congruence.
Qed.

(** The verdict of a health check. Whatever happened to the connection
    while the check ran, its claim is released and only this connection is
    written. A failed check leaves it dead. A passed one clears deadSince and
    counts down the draining quiescence; when the count is used up the
    connection is resurrected into the partition the cap allows. If the
    connection was reported dead during the check, the answer, passed or
    failed, is discarded: it stays dead since the later report; but its
    draining count goes down all the same. *)
Theorem checkDeadOne_verdict c original failed s A S D :
  lists A S D (w_mu s) -> 0 <= original ->
  wp (check_verdict c original failed) (fun s' _ => verdict_post c original failed A S D s s') s.
Proof. apply wp_check_verdict. Qed.

(** Node 3, draining with two checks to go, is reported dead at time 50 while
    a check that started at 40 fails. *)
Definition ex_world_draining : World :=
  with_heap ex_world (<[3%nat := set_draining (conn_at ex_world 3%nat) 2]> ex_pool_heap).

Lemma ex_world_draining_lists : lists [0; 1; 1]%nat [2]%nat [4; 3]%nat (w_mu ex_world_draining).
Proof. exact ex_world_lists. Qed.

Lemma checkDeadOne_verdict_witness :
  option_map (fun r => c_drainingQuiescingRemaining (conn_at r.1 3%nat)) (check_verdict 3%nat 40 true ex_world_draining) = Some 1 /\
  lists_after (check_verdict 3%nat 50 false ex_world) = Some ([0; 1; 1; 2; 3]%nat, 3, [4]%nat) /\
  wp (check_verdict 3%nat 40 true) (fun s' _ =>
    verdict_post 3%nat 40 true [0; 1; 1]%nat [2]%nat [4; 3]%nat ex_world_draining s') ex_world_draining.
Proof.
  split; [vm_compute; reflexivity |]. split; [vm_compute; reflexivity |].
  apply (checkDeadOne_verdict 3%nat 40 true ex_world_draining _ _ _ ex_world_draining_lists). lia.
Defined.
