(* ===== verification/PoolCap.v ===== *)
(** The standby partition: promotion, overload demotion and the active cap
    (pool_standby.go), as movements between the partitions of [lists]. *)

From Stdlib Require Import ZArith Lia.
From stdpp Require Import base gmap list strings sorting.
From S2P Require Import Prelude.
From S2P Require Import Lifecycle.
From S2P Require Import Warmup.
From S2P Require Import Rtt.
From S2P Require Import Congestion.
From S2P Require Import Conn.
From S2P Require Import Pool.
From S2P Require Import PoolResurrect.
From S2P Require Import PoolStandby.
From S2P Require Import PoolSelect.
From S2P Require Import PoolLists.
From S2P Require Import PoolReport.

Open Scope list_scope.
Open Scope Z_scope.

(** * Promotion *)

Definition forced_active (c : Connection) : Connection := (conn_cas c 0 lcActive (lcStandby ||| lcNeedsWarmup)).1.

Lemma lists_boundary A S D m x :
  lists A S D m -> index (ready m) (activeCount m) = Some x ->
  x ∈ S /\ lists (A ++ [x]) (remove_one x S) D (mu_activeCount m (activeCount m + 1)).
Proof.
  intros Hl Hx. destruct (lists_split _ _ _ _ Hl) as (a & b & Hr & Hc & Ha & Hb & Hd).
  apply index_Some in Hx as [_ Hx]. rewrite Hr, Hc, Nat2Z.id, lookup_app_r, Nat.sub_diag in Hx by lia.
  destruct b as [| y b]; [done |]. injection Hx as ->.
  assert (x ∈ S) as Hin by (rewrite <- Hb; set_solver). split; [done |].
  apply (lists_intro _ _ _ _ (a ++ [x]) b); cbn; [by rewrite <- app_assoc | rewrite Hc, length_app; cbn; lia | by rewrite Ha | | done].
  apply Permutation_cons_inv with x. by rewrite Hb, <- remove_one_in.
Qed.

Lemma standby_nonempty A S D m :
  lists A S D m -> (Z.of_nat (length (ready m)) <=? activeCount m) = bool_decide (S = []).
Proof.
  intros H. pose proof (standby_left _ _ _ _ H) as Hs.
  destruct (Z.leb_spec (Z.of_nat (length (ready m))) (activeCount m)), (Z.ltb_spec (activeCount m) (Z.of_nat (length (ready m))));
    try lia; by destruct (bool_decide (S = [])).
Qed.

Lemma boundary_exists A S D m :
  lists A S D m -> S <> [] -> exists x, index (ready m) (activeCount m) = Some x.
Proof.
  intros H HS. pose proof H as (Hb & _). apply index_lt.
  pose proof (standby_nonempty _ _ _ _ H) as Hn. rewrite bool_decide_false in Hn by done.
  apply Z.leb_gt in Hn. unfold pool_bounds in Hb. lia.
Qed.

Lemma wp_tryStandby A S D s (Q : World -> option loc -> Prop) :
  lists A S D (w_mu s) ->
  (S = [] -> Q s None) ->
  (forall c s', index (ready (w_mu s)) (activeCount (w_mu s)) = Some c -> c ∈ S ->
     lists (A ++ [c]) (remove_one c S) D (w_mu s') -> touches c s s' ->
     conn_at s' c = forced_active (conn_at s c) -> w_counters s' = w_counters s ->
     w_metrics s' = option_map add_standbyPromotion (w_metrics s) -> w_tasks s' = w_tasks s ->
     w_rng s' = w_rng s -> Q s' (Some c)) ->
  wp tryStandbyWithLock Q s.
Proof.
  intros Hl HN HQ. unfold tryStandbyWithLock. do 2 wp_step.
  rewrite (standby_nonempty _ _ _ _ Hl). destruct (decide (S = [])) as [HS | HS].
  - rewrite bool_decide_true by done. wp_step. by apply HN.
  - rewrite bool_decide_false by done.
    destruct (boundary_exists _ _ _ _ Hl HS) as [c Hc].
    destruct (lists_boundary _ _ _ _ _ Hl Hc) as [Hin Hl'].
    wp_step. eapply wp_getsM; [exact Hc |].
    wp_step. apply wp_upd_conn. intros s1 Hc1 Ht1 Hm1 [Hk1 Hme1] Htk1 Hr1.
    unfold upd_mu, upd_metrics. do 5 wp_step.
    apply (HQ c); cbn; rewrite ?Hm1; try done.
    + etrans; [exact Ht1 |]. split; [| done]. unfold conf. cbn. by rewrite Hm1.
    + by rewrite Hme1.
Qed.

Definition promoted (p : Z * Z) (c : Connection) : Connection :=
  conn_startWarmup (conn_cas c 0 lcActive lcStandby).1 p.1 p.2.

Lemma last_index_max c l i : last_index c l = Some i -> forall j, l !! j = Some c -> (j <= i)%nat.
Proof.
  revert i. induction l as [| x l IH]; intros i; cbn [last_index]; [done |].
  destruct (last_index c l) as [k |] eqn:E.
  - intros [= <-] [| j] Hj; [lia |]. specialize (IH k eq_refl j Hj). lia.
  - apply last_index_None in E. destruct (Nat.eqb_spec x c); [| done].
    intros [= <-] [| j] Hj; [lia |]. exfalso. apply E. cbn in Hj. by apply list_elem_of_lookup_2 in Hj.
Qed.

Lemma find_standby_spec m c :
  pool_bounds m ->
  match find_standby m c with
  | Some idx => activeCount m <= idx /\ index (ready m) idx = Some c /\ c ∈ standby_part m
  | None => c ∉ standby_part m
  end.
Proof.
  intros Hb. unfold pool_bounds in Hb. unfold find_standby, standby_part.
  destruct (last_index c (ready m)) as [idx |] eqn:E.
  - pose proof (last_index_Some _ _ _ E) as Hi.
    destruct (Z.leb_spec (activeCount m) (Z.of_nat idx)).
    + split_and!; [done | apply index_Some; rewrite Nat2Z.id; split; [lia | done] |].
      apply list_elem_of_lookup. exists (idx - Z.to_nat (activeCount m))%nat.
      rewrite lookup_drop, Nat.add_comm, Nat.sub_add by lia. done.
    + intros [j Hj]%list_elem_of_lookup. rewrite lookup_drop in Hj.
      pose proof (last_index_max _ _ _ E _ Hj). lia.
  - apply last_index_None in E. intros H. apply E. rewrite (ready_parts m). set_solver.
Qed.

Lemma drop_swap_boundary (a b : list loc) i x :
  index (a ++ b) i = Some x -> Z.of_nat (length a) <= i ->
  exists b', swap_at (a ++ b) i (Z.of_nat (length a)) = Some (a ++ x :: b') /\ x :: b' ≡ₚ b.
Proof.
  intros Hx Hi. apply index_Some in Hx as [H0 Hx]. rewrite lookup_app_r in Hx by lia.
  destruct b as [| y b]; [done |].
  unfold swap_at. replace (index (a ++ y :: b) i) with (Some x).
  2: { symmetry. apply index_Some. split; [lia |]. by rewrite lookup_app_r by lia. }
  replace (index (a ++ y :: b) (Z.of_nat (length a))) with (Some y).
  2: { symmetry. apply index_Some. split; [lia |]. by rewrite Nat2Z.id, lookup_app_r, Nat.sub_diag by lia. }
  rewrite Nat2Z.id, insert_app_r_alt by lia. set (k := (Z.to_nat i - length a)%nat) in *.
  rewrite insert_app_r_alt, Nat.sub_diag by lia.
  pose proof (swap_Permutation (y :: b) k 0 x y Hx eq_refl) as Hp.
  destruct (<[k := y]> (y :: b)) as [| z b'] eqn:E.
  { apply (f_equal length) in E. rewrite length_insert in E. done. }
  exists b'. split; [done | exact Hp].
Qed.

Lemma wp_promoteStandby A S D c s (Q : World -> bool -> Prop) :
  lists A S D (w_mu s) ->
  (c ∉ S -> Q s false) ->
  (forall s', c ∈ S -> lists (A ++ [c]) (remove_one c S) D (w_mu s') -> touches c s s' ->
     conn_at s' c = promoted (getWarmupParamsWithLock (w_mu s)) (conn_at s c) ->
     w_counters s' = w_counters s -> w_metrics s' = option_map add_standbyPromotion (w_metrics s) ->
     w_tasks s' = w_tasks s -> Q s' true) ->
  wp (promoteStandbyWithLock c) Q s.
Proof.
  intros Hl HN HQ. unfold promoteStandbyWithLock. do 2 wp_step.
  pose proof (find_standby_spec (w_mu s) c (proj1 Hl)) as Hf.
  destruct (find_standby (w_mu s) c) as [idx |].
  2: { wp_step. apply HN. by destruct Hl as (_ & _ & <- & _). }
  destruct Hf as (Hge & Hidx & Hin).
  assert (c ∈ S) as HcS by (by destruct Hl as (_ & _ & <- & _)).
  destruct (lists_split _ _ _ _ Hl) as (a & b & Hr & Hc & Ha & Hb & Hd).
  rewrite Hr in Hidx. rewrite Hc in Hge.
  destruct (drop_swap_boundary a b idx c Hidx Hge) as (b' & Hsw & Hp).
  (* after the optional swap the boundary entry is c *)
  wp_step. apply (wp_mono _ (fun s1 _ => exists b1, c :: b1 ≡ₚ b /\ ready (w_mu s1) = a ++ c :: b1 /\
    activeCount (w_mu s1) = activeCount (w_mu s) /\ dead (w_mu s1) = dead (w_mu s) /\
    same s s1 /\ w_tasks s1 = w_tasks s)).
  { wp_step.
    - unfold swap_ready. wp_step. eapply wp_getsM; [rewrite Hr, Hc; exact Hsw |]. unfold upd_mu. wp_step.
      exists b'. by split_and!.
    - apply negb_false_iff, Z.eqb_eq in H. rewrite Hc in H. subst idx.
      apply index_Some in Hidx as [_ Hidx]. rewrite Nat2Z.id, lookup_app_r, Nat.sub_diag in Hidx by lia.
      destruct b as [| y b]; [done |]. injection Hidx as ->. exists b. by split_and!. }
  intros s1 [] (b1 & Hp1 & Hr1 & Hc1 & Hd1 & Hs1 & Htk1).
  wp_step. apply wp_upd_conn. intros s2 Hcn2 Ht2 Hm2 [Hk2 Hme2] Htk2 _.
  do 3 wp_step. apply wp_upd_conn. intros s3 Hcn3 Ht3 Hm3 [Hk3 Hme3] Htk3 _.
  unfold upd_mu, upd_metrics. do 3 wp_step.
  set (s4 := with_mu _ _).
  assert (lists (A ++ [c]) (remove_one c S) D (w_mu s4)) as Hl4.
  { apply (lists_intro _ _ _ _ (a ++ [c]) b1); unfold s4; cbn; rewrite ?Hm3, ?Hm2.
    - by rewrite Hr1, <- app_assoc.
    - rewrite Hc1, Hc, length_app. cbn. lia.
    - by rewrite Ha.
    - apply Permutation_cons_inv with c. by rewrite Hp1, Hb, <- remove_one_in.
    - by rewrite Hd1. }
  assert (touches c s s4) as Ht4.
  { etrans; [exact (same_touches c s s1 Hs1) |]. etrans; [exact Ht2 |]. etrans; [exact Ht3 |].
    by split. }
  assert (conn_at s4 c = promoted (getWarmupParamsWithLock (w_mu s)) (conn_at s c)) as Hcn4.
  { change (conn_at s4 c) with (conn_at s3 c). rewrite Hcn3, Hcn2, Hm2, (same_conn_at _ _ _ Hs1).
    destruct Hs1 as ([= _ _ E1 E2 _ _ _ _ _ _] & _). unfold getWarmupParamsWithLock. by rewrite E1, E2. }
  assert (w_tasks s4 = w_tasks s) as Htk4 by (cbn; congruence).
  assert (w_counters s4 = w_counters s /\ w_metrics s4 = w_metrics s) as [Hk4 Hme4].
  { destruct Hs1 as (_ & _ & E1 & E2). cbn. split; congruence. }
  clearbody s4. eapply wp_shuffleActive; [exact Hl4 |]. intros s5 Hl5 Hs5 Htk5.
  do 3 wp_step. apply HQ; cbn; try done.
  - etrans; [exact Ht4 |]. exact (same_touches c s4 s5 Hs5).
  - rewrite <- Hcn4. exact (same_conn_at _ _ _ Hs5).
  - destruct Hs5 as (_ & _ & E1 & _). congruence.
  - destruct Hs5 as (_ & _ & _ & E2). by rewrite E2, Hme4.
  - congruence.
Qed.

(** * Overload *)

Definition overload_set : Z := lcStandby ||| lcOverloaded.

Lemma overload_cas c :
  has (conn_lifecycle c) lcStandby = false -> (conn_cas c 0 overload_set lcActive).2 = None.
Proof.
  intros Hs. rewrite conn_cas_err.
  destruct (Z.eqb_spec (cas_next (conn_lifecycle c) overload_set lcActive) (conn_lifecycle c)) as [E | ]; [| done].
  exfalso. rewrite <- E in Hs. revert Hs. autorewrite with lcbits. rewrite testbit_cas_next.
  eval_mask_bits. by autorewrite with bool.
Qed.

Lemma forced_active_lifecycle c :
  conn_lifecycle (forced_active c) = cas_next (conn_lifecycle c) lcActive (lcStandby ||| lcNeedsWarmup).
Proof. unfold forced_active. by rewrite conn_cas_lifecycle by lc_bits_const. Qed.

(** The flags of [c] after a demotion, [back] telling whether the backfill
    put it into the active partition again. *)
Definition overloaded_post (now : Z) (back : bool) (conn : Connection) : Prop :=
  let lc := conn_lifecycle conn in
  has lc lcOverloaded = true /\ has lc lcActive = back /\ has lc lcStandby = negb back /\
  c_overloadedAtNano conn = timeToNano now.

Lemma overloaded_post_intro now (back : bool) (c4 c5 conn : Connection) :
  conn_lifecycle c4 = cas_next (conn_lifecycle conn) overload_set lcActive ->
  c_overloadedAtNano c4 = timeToNano now -> c_failures c4 = c_failures conn ->
  c5 = (if back then forced_active c4 else c4) ->
  overloaded_post now back c5 /\ c_failures c5 = c_failures conn.
Proof.
  intros Hlc Ho Hf ->. unfold overloaded_post. destruct back.
  - rewrite forced_active_lifecycle, Hlc. unfold forced_active.
    split_and!; try (by cas_fields); lc_solve.
  - rewrite Hlc. split_and!; try done; lc_solve.
Qed.

(** The backfill takes the demoted connection only when nobody else waits. *)
Lemma backfill_self (c x : loc) (rest : list loc) (w : Z) :
  1 <= w -> head (removed c rest ++ entries c w) = Some x -> x = c <-> removed c rest = [].
Proof.
  intros Hw Hh. destruct (removed c rest) as [| y l] eqn:E.
  - split; [done |]. intros _. unfold entries in Hh.
    destruct (Z.to_nat w) as [| n] eqn:En; [lia |]. cbn in Hh. congruence.
  - split; [| done]. intros ->. injection Hh as ->. exfalso.
    apply (count_removed c rest). rewrite E. set_solver.
Qed.

(** demoteOverloaded takes the connection out of the active partition,
    flags it, appends its entries at the end of standby, and backfills one
    active slot with the first standby entry; it never panics and counts no
    failure. A connection already unknown or standby is only flagged. When no
    other connection stands by, the backfill takes the demoted connection
    itself: it ends up active again, still flagged as overloaded. *)
Theorem demoteOverloaded_backfills c s A S D :
  lists A S D (w_mu s) ->
  let conn := conn_at s c in
  let lc := conn_lifecycle conn in
  let e := entries c (effectiveWeight conn) in
  let queue := removed c (standby_part (w_mu s)) ++ e in
  (has lc lcUnknown || has lc lcStandby = true ->
   wp (demoteOverloaded c) (fun s' _ => w_mu s' = w_mu s /\ touches c s s' /\
     has (lc_at s' c) lcOverloaded = true /\ c_failures (conn_at s' c) = c_failures conn) s) /\
  (has lc lcUnknown || has lc lcStandby = false ->
   wp (demoteOverloaded c) (fun s' _ => exists x,
     head queue = Some x /\
     lists (removed c A ++ [x]) (remove_one x (removed c S ++ e)) D (w_mu s') /\
     overloaded_post (w_now s) (bool_decide (x = c)) (conn_at s' c) /\
     c_failures (conn_at s' c) = c_failures conn /\
     (x <> c -> conn_at s' x = forced_active (conn_at s x)) /\
     (forall c', c' <> c -> c' <> x -> conn_at s' c' = conn_at s c') /\
     (x = c <-> removed c (standby_part (w_mu s)) = [])) s).
Proof.
  intros Hl. cbv zeta. unfold demoteOverloaded. split; intros Hf; do 4 wp_step; rewrite Hf.
  - apply wp_upd_conn. intros s1 Hc1 Ht1 Hm1 _ _ _. rewrite Hc1. split_and!; [done | done | |].
    + change (has (conn_lifecycle (conn_set_bit (conn_at s c) lcOverloaded)) lcOverloaded = true).
      rewrite conn_set_bit_lifecycle by lc_bits_const. lc_solve.
    + unfold conn_set_bit. by cas_fields.
  - apply orb_false_iff in Hf as [Hu Hs].
    pose proof (overload_cas _ Hs) as He. pose proof (conn_cas_lifecycle (conn_at s c) 0 overload_set lcActive ltac:(lc_bits_const)) as Hlc.
    pose proof (conn_cas_state (conn_at s c) 0 overload_set lcActive) as (w & Hw & _).
    fold overload_set. destruct (conn_cas (conn_at s c) 0 overload_set lcActive) as [conn' err]. cbn in He, Hlc, Hw. subst err.
    wp_step. apply wp_upd_conn. intros s1 Hc1 Ht1 Hm1 _ _ _. rewrite <- Hm1 in Hl.
    wp_step. apply (wp_removeFromReady A S D); [done |]. intros s2 Hl2 Hs2 _ _ Hsp2. rewrite Hm1 in Hsp2.
    assert (conn_at s2 c = storeOverloadedAt conn' (w_now s)) as Hc2 by (by rewrite (same_conn_at _ _ _ Hs2)).
    assert (effectiveWeight (conn_at s2 c) = effectiveWeight (conn_at s c)) as Hwt.
    { apply effectiveWeight_ext. by rewrite Hc2, Hw. }
    wp_step. eapply wp_appendToReadyStandby; [exact Hl2 |].
    intros s3 Hl3 Hs3 _ Hsp3 _. rewrite Hwt in Hl3, Hsp3. unfold upd_metrics. do 3 wp_step.
    set (s4 := with_metrics _ _).
    assert (touches c s s4) as Ht4.
    { etrans; [exact Ht1 |]. etrans; [exact (same_touches c s1 s2 Hs2) |]. exact (same_touches c s2 s3 Hs3). }
    assert (conn_at s4 c = storeOverloadedAt conn' (w_now s)) as Hc4 by (rewrite <- Hc2; exact (same_conn_at _ _ _ Hs3)).
    change (w_mu s3) with (w_mu s4) in Hl3, Hsp3. clearbody s4. rewrite Hsp2 in Hsp3.
    apply (wp_tryStandby _ _ _ s4 _ Hl3).
    + intros HS. apply app_eq_nil in HS as [_ HS]. unfold entries in HS.
      pose proof (effectiveWeight_pos (conn_at s c)). apply (f_equal length) in HS. rewrite length_replicate in HS. cbn in HS. lia.
    + intros x s5 Hx Hin Hl5 Ht5 Hcx _ _ _ _. apply wp_ret. exists x.
      assert (head (standby_part (w_mu s4)) = Some x) as Hh.
      { unfold standby_part. apply index_Some in Hx as [_ Hx]. by rewrite head_lookup, lookup_drop, Nat.add_0_r. }
      rewrite Hsp3 in Hh. split; [done |]. split; [done |].
      pose proof (backfill_self c x _ _ (effectiveWeight_pos (conn_at s c)) Hh) as Hiff.
      assert (overloaded_post (w_now s) (bool_decide (x = c)) (conn_at s5 c) /\
        c_failures (conn_at s5 c) = c_failures (conn_at s c)) as [Hp5 Hf5].
      { apply (overloaded_post_intro _ _ (conn_at s4 c)).
        - change (conn_lifecycle (conn_at s4 c) = cas_next (lc_at s c) overload_set lcActive). rewrite Hc4. exact Hlc.
        - by rewrite Hc4.
        - by rewrite Hc4, Hw.
        - destruct (decide (x = c)) as [-> | Hne].
          + by rewrite bool_decide_true.
          + rewrite bool_decide_false by done. apply (proj2 Ht5). done. }
      split; [exact Hp5 |]. split; [exact Hf5 |]. split; [| split; [| exact Hiff]].
      * intros Hne. rewrite Hcx. by rewrite (proj2 Ht4 x Hne).
      * intros c' H1 H2. by rewrite (proj2 Ht5 c' H2), (proj2 Ht4 c' H1).
Qed.

(** * The active cap *)

Section Partition.
Context (P : loc -> bool) (n : nat).

(** After [i] steps: the first [wc] entries warm, the rest of the first [i] do
    not. *)
Definition partitioned (l : list loc) (i wc : nat) : Prop :=
  (wc <= i)%nat /\
  (forall j x, (j < wc)%nat -> l !! j = Some x -> P x = true) /\
  (forall j x, (wc <= j < i)%nat -> l !! j = Some x -> P x = false).

Lemma partitioned_skip l i wc x :
  partitioned l i wc -> l !! i = Some x -> P x = false -> partitioned l (S i) wc.
Proof.
  intros (H0 & H1 & H2) Hx HP. split_and!; [lia | done |].
  intros j y Hj Hy. destruct (decide (j = i)) as [-> | Hne]; [congruence |]. eapply H2; [| done]. lia.
Qed.

Lemma partitioned_take l i wc x :
  partitioned l i wc -> l !! i = Some x -> P x = true ->
  forall l', (if decide (i = wc) then l' = l else exists y, l !! wc = Some y /\ l' = <[wc := x]> (<[i := y]> l)) ->
  partitioned l' (S i) (S wc).
Proof.
  intros (H0 & H1 & H2) Hx HP l' Hl'. pose proof (lookup_lt_Some _ _ _ Hx) as Hlen.
  destruct (decide (i = wc)) as [-> | Hne].
  - subst l'. split_and!; [lia | |].
    + intros j y Hj Hy. destruct (decide (j = wc)) as [-> |]; [congruence |]. eapply H1; [| done]. lia.
    + intros. lia.
  - destruct Hl' as (y & Hy & ->).
    assert (P y = false) as HPy by (eapply (H2 wc); [lia | done]).
    split_and!; [lia | |].
    + intros j z Hj Hz. destruct (decide (j = wc)) as [-> |].
      * rewrite list_lookup_insert_eq in Hz by (rewrite length_insert; lia). congruence.
      * rewrite !list_lookup_insert_ne in Hz by lia. eapply H1; [| done]. lia.
    + intros j z Hj Hz. rewrite list_lookup_insert_ne in Hz by lia.
      destruct (decide (j = i)) as [-> |].
      * rewrite list_lookup_insert_eq in Hz by lia. congruence.
      * rewrite list_lookup_insert_ne in Hz by lia. eapply H2; [| done]. lia.
Qed.

(** The whole prefix partitioned: its warming and other entries as lists. *)
Lemma partitioned_filter l wc :
  partitioned l n wc -> (n <= length l)%nat ->
  filter (fun x => P x = true) (take n l) = take wc l /\
  filter (fun x => P x = false) (take n l) = drop wc (take n l).
Proof.
  intros (H0 & H1 & H2) Hlen.
  assert (take n l = take wc l ++ drop wc (take n l)) as Hsplit.
  { rewrite <- (take_drop wc (take n l)) at 1. by rewrite take_take, Nat.min_l by lia. }
  assert (forall x, x ∈ take wc l -> P x = true) as Ha.
  { intros x [j Hj]%list_elem_of_lookup. apply lookup_take_Some in Hj as [Hj Hlt]. eapply H1; [| exact Hj]. lia. }
  assert (forall x, x ∈ drop wc (take n l) -> P x = false) as Hb.
  { intros x [j Hj]%list_elem_of_lookup. rewrite lookup_drop in Hj. apply lookup_take_Some in Hj as [Hj Hlt].
    eapply (H2 (wc + j)%nat); [lia | done]. }
  assert (forall (k : list loc) b, (forall x, x ∈ k -> P x = b) -> filter (fun x => P x = b) k = k) as Hall.
  { induction k as [| x k IH]; intros b Hk; [done |]. rewrite filter_cons_True by (apply Hk; set_solver).
    f_equal. apply IH. set_solver. }
  assert (forall (k : list loc) b b', b <> b' -> (forall x, x ∈ k -> P x = b) -> filter (fun x => P x = b') k = []) as Hnone.
  { induction k as [| x k IH]; intros b b' Hbb Hk; [done |]. rewrite filter_cons_False; [eapply IH; [done | set_solver] |].
    rewrite (Hk x) by set_solver. done. }
  set (post := drop wc (take n l)) in *. clearbody post. rewrite Hsplit, !filter_app. split.
  - rewrite (Hall (take wc l) true Ha). rewrite (Hnone post false true); [by rewrite app_nil_r | done | done].
  - rewrite (Hall post false Hb). by rewrite (Hnone (take wc l) true false).
Qed.
End Partition.

Lemma partitioned_ext (P P' : loc -> bool) l i wc :
  (forall z, P z = P' z) -> partitioned P l i wc -> partitioned P' l i wc.
Proof.
  intros HP (H0 & H1 & H2). split_and!; [done | |]; intros j x Hj Hx; rewrite <- HP; [by eapply H1 | by eapply H2].
Qed.

(** The active partition reordered, nothing else touched. *)
Definition reordered (s s' : World) : Prop :=
  pool_bounds (w_mu s') /\ active_part (w_mu s') ≡ₚ active_part (w_mu s) /\
  standby_part (w_mu s') = standby_part (w_mu s) /\
  w_mu s' = mu_ready (w_mu s) (ready (w_mu s')) /\ same s s' /\ w_tasks s' = w_tasks s.

Lemma reordered_refl s : pool_bounds (w_mu s) -> reordered s s.
Proof. intros. split_and!; try done. by destruct (w_mu s). Qed.

Lemma reordered_count s s' : reordered s s' -> activeCount (w_mu s') = activeCount (w_mu s).
Proof. intros (_ & _ & _ & -> & _). done. Qed.

Lemma reordered_trans s1 s2 s3 : reordered s1 s2 -> reordered s2 s3 -> reordered s1 s3.
Proof.
  intros (A1 & A2 & A3 & A4 & A5 & A6) (B1 & B2 & B3 & B4 & B5 & B6).
  split_and!; [done | by rewrite B2 | congruence | | by etrans | congruence].
  rewrite B4, A4. by destruct (w_mu s1).
Qed.

Lemma wp_swap_reorder i j x y s :
  pool_bounds (w_mu s) -> Z.of_nat i < activeCount (w_mu s) -> Z.of_nat j < activeCount (w_mu s) ->
  ready (w_mu s) !! i = Some x -> ready (w_mu s) !! j = Some y ->
  wp (swap_ready (Z.of_nat i) (Z.of_nat j)) (fun s' _ =>
    reordered s s' /\ ready (w_mu s') = <[j := x]> (<[i := y]> (ready (w_mu s)))) s.
Proof.
  intros Hb Hi Hj Hx Hy. unfold pool_bounds in Hb. unfold swap_ready. wp_step.
  destruct (swap_at_below (ready (w_mu s)) (Z.of_nat i) (Z.of_nat j) (Z.to_nat (activeCount (w_mu s)))) as (l & Hl & Ht & Hd); [lia .. |].
  eapply wp_getsM; [exact Hl |]. unfold upd_mu. apply wp_modify.
  assert (l = <[j := x]> (<[i := y]> (ready (w_mu s)))) as El.
  { unfold swap_at in Hl.
    rewrite (proj2 (index_Some (ready (w_mu s)) (Z.of_nat i) x)) in Hl by (rewrite Nat2Z.id; split; [lia | done]).
    rewrite (proj2 (index_Some (ready (w_mu s)) (Z.of_nat j) y)) in Hl by (rewrite Nat2Z.id; split; [lia | done]).
    rewrite !Nat2Z.id in Hl. congruence. }
  split; [| done]. unfold reordered, pool_bounds, active_part, standby_part. cbn.
  rewrite Ht, Hd. split; [| done]. rewrite El, !length_insert. lia.
Qed.

Lemma wp_partition_warming k : forall i wc s,
  pool_bounds (w_mu s) -> (i + k)%nat = Z.to_nat (activeCount (w_mu s)) ->
  partitioned (is_warming s) (ready (w_mu s)) i wc ->
  wp (partition_warming k (Z.of_nat i) (Z.of_nat wc)) (fun s' r => exists wc',
    r = Z.of_nat wc' /\ reordered s s' /\
    partitioned (is_warming s) (ready (w_mu s')) (Z.to_nat (activeCount (w_mu s))) wc') s.
Proof.
  induction k as [| k IH]; intros i wc s Hb Hik Hp; cbn [partition_warming].
  { apply wp_ret. exists wc. rewrite Nat.add_0_r in Hik. rewrite <- Hik.
    split; [done |]. split; [by apply reordered_refl | exact Hp]. }
  pose proof Hb as Hb'. unfold pool_bounds in Hb'.
  destruct (index_lt (ready (w_mu s)) (Z.of_nat i)) as [x Hx]; [lia |].
  wp_step. eapply wp_getsM; [exact Hx |]. do 2 wp_step.
  apply index_Some in Hx as [_ Hx]. rewrite Nat2Z.id in Hx.
  destruct (is_warming s x) eqn:Hw.
  2: { replace (Z.of_nat i + 1) with (Z.of_nat (S i)) by lia. apply IH; [done | lia |].
       by eapply partitioned_skip. }
  wp_step. apply (wp_mono _ (fun s1 _ => reordered s s1 /\
    partitioned (is_warming s) (ready (w_mu s1)) (S i) (S wc))).
  - wp_step.
    + apply negb_true_iff, Z.eqb_neq in H. pose proof Hp as (Hwi & _).
      destruct (lookup_lt_is_Some_2 (ready (w_mu s)) wc) as [y Hy]; [lia |].
      eapply wp_mono; [apply (wp_swap_reorder i wc x y s Hb); [lia | lia | done | done] |].
      intros s1 [] [Hr Er]. split; [done |].
      apply (partitioned_take _ _ _ _ x Hp Hx Hw). rewrite decide_False by lia. by exists y.
    + apply negb_false_iff, Z.eqb_eq in H. split; [by apply reordered_refl |].
      apply (partitioned_take _ _ _ _ x Hp Hx Hw). by rewrite decide_True by lia.
  - intros s1 [] [Hr Hp1].
    assert (forall z, is_warming s1 z = is_warming s z) as Hww.
    { intros z. unfold is_warming. destruct Hr as (_ & _ & _ & _ & Hs & _). by rewrite (same_conn_at _ _ _ Hs). }
    assert (forall l a b, partitioned (is_warming s1) l a b <-> partitioned (is_warming s) l a b) as Hpe.
    { intros l a b. split; apply partitioned_ext; by intros z; rewrite Hww. }
    replace (Z.of_nat i + 1) with (Z.of_nat (S i)) by lia. replace (Z.of_nat wc + 1) with (Z.of_nat (S wc)) by lia.
    eapply wp_mono; [apply (IH (S i) (S wc) s1); [apply Hr | rewrite (reordered_count _ _ Hr); lia | by apply Hpe] |].
    intros s2 r (wc' & -> & Hr2 & Hp2). exists wc'. rewrite (reordered_count _ _ Hr) in Hp2.
    split; [done |]. split; [by eapply reordered_trans | by apply Hpe].
Qed.

Definition cap_set : Z := lcStandby ||| lcNeedsWarmup.

(** What the cap does to a connection it demotes, once or several times. *)
Definition demoted_of (c c' : Connection) : Prop :=
  conn_lifecycle c' = cas_next (conn_lifecycle c) cap_set lcActive /\
  isWarmingUp (c_state c') = false /\ exists w, c' = set_state c w.

Lemma cap_idem lc : cas_next (cas_next lc cap_set lcActive) cap_set lcActive = cas_next lc cap_set lcActive.
Proof.
  apply Z.bits_inj'. intros i Hi. rewrite !testbit_cas_next.
  destruct (Z.testbit lc i), (Z.testbit cap_set i), (Z.testbit lcActive i); done.
Qed.

Lemma demote_capped_demoted c : demoted_of c (demote_capped c).
Proof.
  unfold demoted_of, demote_capped. fold cap_set. split_and!.
  - change (lifecycle (clearWarmup (c_state (conn_cas c 0 cap_set lcActive).1)) =
      cas_next (conn_lifecycle c) cap_set lcActive).
    rewrite clearWarmup_lifecycle. apply conn_cas_lifecycle. lc_bits_const.
  - apply clearWarmup_not_warming.
  - destruct (conn_cas_state c 0 cap_set lcActive) as (w & -> & _). by eexists.
Qed.

Lemma demoted_of_again c c' : demoted_of c c' -> demoted_of c (demote_capped c').
Proof.
  intros (H1 & H2 & w & H3). destruct (demote_capped_demoted c') as (G1 & G2 & w' & G3).
  split_and!; [| done | exists w'; by rewrite G3, H3].
  by rewrite G1, H1, cap_idem.
Qed.

(** What happened to the connections of a list and to the others. *)
Definition demoted_conns (o : list loc) (s s' : World) : Prop :=
  (forall c, c ∈ o -> demoted_of (conn_at s c) (conn_at s' c)) /\
  (forall c, c ∉ o -> conn_at s' c = conn_at s c).

Lemma take_S_drop {A} (l : list A) i k x :
  l !! i = Some x -> take (S k) (drop i l) = x :: take k (drop (S i) l).
Proof. intros H. by rewrite (drop_S l x i H). Qed.

Lemma wp_demote_overflow k : forall i s,
  (i + k <= length (ready (w_mu s)))%nat ->
  wp (demote_overflow k (Z.of_nat i)) (fun s' _ =>
    w_mu s' = w_mu s /\ conf s' = conf s /\ same_stats s s' /\ w_tasks s' = w_tasks s /\
    demoted_conns (take k (drop i (ready (w_mu s)))) s s') s.
Proof.
  induction k as [| k IH]; intros i s Hlen; cbn [demote_overflow].
  { apply wp_ret. split; [done |]. split; [done |]. split; [done |]. split; [done |]. split; [set_solver | done]. }
  destruct (lookup_lt_is_Some_2 (ready (w_mu s)) i) as [x Hx]; [lia |].
  wp_step. eapply wp_getsM; [apply index_Some; rewrite Nat2Z.id; split; [lia | exact Hx] |].
  wp_step. apply wp_upd_conn. intros s1 Hc1 Ht1 Hm1 Hst1 Htk1 _.
  replace (Z.of_nat i + 1) with (Z.of_nat (S i)) by lia.
  eapply wp_mono; [apply (IH (S i) s1); rewrite Hm1; lia |].
  intros s2 [] (Hm2 & Hcf2 & [Hk2 Hme2] & Htk2 & Hd2 & Hn2). rewrite Hm1 in Hm2, Hd2, Hn2.
  destruct Ht1 as [Hcf1 Hne1], Hst1 as [Hk1 Hme1].
  split; [done |]. split; [congruence |]. split; [split; congruence |]. split; [congruence |].
  rewrite (take_S_drop _ _ _ x Hx). split.
  - intros c Hc. destruct (decide (c ∈ take k (drop (S i) (ready (w_mu s))))) as [Hin | Hnin].
    + specialize (Hd2 c Hin). destruct (decide (c = x)) as [-> | Hne].
      * rewrite Hc1 in Hd2. destruct Hd2 as (G1 & G2 & w & G3).
        destruct (demote_capped_demoted (conn_at s x)) as (F1 & F2 & w' & F3).
        split_and!; [by rewrite G1, F1, cap_idem | done | exists w; by rewrite G3, F3].
      * by rewrite (Hne1 c Hne) in Hd2.
    + rewrite (Hn2 c Hnin). apply elem_of_cons in Hc as [-> | Hc]; [| done].
      rewrite Hc1. apply demote_capped_demoted.
  - intros c Hc. rewrite not_elem_of_cons in Hc. destruct Hc as [Hne Hnin].
    by rewrite (Hn2 c Hnin), (Hne1 c Hne).
Qed.

(** Warming and warmed entries of the active partition. *)
Definition warm (s : World) (l : list loc) : list loc := filter (fun c => is_warming s c = true) l.
Definition warmed (s : World) (l : list loc) : list loc := filter (fun c => is_warming s c = false) l.

Lemma wp_enforceActiveCap s A S D :
  lists A S D (w_mu s) ->
  let cap := activeListCap (w_mu s) in
  (cap <= 0 \/ Z.of_nat (length (warmed s A)) <= cap -> enforceActiveCapWithLock s = Some (s, tt)) /\
  (0 < cap < Z.of_nat (length (warmed s A)) ->
   wp enforceActiveCapWithLock (fun s' _ => exists K O,
     warmed s A ≡ₚ K ++ O /\ Z.of_nat (length K) = cap /\
     lists (warm s A ++ K) (S ++ O) D (w_mu s') /\
     conf s' = conf s /\ demoted_conns O s s' /\ w_tasks s' = w_tasks s) s).
Proof.
  intros Hl. cbv zeta. pose proof (lists_count _ _ _ _ Hl) as [HcA HrA].
  pose proof Hl as (Hb & HA & HS & HD).
  assert (length (filter (fun c => is_warming s c = false) (active_part (w_mu s))) = length (warmed s A)) as Hwl.
  { unfold warmed. by rewrite HA. }
  assert ((activeCount (w_mu s) <=? Z.of_nat (length (ready (w_mu s)))) = true) as Hle by (apply Z.leb_le; apply Hb).
  assert (length (warmed s A) <= length A)%nat as Hwa by apply length_filter.
  unfold enforceActiveCapWithLock. split.
  - intros Hcap. unfold bind, gets, getsM.
    destruct (_ || _) eqn:E; [done |]. apply orb_false_iff in E as [E1%Z.leb_gt E2%Z.leb_gt].
    rewrite Hle. fold (active_part (w_mu s)). rewrite Hwl.
    destruct (Z.leb_spec (Z.of_nat (length (warmed s A))) (activeListCap (w_mu s))); [done | lia].
  - intros [Hcap0 Hcap]. do 2 wp_step. rewrite (proj2 (Z.leb_gt _ _) Hcap0), (proj2 (Z.leb_gt _ _)) by lia. cbn [orb].
    wp_step. eapply wp_getsM; [by rewrite Hle |]. fold (active_part (w_mu s)). rewrite Hwl.
    rewrite (proj2 (Z.leb_gt _ _) Hcap). wp_step.
    eapply wp_mono; [apply (wp_partition_warming _ 0 0 s Hb); [done |]; split_and!; [done | intros; lia | intros; lia] |].
    intros s1 r (wc & -> & Hr & Hp).
    assert (lists A S D (w_mu s1)) as Hl1.
    { pose proof Hr as (B1 & B2 & B3 & B4 & _). split_and!; [done | by rewrite B2 | by rewrite B3 | by rewrite B4]. }
    pose proof (reordered_count _ _ Hr) as Hc1.
    destruct Hr as (Hb1 & Ha1 & Hs1 & Hm1 & Hsame1 & Htk1).
    destruct (partitioned_filter _ _ _ _ Hp) as [Hw Hn]; [unfold pool_bounds in Hb1; lia |].
    rewrite <- Hc1 in Hw, Hn. fold (active_part (w_mu s1)) in Hw, Hn.
    assert (warm s A ≡ₚ take wc (ready (w_mu s1))) as HW.
    { rewrite <- Hw. unfold warm. by rewrite Ha1, HA. }
    assert (warmed s A ≡ₚ drop wc (active_part (w_mu s1))) as HN.
    { rewrite <- Hn. unfold warmed. by rewrite Ha1, HA. }
    assert (Z.of_nat (length A) = Z.of_nat wc + Z.of_nat (length (warmed s A)) /\ (wc <= length A)%nat) as [Hlen Hwc].
    { destruct Hp as [Hwc _]. rewrite HcA in Hwc. rewrite HN, length_drop.
      assert (length (active_part (w_mu s1)) = length A) as -> by (by rewrite Ha1, HA). lia. }
    set (cap := activeListCap (w_mu s)) in *.
    wp_step. replace (Z.of_nat wc + cap) with (Z.of_nat (wc + Z.to_nat cap)) by lia.
    set (n1 := (wc + Z.to_nat cap)%nat) in *. set (k := Z.to_nat (activeCount (w_mu s) - Z.of_nat n1)).
    assert (n1 + k = length A)%nat as Hn1 by lia.
    pose proof (proj2 (lists_count _ _ _ _ Hl1)) as Hr1.
    eapply wp_mono; [apply (wp_demote_overflow k n1 s1); lia |].
    intros s2 [] (Hm2 & Hcf2 & Hst2 & Htk2 & Hd2).
    (* the ready list of s1 in four pieces *)
    assert (active_part (w_mu s1) = take n1 (ready (w_mu s1)) ++ take k (drop n1 (ready (w_mu s1)))) as Hact.
    { unfold active_part. rewrite Hc1, HcA, Nat2Z.id, <- Hn1. by rewrite take_take_drop. }
    set (K := drop wc (take n1 (ready (w_mu s1)))). set (O := take k (drop n1 (ready (w_mu s1)))) in *.
    assert (take n1 (ready (w_mu s1)) = take wc (ready (w_mu s1)) ++ K) as Hk.
    { unfold K. rewrite <- (take_drop wc (take n1 (ready (w_mu s1)))) at 1. by rewrite take_take, Nat.min_l by lia. }
    assert (length (take n1 (ready (w_mu s1))) = n1) as Hln1 by (rewrite length_take; lia).
    assert (length (take wc (ready (w_mu s1))) = wc) as Hlwc by (rewrite length_take; lia).
    unfold upd_mu. do 3 wp_step.
    assert (lists (warm s A ++ K) (S ++ O) D (w_mu (with_mu s2 (mu_activeCount (w_mu s2) (Z.of_nat n1))))) as Hl3.
    { apply (lists_intro _ _ _ _ (take n1 (ready (w_mu s1))) (O ++ standby_part (w_mu s1))); cbn; rewrite ?Hm2.
      - rewrite app_assoc, <- Hact. apply ready_parts.
      - by rewrite Hln1.
      - by rewrite Hk, <- HW.
      - rewrite Hs1, HS. apply Permutation_app_comm.
      - by destruct Hl1 as (_ & _ & _ & ->). }
    eapply wp_shuffleActive; [exact Hl3 |]. intros s4 Hl4 Hs4 Htk4. unfold upd_metrics. wp_step.
    exists K, O. split; [| split; [| split; [| split; [| split]]]].
    + rewrite HN, Hact, Hk, <- app_assoc, drop_app_length' by done. done.
    + apply (f_equal length) in Hk. rewrite length_app, Hln1, Hlwc in Hk. lia.
    + exact Hl4.
    + change (conf s4 = conf s). rewrite (proj1 Hs4). change (conf (with_mu s2 _)) with (conf s2).
      rewrite Hcf2. apply Hsame1.
    + destruct Hd2 as [D1 D2]. split; intros c Hc.
      * change (demoted_of (conn_at s c) (conn_at s4 c)). rewrite (same_conn_at _ _ c Hs4).
        rewrite <- (same_conn_at _ _ c Hsame1). by apply D1.
      * change (conn_at s4 c = conn_at s c). rewrite (same_conn_at _ _ c Hs4).
        rewrite <- (same_conn_at _ _ c Hsame1). by apply D2.
    + cbn. rewrite Htk4. cbn. congruence.
Qed.

(** enforceActiveCapWithLock trims the warmed connections to the cap and
    nothing else. It does nothing unless a cap is set and more warmed entries
    than the cap are active. Otherwise it never panics, keeps every warming
    entry active, keeps exactly cap warmed entries, moves the other warmed
    entries O to standby, and gives exactly the connections of O the standby
    and needs-warmup bits without active, with their warmup cleared; no entry
    is lost and no other connection changes. *)
Theorem enforceActiveCap_trims s A S D :
  lists A S D (w_mu s) ->
  let cap := activeListCap (w_mu s) in
  (cap <= 0 \/ Z.of_nat (length (warmed s A)) <= cap -> enforceActiveCapWithLock s = Some (s, tt)) /\
  (0 < cap < Z.of_nat (length (warmed s A)) ->
   wp enforceActiveCapWithLock (fun s' _ => exists K O,
     warmed s A ≡ₚ K ++ O /\ Z.of_nat (length K) = cap /\
     lists (warm s A ++ K) (S ++ O) D (w_mu s') /\
     conf s' = conf s /\ demoted_conns O s s' /\ w_tasks s' = w_tasks s) s).
Proof. apply wp_enforceActiveCap. Qed.

(** * Concrete runs *)

(** Node 0 alone in the pool of [ex_world]'s heap. *)
Definition ex_world_alone : World :=
  with_mu ex_world (MkPoolMu [0]%nat [] 1 (list_to_set [0]%nat) 3 8 16 true).

Lemma ex_world_alone_lists : lists [0]%nat [] [] (w_mu ex_world_alone).
Proof. split; [vm_compute; split; congruence | by split_and!]. Qed.

Lemma demoteOverloaded_backfills_witness :
  lists_after (demoteOverloaded 1%nat ex_world) = Some ([0; 2; 1; 1]%nat, 2, [4; 3]%nat) /\
  lists_after (demoteOverloaded 0%nat ex_world_alone) = Some ([0]%nat, 1, []) /\
  wp (demoteOverloaded 0%nat) (fun s' _ => exists x,
     head [0%nat] = Some x /\
     lists ([] ++ [x]) (remove_one x [0]%nat) [] (w_mu s') /\
     overloaded_post (w_now ex_world_alone) (bool_decide (x = 0%nat)) (conn_at s' 0%nat) /\
     c_failures (conn_at s' 0%nat) = c_failures (conn_at ex_world_alone 0%nat) /\
     (x <> 0%nat -> conn_at s' x = forced_active (conn_at ex_world_alone x)) /\
     (forall c', c' <> 0%nat -> c' <> x -> conn_at s' c' = conn_at ex_world_alone c') /\
     (x = 0%nat <-> removed 0%nat (standby_part (w_mu ex_world_alone)) = [])) ex_world_alone.
Proof.
  split; [vm_compute; reflexivity |]. split; [vm_compute; reflexivity |].
  refine (proj2 (demoteOverloaded_backfills 0%nat ex_world_alone _ _ _ ex_world_alone_lists) _).
  vm_compute. reflexivity.
Defined.

(** Three active nodes under a cap of 1, the middle one warming up. *)
Definition ex_world_capped : World :=
  MkWorld (<[1%nat := conn_startWarmup (ex_node "http://n1:9200" (lcActive ||| lcNeedsWarmup ||| lcViable) 1 0 0) 8 16]>
             (<[2%nat := ex_node "http://n2:9200" (lcReady ||| lcActive ||| lcViable) 1 0 0]> ex_pool_heap))
    (MkPoolMu [0; 1; 2]%nat [] 3 (list_to_set [0; 1; 2]%nat) 1 8 16 true)
    None 0 None 3 (MkCounters 0 0 0 0 0) None 100 [3; 1; 4] [].

Lemma ex_world_capped_lists : lists [0; 1; 2]%nat [] [] (w_mu ex_world_capped).
Proof. split; [vm_compute; split; congruence | by split_and!]. Qed.

Lemma enforceActiveCap_trims_witness :
  lists_after (enforceActiveCapWithLock ex_world_capped) = Some ([1; 0; 2]%nat, 2, []) /\
  warmed ex_world_capped [0; 1; 2]%nat = [0; 2]%nat /\
  wp enforceActiveCapWithLock (fun s' _ => exists K O,
     warmed ex_world_capped [0; 1; 2]%nat ≡ₚ K ++ O /\
     Z.of_nat (length K) = activeListCap (w_mu ex_world_capped) /\
     lists (warm ex_world_capped [0; 1; 2]%nat ++ K) ([] ++ O) [] (w_mu s') /\
     conf s' = conf ex_world_capped /\ demoted_conns O ex_world_capped s' /\
     w_tasks s' = w_tasks ex_world_capped) ex_world_capped.
Proof.
  split; [vm_compute; reflexivity |]. split; [vm_compute; reflexivity |].
  refine (proj2 (enforceActiveCap_trims ex_world_capped _ _ _ ex_world_capped_lists) _).
  vm_compute. split; reflexivity.
Defined.
