(* ===== verification/PoolNext.v ===== *)
(** Next: what it may return, that it never panics or loses a connection, that
    it always serves while the active connections are usable, and that it
    deals the requests out evenly. *)

From Stdlib Require Import ZArith Lia.
From stdpp Require Import base gmap list strings sorting.
From S2P Require Import Prelude.
From S2P Require Import Lifecycle.
From S2P Require Import Warmup.
From S2P Require Import Rtt.
From S2P Require Import Congestion.
From S2P Require Import Conn.
From S2P Require Import Pool.
From S2P Require Import PoolResurrect.
From S2P Require Import PoolStandby.
From S2P Require Import PoolSelect.
From S2P Require Import PoolLists.
From S2P Require Import PoolReport.
From S2P Require Import PoolCap.

Open Scope list_scope.
Open Scope Z_scope.

(** * What every operation preserves *)

(** All the connections a pool holds. *)
Definition held (m : PoolMu) : list loc := ready m ++ dead m.

(** The fields of a connection that no pool operation writes. *)
Definition conn_id (c : Connection) :=
  (c_URLString c, c_Name c, c_Roles c, c_weight c, c_allocatedProcessors c, c_seed c, c_ID c).

(** One pool operation: the boundary stays inside the ready list, the same
    connections are held, and their identity is unchanged. *)
Record evolves (s s' : World) : Prop := {
  ev_bounds : pool_bounds (w_mu s');
  ev_held : forall c, c ∈ held (w_mu s') <-> c ∈ held (w_mu s);
  ev_ids : forall c, conn_id (conn_at s' c) = conn_id (conn_at s c) }.

Lemma evolves_refl s : pool_bounds (w_mu s) -> evolves s s.
Proof. by split. Qed.

Lemma evolves_trans s1 s2 s3 : evolves s1 s2 -> evolves s2 s3 -> evolves s1 s3.
Proof.
  intros [_ H1 I1] [B2 H2 I2]. split; [done | |]; intros c; [by rewrite H2, H1 | by rewrite I2, I1].
Qed.

Lemma lists_held A S D m x : lists A S D m -> x ∈ held m <-> x ∈ A \/ x ∈ S \/ x ∈ D.
Proof.
  intros H. unfold held. rewrite elem_of_app, (lists_ready _ _ _ _ H), elem_of_app.
  destruct H as (_ & _ & _ & ->). tauto.
Qed.

Lemma evolves_same s s' A S D :
  lists A S D (w_mu s) -> lists A S D (w_mu s') -> same s s' -> evolves s s'.
Proof.
  intros H H' Hs. split; [apply H' | |]; intros c.
  - by rewrite (lists_held _ _ _ _ _ H), (lists_held _ _ _ _ _ H').
  - by rewrite (same_conn_at _ _ _ Hs).
Qed.

(** Only the connection [c] is written, and it keeps its identity. *)
Lemma evolves_touches s s' A S D A' S' D' c :
  lists A S D (w_mu s) -> lists A' S' D' (w_mu s') -> touches c s s' ->
  conn_id (conn_at s' c) = conn_id (conn_at s c) ->
  (forall x, x ∈ A' \/ x ∈ S' \/ x ∈ D' <-> x ∈ A \/ x ∈ S \/ x ∈ D) ->
  evolves s s'.
Proof.
  intros H H' [_ Ht] Hid Hx. split; [apply H' | |]; intros x.
  - by rewrite (lists_held _ _ _ _ _ H), (lists_held _ _ _ _ _ H').
  - destruct (decide (x = c)) as [-> | Hne]; [done |]. by rewrite Ht.
Qed.

Lemma cas_id c conflict set clr : conn_id (conn_cas c conflict set clr).1 = conn_id c.
Proof. by destruct (conn_cas_state c conflict set clr) as (w & -> & _). Qed.

Lemma dead_invariant_id now c : conn_id (dead_invariant now c) = conn_id c.
Proof.
  unfold dead_invariant, conn_set_bit. cbv zeta.
  destruct (deadSinceIsZero c); case_match; rewrite ?cas_id; done.
Qed.

Lemma serves_traffic_id c c' : conn_id c' = conn_id c -> serves_traffic c' = serves_traffic c.
Proof. unfold serves_traffic. by intros [= _ _ -> _ _ ->]. Qed.

(** * Selecting an active entry *)

(** What a selector promises: with [S n] calls left in its budget it picks an
    active entry or reports an error, and has [n] calls left. *)
Class PoolSelectorLaws `{sel : PoolSelector} := {
  sel_budget : nat -> Z -> Prop;
  sel_budget_S n st : sel_budget (S n) st -> sel_budget n st;
  sel_law n st ready ac :
    sel_budget (S n) st -> 0 < ac <= Z.of_nat (length ready) ->
    exists st' res, selectNext st ready ac = Some (st', res) /\ sel_budget n st' /\
      match res with None => True | Some (c, _, _) => c ∈ take (Z.to_nat ac) ready end }.

Lemma counter_index (counter ac : Z) {A} (l : list A) :
  0 <= counter -> counter + 1 < 2 ^ 63 -> 0 < ac <= Z.of_nat (length l) ->
  wrap64 (counter + 1) = counter + 1 /\
  index l (Z.rem (wrap64 (counter + 1 - 1)) ac) = l !! Z.to_nat (counter mod ac) /\
  0 <= counter mod ac < ac.
Proof.
  intros H0 H1 Ha. rewrite !wrap64_id by (unfold int64_range; lia).
  replace (counter + 1 - 1) with counter by lia. rewrite Z.rem_mod_nonneg by lia.
  pose proof (Z.mod_pos_bound counter ac ltac:(lia)). split_and!; [done | | lia | lia].
  unfold index. by destruct (Z.ltb_spec (counter mod ac) 0); [lia |].
Qed.

Lemma lookup_take_elem (l : list loc) i n : (i < n)%nat -> (n <= length l)%nat ->
  exists c, l !! i = Some c /\ c ∈ take n l.
Proof.
  intros Hi Hn. destruct (lookup_lt_is_Some_2 l i) as [c Hc]; [lia |]. exists c. split; [done |].
  apply list_elem_of_lookup. exists i. by rewrite lookup_take_lt.
Qed.

#[export] Instance poolRoundRobin_laws : PoolSelectorLaws (sel := poolRoundRobin).
Proof.
  refine {| sel_budget n st := 0 <= st /\ st + Z.of_nat n < 2 ^ 63 |}; [lia |].
  intros n st ready ac [H0 H1] Ha.
  destruct (counter_index st ac ready H0 ltac:(lia) Ha) as (Hw & Hi & Hb).
  destruct (lookup_take_elem ready (Z.to_nat (st mod ac)) (Z.to_nat ac)) as (c & Hc & Hin); [lia | lia |].
  exists (st + 1), (Some (c, capRemain, capRemain)).
  unfold selectNext, poolRoundRobin, poolRoundRobin_selectNext. rewrite Hw.
  destruct (Z.eqb_spec ac 0); [lia |]. rewrite Hi, Hc. split_and!; [done | lia | lia | done].
Defined.

Section Laws.
Context `{laws : PoolSelectorLaws}.

(** Calls the pool's selector or its own counter can still serve: the int64
    counters do not wrap within [n] more. *)
Definition next_budget (n : nat) (s : World) : Prop :=
  match w_selector s with
  | Some st => sel_budget n st
  | None => 0 <= w_nextReady s /\ w_nextReady s + Z.of_nat n < 2 ^ 63
  end.

(** Selecting changes the counters and may start a goroutine. *)
Definition selected (s s' : World) : Prop :=
  w_mu s' = w_mu s /\ w_heap s' = w_heap s /\ w_rng s' = w_rng s /\ w_now s' = w_now s.

Lemma wp_getNext n s (Q : World -> option loc * bool -> Prop) :
  pool_bounds (w_mu s) -> 0 < activeCount (w_mu s) -> next_budget (S n) s ->
  (forall s' r, selected s s' -> next_budget n s' ->
     match r.1 with
     | None => exists st st', selectNext st (ready (w_mu s)) (activeCount (w_mu s)) = Some (st', None)
     | Some c => c ∈ active_part (w_mu s) end -> Q s' r) ->
  wp getNextActiveConnWithLock Q s.
Proof.
  intros Hb Hpos Hbud HQ. unfold pool_bounds in Hb. unfold getNextActiveConnWithLock.
  do 2 wp_step. unfold next_budget in Hbud. destruct (w_selector s) as [st |] eqn:Hsel.
  - destruct (sel_law n st (ready (w_mu s)) (activeCount (w_mu s)) Hbud ltac:(lia)) as (st' & res & E & Hb' & Hin).
    wp_step. eapply wp_getsM; [exact E |]. cbv beta iota. do 2 wp_step.
    destruct res as [[[c cap] sc] |].
    + destruct (cap =? capGrow).
      * unfold spawn. do 3 wp_step. by apply HQ.
      * destruct (cap =? capShrink); wp_step; by apply HQ.
    + wp_step. apply HQ; [done | done |]. by exists st, st'.
  - destruct Hbud as [H0 H1].
    destruct (counter_index (w_nextReady s) (activeCount (w_mu s)) (ready (w_mu s)) H0 ltac:(lia) ltac:(lia)) as (Hw & Hi & Hm).
    destruct (lookup_take_elem (ready (w_mu s)) (Z.to_nat (w_nextReady s mod activeCount (w_mu s)))
      (Z.to_nat (activeCount (w_mu s)))) as (c & Hc & Hin); [lia | lia |].
    do 3 wp_step. eapply wp_getsM.
    { cbn. destruct (Z.eqb_spec (activeCount (w_mu s)) 0); [lia |]. rewrite Hw, Hi. exact Hc. }
    wp_step. apply HQ; [done | | done]. unfold next_budget. cbn. rewrite Hsel, Hw. lia.
Qed.

Lemma next_budget_conf n s s' : conf s' = conf s -> next_budget n s -> next_budget n s'.
Proof. intros [= _ _ _ _ _ E1 E2 _ _ _]. unfold next_budget. by rewrite E1, E2. Qed.

Lemma next_budget_S n s : next_budget (S n) s -> next_budget n s.
Proof. unfold next_budget. destruct (w_selector s); [apply sel_budget_S | lia]. Qed.

Lemma next_budget_le n m s : (m <= n)%nat -> next_budget n s -> next_budget m s.
Proof. induction 1 as [| n _ IH]; [done |]. intros H. by apply IH, next_budget_S. Qed.

(** ** The fallbacks *)

(** What a returned connection is: held by the pool, allowed to serve, and
    either positioned or a dead connection available for routing. *)
Definition served (s s' : World) (c : loc) : Prop :=
  c ∈ held (w_mu s) /\ serves_traffic (conn_at s' c) = true /\
  (has_position (conn_at s' c) = true \/
   (c ∈ dead (w_mu s') /\ availableForRouting (conn_at s' c) = true)).

Definition next_ok (s s' : World) (r : option loc) : Prop :=
  evolves s s' /\ match r with Some c => served s s' c | None => True end.

Lemma next_ok_trans s1 s2 s3 r : evolves s1 s2 -> next_ok s2 s3 r -> next_ok s1 s3 r.
Proof.
  intros H12 [H23 Hr]. split; [by eapply evolves_trans |].
  destruct r as [c |]; [| done]. destruct Hr as [Hh Hr]. split; [by apply H12 | done].
Qed.

(** Writes to the statistics only. *)
Lemma next_ok_counters s s' r k : next_ok s s' r -> next_ok s (with_counters s' k) r.
Proof. intros [[B H I] Hr]. split; [by split | exact Hr]. Qed.

Lemma wp_evict c s (Q : World -> unit -> Prop) :
  pool_bounds (w_mu s) -> c ∈ ready (w_mu s) ->
  (forall s', evolves s s' -> conf s' = conf s ->
     (activeCount (w_mu s') <= activeCount (w_mu s)) -> Q s' tt) ->
  wp (evictExternallyDemotedWithLock c) Q s.
Proof.
  intros Hb Hin HQ. unfold evictExternallyDemotedWithLock, upd_metrics.
  pose proof (lists_self _ Hb) as Hl.
  wp_step. eapply wp_removeFromReady; [exact Hl |]. intros s1 Hl1 Hs1 _ _ _.
  wp_step. eapply wp_appendToDead; [exact Hl1 |]. intros s2 Hl2 Ht2 _ Hc2 _ _ _ _. wp_step.
  assert (touches c s s2) as Ht by (etrans; [exact (same_touches c s s1 Hs1) | exact Ht2]).
  apply HQ; [| apply Ht |].
  - assert (evolves s s2) as Hev; [| by destruct Hev].
    apply (evolves_touches _ _ _ _ _ _ _ _ c Hl Hl2 Ht).
    + by rewrite Hc2, dead_invariant_id, (same_conn_at _ _ _ Hs1).
    + intros x. rewrite elem_of_app, list_elem_of_singleton, !list_elem_of_filter.
      assert (c ∈ active_part (w_mu s) \/ c ∈ standby_part (w_mu s)) by (rewrite <- elem_of_app, <- ready_parts; done).
      destruct (decide (x = c)) as [-> |]; naive_solver.
  - change (activeCount (w_mu s2) <= activeCount (w_mu s)).
    rewrite (proj1 (lists_count _ _ _ _ Hl2)), (proj1 (lists_count _ _ _ _ Hl)).
    pose proof (length_filter (fun x => x <> c) (active_part (w_mu s))). lia.
Qed.

Lemma elem_of_remove_one c x l : x ∈ l -> x = c \/ x ∈ remove_one c l.
Proof.
  intros Hx. destruct (decide (c ∈ l)) as [Hc | Hc].
  - rewrite (remove_one_in c l Hc) in Hx. by apply elem_of_cons in Hx.
  - right. by rewrite remove_one_notin.
Qed.

Lemma remove_one_subseteq c x l : x ∈ remove_one c l -> x ∈ l.
Proof.
  intros Hx. destruct (decide (c ∈ l)) as [Hc | Hc].
  - rewrite (remove_one_in c l Hc). set_solver.
  - by rewrite remove_one_notin in Hx.
Qed.

(** Moving one entry from standby to active. *)
Lemma promote_held (c : loc) (A S D : list loc) (x : loc) :
  c ∈ S -> x ∈ A ++ [c] \/ x ∈ remove_one c S \/ x ∈ D <-> x ∈ A \/ x ∈ S \/ x ∈ D.
Proof.
  intros Hc. rewrite elem_of_app, list_elem_of_singleton. split.
  - intros [[H | ->] | [H%remove_one_subseteq | H]]; auto.
  - intros [H | [H%(elem_of_remove_one c) | H]]; naive_solver.
Qed.

Lemma forced_active_position c : has_position (forced_active c) = true.
Proof.
  unfold has_position, hasAny. rewrite forced_active_lifecycle.
  apply negb_true_iff, Z.eqb_neq. intros H. apply (f_equal (fun z => Z.testbit z 2)) in H. revert H.
  rewrite Z.land_spec, Z.lor_spec, testbit_cas_next. eval_mask_bits. by autorewrite with bool.
Qed.

Lemma wp_tryStandby_ok s (Q : World -> option loc -> Prop) :
  pool_bounds (w_mu s) ->
  (forall s' r, evolves s s' -> conf s' = conf s ->
     match r with Some c => c ∈ ready (w_mu s) /\ has_position (conn_at s' c) = true | None => s' = s end ->
     Q s' r) ->
  wp tryStandbyWithLock Q s.
Proof.
  intros Hb HQ. pose proof (lists_self _ Hb) as Hl. eapply wp_tryStandby; [exact Hl | |].
  - intros _. by apply HQ; [apply evolves_refl | |].
  - intros c s' _ Hin Hl' Ht Hc _ _ _ _. apply HQ; [| apply Ht |].
    + apply (evolves_touches _ _ _ _ _ _ _ _ c Hl Hl' Ht); [by rewrite Hc; apply cas_id |].
      intros x. by apply promote_held.
    + split; [rewrite (ready_parts (w_mu s)); set_solver |]. rewrite Hc. apply forced_active_position.
Qed.

(** The zombie rotation: the dead list is rotated up to and including the
    first available connection. *)
Lemma wp_tryZombie_loop n s (Q : World -> option loc -> Prop) :
  (n <= length (dead (w_mu s)))%nat ->
  (forall s' d1 d2, dead (w_mu s) = d1 ++ d2 -> dead (w_mu s') = d2 ++ d1 ->
     w_mu s' = mu_dead (w_mu s) (d2 ++ d1) -> w_heap s' = w_heap s -> conf s' = conf s ->
     w_counters s' = w_counters s -> w_tasks s' = w_tasks s ->
     forall r, match r with
       | Some c => exists d0, d1 = d0 ++ [c] /\ availableForRouting (conn_at s c) = true /\
           (forall x, x ∈ d0 -> availableForRouting (conn_at s x) = false)
       | None => length d1 = n /\ (forall x, x ∈ d1 -> availableForRouting (conn_at s x) = false)
       end -> Q s' r) ->
  wp (tryZombie_loop n) Q s.
Proof.
  revert s Q. induction n as [| n IH]; intros s Q Hn HQ; cbn [tryZombie_loop].
  { apply wp_ret. apply (HQ s [] (dead (w_mu s))); rewrite ?app_nil_r; try done; [by destruct (w_mu s) |].
    split; [done | set_solver]. }
  destruct (dead (w_mu s)) as [| c d] eqn:Hd; [cbn in Hn; lia |].
  wp_step. eapply wp_getsM; [by rewrite Hd |]. unfold upd_mu, upd_metrics. do 4 wp_step. cbn [dead mu_dead w_mu with_mu].
  set (s1 := with_mu _ _).
  assert (forall x, conn_at s1 x = conn_at s x) as Hc by done.
  destruct (availableForRouting (conn_at s1 c)) eqn:Ha.
  - do 3 wp_step. apply (HQ _ [c] d); cbn; rewrite ?Hd; try done.
    exists []. split_and!; [done | by rewrite <- Hc | set_solver].
  - apply IH; [unfold s1; cbn; rewrite Hd, length_app; cbn in *; lia |].
    intros s' d1 d2 Hd12 Hd' Hmu Hh Hcf Hk Ht r Hr.
    unfold s1 in Hd12, Hmu. cbn in Hd12, Hmu. rewrite Hd in Hd12. cbn in Hd12.
    destruct (decide (d2 = [])) as [-> | Hne].
    + rewrite app_nil_r in Hd12. subst d1. cbn [app] in Hd', Hmu.
      (* the rotation went all the way round *)
      exfalso. clear - Hr Hn Ha. destruct r as [x |].
      * destruct Hr as (d0 & E & Hx & _). apply app_inj_tail in E as [_ ->]. congruence.
      * destruct Hr as [E _]. rewrite length_app in E. cbn in *. lia.
    + assert (exists d2', d2 = d2' ++ [c] /\ d = d1 ++ d2') as (d2' & -> & ->).
      { destruct (exists_last Hne) as (d2' & y & ->). rewrite app_assoc in Hd12.
        apply app_inj_tail in Hd12 as [-> <-]. by exists d2'. }
      apply (HQ s' (c :: d1) d2'); try done.
      * by rewrite Hd', <- app_assoc.
      * by rewrite Hmu, <- app_assoc.
      * destruct r as [x |].
        -- destruct Hr as (d0 & -> & Hx & Hall). exists (c :: d0). split_and!; [done | done |].
           intros y [-> | Hy]%elem_of_cons; [done | by apply Hall].
        -- destruct Hr as [E Hall]. split; [cbn; lia |]. intros y [-> | Hy]%elem_of_cons; [done | by apply Hall].
Qed.

Lemma wp_tryZombie_ok s (Q : World -> option loc -> Prop) :
  pool_bounds (w_mu s) ->
  (forall s' r, evolves s s' ->
     match r with Some c => c ∈ dead (w_mu s') /\ availableForRouting (conn_at s' c) = true | None => True end ->
     Q s' r) ->
  wp tryZombieWithLock Q s.
Proof.
  intros Hb HQ. unfold tryZombieWithLock. do 2 wp_step. apply wp_tryZombie_loop; [done |].
  intros s' d1 d2 Hd Hd' Hmu Hh Hcf _ _ r Hr.
  assert (forall c, conn_at s' c = conn_at s c) as Hc by (intros c; unfold conn_at; by rewrite Hh).
  apply HQ.
  - split; [by rewrite Hmu | |]; intros c; [| by rewrite Hc].
    unfold held. rewrite Hmu, Hd. cbn. rewrite !elem_of_app. tauto.
  - destruct r as [c |]; [| done]. destruct Hr as (d0 & -> & Ha & _).
    rewrite Hc, Hd'. split; [set_solver | done].
Qed.

Lemma wp_nextFallback_ok s :
  pool_bounds (w_mu s) -> wp nextFallbackWithLock (fun s' r => next_ok s s' r) s.
Proof.
  intros Hb. unfold nextFallbackWithLock. wp_step.
  apply wp_tryStandby_ok; [done |]. intros s1 r1 Hev1 _ Hr1.
  match goal with |- wp (match r1 with Some c => bind _ (fun ok => if ok then _ else ?z) | None => _ end) _ _ =>
    assert (wp z (fun s' r => next_ok s s' r) s1) as Hz end.
  { wp_step. apply wp_tryZombie_ok; [apply Hev1 |]. intros s2 r2 Hev2 Hr2.
    pose proof (evolves_trans _ _ _ Hev1 Hev2) as Hev.
    destruct r2 as [c |]; [| by apply wp_ret]. destruct Hr2 as [Hd Ha].
    do 3 wp_step; [| by split]. unfold upd_counters. do 3 wp_step. apply next_ok_counters.
    split; [done |]. split; [| split; [done | by right]].
    apply Hev. unfold held. set_solver. }
  destruct r1 as [c |]; [| exact Hz]. destruct Hr1 as [Hin Hpos].
  do 2 wp_step. destruct (serves_traffic (conn_at s1 c)) eqn:Hs; [| exact Hz].
  unfold upd_counters. do 3 wp_step. apply next_ok_counters.
  split; [done |]. split; [unfold held; set_solver | split; [done | by left]].
Qed.

(** Cap enforcement on behalf of a selection. *)
Lemma demoted_of_position c c' : demoted_of c c' -> has_position c' = true.
Proof.
  intros (H & _). unfold has_position, hasAny. rewrite H.
  apply negb_true_iff, Z.eqb_neq. intros E. apply (f_equal (fun z => Z.testbit z 3)) in E. revert E.
  rewrite Z.land_spec, Z.lor_spec, testbit_cas_next. eval_mask_bits. by autorewrite with bool.
Qed.

Lemma wp_enforce_ok s (Q : World -> unit -> Prop) :
  pool_bounds (w_mu s) ->
  (forall s', evolves s s' ->
     (forall c, has_position (conn_at s c) = true -> has_position (conn_at s' c) = true) -> Q s' tt) ->
  wp enforceActiveCapWithLock Q s.
Proof.
  intros Hb HQ. pose proof (lists_self _ Hb) as Hl. destruct (wp_enforceActiveCap s _ _ _ Hl) as [Hno Hyes].
  destruct (decide (0 < activeListCap (w_mu s) < Z.of_nat (length (warmed s (active_part (w_mu s)))))) as [Hc | Hc].
  - eapply wp_mono; [by apply Hyes |].
    intros s' [] (K & O & HW & _ & Hl' & _ & [D1 D2] & _).
    apply HQ.
    + split; [apply Hl' | |].
      * intros x. rewrite (lists_held _ _ _ _ _ Hl'), (lists_held _ _ _ _ _ Hl), !elem_of_app.
        assert (forall y, y ∈ active_part (w_mu s) <-> y ∈ warm s (active_part (w_mu s)) \/ y ∈ K \/ y ∈ O) as Hact.
        { intros y. rewrite <- elem_of_app, <- HW. unfold warm, warmed. rewrite !list_elem_of_filter.
          destruct (is_warming s y); naive_solver. }
        rewrite Hact. tauto.
      * intros x. destruct (decide (x ∈ O)) as [Hx | Hx]; [| by rewrite D2].
        destruct (D1 x Hx) as (_ & _ & w & ->). done.
    + intros x Hx. destruct (decide (x ∈ O)) as [Hin | Hin]; [| by rewrite D2].
      eapply demoted_of_position, D1, Hin.
  - unfold wp. rewrite Hno by lia. apply HQ; [by apply evolves_refl | done].
Qed.

Lemma selected_ok s s' r s'' : pool_bounds (w_mu s) -> selected s s' -> next_ok s' s'' r -> next_ok s s'' r.
Proof.
  intros Hb (Hm & Hh & _). apply next_ok_trans. split; rewrite ?Hm; [done | done |].
  intros c. unfold conn_at. by rewrite Hh.
Qed.

Lemma wp_evict_loop n : forall s,
  pool_bounds (w_mu s) -> next_budget n s -> wp (evict_loop n) (fun s' r => next_ok s s' r) s.
Proof.
  induction n as [| n IH]; intros s Hb Hbud; cbn [evict_loop]; [by apply wp_nextFallback_ok |].
  do 2 wp_step. destruct (Z.leb_spec (activeCount (w_mu s)) 0) as [Hz | Hpos]; [by apply wp_nextFallback_ok |].
  wp_step. apply (wp_getNext n); [done | done | done |].
  intros s1 [[c |] enforce] Hsel Hbud1 Hin; cbn [fst snd] in *.
  2: { eapply wp_mono; [apply IH; [by rewrite (proj1 Hsel) | done] |].
       intros s' r. by apply selected_ok. }
  assert (pool_bounds (w_mu s1)) as Hb1 by (by rewrite (proj1 Hsel)).
  assert (c ∈ ready (w_mu s1)) as Hr1.
  { rewrite (proj1 Hsel), (ready_parts (w_mu s)). set_solver. }
  do 2 wp_step. destruct (serves_traffic (conn_at s1 c)) eqn:Hserves; cbn [negb].
  2: { eapply wp_mono; [by apply IH |]. intros s' r. by apply selected_ok. }
  destruct (has_position (conn_at s1 c)) eqn:Hpo.
  - wp_step. apply (wp_mono _ (fun s2 _ => evolves s1 s2 /\ has_position (conn_at s2 c) = true)).
    + wp_step; [| by split; [apply evolves_refl |]]. apply wp_enforce_ok; [done |]. intros s2 Hev Hp. auto.
    + intros s2 [] [Hev2 Hp2]. unfold upd_counters. do 3 wp_step. apply next_ok_counters.
      eapply selected_ok; [done | done |]. split; [done |].
      split; [unfold held; set_solver |]. split; [| by left].
      rewrite (serves_traffic_id (conn_at s1 c)); [done | apply Hev2].
  - wp_step. apply wp_evict; [done | done |]. intros s2 Hev2 Hcf2 _.
    eapply wp_mono; [apply IH; [apply Hev2 | by eapply next_budget_conf] |].
    intros s' r Hok. eapply selected_ok; [done | done |]. by eapply next_ok_trans.
Qed.

(** ** The read-locked part *)

Definition next_out_ok (s s' : World) (r : next_out) : Prop :=
  match r with NextConn c => next_ok s s' (Some c) | _ => next_ok s s' None end.

Lemma tryWarmupSkip_position c : has_position (conn_tryWarmupSkip c).1 = has_position c.
Proof.
  unfold conn_tryWarmupSkip, has_position, conn_lifecycle.
  pose proof (tryWarmupSkip_lifecycle (c_state c)) as H.
  destruct (tryWarmupSkip (c_state c)) as [w r]. cbn in *. destruct H as [-> | [-> _]]; [done |].
  unfold hasAny. do 2 f_equal. unfold warmup_done_lc. bit_solve.
  assert (Z.testbit lcNeedsWarmup i = (4 =? i)) as -> by (apply (Z.pow2_bits_eqb 4 i); lia).
  assert (Z.testbit lcReady i = (0 =? i)) as -> by (apply (Z.pow2_bits_eqb 0 i); lia).
  assert (Z.testbit lcActive i = (2 =? i)) as -> by (apply (Z.pow2_bits_eqb 2 i); lia).
  assert (Z.testbit lcStandby i = (3 =? i)) as -> by (apply (Z.pow2_bits_eqb 3 i); lia).
  bool_cases; try lia; subst; by autorewrite with bool.
Qed.

(** What the attempts leave: the lists, and the identity and position of every
    connection. *)
Record attempted (s s' : World) : Prop := {
  at_mu : w_mu s' = w_mu s;
  at_ids : forall c, conn_id (conn_at s' c) = conn_id (conn_at s c);
  at_pos : forall c, has_position (conn_at s' c) = has_position (conn_at s c) }.

Lemma attempted_trans s1 s2 s3 : attempted s1 s2 -> attempted s2 s3 -> attempted s1 s3.
Proof. intros [A1 A2 A3] [B1 B2 B3]. split; intros; congruence. Qed.

Lemma attempted_selected s s' : selected s s' -> attempted s s'.
Proof. intros (Hm & Hh & _). split; [done | |]; intros c; unfold conn_at; by rewrite Hh. Qed.

Lemma attempted_evolves s s' : pool_bounds (w_mu s) -> attempted s s' -> evolves s s'.
Proof. intros Hb [A1 A2 A3]. split; rewrite ?A1; done. Qed.

Definition usable (s : World) (c : loc) : Prop :=
  serves_traffic (conn_at s c) = true /\ has_position (conn_at s c) = true.

Lemma attempted_usable s s' c : attempted s s' -> usable s c -> usable s' c.
Proof.
  intros [A1 A2 A3] [H1 H2]. split; [| by rewrite A3]. by rewrite (serves_traffic_id (conn_at s c)).
Qed.

Lemma attempted_usable_inv s s' c : attempted s s' -> usable s' c -> usable s c.
Proof.
  intros [A1 A2 A3] [H1 H2]. split; [| by rewrite <- A3]. by rewrite (serves_traffic_id (conn_at s' c)).
Qed.

(** The answer of the attempts. [avail] says that every active entry is usable
    and the selector never errs. *)
Definition attempts_post (avail : Prop) (e : nat) (s s' : World) (r : next_out) : Prop :=
  attempted s s' /\ next_budget e s' /\
  match r with
  | NextConn c => c ∈ active_part (w_mu s) /\ usable s' c
  | _ => ~ avail
  end.

Definition all_usable (s : World) : Prop :=
  (forall c, c ∈ active_part (w_mu s) -> usable s c) /\
  (forall st st' ready ac, selectNext st ready ac <> Some (st', None)).

Lemma all_usable_attempted s s' : attempted s s' -> all_usable s -> all_usable s'.
Proof.
  intros Ha [H1 H2]. split; [| done]. intros c. rewrite (at_mu _ _ Ha). intros Hc.
  apply (attempted_usable s); auto.
Qed.

Lemma wm_skipCount_bound s : 0 <= wm_skipCount (roundManager s) <= 255.
Proof.
  unfold wm_skipCount. rewrite mask8'. rewrite Z.land_ones by lia.
  pose proof (Z.mod_pos_bound (roundManager s) (2 ^ 8)). lia.
Qed.

(** One attempt that does not return: the best warming candidate so far. *)
Definition best_ok (s : World) (best : Z * option loc) : Prop :=
  match best.2 with Some c => c ∈ active_part (w_mu s) /\ usable s c | None => best.1 = maxInt end.

Lemma best_ok_attempted s s' best : attempted s s' -> best_ok s best -> best_ok s' best.
Proof.
  intros Ha. unfold best_ok. destruct best.2; [| done]. intros [H1 H2].
  split; [by rewrite (at_mu _ _ Ha) | by eapply attempted_usable].
Qed.

Lemma wp_next_done c cap e s avail :
  next_budget e s -> c ∈ active_part (w_mu s) -> usable s c ->
  wp (next_done c cap) (fun s' r => attempts_post avail e s s' r) s.
Proof.
  intros Hb Hc Hu. unfold next_done, upd_counters, spawn.
  destruct cap; repeat wp_step; repeat split; apply Hb || apply Hc || apply Hu.
Qed.

Lemma attempts_post_trans avail e s1 s2 s3 r :
  attempted s1 s2 -> attempts_post avail e s2 s3 r -> attempts_post avail e s1 s3 r.
Proof.
  intros Ha (H1 & H2 & H3). split; [by eapply attempted_trans | split; [done |]].
  destruct r; try done. by rewrite <- (at_mu _ _ Ha).
Qed.

Lemma wp_tryWarmupSkip_conn c s (Q : World -> unit -> Prop) n :
  next_budget n s ->
  (forall s', attempted s s' -> next_budget n s' -> Q s' tt) ->
  wp (upd_conn c (fun c => (conn_tryWarmupSkip c).1)) Q s.
Proof.
  intros Hbud HQ. apply wp_upd_conn. intros s' Hc Ht Hm _ _ _.
  apply HQ; [| by eapply next_budget_conf; [apply Ht |]].
  assert (conn_id (conn_tryWarmupSkip (conn_at s c)).1 = conn_id (conn_at s c)) as Hid.
  { unfold conn_tryWarmupSkip. by destruct (tryWarmupSkip _). }
  split; [done | |]; intros x; (destruct (decide (x = c)) as [-> | Hne]; [rewrite Hc | by rewrite (proj2 Ht)]);
    [done | apply tryWarmupSkip_position].
Qed.

Lemma best_skip s best c :
  c ∈ active_part (w_mu s) -> usable s c -> best_ok s best ->
  let remSkip := wm_skipCount (roundManager (c_state (conn_at s c))) in
  let best' := if remSkip <=? best.1 then (remSkip, Some c) else best in
  best_ok s best' /\ best'.2 <> None.
Proof.
  intros Hc Hu Hb. cbv zeta. pose proof (wm_skipCount_bound (c_state (conn_at s c))) as Hw.
  destruct (Z.leb_spec (wm_skipCount (roundManager (c_state (conn_at s c)))) best.1); [done |].
  split; [done |]. unfold best_ok in Hb. destruct best.2; [done |]. unfold maxInt in Hb. lia.
Qed.

Lemma wp_next_attempts n e : forall s best cap (avail : Prop),
  pool_bounds (w_mu s) -> (n = 0%nat \/ 0 < activeCount (w_mu s)) -> next_budget (n + e) s ->
  best_ok s best -> (avail -> all_usable s /\ (n <> 0%nat \/ best.2 <> None)) ->
  wp (next_attempts n best cap) (fun s' r => attempts_post avail e s s' r) s.
Proof.
  induction n as [| n IH]; intros s best cap avail Hb Hac Hbud Hbest Hav; cbn [next_attempts].
  { unfold best_ok in Hbest. destruct best.2 as [c |].
    - by apply wp_next_done; [| apply Hbest ..].
    - do 3 wp_step. split; [by split | split; [done |]].
      destruct (_ && _)%bool; intros Ha; destruct (Hav Ha) as [_ [? | ?]]; done. }
  wp_step. apply (wp_getNext (n + e)); [done | by destruct Hac | done |].
  intros s1 [r0 capr] Hsel Hbud1 Hr0. cbn [fst snd] in *.
  pose proof (attempted_selected _ _ Hsel) as Hat1.
  assert (pool_bounds (w_mu s1) /\ 0 < activeCount (w_mu s1)) as [Hb1 Hac1].
  { rewrite (at_mu _ _ Hat1). split; [done |]. by destruct Hac. }
  assert (avail -> all_usable s1) as Hav1.
  { intros Ha. eapply all_usable_attempted; [exact Hat1 |]. by apply Hav. }
  assert (forall s2 b cap', attempted s1 s2 -> next_budget (n + e) s2 -> best_ok s2 b ->
    (avail -> b.2 <> None) -> wp (next_attempts n b cap') (fun s' r => attempts_post avail e s s' r) s2) as Hnext.
  { intros s2 b cap' Hat2 Hbud2 Hb2 Hav2. pose proof (attempted_trans _ _ _ Hat1 Hat2) as Hat.
    eapply wp_mono; [apply (IH s2 b cap' avail) | intros s' r; by apply attempts_post_trans].
    - by rewrite (at_mu _ _ Hat).
    - right. by rewrite (at_mu _ _ Hat2).
    - done.
    - done.
    - intros Ha. split; [| right; auto]. eapply all_usable_attempted; [exact Hat2 | auto]. }
  pose proof (best_ok_attempted _ _ _ Hat1 Hbest) as Hbest1.
  destruct r0 as [c |].
  2: { apply Hnext; [by split | done | done |]. intros Ha. destruct Hr0 as (st & st' & E).
       destruct (proj2 (Hav1 Ha) _ _ _ _ E). }
  assert (c ∈ active_part (w_mu s1)) as Hin by (by rewrite (at_mu _ _ Hat1)).
  do 2 wp_step. destruct (serves_traffic (conn_at s1 c)) eqn:Hserves; cbn [negb].
  2: { apply Hnext; [by split | done | done |]. intros Ha. destruct (proj1 (Hav1 Ha) c Hin). congruence. }
  destruct (has_position (conn_at s1 c)) eqn:Hpos; cbn [negb].
  2: { apply wp_ret. split; [done | split]; [apply (next_budget_le (n + e)); [lia | done] |].
       intros Ha. destruct (proj1 (Hav1 Ha) c Hin). congruence. }
  assert (usable s1 c) as Hu by done.
  assert (forall s2 cap', attempted s1 s2 -> next_budget (n + e) s2 ->
    wp (next_done c cap') (fun s' r => attempts_post avail e s s' r) s2) as Hdone.
  { intros s2 cap' Hat2 Hbud2. eapply wp_mono; [apply (wp_next_done c cap' e s2 avail) |].
    - apply (next_budget_le (n + e)); [lia | done].
    - by rewrite (at_mu _ _ Hat2).
    - by apply (attempted_usable s1).
    - intros s' r. apply attempts_post_trans. by eapply attempted_trans. }
  destruct (isWarmingUp (c_state (conn_at s1 c))); cbn [negb]; [| by apply Hdone; [by split |]].
  do 3 wp_step. apply (wp_tryWarmupSkip_conn c s1 _ (n + e)); [done |]. intros s2 Hat2 Hbud2.
  unfold upd_counters. destruct (conn_tryWarmupSkip (conn_at s1 c)).2.
  - do 4 wp_step.
    assert (attempted s1 (with_counters s2 (incr_skips (w_counters s2)))) as Hat3 by (eapply attempted_trans; [exact Hat2 | by split]).
    destruct (best_skip (with_counters s2 (incr_skips (w_counters s2))) best c) as [B1 B2].
    + by rewrite (at_mu _ _ Hat3).
    + by apply (attempted_usable s1).
    + by apply (best_ok_attempted s1).
    + apply Hnext; [done | done | exact B1 | intros _; exact B2].
  - do 6 wp_step. apply Hdone; [| done]. eapply attempted_trans; [exact Hat2 | by split].
  - by apply Hdone.
Qed.

(** Selector calls one Next makes at most: its attempts, then those of the
    locked loop. *)
Definition next_calls (m : PoolMu) : nat := Z.to_nat (activeCount m) + (Z.to_nat (activeCount m) + 1).

Lemma wp_next_read s :
  pool_bounds (w_mu s) -> next_budget (next_calls (w_mu s)) s ->
  wp next_read (fun s' r =>
    attempts_post (all_usable s /\ 0 < activeCount (w_mu s)) (Z.to_nat (activeCount (w_mu s)) + 1) s s' r) s.
Proof.
  intros Hb Hbud. unfold next_read. do 2 wp_step. unfold pool_bounds in Hb.
  apply wp_next_attempts; [done | lia | done | done |]. intros [Ha Hp]. split; [done |]. left. lia.
Qed.

Lemma wp_Next s :
  pool_bounds (w_mu s) -> next_budget (next_calls (w_mu s)) s ->
  wp Next (fun s' r => next_ok s s' r /\
    (all_usable s -> 0 < activeCount (w_mu s) ->
     exists c, r = Some c /\ c ∈ active_part (w_mu s) /\ w_mu s' = w_mu s)) s.
Proof.
  intros Hb Hbud. unfold Next. wp_step. eapply wp_mono; [by apply wp_next_read |].
  intros s1 r (Hat & Hbud1 & Hr). pose proof (attempted_evolves _ _ Hb Hat) as Hev.
  assert (pool_bounds (w_mu s1)) as Hb1 by apply Hev.
  assert (forall s' x, ~ (all_usable s /\ 0 < activeCount (w_mu s)) -> next_ok s1 s' x ->
    next_ok s s' x /\ (all_usable s -> 0 < activeCount (w_mu s) ->
     exists c, x = Some c /\ c ∈ active_part (w_mu s) /\ w_mu s' = w_mu s)) as Hlift.
  { intros s' x Hno Hok. split; [by eapply next_ok_trans | tauto]. }
  assert (activeCount (w_mu s1) = activeCount (w_mu s)) as Hac by (by rewrite (at_mu _ _ Hat)).
  destruct r as [c | | |].
  - destruct Hr as [Hin [Hs Hp]]. apply wp_ret. split.
    + split; [done |]. split; [| by split; [| left]].
      unfold held. rewrite (ready_parts (w_mu s)). set_solver.
    + intros _ _. exists c. split_and!; [done | done | apply Hat].
  - unfold nextWithEviction. do 2 wp_step. rewrite Hac.
    eapply wp_mono; [apply wp_evict_loop; [done |] | intros s' x; by apply Hlift].
    eapply next_budget_le; [| exact Hbud1]. lia.
  - unfold nextFallback. do 2 wp_step. rewrite Hac.
    destruct (activeCount (w_mu s) <=? 0) eqn:E.
    + eapply wp_mono; [by apply wp_nextFallback_ok | intros s' x; by apply Hlift].
    + apply Z.leb_gt in E. rewrite Z2Nat.inj_add by lia.
      eapply wp_mono; [by apply wp_evict_loop | intros s' x; by apply Hlift].
  - apply wp_ret. apply Hlift; [done |]. split; [by apply evolves_refl | done].
Qed.
End Laws.

(** * Theorems *)

(** C2: Next is safe for every selector that keeps its law. From a pool whose
    boundary is inside its ready list, and with counters that do not wrap
    within the call, Next never panics, keeps the boundary in range, loses and
    invents no connection, and changes none's identity. A connection it
    returns was held by the pool, is no dedicated cluster manager unless it is
    a seed, and either holds a position (active or standby) or is a dead
    connection available for routing. *)
Theorem Next_safe `{laws : PoolSelectorLaws} s :
  pool_bounds (w_mu s) -> next_budget (next_calls (w_mu s)) s ->
  wp Next (fun s' r => next_ok s s' r) s.
Proof. intros Hb Hbud. eapply wp_mono; [by apply wp_Next |]. by intros s' r [H _]. Qed.

(** C5: Next always serves while the active connections are usable, warming up
    or not: if every active entry may serve and holds a position, and the
    selector reports no error, Next returns one of them and moves nothing.
    Warmup can delay a connection but never starve a request. *)
Theorem Next_available `{laws : PoolSelectorLaws} s :
  pool_bounds (w_mu s) -> next_budget (next_calls (w_mu s)) s ->
  all_usable s -> 0 < activeCount (w_mu s) ->
  wp Next (fun s' r => exists c, r = Some c /\ c ∈ active_part (w_mu s) /\ w_mu s' = w_mu s) s.
Proof. intros Hb Hbud Ha Hp. eapply wp_mono; [by apply wp_Next |]. intros s' r [_ H]. auto. Qed.

(** ** Round robin *)

(** The counter Next draws from: the round-robin selector's or the pool's. *)
Definition rr_counter (s : World) : Z :=
  match w_selector s with Some st => st | None => w_nextReady s end.

(** Every active entry may serve, holds a position and is not warming up. *)
Definition quiet (s : World) : Prop :=
  forall c, c ∈ active_part (w_mu s) -> usable s c /\ isWarmingUp (c_state (conn_at s c)) = false.

Lemma getNext_round_robin s :
  pool_bounds (w_mu s) -> 0 < activeCount (w_mu s) ->
  0 <= rr_counter s -> rr_counter s + 1 < 2 ^ 63 ->
  exists s' c, getNextActiveConnWithLock (sel := poolRoundRobin) s = Some (s', (Some c, false)) /\
    ready (w_mu s) !! Z.to_nat (rr_counter s mod activeCount (w_mu s)) = Some c /\
    c ∈ active_part (w_mu s) /\ selected s s' /\ rr_counter s' = rr_counter s + 1 /\
    w_counters s' = w_counters s.
Proof.
  intros Hb Hac H0 H1. unfold pool_bounds in Hb.
  destruct (counter_index (rr_counter s) (activeCount (w_mu s)) (ready (w_mu s)) H0 H1 ltac:(lia)) as (Hw & Hi & Hm).
  destruct (lookup_take_elem (ready (w_mu s)) (Z.to_nat (rr_counter s mod activeCount (w_mu s)))
      (Z.to_nat (activeCount (w_mu s)))) as (c & Hc & Hin); [lia | lia |].
  rewrite Hc in Hi. unfold rr_counter in *.
  unfold getNextActiveConnWithLock, bind, gets, getsM, modify.
  destruct (w_selector s) as [st |] eqn:Hsel.
  - unfold selectNext, poolRoundRobin, poolRoundRobin_selectNext.
    rewrite Hw. destruct (Z.eqb_spec (activeCount (w_mu s)) 0); [lia |]. rewrite Hi.
    eexists _, c. split; [reflexivity |]. by split_and!.
  - cbn [w_mu w_nextReady with_nextReady]. rewrite Hw.
    destruct (Z.eqb_spec (activeCount (w_mu s)) 0); [lia |]. rewrite Hi.
    eexists _, c. split; [reflexivity |]. split_and!; try done. cbn. by rewrite Hsel.
Qed.

(** One call on a quiet pool. *)
Lemma Next_quiet s :
  pool_bounds (w_mu s) -> 0 < activeCount (w_mu s) -> quiet s ->
  0 <= rr_counter s -> rr_counter s + 1 < 2 ^ 63 ->
  exists s' c, Next (sel := poolRoundRobin) s = Some (s', Some c) /\
    ready (w_mu s) !! Z.to_nat (rr_counter s mod activeCount (w_mu s)) = Some c /\
    w_mu s' = w_mu s /\ quiet s' /\ rr_counter s' = rr_counter s + 1 /\
    w_counters s' = incr_requests (w_counters s).
Proof.
  intros Hb Hac Hq H0 H1.
  destruct (getNext_round_robin s Hb Hac H0 H1) as (s1 & c & E & Hc & Hin & (Hm & Hh & _) & Hcnt & Hk).
  destruct (Hq c Hin) as [[Hs Hp] Hw].
  assert (conn_at s1 c = conn_at s c) as Hcc by (unfold conn_at; by rewrite Hh).
  exists (with_counters s1 (incr_requests (w_counters s1))), c.
  split.
  - unfold Next, next_read, bind at 1, bind at 1, gets at 1.
    destruct (Z.to_nat (activeCount (w_mu s))) as [| n] eqn:En; [lia |]. cbn [next_attempts].
    unfold bind at 1. rewrite E. cbn [fst snd]. unfold bind, gets.
    rewrite Hcc, Hs, Hp, Hw. cbn [negb orb]. reflexivity.
  - cbn. split; [done |]. split; [done |]. split; [| split; [done | by rewrite Hk]].
    intros x Hx. cbn in Hx. rewrite Hm in Hx. unfold usable, conn_at. cbn. rewrite Hh. by apply Hq.
Qed.

Fixpoint next_n (n : nat) : M World (list (option loc)) :=
  match n with
  | O => ret []
  | S n' => let* c := Next (sel := poolRoundRobin) in let* cs := next_n n' in ret (c :: cs)
  end.

Lemma next_n_quiet n : forall s,
  pool_bounds (w_mu s) -> 0 < activeCount (w_mu s) -> quiet s ->
  0 <= rr_counter s -> rr_counter s + Z.of_nat n < 2 ^ 63 ->
  exists s', next_n n s = Some (s', map (fun i => ready (w_mu s) !! Z.to_nat ((rr_counter s + Z.of_nat i) mod activeCount (w_mu s))) (seq 0 n)) /\
    w_mu s' = w_mu s.
Proof.
  induction n as [| n IH]; intros s Hb Hac Hq H0 H1; [by exists s |].
  destruct (Next_quiet s Hb Hac Hq H0 ltac:(lia)) as (s1 & c & E & Hc & Hm & Hq1 & Hcnt & _).
  destruct (IH s1) as (s2 & E2 & Hm2); [by rewrite Hm | by rewrite Hm | done | lia | lia |].
  exists s2. split; [| congruence].
  cbn [next_n]. unfold bind at 1. rewrite E. unfold bind. rewrite E2. unfold ret.
  do 2 f_equal. rewrite <- cons_seq. cbn [map]. rewrite Z.add_0_r, Hc. f_equal.
  rewrite <- seq_shift, map_map. apply map_ext. intros i. rewrite Hm, Hcnt. do 3 f_equal. lia.
Qed.

(** C6: Next deals the requests out by weight. On a quiet pool, one round of as
    many calls as there are active entries returns the active partition,
    rotated: every active entry exactly once, hence every connection as often
    as its weight put it there, and the pool's lists stay as they are. *)
Theorem Next_fair s :
  pool_bounds (w_mu s) -> 0 < activeCount (w_mu s) -> quiet s ->
  0 <= rr_counter s -> rr_counter s + activeCount (w_mu s) < 2 ^ 63 ->
  exists s' cs, next_n (Z.to_nat (activeCount (w_mu s))) s = Some (s', map Some cs) /\
    cs = rotate (Z.to_nat (rr_counter s)) (active_part (w_mu s)) /\
    cs ≡ₚ active_part (w_mu s) /\ w_mu s' = w_mu s.
Proof.
  intros Hb Hac Hq H0 H1.
  destruct (next_n_quiet (Z.to_nat (activeCount (w_mu s))) s Hb Hac Hq H0 ltac:(lia)) as (s' & E & Hm).
  exists s', (rotate (Z.to_nat (rr_counter s)) (active_part (w_mu s))).
  assert (length (active_part (w_mu s)) = Z.to_nat (activeCount (w_mu s))) as Hlen.
  { unfold active_part. rewrite length_take. unfold pool_bounds in Hb. lia. }
  split; [| split; [done | split; [| done]]].
  - rewrite E. do 2 f_equal. apply list_eq. intros i.
    destruct (decide (i < Z.to_nat (activeCount (w_mu s)))%nat) as [Hi | Hi].
    + rewrite !list_lookup_fmap. rewrite lookup_seq_lt by done. cbn [fmap option_fmap option_map Nat.add].
      rewrite lookup_rotate_r by lia. unfold rotate_nat_add. rewrite Hlen.
      set (j := Z.to_nat ((rr_counter s + Z.of_nat i) mod activeCount (w_mu s))).
      replace (Z.to_nat ((Z.of_nat (Z.to_nat (rr_counter s)) + Z.of_nat i) `mod` Z.of_nat (Z.to_nat (activeCount (w_mu s)))))
        with j by (unfold j; do 2 f_equal; lia).
      pose proof (Z.mod_pos_bound (rr_counter s + Z.of_nat i) (activeCount (w_mu s)) ltac:(lia)).
      unfold active_part. rewrite lookup_take_lt by lia.
      destruct (lookup_lt_is_Some_2 (ready (w_mu s)) j) as [x Hx]; [unfold pool_bounds in Hb; lia |].
      by rewrite Hx.
    + rewrite !lookup_ge_None_2; [done | rewrite length_map, length_rotate; lia | rewrite length_map, length_seq; lia].
  - unfold rotate. by rewrite Permutation_app_comm, take_drop.
Qed.

(** ** Zombies *)

Definition avail (s : World) (c : loc) : Prop := availableForRouting (conn_at s c) = true.
#[export] Instance avail_dec s c : Decision (avail s c).
Proof. unfold avail. apply _. Defined.

Fixpoint zombies (n : nat) : M World (list (option loc)) :=
  match n with
  | O => ret []
  | S n' => let* c := tryZombieWithLock in let* cs := zombies n' in ret (c :: cs)
  end.

(** One call: the first available connection, rotated to the back with the
    unavailable ones before it. *)
Lemma tryZombie_once s :
  exists s' r d1 d2, tryZombieWithLock s = Some (s', r) /\ dead (w_mu s) = d1 ++ d2 /\
    w_mu s' = mu_dead (w_mu s) (d2 ++ d1) /\ w_heap s' = w_heap s /\
    match r with
    | Some c => exists d0, d1 = d0 ++ [c] /\ avail s c /\ (forall x, x ∈ d0 -> ~ avail s x)
    | None => d2 = [] /\ (forall x, x ∈ d1 -> ~ avail s x)
    end.
Proof.
  assert (wp tryZombieWithLock (fun s' r => exists d1 d2, dead (w_mu s) = d1 ++ d2 /\
    w_mu s' = mu_dead (w_mu s) (d2 ++ d1) /\ w_heap s' = w_heap s /\
    match r with
    | Some c => exists d0, d1 = d0 ++ [c] /\ avail s c /\ (forall x, x ∈ d0 -> ~ avail s x)
    | None => d2 = [] /\ (forall x, x ∈ d1 -> ~ avail s x)
    end) s) as H.
  { unfold tryZombieWithLock. do 2 wp_step. apply wp_tryZombie_loop; [done |].
    intros s' d1 d2 Hd _ Hmu Hh _ _ _ r Hr. exists d1, d2. split_and!; [done .. |].
    unfold avail. destruct r as [c |].
    - destruct Hr as (d0 & -> & Ha & Hall). exists d0. split_and!; [done | done |].
      intros x Hx. by rewrite (Hall x Hx).
    - destruct Hr as [Hlen Hall]. split; [| intros x Hx; by rewrite (Hall x Hx)].
      apply (f_equal length) in Hd. rewrite length_app in Hd. destruct d2; [done | cbn in Hd; lia]. }
  apply wp_run in H as (s' & r & E & d1 & d2 & H). by exists s', r, d1, d2.
Qed.

Lemma filter_avail_none (s : World) l : (forall x, x ∈ l -> ~ avail s x) -> filter (avail s) l = [].
Proof.
  induction l as [| x l IH]; intros H; [done |].
  rewrite filter_cons_False by (apply H; set_solver). apply IH. set_solver.
Qed.

Lemma zombies_loop s0 n : forall s todo done_,
  w_heap s = w_heap s0 -> dead (w_mu s) = todo ++ done_ -> n = length (filter (avail s0) todo) ->
  exists s', zombies n s = Some (s', map Some (filter (avail s0) todo)) /\
    (exists d, w_mu s' = mu_dead (w_mu s) d /\ d ≡ₚ dead (w_mu s)) /\ w_heap s' = w_heap s0.
Proof.
  induction n as [| n IH]; intros s todo done_ Hh Hd Hn.
  - exists s. destruct (filter (avail s0) todo); [| done]. split_and!; try done.
    exists (dead (w_mu s)). split; [by destruct (w_mu s) | done].
  - assert (forall x, avail s x <-> avail s0 x) as Hav by (intros x; unfold avail, conn_at; by rewrite Hh).
    destruct (tryZombie_once s) as (s1 & r & d1 & d2 & E & Hd12 & Hmu & Hh1 & Hr).
    assert (exists c, c ∈ todo /\ avail s0 c) as (c0 & Hc0 & Ha0).
    { destruct (filter (avail s0) todo) as [| c l] eqn:Ef; [done |]. exists c.
      assert (c ∈ filter (avail s0) todo) as Hin by (rewrite Ef; set_solver). by apply list_elem_of_filter in Hin as [? ?]. }
    destruct r as [c |].
    2: { exfalso. destruct Hr as [-> Hall]. rewrite app_nil_r in Hd12.
         apply (Hall c0); [rewrite <- Hd12, Hd; set_solver | by apply Hav]. }
    destruct Hr as (d0 & -> & Hac & Hall). rewrite <- app_assoc in Hd12. cbn in Hd12.
    (* c lies in todo: nothing before it is available *)
    assert (exists todo', todo = d0 ++ c :: todo') as [todo' ->].
    { rewrite Hd in Hd12. apply app_eq_app in Hd12 as (k & [[-> Hk] | [-> Hk]]).
      - destruct k as [| y k]; cbn in Hk.
        + exfalso. rewrite app_nil_r in Hc0. apply (Hall c0); [set_solver | by apply Hav].
        + injection Hk as <- Hk. by exists k.
      - exfalso. apply (Hall c0); [set_solver | by apply Hav]. }
    assert (filter (avail s0) (d0 ++ c :: todo') = c :: filter (avail s0) todo') as Ef.
    { rewrite filter_app, filter_avail_none by (intros x Hx; rewrite <- Hav; by apply Hall).
      cbn [app]. by rewrite filter_cons_True by (by apply Hav). }
    rewrite Ef in Hn |- *. injection Hn as Hn.
    rewrite Hd, <- app_assoc in Hd12. apply app_inv_head in Hd12. injection Hd12 as <-.
    destruct (IH s1 todo' (done_ ++ d0 ++ [c])) as (s2 & E2 & (d & Hm2 & Hp) & Hh2).
    + congruence.
    + rewrite Hmu. cbn. by rewrite <- app_assoc.
    + done.
    + exists s2. split_and!; [| | done].
      * cbn [zombies]. unfold bind at 1. rewrite E. unfold bind. rewrite E2. done.
      * exists d. rewrite Hm2, Hmu. split; [done |]. rewrite Hp, Hmu, Hd. cbn.
        rewrite (Permutation_app_comm (todo' ++ done_) (d0 ++ [c])). by rewrite <- !app_assoc.
Qed.

(** Zombies are dialled fairly. As many calls as the dead list holds
    available connections return each of them exactly once, in list order;
    an unavailable connection is never returned; and with none available the
    call returns nil. The dead list is only reordered. *)
Theorem tryZombie_fair s :
  (exists s', zombies (length (filter (avail s) (dead (w_mu s)))) s =
     Some (s', map Some (filter (avail s) (dead (w_mu s)))) /\
     (exists d, w_mu s' = mu_dead (w_mu s) d /\ d ≡ₚ dead (w_mu s)) /\ w_heap s' = w_heap s) /\
  (forall s' r, tryZombieWithLock s = Some (s', r) ->
     (r = None <-> filter (avail s) (dead (w_mu s)) = []) /\ (forall c, r = Some c -> avail s c)).
Proof.
  split; [by apply (zombies_loop s _ s (dead (w_mu s)) []); rewrite ?app_nil_r |].
  intros s' r H. destruct (tryZombie_once s) as (s1 & r1 & d1 & d2 & E & Hd & _ & _ & Hr).
  rewrite H in E. injection E as <- <-. destruct r as [c |].
  - destruct Hr as (d0 & -> & Ha & _). split; [| by intros ? [= <-]]. split; [done |].
    intros Hf. exfalso. apply (not_elem_of_nil c). rewrite <- Hf. apply list_elem_of_filter.
    split; [done |]. rewrite Hd. set_solver.
  - destruct Hr as [-> Hall]. split; [| done]. split; [| done]. intros _.
    rewrite Hd, app_nil_r. by apply filter_avail_none.
Qed.

(** * Concrete runs *)

Lemma ex_world_bounds : pool_bounds (w_mu ex_world).
Proof. vm_compute. split; congruence. Qed.

Lemma ex_world_budget : next_budget (laws := poolRoundRobin_laws) (next_calls (w_mu ex_world)) ex_world.
Proof. vm_compute. split; congruence. Qed.

Lemma ex_world_quiet : quiet ex_world.
Proof.
  intros c Hc. assert (c = 0 \/ c = 1)%nat as [-> | ->]; [| by vm_compute | by vm_compute].
  change (c ∈ [0; 1; 1]%nat) in Hc. rewrite !elem_of_cons in Hc. set_solver.
Qed.

(** The result of a call. *)
Definition result {A} (r : option (World * A)) : option A := option_map snd r.

(** A pool whose only active node was demoted elsewhere: Next evicts it and
    falls back to the standby node. *)
Definition ex_world_killed : World :=
  with_mu (with_heap ex_world (<[0%nat := ex_node "http://n0:9200" (lcDead ||| lcNeedsWarmup) 1 0 0]> ex_pool_heap))
    (MkPoolMu [0; 2]%nat [4]%nat 1 (list_to_set [0; 2; 4]%nat) 3 8 16 true).

Lemma Next_safe_witness :
  result (Next (sel := poolRoundRobin) ex_world_killed) = Some (Some 2%nat) /\
  lists_after (Next (sel := poolRoundRobin) ex_world_killed) = Some ([2]%nat, 1, [4; 0]%nat) /\
  wp (Next (sel := poolRoundRobin)) (fun s' r => next_ok ex_world_killed s' r) ex_world_killed.
Proof.
  split; [vm_compute; reflexivity |]. split; [vm_compute; reflexivity |].
  apply (Next_safe (laws := poolRoundRobin_laws)); vm_compute; split; congruence.
Defined.

Lemma Next_available_witness :
  result (Next (sel := poolRoundRobin) ex_world) = Some (Some 0%nat) /\
  wp (Next (sel := poolRoundRobin)) (fun s' r => exists c, r = Some c /\
    c ∈ active_part (w_mu ex_world) /\ w_mu s' = w_mu ex_world) ex_world.
Proof.
  split; [vm_compute; reflexivity |].
  apply (Next_available (laws := poolRoundRobin_laws)).
  - exact ex_world_bounds.
  - exact ex_world_budget.
  - split; [intros c Hc; apply (ex_world_quiet c Hc) |]. intros st st' ready ac.
    unfold selectNext, poolRoundRobin, poolRoundRobin_selectNext. repeat case_match; congruence.
  - vm_compute. reflexivity.
Defined.

Lemma Next_fair_witness :
  result (next_n 3 ex_world) = Some [Some 0; Some 1; Some 1]%nat /\
  exists s' cs, next_n 3 ex_world = Some (s', map Some cs) /\
    cs = rotate (Z.to_nat (rr_counter ex_world)) (active_part (w_mu ex_world)) /\
    cs ≡ₚ active_part (w_mu ex_world) /\ w_mu s' = w_mu ex_world.
Proof.
  split; [vm_compute; reflexivity |].
  apply (Next_fair ex_world ex_world_bounds).
  - vm_compute. reflexivity.
  - exact ex_world_quiet.
  - vm_compute. congruence.
  - vm_compute. reflexivity.
Defined.

(** Two dead nodes, of which only the second was ever reachable. *)
Definition ex_world_dead : World :=
  with_mu (with_heap ex_world (<[3%nat := ex_node "http://n3:9200" (lcDead ||| lcViable) 1 0 50]> ex_pool_heap))
    (MkPoolMu [] [4; 3; 4]%nat 0 (list_to_set [3; 4]%nat) 3 8 16 true).

Lemma tryZombie_fair_witness :
  filter (avail ex_world_dead) (dead (w_mu ex_world_dead)) = [3]%nat /\
  exists s', zombies 1 ex_world_dead = Some (s', [Some 3%nat]) /\
    (exists d, w_mu s' = mu_dead (w_mu ex_world_dead) d /\ d ≡ₚ dead (w_mu ex_world_dead)) /\
    w_heap s' = w_heap ex_world_dead.
Proof.
  split; [vm_compute; reflexivity |]. exact (proj1 (tryZombie_fair ex_world_dead)).
Defined.
