(* ===== verification/PolicyPool.v ===== *)
(** policy_roundrobin.go, policy_role.go, policy_cluster_coordinator.go: how
    the leaf policies keep their pool in step with node discovery, and the
    policyState word of policy_override_env.go.

    The three DiscoveryUpdates are written out as the code has them, over the
    pool world of Pool.v; a slice argument that may be nil is an option. They
    are run undisturbed here (RolePolicy releases the pool lock between its
    sections). A connection's URL.String() is its URLString, computed once when
    the connection is made. *)

From Stdlib Require Import ZArith Lia Ascii String.
From stdpp Require Import base gmap list strings sorting.
From S2P Require Import Prelude.
From S2P Require Import Atomic.
From S2P Require Import Lifecycle.
From S2P Require Import Warmup.
From S2P Require Import Rtt.
From S2P Require Import Congestion.
From S2P Require Import Conn.
From S2P Require Import Pool.
From S2P Require Import PoolResurrect.
From S2P Require Import PoolStandby.
From S2P Require Import PoolSelect.
From S2P Require Import PoolLists.
From S2P Require Import PoolReport.
From S2P Require Import PoolCap.
From S2P Require Import PoolNext.

Open Scope list_scope.
Open Scope Z_scope.

(** * The policyState word (policy_override_env.go) *)

Definition psEnabled : Z := 1.
Definition psDisabled : Z := 2.
Definition psEnvEnabled : Z := 4.
Definition psEnvDisabled : Z := 8.
Definition psDynamicMask : Z := psEnabled ||| psDisabled.
Definition psEnvMask : Z := psEnvEnabled ||| psEnvDisabled.

Definition psIsEnabled (state : Z) : bool :=
  if negb (Z.land state psEnvDisabled =? 0) then false else negb (Z.land state psEnabled =? 0).

(** One pass of each retry loop; the loops are those of Atomic.v. *)
Definition psSetEnabled_pass (enabled : bool) (old : Z) : rmw_decision unit :=
  RmwStore (Z.lor (Z.ldiff old psDynamicMask) (if enabled then psEnabled else psDisabled)) tt.
Definition psSetEnabled (enabled : bool) (word : Z) : Z := (rmw_run (psSetEnabled_pass enabled) word).1.
Definition psSetEnvOverride_pass (enabled : bool) (old : Z) : rmw_decision unit :=
  RmwStore (Z.lor (Z.ldiff old psEnvMask) (if enabled then psEnvEnabled else psEnvDisabled)) tt.
Definition psSetEnvOverride (enabled : bool) (word : Z) : Z := (rmw_run (psSetEnvOverride_pass enabled) word).1.

(** * Which connections a policy admits *)

Definition RoleCoordinatingOnly : string := "coordinating_only".
Definition RoleSeparator : string := ",".

Definition isCoordinatingOnly (conn : Connection) : bool :=
  bool_decide (c_Roles conn = ∅) || roleSet_has (c_Roles conn) RoleCoordinatingOnly.

(** strings.Split(s, ",") *)
Fixpoint split_roles (s : string) : list string :=
  match s with
  | EmptyString => [""]
  | String c s' =>
    if Ascii.eqb c "," then "" :: split_roles s'
    else match split_roles s' with a :: l => String c a :: l | [] => [String c ""] end
  end%string.

Definition connectionMatchesRoles (requiredRoleKey : string) (conn : Connection) : bool :=
  if String.eqb requiredRoleKey "" then false
  else if String.eqb requiredRoleKey RoleCoordinatingOnly then
    bool_decide (c_Roles conn = ∅) || roleSet_has (c_Roles conn) RoleCoordinatingOnly
  else forallb (roleSet_has (c_Roles conn)) (split_roles requiredRoleKey).

(** * Adding *)

Definition mu_members (m : PoolMu) (v : gset loc) : PoolMu :=
  MkPoolMu (ready m) (dead m) (activeCount m) v (activeListCap m) (warmupRounds m) (warmupSkipCount m) (healthCheck m).

(** The transition of an unhealthy connection on its way to the dead list. *)
Definition admit_dead_cas (c : Connection) : Connection :=
  (conn_cas c 0 (lcDead ||| lcNeedsWarmup) (lcReady ||| lcActive ||| lcStandby ||| lcOverloaded)).1.

(** A connection that is ready joins the active partition, with warmup. *)
Definition admit_ready (c : loc) : M World unit :=
  upd_conn c (fun c => (conn_cas c 0 lcActive (lcUnknown ||| lcStandby)).1) ;;;
  let* p := gets (fun s => getWarmupParamsWithLock (w_mu s)) in
  upd_conn c (fun c => conn_startWarmup c p.1 p.2) ;;;
  appendToReadyActiveWithLock c.

Definition admit_dead (c : loc) : M World unit :=
  upd_conn c admit_dead_cas ;;;
  appendToDeadWithLock c.

(** The loop body of RoundRobinPolicy and CoordinatorPolicy. *)
Definition admit_conn (admits : Connection -> bool) (c : loc) : M World unit :=
  let* ok := gets (fun s => admits (conn_at s c)) in
  if negb ok then ret tt
  else
    let* member := gets (fun s => bool_decide (c ∈ members (w_mu s))) in
    if (member : bool) then ret tt
    else
      upd_mu (fun m => mu_members m ({[c]} ∪ members m)) ;;;
      let* isHealthy := gets (fun s => isReady (c_state (conn_at s c))) in
      if (isHealthy : bool) then admit_ready c else admit_dead c.

(** The loop body of RolePolicy.discoveryUpdateAdd. *)
Definition role_admit (requiredRoleKey : string) (c : loc) : M World unit :=
  let* ok := gets (fun s => connectionMatchesRoles requiredRoleKey (conn_at s c)) in
  if negb ok then ret tt
  else
    let* member := gets (fun s => bool_decide (c ∈ members (w_mu s))) in
    if (member : bool) then ret tt
    else
      let* isHealthy := gets (fun s => isReady (c_state (conn_at s c))) in
      upd_mu (fun m => mu_members m ({[c]} ∪ members m)) ;;;
      if (isHealthy : bool) then
        admit_ready c ;;;
        shuffleActiveWithLock ;;;
        enforceActiveCapWithLock
      else admit_dead c.

(** * Removing *)

(** removedMap[conn.URL.String()] *)
Definition url_removed (s : World) (removed : list loc) (c : loc) : bool :=
  existsb (fun r => String.eqb (c_URLString (conn_at s r)) (c_URLString (conn_at s c))) removed.

(** The filter loop over ready: what is kept, how many of it were active, what
    is deleted. *)
Fixpoint filter_ready (found : loc -> bool) (activeCount i : Z) (l : list loc) : list loc * Z * list loc :=
  match l with
  | [] => ([], 0, [])
  | c :: l' =>
    let '(kept, n, deleted) := filter_ready found activeCount (i + 1) l' in
    if found c then (kept, n, c :: deleted)
    else (c :: kept, if i <? activeCount then n + 1 else n, deleted)
  end.

Definition remove_ready (found : loc -> bool) : M World unit :=
  upd_mu (fun m =>
    let '(kept, n, deleted) := filter_ready found (activeCount m) 0 (ready m) in
    mu_members (mu_activeCount (mu_ready m kept) n) (members m ∖ list_to_set deleted)).

Definition remove_dead (found : loc -> bool) : M World unit :=
  upd_mu (fun m =>
    mu_members (mu_dead m (filter (fun c => found c = false) (dead m)))
      (members m ∖ list_to_set (filter (fun c => found c = true) (dead m)))).

(** * The updates *)

Definition elems {A} (slice : option (list A)) : list A := default [] slice.

(** RoundRobinPolicy.DiscoveryUpdate, with a pool and not disabled. *)
Definition rearrange_if (added : option (list loc)) : M World unit :=
  if added is Some _ then shuffleActiveWithLock ;;; enforceActiveCapWithLock else ret tt.

Definition roundRobin_remove (removed : option (list loc)) : M World unit :=
  match removed with
  | None | Some [] => ret tt
  | Some removed =>
    let* s := gets (fun s => s) in
    remove_ready (url_removed s removed) ;;;
    remove_dead (url_removed s removed) ;;;
    let* after := gets (fun s => activeCount (w_mu s)) in
    promoteStandbyGracefullyWithLock (activeCount (w_mu s) - after)
  end.

Definition pool_size (s : World) : Z := Z.of_nat (length (ready (w_mu s))) + Z.of_nat (length (dead (w_mu s))).

Definition roundRobin_update (added removed : option (list loc)) : M World unit :=
  match added, removed with
  | None, None => ret tt
  | _, _ =>
    (let* s := gets (fun s => s) in
     recalculateWarmupParamsWithLock
       (pool_size s + Z.of_nat (length (elems added)) - Z.of_nat (length (elems removed)))) ;;;
    forM (elems added) (admit_conn (fun conn => negb (isDedicatedClusterManager (c_Roles conn)))) ;;;
    rearrange_if added ;;;
    roundRobin_remove removed
  end.

(** CoordinatorPolicy.DiscoveryUpdate, with a pool and not disabled. *)
Definition count_matching (s : World) (matches : Connection -> bool) (l : list loc) : Z :=
  Z.of_nat (length (filter (fun c => matches (conn_at s c) = true) l)).

Definition coordinator_remove (removed : option (list loc)) : M World unit :=
  match removed with
  | None => ret tt
  | Some removed =>
    let* s := gets (fun s => s) in
    remove_ready (url_removed s removed) ;;;
    (let* after := gets (fun s => activeCount (w_mu s)) in
     promoteStandbyGracefullyWithLock (activeCount (w_mu s) - after)) ;;;
    remove_dead (url_removed s removed)
  end.

Definition coordinator_update (added removed : option (list loc)) : M World unit :=
  match added, removed with
  | None, None => ret tt
  | _, _ =>
    (let* s := gets (fun s => s) in
     recalculateWarmupParamsWithLock
       (pool_size s + count_matching s isCoordinatingOnly (elems added) - count_matching s isCoordinatingOnly (elems removed))) ;;;
    forM (elems added) (admit_conn isCoordinatingOnly) ;;;
    rearrange_if added ;;;
    coordinator_remove removed
  end.

(** RolePolicy.discoveryUpdateRemove: a look under the read lock, and what it
    then does under the write lock. *)
Definition role_prune (removed : list loc) : M World unit :=
  let* s := gets (fun s => s) in
  remove_ready (url_removed s removed) ;;;
  remove_dead (url_removed s removed) ;;;
  let* after := gets (fun s => activeCount (w_mu s)) in
  promoteStandbyGracefullyWithLock (activeCount (w_mu s) - after).
Definition role_update_remove (removed : list loc) : M World unit :=
  let* s := gets (fun s => s) in
  if negb (existsb (url_removed s removed) (ready (w_mu s)) || existsb (url_removed s removed) (dead (w_mu s))) then ret tt
  else role_prune removed.

(** RolePolicy.DiscoveryUpdate, with a pool and not disabled. *)
Definition role_update (requiredRoleKey : string) (added removed : option (list loc)) : M World unit :=
  (let* s := gets (fun s => s) in
   recalculateWarmupParamsWithLock
     (pool_size s + count_matching s (connectionMatchesRoles requiredRoleKey) (elems added) -
      count_matching s (connectionMatchesRoles requiredRoleKey) (elems removed))) ;;;
  (if added is Some added then forM added (role_admit requiredRoleKey) else ret tt) ;;;
  (if removed is Some removed then role_update_remove removed else ret tt).

(** * Membership *)

(** The member map is the set of the entries. *)
Definition members_ok (m : PoolMu) : Prop := forall c, c ∈ members m <-> c ∈ held m.

(** The added connections a policy takes in: those it admits that are not
    members yet, once each. *)
Definition admitted (admits : Connection -> bool) (s : World) (added : list loc) : list loc :=
  foldl (fun new c => if decide (admits (conn_at s c) = true /\ c ∉ members (w_mu s) /\ c ∉ new) then new ++ [c] else new) [] added.

Definition healthy (s : World) (c : loc) : bool := isReady (c_state (conn_at s c)).

(** The entries they make: as many as their weight in ready, or one in dead. *)
Definition new_ready (s : World) (new : list loc) : list loc :=
  concat ((fun c => entries c (effectiveWeight (conn_at s c))) <$> filter (fun c => healthy s c = true) new).
Definition new_dead (s : World) (new : list loc) : list loc := filter (fun c => healthy s c = false) new.

(** [s] is [s0] after the connections [new] have joined. *)
Record joined (s0 : World) (new : list loc) (s : World) : Prop := {
  j_bounds : pool_bounds (w_mu s);
  j_ready : ready (w_mu s) ≡ₚ ready (w_mu s0) ++ new_ready s0 new;
  j_dead : dead (w_mu s) ≡ₚ dead (w_mu s0) ++ new_dead s0 new;
  j_members : members (w_mu s) = members (w_mu s0) ∪ list_to_set new;
  j_ids : forall c, conn_id (conn_at s c) = conn_id (conn_at s0 c);
  j_others : forall c, c ∉ held (w_mu s0) -> c ∉ new -> conn_at s c = conn_at s0 c }.

Lemma joined_start s : pool_bounds (w_mu s) -> joined s [] s.
Proof. intros Hb. split; try done; unfold new_ready, new_dead; cbn; rewrite ?app_nil_r; [done | done |]. set_solver. Qed.

Lemma new_ready_in s new c : c ∈ new_ready s new <-> c ∈ new /\ healthy s c = true.
Proof.
  unfold new_ready. rewrite list_elem_of_In, in_concat. split.
  - intros (l & Hl & Hc). apply list_elem_of_In, list_elem_of_fmap in Hl as (d & -> & Hd).
    apply list_elem_of_In, elem_of_replicate in Hc as [-> _]. apply list_elem_of_filter in Hd. tauto.
  - intros [Hc Hh]. exists (entries c (effectiveWeight (conn_at s c))). split.
    + apply list_elem_of_In, list_elem_of_fmap. exists c. split; [done |]. apply list_elem_of_filter. by split.
    + apply list_elem_of_In, elem_of_replicate. pose proof (effectiveWeight_pos (conn_at s c)). split; [done | lia].
Qed.

Lemma new_dead_in s new c : c ∈ new_dead s new <-> c ∈ new /\ healthy s c = false.
Proof. unfold new_dead. rewrite list_elem_of_filter. tauto. Qed.

Lemma new_ready_snoc s new c :
  new_ready s (new ++ [c]) = new_ready s new ++ (if healthy s c then entries c (effectiveWeight (conn_at s c)) else []).
Proof.
  unfold new_ready. rewrite filter_app, fmap_app, concat_app. f_equal. rewrite filter_cons, filter_nil.
  destruct (healthy s c); case_decide; try done. cbn. by rewrite app_nil_r.
Qed.

Lemma new_dead_snoc s new c : new_dead s (new ++ [c]) = new_dead s new ++ (if healthy s c then [] else [c]).
Proof.
  unfold new_dead. rewrite filter_app. f_equal. rewrite filter_cons, filter_nil. by destruct (healthy s c); case_decide.
Qed.

Lemma joined_held s0 new s c : joined s0 new s -> c ∈ held (w_mu s) <-> c ∈ held (w_mu s0) \/ c ∈ new.
Proof.
  intros [_ Hr Hd _ _ _]. unfold held. rewrite !elem_of_app, Hr, Hd, !elem_of_app, new_ready_in, new_dead_in.
  destruct (healthy s0 c); intuition congruence.
Qed.

Lemma joined_wf s0 new s : members_ok (w_mu s0) -> joined s0 new s -> members_ok (w_mu s).
Proof.
  intros Hwf Hj c. rewrite (joined_held _ _ _ _ Hj), (j_members _ _ _ Hj), elem_of_union, elem_of_list_to_set, (Hwf c). done.
Qed.

(** Reordering and state changes of pool connections keep the description. *)
Lemma joined_reorder s0 new s s' :
  joined s0 new s -> pool_bounds (w_mu s') -> ready (w_mu s') ≡ₚ ready (w_mu s) -> dead (w_mu s') ≡ₚ dead (w_mu s) ->
  members (w_mu s') = members (w_mu s) -> (forall c, conn_id (conn_at s' c) = conn_id (conn_at s c)) ->
  (forall c, c ∉ held (w_mu s) -> conn_at s' c = conn_at s c) -> joined s0 new s'.
Proof.
  intros Hj Hb Hr Hd Hm Hid Ho. pose proof (fun c => joined_held _ _ _ c Hj) as Hh. destruct Hj as [_ Jr Jd Jm Ji Jo].
  split; [done | by rewrite Hr | by rewrite Hd | congruence | intros c; by rewrite Hid | intros c H1 H2].
  rewrite Ho; [by apply Jo |]. rewrite Hh. tauto.
Qed.

(** One connection joins. *)
Lemma joined_snoc s0 new s s' c :
  joined s0 new s -> c ∉ held (w_mu s0) -> c ∉ new ->
  pool_bounds (w_mu s') ->
  ready (w_mu s') ≡ₚ ready (w_mu s) ++ (if healthy s0 c then entries c (effectiveWeight (conn_at s0 c)) else []) ->
  dead (w_mu s') ≡ₚ dead (w_mu s) ++ (if healthy s0 c then [] else [c]) ->
  members (w_mu s') = {[c]} ∪ members (w_mu s) ->
  conn_id (conn_at s' c) = conn_id (conn_at s c) -> (forall x, x <> c -> conn_at s' x = conn_at s x) ->
  joined s0 (new ++ [c]) s'.
Proof.
  intros [_ Jr Jd Jm Ji Jo] Hh Hn Hb Hr Hd Hm Hid Ho. split.
  - done.
  - by rewrite Hr, Jr, new_ready_snoc, app_assoc.
  - by rewrite Hd, Jd, new_dead_snoc, app_assoc.
  - rewrite Hm, Jm, list_to_set_app_L. clear. set_solver.
  - intros x. destruct (decide (x = c)) as [-> | Hne]; [by rewrite Hid | by rewrite Ho].
  - intros x Hx Hxn. rewrite not_elem_of_app, list_elem_of_singleton in Hxn. rewrite Ho by tauto. apply Jo; tauto.
Qed.

(** * The loops that add *)

Definition role_only (admits : Connection -> bool) : Prop := forall c c', conn_id c = conn_id c' -> admits c = admits c'.

Lemma startWarmup_id c r k : conn_id (conn_startWarmup c r k) = conn_id c.
Proof. done. Qed.

Lemma wp_admit_ready A S D c s :
  lists A S D (w_mu s) ->
  wp (admit_ready c) (fun s' _ => lists (A ++ entries c (effectiveWeight (conn_at s c))) S D (w_mu s') /\
    members (w_mu s') = members (w_mu s) /\ conn_id (conn_at s' c) = conn_id (conn_at s c) /\
    forall x, x <> c -> conn_at s' x = conn_at s x) s.
Proof.
  intros Hl. unfold admit_ready. wp_step. apply wp_upd_conn. intros s1 Hc1 [_ Ho1] Hm1 _ _ _. do 3 wp_step.
  apply wp_upd_conn. intros s2 Hc2 [_ Ho2] Hm2 _ _ _.
  assert (Hid : conn_id (conn_at s2 c) = conn_id (conn_at s c)) by (rewrite Hc2, Hc1, startWarmup_id; apply cas_id).
  apply (wp_appendToReadyActive A S D); [by rewrite Hm2, Hm1 |]. intros s3 Hl3 Hs3 _.
  assert (Hw : effectiveWeight (conn_at s2 c) = effectiveWeight (conn_at s c)).
  { apply effectiveWeight_ext. by injection Hid. }
  rewrite Hw in Hl3. split; [done |]. split; [| split].
  - destruct Hs3 as [[= Hmem] _]. by rewrite Hmem, Hm2, Hm1.
  - by rewrite (same_conn_at _ _ _ Hs3).
  - intros x Hx. by rewrite (same_conn_at _ _ _ Hs3), Ho2, Ho1.
Qed.

Lemma wp_admit_dead A S D c s :
  lists A S D (w_mu s) ->
  wp (admit_dead c) (fun s' _ => lists A S (D ++ [c]) (w_mu s') /\ members (w_mu s') = members (w_mu s) /\
    conn_id (conn_at s' c) = conn_id (conn_at s c) /\ forall x, x <> c -> conn_at s' x = conn_at s x) s.
Proof.
  intros Hl. unfold admit_dead. wp_step. apply wp_upd_conn. intros s1 Hc1 [_ Ho1] Hm1 _ _ _.
  apply (wp_appendToDead A S D); [by rewrite Hm1 |]. intros s2 Hl2 [Hcf2 Ho2] _ Hc2 _ _ _ _.
  split; [done |]. split; [| split].
  - injection Hcf2 as Hmem. by rewrite Hmem, Hm1.
  - rewrite Hc2, dead_invariant_id, Hc1. apply cas_id.
  - intros x Hx. by rewrite Ho2, Ho1.
Qed.

(** The part common to the three loop bodies, once [c] is a member. *)
Definition enrol (c : loc) (s : World) : World := with_mu s (mu_members (w_mu s) ({[c]} ∪ members (w_mu s))).

Lemma wp_enrolled s0 new c s :
  joined s0 new s -> c ∉ held (w_mu s0) -> c ∉ new ->
  isReady (c_state (conn_at s c)) = healthy s0 c /\
  wp (if healthy s0 c then admit_ready c else admit_dead c) (fun s' _ => joined s0 (new ++ [c]) s') (enrol c s).
Proof.
  intros Hj Hh Hn. pose proof (j_others _ _ _ Hj c Hh Hn) as Hc.
  split; [by rewrite Hc |]. set (s1 := enrol c s).
  assert (Hl : lists (active_part (w_mu s1)) (standby_part (w_mu s1)) (dead (w_mu s1)) (w_mu s1)).
  { apply lists_self, (j_bounds _ _ _ Hj). }
  destruct (healthy s0 c) eqn:Hhc.
  - eapply wp_mono; [apply (wp_admit_ready _ _ _ c s1 Hl) |]. intros s2 _ (Hl2 & Hm2 & Hid & Ho).
    apply (joined_snoc s0 new s s2 c Hj Hh Hn); rewrite ?Hhc; [apply Hl2 | | | by rewrite Hm2 | done | done].
    + rewrite (lists_ready _ _ _ _ Hl2). change (conn_at s1 c) with (conn_at s c). rewrite Hc.
      change (ready (w_mu s)) with (ready (w_mu s1)). rewrite (ready_parts (w_mu s1)). solve_Permutation.
    + destruct Hl2 as (_ & _ & _ & ->). by rewrite app_nil_r.
  - eapply wp_mono; [apply (wp_admit_dead _ _ _ c s1 Hl) |]. intros s2 _ (Hl2 & Hm2 & Hid & Ho).
    apply (joined_snoc s0 new s s2 c Hj Hh Hn); rewrite ?Hhc; [apply Hl2 | | | by rewrite Hm2 | done | done].
    + rewrite (lists_ready _ _ _ _ Hl2), app_nil_r. by rewrite <- ready_parts.
    + by destruct Hl2 as (_ & _ & _ & ->).
Qed.

Lemma warm_partition s (l : list loc) : l ≡ₚ warm s l ++ warmed s l.
Proof.
  unfold warm, warmed. induction l as [| c l IH]; [done |]. rewrite !filter_cons.
  destruct (is_warming s c); case_decide; case_decide; try done; rewrite IH at 1; solve_Permutation.
Qed.

(** Shuffling and cap enforcement rearrange what is there. *)
Lemma wp_rearrange s0 new s :
  joined s0 new s -> wp (shuffleActiveWithLock ;;; enforceActiveCapWithLock) (fun s' _ => joined s0 new s') s.
Proof.
  intros Hj. assert (Hl : lists (active_part (w_mu s)) (standby_part (w_mu s)) (dead (w_mu s)) (w_mu s)) by apply lists_self, (j_bounds _ _ _ Hj).
  wp_step. apply (wp_shuffleActive _ _ _ s _ Hl). intros s1 Hl1 Hs1 _.
  assert (Hj1 : joined s0 new s1).
  { apply (joined_reorder s0 new s); [done | apply Hl1 | | by destruct Hl1 as (_ & _ & _ & ->) | | |].
    - by rewrite (lists_ready _ _ _ _ Hl1), <- ready_parts.
    - by destruct Hs1 as [[= ->] _].
    - intros c. by rewrite (same_conn_at _ _ _ Hs1).
    - intros c _. by rewrite (same_conn_at _ _ _ Hs1). }
  destruct (wp_enforceActiveCap s1 _ _ _ Hl1) as [Hno Htrim].
  destruct (decide (0 < activeListCap (w_mu s1) < Z.of_nat (length (warmed s1 (active_part (w_mu s)))))) as [Hcap | Hcap].
  2: { unfold wp. by rewrite Hno by lia. }
  eapply wp_mono; [by apply Htrim |]. intros s2 _ (K & O & Hw & _ & Hl2 & Hcf & [Hd Ho] & _).
  assert (Hpart : active_part (w_mu s) ≡ₚ warm s1 (active_part (w_mu s)) ++ K ++ O).
  { etrans; [apply (warm_partition s1) | by rewrite Hw]. }
  apply (joined_reorder s0 new s1); [done | apply Hl2 | | | by injection Hcf | |].
  - rewrite (lists_ready _ _ _ _ Hl2), (lists_ready _ _ _ _ Hl1).
    etrans; [| apply Permutation_app_tail; symmetry; exact Hpart]. solve_Permutation.
  - destruct Hl2 as (_ & _ & _ & ->), Hl1 as (_ & _ & _ & ->). done.
  - intros c. destruct (decide (c ∈ O)) as [Hc | Hc]; [| by rewrite Ho].
    destruct (Hd c Hc) as (_ & _ & w & ->). done.
  - intros c Hc. apply Ho. intros Hin. apply Hc. unfold held. apply elem_of_app. left.
    rewrite (lists_ready _ _ _ _ Hl1). apply elem_of_app. left. eapply elem_of_Permutation_proper; [exact Hpart |].
    rewrite !elem_of_app. tauto.
Qed.

Definition join_step (admits : Connection -> bool) (s : World) (new : list loc) (c : loc) : list loc :=
  if decide (admits (conn_at s c) = true /\ c ∉ members (w_mu s) /\ c ∉ new) then new ++ [c] else new.

Lemma admitted_snoc admits s l c : admitted admits s (l ++ [c]) = join_step admits s (admitted admits s l) c.
Proof. unfold admitted. by rewrite foldl_app. Qed.

(** The guards of the loop bodies decide as [join_step] does. *)
Lemma guard_agrees admits s0 new s c :
  role_only admits -> joined s0 new s ->
  admits (conn_at s c) = admits (conn_at s0 c) /\
  (c ∈ members (w_mu s) <-> c ∈ members (w_mu s0) \/ c ∈ new).
Proof.
  intros Hadm Hj. split; [apply Hadm, (j_ids _ _ _ Hj) |]. rewrite (j_members _ _ _ Hj). set_solver.
Qed.

Lemma wp_admit admits s0 new c s :
  role_only admits -> members_ok (w_mu s0) -> joined s0 new s ->
  wp (admit_conn admits c) (fun s' _ => joined s0 (join_step admits s0 new c) s') s.
Proof.
  intros Hadm Hwf Hj. destruct (guard_agrees admits s0 new s c Hadm Hj) as [Ha Hm].
  unfold admit_conn, join_step. do 2 wp_step. rewrite Ha. destruct (admits (conn_at s0 c)); cbn [negb].
  2: { rewrite decide_False by (by intros []). by apply wp_ret. }
  do 2 wp_step. case_bool_decide as Hmem.
  { rewrite decide_False by (intros (_ & ? & ?); tauto). by apply wp_ret. }
  rewrite decide_True by (split; [done | tauto]). unfold upd_mu. do 4 wp_step.
  assert (Hh : c ∉ held (w_mu s0)) by (rewrite <- (Hwf c); tauto).
  destruct (wp_enrolled s0 new c s Hj Hh ltac:(tauto)) as [Hready Hwp].
  change (isReady _) with (isReady (c_state (conn_at s c))). rewrite Hready. exact Hwp.
Qed.

Lemma wp_role_admit key s0 new c s :
  members_ok (w_mu s0) -> joined s0 new s ->
  wp (role_admit key c) (fun s' _ => joined s0 (join_step (connectionMatchesRoles key) s0 new c) s') s.
Proof.
  intros Hwf Hj. assert (Hadm : role_only (connectionMatchesRoles key)).
  { intros x y H. unfold connectionMatchesRoles. by injection H as _ _ -> _ _ _ _. }
  destruct (guard_agrees _ s0 new s c Hadm Hj) as [Ha Hm].
  unfold role_admit, join_step. do 2 wp_step. rewrite Ha. destruct (connectionMatchesRoles key (conn_at s0 c)); cbn [negb].
  2: { rewrite decide_False by (by intros []). by apply wp_ret. }
  do 2 wp_step. case_bool_decide as Hmem.
  { rewrite decide_False by (intros (_ & ? & ?); tauto). by apply wp_ret. }
  rewrite decide_True by (split; [done | tauto]). unfold upd_mu. do 4 wp_step.
  assert (Hh : c ∉ held (w_mu s0)) by (rewrite <- (Hwf c); tauto).
  destruct (wp_enrolled s0 new c s Hj Hh ltac:(tauto)) as [Hready Hwp]. rewrite Hready.
  destruct (healthy s0 c); [| exact Hwp]. wp_step. eapply wp_mono; [exact Hwp |]. intros s1 [] Hj1. by apply wp_rearrange.
Qed.

Lemma wp_admit_loop (body : loc -> M World unit) admits s0 l s :
  (forall new c s, joined s0 new s -> wp (body c) (fun s' _ => joined s0 (join_step admits s0 new c) s') s) ->
  joined s0 [] s -> wp (forM l body) (fun s' _ => joined s0 (admitted admits s0 l) s') s.
Proof.
  intros Hbody Hj. apply (wp_forM l body (fun visited s' => joined s0 (admitted admits s0 visited) s')); [done |].
  intros visited c rest s' _ Hj'. rewrite admitted_snoc. by apply Hbody.
Qed.

(** * Removal *)

Lemma filter_ready_spec found ac l : forall i, 
  filter_ready found ac i l =
    (filter (fun c => found c = false) l,
     Z.of_nat (length (filter (fun c => found c = false) (take (Z.to_nat (ac - i)) l))),
     filter (fun c => found c = true) l).
Proof.
  induction l as [| c l IH]; intros i; [by rewrite take_nil |]. cbn [filter_ready]. rewrite IH, !filter_cons.
  destruct (Z.ltb_spec i ac) as [Hi | Hi].
  - replace (Z.to_nat (ac - i)) with (S (Z.to_nat (ac - (i + 1)))) by lia. rewrite firstn_cons, filter_cons.
    destruct (found c); repeat case_decide; try done. cbn [length]. f_equal. f_equal. lia.
  - replace (Z.to_nat (ac - i)) with 0%nat by lia. replace (Z.to_nat (ac - (i + 1))) with 0%nat by lia.
    destruct (found c); repeat case_decide; done.
Qed.

(** [s] is [s1] without the connections [found] tells. *)
Record pruned (found : loc -> bool) (s1 s : World) : Prop := {
  pr_bounds : pool_bounds (w_mu s);
  pr_ready : ready (w_mu s) = filter (fun c => found c = false) (ready (w_mu s1));
  pr_dead : dead (w_mu s) = filter (fun c => found c = false) (dead (w_mu s1));
  pr_members : forall c, c ∈ members (w_mu s) <-> c ∈ members (w_mu s1) /\ (c ∈ held (w_mu s1) -> found c = false);
  pr_heap : w_heap s = w_heap s1 }.

Definition keeps_pool (s s' : World) : Prop := w_mu s' = w_mu s /\ w_heap s' = w_heap s.

Lemma wp_promoteGracefully gap s (Q : World -> unit -> Prop) :
  (forall s', keeps_pool s s' -> Q s' tt) -> wp (promoteStandbyGracefullyWithLock gap) Q s.
Proof.
  intros HQ. unfold promoteStandbyGracefullyWithLock. do 2 wp_step. wp_step; [by apply wp_ret, HQ |].
  eapply wp_mono; [apply (wp_forM _ _ (fun _ s' => keeps_pool s s')) | intros s' [] H; by apply HQ].
  - done.
  - intros visited x rest s' _ [H1 H2]. unfold spawn. by wp_step.
Qed.

Lemma remove_bounds found m :
  pool_bounds m ->
  0 <= Z.of_nat (length (filter (fun c => found c = false) (take (Z.to_nat (activeCount m - 0)) (ready m)))) <=
    Z.of_nat (length (filter (fun c => found c = false) (ready m))).
Proof.
  intros Hb. set (n := Z.to_nat (activeCount m - 0)).
  assert (H : filter (fun c => found c = false) (ready m) =
    filter (fun c => found c = false) (take n (ready m)) ++ filter (fun c => found c = false) (drop n (ready m)))
    by (by rewrite <- filter_app, take_drop).
  rewrite H, length_app. lia.
Qed.

Lemma wp_remove_ready found s (Q : World -> unit -> Prop) :
  pool_bounds (w_mu s) ->
  (forall s', pool_bounds (w_mu s') -> ready (w_mu s') = filter (fun c => found c = false) (ready (w_mu s)) ->
     dead (w_mu s') = dead (w_mu s) -> w_heap s' = w_heap s ->
     members (w_mu s') = members (w_mu s) ∖ list_to_set (filter (fun c => found c = true) (ready (w_mu s))) -> Q s' tt) ->
  wp (remove_ready found) Q s.
Proof.
  intros Hb HQ. unfold remove_ready, upd_mu. wp_step. rewrite filter_ready_spec. apply HQ; try done. by apply remove_bounds.
Qed.

Lemma pruned_intro found s s1 s2 :
  pool_bounds (w_mu s2) -> ready (w_mu s2) = ready (w_mu s1) -> w_heap s2 = w_heap s1 -> w_heap s1 = w_heap s ->
  ready (w_mu s1) = filter (fun c => found c = false) (ready (w_mu s)) -> dead (w_mu s1) = dead (w_mu s) ->
  members (w_mu s1) = members (w_mu s) ∖ list_to_set (filter (fun c => found c = true) (ready (w_mu s))) ->
  dead (w_mu s2) = filter (fun c => found c = false) (dead (w_mu s1)) ->
  members (w_mu s2) = members (w_mu s1) ∖ list_to_set (filter (fun c => found c = true) (dead (w_mu s1))) ->
  pruned found s s2.
Proof.
  intros Hb Hr2 Hh2 Hh1 Hr1 Hd1 Hm1 Hd2 Hm2. split; [done | congruence | congruence | | congruence].
  intros c. rewrite Hm2, Hm1, Hd1. unfold held. rewrite !elem_of_difference, !elem_of_list_to_set, !list_elem_of_filter, elem_of_app.
  destruct (found c); [| intuition congruence]. intuition congruence.
Qed.

Lemma wp_remove_dead_after found s s1 (Q : World -> unit -> Prop) :
  pool_bounds (w_mu s1) -> w_heap s1 = w_heap s ->
  ready (w_mu s1) = filter (fun c => found c = false) (ready (w_mu s)) -> dead (w_mu s1) = dead (w_mu s) ->
  members (w_mu s1) = members (w_mu s) ∖ list_to_set (filter (fun c => found c = true) (ready (w_mu s))) ->
  (forall s2, pruned found s s2 -> Q s2 tt) -> wp (remove_dead found) Q s1.
Proof.
  intros Hb Hh Hr Hd Hm HQ. unfold remove_dead, upd_mu. wp_step. apply HQ.
  apply (pruned_intro found s s1); done.
Qed.

(** * What an update does *)

(** The pool after an update that admits by [admits]: of what it held and of
    the admitted connections, those whose URL is not among the removed. *)
Record synced (admits : Connection -> bool) (added removed : list loc) (s0 s : World) : Prop := {
  sy_bounds : pool_bounds (w_mu s);
  sy_ready : ready (w_mu s) ≡ₚ filter (fun c => url_removed s0 removed c = false)
               (ready (w_mu s0) ++ new_ready s0 (admitted admits s0 added));
  sy_dead : dead (w_mu s) ≡ₚ filter (fun c => url_removed s0 removed c = false)
               (dead (w_mu s0) ++ new_dead s0 (admitted admits s0 added));
  sy_members : members_ok (w_mu s);
  sy_ids : forall c, conn_id (conn_at s c) = conn_id (conn_at s0 c) }.

Lemma url_removed_ids s0 s removed c :
  (forall c, conn_id (conn_at s c) = conn_id (conn_at s0 c)) -> url_removed s removed c = url_removed s0 removed c.
Proof.
  intros Hid. assert (Hurl : forall x, c_URLString (conn_at s x) = c_URLString (conn_at s0 x)).
  { intros x. pose proof (Hid x) as H. by injection H. }
  unfold url_removed. rewrite Hurl. induction removed as [| r removed IH]; [done |]. cbn. by rewrite Hurl, IH.
Qed.

Lemma filter_ext_list (f g : loc -> bool) (l : list loc) :
  (forall c, f c = g c) -> filter (fun c => f c = false) l = filter (fun c => g c = false) l.
Proof.
  intros H. induction l as [| c l IH]; [done |]. rewrite !filter_cons, IH. destruct (decide (f c = false)), (decide (g c = false)); congruence.
Qed.

Lemma synced_pruned admits added removed s0 s1 s :
  members_ok (w_mu s0) -> joined s0 (admitted admits s0 added) s1 -> pruned (url_removed s1 removed) s1 s ->
  synced admits added removed s0 s.
Proof.
  intros Hwf Hj [Hb Hr Hd Hm Hh]. pose proof (j_ids _ _ _ Hj) as Hid.
  assert (Hf : forall l : list loc, filter (fun c => url_removed s1 removed c = false) l = filter (fun c => url_removed s0 removed c = false) l).
  { intros l. apply filter_ext_list. intros c. by apply url_removed_ids. }
  split; [done | by rewrite Hr, Hf, (j_ready _ _ _ Hj) | by rewrite Hd, Hf, (j_dead _ _ _ Hj) | |].
  - intros c. rewrite Hm, (joined_wf _ _ _ Hwf Hj c). unfold held. rewrite Hr, Hd, <- filter_app, list_elem_of_filter. intuition.
  - intros c. unfold conn_at. rewrite Hh. apply Hid.
Qed.

Lemma synced_joined admits added s0 s :
  members_ok (w_mu s0) -> joined s0 (admitted admits s0 added) s -> synced admits added [] s0 s.
Proof.
  intros Hwf Hj. pose proof (joined_wf _ _ _ Hwf Hj) as Hm. destruct Hj as [Hb Hr Hd _ Hid _].
  assert (Hf : forall l : list loc, filter (fun c => url_removed s0 [] c = false) l = l).
  { induction l as [| c l IH]; [done |]. by rewrite filter_cons, IH. }
  split; [done | by rewrite Hf | by rewrite Hd, Hf | done | done].
Qed.

Lemma synced_keeps admits added removed s0 s s' :
  synced admits added removed s0 s -> keeps_pool s s' -> synced admits added removed s0 s'.
Proof.
  intros [Hb Hr Hd Hm Hid] [Hmu Hheap]. split; rewrite ?Hmu; try done. intros c. unfold conn_at. rewrite Hheap. apply Hid.
Qed.

Lemma wp_recalculate n s (Q : World -> unit -> Prop) :
  pool_bounds (w_mu s) ->
  (forall s', joined s [] s' -> Q s' tt) -> wp (recalculateWarmupParamsWithLock n) Q s.
Proof.
  intros Hb HQ. pose proof (joined_start s Hb) as Hj.
  unfold recalculateWarmupParamsWithLock, upd_mu. do 4 wp_step; repeat wp_step; apply HQ; by destruct Hj.
Qed.

Lemma wp_prune found s :
  pool_bounds (w_mu s) ->
  wp (remove_ready found ;;; remove_dead found ;;;
      let* after := gets (fun s => activeCount (w_mu s)) in
      promoteStandbyGracefullyWithLock (activeCount (w_mu s) - after))
    (fun s' _ => exists s2, pruned found s s2 /\ keeps_pool s2 s') s.
Proof.
  intros Hb. wp_step. apply wp_remove_ready; [done |]. intros s1 Hb1 Hr1 Hd1 Hh1 Hm1.
  wp_step. apply (wp_remove_dead_after found s); [done .. |]. intros s2 Hp. do 2 wp_step.
  apply wp_promoteGracefully. intros s3 Hk. by exists s2.
Qed.

Lemma wp_prune_coordinator found s :
  pool_bounds (w_mu s) ->
  wp (remove_ready found ;;;
      (let* after := gets (fun s => activeCount (w_mu s)) in
       promoteStandbyGracefullyWithLock (activeCount (w_mu s) - after)) ;;;
      remove_dead found)
    (fun s' _ => exists s2, pruned found s s2 /\ keeps_pool s2 s') s.
Proof.
  intros Hb. wp_step. apply wp_remove_ready; [done |]. intros s1 Hb1 Hr1 Hd1 Hh1 Hm1.
  do 3 wp_step. apply wp_promoteGracefully. intros s2 [Hmu Hheap].
  apply (wp_remove_dead_after found s); rewrite ?Hmu; [done | congruence | done .. |].
  intros s3 Hp. by exists s3.
Qed.

Lemma pruned_none found s :
  pool_bounds (w_mu s) ->
  existsb found (ready (w_mu s)) || existsb found (dead (w_mu s)) = false -> pruned found s s.
Proof.
  intros Hb [Hr Hd]%orb_false_iff.
  assert (Hall : forall l : list loc, existsb found l = false -> filter (fun c => found c = false) l = l /\ forall c, c ∈ l -> found c = false).
  { induction l as [| c l IH]; [by split; [| set_solver] |]. cbn [existsb]. intros [Hc Hl]%orb_false_iff. destruct (IH Hl) as [H1 H2].
    rewrite filter_cons, H1, decide_True by done. split; [done |]. intros x [-> | Hx]%elem_of_cons; auto. }
  destruct (Hall _ Hr) as [Hr1 Hr2], (Hall _ Hd) as [Hd1 Hd2]. split; [done | done | done | | done].
  intros c. split; [| tauto]. intros Hc. split; [done |]. unfold held. rewrite elem_of_app. intros [H | H]; auto.
Qed.

Lemma roles_role_only (f : gset string -> bool) : role_only (fun conn => f (c_Roles conn)).
Proof. intros c c' H. by injection H as _ _ -> _ _ _ _. Qed.

Lemma coordinating_role_only : role_only isCoordinatingOnly.
Proof. intros c c' H. unfold isCoordinatingOnly. by injection H as _ _ -> _ _ _ _. Qed.

Lemma wp_rearrange_if s0 added new s : joined s0 new s -> wp (rearrange_if added) (fun s' _ => joined s0 new s') s.
Proof. intros Hj. destruct added; [by apply wp_rearrange | by apply wp_ret]. Qed.

Lemma synced_nothing admits s : pool_bounds (w_mu s) -> members_ok (w_mu s) -> synced admits [] [] s s.
Proof. intros Hb Hm. apply synced_joined; [done |]. by apply joined_start. Qed.

(** The removing halves. *)
Definition removes (m : M World unit) (removed : list loc) : Prop :=
  forall admits added s0 s, members_ok (w_mu s0) -> joined s0 (admitted admits s0 added) s ->
    wp m (fun s' _ => synced admits added removed s0 s') s.

Lemma removes_prune (m : (loc -> bool) -> M World unit) removed :
  (forall found s, pool_bounds (w_mu s) -> wp (m found) (fun s' _ => exists s2, pruned found s s2 /\ keeps_pool s2 s') s) ->
  removes (let* s := gets (fun s => s) in m (url_removed s removed)) removed.
Proof.
  intros Hm admits added s0 s Hwf Hj. do 2 wp_step. eapply wp_mono; [apply Hm, (j_bounds _ _ _ Hj) |].
  intros s' [] (s2 & Hp & Hk). eapply synced_keeps; [by eapply synced_pruned | done].
Qed.

Lemma removes_nothing : removes (ret tt) [].
Proof. intros admits added s0 s Hwf Hj. by apply wp_ret, synced_joined. Qed.

Definition prune_rr (found : loc -> bool) : M World unit :=
  let* s := gets (fun s => s) in
  remove_ready found ;;;
  remove_dead found ;;;
  let* after := gets (fun s => activeCount (w_mu s)) in
  promoteStandbyGracefullyWithLock (activeCount (w_mu s) - after).

Lemma roundRobin_removes removed : removes (roundRobin_remove removed) (elems removed).
Proof.
  destruct removed as [[| c removed] |]; [apply removes_nothing | | apply removes_nothing].
  intros admits added s0 s Hwf Hj. eapply wp_mono; [apply (removes_prune prune_rr); [| done ..] | done].
  intros found s1 Hb1. unfold prune_rr. do 2 wp_step. by apply wp_prune.
Qed.

Lemma coordinator_removes removed : removes (coordinator_remove removed) (elems removed).
Proof.
  destruct removed as [removed |]; [| apply removes_nothing].
  intros admits added s0 s Hwf Hj. eapply wp_mono; [apply (removes_prune (fun found =>
    let* s := gets (fun s => s) in
    remove_ready found ;;;
    (let* after := gets (fun s => activeCount (w_mu s)) in
     promoteStandbyGracefullyWithLock (activeCount (w_mu s) - after)) ;;;
    remove_dead found)); [| done ..] | done].
  intros found s1 Hb1. do 2 wp_step. by apply wp_prune_coordinator.
Qed.

Lemma role_removes removed : removes (role_update_remove removed) removed.
Proof.
  intros admits added s0 s Hwf Hj. unfold role_update_remove. do 2 wp_step.
  destruct (existsb _ _ || existsb _ _) eqn:He; cbn [negb].
  - eapply wp_mono; [apply (removes_prune prune_rr removed); [| done ..] | done].
    intros found s1 Hb1. unfold prune_rr. do 2 wp_step. by apply wp_prune.
  - apply wp_ret. apply (synced_pruned admits added removed s0 s); [done | done |].
    apply pruned_none; [apply (j_bounds _ _ _ Hj) | done].
Qed.

(** The whole update: scale the pool, add, rearrange, remove. *)
Lemma wp_update (size : World -> Z) admits (body : loc -> M World unit) (middle remove : M World unit) added removed s :
  pool_bounds (w_mu s) -> members_ok (w_mu s) ->
  (forall new c s1, joined s new s1 -> wp (body c) (fun s' _ => joined s (join_step admits s new c) s') s1) ->
  (forall new s1, joined s new s1 -> wp middle (fun s' _ => joined s new s') s1) ->
  removes remove removed ->
  wp ((let* s := gets (fun s => s) in recalculateWarmupParamsWithLock (size s)) ;;; forM added body ;;; middle ;;; remove)
    (fun s' _ => synced admits added removed s s') s.
Proof.
  intros Hb Hm Hbody Hmid Hrem. do 3 wp_step. apply wp_recalculate; [done |]. intros s1 Hj1. wp_step.
  eapply wp_mono; [by apply (wp_admit_loop body admits s) |]. intros s2 [] Hj2. wp_step.
  eapply wp_mono; [by apply Hmid |]. intros s3 [] Hj3. by apply Hrem.
Qed.

Lemma wp_roundRobin_update s added removed :
  pool_bounds (w_mu s) -> members_ok (w_mu s) ->
  wp (roundRobin_update added removed)
    (fun s' _ => synced (fun conn => negb (isDedicatedClusterManager (c_Roles conn))) (elems added) (elems removed) s s') s.
Proof.
  intros Hb Hm. destruct (decide (added = None /\ removed = None)) as [[-> ->] | Hsome]; [by apply wp_ret, synced_nothing |].
  assert (Hgo := fun size => wp_update size _ _ (rearrange_if added) (roundRobin_remove removed) (elems added) (elems removed) s Hb Hm
    (fun new c s1 Hj => wp_admit _ s new c s1 (roles_role_only (fun r => negb (isDedicatedClusterManager r))) Hm Hj)
    (fun new s1 Hj => wp_rearrange_if s added new s1 Hj) (roundRobin_removes removed)).
  unfold roundRobin_update. destruct added, removed; try apply Hgo. by destruct Hsome.
Qed.

Lemma wp_coordinator_update s added removed :
  pool_bounds (w_mu s) -> members_ok (w_mu s) ->
  wp (coordinator_update added removed) (fun s' _ => synced isCoordinatingOnly (elems added) (elems removed) s s') s.
Proof.
  intros Hb Hm. destruct (decide (added = None /\ removed = None)) as [[-> ->] | Hsome]; [by apply wp_ret, synced_nothing |].
  assert (Hgo := fun size => wp_update size _ _ (rearrange_if added) (coordinator_remove removed) (elems added) (elems removed) s Hb Hm
    (fun new c s1 Hj => wp_admit _ s new c s1 coordinating_role_only Hm Hj)
    (fun new s1 Hj => wp_rearrange_if s added new s1 Hj) (coordinator_removes removed)).
  unfold coordinator_update. destruct added, removed; try apply Hgo. by destruct Hsome.
Qed.

Lemma wp_role_update key s added removed :
  pool_bounds (w_mu s) -> members_ok (w_mu s) ->
  wp (role_update key added removed) (fun s' _ => synced (connectionMatchesRoles key) (elems added) (elems removed) s s') s.
Proof.
  intros Hb Hm. unfold role_update. do 3 wp_step. apply wp_recalculate; [done |]. intros s1 Hj1. wp_step.
  assert (Hadd : wp (if added is Some added then forM added (role_admit key) else ret tt)
    (fun s' _ => joined s (admitted (connectionMatchesRoles key) s (elems added)) s') s1).
  { destruct added as [added |]; [| by apply wp_ret]. apply wp_admit_loop; [| done].
    intros new c s2 Hj2. by apply wp_role_admit. }
  eapply wp_mono; [exact Hadd |]. intros s2 [] Hj2. destruct removed as [removed |].
  - by apply role_removes.
  - by apply removes_nothing.
Qed.

(** * The policyState words *)

(** The retry loops write each half of the word and leave the other: a policy
    disabled by the environment stays disabled whatever discovery finds, and
    one enabled by it follows the runtime bit. *)
Lemma psSetEnabled_env enabled word : Z.land (psSetEnabled enabled word) psEnvDisabled = Z.land word psEnvDisabled.
Proof.
  change (psSetEnabled enabled word) with (Z.lor (Z.ldiff word psDynamicMask) (if enabled then psEnabled else psDisabled)).
  apply Z.bits_inj. intros i. rewrite !Z.land_spec, Z.lor_spec, Z.ldiff_spec.
  destruct (decide (i = 3)) as [-> | Hi]; [by destruct enabled, (Z.testbit word 3) |].
  assert (Z.testbit psEnvDisabled i = false) as ->; [| by rewrite !andb_false_r].
  apply (Z.pow2_bits_false 3). lia.
Qed.

Lemma psIsEnabled_set enabled word :
  psIsEnabled (psSetEnabled enabled word) = enabled && (Z.land word psEnvDisabled =? 0).
Proof.
  unfold psIsEnabled. rewrite psSetEnabled_env. destruct (Z.land word psEnvDisabled =? 0); cbn [negb]; [| by rewrite andb_false_r].
  rewrite andb_true_r. change (psSetEnabled enabled word) with (Z.lor (Z.ldiff word psDynamicMask) (if enabled then psEnabled else psDisabled)).
  assert (Z.land (Z.lor (Z.ldiff word psDynamicMask) (if enabled then psEnabled else psDisabled)) psEnabled = (if enabled then 1 else 0)) as ->;
    [| by destruct enabled].
  apply Z.bits_inj. intros i. rewrite !Z.land_spec, Z.lor_spec, Z.ldiff_spec.
  destruct (decide (i = 0)) as [-> | Hi]; [destruct enabled; cbn; by rewrite ?andb_false_r |].
  assert (Z.testbit psEnabled i = false) as -> by (apply (Z.pow2_bits_false 0); lia).
  rewrite andb_false_r. destruct enabled; [| by rewrite Z.bits_0]. symmetry. apply (Z.pow2_bits_false 0). lia.
Qed.

(** * Theorems *)

(** C18: What a discovery update leaves in a policy's pool. Given a pool whose
    boundary is in range and whose member map is the set of its entries, the
    updates of RoundRobinPolicy, CoordinatorPolicy and RolePolicy never panic
    and keep both facts; afterwards the ready and dead lists are, up to order,
    what they were plus the added connections the policy admits that were not
    members (healthy ones as often as their weight in ready, the others once
    in dead), less every connection whose URL is that of a removed one; no
    connection changes identity. *)
Theorem discovery_membership s key added removed :
  pool_bounds (w_mu s) -> members_ok (w_mu s) ->
  wp (roundRobin_update added removed)
    (fun s' _ => synced (fun conn => negb (isDedicatedClusterManager (c_Roles conn))) (elems added) (elems removed) s s') s /\
  wp (coordinator_update added removed) (fun s' _ => synced isCoordinatingOnly (elems added) (elems removed) s s') s /\
  wp (role_update key added removed) (fun s' _ => synced (connectionMatchesRoles key) (elems added) (elems removed) s s') s.
Proof.
  intros Hb Hm. split_and!; [by apply wp_roundRobin_update | by apply wp_coordinator_update | by apply wp_role_update].
Qed.

(** A pool over [ex_world]'s heap with an active data node of weight 2 and a
    data node never seen, both not yet members. *)
Definition ex_data_node (url : string) (lc weight : Z) : Connection :=
  MkConnection url url url {[ "data"%string ]} weight 8 (Some (newRTTRing 4)) pr_zero 0 (newConnState lc) 0 0 0 0 false.
Definition ex_world_joining : World :=
  with_heap ex_world (<[5%nat := ex_data_node "http://n5:9200" (lcReady ||| lcActive ||| lcViable) 2]>
    (<[6%nat := ex_data_node "http://n6:9200" lcDead 1]> ex_pool_heap)).

Lemma ex_world_joining_ok : pool_bounds (w_mu ex_world_joining) /\ members_ok (w_mu ex_world_joining).
Proof.
  split; [vm_compute; split; congruence |]. intros c. change (c ∈ (list_to_set [0; 1; 2; 3; 4]%nat : gset loc) <-> c ∈ [0; 1; 1; 2; 4; 3]%nat).
  rewrite elem_of_list_to_set. set_solver.
Qed.

(** Nodes 5 and 6 join the role pool, node 1 leaves it. *)
Lemma discovery_membership_witness :
  lists_after (role_update "data" (Some [5; 6; 0]%nat) (Some [1]%nat) ex_world_joining) = Some ([5; 5; 0; 2]%nat, 3, [4; 3; 6]%nat) /\
  wp (role_update "data" (Some [5; 6; 0]%nat) (Some [1]%nat))
    (fun s' _ => synced (connectionMatchesRoles "data") [5; 6; 0]%nat [1]%nat ex_world_joining s') ex_world_joining.
Proof.
  split; [vm_compute; reflexivity |]. destruct ex_world_joining_ok as [Hb Hm].
  exact (proj2 (proj2 (discovery_membership ex_world_joining "data" (Some [5; 6; 0]%nat) (Some [1]%nat) Hb Hm))).
Defined.
