(* ===== verification/PoolSteps.v ===== *)
(** The pool as a state machine: the critical sections of its operations and of
    the discovery updates of the leaf policies as atomic steps, interleaved with
    each other and with whatever the rest of the program does to the shared
    connections. The theorem is that no interleaving makes a section panic or
    breaks the pool's invariant.

    The one writer of the lists that is not a step is the transport's own
    refresh of its pool of all connections (DiscoveryPool.v): it replaces the
    lists in one section and the boundary in the next, and
    [DiscoveryPool.swap_window_panics] shows a selection panicking in between. *)

From Stdlib Require Import ZArith Lia String.
From stdpp Require Import base gmap list strings sorting.
From S2P Require Import Prelude.
From S2P Require Import Atomic.
From S2P Require Import Lifecycle.
From S2P Require Import Warmup.
From S2P Require Import Rtt.
From S2P Require Import Congestion.
From S2P Require Import Conn.
From S2P Require Import Pool.
From S2P Require Import PoolResurrect.
From S2P Require Import PoolStandby.
From S2P Require Import PoolSelect.
From S2P Require Import PoolLists.
From S2P Require Import PoolReport.
From S2P Require Import PoolCap.
From S2P Require Import PoolNext.
From S2P Require Import PolicyPool.

Open Scope list_scope.
Open Scope Z_scope.

(** * The remaining operations preserve the invariant *)

Lemma set_bit_id c bit : conn_id (conn_set_bit c bit) = conn_id c.
Proof. apply cas_id. Qed.
Lemma clear_bit_id c bit : conn_id (conn_clear_bit c bit) = conn_id c.
Proof. apply cas_id. Qed.

Create HintDb ids.
#[export] Hint Rewrite cas_id set_bit_id clear_bit_id dead_invariant_id : ids.

Lemma markAsReady_id c : conn_id (markAsReadyWithLock c) = conn_id c.
Proof. unfold markAsReadyWithLock. cbv zeta. by rewrite set_bit_id. Qed.

Lemma markAsHealthy_id c : conn_id (markAsHealthyWithLock c) = conn_id c.
Proof. unfold markAsHealthyWithLock. cbv zeta. by rewrite set_bit_id. Qed.

Lemma markAsDead_id now c : conn_id (markAsDeadWithLock now c) = conn_id c.
Proof. unfold markAsDeadWithLock. by destruct (deadSinceIsZero c). Qed.

Lemma resurrected_id b p c : conn_id (resurrected b p c) = conn_id c.
Proof.
  unfold resurrected. cbv zeta.
  destruct b; [change (conn_id (conn_cas (markAsReadyWithLock (storeOverloadedAt c 0)) 0 lcActive (lcUnknown ||| lcStandby)).1 = conn_id c) |];
    by rewrite cas_id, markAsReady_id.
Qed.

Lemma promoted_id p c : conn_id (promoted p c) = conn_id c.
Proof. change (conn_id (conn_cas c 0 lcActive lcStandby).1 = conn_id c). apply cas_id. Qed.

Lemma claimed_id now c : conn_id (claimed now c) = conn_id c.
Proof. unfold claimed. destruct (_ =? 0); [by rewrite set_bit_id | done]. Qed.
#[export] Hint Rewrite markAsReady_id markAsHealthy_id markAsDead_id resurrected_id promoted_id claimed_id : ids.

(** A health check can run: the pool has a check function, and the ring of the
    connection, if any, takes another measurement. *)
Definition probe_ready (c : loc) (s : World) : Prop :=
  healthCheck (w_mu s) = true /\
  forall r d, c_rttRing (conn_at s c) = Some r -> ring_add r d <> None.

Lemma decrementDraining_id c : conn_id (decrementDrainingQuiescing c).1 = conn_id c.
Proof. unfold decrementDrainingQuiescing. by destruct (rmw_run _ _). Qed.
Lemma tryWarmupSkip_id c : conn_id (conn_tryWarmupSkip c).1 = conn_id c.
Proof. unfold conn_tryWarmupSkip. by destruct (tryWarmupSkip _). Qed.
#[export] Hint Rewrite decrementDraining_id tryWarmupSkip_id : ids.

(** * What a section may do to the pool *)

(** [c] has the URL of one of the connections [R]. *)
Definition departs (s : World) (R : list loc) (c : loc) : Prop :=
  exists r, r ∈ R /\ c_URLString (conn_at s r) = c_URLString (conn_at s c).

(** The boundary stays inside the ready list, only connections of [X] join,
    only connections with a URL of [R] leave, and none changes identity. *)
Record moves (X R : list loc) (s s' : World) : Prop := {
  mv_bounds : pool_bounds (w_mu s');
  mv_grow : forall c, c ∈ held (w_mu s') -> c ∈ held (w_mu s) \/ c ∈ X;
  mv_keep : forall c, c ∈ held (w_mu s) -> c ∈ held (w_mu s') \/ departs s R c;
  mv_ids : forall c, conn_id (conn_at s' c) = conn_id (conn_at s c) }.

Lemma departs_ids s s' R c :
  (forall c, conn_id (conn_at s' c) = conn_id (conn_at s c)) -> departs s' R c -> departs s R c.
Proof.
  intros Hid (r & Hr & Hu). exists r. split; [done |].
  pose proof (Hid r) as H1. pose proof (Hid c) as H2. injection H1 as H1. injection H2 as H2. congruence.
Qed.

Lemma departs_nil s c : ~ departs s [] c.
Proof. intros (r & Hr & _). set_solver. Qed.

Lemma moves_refl X R s : pool_bounds (w_mu s) -> moves X R s s.
Proof. split; auto. Qed.

Lemma moves_app X1 R1 X2 R2 s1 s2 s3 :
  moves X1 R1 s1 s2 -> moves X2 R2 s2 s3 -> moves (X1 ++ X2) (R1 ++ R2) s1 s3.
Proof.
  intros [_ G1 K1 I1] [B2 G2 K2 I2]. split; [done | | |].
  - intros c [Hc | Hc]%G2; [apply G1 in Hc |]; rewrite elem_of_app; tauto.
  - intros c Hc. destruct (K1 c Hc) as [Hc1 | (r & Hr & Hu)];
      [| right; exists r; rewrite elem_of_app; tauto].
    destruct (K2 c Hc1) as [? | Hd]; [by left |]. right.
    destruct (departs_ids s1 s2 R2 c I1 Hd) as (r & Hr & Hu). exists r. rewrite elem_of_app. tauto.
  - intros c. by rewrite I2, I1.
Qed.

Lemma moves_sub X1 R1 X2 R2 s s' : X1 ⊆ X2 -> R1 ⊆ R2 -> moves X1 R1 s s' -> moves X2 R2 s s'.
Proof.
  intros HX HR [B G K I]. split; [done | | | done].
  - intros c [? | ?]%G; auto.
  - intros c [? | (r & Hr & Hu)]%K; [by left | right; exists r; auto].
Qed.

Lemma moves_trans X s1 s2 s3 : moves X [] s1 s2 -> moves X [] s2 s3 -> moves X [] s1 s3.
Proof.
  intros H1 H2. apply (moves_sub (X ++ X) ([] ++ [])); [set_solver | set_solver |]. by apply (moves_app _ _ _ _ s1 s2 s3).
Qed.

Lemma evolves_moves X R s s' : evolves s s' -> moves X R s s'.
Proof. intros [B H I]. split; [done | | | done]; intros c; rewrite H; auto. Qed.

(** The connection a section is about, which it may add. *)
Definition known (X : list loc) (s : World) (c : loc) : Prop := c ∈ held (w_mu s) \/ c ∈ X.

Lemma moves_known X s s' c : moves X [] s s' -> known X s c -> known X s' c.
Proof.
  intros Hm [Hc | Hc]; [| by right]. destruct (mv_keep _ _ _ _ Hm c Hc) as [H | H]; [by left | by apply departs_nil in H].
Qed.

(** Only the connection [c] is written, and it keeps its identity. *)
Lemma moves_touches X s s' A S D A' S' D' c :
  known X s c -> lists A S D (w_mu s) -> lists A' S' D' (w_mu s') ->
  (forall x, x <> c -> conn_at s' x = conn_at s x) ->
  conn_id (conn_at s' c) = conn_id (conn_at s c) ->
  (forall x, x ∈ A' \/ x ∈ S' \/ x ∈ D' -> (x ∈ A \/ x ∈ S \/ x ∈ D) \/ x = c) ->
  (forall x, x ∈ A \/ x ∈ S \/ x ∈ D -> x ∈ A' \/ x ∈ S' \/ x ∈ D') ->
  moves X [] s s'.
Proof.
  intros Hc H H' Ht Hid Hx Hy. split; [apply H' | | |]; intros x.
  - rewrite (lists_held _ _ _ _ _ H'), (lists_held _ _ _ _ _ H). intros [? | ->]%Hx; [by left |].
    unfold known in Hc. by rewrite (lists_held _ _ _ _ _ H) in Hc.
  - rewrite (lists_held _ _ _ _ _ H), (lists_held _ _ _ _ _ H'). auto.
  - destruct (decide (x = c)) as [-> | Hne]; [done |]. by rewrite Ht.
Qed.

Section Kept.
Context {X : list loc}.
#[local] Notation keeps := (moves X []).

(** The lists are left alone. *)
Lemma moves_frame s s' :
  pool_bounds (w_mu s') -> (forall c, c ∈ held (w_mu s') <-> c ∈ held (w_mu s)) ->
  (forall c, conn_id (conn_at s' c) = conn_id (conn_at s c)) -> keeps s s'.
Proof. intros. by apply evolves_moves. Qed.

(** A write to one connection that keeps its identity. *)
Lemma wp_upd_conn_ok c f s :
  pool_bounds (w_mu s) -> conn_id (f (conn_at s c)) = conn_id (conn_at s c) ->
  wp (upd_conn c f) (fun s' _ => keeps s s') s.
Proof.
  intros Hb Hf. apply wp_upd_conn. intros s' Hc [_ Ht] Hm _ _ _.
  apply moves_frame; rewrite ?Hm; [done | done |]. intros x. destruct (decide (x = c)) as [-> | Hne]; [by rewrite Hc, Hf | by rewrite Ht].
Qed.

(** Sequencing evolutions. *)
Lemma wp_seq_ok {A B} (m : M World A) (k : A -> M World B) s :
  wp m (fun s' _ => keeps s s') s ->
  (forall s' a, keeps s s' -> wp (k a) (fun s'' _ => keeps s' s'') s') ->
  wp (bind m k) (fun s' _ => keeps s s') s.
Proof.
  intros Hm Hk. apply wp_bind. eapply wp_mono; [exact Hm |]. intros s' a Hev.
  eapply wp_mono; [by apply Hk |]. intros s'' b. by apply moves_trans.
Qed.

Lemma resurrect_held (c : loc) (b : bool) (A S D : list loc) n x :
  1 <= n ->
  (x ∈ (if b then A ++ entries c n else A) \/ x ∈ (if b then S else S ++ entries c n) \/ x ∈ remove_one c D ->
   (x ∈ A \/ x ∈ S \/ x ∈ D) \/ x = c) /\
  (x ∈ A \/ x ∈ S \/ x ∈ D ->
   x ∈ (if b then A ++ entries c n else A) \/ x ∈ (if b then S else S ++ entries c n) \/ x ∈ remove_one c D).
Proof.
  intros Hn. assert (forall y, y ∈ entries c n <-> y = c) as He.
  { intros y. unfold entries. rewrite elem_of_replicate. split; [tauto |]. intros ->. split; [done | lia]. }
  split.
  - destruct b; rewrite elem_of_app, He; intros [? | [? | H]]; try (apply remove_one_subseteq in H); naive_solver.
  - intros [H | [H | H%(elem_of_remove_one c)]]; destruct b; rewrite elem_of_app, He; naive_solver.
Qed.

Lemma wp_resurrect_ok c s :
  pool_bounds (w_mu s) -> known X s c -> wp (resurrectWithLock c) (fun s' _ => keeps s s') s.
Proof.
  intros Hb Hh. pose proof (lists_self _ Hb) as Hl. eapply wp_resurrect; [exact Hl |]. cbv zeta.
  intros s' Hl' Ht _ _ Hc _. apply (moves_touches _ _ _ _ _ _ _ _ _ c Hh Hl Hl' (proj2 Ht)).
  - by rewrite Hc, resurrected_id.
  - intros x. apply resurrect_held, effectiveWeight_pos.
  - intros x. apply resurrect_held, effectiveWeight_pos.
Qed.

Lemma wp_promote_ok c s :
  pool_bounds (w_mu s) -> wp (promoteStandbyWithLock c) (fun s' _ => keeps s s') s.
Proof.
  intros Hb. pose proof (lists_self _ Hb) as Hl. eapply wp_promoteStandby; [exact Hl | |].
  - intros _. by apply moves_refl.
  - intros s' Hin Hl' Ht Hc _ _ _. apply evolves_moves, (evolves_touches _ _ _ _ _ _ _ _ c Hl Hl' Ht).
    + by rewrite Hc, promoted_id.
    + intros x. by apply promote_held.
Qed.

(** removeFromReady followed by appendToDead, as every eviction does. *)
Lemma wp_move_to_dead c s :
  pool_bounds (w_mu s) -> known X s c ->
  wp (removeFromReadyWithLock c ;;; appendToDeadWithLock c) (fun s' _ => keeps s s') s.
Proof.
  intros Hb Hh. pose proof (lists_self _ Hb) as Hl.
  wp_step. eapply wp_removeFromReady; [exact Hl |]. intros s1 Hl1 Hs1 _ _ _.
  eapply wp_appendToDead; [exact Hl1 |]. intros s2 Hl2 Ht2 _ Hc2 _ _ _ _.
  assert (touches c s s2) as Ht by (etrans; [exact (same_touches c s s1 Hs1) | exact Ht2]).
  apply (moves_touches _ _ _ _ _ _ _ _ _ c Hh Hl Hl2 (proj2 Ht)).
  - by rewrite Hc2, dead_invariant_id, (same_conn_at _ _ _ Hs1).
  - intros x. rewrite elem_of_app, list_elem_of_singleton, !list_elem_of_filter. tauto.
  - intros x. rewrite elem_of_app, list_elem_of_singleton, !list_elem_of_filter.
    destruct (decide (x = c)) as [-> |]; naive_solver.
Qed.

(** The same, followed by the rest of the section. *)
Lemma wp_move_to_dead_seq {B} c (k : M World B) s :
  pool_bounds (w_mu s) -> known X s c ->
  (forall s', keeps s s' -> wp k (fun s'' _ => keeps s' s'') s') ->
  wp (removeFromReadyWithLock c ;;; appendToDeadWithLock c ;;; k) (fun s' _ => keeps s s') s.
Proof.
  intros Hb Hh Hk.
  pose proof (wp_seq_ok _ (fun _ => k) s (wp_move_to_dead c s Hb Hh) (fun s' _ => Hk s')) as H.
  unfold wp, bind in *. by destruct (removeFromReadyWithLock c s) as [[s1 []] |].
Qed.

Lemma wp_schedule_ok c s :
  pool_bounds (w_mu s) -> wp (scheduleResurrect c) (fun s' _ => keeps s s') s.
Proof.
  intros Hb. apply wp_scheduleResurrect. intros s' Hc [_ Ht] Hm _ _.
  apply moves_frame; rewrite ?Hm; [done | done |]. intros x.
  destruct (decide (x = c)) as [-> | Hne]; [by rewrite Hc, claimed_id | by rewrite Ht].
Qed.

Lemma wp_OnSuccess_ok c s :
  pool_bounds (w_mu s) -> known X s c -> wp (OnSuccess c) (fun s' _ => keeps s s') s.
Proof.
  intros Hb Hh. unfold OnSuccess. do 2 wp_step.
  destruct (deadSinceIsZero _); [by apply wp_ret, moves_refl |].
  destruct (shouldSkipDraining _); [by apply wp_ret, moves_refl |].
  destruct (shouldSkipOverloaded _); [by apply wp_ret, moves_refl |].
  apply wp_seq_ok; [apply wp_upd_conn_ok; [done | by autorewrite with ids] |].
  intros s1 _ Hev1. apply wp_seq_ok; [apply wp_resurrect_ok; [apply Hev1 | by eapply moves_known] |].
  intros s2 _ Hev2. unfold upd_counters. wp_step. by apply moves_frame; [apply Hev2 | |].
Qed.

Lemma wp_OnFailure_demote_ok c s :
  pool_bounds (w_mu s) -> known X s c -> wp (OnFailure_demote c) (fun s' _ => keeps s s') s.
Proof.
  intros Hb Hh. unfold OnFailure_demote. do 2 wp_step.
  destruct (has _ _); [by apply wp_ret, moves_refl |].
  destruct (conn_cas (conn_at s c) 0 failure_set failure_clr) as [conn' err] eqn:E.
  assert (conn_id conn' = conn_id (conn_at s c)) as Hid.
  { change conn' with (conn', err).1. rewrite <- E. by autorewrite with ids. }
  destruct err; [by apply wp_ret, moves_refl |]. do 2 wp_step.
  apply wp_seq_ok; [apply wp_upd_conn_ok; [done | by autorewrite with ids] |]. intros s1 _ Hev1.
  apply wp_move_to_dead_seq; [apply Hev1 | by eapply moves_known |]. intros s2 Hev2.
  unfold upd_counters, upd_metrics. do 9 wp_step. apply moves_frame; [apply Hev2 | | done].
  intros x. unfold held. cbn. by rewrite !elem_of_app, merge_sort_Permutation.
Qed.

Lemma wp_OnFailure_ok c s :
  pool_bounds (w_mu s) -> known X s c -> wp (OnFailure c) (fun s' _ => keeps s s') s.
Proof.
  intros Hb Hh. unfold OnFailure. apply wp_seq_ok; [by apply wp_OnFailure_demote_ok |].
  intros s1 [hasStandby |] Hev1; [| by apply wp_ret, moves_refl, Hev1]. assert (pool_bounds (w_mu s1)) as Hb1 by apply Hev1.
  apply wp_seq_ok; [by apply wp_schedule_ok |]. intros s2 _ Hev2.
  unfold spawn. wp_step; [wp_step; by apply moves_frame; [apply Hev2 | |] | by apply moves_refl, Hev2].
Qed.

(** removeFromReady followed by appendToReadyStandby, as an overload demotion
    does. *)
Lemma wp_move_to_standby_seq {B} c (k : M World B) s :
  pool_bounds (w_mu s) -> known X s c ->
  (forall s', keeps s s' -> wp k (fun s'' _ => keeps s' s'') s') ->
  wp (removeFromReadyWithLock c ;;; appendToReadyStandbyWithLock c ;;; k) (fun s' _ => keeps s s') s.
Proof.
  intros Hb Hh Hk. pose proof (lists_self _ Hb) as Hl.
  wp_step. eapply wp_removeFromReady; [exact Hl |]. intros s1 Hl1 Hs1 _ _ _.
  wp_step. eapply wp_appendToReadyStandby; [exact Hl1 |]. intros s2 Hl2 Hs2 _ _ _.
  assert (keeps s s2) as Hev.
  { apply (moves_touches _ _ _ _ _ _ _ _ _ c Hh Hl Hl2); [apply (same_touches c s s2 (transitivity Hs1 Hs2)) | | |].
    - by rewrite (same_conn_at _ _ _ Hs2), (same_conn_at _ _ _ Hs1).
    - intros x. unfold entries. rewrite elem_of_app, elem_of_replicate, !list_elem_of_filter. tauto.
    - pose proof (effectiveWeight_pos (conn_at s1 c)). intros x. unfold entries.
      rewrite elem_of_app, elem_of_replicate, !list_elem_of_filter.
      destruct (decide (x = c)) as [-> |]; [| naive_solver].
      intros _. right. left. right. split; [done | lia]. }
  eapply wp_mono; [by apply Hk |]. intros s3 a. by apply moves_trans.
Qed.

Lemma wp_demoteOverloaded_ok c s :
  pool_bounds (w_mu s) -> known X s c -> wp (demoteOverloaded c) (fun s' _ => keeps s s') s.
Proof.
  intros Hb Hh. unfold demoteOverloaded. do 4 wp_step.
  destruct (_ || _); [apply wp_upd_conn_ok; [done |]; cbn; apply set_bit_id |].
  destruct (conn_cas (conn_at s c) 0 _ _) as [conn' err] eqn:E.
  assert (conn_id conn' = conn_id (conn_at s c)) as Hid.
  { change conn' with (conn', err).1. rewrite <- E. by autorewrite with ids. }
  destruct err; [by apply wp_ret, moves_refl |].
  apply wp_seq_ok; [by apply wp_upd_conn_ok |]. intros s1 _ Hev1.
  apply wp_move_to_standby_seq; [apply Hev1 | by eapply moves_known |]. intros s2 Hev2.
  unfold upd_metrics. do 3 wp_step. set (s3 := with_metrics _ _).
  assert (keeps s2 s3) as Hev3 by (by apply moves_frame; [apply Hev2 | |]).
  apply wp_tryStandby_ok; [apply Hev3 |]. intros s4 r Hev4 _ _. apply wp_ret.
  eapply moves_trans; [exact Hev3 | by apply evolves_moves].
Qed.

Lemma wp_promoteFromOverloaded_ok c s :
  pool_bounds (w_mu s) -> wp (promoteFromOverloaded c) (fun s' _ => keeps s s') s.
Proof.
  intros Hb. unfold promoteFromOverloaded. do 2 wp_step. destruct (negb _); [by apply wp_ret, moves_refl |].
  apply wp_upd_conn_ok; [done |]. cbn. apply clear_bit_id.
Qed.

Lemma wp_deferredStandbyPromotion_ok s :
  pool_bounds (w_mu s) -> wp deferredStandbyPromotion (fun s' _ => keeps s s') s.
Proof.
  intros Hb. pose proof (lists_self _ Hb) as Hl. unfold deferredStandbyPromotion. do 2 wp_step.
  destruct (Z.leb_spec (Z.of_nat (length (ready (w_mu s)))) (activeCount (w_mu s))) as [|Hlt];
    [by apply wp_ret, moves_refl |].
  destruct (index_lt (ready (w_mu s)) (activeCount (w_mu s))) as [c Hc]; [unfold pool_bounds in Hb; lia |].
  destruct (lists_boundary _ _ _ _ _ Hl Hc) as [Hin Hl'].
  wp_step. eapply wp_getsM; [exact Hc |].
  wp_step. apply wp_upd_conn. intros s1 Hc1 Ht1 Hm1 _ _ _. unfold upd_mu, upd_metrics. do 5 wp_step.
  set (s2 := with_metrics _ _).
  assert (lists (active_part (w_mu s) ++ [c]) (remove_one c (standby_part (w_mu s))) (dead (w_mu s)) (w_mu s2)) as Hl2.
  { unfold s2. cbn. rewrite Hm1. by case_match. }
  apply moves_frame; [apply Hl2 | |].
  - intros x. rewrite (lists_held _ _ _ _ _ Hl2), (lists_held _ _ _ _ _ Hl). by apply promote_held.
  - intros x. change (conn_at s2 x) with (conn_at s1 x).
    destruct (decide (x = c)) as [-> | Hne]; [rewrite Hc1; apply cas_id | by rewrite (proj2 Ht1)].
Qed.

Lemma wp_findActiveCandidate_ok s :
  pool_bounds (w_mu s) ->
  wp findActiveCandidate (fun s' r => keeps s s' /\ forall c, r = Some c -> c ∈ standby_part (w_mu s)) s.
Proof.
  intros Hb. unfold findActiveCandidate. do 2 wp_step.
  assert (forall f c, List.find f (standby_backward (w_mu s)) = Some c -> c ∈ standby_part (w_mu s)) as Hf.
  { intros f c Hc. apply List.find_some in Hc as [Hc _]. unfold standby_backward in Hc.
    rewrite <- in_rev, <- list_elem_of_In in Hc. exact Hc. }
  destruct (List.find (idle_standby s) _) as [c |] eqn:E.
  - wp_step. eapply wp_mono; [apply wp_upd_conn_ok; [done | apply cas_id] |].
    intros s' [] Hev. apply wp_ret. split; [done |]. intros x [= <-]. by eapply Hf.
  - apply wp_ret. split; [by apply moves_refl |]. intros c. apply Hf.
Qed.

Lemma wp_evictUnknown_ok c s :
  pool_bounds (w_mu s) -> known X s c ->
  wp (evictUnknownFromReadyWithLock c) (fun s' _ => keeps s s') s.
Proof.
  intros Hb Hh. unfold evictUnknownFromReadyWithLock. do 2 wp_step.
  apply wp_seq_ok; [apply wp_upd_conn_ok; [done | by autorewrite with ids] |]. intros s1 _ Hev1.
  apply wp_move_to_dead; [apply Hev1 | by eapply moves_known].
Qed.

Lemma wp_rotation_end_ok c healthy s :
  pool_bounds (w_mu s) -> wp (healthcheckStart_finish c healthy) (fun s' _ => keeps s s') s.
Proof.
  intros Hb. unfold healthcheckStart_finish.
  apply wp_seq_ok; [apply wp_upd_conn_ok; [done | by autorewrite with ids] |].
  intros s1 _ Hev1. assert (pool_bounds (w_mu s1)) as Hb1 by apply Hev1. do 2 wp_step.
  destruct (decide (c ∈ ready (w_mu s1))) as [Hin |]; [| rewrite bool_decide_false by done; by apply wp_ret, moves_refl].
  assert (known X s1 c) as Hh1 by (left; unfold held; set_solver).
  rewrite bool_decide_true by done. cbn [negb].
  destruct (has _ _).
  { apply wp_seq_ok; [by apply wp_evictUnknown_ok |]. intros s2 _ Hev2.
    apply wp_seq_ok; [apply wp_schedule_ok, Hev2 |]. intros s3 _ Hev3. by apply wp_ret, moves_refl, Hev3. }
  destruct healthy; cbn [negb].
  - destruct (find_standby (w_mu s1) c); [by apply wp_ret, moves_refl |].
    apply wp_seq_ok; [apply wp_upd_conn_ok; [done | by autorewrite with ids] |].
    intros s2 _ Hev2. by apply wp_ret, moves_refl, Hev2.
  - destruct (conn_cas (conn_at s1 c) 0 _ _) as [conn' err] eqn:E.
    assert (conn_id conn' = conn_id (conn_at s1 c)) as Hid.
    { change conn' with (conn', err).1. rewrite <- E. by autorewrite with ids. }
    destruct err; [by apply wp_ret, moves_refl |].
    apply wp_seq_ok; [apply wp_upd_conn_ok; [done | by autorewrite with ids] |]. intros s2 _ Hev2.
    apply wp_move_to_dead_seq; [apply Hev2 | by eapply moves_known |]. intros s3 Hev3.
    apply wp_seq_ok; [apply wp_schedule_ok, Hev3 |]. intros s4 _ Hev4. by apply wp_ret, moves_refl, Hev4.
Qed.

Lemma wp_performHealthCheck_ok c outcome rec s :
  pool_bounds (w_mu s) -> probe_ready c s ->
  wp (performHealthCheck c outcome rec) (fun s' _ => keeps s s') s.
Proof.
  intros Hb [Hhc Hr]. unfold performHealthCheck. do 2 wp_step. rewrite Hhc. cbn [negb].
  destruct outcome as [rtt |]; [| by apply wp_ret, moves_refl].
  apply wp_seq_ok.
  - destruct rec; [| by apply wp_ret, moves_refl]. do 2 wp_step.
    destruct (c_rttRing (conn_at s c)) as [r |] eqn:Er; [| by apply wp_ret, moves_refl].
    destruct (ring_add r rtt) as [r' |] eqn:Ea; [| by destruct (Hr r rtt eq_refl)].
    wp_step. eapply wp_getsM; [reflexivity |]. by apply wp_upd_conn_ok.
  - intros s1 _ Hev1. apply wp_seq_ok; [apply wp_upd_conn_ok; [apply Hev1 | by autorewrite with ids] |].
    intros s2 _ Hev2. apply wp_seq_ok.
    + apply wp_upd_conn_ok; [apply Hev2 |]. case_match; by autorewrite with ids.
    + intros s3 _ Hev3. by apply wp_ret, moves_refl, Hev3.
Qed.

Lemma wp_healthCheck_start_ok c s :
  pool_bounds (w_mu s) -> wp (healthCheck_start c) (fun s' _ => keeps s s') s.
Proof.
  intros Hb. unfold healthCheck_start. do 2 wp_step. destruct (negb _); [by apply wp_ret, moves_refl |].
  do 2 wp_step. apply wp_seq_ok; [apply wp_upd_conn_ok; [done | by autorewrite with ids] |].
  intros s1 _ Hev1. by apply wp_ret, moves_refl, Hev1.
Qed.

Lemma wp_healthCheck_finish_ok c original failed s :
  pool_bounds (w_mu s) -> wp (healthCheck_finish c original failed) (fun s' _ => keeps s s') s.
Proof.
  intros Hb. unfold healthCheck_finish. do 4 wp_step.
  destruct (original <? _); [| destruct failed];
    (apply wp_seq_ok; [apply wp_upd_conn_ok; [done |]; rewrite clear_bit_id; try case_match; done |];
     intros s1 _ Hev1; by apply wp_ret, moves_refl, Hev1).
Qed.

Lemma wp_checkDead_promote_ok c s :
  pool_bounds (w_mu s) -> known X s c -> wp (checkDead_promote c) (fun s' _ => keeps s s') s.
Proof.
  intros Hb Hh. unfold checkDead_promote. do 2 wp_step. destruct (isReady _); [| by apply wp_ret, moves_refl].
  apply wp_seq_ok; [apply wp_upd_conn_ok; [done | by autorewrite with ids] |].
  intros s1 _ Hev1. apply wp_resurrect_ok; [apply Hev1 | by eapply moves_known].
Qed.

Lemma wp_checkDeadOne_resurrect_ok c s :
  pool_bounds (w_mu s) -> known X s c -> wp (checkDeadOne_resurrect c) (fun s' _ => keeps s s') s.
Proof.
  intros Hb Hh. unfold checkDeadOne_resurrect. do 2 wp_step.
  destruct (deadSinceIsZero _); [by apply wp_resurrect_ok | by apply wp_ret, moves_refl].
Qed.

Lemma wp_resurrect_begin_ok c s :
  pool_bounds (w_mu s) -> wp (resurrect_begin c) (fun s' _ => keeps s s') s.
Proof.
  intros Hb. unfold resurrect_begin. do 2 wp_step.
  destruct (deadSinceIsZero _); [by apply wp_ret, moves_refl |].
  destruct (bool_decide (c ∈ ready (w_mu s)) || bool_decide (c ∈ dead (w_mu s))) eqn:Hm;
    cbn [negb]; [| by apply wp_ret, moves_refl].
  destruct (has _ _); [by apply wp_ret, moves_refl |].
  destruct (healthCheck _); [by apply wp_ret, moves_refl |].
  apply wp_seq_ok; [apply wp_resurrect_ok; [done |] |].
  - left. unfold held. apply orb_true_iff in Hm. rewrite !bool_decide_eq_true in Hm. set_solver.
  - intros s1 _ Hev1. by apply wp_ret, moves_refl, Hev1.
Qed.

Lemma wp_resurrect_end_ok c passed s :
  pool_bounds (w_mu s) -> wp (resurrect_end c passed) (fun s' _ => keeps s s') s.
Proof.
  intros Hb. unfold resurrect_end. destruct passed; cbn [negb].
  - do 2 wp_step. destruct (deadSinceIsZero _); [by apply wp_ret, moves_refl |].
    destruct (bool_decide (c ∈ ready (w_mu s)) || bool_decide (c ∈ dead (w_mu s))) eqn:Hm;
      cbn [negb]; [| by apply wp_ret, moves_refl].
    destruct (0 <? _); [by apply wp_ret, moves_refl |].
    apply wp_seq_ok; [apply wp_resurrect_ok; [done |] |].
    + left. unfold held. apply orb_true_iff in Hm. rewrite !bool_decide_eq_true in Hm. set_solver.
    + intros s1 _ Hev1. by apply wp_ret, moves_refl, Hev1.
  - apply wp_seq_ok; [by apply wp_upd_conn_ok |]. intros s1 _ Hev1. by apply wp_ret, moves_refl, Hev1.
Qed.

Lemma wp_recalculateWarmupParams_ok n s :
  pool_bounds (w_mu s) -> wp (recalculateWarmupParamsWithLock n) (fun s' _ => keeps s s') s.
Proof.
  intros Hb. unfold recalculateWarmupParamsWithLock, upd_mu. do 4 wp_step; repeat wp_step; by apply moves_frame.
Qed.

(** * Node discovery in a policy's pool *)

Lemma joined_moves s s' : joined s [] s' -> keeps s s'.
Proof.
  intros Hj. apply moves_frame; [apply (j_bounds _ _ _ Hj) | | apply (j_ids _ _ _ Hj)].
  intros c. rewrite (joined_held _ _ _ _ Hj). set_solver.
Qed.

Lemma wp_rearrange_ok s : pool_bounds (w_mu s) -> wp (shuffleActiveWithLock ;;; enforceActiveCapWithLock) (fun s' _ => keeps s s') s.
Proof.
  intros Hb. eapply wp_mono; [by apply (wp_rearrange s []), joined_start |]. intros s1 []. apply joined_moves.
Qed.

(** Whichever list the connection goes to, whether or not it is there. *)
Lemma wp_admitted_ok (healthy : bool) c s :
  pool_bounds (w_mu s) -> known X s c ->
  wp (if healthy then admit_ready c else admit_dead c) (fun s' _ => keeps s s') s.
Proof.
  intros Hb Hh. pose proof (lists_self _ Hb) as Hl. destruct healthy.
  - eapply wp_mono; [by apply wp_admit_ready |]. intros s1 [] (Hl2 & _ & Hid & Ho).
    apply (moves_touches _ _ _ _ _ _ _ _ _ c Hh Hl Hl2 Ho Hid); intros x;
      unfold entries; rewrite elem_of_app, elem_of_replicate; tauto.
  - eapply wp_mono; [by apply wp_admit_dead |]. intros s1 [] (Hl2 & _ & Hid & Ho).
    apply (moves_touches _ _ _ _ _ _ _ _ _ c Hh Hl Hl2 Ho Hid); intros x;
      rewrite elem_of_app, list_elem_of_singleton; tauto.
Qed.

Lemma wp_enrol_ok c s : pool_bounds (w_mu s) -> wp (upd_mu (fun m => mu_members m ({[c]} ∪ members m))) (fun s' _ => keeps s s') s.
Proof. intros Hb. unfold upd_mu. wp_step. by apply moves_frame. Qed.

Lemma wp_admit_conn_ok admits c s :
  pool_bounds (w_mu s) -> known X s c -> wp (admit_conn admits c) (fun s' _ => keeps s s') s.
Proof.
  intros Hb Hh. unfold admit_conn. do 2 wp_step. destruct (negb _); [by apply wp_ret, moves_refl |].
  do 2 wp_step. destruct (bool_decide _); [by apply wp_ret, moves_refl |].
  apply wp_seq_ok; [by apply wp_enrol_ok |]. intros s1 [] Hev1. do 2 wp_step.
  apply wp_admitted_ok; [apply Hev1 | by eapply moves_known].
Qed.

Lemma wp_role_admit_ok key c s :
  pool_bounds (w_mu s) -> known X s c -> wp (role_admit key c) (fun s' _ => keeps s s') s.
Proof.
  intros Hb Hh. unfold role_admit. do 2 wp_step. destruct (negb _); [by apply wp_ret, moves_refl |].
  do 2 wp_step. destruct (bool_decide _); [by apply wp_ret, moves_refl |]. do 2 wp_step.
  apply wp_seq_ok; [by apply wp_enrol_ok |]. intros s1 [] Hev1.
  pose proof (fun b => wp_admitted_ok b c s1 (mv_bounds _ _ _ _ Hev1) (moves_known _ _ _ _ Hev1 Hh)) as Hadm.
  destruct (isReady _); [| apply (Hadm false)]. apply wp_seq_ok; [apply (Hadm true) |]. intros s2 [] Hev2.
  apply wp_rearrange_ok, Hev2.
Qed.

Lemma wp_admit_all_ok admits l s :
  (forall c, c ∈ l -> c ∈ X) -> pool_bounds (w_mu s) -> wp (forM l (admit_conn admits)) (fun s' _ => keeps s s') s.
Proof.
  intros Hl Hb. apply (wp_forM l _ (fun _ s' => keeps s s')); [by apply moves_refl |].
  intros visited c rest s' Heq Hev. eapply wp_mono; [apply wp_admit_conn_ok; [apply Hev |] |].
  - right. apply Hl. rewrite Heq. set_solver.
  - intros s2 [] Hev2. by eapply moves_trans.
Qed.
End Kept.

Lemma moves_pruned X found R s s2 s' :
  (forall c, found c = true -> departs s R c) -> pruned found s s2 -> keeps_pool s2 s' -> moves X R s s'.
Proof.
  intros Hf [Hb Hr Hd _ Hh] [Hm Hh2]. assert (forall c, conn_at s' c = conn_at s c) as Hc by (intros c; unfold conn_at; congruence).
  split; rewrite ?Hm; [done | | | intros c; by rewrite Hc]; intros c; unfold held; rewrite Hr, Hd, !elem_of_app, !list_elem_of_filter; [tauto |].
  destruct (found c) eqn:E; [auto | tauto].
Qed.

Lemma url_removed_departs s R c : url_removed s R c = true -> departs s R c.
Proof.
  unfold url_removed. intros (r & Hr & Hu)%existsb_exists. exists r. split; [by apply list_elem_of_In | by apply String.eqb_eq].
Qed.

(** The removing halves, each preceded by sections that keep the URLs. *)
Lemma wp_pruning_ok X R (m : (loc -> bool) -> M World unit) s :
  (forall found, wp (m found) (fun s' _ => exists s2, pruned found s s2 /\ keeps_pool s2 s') s) ->
  wp (m (url_removed s R)) (fun s' _ => moves X R s s') s.
Proof.
  intros Hm. eapply wp_mono; [apply Hm |]. intros s' [] (s2 & Hp & Hk). eapply moves_pruned; [| done ..].
  intros c. apply url_removed_departs.
Qed.

Lemma wp_role_prune_ok X R s : pool_bounds (w_mu s) -> wp (role_prune R) (fun s' _ => moves X R s s') s.
Proof.
  intros Hb. unfold role_prune. do 2 wp_step. apply (wp_pruning_ok X R (fun found =>
    remove_ready found ;;; remove_dead found ;;;
    let* after := gets (fun s => activeCount (w_mu s)) in
    promoteStandbyGracefullyWithLock (activeCount (w_mu s) - after))). intros found. by apply wp_prune.
Qed.

Lemma wp_roundRobin_remove_ok X removed s :
  pool_bounds (w_mu s) -> wp (roundRobin_remove removed) (fun s' _ => moves X (elems removed) s s') s.
Proof.
  intros Hb. destruct removed as [[| r R] |]; [by apply wp_ret, moves_refl | | by apply wp_ret, moves_refl].
  exact (wp_role_prune_ok X (r :: R) s Hb).
Qed.

Lemma wp_coordinator_remove_ok X removed s :
  pool_bounds (w_mu s) -> wp (coordinator_remove removed) (fun s' _ => moves X (elems removed) s s') s.
Proof.
  intros Hb. destruct removed as [R |]; [| by apply wp_ret, moves_refl]. unfold coordinator_remove. do 2 wp_step.
  apply (wp_pruning_ok X R (fun found =>
    remove_ready found ;;;
    (let* after := gets (fun s => activeCount (w_mu s)) in
     promoteStandbyGracefullyWithLock (activeCount (w_mu s) - after)) ;;;
    remove_dead found)). intros found. by apply wp_prune_coordinator.
Qed.

(** A whole update under one lock: scale, add, rearrange, remove. *)
Lemma wp_discovery_ok (size : World -> Z) admits added removed (remove : M World unit) s :
  (forall X s, pool_bounds (w_mu s) -> wp remove (fun s' _ => moves X (elems removed) s s') s) ->
  pool_bounds (w_mu s) ->
  wp ((let* s := gets (fun s => s) in recalculateWarmupParamsWithLock (size s)) ;;;
      forM (elems added) (admit_conn admits) ;;; rearrange_if added ;;; remove)
    (fun s' _ => moves (elems added) (elems removed) s s') s.
Proof.
  intros Hrem Hb. set (X := elems added). do 3 wp_step.
  eapply wp_mono; [by apply (wp_recalculateWarmupParams_ok (X := X)) |]. intros s1 [] Hev1. wp_step.
  eapply wp_mono; [apply (wp_admit_all_ok (X := X)); [done | apply Hev1] |]. intros s2 [] Hev2. wp_step.
  assert (wp (rearrange_if added) (fun s' _ => moves X [] s2 s') s2) as Hre.
  { destruct added; [apply wp_rearrange_ok, Hev2 | by apply wp_ret, moves_refl, Hev2]. }
  eapply wp_mono; [exact Hre |]. intros s3 [] Hev3. eapply wp_mono; [apply (Hrem X), Hev3 |]. intros s4 [] Hev4.
  apply (moves_sub (X ++ X) ([] ++ elems removed)); [set_solver | set_solver |].
  apply (moves_app _ _ _ _ s s3); [| done]. eapply moves_trans; [exact Hev1 | by eapply moves_trans].
Qed.

Lemma wp_roundRobin_update_ok added removed s :
  pool_bounds (w_mu s) -> wp (roundRobin_update added removed) (fun s' _ => moves (elems added) (elems removed) s s') s.
Proof.
  intros Hb. unfold roundRobin_update.
  destruct added as [added |], removed as [removed |]; [| | | by apply wp_ret, moves_refl];
    (apply wp_discovery_ok; [intros X s1; apply wp_roundRobin_remove_ok | done]).
Qed.

Lemma wp_coordinator_update_ok added removed s :
  pool_bounds (w_mu s) -> wp (coordinator_update added removed) (fun s' _ => moves (elems added) (elems removed) s s') s.
Proof.
  intros Hb. unfold coordinator_update.
  destruct added as [added |], removed as [removed |]; [| | | by apply wp_ret, moves_refl];
    (apply wp_discovery_ok; [intros X s1; apply wp_coordinator_remove_ok | done]).
Qed.

(** * The pool as a state machine *)

Section Machine.
Context `{laws : PoolSelectorLaws}.

(** The critical sections, with what they learned outside the lock: the answer
    of a health check, the deadSince seen before it, the difference discovery
    found. Writes to the atomics of a connection outside any lock of the pool
    are the environment's. *)
Inductive op :=
  | OpNextRead                                      (* Next under RLock *)
  | OpNextWithEviction                              (* its two continuations *)
  | OpNextFallback
  | OpSuccess (c : loc)
  | OpFailureDemote (c : loc)                       (* OnFailure under the lock *)
  | OpDeferredStandbyPromotion                      (* goroutine of getNextActiveConn *)
  | OpEnforceCap                                    (* triggerCapEnforcement *)
  | OpPromoteStandby (c : loc)
  | OpFindCandidate                                 (* healthcheckStart: claim *)
  | OpProbe (c : loc) (outcome : option Z) (record : bool)
  | OpRotationEnd (c : loc) (healthy : bool)        (* healthcheckStart: verdict *)
  | OpDemoteOverloaded (c : loc)
  | OpPromoteFromOverloaded (c : loc)
  | OpCheckDeadPromote (c : loc)
  | OpHealthStart (c : loc)
  | OpHealthFinish (c : loc) (originalDeadSince : Z) (failed : bool)
  | OpCheckDeadResurrect (c : loc)                  (* the end of checkDeadOne *)
  | OpScheduleResurrect (c : loc)                   (* and of OnFailure *)
  | OpResurrectBegin (c : loc)
  | OpResurrectEnd (c : loc) (passed : bool)
  | OpResurrectExit (c : loc)
  | OpRecalculateWarmup (poolSize : Z)              (* RolePolicy.DiscoveryUpdate *)
  | OpRoleAdmit (key : string) (c : loc)            (* its loop, one lock each *)
  | OpRolePrune (removed : list loc)
  | OpRoundRobinUpdate (added removed : option (list loc))
  | OpCoordinatorUpdate (added removed : option (list loc)).

Definition void {A} (m : M World A) : M World unit := m ;;; ret tt.

Definition run_op (o : op) : M World unit :=
  match o with
  | OpNextRead => void next_read
  | OpNextWithEviction => void nextWithEviction
  | OpNextFallback => void nextFallback
  | OpSuccess c => OnSuccess c
  | OpFailureDemote c => void (OnFailure_demote c)
  | OpDeferredStandbyPromotion => deferredStandbyPromotion
  | OpEnforceCap => enforceActiveCapWithLock
  | OpPromoteStandby c => void (promoteStandbyWithLock c)
  | OpFindCandidate => void findActiveCandidate
  | OpProbe c outcome record => void (performHealthCheck c outcome record)
  | OpRotationEnd c healthy => void (healthcheckStart_finish c healthy)
  | OpDemoteOverloaded c => demoteOverloaded c
  | OpPromoteFromOverloaded c => promoteFromOverloaded c
  | OpCheckDeadPromote c => checkDead_promote c
  | OpHealthStart c => void (healthCheck_start c)
  | OpHealthFinish c d failed => void (healthCheck_finish c d failed)
  | OpCheckDeadResurrect c => checkDeadOne_resurrect c
  | OpScheduleResurrect c => scheduleResurrect c
  | OpResurrectBegin c => void (resurrect_begin c)
  | OpResurrectEnd c passed => void (resurrect_end c passed)
  | OpResurrectExit c => resurrect_exit c
  | OpRecalculateWarmup n => recalculateWarmupParamsWithLock n
  | OpRoleAdmit key c => role_admit key c
  | OpRolePrune removed => role_prune removed
  | OpRoundRobinUpdate added removed => roundRobin_update added removed
  | OpCoordinatorUpdate added removed => coordinator_update added removed
  end.

(** When a section may run: the selection counters do not wrap within it, and
    a probe has a check function and a ring to write to. *)
Definition enabled (o : op) (s : World) : Prop :=
  match o with
  | OpNextRead | OpNextWithEviction | OpNextFallback => next_budget (next_calls (w_mu s)) s
  | OpProbe c _ _ => probe_ready c s
  | _ => True
  end.

(** The connections a section can bring in (a report or a check names one,
    whether or not the pool still has it; discovery adds some), and those whose
    URLs it takes out. *)
Definition op_joining (o : op) : list loc :=
  match o with
  | OpSuccess c | OpFailureDemote c | OpDemoteOverloaded c | OpCheckDeadPromote c
  | OpCheckDeadResurrect c | OpRoleAdmit _ c => [c]
  | OpRoundRobinUpdate added _ | OpCoordinatorUpdate added _ => elems added
  | _ => []
  end.
Definition op_leaving (o : op) : list loc :=
  match o with
  | OpRolePrune removed => removed
  | OpRoundRobinUpdate _ removed | OpCoordinatorUpdate _ removed => elems removed
  | _ => []
  end.

(** What the rest of the program may do between two sections: anything to the
    state of the connections (other pools share them), the clock, the random
    source, the counters, the goroutines and the pool's settings; but the
    pool's own lists and the identity of a connection are the pool's. *)
Definition environment (s s' : World) : Prop :=
  (ready (w_mu s'), activeCount (w_mu s'), dead (w_mu s')) = (ready (w_mu s), activeCount (w_mu s), dead (w_mu s)) /\
  forall c, conn_id (conn_at s' c) = conn_id (conn_at s c).

(** A run, with the sections it went through. *)
Inductive pool_run : list op -> World -> World -> Prop :=
  | run_nil s : pool_run [] s s
  | run_section os s0 s o s' :
      pool_run os s0 s -> enabled o s -> run_op o s = Some (s', tt) -> pool_run (os ++ [o]) s0 s'
  | run_environment os s0 s s' : pool_run os s0 s -> environment s s' -> pool_run os s0 s'.

Lemma wp_void {A} (m : M World A) X R s :
  wp m (fun s' _ => moves X R s s') s -> wp (void m) (fun s' _ => moves X R s s') s.
Proof. intros H. unfold void. by apply wp_bind. Qed.

Lemma wp_next_op o s :
  o ∈ [OpNextRead; OpNextWithEviction; OpNextFallback] ->
  pool_bounds (w_mu s) -> enabled o s -> wp (run_op o) (fun s' _ => evolves s s') s.
Proof.
  intros Ho Hb He. rewrite !elem_of_cons in Ho. unfold run_op, void. destruct Ho as [-> | [-> | [-> | []%elem_of_nil]]]; apply wp_bind; cbn in He.
  - eapply wp_mono; [by apply wp_next_read |]. intros s' r [Ha _]. by apply attempted_evolves.
  - unfold nextWithEviction. do 2 wp_step. eapply wp_mono; [apply wp_evict_loop; [done |] | by intros s' r []].
    eapply next_budget_le; [| exact He]. unfold next_calls. lia.
  - unfold nextFallback. do 2 wp_step. destruct (activeCount (w_mu s) <=? 0) eqn:E.
    + eapply wp_mono; [by apply wp_nextFallback_ok | by intros s' r []].
    + eapply wp_mono; [apply wp_evict_loop; [done |] | by intros s' r []].
      eapply next_budget_le; [| exact He]. apply Z.leb_gt in E. unfold next_calls. lia.
Qed.

Lemma wp_run_op o s :
  pool_bounds (w_mu s) -> enabled o s -> wp (run_op o) (fun s' _ => moves (op_joining o) (op_leaving o) s s') s.
Proof.
  intros Hb He.
  assert (forall c, known [c] s c) as Hk by (intros c; right; set_solver).
  destruct o; cbn [op_joining op_leaving];
    try (eapply wp_mono; [apply wp_next_op; [set_solver | done | exact He] | intros s' []; apply evolves_moves]);
    cbn [run_op enabled] in *; try apply wp_void.
  - by apply wp_OnSuccess_ok.
  - by apply wp_OnFailure_demote_ok.
  - by apply wp_deferredStandbyPromotion_ok.
  - apply wp_enforce_ok; [done |]. intros s' Hev _. by apply evolves_moves.
  - by apply wp_promote_ok.
  - eapply wp_mono; [by apply (wp_findActiveCandidate_ok (X := [])) | by intros s' r []].
  - by apply wp_performHealthCheck_ok.
  - by apply wp_rotation_end_ok.
  - by apply wp_demoteOverloaded_ok.
  - by apply wp_promoteFromOverloaded_ok.
  - by apply wp_checkDead_promote_ok.
  - by apply wp_healthCheck_start_ok.
  - by apply wp_healthCheck_finish_ok.
  - by apply wp_checkDeadOne_resurrect_ok.
  - by apply wp_schedule_ok.
  - by apply wp_resurrect_begin_ok.
  - by apply wp_resurrect_end_ok.
  - apply wp_upd_conn_ok; [done |]. by autorewrite with ids.
  - by apply wp_recalculateWarmupParams_ok.
  - by apply wp_role_admit_ok.
  - by apply wp_role_prune_ok.
  - by apply wp_roundRobin_update_ok.
  - by apply wp_coordinator_update_ok.
Qed.

Lemma environment_moves X R s s' : pool_bounds (w_mu s) -> environment s s' -> moves X R s s'.
Proof.
  unfold pool_bounds. intros Hb [[= Hr Ha Hd] Hid]. split; [unfold pool_bounds; by rewrite Hr, Ha | | | done];
    intros c; unfold held; rewrite Hr, Hd; auto.
Qed.

Lemma pool_run_moves os s0 s :
  pool_bounds (w_mu s0) -> pool_run os s0 s -> moves (os ≫= op_joining) (os ≫= op_leaving) s0 s.
Proof.
  intros Hb. induction 1 as [s | os s0 s o s' _ IH He E | os s0 s s' _ IH Henv]; [by apply moves_refl | |].
  - specialize (IH Hb). rewrite !bind_app. cbn. rewrite !app_nil_r. eapply moves_app; [exact IH |].
    apply (wp_run_op o s (mv_bounds _ _ _ _ IH)), wp_run in He as (s2 & [] & E2 & Hev). rewrite E in E2. by injection E2 as <-.
  - specialize (IH Hb). eapply moves_sub; [| | eapply (moves_app _ _ [] []); [exact IH |]]; [set_solver | set_solver |].
    apply environment_moves; [apply IH | done].
Qed.

(** C1: No interleaving breaks a pool. Whatever sequence of critical sections
    runs on it (selections, reports, promotions, demotions, cap enforcement,
    health checks, resurrections, and the discovery updates of the leaf
    policies, each section of an operation that releases the lock on its own),
    interleaved with anything the rest of the program does to the shared
    connections: in every state reached the boundary lies inside the ready
    list; no connection has joined but those discovery added or a report
    named, none has left but those with a URL discovery removed, and none has
    changed identity; and no section that may run next panics, as long as the
    selection counter does not wrap within a selection and a probe has its
    check function. Not among the sections is the transport's own refresh of
    its pool of all connections, which replaces the lists before the boundary
    ([DiscoveryPool.swap_window_panics]). *)
Theorem pool_reachable_safe os s0 s :
  pool_bounds (w_mu s0) -> pool_run os s0 s ->
  moves (os ≫= op_joining) (os ≫= op_leaving) s0 s /\
  (forall o, enabled o s -> exists s', run_op o s = Some (s', tt) /\ moves (op_joining o) (op_leaving o) s s').
Proof.
  intros Hb Hr. pose proof (pool_run_moves _ _ _ Hb Hr) as Hev. split; [done |].
  intros o He. apply (wp_run_op o s (mv_bounds _ _ _ _ Hev)), wp_run in He as (s' & [] & E & Hev').
  by exists s'.
Qed.
End Machine.

(** A failure of an active node whose follow-up comes after discovery has taken
    another node out and a promotion has gone through; then the node returns. *)
Definition ex_ops : list op :=
  [OpFailureDemote 1%nat; OpRolePrune [0%nat]; OpPromoteStandby 2%nat; OpScheduleResurrect 1%nat; OpSuccess 1%nat].

Definition ex_run (ops : list op) : option World :=
  foldl (fun s o => '(s', _) ← (s ≫= run_op (sel := poolRoundRobin) o); Some s') (Some ex_world) ops.
Definition ex_state (k : nat) : World := default ex_world (ex_run (take k ex_ops)).
Definition ex_after : World := Eval vm_compute in ex_state 5.

Lemma pool_reachable_safe_witness :
  (ready (w_mu ex_after), activeCount (w_mu ex_after), dead (w_mu ex_after)) = ([1; 2; 1]%nat, 3, [4; 3]%nat) /\
  moves [1; 1]%nat [0]%nat ex_world ex_after /\
  exists s', run_op (sel := poolRoundRobin) (OpFailureDemote 2%nat) ex_after = Some (s', tt) /\ moves [2]%nat [] ex_after s'.
Proof.
  assert (pool_run (sel := poolRoundRobin) ex_ops ex_world ex_after) as Hr.
  { apply (run_section (take 4 ex_ops) _ (ex_state 4) (OpSuccess 1%nat)); [| exact I | vm_compute; reflexivity].
    apply (run_section (take 3 ex_ops) _ (ex_state 3) (OpScheduleResurrect 1%nat)); [| exact I | vm_compute; reflexivity].
    apply (run_section (take 2 ex_ops) _ (ex_state 2) (OpPromoteStandby 2%nat)); [| exact I | vm_compute; reflexivity].
    apply (run_section (take 1 ex_ops) _ (ex_state 1) (OpRolePrune [0%nat])); [| exact I | vm_compute; reflexivity].
    apply (run_section [] _ (ex_state 0) (OpFailureDemote 1%nat)); [| exact I | vm_compute; reflexivity].
    apply run_nil. }
  split; [vm_compute; reflexivity |].
  pose proof (pool_reachable_safe (laws := poolRoundRobin_laws) ex_ops ex_world ex_after ex_world_bounds Hr) as [H1 H2].
  split; [exact H1 |]. apply (H2 (OpFailureDemote 2%nat)). exact I.
Defined.
