(* ===== verification/TtlCache.v ===== *)
(** internal/ttlcache/ttlcache.go: the refcounted idle-TTL cache, as a machine
    of concurrent GetOrCreate calls and the eviction sweep. Every access to a
    shared atomic, to the sync.Map or to the mutex is a step of its own; fields
    guarded by the mutex are read and written with the step that holds it.

    The theorems: no caller ever holds a closed value, no value is closed
    twice, none is leaked, and the sweep evicts exactly the idle entries. *)

From Stdlib Require Import ZArith Lia.
From stdpp Require Import base gmap list sorting.
From S2P Require Import Prelude.

Open Scope list_scope.
Open Scope Z_scope.

(** * State *)

(** Value: the object is its index in the heap. [v_closer] and [v_liveness]
    tell whether Closer and Liveness are non-nil; [v_closed] counts the calls
    of Closer.Close. *)
Record Value := MkValue {
  v_closer : bool;
  v_liveness : bool;
  v_refCount : Z;              (* atomic.Int32 *)
  v_lastLiveness : Z;
  v_closed : nat }.

(** A Cacheable: what Key reports and what New builds ([None] is an error). *)
Inductive key_result := KeyOk (k : Z) | KeyNotCacheable | KeyError.
Record Cacheable := MkItem { it_key : key_result; it_new : option (bool * bool) }.

Inductive owner := OwnedBy (t : nat) | OwnedBySweep.

Record Cache := MkCache {
  heap : list Value;           (* every value New has returned *)
  cache : gmap Z nat;          (* the sync.Map *)
  ttl : Z;
  mu : option owner;
  mapKeys : gset Z;            (* guarded by mu *)
  worker : bool }.             (* cancel != nil, guarded by mu *)

(** New *)
Definition New (ttl : Z) : Cache := MkCache [] ∅ ttl None ∅ false.
(** Len, with the lock held. *)
Definition Len (c : Cache) : nat := size (mapKeys c).

Definition with_heap (c : Cache) (h : list Value) : Cache := MkCache h (cache c) (ttl c) (mu c) (mapKeys c) (worker c).
Definition with_mu (c : Cache) (o : option owner) : Cache := MkCache (heap c) (cache c) (ttl c) o (mapKeys c) (worker c).
Definition with_refCount (v : Value) (n : Z) : Value := MkValue (v_closer v) (v_liveness v) n (v_lastLiveness v) (v_closed v).
Definition with_lastLiveness (v : Value) (n : Z) : Value := MkValue (v_closer v) (v_liveness v) (v_refCount v) n (v_closed v).
(** [if e.Closer != nil { e.Closer.Close() }] *)
Definition close (v : Value) : Value :=
  MkValue (v_closer v) (v_liveness v) (v_refCount v) (v_lastLiveness v) (if v_closer v then S (v_closed v) else v_closed v).

Definition upd (c : Cache) (e : nat) (f : Value -> Value) : Cache := with_heap c (alter f e (heap c)).

(** * GetOrCreate *)

(** Where a call stands. [e] is a value found in the cache, [b] the value the
    call built itself. *)
Inductive pc :=
  | PStart (it : Cacheable)
  | PFast (k : Z) (it : Cacheable) (e : nat)            (* incIfLive: Load *)
  | PFastCAS (k : Z) (it : Cacheable) (e : nat) (n : Z) (* incIfLive: CompareAndSwap *)
  | PBuild (k : Z) (it : Cacheable)                     (* item.New *)
  | PBuildUncached (it : Cacheable)
  | PLock (k : Z) (b : nat)
  | PCheck (k : Z) (b : nat)                            (* under mu from here ... *)
  | PSlow (k : Z) (b e : nat)
  | PSlowCAS (k : Z) (b e : nat) (n : Z)
  | PPublish (k : Z) (b : nat)
  | PStore (k : Z) (b : nat)
  | PUnlock (b e : nat)                                 (* ... to here *)
  | PDiscard (b e : nat)
  | PHold (e : nat)                                     (* returned (obj, release, nil) *)
  | PHoldUncached (b : nat)
  | PReleased                                           (* release was called *)
  | PFailed.                                            (* returned an error *)

(** item.New(ctx): a fresh value. *)
Definition build (c : Cache) (v : bool * bool) : Cache * nat :=
  (with_heap c (heap c ++ [MkValue v.1 v.2 0 0 0]), length (heap c)).

(** ensureWorkerWithLock *)
Definition ensureWorkerWithLock (c : Cache) : Cache :=
  if worker c || (ttl c <=? 0) then c
  else MkCache (heap c) (cache c) (ttl c) (mu c) (mapKeys c) true.

(** One step of call number [t]; [lv] is what Liveness() answers if it is
    asked. [None]: the call is blocked on the mutex, or has nothing to do. *)
Definition call_step (t : nat) (lv : Z) (c : Cache) (p : pc) : option (Cache * pc) :=
  match p with
  | PStart it =>
    let uncached := match it_key it with KeyNotCacheable => true | _ => false end in
    if (ttl c <? 0) || uncached then Some (c, PBuildUncached it)
    else
      match it_key it with
      | KeyOk k =>
        match cache c !! k with
        | Some e => Some (c, PFast k it e)
        | None => Some (c, PBuild k it)
        end
      | _ => Some (c, PFailed)
      end
  | PFast k it e =>
    v ← heap c !! e;
    if v_refCount v <? 0 then Some (c, PBuild k it) else Some (c, PFastCAS k it e (v_refCount v))
  | PFastCAS k it e n =>
    v ← heap c !! e;
    if v_refCount v =? n
    then Some (upd c e (fun v => with_refCount v (wrap32 (n + 1))), PHold e)
    else Some (c, PFast k it e)
  | PBuild k it =>
    match it_new it with
    | None => Some (c, PFailed)
    | Some v => let '(c, b) := build c v in Some (c, PLock k b)
    end
  | PBuildUncached it =>
    match it_new it with
    | None => Some (c, PFailed)
    | Some v => let '(c, b) := build c v in Some (c, PHoldUncached b)
    end
  | PLock k b =>
    match mu c with
    | None => Some (with_mu c (Some (OwnedBy t)), PCheck k b)
    | Some _ => None
    end
  | PCheck k b =>
    match cache c !! k with
    | Some e => Some (c, PSlow k b e)
    | None => Some (c, PPublish k b)
    end
  | PSlow k b e =>
    v ← heap c !! e;
    if v_refCount v <? 0 then Some (c, PPublish k b) else Some (c, PSlowCAS k b e (v_refCount v))
  | PSlowCAS k b e n =>
    v ← heap c !! e;
    if v_refCount v =? n
    then Some (upd c e (fun v => with_refCount v (wrap32 (n + 1))), PUnlock b e)
    else Some (c, PSlow k b e)
  | PUnlock b e => Some (with_mu c None, PDiscard b e)
  | PDiscard b e => Some (upd c b close, PHold e)
  | PPublish k b =>
    Some (upd c b (fun v =>
      let v := with_refCount v (wrap32 (v_refCount v + 1)) in
      if v_liveness v then with_lastLiveness v lv else v), PStore k b)
  | PStore k b =>
    let c := MkCache (heap c) (<[k := b]> (cache c)) (ttl c) (mu c) ({[k]} ∪ mapKeys c) (worker c) in
    Some (with_mu (ensureWorkerWithLock c) None, PHold b)
  | PHold e => Some (upd c e (fun v => with_refCount v (wrap32 (v_refCount v - 1))), PReleased)
  | PHoldUncached b => Some (upd c b close, PReleased)
  | PReleased | PFailed => None
  end.

(** * The sweep *)

Inductive spc :=
  | SIdle
  | SKeys (ks : list Z)                           (* the keys still to visit *)
  | SZero (k : Z) (e : nat) (ks : list Z)         (* refCount was 0 *)
  | SClaimed (k : Z) (e : nat) (ks : list Z)      (* CompareAndSwap(0, -1) succeeded *)
  | SClosed (k : Z) (e : nat) (ks : list Z).      (* Close returned *)

Definition set_live (lv : Z) (v : Value) : Value := if v_liveness v then with_lastLiveness v lv else v.

(** One step of the sweep; [order] is the order in which the map is ranged
    over. *)
Definition sweep_step (lv : Z) (order : list Z) (c : Cache) (p : spc) : option (Cache * spc) :=
  match p with
  | SIdle =>
    match mu c with
    | Some _ => Some (c, SIdle)                    (* TryLock failed *)
    | None =>
      if decide (order ≡ₚ elements (mapKeys c)) then Some (with_mu c (Some OwnedBySweep), SKeys order) else None
    end
  | SKeys [] =>
    let c := if bool_decide (mapKeys c = ∅) then MkCache (heap c) (cache c) (ttl c) (mu c) (mapKeys c) false else c in
    Some (with_mu c None, SIdle)
  | SKeys (k :: ks) =>
    match cache c !! k with
    | None => Some (MkCache (heap c) (cache c) (ttl c) (mu c) (mapKeys c ∖ {[k]}) (worker c), SKeys ks)
    | Some e =>
      v ← heap c !! e;
      if v_refCount v =? 0 then Some (c, SZero k e ks)
      else Some (upd c e (set_live lv), SKeys ks)
    end
  | SZero k e ks =>
    v ← heap c !! e;
    if negb (v_liveness v) || (lv =? v_lastLiveness v) then
      if v_refCount v =? 0 then Some (upd c e (fun v => with_refCount v (-1)), SClaimed k e ks)
      else Some (c, SKeys ks)
    else Some (upd c e (fun v => with_lastLiveness v lv), SKeys ks)
  | SClaimed k e ks => Some (upd c e close, SClosed k e ks)
  | SClosed k e ks =>
    Some (MkCache (heap c) (delete k (cache c)) (ttl c) (mu c) (mapKeys c ∖ {[k]}) (worker c), SKeys ks)
  end.

(** * The system *)

Record Sys := MkSys { sys_cache : Cache; calls : list pc; sweeper : spc }.

(** Fewer than 2^31 calls are ever made, so refCount does not overflow. *)
Inductive step : Sys -> Sys -> Prop :=
  | step_call_start s it :
      Z.of_nat (length (calls s)) + 1 < 2 ^ 31 ->
      step s (MkSys (sys_cache s) (calls s ++ [PStart it]) (sweeper s))
  | step_call s t lv p c' p' :
      calls s !! t = Some p -> call_step t lv (sys_cache s) p = Some (c', p') ->
      step s (MkSys c' (<[t := p']> (calls s)) (sweeper s))
  | step_sweep s lv order c' p' :
      sweep_step lv order (sys_cache s) (sweeper s) = Some (c', p') ->
      step s (MkSys c' (calls s) p').

Definition init (ttl : Z) : Sys := MkSys (New ttl) [] SIdle.
Definition reachable (ttl : Z) (s : Sys) : Prop := rtc step (init ttl) s.

(** * Counting calls *)

Fixpoint tally (f : pc -> bool) (l : list pc) : nat :=
  match l with [] => 0 | p :: l' => (if f p then 1 else 0) + tally f l' end.

Lemma tally_app f l l' : tally f (l ++ l') = (tally f l + tally f l')%nat.
Proof. induction l as [| p l IH]; cbn; [done | rewrite IH; destruct (f p); lia]. Qed.

Lemma tally_insert f l t p q :
  l !! t = Some p -> (tally f (<[t := q]> l) + (if f p then 1 else 0) = tally f l + (if f q then 1 else 0))%nat.
Proof.
  revert t. induction l as [| x l IH]; intros [| t]; [done .. | |].
  - intros [= ->]. cbn. destruct (f p), (f q); lia.
  - intros H. specialize (IH t H). change (<[S t := q]> (x :: l)) with (x :: <[t := q]> l). cbn [tally].
    destruct (f x), (f p), (f q); lia.
Qed.

Lemma tally_pos f l t p : l !! t = Some p -> f p = true -> (1 <= tally f l)%nat.
Proof.
  revert t. induction l as [| x l IH]; intros [| t]; cbn; try done.
  - intros [= ->] ->. lia.
  - intros H Hf. specialize (IH t H Hf). destruct (f x); lia.
Qed.

Lemma tally_le f g l : (forall p, f p = true -> g p = true) -> (tally f l <= tally g l)%nat.
Proof.
  intros H. induction l as [| x l IH]; cbn; [done |].
  destruct (f x) eqn:E; [rewrite (H x E); lia | destruct (g x); lia].
Qed.

Lemma tally_length f l : (tally f l <= length l)%nat.
Proof. induction l as [| x l IH]; cbn; [done | destruct (f x); lia]. Qed.

Lemma tally_exists f l : (1 <= tally f l)%nat -> exists t p, l !! t = Some p /\ f p = true.
Proof.
  induction l as [| x l IH]; cbn; [lia |]. destruct (f x) eqn:E.
  - intros _. by exists 0%nat, x.
  - intros H. destruct (IH H) as (t & p & Ht & Hp). by exists (S t), p.
Qed.

(** What a call has to do with the value [e]: it built it and nobody else knows
    it; it is about to publish it; it holds a reference; it has seen it. *)
Definition owns (e : nat) (p : pc) : bool :=
  match p with
  | PLock _ b | PCheck _ b | PSlow _ b _ | PSlowCAS _ b _ _ | PPublish _ b | PStore _ b
  | PUnlock b _ | PDiscard b _ | PHoldUncached b => (b =? e)%nat
  | _ => false
  end.
Definition publishes (e : nat) (p : pc) : bool :=
  match p with PStore _ b => (b =? e)%nat | _ => false end.
Definition refers (e : nat) (p : pc) : bool :=
  match p with PUnlock _ e' | PDiscard _ e' | PHold e' => (e' =? e)%nat | _ => false end.
Definition sees (e : nat) (p : pc) : bool :=
  match p with
  | PFast _ _ e' | PFastCAS _ _ e' _ | PSlow _ _ e' | PSlowCAS _ _ e' _
  | PUnlock _ e' | PDiscard _ e' | PHold e' => (e' =? e)%nat
  | _ => false
  end.

Definition claims (e : nat) (p : spc) : nat :=
  match p with
  | SClaimed _ e' _ => if (e' =? e)%nat then 1 else 0
  | SClosed _ e' _ => if (e' =? e)%nat then 2 else 0
  | _ => 0
  end.

Definition cached (c : Cache) (e : nat) : Prop := exists k, cache c !! k = Some e.

(** Closed as often as it has a closer. *)
Definition closed_once (v : Value) : Prop := v_closed v = (if v_closer v then 1 else 0)%nat.

(** The life of a value: private to the call that built it; live in the cache;
    claimed by the sweep; closed by it; out of the cache for good. *)
Inductive value_ok (isCached : Prop) (l : list pc) (sw : spc) (e : nat) (v : Value) : Prop :=
  | VOwned : tally (owns e) l = 1%nat -> tally (refers e) l = 0%nat -> tally (sees e) l = 0%nat ->
      ~ isCached -> claims e sw = 0%nat -> v_closed v = 0%nat ->
      v_refCount v = Z.of_nat (tally (publishes e) l) -> value_ok isCached l sw e v
  | VLive : tally (owns e) l = 0%nat -> isCached -> claims e sw = 0%nat ->
      v_refCount v = Z.of_nat (tally (refers e) l) -> v_closed v = 0%nat -> value_ok isCached l sw e v
  | VClaimed : tally (owns e) l = 0%nat -> tally (refers e) l = 0%nat -> v_refCount v = -1 ->
      isCached -> claims e sw = 1%nat -> v_closed v = 0%nat -> value_ok isCached l sw e v
  | VClosed : tally (owns e) l = 0%nat -> tally (refers e) l = 0%nat -> v_refCount v = -1 ->
      isCached -> claims e sw = 2%nat -> closed_once v -> value_ok isCached l sw e v
  | VGone : tally (owns e) l = 0%nat -> tally (refers e) l = 0%nat ->
      v_refCount v = -1 \/ tally (sees e) l = 0%nat ->
      ~ isCached -> claims e sw = 0%nat -> closed_once v -> value_ok isCached l sw e v.

(** Calls in their critical section, and the keys a sweep still has to visit. *)
Definition locks (p : pc) : Prop :=
  match p with
  | PCheck _ _ | PSlow _ _ _ | PSlowCAS _ _ _ _ | PPublish _ _ | PStore _ _ | PUnlock _ _ => True
  | _ => False
  end.
Definition call_ok (c : Cache) (t : nat) (p : pc) : Prop :=
  (locks p <-> mu c = Some (OwnedBy t)) /\
  match p with
  | PFastCAS _ _ _ n => 0 <= n
  | PSlow k _ e => cache c !! k = Some e
  | PSlowCAS k _ e n => cache c !! k = Some e /\ 0 <= n
  | PPublish k _ | PStore k _ => cache c !! k = None
  | _ => True
  end.
Definition sweep_ok (c : Cache) (p : spc) : Prop :=
  (p <> SIdle <-> mu c = Some OwnedBySweep) /\
  match p with
  | SIdle => True
  | SKeys ks => NoDup ks /\ (forall k, k ∈ ks -> is_Some (cache c !! k))
  | SZero k e ks | SClaimed k e ks | SClosed k e ks =>
    cache c !! k = Some e /\ NoDup (k :: ks) /\ (forall k', k' ∈ ks -> is_Some (cache c !! k'))
  end.

Record Inv (s : Sys) : Prop := {
  inv_calls : Z.of_nat (length (calls s)) < 2 ^ 31;
  inv_keys : mapKeys (sys_cache s) = dom (cache (sys_cache s));
  inv_worker : 0 < ttl (sys_cache s) -> mapKeys (sys_cache s) <> ∅ -> worker (sys_cache s) = true;
  inv_inj : forall k k' e, cache (sys_cache s) !! k = Some e -> cache (sys_cache s) !! k' = Some e -> k = k';
  inv_call : forall t p, calls s !! t = Some p -> call_ok (sys_cache s) t p;
  inv_mu : forall t, mu (sys_cache s) = Some (OwnedBy t) -> (t < length (calls s))%nat;
  inv_sweep : sweep_ok (sys_cache s) (sweeper s);
  inv_value : forall e v, heap (sys_cache s) !! e = Some v -> value_ok (cached (sys_cache s) e) (calls s) (sweeper s) e v;
  inv_fresh : forall e, (length (heap (sys_cache s)) <= e)%nat ->
    tally (owns e) (calls s) = 0%nat /\ tally (sees e) (calls s) = 0%nat /\ ~ cached (sys_cache s) e }.

Lemma sees_refers e p : refers e p = true -> sees e p = true.
Proof. by destruct p. Qed.
Lemma owns_publishes e p : publishes e p = true -> owns e p = true.
Proof. by destruct p. Qed.

(** * The invariant is preserved *)

Lemma inv_init ttl : Inv (init ttl).
Proof.
  split; cbn; try done; try set_solver.
  intros e _. split; [done |]. split; [done |]. intros [k Hk]. cbn in Hk. by rewrite lookup_empty in Hk.
Qed.

(** The counts of [e] before and after a call moves from [p] to [q]. *)
Ltac pose_tallies Hp q e :=
  pose proof (tally_insert (owns e) _ _ _ q Hp);
  pose proof (tally_insert (refers e) _ _ _ q Hp);
  pose proof (tally_insert (sees e) _ _ _ q Hp);
  pose proof (tally_insert (publishes e) _ _ _ q Hp);
  cbn [owns refers sees publishes] in *.

(** Close a [value_ok] goal: pick the stage that fits. *)
Ltac fits := solve [done | lia | assumption | unfold closed_once in *; cbn in *; lia].
Ltac value_stage :=
  cbn [claims] in *;
  first
    [ exfalso; solve [lia | tauto | contradiction]
    | apply VLive; fits | apply VOwned; fits | apply VGone; fits
    | apply VClaimed; fits | apply VClosed; fits ].

(** Bounds between the counts. *)
Lemma tally_refers_sees e l : (tally (refers e) l <= tally (sees e) l)%nat.
Proof. apply tally_le. apply sees_refers. Qed.
Lemma tally_publishes_owns e l : (tally (publishes e) l <= tally (owns e) l)%nat.
Proof. apply tally_le. apply owns_publishes. Qed.

(** A call that leaves the maps and the mutex alone. *)
Lemma inv_plain s t p q h :
  Inv s -> calls s !! t = Some p -> call_ok (sys_cache s) t q ->
  (forall e v, h !! e = Some v -> value_ok (cached (sys_cache s) e) (<[t := q]> (calls s)) (sweeper s) e v) ->
  (forall e, (length h <= e)%nat -> tally (owns e) (<[t := q]> (calls s)) = 0%nat /\
     tally (sees e) (<[t := q]> (calls s)) = 0%nat /\ ~ cached (sys_cache s) e) ->
  Inv (MkSys (with_heap (sys_cache s) h) (<[t := q]> (calls s)) (sweeper s)).
Proof.
  intros [I1 I2 I3 I5 I6 I7 I8 I9 I10] Hp Hq Hv Hf. split; cbn; try done.
  - by rewrite length_insert.
  - intros t' p'. rewrite list_lookup_insert_Some. intros [(-> & <- & _) | (_ & H)]; [exact Hq | by apply I6].
  - intros t' H. rewrite length_insert. by apply I7.
Qed.

(** Nothing but the call itself moves. *)
Lemma inv_move s t p q :
  Inv s -> calls s !! t = Some p -> call_ok (sys_cache s) t q ->
  (forall e v, heap (sys_cache s) !! e = Some v -> value_ok (cached (sys_cache s) e) (calls s) (sweeper s) e v ->
     value_ok (cached (sys_cache s) e) (<[t := q]> (calls s)) (sweeper s) e v) ->
  (forall e, (length (heap (sys_cache s)) <= e)%nat ->
     owns e q = false /\ (sees e q = true -> cached (sys_cache s) e \/ sees e p = true)) ->
  Inv (MkSys (sys_cache s) (<[t := q]> (calls s)) (sweeper s)).
Proof.
  intros HI Hp Hq Hv Hf.
  replace (sys_cache s) with (with_heap (sys_cache s) (heap (sys_cache s))) at 1 by (by destruct (sys_cache s)).
  apply (inv_plain s t p q); [done | done | done | |].
  - intros e v He. apply Hv; [done |]. by apply (inv_value s HI).
  - intros e He. destruct (inv_fresh s HI e He) as (F1 & F2 & F3). destruct (Hf e He) as [G1 G2].
    pose proof (tally_insert (owns e) _ _ _ q Hp). pose proof (tally_insert (sees e) _ _ _ q Hp).
    pose proof (tally_pos (sees e) _ _ _ Hp). rewrite G1 in *.
    assert (sees e q = false) as G3.
    { destruct (sees e q); [| done]. destruct (G2 eq_refl) as [? | ?]; [tauto |]. specialize (H1 H2). lia. }
    rewrite G3 in *. split_and!; [| | done]; destruct (owns e p), (sees e p); lia.
Qed.

(** A value that was found cached or seen is on the heap. *)
Lemma inv_seen s t p e :
  Inv s -> calls s !! t = Some p -> sees e p = true -> exists v, heap (sys_cache s) !! e = Some v.
Proof.
  intros HI Hp Hs. destruct (heap (sys_cache s) !! e) as [v |] eqn:E; [by eexists |].
  apply lookup_ge_None in E. destruct (inv_fresh s HI e E) as (_ & F & _).
  pose proof (tally_pos _ _ _ _ Hp Hs). lia.
Qed.
Lemma inv_owned s t p e :
  Inv s -> calls s !! t = Some p -> owns e p = true -> exists v, heap (sys_cache s) !! e = Some v.
Proof.
  intros HI Hp Hs. destruct (heap (sys_cache s) !! e) as [v |] eqn:E; [by eexists |].
  apply lookup_ge_None in E. destruct (inv_fresh s HI e E) as (F & _ & _).
  pose proof (tally_pos _ _ _ _ Hp Hs). lia.
Qed.
Lemma inv_cached s e : Inv s -> cached (sys_cache s) e -> exists v, heap (sys_cache s) !! e = Some v.
Proof.
  intros HI Hc. destruct (heap (sys_cache s) !! e) as [v |] eqn:E; [by eexists |].
  apply lookup_ge_None in E. by destruct (inv_fresh s HI e E) as (_ & _ & F).
Qed.

(** Replacing one value. *)
Lemma alter_cases (h : list Value) b f e v :
  alter f b h !! e = Some v ->
  (e = b /\ exists v0, h !! b = Some v0 /\ v = f v0) \/ (e <> b /\ h !! e = Some v).
Proof.
  intros H. destruct (decide (e = b)) as [-> | Hne].
  - rewrite list_lookup_alter_eq in H. destruct (h !! b) as [v0 |]; [| done]. injection H as <-.
    left. split; [done |]. by exists v0.
  - rewrite list_lookup_alter_ne in H by done. by right.
Qed.

Lemma tally_self (f : pc -> bool) l t p : l !! t = Some p -> ((if f p then 1 else 0) <= tally f l)%nat.
Proof. intros H. destruct (f p) eqn:E; [by eapply tally_pos | lia]. Qed.

(** Everything the counts of [e] say about a move from [p] to [q]. *)
Ltac tally_facts Hp q e :=
  pose_tallies Hp q e;
  pose proof (tally_self (owns e) _ _ _ Hp);
  pose proof (tally_self (refers e) _ _ _ Hp);
  pose proof (tally_self (sees e) _ _ _ Hp);
  pose proof (tally_self (publishes e) _ _ _ Hp);
  match type of Hp with ?l !! ?t = Some _ =>
    pose proof (tally_refers_sees e l); pose proof (tally_publishes_owns e l) end;
  cbn [owns refers sees publishes] in *;
  repeat match goal with H : context [(?a =? e)%nat] |- _ => destruct (Nat.eqb_spec a e); subst end.
Ltac value_move Hp q :=
  let e := fresh "e" in let v := fresh "v" in let Hv := fresh "Hv" in
  intros e v ? Hv; tally_facts Hp q e; destruct Hv; value_stage.

(** A call outside its critical section stays outside. *)
Lemma call_ok_free c t p q :
  call_ok c t p -> ~ locks p -> ~ locks q ->
  match q with PFastCAS _ _ _ n => 0 <= n | PSlow _ _ _ | PSlowCAS _ _ _ _ | PPublish _ _ | PStore _ _ => False | _ => True end ->
  call_ok c t q.
Proof. intros [H _] Hp Hq Hf. split; [tauto |]. by destruct q. Qed.

Lemma inv_PStart s t it c' q lv :
  Inv s -> calls s !! t = Some (PStart it) -> call_step t lv (sys_cache s) (PStart it) = Some (c', q) ->
  Inv (MkSys c' (<[t := q]> (calls s)) (sweeper s)).
Proof.
  intros HI Hp Hs. pose proof (inv_call s HI _ _ Hp) as Hc. cbn in Hs.
  destruct (_ || _).
  { injection Hs as <- <-. apply (inv_move s t (PStart it)); [done .. | by eapply call_ok_free; eauto | value_move Hp (PBuildUncached it) |].
    done. }
  destruct (it_key it) as [k | |]; [| injection Hs as <- <-; apply (inv_move s t (PStart it)); [done .. | by eapply call_ok_free; eauto | value_move Hp PFailed | done] ..].
  destruct (cache (sys_cache s) !! k) as [e0 |] eqn:Hk; injection Hs as <- <-;
    (apply (inv_move s t (PStart it)); [done .. | by eapply call_ok_free; eauto | |]).
  - assert (cached (sys_cache s) e0) as Hcd by by exists k.
    value_move Hp (PFast k it e0).
  - intros e He. split; [done |]. cbn. intros <-%Nat.eqb_eq. left. by exists k.
  - value_move Hp (PBuild k it).
  - done.
Qed.

(** The stage of a value some call sees. *)
Lemma inv_stage s e v :
  Inv s -> heap (sys_cache s) !! e = Some v -> value_ok (cached (sys_cache s) e) (calls s) (sweeper s) e v.
Proof. intros HI. apply (inv_value s HI). Qed.

Lemma inv_refs_bound s e t q : Inv s -> Z.of_nat (tally (refers e) (<[t := q]> (calls s))) < 2 ^ 31.
Proof.
  intros HI. pose proof (inv_calls s HI). pose proof (tally_length (refers e) (<[t := q]> (calls s))) as H1.
  rewrite length_insert in H1. lia.
Qed.

Lemma inv_PFast s t k it e0 c' q lv :
  Inv s -> calls s !! t = Some (PFast k it e0) -> call_step t lv (sys_cache s) (PFast k it e0) = Some (c', q) ->
  Inv (MkSys c' (<[t := q]> (calls s)) (sweeper s)).
Proof.
  intros HI Hp Hs. pose proof (inv_call s HI _ _ Hp) as Hc. cbn in Hs.
  destruct (inv_seen s t _ e0 HI Hp) as [v0 Hv0]; [apply Nat.eqb_refl |]. rewrite Hv0 in Hs. cbn in Hs.
  destruct (Z.ltb_spec (v_refCount v0) 0); injection Hs as <- <-;
    (apply (inv_move s t (PFast k it e0)); [done .. | by eapply call_ok_free; eauto | |]).
  - intros e v He Hv. tally_facts Hp (PBuild k it) e; [| destruct Hv; value_stage].
    rewrite Hv0 in He. injection He as <-. destruct Hv; value_stage.
  - done.
  - value_move Hp (PFastCAS k it e0 (v_refCount v0)).
  - intros e He. split; [done |]. cbn. auto.
Qed.

(** incIfLive's CompareAndSwap succeeded on a value in sight. *)
Lemma inv_acquire s t p q e0 v0 :
  Inv s -> calls s !! t = Some p -> call_ok (sys_cache s) t q ->
  sees e0 p = true -> refers e0 p = false -> refers e0 q = true ->
  (forall e, e <> e0 -> refers e p = false /\ refers e q = false /\ sees e p = false /\ sees e q = false) ->
  (forall e, owns e q = owns e p /\ publishes e q = false /\ publishes e p = false) ->
  heap (sys_cache s) !! e0 = Some v0 -> 0 <= v_refCount v0 ->
  Inv (MkSys (upd (sys_cache s) e0 (fun v => with_refCount v (wrap32 (v_refCount v0 + 1)))) (<[t := q]> (calls s)) (sweeper s)).
Proof.
  intros HI Hp Hq Hs0 Hr0 Hr0' Hne Hown Hv0 Hpos. apply (inv_plain s t p q); [done .. | |].
  - intros e v He. destruct (Hown e) as (O1 & O2 & O3).
    pose_tallies Hp q e. pose proof (tally_self (sees e) _ _ _ Hp). rewrite O1, O2, O3 in *.
    apply alter_cases in He as [(-> & w & Hw & ->) | [Hne' He]].
    + rewrite Hv0 in Hw. injection Hw as <-. pose proof (inv_stage s e0 v0 HI Hv0) as Hst.
      pose proof (inv_refs_bound s e0 t q HI). pose proof (sees_refers e0 q Hr0') as Hs0'.
      rewrite Hr0, Hr0', Hs0, Hs0' in *.
      rewrite wrap32_id by (destruct Hst; unfold int32_range; lia).
      destruct (owns e0 p); destruct Hst; value_stage.
    + destruct (Hne e Hne') as (N1 & N2 & N3 & N4). rewrite N1, N2, N3, N4 in *.
      pose proof (inv_stage s e v HI He) as Hst. destruct (owns e p); destruct Hst; value_stage.
  - intros e He. rewrite length_alter in He. destruct (inv_fresh s HI e He) as (F1 & F2 & F3).
    assert (e <> e0) as Hne' by (intros ->; apply lookup_lt_Some in Hv0; lia).
    destruct (Hne e Hne') as (_ & _ & N3 & N4). destruct (Hown e) as (O1 & _ & _).
    pose proof (tally_insert (owns e) _ _ _ q Hp). pose proof (tally_insert (sees e) _ _ _ q Hp).
    rewrite N3, N4, O1 in *. split_and!; [destruct (owns e p); lia | lia | done].
Qed.

Lemma inv_PFastCAS s t k it e0 n c' q lv :
  Inv s -> calls s !! t = Some (PFastCAS k it e0 n) ->
  call_step t lv (sys_cache s) (PFastCAS k it e0 n) = Some (c', q) ->
  Inv (MkSys c' (<[t := q]> (calls s)) (sweeper s)).
Proof.
  intros HI Hp Hs. pose proof (inv_call s HI _ _ Hp) as Hc. cbn in Hs.
  destruct (inv_seen s t _ e0 HI Hp) as [v0 Hv0]; [apply Nat.eqb_refl |]. rewrite Hv0 in Hs. cbn in Hs.
  destruct (Z.eqb_spec (v_refCount v0) n) as [<- | Hne]; injection Hs as <- <-.
  - apply (inv_acquire s t _ (PHold e0) e0 v0 HI Hp); cbn; try done.
    + by eapply call_ok_free; eauto.
    + apply Nat.eqb_refl.
    + apply Nat.eqb_refl.
    + intros e Hne. destruct (Nat.eqb_spec e0 e); [congruence | done].
    + apply Hc.
  - apply (inv_move s t (PFastCAS k it e0 n)); [done .. | by eapply call_ok_free; eauto | |].
    + value_move Hp (PFast k it e0).
    + intros e He. split; [done |]. cbn. auto.
Qed.

(** item.New returned a value: nobody else knows it. *)
Lemma inv_build s t p q b0 :
  Inv s -> calls s !! t = Some p -> call_ok (sys_cache s) t q ->
  (forall e, owns e p = false /\ refers e p = false /\ sees e p = false /\ publishes e p = false) ->
  (forall e, owns e q = (length (heap (sys_cache s)) =? e)%nat /\ refers e q = false /\ sees e q = false /\ publishes e q = false) ->
  Inv (MkSys (build (sys_cache s) b0).1 (<[t := q]> (calls s)) (sweeper s)).
Proof.
  intros HI Hp Hq Hp0 Hq0. apply (inv_plain s t p q); [done .. | |].
  - intros e v He. destruct (Hp0 e) as (P1 & P2 & P3 & P4), (Hq0 e) as (Q1 & Q2 & Q3 & Q4).
    pose_tallies Hp q e. rewrite P1, P2, P3, P4, Q1, Q2, Q3, Q4 in *.
    apply lookup_app_Some in He as [He | [Hge He]].
    + apply lookup_lt_Some in He as Hlt. destruct (Nat.eqb_spec (length (heap (sys_cache s))) e); [lia |].
      pose proof (inv_stage s e v HI He) as Hst. destruct Hst; value_stage.
    + apply list_lookup_singleton_Some in He as [He <-].
      destruct (Nat.eqb_spec (length (heap (sys_cache s))) e); [| lia].
      destruct (inv_fresh s HI e Hge) as (F1 & F2 & F3).
      pose proof (tally_refers_sees e (calls s)). pose proof (tally_publishes_owns e (calls s)).
      assert (claims e (sweeper s) = 0%nat) as Hcl.
      { pose proof (inv_sweep s HI) as [_ Hsw]. destruct (sweeper s); cbn; try done;
          (destruct (Nat.eqb_spec e1 e); [subst; exfalso; apply F3; by eexists; apply Hsw | done]). }
      apply VOwned; cbn; try done; lia.
  - intros e He. rewrite length_app in He. cbn in He. destruct (inv_fresh s HI e) as (F1 & F2 & F3); [lia |].
    destruct (Hp0 e) as (P1 & P2 & P3 & P4), (Hq0 e) as (Q1 & Q2 & Q3 & Q4).
    pose_tallies Hp q e. rewrite P1, P2, P3, P4, Q1, Q2, Q3, Q4 in *.
    destruct (Nat.eqb_spec (length (heap (sys_cache s))) e); [lia |]. split_and!; [lia | lia | done].
Qed.

Lemma inv_PBuild s t k it c' q lv :
  Inv s -> calls s !! t = Some (PBuild k it) -> call_step t lv (sys_cache s) (PBuild k it) = Some (c', q) ->
  Inv (MkSys c' (<[t := q]> (calls s)) (sweeper s)).
Proof.
  intros HI Hp Hs. pose proof (inv_call s HI _ _ Hp) as Hc. cbn in Hs.
  destruct (it_new it) as [b0 |]; injection Hs as <- <-.
  - apply (inv_build s t (PBuild k it) _ b0); [done | done | by eapply call_ok_free; eauto | done | done].
  - apply (inv_move s t (PBuild k it)); [done .. | by eapply call_ok_free; eauto | value_move Hp PFailed | done].
Qed.

Lemma inv_PBuildUncached s t it c' q lv :
  Inv s -> calls s !! t = Some (PBuildUncached it) -> call_step t lv (sys_cache s) (PBuildUncached it) = Some (c', q) ->
  Inv (MkSys c' (<[t := q]> (calls s)) (sweeper s)).
Proof.
  intros HI Hp Hs. pose proof (inv_call s HI _ _ Hp) as Hc. cbn in Hs.
  destruct (it_new it) as [b0 |]; injection Hs as <- <-.
  - apply (inv_build s t (PBuildUncached it) _ b0); [done | done | by eapply call_ok_free; eauto | done | done].
  - apply (inv_move s t (PBuildUncached it)); [done .. | by eapply call_ok_free; eauto | value_move Hp PFailed | done].
Qed.

(** A call that takes or releases the mutex and leaves the maps alone. *)
Lemma inv_mutex s t p q o :
  Inv s -> calls s !! t = Some p -> call_ok (with_mu (sys_cache s) o) t q ->
  (mu (sys_cache s) = None /\ o = Some (OwnedBy t)) \/ (mu (sys_cache s) = Some (OwnedBy t) /\ o = None) ->
  (forall e, owns e q = owns e p /\ refers e q = refers e p /\ sees e q = sees e p /\
     publishes e p = false /\ publishes e q = false) ->
  Inv (MkSys (with_mu (sys_cache s) o) (<[t := q]> (calls s)) (sweeper s)).
Proof.
  intros HI Hp Hq Hmu Hsame.
  assert (forall e, tally (owns e) (<[t := q]> (calls s)) = tally (owns e) (calls s) /\
    tally (refers e) (<[t := q]> (calls s)) = tally (refers e) (calls s) /\
    tally (sees e) (<[t := q]> (calls s)) = tally (sees e) (calls s) /\
    tally (publishes e) (<[t := q]> (calls s)) = tally (publishes e) (calls s)) as Hc.
  { intros e. destruct (Hsame e) as (E1 & E2 & E3 & E4 & E5). pose_tallies Hp q e.
    rewrite E1, E2, E3, E4, E5 in *.
    destruct (owns e p), (refers e p), (sees e p); split_and!; lia. }
  destruct HI as [I1 I2 I3 I5 I6 I7 I8 I9 I10]. split; cbn; try done.
  - by rewrite length_insert.
  - intros t' p'. rewrite list_lookup_insert_Some. intros [(-> & <- & _) | (Hne & H)]; [exact Hq |].
    destruct (I6 t' p' H) as [H1 H2]. split; [cbn | done].
    destruct Hmu as [[Hm ->] | [Hm ->]]; rewrite Hm in H1; split; try congruence; naive_solver.
  - intros t' H. rewrite length_insert. destruct Hmu as [[Hm ->] | [Hm ->]]; [| done].
    injection H as <-. by apply lookup_lt_Some in Hp.
  - destruct I8 as [H1 H2]. split; [cbn | done].
    destruct Hmu as [[Hm ->] | [Hm ->]]; rewrite Hm in H1; split; try congruence; naive_solver.
  - intros e v He. destruct (Hc e) as (E1 & E2 & E3 & E4).
    destruct (I9 e v He); [apply VOwned | apply VLive | apply VClaimed | apply VClosed | apply VGone];
      rewrite ?E1, ?E2, ?E3, ?E4; done.
  - intros e He. destruct (Hc e) as (E1 & _ & E3 & _). rewrite E1, E3. by apply I10.
Qed.

Lemma inv_PLock s t k b c' q lv :
  Inv s -> calls s !! t = Some (PLock k b) -> call_step t lv (sys_cache s) (PLock k b) = Some (c', q) ->
  Inv (MkSys c' (<[t := q]> (calls s)) (sweeper s)).
Proof.
  intros HI Hp Hs. cbn in Hs. destruct (mu (sys_cache s)) eqn:Hmu; [done |]. injection Hs as <- <-.
  apply (inv_mutex s t (PLock k b)); [done | done | done | by left | done].
Qed.

Lemma inv_PUnlock s t b e0 c' q lv :
  Inv s -> calls s !! t = Some (PUnlock b e0) -> call_step t lv (sys_cache s) (PUnlock b e0) = Some (c', q) ->
  Inv (MkSys c' (<[t := q]> (calls s)) (sweeper s)).
Proof.
  intros HI Hp Hs. cbn in Hs. injection Hs as <- <-. destruct (inv_call s HI _ _ Hp) as [[Hl _] _].
  apply (inv_mutex s t (PUnlock b e0)); [done | done | split; [cbn; split; [done | congruence] | done] | right; split; [by apply Hl | done] | done].
Qed.

(** In the critical section. *)
Lemma call_ok_locked c t p q :
  call_ok c t p -> locks p -> locks q ->
  match q with
  | PFastCAS _ _ _ _ => False
  | PSlow k _ e => cache c !! k = Some e
  | PSlowCAS k _ e n => cache c !! k = Some e /\ 0 <= n
  | PPublish k _ | PStore k _ => cache c !! k = None
  | _ => True end ->
  call_ok c t q.
Proof. intros [H _] Hp Hq Hf. split; [tauto |]. by destruct q. Qed.

(** The sweep is idle while a call holds the mutex, so nothing is half
    evicted: what is in the map can be acquired. *)
Lemma locked_idle s t p : Inv s -> calls s !! t = Some p -> locks p -> sweeper s = SIdle.
Proof.
  intros HI Hp Hl. destruct (inv_call s HI _ _ Hp) as [[H _] _], (inv_sweep s HI) as [[H' _] _].
  destruct (sweeper s); [done | ..]; specialize (H Hl); specialize (H' ltac:(done)); congruence.
Qed.

Lemma locked_acquirable s t p k e v :
  Inv s -> calls s !! t = Some p -> locks p -> cache (sys_cache s) !! k = Some e ->
  heap (sys_cache s) !! e = Some v -> 0 <= v_refCount v.
Proof.
  intros HI Hp Hl Hk He. pose proof (locked_idle s t p HI Hp Hl) as Hi.
  assert (cached (sys_cache s) e) by by exists k.
  pose proof (inv_stage s e v HI He) as Hst. rewrite Hi in Hst. destruct Hst; cbn in *; first [lia | tauto].
Qed.

Lemma inv_PCheck s t k b c' q lv :
  Inv s -> calls s !! t = Some (PCheck k b) -> call_step t lv (sys_cache s) (PCheck k b) = Some (c', q) ->
  Inv (MkSys c' (<[t := q]> (calls s)) (sweeper s)).
Proof.
  intros HI Hp Hs. pose proof (inv_call s HI _ _ Hp) as Hc. cbn in Hs.
  destruct (inv_owned s t _ b HI Hp) as [vb Hvb]; [apply Nat.eqb_refl |]. apply lookup_lt_Some in Hvb.
  destruct (cache (sys_cache s) !! k) as [e0 |] eqn:Hk; injection Hs as <- <-;
    (apply (inv_move s t (PCheck k b)); [done .. | by eapply call_ok_locked; eauto | |]).
  - assert (cached (sys_cache s) e0) as Hcd by by exists k.
    value_move Hp (PSlow k b e0).
  - intros e He. cbn. split; [apply Nat.eqb_neq; lia |]. intros <-%Nat.eqb_eq. left. by exists k.
  - value_move Hp (PPublish k b).
  - intros e He. cbn. split; [apply Nat.eqb_neq; lia | done].
Qed.

Lemma inv_PSlow s t k b e0 c' q lv :
  Inv s -> calls s !! t = Some (PSlow k b e0) -> call_step t lv (sys_cache s) (PSlow k b e0) = Some (c', q) ->
  Inv (MkSys c' (<[t := q]> (calls s)) (sweeper s)).
Proof.
  intros HI Hp Hs. pose proof (inv_call s HI _ _ Hp) as Hc. cbn in Hs.
  destruct (inv_owned s t _ b HI Hp) as [vb Hvb]; [apply Nat.eqb_refl |]. apply lookup_lt_Some in Hvb.
  destruct (inv_seen s t _ e0 HI Hp) as [v0 Hv0]; [apply Nat.eqb_refl |]. rewrite Hv0 in Hs. cbn in Hs.
  pose proof (locked_acquirable s t _ k e0 v0 HI Hp I (proj2 Hc) Hv0) as Hpos.
  destruct (Z.ltb_spec (v_refCount v0) 0); [lia |]. injection Hs as <- <-.
  apply (inv_move s t (PSlow k b e0)); [done .. | | value_move Hp (PSlowCAS k b e0 (v_refCount v0)) |].
  - eapply call_ok_locked; [exact Hc | done | done |]. split; [apply Hc | done].
  - intros e He. cbn. split; [apply Nat.eqb_neq; lia | auto].
Qed.

Lemma inv_PSlowCAS s t k b e0 n c' q lv :
  Inv s -> calls s !! t = Some (PSlowCAS k b e0 n) ->
  call_step t lv (sys_cache s) (PSlowCAS k b e0 n) = Some (c', q) ->
  Inv (MkSys c' (<[t := q]> (calls s)) (sweeper s)).
Proof.
  intros HI Hp Hs. pose proof (inv_call s HI _ _ Hp) as Hc. cbn in Hs.
  destruct (inv_owned s t _ b HI Hp) as [vb Hvb]; [apply Nat.eqb_refl |]. apply lookup_lt_Some in Hvb.
  destruct (inv_seen s t _ e0 HI Hp) as [v0 Hv0]; [apply Nat.eqb_refl |]. rewrite Hv0 in Hs. cbn in Hs.
  destruct (Z.eqb_spec (v_refCount v0) n) as [<- | Hne]; injection Hs as <- <-.
  - apply (inv_acquire s t _ (PUnlock b e0) e0 v0 HI Hp); try done; try (cbn; apply Nat.eqb_refl).
    + by eapply call_ok_locked; eauto.
    + intros e Hne. cbn. destruct (Nat.eqb_spec e0 e); [congruence | done].
    + apply Hc.
  - apply (inv_move s t (PSlowCAS k b e0 n)); [done .. | | value_move Hp (PSlow k b e0) |].
    + eapply call_ok_locked; [exact Hc | done | done |]. apply Hc.
    + intros e He. cbn. split; [apply Nat.eqb_neq; lia | auto].
Qed.

(** A write to one value by the call that moves from [p] to [q], which learns
    of no new value. *)
Lemma inv_write s t p q b f :
  Inv s -> calls s !! t = Some p -> call_ok (sys_cache s) t q ->
  (forall e, (sees e q = true -> sees e p = true) /\ (owns e q = true -> owns e p = true)) ->
  (forall e v, heap (sys_cache s) !! e = Some v -> value_ok (cached (sys_cache s) e) (calls s) (sweeper s) e v ->
     value_ok (cached (sys_cache s) e) (<[t := q]> (calls s)) (sweeper s) e (if decide (e = b) then f v else v)) ->
  Inv (MkSys (upd (sys_cache s) b f) (<[t := q]> (calls s)) (sweeper s)).
Proof.
  intros HI Hp Hq Hsub Hv. apply (inv_plain s t p q); [done .. | |].
  - intros e v He. apply alter_cases in He as [(-> & w & Hw & ->) | [Hne He]].
    + specialize (Hv b w Hw (inv_stage s b w HI Hw)). by rewrite decide_True in Hv.
    + specialize (Hv e v He (inv_stage s e v HI He)). by rewrite decide_False in Hv.
  - intros e He. rewrite length_alter in He. destruct (inv_fresh s HI e He) as (F1 & F2 & F3).
    destruct (Hsub e) as [S1 S2].
    pose proof (tally_insert (owns e) _ _ _ q Hp). pose proof (tally_insert (sees e) _ _ _ q Hp).
    pose proof (tally_self (owns e) _ _ _ Hp). pose proof (tally_self (sees e) _ _ _ Hp).
    destruct (owns e p), (sees e p); try lia.
    destruct (owns e q); [by specialize (S2 eq_refl) |]. destruct (sees e q); [by specialize (S1 eq_refl) |].
    split_and!; [lia | lia | done].
Qed.

(** As [value_move], for a write to [b]. *)
Ltac value_write Hp q b :=
  let e := fresh "e" in let v := fresh "v" in let He := fresh "He" in let Hv := fresh "Hv" in
  intros e v He Hv;
  match type of Hp with ?l !! ?t = Some _ =>
    pose proof (tally_publishes_owns e (<[t := q]> l)) end;
  tally_facts Hp q e;
  try rewrite decide_True by done; try rewrite decide_False by congruence.

Lemma close_fields v :
  v_refCount (close v) = v_refCount v /\ (v_closed v = 0%nat -> closed_once (close v)).
Proof. unfold close, closed_once. cbn. split; [done |]. intros ->. by destruct (v_closer v). Qed.

Lemma inv_PDiscard s t b e0 c' q lv :
  Inv s -> calls s !! t = Some (PDiscard b e0) -> call_step t lv (sys_cache s) (PDiscard b e0) = Some (c', q) ->
  Inv (MkSys c' (<[t := q]> (calls s)) (sweeper s)).
Proof.
  intros HI Hp Hs. pose proof (inv_call s HI _ _ Hp) as Hc. cbn in Hs. injection Hs as <- <-.
  apply (inv_write s t (PDiscard b e0)); [done | done | by eapply call_ok_free; eauto | by cbn |].
  value_write Hp (PHold e0) b; try (destruct Hv; value_stage);
    destruct (close_fields v) as [C1 C2]; destruct Hv; try (specialize (C2 ltac:(assumption)); rewrite <- C1 in *); value_stage.
Qed.

Lemma inv_PHoldUncached s t b c' q lv :
  Inv s -> calls s !! t = Some (PHoldUncached b) -> call_step t lv (sys_cache s) (PHoldUncached b) = Some (c', q) ->
  Inv (MkSys c' (<[t := q]> (calls s)) (sweeper s)).
Proof.
  intros HI Hp Hs. pose proof (inv_call s HI _ _ Hp) as Hc. cbn in Hs. injection Hs as <- <-.
  apply (inv_write s t (PHoldUncached b)); [done | done | by eapply call_ok_free; eauto | by cbn |].
  value_write Hp PReleased b; try (destruct Hv; value_stage);
    destruct (close_fields v) as [C1 C2]; destruct Hv; try (specialize (C2 ltac:(assumption)); rewrite <- C1 in *); value_stage.
Qed.

Lemma inv_PHold s t e0 c' q lv :
  Inv s -> calls s !! t = Some (PHold e0) -> call_step t lv (sys_cache s) (PHold e0) = Some (c', q) ->
  Inv (MkSys c' (<[t := q]> (calls s)) (sweeper s)).
Proof.
  intros HI Hp Hs. pose proof (inv_call s HI _ _ Hp) as Hc. cbn in Hs. injection Hs as <- <-.
  apply (inv_write s t (PHold e0)); [done | done | by eapply call_ok_free; eauto | by cbn |].
  pose proof (inv_calls s HI) as Hlen.
  value_write Hp PReleased e0; [| destruct Hv; value_stage].
  pose proof (tally_length (refers e) (calls s)).
  rewrite wrap32_id by (destruct Hv; unfold int32_range; lia). destruct Hv; value_stage.
Qed.

Lemma inv_PPublish s t k b c' q lv :
  Inv s -> calls s !! t = Some (PPublish k b) -> call_step t lv (sys_cache s) (PPublish k b) = Some (c', q) ->
  Inv (MkSys c' (<[t := q]> (calls s)) (sweeper s)).
Proof.
  intros HI Hp Hs. pose proof (inv_call s HI _ _ Hp) as Hc. cbn in Hs. injection Hs as <- <-.
  apply (inv_write s t (PPublish k b)); [done | done | eapply call_ok_locked; [exact Hc | done | done | apply Hc] | by cbn |].
  value_write Hp (PStore k b) b; [| destruct Hv; value_stage].
  destruct Hv; try (exfalso; lia).
  rewrite wrap32_id by (unfold int32_range; lia).
  assert (v_refCount v = 0) as Hv0 by lia. rewrite Hv0.
  destruct (v_liveness v) eqn:Hlv; apply VOwned; cbn; try done; try lia;
    rewrite Hlv; cbn; done || lia.
Qed.

(** Storing under a key that is not in the map. *)
Lemma cached_insert c h o ks w k b e :
  cache c !! k = None ->
  cached (MkCache h (<[k := b]> (cache c)) (ttl c) o ks w) e <-> e = b \/ cached c e.
Proof.
  intros Hk. unfold cached. cbn. split.
  - intros [k' Hk']. destruct (decide (k' = k)) as [-> | Hne].
    + rewrite lookup_insert_eq in Hk'. left. congruence.
    + rewrite lookup_insert_ne in Hk' by done. right. by exists k'.
  - intros [-> | [k' Hk']]; [exists k; by rewrite lookup_insert_eq |].
    exists k'. rewrite lookup_insert_ne; [done | congruence].
Qed.

Lemma value_ok_iff (P Q : Prop) l sw e v : (P <-> Q) -> value_ok P l sw e v -> value_ok Q l sw e v.
Proof.
  intros H []; [apply VOwned | apply VLive | apply VClaimed | apply VClosed | apply VGone]; tauto || done.
Qed.

Lemma inv_PStore s t k b c' q lv :
  Inv s -> calls s !! t = Some (PStore k b) -> call_step t lv (sys_cache s) (PStore k b) = Some (c', q) ->
  Inv (MkSys c' (<[t := q]> (calls s)) (sweeper s)).
Proof.
  intros HI Hp Hs. pose proof (inv_call s HI _ _ Hp) as [Hl Hk]. cbn in Hk.
  pose proof (locked_idle s t _ HI Hp I) as Hidle. pose proof (proj1 Hl I) as Hmu.
  cbn [call_step] in Hs. injection Hs as Hc' <-.
  assert (exists w, c' = MkCache (heap (sys_cache s)) (<[k := b]> (cache (sys_cache s))) (ttl (sys_cache s)) None
    ({[k]} ∪ mapKeys (sys_cache s)) w /\ (0 < ttl (sys_cache s) -> w = true)) as (w & -> & Hw).
  { rewrite <- Hc'. unfold ensureWorkerWithLock. cbn [worker ttl].
    destruct (worker (sys_cache s)) eqn:E; cbn [orb]; [by exists true |].
    destruct (Z.leb_spec (ttl (sys_cache s)) 0); [exists false; split; [done | lia] | by exists true]. }
  clear Hc'.
  destruct (inv_owned s t _ b HI Hp) as [vb Hvb]; [apply Nat.eqb_refl |].
  assert (~ cached (sys_cache s) b) as Hnb.
  { pose proof (tally_pos (owns b) _ _ _ Hp ltac:(cbn; apply Nat.eqb_refl)).
    pose proof (inv_stage s b vb HI Hvb) as []; tauto || lia. }
  pose proof (fun e => cached_insert (sys_cache s) (heap (sys_cache s)) None ({[k]} ∪ mapKeys (sys_cache s)) w k b e Hk) as Hcd.
  pose proof HI as [I1 I2 I3 I5 I6 I7 I8 I9 I10]. split; cbn.
  - by rewrite length_insert.
  - rewrite I2. by rewrite dom_insert_L.
  - auto.
  - intros k1 k2 e H1 H2. rewrite !lookup_insert_Some in *.
    destruct H1 as [[<- <-] | [N1 H1]], H2 as [[<- ?] | [N2 H2]]; try done.
    + exfalso. apply Hnb. by exists k2.
    + subst. exfalso. apply Hnb. by exists k1.
    + by apply (I5 k1 k2 e).
  - intros t' p'. rewrite list_lookup_insert_Some. intros [(-> & <- & _) | (Hne & H)].
    + split; [cbn; split; [done | congruence] | done].
    + destruct (I6 t' p' H) as [H1 H2]. assert (~ locks p') as Hn by (intros Hx; apply H1 in Hx; congruence).
      split; [cbn; split; [tauto | congruence] |]. destruct p'; try done; by destruct Hn.
  - done.
  - rewrite Hidle. split; [cbn; split; congruence | done].
  - intros e v He. eapply value_ok_iff; [symmetry; apply Hcd |].
    pose proof (I9 e v He) as Hv. pose proof (tally_publishes_owns e (<[t := PHold b]> (calls s))).
    tally_facts Hp (PHold b) e.
    + destruct Hv; try (exfalso; lia). apply VLive; [lia | by left | done | lia | done].
    + apply (value_ok_iff (cached (sys_cache s) e)); [split; [tauto | by intros [-> |]] |].
      destruct Hv; value_stage.
  - intros e He. destruct (I10 e He) as (F1 & F2 & F3).
    assert (e <> b) by (intros ->; apply lookup_lt_Some in Hvb; lia).
    tally_facts Hp (PHold b) e; [done |]. split_and!; [lia | lia |]. rewrite Hcd. tauto.
Qed.

Lemma inv_call_step s t lv p c' q :
  Inv s -> calls s !! t = Some p -> call_step t lv (sys_cache s) p = Some (c', q) ->
  Inv (MkSys c' (<[t := q]> (calls s)) (sweeper s)).
Proof.
  intros HI Hp Hs. destruct p; [.. | done | done].
  - by eapply inv_PStart.
  - by eapply inv_PFast.
  - by eapply inv_PFastCAS.
  - by eapply inv_PBuild.
  - by eapply inv_PBuildUncached.
  - by eapply inv_PLock.
  - by eapply inv_PCheck.
  - by eapply inv_PSlow.
  - by eapply inv_PSlowCAS.
  - by eapply inv_PPublish.
  - by eapply inv_PStore.
  - by eapply inv_PUnlock.
  - by eapply inv_PDiscard.
  - by eapply inv_PHold.
  - by eapply inv_PHoldUncached.
Qed.

(** ** The sweep *)

Lemma with_heap_same c : with_heap c (heap c) = c.
Proof. by destruct c. Qed.

(** A step of the sweep that leaves the maps and the mutex alone. *)
Lemma inv_sweep_plain s h p' :
  Inv s -> sweep_ok (sys_cache s) p' -> length h = length (heap (sys_cache s)) ->
  (forall e v, h !! e = Some v -> value_ok (cached (sys_cache s) e) (calls s) p' e v) ->
  Inv (MkSys (with_heap (sys_cache s) h) (calls s) p').
Proof.
  intros [I1 I2 I3 I5 I6 I7 I8 I9 I10] Hsw Hlen Hv. split; cbn; try done.
  intros e He. rewrite Hlen in He. by apply I10.
Qed.

Lemma sweep_ok_step c p p' :
  sweep_ok c p -> p <> SIdle -> p' <> SIdle ->
  match p' with
  | SIdle => True
  | SKeys ks => NoDup ks /\ (forall k, k ∈ ks -> is_Some (cache c !! k))
  | SZero k e ks | SClaimed k e ks | SClosed k e ks =>
    cache c !! k = Some e /\ NoDup (k :: ks) /\ (forall k', k' ∈ ks -> is_Some (cache c !! k'))
  end -> sweep_ok c p'.
Proof. intros [H _] Hp Hp' Hm. split; [tauto | exact Hm]. Qed.

(** The stages seen by a sweep that claims nothing before or after. *)
Lemma value_ok_claims P l sw sw' e v : claims e sw' = claims e sw -> value_ok P l sw e v -> value_ok P l sw' e v.
Proof.
  intros H []; [apply VOwned | apply VLive | apply VClaimed | apply VClosed | apply VGone]; rewrite ?H; done.
Qed.
Lemma value_ok_live P l sw e v n :
  value_ok P l sw e v -> value_ok P l sw e (with_lastLiveness v n).
Proof. intros []; [apply VOwned | apply VLive | apply VClaimed | apply VClosed | apply VGone]; done. Qed.

Lemma inv_SIdle s lv order c' p' :
  Inv s -> sweeper s = SIdle -> sweep_step lv order (sys_cache s) SIdle = Some (c', p') ->
  Inv (MkSys c' (calls s) p').
Proof.
  intros HI Hi Hs. cbn in Hs. destruct (mu (sys_cache s)) eqn:Hmu.
  { injection Hs as <- <-. rewrite <- Hi. by destruct s. }
  case_decide as Ho; [| done]. injection Hs as <- <-.
  destruct HI as [I1 I2 I3 I5 I6 I7 I8 I9 I10]. split; cbn; try done.
  - intros t p H. destruct (I6 t p H) as [H1 H2]. split; [| done]. cbn. rewrite Hmu in H1.
    split; [intros Hx; apply H1 in Hx; done | done].
  - split; [done |]. split; [rewrite Ho; apply NoDup_elements |].
    intros k. rewrite Ho, elem_of_elements, I2. by rewrite elem_of_dom.
  - intros e v He. eapply value_ok_claims; [| by apply I9]. by rewrite Hi.
Qed.

Lemma inv_SKeys s lv order ks c' p' :
  Inv s -> sweeper s = SKeys ks -> sweep_step lv order (sys_cache s) (SKeys ks) = Some (c', p') ->
  Inv (MkSys c' (calls s) p').
Proof.
  intros HI Hi Hs. pose proof (inv_sweep s HI) as Hsw. rewrite Hi in Hsw. pose proof Hsw as [Hm [Hnd Hks]].
  destruct ks as [| k ks]; cbn [sweep_step] in Hs.
  - injection Hs as Hc' <-.
    assert (exists w, c' = MkCache (heap (sys_cache s)) (cache (sys_cache s)) (ttl (sys_cache s)) None (mapKeys (sys_cache s)) w /\
      (0 < ttl (sys_cache s) -> mapKeys (sys_cache s) <> ∅ -> w = true)) as (w & -> & Hw).
    { rewrite <- Hc'. case_bool_decide as He; [by eexists |]. eexists. split; [done |]. apply HI. }
    destruct HI as [I1 I2 I3 I5 I6 I7 I8 I9 I10]. split; cbn; try done.
    + intros t p H. destruct (I6 t p H) as [H1 H2]. split; [| done]. cbn.
      pose proof (proj1 Hm ltac:(done)) as Hmu. rewrite Hmu in H1.
      split; [intros Hx; apply H1 in Hx; done | done].
    + intros e v He. eapply value_ok_claims; [| by apply I9]. by rewrite Hi.
  - apply NoDup_cons in Hnd as [Hk Hnd]. destruct (Hks k) as [e0 He0]; [set_solver |]. rewrite He0 in Hs.
    assert (forall k', k' ∈ ks -> is_Some (cache (sys_cache s) !! k')) as Hks' by set_solver.
    destruct (inv_cached s e0 HI) as [v0 Hv0]; [by exists k |]. rewrite Hv0 in Hs. cbn in Hs.
    destruct (v_refCount v0 =? 0); injection Hs as <- <-.
    + rewrite <- (with_heap_same (sys_cache s)). apply inv_sweep_plain; [done | | done |].
      * eapply sweep_ok_step; [exact Hsw | done | done |]. cbn. split_and!; [done | by apply NoDup_cons | done].
      * intros e v He. eapply value_ok_claims; [| by apply inv_stage]. by rewrite Hi.
    + apply inv_sweep_plain; [done | | apply length_alter |].
      * by eapply sweep_ok_step.
      * intros e v He. apply (value_ok_claims _ _ (sweeper s)); [by rewrite Hi |].
        apply alter_cases in He as [(-> & w & Hw & ->) | [_ He]]; [| by apply inv_stage].
        unfold set_live. destruct (v_liveness w); [apply value_ok_live |]; by apply inv_stage.
Qed.

Lemma inv_SZero s lv order k e0 ks c' p' :
  Inv s -> sweeper s = SZero k e0 ks -> sweep_step lv order (sys_cache s) (SZero k e0 ks) = Some (c', p') ->
  Inv (MkSys c' (calls s) p').
Proof.
  intros HI Hi Hs. pose proof (inv_sweep s HI) as Hsw. rewrite Hi in Hsw. pose proof Hsw as [Hm (Hk & Hnd & Hks)].
  destruct (inv_cached s e0 HI) as [v0 Hv0]; [by exists k |]. cbn in Hs. rewrite Hv0 in Hs. cbn in Hs.
  assert (sweep_ok (sys_cache s) (SKeys ks)) as Hok.
  { eapply sweep_ok_step; [exact Hsw | done | done |]. by apply NoDup_cons in Hnd as [_ ?]. }
  destruct (_ || _); [destruct (Z.eqb_spec (v_refCount v0) 0) as [H0 | _] |]; injection Hs as <- <-.
  - apply inv_sweep_plain; [done | | apply length_alter |].
    + eapply sweep_ok_step; [exact Hsw | done | done |]. done.
    + intros e v He. apply alter_cases in He as [(-> & w & Hw & ->) | [Hne He]].
      * rewrite Hv0 in Hw. injection Hw as <-. assert (cached (sys_cache s) e0) by by exists k.
        pose proof (inv_stage s e0 v0 HI Hv0) as Hst. rewrite Hi in Hst.
        destruct Hst; cbn [claims] in *; try (exfalso; tauto || lia).
        apply VClaimed; cbn; rewrite ?Nat.eqb_refl; done || lia.
      * apply (value_ok_claims _ _ (sweeper s)); [| by apply inv_stage]. rewrite Hi. cbn.
        by destruct (Nat.eqb_spec e0 e).
  - rewrite <- (with_heap_same (sys_cache s)). apply inv_sweep_plain; [done | done | done |].
    intros e v He. eapply value_ok_claims; [| by apply inv_stage]. by rewrite Hi.
  - apply inv_sweep_plain; [done | done | apply length_alter |].
    intros e v He. apply (value_ok_claims _ _ (sweeper s)); [by rewrite Hi |].
    apply alter_cases in He as [(-> & w & Hw & ->) | [_ He]]; [| by apply inv_stage].
    apply value_ok_live. by apply inv_stage.
Qed.

Lemma inv_SClaimed s lv order k e0 ks c' p' :
  Inv s -> sweeper s = SClaimed k e0 ks -> sweep_step lv order (sys_cache s) (SClaimed k e0 ks) = Some (c', p') ->
  Inv (MkSys c' (calls s) p').
Proof.
  intros HI Hi Hs. pose proof (inv_sweep s HI) as Hsw. rewrite Hi in Hsw. injection Hs as <- <-.
  apply inv_sweep_plain; [done | eapply sweep_ok_step; [exact Hsw | done | done | apply Hsw] | apply length_alter |].
  intros e v He. apply alter_cases in He as [(-> & w & Hw & ->) | [Hne He]].
  - pose proof (inv_stage s e0 w HI Hw) as Hst. rewrite Hi in Hst. destruct (close_fields w) as [C1 C2].
    destruct Hst; cbn [claims] in *; rewrite Nat.eqb_refl in *; try lia.
    apply VClosed; cbn; rewrite ?Nat.eqb_refl; try done. by apply C2.
  - apply (value_ok_claims _ _ (sweeper s)); [| by apply inv_stage]. rewrite Hi. cbn. by destruct (Nat.eqb_spec e0 e).
Qed.

Lemma inv_SClosed s lv order k e0 ks c' p' :
  Inv s -> sweeper s = SClosed k e0 ks -> sweep_step lv order (sys_cache s) (SClosed k e0 ks) = Some (c', p') ->
  Inv (MkSys c' (calls s) p').
Proof.
  intros HI Hi Hs. pose proof (inv_sweep s HI) as Hsw. rewrite Hi in Hsw. pose proof Hsw as [Hm (Hk & Hnd & Hks)].
  injection Hs as <- <-. pose proof (proj1 Hm ltac:(done)) as Hmu.
  pose proof HI as [I1 I2 I3 I5 I6 I7 I8 I9 I10].
  set (c' := MkCache _ _ _ _ _ _).
  assert (forall e, cached c' e <-> cached (sys_cache s) e /\ e <> e0) as Hcd.
  { intros e. unfold cached, c'. cbn. split.
    - intros [k' Hk']. apply lookup_delete_Some in Hk' as [Hne Hk']. split; [by exists k' |].
      intros ->. by destruct Hne; apply (I5 k k' e0).
    - intros [[k' Hk'] Hne]. exists k'. apply lookup_delete_Some. split; [congruence | done]. }
  apply NoDup_cons in Hnd as [Hnk Hnd]. split; cbn.
  - done.
  - rewrite I2. by rewrite dom_delete_L.
  - intros Ht He. apply I3; [done |]. set_solver.
  - intros k1 k2 e H1 H2. apply lookup_delete_Some in H1 as [_ H1], H2 as [_ H2]. by apply (I5 k1 k2 e).
  - intros t p H. destruct (I6 t p H) as [H1 H2]. rewrite Hmu in H1.
    assert (~ locks p) as Hn by (intros Hx; apply H1 in Hx; done).
    split; [cbn; rewrite Hmu; exact H1 |]. destruct p; try done; by destruct Hn.
  - done.
  - split; [cbn; by rewrite Hmu |]. cbn. split; [done |]. intros k' Hk'. rewrite lookup_delete_ne; [by apply Hks |].
    intros ->. done.
  - intros e v He. eapply value_ok_iff; [symmetry; apply Hcd |].
    pose proof (I9 e v He) as Hst. rewrite Hi in Hst. cbn [claims] in Hst.
    destruct (decide (e = e0)) as [-> | Hne].
    + destruct Hst; cbn [claims] in *; rewrite ?Nat.eqb_refl in *; try lia.
      apply VGone; [done | done | by left | tauto | done | done].
    + apply (value_ok_claims _ _ (SClosed k e0 ks)); [cbn; by destruct (Nat.eqb_spec e0 e) |].
      eapply value_ok_iff; [| exact Hst]. tauto.
  - intros e He. destruct (I10 e He) as (F1 & F2 & F3). split_and!; [done | done |]. rewrite Hcd. tauto.
Qed.

Lemma inv_step s s' : Inv s -> step s s' -> Inv s'.
Proof.
  intros HI Hstep. destruct Hstep as [s it Hlen | s t lv p c' p' Hp Hs | s lv order c' p' Hs].
  - assert (forall e, tally (owns e) (calls s ++ [PStart it]) = tally (owns e) (calls s) /\
      tally (refers e) (calls s ++ [PStart it]) = tally (refers e) (calls s) /\
      tally (sees e) (calls s ++ [PStart it]) = tally (sees e) (calls s) /\
      tally (publishes e) (calls s ++ [PStart it]) = tally (publishes e) (calls s)) as Hc.
    { intros e. rewrite !tally_app. cbn. lia. }
    destruct HI as [I1 I2 I3 I5 I6 I7 I8 I9 I10]. split; cbn; try done.
    + rewrite length_app. cbn. lia.
    + intros t p H. apply lookup_app_Some in H as [H | [Hge H]]; [by apply I6 |].
      apply list_lookup_singleton_Some in H as [Ht <-]. split; [| done]. cbn. split; [done |].
      intros H. apply I7 in H. lia.
    + intros t H. rewrite length_app. specialize (I7 t H). cbn. lia.
    + intros e v He. destruct (Hc e) as (E1 & E2 & E3 & E4).
      destruct (I9 e v He); [apply VOwned | apply VLive | apply VClaimed | apply VClosed | apply VGone];
        rewrite ?E1, ?E2, ?E3, ?E4; done.
    + intros e He. destruct (Hc e) as (E1 & _ & E3 & _). rewrite E1, E3. by apply I10.
  - by eapply inv_call_step.
  - destruct (sweeper s) as [| ks | k e ks | k e ks | k e ks] eqn:Hi.
    + by eapply inv_SIdle.
    + by eapply inv_SKeys.
    + by eapply inv_SZero.
    + by eapply inv_SClaimed.
    + by eapply inv_SClosed.
Qed.

Lemma steps_inv s s' : Inv s -> rtc step s s' -> Inv s'.
Proof. intros H0. induction 1 as [| s1 s2 s3 H12 _ IH]; [done |]. apply IH. by eapply inv_step. Qed.

Lemma reachable_inv ttl s : reachable ttl s -> Inv s.
Proof. apply steps_inv, inv_init. Qed.

(** A reference keeps a value alive. *)
Lemma held_live s t p e :
  Inv s -> calls s !! t = Some p -> refers e p = true ->
  exists v, heap (sys_cache s) !! e = Some v /\ cached (sys_cache s) e /\ v_closed v = 0%nat /\
    v_refCount v = Z.of_nat (tally (refers e) (calls s)) /\ 1 <= v_refCount v.
Proof.
  intros HI Hp Hr. destruct (inv_seen s t p e HI Hp (sees_refers e p Hr)) as [v Hv]. exists v. split; [done |].
  pose proof (tally_pos _ _ _ _ Hp Hr). destruct (inv_stage s e v HI Hv); try lia. by split_and!; [| | | lia].
Qed.

(** * Theorems *)

(** C13: The cache is safe under any interleaving of GetOrCreate calls, releases
    and sweeps. A caller that holds a value from the cache holds an open one:
    its Close has not been called, and the value stays in the map with a
    reference tally equal to the number of callers that hold it. A caller of
    the disabled cache holds an open value of its own. No value is closed
    twice. *)
Theorem cache_never_closes_held ttl s :
  reachable ttl s ->
  (forall t e, calls s !! t = Some (PHold e) -> exists v, heap (sys_cache s) !! e = Some v /\
     v_closed v = 0%nat /\ v_refCount v = Z.of_nat (tally (refers e) (calls s)) /\ 1 <= v_refCount v /\
     cached (sys_cache s) e) /\
  (forall t b, calls s !! t = Some (PHoldUncached b) -> exists v, heap (sys_cache s) !! b = Some v /\ v_closed v = 0%nat) /\
  (forall e v, heap (sys_cache s) !! e = Some v -> (v_closed v <= 1)%nat).
Proof.
  intros HI%reachable_inv. split_and!.
  - intros t e Hp. destruct (held_live s t _ e HI Hp) as (v & H1 & H2 & H3 & H4 & H5); [apply Nat.eqb_refl |]. by exists v.
  - intros t b Hp. destruct (inv_owned s t _ b HI Hp) as [v Hv]; [apply Nat.eqb_refl |]. exists v. split; [done |].
    pose proof (tally_pos (owns b) _ _ _ Hp ltac:(apply Nat.eqb_refl)).
    destruct (inv_stage s b v HI Hv); done || lia.
  - intros e v Hv. unfold closed_once in *. destruct (inv_stage s e v HI Hv); unfold closed_once in *;
      destruct (v_closer v); lia.
Qed.

Definition settled (p : pc) : Prop :=
  match p with PHold _ | PHoldUncached _ | PReleased | PFailed => True | _ => False end.

(** C14: Nothing leaks. Once every call has returned and no sweep is running,
    every value that was ever built either sits in the cache, counted exactly
    by its holders, or is held by a caller that bypassed the cache, or has been
    closed exactly once (when it has something to close): the redundant builds
    of racing calls and the evicted entries alike. *)
Theorem cache_leaks_nothing ttl s e v :
  reachable ttl s -> (forall t p, calls s !! t = Some p -> settled p) -> sweeper s = SIdle ->
  heap (sys_cache s) !! e = Some v ->
  (cached (sys_cache s) e /\ v_closed v = 0%nat /\ v_refCount v = Z.of_nat (tally (refers e) (calls s))) \/
  (exists t, calls s !! t = Some (PHoldUncached e) /\ v_closed v = 0%nat) \/
  (~ cached (sys_cache s) e /\ closed_once v /\ tally (refers e) (calls s) = 0%nat).
Proof.
  intros HI%reachable_inv Hset Hi Hv. pose proof (inv_stage s e v HI Hv) as Hst. rewrite Hi in Hst.
  destruct Hst; try done.
  - right. left. destruct (tally_exists (owns e) (calls s)) as (t & p & Hp & Ho); [lia |]. exists t.
    specialize (Hset t p Hp). destruct p; try done. cbn in Ho. apply Nat.eqb_eq in Ho as ->. done.
  - by left.
  - by right; right.
Qed.

(** A call that is neither finished nor waiting for the mutex can step; so can
    the sweep once it has started. *)
Lemma call_progress s t p lv :
  Inv s -> calls s !! t = Some p ->
  p = PReleased \/ p = PFailed \/ (exists k b, p = PLock k b /\ mu (sys_cache s) <> None) \/
  is_Some (call_step t lv (sys_cache s) p).
Proof.
  intros HI Hp.
  assert (forall e, sees e p = true -> is_Some (heap (sys_cache s) !! e)) as Hs by (intros e He; by eapply inv_seen).
  destruct p as [it | k it e | k it e n | k it | it | k b | k b | k b e | k b e n | k b | k b | b e | b e | e | b | |]; auto;
    right; right; cbn [call_step].
  - right. repeat case_match; by eexists.
  - destruct (Hs e) as [v Hv]; [apply Nat.eqb_refl |]. right. rewrite Hv. cbn. case_match; by eexists.
  - destruct (Hs e) as [v Hv]; [apply Nat.eqb_refl |]. right. rewrite Hv. cbn. case_match; by eexists.
  - right. case_match; by eexists.
  - right. case_match; by eexists.
  - destruct (mu (sys_cache s)) eqn:Hm; [left; by exists k, b | right; by eexists].
  - right. case_match; by eexists.
  - destruct (Hs e) as [v Hv]; [apply Nat.eqb_refl |]. right. rewrite Hv. cbn. case_match; by eexists.
  - destruct (Hs e) as [v Hv]; [apply Nat.eqb_refl |]. right. rewrite Hv. cbn. case_match; by eexists.
  all: right; by eexists.
Qed.

Lemma sweep_progress s lv order : Inv s -> sweeper s <> SIdle -> is_Some (sweep_step lv order (sys_cache s) (sweeper s)).
Proof.
  intros HI Hi. pose proof (inv_sweep s HI) as [_ Hsw].
  destruct (sweeper s) as [| [| k ks] | k e ks | k e ks | k e ks]; try done; cbn; try (by eexists).
  - destruct (proj2 Hsw k) as [e He]; [set_solver |]. rewrite He.
    destruct (inv_cached s e HI) as [v Hv]; [by exists k |]. rewrite Hv. cbn. case_match; by eexists.
  - destruct (inv_cached s e HI) as [v Hv]; [by exists k; apply Hsw |]. rewrite Hv. cbn. repeat case_match; by eexists.
Qed.

(** The critical sections do what their comments rely on. The key set is
    the map's, so the sweep never meets a stray key; the eviction worker runs
    whenever a cache with a time to live holds anything; an entry found under
    the mutex can always be acquired, and publishing never overwrites one; no
    call dereferences nil; and there is no deadlock: a call that waits for the
    mutex waits for another call or the sweep, which can move. *)
Theorem cache_critical_sections ttl0 s :
  reachable ttl0 s ->
  let c := sys_cache s in
  mapKeys c = dom (cache c) /\
  (0 < ttl c -> cache c <> ∅ -> worker c = true) /\
  (forall k ks, sweeper s = SKeys (k :: ks) -> is_Some (cache c !! k)) /\
  (forall t p k e v, calls s !! t = Some p -> locks p -> cache c !! k = Some e -> heap c !! e = Some v -> 0 <= v_refCount v) /\
  (forall t k b, calls s !! t = Some (PStore k b) -> cache c !! k = None) /\
  (forall t p lv, calls s !! t = Some p ->
     p = PReleased \/ p = PFailed \/ is_Some (call_step t lv c p) \/
     (exists k b, p = PLock k b /\
        ((exists t' p', calls s !! t' = Some p' /\ is_Some (call_step t' lv c p')) \/
         is_Some (sweep_step lv (elements (mapKeys c)) c (sweeper s))))).
Proof.
  intros HI%reachable_inv. cbv zeta. split; [apply HI |]. split; [| split; [| split; [| split]]].
  - intros Ht Hc. apply (inv_worker s HI Ht). rewrite (inv_keys s HI). intros E. apply Hc. by apply dom_empty_inv_L.
  - intros k ks Hi. pose proof (inv_sweep s HI) as [_ Hsw]. rewrite Hi in Hsw. apply Hsw. set_solver.
  - intros t p k e v Hp Hl. by eapply locked_acquirable.
  - intros t k b Hp. apply (inv_call s HI t _ Hp).
  - intros t p lv Hp. destruct (call_progress s t p lv HI Hp) as [? | [? | [(k & b & -> & Hm) | ?]]]; auto.
    right. right. right. exists k, b. split; [done |].
    destruct (mu (sys_cache s)) as [[t' |] |] eqn:Hmu; [| | done].
    + left. pose proof (inv_mu s HI t' Hmu) as Hlt. apply lookup_lt_is_Some in Hlt as [p' Hp'].
      exists t', p'. split; [done |]. destruct (inv_call s HI t' p' Hp') as [[_ Hl] _]. specialize (Hl Hmu).
      destruct (call_progress s t' p' lv HI Hp') as [-> | [-> | [(? & ? & -> & _) | ?]]]; done.
    + right. apply sweep_progress; [done |]. apply (inv_sweep s HI). done.
Qed.

(** ** What a sweep evicts *)

(** The visit of one key, undisturbed; [lvf] is what Liveness answers. *)
Definition idle (lvf : nat -> Z) (e : nat) (v : Value) : bool :=
  (v_refCount v =? 0) && (negb (v_liveness v) || (lvf e =? v_lastLiveness v)).
Definition evicts (lvf : nat -> Z) (c : Cache) (e : nat) : bool :=
  match heap c !! e with Some v => idle lvf e v | None => false end.
Definition evict (v : Value) : Value := close (with_refCount v (-1)).

(** The value a step of the sweep asks for its liveness. *)
Definition visited (c : Cache) (p : spc) : nat :=
  match p with
  | SKeys (k :: _) => default 0%nat (cache c !! k)
  | SZero _ e _ | SClaimed _ e _ | SClosed _ e _ => e
  | _ => 0%nat
  end.
Fixpoint sweep_exec (n : nat) (lvf : nat -> Z) (order : list Z) (c : Cache) (p : spc) : option Cache :=
  match n with
  | O => None
  | S n' =>
    '(c', p') ← sweep_step (lvf (visited c p)) order c p;
    match p' with SIdle => Some c' | _ => sweep_exec n' lvf order c' p' end
  end.
(** sweep() with nobody else running; four steps per key and two more. *)
Definition sweep (lvf : nat -> Z) (order : list Z) (c : Cache) : option Cache :=
  sweep_exec (4 * length order + 2) lvf order c SIdle.

(** The same visit in one go. *)
Definition visit (lvf : nat -> Z) (c : Cache) (k : Z) : Cache :=
  match cache c !! k with
  | None => c
  | Some e =>
    if evicts lvf c e
    then MkCache (alter evict e (heap c)) (delete k (cache c)) (ttl c) (mu c) (mapKeys c ∖ {[k]}) (worker c)
    else upd c e (set_live (lvf e))
  end.
Definition finish (c : Cache) : Cache :=
  MkCache (heap c) (cache c) (ttl c) None (mapKeys c) (if bool_decide (mapKeys c = ∅) then false else worker c).

Lemma sweep_exec_mono n m lvf order c p c' :
  (n <= m)%nat -> sweep_exec n lvf order c p = Some c' -> sweep_exec m lvf order c p = Some c'.
Proof.
  revert m c p. induction n as [| n IH]; intros [| m] c p Hle; cbn [sweep_exec]; try done; [lia |].
  destruct (sweep_step _ order c p) as [[c1 p1] |]; [cbn | done]. destruct p1; [done | apply IH; lia ..].
Qed.

(** The value behind a key on the visiting list. *)
Definition sound_key (c : Cache) (k : Z) : Prop := exists e v, cache c !! k = Some e /\ heap c !! e = Some v.

Lemma alter_twice {A} (f g : A -> A) i (l : list A) : alter f i (alter g i l) = alter (fun x => f (g x)) i l.
Proof. revert i. induction l as [| x l IH]; intros [| i]; cbn; try done. f_equal. apply IH. Qed.

Lemma sweep_exec_step n lvf order c p c1 p1 c' :
  sweep_step (lvf (visited c p)) order c p = Some (c1, p1) -> p1 <> SIdle ->
  sweep_exec n lvf order c1 p1 = Some c' -> sweep_exec (S n) lvf order c p = Some c'.
Proof. intros H Hne H'. cbn [sweep_exec]. rewrite H. cbn. by destruct p1. Qed.

Lemma sweep_exec_visit n lvf order c k ks c' :
  sound_key c k -> sweep_exec n lvf order (visit lvf c k) (SKeys ks) = Some c' ->
  sweep_exec (4 + n) lvf order c (SKeys (k :: ks)) = Some c'.
Proof.
  intros (e & v & Hk & He). unfold visit, evicts, idle. rewrite Hk, He. intros H.
  destruct (v_refCount v =? 0) eqn:Hr; cbn [andb] in H.
  - eapply sweep_exec_step; [cbn; rewrite Hk; cbn; rewrite He; cbn; by rewrite Hr | done |].
    destruct (negb (v_liveness v) || (lvf e =? v_lastLiveness v)) eqn:Hi.
    + eapply sweep_exec_step; [cbn; rewrite He; cbn; by rewrite Hi, Hr | done |].
      eapply sweep_exec_step; [done | done |]. eapply sweep_exec_step; [done | done |].
      unfold upd, with_heap; cbn [heap cache ttl mu mapKeys worker]. rewrite alter_twice. exact H.
    + eapply sweep_exec_step; [cbn; rewrite He; cbn; by rewrite Hi | done |].
      apply (sweep_exec_mono n); [lia |]. rewrite <- H. f_equal.
      unfold upd, with_heap, set_live. f_equal. apply list_alter_ext; [| done].
      intros x. rewrite He. intros [= <-]. apply orb_false_iff in Hi as [Hl _]. apply negb_false_iff in Hl. by rewrite Hl.
  - eapply sweep_exec_step; [cbn; rewrite Hk; cbn; rewrite He; cbn; by rewrite Hr | done |].
    apply (sweep_exec_mono n); [lia | exact H].
Qed.

(** What a visit changes. *)
Definition injective (c : Cache) : Prop := forall k k' e, cache c !! k = Some e -> cache c !! k' = Some e -> k = k'.

Lemma visit_other lvf c k k' :
  injective c -> k' <> k ->
  cache (visit lvf c k) !! k' = cache c !! k' /\
  (forall e, cache c !! k' = Some e -> heap (visit lvf c k) !! e = heap c !! e).
Proof.
  intros Hinj Hne. unfold visit. destruct (cache c !! k) as [e0 |] eqn:Hk; [| done].
  assert (forall e, cache c !! k' = Some e -> e <> e0) as Hd by (intros e He ->; by destruct Hne; apply (Hinj k' k e0)).
  destruct (evicts lvf c e0); cbn; (split; [by rewrite ?lookup_delete_ne |]);
    intros e He; (rewrite list_lookup_alter_ne; [done | by apply not_eq_sym, Hd]).
Qed.

Lemma visit_injective lvf c k : injective c -> injective (visit lvf c k).
Proof.
  intros Hinj. unfold visit. destruct (cache c !! k); [| done]. destruct (evicts _ _ _); [| done].
  intros k1 k2 e. cbn. rewrite !lookup_delete_Some. intros [_ H1] [_ H2]. by apply (Hinj k1 k2 e).
Qed.

(** The value of a key after its visit, and whether it stays. *)
Definition visit_post (lvf : nat -> Z) (c c' : Cache) (k : Z) : Prop :=
  forall e v, cache c !! k = Some e -> heap c !! e = Some v ->
    if idle lvf e v then cache c' !! k = None /\ heap c' !! e = Some (evict v)
    else cache c' !! k = Some e /\ heap c' !! e = Some (set_live (lvf e) v).

Lemma visit_self lvf c k : visit_post lvf c (visit lvf c k) k.
Proof.
  intros e v Hk He. unfold visit, evicts. rewrite Hk, He.
  destruct (idle lvf e v); cbn; rewrite ?lookup_delete_eq, list_lookup_alter_eq, He; by split.
Qed.

Lemma visits_spec lvf ks : forall c,
  injective c -> NoDup ks -> (forall k, k ∈ ks -> sound_key c k) ->
  let c' := foldl (visit lvf) c ks in
  (forall k, k ∈ ks -> visit_post lvf c c' k) /\
  (forall k, k ∉ ks -> cache c' !! k = cache c !! k) /\
  (forall e, (forall k, k ∈ ks -> cache c !! k <> Some e) -> heap c' !! e = heap c !! e) /\
  (dom (cache c) = mapKeys c -> dom (cache c') = mapKeys c') /\ mu c' = mu c /\ worker c' = worker c /\ ttl c' = ttl c.
Proof.
  induction ks as [| k ks IH]; intros c Hinj Hnd Hs; cbn [foldl].
  { split; [set_solver |]. by split_and!. }
  apply NoDup_cons in Hnd as [Hk Hnd].
  assert (forall k', k' ∈ ks -> k' <> k) as Hne by (intros k' H ->; done).
  destruct (IH (visit lvf c k)) as (I1 & I2 & I3 & I4 & I5 & I6 & I7).
  - by apply visit_injective.
  - done.
  - intros k' Hk'. destruct (Hs k') as (e & v & H1 & H2); [set_solver |].
    destruct (visit_other lvf c k k' Hinj (Hne k' Hk')) as [V1 V2]. exists e, v. by rewrite V1, (V2 e H1).
  - split; [| split; [| split; [| split]]].
    + intros k' [-> | Hk']%elem_of_cons e v H1 H2.
      * pose proof (visit_self lvf c k e v H1 H2) as Hv.
        rewrite (I2 k Hk). rewrite (I3 e); [exact Hv |]. intros k' Hk' H3.
        destruct (visit_other lvf c k k' Hinj (Hne k' Hk')) as [V1 _]. rewrite V1 in H3.
        by destruct (Hne k' Hk'); apply (Hinj k' k e).
      * destruct (visit_other lvf c k k' Hinj (Hne k' Hk')) as [V1 V2].
        apply (I1 k' Hk'); [by rewrite V1 | by rewrite (V2 e H1)].
    + intros k' Hk'. apply not_elem_of_cons in Hk' as [N1 N2]. rewrite (I2 k' N2).
      by apply (visit_other lvf c k k' Hinj N1).
    + intros e He. rewrite I3.
      * unfold visit. destruct (cache c !! k) as [e0 |] eqn:Hk0; [| done].
        assert (e <> e0) by (intros ->; apply (He k); [set_solver | done]).
        destruct (evicts lvf c e0); cbn; by rewrite list_lookup_alter_ne.
      * intros k' Hk'. destruct (visit_other lvf c k k' Hinj (Hne k' Hk')) as [V1 _]. rewrite V1. apply He. set_solver.
    + intros Hd. apply I4. unfold visit. destruct (cache c !! k); [| done]. destruct (evicts _ _ _); [| done].
      cbn. rewrite dom_delete_L. by rewrite Hd.
    + rewrite I5, I6, I7. unfold visit. destruct (cache c !! k); [| done]. by destruct (evicts _ _ _).
Qed.

Lemma sweep_exec_keys lvf order ks : forall c,
  injective c -> NoDup ks -> (forall k, k ∈ ks -> sound_key c k) ->
  sweep_exec (4 * length ks + 1) lvf order c (SKeys ks) = Some (finish (foldl (visit lvf) c ks)).
Proof.
  induction ks as [| k ks IH]; intros c Hinj Hnd Hs.
  { cbn. unfold finish. by case_bool_decide. }
  apply NoDup_cons in Hnd as [Hk Hnd]. replace (4 * length (k :: ks) + 1)%nat with (4 + (4 * length ks + 1))%nat by (cbn; lia).
  apply sweep_exec_visit; [apply Hs; set_solver |]. cbn [foldl]. apply IH; [by apply visit_injective | done |].
  intros k' Hk'. destruct (Hs k') as (e & v & H1 & H2); [set_solver |].
  destruct (visit_other lvf c k k' Hinj) as [V1 V2]; [intros ->; done |]. exists e, v. by rewrite V1, (V2 e H1).
Qed.

(** The run of [sweep_exec] is a run of the system. *)
Lemma sweep_exec_steps n lvf order l : forall c p c',
  sweep_exec n lvf order c p = Some c' -> rtc step (MkSys c l p) (MkSys c' l SIdle).
Proof.
  induction n as [| n IH]; intros c p c'; cbn [sweep_exec]; [done |].
  destruct (sweep_step (lvf (visited c p)) order c p) as [[c1 p1] |] eqn:E; [cbn | done]. intros H.
  eapply rtc_l; [by apply (step_sweep (MkSys c l p) _ _ _ _ E) |].
  destruct p1; [injection H as ->; done | by apply IH ..].
Qed.

(** A sweep that nobody disturbs evicts exactly the idle entries. It runs
    to its end; an entry leaves the map, claimed and closed, if it has no
    reference and its liveness has not moved since the previous sweep (or it
    reports none); every other entry stays, its liveness recorded, so that an
    unreferenced entry that does not move is evicted by the next sweep; no
    other value is touched; and the worker stops when the map is empty. *)
Theorem sweep_evicts_idle ttl0 s lvf order :
  reachable ttl0 s -> mu (sys_cache s) = None -> order ≡ₚ elements (mapKeys (sys_cache s)) ->
  let c := sys_cache s in
  exists c', sweep lvf order c = Some c' /\ rtc step s (MkSys c' (calls s) SIdle) /\ mu c' = None /\
    (forall k, visit_post lvf c c' k) /\
    (forall k, cache c !! k = None -> cache c' !! k = None) /\
    (forall e, ~ cached c e -> heap c' !! e = heap c !! e) /\
    worker c' = (if bool_decide (cache c' = ∅) then false else worker c) /\
    (forall e v, idle lvf e (set_live (lvf e) v) = (v_refCount v =? 0)).
Proof.
  intros HI%reachable_inv Hmu Ho. cbv zeta.
  assert (sweeper s = SIdle) as Hi.
  { pose proof (inv_sweep s HI) as [[H _] _]. destruct (sweeper s); [done | ..]; specialize (H ltac:(done)); congruence. }
  set (c1 := with_mu (sys_cache s) (Some OwnedBySweep)).
  assert (injective c1) as Hinj by (exact (inv_inj s HI)).
  assert (NoDup order) as Hnd by (rewrite Ho; apply NoDup_elements).
  assert (forall k, k ∈ order <-> is_Some (cache (sys_cache s) !! k)) as Hin.
  { intros k. by rewrite Ho, elem_of_elements, (inv_keys s HI), elem_of_dom. }
  assert (forall k, k ∈ order -> sound_key c1 k) as Hs.
  { intros k [e He]%Hin. destruct (inv_cached s e HI) as [v Hv]; [by exists k |]. by exists e, v. }
  destruct (visits_spec lvf order c1 Hinj Hnd Hs) as (V1 & V2 & V3 & V4 & V5 & V6 & V7).
  exists (finish (foldl (visit lvf) c1 order)).
  assert (sweep lvf order (sys_cache s) = Some (finish (foldl (visit lvf) c1 order))) as Hrun.
  { unfold sweep. replace (4 * length order + 2)%nat with (S (4 * length order + 1)) by lia.
    eapply sweep_exec_step; [cbn; rewrite Hmu; by rewrite decide_True by done | done |].
    by apply sweep_exec_keys. }
  split; [done |]. split; [| split; [done |]].
  { apply sweep_exec_steps with (l := calls s) in Hrun. rewrite <- Hi in Hrun at 1. by destruct s. }
  split; [| split; [| split; [| split]]].
  - intros k e v Hk He. apply (V1 k); [apply Hin; by eexists | done | done].
  - intros k Hk. cbn. rewrite V2; [done |]. rewrite Hin, Hk. by intros [? ?].
  - intros e Hn. cbn. apply V3. intros k _ Hk. apply Hn. by exists k.
  - cbn. rewrite V6. specialize (V4 (eq_sym (inv_keys s HI))).
    rewrite <- V4. rewrite (bool_decide_ext _ (cache (foldl (visit lvf) c1 order) = ∅)); [done |]. apply dom_empty_iff_L.
  - intros e v. unfold idle, set_live. destruct (v_liveness v) eqn:Hl; cbn; rewrite ?Hl, ?Z.eqb_refl, ?andb_true_r; done.
Qed.

(** ** The disabled cache *)

Definition bypass (p : pc) : Prop :=
  match p with PStart _ | PBuildUncached _ | PHoldUncached _ | PReleased | PFailed => True | _ => False end.
Definition bypassed (s : Sys) : Prop :=
  ttl (sys_cache s) < 0 /\ cache (sys_cache s) = ∅ /\ worker (sys_cache s) = false /\
  (forall t p, calls s !! t = Some p -> bypass p).

Lemma bypassed_step s s' : bypassed s -> step s s' -> bypassed s'.
Proof.
  intros (Ht & Hc & Hw & Hp) Hstep. destruct Hstep as [s1 it Hlen | s1 t lv p c' p' Hl Hs | s1 lv order c' p' Hs]; unfold bypassed; cbn.
  - split_and!; [done .. |]. intros t p H. apply lookup_app_Some in H as [H | [_ H]]; [by eapply Hp |].
    by apply list_lookup_singleton_Some in H as [_ <-].
  - assert (ttl c' < 0 /\ cache c' = ∅ /\ worker c' = false /\ bypass p') as (? & ? & ? & ?).
    { specialize (Hp t p Hl). destruct p as [it | | | | it | | | | | | | | | | b | |]; try done; cbn [call_step] in Hs.
      - destruct (Z.ltb_spec (ttl (sys_cache s1)) 0); [cbn in Hs | lia]. by injection Hs as <- <-.
      - destruct (it_new it); by injection Hs as <- <-.
      - by injection Hs as <- <-. }
    split_and!; [done .. |]. intros t' q. rewrite list_lookup_insert_Some. intros [(_ & <- & _) | (_ & H3)]; [done | by eapply Hp].
  - assert (ttl c' < 0 /\ cache c' = ∅ /\ worker c' = false) as (? & ? & ?); [| by split_and!].
    destruct (sweeper s1) as [| [| k ks] | k e ks | k e ks | k e ks]; cbn [sweep_step] in Hs.
    + destruct (mu (sys_cache s1)); [by injection Hs as <- <- |]. case_decide; [by injection Hs as <- <- | done].
    + injection Hs as <- <-. by case_bool_decide.
    + rewrite Hc, lookup_empty in Hs. by injection Hs as <- <-.
    + destruct (heap (sys_cache s1) !! e); cbn in Hs; [| done].
      destruct (_ || _); [destruct (_ =? 0) |]; by injection Hs as <- <-.
    + by injection Hs as <- <-.
    + injection Hs as <- <-. cbn. by rewrite Hc, delete_empty.
Qed.

Lemma reachable_bypassed ttl0 s : ttl0 < 0 -> reachable ttl0 s -> bypassed s.
Proof.
  intros Hneg Hr. assert (bypassed (init ttl0)) as H0 by done. unfold reachable in Hr.
  induction Hr as [| s1 s2 s3 H12 _ IH]; [done |]. apply IH. by eapply bypassed_step.
Qed.

(** A disabled cache (negative time to live) stores nothing: every call
    builds its own value, the map stays empty, no worker runs, and the release
    closes the value, once. *)
Theorem disabled_cache_stores_nothing ttl0 s :
  ttl0 < 0 -> reachable ttl0 s ->
  cache (sys_cache s) = ∅ /\ Len (sys_cache s) = 0%nat /\ worker (sys_cache s) = false /\
  (forall t p, calls s !! t = Some p -> bypass p) /\
  (forall t b lv, calls s !! t = Some (PHoldUncached b) ->
     exists v, heap (sys_cache s) !! b = Some v /\
       call_step t lv (sys_cache s) (PHoldUncached b) = Some (upd (sys_cache s) b close, PReleased) /\
       closed_once (close v)).
Proof.
  intros Hneg Hr. pose proof (reachable_inv ttl0 s Hr) as HI.
  destruct (reachable_bypassed ttl0 s Hneg Hr) as (_ & Hc & Hw & Hp).
  split; [done |]. split; [unfold Len; by rewrite (inv_keys s HI), Hc, dom_empty_L, size_empty |].
  split; [done |]. split; [exact Hp |]. intros t b lv Hb.
  destruct (inv_owned s t _ b HI Hb) as [v Hv]; [apply Nat.eqb_refl |]. exists v. split_and!; [done | done |].
  apply close_fields. pose proof (tally_pos (owns b) _ _ _ Hb ltac:(apply Nat.eqb_refl)).
  destruct (inv_stage s b v HI Hv); done || lia.
Qed.

(** * Concrete runs *)

Inductive action := ACall (it : Cacheable) | AStep (t : nat) (lv : Z) | ASweep (lv : Z) (order : list Z).
Definition act (a : action) (s : Sys) : option Sys :=
  match a with
  | ACall it =>
    if Z.of_nat (length (calls s)) + 1 <? 2 ^ 31 then Some (MkSys (sys_cache s) (calls s ++ [PStart it]) (sweeper s)) else None
  | AStep t lv =>
    p ← calls s !! t;
    '(c', p') ← call_step t lv (sys_cache s) p;
    Some (MkSys c' (<[t := p']> (calls s)) (sweeper s))
  | ASweep lv order =>
    '(c', p') ← sweep_step lv order (sys_cache s) (sweeper s);
    Some (MkSys c' (calls s) p')
  end.
Fixpoint acts (l : list action) (s : Sys) : option Sys :=
  match l with [] => Some s | a :: l' => s' ← act a s; acts l' s' end.

Lemma acts_steps l : forall s s', acts l s = Some s' -> rtc step s s'.
Proof.
  induction l as [| a l IH]; intros s s'; cbn [acts]; [by intros [= ->] |].
  destruct (act a s) as [s1 |] eqn:E; [cbn | done]. intros H. eapply rtc_l; [| by apply IH].
  destruct a as [it | t lv | lv order]; cbn [act] in E.
  - destruct (Z.ltb_spec (Z.of_nat (length (calls s)) + 1) (2 ^ 31)); [| done]. injection E as <-. by constructor.
  - destruct (calls s !! t) as [p |] eqn:Hp; [cbn in E | done].
    destruct (call_step t lv (sys_cache s) p) as [[c' p'] |] eqn:Hs; [cbn in E | done]. injection E as <-.
    by eapply step_call.
  - destruct (sweep_step lv order (sys_cache s) (sweeper s)) as [[c' p'] |] eqn:Hs; [cbn in E | done].
    injection E as <-. by eapply step_sweep.
Qed.

(** Two calls race for the key 7; both build, the second finds the value of the
    first under the mutex and closes its own. *)
Definition ex_item : Cacheable := MkItem (KeyOk 7) (Some (true, true)).
Definition ex_start : list action :=
  [ACall ex_item; ACall ex_item; AStep 0 0; AStep 1 0; AStep 0 0; AStep 1 0; AStep 0 0; AStep 0 0; AStep 0 5].
Definition ex_race : list action := ex_start ++ AStep 0 0 :: replicate 6 (AStep 1 0).
Definition ex_midway : Sys := Eval vm_compute in default (init 1) (acts ex_start (init 1)).
Definition ex_held : Sys := Eval vm_compute in default (init 1) (acts ex_race (init 1)).
Definition ex_released : Sys := Eval vm_compute in default (init 1) (acts (ex_race ++ [AStep 0 0; AStep 1 0]) (init 1)).

Lemma ex_midway_reachable : reachable 1 ex_midway.
Proof. apply (acts_steps ex_start). vm_compute. reflexivity. Qed.
Lemma ex_held_reachable : reachable 1 ex_held.
Proof. apply (acts_steps ex_race). vm_compute. reflexivity. Qed.
Lemma ex_released_reachable : reachable 1 ex_released.
Proof. apply (acts_steps (ex_race ++ [AStep 0 0; AStep 1 0])). vm_compute. reflexivity. Qed.

Lemma cache_never_closes_held_witness :
  calls ex_held = [PHold 0; PHold 0] /\
  heap (sys_cache ex_held) = [MkValue true true 2 5 0; MkValue true true 0 0 1] /\
  exists v, heap (sys_cache ex_held) !! 0%nat = Some v /\ v_closed v = 0%nat /\
    v_refCount v = Z.of_nat (tally (refers 0) (calls ex_held)) /\ 1 <= v_refCount v /\ cached (sys_cache ex_held) 0%nat.
Proof.
  split; [reflexivity |]. split; [reflexivity |].
  exact (proj1 (cache_never_closes_held 1 ex_held ex_held_reachable) 1%nat 0%nat eq_refl).
Defined.

Lemma cache_leaks_nothing_witness :
  sweeper ex_held = SIdle /\
  ((cached (sys_cache ex_held) 1%nat /\ 1%nat = 0%nat /\ 0 = Z.of_nat (tally (refers 1) (calls ex_held))) \/
   (exists t, calls ex_held !! t = Some (PHoldUncached 1) /\ 1%nat = 0%nat) \/
   (~ cached (sys_cache ex_held) 1%nat /\ closed_once (MkValue true true 0 0 1) /\ tally (refers 1) (calls ex_held) = 0%nat)).
Proof.
  split; [reflexivity |].
  refine (cache_leaks_nothing 1 ex_held 1%nat (MkValue true true 0 0 1) ex_held_reachable _ eq_refl eq_refl).
  intros [| [| t]] p H; [injection H as <-; exact I .. | discriminate H].
Defined.

Lemma cache_critical_sections_witness :
  calls ex_midway = [PStore 7 0; PLock 7 1] /\ mapKeys (sys_cache ex_midway) = dom (cache (sys_cache ex_midway)) /\
  cache (sys_cache ex_midway) !! 7 = None.
Proof.
  split; [reflexivity |].
  pose proof (cache_critical_sections 1 ex_midway ex_midway_reachable) as (H1 & _ & _ & _ & H5 & _).
  split; [exact H1 |]. exact (H5 0%nat 7 0%nat eq_refl).
Defined.

Lemma sweep_evicts_idle_witness :
  option_map (fun c => (elements (mapKeys c), worker c, map v_closed (heap c))) (sweep (fun _ => 5) [7] (sys_cache ex_released)) =
    Some ([], false, [1; 1]%nat) /\
  option_map (fun c => elements (mapKeys c)) (sweep (fun _ => 6) [7] (sys_cache ex_released)) = Some [7] /\
  exists c', sweep (fun _ => 5) [7] (sys_cache ex_released) = Some c' /\ cache c' !! 7 = None.
Proof.
  split; [vm_compute; reflexivity |]. split; [vm_compute; reflexivity |].
  destruct (sweep_evicts_idle 1 ex_released (fun _ => 5) [7] ex_released_reachable eq_refl) as (c' & E & _ & _ & Hv & _).
  - vm_compute. reflexivity.
  - exists c'. split; [exact E |].
    exact (proj1 (Hv 7 0%nat (MkValue true true 0 5 0) eq_refl eq_refl)).
Defined.

Definition ex_disabled : Sys :=
  Eval vm_compute in default (init (-1)) (acts [ACall ex_item; AStep 0 0; AStep 0 0] (init (-1))).
Lemma disabled_cache_stores_nothing_witness :
  calls ex_disabled = [PHoldUncached 0] /\ cache (sys_cache ex_disabled) = ∅.
Proof.
  split; [reflexivity |].
  refine (proj1 (disabled_cache_stores_nothing (-1) ex_disabled _ _)); [lia |].
  apply (acts_steps [ACall ex_item; AStep 0 0; AStep 0 0]). vm_compute. reflexivity.
Defined.
