(* ===== verification/KeyHash.v ===== *)
(** internal/ttlcache/keyhash.go: the builder of cache keys. A key is the
    FNV-1a hash (hash/fnv, the same hash as in Rendezvous.v) of a stream of
    length-prefixed fields; the stream can be parsed back, so different field
    values never write the same bytes. *)

From Stdlib Require Import ZArith Lia.
From stdpp Require Import base list.
From S2P Require Import Prelude.
From S2P Require Import Rendezvous.

Open Scope list_scope.
Open Scope Z_scope.

(** fnv.New64a().Write: a byte slice is a list of values in [0, 256). *)
Definition hash_Write (h : Z) (p : list Z) : Z := foldl fnv_byte h p.

(** binary.BigEndian.PutUint64 *)
Definition PutUint64 (n : Z) : list Z :=
  map (fun i => Z.land (Z.shiftr (u64 n) i) 255) [56; 48; 40; 32; 24; 16; 8; 0].

(** * KeyBuilder: the state of its hasher *)

Definition NewKeyBuilder : Z := offset64.
Definition writeLen (h : Z) (n : nat) : Z := hash_Write h (PutUint64 (Z.of_nat n)).
Definition kb_String (h : Z) (s : list Z) : Z := hash_Write (writeLen h (length s)) s.
Definition kb_Bytes (h : Z) (p : list Z) : Z := hash_Write (writeLen h (length p)) p.
Definition kb_Int (h : Z) (i : Z) : Z := hash_Write h (PutUint64 (u64 i)).
Definition kb_Bool (h : Z) (v : bool) : Z := if v then kb_Int h 1 else kb_Int h 0.
(** Key(b.h.Sum64()) *)
Definition kb_Key (h : Z) : Z := wrap64 h.

(** * The stream of bytes *)

Inductive field := FString (s : list Z) | FBytes (p : list Z) | FInt (i : Z) | FBool (v : bool).
Inductive kind := KString | KBytes | KInt | KBool.

Definition kind_of (f : field) : kind :=
  match f with FString _ => KString | FBytes _ => KBytes | FInt _ => KInt | FBool _ => KBool end.
Definition kb_write (h : Z) (f : field) : Z :=
  match f with FString s => kb_String h s | FBytes p => kb_Bytes h p | FInt i => kb_Int h i | FBool v => kb_Bool h v end.

Definition encode (f : field) : list Z :=
  match f with
  | FString s | FBytes s => PutUint64 (Z.of_nat (length s)) ++ s
  | FInt i => PutUint64 (u64 i)
  | FBool v => PutUint64 (if v then 1 else 0)
  end.

(** The parser that knows the kinds of the fields. *)
Definition Uint64 (l : list Z) : Z := foldl (fun a b => a * 2 ^ 8 + b) 0 (take 8 l).
Definition decode (k : kind) (l : list Z) : field * list Z :=
  let n := Uint64 l in
  let rest := drop 8 l in
  match k with
  | KString => (FString (take (Z.to_nat n) rest), drop (Z.to_nat n) rest)
  | KBytes => (FBytes (take (Z.to_nat n) rest), drop (Z.to_nat n) rest)
  | KInt => (FInt (wrap64 n), rest)
  | KBool => (FBool (n =? 1), rest)
  end.
Fixpoint decodes (ks : list kind) (l : list Z) : list field * list Z :=
  match ks with
  | [] => ([], l)
  | k :: ks' => let '(f, l) := decode k l in let '(fs, l) := decodes ks' l in (f :: fs, l)
  end.

(** What Go's types allow: an int64, a slice whose length is an int. *)
Definition field_ok (f : field) : Prop :=
  match f with
  | FString s | FBytes s => Z.of_nat (length s) < 2 ^ 63
  | FInt i => int64_range i
  | FBool _ => True
  end.

Lemma PutUint64_length n : length (PutUint64 n) = 8%nat.
Proof. done. Qed.

Lemma shiftr_split x i : 0 <= i -> Z.shiftr x i = Z.shiftr x (i + 8) * 2 ^ 8 + Z.land (Z.shiftr x i) 255.
Proof.
  intros Hi. rewrite <- Z.shiftr_shiftr by lia. change 255 with (Z.ones 8). rewrite Z.land_ones by lia.
  rewrite (Z.shiftr_div_pow2 (Z.shiftr x i) 8) by lia. pose proof (Z.div_mod (Z.shiftr x i) (2 ^ 8)). lia.
Qed.

Lemma Uint64_PutUint64 n rest : Uint64 (PutUint64 n ++ rest) = u64 n.
Proof.
  unfold Uint64. rewrite take_app_length' by done. unfold PutUint64. cbn [map foldl].
  pose proof (u64_range n) as Hr. set (x := u64 n) in *.
  assert (Z.shiftr x 64 = 0) as H64 by (rewrite Z.shiftr_div_pow2 by lia; apply Z.div_small; lia).
  pose proof (shiftr_split x 0 ltac:(lia)) as E0. pose proof (shiftr_split x 8 ltac:(lia)) as E1.
  pose proof (shiftr_split x 16 ltac:(lia)) as E2. pose proof (shiftr_split x 24 ltac:(lia)) as E3.
  pose proof (shiftr_split x 32 ltac:(lia)) as E4. pose proof (shiftr_split x 40 ltac:(lia)) as E5.
  pose proof (shiftr_split x 48 ltac:(lia)) as E6. pose proof (shiftr_split x 56 ltac:(lia)) as E7.
  rewrite Z.shiftr_0_r in *.
  change (0 + 8) with 8 in *. change (8 + 8) with 16 in *. change (16 + 8) with 24 in *. change (24 + 8) with 32 in *.
  change (32 + 8) with 40 in *. change (40 + 8) with 48 in *. change (48 + 8) with 56 in *. change (56 + 8) with 64 in *. lia.
Qed.

Lemma drop_PutUint64 n rest : drop 8 (PutUint64 n ++ rest) = rest.
Proof. by apply drop_app_length'. Qed.


Lemma wrap64_u64 i : int64_range i -> wrap64 (u64 i) = i.
Proof.
  intros Hi. apply int64_inj; [apply wrap64_range | done |]. by rewrite u64_wrap64, u64_u64.
Qed.

Lemma decode_encode f rest : field_ok f -> decode (kind_of f) (encode f ++ rest) = (f, rest).
Proof.
  intros Hf. destruct f as [s | p | i | v]; cbn [kind_of encode decode field_ok] in *.
  1,2: rewrite <- app_assoc, Uint64_PutUint64, drop_PutUint64; unfold u64; rewrite Z.mod_small by lia;
    rewrite Nat2Z.id, take_app_length, drop_app_length; done.
  - by rewrite Uint64_PutUint64, drop_PutUint64, u64_u64, wrap64_u64.
  - rewrite Uint64_PutUint64, drop_PutUint64. by destruct v.
Qed.

Lemma decodes_encodes fs rest :
  Forall field_ok fs -> decodes (map kind_of fs) (concat (map encode fs) ++ rest) = (fs, rest).
Proof.
  induction 1 as [| f fs Hf _ IH]; cbn [map concat decodes]; [done |].
  rewrite <- app_assoc, decode_encode by done. by rewrite IH.
Qed.

Lemma hash_Write_app h l l' : hash_Write (hash_Write h l) l' = hash_Write h (l ++ l').
Proof. unfold hash_Write. by rewrite foldl_app. Qed.

Lemma kb_write_encode h f : kb_write h f = hash_Write h (encode f).
Proof.
  destruct f as [s | p | i | v]; cbn [kb_write encode]; unfold kb_String, kb_Bytes, writeLen, kb_Bool;
    rewrite ?hash_Write_app; try done. by destruct v.
Qed.

Lemma kb_writes fs h : foldl kb_write h fs = hash_Write h (concat (map encode fs)).
Proof.
  revert h. induction fs as [| f fs IH]; intros h; cbn [foldl map concat]; [done |].
  by rewrite IH, kb_write_encode, hash_Write_app.
Qed.

(** The stream a KeyBuilder hashes is unambiguous. The key is the FNV-1a
    hash of the concatenated encodings; a parser that knows the kinds of the
    fields recovers their values from it; so two items with the same kinds of
    fields that write the same bytes have the same fields: no shift of a field
    boundary goes unnoticed. *)
Theorem key_stream_roundtrip fs rest :
  Forall field_ok fs ->
  kb_Key (foldl kb_write NewKeyBuilder fs) = wrap64 (hash_Write offset64 (concat (map encode fs))) /\
  decodes (map kind_of fs) (concat (map encode fs) ++ rest) = (fs, rest) /\
  (forall fs', Forall field_ok fs' -> map kind_of fs' = map kind_of fs ->
     concat (map encode fs') = concat (map encode fs) -> fs' = fs).
Proof.
  intros Hfs. split; [unfold kb_Key; by rewrite kb_writes |]. split; [by apply decodes_encodes |].
  intros fs' Hfs' Hk Hc. pose proof (decodes_encodes fs [] Hfs) as H1. pose proof (decodes_encodes fs' [] Hfs') as H2.
  rewrite Hk, Hc, H1 in H2. congruence.
Qed.

(** String("ab")+String("c") and String("a")+String("bc"). *)
Lemma key_stream_roundtrip_witness :
  let ab_c := [FString [97; 98]; FString [99]; FInt (-3); FBool true] in
  decodes (map kind_of ab_c) (concat (map encode ab_c)) = (ab_c, []) /\
  kb_Key (foldl kb_write NewKeyBuilder [FString [97; 98]; FString [99]]) <>
    kb_Key (foldl kb_write NewKeyBuilder [FString [97]; FString [98; 99]]) /\
  concat (map encode [FString [97]; FString [98; 99]]) <> concat (map encode [FString [97; 98]; FString [99]]).
Proof.
  cbv zeta. split; [vm_compute; reflexivity |]. split; [vm_compute; congruence |].
  intros H. assert (Forall field_ok [FString [97; 98]; FString [99]]) as Hok by (repeat constructor).
  assert (Forall field_ok [FString [97]; FString [98; 99]]) as Hok' by (repeat constructor).
  pose proof (proj2 (proj2 (key_stream_roundtrip [FString [97; 98]; FString [99]] [] Hok)) _ Hok' eq_refl H). congruence.
Defined.
