(* ===== verification/Operation.v ===== *)
(** * Operation identifiers

    operation.go: the bit-packed OperationID, its categories, the minor
    numbers, the operations and their names. An OperationID is the int64 whose
    bit 63 tells writes from reads, bits 62-56 give the category and bits 31-0
    the operation inside it. *)

From Stdlib Require Import Ascii String.
From stdpp Require Import base list strings pretty.
From Stdlib Require Import ZArith Lia Btauto.
From S2P Require Import Prelude.
Open Scope Z_scope.

Definition opRWBit : Z := 63.
Definition opRWMask : Z := Z.shiftl (-1) opRWBit.
Definition opCatShift : Z := 56.
Definition opCatMask : Z := Z.shiftl 0x7F opCatShift.
Definition opMinMask : Z := 0xFFFFFFFF.
Definition opMajMask : Z := Z.lor opRWMask opCatMask.

Definition IsWrite (op : Z) : bool := negb (Z.land op opRWMask =? 0).
Definition IsRead (op : Z) : bool := Z.land op opRWMask =? 0.
Definition Category (op : Z) : Z := Z.land op opMajMask.
Definition Minor (op : Z) : Z := Z.land op opMinMask.

(** * Categories *)

Definition CatCluster : Z := Z.shiftl 0 opCatShift.
Definition CatSearch : Z := Z.shiftl 1 opCatShift.
Definition CatScroll : Z := Z.shiftl 2 opCatShift.
Definition CatPIT : Z := Z.shiftl 3 opCatShift.
Definition CatDocRead : Z := Z.shiftl 4 opCatShift.
Definition CatIndex : Z := Z.shiftl 5 opCatShift.
Definition CatMapping : Z := Z.shiftl 6 opCatShift.
Definition CatAlias : Z := Z.shiftl 7 opCatShift.
Definition CatTemplate : Z := Z.shiftl 8 opCatShift.
Definition CatMaint : Z := Z.shiftl 9 opCatShift.
Definition CatIngest : Z := Z.shiftl 10 opCatShift.
Definition CatAdmin : Z := Z.shiftl 11 opCatShift.
Definition CatPing : Z := Z.shiftl 12 opCatShift.
Definition catBulkSlot : Z := Z.shiftl 13 opCatShift.
Definition CatClusterWrite : Z := Z.lor opRWMask CatCluster.
Definition CatScrollWrite : Z := Z.lor opRWMask CatScroll.
Definition CatPITWrite : Z := Z.lor opRWMask CatPIT.
Definition CatDocWrite : Z := Z.lor opRWMask CatDocRead.
Definition CatBulk : Z := Z.lor opRWMask catBulkSlot.
Definition CatIndexWrite : Z := Z.lor opRWMask CatIndex.
Definition CatMappingWrite : Z := Z.lor opRWMask CatMapping.
Definition CatAliasWrite : Z := Z.lor opRWMask CatAlias.
Definition CatTemplateWrite : Z := Z.lor opRWMask CatTemplate.
Definition CatMaintWrite : Z := Z.lor opRWMask CatMaint.
Definition CatIngestWrite : Z := Z.lor opRWMask CatIngest.
Definition CatAdminWrite : Z := Z.lor opRWMask CatAdmin.

(** * Minor operations *)

Definition minSearch : Z := 1.
Definition minMSearch : Z := 2.
Definition minCount : Z := 3.
Definition minSearchTemplate : Z := 4.
Definition minMSearchTemplate : Z := 5.
Definition minValidate : Z := 6.
Definition minRankEval : Z := 7.
Definition minExplain : Z := 8.
Definition minSearchShards : Z := 9.
Definition minFieldCaps : Z := 10.
Definition minScrollGet : Z := 1.
Definition minScrollDelete : Z := 2.
Definition minPITList : Z := 1.
Definition minPITCreate : Z := 2.
Definition minPITDelete : Z := 3.
Definition minDocGet : Z := 1.
Definition minDocExists : Z := 2.
Definition minDocSourceGet : Z := 3.
Definition minDocSourceExists : Z := 4.
Definition minMGet : Z := 5.
Definition minTermVectors : Z := 6.
Definition minMTermVectors : Z := 7.
Definition minDocIndex : Z := 1.
Definition minDocCreate : Z := 2.
Definition minDocUpdate : Z := 3.
Definition minDocDelete : Z := 4.
Definition minBulk : Z := 1.
Definition minBulkStream : Z := 2.
Definition minReindex : Z := 3.
Definition minDeleteByQuery : Z := 4.
Definition minUpdateByQuery : Z := 5.
Definition minReindexRethrottle : Z := 6.
Definition minDBQRethrottle : Z := 7.
Definition minUBQRethrottle : Z := 8.
Definition minIndexGet : Z := 1.
Definition minIndexExists : Z := 2.
Definition minIndexCreate : Z := 3.
Definition minIndexDelete : Z := 4.
Definition minIndexOpen : Z := 5.
Definition minIndexClose : Z := 6.
Definition minIndexClone : Z := 7.
Definition minIndexShrink : Z := 8.
Definition minIndexSplit : Z := 9.
Definition minIndexRollover : Z := 10.
Definition minIndexBlock : Z := 11.
Definition minIndexResolve : Z := 12.
Definition minIndexAnalyze : Z := 13.
Definition minMappingGet : Z := 1.
Definition minMappingPut : Z := 2.
Definition minAliasGet : Z := 1.
Definition minAliasPut : Z := 2.
Definition minAliasDelete : Z := 3.
Definition minCatAliases : Z := 4.
Definition minIndexTemplateGet : Z := 1.
Definition minIndexTemplateCreate : Z := 2.
Definition minIndexTemplateDelete : Z := 3.
Definition minIndexTemplateExists : Z := 4.
Definition minIndexTemplateSimulate : Z := 5.
Definition minIndexTemplateSimulateIndex : Z := 6.
Definition minComponentTemplateGet : Z := 7.
Definition minComponentTemplateCreate : Z := 8.
Definition minComponentTemplateDelete : Z := 9.
Definition minComponentTemplateExists : Z := 10.
Definition minLegacyTemplateGet : Z := 11.
Definition minLegacyTemplateCreate : Z := 12.
Definition minLegacyTemplateDelete : Z := 13.
Definition minLegacyTemplateExists : Z := 14.
Definition minRefresh : Z := 1.
Definition minFlush : Z := 2.
Definition minForceMerge : Z := 3.
Definition minCacheClear : Z := 4.
Definition minSegments : Z := 5.
Definition minRecovery : Z := 6.
Definition minShardStores : Z := 7.
Definition minStats : Z := 8.
Definition minIngestGet : Z := 1.
Definition minIngestCreate : Z := 2.
Definition minIngestDelete : Z := 3.
Definition minIngestSimulate : Z := 4.
Definition minIngestGrok : Z := 5.
Definition minClusterInfo : Z := 1.
Definition minClusterHealth : Z := 2.
Definition minClusterStats : Z := 3.
Definition minClusterState : Z := 4.
Definition minClusterSettingsGet : Z := 5.
Definition minClusterSettingsPut : Z := 6.
Definition minClusterReroute : Z := 7.
Definition minClusterPendingTasks : Z := 8.
Definition minClusterAllocExplain : Z := 9.
Definition minClusterRemoteInfo : Z := 10.
Definition minClusterVotingConfigGet : Z := 11.
Definition minClusterVotingConfigPut : Z := 12.
Definition minClusterDecommission : Z := 13.
Definition minCatAllocation : Z := 1.
Definition minCatClusterMgr : Z := 2.
Definition minCatCount : Z := 3.
Definition minCatFielddata : Z := 4.
Definition minCatHealth : Z := 5.
Definition minCatIndices : Z := 6.
Definition minCatMaster : Z := 7.
Definition minCatNodeAttrs : Z := 8.
Definition minCatNodes : Z := 9.
Definition minCatPendingTasks : Z := 10.
Definition minCatPlugins : Z := 11.
Definition minCatRecovery : Z := 12.
Definition minCatRepositories : Z := 13.
Definition minCatSegments : Z := 14.
Definition minCatShards : Z := 15.
Definition minCatSnapshots : Z := 16.
Definition minCatTasks : Z := 17.
Definition minCatTemplates : Z := 18.
Definition minCatThreadPool : Z := 19.
Definition minNodesInfo : Z := 20.
Definition minNodesStats : Z := 21.
Definition minNodesUsage : Z := 22.
Definition minNodesHotThreads : Z := 23.
Definition minNodesReloadSecurity : Z := 24.
Definition minTasksList : Z := 25.
Definition minTasksGet : Z := 26.
Definition minTasksCancel : Z := 27.
Definition minSnapshotCreate : Z := 28.
Definition minSnapshotGet : Z := 29.
Definition minSnapshotDelete : Z := 30.
Definition minSnapshotClone : Z := 31.
Definition minSnapshotRestore : Z := 32.
Definition minSnapshotStatus : Z := 33.
Definition minSnapshotRepoCreate : Z := 34.
Definition minSnapshotRepoGet : Z := 35.
Definition minSnapshotRepoDelete : Z := 36.
Definition minSnapshotRepoVerify : Z := 37.
Definition minSnapshotRepoCleanup : Z := 38.
Definition minScriptGet : Z := 39.
Definition minScriptPut : Z := 40.
Definition minScriptDelete : Z := 41.
Definition minScriptContext : Z := 42.
Definition minScriptLanguage : Z := 43.
Definition minScriptPainlessExec : Z := 44.
Definition minDanglingGet : Z := 45.
Definition minDanglingDelete : Z := 46.
Definition minDanglingImport : Z := 47.
Definition minDataStreamGet : Z := 48.
Definition minDataStreamCreate : Z := 49.
Definition minDataStreamDelete : Z := 50.
Definition minDataStreamStats : Z := 51.
Definition minRenderSearchTemplate : Z := 52.
Definition minPing : Z := 1.

(** * Operations *)

Definition OpOther : Z := -1.
Definition OpSearch : Z := Z.lor CatSearch minSearch.
Definition OpMSearch : Z := Z.lor CatSearch minMSearch.
Definition OpCount : Z := Z.lor CatSearch minCount.
Definition OpSearchTemplate : Z := Z.lor CatSearch minSearchTemplate.
Definition OpMSearchTmpl : Z := Z.lor CatSearch minMSearchTemplate.
Definition OpValidate : Z := Z.lor CatSearch minValidate.
Definition OpRankEval : Z := Z.lor CatSearch minRankEval.
Definition OpExplain : Z := Z.lor CatSearch minExplain.
Definition OpSearchShards : Z := Z.lor CatSearch minSearchShards.
Definition OpFieldCaps : Z := Z.lor CatSearch minFieldCaps.
Definition OpScrollGet : Z := Z.lor CatScroll minScrollGet.
Definition OpScrollDelete : Z := Z.lor CatScrollWrite minScrollDelete.
Definition OpPITList : Z := Z.lor CatPIT minPITList.
Definition OpPITCreate : Z := Z.lor CatPITWrite minPITCreate.
Definition OpPITDelete : Z := Z.lor CatPITWrite minPITDelete.
Definition OpDocGet : Z := Z.lor CatDocRead minDocGet.
Definition OpDocExists : Z := Z.lor CatDocRead minDocExists.
Definition OpDocSourceGet : Z := Z.lor CatDocRead minDocSourceGet.
Definition OpDocSourceExist : Z := Z.lor CatDocRead minDocSourceExists.
Definition OpMGet : Z := Z.lor CatDocRead minMGet.
Definition OpTermVectors : Z := Z.lor CatDocRead minTermVectors.
Definition OpMTermVectors : Z := Z.lor CatDocRead minMTermVectors.
Definition OpDocIndex : Z := Z.lor CatDocWrite minDocIndex.
Definition OpDocCreate : Z := Z.lor CatDocWrite minDocCreate.
Definition OpDocUpdate : Z := Z.lor CatDocWrite minDocUpdate.
Definition OpDocDelete : Z := Z.lor CatDocWrite minDocDelete.
Definition OpBulk : Z := Z.lor CatBulk minBulk.
Definition OpBulkStream : Z := Z.lor CatBulk minBulkStream.
Definition OpReindex : Z := Z.lor CatBulk minReindex.
Definition OpDeleteByQuery : Z := Z.lor CatBulk minDeleteByQuery.
Definition OpUpdateByQuery : Z := Z.lor CatBulk minUpdateByQuery.
Definition OpReindexRethrottle : Z := Z.lor CatBulk minReindexRethrottle.
Definition OpDBQRethrottle : Z := Z.lor CatBulk minDBQRethrottle.
Definition OpUBQRethrottle : Z := Z.lor CatBulk minUBQRethrottle.
Definition OpIndexGet : Z := Z.lor CatIndex minIndexGet.
Definition OpIndexExists : Z := Z.lor CatIndex minIndexExists.
Definition OpIndexCreate : Z := Z.lor CatIndexWrite minIndexCreate.
Definition OpIndexDelete : Z := Z.lor CatIndexWrite minIndexDelete.
Definition OpIndexOpen : Z := Z.lor CatIndexWrite minIndexOpen.
Definition OpIndexClose : Z := Z.lor CatIndexWrite minIndexClose.
Definition OpIndexClone : Z := Z.lor CatIndexWrite minIndexClone.
Definition OpIndexShrink : Z := Z.lor CatIndexWrite minIndexShrink.
Definition OpIndexSplit : Z := Z.lor CatIndexWrite minIndexSplit.
Definition OpIndexRollover : Z := Z.lor CatIndexWrite minIndexRollover.
Definition OpIndexBlock : Z := Z.lor CatIndexWrite minIndexBlock.
Definition OpIndexResolve : Z := Z.lor CatIndex minIndexResolve.
Definition OpIndexAnalyze : Z := Z.lor CatIndexWrite minIndexAnalyze.
Definition OpMappingGet : Z := Z.lor CatMapping minMappingGet.
Definition OpMappingPut : Z := Z.lor CatMappingWrite minMappingPut.
Definition OpAliasGet : Z := Z.lor CatAlias minAliasGet.
Definition OpAliasPut : Z := Z.lor CatAliasWrite minAliasPut.
Definition OpAliasDelete : Z := Z.lor CatAliasWrite minAliasDelete.
Definition OpCatAliases : Z := Z.lor CatAlias minCatAliases.
Definition OpIndexTemplateGet : Z := Z.lor CatTemplate minIndexTemplateGet.
Definition OpIndexTemplateCreate : Z := Z.lor CatTemplateWrite minIndexTemplateCreate.
Definition OpIndexTemplateDelete : Z := Z.lor CatTemplateWrite minIndexTemplateDelete.
Definition OpIndexTemplateExists : Z := Z.lor CatTemplate minIndexTemplateExists.
Definition OpIndexTemplateSimulate : Z := Z.lor CatTemplate minIndexTemplateSimulate.
Definition OpIndexTemplateSimulateIndex : Z := Z.lor CatTemplate minIndexTemplateSimulateIndex.
Definition OpComponentTemplateGet : Z := Z.lor CatTemplate minComponentTemplateGet.
Definition OpComponentTemplateCreate : Z := Z.lor CatTemplateWrite minComponentTemplateCreate.
Definition OpComponentTemplateDelete : Z := Z.lor CatTemplateWrite minComponentTemplateDelete.
Definition OpComponentTemplateExists : Z := Z.lor CatTemplate minComponentTemplateExists.
Definition OpLegacyTemplateGet : Z := Z.lor CatTemplate minLegacyTemplateGet.
Definition OpLegacyTemplateCreate : Z := Z.lor CatTemplateWrite minLegacyTemplateCreate.
Definition OpLegacyTemplateDelete : Z := Z.lor CatTemplateWrite minLegacyTemplateDelete.
Definition OpLegacyTemplateExists : Z := Z.lor CatTemplate minLegacyTemplateExists.
Definition OpRefresh : Z := Z.lor CatMaintWrite minRefresh.
Definition OpFlush : Z := Z.lor CatMaintWrite minFlush.
Definition OpForceMerge : Z := Z.lor CatMaintWrite minForceMerge.
Definition OpCacheClear : Z := Z.lor CatMaintWrite minCacheClear.
Definition OpSegments : Z := Z.lor CatMaint minSegments.
Definition OpRecovery : Z := Z.lor CatMaint minRecovery.
Definition OpShardStores : Z := Z.lor CatMaint minShardStores.
Definition OpStats : Z := Z.lor CatMaint minStats.
Definition OpIngestGet : Z := Z.lor CatIngest minIngestGet.
Definition OpIngestCreate : Z := Z.lor CatIngestWrite minIngestCreate.
Definition OpIngestDelete : Z := Z.lor CatIngestWrite minIngestDelete.
Definition OpIngestSimulate : Z := Z.lor CatIngestWrite minIngestSimulate.
Definition OpIngestGrok : Z := Z.lor CatIngest minIngestGrok.
Definition OpClusterInfo : Z := Z.lor CatCluster minClusterInfo.
Definition OpClusterHealth : Z := Z.lor CatCluster minClusterHealth.
Definition OpClusterStats : Z := Z.lor CatCluster minClusterStats.
Definition OpClusterState : Z := Z.lor CatCluster minClusterState.
Definition OpClusterSettingsGet : Z := Z.lor CatCluster minClusterSettingsGet.
Definition OpClusterSettingsPut : Z := Z.lor CatClusterWrite minClusterSettingsPut.
Definition OpClusterReroute : Z := Z.lor CatClusterWrite minClusterReroute.
Definition OpClusterPendingTasks : Z := Z.lor CatCluster minClusterPendingTasks.
Definition OpClusterAllocExplain : Z := Z.lor CatCluster minClusterAllocExplain.
Definition OpClusterRemoteInfo : Z := Z.lor CatCluster minClusterRemoteInfo.
Definition OpClusterVotingConfigEx : Z := Z.lor CatClusterWrite minClusterVotingConfigPut.
Definition OpCatAllocation : Z := Z.lor CatAdmin minCatAllocation.
Definition OpCatClusterMgr : Z := Z.lor CatAdmin minCatClusterMgr.
Definition OpCatCount : Z := Z.lor CatAdmin minCatCount.
Definition OpCatFielddata : Z := Z.lor CatAdmin minCatFielddata.
Definition OpCatHealth : Z := Z.lor CatAdmin minCatHealth.
Definition OpCatIndices : Z := Z.lor CatAdmin minCatIndices.
Definition OpCatMaster : Z := Z.lor CatAdmin minCatMaster.
Definition OpCatNodeAttrs : Z := Z.lor CatAdmin minCatNodeAttrs.
Definition OpCatNodes : Z := Z.lor CatAdmin minCatNodes.
Definition OpCatPendingTask : Z := Z.lor CatAdmin minCatPendingTasks.
Definition OpCatPlugins : Z := Z.lor CatAdmin minCatPlugins.
Definition OpCatRecovery : Z := Z.lor CatAdmin minCatRecovery.
Definition OpCatRepos : Z := Z.lor CatAdmin minCatRepositories.
Definition OpCatSegments : Z := Z.lor CatAdmin minCatSegments.
Definition OpCatShards : Z := Z.lor CatAdmin minCatShards.
Definition OpCatSnapshots : Z := Z.lor CatAdmin minCatSnapshots.
Definition OpCatTasks : Z := Z.lor CatAdmin minCatTasks.
Definition OpCatTemplates : Z := Z.lor CatAdmin minCatTemplates.
Definition OpCatThreadPool : Z := Z.lor CatAdmin minCatThreadPool.
Definition OpNodesInfo : Z := Z.lor CatAdmin minNodesInfo.
Definition OpNodesStats : Z := Z.lor CatAdmin minNodesStats.
Definition OpNodesUsage : Z := Z.lor CatAdmin minNodesUsage.
Definition OpNodesHotThreads : Z := Z.lor CatAdmin minNodesHotThreads.
Definition OpNodesReloadSecurity : Z := Z.lor CatAdminWrite minNodesReloadSecurity.
Definition OpTasksList : Z := Z.lor CatAdmin minTasksList.
Definition OpTasksGet : Z := Z.lor CatAdmin minTasksGet.
Definition OpTasksCancel : Z := Z.lor CatAdminWrite minTasksCancel.
Definition OpSnapshotCreate : Z := Z.lor CatAdminWrite minSnapshotCreate.
Definition OpSnapshotGet : Z := Z.lor CatAdmin minSnapshotGet.
Definition OpSnapshotDelete : Z := Z.lor CatAdminWrite minSnapshotDelete.
Definition OpSnapshotClone : Z := Z.lor CatAdminWrite minSnapshotClone.
Definition OpSnapshotRestore : Z := Z.lor CatAdminWrite minSnapshotRestore.
Definition OpSnapshotStatus : Z := Z.lor CatAdmin minSnapshotStatus.
Definition OpSnapshotRepoCreate : Z := Z.lor CatAdminWrite minSnapshotRepoCreate.
Definition OpSnapshotRepoGet : Z := Z.lor CatAdmin minSnapshotRepoGet.
Definition OpSnapshotRepoDelete : Z := Z.lor CatAdminWrite minSnapshotRepoDelete.
Definition OpSnapshotRepoVerify : Z := Z.lor CatAdminWrite minSnapshotRepoVerify.
Definition OpSnapshotRepoClean : Z := Z.lor CatAdminWrite minSnapshotRepoCleanup.
Definition OpScriptGet : Z := Z.lor CatAdmin minScriptGet.
Definition OpScriptPut : Z := Z.lor CatAdminWrite minScriptPut.
Definition OpScriptDelete : Z := Z.lor CatAdminWrite minScriptDelete.
Definition OpScriptContext : Z := Z.lor CatAdmin minScriptContext.
Definition OpScriptLanguage : Z := Z.lor CatAdmin minScriptLanguage.
Definition OpScriptPainlessExec : Z := Z.lor CatAdminWrite minScriptPainlessExec.
Definition OpDanglingGet : Z := Z.lor CatAdmin minDanglingGet.
Definition OpDanglingDelete : Z := Z.lor CatAdminWrite minDanglingDelete.
Definition OpDanglingImport : Z := Z.lor CatAdminWrite minDanglingImport.
Definition OpDataStreamGet : Z := Z.lor CatIndex minDataStreamGet.
Definition OpDataStreamCreate : Z := Z.lor CatIndexWrite minDataStreamCreate.
Definition OpDataStreamDelete : Z := Z.lor CatIndexWrite minDataStreamDelete.
Definition OpDataStreamStats : Z := Z.lor CatIndex minDataStreamStats.
Definition OpRenderSearchTemplate : Z := Z.lor CatSearch minRenderSearchTemplate.
Definition OpPing : Z := Z.lor CatPing minPing.

(** * Names *)

Definition opNameSearch : string := "search".
Definition opNameMSearch : string := "msearch".
Definition opNameCount : string := "count".
Definition opNameSearchTemplate : string := "search_template".
Definition opNameMSearchTmpl : string := "msearch_template".
Definition opNameValidate : string := "validate".
Definition opNameRankEval : string := "rank_eval".
Definition opNameExplain : string := "explain".
Definition opNameSearchShards : string := "search_shards".
Definition opNameFieldCaps : string := "field_caps".
Definition opNameScrollGet : string := "scroll_get".
Definition opNameScrollDelete : string := "scroll_delete".
Definition opNamePITList : string := "pit_list".
Definition opNamePITCreate : string := "pit_create".
Definition opNamePITDelete : string := "pit_delete".
Definition opNameDocGet : string := "doc_get".
Definition opNameDocExists : string := "doc_exists".
Definition opNameDocSourceGet : string := "doc_source_get".
Definition opNameDocSourceExist : string := "doc_source_exists".
Definition opNameMGet : string := "mget".
Definition opNameTermVectors : string := "termvectors".
Definition opNameMTermVectors : string := "mtermvectors".
Definition opNameDocIndex : string := "doc_index".
Definition opNameDocCreate : string := "doc_create".
Definition opNameDocUpdate : string := "doc_update".
Definition opNameDocDelete : string := "doc_delete".
Definition opNameBulk : string := "bulk".
Definition opNameBulkStream : string := "bulk_stream".
Definition opNameReindex : string := "reindex".
Definition opNameDeleteByQuery : string := "delete_by_query".
Definition opNameUpdateByQuery : string := "update_by_query".
Definition opNameReindexRethrottle : string := "reindex_rethrottle".
Definition opNameDBQRethrottle : string := "dbq_rethrottle".
Definition opNameUBQRethrottle : string := "ubq_rethrottle".
Definition opNameIndexGet : string := "index_get".
Definition opNameIndexExists : string := "index_exists".
Definition opNameIndexCreate : string := "index_create".
Definition opNameIndexDelete : string := "index_delete".
Definition opNameIndexOpen : string := "index_open".
Definition opNameIndexClose : string := "index_close".
Definition opNameIndexClone : string := "index_clone".
Definition opNameIndexShrink : string := "index_shrink".
Definition opNameIndexSplit : string := "index_split".
Definition opNameIndexRollover : string := "index_rollover".
Definition opNameIndexBlock : string := "index_block".
Definition opNameIndexResolve : string := "index_resolve".
Definition opNameIndexAnalyze : string := "index_analyze".
Definition opNameMappingGet : string := "mapping_get".
Definition opNameMappingPut : string := "mapping_put".
Definition opNameAliasGet : string := "alias_get".
Definition opNameAliasPut : string := "alias_put".
Definition opNameAliasDelete : string := "alias_delete".
Definition opNameCatAliases : string := "cat_aliases".
Definition opNameIndexTemplateGet : string := "index_template_get".
Definition opNameIndexTemplateCreate : string := "index_template_create".
Definition opNameIndexTemplateDelete : string := "index_template_delete".
Definition opNameIndexTemplateExists : string := "index_template_exists".
Definition opNameIndexTemplateSimulate : string := "index_template_simulate".
Definition opNameIndexTemplateSimulateIndex : string := "index_template_simulate_index".
Definition opNameComponentTemplateGet : string := "component_template_get".
Definition opNameComponentTemplateCreate : string := "component_template_create".
Definition opNameComponentTemplateDelete : string := "component_template_delete".
Definition opNameComponentTemplateExists : string := "component_template_exists".
Definition opNameLegacyTemplateGet : string := "legacy_template_get".
Definition opNameLegacyTemplateCreate : string := "legacy_template_create".
Definition opNameLegacyTemplateDelete : string := "legacy_template_delete".
Definition opNameLegacyTemplateExists : string := "legacy_template_exists".
Definition opNameRefresh : string := "refresh".
Definition opNameFlush : string := "flush".
Definition opNameForceMerge : string := "forcemerge".
Definition opNameCacheClear : string := "cache_clear".
Definition opNameSegments : string := "segments".
Definition opNameRecovery : string := "recovery".
Definition opNameShardStores : string := "shard_stores".
Definition opNameStats : string := "stats".
Definition opNameIngestGet : string := "ingest_get".
Definition opNameIngestCreate : string := "ingest_create".
Definition opNameIngestDelete : string := "ingest_delete".
Definition opNameIngestSimulate : string := "ingest_simulate".
Definition opNameIngestGrok : string := "ingest_grok".
Definition opNameClusterInfo : string := "cluster_info".
Definition opNameClusterHealth : string := "cluster_health".
Definition opNameClusterStats : string := "cluster_stats".
Definition opNameClusterState : string := "cluster_state".
Definition opNameClusterSettingsGet : string := "cluster_settings_get".
Definition opNameClusterSettingsPut : string := "cluster_settings_put".
Definition opNameClusterReroute : string := "cluster_reroute".
Definition opNameClusterPendingTasks : string := "cluster_pending_tasks".
Definition opNameClusterAllocExplain : string := "cluster_alloc_explain".
Definition opNameClusterRemoteInfo : string := "cluster_remote_info".
Definition opNameClusterVotingConfigEx : string := "cluster_voting_config".
Definition opNamePing : string := "ping".
Definition opNameCatAllocation : string := "cat_allocation".
Definition opNameCatClusterMgr : string := "cat_cluster_manager".
Definition opNameCatCount : string := "cat_count".
Definition opNameCatFielddata : string := "cat_fielddata".
Definition opNameCatHealth : string := "cat_health".
Definition opNameCatIndices : string := "cat_indices".
Definition opNameCatMaster : string := "cat_master".
Definition opNameCatNodeAttrs : string := "cat_nodeattrs".
Definition opNameCatNodes : string := "cat_nodes".
Definition opNameCatPendingTask : string := "cat_pending_tasks".
Definition opNameCatPlugins : string := "cat_plugins".
Definition opNameCatRecovery : string := "cat_recovery".
Definition opNameCatRepos : string := "cat_repositories".
Definition opNameCatSegments : string := "cat_segments".
Definition opNameCatShards : string := "cat_shards".
Definition opNameCatSnapshots : string := "cat_snapshots".
Definition opNameCatTasks : string := "cat_tasks".
Definition opNameCatTemplates : string := "cat_templates".
Definition opNameCatThreadPool : string := "cat_thread_pool".
Definition opNameNodesInfo : string := "nodes_info".
Definition opNameNodesStats : string := "nodes_stats".
Definition opNameNodesUsage : string := "nodes_usage".
Definition opNameNodesHotThreads : string := "nodes_hot_threads".
Definition opNameNodesReloadSecurity : string := "nodes_reload_secure_settings".
Definition opNameTasksList : string := "tasks_list".
Definition opNameTasksGet : string := "tasks_get".
Definition opNameTasksCancel : string := "tasks_cancel".
Definition opNameSnapshotCreate : string := "snapshot_create".
Definition opNameSnapshotGet : string := "snapshot_get".
Definition opNameSnapshotDelete : string := "snapshot_delete".
Definition opNameSnapshotClone : string := "snapshot_clone".
Definition opNameSnapshotRestore : string := "snapshot_restore".
Definition opNameSnapshotStatus : string := "snapshot_status".
Definition opNameSnapshotRepoCreate : string := "snapshot_repo_create".
Definition opNameSnapshotRepoGet : string := "snapshot_repo_get".
Definition opNameSnapshotRepoDelete : string := "snapshot_repo_delete".
Definition opNameSnapshotRepoVerify : string := "snapshot_repo_verify".
Definition opNameSnapshotRepoClean : string := "snapshot_repo_cleanup".
Definition opNameScriptGet : string := "script_get".
Definition opNameScriptPut : string := "script_put".
Definition opNameScriptDelete : string := "script_delete".
Definition opNameScriptContext : string := "script_context".
Definition opNameScriptLanguage : string := "script_language".
Definition opNameScriptPainlessExec : string := "script_painless_execute".
Definition opNameDanglingGet : string := "dangling_get".
Definition opNameDanglingDelete : string := "dangling_delete".
Definition opNameDanglingImport : string := "dangling_import".
Definition opNameDataStreamGet : string := "data_stream_get".
Definition opNameDataStreamCreate : string := "data_stream_create".
Definition opNameDataStreamDelete : string := "data_stream_delete".
Definition opNameDataStreamStats : string := "data_stream_stats".
Definition opNameRenderSearchTemplate : string := "render_search_template".
Definition opNameOther : string := "other".

(** The name a category has in the fallback. *)
Definition catName (cat : Z) : string :=
  if cat =? CatSearch then "search" else
  if cat =? CatScroll then "scroll" else
  if cat =? CatScrollWrite then "scroll_write" else
  if cat =? CatPIT then "pit" else
  if cat =? CatPITWrite then "pit_write" else
  if cat =? CatDocRead then "doc_read" else
  if cat =? CatDocWrite then "doc_write" else
  if cat =? CatBulk then "bulk" else
  if cat =? CatIndex then "index" else
  if cat =? CatIndexWrite then "index_write" else
  if cat =? CatMapping then "mapping" else
  if cat =? CatMappingWrite then "mapping_write" else
  if cat =? CatAlias then "alias" else
  if cat =? CatAliasWrite then "alias_write" else
  if cat =? CatTemplate then "template" else
  if cat =? CatTemplateWrite then "template_write" else
  if cat =? CatMaint then "maint" else
  if cat =? CatMaintWrite then "maint_write" else
  if cat =? CatIngest then "ingest" else
  if cat =? CatIngestWrite then "ingest_write" else
  if cat =? CatCluster then "cluster" else
  if cat =? CatClusterWrite then "cluster_write" else
  if cat =? CatAdmin then "admin" else
  if cat =? CatAdminWrite then "admin_write" else
  if cat =? CatPing then "ping" else
  "unknown".

(** The switch of String, in its order. *)
Definition String_cases : list (Z * string) := [
  (OpSearch, opNameSearch);
  (OpMSearch, opNameMSearch);
  (OpCount, opNameCount);
  (OpSearchTemplate, opNameSearchTemplate);
  (OpMSearchTmpl, opNameMSearchTmpl);
  (OpValidate, opNameValidate);
  (OpRankEval, opNameRankEval);
  (OpExplain, opNameExplain);
  (OpSearchShards, opNameSearchShards);
  (OpFieldCaps, opNameFieldCaps);
  (OpScrollGet, opNameScrollGet);
  (OpScrollDelete, opNameScrollDelete);
  (OpPITList, opNamePITList);
  (OpPITCreate, opNamePITCreate);
  (OpPITDelete, opNamePITDelete);
  (OpDocGet, opNameDocGet);
  (OpDocExists, opNameDocExists);
  (OpDocSourceGet, opNameDocSourceGet);
  (OpDocSourceExist, opNameDocSourceExist);
  (OpMGet, opNameMGet);
  (OpTermVectors, opNameTermVectors);
  (OpMTermVectors, opNameMTermVectors);
  (OpDocIndex, opNameDocIndex);
  (OpDocCreate, opNameDocCreate);
  (OpDocUpdate, opNameDocUpdate);
  (OpDocDelete, opNameDocDelete);
  (OpBulk, opNameBulk);
  (OpBulkStream, opNameBulkStream);
  (OpReindex, opNameReindex);
  (OpDeleteByQuery, opNameDeleteByQuery);
  (OpUpdateByQuery, opNameUpdateByQuery);
  (OpReindexRethrottle, opNameReindexRethrottle);
  (OpDBQRethrottle, opNameDBQRethrottle);
  (OpUBQRethrottle, opNameUBQRethrottle);
  (OpIndexGet, opNameIndexGet);
  (OpIndexExists, opNameIndexExists);
  (OpIndexCreate, opNameIndexCreate);
  (OpIndexDelete, opNameIndexDelete);
  (OpIndexOpen, opNameIndexOpen);
  (OpIndexClose, opNameIndexClose);
  (OpIndexClone, opNameIndexClone);
  (OpIndexShrink, opNameIndexShrink);
  (OpIndexSplit, opNameIndexSplit);
  (OpIndexRollover, opNameIndexRollover);
  (OpIndexBlock, opNameIndexBlock);
  (OpIndexResolve, opNameIndexResolve);
  (OpIndexAnalyze, opNameIndexAnalyze);
  (OpMappingGet, opNameMappingGet);
  (OpMappingPut, opNameMappingPut);
  (OpAliasGet, opNameAliasGet);
  (OpAliasPut, opNameAliasPut);
  (OpAliasDelete, opNameAliasDelete);
  (OpCatAliases, opNameCatAliases);
  (OpIndexTemplateGet, opNameIndexTemplateGet);
  (OpIndexTemplateCreate, opNameIndexTemplateCreate);
  (OpIndexTemplateDelete, opNameIndexTemplateDelete);
  (OpIndexTemplateExists, opNameIndexTemplateExists);
  (OpIndexTemplateSimulate, opNameIndexTemplateSimulate);
  (OpIndexTemplateSimulateIndex, opNameIndexTemplateSimulateIndex);
  (OpComponentTemplateGet, opNameComponentTemplateGet);
  (OpComponentTemplateCreate, opNameComponentTemplateCreate);
  (OpComponentTemplateDelete, opNameComponentTemplateDelete);
  (OpComponentTemplateExists, opNameComponentTemplateExists);
  (OpLegacyTemplateGet, opNameLegacyTemplateGet);
  (OpLegacyTemplateCreate, opNameLegacyTemplateCreate);
  (OpLegacyTemplateDelete, opNameLegacyTemplateDelete);
  (OpLegacyTemplateExists, opNameLegacyTemplateExists);
  (OpRefresh, opNameRefresh);
  (OpFlush, opNameFlush);
  (OpForceMerge, opNameForceMerge);
  (OpCacheClear, opNameCacheClear);
  (OpSegments, opNameSegments);
  (OpRecovery, opNameRecovery);
  (OpShardStores, opNameShardStores);
  (OpStats, opNameStats);
  (OpIngestGet, opNameIngestGet);
  (OpIngestCreate, opNameIngestCreate);
  (OpIngestDelete, opNameIngestDelete);
  (OpIngestSimulate, opNameIngestSimulate);
  (OpIngestGrok, opNameIngestGrok);
  (OpClusterInfo, opNameClusterInfo);
  (OpClusterHealth, opNameClusterHealth);
  (OpClusterStats, opNameClusterStats);
  (OpClusterState, opNameClusterState);
  (OpClusterSettingsGet, opNameClusterSettingsGet);
  (OpClusterSettingsPut, opNameClusterSettingsPut);
  (OpClusterReroute, opNameClusterReroute);
  (OpClusterPendingTasks, opNameClusterPendingTasks);
  (OpClusterAllocExplain, opNameClusterAllocExplain);
  (OpClusterRemoteInfo, opNameClusterRemoteInfo);
  (OpClusterVotingConfigEx, opNameClusterVotingConfigEx);
  (OpPing, opNamePing);
  (OpCatAllocation, opNameCatAllocation);
  (OpCatClusterMgr, opNameCatClusterMgr);
  (OpCatCount, opNameCatCount);
  (OpCatFielddata, opNameCatFielddata);
  (OpCatHealth, opNameCatHealth);
  (OpCatIndices, opNameCatIndices);
  (OpCatMaster, opNameCatMaster);
  (OpCatNodeAttrs, opNameCatNodeAttrs);
  (OpCatNodes, opNameCatNodes);
  (OpCatPendingTask, opNameCatPendingTask);
  (OpCatPlugins, opNameCatPlugins);
  (OpCatRecovery, opNameCatRecovery);
  (OpCatRepos, opNameCatRepos);
  (OpCatSegments, opNameCatSegments);
  (OpCatShards, opNameCatShards);
  (OpCatSnapshots, opNameCatSnapshots);
  (OpCatTasks, opNameCatTasks);
  (OpCatTemplates, opNameCatTemplates);
  (OpCatThreadPool, opNameCatThreadPool);
  (OpNodesInfo, opNameNodesInfo);
  (OpNodesStats, opNameNodesStats);
  (OpNodesUsage, opNameNodesUsage);
  (OpNodesHotThreads, opNameNodesHotThreads);
  (OpNodesReloadSecurity, opNameNodesReloadSecurity);
  (OpTasksList, opNameTasksList);
  (OpTasksGet, opNameTasksGet);
  (OpTasksCancel, opNameTasksCancel);
  (OpSnapshotCreate, opNameSnapshotCreate);
  (OpSnapshotGet, opNameSnapshotGet);
  (OpSnapshotDelete, opNameSnapshotDelete);
  (OpSnapshotClone, opNameSnapshotClone);
  (OpSnapshotRestore, opNameSnapshotRestore);
  (OpSnapshotStatus, opNameSnapshotStatus);
  (OpSnapshotRepoCreate, opNameSnapshotRepoCreate);
  (OpSnapshotRepoGet, opNameSnapshotRepoGet);
  (OpSnapshotRepoDelete, opNameSnapshotRepoDelete);
  (OpSnapshotRepoVerify, opNameSnapshotRepoVerify);
  (OpSnapshotRepoClean, opNameSnapshotRepoClean);
  (OpScriptGet, opNameScriptGet);
  (OpScriptPut, opNameScriptPut);
  (OpScriptDelete, opNameScriptDelete);
  (OpScriptContext, opNameScriptContext);
  (OpScriptLanguage, opNameScriptLanguage);
  (OpScriptPainlessExec, opNameScriptPainlessExec);
  (OpDanglingGet, opNameDanglingGet);
  (OpDanglingDelete, opNameDanglingDelete);
  (OpDanglingImport, opNameDanglingImport);
  (OpDataStreamGet, opNameDataStreamGet);
  (OpDataStreamCreate, opNameDataStreamCreate);
  (OpDataStreamDelete, opNameDataStreamDelete);
  (OpDataStreamStats, opNameDataStreamStats);
  (OpRenderSearchTemplate, opNameRenderSearchTemplate);
  (OpOther, opNameOther)
].

(** String *)
Definition Op_String (op : Z) : string :=
  match List.find (fun c => c.1 =? op) String_cases with
  | Some c => c.2
  | None => catName (Category op) +:+ "_" +:+ pretty (Minor op)
  end.

(** * Packing *)

(** The identifier of operation [minor] in category [slot], and the
    identifiers the package builds: a declared category with a minor number
    in its 32 bits, or OpOther. *)
Definition pack (write : bool) (slot minor : Z) : Z :=
  Z.lor (Z.lor (if write then opRWMask else 0) (Z.shiftl slot opCatShift)) minor.

Definition categories : list (bool * Z) :=
  ((fun n : nat => (false, Z.of_nat n)) <$> seq 0 13) ++
  ((fun n : nat => (true, Z.of_nat n)) <$> [0; 2; 3; 4; 13; 5; 6; 7; 8; 9; 10; 11]%nat).

Definition well_formed (op : Z) : Prop :=
  op = OpOther \/ exists w slot minor, (w, slot) ∈ categories /\ 0 <= minor < 2 ^ 32 /\ op = pack w slot minor.

Definition declared : list Z := [
  CatCluster; CatSearch; CatScroll; CatPIT; CatDocRead; CatIndex; CatMapping; CatAlias; CatTemplate; CatMaint;
  CatIngest; CatAdmin; CatPing; CatClusterWrite; CatScrollWrite; CatPITWrite; CatDocWrite; CatBulk; CatIndexWrite;
  CatMappingWrite; CatAliasWrite; CatTemplateWrite; CatMaintWrite; CatIngestWrite; CatAdminWrite].

Lemma categories_declared : (fun c => pack c.1 c.2 0) <$> categories = declared.
Proof. vm_compute. reflexivity. Qed.

Lemma categories_slot w slot : (w, slot) ∈ categories -> 0 <= slot < 128.
Proof.
  intros H. assert (Hall : Forall (fun c : bool * Z => 0 <= c.2 < 128) categories) by (repeat constructor; cbn; lia).
  rewrite Forall_forall in Hall. apply (Hall _ H).
Qed.

Lemma testbit_rw (w : bool) i : 0 <= i -> Z.testbit (if w then opRWMask else 0) i = w && (63 <=? i).
Proof.
  intros Hi. destruct w; [| apply Z.testbit_0_l]. unfold opRWMask, opRWBit. rewrite Z.shiftl_spec by done.
  destruct (Z.leb_spec 63 i); [apply Z.bits_m1; lia | apply Z.testbit_neg_r; lia].
Qed.

Lemma testbit_op_pack w slot minor i :
  0 <= slot < 128 -> 0 <= minor < 2 ^ 32 -> 0 <= i ->
  Z.testbit (pack w slot minor) i =
    if i <? 32 then Z.testbit minor i else if i <? 56 then false
    else if i <? 63 then Z.testbit slot (i - 56) else w.
Proof.
  intros Hs Hm Hi. unfold pack. rewrite !Z.lor_spec, testbit_rw, Z.shiftl_spec by done. unfold opCatShift.
  destruct (Z.ltb_spec i 32).
  { rewrite (Z.testbit_neg_r slot) by lia. destruct (Z.leb_spec 63 i); [lia | btauto]. }
  rewrite (testbit_above minor 32) by lia. destruct (Z.ltb_spec i 56).
  { rewrite (Z.testbit_neg_r slot) by lia. destruct (Z.leb_spec 63 i); [lia | btauto]. }
  destruct (Z.ltb_spec i 63), (Z.leb_spec 63 i); try lia; [btauto |].
  rewrite (testbit_above slot 7) by lia. btauto.
Qed.

Lemma testbit_minMask i : 0 <= i -> Z.testbit opMinMask i = (i <? 32).
Proof. intros Hi. change opMinMask with (Z.ones 32). rewrite Z.testbit_ones_nonneg; lia. Qed.

Lemma testbit_majMask i : 0 <= i -> Z.testbit opMajMask i = (56 <=? i).
Proof.
  intros Hi. change opMajMask with (Z.shiftl (-1) 56). rewrite Z.shiftl_spec by done.
  destruct (Z.leb_spec 56 i); [apply Z.bits_m1; lia | apply Z.testbit_neg_r; lia].
Qed.

Lemma pack_Minor w slot minor : 0 <= slot < 128 -> 0 <= minor < 2 ^ 32 -> Minor (pack w slot minor) = minor.
Proof.
  intros Hs Hm. apply Z.bits_inj'. intros i Hi. unfold Minor. rewrite Z.land_spec, testbit_minMask, testbit_op_pack by done.
  destruct (Z.ltb_spec i 32); [btauto |]. rewrite (testbit_above minor 32) by lia. btauto.
Qed.

Lemma pack_Category w slot minor : 0 <= slot < 128 -> 0 <= minor < 2 ^ 32 -> Category (pack w slot minor) = pack w slot 0.
Proof.
  intros Hs Hm. apply Z.bits_inj'. intros i Hi. unfold Category.
  rewrite Z.land_spec, testbit_majMask, !testbit_op_pack, Z.testbit_0_l by (done || lia).
  destruct (Z.ltb_spec i 32), (Z.ltb_spec i 56), (Z.leb_spec 56 i); try lia; btauto.
Qed.

Lemma pack_lor w slot minor : Z.lor (pack w slot 0) minor = pack w slot minor.
Proof. unfold pack. by rewrite Z.lor_0_r. Qed.

Lemma pack_range w slot minor : 0 <= slot < 128 -> 0 <= minor < 2 ^ 32 -> int64_range (pack w slot minor).
Proof.
  intros Hs Hm. assert (Hslot : int64_range (Z.shiftl slot 56)).
  { rewrite Z.shiftl_mul_pow2 by lia. unfold int64_range. lia. }
  apply lor_int64; [apply lor_int64; [by destruct w | done] | unfold int64_range; lia].
Qed.

Lemma pack_IsWrite w slot minor : 0 <= slot < 128 -> 0 <= minor < 2 ^ 32 -> IsWrite (pack w slot minor) = w.
Proof.
  intros Hs Hm. unfold IsWrite.
  assert (Hland : Z.land (pack w slot minor) opRWMask = if w then opRWMask else 0).
  { apply Z.bits_inj'. intros i Hi. rewrite Z.land_spec, testbit_op_pack, testbit_rw by done.
    change opRWMask with (if true then opRWMask else 0). rewrite testbit_rw by done.
    destruct (Z.leb_spec 63 i), (Z.ltb_spec i 32), (Z.ltb_spec i 56), (Z.ltb_spec i 63); try lia; btauto. }
  rewrite Hland. by destruct w.
Qed.

(** * Names *)

Definition is_digit (c : Ascii.ascii) : bool :=
  let n := Ascii.nat_of_ascii c in (48 <=? n)%nat && (n <=? 57)%nat.

Fixpoint digits (s : string) : bool :=
  match s with EmptyString => true | String c s' => is_digit c && digits s' end.

Fixpoint ends_digit (s : string) : bool :=
  match s with EmptyString => false | String c EmptyString => is_digit c | String _ s' => ends_digit s' end.

Lemma digits_go x s : digits s = true -> digits (pretty_N_go x s) = true.
Proof.
  revert s. induction (N.lt_wf_0 x) as [x _ IH]; intros s Hs.
  destruct (decide (0 < x)%N) as [Hx | Hx].
  - rewrite pretty_N_go_step by done. apply IH; [apply N.div_lt; lia |]. cbn [digits].
    rewrite Hs, andb_true_r. assert (x `mod` 10 < 10)%N by (apply N.mod_lt; lia).
    destruct (x `mod` 10)%N as [| p]; [done |]. unfold pretty_N_char.
    do 4 (destruct p as [p | p |]; try reflexivity; try lia).
  - replace x with 0%N by lia. by rewrite pretty_N_go_0.
Qed.

Lemma pretty_digits z : 0 <= z -> digits (pretty z) = true.
Proof.
  destruct z as [| p | p]; [done | intros _ | lia]. change (pretty (Zpos p)) with (pretty (Npos p)).
  by apply digits_go.
Qed.

Lemma pretty_go_nonempty x s : s <> "" -> pretty_N_go x s <> "".
Proof.
  revert s. induction (N.lt_wf_0 x) as [x _ IH]; intros s Hs.
  destruct (decide (0 < x)%N) as [Hx | Hx].
  - rewrite pretty_N_go_step by done. apply IH; [apply N.div_lt; lia | done].
  - replace x with 0%N by lia. by rewrite pretty_N_go_0.
Qed.

Lemma pretty_nonempty z : 0 <= z -> pretty z <> "".
Proof.
  destruct z as [| p | p]; [done | intros _ | lia]. change (pretty (Zpos p)) with (pretty (Npos p)).
  change (pretty (Npos p)) with (pretty_N_go (Npos p) ""). rewrite pretty_N_go_step by lia.
  by apply pretty_go_nonempty.
Qed.

Lemma split_underscore c1 c2 d1 d2 :
  digits d1 = true -> digits d2 = true -> c1 +:+ "_" +:+ d1 = c2 +:+ "_" +:+ d2 -> c1 = c2 /\ d1 = d2.
Proof.
  assert (Hno : forall c d, digits (c +:+ "_" +:+ d) = true -> False).
  { induction c as [| x c IH]; cbn; [done |]. intros d H. apply andb_prop in H as [_ H]. by apply (IH d). }
  intros H1 H2. revert c2. induction c1 as [| x c1 IH]; intros [| y c2] Heq; cbn in Heq; injection Heq.
  - done.
  - intros H _. change ("" +:+ d1) with d1 in H. subst d1. exfalso. by apply (Hno c2 d2).
  - intros H _. change ("" +:+ d2) with d2 in H. subst d2. exfalso. by apply (Hno c1 d1).
  - intros H ->. destruct (IH c2 H) as [-> ->]. done.
Qed.

Lemma ends_digit_cons x s : s <> "" -> ends_digit (String x s) = ends_digit s.
Proof. by destruct s. Qed.

Lemma ends_digit_app c s : s <> "" -> ends_digit (c +:+ s) = ends_digit s.
Proof.
  intros Hs. induction c as [| x c IH]; [done |]. change (String x c +:+ s) with (String x (c +:+ s)).
  rewrite ends_digit_cons; [done | by destruct c].
Qed.

Lemma ends_digit_digits d : d <> "" -> digits d = true -> ends_digit d = true.
Proof.
  induction d as [| x d IH]; [done |]. intros _ [Hx Hd]%andb_prop. destruct d as [| y d]; [done |].
  rewrite ends_digit_cons by done. by apply IH.
Qed.

Lemma names_end : forallb (fun c : Z * string => negb (ends_digit c.2)) String_cases = true.
Proof. vm_compute. reflexivity. Qed.

Lemma find_named op c : List.find (fun c : Z * string => c.1 =? op) String_cases = Some c -> c ∈ String_cases /\ c.1 = op.
Proof. intros H. apply find_some in H as [Hin Heq]. split; [by apply list_elem_of_In | lia]. Qed.

Lemma ids_NoDup : NoDup (String_cases.*1).
Proof. apply (bool_decide_unpack _). vm_compute. exact I. Qed.

Lemma names_NoDup : NoDup (String_cases.*2).
Proof. apply (bool_decide_unpack _). vm_compute. exact I. Qed.

Lemma catNames_NoDup : NoDup (catName <$> declared).
Proof. apply (bool_decide_unpack _). vm_compute. exact I. Qed.

Lemma NoDup_fmap_inj {A B} (f : A -> B) l x y : NoDup (f <$> l) -> x ∈ l -> y ∈ l -> f x = f y -> x = y.
Proof.
  intros Hnd (i & Hi)%list_elem_of_lookup (j & Hj)%list_elem_of_lookup Heq.
  assert (i = j) as ->.
  { eapply (NoDup_lookup _ i j (f x)); [done | rewrite list_lookup_fmap, Hi | rewrite list_lookup_fmap, Hj]; cbn; congruence. }
  congruence.
Qed.

Lemma declared_pack w slot : (w, slot) ∈ categories -> pack w slot 0 ∈ declared.
Proof. intros H. rewrite <- categories_declared. apply (list_elem_of_fmap_2 (fun c : bool * Z => pack c.1 c.2 0) _ (w, slot)), H. Qed.

Lemma name_not_fallback id name c d :
  (id, name) ∈ String_cases -> d <> "" -> digits d = true -> name <> c +:+ "_" +:+ d.
Proof.
  intros Hin Hd Hdig ->. pose proof names_end as Hall. rewrite forallb_forall in Hall.
  apply list_elem_of_In, Hall in Hin. cbn [snd] in Hin. rewrite ends_digit_app in Hin by done.
  change ("_" +:+ d) with (String "_"%char d) in Hin. by rewrite ends_digit_cons, ends_digit_digits in Hin.
Qed.

Lemma other_named : (OpOther, opNameOther) ∈ String_cases.
Proof. apply list_elem_of_In. vm_compute. repeat (try (left; reflexivity); right). Qed.

(** A named operation has its name, any other is its category's name and its
    number. *)
Lemma Op_String_cases op :
  well_formed op ->
  (op, Op_String op) ∈ String_cases \/
  exists w slot minor, (w, slot) ∈ categories /\ 0 <= minor < 2 ^ 32 /\ op = pack w slot minor /\
    Op_String op = catName (pack w slot 0) +:+ "_" +:+ pretty minor.
Proof.
  intros Hwf. unfold Op_String. destruct (List.find _ _) as [[id name] |] eqn:Hf.
  - apply find_named in Hf as [Hin <-]. by left.
  - right. destruct Hwf as [-> | (w & slot & minor & Hc & Hm & ->)].
    { pose proof (find_none _ _ Hf _ (proj1 (list_elem_of_In _ _) other_named)) as Hn. vm_compute in Hn. discriminate Hn. }
    pose proof (categories_slot _ _ Hc). exists w, slot, minor. by rewrite pack_Category, pack_Minor by done.
Qed.

(** Identifiers pack and unpack: for every category slot and minor number,
    read or write, the identifier fits an int64, its Category, Minor and R/W
    flag are the ones it was built from, and the declared categories are those
    slots, so an identifier is the OR of its category and its minor number. *)
Theorem operation_pack_roundtrip w slot minor :
  0 <= slot < 128 -> 0 <= minor < 2 ^ 32 ->
  int64_range (pack w slot minor) /\ Category (pack w slot minor) = pack w slot 0 /\
  Minor (pack w slot minor) = minor /\ IsWrite (pack w slot minor) = w /\ IsRead (pack w slot minor) = negb w /\
  Z.lor (Category (pack w slot minor)) (Minor (pack w slot minor)) = pack w slot minor /\
  ((w, slot) ∈ categories -> Category (pack w slot minor) ∈ declared).
Proof.
  intros Hs Hm. pose proof (pack_IsWrite w slot minor Hs Hm) as Hw.
  rewrite pack_Category, pack_Minor, pack_lor by done.
  refine (conj (pack_range _ _ _ Hs Hm) (conj eq_refl (conj eq_refl (conj Hw (conj _ (conj eq_refl (declared_pack _ _))))))).
  revert Hw. unfold IsWrite, IsRead. by destruct (Z.land _ _ =? 0), w.
Qed.

(** The name of an operation identifies it: String is injective on the
    identifiers the package can build, whether they have a case of their own
    or fall back to category and number, so no two operations share a metric
    label; and every identifier with a case gets that case's name. *)
Theorem operation_names_injective op op' :
  well_formed op -> well_formed op' -> Op_String op = Op_String op' -> op = op'.
Proof.
  intros [Hn | (w & slot & m & Hc & Hm & -> & Hs)]%Op_String_cases
         [Hn' | (w' & slot' & m' & Hc' & Hm' & -> & Hs')]%Op_String_cases Heq.
  - rewrite <- Heq in Hn'. pose proof (NoDup_fmap_inj snd _ _ _ names_NoDup Hn Hn' eq_refl) as Hp. by inversion Hp.
  - rewrite Heq, Hs' in Hn. destruct (name_not_fallback _ _ _ _ Hn (pretty_nonempty m' ltac:(lia)) (pretty_digits m' ltac:(lia)) eq_refl).
  - rewrite <- Heq, Hs in Hn'. destruct (name_not_fallback _ _ _ _ Hn' (pretty_nonempty m ltac:(lia)) (pretty_digits m ltac:(lia)) eq_refl).
  - rewrite Hs, Hs' in Heq.
    apply split_underscore in Heq as [Hcat Hmin]; [| apply pretty_digits; lia ..].
    apply (inj pretty) in Hmin as ->.
    apply (NoDup_fmap_inj catName declared) in Hcat; [| exact catNames_NoDup | by apply declared_pack ..].
    by rewrite <- (pack_lor w), <- (pack_lor w'), Hcat.
Qed.

Lemma operation_pack_roundtrip_witness : Minor (pack true 13 3) = minReindex /\ Category (pack true 13 3) = CatBulk.
Proof.
  destruct (operation_pack_roundtrip true 13 3 ltac:(lia) ltac:(lia)) as (_ & Hc & Hm & _).
  split; [exact Hm | exact Hc].
Defined.

Lemma operation_names_injective_witness :
  Op_String OpReindex = "reindex" /\ Op_String (Z.lor CatSearch 99) = "search_99" /\
  (Op_String OpReindex = Op_String (Z.lor CatSearch 99) -> OpReindex = Z.lor CatSearch 99).
Proof.
  split; [reflexivity | split; [reflexivity |]]. apply operation_names_injective.
  - right. exists true, 13, 3. split; [apply list_elem_of_In; cbn; tauto | split; [lia | reflexivity]].
  - right. exists false, 1, 99. split; [apply list_elem_of_In; cbn; tauto | split; [lia | reflexivity]].
Defined.
