(* ===== verification/Routes.v ===== *)
(** * HTTP routes

    policy_mux_trie.go and the route patterns of policy_mux.go: a route is a
    method and a path pattern, registered in a trie of path segments; a
    request is matched against the trie after path.Clean.

    A Go string is the string of its bytes. [cleanPath] is Go's path.Clean. A
    trie node owns its children (every node is reached by one pointer), so the
    walk of add that updates nodes in place is a function that rebuilds the
    path to the node; the test [node == &t.root] holds until the first child
    is entered. Loops over a path take as fuel one more than its length and
    use at most that. *)

From Stdlib Require Import Ascii String.
From stdpp Require Import base gmap list strings.
From Stdlib Require Import ZArith Lia.
From S2P Require Import Prelude.
Open Scope Z_scope.

(** * Strings *)

Definition slash : ascii := "/".

Fixpoint index_cut (s : string) : string * string :=
  match s with
  | EmptyString => ("", "")
  | String c s' => if Ascii.eqb c slash then ("", s) else let '(a, b) := index_cut s' in (String c a, b)
  end.

Fixpoint split_slash (s : string) : list string :=
  match s with
  | EmptyString => [""]
  | String c s' =>
    if Ascii.eqb c slash then "" :: split_slash s'
    else match split_slash s' with a :: l => String c a :: l | [] => [String c ""] end
  end.

(** path.Clean: empty and dot elements go, an element followed by dot-dot goes
    with it, dot-dot at the root goes. *)
Fixpoint clean_loop (rooted : bool) (out : list string) (elems : list string) : list string :=
  match elems with
  | [] => out
  | e :: elems' =>
    if decide (e = "" \/ e = ".") then clean_loop rooted out elems'
    else if decide (e = "..") then
      match out with
      | [] => clean_loop rooted (if rooted then [] else [e]) elems'
      | top :: out' => clean_loop rooted (if decide (top = "..") then e :: out else out') elems'
      end
    else clean_loop rooted (e :: out) elems'
  end.

Definition rooted (path : string) : bool :=
  match path with String c _ => Ascii.eqb c slash | EmptyString => false end.

Definition clean_elems (path : string) : list string := rev (clean_loop (rooted path) [] (split_slash path)).

Definition cleanPath (path : string) : string :=
  let body := String.concat "/" (clean_elems path) in
  if rooted path then String slash body else if decide (body = "") then "." else body.

(** * The trie *)

Section Trie.
Context {Policy : Type}.

Record trieLeaf := MkLeaf { l_policy : Policy; l_operationID : Z; l_attrs : Z; l_poolName : string }.

Inductive trieNode := MkNode {
  children : gmap string trieNode;
  wildcard : option trieNode;
  wildName : string;
  methods : gmap string trieLeaf }.

Definition newNode (name : string) : trieNode := MkNode ∅ None name ∅.
Definition routeTrie : Type := trieNode.
Definition emptyTrie : routeTrie := newNode "".

Definition with_child (n : trieNode) (seg : string) (c : trieNode) : trieNode :=
  MkNode (<[seg := c]> (children n)) (wildcard n) (wildName n) (methods n).
Definition with_wildcard (n : trieNode) (c : trieNode) : trieNode :=
  MkNode (children n) (Some c) (wildName n) (methods n).
Definition with_methods (n : trieNode) (ms : list string) (leaf : trieLeaf) : trieNode :=
  MkNode (children n) (wildcard n) (wildName n) (foldl (fun mt m => <[m := leaf]> mt) (methods n) ms).

(** {param}: longer than the braces alone. *)
Definition is_param (seg : string) : bool :=
  (2 <? String.length seg)%nat && bool_decide (String.get 0 seg = Some "{"%char) &&
  bool_decide (String.get (String.length seg - 1) seg = Some "}"%char).
Definition param_name (seg : string) : string := String.substring 1 (String.length seg - 2) seg.

(** The loop of add, over what is left of the path. *)
Fixpoint add_loop (fuel : nat) (ms : list string) (leaf : trieLeaf) (path : string) (node : trieNode) : option trieNode :=
  match fuel with
  | O => None
  | S fuel =>
    match path with
    | EmptyString => Some (with_methods node ms leaf)
    | String c path' =>
      if Ascii.eqb c slash then add_loop fuel ms leaf path' node
      else
        let '(seg, path) := index_cut path in
        if decide (seg = "") then add_loop fuel ms leaf path node
        else if is_param seg then
          child ← add_loop fuel ms leaf path (default (newNode (param_name seg)) (wildcard node));
          Some (with_wildcard node child)
        else
          child ← add_loop fuel ms leaf path (default (newNode "") (children node !! seg));
          Some (with_child node seg child)
    end
  end.

Definition add (t : routeTrie) (ms : list string) (path : string) (policy : Policy) (attrs : Z) (poolName : string)
    (opID : Z) : option routeTrie :=
  add_loop (S (String.length path)) ms (MkLeaf policy opID attrs poolName) path t.

(** * Matching *)

Record trieMatch := MkMatch {
  m_leaf : trieLeaf;
  indexStart : nat; indexEnd : nat;
  docStart : nat; docEnd : nat;
  isSystem : bool }.

(** The offsets recorded while walking. *)
Record offsets := MkOffsets { o_index : nat * nat; o_doc : nat * nat }.

Definition record_offsets (name : string) (segStart segEnd : nat) (o : offsets) : offsets :=
  if decide (name = "index") then MkOffsets (segStart, segEnd) (o_doc o)
  else if decide (name = "id") then MkOffsets (o_index o) (segStart, segEnd)
  else o.

(** The loop of match: [rest] is path[pos:], [atRoot] is node == &t.root. *)
Fixpoint match_loop (fuel : nat) (pos : nat) (rest : string) (node : trieNode) (atRoot : bool) (o : offsets)
    : option (trieNode * bool * offsets) :=
  match fuel with
  | O => None
  | S fuel =>
    match rest with
    | EmptyString => Some (node, atRoot, o)
    | String c rest' =>
      if Ascii.eqb c slash then match_loop fuel (pos + 1) rest' node atRoot o
      else
        let '(seg, rest) := index_cut rest in
        let segEnd := (pos + String.length seg)%nat in
        if decide (seg = "") then match_loop fuel segEnd rest node atRoot o
        else
          match children node !! seg with
          | Some child => match_loop fuel segEnd rest child false o
          | None =>
            match wildcard node with
            | Some child => match_loop fuel segEnd rest child false (record_offsets (wildName child) pos segEnd o)
            | None => None
            end
          end
    end
  end.

Definition match_route (t : routeTrie) (method path : string) : option trieMatch :=
  let path := cleanPath path in
  if negb (rooted path) then None
  else
    let sys := match path with String _ (String c _) => Ascii.eqb c "_" | _ => false end in
    '(node, atRoot, o) ← match_loop (S (String.length path)) 0 path t true (MkOffsets (0, 0) (0, 0))%nat;
    if (atRoot : bool) && negb (bool_decide (path = "/")) then None
    else
      leaf ← methods node !! method;
      Some (MkMatch leaf (o_index o).1 (o_index o).2 (o_doc o).1 (o_doc o).2 sys).
End Trie.

Arguments trieLeaf : clear implicits.
Arguments trieNode : clear implicits.
Arguments routeTrie : clear implicits.
Arguments trieMatch : clear implicits.
Arguments MkLeaf {Policy}.

(** * Patterns and routes *)

Definition is_space (c : ascii) : bool :=
  let n := nat_of_ascii c in ((9 <=? n) && (n <=? 13))%nat || (n =? 32)%nat.

(** strings.Fields on an ASCII string. *)
Fixpoint fields_loop (cur : string) (s : string) : list string :=
  match s with
  | EmptyString => if decide (cur = "") then [] else [cur]
  | String c s' =>
    if is_space c then (if decide (cur = "") then fields_loop "" s' else cur :: fields_loop "" s')
    else fields_loop (cur +:+ String c "") s'
  end.
Definition Fields (s : string) : list string := fields_loop "" s.

Definition httpMethods : list string :=
  ["GET"; "HEAD"; "POST"; "PUT"; "PATCH"; "DELETE"; "CONNECT"; "OPTIONS"; "TRACE"].

Inductive pattern_error := EmptyPattern | MissingMethod | InvalidMethod.

Definition splitMuxPattern (pattern : string) : (string * string) + pattern_error :=
  if decide (pattern = "") then inr EmptyPattern
  else
    match Fields pattern with
    | [method; path] => if decide (method ∈ httpMethods) then inl (method, path) else inr InvalidMethod
    | _ => inr MissingMethod
    end.

Definition attrInjectAdaptiveMCSR : Z := 1.

Section Routes.
Context {Policy : Type}.

(** RouteMux, which is also what a RouteBuilder has set so far. A policy may
    be nil. *)
Record RouteMux := MkRoute {
  r_pattern : string; r_policy : option Policy; r_operationID : Z; r_attrs : Z; r_poolName : string }.

Definition NewRoute (pattern : string) (policy : option Policy) : RouteMux := MkRoute pattern policy 0 0 "".
Definition Pool (name : string) (b : RouteMux) : RouteMux :=
  MkRoute (r_pattern b) (r_policy b) (r_operationID b) (r_attrs b) name.
Definition Op (id : Z) (b : RouteMux) : RouteMux :=
  MkRoute (r_pattern b) (r_policy b) id (r_attrs b) (r_poolName b).
Definition InjectAdaptiveMCSR (b : RouteMux) : RouteMux :=
  MkRoute (r_pattern b) (r_policy b) (r_operationID b) (Z.lor (r_attrs b) attrInjectAdaptiveMCSR) (r_poolName b).

(** [None]: panic. *)
Definition MustBuild (b : RouteMux) : option RouteMux :=
  match r_policy b, splitMuxPattern (r_pattern b) with
  | Some _, inl _ => Some b
  | _, _ => None
  end.

(** NewRouteMuxAttrs *)
Definition NewRouteMuxAttrs (pattern : string) (policy : option Policy) (attrs : Z) : RouteMux + option pattern_error :=
  match policy with
  | None => inr None
  | Some _ =>
    match splitMuxPattern pattern with
    | inr e => inr (Some e)
    | inl _ => inl (MkRoute pattern policy 0 attrs "")
    end
  end.

(** The trie NewMuxPolicy builds; [None]: panic. *)
Definition add_route (t : routeTrie Policy) (r : RouteMux) : option (routeTrie Policy) :=
  match r_policy r, splitMuxPattern (r_pattern r) with
  | Some p, inl (method, path) => add t [method] path p (r_attrs r) (r_poolName r) (r_operationID r)
  | _, _ => None
  end.
Definition build_trie (routes : list RouteMux) : option (routeTrie Policy) :=
  foldl (fun ot r => t ← ot; add_route t r) (Some emptyTrie) routes.
End Routes.

Arguments RouteMux : clear implicits.

(** * Paths and their elements *)

Fixpoint no_slash (s : string) : bool :=
  match s with EmptyString => true | String c s' => negb (Ascii.eqb c slash) && no_slash s' end.

(** An absolute path with these elements. *)
Definition path_of (elems : list string) : string :=
  foldr (fun e path => String slash (e +:+ path)) "" elems.

Definition elem_ok (e : string) : Prop := e <> "" /\ no_slash e = true.

(** What add makes of a path: its nonempty elements. *)
Definition pieces (path : string) : list string := filter (fun e => e <> "") (split_slash path).

Lemma split_cons c s :
  split_slash (String c s) =
    if Ascii.eqb c slash then "" :: split_slash s
    else match split_slash s with a :: l => String c a :: l | [] => [String c ""] end.
Proof. done. Qed.

Lemma split_cut s a b :
  index_cut s = (a, b) ->
  s = a +:+ b /\ no_slash a = true /\
  split_slash s = a :: match b with EmptyString => [] | String _ b' => split_slash b' end.
Proof.
  revert a b. induction s as [| c s IH]; intros a b; cbn; [by intros [= <- <-] |].
  destruct (Ascii.eqb_spec c slash) as [-> |]; [by intros [= <- <-] |].
  destruct (index_cut s) as [a' b']. intros [= <- <-]. destruct (IH a' b' eq_refl) as (-> & Hns & ->).
  split; [done |]. split; [| done]. cbn. rewrite Hns, andb_true_r. by destruct (Ascii.eqb_spec c slash).
Qed.

Lemma cut_app a b : no_slash a = true -> index_cut (a +:+ String slash b) = (a, String slash b).
Proof.
  induction a as [| c a IH]; [done |]. cbn. intros [Hc Ha]%andb_prop.
  change (String c a +:+ String slash b) with (String c (a +:+ String slash b)). cbn.
  rewrite IH by done. by destruct (Ascii.eqb_spec c slash).
Qed.

Lemma cut_last a : no_slash a = true -> index_cut a = (a, "").
Proof.
  induction a as [| c a IH]; [done |]. cbn. intros [Hc Ha]%andb_prop. rewrite IH by done.
  by destruct (Ascii.eqb_spec c slash).
Qed.

Lemma cut_path_of e elems : no_slash e = true -> index_cut (e +:+ path_of elems) = (e, path_of elems).
Proof.
  intros He. destruct elems as [| e' elems]; [| by apply cut_app]. cbn.
  assert (Happ : e +:+ "" = e) by (clear; induction e as [| c e IH]; [done |];
    change (String c e +:+ "") with (String c (e +:+ "")); by rewrite IH).
  rewrite Happ. by apply cut_last.
Qed.

Lemma length_app_string a b : String.length (a +:+ b) = (String.length a + String.length b)%nat.
Proof. induction a as [| c a IH]; [done |]. change (String c a +:+ b) with (String c (a +:+ b)). cbn. by rewrite IH. Qed.

Lemma split_no_slash s : Forall (fun e => no_slash e = true) (split_slash s).
Proof.
  induction s as [| c s IH]; [by repeat constructor |]. rewrite split_cons.
  destruct (Ascii.eqb_spec c slash) as [-> | Hc]; [by constructor |].
  destruct (split_slash s) as [| a l]; [constructor; [| done] | inversion IH; subst; constructor; [| done]];
    cbn; destruct (Ascii.eqb_spec c slash); done.
Qed.

Lemma concat_path_of e elems : String slash (String.concat "/" (e :: elems)) = path_of (e :: elems).
Proof.
  revert e. induction elems as [| e' elems IH]; intros e.
  - cbn. f_equal. induction e as [| c e IHe]; [done |]. change (String c e +:+ "") with (String c (e +:+ "")). by rewrite <- IHe.
  - change (String slash (e +:+ "/" +:+ String.concat "/" (e' :: elems)) = String slash (e +:+ path_of (e' :: elems))).
    rewrite <- IH. done.
Qed.

Lemma rooted_concat e elems : elem_ok e -> rooted (String.concat "/" (e :: elems)) = false.
Proof.
  intros [Hne Hs]. destruct e as [| c e]; [done |]. cbn in Hs. apply andb_prop in Hs as [Hc _].
  assert (Hr : rooted (String.concat "/" (String c e :: elems)) = Ascii.eqb c slash) by (by destruct elems).
  rewrite Hr. by destruct (Ascii.eqb c slash).
Qed.

(** * path.Clean *)

Definition plain (e : string) : Prop := elem_ok e /\ e <> "." /\ e <> "..".

(** What [clean_loop] keeps on its stack: plain elements, under them the
    dot-dots of a relative path. *)
Definition clean_ok (r : bool) (out : list string) : Prop :=
  exists norm k, out = norm ++ replicate k ".." /\ Forall plain norm /\ (r = true -> k = 0%nat).

Lemma plain_dec e : no_slash e = true -> ~ (e = "" \/ e = ".") -> e <> ".." -> plain e.
Proof. intros Hs Hn Hd. split_and!; [| tauto | done]. split; [tauto | done]. Qed.

Lemma clean_loop_ok r elems : forall out,
  Forall (fun e => no_slash e = true) elems -> clean_ok r out -> clean_ok r (clean_loop r out elems).
Proof.
  induction elems as [| e elems IH]; intros out Hns Hok; [done |]. inversion Hns as [| ? ? He Hns']; subst.
  cbn. destruct (decide (e = "" \/ e = ".")); [by apply IH |].
  destruct Hok as (norm & k & -> & Hnorm & Hk).
  destruct (decide (e = "..")) as [-> | Hd].
  2: { apply IH; [done |]. exists (e :: norm), k. split; [done | split; [| done]]. constructor; [by apply plain_dec | done]. }
  destruct norm as [| top norm]; cbn [app].
  - destruct k as [| k]; cbn [replicate].
    + apply IH; [done |]. exists [], (if r then 0 else 1)%nat. by destruct r.
    + destruct r; [by specialize (Hk eq_refl) |]. destruct (decide (".." = "..")) as [_ |]; [| done].
      apply IH; [done |]. by exists [], (S (S k)).
  - inversion Hnorm as [| ? ? [_ [_ Htop]] Hnorm']; subst.
    destruct (decide (top = "..")); [done |]. apply IH; [done |]. by exists norm, k.
Qed.

Lemma clean_loop_plain r elems : forall out, Forall plain elems -> clean_loop r out elems = rev elems ++ out.
Proof.
  induction elems as [| e elems IH]; intros out Hp; [done |]. inversion Hp as [| ? ? [[He _] [Hd Hdd]] Hp']; subst. cbn.
  destruct (decide (e = "" \/ e = ".")); [tauto |]. destruct (decide (e = "..")); [done |].
  rewrite IH by done. by rewrite <- app_assoc.
Qed.

Lemma clean_loop_dots k j rest :
  clean_loop false (replicate j "..") (replicate k ".." ++ rest) = clean_loop false (replicate (j + k) "..") rest.
Proof.
  assert (Hstep : forall j l, clean_loop false (replicate j "..") (".." :: l) = clean_loop false (replicate (S j) "..") l)
    by (intros [|]; reflexivity).
  revert j. induction k as [| k IH]; intros j; [by rewrite Nat.add_0_r |].
  change (replicate (S k) ".." ++ rest) with (".." :: (replicate k ".." ++ rest)). rewrite Hstep, IH.
  by replace (S j + k)%nat with (j + S k)%nat by lia.
Qed.

Lemma clean_ok_fixed r out : clean_ok r out -> clean_loop r [] (rev out) = out.
Proof.
  intros (norm & k & -> & Hnorm & Hk). rewrite rev_app_distr, <- (rev_involutive norm) at 1.
  assert (Hrep : rev (replicate k "..") = replicate k "..").
  { clear. induction k as [| k IH]; [done |]. cbn. rewrite IH. by rewrite <- replicate_cons_app. }
  rewrite Hrep. assert (Hall : Forall plain (rev norm)) by (by apply Forall_rev).
  destruct r.
  - rewrite (Hk eq_refl). cbn [replicate app]. rewrite !rev_involutive, clean_loop_plain by done.
    by rewrite rev_involutive.
  - rewrite (clean_loop_dots k 0), clean_loop_plain by (by rewrite rev_involutive). by rewrite !rev_involutive.
Qed.

Lemma clean_elems_ok p : clean_ok (rooted p) (rev (clean_elems p)).
Proof.
  unfold clean_elems. rewrite rev_involutive. apply clean_loop_ok; [apply split_no_slash | by exists [], 0%nat].
Qed.

Lemma clean_elems_elem p : Forall elem_ok (clean_elems p).
Proof.
  destruct (clean_elems_ok p) as (norm & k & Hrev & Hnorm & _).
  rewrite <- (rev_involutive (clean_elems p)), Hrev. apply Forall_rev, Forall_app. split.
  - eapply Forall_impl; [exact Hnorm | by intros e [H _]].
  - apply Forall_replicate. by split.
Qed.

Lemma clean_elems_plain p : rooted p = true -> Forall plain (clean_elems p).
Proof.
  intros Hr. destruct (clean_elems_ok p) as (norm & k & Hrev & Hnorm & Hk). rewrite (Hk Hr), app_nil_r in Hrev.
  rewrite <- (rev_involutive (clean_elems p)), Hrev. by apply Forall_rev.
Qed.

Lemma split_concat e elems :
  no_slash e = true -> Forall (fun e => no_slash e = true) elems -> split_slash (String.concat "/" (e :: elems)) = e :: elems.
Proof.
  revert e. induction elems as [| e' elems IH]; intros e He Hall.
  - cbn. destruct (split_cut e e "" (cut_last _ He)) as (_ & _ & H). done.
  - inversion Hall; subst. change (String.concat "/" (e :: e' :: elems)) with (e +:+ String slash (String.concat "/" (e' :: elems))).
    destruct (split_cut _ _ _ (cut_app e (String.concat "/" (e' :: elems)) He)) as (_ & _ & ->). by rewrite IH.
Qed.

Lemma concat_nonempty e elems : elem_ok e -> String.concat "/" (e :: elems) <> "".
Proof. intros [He _]. destruct e as [| c e]; [done |]. by destruct elems. Qed.

Lemma cleanPath_rooted p : rooted (cleanPath p) = rooted p.
Proof.
  unfold cleanPath. destruct (rooted p) eqn:Hr; [done |]. pose proof (clean_elems_elem p) as Hall.
  destruct (clean_elems p) as [| e elems]; [done |]. inversion Hall; subst.
  destruct (decide _) as [Hnil |]; [by apply concat_nonempty in Hnil | by apply rooted_concat].
Qed.

Lemma clean_elems_cleanPath p : clean_elems (cleanPath p) = clean_elems p.
Proof.
  assert (Hfix := clean_ok_fixed _ _ (clean_elems_ok p)). rewrite rev_involutive in Hfix.
  pose proof (clean_elems_elem p) as Hall. unfold clean_elems at 1. rewrite cleanPath_rooted.
  assert (Hsplit : clean_loop (rooted p) [] (split_slash (cleanPath p)) = clean_loop (rooted p) [] (clean_elems p)).
  { unfold cleanPath. destruct (clean_elems p) as [| e elems]; [by destruct (rooted p) |].
    inversion Hall as [| ? ? He Hrest]; subst.
    assert (Hsp : split_slash (String.concat "/" (e :: elems)) = e :: elems).
    { apply split_concat; [apply He |]. eapply Forall_impl; [exact Hrest | by intros x []]. }
    destruct (rooted p).
    - rewrite split_cons, Hsp. done.
    - destruct (decide _) as [Hnil |]; [by apply concat_nonempty in Hnil | by rewrite Hsp]. }
  rewrite Hsplit, Hfix. by rewrite rev_involutive.
Qed.

Lemma cleanPath_idem p : cleanPath (cleanPath p) = cleanPath p.
Proof. unfold cleanPath at 1. by rewrite cleanPath_rooted, clean_elems_cleanPath. Qed.

(** A cleaned absolute path is the path of its elements, or the root. *)
Lemma cleanPath_path_of p :
  rooted p = true -> cleanPath p = match clean_elems p with [] => "/" | _ => path_of (clean_elems p) end.
Proof. unfold cleanPath. intros ->. destruct (clean_elems p) as [| e l]; [done | apply concat_path_of]. Qed.

(** * The trie as a map from patterns *)

Inductive pseg := PLit (s : string) | PWild (name : string).
Definition parse_seg (s : string) : pseg := if is_param s then PWild (param_name s) else PLit s.
Definition parse_pattern (path : string) : list pseg := parse_seg <$> pieces path.

(** Where a pattern leads in the trie: names do not matter. *)
Definition shape (p : pseg) : option string := match p with PLit s => Some s | PWild _ => None end.
Definition seg_name (p : pseg) : string := match p with PLit _ => "" | PWild name => name end.

Section Denotation.
Context {Policy : Type}.
Implicit Types n t : trieNode Policy.

Definition child_at (n : trieNode Policy) (s : option string) : option (trieNode Policy) :=
  match s with Some s => children n !! s | None => wildcard n end.
Definition set_child (n : trieNode Policy) (s : option string) (c : trieNode Policy) : trieNode Policy :=
  match s with Some s => with_child n s c | None => with_wildcard n c end.

(** add on a parsed pattern. *)
Fixpoint add_walk (ms : list string) (leaf : trieLeaf Policy) (pat : list pseg) (n : trieNode Policy) : trieNode Policy :=
  match pat with
  | [] => with_methods n ms leaf
  | p :: pat' => set_child n (shape p) (add_walk ms leaf pat' (default (newNode (seg_name p)) (child_at n (shape p))))
  end.

Fixpoint descend (q : list (option string)) (n : trieNode Policy) : option (trieNode Policy) :=
  match q with [] => Some n | s :: q' => c ← child_at n s; descend q' c end.

Lemma child_set_eq n s c : child_at (set_child n s c) s = Some c.
Proof. destruct s; cbn; [apply lookup_insert_eq | done]. Qed.

Lemma child_set_ne n s s' c : s <> s' -> child_at (set_child n s c) s' = child_at n s'.
Proof. destruct s, s'; cbn; try done. intros H. apply lookup_insert_ne. congruence. Qed.

Lemma set_child_node n s c : wildName (set_child n s c) = wildName n /\ methods (set_child n s c) = methods n.
Proof. by destruct s. Qed.

Lemma add_loop_pattern ms leaf fuel : forall path n, (String.length path < fuel)%nat ->
  add_loop fuel ms leaf path n = Some (add_walk ms leaf (parse_pattern path) n).
Proof.
  induction fuel as [| fuel IH]; intros path n Hf; [lia |]. destruct path as [| c path]; [done |].
  cbn [add_loop]. unfold parse_pattern, pieces. destruct (Ascii.eqb c slash) eqn:Hc.
  { rewrite split_cons, Hc, IH by (cbn in Hf; lia). done. }
  destruct (index_cut (String c path)) as [seg rest] eqn:Hcut.
  assert (Hne : seg <> "").
  { cbn in Hcut. rewrite Hc in Hcut. destruct (index_cut path). by injection Hcut as <- <-. }
  destruct (split_cut _ _ _ Hcut) as (Hpath & Hns & ->). rewrite Hpath, length_app_string in Hf.
  assert (Hlen : (0 < String.length seg)%nat) by (destruct seg; cbn; [done | lia]).
  destruct (decide (seg = "")) as [| _]; [done |].
  assert (Hrest : parse_pattern rest = parse_seg <$> filter (fun e : string => e <> "")
                    match rest with EmptyString => [] | String _ b' => split_slash b' end).
  { unfold parse_pattern, pieces. clear -Hcut. destruct rest as [| d rest]; [done |]. rewrite split_cons.
    assert (Hd : Ascii.eqb d slash = true); [| by rewrite Hd].
    revert seg Hcut. generalize (String c path) as s. induction s as [| x s IHs]; intros seg; cbn; [done |].
    destruct (Ascii.eqb x slash) eqn:Hx; [by intros [= <- <- _] |].
    destruct (index_cut s) as [a b] eqn:Hs. intros [= <- ->]. by eapply IHs. }
  rewrite filter_cons_True by done. rewrite fmap_cons, <- Hrest. unfold parse_seg at 1.
  destruct (is_param seg); rewrite IH by lia; done.
Qed.

Lemma add_pattern t ms path p attrs pool op :
  add t ms path p attrs pool op = Some (add_walk ms (MkLeaf p op attrs pool) (parse_pattern path) t).
Proof. apply add_loop_pattern. lia. Qed.

(** The node a pattern prefix leads to once the pattern is added. *)
Definition fresh (pat : list pseg) (n : trieNode Policy) : trieNode Policy :=
  match last pat with Some p => newNode (seg_name p) | None => n end.

Lemma descend_new name q : q <> [] -> descend q (newNode name : trieNode Policy) = None.
Proof. by destruct q as [| [s |] q]. Qed.

Lemma descend_add_prefix ms leaf pre post : forall n,
  descend (shape <$> pre) (add_walk ms leaf (pre ++ post) n) =
    Some (add_walk ms leaf post (default (fresh pre n) (descend (shape <$> pre) n))).
Proof.
  induction pre as [| p pre IH]; intros n; [done |]. cbn [app add_walk fmap list_fmap descend].
  rewrite child_set_eq. cbn [mbind option_bind]. change (list_fmap _ _ shape pre) with (shape <$> pre). rewrite IH.
  do 2 f_equal. destruct (child_at n (shape p)) as [c |]; cbn [default mbind option_bind from_option]; unfold id.
  - destruct (descend (shape <$> pre) c) eqn:Hd; [done |]. unfold fresh. rewrite last_cons.
    destruct pre as [| p' pre]; [done |]. by destruct (last (p' :: pre)) eqn:Hl; [| apply last_None in Hl].
  - unfold fresh. rewrite last_cons. destruct pre as [| p' pre]; [done |].
    rewrite descend_new by done. cbn. by destruct (last (p' :: pre)) eqn:Hl; [| apply last_None in Hl].
Qed.

Lemma descend_add_other ms leaf pat : forall q n,
  ~ q `prefix_of` (shape <$> pat) -> descend q (add_walk ms leaf pat n) = descend q n.
Proof.
  induction pat as [| p pat IH]; intros [| s q] n Hq; try (destruct Hq; apply prefix_nil).
  - done.
  - cbn [add_walk descend]. destruct (decide (s = shape p)) as [-> | Hne].
    + rewrite child_set_eq. cbn [mbind option_bind]. rewrite IH.
      2: { intros [k Hk]. destruct Hq. exists k. cbn. by rewrite Hk. }
      destruct (child_at n (shape p)); [done |]. cbn [default from_option mbind option_bind]. apply descend_new.
      intros ->. destruct Hq. exists (shape <$> pat). done.
    + by rewrite child_set_ne by congruence.
Qed.
End Denotation.

(** * The specification: a list of routes *)

(** A registered route. *)
Record reg {Policy : Type} := MkReg { g_method : string; g_pat : list pseg; g_leaf : trieLeaf Policy }.
Arguments reg : clear implicits.

Section Spec.
Context {Policy : Type}.
Implicit Types (g : reg Policy) (regs : list (reg Policy)) (t n : trieNode Policy).

Definition parse_route (r : RouteMux Policy) : option (reg Policy) :=
  match r_policy r, splitMuxPattern (r_pattern r) with
  | Some p, inl (method, path) =>
    Some (MkReg _ method (parse_pattern path) (MkLeaf p (r_operationID r) (r_attrs r) (r_poolName r)))
  | _, _ => None
  end.

(** Some route goes through [q]. *)
Definition goes_through (q : list (option string)) (g : reg Policy) : bool :=
  bool_decide (q `prefix_of` (shape <$> g_pat g)).
Definition registered regs (q : list (option string)) : bool := existsb (goes_through q) regs.

(** The name its wildcard has: the first route through [q] gave it. *)
Definition name_of regs (q : list (option string)) : string :=
  match List.find (goes_through q) regs with
  | Some g => default "" (seg_name <$> g_pat g !! (length q - 1)%nat)
  | None => ""
  end.

(** The leaf of the last route with this method and pattern. *)
Definition leaf_of regs (method : string) (q : list (option string)) : option (trieLeaf Policy) :=
  foldl (fun found g => if decide (g_method g = method /\ shape <$> g_pat g = q) then Some (g_leaf g) else found) None regs.

(** Resolve the elements of a request path from pattern prefix [q] on: a
    route with this very literal goes first, else one with a wildcard here,
    else nothing; there is no way back. *)
Fixpoint resolve regs (q : list (option string)) (pos : nat) (elems : list string) (o : offsets)
    : option (list (option string) * offsets) :=
  match elems with
  | [] => Some (q, o)
  | e :: elems' =>
    let segEnd := (pos + 1 + String.length e)%nat in
    if registered regs (q ++ [Some e]) then resolve regs (q ++ [Some e]) segEnd elems' o
    else if registered regs (q ++ [None])
         then resolve regs (q ++ [None]) segEnd elems' (record_offsets (name_of regs (q ++ [None])) (pos + 1) segEnd o)
         else None
  end.

Definition system_path (elems : list string) : bool :=
  match elems with String c _ :: _ => Ascii.eqb c "_" | _ => false end.

Definition match_spec regs (method path : string) : option (trieMatch Policy) :=
  if rooted path then
    '(q, o) ← resolve regs [] 0 (clean_elems path) (MkOffsets (0, 0) (0, 0))%nat;
    leaf ← leaf_of regs method q;
    Some (MkMatch leaf (o_index o).1 (o_index o).2 (o_doc o).1 (o_doc o).2 (system_path (clean_elems path)))
  else None.

(** * The trie implements it *)

Definition trie_of regs : trieNode Policy :=
  foldl (fun t g => add_walk [g_method g] (g_leaf g) (g_pat g) t) emptyTrie regs.

Lemma add_route_parse t r :
  add_route t r = (fun g => add_walk [g_method g] (g_leaf g) (g_pat g) t) <$> parse_route r.
Proof.
  unfold add_route, parse_route. destruct (r_policy r), (splitMuxPattern (r_pattern r)) as [[method path] |]; try done.
  by rewrite add_pattern.
Qed.

Lemma build_trie_parse routes : build_trie routes = trie_of <$> mapM parse_route routes.
Proof.
  unfold build_trie, trie_of. generalize (emptyTrie : trieNode Policy) as t0.
  assert (Hnone : forall l, foldl (fun ot r => t ← ot; @add_route Policy t r) None l = None) by (by induction l).
  induction routes as [| r routes IH]; intros t0; [done |]. cbn [foldl mapM mbind option_bind].
  rewrite add_route_parse. destruct (parse_route r) as [g |]; [| by rewrite Hnone].
  cbn [fmap option_fmap option_map]. rewrite IH. by destruct (mapM parse_route routes).
Qed.

Lemma registered_snoc regs g q : registered (regs ++ [g]) q = registered regs q || goes_through q g.
Proof. unfold registered. rewrite existsb_app. cbn. by rewrite orb_false_r. Qed.

Lemma trie_of_snoc regs g : trie_of (regs ++ [g]) = add_walk [g_method g] (g_leaf g) (g_pat g) (trie_of regs).
Proof. unfold trie_of. by rewrite foldl_app. Qed.

Lemma leaf_of_snoc regs g method q :
  leaf_of (regs ++ [g]) method q =
    if decide (g_method g = method /\ shape <$> g_pat g = q) then Some (g_leaf g) else leaf_of regs method q.
Proof. unfold leaf_of. by rewrite foldl_app. Qed.

Lemma name_of_snoc regs g q :
  name_of (regs ++ [g]) q = if registered regs q then name_of regs q
    else if goes_through q g then default "" (seg_name <$> g_pat g !! (length q - 1)%nat) else "".
Proof.
  unfold name_of, registered. induction regs as [| g' regs IH]; cbn; [by destruct (goes_through q g) |].
  by destruct (goes_through q g').
Qed.

(** What the trie holds at a pattern. *)
Definition holds regs (q : list (option string)) (o : option (trieNode Policy)) : Prop :=
  match o with
  | Some n => (q = [] \/ registered regs q = true) /\ (q <> [] -> wildName n = name_of regs q) /\
              forall method, methods n !! method = leaf_of regs method q
  | None => q <> [] /\ registered regs q = false
  end.

Lemma leaf_of_none regs method q : registered regs q = false -> leaf_of regs method q = None.
Proof.
  induction regs as [| g regs IH] using rev_ind; [done |]. rewrite registered_snoc, leaf_of_snoc.
  intros [Hr Hg]%orb_false_iff. rewrite decide_False by
    (intros [_ <-]; unfold goes_through in Hg; by rewrite bool_decide_eq_true_2 in Hg). by apply IH.
Qed.

Lemma add_walk_node ms leaf pat n : wildName (add_walk ms leaf pat n) = wildName n.
Proof. destruct pat as [| p pat]; [done |]. cbn. apply set_child_node. Qed.

Lemma add_walk_methods m leaf pat n method :
  methods (add_walk [m] leaf pat n) !! method = if decide (m = method /\ pat = []) then Some leaf else methods n !! method.
Proof.
  destruct pat as [| p pat].
  - cbn. destruct (decide (m = method)) as [-> | Hm].
    + rewrite lookup_insert_eq. by rewrite decide_True.
    + rewrite lookup_insert_ne by done. rewrite decide_False by tauto. done.
  - cbn. rewrite decide_False by (by intros [_ ?]). by destruct (set_child_node n (shape p) (add_walk [m] leaf pat (default (newNode (seg_name p)) (child_at n (shape p))))) as [_ ->].
Qed.

Lemma trie_of_holds regs q : holds regs q (descend q (trie_of regs)).
Proof.
  revert q. induction regs as [| g regs IH] using rev_ind; intros q.
  { change (trie_of []) with (newNode "" : trieNode Policy). destruct q as [| s q]; [by split_and!; [left | ..] |]. rewrite descend_new by done. done. }
  rewrite trie_of_snoc. specialize (IH q). destruct (decide (q `prefix_of` (shape <$> g_pat g))) as [Hp | Hp].
  - assert (exists pre post, g_pat g = pre ++ post /\ q = shape <$> pre) as (pre & post & Hpat & ->).
    { destruct Hp as [k Hk]. apply fmap_app_inv in Hk as (pre & post & -> & -> & ->). by exists pre, post. }
    assert (Hthrough : goes_through (shape <$> pre) g = true) by (by apply bool_decide_eq_true).
    assert (Hmeth : forall n, (forall method, methods n !! method = leaf_of regs method (shape <$> pre)) ->
      forall method, methods (add_walk [g_method g] (g_leaf g) post n) !! method = leaf_of (regs ++ [g]) method (shape <$> pre)).
    { intros n Hn method. rewrite add_walk_methods, leaf_of_snoc, Hn, Hpat, fmap_app.
      assert (Hnil : post = [] <-> (shape <$> pre) ++ (shape <$> post) = shape <$> pre).
      { split; [intros -> ; by rewrite app_nil_r |]. intros H. apply (f_equal length) in H.
        rewrite length_app, !length_fmap in H. destruct post; [done | cbn in H; lia]. }
      destruct (decide (g_method g = method /\ post = [])), (decide (g_method g = method /\ (shape <$> pre) ++ (shape <$> post) = shape <$> pre)); tauto. }
    rewrite Hpat, descend_add_prefix. cbn [holds]. rewrite registered_snoc, Hthrough, orb_true_r.
    split; [by right |]. rewrite add_walk_node.
    destruct (descend (shape <$> pre) (trie_of regs)) as [n |]; cbn [holds] in IH; cbn [default from_option]; unfold id.
    + destruct IH as (Hr & Hname & Hm). split; [| by apply Hmeth].
      intros Hne. rewrite name_of_snoc, Hname by done. destruct Hr as [? | ->]; done.
    + destruct IH as (Hne & Hr). assert (Hlast : exists p, last pre = Some p) by (apply last_is_Some; by intros ->).
      destruct Hlast as [p Hlast]. unfold fresh. rewrite Hlast. split.
      * intros _. rewrite name_of_snoc, Hr, Hthrough, Hpat, length_fmap.
        rewrite last_lookup in Hlast. rewrite lookup_app_l by (apply lookup_lt_Some in Hlast; lia).
        replace (length pre - 1)%nat with (pred (length pre)) by lia. by rewrite Hlast.
      * apply Hmeth. intros method. rewrite leaf_of_none by done. apply lookup_empty.
  - rewrite descend_add_other by done. assert (Hg : goes_through q g = false) by (by apply bool_decide_eq_false).
    unfold holds in *. rewrite registered_snoc, Hg, orb_false_r. destruct (descend q (trie_of regs)) as [n |]; [| done].
    destruct IH as (Hr & Hname & Hm). split; [done |]. split.
    + intros Hne. rewrite name_of_snoc, Hname by done. by destruct Hr as [? | ->].
    + intros method. rewrite leaf_of_snoc, decide_False by (intros [_ <-]; by destruct Hp). apply Hm.
Qed.

(** The loop of match over a cleaned path is a walk over its elements. *)
Fixpoint walk (n : trieNode Policy) (pos : nat) (elems : list string) (o : offsets) : option (trieNode Policy * offsets) :=
  match elems with
  | [] => Some (n, o)
  | e :: elems' =>
    let segEnd := (pos + 1 + String.length e)%nat in
    match children n !! e with
    | Some child => walk child segEnd elems' o
    | None =>
      match wildcard n with
      | Some child => walk child segEnd elems' (record_offsets (wildName child) (pos + 1) segEnd o)
      | None => None
      end
    end
  end.

Lemma match_loop_walk elems : forall fuel pos n atRoot o,
  Forall elem_ok elems -> (String.length (path_of elems) < fuel)%nat ->
  match_loop fuel pos (path_of elems) n atRoot o =
    (fun r => (r.1, atRoot && bool_decide (elems = []), r.2)) <$> walk n pos elems o.
Proof.
  induction elems as [| e elems IH]; intros fuel pos n atRoot o Hall Hf.
  { destruct fuel; [lia |]. cbn. by rewrite andb_true_r. }
  inversion Hall as [| ? ? [Hne Hns] Hall']; subst. cbn [path_of foldr] in *.
  change (foldr _ "" elems) with (path_of elems) in *. cbn in Hf. rewrite length_app_string in Hf.
  destruct e as [| c e]; [done |]. cbn in Hns. apply andb_prop in Hns as [Hc Hns].
  destruct fuel as [| [| fuel]]; [lia .. |]. cbn [match_loop]. rewrite Ascii.eqb_refl.
  change (String c e +:+ path_of elems) with (String c (e +:+ path_of elems)).
  destruct (Ascii.eqb c slash) eqn:Hcs; [done |].
  pose proof (cut_path_of (String c e) elems) as Hcut. cbn [no_slash] in Hcut. rewrite Hcs, Hns in Hcut.
  change (String c e +:+ path_of elems) with (String c (e +:+ path_of elems)) in Hcut. rewrite (Hcut eq_refl).
  destruct (decide (String c e = "")) as [|_]; [done |]. cbn in Hf.
  rewrite bool_decide_eq_false_2, andb_false_r by done. rewrite Hcs. cbn [walk].
  destruct (children n !! String c e) as [child |]; [| destruct (wildcard n) as [child |]; [| done]];
    rewrite IH by (done || cbn in *; lia); by destruct (walk _ _ _ _) as [[] |].
Qed.

Lemma descend_app q q' n : descend (q ++ q') n = c ← descend q n; descend q' c.
Proof.
  revert n. induction q as [| s q IH]; intros n; [done |]. cbn. destruct (child_at n s); [apply IH | done].
Qed.

Lemma child_registered regs q n s :
  descend q (trie_of regs) = Some n -> is_Some (child_at n s) <-> registered regs (q ++ [s]) = true.
Proof.
  intros Hd. pose proof (trie_of_holds regs (q ++ [s])) as Hh. rewrite descend_app, Hd in Hh. cbn in Hh.
  destruct (child_at n s) as [c |]; cbn in Hh.
  - destruct Hh as [[Hnil | Hr] _]; [by destruct q | by split].
  - destruct Hh as [_ Hr]. rewrite Hr. split; [by intros [] | done].
Qed.

Lemma walk_resolve regs elems : forall q n pos o,
  descend q (trie_of regs) = Some n ->
  walk n pos elems o = '(q', o') ← resolve regs q pos elems o; n' ← descend q' (trie_of regs); Some (n', o').
Proof.
  induction elems as [| e elems IH]; intros q n pos o Hd; [cbn; by rewrite Hd |]. cbn [walk resolve].
  pose proof (child_registered regs q n (Some e) Hd) as Hlit. pose proof (child_registered regs q n None Hd) as Hwild.
  pose proof (trie_of_holds regs (q ++ [None])) as Hh. rewrite descend_app, Hd in Hh. cbn in Hlit, Hwild, Hh.
  destruct (children n !! e) as [c |] eqn:Hc.
  - rewrite (proj1 Hlit) by done. apply IH. rewrite descend_app, Hd. cbn. by rewrite Hc.
  - destruct (registered regs (q ++ [Some e])); [by destruct (proj2 Hlit eq_refl) |].
    destruct (wildcard n) as [c |] eqn:Hw.
    + rewrite (proj1 Hwild) by done. cbn in Hh. destruct Hh as (_ & Hname & _). rewrite Hname by (by destruct q).
      apply IH. rewrite descend_app, Hd. cbn. by rewrite Hw.
    + destruct (registered regs (q ++ [None])); [by destruct (proj2 Hwild eq_refl) | done].
Qed.

Lemma resolve_descends regs elems : forall q pos o q' o',
  (q = [] \/ registered regs q = true) -> resolve regs q pos elems o = Some (q', o') ->
  (q' = [] \/ registered regs q' = true).
Proof.
  induction elems as [| e elems IH]; intros q pos o q' o' Hq; cbn; [by intros [= <- <-] |].
  destruct (registered regs (q ++ [Some e])) eqn:Hl; [apply IH; by right |].
  destruct (registered regs (q ++ [None])) eqn:Hw; [apply IH; by right | done].
Qed.

Lemma sys_path_of elems :
  Forall elem_ok elems -> match path_of elems with String _ (String c _) => Ascii.eqb c "_" | _ => false end = system_path elems.
Proof. destruct elems as [| [| c e] elems]; [done | | done]. by intros [[]]%Forall_cons. Qed.

Lemma path_of_root elems : Forall elem_ok elems -> path_of elems <> "/".
Proof. destruct elems as [| [| c e] elems]; [done | | done]. by intros [[]]%Forall_cons. Qed.

Lemma match_route_trie_of regs method path : match_route (trie_of regs) method path = match_spec regs method path.
Proof.
  unfold match_route, match_spec. rewrite cleanPath_rooted. destruct (rooted path) eqn:Hr; [| done]. cbn [negb].
  rewrite (cleanPath_path_of _ Hr). pose proof (clean_elems_elem path) as Hall.
  set (elems := clean_elems path) in *. clearbody elems.
  assert (Hbody : forall p o0, p = match elems with [] => "/" | _ => path_of elems end ->
    ('(node, atRoot, o) ← match_loop (S (String.length p)) 0 p (trie_of regs) true o0;
      if (atRoot : bool) && negb (bool_decide (p = "/")) then None else Some (node, o)) =
    walk (trie_of regs) 0 elems o0).
  { intros p o0 ->. destruct elems as [| e elems]; [done |].
    rewrite match_loop_walk by (done || lia). rewrite (bool_decide_eq_false_2 (e :: elems = [])) by done.
    by destruct (walk _ _ _ _) as [[] |]. }
  assert (Hsys : match match elems with [] => "/" | _ => path_of elems end with String _ (String c _) => Ascii.eqb c "_" | _ => false end
                 = system_path elems) by (destruct elems; [done | by apply sys_path_of]).
  set (p := match elems with [] => "/" | _ => path_of elems end) in *. rewrite Hsys. specialize (Hbody p (MkOffsets (0, 0) (0, 0))%nat eq_refl).
  rewrite (walk_resolve regs elems [] _ 0%nat _ eq_refl) in Hbody.
  pose proof (resolve_descends regs elems [] 0%nat (MkOffsets (0, 0) (0, 0))%nat) as Hdesc.
  destruct (match_loop _ _ _ _ _ _) as [[[node atRoot] o] |]; cbn [mbind option_bind] in Hbody |- *.
  - destruct (atRoot && negb (bool_decide (p = "/"))); destruct (resolve _ _ _ _ _) as [[q o'] |]; cbn [mbind option_bind] in Hbody |- *; try done.
    + specialize (Hdesc q o' (or_introl eq_refl) eq_refl). pose proof (trie_of_holds regs q) as Hh.
      destruct (descend q (trie_of regs)); [done |]. cbn in Hh. destruct Hh as [? ?], Hdesc; congruence.
    + pose proof (trie_of_holds regs q) as Hh. destruct (descend q (trie_of regs)) as [n |]; [| done].
      cbn [mbind option_bind] in Hbody. injection Hbody as <- <-. destruct Hh as (_ & _ & Hm). rewrite Hm. by destruct o.
  - destruct (resolve _ _ _ _ _) as [[q o'] |]; cbn [mbind option_bind] in Hbody |- *; [| done].
    specialize (Hdesc q o' (or_introl eq_refl) eq_refl). pose proof (trie_of_holds regs q) as Hh.
    destruct (descend q (trie_of regs)); [done |]. cbn in Hh. destruct Hh as [? ?], Hdesc; congruence.
Qed.

(** * What a match says *)

(** Element [e] of a path fits segment [p] of a pattern. *)
Definition fits (p : pseg) (e : string) : Prop := match p with PLit s => s = e | PWild _ => True end.

Definition fits_shape (s : option string) (e : string) : Prop := match s with Some s => s = e | None => True end.

(** Element [j] was matched by a wildcard called [name]. *)
Definition wild_at regs (q : list (option string)) (j : nat) (name : string) : Prop :=
  q !! j = Some None /\ name_of regs (take (S j) q) = name.

Definition off (name : string) (o : offsets) : nat * nat := if decide (name = "index") then o_index o else o_doc o.

(** The offsets of [name] cut out of the path the last element matched by a
    wildcard of that name, and are zero when there is none. *)
Definition captures regs (path : string) (q : list (option string)) (elems : list string) (name : string) (r : nat * nat) : Prop :=
  (exists i e, wild_at regs q i name /\ elems !! i = Some e /\ String.substring r.1 (r.2 - r.1) path = e /\
     forall j, (i < j)%nat -> ~ wild_at regs q j name) \/
  (r = (0, 0)%nat /\ forall j, ~ wild_at regs q j name).

Lemma substring_here e rest : String.substring 0 (String.length e) (e +:+ rest) = e.
Proof.
  induction e as [| c e IH]; [by destruct rest |].
  change (String c e +:+ rest) with (String c (e +:+ rest)). cbn. by rewrite IH.
Qed.

Lemma substring_skip pre len s : String.substring (String.length pre) len (pre +:+ s) = String.substring 0 len s.
Proof. induction pre as [| c pre IH]; [done |]. change (String c pre +:+ s) with (String c (pre +:+ s)). apply IH. Qed.

Lemma substring_elem pre e rest :
  String.substring (String.length pre + 1) (String.length e) (pre +:+ String slash (e +:+ rest)) = e.
Proof.
  assert (Hre : pre +:+ String slash (e +:+ rest) = (pre +:+ "/") +:+ (e +:+ rest)).
  { clear. induction pre as [| c pre IH]; [done |]. change (String c (pre +:+ String slash (e +:+ rest)) = String c ((pre +:+ "/") +:+ e +:+ rest)). by rewrite IH. }
  rewrite Hre. replace (String.length pre + 1)%nat with (String.length (pre +:+ "/")) by (by rewrite length_app_string).
  rewrite substring_skip. apply substring_here.
Qed.

Lemma off_record name name' a b o :
  name = "index" \/ name = "id" -> off name (record_offsets name' a b o) = if decide (name' = name) then (a, b) else off name o.
Proof.
  unfold off, record_offsets. intros [-> | ->]; repeat case_decide; subst; try done; cbn.
Qed.

Lemma resolve_captures regs name path elems : name = "index" \/ name = "id" -> forall q pre o q' o',
  path = pre +:+ path_of elems ->
  resolve regs q (String.length pre) elems o = Some (q', o') ->
  exists q2, q' = q ++ q2 /\ Forall2 fits_shape q2 elems /\
    ((exists i e, wild_at regs q' (length q + i) name /\ elems !! i = Some e /\
        String.substring (off name o').1 ((off name o').2 - (off name o').1) path = e /\
        forall j, (length q + i < j)%nat -> ~ wild_at regs q' j name) \/
     (off name o' = off name o /\ forall j, (length q <= j)%nat -> ~ wild_at regs q' j name)).
Proof.
  intros Hname. induction elems as [| e elems IH]; intros q pre o q' o' Hpath; cbn [resolve].
  { intros [= <- <-]. exists []. rewrite app_nil_r. split; [done |]. split; [done |]. right. split; [done |].
    intros j Hj [Hl _]. apply lookup_lt_Some in Hl. lia. }
  assert (Hpath' : path = (pre +:+ String slash e) +:+ path_of elems).
  { rewrite Hpath. change (path_of (e :: elems)) with (String slash (e +:+ path_of elems)). clear. induction pre as [| c pre IHp]; [done |].
    change (String c (pre +:+ String slash (e +:+ path_of elems)) = String c ((pre +:+ String slash e) +:+ path_of elems)). by rewrite IHp. }
  assert (Hlen : (String.length pre + 1 + String.length e)%nat = String.length (pre +:+ String slash e)).
  { rewrite length_app_string. cbn. lia. }
  rewrite Hlen.
  assert (Hgo : forall s o1, fits_shape s e -> resolve regs (q ++ [s]) (String.length (pre +:+ String slash e)) elems o1 = Some (q', o') ->
    (s = None /\ name_of regs (q ++ [None]) = name /\ off name o1 = ((String.length pre + 1)%nat, String.length (pre +:+ String slash e)) \/
     (~ (s = None /\ name_of regs (q ++ [None]) = name) /\ off name o1 = off name o)) ->
    exists q2, q' = q ++ q2 /\ Forall2 fits_shape q2 (e :: elems) /\
    ((exists i e0, wild_at regs q' (length q + i) name /\ (e :: elems) !! i = Some e0 /\
        String.substring (off name o').1 ((off name o').2 - (off name o').1) path = e0 /\
        forall j, (length q + i < j)%nat -> ~ wild_at regs q' j name) \/
     (off name o' = off name o /\ forall j, (length q <= j)%nat -> ~ wild_at regs q' j name))).
  { intros s o1 Hfit Hres Hoff. destruct (IH _ _ _ _ _ Hpath' Hres) as (q2 & -> & Hfits & Hcap).
    rewrite length_app in Hcap. cbn [length] in Hcap. rewrite <- app_assoc in *. cbn [app] in *.
    assert (Hhere : wild_at regs (q ++ s :: q2) (length q) name <-> s = None /\ name_of regs (q ++ [None]) = name).
    { unfold wild_at. rewrite lookup_app_r, Nat.sub_diag by lia. cbn.
      rewrite take_app_ge, Nat.sub_succ_l, Nat.sub_diag by lia. cbn. split; [intros [[= ->] H] | intros [-> H]]; done. }
    exists (s :: q2). split; [done |]. split; [by constructor |].
    destruct Hcap as [(i & e0 & Hw & Hl & Hsub & Hlater) | [Heq Hnone]].
    - left. exists (S i), e0. replace (length q + S i)%nat with (length q + 1 + i)%nat by lia. done.
    - destruct Hoff as [(-> & Hn & Ho1) | [Hno Ho1]].
      + left. exists 0%nat, e. rewrite Nat.add_0_r. split; [by apply Hhere |]. split; [done |]. split.
        * rewrite Heq, Ho1. cbn [fst snd]. rewrite <- Hlen.
          replace (String.length pre + 1 + String.length e - (String.length pre + 1))%nat with (String.length e) by lia.
          rewrite Hpath. apply substring_elem.
        * intros j Hj. apply Hnone. lia.
      + right. split; [by rewrite Heq, Ho1 |]. intros j Hj. destruct (decide (j = length q)) as [-> | Hne]; [by rewrite Hhere |].
        apply Hnone. lia. }
  destruct (registered regs (q ++ [Some e])).
  - intros Hres. eapply Hgo; [| exact Hres |]; [done |]. right. split; [by intros [] | done].
  - destruct (registered regs (q ++ [None])); [| done]. intros Hres. eapply Hgo; [| exact Hres |]; [done |].
    rewrite off_record by done. destruct (decide (name_of regs (q ++ [None]) = name)) as [Hn | Hn].
    + left. split; [done |]. split; [done |]. by rewrite <- Hlen.
    + right. split; [by intros [_ ?] | done].
Qed.

Lemma leaf_of_some regs method q leaf :
  leaf_of regs method q = Some leaf -> exists g, g ∈ regs /\ g_method g = method /\ shape <$> g_pat g = q /\ g_leaf g = leaf.
Proof.
  induction regs as [| g regs IH] using rev_ind; [done |]. rewrite leaf_of_snoc. case_decide as Hg.
  - intros [= <-]. exists g. split; [set_solver | tauto].
  - intros H. destruct (IH H) as (g' & Hin & Hg'). exists g'. split; [set_solver | done].
Qed.

Lemma fits_shape_pat pat elems : Forall2 fits_shape (shape <$> pat) elems <-> Forall2 fits pat elems.
Proof. rewrite Forall2_fmap_l. split; intros H; (eapply Forall2_impl; [exact H | by intros [|]]). Qed.

(** No other route has [e]'s literal where pattern [q] has a wildcard: what
    keeps the greedy walk on [q]. *)
Definition unshadowed regs (q : list (option string)) (elems : list string) : Prop :=
  forall i e, q !! i = Some None -> elems !! i = Some e -> registered regs (take i q ++ [Some e]) = false.

Lemma registered_prefix regs g q k : g ∈ regs -> shape <$> g_pat g = q ++ k -> registered regs q = true.
Proof.
  intros Hin Hq. unfold registered. apply existsb_exists. exists g. split; [by apply list_elem_of_In |].
  apply bool_decide_eq_true. exists k. done.
Qed.

Lemma resolve_unshadowed regs g elems : g ∈ regs -> forall rest q pos o,
  shape <$> g_pat g = q ++ rest -> Forall2 fits_shape rest elems ->
  (forall i e, rest !! i = Some None -> elems !! i = Some e -> registered regs (q ++ take i rest ++ [Some e]) = false) ->
  fst <$> resolve regs q pos elems o = Some (q ++ rest).
Proof.
  intros Hin rest q pos o Hq Hfits. revert q pos o Hq.
  induction Hfits as [| s e rest elems Hse Hfits IH]; intros q pos o Hq Hun; [cbn; by rewrite app_nil_r |].
  assert (Hreg : registered regs (q ++ [s]) = true).
  { apply (registered_prefix _ g _ rest); [done |]. by rewrite Hq, <- app_assoc. }
  assert (Hun' : forall i e, rest !! i = Some None -> elems !! i = Some e ->
    registered regs ((q ++ [s]) ++ take i rest ++ [Some e]) = false).
  { intros i e' Hi He. rewrite <- app_assoc. apply (Hun (S i) e' Hi He). }
  assert (Hq' : shape <$> g_pat g = (q ++ [s]) ++ rest) by (by rewrite <- app_assoc).
  cbn [resolve]. destruct s as [s |].
  - cbn in Hse. subst s. rewrite Hreg. rewrite IH by done. by rewrite <- app_assoc.
  - specialize (Hun 0%nat e eq_refl eq_refl). cbn in Hun. rewrite Hun, Hreg, IH by done. by rewrite <- app_assoc.
Qed.

Lemma match_spec_reaches regs g method path leaf :
  g ∈ regs -> rooted path = true -> Forall2 fits (g_pat g) (clean_elems path) ->
  unshadowed regs (shape <$> g_pat g) (clean_elems path) ->
  leaf_of regs method (shape <$> g_pat g) = Some leaf ->
  m_leaf <$> match_spec regs method path = Some leaf.
Proof.
  intros Hin Hr Hfits Hun Hleaf. unfold match_spec. rewrite Hr.
  pose proof (resolve_unshadowed regs g (clean_elems path) Hin (shape <$> g_pat g) [] 0%nat (MkOffsets (0, 0) (0, 0))%nat
    eq_refl (proj2 (fits_shape_pat _ _) Hfits) Hun) as Hres.
  destruct (resolve _ _ _ _ _) as [[q o] |]; [| done]. cbn in Hres |- *. injection Hres as ->. by rewrite Hleaf.
Qed.

(** C15: The trie implements the list of routes it was built from. Building
    succeeds exactly when every route's policy and pattern are valid; then a
    lookup resolves the elements of the cleaned path one by one over the
    routes, a route with that literal before a route with a wildcard and
    without coming back, and answers with the last route registered with
    that method and pattern. The lookup of a cleaned path is the same. *)
Theorem trie_implements_routes (routes : list (RouteMux Policy)) :
  match mapM parse_route routes with
  | Some regs =>
    exists t, build_trie routes = Some t /\
      forall method path, match_route t method path = match_spec regs method path /\
        match_route t method (cleanPath path) = match_route t method path
  | None => build_trie routes = None
  end.
Proof.
  rewrite build_trie_parse. destruct (mapM parse_route routes) as [regs |]; [| done].
  exists (trie_of regs). split; [done |]. intros method path. split; [apply match_route_trie_of |].
  unfold match_route. by rewrite cleanPath_idem.
Qed.

(** A match is right. A lookup that answers found a registered route with
    this method whose pattern fits the cleaned path element by element, and
    its policy, operation, attributes and pool are that route's; the path is
    absolute; and the offsets recorded for the index and for the document
    identifier cut out of the cleaned path the last element matched by a
    wildcard of that name, and are zero if there is none. *)
Theorem match_sound (routes : list (RouteMux Policy)) t method path r :
  build_trie routes = Some t -> match_route t method path = Some r ->
  exists regs g q, mapM parse_route routes = Some regs /\ g ∈ regs /\ g_method g = method /\ shape <$> g_pat g = q /\
    g_leaf g = m_leaf r /\ rooted path = true /\ Forall2 fits (g_pat g) (clean_elems path) /\
    captures regs (cleanPath path) q (clean_elems path) "index" (indexStart r, indexEnd r) /\
    captures regs (cleanPath path) q (clean_elems path) "id" (docStart r, docEnd r).
Proof.
  rewrite build_trie_parse. destruct (mapM parse_route routes) as [regs |]; [| done]. intros [= <-].
  rewrite match_route_trie_of. unfold match_spec. destruct (rooted path) eqn:Hr; [| done].
  destruct (resolve _ _ _ _ _) as [[q o] |] eqn:Hres; [| done]. cbn.
  destruct (leaf_of regs method q) as [leaf |] eqn:Hleaf; [| done]. intros [= <-]. cbn.
  destruct (leaf_of_some _ _ _ _ Hleaf) as (g & Hin & Hm & Hq & Hl).
  exists regs, g, q. do 6 (split; [done |]).
  assert (Hcap : forall name, name = "index" \/ name = "id" ->
    Forall2 fits_shape q (clean_elems path) /\ captures regs (cleanPath path) q (clean_elems path) name (off name o)).
  { intros name Hname. unfold captures. destruct (clean_elems path) as [| e elems] eqn:Helems.
    - cbn in Hres. injection Hres as <- <-. split; [done |]. right. split; [by destruct Hname as [-> | ->] | by intros j [? _]].
    - assert (Hpath : cleanPath path = "" +:+ path_of (e :: elems)) by (by rewrite cleanPath_path_of, Helems by done).
      destruct (resolve_captures regs name _ _ Hname [] "" _ q o Hpath Hres) as (q2 & -> & Hfits & Hc). cbn [app length] in Hc |- *.
      split; [done |]. destruct Hc as [(i & e0 & H) | [Ho Hno]]; [left; by exists i, e0 | right].
      split; [rewrite Ho; by destruct Hname as [-> | ->] | intros j; apply Hno; lia]. }
  destruct (Hcap "index" (or_introl eq_refl)) as [Hfits Hi]. destruct (Hcap "id" (or_intror eq_refl)) as [_ Hd].
  rewrite <- Hq in Hfits. apply fits_shape_pat in Hfits. split; [done |].
  unfold off in Hi, Hd. cbn in Hi, Hd. destruct (o_index o), (o_doc o). done.
Qed.
End Spec.

Lemma match_sound_witness :
  exists t r,
    build_trie [MkRoute "GET /{index}/_doc/{id}" (Some tt) 7 0 "get"] = Some t /\
    match_route t "GET" "//books/./_doc/42" = Some r /\ (indexStart r, indexEnd r, docStart r, docEnd r) = (1, 6, 12, 14)%nat /\
    exists regs g q, mapM parse_route [MkRoute "GET /{index}/_doc/{id}" (Some tt) 7 0 "get"] = Some regs /\ g ∈ regs /\
      shape <$> g_pat g = q /\ captures regs (cleanPath "//books/./_doc/42") q (clean_elems "//books/./_doc/42") "index" (1, 6)%nat.
Proof.
  destruct (build_trie [MkRoute "GET /{index}/_doc/{id}" (Some tt) 7 0 "get"]) as [t |] eqn:Ht; [| by vm_compute in Ht].
  destruct (match_route t "GET" "//books/./_doc/42") as [r |] eqn:Hr.
  2: { exfalso. revert Hr. injection Ht as <-. by vm_compute. }
  assert (Hoff : (indexStart r, indexEnd r, docStart r, docEnd r) = (1, 6, 12, 14)%nat).
  { revert Hr. injection Ht as <-. vm_compute. by intros [= <-]. }
  exists t, r. split; [done |]. split; [done |]. split; [done |].
  destruct (match_sound _ t _ _ r Ht Hr) as (regs & g & q & Hp & Hin & _ & Hq & _ & _ & _ & Hi & _).
  exists regs, g, q. injection Hoff as H1 H2 _ _. rewrite H1, H2 in Hi. split_and!; done.
Defined.
