(* ===== verification/RouteTable.v ===== *)
(** * The route table

    router.go's buildRoleRoutes, the table of request patterns with their
    policy and operation, in the sections of the source; the operation
    classifier of classify.go over it. *)

From Stdlib Require Import Ascii String.
From stdpp Require Import base gmap list strings.
From Stdlib Require Import ZArith Lia.
From S2P Require Import Prelude.
From S2P Require Import Operation.
From S2P Require Import Routes.
Open Scope Z_scope.

Section Table.
Context {Policy : Type}.

Record roleRoutes := MkRoleRoutes {
  ingestWrite : Policy; ingestMgmt : Policy; searchRead : Policy; getRead : Policy; dataWrite : Policy;
  dataRefresh : Policy; dataFlush : Policy; dataForceMerge : Policy; dataMgmt : Policy; searchMgmt : Policy;
  warmMgmt : Policy; clusterMgrRead : Policy; clusterMgrWrite : Policy }.

Definition defaultRoleRoutes (ingest search warm data clusterMgr : Policy) : roleRoutes :=
  MkRoleRoutes ingest ingest search search data data data data data search warm clusterMgr clusterMgr.

(** NewRoute(pattern, policy).Op(op).MustBuild(); [None]: panic. *)
Definition route (pattern : string) (policy : Policy) (op : Z) : option (RouteMux Policy) :=
  MustBuild (Op op (NewRoute pattern (Some policy))).

(** NewRoute(pattern, policy).Op(op).InjectAdaptiveMCSR().MustBuild() *)
Definition route_mcsr (pattern : string) (policy : Policy) (op : Z) : option (RouteMux Policy) :=
  MustBuild (InjectAdaptiveMCSR (Op op (NewRoute pattern (Some policy)))).

(** Cluster info *)
Definition routes_cluster_info (r : roleRoutes) : list (option (RouteMux Policy)) := [
  route "GET /" (searchMgmt r) OpClusterInfo;
  route "HEAD /" (searchMgmt r) OpClusterInfo
].

(** Bulk operations *)
Definition routes_bulk_operations (r : roleRoutes) : list (option (RouteMux Policy)) := [
  route "POST /_bulk" (ingestWrite r) OpBulk;
  route "PUT /_bulk" (ingestWrite r) OpBulk;
  route "POST /{index}/_bulk" (ingestWrite r) OpBulk;
  route "PUT /{index}/_bulk" (ingestWrite r) OpBulk;
  route "POST /_bulk/stream" (ingestWrite r) OpBulkStream;
  route "PUT /_bulk/stream" (ingestWrite r) OpBulkStream;
  route "POST /{index}/_bulk/stream" (ingestWrite r) OpBulkStream;
  route "PUT /{index}/_bulk/stream" (ingestWrite r) OpBulkStream;
  route "POST /_reindex" (ingestWrite r) OpReindex
].

(** Ingest pipeline management *)
Definition routes_ingest_pipeline_management (r : roleRoutes) : list (option (RouteMux Policy)) := [
  route "PUT /_ingest/pipeline/{id}" (ingestMgmt r) OpIngestCreate;
  route "POST /_ingest/pipeline/{id}" (ingestMgmt r) OpIngestCreate;
  route "GET /_ingest/pipeline/{id}" (ingestMgmt r) OpIngestGet;
  route "DELETE /_ingest/pipeline/{id}" (ingestMgmt r) OpIngestDelete;
  route "GET /_ingest/pipeline/" (ingestMgmt r) OpIngestGet;
  route "GET /_ingest/pipeline" (ingestMgmt r) OpIngestGet;
  route "GET /_ingest/pipeline/{id}/_simulate" (ingestMgmt r) OpIngestSimulate;
  route "POST /_ingest/pipeline/{id}/_simulate" (ingestMgmt r) OpIngestSimulate;
  route "GET /_ingest/pipeline/_simulate" (ingestMgmt r) OpIngestSimulate;
  route "POST /_ingest/pipeline/_simulate" (ingestMgmt r) OpIngestSimulate
].

(** Searchable snapshot operations *)
Definition routes_searchable_snapshot_operations (r : roleRoutes) : list (option (RouteMux Policy)) := [
  route "POST /_snapshot/{repository}/_mount" (warmMgmt r) OpOther;
  route "POST /_snapshot/{repository}/{snapshot}/_mount" (warmMgmt r) OpOther;
  route "DELETE /_snapshot/{repository}/{snapshot}/_mount/{index}" (warmMgmt r) OpOther
].

(** Search operations *)
Definition routes_search_operations (r : roleRoutes) : list (option (RouteMux Policy)) := [
  route_mcsr "GET /_search" (searchRead r) OpSearch;
  route_mcsr "POST /_search" (searchRead r) OpSearch;
  route_mcsr "GET /{index}/_search" (searchRead r) OpSearch;
  route_mcsr "POST /{index}/_search" (searchRead r) OpSearch;
  route_mcsr "GET /_msearch" (searchRead r) OpMSearch;
  route_mcsr "POST /_msearch" (searchRead r) OpMSearch;
  route_mcsr "GET /{index}/_msearch" (searchRead r) OpMSearch;
  route_mcsr "POST /{index}/_msearch" (searchRead r) OpMSearch;
  route "GET /_count" (searchRead r) OpCount;
  route "POST /_count" (searchRead r) OpCount;
  route "GET /{index}/_count" (searchRead r) OpCount;
  route "POST /{index}/_count" (searchRead r) OpCount;
  route "POST /{index}/_delete_by_query" (searchRead r) OpDeleteByQuery;
  route "POST /{index}/_update_by_query" (searchRead r) OpUpdateByQuery;
  route "GET /{index}/_explain/{id}" (getRead r) OpExplain;
  route "POST /{index}/_explain/{id}" (getRead r) OpExplain;
  route "GET /{index}/_doc/{id}" (getRead r) OpDocGet;
  route "HEAD /{index}/_doc/{id}" (getRead r) OpDocExists
].

(** Single-document write operations *)
Definition routes_single_document_write_operations (r : roleRoutes) : list (option (RouteMux Policy)) := [
  route "PUT /{index}/_doc/{id}" (dataWrite r) OpDocIndex;
  route "POST /{index}/_doc/{id}" (dataWrite r) OpDocIndex;
  route "POST /{index}/_doc" (dataWrite r) OpDocIndex;
  route "PUT /{index}/_create/{id}" (dataWrite r) OpDocCreate;
  route "POST /{index}/_create/{id}" (dataWrite r) OpDocCreate;
  route "POST /{index}/_update/{id}" (dataWrite r) OpDocUpdate;
  route "DELETE /{index}/_doc/{id}" (dataWrite r) OpDocDelete
].

(** Get / source / multi-get / term vectors *)
Definition routes_get_source_multi_get_term_vectors (r : roleRoutes) : list (option (RouteMux Policy)) := [
  route "GET /{index}/_source/{id}" (getRead r) OpDocSourceGet;
  route "HEAD /{index}/_source/{id}" (getRead r) OpDocSourceExist;
  route "GET /_mget" (getRead r) OpMGet;
  route "POST /_mget" (getRead r) OpMGet;
  route "GET /{index}/_mget" (getRead r) OpMGet;
  route "POST /{index}/_mget" (getRead r) OpMGet;
  route "GET /{index}/_termvectors" (getRead r) OpTermVectors;
  route "POST /{index}/_termvectors" (getRead r) OpTermVectors;
  route "GET /{index}/_termvectors/{id}" (getRead r) OpTermVectors;
  route "POST /{index}/_termvectors/{id}" (getRead r) OpTermVectors;
  route "GET /_mtermvectors" (getRead r) OpMTermVectors;
  route "POST /_mtermvectors" (getRead r) OpMTermVectors;
  route "GET /{index}/_mtermvectors" (getRead r) OpMTermVectors;
  route "POST /{index}/_mtermvectors" (getRead r) OpMTermVectors
].

(** Search template / msearch template *)
Definition routes_search_template_msearch_template (r : roleRoutes) : list (option (RouteMux Policy)) := [
  route "GET /{index}/_search/template" (searchRead r) OpSearchTemplate;
  route "POST /{index}/_search/template" (searchRead r) OpSearchTemplate;
  route "GET /_search/template" (searchRead r) OpSearchTemplate;
  route "POST /_search/template" (searchRead r) OpSearchTemplate;
  route "GET /_msearch/template" (searchRead r) OpMSearchTmpl;
  route "POST /_msearch/template" (searchRead r) OpMSearchTmpl;
  route "GET /{index}/_msearch/template" (searchRead r) OpMSearchTmpl;
  route "POST /{index}/_msearch/template" (searchRead r) OpMSearchTmpl
].

(** Search shards *)
Definition routes_search_shards (r : roleRoutes) : list (option (RouteMux Policy)) := [
  route "GET /_search_shards" (searchRead r) OpSearchShards;
  route "POST /_search_shards" (searchRead r) OpSearchShards;
  route "GET /{index}/_search_shards" (searchRead r) OpSearchShards;
  route "POST /{index}/_search_shards" (searchRead r) OpSearchShards
].

(** Scroll operations *)
Definition routes_scroll_operations (r : roleRoutes) : list (option (RouteMux Policy)) := [
  route "GET /_search/scroll" (searchRead r) OpScrollGet;
  route "POST /_search/scroll" (searchRead r) OpScrollGet;
  route "GET /_search/scroll/{scroll_id}" (searchRead r) OpScrollGet;
  route "POST /_search/scroll/{scroll_id}" (searchRead r) OpScrollGet;
  route "DELETE /_search/scroll" (searchRead r) OpScrollDelete;
  route "DELETE /_search/scroll/{scroll_id}" (searchRead r) OpScrollDelete
].

(** Point-in-time operations *)
Definition routes_point_in_time_operations (r : roleRoutes) : list (option (RouteMux Policy)) := [
  route "POST /{index}/_search/point_in_time" (searchRead r) OpPITCreate;
  route "DELETE /_search/point_in_time" (searchRead r) OpPITDelete;
  route "DELETE /_search/point_in_time/_all" (searchRead r) OpPITDelete;
  route "GET /_search/point_in_time/_all" (searchRead r) OpPITList
].

(** Field capabilities *)
Definition routes_field_capabilities (r : roleRoutes) : list (option (RouteMux Policy)) := [
  route "GET /_field_caps" (searchMgmt r) OpFieldCaps;
  route "POST /_field_caps" (searchMgmt r) OpFieldCaps;
  route "GET /{index}/_field_caps" (searchMgmt r) OpFieldCaps;
  route "POST /{index}/_field_caps" (searchMgmt r) OpFieldCaps
].

(** Validate query *)
Definition routes_validate_query (r : roleRoutes) : list (option (RouteMux Policy)) := [
  route "GET /_validate/query" (searchRead r) OpValidate;
  route "POST /_validate/query" (searchRead r) OpValidate;
  route "GET /{index}/_validate/query" (searchRead r) OpValidate;
  route "POST /{index}/_validate/query" (searchRead r) OpValidate
].

(** Rank evaluation *)
Definition routes_rank_evaluation (r : roleRoutes) : list (option (RouteMux Policy)) := [
  route "GET /_rank_eval" (searchRead r) OpRankEval;
  route "POST /_rank_eval" (searchRead r) OpRankEval;
  route "GET /{index}/_rank_eval" (searchRead r) OpRankEval;
  route "POST /{index}/_rank_eval" (searchRead r) OpRankEval
].

(** Data tier operations *)
Definition routes_data_tier_operations (r : roleRoutes) : list (option (RouteMux Policy)) := [
  route "POST /{index}/_settings" (warmMgmt r) OpOther;
  route "PUT /{index}/_settings" (warmMgmt r) OpOther
].

(** Refresh *)
Definition routes_refresh (r : roleRoutes) : list (option (RouteMux Policy)) := [
  route "GET /_refresh" (dataRefresh r) OpRefresh;
  route "POST /_refresh" (dataRefresh r) OpRefresh;
  route "GET /{index}/_refresh" (dataRefresh r) OpRefresh;
  route "POST /{index}/_refresh" (dataRefresh r) OpRefresh
].

(** Flush *)
Definition routes_flush (r : roleRoutes) : list (option (RouteMux Policy)) := [
  route "GET /_flush" (dataFlush r) OpFlush;
  route "POST /_flush" (dataFlush r) OpFlush;
  route "GET /{index}/_flush" (dataFlush r) OpFlush;
  route "POST /{index}/_flush" (dataFlush r) OpFlush;
  route "GET /_flush/synced" (dataFlush r) OpFlush;
  route "POST /_flush/synced" (dataFlush r) OpFlush;
  route "GET /{index}/_flush/synced" (dataFlush r) OpFlush;
  route "POST /{index}/_flush/synced" (dataFlush r) OpFlush
].

(** Force merge *)
Definition routes_force_merge (r : roleRoutes) : list (option (RouteMux Policy)) := [
  route "POST /_forcemerge" (dataForceMerge r) OpForceMerge;
  route "POST /{index}/_forcemerge" (dataForceMerge r) OpForceMerge
].

(** Data management *)
Definition routes_data_management (r : roleRoutes) : list (option (RouteMux Policy)) := [
  route "GET /_segments" (dataMgmt r) OpSegments;
  route "GET /{index}/_segments" (dataMgmt r) OpSegments;
  route "POST /_cache/clear" (dataMgmt r) OpCacheClear;
  route "POST /{index}/_cache/clear" (dataMgmt r) OpCacheClear;
  route "GET /{index}/_recovery" (dataMgmt r) OpRecovery;
  route "GET /{index}/_shard_stores" (dataMgmt r) OpShardStores;
  route "GET /_stats" (dataMgmt r) OpStats;
  route "GET /_stats/{metric}" (dataMgmt r) OpStats;
  route "GET /{index}/_stats" (dataMgmt r) OpStats;
  route "GET /{index}/_stats/{metric}" (dataMgmt r) OpStats
].

(** Rethrottle *)
Definition routes_rethrottle (r : roleRoutes) : list (option (RouteMux Policy)) := [
  route "POST /_reindex/{taskId}/_rethrottle" (dataMgmt r) OpReindexRethrottle;
  route "POST /_update_by_query/{taskId}/_rethrottle" (dataMgmt r) OpUBQRethrottle;
  route "POST /_delete_by_query/{taskId}/_rethrottle" (dataMgmt r) OpDBQRethrottle
].

(** Cluster state reads *)
Definition routes_cluster_state_reads (r : roleRoutes) : list (option (RouteMux Policy)) := [
  route "GET /_cluster/health" (clusterMgrRead r) OpClusterHealth;
  route "GET /_cluster/health/{index}" (clusterMgrRead r) OpClusterHealth;
  route "GET /_cluster/stats" (clusterMgrRead r) OpClusterStats;
  route "GET /_cluster/stats/nodes/{nodeId}" (clusterMgrRead r) OpClusterStats;
  route "GET /_cluster/state" (clusterMgrRead r) OpClusterState;
  route "GET /_cluster/state/{metric}" (clusterMgrRead r) OpClusterState;
  route "GET /_cluster/state/{metric}/{index}" (clusterMgrRead r) OpClusterState;
  route "GET /_cluster/settings" (clusterMgrRead r) OpClusterSettingsGet;
  route "GET /_cluster/pending_tasks" (clusterMgrRead r) OpClusterPendingTasks;
  route "GET /_cluster/allocation/explain" (clusterMgrRead r) OpClusterAllocExplain;
  route "POST /_cluster/allocation/explain" (clusterMgrRead r) OpClusterAllocExplain;
  route "GET /_remote/info" (clusterMgrRead r) OpClusterRemoteInfo
].

(** Cluster state writes *)
Definition routes_cluster_state_writes (r : roleRoutes) : list (option (RouteMux Policy)) := [
  route "PUT /_cluster/settings" (clusterMgrWrite r) OpClusterSettingsPut;
  route "POST /_cluster/reroute" (clusterMgrWrite r) OpClusterReroute;
  route "POST /_cluster/voting_config_exclusions" (clusterMgrWrite r) OpClusterVotingConfigEx;
  route "DELETE /_cluster/voting_config_exclusions" (clusterMgrWrite r) OpClusterVotingConfigEx
].

(** Cat APIs *)
Definition routes_cat_apis (r : roleRoutes) : list (option (RouteMux Policy)) := [
  route "GET /_cat/indices" (searchMgmt r) OpCatIndices;
  route "GET /_cat/indices/{index}" (searchMgmt r) OpCatIndices;
  route "GET /_cat/nodes" (searchMgmt r) OpCatNodes;
  route "GET /_cat/shards" (searchMgmt r) OpCatShards;
  route "GET /_cat/shards/{index}" (searchMgmt r) OpCatShards;
  route "GET /_cat/health" (searchMgmt r) OpCatHealth;
  route "GET /_cat/allocation" (searchMgmt r) OpCatAllocation;
  route "GET /_cat/allocation/{nodeId}" (searchMgmt r) OpCatAllocation;
  route "GET /_cat/count" (searchMgmt r) OpCatCount;
  route "GET /_cat/count/{index}" (searchMgmt r) OpCatCount;
  route "GET /_cat/fielddata" (searchMgmt r) OpCatFielddata;
  route "GET /_cat/fielddata/{fields}" (searchMgmt r) OpCatFielddata;
  route "GET /_cat/master" (searchMgmt r) OpCatMaster;
  route "GET /_cat/cluster_manager" (searchMgmt r) OpCatClusterMgr;
  route "GET /_cat/nodeattrs" (searchMgmt r) OpCatNodeAttrs;
  route "GET /_cat/pending_tasks" (searchMgmt r) OpCatPendingTask;
  route "GET /_cat/plugins" (searchMgmt r) OpCatPlugins;
  route "GET /_cat/recovery" (dataMgmt r) OpCatRecovery;
  route "GET /_cat/recovery/{index}" (dataMgmt r) OpCatRecovery;
  route "GET /_cat/repositories" (searchMgmt r) OpCatRepos;
  route "GET /_cat/segments" (dataMgmt r) OpCatSegments;
  route "GET /_cat/segments/{index}" (dataMgmt r) OpCatSegments;
  route "GET /_cat/snapshots/{repository}" (searchMgmt r) OpCatSnapshots;
  route "GET /_cat/tasks" (searchMgmt r) OpCatTasks;
  route "GET /_cat/templates" (searchMgmt r) OpCatTemplates;
  route "GET /_cat/templates/{name}" (searchMgmt r) OpCatTemplates;
  route "GET /_cat/thread_pool" (searchMgmt r) OpCatThreadPool;
  route "GET /_cat/thread_pool/{thread_pools}" (searchMgmt r) OpCatThreadPool;
  route "GET /_cat/aliases" (searchMgmt r) OpCatAliases;
  route "GET /_cat/aliases/{name}" (searchMgmt r) OpCatAliases
].

(** Nodes APIs *)
Definition routes_nodes_apis (r : roleRoutes) : list (option (RouteMux Policy)) := [
  route "GET /_nodes" (searchMgmt r) OpNodesInfo;
  route "GET /_nodes/{nodeId}" (searchMgmt r) OpNodesInfo;
  route "GET /_nodes/stats" (searchMgmt r) OpNodesStats;
  route "GET /_nodes/{nodeId}/stats" (searchMgmt r) OpNodesStats;
  route "GET /_nodes/stats/{metric}" (searchMgmt r) OpNodesStats;
  route "GET /_nodes/usage" (searchMgmt r) OpNodesUsage;
  route "GET /_nodes/{nodeId}/usage" (searchMgmt r) OpNodesUsage;
  route "GET /_nodes/hot_threads" (searchMgmt r) OpNodesHotThreads;
  route "GET /_nodes/{nodeId}/hot_threads" (searchMgmt r) OpNodesHotThreads;
  route "POST /_nodes/reload_secure_settings" (dataMgmt r) OpNodesReloadSecurity;
  route "POST /_nodes/{nodeId}/reload_secure_settings" (dataMgmt r) OpNodesReloadSecurity
].

(** Tasks APIs *)
Definition routes_tasks_apis (r : roleRoutes) : list (option (RouteMux Policy)) := [
  route "GET /_tasks" (searchMgmt r) OpTasksList;
  route "GET /_tasks/{taskId}" (searchMgmt r) OpTasksGet;
  route "POST /_tasks/_cancel" (dataMgmt r) OpTasksCancel;
  route "POST /_tasks/{taskId}/_cancel" (dataMgmt r) OpTasksCancel
].

(** Snapshot / repository *)
Definition routes_snapshot_repository (r : roleRoutes) : list (option (RouteMux Policy)) := [
  route "GET /_snapshot" (clusterMgrRead r) OpSnapshotRepoGet;
  route "GET /_snapshot/{repository}" (clusterMgrRead r) OpSnapshotRepoGet;
  route "PUT /_snapshot/{repository}" (clusterMgrWrite r) OpSnapshotRepoCreate;
  route "POST /_snapshot/{repository}" (clusterMgrWrite r) OpSnapshotRepoCreate;
  route "DELETE /_snapshot/{repository}" (clusterMgrWrite r) OpSnapshotRepoDelete;
  route "POST /_snapshot/{repository}/_verify" (clusterMgrWrite r) OpSnapshotRepoVerify;
  route "POST /_snapshot/{repository}/_cleanup" (clusterMgrWrite r) OpSnapshotRepoClean;
  route "GET /_snapshot/_status" (clusterMgrRead r) OpSnapshotStatus;
  route "GET /_snapshot/{repository}/_status" (clusterMgrRead r) OpSnapshotStatus;
  route "GET /_snapshot/{repository}/{snapshot}" (clusterMgrRead r) OpSnapshotGet;
  route "PUT /_snapshot/{repository}/{snapshot}" (clusterMgrWrite r) OpSnapshotCreate;
  route "POST /_snapshot/{repository}/{snapshot}" (clusterMgrWrite r) OpSnapshotCreate;
  route "DELETE /_snapshot/{repository}/{snapshot}" (clusterMgrWrite r) OpSnapshotDelete;
  route "GET /_snapshot/{repository}/{snapshot}/_status" (clusterMgrRead r) OpSnapshotStatus;
  route "POST /_snapshot/{repository}/{snapshot}/_restore" (clusterMgrWrite r) OpSnapshotRestore;
  route "PUT /_snapshot/{repository}/{snapshot}/_clone/{target_snapshot}" (clusterMgrWrite r) OpSnapshotClone
].

(** Stored scripts *)
Definition routes_stored_scripts (r : roleRoutes) : list (option (RouteMux Policy)) := [
  route "GET /_scripts/{id}" (clusterMgrRead r) OpScriptGet;
  route "PUT /_scripts/{id}" (clusterMgrWrite r) OpScriptPut;
  route "PUT /_scripts/{id}/{context}" (clusterMgrWrite r) OpScriptPut;
  route "POST /_scripts/{id}" (clusterMgrWrite r) OpScriptPut;
  route "POST /_scripts/{id}/{context}" (clusterMgrWrite r) OpScriptPut;
  route "DELETE /_scripts/{id}" (clusterMgrWrite r) OpScriptDelete;
  route "GET /_script_context" (searchMgmt r) OpScriptContext;
  route "GET /_script_language" (searchMgmt r) OpScriptLanguage;
  route "GET /_scripts/painless/_execute" (searchMgmt r) OpScriptPainlessExec;
  route "POST /_scripts/painless/_execute" (searchMgmt r) OpScriptPainlessExec
].

(** Dangling indices *)
Definition routes_dangling_indices (r : roleRoutes) : list (option (RouteMux Policy)) := [
  route "GET /_dangling" (clusterMgrRead r) OpDanglingGet;
  route "POST /_dangling/{index_uuid}" (clusterMgrWrite r) OpDanglingImport;
  route "DELETE /_dangling/{index_uuid}" (clusterMgrWrite r) OpDanglingDelete
].

(** Data streams *)
Definition routes_data_streams (r : roleRoutes) : list (option (RouteMux Policy)) := [
  route "GET /_data_stream" (clusterMgrRead r) OpDataStreamGet;
  route "GET /_data_stream/{name}" (clusterMgrRead r) OpDataStreamGet;
  route "PUT /_data_stream/{name}" (clusterMgrWrite r) OpDataStreamCreate;
  route "DELETE /_data_stream/{name}" (clusterMgrWrite r) OpDataStreamDelete;
  route "GET /_data_stream/{name}/_stats" (dataMgmt r) OpDataStreamStats
].

(** Index management *)
Definition routes_index_management (r : roleRoutes) : list (option (RouteMux Policy)) := [
  route "GET /_resolve/index/{name}" (clusterMgrRead r) OpIndexResolve;
  route "PUT /{index}/_mapping" (clusterMgrWrite r) OpMappingPut;
  route "POST /{index}/_mapping" (clusterMgrWrite r) OpMappingPut;
  route "PUT /_mapping" (clusterMgrWrite r) OpMappingPut;
  route "GET /{index}/_mapping" (clusterMgrRead r) OpMappingGet;
  route "GET /_mapping" (clusterMgrRead r) OpMappingGet;
  route "GET /{index}/_mapping/field/{fields}" (clusterMgrRead r) OpMappingGet;
  route "GET /_mapping/field/{fields}" (clusterMgrRead r) OpMappingGet;
  route "GET /{index}/_alias" (clusterMgrRead r) OpAliasGet;
  route "GET /{index}/_alias/{name}" (clusterMgrRead r) OpAliasGet;
  route "GET /_alias" (clusterMgrRead r) OpAliasGet;
  route "GET /_alias/{name}" (clusterMgrRead r) OpAliasGet;
  route "GET /_aliases" (clusterMgrRead r) OpAliasGet;
  route "PUT /{index}/_alias/{name}" (clusterMgrWrite r) OpAliasPut;
  route "POST /{index}/_alias/{name}" (clusterMgrWrite r) OpAliasPut;
  route "DELETE /{index}/_alias/{name}" (clusterMgrWrite r) OpAliasDelete;
  route "POST /_aliases" (clusterMgrWrite r) OpAliasPut;
  route "GET /{index}/_analyze" (dataMgmt r) OpIndexAnalyze;
  route "POST /{index}/_analyze" (dataMgmt r) OpIndexAnalyze;
  route "GET /_analyze" (dataMgmt r) OpIndexAnalyze;
  route "POST /_analyze" (dataMgmt r) OpIndexAnalyze;
  route "POST /{index}/_open" (clusterMgrWrite r) OpIndexOpen;
  route "POST /{index}/_close" (clusterMgrWrite r) OpIndexClose;
  route "POST /{index}/_clone/{target}" (clusterMgrWrite r) OpIndexClone;
  route "PUT /{index}/_clone/{target}" (clusterMgrWrite r) OpIndexClone;
  route "POST /{index}/_shrink/{target}" (clusterMgrWrite r) OpIndexShrink;
  route "PUT /{index}/_shrink/{target}" (clusterMgrWrite r) OpIndexShrink;
  route "POST /{index}/_split/{target}" (clusterMgrWrite r) OpIndexSplit;
  route "PUT /{index}/_split/{target}" (clusterMgrWrite r) OpIndexSplit;
  route "POST /{index}/_rollover" (clusterMgrWrite r) OpIndexRollover;
  route "POST /{index}/_rollover/{target}" (clusterMgrWrite r) OpIndexRollover;
  route "PUT /{index}/_block/{block}" (clusterMgrWrite r) OpIndexBlock
].

(** Index create/get/delete (bare {index}) *)
Definition routes_index_create_get_delete (r : roleRoutes) : list (option (RouteMux Policy)) := [
  route "GET /{index}" (clusterMgrRead r) OpIndexGet;
  route "HEAD /{index}" (clusterMgrRead r) OpIndexExists;
  route "PUT /{index}" (clusterMgrWrite r) OpIndexCreate;
  route "DELETE /{index}" (clusterMgrWrite r) OpIndexDelete
].

(** Index templates (composable) *)
Definition routes_index_templates (r : roleRoutes) : list (option (RouteMux Policy)) := [
  route "GET /_index_template" (clusterMgrRead r) OpIndexTemplateGet;
  route "GET /_index_template/{name}" (clusterMgrRead r) OpIndexTemplateGet;
  route "PUT /_index_template/{name}" (clusterMgrWrite r) OpIndexTemplateCreate;
  route "POST /_index_template/{name}" (clusterMgrWrite r) OpIndexTemplateCreate;
  route "DELETE /_index_template/{name}" (clusterMgrWrite r) OpIndexTemplateDelete;
  route "HEAD /_index_template/{name}" (clusterMgrRead r) OpIndexTemplateExists;
  route "POST /_index_template/_simulate" (clusterMgrRead r) OpIndexTemplateSimulate;
  route "POST /_index_template/_simulate/{name}" (clusterMgrRead r) OpIndexTemplateSimulate;
  route "POST /_index_template/_simulate_index/{name}" (clusterMgrRead r) OpIndexTemplateSimulateIndex
].

(** Component templates *)
Definition routes_component_templates (r : roleRoutes) : list (option (RouteMux Policy)) := [
  route "GET /_component_template" (clusterMgrRead r) OpComponentTemplateGet;
  route "GET /_component_template/{name}" (clusterMgrRead r) OpComponentTemplateGet;
  route "PUT /_component_template/{name}" (clusterMgrWrite r) OpComponentTemplateCreate;
  route "POST /_component_template/{name}" (clusterMgrWrite r) OpComponentTemplateCreate;
  route "DELETE /_component_template/{name}" (clusterMgrWrite r) OpComponentTemplateDelete;
  route "HEAD /_component_template/{name}" (clusterMgrRead r) OpComponentTemplateExists
].

(** Legacy index templates *)
Definition routes_legacy_index_templates (r : roleRoutes) : list (option (RouteMux Policy)) := [
  route "GET /_template" (clusterMgrRead r) OpLegacyTemplateGet;
  route "GET /_template/{name}" (clusterMgrRead r) OpLegacyTemplateGet;
  route "PUT /_template/{name}" (clusterMgrWrite r) OpLegacyTemplateCreate;
  route "POST /_template/{name}" (clusterMgrWrite r) OpLegacyTemplateCreate;
  route "DELETE /_template/{name}" (clusterMgrWrite r) OpLegacyTemplateDelete;
  route "HEAD /_template/{name}" (clusterMgrRead r) OpLegacyTemplateExists
].

Definition buildRoleRoutes (r : roleRoutes) : option (list (RouteMux Policy)) :=
  mapM id (mjoin [
    routes_cluster_info r; routes_bulk_operations r; routes_ingest_pipeline_management r;
    routes_searchable_snapshot_operations r; routes_search_operations r;
    routes_single_document_write_operations r; routes_get_source_multi_get_term_vectors r;
    routes_search_template_msearch_template r; routes_search_shards r; routes_scroll_operations r;
    routes_point_in_time_operations r; routes_field_capabilities r; routes_validate_query r;
    routes_rank_evaluation r; routes_data_tier_operations r; routes_refresh r; routes_flush r;
    routes_force_merge r; routes_data_management r; routes_rethrottle r; routes_cluster_state_reads r;
    routes_cluster_state_writes r; routes_cat_apis r; routes_nodes_apis r; routes_tasks_apis r;
    routes_snapshot_repository r; routes_stored_scripts r; routes_dangling_indices r; routes_data_streams r;
    routes_index_management r; routes_index_create_get_delete r; routes_index_templates r;
    routes_component_templates r; routes_legacy_index_templates r
  ]).

End Table.

Arguments roleRoutes : clear implicits.

(** * The classifier *)

Section Classifier.
Context {Policy : Type}.

Definition buildClassifierRoutes (p : Policy) : option (list (RouteMux Policy)) :=
  buildRoleRoutes (MkRoleRoutes p p p p p p p p p p p p p).

(** A pattern that does not split is skipped. *)
Definition NewOperationClassifier (p : Policy) : option (routeTrie Policy) :=
  routes ← buildClassifierRoutes p;
  foldl (fun ot r =>
    t ← ot;
    match splitMuxPattern (r_pattern r) with
    | inr _ => Some t
    | inl (method, path) =>
      policy ← r_policy r;
      add t [method] path policy (r_attrs r) (r_poolName r) (r_operationID r)
    end) (Some emptyTrie) routes.

Definition Classify (c : routeTrie Policy) (method path : string) : Z :=
  match match_route c method path with
  | None => OpOther
  | Some m => l_operationID (m_leaf m)
  end.
End Classifier.

(** * The table works as routed *)

Definition starts_underscore (e : string) : bool := match e with String c _ => Ascii.eqb c "_" | _ => false end.

(** An element that no literal of the table takes from a wildcard at [q]. *)
Definition name_ok (q : list (option string)) (e : string) : bool :=
  negb (starts_underscore e) &&
  negb (bool_decide (q = [Some "_scripts"]) && bool_decide (e = "painless")) &&
  negb (bool_decide (q = [Some "_nodes"]) && bool_decide (e ∈ ["stats"; "usage"; "hot_threads"; "reload_secure_settings"])).

(** Check literal [e] of the table at [q]: it competes with a wildcard only
    where [name_ok] says so. *)
Definition literal_ok {Policy} (regs : list (reg Policy)) (q : list (option string)) (e : option string) : bool :=
  match e with Some e => negb (registered regs (q ++ [None]) && name_ok q e) | None => true end.

Fixpoint literals_ok {Policy} (regs : list (reg Policy)) (q pat : list (option string)) : bool :=
  match pat with [] => true | s :: pat' => literal_ok regs q s && literals_ok regs (q ++ [s]) pat' end.

Lemma literals_ok_at {Policy} (regs : list (reg Policy)) pat : forall q pre s post,
  literals_ok regs q pat = true -> pat = pre ++ s :: post -> literal_ok regs (q ++ pre) s = true.
Proof.
  induction pat as [| s' pat IH]; intros q pre s post H Heq; [by destruct pre |].
  cbn in H. apply andb_prop in H as [Hs Hrest]. destruct pre as [| p pre]; injection Heq as -> Heq; [by rewrite app_nil_r |].
  replace (q ++ p :: pre) with ((q ++ [p]) ++ pre) by (by rewrite <- app_assoc). by eapply IH.
Qed.

Section TableFacts.
Context {Policy : Type}.
Implicit Types r : roleRoutes Policy.

(** The parsed table. *)
Definition table_regs r : list (reg Policy) := default [] (routes ← buildRoleRoutes r; mapM parse_route routes).

Lemma table_parses r : (routes ← buildRoleRoutes r; mapM parse_route routes) = Some (table_regs r).
Proof. vm_compute. reflexivity. Qed.

Definition lasts (regs : list (reg Policy)) : list (option (trieLeaf Policy)) :=
  (fun g => leaf_of regs (g_method g) (shape <$> g_pat g)) <$> regs.
Definition check_literals (regs : list (reg Policy)) : bool :=
  forallb (fun g => literals_ok regs [] (shape <$> g_pat g)) regs.

Lemma table_last r : lasts (table_regs r) = Some ∘ g_leaf <$> table_regs r.
Proof. vm_compute. reflexivity. Qed.

Lemma table_literals r : check_literals (table_regs r) = true.
Proof. vm_compute. reflexivity. Qed.

Lemma checked_unshadowed (regs : list (reg Policy)) g elems :
  check_literals regs = true -> g ∈ regs ->
  (forall i name, g_pat g !! i = Some (PWild name) -> forall e, elems !! i = Some e -> name_ok (take i (shape <$> g_pat g)) e = true) ->
  unshadowed regs (shape <$> g_pat g) elems.
Proof.
  intros Hall Hin Hok i e Hi He. destruct (registered regs (take i (shape <$> g_pat g) ++ [Some e])) eqn:Hreg; [exfalso | done].
  apply list_lookup_fmap_Some in Hi as (p & Hp & Hi). destruct p as [| name]; [done |].
  specialize (Hok i name Hi e He). unfold registered in Hreg. apply existsb_exists in Hreg as (g' & Hin' & Hpre).
  apply bool_decide_eq_true in Hpre as [post Hpost]. unfold check_literals in Hall. rewrite forallb_forall in Hall.
  specialize (Hall g' Hin'). rewrite <- app_assoc in Hpost. cbn in Hpost.
  pose proof (literals_ok_at _ _ [] _ _ _ Hall Hpost) as Hlit. cbn [app literal_ok] in Hlit.
  rewrite Hok, andb_true_r in Hlit. apply negb_true_iff in Hlit.
  rewrite (registered_prefix regs g (take i (shape <$> g_pat g) ++ [None]) (drop (S i) (shape <$> g_pat g))) in Hlit; [done | done |].
  rewrite <- (take_drop i (shape <$> g_pat g)) at 1. rewrite <- app_assoc. f_equal.
  rewrite (drop_S _ None i); [done |]. by rewrite list_lookup_fmap, Hi.
Qed.

Lemma checked_reached (regs : list (reg Policy)) g path :
  check_literals regs = true -> lasts regs = Some ∘ g_leaf <$> regs -> g ∈ regs ->
  rooted path = true -> Forall2 fits (g_pat g) (clean_elems path) ->
  (forall i name, g_pat g !! i = Some (PWild name) -> forall e, clean_elems path !! i = Some e -> name_ok (take i (shape <$> g_pat g)) e = true) ->
  m_leaf <$> match_route (trie_of regs) (g_method g) path = Some (g_leaf g).
Proof.
  intros Hcheck Hlast Hin Hr Hfits Hok. rewrite match_route_trie_of. eapply match_spec_reaches; [done .. | |].
  - by apply checked_unshadowed.
  - apply list_elem_of_lookup in Hin as [k Hk]. pose proof (f_equal (lookup k) Hlast) as Hl.
    unfold lasts in Hl. rewrite !list_lookup_fmap, Hk in Hl. by injection Hl.
Qed.

Lemma parsed_trie (built : option (list (RouteMux Policy))) regs :
  (routes ← built; mapM parse_route routes) = Some regs ->
  exists routes, built = Some routes /\ build_trie routes = Some (trie_of regs) /\ mapM parse_route routes = Some regs.
Proof. destruct built as [routes |]; [| done]. cbn. intros Hp. exists routes. by rewrite build_trie_parse, Hp. Qed.

(** Every route of the table is reached. The table is valid, and a request
    whose method is a route's and whose cleaned path fits the route's pattern,
    with ordinary names in the places of its wildcards, is matched by that
    route and no other: it gets the route's policy, operation, attributes and
    pool. Ordinary is: not starting with an underscore, and under /_scripts
    and /_nodes not one of the five words that are literals there. *)
Theorem route_table_reached r :
  exists routes t, buildRoleRoutes r = Some routes /\ build_trie routes = Some t /\ mapM parse_route routes = Some (table_regs r) /\
    forall g path, g ∈ table_regs r -> rooted path = true -> Forall2 fits (g_pat g) (clean_elems path) ->
      (forall i name, g_pat g !! i = Some (PWild name) -> forall e, clean_elems path !! i = Some e ->
         name_ok (take i (shape <$> g_pat g)) e = true) ->
      m_leaf <$> match_route t (g_method g) path = Some (g_leaf g).
Proof.
  destruct (parsed_trie _ _ (table_parses r)) as (routes & Hb & Ht & Hp).
  exists routes, (trie_of (table_regs r)). refine (conj Hb (conj Ht (conj Hp _))).
  intros g path Hin Hr Hfits Hok. exact (checked_reached _ g path (table_literals r) (table_last r) Hin Hr Hfits Hok).
Qed.

(** * Classification *)

Lemma classifier_adds (routes : list (RouteMux Policy)) regs t0 :
  mapM parse_route routes = Some regs ->
  foldl (fun ot (x : RouteMux Policy) =>
    t ← ot;
    match splitMuxPattern (r_pattern x) with
    | inr _ => Some t
    | inl (method, path) =>
      policy ← r_policy x;
      add t [method] path policy (r_attrs x) (r_poolName x) (r_operationID x)
    end) (Some t0) routes = Some (foldl (fun t g => add_walk [g_method g] (g_leaf g) (g_pat g) t) t0 regs).
Proof.
  revert regs t0. induction routes as [| x routes IH]; intros regs t0 Hp; [by injection Hp as <- |].
  cbn [mapM mbind option_bind] in Hp. cbn [foldl mbind option_bind].
  destruct (parse_route x) as [g |] eqn:Hx; [| discriminate Hp]. cbn [mbind option_bind] in Hp.
  destruct (mapM parse_route routes) as [regs' |]; [| discriminate Hp]. injection Hp as <-.
  unfold parse_route in Hx. destruct (r_policy x) as [pol |]; [| discriminate Hx].
  destruct (splitMuxPattern (r_pattern x)) as [[method path] |]; [| discriminate Hx]. injection Hx as <-.
  cbn [mbind option_bind]. rewrite add_pattern. exact (IH regs' _ eq_refl).
Qed.

Lemma classifier_regs p :
  NewOperationClassifier p = Some (trie_of (table_regs (MkRoleRoutes p p p p p p p p p p p p p : roleRoutes Policy))).
Proof.
  destruct (parsed_trie _ _ (table_parses (MkRoleRoutes p p p p p p p p p p p p p))) as (routes & Hb & _ & Hp).
  unfold NewOperationClassifier, buildClassifierRoutes. rewrite Hb. exact (classifier_adds routes _ emptyTrie Hp).
Qed.

Definition method_agrees (g : reg Policy) : bool :=
  let op := l_operationID (g_leaf g) in
  if decide (g_method g ∈ ["PUT"; "DELETE"]) then IsWrite op
  else if decide (g_method g = "HEAD") then IsRead op else true.

Lemma table_methods r : forallb method_agrees (table_regs r) = true.
Proof. vm_compute. reflexivity. Qed.

Lemma match_spec_route (regs : list (reg Policy)) method path m :
  match_spec regs method path = Some m -> exists g, g ∈ regs /\ g_method g = method /\ g_leaf g = m_leaf m.
Proof.
  unfold match_spec. destruct (rooted path); [| done]. destruct (resolve _ _ _ _ _) as [[q o] |]; [| done]. cbn.
  destruct (leaf_of _ method q) eqn:Hl; [| done]. intros [= <-]. cbn.
  destruct (leaf_of_some _ _ _ _ Hl) as (g & ? & ? & ? & ?). by exists g.
Qed.

Lemma checked_methods (regs : list (reg Policy)) method path :
  forallb method_agrees regs = true ->
  (method ∈ ["PUT"; "DELETE"] -> IsWrite (Classify (trie_of regs) method path) = true) /\
  (method = "HEAD" -> Classify (trie_of regs) method path <> OpOther -> IsRead (Classify (trie_of regs) method path) = true) /\
  (Classify (trie_of regs) method path <> OpOther ->
    exists g, g ∈ regs /\ g_method g = method /\ l_operationID (g_leaf g) = Classify (trie_of regs) method path).
Proof.
  intros Hall. unfold Classify. rewrite match_route_trie_of.
  destruct (match_spec regs method path) as [m |] eqn:Hm; [| done].
  destruct (match_spec_route _ _ _ _ Hm) as (g & Hin & <- & <-). rewrite forallb_forall in Hall.
  specialize (Hall g (proj1 (list_elem_of_In _ _) Hin)). unfold method_agrees in Hall.
  split; [intros Hmeth; by rewrite decide_True in Hall by done |]. split; [| intros _; by exists g].
  intros Hmeth _. rewrite Hmeth in Hall. exact Hall.
Qed.

(** Classification agrees with the method, on every path: building the
    classifier does not fail, a PUT or DELETE request is never classified as a
    read and a HEAD request never as a write, except that a request the table
    does not know is OpOther, which counts as a write; and the operation
    reported is one the table lists for this method. *)
Theorem classify_methods p method path :
  exists c, NewOperationClassifier p = Some c /\
    (method ∈ ["PUT"; "DELETE"] -> IsWrite (Classify c method path) = true) /\
    (method = "HEAD" -> Classify c method path <> OpOther -> IsRead (Classify c method path) = true) /\
    (Classify c method path <> OpOther ->
      exists g, g ∈ table_regs (MkRoleRoutes p p p p p p p p p p p p p) /\ g_method g = method /\
        l_operationID (g_leaf g) = Classify c method path).
Proof.
  eexists. split; [apply classifier_regs |]. apply checked_methods, table_methods.
Qed.
End TableFacts.

Lemma route_table_reached_witness :
  exists routes t, buildRoleRoutes (MkRoleRoutes 1 2 3 4 5 6 7 8 9 10 11 12 13 : roleRoutes Z) = Some routes /\
    build_trie routes = Some t /\ l_policy <$> (m_leaf <$> match_route t "POST" "/books/_search") = Some 3.
Proof.
  destruct (route_table_reached (MkRoleRoutes 1 2 3 4 5 6 7 8 9 10 11 12 13 : roleRoutes Z)) as (routes & t & Hr & Ht & _ & H).
  exists routes, t. split; [exact Hr |]. split; [exact Ht |].
  assert (Hm : m_leaf <$> match_route t "POST" "/books/_search" = Some (MkLeaf 3 OpSearch 1 "")); [| by rewrite Hm].
  apply (H (MkReg _ "POST" [PWild "index"; PLit "_search"] (MkLeaf 3 OpSearch 1 "")) "/books/_search").
  - apply list_elem_of_In. vm_compute. repeat (try (left; reflexivity); right).
  - reflexivity.
  - vm_compute. repeat constructor.
  - intros [| [| i]] name Hi e He; [| done | done]. vm_compute in He. injection He as <-. vm_compute. reflexivity.
Defined.

Lemma classify_methods_witness :
  exists c, NewOperationClassifier tt = Some c /\ IsWrite (Classify c "DELETE" "/books") = true /\
    Classify c "DELETE" "/books" = OpIndexDelete /\ Classify c "GET" "/_scripts/painless" = OpOther.
Proof.
  destruct (classify_methods tt "DELETE" "/books") as (c & Hc & Hw & _). exists c. split; [exact Hc |].
  split; [apply Hw; by right; left |].
  assert (Hdel : (fun c => Classify c "DELETE" "/books") <$> NewOperationClassifier tt = Some OpIndexDelete) by (vm_compute; reflexivity).
  assert (Hpl : (fun c => Classify c "GET" "/_scripts/painless") <$> NewOperationClassifier tt = Some OpOther) by (vm_compute; reflexivity).
  rewrite Hc in Hdel, Hpl. split; [exact (Some_inj _ _ Hdel) | exact (Some_inj _ _ Hpl)].
Defined.
