(* ===== verification/Discovery.v ===== *)
(** discovery.go: from the nodes a discovery found to the connection pool and
    the topology change the router is told.

    [nodeDiscovery] resolves each node against the connections of the current
    pool, [updateConnectionPool] computes the difference and swaps the pool.
    The HTTP request, its decoding and the address resolvers that produce the
    nodes are not modelled: the nodes are an argument. Go ranges over a map in
    no fixed order; the order is a parameter ([MapRange]), one per loop.

    The state is the transport's connection pool over one [World]: the heap of
    connections, the clock and the random source, and, when the pool is a
    multiServerPool, its lists. *)

From Stdlib Require Import ZArith Lia String.
From stdpp Require Import base gmap list strings sorting.
From S2P Require Import Prelude.
From S2P Require Import Atomic.
From S2P Require Import Lifecycle.
From S2P Require Import Warmup.
From S2P Require Import Rtt.
From S2P Require Import Congestion.
From S2P Require Import Conn.
From S2P Require Import Pool.
From S2P Require Import PoolResurrect.
From S2P Require Import PoolStandby.
From S2P Require Import PoolSelect.
From S2P Require Import PoolLists.
From S2P Require Import PoolReport.
From S2P Require Import PoolCap.
From S2P Require Import PoolNext.
From S2P Require Import PolicyPool.

Open Scope list_scope.
Open Scope Z_scope.

(** * The order of map iteration *)

Class MapRange := {
  range : nat -> gmap string loc -> list (string * loc);
  range_perm : forall k m, range k m ≡ₚ map_to_list m }.

#[export] Instance map_range : MapRange := {|
  range := fun _ m => map_to_list m;
  range_perm := fun _ m => Permutation_refl (map_to_list m) |}.

(** * The transport's pool *)

Inductive ConnectionPool :=
  | NoPool
  | SinglePool (connection : option loc)
  | MultiPool.

(** The settings of the client its pools are made from. *)
Record Client := MkClient {
  cl_activeListCap : Z;
  cl_activeListCapConfig : option Z;
  cl_standbyPromotionChecks : Z;
  cl_healthCheck : bool;
  cl_skipConnectionShuffle : bool;
  cl_rttRingSize : Z }.

Record Transport := MkTransport {
  t_pool : ConnectionPool;
  t_world : World;
  t_minCores : option Z }.          (* what the capacity model was derived from *)

Definition on_world {A} (m : M World A) : M Transport A := fun t =>
  match m (t_world t) with
  | Some (s, a) => Some (MkTransport (t_pool t) s (t_minCores t), a)
  | None => None
  end.
Definition set_pool (p : ConnectionPool) : M Transport unit :=
  modify (fun t => MkTransport p (t_world t) (t_minCores t)).
Definition set_minCores (v : Z) : M Transport unit :=
  modify (fun t => MkTransport (t_pool t) (t_world t) (Some v)).

Definition url_at (s : World) (c : loc) : string := c_URLString (conn_at s c).

(** currentPool.URLs(); a single pool without a connection is a nil
    dereference. *)
Definition pool_URLs (t : Transport) : option (list string) :=
  match t_pool t with
  | NoPool => Some []
  | SinglePool conn => single_URLs (option_map (conn_at (t_world t)) conn)
  | MultiPool => Some (URLs (t_world t))
  end.

Definition findConnectionByURL (t : Transport) (url : string) : option loc :=
  let here c := String.eqb (url_at (t_world t) c) url in
  match t_pool t with
  | NoPool => None
  | SinglePool (Some c) => if here c then Some c else None
  | SinglePool None => None
  | MultiPool =>
    match find here (ready (w_mu (t_world t))) with
    | Some c => Some c
    | None => find here (dead (w_mu (t_world t)))
    end
  end.

(** currentByURL, currentConnectionsByURL *)
Definition connectionsByURL (t : Transport) : option (gmap string loc) :=
  option_map (foldl (fun m url => match findConnectionByURL t url with Some c => <[url := c]> m | None => m end) ∅)
    (pool_URLs t).

(** * Resolving the discovered nodes *)

Record nodeInfo := MkNode {
  ni_ID : string;
  ni_Name : string;
  ni_url : string;
  ni_Roles : list string;
  ni_AllocatedProcessors : option Z;
  ni_ThreadPool : list (string * (Z * Z)) }.   (* name, size, max *)

Definition canReuseConnection (conn : Connection) (node : nodeInfo) : bool :=
  if negb (String.eqb (c_ID conn) (ni_ID node)) then false
  else if negb (String.eqb (c_Name conn) (ni_Name node)) then false
  else bool_decide (roleSet_toSlice (c_Roles conn) = roleSet_toSlice (newRoleSet (ni_Roles node))).

Definition storeThreadPoolSizes (r : poolRegistry) (pools : list (string * (Z * Z))) : poolRegistry :=
  foldl (fun r '(name, (tp_size, tp_max)) =>
    let size := if (tp_size <=? 0) && (0 <? tp_max) then tp_max else tp_size in
    if 0 <? size then storeMaxCwnd r name size else r) r pools.

Definition new_connection (rttRingSize : Z) (node : nodeInfo) : Connection :=
  let initialState := lcDead ||| lcNeedsWarmup ||| lcNeedsHardware in
  let '(processors, initialState) :=
    match ni_AllocatedProcessors node with
    | Some n => (wrap32 n, Z.ldiff initialState lcNeedsHardware)
    | None => (0, initialState)
    end in
  MkConnection (ni_url node) (ni_ID node) (ni_Name node) (newRoleSet (ni_Roles node)) 1 processors
    (Some (newRTTRing rttRingSize)) (storeThreadPoolSizes pr_zero (ni_ThreadPool node)) 0 (newConnState initialState)
    0 0 0 0 false.

Definition createConnection (rttRingSize : Z) (node : nodeInfo) : M World loc :=
  let* c := gets (fun s => fresh (dom (w_heap s))) in
  modify (fun s => with_heap s (<[c := new_connection rttRingSize node]> (w_heap s))) ;;;
  ret c.

Definition resolve_node (rttRingSize : Z) (current : gmap string loc) (node : nodeInfo) (acc : list loc * list loc)
    : M World (list loc * list loc) :=
  let* reuse := gets (fun s =>
    match current !! ni_url node with
    | Some existing => if canReuseConnection (conn_at s existing) node then Some existing else None
    | None => None
    end) in
  match reuse with
  | Some existing => ret (acc.1 ++ [existing], acc.2)
  | None => let* conn := createConnection rttRingSize node in ret (acc.1, acc.2 ++ [conn])
  end.
Fixpoint resolve_nodes (rttRingSize : Z) (current : gmap string loc) (discovered : list nodeInfo) (acc : list loc * list loc)
    : M World (list loc * list loc) :=
  match discovered with
  | [] => ret acc
  | node :: rest =>
    let* acc := resolve_node rttRingSize current node acc in
    resolve_nodes rttRingSize current rest acc
  end.

(** * The difference *)

Section Update.
Context `{MapRange}.

(** newConnectionsByURL *)
Definition by_url (s : World) (conns : list loc) : gmap string loc :=
  foldl (fun m c => <[url_at s c := c]> m) ∅ conns.

Record topology := MkTopology { added : list loc; removed : list loc; unchanged : list loc }.

Definition diff_step (current : gmap string loc) (d : topology) (entry : string * loc) : topology :=
  let '(url, newConn) := entry in
  match current !! url with
  | None => MkTopology (added d ++ [newConn]) (removed d) (unchanged d)
  | Some oldConn =>
    if (oldConn =? newConn)%nat then MkTopology (added d) (removed d) (unchanged d ++ [newConn])
    else MkTopology (added d ++ [newConn]) (removed d ++ [oldConn]) (unchanged d)
  end.
Definition diff_departed (new : gmap string loc) (d : topology) (entry : string * loc) : topology :=
  let '(url, oldConn) := entry in
  match new !! url with
  | None => MkTopology (added d) (removed d ++ [oldConn]) (unchanged d)
  | Some _ => d
  end.
Definition topology_diff (current new : gmap string loc) : topology :=
  foldl (diff_departed new) (foldl (diff_step current) (MkTopology [] [] []) (range 0 new)) (range 1 current).

(** * The final lists *)

(** A ready connection with a death mark: [true] when the health check behind
    this discovery is newer than the mark. *)
Definition final_place (healthCheckedAt : Z) (c : loc) : M World bool :=
  let* deadSince := gets (fun s => loadDeadSince (conn_at s c)) in
  let stale := negb (deadSince =? 0) && negb (healthCheckedAt =? 0) && (deadSince <? healthCheckedAt) in
  if stale then upd_conn c (fun c => set_failures (storeDeadSince c 0) 0) ;;; ret true
  else ret (deadSince =? 0).
Fixpoint final_lists (healthCheckedAt : Z) (isReady : string -> bool) (l : list (string * loc)) (acc : list loc * list loc)
    : M World (list loc * list loc) :=
  match l with
  | [] => ret acc
  | (url, c) :: l' =>
    let* place := (if isReady url then final_place healthCheckedAt c else ret false) in
    final_lists healthCheckedAt isReady l' (if (place : bool) then (acc.1 ++ [c], acc.2) else (acc.1, acc.2 ++ [c]))
  end.

(** * Weights *)

(** [fuel] bounds the Euclidean steps: [b] of them are enough. *)
Fixpoint gcd_loop (fuel : nat) (a b : Z) : Z :=
  match fuel with
  | O => a
  | S fuel' => if b =? 0 then a else gcd_loop fuel' b (Z.rem a b)
  end.
Definition gcd (a b : Z) : Z := gcd_loop (S (Z.to_nat b)) a b.

Definition known_gcd (s : World) (conns : list loc) : Z :=
  foldl (fun d c =>
    let ap := c_allocatedProcessors (conn_at s c) in
    if 0 <? ap then if d =? 0 then ap else gcd d ap else d) 0 conns.

Definition set_weight (c : Connection) (v : Z) : Connection :=
  MkConnection (c_URLString c) (c_ID c) (c_Name c) (c_Roles c) v (c_allocatedProcessors c)
    (c_rttRing c) (c_pools c) (c_failures c) (c_state c) (c_deadSinceNano c) (c_overloadedAtNano c)
    (c_drainingQuiescingRemaining c) (c_checkStartedAt c) (c_seed c).
Definition weigh (d : Z) (c : Connection) : Connection :=
  let ap := c_allocatedProcessors c in
  set_weight c (if 0 <? ap then wrap32 (Z.min (Z.quot ap d) 2147483647) else 1).

Definition computeWeights (conns : list loc) : M World unit :=
  let* d := gets (fun s => known_gcd s conns) in
  if d =? 0 then ret tt
  else forM conns (fun c => upd_conn c (weigh d)).

(** The minimum of the known core counts; 0 when none is known. *)
Definition min_cores (s : World) (conns : list loc) : Z :=
  foldl (fun minCores c =>
    let ap := c_allocatedProcessors (conn_at s c) in
    if (0 <? ap) && ((minCores =? 0) || (ap <? minCores)) then ap else minCores) 0 conns.
Definition recalculateCapacityModel (conns : list loc) : M Transport unit :=
  let* minCores := gets (fun t => min_cores (t_world t) conns) in
  if minCores =? 0 then ret tt else set_minCores minCores.

(** * The pools (also opensearchtransport.go) *)

Context (cl : Client).

Definition members_of (conns : list loc) : gset loc := list_to_set conns.

(** newMultiServerPoolFromClientWithLock *)
Definition newMultiServerPoolFromClient (m : option metrics) : M World unit :=
  modify (fun s => MkWorld (w_heap s)
    (MkPoolMu [] [] 0 ∅ (cl_activeListCap cl) 0 0 (cl_healthCheck cl)) None 0 (cl_activeListCapConfig cl)
    (cl_standbyPromotionChecks cl) (MkCounters 0 0 0 0 0) m (w_now s) (w_rng s) (w_tasks s)).

(** The swap of rand.Shuffle over a local slice. *)
Fixpoint shuffle_slice (i : nat) (l : list loc) : M World (list loc) :=
  match i with
  | O => ret l
  | S i' =>
    let* j := draw (Z.of_nat i + 1) in
    let* l := getsM (fun _ => swap_at l (Z.of_nat i) j) in
    shuffle_slice i' l
  end.
Definition shuffle_conns (l : list loc) : M World (list loc) :=
  if negb (cl_skipConnectionShuffle cl) && (1 <? length l)%nat then shuffle_slice (length l - 1) l else ret l.

(** demoteConnectionPoolWithLock: from a multi-server pool. *)
Definition demote_choice (s : World) : option loc :=
  match ready (w_mu s), dead (w_mu s) with
  | c :: _, _ => Some c
  | [], c :: _ => Some c
  | [], [] => None
  end.
(** newSingleServerPool on a connection pointer. *)
Definition new_single (c : option loc) : M Transport unit :=
  match c with
  | Some c => on_world (upd_conn c (fun conn => default conn (newSingleServerPool (Some conn))))
  | None => ret tt
  end ;;;
  set_pool (SinglePool c).
Definition demoteConnectionPoolWithLock : M Transport unit :=
  let* c := gets (fun t => demote_choice (t_world t)) in
  new_single c.

Definition createOrUpdateSingleNodePool (readyConns deadConns : list loc) : M Transport unit :=
  let* p := gets t_pool in
  match p with
  | MultiPool => demoteConnectionPoolWithLock
  | _ =>
    new_single
      (match readyConns with
       | [c] => Some c
       | _ => match deadConns with [c] => Some c | _ => None end
       end)
  end.

(** promoteConnectionPoolWithLock: from a single-server pool. *)
Definition promote_active (c : loc) : M World unit :=
  upd_conn c (fun c => (conn_cas c 0 lcActive (lcUnknown ||| lcStandby)).1).
Definition promoteConnectionPoolWithLock (readyConns deadConns : list loc) : M World unit :=
  let* filteredReady := shuffle_conns readyConns in
  let* m := gets w_metrics in
  newMultiServerPoolFromClient m ;;;
  upd_mu (fun m => mu_members (mu_dead (mu_ready m filteredReady) deadConns) (members_of (filteredReady ++ deadConns))) ;;;
  forM filteredReady promote_active ;;;
  upd_mu (fun m => mu_activeCount m (Z.of_nat (length filteredReady))) ;;;
  enforceActiveCapWithLock.

(** The first critical section on allConns: the lists are replaced, the
    boundary is not. *)
Definition install_lists (allReady allDead : list loc) : M World unit :=
  upd_mu (fun m => mu_members (mu_dead (mu_ready m allReady) []) (members_of allReady)) ;;;
  forM allDead (fun c =>
    upd_mu (fun m => mu_members m ({[c]} ∪ members m)) ;;;
    appendToDeadWithLock c).

(** The partition loop: [i] is the entry looked at, [activeCount] the boundary
    so far. *)
Definition place_entry (i activeCount : Z) : M World Z :=
  let* conn := getsM (fun s => index (ready (w_mu s)) i) in
  let* lc := gets (fun s => conn_lifecycle (conn_at s conn)) in
  if has lc lcActive then
    whenM (negb (i =? activeCount)) (swap_ready i activeCount) ;;;
    ret (activeCount + 1)
  else if has lc lcStandby then ret activeCount
  else
    upd_conn conn (fun c => (conn_cas c 0 lcActive (lcUnknown ||| lcStandby)).1) ;;;
    let* p := gets (fun s => getWarmupParamsWithLock (w_mu s)) in
    upd_conn conn (fun c => conn_startWarmup c p.1 p.2) ;;;
    whenM (negb (i =? activeCount)) (swap_ready i activeCount) ;;;
    ret (activeCount + 1).
Fixpoint partition_ready (n : nat) (i activeCount : Z) : M World Z :=
  match n with
  | O => ret activeCount
  | S n' =>
    let* activeCount := place_entry i activeCount in
    partition_ready n' (i + 1) activeCount
  end.
(** The second critical section: scale the pool, partition the ready list, set
    the boundary. *)
Definition partition_lists (allReady allDead : list loc) : M World unit :=
  recalculateWarmupParamsWithLock (Z.of_nat (length allReady) + Z.of_nat (length allDead)) ;;;
  let* n := partition_ready (length allReady) 0 0 in
  upd_mu (fun m => mu_activeCount m n).

Definition createOrUpdateMultiNodePoolWithLock (readyConns deadConns : list loc) : M Transport unit :=
  let* p := gets t_pool in
  match p with
  | SinglePool _ => on_world (promoteConnectionPoolWithLock readyConns deadConns)
  | NoPool =>
    on_world (
      let* allReady := shuffle_conns readyConns in
      newMultiServerPoolFromClient None ;;;
      install_lists allReady deadConns ;;;
      partition_lists allReady deadConns)
  | MultiPool =>
    on_world (
      let* allReady := shuffle_conns readyConns in
      install_lists allReady deadConns ;;;
      partition_lists allReady deadConns)
  end ;;;
  set_pool MultiPool.

(** * The whole update *)

Definition swap_pool (finalReady finalDead : list loc) : M Transport unit :=
  if (length finalReady + length finalDead =? 1)%nat then createOrUpdateSingleNodePool finalReady finalDead
  else createOrUpdateMultiNodePoolWithLock finalReady finalDead.

(** What follows the swap on a multi-server pool: the health check function,
    the resurrection of the dead, the RTT probes of the unmeasured. *)
Definition after_swap (finalReady finalDead : list loc) : M Transport unit :=
  let* p := gets t_pool in
  match p with
  | MultiPool => on_world (
      upd_mu (fun m => MkPoolMu (ready m) (dead m) (activeCount m) (members m) (activeListCap m) (warmupRounds m) (warmupSkipCount m) true) ;;;
      forM finalDead scheduleResurrect ;;;
      forM finalReady probe_unknown_rtt)
  | _ => ret tt
  end.

Definition updateConnectionPool (healthCheckedAt : Z) (readyConns deadConns : list loc) : M Transport topology :=
  let* current := getsM connectionsByURL in
  let* new := gets (fun t => by_url (t_world t) (readyConns ++ deadConns)) in
  let* readyURLs := gets (fun t => url_at (t_world t) <$> readyConns) in
  let* final := on_world (final_lists healthCheckedAt (fun url => bool_decide (url ∈ readyURLs)) (range 2 new) ([], [])) in
  on_world (computeWeights (final.1 ++ final.2)) ;;;
  recalculateCapacityModel (final.1 ++ final.2) ;;;
  swap_pool final.1 final.2 ;;;
  after_swap final.1 final.2 ;;;
  ret (topology_diff current new).

(** nodeDiscovery, and nodeDiscoveryAsyncStart on a cold start. *)
Definition nodeDiscovery (discovered : list nodeInfo) : M Transport topology :=
  let* current := getsM connectionsByURL in
  let* conns := on_world (resolve_nodes (cl_rttRingSize cl) current discovered ([], [])) in
  updateConnectionPool 0 conns.1 conns.2.

Definition nodeDiscoveryAsyncStart (discovered : list nodeInfo) : M Transport topology :=
  let* conns := on_world (resolve_nodes (cl_rttRingSize cl) ∅ discovered ([], [])) in
  updateConnectionPool 0 conns.2 [].
End Update.

(** * The difference is a difference *)

(** What tells a connection apart, but its weight. *)
Definition ident (c : Connection) := (c_URLString c, c_ID c, c_Name c, c_Roles c, c_allocatedProcessors c, c_seed c).

Definition keyed (s : World) (m : gmap string loc) : Prop := forall url c, m !! url = Some c -> url_at s c = url.

Record topology_ok (current new : gmap string loc) (d : topology) : Prop := {
  to_added : forall c, c ∈ added d <-> exists url, new !! url = Some c /\ current !! url <> Some c;
  to_removed : forall c, c ∈ removed d <-> exists url, current !! url = Some c /\ new !! url <> Some c;
  to_unchanged : forall c, c ∈ unchanged d <-> exists url, new !! url = Some c /\ current !! url = Some c }.

Lemma diff_step_spec current l : forall d c,
  let d' := foldl (diff_step current) d l in
  (c ∈ added d' <-> c ∈ added d \/ exists url, (url, c) ∈ l /\ current !! url <> Some c) /\
  (c ∈ removed d' <-> c ∈ removed d \/ exists url new, (url, new) ∈ l /\ current !! url = Some c /\ new <> c) /\
  (c ∈ unchanged d' <-> c ∈ unchanged d \/ exists url, (url, c) ∈ l /\ current !! url = Some c).
Proof.
  induction l as [| [url x] l IH]; intros d c d'; [subst d'; cbn; set_solver |].
  destruct (IH (diff_step current d (url, x)) c) as (Ha & Hr & Hu). subst d'. cbn [foldl].
  rewrite Ha, Hr, Hu. clear. unfold diff_step. setoid_rewrite elem_of_cons.
  destruct (current !! url) as [old |] eqn:E; [destruct (Nat.eqb_spec old x) as [-> | Hne] |]; cbn [added removed unchanged];
    rewrite ?elem_of_app, ?list_elem_of_singleton; split_and!; split; naive_solver.
Qed.

Lemma diff_departed_spec new l : forall d c,
  let d' := foldl (diff_departed new) d l in
  added d' = added d /\ unchanged d' = unchanged d /\
  (c ∈ removed d' <-> c ∈ removed d \/ exists url, (url, c) ∈ l /\ new !! url = None).
Proof.
  induction l as [| [url x] l IH]; intros d c d'; [subst d'; cbn; set_solver |].
  destruct (IH (diff_departed new d (url, x)) c) as (Ha & Hu & Hr). subst d'. cbn [foldl].
  rewrite Ha, Hu, Hr. clear. unfold diff_departed. setoid_rewrite elem_of_cons.
  destruct (new !! url) eqn:E; cbn [added removed unchanged]; split_and!; try done;
    rewrite ?elem_of_app, ?list_elem_of_singleton; split; naive_solver.
Qed.

Lemma range_in `{MapRange} k (m : gmap string loc) url c : (url, c) ∈ range k m <-> m !! url = Some c.
Proof. rewrite (range_perm k m). apply elem_of_map_to_list. Qed.

Lemma topology_diff_ok `{MapRange} current new : topology_ok current new (topology_diff current new).
Proof.
  unfold topology_diff. set (d1 := foldl (diff_step current) (MkTopology [] [] []) (range 0 new)).
  assert (H1 := diff_step_spec current (range 0 new) (MkTopology [] [] [])). fold d1 in H1. cbn [added removed unchanged] in H1.
  assert (H2 := diff_departed_spec new (range 1 current) d1).
  split; intros c; destruct (H2 c) as (Ha & Hu & Hr), (H1 c) as (Ha1 & Hr1 & Hu1).
  - rewrite Ha, Ha1. setoid_rewrite range_in. set_solver.
  - rewrite Hr, Hr1. setoid_rewrite range_in. split.
    + intros [[[] %elem_of_nil | (url & x & Hx & Hc & Hne)] | (url & Hc & Hn)]; exists url; split; congruence.
    + intros (url & Hc & Hn). destruct (new !! url) as [x |] eqn:E; [| right; by exists url].
      left. right. exists url, x. split_and!; [done | done | congruence].
  - rewrite Hu, Hu1. setoid_rewrite range_in. set_solver.
Qed.

(** Each connection is in at most one map, under its own URL. *)
Lemma by_url_spec s l url :
  by_url s l !! url = last (filter (fun c => url_at s c = url) l).
Proof.
  unfold by_url. induction l as [| c l IH] using rev_ind; [done |].
  rewrite foldl_app, filter_app, last_app. cbn [foldl]. rewrite filter_cons, filter_nil.
  destruct (decide (url_at s c = url)) as [<- | Hne]; cbn [last]; [by rewrite lookup_insert_eq |].
  by rewrite lookup_insert_ne.
Qed.

Lemma by_url_some s l url c : by_url s l !! url = Some c -> c ∈ l /\ url_at s c = url.
Proof.
  rewrite by_url_spec. intros Hl.
  assert (Hin : c ∈ filter (fun c => url_at s c = url) l) by (by apply last_Some_elem_of).
  apply list_elem_of_filter in Hin. tauto.
Qed.

Lemma by_url_is_Some s l c : c ∈ l -> exists c', by_url s l !! url_at s c = Some c'.
Proof.
  intros Hc. rewrite by_url_spec. destruct (last _) as [c' |] eqn:E; [by exists c' |].
  apply last_None in E. assert (Hin : c ∈ filter (fun c' => url_at s c' = url_at s c) l) by (by apply list_elem_of_filter).
  rewrite E in Hin. by apply elem_of_nil in Hin.
Qed.

Lemma keyed_by_url s l : keyed s (by_url s l).
Proof. intros url c Hc. by apply by_url_some in Hc as [_ Hc]. Qed.

(** The connections of the pool, in the order discovery looks them up. *)
Definition pool_conns (t : Transport) : list loc :=
  match t_pool t with
  | NoPool => []
  | SinglePool c => option_list c
  | MultiPool => held (w_mu (t_world t))
  end.

Lemma find_find (f : loc -> bool) l1 l2 :
  match find f l1 with Some c => Some c | None => find f l2 end = find f (l1 ++ l2).
Proof. induction l1 as [| c l1 IH]; [done |]. cbn. by destruct (f c). Qed.

Lemma findConnectionByURL_spec t url :
  findConnectionByURL t url = find (fun c => String.eqb (url_at (t_world t) c) url) (pool_conns t).
Proof.
  unfold findConnectionByURL, pool_conns, held. destruct (t_pool t) as [| [c |] |]; [done | | done | apply find_find].
  cbn. by destruct (String.eqb _ _).
Qed.

Lemma find_url_none s l url : find (fun c => String.eqb (url_at s c) url) l = None <-> url ∉ url_at s <$> l.
Proof.
  induction l as [| c l IH]; cbn; [set_solver |]. rewrite not_elem_of_cons.
  destruct (String.eqb_spec (url_at s c) url) as [-> | Hne]; [naive_solver |]. rewrite IH. naive_solver.
Qed.

Lemma pool_URLs_spec t urls : pool_URLs t = Some urls -> urls = url_at (t_world t) <$> pool_conns t.
Proof.
  unfold pool_URLs, pool_conns, held, URLs. destruct (t_pool t) as [| [c |] |]; [by intros [= <-] | by intros [= <-] | done |].
  intros [= <-]. by rewrite fmap_app.
Qed.

Lemma connectionsByURL_spec t current url :
  connectionsByURL t = Some current ->
  current !! url = find (fun c => String.eqb (url_at (t_world t) c) url) (pool_conns t).
Proof.
  unfold connectionsByURL. destruct (pool_URLs t) as [urls |] eqn:E; [| done]. intros [= <-]. apply pool_URLs_spec in E.
  assert (Hg : forall l (m : gmap string loc), (forall u, m !! u = None \/ m !! u = findConnectionByURL t u) ->
    let m' := foldl (fun m u => match findConnectionByURL t u with Some c => <[u := c]> m | None => m end) m l in
    (forall u, m' !! u = None \/ m' !! u = findConnectionByURL t u) /\ (forall u, u ∈ l -> m' !! u = findConnectionByURL t u) /\
    (forall u, m !! u = findConnectionByURL t u -> m' !! u = findConnectionByURL t u)).
  { induction l as [| u l IH]; intros m Hm; [split_and!; [done | by intros u ?%elem_of_nil | done] |]. cbn [foldl].
    set (m1 := match findConnectionByURL t u with Some c => <[u := c]> m | None => m end).
    assert (Hm1 : m1 !! u = findConnectionByURL t u /\ forall v, v <> u -> m1 !! v = m !! v).
    { unfold m1. destruct (findConnectionByURL t u) eqn:Ef; split; [by rewrite lookup_insert_eq | intros v Hv; by rewrite lookup_insert_ne | | done].
      destruct (Hm u) as [-> | ->]; [done | by rewrite Ef]. }
    destruct Hm1 as [Hu Ho]. assert (Hm1 : forall v, m1 !! v = None \/ m1 !! v = findConnectionByURL t v).
    { intros v. destruct (decide (v = u)) as [-> | Hv]; [by right | rewrite Ho by done; apply Hm]. }
    destruct (IH m1 Hm1) as (H1 & H2 & H3). split_and!; [done | |].
    - intros v [-> | Hv]%elem_of_cons; [by apply H3 | by apply H2].
    - intros v Hv. apply H3. destruct (decide (v = u)) as [-> | Hne]; [done | by rewrite Ho]. }
  destruct (Hg urls ∅ ltac:(by left)) as (H1 & H2 & _). rewrite <- findConnectionByURL_spec.
  destruct (decide (url ∈ urls)) as [Hin | Hni]; [by apply H2 |].
  destruct (H1 url) as [-> | ->]; [| done]. rewrite findConnectionByURL_spec. symmetry. apply find_url_none. by rewrite <- E.
Qed.

Lemma connectionsByURL_keyed t current : connectionsByURL t = Some current -> keyed (t_world t) current.
Proof.
  intros Hc url c. rewrite (connectionsByURL_spec _ _ _ Hc). intros Hf. apply List.find_some in Hf as [_ Hf]. by apply String.eqb_eq.
Qed.

Lemma connectionsByURL_in t current url c : connectionsByURL t = Some current -> current !! url = Some c -> c ∈ pool_conns t.
Proof.
  intros Hc. rewrite (connectionsByURL_spec _ _ _ Hc). intros Hf. apply List.find_some in Hf as [Hf _]. by apply list_elem_of_In.
Qed.

(** * The weights *)

Lemma gcd_loop_spec fuel : forall a b, 0 <= a -> 0 <= b -> (Z.to_nat b < fuel)%nat -> gcd_loop fuel a b = Z.gcd a b.
Proof.
  induction fuel as [| fuel IH]; intros a b Ha Hb Hf; [lia |]. cbn [gcd_loop].
  destruct (Z.eqb_spec b 0) as [-> | Hne]; [rewrite Z.gcd_0_r, Z.abs_eq; lia |].
  rewrite Z.rem_mod_nonneg by lia. pose proof (Z.mod_pos_bound a b). rewrite IH by lia.
  rewrite Z.gcd_comm, Z.gcd_mod by lia. apply Z.gcd_comm.
Qed.

(** The Euclidean loop ends, with the greatest common divisor. *)
Lemma gcd_is_gcd a b : 0 <= a -> 0 <= b -> gcd a b = Z.gcd a b.
Proof. intros. unfold gcd. apply gcd_loop_spec; lia. Qed.

(** The known core counts of a list of connections. *)
Definition cores (s : World) (c : loc) : Z := c_allocatedProcessors (conn_at s c).
Definition known_cores (s : World) (conns : list loc) : list Z := filter (fun n => 0 < n) (cores s <$> conns).
Definition gcd_list (l : list Z) : Z := foldr Z.gcd 0 l.

Lemma gcd_list_nonneg l : 0 <= gcd_list l.
Proof. destruct l; [done | apply Z.gcd_nonneg]. Qed.

Lemma gcd_list_divides l x : x ∈ l -> (gcd_list l | x).
Proof.
  induction l as [| y l IH]; intros Hx; [by apply elem_of_nil in Hx |]. apply elem_of_cons in Hx as [-> | Hx]; cbn.
  - apply Z.gcd_divide_l.
  - etrans; [apply Z.gcd_divide_r | by apply IH].
Qed.

Lemma gcd_list_greatest l d : (forall x, x ∈ l -> (d | x)) -> (d | gcd_list l).
Proof.
  induction l as [| y l IH]; intros H; [apply Z.divide_0_r |]. cbn. apply Z.gcd_greatest; [apply H | apply IH; intros x Hx; apply H]; set_solver.
Qed.

Lemma known_gcd_spec s conns : known_gcd s conns = gcd_list (known_cores s conns).
Proof.
  unfold known_gcd, known_cores. assert (Hg : forall d, 0 <= d ->
    foldl (fun d c => if 0 <? c_allocatedProcessors (conn_at s c) then if d =? 0 then c_allocatedProcessors (conn_at s c)
      else gcd d (c_allocatedProcessors (conn_at s c)) else d) d conns = Z.gcd d (gcd_list (filter (fun n => 0 < n) (cores s <$> conns)))).
  { induction conns as [| c conns IH]; intros d Hd; cbn [foldl].
    { cbn. rewrite Z.gcd_0_r, Z.abs_eq; lia. }
    rewrite fmap_cons, filter_cons. fold (cores s c). destruct (Z.ltb_spec 0 (cores s c)) as [Hc | Hc].
    - rewrite decide_True by done. cbn [gcd_list foldr]. destruct (Z.eqb_spec d 0) as [-> | Hne].
      + rewrite IH by lia. by rewrite Z.gcd_0_l, Z.abs_eq by apply Z.gcd_nonneg.
      + rewrite gcd_is_gcd, IH by (try apply Z.gcd_nonneg; lia). by rewrite Z.gcd_assoc.
    - rewrite decide_False by lia. by rewrite IH by lia. }
  rewrite (Hg 0) by lia. rewrite Z.gcd_0_l, Z.abs_eq; [done | apply gcd_list_nonneg].
Qed.

(** The weight loop writes [weigh d] to each connection of the list, however
    often it occurs. *)
Lemma weigh_idem d c : weigh d (weigh d c) = weigh d c.
Proof. done. Qed.

Lemma wp_weigh_all d conns s :
  wp (forM conns (fun c => upd_conn c (weigh d)))
    (fun s' _ => w_mu s' = w_mu s /\ forall c, conn_at s' c = if decide (c ∈ conns) then weigh d (conn_at s c) else conn_at s c) s.
Proof.
  apply (wp_forM conns _ (fun visited s' => w_mu s' = w_mu s /\
    forall c, conn_at s' c = if decide (c ∈ visited) then weigh d (conn_at s c) else conn_at s c)).
  { split; [done |]. intros c. rewrite decide_False; [done | apply not_elem_of_nil]. }
  intros visited x rest s1 _ [Hm Hc]. apply wp_upd_conn. intros s2 Hx [_ Ho] Hm2 _ _ _. split; [congruence |]. intros c.
  destruct (decide (c = x)) as [-> | Hne].
  - rewrite Hx, Hc, (decide_True (P := x ∈ visited ++ [x])) by set_solver. by case_decide.
  - rewrite Ho, Hc by done. destruct (decide (c ∈ visited)), (decide (c ∈ visited ++ [x])); try done; exfalso; set_solver.
Qed.

(** computeWeights makes weights proportional to the core counts. Unless no
    connection of the list has a known count (then nothing changes), every
    connection of the list with a known count n gets the weight n / d, d being
    the greatest common divisor of the known counts, exactly (the weights times
    d are the counts), the others get weight 1; the weights of the known ones
    have no common divisor; no other connection changes. *)
Theorem computeWeights_proportional conns s :
  (forall c, c ∈ conns -> cores s c < 2 ^ 31) ->
  wp (computeWeights conns) (fun s' _ =>
    w_mu s' = w_mu s /\ (forall c, c ∉ conns -> conn_at s' c = conn_at s c) /\
    (known_cores s conns = [] -> forall c, conn_at s' c = conn_at s c) /\
    (known_cores s conns <> [] -> let d := gcd_list (known_cores s conns) in 0 < d /\
      (forall c, c ∈ conns -> 0 < cores s c -> c_weight (conn_at s' c) * d = cores s c /\ 1 <= c_weight (conn_at s' c)) /\
      (forall c, c ∈ conns -> cores s c <= 0 -> c_weight (conn_at s' c) = 1) /\
      gcd_list ((fun c => c_weight (conn_at s' c)) <$> filter (fun c => 0 < cores s c) conns) = 1)) s.
Proof.
  intros Hmax. unfold computeWeights. do 2 wp_step. rewrite known_gcd_spec. set (d := gcd_list (known_cores s conns)).
  assert (Hin : forall c, c ∈ conns -> 0 < cores s c -> cores s c ∈ known_cores s conns).
  { intros c Hc Hp. unfold known_cores. apply list_elem_of_filter. split; [done |]. by apply list_elem_of_fmap_2. }
  assert (Hpos : known_cores s conns <> [] -> 0 < d).
  { destruct (known_cores s conns) as [| n l] eqn:E; [done |]. intros _. pose proof (gcd_list_nonneg (known_cores s conns)).
    assert (Hn : n ∈ known_cores s conns) by (rewrite E; set_solver).
    assert (Hd0 : gcd_list (known_cores s conns) <> 0).
    { intros H0. pose proof (gcd_list_divides _ _ Hn) as Hdv. rewrite H0 in Hdv. apply Z.divide_0_l in Hdv.
      unfold known_cores in Hn. apply list_elem_of_filter in Hn as [Hn _]. lia. }
    unfold d. rewrite <- E in *. lia. }
  destruct (Z.eqb_spec d 0) as [Hd | Hd].
  { apply wp_ret. split_and!; [done | done | done |]. intros Hne. specialize (Hpos Hne). lia. }
  eapply wp_mono; [apply wp_weigh_all |]. intros s' [] [Hm Hc]. split_and!; [done | | |].
  - intros c Hni. by rewrite Hc, decide_False.
  - intros Hnil. unfold d in Hd. by rewrite Hnil in Hd.
  - intros Hne. specialize (Hpos Hne).
    assert (Hw : forall c, c ∈ conns -> 0 < cores s c -> c_weight (conn_at s' c) * d = cores s c /\ 1 <= c_weight (conn_at s' c)).
    { intros c Hcc Hp. rewrite Hc, decide_True by done. unfold weigh. cbn. fold (cores s c). rewrite (proj2 (Z.ltb_lt _ _)) by done.
      destruct (gcd_list_divides _ _ (Hin c Hcc Hp)) as [q Hq]. fold d in Hq. rewrite Hq, Z.quot_mul by lia.
      pose proof (Hmax c Hcc). assert (0 < q) by nia. assert (q <= cores s c) by nia.
      rewrite Z.min_l by lia. rewrite wrap32_id by (unfold int32_range; lia). lia. }
    split_and!; [done | done | |].
    + intros c Hcc Hp. rewrite Hc, decide_True by done. unfold weigh. cbn. fold (cores s c). by rewrite (proj2 (Z.ltb_ge _ _)).
    + set (g := gcd_list _). assert (Hg : (g * d | d)).
      { apply gcd_list_greatest. intros n Hn. unfold known_cores in Hn. apply list_elem_of_filter in Hn as [Hn (c & -> & Hcc)%list_elem_of_fmap].
        destruct (Hw c Hcc Hn) as [<- _]. apply Z.mul_divide_mono_r, gcd_list_divides.
        apply (list_elem_of_fmap_2 (fun c => c_weight (conn_at s' c))). by apply list_elem_of_filter. }
      assert (0 <= g) by apply gcd_list_nonneg. destruct Hg as [q Hq].
      assert (q * g = 1) by (apply (Z.mul_reg_r _ _ d); [lia | rewrite <- Z.mul_assoc; lia]).
      apply Z.eq_mul_1_nonneg with q; lia.
Qed.

(** Nodes of 8, 24 and unknown cores. *)
Definition ex_cores (c : loc) (n : Z) : Connection :=
  MkConnection "http://n:9200" "" "" ∅ 5 n None pr_zero 0 0 0 0 0 0 false.
Definition ex_weights_world : World :=
  MkWorld {[ 0%nat := ex_cores 0 8; 1%nat := ex_cores 1 24; 2%nat := ex_cores 2 0 ]}
    (MkPoolMu [] [] 0 ∅ 0 0 0 false) None 0 None 0 (MkCounters 0 0 0 0 0) None 0 [] [].

Lemma computeWeights_proportional_witness :
  option_map (fun r => (fun c => c_weight (conn_at r.1 c)) <$> [0; 1; 2]%nat) (computeWeights [0; 1; 2]%nat ex_weights_world) = Some [1; 3; 1] /\
  wp (computeWeights [0; 1; 2]%nat) (fun s' _ =>
    w_mu s' = w_mu ex_weights_world /\ (forall c, c ∉ [0; 1; 2]%nat -> conn_at s' c = conn_at ex_weights_world c) /\
    (known_cores ex_weights_world [0; 1; 2]%nat = [] -> forall c, conn_at s' c = conn_at ex_weights_world c) /\
    (known_cores ex_weights_world [0; 1; 2]%nat <> [] -> let d := gcd_list (known_cores ex_weights_world [0; 1; 2]%nat) in 0 < d /\
      (forall c, c ∈ [0; 1; 2]%nat -> 0 < cores ex_weights_world c ->
         c_weight (conn_at s' c) * d = cores ex_weights_world c /\ 1 <= c_weight (conn_at s' c)) /\
      (forall c, c ∈ [0; 1; 2]%nat -> cores ex_weights_world c <= 0 -> c_weight (conn_at s' c) = 1) /\
      gcd_list ((fun c => c_weight (conn_at s' c)) <$> filter (fun c => 0 < cores ex_weights_world c) [0; 1; 2]%nat) = 1)) ex_weights_world.
Proof.
  split; [vm_compute; reflexivity |]. apply computeWeights_proportional. intros c Hc.
  rewrite !elem_of_cons, elem_of_nil in Hc. destruct Hc as [-> | [-> | [-> | []]]]; vm_compute; reflexivity.
Defined.
