(* ===== verification/DiscoveryPool.v ===== *)
(** discovery.go, the pool a discovery installs: what updateConnectionPool and
    nodeDiscovery do to the transport's pool, step by step, and the theorems
    about the whole: what is installed, what the routing policies make of it,
    and where the installation goes wrong. *)

From Stdlib Require Import ZArith Lia String.
From stdpp Require Import base gmap list strings sorting.
From S2P Require Import Prelude.
From S2P Require Import Atomic.
From S2P Require Import Lifecycle.
From S2P Require Import Warmup.
From S2P Require Import Rtt.
From S2P Require Import Congestion.
From S2P Require Import Conn.
From S2P Require Import Pool.
From S2P Require Import PoolResurrect.
From S2P Require Import PoolStandby.
From S2P Require Import PoolSelect.
From S2P Require Import PoolLists.
From S2P Require Import PoolReport.
From S2P Require Import PoolCap.
From S2P Require Import PoolNext.
From S2P Require Import PoolSteps.
From S2P Require Import PolicyPool.
From S2P Require Import Discovery.

Open Scope list_scope.
Open Scope Z_scope.

(** * Steps that leave the lists alone *)

Record quiet (s s' : World) : Prop := {
  q_mu : w_mu s' = w_mu s;
  q_ident : forall c, ident (conn_at s' c) = ident (conn_at s c) }.

#[export] Instance quiet_preorder : PreOrder quiet.
Proof. split; [done |]. intros s1 s2 s3 [H1 H2] [H3 H4]. split; [congruence | intros c; by rewrite H4]. Qed.

Lemma ident_url s s' c : ident (conn_at s' c) = ident (conn_at s c) -> url_at s' c = url_at s c.
Proof. intros H. by injection H. Qed.

Lemma conn_id_ident c c' : conn_id c = conn_id c' -> ident c = ident c'.
Proof. intros H. injection H as H1 H2 H3 _ H5 H6 H7. unfold ident. congruence. Qed.

Lemma wp_upd_quiet c f s : (forall x, ident (f x) = ident x) -> wp (upd_conn c f) (fun s' _ => quiet s s') s.
Proof.
  intros Hf. apply wp_upd_conn. intros s' Hc [_ Ho] Hm _ _ _. split; [done |]. intros x.
  destruct (decide (x = c)) as [-> | Hne]; [by rewrite Hc, Hf | by rewrite Ho].
Qed.

Lemma wp_forM_quiet {A} (l : list A) (body : A -> M World unit) s :
  (forall x s', quiet s s' -> wp (body x) (fun s'' _ => quiet s' s'') s') -> wp (forM l body) (fun s' _ => quiet s s') s.
Proof.
  intros Hb. apply (wp_forM l body (fun _ s' => quiet s s')); [done |]. intros visited x rest s' _ Hq.
  eapply wp_mono; [by apply Hb |]. intros s'' [] H. etrans; [exact Hq | exact H].
Qed.

(** ** The final lists *)

Lemma wp_final_place h c s : wp (final_place h c) (fun s' _ => quiet s s') s.
Proof.
  unfold final_place. do 2 wp_step. wp_step; [| by apply wp_ret]. wp_step.
  eapply wp_mono; [by apply wp_upd_quiet |]. intros s' [] Hq. by apply wp_ret.
Qed.

Lemma wp_final_lists h isReady l : forall acc s,
  wp (final_lists h isReady l acc) (fun s' r => quiet s s' /\ r.1 ++ r.2 ≡ₚ acc.1 ++ acc.2 ++ l.*2) s.
Proof.
  induction l as [| [url c] l IH]; intros acc s; cbn [final_lists].
  { apply wp_ret. split; [done |]. cbn. by rewrite app_nil_r. }
  wp_step. assert (Hp : wp (if isReady url then final_place h c else ret false) (fun s' _ => quiet s s') s).
  { destruct (isReady url); [apply wp_final_place | by apply wp_ret]. }
  eapply wp_mono; [exact Hp |]. intros s1 place Hq. eapply wp_mono; [apply IH |]. intros s2 r [Hq2 Hr].
  split; [etrans; [exact Hq | exact Hq2] |]. rewrite Hr. rewrite fmap_cons. destruct place; cbn [fst snd]; solve_Permutation.
Qed.

(** ** Weights *)

Lemma weigh_ident d c : ident (weigh d c) = ident c.
Proof. done. Qed.

Lemma wp_computeWeights conns s : wp (computeWeights conns) (fun s' _ => quiet s s') s.
Proof.
  unfold computeWeights. do 2 wp_step. wp_step; [by apply wp_ret |].
  apply wp_forM_quiet. intros c s' _. apply wp_upd_quiet, weigh_ident.
Qed.

(** ** The shuffle *)

Lemma swap_at_Permutation l i j l' : swap_at l i j = Some l' -> l' ≡ₚ l.
Proof.
  unfold swap_at. destruct (index l i) as [a |] eqn:Ei; [| done]. destruct (index l j) as [b |] eqn:Ej; [| done]. intros [= <-].
  unfold index in Ei, Ej. destruct (i <? 0); [done |]. destruct (j <? 0); [done |].
  set (n := Z.to_nat i) in *. set (m := Z.to_nat j) in *.
  apply Permutation_inj. split; [by rewrite !length_insert |].
  exists (fun k => if decide (k = m) then n else if decide (k = n) then m else k). split.
  - intros x y. repeat case_decide; congruence.
  - intros k. destruct (decide (k = m)) as [-> | Hm].
    + rewrite list_lookup_insert_eq; [done |]. rewrite length_insert. by eapply lookup_lt_Some.
    + rewrite list_lookup_insert_ne by congruence. destruct (decide (k = n)) as [-> | Hn].
      * rewrite list_lookup_insert_eq; [done |]. by eapply lookup_lt_Some.
      * by rewrite list_lookup_insert_ne by congruence.
Qed.

Lemma swap_at_total l i j : 0 <= i < Z.of_nat (length l) -> 0 <= j < Z.of_nat (length l) -> exists l', swap_at l i j = Some l'.
Proof.
  intros Hi Hj. unfold swap_at, index. rewrite !(proj2 (Z.ltb_ge _ _)) by lia.
  destruct (lookup_lt_is_Some_2 l (Z.to_nat i)) as [a ->]; [lia |].
  destruct (lookup_lt_is_Some_2 l (Z.to_nat j)) as [b ->]; [lia |]. by eexists.
Qed.

Definition same_conns (s s' : World) : Prop := w_mu s' = w_mu s /\ w_heap s' = w_heap s /\ w_now s' = w_now s.

Lemma wp_shuffle_slice i : forall l s, (i < length l)%nat \/ i = 0%nat ->
  wp (shuffle_slice i l) (fun s' l' => same_conns s s' /\ l' ≡ₚ l) s.
Proof.
  induction i as [| i IH]; intros l s Hi; cbn [shuffle_slice]; [by apply wp_ret |].
  unfold draw. do 6 wp_step. destruct Hi as [Hi | Hi]; [| done].
  set (j := hd 0 (w_rng s) mod (Z.of_nat (S i) + 1)).
  assert (Hj : 0 <= j < Z.of_nat (S i) + 1) by (apply Z.mod_pos_bound; lia).
  destruct (swap_at_total l (Z.of_nat (S i)) j) as [l' Hl']; [lia | lia |].
  wp_step. eapply wp_getsM; [exact Hl' |]. pose proof (swap_at_Permutation _ _ _ _ Hl') as Hp.
  eapply wp_mono; [apply IH |].
  - left. rewrite (Permutation_length Hp). lia.
  - intros s' l2 [(? & ? & ?) Hp2]. split; [done | by etrans].
Qed.

Lemma wp_shuffle_conns cl l s : wp (shuffle_conns cl l) (fun s' l' => same_conns s s' /\ l' ≡ₚ l) s.
Proof.
  unfold shuffle_conns. wp_step; [| by apply wp_ret]. apply wp_shuffle_slice.
  destruct l; [by right | left; cbn; lia].
Qed.

(** ** Installing the lists *)

(** What the first critical section leaves: new lists, an old boundary. *)
Record installed (ready0 dead0 : list loc) (s s' : World) : Prop := {
  in_ready : ready (w_mu s') = ready0;
  in_dead : dead (w_mu s') = dead0;
  in_members : forall c, c ∈ members (w_mu s') <-> c ∈ ready0 \/ c ∈ dead0;
  in_count : activeCount (w_mu s') = activeCount (w_mu s);
  in_rest : w_selector s' = w_selector s /\ w_nextReady s' = w_nextReady s;
  in_ident : forall c, ident (conn_at s' c) = ident (conn_at s c) }.

Lemma wp_install_lists allReady allDead s : wp (install_lists allReady allDead) (fun s' _ => installed allReady allDead s s') s.
Proof.
  unfold install_lists, upd_mu. do 2 wp_step.
  apply (wp_forM allDead _ (fun visited s' => installed allReady visited s s')).
  { split; cbn; try done. intros c. unfold members_of. rewrite elem_of_list_to_set. set_solver. }
  intros visited c rest s' _ [H1 H2 H3 H4 H5 H6]. do 2 wp_step. unfold appendToDeadWithLock, upd_mu. do 3 wp_step.
  apply wp_upd_conn. intros s2 Hc [Hcf Ho] Hm _ _ _. wp_step. injection Hcf as _ _ _ _ _ Hsel Hnext _ _ _.
  split; cbn; rewrite ?Hm; cbn; try congruence.
  - intros x. rewrite elem_of_union, elem_of_singleton, H3, elem_of_app, list_elem_of_singleton. tauto.
  - intros x. destruct (decide (x = c)) as [-> | Hne].
    + change (ident (conn_at s2 c) = ident (conn_at s c)). rewrite Hc, <- H6. apply conn_id_ident, dead_invariant_id.
    + change (ident (conn_at s2 x) = ident (conn_at s x)). by rewrite Ho, <- H6.
Qed.

(** ** The partition *)

Definition active_conn (s : World) (c : loc) : Prop := has (conn_lifecycle (conn_at s c)) lcActive = true.
Definition standby_conn (s : World) (c : loc) : Prop :=
  has (conn_lifecycle (conn_at s c)) lcActive = false /\ has (conn_lifecycle (conn_at s c)) lcStandby = true.

(** After [i] entries: the active ones, the standby ones, what is left. *)
Record partitioning (s0 : World) (act sby rest : list loc) (s : World) : Prop := {
  pa_ready : ready (w_mu s) = act ++ sby ++ rest;
  pa_perm : ready (w_mu s) ≡ₚ ready (w_mu s0);
  pa_dead : dead (w_mu s) = dead (w_mu s0);
  pa_members : members (w_mu s) = members (w_mu s0);
  pa_act : Forall (active_conn s) act;
  pa_sby : Forall (standby_conn s) sby;
  pa_ident : forall c, ident (conn_at s c) = ident (conn_at s0 c) }.

Lemma index_middle (l1 : list loc) x l2 i : i = Z.of_nat (length l1) -> index (l1 ++ x :: l2) i = Some x.
Proof. intros ->. unfold index. rewrite (proj2 (Z.ltb_ge _ _)), Nat2Z.id by lia. by apply list_lookup_middle. Qed.

Lemma swap_at_middle (a : list loc) x b y c :
  swap_at (a ++ x :: b ++ y :: c) (Z.of_nat (length a + S (length b))) (Z.of_nat (length a)) = Some (a ++ y :: b ++ x :: c).
Proof.
  assert (E : a ++ x :: b ++ y :: c = (a ++ x :: b) ++ y :: c) by (by rewrite <- app_assoc).
  assert (Ei : index (a ++ x :: b ++ y :: c) (Z.of_nat (length a + S (length b))) = Some y).
  { rewrite E. apply index_middle. by rewrite length_app. }
  assert (Ej : index (a ++ x :: b ++ y :: c) (Z.of_nat (length a)) = Some x) by (by apply index_middle).
  unfold swap_at. rewrite Ei, Ej, !Nat2Z.id, E. f_equal.
  rewrite (insert_app_r_alt (a ++ x :: b)) by (rewrite length_app; cbn; lia).
  replace (length a + S (length b) - length (a ++ x :: b))%nat with 0%nat by (rewrite length_app; cbn; lia). cbn.
  rewrite <- app_assoc. cbn. rewrite insert_app_r_alt by lia. by rewrite Nat.sub_diag.
Qed.

(** The entry at the front of [rest] goes to the boundary. *)
Lemma wp_move_to_boundary s0 act sby x rest s (Q : World -> unit -> Prop) :
  partitioning s0 act sby (x :: rest) s -> active_conn s x ->
  (forall s' sby', partitioning s0 (act ++ [x]) sby' rest s' -> length sby' = length sby -> Q s' tt) ->
  wp (whenM (negb (Z.of_nat (length act + length sby) =? Z.of_nat (length act)))
        (swap_ready (Z.of_nat (length act + length sby)) (Z.of_nat (length act)))) Q s.
Proof.
  intros [Hr Hp Hd Hm Ha Hs Hi] Hx HQ. wp_step.
  - destruct sby as [| y sby]; [rewrite Nat.add_0_r, Z.eqb_refl in *; done |]. unfold swap_ready. wp_step.
    assert (Hsw : swap_at (ready (w_mu s)) (Z.of_nat (length act + length (y :: sby))) (Z.of_nat (length act)) =
      Some (act ++ x :: sby ++ y :: rest)).
    { rewrite Hr. exact (swap_at_middle act y sby x rest). }
    eapply wp_getsM; [exact Hsw |]. unfold upd_mu. wp_step. apply (HQ _ (sby ++ [y])).
    + split; cbn; try done.
      * by rewrite <- !app_assoc.
      * rewrite <- Hp. by apply swap_at_Permutation in Hsw.
      * apply Forall_app. by split; [| constructor].
      * inversion Hs; subst. apply Forall_app. by split; [| constructor].
    + rewrite length_app. cbn. lia.
  - assert (sby = []) as ->.
    { destruct sby; [done |]. exfalso. cbn [length] in *. rewrite (proj2 (Z.eqb_neq _ _)) in * by lia. done. }
    apply (HQ s []); [| done]. split; try done; [by rewrite Hr, <- app_assoc |]. apply Forall_app. by split; [| constructor].
Qed.

Lemma activated_active c r k :
  has (conn_lifecycle (conn_startWarmup (conn_cas c 0 lcActive (lcUnknown ||| lcStandby)).1 r k)) lcActive = true.
Proof.
  rewrite conn_startWarmup_lifecycle, conn_cas_lifecycle by lc_bits_const. rewrite has_lcActive, testbit_cas_next by lia.
  by rewrite orb_true_r.
Qed.

Lemma wp_place_entry s0 act sby x rest s :
  partitioning s0 act sby (x :: rest) s ->
  wp (place_entry (Z.of_nat (length act + length sby)) (Z.of_nat (length act)))
    (fun s' n => exists act' sby', partitioning s0 act' sby' rest s' /\ n = Z.of_nat (length act') /\
       (length act' + length sby' = S (length act + length sby))%nat) s.
Proof.
  intros Hp. pose proof Hp as [Hr Hperm Hd Hm Ha Hs Hi]. unfold place_entry. wp_step.
  eapply wp_getsM. { rewrite Hr, app_assoc. apply index_middle. by rewrite length_app. }
  do 2 wp_step. wp_step; [| wp_step].
  - wp_step. eapply wp_move_to_boundary; [exact Hp | done |]. intros s' sby' Hp' Hl. apply wp_ret.
    exists (act ++ [x]), sby'. rewrite length_app. cbn. split_and!; [done | lia | lia].
  - apply wp_ret. exists act, (sby ++ [x]). rewrite length_app. cbn. split_and!; [| done | lia].
    split; try done; [by rewrite <- app_assoc |]. apply Forall_app. split; [done |]. by constructor.
  - wp_step. apply wp_upd_conn. intros s1 Hc1 [_ Ho1] Hm1 _ _ _. do 3 wp_step.
    apply wp_upd_conn. intros s2 Hc2 [_ Ho2] Hm2 _ _ _. wp_step.
    assert (Hx : active_conn s2 x) by (unfold active_conn; rewrite Hc2, Hc1; apply activated_active).
    assert (Ho : forall c, c <> x -> conn_at s2 c = conn_at s c) by (intros c Hc; by rewrite Ho2, Ho1).
    assert (Hp2 : partitioning s0 act sby (x :: rest) s2).
    { split; rewrite ?Hm2, ?Hm1; try done.
      - eapply Forall_impl; [exact Ha |]. intros c Hc. destruct (decide (c = x)) as [-> | Hne]; [done |]. unfold active_conn. by rewrite Ho.
      - eapply Forall_impl; [exact Hs |]. intros c [H1 H2]. destruct (decide (c = x)) as [-> | Hne]; [congruence |].
        unfold standby_conn. by rewrite Ho.
      - intros c. destruct (decide (c = x)) as [-> | Hne]; [| by rewrite Ho]. rewrite Hc2, Hc1, <- Hi.
        apply conn_id_ident. rewrite startWarmup_id. apply cas_id. }
    eapply wp_move_to_boundary; [exact Hp2 | done |]. intros s' sby' Hp' Hl. apply wp_ret.
    exists (act ++ [x]), sby'. rewrite length_app. cbn. split_and!; [done | lia | lia].
Qed.

Lemma wp_partition_ready s0 rest : forall act sby s,
  partitioning s0 act sby rest s ->
  wp (partition_ready (length rest) (Z.of_nat (length act + length sby)) (Z.of_nat (length act)))
    (fun s' n => exists act' sby', partitioning s0 act' sby' [] s' /\ n = Z.of_nat (length act')) s.
Proof.
  induction rest as [| x rest IH]; intros act sby s Hp; cbn [length partition_ready]; [apply wp_ret; by exists act, sby |].
  wp_step. eapply wp_mono; [by apply (wp_place_entry s0 act sby x rest) |].
  intros s1 n (act' & sby' & Hp' & -> & Hl).
  replace (Z.of_nat (length act + length sby) + 1) with (Z.of_nat (length act' + length sby')) by lia. by apply IH.
Qed.

(** The pool after both sections, undisturbed. *)
Record swapped (ready0 dead0 : list loc) (s s' : World) : Prop := {
  sw_bounds : pool_bounds (w_mu s');
  sw_ready : ready (w_mu s') ≡ₚ ready0;
  sw_dead : dead (w_mu s') ≡ₚ dead0;
  sw_members : members_ok (w_mu s');
  sw_ident : forall c, ident (conn_at s' c) = ident (conn_at s c) }.

Lemma wp_partition_lists allReady allDead s0 s :
  installed allReady allDead s0 s ->
  wp (partition_lists allReady allDead) (fun s' _ => swapped allReady allDead s0 s' /\
    Forall (active_conn s') (active_part (w_mu s')) /\ Forall (standby_conn s') (standby_part (w_mu s'))) s.
Proof.
  intros [Hr Hd Hm Hn _ Hi]. unfold partition_lists. wp_step.
  assert (Hrec : forall n, wp (recalculateWarmupParamsWithLock n) (fun s1 _ => partitioning s [] [] allReady s1) s).
  { intros n. unfold recalculateWarmupParamsWithLock, upd_mu. do 4 wp_step; repeat wp_step; by split; cbn; rewrite ?Hr. }
  eapply wp_mono; [apply Hrec |]. intros s1 [] Hp1. wp_step.
  eapply wp_mono; [exact (wp_partition_ready s allReady [] [] s1 Hp1) |]. intros s2 n (act & sby & [Hr2 Hp2 Hd2 Hm2 Ha2 Hs2 Hi2] & ->).
  rewrite app_nil_r in Hr2. unfold upd_mu. wp_step.
  assert (Hl : lists act sby allDead (w_mu (with_mu s2 (mu_activeCount (w_mu s2) (Z.of_nat (length act)))))).
  { apply (lists_intro _ _ _ _ act sby); cbn; try done. by rewrite Hd2, Hd. }
  destruct (parts_of_split (mu_activeCount (w_mu s2) (Z.of_nat (length act))) act sby Hr2 eq_refl) as [E1 E2].
  split; [split | split]; cbn in *.
  - apply Hl.
  - by rewrite Hp2, Hr.
  - by rewrite Hd2, Hd.
  - intros c. cbn. rewrite Hm2, Hm. unfold held. cbn. rewrite elem_of_app, Hp2, Hr, Hd2, Hd. done.
  - intros c. change (ident (conn_at s2 c) = ident (conn_at s0 c)). by rewrite Hi2.
  - by rewrite E1.
  - by rewrite E2.
Qed.

(** ** Swapping the pool *)

Lemma wp_on_world {A} (m : M World A) t (Q : Transport -> A -> Prop) :
  wp m (fun s a => Q (MkTransport (t_pool t) s (t_minCores t)) a) (t_world t) -> wp (on_world m) Q t.
Proof. unfold wp, on_world. by destruct (m (t_world t)) as [[s a] |]. Qed.

Lemma wp_install_partition allReady allDead s :
  wp (install_lists allReady allDead ;;; partition_lists allReady allDead) (fun s' _ => swapped allReady allDead s s' /\
    Forall (active_conn s') (active_part (w_mu s')) /\ Forall (standby_conn s') (standby_part (w_mu s'))) s.
Proof. wp_step. eapply wp_mono; [apply wp_install_lists |]. intros s1 [] Hin. by apply wp_partition_lists. Qed.

Lemma demoted_ident O s s' c : demoted_conns O s s' -> ident (conn_at s' c) = ident (conn_at s c).
Proof.
  intros [Hd Ho]. destruct (decide (c ∈ O)) as [Hc | Hc]; [| by rewrite Ho]. destruct (Hd c Hc) as (_ & _ & w & ->). done.
Qed.

Lemma wp_enforce_swapped ready0 dead0 s0 s :
  swapped ready0 dead0 s0 s -> wp enforceActiveCapWithLock (fun s' _ => swapped ready0 dead0 s0 s') s.
Proof.
  intros [Hb Hr Hd Hm Hi]. pose proof (lists_self _ Hb) as Hl.
  destruct (wp_enforceActiveCap s _ _ _ Hl) as [Hno Htrim].
  destruct (decide (0 < activeListCap (w_mu s) < Z.of_nat (length (warmed s (active_part (w_mu s)))))) as [Hcap | Hcap].
  2: { unfold wp. by rewrite Hno by lia. }
  eapply wp_mono; [by apply Htrim |]. intros s2 _ (K & O & Hw & _ & Hl2 & Hcf & Hdem & _).
  assert (Hr2 : ready (w_mu s2) ≡ₚ ready (w_mu s)).
  { rewrite (lists_ready _ _ _ _ Hl2), (ready_parts (w_mu s)), <- app_assoc.
    rewrite (warm_partition s (active_part (w_mu s))) at 2. rewrite Hw. solve_Permutation. }
  assert (Hd2 : dead (w_mu s2) ≡ₚ dead (w_mu s)) by (by destruct Hl2 as (_ & _ & _ & ->)).
  injection Hcf as Hmem _ _ _ _ _ _ _ _ _. split.
  - apply Hl2.
  - by rewrite Hr2.
  - by rewrite Hd2.
  - intros c. rewrite Hmem, (Hm c). unfold held. by rewrite !elem_of_app, Hr2, Hd2.
  - intros c. by rewrite (demoted_ident _ _ _ _ Hdem).
Qed.

Lemma wp_promote cl readyConns deadConns s :
  wp (promoteConnectionPoolWithLock cl readyConns deadConns) (fun s' _ => swapped readyConns deadConns s s') s.
Proof.
  unfold promoteConnectionPoolWithLock. wp_step. eapply wp_mono; [apply wp_shuffle_conns |].
  intros s1 l [(Hmu1 & Hh1 & _) Hl]. unfold newMultiServerPoolFromClient, upd_mu. do 7 wp_step.
  set (s2 := with_mu _ _). assert (Hq2 : forall c, ident (conn_at s2 c) = ident (conn_at s c)).
  { intros c. unfold s2, conn_at. cbn. by rewrite Hh1. }
  eapply wp_mono.
  { apply wp_forM_quiet. intros c s' _. apply wp_upd_quiet. intros x. apply conn_id_ident, cas_id. }
  intros s3 [] [Hmu3 Hi3]. do 2 wp_step. apply wp_enforce_swapped. split; cbn; rewrite ?Hmu3; cbn; try done.
  - unfold pool_bounds. cbn. lia.
  - intros c. unfold held, members_of. cbn. by rewrite elem_of_list_to_set.
  - intros c. change (ident (conn_at s3 c) = ident (conn_at s c)). by rewrite Hi3.
Qed.

Lemma swapped_permuted ready0 ready1 dead0 s0 s1 s :
  ready1 ≡ₚ ready0 -> same_conns s0 s1 -> swapped ready1 dead0 s1 s -> swapped ready0 dead0 s0 s.
Proof.
  intros Hp (Hmu & Hh & _) [Hb Hr Hd Hm Hi]. split; [done | by rewrite Hr | done | done |].
  intros c. rewrite Hi. unfold conn_at. by rewrite Hh.
Qed.

(** The multi-server pool after the swap, from whatever pool there was. *)
Lemma wp_create_multi cl readyConns deadConns t :
  wp (createOrUpdateMultiNodePoolWithLock cl readyConns deadConns) (fun t' _ =>
    t_pool t' = MultiPool /\ swapped readyConns deadConns (t_world t) (t_world t') /\
    ((forall o, t_pool t <> SinglePool o) ->
       Forall (active_conn (t_world t')) (active_part (w_mu (t_world t'))) /\
       Forall (standby_conn (t_world t')) (standby_part (w_mu (t_world t'))))) t.
Proof.
  unfold createOrUpdateMultiNodePoolWithLock. do 3 wp_step.
  assert (Hfin : forall s0, same_conns (t_world t) s0 -> forall (Q : Transport -> unit -> Prop) l, l ≡ₚ readyConns ->
    (forall s', swapped readyConns deadConns (t_world t) s' -> Forall (active_conn s') (active_part (w_mu s')) ->
       Forall (standby_conn s') (standby_part (w_mu s')) -> Q (MkTransport (t_pool t) s' (t_minCores t)) tt) ->
    wp (install_lists l deadConns ;;; partition_lists l deadConns) (fun s' a => Q (MkTransport (t_pool t) s' (t_minCores t)) a) s0).
  { intros s0 Hs0 Q l Hl HQ. eapply wp_mono; [apply wp_install_partition |]. intros s' [] (Hsw & Ha & Hs).
    apply HQ; [| done | done]. by eapply swapped_permuted. }
  destruct (t_pool t) as [| o |] eqn:Ep; apply wp_on_world; rewrite ?Ep in *.
  - wp_step. eapply wp_mono; [apply wp_shuffle_conns |]. intros s1 l [Hs1 Hl]. unfold newMultiServerPoolFromClient. do 2 wp_step.
    eapply wp_mono; [apply wp_install_partition |]. intros s' [] (Hsw & Ha & Hs). unfold set_pool. wp_step. cbn.
    split_and!; [done | | done]. destruct Hs1 as (_ & Hh & _), Hsw as [Hb Hr Hd Hm Hi]. split; [done | by rewrite Hr | done | done |].
    intros c. rewrite Hi. unfold conn_at. cbn. by rewrite Hh.
  - eapply wp_mono; [apply wp_promote |]. intros s' [] Hsw. unfold set_pool. wp_step. cbn. split_and!; [done | done |].
    intros Hno. by destruct (Hno o).
  - wp_step. eapply wp_mono; [apply wp_shuffle_conns |]. intros s1 l [Hs1 Hl].
    apply (Hfin s1 Hs1 (fun t' _ => wp (set_pool MultiPool) _ t') l Hl). intros s' Hsw Ha Hs. unfold set_pool. wp_step. by cbn.
Qed.

(** ** After the swap *)

(** The lists and the positions of the connections stay. *)
Record settled (s s' : World) : Prop := {
  se_ready : ready (w_mu s') = ready (w_mu s);
  se_dead : dead (w_mu s') = dead (w_mu s);
  se_count : activeCount (w_mu s') = activeCount (w_mu s);
  se_members : members (w_mu s') = members (w_mu s);
  se_ident : forall c, ident (conn_at s' c) = ident (conn_at s c);
  se_active : forall c, active_conn s c -> active_conn s' c;
  se_standby : forall c, standby_conn s c -> standby_conn s' c }.

#[export] Instance settled_preorder : PreOrder settled.
Proof.
  split; [done |]. intros s1 s2 s3 [] []. split; try congruence; auto.
Qed.

Lemma wp_forM_settled {A} (l : list A) (body : A -> M World unit) s :
  (forall x s', wp (body x) (fun s'' _ => settled s' s'') s') -> wp (forM l body) (fun s' _ => settled s s') s.
Proof.
  intros Hb. apply (wp_forM l body (fun _ s' => settled s s')); [done |]. intros visited x rest s' _ Hq.
  eapply wp_mono; [by apply Hb |]. intros s'' [] H. etrans; [exact Hq | exact H].
Qed.

Lemma wp_schedule_settled c s : wp (scheduleResurrect c) (fun s' _ => settled s s') s.
Proof.
  apply wp_scheduleResurrect. intros s' Hc [_ Ho] Hm _ _.
  assert (Hbits : forall i, i <> 6 -> 0 <= i -> Z.testbit (conn_lifecycle (conn_at s' c)) i = Z.testbit (conn_lifecycle (conn_at s c)) i).
  { intros i Hi H0. rewrite Hc. unfold claimed. destruct (_ =? 0); [| done].
    rewrite conn_set_bit_lifecycle by lc_bits_const. rewrite testbit_cas_next by done.
    change (conn_lifecycle (set_checkStartedAt (conn_at s c) (w_now s))) with (conn_lifecycle (conn_at s c)).
    assert (Z.testbit lcHealthChecking i = false) as -> by (apply (Z.pow2_bits_false 6); lia).
    by rewrite orb_false_r, Z.bits_0, andb_true_r. }
  assert (Hlc : forall x, has (conn_lifecycle (conn_at s' x)) lcActive = has (conn_lifecycle (conn_at s x)) lcActive /\
    has (conn_lifecycle (conn_at s' x)) lcStandby = has (conn_lifecycle (conn_at s x)) lcStandby).
  { intros x. destruct (decide (x = c)) as [-> | Hne]; [| by rewrite Ho]. rewrite !has_lcActive, !has_lcStandby.
    split; apply Hbits; lia. }
  split; rewrite ?Hm; try done.
  - intros x. destruct (decide (x = c)) as [-> | Hne]; [| by rewrite Ho]. rewrite Hc. apply conn_id_ident, claimed_id.
  - intros x. unfold active_conn. by destruct (Hlc x) as [-> _].
  - intros x. unfold standby_conn. by destruct (Hlc x) as [-> ->].
Qed.

Lemma wp_probe_settled c s : wp (probe_unknown_rtt c) (fun s' _ => settled s s') s.
Proof. unfold probe_unknown_rtt, spawn. do 3 wp_step; [by wp_step | done]. Qed.

Lemma wp_after_swap finalReady finalDead t :
  wp (after_swap finalReady finalDead) (fun t' _ => t_pool t' = t_pool t /\ settled (t_world t) (t_world t')) t.
Proof.
  unfold after_swap. do 2 wp_step. destruct (t_pool t) eqn:Ep; [by apply wp_ret | by apply wp_ret |].
  apply wp_on_world. unfold upd_mu. do 3 wp_step. set (s1 := with_mu _ _).
  assert (H1 : settled (t_world t) s1) by done.
  eapply wp_mono; [apply wp_forM_settled, wp_schedule_settled |]. intros s2 [] H2.
  eapply wp_mono; [apply wp_forM_settled, wp_probe_settled |]. intros s3 [] H3. cbn. split; [done |].
  etrans; [exact H1 |]. etrans; [exact H2 | exact H3].
Qed.

(** * updateConnectionPool *)

(** The connections of [new], each once. *)
Definition values (new : gmap string loc) : list loc := (map_to_list new).*2.

Lemma values_in new c : c ∈ values new <-> exists url, new !! url = Some c.
Proof.
  unfold values. rewrite list_elem_of_fmap. split.
  - intros ([url x] & -> & Hin). exists url. by apply elem_of_map_to_list.
  - intros [url Hu]. exists (url, c). split; [done |]. by apply elem_of_map_to_list.
Qed.

Lemma values_NoDup s new : keyed s new -> NoDup (values new).
Proof.
  intros Hk. unfold values. apply NoDup_fmap_2_strong; [| apply NoDup_map_to_list].
  intros [u x] [v y] Hx%elem_of_map_to_list Hy%elem_of_map_to_list. cbn. intros ->.
  by rewrite <- (Hk _ _ Hx), <- (Hk _ _ Hy).
Qed.

(** Everything up to the swap leaves the lists alone. *)
Lemma wp_before_swap `{MapRange} h isReady new t (K : list loc * list loc -> M Transport topology) (Q : Transport -> topology -> Prop) :
  (forall final t', quiet (t_world t) (t_world t') -> t_pool t' = t_pool t -> final.1 ++ final.2 ≡ₚ values new -> wp (K final) Q t') ->
  wp (let* final := on_world (final_lists h isReady (range 2 new) ([], [])) in
      on_world (computeWeights (final.1 ++ final.2)) ;;;
      recalculateCapacityModel (final.1 ++ final.2) ;;;
      K final) Q t.
Proof.
  intros HK. wp_step. apply wp_on_world. eapply wp_mono; [apply wp_final_lists |]. intros s1 final [H1 Hf]. cbn in Hf.
  wp_step. apply wp_on_world. eapply wp_mono; [apply wp_computeWeights |]. intros s2 [] H2. cbn in *.
  wp_step. unfold recalculateCapacityModel, set_minCores. do 2 wp_step.
  assert (Hq : quiet (t_world t) s2) by (etrans; [exact H1 | exact H2]).
  assert (Hv : final.1 ++ final.2 ≡ₚ values new) by (rewrite Hf; unfold values; by rewrite (range_perm 2 new)).
  wp_step; wp_step; by apply HK.
Qed.

(** What a discovery update installs when it ends with several nodes. *)
Record discovered_pool (t : Transport) (new : gmap string loc) (t' : Transport) : Prop := {
  dp_pool : t_pool t' = MultiPool;
  dp_bounds : pool_bounds (w_mu (t_world t'));
  dp_members : members_ok (w_mu (t_world t'));
  dp_held : held (w_mu (t_world t')) ≡ₚ values new;
  dp_ident : forall c, ident (conn_at (t_world t') c) = ident (conn_at (t_world t) c);
  dp_active : (forall o, t_pool t <> SinglePool o) -> Forall (active_conn (t_world t')) (active_part (w_mu (t_world t')));
  dp_standby : (forall o, t_pool t <> SinglePool o) -> Forall (standby_conn (t_world t')) (standby_part (w_mu (t_world t'))) }.

Lemma settled_parts s s' : settled s s' -> active_part (w_mu s') = active_part (w_mu s) /\ standby_part (w_mu s') = standby_part (w_mu s).
Proof. intros [H1 _ H2 _ _ _ _]. unfold active_part, standby_part. by rewrite H1, H2. Qed.

Lemma wp_update_multi `{MapRange} cl h readyConns deadConns t current :
  connectionsByURL t = Some current ->
  let new := by_url (t_world t) (readyConns ++ deadConns) in
  size new <> 1%nat ->
  wp (updateConnectionPool cl h readyConns deadConns) (fun t' d => topology_ok current new d /\ discovered_pool t new t') t.
Proof.
  intros Hcur new Hsize. unfold updateConnectionPool. wp_step. eapply wp_getsM; [exact Hcur |]. do 4 wp_step.
  apply wp_before_swap. intros final t1 [Hmu1 Hi1] Hp1 Hf. fold new in Hf.
  assert (Hlen : (length final.1 + length final.2)%nat = size new).
  { rewrite <- length_app, (Permutation_length Hf). unfold values. by rewrite length_fmap, length_map_to_list. }
  wp_step. unfold swap_pool. rewrite Hlen, (proj2 (Nat.eqb_neq _ _) Hsize).
  eapply wp_mono; [apply wp_create_multi |]. intros t2 [] (Hp2 & Hsw & Hpart). wp_step.
  eapply wp_mono; [apply wp_after_swap |]. intros t3 [] [Hp3 Hse]. apply wp_ret. split; [apply topology_diff_ok |].
  destruct Hsw as [Hb Hr Hd Hm Hi], (settled_parts _ _ Hse) as [Ea Es]. rewrite Hp1 in Hpart. split.
  - congruence.
  - unfold pool_bounds in *. by rewrite (se_ready _ _ Hse), (se_count _ _ Hse).
  - intros c. unfold held. rewrite (se_members _ _ Hse), (se_ready _ _ Hse), (se_dead _ _ Hse). apply Hm.
  - unfold held. by rewrite (se_ready _ _ Hse), (se_dead _ _ Hse), Hr, Hd.
  - intros c. by rewrite (se_ident _ _ Hse), Hi, Hi1.
  - intros Hno. rewrite Ea. eapply Forall_impl; [by apply Hpart | apply (se_active _ _ Hse)].
  - intros Hno. rewrite Es. eapply Forall_impl; [by apply Hpart | apply (se_standby _ _ Hse)].
Qed.

(** With one node left: a multi-server pool keeps its own first entry,
    whatever was discovered. *)
Lemma wp_new_single c t (Q : Transport -> unit -> Prop) :
  (forall t', t_pool t' = SinglePool c -> Q t' tt) -> wp (new_single c) Q t.
Proof.
  intros HQ. unfold new_single, set_pool. wp_step. destruct c as [c |]; [| apply wp_ret; wp_step; by apply HQ].
  apply wp_on_world. eapply wp_mono; [by apply (wp_upd_conn c _ _ (fun _ _ => True)) |]. intros s' [] _. wp_step. by apply HQ.
Qed.

Lemma wp_update_single `{MapRange} cl h readyConns deadConns t current :
  connectionsByURL t = Some current ->
  let new := by_url (t_world t) (readyConns ++ deadConns) in
  size new = 1%nat ->
  wp (updateConnectionPool cl h readyConns deadConns) (fun t' d => topology_ok current new d /\
    match t_pool t with
    | MultiPool => t_pool t' = SinglePool (demote_choice (t_world t))
    | _ => exists c, values new = [c] /\ t_pool t' = SinglePool (Some c)
    end) t.
Proof.
  intros Hcur new Hsize. unfold updateConnectionPool. wp_step. eapply wp_getsM; [exact Hcur |]. do 4 wp_step.
  apply wp_before_swap. intros final t1 [Hmu1 Hi1] Hp1 Hf. fold new in Hf.
  assert (Hlen : (length final.1 + length final.2)%nat = 1%nat).
  { rewrite <- length_app, (Permutation_length Hf). unfold values. by rewrite length_fmap, length_map_to_list. }
  wp_step. unfold swap_pool. rewrite Hlen. cbn [Nat.eqb]. unfold createOrUpdateSingleNodePool, demoteConnectionPoolWithLock. do 2 wp_step.
  assert (Hend : forall t2 c, t_pool t2 = SinglePool c ->
    match t_pool t with MultiPool => c = demote_choice (t_world t) | _ => exists x, values new = [x] /\ c = Some x end ->
    wp (after_swap final.1 final.2 ;;; ret (topology_diff current new)) (fun t' d => topology_ok current new d /\
      match t_pool t with
      | MultiPool => t_pool t' = SinglePool (demote_choice (t_world t))
      | _ => exists c, values new = [c] /\ t_pool t' = SinglePool (Some c)
      end) t2).
  { intros t2 c Hp2 Hc. wp_step. eapply wp_mono; [apply wp_after_swap |]. intros t3 [] [Hp3 _]. apply wp_ret.
    split; [apply topology_diff_ok |]. rewrite Hp3, Hp2. destruct (t_pool t); [destruct Hc as (x & ? & ->) .. | by rewrite Hc]; by exists x. }
  assert (Hone : exists c, values new = [c] /\ match final.1 with [c] => Some c | _ => match final.2 with [c] => Some c | _ => None end end = Some c).
  { destruct final as [[| a [| ? ?]] [| b [| ? ?]]]; cbn in Hlen, Hf |- *; try lia; symmetry in Hf.
    - exists b. split; [by apply Permutation_singleton_r | done].
    - exists a. split; [by apply Permutation_singleton_r | done]. }
  destruct (t_pool t1) eqn:Ep; [| | do 2 wp_step]; apply wp_new_single; intros t2 Hp2; apply (Hend t2 _ Hp2); rewrite <- Hp1.
  - destruct Hone as (c & ? & ->). by exists c.
  - destruct Hone as (c & ? & ->). by exists c.
  - unfold demote_choice. by rewrite Hmu1.
Qed.

(** * nodeDiscovery *)

(** The pool's connections are allocated. *)
Definition closed (t : Transport) : Prop := forall c, c ∈ pool_conns t -> c ∈ dom (w_heap (t_world t)).

(** The pointer-identity contract: [ready] are connections of the pool whose
    node still matches, [fresh] are new ones for the other nodes. *)
Record resolved (k : Z) (current : gmap string loc) (nodes : list nodeInfo) (s s1 : World) (reused minted : list loc) : Prop := {
  rs_mu : w_mu s1 = w_mu s;
  rs_old : forall c, c ∈ dom (w_heap s) -> c ∈ dom (w_heap s1) /\ conn_at s1 c = conn_at s c;
  rs_reused : forall c, c ∈ reused -> exists node, node ∈ nodes /\ current !! ni_url node = Some c /\ canReuseConnection (conn_at s c) node = true;
  rs_minted : forall c, c ∈ minted -> c ∉ dom (w_heap s) /\ exists node, node ∈ nodes /\ conn_at s1 c = new_connection k node /\
    forall existing, current !! ni_url node = Some existing -> canReuseConnection (conn_at s existing) node = false;
  rs_all : forall node, node ∈ nodes -> exists c, c ∈ reused ++ minted /\ url_at s1 c = ni_url node;
  rs_alloc : forall c, c ∈ minted -> c ∈ dom (w_heap s1) }.

Lemma url_new_connection k node : c_URLString (new_connection k node) = ni_url node.
Proof. unfold new_connection. by destruct (ni_AllocatedProcessors node). Qed.

Lemma conn_at_insert s c x c' :
  conn_at (with_heap s (<[c := x]> (w_heap s))) c' = if decide (c' = c) then x else conn_at s c'.
Proof. unfold conn_at. cbn. case_decide as E; [subst; apply deref_insert | by apply deref_insert_ne]. Qed.

(** One more connection is minted. *)
Lemma resolved_mint k current nodes node s s1 acc :
  (forall url c, current !! url = Some c -> c ∈ dom (w_heap s)) ->
  resolved k current nodes s s1 acc.1 acc.2 ->
  (forall existing, current !! ni_url node = Some existing -> canReuseConnection (conn_at s existing) node = false) ->
  let c := fresh (dom (w_heap s1)) in
  resolved k current (nodes ++ [node]) s (with_heap s1 (<[c := new_connection k node]> (w_heap s1))) acc.1 (acc.2 ++ [c]).
Proof.
  intros Hdom [Hmu Hold Hreu Hmin Hall Halloc] Hno c. assert (Hc : c ∉ dom (w_heap s1)) by apply is_fresh.
  assert (Hne : forall x, x ∈ dom (w_heap s1) -> conn_at (with_heap s1 (<[c := new_connection k node]> (w_heap s1))) x = conn_at s1 x).
  { intros x Hx. rewrite conn_at_insert, decide_False; [done | by intros ->]. }
  split; cbn [w_heap with_heap]; try done.
  - intros x Hx. destruct (Hold x Hx) as [H1 H2]. split; [set_solver |]. by rewrite Hne.
  - intros x Hx. destruct (Hreu x Hx) as (n & ? & ?). exists n. split; [set_solver | done].
  - intros x [Hx | ->%list_elem_of_singleton]%elem_of_app.
    + destruct (Hmin x Hx) as (? & n & ? & ? & ?). split; [done |]. exists n. rewrite Hne by (by apply Halloc). split; [set_solver | done].
    + split; [intros H; by destruct (Hold c H) as [H1 _] |]. exists node. rewrite conn_at_insert, decide_True by done. split; [set_solver | done].
  - intros n [Hn | ->%list_elem_of_singleton]%elem_of_app.
    + destruct (Hall n Hn) as (x & Hx & Hu). exists x. split; [set_solver |]. unfold url_at in *.
      rewrite conn_at_insert. case_decide as E; [| done]. exfalso. subst x.
      apply elem_of_app in Hx as [Hx | Hx]; [| by apply Hc, Halloc].
      destruct (Hreu c Hx) as (m & _ & Hm & _). by apply Hc, (Hold c (Hdom _ _ Hm)).
    + exists c. split; [set_solver |]. unfold url_at. rewrite conn_at_insert, decide_True by done. apply url_new_connection.
  - intros x [Hx | ->%list_elem_of_singleton]%elem_of_app; [| set_solver]. pose proof (Halloc x Hx). set_solver.
Qed.

Lemma wp_resolve_nodes k current s nodes : keyed s current -> (forall url c, current !! url = Some c -> c ∈ dom (w_heap s)) ->
  wp (resolve_nodes k current nodes ([], [])) (fun s' r => resolved k current nodes s s' r.1 r.2) s.
Proof.
  intros Hk Hdom.
  assert (Hgen : forall rest done acc s1, nodes = done ++ rest -> resolved k current done s s1 acc.1 acc.2 ->
    wp (resolve_nodes k current rest acc) (fun s' r => resolved k current nodes s s' r.1 r.2) s1).
  2: { apply (Hgen nodes [] ([], []) s); [done |]. split; cbn; try done; intros c Hc; by apply elem_of_nil in Hc. }
  induction rest as [| node rest IH]; intros done acc s1 Hn Hres; cbn [resolve_nodes].
  { apply wp_ret. by rewrite app_nil_r in Hn; subst. }
  pose proof Hres as [Hmu Hold Hreu Hmin Hall Halloc]. wp_step. unfold resolve_node. do 2 wp_step.
  assert (Hnext : nodes = (done ++ [node]) ++ rest) by (by rewrite <- app_assoc).
  destruct (current !! ni_url node) as [x |] eqn:Ex; [destruct (canReuseConnection (conn_at s1 x) node) eqn:Er |].
  - apply wp_ret, (IH (done ++ [node])); [done |]. destruct (Hold x (Hdom _ _ Ex)) as [_ Hx]. split; cbn; try done.
    + intros c [Hc | ->%list_elem_of_singleton]%elem_of_app.
      * destruct (Hreu c Hc) as (n & ? & ?). exists n. split; [set_solver | done].
      * exists node. rewrite <- Hx. split; [set_solver | done].
    + intros c Hc. destruct (Hmin c Hc) as (? & n & ? & ?). split; [done |]. exists n. split; [set_solver | done].
    + intros n [Hin | ->%list_elem_of_singleton]%elem_of_app.
      * destruct (Hall n Hin) as (c & Hc & Hu). exists c. split; [set_solver | done].
      * exists x. split; [set_solver |]. unfold url_at. rewrite Hx. apply (Hk _ _ Ex).
  - assert (Hx : forall existing, current !! ni_url node = Some existing -> canReuseConnection (conn_at s existing) node = false).
    { intros y Hy. assert (y = x) as -> by congruence. by destruct (Hold x (Hdom _ _ Ex)) as [_ <-]. }
    unfold createConnection. wp_steps. apply (IH (done ++ [node])); [done |]. by apply (resolved_mint k current done node s s1 acc).
  - assert (Hx : forall existing, current !! ni_url node = Some existing -> canReuseConnection (conn_at s existing) node = false) by congruence.
    unfold createConnection. wp_steps. apply (IH (done ++ [node])); [done |]. by apply (resolved_mint k current done node s s1 acc).
Qed.

Lemma pool_conns_ext t t' : t_pool t' = t_pool t -> w_mu (t_world t') = w_mu (t_world t) -> pool_conns t' = pool_conns t.
Proof. intros Hp Hm. unfold pool_conns. by rewrite Hp, Hm. Qed.

Lemma find_ext_in (f g : loc -> bool) l : (forall x, x ∈ l -> f x = g x) -> find f l = find g l.
Proof.
  intros H. induction l as [| x l IH]; [done |]. cbn. rewrite (H x) by set_solver. destruct (g x); [done |].
  apply IH. intros y Hy. apply H. set_solver.
Qed.

Lemma connectionsByURL_kept t t' current :
  connectionsByURL t = Some current -> t_pool t' = t_pool t -> w_mu (t_world t') = w_mu (t_world t) ->
  (forall c, c ∈ pool_conns t -> conn_at (t_world t') c = conn_at (t_world t) c) -> connectionsByURL t' = Some current.
Proof.
  intros Hc Hp Hm Hat. assert (exists current', connectionsByURL t' = Some current') as [current' Hc'].
  { unfold connectionsByURL, pool_URLs, single_URLs in *. rewrite Hp. destruct (t_pool t) as [| [c |] |]; [by eexists | by eexists | done | by eexists]. }
  rewrite Hc'. f_equal. apply map_eq. intros url.
  rewrite (connectionsByURL_spec _ _ _ Hc'), (connectionsByURL_spec _ _ _ Hc), (pool_conns_ext _ _ Hp Hm).
  apply find_ext_in. intros c Hin. unfold url_at. by rewrite Hat.
Qed.

(** nodeDiscovery up to the update. *)
Lemma wp_nodeDiscovery `{MapRange} cl nodes t current (Q : Transport -> topology -> Prop) :
  connectionsByURL t = Some current -> closed t ->
  (forall t1 reused minted, t_pool t1 = t_pool t -> connectionsByURL t1 = Some current ->
     resolved (cl_rttRingSize cl) current nodes (t_world t) (t_world t1) reused minted ->
     wp (updateConnectionPool cl 0 reused minted) Q t1) ->
  wp (nodeDiscovery cl nodes) Q t.
Proof.
  intros Hcur Hcl HQ. unfold nodeDiscovery. wp_step. eapply wp_getsM; [exact Hcur |]. wp_step. apply wp_on_world.
  eapply wp_mono; [apply wp_resolve_nodes |].
  - by apply connectionsByURL_keyed.
  - intros url c Hc. apply Hcl. by eapply connectionsByURL_in.
  - intros s1 [reused minted] Hres. cbn in Hres. apply HQ; [done | | done].
    eapply connectionsByURL_kept; [exact Hcur | done | apply (rs_mu _ _ _ _ _ _ _ Hres) |].
    intros c Hc. apply (rs_old _ _ _ _ _ _ _ Hres). by apply Hcl.
Qed.

(** The connection stands for the node. *)
Definition describes (conn : Connection) (node : nodeInfo) : Prop :=
  c_URLString conn = ni_url node /\ c_ID conn = ni_ID node /\ c_Name conn = ni_Name node /\
  roleSet_toSlice (c_Roles conn) = roleSet_toSlice (newRoleSet (ni_Roles node)).

Lemma describes_ident conn conn' node : ident conn = ident conn' -> describes conn node -> describes conn' node.
Proof. intros Hi (H1 & H2 & H3 & H4). injection Hi as E1 E2 E3 E4 _ _. unfold describes. by rewrite <- E1, <- E2, <- E3, <- E4. Qed.

Lemma new_connection_describes k node : describes (new_connection k node) node.
Proof. unfold describes, new_connection. by destruct (ni_AllocatedProcessors node). Qed.

Lemma canReuse_describes conn node : c_URLString conn = ni_url node -> canReuseConnection conn node = true -> describes conn node.
Proof.
  intros Hu. unfold canReuseConnection. destruct (String.eqb_spec (c_ID conn) (ni_ID node)); [| done].
  destruct (String.eqb_spec (c_Name conn) (ni_Name node)); [| done]. cbn [negb]. intros Hr%bool_decide_eq_true. by split_and!.
Qed.

(** The connections the update starts from: one per discovered URL, reused
    from the pool or minted. *)
Lemma resolved_by_url k current nodes s s1 reused minted :
  keyed s current -> (forall url c, current !! url = Some c -> c ∈ dom (w_heap s)) ->
  resolved k current nodes s s1 reused minted ->
  let new := by_url s1 (reused ++ minted) in
  dom new = list_to_set (ni_url <$> nodes) /\
  forall url c, new !! url = Some c -> exists node, node ∈ nodes /\ ni_url node = url /\ describes (conn_at s1 c) node /\
    (current !! url = Some c /\ c ∈ dom (w_heap s) \/
     c ∉ dom (w_heap s) /\ forall existing, current !! url = Some existing -> canReuseConnection (conn_at s existing) node = false).
Proof.
  intros Hk Hdom [Hmu Hold Hreu Hmin Hall Halloc] new.
  assert (Hone : forall url c, new !! url = Some c -> exists node, node ∈ nodes /\ ni_url node = url /\ describes (conn_at s1 c) node /\
    (current !! url = Some c /\ c ∈ dom (w_heap s) \/
     c ∉ dom (w_heap s) /\ forall existing, current !! url = Some existing -> canReuseConnection (conn_at s existing) node = false)).
  { intros url c Hc. apply by_url_some in Hc as [[Hc | Hc]%elem_of_app Hu].
    - destruct (Hreu c Hc) as (node & Hin & Hcur & Hcan). pose proof (Hdom _ _ Hcur) as Hd. destruct (Hold c Hd) as [_ Hat].
      exists node. assert (ni_url node = url) as En by (rewrite <- (Hk _ _ Hcur), <- Hu; unfold url_at; by rewrite Hat).
      split_and!; [done | done | | left; by rewrite <- En]. rewrite Hat. apply canReuse_describes; [| done].
      rewrite En, <- Hu. unfold url_at. by rewrite Hat.
    - destruct (Hmin c Hc) as (Hnd & node & Hin & Hat & Hno). exists node.
      assert (ni_url node = url) as En by (rewrite <- Hu; unfold url_at; rewrite Hat; symmetry; apply url_new_connection).
      split_and!; [done | done | rewrite Hat; apply new_connection_describes | right]. split; [done |]. by rewrite <- En. }
  split; [| done]. apply set_eq. intros url. rewrite elem_of_dom, elem_of_list_to_set, list_elem_of_fmap. split.
  - intros [c Hc]. destruct (Hone url c Hc) as (node & ? & ? & _). by exists node.
  - intros (node & -> & Hin). destruct (Hall node Hin) as (c & Hc & Hu). rewrite <- Hu.
    destruct (by_url_is_Some s1 (reused ++ minted) c Hc) as [c' Hc']. by exists c'.
Qed.

(** * Theorems *)

(** What a discovery of several nodes leaves, [current] being the connections
    of the old pool by URL. *)
Record discovery_post (current : gmap string loc) (nodes : list nodeInfo) (t t' : Transport) (d : topology) : Prop := {
  po_pool : t_pool t' = MultiPool;
  po_bounds : pool_bounds (w_mu (t_world t'));
  po_members : members_ok (w_mu (t_world t'));
  po_once : NoDup (url_at (t_world t') <$> held (w_mu (t_world t')));
  po_covers : forall node, node ∈ nodes -> ni_url node ∈ url_at (t_world t') <$> held (w_mu (t_world t'));
  po_describes : forall c, c ∈ held (w_mu (t_world t')) -> exists node, node ∈ nodes /\ describes (conn_at (t_world t') c) node;
  po_reuse : forall url c, current !! url = Some c -> url ∈ ni_url <$> nodes ->
    (forall node, node ∈ nodes -> ni_url node = url -> canReuseConnection (conn_at (t_world t) c) node = true) ->
    c ∈ held (w_mu (t_world t'));
  po_replace : forall url c, current !! url = Some c ->
    (forall node, node ∈ nodes -> ni_url node = url -> canReuseConnection (conn_at (t_world t) c) node = false) ->
    c ∉ held (w_mu (t_world t'));
  po_added : forall c, c ∈ added d <-> c ∈ held (w_mu (t_world t')) /\ c ∉ values current;
  po_removed : forall c, c ∈ removed d <-> c ∈ values current /\ c ∉ held (w_mu (t_world t'));
  po_unchanged : forall c, c ∈ unchanged d <-> c ∈ values current /\ c ∈ held (w_mu (t_world t'));
  po_active : (forall o, t_pool t <> SinglePool o) -> Forall (active_conn (t_world t')) (active_part (w_mu (t_world t')));
  po_standby : (forall o, t_pool t <> SinglePool o) -> Forall (standby_conn (t_world t')) (standby_part (w_mu (t_world t'))) }.

Lemma keyed_values s m url c : keyed s m -> c ∈ values m -> url = url_at s c -> m !! url = Some c.
Proof. intros Hk [u Hu]%values_in ->. by rewrite (Hk _ _ Hu). Qed.

(** The difference in terms of the two pools. *)
Lemma topology_values s current new d : keyed s current -> keyed s new -> topology_ok current new d ->
  forall c, (c ∈ added d <-> c ∈ values new /\ c ∉ values current) /\ (c ∈ removed d <-> c ∈ values current /\ c ∉ values new) /\
    (c ∈ unchanged d <-> c ∈ values current /\ c ∈ values new).
Proof.
  intros Hk Hn [Ha Hr Hu] c. rewrite Ha, Hr, Hu.
  assert (Hoff : forall m1 m2 : gmap string loc, keyed s m1 -> keyed s m2 ->
    (exists url, m1 !! url = Some c /\ m2 !! url <> Some c) <-> c ∈ values m1 /\ c ∉ values m2).
  { intros m1 m2 H1 H2. split.
    - intros (url & Hc & Hne). split; [apply values_in; by exists url |]. intros Hin. apply Hne.
      apply (keyed_values s); [done .. | symmetry; by apply H1].
    - intros [[url Hc]%values_in Hni]. exists url. split; [done |]. intros Hc2. apply Hni, values_in. by exists url. }
  split_and!; [by apply Hoff | by apply Hoff |]. split.
  - intros (url & H1 & H2). split; apply values_in; by exists url.
  - intros [Hc [url Hn2]%values_in]. exists url. split; [done |]. apply (keyed_values s); [done .. | symmetry; by apply Hn].
Qed.

Lemma discovery_post_intro k current nodes t t1 t2 reused minted d :
  t_pool t1 = t_pool t -> connectionsByURL t1 = Some current -> keyed (t_world t) current ->
  (forall url c, current !! url = Some c -> c ∈ dom (w_heap (t_world t))) ->
  resolved k current nodes (t_world t) (t_world t1) reused minted ->
  let new := by_url (t_world t1) (reused ++ minted) in
  topology_ok current new d -> discovered_pool t1 new t2 -> discovery_post current nodes t t2 d.
Proof.
  intros Hp1 Hcur1 Hk Hdom Hres new Htop [Hp2 Hb2 Hm2 Hh2 Hi2 Ha2 Hs2].
  destruct (resolved_by_url _ _ _ _ _ _ _ Hk Hdom Hres) as [Hd Hnew]. fold new in Hd, Hnew.
  assert (Hkn : keyed (t_world t1) new) by apply keyed_by_url.
  assert (Hin : forall c, c ∈ held (w_mu (t_world t2)) <-> exists url, new !! url = Some c) by (intros c; by rewrite Hh2, values_in).
  assert (Hurl : forall c, url_at (t_world t2) c = url_at (t_world t1) c) by (intros c; apply ident_url, Hi2).
  assert (Htv := topology_values (t_world t1) current new d (connectionsByURL_keyed _ _ Hcur1) Hkn Htop).
  assert (Hval : forall c, c ∈ held (w_mu (t_world t2)) <-> c ∈ values new) by (intros c; by rewrite Hh2).
  split; try done.
  - rewrite Hh2. apply NoDup_fmap_2_strong; [| by eapply values_NoDup]. intros x y [u Hu]%values_in [v Hv]%values_in.
    rewrite !Hurl, (Hkn _ _ Hu), (Hkn _ _ Hv). intros ->. congruence.
  - intros node Hn. assert (ni_url node ∈ dom new) as [c Hc]%elem_of_dom.
    { rewrite Hd, elem_of_list_to_set, list_elem_of_fmap. by exists node. }
    apply list_elem_of_fmap. exists c. split; [rewrite Hurl; symmetry; by apply Hkn | apply Hin; by exists (ni_url node)].
  - intros c [url Hc]%Hin. destruct (Hnew url c Hc) as (node & ? & _ & Hdes & _). exists node. split; [done |].
    by eapply describes_ident; [symmetry; apply Hi2 |].
  - intros url c Hc Hu Hcan. assert (url ∈ dom new) as [c' Hc']%elem_of_dom by (by rewrite Hd, elem_of_list_to_set).
    destruct (Hnew url c' Hc') as (node & Hn & Hun & _ & [[Heq _] | [_ Hno]]).
    + apply Hin. exists url. congruence.
    + specialize (Hcan node Hn Hun). by rewrite (Hno c Hc) in Hcan.
  - intros url c Hc Hcan [u Hu]%Hin.
    assert (u = url) as -> by (rewrite <- (Hkn _ _ Hu); apply (connectionsByURL_keyed _ _ Hcur1 _ _ Hc)).
    apply by_url_some in Hu as [[Hu | Hu]%elem_of_app Huc].
    + destruct (rs_reused _ _ _ _ _ _ _ Hres c Hu) as (node & Hn & Hcn & Htrue).
      assert (ni_url node = url) as En by (rewrite <- (Hk _ _ Hcn); by apply Hk). by rewrite (Hcan node Hn En) in Htrue.
    + by apply (rs_minted _ _ _ _ _ _ _ Hres c Hu), (Hdom url).
  - intros c. rewrite Hval. apply Htv.
  - intros c. rewrite Hval. apply Htv.
  - intros c. rewrite Hval. apply Htv.
  - by rewrite <- Hp1.
  - by rewrite <- Hp1.
Qed.

(** C17: A discovery installs the cluster it found. From any pool (none, a
    single server, several), when the discovered nodes have other than one URL
    between them: nothing panics; the new pool is a multiServerPool whose
    boundary is in range and whose member map is its entries; it holds exactly
    one connection per discovered URL, which carries a discovered node's
    identity; a connection of the old pool is kept when the nodes at its URL
    have its ID, name and roles, and is dropped when none has; the router is
    told the difference of the two pools; and, unless the old pool was a single
    server, the active partition holds active connections only and the standby
    partition standby ones only. *)
Theorem discovery_installs `{MapRange} cl nodes t :
  t_pool t <> SinglePool None -> closed t -> size (list_to_set (ni_url <$> nodes) : gset string) <> 1%nat ->
  exists current, connectionsByURL t = Some current /\
    wp (nodeDiscovery cl nodes) (fun t' d => discovery_post current nodes t t' d) t.
Proof.
  intros Hpool Hcl Hsize.
  assert (exists current, connectionsByURL t = Some current) as [current Hcur].
  { unfold connectionsByURL, pool_URLs, single_URLs. destruct (t_pool t) as [| [c |] |]; [by eexists | by eexists | done | by eexists]. }
  exists current. split; [done |]. apply (wp_nodeDiscovery cl nodes t current); [done .. |].
  intros t1 reused minted Hp1 Hcur1 Hres.
  assert (Hk : keyed (t_world t) current) by (by apply connectionsByURL_keyed).
  assert (Hdom : forall url c, current !! url = Some c -> c ∈ dom (w_heap (t_world t))).
  { intros url c Hc. apply Hcl. by eapply connectionsByURL_in. }
  destruct (resolved_by_url _ _ _ _ _ _ _ Hk Hdom Hres) as [Hd Hnew]. set (new := by_url (t_world t1) (reused ++ minted)) in *.
  eapply wp_mono; [apply (wp_update_multi cl 0 reused minted t1 current Hcur1) |].
  { fold new. by rewrite <- size_dom, Hd. }
  fold new. intros t2 d [Htop [Hp2 Hb2 Hm2 Hh2 Hi2 Ha2 Hs2]]. by eapply discovery_post_intro.
Qed.

Lemma url_removed_in s removed r c : r ∈ removed -> url_at s r = url_at s c -> url_removed s removed c = true.
Proof.
  intros Hr He. unfold url_removed. apply existsb_exists. exists r. split; [by apply list_elem_of_In | by apply String.eqb_eq].
Qed.

(** An update that removes a connection leaves none at its URL. *)
Lemma synced_gone admits added removed p p' r :
  synced admits added removed p p' -> r ∈ removed -> url_at p r ∉ url_at p' <$> held (w_mu p').
Proof.
  intros [_ Hr Hd _ Hid] Hin (c & Hc & Hh)%list_elem_of_fmap.
  assert (Hurl : url_at p' c = url_at p c) by (apply ident_url, conn_id_ident, Hid). rewrite Hurl in Hc.
  assert (Hf : url_removed p removed c = false).
  { unfold held in Hh. apply elem_of_app in Hh as [Hh | Hh]; rewrite ?Hr, ?Hd in Hh; by apply list_elem_of_filter in Hh as [Hh _]. }
  by rewrite (url_removed_in p removed r c Hin Hc) in Hf.
Qed.

(** A node replaced at its URL is lost to the routing policies. If the pool
    has a connection at a discovered URL and no node discovered there keeps its
    ID, name and roles (a restarted node, or a seed connection, which has none
    of them), the router is told to remove the old connection and to add a new
    one at the same URL; every policy then adds the new one and removes by URL
    string, so that its pool ends with no connection at that URL, neither the
    old nor the new. Since the transport's own pool keeps the new connection,
    later discoveries report it as unchanged. *)
Theorem replaced_node_dropped `{MapRange} cl nodes t current url old key :
  connectionsByURL t = Some current -> closed t -> size (list_to_set (ni_url <$> nodes) : gset string) <> 1%nat ->
  current !! url = Some old -> url ∈ ni_url <$> nodes ->
  (forall node, node ∈ nodes -> ni_url node = url -> canReuseConnection (conn_at (t_world t) old) node = false) ->
  wp (nodeDiscovery cl nodes) (fun t' d =>
    old ∈ removed d /\ (exists c, c ∈ added d /\ url_at (t_world t') c = url) /\
    forall p, w_heap p = w_heap (t_world t') -> pool_bounds (w_mu p) -> members_ok (w_mu p) ->
      let gone p' (_ : unit) := url ∉ url_at p' <$> held (w_mu p') in
      wp (roundRobin_update (Some (added d)) (Some (removed d))) gone p /\
      wp (coordinator_update (Some (added d)) (Some (removed d))) gone p /\
      wp (role_update key (Some (added d)) (Some (removed d))) gone p) t.
Proof.
  intros Hcur Hcl Hsize Hold Hurl Hno.
  assert (Hdom : forall url c, current !! url = Some c -> c ∈ dom (w_heap (t_world t))).
  { intros u c Hc. apply Hcl. by eapply connectionsByURL_in. }
  assert (Hk : keyed (t_world t) current) by (by apply connectionsByURL_keyed).
  apply (wp_nodeDiscovery cl nodes t current); [done .. |]. intros t1 reused minted Hp1 Hcur1 Hres.
  destruct (resolved_by_url _ _ _ _ _ _ _ Hk Hdom Hres) as [Hd _].
  eapply wp_mono; [apply (wp_update_multi cl 0 reused minted t1 current Hcur1); by rewrite <- size_dom, Hd |].
  intros t2 d [Htop Hpool]. pose proof (dp_ident _ _ _ Hpool) as Hid.
  pose proof (discovery_post_intro _ _ _ _ _ _ _ _ _ Hp1 Hcur1 Hk Hdom Hres Htop Hpool) as Hpost.
  assert (Hrem : old ∈ removed d).
  { apply (po_removed _ _ _ _ _ Hpost). split; [apply values_in; by exists url |]. by apply (po_replace _ _ _ _ _ Hpost url). }
  split; [done |]. split.
  - apply list_elem_of_fmap in Hurl as (node & -> & Hn).
    pose proof (po_covers _ _ _ _ _ Hpost node Hn) as (c & Hc & Hh)%list_elem_of_fmap. exists c. split; [| done].
    apply (po_added _ _ _ _ _ Hpost). split; [done |]. intros [u Hu]%values_in.
    assert (Hk1 := connectionsByURL_keyed _ _ Hcur1). pose proof (Hk1 _ _ Hu) as Hu1. rewrite <- (ident_url _ _ _ (Hid c)), <- Hc in Hu1. subst u.
    assert (c = old) as -> by congruence. by apply (po_replace _ _ _ _ _ Hpost (ni_url node) old).
  - intros p Hheap Hb Hm gone.
    assert (Hpu : url_at p old = url).
    { rewrite <- (connectionsByURL_keyed _ _ Hcur1 _ _ Hold), <- (ident_url _ _ _ (Hid old)). unfold url_at, conn_at. by rewrite Hheap. }
    assert (Hgone : forall admits p', synced admits (added d) (removed d) p p' -> gone p' tt).
    { intros admits p' Hsy. unfold gone. rewrite <- Hpu. by eapply synced_gone. }
    split_and!; [eapply wp_mono; [by apply wp_roundRobin_update |] | eapply wp_mono; [by apply wp_coordinator_update |]
      | eapply wp_mono; [by apply wp_role_update |]]; intros p' [] Hsy; by eapply Hgone.
Qed.

(** With one node left, a multi-server pool becomes a single-server pool of its
    own first entry, ready or else dead, whatever was discovered: when another
    node remains, the pool serves a connection the discovery has just reported
    as removed; with no entries it has none, and the next discovery
    dereferences nil. *)
Theorem demotion_keeps_departed `{MapRange} cl nodes t current :
  t_pool t = MultiPool -> connectionsByURL t = Some current -> closed t ->
  size (list_to_set (ni_url <$> nodes) : gset string) = 1%nat ->
  wp (nodeDiscovery cl nodes) (fun t' d =>
    t_pool t' = SinglePool (head (held (w_mu (t_world t)))) /\
    (forall c, head (held (w_mu (t_world t))) = Some c -> url_at (t_world t) c ∉ ni_url <$> nodes -> c ∈ removed d) /\
    (held (w_mu (t_world t)) = [] -> forall more, nodeDiscovery cl more t' = None)) t.
Proof.
  intros Hp Hcur Hcl Hsize.
  assert (Hdom : forall url c, current !! url = Some c -> c ∈ dom (w_heap (t_world t))).
  { intros u c Hc. apply Hcl. by eapply connectionsByURL_in. }
  assert (Hk : keyed (t_world t) current) by (by apply connectionsByURL_keyed).
  apply (wp_nodeDiscovery cl nodes t current); [done .. |]. intros t1 reused minted Hp1 Hcur1 Hres.
  destruct (resolved_by_url _ _ _ _ _ _ _ Hk Hdom Hres) as [Hd _].
  eapply wp_mono; [apply (wp_update_single cl 0 reused minted t1 current Hcur1); by rewrite <- size_dom, Hd |].
  rewrite Hp1, Hp. intros t2 d [Htop Hpool].
  assert (Hch : demote_choice (t_world t1) = head (held (w_mu (t_world t)))).
  { unfold demote_choice, held. rewrite (rs_mu _ _ _ _ _ _ _ Hres). by destruct (ready _); [destruct (dead _) |]. }
  rewrite Hch in Hpool. split; [done |]. split.
  - intros c Hc Hni. apply (to_removed _ _ _ Htop).
    assert (Hin : c ∈ pool_conns t).
    { unfold pool_conns. rewrite Hp. destruct (held _); [done |]. injection Hc as ->. set_solver. }
    exists (url_at (t_world t) c). split.
    + rewrite (connectionsByURL_spec _ _ _ Hcur). unfold pool_conns in *. rewrite Hp in *. destruct (held _) as [| x l]; [done |].
      injection Hc as ->. cbn. by rewrite String.eqb_refl.
    + intros Hnew. apply Hni. apply elem_of_dom_2 in Hnew. by rewrite Hd, elem_of_list_to_set in Hnew.
  - intros Hnil more. rewrite Hnil in Hpool. unfold nodeDiscovery, bind, getsM, connectionsByURL, pool_URLs. by rewrite Hpool.
Qed.

(** Between the two critical sections that install the lists the boundary is
    the old one: with fewer ready connections than were active it lies outside
    the list, and a request that selects there panics. *)
Theorem swap_window_panics allReady allDead s :
  w_selector s = None -> Z.of_nat (length allReady) < activeCount (w_mu s) < 2 ^ 63 ->
  wp (install_lists allReady allDead) (fun s' _ => ~ pool_bounds (w_mu s') /\
    exists n, 0 <= n < activeCount (w_mu s) /\ getNextActiveConnWithLock (with_nextReady s' n) = None) s.
Proof.
  intros Hsel Hlen. eapply wp_mono; [apply wp_install_lists |]. intros s' [] [Hr _ _ Hn [Hs _] _].
  split; [unfold pool_bounds; rewrite Hr, Hn; lia |]. exists (activeCount (w_mu s) - 1). split; [lia |].
  unfold getNextActiveConnWithLock, bind, gets, modify, getsM. cbn [w_selector with_nextReady]. rewrite Hs, Hsel. cbn.
  rewrite Hn, Hr, (proj2 (Z.eqb_neq _ _)) by lia.
  replace (activeCount (w_mu s) - 1 + 1) with (activeCount (w_mu s)) by lia.
  rewrite (wrap64_id (activeCount (w_mu s))), (wrap64_id (activeCount (w_mu s) - 1)) by (unfold int64_range; lia). unfold index. rewrite Z.rem_small by lia.
  rewrite (proj2 (Z.ltb_ge _ _)) by lia. rewrite lookup_ge_None_2 by lia. done.
Qed.

(** * A concrete discovery *)

(** Three connections: a seed at n0, and the nodes n1 and n2. The cluster is
    n0, n1 as before, and n3; n2 left. *)
Definition ex_seed (url : string) : Connection :=
  MkConnection url "" "" ∅ 1 0 (Some (newRTTRing 4)) pr_zero 0 (newConnState (lcReady ||| lcActive ||| lcViable)) 0 0 0 0 false.
Definition ex_discovery_heap : heap :=
  {[ 0%nat := ex_seed "http://n0:9200";
     1%nat := ex_data_node "http://n1:9200" (lcReady ||| lcActive ||| lcViable) 1;
     2%nat := ex_data_node "http://n2:9200" (lcReady ||| lcActive ||| lcViable) 1 ]}.
Definition ex_discovery_world : World :=
  MkWorld ex_discovery_heap (MkPoolMu [0; 1; 2]%nat [] 3 (list_to_set [0; 1; 2]%nat) 3 8 16 true)
    None 0 None 3 (MkCounters 0 0 0 0 0) None 100 [5; 2; 9] [].
Definition ex_transport : Transport := MkTransport MultiPool ex_discovery_world None.
Definition ex_client : Client := MkClient 0 None 3 true true 4.
Definition ex_data_info (url : string) : nodeInfo := MkNode url url url ["data"%string] (Some 8) [].
Definition ex_discovered : list nodeInfo :=
  [ex_data_info "http://n0:9200"; ex_data_info "http://n1:9200"; ex_data_info "http://n3:9200"].
Definition ex_current : gmap string loc :=
  {[ "http://n0:9200"%string := 0%nat; "http://n1:9200"%string := 1%nat; "http://n2:9200"%string := 2%nat ]}.

Definition transport_after (r : option (Transport * topology)) : option (list loc * list loc * (list loc * list loc * list loc)) :=
  match r with
  | Some (t, d) => Some (ready (w_mu (t_world t)), dead (w_mu (t_world t)), (added d, removed d, unchanged d))
  | None => None
  end.

Lemma ex_transport_ok : connectionsByURL ex_transport = Some ex_current /\ closed ex_transport /\
  size (list_to_set (ni_url <$> ex_discovered) : gset string) <> 1%nat.
Proof.
  split; [vm_compute; reflexivity |]. split; [| vm_compute; discriminate].
  intros c Hc. change (c ∈ [0; 1; 2]%nat) in Hc. rewrite !elem_of_cons, elem_of_nil in Hc.
  destruct Hc as [-> | [-> | [-> | []]]]; apply (bool_decide_unpack _); vm_compute; exact I.
Qed.

Lemma discovery_installs_witness :
  transport_after (nodeDiscovery ex_client ex_discovered ex_transport) = Some ([1]%nat, [4; 3]%nat, ([4; 3]%nat, [0; 2]%nat, [1]%nat)) /\
  exists current, connectionsByURL ex_transport = Some current /\
    wp (nodeDiscovery ex_client ex_discovered) (fun t' d => discovery_post current ex_discovered ex_transport t' d) ex_transport.
Proof.
  split; [vm_compute; reflexivity |]. destruct ex_transport_ok as (_ & Hcl & Hs).
  apply (discovery_installs ex_client ex_discovered ex_transport); [discriminate | exact Hcl | exact Hs].
Defined.

(** The round-robin pool had n0, n1 and n2; it is told of n0 and n3, and ends
    with n1 and n3 only. *)
Definition ex_policy_after : option (list loc * Z * list loc) :=
  match nodeDiscovery ex_client ex_discovered ex_transport with
  | Some (t, d) =>
    lists_after (roundRobin_update (Some (added d)) (Some (removed d)) (with_mu (t_world t) (w_mu ex_discovery_world)))
  | None => None
  end.

Lemma replaced_node_dropped_witness :
  ex_policy_after = Some ([1]%nat, 1, [4]%nat) /\
  wp (nodeDiscovery ex_client ex_discovered) (fun t' d =>
    0%nat ∈ removed d /\ (exists c, c ∈ added d /\ url_at (t_world t') c = "http://n0:9200"%string) /\
    forall p, w_heap p = w_heap (t_world t') -> pool_bounds (w_mu p) -> members_ok (w_mu p) ->
      let gone p' (_ : unit) := "http://n0:9200"%string ∉ url_at p' <$> held (w_mu p') in
      wp (roundRobin_update (Some (added d)) (Some (removed d))) gone p /\
      wp (coordinator_update (Some (added d)) (Some (removed d))) gone p /\
      wp (role_update "data" (Some (added d)) (Some (removed d))) gone p) ex_transport.
Proof.
  split; [vm_compute; reflexivity |]. destruct ex_transport_ok as (Hc & Hcl & Hs).
  apply (replaced_node_dropped ex_client ex_discovered ex_transport ex_current "http://n0:9200" 0%nat "data" Hc Hcl Hs).
  - vm_compute. reflexivity.
  - apply (bool_decide_unpack _). vm_compute. exact I.
  - intros node Hn _. unfold ex_discovered in Hn. rewrite !elem_of_cons, elem_of_nil in Hn.
    destruct Hn as [-> | [-> | [-> | []]]]; vm_compute; reflexivity.
Defined.
