(* ===== verification/Policy.v ===== *)
(** policy.go, policy_null.go, policy_ifenabled.go, policy_chain.go,
    policy_mux.go and the leaf policies' gates: the Policy interface as a record
    of operations, its implementations, and the law a policy keeps towards the
    router that contains it.

    A policy object is named by a number, its address: its policyState word and
    its pool live in the [System] under it, the pools of all leaves share one
    heap of connections. What the network answers during CheckDead and
    RotateStandby is an argument, per pool. The context.Context of a call is
    not modelled. *)

From Stdlib Require Import ZArith Lia Ascii String.
From stdpp Require Import base gmap list strings sorting.
From S2P Require Import Prelude.
From S2P Require Import Atomic.
From S2P Require Import Lifecycle.
From S2P Require Import Warmup.
From S2P Require Import Rtt.
From S2P Require Import Congestion.
From S2P Require Import Conn.
From S2P Require Import Pool.
From S2P Require Import PoolResurrect.
From S2P Require Import PoolStandby.
From S2P Require Import PoolSelect.
From S2P Require Import PoolLists.
From S2P Require Import PoolReport.
From S2P Require Import PoolCap.
From S2P Require Import PoolNext.
From S2P Require Import Routes.
From S2P Require Import PolicyPool.

Open Scope list_scope.
Open Scope Z_scope.

(** * The state shared by the policies *)

Record System := MkSystem {
  sy_heap : heap;
  sy_pools : gmap nat World;       (* absent: the policy's pool is nil *)
  sy_words : gmap nat Z }.         (* policyState *)

Definition word (p : nat) (s : System) : Z := default 0 (sy_words s !! p).
Definition set_word (p : nat) (v : Z) : M System unit :=
  modify (fun s => MkSystem (sy_heap s) (sy_pools s) (<[p := v]> (sy_words s))).

(** The pool of [p], over the shared heap. *)
Definition pool_of (p : nat) (s : System) : option World :=
  option_map (fun w => with_heap w (sy_heap s)) (sy_pools s !! p).
(** An operation of the pool; [None] when the pool is nil. *)
Definition in_pool {A} (p : nat) (m : M World A) : M System (option A) := fun s =>
  match pool_of p s with
  | None => Some (s, None)
  | Some w =>
    match m w with
    | None => None
    | Some (w', a) => Some (MkSystem (w_heap w') (<[p := w']> (sy_pools s)) (sy_words s), Some a)
    end
  end.
(** The same where the code does not check: a nil pool is a panic. *)
Definition on_pool {A} (p : nat) (m : M World A) : M System A :=
  let* r := in_pool p m in
  match r with Some a => ret a | None => panic end.

Definition env_disabled (p : nat) (s : System) : bool := negb (Z.land (word p s) psEnvDisabled =? 0).
Definition enabled_bit (p : nat) (s : System) : bool := negb (Z.land (word p s) psEnabled =? 0).
Definition is_enabled (p : nat) (s : System) : bool := psIsEnabled (word p s).
Definition store_enabled (p : nat) (enabled : bool) : M System unit :=
  let* old := gets (word p) in
  set_word p (psSetEnabled enabled old).

(** policyConfig, as far as the pools use it, and createPoolFromConfig; time
    and the random source are those of the heap's world. *)
Record policyConfig := MkConfig {
  pc_activeListCap : option Z;
  pc_standbyPromotionChecks : Z;
  pc_healthCheck : bool }.
Definition createPoolFromConfig (config : policyConfig) (now : Z) (rng : list Z) : World :=
  MkWorld ∅ (MkPoolMu [] [] 0 ∅ (default 0 (pc_activeListCap config)) 0 0 (pc_healthCheck config)) None 0
    (pc_activeListCap config) (pc_standbyPromotionChecks config) (MkCounters 0 0 0 0 0) None now rng [].
(** configurePolicySettings of a leaf: the pool is made once. *)
Definition leaf_configure (config : policyConfig) (now : Z) (rng : list Z) (p : nat) : M System unit :=
  modify (fun s =>
    match sy_pools s !! p with
    | Some _ => s
    | None => MkSystem (sy_heap s) (<[p := createPoolFromConfig config now rng]> (sy_pools s)) (sy_words s)
    end).

(** * The interface *)

Inductive error :=
  | ErrNoConnections
  | ErrNilHealthCheck
  | ErrRotation (errs : list rotation_err)
  | ErrPolicy (code : nat).          (* any other policy's *)

Record NextHop := MkNextHop {
  hop_Conn : option loc;
  hop_PoolName : string;
  hop_MaxConcurrentShardRequests : Z }.
Definition no_hop : NextHop := MkNextHop None "" 0.

Record Request := MkRequest { req_Method : string; req_Path : string }.

Record Changes := MkChanges {
  ch_added : option (list loc);
  ch_removed : option (list loc);
  ch_unchanged : option (list loc) }.

(** A health check function, by what it finds in each pool; nil is [None]. *)
Definition HealthCheckFunc : Type := option (nat -> list bool).
Definition RotateAnswers : Type := nat -> list (list (list (option Z))).

Record Policy := MkPolicy {
  DiscoveryUpdate : Changes -> M System (option error);
  CheckDead : HealthCheckFunc -> M System (option error);
  RotateStandby : Z -> RotateAnswers -> M System (Z * list error);
  IsEnabled : System -> bool;
  Eval : option Request -> M System (NextHop * option error) }.

(** * Leaves *)

Section Leaves.
Context `{sel : PoolSelector}.

Definition leaf_CheckDead (p : nat) (hc : HealthCheckFunc) : M World bool :=
  match hc with
  | None => checkDead false []
  | Some answers => checkDead true (answers p)
  end.
Definition check_error (r : bool) : option error := if r then Some ErrNilHealthCheck else None.
Definition rotate_result (r : nat * list rotation_err) : Z * list error :=
  (Z.of_nat r.1, match r.2 with [] => [] | errs => [ErrRotation errs] end).

(** conn, err := p.pool.Next() *)
Definition next_hop (r : option loc) : NextHop * option error :=
  match r with
  | Some c => (MkNextHop (Some c) "" 0, None)
  | None => (no_hop, Some ErrNoConnections)
  end.

(** An update under the pool's lock, then the enabled bit. *)
Definition update_and_enable (p : nat) (update : M World unit) : M World bool :=
  update ;;; gets hasAvailableConnsWithLock.

Definition unchanged_only (ch : Changes) : bool :=
  match ch_added ch, ch_removed ch with None, None => true | _, _ => false end.

(** The guards RoundRobinPolicy and CoordinatorPolicy share. *)
Definition guarded_update (p : nat) (update : Changes -> M World unit) (ch : Changes) : M System (option error) :=
  let* off := gets (env_disabled p) in
  if (off : bool) then ret None
  else
    let* nil := gets (fun s => match sy_pools s !! p with None => true | Some _ => false end) in
    if (nil : bool) then ret None
    else if unchanged_only ch then ret None
    else
      let* b := on_pool p (update_and_enable p (update ch)) in
      store_enabled p b ;;;
      ret None.

Definition nil_safe_CheckDead (p : nat) (hc : HealthCheckFunc) : M System (option error) :=
  let* r := in_pool p (leaf_CheckDead p hc) in
  ret (match r with None => None | Some r => check_error r end).
Definition nil_safe_RotateStandby (p : nat) (count : Z) (answers : RotateAnswers) : M System (Z * list error) :=
  let* r := in_pool p (rotateStandby count (answers p)) in
  ret (match r with None => (0, []) | Some r => rotate_result r end).

Definition RoundRobinPolicy (p : nat) : Policy := {|
  DiscoveryUpdate := guarded_update p (fun ch => roundRobin_update (ch_added ch) (ch_removed ch));
  CheckDead := nil_safe_CheckDead p;
  RotateStandby := nil_safe_RotateStandby p;
  IsEnabled := is_enabled p;
  Eval := fun _ =>
    let* off := gets (env_disabled p) in
    if (off : bool) then ret (no_hop, None)
    else
      let* nil := gets (fun s => match sy_pools s !! p with None => true | Some _ => false end) in
      if (nil : bool) then ret (no_hop, None)
      else
        let* on := gets (enabled_bit p) in
        if negb on then ret (no_hop, None)
        else let* r := on_pool p Next in ret (next_hop r) |}.

Definition CoordinatorPolicy (p : nat) : Policy := {|
  DiscoveryUpdate := guarded_update p (fun ch => coordinator_update (ch_added ch) (ch_removed ch));
  CheckDead := nil_safe_CheckDead p;
  RotateStandby := nil_safe_RotateStandby p;
  IsEnabled := is_enabled p;
  Eval := fun _ =>
    let* off := gets (env_disabled p) in
    if (off : bool) then ret (no_hop, None)
    else
      let* on := gets (enabled_bit p) in
      if negb on then ret (no_hop, None)
      else let* r := on_pool p Next in ret (next_hop r) |}.

Definition RolePolicy (p : nat) (requiredRoleKey : string) : Policy := {|
  DiscoveryUpdate := fun ch =>
    let* off := gets (env_disabled p) in
    if (off : bool) then ret None
    else
      let* b := on_pool p (update_and_enable p (role_update requiredRoleKey (ch_added ch) (ch_removed ch))) in
      store_enabled p b ;;;
      ret None;
  CheckDead := fun hc => let* r := on_pool p (leaf_CheckDead p hc) in ret (check_error r);
  RotateStandby := fun count answers => let* r := on_pool p (rotateStandby count (answers p)) in ret (rotate_result r);
  IsEnabled := is_enabled p;
  Eval := fun _ =>
    let* off := gets (env_disabled p) in
    if (off : bool) then ret (no_hop, None)
    else
      let* on := gets (enabled_bit p) in
      if negb (negb on) then let* r := on_pool p Next in ret (next_hop r)
      else ret (no_hop, None) |}.
End Leaves.

Definition NullPolicy (p : nat) : Policy := {|
  DiscoveryUpdate := fun _ => ret None;
  CheckDead := fun _ => ret None;
  RotateStandby := fun _ _ => ret (0, []);
  IsEnabled := fun s => negb (env_disabled p s);
  Eval := fun _ => ret (no_hop, None) |}.

(** * Loops over the children *)

Definition first_error (a b : option error) : option error := match a with Some e => Some e | None => b end.

(** DiscoveryUpdate of PolicyChain and MuxPolicy: the first error and whether a
    child is enabled after its update. *)
Fixpoint update_children (l : list Policy) (ch : Changes) (firstError : option error) (hasEnabledPolicy : bool)
    : M System (option error * bool) :=
  match l with
  | [] => ret (firstError, hasEnabledPolicy)
  | policy :: l' =>
    let* err := DiscoveryUpdate policy ch in
    let* en := gets (IsEnabled policy) in
    update_children l' ch (first_error firstError err) (hasEnabledPolicy || en)
  end.
Fixpoint check_children (l : list Policy) (hc : HealthCheckFunc) (firstError : option error) : M System (option error) :=
  match l with
  | [] => ret firstError
  | policy :: l' =>
    let* err := CheckDead policy hc in
    check_children l' hc (first_error firstError err)
  end.
Fixpoint rotate_children (l : list Policy) (count : Z) (answers : RotateAnswers) (total : Z) (errs : list error)
    : M System (Z * list error) :=
  match l with
  | [] => ret (total, errs)
  | policy :: l' =>
    let* r := RotateStandby policy count answers in
    rotate_children l' count answers (total + r.1) (errs ++ r.2)
  end.
Fixpoint inform_children (l : list Policy) (ch : Changes) (firstError : option error) : M System (option error) :=
  match l with
  | [] => ret firstError
  | policy :: l' =>
    let* err := DiscoveryUpdate policy ch in
    inform_children l' ch (first_error firstError err)
  end.

(** The loop of Route and Eval of PolicyChain: [None] when no child decides. *)
Fixpoint try_children (l : list Policy) (req : option Request) : M System (option (NextHop * option error)) :=
  match l with
  | [] => ret None
  | policy :: l' =>
    let* en := gets (IsEnabled policy) in
    if negb en then try_children l' req
    else
      let* r := Eval policy req in
      match r.2, hop_Conn r.1 with
      | Some err, _ => ret (Some (no_hop, Some err))
      | None, Some _ => ret (Some (r.1, None))
      | None, None => try_children l' req
      end
  end.

(** * IfEnabledPolicy *)

Definition IfEnabledPolicy (p : nat) (condition : System -> option Request -> bool) (truePolicy falsePolicy : Policy) : Policy := {|
  DiscoveryUpdate := fun ch => inform_children [truePolicy; falsePolicy] ch None;
  CheckDead := fun hc => check_children [truePolicy; falsePolicy] hc None;
  RotateStandby := fun count answers =>
    let* en := gets (IsEnabled truePolicy) in
    if (en : bool) then RotateStandby truePolicy count answers else RotateStandby falsePolicy count answers;
  IsEnabled := is_enabled p;
  Eval := fun req =>
    let* off := gets (env_disabled p) in
    if (off : bool) then ret (no_hop, None)
    else
      let* c := gets (fun s => condition s req) in
      if (c : bool) then Eval truePolicy req else Eval falsePolicy req |}.

(** * PolicyChain *)

Definition PolicyChain (p : nat) (policies : list Policy) : Policy := {|
  DiscoveryUpdate := fun ch =>
    let* r := update_children (rev policies) ch None false in
    store_enabled p r.2 ;;;
    ret r.1;
  CheckDead := fun hc => check_children policies hc None;
  RotateStandby := fun count answers => rotate_children policies count answers 0 [];
  IsEnabled := is_enabled p;
  Eval := fun req =>
    let* off := gets (env_disabled p) in
    if (off : bool) then ret (no_hop, None)
    else let* r := try_children policies req in ret (default (no_hop, None) r) |}.

(** PolicyChain as a Router *)
Definition Route (policies : list Policy) (req : option Request) : M System (NextHop * option error) :=
  let* r := try_children policies req in
  ret (default (no_hop, Some ErrNoConnections) r).

Definition upd_shared (c : loc) (f : Connection -> Connection) : M System unit :=
  modify (fun s => MkSystem (<[c := f (deref (sy_heap s) c)]> (sy_heap s)) (sy_pools s) (sy_words s)).

Definition chain_OnSuccess (c : loc) : M System unit :=
  let* conn := gets (fun s => deref (sy_heap s) c) in
  if deadSinceIsZero conn then ret tt
  else if 0 <? c_drainingQuiescingRemaining conn then ret tt
  else if has (conn_lifecycle conn) lcOverloaded then ret tt
  else upd_shared c markAsHealthyWithLock.

Definition chain_OnFailure (now : Z) (c : loc) : M System unit :=
  let* conn := gets (fun s => deref (sy_heap s) c) in
  if has (conn_lifecycle conn) lcUnknown then ret tt
  else
    let '(conn', err) := conn_cas conn 0 (lcDead ||| lcNeedsWarmup ||| lcNeedsHardware) (lcReady ||| lcActive ||| lcStandby ||| lcOverloaded) in
    match err with
    | Some _ => ret tt
    | None => upd_shared c (fun _ => markAsDeadWithLock now (storeOverloadedAt conn' 0))
    end.

(** * MuxPolicy

    The policies of the routes are told apart by a name in [I]; [unique] is
    uniquePolicies in the order the map is ranged over. *)
Section Mux.
Context {I : Type}.

Definition adjust_hop (leaf : trieLeaf I) (hop : NextHop) : NextHop :=
  let name := if decide (hop_PoolName hop = ""%string /\ l_poolName leaf <> ""%string) then l_poolName leaf else hop_PoolName hop in
  let mcsr := if (0 <? hop_MaxConcurrentShardRequests hop) && (Z.land (l_attrs leaf) attrInjectAdaptiveMCSR =? 0) then 0
              else hop_MaxConcurrentShardRequests hop in
  MkNextHop (hop_Conn hop) name mcsr.

Definition MuxPolicy (p : nat) (pathTrie : routeTrie I) (policy : I -> Policy) (unique : list I) : Policy := {|
  DiscoveryUpdate := fun ch =>
    let* r := update_children (policy <$> unique) ch None false in
    store_enabled p r.2 ;;;
    ret r.1;
  CheckDead := fun hc => check_children (policy <$> unique) hc None;
  RotateStandby := fun count answers => rotate_children (policy <$> unique) count answers 0 [];
  IsEnabled := is_enabled p;
  Eval := fun req =>
    let* off := gets (env_disabled p) in
    if (off : bool) then ret (no_hop, None)
    else
      match req with
      | None => ret (no_hop, None)
      | Some r =>
        match match_route pathTrie (req_Method r) (req_Path r) with
        | None => ret (no_hop, None)
        | Some m =>
          let* h := Eval (policy (l_policy (m_leaf m))) req in
          match hop_Conn h.1, h.2 with
          | Some _, None => ret (adjust_hop (m_leaf m) h.1, None)
          | _, _ => ret h
          end
        end
      end |}.
End Mux.

(** * The law of a policy

    A policy only chooses a pool: for every request and state it either passes,
    changing nothing, or asks one pool for its next connection, and reports
    exactly that pool's answer, under the pool name of the route. [choose] is
    that choice, a function of the state and the request. *)

Section Law.
Context `{sel : PoolSelector}.

Definition ask (k : nat) : M System (NextHop * option error) := let* r := on_pool k Next in ret (next_hop r).

(** What the routes on the way wrote into the hop. *)
Definition named (name : string) (r : NextHop * option error) : NextHop * option error :=
  match hop_Conn r.1, r.2 with
  | Some _, None => (MkNextHop (hop_Conn r.1) name 0, None)
  | _, _ => r
  end.
Definition asked (choice : option (nat * string)) : M System (NextHop * option error) :=
  match choice with
  | None => ret (no_hop, None)
  | Some (k, name) => let* r := ask k in ret (named name r)
  end.

Definition choose : Type := System -> option Request -> option (nat * string).
Definition chooses (policy : Policy) (c : choose) : Prop :=
  forall req s, Eval policy req s = asked (c s req) s.

Definition pass : choose := fun _ _ => None.
Definition leaf_choice (p : nat) : choose := fun s _ => if is_enabled p s then Some (p, ""%string) else None.
Definition if_choice (p : nat) (condition : System -> option Request -> bool) (t f : choose) : choose := fun s req =>
  if env_disabled p s then None else if condition s req then t s req else f s req.
(** The first enabled child that does not pass. *)
Fixpoint first_choice (l : list (Policy * choose)) : choose := fun s req =>
  match l with
  | [] => None
  | (policy, c) :: l' =>
    if IsEnabled policy s then match c s req with Some k => Some k | None => first_choice l' s req end
    else first_choice l' s req
  end.
Definition chain_choice (p : nat) (l : list (Policy * choose)) : choose := fun s req =>
  if env_disabled p s then None else first_choice l s req.
Definition mux_choice {I} (p : nat) (pathTrie : routeTrie I) (c : I -> choose) : choose := fun s req =>
  if env_disabled p s then None
  else
    match req with
    | None => None
    | Some r =>
      match match_route pathTrie (req_Method r) (req_Path r) with
      | None => None
      | Some m =>
        match c (l_policy (m_leaf m)) s req with
        | None => None
        | Some (k, name) => Some (k, if decide (name = ""%string) then l_poolName (m_leaf m) else name)
        end
      end
    end.

Lemma is_enabled_bits p s : is_enabled p s = if env_disabled p s then false else enabled_bit p s.
Proof. done. Qed.

Lemma bind_assoc {S A B C} (m : M S A) (f : A -> M S B) (g : B -> M S C) s :
  bind (bind m f) g s = bind m (fun a => bind (f a) g) s.
Proof. unfold bind. by destruct (m s) as [[s' a] |]. Qed.

Lemma bind_ext {S A B} (m : M S A) (f g : A -> M S B) s : (forall a s', f a s' = g a s') -> bind m f s = bind m g s.
Proof. intros H. unfold bind. destruct (m s) as [[s' a] |]; [apply H | done]. Qed.

(** A pool answers with a connection and no error, or with neither. *)
Lemma next_hop_shape r : (exists c, next_hop r = (MkNextHop (Some c) "" 0, None)) \/ next_hop r = (no_hop, Some ErrNoConnections).
Proof. destruct r as [c |]; [left; by exists c | by right]. Qed.

Lemma named_empty r : named "" (next_hop r) = next_hop r.
Proof. by destruct r. Qed.

Lemma asked_leaf p s : asked (Some (p, ""%string)) s = (let* r := on_pool p Next in ret (next_hop r)) s.
Proof.
  unfold asked, ask. rewrite bind_assoc. apply bind_ext. intros r s'. unfold bind, ret. by rewrite named_empty.
Qed.

Lemma NullPolicy_chooses p : chooses (NullPolicy p) pass.
Proof. done. Qed.

Lemma CoordinatorPolicy_chooses p : chooses (CoordinatorPolicy p) (leaf_choice p).
Proof.
  intros req s. unfold leaf_choice. rewrite is_enabled_bits. cbn [Eval CoordinatorPolicy]. unfold bind at 1, gets.
  destruct (env_disabled p s); [done |]. unfold bind at 1. destruct (enabled_bit p s); [| done]. by rewrite asked_leaf.
Qed.

Lemma RolePolicy_chooses p key : chooses (RolePolicy p key) (leaf_choice p).
Proof.
  intros req s. unfold leaf_choice. rewrite is_enabled_bits. cbn [Eval RolePolicy]. unfold bind at 1, gets.
  destruct (env_disabled p s); [done |]. unfold bind at 1. destruct (enabled_bit p s); [| done]. by rewrite asked_leaf.
Qed.

(** RoundRobinPolicy also passes while it has no pool. *)
Definition rr_choice (p : nat) : choose := fun s _ =>
  if is_enabled p s && bool_decide (is_Some (sy_pools s !! p)) then Some (p, ""%string) else None.

Lemma RoundRobinPolicy_chooses p : chooses (RoundRobinPolicy p) (rr_choice p).
Proof.
  intros req s. unfold rr_choice. rewrite is_enabled_bits. cbn [Eval RoundRobinPolicy]. unfold bind at 1, gets.
  destruct (env_disabled p s); [done |]. unfold bind at 1. destruct (sy_pools s !! p) eqn:Ep.
  - rewrite bool_decide_true by (by eexists). unfold bind at 1. destruct (enabled_bit p s); [| done]. cbn [andb]. by rewrite asked_leaf.
  - rewrite bool_decide_false by (by intros []). by rewrite andb_false_r.
Qed.

Lemma IfEnabledPolicy_chooses p condition t f ct cf :
  chooses t ct -> chooses f cf -> chooses (IfEnabledPolicy p condition t f) (if_choice p condition ct cf).
Proof.
  intros Ht Hf req s. unfold if_choice. cbn [Eval IfEnabledPolicy]. unfold bind at 1, gets.
  destruct (env_disabled p s); [done |]. unfold bind at 1. destruct (condition s req); [apply Ht | apply Hf].
Qed.

(** The loop asks the first enabled child that does not pass. *)
Lemma try_children_spec l req s :
  Forall (fun pc => chooses pc.1 pc.2) l ->
  try_children l.*1 req s =
    match first_choice l s req with
    | None => Some (s, None)
    | Some k => (let* r := asked (Some k) in ret (Some r)) s
    end.
Proof.
  induction l as [| [policy c] l IH]; intros Hl; [done |]. inversion Hl as [| ? ? Hp Hl']; subst. cbn in Hp.
  cbn [fmap list_fmap fst try_children first_choice]. unfold bind at 1, gets. destruct (IsEnabled policy s); cbn [negb]; [| by apply IH].
  unfold bind at 1. rewrite Hp. destruct (c s req) as [[k name] |]; [| by apply IH].
  unfold asked, ask. rewrite !bind_assoc. unfold bind. destruct (on_pool k Next s) as [[s' r] |]; [| done].
  by destruct r.
Qed.

Lemma PolicyChain_chooses p l :
  Forall (fun pc => chooses pc.1 pc.2) l -> chooses (PolicyChain p l.*1) (chain_choice p l).
Proof.
  intros Hl req s. unfold chain_choice. cbn [Eval PolicyChain]. unfold bind at 1, gets.
  destruct (env_disabled p s); [done |]. unfold bind at 1. rewrite try_children_spec by done.
  destruct (first_choice l s req) as [k |]; [| done]. unfold bind. by destruct (asked (Some k) s) as [[s' r] |].
Qed.

Lemma MuxPolicy_chooses {I} p (pathTrie : routeTrie I) (policy : I -> Policy) unique (c : I -> choose) :
  (forall i, chooses (policy i) (c i)) -> chooses (MuxPolicy p pathTrie policy unique) (mux_choice p pathTrie c).
Proof.
  intros Hc req s. unfold mux_choice. cbn [Eval MuxPolicy]. unfold bind at 1, gets.
  destruct (env_disabled p s); [done |]. destruct req as [r |]; [| done].
  destruct (match_route pathTrie (req_Method r) (req_Path r)) as [m |]; [| done].
  unfold bind at 1. rewrite Hc. destruct (c (l_policy (m_leaf m)) s (Some r)) as [[k name] |]; [| done].
  unfold asked, ask. rewrite !bind_assoc. unfold bind. destruct (on_pool k Next s) as [[s' r'] |]; [| done].
  destruct r' as [x |]; [| done]. unfold ret, named, next_hop, adjust_hop. cbn. repeat f_equal.
  destruct (decide (name = "")) as [-> | Hn].
  - destruct (decide (l_poolName (m_leaf m) = ""%string)) as [-> | Hl]; [by rewrite decide_False by tauto | by rewrite decide_True].
  - by rewrite decide_False by tauto.
Qed.

(** A router built from policies that keep the law asks the pool its children
    choose, and reports ErrNoConnections exactly when none does or that pool
    has none. *)
Lemma Route_chooses l req s :
  Forall (fun pc => chooses pc.1 pc.2) l ->
  Route l.*1 req s =
    match first_choice l s req with
    | None => Some (s, (no_hop, Some ErrNoConnections))
    | Some k => asked (Some k) s
    end.
Proof.
  intros Hl. unfold Route, bind at 1. rewrite try_children_spec by done.
  destruct (first_choice l s req) as [k |]; [| done]. unfold bind. by destruct (asked (Some k) s) as [[s' r] |].
Qed.
End Law.

(** * Discovery through the tree *)

Lemma wp_on_pool {A} p (m : M World A) s w (Q : System -> A -> Prop) :
  sy_pools s !! p = Some w ->
  wp m (fun w' a => Q (MkSystem (w_heap w') (<[p := w']> (sy_pools s)) (sy_words s)) a) (with_heap w (sy_heap s)) ->
  wp (on_pool p m) Q s.
Proof.
  intros Hp Hm. unfold on_pool, in_pool, pool_of, wp, bind in *. rewrite Hp. cbn.
  by destruct (m (with_heap w (sy_heap s))) as [[w' a] |].
Qed.

Lemma wp_store_enabled p b s (Q : System -> unit -> Prop) :
  (forall s', sy_heap s' = sy_heap s -> sy_pools s' = sy_pools s -> word p s' = psSetEnabled b (word p s) ->
     (forall q, q <> p -> word q s' = word q s) -> Q s' tt) ->
  wp (store_enabled p b) Q s.
Proof.
  intros HQ. unfold store_enabled, set_word. do 3 wp_step. apply HQ; [done | done | |].
  - unfold word. cbn. by rewrite lookup_insert_eq.
  - intros q Hq. unfold word. cbn. by rewrite lookup_insert_ne.
Qed.

(** What is stored leaves the operator's bits alone. *)
Lemma env_disabled_stored p b s s' : word p s' = psSetEnabled b (word p s) -> env_disabled p s' = env_disabled p s.
Proof. intros H. unfold env_disabled. by rewrite H, psSetEnabled_env. Qed.

Lemma is_enabled_stored p b s s' : word p s' = psSetEnabled b (word p s) -> is_enabled p s' = b && negb (env_disabled p s).
Proof. intros H. unfold is_enabled, env_disabled. by rewrite H, psIsEnabled_set, negb_involutive. Qed.

(** A property of the system that an update keeps. *)
Definition keeps (P : System -> Prop) (policy : Policy) : Prop :=
  forall ch s, P s -> wp (DiscoveryUpdate policy ch) (fun s' _ => P s') s.

Section Keeps.
Context (P : System -> Prop).

Lemma NullPolicy_keeps p : keeps P (NullPolicy p).
Proof. intros ch s Hs. by apply wp_ret. Qed.

Lemma wp_inform_children l ch : Forall (keeps P) l -> forall e s, P s -> wp (inform_children l ch e) (fun s' _ => P s') s.
Proof.
  induction 1 as [| policy l Hp _ IH]; intros e s Hs; cbn [inform_children]; [by apply wp_ret |].
  wp_step. eapply wp_mono; [by apply Hp |]. intros s1 err Hs1. by apply IH.
Qed.

Lemma IfEnabledPolicy_keeps p condition t f : keeps P t -> keeps P f -> keeps P (IfEnabledPolicy p condition t f).
Proof. intros Ht Hf ch s Hs. apply wp_inform_children; [| done]. by repeat constructor. Qed.

(** All children are updated, whatever errors they report; the flag is set
    when some child is always enabled. *)
Lemma wp_update_children l ch : Forall (keeps P) l -> forall e h s, P s ->
  wp (update_children l ch e h) (fun s' r => P s' /\
    (h = true \/ (exists policy, policy ∈ l /\ forall s, P s -> IsEnabled policy s = true) -> r.2 = true)) s.
Proof.
  induction 1 as [| policy l Hp _ IH]; intros e h s Hs; cbn [update_children].
  { apply wp_ret. split; [done |]. intros [? | (q & Hq & _)]; [done | by apply elem_of_nil in Hq]. }
  wp_step. eapply wp_mono; [by apply Hp |]. intros s1 err Hs1. do 2 wp_step.
  eapply wp_mono; [by apply IH |]. intros s2 r [Hs2 Hr]. split; [done |]. intros H. apply Hr.
  destruct H as [-> | (q & [-> | Hq]%elem_of_cons & Hen)]; [by left | left; rewrite (Hen s1 Hs1); by rewrite orb_true_r | right; by exists q].
Qed.
End Keeps.
