(* ===== verification/Router.v ===== *)
(** router.go: the routers the package builds from the policies, and what
    routing through them comes to.

    Every policy of a router is an object of its own; its address is the number
    given here. The route table is that of RouteTable.v over the five role
    groups. *)

From Stdlib Require Import ZArith Lia Ascii String.
From stdpp Require Import base gmap list strings sorting.
From S2P Require Import Prelude.
From S2P Require Import Atomic.
From S2P Require Import Lifecycle.
From S2P Require Import Warmup.
From S2P Require Import Rtt.
From S2P Require Import Congestion.
From S2P Require Import Conn.
From S2P Require Import Pool.
From S2P Require Import PoolResurrect.
From S2P Require Import PoolStandby.
From S2P Require Import PoolSelect.
From S2P Require Import PoolLists.
From S2P Require Import PoolReport.
From S2P Require Import PoolCap.
From S2P Require Import PoolNext.
From S2P Require Import Routes.
From S2P Require Import Operation.
From S2P Require Import RouteTable.
From S2P Require Import PolicyPool.
From S2P Require Import Policy.

Open Scope list_scope.
Open Scope Z_scope.

(** * The policies *)

Inductive group := Ingest | Search | Warm | Data | ClusterMgr.

(** Addresses. *)
Definition coordinatingAddr : nat := 0.
Definition roundRobinAddr : nat := 1.
Definition ingestAddr : nat := 2.
Definition searchAddr : nat := 3.
Definition dataAddr : nat := 4.
Definition warmAddr : nat := 5.
Definition warmDataAddr : nat := 6.
Definition dataDirectAddr : nat := 7.
Definition clusterMgrAddr : nat := 8.
Definition clusterMgrDataAddr : nat := 9.
Definition ingestNullAddr : nat := 10.
Definition ingestIfAddr : nat := 11.
Definition searchIfAddr : nat := 12.
Definition searchDataIfAddr : nat := 13.
Definition warmIfAddr : nat := 14.
Definition warmDataIfAddr : nat := 15.
Definition dataIfAddr : nat := 16.
Definition clusterMgrIfAddr : nat := 17.
Definition clusterMgrDataIfAddr : nat := 18.
Definition muxAddr : nat := 19.
Definition innerChainAddr : nat := 20.
Definition coordinatingIfAddr : nat := 21.
Definition routerAddr : nat := 22.
Definition searchNullAddr : nat := 23.
Definition warmNullAddr : nat := 24.
Definition dataNullAddr : nat := 25.
Definition clusterMgrNullAddr : nat := 26.
Definition coordinatingNullAddr : nat := 27.

Section Routers.
Context `{sel : PoolSelector}.

(** NewIfEnabledPolicy(func { return role.IsEnabled() }, role, otherwise) *)
Definition prefer (p : nat) (role otherwise : Policy) : Policy :=
  IfEnabledPolicy p (fun s _ => IsEnabled role s) role otherwise.

(** NewDefaultRoutes *)
Definition ingestIfEnabled : Policy := prefer ingestIfAddr (RolePolicy ingestAddr RoleIngest) (NullPolicy ingestNullAddr).
Definition searchIfEnabled : Policy :=
  prefer searchIfAddr (RolePolicy searchAddr RoleSearch)
    (prefer searchDataIfAddr (RolePolicy dataAddr RoleData) (NullPolicy searchNullAddr)).
Definition warmIfEnabled : Policy :=
  prefer warmIfAddr (RolePolicy warmAddr RoleWarm)
    (prefer warmDataIfAddr (RolePolicy warmDataAddr RoleData) (NullPolicy warmNullAddr)).
Definition dataIfEnabled : Policy := prefer dataIfAddr (RolePolicy dataDirectAddr RoleData) (NullPolicy dataNullAddr).
Definition clusterMgrIfEnabled : Policy :=
  prefer clusterMgrIfAddr (RolePolicy clusterMgrAddr RoleClusterManager)
    (prefer clusterMgrDataIfAddr (RolePolicy clusterMgrDataAddr RoleData) (NullPolicy clusterMgrNullAddr)).
Definition group_policy (g : group) : Policy :=
  match g with
  | Ingest => ingestIfEnabled
  | Search => searchIfEnabled
  | Warm => warmIfEnabled
  | Data => dataIfEnabled
  | ClusterMgr => clusterMgrIfEnabled
  end.
Definition NewDefaultRoutes : option (list (RouteMux group)) :=
  buildRoleRoutes (defaultRoleRoutes Ingest Search Warm Data ClusterMgr).

(** NewMuxPolicy; [None]: panic. *)
Definition NewMuxPolicy (routes : option (list (RouteMux group))) (unique : list group) : option Policy :=
  routes ← routes;
  pathTrie ← build_trie routes;
  Some (MuxPolicy muxAddr pathTrie group_policy unique).

(** NewMuxRoutePolicy, [unique] being the order of the mux's policies. *)
Definition NewMuxRoutePolicy (unique : list group) : option Policy :=
  muxPolicy ← NewMuxPolicy NewDefaultRoutes unique;
  Some (prefer coordinatingIfAddr (RolePolicy coordinatingAddr RoleCoordinatingOnly)
    (PolicyChain innerChainAddr [muxPolicy; RoundRobinPolicy roundRobinAddr])).

(** NewRoundRobinDefaultPolicy *)
Definition NewRoundRobinDefaultPolicy : Policy :=
  PolicyChain innerChainAddr [
    prefer coordinatingIfAddr (RolePolicy coordinatingAddr RoleCoordinatingOnly) (NullPolicy coordinatingNullAddr);
    RoundRobinPolicy roundRobinAddr ].

(** NewMuxRouter and NewRoundRobinRouter: NewRouter of one policy. *)
Definition NewMuxRouter (unique : list group) : option (list Policy) := p ← NewMuxRoutePolicy unique; Some [p].
Definition NewRoundRobinRouter : list Policy := [NewRoundRobinDefaultPolicy].

(** * What the routers mean *)

(** The pools a group tries, in order. *)
Definition group_pools (g : group) : list nat :=
  match g with
  | Ingest => [ingestAddr]
  | Search => [searchAddr; dataAddr]
  | Warm => [warmAddr; warmDataAddr]
  | Data => [dataDirectAddr]
  | ClusterMgr => [clusterMgrAddr; clusterMgrDataAddr]
  end.
Definition first_enabled (s : System) (l : list nat) : option nat := find (fun k => is_enabled k s) l.

Definition has_pool (k : nat) (s : System) : bool := bool_decide (is_Some (sy_pools s !! k)).
Definition round_robin_target (s : System) : option (nat * string) :=
  if is_enabled roundRobinAddr s && has_pool roundRobinAddr s then Some (roundRobinAddr, ""%string) else None.

(** Coordinating-only nodes when there are any; else the role of the request's
    route and its fallbacks; else round robin; else nobody. *)
Definition mux_target (t : routeTrie group) (s : System) (req : option Request) : option (nat * string) :=
  if is_enabled coordinatingAddr s then Some (coordinatingAddr, ""%string)
  else
    let by_role :=
      r ← req;
      m ← match_route t (req_Method r) (req_Path r);
      k ← first_enabled s (group_pools (l_policy (m_leaf m)));
      Some (k, l_poolName (m_leaf m)) in
    match by_role with
    | Some k => Some k
    | None => round_robin_target s
    end.
Definition round_robin_router_target (s : System) : option (nat * string) :=
  if is_enabled coordinatingAddr s then Some (coordinatingAddr, ""%string) else round_robin_target s.

(** The composites, the conditional policies, the leaves. *)
Definition if_addrs : list nat :=
  [ingestIfAddr; searchIfAddr; searchDataIfAddr; warmIfAddr; warmDataIfAddr; dataIfAddr; clusterMgrIfAddr;
   clusterMgrDataIfAddr; coordinatingIfAddr].
Definition composite_addrs : list nat := [muxAddr; innerChainAddr; routerAddr] ++ if_addrs.
Definition leaf_addrs : list nat :=
  [coordinatingAddr; roundRobinAddr; ingestAddr; searchAddr; dataAddr; warmAddr; warmDataAddr; dataDirectAddr;
   clusterMgrAddr; clusterMgrDataAddr].

(** The operator disabled no composite, and the conditional policies are
    enabled, as NewIfEnabledPolicy leaves them. *)
Record switched (s : System) : Prop := {
  cf_env : forall p, p ∈ composite_addrs -> env_disabled p s = false;
  cf_if : forall p, p ∈ if_addrs -> is_enabled p s = true }.
(** ... and every leaf has a well-formed pool. *)
Record configured (s : System) : Prop := {
  cf_switched :> switched s;
  cf_leaf : forall p, p ∈ leaf_addrs -> exists w, sy_pools s !! p = Some w /\ pool_bounds (w_mu w) /\ members_ok (w_mu w) }.

(** A preference that is enabled chooses its role while it is enabled. *)
Lemma prefer_chooses p q key otherwise c :
  chooses otherwise c ->
  chooses (prefer p (RolePolicy q key) otherwise) (if_choice p (fun s _ => is_enabled q s) (leaf_choice q) c).
Proof. intros Hc. apply IfEnabledPolicy_chooses; [apply RolePolicy_chooses | done]. Qed.

Lemma if_choice_on p q c s req :
  env_disabled p s = false ->
  if_choice p (fun s _ => is_enabled q s) (leaf_choice q) c s req = if is_enabled q s then Some (q, ""%string) else c s req.
Proof. intros Hp. unfold if_choice, leaf_choice. rewrite Hp. by destruct (is_enabled q s). Qed.

Definition group_choice (g : group) : choose :=
  match g with
  | Ingest => if_choice ingestIfAddr (fun s _ => is_enabled ingestAddr s) (leaf_choice ingestAddr) pass
  | Search => if_choice searchIfAddr (fun s _ => is_enabled searchAddr s) (leaf_choice searchAddr)
      (if_choice searchDataIfAddr (fun s _ => is_enabled dataAddr s) (leaf_choice dataAddr) pass)
  | Warm => if_choice warmIfAddr (fun s _ => is_enabled warmAddr s) (leaf_choice warmAddr)
      (if_choice warmDataIfAddr (fun s _ => is_enabled warmDataAddr s) (leaf_choice warmDataAddr) pass)
  | Data => if_choice dataIfAddr (fun s _ => is_enabled dataDirectAddr s) (leaf_choice dataDirectAddr) pass
  | ClusterMgr => if_choice clusterMgrIfAddr (fun s _ => is_enabled clusterMgrAddr s) (leaf_choice clusterMgrAddr)
      (if_choice clusterMgrDataIfAddr (fun s _ => is_enabled clusterMgrDataAddr s) (leaf_choice clusterMgrDataAddr) pass)
  end.

Lemma group_chooses g : chooses (group_policy g) (group_choice g).
Proof. destruct g; repeat apply prefer_chooses; apply NullPolicy_chooses. Qed.

Lemma group_choice_on g s req :
  switched s -> group_choice g s req = option_map (fun k => (k, ""%string)) (first_enabled s (group_pools g)).
Proof.
  intros [Henv _]. destruct g; cbn [group_choice]; rewrite !if_choice_on by (apply Henv; set_solver);
    unfold first_enabled; cbn [find group_pools]; by repeat case_match.
Qed.

Definition mux_router_choice (t : routeTrie group) (mux : Policy) : choose :=
  if_choice coordinatingIfAddr (fun s _ => is_enabled coordinatingAddr s) (leaf_choice coordinatingAddr)
    (chain_choice innerChainAddr
      [(mux, mux_choice muxAddr t group_choice); (RoundRobinPolicy roundRobinAddr, rr_choice roundRobinAddr)]).

Lemma mux_router_choice_on t mux s req :
  switched s -> IsEnabled mux s = true -> mux_router_choice t mux s req = mux_target t s req.
Proof.
  intros Hcf Hmux. unfold mux_router_choice, mux_target. rewrite if_choice_on by (apply (cf_env _ Hcf); set_solver).
  destruct (is_enabled coordinatingAddr s); [done |]. unfold chain_choice. rewrite (cf_env _ Hcf) by set_solver.
  assert (Hrr : first_choice [(RoundRobinPolicy roundRobinAddr, rr_choice roundRobinAddr)] s req = round_robin_target s).
  { cbn [first_choice IsEnabled RoundRobinPolicy]. unfold rr_choice, round_robin_target, has_pool.
    destruct (is_enabled roundRobinAddr s); [| done]. by destruct (_ && _). }
  cbn [first_choice]. rewrite Hmux. unfold mux_choice. rewrite (cf_env _ Hcf) by set_solver.
  destruct req as [r |]; [| exact Hrr]. cbn [mbind option_bind]. destruct (match_route t (req_Method r) (req_Path r)) as [m |]; [| exact Hrr].
  cbn [mbind option_bind]. rewrite group_choice_on by done. destruct (first_enabled s _) as [k |]; [done | exact Hrr].
Qed.
(** * Discovery keeps a router configured *)

Definition leaf_ok (p : nat) (s : System) : Prop := exists w, sy_pools s !! p = Some w /\ pool_bounds (w_mu w) /\ members_ok (w_mu w).

Lemma leaf_not_composite p : p ∈ leaf_addrs -> p ∉ composite_addrs.
Proof.
  intros Hp. assert (H : Forall (fun p => p ∉ composite_addrs) leaf_addrs) by (by apply (bool_decide_unpack _); vm_compute).
  by apply (proj1 (Forall_forall _ _) H).
Qed.

(** A leaf's own step: its pool and its word. *)
Lemma configured_leaf p s s' w :
  configured s -> p ∈ leaf_addrs -> pool_bounds (w_mu w) -> members_ok (w_mu w) ->
  sy_pools s' = <[p := w]> (sy_pools s) -> (forall q, q <> p -> word q s' = word q s) -> configured s'.
Proof.
  intros [[He Hi] Hl] Hp Hb Hm Hpools Hw.
  assert (Hother : forall q, q ∈ composite_addrs -> word q s' = word q s).
  { intros q Hq. apply Hw. intros ->. by destruct (leaf_not_composite p). }
  split; [split |].
  - intros q Hq. unfold env_disabled. rewrite Hother by done. by apply He.
  - intros q Hq. unfold is_enabled. rewrite Hother by (unfold composite_addrs; set_solver). by apply Hi.
  - intros q Hq. rewrite Hpools. destruct (decide (q = p)) as [-> | Hne]; [exists w; by rewrite lookup_insert_eq |].
    rewrite lookup_insert_ne by done. by apply Hl.
Qed.

(** A composite's own step: its word. *)
Lemma configured_composite p b s s' :
  configured s -> p ∈ [muxAddr; innerChainAddr; routerAddr] -> sy_pools s' = sy_pools s ->
  word p s' = psSetEnabled b (word p s) -> (forall q, q <> p -> word q s' = word q s) -> configured s'.
Proof.
  intros [[He Hi] Hl] Hp Hpools Hw Ho. split; [split |].
  - intros q Hq. destruct (decide (q = p)) as [-> | Hne].
    + rewrite (env_disabled_stored p b s s' Hw). by apply He.
    + unfold env_disabled. rewrite Ho by done. by apply He.
  - intros q Hq. unfold is_enabled. rewrite Ho; [by apply Hi |]. intros ->. unfold if_addrs in *. set_solver by lia.
  - intros q Hq. rewrite Hpools. by apply Hl.
Qed.

Lemma wp_leaf_step admits p (update : M World unit) added removed s :
  configured s -> p ∈ leaf_addrs ->
  (forall w, pool_bounds (w_mu w) -> members_ok (w_mu w) -> wp update (fun w' _ => synced admits added removed w w') w) ->
  wp (let* b := on_pool p (update_and_enable p update) in store_enabled p b ;;; ret None) (fun s' (_ : option error) => configured s') s.
Proof.
  intros Hcf Hp Hup. destruct (cf_leaf _ Hcf p Hp) as (w & Hw & Hb & Hm). wp_step.
  apply (wp_on_pool p _ s w); [done |]. unfold update_and_enable. wp_step.
  eapply wp_mono; [by apply Hup |]. intros w' [] Hsy. do 2 wp_step. apply wp_store_enabled. intros s' Hh Hpools Hword Ho. wp_step.
  eapply (configured_leaf p s s' w'); [done | done | apply (sy_bounds _ _ _ _ _ Hsy) | apply (sy_members _ _ _ _ _ Hsy) | by rewrite Hpools |].
  intros q Hq. by rewrite Ho.
Qed.

Lemma RolePolicy_keeps p key : p ∈ leaf_addrs -> keeps configured (RolePolicy p key).
Proof.
  intros Hp ch s Hs. cbn [DiscoveryUpdate RolePolicy]. do 2 wp_step. destruct (env_disabled p s); [by apply wp_ret |].
  eapply wp_leaf_step; [done | done |]. intros w Hb Hm. by apply wp_role_update.
Qed.

Lemma RoundRobinPolicy_keeps p : p ∈ leaf_addrs -> keeps configured (RoundRobinPolicy p).
Proof.
  intros Hp ch s Hs. cbn [DiscoveryUpdate RoundRobinPolicy]. unfold guarded_update. do 2 wp_step.
  destruct (env_disabled p s); [by apply wp_ret |]. do 2 wp_step. destruct (sy_pools s !! p); [| by apply wp_ret].
  destruct (unchanged_only ch); [by apply wp_ret |].
  eapply wp_leaf_step; [done | done |]. intros w' Hb Hm. by apply wp_roundRobin_update.
Qed.

Lemma group_keeps g : keeps configured (group_policy g).
Proof.
  destruct g; repeat apply IfEnabledPolicy_keeps; try apply (NullPolicy_keeps configured); apply RolePolicy_keeps; unfold leaf_addrs; set_solver.
Qed.

Lemma group_enabled g s : configured s -> IsEnabled (group_policy g) s = true.
Proof. intros [[_ Hi] _]. destruct g; apply Hi; unfold if_addrs; set_solver. Qed.

(** A chain or a mux over children that keep a router configured. *)
Lemma wp_store_composite p l ch s :
  p ∈ [muxAddr; innerChainAddr; routerAddr] -> Forall (keeps configured) l -> configured s ->
  wp (let* r := update_children l ch None false in store_enabled p r.2 ;;; ret r.1) (fun s' _ => configured s' /\
    ((exists policy, policy ∈ l /\ forall s, configured s -> IsEnabled policy s = true) -> is_enabled p s' = true)) s.
Proof.
  intros Hp Hl Hs. wp_step. eapply wp_mono; [by apply (wp_update_children configured) |]. intros s1 r [Hs1 Hr]. wp_step.
  apply wp_store_enabled. intros s2 _ Hpools Hword Ho. wp_step. split; [by apply (configured_composite p r.2 s1 s2) |].
  intros Hex. rewrite (is_enabled_stored p r.2 s1 s2 Hword), (Hr (or_intror Hex)), (cf_env _ Hs1); [done |].
  unfold composite_addrs. set_solver.
Qed.
(** ** The two routers *)

(** DiscoveryUpdate of the router: NewRouter's chain over its policies. *)
Definition router_update (policies : list Policy) (ch : Changes) : M System unit :=
  DiscoveryUpdate (PolicyChain routerAddr policies) ch ;;; ret tt.

Definition mux_on (s : System) : Prop := configured s /\ is_enabled muxAddr s = true.

Lemma mux_on_composite p b s s' :
  mux_on s -> p ∈ [innerChainAddr; routerAddr] -> sy_pools s' = sy_pools s ->
  word p s' = psSetEnabled b (word p s) -> (forall q, q <> p -> word q s' = word q s) -> mux_on s'.
Proof.
  intros [Hs Hm] Hp Hpools Hw Ho. split; [eapply (configured_composite p b s); [done | set_solver | done ..] |].
  unfold is_enabled. rewrite Ho; [done |]. intros <-. by set_solver by lia.
Qed.

Definition mux_top (t : routeTrie group) (unique : list group) : Policy :=
  prefer coordinatingIfAddr (RolePolicy coordinatingAddr RoleCoordinatingOnly)
    (PolicyChain innerChainAddr [MuxPolicy muxAddr t group_policy unique; RoundRobinPolicy roundRobinAddr]).

Lemma NewMuxPolicy_built routes t unique :
  option_bind _ _ build_trie routes = Some t -> NewMuxPolicy routes unique = Some (MuxPolicy muxAddr t group_policy unique).
Proof. unfold NewMuxPolicy. destruct routes as [routes |]; [| done]. cbn. by intros ->. Qed.

Lemma default_routes_trie : exists t, option_bind _ _ build_trie NewDefaultRoutes = Some t.
Proof.
  destruct (parsed_trie _ _ (table_parses (defaultRoleRoutes Ingest Search Warm Data ClusterMgr))) as (routes & Hb & Ht & _).
  unfold NewDefaultRoutes. rewrite Hb. eexists. exact Ht.
Qed.

Lemma NewMuxRouter_built unique :
  exists t, option_bind _ _ build_trie NewDefaultRoutes = Some t /\ NewMuxRouter unique = Some [mux_top t unique].
Proof.
  destruct default_routes_trie as [t Ht]. exists t. split; [exact Ht |].
  unfold NewMuxRouter, NewMuxRoutePolicy. rewrite (NewMuxPolicy_built _ _ unique Ht). reflexivity.
Qed.

Lemma MuxPolicy_update t unique ch s : unique <> [] -> configured s ->
  wp (DiscoveryUpdate (MuxPolicy muxAddr t group_policy unique) ch) (fun s' _ => mux_on s') s.
Proof.
  intros Hne Hs. eapply wp_mono; [apply (wp_store_composite muxAddr (group_policy <$> unique) ch s) |].
  - set_solver.
  - apply Forall_fmap, Forall_true. intros g. apply group_keeps.
  - done.
  - intros s' e [Hs' Hen]. split; [done |]. apply Hen. destruct unique as [| g unique]; [done |].
    exists (group_policy g). split; [set_solver |]. intros s0 Hs0. by apply group_enabled.
Qed.

Lemma coordinating_keeps : keeps configured (RolePolicy coordinatingAddr RoleCoordinatingOnly).
Proof. apply RolePolicy_keeps. unfold leaf_addrs. set_solver. Qed.
Lemma round_robin_keeps : keeps configured (RoundRobinPolicy roundRobinAddr).
Proof. apply RoundRobinPolicy_keeps. unfold leaf_addrs. set_solver. Qed.

Lemma mux_top_update t unique ch s : unique <> [] -> configured s ->
  wp (DiscoveryUpdate (mux_top t unique) ch) (fun s' _ => mux_on s') s.
Proof.
  intros Hne Hs. unfold mux_top, prefer. cbn [DiscoveryUpdate IfEnabledPolicy inform_children]. wp_step.
  eapply wp_mono; [by apply coordinating_keeps |]. intros s1 e1 Hs1. wp_step. cbn [DiscoveryUpdate PolicyChain rev app update_children].
  do 2 wp_step. eapply wp_mono; [by apply round_robin_keeps |]. intros s2 e2 Hs2. do 3 wp_step.
  eapply wp_mono; [by apply MuxPolicy_update |]. intros s3 e3 Hs3. do 4 wp_step.
  apply wp_store_enabled. intros s4 _ Hpools Hw Ho. do 2 wp_step. eapply (mux_on_composite innerChainAddr); [exact Hs3 | set_solver | done | exact Hw | done].
Qed.

Lemma mux_router_update t unique ch s : unique <> [] -> configured s ->
  wp (router_update [mux_top t unique] ch) (fun s' _ => mux_on s') s.
Proof.
  intros Hne Hs. unfold router_update. cbn [DiscoveryUpdate PolicyChain rev app update_children]. do 3 wp_step.
  eapply wp_mono; [by apply mux_top_update |]. intros s1 e1 Hs1. do 4 wp_step. apply wp_store_enabled.
  intros s2 _ Hpools Hw Ho. do 2 wp_step. eapply (mux_on_composite routerAddr); [exact Hs1 | set_solver | done | exact Hw | done].
Qed.

Lemma mux_router_Route t unique s req : switched s -> is_enabled muxAddr s = true ->
  Route [mux_top t unique] req s =
    match mux_target t s req with
    | None => Some (s, (no_hop, Some ErrNoConnections))
    | Some k => asked (Some k) s
    end.
Proof.
  intros Hs Hm. set (mux := MuxPolicy muxAddr t group_policy unique).
  assert (Hch : chooses (mux_top t unique) (mux_router_choice t mux)).
  { apply prefer_chooses, (PolicyChain_chooses innerChainAddr
      [(mux, mux_choice muxAddr t group_choice); (RoundRobinPolicy roundRobinAddr, rr_choice roundRobinAddr)]).
    repeat constructor; [apply MuxPolicy_chooses, group_chooses | apply RoundRobinPolicy_chooses]. }
  rewrite (Route_chooses [(mux_top t unique, mux_router_choice t mux)]) by (by repeat constructor).
  cbn [first_choice]. assert (IsEnabled (mux_top t unique) s = true) as -> by (apply (cf_if _ Hs); unfold if_addrs; set_solver).
  rewrite mux_router_choice_on by done. by destruct (mux_target t s req).
Qed.

Lemma round_robin_router_Route s req : configured s -> is_enabled innerChainAddr s = true ->
  Route NewRoundRobinRouter req s =
    match round_robin_router_target s with
    | None => Some (s, (no_hop, Some ErrNoConnections))
    | Some k => asked (Some k) s
    end.
Proof.
  intros Hs Hon.
  set (c := if_choice coordinatingIfAddr (fun s _ => is_enabled coordinatingAddr s) (leaf_choice coordinatingAddr) pass).
  set (top := prefer coordinatingIfAddr (RolePolicy coordinatingAddr RoleCoordinatingOnly) (NullPolicy coordinatingNullAddr)).
  assert (Hch : chooses NewRoundRobinDefaultPolicy (chain_choice innerChainAddr [(top, c); (RoundRobinPolicy roundRobinAddr, rr_choice roundRobinAddr)])).
  { apply (PolicyChain_chooses innerChainAddr [(top, c); (RoundRobinPolicy roundRobinAddr, rr_choice roundRobinAddr)]).
    repeat constructor; [apply prefer_chooses, NullPolicy_chooses | apply RoundRobinPolicy_chooses]. }
  unfold NewRoundRobinRouter.
  rewrite (Route_chooses [(NewRoundRobinDefaultPolicy, chain_choice innerChainAddr [(top, c); (RoundRobinPolicy roundRobinAddr, rr_choice roundRobinAddr)])])
    by (by repeat constructor).
  cbn [first_choice]. change (IsEnabled NewRoundRobinDefaultPolicy s) with (is_enabled innerChainAddr s). rewrite Hon.
  unfold chain_choice. rewrite (cf_env _ Hs) by (unfold composite_addrs; set_solver). cbn [first_choice].
  assert (IsEnabled top s = true) as -> by (apply (cf_if _ Hs); unfold if_addrs; set_solver).
  unfold c. rewrite if_choice_on by (apply (cf_env _ Hs); unfold composite_addrs, if_addrs; set_solver).
  unfold round_robin_router_target. destruct (is_enabled coordinatingAddr s); [done |]. cbn [pass].
  cbn [IsEnabled RoundRobinPolicy]. unfold rr_choice, round_robin_target, has_pool. destruct (is_enabled roundRobinAddr s); [| done].
  by destruct (_ && _).
Qed.

(** The pool a router asks answers with a connection fit to serve. *)
Lemma wp_asked `{!PoolSelectorLaws} k name s w :
  sy_pools s !! k = Some w -> pool_bounds (w_mu w) -> next_budget (next_calls (w_mu w)) w ->
  wp (asked (Some (k, name))) (fun s' r =>
    match hop_Conn r.1 with
    | Some c => r.2 = None /\ hop_PoolName r.1 = name /\ exists w', sy_pools s' !! k = Some w' /\ served (with_heap w (sy_heap s)) w' c
    | None => r.2 = Some ErrNoConnections
    end) s.
Proof.
  intros Hw Hb Hbud. unfold asked, ask. do 2 wp_step. apply (wp_on_pool k _ s w); [done |].
  eapply wp_mono; [by apply wp_Next |]. intros w' r [[_ Hr] _]. do 2 wp_step. destruct r as [c |]; [| done]. cbn.
  split; [done |]. split; [done |]. exists w'. by rewrite lookup_insert_eq.
Qed.

Lemma mux_target_leaf t s req k name : mux_target t s req = Some (k, name) -> k ∈ leaf_addrs.
Proof.
  unfold mux_target, round_robin_target, leaf_addrs. destruct (is_enabled coordinatingAddr s); [intros [= <- _]; set_solver |].
  destruct req as [r |]; cbn [mbind option_bind]; [destruct (match_route t _ _) as [m |]; cbn [mbind option_bind] |].
  - destruct (first_enabled s _) as [x |] eqn:E; cbn.
    + intros [= <- _]. apply List.find_some in E as [E _]. apply list_elem_of_In in E. destruct (l_policy (m_leaf m)); set_solver.
    + destruct (_ && _); [intros [= <- _]; set_solver | done].
  - destruct (_ && _); [intros [= <- _]; set_solver | done].
  - destruct (_ && _); [intros [= <- _]; set_solver | done].
Qed.
Lemma wp_updates (P : System -> Prop) policies chs s0 :
  configured s0 -> chs <> [] -> (forall s, P s -> configured s) ->
  (forall ch s, configured s -> wp (router_update policies ch) (fun s' _ => P s') s) ->
  wp (forM chs (router_update policies)) (fun s _ => P s) s0.
Proof.
  intros Hs Hne HP Hup.
  assert (H : wp (forM chs (router_update policies)) (fun s _ => configured s /\ (chs <> [] -> P s)) s0).
  { apply (wp_forM chs _ (fun visited s => configured s /\ (visited <> [] -> P s))); [by split |].
    intros visited ch rest s _ [Hcf _]. eapply wp_mono; [by apply Hup |]. intros s' [] Hp. split; [by apply HP | done]. }
  eapply wp_mono; [exact H |]. intros s [] [_ Hp]. by apply Hp.
Qed.

Lemma round_robin_router_update ch s : configured s ->
  wp (router_update NewRoundRobinRouter ch) (fun s' _ => configured s' /\ is_enabled innerChainAddr s' = true) s.
Proof.
  intros Hs. unfold router_update, NewRoundRobinRouter. cbn [DiscoveryUpdate PolicyChain rev app update_children]. do 3 wp_step.
  eapply wp_mono; [apply (wp_store_composite innerChainAddr (rev [prefer coordinatingIfAddr (RolePolicy coordinatingAddr RoleCoordinatingOnly)
    (NullPolicy coordinatingNullAddr); RoundRobinPolicy roundRobinAddr]) ch s) |].
  - set_solver.
  - repeat constructor; [apply round_robin_keeps |]. apply IfEnabledPolicy_keeps; [apply coordinating_keeps | apply (NullPolicy_keeps configured)].
  - done.
  - intros s1 e1 [Hs1 Hon1]. do 4 wp_step. apply wp_store_enabled. intros s2 _ Hpools Hw Ho. do 2 wp_step.
    split; [by eapply (configured_composite routerAddr _ s1); [| set_solver | ..] |].
    unfold is_enabled. rewrite Ho by done. apply Hon1. exists (prefer coordinatingIfAddr (RolePolicy coordinatingAddr RoleCoordinatingOnly) (NullPolicy coordinatingNullAddr)).
    split; [set_solver |]. intros s3 Hs3. apply (cf_if _ Hs3). unfold if_addrs. set_solver.
Qed.

(** What routing through [policies] comes to in state [s]: for every request
    the pool [target] names is asked, nobody else, and the answer passed on
    under the route's pool name; without a target the router reports
    ErrNoConnections and changes nothing. The connection returned is held by
    that pool and fit to serve. *)
Definition routes_to `{!PoolSelectorLaws} (policies : list Policy) (target : System -> option Request -> option (nat * string)) (s : System) : Prop :=
  forall req,
    match target s req with
    | None => Route policies req s = Some (s, (no_hop, Some ErrNoConnections))
    | Some (k, name) =>
      Route policies req s = asked (Some (k, name)) s /\
      exists w, sy_pools s !! k = Some w /\
        (next_budget (next_calls (w_mu w)) w ->
         wp (Route policies req) (fun s' r =>
           match hop_Conn r.1 with
           | Some c => r.2 = None /\ hop_PoolName r.1 = name /\
               exists w', sy_pools s' !! k = Some w' /\ served (with_heap w (sy_heap s)) w' c
           | None => r.2 = Some ErrNoConnections
           end) s)
    end.

Lemma routes_to_intro `{!PoolSelectorLaws} policies target s :
  configured s -> (forall req k name, target s req = Some (k, name) -> k ∈ leaf_addrs) ->
  (forall req, Route policies req s =
     match target s req with
     | None => Some (s, (no_hop, Some ErrNoConnections))
     | Some k => asked (Some k) s
     end) -> routes_to policies target s.
Proof.
  intros Hs Hleaf Heq req. specialize (Heq req). specialize (Hleaf req).
  destruct (target s req) as [[k name] |]; [| done]. split; [done |].
  destruct (cf_leaf _ Hs k (Hleaf k name eq_refl)) as (w & Hw & Hb & _). exists w. split; [done |]. intros Hbud.
  pose proof (wp_asked k name s w Hw Hb Hbud) as Hwp. unfold wp in *. by rewrite Heq.
Qed.

(** C16: The routers route as documented. Start from any state in which the
    operator has disabled no composite policy, the conditional policies are
    enabled and every leaf's pool is well formed (a new router is one), and let
    discovery update the router once or more: the updates do not panic, and
    from then on the mux router gives each request to the coordinating-only
    nodes when there are any, and to nobody else; otherwise to the first
    enabled role of its route's group; otherwise to round robin; otherwise to
    nobody (ErrNoConnections, the seed fallback). The round-robin router does
    the same without roles. Each request asks one pool only; as long as that
    pool's selection counter does not wrap within the call, the request does
    not panic, and a connection returned is held by that pool and fit to
    serve. *)
Theorem routers_route `{!PoolSelectorLaws} unique s0 chs :
  unique <> [] -> configured s0 -> chs <> [] ->
  (exists t policies, option_bind _ _ build_trie NewDefaultRoutes = Some t /\ NewMuxRouter unique = Some policies /\
    wp (forM chs (router_update policies)) (fun s _ => routes_to policies (mux_target t) s) s0) /\
  wp (forM chs (router_update NewRoundRobinRouter)) (fun s _ =>
    routes_to NewRoundRobinRouter (fun s _ => round_robin_router_target s) s) s0.
Proof.
  intros Hu Hs Hne. split.
  - destruct (NewMuxRouter_built unique) as (t & Ht & Hr). exists t, [mux_top t unique]. split; [done |]. split; [done |].
    eapply wp_mono; [apply (wp_updates mux_on); [done | done | by intros s [] | intros ch s Hcf; by apply mux_router_update] |].
    intros s [] Hon. apply routes_to_intro; [apply Hon | apply mux_target_leaf |]. intros req. destruct Hon as [Hcf Hm]. exact (mux_router_Route t unique s req Hcf Hm).
  - eapply wp_mono; [apply (wp_updates (fun s => configured s /\ is_enabled innerChainAddr s = true));
      [done | done | by intros s [] | intros ch s Hcf; by apply round_robin_router_update] |].
    intros s [] [Hcf Hon]. apply routes_to_intro; [done | | intros req; by apply round_robin_router_Route].
    intros req k name. unfold round_robin_router_target, round_robin_target, leaf_addrs.
    destruct (is_enabled coordinatingAddr s); [intros [= <- _]; set_solver |]. destruct (_ && _); [intros [= <- _]; set_solver | done].
Qed.
End Routers.

(** * A new router *)

(** After New: NewIfEnabledPolicy enabled the conditional policies,
    configurePolicySettings made the pools. *)
Definition new_words : gmap nat Z := list_to_map ((fun p => (p, psSetEnabled true 0)) <$> if_addrs).
Definition new_system (h : heap) (config : policyConfig) (now : Z) (rng : list Z) : option System :=
  fst <$> forM leaf_addrs (leaf_configure config now rng) (MkSystem h ∅ new_words).

Lemma leaf_configure_all config now rng l s :
  exists s', forM l (leaf_configure config now rng) s = Some (s', tt) /\ sy_heap s' = sy_heap s /\ sy_words s' = sy_words s /\
    (forall p, is_Some (sy_pools s !! p) -> sy_pools s' !! p = sy_pools s !! p) /\
    (forall p, sy_pools s !! p = None -> p ∈ l -> sy_pools s' !! p = Some (createPoolFromConfig config now rng)).
Proof.
  revert s. induction l as [| q l IH]; intros s; cbn [forM]; [exists s; split_and!; [done .. | by intros p _ ?%elem_of_nil] |].
  unfold bind at 1. unfold leaf_configure at 1, modify. destruct (sy_pools s !! q) eqn:Eq.
  - destruct (IH s) as (s' & -> & Hh & Hw & Ho & Hn). exists s'. split_and!; [done .. |].
    intros p Hp [-> | Hin]%elem_of_cons; [congruence | by apply Hn].
  - destruct (IH (MkSystem (sy_heap s) (<[q := createPoolFromConfig config now rng]> (sy_pools s)) (sy_words s))) as (s' & -> & Hh & Hw & Ho & Hn).
    cbn in *. exists s'. split_and!; [done .. | |].
    + intros p Hp. assert (p <> q) by (intros ->; rewrite Eq in Hp; by destruct Hp).
      rewrite Ho by (by rewrite lookup_insert_ne). by rewrite lookup_insert_ne.
    + intros p Hp Hin. destruct (decide (p = q)) as [-> | Hne]; [rewrite Ho by (rewrite lookup_insert_eq; by eexists); by rewrite lookup_insert_eq |].
      apply Hn; [by rewrite lookup_insert_ne | by apply elem_of_cons in Hin as [? | ?]].
Qed.

(** The words of a new router satisfy what routing needs of them. *)
Lemma new_words_ok h pools :
  Forall (fun p => env_disabled p (MkSystem h pools new_words) = false) composite_addrs /\
  Forall (fun p => is_enabled p (MkSystem h pools new_words) = true) if_addrs.
Proof. split; repeat constructor. Qed.

Lemma new_system_configured h config now rng : exists s, new_system h config now rng = Some s /\ configured s /\ sy_heap s = h.
Proof.
  unfold new_system. destruct (leaf_configure_all config now rng leaf_addrs (MkSystem h ∅ new_words)) as (s & -> & Hh & Hw & _ & Hn).
  exists s. split; [done |]. split; [| done]. destruct s as [h' pools words]. cbn in Hh, Hw, Hn. subst h' words.
  destruct (new_words_ok h pools) as [He Hi]. rewrite Forall_forall in He, Hi. split; [split; [exact He | exact Hi] |].
  intros p Hp. exists (createPoolFromConfig config now rng). split; [by apply Hn |]. split; [done |]. intros c. cbn. set_solver.
Qed.

(** One data node joins: a search goes to the data pool. *)
Definition ex_router_heap : heap := {[ 7%nat := ex_data_node "http://n7:9200" (lcReady ||| lcActive ||| lcViable) 1 ]}.
Definition ex_changes : list Changes := [MkChanges (Some [7%nat]) None None].
Definition ex_config : policyConfig := MkConfig None 3 true.

Definition ex_routed (method path : string) : option (NextHop * option error) :=
  s ← new_system ex_router_heap ex_config 0 [];
  policies ← NewMuxRouter [Ingest; Search; Warm; Data; ClusterMgr];
  '(s, _) ← forM ex_changes (router_update policies) s;
  snd <$> Route policies (Some (MkRequest method path)) s.

Lemma routers_route_witness :
  ex_routed "GET" "/logs/_search" = Some (MkNextHop (Some 7%nat) "" 0, None) /\
  exists s0, new_system ex_router_heap ex_config 0 [] = Some s0 /\
  (exists t policies, option_bind _ _ build_trie NewDefaultRoutes = Some t /\
    NewMuxRouter [Ingest; Search; Warm; Data; ClusterMgr] = Some policies /\
    wp (forM ex_changes (router_update policies)) (fun s _ => routes_to policies (mux_target t) s) s0) /\
  wp (forM ex_changes (router_update NewRoundRobinRouter)) (fun s _ =>
    routes_to NewRoundRobinRouter (fun s _ => round_robin_router_target s) s) s0.
Proof.
  split; [vm_compute; reflexivity |].
  destruct (new_system_configured ex_router_heap ex_config 0 []) as (s0 & Hs0 & Hcf & _).
  exists s0. split; [exact Hs0 |].
  exact (routers_route [Ingest; Search; Warm; Data; ClusterMgr] s0 ex_changes ltac:(discriminate) Hcf ltac:(discriminate)).
Defined.
