(* ===== verification/Stream.v ===== *)
(** opensearchtransport.go: a request's way through the client (Stream, Request,
    stream, performSeedFallback), with the request decoration around it.

    One call is a computation over [Call]: the state it shares with the rest of
    the client ([System] and a few flags), the *http.Request it mutates in
    place, the variables res, err and sr of stream, and a log of what the
    outside world sees. The network is an [Environment]: what RoundTrip answers
    to each attempt, and what other goroutines do to the shared state before an
    attempt and while it is on the wire. Metrics, logging output and observer
    events are left out; a response always has a body, as net/http guarantees. *)

From Stdlib Require Import ZArith Lia Ascii String.
From stdpp Require Import base gmap list strings sorting pretty.
From S2P Require Import Prelude.
From S2P Require Import Atomic.
From S2P Require Import Lifecycle.
From S2P Require Import Rtt.
From S2P Require Import Congestion.
From S2P Require Import Conn.
From S2P Require Import Pool.
From S2P Require Import PoolSelect.
From S2P Require Import Policy.

Open Scope list_scope.
Open Scope Z_scope.

(** * Requests, responses, errors *)

(** The parts of a *url.URL the transport reads; [u_User] is user and password. *)
Record URL := MkURL { u_Scheme : string; u_Host : string; u_Path : string; u_User : option (string * string) }.

(** *http.Request. [rq_Body] is what is left to read (nil and NoBody are
    [None]); [rq_GetBody] is nil, a function that fails, or one that returns a
    fresh reader. Header keys are canonical. *)
Record httpRequest := MkHttpRequest {
  rq_Method : string;
  rq_Scheme : string;
  rq_Host : string;
  rq_Path : string;
  rq_RawPath : string;
  rq_RawQuery : string;
  rq_Header : gmap string (list string);
  rq_Body : option string;
  rq_GetBody : option (option string) }.

Definition rq_url (rq : httpRequest) (scheme host path rawPath rawQuery : string) : httpRequest :=
  MkHttpRequest (rq_Method rq) scheme host path rawPath rawQuery (rq_Header rq) (rq_Body rq) (rq_GetBody rq).
Definition rq_header (rq : httpRequest) (h : gmap string (list string)) : httpRequest :=
  MkHttpRequest (rq_Method rq) (rq_Scheme rq) (rq_Host rq) (rq_Path rq) (rq_RawPath rq) (rq_RawQuery rq) h (rq_Body rq) (rq_GetBody rq).
Definition rq_body (rq : httpRequest) (b : option string) (get : option (option string)) : httpRequest :=
  MkHttpRequest (rq_Method rq) (rq_Scheme rq) (rq_Host rq) (rq_Path rq) (rq_RawPath rq) (rq_RawQuery rq) (rq_Header rq) b get.

(** *http.Response; [rs_Body] is what reading it yields, [rs_readErr] whether
    that read ends in an error. *)
Record httpResponse := MkHttpResponse {
  rs_StatusCode : Z;
  rs_Close : bool;
  rs_Body : string;
  rs_readErr : bool }.

(** What errors.As and errors.Is find in an error of RoundTrip: an h2StreamError,
    io.EOF or io.ErrUnexpectedEOF, a net.Error and its Timeout(). *)
Record transportError := MkTransportError {
  te_stream : bool;
  te_EOF : bool;
  te_net : option bool }.

Inductive streamError :=
  | ErrCompress
  | ErrConnection (e : error)        (* cannot get connection: %w *)
  | ErrGetBody
  | ErrSign
  | ErrTransport (e : transportError)
  | ErrContext                       (* req.Context().Err() *)
  | ErrSeedExhausted (e : error)     (* cannot get connection: %w (seed fallback also exhausted) *)
  | ErrSeedGetBody
  | ErrSeedSign
  | ErrSeedTransport (e : transportError)
  | ErrResponseBodyRead.

(** * Decorating a request *)

Definition b64_char (n : Z) : ascii :=
  default "A"%char (String.get (Z.to_nat n) "ABCDEFGHIJKLMNOPQRSTUVWXYZabcdefghijklmnopqrstuvwxyz0123456789+/").
Definition byte_of (a : ascii) : Z := Z.of_nat (nat_of_ascii a).
(** base64.StdEncoding *)
Fixpoint base64 (s : string) : string :=
  match s with
  | EmptyString => ""
  | String a EmptyString =>
    String (b64_char (Z.shiftr (byte_of a) 2)) (String (b64_char (Z.shiftl (Z.land (byte_of a) 3) 4)) "==")
  | String a (String b EmptyString) =>
    String (b64_char (Z.shiftr (byte_of a) 2))
      (String (b64_char (Z.shiftl (Z.land (byte_of a) 3) 4 ||| Z.shiftr (byte_of b) 4))
        (String (b64_char (Z.shiftl (Z.land (byte_of b) 15) 2)) "="))
  | String a (String b (String c rest)) =>
    String (b64_char (Z.shiftr (byte_of a) 2))
      (String (b64_char (Z.shiftl (Z.land (byte_of a) 3) 4 ||| Z.shiftr (byte_of b) 4))
        (String (b64_char (Z.shiftl (Z.land (byte_of b) 15) 2 ||| Z.shiftr (byte_of c) 6))
          (String (b64_char (Z.land (byte_of c) 63)) (base64 rest))))
  end%string.

Definition in_bytes (lo hi : ascii) (c : ascii) : bool := (byte_of lo <=? byte_of c) && (byte_of c <=? byte_of hi).
(** httpguts.IsTokenRune on a byte *)
Definition header_byte (c : ascii) : bool :=
  in_bytes "a" "z" c || in_bytes "A" "Z" c || in_bytes "0" "9" c ||
  bool_decide (c ∈ ["!"; "#"; "$"; "%"; "&"; "'"; "*"; "+"; "-"; "."; "^"; "_"; "`"; "|"; "~"]%char).
Fixpoint header_bytes (s : string) : bool :=
  match s with EmptyString => true | String c s' => header_byte c && header_bytes s' end.
Fixpoint canonical_case (upper : bool) (s : string) : string :=
  match s with
  | EmptyString => ""
  | String c s' =>
    let c' := if upper && in_bytes "a" "z" c then ascii_of_nat (nat_of_ascii c - 32)
              else if negb upper && in_bytes "A" "Z" c then ascii_of_nat (nat_of_ascii c + 32) else c in
    String c' (canonical_case (Ascii.eqb c "-") s')
  end%string.
Definition CanonicalHeaderKey (k : string) : string := if header_bytes k then canonical_case true k else k.
Definition Header_Set (h : gmap string (list string)) (k v : string) : gmap string (list string) := <[CanonicalHeaderKey k := [v]]> h.
Definition Header_Add (h : gmap string (list string)) (k v : string) : gmap string (list string) :=
  <[CanonicalHeaderKey k := default [] (h !! CanonicalHeaderKey k) ++ [v]]> h.

(** u.Path without its trailing slashes *)
Fixpoint trimSlashes (s : string) : string :=
  match s with
  | EmptyString => ""
  | String c s' =>
    match trimSlashes s' with
    | EmptyString => if Ascii.eqb c "/" then "" else String c ""
    | t => String c t
    end
  end%string.

Definition setReqURL (u : URL) (rq : httpRequest) : httpRequest :=
  let base := trimSlashes (u_Path u) in
  if String.eqb base "" then rq_url rq (u_Scheme u) (u_Host u) (rq_Path rq) (rq_RawPath rq) (rq_RawQuery rq)
  else rq_url rq (u_Scheme u) (u_Host u) (base +:+ rq_Path rq)
         (if String.eqb (rq_RawPath rq) "" then rq_RawPath rq else base +:+ rq_RawPath rq) (rq_RawQuery rq).

Definition maxConcurrentShardRequestsParam : string := "max_concurrent_shard_requests".
(** The scan for the parameter; [anchored]: at the start or after '&'. *)
Fixpoint has_param (needle : string) (anchored : bool) (raw : string) : bool :=
  if anchored && String.prefix needle raw then true
  else match raw with EmptyString => false | String c raw' => has_param needle (Ascii.eqb c "&") raw' end.
Definition appendAdaptiveConcurrency (value : Z) (rq : httpRequest) : httpRequest :=
  let raw := rq_RawQuery rq in
  if has_param (maxConcurrentShardRequestsParam +:+ "=") true raw then rq
  else
    let param := maxConcurrentShardRequestsParam +:+ "=" +:+ pretty value in
    rq_url rq (rq_Scheme rq) (rq_Host rq) (rq_Path rq) (rq_RawPath rq)
      (if String.eqb raw "" then param else raw +:+ "&" +:+ param).

(** * The client *)

(** ConnectionPool and Router, as far as a request uses them, over the shared
    state. *)
Record ConnPool := MkConnPool {
  cp_Next : M System (option loc);           (* None: ErrNoConnections *)
  cp_OnSuccess : loc -> M System unit;
  cp_OnFailure : loc -> M System unit }.
Record Router := MkRouter {
  rt_Route : option Request -> M System (NextHop * option error);
  rt_OnSuccess : loc -> M System unit;
  rt_OnFailure : Z -> loc -> M System unit }.
(** c.router, or c.mu.connectionPool when there is none. *)
Inductive Balancer := ByRouter (r : Router) | ByPool (p : ConnPool).

Record Config := MkClientConfig {
  tc_maxRetries : Z;
  tc_disableRetry : bool;
  tc_enableRetryOnTimeout : bool;
  tc_retryOnStatus : list Z;
  tc_retryBackoff : bool;                     (* a backoff function is configured *)
  tc_compressRequestBody : bool;
  tc_logRequestBody : bool;                   (* c.logger != nil && c.logger.RequestBodyEnabled() *)
  tc_userAgent : string;
  tc_header : list (string * list string);    (* in the order the map is ranged over *)
  tc_username : string;
  tc_password : string;
  tc_healthCheck : bool;
  tc_resurrectTimeoutInitial : Z;
  tc_seedFallbackDisabled : bool }.

(** What an attempt meets: the time, how much of the body RoundTrip read, its
    answer, the outcome of the TryLocks, and whether the request's context ends
    the backoff. *)
Record Answer := MkAnswer {
  an_now : Z;
  an_consumed : nat;
  an_result : transportError + httpResponse;
  an_tryLock : bool;
  an_checkLocks : bool;
  an_cancelled : bool }.
Record Environment := MkEnvironment {
  en_answer : nat -> Answer;
  en_before : nat -> System -> System;
  en_during : nat -> System -> System;
  en_ctxDone : bool;                          (* ctx.Err() != nil at the seed fallback *)
  en_seed : Answer;
  en_seed_before : System -> System;
  en_seed_during : System -> System }.

(** streamResult: the last attempt, without its times. *)
Record streamResult := MkStreamResult {
  sr_attempt : nat;
  sr_sent : bool;
  sr_poolName : string;
  sr_hostPort : string }.

(** What the outside sees; [None] is the seed fallback's attempt. *)
Inductive event :=
  | EvInFlight (c : loc) (poolName : string)
  | EvSend (attempt : option nat) (c : loc) (poolName : string) (rq : httpRequest)
  | EvRelease (c : loc) (poolName : string)
  | EvSuccess (c : loc)
  | EvFailure (c : loc)
  | EvClose (attempt : option nat).

Record Call := MkCall {
  ca_sys : System;
  ca_lastCheck : gmap loc Z;                  (* conn.proactiveCheck.mu.lastAt *)
  ca_catRefreshNeeded : bool;
  ca_discoveryNeeded : bool;
  ca_checks : list loc;                       (* proactive health checks started *)
  ca_req : httpRequest;
  ca_res : option (option nat * httpResponse);   (* and the attempt it answered *)
  ca_err : option streamError;
  ca_sr : streamResult;
  ca_log : list event }.

Definition ca_with_sys (s : Call) (v : System) : Call :=
  MkCall v (ca_lastCheck s) (ca_catRefreshNeeded s) (ca_discoveryNeeded s) (ca_checks s) (ca_req s) (ca_res s) (ca_err s) (ca_sr s) (ca_log s).
Definition ca_with_check (s : Call) (c : loc) (now : Z) : Call :=
  MkCall (ca_sys s) (<[c := now]> (ca_lastCheck s)) (ca_catRefreshNeeded s) (ca_discoveryNeeded s) (ca_checks s ++ [c]) (ca_req s) (ca_res s) (ca_err s) (ca_sr s) (ca_log s).
Definition ca_with_flags (s : Call) (cat discovery : bool) : Call :=
  MkCall (ca_sys s) (ca_lastCheck s) cat discovery (ca_checks s) (ca_req s) (ca_res s) (ca_err s) (ca_sr s) (ca_log s).
Definition ca_with_req (s : Call) (v : httpRequest) : Call :=
  MkCall (ca_sys s) (ca_lastCheck s) (ca_catRefreshNeeded s) (ca_discoveryNeeded s) (ca_checks s) v (ca_res s) (ca_err s) (ca_sr s) (ca_log s).
Definition ca_with_result (s : Call) (res : option (option nat * httpResponse)) (err : option streamError) : Call :=
  MkCall (ca_sys s) (ca_lastCheck s) (ca_catRefreshNeeded s) (ca_discoveryNeeded s) (ca_checks s) (ca_req s) res err (ca_sr s) (ca_log s).
Definition ca_with_sr (s : Call) (v : streamResult) : Call :=
  MkCall (ca_sys s) (ca_lastCheck s) (ca_catRefreshNeeded s) (ca_discoveryNeeded s) (ca_checks s) (ca_req s) (ca_res s) (ca_err s) v (ca_log s).
Definition ca_with_event (s : Call) (e : event) : Call :=
  MkCall (ca_sys s) (ca_lastCheck s) (ca_catRefreshNeeded s) (ca_discoveryNeeded s) (ca_checks s) (ca_req s) (ca_res s) (ca_err s) (ca_sr s) (ca_log s ++ [e]).

Definition on_sys {A} (m : M System A) : M Call A := fun s =>
  match m (ca_sys s) with
  | Some (y, a) => Some (ca_with_sys s y, a)
  | None => None
  end.
Definition upd_req (f : httpRequest -> httpRequest) : M Call unit := modify (fun s => ca_with_req s (f (ca_req s))).
Definition set_result (res : option (option nat * httpResponse)) (err : option streamError) : M Call unit := modify (fun s => ca_with_result s res err).
Definition set_err (err : streamError) : M Call unit := modify (fun s => ca_with_result s (ca_res s) (Some err)).
Definition emit (e : event) : M Call unit := modify (fun s => ca_with_event s e).
Definition upd_shared_conn (c : loc) (f : Connection -> Connection) : M Call unit := on_sys (upd_shared c f).

(** Operations of the shared connection. *)
Definition set_pools (c : Connection) (v : poolRegistry) : Connection :=
  MkConnection (c_URLString c) (c_ID c) (c_Name c) (c_Roles c) (c_weight c) (c_allocatedProcessors c)
    (c_rttRing c) v (c_failures c) (c_state c) (c_deadSinceNano c) (c_overloadedAtNano c)
    (c_drainingQuiescingRemaining c) (c_checkStartedAt c) (c_seed c).
Definition conn_addInFlight (poolName : string) (c : Connection) : Connection := set_pools c (addInFlight (c_pools c) poolName).1.
Definition conn_releaseInFlight (poolName : string) (c : Connection) : Connection := set_pools c (releaseInFlight (c_pools c) poolName).1.
Definition conn_setNeedsCatUpdate (c : Connection) : Connection := set_state c (setNeedsCatUpdate (c_state c)).1.
Definition conn_mark429 (poolName : string) (tryLock : bool) (c : Connection) : Connection :=
  set_pools c (mark429 (c_pools c) poolName tryLock).

Definition is_no_connections (e : option streamError) : bool :=
  match e with
  | Some (ErrConnection ErrNoConnections) | Some (ErrSeedExhausted ErrNoConnections) => true
  | _ => false
  end.
Definition StatusTooManyRequests : Z := 429.

(** How an attempt ends: the next iteration, break, or a return. *)
Inductive flow := Continue | Break | Return.

Section Client.
Context (conn_URL : loc -> URL).                              (* conn.URL *)
Context (signer : option (httpRequest -> option httpRequest)) (* c.signer; None: an error *).
Context (compress : string -> option string)                  (* pooledGzipCompressor; None: an error *).
Context (tc : Config) (bal : Balancer) (seedFallbackPool : option ConnPool) (env : Environment).

Definition setReqUserAgent (rq : httpRequest) : httpRequest := rq_header rq (Header_Set (rq_Header rq) "User-Agent" (tc_userAgent tc)).
Definition setReqGlobalHeader (rq : httpRequest) : httpRequest :=
  rq_header rq (foldl (fun h '(k, v) =>
    match h !! CanonicalHeaderKey k with
    | Some _ => h
    | None => foldl (fun h vv => Header_Add h k vv) h v
    end) (rq_Header rq) (tc_header tc)).
Definition SetBasicAuth (username password : string) (rq : httpRequest) : httpRequest :=
  rq_header rq (Header_Set (rq_Header rq) "Authorization" ("Basic " +:+ base64 (username +:+ ":" +:+ password))).
Definition setReqAuth (u : URL) (rq : httpRequest) : httpRequest :=
  match rq_Header rq !! "Authorization" with
  | Some _ => rq
  | None =>
    match u_User u with
    | Some (username, password) => SetBasicAuth username password rq
    | None =>
      if negb (String.eqb (tc_username tc) "") && negb (String.eqb (tc_password tc) "")
      then SetBasicAuth (tc_username tc) (tc_password tc) rq else rq
    end
  end.
Definition signRequest (rq : httpRequest) : option httpRequest := match signer with Some f => f rq | None => Some rq end.

(** Compression, or buffering so that the body can be sent again. *)
Definition prepare_body (rq : httpRequest) : option httpRequest :=
  match rq_Body rq with
  | None => Some rq
  | Some body =>
    if tc_compressRequestBody tc then
      match compress body with
      | None => None
      | Some z => Some (rq_header (rq_body rq (Some z) (Some (Some z))) (Header_Set (rq_Header rq) "Content-Encoding" "gzip"))
      end
    else
      match rq_GetBody rq with
      | Some _ => Some rq
      | None => if negb (tc_disableRetry tc) || tc_logRequestBody tc then Some (rq_body rq (Some body) (Some (Some body))) else Some rq
      end
  end.

(** hop, err = c.router.Route(...) or conn, err = pool.Next(). *)
Definition get_connection (i : nat) : M Call (option loc * string * option error) :=
  on_sys (modify (en_before env i)) ;;;
  match bal with
  | ByRouter r =>
    let* rq := gets ca_req in
    let* h := on_sys (rt_Route r (Some (MkRequest (rq_Method rq) (rq_Path rq)))) in
    let '(hop, err) := h in
    whenM (0 <? hop_MaxConcurrentShardRequests hop) (upd_req (appendAdaptiveConcurrency (hop_MaxConcurrentShardRequests hop))) ;;;
    ret (hop_Conn hop, hop_PoolName hop, err)
  | ByPool p =>
    let* c := on_sys (cp_Next p) in
    ret (c, ""%string, match c with Some _ => None | None => Some ErrNoConnections end)
  end.

Definition address (c : loc) : M Call unit :=
  upd_req (setReqURL (conn_URL c)) ;;;
  upd_req (setReqAuth (conn_URL c)) ;;;
  modify (fun s => ca_with_sr s (MkStreamResult (sr_attempt (ca_sr s)) (sr_sent (ca_sr s)) (sr_poolName (ca_sr s))
    (u_Scheme (conn_URL c) +:+ "://" +:+ u_Host (conn_URL c)))).

(** req.GetBody(): a nil function panics; [None] is its error. *)
Definition call_GetBody : M Call (option string) := getsM (fun s => rq_GetBody (ca_req s)).
(** [false]: an error, already recorded. *)
Definition rewind (i : nat) : M Call bool :=
  let* rq := gets ca_req in
  match rq_Body rq with
  | Some _ =>
    if negb (tc_disableRetry tc) && (0 <? i)%nat then
      let* body := call_GetBody in
      match body with
      | None => set_result None (Some ErrGetBody) ;;; ret false
      | Some b => upd_req (fun rq => rq_body rq (Some b) (rq_GetBody rq)) ;;; ret true
      end
    else ret true
  | None => ret true
  end.
Definition sign (e : streamError) : M Call bool :=
  let* rq := gets ca_req in
  match signRequest rq with
  | None => set_result None (Some e) ;;; ret false
  | Some rq' => upd_req (fun _ => rq') ;;; ret true
  end.

(** RoundTrip: others run, the request is sent, some of its body is read. *)
Definition skip (n : nat) (s : string) : string := String.substring n (String.length s - n) s.
Definition round_trip (attempt : option nat) (c : loc) (poolName : string) (an : Answer) (others : System -> System) : M Call unit :=
  let* rq := gets ca_req in
  emit (EvSend attempt c poolName rq) ;;;
  on_sys (modify others) ;;;
  upd_req (fun rq => rq_body rq (skip (an_consumed an) <$> rq_Body rq) (rq_GetBody rq)) ;;;
  match an_result an with
  | inl te => set_result None (Some (match attempt with Some _ => ErrTransport te | None => ErrSeedTransport te end))
  | inr rs => set_result (Some (attempt, rs)) None
  end.

Definition in_flight (c : loc) (poolName : string) : M Call unit :=
  whenM (negb (String.eqb poolName "")) (upd_shared_conn c (conn_addInFlight poolName) ;;; emit (EvInFlight c poolName)).
Definition landed (c : loc) (poolName : string) : M Call unit :=
  whenM (negb (String.eqb poolName "")) (upd_shared_conn c (conn_releaseInFlight poolName) ;;; emit (EvRelease c poolName)).

(** Logging shows the body again. *)
Definition log_round_trip : M Call unit :=
  let* rq := gets ca_req in
  match rq_Body rq with
  | Some _ =>
    whenM (tc_logRequestBody tc) (let* body := call_GetBody in upd_req (fun rq => rq_body rq body (rq_GetBody rq)))
  | None => ret tt
  end.

Definition report_failure (now : Z) (c : loc) : M Call unit :=
  match bal with
  | ByRouter r => on_sys (rt_OnFailure r now c)
  | ByPool p => on_sys (cp_OnFailure p c)
  end ;;;
  emit (EvFailure c).
Definition report_success (c : loc) : M Call unit :=
  match bal with
  | ByRouter r => on_sys (rt_OnSuccess r c)
  | ByPool p => on_sys (cp_OnSuccess p c)
  end ;;;
  emit (EvSuccess c).
(** setNeedsCatUpdate and requestCatRefresh *)
Definition invalidate_shards (c : loc) : M Call unit :=
  upd_shared_conn c conn_setNeedsCatUpdate ;;;
  modify (fun s => ca_with_flags s true (ca_discoveryNeeded s)).

(** scheduleProactiveHealthCheck up to its [go]; [locks]: both TryLocks succeed. *)
Definition recent (now : Z) (last : option Z) : bool :=
  match last with Some t => now - t <? tc_resurrectTimeoutInitial tc | None => false end.
Definition scheduleProactiveHealthCheck (now : Z) (locks : bool) (c : loc) : M Call unit :=
  if negb (tc_healthCheck tc) then ret tt
  else if negb locks then ret tt
  else
    let* last := gets (fun s => ca_lastCheck s !! c) in
    if recent now last then ret tt
    else modify (fun s => ca_with_check s c now).
(** The goroutine it starts, [failed] being the health check's verdict. *)
Definition proactiveHealthCheck (now : Z) (failed : bool) (c : loc) : M Call unit :=
  if failed then
    match bal with
    | ByRouter r => on_sys (rt_OnFailure r now c)
    | ByPool p => on_sys (cp_OnFailure p c)
    end
  else upd_shared_conn c (fun conn => (decrementDrainingQuiescing conn).1).

(** if err != nil: report, and whether to retry. *)
Definition retry_error (te : transportError) : bool :=
  te_stream te || te_EOF te ||
  match te_net te with
  | Some timeout => (negb timeout || tc_enableRetryOnTimeout tc) && negb (tc_disableRetry tc)
  | None => false
  end.
Definition on_error (now : Z) (c : loc) (te : transportError) : M Call bool :=
  whenM (te_stream te) (upd_shared_conn c (fun conn => set_draining conn defaultDrainingQuiescingChecks)) ;;;
  report_failure now c ;;;
  invalidate_shards c ;;;
  ret (retry_error te).

(** else: report, and whether to retry (and to close the body). *)
Definition status_retried (rs : httpResponse) : bool :=
  negb (tc_disableRetry tc) && existsb (Z.eqb (rs_StatusCode rs)) (tc_retryOnStatus tc).
Definition too_many (poolName : string) (rs : httpResponse) : bool :=
  (rs_StatusCode rs =? StatusTooManyRequests) && negb (String.eqb poolName "").
Definition retry_response (poolName : string) (rs : httpResponse) : bool :=
  status_retried rs || too_many poolName rs && negb (tc_disableRetry tc).
Definition on_response (an : Answer) (c : loc) (poolName : string) (rs : httpResponse) : M Call bool :=
  report_success c ;;;
  whenM (rs_Close rs) (scheduleProactiveHealthCheck (an_now an) (an_checkLocks an) c) ;;;
  whenM (status_retried rs) (invalidate_shards c) ;;;
  whenM (too_many poolName rs) (upd_shared_conn c (conn_mark429 poolName (an_tryLock an))) ;;;
  ret (retry_response poolName rs).

(** The end of an iteration. *)
Definition retries_left (i : nat) : bool := Z.of_nat i <? tc_maxRetries tc.
Definition before_retry (i : nat) (an : Answer) : M Call flow :=
  match an_result an with
  | inr _ => whenM (retries_left i) (emit (EvClose (Some i)))
  | inl _ => ret tt
  end ;;;
  if tc_retryBackoff tc && retries_left i && an_cancelled an then set_err ErrContext ;;; ret Break
  else ret Continue.

Definition send (i : nat) (c : loc) (poolName : string) : M Call flow :=
  let an := en_answer env i in
  in_flight c poolName ;;;
  round_trip (Some i) c poolName an (en_during env i) ;;;
  modify (fun s => ca_with_sr s (MkStreamResult i true poolName (sr_hostPort (ca_sr s)))) ;;;
  landed c poolName ;;;
  log_round_trip ;;;
  let* shouldRetry :=
    (match an_result an with
     | inl te => on_error (an_now an) c te
     | inr rs => on_response an c poolName rs
     end) in
  if (shouldRetry : bool) then before_retry i an else ret Break.

(** The body of the loop. *)
Definition attempt (i : nat) : M Call flow :=
  let* r := get_connection i in
  let '(c, poolName, err) := r in
  match err with
  | Some e =>
    set_result None (Some (ErrConnection e)) ;;;
    ret (match e with ErrNoConnections => Break | _ => Return end)
  | None =>
    match c with
    | None => panic
    | Some c =>
      address c ;;;
      let* ok := rewind i in
      if negb ok then ret Return
      else
        let* ok := sign ErrSign in
        if negb ok then ret Return else send i c poolName
    end
  end.

Fixpoint attempts (n i : nat) : M Call flow :=
  match n with
  | O => ret Break
  | S n' =>
    let* f := attempt i in
    match f with Continue => attempts n' (S i) | _ => ret f end
  end.

Definition seed_rewind : M Call bool :=
  let* rq := gets ca_req in
  match rq_Body rq, rq_GetBody rq with
  | Some _, Some None => set_result None (Some ErrSeedGetBody) ;;; ret false
  | Some _, Some (Some b) => upd_req (fun rq => rq_body rq (Some b) (rq_GetBody rq)) ;;; ret true
  | _, _ => ret true
  end.

Definition performSeedFallback (p : ConnPool) : M Call unit :=
  if en_ctxDone env then set_result None (Some ErrContext)
  else
    on_sys (modify (en_seed_before env)) ;;;
    let* c := on_sys (cp_Next p) in
    match c with
    | None => set_result None (Some (ErrSeedExhausted ErrNoConnections))
    | Some c =>
      address c ;;;
      let* ok := seed_rewind in
      if negb ok then ret tt
      else
        let* ok := sign ErrSeedSign in
        if negb ok then ret tt
        else
          round_trip None c "" (en_seed env) (en_seed_during env) ;;;
          match an_result (en_seed env) with
          | inl _ => on_sys (cp_OnFailure p c) ;;; emit (EvFailure c)
          | inr _ =>
            on_sys (cp_OnSuccess p c) ;;; emit (EvSuccess c) ;;;
            modify (fun s => ca_with_flags s (ca_catRefreshNeeded s) true)
          end
    end.

(** for i := 0; i <= c.maxRetries; i++ *)
Definition stream : M Call unit :=
  upd_req (fun rq => setReqGlobalHeader (setReqUserAgent rq)) ;;;
  let* rq := gets ca_req in
  match prepare_body rq with
  | None => set_result None (Some ErrCompress)
  | Some rq =>
    upd_req (fun _ => rq) ;;;
    let* f := attempts (Z.to_nat (tc_maxRetries tc + 1)) 0 in
    match f with
    | Return => ret tt
    | _ =>
      let* err := gets ca_err in
      match seedFallbackPool with
      | Some p => whenM (is_no_connections err && negb (tc_seedFallbackDisabled tc)) (performSeedFallback p)
      | None => ret tt
      end
    end
  end.

(** A call to Stream: the response, unread, and the error. *)
Definition Transport_Stream : M Call (option httpResponse * option streamError) :=
  stream ;;; gets (fun s => (snd <$> ca_res s, ca_err s)).

(** A call to Request: the body is read to its end and closed, and its bytes
    are the new body. A body closed before reads as nothing and an error. *)
Definition closed (attempt : option nat) (log : list event) : bool :=
  existsb (fun e => match e with EvClose a => bool_decide (a = attempt) | _ => false end) log.
Definition read_all (s : Call) (attempt : option nat) (rs : httpResponse) : string * bool :=
  if closed attempt (ca_log s) then (""%string, true) else (rs_Body rs, rs_readErr rs).
Definition Transport_Request : M Call (option httpResponse * option streamError) :=
  stream ;;;
  let* s := gets (fun s => s) in
  match ca_res s with
  | None => ret (None, ca_err s)
  | Some (from, rs) =>
    let '(body, rerr) := read_all s from rs in
    emit (EvClose from) ;;;
    ret (Some (MkHttpResponse (rs_StatusCode rs) (rs_Close rs) body false),
         match ca_err s with
         | Some e => Some e
         | None => if (rerr : bool) then Some ErrResponseBodyRead else None
         end)
  end.
End Client.

(** * The two kinds of balancer *)

Section Balancers.
Context `{sel : PoolSelector}.
(** NewRouter(policies...) *)
Definition NewRouter (policies : list Policy) : Router := MkRouter (Route policies) chain_OnSuccess chain_OnFailure.
(** A multiServerPool without a router. *)
Definition multi_pool (p : nat) : ConnPool :=
  MkConnPool (on_pool p Next) (fun c => on_pool p (OnSuccess c)) (fun c => on_pool p (OnFailure c)).
End Balancers.
