(* ===== verification/StreamRun.v ===== *)
(** What a call to Stream does: the attempts it makes, the reports behind them,
    what goes over the wire, which response bodies it closes and what it
    returns, proved against the interfaces [RouterLaws] and [ConnPoolLaws]. The
    theorems are in StreamSpec.v. *)

From Stdlib Require Import ZArith Lia Ascii String.
From stdpp Require Import base gmap list strings sorting pretty.
From S2P Require Import Prelude.
From S2P Require Import Atomic.
From S2P Require Import Lifecycle.
From S2P Require Import Rtt.
From S2P Require Import Congestion.
From S2P Require Import Conn.
From S2P Require Import Pool.
From S2P Require Import Policy.
From S2P Require Import Stream.

Open Scope list_scope.
Open Scope Z_scope.

(** * What a request relies on

    [Inv] is what the shared state satisfies when a request asks for a
    connection, [Live] what is left of it afterwards (a request uses up part of
    a counter's range, say). *)
Section Interfaces.
Context (Inv Live : System -> Prop).

(** Requests write to shared connections. *)
Class Steady := steady_heap : forall s h, Live s -> Live (MkSystem h (sy_pools s) (sy_words s)).
Class ConnPoolLaws (p : ConnPool) := {
  next_law s : Inv s -> wp (cp_Next p) (fun s' _ => Live s') s;
  pool_success_law c s : Live s -> wp (cp_OnSuccess p c) (fun s' _ => Live s') s;
  pool_failure_law c s : Live s -> wp (cp_OnFailure p c) (fun s' _ => Live s') s }.
Class RouterLaws (r : Router) := {
  route_law rq s : Inv s -> wp (rt_Route r rq) (fun s' h => Live s' /\ (h.2 = None -> is_Some (hop_Conn h.1))) s;
  router_success_law c s : Live s -> wp (rt_OnSuccess r c) (fun s' _ => Live s') s;
  router_failure_law now c s : Live s -> wp (rt_OnFailure r now c) (fun s' _ => Live s') s }.
Class BalancerLaws (bal : Balancer) :=
  balancer_law : match bal with ByRouter r => RouterLaws r | ByPool p => ConnPoolLaws p end.
(** Other goroutines restore [Inv] before every selection and keep [Live]. *)
Class Rely (env : Environment) := {
  rely_before i s : Live s -> Inv (en_before env i s);
  rely_during i s : Live s -> Live (en_during env i s);
  rely_seed_before s : Live s -> Inv (en_seed_before env s);
  rely_seed_during s : Live s -> Live (en_seed_during env s) }.
#[export] Instance by_router r : RouterLaws r -> BalancerLaws (ByRouter r).
Proof. done. Qed.
#[export] Instance by_pool p : ConnPoolLaws p -> BalancerLaws (ByPool p).
Proof. done. Qed.
End Interfaces.

(** * What a run looks like *)

Section Spec.
Context (tc : Config) (env : Environment).

(** An attempt that was sent. *)
Record Sent := MkSent { st_attempt : nat; st_conn : loc; st_pool : string; st_req : httpRequest }.

Definition st_answer (x : Sent) : Answer := en_answer env (st_attempt x).
Definition retried (x : Sent) : bool :=
  match an_result (st_answer x) with
  | inl te => retry_error tc te
  | inr rs => retry_response tc (st_pool x) rs
  end.
Definition got (x : Sent) : option (option nat * httpResponse) * option streamError :=
  match an_result (st_answer x) with
  | inl te => (None, Some (ErrTransport te))
  | inr rs => (Some (Some (st_attempt x), rs), None)
  end.
Definition interrupted (x : Sent) : bool := tc_retryBackoff tc && retries_left tc (st_attempt x) && an_cancelled (st_answer x).
Definition outcome (x : Sent) : option (option nat * httpResponse) * option streamError * flow :=
  if retried x then
    if interrupted x then ((got x).1, Some ErrContext, Break) else (got x, Continue)
  else (got x, Break).
Definition goes_on (x : Sent) : Prop := retried x = true /\ interrupted x = false.

(** What an attempt leaves in the log: one send, paired in-flight counts, one
    report, and the response's body closed when another attempt may follow. *)
Definition closes (x : Sent) : bool :=
  match an_result (st_answer x) with
  | inl _ => false
  | inr rs => retry_response tc (st_pool x) rs && retries_left tc (st_attempt x)
  end.
Definition block (x : Sent) : list event :=
  let c := st_conn x in
  let counted (e : event) := if String.eqb (st_pool x) "" then [] else [e] in
  counted (EvInFlight c (st_pool x)) ++
  [EvSend (Some (st_attempt x)) c (st_pool x) (st_req x)] ++
  counted (EvRelease c (st_pool x)) ++
  [match an_result (st_answer x) with inl _ => EvFailure c | inr _ => EvSuccess c end] ++
  (if closes x then [EvClose (Some (st_attempt x))] else []).

(** The errors before an attempt is sent. *)
Definition unsent (e : streamError) : Prop :=
  match e with ErrConnection _ | ErrGetBody | ErrSign => True | _ => False end.
Definition unsent_flow (e : streamError) : flow :=
  match e with ErrConnection ErrNoConnections => Break | _ => Return end.

(** How the loop over [n] attempts ends, after those of [h]. *)
Inductive ending (n : nat) (r0 : option (option nat * httpResponse) * option streamError) :
    list Sent -> option (option nat * httpResponse) * option streamError -> flow -> Prop :=
  | EndExhausted h : Forall goes_on h -> length h = n -> ending n r0 h (from_option got r0 (last h)) Break
  | EndStopped h x : Forall goes_on h -> ~ goes_on x -> (length h < n)%nat -> ending n r0 (h ++ [x]) (outcome x).1 Break
  | EndUnsent h e : Forall goes_on h -> (length h < n)%nat -> unsent e -> ending n r0 h (None, Some e) (unsent_flow e).
End Spec.

(** * Computations that only report

    [calm m evs P]: from any live state [m] does not panic, keeps the state
    live, adds [evs] to the log, leaves the request and the result alone and
    returns a value in [P]. *)
Section Calm.
Context (Live : System -> Prop) `{!Steady Live}.

Definition logged (s s' : Call) (evs : list event) : Prop :=
  Live (ca_sys s') /\ ca_req s' = ca_req s /\ ca_res s' = ca_res s /\ ca_err s' = ca_err s /\ ca_log s' = ca_log s ++ evs.
Definition calm {A} (m : M Call A) (evs : list event) (P : A -> Prop) : Prop :=
  forall s, Live (ca_sys s) -> wp m (fun s' a => logged s s' evs /\ P a) s.

Lemma logged_trans s1 s2 s3 e1 e2 : logged s1 s2 e1 -> logged s2 s3 e2 -> logged s1 s3 (e1 ++ e2).
Proof.
  intros (_ & R1 & S1 & E1 & L1) (Hl & R2 & S2 & E2 & L2). unfold logged.
  by rewrite R2, S2, E2, L2, R1, S1, E1, L1, app_assoc.
Qed.

Lemma calm_bind {A B} (m : M Call A) (k : A -> M Call B) e1 e2 (P : A -> Prop) (R : B -> Prop) :
  calm m e1 P -> (forall a, P a -> calm (k a) e2 R) -> calm (bind m k) (e1 ++ e2) R.
Proof.
  intros Hm Hk s Hs. apply wp_bind. eapply wp_mono; [by apply Hm |]. intros s1 a [Hl1 Ha].
  eapply wp_mono; [apply (Hk a Ha), Hl1 |]. intros s2 b [Hl2 Hb]. split; [by eapply logged_trans | done].
Qed.

Lemma calm_ret {A} (a : A) : calm (ret a) [] (fun b => b = a).
Proof. intros s Hs. unfold wp, ret, logged. by rewrite app_nil_r. Qed.

Lemma calm_done : calm (ret tt) [] (fun _ => True).
Proof. intros s Hs. unfold wp, ret, logged. by rewrite app_nil_r. Qed.

Lemma calm_emit e : calm (emit e) [e] (fun _ => True).
Proof. intros s Hs. by apply wp_modify. Qed.

Lemma calm_gets {A} (f : Call -> A) : calm (gets f) [] (fun _ => True).
Proof. intros s Hs. apply wp_gets. unfold logged. by rewrite app_nil_r. Qed.

Lemma calm_when b m evs : calm m evs (fun _ => True) -> calm (whenM b m) (if b then evs else []) (fun _ => True).
Proof. intros Hm. destruct b; [exact Hm |]. intros s Hs. apply wp_ret. unfold logged. by rewrite app_nil_r. Qed.

Lemma calm_quiet b m : calm m [] (fun _ => True) -> calm (whenM b m) [] (fun _ => True).
Proof. intros Hm. pose proof (calm_when b m [] Hm) as H. by destruct b. Qed.

(** The flags and the throttling times. *)
Lemma calm_modify f :
  (forall s, ca_sys (f s) = ca_sys s /\ ca_req (f s) = ca_req s /\ ca_res (f s) = ca_res s /\ ca_err (f s) = ca_err s /\ ca_log (f s) = ca_log s) ->
  calm (modify f) [] (fun _ => True).
Proof.
  intros Hf s Hs. apply wp_modify. destruct (Hf s) as (Hy & Hq & Hr & He & Hl). unfold logged.
  by rewrite Hy, Hq, Hr, He, Hl, app_nil_r.
Qed.

Lemma wp_on_sys {A} (m : M System A) (Q : Call -> A -> Prop) s :
  wp m (fun y a => Q (ca_with_sys s y) a) (ca_sys s) -> wp (on_sys m) Q s.
Proof. unfold wp, on_sys. by destruct (m (ca_sys s)) as [[y a] |]. Qed.

Lemma calm_on_sys {A} (m : M System A) (P : A -> Prop) :
  (forall y, Live y -> wp m (fun y' a => Live y' /\ P a) y) -> calm (on_sys m) [] P.
Proof.
  intros Hm s Hs. apply wp_on_sys. eapply wp_mono; [by apply Hm |]. intros y a [Hy Ha].
  unfold logged. cbn. by rewrite app_nil_r.
Qed.

Lemma calm_keeps (m : M System unit) : (forall y, Live y -> wp m (fun y' _ => Live y') y) -> calm (on_sys m) [] (fun _ => True).
Proof. intros Hm. apply calm_on_sys. intros y Hy. eapply wp_mono; [by apply Hm |]. done. Qed.

Lemma calm_shared c f : calm (upd_shared_conn c f) [] (fun _ => True).
Proof. apply calm_keeps. intros y Hy. unfold upd_shared. apply wp_modify. by apply steady_heap. Qed.
End Calm.

Section Run.
Context {Inv Live : System -> Prop} `{!Steady Live}.
Context (conn_URL : loc -> URL) (signer : option (httpRequest -> option httpRequest)) (compress : string -> option string).
Context (tc : Config) (bal : Balancer) (seedFallbackPool : option ConnPool) (env : Environment).
Context `{Hbal : !BalancerLaws Inv Live bal} `{!Rely Inv Live env}.
(** A signer adds headers. *)
Context (Hsigner : forall f rq rq', signer = Some f -> f rq = Some rq' -> exists h, rq' = rq_header rq h).

Notation calm := (calm Live).

Lemma calm_report_failure now c : calm (report_failure bal now c) [EvFailure c] (fun _ => True).
Proof.
  change [EvFailure c] with ([] ++ [EvFailure c]). eapply calm_bind; [| intros ? _; apply calm_emit].
  unfold BalancerLaws in Hbal. destruct bal as [r | p]; apply calm_keeps; intros y Hy;
    [by eapply router_failure_law | by eapply pool_failure_law].
Qed.

Lemma calm_report_success c : calm (report_success bal c) [EvSuccess c] (fun _ => True).
Proof.
  change [EvSuccess c] with ([] ++ [EvSuccess c]). eapply calm_bind; [| intros ? _; apply calm_emit].
  unfold BalancerLaws in Hbal. destruct bal as [r | p]; apply calm_keeps; intros y Hy;
    [by eapply router_success_law | by eapply pool_success_law].
Qed.

Lemma calm_invalidate c : calm (invalidate_shards c) [] (fun _ => True).
Proof.
  change (@nil event) with (@nil event ++ []). eapply calm_bind; [apply calm_shared; apply _ | intros ? _]. by apply calm_modify.
Qed.

Lemma calm_schedule now locks c : calm (scheduleProactiveHealthCheck tc now locks c) [] (fun _ => True).
Proof.
  unfold scheduleProactiveHealthCheck. destruct (negb _); [apply calm_done |].
  destruct (negb _); [apply calm_done |].
  change (@nil event) with (@nil event ++ []). eapply calm_bind; [apply calm_gets | intros last _].
  destruct (recent _ _ _); [apply calm_done | by apply calm_modify].
Qed.

(** Sequences: the first part reports nothing, or the second does. *)
Lemma calm_seq {A B} (m : M Call A) (k : A -> M Call B) evs (P : A -> Prop) (R : B -> Prop) :
  calm m [] P -> (forall a, P a -> calm (k a) evs R) -> calm (bind m k) evs R.
Proof. intros Hm Hk. by apply (calm_bind Live m k [] evs P). Qed.
Lemma calm_last {A B} (m : M Call A) (k : A -> M Call B) evs (P : A -> Prop) (R : B -> Prop) :
  calm m evs P -> (forall a, P a -> calm (k a) [] R) -> calm (bind m k) evs R.
Proof. intros Hm Hk. rewrite <- (app_nil_r evs). by apply (calm_bind Live m k evs [] P). Qed.

Definition counted (poolName : string) (e : event) : list event := if String.eqb poolName "" then [] else [e].

Lemma calm_counted c poolName f e :
  calm (whenM (negb (String.eqb poolName "")) (upd_shared_conn c f ;;; emit e)) (counted poolName e) (fun _ => True).
Proof.
  unfold counted. pose proof (calm_when Live (negb (String.eqb poolName "")) (upd_shared_conn c f ;;; emit e) [e]) as H.
  destruct (String.eqb poolName ""); (apply H; eapply calm_seq; [apply calm_shared; apply _ | intros ? _; apply calm_emit]).
Qed.

Lemma calm_on_error now c te : calm (on_error tc bal now c te) [EvFailure c] (fun b => b = retry_error tc te).
Proof.
  eapply calm_seq; [apply calm_quiet, calm_shared; apply _ | intros ? _].
  eapply calm_last; [apply calm_report_failure | intros ? _].
  eapply calm_last; [apply calm_invalidate | intros ? _; apply calm_ret].
Qed.

Lemma calm_on_response an c poolName rs :
  calm (on_response tc bal an c poolName rs) [EvSuccess c] (fun b => b = retry_response tc poolName rs).
Proof.
  eapply calm_last; [apply calm_report_success | intros ? _].
  eapply calm_last; [apply calm_quiet, calm_schedule | intros ? _].
  eapply calm_last; [apply calm_quiet, calm_invalidate | intros ? _].
  eapply calm_last; [apply calm_quiet, calm_shared; apply _ | intros ? _; apply calm_ret].
Qed.

(** ** Sending *)

(** A reader can be had again where the code asks for one. *)
Definition replayable (rq : httpRequest) : Prop :=
  negb (tc_disableRetry tc) || tc_logRequestBody tc = true -> is_Some (rq_Body rq) -> is_Some (rq_GetBody rq).
(** The request after RoundTrip read some of its body, and logging. *)
Definition used_up (an : Answer) (rq : httpRequest) : httpRequest :=
  let body := skip (an_consumed an) <$> rq_Body rq in
  let body := match body with
              | Some _ => if tc_logRequestBody tc then default None (rq_GetBody rq) else body
              | None => None
              end in
  rq_body rq body (rq_GetBody rq).

Lemma wp_round_trip i c poolName an others (Q : Call -> unit -> Prop) s :
  (forall y, Live y -> Live (others y)) -> Live (ca_sys s) ->
  (forall s', Live (ca_sys s') ->
     ca_log s' = ca_log s ++ [EvSend i c poolName (ca_req s)] ->
     ca_req s' = rq_body (ca_req s) (skip (an_consumed an) <$> rq_Body (ca_req s)) (rq_GetBody (ca_req s)) ->
     (ca_res s', ca_err s') =
       match an_result an with
       | inl te => (None, Some (match i with Some _ => ErrTransport te | None => ErrSeedTransport te end))
       | inr rs => (Some (i, rs), None)
       end -> Q s' tt) ->
  wp (round_trip i c poolName an others) Q s.
Proof.
  intros Ho Hs HQ. unfold round_trip, emit, upd_req, set_result. do 5 wp_step. apply wp_on_sys. do 3 wp_step.
  destruct (an_result an); wp_step; (apply HQ; [by apply Ho | done ..]).
Qed.

Lemma wp_log_round_trip s an rq :
  ca_req s = rq_body rq (skip (an_consumed an) <$> rq_Body rq) (rq_GetBody rq) -> replayable rq -> Live (ca_sys s) ->
  wp (log_round_trip tc) (fun s' _ => ca_req s' = used_up an rq /\ Live (ca_sys s') /\ ca_log s' = ca_log s /\
    ca_res s' = ca_res s /\ ca_err s' = ca_err s) s.
Proof.
  intros Hrq Hre Hs. unfold log_round_trip. do 2 wp_step. unfold used_up. rewrite Hrq. cbn [rq_Body rq_body rq_GetBody].
  destruct (rq_Body rq) as [b |] eqn:Eb; cbn [fmap option_fmap option_map]; [| by wp_step; rewrite Hrq].
  wp_step; [| by rewrite H, Hrq].
  destruct (Hre ltac:(rewrite H; apply orb_true_r) ltac:(by rewrite Eb)) as [get Hget].
  unfold call_GetBody, upd_req. wp_step. apply (wp_getsM _ _ _ get); [by rewrite Hrq |]. wp_step. rewrite Hrq, H, Hget. by cbn.
Qed.

Lemma wp_before_retry i an s :
  Live (ca_sys s) ->
  wp (before_retry tc i an) (fun s' f =>
    Live (ca_sys s') /\ ca_req s' = ca_req s /\
    ca_log s' = ca_log s ++ (if (if an_result an then false else retries_left tc i) then [EvClose (Some i)] else []) /\
    (ca_res s', ca_err s', f) =
      if tc_retryBackoff tc && retries_left tc i && an_cancelled an then (ca_res s, Some ErrContext, Break)
      else (ca_res s, ca_err s, Continue)) s.
Proof.
  intros Hs. unfold before_retry, emit, set_err. wp_step.
  destruct (an_result an) as [te | rs].
  - wp_step. destruct (_ && _); wp_steps; by rewrite app_nil_r.
  - destruct (retries_left tc i); cbn [whenM]; wp_step; (destruct (_ && _); wp_steps); by rewrite ?app_nil_r.
Qed.

(** What is in the log before the attempt decides whether to go on. *)
Definition reported (x : Sent) : list event :=
  counted (st_pool x) (EvInFlight (st_conn x) (st_pool x)) ++
  [EvSend (Some (st_attempt x)) (st_conn x) (st_pool x) (st_req x)] ++
  counted (st_pool x) (EvRelease (st_conn x) (st_pool x)) ++
  [match an_result (st_answer env x) with inl _ => EvFailure (st_conn x) | inr _ => EvSuccess (st_conn x) end].
Lemma block_reported x :
  block tc env x = reported x ++
    (if retried tc env x then
       if (if an_result (st_answer env x) then false else retries_left tc (st_attempt x)) then [EvClose (Some (st_attempt x))] else []
     else []).
Proof.
  unfold block, reported, closes, retried. rewrite <- !app_assoc. do 4 f_equal. cbn [app]. f_equal.
  destruct (an_result _); [by destruct (retry_error _ _) |]. by destruct (retry_response _ _ _).
Qed.

Lemma wp_send i c poolName s :
  Live (ca_sys s) -> replayable (ca_req s) ->
  wp (send tc bal env i c poolName) (fun s' f =>
    let x := MkSent i c poolName (ca_req s) in
    Live (ca_sys s') /\ ca_log s' = ca_log s ++ block tc env x /\
    ca_req s' = used_up (en_answer env i) (ca_req s) /\ (ca_res s', ca_err s', f) = outcome tc env x) s.
Proof.
  intros Hs Hre. unfold send. set (x := MkSent i c poolName (ca_req s)). wp_step.
  eapply wp_mono; [by apply (calm_counted c poolName _ _ s Hs) |]. intros s1 [] [(Hl1 & Hq1 & _ & _ & Hlog1) _].
  wp_step. apply wp_round_trip; [intros y; by eapply rely_during | done |]. rewrite Hq1. intros s2 Hl2 Hlog2 Hq2 Hres2.
  do 3 wp_step. set (s3 := ca_with_sr s2 _).
  eapply wp_mono; [apply (calm_counted c poolName _ _ s3 Hl2) |]. intros s4 [] [(Hl4 & Hq4 & Hr4 & He4 & Hlog4) _].
  wp_step. eapply wp_mono; [apply (wp_log_round_trip s4 (en_answer env i) (ca_req s)); [by rewrite Hq4 | done | done] |].
  intros s5 [] (Hq5 & Hl5 & Hlog5 & Hr5 & He5). wp_step.
  assert (Hres5 : (ca_res s5, ca_err s5) = got env x) by (rewrite Hr5, He5, Hr4, He4; exact Hres2).
  eapply (wp_mono _ (fun s' b => logged Live s5 s' [match an_result (st_answer env x) with inl _ => EvFailure c | inr _ => EvSuccess c end] /\ b = retried tc env x)).
  { unfold retried, st_answer. cbn [st_attempt x]. destruct (an_result (en_answer env i)) as [te | rs]; [by apply calm_on_error | by apply calm_on_response]. }
  intros s6 b [(Hl6 & Hq6 & Hr6 & He6 & Hlog6) ->].
  assert (Hlog : ca_log s6 = ca_log s ++ reported x).
  { rewrite Hlog6, Hlog5, Hlog4. subst s3. cbn [ca_log ca_with_sr]. by rewrite Hlog2, Hlog1, <- !app_assoc. }
  rewrite <- Hr6, <- He6 in Hres5. rewrite block_reported. unfold outcome. destruct (retried tc env x).
  - eapply wp_mono; [by apply wp_before_retry |]. intros s7 f (Hl7 & Hq7 & Hlog7 & Hres7). split; [done |].
    split; [by rewrite Hlog7, Hlog, <- app_assoc | split; [congruence |]].
    rewrite Hres7. unfold interrupted. cbn [st_attempt x]. rewrite <- Hres5. by destruct (_ && _).
  - wp_step. by rewrite Hlog, app_nil_r, Hres5, Hq6.
Qed.

(** ** One attempt *)

Definition base_path (c : loc) : string := trimSlashes (u_Path (conn_URL c)).
(** The body attempt [i] sends. *)
Definition resent (i : nat) (rq : httpRequest) : option string :=
  match rq_Body rq with
  | Some b => if negb (tc_disableRetry tc) && (0 <? i)%nat then default None (rq_GetBody rq) else Some b
  | None => None
  end.
Definition authorized (c : loc) (rq : httpRequest) : option (list string) := rq_Header (setReqAuth tc (conn_URL c) rq) !! "Authorization".
(** [rq'] is what attempt [i] sends to [c] when the request is [rq]. *)
Record sent_as (i : nat) (c : loc) (rq rq' : httpRequest) : Prop := {
  sa_method : rq_Method rq' = rq_Method rq;
  sa_scheme : rq_Scheme rq' = u_Scheme (conn_URL c);
  sa_host : rq_Host rq' = u_Host (conn_URL c);
  sa_path : rq_Path rq' = base_path c +:+ rq_Path rq;
  sa_body : rq_Body rq' = resent i rq;
  sa_get : rq_GetBody rq' = rq_GetBody rq;
  sa_auth : signer = None -> rq_Header rq' !! "Authorization" = authorized c rq }.

Lemma wp_get_connection i s :
  Live (ca_sys s) ->
  wp (get_connection bal env i) (fun s' r =>
    Live (ca_sys s') /\ ca_log s' = ca_log s /\
    (exists q, ca_req s' = rq_url (ca_req s) (rq_Scheme (ca_req s)) (rq_Host (ca_req s)) (rq_Path (ca_req s)) (rq_RawPath (ca_req s)) q) /\
    (r.2 = None -> is_Some r.1.1)) s.
Proof.
  intros Hs. unfold get_connection. wp_step. apply wp_on_sys. wp_step.
  assert (Hi : Inv (en_before env i (ca_sys s))) by (by eapply rely_before).
  assert (Hsame : exists q, ca_req s = rq_url (ca_req s) (rq_Scheme (ca_req s)) (rq_Host (ca_req s)) (rq_Path (ca_req s)) (rq_RawPath (ca_req s)) q).
  { exists (rq_RawQuery (ca_req s)). by destruct (ca_req s). }
  unfold BalancerLaws in Hbal. destruct bal as [r | p].
  - do 3 wp_step. apply wp_on_sys. eapply wp_mono; [by eapply (@route_law Inv Live) |]. intros y [hop err] [Hy Hc]. cbn in *. unfold upd_req.
    do 2 wp_step; [| by wp_step]. do 2 wp_step. split; [done |]. split; [done |]. split; [| done].
    unfold appendAdaptiveConcurrency. destruct (has_param _ _ _); [exact Hsame |]. eexists. reflexivity.
  - wp_step. apply wp_on_sys. eapply wp_mono; [by eapply (@next_law Inv Live) |]. intros y o Hy. wp_step. cbn.
    split; [done |]. split; [done |]. split; [exact Hsame |]. by destruct o.
Qed.

Lemma wp_sign e s :
  wp (sign signer e) (fun s' ok => ca_sys s' = ca_sys s /\ ca_log s' = ca_log s /\
    if ok : bool then exists h, ca_req s' = rq_header (ca_req s) h /\ (signer = None -> h = rq_Header (ca_req s))
    else (ca_res s', ca_err s') = (None, Some e)) s.
Proof.
  unfold sign, signRequest, set_result, upd_req. do 2 wp_step. destruct signer as [f |].
  - destruct (f (ca_req s)) as [rq' |] eqn:E; wp_steps; [| done]. destruct (Hsigner f _ _ eq_refl E) as [h ->]. split_and!; [done .. |].
    exists h. by split.
  - wp_steps. split_and!; [done .. |]. exists (rq_Header (ca_req s)). split; [| done]. by destruct (ca_req s).
Qed.

Lemma wp_rewind i s :
  replayable (ca_req s) ->
  wp (rewind tc i) (fun s' ok => ca_sys s' = ca_sys s /\ ca_log s' = ca_log s /\
    if ok : bool then ca_req s' = rq_body (ca_req s) (resent i (ca_req s)) (rq_GetBody (ca_req s))
    else (ca_res s', ca_err s') = (None, Some ErrGetBody)) s.
Proof.
  intros Hre. unfold rewind, resent. do 2 wp_step. destruct (rq_Body (ca_req s)) as [b |] eqn:Eb.
  - destruct (negb (tc_disableRetry tc) && (0 <? i)%nat) eqn:E.
    + destruct (Hre ltac:(by apply andb_true_iff in E as [-> _]) ltac:(by rewrite Eb)) as [get Hget]. wp_step.
      apply (wp_getsM _ _ _ get); [done |]. unfold set_result, upd_req. destruct get as [b' |]; wp_steps; [| done].
      cbn. by rewrite Hget.
    + wp_step. split_and!; [done .. |]. destruct (ca_req s). cbn in *. by subst.
  - wp_step. split_and!; [done .. |]. destruct (ca_req s). cbn in *. by subst.
Qed.

Lemma address_sent c rq : let rq' := setReqAuth tc (conn_URL c) (setReqURL (conn_URL c) rq) in
  rq_Method rq' = rq_Method rq /\ rq_Scheme rq' = u_Scheme (conn_URL c) /\ rq_Host rq' = u_Host (conn_URL c) /\
  rq_Path rq' = base_path c +:+ rq_Path rq /\ rq_Body rq' = rq_Body rq /\ rq_GetBody rq' = rq_GetBody rq /\
  rq_Header rq' !! "Authorization" = authorized c rq.
Proof.
  cbn zeta. unfold authorized, setReqAuth, setReqURL, base_path, SetBasicAuth. set (base := trimSlashes (u_Path (conn_URL c))).
  destruct (String.eqb_spec base "") as [-> | Hne]; cbn [rq_Header rq_url]; destruct (rq_Header rq !! "Authorization");
    try (by split_and!); destruct (u_User (conn_URL c)) as [[u w] |]; try (by split_and!); destruct (_ && _); by split_and!.
Qed.

Lemma replayable_next i c rq rq' : replayable rq -> sent_as i c rq rq' -> replayable (used_up (en_answer env i) rq').
Proof.
  intros Hre Hsa Hd Hb. cbn [rq_GetBody rq_body used_up]. rewrite (sa_get _ _ _ _ Hsa). apply Hre; [done |].
  unfold used_up in Hb. cbn [rq_Body rq_body] in Hb. rewrite (sa_body _ _ _ _ Hsa) in Hb. unfold resent in Hb.
  destruct (rq_Body rq); [done |]. by destruct Hb.
Qed.

Lemma wp_attempt i s :
  Live (ca_sys s) -> replayable (ca_req s) ->
  wp (attempt conn_URL signer tc bal env i) (fun s' f => Live (ca_sys s') /\
    ((exists e, unsent e /\ ca_log s' = ca_log s /\ (ca_res s', ca_err s', f) = (None, Some e, unsent_flow e)) \/
     (exists c poolName rq', sent_as i c (ca_req s) rq' /\
        let x := MkSent i c poolName rq' in
        ca_log s' = ca_log s ++ block tc env x /\ ca_req s' = used_up (en_answer env i) rq' /\
        (ca_res s', ca_err s', f) = outcome tc env x))) s.
Proof.
  intros Hs Hre. unfold attempt. wp_step. eapply wp_mono; [by apply wp_get_connection |].
  intros s1 [[c poolName] err] (Hl1 & Hlog1 & [q Hq1] & Hc). cbn [fst snd] in Hc. destruct err as [e |].
  { unfold set_result. wp_steps. split; [done |]. left. exists (ErrConnection e). by split_and!. }
  destruct (Hc eq_refl) as [c' ->]. clear Hc. rename c' into c. unfold address, upd_req. do 6 wp_step.
  set (rq1 := ca_req s1) in *. set (s2 := ca_with_sr _ _).
  assert (Hq2 : ca_req s2 = setReqAuth tc (conn_URL c) (setReqURL (conn_URL c) rq1)) by done.
  assert (Hy2 : ca_sys s2 = ca_sys s1) by done. assert (Hlog2 : ca_log s2 = ca_log s1) by done. clearbody s2.
  pose proof (address_sent c rq1) as Hadd. cbv zeta in Hadd. rewrite <- Hq2 in Hadd. destruct Hadd as (Hm & Hsc & Hh & Hp & Hb & Hg & Ha).
  assert (Hre2 : replayable (ca_req s2)) by (intros Hd; rewrite Hb, Hg, Hq1; by apply Hre).
  wp_step. eapply wp_mono; [by apply wp_rewind |]. intros s3 [|] (Hy3 & Hlog3 & Hq3); cbn [negb].
  2: { wp_step. split; [by rewrite Hy3, Hy2 |]. left. exists ErrGetBody. rewrite Hlog3, Hlog2, Hq3. by split_and!. }
  wp_step. eapply wp_mono; [apply wp_sign |]. intros s4 [|] (Hy4 & Hlog4 & Hq4); cbn [negb].
  2: { wp_step. split; [by rewrite Hy4, Hy3, Hy2 |]. left. exists ErrSign. rewrite Hlog4, Hlog3, Hlog2, Hq4. by split_and!. }
  destruct Hq4 as (h & Hq4 & Hsig).
  assert (Hsa : sent_as i c (ca_req s) (ca_req s4)).
  { rewrite Hq4, Hq3. split; cbn.
    - by rewrite Hm, Hq1.
    - done.
    - done.
    - by rewrite Hp, Hq1.
    - unfold resent. by rewrite Hb, Hg, Hq1.
    - by rewrite Hg, Hq1.
    - intros Hn. rewrite (Hsig Hn), Hq3. cbn [rq_Header rq_body]. rewrite Ha, Hq1. unfold authorized, setReqAuth, SetBasicAuth.
      cbn [rq_Header rq_url]. destruct (rq_Header (ca_req s) !! "Authorization") eqn:E; [cbn; by rewrite E |].
      destruct (u_User (conn_URL c)) as [[u w] |]; [done |]. destruct (_ && _); [done | cbn; by rewrite E]. }
  eapply wp_mono; [apply wp_send |].
  - by rewrite Hy4, Hy3, Hy2.
  - intros Hd. rewrite (sa_body _ _ _ _ Hsa), (sa_get _ _ _ _ Hsa). unfold resent.
    destruct (rq_Body (ca_req s)) eqn:E; [| by intros []]. intros _. apply Hre; [done |]. by rewrite E.
  - intros s5 f (Hl5 & Hlog5 & Hq5 & Hres5). split; [done |]. right. exists c, poolName, (ca_req s4). split; [done |]. cbn zeta.
    split; [by rewrite Hlog5, Hlog4, Hlog3, Hlog2, Hlog1 | by split].
Qed.

(** ** All attempts *)

(** The requests the attempts of [h] send, from [rq] on. *)
Fixpoint wire (i : nat) (rq : httpRequest) (h : list Sent) : Prop :=
  match h with
  | [] => True
  | x :: h' =>
    st_attempt x = i /\ sent_as i (st_conn x) rq (st_req x) /\ wire (S i) (used_up (en_answer env i) (st_req x)) h'
  end.

Definition blocks (h : list Sent) : list event := concat (block tc env <$> h).

Lemma ending_cons n r0 x h r f :
  goes_on tc env x -> ending tc env n (got env x) h r f -> ending tc env (S n) r0 (x :: h) r f.
Proof.
  intros Hx H. inversion H as [h0 Hg Hlen | h0 y Hg Hy Hlen | h0 e Hg Hlen He]; subst.
  - replace (from_option (got env) (got env x) (last h)) with (from_option (got env) r0 (last (x :: h))) by (rewrite last_cons; by destruct (last h)).
    apply EndExhausted; [by constructor | done].
  - apply (EndStopped tc env (S n) r0 (x :: h0)); [by constructor | done | cbn; lia].
  - apply EndUnsent; [by constructor | cbn; lia | done].
Qed.

Lemma outcome_cases x : (goes_on tc env x /\ outcome tc env x = (got env x, Continue)) \/
  (~ goes_on tc env x /\ (outcome tc env x).2 = Break).
Proof.
  unfold goes_on, outcome. destruct (retried tc env x); [| right; split; [by intros [] | done]].
  destruct (interrupted tc env x); [right; split; [by intros [] | done] | by left].
Qed.

Lemma wp_attempts n : forall i s,
  Live (ca_sys s) -> replayable (ca_req s) ->
  wp (attempts conn_URL signer tc bal env n i) (fun s' f => Live (ca_sys s') /\ exists h,
    ca_log s' = ca_log s ++ blocks h /\ wire i (ca_req s) h /\
    ending tc env n (ca_res s, ca_err s) h (ca_res s', ca_err s') f) s.
Proof.
  induction n as [| n IH]; intros i s Hs Hre; cbn [attempts].
  { wp_step. split; [done |]. exists []. rewrite app_nil_r. split_and!; [done .. |].
    by apply (EndExhausted tc env 0 (ca_res s, ca_err s) []). }
  wp_step. eapply wp_mono; [by apply wp_attempt |].
  intros s1 f1 [Hl1 [(e & He & Hlog1 & [= Hr1 Hr1' ->]) | (c & poolName & rq' & Hsa & Hlog1 & Hq1 & Hout)]].
  - eapply (wp_mono _ (fun s' f => s' = s1 /\ f = unsent_flow e)).
    { destruct e as [| [] | | | | | | | | |]; (done || by apply wp_ret). }
    intros s' f [-> ->]. split; [done |]. exists []. rewrite app_nil_r. split_and!; [done .. |]. rewrite Hr1, Hr1'.
    apply EndUnsent; [done | cbn; lia | done].
  - set (x := MkSent i c poolName rq') in *. destruct (outcome_cases x) as [[Hx Ho] | [Hx Ho]]; [rewrite Ho in Hout |].
    + injection Hout as Hr1 ->. eapply wp_mono; [apply IH; [done |] |].
      { rewrite Hq1. by eapply replayable_next. }
      intros s2 f2 (Hl2 & h & Hlog2 & Hw & Hend). split; [done |]. exists (x :: h). split_and!.
      * rewrite Hlog2, Hlog1, <- app_assoc. done.
      * cbn. by rewrite <- Hq1.
      * apply ending_cons; [done |]. by rewrite <- Hr1.
    + destruct (outcome tc env x) as [r fx] eqn:Eo. cbn in Ho. subst fx. injection Hout as Hr1 ->. wp_step.
      split; [done |]. exists [x]. split_and!; [by rewrite Hlog1; unfold blocks; cbn; rewrite app_nil_r | done |].
      rewrite Hr1. change r with (r, Break).1. rewrite <- Eo. apply (EndStopped tc env (S n) _ [] x); [done | done | cbn; lia].
Qed.

(** ** The seed fallback *)

Context `{Hseed : !match seedFallbackPool with Some p => ConnPoolLaws Inv Live p | None => True end}.

(** The one attempt of the fallback: what it logs and what it returns. *)
Inductive seeded : list event -> option (option nat * httpResponse) * option streamError -> Prop :=
  | SeedDone : en_ctxDone env = true -> seeded [] (None, Some ErrContext)
  | SeedUnsent e : e = ErrSeedExhausted ErrNoConnections \/ e = ErrSeedGetBody \/ e = ErrSeedSign -> seeded [] (None, Some e)
  | SeedFailed c rq te : an_result (en_seed env) = inl te ->
      seeded [EvSend None c "" rq; EvFailure c] (None, Some (ErrSeedTransport te))
  | SeedAnswered c rq rs : an_result (en_seed env) = inr rs ->
      seeded [EvSend None c "" rq; EvSuccess c] (Some (None, rs), None).

Lemma wp_seed_rewind s :
  wp seed_rewind (fun s' ok => ca_sys s' = ca_sys s /\ ca_log s' = ca_log s /\
    (ok = false -> (ca_res s', ca_err s') = (None, Some ErrSeedGetBody))) s.
Proof.
  unfold seed_rewind, set_result, upd_req. do 2 wp_step.
  destruct (rq_Body (ca_req s)), (rq_GetBody (ca_req s)) as [[b |] |]; wp_steps; by split_and!.
Qed.

Lemma wp_performSeedFallback p s :
  ConnPoolLaws Inv Live p -> Live (ca_sys s) ->
  wp (performSeedFallback conn_URL signer tc env p) (fun s' _ => exists tail,
    ca_log s' = ca_log s ++ tail /\ seeded tail (ca_res s', ca_err s')) s.
Proof.
  intros Hp Hs. unfold performSeedFallback, set_result. destruct (en_ctxDone env) eqn:Ed.
  { wp_step. exists []. rewrite app_nil_r. split; [done | by apply SeedDone]. }
  wp_step. apply wp_on_sys. do 2 wp_step. apply wp_on_sys.
  eapply wp_mono; [apply (@next_law Inv Live p Hp); by eapply rely_seed_before |]. intros y [c |] Hy; cbn [ca_sys ca_with_sys].
  2: { wp_step. exists []. rewrite app_nil_r. split; [done |]. apply SeedUnsent. by left. }
  unfold address, upd_req. do 6 wp_step. set (s2 := ca_with_sr _ _).
  assert (Hy2 : ca_sys s2 = y) by done. assert (Hlog2 : ca_log s2 = ca_log s) by done. clearbody s2.
  wp_step. eapply wp_mono; [apply wp_seed_rewind |]. intros s3 [|] (Hy3 & Hlog3 & Hr3); cbn [negb].
  2: { wp_step. exists []. rewrite app_nil_r, Hlog3, Hlog2, Hr3 by done. split; [done |]. apply SeedUnsent. by auto. }
  wp_step. eapply wp_mono; [apply wp_sign |]. intros s4 [|] (Hy4 & Hlog4 & Hr4); cbn [negb].
  2: { wp_step. exists []. rewrite app_nil_r, Hlog4, Hlog3, Hlog2, Hr4. split; [done |]. apply SeedUnsent. by auto. }
  assert (Hl4 : Live (ca_sys s4)) by (by rewrite Hy4, Hy3, Hy2).
  wp_step. apply wp_round_trip; [intros y'; by eapply rely_seed_during | done |]. intros s5 Hl5 Hlog5 _ Hr5.
  rewrite Hlog4, Hlog3, Hlog2 in Hlog5. destruct (an_result (en_seed env)) as [te | rs] eqn:Er; injection Hr5 as Hres Herr.
  - wp_step. apply wp_on_sys. eapply wp_mono; [by eapply pool_failure_law |]. intros y5 [] Hy5. unfold emit. wp_step.
    eexists. cbn. rewrite Hlog5, <- app_assoc. split; [done |]. rewrite Hres, Herr. by eapply SeedFailed.
  - wp_step. apply wp_on_sys. eapply wp_mono; [by eapply pool_success_law |]. intros y5 [] Hy5. unfold emit. do 3 wp_step.
    eexists. cbn. rewrite Hlog5, <- app_assoc. split; [done |]. rewrite Hres, Herr. by eapply SeedAnswered.
Qed.

(** ** The whole call *)

Definition decorated (rq : httpRequest) : httpRequest := setReqGlobalHeader tc (setReqUserAgent tc rq).
Definition max_attempts : nat := Z.to_nat (tc_maxRetries tc + 1).
(** The fallback is tried when no connection was to be had. *)
Definition falls_back (err : option streamError) : bool :=
  match seedFallbackPool with Some _ => is_no_connections err && negb (tc_seedFallbackDisabled tc) | None => false end.

Lemma prepare_replayable rq rq' : prepare_body compress tc rq = Some rq' -> replayable rq'.
Proof.
  unfold prepare_body. destruct (rq_Body rq) as [b |] eqn:Eb.
  - destruct (tc_compressRequestBody tc).
    + destruct (compress b); [| done]. intros [= <-] _ _. by eexists.
    + destruct (rq_GetBody rq) eqn:Eg; [intros [= <-] _ _; by rewrite Eg |].
      destruct (_ || _) eqn:E; intros [= <-] Hd _; [by eexists | congruence].
  - intros [= <-] _ Hb. rewrite Eb in Hb. by destruct Hb.
Qed.

(** What a call makes of its request: either compression fails, or the attempts
    of [h] are made, end with [r], and the fallback may follow. *)
Definition ran (s s' : Call) (h : list Sent) (tail : list event) : Prop :=
  match prepare_body compress tc (decorated (ca_req s)) with
  | None => h = [] /\ tail = [] /\ (ca_res s', ca_err s') = (None, Some ErrCompress)
  | Some rq =>
    wire 0 rq h /\
    exists r f, ending tc env max_attempts (ca_res s, ca_err s) h r f /\
      if falls_back r.2 then seeded tail (ca_res s', ca_err s') else tail = [] /\ (ca_res s', ca_err s') = r
  end.

Lemma wp_stream s :
  Live (ca_sys s) ->
  wp (stream conn_URL signer compress tc bal seedFallbackPool env) (fun s' _ => exists h tail,
    ca_log s' = ca_log s ++ blocks h ++ tail /\ ran s s' h tail) s.
Proof.
  intros Hs. unfold stream, upd_req, set_result, ran. do 4 wp_step. cbn [ca_req ca_with_req]. fold (decorated (ca_req s)).
  destruct (prepare_body compress tc (decorated (ca_req s))) as [rq |] eqn:Ep.
  2: { wp_step. exists [], []. cbn. by rewrite app_nil_r. }
  do 3 wp_step. eapply wp_mono; [apply wp_attempts; [done | by eapply prepare_replayable] |].
  cbn [ca_req ca_with_req ca_log ca_res ca_err].
  intros s1 f (Hl1 & h & Hlog1 & Hw & Hend).
  assert (Hret : f = Return -> falls_back (ca_err s1) = false).
  { intros ->. unfold falls_back. destruct seedFallbackPool; [| done]. inversion Hend as [| | h' e _ _ He E1 E2 E3]; subst.
    destruct e as [| [] | | | | | | | | |]; done. }
  destruct f; cycle 2.
  { wp_step. exists h, []. rewrite app_nil_r. split; [done |]. split; [done |]. eexists _, _. split; [exact Hend |]. cbn [snd]. by rewrite Hret. }
  all: do 2 wp_step; unfold falls_back in *; destruct seedFallbackPool as [p |];
    [| wp_step; exists h, []; rewrite app_nil_r; split; [done |]; split; [done |]; eexists _, _; by split].
  all: wp_step.
  all: try (exists h, []; rewrite app_nil_r; split; [done |]; split; [done |]; eexists _, _; split; [exact Hend |]; cbn [snd]; by rewrite H).
  all: eapply wp_mono; [by apply wp_performSeedFallback |]; intros s2 [] (tail & Hlog2 & Hsd); exists h, tail;
    rewrite Hlog2, Hlog1, <- app_assoc; split; [done |]; split; [done |]; eexists _, _; split; [exact Hend |]; cbn [snd]; by rewrite H.
Qed.

End Run.

(** * Consequences *)

Section Log.
Context (conn_URL : loc -> URL) (signer : option (httpRequest -> option httpRequest)) (compress : string -> option string).
Context (tc : Config) (env : Environment).
Notation wire := (wire conn_URL signer tc env).
Notation blocks := (blocks tc env).
Notation seeded := (seeded env).
Notation max_attempts := (max_attempts tc).
Notation used_up := (used_up tc).
Notation base_path := (base_path conn_URL).
Notation resent := (resent tc).
Notation replayable := (replayable tc).
Notation sent_as := (sent_as conn_URL signer tc).

(** ** The log *)

Lemma ending_bound n r0 h r f : ending tc env n r0 h r f -> (length h <= n)%nat.
Proof. intros [h' _ <- | h' x _ _ Hlen | h' e _ Hlen _]; [done | rewrite length_app; cbn; lia | lia]. Qed.

Lemma ending_goes_on n r0 h r f j x :
  ending tc env n r0 h r f -> h !! j = Some x -> (S j < length h)%nat -> goes_on tc env x.
Proof.
  intros [h' Hg _ | h' y Hg _ _ | h' e Hg _ _] Hx Hj.
  - by eapply Forall_lookup_1.
  - rewrite length_app in Hj. cbn in Hj. rewrite lookup_app_l in Hx by lia. by eapply Forall_lookup_1.
  - by eapply Forall_lookup_1.
Qed.

Lemma wire_index i rq h j x : wire i rq h -> h !! j = Some x -> st_attempt x = (i + j)%nat.
Proof.
  revert i rq j. induction h as [| y h IH]; intros i rq [| j] Hw Hx; cbn in *; try done.
  - injection Hx as ->. destruct Hw as [-> _]. lia.
  - destruct Hw as (_ & _ & Hw). rewrite (IH (S i) _ j Hw Hx). lia.
Qed.

Lemma wire_attempts i rq h : wire i rq h -> st_attempt <$> h = seq i (length h).
Proof.
  intros Hw. apply list_eq. intros j. rewrite list_lookup_fmap. destruct (h !! j) as [x |] eqn:E; cbn.
  - rewrite (wire_index i rq h j x Hw E). symmetry. apply lookup_seq. apply lookup_lt_Some in E. lia.
  - symmetry. apply lookup_seq_ge. by apply lookup_ge_None.
Qed.

Lemma elem_of_counted e poolName e' : e ∈ counted poolName e' -> e = e'.
Proof. unfold counted. destruct (String.eqb _ _); set_solver. Qed.

Lemma send_in_block a c poolName rq x : EvSend a c poolName rq ∈ block tc env x -> a = Some (st_attempt x).
Proof.
  unfold block. rewrite !elem_of_app, !list_elem_of_singleton. fold (counted (st_pool x)).
  intros [H | [H | [H | [H | H]]]]; [by apply elem_of_counted in H | by injection H | by apply elem_of_counted in H | | ].
  - by destruct (an_result _).
  - destruct (closes _ _ _); [by apply list_elem_of_singleton in H | by apply elem_of_nil in H].
Qed.

Lemma close_in_block a x : EvClose a ∈ block tc env x <-> closes tc env x = true /\ a = Some (st_attempt x).
Proof.
  unfold block. fold (counted (st_pool x)). rewrite !elem_of_app, !list_elem_of_singleton. split.
  - intros [H | [H | [H | [H | H]]]]; [by apply elem_of_counted in H | done | by apply elem_of_counted in H | by destruct (an_result _) |].
    destruct (closes _ _ _); [by apply list_elem_of_singleton in H as [= ->] | by apply elem_of_nil in H].
  - intros [-> ->]. do 4 right. apply list_elem_of_singleton. done.
Qed.

Lemma elem_of_blocks e h : e ∈ blocks h <-> exists x, x ∈ h /\ e ∈ block tc env x.
Proof.
  unfold StreamRun.blocks. rewrite list_elem_of_In, in_concat. setoid_rewrite <- list_elem_of_In. setoid_rewrite list_elem_of_fmap. split.
  - intros (l & (x & -> & Hx) & He). by exists x.
  - intros (x & Hx & He). exists (block tc env x). split; [| done]. by exists x.
Qed.

Lemma seeded_events tail r e : seeded tail r -> e ∈ tail ->
  match e with EvSend a _ _ _ => a = None | EvClose _ => False | _ => True end.
Proof. intros [] He; repeat (apply elem_of_cons in He as [-> | He]; [done |]); by apply elem_of_nil in He. Qed.

(** A response that is not the last attempt's is closed. *)
Lemma closed_between n x rs : goes_on tc env x -> an_result (st_answer env x) = inr rs -> (S (st_attempt x) < n)%nat ->
  n = max_attempts -> closes tc env x = true.
Proof.
  intros [Hr _] Hrs Hlt ->. unfold closes, retried in *. rewrite Hrs in *. rewrite Hr. unfold retries_left, StreamRun.max_attempts in *.
  apply Z.ltb_lt. lia.
Qed.

Lemma got_some x a rs : (got env x).1 = Some (a, rs) -> a = Some (st_attempt x) /\ an_result (st_answer env x) = inr rs /\ (got env x).2 = None.
Proof. unfold got. destruct (an_result _); [done |]. by intros [= <- <-]. Qed.
Lemma got_response x rs : an_result (st_answer env x) = inr rs -> got env x = (Some (Some (st_attempt x), rs), None).
Proof. unfold got. by intros ->. Qed.

(** What the loop returns, and the responses it leaves open. *)
Record settles (h : list Sent) (r : option (option nat * httpResponse) * option streamError) : Prop := {
  se_open : forall x rs, x ∈ h -> an_result (st_answer env x) = inr rs -> closes tc env x = true \/ r.1 = Some (Some (st_attempt x), rs);
  se_from : forall a rs, r.1 = Some (a, rs) -> exists x, x ∈ h /\ a = Some (st_attempt x) /\ (closes tc env x = true -> r.2 = Some ErrContext);
  se_error : (0 < max_attempts)%nat -> r.1 = None -> is_Some r.2;
  se_partial : is_Some r.1 -> is_Some r.2 -> r.2 = Some ErrContext /\ tc_retryBackoff tc = true }.

Lemma last_closes x : st_attempt x = pred max_attempts -> (0 < max_attempts)%nat -> closes tc env x = false.
Proof.
  intros Hx Hpos. unfold closes, retries_left, max_attempts in *. destruct (an_result _); [done |]. apply andb_false_iff. right.
  apply Z.ltb_ge. lia.
Qed.

Lemma earlier_closed rq h n x rs :
  wire 0 rq h -> Forall (goes_on tc env) h -> (length h < n)%nat -> n = max_attempts -> x ∈ h ->
  an_result (st_answer env x) = inr rs -> closes tc env x = true.
Proof.
  intros Hw Hg Hlen Hn Hx Hrs. apply list_elem_of_lookup in Hx as [j Hj]. eapply closed_between; [| exact Hrs | | done].
  - by eapply Forall_lookup_1.
  - rewrite (wire_index 0 rq h j x Hw Hj). apply lookup_lt_Some in Hj. lia.
Qed.

Lemma wire_prefix i rq h h' : wire i rq (h ++ h') -> wire i rq h.
Proof. revert i rq. induction h as [| x h IH]; intros i rq; cbn; [done |]. intros (? & ? & Hw). split_and!; [done .. | by apply IH]. Qed.

Lemma ending_settles rq h r f : ending tc env max_attempts (None, None) h r f -> wire 0 rq h -> settles h r.
Proof.
  intros [h' Hg Hlen | h' x Hg Hx Hlen | h' e Hg Hlen He] Hw.
  - destruct (last h') as [y |] eqn:Hl; cbn [from_option].
    + destruct (proj1 (last_Some h' y) Hl) as [h0 ->]. rewrite length_app in Hlen. cbn in Hlen.
      apply Forall_app in Hg as [Hg0 _].
      assert (Hy : st_attempt y = pred max_attempts).
      { rewrite (wire_index 0 rq _ (length h0) y Hw) by (by apply list_lookup_middle). lia. }
      split.
      * intros x rs [Hx | ->%list_elem_of_singleton]%elem_of_app Hrs; [left | right; by rewrite (got_response y rs Hrs)].
        eapply earlier_closed; [by eapply wire_prefix | done | | done | done | done]. lia.
      * intros a rs (-> & Hrs & _)%got_some. exists y. split; [set_solver |]. split; [done |]. rewrite last_closes by lia. done.
      * intros _. unfold got. destruct (an_result _); [by eexists | done].
      * unfold got. destruct (an_result _); [by intros [] | by intros _ []].
    + apply last_None in Hl as ->. cbn in Hlen. split; [by intros x rs ?%elem_of_nil | done | lia | by intros []].
  - destruct (outcome_cases tc env x) as [[Hgo _] | [_ Ho]]; [done |].
    assert (Hr : (outcome tc env x).1 = got env x \/ (outcome tc env x).1 = ((got env x).1, Some ErrContext) /\ tc_retryBackoff tc = true).
    { unfold outcome, interrupted. destruct (retried _ _ _); [| by left]. destruct (tc_retryBackoff tc); [| by left]. destruct (_ && _); [by right | by left]. }
    assert (Hcl : closes tc env x = true -> (outcome tc env x).1.2 = Some ErrContext).
    { unfold goes_on, closes, outcome, retried in *. destruct (an_result _); [done |]. intros [Hrt _]%andb_true_iff.
      rewrite Hrt. destruct (interrupted tc env x) eqn:Ei; [done |]. destruct Hx. by split. }
    split.
    + intros y rs [Hy | ->%list_elem_of_singleton]%elem_of_app Hrs.
      * left. eapply earlier_closed; [by eapply wire_prefix | exact Hg | exact Hlen | done | done | done].
      * right. by destruct Hr as [-> | [-> _]]; rewrite (got_response x rs Hrs).
    + intros a rs Ha. exists x. split; [set_solver |]. split; [| exact Hcl].
      destruct Hr as [Hr | [Hr _]]; rewrite Hr in Ha; by apply got_some in Ha as [-> _].
    + intros _. destruct Hr as [-> | [-> _]]; [| by eexists]. unfold got. destruct (an_result _); [by eexists | done].
    + destruct Hr as [-> | [-> Hb]]; [unfold got; destruct (an_result _); [by intros [] | by intros _ []] | done].
  - split; [| done | by eexists | by intros []]. intros x rs Hx Hrs. left. by eapply earlier_closed.
Qed.

(** ** On the wire *)

Definition prefixed (h : list Sent) (path : string) : string := foldl (fun p x => base_path (st_conn x) +:+ p) path h.
(** GetBody yields the bytes of Body. *)
Definition faithful (rq : httpRequest) : Prop := forall b g, rq_Body rq = Some b -> rq_GetBody rq = Some g -> g = Some b.
Definition rewinds : bool := negb (tc_disableRetry tc) || tc_logRequestBody tc.

Lemma wire_path h : forall i rq j x, wire i rq h -> h !! j = Some x ->
  rq_Method (st_req x) = rq_Method rq /\ rq_Path (st_req x) = prefixed (take (S j) h) (rq_Path rq).
Proof.
  induction h as [| y h IH]; intros i rq [| j] x Hw Hx; cbn in Hx; try done; destruct Hw as (_ & Hsa & Hw).
  - injection Hx as ->. cbn. by rewrite (sa_method _ _ _ _ _ _ _ Hsa), (sa_path _ _ _ _ _ _ _ Hsa).
  - destruct (IH _ _ j x Hw Hx) as [-> ->]. cbn. by rewrite (sa_method _ _ _ _ _ _ _ Hsa), (sa_path _ _ _ _ _ _ _ Hsa).
Qed.

Lemma wire_sent h : forall i rq j x, wire i rq h -> h !! j = Some x ->
  exists rq0, sent_as (i + j) (st_conn x) rq0 (st_req x).
Proof.
  induction h as [| y h IH]; intros i rq [| j] x Hw Hx; cbn in Hx; try done; destruct Hw as (_ & Hsa & Hw).
  - injection Hx as ->. exists rq. by rewrite Nat.add_0_r.
  - destruct (IH _ _ j x Hw Hx) as [rq0 H]. exists rq0. by replace (i + S j)%nat with (S i + j)%nat by lia.
Qed.

Lemma wire_body body h : rewinds = true -> forall i rq j x,
  is_Some (rq_Body rq) -> rq_GetBody rq = Some (Some body) -> (i = O \/ tc_logRequestBody tc = true -> rq_Body rq = Some body) ->
  wire i rq h -> h !! j = Some x -> rq_Body (st_req x) = Some body.
Proof.
  intros Hrew. induction h as [| y h IH]; intros i rq j x [b Hb] Hg Hfull Hw Hx; [done |].
  destruct Hw as (_ & Hsa & Hw).
  assert (Hy : rq_Body (st_req y) = Some body).
  { rewrite (sa_body _ _ _ _ _ _ _ Hsa). unfold StreamRun.resent. rewrite Hb, Hg. unfold rewinds in Hrew.
    destruct (tc_disableRetry tc); cbn [negb andb orb] in *; [rewrite <- Hb; by apply Hfull; right |].
    destruct (Nat.ltb_spec 0 i); [done |]. rewrite <- Hb. apply Hfull. left. lia. }
  destruct j as [| j]; cbn in Hx; [by injection Hx as <- |].
  eapply (IH (S i) _ j); [| | | exact Hw | exact Hx].
  - unfold StreamRun.used_up. cbn. rewrite Hy. cbn. destruct (tc_logRequestBody tc); [| by eexists]. rewrite (sa_get _ _ _ _ _ _ _ Hsa), Hg. by eexists.
  - cbn. by rewrite (sa_get _ _ _ _ _ _ _ Hsa).
  - intros [? | Hlog]; [done |]. unfold StreamRun.used_up. cbn. rewrite Hy. cbn. by rewrite Hlog, (sa_get _ _ _ _ _ _ _ Hsa), Hg.
Qed.

Lemma wire_no_body h : forall i rq j x, rq_Body rq = None -> wire i rq h -> h !! j = Some x -> rq_Body (st_req x) = None.
Proof.
  induction h as [| y h IH]; intros i rq [| j] x Hb Hw Hx; cbn in Hx; try done; destruct Hw as (_ & Hsa & Hw);
    pose proof (sa_body _ _ _ _ _ _ _ Hsa) as Hy; unfold StreamRun.resent in Hy; rewrite Hb in Hy.
  - by injection Hx as ->.
  - eapply IH; [| exact Hw | exact Hx]. unfold StreamRun.used_up. cbn. by rewrite Hy.
Qed.

Lemma prepare_faithful rq rq' : faithful rq -> prepare_body compress tc rq = Some rq' -> faithful rq'.
Proof.
  intros Hf. unfold prepare_body. destruct (rq_Body rq) as [b |] eqn:Eb; [| by intros [= <-]].
  destruct (tc_compressRequestBody tc); [destruct (compress b); intros [= <-]; intros b' g [= <-] [= <-]; done |].
  destruct (rq_GetBody rq); [by intros [= <-] |]. destruct (_ || _); intros [= <-]; [| done]. by intros b' g [= <-] [= <-].
Qed.

Lemma wire_bodies rq h j x : rewinds = true -> replayable rq -> faithful rq -> wire 0 rq h -> h !! j = Some x -> rq_Body (st_req x) = rq_Body rq.
Proof.
  intros Hrew Hre Hf Hw Hx. destruct (rq_Body rq) as [b |] eqn:Eb; [| by eapply wire_no_body].
  destruct (Hre Hrew ltac:(by rewrite Eb)) as [g Hg].
  eapply (wire_body b h Hrew 0 rq j x); [by rewrite Eb | by rewrite Hg, (Hf b g Eb Hg) | done | done | done].
Qed.

(** ** What a call to Stream does *)

Definition begun (s : Call) : Prop := ca_res s = None /\ ca_err s = None /\ ca_log s = [].
End Log.
