(* ===== verification/StreamRouter.v ===== *)
(** The routers of Router.v and a multiServerPool keep the laws a request relies
    on, so the theorems of StreamRun.v hold of them; runs of whole requests. *)

From Stdlib Require Import ZArith Lia Ascii String.
From stdpp Require Import base gmap list strings sorting pretty.
From S2P Require Import Prelude.
From S2P Require Import Atomic.
From S2P Require Import Lifecycle.
From S2P Require Import Warmup.
From S2P Require Import Rtt.
From S2P Require Import Congestion.
From S2P Require Import Conn.
From S2P Require Import Pool.
From S2P Require Import PoolResurrect.
From S2P Require Import PoolStandby.
From S2P Require Import PoolSelect.
From S2P Require Import PoolLists.
From S2P Require Import PoolReport.
From S2P Require Import PoolNext.
From S2P Require Import PoolSteps.
From S2P Require Import Routes.
From S2P Require Import RouteTable.
From S2P Require Import PolicyPool.
From S2P Require Import Policy.
From S2P Require Import Router.
From S2P Require Import Stream.
From S2P Require Import StreamRun.

Open Scope list_scope.
Open Scope Z_scope.

Section Instances.
Context `{laws : PoolSelectorLaws}.

(** * A pool by itself *)

Definition pool_live (p : nat) (s : System) : Prop := exists w, sy_pools s !! p = Some w /\ pool_bounds (w_mu w).
Definition pool_ready (p : nat) (s : System) : Prop :=
  exists w, sy_pools s !! p = Some w /\ pool_bounds (w_mu w) /\ next_budget (next_calls (w_mu w)) w.

#[export] Instance pool_steady p : Steady (pool_live p).
Proof. intros s h H. exact H. Qed.

Lemma wp_OnFailure_bounds c s : pool_bounds (w_mu s) -> wp (OnFailure c) (fun s' _ => pool_bounds (w_mu s')) s.
Proof.
  intros Hb. eapply wp_mono; [apply (wp_OnFailure_ok (X := [c])); [done | right; set_solver] |]. by intros s' [] [].
Qed.

Lemma wp_OnSuccess_bounds c s : pool_bounds (w_mu s) -> wp (OnSuccess c) (fun s' _ => pool_bounds (w_mu s')) s.
Proof.
  intros Hb. eapply wp_mono; [apply (wp_OnSuccess_ok (X := [c])); [done | right; set_solver] |]. by intros s' [] [].
Qed.

(** An operation of the pool that keeps its boundary keeps the system live. *)
Lemma wp_pool_live {A} p (m : M World A) s :
  (forall w, pool_bounds (w_mu w) -> wp m (fun w' _ => pool_bounds (w_mu w')) w) ->
  pool_live p s -> wp (on_pool p m) (fun s' _ => pool_live p s') s.
Proof.
  intros Hm (w & Hw & Hb). eapply wp_on_pool; [exact Hw |]. eapply wp_mono; [by apply Hm |].
  intros w' a Hb'. exists w'. cbn. by rewrite lookup_insert_eq.
Qed.

#[export] Instance multi_pool_laws p : ConnPoolLaws (pool_ready p) (pool_live p) (multi_pool p).
Proof.
  split; cbn [cp_Next cp_OnSuccess cp_OnFailure multi_pool].
  - intros s (w & Hw & Hb & Hbud). eapply wp_on_pool; [exact Hw |]. eapply wp_mono; [by apply wp_Next |].
    intros w' r [[Hev _] _]. exists w'. cbn. rewrite lookup_insert_eq. split; [done | apply Hev].
  - intros c s. apply wp_pool_live. intros w. apply wp_OnSuccess_bounds.
  - intros c s. apply wp_pool_live. intros w. apply wp_OnFailure_bounds.
Qed.

(** * The mux router *)

(** A router after its first update, and one whose pools' counters have room
    for another selection. *)
Record router_live (s : System) : Prop := {
  rl_switched : switched s;
  rl_mux : is_enabled muxAddr s = true;
  rl_leaf : forall p, p ∈ leaf_addrs -> pool_live p s }.
Definition router_ready (s : System) : Prop := router_live s /\ forall p, p ∈ leaf_addrs -> pool_ready p s.

#[export] Instance router_steady : Steady router_live.
Proof. intros s h [[He Hi] Hm Hl]. split; [split; [exact He | exact Hi] | exact Hm | exact Hl]. Qed.

Lemma router_live_pool s p w h : router_live s -> p ∈ leaf_addrs -> pool_bounds (w_mu w) ->
  router_live (MkSystem h (<[p := w]> (sy_pools s)) (sy_words s)).
Proof.
  intros [[He Hi] Hm Hl] Hp Hb. split; [split; [exact He | exact Hi] | exact Hm |]. intros q Hq.
  destruct (decide (q = p)) as [-> | Hne]; [exists w; cbn; by rewrite lookup_insert_eq |].
  unfold pool_live. cbn. rewrite lookup_insert_ne by done. by apply Hl.
Qed.

Lemma wp_upd_shared_live c f s : router_live s -> wp (upd_shared c f) (fun s' _ => router_live s') s.
Proof. intros Hs. apply wp_modify. by apply router_steady. Qed.

#[export] Instance mux_router_laws t unique : RouterLaws router_ready router_live (NewRouter [mux_top t unique]).
Proof.
  split; cbn [rt_Route rt_OnSuccess rt_OnFailure NewRouter].
  - intros rq s [Hlive Hready]. unfold wp. rewrite (mux_router_Route t unique s rq (rl_switched _ Hlive) (rl_mux _ Hlive)).
    destruct (mux_target t s rq) as [[k name] |] eqn:Et; [| by split].
    pose proof (mux_target_leaf t s rq k name Et) as Hk. destruct (Hready k Hk) as (w & Hw & Hb & Hbud).
    change (wp (asked (Some (k, name))) (fun s' h => router_live s' /\ (h.2 = None -> is_Some (hop_Conn h.1))) s).
    unfold asked, ask. do 2 wp_step. apply (wp_on_pool k _ s w); [done |].
    eapply wp_mono; [by apply wp_Next |]. intros w' r [[Hev _] _]. do 2 wp_step.
    split; [by apply router_live_pool; [| | apply Hev] |]. destruct r as [c |]; [| done]. intros _. by eexists.
  - intros c s Hs. unfold chain_OnSuccess. do 2 wp_step. repeat (destruct (_ : bool); [by apply wp_ret |]). by apply wp_upd_shared_live.
  - intros now c s Hs. unfold chain_OnFailure. do 2 wp_step. destruct (has _ _); [by apply wp_ret |].
    destruct (conn_cas _ _ _ _) as [conn' [e |]]; [by apply wp_ret | by apply wp_upd_shared_live].
Qed.
End Instances.
