(* ===== verification/StreamSpec.v ===== *)
(** The theorems about a request: its attempts and reports, its responses, what
    goes over the wire; and runs that show where the code departs from its
    documentation. *)

From Stdlib Require Import ZArith Lia Ascii String.
From stdpp Require Import base gmap list strings sorting pretty.
From S2P Require Import Prelude.
From S2P Require Import Atomic.
From S2P Require Import Lifecycle.
From S2P Require Import Warmup.
From S2P Require Import Rtt.
From S2P Require Import Congestion.
From S2P Require Import Conn.
From S2P Require Import Pool.
From S2P Require Import PoolSelect.
From S2P Require Import PoolLists.
From S2P Require Import PoolReport.
From S2P Require Import PoolNext.
From S2P Require Import Policy.
From S2P Require Import Router.
From S2P Require Import Stream.
From S2P Require Import StreamRun.
From S2P Require Import StreamRouter.

Open Scope list_scope.
Open Scope Z_scope.

Section Theorems.
Context {Inv Live : System -> Prop} `{!Steady Live}.
Context (conn_URL : loc -> URL) (signer : option (httpRequest -> option httpRequest)) (compress : string -> option string).
Context (tc : Config) (bal : Balancer) (seedFallbackPool : option ConnPool) (env : Environment).
Context `{Hbal : !BalancerLaws Inv Live bal} `{!Rely Inv Live env}.
(** A signer adds headers. *)
Context (Hsigner : forall f rq rq', signer = Some f -> f rq = Some rq' -> exists h, rq' = rq_header rq h).
Context `{Hseed : !match seedFallbackPool with Some p => ConnPoolLaws Inv Live p | None => True end}.

Notation stream := (stream conn_URL signer compress tc bal seedFallbackPool env).
Notation blocks := (blocks tc env).
Notation ran := (ran conn_URL signer compress tc seedFallbackPool env).
Notation goes_on := (goes_on tc env).
Notation prefixed := (prefixed conn_URL).
Notation max_attempts := (max_attempts tc).

(** C19: The attempts of a request. A call to Stream never panics and makes at
    most MaxRetries + 1 attempts, numbered from 0, and at most one attempt of
    the seed fallback after them. Every attempt is counted in flight exactly
    while it is on the wire and reported exactly once, as a success or a
    failure of the connection it was sent to. An attempt is followed by another
    only if its answer is retryable and the backoff was not interrupted; the
    loop ends, and what it returns is decided, as [ending] says. *)
Theorem stream_attempts s : Live (ca_sys s) -> begun s ->
  wp stream (fun s' _ => exists h tail,
    ca_log s' = blocks h ++ tail /\ ran s s' h tail /\
    (length h <= max_attempts)%nat /\ st_attempt <$> h = seq 0 (length h) /\
    (forall j x, h !! j = Some x -> (S j < length h)%nat -> goes_on x)) s.
Proof.
  intros Hs (_ & _ & Hl0). eapply wp_mono; [by apply (wp_stream (Inv := Inv) (Live := Live)) |]. intros s' [] (h & tail & Hlog & Hran).
  exists h, tail. rewrite Hlog, Hl0. split; [done |]. split; [exact Hran |]. unfold StreamRun.ran in Hran.
  destruct (prepare_body compress tc _) as [rq |]; [| destruct Hran as (-> & _); split_and!; [cbn; lia | done | by intros j x]].
  destruct Hran as (Hw & r & f & Hend & _).
  split_and!; [by eapply ending_bound | by eapply wire_attempts | intros j x; by eapply ending_goes_on].
Qed.

(** Responses. Of all the responses a call receives, every one but the
    returned one has had its body closed; the returned one is open, unless the
    backoff after it was interrupted, which is the only case in which a call
    returns both a response and an error. With MaxRetries not negative a call
    that returns no response returns an error. *)
Theorem stream_responses s : Live (ca_sys s) -> begun s ->
  wp stream (fun s' _ =>
    (forall i c poolName rq rs, EvSend (Some i) c poolName rq ∈ ca_log s' -> an_result (en_answer env i) = inr rs ->
       EvClose (Some i) ∈ ca_log s' \/ ca_res s' = Some (Some i, rs)) /\
    (forall a rs, ca_res s' = Some (a, rs) -> EvClose a ∈ ca_log s' -> ca_err s' = Some ErrContext) /\
    (is_Some (ca_res s') -> is_Some (ca_err s') -> ca_err s' = Some ErrContext /\ tc_retryBackoff tc = true) /\
    (0 <= tc_maxRetries tc -> ca_res s' = None -> is_Some (ca_err s'))) s.
Proof.
  intros Hs (Hr0 & He0 & Hl0). eapply wp_mono; [by apply (wp_stream (Inv := Inv) (Live := Live)) |]. intros s' [] (h & tail & Hlog & Hran).
  rewrite Hl0 in Hlog. cbn [app] in Hlog. unfold StreamRun.ran in Hran. rewrite Hr0, He0 in Hran.
  destruct (prepare_body compress tc _) as [rq |].
  2: { destruct Hran as (-> & -> & [= -> ->]). cbn in Hlog. rewrite Hlog. split_and!; [by intros i c p rq rs ?%elem_of_nil | done | by intros [] | by eexists]. }
  destruct Hran as (Hw & r & f & Hend & Hres). destruct (ending_settles conn_URL signer tc env rq h r f Hend Hw) as [Hopen Hfrom Herr Hpart].
  assert (Hpos : 0 <= tc_maxRetries tc -> (0 < max_attempts)%nat) by (unfold StreamRun.max_attempts; lia).
  assert (Hsend : forall i c p q, EvSend (Some i) c p q ∈ ca_log s' -> exists x, x ∈ h /\ st_attempt x = i).
  { intros i c p q. rewrite Hlog. intros [(x & Hx & Hin)%elem_of_blocks | Hin]%elem_of_app.
    - exists x. split; [done |]. by apply send_in_block in Hin as [= ->].
    - destruct (falls_back tc seedFallbackPool r.2); [by pose proof (seeded_events env _ _ _ Hres Hin) | destruct Hres as [-> _]; by apply elem_of_nil in Hin]. }
  assert (Hclose : forall x, x ∈ h -> closes tc env x = true -> EvClose (Some (st_attempt x)) ∈ ca_log s').
  { intros x Hx Hc. rewrite Hlog. apply elem_of_app. left. apply elem_of_blocks. exists x. split; [done |]. by apply close_in_block. }
  assert (Hclosed : forall a, EvClose a ∈ ca_log s' -> exists x, x ∈ h /\ closes tc env x = true /\ a = Some (st_attempt x)).
  { intros a. rewrite Hlog. intros [(x & Hx & Hin)%elem_of_blocks | Hin]%elem_of_app; [exists x; by apply close_in_block in Hin as [? ->] |].
    destruct (falls_back tc seedFallbackPool r.2); [by pose proof (seeded_events env _ _ _ Hres Hin) | destruct Hres as [-> _]; by apply elem_of_nil in Hin]. }
  destruct (falls_back tc seedFallbackPool r.2) eqn:Ef.
  - assert (Hr1 : r.1 = None).
    { destruct r.1 as [[a rs] |] eqn:E; [| done]. unfold falls_back in Ef. destruct seedFallbackPool; [| done]. destruct r.2 as [e |] eqn:E2; [| done].
      destruct (Hpart ltac:(by eexists) ltac:(by eexists)) as [[= ->] _]. done. }
    split_and!.
    + intros i c p q rs Hin Hrs. destruct (Hsend _ _ _ _ Hin) as (x & Hx & <-). destruct (Hopen x rs Hx Hrs) as [Hc | Hc]; [left; by apply Hclose | congruence].
    + intros a rs Ha Hin. destruct (Hclosed _ Hin) as (x & _ & _ & ->). inversion Hres; congruence.
    + intros [v Hv] [e He]. inversion Hres; congruence.
    + intros _ Hn. destruct (ca_err s') eqn:E; [by eexists |]. exfalso. inversion Hres; congruence.
  - destruct Hres as [-> <-]. cbn [fst snd] in *. split_and!.
    + intros i c p q rs Hin Hrs. destruct (Hsend _ _ _ _ Hin) as (x & Hx & <-). destruct (Hopen x rs Hx Hrs) as [Hc | Hc]; [left; by apply Hclose | by right].
    + intros a rs Ha Hin. destruct (Hclosed _ Hin) as (x & Hx & Hc & ->). destruct (Hfrom _ _ Ha) as (y & Hy & Hay & Hec).
      apply Hec. assert (y = x) as ->; [| done].
      apply list_elem_of_lookup in Hx as [j Hj]. apply list_elem_of_lookup in Hy as [k Hk]. injection Hay as Heq.
      rewrite (wire_index _ _ _ _ _ _ _ _ _ Hw Hj), (wire_index _ _ _ _ _ _ _ _ _ Hw Hk) in Heq. cbn in Heq. subst k. congruence.
    + exact Hpart.
    + intros H0 Hn. by apply Herr; [apply Hpos |].
Qed.

(** C20: What goes over the wire. Every attempt carries the caller's method and
    is addressed to the connection it was routed to; while the body can be
    rewound (retries enabled, or bodies logged) and GetBody yields the body's
    bytes, every attempt carries the whole prepared body. The path of an attempt
    is the caller's behind the base paths of all the connections tried so far,
    one after the other, since each attempt prepends its connection's base path
    to the request of the attempt before. *)
Theorem stream_wire s : Live (ca_sys s) -> begun s ->
  wp stream (fun s' _ => exists h tail,
    ca_log s' = blocks h ++ tail /\
    forall j x, h !! j = Some x ->
      rq_Method (st_req x) = rq_Method (ca_req s) /\
      rq_Scheme (st_req x) = u_Scheme (conn_URL (st_conn x)) /\ rq_Host (st_req x) = u_Host (conn_URL (st_conn x)) /\
      rq_Path (st_req x) = prefixed (take (S j) h) (rq_Path (ca_req s)) /\
      (rewinds tc = true -> faithful (ca_req s) ->
       exists rq, prepare_body compress tc (decorated tc (ca_req s)) = Some rq /\ rq_Body (st_req x) = rq_Body rq)) s.
Proof.
  intros Hs (_ & _ & Hl0). eapply wp_mono; [by apply (wp_stream (Inv := Inv) (Live := Live)) |]. intros s' [] (h & tail & Hlog & Hran).
  exists h, tail. rewrite Hlog, Hl0. split; [done |]. unfold StreamRun.ran in Hran.
  destruct (prepare_body compress tc _) as [rq |] eqn:Ep; [| by destruct Hran as (-> & _)].
  destruct Hran as (Hw & _). intros j x Hx.
  assert (Hprep : rq_Method rq = rq_Method (ca_req s) /\ rq_Path rq = rq_Path (ca_req s)).
  { revert Ep. unfold prepare_body. repeat case_match; intros [= <-]; by split. }
  destruct Hprep as [Em Epa]. destruct (wire_path _ _ _ _ h 0 rq j x Hw Hx) as [-> ->]. destruct (wire_sent _ _ _ _ h 0 rq j x Hw Hx) as [rq0 Hsa].
  rewrite Em, Epa, (sa_scheme _ _ _ _ _ _ _ Hsa), (sa_host _ _ _ _ _ _ _ Hsa). split_and!; [done .. |].
  intros Hrew Hf. exists rq. split; [done |]. eapply wire_bodies; [done | by eapply prepare_replayable | | done | done].
  eapply prepare_faithful; [| exact Ep]. intros b g Hb Hg. by apply (Hf b g).
Qed.
End Theorems.

(** * Runs *)

Definition ex_sys : System := MkSystem (w_heap ex_world) {[0%nat := ex_world]} ∅.
Definition ex_url (c : loc) : URL := MkURL "http" "n:9200" "/es/" None.
Definition ex_client (disableRetry : bool) (maxRetries : Z) : Config :=
  MkClientConfig maxRetries disableRetry false [502; 503; 504] false false false "go" [] "" "" true 60 false.
Definition eof : transportError := MkTransportError false true None.
Definition status (code : Z) : httpResponse := MkHttpResponse code false "{}" false.
Definition ex_answer (result : transportError + httpResponse) : Answer := MkAnswer 100 3 result true true false.
(** The answers in turn; before each attempt the others restore the pool. *)
Definition ex_env (answers : list (transportError + httpResponse)) : Environment :=
  MkEnvironment (fun i => ex_answer (default (inr (status 200)) (answers !! i))) (fun _ _ => ex_sys) (fun _ s => s) false
    (ex_answer (inr (status 200))) (fun _ => ex_sys) (fun s => s).
Definition ex_call : Call :=
  MkCall ex_sys ∅ false false []
    (MkHttpRequest "POST" "" "" "/logs/_doc" "" "" ∅ (Some "hello"%string) None) None None (MkStreamResult 0 false "" "") [].
Definition ex_stream (tc : Config) (env : Environment) : option Call :=
  fst <$> Stream.stream ex_url None (fun _ => None) tc (ByPool (multi_pool 0)) None env ex_call.
(** Path and body of each attempt. *)
Definition ex_sends (s : option Call) : option (list (string * option string)) :=
  option_map (fun s => omap (fun e => match e with EvSend _ _ _ rq => Some (rq_Path rq, rq_Body rq) | _ => None end) (ca_log s)) s.

Lemma ex_sys_ready : pool_ready 0 ex_sys.
Proof.
  exists ex_world. split; [done |]. split; [vm_compute; split; congruence |]. vm_compute. split; congruence.
Qed.
#[export] Instance ex_rely answers : Rely (pool_ready 0) (pool_live 0) (ex_env answers).
Proof. split; cbn; intros; try apply ex_sys_ready; done. Qed.

Lemma ex_call_live : pool_live 0 (ca_sys ex_call).
Proof. destruct ex_sys_ready as (w & Hw & Hb & _). by exists w. Qed.
Lemma ex_call_begun : begun ex_call.
Proof. by split_and!. Qed.

(** DisableRetry leaves the retries after io.EOF and after a stream reset on,
    and the body is not rewound for them: the second attempt sends what the
    first one left of it. *)
Lemma disabled_retry_resends :
  ex_sends (ex_stream (ex_client true 6) (ex_env [inl eof])) =
    Some [("/es/logs/_doc", Some "hello"); ("/es/es/logs/_doc", Some "lo")]%string.
Proof. vm_compute. reflexivity. Qed.

(** A negative MaxRetries sends nothing and reports neither a response nor an
    error. *)
Lemma negative_retries_silent :
  option_map (fun s => (ca_res s, ca_err s, ca_log s)) (ex_stream (ex_client false (-1)) (ex_env [])) = Some (None, None, []).
Proof. vm_compute. reflexivity. Qed.

(** Three attempts: the peer closes the connection, a 503, an answer. *)
Definition ex_retries : Environment := ex_env [inl eof; inr (status 503)].
Definition ex_reports (s : option Call) : option (list (nat * bool)) :=
  option_map (fun s => omap (fun e => match e with EvSuccess c => Some (c, true) | EvFailure c => Some (c, false) | _ => None end) (ca_log s)) s.
Definition ex_closed (s : option Call) : option (list (option nat)) :=
  option_map (fun s => omap (fun e => match e with EvClose a => Some a | _ => None end) (ca_log s)) s.

Lemma stream_attempts_witness :
  ex_reports (ex_stream (ex_client false 6) ex_retries) = Some [(0, false); (0, true); (0, true)]%nat /\
  wp (stream ex_url None (fun _ => None) (ex_client false 6) (ByPool (multi_pool 0)) None ex_retries) (fun s' _ => exists h tail,
    ca_log s' = blocks (ex_client false 6) ex_retries h ++ tail /\
    ran ex_url None (fun _ => None) (ex_client false 6) None ex_retries ex_call s' h tail /\
    (length h <= max_attempts (ex_client false 6))%nat /\ st_attempt <$> h = seq 0 (length h) /\
    (forall j x, h !! j = Some x -> (S j < length h)%nat -> goes_on (ex_client false 6) ex_retries x)) ex_call.
Proof.
  split; [vm_compute; reflexivity |].
  exact (stream_attempts (Inv := pool_ready 0) (Live := pool_live 0) ex_url None (fun _ => None) (ex_client false 6)
    (ByPool (multi_pool 0)) None ex_retries ltac:(discriminate) (Hseed := I) ex_call ex_call_live ex_call_begun).
Defined.

Lemma stream_responses_witness :
  ex_closed (ex_stream (ex_client false 6) ex_retries) = Some [Some 1%nat] /\
  wp (stream ex_url None (fun _ => None) (ex_client false 6) (ByPool (multi_pool 0)) None ex_retries) (fun s' _ =>
    (forall i c poolName rq rs, EvSend (Some i) c poolName rq ∈ ca_log s' -> an_result (en_answer ex_retries i) = inr rs ->
       EvClose (Some i) ∈ ca_log s' \/ ca_res s' = Some (Some i, rs)) /\
    (forall a rs, ca_res s' = Some (a, rs) -> EvClose a ∈ ca_log s' -> ca_err s' = Some ErrContext) /\
    (is_Some (ca_res s') -> is_Some (ca_err s') -> ca_err s' = Some ErrContext /\ tc_retryBackoff (ex_client false 6) = true) /\
    (0 <= tc_maxRetries (ex_client false 6) -> ca_res s' = None -> is_Some (ca_err s'))) ex_call.
Proof.
  split; [vm_compute; reflexivity |].
  exact (stream_responses (Inv := pool_ready 0) (Live := pool_live 0) ex_url None (fun _ => None) (ex_client false 6)
    (ByPool (multi_pool 0)) None ex_retries ltac:(discriminate) (Hseed := I) ex_call ex_call_live ex_call_begun).
Defined.

Lemma stream_wire_witness :
  ex_sends (ex_stream (ex_client false 6) ex_retries) =
    Some [("/es/logs/_doc", Some "hello"); ("/es/es/logs/_doc", Some "hello"); ("/es/es/es/logs/_doc", Some "hello")]%string /\
  wp (stream ex_url None (fun _ => None) (ex_client false 6) (ByPool (multi_pool 0)) None ex_retries) (fun s' _ => exists h tail,
    ca_log s' = blocks (ex_client false 6) ex_retries h ++ tail /\
    forall j x, h !! j = Some x ->
      rq_Method (st_req x) = rq_Method (ca_req ex_call) /\
      rq_Scheme (st_req x) = u_Scheme (ex_url (st_conn x)) /\ rq_Host (st_req x) = u_Host (ex_url (st_conn x)) /\
      rq_Path (st_req x) = prefixed ex_url (take (S j) h) (rq_Path (ca_req ex_call)) /\
      (rewinds (ex_client false 6) = true -> faithful (ca_req ex_call) ->
       exists rq, prepare_body (fun _ => None) (ex_client false 6) (decorated (ex_client false 6) (ca_req ex_call)) = Some rq /\
         rq_Body (st_req x) = rq_Body rq)) ex_call.
Proof.
  split; [vm_compute; reflexivity |].
  exact (stream_wire (Inv := pool_ready 0) (Live := pool_live 0) ex_url None (fun _ => None) (ex_client false 6)
    (ByPool (multi_pool 0)) None ex_retries ltac:(discriminate) (Hseed := I) ex_call ex_call_live ex_call_begun).
Defined.

(** The mux router, whatever its table and order: the theorems apply to it as
    they stand. *)
Corollary mux_router_attempts `{laws : PoolSelectorLaws} t unique conn_URL compress tc env s :
  Rely router_ready router_live env -> router_live (ca_sys s) -> begun s ->
  wp (stream conn_URL None compress tc (ByRouter (NewRouter [mux_top t unique])) None env) (fun s' _ => exists h tail,
    ca_log s' = blocks tc env h ++ tail /\ (length h <= max_attempts tc)%nat) s.
Proof.
  intros Hrely Hs (_ & _ & Hl0).
  eapply wp_mono; [by apply (wp_stream (Inv := router_ready) (Live := router_live) conn_URL None compress tc
    (ByRouter (NewRouter [mux_top t unique])) None env ltac:(discriminate) (Hseed := I)) |].
  intros s' [] (h & tail & Hlog & Hran). exists h, tail. rewrite Hlog, Hl0. split; [done |]. unfold StreamRun.ran in Hran.
  destruct (prepare_body compress tc _) as [rq |]; [| destruct Hran as (-> & _); cbn; lia].
  destruct Hran as (Hw & r & f & Hend & _). by eapply ending_bound.
Qed.
