(* ===== verification/BulkIndexer.v ===== *)
(** * The bulk indexer

    opensearchutil/bulk_indexer.go: Add puts an item on the queue of a worker,
    workers render items into their buffer and send it as one bulk request
    when it is large enough, a flusher sends what is left after an interval,
    and Close drains everything. The bulk call's error is the one of
    opensearchapi/bulk_gen.go.

    A state holds the workers (channel, item taken from it, buffer, items), the
    flusher, the closer, the statistics and a log of what happened. Everything
    a worker does under its mutex is one step; taking an item from the channel
    is another. What the network answers, and which context is cancelled when,
    comes with the step. A string is the list of its bytes. The value of
    WaitForActiveShards is the caller's, of any type; how encoding/json renders
    it is a parameter. Debug output and the pool of metadata buffers are not
    observable and left out. *)

From Stdlib Require Import Ascii String.
From stdpp Require Import base list strings pretty relations.
From Stdlib Require Import ZArith Lia.
From S2P Require Import Prelude.
From S2P Require Import GoStrings.
From S2P Require Import ShardHash.
From S2P Require Import ErrMask.
Open Scope Z_scope.

(** * JSON of the action line (encoding/json without HTML escaping) *)

Definition hex (d : Z) : Z := if d <? 10 then 48 + d else 87 + d.

(** An ASCII byte inside a JSON string. *)
Definition json_byte (b : Z) : gostring :=
  if (b =? 34) || (b =? 92) then [92; b]
  else if b =? 8 then lit "\b" else if b =? 12 then lit "\f" else if b =? 10 then lit "\n"
  else if b =? 13 then lit "\r" else if b =? 9 then lit "\t"
  else if b <? 32 then lit "\u00" ++ [hex (Z.shiftr b 4); hex (Z.land b 15)]
  else [b].

(** Runes beyond ASCII are copied, bytes that are no UTF-8 replaced; the fuel
    is the number of bytes. *)
Fixpoint json_runes (fuel : nat) (s : gostring) : gostring :=
  match fuel, s with
  | S f, b :: rest =>
    if b <? 128 then json_byte b ++ json_runes f rest
    else let '(r, w) := decode_rune b rest in
      (if (r =? RuneError) && (w =? 1)%nat then lit "\ufffd"
       else if (r =? 0x2028) || (r =? 0x2029) then lit "\u202" ++ [hex (Z.land r 15)]
       else take w s) ++ json_runes f (drop w s)
  | _, _ => []
  end.

Definition json_string (s : gostring) : gostring := [34] ++ json_runes (length s) s ++ [34].
Definition json_int (z : Z) : gostring := lit (pretty z).
Definition json_bool (b : bool) : gostring := if b then lit "true" else lit "false".

(** The members of an object, the absent ones (omitempty) left out. *)
Definition json_member (m : string * gostring) : gostring := json_string (lit m.1) ++ [58] ++ m.2.
Definition json_object (ms : list (string * option gostring)) : gostring :=
  let present := omap (fun m => match m.2 with Some v => Some (m.1, v) | None => None end) ms in
  [123] ++ mjoin (match present with [] => [] | m :: l => json_member m :: map (fun m => [44] ++ json_member m) l end) ++ [125].

(** * Items and answers *)

Record ErrorCause := MkErrorCause { ec_Type : string; ec_Reason : string }.
Record BulkRespItem := MkRespItem { br_Status : Z; br_Error : option ErrorCause }.
Record BulkItem := MkBulkItem {
  bk_Create : option BulkRespItem;
  bk_Delete : option BulkRespItem;
  bk_Index : option BulkRespItem;
  bk_Update : option BulkRespItem }.
Record BulkResp := MkBulkResp { bp_Errors : bool; bp_Items : list BulkItem }.

Inductive bulk_error := BulkFailed (cause : string) | PartialBulkError (failed : list BulkRespItem) (succeeded : nat).

(** What the network makes of a bulk request. *)
Inductive BulkAnswer := NoResponse (cause : string) | Response (r : BulkResp).

Definition BulkItemFailures (r : BulkResp) : option bulk_error :=
  if negb (bp_Errors r) then None
  else
    let results := bp_Items r ≫= fun it => omap id [bk_Create it; bk_Delete it; bk_Index it; bk_Update it] in
    let failed := filter (fun v => is_Some (br_Error v)) results in
    if decide (failed = []) then None
    else Some (PartialBulkError failed (length results - length failed)).

Definition PartialFailures (r : BulkResp) (mask : Z) : option bulk_error :=
  if Has mask ErrMask.BulkItems then None else BulkItemFailures r.

(** DocumentClient.Bulk: the response (empty when there is none) and the error. *)
Definition Bulk (mask : Z) (an : BulkAnswer) : BulkResp * option bulk_error :=
  match an with
  | NoResponse cause => (MkBulkResp false [], Some (BulkFailed cause))
  | Response r => (r, PartialFailures r mask)
  end.

(** What the body's reader delivers, and how reading and rewinding it end. *)
Record Body := MkBody { bd_data : gostring; bd_read_error : bool; bd_seek_error : bool }.

Section Indexer.
Context {any : Type}.
Context (json_any : any -> option gostring).

Record BulkIndexerItem := MkItem {
  it_Index : gostring;
  it_Action : gostring;
  it_DocumentID : gostring;
  it_Routing : option gostring;
  it_Version : option Z;
  it_VersionType : option gostring;
  it_IfSeqNum : option Z;
  it_IfPrimaryTerm : option Z;
  it_WaitForActiveShards : option any;
  it_Refresh : option gostring;
  it_RequireAlias : option bool;
  it_Body : option Body;
  it_RetryOnConflict : option Z }.

(** The fields of bulkActionMetadata in their order; Version and VersionType
    are dropped without a document. *)
Definition metadata (item : BulkIndexerItem) (shards : option gostring) : list (string * option gostring) :=
  let nonempty s := if decide (s = []) then None else Some (json_string s) in
  let unversioned := bool_decide (it_DocumentID item = []) in
  [("_index", nonempty (it_Index item));
   ("_id", nonempty (it_DocumentID item));
   ("routing", json_string <$> it_Routing item);
   ("version", if unversioned then None else json_int <$> it_Version item);
   ("version_type", if unversioned then None else json_string <$> it_VersionType item);
   ("if_seq_no", json_int <$> it_IfSeqNum item);
   ("if_primary_term", json_int <$> it_IfPrimaryTerm item);
   ("wait_for_active_shards", shards);
   ("refresh", json_string <$> it_Refresh item);
   ("require_alias", json_bool <$> it_RequireAlias item);
   ("retry_on_conflict", json_int <$> it_RetryOnConflict item)].

(** Encode of the one-entry map, with its newline; [None] is its error. *)
Definition encode_meta (item : BulkIndexerItem) : option gostring :=
  shards ← match it_WaitForActiveShards item with
           | None => Some None
           | Some v => j ← json_any v; Some (Some j)
           end;
  Some ([123] ++ json_string (it_Action item) ++ [58] ++ json_object (metadata item shards) ++ [125; 10]).

(** * State *)

Record BulkIndexerConfig := MkBulkConfig {
  cf_NumWorkers : nat;
  cf_FlushBytes : Z;
  cf_errorMask : Z }.

Definition with_defaults (numCPU : nat) (cfg : BulkIndexerConfig) : BulkIndexerConfig :=
  MkBulkConfig (if decide (cf_NumWorkers cfg = 0%nat) then numCPU else cf_NumWorkers cfg)
    (if cf_FlushBytes cfg =? 0 then 5000000 else cf_FlushBytes cfg) (cf_errorMask cfg).

Record worker := MkWorker {
  wk_ch : list BulkIndexerItem;              (* items waiting in the channel *)
  wk_hand : option BulkIndexerItem;          (* received, mutex not yet taken *)
  wk_buf : gostring;
  wk_items : list BulkIndexerItem;
  wk_exited : bool }.

Record bulkIndexerStats := MkStats {
  st_numAdded : Z;
  st_bulkAddFailCount : Z;
  st_numFlushed : Z;
  st_numFailed : Z;
  st_numIndexed : Z;
  st_numCreated : Z;
  st_numUpdated : Z;
  st_numDeleted : Z;
  st_numRequests : Z }.

Inductive flusher_state := FlIdle | FlAt (i : nat) | FlDone.
Inductive close_state := ClOpen | ClWait | ClJoin | ClDrain (i : nat) | ClDone (cancelled : bool).

(** Add and the calls to the user: the item's callback runs at EvFailure and
    EvSuccess when it has one. *)
Inductive event :=
  | EvAdded (w : nat) (item : BulkIndexerItem)
  | EvRejected (item : BulkIndexerItem)
  | EvRequest (w : nat) (body : gostring) (items : list BulkIndexerItem) (an : BulkAnswer)
  | EvSuccess (w : nat) (item : BulkIndexerItem) (op : string) (info : BulkRespItem)
  | EvFailure (w : nat) (item : BulkIndexerItem) (info : BulkRespItem)
  | EvOnError.

Record bulkIndexer := MkIndexer {
  bi_config : BulkIndexerConfig;
  bi_workers : list worker;
  bi_adding : list (nat * BulkIndexerItem);  (* Adds waiting to send, with their queue *)
  bi_rrCounter : Z;
  bi_stats : bulkIndexerStats;
  bi_cancelled : bool;                       (* the configured context *)
  bi_closed : bool;                          (* the channels *)
  bi_flusher : flusher_state;
  bi_close : close_state;
  bi_log : list event }.

Definition zero_stats : bulkIndexerStats := MkStats 0 0 0 0 0 0 0 0 0.
Definition new_worker : worker := MkWorker [] None [] [] false.

Definition NewBulkIndexer (numCPU : nat) (cfg : BulkIndexerConfig) : bulkIndexer :=
  let cfg := with_defaults numCPU cfg in
  MkIndexer cfg (replicate (cf_NumWorkers cfg) new_worker) [] 0 zero_stats false false FlIdle ClOpen [].

Definition set_workers (s : bulkIndexer) (v : list worker) : bulkIndexer :=
  MkIndexer (bi_config s) v (bi_adding s) (bi_rrCounter s) (bi_stats s) (bi_cancelled s) (bi_closed s) (bi_flusher s) (bi_close s) (bi_log s).
Definition set_adding (s : bulkIndexer) (v : list (nat * BulkIndexerItem)) : bulkIndexer :=
  MkIndexer (bi_config s) (bi_workers s) v (bi_rrCounter s) (bi_stats s) (bi_cancelled s) (bi_closed s) (bi_flusher s) (bi_close s) (bi_log s).
Definition set_rr (s : bulkIndexer) (v : Z) : bulkIndexer :=
  MkIndexer (bi_config s) (bi_workers s) (bi_adding s) v (bi_stats s) (bi_cancelled s) (bi_closed s) (bi_flusher s) (bi_close s) (bi_log s).
Definition set_stats (s : bulkIndexer) (v : bulkIndexerStats) : bulkIndexer :=
  MkIndexer (bi_config s) (bi_workers s) (bi_adding s) (bi_rrCounter s) v (bi_cancelled s) (bi_closed s) (bi_flusher s) (bi_close s) (bi_log s).
Definition set_cancelled (s : bulkIndexer) : bulkIndexer :=
  MkIndexer (bi_config s) (bi_workers s) (bi_adding s) (bi_rrCounter s) (bi_stats s) true (bi_closed s) (bi_flusher s) (bi_close s) (bi_log s).
Definition set_closed (s : bulkIndexer) : bulkIndexer :=
  MkIndexer (bi_config s) (bi_workers s) (bi_adding s) (bi_rrCounter s) (bi_stats s) (bi_cancelled s) true (bi_flusher s) (bi_close s) (bi_log s).
Definition set_flusher (s : bulkIndexer) (v : flusher_state) : bulkIndexer :=
  MkIndexer (bi_config s) (bi_workers s) (bi_adding s) (bi_rrCounter s) (bi_stats s) (bi_cancelled s) (bi_closed s) v (bi_close s) (bi_log s).
Definition set_close (s : bulkIndexer) (v : close_state) : bulkIndexer :=
  MkIndexer (bi_config s) (bi_workers s) (bi_adding s) (bi_rrCounter s) (bi_stats s) (bi_cancelled s) (bi_closed s) (bi_flusher s) v (bi_log s).
Definition set_log (s : bulkIndexer) (v : list event) : bulkIndexer :=
  MkIndexer (bi_config s) (bi_workers s) (bi_adding s) (bi_rrCounter s) (bi_stats s) (bi_cancelled s) (bi_closed s) (bi_flusher s) (bi_close s) v.

Definition with_ch (v : list BulkIndexerItem) (w : worker) : worker := MkWorker v (wk_hand w) (wk_buf w) (wk_items w) (wk_exited w).
Definition with_hand (v : option BulkIndexerItem) (w : worker) : worker := MkWorker (wk_ch w) v (wk_buf w) (wk_items w) (wk_exited w).
Definition with_buf (v : gostring) (w : worker) : worker := MkWorker (wk_ch w) (wk_hand w) v (wk_items w) (wk_exited w).
Definition with_items (v : list BulkIndexerItem) (w : worker) : worker := MkWorker (wk_ch w) (wk_hand w) (wk_buf w) v (wk_exited w).
Definition with_exited (w : worker) : worker := MkWorker (wk_ch w) (wk_hand w) (wk_buf w) (wk_items w) true.

Definition emit (e : event) : M bulkIndexer unit := modify (fun s => set_log s (bi_log s ++ [e])).
Definition get_worker (i : nat) : M bulkIndexer worker := getsM (fun s => bi_workers s !! i).
Definition upd_worker (i : nat) (f : worker -> worker) : M bulkIndexer unit :=
  modify (fun s => set_workers s (alter f i (bi_workers s))).
Definition count (f : bulkIndexerStats -> bulkIndexerStats) : M bulkIndexer unit := modify (fun s => set_stats s (f (bi_stats s))).

(** atomic.Uint64.Add *)
Definition add_numAdded (t : bulkIndexerStats) := MkStats (u64 (st_numAdded t + 1)) (st_bulkAddFailCount t) (st_numFlushed t) (st_numFailed t) (st_numIndexed t) (st_numCreated t) (st_numUpdated t) (st_numDeleted t) (st_numRequests t).
Definition add_bulkAddFailCount (t : bulkIndexerStats) := MkStats (st_numAdded t) (u64 (st_bulkAddFailCount t + 1)) (st_numFlushed t) (st_numFailed t) (st_numIndexed t) (st_numCreated t) (st_numUpdated t) (st_numDeleted t) (st_numRequests t).
Definition add_numFlushed (t : bulkIndexerStats) := MkStats (st_numAdded t) (st_bulkAddFailCount t) (u64 (st_numFlushed t + 1)) (st_numFailed t) (st_numIndexed t) (st_numCreated t) (st_numUpdated t) (st_numDeleted t) (st_numRequests t).
Definition add_numFailed (n : Z) (t : bulkIndexerStats) := MkStats (st_numAdded t) (st_bulkAddFailCount t) (st_numFlushed t) (u64 (st_numFailed t + n)) (st_numIndexed t) (st_numCreated t) (st_numUpdated t) (st_numDeleted t) (st_numRequests t).
Definition add_numIndexed (t : bulkIndexerStats) := MkStats (st_numAdded t) (st_bulkAddFailCount t) (st_numFlushed t) (st_numFailed t) (u64 (st_numIndexed t + 1)) (st_numCreated t) (st_numUpdated t) (st_numDeleted t) (st_numRequests t).
Definition add_numCreated (t : bulkIndexerStats) := MkStats (st_numAdded t) (st_bulkAddFailCount t) (st_numFlushed t) (st_numFailed t) (st_numIndexed t) (u64 (st_numCreated t + 1)) (st_numUpdated t) (st_numDeleted t) (st_numRequests t).
Definition add_numUpdated (t : bulkIndexerStats) := MkStats (st_numAdded t) (st_bulkAddFailCount t) (st_numFlushed t) (st_numFailed t) (st_numIndexed t) (st_numCreated t) (u64 (st_numUpdated t + 1)) (st_numDeleted t) (st_numRequests t).
Definition add_numDeleted (t : bulkIndexerStats) := MkStats (st_numAdded t) (st_bulkAddFailCount t) (st_numFlushed t) (st_numFailed t) (st_numIndexed t) (st_numCreated t) (st_numUpdated t) (u64 (st_numDeleted t + 1)) (st_numRequests t).
Definition add_numRequests (t : bulkIndexerStats) := MkStats (st_numAdded t) (st_bulkAddFailCount t) (st_numFlushed t) (st_numFailed t) (st_numIndexed t) (st_numCreated t) (st_numUpdated t) (st_numDeleted t) (u64 (st_numRequests t + 1)).

Definition count_op (op : string) (t : bulkIndexerStats) : bulkIndexerStats :=
  if decide (op = "index") then add_numIndexed t
  else if decide (op = "create") then add_numCreated t
  else if decide (op = "delete") then add_numDeleted t
  else if decide (op = "update") then add_numUpdated t
  else t.

(** * Operations *)

(** The queue of an item; the index expression of Add panics outside. *)
Definition queueIndex (item : BulkIndexerItem) : M bulkIndexer Z :=
  let* n := gets (fun s => Z.of_nat (length (bi_workers s))) in
  if n =? 0 then panic
  else if decide (it_DocumentID item = []) then
    let* rr := gets (fun s => wrap64 (bi_rrCounter s + 1)) in
    modify (fun s => set_rr s rr) ;;;
    ret (Z.rem rr n)
  else
    let* h := getsM (fun _ => Hash (it_DocumentID item)) in
    let idx := Z.rem h n in
    ret (if idx <? 0 then idx + n else idx).

(** Add up to its select. *)
Definition add_begin (item : BulkIndexerItem) : M bulkIndexer unit :=
  let* idx := queueIndex item in
  let* n := gets (fun s => Z.of_nat (length (bi_workers s))) in
  if (idx <? 0) || (n <=? idx) then panic
  else modify (fun s => set_adding s (bi_adding s ++ [(Z.to_nat idx, item)])).

(** The two cases of its select, for the k-th waiting Add. *)
Definition add_cancelled (k : nat) : M bulkIndexer unit :=
  let* a := getsM (fun s => bi_adding s !! k) in
  modify (fun s => set_adding s (delete k (bi_adding s))) ;;;
  count add_bulkAddFailCount ;;;
  emit (EvRejected a.2) ;;;
  emit EvOnError.

Definition add_send (k : nat) : M bulkIndexer unit :=
  let* a := getsM (fun s => bi_adding s !! k) in
  let* closed := gets bi_closed in
  if closed : bool then panic
  else
    modify (fun s => set_adding s (delete k (bi_adding s))) ;;;
    upd_worker a.1 (fun w => with_ch (wk_ch w ++ [a.2]) w) ;;;
    count add_numAdded ;;;
    emit (EvAdded a.1 a.2).

Definition bulkRespItemForOnFailure (info : BulkRespItem) : BulkRespItem :=
  match br_Error info with
  | None => MkRespItem (br_Status info) (Some (MkErrorCause "" ""))
  | Some _ => info
  end.
Definition no_info : BulkRespItem := bulkRespItemForOnFailure (MkRespItem 0 None).

Definition writeMeta (i : nat) (item : BulkIndexerItem) : M bulkIndexer bool :=
  match encode_meta item with
  | None => ret false
  | Some meta => upd_worker i (fun w => with_buf (wk_buf w ++ meta) w) ;;; ret true
  end.

Definition writeBody (i : nat) (item : BulkIndexerItem) : M bulkIndexer bool :=
  match it_Body item with
  | None => ret true
  | Some b =>
    upd_worker i (fun w => with_buf (wk_buf w ++ bd_data b) w) ;;;
    if bd_read_error b then emit EvOnError ;;; ret false
    else if bd_seek_error b then emit EvOnError ;;; ret false
    else upd_worker i (fun w => with_buf (wk_buf w ++ [10]) w) ;;; ret true
  end.

(** The operation a response item answers and its result. *)
Definition bulk_result (b : BulkItem) : string * BulkRespItem :=
  match b with
  | MkBulkItem _ _ (Some r) _ => ("index", r)
  | MkBulkItem (Some r) _ _ _ => ("create", r)
  | MkBulkItem _ (Some r) _ _ => ("delete", r)
  | MkBulkItem _ _ _ (Some r) => ("update", r)
  | _ => ("", MkRespItem 0 None)
  end.

Definition item_failed (info : BulkRespItem) : bool := bool_decide (is_Some (br_Error info)) || (300 <=? br_Status info).

Definition dispatch (i : nat) (kb : nat * BulkItem) : M bulkIndexer unit :=
  let* w := get_worker i in
  let* item := getsM (fun _ => wk_items w !! kb.1) in
  let info := (bulk_result kb.2).2 in
  if item_failed info then
    count (add_numFailed 1) ;;; emit (EvFailure i item (bulkRespItemForOnFailure info))
  else
    count add_numFlushed ;;; count (count_op (bulk_result kb.2).1) ;;;
    emit (EvSuccess i item (bulk_result kb.2).1 info).

Definition handleBulkError (i : nat) : M bulkIndexer unit :=
  let* w := get_worker i in
  count (add_numFailed (Z.of_nat (length (wk_items w)))) ;;;
  forM (wk_items w) (fun item => emit (EvFailure i item no_info)).

Definition reset_batch (i : nat) : M bulkIndexer unit := upd_worker i (fun w => with_items [] (with_buf [] w)).

(** Whether it returns an error; an empty buffer sends nothing. *)
Definition flush (i : nat) (an : BulkAnswer) : M bulkIndexer bool :=
  let* w := get_worker i in
  if decide (wk_buf w = []) then ret false
  else
    count add_numRequests ;;;
    emit (EvRequest i (wk_buf w) (wk_items w) an) ;;;
    let* mask := gets (fun s => cf_errorMask (bi_config s)) in
    match Bulk mask an with
    | (_, Some (BulkFailed _)) => handleBulkError i ;;; reset_batch i ;;; ret true
    | (blk, err) => forM (imap pair (bp_Items blk)) (dispatch i) ;;; reset_batch i ;;; ret (bool_decide (is_Some err))
    end.

Definition flush_reported (i : nat) (an : BulkAnswer) : M bulkIndexer unit :=
  let* err := flush i an in whenM err (emit EvOnError).

Definition item_rejected (i : nat) (item : BulkIndexerItem) : M bulkIndexer unit :=
  emit (EvFailure i item no_info) ;;; count (add_numFailed 1).

(** A worker's turn under its mutex, with the item it took. *)
Definition process (i : nat) (an : BulkAnswer) : M bulkIndexer unit :=
  let* w := get_worker i in
  match wk_hand w with
  | None => ret tt
  | Some item =>
    upd_worker i (with_hand None) ;;;
    let* written := writeMeta i item in
    if negb written then item_rejected i item
    else
      let* written := writeBody i item in
      if negb written then item_rejected i item
      else
        upd_worker i (fun w => with_items (wk_items w ++ [item]) w) ;;;
        let* w := get_worker i in
        let* limit := gets (fun s => cf_FlushBytes (bi_config s)) in
        whenM (limit <=? Z.of_nat (length (wk_buf w))) (flush_reported i an)
  end.

Definition receive (i : nat) : M bulkIndexer unit :=
  let* w := get_worker i in
  match wk_ch w with
  | [] => ret tt
  | item :: ch => upd_worker i (fun w => with_hand (Some item) (with_ch ch w))
  end.

(** The flusher's visit of its next worker. *)
Definition tick_flush (i : nat) (an : BulkAnswer) : M bulkIndexer unit :=
  let* n := gets (fun s => length (bi_workers s)) in
  if decide (i < n)%nat then flush_reported i an ;;; modify (fun s => set_flusher s (FlAt (S i)))
  else modify (fun s => set_flusher s FlIdle).

Definition close_begin : M bulkIndexer unit :=
  let* closed := gets bi_closed in
  if closed : bool then panic else modify (fun s => set_close (set_closed s) ClWait).

Definition close_joined (ctxDone : bool) : M bulkIndexer unit :=
  if ctxDone then emit EvOnError ;;; modify (fun s => set_close s (ClDone true))
  else modify (fun s => set_close s ClJoin).

Definition close_flush (i : nat) (an : BulkAnswer) : M bulkIndexer unit :=
  let* n := gets (fun s => length (bi_workers s)) in
  if decide (i < n)%nat then flush_reported i an ;;; modify (fun s => set_close s (ClDrain (S i)))
  else modify (fun s => set_close s (ClDone false)).

(** * Steps *)

Inductive bulk_op :=
  | OAdd (item : BulkIndexerItem)
  | OAddCancelled (k : nat)
  | OAddSend (k : nat)
  | OReceive (i : nat)
  | OProcess (i : nat) (an : BulkAnswer)
  | OExit (i : nat)
  | OCancel
  | OTick
  | OTickFlush (an : BulkAnswer)
  | OFlusherDone
  | OClose
  | OCloseJoined (ctxDone : bool)
  | OCloseWaited
  | OCloseFlush (an : BulkAnswer).

Definition worker_ready (s : bulkIndexer) (i : nat) (P : worker -> bool) : bool :=
  match bi_workers s !! i with Some w => negb (wk_exited w) && P w | None => false end.

Definition is_open (c : close_state) : bool := match c with ClOpen => true | _ => false end.

(** When an operation can run: a send waits for room in a channel of capacity
    NumWorkers, a worker exits when its context is cancelled or its closed
    channel is empty, the ticker is stopped by Close. *)
Definition enabled (s : bulkIndexer) (o : bulk_op) : bool :=
  match o with
  | OAdd _ => true
  | OAddCancelled k => (k <? length (bi_adding s))%nat
  | OAddSend k =>
    match bi_adding s !! k with
    | Some (i, _) => bi_closed s || match bi_workers s !! i with
        | Some w => (length (wk_ch w) <? length (bi_workers s))%nat | None => false end
    | None => false
    end
  | OReceive i => worker_ready s i (fun w => match wk_hand w, wk_ch w with None, _ :: _ => true | _, _ => false end)
  | OProcess i _ => worker_ready s i (fun w => match wk_hand w with Some _ => true | None => false end)
  | OExit i => worker_ready s i (fun w => match wk_hand w with Some _ => false | None =>
      bi_cancelled s || (bi_closed s && match wk_ch w with [] => true | _ => false end) end)
  | OCancel => negb (bi_cancelled s)
  | OTick => match bi_flusher s with FlIdle => is_open (bi_close s) | _ => false end
  | OTickFlush _ => match bi_flusher s with FlAt _ => true | _ => false end
  | OFlusherDone => match bi_flusher s with FlIdle => bi_cancelled s || negb (is_open (bi_close s)) | _ => false end
  | OClose => true
  | OCloseJoined _ => match bi_close s, bi_flusher s with ClWait, FlDone => true | _, _ => false end
  | OCloseWaited => match bi_close s with ClJoin => forallb wk_exited (bi_workers s) | _ => false end
  | OCloseFlush _ => match bi_close s with ClDrain _ => true | _ => false end
  end.

Definition exec (o : bulk_op) : M bulkIndexer unit :=
  match o with
  | OAdd item => add_begin item
  | OAddCancelled k => add_cancelled k
  | OAddSend k => add_send k
  | OReceive i => receive i
  | OProcess i an => process i an
  | OExit i => upd_worker i with_exited
  | OCancel => modify set_cancelled
  | OTick => modify (fun s => set_flusher s (FlAt 0))
  | OTickFlush an =>
    let* f := gets bi_flusher in
    match f with FlAt i => tick_flush i an | _ => ret tt end
  | OFlusherDone => modify (fun s => set_flusher s FlDone)
  | OClose => close_begin
  | OCloseJoined c => close_joined c
  | OCloseWaited => modify (fun s => set_close s (ClDrain 0))
  | OCloseFlush an =>
    let* c := gets bi_close in
    match c with ClDrain i => close_flush i an | _ => ret tt end
  end.

Definition bulk_step (s s' : bulkIndexer) : Prop := exists o, enabled s o = true /\ exec o s = Some (s', tt).

Definition reachable (numCPU : nat) (cfg : BulkIndexerConfig) (s : bulkIndexer) : Prop :=
  rtc bulk_step (NewBulkIndexer numCPU cfg) s.
End Indexer.
