(* ===== verification/BulkSpec.v ===== *)
(** * The handlers of the bulk indexer as functions

    Each handler is shown equal to a function: it replaces one worker and
    appends events, and the statistics follow the events. Every step of a run
    is then one of five changes of a worker, or touches none. *)

From Stdlib Require Import Ascii String.
From stdpp Require Import base list strings relations.
From Stdlib Require Import ZArith Lia.
From S2P Require Import Prelude.
From S2P Require Import GoStrings.
From S2P Require Import ShardHash.
From S2P Require Import ErrMask.
From S2P Require Import BulkIndexer.
Open Scope Z_scope.

Section Spec.
Context {any : Type} (json_any : any -> option gostring).
Notation item := (@BulkIndexerItem any).
Notation state := (@bulkIndexer any).
Notation wstate := (@worker any).
Notation ev := (@event any).

(** * Handlers as functions *)

(** What an event adds to the statistics. *)
Definition tally1 (t : bulkIndexerStats) (e : ev) : bulkIndexerStats :=
  match e with
  | EvAdded _ _ => add_numAdded t
  | EvRejected _ => add_bulkAddFailCount t
  | EvRequest _ _ _ _ => add_numRequests t
  | EvSuccess _ _ op _ => count_op op (add_numFlushed t)
  | EvFailure _ _ _ => add_numFailed 1 t
  | EvOnError => t
  end.

(** The state after worker [i] became [w] and the events happened. *)
Definition after (i : nat) (w : wstate) (evs : list ev) (s : state) : state :=
  MkIndexer (bi_config s) (<[i := w]> (bi_workers s)) (bi_adding s) (bi_rrCounter s)
    (foldl tally1 (bi_stats s) evs) (bi_cancelled s) (bi_closed s) (bi_flusher s) (bi_close s) (bi_log s ++ evs).

Definition settle (i : nat) (it : item) (b : BulkItem) : ev :=
  let info := (bulk_result b).2 in
  if item_failed info then EvFailure i it (bulkRespItemForOnFailure info) else EvSuccess i it (bulk_result b).1 info.

(** How the items of a request end. *)
Definition settle_all (i : nat) (items : list item) (an : BulkAnswer) : list ev :=
  match an with
  | NoResponse _ => map (fun it => EvFailure i it no_info) items
  | Response r => zip_with (settle i) items (bp_Items r)
  end.

Definition fits (n : nat) (an : BulkAnswer) : Prop :=
  match an with NoResponse _ => True | Response r => (length (bp_Items r) <= n)%nat end.

#[export] Instance fits_dec n an : Decision (fits n an).
Proof. destruct an; cbn; apply _. Defined.

Definition flush_err (mask : Z) (an : BulkAnswer) : bool := bool_decide (is_Some (Bulk mask an).2).

Definition flush_events (mask : Z) (i : nat) (w : wstate) (an : BulkAnswer) : list ev :=
  EvRequest i (wk_buf w) (wk_items w) an :: settle_all i (wk_items w) an.

Definition reported (mask : Z) (an : BulkAnswer) : list ev := if flush_err mask an then [EvOnError] else [].

Definition emptied (w : wstate) : wstate := with_items [] (with_buf [] w).

(** A flush of a worker, with the report of its error. *)
Definition flushed (mask : Z) (i : nat) (w : wstate) (an : BulkAnswer) : wstate * list ev :=
  if decide (wk_buf w = []) then (w, [])
  else (emptied w, flush_events mask i w an ++ reported mask an).

Lemma after_after i w w' evs evs' s : after i w' evs' (after i w evs s) = after i w' (evs ++ evs') s.
Proof. unfold after; cbn. rewrite list_insert_insert_eq, foldl_app, app_assoc. done. Qed.

Lemma after_id i w s : bi_workers s !! i = Some w -> after i w [] s = s.
Proof. intros Hw. unfold after; cbn. rewrite list_insert_id, app_nil_r by done. destruct s; done. Qed.

Lemma after_lookup i w evs s : (i < length (bi_workers s))%nat -> bi_workers (after i w evs s) !! i = Some w.
Proof. intros. cbn. by rewrite list_lookup_insert_eq. Qed.

Lemma upd_after i f w (s : state) :
  bi_workers s !! i = Some w -> upd_worker i f s = Some (after i (f w) [] s, tt).
Proof.
  intros Hw. unfold upd_worker, modify, after, set_workers. cbn. rewrite app_nil_r. do 3 f_equal.
  apply list_eq. intros j. destruct (decide (j = i)) as [->|Hj].
  - rewrite list_lookup_alter_eq, Hw, list_lookup_insert_eq by (apply lookup_lt_is_Some; eauto). done.
  - rewrite list_lookup_alter_ne, list_lookup_insert_ne by done. done.
Qed.

Lemma emit_after i w (s : state) e :
  bi_workers s !! i = Some w -> tally1 (bi_stats s) e = bi_stats s -> emit e s = Some (after i w [e] s, tt).
Proof. intros Hw Ht. unfold emit, modify, after, set_log. cbn. rewrite list_insert_id, Ht by done. done. Qed.

Lemma bind_run {S A B} (m : M S A) (k : A -> M S B) s s' a : m s = Some (s', a) -> bind m k s = k a s'.
Proof. intros E. unfold bind. rewrite E. done. Qed.

Lemma bind_assoc_run {S A B C} (m : M S A) (f : A -> M S B) (k : B -> M S C) s :
  bind (bind m f) k s = bind m (fun a => bind (f a) k) s.
Proof. unfold bind. destruct (m s) as [[]|]; done. Qed.

Lemma dispatch_run i w (s : state) k b it :
  bi_workers s !! i = Some w -> wk_items w !! k = Some it ->
  dispatch i (k, b) s = Some (after i w [settle i it b] s, tt).
Proof.
  intros Hw Hk. unfold dispatch, bind, get_worker, getsM. rewrite Hw. cbn. rewrite Hk. unfold after, settle.
  rewrite list_insert_id by done. cbn. destruct (item_failed _); done.
Qed.

Lemma dispatch_loop_run i w bs off (s : state) :
  bi_workers s !! i = Some w -> (off <= length (wk_items w))%nat ->
  forM (imap (fun k b => ((off + k)%nat, b)) bs) (dispatch i) s =
  if decide (off + length bs <= length (wk_items w))%nat
  then Some (after i w (zip_with (settle i) (drop off (wk_items w)) bs) s, tt) else None.
Proof.
  revert off s. induction bs as [|b bs IH]; intros off s Hw Hoff; cbn.
  - rewrite decide_True by lia. rewrite zip_with_nil_r, after_id by done. done.
  - rewrite Nat.add_0_r. destruct (wk_items w !! off) as [it|] eqn:Hk; cycle 1.
    { apply lookup_ge_None in Hk. rewrite decide_False by lia. unfold bind, dispatch, bind, get_worker, getsM.
      rewrite Hw. cbn. destruct (wk_items w !! off) eqn:E; [|done]. apply lookup_lt_Some in E. lia. }
    pose proof (lookup_lt_Some _ _ _ Hk) as Hlt.
    unfold bind. rewrite (dispatch_run i w s off b it Hw Hk).
    rewrite (imap_ext _ (fun k b => ((S off + k)%nat, b))) by (intros k x _; cbn; by rewrite Nat.add_succ_r).
    rewrite IH by (first [apply after_lookup, lookup_lt_is_Some; eauto | lia]).
    replace (S off + length bs)%nat with (off + S (length bs))%nat by lia.
    destruct (decide _); [|done]. rewrite after_after, (drop_S _ _ _ Hk). done.
Qed.

Definition stats_ok (t : bulkIndexerStats) : Prop := u64 (st_numFailed t) = st_numFailed t.

Lemma tally_failures i (items : list item) t :
  stats_ok t ->
  foldl tally1 t (map (fun it => EvFailure i it no_info) items) = add_numFailed (Z.of_nat (length items)) t.
Proof.
  unfold stats_ok. revert t. induction items as [|it items IH]; intros t Ht; cbn.
  - destruct t. unfold add_numFailed; cbn in *. rewrite Z.add_0_r, Ht. done.
  - rewrite IH by (cbn; apply u64_u64). unfold add_numFailed; cbn. f_equal. unfold u64.
    rewrite Zplus_mod_idemp_l. f_equal. lia.
Qed.

Lemma handleBulkError_run i w (s : state) :
  bi_workers s !! i = Some w -> stats_ok (bi_stats s) ->
  handleBulkError i s = Some (after i w (map (fun it => EvFailure i it no_info) (wk_items w)) s, tt).
Proof.
  intros Hw Ht. unfold handleBulkError, bind at 1, get_worker, getsM. rewrite Hw. unfold bind at 1, count, modify.
  unfold after. rewrite tally_failures, list_insert_id by done.
  generalize (add_numFailed (Z.of_nat (length (wk_items w))) (bi_stats s)) as t. intros t.
  assert (H : forall (items : list item) (l : list ev) q, bi_log q = l ->
    forM items (fun it => emit (EvFailure i it no_info)) q
    = Some (set_log q (l ++ map (fun it => EvFailure i it no_info) items), tt)).
  { clear. induction items as [|it items IH]; intros l q Hl; cbn.
    - rewrite app_nil_r. subst. destruct q; done.
    - unfold bind, emit, modify. rewrite (IH (l ++ [EvFailure i it no_info])) by (cbn; congruence).
      rewrite <- app_assoc. done. }
  rewrite (H _ (bi_log s)) by done. done.
Qed.

Lemma tally_settled i items an t : stats_ok t -> stats_ok (foldl tally1 t (settle_all i items an)).
Proof.
  intros Ht. apply (foldl_invariant _ stats_ok); [done|]. unfold stats_ok. intros u e _ Hu.
  destruct e; cbn; try done; try apply u64_u64. unfold count_op. repeat case_decide; done.
Qed.

(** flush, as its callers use it. *)
Lemma flush_reported_run i w (s : state) an :
  bi_workers s !! i = Some w -> stats_ok (bi_stats s) ->
  let mask := cf_errorMask (bi_config s) in
  flush_reported i an s =
  if decide (wk_buf w = [] \/ fits (length (wk_items w)) an)
  then Some (after i (flushed mask i w an).1 (flushed mask i w an).2 s, tt) else None.
Proof.
  intros Hw Ht mask. unfold flush_reported, flush, flushed. rewrite bind_assoc_run.
  erewrite (bind_run (get_worker i)) by (unfold get_worker, getsM; rewrite Hw; done).
  destruct (decide (wk_buf w = [])) as [Hb|Hb].
  { rewrite decide_True by auto. cbn. unfold bind, whenM, ret. cbn. rewrite after_id by done. done. }
  rewrite !bind_assoc_run. erewrite (bind_run (count _)) by reflexivity. rewrite !bind_assoc_run.
  erewrite (bind_run (emit _)) by reflexivity. rewrite !bind_assoc_run. erewrite (bind_run (gets _)) by reflexivity.
  set (e := EvRequest i (wk_buf w) (wk_items w) an).
  match goal with |- bind _ _ ?q = _ => replace q with (after i w [e] s) by
    (unfold after; rewrite list_insert_id by done; done) end.
  assert (Hlt : (i < length (bi_workers s))%nat) by (apply lookup_lt_is_Some; eauto).
  assert (Hw1 : bi_workers (after i w [e] s) !! i = Some w) by by apply after_lookup.
  assert (Hreset : forall evs, reset_batch i (after i w evs s) = Some (after i (emptied w) evs s, tt)).
  { intros evs. unfold reset_batch. rewrite (upd_after i _ w) by by apply after_lookup. rewrite after_after, app_nil_r. done. }
  assert (Hfin : forall evs b, bind (reset_batch i ;;; ret b) (fun err => whenM err (emit EvOnError)) (after i w evs s)
    = Some (after i (emptied w) (evs ++ if b then [EvOnError] else []) s, tt)).
  { intros evs b. rewrite bind_assoc_run. erewrite bind_run by apply Hreset. unfold bind, ret. destruct b; cbn.
    - rewrite (emit_after i (emptied w)) by (try apply after_lookup; done). rewrite after_after. done.
    - rewrite app_nil_r. done. }
  replace (cf_errorMask (bi_config (after i w [e] s))) with mask by done.
  unfold flush_events, reported, flush_err. fold e. destruct an as [cause|r].
  - rewrite decide_True by (right; done). cbn [Bulk]. rewrite bind_assoc_run.
    erewrite bind_run by (apply handleBulkError_run; [exact Hw1 | done]). rewrite after_after, Hfin. done.
  - cbn [Bulk]. assert (Hne : forall c, PartialFailures r mask <> Some (BulkFailed c)).
    { intros c. unfold PartialFailures, BulkItemFailures. destruct (Has _ _); [done|]. destruct (negb _); [done|].
      case_decide; done. }
    assert (Hloop : forall b : bool,
      bind (forM (imap pair (bp_Items r)) (dispatch i) ;;; reset_batch i ;;; ret b) (fun err => whenM err (emit EvOnError)) (after i w [e] s)
      = if decide (length (bp_Items r) <= length (wk_items w))%nat
        then Some (after i (emptied w) ((e :: settle_all i (wk_items w) (Response r)) ++ if b then [EvOnError] else []) s, tt) else None).
    { intros b. rewrite bind_assoc_run. unfold bind at 1.
      change (imap pair (bp_Items r)) with (imap (fun k b => ((0 + k)%nat, b)) (bp_Items r)).
      rewrite (dispatch_loop_run i w) by (done || lia). rewrite Nat.add_0_l, drop_0.
      destruct (decide _) as [Hf|Hf]; [|done]. rewrite after_after, Hfin. done. }
    transitivity (if decide (length (bp_Items r) <= length (wk_items w))%nat
      then Some (after i (emptied w) ((e :: settle_all i (wk_items w) (Response r)) ++ if bool_decide (is_Some (PartialFailures r mask)) then [EvOnError] else []) s, tt) else None).
    + destruct (PartialFailures r mask) as [[c|f n]|] eqn:Ep; [by destruct (Hne c) | |]; cbn [snd]; exact (Hloop _).
    + cbn [fits]. destruct (decide (length (bp_Items r) <= length (wk_items w))%nat) as [Hf|Hf].
      * rewrite decide_True by auto. done.
      * rewrite decide_False by tauto. done.
Qed.

(** What an item adds to the buffer, whether it was written, whether OnError
    heard of it. *)
Definition write_item (it : item) : gostring * bool * bool :=
  match encode_meta json_any it with
  | None => ([], false, false)
  | Some m =>
    match it_Body it with
    | None => (m, true, false)
    | Some b => if bd_read_error b || bd_seek_error b then (m ++ bd_data b, false, true) else (m ++ bd_data b ++ [10], true, false)
    end
  end.

Definition writable (it : item) : bool := (write_item it).1.2.
Definition render (it : item) : gostring := (write_item it).1.1.

(** The worker with a written item, before the size test. *)
Definition took (w : wstate) (it : item) : wstate :=
  with_items (wk_items w ++ [it]) (with_buf (wk_buf w ++ render it) (with_hand None w)).

Definition processed (cfg : BulkIndexerConfig) (i : nat) (w : wstate) (it : item) (an : BulkAnswer) : wstate * list ev :=
  if writable it then
    if cf_FlushBytes cfg <=? Z.of_nat (length (wk_buf w ++ render it)) then flushed (cf_errorMask cfg) i (took w it) an
    else (took w it, [])
  else (with_buf (wk_buf w ++ render it) (with_hand None w),
        (if (write_item it).2 then [EvOnError] else []) ++ [EvFailure i it no_info]).

(** The same on a worker already changed. *)
Section After.
Variables (i : nat) (w : wstate) (evs : list ev) (s : state).
Hypothesis Hlt : (i < length (bi_workers s))%nat.

Lemma upd_again f : upd_worker i f (after i w evs s) = Some (after i (f w) evs s, tt).
Proof. rewrite (upd_after i f w) by by apply after_lookup. rewrite after_after, app_nil_r. done. Qed.

Lemma on_error_again : emit EvOnError (after i w evs s) = Some (after i w (evs ++ [EvOnError]) s, tt).
Proof. rewrite (emit_after i w) by (try apply after_lookup; done). rewrite after_after. done. Qed.

Lemma rejected_again it : item_rejected i it (after i w evs s) = Some (after i w (evs ++ [EvFailure i it no_info]) s, tt).
Proof. unfold item_rejected, bind, emit, count, modify, after. cbn. rewrite foldl_app, app_assoc. done. Qed.

Lemma writeMeta_again it :
  writeMeta json_any i it (after i w evs s)
  = Some (after i (match encode_meta json_any it with Some m => with_buf (wk_buf w ++ m) w | None => w end) evs s,
          match encode_meta json_any it with Some _ => true | None => false end).
Proof. unfold writeMeta. destruct (encode_meta json_any it); [|done]. erewrite bind_run by apply upd_again. done. Qed.

Lemma writeBody_again it :
  writeBody i it (after i w evs s)
  = Some (after i (match it_Body it with
                   | None => w
                   | Some b => if bd_read_error b || bd_seek_error b then with_buf (wk_buf w ++ bd_data b) w
                               else with_buf ((wk_buf w ++ bd_data b) ++ [10]) w end)
            (match it_Body it with Some b => if bd_read_error b || bd_seek_error b then evs ++ [EvOnError] else evs | None => evs end) s,
          match it_Body it with Some b => negb (bd_read_error b || bd_seek_error b) | None => true end).
Proof.
  unfold writeBody. destruct (it_Body it) as [b|]; [|done]. erewrite bind_run by apply upd_again.
  assert (Ho : forall w' l, emit EvOnError (after i w' l s) = Some (after i w' (l ++ [EvOnError]) s, tt)).
  { intros w' l. rewrite (emit_after i w') by (try apply after_lookup; done). rewrite after_after. done. }
  destruct (bd_read_error b); cbn [orb]; [erewrite bind_run by apply Ho; done|].
  destruct (bd_seek_error b); [erewrite bind_run by apply Ho; done|].
  erewrite bind_run; [reflexivity|]. rewrite (upd_after i _ (with_buf (wk_buf w ++ bd_data b) w)) by by apply after_lookup.
  rewrite after_after, app_nil_r. done.
Qed.
End After.

Lemma process_eq i w (s : state) it an :
  bi_workers s !! i = Some w -> wk_hand w = Some it ->
  process json_any i an s =
  if writable it && (cf_FlushBytes (bi_config s) <=? Z.of_nat (length (wk_buf w ++ render it)))
  then flush_reported i an (after i (took w it) [] s)
  else Some (after i (processed (bi_config s) i w it an).1 (processed (bi_config s) i w it an).2 s, tt).
Proof.
  intros Hw Hh. assert (Hlt : (i < length (bi_workers s))%nat) by (apply lookup_lt_is_Some; eauto).
  unfold process. erewrite (bind_run (get_worker i)) by (unfold get_worker, getsM; rewrite Hw; done). rewrite Hh.
  erewrite bind_run by (apply (upd_after i _ w); done). erewrite bind_run by by apply writeMeta_again.
  assert (Hrest : forall bytes, writable it = true -> render it = bytes ->
    bind (upd_worker i (fun w => with_items (wk_items w ++ [it]) w))
      (fun _ => let* w := get_worker i in let* limit := gets (fun s => cf_FlushBytes (bi_config s)) in
        whenM (limit <=? Z.of_nat (length (wk_buf w))) (flush_reported i an))
      (after i (with_buf (wk_buf w ++ bytes) (with_hand None w)) [] s) =
    if writable it && (cf_FlushBytes (bi_config s) <=? Z.of_nat (length (wk_buf w ++ render it)))
    then flush_reported i an (after i (took w it) [] s)
    else Some (after i (processed (bi_config s) i w it an).1 (processed (bi_config s) i w it an).2 s, tt)).
  { intros bytes Hok <-. erewrite bind_run by by apply upd_again.
    match goal with |- context [after i ?x [] s] => change x with (took w it) end.
    erewrite (bind_run (get_worker i)) by (unfold get_worker, getsM; rewrite after_lookup by done; done).
    erewrite (bind_run (gets _)) by reflexivity. unfold processed. rewrite Hok. cbn [after bi_config andb].
    replace (wk_buf (took w it)) with (wk_buf w ++ render it) by done. destruct (_ <=? _); done. }
  unfold processed, writable, render, write_item in Hrest |- *.
  destruct (encode_meta json_any it) as [m|] eqn:Em; cbn [negb].
  - erewrite bind_run by by apply writeBody_again.
    destruct (it_Body it) as [b|] eqn:Eb; cbn [negb fst snd] in *; [|apply (Hrest m); done].
    destruct (bd_read_error b || bd_seek_error b) eqn:Er; cbn [negb fst snd andb] in *.
    + rewrite rejected_again by done. do 3 f_equal. unfold with_buf; cbn. rewrite app_assoc. done.
    + rewrite <- (Hrest (m ++ bd_data b ++ [10])) by done. do 2 f_equal. unfold with_buf; cbn. rewrite !app_assoc. done.
  - rewrite rejected_again by done. cbn. do 2 f_equal. unfold with_buf, with_hand; cbn. rewrite app_nil_r. done.
Qed.

Lemma process_run i w (s : state) it an s' :
  bi_workers s !! i = Some w -> wk_hand w = Some it -> stats_ok (bi_stats s) ->
  process json_any i an s = Some (s', tt) ->
  s' = after i (processed (bi_config s) i w it an).1 (processed (bi_config s) i w it an).2 s /\
  (writable it = true -> cf_FlushBytes (bi_config s) <= Z.of_nat (length (wk_buf w ++ render it)) ->
   wk_buf w ++ render it = [] \/ fits (S (length (wk_items w))) an).
Proof.
  intros Hw Hh Ht. assert (Hlt : (i < length (bi_workers s))%nat) by (apply lookup_lt_is_Some; eauto).
  rewrite (process_eq i w s it an Hw Hh).
  destruct (writable it && _) eqn:E; cycle 1.
  { intros [= <-]. split; [done|]. intros Hok Hl. rewrite Hok in E. apply Z.leb_gt in E. lia. }
  apply andb_true_iff in E as [Hok Hl]. rewrite (flush_reported_run i (took w it)) by (try apply after_lookup; done).
  replace (wk_buf (took w it)) with (wk_buf w ++ render it) by done.
  replace (length (wk_items (took w it))) with (S (length (wk_items w))) by (cbn; rewrite length_app; cbn; lia).
  destruct (decide _) as [Hd|]; [|done]. intros [= <-]. unfold processed. rewrite Hok, Hl, after_after. done.
Qed.

(** * Steps, by what they do to a worker *)

(** The log of a step that touches no worker. *)
Definition silent (e : ev) : Prop := match e with EvRejected _ | EvOnError => True | _ => False end.

Definition same_core (s s' : state) (evs : list ev) : Prop :=
  bi_config s' = bi_config s /\ bi_workers s' = bi_workers s /\
  bi_stats s' = foldl tally1 (bi_stats s) evs /\ bi_log s' = bi_log s ++ evs.

Definition lag (w : wstate) : list item := option_list (wk_hand w) ++ wk_ch w.
Definition held (w : wstate) : list item := wk_items w ++ lag w.

Inductive change (s : state) (i : nat) (w : wstate) : list ev -> wstate -> Prop :=
  | ch_added it : (i, it) ∈ bi_adding s -> bi_closed s = false -> change s i w [EvAdded i it] (with_ch (wk_ch w ++ [it]) w)
  | ch_received it ch : wk_exited w = false -> wk_hand w = None -> wk_ch w = it :: ch -> change s i w [] (with_hand (Some it) (with_ch ch w))
  | ch_processed it an : wk_exited w = false -> wk_hand w = Some it ->
      (writable it = true -> cf_FlushBytes (bi_config s) <= Z.of_nat (length (wk_buf w ++ render it)) ->
        fits (S (length (wk_items w))) an) ->
      change s i w (processed (bi_config s) i w it an).2 (processed (bi_config s) i w it an).1
  | ch_flushed an : (wk_buf w <> [] -> fits (length (wk_items w)) an) ->
      change s i w (flushed (cf_errorMask (bi_config s)) i w an).2 (flushed (cf_errorMask (bi_config s)) i w an).1
  | ch_exited : wk_exited w = false -> wk_hand w = None -> bi_cancelled s || (bi_closed s && bool_decide (wk_ch w = [])) = true ->
      change s i w [] (with_exited w).

(** The rest of the state may change with it: [core] is what [after] sets. *)
Definition core_after (i : nat) (w : wstate) (evs : list ev) (s s' : state) : Prop :=
  bi_config s' = bi_config s /\ bi_workers s' = <[i := w]> (bi_workers s) /\
  bi_stats s' = foldl tally1 (bi_stats s) evs /\ bi_log s' = bi_log s ++ evs.

Lemma render_nonempty it : writable it = true -> render it <> [].
Proof.
  unfold writable, render, write_item, encode_meta. destruct (it_WaitForActiveShards it) as [v|]; cbn.
  - destruct (json_any v); cbn; [|done]. destruct (it_Body it) as [b|]; cbn; [destruct (_ || _)|]; done.
  - destruct (it_Body it) as [b|]; cbn; [destruct (_ || _)|]; done.
Qed.

Lemma flush_change i w s an s' :
  bi_workers s !! i = Some w -> stats_ok (bi_stats s) -> flush_reported i an s = Some (s', tt) ->
  exists w' evs, change s i w evs w' /\ s' = after i w' evs s.
Proof.
  intros Hw Ht. rewrite (flush_reported_run i w) by done. cbn zeta.
  destruct (decide _) as [Hd|]; [|done]. intros [= <-]. do 2 eexists. split; [|reflexivity].
  apply ch_flushed. tauto.
Qed.

Lemma step_cases s o s' :
  stats_ok (bi_stats s) -> enabled s o = true -> exec json_any o s = Some (s', tt) ->
  (exists evs, same_core s s' evs /\ Forall silent evs) \/
  (exists i w evs w', bi_workers s !! i = Some w /\ change s i w evs w' /\ core_after i w' evs s s').
Proof.
  intros Ht He Hx. destruct o; cbn [exec] in Hx.
  - left. exists []. unfold add_begin, queueIndex, bind, gets, modify, getsM, ret in Hx.
    repeat (case_match; try done). all: simplify_eq/=; rewrite ?app_nil_r; repeat split; by rewrite ?app_nil_r.
  - left. unfold add_cancelled, bind, getsM in Hx. destruct (bi_adding s !! k) as [[i it]|]; [|done]. simplify_eq/=.
    injection Hx as <-.
    exists [EvRejected it; EvOnError]. repeat split; cbn; rewrite <- ?app_assoc; repeat constructor.
  - right. unfold add_send, bind, getsM, gets in Hx. cbn in He. destruct (bi_adding s !! k) as [[i it]|] eqn:Ek; [|done].
    destruct (bi_closed s) eqn:Ec; [done|]. cbn in He. destruct (bi_workers s !! i) as [w|] eqn:Ew; [|done].
    injection Hx as <-. exists i, w, [EvAdded i it], (with_ch (wk_ch w ++ [it]) w). split; [done|]. split.
    + apply ch_added; [by apply list_elem_of_lookup_2 in Ek | done].
    + repeat split; cbn. pose proof (upd_after i (fun w => with_ch (wk_ch w ++ [it]) w) w s Ew) as Hu.
      injection Hu as Hu. exact Hu.
  - right. cbn in He. unfold worker_ready in He. destruct (bi_workers s !! i) as [w|] eqn:Ew; [|done].
    unfold receive, bind at 1, get_worker, getsM in Hx. rewrite Ew in Hx. destruct (wk_hand w) eqn:Eh; [by rewrite andb_false_r in He|].
    destruct (wk_ch w) as [|it ch] eqn:Ech; [by rewrite andb_false_r in He|].
    apply andb_true_iff in He as [Hq%negb_true_iff _].
    rewrite (upd_after i _ w) in Hx by done. injection Hx as <-. do 4 eexists. split; [done|]. split; [by apply ch_received|].
    repeat split.
  - right. cbn in He. unfold worker_ready in He. destruct (bi_workers s !! i) as [w|] eqn:Ew; [|done].
    destruct (wk_hand w) as [it|] eqn:Eh; [|by rewrite andb_false_r in He].
    apply andb_true_iff in He as [Hq%negb_true_iff _].
    destruct (process_run i w s it an s' Ew Eh Ht Hx) as [-> Hf]. do 4 eexists. split; [done|]. split.
    + apply ch_processed; [done | done |]. intros Hok Hl. destruct (Hf Hok Hl) as [E|]; [|done].
      destruct (render_nonempty it Hok). destruct (wk_buf w); done.
    + repeat split.
  - right. cbn in He. unfold worker_ready in He. destruct (bi_workers s !! i) as [w|] eqn:Ew; [|done].
    destruct (wk_hand w) eqn:Eh; [by rewrite andb_false_r in He|]. apply andb_true_iff in He as [Hq%negb_true_iff He].
    rewrite (upd_after i _ w) in Hx by done. injection Hx as <-. do 4 eexists. split; [done|]. split; [|repeat split].
    apply ch_exited; [done | done |]. destruct (bi_cancelled s); [done|]. destruct (bi_closed s); [|done]. destruct (wk_ch w); done.
  - left. exists []. injection Hx as <-. repeat split; cbn; rewrite ?app_nil_r; done.
  - left. exists []. injection Hx as <-. repeat split; cbn; rewrite ?app_nil_r; done.
  - unfold bind, gets in Hx. cbn in He. destruct (bi_flusher s) as [|i|]; [done| |done]. unfold tick_flush, bind at 1, gets in Hx.
    destruct (decide (i < length (bi_workers s))%nat) as [Hi|].
    + right. destruct (lookup_lt_is_Some_2 _ _ Hi) as [w Ew]. unfold bind in Hx.
      destruct (flush_reported i an s) as [[s1 []]|] eqn:Ef; [|done]. injection Hx as <-.
      destruct (flush_change i w s an s1 Ew Ht Ef) as (w' & evs & Hc & ->). exists i, w, evs, w'. repeat split; done.
    + left. exists []. injection Hx as <-. repeat split; cbn; rewrite ?app_nil_r; done.
  - left. exists []. injection Hx as <-. repeat split; cbn; rewrite ?app_nil_r; done.
  - left. exists []. unfold close_begin, bind, gets in Hx. destruct (bi_closed s); [done|]. injection Hx as <-.
    repeat split; cbn; rewrite ?app_nil_r; done.
  - left. destruct ctxDone; injection Hx as <-; [exists [EvOnError] | exists []];
      repeat split; cbn; rewrite ?app_nil_r; repeat constructor.
  - left. exists []. injection Hx as <-. repeat split; cbn; rewrite ?app_nil_r; done.
  - unfold bind, gets in Hx. cbn in He. destruct (bi_close s) as [| | |i|]; try done. unfold close_flush, bind at 1, gets in Hx.
    destruct (decide (i < length (bi_workers s))%nat) as [Hi|].
    + right. destruct (lookup_lt_is_Some_2 _ _ Hi) as [w Ew]. unfold bind in Hx.
      destruct (flush_reported i an s) as [[s1 []]|] eqn:Ef; [|done]. injection Hx as <-.
      destruct (flush_change i w s an s1 Ew Ht Ef) as (w' & evs & Hc & ->). exists i, w, evs, w'. repeat split; done.
    + left. exists []. injection Hx as <-. repeat split; cbn; rewrite ?app_nil_r; done.
Qed.

End Spec.
