(* ===== verification/BulkRuns.v ===== *)
(** * Theorems about the bulk indexer

    The log of any run: where every item is, in which order the items of a
    document are sent, what a request contains, that nothing panics and that
    Close comes to an end. *)

From Stdlib Require Import Ascii String.
From stdpp Require Import base list strings relations.
From Stdlib Require Import ZArith Lia.
From S2P Require Import Prelude.
From S2P Require Import GoStrings.
From S2P Require Import ShardHash.
From S2P Require Import ErrMask.
From S2P Require Import BulkIndexer.
From S2P Require Import BulkSpec.
Open Scope Z_scope.

Section Runs.
Context {any : Type} (json_any : any -> option gostring).
Notation item := (@BulkIndexerItem any).
Notation state := (@bulkIndexer any).
Notation wstate := (@worker any).
Notation ev := (@event any).
Notation writable := (writable json_any).
Notation render := (render json_any).
Notation took := (took json_any).
Notation processed := (processed json_any).
Notation change := (change json_any).
Notation write_item := (write_item json_any).

(** * Reading the log *)

Definition f_added (i : nat) (e : ev) : list item :=
  match e with EvAdded j it => if decide (j = i) then [it] else [] | _ => [] end.
Definition f_sent (i : nat) (e : ev) : list item :=
  match e with EvRequest j _ items _ => if decide (j = i) then items else [] | _ => [] end.
Definition f_settled (i : nat) (e : ev) : list item :=
  match e with EvSuccess j it _ _ | EvFailure j it _ => if decide (j = i) then [it] else [] | _ => [] end.
Definition f_lost (i : nat) (e : ev) : list item :=
  match e with
  | EvRequest j _ items (Response r) => if decide (j = i) then drop (length (bp_Items r)) items else []
  | _ => [] end.

(** What Add put on the queue of a worker, what its requests contained, which
    items had their callback, and which ones the response had no result for. *)
Definition added (i : nat) (log : list ev) : list item := log ≫= f_added i.
Definition sent (i : nat) (log : list ev) : list item := log ≫= f_sent i.
Definition settled (i : nat) (log : list ev) : list item := log ≫= f_settled i.
Definition lost (i : nat) (log : list ev) : list item := log ≫= f_lost i.

Definition ev_worker (e : ev) : option nat :=
  match e with EvAdded i _ | EvRequest i _ _ _ | EvSuccess i _ _ _ | EvFailure i _ _ => Some i | _ => None end.

Definition about (i : nat) (e : ev) : Prop := ev_worker e = None \/ ev_worker e = Some i.

Lemma bind_nil {A B} (f : A -> list B) l : Forall (fun e => f e = []) l -> l ≫= f = [].
Proof. induction 1 as [|e l He _ IH]; [done|]. cbn. rewrite He. exact IH. Qed.

Lemma foreign i j evs :
  Forall (about i) evs -> j <> i ->
  evs ≫= f_added j = [] /\ evs ≫= f_sent j = [] /\ evs ≫= f_settled j = [] /\ evs ≫= f_lost j = [].
Proof.
  intros He Hj. repeat split; apply bind_nil; (eapply Forall_impl; [exact He|]); intros e [E|E]; destruct e as [| |? ? ? []| | |]; cbn in *;
    simplify_eq; try done; by rewrite decide_False by congruence.
Qed.

Lemma silent_foreign j evs :
  Forall silent evs -> evs ≫= f_added j = [] /\ evs ≫= f_sent j = [] /\ evs ≫= f_settled j = [] /\ evs ≫= f_lost j = [].
Proof. intros He. repeat split; apply bind_nil; (eapply Forall_impl; [exact He|]); by intros []. Qed.

Lemma settle_all_about i items an : Forall (about i) (settle_all i items an).
Proof.
  destruct an as [c|r]; cbn.
  - apply Forall_fmap, Forall_true. by right.
  - apply Forall_forall. intros e He. apply list_elem_of_lookup in He as [k Hk].
    apply lookup_zip_with_Some in Hk as (it & b & -> & _). unfold settle, about. cbn. destruct (item_failed _); by right.
Qed.

Lemma reported_about i mask an : Forall (about i) (reported mask an).
Proof. unfold reported. destruct (flush_err _ _); repeat constructor. Qed.

Lemma settle_all_reads i items an :
  settle_all i items an ≫= f_added i = [] /\ settle_all i items an ≫= f_sent i = [] /\
  settle_all i items an ≫= f_lost i = [] /\
  (settle_all i items an ≫= f_settled i) ++ (match an with Response r => drop (length (bp_Items r)) items | _ => [] end) = items.
Proof.
  assert (Hs : forall bs, (zip_with (settle i) items bs ≫= f_settled i) ++ drop (length bs) items = items).
  { intros bs. revert bs. induction items as [|it items IH]; intros [|b bs]; try done. cbn.
    rewrite <- app_assoc, (IH bs). unfold settle. destruct (item_failed _); cbn; rewrite decide_True by done; done. }
  destruct an as [c|r]; cbn.
  - rewrite app_nil_r. repeat split; try (apply bind_nil, Forall_fmap, Forall_true; done).
    clear Hs. induction items as [|it items IH]; [done|]. cbn. rewrite decide_True by done. cbn. f_equal. exact IH.
  - repeat split; try apply Hs; apply bind_nil, Forall_forall; intros e He; apply list_elem_of_lookup in He as [k Hk];
      apply lookup_zip_with_Some in Hk as (it & b & -> & _); unfold settle; destruct (item_failed _); done.
Qed.

Lemma reported_reads j mask an : reported mask an ≫= f_added j = [] /\ reported mask an ≫= f_sent j = [] /\
  reported mask an ≫= f_settled j = [] /\ reported mask an ≫= f_lost j = [].
Proof. unfold reported. destruct (flush_err _ _); done. Qed.

(** * The invariant *)

Record worker_inv (i : nat) (w : wstate) (log : list ev) : Prop := {
  wi_order : filter writable (added i log) = sent i log ++ wk_items w ++ filter writable (lag w);
  wi_all : added i log ≡ₚ settled i log ++ lost i log ++ held w;
  wi_items : Forall writable (wk_items w);
  wi_buf : wk_items w <> [] -> wk_buf w <> [] }.

Lemma reads_app i log evs :
  added i (log ++ evs) = added i log ++ (evs ≫= f_added i) /\ sent i (log ++ evs) = sent i log ++ (evs ≫= f_sent i) /\
  settled i (log ++ evs) = settled i log ++ (evs ≫= f_settled i) /\ lost i (log ++ evs) = lost i log ++ (evs ≫= f_lost i).
Proof. unfold added, sent, settled, lost. rewrite !bind_app. done. Qed.

(** Reading the log of a step whose events are known. *)
Ltac reads_tac log evs :=
  let Ha := fresh in let Hs := fresh in let Hd := fresh in let Hl := fresh in
  match goal with |- worker_inv ?i _ _ => destruct (reads_app i log evs) as (Ha & Hs & Hd & Hl) end;
  split; rewrite ?Ha, ?Hs, ?Hd, ?Hl; clear Ha Hs Hd Hl.

Lemma worker_inv_foreign i w log evs :
  worker_inv i w log ->
  evs ≫= f_added i = [] /\ evs ≫= f_sent i = [] /\ evs ≫= f_settled i = [] /\ evs ≫= f_lost i = [] ->
  worker_inv i w (log ++ evs).
Proof.
  intros [H1 H2 H3 H4] (E1 & E2 & E3 & E4). reads_tac log evs; rewrite ?E1, ?E2, ?E3, ?E4, ?app_nil_r; done.
Qed.

Lemma flushed_about mask i w an : Forall (about i) (flushed mask i w an).2.
Proof.
  unfold flushed. destruct (decide _); cbn; [constructor|]. constructor; [by right|].
  apply Forall_app. split; [apply settle_all_about | apply reported_about].
Qed.

(** Only the step of Add adds. *)
Definition adds (e : ev) : bool := match e with EvAdded _ _ => true | _ => false end.

Lemma flushed_adds mask i w an : Forall (fun e => adds e = false) (flushed mask i w an).2.
Proof.
  unfold flushed. destruct (decide _); cbn; [constructor|]. constructor; [done|]. apply Forall_app. split.
  - destruct an as [c|r]; cbn; [by apply Forall_fmap, Forall_true|]. apply Forall_forall. intros e He.
    apply list_elem_of_lookup in He as [k Hk]. apply lookup_zip_with_Some in Hk as (it & b & -> & _).
    unfold settle. destruct (item_failed _); done.
  - unfold reported. destruct (flush_err _ _); repeat constructor.
Qed.

Lemma flush_reads mask i w an :
  let evs := flush_events mask i w an ++ reported mask an in
  evs ≫= f_added i = [] /\ evs ≫= f_sent i = wk_items w /\ (evs ≫= f_settled i) ++ (evs ≫= f_lost i) = wk_items w.
Proof.
  intros evs. destruct (settle_all_reads i (wk_items w) an) as (A1 & A2 & A3 & A4).
  destruct (reported_reads i mask an) as (R1 & R2 & R3 & R4).
  assert (E : forall f : ev -> list item, evs ≫= f = f (EvRequest i (wk_buf w) (wk_items w) an)
      ++ (settle_all i (wk_items w) an ≫= f) ++ (reported mask an ≫= f)).
  { intros f. unfold evs. rewrite bind_app. unfold flush_events. cbn. rewrite app_assoc. done. }
  rewrite !E, A1, A2, A3, R1, R2, R3, R4, !app_nil_r. cbn. split_and!; [done | by rewrite decide_True |].
  destruct an; cbn; [exact A4 | rewrite decide_True by done; exact A4].
Qed.

(** A flush moves the items of the batch from the worker to the log. *)
Lemma flushed_inv mask i w log an : worker_inv i w log ->
  worker_inv i (flushed mask i w an).1 (log ++ (flushed mask i w an).2).
Proof.
  intros Hi. unfold flushed. destruct (decide (wk_buf w = [])) as [Hb|Hb]; cbn [fst snd].
  { rewrite app_nil_r. done. }
  destruct Hi as [H1 H2 H3 H4]. destruct (flush_reads mask i w an) as (E1 & E2 & E3).
  reads_tac log (flush_events mask i w an ++ reported mask an); rewrite ?E1, ?E2, ?app_nil_r.
  - rewrite H1, <- app_assoc. done.
  - rewrite H2. unfold held. cbn. rewrite <- E3 at 1. solve_Permutation.
  - constructor.
  - done.
Qed.

Lemma change_about s i w evs w' : change s i w evs w' -> Forall (about i) evs.
Proof.
  destruct 1 as [it| |it an _ Hh _|an _|]; try (repeat constructor; by right); [|apply flushed_about].
  unfold processed. destruct (writable it); cbn.
  - destruct (_ <=? _); cbn; [apply flushed_about | constructor].
  - apply Forall_app. split; [destruct (_.2); repeat constructor | repeat constructor; by right].
Qed.

(** Every step keeps the invariant of the worker it runs. *)
Lemma change_inv s i w log evs w' : change s i w evs w' -> worker_inv i w log -> worker_inv i w' (log ++ evs).
Proof.
  intros Hc Hi. pose proof Hi as [H1 H2 H3 H4]. destruct Hc as [it Ha Ho|it ch _ Hh Hch|it an _ Hh Hf|an Hf|_ Hh He].
  - reads_tac log [EvAdded i it : ev]; cbn; rewrite ?decide_True, ?app_nil_r by done; try done.
    + rewrite filter_app, H1. unfold lag. cbn [wk_hand wk_ch with_ch]. rewrite !filter_app, !app_assoc. done.
    + rewrite H2. unfold held, lag; cbn. solve_Permutation.
  - rewrite app_nil_r. unfold held, lag in *. split; unfold held, lag; cbn; rewrite ?Hh, ?Hch in *; done.
  - unfold processed. destruct (writable it) eqn:Ew.
    + assert (Ht : worker_inv i (took w it) log).
      { assert (El : lag w = it :: wk_ch w) by (unfold lag; rewrite Hh; done).
        assert (El' : lag (took w it) = wk_ch w) by done.
        split; unfold held; rewrite ?El'.
        - rewrite H1, El, filter_cons_True by (by rewrite Ew). cbn [took wk_items with_items]. rewrite <- !app_assoc. done.
        - rewrite H2. unfold held. rewrite El. cbn [took wk_items with_items]. solve_Permutation.
        - apply Forall_app. split; [done | constructor; [by rewrite Ew | constructor]].
        - intros _ E. apply app_eq_nil in E as [_ E]. by apply (render_nonempty json_any it). }
      destruct (_ <=? _); cbn [fst snd]; [by apply flushed_inv | by rewrite app_nil_r].
    + cbn [fst snd]. set (o := if (write_item it).2 then [EvOnError] else []).
      assert (Ho : forall f : ev -> list item, f EvOnError = [] -> o ≫= f = []) by (intros f Ef; unfold o; destruct (_.2); cbn; rewrite ?Ef; done).
      reads_tac log (o ++ [EvFailure i it no_info]); rewrite ?bind_app, ?Ho by done; cbn; rewrite ?decide_True, ?app_nil_r by done.
      * assert (El : lag w = it :: wk_ch w) by (unfold lag; rewrite Hh; done).
        rewrite H1, El, filter_cons_False by (rewrite Ew; intros []). done.
      * rewrite H2. unfold held, lag. rewrite Hh; cbn. solve_Permutation.
      * done.
      * intros Hn E. apply app_eq_nil in E as [E _]. by apply H4.
  - by apply flushed_inv.
  - rewrite app_nil_r. split; done.
Qed.

(** * Runs *)

Section Run.
Context (cfg : BulkIndexerConfig) (n : nat).

(** The queue of a document. *)
Definition doc_queue (d : gostring) : option nat := h ← Hash d; Some (Z.to_nat (h mod Z.of_nat n)).

Definition routed (i : nat) (it : item) : Prop := it_DocumentID it <> [] -> doc_queue (it_DocumentID it) = Some i.

Record inv (s : state) : Prop := {
  in_cfg : bi_config s = cfg;
  in_len : length (bi_workers s) = n;
  in_stats : bi_stats s = foldl tally1 zero_stats (bi_log s);
  in_workers : forall i w, bi_workers s !! i = Some w -> worker_inv i w (bi_log s);
  in_range : Forall (fun e => forall i, ev_worker e = Some i -> (i < n)%nat) (bi_log s);
  in_adding : Forall (fun a => routed a.1 a.2) (bi_adding s);
  in_routed : Forall (fun e => match e with EvAdded i it => routed i it | _ => True end) (bi_log s) }.

Lemma tally_ok log : stats_ok (foldl (@tally1 any) zero_stats log).
Proof.
  apply (foldl_invariant _ stats_ok); [done|]. unfold stats_ok. intros u e _ Hu.
  destruct e; cbn; try done; try apply u64_u64. unfold count_op. repeat case_decide; done.
Qed.

Lemma inv_stats_ok s : inv s -> stats_ok (bi_stats s).
Proof. intros Hi. rewrite (in_stats s Hi). apply tally_ok. Qed.

Lemma bulk_inv_init numCPU cfg0 :
  cfg = with_defaults numCPU cfg0 -> n = cf_NumWorkers cfg -> inv (NewBulkIndexer numCPU cfg0).
Proof.
  intros Hc Hn. split; cbn -[with_defaults]; rewrite <- ?Hc; try done.
  - rewrite Hn, Hc. apply length_replicate.
  - intros i w [-> _]%lookup_replicate. split; done.
Qed.

(** The waiting Adds change in OAdd, OAddCancelled and OAddSend only. *)
Lemma adding_step s o s' :
  length (bi_workers s) = n -> exec json_any o s = Some (s', tt) ->
  Forall (fun a => routed a.1 a.2) (bi_adding s) -> stats_ok (bi_stats s) -> enabled s o = true ->
  Forall (fun a => routed a.1 a.2) (bi_adding s').
Proof.
  intros Hn Hx Ha Ht He. assert (Hd : forall k, Forall (fun a => routed a.1 a.2) (delete k (bi_adding s))).
  { intros k. apply Forall_forall. intros a Hin. rewrite Forall_forall in Ha. apply Ha.
    apply list_elem_of_lookup in Hin as [j Hj]. apply list_elem_of_lookup.
    destruct (decide (j < k)%nat); [rewrite list_lookup_delete_lt in Hj by lia | rewrite list_lookup_delete_ge in Hj by lia]; eauto. }
  assert (Hf : forall i an q, flush_reported i an s = Some (q, tt) -> bi_adding q = bi_adding s).
  { intros i an q E. destruct (bi_workers s !! i) as [w|] eqn:Ew.
    - destruct (flush_change json_any i w s an q Ew Ht E) as (w' & evs & _ & ->). done.
    - unfold flush_reported, flush, bind, get_worker, getsM in E. rewrite Ew in E. done. }
  destruct o; cbn [exec] in Hx; cbn in He.
  - unfold add_begin, queueIndex, bind, gets, modify, getsM, ret in Hx. rewrite Hn in Hx.
    destruct (Z.eqb_spec (Z.of_nat n) 0) as [|Hz]; [done|]. destruct (decide (it_DocumentID item = [])) as [Ed|Ed].
    + cbn in Hx. rewrite Hn in Hx. destruct (_ || _); [done|]. injection Hx as <-. cbn. apply Forall_app. split; [done|].
      constructor; [|constructor]. intros E. done.
    + destruct (Hash (it_DocumentID item)) as [h|] eqn:Eh; [|done]. cbn in Hx. rewrite Hn in Hx.
      destruct (_ || _) eqn:Er; [done|]. injection Hx as <-. cbn. apply Forall_app. split; [done|].
      constructor; [|constructor]. intros _. unfold doc_queue. cbn. rewrite Eh. cbn. do 2 f_equal.
      pose proof (Z.rem_bound_abs h (Z.of_nat n) Hz). pose proof (Z.quot_rem' h (Z.of_nat n)).
      destruct (Z.ltb_spec (Z.rem h (Z.of_nat n)) 0).
      * symmetry. apply (Z.mod_unique _ _ (h ÷ Z.of_nat n - 1)); [left; lia | lia].
      * symmetry. apply (Z.mod_unique _ _ (h ÷ Z.of_nat n)); [left; lia | lia].
  - unfold add_cancelled, bind, getsM in Hx. destruct (bi_adding s !! k); [|done]. injection Hx as <-. apply Hd.
  - unfold add_send, bind, getsM, gets in Hx. destruct (bi_adding s !! k); [|done]. destruct (bi_closed s); [done|].
    injection Hx as <-. apply Hd.
  - unfold receive, bind, get_worker, getsM in Hx. destruct (bi_workers s !! i); [|done]. destruct (wk_ch _); injection Hx as <-; done.
  - unfold worker_ready in He. destruct (bi_workers s !! i) as [w|] eqn:Ew; [|done].
    destruct (wk_hand w) as [it|] eqn:Eh; [|by rewrite andb_false_r in He].
    destruct (process_run json_any i w s it an s' Ew Eh Ht Hx) as [-> _]. done.
  - injection Hx as <-. done.
  - injection Hx as <-. done.
  - injection Hx as <-. done.
  - unfold bind, gets, tick_flush, bind, gets in Hx. destruct (bi_flusher s) as [|i|]; try done.
    destruct (decide _); [|injection Hx as <-; done]. destruct (flush_reported i an s) as [[q []]|] eqn:Ef; [|done].
    injection Hx as <-. cbn. rewrite (Hf _ _ _ Ef). done.
  - injection Hx as <-. done.
  - unfold close_begin, bind, gets in Hx. destruct (bi_closed s); [done|]. injection Hx as <-. done.
  - destruct ctxDone; injection Hx as <-; done.
  - injection Hx as <-. done.
  - unfold bind, gets, close_flush, bind, gets in Hx. destruct (bi_close s) as [| | |i|]; try done.
    destruct (decide _); [|injection Hx as <-; done]. destruct (flush_reported i an s) as [[q []]|] eqn:Ef; [|done].
    injection Hx as <-. cbn. rewrite (Hf _ _ _ Ef). done.
Qed.

Lemma bulk_inv_step s s' : inv s -> bulk_step json_any s s' -> inv s'.
Proof.
  intros Hi (o & He & Hx). pose proof (inv_stats_ok s Hi) as Ht. pose proof Hi as [H1 H2 H3 H4 H5 H6 H7].
  pose proof (adding_step s o s' H2 Hx H6 Ht He) as Ha.
  destruct (step_cases json_any s o s' Ht He Hx)
    as [(evs & (E1 & E2 & E3 & E4) & Hs) | (i & w & evs & w' & Hw & Hc & (E1 & E2 & E3 & E4))].
  - split; rewrite ?E1, ?E2, ?E3, ?E4, ?foldl_app; try done; try congruence.
    + intros i w Hw. apply worker_inv_foreign; [by apply H4 | by apply silent_foreign].
    + apply Forall_app. split; [done|]. eapply Forall_impl; [exact Hs|]. intros [] H; try done.
    + apply Forall_app. split; [done|]. eapply Forall_impl; [exact Hs|]. intros [] H; try done.
  - assert (Hin : (i < n)%nat) by (rewrite <- H2; apply lookup_lt_is_Some; eauto).
    split; rewrite ?E1, ?E2, ?E3, ?E4, ?foldl_app, ?length_insert; try done; try congruence.
    + intros j q Hq. destruct (decide (j = i)) as [->|Hj].
      * rewrite list_lookup_insert_eq in Hq by lia. injection Hq as <-. eapply change_inv; [exact Hc | by apply H4].
      * rewrite list_lookup_insert_ne in Hq by done. apply worker_inv_foreign; [by apply H4|].
        eapply foreign; [by eapply change_about | done].
    + apply Forall_app. split; [done|]. eapply Forall_impl; [by eapply change_about|]. intros e [E|E] j Ej; congruence.
    + apply Forall_app. split; [done|]. destruct Hc as [it Hin' _| |it an _ _ _|an _|]; try (repeat constructor; done).
      * constructor; [|constructor]. rewrite Forall_forall in H6. by apply (H6 (i, it)).
      * eapply Forall_impl with (P := fun e => adds e = false); [|by intros []].
        unfold BulkSpec.processed. destruct (BulkSpec.writable json_any it); cbn.
        -- destruct (_ <=? _); cbn; [apply flushed_adds | constructor].
        -- apply Forall_app. split; [destruct (write_item it).2|]; repeat constructor.
      * eapply Forall_impl; [apply flushed_adds | by intros []].
Qed.
End Run.

Lemma bulk_reachable_inv numCPU cfg0 s :
  reachable json_any numCPU cfg0 s -> inv (with_defaults numCPU cfg0) (cf_NumWorkers (with_defaults numCPU cfg0)) s.
Proof.
  intros Hr. unfold reachable in Hr. remember (NewBulkIndexer numCPU cfg0) as s0 eqn:E.
  assert (H0 : inv (with_defaults numCPU cfg0) (cf_NumWorkers (with_defaults numCPU cfg0)) s0).
  { subst s0. by apply bulk_inv_init. }
  clear E. induction Hr as [|s0 s1 s2 Hs _ IH]; [done|]. apply IH. by eapply bulk_inv_step.
Qed.

(** ** Accounting *)

Definition count_events (p : ev -> bool) (log : list ev) : Z := u64 (Z.of_nat (length (filter p log))).

Definition is_added (e : ev) : bool := match e with EvAdded _ _ => true | _ => false end.
Definition is_rejected (e : ev) : bool := match e with EvRejected _ => true | _ => false end.
Definition is_success (e : ev) : bool := match e with EvSuccess _ _ _ _ => true | _ => false end.
Definition is_failure (e : ev) : bool := match e with EvFailure _ _ _ => true | _ => false end.
Definition is_op (op : string) (e : ev) : bool := match e with EvSuccess _ _ op' _ => bool_decide (op' = op) | _ => false end.
Definition is_request (e : ev) : bool := match e with EvRequest _ _ _ _ => true | _ => false end.

(** The statistics as counts of events, in uint64. *)
Definition tally (log : list ev) : bulkIndexerStats :=
  MkStats (count_events is_added log) (count_events is_rejected log) (count_events is_success log) (count_events is_failure log)
    (count_events (is_op "index") log) (count_events (is_op "create") log) (count_events (is_op "update") log)
    (count_events (is_op "delete") log) (count_events is_request log).

Lemma count_snoc p log e : count_events p (log ++ [e]) = if p e then u64 (count_events p log + 1) else count_events p log.
Proof.
  unfold count_events. rewrite filter_app, length_app.
  destruct (p e) eqn:E.
  - rewrite filter_cons_True by (by rewrite E). rewrite filter_nil. unfold u64. rewrite Zplus_mod_idemp_l. f_equal. cbn. lia.
  - rewrite filter_cons_False by (rewrite E; intros []). rewrite filter_nil. cbn. rewrite Nat.add_0_r. done.
Qed.

Lemma tally_log log : foldl (@tally1 any) zero_stats log = tally log.
Proof.
  induction log as [|e log IH] using rev_ind; [done|]. rewrite foldl_app. cbn [foldl]. rewrite IH.
  unfold tally. rewrite !count_snoc. destruct e; cbn; try done. unfold count_op.
  repeat case_decide; subst; cbn; try done; repeat (rewrite bool_decide_eq_false_2 by congruence); done.
Qed.

(** C21: Nothing is lost: in every reachable state the statistics count the events, and each item put on a worker's queue either had its callback exactly once, or is still held by the worker, or was in a request whose response had too few results. *)
Theorem bulk_accounts numCPU cfg0 s :
  reachable json_any numCPU cfg0 s ->
  bi_stats s = tally (bi_log s) /\
  forall i w, bi_workers s !! i = Some w -> added i (bi_log s) ≡ₚ settled i (bi_log s) ++ lost i (bi_log s) ++ held w.
Proof.
  intros Hi%bulk_reachable_inv. split; [by rewrite (in_stats _ _ _ Hi), tally_log|].
  intros i w Hw. apply (wi_all i w), (in_workers _ _ _ Hi i w Hw).
Qed.

(** ** The order of a document *)

Definition all_added (log : list ev) : list item := log ≫= fun e => match e with EvAdded _ it => [it] | _ => [] end.
Definition all_sent (log : list ev) : list item := log ≫= fun e => match e with EvRequest _ _ items _ => items | _ => [] end.

Definition of_doc (d : gostring) (it : item) : bool := bool_decide (it_DocumentID it = d).

Lemma filter_bind_ext {A} (P : A -> bool) (f g : ev -> list A) log :
  (forall e, e ∈ log -> filter P (f e) = filter P (g e)) -> filter P (log ≫= f) = filter P (log ≫= g).
Proof.
  induction log as [|e log IH]; intros H; [done|]. cbn. rewrite !filter_app, (H e) by left. f_equal.
  apply IH. intros x Hx. apply H. by right.
Qed.

Lemma filter_none {A} (P : A -> bool) (l : list A) : (forall x, x ∈ l -> P x = false) -> filter P l = [].
Proof.
  induction l as [|x l IH]; intros H; [done|]. rewrite filter_cons_False by (rewrite H by left; intros []).
  apply IH. intros y Hy. apply H. by right.
Qed.

Lemma filter_swap {A} (P Q : A -> bool) (l : list A) : filter P (filter Q l) = filter Q (filter P l).
Proof.
  induction l as [|x l IH]; [done|]. destruct (P x) eqn:EP, (Q x) eqn:EQ;
    repeat first [rewrite filter_cons_True by (rewrite ?EP, ?EQ; done)
                 | rewrite filter_cons_False by (rewrite ?EP, ?EQ; intros [])]; congruence.
Qed.

(** The actions on one document are sent in the order Add enqueued them: the document's items over all requests, followed by those its worker still holds, are the enqueued ones that could be written. *)
Theorem bulk_document_order numCPU cfg0 s d i w :
  reachable json_any numCPU cfg0 s -> d <> [] ->
  doc_queue (cf_NumWorkers (with_defaults numCPU cfg0)) d = Some i -> bi_workers s !! i = Some w ->
  filter (of_doc d) (filter writable (all_added (bi_log s))) =
  filter (of_doc d) (all_sent (bi_log s)) ++ filter (of_doc d) (wk_items w ++ filter writable (lag w)).
Proof.
  intros Hi%bulk_reachable_inv Hd Hq Hw. set (log := bi_log s).
  pose proof (in_workers _ _ _ Hi i w Hw) as Hwi. pose proof (in_routed _ _ _ Hi) as Hr. rewrite Forall_forall in Hr.
  pose proof (in_range _ _ _ Hi) as Hrange. rewrite Forall_forall in Hrange.
  assert (Hdoc : forall j it, it ∈ added j log -> it_DocumentID it = d -> j = i).
  { intros j it Hin Ed. unfold added in Hin. apply list_elem_of_bind in Hin as (e & Hin & He).
    destruct e as [k it'| | | | |]; try (by apply not_elem_of_nil in Hin). cbn in Hin. case_decide; [|by apply not_elem_of_nil in Hin].
    apply list_elem_of_singleton in Hin. subst.
    assert (Hx : routed (cf_NumWorkers (with_defaults numCPU cfg0)) j it') by exact (Hr _ He).
    specialize (Hx Hd). congruence. }
  assert (Hadd : filter (of_doc d) (all_added log) = filter (of_doc d) (added i log)).
  { apply filter_bind_ext. intros e He. destruct e as [k it| | | | |]; try done.
    unfold f_added. destruct (decide (k = i)) as [->|Hk]; [done|].
    apply filter_none. intros x Hx%list_elem_of_singleton. subst x. apply bool_decide_eq_false_2. intros Ed.
    assert (k = i); [|done]. apply (Hdoc k it); [|done]. apply list_elem_of_bind. exists (EvAdded k it). split; [|done].
    cbn. rewrite decide_True by done. by left. }
  assert (Hsent : filter (of_doc d) (all_sent log) = filter (of_doc d) (sent i log)).
  { apply filter_bind_ext. intros e He. destruct e as [| |k body items an| | |]; try done.
    unfold f_sent. destruct (decide (k = i)) as [->|Hk]; [done|].
    apply filter_none. intros x Hx. apply bool_decide_eq_false_2. intros Ed. assert (k = i); [|done].
    apply (Hdoc k x); [|done]. destruct (lookup_lt_is_Some_2 (bi_workers s) k) as [wk Hwk].
    { rewrite (in_len _ _ _ Hi). by apply (Hrange _ He). }
    pose proof (wi_order _ _ _ (in_workers _ _ _ Hi k wk Hwk)) as Ho.
    cut (x ∈ filter (fun it => writable it) (added k log)); [by intros [_ ?]%list_elem_of_filter|]. unfold log. rewrite Ho. apply elem_of_app. left.
    apply list_elem_of_bind. exists (EvRequest k body items an). cbn. rewrite decide_True by done. done. }
  rewrite filter_swap, Hadd, filter_swap. unfold log at 1. rewrite (wi_order _ _ _ Hwi), filter_app, Hsent. done.
Qed.
(** ** Executable runs *)

Fixpoint run_ops (ops : list (@bulk_op any)) (s : state) : option state :=
  match ops with
  | [] => Some s
  | o :: ops' => if enabled s o then match exec json_any o s with Some (s', _) => run_ops ops' s' | None => None end else None
  end.

Lemma run_ops_rtc ops s s' : run_ops ops s = Some s' -> rtc (bulk_step json_any) s s'.
Proof.
  revert s. induction ops as [|o ops IH]; cbn; intros s H; [by injection H as ->|].
  destruct (enabled s o) eqn:He; [|done]. destruct (exec json_any o s) as [[s1 []]|] eqn:Hx; [|done].
  eapply rtc_l; [by exists o | by apply IH].
Qed.

Lemma run_ops_reachable ops numCPU cfg s :
  run_ops ops (NewBulkIndexer numCPU cfg) = Some s -> reachable json_any numCPU cfg s.
Proof. apply run_ops_rtc. Qed.
End Runs.

(** ** Examples *)

(** An item of index "i" with a one-line document. *)
Definition sample_item (action id body : string) : @BulkIndexerItem unit :=
  MkItem (lit "i") (lit action) (lit id) None None None None None None None None
    (if decide (body = "") then None else Some (MkBody (lit body) false false)) None.
Definition no_any (_ : unit) : option gostring := None.
Definition one_worker : BulkIndexerConfig := MkBulkConfig 1 60 0.
Definition ok_item : BulkItem := MkBulkItem None None (Some (MkRespItem 201 None)) None.
Definition bad_item : BulkItem := MkBulkItem None None (Some (MkRespItem 400 (Some (MkErrorCause "t" "r")))) None.
Definition take_item (an : BulkAnswer) : list (@bulk_op unit) := [OAddSend 0; OReceive 0; OProcess 0 an].
(** Two index actions on one document; the second one fills the batch. *)
Definition sample_ops : list (@bulk_op unit) :=
  [OAdd (sample_item "index" "a" "{}")] ++ take_item (NoResponse "") ++
  [OAdd (sample_item "index" "a" "{1}")] ++ take_item (Response (MkBulkResp true [ok_item; bad_item])) ++
  [OAdd (sample_item "delete" "b" "")] ++ take_item (NoResponse "").

Lemma bulk_accounts_witness :
  exists s, run_ops no_any sample_ops (NewBulkIndexer 4 one_worker) = Some s /\
    bi_stats s = MkStats 3 0 1 1 1 0 0 0 1 /\
    (forall i w, bi_workers s !! i = Some w -> added i (bi_log s) ≡ₚ settled i (bi_log s) ++ lost i (bi_log s) ++ held w).
Proof.
  destruct (run_ops no_any sample_ops (NewBulkIndexer 4 one_worker)) as [s|] eqn:E; [|vm_compute in E; discriminate].
  exists s. split; [done|].
  destruct (bulk_accounts no_any 4 one_worker s (run_ops_reachable no_any _ _ _ _ E)) as [Hs Hw].
  split; [|exact Hw]. rewrite Hs. vm_compute in E. injection E as <-. reflexivity.
Defined.

Lemma bulk_document_order_witness :
  exists s w, run_ops no_any sample_ops (NewBulkIndexer 4 one_worker) = Some s /\ bi_workers s !! 0%nat = Some w /\
    filter (of_doc (lit "a")) (all_sent (bi_log s)) = [sample_item "index" "a" "{}"; sample_item "index" "a" "{1}"] /\
    filter (of_doc (lit "a")) (filter (writable no_any) (all_added (bi_log s))) =
    filter (of_doc (lit "a")) (all_sent (bi_log s)) ++ filter (of_doc (lit "a")) (wk_items w ++ filter (writable no_any) (lag w)).
Proof.
  destruct (run_ops no_any sample_ops (NewBulkIndexer 4 one_worker)) as [s|] eqn:E; [|vm_compute in E; discriminate].
  assert (Hw : exists w, bi_workers s !! 0%nat = Some w) by (vm_compute in E; injection E as <-; eexists; reflexivity).
  destruct Hw as [w Hw]. exists s, w. split_and!; [done | done | vm_compute in E; injection E as <-; reflexivity |].
  apply (bulk_document_order no_any 4 one_worker s (lit "a") 0 w (run_ops_reachable no_any _ _ _ _ E)); [done | reflexivity | done].
Defined.
