(* ===== verification/BulkWire.v ===== *)
(** * What the bulk indexer puts on the wire

    The bytes of the action lines contain no line break, so a request, read
    line by line, is its items: an action line each, followed by the document
    where there is one. *)

From Stdlib Require Import Ascii String.
From stdpp Require Import base list strings pretty relations.
From Stdlib Require Import ZArith Lia.
From S2P Require Import Prelude.
From S2P Require Import GoStrings.
From S2P Require Import ShardHash.
From S2P Require Import BulkIndexer.
From S2P Require Import BulkSpec.
From S2P Require Import BulkRuns.
Open Scope Z_scope.

(** * Line breaks *)

Definition no_nl (s : gostring) : Prop := Forall (fun b => b <> 10) s.

Fixpoint lines (s : gostring) : list gostring :=
  match s with
  | [] => []
  | b :: s' => if b =? 10 then [] :: lines s' else match lines s' with [] => [[b]] | l :: ls => (b :: l) :: ls end
  end.

Lemma lines_line l s : no_nl l -> lines (l ++ [10] ++ s) = l :: lines s.
Proof.
  induction 1 as [|b l Hb _ IH]; [done|]. cbn [lines app]. rewrite (proj2 (Z.eqb_neq b 10)) by done.
  cbn [app] in IH. rewrite IH. done.
Qed.

Lemma no_nl_app a b : no_nl a -> no_nl b -> no_nl (a ++ b).
Proof. intros. by apply Forall_app. Qed.

Lemma no_nl_join ls : Forall no_nl ls -> no_nl (mjoin ls).
Proof. induction 1; [constructor | by apply no_nl_app]. Qed.

(** ASCII text without a line break. *)
Lemma no_nl_lit s : forallb (fun a => negb (Ascii.eqb a "010")) (list_ascii_of_string s) = true -> no_nl (lit s).
Proof.
  unfold no_nl, lit. induction (list_ascii_of_string s) as [|a l IH]; cbn; [constructor|].
  intros [Ha Hl]%andb_true_iff. constructor; [|by apply IH]. intros E.
  assert (Hn : nat_of_ascii a = 10%nat) by lia.
  apply (f_equal ascii_of_nat) in Hn. rewrite ascii_nat_embedding in Hn. subst a. done.
Qed.

Lemma decode_rune_bytes b rest r w :
  128 <= b -> decode_rune b rest = (r, w) -> (r = RuneError /\ w = 1%nat) \/ no_nl (take w (b :: rest)).
Proof.
  intros Hb. unfold decode_rune, is_cont. intros E.
  assert (Hl : forall c lo hi, 128 <= lo -> negb ((lo <=? c) && (c <=? hi)) = false -> c <> 10).
  { intros c lo hi Hlo Hn. apply negb_false_iff, andb_true_iff in Hn as [Hn _]. apply Z.leb_le in Hn. lia. }
  assert (Hsr : forall p : Z * Z, p = (if b =? 0xE0 then (0xA0, 0xBF) else if b =? 0xED then (0x80, 0x9F)
    else if b =? 0xF0 then (0x90, 0xBF) else if b =? 0xF4 then (0x80, 0x8F) else (0x80, 0xBF)) -> 128 <= p.1).
  { intros p ->. repeat case_match; cbn; lia. }
  revert E. set (p := if b =? 0xE0 then _ else _). specialize (Hsr p eq_refl). clearbody p.
  destruct (Z.ltb_spec b 128); [lia|].
  destruct rest as [|b1 rest]; [intros [= <- <-]; by left|].
  destruct (negb _) eqn:E1; [intros [= <- <-]; by left|]. apply Hl in E1; [|done].
  destruct (_ && _) eqn:R1; [intros [= <- <-]; right; repeat constructor; lia|].
  destruct rest as [|b2 rest]; [intros [= <- <-]; by left|].
  destruct (negb ((128 <=? b2) && _)) eqn:E2; [intros [= <- <-]; by left|]. apply Hl in E2; [|done].
  destruct ((0xE0 <=? b) && _) eqn:R2; [intros [= <- <-]; right; repeat constructor; lia|].
  destruct rest as [|b3 rest]; [intros [= <- <-]; by left|].
  destruct (negb ((128 <=? b3) && _)) eqn:E3; [intros [= <- <-]; by left|]. apply Hl in E3; [|done].
  destruct ((0xF0 <=? b) && _) eqn:R3; intros [= <- <-]; [right; repeat constructor; lia | by left].
Qed.

Lemma hex_no_nl d : 0 <= d -> hex d <> 10.
Proof. intros. unfold hex. destruct (d <? 10) eqn:E; lia. Qed.

Lemma json_byte_no_nl b : 0 <= b < 128 -> no_nl (json_byte b).
Proof.
  intros Hb. unfold json_byte.
  destruct ((b =? 34) || (b =? 92)) eqn:E1; [repeat constructor; destruct (Z.eqb_spec b 34); destruct (Z.eqb_spec b 92); cbn in E1; lia || done|].
  destruct (Z.eqb_spec b 8); [by apply no_nl_lit|]. destruct (Z.eqb_spec b 12); [by apply no_nl_lit|].
  destruct (Z.eqb_spec b 10); [by apply no_nl_lit|]. destruct (Z.eqb_spec b 13); [by apply no_nl_lit|].
  destruct (Z.eqb_spec b 9); [by apply no_nl_lit|]. destruct (Z.ltb_spec b 32); [|repeat constructor; done].
  apply no_nl_app; [by apply no_nl_lit|]. repeat constructor; apply hex_no_nl.
  - apply Z.shiftr_nonneg. lia.
  - apply Z.land_nonneg. lia.
Qed.

Lemma json_runes_no_nl fuel s : Forall is_byte s -> no_nl (json_runes fuel s).
Proof.
  revert s. induction fuel as [|f IH]; intros s Hs; [constructor|]. destruct s as [|b rest]; [constructor|]. cbn [json_runes].
  inversion Hs as [|? ? Hb Hr]; subst. unfold is_byte in Hb. destruct (Z.ltb_spec b 128).
  - apply no_nl_app; [apply json_byte_no_nl; lia | by apply IH].
  - destruct (decode_rune b rest) as [r w] eqn:E. apply no_nl_app; [|apply IH, Forall_drop; done].
    destruct (decode_rune_bytes b rest r w) as [[-> ->]|Hn]; [lia | done | by apply no_nl_lit|].
    destruct (_ && _); [by apply no_nl_lit|]. destruct (_ || _); [|done]. apply no_nl_app; [by apply no_nl_lit|].
    repeat constructor. apply hex_no_nl, Z.land_nonneg. lia.
Qed.

Lemma json_string_no_nl s : Forall is_byte s -> no_nl (json_string s).
Proof. intros. repeat apply no_nl_app; [repeat constructor; done | by apply json_runes_no_nl | repeat constructor; done]. Qed.

#[local] Opaque json_string.

Definition plain_char (a : ascii) : bool := negb (Ascii.eqb a "010").

Lemma pretty_N_plain x s :
  forallb plain_char (list_ascii_of_string s) = true -> forallb plain_char (list_ascii_of_string (pretty_N_go x s)) = true.
Proof.
  revert s. induction (N.lt_wf_0 x) as [x _ IH]; intros s Hs.
  destruct (decide (x = 0%N)) as [->|Hx]; [by rewrite pretty_N_go_0|].
  rewrite pretty_N_go_step by lia. apply IH; [apply N.div_lt; lia|]. cbn. rewrite Hs, andb_true_r.
  unfold pretty_N_char. repeat case_match; done.
Qed.

Lemma json_int_no_nl z : no_nl (json_int z).
Proof.
  apply no_nl_lit. change (forallb plain_char (list_ascii_of_string (pretty z)) = true).
  assert (HN : forall x : N, forallb plain_char (list_ascii_of_string (pretty x)) = true).
  { intros x. unfold pretty, pretty_N. destruct (decide _); [done | by apply pretty_N_plain]. }
  destruct z as [|p|p]; [done | apply (HN (Npos p)) | apply (HN (Npos p))].
Qed.

(** * Requests *)

Section Wire.
Context {any : Type} (json_any : any -> option gostring).
Notation item := (@BulkIndexerItem any).
Notation state := (@bulkIndexer any).
Notation wstate := (@worker any).
Notation ev := (@event any).
Notation writable := (writable json_any).
Notation render := (render json_any).

(** The strings of an item are bytes; its body can be read and rewound, and is
    one line. *)
Definition item_bytes (it : item) : Prop :=
  Forall (Forall is_byte) ([it_Index it; it_Action it; it_DocumentID it] ++
    omap id [it_Routing it; it_VersionType it; it_Refresh it]).
Definition body_ok (it : item) : Prop :=
  match it_Body it with
  | None => True
  | Some b => bd_read_error b || bd_seek_error b = false /\ no_nl (bd_data b)
  end.

(** The lines of an item: its action line, without the line break, and its
    document. *)
Definition item_lines (it : item) : list gostring :=
  match encode_meta json_any it with
  | None => []
  | Some m => removelast m :: match it_Body it with Some b => [bd_data b] | None => [] end
  end.

Lemma json_object_no_nl ms :
  Forall (fun m : string * option gostring => forall v, m.2 = Some v -> no_nl v) ms ->
  no_nl (json_object ms).
Proof.
  intros Hms. unfold json_object.
  assert (Hp : Forall (fun m => no_nl (json_member m))
    (omap (fun m : string * option gostring => match m.2 with Some v => Some (m.1, v) | None => None end) ms)).
  { induction Hms as [|[k [v|]] ms Hv _ IH]; cbn in *; [constructor | constructor; [|done] | done].
    unfold json_member. cbn. repeat apply no_nl_app; [apply json_string_no_nl, lit_bytes | constructor; [done | by apply Hv]]. }
  repeat apply no_nl_app; [repeat constructor; done | | repeat constructor; done]. apply no_nl_join.
  destruct Hp as [|m l Hm Hl]; [constructor|]. constructor; [done|]. apply Forall_fmap. eapply Forall_impl; [exact Hl|].
  intros x Hx. cbn. constructor; done.
Qed.

#[local] Opaque json_object.

Section Lines.
(** encoding/json writes values without line breaks. *)
Hypothesis json_any_line : forall v j, json_any v = Some j -> no_nl j.

Lemma encode_meta_line it m :
  item_bytes it -> encode_meta json_any it = Some m -> m = removelast m ++ [10] /\ no_nl (removelast m).
Proof.
  intros Hb. unfold encode_meta. intros E.
  assert (exists shards, (forall v, shards = Some v -> no_nl v) /\
    m = ([123] ++ json_string (it_Action it) ++ [58] ++ json_object (metadata it shards) ++ [125]) ++ [10]) as (sh & Hsh & ->).
  { destruct (it_WaitForActiveShards it) as [v|]; cbn in E.
    - destruct (json_any v) as [j|] eqn:Ej; [|done]. injection E as <-. exists (Some j). split; [intros ? [= <-]; eauto|].
      rewrite <- !app_assoc. done.
    - injection E as <-. exists None. split; [done|]. rewrite <- !app_assoc. done. }
  rewrite removelast_last. split; [done|]. unfold item_bytes in Hb. apply Forall_app in Hb as [Hb Ho].
  inversion Hb as [|? ? Hi Hb1]; subst. inversion Hb1 as [|? ? Ha Hb2]; subst. inversion Hb2 as [|? ? Hd _]; subst.
  assert (Hopt : forall o : option gostring, o ∈ [it_Routing it; it_VersionType it; it_Refresh it] ->
    forall v, json_string <$> o = Some v -> no_nl v).
  { intros o Hin v Hv. destruct o as [x|]; [|done]. injection Hv as <-. apply json_string_no_nl.
    rewrite Forall_forall in Ho. apply Ho. apply list_elem_of_omap. exists (Some x). done. }
  repeat apply no_nl_app; try (repeat constructor; done); [by apply json_string_no_nl|].
  apply json_object_no_nl. unfold metadata.
  repeat match goal with |- Forall _ (_ :: _) => constructor end; cbn [fst snd]; try apply Forall_nil_2.
  all: repeat (case_decide; [done|]).
  all: try (destruct (bool_decide _); [done|]).
  all: try (apply Hopt; set_solver).
  all: try exact Hsh.
  all: intros v Hv; repeat match type of Hv with
    | Some _ = Some _ => injection Hv as <- | (_ <$> ?o) = Some _ => destruct o; [|done]; injection Hv as <- end;
    try (by apply json_string_no_nl); try apply json_int_no_nl.
  destruct b; by apply no_nl_lit.
Qed.

(** Read line by line, what an item renders to is its lines. *)
Lemma render_lines it rest :
  item_bytes it -> body_ok it -> writable it = true -> lines (render it ++ rest) = item_lines it ++ lines rest.
Proof.
  intros Hb Hok. unfold BulkSpec.writable, BulkSpec.render, write_item, item_lines, body_ok in *.
  destruct (encode_meta json_any it) as [m|] eqn:Em; [|done]. destruct (encode_meta_line it m Hb Em) as [Hm Hn].
  intros _. destruct (it_Body it) as [b|]; cbn [fst snd].
  - destruct Hok as [-> Hd]. cbn [fst snd]. rewrite Hm at 1. rewrite <- !app_assoc, lines_line, lines_line by done. done.
  - rewrite Hm at 1. rewrite <- app_assoc, lines_line by done. done.
Qed.

Lemma renders_lines items :
  Forall (fun it => item_bytes it /\ body_ok it /\ writable it = true) items ->
  lines (mjoin (map render items)) = items ≫= item_lines.
Proof.
  induction 1 as [|it items (Hb & Hok & Hw) _ IH]; [done|]. 
  change (lines (render it ++ mjoin (map render items)) = item_lines it ++ (items ≫= item_lines)).
  rewrite render_lines, IH by done. done.
Qed.

End Lines.

(** ** The batches of a run *)

Section Batches.
Context (cfg : BulkIndexerConfig) (n : nat).
Hypothesis limit_pos : 0 < cf_FlushBytes cfg.

Definition batch_bytes (items : list item) : gostring := mjoin (map render items).
Definition small (bytes : gostring) : Prop := Z.of_nat (length bytes) < cf_FlushBytes cfg.

Definition worker_wire (w : wstate) : Prop := wk_buf w = batch_bytes (wk_items w) /\ small (wk_buf w).

Definition request_wire (e : ev) : Prop :=
  match e with
  | EvRequest _ body items _ =>
    body = batch_bytes items /\ exists prev last, items = prev ++ [last] /\ small (batch_bytes prev)
  | _ => True
  end.

Definition readable (log : list ev) : Prop := forall i it, EvAdded i it ∈ log -> body_ok it.

Definition wire_inv (s : state) : Prop :=
  (forall i w, bi_workers s !! i = Some w -> worker_wire w) /\ Forall request_wire (bi_log s).

Lemma batch_snoc items it : batch_bytes (items ++ [it]) = batch_bytes items ++ render it.
Proof. unfold batch_bytes. rewrite map_app, join_app. cbn. rewrite app_nil_r. done. Qed.

Lemma small_nil : small [].
Proof. unfold small. cbn. lia. Qed.

Lemma rejected_renders it : body_ok it -> writable it = false -> render it = [].
Proof.
  unfold body_ok, BulkSpec.writable, BulkSpec.render, write_item. destruct (encode_meta json_any it); [|done].
  destruct (it_Body it) as [b|]; [|done]. intros [-> _]. done.
Qed.

Lemma quiet_wire mask i w an : Forall request_wire (settle_all i (wk_items w) an ++ reported mask an).
Proof.
  apply Forall_app. split.
  - destruct an as [c|r]; cbn; [by apply Forall_fmap, Forall_true|]. apply Forall_forall. intros e He.
    apply list_elem_of_lookup in He as [k Hk]. apply lookup_zip_with_Some in Hk as (it & b & -> & _).
    unfold settle. destruct (item_failed _); done.
  - unfold reported. destruct (flush_err _ _); repeat constructor.
Qed.

Lemma flushed_wire mask i w an prev last :
  wk_buf w = batch_bytes (wk_items w) -> wk_items w = prev ++ [last] -> small (batch_bytes prev) ->
  (wk_buf w = [] -> small (wk_buf w)) ->
  worker_wire (flushed mask i w an).1 /\ Forall request_wire (flushed mask i w an).2.
Proof.
  intros Hb Hi Hs Hn. unfold flushed. destruct (decide (wk_buf w = [])) as [E|E]; cbn.
  - split; [split; [done | by apply Hn] | constructor].
  - split; [split; [done | apply small_nil]|]. constructor; [by split; [|exists prev, last] | apply quiet_wire].
Qed.

Lemma change_wire s i w evs w' :
  bi_config s = cfg -> change json_any s i w evs w' -> worker_wire w ->
  (forall it, wk_hand w = Some it -> body_ok it) ->
  worker_wire w' /\ Forall request_wire evs.
Proof.
  intros Hc Hch [Hb Hs] Hok. destruct Hch as [it Ha Ho|it ch _ Hh Hch|it an _ Hh Hf|an Hf|_ Hh He];
    try (split; [split; done | repeat constructor]).
  - unfold BulkSpec.processed. rewrite Hc. destruct (BulkSpec.writable json_any it) eqn:Ew.
    + assert (Hb' : wk_buf (took json_any w it) = batch_bytes (wk_items (took json_any w it))).
      { change (wk_buf w ++ render it = batch_bytes (wk_items w ++ [it])). rewrite batch_snoc, Hb. done. }
      destruct (Z.leb_spec (cf_FlushBytes cfg) (Z.of_nat (length (wk_buf w ++ render it)))).
      * eapply flushed_wire; [done | reflexivity | by rewrite <- Hb |]. intros ->. apply small_nil.
      * split; [split; [done|]; cbn; unfold small; lia | constructor].
    + cbn. rewrite (rejected_renders it), app_nil_r by auto. split; [split; done|].
      apply Forall_app. split; [destruct (write_item json_any it).2 | ]; repeat constructor.
  - destruct (decide (wk_items w = [])) as [E|E].
    + unfold flushed. rewrite decide_True by (rewrite Hb, E; done). split; [split; done | constructor].
    + destruct (exists_last E) as (prev & last & El). eapply flushed_wire; [done | exact El | |done].
      unfold small in *. rewrite Hb, El, batch_snoc, length_app in Hs. lia.
Qed.

Lemma wire_step s s' :
  inv json_any cfg n s -> wire_inv s -> readable (bi_log s) -> bulk_step json_any s s' -> wire_inv s'.
Proof.
  intros Hi [Hw Hr] Hread (o & He & Hx).
  destruct (step_cases json_any s o s' (inv_stats_ok _ _ _ s Hi) He Hx)
    as [(evs & (E1 & E2 & E3 & E4) & Hs) | (i & w & evs & w' & Hwi & Hc & (E1 & E2 & E3 & E4))]; unfold wire_inv; rewrite E2, E4.
  - split; [done|]. apply Forall_app. split; [done|]. eapply Forall_impl; [exact Hs | by intros []].
  - destruct (change_wire s i w evs w' (in_cfg _ _ _ _ Hi) Hc (Hw i w Hwi)) as [Hw' Hevs].
    { intros it Hh. pose proof (wi_all _ _ _ _ (in_workers _ _ _ _ Hi i w Hwi)) as Hp.
      assert (Hin : it ∈ added i (bi_log s)).
      { rewrite Hp. unfold held, lag. rewrite Hh. set_solver. }
      apply list_elem_of_bind in Hin as (e & Hin & Hel). destruct e as [k it'| | | | |]; try (by apply not_elem_of_nil in Hin).
      cbn in Hin. case_decide; [|by apply not_elem_of_nil in Hin]. apply list_elem_of_singleton in Hin. subst. eauto. }
    split; [|by apply Forall_app]. intros j q Hq. destruct (decide (j = i)) as [->|Hj].
    + rewrite list_lookup_insert_eq in Hq by (apply lookup_lt_is_Some; eauto). by injection Hq as <-.
    + rewrite list_lookup_insert_ne in Hq by done. eauto.
Qed.
End Batches.

Lemma step_log s s' cfg n : inv json_any cfg n s -> bulk_step json_any s s' -> exists evs, bi_log s' = bi_log s ++ evs.
Proof.
  intros Hi (o & He & Hx). destruct (step_cases json_any s o s' (inv_stats_ok _ _ _ s Hi) He Hx)
    as [(evs & (_ & _ & _ & E) & _) | (i & w & evs & w' & _ & _ & (_ & _ & _ & E))]; by exists evs.
Qed.

Lemma reachable_wire numCPU cfg0 s :
  reachable json_any numCPU cfg0 s -> 0 < cf_FlushBytes (with_defaults numCPU cfg0) -> readable (bi_log s) ->
  wire_inv (with_defaults numCPU cfg0) s.
Proof.
  intros Hr Hl. unfold reachable in Hr.
  assert (H : inv json_any (with_defaults numCPU cfg0) (cf_NumWorkers (with_defaults numCPU cfg0)) s /\
              (readable (bi_log s) -> wire_inv (with_defaults numCPU cfg0) s)); [|tauto].
  revert s Hr. apply (rtc_ind_r (R := bulk_step json_any) (fun s => inv json_any (with_defaults numCPU cfg0)
    (cf_NumWorkers (with_defaults numCPU cfg0)) s /\ (readable (bi_log s) -> wire_inv (with_defaults numCPU cfg0) s))).
  - split; [by apply bulk_inv_init|]. intros _. split; cbn.
    + intros i w [-> _]%lookup_replicate. split; [done | by apply small_nil].
    + constructor.
  - intros s1 s2 Hr Hs [Hi Hw]. split; [by eapply bulk_inv_step|]. intros Hread. destruct (step_log _ _ _ _ Hi Hs) as [evs E].
    assert (Hread1 : readable (bi_log s1)).
    { intros i it Hin. apply (Hread i it). rewrite E. apply elem_of_app. by left. }
    eapply wire_step; eauto.
Qed.
End Wire.

(** C22: Suppose the text fields of every added item are bytes, its body can be
    read and rewound and holds no newline, and FlushBytes is positive. Then a
    bulk request, read line by line, is the action line of each of its items
    followed by its document; it has at least one item, and without the last
    one it would have been below the flush threshold.
    [BulkClose.broken_body_stays] shows a request that is something else for
    want of a readable body. *)
Theorem bulk_requests {any : Type} (json_any : any -> option gostring) numCPU cfg0 s i body items an :
  (forall v j, json_any v = Some j -> no_nl j) ->
  reachable json_any numCPU cfg0 s -> 0 < cf_FlushBytes (with_defaults numCPU cfg0) ->
  (forall i it, EvAdded i it ∈ bi_log s -> item_bytes it /\ body_ok it) ->
  EvRequest i body items an ∈ bi_log s ->
  lines body = items ≫= item_lines json_any /\
  exists prev last, items = prev ++ [last] /\
    Z.of_nat (length body) < cf_FlushBytes (with_defaults numCPU cfg0) + Z.of_nat (length (render json_any last)).
Proof.
  intros Hany Hr Hl Hok Hin.
  destruct (reachable_wire json_any numCPU cfg0 s Hr Hl) as [_ Hreq]; [intros j it Hj; by apply (Hok j it)|].
  pose proof (bulk_reachable_inv json_any numCPU cfg0 s Hr) as Hi.
  rewrite Forall_forall in Hreq. destruct (Hreq _ Hin) as (-> & prev & last & -> & Hs). split.
  - apply renders_lines; [done|]. apply Forall_forall. intros it Hit.
    pose proof (in_range _ _ _ _ Hi) as Hrange. rewrite Forall_forall in Hrange.
    destruct (lookup_lt_is_Some_2 (bi_workers s) i) as [w Hw]; [rewrite (in_len _ _ _ _ Hi); by apply (Hrange _ Hin)|].
    assert (Hsent : it ∈ sent i (bi_log s)).
    { apply list_elem_of_bind. eexists. split; [|exact Hin]. cbn. rewrite decide_True by done. done. }
    assert (Hf : it ∈ filter (fun it => writable json_any it) (added i (bi_log s))).
    { rewrite (wi_order _ _ _ _ (in_workers _ _ _ _ Hi i w Hw)). apply elem_of_app. by left. }
    apply list_elem_of_filter in Hf as [Hw' Ha]. apply list_elem_of_bind in Ha as (e & He & Hel).
    destruct e as [k it'| | | | |]; try (by apply not_elem_of_nil in He). cbn in He. case_decide; [|by apply not_elem_of_nil in He].
    apply list_elem_of_singleton in He. subst. destruct (Hok _ _ Hel). split_and!; try done. by apply Is_true_true.
  - exists prev, last. split; [done|]. unfold small in Hs. rewrite batch_snoc, length_app. lia.
Qed.

Lemma bulk_requests_witness :
  exists s body items an, run_ops no_any sample_ops (NewBulkIndexer 4 one_worker) = Some s /\
    EvRequest 0 body items an ∈ bi_log s /\ length items = 2%nat /\ lines body = items ≫= item_lines no_any.
Proof.
  destruct (run_ops no_any sample_ops (NewBulkIndexer 4 one_worker)) as [s|] eqn:E; [|vm_compute in E; discriminate].
  set (a := sample_item "index" "a" "{}"). set (b := sample_item "index" "a" "{1}").
  exists s, (batch_bytes no_any [a; b]), [a; b], (Response (MkBulkResp true [ok_item; bad_item])).
  assert (Hin : EvRequest 0 (batch_bytes no_any [a; b]) [a; b] (Response (MkBulkResp true [ok_item; bad_item])) ∈ bi_log s).
  { vm_compute in E. injection E as <-. vm_compute. do 2 apply list_elem_of_further. apply list_elem_of_here. }
  split_and!; [done | done | done |].
  eapply (proj1 (bulk_requests no_any 4 one_worker s 0 _ [a; b] _ _ (run_ops_reachable no_any _ _ _ _ E) _ _ Hin)).
  Unshelve.
  - done.
  - reflexivity.
  - intros i it Hit. vm_compute in E. injection E as <-. cbn in Hit.
    repeat (apply elem_of_cons in Hit as [Hit|Hit]; [try discriminate; injection Hit as -> ->|]);
      try (by apply not_elem_of_nil in Hit).
    all: split; [repeat constructor; unfold is_byte; cbn; lia | cbn; repeat constructor; done].
Defined.
