(* ===== verification/BulkClose.v ===== *)
(** * Closing the bulk indexer

    No step of a run panics when the indexer is used as documented and a
    response has no more results than its request had items; after Close every
    run comes to an end, and when it ended well every item was handed in. *)

From Stdlib Require Import Ascii String.
From stdpp Require Import base list strings relations.
From Stdlib Require Import ZArith Lia.
From S2P Require Import Prelude.
From S2P Require Import GoStrings.
From S2P Require Import ShardHash.
From S2P Require Import BulkIndexer.
From S2P Require Import BulkSpec.
From S2P Require Import BulkRuns.
Open Scope Z_scope.

Section Close.
Context {any : Type} (json_any : any -> option gostring).
Notation item := (@BulkIndexerItem any).
Notation state := (@bulkIndexer any).
Notation wstate := (@worker any).
Notation ev := (@event any).
Notation op := (@bulk_op any).

(** * No panic *)

(** The next round-robin counter is below 2^63; no Add and no second Close
    after Close; a response has at most one result per item of its request. *)
Definition well_used (s : state) (o : op) : Prop :=
  match o with
  | OAdd it => (0 < length (bi_workers s))%nat /\ Forall is_byte (it_DocumentID it) /\ 0 <= bi_rrCounter s < 2 ^ 63 - 1
  | OAddSend _ | OClose => bi_closed s = false
  | OProcess i an => forall w : wstate, bi_workers s !! i = Some w -> fits (S (length (wk_items w))) an
  | OTickFlush an => forall i (w : wstate), bi_flusher s = FlAt i -> bi_workers s !! i = Some w -> fits (length (wk_items w)) an
  | OCloseFlush an => forall i (w : wstate), bi_close s = ClDrain i -> bi_workers s !! i = Some w -> fits (length (wk_items w)) an
  | _ => True
  end.

Lemma flush_total i (w : wstate) (s : state) an :
  bi_workers s !! i = Some w -> stats_ok (bi_stats s) -> fits (length (wk_items w)) an ->
  exists q, flush_reported i an s = Some (q, tt).
Proof. intros Hw Ht Hf. rewrite (flush_reported_run i w) by done. cbn zeta. rewrite decide_True by auto. eauto. Qed.

Lemma process_total i (w : wstate) (s : state) it an :
  bi_workers s !! i = Some w -> wk_hand w = Some it -> stats_ok (bi_stats s) -> fits (S (length (wk_items w))) an ->
  exists q, process json_any i an s = Some (q, tt).
Proof.
  intros Hw Hh Ht Hf. rewrite (process_eq json_any i w s it an Hw Hh).
  destruct (_ && _); [|eauto]. eapply (flush_total i (took json_any w it)).
  - apply after_lookup, lookup_lt_is_Some. eauto.
  - done.
  - cbn. rewrite length_app. cbn. by rewrite Nat.add_1_r.
Qed.

Lemma runs_on numCPU cfg0 s o :
  reachable json_any numCPU cfg0 s -> enabled s o = true -> well_used s o -> exists s', exec json_any o s = Some (s', tt).
Proof.
  intros Hi%bulk_reachable_inv He Hu. pose proof (inv_stats_ok _ _ _ s Hi) as Ht. destruct o; cbn [exec]; cbn in Hu.
  - destruct Hu as (Hn & Hb & Hrr). unfold add_begin, queueIndex, bind, gets, modify, getsM, ret.
    set (n := length (bi_workers s)) in *. destruct (Z.eqb_spec (Z.of_nat n) 0); [lia|].
    destruct (decide (it_DocumentID item = [])).
    + cbn. fold n. rewrite wrap64_id by (unfold int64_range; lia).
      pose proof (Z.rem_bound_pos (bi_rrCounter s + 1) (Z.of_nat n)).
      destruct (Z.ltb_spec (Z.rem (bi_rrCounter s + 1) (Z.of_nat n)) 0); [lia|].
      destruct (Z.leb_spec (Z.of_nat n) (Z.rem (bi_rrCounter s + 1) (Z.of_nat n))); [lia|]. cbn. eauto.
    + destruct (Hash (it_DocumentID item)) as [h|] eqn:Eh; cbn; fold n.
      * pose proof (Z.rem_bound_abs h (Z.of_nat n)).
        destruct (Z.ltb_spec (Z.rem h (Z.of_nat n)) 0); (destruct (_ <? 0) eqn:E1; [lia|]);
          (destruct (_ <=? _) eqn:E2; [lia|]); cbn; eauto.
      * destruct (Hash_spec (it_DocumentID item) Hb) as (h & E & _). congruence.
  - cbn in He. apply Nat.ltb_lt in He. destruct (lookup_lt_is_Some_2 _ _ He) as [a Ha].
    unfold add_cancelled, bind, getsM. rewrite Ha. eexists. reflexivity.
  - cbn in He. unfold add_send, bind, getsM, gets. destruct (bi_adding s !! k); [|done]. rewrite Hu. eexists. reflexivity.
  - cbn in He. unfold worker_ready in He. unfold receive, bind, get_worker, getsM.
    destruct (bi_workers s !! i) as [w|]; [|done]. destruct (wk_ch w); eexists; reflexivity.
  - cbn in He. unfold worker_ready in He. destruct (bi_workers s !! i) as [w|] eqn:Ew; [|done].
    destruct (wk_hand w) as [it|] eqn:Eh; [|by rewrite andb_false_r in He]. eapply process_total; eauto.
  - eexists. reflexivity.
  - eexists. reflexivity.
  - eexists. reflexivity.
  - cbn in He. unfold bind, gets. destruct (bi_flusher s) as [|i|]; try done. unfold tick_flush, bind, gets.
    destruct (decide _) as [Hi'|]; [|eauto]. destruct (lookup_lt_is_Some_2 _ _ Hi') as [w Ew].
    destruct (flush_total i w s an Ew Ht) as [q ->]; [by apply (Hu i w)|]. eexists. reflexivity.
  - eexists. reflexivity.
  - unfold close_begin, bind, gets. rewrite Hu. eexists. reflexivity.
  - destruct ctxDone; eexists; reflexivity.
  - eexists. reflexivity.
  - cbn in He. unfold bind, gets. destruct (bi_close s) as [| | |i|]; try done. unfold close_flush, bind, gets.
    destruct (decide _) as [Hi'|]; [|eauto]. destruct (lookup_lt_is_Some_2 _ _ Hi') as [w Ew].
    destruct (flush_total i w s an Ew Ht) as [q ->]; [by apply (Hu i w)|]. eexists. reflexivity.
Qed.

(** On every reachable state, a step the indexer can take runs to its end without a panic, provided the documented use: no Add after Close, one Close, fewer than 2^63 items without a document, at most one result per item. *)
Theorem bulk_never_panics numCPU cfg0 s o :
  reachable json_any numCPU cfg0 s -> enabled s o = true -> well_used s o -> exists s', exec json_any o s = Some (s', tt).
Proof. apply runs_on. Qed.

(** * The end of a run *)

Record close_inv (s : state) : Prop := {
  ci_closed : bi_closed s = negb (is_open (bi_close s));
  ci_exit : forall i w, bi_workers s !! i = Some w -> wk_exited w = true ->
    wk_hand w = None /\ (bi_cancelled s = true \/ (bi_closed s = true /\ wk_ch w = []));
  ci_flusher : match bi_close s with ClOpen | ClWait => True | _ => bi_flusher s = FlDone end;
  ci_drain : match bi_close s with
    | ClDrain k => forall i w, bi_workers s !! i = Some w -> wk_exited w = true /\ ((i < k)%nat -> wk_buf w = [])
    | ClDone false => forall i w, bi_workers s !! i = Some w -> wk_exited w = true /\ wk_buf w = []
    | _ => True end }.

(** What a worker's change keeps. *)
Lemma change_exit s i w evs w' :
  change json_any s i w evs w' ->
  (wk_exited w = true -> wk_hand w = None /\ (bi_cancelled s = true \/ (bi_closed s = true /\ wk_ch w = []))) ->
  (wk_exited w' = true -> wk_hand w' = None /\ (bi_cancelled s = true \/ (bi_closed s = true /\ wk_ch w' = []))) /\
  (wk_exited w = true -> bi_closed s = true -> wk_exited w' = true /\ (wk_buf w = [] -> wk_buf w' = [])).
Proof.
  intros Hc Hw. destruct Hc as [it Ha Ho|it ch Hq Hh Hch|it an Hq Hh Hf|an Hf|Hq Hh He].
  - split; [|rewrite Ho; done]. cbn. intros Hx. destruct (Hw Hx) as [? [?|[? _]]]; [by auto | congruence].
  - cbn. rewrite Hq. done.
  - assert (Hf' : wk_exited (processed json_any (bi_config s) i w it an).1 = false).
    { unfold processed. destruct (writable json_any it); [|done]. destruct (_ <=? _); [|done].
      unfold flushed. destruct (decide _); done. }
    rewrite Hf', Hq. done.
  - unfold flushed. destruct (decide (wk_buf w = [])); cbn; [by auto|]. split; [done|]. intros ? ?. done.
  - cbn. rewrite Hq. split; [|done]. intros _. split; [done|].
    apply orb_true_iff in He as [He|He]; [by left|]. right. apply andb_true_iff in He as [? He]. by apply bool_decide_eq_true in He.
Qed.

Lemma close_inv_init numCPU cfg : close_inv (NewBulkIndexer numCPU cfg).
Proof. split; cbn; try done. intros i w [-> _]%lookup_replicate. done. Qed.

(** One worker changes, the flags stay. *)
Lemma close_inv_change s s' i w evs w' :
  close_inv s -> bi_workers s !! i = Some w -> change json_any s i w evs w' ->
  bi_workers s' = <[i := w']> (bi_workers s) -> bi_cancelled s' = bi_cancelled s -> bi_closed s' = bi_closed s ->
  bi_flusher s' = bi_flusher s -> bi_close s' = bi_close s -> close_inv s'.
Proof.
  intros [H1 H2 H3 H4] Hw Hc E1 E2 E3 E4 E5. destruct (change_exit s i w evs w' Hc (H2 i w Hw)) as [Hx Hk].
  pose proof (lookup_lt_Some _ _ _ Hw) as Hlt.
  assert (Hl : forall j q, <[i := w']> (bi_workers s) !! j = Some q -> (j = i /\ q = w') \/ (j <> i /\ bi_workers s !! j = Some q)).
  { intros j q Hq. destruct (decide (j = i)) as [->|Hj].
    - rewrite list_lookup_insert_eq in Hq by done. injection Hq as <-. by left.
    - rewrite list_lookup_insert_ne in Hq by done. by right. }
  split; rewrite ?E1, ?E2, ?E3, ?E4, ?E5; try done.
  - intros j q [[-> ->]|[_ Hq]]%Hl; [exact Hx | by apply (H2 j)].
  - destruct (bi_close s) as [| | |k|[|]]; try done; cbn in H1.
    + intros j q [[-> ->]|[_ Hq]]%Hl; [|by apply H4]. destruct (H4 i w Hw) as [Hxw Hb]. destruct (Hk Hxw H1). auto.
    + intros j q [[-> ->]|[_ Hq]]%Hl; [|by eapply H4]. destruct (H4 i w Hw) as [Hxw Hb]. destruct (Hk Hxw H1). auto.
Qed.

Lemma flush_run i s an q w :
  bi_workers s !! i = Some w -> stats_ok (bi_stats s) -> flush_reported i an s = Some (q, tt) ->
  exists w' evs, change json_any s i w evs w' /\ q = after i w' evs s /\ wk_buf w' = [].
Proof.
  intros Hw Ht. rewrite (flush_reported_run i w) by done. cbn zeta. destruct (decide _) as [Hd|]; [|done]. intros [= <-].
  do 2 eexists. split; [apply ch_flushed; by destruct Hd|]. split; [reflexivity|]. unfold flushed. destruct (decide _); done.
Qed.

Lemma close_inv_step s s' : stats_ok (bi_stats s) -> close_inv s -> bulk_step json_any s s' -> close_inv s'.
Proof.
  intros Ht Hc (o & He & Hx). pose proof Hc as [H1 H2 H3 H4]. destruct o; cbn [exec] in Hx.
  - unfold add_begin, queueIndex, bind, gets, modify, getsM, ret in Hx. repeat (case_match; try done); simplify_eq/=; by destruct Hc.
  - unfold add_cancelled, bind, getsM in Hx. destruct (bi_adding s !! k); [|done]. injection Hx as <-. by destruct Hc.
  - unfold add_send, bind, getsM, gets in Hx. cbn in He. destruct (bi_adding s !! k) as [[i it]|] eqn:Ek; [|done].
    destruct (bi_closed s) eqn:Eo; [done|]. cbn in He. destruct (bi_workers s !! i) as [w|] eqn:Ew; [|done].
    injection Hx as <-. eapply (close_inv_change s _ i w); [done | done | | | done..].
    + apply (ch_added _ _ _ _ it); [by apply list_elem_of_lookup_2 in Ek | done].
    + pose proof (upd_after i (fun w => with_ch (wk_ch w ++ [it]) w) w s Ew) as Hu. injection Hu as Hu. exact Hu.
  - cbn in He. unfold worker_ready in He. destruct (bi_workers s !! i) as [w|] eqn:Ew; [|done].
    apply andb_true_iff in He as [Hq%negb_true_iff He]. unfold receive, bind at 1, get_worker, getsM in Hx. rewrite Ew in Hx.
    destruct (wk_hand w) eqn:Eh; [done|]. destruct (wk_ch w) as [|it ch] eqn:Ech; [done|].
    rewrite (upd_after i _ w) in Hx by done. injection Hx as <-.
    eapply (close_inv_change s _ i w); [done | done | by apply ch_received | done..].
  - cbn in He. unfold worker_ready in He. destruct (bi_workers s !! i) as [w|] eqn:Ew; [|done].
    apply andb_true_iff in He as [Hq%negb_true_iff He]. destruct (wk_hand w) as [it|] eqn:Eh; [|done].
    destruct (process_run json_any i w s it an s' Ew Eh Ht Hx) as [-> Hf].
    eapply (close_inv_change s _ i w); [done | done | | done..]. apply ch_processed; [done | done |].
    intros Hok Hl. destruct (Hf Hok Hl) as [E|]; [|done]. destruct (render_nonempty json_any it Hok). destruct (wk_buf w); done.
  - cbn in He. unfold worker_ready in He. destruct (bi_workers s !! i) as [w|] eqn:Ew; [|done].
    apply andb_true_iff in He as [Hq%negb_true_iff He]. destruct (wk_hand w) eqn:Eh; [done|].
    rewrite (upd_after i _ w) in Hx by done. injection Hx as <-.
    eapply (close_inv_change s _ i w); [done | done | | done..]. apply ch_exited; [done | done |].
    destruct (bi_cancelled s); [done|]. destruct (bi_closed s); [|done]. destruct (wk_ch w); done.
  - injection Hx as <-. split; cbn; try done. intros i w Hw Hxw. destruct (H2 i w Hw Hxw). auto.
  - cbn in He. injection Hx as <-. destruct (bi_flusher s) eqn:Ef; try done. destruct (bi_close s) eqn:Ec; try done. split; cbn; rewrite ?Ec; done.
  - unfold bind, gets in Hx. cbn in He. destruct (bi_flusher s) as [|i|] eqn:Ef; try done. unfold tick_flush, bind at 1, gets in Hx.
    assert (Hfl : match bi_close s with ClOpen | ClWait => True | _ => False end) by (destruct (bi_close s); done).
    destruct (decide (i < length (bi_workers s))%nat) as [Hi|].
    + destruct (lookup_lt_is_Some_2 _ _ Hi) as [w Ew]. unfold bind in Hx.
      destruct (flush_reported i an s) as [[s1 []]|] eqn:Efl; [|done]. injection Hx as <-.
      destruct (flush_run i s an s1 w Ew Ht Efl) as (w' & evs & Hch & -> & _).
      assert (H := close_inv_change s (after i w' evs s) i w evs w' Hc Ew Hch eq_refl eq_refl eq_refl eq_refl eq_refl).
      destruct H as [K1 K2 K3 K4]. split; cbn in *; try done. destruct (bi_close s); done.
    + injection Hx as <-. split; cbn; try done. destruct (bi_close s); done.
  - injection Hx as <-. split; cbn; try done. destruct (bi_close s); done.
  - unfold close_begin, bind, gets in Hx. destruct (bi_closed s) eqn:Ec; [done|]. injection Hx as <-. split; cbn; try done.
    intros i w Hw Hxw. destruct (H2 i w Hw Hxw) as [? [?|[? _]]]; [by auto | congruence].
  - cbn in He. destruct (bi_close s) eqn:Ec; try done. destruct (bi_flusher s) eqn:Ef; try done.
    destruct ctxDone; injection Hx as <-; split; cbn; done.
  - cbn in He. destruct (bi_close s) eqn:Ec; try done. injection Hx as <-. split; cbn; try done.
    intros i w Hw. split; [|lia]. rewrite forallb_forall in He. apply He, list_elem_of_In. by apply list_elem_of_lookup_2 in Hw.
  - unfold bind, gets in Hx. cbn in He. destruct (bi_close s) as [| | |i|] eqn:Ec; try done. unfold close_flush, bind at 1, gets in Hx.
    destruct (decide (i < length (bi_workers s))%nat) as [Hi|Hi].
    + destruct (lookup_lt_is_Some_2 _ _ Hi) as [w Ew]. unfold bind in Hx.
      destruct (flush_reported i an s) as [[s1 []]|] eqn:Efl; [|done]. injection Hx as <-.
      destruct (flush_run i s an s1 w Ew Ht Efl) as (w' & evs & Hch & -> & Hempty).
      assert (H := close_inv_change s (after i w' evs s) i w evs w' Hc Ew Hch eq_refl eq_refl eq_refl eq_refl eq_refl).
      destruct H as [K1 K2 K3 K4]. cbn in *. rewrite Ec in *. split; cbn; try done. intros j q Hq.
      destruct (K4 j q Hq) as [Kx Kb]. split; [done|]. intros Hj. destruct (decide (j = i)) as [->|]; [|apply Kb; lia].
      rewrite list_lookup_insert_eq in Hq by done. by injection Hq as <-.
    + injection Hx as <-. split; cbn; try done. intros j q Hq. destruct (H4 j q Hq) as [Kx Kb]. split; [done|].
      apply Kb. apply lookup_lt_Some in Hq. lia.
Qed.

Lemma reachable_close numCPU cfg0 s : reachable json_any numCPU cfg0 s -> close_inv s.
Proof.
  intros Hr. unfold reachable in Hr.
  assert (H : inv json_any (with_defaults numCPU cfg0) (cf_NumWorkers (with_defaults numCPU cfg0)) s /\ close_inv s); [|tauto].
  revert s Hr. apply (rtc_ind_r (R := bulk_step json_any)
    (fun s => inv json_any (with_defaults numCPU cfg0) (cf_NumWorkers (with_defaults numCPU cfg0)) s /\ close_inv s)).
  - split; [by apply bulk_inv_init | apply close_inv_init].
  - intros s1 s2 _ Hs [Hi Hc]. split; [by eapply bulk_inv_step|]. eapply close_inv_step; [by eapply inv_stats_ok | done | done].
Qed.

(** When Close ended without an error and the indexer's context was never cancelled, no worker holds an item any more: every item Add accepted was sent and had its callback, or got no result in the response. *)
Theorem bulk_close_delivers numCPU cfg0 s i w :
  reachable json_any numCPU cfg0 s -> bi_close s = ClDone false -> bi_cancelled s = false -> bi_workers s !! i = Some w ->
  held w = [] /\ added i (bi_log s) ≡ₚ settled i (bi_log s) ++ lost i (bi_log s).
Proof.
  intros Hr Hd Hn Hw. pose proof (reachable_close _ _ _ Hr) as [_ H2 _ H4]. rewrite Hd in H4.
  destruct (H4 i w Hw) as [Hx Hb]. destruct (H2 i w Hw Hx) as [Hh [Hc|[_ Hch]]]; [congruence|].
  pose proof (in_workers _ _ _ _ (bulk_reachable_inv _ _ _ _ Hr) i w Hw) as [_ Hall _ Hbuf].
  assert (Hheld : held w = []).
  { unfold held, lag. rewrite Hh, Hch. destruct (wk_items w); [done|]. by destruct Hbuf. }
  rewrite Hheld, app_nil_r in Hall. done.
Qed.

(** ** Termination *)

Definition worker_work (w : wstate) : nat :=
  3 * length (wk_ch w) + (match wk_hand w with Some _ => 2 | None => 0 end) + (if wk_exited w then 0 else 1).
Definition flusher_work (n : nat) (f : flusher_state) : nat :=
  match f with FlDone => 0 | FlIdle => 1 | FlAt i => 2 + (n - i) end.
Definition close_work (n : nat) (c : close_state) : nat :=
  match c with ClDone _ => 0 | ClDrain i => 1 + (n - i) | ClJoin => 2 + n | ClWait | ClOpen => 3 + n end.

(** The steps a closing indexer can still take, Adds that give up included. *)
Definition work (s : state) : nat :=
  sum_list_with worker_work (bi_workers s) + flusher_work (length (bi_workers s)) (bi_flusher s)
  + close_work (length (bi_workers s)) (bi_close s) + length (bi_adding s) + (if bi_cancelled s then 0 else 1).

Definition is_add (o : op) : bool := match o with OAdd _ => true | _ => false end.

(** A flush does no work of the channel. *)
Lemma flushed_work mask i w an : worker_work (flushed mask i w an).1 = worker_work w.
Proof. unfold flushed. destruct (decide _); done. Qed.

Lemma processed_work cfg i w it an :
  wk_hand w = Some it -> worker_work w = (worker_work (processed json_any cfg i w it an).1 + 2)%nat.
Proof.
  intros Hh. unfold processed. destruct (writable json_any it); [destruct (_ <=? _); rewrite ?flushed_work|];
    unfold worker_work; cbn; rewrite Hh; lia.
Qed.

Lemma length_delete_lt {A} (l : list A) k x : l !! k = Some x -> (length (delete k l) < length l)%nat.
Proof. intros H. rewrite length_delete by eauto. apply lookup_lt_Some in H. lia. Qed.

Lemma work_decreases s o s' :
  stats_ok (bi_stats s) -> close_inv s -> bi_closed s = true -> is_add o = false ->
  enabled s o = true -> exec json_any o s = Some (s', tt) -> (work s' < work s)%nat.
Proof.
  intros Ht [H1 _ _ _] Hcl Ha He Hx. rewrite Hcl in H1. destruct o; cbn [exec] in Hx; cbn in Ha; try done.
  - unfold add_cancelled, bind, getsM in Hx. destruct (bi_adding s !! k) eqn:Ek; [|done]. injection Hx as <-.
    pose proof (length_delete_lt _ _ _ Ek). unfold work; cbn. lia.
  - unfold add_send, bind, getsM, gets in Hx. destruct (bi_adding s !! k); [|done]. by rewrite Hcl in Hx.
  - cbn in He. unfold worker_ready in He. destruct (bi_workers s !! i) as [w|] eqn:Ew; [|done].
    apply andb_true_iff in He as [_ He]. unfold receive, bind at 1, get_worker, getsM in Hx. rewrite Ew in Hx.
    destruct (wk_hand w) eqn:Eh; [done|]. destruct (wk_ch w) as [|it ch] eqn:Ech; [done|].
    rewrite (upd_after i _ w) in Hx by done. injection Hx as <-. unfold work; cbn. rewrite length_insert.
    pose proof (sum_insert worker_work _ i w (with_hand (Some it) (with_ch ch w)) Ew) as Hs. 
    assert (E : (worker_work (with_hand (Some it) (with_ch ch w)) + 1 = worker_work w)%nat) by (unfold worker_work; cbn; rewrite Eh, Ech; cbn; lia). lia.
  - cbn in He. unfold worker_ready in He. destruct (bi_workers s !! i) as [w|] eqn:Ew; [|done].
    apply andb_true_iff in He as [_ He]. destruct (wk_hand w) as [it|] eqn:Eh; [|done].
    destruct (process_run json_any i w s it an s' Ew Eh Ht Hx) as [-> _]. unfold work; cbn. rewrite length_insert.
    pose proof (sum_insert worker_work _ i w (processed json_any (bi_config s) i w it an).1 Ew) as Hs.
    pose proof (processed_work (bi_config s) i w it an Eh). lia.
  - cbn in He. unfold worker_ready in He. destruct (bi_workers s !! i) as [w|] eqn:Ew; [|done].
    apply andb_true_iff in He as [Hq%negb_true_iff _]. rewrite (upd_after i _ w) in Hx by done. injection Hx as <-.
    unfold work; cbn. rewrite length_insert. pose proof (sum_insert worker_work _ i w (with_exited w) Ew) as Hs.
    assert (E : (worker_work (with_exited w) + 1 = worker_work w)%nat) by (unfold worker_work; cbn; rewrite Hq; lia). lia.
  - injection Hx as <-. cbn in He. unfold work; cbn. destruct (bi_cancelled s); [done | lia].
  - cbn in He. destruct (bi_flusher s), (bi_close s); done.
  - unfold bind, gets in Hx. cbn in He. destruct (bi_flusher s) as [|i|] eqn:Ef; try done. unfold tick_flush, bind at 1, gets in Hx.
    destruct (decide (i < length (bi_workers s))%nat) as [Hi|].
    + destruct (lookup_lt_is_Some_2 _ _ Hi) as [w Ew]. unfold bind in Hx.
      destruct (flush_reported i an s) as [[s1 []]|] eqn:Efl; [|done]. injection Hx as <-.
      rewrite (flush_reported_run i w) in Efl by done. cbn zeta in Efl. destruct (decide _) in Efl; [|done]. injection Efl as <-.
      unfold work; cbn. rewrite length_insert, Ef. cbn.
      pose proof (sum_insert worker_work _ i w (flushed (cf_errorMask (bi_config s)) i w an).1 Ew) as Hs. rewrite flushed_work in Hs. lia.
    + injection Hx as <-. unfold work; cbn. rewrite Ef. cbn. lia.
  - injection Hx as <-. cbn in He. unfold work; cbn. destruct (bi_flusher s); [cbn; lia | done | done].
  - unfold close_begin, bind, gets in Hx. by rewrite Hcl in Hx.
  - cbn in He. destruct (bi_close s) eqn:Ec; try done. destruct ctxDone; injection Hx as <-; unfold work; cbn; rewrite Ec; cbn; lia.
  - cbn in He. destruct (bi_close s) eqn:Ec; try done. injection Hx as <-. unfold work; cbn; rewrite Ec; cbn. lia.
  - unfold bind, gets in Hx. cbn in He. destruct (bi_close s) as [| | |i|] eqn:Ec; try done. unfold close_flush, bind at 1, gets in Hx.
    destruct (decide (i < length (bi_workers s))%nat) as [Hi|Hi].
    + destruct (lookup_lt_is_Some_2 _ _ Hi) as [w Ew]. unfold bind in Hx.
      destruct (flush_reported i an s) as [[s1 []]|] eqn:Efl; [|done]. injection Hx as <-.
      rewrite (flush_reported_run i w) in Efl by done. cbn zeta in Efl. destruct (decide _) in Efl; [|done]. injection Efl as <-.
      unfold work; cbn. rewrite length_insert, Ec. cbn.
      pose proof (sum_insert worker_work _ i w (flushed (cf_errorMask (bi_config s)) i w an).1 Ew) as Hs. rewrite flushed_work in Hs. lia.
    + injection Hx as <-. unfold work; cbn. rewrite Ec. cbn. lia.
Qed.

(** Until Close has ended some step can run, whatever the network answers. *)
Lemma close_progress s :
  close_inv s -> bi_closed s = true -> (forall c, bi_close s <> ClDone c) ->
  exists o, is_add o = false /\ enabled s o = true /\ well_used s o.
Proof.
  intros [H1 H2 H3 H4] Hcl Hnd. rewrite Hcl in H1. destruct (bi_close s) as [| | |i|c] eqn:Ec; [done| | | |by destruct (Hnd c)].
  - destruct (bi_flusher s) as [|i|] eqn:Ef.
    + exists OFlusherDone. cbn. rewrite Ef, Ec. rewrite orb_true_r. done.
    + exists (OTickFlush (NoResponse "")). cbn. rewrite Ef. done.
    + exists (OCloseJoined false). cbn. rewrite Ec, Ef. done.
  - destruct (forallb wk_exited (bi_workers s)) eqn:Ea; [exists OCloseWaited; cbn; rewrite Ec; done|].
    assert (Hex : exists i w, bi_workers s !! i = Some w /\ wk_exited w = false).
    { clear -Ea. induction (bi_workers s) as [|w l IH]; [done|]. cbn in Ea. apply andb_false_iff in Ea as [Ea|Ea].
      - by exists 0%nat, w.
      - destruct (IH Ea) as (i & q & ? & ?). by exists (S i), q. }
    destruct Hex as (i & w & Hw & Hq). destruct (wk_hand w) as [it|] eqn:Eh.
    + exists (OProcess i (NoResponse "")). cbn. unfold worker_ready. rewrite Hw, Hq, Eh. done.
    + destruct (wk_ch w) as [|it ch] eqn:Ech.
      * exists (OExit i). cbn. unfold worker_ready. rewrite Hw, Hq, Eh, Ech, Hcl. cbn. rewrite orb_true_r. done.
      * exists (OReceive i). cbn. unfold worker_ready. rewrite Hw, Hq, Eh, Ech. done.
  - exists (OCloseFlush (NoResponse "")). cbn. rewrite Ec. done.
Qed.

(** C23: Close terminates: once it has begun every step other than a new Add makes the remaining work smaller, and until it has ended some step can run. *)
Theorem bulk_close_terminates numCPU cfg0 s :
  reachable json_any numCPU cfg0 s -> bi_closed s = true ->
  (forall o s', is_add o = false -> enabled s o = true -> exec json_any o s = Some (s', tt) -> (work s' < work s)%nat) /\
  ((exists c, bi_close s = ClDone c) \/
   exists o s', is_add o = false /\ enabled s o = true /\ exec json_any o s = Some (s', tt)).
Proof.
  intros Hr Hcl. pose proof (reachable_close _ _ _ Hr) as Hc. pose proof (bulk_reachable_inv _ _ _ _ Hr) as Hi.
  split; [intros; eapply work_decreases; try done; by eapply inv_stats_ok|].
  assert (Hd : (exists c, bi_close s = ClDone c) \/ (forall c, bi_close s <> ClDone c)).
  { destruct (bi_close s); try (by right). left. eauto. }
  destruct Hd as [Hd|Hd]; [by left|]. right. destruct (close_progress s Hc Hcl Hd) as (o & Ha & He & Hu).
  destruct (runs_on numCPU cfg0 s o Hr He Hu) as [s' Hx]. by exists o, s'.
Qed.
End Close.

(** ** Examples *)

(** The sample run, closed: the worker exits, the delete goes out in the last
    flush. *)
Definition closing_ops : list (@bulk_op unit) :=
  sample_ops ++ [OClose; OExit 0; OFlusherDone; OCloseJoined false; OCloseWaited;
    OCloseFlush (Response (MkBulkResp false [MkBulkItem None (Some (MkRespItem 200 None)) None None]));
    OCloseFlush (NoResponse "")].

Lemma bulk_close_delivers_witness :
  exists s w, run_ops no_any closing_ops (NewBulkIndexer 4 one_worker) = Some s /\ bi_workers s !! 0%nat = Some w /\
    held w = [] /\ length (settled 0 (bi_log s)) = 3%nat /\
    added 0 (bi_log s) ≡ₚ settled 0 (bi_log s) ++ lost 0 (bi_log s).
Proof.
  destruct (run_ops no_any closing_ops (NewBulkIndexer 4 one_worker)) as [s|] eqn:E; [|vm_compute in E; discriminate].
  pose proof (run_ops_reachable no_any _ _ _ _ E) as Hr.
  assert (Hw : exists w, bi_workers s !! 0%nat = Some w /\ bi_close s = ClDone false /\ bi_cancelled s = false /\
    length (settled 0 (bi_log s)) = 3%nat) by (vm_compute in E; injection E as <-; eexists; repeat split).
  destruct Hw as (w & Hw & Hd & Hn & Hl). exists s, w.
  destruct (bulk_close_delivers no_any 4 one_worker s 0 w Hr Hd Hn Hw) as [Hh Ha]. exact (conj eq_refl (conj Hw (conj Hh (conj Hl Ha)))).
Defined.

Lemma bulk_never_panics_witness :
  exists s s', run_ops no_any sample_ops (NewBulkIndexer 4 one_worker) = Some s /\
    exec no_any (OAdd (sample_item "create" "" "{}")) s = Some (s', tt).
Proof.
  destruct (run_ops no_any sample_ops (NewBulkIndexer 4 one_worker)) as [s|] eqn:E; [|vm_compute in E; discriminate].
  assert (H : length (bi_workers s) = 1%nat /\ bi_rrCounter s = 0) by (vm_compute in E; injection E as <-; split; reflexivity).
  destruct H as [Hl Hrr].
  assert (Hu : well_used s (OAdd (sample_item "create" "" "{}"))).
  { unfold well_used. rewrite Hl, Hrr. split; [lia|]. split; [constructor | lia]. }
  destruct (bulk_never_panics no_any 4 one_worker s (OAdd (sample_item "create" "" "{}")) (run_ops_reachable no_any _ _ _ _ E) eq_refl Hu) as [s' Hx].
  exact (ex_intro _ s (ex_intro _ s' (conj eq_refl Hx))).
Defined.

Lemma bulk_close_terminates_witness :
  exists s, run_ops no_any (sample_ops ++ [OClose]) (NewBulkIndexer 4 one_worker) = Some s /\ work s = 7%nat /\
    exists o s', is_add o = false /\ enabled s o = true /\ exec no_any o s = Some (s', tt).
Proof.
  destruct (run_ops no_any (sample_ops ++ [OClose]) (NewBulkIndexer 4 one_worker)) as [s|] eqn:E; [|vm_compute in E; discriminate].
  exists s. pose proof (run_ops_reachable no_any _ _ _ _ E) as Hr.
  assert (Hc : bi_closed s = true /\ bi_close s = ClWait /\ work s = 7%nat) by (vm_compute in E; injection E as <-; repeat split; reflexivity).
  destruct Hc as (Hc & Hw & Hk). split; [reflexivity|]. split; [exact Hk|].
  destruct (bulk_close_terminates no_any 4 one_worker s Hr Hc) as [_ [[c Hd]|H]]; [congruence | exact H].
Defined.

(** A body that cannot be read fails its item, but its action line stays in the
    buffer: the next request has three lines for one item, and the server takes
    the second action line for the first one's document. *)
Definition broken_item : @BulkIndexerItem unit :=
  MkItem [] (lit "index") (lit "b") None None None None None None None None (Some (MkBody [] true false)) None.

(** Text with single for double quotes. *)
Definition js (s : string) : gostring := map (fun b => if b =? 39 then 34 else b) (lit s).

Lemma broken_body_stays :
  exists s, run_ops no_any ([OAdd broken_item] ++ take_item (NoResponse "") ++ [OAdd (sample_item "index" "a" "{}")] ++ take_item (NoResponse ""))
      (NewBulkIndexer 4 (MkBulkConfig 1 40 0)) = Some s /\
    bi_log s !! 4%nat = Some (EvRequest 0 (js "{'index':{'_id':'b'}}" ++ [10] ++ js "{'index':{'_index':'i','_id':'a'}}" ++ [10] ++ js "{}" ++ [10])
      [sample_item "index" "a" "{}"] (NoResponse "")).
Proof. eexists. split; vm_compute; reflexivity. Qed.

(** With the indexer's context cancelled, Close reports success although the
    item on the queue was neither sent nor failed. *)
Lemma cancelled_close_drops :
  exists s w, run_ops no_any [OAdd (sample_item "index" "a" "{}"); OAddSend 0; OCancel; OExit 0; OClose; OFlusherDone;
      OCloseJoined false; OCloseWaited; OCloseFlush (NoResponse ""); OCloseFlush (NoResponse "")]
      (NewBulkIndexer 4 one_worker) = Some s /\
    bi_close s = ClDone false /\ bi_workers s !! 0%nat = Some w /\ held w = [sample_item "index" "a" "{}"] /\ settled 0 (bi_log s) = [].
Proof. do 2 eexists. do 4 (split; [vm_compute; reflexivity|]). vm_compute. reflexivity. Qed.

(** Documents of one shard do not share a worker: the worker is the hash modulo
    the number of workers, the shard the hash modulo the routing shards. *)
Lemma shard_mates_apart :
  ForRouting (lit "1") 5 5 = ForRouting (lit "7") 5 5 /\ doc_queue 4 (lit "1") <> doc_queue 4 (lit "7").
Proof. split; [vm_compute; reflexivity | vm_compute; discriminate]. Qed.
