(* ===== verification/ShardMap.v ===== *)
(** * Shard placement

    From the rows of /_cat/shards to the shard map requests are routed with:
    getShardPlacement, getRoutingMeta and fetchRoutingNumShards of discovery.go
    on the decoded responses, and mergeShardMap of index_routing_cache.go.

    The pointers of a placement are never shared between two indexes and are
    written only while it is built, so a placement is a value. The order in
    which Go ranges over these maps does not matter: every index is treated
    alone. *)

From Stdlib Require Import ZArith Lia Ascii String.
From stdpp Require Import base gmap list strings.
From S2P Require Import Prelude.
From S2P Require Import GoStrings.
Open Scope Z_scope.

(** * Rows and placements *)

Definition shardStateStarted : string := "STARTED".
Definition shardTypePrimary : string := "p".
Definition shardTypeReplica : string := "r".

Record catShardsEntry := MkEntry {
  ce_Index : string;
  ce_Shard : string;
  ce_PriRep : string;
  ce_State : string;
  ce_Node : string }.

Record shardNodeInfo := MkNodeInfo { ni_Primaries : Z; ni_Replicas : Z }.
Record shardNodes := MkShardNodes { sn_Primary : string; sn_Replicas : list string }.
Record indexShardPlacement := MkPlacement {
  pl_Nodes : gmap string shardNodeInfo;
  pl_NumberOfPrimaryShards : Z;
  pl_RoutingNumShards : Z;
  pl_ShardToNodes : gmap Z shardNodes }.
Record indexShardMap := MkShardMap {
  sm_NumberOfPrimaryShards : Z;
  sm_RoutingNumShards : Z;
  sm_Shards : gmap Z shardNodes }.

Definition empty_placement : indexShardPlacement := MkPlacement ∅ 0 0 ∅.

(** result and allPrimaryShards. *)
Definition scan : Type := gmap string indexShardPlacement * gmap string (gset Z).

Definition track_primary (e : catShardsEntry) (seen : gmap string (gset Z)) : gmap string (gset Z) :=
  if decide (ce_PriRep e = shardTypePrimary) then
    match Atoi (ce_Shard e) with
    | Some n => <[ce_Index e := {[n]} ∪ default ∅ (seen !! ce_Index e)]> seen
    | None => seen
    end
  else seen.

Definition add_primary (node : string) (c : shardNodes) : shardNodes := MkShardNodes node (sn_Replicas c).
Definition add_replica (node : string) (c : shardNodes) : shardNodes := MkShardNodes (sn_Primary c) (sn_Replicas c ++ [node]).
Definition set_copies (shard : option Z) (f : shardNodes -> shardNodes) (m : gmap Z shardNodes) : gmap Z shardNodes :=
  match shard with
  | Some n => <[n := f (default (MkShardNodes "" []) (m !! n))]> m
  | None => m
  end.

(** A started row, in the placement of its index. *)
Definition place_row (e : catShardsEntry) (p : indexShardPlacement) : indexShardPlacement :=
  let info := default (MkNodeInfo 0 0) (pl_Nodes p !! ce_Node e) in
  let shardNum := Atoi (ce_Shard e) in
  if decide (ce_PriRep e = shardTypePrimary) then
    MkPlacement (<[ce_Node e := MkNodeInfo (ni_Primaries info + 1) (ni_Replicas info)]> (pl_Nodes p))
      (pl_NumberOfPrimaryShards p) (pl_RoutingNumShards p) (set_copies shardNum (add_primary (ce_Node e)) (pl_ShardToNodes p))
  else if decide (ce_PriRep e = shardTypeReplica) then
    MkPlacement (<[ce_Node e := MkNodeInfo (ni_Primaries info) (ni_Replicas info + 1)]> (pl_Nodes p))
      (pl_NumberOfPrimaryShards p) (pl_RoutingNumShards p) (set_copies shardNum (add_replica (ce_Node e)) (pl_ShardToNodes p))
  else
    MkPlacement (<[ce_Node e := info]> (pl_Nodes p)) (pl_NumberOfPrimaryShards p) (pl_RoutingNumShards p) (pl_ShardToNodes p).

Definition scan_row (st : scan) (e : catShardsEntry) : scan :=
  let '(result, seen) := st in
  if decide (ce_Index e = "") then st
  else
    let seen := track_primary e seen in
    if decide (ce_Node e = "" \/ ce_State e <> shardStateStarted) then (result, seen)
    else (<[ce_Index e := place_row e (default empty_placement (result !! ce_Index e))]> result, seen).

Definition count_primaries (m : gmap Z shardNodes) : Z :=
  Z.of_nat (length (List.filter (fun kc : Z * shardNodes => negb (String.eqb (sn_Primary kc.2) "")) (map_to_list m))).

Definition number_primaries (seen : gmap string (gset Z)) (ix : string) (p : indexShardPlacement) : indexShardPlacement :=
  let n := match seen !! ix with Some s => Z.of_nat (size s) | None => count_primaries (pl_ShardToNodes p) end in
  MkPlacement (pl_Nodes p) n (pl_RoutingNumShards p) (pl_ShardToNodes p).

Definition getShardPlacement (entries : list catShardsEntry) : gmap string indexShardPlacement :=
  let '(result, seen) := foldl scan_row (∅, ∅) entries in
  map_imap (fun ix p => Some (number_primaries seen ix p)) result.

(** * Routing metadata *)

Record indexRoutingMeta := MkMeta { rm_RoutingNumShards : Z; rm_NumberOfShards : Z }.

(** One index of the cluster state: routing_num_shards, and number_of_shards as
    the string it is. *)
Definition routing_meta (entry : Z * string) : option indexRoutingMeta :=
  let '(rns, shards) := entry in
  if 0 <? rns then
    Some (MkMeta rns (match Atoi shards with Some n => if 0 <? n then n else 0 | None => 0 end))
  else None.
Definition getRoutingMeta (indices : gmap string (Z * string)) : gmap string indexRoutingMeta := omap routing_meta indices.

Definition set_routing (rns n : Z) (p : indexShardPlacement) : indexShardPlacement :=
  MkPlacement (pl_Nodes p) (if 0 <? n then n else pl_NumberOfPrimaryShards p) rns (pl_ShardToNodes p).

(** The cached shard map of an index that has its routing metadata. *)
Definition cached_meta (cached : string -> option indexShardMap) (ix : string) : option indexShardMap :=
  sm ← cached ix; if sm_RoutingNumShards sm =? 0 then None else Some sm.

(** [routed] says that the transport has a router with policies; [cached] is the
    shard map of the index's slot, if it has one; [fetch] what the server answers
    for the indexes asked for, [None] an error. *)
Definition fetchRoutingNumShards (routed : bool) (cached : string -> option indexShardMap)
    (fetch : list string -> option (gmap string (Z * string))) (placement : gmap string indexShardPlacement)
    : gmap string indexShardPlacement :=
  if negb routed then placement else
  let placement := map_imap (fun ix p => Some (match cached_meta cached ix with
    | Some sm => set_routing (sm_RoutingNumShards sm) (sm_NumberOfPrimaryShards sm) p | None => p end)) placement in
  let needFetch := List.filter (fun ix => match cached_meta cached ix with Some _ => false | None => true end) (elements (dom placement)) in
  match needFetch with
  | [] => placement
  | _ =>
    match fetch needFetch with
    | None => placement
    | Some indices =>
      let metas := getRoutingMeta indices in
      map_imap (fun ix p => Some (match metas !! ix with
        | Some m => set_routing (rm_RoutingNumShards m) (rm_NumberOfShards m) p | None => p end)) placement
    end
  end.

(** * The shard map of an index *)

Definition carriesForward (old next : gmap Z shardNodes) : bool := negb (bool_decide (dom old ⊆ dom next)).

Definition prune (n : Z) (m : gmap Z shardNodes) : gmap Z shardNodes := filter (fun kc : Z * shardNodes => kc.1 < n) m.

(** What one pass of mergeShardMap stores over [old]. *)
Definition merge_pass (old : option indexShardMap) (p : indexShardPlacement) : indexShardMap :=
  let next := pl_ShardToNodes p in
  let merged := match old with
    | Some sm => if carriesForward (sm_Shards sm) next then next ∪ sm_Shards sm else next
    | None => next end in
  let n := pl_NumberOfPrimaryShards p in
  let complete := n <=? Z.of_nat (size next) in
  let merged := if (0 <? n) && complete && (n <? Z.of_nat (size merged)) then prune n merged else merged in
  MkShardMap n (pl_RoutingNumShards p) merged.

(** The bounded CAS loop; [others] holds for each pass what another writer
    stored between the load and the CAS, if one did. *)
Fixpoint merge_loop (n : nat) (others : list (option (option indexShardMap))) (p : indexShardPlacement)
    (current : option indexShardMap) : option indexShardMap :=
  match n with
  | O => current
  | S n' =>
    match others with
    | Some stored :: others' => merge_loop n' others' p stored
    | _ => Some (merge_pass current p)
    end
  end.

Definition maxRetries : nat := 3.
Definition mergeShardMap (others : list (option (option indexShardMap))) (p : indexShardPlacement)
    (current : option indexShardMap) : option indexShardMap :=
  if decide (pl_ShardToNodes p = ∅) then current else merge_loop maxRetries others p current.

(** * Placements *)

(** What a reader of the rows would write down for an index: its started rows,
    and the numbers its primaries have in any state. *)
Definition started (ix : string) (e : catShardsEntry) : bool :=
  bool_decide (ce_Index e = ix /\ ce_Node e <> "" /\ ce_State e = shardStateStarted).
Definition primary_of (ix : string) (e : catShardsEntry) : bool :=
  bool_decide (ce_Index e = ix /\ ce_PriRep e = shardTypePrimary).
Definition started_rows (ix : string) (rows : list catShardsEntry) : list catShardsEntry := List.filter (started ix) rows.
Definition primary_numbers (ix : string) (rows : list catShardsEntry) : list Z :=
  omap (fun e => Atoi (ce_Shard e)) (List.filter (primary_of ix) rows).
Definition copies_on (kind node : string) (rows : list catShardsEntry) : Z :=
  Z.of_nat (length (List.filter (fun e => bool_decide (ce_Node e = node /\ ce_PriRep e = kind)) rows)).
Definition nodes_of (kind : string) (n : Z) (rows : list catShardsEntry) : list string :=
  map ce_Node (List.filter (fun e => bool_decide (Atoi (ce_Shard e) = Some n /\ ce_PriRep e = kind)) rows).

Arguments started_rows : simpl never.
Arguments primary_numbers : simpl never.
Arguments copies_on : simpl never.
Arguments nodes_of : simpl never.

Lemma started_rows_snoc ix rows e :
  started_rows ix (rows ++ [e]) = started_rows ix rows ++ (if started ix e then [e] else []).
Proof. unfold started_rows. by rewrite List.filter_app. Qed.

Lemma primary_numbers_snoc ix rows e :
  primary_numbers ix (rows ++ [e])
  = primary_numbers ix rows ++ (if primary_of ix e then option_list (Atoi (ce_Shard e)) else []).
Proof.
  unfold primary_numbers. rewrite List.filter_app, omap_app. f_equal. cbn [List.filter].
  destruct (primary_of ix e); [|done]. cbn. by destruct (Atoi (ce_Shard e)).
Qed.

Lemma copies_on_snoc kind node rows e :
  copies_on kind node (rows ++ [e])
  = copies_on kind node rows + (if bool_decide (ce_Node e = node /\ ce_PriRep e = kind) then 1 else 0).
Proof.
  unfold copies_on. rewrite List.filter_app, length_app, Nat2Z.inj_add. f_equal. cbn [List.filter].
  by destruct (bool_decide _).
Qed.

Lemma nodes_of_snoc kind n rows e :
  nodes_of kind n (rows ++ [e])
  = nodes_of kind n rows ++ (if bool_decide (Atoi (ce_Shard e) = Some n /\ ce_PriRep e = kind) then [ce_Node e] else []).
Proof.
  unfold nodes_of. rewrite List.filter_app, map_app. f_equal. cbn [List.filter]. by destruct (bool_decide _).
Qed.

(** One scan, seen from an index. *)
Definition placed (rows : list catShardsEntry) : indexShardPlacement := foldl (fun p e => place_row e p) empty_placement rows.

Lemma placed_snoc rows e : placed (rows ++ [e]) = place_row e (placed rows).
Proof. unfold placed. by rewrite foldl_snoc. Qed.

Definition seen_numbers (l : list Z) : option (gset Z) := match l with [] => None | _ => Some (list_to_set l) end.

Lemma seen_numbers_snoc l n : seen_numbers (l ++ [n]) = Some ({[n]} ∪ default ∅ (seen_numbers l)).
Proof.
  destruct l as [|m l]; [cbn; f_equal; set_solver|].
  unfold seen_numbers. cbn [app default]. f_equal. change (m :: l ++ [n]) with ((m :: l) ++ [n]).
  apply set_eq. intros x. rewrite list_to_set_app. set_solver.
Qed.

Lemma track_primary_lookup e seen rows ix :
  (ce_Index e = ix -> seen !! ix = seen_numbers (primary_numbers ix rows)) ->
  track_primary e seen !! ix
  = if decide (ce_Index e = ix) then seen_numbers (primary_numbers ix (rows ++ [e])) else seen !! ix.
Proof.
  intros H. unfold track_primary. rewrite primary_numbers_snoc. unfold primary_of.
  destruct (decide (ce_PriRep e = shardTypePrimary)) as [Hp|Hp].
  - destruct (Atoi (ce_Shard e)) as [n|] eqn:Ha; destruct (decide (ce_Index e = ix)) as [He|He]; try done.
    + rewrite bool_decide_true by done. change (option_list (Some n)) with [n].
      rewrite seen_numbers_snoc, He, lookup_insert_eq. by rewrite (H He).
    + by rewrite lookup_insert_ne.
    + rewrite bool_decide_true by done. change (option_list (@None Z)) with (@nil Z).
      rewrite app_nil_r. by apply H.
  - destruct (decide (ce_Index e = ix)) as [He|He]; [|done].
    rewrite bool_decide_false by tauto. rewrite app_nil_r. by apply H.
Qed.

Lemma scan_spec rows ix :
  ix <> ""%string ->
  let st := foldl scan_row (∅, ∅) rows in
  st.1 !! ix = (if decide (started_rows ix rows = []) then None else Some (placed (started_rows ix rows)))
  /\ st.2 !! ix = seen_numbers (primary_numbers ix rows).
Proof.
  intros Hix. induction rows as [|e rows [IHr IHs]] using rev_ind; [done|].
  rewrite foldl_snoc. destruct (foldl scan_row (∅, ∅) rows) as [result seen]. cbn [fst snd] in *.
  unfold scan_row. destruct (decide (ce_Index e = ""%string)) as [He|He].
  - rewrite started_rows_snoc, primary_numbers_snoc. unfold started, primary_of.
    rewrite !bool_decide_false by (intros (? & _); congruence). by rewrite !app_nil_r.
  - assert (Hseen : track_primary e seen !! ix = seen_numbers (primary_numbers ix (rows ++ [e]))).
    { rewrite (track_primary_lookup e seen rows) by done.
      destruct (decide (ce_Index e = ix)) as [Hi|Hi]; [done|]. rewrite primary_numbers_snoc.
      unfold primary_of. rewrite bool_decide_false by tauto. by rewrite app_nil_r. }
    rewrite started_rows_snoc. unfold started.
    destruct (decide (ce_Node e = ""%string \/ ce_State e <> shardStateStarted)) as [Hs|Hs]; cbn [fst snd].
    + split; [|done]. rewrite bool_decide_false by tauto. by rewrite app_nil_r.
    + split; [|done]. destruct (decide (ce_Index e = ix)) as [Hi|Hi].
      * rewrite bool_decide_true by (split; [done|]; destruct (decide (ce_State e = shardStateStarted)); tauto).
        rewrite Hi, lookup_insert_eq, placed_snoc, IHr.
        rewrite (decide_False (P := _ ++ [e] = [])) by (by destruct (started_rows ix rows)).
        by destruct (decide (started_rows ix rows = [])) as [->|].
      * rewrite bool_decide_false by tauto. by rewrite app_nil_r, lookup_insert_ne.
Qed.

Lemma scan_unnamed rows : (foldl scan_row (∅, ∅) rows).1 !! ""%string = None.
Proof.
  induction rows as [|e rows IH] using rev_ind; [done|]. rewrite foldl_snoc.
  destruct (foldl scan_row (∅, ∅) rows) as [result seen]. cbn [fst] in *. unfold scan_row.
  destruct (decide (ce_Index e = ""%string)); [done|]. destruct (decide _); [done|].
  cbn [fst]. by rewrite lookup_insert_ne.
Qed.

(** The fold over the started rows, in closed form. *)
Definition copies_of (n : Z) (rows : list catShardsEntry) : option shardNodes :=
  match nodes_of shardTypePrimary n rows, nodes_of shardTypeReplica n rows with
  | [], [] => None
  | ps, rs => Some (MkShardNodes (default ""%string (last ps)) rs)
  end.
Definition node_info (node : string) (rows : list catShardsEntry) : option shardNodeInfo :=
  if existsb (fun e => String.eqb (ce_Node e) node) rows then
    Some (MkNodeInfo (copies_on shardTypePrimary node rows) (copies_on shardTypeReplica node rows))
  else None.

Lemma copies_default n rows :
  default (MkShardNodes "" []) (copies_of n rows)
  = MkShardNodes (default ""%string (last (nodes_of shardTypePrimary n rows))) (nodes_of shardTypeReplica n rows).
Proof. unfold copies_of. by destruct (nodes_of shardTypePrimary n rows), (nodes_of shardTypeReplica n rows). Qed.

Lemma copies_of_some n rows :
  nodes_of shardTypePrimary n rows ++ nodes_of shardTypeReplica n rows <> [] ->
  copies_of n rows
  = Some (MkShardNodes (default ""%string (last (nodes_of shardTypePrimary n rows))) (nodes_of shardTypeReplica n rows)).
Proof. unfold copies_of. by destruct (nodes_of shardTypePrimary n rows), (nodes_of shardTypeReplica n rows). Qed.

Lemma node_default node rows :
  default (MkNodeInfo 0 0) (node_info node rows)
  = MkNodeInfo (copies_on shardTypePrimary node rows) (copies_on shardTypeReplica node rows).
Proof.
  unfold node_info. destruct (existsb _ rows) eqn:Hx; [done|]. cbn [default].
  assert (H : forall kind, copies_on kind node rows = 0).
  { intros kind. unfold copies_on. induction rows as [|e rows IH]; [done|]. cbn [existsb] in Hx.
    apply orb_false_iff in Hx as [He Hx]. cbn [List.filter]. rewrite bool_decide_false; [by apply IH|].
    intros [Hn _]. by rewrite Hn, String.eqb_refl in He. }
  by rewrite !H.
Qed.

Lemma placed_constants rows : pl_NumberOfPrimaryShards (placed rows) = 0 /\ pl_RoutingNumShards (placed rows) = 0.
Proof.
  induction rows as [|e rows IH] using rev_ind; [done|]. rewrite placed_snoc. unfold place_row.
  by destruct (decide (ce_PriRep e = _)); [|destruct (decide (ce_PriRep e = _))].
Qed.

Lemma placed_nodes rows node : pl_Nodes (placed rows) !! node = node_info node rows.
Proof.
  induction rows as [|e rows IH] using rev_ind; [done|]. rewrite placed_snoc.
  assert (Hn : pl_Nodes (place_row e (placed rows)) !! node
    = if decide (ce_Node e = node) then
        Some (MkNodeInfo (copies_on shardTypePrimary node (rows ++ [e])) (copies_on shardTypeReplica node (rows ++ [e])))
      else pl_Nodes (placed rows) !! node).
  { unfold place_row. rewrite !copies_on_snoc. destruct (decide (ce_Node e = node)) as [He|He].
    - rewrite He, IH, node_default.
      destruct (decide (ce_PriRep e = shardTypePrimary)) as [Hp|Hp]; [|destruct (decide (ce_PriRep e = shardTypeReplica)) as [Hr|Hr]];
        cbn [pl_Nodes ni_Primaries ni_Replicas]; rewrite lookup_insert_eq; repeat f_equal;
        (rewrite ?bool_decide_true by done; rewrite ?bool_decide_false by (intros [_ Hk]; rewrite Hk in *; done)); lia.
    - destruct (decide (ce_PriRep e = shardTypePrimary)); [|destruct (decide (ce_PriRep e = shardTypeReplica))];
        cbn [pl_Nodes]; by rewrite lookup_insert_ne. }
  rewrite Hn, IH. unfold node_info. rewrite existsb_app. cbn [existsb].
  destruct (decide (ce_Node e = node)) as [->|He].
  - by rewrite String.eqb_refl, orb_true_r.
  - rewrite (proj2 (String.eqb_neq _ _) He), orb_false_r, !copies_on_snoc.
    rewrite !bool_decide_false by tauto. by rewrite !Z.add_0_r.
Qed.

Lemma copies_snoc_other n rows e :
  ~ (Atoi (ce_Shard e) = Some n /\ (ce_PriRep e = shardTypePrimary \/ ce_PriRep e = shardTypeReplica)) ->
  copies_of n (rows ++ [e]) = copies_of n rows.
Proof. intros H. unfold copies_of. rewrite !nodes_of_snoc, !bool_decide_false by tauto. by rewrite !app_nil_r. Qed.

Lemma copies_snoc_primary n rows e :
  Atoi (ce_Shard e) = Some n -> ce_PriRep e = shardTypePrimary ->
  copies_of n (rows ++ [e]) = Some (add_primary (ce_Node e) (default (MkShardNodes "" []) (copies_of n rows))).
Proof.
  intros Ha Hp. rewrite copies_default, copies_of_some; rewrite !nodes_of_snoc, (bool_decide_true (_ /\ ce_PriRep e = shardTypePrimary)) by done.
  - rewrite last_snoc, bool_decide_false by (intros [_ Hk]; rewrite Hk in *; done). by rewrite app_nil_r.
  - by destruct (nodes_of shardTypePrimary n rows).
Qed.

Lemma copies_snoc_replica n rows e :
  Atoi (ce_Shard e) = Some n -> ce_PriRep e = shardTypeReplica ->
  copies_of n (rows ++ [e]) = Some (add_replica (ce_Node e) (default (MkShardNodes "" []) (copies_of n rows))).
Proof.
  intros Ha Hp. rewrite copies_default, copies_of_some; rewrite !nodes_of_snoc, (bool_decide_true (_ /\ ce_PriRep e = shardTypeReplica)) by done.
  - rewrite bool_decide_false by (intros [_ Hk]; rewrite Hk in *; done). by rewrite app_nil_r.
  - intros H. apply app_eq_nil in H as [_ H]. by apply app_eq_nil in H as [_ H].
Qed.

Lemma placed_shards rows n : pl_ShardToNodes (placed rows) !! n = copies_of n rows.
Proof.
  induction rows as [|e rows IH] using rev_ind; [done|]. rewrite placed_snoc.
  destruct (decide (Atoi (ce_Shard e) = Some n /\ (ce_PriRep e = shardTypePrimary \/ ce_PriRep e = shardTypeReplica))) as [[Ha Hk]|Hk].
  - unfold place_row. rewrite Ha. destruct Hk as [Hp|Hp].
    + rewrite decide_True by done. cbn [pl_ShardToNodes set_copies]. by rewrite lookup_insert_eq, IH, copies_snoc_primary.
    + rewrite decide_False by (by rewrite Hp). rewrite decide_True by done.
      cbn [pl_ShardToNodes set_copies]. by rewrite lookup_insert_eq, IH, copies_snoc_replica.
  - rewrite copies_snoc_other, <- IH by done. unfold place_row.
    destruct (Atoi (ce_Shard e)) as [m|];
      (destruct (decide (ce_PriRep e = shardTypePrimary)); [|destruct (decide (ce_PriRep e = shardTypeReplica))]);
      cbn [pl_ShardToNodes set_copies]; try done; apply lookup_insert_ne; intros ->; tauto.
Qed.

(** The placement read from the rows of /_cat/shards. An index is in it
    when some row of it is started on a node. Each node counts the primaries
    and replicas started on it; each shard number maps to the node of its last
    started primary row and to those of its started replicas in the order of the
    rows; and the number of primary shards is the number of distinct shard
    numbers over the primary rows in any state, so that shards that are moving
    count. Rows of other indexes do not matter. *)
Theorem placement_of_rows (rows : list catShardsEntry) (ix : string) :
  let here := started_rows ix rows in
  (getShardPlacement rows !! ix = None <-> ix = ""%string \/ here = [])
  /\ forall p, getShardPlacement rows !! ix = Some p ->
     (forall node, pl_Nodes p !! node = node_info node here)
     /\ (forall n, pl_ShardToNodes p !! n = copies_of n here)
     /\ pl_RoutingNumShards p = 0
     /\ pl_NumberOfPrimaryShards p
        = if decide (primary_numbers ix rows = []) then count_primaries (pl_ShardToNodes p)
          else Z.of_nat (size (list_to_set (primary_numbers ix rows) : gset Z)).
Proof.
  intros here. unfold getShardPlacement. pose proof (scan_unnamed rows) as H0. pose proof (scan_spec rows ix) as Hs.
  destruct (foldl scan_row (∅, ∅) rows) as [result seen]. cbn [fst snd] in *. rewrite map_lookup_imap.
  destruct (decide (ix = ""%string)) as [->|Hix].
  { rewrite H0. cbn [mbind option_bind]. split; [split; [by left|done]|done]. }
  destruct (Hs Hix) as [Hr Hn]. rewrite Hr. fold here. destruct (decide (here = [])) as [He|He]; cbn [mbind option_bind].
  { split; [split; [by right|done]|done]. }
  split; [split; [done|tauto]|]. intros p [= <-]. cbn [number_primaries pl_Nodes pl_ShardToNodes pl_RoutingNumShards pl_NumberOfPrimaryShards].
  split; [apply placed_nodes|]. split; [apply placed_shards|]. split; [apply placed_constants|].
  rewrite Hn. by destruct (primary_numbers ix rows).
Qed.

(** Shard 1 is moving from n1 to n2: it is not routable for now, and still one
    of the two primary shards. *)
Definition moving_rows : list catShardsEntry :=
  [MkEntry "logs" "0" "p" "STARTED" "n1"; MkEntry "logs" "0" "r" "STARTED" "n2"; MkEntry "logs" "0" "r" "STARTED" "n3";
   MkEntry "logs" "1" "p" "RELOCATING" "n1"; MkEntry "logs" "1" "p" "INITIALIZING" "n2"; MkEntry "other" "7" "p" "STARTED" "n1"].
Definition moving_placement : indexShardPlacement :=
  MkPlacement (list_to_map [("n1"%string, MkNodeInfo 1 0); ("n2"%string, MkNodeInfo 0 1); ("n3"%string, MkNodeInfo 0 1)])
    2 0 (list_to_map [(0, MkShardNodes "n1" ["n2"%string; "n3"%string])]).

Lemma placement_of_rows_witness :
  getShardPlacement moving_rows !! "logs"%string = Some moving_placement
  /\ (forall n, pl_ShardToNodes moving_placement !! n = copies_of n (started_rows "logs" moving_rows))
  /\ pl_NumberOfPrimaryShards moving_placement = 2.
Proof.
  assert (Hp : getShardPlacement moving_rows !! "logs"%string = Some moving_placement) by (vm_compute; reflexivity).
  destruct (placement_of_rows moving_rows "logs") as [_ H]. destruct (H moving_placement Hp) as (_ & Hs & _ & _).
  exact (conj Hp (conj Hs eq_refl)).
Defined.

(** * Merging *)

Lemma carriesForward_false old next : carriesForward old next = false -> next ∪ old = next.
Proof.
  intros H. apply negb_false_iff, bool_decide_eq_true in H. apply map_eq. intros k.
  rewrite lookup_union. destruct (next !! k) as [c|] eqn:Hk; [by rewrite union_Some_l|].
  destruct (old !! k) as [c|] eqn:Ho; [|done]. exfalso.
  assert (k ∈ dom next) as Hd by (apply H, elem_of_dom; eauto). apply elem_of_dom in Hd as [c' Hd]. congruence.
Qed.

Definition old_shards (old : option indexShardMap) : gmap Z shardNodes := from_option sm_Shards ∅ old.

(** Before the prune, the new entries over the old ones. *)
Lemma merged_union old p :
  match old with
  | Some sm => if carriesForward (sm_Shards sm) (pl_ShardToNodes p) then pl_ShardToNodes p ∪ sm_Shards sm else pl_ShardToNodes p
  | None => pl_ShardToNodes p end = pl_ShardToNodes p ∪ old_shards old.
Proof.
  destruct old as [sm|]; cbn [old_shards from_option]; [|by rewrite map_union_empty].
  destruct (carriesForward _ _) eqn:H; [done|]. by rewrite carriesForward_false.
Qed.

Definition prunes (old : option indexShardMap) (p : indexShardPlacement) : bool :=
  (0 <? pl_NumberOfPrimaryShards p) && (pl_NumberOfPrimaryShards p <=? Z.of_nat (size (pl_ShardToNodes p)))
  && (pl_NumberOfPrimaryShards p <? Z.of_nat (size (pl_ShardToNodes p ∪ old_shards old))).

Lemma merge_pass_shards old p :
  sm_Shards (merge_pass old p)
  = (if prunes old p then prune (pl_NumberOfPrimaryShards p) else id) (pl_ShardToNodes p ∪ old_shards old).
Proof. unfold merge_pass. cbn [sm_Shards]. rewrite merged_union. unfold prunes. by destruct (_ && _). Qed.

Lemma prune_lookup n m k : prune n m !! k = if k <? n then m !! k else None.
Proof.
  unfold prune. destruct (k <? n) eqn:Hk.
  - apply option_eq. intros c. rewrite map_lookup_filter_Some. cbn [fst]. split; [tauto|]. split; [done|lia].
  - apply map_lookup_filter_None. right. intros c _. cbn [fst]. lia.
Qed.

(** What a merge stores, for every placement with shards and whatever
    other writers store meanwhile (at most two lost races are retried). It takes
    the placement's primary count and routing modulus; a shard of the new
    placement maps to its new copies, and one that the placement misses keeps the
    copies it had. Entries are left out exactly when the placement has at least
    as many shards as there are primaries and the merged map has more: then those
    numbered from the primary count on. *)
Theorem shard_map_merge (others : list (option indexShardMap)) (p : indexShardPlacement) (current : option indexShardMap) :
  pl_ShardToNodes p <> ∅ -> (length others < maxRetries)%nat ->
  let next := pl_ShardToNodes p in
  let before := old_shards (default current (last others)) in
  let n := pl_NumberOfPrimaryShards p in
  exists m, mergeShardMap (map Some others) p current = Some m
  /\ sm_NumberOfPrimaryShards m = n
  /\ sm_RoutingNumShards m = pl_RoutingNumShards p
  /\ forall k,
      sm_Shards m !! k
      = if decide (0 < n <= Z.of_nat (size next) /\ n < Z.of_nat (size (dom next ∪ dom before)) /\ n <= k) then None
        else match next !! k with Some c => Some c | None => before !! k end.
Proof.
  intros Hne Hlen next before n. exists (merge_pass (default current (last others)) p). split.
  { unfold mergeShardMap, maxRetries in *. rewrite decide_False by done.
    destruct others as [|o1 [|o2 [|]]]; cbn [length] in Hlen; [done|done|done|lia]. }
  split; [done|]. split; [done|]. intros k. rewrite merge_pass_shards. fold next n before.
  assert (Hu : (next ∪ before) !! k = match next !! k with Some c => Some c | None => before !! k end).
  { rewrite lookup_union. by destruct (next !! k), (before !! k). }
  rewrite <- dom_union_L, size_dom. unfold prunes. fold next n before.
  destruct (decide _) as [(H1 & H2 & H3)|H].
  - assert (((0 <? n) && (n <=? Z.of_nat (size next)) && (n <? Z.of_nat (size (next ∪ before)))) = true) as -> by lia.
    rewrite prune_lookup. by assert ((k <? n) = false) as -> by lia.
  - destruct ((0 <? n) && (n <=? Z.of_nat (size next)) && (n <? Z.of_nat (size (next ∪ before)))) eqn:Hp; [|done].
    rewrite prune_lookup, Hu. by assert ((k <? n) = true) as -> by lia.
Qed.

Lemma shard_map_merge_witness :
  exists m, mergeShardMap (map Some [None]) moving_placement (Some (MkShardMap 2 640 ∅)) = Some m
  /\ sm_NumberOfPrimaryShards m = 2.
Proof.
  destruct (shard_map_merge [None] moving_placement (Some (MkShardMap 2 640 ∅))) as (m & Hm & Hn & _).
  - intros H. apply (f_equal (fun m : gmap Z shardNodes => m !! 0)) in H. vm_compute in H. discriminate H.
  - unfold maxRetries. cbn. lia.
  - exists m. split; [exact Hm|]. rewrite Hn. reflexivity.
Defined.

(** * Discovery cycles *)

(** fetchAndUpdateShardPlacement, as one index with a slot sees it: the rows of
    the cycle, then the metadata, then the merge into the shard map of its slot.
    [cached] are the shard maps of all slots, [cached ix] being [current]. *)
Definition index_cycle (ix : string) (others : string -> option indexShardMap)
    (fetch : list string -> option (gmap string (Z * string)))
    (rows : list catShardsEntry) (current : option indexShardMap) : option indexShardMap :=
  let cached := fun ix' => if decide (ix' = ix) then current else others ix' in
  match fetchRoutingNumShards true cached fetch (getShardPlacement rows) !! ix with
  | Some p => mergeShardMap [] p current
  | None => current
  end.

Definition cycle_data : Type :=
  (string -> option indexShardMap) * (list string -> option (gmap string (Z * string))) * list catShardsEntry.
Definition index_cycles (ix : string) (cycles : list cycle_data) (current : option indexShardMap) : option indexShardMap :=
  foldl (fun cur '(others, fetch, rows) => index_cycle ix others fetch rows cur) current cycles.

(** With its metadata cached, an index is not asked for again. *)
Lemma fetch_cached ix cached fetch placement sm p :
  cached_meta cached ix = Some sm ->
  fetchRoutingNumShards true cached fetch placement !! ix = Some p ->
  exists p0, placement !! ix = Some p0 /\
    (p = set_routing (sm_RoutingNumShards sm) (sm_NumberOfPrimaryShards sm) p0
     \/ exists m needFetch indices, fetch needFetch = Some indices /\ ~ In ix needFetch
        /\ getRoutingMeta indices !! ix = Some m /\ p = set_routing (rm_RoutingNumShards m) (rm_NumberOfShards m)
             (set_routing (sm_RoutingNumShards sm) (sm_NumberOfPrimaryShards sm) p0)).
Proof.
  intros Hc. unfold fetchRoutingNumShards. cbn [negb].
  assert (Hn : forall l, ~ In ix (List.filter (fun ix => match cached_meta cached ix with Some _ => false | None => true end) l)).
  { intros l Hin. apply List.filter_In in Hin as [_ Hb]. by rewrite Hc in Hb. }
  specialize (Hn (elements (dom (map_imap (fun ix p => Some (match cached_meta cached ix with
    | Some sm => set_routing (sm_RoutingNumShards sm) (sm_NumberOfPrimaryShards sm) p | None => p end)) placement)))).
  revert Hn. set (need := List.filter _ _). intros Hn.
  assert (Hfirst : map_imap (fun ix p => Some (match cached_meta cached ix with
      | Some sm => set_routing (sm_RoutingNumShards sm) (sm_NumberOfPrimaryShards sm) p | None => p end)) placement !! ix
    = (fun p0 => set_routing (sm_RoutingNumShards sm) (sm_NumberOfPrimaryShards sm) p0) <$> placement !! ix).
  { rewrite map_lookup_imap, Hc. by destruct (placement !! ix). }
  destruct need as [|n need'] eqn:He.
  - rewrite Hfirst. intros H. apply fmap_Some in H as (p0 & Hp & ->). eauto.
  - destruct (fetch (n :: need')) as [indices|] eqn:Hf.
    + rewrite map_lookup_imap, Hfirst. destruct (placement !! ix) as [p0|]; cbn; [|done]. intros [= <-]. exists p0. split; [done|].
      destruct (getRoutingMeta indices !! ix) as [m|] eqn:Hm; [right|by left]. by exists m, (n :: need'), indices.
    + rewrite Hfirst. intros H. apply fmap_Some in H as (p0 & Hp & ->). eauto.
Qed.

(** The server answers only for the indexes it is asked for. *)
Definition answers_asked (fetch : list string -> option (gmap string (Z * string))) : Prop :=
  forall asked indices, fetch asked = Some indices -> forall ix, indices !! ix <> None -> In ix asked.

Lemma index_cycle_sticks ix others fetch rows sm :
  answers_asked fetch -> sm_RoutingNumShards sm <> 0 -> 0 < sm_NumberOfPrimaryShards sm ->
  exists sm', index_cycle ix others fetch rows (Some sm) = Some sm'
    /\ sm_RoutingNumShards sm' = sm_RoutingNumShards sm
    /\ sm_NumberOfPrimaryShards sm' = sm_NumberOfPrimaryShards sm
    /\ forall k, k < sm_NumberOfPrimaryShards sm -> sm_Shards sm !! k <> None -> sm_Shards sm' !! k <> None.
Proof.
  intros Hans Hr Hn. unfold index_cycle.
  set (cached := fun ix' => if decide (ix' = ix) then Some sm else others ix').
  assert (Hc : cached_meta cached ix = Some sm).
  { unfold cached_meta, cached. rewrite decide_True by done. cbn [mbind option_bind].
    by rewrite (proj2 (Z.eqb_neq _ _) Hr). }
  destruct (fetchRoutingNumShards true cached fetch (getShardPlacement rows) !! ix) as [p|] eqn:Hf; [|by exists sm].
  destruct (fetch_cached _ _ _ _ _ _ Hc Hf) as (p0 & _ & Hp).
  assert (Hset : p = set_routing (sm_RoutingNumShards sm) (sm_NumberOfPrimaryShards sm) p0).
  { destruct Hp as [->|(m & need & indices & Hfe & Hin & Hm & ->)]; [done|]. destruct Hin. apply (Hans _ _ Hfe).
    intros H. unfold getRoutingMeta in Hm. rewrite lookup_omap, H in Hm. done. }
  assert (Hpn : pl_NumberOfPrimaryShards p = sm_NumberOfPrimaryShards sm).
  { rewrite Hset. cbn [set_routing pl_NumberOfPrimaryShards]. by assert ((0 <? sm_NumberOfPrimaryShards sm) = true) as -> by lia. }
  assert (Hpr : pl_RoutingNumShards p = sm_RoutingNumShards sm) by (by rewrite Hset).
  unfold mergeShardMap. destruct (decide (pl_ShardToNodes p = ∅)) as [He|He]; [by exists sm|].
  exists (merge_pass (Some sm) p). split; [done|]. split; [done|]. split; [done|]. intros k Hk Hin.
  rewrite merge_pass_shards, Hpn.
  assert (Hu : (pl_ShardToNodes p ∪ old_shards (Some sm)) !! k <> None).
  { cbn [old_shards from_option]. rewrite lookup_union. destruct (sm_Shards sm !! k) eqn:Hs; [|done].
    by destruct (pl_ShardToNodes p !! k). }
  destruct (prunes _ _); [|done]. rewrite prune_lookup. by assert ((k <? sm_NumberOfPrimaryShards sm) = true) as -> by lia.
Qed.

(** Once the routing metadata of an index is in its slot, no later cycle
    changes the modulus or the primary count that requests are routed with, and
    no shard below that count leaves the map: whatever rows the cat API returns,
    also those of an index of the same name with fewer shards, the count of
    the rows is replaced by the cached one before the merge. The prune that
    mergeShardMap describes for an index that shrank does not happen. *)
Theorem routing_meta_sticks (ix : string) (cycles : list cycle_data) (sm : indexShardMap) :
  Forall (fun c => answers_asked c.1.2) cycles ->
  sm_RoutingNumShards sm <> 0 -> 0 < sm_NumberOfPrimaryShards sm ->
  exists sm', index_cycles ix cycles (Some sm) = Some sm'
    /\ sm_RoutingNumShards sm' = sm_RoutingNumShards sm
    /\ sm_NumberOfPrimaryShards sm' = sm_NumberOfPrimaryShards sm
    /\ forall k, k < sm_NumberOfPrimaryShards sm -> sm_Shards sm !! k <> None -> sm_Shards sm' !! k <> None.
Proof.
  intros Hans. revert sm. induction Hans as [|[[others fetch] rows] cycles Hc Hans IH]; intros sm Hr Hn.
  - by exists sm.
  - destruct (index_cycle_sticks ix others fetch rows sm Hc Hr Hn) as (sm1 & H1 & Hr1 & Hn1 & Hk1).
    destruct (IH sm1) as (sm2 & H2 & Hr2 & Hn2 & Hk2); [congruence|lia|].
    exists sm2. split; [|split; [congruence|split; [congruence|]]].
    + unfold index_cycles in *. cbn [foldl]. by rewrite H1.
    + intros k Hk Hs. apply Hk2; [lia|]. by apply Hk1.
Qed.

(** An index with three shards is deleted and created again with one. *)
Definition recreated_map : indexShardMap :=
  MkShardMap 3 768 (list_to_map [(0, MkShardNodes "n1" []); (1, MkShardNodes "n2" []); (2, MkShardNodes "n3" [])]).
Definition recreated_rows : list catShardsEntry := [MkEntry "logs" "0" "p" "STARTED" "n2"].
Definition one_shard (asked : list string) : option (gmap string (Z * string)) :=
  Some (list_to_map (map (fun ix => (ix, (1024, "1"%string))) asked)).

Lemma one_shard_answers : answers_asked one_shard.
Proof.
  intros asked indices [= <-] ix H. destruct (list_to_map _ !! ix) as [v|] eqn:Hv; [|done].
  apply elem_of_list_to_map_2 in Hv. apply list_elem_of_fmap in Hv as (y & [= -> _] & Hy).
  by apply list_elem_of_In.
Qed.

Lemma routing_meta_sticks_witness :
  exists sm', index_cycles "logs" [(fun _ => None, one_shard, recreated_rows)] (Some recreated_map) = Some sm'
    /\ sm_NumberOfPrimaryShards sm' = 3 /\ sm_Shards sm' !! 2 <> None.
Proof.
  destruct (routing_meta_sticks "logs" [(fun _ => None, one_shard, recreated_rows)] recreated_map) as (sm' & H & _ & Hn & Hk).
  - constructor; [exact one_shard_answers|constructor].
  - cbn. lia.
  - cbn. lia.
  - exists sm'. split; [exact H|]. split; [exact Hn|]. apply Hk; [cbn; lia|]. vm_compute. discriminate.
Defined.
