(* ===== verification/Score.v ===== *)
(** * Connection scoring

    shard_cost_config.go: what a connection costs for a request, from its round
    trip time, its congestion window and the shards it hosts; and
    policy_index_router.go: sorting connections by round trip time and choosing
    among candidates by score, with the warmup ramp of the connections that are
    warming.

    math.Pow is an argument of the dynamic read cost. *)

From Stdlib Require Import ZArith Lia String Sorting SpecFloat.
From stdpp Require Import base gmap list strings functions sorting.
From S2P Require Import Prelude.
From S2P Require Import Float.
From S2P Require Import Atomic.
From S2P Require Import Lifecycle.
From S2P Require Import Warmup.
From S2P Require Import Rtt.
From S2P Require Import Congestion.
From S2P Require Import Conn.
From S2P Require Import ShardMap.
Open Scope list_scope.
Open Scope Z_scope.

(** * Cost tables *)

Definition costReadReplica : f64 := f64_of_Z 1.
Definition costReadPrimary : f64 := f64_of_Z 2.
Definition costReadRelocating : f64 := f64_of_Z 8.
Definition costReadInitializing : f64 := f64_of_Z 16.
Definition costWritePrimary : f64 := f64_of_Z 1.
Definition costWriteReplica : f64 := f64_of_Z 8.
Definition costWriteRelocating : f64 := f64_of_Z 16.
Definition costWriteInitializing : f64 := f64_of_Z 24.
Definition costUnknown : f64 := f64_of_Z 32.

Inductive shardCostIndex :=
  shardCostUnknown | shardCostReplica | shardCostPrimary | shardCostInitializing | shardCostRelocating.
#[export] Instance shardCostIndex_eq_dec : EqDecision shardCostIndex.
Proof. solve_decision. Defined.

Definition shardCostMultiplier : Type := shardCostIndex -> f64.

Definition shardCostForReads : shardCostMultiplier := fun i =>
  match i with
  | shardCostUnknown => costUnknown
  | shardCostReplica => costReadReplica
  | shardCostPrimary => costReadPrimary
  | shardCostInitializing => costReadInitializing
  | shardCostRelocating => costReadRelocating
  end.
Definition shardCostForWrites : shardCostMultiplier := fun i =>
  match i with
  | shardCostUnknown => costUnknown
  | shardCostReplica => costWriteReplica
  | shardCostPrimary => costWritePrimary
  | shardCostInitializing => costWriteInitializing
  | shardCostRelocating => costWriteRelocating
  end.

Definition forNode (m : shardCostMultiplier) (node : option shardNodeInfo) : f64 :=
  match node with
  | None => m shardCostUnknown
  | Some n =>
    if wrap64 (ni_Primaries n + ni_Replicas n) =? 0 then m shardCostUnknown
    else if ni_Primaries n =? 0 then m shardCostReplica
    else if ni_Replicas n =? 0 then m shardCostPrimary
    else f64_min (m shardCostReplica) (m shardCostPrimary)
  end.

Definition forShard (m : shardCostMultiplier) (shard : option shardNodes) (connName : string) : f64 :=
  match shard with
  | None => m shardCostUnknown
  | Some s =>
    if String.eqb (sn_Primary s) connName then m shardCostPrimary
    else if existsb (String.eqb connName) (sn_Replicas s) then m shardCostReplica
    else m shardCostUnknown
  end.

Definition calcShardPrimaryPct (shard : option shardNodes) (connName : string) : f64 :=
  match shard with
  | Some s => if String.eqb (sn_Primary s) connName then f64_of_Z 1 else f64_of_Z 0
  | None => f64_of_Z 0
  end.

Definition calcNodePrimaryPct (node : option shardNodeInfo) : f64 :=
  match node with
  | None => f64_of_Z 0
  | Some n =>
    let total := wrap64 (ni_Primaries n + ni_Replicas n) in
    if total =? 0 then f64_of_Z 0 else f64_div (f64_of_Z (ni_Primaries n)) (f64_of_Z total)
  end.

(** * Scores *)

Definition defaultReadCurveBase : f64 := f64_ratio 95 100.
Definition defaultReadCurveAmplify : f64 := f64_of_Z 2.
Definition defaultReadCurveExponent : f64 := f64_of_Z 2.

Definition connScoreFunc : Type := Connection -> f64 -> f64 -> string -> bool -> f64.

(** rtt and utilization; [None] when the pool is overloaded. *)
Definition connBaseScore (conn : Connection) (poolName : string) (poolInfoReady : bool) : option (f64 * f64) :=
  if negb (String.eqb poolName "") && isPoolOverloaded (c_pools conn) poolName then None
  else
    let rtt := f64_of_Z (conn_bucket conn) in
    let cwnd := f64_of_Z (loadCwnd (c_pools conn) (c_allocatedProcessors conn) poolName poolInfoReady) in
    let inFlight := f64_of_Z (loadInFlight (c_pools conn) poolName) in
    Some (rtt, f64_div (f64_add inFlight (f64_of_Z 1)) cwnd).

Definition calcConnDefaultScore (conn : Connection) (shardCost : f64) (poolName : string) (poolInfoReady : bool) : f64 :=
  match connBaseScore conn poolName poolInfoReady with
  | None => MaxFloat64
  | Some (rtt, utilization) => f64_mul (f64_mul rtt utilization) shardCost
  end.

Section Curve.
Context (pow : f64 -> f64 -> f64).

Definition writeUtil (conn : Connection) : f64 :=
  let writePC := pr_getForScoring (c_pools conn) "write" in
  let writeCwnd := f64_of_Z (pc_cwnd writePC) in
  let writeCwnd := if f64_ltb writeCwnd (f64_of_Z 1) then f64_of_Z 1 else writeCwnd in
  f64_min (f64_max (f64_div (f64_of_Z (pc_inFlight writePC)) writeCwnd) (f64_of_Z 0)) (f64_of_Z 1).

Definition newReadScoreFunc (base amplify exponent : f64) : connScoreFunc :=
  fun conn shardCost primaryPct poolName poolInfoReady =>
  match connBaseScore conn poolName poolInfoReady with
  | None => MaxFloat64
  | Some (rtt, utilization) =>
    let cost :=
      if f64_ltb (f64_of_Z 0) primaryPct then
        let dynamicCost := f64_add base (f64_mul amplify (pow (writeUtil conn) exponent)) in
        f64_add (f64_mul (f64_sub (f64_of_Z 1) primaryPct) shardCost) (f64_mul primaryPct dynamicCost)
      else shardCost in
    f64_mul (f64_mul rtt utilization) cost
  end.
End Curve.

(** The multiplier reported for a warming connection. *)
Definition warmupPenaltyMax : f64 := costUnknown.
Definition warmupPenalty (cs : Z) : f64 :=
  let total := wm_rounds (lifecycleManager cs) in
  if total <=? 0 then f64_of_Z 1
  else
    let remaining := wm_rounds (roundManager cs) in
    let fraction := f64_div (f64_of_Z remaining) (f64_of_Z total) in
    f64_add (f64_of_Z 1) (f64_mul (f64_sub warmupPenaltyMax (f64_of_Z 1)) fraction).

(** What the scores need of an index slot: its nodes. *)
Definition slotNodes : Type := option (gmap string shardNodeInfo).

Definition shard_cost (costs : shardCostMultiplier) (slot : option slotNodes) (shard : option shardNodes) (c : Connection) : f64 * f64 :=
  match shard, slot with
  | Some _, _ => (forShard costs shard (c_Name c), calcShardPrimaryPct shard (c_Name c))
  | None, Some nodes =>
    let nodeInfo := m ← nodes; m !! c_Name c in (forNode costs nodeInfo, calcNodePrimaryPct nodeInfo)
  | None, None => (costUnknown, f64_of_Z 0)
  end.

Definition conn_score (costs : shardCostMultiplier) (scoreFunc : option connScoreFunc) (slot : option slotNodes)
    (shard : option shardNodes) (poolName : string) (poolInfoReady : bool) (c : Connection) : f64 :=
  let '(sc, primaryPct) := shard_cost costs slot shard c in
  match scoreFunc with
  | Some f => f c sc primaryPct poolName poolInfoReady
  | None => calcConnDefaultScore c sc poolName poolInfoReady
  end.

Fixpoint add_extra (scores : list f64) (extraCost : option (list f64)) : list f64 :=
  match scores, extraCost with
  | s :: scores', Some (x :: extra') => f64_add s x :: add_extra scores' (Some extra')
  | _, _ => scores
  end.

(** * Choosing *)

(** The first index with the least score below MaxFloat64. *)
Fixpoint least_from (i : nat) (scores : list f64) (bestIdx : option nat) (bestScore : f64) : option nat :=
  match scores with
  | [] => bestIdx
  | s :: rest => if f64_ltb s bestScore then least_from (S i) rest (Some i) s else least_from (S i) rest bestIdx bestScore
  end.
Definition least (scores : list f64) : option nat := least_from 0 scores None MaxFloat64.

Definition maxInt : Z := 2 ^ 63 - 1.

(** The warming candidate that is to be taken when all are skipped, and its
    remaining skips. *)
Definition warming_best : Type := option loc * Z.
Definition note_skipped (c : loc) (remSkip : Z) (b : warming_best) : warming_best :=
  if remSkip <=? b.2 then (Some c, remSkip) else b.

(** The loop over the candidates in ascending order of score. *)
Fixpoint select_loop (n : nat) (candidates : list loc) (h : heap) (scores : list f64) (b : warming_best) : heap * option loc :=
  match n with
  | O => (h, b.1)
  | S n' =>
    match least scores with
    | None => (h, b.1)
    | Some i =>
      match candidates !! i with
      | None => (h, None)
      | Some c =>
        let scores := <[i := f64_inf]> scores in
        if negb (isWarmingUp (c_state (deref h c))) then (h, Some c)
        else
          let '(conn, r) := conn_tryWarmupSkip (deref h c) in
          let h := <[c := conn]> h in
          match r with
          | warmupAccepted | warmupInactive => (h, Some c)
          | warmupSkipped => select_loop n' candidates h scores (note_skipped c (wm_skipCount (roundManager (c_state conn))) b)
          end
      end
    end
  end.

Definition choose_best (candidates : list loc) (h : heap) (scores : list f64) : heap * option loc :=
  let '(h, best) := select_loop (length candidates) candidates h scores (None, maxInt) in
  (h, match best with Some c => Some c | None => head candidates end).

Definition connScoreSelect (h : heap) (candidates : list loc) (slot : option slotNodes) (shard : option shardNodes)
    (costs : shardCostMultiplier) (poolName : string) (poolInfoReady : bool) (scoreFunc : option connScoreFunc)
    (extraCost : option (list f64)) : heap * option loc :=
  match candidates with
  | [] => (h, None)
  | _ =>
    let scores := map (fun c => conn_score costs scoreFunc slot shard poolName poolInfoReady (deref h c)) candidates in
    choose_best candidates h (add_extra scores extraCost)
  end.

(** * Sorting by round trip time *)

(** [a] may stay before [b]. *)
Definition rtt_before (h : heap) (a b : loc) : bool :=
  (conn_bucket (deref h a) <? conn_bucket (deref h b))
  || (conn_bucket (deref h a) =? conn_bucket (deref h b)) && String.leb (c_URLString (deref h a)) (c_URLString (deref h b)).

(** The inner loop: shift the key left past the sorted prefix, given reversed. *)
Fixpoint shift_in (h : heap) (key : loc) (rev_prefix : list loc) : list loc :=
  match rev_prefix with
  | [] => [key]
  | c :: rest => if rtt_before h c key then key :: c :: rest else c :: shift_in h key rest
  end.
Definition sortConnectionsByRTT (h : heap) (conns : list loc) : list loc :=
  rev (foldl (fun sorted key => shift_in h key sorted) [] conns).

(** * The least score *)

Definition eligible (scores : list f64) (i : nat) : Prop := exists s, scores !! i = Some s /\ f64_ltb s MaxFloat64 = true.
(** [i] is tried before [j]: a lower score, or the same and an earlier place. *)
Definition better (scores : list f64) (i j : nat) : Prop :=
  exists si sj, scores !! i = Some si /\ scores !! j = Some sj /\
    (f64_ltb si sj = true \/ (f64_ltb sj si = false /\ (i < j)%nat)).

Definition least_so_far (scores : list f64) (best : option nat) (bestScore : f64) : Prop :=
  match best with
  | None => bestScore = MaxFloat64 /\ forall j, ~ eligible scores j
  | Some b => scores !! b = Some bestScore /\ f64_ltb bestScore MaxFloat64 = true
      /\ forall j, eligible scores j -> j <> b -> better scores b j
  end.

Lemma eligible_snoc pre s j :
  eligible (pre ++ [s]) j <-> eligible pre j \/ (j = length pre /\ f64_ltb s MaxFloat64 = true).
Proof.
  unfold eligible. split.
  - intros (x & Hx & Hlt). apply lookup_app_Some in Hx as [Hx|[Hl Hx]]; [by left; exists x|].
    apply list_lookup_singleton_Some in Hx as [Hj ->]. right. split; [lia|done].
  - intros [(x & Hx & Hlt)|[-> Hlt]]; [exists x; split; [by apply lookup_app_l_Some|done]|].
    exists s. split; [|done]. by rewrite lookup_app_r, Nat.sub_diag by lia.
Qed.

Lemma better_app pre suf i j : better pre i j -> better (pre ++ suf) i j.
Proof. intros (si & sj & Hi & Hj & H). exists si, sj. repeat split; [by apply lookup_app_l_Some..|done]. Qed.

Lemma least_step pre s best bs :
  least_so_far pre best bs ->
  if f64_ltb s bs then least_so_far (pre ++ [s]) (Some (length pre)) s else least_so_far (pre ++ [s]) best bs.
Proof.
  assert (Hs : (pre ++ [s]) !! length pre = Some s) by (by rewrite lookup_app_r, Nat.sub_diag by lia).
  destruct best as [b|]; cbn [least_so_far].
  - intros (Hb & Hmax & Hbest). assert (b < length pre)%nat as Hlt by (by apply lookup_lt_Some in Hb).
    destruct (f64_ltb s bs) eqn:Hs'.
    + split; [done|]. split; [by apply (f64_ltb_trans s bs)|]. intros j Hj Hne.
      apply eligible_snoc in Hj as [(x & Hx & Hxm)|[-> _]]; [|done].
      exists s, x. split; [done|]. split; [by apply lookup_app_l_Some|]. left.
      destruct (decide (j = b)) as [->|Hjb]; [congruence|].
      destruct (Hbest j) as (sb & sj & Hb' & Hj' & [Hl|[Hl _]]); [by exists x|done| |]; simplify_eq.
      * by apply (f64_ltb_trans s bs).
      * apply (f64_ltb_not_below s bs); [by apply f64_ltb_nan in Hxm as [? _]|done|done].
    + split; [by apply lookup_app_l_Some|]. split; [done|]. intros j Hj Hne.
      apply eligible_snoc in Hj as [Hj|[-> _]]; [apply better_app; by apply Hbest|].
      exists bs, s. split; [by apply lookup_app_l_Some|]. split; [done|]. right. by split.
  - intros (-> & Hnone). destruct (f64_ltb s MaxFloat64) eqn:Hs'.
    + split; [done|]. split; [done|]. intros j Hj Hne. apply eligible_snoc in Hj as [Hj|[-> _]]; [by destruct (Hnone j)|done].
    + split; [done|]. intros j Hj. apply eligible_snoc in Hj as [Hj|[_ Hj]]; [by apply (Hnone j)|congruence].
Qed.

Lemma least_from_spec l pre best bs :
  least_so_far pre best bs -> exists bs', least_so_far (pre ++ l) (least_from (length pre) l best bs) bs'.
Proof.
  revert pre best bs. induction l as [|s l IH]; intros pre best bs H; cbn [least_from].
  - exists bs. by rewrite app_nil_r.
  - pose proof (least_step pre s best bs H) as Hstep. rewrite cons_middle, (assoc_L (++)).
    destruct (f64_ltb s bs); destruct (IH _ _ _ Hstep) as [bs' Hbs']; exists bs';
      rewrite length_app, Nat.add_1_r in Hbs'; exact Hbs'.
Qed.

Lemma least_spec scores :
  match least scores with
  | None => forall j, ~ eligible scores j
  | Some i => eligible scores i /\ forall j, eligible scores j -> j <> i -> better scores i j
  end.
Proof.
  destruct (least_from_spec scores [] None MaxFloat64) as [bs H].
  { split; [done|]. intros j (s & Hs & _). done. }
  cbn in H. change (least_from 0 scores None MaxFloat64) with (least scores) in H.
  destruct (least scores) as [i|]; [|by destruct H].
  destruct H as (Hi & Hm & H). split; [by exists bs|done].
Qed.

(** * Trying the candidates *)

Definition mark_tried (scores : list f64) (tried : list nat) : list f64 := foldl (fun sc i => <[i := f64_inf]> sc) scores tried.

Lemma mark_snoc scores tried i : mark_tried scores (tried ++ [i]) = <[i := f64_inf]> (mark_tried scores tried).
Proof. unfold mark_tried. by rewrite foldl_snoc. Qed.

Lemma mark_lookup scores tried i :
  mark_tried scores tried !! i = if decide (i ∈ tried) then (fun _ => f64_inf) <$> scores !! i else scores !! i.
Proof.
  induction tried as [|j tried IH] using rev_ind; [done|]. rewrite mark_snoc.
  destruct (decide (i = j)) as [->|Hne].
  - rewrite decide_True by set_solver. destruct (scores !! j) as [s|] eqn:Hs.
    + rewrite list_lookup_insert_eq; [done|]. apply lookup_lt_is_Some. rewrite IH. by destruct (decide (j ∈ tried)).
    + rewrite list_insert_ge; [rewrite IH; by destruct (decide (j ∈ tried))|].
      apply lookup_ge_None. rewrite IH. by destruct (decide (j ∈ tried)).
  - rewrite list_lookup_insert_ne, IH by done. destruct (decide (i ∈ tried)); [rewrite decide_True by set_solver|rewrite decide_False by set_solver]; done.
Qed.

Lemma mark_eligible scores tried i : eligible (mark_tried scores tried) i <-> eligible scores i /\ i ∉ tried.
Proof.
  unfold eligible. rewrite mark_lookup. destruct (decide (i ∈ tried)) as [Hi|Hi]; [|naive_solver].
  split; [|tauto]. intros (s & Hs & Hlt). apply fmap_Some in Hs as (x & _ & ->). done.
Qed.

Lemma mark_better scores tried i j : i ∉ tried -> j ∉ tried -> better (mark_tried scores tried) i j -> better scores i j.
Proof. intros Hi Hj (si & sj & H1 & H2 & H). rewrite mark_lookup, decide_False in H1 by done. rewrite mark_lookup, decide_False in H2 by done. by exists si, sj. Qed.

Definition passes_over (h : heap) (c : loc) : bool :=
  isWarmingUp (c_state (deref h c)) && bool_decide ((conn_tryWarmupSkip (deref h c)).2 = warmupSkipped).
Definition skips_left (h : heap) (c : loc) : Z := wm_skipCount (roundManager (c_state (conn_tryWarmupSkip (deref h c)).1)).

(** What trying a candidate leaves: one step of its ramp. *)
Definition ramped (h0 : heap) (tried : list loc) (h : heap) : Prop :=
  forall c, deref h c = if decide (c ∈ tried) then (conn_tryWarmupSkip (deref h0 c)).1 else deref h0 c.

Lemma skip_not_warming conn : isWarmingUp (c_state conn) = false -> (conn_tryWarmupSkip conn).1 = conn.
Proof. intros H. unfold conn_tryWarmupSkip. rewrite tryWarmupSkip_inactive by done. by destruct conn. Qed.

Lemma ramped_insert h0 tried h c :
  ramped h0 tried h -> c ∉ tried -> ramped h0 (tried ++ [c]) (<[c := (conn_tryWarmupSkip (deref h c)).1]> h).
Proof.
  intros H Hc c'. pose proof (H c) as Hcc. rewrite decide_False in Hcc by done. rewrite Hcc. unfold deref at 1.
  destruct (decide (c' = c)) as [->|Hne].
  - rewrite lookup_insert_eq, decide_True by set_solver. done.
  - rewrite lookup_insert_ne by done. fold (deref h c'). rewrite H.
    destruct (decide (c' ∈ tried)); [rewrite decide_True by set_solver|rewrite decide_False by set_solver]; done.
Qed.

Lemma ramped_same h0 tried h c :
  ramped h0 tried h -> c ∉ tried -> isWarmingUp (c_state (deref h0 c)) = false -> ramped h0 (tried ++ [c]) h.
Proof.
  intros H Hc Hw c'. rewrite H. destruct (decide (c' ∈ tried)); [rewrite decide_True by set_solver; done|].
  destruct (decide (c' = c)) as [->|Hne]; [|by rewrite decide_False by set_solver].
  rewrite decide_True by set_solver. by rewrite skip_not_warming.
Qed.

Lemma skips_left_max h c : skips_left h c <= maxInt.
Proof.
  unfold skips_left, wm_skipCount. set (x := roundManager _). change wmSkipCountMask with wmRoundsMask.
  rewrite land_ones8. pose proof (Z.mod_pos_bound x 256). unfold maxInt. lia.
Qed.

Section Choice.
Context (candidates : list loc) (h0 : heap) (scores0 : list f64).
Context (Hnodup : NoDup candidates) (Hlen : length scores0 = length candidates).

Definition cand (i : nat) : loc := default 0%nat (candidates !! i).
Definition noted (tried : list nat) : warming_best :=
  foldl (fun b i => note_skipped (cand i) (skips_left h0 (cand i)) b) (None, maxInt) tried.

(** The last among those with the fewest skips left. *)
Lemma noted_spec tried :
  match (noted tried).1 with
  | None => tried = []
  | Some c => exists i, i ∈ tried /\ c = cand i /\ forall j, j ∈ tried -> skips_left h0 c <= skips_left h0 (cand j)
  end /\ match (noted tried).1 with Some c => (noted tried).2 = skips_left h0 c | None => (noted tried).2 = maxInt end.
Proof using.
  clear Hnodup Hlen. induction tried as [|i tried [IH1 IH2]] using rev_ind; [done|].
  unfold noted. rewrite foldl_snoc. fold (noted tried). unfold note_skipped.
  destruct (skips_left h0 (cand i) <=? (noted tried).2) eqn:Hle; cbn [fst snd].
  - split; [|done]. exists i. split; [set_solver|split; [done|]]. intros j Hj. apply elem_of_app in Hj as [Hj|Hj].
    + destruct ((noted tried).1) as [c|] eqn:Hc; [|subst; set_solver]. destruct IH1 as (i' & _ & _ & Hmin).
      specialize (Hmin j Hj). rewrite IH2 in Hle. lia.
    + apply list_elem_of_singleton in Hj as ->. lia.
  - pose proof (skips_left_max h0 (cand i)). destruct ((noted tried).1) as [c|] eqn:Hc; [|rewrite IH2 in Hle; lia].
    split; [|done]. destruct IH1 as (i' & Hi' & Hci' & Hmin). exists i'. split; [set_solver|split; [done|]].
    intros j Hj. apply elem_of_app in Hj as [Hj|Hj]; [by apply Hmin|]. apply list_elem_of_singleton in Hj as ->.
    rewrite IH2 in Hle. lia.
Qed.

Record tried_ok (tried : list nat) (h : heap) : Prop := {
  tk_nodup : NoDup tried;
  tk_eligible : forall i, i ∈ tried -> eligible scores0 i /\ passes_over h0 (cand i) = true;
  tk_closed : forall i j, i ∈ tried -> eligible scores0 j -> j ∉ tried -> better scores0 i j;
  tk_sorted : StronglySorted (better scores0) tried;
  tk_heap : ramped h0 (map cand tried) h }.

Lemma eligible_cand i : eligible scores0 i -> candidates !! i = Some (cand i).
Proof using Hlen.
  intros (s & Hs & _). unfold cand. apply lookup_lt_Some in Hs. rewrite Hlen in Hs.
  apply lookup_lt_is_Some in Hs as [c ->]. done.
Qed.

Lemma cand_inj i j : eligible scores0 i -> eligible scores0 j -> cand i = cand j -> i = j.
Proof using Hlen Hnodup.
  intros Hi Hj H. apply eligible_cand in Hi, Hj. rewrite H in Hi. by apply (NoDup_lookup candidates i j (cand j)).
Qed.

Lemma cand_fresh tried h i : tried_ok tried h -> eligible scores0 i -> i ∉ tried -> cand i ∉ map cand tried.
Proof using Hlen Hnodup.
  intros Hok Hi Hn Hin. apply list_elem_of_fmap in Hin as (j & Hj & Hjt).
  apply (cand_inj i j) in Hj; [by subst|done|]. by apply (tk_eligible _ _ Hok).
Qed.

(** The one tried next. *)
Definition next_tried (tried : list nat) (i : nat) : Prop :=
  eligible scores0 i /\ i ∉ tried /\ forall j, eligible scores0 j -> j ∉ tried -> j <> i -> better scores0 i j.

Lemma least_next tried h :
  tried_ok tried h ->
  match least (mark_tried scores0 tried) with
  | None => forall j, eligible scores0 j -> j ∈ tried
  | Some i => next_tried tried i
  end.
Proof using.
  clear Hnodup Hlen. intros _. pose proof (least_spec (mark_tried scores0 tried)) as H.
  destruct (least (mark_tried scores0 tried)) as [i|].
  - destruct H as [Hi H]. apply mark_eligible in Hi as [Hi Hn]. split; [done|split; [done|]].
    intros j Hj Hjn Hne. apply (mark_better _ tried); [done|done|]. apply H; [by apply mark_eligible|done].
  - intros j Hj. destruct (decide (j ∈ tried)); [done|]. destruct (H j). by apply mark_eligible.
Qed.

Lemma tried_snoc tried h i :
  tried_ok tried h -> next_tried tried i -> passes_over h0 (cand i) = true ->
  tried_ok (tried ++ [i]) (<[cand i := (conn_tryWarmupSkip (deref h (cand i))).1]> h).
Proof using Hlen Hnodup.
  intros Hok (Hi & Hn & Hmin) Hp. pose proof (cand_fresh tried h i Hok Hi Hn) as Hf. destruct Hok as [Hnd Hel Hcl Hso Hh]. constructor.
  - apply NoDup_app. split; [done|]. split; [|apply NoDup_singleton]. intros j Hj Hji. apply list_elem_of_singleton in Hji. by subst.
  - intros j Hj. apply elem_of_app in Hj as [Hj|Hj]; [by apply Hel|]. by apply list_elem_of_singleton in Hj as ->.
  - intros j k Hj Hk Hkn. apply elem_of_app in Hj as [Hj|Hj]; [apply Hcl; set_solver|].
    apply list_elem_of_singleton in Hj as ->. apply Hmin; set_solver.
  - apply StronglySorted_app. split; [|split; [done|repeat constructor]].
    intros j k Hj Hk. apply list_elem_of_singleton in Hk as ->. by apply Hcl.
  - rewrite map_app. by apply ramped_insert.
Qed.

Lemma tried_full tried h :
  tried_ok tried h -> length tried = length candidates -> forall j, eligible scores0 j -> j ∈ tried.
Proof using Hlen.
  intros Hok Hl j Hj.
  assert (Hlt : forall i, eligible scores0 i -> In i (seq 0 (length candidates))).
  { intros i Hi. apply eligible_cand in Hi. apply lookup_lt_Some in Hi. apply in_seq. lia. }
  apply list_elem_of_In. apply (NoDup_length_incl (l := tried) (l' := seq 0 (length candidates))).
  - apply NoDup_ListNoDup, (tk_nodup _ _ Hok).
  - rewrite length_seq. lia.
  - intros i Hi. apply Hlt, (tk_eligible _ _ Hok). by apply list_elem_of_In.
  - by apply Hlt.
Qed.

(** How a choice ends. *)
Record outcome (skipped : list nat) (chosen : option nat) (h : heap) (best : option loc) : Prop := {
  oc_skipped : forall i, i ∈ skipped -> eligible scores0 i /\ passes_over h0 (cand i) = true;
  oc_closed : forall i j, i ∈ skipped -> eligible scores0 j -> j ∉ skipped -> better scores0 i j;
  oc_sorted : StronglySorted (better scores0) skipped;
  oc_heap : ramped h0 (map cand (skipped ++ option_list chosen)) h;
  oc_best : match chosen with
    | Some i => next_tried skipped i /\ passes_over h0 (cand i) = false /\ best = Some (cand i)
    | None => (forall j, eligible scores0 j -> j ∈ skipped) /\ best = (noted skipped).1
    end }.

Lemma outcome_none tried h :
  tried_ok tried h -> (forall j, eligible scores0 j -> j ∈ tried) -> outcome tried None h (noted tried).1.
Proof using. clear Hnodup Hlen. intros [_ Hel Hcl Hso Hh] Hall. constructor; [done|done|done| |done]. by rewrite app_nil_r. Qed.

Lemma outcome_some tried h0' h i :
  tried_ok tried h0' -> next_tried tried i -> passes_over h0 (cand i) = false ->
  ramped h0 (map cand tried ++ [cand i]) h -> outcome tried (Some i) h (Some (cand i)).
Proof using. clear Hnodup Hlen. intros [_ Hel Hcl Hso Hh] Hn Hp Hr. constructor; [done|done|done| |done]. by rewrite map_app. Qed.

Lemma select_loop_spec n tried h :
  tried_ok tried h -> (length tried + n = length candidates)%nat ->
  let '(h', best) := select_loop n candidates h (mark_tried scores0 tried) (noted tried) in
  exists skipped chosen, outcome skipped chosen h' best.
Proof using Hlen Hnodup.
  revert tried h. induction n as [|n IH]; intros tried h Hok Hl; cbn [select_loop].
  { exists tried, None. apply outcome_none; [done|]. apply (tried_full tried h Hok). lia. }
  pose proof (least_next tried h Hok) as Hnext. destruct (least (mark_tried scores0 tried)) as [i|]; [|by exists tried, None; apply outcome_none].
  pose proof Hnext as (Hi & Hn & Hmin).
  pose proof (cand_fresh tried h i Hok Hi Hn) as Hf. rewrite (eligible_cand i Hi).
  pose proof (tk_heap _ _ Hok (cand i)) as Hd. rewrite decide_False in Hd by done. rewrite Hd.
  destruct (isWarmingUp (c_state (deref h0 (cand i)))) eqn:Hw; cbn [negb].
  - pose proof (ramped_insert h0 _ h (cand i) (tk_heap _ _ Hok) Hf) as Hr. rewrite Hd in Hr.
    destruct (conn_tryWarmupSkip (deref h0 (cand i))) as [conn r] eqn:Hs. cbn [fst] in Hr.
    assert (Hp : passes_over h0 (cand i) = bool_decide (r = warmupSkipped)) by (unfold passes_over; by rewrite Hw, Hs).
    destruct r; [|by exists tried, (Some i); apply (outcome_some tried h)..].
    pose proof (tried_snoc tried h i Hok Hnext Hp) as Hok'. rewrite Hd, Hs in Hok'. cbn [fst] in Hok'.
    specialize (IH (tried ++ [i]) (<[cand i := conn]> h) Hok'). rewrite mark_snoc in IH.
    assert (Hb : noted (tried ++ [i]) = note_skipped (cand i) (wm_skipCount (roundManager (c_state conn))) (noted tried)).
    { unfold noted. rewrite foldl_snoc. unfold skips_left. by rewrite Hs. }
    rewrite Hb in IH. apply IH. rewrite length_app. cbn. lia.
  - exists tried, (Some i). apply (outcome_some tried h); [done|done|by unfold passes_over; rewrite Hw|].
    apply ramped_same; [by apply tk_heap|done|done].
Qed.
End Choice.

Lemma add_extra_length scores extra : length (add_extra scores extra) = length scores.
Proof. revert extra. induction scores as [|s scores IH]; intros [[|x extra]|]; cbn; f_equal; auto. Qed.

Lemma choose_spec candidates h scores :
  NoDup candidates -> length scores = length candidates ->
  let '(h', best) := choose_best candidates h scores in
  exists skipped chosen best', outcome candidates h scores skipped chosen h' best'
    /\ best = match best' with Some c => Some c | None => head candidates end.
Proof.
  intros Hnd Hl. unfold choose_best.
  pose proof (select_loop_spec candidates h scores Hnd Hl (length candidates) [] h) as H. cbn [mark_tried foldl noted] in H.
  destruct (select_loop (length candidates) candidates h scores (None, maxInt)) as [h' best'].
  destruct H as (skipped & chosen & H).
  - constructor; try set_solver; [constructor|constructor|]. intros c. by rewrite decide_False by set_solver.
  - done.
  - by exists skipped, chosen, best'.
Qed.

Lemma connScoreSelect_choose h candidates slot shard costs poolName poolInfoReady scoreFunc extraCost :
  candidates <> [] ->
  connScoreSelect h candidates slot shard costs poolName poolInfoReady scoreFunc extraCost
  = choose_best candidates h (add_extra (map (fun c => conn_score costs scoreFunc slot shard poolName poolInfoReady (deref h c)) candidates) extraCost).
Proof. by destruct candidates. Qed.

(** The candidate a request goes to. The candidates are tried from the
    least score on (the first of equal ones), and each is passed over while it is
    warming up and its ramp says skip; the first that is not passed over is
    chosen. If all are passed over, it is one with the fewest skips left. Only if
    no score is below MaxFloat64 it is the first of the list. Nothing changes but
    the ramps of the candidates tried, by one step each. *)
Theorem select_least_score (h : heap) (candidates : list loc) (slot : option slotNodes) (shard : option shardNodes)
    (costs : shardCostMultiplier) (poolName : string) (poolInfoReady : bool) (scoreFunc : option connScoreFunc)
    (extraCost : option (list f64)) :
  candidates <> [] -> NoDup candidates ->
  let scores := add_extra (map (fun c => conn_score costs scoreFunc slot shard poolName poolInfoReady (deref h c)) candidates) extraCost in
  let at_ := cand candidates in
  let '(h', best) := connScoreSelect h candidates slot shard costs poolName poolInfoReady scoreFunc extraCost in
  exists skipped chosen,
    (forall i, i ∈ skipped -> eligible scores i /\ passes_over h (at_ i) = true)
    /\ StronglySorted (better scores) skipped
    /\ (forall i j, i ∈ skipped -> eligible scores j -> j ∉ skipped -> better scores i j)
    /\ (forall c, deref h' c = if decide (c ∈ map at_ (skipped ++ option_list chosen))
                               then (conn_tryWarmupSkip (deref h c)).1 else deref h c)
    /\ match chosen with
       | Some i => best = Some (at_ i) /\ passes_over h (at_ i) = false
           /\ eligible scores i /\ i ∉ skipped
           /\ forall j, eligible scores j -> j ∉ skipped -> j <> i -> better scores i j
       | None => (forall j, eligible scores j -> j ∈ skipped)
           /\ if decide (skipped = []) then best = head candidates
              else exists i, i ∈ skipped /\ best = Some (at_ i)
                   /\ forall j, j ∈ skipped -> skips_left h (at_ i) <= skips_left h (at_ j)
       end.
Proof.
  intros Hne Hnd scores at_. rewrite connScoreSelect_choose by done. fold scores. pose proof (choose_spec candidates h scores Hnd) as H. destruct (choose_best candidates h scores) as [h' best].
  destruct H as (skipped & chosen & best' & [H1 H2 H3 H4 H5] & Hb); [unfold scores; by rewrite add_extra_length, length_map|].
  exists skipped, chosen. split; [done|]. split; [done|]. split; [done|]. split; [done|].
  destruct chosen as [i|].
  - destruct H5 as ((Hi & Hn & Hmin) & Hp & ->). by repeat split.
  - destruct H5 as (Hall & ->). split; [done|]. destruct (noted_spec candidates h skipped) as [Hn _].
    destruct (noted candidates h skipped).1 as [c|].
    + destruct Hn as (i & Hi & -> & Hmin). rewrite decide_False by (intros ->; by apply not_elem_of_nil in Hi). by exists i.
    + by rewrite decide_True.
Qed.

(** Two candidates are warming, one is not; the nearest is skipped by its ramp. *)
Definition ex_scored (url : string) (bucket state : Z) : Connection :=
  MkConnection url url url ∅ 1 8 (Some (RttRing (replicate 12 bucket) 12)) pr_zero 0 state 0 0 0 0 false.
Definition ex_candidates_heap : heap := list_to_map
  [(1%nat, ex_scored "a" 8 (warmupState (lcReady ||| lcNeedsWarmup) 4 8));
   (2%nat, ex_scored "b" 16 (newConnState lcReady)); (3%nat, ex_scored "c" 12 (newConnState lcReady))].

Lemma select_least_score_witness :
  (connScoreSelect ex_candidates_heap [1; 2; 3]%nat None None shardCostForReads "search" true None None).2 = Some 3%nat
  /\ exists skipped chosen,
    StronglySorted (better (map (fun c => conn_score shardCostForReads None None None "search" true (deref ex_candidates_heap c)) [1; 2; 3]%nat)) skipped
    /\ match chosen with Some i => i ∉ skipped | None => True end.
Proof.
  split; [vm_compute; reflexivity|].
  pose proof (select_least_score ex_candidates_heap [1; 2; 3]%nat None None shardCostForReads "search" true None None) as H.
  destruct (connScoreSelect _ _ _ _ _ _ _ _ _) as [h' best] in H. destruct H as (skipped & chosen & _ & H1 & _ & _ & H2).
  - discriminate.
  - repeat constructor; set_solver.
  - exists skipped, chosen. split; [exact H1|]. destruct chosen; [|exact I]. destruct H2 as (_ & _ & _ & H2 & _). exact H2.
Defined.

(** When the pool of every candidate is overloaded, every score is
    MaxFloat64, and no candidate is tried: the first of the list is chosen,
    whatever its round trip time, and the others' ramps stay where they are. *)
Theorem all_overloaded_first (h : heap) (candidates : list loc) (slot : option slotNodes) (shard : option shardNodes)
    (costs : shardCostMultiplier) (poolName : string) (poolInfoReady : bool) :
  poolName <> ""%string ->
  (forall c, c ∈ candidates -> isPoolOverloaded (c_pools (deref h c)) poolName = true) ->
  connScoreSelect h candidates slot shard costs poolName poolInfoReady None None = (h, head candidates).
Proof.
  intros Hp Hall. destruct (decide (candidates = [])) as [->|Hne]; [done|]. rewrite connScoreSelect_choose by done.
  set (scores := map _ candidates).
  assert (Hs : forall i, ~ eligible scores i).
  { intros i (s & Hs & Hlt). unfold scores in Hs. rewrite list_lookup_fmap in Hs. apply fmap_Some in Hs as (c & Hin & ->).
    apply list_elem_of_lookup_2, Hall in Hin. revert Hlt. unfold conn_score, shard_cost.
    assert (Hx : forall sc, calcConnDefaultScore (deref h c) sc poolName poolInfoReady = MaxFloat64).
    { intros sc. unfold calcConnDefaultScore, connBaseScore. by rewrite Hin, (proj2 (String.eqb_neq _ _) Hp). }
    destruct shard; [by rewrite Hx|]. destruct slot; by rewrite Hx. }
  assert (Hl : least scores = None).
  { pose proof (least_spec scores) as H. destruct (least scores) as [i|]; [|done]. by destruct (Hs i (proj1 H)). }
  assert (Ha : add_extra scores None = scores) by (by destruct scores). rewrite Ha.
  unfold choose_best. destruct (length candidates); cbn [select_loop]; [done|]. by rewrite Hl.
Qed.

Definition ex_busy (url : string) (bucket : Z) : Connection :=
  MkConnection url url url ∅ 1 8 (Some (RttRing (replicate 12 bucket) 12))
    (PoolRegistry (list_to_map [("search"%string, pc_with_overloaded pc_zero true)]) pc_zero) 0 0 0 0 0 0 false.
Definition ex_busy_heap : heap := list_to_map [(1%nat, ex_busy "far" 20); (2%nat, ex_busy "near" 8)].

Lemma all_overloaded_first_witness :
  connScoreSelect ex_busy_heap [1; 2]%nat None None shardCostForReads "search" true None None = (ex_busy_heap, Some 1%nat).
Proof.
  apply (all_overloaded_first ex_busy_heap [1; 2]%nat None None shardCostForReads "search" true); [discriminate|].
  intros c Hc. apply elem_of_cons in Hc as [->|Hc]; [vm_compute; reflexivity|].
  apply list_elem_of_singleton in Hc as ->. vm_compute. reflexivity.
Defined.

(** * The order by round trip time *)

Lemma string_leb_le a b : String.leb a b = true <-> String.le a b.
Proof. unfold String.le. by rewrite Is_true_true. Qed.

Lemma rtt_before_trans h a b c : rtt_before h a b = true -> rtt_before h b c = true -> rtt_before h a c = true.
Proof.
  unfold rtt_before. rewrite !orb_true_iff, !andb_true_iff, !Z.ltb_lt, !Z.eqb_eq.
  intros [H|[H Hs]] [H'|[H' Hs']]; [left; lia..|right]. split; [lia|].
  rewrite string_leb_le in *. by trans (c_URLString (deref h b)).
Qed.

Lemma rtt_before_total h a b : rtt_before h a b = false -> rtt_before h b a = true.
Proof.
  unfold rtt_before. rewrite orb_false_iff, orb_true_iff, !andb_true_iff, !Z.ltb_lt, !Z.eqb_eq, Z.ltb_ge.
  intros [H1 H2]. destruct (decide (conn_bucket (deref h b) < conn_bucket (deref h a))); [by left|right]. split; [lia|].
  apply andb_false_iff in H2 as [H2|H2]; [apply Z.eqb_neq in H2; lia|].
  destruct (total String.le (c_URLString (deref h b)) (c_URLString (deref h a))) as [Hs|Hs].
  - by apply string_leb_le.
  - apply string_leb_le in Hs. congruence.
Qed.

(** From the right end: the later come first. *)
Definition rtt_after (h : heap) (a b : loc) : Prop := rtt_before h b a = true.

Lemma shift_in_perm h key l : shift_in h key l ≡ₚ key :: l.
Proof. induction l as [|c l IH]; cbn; [done|]. destruct (rtt_before h c key); [done|]. rewrite IH. apply Permutation_swap. Qed.

Lemma shift_in_sorted h key l : StronglySorted (rtt_after h) l -> StronglySorted (rtt_after h) (shift_in h key l).
Proof.
  induction 1 as [|c l Hl IH Hc]; cbn; [repeat constructor|]. destruct (rtt_before h c key) eqn:Hb.
  - constructor; [by constructor|]. constructor; [done|]. apply (Forall_impl (rtt_after h c)); [done|].
    intros x Hx. by apply (rtt_before_trans h x c key).
  - constructor; [done|]. rewrite shift_in_perm. constructor; [|done]. by apply rtt_before_total.
Qed.

Lemma insertion_spec h conns :
  let sorted := foldl (fun sorted key => shift_in h key sorted) [] conns in
  sorted ≡ₚ conns /\ StronglySorted (rtt_after h) sorted.
Proof.
  induction conns as [|key conns [IHp IHs]] using rev_ind; [split; constructor|]. rewrite foldl_snoc. split.
  - by rewrite shift_in_perm, IHp, Permutation_cons_append.
  - by apply shift_in_sorted.
Qed.

Lemma StronglySorted_rev {A} (R : A -> A -> Prop) l : StronglySorted R l -> StronglySorted (fun a b => R b a) (rev l).
Proof.
  induction 1 as [|x l Hl IH Hx]; cbn; [constructor|]. apply StronglySorted_app. split; [|split; [done|repeat constructor]].
  intros a b Ha Hb. apply list_elem_of_singleton in Hb as ->. rewrite Forall_forall in Hx. apply Hx.
  apply list_elem_of_In. apply list_elem_of_In in Ha. by apply in_rev.
Qed.

(** sortConnectionsByRTT gives the connections in ascending order of their
    round trip bucket, those of one bucket by URL, and only reorders them: the
    order of tiers that rendezvousTopK fills its slots in. *)
Theorem sort_by_rtt (h : heap) (conns : list loc) :
  sortConnectionsByRTT h conns ≡ₚ conns
  /\ StronglySorted (fun a b => rtt_before h a b = true) (sortConnectionsByRTT h conns).
Proof.
  destruct (insertion_spec h conns) as [Hp Hs]. unfold sortConnectionsByRTT. split.
  - rewrite <- Permutation_rev. exact Hp.
  - exact (StronglySorted_rev _ _ Hs).
Qed.
