(* ===== verification/IndexCache.v ===== *)
(** * The index slot cache

    index_routing_cache.go and the decay counter of router_score.go: for each
    index the requests seen, the fan-out derived from them, and the shard
    placement of the last discovery; updateFromDiscovery with the eviction of
    idle indexes; and updateShardPlacementTree, which walks the policies of a
    router and updates the cache of each that has one.

    Slots are reached by name: an operation on the cache is one step, and the
    sync.Map a finite map. math.Exp is an argument of the smoothing. *)

From Stdlib Require Import ZArith Lia String SpecFloat Sorting.
From stdpp Require Import base gmap list strings sorting.
From S2P Require Import Prelude.
From S2P Require Import Float.
From S2P Require Import ShardMap.
Open Scope list_scope.
Open Scope Z_scope.

(** * Counters *)

Definition defaultDecayFactor : f64 := f64_ratio 999 1000.

(** One pass of the CAS loops of decayCounter: the new value. *)
Definition decay_increment (decay v : f64) : f64 := f64_add (f64_mul v decay) (f64_of_Z 1).
Definition decay_add (decay value v : f64) : f64 := f64_add (f64_mul v decay) value.
Definition decay_decay (factor v : f64) : f64 := f64_mul v factor.

Section Exp.
Context (exp : f64 -> f64).

Definition ln2 : f64 := S754_finite false 6243314768165359 (-53).
Definition loadDecayLambda : f64 := f64_div ln2 (f64_of_Z 5).

(** timeWeightedCounter: the value and the time of its last update. *)
Record timeWeightedCounter := MkTimed { tw_val : f64; tw_nano : Z }.
Definition seconds_since (now nano : Z) : f64 := f64_div (f64_of_Z (wrap64 (now - nano))) (f64_of_Z 1000000000).
Definition timed_add (now : Z) (value : f64) (c : timeWeightedCounter) : timeWeightedCounter :=
  let dt := seconds_since now (tw_nano c) in
  let dt := if f64_ltb dt (f64_of_Z 0) || (tw_nano c =? 0) then f64_of_Z 0 else dt in
  MkTimed (f64_add (f64_mul (tw_val c) (exp (f64_mul (SFopp loadDecayLambda) dt))) value) now.
Definition timed_load (now : Z) (c : timeWeightedCounter) : f64 :=
  if tw_nano c =? 0 then tw_val c
  else
    let dt := seconds_since now (tw_nano c) in
    if f64_leb dt (f64_of_Z 0) then tw_val c else f64_mul (tw_val c) (exp (f64_mul (SFopp loadDecayLambda) dt)).
Definition timed_store (now : Z) (v : f64) : timeWeightedCounter := MkTimed v now.

(** math.Max. *)
Definition math_Max (x y : f64) : f64 :=
  if (is_inf x && negb (sign_bit x)) || (is_inf y && negb (sign_bit y)) then f64_inf else f64_max x y.

Definition miadMIHalfLife : f64 := f64_of_Z 2.
Definition miadADRate : f64 := f64_ratio 3 100.

(** One pass of updateSmoothedMaxBucket: the value it stores and returns. *)
Definition smoothed_next (now oldNano : Z) (oldVal observed : f64) : f64 :=
  let miLambda := f64_div ln2 miadMIHalfLife in
  let dt := seconds_since now oldNano in
  if f64_ltb dt (f64_of_Z 0) || (oldNano =? 0) then math_Max (f64_of_Z 1) observed
  else
    let newVal :=
      if f64_leb oldVal observed then
        f64_sub observed (f64_mul (f64_sub observed oldVal) (exp (f64_mul (SFopp miLambda) dt)))
      else math_Max (f64_sub oldVal (f64_mul miadADRate dt)) observed in
    if f64_ltb newVal (f64_of_Z 1) then f64_of_Z 1 else newVal.
End Exp.

(** * Features *)

Definition routingSkipShardExact : Z := 1.
Definition routingSkipAdaptiveConcurrency : Z := 2.
Definition shardExactEnabled (f : Z) : bool := Z.land f routingSkipShardExact =? 0.
Definition adaptiveConcurrencyEnabled (f : Z) : bool := Z.land f routingSkipAdaptiveConcurrency =? 0.

Record adaptiveConcurrencyConfig := MkConcurrency { ac_minVal : Z; ac_maxVal : Z }.
Definition adaptiveConcurrencyMinDefault : Z := 5.
Definition adaptiveConcurrencyMaxDefault : Z := 256.
Definition effectiveMin (c : adaptiveConcurrencyConfig) : Z := if 0 <? ac_minVal c then ac_minVal c else adaptiveConcurrencyMinDefault.
Definition effectiveMax (c : adaptiveConcurrencyConfig) : Z := if 0 <? ac_maxVal c then ac_maxVal c else adaptiveConcurrencyMaxDefault.

(** * The cache *)

Definition defaultMinFanOut : Z := 1.
Definition defaultMaxFanOut : Z := 32.
Definition minute : Z := 60000000000.
Definition defaultIdleEvictionTTL : Z := 90 * minute.
Definition defaultFanOutPerRequest : f64 := f64_of_Z 500.

Record indexSlot := MkSlot {
  sl_requestDecay : f64;
  sl_fanOut : Z;
  sl_shardNodeCount : Z;
  sl_shardNodeNames : option (gmap string shardNodeInfo);
  sl_shardMap : option indexShardMap;
  sl_smoothedMaxBucket : f64;
  sl_smoothedMaxBucketNano : Z;
  sl_idleSince : Z }.

Record indexSlotCacheConfig := MkCacheConfig {
  cf_minFanOut : Z;
  cf_maxFanOut : Z;
  cf_overrides : gmap string Z;
  cf_idleEvictionTTL : Z;
  cf_decayFactor : f64;
  cf_fanOutPerReq : f64;
  cf_features : Z;
  cf_adaptiveConcurrency : adaptiveConcurrencyConfig }.

Record indexSlotCache := MkCache {
  ic_config : indexSlotCacheConfig;
  ic_entries : gmap string indexSlot;
  ic_highWaterMark : Z }.

Definition newIndexSlotCache (cfg : indexSlotCacheConfig) : indexSlotCache :=
  MkCache (MkCacheConfig
    (if cf_minFanOut cfg <=? 0 then defaultMinFanOut else cf_minFanOut cfg)
    (if cf_maxFanOut cfg <=? 0 then defaultMaxFanOut else cf_maxFanOut cfg)
    (cf_overrides cfg)
    (if cf_idleEvictionTTL cfg <=? 0 then defaultIdleEvictionTTL else cf_idleEvictionTTL cfg)
    (if f64_leb (cf_decayFactor cfg) (f64_of_Z 0) || f64_leb (f64_of_Z 1) (cf_decayFactor cfg) then defaultDecayFactor else cf_decayFactor cfg)
    (if f64_leb (cf_fanOutPerReq cfg) (f64_of_Z 0) then defaultFanOutPerRequest else cf_fanOutPerReq cfg)
    (cf_features cfg) (cf_adaptiveConcurrency cfg)) ∅ 0.

Definition slot_touch (decay : f64) (s : indexSlot) : indexSlot :=
  MkSlot (decay_increment decay (sl_requestDecay s)) (sl_fanOut s) (sl_shardNodeCount s) (sl_shardNodeNames s) (sl_shardMap s)
    (sl_smoothedMaxBucket s) (sl_smoothedMaxBucketNano s) 0.
Definition new_slot (cfg : indexSlotCacheConfig) : indexSlot :=
  MkSlot (decay_increment (cf_decayFactor cfg) (S754_zero false)) (wrap32 (cf_minFanOut cfg)) 0 None None (S754_zero false) 0 0.

Definition set_entry (name : string) (s : indexSlot) (c : indexSlotCache) : indexSlotCache :=
  MkCache (ic_config c) (<[name := s]> (ic_entries c)) (ic_highWaterMark c).

(** Load and the hit path. *)
Definition getOrCreate_hit (c : indexSlotCache) (name : string) : option (indexSlotCache * indexSlot) :=
  slot ← ic_entries c !! name;
  let slot := slot_touch (cf_decayFactor (ic_config c)) slot in
  Some (set_entry name slot c, slot).
(** LoadOrStore and what follows, on the cache as it is then. *)
Definition getOrCreate_store (c : indexSlotCache) (name : string) : indexSlotCache * indexSlot :=
  match ic_entries c !! name with
  | Some existing =>
    let existing := slot_touch (cf_decayFactor (ic_config c)) existing in (set_entry name existing c, existing)
  | None => let slot := new_slot (ic_config c) in (set_entry name slot c, slot)
  end.
Definition getOrCreate (c : indexSlotCache) (name : string) : indexSlotCache * indexSlot :=
  match getOrCreate_hit c name with Some r => r | None => getOrCreate_store c name end.
Definition slotFor (c : indexSlotCache) (name : string) : option indexSlot := ic_entries c !! name.

Definition clampFanOut (fanOut activeNodeCount : Z) : Z :=
  if (0 <? activeNodeCount) && (activeNodeCount <? fanOut) then activeNodeCount
  else if fanOut <? 1 then 1 else fanOut.

Definition rateFanOut (cfg : indexSlotCacheConfig) (slot : indexSlot) : Z :=
  wrap64 (f64_to_int (f64_div (sl_requestDecay slot) (cf_fanOutPerReq cfg)) + 1).

Definition effectiveFanOut (cfg : indexSlotCacheConfig) (slot : indexSlot) (indexName : string) (activeNodeCount : Z) : Z :=
  match cf_overrides cfg !! indexName with
  | Some override => clampFanOut override activeNodeCount
  | None =>
    let shardFloor := sl_shardNodeCount slot in
    let fanOut := Z.max (Z.max (cf_minFanOut cfg) shardFloor) (rateFanOut cfg slot) in
    let fanOut := if (0 <? cf_maxFanOut cfg) && (cf_maxFanOut cfg <? fanOut) then cf_maxFanOut cfg else fanOut in
    clampFanOut fanOut activeNodeCount
  end.

(** * Discovery *)

(** The placement of one index, in its slot. *)
Definition place_slot (placement : option indexShardPlacement) (s : indexSlot) : indexSlot :=
  match placement with
  | Some p => MkSlot (sl_requestDecay s) (sl_fanOut s) (wrap32 (Z.of_nat (size (pl_Nodes p)))) (Some (pl_Nodes p))
      (mergeShardMap [] p (sl_shardMap s)) (sl_smoothedMaxBucket s) (sl_smoothedMaxBucketNano s) (sl_idleSince s)
  | None => MkSlot (sl_requestDecay s) (sl_fanOut s) 0 None (sl_shardMap s)
      (sl_smoothedMaxBucket s) (sl_smoothedMaxBucketNano s) (sl_idleSince s)
  end.

Definition decay_slot (decay : f64) (s : indexSlot) : indexSlot :=
  MkSlot (decay_decay decay (sl_requestDecay s)) (sl_fanOut s) (sl_shardNodeCount s) (sl_shardNodeNames s) (sl_shardMap s)
    (sl_smoothedMaxBucket s) (sl_smoothedMaxBucketNano s) (sl_idleSince s).
Definition set_fanOut (v : Z) (s : indexSlot) : indexSlot :=
  MkSlot (sl_requestDecay s) v (sl_shardNodeCount s) (sl_shardNodeNames s) (sl_shardMap s)
    (sl_smoothedMaxBucket s) (sl_smoothedMaxBucketNano s) (sl_idleSince s).
Definition set_idle (v : Z) (s : indexSlot) : indexSlot :=
  MkSlot (sl_requestDecay s) (sl_fanOut s) (sl_shardNodeCount s) (sl_shardNodeNames s) (sl_shardMap s)
    (sl_smoothedMaxBucket s) (sl_smoothedMaxBucketNano s) v.

(** Effectively idle: a counter below one. *)
Definition idle (s : indexSlot) : bool := f64_ltb (sl_requestDecay s) (f64_of_Z 1).

(** One index in the walk of updateFromDiscovery; [None] when it is evicted. *)
Definition update_slot (cfg : indexSlotCacheConfig) (shardPlacement : option (gmap string indexShardPlacement))
    (activeNodeCount nowNano : Z) (name : string) (s : indexSlot) : option indexSlot :=
  let s := match shardPlacement with Some sp => place_slot (sp !! name) s | None => s end in
  let s := decay_slot (cf_decayFactor cfg) s in
  let s := set_fanOut (wrap32 (effectiveFanOut cfg s name activeNodeCount)) s in
  if idle s then
    if sl_idleSince s =? 0 then Some (set_idle nowNano s)
    else if cf_idleEvictionTTL cfg <? wrap64 (nowNano - sl_idleSince s) then None
    else Some s
  else Some (set_idle 0 s).

(** The mark of compactEntries; the entries it copies are those that are. *)
Definition next_mark (hwm liveCount : Z) : Z :=
  if hwm <? liveCount then liveCount
  else if (0 <? hwm) && (liveCount <=? Z.quot hwm 2) then liveCount
  else hwm.

Definition updateFromDiscovery (c : indexSlotCache) (shardPlacement : option (gmap string indexShardPlacement))
    (activeNodeCount nowNano : Z) : indexSlotCache :=
  let entries := map_imap (update_slot (ic_config c) shardPlacement activeNodeCount nowNano) (ic_entries c) in
  MkCache (ic_config c) entries (next_mark (ic_highWaterMark c) (Z.of_nat (size entries))).

(** * The walk over the policies *)

(** A policy as the walks see it: whether it has a cache, whether it takes shard
    placement (only poolRouter does), and its children. [cache] is the
    address of the cache. *)
Inductive policyNode := PolicyNode (cache : option nat) (updates : bool) (children : list policyNode).

Definition caches : Type := nat -> option indexSlotCache.
Definition update_cache (f : indexSlotCache -> indexSlotCache) (k : nat) (cs : caches) : caches :=
  fun k' => if decide (k' = k) then f <$> cs k' else cs k'.

(** Each update reads the clock. *)
Definition tick (clock : list Z) : Z * list Z := match clock with [] => (0, []) | t :: rest => (t, rest) end.

Fixpoint updateShardPlacementTree (shardPlacement : option (gmap string indexShardPlacement)) (activeNodeCount : Z)
    (v : policyNode) (st : list Z * caches) {struct v} : list Z * caches :=
  match v with
  | PolicyNode cache updates children =>
    let st := match cache with
      | Some k =>
        if updates : bool then
          let '(now, clock) := tick st.1 in
          (clock, update_cache (fun c => updateFromDiscovery c shardPlacement activeNodeCount now) k st.2)
        else st
      | None => st end in
    foldl (fun st child => updateShardPlacementTree shardPlacement activeNodeCount child st) st children
  end.

(** findRouterCache: the first cache in the order of the walk. *)
Fixpoint findRouterCache (v : policyNode) : option nat :=
  match v with
  | PolicyNode (Some k) _ _ => Some k
  | PolicyNode None _ children => foldr (fun child r => match findRouterCache child with Some k => Some k | None => r end) None children
  end.

(** The policies that NewDefaultPolicy wraps share one cache. *)
Definition leaf_policy : policyNode := PolicyNode None false [].
Definition prefer_node (inner otherwise : policyNode) : policyNode := PolicyNode None false [inner; otherwise].
Definition wrap_node (cache : nat) (inner : policyNode) : policyNode := PolicyNode (Some cache) true [inner].
Definition role_or_null : policyNode := prefer_node leaf_policy leaf_policy.
Definition role_or_role : policyNode := prefer_node leaf_policy role_or_null.

(** One router per field of roleRoutes: the policy it wraps. *)
Definition scored_routers : list policyNode :=
  [role_or_null; role_or_null; role_or_role; role_or_role; role_or_null; role_or_null; role_or_null;
   role_or_null; role_or_null; role_or_role; role_or_role; role_or_role; role_or_role].
Definition NewDefaultPolicy (cache : nat) : policyNode :=
  prefer_node (wrap_node cache leaf_policy)
    (PolicyNode None false [PolicyNode None false (map (wrap_node cache) scored_routers); leaf_policy]).

(** NewIndexRouter and NewDocRouter: a cache of their own. *)
Definition standalone_router (cache : nat) : policyNode := PolicyNode (Some cache) false [].

(** * Fan-out *)

Lemma clampFanOut_pos fanOut active : 1 <= clampFanOut fanOut active.
Proof.
  unfold clampFanOut. destruct ((0 <? active) && (active <? fanOut)) eqn:H; [lia|].
  destruct (Z.ltb_spec fanOut 1); lia.
Qed.

Lemma effectiveFanOut_pos cfg slot name active : 1 <= effectiveFanOut cfg slot name active.
Proof. unfold effectiveFanOut. destruct (cf_overrides cfg !! name); apply clampFanOut_pos. Qed.

(** C25: The fan-out of a request, in every cache the constructor makes: at
    least one node, never more than there are active, and without an override no
    more than the configured maximum, which is 32 when none (or zero) is given.
    Up to that maximum and the active nodes it covers the nodes with shards of the
    index and the configured minimum. *)
Theorem fanout_bounds (cfg0 : indexSlotCacheConfig) (slot : indexSlot) (indexName : string) (active : Z) :
  let cfg := ic_config (newIndexSlotCache cfg0) in
  let fanOut := effectiveFanOut cfg slot indexName active in
  1 <= fanOut
  /\ (0 < active -> fanOut <= active)
  /\ 1 <= cf_maxFanOut cfg
  /\ (cf_maxFanOut cfg0 <= 0 -> cf_maxFanOut cfg = 32)
  /\ (cf_overrides cfg0 !! indexName = None ->
      fanOut <= cf_maxFanOut cfg
      /\ (0 < active -> Z.min (Z.max (sl_shardNodeCount slot) (cf_minFanOut cfg)) (Z.min (cf_maxFanOut cfg) active) <= fanOut)).
Proof.
  cbv zeta. unfold effectiveFanOut. cbn [newIndexSlotCache ic_config cf_overrides cf_maxFanOut cf_minFanOut].
  set (mx := if cf_maxFanOut cfg0 <=? 0 then defaultMaxFanOut else cf_maxFanOut cfg0).
  assert (Hmx : 1 <= mx) by (unfold mx, defaultMaxFanOut; destruct (Z.leb_spec (cf_maxFanOut cfg0) 0); lia).
  assert (Hclamp : forall f, 1 <= clampFanOut f active /\ (0 < active -> clampFanOut f active <= active)
    /\ clampFanOut f active <= Z.max 1 f /\ (0 < active -> Z.min f active <= clampFanOut f active)).
  { intros f. unfold clampFanOut. destruct ((0 <? active) && (active <? f)) eqn:H; [lia|].
    destruct (Z.ltb_spec f 1); lia. }
  assert (Hdef : cf_maxFanOut cfg0 <= 0 -> mx = 32).
  { intros H. unfold mx. by rewrite (proj2 (Z.leb_le _ _) H). }
  destruct (cf_overrides cfg0 !! indexName) as [o|].
  - destruct (Hclamp o) as (H1 & H2 & _). by repeat split.
  - set (raw := Z.max (Z.max _ _) _). pose proof (Hclamp (if (0 <? mx) && (mx <? raw) then mx else raw)) as (H1 & H2 & H3 & H4).
    split; [done|]. split; [done|]. split; [done|]. split; [done|]. intros _.
    destruct ((0 <? mx) && (mx <? raw)) eqn:Hb; (split; [lia|]); intros Ha; specialize (H4 Ha); unfold raw in *; lia.
Qed.

Definition ex_cfg : indexSlotCacheConfig := MkCacheConfig 0 0 ∅ 0 (S754_zero false) (S754_zero false) 0 (MkConcurrency 0 0).
Lemma fanout_bounds_witness :
  effectiveFanOut (ic_config (newIndexSlotCache ex_cfg)) (new_slot ex_cfg) "logs" 5 <= 5.
Proof. destruct (fanout_bounds ex_cfg (new_slot ex_cfg) "logs" 5) as (_ & H & _). apply H. lia. Defined.

(** * Eviction *)

Inductive cache_event :=
| Requested (name : string)
| Discovered (shardPlacement : option (gmap string indexShardPlacement)) (activeNodeCount : Z).

(** What happens to a cache, with the time it happens at. *)
Definition cache_step (c : indexSlotCache) (e : Z * cache_event) : indexSlotCache :=
  match e.2 with
  | Requested name => (getOrCreate c name).1
  | Discovered shardPlacement active => updateFromDiscovery c shardPlacement active e.1
  end.
Definition cache_run (c : indexSlotCache) (l : list (Z * cache_event)) : indexSlotCache := foldl cache_step c l.

Lemma cache_run_snoc c l e : cache_run c (l ++ [e]) = cache_step (cache_run c l) e.
Proof. unfold cache_run. by rewrite foldl_snoc. Qed.

Lemma getOrCreate_spec c name :
  exists s, getOrCreate c name = (set_entry name s c, s)
  /\ s = match ic_entries c !! name with Some s0 => slot_touch (cf_decayFactor (ic_config c)) s0 | None => new_slot (ic_config c) end.
Proof.
  unfold getOrCreate, getOrCreate_hit, getOrCreate_store. destruct (ic_entries c !! name) as [s0|]; cbn [mbind option_bind];
    by eexists.
Qed.

Lemma cache_step_config c e : ic_config (cache_step c e) = ic_config c.
Proof. destruct e as [t [name|sp a]]; [|done]. unfold cache_step. cbn [snd]. by destruct (getOrCreate_spec c name) as (s & -> & _). Qed.

Lemma cache_run_config c l : ic_config (cache_run c l) = ic_config c.
Proof. induction l as [|e l IH] using rev_ind; [done|]. by rewrite cache_run_snoc, cache_step_config. Qed.

Lemma update_lookup c sp active now name :
  ic_entries (updateFromDiscovery c sp active now) !! name
  = s ← ic_entries c !! name; update_slot (ic_config c) sp active now name s.
Proof. apply map_lookup_imap. Qed.

(** The walk decides by the idle marker the slot had. *)
Lemma update_slot_idle cfg sp active now name s :
  match update_slot cfg sp active now name s with
  | Some s' => sl_idleSince s' = 0 \/ sl_idleSince s' = sl_idleSince s \/ (sl_idleSince s = 0 /\ sl_idleSince s' = now)
  | None => sl_idleSince s <> 0 /\ cf_idleEvictionTTL cfg < wrap64 (now - sl_idleSince s)
  end.
Proof.
  unfold update_slot. set (s1 := match sp with Some sp => place_slot (sp !! name) s | None => s end).
  assert (H1 : sl_idleSince s1 = sl_idleSince s) by (unfold s1; destruct sp as [sp|]; [by destruct (sp !! name)|done]).
  destruct (idle _); [|by left]. cbn [set_fanOut decay_slot sl_idleSince]. rewrite H1.
  destruct (Z.eqb_spec (sl_idleSince s) 0) as [H0|H0]; [by right; right|].
  destruct (cf_idleEvictionTTL cfg <? wrap64 (now - sl_idleSince s)) eqn:H; [by split; [|lia]|]. by right; left.
Qed.

Definition in_time (t : Z) : Prop := 0 < t < 2 ^ 63.
Definition timed (l : list (Z * cache_event)) : Prop :=
  Forall (fun e => in_time e.1) l /\ StronglySorted (fun a b => a.1 <= b.1) l.

Lemma timed_snoc l e : timed (l ++ [e]) -> timed l /\ in_time e.1 /\ Forall (fun e' => e'.1 <= e.1) l.
Proof.
  intros [H1 H2]. apply Forall_app in H1 as [H1 He]. apply StronglySorted_app in H2 as (Hle & H2 & _).
  split; [by split|]. split; [exact (Forall_inv He)|]. apply Forall_forall. intros e' He'. apply Hle; [done|]. by apply list_elem_of_singleton.
Qed.

(** The marker of a slot lies after every request for its index. *)
Lemma idle_marker cfg l name s :
  timed l -> ic_entries (cache_run (newIndexSlotCache cfg) l) !! name = Some s ->
  sl_idleSince s = 0 \/ (in_time (sl_idleSince s) /\ Forall (fun e => e.2 = Requested name -> e.1 <= sl_idleSince s) l
                         /\ exists e, e ∈ l /\ e.1 = sl_idleSince s).
Proof.
  revert s. induction l as [|e l IH] using rev_ind; intros s Ht; [done|]. apply timed_snoc in Ht as (Ht & He & Hle).
  rewrite cache_run_snoc. set (c := cache_run _ l) in *. destruct e as [t [name'|sp a]]; unfold cache_step; cbn [snd fst] in *.
  - destruct (getOrCreate_spec c name') as (s' & -> & Hs'). cbn [fst set_entry ic_entries].
    destruct (decide (name' = name)) as [->|Hne].
    + rewrite lookup_insert_eq. intros [= <-]. left. rewrite Hs'. by destruct (ic_entries c !! name).
    + rewrite lookup_insert_ne by done. intros Hs. destruct (IH s Ht Hs) as [H|(H1 & H2 & e & H3 & H4)]; [by left|right].
      split; [done|]. split; [apply Forall_app; split; [done|]; constructor; [|done]; cbn; congruence|]. exists e. set_solver.
  - rewrite update_lookup. destruct (ic_entries c !! name) as [s0|] eqn:Hs0; cbn [mbind option_bind]; [|done]. intros Hs.
    pose proof (update_slot_idle (ic_config c) sp a t name s0) as Hu. rewrite Hs in Hu.
    destruct Hu as [H|[H|[_ H]]]; [by left| |]; rewrite H.
    + destruct (IH s0 Ht eq_refl) as [H'|(H1 & H2 & e & H3 & H4)]; [by left|right].
      split; [done|]. split; [apply Forall_app; split; [done|]; by constructor|]. exists e. set_solver.
    + right. split; [done|]. split; [|exists (t, Discovered sp a); set_solver].
      apply Forall_app. split; [|by constructor]. apply (Forall_impl _ _ _ Hle). intros x Hx _. exact Hx.
Qed.

(** An index is evicted only when it has not been asked for during the idle
    eviction time: whatever requests and discoveries came before, if a discovery
    at time [t] drops the slot of an index, the last request for it is more than
    that time ago. *)
Theorem evicts_only_idle (cfg : indexSlotCacheConfig) (l : list (Z * cache_event)) (t : Z)
    (sp : option (gmap string indexShardPlacement)) (active : Z) (name : string) :
  timed (l ++ [(t, Discovered sp active)]) ->
  ic_entries (cache_run (newIndexSlotCache cfg) l) !! name <> None ->
  ic_entries (cache_run (newIndexSlotCache cfg) (l ++ [(t, Discovered sp active)])) !! name = None ->
  Forall (fun e => e.2 = Requested name -> cf_idleEvictionTTL (ic_config (newIndexSlotCache cfg)) < t - e.1) l.
Proof.
  intros Ht Hs He. apply timed_snoc in Ht as (Ht & Hin & Hle). cbn [fst] in *.
  rewrite cache_run_snoc in He. unfold cache_step in He. cbn [snd fst] in He. rewrite update_lookup, cache_run_config in He.
  destruct (ic_entries _ !! name) as [s|] eqn:Hsl; cbn [mbind option_bind] in He; [|done].
  pose proof (update_slot_idle (ic_config (newIndexSlotCache cfg)) sp active t name s) as Hu. rewrite He in Hu. destruct Hu as [H0 Hu].
  destruct (idle_marker cfg l name s Ht Hsl) as [H|(Hi & Hreq & e & Hel & Hee)]; [done|].
  rewrite Forall_forall in Hle. specialize (Hle e Hel). unfold in_time in *.
  rewrite wrap64_id in Hu by (unfold int64_range; lia).
  apply (Forall_impl _ _ _ Hreq). intros x Hx Heq. specialize (Hx Heq). lia.
Qed.

Definition ex_cache_run : list (Z * cache_event) := [(5, Requested "logs"); (10, Discovered None 3)].
Definition ex_evicting : Z := 10 + defaultIdleEvictionTTL + 1.

Lemma evicts_only_idle_witness :
  timed (ex_cache_run ++ [(ex_evicting, Discovered None 3)])
  /\ Forall (fun e => e.2 = Requested "logs" -> defaultIdleEvictionTTL < ex_evicting - e.1) ex_cache_run.
Proof.
  assert (Ht : timed (ex_cache_run ++ [(ex_evicting, Discovered None 3)])).
  { split; repeat constructor; cbn; unfold ex_evicting, defaultIdleEvictionTTL, minute; lia. }
  split; [exact Ht|]. apply (evicts_only_idle ex_cfg ex_cache_run ex_evicting None 3 "logs" Ht).
  - vm_compute. discriminate.
  - vm_compute. reflexivity.
Defined.

(** * Requests that race *)

Inductive req_state := Arriving | Missed | Counted.
Definition req_step (name : string) (c : indexSlotCache) (st : req_state) : indexSlotCache * req_state :=
  match st with
  | Arriving => match getOrCreate_hit c name with Some r => (r.1, Counted) | None => (c, Missed) end
  | Missed => ((getOrCreate_store c name).1, Counted)
  | Counted => (c, Counted)
  end.
(** The requests take steps in the order of [schedule]. *)
Fixpoint race (name : string) (schedule : list nat) (c : indexSlotCache) (reqs : list req_state) : indexSlotCache * list req_state :=
  match schedule with
  | [] => (c, reqs)
  | i :: rest =>
    match reqs !! i with
    | Some st => let '(c', st') := req_step name c st in race name rest c' (<[i := st']> reqs)
    | None => race name rest c reqs
    end
  end.

Definition is_counted (st : req_state) : nat := match st with Counted => 1 | _ => 0 end.
Definition counted (reqs : list req_state) : nat := sum_list_with is_counted reqs.
Definition counts (cfg : indexSlotCacheConfig) (name : string) (n : nat) (c : indexSlotCache) : Prop :=
  ic_config c = cfg /\
  match n with
  | O => ic_entries c !! name = None
  | _ => exists s, ic_entries c !! name = Some s /\ sl_idleSince s = 0
      /\ sl_requestDecay s = Nat.iter n (decay_increment (cf_decayFactor cfg)) (S754_zero false)
  end.

Lemma req_step_counts cfg name n c st :
  counts cfg name n c ->
  let '(c', st') := req_step name c st in
  counts cfg name (match st, st' with Counted, _ => n | _, Counted => S n | _, _ => n end) c'.
Proof.
  intros Hcn. pose proof Hcn as [Hc Hn]. assert (Hput : forall s, ic_entries c !! name = Some s -> counts cfg name (S n) (set_entry name (slot_touch (cf_decayFactor (ic_config c)) s) c)).
  { intros s Hs. split; [done|]. exists (slot_touch (cf_decayFactor (ic_config c)) s). cbn [set_entry ic_entries]. rewrite lookup_insert_eq.
    destruct n as [|n]; [congruence|]. destruct Hn as (s1 & Hs1 & _ & Hd). simplify_eq. split; [done|split; [done|]].
    cbn [slot_touch sl_requestDecay Nat.iter]. by rewrite Hd. }
  destruct st; cbn [req_step]; [|unfold getOrCreate_store|done].
  - unfold getOrCreate_hit. destruct (ic_entries c !! name) as [s|] eqn:Hs; cbn [mbind option_bind fst]; [by apply Hput|done].
  - destruct (ic_entries c !! name) as [s|] eqn:Hs; cbn [fst]; [by apply Hput|]. destruct n as [|n]; [|destruct Hn as (? & ? & _); congruence].
    split; [done|]. exists (new_slot (ic_config c)). cbn [set_entry ic_entries]. rewrite lookup_insert_eq. by rewrite <- Hc.
Qed.

Lemma race_counts cfg name schedule c reqs :
  counts cfg name (counted reqs) c ->
  let '(c', reqs') := race name schedule c reqs in counts cfg name (counted reqs') c' /\ length reqs' = length reqs.
Proof.
  revert c reqs. induction schedule as [|i schedule IH]; intros c reqs H; cbn [race]; [done|].
  destruct (reqs !! i) as [st|] eqn:Hi; [|by apply IH].
  pose proof (req_step_counts cfg name (counted reqs) c st H) as Hstep. destruct (req_step name c st) as [c' st'] eqn:Hs.
  pose proof (sum_insert is_counted reqs i st st' Hi) as Hcount. fold (counted reqs) (counted (<[i := st']> reqs)) in Hcount.
  assert (counts cfg name (counted (<[i := st']> reqs)) c') as H'.
  { assert (counted (<[i := st']> reqs) = match st, st' with Counted, _ => counted reqs | _, Counted => S (counted reqs) | _, _ => counted reqs end)
      as ->; [|done]. destruct st, st'; cbn [is_counted] in Hcount; try lia; cbn in Hs; simplify_eq. }
  specialize (IH c' (<[i := st']> reqs) H'). destruct (race name schedule c' _) as [c2 reqs2]. by rewrite length_insert in IH.
Qed.

(** Requests for a new index race to create its slot, in any interleaving of
    their Loads and LoadOrStores: one slot is made, and its counter has every one
    of them, as if they had come one after the other. *)
Theorem requests_counted (cfg : indexSlotCacheConfig) (name : string) (n : nat) (schedule : list nat) :
  let '(c, reqs) := race name schedule (newIndexSlotCache cfg) (replicate n Arriving) in
  let d := cf_decayFactor (ic_config (newIndexSlotCache cfg)) in
  (0 < counted reqs)%nat ->
  exists s, ic_entries c !! name = Some s /\ dom (ic_entries c) = {[name]}
    /\ sl_requestDecay s = Nat.iter (counted reqs) (decay_increment d) (S754_zero false).
Proof.
  pose proof (race_counts (ic_config (newIndexSlotCache cfg)) name schedule (newIndexSlotCache cfg) (replicate n Arriving)) as H.
  assert (Hd : forall schedule c reqs, dom (ic_entries c) ⊆ {[name]} -> dom (ic_entries (race name schedule c reqs).1) ⊆ {[name]}).
  { clear. induction schedule as [|i schedule IH]; intros c reqs Hd; cbn [race]; [done|].
    destruct (reqs !! i) as [st|]; [|by apply IH]. destruct (req_step name c st) as [c' st'] eqn:Hs. apply IH.
    destruct st; cbn [req_step] in Hs; unfold getOrCreate_hit, getOrCreate_store in Hs;
      destruct (ic_entries c !! name); cbn in Hs; simplify_eq; cbn; rewrite ?dom_insert_L; set_solver. }
  specialize (Hd schedule (newIndexSlotCache cfg) (replicate n Arriving)).
  destruct (race name schedule _ _) as [c reqs]. cbn [fst] in Hd. intros d Hpos.
  destruct H as [[_ H] _].
  { split; [done|]. unfold counted. rewrite sum_replicate. cbn [is_counted]. by rewrite Nat.mul_0_r. }
  destruct (counted reqs) as [|m]; [lia|]. destruct H as (s & Hs & _ & Hdecay). exists s. split; [done|]. split; [|done].
  apply set_eq. intros x. split; [intros Hx; apply Hd; [cbn; set_solver|done]|]. intros ->%elem_of_singleton. apply elem_of_dom. eauto.
Qed.

(** Both miss, then both store; the third finds the slot. *)
Lemma requests_counted_witness :
  exists s, ic_entries (race "logs" [0; 1; 0; 1; 2]%nat (newIndexSlotCache ex_cfg) (replicate 3 Arriving)).1 !! "logs"%string = Some s
  /\ sl_requestDecay s = Nat.iter 3 (decay_increment defaultDecayFactor) (S754_zero false).
Proof.
  pose proof (requests_counted ex_cfg "logs" 3 [0; 1; 0; 1; 2]%nat) as H.
  assert (Hr : (race "logs" [0; 1; 0; 1; 2]%nat (newIndexSlotCache ex_cfg) (replicate 3 Arriving)).2 = [Counted; Counted; Counted]) by (vm_compute; reflexivity).
  destruct (race _ _ _ _) as [c reqs]. cbn [fst snd] in *. subst reqs. destruct H as (s & Hs & _ & Hd); [cbn; lia|].
  exists s. split; [exact Hs|exact Hd].
Defined.

(** * One discovery, many updates *)

Lemma updates_decay sp active name nows c s :
  ic_entries c !! name = Some s ->
  match ic_entries (foldl (fun c now => updateFromDiscovery c sp active now) c nows) !! name with
  | Some s' => sl_requestDecay s' = Nat.iter (length nows) (decay_decay (cf_decayFactor (ic_config c))) (sl_requestDecay s)
  | None => True
  end.
Proof.
  induction nows as [|now nows IH] using rev_ind; intros Hs; [cbn [foldl]; by rewrite Hs|]. specialize (IH Hs). rewrite foldl_snoc, update_lookup.
  assert (Hc : ic_config (foldl (fun c now => updateFromDiscovery c sp active now) c nows) = ic_config c).
  { clear. induction nows as [|now nows IH] using rev_ind; [done|]. by rewrite foldl_snoc. }
  destruct (ic_entries _ !! name) as [s1|]; cbn [mbind option_bind]; [|done]. rewrite Hc.
  destruct (update_slot _ _ _ _ _ s1) as [s2|] eqn:Hu; [|done].
  assert (Hd : sl_requestDecay s2 = decay_decay (cf_decayFactor (ic_config c)) (sl_requestDecay s1)).
  { revert Hu. unfold update_slot. set (s3 := match sp with Some sp => place_slot (sp !! name) s1 | None => s1 end).
    assert (sl_requestDecay s3 = sl_requestDecay s1) as H3 by (unfold s3; destruct sp as [sp|]; [by destruct (sp !! name)|done]).
    rewrite <- H3. destruct (idle _); [|by intros [= <-]]. destruct (sl_idleSince _ =? 0); [by intros [= <-]|].
    destruct (_ <? _); [done|by intros [= <-]]. }
  rewrite Hd, IH, length_app, Nat.add_1_r. done.
Qed.

Lemma update_cache_at f k cs : update_cache f k cs k = f <$> cs k.
Proof. unfold update_cache. by rewrite decide_True. Qed.

Lemma default_policy_updates sp active k cs clock :
  length clock = 14%nat ->
  (updateShardPlacementTree sp active (NewDefaultPolicy k) (clock, cs)).2 k
  = (fun c => foldl (fun c now => updateFromDiscovery c sp active now) c clock) <$> cs k.
Proof.
  intros Hl. do 14 (destruct clock as [|? clock]; [done|]). destruct clock; [|done].
  cbn -[updateFromDiscovery update_cache]. rewrite !update_cache_at. by destruct (cs k).
Qed.

(** With the default policy one discovery updates the shared cache fourteen
    times, once for each router that wraps it: the request counter of a slot that
    stays is decayed by fourteen steps in one cycle. *)
Theorem one_discovery_decays (sp : option (gmap string indexShardPlacement)) (active : Z) (k : nat) (cs : caches)
    (clock : list Z) (c : indexSlotCache) (name : string) (s : indexSlot) :
  length clock = 14%nat -> cs k = Some c -> ic_entries c !! name = Some s ->
  exists c', (updateShardPlacementTree sp active (NewDefaultPolicy k) (clock, cs)).2 k = Some c'
  /\ match ic_entries c' !! name with
     | Some s' => sl_requestDecay s' = Nat.iter 14 (decay_decay (cf_decayFactor (ic_config c))) (sl_requestDecay s)
     | None => True
     end.
Proof.
  intros Hl Hc Hs. rewrite default_policy_updates, Hc by done. eexists. split; [reflexivity|].
  rewrite <- Hl. by apply updates_decay.
Qed.

Definition ex_busy_cache : indexSlotCache := cache_run (newIndexSlotCache ex_cfg) (replicate 4 (1, Requested "logs")).
Definition ex_slot : indexSlot := default (new_slot ex_cfg) (ic_entries ex_busy_cache !! "logs"%string).

Lemma one_discovery_decays_witness :
  exists c', (updateShardPlacementTree None 3 (NewDefaultPolicy 0) (repeat 2 14, fun _ => Some ex_busy_cache)).2 0%nat = Some c'
  /\ match ic_entries c' !! "logs"%string with
     | Some s' => sl_requestDecay s' = Nat.iter 14 (decay_decay defaultDecayFactor) (sl_requestDecay ex_slot)
     | None => True
     end.
Proof.
  exact (one_discovery_decays None 3 0 (fun _ => Some ex_busy_cache) (repeat 2 14) ex_busy_cache "logs" ex_slot eq_refl eq_refl
    ltac:(vm_compute; reflexivity)).
Defined.

(** * A router's own cache *)

(** The walk over a standalone router leaves its cache as it is. *)
Lemma standalone_unfed sp active k st : updateShardPlacementTree sp active (standalone_router k) st = st.
Proof. done. Qed.

(** Smoothing never goes below one. *)
Lemma math_Max_one x : f64_ltb (math_Max (f64_of_Z 1) x) (f64_of_Z 1) = false.
Proof.
  unfold math_Max. destruct ((_ && _) || _); [done|]. unfold f64_max. destruct (_ || _); [done|].
  destruct (f64_ltb (f64_of_Z 1) x) eqn:H1; [|destruct (f64_ltb x (f64_of_Z 1)) eqn:H2; [apply f64_ltb_irrefl|cbn [sign_bit f64_of_Z]; destruct (sign_bit (f64_of_Z 1)); [done|apply f64_ltb_irrefl]]].
  destruct (f64_ltb x (f64_of_Z 1)) eqn:H2; [|done]. pose proof (f64_ltb_trans _ _ _ H1 H2) as H. by rewrite f64_ltb_irrefl in H.
Qed.

Lemma smoothed_above_one exp now oldNano oldVal observed : f64_ltb (smoothed_next exp now oldNano oldVal observed) (f64_of_Z 1) = false.
Proof.
  unfold smoothed_next. destruct (_ || _); [apply math_Max_one|]. set (v := if f64_leb oldVal observed then _ else _).
  destruct (f64_ltb v (f64_of_Z 1)) eqn:H; [apply f64_ltb_irrefl|done].
Qed.
