(* ===== verification/ShardRouting.v ===== *)
(** * Routing values and the shards they hash to

    The request side of shard-exact routing: the routing value of a query
    string (extractRouting, splitRoutingValues, appendAdaptiveConcurrency of
    opensearchtransport.go), the index and document of a path
    (policy_index_router.go, policy_doc_router.go), and shard_routing.go, which
    turns routing values into the connections that host their shards.

    slices.SortFunc is an argument: it sorts, and leaves the order of equal
    elements open. *)

From Stdlib Require Import ZArith Lia Ascii String Sorting.
From stdpp Require Import base gmap list strings sorting.
From S2P Require Import Prelude.
From S2P Require Import GoStrings.
From S2P Require Import Float.
From S2P Require Import Lifecycle.
From S2P Require Import ShardHash.
From S2P Require Import Congestion.
From S2P Require Import Conn.
From S2P Require Import ShardMap.
From S2P Require Import IndexCache.
Open Scope list_scope.
Open Scope Z_scope.

(** * Query strings *)

(** url.QueryUnescape. *)
Fixpoint QueryUnescape (s : string) : option string :=
  match s with
  | EmptyString => Some ""%string
  | String a s1 =>
    if Ascii.eqb a "%" then
      match s1 with
      | String x (String y s2) =>
        hx ← hex_digit x; hy ← hex_digit y; r ← QueryUnescape s2; Some (String (ascii_of_nat (Z.to_nat (16 * hx + hy))) r)
      | _ => None
      end
    else r ← QueryUnescape s1; Some (String (if Ascii.eqb a "+" then " "%char else a) r)
  end.

(** The bytes up to the next separator. *)
Definition until (c : ascii) (s : string) : string := (Cut c s).1.1.

Definition routingNeedle : string := "routing=".

(** The scan of extractRouting: [anchored] says that the previous byte allows a
    parameter to begin here. *)
Fixpoint scan_routing (anchored : bool) (raw : string) : option string :=
  let here := if anchored then strip_prefix routingNeedle raw else None in
  match here with
  | Some rest => Some (until "&" rest)
  | None =>
    match raw with
    | EmptyString => None
    | String a raw' => scan_routing (Ascii.eqb a "&" || Ascii.eqb a "?") raw'
    end
  end.

Definition extractRouting (rawQuery : string) : string :=
  match scan_routing true rawQuery with
  | None => ""
  | Some val =>
    if String.eqb val "" then ""
    else if negb (str_has "%" val) then val
    else match QueryUnescape val with Some decoded => decoded | None => val end
  end.

Definition mcsrNeedle : string := "max_concurrent_shard_requests=".
Fixpoint has_param (needle : string) (anchored : bool) (raw : string) : bool :=
  (anchored && match strip_prefix needle raw with Some _ => true | None => false end)
  || match raw with
     | EmptyString => false
     | String a raw' => has_param needle (Ascii.eqb a "&") raw'
     end.

(** strconv.Itoa. *)
Fixpoint digits_fuel (fuel : nat) (n : Z) (acc : string) : string :=
  match fuel with
  | O => acc
  | S f =>
    let acc := String (ascii_of_nat (Z.to_nat (48 + n mod 10))) acc in
    if n <? 10 then acc else digits_fuel f (n / 10) acc
  end.
Definition Itoa (n : Z) : string := if n <? 0 then String "-" (digits_fuel 20 (- n) "") else digits_fuel 20 n "".

Definition appendAdaptiveConcurrency (rawQuery : string) (value : Z) : string :=
  if has_param mcsrNeedle true rawQuery then rawQuery
  else
    let param := (mcsrNeedle +:+ Itoa value)%string in
    if String.eqb rawQuery "" then param else (rawQuery +:+ "&" +:+ param)%string.

(** splitRoutingValues: strings.Index by strings.Cut. *)
Fixpoint split_values (fuel : nat) (routingValue : string) : list string :=
  match fuel with
  | O => []
  | S f =>
    let '(before, after, found) := Cut "," routingValue in
    if (found : bool) then (if String.eqb before "" then [] else [before]) ++ split_values f after
    else if String.eqb routingValue "" then [] else [routingValue]
  end.
Definition splitRoutingValues (routingValue : string) : list string := split_values (S (String.length routingValue)) routingValue.

(** * Paths *)

Definition strip_slash (path : string) : string :=
  match path with String a rest => if Ascii.eqb a "/" then rest else path | EmptyString => path end.
Definition starts_underscore (path : string) : bool :=
  match path with String a _ => Ascii.eqb a "_" | EmptyString => false end.

Definition extractIndexFromPath (path : string) : string :=
  let path := strip_slash path in
  if String.eqb path "" then ""
  else if starts_underscore path then ""
  else let '(before, _, ok) := Cut "/" path in if (ok : bool) then before else path.

Definition documentEndpoints : list string := ["_doc"; "_source"; "_update"; "_explain"; "_termvectors"]%string.

(** The bytes before the first '/' or '?'. *)
Fixpoint cut_any (s : string) : string :=
  match s with
  | EmptyString => ""
  | String a s' => if Ascii.eqb a "/" || Ascii.eqb a "?" then "" else String a (cut_any s')
  end.

Definition extractDocumentFromPath (path : string) : string * string :=
  let path := strip_slash path in
  if String.eqb path "" || starts_underscore path then ("", "")%string
  else
    let '(indexName, rest, ok) := Cut "/" path in
    if negb ok then ("", "")%string
    else
      let '(endpoint, docID, ok) := Cut "/" rest in
      if negb ok then ("", "")%string
      else
        let docID := cut_any docID in
        if String.eqb docID "" then ("", "")%string
        else if existsb (String.eqb endpoint) documentEndpoints then (indexName, docID)
        else ("", "")%string.

(** * The concurrency of a search *)

Definition computeAdaptiveConcurrency (cwnd : Z) (cfg : adaptiveConcurrencyConfig) (features : Z) : Z :=
  if negb (adaptiveConcurrencyEnabled features) then 0
  else Z.max (Z.min cwnd (effectiveMax cfg)) (effectiveMin cfg).

(** * Candidates *)

(** The shard map of a slot when it can be used. *)
Definition usable_map (sm : option indexShardMap) : option indexShardMap :=
  sm ← sm;
  if (sm_NumberOfPrimaryShards sm =? 0) || (sm_RoutingNumShards sm =? 0) || bool_decide (sm_Shards sm = ∅) then None else Some sm.

(** The copies of the shard a value hashes to; the outer [None] is the panic of
    a modulus below the number of shards. *)
Definition target_shard (sm : indexShardMap) (value : string) : option (Z * option shardNodes) :=
  shardNum ← shardForRouting (lit value) (sm_RoutingNumShards sm) (sm_NumberOfPrimaryShards sm);
  Some (shardNum, sm_Shards sm !! shardNum).

Definition hosting_nodes (s : shardNodes) : gset string :=
  (if String.eqb (sn_Primary s) "" then ∅ else {[sn_Primary s]}) ∪ list_to_set (sn_Replicas s).

Section WithHeap.
Context (h : heap).

Definition fresh (c : loc) : bool := negb (needsCatUpdate (c_state (deref h c))).
Definition node_name (c : loc) : string := c_Name (deref h c).
Definition hosts (names : gset string) (c : loc) : bool := fresh c && bool_decide (node_name c ∈ names).

(** The candidates, the shard number and its copies; [Some] of none when the
    shard cannot be resolved. *)
Definition calcSingleKeyCost (features : Z) (slot : indexSlot) (routingValue : string) (conns : list loc)
    : option (option (list loc * Z * shardNodes)) :=
  if negb (shardExactEnabled features) then Some None
  else if String.eqb routingValue "" then Some None
  else
    match usable_map (sl_shardMap slot) with
    | None => Some None
    | Some sm =>
      '(shardNum, copies) ← target_shard sm routingValue;
      match copies with
      | None => Some None
      | Some shardCopy =>
        let nodeNames := hosting_nodes shardCopy in
        if bool_decide (nodeNames = ∅) then Some None
        else
          let bp := List.filter (hosts nodeNames) conns in
          if (length bp =? 0)%nat then Some None else Some (Some (bp, shardNum, shardCopy))
      end
    end.

Definition bump (name : string) (hits : gmap string Z) : gmap string Z := <[name := default 0 (hits !! name) + 1]> hits.
Definition shard_hits (s : shardNodes) (hits : gmap string Z) : gmap string Z :=
  foldl (fun hs r => bump r hs) (if String.eqb (sn_Primary s) "" then hits else bump (sn_Primary s) hits) (sn_Replicas s).
Fixpoint key_hits (sm : indexShardMap) (values : list string) (hits : gmap string Z) : option (gmap string Z) :=
  match values with
  | [] => Some hits
  | rv :: rest =>
    '(_, copies) ← target_shard sm rv;
    key_hits sm rest (match copies with Some s => shard_hits s hits | None => hits end)
  end.

Definition scored_conns (hits : gmap string Z) (conns : list loc) : list (loc * Z) :=
  omap (fun c => if fresh c then (fun n => (c, n)) <$> hits !! node_name c else None) conns.

Context (SortFunc : list (loc * Z) -> list (loc * Z)).

Definition calcMultiKeyCost (features : Z) (slot : indexSlot) (routingValue : string) (conns : list loc)
    : option (list loc * list f64) :=
  if negb (shardExactEnabled features) || String.eqb routingValue "" then Some ([], [])
  else
    match usable_map (sl_shardMap slot) with
    | None => Some ([], [])
    | Some sm =>
      let routingValues := splitRoutingValues routingValue in
      let totalKeys := Z.of_nat (length routingValues) in
      hits ← key_hits sm routingValues ∅;
      let scored := SortFunc (scored_conns hits conns) in
      Some (map fst scored, map (fun s => f64_of_Z (totalKeys - s.2)) scored)
    end.
End WithHeap.

(** * No panic *)

(** The modulus and the primary count as the server gives them. *)
Definition sane_map (sm : indexShardMap) : Prop :=
  0 < sm_NumberOfPrimaryShards sm <= sm_RoutingNumShards sm /\ sm_RoutingNumShards sm < 2 ^ 62.

Lemma target_shard_total sm value : sane_map sm -> is_Some (target_shard sm value).
Proof.
  intros [Hp Hr]. destruct (ForRouting_val (lit value) (sm_RoutingNumShards sm) (sm_NumberOfPrimaryShards sm) (lit_bytes value) Hp Hr)
    as (hash & _ & _ & Hv).
  unfold target_shard, shardForRouting. rewrite Hv. by eexists.
Qed.

Lemma key_hits_total sm values hits : sane_map sm -> is_Some (key_hits sm values hits).
Proof.
  intros Hs. revert hits. induction values as [|rv rest IH]; intros hits; cbn [key_hits]; [by eexists|].
  destruct (target_shard_total sm rv Hs) as [[n copies] ->]. apply IH.
Qed.

Lemma calcSingleKeyCost_total h features slot routingValue conns :
  (forall sm, usable_map (sl_shardMap slot) = Some sm -> sane_map sm) -> is_Some (calcSingleKeyCost h features slot routingValue conns).
Proof.
  intros Hs. unfold calcSingleKeyCost. destruct (negb _); [by eexists|]. destruct (String.eqb routingValue ""); [by eexists|].
  destruct (usable_map _) as [sm|]; [|by eexists]. destruct (target_shard_total sm routingValue (Hs sm eq_refl)) as [[n [s|]] ->]; [|by eexists].
  cbn [mbind option_bind]. destruct (bool_decide _); [by eexists|]. destruct (_ =? _)%nat; by eexists.
Qed.

Lemma calcMultiKeyCost_total h sort features slot routingValue conns :
  (forall sm, usable_map (sl_shardMap slot) = Some sm -> sane_map sm) -> is_Some (calcMultiKeyCost h sort features slot routingValue conns).
Proof.
  intros Hs. unfold calcMultiKeyCost. destruct (_ || _); [by eexists|]. destruct (usable_map _) as [sm|]; [|by eexists].
  destruct (key_hits_total sm (splitRoutingValues routingValue) ∅ (Hs sm eq_refl)) as [hits ->]. by eexists.
Qed.

(** * The routing value of a query *)

(** Values.Get of a parsed query: the first pair whose decoded key is [key];
    pairs with a semicolon or a malformed escape are dropped. *)
Definition query_pair (seg : string) : option (string * string) :=
  if String.eqb seg "" || str_has ";" seg then None
  else
    let '(k, v, _) := Cut "=" seg in
    k' ← QueryUnescape k; v' ← QueryUnescape v; Some (k', v').
Fixpoint get_pair (key : string) (segs : list string) : option string :=
  match segs with
  | [] => None
  | seg :: rest =>
    match query_pair seg with
    | Some (k, v) => if String.eqb k key then Some v else get_pair key rest
    | None => get_pair key rest
    end
  end.
Definition query_get (key rawQuery : string) : string := default "" (get_pair key (Split "&" rawQuery)).

(** A pair that needs no decoding but of percent escapes in its value. *)
Definition plain_pair (seg : string) : Prop :=
  seg = ""%string \/
  (str_has ";" seg = false /\ str_has "+" seg = false /\ str_has "=" seg = true
   /\ str_has "%" (until "=" seg) = false /\ QueryUnescape (Cut "=" seg).1.2 <> None).

Lemma QueryUnescape_plain s : str_has "%" s = false -> str_has "+" s = false -> QueryUnescape s = Some s.
Proof.
  induction s as [|a s IH]; [done|]. rewrite !str_has_cons, !orb_false_iff. intros [H1 H2] [H3 H4].
  cbn [QueryUnescape]. rewrite Ascii.eqb_sym, H1, (IH H2 H4). cbn [mbind option_bind]. by rewrite Ascii.eqb_sym, H3.
Qed.

Lemma until_cons c a s : until c (String a s) = if Ascii.eqb a c then ""%string else String a (until c s).
Proof. unfold until. cbn [Cut]. destruct (Ascii.eqb a c); [done|]. by destruct (Cut c s) as [[]]. Qed.

Lemma Split_head c s : exists l, Split c s = until c s :: l.
Proof.
  induction s as [|a s [l IH]]; [by exists []|]. rewrite until_cons. cbn [Split].
  destruct (Ascii.eqb a c); [by eexists|]. rewrite IH. by exists l.
Qed.

Lemma strip_prefix_until c p s : str_has c p = false -> strip_prefix p (until c s) = until c <$> strip_prefix p s.
Proof.
  revert s. induction p as [|b p IH]; intros s Hp; [by destruct s|]. rewrite str_has_cons in Hp. apply orb_false_iff in Hp as [Hb Hp].
  destruct s as [|a s]; [done|]. rewrite until_cons. destruct (Ascii.eqb_spec a c) as [->|Hac].
  - cbn [strip_prefix]. by rewrite Ascii.eqb_sym, Hb.
  - cbn [strip_prefix]. destruct (Ascii.eqb b a); [by apply IH|done].
Qed.

Fixpoint first_routing (segs : list string) : option string :=
  match segs with
  | [] => None
  | seg :: rest => match strip_prefix routingNeedle seg with Some v => Some v | None => first_routing rest end
  end.

(** Without a question mark the scan goes pair by pair. *)
Lemma scan_pairs anchored raw :
  str_has "?" raw = false ->
  scan_routing anchored raw = if anchored then first_routing (Split "&" raw) else first_routing (tail (Split "&" raw)).
Proof.
  revert anchored. induction raw as [|a raw IH]; intros anchored Hq; [by destruct anchored|].
  rewrite str_has_cons in Hq. apply orb_false_iff in Hq as [Hqa Hq].
  assert (Hstrip : strip_prefix routingNeedle (until "&" (String a raw)) = until "&" <$> strip_prefix routingNeedle (String a raw))
    by (by apply strip_prefix_until).
  destruct (Split_head "&" (String a raw)) as [l Hl].
  assert (Hnext : scan_routing (Ascii.eqb a "&" || Ascii.eqb a "?") raw = first_routing l).
  { rewrite IH, (Ascii.eqb_sym a "?"), Hqa, orb_false_r by done. cbn [Split] in Hl.
    destruct (Ascii.eqb a "&"); [by injection Hl as _ <-|]. destruct (Split_head "&" raw) as [l' Hl']. rewrite Hl' in *.
    by injection Hl as _ <-. }
  assert (Hscan : scan_routing anchored (String a raw)
    = match (if anchored then strip_prefix routingNeedle (String a raw) else None) with
      | Some rest => Some (until "&" rest)
      | None => scan_routing (Ascii.eqb a "&" || Ascii.eqb a "?") raw end) by done.
  rewrite Hscan, Hnext, Hl. destruct anchored; [|done]. cbn [first_routing]. rewrite Hstrip.
  by destruct (strip_prefix routingNeedle (String a raw)).
Qed.

Lemma Cut_prefix c p s v : str_has c p = false -> strip_prefix (p +:+ String c "")%string s = Some v -> Cut c s = (p, v, true).
Proof.
  revert s. induction p as [|b p IH]; intros s Hp.
  - destruct s as [|a s]; [done|]. change (("" +:+ String c "")%string) with (String c ""). cbn [strip_prefix Cut].
    rewrite Ascii.eqb_sym. destruct (Ascii.eqb a c); [|done]. intros [= ->]. done.
  - rewrite str_has_cons in Hp. apply orb_false_iff in Hp as [Hb Hp]. destruct s as [|a s]; [done|].
    change ((String b p +:+ String c "")%string) with (String b (p +:+ String c "")%string). cbn [strip_prefix Cut].
    destruct (Ascii.eqb_spec b a) as [<-|]; [|done]. intros H. rewrite Ascii.eqb_sym, Hb. by rewrite (IH s Hp H).
Qed.

Lemma Cut_join c s : str_has c s = true -> s = ((Cut c s).1.1 +:+ String c (Cut c s).1.2)%string.
Proof.
  induction s as [|a s IH]; [done|]. rewrite str_has_cons. cbn [Cut]. destruct (Ascii.eqb_spec a c) as [->|Hac]; [done|].
  intros H. rewrite Ascii.eqb_sym, (proj2 (Ascii.eqb_neq _ _) Hac) in H. cbn [orb] in H.
  specialize (IH H). destruct (Cut c s) as [[b r] ok]. cbn [fst snd] in *. rewrite append_cons. by f_equal.
Qed.

Lemma strip_prefix_self p s : strip_prefix p (p +:+ s)%string = Some s.
Proof. induction p as [|a p IH]; [done|]. rewrite append_cons. cbn [strip_prefix]. by rewrite Ascii.eqb_refl. Qed.

Lemma str_has_app c s t : str_has c (s +:+ t)%string = str_has c s || str_has c t.
Proof. induction s as [|a s IH]; [done|]. rewrite append_cons, !str_has_cons, IH. by rewrite orb_assoc. Qed.

(** One pair: its key is the parameter's exactly when it starts with it. *)
Lemma plain_pair_routing seg :
  plain_pair seg ->
  match strip_prefix routingNeedle seg with
  | Some v => query_pair seg = (fun d => ("routing"%string, d)) <$> QueryUnescape v
      /\ QueryUnescape v <> None /\ (str_has "%" v = false -> QueryUnescape v = Some v)
  | None => match query_pair seg with Some (k, _) => k <> "routing"%string | None => True end
  end.
Proof.
  intros [->|(Hsemi & Hplus & Heq & Hkey & Hv)]; [done|].
  assert (Hne : String.eqb seg "" = false) by (by destruct seg).
  pose proof (Cut_join "=" seg Heq) as Hjoin. unfold until in Hkey. unfold query_pair. rewrite Hne, Hsemi. cbn [orb].
  destruct (Cut "=" seg) as [[k v] ok] eqn:Hc. cbn [fst snd] in *.
  rewrite Hjoin, str_has_app in Hplus. apply orb_false_iff in Hplus as [Hpk Hpv].
  rewrite str_has_cons in Hpv. apply orb_false_iff in Hpv as [_ Hpv].
  rewrite (QueryUnescape_plain k) by done. cbn [mbind option_bind].
  destruct (strip_prefix routingNeedle seg) as [v'|] eqn:Hs.
  - pose proof (Cut_prefix "=" "routing" seg v' eq_refl Hs) as Hc'. rewrite Hc in Hc'. injection Hc' as -> -> _.
    split; [by destruct (QueryUnescape v')|]. split; [done|]. intros H. by apply QueryUnescape_plain.
  - destruct (QueryUnescape v) as [d|]; cbn [mbind option_bind]; [|done]. intros ->.
    rewrite Hjoin in Hs. change (strip_prefix routingNeedle (routingNeedle +:+ v)%string = None) in Hs.
    by rewrite strip_prefix_self in Hs.
Qed.

(** The routing value the client routes by is the one the server reads from
    the query, for every query of [key=value] pairs whose keys are literal, whose
    values are well-formed and in which spaces are not written as plus signs: the
    value of the first routing parameter, percent escapes decoded, and none when
    there is no such parameter. *)
Theorem routing_of_query (rawQuery : string) :
  str_has "?" rawQuery = false -> Forall plain_pair (Split "&" rawQuery) ->
  extractRouting rawQuery = query_get "routing" rawQuery.
Proof.
  intros Hq Hall. unfold extractRouting, query_get. rewrite scan_pairs by done.
  induction Hall as [|seg segs Hseg Hall IH]; [done|]. cbn [first_routing get_pair].
  pose proof (plain_pair_routing seg Hseg) as H. destruct (strip_prefix routingNeedle seg) as [v|].
  - destruct H as (-> & Hv & Hplain). destruct (QueryUnescape v) as [d|] eqn:Hd; [|done]. cbn.
    destruct (String.eqb_spec v "") as [->|Hne]; [by injection Hd as <-|].
    destruct (str_has "%" v); cbn [negb]; [done|]. by injection (Hplain eq_refl) as ->.
  - destruct (query_pair seg) as [[k d]|]; [|exact IH]. by rewrite (proj2 (String.eqb_neq _ _) H).
Qed.

Lemma routing_of_query_witness : extractRouting "pretty=true&routing=a%2Fb&x=1" = query_get "routing" "pretty=true&routing=a%2Fb&x=1".
Proof.
  apply routing_of_query; [reflexivity|].
  change (Split "&" "pretty=true&routing=a%2Fb&x=1") with ["pretty=true"%string; "routing=a%2Fb"%string; "x=1"%string].
  constructor; [|constructor; [|constructor; [|constructor]]]; right; (do 4 (split; [reflexivity|])); discriminate.
Defined.

(** url.Values.Encode writes a space as a plus sign. Alone it is not decoded,
    next to a percent escape it is. *)
Lemma plus_kept : extractRouting "routing=a+b" = "a+b"%string /\ query_get "routing" "routing=a+b" = "a b"%string
  /\ extractRouting "routing=a+b%21" = "a b!"%string.
Proof. done. Qed.

(** A question mark in another value begins a parameter. *)
Lemma question_mark_anchors : extractRouting "q=what?routing=x" = "x"%string /\ query_get "routing" "q=what?routing=x" = ""%string.
Proof. done. Qed.

(** The path is already decoded: an identifier with a slash is cut. *)
Lemma slash_in_id : extractDocumentFromPath "/logs/_doc/2024/01" = ("logs", "2024")%string.
Proof. done. Qed.

(** * Splitting *)

Lemma Cut_length c s b a : Cut c s = (b, a, true) -> (String.length a < String.length s)%nat.
Proof.
  revert b. induction s as [|x s IH]; intros b; cbn [Cut]; [done|]. destruct (Ascii.eqb x c); [intros [= _ ->]; cbn; lia|].
  destruct (Cut c s) as [[b' a'] ok] eqn:Hc. intros [= _ -> ->]. specialize (IH _ eq_refl). cbn. lia.
Qed.

Lemma Cut_Split c s :
  Split c s = let '(b, a, ok) := Cut c s in if (ok : bool) then b :: Split c a else [s].
Proof.
  induction s as [|x s IH]; [done|]. cbn [Cut Split]. destruct (Ascii.eqb x c); [done|]. rewrite IH.
  by destruct (Cut c s) as [[b a] []].
Qed.

Lemma split_values_spec fuel s :
  (String.length s < fuel)%nat -> split_values fuel s = List.filter (fun v => negb (String.eqb v "")) (Split "," s).
Proof.
  revert s. induction fuel as [|f IH]; intros s Hl; [lia|]. cbn [split_values]. rewrite Cut_Split.
  destruct (Cut "," s) as [[b a] ok] eqn:Hc. destruct ok.
  - apply Cut_length in Hc. rewrite IH by lia. cbn [List.filter]. by destruct (String.eqb b "").
  - cbn [List.filter]. by destruct (String.eqb s "").
Qed.

Lemma splitRoutingValues_spec s : splitRoutingValues s = List.filter (fun v => negb (String.eqb v "")) (Split "," s).
Proof. apply split_values_spec. lia. Qed.

(** * The candidates of one value *)

Section Candidates.
Context (h : heap).

(** The candidates for one routing value: when the feature is on, the shard
    map usable and the shard of the value known with a copy on some connection that
    is not waiting for a refresh, they are exactly those connections, in their
    order, and there is at least one; otherwise there are none and the caller falls
    back. A panic needs a modulus that the number of shards does not fit. *)
Theorem single_key_candidates (features : Z) (slot : indexSlot) (routingValue : string) (conns : list loc) :
  match calcSingleKeyCost h features slot routingValue conns with
  | Some (Some (cands, shardNum, shard)) =>
      exists sm, sl_shardMap slot = Some sm /\ shardExactEnabled features = true
      /\ shardForRouting (lit routingValue) (sm_RoutingNumShards sm) (sm_NumberOfPrimaryShards sm) = Some shardNum
      /\ sm_Shards sm !! shardNum = Some shard
      /\ cands = List.filter (hosts h (hosting_nodes shard)) conns /\ cands <> []
  | Some None =>
      shardExactEnabled features = false \/ routingValue = ""%string \/ usable_map (sl_shardMap slot) = None
      \/ exists sm n, sl_shardMap slot = Some sm
         /\ shardForRouting (lit routingValue) (sm_RoutingNumShards sm) (sm_NumberOfPrimaryShards sm) = Some n
         /\ forall shard, sm_Shards sm !! n = Some shard -> List.filter (hosts h (hosting_nodes shard)) conns = []
  | None => exists sm, sl_shardMap slot = Some sm
      /\ shardForRouting (lit routingValue) (sm_RoutingNumShards sm) (sm_NumberOfPrimaryShards sm) = None
  end.
Proof.
  unfold calcSingleKeyCost. destruct (shardExactEnabled features); cbn [negb]; [|by left].
  destruct (String.eqb_spec routingValue "") as [->|Hv]; [by right; left|].
  destruct (usable_map (sl_shardMap slot)) as [sm|] eqn:Hu; [|by right; right; left].
  assert (Hsm : sl_shardMap slot = Some sm).
  { unfold usable_map in Hu. destruct (sl_shardMap slot) as [sm'|]; cbn in Hu; [|done]. destruct (_ || _ || _); [done|]. exact Hu. }
  unfold target_shard. destruct (shardForRouting _ _ _) as [n|] eqn:Hn; cbn [mbind option_bind]; [|by exists sm].
  destruct (sm_Shards sm !! n) as [s|] eqn:Hs; [|right; right; right; exists sm, n; split; [done|split; [done|]]; congruence].
  assert (Hnone : List.filter (hosts h (hosting_nodes s)) conns = [] ->
    exists sm0 n0, sl_shardMap slot = Some sm0
      /\ shardForRouting (lit routingValue) (sm_RoutingNumShards sm0) (sm_NumberOfPrimaryShards sm0) = Some n0
      /\ forall shard, sm_Shards sm0 !! n0 = Some shard -> List.filter (hosts h (hosting_nodes shard)) conns = []).
  { intros Hf. exists sm, n. split; [done|split; [done|]]. intros s'. rewrite Hs. by intros [= <-]. }
  destruct (bool_decide (hosting_nodes s = ∅)) eqn:He.
  - right; right; right. apply Hnone. apply bool_decide_eq_true in He. rewrite He. clear. induction conns as [|c l IH]; [done|].
    cbn [List.filter]. unfold hosts at 1. rewrite bool_decide_false by set_solver. by rewrite andb_false_r.
  - destruct (List.filter (hosts h (hosting_nodes s)) conns) as [|c l] eqn:Hf; cbn [length Nat.eqb]; [right; right; right; by apply Hnone|].
    exists sm. by repeat split.
Qed.

(** * The cost of several values *)

(** The copies of a shard on a node, and those over the shards of all values. *)
Definition copies_at (node : string) (s : shardNodes) : Z :=
  (if String.eqb (sn_Primary s) "" then 0 else if String.eqb (sn_Primary s) node then 1 else 0)
  + Z.of_nat (length (List.filter (String.eqb node) (sn_Replicas s))).
Fixpoint copies_of_values (sm : indexShardMap) (node : string) (values : list string) : Z :=
  match values with
  | [] => 0
  | v :: rest =>
    (match target_shard sm v with Some (_, Some s) => copies_at node s | _ => 0 end) + copies_of_values sm node rest
  end.

(** A counter at [n] after [d] more: an entry exists when it is positive. *)
Definition counts_to (o : option Z) (d : Z) (o' : option Z) : Prop :=
  0 <= d /\ o' = if d =? 0 then o else Some (default 0 o + d).

Lemma counts_to_trans o d1 o1 d2 o2 : counts_to o d1 o1 -> counts_to o1 d2 o2 -> counts_to o (d1 + d2) o2.
Proof.
  unfold counts_to. intros (H1 & ->) (H2 & ->). split; [lia|].
  destruct (Z.eqb_spec d1 0), (Z.eqb_spec d2 0), (Z.eqb_spec (d1 + d2) 0); try lia; cbn [default from_option id]; try done; f_equal; lia.
Qed.

Lemma bump_counts name node hits :
  counts_to (hits !! node) (if String.eqb node name then 1 else 0) (bump name hits !! node).
Proof using.
  clear h. unfold counts_to, bump. destruct (String.eqb_spec node name) as [->|Hne]; cbn [Z.eqb]; (split; [lia|]).
  - apply lookup_insert_eq.
  - by apply lookup_insert_ne.
Qed.

Lemma shard_hits_counts s node hits : counts_to (hits !! node) (copies_at node s) (shard_hits s hits !! node).
Proof using.
  clear h. unfold copies_at, shard_hits. apply counts_to_trans with (o1 := (if String.eqb (sn_Primary s) "" then hits else bump (sn_Primary s) hits) !! node).
  - destruct (String.eqb (sn_Primary s) ""); [by split|]. rewrite (String.eqb_sym (sn_Primary s) node). apply bump_counts.
  - generalize (if String.eqb (sn_Primary s) "" then hits else bump (sn_Primary s) hits). clear hits.
    induction (sn_Replicas s) as [|r rs IH]; intros hits; [by split|]. cbn [foldl List.filter].
    replace (Z.of_nat (length (if String.eqb node r then r :: List.filter (String.eqb node) rs else List.filter (String.eqb node) rs)))
      with ((if String.eqb node r then 1 else 0) + Z.of_nat (length (List.filter (String.eqb node) rs))) by (destruct (String.eqb node r); cbn; lia).
    apply counts_to_trans with (o1 := bump r hits !! node); [apply bump_counts|apply IH].
Qed.

Lemma key_hits_counts sm node values hits hits' :
  key_hits sm values hits = Some hits' -> counts_to (hits !! node) (copies_of_values sm node values) (hits' !! node).
Proof using.
  clear h. revert hits. induction values as [|v values IH]; intros hits; cbn [key_hits copies_of_values]; [intros [= <-]; by split|].
  destruct (target_shard sm v) as [[n [s|]]|]; cbn [mbind option_bind]; [| |done].
  - intros H. apply counts_to_trans with (o1 := shard_hits s hits !! node); [apply shard_hits_counts|by apply IH].
  - intros H. by apply IH.
Qed.
End Candidates.

Section Multi.
Context (h : heap) (SortFunc : list (loc * Z) -> list (loc * Z)).
(** slices.SortFunc by the comparison of hits, descending. *)
Definition sorts_by_hits : Prop := forall l, SortFunc l ≡ₚ l /\ StronglySorted (fun a b => b.2 <= a.2) (SortFunc l).

Lemma scored_conns_elem hits conns c n :
  (c, n) ∈ scored_conns h hits conns <-> c ∈ conns /\ fresh h c = true /\ hits !! node_name h c = Some n.
Proof using.
  clear SortFunc. unfold scored_conns. rewrite list_elem_of_omap. split.
  - intros (c' & Hc' & H). destruct (fresh h c') eqn:Hf; [|done]. apply fmap_Some in H as (n' & Hn & [= -> ->]). done.
  - intros (Hc & Hf & Hn). exists c. split; [done|]. by rewrite Hf, Hn.
Qed.

(** The candidates for several values: every connection that is not waiting
    for a refresh and hosts a copy of some value's shard, once for each place it
    has, with the number of values less the copies it hosts as extra cost; the
    costs do not decrease along the list. *)
Theorem multi_key_cost (features : Z) (slot : indexSlot) (routingValue : string) (conns : list loc) (sm : indexShardMap)
    (cands : list loc) (extra : list f64) :
  sorts_by_hits ->
  shardExactEnabled features = true -> routingValue <> ""%string -> usable_map (sl_shardMap slot) = Some sm ->
  calcMultiKeyCost h SortFunc features slot routingValue conns = Some (cands, extra) ->
  let values := List.filter (fun v => negb (String.eqb v "")) (Split "," routingValue) in
  let cost c := Z.of_nat (length values) - copies_of_values sm (node_name h c) values in
  extra = map (fun c => f64_of_Z (cost c)) cands
  /\ StronglySorted (fun a b => cost a <= cost b) cands
  /\ (forall c, c ∈ cands <-> c ∈ conns /\ fresh h c = true /\ 0 < copies_of_values sm (node_name h c) values)
  /\ (NoDup conns -> NoDup cands).
Proof using.
  intros Hsort Hf Hv Hu Hr values cost. unfold calcMultiKeyCost in Hr. rewrite Hf, (proj2 (String.eqb_neq _ _) Hv), Hu in Hr.
  cbn [negb orb] in Hr. rewrite splitRoutingValues_spec in Hr. fold values in Hr.
  destruct (key_hits sm values ∅) as [hits|] eqn:Hk; cbn [mbind option_bind] in Hr; [|done]. injection Hr as <- <-.
  destruct (Hsort (scored_conns h hits conns)) as [Hp Hs].
  assert (Hhits : forall c n, (c, n) ∈ scored_conns h hits conns -> n = copies_of_values sm (node_name h c) values /\ 0 < n).
  { intros c n Hc. apply scored_conns_elem in Hc as (_ & _ & Hn). pose proof (key_hits_counts sm (node_name h c) values ∅ hits Hk) as [H0 H1].
    rewrite lookup_empty, Hn in H1. destruct (Z.eqb_spec (copies_of_values sm (node_name h c) values) 0); [done|].
    injection H1 as ->. cbn. lia. }
  assert (Hall : Forall (fun cn => cn.2 = copies_of_values sm (node_name h cn.1) values) (SortFunc (scored_conns h hits conns))).
  { apply Forall_forall. intros [c n] Hc. rewrite Hp in Hc. by apply Hhits. }
  repeat split.
  - rewrite map_map. apply map_ext_in. intros [c n] Hin. rewrite Forall_forall in Hall. unfold cost.
    rewrite <- (Hall (c, n)) by (by apply list_elem_of_In). done.
  - clear Hp. induction Hs as [|a l Hl IH Ha]; cbn [map]; [constructor|]. inversion Hall as [|? ? Ha2 Hall']; subst.
    constructor; [by apply IH|]. apply Forall_forall. intros c Hc. apply list_elem_of_fmap in Hc as (b & -> & Hb).
    rewrite Forall_forall in Ha, Hall'. specialize (Ha b Hb). specialize (Hall' b Hb). unfold cost. lia.
  - apply list_elem_of_fmap in H as ([c' n] & -> & Hc). rewrite Hp in Hc. by apply scored_conns_elem in Hc as (Hc & _).
  - apply list_elem_of_fmap in H as ([c' n] & -> & Hc). rewrite Hp in Hc. by apply scored_conns_elem in Hc as (_ & Hfr & _).
  - apply list_elem_of_fmap in H as ([c' n] & -> & Hc). rewrite Hp in Hc. cbn [fst]. destruct (Hhits c' n Hc) as [<- Hn]. exact Hn.
  - intros (Hc & Hfr & Hpos). pose proof (key_hits_counts sm (node_name h c) values ∅ hits Hk) as [H0 H1].
    destruct (Z.eqb_spec (copies_of_values sm (node_name h c) values) 0) as [E|_]; [lia|]. rewrite lookup_empty in H1.
    apply list_elem_of_fmap. exists (c, default 0 None + copies_of_values sm (node_name h c) values). split; [done|].
    rewrite Hp. by apply scored_conns_elem.
  - intros Hnd. change (NoDup (SortFunc (scored_conns h hits conns)).*1). rewrite Hp. clear -Hnd.
    induction Hnd as [|c l Hc Hl IH]; cbn; [constructor|]. unfold scored_conns in *. cbn [omap list_omap].
    destruct (fresh h c); [|done]. destruct (hits !! node_name h c) as [n|]; cbn; [|done]. constructor; [|done].
    intros Hin. apply list_elem_of_fmap in Hin as ([c' n'] & -> & Hin). apply list_elem_of_omap in Hin as (c2 & Hc2 & H).
    destruct (fresh h c2); [|done]. apply fmap_Some in H as (? & _ & [= -> _]). done.
Qed.
End Multi.

(** A stable sort is one. *)
Definition hits_le (a b : loc * Z) : Prop := b.2 <= a.2.
#[export] Instance hits_le_dec a b : Decision (hits_le a b).
Proof. unfold hits_le. apply _. Defined.
Definition hits_sort (l : list (loc * Z)) : list (loc * Z) := merge_sort hits_le l.
Lemma hits_sort_sorts : sorts_by_hits hits_sort.
Proof.
  assert (Transitive hits_le) by (intros a b c; unfold hits_le; lia).
  assert (Total hits_le) by (intros a b; unfold hits_le; lia).
  intros l. split; [apply merge_sort_Permutation|apply (StronglySorted_merge_sort hits_le)].
Qed.

Definition ex_sharded_slot : indexSlot :=
  MkSlot (f64_of_Z 1) 1 2 None (Some (MkShardMap 2 640
    (list_to_map [(0, MkShardNodes "n1" ["n2"%string]); (1, MkShardNodes "n2" [])]))) (f64_of_Z 1) 0 0.
Definition ex_named (name : string) (state : Z) : Connection :=
  MkConnection name name name ∅ 1 8 None pr_zero 0 state 0 0 0 0 false.
Definition ex_routing_heap : heap := list_to_map
  [(1%nat, ex_named "n1" 0); (2%nat, ex_named "n2" 0); (3%nat, ex_named "n3" 0)].

Lemma multi_key_cost_witness :
  calcMultiKeyCost ex_routing_heap hits_sort 0 ex_sharded_slot "a,,b,c" [1; 2; 3]%nat = Some ([2; 1]%nat, map f64_of_Z [0; 1])
  /\ NoDup [2; 1]%nat.
Proof.
  assert (Hc : calcMultiKeyCost ex_routing_heap hits_sort 0 ex_sharded_slot "a,,b,c" [1; 2; 3]%nat = Some ([2; 1]%nat, map f64_of_Z [0; 1]))
    by (vm_compute; reflexivity).
  split; [exact Hc|].
  destruct (multi_key_cost ex_routing_heap hits_sort 0 ex_sharded_slot "a,,b,c" [1; 2; 3]%nat
    (default (MkShardMap 0 0 ∅) (sl_shardMap ex_sharded_slot)) [2; 1]%nat (map f64_of_Z [0; 1])) as (_ & _ & _ & H).
  - exact hits_sort_sorts.
  - reflexivity.
  - discriminate.
  - vm_compute. reflexivity.
  - exact Hc.
  - apply H. apply (bool_decide_unpack _). vm_compute. exact I.
Defined.
