(* ===== verification/RouterPolicy.v ===== *)
(** * The router policies

    policy_index_router.go, policy_doc_router.go and policy_pool_router.go: how
    a request becomes a connection. A router takes the index (and document) from
    the path, the slot of the index from its cache, and either the connections
    that host the shard of the routing value or the top of the rendezvous order,
    and chooses among them by score. Also routerDiscoveryUpdate, which keeps the
    connection list.

    The policy that poolRouter wraps is an argument, and so are math.Exp,
    slices.SortFunc and the clock. Events for observers are left out. A result of
    [None] is a panic. *)

From Stdlib Require Import ZArith Lia Ascii String Sorting.
From stdpp Require Import base gmap list strings sorting.
From S2P Require Import Prelude.
From S2P Require Import GoStrings.
From S2P Require Import Float.
From S2P Require Import Atomic.
From S2P Require Import Lifecycle.
From S2P Require Import Rtt.
From S2P Require Import Congestion.
From S2P Require Import ShardHash.
From S2P Require Import Conn.
From S2P Require Import Rendezvous.
From S2P Require Import PolicyPool.
From S2P Require Import Policy.
From S2P Require Import ShardMap.
From S2P Require Import Score.
From S2P Require Import IndexCache.
From S2P Require Import ShardRouting.
Open Scope list_scope.
Open Scope Z_scope.

(** * State *)

Record RouterState := MkRouter {
  ro_heap : heap;
  ro_cache : indexSlotCache;
  ro_jitter : Z;
  ro_conns : list loc;
  ro_policyState : Z }.

Record RouterConfig := MkRouterConfig {
  rc_shardCosts : shardCostMultiplier;
  rc_scoreFunc : option connScoreFunc;
  rc_poolName : string;
  rc_poolInfoReady : bool;
  rc_clusterSearchCwnd : Z }.

(** A request: its path, decoded, and its raw query. *)
Record RoutedRequest := MkRouted { rq_Path : string; rq_RawQuery : string }.

Definition with_heap (st : RouterState) (h : heap) : RouterState :=
  MkRouter h (ro_cache st) (ro_jitter st) (ro_conns st) (ro_policyState st).
Definition with_cache (st : RouterState) (c : indexSlotCache) : RouterState :=
  MkRouter (ro_heap st) c (ro_jitter st) (ro_conns st) (ro_policyState st).
Definition with_ranked (st : RouterState) (jitter : Z) (conns : list loc) : RouterState :=
  MkRouter (ro_heap st) (ro_cache st) jitter conns (ro_policyState st).
Definition with_conns (st : RouterState) (conns : list loc) (state : Z) : RouterState :=
  MkRouter (ro_heap st) (ro_cache st) (ro_jitter st) conns state.

Definition router_disabled (st : RouterState) : bool := negb (Z.land (ro_policyState st) psEnvDisabled =? 0).

Section Eval.
Context (exp : f64 -> f64) (SortFunc : list (loc * Z) -> list (loc * Z)) (now : Z) (cfg : RouterConfig).

(** connScoreSelect with the router's pool and score function. *)
Definition router_select (costs : shardCostMultiplier) (st : RouterState) (candidates : list loc) (slot : option indexSlot) (shard : option shardNodes)
    (extraCost : option (list f64)) : RouterState * option loc :=
  let '(h, best) := connScoreSelect (ro_heap st) candidates (sl_shardNodeNames <$> slot) shard costs
    (rc_poolName cfg) (rc_poolInfoReady cfg) (rc_scoreFunc cfg) extraCost in
  (with_heap st h, best).

Definition routingSeparator : ascii := ",".

(** The candidates of the shard-exact path, with the shard and the extra cost. *)
Definition exact_candidates (st : RouterState) (slot : indexSlot) (routingValue effectiveKey : string)
    : option (list loc * option shardNodes * option (list f64)) :=
  let features := cf_features (ic_config (ro_cache st)) in
  if negb (str_has routingSeparator routingValue) then
    r ← calcSingleKeyCost (ro_heap st) features slot effectiveKey (ro_conns st);
    match r with
    | Some (cands, _, shard) => Some (cands, Some shard, None)
    | None => Some ([], None, None)
    end
  else
    '(cands, extra) ← calcMultiKeyCost (ro_heap st) SortFunc features slot routingValue (ro_conns st);
    Some (cands, None, Some extra).

Definition shardNodeNameSet (slot : indexSlot) : gset string :=
  match sl_shardNodeNames slot with Some m => dom m | None => ∅ end.

Definition max_bucket (h : heap) (candidates : list loc) : Z :=
  foldl (fun mx c => let b := conn_bucket (deref h c) in if mx <? b then b else mx) 0 candidates.

(** updateSmoothedMaxBucket on the slot; a slot that was evicted is not in the
    cache any more. *)
Definition set_smoothed (v : f64) (s : indexSlot) : indexSlot :=
  MkSlot (sl_requestDecay s) (sl_fanOut s) (sl_shardNodeCount s) (sl_shardNodeNames s) (sl_shardMap s) v now (sl_idleSince s).
Definition smooth_slot (name : string) (observed : f64) (c : indexSlotCache) : indexSlotCache :=
  match ic_entries c !! name with
  | Some s => set_entry name (set_smoothed (smoothed_next exp now (sl_smoothedMaxBucketNano s) (sl_smoothedMaxBucket s) observed) s) c
  | None => c
  end.

(** The rendezvous path: the candidates, with the effects on the router. *)
Definition rendezvous_candidates (st : RouterState) (slot : indexSlot) (indexName keyA keyB : string) : RouterState * list loc :=
  let conns := ro_conns st in
  let fanOut := effectiveFanOut (ic_config (ro_cache st)) slot indexName (Z.of_nat (length conns)) in
  let '(candidates, jitter, conns') :=
    rendezvousTopK (ro_heap st) keyA keyB conns fanOut (Some (ro_jitter st)) (shardNodeNameSet slot) in
  let st := with_ranked st (default 0 jitter) conns' in
  match candidates with
  | [] => (st, [])
  | _ => (with_cache st (smooth_slot indexName (f64_of_Z (max_bucket (ro_heap st) candidates)) (ro_cache st)), candidates)
  end.

Definition poolSearch : string := "search".

Definition adaptive_mcsr (st : RouterState) (best : option loc) : Z :=
  match best with
  | Some c =>
    if String.eqb (rc_poolName cfg) poolSearch then
      let cwnd := rc_clusterSearchCwnd cfg in
      let conn := deref (ro_heap st) c in
      let cwnd := if cwnd <=? 0 then loadCwnd (c_pools conn) (c_allocatedProcessors conn) (rc_poolName cfg) (rc_poolInfoReady cfg) else cwnd in
      computeAdaptiveConcurrency cwnd (cf_adaptiveConcurrency (ic_config (ro_cache st))) (cf_features (ic_config (ro_cache st)))
    else 0
  | None => 0
  end.

Definition hop_to (best : option loc) (mcsr : Z) : NextHop :=
  match best with Some c => MkNextHop (Some c) (rc_poolName cfg) mcsr | None => no_hop end.

(** IndexRouter.Eval. *)
Definition IndexRouter_Eval (req : RoutedRequest) (st : RouterState) : option (RouterState * NextHop) :=
  if router_disabled st then Some (st, no_hop)
  else
    let indexName := extractIndexFromPath (rq_Path req) in
    if String.eqb indexName "" then
      match ro_conns st with
      | [] => Some (st, no_hop)
      | conns => let '(st, best) := router_select (rc_shardCosts cfg) st conns None None None in Some (st, hop_to best 0)
      end
    else
      match ro_conns st with
      | [] => Some (st, no_hop)
      | _ =>
        let '(cache, slot) := getOrCreate (ro_cache st) indexName in
        let st := with_cache st cache in
        let routingValue := extractRouting (rq_RawQuery req) in
        '(shardCandidates, shard, extraCost) ← exact_candidates st slot routingValue routingValue;
        match shardCandidates with
        | _ :: _ => let '(st, best) := router_select (rc_shardCosts cfg) st shardCandidates (Some slot) shard extraCost in Some (st, hop_to best 0)
        | [] =>
          let '(st, candidates) := rendezvous_candidates st slot indexName indexName "" in
          match candidates with
          | [] => Some (st, no_hop)
          | _ =>
            let '(st, best) := router_select (rc_shardCosts cfg) st candidates (Some slot) None None in
            Some (st, hop_to best (adaptive_mcsr st best))
          end
        end
      end.

(** DocRouter.Eval: the shard costs are those for reads. *)
Definition DocRouter_Eval (req : RoutedRequest) (st : RouterState) : option (RouterState * NextHop) :=
  if router_disabled st then Some (st, no_hop)
  else
    let '(indexName, docID) := extractDocumentFromPath (rq_Path req) in
    if String.eqb indexName "" || String.eqb docID "" then Some (st, no_hop)
    else
      match ro_conns st with
      | [] => Some (st, no_hop)
      | _ =>
        let '(cache, slot) := getOrCreate (ro_cache st) indexName in
        let st := with_cache st cache in
        let routingValue := extractRouting (rq_RawQuery req) in
        let effectiveRoutingKey := if String.eqb routingValue "" then docID else routingValue in
        '(shardCandidates, shard, extraCost) ← exact_candidates st slot routingValue effectiveRoutingKey;
        match shardCandidates with
        | _ :: _ => let '(st, best) := router_select shardCostForReads st shardCandidates (Some slot) shard extraCost in Some (st, hop_to best 0)
        | [] =>
          let '(st, candidates) := rendezvous_candidates st slot indexName indexName docID in
          match candidates with
          | [] => Some (st, no_hop)
          | _ => let '(st, best) := router_select shardCostForReads st candidates (Some slot) None None in Some (st, hop_to best 0)
          end
        end
      end.

(** The chosen connection must still be active or on standby; otherwise the
    inner policy's answer stands. *)
Definition still_serving (h : heap) (best : option loc) : bool :=
  match best with
  | Some c => negb (Z.land (conn_lifecycle (deref h c)) (lcActive ||| lcStandby) =? 0)
  | None => false
  end.
Definition hop_or (hop : NextHop) (st : RouterState) (best : option loc) (mcsr : Z) : NextHop :=
  if still_serving (ro_heap st) best then hop_to best mcsr else hop.

(** poolRouter.Eval. [inner] is the wrapped policy's Eval, on the shared heap. *)
Context (inner : RoutedRequest -> heap -> heap * (NextHop * option error)).

Definition poolRouter_Eval (req : RoutedRequest) (st : RouterState) : option (RouterState * (NextHop * option error)) :=
  if router_disabled st then Some (st, (no_hop, None))
  else
    let '(h, (hop, err)) := inner req (ro_heap st) in
    let st := with_heap st h in
    match hop_Conn hop, err with
    | None, _ | _, Some _ => Some (st, (hop, err))
    | Some _, None =>
      let '(idx, docID) := extractDocumentFromPath (rq_Path req) in
      let '(keyA, keyB) :=
        if negb (String.eqb idx "") && negb (String.eqb docID "") then (idx, docID) else (extractIndexFromPath (rq_Path req), ""%string) in
      if String.eqb keyA "" then
        match ro_conns st with
        | [] => Some (st, (hop, None))
        | conns => let '(st, best) := router_select (rc_shardCosts cfg) st conns None None None in Some (st, (hop_or hop st best 0, None))
        end
      else
        match ro_conns st with
        | [] => Some (st, (hop, None))
        | _ =>
          let '(cache, slot) := getOrCreate (ro_cache st) keyA in
          let st := with_cache st cache in
          let routingValue := extractRouting (rq_RawQuery req) in
          let effectiveRoutingKey := if String.eqb routingValue "" && negb (String.eqb keyB "") then keyB else routingValue in
          '(shardCandidates, shard, extraCost) ← exact_candidates st slot routingValue effectiveRoutingKey;
          match shardCandidates with
          | _ :: _ =>
            let '(st, best) := router_select (rc_shardCosts cfg) st shardCandidates (Some slot) shard extraCost in Some (st, (hop_or hop st best 0, None))
          | [] =>
            let '(st, candidates) := rendezvous_candidates st slot keyA keyA keyB in
            match candidates with
            | [] => Some (st, (hop, None))
            | _ =>
              let '(st, best) := router_select (rc_shardCosts cfg) st candidates (Some slot) None None in
              Some (st, (hop_or hop st best (adaptive_mcsr st best), None))
            end
          end
        end
    end.
End Eval.

(** * Discovery *)

(** Appending each connection whose URL was not seen. *)
Definition add_unseen (h : heap) (acc : gset string * list loc) (c : loc) : gset string * list loc :=
  let '(seen, all) := acc in
  if bool_decide (urlOf h c ∈ seen) then acc else ({[urlOf h c]} ∪ seen, all ++ [c]).

(** [None] is a nil slice. *)
Definition routerDiscoveryUpdate (added removed : option (list loc)) (st : RouterState) : RouterState :=
  if router_disabled st then st
  else
    match added, removed with
    | None, None => st
    | _, _ =>
      let h := ro_heap st in
      let '(seen, all) := foldl (add_unseen h) (∅, []) (ro_conns st) in
      let '(_, all) := foldl (add_unseen h) (seen, all) (default [] added) in
      let removedSet : gset string := list_to_set (map (urlOf h) (default [] removed)) in
      let all := List.filter (fun c => negb (bool_decide (urlOf h c ∈ removedSet))) all in
      let all := sortConnectionsByRTT h all in
      let hasAvailable := existsb (fun c => availableForRouting (deref h c)) all in
      with_conns st all (psSetEnabled hasAvailable (ro_policyState st))
    end.

(** rebuildSortedConns of poolRouter, on the active connections of the inner
    policy's pool. *)
Definition rebuildSortedConns (active : list loc) (st : RouterState) : RouterState :=
  with_conns st (match active with [] => active | _ => sortConnectionsByRTT (ro_heap st) active end) (ro_policyState st).

(** * What Eval chooses *)

Lemma select_loop_in n candidates h scores b :
  (forall c, b.1 = Some c -> c ∈ candidates) ->
  forall c, (select_loop n candidates h scores b).2 = Some c -> c ∈ candidates.
Proof.
  revert h scores b. induction n as [|n IH]; intros h scores b Hb c; cbn [select_loop]; [apply Hb|].
  destruct (least scores) as [i|]; [|apply Hb]. destruct (candidates !! i) as [c0|] eqn:Hi; [|done].
  apply list_elem_of_lookup_2 in Hi. destruct (negb _); [by intros [= <-]|].
  destruct (conn_tryWarmupSkip _) as [conn r]. destruct r; [|by intros [= <-]..]. apply IH. intros c'.
  unfold note_skipped. destruct (_ <=? _); [by intros [= <-]|apply Hb].
Qed.

Lemma connScoreSelect_in h candidates slot shard costs poolName ready f extra :
  candidates <> [] ->
  exists c, (connScoreSelect h candidates slot shard costs poolName ready f extra).2 = Some c /\ c ∈ candidates.
Proof.
  intros Hne. rewrite connScoreSelect_choose by done. unfold choose_best.
  pose proof (select_loop_in (length candidates) candidates h
    (add_extra (map (fun c => conn_score costs f slot shard poolName ready (deref h c)) candidates) extra) (None, maxInt) ltac:(done)) as H.
  destruct (select_loop _ _ _ _ _) as [h' best]. cbn [snd] in *. destruct best as [c|]; [by exists c; split; [|apply H]|].
  destruct candidates as [|c rest]; [done|]. exists c. split; [done|set_solver].
Qed.

Section Target.
Context (exp : f64 -> f64) (SortFunc : list (loc * Z) -> list (loc * Z)) (Hsort : sorts_by_hits SortFunc).
Context (now : Z) (cfg : RouterConfig).

Lemma router_select_in costs st candidates slot shard extra :
  candidates <> [] ->
  exists st' c, router_select cfg costs st candidates slot shard extra = (st', Some c) /\ c ∈ candidates.
Proof using.
  clear Hsort SortFunc. intros Hne. unfold router_select.
  destruct (connScoreSelect_in (ro_heap st) candidates (sl_shardNodeNames <$> slot) shard costs (rc_poolName cfg) (rc_poolInfoReady cfg)
    (rc_scoreFunc cfg) extra Hne) as (c & Hc & Hin).
  destruct (connScoreSelect _ _ _ _ _ _ _ _ _) as [h best]. cbn [snd] in Hc. subst best. by eexists _, c.
Qed.

Lemma hosts_fresh names h c : hosts h names c = true -> fresh h c = true.
Proof using. clear Hsort SortFunc. unfold hosts. by intros [? _]%andb_prop. Qed.

Lemma exact_candidates_in st slot rv key cands shard extra c :
  exact_candidates SortFunc st slot rv key = Some (cands, shard, extra) -> c ∈ cands ->
  c ∈ ro_conns st /\ fresh (ro_heap st) c = true.
Proof using Hsort.
  unfold exact_candidates. destruct (str_has _ rv); cbn [negb].
  - unfold calcMultiKeyCost. destruct (_ || _); cbn; [intros [= <- _ _]; set_solver|].
    destruct (usable_map _) as [sm|]; cbn; [|intros [= <- _ _]; set_solver].
    destruct (key_hits _ _ _) as [hits|]; cbn; [|done]. intros [= <- _ _] Hc.
    apply list_elem_of_fmap in Hc as ([c' n] & -> & Hc). rewrite (proj1 (Hsort _)) in Hc. by apply scored_conns_elem in Hc as (H1 & H2 & _).
  - pose proof (single_key_candidates (ro_heap st) (cf_features (ic_config (ro_cache st))) slot key (ro_conns st)) as H.
    destruct (calcSingleKeyCost _ _ _ _ _) as [[[[cs n] s]|]|]; cbn; [|intros [= <- _ _]; set_solver|done].
    destruct H as (sm & _ & _ & _ & _ & -> & _). intros [= <- _ _] Hc. apply list_elem_of_In, List.filter_In in Hc as [Hc Hh].
    split; [by apply list_elem_of_In|by apply hosts_fresh in Hh].
Qed.

Lemma rendezvous_candidates_spec st slot ix keyA keyB :
  topK_input (ro_heap st) (ro_conns st) ->
  let '(st', cands) := rendezvous_candidates exp now st slot ix keyA keyB in
  ro_heap st' = ro_heap st
  /\ (forall c, c ∈ cands -> c ∈ ro_conns st /\ fresh (ro_heap st) c = true)
  /\ (cands = [] -> ro_conns st <> [] -> forall c, c ∈ ro_conns st -> fresh (ro_heap st) c = false).
Proof using.
  clear Hsort SortFunc. intros Hin. unfold rendezvous_candidates.
  set (fanOut := effectiveFanOut _ _ _ _).
  assert (Hf : 1 <= fanOut) by apply effectiveFanOut_pos.
  pose proof (rendezvousTopK_rank (ro_heap st) keyA keyB (shardNodeNameSet slot) (ro_conns st) fanOut (Some (ro_jitter st)) Hin) as H.
  pose proof (elem_of_candidates (ro_heap st) (ro_conns st)) as Hc.
  destruct (rendezvousTopK _ _ _ _ _ _ _) as [[slots j] conns']. cbv zeta in H. cbn [fst] in H. destruct H as (_ & Hlen & Hel).
  assert (Hcands : forall c, c ∈ slots -> c ∈ ro_conns st /\ fresh (ro_heap st) c = true).
  { intros c Hc'. apply Hel in Hc' as [Hc' _]. apply Hc in Hc' as [H1 H2]. split; [done|]. unfold fresh. by rewrite H2. }
  destruct slots as [|c0 rest].
  - split; [done|]. split; [set_solver|]. intros _ _ c Hcin. unfold fresh.
    destruct (needsCatUpdate (c_state (deref (ro_heap st) c))) eqn:Hn; [done|].
    assert (c ∈ filterNeedsCatUpdate (ro_heap st) (ro_conns st)) as Hx by (by apply Hc). cbn in Hlen.
    destruct (filterNeedsCatUpdate (ro_heap st) (ro_conns st)); [set_solver|]. cbn in Hlen. lia.
  - split; [done|]. split; [exact Hcands|done].
Qed.

(** What a connection a router may answer with; [indexed] when the request names
    an index. *)
Definition index_router_choice (indexed : Prop) (st : RouterState) (hop : NextHop) : Prop :=
  match hop_Conn hop with
  | Some c => c ∈ ro_conns st /\ (indexed -> fresh (ro_heap st) c = true)
  | None => router_disabled st = true \/ ro_conns st = []
      \/ (indexed /\ forall c, c ∈ ro_conns st -> fresh (ro_heap st) c = false)
  end.

Lemma index_router_answers (req : RoutedRequest) (st st' : RouterState) (hop : NextHop) :
  topK_input (ro_heap st) (ro_conns st) ->
  IndexRouter_Eval exp SortFunc now cfg req st = Some (st', hop) ->
  index_router_choice (extractIndexFromPath (rq_Path req) <> ""%string) st hop.
Proof using Hsort.
  intros Hin. unfold IndexRouter_Eval, index_router_choice. destruct (router_disabled st); [intros [= _ <-]; by left|].
  destruct (String.eqb_spec (extractIndexFromPath (rq_Path req)) "") as [Hix|Hix].
  { destruct (ro_conns st) as [|c0 rest] eqn:Hcs; [intros [= _ <-]; by right; left|]. rewrite <- Hcs in *.
    destruct (router_select_in (rc_shardCosts cfg) st (ro_conns st) None None None) as (s1 & c & -> & Hc); [by rewrite Hcs|].
    intros [= _ <-]. split; [done|]. intros H. by destruct H. }
  destruct (ro_conns st) as [|c0 rest] eqn:Hcs; [intros [= _ <-]; by right; left|]. rewrite <- Hcs in *.
  destruct (getOrCreate (ro_cache st) _) as [cache slot]. set (st1 := with_cache st cache).
  destruct (exact_candidates _ _ _ _ _) as [[[cands shard] extra]|] eqn:Hex; cbn [mbind option_bind]; [|done].
  destruct cands as [|c1 cands].
  - pose proof (rendezvous_candidates_spec st1 slot (extractIndexFromPath (rq_Path req)) (extractIndexFromPath (rq_Path req)) "" Hin) as H.
    destruct (rendezvous_candidates _ _ _ _ _ _ _) as [st2 cands]. destruct H as (Hh & Hc & Hnone).
    destruct cands as [|c2 cands]; [intros [= _ <-]; right; right; split; [done|]; apply Hnone; [done|]; change (ro_conns st <> []); by rewrite Hcs|].
    destruct (router_select_in (rc_shardCosts cfg) st2 (c2 :: cands) (Some slot) None None) as (s3 & c & -> & Hc'); [done|].
    intros [= _ <-]. destruct (Hc c Hc') as [H1 H2]. by split.
  - destruct (router_select_in (rc_shardCosts cfg) st1 (c1 :: cands) (Some slot) shard extra) as (s3 & c & -> & Hc'); [done|].
    intros [= _ <-]. destruct (exact_candidates_in _ _ _ _ _ _ _ _ Hex Hc') as [H1 H2]. by split.
Qed.

(** Counting a request does not touch the shard data of the slot. *)
Lemma getOrCreate_shards c name cache slot :
  getOrCreate c name = (cache, slot) ->
  ic_config cache = ic_config c
  /\ sl_shardMap slot = match slotFor c name with Some s => sl_shardMap s | None => None end
  /\ sl_shardNodeNames slot = match slotFor c name with Some s => sl_shardNodeNames s | None => None end.
Proof using.
  clear Hsort SortFunc. destruct (getOrCreate_spec c name) as (s & -> & Hs). intros [= <- <-]. split; [done|]. rewrite Hs.
  unfold slotFor. by destruct (ic_entries c !! name).
Qed.

(** ** Routing by shard

    The request names the index [ix] and asks for one routing value: the routing
    parameter, or else the id when it names a document. *)
Definition asks_for (req : RoutedRequest) (ix value : string) : Prop :=
  let '(i, d) := extractDocumentFromPath (rq_Path req) in
  let routing := extractRouting (rq_RawQuery req) in
  ix <> ""%string /\ value <> ""%string /\ str_has routingSeparator routing = false /\
  ((i = ix /\ d <> ""%string /\ value = if decide (routing = ""%string) then d else routing)
   \/ ((i = ""%string \/ d = ""%string) /\ extractIndexFromPath (rq_Path req) = ix /\ value = routing)).

(** A cache of the default policy since discovery distributed the placement
    [sp], at which time it had a slot for [ix]: requests have counted and
    smoothed since then. *)
Inductive fed (sp : gmap string indexShardPlacement) (ix : string) : indexSlotCache -> Prop :=
| fed_walk active k cs clock c :
    length clock = 14%nat -> (updateShardPlacementTree (Some sp) active (NewDefaultPolicy k) (clock, cs)).2 k = Some c ->
    is_Some (slotFor c ix) -> fed sp ix c
| fed_request c name c' slot : fed sp ix c -> getOrCreate c name = (c', slot) -> fed sp ix c'
| fed_smooth exp now c name v : fed sp ix c -> fed sp ix (smooth_slot exp now name v c).

(** The slot tells of shard [n] what the placement says. *)
Definition placed_in (p : indexShardPlacement) (n : Z) (shard : shardNodes) (s : indexSlot) : Prop :=
  exists sm, sl_shardMap s = Some sm /\ sm_NumberOfPrimaryShards sm = pl_NumberOfPrimaryShards p
    /\ sm_RoutingNumShards sm = pl_RoutingNumShards p /\ sm_Shards sm !! n = Some shard.

Lemma place_slot_placed p n shard s :
  n < pl_NumberOfPrimaryShards p -> pl_ShardToNodes p !! n = Some shard -> placed_in p n shard (place_slot (Some p) s).
Proof using.
  clear Hsort SortFunc. intros Hn Hs. unfold placed_in, place_slot. cbn [sl_shardMap]. unfold mergeShardMap.
  destruct (decide (pl_ShardToNodes p = ∅)) as [He|_]; [by rewrite He in Hs|]. eexists. split; [reflexivity|].
  cbn [merge_pass sm_NumberOfPrimaryShards sm_RoutingNumShards sm_Shards]. split; [done|]. split; [done|].
  set (merged := match sl_shardMap s with Some sm => _ | None => _ end).
  assert (Hm : merged !! n = Some shard).
  { unfold merged. destruct (sl_shardMap s) as [sm|]; [|done]. destruct (carriesForward _ _); [|done]. by apply lookup_union_Some_l. }
  destruct (_ && _ && _); [|done]. unfold prune. by apply map_lookup_filter_Some.
Qed.

Lemma update_slot_placed cfg0 sp active t ix p n shard s s' :
  sp !! ix = Some p -> n < pl_NumberOfPrimaryShards p -> pl_ShardToNodes p !! n = Some shard ->
  update_slot cfg0 (Some sp) active t ix s = Some s' -> placed_in p n shard s'.
Proof using.
  clear Hsort SortFunc. intros Hp Hn Hs. pose proof (place_slot_placed p n shard s Hn Hs) as H. unfold update_slot. rewrite Hp.
  destruct (idle _); [|by intros [= <-]]. destruct (_ =? 0); [by intros [= <-]|]. destruct (_ <? _); [done|by intros [= <-]].
Qed.

Lemma fed_placed sp ix p n shard c :
  fed sp ix c -> sp !! ix = Some p -> n < pl_NumberOfPrimaryShards p -> pl_ShardToNodes p !! n = Some shard ->
  exists s, slotFor c ix = Some s /\ placed_in p n shard s.
Proof using.
  clear Hsort SortFunc. intros Hf Hp Hn Hs. induction Hf as [active k cs clock c Hl Hw [s Hslot] | c name c' slot _ IH Hg | exp' now' c name v _ IH].
  - exists s. split; [done|]. rewrite default_policy_updates in Hw by done. destruct (cs k) as [c1|]; [|done]. injection Hw as <-.
    destruct clock as [|t clock _] using rev_ind; [done|]. rewrite foldl_snoc in Hslot. unfold slotFor in Hslot. rewrite update_lookup in Hslot.
    destruct (ic_entries _ !! ix) as [s0|]; [|done]. by eapply update_slot_placed.
  - destruct IH as (s & Hs1 & sm & Hs2). destruct (getOrCreate_spec c name) as (s' & Hg' & Hs'). rewrite Hg in Hg'. injection Hg' as -> ->.
    unfold slotFor in *. cbn [set_entry ic_entries]. destruct (decide (name = ix)) as [->|Hne]; [|rewrite lookup_insert_ne by done; exists s; split; [done|by exists sm]].
    rewrite lookup_insert_eq. eexists. split; [done|]. exists sm. rewrite Hs1 in Hs'. by rewrite Hs'.
  - destruct IH as (s & Hs1 & sm & Hs2). unfold smooth_slot. unfold slotFor in *. destruct (ic_entries c !! name) as [s0|] eqn:H0; [|exists s; split; [done|by exists sm]].
    cbn [set_entry ic_entries]. destruct (decide (name = ix)) as [->|Hne]; [|rewrite lookup_insert_ne by done; exists s; split; [done|by exists sm]].
    rewrite lookup_insert_eq. eexists. split; [done|]. exists sm. rewrite Hs1 in H0. by injection H0 as <-.
Qed.

(** The candidates are the connections that host the shard of the value. *)
Lemma exact_candidates_hosting st slot routing value sp p n shard c0 :
  str_has routingSeparator routing = false -> value <> ""%string -> shardExactEnabled (cf_features (ic_config (ro_cache st))) = true ->
  placed_in p n shard slot -> pl_NumberOfPrimaryShards p <> 0 -> pl_RoutingNumShards p <> 0 ->
  shardForRouting (lit value) (pl_RoutingNumShards p) (pl_NumberOfPrimaryShards p) = Some n ->
  c0 ∈ ro_conns st -> hosts (ro_heap st) (hosting_nodes shard) c0 = true ->
  let bp := List.filter (hosts (ro_heap st) (hosting_nodes shard)) (ro_conns st) in
  bp <> [] /\ exact_candidates sp st slot routing value = Some (bp, Some shard, None).
Proof using.
  clear Hsort SortFunc. intros Hsep Hv Hfe (sm & Hsm & Hpr & Hrn & Hsh) Hp0 Hr0 Hn Hc0 Hh0 bp.
  assert (Hin : c0 ∈ bp) by (apply list_elem_of_In, List.filter_In; split; [by apply list_elem_of_In|done]).
  assert (Hne : bp <> []) by (destruct bp; [set_solver|done]). split; [exact Hne|].
  unfold exact_candidates. rewrite Hsep. cbn [negb]. unfold calcSingleKeyCost. rewrite Hfe, (proj2 (String.eqb_neq _ _) Hv), Hsm. cbn [negb].
  unfold usable_map. cbn [mbind option_bind]. rewrite Hpr, Hrn, (proj2 (Z.eqb_neq _ _) Hp0), (proj2 (Z.eqb_neq _ _) Hr0).
  rewrite bool_decide_false by (intros He; by rewrite He in Hsh). cbn [orb mbind option_bind].
  unfold target_shard. rewrite Hpr, Hrn, Hn. cbn [mbind option_bind]. rewrite Hsh.
  rewrite bool_decide_false.
  - fold bp. by destruct bp.
  - intros He. unfold hosts in Hh0. apply andb_prop in Hh0 as [_ Hh0]. apply bool_decide_eq_true in Hh0. set_solver.
Qed.

(** C24: Routing by shard, as the default policy does it. Discovery has
    distributed a placement that tells where shard [n] of the index [ix] is, to a
    cache that has a slot for [ix]; a request for [ix] has one routing value (its
    routing parameter, or the id of its document), which hashes to shard [n]; the
    wrapped policy answers with a connection; and some connection of the router's
    list that is not waiting for a refresh is to a node with a copy of the shard.
    Then the router chooses such a connection of its list, and answers with it
    when it is active or on standby, and with the wrapped policy's hop when it is
    not. (A router from NewIndexRouter is never fed, [standalone_ignores_routing].) *)
Theorem pool_router_exact (inner : RoutedRequest -> heap -> heap * (NextHop * option error)) (req : RoutedRequest) (st : RouterState)
    (sp : gmap string indexShardPlacement) (ix value : string) (p : indexShardPlacement) (n : Z) (shard : shardNodes)
    (h1 : heap) (hop1 : NextHop) (c0 : loc) :
  router_disabled st = false -> inner req (ro_heap st) = (h1, (hop1, None)) -> hop_Conn hop1 <> None ->
  asks_for req ix value -> shardExactEnabled (cf_features (ic_config (ro_cache st))) = true ->
  fed sp ix (ro_cache st) -> sp !! ix = Some p -> pl_RoutingNumShards p <> 0 ->
  shardForRouting (lit value) (pl_RoutingNumShards p) (pl_NumberOfPrimaryShards p) = Some n ->
  0 <= n < pl_NumberOfPrimaryShards p -> pl_ShardToNodes p !! n = Some shard ->
  c0 ∈ ro_conns st -> hosts h1 (hosting_nodes shard) c0 = true ->
  exists st' c, c ∈ ro_conns st /\ hosts h1 (hosting_nodes shard) c = true
    /\ poolRouter_Eval exp SortFunc now cfg inner req st
       = Some (st', (if decide (Z.land (conn_lifecycle (deref (ro_heap st') c)) (lcActive ||| lcStandby) = 0) then hop1
                     else MkNextHop (Some c) (rc_poolName cfg) 0, None)).
Proof using.
  clear Hsort. intros Hen Hinner Hhop Hask Hfe Hfed Hp Hr0 Hn Hrange Hsh Hc0 Hh0. unfold poolRouter_Eval. rewrite Hen, Hinner.
  set (st1 := with_heap st h1). destruct (hop_Conn hop1) as [ci|]; [|done]. clear Hhop.
  unfold asks_for in Hask. destruct (extractDocumentFromPath (rq_Path req)) as [i d]. destruct Hask as (Hix & Hv & Hsep & Hkey).
  set (routing := extractRouting (rq_RawQuery req)) in *.
  set (keys := if negb (String.eqb i "") && negb (String.eqb d "") then (i, d) else (extractIndexFromPath (rq_Path req), ""%string)).
  assert (Hkeys : keys.1 = ix /\ (if String.eqb routing "" && negb (String.eqb keys.2 "") then keys.2 else routing) = value).
  { unfold keys. destruct Hkey as [(-> & Hd & ->)|(Hno & <- & ->)].
    - rewrite (proj2 (String.eqb_neq _ _) Hix), (proj2 (String.eqb_neq _ _) Hd). cbn [negb andb fst snd]. rewrite (proj2 (String.eqb_neq _ _) Hd).
      split; [done|]. cbn [negb]. rewrite andb_true_r. destruct (String.eqb_spec routing ""), (decide (routing = ""%string)); done.
    - assert (negb (String.eqb i "") && negb (String.eqb d "") = false) as -> by (destruct Hno as [->| ->]; [done|by rewrite andb_false_r]).
      cbn [fst snd]. split; [done|]. by rewrite andb_false_r. }
  destruct keys as [keyA keyB]. cbn [fst snd] in Hkeys. destruct Hkeys as [-> Hval]. rewrite (proj2 (String.eqb_neq _ _) Hix).
  change (ro_conns st1) with (ro_conns st). destruct (ro_conns st) as [|x l] eqn:Hcs; [by apply elem_of_nil in Hc0|]. rewrite <- Hcs in *. cbv zeta. rewrite Hval.
  destruct (getOrCreate (ro_cache st1) ix) as [cache slot] eqn:Hg. pose proof (getOrCreate_shards _ _ _ _ Hg) as (Hcfg & Hsm & _).
  destruct (fed_placed sp ix p n shard (ro_cache st) Hfed Hp ltac:(lia) Hsh) as (s & Hslot & Hpl).
  assert (Hpl' : placed_in p n shard slot).
  { destruct Hpl as (sm & Hs1 & Hs2). exists sm. split; [|done]. rewrite Hsm. change (ro_cache st1) with (ro_cache st). by rewrite Hslot. }
  destruct (exact_candidates_hosting (with_cache st1 cache) slot routing value SortFunc p n shard c0 Hsep Hv) as [Hne Hex]; try done; [|lia|].
  { change (ro_cache (with_cache st1 cache)) with cache. by rewrite Hcfg. }
  rewrite Hex. cbn [mbind option_bind]. destruct (List.filter _ _) as [|y ys] eqn:Hf; [done|].
  destruct (router_select_in (rc_shardCosts cfg) (with_cache st1 cache) (y :: ys) (Some slot) (Some shard) None) as (s3 & c & -> & Hc'); [done|].
  rewrite <- Hf in Hc'. apply list_elem_of_In, List.filter_In in Hc' as [H1 H2]. exists s3, c.
  split; [by apply list_elem_of_In|]. split; [done|]. clear Hkey. unfold hop_or, still_serving. case_decide as Hz; [by rewrite Hz|].
  by rewrite (proj2 (Z.eqb_neq _ _) Hz).
Qed.

Lemma pool_router_answers (inner : RoutedRequest -> heap -> heap * (NextHop * option error)) (req : RoutedRequest)
    (st st' : RouterState) (hop : NextHop) (err : option error) :
  let h1 := (inner req (ro_heap st)).1 in
  let hop1 := (inner req (ro_heap st)).2.1 in
  let err1 := (inner req (ro_heap st)).2.2 in
  topK_input h1 (ro_conns st) -> router_disabled st = false ->
  poolRouter_Eval exp SortFunc now cfg inner req st = Some (st', (hop, err)) ->
  (hop, err) = (hop1, err1)
  \/ (hop_Conn hop1 <> None /\ err1 = None /\ err = None /\ exists c, hop_Conn hop = Some c /\ c ∈ ro_conns st
      /\ Z.land (conn_lifecycle (deref (ro_heap st') c)) (lcActive ||| lcStandby) <> 0
      /\ (extractIndexFromPath (rq_Path req) <> ""%string -> fresh h1 c = true)).
Proof using Hsort.
  intros h1 hop1 err1 Hin Hen. unfold poolRouter_Eval. rewrite Hen. unfold h1, hop1, err1 in *.
  destruct (inner req (ro_heap st)) as [h0 [hop0 err0]]. cbn [fst snd] in *. clear h1 hop1 err1.
  destruct (hop_Conn hop0) as [c0|] eqn:Hc0; [|intros [= _ <- <-]; by left]. destruct err0 as [e|]; [intros [= _ <- <-]; by left|].
  set (st1 := with_heap st h0).
  assert (Hgoal : forall s2 best mcsr (P : Prop), (forall c, best = Some c -> c ∈ ro_conns st /\ (P -> fresh h0 c = true)) ->
    Some (s2, (hop_or cfg hop0 s2 best mcsr, None)) = Some (st', (hop, err)) ->
    (hop, err) = (hop0, None) \/ (Some c0 <> None /\ @None error = None /\ err = None /\ exists c, hop_Conn hop = Some c /\ c ∈ ro_conns st
      /\ Z.land (conn_lifecycle (deref (ro_heap st') c)) (lcActive ||| lcStandby) <> 0 /\ (P -> fresh h0 c = true))).
  { intros s2 best mcsr P Hb [= <- <- <-]. unfold hop_or. destruct (still_serving (ro_heap s2) best) eqn:Hs; [|by left].
    right. destruct best as [c|]; [|done]. split; [done|split; [done|split; [done|]]]. exists c. destruct (Hb c eq_refl) as [H1 H2].
    split; [done|split; [done|split; [|done]]]. unfold still_serving in Hs. apply negb_true_iff, Z.eqb_neq in Hs. done. }
  destruct (extractDocumentFromPath (rq_Path req)) as [idx docID].
  set (keys := if negb (String.eqb idx "") && negb (String.eqb docID "") then (idx, docID) else (extractIndexFromPath (rq_Path req), ""%string)).
  assert (Hkey : keys.1 = ""%string -> extractIndexFromPath (rq_Path req) = ""%string).
  { unfold keys. destruct (String.eqb_spec idx ""); cbn [negb andb]; [done|]. destruct (String.eqb docID ""); done. }
  destruct keys as [keyA keyB]. cbn [fst] in Hkey.
  destruct (String.eqb_spec keyA "") as [HkA|HkA].
  { change (ro_conns st1) with (ro_conns st). destruct (ro_conns st) as [|x l] eqn:Hcs; [intros [= _ <- <-]; by left|]. rewrite <- Hcs in *.
    destruct (router_select_in (rc_shardCosts cfg) st1 (ro_conns st) None None None) as (s2 & c & -> & Hc); [by rewrite Hcs|].
    apply (Hgoal s2 (Some c) 0). intros c' [= <-]. split; [done|]. intros H. by destruct H; apply Hkey. }
  change (ro_conns st1) with (ro_conns st). destruct (ro_conns st) as [|x l] eqn:Hcs; [intros [= _ <- <-]; by left|]. rewrite <- Hcs in *.
  destruct (getOrCreate (ro_cache st1) keyA) as [cache slot]. set (st2 := with_cache st1 cache).
  destruct (exact_candidates _ _ _ _ _) as [[[cands shard] extra]|] eqn:Hex; cbn [mbind option_bind]; [|done].
  destruct cands as [|c1 cands].
  - pose proof (rendezvous_candidates_spec st2 slot keyA keyA keyB Hin) as H.
    destruct (rendezvous_candidates _ _ _ _ _ _ _) as [st3 cands]. destruct H as (_ & Hc & _).
    destruct cands as [|c2 cands]; [intros [= _ <- <-]; by left|].
    destruct (router_select_in (rc_shardCosts cfg) st3 (c2 :: cands) (Some slot) None None) as (s4 & c & -> & Hc'); [done|].
    apply (Hgoal s4 (Some c)). intros c' [= <-]. destruct (Hc c Hc') as [H1 H2]. by split.
  - destruct (router_select_in (rc_shardCosts cfg) st2 (c1 :: cands) (Some slot) shard extra) as (s4 & c & -> & Hc'); [done|].
    apply (Hgoal s4 (Some c)). intros c' [= <-]. destruct (exact_candidates_in _ _ _ _ _ _ _ _ Hex Hc') as [H1 H2]. by split.
Qed.

Lemma doc_router_answers (req : RoutedRequest) (st st' : RouterState) (hop : NextHop) :
  topK_input (ro_heap st) (ro_conns st) ->
  DocRouter_Eval exp SortFunc now cfg req st = Some (st', hop) ->
  match hop_Conn hop with
  | Some c => c ∈ ro_conns st /\ fresh (ro_heap st) c = true
  | None => router_disabled st = true \/ ro_conns st = [] \/ (extractDocumentFromPath (rq_Path req)).1 = ""%string
      \/ (extractDocumentFromPath (rq_Path req)).2 = ""%string \/ forall c, c ∈ ro_conns st -> fresh (ro_heap st) c = false
  end.
Proof using Hsort.
  intros Hin. unfold DocRouter_Eval. destruct (router_disabled st); [intros [= _ <-]; by left|].
  destruct (extractDocumentFromPath (rq_Path req)) as [ix docID]. cbn [fst snd].
  destruct (String.eqb_spec ix ""); [intros [= _ <-]; do 2 right; by left|].
  destruct (String.eqb_spec docID ""); [intros [= _ <-]; do 3 right; by left|]. cbn [orb].
  destruct (ro_conns st) as [|c0 rest] eqn:Hcs; [intros [= _ <-]; by right; left|]. rewrite <- Hcs in *.
  destruct (getOrCreate (ro_cache st) _) as [cache slot]. set (st1 := with_cache st cache).
  destruct (exact_candidates _ _ _ _ _) as [[[cands shard] extra]|] eqn:Hex; cbn [mbind option_bind]; [|done].
  destruct cands as [|c1 cands].
  - pose proof (rendezvous_candidates_spec st1 slot ix ix docID Hin) as H.
    destruct (rendezvous_candidates _ _ _ _ _ _ _) as [st2 cands]. destruct H as (Hh & Hc & Hnone).
    destruct cands as [|c2 cands]; [intros [= _ <-]; do 4 right; apply Hnone; [done|]; change (ro_conns st <> []); by rewrite Hcs|].
    destruct (router_select_in shardCostForReads st2 (c2 :: cands) (Some slot) None None) as (s3 & c & -> & Hc'); [done|].
    intros [= _ <-]. destruct (Hc c Hc') as [H1 H2]. by split.
  - destruct (router_select_in shardCostForReads st1 (c1 :: cands) (Some slot) shard extra) as (s3 & c & -> & Hc'); [done|].
    intros [= _ <-]. destruct (exact_candidates_in _ _ _ _ _ _ _ _ Hex Hc') as [H1 H2]. by split.
Qed.

(** * Eval answers *)

(** Every usable shard map of the cache has a modulus for its primaries. *)
Definition routable (c : indexSlotCache) : Prop :=
  forall name s sm, slotFor c name = Some s -> usable_map (sl_shardMap s) = Some sm -> sane_map sm.

Lemma exact_candidates_total st name cache slot rv key :
  routable (ro_cache st) -> getOrCreate (ro_cache st) name = (cache, slot) ->
  is_Some (exact_candidates SortFunc (with_cache st cache) slot rv key).
Proof using.
  clear Hsort. intros Hr Hg. apply getOrCreate_shards in Hg as (_ & Hsm & _).
  assert (Hs : forall sm, usable_map (sl_shardMap slot) = Some sm -> sane_map sm).
  { intros sm. rewrite Hsm. destruct (slotFor (ro_cache st) name) as [s|] eqn:Hn; [by apply (Hr name)|done]. }
  unfold exact_candidates. destruct (negb (str_has _ rv)).
  - destruct (calcSingleKeyCost_total (ro_heap (with_cache st cache)) (cf_features (ic_config (ro_cache (with_cache st cache)))) slot key
      (ro_conns (with_cache st cache)) Hs) as [[[[cs n] s]|] ->]; by eexists.
  - destruct (calcMultiKeyCost_total (ro_heap (with_cache st cache)) SortFunc (cf_features (ic_config (ro_cache (with_cache st cache)))) slot rv
      (ro_conns (with_cache st cache)) Hs) as [[cs extra] ->]. by eexists.
Qed.

Lemma index_router_returns req st : routable (ro_cache st) -> is_Some (IndexRouter_Eval exp SortFunc now cfg req st).
Proof using.
  clear Hsort. intros Hr. unfold IndexRouter_Eval. destruct (router_disabled st); [done|].
  destruct (String.eqb _ ""); [destruct (ro_conns st); [done|]; by destruct (router_select _ _ _ _ _ _ _)|].
  destruct (ro_conns st); [done|]. destruct (getOrCreate (ro_cache st) _) as [cache slot] eqn:Hg.
  destruct (exact_candidates_total st _ cache slot (extractRouting (rq_RawQuery req)) (extractRouting (rq_RawQuery req)) Hr Hg) as [[[cands shard] extra] ->].
  cbn [mbind option_bind]. destruct cands; [|by destruct (router_select _ _ _ _ _ _ _)].
  destruct (rendezvous_candidates _ _ _ _ _ _ _) as [st2 [|c cs]]; [done|]. by destruct (router_select _ _ _ _ _ _ _).
Qed.

Lemma doc_router_returns req st : routable (ro_cache st) -> is_Some (DocRouter_Eval exp SortFunc now cfg req st).
Proof using.
  clear Hsort. intros Hr. unfold DocRouter_Eval. destruct (router_disabled st); [done|].
  destruct (extractDocumentFromPath _) as [ix docID]. destruct (_ || _); [done|]. destruct (ro_conns st); [done|].
  destruct (getOrCreate (ro_cache st) _) as [cache slot] eqn:Hg.
  set (key := if String.eqb (extractRouting (rq_RawQuery req)) "" then docID else extractRouting (rq_RawQuery req)).
  destruct (exact_candidates_total st _ cache slot (extractRouting (rq_RawQuery req)) key Hr Hg) as [[[cands shard] extra] ->].
  cbn [mbind option_bind]. destruct cands; [|by destruct (router_select _ _ _ _ _ _ _)].
  destruct (rendezvous_candidates _ _ _ _ _ _ _) as [st2 [|c cs]]; [done|]. by destruct (router_select _ _ _ _ _ _ _).
Qed.

Lemma pool_router_returns inner req st : routable (ro_cache st) -> is_Some (poolRouter_Eval exp SortFunc now cfg inner req st).
Proof using.
  clear Hsort. intros Hr. unfold poolRouter_Eval. destruct (router_disabled st); [done|].
  destruct (inner req (ro_heap st)) as [h0 [hop0 err0]]. destruct (hop_Conn hop0); [|done]. destruct err0; [done|].
  set (st1 := with_heap st h0). destruct (extractDocumentFromPath _) as [idx docID].
  destruct (if negb (String.eqb idx "") && negb (String.eqb docID "") then (idx, docID) else (extractIndexFromPath (rq_Path req), ""%string)) as [keyA keyB].
  destruct (String.eqb keyA ""); [destruct (ro_conns st1); [done|]; by destruct (router_select _ _ _ _ _ _ _)|].
  destruct (ro_conns st1); [done|]. destruct (getOrCreate (ro_cache st1) keyA) as [cache slot] eqn:Hg.
  set (rv := extractRouting (rq_RawQuery req)). set (key := if String.eqb rv "" && negb (String.eqb keyB "") then keyB else rv).
  destruct (exact_candidates_total st1 keyA cache slot rv key Hr Hg) as [[[cands shard] extra] ->].
  cbn [mbind option_bind]. destruct cands; [|by destruct (router_select _ _ _ _ _ _ _)].
  destruct (rendezvous_candidates _ _ _ _ _ _ _) as [st2 [|c cs]]; [done|]. by destruct (router_select _ _ _ _ _ _ _).
Qed.

(** The routers answer whenever they can, and never panic on shard maps as
    the server gives them. For a request with an index IndexRouter
    returns a connection of its list that is not waiting for a shard refresh, and
    none only if it is disabled, has no connection, or all of them wait; for
    other requests any connection of the list. DocRouter does the same for the
    requests that name a document, and leaves the others alone. *)
Theorem index_router_target (req : RoutedRequest) (st : RouterState) :
  topK_input (ro_heap st) (ro_conns st) -> routable (ro_cache st) ->
  (exists st' hop, IndexRouter_Eval exp SortFunc now cfg req st = Some (st', hop)
    /\ index_router_choice (extractIndexFromPath (rq_Path req) <> ""%string) st hop)
  /\ (exists st' hop, DocRouter_Eval exp SortFunc now cfg req st = Some (st', hop)
    /\ match hop_Conn hop with
       | Some c => c ∈ ro_conns st /\ fresh (ro_heap st) c = true
       | None => router_disabled st = true \/ ro_conns st = [] \/ (extractDocumentFromPath (rq_Path req)).1 = ""%string
           \/ (extractDocumentFromPath (rq_Path req)).2 = ""%string \/ forall c, c ∈ ro_conns st -> fresh (ro_heap st) c = false
       end).
Proof using Hsort.
  intros Hin Hr. destruct (index_router_returns req st Hr) as [[st1 hop1] H1]. destruct (doc_router_returns req st Hr) as [[st2 hop2] H2].
  split; [exists st1, hop1|exists st2, hop2]; (split; [done|]); [by apply index_router_answers in H1|by apply doc_router_answers in H2].
Qed.

(** A wrapped policy keeps its answer or gets a better one. When the inner
    policy answers with a connection, poolRouter answers with that hop, or with a
    connection of its own list that is active or on standby and, for a request
    with an index, not waiting for a shard refresh. An answer without a
    connection, or an error, is passed on. It never panics on shard maps as the
    server gives them. *)
Theorem pool_router_target (inner : RoutedRequest -> heap -> heap * (NextHop * option error)) (req : RoutedRequest) (st : RouterState) :
  let h1 := (inner req (ro_heap st)).1 in
  let hop1 := (inner req (ro_heap st)).2.1 in
  let err1 := (inner req (ro_heap st)).2.2 in
  topK_input h1 (ro_conns st) -> routable (ro_cache st) -> router_disabled st = false ->
  exists st' hop err, poolRouter_Eval exp SortFunc now cfg inner req st = Some (st', (hop, err)) /\
  ((hop, err) = (hop1, err1)
   \/ (hop_Conn hop1 <> None /\ err1 = None /\ err = None /\ exists c, hop_Conn hop = Some c /\ c ∈ ro_conns st
       /\ Z.land (conn_lifecycle (deref (ro_heap st') c)) (lcActive ||| lcStandby) <> 0
       /\ (extractIndexFromPath (rq_Path req) <> ""%string -> fresh h1 c = true))).
Proof using Hsort.
  intros h1 hop1 err1 Hin Hr Hen. destruct (pool_router_returns inner req st Hr) as [[st' [hop err]] He].
  exists st', hop, err. split; [done|]. by apply (pool_router_answers inner req st st' hop err).
Qed.
End Target.

(** * A standalone router *)

(** newIndexRouter, on the connections of [h]. *)
Definition newIndexRouter (cfg0 : indexSlotCacheConfig) (h : heap) : RouterState :=
  let decay := if f64_leb (cf_decayFactor cfg0) (f64_of_Z 0) || f64_leb (f64_of_Z 1) (cf_decayFactor cfg0) then defaultDecayFactor else cf_decayFactor cfg0 in
  MkRouter h (newIndexSlotCache (MkCacheConfig (cf_minFanOut cfg0) (cf_maxFanOut cfg0) (cf_overrides cfg0) (cf_idleEvictionTTL cfg0)
    decay (cf_fanOutPerReq cfg0) (cf_features cfg0) (cf_adaptiveConcurrency cfg0))) 0 [] 0.

(** Requests, topology changes, discoveries of shard placement over a router that
    is this policy, and whatever else changes the connections. *)
Inductive router_event :=
| Evaluated (now : Z) (req : RoutedRequest)
| TopologyChanged (added removed : option (list loc))
| PlacementWalk (shardPlacement : option (gmap string indexShardPlacement)) (activeNodeCount : Z) (clock : list Z)
| ConnectionsChanged (h : heap).

Definition place_walk (sp : option (gmap string indexShardPlacement)) (active : Z) (clock : list Z) (st : RouterState) : RouterState :=
  let cs := (updateShardPlacementTree sp active (standalone_router 0) (clock, fun _ => Some (ro_cache st))).2 in
  with_cache st (default (ro_cache st) (cs 0%nat)).

Section Standalone.
Context (exp : f64 -> f64) (SortFunc : list (loc * Z) -> list (loc * Z)) (cfg : RouterConfig).

Definition router_step (st : RouterState) (e : router_event) : RouterState :=
  match e with
  | Evaluated now req => match IndexRouter_Eval exp SortFunc now cfg req st with Some (st', _) => st' | None => st end
  | TopologyChanged added removed => routerDiscoveryUpdate added removed st
  | PlacementWalk sp active clock => place_walk sp active clock st
  | ConnectionsChanged h => with_heap st h
  end.

(** No slot of the cache has shard data. *)
Definition unfed (c : indexSlotCache) : Prop := forall name s, ic_entries c !! name = Some s -> sl_shardMap s = None.

Lemma unfed_set name s c : unfed c -> sl_shardMap s = None -> unfed (set_entry name s c).
Proof using.
  intros H Hs name' s'. cbn [set_entry ic_entries]. destruct (decide (name' = name)) as [->|Hne].
  - rewrite lookup_insert_eq. by intros [= <-].
  - rewrite lookup_insert_ne by done. apply H.
Qed.

Lemma unfed_getOrCreate c name cache slot :
  unfed c -> getOrCreate c name = (cache, slot) -> unfed cache /\ sl_shardMap slot = None.
Proof using.
  intros H Hg. pose proof (getOrCreate_shards c name cache slot Hg) as (_ & Hs & _).
  assert (Hm : sl_shardMap slot = None).
  { rewrite Hs. unfold slotFor. destruct (ic_entries c !! name) as [s|] eqn:Hl; [by apply (H name)|done]. }
  split; [|done]. destruct (getOrCreate_spec c name) as (s & Hg' & _). rewrite Hg in Hg'. injection Hg' as -> ->. by apply unfed_set.
Qed.

Lemma unfed_rendezvous now st slot ix keyA keyB :
  unfed (ro_cache st) -> unfed (ro_cache (rendezvous_candidates exp now st slot ix keyA keyB).1).
Proof using.
  intros H. unfold rendezvous_candidates. destruct (rendezvousTopK _ _ _ _ _ _ _) as [[cands j] conns'].
  destruct cands as [|c cands]; [done|]. cbn [fst with_cache ro_cache]. unfold smooth_slot. cbn [with_ranked ro_cache].
  destruct (ic_entries (ro_cache st) !! ix) as [s|] eqn:Hs; [|done]. apply unfed_set; [done|]. exact (H ix s Hs).
Qed.

Lemma router_select_cache costs st cands slot shard extra :
  ro_cache (router_select cfg costs st cands slot shard extra).1 = ro_cache st.
Proof using. unfold router_select. by destruct (connScoreSelect _ _ _ _ _ _ _ _ _). Qed.

Lemma unfed_step st e : unfed (ro_cache st) -> unfed (ro_cache (router_step st e)).
Proof using.
  intros H. destruct e as [now req|added removed|sp active clock|h]; cbn [router_step]; [| | |done].
  - destruct (IndexRouter_Eval _ _ _ _ _ _) as [[st' hop]|] eqn:He; [|done]. revert He. unfold IndexRouter_Eval.
    destruct (router_disabled st); [by intros [= <- _]|]. destruct (String.eqb _ "").
    { destruct (ro_conns st) as [|c0 l0]; [by intros [= <- _]|]. pose proof (router_select_cache (rc_shardCosts cfg) st (c0 :: l0) None None None) as Hc.
      destruct (router_select _ _ _ _ _ _ _) as [s1 b]. cbn [fst] in Hc. intros [= <- _]. by rewrite Hc. }
    destruct (ro_conns st); [by intros [= <- _]|].
    destruct (getOrCreate (ro_cache st) _) as [cache slot] eqn:Hg. destruct (unfed_getOrCreate _ _ _ _ H Hg) as [Hu _].
    destruct (exact_candidates _ _ _ _ _) as [[[cands shard] extra]|]; cbn [mbind option_bind]; [|done]. destruct cands as [|c1 cands].
    + pose proof (unfed_rendezvous now (with_cache st cache) slot (extractIndexFromPath (rq_Path req)) (extractIndexFromPath (rq_Path req)) "" Hu) as Hr.
      destruct (rendezvous_candidates _ _ _ _ _ _ _) as [st2 cands]. cbn [fst] in Hr. destruct cands as [|c2 cands]; [by intros [= <- _]|].
      pose proof (router_select_cache (rc_shardCosts cfg) st2 (c2 :: cands) (Some slot) None None) as Hc.
      destruct (router_select _ _ _ _ _ _ _) as [s1 b]. cbn [fst] in Hc. intros [= <- _]. by rewrite Hc.
    + pose proof (router_select_cache (rc_shardCosts cfg) (with_cache st cache) (c1 :: cands) (Some slot) shard extra) as Hc.
      destruct (router_select _ _ _ _ _ _ _) as [s1 b]. cbn [fst] in Hc. intros [= <- _]. by rewrite Hc.
  - unfold routerDiscoveryUpdate. destruct (router_disabled st); [done|].
    destruct added, removed; try done; by destruct (foldl _ _ (ro_conns st)); destruct (foldl _ _ _).
  - unfold place_walk. rewrite standalone_unfed. exact H.
Qed.

(** A router made by NewIndexRouter never routes by shard. Whatever requests,
    topology changes and discoveries it sees, the routing value of a request makes
    no difference to what it answers: the walk that distributes shard placement
    does not reach its cache. *)
Theorem standalone_ignores_routing (cfg0 : indexSlotCacheConfig) (h : heap) (events : list router_event) (now : Z) (req : RoutedRequest) :
  let st := foldl router_step (newIndexRouter cfg0 h) events in
  IndexRouter_Eval exp SortFunc now cfg req st = IndexRouter_Eval exp SortFunc now cfg (MkRouted (rq_Path req) "") st.
Proof using.
  intros st. assert (H : unfed (ro_cache st)).
  { unfold st. induction events as [|e events IH] using rev_ind; [done|]. rewrite foldl_snoc. by apply unfed_step. }
  clearbody st. unfold IndexRouter_Eval. cbn [rq_Path rq_RawQuery]. change (extractRouting "") with ""%string.
  destruct (router_disabled st); [done|]. destruct (String.eqb _ ""); [done|]. destruct (ro_conns st) as [|c0 l] eqn:Hcs; [done|].
  destruct (getOrCreate (ro_cache st) _) as [cache slot] eqn:Hg. destruct (unfed_getOrCreate _ _ _ _ H Hg) as [_ Hm].
  assert (Hex : forall rv key, exists extra, exact_candidates SortFunc (with_cache st cache) slot rv key = Some ([], None, extra)).
  { intros rv key. unfold exact_candidates, calcSingleKeyCost, calcMultiKeyCost. rewrite Hm. cbn [usable_map mbind option_bind].
    destruct (negb (str_has _ rv)).
    - destruct (negb _); [by eexists|]. destruct (String.eqb key ""); by eexists.
    - destruct (_ || _); by eexists. }
  destruct (Hex (extractRouting (rq_RawQuery req)) (extractRouting (rq_RawQuery req))) as [e1 ->]. by destruct (Hex ""%string ""%string) as [e2 ->].
Qed.
End Standalone.

(** * Topology changes *)

Lemma add_unseen_spec h seen all l :
  (forall u, u ∈ seen <-> u ∈ map (urlOf h) all) -> NoDup (map (urlOf h) all) ->
  let '(seen', all') := foldl (add_unseen h) (seen, all) l in
  (forall u, u ∈ seen' <-> u ∈ map (urlOf h) all') /\ NoDup (map (urlOf h) all')
  /\ (exists more, all' = all ++ more /\ more ⊆ l)
  /\ (forall u, u ∈ map (urlOf h) all' <-> u ∈ map (urlOf h) (all ++ l)).
Proof.
  revert seen all. induction l as [|c l IH]; intros seen all Hs Hnd; cbn [foldl].
  { split; [done|split; [done|split; [exists []; by rewrite app_nil_r|by rewrite app_nil_r]]]. }
  unfold add_unseen at 2. destruct (bool_decide (urlOf h c ∈ seen)) eqn:Hb.
  - apply bool_decide_eq_true in Hb. specialize (IH seen all Hs Hnd). destruct (foldl _ _ l) as [seen' all'].
    destruct IH as (H1 & H2 & (more & Hm & Hml) & H4). split; [done|split; [done|split; [exists more; split; [done|set_solver]|]]].
    intros u. rewrite H4, !map_app, !elem_of_app. cbn [map]. rewrite elem_of_cons. apply Hs in Hb. set_solver.
  - apply bool_decide_eq_false in Hb.
    assert (Hs' : forall u, u ∈ ({[urlOf h c]} ∪ seen) <-> u ∈ map (urlOf h) (all ++ [c])).
    { intros u. rewrite map_app, elem_of_app, elem_of_union, elem_of_singleton, (Hs u). cbn [map]. rewrite list_elem_of_singleton. tauto. }
    assert (Hnd' : NoDup (map (urlOf h) (all ++ [c]))).
    { rewrite map_app. apply NoDup_app. split; [done|split; [|apply NoDup_singleton]]. intros u Hu Hc. cbn in Hc.
      apply list_elem_of_singleton in Hc as ->. apply Hb, Hs, Hu. }
    specialize (IH _ _ Hs' Hnd'). destruct (foldl _ _ l) as [seen' all']. destruct IH as (H1 & H2 & (more & Hm & Hml) & H4).
    split; [done|split; [done|split]].
    + exists (c :: more). split; [by rewrite Hm, <- (assoc_L (++))|set_solver].
    + intros u. rewrite H4, <- (assoc_L (++)). done.
Qed.

Lemma add_unseen_keep h seen all l :
  (forall u, u ∈ seen <-> u ∈ map (urlOf h) all) -> NoDup (map (urlOf h) (all ++ l)) ->
  (foldl (add_unseen h) (seen, all) l).2 = all ++ l.
Proof.
  revert seen all. induction l as [|c l IH]; intros seen all Hs Hnd; cbn [foldl]; [by rewrite app_nil_r|].
  unfold add_unseen at 2. rewrite bool_decide_false.
  - rewrite IH, <- (assoc_L (++)); [done| |by rewrite <- (assoc_L (++))]. intros u.
    rewrite map_app, elem_of_app, elem_of_union, elem_of_singleton, (Hs u). cbn [map]. rewrite list_elem_of_singleton. tauto.
  - rewrite Hs. rewrite map_app in Hnd. apply NoDup_app in Hnd as (_ & Hd & _). intros Hin. apply (Hd _ Hin). cbn. set_solver.
Qed.

(** A topology change leaves the list the routers rely on: one connection for
    each URL that the old list or the additions have and the removals do not, the
    old one where there was one; sorted by round trip time; and the policy enabled
    exactly when one of them is available for routing. So a connection that
    replaces another at the same URL, which is removed and added in one change, is
    not in the list. *)
Theorem router_topology (added removed : option (list loc)) (st : RouterState) :
  router_disabled st = false -> (added <> None \/ removed <> None) ->
  NoDup (map (urlOf (ro_heap st)) (ro_conns st)) ->
  let url := urlOf (ro_heap st) in
  let gone u := u ∈ map url (default [] removed) in
  let st' := routerDiscoveryUpdate added removed st in
  (forall u, u ∈ map url (ro_conns st') <-> u ∈ map url (ro_conns st ++ default [] added) /\ ~ gone u)
  /\ NoDup (map url (ro_conns st'))
  /\ (forall c, c ∈ ro_conns st' -> c ∈ ro_conns st ++ default [] added)
  /\ (forall c, c ∈ ro_conns st -> ~ gone (url c) -> c ∈ ro_conns st')
  /\ StronglySorted (fun a b => rtt_before (ro_heap st) a b = true) (ro_conns st')
  /\ psIsEnabled (ro_policyState st') = existsb (fun c => availableForRouting (deref (ro_heap st) c)) (ro_conns st').
Proof.
  intros Hen Hsome Hnd url gone st'. set (h := ro_heap st) in *.
  pose proof (add_unseen_spec h ∅ [] (ro_conns st)) as H1. destruct (foldl (add_unseen h) (∅, []) (ro_conns st)) as [seen all] eqn:E1.
  destruct H1 as (Hs1 & Hn1 & (m1 & Hm1 & Hm1s) & Hu1); [set_solver|constructor|]. cbn [app] in *. subst m1.
  pose proof (add_unseen_spec h seen all (default [] added) Hs1 Hn1) as H2.
  destruct (foldl (add_unseen h) (seen, all) (default [] added)) as [seen2 all2] eqn:E2. destruct H2 as (_ & Hn2 & (m2 & Hm2 & Hm2s) & Hu2).
  set (kept := List.filter (fun c => negb (bool_decide (url c ∈ (list_to_set (map url (default [] removed)) : gset string)))) all2).
  assert (Hst' : st' = with_conns st (sortConnectionsByRTT h kept)
    (psSetEnabled (existsb (fun c => availableForRouting (deref h c)) (sortConnectionsByRTT h kept)) (ro_policyState st))).
  { unfold st', routerDiscoveryUpdate. rewrite Hen. fold h. rewrite E1, E2. destruct added, removed; try done. by destruct Hsome. }
  rewrite Hst'. cbn [with_conns ro_conns ro_policyState]. destruct (sort_by_rtt h kept) as [Hperm Hsorted].
  assert (Hkept : forall c, c ∈ kept <-> c ∈ all2 /\ ~ gone (url c)).
  { intros c. unfold kept. rewrite list_elem_of_In, List.filter_In, <- list_elem_of_In, negb_true_iff, bool_decide_eq_false, elem_of_list_to_set. done. }
  assert (Hall : forall c, c ∈ all2 -> c ∈ ro_conns st ++ default [] added) by (intros c Hc; rewrite Hm2 in Hc; set_solver).
  assert (Hold : all = ro_conns st).
  { pose proof (add_unseen_keep h ∅ [] (ro_conns st)) as Hk. rewrite E1 in Hk. apply Hk; [set_solver|done]. }
  split; [|split; [|split; [|split; [|split; [done|]]]]].
  - intros u. assert (Hp : map url (sortConnectionsByRTT h kept) ≡ₚ map url kept) by (by rewrite Hperm). rewrite Hp. split.
    + intros Hu. apply list_elem_of_fmap in Hu as (c & -> & Hc). apply Hkept in Hc as [Hc Hg]. split; [|done].
      apply list_elem_of_fmap. exists c. split; [done|by apply Hall].
    + intros [Hu Hg]. rewrite <- Hold in Hu. apply Hu2 in Hu. apply list_elem_of_fmap in Hu as (c & -> & Hc).
      apply list_elem_of_fmap. exists c. split; [done|by apply Hkept].
  - assert (Hp : map url (sortConnectionsByRTT h kept) ≡ₚ map url kept) by (by rewrite Hperm). rewrite Hp. unfold kept. clear -Hn2.
    induction all2 as [|c l IH]; cbn in *; [constructor|]. inversion Hn2 as [|? ? Hc Hl]; subst. destruct (negb _); [|by apply IH]. cbn. constructor; [|by apply IH].
    intros Hin. apply Hc. apply list_elem_of_fmap in Hin as (c' & Heq & Hin). apply list_elem_of_fmap. exists c'. split; [done|].
    apply list_elem_of_In, List.filter_In in Hin as [Hin _]. by apply list_elem_of_In.
  - intros c Hc. rewrite Hperm in Hc. apply Hkept in Hc as [Hc _]. by apply Hall.
  - intros c Hc Hg. rewrite Hperm. apply Hkept. split; [|done]. rewrite Hm2, Hold. set_solver.
  - rewrite psIsEnabled_set. unfold router_disabled in Hen. apply negb_false_iff in Hen. by rewrite Hen, andb_true_r.
Qed.

(** * Examples *)

Definition ex_router_config : RouterConfig := MkRouterConfig shardCostForReads None "search" true 0.
Definition ex_node (url name : string) (bucket : Z) : Connection :=
  MkConnection url name name ∅ 1 8 (Some (RttRing (replicate 12 bucket) 12)) pr_zero 0 (newConnState (lcReady ||| lcActive ||| lcViable)) 0 0 0 0 false.
Definition ex_router_conns : heap := list_to_map
  [(1%nat, ex_node "a" "n1" 8); (2%nat, ex_node "b" "n2" 9); (3%nat, ex_node "c" "n3" 10)].
Definition ex_no_exp : f64 -> f64 := fun x => x.
Definition ex_router_cache : indexSlotCache :=
  set_entry "logs" (MkSlot (f64_of_Z 1) 1 2 None (Some (MkShardMap 2 640
    (list_to_map [(0, MkShardNodes "n3" ["n2"%string]); (1, MkShardNodes "n1" [])]))) (f64_of_Z 1) 0 0) (newIndexSlotCache ex_cfg).
Definition ex_router : RouterState := MkRouter ex_router_conns ex_router_cache 0 [1; 2; 3]%nat psEnabled.
Definition ex_search : RoutedRequest := MkRouted "/logs/_search" "routing=b".

Lemma ex_router_input : topK_input ex_router_conns [1; 2; 3]%nat.
Proof.
  split; [|split].
  - repeat constructor; vm_compute; discriminate.
  - apply (bool_decide_unpack _). vm_compute. exact I.
  - intros a b Ha Hb. rewrite !elem_of_cons, elem_of_nil in Ha, Hb.
    destruct Ha as [->|[->|[->|[]]]], Hb as [->|[->|[->|[]]]]; vm_compute; intros H; congruence.
Qed.

Definition ex_answer (r : option (RouterState * NextHop)) : option loc := r' ← r; hop_Conn r'.2.

Lemma ex_router_routable : routable ex_router_cache.
Proof.
  intros name s sm Hs Hu. unfold ex_router_cache, slotFor in Hs. cbn [set_entry ic_entries newIndexSlotCache] in Hs.
  destruct (decide (name = "logs"%string)) as [->|Hne]; [|by rewrite lookup_insert_ne in Hs].
  rewrite lookup_insert_eq in Hs. injection Hs as <-. revert Hu. cbn [sl_shardMap]. unfold usable_map. cbn [mbind option_bind].
  destruct (_ || _); [done|]. intros [= <-]. split; cbn; lia.
Qed.

Lemma index_router_target_witness :
  ex_answer (IndexRouter_Eval ex_no_exp hits_sort 1 ex_router_config (MkRouted "/other/_search" "") ex_router) = Some 1%nat
  /\ exists st' hop, IndexRouter_Eval ex_no_exp hits_sort 1 ex_router_config (MkRouted "/other/_search" "") ex_router = Some (st', hop)
     /\ match hop_Conn hop with Some c => c ∈ [1; 2; 3]%nat | None => True end.
Proof.
  split; [vm_compute; reflexivity|].
  destruct (index_router_target ex_no_exp hits_sort hits_sort_sorts 1 ex_router_config (MkRouted "/other/_search" "") ex_router
    ex_router_input ex_router_routable) as [(st' & hop & He & H) _].
  exists st', hop. split; [exact He|]. unfold index_router_choice in H. destruct (hop_Conn hop); [exact (proj1 H)|exact I].
Defined.

Definition ex_inner : RoutedRequest -> heap -> heap * (NextHop * option error) :=
  fun _ h => (h, (MkNextHop (Some 3%nat) "" 0, None)).

(** A router of the default policy from the start: a first request makes the
    slot of its index, a discovery distributes the placement, and the next
    request goes to a node with a copy of shard 0. *)
Definition ex_placement : gmap string indexShardPlacement :=
  {["logs"%string := MkPlacement ∅ 2 640 (list_to_map [(0, MkShardNodes "n3" ["n2"%string]); (1, MkShardNodes "n1" [])])]}.
Definition ex_new_router : RouterState := MkRouter ex_router_conns (newIndexSlotCache ex_cfg) 0 [1; 2; 3]%nat psEnabled.
Definition ex_first : RouterState :=
  match poolRouter_Eval ex_no_exp hits_sort 1 ex_router_config ex_inner ex_search ex_new_router with Some (st, _) => st | None => ex_new_router end.
Definition ex_walk : option indexSlotCache :=
  (updateShardPlacementTree (Some ex_placement) 3 (NewDefaultPolicy 0) (repeat 2 14, fun _ => Some (ro_cache ex_first))).2 0%nat.
Definition ex_fed_router : RouterState := with_cache ex_first (default (newIndexSlotCache ex_cfg) ex_walk).

Lemma pool_router_exact_witness :
  shardForRouting (lit "b") 640 2 = Some 0
  /\ exists st' c, c ∈ [1; 2; 3]%nat /\ hosts (ro_heap ex_fed_router) (hosting_nodes (MkShardNodes "n3" ["n2"%string])) c = true
     /\ poolRouter_Eval ex_no_exp hits_sort 1 ex_router_config (fun _ h => (h, (MkNextHop (Some 1%nat) "" 0, None))) ex_search ex_fed_router
        = Some (st', (if decide (Z.land (conn_lifecycle (deref (ro_heap st') c)) (lcActive ||| lcStandby) = 0) then MkNextHop (Some 1%nat) "" 0
                      else MkNextHop (Some c) "search" 0, None)).
Proof.
  split; [vm_compute; reflexivity|].
  assert (Hfed : fed ex_placement "logs" (ro_cache ex_fed_router)).
  { apply (fed_walk _ _ 3 0%nat (fun _ => Some (ro_cache ex_first)) (repeat 2 14)); [reflexivity|vm_compute; reflexivity|].
    apply (bool_decide_unpack _). vm_compute. exact I. }
  assert (Hask : asks_for ex_search "logs" "b").
  { unfold asks_for. vm_compute extractDocumentFromPath. vm_compute extractRouting. vm_compute extractIndexFromPath.
    split; [discriminate|]. split; [discriminate|]. split; [reflexivity|]. right. auto. }
  assert (Hconns : forall c, c ∈ ro_conns ex_fed_router <-> c ∈ [1; 2; 3]%nat).
  { assert (E : ro_conns ex_fed_router ≡ₚ [1; 2; 3]%nat) by (apply (bool_decide_unpack _); vm_compute; exact I). intros c. by rewrite E. }
  assert (Hcopy : 3%nat ∈ ro_conns ex_fed_router) by (apply Hconns; apply (bool_decide_unpack _); vm_compute; exact I).
  destruct (pool_router_exact ex_no_exp hits_sort 1 ex_router_config (fun _ h => (h, (MkNextHop (Some 1%nat) "" 0, None))) ex_search ex_fed_router
    ex_placement "logs" "b" (MkPlacement ∅ 2 640 (list_to_map [(0, MkShardNodes "n3" ["n2"%string]); (1, MkShardNodes "n1" [])])) 0
    (MkShardNodes "n3" ["n2"%string]) (ro_heap ex_fed_router) (MkNextHop (Some 1%nat) "" 0) 3%nat
    ltac:(vm_compute; reflexivity) eq_refl ltac:(discriminate) Hask ltac:(vm_compute; reflexivity) Hfed ltac:(vm_compute; reflexivity)
    ltac:(discriminate) ltac:(vm_compute; reflexivity) ltac:(cbn; lia) ltac:(vm_compute; reflexivity) Hcopy ltac:(vm_compute; reflexivity))
    as (st' & c & Hc & Hh & He).
  exists st', c. split; [apply Hconns, Hc|]. split; [exact Hh|exact He].
Defined.

Lemma pool_router_target_witness :
  exists st' hop err, poolRouter_Eval ex_no_exp hits_sort 1 ex_router_config ex_inner ex_search ex_router = Some (st', (hop, err))
  /\ err = None.
Proof.
  destruct (pool_router_target ex_no_exp hits_sort hits_sort_sorts 1 ex_router_config ex_inner ex_search ex_router
    ex_router_input ex_router_routable eq_refl) as (st' & hop & err & He & H).
  exists st', hop, err. split; [exact He|]. destruct H as [H|(_ & _ & H & _)]; [exact (f_equal snd H)|exact H].
Defined.

Lemma router_topology_witness :
  ro_conns (routerDiscoveryUpdate (Some [1; 3]%nat) (Some [2]%nat) (with_conns ex_router [1; 2]%nat 0)) = [1; 3]%nat
  /\ NoDup (map (urlOf ex_router_conns) (ro_conns (routerDiscoveryUpdate (Some [1; 3]%nat) (Some [2]%nat) (with_conns ex_router [1; 2]%nat 0)))).
Proof.
  split; [vm_compute; reflexivity|].
  destruct (router_topology (Some [1; 3]%nat) (Some [2]%nat) (with_conns ex_router [1; 2]%nat 0)) as (_ & H & _).
  - reflexivity.
  - left. discriminate.
  - apply (bool_decide_unpack _). vm_compute. exact I.
  - exact H.
Defined.
