(* ===== verification/RouterConfig.v ===== *)
(** * Router configuration

    How the options and environment variables of a router become its settings:
    the comma-separated items of feature_config.go, the shard cost table of
    parseShardCostConfig (shard_cost_config.go), and RouterOption and
    buildStandaloneRouterConfig of router.go.

    strconv.ParseFloat is an argument, which gives [None] for an error. The debug
    log of recorded errors is left out; the errors are not. *)

From Stdlib Require Import ZArith Lia Ascii String SpecFloat.
From stdpp Require Import base gmap strings functions.
From stdpp Require Import list.
From S2P Require Import Prelude.
From S2P Require Import GoStrings.
From S2P Require Import Float.
From S2P Require Import Congestion.
From S2P Require Import ShardMap.
From S2P Require Import Score.
From S2P Require Import IndexCache.
From S2P Require Import ShardRouting.
Open Scope list_scope.
Open Scope Z_scope.

(** * Items *)

Definition config_items (value : string) : list string := map TrimSpace (Split "," value).

(** The bits and key-value pairs of an item, as parseConfigItems adds them. *)
Definition add_item (acc : gmap string bool * gmap string (list string)) (item : string) : gmap string bool * gmap string (list string) :=
  let '(bits, kv) := acc in
  match item with
  | EmptyString => acc
  | String sign name =>
    if Ascii.eqb sign "+" || Ascii.eqb sign "-" then (<[name := Ascii.eqb sign "+"]> bits, kv)
    else
      let '(k, v, hasEq) := Cut "=" item in
      if (hasEq : bool) then
        let decodedKey := default k (QueryUnescape k) in
        let decodedVal := default v (QueryUnescape v) in
        (bits, <[decodedKey := default [] (kv !! decodedKey) ++ [decodedVal]]> kv)
      else acc
  end.
Definition parseConfigItems (value : string) : gmap string bool * gmap string (list string) :=
  if String.eqb value "" then (∅, ∅) else foldl add_item (∅, ∅) (config_items value).

(** The loop over the bits; Go's order of the map is open, and the flags have
    different bits. *)
Definition flag_step (flags : string -> option Z) (features : Z) (nb : string * bool) : Z :=
  match flags nb.1 with
  | None => features
  | Some bit => if nb.2 then Z.ldiff features bit else Z.lor features bit
  end.
Definition apply_bits (flags : string -> option Z) (bits : gmap string bool) : Z := foldl (flag_step flags) 0 (map_to_list bits).

Definition routingFlagNames (name : string) : option Z :=
  if String.eqb name "shard_exact" then Some routingSkipShardExact
  else if String.eqb name "adaptive_mcsr" then Some routingSkipAdaptiveConcurrency
  else None.
Definition parseRoutingConfig (value : string) : Z := apply_bits routingFlagNames (parseConfigItems value).1.

Definition discoverySkipCatShards : Z := 1.
Definition discoverySkipRoutingNumShards : Z := 2.
Definition discoverySkipClusterHealth : Z := 4.
Definition discoverySkipNodeStats : Z := 8.
Definition catShardsEnabled (f : Z) : bool := Z.land f discoverySkipCatShards =? 0.
Definition routingNumShardsEnabled (f : Z) : bool := Z.land f discoverySkipRoutingNumShards =? 0.
Definition clusterHealthEnabled (f : Z) : bool := Z.land f discoverySkipClusterHealth =? 0.
Definition nodeStatsEnabled (f : Z) : bool := Z.land f discoverySkipNodeStats =? 0.
Definition discoveryFlagNames (name : string) : option Z :=
  if String.eqb name "cat_shards" then Some discoverySkipCatShards
  else if String.eqb name "routing_num_shards" then Some discoverySkipRoutingNumShards
  else if String.eqb name "cluster_health" then Some discoverySkipClusterHealth
  else if String.eqb name "node_stats" then Some discoverySkipNodeStats
  else None.
Definition parseDiscoveryConfig (value : string) : Z := apply_bits discoveryFlagNames (parseConfigItems value).1.

(** strconv.ParseBool. *)
Definition ParseBool (s : string) : option bool :=
  if existsb (String.eqb s) ["1"; "t"; "T"; "true"; "TRUE"; "True"]%string then Some true
  else if existsb (String.eqb s) ["0"; "f"; "F"; "false"; "FALSE"; "False"]%string then Some false
  else None.

Definition positive_int (s : string) : Z :=
  match Atoi s with Some v => if 0 <? v then v else 0 | None => 0 end.

Definition parseShardRequests (value : string) (features : Z) : adaptiveConcurrencyConfig * Z :=
  let value := TrimSpace value in
  if String.eqb value "" then (MkConcurrency 0 0, features)
  else
    match ParseBool value with
    | Some b =>
      (MkConcurrency 0 0, if b then Z.ldiff features routingSkipAdaptiveConcurrency else Z.lor features routingSkipAdaptiveConcurrency)
    | None =>
      let '(minStr, maxStr, hasColon) := Cut ":" value in
      if negb hasColon then
        if 0 <? positive_int value then (MkConcurrency (positive_int value) 0, Z.ldiff features routingSkipAdaptiveConcurrency)
        else (MkConcurrency 0 0, features)
      else (MkConcurrency (positive_int minStr) (positive_int maxStr), Z.ldiff features routingSkipAdaptiveConcurrency)
    end.

(** * Shard costs *)

(** ShardCostConfigError. *)
Inductive cost_error := CostMissing (key : string) | CostInvalid (key : string) | CostNotFinite (key : string) | CostUnknownKey (key : string).

(** The parameters of the dynamic read curve. *)
Record read_curve := MkCurve { cv_base : f64; cv_amplify : f64; cv_exponent : f64 }.
Record shardCostConfig := MkCosts { cc_reads : shardCostMultiplier; cc_writes : shardCostMultiplier; cc_curve : read_curve }.

Definition default_curve : read_curve := MkCurve defaultReadCurveBase defaultReadCurveAmplify defaultReadCurveExponent.
Definition default_costs : shardCostConfig := MkCosts shardCostForReads shardCostForWrites default_curve.

Definition not_finite (v : f64) : bool := is_nan v || is_inf v.
Definition zero : f64 := S754_zero false.

Definition set_reads (i : shardCostIndex) (v : f64) (c : shardCostConfig) : shardCostConfig := MkCosts (<[i := v]> (cc_reads c)) (cc_writes c) (cc_curve c).
Definition set_writes (i : shardCostIndex) (v : f64) (c : shardCostConfig) : shardCostConfig := MkCosts (cc_reads c) (<[i := v]> (cc_writes c)) (cc_curve c).
Definition set_curve (f : read_curve -> read_curve) (c : shardCostConfig) : shardCostConfig := MkCosts (cc_reads c) (cc_writes c) (f (cc_curve c)).

(** A key of the curve: its value must be finite and not negative, the base
    positive. *)
Definition set_dynamic (key : string) (v : f64) (positive : bool) (f : read_curve -> read_curve) (c : shardCostConfig) : shardCostConfig + cost_error :=
  if not_finite v || f64_ltb v zero || (positive && SFeqb v zero) then inr (CostNotFinite key) else inl (set_curve f c).
Definition set_static (key : string) (v : f64) (f : shardCostConfig -> shardCostConfig) (c : shardCostConfig) : shardCostConfig + cost_error :=
  if not_finite v then inr (CostNotFinite key) else inl (f c).

(** The switch over the keys. *)
Definition set_key (key : string) (v : f64) (c : shardCostConfig) : shardCostConfig + cost_error :=
  if String.eqb key "r:base" then set_dynamic key v true (fun k => MkCurve v (cv_amplify k) (cv_exponent k)) c
  else if String.eqb key "r:amplify" then set_dynamic key v false (fun k => MkCurve (cv_base k) v (cv_exponent k)) c
  else if String.eqb key "r:exponent" then set_dynamic key v false (fun k => MkCurve (cv_base k) (cv_amplify k) v) c
  else if String.eqb key "unknown" then set_static key v (fun c => set_writes shardCostUnknown v (set_reads shardCostUnknown v c)) c
  else if String.eqb key "relocating" then set_static key v (fun c => set_writes shardCostRelocating v (set_reads shardCostRelocating v c)) c
  else if String.eqb key "initializing" then set_static key v (fun c => set_writes shardCostInitializing v (set_reads shardCostInitializing v c)) c
  else if String.eqb key "replica" then set_static key v (set_reads shardCostReplica v) c
  else if String.eqb key "write_primary" then set_static key v (set_writes shardCostPrimary v) c
  else if String.eqb key "write_replica" then set_static key v (set_writes shardCostReplica v) c
  else inr (CostUnknownKey key).

(** Static values that are not positive become the defaults. *)
Definition clamp_costs (m defaults : shardCostMultiplier) : shardCostMultiplier :=
  fun i => if f64_leb (m i) zero then defaults i else m i.

Section Costs.
Context (ParseFloat : string -> option f64).

Definition set_item (item : string) (c : shardCostConfig) : shardCostConfig + cost_error :=
  if String.eqb item "" then inl c
  else
    let '(key, valStr, hasEq) := Cut "=" item in
    if negb hasEq then inr (CostMissing key)
    else match ParseFloat valStr with
      | None => inr (CostInvalid key)
      | Some v => set_key key v c
      end.
Fixpoint set_items (items : list string) (c : shardCostConfig) : shardCostConfig + cost_error :=
  match items with
  | [] => inl c
  | item :: rest => match set_item (TrimSpace item) c with inl c' => set_items rest c' | inr e => inr e end
  end.

Definition parseShardCostConfig (spec : string) : shardCostConfig + cost_error :=
  let spec := TrimSpace spec in
  if String.eqb spec "" then inl default_costs
  else
    match ParseFloat spec with
    | Some v =>
      if f64_leb v zero || not_finite v then inr (CostNotFinite "")
      else inl (set_curve (fun k => MkCurve v (cv_amplify k) (cv_exponent k)) default_costs)
    | None =>
      match set_items (Split "," spec) default_costs with
      | inr e => inr e
      | inl c => inl (MkCosts (clamp_costs (cc_reads c) shardCostForReads) (clamp_costs (cc_writes c) shardCostForWrites) (cc_curve c))
      end
    end.
End Costs.

(** * Options *)

Inductive config_error := DecayOutOfRange (d : f64) | FanOutPerRequestOutOfRange (f : f64) | LimitsReversed (minVal maxVal : Z) | EnvLimitsReversed (value : string).

Record routerConfig := MkRouterOptions {
  ro_cache_config : indexSlotCacheConfig;
  ro_shardCostSpec : string;
  ro_discoveryFeatures : Z;
  ro_errs : list config_error }.

Definition defaultRouterConfig : routerConfig :=
  MkRouterOptions (MkCacheConfig defaultMinFanOut defaultMaxFanOut ∅ defaultIdleEvictionTTL defaultDecayFactor defaultFanOutPerRequest 0 (MkConcurrency 0 0)) "" 0 [].

(** The fields an option sets. *)
Definition with_cache_config (f : indexSlotCacheConfig -> indexSlotCacheConfig) (c : routerConfig) : routerConfig :=
  MkRouterOptions (f (ro_cache_config c)) (ro_shardCostSpec c) (ro_discoveryFeatures c) (ro_errs c).
Definition with_error (e : config_error) (c : routerConfig) : routerConfig :=
  MkRouterOptions (ro_cache_config c) (ro_shardCostSpec c) (ro_discoveryFeatures c) (ro_errs c ++ [e]).
Definition with_features (v : Z) : routerConfig -> routerConfig :=
  with_cache_config (fun k => MkCacheConfig (cf_minFanOut k) (cf_maxFanOut k) (cf_overrides k) (cf_idleEvictionTTL k) (cf_decayFactor k) (cf_fanOutPerReq k) v (cf_adaptiveConcurrency k)).
Definition with_concurrency (v : adaptiveConcurrencyConfig) : routerConfig -> routerConfig :=
  with_cache_config (fun k => MkCacheConfig (cf_minFanOut k) (cf_maxFanOut k) (cf_overrides k) (cf_idleEvictionTTL k) (cf_decayFactor k) (cf_fanOutPerReq k) (cf_features k) v).
Definition features_of (c : routerConfig) : Z := cf_features (ro_cache_config c).
Definition concurrency_of (c : routerConfig) : adaptiveConcurrencyConfig := cf_adaptiveConcurrency (ro_cache_config c).

Definition WithMinFanOut (n : Z) : routerConfig -> routerConfig :=
  with_cache_config (fun k => MkCacheConfig n (cf_maxFanOut k) (cf_overrides k) (cf_idleEvictionTTL k) (cf_decayFactor k) (cf_fanOutPerReq k) (cf_features k) (cf_adaptiveConcurrency k)).
Definition WithMaxFanOut (n : Z) : routerConfig -> routerConfig :=
  with_cache_config (fun k => MkCacheConfig (cf_minFanOut k) n (cf_overrides k) (cf_idleEvictionTTL k) (cf_decayFactor k) (cf_fanOutPerReq k) (cf_features k) (cf_adaptiveConcurrency k)).
Definition WithIndexFanOut (m : gmap string Z) : routerConfig -> routerConfig :=
  with_cache_config (fun k => MkCacheConfig (cf_minFanOut k) (cf_maxFanOut k) m (cf_idleEvictionTTL k) (cf_decayFactor k) (cf_fanOutPerReq k) (cf_features k) (cf_adaptiveConcurrency k)).
Definition WithIdleEvictionTTL (d : Z) : routerConfig -> routerConfig :=
  with_cache_config (fun k => MkCacheConfig (cf_minFanOut k) (cf_maxFanOut k) (cf_overrides k) d (cf_decayFactor k) (cf_fanOutPerReq k) (cf_features k) (cf_adaptiveConcurrency k)).
Definition WithDecayFactor (d : f64) (c : routerConfig) : routerConfig :=
  if not_finite d || f64_leb d zero || f64_leb (f64_of_Z 1) d then with_error (DecayOutOfRange d) c
  else with_cache_config (fun k => MkCacheConfig (cf_minFanOut k) (cf_maxFanOut k) (cf_overrides k) (cf_idleEvictionTTL k) d (cf_fanOutPerReq k) (cf_features k) (cf_adaptiveConcurrency k)) c.
Definition WithFanOutPerRequest (f : f64) (c : routerConfig) : routerConfig :=
  if not_finite f || f64_leb f zero then with_error (FanOutPerRequestOutOfRange f) c
  else with_cache_config (fun k => MkCacheConfig (cf_minFanOut k) (cf_maxFanOut k) (cf_overrides k) (cf_idleEvictionTTL k) (cf_decayFactor k) f (cf_features k) (cf_adaptiveConcurrency k)) c.
Definition set_skip (bit : Z) (enabled : bool) (c : routerConfig) : routerConfig :=
  with_features (if enabled then Z.ldiff (features_of c) bit else Z.lor (features_of c) bit) c.
Definition WithShardExactRouting (enabled : bool) : routerConfig -> routerConfig := set_skip routingSkipShardExact enabled.
Definition WithAdaptiveConcurrency (enabled : bool) : routerConfig -> routerConfig := set_skip routingSkipAdaptiveConcurrency enabled.

(** The check that both limits are given and reversed. *)
Definition reversed (k : adaptiveConcurrencyConfig) : bool := (0 <? ac_minVal k) && (0 <? ac_maxVal k) && (ac_maxVal k <? ac_minVal k).

Definition WithAdaptiveConcurrencyLimits (minVal maxVal : Z) (c : routerConfig) : routerConfig :=
  if (minVal <? 0) && (maxVal <? 0) then set_skip routingSkipAdaptiveConcurrency false c
  else
    let c := set_skip routingSkipAdaptiveConcurrency true c in
    let k := concurrency_of c in
    let k := MkConcurrency (if 0 <? minVal then minVal else ac_minVal k) (if 0 <? maxVal then maxVal else ac_maxVal k) in
    let c := with_concurrency k c in
    if reversed k then with_error (LimitsReversed minVal maxVal) c else c.
Definition WithShardCosts (spec : string) (c : routerConfig) : routerConfig :=
  MkRouterOptions (ro_cache_config c) spec (ro_discoveryFeatures c) (ro_errs c).

(** The environment: [None] is a variable that is not set. *)
Record router_env := MkEnv {
  env_routing : option string; env_discovery : option string; env_requests : option string; env_costs : option string }.
Definition env_value (v : option string) : option string := s ← v; if String.eqb s "" then None else Some s.

Definition apply_env (env : router_env) (c : routerConfig) : routerConfig :=
  let c := match env_value (env_routing env) with Some v => with_features (parseRoutingConfig v) c | None => c end in
  let c := match env_value (env_discovery env) with
    | Some v => MkRouterOptions (ro_cache_config c) (ro_shardCostSpec c) (parseDiscoveryConfig v) (ro_errs c) | None => c end in
  match env_value (env_requests env) with
  | Some v =>
    let '(k, features) := parseShardRequests v (features_of c) in
    let c := with_features features (with_concurrency k c) in
    if reversed k then with_error (EnvLimitsReversed v) c else c
  | None => c
  end.

Definition buildStandaloneRouterConfig (ParseFloat : string -> option f64) (env : router_env) (opts : list (routerConfig -> routerConfig))
    : routerConfig * (shardCostConfig + cost_error) :=
  let cfg := apply_env env (foldl (fun c opt => opt c) defaultRouterConfig opts) in
  let spec := default (ro_shardCostSpec cfg) (env_value (env_costs env)) in
  (cfg, parseShardCostConfig ParseFloat spec).

Definition indexSlotCacheConfigFromRouter (c : routerConfig) : indexSlotCacheConfig := ro_cache_config c.

(** * Toggles *)

Definition toggle (name item : string) : option bool :=
  match item with
  | String sign n =>
    if String.eqb n name then if Ascii.eqb sign "+" then Some true else if Ascii.eqb sign "-" then Some false else None else None
  | EmptyString => None
  end.
Definition last_toggle (name value : string) : option bool := list.last (omap (toggle name) (config_items value)).

Lemma add_item_bits acc item name :
  (add_item acc item).1 !! name = match toggle name item with Some b => Some b | None => acc.1 !! name end.
Proof.
  destruct acc as [bits kv]. unfold add_item, toggle. destruct item as [|sign n]; [done|].
  destruct (Ascii.eqb_spec sign "+") as [->|Hp]; cbn [orb].
  { destruct (String.eqb_spec n name) as [->|Hn]; cbn [fst]; [by rewrite lookup_insert_eq|by rewrite lookup_insert_ne]. }
  destruct (Ascii.eqb_spec sign "-") as [->|Hm].
  { destruct (String.eqb_spec n name) as [->|Hn]; cbn [fst]; [by rewrite lookup_insert_eq|by rewrite lookup_insert_ne]. }
  assert (Hnone : (if String.eqb n name then @None bool else None) = None) by (by destruct (String.eqb n name)).
  rewrite Hnone. by destruct (Cut "=" (String sign n)) as [[k v] []].
Qed.

Lemma parseConfigItems_bits value name : (parseConfigItems value).1 !! name = last_toggle name value.
Proof.
  unfold parseConfigItems, last_toggle. destruct (String.eqb_spec value "") as [->|Hv]; [done|].
  induction (config_items value) as [|item items IH] using rev_ind; [done|]. rewrite foldl_snoc, add_item_bits, omap_app, IH.
  cbn [omap list_omap]. destruct (toggle name item) as [b|]; [by rewrite last_snoc|by rewrite app_nil_r].
Qed.

Section Flags.
Context (flags : string -> option Z) (name : string) (bit : Z).
Context (Hname : flags name = Some bit) (Hother : forall n b, flags n = Some b -> n <> name -> Z.land b bit = 0).

Lemma flag_step_same f b : Z.land (flag_step flags f (name, b)) bit = if b then 0 else bit.
Proof using Hname.
  clear Hother. unfold flag_step. cbn [fst snd]. rewrite Hname. destruct b; apply Z.bits_inj'; intros i Hi.
  - rewrite Z.land_spec, Z.ldiff_spec, Z.bits_0. by destruct (Z.testbit f i), (Z.testbit bit i).
  - rewrite Z.land_spec, Z.lor_spec. by destruct (Z.testbit f i), (Z.testbit bit i).
Qed.

Lemma flag_step_other f n b : n <> name -> Z.land (flag_step flags f (n, b)) bit = Z.land f bit.
Proof using Hother.
  intros Hn. unfold flag_step. cbn [fst snd]. destruct (flags n) as [bit'|] eqn:Hf; [|done]. specialize (Hother n bit' Hf Hn).
  apply Z.bits_inj'. intros i Hi. assert (Hb : Z.testbit (Z.land bit' bit) i = false) by (by rewrite Hother, Z.bits_0).
  rewrite Z.land_spec in Hb. destruct b; rewrite !Z.land_spec, ?Z.ldiff_spec, ?Z.lor_spec;
    by destruct (Z.testbit f i), (Z.testbit bit i), (Z.testbit bit' i).
Qed.

Lemma flag_fold l f :
  NoDup l.*1 ->
  Z.land (foldl (flag_step flags) f l) bit
  = match (list_to_map l : gmap string bool) !! name with Some true => 0 | Some false => bit | None => Z.land f bit end.
Proof using Hname Hother.
  revert f. induction l as [|[n b] l IH]; intros f Hnd; [done|]. cbn [fmap list_fmap] in Hnd. apply NoDup_cons in Hnd as [Hn Hnd].
  cbn [foldl]. rewrite list_to_map_cons, IH by done. destruct (decide (n = name)) as [->|Hne].
  - rewrite lookup_insert_eq, not_elem_of_list_to_map_1, flag_step_same by done. by destruct b.
  - rewrite lookup_insert_ne, flag_step_other by done. done.
Qed.

Lemma apply_bits_flag bits :
  (Z.land (apply_bits flags bits) bit =? 0) = if decide (bit = 0) then true else default true (bits !! name).
Proof using Hname Hother.
  unfold apply_bits. rewrite flag_fold by apply NoDup_fst_map_to_list. rewrite list_to_map_to_list.
  destruct (decide (bit = 0)) as [E|E]; destruct (bits !! name) as [[]|]; cbn; rewrite ?Z.land_0_l; try done; first [by apply Z.eqb_eq|by apply Z.eqb_neq].
Qed.
End Flags.

(** A feature is switched by its last toggle. Whatever the value of
    OPENSEARCH_GO_ROUTING_CONFIG or OPENSEARCH_GO_DISCOVERY_CONFIG, a feature is
    off exactly when the last item that names it has a minus sign; items of other
    names, pairs and bare words do not matter, nor does the order in which the
    parsed flags are applied. *)
Theorem last_toggle_wins (value : string) :
  shardExactEnabled (parseRoutingConfig value) = default true (last_toggle "shard_exact" value)
  /\ adaptiveConcurrencyEnabled (parseRoutingConfig value) = default true (last_toggle "adaptive_mcsr" value)
  /\ catShardsEnabled (parseDiscoveryConfig value) = default true (last_toggle "cat_shards" value)
  /\ routingNumShardsEnabled (parseDiscoveryConfig value) = default true (last_toggle "routing_num_shards" value)
  /\ clusterHealthEnabled (parseDiscoveryConfig value) = default true (last_toggle "cluster_health" value)
  /\ nodeStatsEnabled (parseDiscoveryConfig value) = default true (last_toggle "node_stats" value).
Proof.
  assert (Hr : forall name bit, routingFlagNames name = Some bit -> bit <> 0 ->
    (forall n b, routingFlagNames n = Some b -> n <> name -> Z.land b bit = 0) ->
    (Z.land (parseRoutingConfig value) bit =? 0) = default true (last_toggle name value)).
  { intros name bit H1 H2 H3. unfold parseRoutingConfig. rewrite (apply_bits_flag _ name bit H1 H3), decide_False by done.
    by rewrite parseConfigItems_bits. }
  assert (Hd : forall name bit, discoveryFlagNames name = Some bit -> bit <> 0 ->
    (forall n b, discoveryFlagNames n = Some b -> n <> name -> Z.land b bit = 0) ->
    (Z.land (parseDiscoveryConfig value) bit =? 0) = default true (last_toggle name value)).
  { intros name bit H1 H2 H3. unfold parseDiscoveryConfig. rewrite (apply_bits_flag _ name bit H1 H3), decide_False by done.
    by rewrite parseConfigItems_bits. }
  repeat split; (apply Hr || apply Hd); try done; intros n b Hf Hne; revert Hf; unfold routingFlagNames, discoveryFlagNames;
    destruct (String.eqb_spec n "shard_exact"), (String.eqb_spec n "adaptive_mcsr"), (String.eqb_spec n "cat_shards"),
      (String.eqb_spec n "routing_num_shards"), (String.eqb_spec n "cluster_health"), (String.eqb_spec n "node_stats");
    subst; try done; by intros [= <-].
Qed.

(** * The cost table *)

Definition cost_ok (v : f64) : bool := f64_ltb zero v && negb (not_finite v).
Definition not_negative (v : f64) : bool := negb (f64_ltb v zero) && negb (not_finite v).
Definition curve_ok (k : read_curve) : bool := cost_ok (cv_base k) && not_negative (cv_amplify k) && not_negative (cv_exponent k).
Definition finite_costs (m : shardCostMultiplier) : Prop := forall i, not_finite (m i) = false.
Definition costs_ok (c : shardCostConfig) : Prop :=
  (forall i, cost_ok (cc_reads c i) = true) /\ (forall i, cost_ok (cc_writes c i) = true) /\ curve_ok (cc_curve c) = true.
(** What holds between the items. *)
Definition costs_partial (c : shardCostConfig) : Prop :=
  finite_costs (cc_reads c) /\ finite_costs (cc_writes c) /\ curve_ok (cc_curve c) = true.

Lemma not_below_zero v : not_finite v = false -> f64_leb v zero = false -> cost_ok v = true.
Proof. unfold cost_ok. intros H1 H2. rewrite H1. destruct v as [[]|[]| |[] m e]; try done. Qed.

Lemma default_reads_ok i : cost_ok (shardCostForReads i) = true.
Proof. by destruct i. Qed.

Lemma default_writes_ok i : cost_ok (shardCostForWrites i) = true.
Proof. by destruct i. Qed.

Lemma default_costs_ok : costs_ok default_costs.
Proof. split; [exact default_reads_ok|]. split; [exact default_writes_ok|]. vm_compute. done. Qed.

Lemma cost_ok_finite v : cost_ok v = true -> not_finite v = false.
Proof. unfold cost_ok. by destruct (not_finite v), (f64_ltb zero v). Qed.

Lemma costs_ok_partial c : costs_ok c -> costs_partial c.
Proof. intros (Hr & Hw & Hc). split; [|split; [|done]]; intros i; by apply cost_ok_finite. Qed.

Lemma insert_finite i v (m : shardCostMultiplier) : not_finite v = false -> finite_costs m -> finite_costs (<[i := v]> m).
Proof. intros Hv Hm j. unfold insert, fn_insert. destruct (decide (i = j)); [done|apply Hm]. Qed.

Lemma clamp_costs_ok m defaults i : finite_costs m -> cost_ok (defaults i) = true -> cost_ok (clamp_costs m defaults i) = true.
Proof. intros Hm Hd. unfold clamp_costs. destruct (f64_leb (m i) zero) eqn:E; [done|]. by apply not_below_zero. Qed.

Lemma set_dynamic_ok key v positive f c c' :
  (not_negative v = true -> (positive = true -> cost_ok v = true) -> curve_ok (cc_curve c) = true -> curve_ok (f (cc_curve c)) = true) ->
  set_dynamic key v positive f c = inl c' -> costs_partial c -> costs_partial c'.
Proof.
  unfold set_dynamic. intros Hf. destruct (not_finite v || f64_ltb v zero || (positive && SFeqb v zero)) eqn:E; [done|].
  intros [= <-] (Hr & Hw & Hc). apply orb_false_iff in E as [E E3]. apply orb_false_iff in E as [E1 E2].
  split; [done|]. split; [done|]. apply Hf; [| |done].
  - unfold not_negative. by rewrite E1, E2.
  - intros ->. unfold cost_ok. rewrite E1. destruct v as [[]|[]| |[] m e]; done.
Qed.

Lemma set_static_ok key v f c c' :
  (not_finite v = false -> costs_partial c -> costs_partial (f c)) ->
  set_static key v f c = inl c' -> costs_partial c -> costs_partial c'.
Proof. unfold set_static. intros Hf. destruct (not_finite v); [done|]. intros [= <-]. by apply Hf. Qed.

Lemma set_reads_ok i v c : not_finite v = false -> costs_partial c -> costs_partial (set_reads i v c).
Proof. intros Hv (Hr & Hw & Hc). split; [by apply insert_finite|by split]. Qed.

Lemma set_writes_ok i v c : not_finite v = false -> costs_partial c -> costs_partial (set_writes i v c).
Proof. intros Hv (Hr & Hw & Hc). split; [done|]. split; [by apply insert_finite|done]. Qed.

Lemma curve_ok_iff k : curve_ok k = true <-> cost_ok (cv_base k) = true /\ not_negative (cv_amplify k) = true /\ not_negative (cv_exponent k) = true.
Proof. unfold curve_ok. rewrite !andb_true_iff. tauto. Qed.

Lemma set_key_ok key v c c' : set_key key v c = inl c' -> costs_partial c -> costs_partial c'.
Proof.
  unfold set_key. repeat case_match; intros Hc; try done; revert Hc;
    try (apply set_static_ok; eauto using set_reads_ok, set_writes_ok);
    apply set_dynamic_ok; rewrite !curve_ok_iff; intros Hn Hp (Hc1 & Hc2 & Hc3); eauto.
Qed.

Lemma set_items_ok pf items c c' : set_items pf items c = inl c' -> costs_partial c -> costs_partial c'.
Proof.
  revert c. induction items as [|item items IH]; intros c; cbn [set_items]; [by intros [= <-]|].
  destruct (set_item pf (TrimSpace item) c) as [c1|e] eqn:E; [|done]. intros Hs Hc. apply (IH c1 Hs). revert E. unfold set_item.
  destruct (String.eqb (TrimSpace item) ""); [by intros [= <-]|]. destruct (Cut "=" (TrimSpace item)) as [[key val] []]; [|done].
  cbn. destruct (pf val) as [v|]; [|done]. intros E. by apply (set_key_ok _ _ _ _ E).
Qed.

(** A cost configuration that parses is usable. Whatever the text and
    whatever ParseFloat makes of the numbers, every static cost of the read and
    the write table is a positive finite number, the base of the read curve is
    positive and finite, and its amplification and exponent are finite and not
    negative; the scores computed from them compare. *)
Theorem shard_cost_well_formed (ParseFloat : string -> option f64) (spec : string) (c : shardCostConfig) :
  parseShardCostConfig ParseFloat spec = inl c -> costs_ok c.
Proof.
  unfold parseShardCostConfig. destruct (String.eqb (TrimSpace spec) ""); [intros [= <-]; apply default_costs_ok|].
  destruct (ParseFloat (TrimSpace spec)) as [v|].
  - destruct (f64_leb v zero || not_finite v) eqn:E; [done|]. apply orb_false_iff in E as [E1 E2]. intros [= <-].
    destruct default_costs_ok as (Hr & Hw & Hc). split; [done|]. split; [done|]. apply curve_ok_iff.
    split; [by apply not_below_zero|by vm_compute].
  - destruct (set_items ParseFloat (Split "," (TrimSpace spec)) default_costs) as [c0|e] eqn:E; [|done]. intros [= <-].
    apply set_items_ok in E as (Hr & Hw & Hc); [|apply costs_ok_partial, default_costs_ok].
    split; [|split; [|done]]; intros i; (apply clamp_costs_ok; [done|]); [apply default_reads_ok|apply default_writes_ok].
Qed.

(** Text with a negative cost of a replica, which falls back to its default. *)
Lemma shard_cost_well_formed_witness :
  exists c, parseShardCostConfig (fun s => if String.eqb s "4" then Some (f64_of_Z 4) else if String.eqb s "-1" then Some (f64_of_Z (-1)) else None)
    " r:base=4, replica=-1,unknown=4" = inl c
  /\ cc_writes c shardCostUnknown = f64_of_Z 4 /\ cc_reads c shardCostReplica = f64_of_Z 1 /\ costs_ok c.
Proof.
  eexists. split; [vm_compute; reflexivity|]. split; [vm_compute; reflexivity|]. split; [vm_compute; reflexivity|].
  apply (shard_cost_well_formed
    (fun s => if String.eqb s "4" then Some (f64_of_Z 4) else if String.eqb s "-1" then Some (f64_of_Z (-1)) else None)
    " r:base=4, replica=-1,unknown=4").
  vm_compute. reflexivity.
Defined.

(** * Limits and features *)

Lemma mcsr_bounds cwnd k features :
  computeAdaptiveConcurrency cwnd k features
  = (if adaptiveConcurrencyEnabled features then Z.max (effectiveMin k) (Z.min cwnd (effectiveMax k)) else 0)
  /\ (adaptiveConcurrencyEnabled features = true -> effectiveMin k <= effectiveMax k ->
      effectiveMin k <= computeAdaptiveConcurrency cwnd k features <= effectiveMax k).
Proof. unfold computeAdaptiveConcurrency. destruct (adaptiveConcurrencyEnabled features); cbn [negb]; split; [lia|lia|done|done]. Qed.

(** One limit alone is not compared with the default of the other: a minimum
    of 300 is above the default maximum, records no error, and every search asks
    for 300. *)
Lemma one_sided_limit cwnd :
  let c := WithAdaptiveConcurrencyLimits 300 0 defaultRouterConfig in
  ro_errs c = [] /\ effectiveMax (concurrency_of c) < effectiveMin (concurrency_of c)
  /\ computeAdaptiveConcurrency cwnd (concurrency_of c) (features_of c) = 300.
Proof.
  split; [done|]. split; [done|]. destruct (mcsr_bounds cwnd (concurrency_of (WithAdaptiveConcurrencyLimits 300 0 defaultRouterConfig))
    (features_of (WithAdaptiveConcurrencyLimits 300 0 defaultRouterConfig))) as [-> _].
  vm_compute adaptiveConcurrencyEnabled. vm_compute effectiveMin. vm_compute effectiveMax. lia.
Qed.

(** The environment replaces the features of the options, those it does not
    name included. *)
Lemma env_resets_features :
  let opts := [WithAdaptiveConcurrency false] in
  let build routing := (buildStandaloneRouterConfig (fun _ => None) (MkEnv routing None None None) opts).1 in
  adaptiveConcurrencyEnabled (features_of (build None)) = false
  /\ adaptiveConcurrencyEnabled (features_of (build (Some "-shard_exact"%string))) = true
  /\ shardExactEnabled (features_of (build (Some "-shard_exact"%string))) = false.
Proof. vm_compute. done. Qed.
