(* ===== verification/DiscoverFlight.v ===== *)
(** * One discovery at a time

    DiscoverNodes, tryDiscoverNodes and the locking of doDiscoverNodes of
    discovery.go: callers share one running discovery through a mutex, a flag and
    a condition variable. A machine with one step for each critical section of
    discoverMu, each check of a context and each wake-up; what the discovery itself
    answers is chosen by the run (Discovery.v has its effects). *)

From Stdlib Require Import ZArith Lia.
From stdpp Require Import base list sets.
From S2P Require Import Prelude.
Open Scope list_scope.

(** An error of a discovery: [Interruption] is one that errors.Is calls Canceled or
    DeadlineExceeded. *)
Inductive discover_error := Interruption | Failure (code : nat).
(** What a call returns: its own context's error, errDiscoveryInterrupted, or a
    discovery's result. *)
Inductive discover_result := CtxErr | errDiscoveryInterrupted | Result (err : option discover_error).

Inductive call_pc :=
| Called
| Locking
| Waiting (woken : bool)
| Checking (err : option discover_error)
| Running
| Returned (res : discover_result).

(** [ca_try]: a call of tryDiscoverNodes. [ca_notified]: the AfterFunc of the call
    has run. *)
Record discover_call := MkCall { ca_try : bool; ca_cancelled : bool; ca_notified : bool; ca_pc : call_pc }.

Record flight := MkFlight { fl_inProgress : bool; fl_lastErr : option discover_error; fl_calls : list discover_call }.

Definition set_pc (pc : call_pc) (c : discover_call) : discover_call := MkCall (ca_try c) (ca_cancelled c) (ca_notified c) pc.
Definition put (i : nat) (c : discover_call) (s : flight) : flight := MkFlight (fl_inProgress s) (fl_lastErr s) (<[i := c]> (fl_calls s)).
Definition with_progress (b : bool) (s : flight) : flight := MkFlight b (fl_lastErr s) (fl_calls s).

(** cond.Broadcast. *)
Definition wake_call (c : discover_call) : discover_call := match ca_pc c with Waiting _ => set_pc (Waiting true) c | _ => c end.
Definition broadcast (s : flight) : flight := MkFlight (fl_inProgress s) (fl_lastErr s) (map wake_call (fl_calls s)).

(** ctx.Err on entry. *)
Definition enter (i : nat) (c : discover_call) (s : flight) : flight :=
  put i (set_pc (if ca_cancelled c then Returned CtxErr else Locking) c) s.

(** The critical section on entry: doDiscoverNodes takes over the lock. *)
Definition lock (i : nat) (c : discover_call) (s : flight) : flight :=
  if fl_inProgress s then put i (set_pc (if ca_try c then Returned (Result None) else Waiting false) c) s
  else with_progress true (put i (set_pc Running c) s).

(** The deferred section of doDiscoverNodes, with the discovery's error. *)
Definition finish (i : nat) (err : option discover_error) (c : discover_call) (s : flight) : flight :=
  broadcast (MkFlight false err (<[i := set_pc (Returned (Result err)) c]> (fl_calls s))).

(** A woken waiter has the lock again. *)
Definition wake (i : nat) (c : discover_call) (s : flight) : flight :=
  put i (set_pc (if ca_cancelled c then Returned CtxErr else if fl_inProgress s then Waiting false else Checking (fl_lastErr s)) c) s.

(** After the lock is released. *)
Definition conclude (c : discover_call) (err : option discover_error) : discover_result :=
  if ca_cancelled c then CtxErr
  else match err with Some Interruption => errDiscoveryInterrupted | _ => Result err end.

(** The error of a discovery: of the nodes request, of a context cancelled
    meanwhile, or of the installation. *)
Definition doDiscoverNodes_err (nodesErr : option discover_error) (cancelled : bool) (installErr : option discover_error) : option discover_error :=
  match nodesErr with Some e => Some e | None => if cancelled then Some Interruption else installErr end.

Inductive flight_op := Enter (i : nat) | Lock (i : nat) | Finish (i : nat) (err : option discover_error)
| Notify (i : nat) | Wake (i : nat) | Conclude (i : nat) | CancelCtx (i : nat).

Definition flight_step (s : flight) (o : flight_op) : option flight :=
  match o with
  | Enter i => c ← fl_calls s !! i; match ca_pc c with Called => Some (enter i c s) | _ => None end
  | Lock i => c ← fl_calls s !! i; match ca_pc c with Locking => Some (lock i c s) | _ => None end
  | Finish i err => c ← fl_calls s !! i; match ca_pc c with Running => Some (finish i err c s) | _ => None end
  | Notify i =>
    c ← fl_calls s !! i;
    match ca_pc c with
    | Waiting _ => if ca_cancelled c && negb (ca_notified c) then Some (broadcast (put i (MkCall (ca_try c) true true (ca_pc c)) s)) else None
    | _ => None
    end
  | Wake i => c ← fl_calls s !! i; match ca_pc c with Waiting true => Some (wake i c s) | _ => None end
  | Conclude i =>
    c ← fl_calls s !! i; match ca_pc c with Checking err => Some (put i (set_pc (Returned (conclude c err)) c) s) | _ => None end
  | CancelCtx i =>
    c ← fl_calls s !! i; if ca_cancelled c then None else Some (put i (MkCall (ca_try c) true (ca_notified c) (ca_pc c)) s)
  end.

Fixpoint flight_run (ops : list flight_op) (s : flight) : option flight :=
  match ops with [] => Some s | o :: ops => s ← flight_step s o; flight_run ops s end.

(** Calls that have just been made; [true] for tryDiscoverNodes. *)
Definition fresh_flight (tries : list bool) : flight := MkFlight false None (map (fun t => MkCall t false false Called) tries).

(** * Invariant *)

Definition is_running (c : discover_call) : nat := match ca_pc c with Running => 1 | _ => 0 end.
Definition running (s : flight) : nat := sum_list_with is_running (fl_calls s).

(** The result [e] of a discovery that ended after call [i] had come to wait. *)
Definition ended_after (ops : list flight_op) (i : nat) (e : option discover_error) : Prop :=
  exists ops1 j ops2, ops = ops1 ++ Finish j e :: ops2 /\ Lock i ∈ ops1.

Definition call_ok (ops : list flight_op) (s : flight) (i : nat) (c : discover_call) : Prop :=
  (ca_notified c = true -> ca_cancelled c = true) /\
  match ca_pc c with
  | Called | Locking => ca_notified c = false
  | Waiting woken =>
    ca_try c = false /\ Lock i ∈ ops /\ (fl_inProgress s = false -> woken = true /\ ended_after ops i (fl_lastErr s))
    /\ (ca_notified c = true -> woken = true)
  | Checking err => ca_try c = false /\ ended_after ops i err
  | Returned CtxErr => ca_cancelled c = true
  | Returned errDiscoveryInterrupted => ca_try c = false /\ ended_after ops i (Some Interruption)
  | Returned (Result err) => Finish i err ∈ ops \/ (ca_try c = true /\ err = None) \/ (err <> Some Interruption /\ ended_after ops i err)
  | Running => True
  end.

Record flight_inv (ops : list flight_op) (s : flight) : Prop := {
  fi_running : running s = (if fl_inProgress s then 1 else 0)%nat;
  fi_calls : forall i c, fl_calls s !! i = Some c -> call_ok ops s i c }.

Lemma ended_after_snoc ops o i e : ended_after ops i e -> ended_after (ops ++ [o]) i e.
Proof. intros (ops1 & j & ops2 & -> & H). exists ops1, j, (ops2 ++ [o]). by rewrite <- (assoc_L (++)). Qed.

(** A call that another step leaves alone. *)
Lemma call_ok_snoc ops o s s' i c :
  (fl_inProgress s' = true \/ (fl_inProgress s' = fl_inProgress s /\ fl_lastErr s' = fl_lastErr s)) ->
  call_ok ops s i c -> call_ok (ops ++ [o]) s' i c.
Proof.
  intros Hs [Hn H]. split; [done|]. assert (Hx := fun e => ended_after_snoc ops o i e). destruct (ca_pc c) as [| |w|e| |[]]; try done.
  - destruct H as (H1 & H2 & H3 & H4). split; [done|]. split; [set_solver|]. split; [|done].
    destruct Hs as [Hs|[Hs1 Hs2]]; [by rewrite Hs|]. rewrite Hs1, Hs2. intros Hp. destruct (H3 Hp). auto.
  - destruct H. auto.
  - destruct H. auto.
  - destruct H as [H|[H|[H1 H2]]]; [left; set_solver|by right; left|right; right; auto].
Qed.

Lemma running_put s i c c' :
  fl_calls s !! i = Some c -> (running (put i c' s) + is_running c = running s + is_running c')%nat.
Proof. intros Hc. by apply sum_insert. Qed.

Lemma is_running_wake c : is_running (wake_call c) = is_running c.
Proof. unfold wake_call, is_running. destruct (ca_pc c) eqn:E; cbn; by rewrite ?E. Qed.

Lemma running_broadcast s : running (broadcast s) = running s.
Proof.
  unfold running, broadcast. cbn [fl_calls]. induction (fl_calls s) as [|c l IH]; [done|]. cbn [map sum_list_with].
  by rewrite is_running_wake, IH.
Qed.

Lemma call_ok_wake ops s i c : call_ok ops s i c -> call_ok ops s i (wake_call c).
Proof.
  unfold wake_call, call_ok. destruct (ca_pc c) as [| |w|e| |res] eqn:E; cbn [set_pc ca_pc ca_try ca_cancelled ca_notified]; rewrite ?E; try done.
  intros (Hn & H1 & H2 & H3 & H4). split; [done|]. split; [done|]. split; [done|]. split; [|done]. intros Hp. by destruct (H3 Hp).
Qed.

Lemma broadcast_inv ops s : flight_inv ops s -> flight_inv ops (broadcast s).
Proof.
  intros [Hr Hc]. split; [by rewrite running_broadcast|]. intros i c. unfold broadcast. cbn [fl_calls]. rewrite list_lookup_fmap.
  intros (c0 & Hc0 & ->)%fmap_Some. apply call_ok_wake. by apply Hc in Hc0.
Qed.

(** Changing one call that does not become or stop running. *)
Lemma put_inv ops o s i c c' :
  flight_inv ops s -> fl_calls s !! i = Some c -> is_running c' = is_running c -> call_ok (ops ++ [o]) s i c' ->
  flight_inv (ops ++ [o]) (put i c' s).
Proof.
  intros [Hr Hc] Hi Hrun Hok. split.
  - pose proof (running_put s i c c' Hi). cbn [put fl_inProgress]. lia.
  - intros j d. cbn [put fl_calls]. destruct (decide (i = j)) as [<-|Hne].
    + rewrite list_lookup_insert_eq by (by apply lookup_lt_Some in Hi). by intros [= <-].
    + rewrite list_lookup_insert_ne by done. intros Hj. apply (call_ok_snoc ops o s); [by right|by apply Hc].
Qed.

Lemma lock_inv ops s i c :
  flight_inv ops s -> fl_calls s !! i = Some c -> ca_pc c = Locking -> flight_inv (ops ++ [Lock i]) (lock i c s).
Proof.
  intros Hs Hi Hpc. pose proof Hs as [Hr Hc]. pose proof (Hc i c Hi) as [Hn Hok]. rewrite Hpc in Hok. unfold lock.
  destruct (fl_inProgress s) eqn:Hp.
  - apply (put_inv ops _ s i c); [done|done|unfold is_running; rewrite Hpc; by destruct (ca_try c)|].
    unfold call_ok. cbn [set_pc ca_notified ca_cancelled ca_pc ca_try]. rewrite Hok. split; [done|]. destruct (ca_try c).
    + right. by left.
    + split; [done|]. split; [set_solver|]. split; [by rewrite Hp|done].
  - split.
    + pose proof (running_put s i c (set_pc Running c) Hi) as H. unfold is_running at 1 in H. rewrite Hpc in H. cbn in H.
      unfold running in *. cbn [with_progress put fl_calls fl_inProgress] in *. lia.
    + intros j d. cbn [with_progress put fl_calls]. destruct (decide (i = j)) as [<-|Hne].
      * rewrite list_lookup_insert_eq by (by apply lookup_lt_Some in Hi). intros [= <-]. by split.
      * rewrite list_lookup_insert_ne by done. intros Hj. apply (call_ok_snoc ops _ s); [by left|by apply Hc].
Qed.

Lemma finish_inv ops s i err c :
  flight_inv ops s -> fl_calls s !! i = Some c -> ca_pc c = Running -> flight_inv (ops ++ [Finish i err]) (finish i err c s).
Proof.
  intros [Hr Hc] Hi Hpc. unfold finish. split.
  - rewrite running_broadcast. pose proof (sum_insert is_running _ i c (set_pc (Returned (Result err)) c) Hi) as H.
    unfold is_running at 2 4 in H. rewrite Hpc in H. cbn [set_pc ca_pc] in H. unfold running in *. cbn [fl_calls fl_inProgress broadcast].
    destruct (fl_inProgress s); lia.
  - intros j d. unfold broadcast. cbn [fl_calls]. rewrite list_lookup_fmap. intros (d0 & Hd & ->)%fmap_Some.
    destruct (decide (i = j)) as [<-|Hne].
    + rewrite list_lookup_insert_eq in Hd by (by apply lookup_lt_Some in Hi). injection Hd as <-. pose proof (Hc i c Hi) as [Hn _].
      split; [done|]. cbn [wake_call set_pc ca_pc]. left. set_solver.
    + rewrite list_lookup_insert_ne in Hd by done. pose proof (Hc j d0 Hd) as Hok. unfold wake_call.
      assert (Hkeep : forall d, call_ok ops s j d -> match ca_pc d with Waiting _ => False | _ => True end ->
        call_ok (ops ++ [Finish i err]) (MkFlight false err (map wake_call (<[i := set_pc (Returned (Result err)) c]> (fl_calls s)))) j d).
      { intros d' Hd' Hw. apply (call_ok_snoc ops (Finish i err) (MkFlight false err (fl_calls s))); [by right|].
        destruct Hd' as [H1 H2]. split; [done|]. by destruct (ca_pc d'). }
      destruct (ca_pc d0) as [| |w|e| |res] eqn:Hd0; try (apply Hkeep; [done|by rewrite Hd0]).
      destruct Hok as [Hn Hok]. rewrite Hd0 in Hok. destruct Hok as (H1 & H2 & H3 & H4).
      split; [done|]. cbn [set_pc ca_pc ca_try ca_notified]. split; [done|]. split; [set_solver|]. split; [|done]. intros _.
      split; [done|]. cbn [fl_lastErr]. exists ops, i, []. by split.
Qed.

Lemma flight_inv_step ops o s s' : flight_inv ops s -> flight_step s o = Some s' -> flight_inv (ops ++ [o]) s'.
Proof.
  intros Hs. pose proof Hs as [Hr Hc]. destruct o as [i|i|i err|i|i|i|i]; cbn [flight_step];
    destruct (fl_calls s !! i) as [c|] eqn:Hi; cbn [mbind option_bind]; try done; pose proof (Hc i c Hi) as [Hn Hok].
  - destruct (ca_pc c) eqn:Hpc; try done. intros [= <-]. unfold enter.
    apply (put_inv ops _ s i c); [done|done|unfold is_running; rewrite Hpc; by destruct (ca_cancelled c)|].
    unfold call_ok. cbn [set_pc ca_pc ca_notified ca_cancelled]. split; [done|]. by destruct (ca_cancelled c).
  - destruct (ca_pc c) eqn:Hpc; try done. intros [= <-]. by apply lock_inv.
  - destruct (ca_pc c) eqn:Hpc; try done. intros [= <-]. by apply finish_inv.
  - destruct (ca_pc c) as [| |w|e| |res] eqn:Hpc; try done. destruct (ca_cancelled c && negb (ca_notified c)) eqn:E; [|done]. intros [= <-].
    destruct Hok as (H1 & H2 & H3 & H4).
    assert (Hw : call_ok (ops ++ [Notify i]) s i (MkCall (ca_try c) true true (Waiting true))).
    { split; [done|]. cbn [ca_pc ca_try ca_notified]. split; [done|]. split; [set_solver|]. split; [|done]. intros Hp.
      destruct (H3 Hp). split; [done|]. by apply ended_after_snoc. }
    pose proof (put_inv ops (Notify i) s i c (MkCall (ca_try c) true true (Waiting true)) Hs Hi) as Hput.
    assert (Heq : broadcast (put i (MkCall (ca_try c) true true (Waiting w)) s) = broadcast (put i (MkCall (ca_try c) true true (Waiting true)) s)).
    { unfold broadcast, put. cbn [fl_calls fl_inProgress fl_lastErr]. f_equal. by rewrite !list_fmap_insert. }
    rewrite Heq. apply broadcast_inv, Hput; [unfold is_running; by rewrite Hpc|done].
  - destruct (ca_pc c) as [| |[]|e| |res] eqn:Hpc; try done. intros [= <-]. destruct Hok as (H1 & H2 & H3 & H4). unfold wake.
    apply (put_inv ops _ s i c); [done|done|unfold is_running; rewrite Hpc; by destruct (ca_cancelled c), (fl_inProgress s)|].
    unfold call_ok. cbn [set_pc ca_pc ca_notified ca_cancelled ca_try]. split; [done|]. destruct (ca_cancelled c) eqn:Hcc; [done|].
    destruct (fl_inProgress s) eqn:Hp.
    + split; [done|]. split; [set_solver|]. split; [done|]. intros Hno. by specialize (Hn Hno).
    + split; [done|]. apply ended_after_snoc. by apply H3.
  - destruct (ca_pc c) as [| |w|e| |res] eqn:Hpc; try done. intros [= <-]. destruct Hok as [H1 H2].
    apply (put_inv ops _ s i c); [done|done|unfold is_running; by rewrite Hpc|].
    unfold call_ok, conclude. cbn [set_pc ca_pc ca_notified ca_cancelled ca_try]. split; [done|]. destruct (ca_cancelled c); [done|].
    apply ended_after_snoc with (o := Conclude i) in H2. destruct e as [[|code]|]; [by split|right; right; by split|right; right; by split].
  - destruct (ca_cancelled c) eqn:Hcc; [done|]. intros [= <-].
    apply (put_inv ops _ s i c); [done|done|done|]. apply (call_ok_snoc ops _ s); [by right|].
    split; [done|]. cbn [ca_pc ca_cancelled ca_notified ca_try]. destruct (ca_pc c) as [| |w|e| |[]]; try done.
Qed.

Lemma flight_run_app ops1 ops2 s : flight_run (ops1 ++ ops2) s = (s' ← flight_run ops1 s; flight_run ops2 s').
Proof.
  revert s. induction ops1 as [|o ops IH]; intros s; cbn [flight_run app]; [done|]. destruct (flight_step s o); cbn [mbind option_bind]; [apply IH|done].
Qed.

Lemma flight_reachable tries ops s : flight_run ops (fresh_flight tries) = Some s -> flight_inv ops s.
Proof.
  revert s. induction ops as [|o ops IH] using rev_ind; intros s.
  - intros [= <-]. split.
    + unfold running, fresh_flight. cbn [fl_calls fl_inProgress]. induction tries as [|t l IH]; [done|exact IH].
    + intros i c. unfold fresh_flight. cbn [fl_calls]. rewrite list_lookup_fmap. by intros (t & _ & ->)%fmap_Some.
  - rewrite flight_run_app. destruct (flight_run ops _) as [s1|]; cbn [mbind option_bind]; [|done]. specialize (IH s1 eq_refl).
    cbn [flight_run]. destruct (flight_step s1 o) as [s2|] eqn:Hs; cbn [mbind option_bind]; [|done]. intros [= <-]. by apply (flight_inv_step ops o s1).
Qed.

(** * Theorems *)

(** C28: Callers share a discovery and get what they may. In every interleaving at
    most one discovery runs. A call that returned without running one returns its
    own context's error only when that context was cancelled; otherwise the
    result of a discovery that ended after the call had come to wait for it, with
    another caller's cancellation turned into errDiscoveryInterrupted; a call of
    tryDiscoverNodes that does not run one returns nil at once. *)
Theorem discoveries_shared (tries : list bool) (ops : list flight_op) (s : flight) :
  flight_run ops (fresh_flight tries) = Some s ->
  (running s <= 1)%nat
  /\ forall i c res, fl_calls s !! i = Some c -> ca_pc c = Returned res ->
     match res with
     | CtxErr => ca_cancelled c = true
     | errDiscoveryInterrupted => ended_after ops i (Some Interruption)
     | Result err => Finish i err ∈ ops \/ (ca_try c = true /\ err = None) \/ (err <> Some Interruption /\ ended_after ops i err)
     end.
Proof.
  intros H. pose proof (flight_reachable _ _ _ H) as [Hr Hc]. split; [destruct (fl_inProgress s); lia|].
  intros i c res Hi Hpc. pose proof (Hc i c Hi) as [_ Hok]. rewrite Hpc in Hok. destruct res; [done|by destruct Hok|done].
Qed.

(** The steps a call can still take, and the wake-ups of others it can cause. *)
Definition pc_work (pc : call_pc) : nat :=
  match pc with Called => 4 | Locking => 3 | Running => 2 | Waiting true => 2 | Waiting false => 1 | Checking _ => 1 | Returned _ => 0 end.
Definition broadcasts (c : discover_call) : nat :=
  match ca_pc c with Called | Locking | Running => 1 | _ => 0 end + (if ca_notified c then 0 else 1).
Definition call_work (n : nat) (c : discover_call) : nat :=
  pc_work (ca_pc c) + S n * broadcasts c + (if ca_cancelled c then 0 else 1).
Definition flight_work (s : flight) : nat := sum_list_with (call_work (length (fl_calls s))) (fl_calls s).

Lemma wake_work n l : (sum_list_with (call_work n) (map wake_call l) <= sum_list_with (call_work n) l + length l)%nat.
Proof.
  induction l as [|c l IH]; cbn [map sum_list_with length]; [done|].
  assert (H : (call_work n (wake_call c) <= call_work n c + 1)%nat).
  { destruct c as [t cc nt [| |[]|e| |res]]; unfold call_work, broadcasts, wake_call; cbn [ca_pc set_pc ca_notified ca_cancelled ca_try pc_work]; lia. }
  lia.
Qed.

Lemma put_work s i c c' k :
  fl_calls s !! i = Some c -> (call_work (length (fl_calls s)) c' + k <= call_work (length (fl_calls s)) c)%nat ->
  (flight_work (put i c' s) + k <= flight_work s)%nat.
Proof.
  intros Hi Hw. unfold flight_work, put. cbn [fl_calls]. rewrite length_insert.
  pose proof (sum_insert (call_work (length (fl_calls s))) _ i c c' Hi). lia.
Qed.

Lemma broadcast_work s : (flight_work (broadcast s) <= flight_work s + length (fl_calls s))%nat.
Proof. unfold flight_work, broadcast. cbn [fl_calls]. rewrite length_map. apply wake_work. Qed.

Ltac call_work_lia :=
  unfold call_work, broadcasts; cbn [set_pc ca_pc ca_notified ca_cancelled ca_try pc_work];
  repeat match goal with b : bool |- _ => destruct b end; lia.

Lemma flight_work_step s o s' : flight_step s o = Some s' -> (flight_work s' + 1 <= flight_work s)%nat.
Proof.
  destruct o as [i|i|i err|i|i|i|i]; cbn [flight_step];
    destruct (fl_calls s !! i) as [[t cc nt pc]|] eqn:Hi; cbn [mbind option_bind ca_pc ca_cancelled ca_notified ca_try]; try done.
  - destruct pc; try done. intros [= <-]. apply (put_work s i _ _ 1 Hi). cbn [ca_cancelled]. destruct cc; call_work_lia.
  - destruct pc; try done. intros [= <-]. unfold lock. destruct (fl_inProgress s); [|apply (put_work s i _ (MkCall t cc nt Running) 1 Hi); call_work_lia].
    apply (put_work s i _ _ 1 Hi). cbn [ca_try]. destruct t; call_work_lia.
  - destruct pc; try done. intros [= <-]. unfold finish.
    set (c' := set_pc (Returned (Result err)) (MkCall t cc nt Running)).
    pose proof (broadcast_work (MkFlight false err (<[i := c']> (fl_calls s)))) as Hb.
    pose proof (put_work s i _ c' (S (length (fl_calls s)) + 1) Hi) as Hp.
    cbn [fl_calls] in Hb. rewrite length_insert in Hb.
    assert (Hw : (call_work (length (fl_calls s)) c' + (S (length (fl_calls s)) + 1) <= call_work (length (fl_calls s)) (MkCall t cc nt Running))%nat)
      by (unfold c'; call_work_lia).
    specialize (Hp Hw). change (flight_work (put i c' s)) with (flight_work (MkFlight false err (<[i := c']> (fl_calls s)))) in Hp. lia.
  - destruct pc as [| |w|e| |res]; try done. destruct cc, nt; cbn [andb negb]; try done. intros [= <-].
    pose proof (broadcast_work (put i (MkCall t true true (Waiting w)) s)) as Hb.
    pose proof (put_work s i _ (MkCall t true true (Waiting w)) (S (length (fl_calls s))) Hi) as Hp.
    cbn [put fl_calls] in Hb. rewrite length_insert in Hb.
    assert (Hw : (call_work (length (fl_calls s)) (MkCall t true true (Waiting w)) + S (length (fl_calls s))
      <= call_work (length (fl_calls s)) (MkCall t true false (Waiting w)))%nat) by call_work_lia. specialize (Hp Hw).
    change (flight_work (broadcast (put i (MkCall t true true (Waiting w)) s)) + 1 <= flight_work s)%nat. lia.
  - destruct pc as [| |[]|e| |res]; try done. intros [= <-]. apply (put_work s i _ _ 1 Hi). cbn [ca_cancelled].
    destruct cc, (fl_inProgress s); call_work_lia.
  - destruct pc as [| |w|e| |res]; try done. intros [= <-]. apply (put_work s i _ _ 1 Hi). call_work_lia.
  - destruct cc; [done|]. intros [= <-]. apply (put_work s i _ _ 1 Hi). call_work_lia.
Qed.

Lemma flight_work_run ops s s' : flight_run ops s = Some s' -> (flight_work s' + length ops <= flight_work s)%nat.
Proof.
  revert s. induction ops as [|o ops IH]; intros s; cbn [flight_run length]; [intros [= <-]; lia|].
  destruct (flight_step s o) as [s1|] eqn:Hs; cbn [mbind option_bind]; [|done]. intros Hrun.
  pose proof (flight_work_step s o s1 Hs). specialize (IH s1 Hrun). lia.
Qed.

Lemma fresh_work tries : flight_work (fresh_flight tries) = (length tries * (7 + 2 * length tries))%nat.
Proof.
  unfold flight_work, fresh_flight. cbn [fl_calls]. rewrite length_map.
  assert (H : forall n l, sum_list_with (call_work n) (map (fun t => MkCall t false false Called) l) = (length l * (7 + 2 * n))%nat); [|apply H].
  intros n l. induction l as [|t l IH]; cbn [map sum_list_with length]; [done|]. rewrite IH.
  unfold call_work at 1, broadcasts. cbn [ca_pc ca_notified ca_cancelled pc_work]. lia.
Qed.

Definition is_returned (c : discover_call) : bool := match ca_pc c with Returned _ => true | _ => false end.

(** Every call returns. Discoveries take their steps in any order, with
    contexts cancelled at any time: n calls take at most n(2n + 7) steps, and as
    long as a call has not returned, some step other than a cancellation can be
    taken. No waiter misses the broadcast it needs. *)
Theorem discoveries_return (tries : list bool) (ops : list flight_op) (s : flight) :
  flight_run ops (fresh_flight tries) = Some s ->
  (length ops <= length tries * (7 + 2 * length tries))%nat
  /\ ((forall o, (forall i, o <> CancelCtx i) -> flight_step s o = None) -> forallb is_returned (fl_calls s) = true).
Proof.
  intros H. split; [pose proof (flight_work_run _ _ _ H) as Hw; rewrite fresh_work in Hw; lia|].
  intros Hst. pose proof (flight_reachable _ _ _ H) as [Hr Hc].
  assert (Hrun : running s = 0%nat).
  { destruct (running s) as [|k] eqn:E; [done|]. destruct (sum_pos is_running (fl_calls s)) as (i & c & Hi & Hp); [unfold running in E; lia|].
    specialize (Hst (Finish i None) ltac:(done)). cbn [flight_step] in Hst. rewrite Hi in Hst. cbn [mbind option_bind] in Hst.
    unfold is_running in Hp. destruct (ca_pc c); try lia; done. }
  rewrite Hrun in Hr. assert (Hp : fl_inProgress s = false) by (by destruct (fl_inProgress s)).
  apply forallb_forall. intros c [i Hi]%list_elem_of_In%list_elem_of_lookup. pose proof (Hc i c Hi) as [_ Hok].
  unfold is_returned. destruct (ca_pc c) as [| |w|e| |res] eqn:Hpc; [| | | | |done].
  - specialize (Hst (Enter i) ltac:(done)). cbn [flight_step] in Hst. rewrite Hi in Hst. cbn [mbind option_bind] in Hst. by rewrite Hpc in Hst.
  - specialize (Hst (Lock i) ltac:(done)). cbn [flight_step] in Hst. rewrite Hi in Hst. cbn [mbind option_bind] in Hst. by rewrite Hpc in Hst.
  - destruct Hok as (_ & _ & Hw & _). destruct (Hw Hp) as [-> _].
    specialize (Hst (Wake i) ltac:(done)). cbn [flight_step] in Hst. rewrite Hi in Hst. cbn [mbind option_bind] in Hst. by rewrite Hpc in Hst.
  - specialize (Hst (Conclude i) ltac:(done)). cbn [flight_step] in Hst. rewrite Hi in Hst. cbn [mbind option_bind] in Hst. by rewrite Hpc in Hst.
  - pose proof (sum_ge is_running _ _ _ Hi) as Hg. unfold is_running at 1 in Hg. rewrite Hpc in Hg. unfold running in Hrun. lia.
Qed.

(** Three calls: the first runs and is interrupted, the second waits for it, the
    third only tries. *)
Definition ex_flight : list flight_op :=
  [Enter 0; Lock 0; Enter 1; Lock 1; Enter 2; Lock 2; CancelCtx 0; Finish 0 (Some Interruption); Wake 1; Conclude 1].
Definition ex_flown : flight := default (fresh_flight []) (flight_run ex_flight (fresh_flight [false; false; true])).

Lemma discoveries_shared_witness :
  map ca_pc (fl_calls ex_flown) = [Returned (Result (Some Interruption)); Returned errDiscoveryInterrupted; Returned (Result None)]
  /\ (running ex_flown <= 1)%nat.
Proof.
  split; [vm_compute; reflexivity|].
  destruct (discoveries_shared [false; false; true] ex_flight ex_flown) as [H _]; [vm_compute; reflexivity|exact H].
Defined.

Lemma discoveries_return_witness : (length ex_flight <= 3 * (7 + 2 * 3))%nat.
Proof. destruct (discoveries_return [false; false; true] ex_flight ex_flown) as [H _]; [vm_compute; reflexivity|exact H]. Defined.
