(* ===== verification/Paths.v ===== *)
(** * URL paths

    The runtime of internal/path/builders_gen.go: percent encoding, the buffer and
    its writers, and the statements of a Build method; then what the builders are
    compared with, the path templates of opensearch-openapi.yaml, and what a server
    reads back from a path.

    url.PathEscape and url.PathUnescape are the standard library's, on bytes. The
    pool of buffers is left out: acquire empties the buffer it takes. *)

From Stdlib Require Import Ascii String.
From stdpp Require Import base list strings.
From Stdlib Require Import ZArith Lia.
From S2P Require Import Prelude.
From S2P Require Import GoStrings.
Open Scope list_scope.
Open Scope bool_scope.

(** * Percent encoding *)

Definition alphanumeric (a : ascii) : bool :=
  let c := code a in
  ((97 <=? c) && (c <=? 122) || (65 <=? c) && (c <=? 90) || (48 <=? c) && (c <=? 57))%Z.
Definition unreserved (a : ascii) : bool := alphanumeric a || str_has a "-_.~".

Definition all_bytes (f : ascii -> bool) (s : string) : bool := forallb f (list_ascii_of_string s).

(** shouldEscape of net/url, for a path segment and for a path. *)
Definition escape_in_segment (a : ascii) : bool :=
  if unreserved a then false else if str_has a "$&+,/:;=?@" then str_has a "/;,?" else true.
Definition escape_in_path (a : ascii) : bool :=
  if unreserved a then false else if str_has a "$&+,/:;=?@" then str_has a "?" else true.

Fixpoint escape (should : ascii -> bool) (s : string) : string :=
  match s with
  | EmptyString => EmptyString
  | String a s =>
    if should a then String "%" (String (hex_upper (code a / 16)) (String (hex_upper (code a mod 16)) (escape should s)))
    else String a (escape should s)
  end.
Definition PathEscape : string -> string := escape escape_in_segment.

Fixpoint PathUnescape (s : string) : option string :=
  match s with
  | EmptyString => Some EmptyString
  | String a s1 =>
    if Ascii.eqb a "%" then
      match s1 with
      | String x (String y s2) => hx ← hex_digit x; hy ← hex_digit y; r ← PathUnescape s2; Some (String (chr (16 * hx + hy)) r)
      | _ => None
      end
    else r ← PathUnescape s1; Some (String a r)
  end.

(** strings.ReplaceAll, of one byte. *)
Fixpoint ReplaceAll (s : string) (old : ascii) (new : string) : string :=
  match s with
  | EmptyString => EmptyString
  | String a s => if Ascii.eqb a old then String.append new (ReplaceAll s old new) else String a (ReplaceAll s old new)
  end.

Definition encSeg (v : string) : string :=
  let s := PathEscape v in
  if negb (str_has "/" s) then s else ReplaceAll s "/" "%2F".

(** * The buffer and its writers *)

(** A path, or the error that a field is missing: the text before errRequired. *)
Inductive built := Built (s : string) | Refused (what : string).
Definition listSep : string := ",".

Definition isEmpty (v : string) : bool := match v with EmptyString => true | _ => false end.
Definition isSet (v : string) : bool := negb (isEmpty v).
Definition hasNonEmpty (ss : list string) : bool := existsb isSet ss.

Definition buf := string.
Definition acquire : buf := EmptyString.
Definition write_lit (v : string) (pb : buf) : buf := String.append pb (String "/" v).
Definition write_req (v : string) (pb : buf) : buf := String.append pb (String "/" (encSeg v)).
Fixpoint write_segments_from (first : bool) (segments : list string) (pb : buf) : buf :=
  match segments with
  | [] => pb
  | seg :: segments =>
    if isEmpty seg then write_segments_from first segments pb
    else write_segments_from false segments (String.append pb (String.append (if first then "/" else listSep) (encSeg seg)))
  end.
Definition write_segments : list string -> buf -> buf := write_segments_from true.

(** The statements of a Build method: from the buffer so far to the buffer, or
    an early return with an error. *)
Definition stmt := buf -> built.
Definition skip : stmt := Built.
Definition writeLit (v : string) : stmt := fun pb => Built (write_lit v pb).
Definition writeReq (v : string) : stmt := fun pb => Built (write_req v pb).
Definition writeSegments (segments : list string) : stmt := fun pb => Built (write_segments segments pb).
Definition fail (what : string) : stmt := fun _ => Refused what.
Definition andThen (s1 s2 : stmt) : stmt := fun pb => match s1 pb with Built pb' => s2 pb' | Refused what => Refused what end.
Definition when (b : bool) (s : stmt) : stmt := if b then s else skip.
(** The checks of the fields that must be set. *)
Definition required (what v : string) : stmt := when (isEmpty v) (fail what).
Definition requiredList (what : string) (ss : list string) : stmt := when (negb (hasNonEmpty ss)) (fail what).
Definition build (s : stmt) : built := s acquire.

Declare Scope stmt_scope.
Delimit Scope stmt_scope with stmt.
Notation "s1 ;; s2" := (andThen s1 s2) (at level 100, right associativity) : stmt_scope.

(** * The specification *)

(** A field of a path type, and the fields that are set. *)
Inductive field := One (v : string) | Many (l : list string).
Definition given (f : field) : bool := match f with One v => isSet v | Many l => hasNonEmpty l end.
Definition values (f : field) : list string := match f with One v => [v] | Many l => List.filter isSet l end.

(** A path template: literals and parameters, by name. *)
Inductive piece := Lit (v : string) | Param (name : string).
Definition is_param (seg : string) : option string :=
  match seg with String "{" s => Some (Cut "}" s).1.1 | _ => None end.
Definition parse_piece (seg : string) : piece := match is_param seg with Some x => Param x | None => Lit seg end.
Definition parse_template (s : string) : list piece := map parse_piece (tail (Split "/" s)).
Definition params (t : list piece) : list string := omap (fun p => match p with Param x => Some x | Lit _ => None end) t.

(** The fields of a value that are set, under the names of their parameters. *)
Definition env := list (string * field).
Fixpoint value_of (e : env) (x : string) : field :=
  match e with [] => One "" | (y, f) :: e => if String.eqb x y then f else value_of e x end.
Definition mem (x : string) (l : list string) : bool := existsb (String.eqb x) l.
Definition set_fields (e : env) : env := List.filter (fun p => given p.2) e.

(** The template whose parameters are exactly the fields that are set. *)
Definition fits (names : list string) (t : list piece) : bool :=
  forallb (fun x => mem x names) (params t) && forallb (fun x => mem x (params t)) names.
Definition choose_template (names : list string) (ts : list (list piece)) : option (list piece) := List.find (fits names) ts.

Definition write_piece (e : env) (pb : buf) (p : piece) : buf :=
  match p with
  | Lit v => write_lit v pb
  | Param x => match value_of e x with One v => write_req v pb | Many l => write_segments l pb end
  end.
Definition instantiate (e : env) (t : list piece) : string := fold_left (write_piece e) t acquire.

(** What a server reads back: the segments, each a list of decoded values. *)
Definition decode_segment (s : string) : option (list string) := mapM PathUnescape (Split "," s).
Definition decode_path (s : string) : option (list (list string)) :=
  match s with String "/" s => mapM decode_segment (Split "/" s) | _ => None end.
Definition piece_values (e : env) (p : piece) : list string :=
  match p with Lit v => [v] | Param x => values (value_of e x) end.

(** The interface of the path types, with the templates of their operation in the
    API description: [fields] are the fields by the names of the parameters,
    [ignored] the ones that are set but that no template of the description
    combines with the others, and that Build leaves out. *)
Class builder (P : Type) := {
  Build : P -> built;
  fields : P -> env;
  ignored : P -> list string;
  templates : list string }.
Arguments templates P {_}.

Definition success (r : built) : option string := match r with Built s => Some s | Refused _ => None end.
Definition kept `{builder P} (p : P) : list string :=
  List.filter (fun x => negb (mem x (ignored p))) (map fst (set_fields (fields p))).
Definition plain_piece (p : piece) : bool :=
  match p with Lit v => all_bytes unreserved v | Param _ => true end.

(** The laws: Build instantiates the template that fits, and fails when none does;
    the literals of the templates need no encoding. *)
Class Lawful (P : Type) `{builder P} : Prop := {
  follows (p : P) : success (Build p) = instantiate (set_fields (fields p)) <$> choose_template (kept p) (map parse_template (templates P));
  plain : forallb (fun t => forallb plain_piece (parse_template t) && negb (Nat.eqb (length (parse_template t)) 0)) (templates P) = true }.

(** A path type of the package. *)
Record path_type := MkPathType {
  pt_name : string; pt_type : Type; pt_builder :: builder pt_type; pt_lawful :: Lawful pt_type }.

Lemma write_segments_nothing l pb : hasNonEmpty l = false -> write_segments l pb = pb.
Proof.
  unfold write_segments, hasNonEmpty. generalize true. induction l as [|s l IH]; intros first; cbn [existsb write_segments_from]; [done|].
  unfold isSet at 1. destruct (isEmpty s); cbn [negb orb]; [apply IH|done].
Qed.

(** A Build method follows its templates: by the fields that are set. *)
Ltac split_set :=
  repeat match goal with
  | |- context [isEmpty ?v] => is_var v; destruct (isEmpty v) eqn:?
  | |- context [hasNonEmpty ?l] => is_var l; destruct (hasNonEmpty l) eqn:?
  end.
Ltac follow :=
  split; [|reflexivity]; intros p; destruct p; lazy -[isEmpty hasNonEmpty String.append encSeg write_segments];
  split_set; try discriminate;
  repeat match goal with H : hasNonEmpty ?l = false |- _ => rewrite (write_segments_nothing l _ H) end; reflexivity.

(** * Encoding *)

(** The bytes of an encoded segment, and of a path. *)
Definition segment_byte (a : ascii) : bool := negb (escape_in_segment a) || Ascii.eqb a "%".
Definition path_byte (a : ascii) : bool := segment_byte a || Ascii.eqb a "/" || Ascii.eqb a ",".

Lemma all_bytes_app f s t : all_bytes f (String.append s t) = all_bytes f s && all_bytes f t.
Proof.
  induction s as [|a s IH]; [done|]. change (f a && all_bytes f (String.append s t) = f a && all_bytes f s && all_bytes f t). by rewrite IH, andb_assoc.
Qed.

Lemma all_bytes_cons f a s : all_bytes f (String a s) = f a && all_bytes f s.
Proof. done. Qed.

Lemma all_bytes_lacks f c s : all_bytes f s = true -> f c = false -> str_has c s = false.
Proof.
  intros Hs Hc. induction s as [|a s IH]; [done|]. rewrite all_bytes_cons in Hs. apply andb_prop in Hs as [Ha Hs].
  rewrite str_has_cons, (IH Hs), orb_false_r. destruct (Ascii.eqb_spec c a) as [->|]; [congruence|done].
Qed.

Lemma all_bytes_mono f g s : (forall a, f a = true -> g a = true) -> all_bytes f s = true -> all_bytes g s = true.
Proof. unfold all_bytes. rewrite !forallb_forall. auto. Qed.

(** A fact about every byte, by evaluation. *)
Lemma byte_fact (f : ascii -> bool) : forallb (fun n => f (ascii_of_nat n)) (seq 0 256) = true -> forall a, f a = true.
Proof.
  intros H a. rewrite <- (ascii_nat_embedding a). rewrite forallb_forall in H. apply H, in_seq. pose proof (nat_ascii_bounded a). lia.
Qed.

Lemma hex_pair a :
  hex_digit (hex_upper (code a / 16)) = Some (code a / 16)%Z /\ hex_digit (hex_upper (code a mod 16)) = Some (code a mod 16)%Z
  /\ chr (16 * (code a / 16) + code a mod 16) = a
  /\ segment_byte (hex_upper (code a / 16)) = true /\ segment_byte (hex_upper (code a mod 16)) = true.
Proof.
  pose proof (byte_fact (fun a => match hex_digit (hex_upper (code a / 16)), hex_digit (hex_upper (code a mod 16)) with
    | Some x, Some y => (x =? code a / 16)%Z && (y =? code a mod 16)%Z && Ascii.eqb (chr (16 * (code a / 16) + code a mod 16)) a
        && segment_byte (hex_upper (code a / 16)) && segment_byte (hex_upper (code a mod 16))
    | _, _ => false end) ltac:(vm_compute; reflexivity) a) as H. cbv beta in H.
  destruct (hex_digit (hex_upper (code a / 16))), (hex_digit (hex_upper (code a mod 16))); try done.
  rewrite !andb_true_iff, !Z.eqb_eq, Ascii.eqb_eq in H. destruct H as ((((-> & ->) & ?) & ?) & ?). by split_and!.
Qed.

Lemma escape_percent a : Ascii.eqb a "%" = true -> escape_in_segment a = true.
Proof. intros ->%Ascii.eqb_eq. reflexivity. Qed.

(** Decoding gives the value back, and the value has no say in the bytes. *)
Lemma PathUnescape_escape should s :
  (forall a, Ascii.eqb a "%" = true -> should a = true) -> PathUnescape (escape should s) = Some s.
Proof.
  intros Hp. induction s as [|a s IH]; [done|]. cbn [escape]. destruct (should a) eqn:Ha.
  - cbn [PathUnescape]. change (Ascii.eqb "%" "%") with true. cbv iota. destruct (hex_pair a) as (-> & -> & Hc & _).
    cbn [mbind option_bind]. rewrite IH. cbn [mbind option_bind]. by rewrite Hc.
  - cbn [PathUnescape]. destruct (Ascii.eqb a "%") eqn:E; [by rewrite Hp in Ha|]. by rewrite IH.
Qed.

Lemma PathUnescape_PathEscape s : PathUnescape (PathEscape s) = Some s.
Proof. apply PathUnescape_escape, escape_percent. Qed.

Lemma PathEscape_bytes s : all_bytes segment_byte (PathEscape s) = true.
Proof.
  unfold PathEscape. induction s as [|a s IH]; [done|]. cbn [escape]. destruct (escape_in_segment a) eqn:Ha; rewrite !all_bytes_cons, IH.
  - destruct (hex_pair a) as (_ & _ & _ & -> & ->). done.
  - unfold segment_byte. by rewrite Ha.
Qed.

Lemma PathEscape_lacks c s : segment_byte c = false -> str_has c (PathEscape s) = false.
Proof. apply all_bytes_lacks, PathEscape_bytes. Qed.

Lemma PathEscape_plain s : PathEscape s = EmptyString -> s = EmptyString.
Proof. destruct s as [|a s]; [done|]. unfold PathEscape. cbn. by destruct (escape_in_segment a). Qed.

(** url.PathEscape escapes the slash: the replacement is never made. *)
Lemma encSeg_PathEscape v : encSeg v = PathEscape v.
Proof. unfold encSeg. by rewrite PathEscape_lacks. Qed.

Lemma PathUnescape_plain s : str_has "%" s = false -> PathUnescape s = Some s.
Proof.
  induction s as [|a s IH]; [done|]. rewrite str_has_cons. intros [H1 H2]%orb_false_iff. cbn [PathUnescape].
  by rewrite Ascii.eqb_sym, H1, (IH H2).
Qed.

(** * Decoding a path *)

(** The text of a piece, without its slash. *)
Definition piece_text (e : env) (p : piece) : string :=
  match p with
  | Lit v => v
  | Param x => match value_of e x with One v => PathEscape v | Many l => String.concat "," (map PathEscape (List.filter isSet l)) end
  end.

Lemma concat_cons x l : String.concat "" (x :: l) = String.append x (String.concat "" l).
Proof. destruct l; [by rewrite append_empty_r|done]. Qed.

Lemma concat_commas s l :
  String.append s (String.concat "" (map (fun s => String.append "," (PathEscape s)) l)) = String.concat "," (s :: map PathEscape l).
Proof.
  revert s. induction l as [|t l IH]; intros s; [apply append_empty_r|].
  change (String.concat "," (s :: map PathEscape (t :: l))) with (String.append s (String.append "," (String.concat "," (PathEscape t :: map PathEscape l)))).
  rewrite <- IH. cbn [map]. by rewrite concat_cons, append_assoc.
Qed.

Lemma write_segments_more l pb :
  write_segments_from false l pb = String.append pb (String.concat "" (map (fun s => String.append "," (PathEscape s)) (List.filter isSet l))).
Proof.
  revert pb. induction l as [|s l IH]; intros pb; cbn [write_segments_from List.filter].
  - by rewrite append_empty_r.
  - assert (Hs : isSet s = negb (isEmpty s)) by done. rewrite Hs. destruct (isEmpty s); cbn [negb]; [apply IH|]. cbn [map].
    by rewrite IH, encSeg_PathEscape, append_assoc, concat_cons, append_assoc.
Qed.

Lemma write_segments_text l pb :
  hasNonEmpty l = true -> write_segments l pb = String.append pb (String "/" (String.concat "," (map PathEscape (List.filter isSet l)))).
Proof.
  unfold write_segments, hasNonEmpty. induction l as [|s l IH]; cbn [existsb write_segments_from List.filter]; [done|].
  assert (Hs : isSet s = negb (isEmpty s)) by done. rewrite Hs. destruct (isEmpty s); cbn [negb orb].
  - exact IH.
  - intros _. cbn [map]. rewrite write_segments_more, append_assoc, <- concat_commas, encSeg_PathEscape.
    by rewrite append_assoc.
Qed.

(** A piece with its slash, for the parameters that are set. *)
Definition piece_set (e : env) (p : piece) : Prop := match p with Lit _ => True | Param x => given (value_of e x) = true end.

Lemma write_piece_text e pb p : piece_set e p -> write_piece e pb p = String.append pb (String "/" (piece_text e p)).
Proof.
  destruct p as [v|x]; cbn; [done|]. destruct (value_of e x) as [v|l]; cbn; intros H.
  - unfold write_req. by rewrite encSeg_PathEscape.
  - by apply write_segments_text.
Qed.

Lemma instantiate_text e t : Forall (piece_set e) t -> t <> [] -> instantiate e t = String "/" (String.concat "/" (map (piece_text e) t)).
Proof.
  intros Ht Hne. unfold instantiate.
  assert (H : forall pb, fold_left (write_piece e) t pb = String.append pb (String "/" (String.concat "/" (map (piece_text e) t)))); [|apply H].
  clear - Ht Hne. induction Ht as [|p t Hp Ht IH]; intros pb; [done|]. cbn [fold_left]. rewrite (write_piece_text e pb p Hp).
  destruct t as [|q t]; [done|]. rewrite IH by done. rewrite append_assoc. done.
Qed.

Lemma isSet_filter l : hasNonEmpty l = true -> List.filter isSet l <> [].
Proof. unfold hasNonEmpty. induction l as [|s l IH]; cbn; [done|]. destruct (isSet s); cbn; [done|exact IH]. Qed.

Lemma decode_piece e p : plain_piece p = true -> piece_set e p -> decode_segment (piece_text e p) = Some (piece_values e p).
Proof.
  unfold decode_segment. destruct p as [v|x]; cbn [plain_piece piece_set piece_text piece_values].
  - intros Hv _. rewrite Split_plain by (by apply (all_bytes_lacks unreserved)). cbn [mapM].
    by rewrite PathUnescape_plain by (by apply (all_bytes_lacks unreserved)).
  - intros _. destruct (value_of e x) as [v|l]; cbn [given values]; intros Hs.
    + rewrite Split_plain by (by apply PathEscape_lacks). cbn [mapM]. by rewrite PathUnescape_PathEscape.
    + rewrite Split_concat.
      * apply mapM_Some, Forall2_fmap_l, Forall_Forall2_diag, Forall_true. intros s. apply PathUnescape_PathEscape.
      * intros H%map_eq_nil. by apply (isSet_filter l).
      * apply Forall_fmap, Forall_true. intros s. by apply PathEscape_lacks.
Qed.

Lemma all_bytes_concat f sep l : all_bytes f sep = true -> Forall (fun s => all_bytes f s = true) l -> all_bytes f (String.concat sep l) = true.
Proof.
  intros Hsep. induction 1 as [|s l Hs Hl IH]; [done|]. destruct l as [|t l]; [done|].
  change (String.concat sep (s :: t :: l)) with (String.append s (String.append sep (String.concat sep (t :: l)))).
  by rewrite !all_bytes_app, Hs, Hsep, IH.
Qed.

Definition text_byte (a : ascii) : bool := segment_byte a || Ascii.eqb a ",".

Lemma piece_text_bytes e p : plain_piece p = true -> all_bytes text_byte (piece_text e p) = true.
Proof.
  assert (Hs : forall s, all_bytes text_byte (PathEscape s) = true).
  { intros s. apply (all_bytes_mono segment_byte); [|apply PathEscape_bytes]. unfold text_byte. by intros a ->. }
  destruct p as [v|x]; cbn [plain_piece piece_text].
  - apply all_bytes_mono. intros a Ha. unfold text_byte, segment_byte, escape_in_segment. by rewrite Ha.
  - intros _. destruct (value_of e x) as [v|l]; [done|]. apply all_bytes_concat; [done|]. apply Forall_fmap, Forall_true. intros s. apply Hs.
Qed.

Lemma piece_text_no_slash e p : plain_piece p = true -> str_has "/" (piece_text e p) = false.
Proof. intros H. by apply (all_bytes_lacks text_byte); [apply piece_text_bytes|]. Qed.

Lemma decode_instantiate e t :
  t <> [] -> forallb plain_piece t = true -> Forall (piece_set e) t -> decode_path (instantiate e t) = Some (map (piece_values e) t).
Proof.
  intros Hne Hp Hs. rewrite instantiate_text by done. cbn [decode_path]. rewrite forallb_forall in Hp. rewrite Split_concat.
  - apply mapM_Some, Forall2_fmap_l, Forall2_fmap_r, Forall_Forall2_diag, Forall_forall. intros p Hin.
    apply decode_piece; [apply Hp; by apply list_elem_of_In|]. by apply (proj1 (Forall_forall _ _) Hs).
  - intros H%map_eq_nil. done.
  - apply Forall_fmap, Forall_forall. intros p Hin. apply piece_text_no_slash, Hp. by apply list_elem_of_In.
Qed.

(** The bytes of a path, and the path decoded as a whole. *)
Lemma instantiate_bytes e t :
  t <> [] -> forallb plain_piece t = true -> Forall (piece_set e) t -> all_bytes path_byte (instantiate e t) = true.
Proof.
  intros Hne Hp Hs. rewrite instantiate_text by done. rewrite all_bytes_cons. apply andb_true_intro. split; [done|].
  rewrite forallb_forall in Hp. apply all_bytes_concat; [done|]. apply Forall_fmap, Forall_forall. intros p Hin.
  apply (all_bytes_mono text_byte); [|apply piece_text_bytes, Hp; by apply list_elem_of_In].
  intros a. unfold path_byte, text_byte. intros [->| ->]%orb_prop; [done|by rewrite !orb_true_r].
Qed.

Lemma PathUnescape_append s t a b :
  PathUnescape s = Some a -> PathUnescape t = Some b -> PathUnescape (String.append s t) = Some (String.append a b).
Proof.
  intros Hs Ht. remember (String.length s) as n eqn:Hn. assert (Hle : (String.length s <= n)%nat) by lia. clear Hn. revert s a Hs Hle.
  induction n as [|n IH]; intros [|c s] a Hs Hle; cbn in Hle; try lia; [by injection Hs as <-|by injection Hs as <-|].
  cbn [PathUnescape] in Hs. rewrite append_cons. cbn [PathUnescape]. destruct (Ascii.eqb c "%").
  - destruct s as [|x [|y s]]; try done. rewrite !append_cons. destruct (hex_digit x), (hex_digit y); try done. cbn [mbind option_bind] in *.
    destruct (PathUnescape s) as [r|] eqn:Hr; [|done]. injection Hs as <-. cbn in Hle. rewrite (IH s r Hr) by lia. done.
  - destruct (PathUnescape s) as [r|] eqn:Hr; [|done]. injection Hs as <-. rewrite (IH s r Hr) by lia. done.
Qed.

Lemma PathUnescape_concat sep l l' :
  PathUnescape sep = Some sep -> Forall2 (fun s d => PathUnescape s = Some d) l l' -> PathUnescape (String.concat sep l) = Some (String.concat sep l').
Proof.
  intros Hsep. induction 1 as [|s d l l' Hs Hl IH]; [done|]. destruct Hl as [|s2 d2 l l' Hs2 Hl]; [done|].
  change (String.concat sep (s :: s2 :: l)) with (String.append s (String.append sep (String.concat sep (s2 :: l)))).
  change (String.concat sep (d :: d2 :: l')) with (String.append d (String.append sep (String.concat sep (d2 :: l')))).
  by repeat apply PathUnescape_append.
Qed.

Definition decoded_piece (e : env) (p : piece) : string := String.concat "," (piece_values e p).
Definition decoded_path (e : env) (t : list piece) : string := String "/" (String.concat "/" (map (decoded_piece e) t)).

Lemma unescape_piece e p : plain_piece p = true -> PathUnescape (piece_text e p) = Some (decoded_piece e p).
Proof.
  unfold decoded_piece. destruct p as [v|x]; cbn [plain_piece piece_text piece_values].
  - intros Hv. apply PathUnescape_plain. by apply (all_bytes_lacks unreserved).
  - intros _. destruct (value_of e x) as [v|l]; cbn [values]; [apply PathUnescape_PathEscape|].
    apply PathUnescape_concat; [done|]. apply Forall2_fmap_l, Forall_Forall2_diag, Forall_true. intros s. apply PathUnescape_PathEscape.
Qed.

Lemma unescape_instantiate e t :
  t <> [] -> forallb plain_piece t = true -> Forall (piece_set e) t -> PathUnescape (instantiate e t) = Some (decoded_path e t).
Proof.
  intros Hne Hp Hs. rewrite instantiate_text by done. unfold decoded_path. change (PathUnescape (String.append "/" (String.concat "/" (map (piece_text e) t))) = Some (String.append "/" (String.concat "/" (map (decoded_piece e) t)))).
  apply PathUnescape_append; [done|]. apply PathUnescape_concat; [done|]. rewrite forallb_forall in Hp.
  apply Forall2_fmap_l, Forall2_fmap_r, Forall_Forall2_diag, Forall_forall. intros p Hin. apply unescape_piece, Hp. by apply list_elem_of_In.
Qed.
