(* ===== verification/PathsCore.v ===== *)
(** * Path types: Core

    The path types of internal/path/builders_gen.go for the document, search, cat, cluster, nodes and task operations:
    the fields, the Build method, and the path templates that
    opensearch-openapi.yaml has for the operation (less the ones it marks deprecated
    or superseded by another template with the same parameters), with the proof
    that Build follows them. *)

From Stdlib Require Import Ascii String.
From stdpp Require Import base list strings.
From S2P Require Import Paths.
Open Scope string_scope.
Open Scope list_scope.
Open Scope bool_scope.
Open Scope stmt_scope.

Record BulkPath := MkBulkPath { BulkPath_Index : string }.
Definition BulkPath_Build (p : BulkPath) : built := build (when (isSet (BulkPath_Index p)) (writeReq (BulkPath_Index p));; writeLit "_bulk").
#[export] Instance BulkPath_builder : builder BulkPath :=
  {| Build := BulkPath_Build; fields p := [("index", One (BulkPath_Index p))]; ignored _ := [];
     templates := ["/_bulk"; "/{index}/_bulk"] |}.
#[export] Instance BulkPath_lawful : Lawful BulkPath.
Proof. follow. Qed.

Record BulkStreamPath := MkBulkStreamPath { BulkStreamPath_Index : string }.
Definition BulkStreamPath_Build (p : BulkStreamPath) : built :=
  build (when (isSet (BulkStreamPath_Index p)) (writeReq (BulkStreamPath_Index p));; writeLit "_bulk";; writeLit "stream").
#[export] Instance BulkStreamPath_builder : builder BulkStreamPath :=
  {| Build := BulkStreamPath_Build; fields p := [("index", One (BulkStreamPath_Index p))]; ignored _ := [];
     templates := ["/_bulk/stream"; "/{index}/_bulk/stream"] |}.
#[export] Instance BulkStreamPath_lawful : Lawful BulkStreamPath.
Proof. follow. Qed.

Record CatAliasesPath := MkCatAliasesPath { CatAliasesPath_Name : list string }.
Definition CatAliasesPath_Build (p : CatAliasesPath) : built := build (writeLit "_cat";; writeLit "aliases";; writeSegments (CatAliasesPath_Name p)).
#[export] Instance CatAliasesPath_builder : builder CatAliasesPath :=
  {| Build := CatAliasesPath_Build; fields p := [("name", Many (CatAliasesPath_Name p))]; ignored _ := [];
     templates := ["/_cat/aliases"; "/_cat/aliases/{name}"] |}.
#[export] Instance CatAliasesPath_lawful : Lawful CatAliasesPath.
Proof. follow. Qed.

Record CatAllPITSegmentsPath := MkCatAllPITSegmentsPath {  }.
Definition CatAllPITSegmentsPath_Build (p : CatAllPITSegmentsPath) : built := build (writeLit "_cat";; writeLit "pit_segments";; writeLit "_all").
#[export] Instance CatAllPITSegmentsPath_builder : builder CatAllPITSegmentsPath :=
  {| Build := CatAllPITSegmentsPath_Build; fields _ := []; ignored _ := [];
     templates := ["/_cat/pit_segments/_all"] |}.
#[export] Instance CatAllPITSegmentsPath_lawful : Lawful CatAllPITSegmentsPath.
Proof. follow. Qed.

Record CatAllocationPath := MkCatAllocationPath { CatAllocationPath_NodeID : list string }.
Definition CatAllocationPath_Build (p : CatAllocationPath) : built := build (writeLit "_cat";; writeLit "allocation";; writeSegments (CatAllocationPath_NodeID p)).
#[export] Instance CatAllocationPath_builder : builder CatAllocationPath :=
  {| Build := CatAllocationPath_Build; fields p := [("node_id", Many (CatAllocationPath_NodeID p))]; ignored _ := [];
     templates := ["/_cat/allocation"; "/_cat/allocation/{node_id}"] |}.
#[export] Instance CatAllocationPath_lawful : Lawful CatAllocationPath.
Proof. follow. Qed.

Record CatClusterManagerPath := MkCatClusterManagerPath {  }.
Definition CatClusterManagerPath_Build (p : CatClusterManagerPath) : built := build (writeLit "_cat";; writeLit "cluster_manager").
#[export] Instance CatClusterManagerPath_builder : builder CatClusterManagerPath :=
  {| Build := CatClusterManagerPath_Build; fields _ := []; ignored _ := [];
     templates := ["/_cat/cluster_manager"] |}.
#[export] Instance CatClusterManagerPath_lawful : Lawful CatClusterManagerPath.
Proof. follow. Qed.

Record CatCountPath := MkCatCountPath { CatCountPath_Indices : list string }.
Definition CatCountPath_Build (p : CatCountPath) : built := build (writeLit "_cat";; writeLit "count";; writeSegments (CatCountPath_Indices p)).
#[export] Instance CatCountPath_builder : builder CatCountPath :=
  {| Build := CatCountPath_Build; fields p := [("index", Many (CatCountPath_Indices p))]; ignored _ := [];
     templates := ["/_cat/count"; "/_cat/count/{index}"] |}.
#[export] Instance CatCountPath_lawful : Lawful CatCountPath.
Proof. follow. Qed.

Record CatFielddataPath := MkCatFielddataPath { CatFielddataPath_Fields : list string }.
Definition CatFielddataPath_Build (p : CatFielddataPath) : built := build (writeLit "_cat";; writeLit "fielddata";; writeSegments (CatFielddataPath_Fields p)).
#[export] Instance CatFielddataPath_builder : builder CatFielddataPath :=
  {| Build := CatFielddataPath_Build; fields p := [("fields", Many (CatFielddataPath_Fields p))]; ignored _ := [];
     templates := ["/_cat/fielddata"; "/_cat/fielddata/{fields}"] |}.
#[export] Instance CatFielddataPath_lawful : Lawful CatFielddataPath.
Proof. follow. Qed.

Record CatHealthPath := MkCatHealthPath {  }.
Definition CatHealthPath_Build (p : CatHealthPath) : built := build (writeLit "_cat";; writeLit "health").
#[export] Instance CatHealthPath_builder : builder CatHealthPath :=
  {| Build := CatHealthPath_Build; fields _ := []; ignored _ := [];
     templates := ["/_cat/health"] |}.
#[export] Instance CatHealthPath_lawful : Lawful CatHealthPath.
Proof. follow. Qed.

Record CatHelpPath := MkCatHelpPath {  }.
Definition CatHelpPath_Build (p : CatHelpPath) : built := build (writeLit "_cat").
#[export] Instance CatHelpPath_builder : builder CatHelpPath :=
  {| Build := CatHelpPath_Build; fields _ := []; ignored _ := [];
     templates := ["/_cat"] |}.
#[export] Instance CatHelpPath_lawful : Lawful CatHelpPath.
Proof. follow. Qed.

Record CatIndicesPath := MkCatIndicesPath { CatIndicesPath_Indices : list string }.
Definition CatIndicesPath_Build (p : CatIndicesPath) : built := build (writeLit "_cat";; writeLit "indices";; writeSegments (CatIndicesPath_Indices p)).
#[export] Instance CatIndicesPath_builder : builder CatIndicesPath :=
  {| Build := CatIndicesPath_Build; fields p := [("index", Many (CatIndicesPath_Indices p))]; ignored _ := [];
     templates := ["/_cat/indices"; "/_cat/indices/{index}"] |}.
#[export] Instance CatIndicesPath_lawful : Lawful CatIndicesPath.
Proof. follow. Qed.

Record CatMasterPath := MkCatMasterPath {  }.
Definition CatMasterPath_Build (p : CatMasterPath) : built := build (writeLit "_cat";; writeLit "master").
#[export] Instance CatMasterPath_builder : builder CatMasterPath :=
  {| Build := CatMasterPath_Build; fields _ := []; ignored _ := [];
     templates := ["/_cat/master"] |}.
#[export] Instance CatMasterPath_lawful : Lawful CatMasterPath.
Proof. follow. Qed.

Record CatNodeattrsPath := MkCatNodeattrsPath {  }.
Definition CatNodeattrsPath_Build (p : CatNodeattrsPath) : built := build (writeLit "_cat";; writeLit "nodeattrs").
#[export] Instance CatNodeattrsPath_builder : builder CatNodeattrsPath :=
  {| Build := CatNodeattrsPath_Build; fields _ := []; ignored _ := [];
     templates := ["/_cat/nodeattrs"] |}.
#[export] Instance CatNodeattrsPath_lawful : Lawful CatNodeattrsPath.
Proof. follow. Qed.

Record CatNodesPath := MkCatNodesPath {  }.
Definition CatNodesPath_Build (p : CatNodesPath) : built := build (writeLit "_cat";; writeLit "nodes").
#[export] Instance CatNodesPath_builder : builder CatNodesPath :=
  {| Build := CatNodesPath_Build; fields _ := []; ignored _ := [];
     templates := ["/_cat/nodes"] |}.
#[export] Instance CatNodesPath_lawful : Lawful CatNodesPath.
Proof. follow. Qed.

Record CatPendingTasksPath := MkCatPendingTasksPath {  }.
Definition CatPendingTasksPath_Build (p : CatPendingTasksPath) : built := build (writeLit "_cat";; writeLit "pending_tasks").
#[export] Instance CatPendingTasksPath_builder : builder CatPendingTasksPath :=
  {| Build := CatPendingTasksPath_Build; fields _ := []; ignored _ := [];
     templates := ["/_cat/pending_tasks"] |}.
#[export] Instance CatPendingTasksPath_lawful : Lawful CatPendingTasksPath.
Proof. follow. Qed.

Record CatPITSegmentsPath := MkCatPITSegmentsPath {  }.
Definition CatPITSegmentsPath_Build (p : CatPITSegmentsPath) : built := build (writeLit "_cat";; writeLit "pit_segments").
#[export] Instance CatPITSegmentsPath_builder : builder CatPITSegmentsPath :=
  {| Build := CatPITSegmentsPath_Build; fields _ := []; ignored _ := [];
     templates := ["/_cat/pit_segments"] |}.
#[export] Instance CatPITSegmentsPath_lawful : Lawful CatPITSegmentsPath.
Proof. follow. Qed.

Record CatPluginsPath := MkCatPluginsPath {  }.
Definition CatPluginsPath_Build (p : CatPluginsPath) : built := build (writeLit "_cat";; writeLit "plugins").
#[export] Instance CatPluginsPath_builder : builder CatPluginsPath :=
  {| Build := CatPluginsPath_Build; fields _ := []; ignored _ := [];
     templates := ["/_cat/plugins"] |}.
#[export] Instance CatPluginsPath_lawful : Lawful CatPluginsPath.
Proof. follow. Qed.

Record CatRecoveryPath := MkCatRecoveryPath { CatRecoveryPath_Indices : list string }.
Definition CatRecoveryPath_Build (p : CatRecoveryPath) : built := build (writeLit "_cat";; writeLit "recovery";; writeSegments (CatRecoveryPath_Indices p)).
#[export] Instance CatRecoveryPath_builder : builder CatRecoveryPath :=
  {| Build := CatRecoveryPath_Build; fields p := [("index", Many (CatRecoveryPath_Indices p))]; ignored _ := [];
     templates := ["/_cat/recovery"; "/_cat/recovery/{index}"] |}.
#[export] Instance CatRecoveryPath_lawful : Lawful CatRecoveryPath.
Proof. follow. Qed.

Record CatRepositoriesPath := MkCatRepositoriesPath {  }.
Definition CatRepositoriesPath_Build (p : CatRepositoriesPath) : built := build (writeLit "_cat";; writeLit "repositories").
#[export] Instance CatRepositoriesPath_builder : builder CatRepositoriesPath :=
  {| Build := CatRepositoriesPath_Build; fields _ := []; ignored _ := [];
     templates := ["/_cat/repositories"] |}.
#[export] Instance CatRepositoriesPath_lawful : Lawful CatRepositoriesPath.
Proof. follow. Qed.

Record CatSegmentReplicationPath := MkCatSegmentReplicationPath { CatSegmentReplicationPath_Indices : list string }.
Definition CatSegmentReplicationPath_Build (p : CatSegmentReplicationPath) : built :=
  build (writeLit "_cat";; writeLit "segment_replication";; writeSegments (CatSegmentReplicationPath_Indices p)).
#[export] Instance CatSegmentReplicationPath_builder : builder CatSegmentReplicationPath :=
  {| Build := CatSegmentReplicationPath_Build; fields p := [("index", Many (CatSegmentReplicationPath_Indices p))]; ignored _ := [];
     templates := ["/_cat/segment_replication"; "/_cat/segment_replication/{index}"] |}.
#[export] Instance CatSegmentReplicationPath_lawful : Lawful CatSegmentReplicationPath.
Proof. follow. Qed.

Record CatSegmentsPath := MkCatSegmentsPath { CatSegmentsPath_Indices : list string }.
Definition CatSegmentsPath_Build (p : CatSegmentsPath) : built := build (writeLit "_cat";; writeLit "segments";; writeSegments (CatSegmentsPath_Indices p)).
#[export] Instance CatSegmentsPath_builder : builder CatSegmentsPath :=
  {| Build := CatSegmentsPath_Build; fields p := [("index", Many (CatSegmentsPath_Indices p))]; ignored _ := [];
     templates := ["/_cat/segments"; "/_cat/segments/{index}"] |}.
#[export] Instance CatSegmentsPath_lawful : Lawful CatSegmentsPath.
Proof. follow. Qed.

Record CatShardsPath := MkCatShardsPath { CatShardsPath_Indices : list string }.
Definition CatShardsPath_Build (p : CatShardsPath) : built := build (writeLit "_cat";; writeLit "shards";; writeSegments (CatShardsPath_Indices p)).
#[export] Instance CatShardsPath_builder : builder CatShardsPath :=
  {| Build := CatShardsPath_Build; fields p := [("index", Many (CatShardsPath_Indices p))]; ignored _ := [];
     templates := ["/_cat/shards"; "/_cat/shards/{index}"] |}.
#[export] Instance CatShardsPath_lawful : Lawful CatShardsPath.
Proof. follow. Qed.

Record CatSnapshotsPath := MkCatSnapshotsPath { CatSnapshotsPath_Repository : list string }.
Definition CatSnapshotsPath_Build (p : CatSnapshotsPath) : built := build (writeLit "_cat";; writeLit "snapshots";; writeSegments (CatSnapshotsPath_Repository p)).
#[export] Instance CatSnapshotsPath_builder : builder CatSnapshotsPath :=
  {| Build := CatSnapshotsPath_Build; fields p := [("repository", Many (CatSnapshotsPath_Repository p))]; ignored _ := [];
     templates := ["/_cat/snapshots"; "/_cat/snapshots/{repository}"] |}.
#[export] Instance CatSnapshotsPath_lawful : Lawful CatSnapshotsPath.
Proof. follow. Qed.

Record CatTasksPath := MkCatTasksPath {  }.
Definition CatTasksPath_Build (p : CatTasksPath) : built := build (writeLit "_cat";; writeLit "tasks").
#[export] Instance CatTasksPath_builder : builder CatTasksPath :=
  {| Build := CatTasksPath_Build; fields _ := []; ignored _ := [];
     templates := ["/_cat/tasks"] |}.
#[export] Instance CatTasksPath_lawful : Lawful CatTasksPath.
Proof. follow. Qed.

Record CatTemplatesPath := MkCatTemplatesPath { CatTemplatesPath_Name : string }.
Definition CatTemplatesPath_Build (p : CatTemplatesPath) : built :=
  build (writeLit "_cat";; writeLit "templates";; when (isSet (CatTemplatesPath_Name p)) (writeReq (CatTemplatesPath_Name p))).
#[export] Instance CatTemplatesPath_builder : builder CatTemplatesPath :=
  {| Build := CatTemplatesPath_Build; fields p := [("name", One (CatTemplatesPath_Name p))]; ignored _ := [];
     templates := ["/_cat/templates"; "/_cat/templates/{name}"] |}.
#[export] Instance CatTemplatesPath_lawful : Lawful CatTemplatesPath.
Proof. follow. Qed.

Record CatThreadPoolPath := MkCatThreadPoolPath { CatThreadPoolPath_ThreadPoolPatterns : list string }.
Definition CatThreadPoolPath_Build (p : CatThreadPoolPath) : built :=
  build (writeLit "_cat";; writeLit "thread_pool";; writeSegments (CatThreadPoolPath_ThreadPoolPatterns p)).
#[export] Instance CatThreadPoolPath_builder : builder CatThreadPoolPath :=
  {| Build := CatThreadPoolPath_Build; fields p := [("thread_pool_patterns", Many (CatThreadPoolPath_ThreadPoolPatterns p))]; ignored _ := [];
     templates := ["/_cat/thread_pool"; "/_cat/thread_pool/{thread_pool_patterns}"] |}.
#[export] Instance CatThreadPoolPath_lawful : Lawful CatThreadPoolPath.
Proof. follow. Qed.

Record ClearScrollPath := MkClearScrollPath { ClearScrollPath_ScrollID : list string }.
Definition ClearScrollPath_Build (p : ClearScrollPath) : built := build (writeLit "_search";; writeLit "scroll";; writeSegments (ClearScrollPath_ScrollID p)).
#[export] Instance ClearScrollPath_builder : builder ClearScrollPath :=
  {| Build := ClearScrollPath_Build; fields p := [("scroll_id", Many (ClearScrollPath_ScrollID p))]; ignored _ := [];
     templates := ["/_search/scroll"; "/_search/scroll/{scroll_id}"] |}.
#[export] Instance ClearScrollPath_lawful : Lawful ClearScrollPath.
Proof. follow. Qed.

Record ClusterAllocationExplainPath := MkClusterAllocationExplainPath {  }.
Definition ClusterAllocationExplainPath_Build (p : ClusterAllocationExplainPath) : built := build (writeLit "_cluster";; writeLit "allocation";; writeLit "explain").
#[export] Instance ClusterAllocationExplainPath_builder : builder ClusterAllocationExplainPath :=
  {| Build := ClusterAllocationExplainPath_Build; fields _ := []; ignored _ := [];
     templates := ["/_cluster/allocation/explain"] |}.
#[export] Instance ClusterAllocationExplainPath_lawful : Lawful ClusterAllocationExplainPath.
Proof. follow. Qed.

Record ClusterDeleteComponentTemplatePath := MkClusterDeleteComponentTemplatePath { ClusterDeleteComponentTemplatePath_Name : string }.
Definition ClusterDeleteComponentTemplatePath_Build (p : ClusterDeleteComponentTemplatePath) : built :=
  build (required "ClusterDeleteComponentTemplatePath.Name" (ClusterDeleteComponentTemplatePath_Name p);;
   writeLit "_component_template";; writeReq (ClusterDeleteComponentTemplatePath_Name p)).
#[export] Instance ClusterDeleteComponentTemplatePath_builder : builder ClusterDeleteComponentTemplatePath :=
  {| Build := ClusterDeleteComponentTemplatePath_Build; fields p := [("name", One (ClusterDeleteComponentTemplatePath_Name p))]; ignored _ := [];
     templates := ["/_component_template/{name}"] |}.
#[export] Instance ClusterDeleteComponentTemplatePath_lawful : Lawful ClusterDeleteComponentTemplatePath.
Proof. follow. Qed.

Record ClusterDeleteDecommissionAwarenessPath := MkClusterDeleteDecommissionAwarenessPath {  }.
Definition ClusterDeleteDecommissionAwarenessPath_Build (p : ClusterDeleteDecommissionAwarenessPath) : built :=
  build (writeLit "_cluster";; writeLit "decommission";; writeLit "awareness").
#[export] Instance ClusterDeleteDecommissionAwarenessPath_builder : builder ClusterDeleteDecommissionAwarenessPath :=
  {| Build := ClusterDeleteDecommissionAwarenessPath_Build; fields _ := []; ignored _ := [];
     templates := ["/_cluster/decommission/awareness"] |}.
#[export] Instance ClusterDeleteDecommissionAwarenessPath_lawful : Lawful ClusterDeleteDecommissionAwarenessPath.
Proof. follow. Qed.

Record ClusterDeleteVotingConfigExclusionsPath := MkClusterDeleteVotingConfigExclusionsPath {  }.
Definition ClusterDeleteVotingConfigExclusionsPath_Build (p : ClusterDeleteVotingConfigExclusionsPath) : built :=
  build (writeLit "_cluster";; writeLit "voting_config_exclusions").
#[export] Instance ClusterDeleteVotingConfigExclusionsPath_builder : builder ClusterDeleteVotingConfigExclusionsPath :=
  {| Build := ClusterDeleteVotingConfigExclusionsPath_Build; fields _ := []; ignored _ := [];
     templates := ["/_cluster/voting_config_exclusions"] |}.
#[export] Instance ClusterDeleteVotingConfigExclusionsPath_lawful : Lawful ClusterDeleteVotingConfigExclusionsPath.
Proof. follow. Qed.

Record ClusterDeleteWeightedRoutingPath := MkClusterDeleteWeightedRoutingPath {  }.
Definition ClusterDeleteWeightedRoutingPath_Build (p : ClusterDeleteWeightedRoutingPath) : built :=
  build (writeLit "_cluster";; writeLit "routing";; writeLit "awareness";; writeLit "weights").
#[export] Instance ClusterDeleteWeightedRoutingPath_builder : builder ClusterDeleteWeightedRoutingPath :=
  {| Build := ClusterDeleteWeightedRoutingPath_Build; fields _ := []; ignored _ := [];
     templates := ["/_cluster/routing/awareness/weights"] |}.
#[export] Instance ClusterDeleteWeightedRoutingPath_lawful : Lawful ClusterDeleteWeightedRoutingPath.
Proof. follow. Qed.

Record ClusterExistsComponentTemplatePath := MkClusterExistsComponentTemplatePath { ClusterExistsComponentTemplatePath_Name : string }.
Definition ClusterExistsComponentTemplatePath_Build (p : ClusterExistsComponentTemplatePath) : built :=
  build (required "ClusterExistsComponentTemplatePath.Name" (ClusterExistsComponentTemplatePath_Name p);;
   writeLit "_component_template";; writeReq (ClusterExistsComponentTemplatePath_Name p)).
#[export] Instance ClusterExistsComponentTemplatePath_builder : builder ClusterExistsComponentTemplatePath :=
  {| Build := ClusterExistsComponentTemplatePath_Build; fields p := [("name", One (ClusterExistsComponentTemplatePath_Name p))]; ignored _ := [];
     templates := ["/_component_template/{name}"] |}.
#[export] Instance ClusterExistsComponentTemplatePath_lawful : Lawful ClusterExistsComponentTemplatePath.
Proof. follow. Qed.

Record ClusterGetComponentTemplatePath := MkClusterGetComponentTemplatePath { ClusterGetComponentTemplatePath_Name : string }.
Definition ClusterGetComponentTemplatePath_Build (p : ClusterGetComponentTemplatePath) : built :=
  build (writeLit "_component_template";;
   when (isSet (ClusterGetComponentTemplatePath_Name p)) (writeReq (ClusterGetComponentTemplatePath_Name p))).
#[export] Instance ClusterGetComponentTemplatePath_builder : builder ClusterGetComponentTemplatePath :=
  {| Build := ClusterGetComponentTemplatePath_Build; fields p := [("name", One (ClusterGetComponentTemplatePath_Name p))]; ignored _ := [];
     templates := ["/_component_template"; "/_component_template/{name}"] |}.
#[export] Instance ClusterGetComponentTemplatePath_lawful : Lawful ClusterGetComponentTemplatePath.
Proof. follow. Qed.

Record ClusterGetDecommissionAwarenessPath := MkClusterGetDecommissionAwarenessPath { ClusterGetDecommissionAwarenessPath_AwarenessAttributeName : string }.
Definition ClusterGetDecommissionAwarenessPath_Build (p : ClusterGetDecommissionAwarenessPath) : built :=
  build (required "ClusterGetDecommissionAwarenessPath.AwarenessAttributeName" (ClusterGetDecommissionAwarenessPath_AwarenessAttributeName p);;
   writeLit "_cluster";; writeLit "decommission";; writeLit "awareness";;
   writeReq (ClusterGetDecommissionAwarenessPath_AwarenessAttributeName p);; writeLit "_status").
#[export] Instance ClusterGetDecommissionAwarenessPath_builder : builder ClusterGetDecommissionAwarenessPath :=
  {| Build := ClusterGetDecommissionAwarenessPath_Build; fields p := [("awareness_attribute_name", One (ClusterGetDecommissionAwarenessPath_AwarenessAttributeName p))]; ignored _ := [];
     templates := ["/_cluster/decommission/awareness/{awareness_attribute_name}/_status"] |}.
#[export] Instance ClusterGetDecommissionAwarenessPath_lawful : Lawful ClusterGetDecommissionAwarenessPath.
Proof. follow. Qed.

Record ClusterGetSettingsPath := MkClusterGetSettingsPath {  }.
Definition ClusterGetSettingsPath_Build (p : ClusterGetSettingsPath) : built := build (writeLit "_cluster";; writeLit "settings").
#[export] Instance ClusterGetSettingsPath_builder : builder ClusterGetSettingsPath :=
  {| Build := ClusterGetSettingsPath_Build; fields _ := []; ignored _ := [];
     templates := ["/_cluster/settings"] |}.
#[export] Instance ClusterGetSettingsPath_lawful : Lawful ClusterGetSettingsPath.
Proof. follow. Qed.

Record ClusterGetWeightedRoutingPath := MkClusterGetWeightedRoutingPath { ClusterGetWeightedRoutingPath_Attribute : string }.
Definition ClusterGetWeightedRoutingPath_Build (p : ClusterGetWeightedRoutingPath) : built :=
  build (required "ClusterGetWeightedRoutingPath.Attribute" (ClusterGetWeightedRoutingPath_Attribute p);; writeLit "_cluster";;
   writeLit "routing";; writeLit "awareness";; writeReq (ClusterGetWeightedRoutingPath_Attribute p);; writeLit "weights").
#[export] Instance ClusterGetWeightedRoutingPath_builder : builder ClusterGetWeightedRoutingPath :=
  {| Build := ClusterGetWeightedRoutingPath_Build; fields p := [("attribute", One (ClusterGetWeightedRoutingPath_Attribute p))]; ignored _ := [];
     templates := ["/_cluster/routing/awareness/{attribute}/weights"] |}.
#[export] Instance ClusterGetWeightedRoutingPath_lawful : Lawful ClusterGetWeightedRoutingPath.
Proof. follow. Qed.

Record ClusterHealthPath := MkClusterHealthPath { ClusterHealthPath_Indices : list string }.
Definition ClusterHealthPath_Build (p : ClusterHealthPath) : built := build (writeLit "_cluster";; writeLit "health";; writeSegments (ClusterHealthPath_Indices p)).
#[export] Instance ClusterHealthPath_builder : builder ClusterHealthPath :=
  {| Build := ClusterHealthPath_Build; fields p := [("index", Many (ClusterHealthPath_Indices p))]; ignored _ := [];
     templates := ["/_cluster/health"; "/_cluster/health/{index}"] |}.
#[export] Instance ClusterHealthPath_lawful : Lawful ClusterHealthPath.
Proof. follow. Qed.

Record ClusterPendingTasksPath := MkClusterPendingTasksPath {  }.
Definition ClusterPendingTasksPath_Build (p : ClusterPendingTasksPath) : built := build (writeLit "_cluster";; writeLit "pending_tasks").
#[export] Instance ClusterPendingTasksPath_builder : builder ClusterPendingTasksPath :=
  {| Build := ClusterPendingTasksPath_Build; fields _ := []; ignored _ := [];
     templates := ["/_cluster/pending_tasks"] |}.
#[export] Instance ClusterPendingTasksPath_lawful : Lawful ClusterPendingTasksPath.
Proof. follow. Qed.

Record ClusterPostVotingConfigExclusionsPath := MkClusterPostVotingConfigExclusionsPath {  }.
Definition ClusterPostVotingConfigExclusionsPath_Build (p : ClusterPostVotingConfigExclusionsPath) : built :=
  build (writeLit "_cluster";; writeLit "voting_config_exclusions").
#[export] Instance ClusterPostVotingConfigExclusionsPath_builder : builder ClusterPostVotingConfigExclusionsPath :=
  {| Build := ClusterPostVotingConfigExclusionsPath_Build; fields _ := []; ignored _ := [];
     templates := ["/_cluster/voting_config_exclusions"] |}.
#[export] Instance ClusterPostVotingConfigExclusionsPath_lawful : Lawful ClusterPostVotingConfigExclusionsPath.
Proof. follow. Qed.

Record ClusterPutComponentTemplatePath := MkClusterPutComponentTemplatePath { ClusterPutComponentTemplatePath_Name : string }.
Definition ClusterPutComponentTemplatePath_Build (p : ClusterPutComponentTemplatePath) : built :=
  build (required "ClusterPutComponentTemplatePath.Name" (ClusterPutComponentTemplatePath_Name p);; writeLit "_component_template";;
   writeReq (ClusterPutComponentTemplatePath_Name p)).
#[export] Instance ClusterPutComponentTemplatePath_builder : builder ClusterPutComponentTemplatePath :=
  {| Build := ClusterPutComponentTemplatePath_Build; fields p := [("name", One (ClusterPutComponentTemplatePath_Name p))]; ignored _ := [];
     templates := ["/_component_template/{name}"] |}.
#[export] Instance ClusterPutComponentTemplatePath_lawful : Lawful ClusterPutComponentTemplatePath.
Proof. follow. Qed.

Record ClusterPutDecommissionAwarenessPath := MkClusterPutDecommissionAwarenessPath { ClusterPutDecommissionAwarenessPath_AwarenessAttributeName : string; ClusterPutDecommissionAwarenessPath_AwarenessAttributeValue : string }.
Definition ClusterPutDecommissionAwarenessPath_Build (p : ClusterPutDecommissionAwarenessPath) : built :=
  build (required "ClusterPutDecommissionAwarenessPath.AwarenessAttributeName" (ClusterPutDecommissionAwarenessPath_AwarenessAttributeName p);;
   required "ClusterPutDecommissionAwarenessPath.AwarenessAttributeValue" (ClusterPutDecommissionAwarenessPath_AwarenessAttributeValue p);;
   writeLit "_cluster";; writeLit "decommission";; writeLit "awareness";;
   writeReq (ClusterPutDecommissionAwarenessPath_AwarenessAttributeName p);;
   writeReq (ClusterPutDecommissionAwarenessPath_AwarenessAttributeValue p)).
#[export] Instance ClusterPutDecommissionAwarenessPath_builder : builder ClusterPutDecommissionAwarenessPath :=
  {| Build := ClusterPutDecommissionAwarenessPath_Build; fields p := [("awareness_attribute_name", One (ClusterPutDecommissionAwarenessPath_AwarenessAttributeName p)); ("awareness_attribute_value", One (ClusterPutDecommissionAwarenessPath_AwarenessAttributeValue p))]; ignored _ := [];
     templates := ["/_cluster/decommission/awareness/{awareness_attribute_name}/{awareness_attribute_value}"] |}.
#[export] Instance ClusterPutDecommissionAwarenessPath_lawful : Lawful ClusterPutDecommissionAwarenessPath.
Proof. follow. Qed.

Record ClusterPutSettingsPath := MkClusterPutSettingsPath {  }.
Definition ClusterPutSettingsPath_Build (p : ClusterPutSettingsPath) : built := build (writeLit "_cluster";; writeLit "settings").
#[export] Instance ClusterPutSettingsPath_builder : builder ClusterPutSettingsPath :=
  {| Build := ClusterPutSettingsPath_Build; fields _ := []; ignored _ := [];
     templates := ["/_cluster/settings"] |}.
#[export] Instance ClusterPutSettingsPath_lawful : Lawful ClusterPutSettingsPath.
Proof. follow. Qed.

Record ClusterPutWeightedRoutingPath := MkClusterPutWeightedRoutingPath { ClusterPutWeightedRoutingPath_Attribute : string }.
Definition ClusterPutWeightedRoutingPath_Build (p : ClusterPutWeightedRoutingPath) : built :=
  build (required "ClusterPutWeightedRoutingPath.Attribute" (ClusterPutWeightedRoutingPath_Attribute p);; writeLit "_cluster";;
   writeLit "routing";; writeLit "awareness";; writeReq (ClusterPutWeightedRoutingPath_Attribute p);; writeLit "weights").
#[export] Instance ClusterPutWeightedRoutingPath_builder : builder ClusterPutWeightedRoutingPath :=
  {| Build := ClusterPutWeightedRoutingPath_Build; fields p := [("attribute", One (ClusterPutWeightedRoutingPath_Attribute p))]; ignored _ := [];
     templates := ["/_cluster/routing/awareness/{attribute}/weights"] |}.
#[export] Instance ClusterPutWeightedRoutingPath_lawful : Lawful ClusterPutWeightedRoutingPath.
Proof. follow. Qed.

Record ClusterRemoteInfoPath := MkClusterRemoteInfoPath {  }.
Definition ClusterRemoteInfoPath_Build (p : ClusterRemoteInfoPath) : built := build (writeLit "_remote";; writeLit "info").
#[export] Instance ClusterRemoteInfoPath_builder : builder ClusterRemoteInfoPath :=
  {| Build := ClusterRemoteInfoPath_Build; fields _ := []; ignored _ := [];
     templates := ["/_remote/info"] |}.
#[export] Instance ClusterRemoteInfoPath_lawful : Lawful ClusterRemoteInfoPath.
Proof. follow. Qed.

Record ClusterReroutePath := MkClusterReroutePath {  }.
Definition ClusterReroutePath_Build (p : ClusterReroutePath) : built := build (writeLit "_cluster";; writeLit "reroute").
#[export] Instance ClusterReroutePath_builder : builder ClusterReroutePath :=
  {| Build := ClusterReroutePath_Build; fields _ := []; ignored _ := [];
     templates := ["/_cluster/reroute"] |}.
#[export] Instance ClusterReroutePath_lawful : Lawful ClusterReroutePath.
Proof. follow. Qed.

Record ClusterStatePath := MkClusterStatePath { ClusterStatePath_Metric : list string; ClusterStatePath_Indices : list string }.
Definition explainClusterStatePath (p : ClusterStatePath) : string :=
  if hasNonEmpty (ClusterStatePath_Indices p) && negb (hasNonEmpty (ClusterStatePath_Metric p)) then "ClusterStatePath.Indices requires ClusterStatePath.Metric"
  else "ClusterStatePath: invalid combination of fields".
Definition ClusterStatePath_Build (p : ClusterStatePath) : built :=
  build (writeLit "_cluster";; writeLit "state";;
   (if hasNonEmpty (ClusterStatePath_Metric p) && hasNonEmpty (ClusterStatePath_Indices p) then writeSegments (ClusterStatePath_Metric p);; writeSegments (ClusterStatePath_Indices p)
    else if hasNonEmpty (ClusterStatePath_Metric p) then writeSegments (ClusterStatePath_Metric p)
    else when (hasNonEmpty (ClusterStatePath_Metric p) || hasNonEmpty (ClusterStatePath_Indices p)) (fail (explainClusterStatePath p)))).
#[export] Instance ClusterStatePath_builder : builder ClusterStatePath :=
  {| Build := ClusterStatePath_Build; fields p := [("metric", Many (ClusterStatePath_Metric p)); ("index", Many (ClusterStatePath_Indices p))]; ignored _ := [];
     templates := ["/_cluster/state"; "/_cluster/state/{metric}"; "/_cluster/state/{metric}/{index}"] |}.
#[export] Instance ClusterStatePath_lawful : Lawful ClusterStatePath.
Proof. follow. Qed.

Record ClusterStatsPath := MkClusterStatsPath { ClusterStatsPath_Metric : list string; ClusterStatsPath_IndexMetric : list string; ClusterStatsPath_NodeID : list string }.
Definition explainClusterStatsPath (p : ClusterStatsPath) : string :=
  if hasNonEmpty (ClusterStatsPath_Metric p) && negb (hasNonEmpty (ClusterStatsPath_NodeID p)) then "ClusterStatsPath.Metric requires ClusterStatsPath.NodeID"
  else if hasNonEmpty (ClusterStatsPath_IndexMetric p) && negb (hasNonEmpty (ClusterStatsPath_Metric p)) then "ClusterStatsPath.IndexMetric requires ClusterStatsPath.Metric"
  else "ClusterStatsPath: invalid combination of fields".
Definition ClusterStatsPath_Build (p : ClusterStatsPath) : built :=
  build (writeLit "_cluster";; writeLit "stats";;
   (if hasNonEmpty (ClusterStatsPath_Metric p) && hasNonEmpty (ClusterStatsPath_IndexMetric p) && hasNonEmpty (ClusterStatsPath_NodeID p) then writeSegments (ClusterStatsPath_Metric p);; writeSegments (ClusterStatsPath_IndexMetric p);; writeLit "nodes";; writeSegments (ClusterStatsPath_NodeID p)
    else if hasNonEmpty (ClusterStatsPath_Metric p) && hasNonEmpty (ClusterStatsPath_NodeID p) then writeSegments (ClusterStatsPath_Metric p);; writeLit "nodes";; writeSegments (ClusterStatsPath_NodeID p)
    else if hasNonEmpty (ClusterStatsPath_NodeID p) then writeLit "nodes";; writeSegments (ClusterStatsPath_NodeID p)
    else when (hasNonEmpty (ClusterStatsPath_Metric p) || hasNonEmpty (ClusterStatsPath_IndexMetric p) || hasNonEmpty (ClusterStatsPath_NodeID p)) (fail (explainClusterStatsPath p)))).
#[export] Instance ClusterStatsPath_builder : builder ClusterStatsPath :=
  {| Build := ClusterStatsPath_Build; fields p := [("metric", Many (ClusterStatsPath_Metric p)); ("index_metric", Many (ClusterStatsPath_IndexMetric p)); ("node_id", Many (ClusterStatsPath_NodeID p))]; ignored p := if hasNonEmpty (ClusterStatsPath_NodeID p) && negb (hasNonEmpty (ClusterStatsPath_Metric p)) then ["index_metric"] else [];
     templates := ["/_cluster/stats"; "/_cluster/stats/{metric}/{index_metric}/nodes/{node_id}"; "/_cluster/stats/{metric}/nodes/{node_id}"; "/_cluster/stats/nodes/{node_id}"] |}.
#[export] Instance ClusterStatsPath_lawful : Lawful ClusterStatsPath.
Proof. follow. Qed.

Record CountPath := MkCountPath { CountPath_Indices : list string }.
Definition CountPath_Build (p : CountPath) : built := build (writeSegments (CountPath_Indices p);; writeLit "_count").
#[export] Instance CountPath_builder : builder CountPath :=
  {| Build := CountPath_Build; fields p := [("index", Many (CountPath_Indices p))]; ignored _ := [];
     templates := ["/_count"; "/{index}/_count"] |}.
#[export] Instance CountPath_lawful : Lawful CountPath.
Proof. follow. Qed.

Record CreatePath := MkCreatePath { CreatePath_Index : string; CreatePath_ID : string }.
Definition CreatePath_Build (p : CreatePath) : built :=
  build (required "CreatePath.Index" (CreatePath_Index p);; required "CreatePath.ID" (CreatePath_ID p);;
   writeReq (CreatePath_Index p);; writeLit "_create";; writeReq (CreatePath_ID p)).
#[export] Instance CreatePath_builder : builder CreatePath :=
  {| Build := CreatePath_Build; fields p := [("index", One (CreatePath_Index p)); ("id", One (CreatePath_ID p))]; ignored _ := [];
     templates := ["/{index}/_create/{id}"] |}.
#[export] Instance CreatePath_lawful : Lawful CreatePath.
Proof. follow. Qed.

Record CreatePITPath := MkCreatePITPath { CreatePITPath_Indices : list string }.
Definition CreatePITPath_Build (p : CreatePITPath) : built :=
  build (requiredList "CreatePITPath.Indices" (CreatePITPath_Indices p);; writeSegments (CreatePITPath_Indices p);;
   writeLit "_search";; writeLit "point_in_time").
#[export] Instance CreatePITPath_builder : builder CreatePITPath :=
  {| Build := CreatePITPath_Build; fields p := [("index", Many (CreatePITPath_Indices p))]; ignored _ := [];
     templates := ["/{index}/_search/point_in_time"] |}.
#[export] Instance CreatePITPath_lawful : Lawful CreatePITPath.
Proof. follow. Qed.

Record DanglingIndicesDeleteDanglingIndexPath := MkDanglingIndicesDeleteDanglingIndexPath { DanglingIndicesDeleteDanglingIndexPath_IndexUUID : string }.
Definition DanglingIndicesDeleteDanglingIndexPath_Build (p : DanglingIndicesDeleteDanglingIndexPath) : built :=
  build (required "DanglingIndicesDeleteDanglingIndexPath.IndexUUID" (DanglingIndicesDeleteDanglingIndexPath_IndexUUID p);;
   writeLit "_dangling";; writeReq (DanglingIndicesDeleteDanglingIndexPath_IndexUUID p)).
#[export] Instance DanglingIndicesDeleteDanglingIndexPath_builder : builder DanglingIndicesDeleteDanglingIndexPath :=
  {| Build := DanglingIndicesDeleteDanglingIndexPath_Build; fields p := [("index_uuid", One (DanglingIndicesDeleteDanglingIndexPath_IndexUUID p))]; ignored _ := [];
     templates := ["/_dangling/{index_uuid}"] |}.
#[export] Instance DanglingIndicesDeleteDanglingIndexPath_lawful : Lawful DanglingIndicesDeleteDanglingIndexPath.
Proof. follow. Qed.

Record DanglingIndicesImportDanglingIndexPath := MkDanglingIndicesImportDanglingIndexPath { DanglingIndicesImportDanglingIndexPath_IndexUUID : string }.
Definition DanglingIndicesImportDanglingIndexPath_Build (p : DanglingIndicesImportDanglingIndexPath) : built :=
  build (required "DanglingIndicesImportDanglingIndexPath.IndexUUID" (DanglingIndicesImportDanglingIndexPath_IndexUUID p);;
   writeLit "_dangling";; writeReq (DanglingIndicesImportDanglingIndexPath_IndexUUID p)).
#[export] Instance DanglingIndicesImportDanglingIndexPath_builder : builder DanglingIndicesImportDanglingIndexPath :=
  {| Build := DanglingIndicesImportDanglingIndexPath_Build; fields p := [("index_uuid", One (DanglingIndicesImportDanglingIndexPath_IndexUUID p))]; ignored _ := [];
     templates := ["/_dangling/{index_uuid}"] |}.
#[export] Instance DanglingIndicesImportDanglingIndexPath_lawful : Lawful DanglingIndicesImportDanglingIndexPath.
Proof. follow. Qed.

Record DanglingIndicesListDanglingIndicesPath := MkDanglingIndicesListDanglingIndicesPath {  }.
Definition DanglingIndicesListDanglingIndicesPath_Build (p : DanglingIndicesListDanglingIndicesPath) : built := build (writeLit "_dangling").
#[export] Instance DanglingIndicesListDanglingIndicesPath_builder : builder DanglingIndicesListDanglingIndicesPath :=
  {| Build := DanglingIndicesListDanglingIndicesPath_Build; fields _ := []; ignored _ := [];
     templates := ["/_dangling"] |}.
#[export] Instance DanglingIndicesListDanglingIndicesPath_lawful : Lawful DanglingIndicesListDanglingIndicesPath.
Proof. follow. Qed.

Record DeletePath := MkDeletePath { DeletePath_Index : string; DeletePath_ID : string }.
Definition DeletePath_Build (p : DeletePath) : built :=
  build (required "DeletePath.Index" (DeletePath_Index p);; required "DeletePath.ID" (DeletePath_ID p);;
   writeReq (DeletePath_Index p);; writeLit "_doc";; writeReq (DeletePath_ID p)).
#[export] Instance DeletePath_builder : builder DeletePath :=
  {| Build := DeletePath_Build; fields p := [("index", One (DeletePath_Index p)); ("id", One (DeletePath_ID p))]; ignored _ := [];
     templates := ["/{index}/_doc/{id}"] |}.
#[export] Instance DeletePath_lawful : Lawful DeletePath.
Proof. follow. Qed.

Record DeleteAllPITsPath := MkDeleteAllPITsPath {  }.
Definition DeleteAllPITsPath_Build (p : DeleteAllPITsPath) : built := build (writeLit "_search";; writeLit "point_in_time";; writeLit "_all").
#[export] Instance DeleteAllPITsPath_builder : builder DeleteAllPITsPath :=
  {| Build := DeleteAllPITsPath_Build; fields _ := []; ignored _ := [];
     templates := ["/_search/point_in_time/_all"] |}.
#[export] Instance DeleteAllPITsPath_lawful : Lawful DeleteAllPITsPath.
Proof. follow. Qed.

Record DeleteByQueryPath := MkDeleteByQueryPath { DeleteByQueryPath_Indices : list string }.
Definition DeleteByQueryPath_Build (p : DeleteByQueryPath) : built :=
  build (requiredList "DeleteByQueryPath.Indices" (DeleteByQueryPath_Indices p);; writeSegments (DeleteByQueryPath_Indices p);;
   writeLit "_delete_by_query").
#[export] Instance DeleteByQueryPath_builder : builder DeleteByQueryPath :=
  {| Build := DeleteByQueryPath_Build; fields p := [("index", Many (DeleteByQueryPath_Indices p))]; ignored _ := [];
     templates := ["/{index}/_delete_by_query"] |}.
#[export] Instance DeleteByQueryPath_lawful : Lawful DeleteByQueryPath.
Proof. follow. Qed.

Record DeleteByQueryRethrottlePath := MkDeleteByQueryRethrottlePath { DeleteByQueryRethrottlePath_TaskID : string }.
Definition DeleteByQueryRethrottlePath_Build (p : DeleteByQueryRethrottlePath) : built :=
  build (required "DeleteByQueryRethrottlePath.TaskID" (DeleteByQueryRethrottlePath_TaskID p);; writeLit "_delete_by_query";;
   writeReq (DeleteByQueryRethrottlePath_TaskID p);; writeLit "_rethrottle").
#[export] Instance DeleteByQueryRethrottlePath_builder : builder DeleteByQueryRethrottlePath :=
  {| Build := DeleteByQueryRethrottlePath_Build; fields p := [("task_id", One (DeleteByQueryRethrottlePath_TaskID p))]; ignored _ := [];
     templates := ["/_delete_by_query/{task_id}/_rethrottle"] |}.
#[export] Instance DeleteByQueryRethrottlePath_lawful : Lawful DeleteByQueryRethrottlePath.
Proof. follow. Qed.

Record DeletePITPath := MkDeletePITPath {  }.
Definition DeletePITPath_Build (p : DeletePITPath) : built := build (writeLit "_search";; writeLit "point_in_time").
#[export] Instance DeletePITPath_builder : builder DeletePITPath :=
  {| Build := DeletePITPath_Build; fields _ := []; ignored _ := [];
     templates := ["/_search/point_in_time"] |}.
#[export] Instance DeletePITPath_lawful : Lawful DeletePITPath.
Proof. follow. Qed.

Record DeleteScriptPath := MkDeleteScriptPath { DeleteScriptPath_ID : string }.
Definition DeleteScriptPath_Build (p : DeleteScriptPath) : built :=
  build (required "DeleteScriptPath.ID" (DeleteScriptPath_ID p);; writeLit "_scripts";; writeReq (DeleteScriptPath_ID p)).
#[export] Instance DeleteScriptPath_builder : builder DeleteScriptPath :=
  {| Build := DeleteScriptPath_Build; fields p := [("id", One (DeleteScriptPath_ID p))]; ignored _ := [];
     templates := ["/_scripts/{id}"] |}.
#[export] Instance DeleteScriptPath_lawful : Lawful DeleteScriptPath.
Proof. follow. Qed.

Record ExistsPath := MkExistsPath { ExistsPath_Index : string; ExistsPath_ID : string }.
Definition ExistsPath_Build (p : ExistsPath) : built :=
  build (required "ExistsPath.Index" (ExistsPath_Index p);; required "ExistsPath.ID" (ExistsPath_ID p);;
   writeReq (ExistsPath_Index p);; writeLit "_doc";; writeReq (ExistsPath_ID p)).
#[export] Instance ExistsPath_builder : builder ExistsPath :=
  {| Build := ExistsPath_Build; fields p := [("index", One (ExistsPath_Index p)); ("id", One (ExistsPath_ID p))]; ignored _ := [];
     templates := ["/{index}/_doc/{id}"] |}.
#[export] Instance ExistsPath_lawful : Lawful ExistsPath.
Proof. follow. Qed.

Record ExistsSourcePath := MkExistsSourcePath { ExistsSourcePath_Index : string; ExistsSourcePath_ID : string }.
Definition ExistsSourcePath_Build (p : ExistsSourcePath) : built :=
  build (required "ExistsSourcePath.Index" (ExistsSourcePath_Index p);; required "ExistsSourcePath.ID" (ExistsSourcePath_ID p);;
   writeReq (ExistsSourcePath_Index p);; writeLit "_source";; writeReq (ExistsSourcePath_ID p)).
#[export] Instance ExistsSourcePath_builder : builder ExistsSourcePath :=
  {| Build := ExistsSourcePath_Build; fields p := [("index", One (ExistsSourcePath_Index p)); ("id", One (ExistsSourcePath_ID p))]; ignored _ := [];
     templates := ["/{index}/_source/{id}"] |}.
#[export] Instance ExistsSourcePath_lawful : Lawful ExistsSourcePath.
Proof. follow. Qed.

Record ExplainPath := MkExplainPath { ExplainPath_Index : string; ExplainPath_ID : string }.
Definition ExplainPath_Build (p : ExplainPath) : built :=
  build (required "ExplainPath.Index" (ExplainPath_Index p);; required "ExplainPath.ID" (ExplainPath_ID p);;
   writeReq (ExplainPath_Index p);; writeLit "_explain";; writeReq (ExplainPath_ID p)).
#[export] Instance ExplainPath_builder : builder ExplainPath :=
  {| Build := ExplainPath_Build; fields p := [("index", One (ExplainPath_Index p)); ("id", One (ExplainPath_ID p))]; ignored _ := [];
     templates := ["/{index}/_explain/{id}"] |}.
#[export] Instance ExplainPath_lawful : Lawful ExplainPath.
Proof. follow. Qed.

Record FieldCapsPath := MkFieldCapsPath { FieldCapsPath_Indices : list string }.
Definition FieldCapsPath_Build (p : FieldCapsPath) : built := build (writeSegments (FieldCapsPath_Indices p);; writeLit "_field_caps").
#[export] Instance FieldCapsPath_builder : builder FieldCapsPath :=
  {| Build := FieldCapsPath_Build; fields p := [("index", Many (FieldCapsPath_Indices p))]; ignored _ := [];
     templates := ["/_field_caps"; "/{index}/_field_caps"] |}.
#[export] Instance FieldCapsPath_lawful : Lawful FieldCapsPath.
Proof. follow. Qed.

Record GetPath := MkGetPath { GetPath_Index : string; GetPath_ID : string }.
Definition GetPath_Build (p : GetPath) : built :=
  build (required "GetPath.Index" (GetPath_Index p);; required "GetPath.ID" (GetPath_ID p);; writeReq (GetPath_Index p);;
   writeLit "_doc";; writeReq (GetPath_ID p)).
#[export] Instance GetPath_builder : builder GetPath :=
  {| Build := GetPath_Build; fields p := [("index", One (GetPath_Index p)); ("id", One (GetPath_ID p))]; ignored _ := [];
     templates := ["/{index}/_doc/{id}"] |}.
#[export] Instance GetPath_lawful : Lawful GetPath.
Proof. follow. Qed.

Record GetAllPITsPath := MkGetAllPITsPath {  }.
Definition GetAllPITsPath_Build (p : GetAllPITsPath) : built := build (writeLit "_search";; writeLit "point_in_time";; writeLit "_all").
#[export] Instance GetAllPITsPath_builder : builder GetAllPITsPath :=
  {| Build := GetAllPITsPath_Build; fields _ := []; ignored _ := [];
     templates := ["/_search/point_in_time/_all"] |}.
#[export] Instance GetAllPITsPath_lawful : Lawful GetAllPITsPath.
Proof. follow. Qed.

Record GetScriptPath := MkGetScriptPath { GetScriptPath_ID : string }.
Definition GetScriptPath_Build (p : GetScriptPath) : built :=
  build (required "GetScriptPath.ID" (GetScriptPath_ID p);; writeLit "_scripts";; writeReq (GetScriptPath_ID p)).
#[export] Instance GetScriptPath_builder : builder GetScriptPath :=
  {| Build := GetScriptPath_Build; fields p := [("id", One (GetScriptPath_ID p))]; ignored _ := [];
     templates := ["/_scripts/{id}"] |}.
#[export] Instance GetScriptPath_lawful : Lawful GetScriptPath.
Proof. follow. Qed.

Record GetScriptContextPath := MkGetScriptContextPath {  }.
Definition GetScriptContextPath_Build (p : GetScriptContextPath) : built := build (writeLit "_script_context").
#[export] Instance GetScriptContextPath_builder : builder GetScriptContextPath :=
  {| Build := GetScriptContextPath_Build; fields _ := []; ignored _ := [];
     templates := ["/_script_context"] |}.
#[export] Instance GetScriptContextPath_lawful : Lawful GetScriptContextPath.
Proof. follow. Qed.

Record GetScriptLanguagesPath := MkGetScriptLanguagesPath {  }.
Definition GetScriptLanguagesPath_Build (p : GetScriptLanguagesPath) : built := build (writeLit "_script_language").
#[export] Instance GetScriptLanguagesPath_builder : builder GetScriptLanguagesPath :=
  {| Build := GetScriptLanguagesPath_Build; fields _ := []; ignored _ := [];
     templates := ["/_script_language"] |}.
#[export] Instance GetScriptLanguagesPath_lawful : Lawful GetScriptLanguagesPath.
Proof. follow. Qed.

Record GetSourcePath := MkGetSourcePath { GetSourcePath_Index : string; GetSourcePath_ID : string }.
Definition GetSourcePath_Build (p : GetSourcePath) : built :=
  build (required "GetSourcePath.Index" (GetSourcePath_Index p);; required "GetSourcePath.ID" (GetSourcePath_ID p);;
   writeReq (GetSourcePath_Index p);; writeLit "_source";; writeReq (GetSourcePath_ID p)).
#[export] Instance GetSourcePath_builder : builder GetSourcePath :=
  {| Build := GetSourcePath_Build; fields p := [("index", One (GetSourcePath_Index p)); ("id", One (GetSourcePath_ID p))]; ignored _ := [];
     templates := ["/{index}/_source/{id}"] |}.
#[export] Instance GetSourcePath_lawful : Lawful GetSourcePath.
Proof. follow. Qed.

Record IndexPath := MkIndexPath { IndexPath_Index : string; IndexPath_ID : string }.
Definition IndexPath_Build (p : IndexPath) : built :=
  build (required "IndexPath.Index" (IndexPath_Index p);; writeReq (IndexPath_Index p);; writeLit "_doc";;
   when (isSet (IndexPath_ID p)) (writeReq (IndexPath_ID p))).
#[export] Instance IndexPath_builder : builder IndexPath :=
  {| Build := IndexPath_Build; fields p := [("index", One (IndexPath_Index p)); ("id", One (IndexPath_ID p))]; ignored _ := [];
     templates := ["/{index}/_doc"; "/{index}/_doc/{id}"] |}.
#[export] Instance IndexPath_lawful : Lawful IndexPath.
Proof. follow. Qed.

Record InfoPath := MkInfoPath {  }.
Definition InfoPath_Build (p : InfoPath) : built := Built "/".
#[export] Instance InfoPath_builder : builder InfoPath :=
  {| Build := InfoPath_Build; fields _ := []; ignored _ := [];
     templates := ["/"] |}.
#[export] Instance InfoPath_lawful : Lawful InfoPath.
Proof. follow. Qed.

Record MgetPath := MkMgetPath { MgetPath_Index : string }.
Definition MgetPath_Build (p : MgetPath) : built := build (when (isSet (MgetPath_Index p)) (writeReq (MgetPath_Index p));; writeLit "_mget").
#[export] Instance MgetPath_builder : builder MgetPath :=
  {| Build := MgetPath_Build; fields p := [("index", One (MgetPath_Index p))]; ignored _ := [];
     templates := ["/_mget"; "/{index}/_mget"] |}.
#[export] Instance MgetPath_lawful : Lawful MgetPath.
Proof. follow. Qed.

Record MsearchPath := MkMsearchPath { MsearchPath_Indices : list string }.
Definition MsearchPath_Build (p : MsearchPath) : built := build (writeSegments (MsearchPath_Indices p);; writeLit "_msearch").
#[export] Instance MsearchPath_builder : builder MsearchPath :=
  {| Build := MsearchPath_Build; fields p := [("index", Many (MsearchPath_Indices p))]; ignored _ := [];
     templates := ["/_msearch"; "/{index}/_msearch"] |}.
#[export] Instance MsearchPath_lawful : Lawful MsearchPath.
Proof. follow. Qed.

Record MsearchTemplatePath := MkMsearchTemplatePath { MsearchTemplatePath_Indices : list string }.
Definition MsearchTemplatePath_Build (p : MsearchTemplatePath) : built :=
  build (writeSegments (MsearchTemplatePath_Indices p);; writeLit "_msearch";; writeLit "template").
#[export] Instance MsearchTemplatePath_builder : builder MsearchTemplatePath :=
  {| Build := MsearchTemplatePath_Build; fields p := [("index", Many (MsearchTemplatePath_Indices p))]; ignored _ := [];
     templates := ["/_msearch/template"; "/{index}/_msearch/template"] |}.
#[export] Instance MsearchTemplatePath_lawful : Lawful MsearchTemplatePath.
Proof. follow. Qed.

Record MtermvectorsPath := MkMtermvectorsPath { MtermvectorsPath_Index : string }.
Definition MtermvectorsPath_Build (p : MtermvectorsPath) : built :=
  build (when (isSet (MtermvectorsPath_Index p)) (writeReq (MtermvectorsPath_Index p));; writeLit "_mtermvectors").
#[export] Instance MtermvectorsPath_builder : builder MtermvectorsPath :=
  {| Build := MtermvectorsPath_Build; fields p := [("index", One (MtermvectorsPath_Index p))]; ignored _ := [];
     templates := ["/_mtermvectors"; "/{index}/_mtermvectors"] |}.
#[export] Instance MtermvectorsPath_lawful : Lawful MtermvectorsPath.
Proof. follow. Qed.

Record NodesHotThreadsPath := MkNodesHotThreadsPath { NodesHotThreadsPath_NodeID : list string }.
Definition NodesHotThreadsPath_Build (p : NodesHotThreadsPath) : built :=
  build (writeLit "_nodes";; writeSegments (NodesHotThreadsPath_NodeID p);; writeLit "hot_threads").
#[export] Instance NodesHotThreadsPath_builder : builder NodesHotThreadsPath :=
  {| Build := NodesHotThreadsPath_Build; fields p := [("node_id", Many (NodesHotThreadsPath_NodeID p))]; ignored _ := [];
     templates := ["/_nodes/{node_id}/hot_threads"; "/_nodes/hot_threads"] |}.
#[export] Instance NodesHotThreadsPath_lawful : Lawful NodesHotThreadsPath.
Proof. follow. Qed.

Record NodesInfoPath := MkNodesInfoPath { NodesInfoPath_NodeID : list string; NodesInfoPath_Metric : list string }.
Definition NodesInfoPath_Build (p : NodesInfoPath) : built :=
  build (writeLit "_nodes";;
   (if hasNonEmpty (NodesInfoPath_NodeID p) && hasNonEmpty (NodesInfoPath_Metric p) then writeSegments (NodesInfoPath_NodeID p);; writeSegments (NodesInfoPath_Metric p)
    else if hasNonEmpty (NodesInfoPath_Metric p) then writeSegments (NodesInfoPath_Metric p)
    else if hasNonEmpty (NodesInfoPath_NodeID p) then writeSegments (NodesInfoPath_NodeID p)
    else skip)).
#[export] Instance NodesInfoPath_builder : builder NodesInfoPath :=
  {| Build := NodesInfoPath_Build; fields p := if hasNonEmpty (NodesInfoPath_NodeID p) && hasNonEmpty (NodesInfoPath_Metric p)
              then [("node_id", Many (NodesInfoPath_NodeID p)); ("metric", Many (NodesInfoPath_Metric p))]
              else [("node_id_or_metric", Many (if hasNonEmpty (NodesInfoPath_Metric p) then NodesInfoPath_Metric p else NodesInfoPath_NodeID p))]; ignored _ := [];
     templates := ["/_nodes"; "/_nodes/{node_id_or_metric}"; "/_nodes/{node_id}/{metric}"] |}.
#[export] Instance NodesInfoPath_lawful : Lawful NodesInfoPath.
Proof. follow. Qed.

Record NodesReloadSecureSettingsPath := MkNodesReloadSecureSettingsPath { NodesReloadSecureSettingsPath_NodeID : list string }.
Definition NodesReloadSecureSettingsPath_Build (p : NodesReloadSecureSettingsPath) : built :=
  build (writeLit "_nodes";; writeSegments (NodesReloadSecureSettingsPath_NodeID p);; writeLit "reload_secure_settings").
#[export] Instance NodesReloadSecureSettingsPath_builder : builder NodesReloadSecureSettingsPath :=
  {| Build := NodesReloadSecureSettingsPath_Build; fields p := [("node_id", Many (NodesReloadSecureSettingsPath_NodeID p))]; ignored _ := [];
     templates := ["/_nodes/{node_id}/reload_secure_settings"; "/_nodes/reload_secure_settings"] |}.
#[export] Instance NodesReloadSecureSettingsPath_lawful : Lawful NodesReloadSecureSettingsPath.
Proof. follow. Qed.

Record NodesStatsPath := MkNodesStatsPath { NodesStatsPath_NodeID : list string; NodesStatsPath_Metric : list string; NodesStatsPath_IndexMetric : list string }.
Definition explainNodesStatsPath (p : NodesStatsPath) : string :=
  if hasNonEmpty (NodesStatsPath_IndexMetric p) && negb (hasNonEmpty (NodesStatsPath_Metric p)) then "NodesStatsPath.IndexMetric requires NodesStatsPath.Metric"
  else "NodesStatsPath: invalid combination of fields".
Definition NodesStatsPath_Build (p : NodesStatsPath) : built :=
  build (writeLit "_nodes";;
   (if hasNonEmpty (NodesStatsPath_NodeID p) && hasNonEmpty (NodesStatsPath_Metric p) && hasNonEmpty (NodesStatsPath_IndexMetric p) then writeSegments (NodesStatsPath_NodeID p);; writeLit "stats";; writeSegments (NodesStatsPath_Metric p);; writeSegments (NodesStatsPath_IndexMetric p)
    else if hasNonEmpty (NodesStatsPath_Metric p) && hasNonEmpty (NodesStatsPath_IndexMetric p) then writeLit "stats";; writeSegments (NodesStatsPath_Metric p);; writeSegments (NodesStatsPath_IndexMetric p)
    else if hasNonEmpty (NodesStatsPath_NodeID p) && hasNonEmpty (NodesStatsPath_Metric p) then writeSegments (NodesStatsPath_NodeID p);; writeLit "stats";; writeSegments (NodesStatsPath_Metric p)
    else if hasNonEmpty (NodesStatsPath_Metric p) then writeLit "stats";; writeSegments (NodesStatsPath_Metric p)
    else if hasNonEmpty (NodesStatsPath_NodeID p) then writeSegments (NodesStatsPath_NodeID p);; writeLit "stats"
    else when (hasNonEmpty (NodesStatsPath_NodeID p) || hasNonEmpty (NodesStatsPath_Metric p) || hasNonEmpty (NodesStatsPath_IndexMetric p)) (fail (explainNodesStatsPath p));; writeLit "stats")).
#[export] Instance NodesStatsPath_builder : builder NodesStatsPath :=
  {| Build := NodesStatsPath_Build; fields p := [("node_id", Many (NodesStatsPath_NodeID p)); ("metric", Many (NodesStatsPath_Metric p)); ("index_metric", Many (NodesStatsPath_IndexMetric p))]; ignored p := if hasNonEmpty (NodesStatsPath_NodeID p) && negb (hasNonEmpty (NodesStatsPath_Metric p)) then ["index_metric"] else [];
     templates := ["/_nodes/{node_id}/stats"; "/_nodes/{node_id}/stats/{metric}"; "/_nodes/{node_id}/stats/{metric}/{index_metric}"; "/_nodes/stats"; "/_nodes/stats/{metric}"; "/_nodes/stats/{metric}/{index_metric}"] |}.
#[export] Instance NodesStatsPath_lawful : Lawful NodesStatsPath.
Proof. follow. Qed.

Record NodesUsagePath := MkNodesUsagePath { NodesUsagePath_NodeID : list string; NodesUsagePath_Metric : list string }.
Definition NodesUsagePath_Build (p : NodesUsagePath) : built :=
  build (writeLit "_nodes";;
   (if hasNonEmpty (NodesUsagePath_NodeID p) && hasNonEmpty (NodesUsagePath_Metric p) then writeSegments (NodesUsagePath_NodeID p);; writeLit "usage";; writeSegments (NodesUsagePath_Metric p)
    else if hasNonEmpty (NodesUsagePath_Metric p) then writeLit "usage";; writeSegments (NodesUsagePath_Metric p)
    else if hasNonEmpty (NodesUsagePath_NodeID p) then writeSegments (NodesUsagePath_NodeID p);; writeLit "usage"
    else writeLit "usage")).
#[export] Instance NodesUsagePath_builder : builder NodesUsagePath :=
  {| Build := NodesUsagePath_Build; fields p := [("node_id", Many (NodesUsagePath_NodeID p)); ("metric", Many (NodesUsagePath_Metric p))]; ignored _ := [];
     templates := ["/_nodes/{node_id}/usage"; "/_nodes/{node_id}/usage/{metric}"; "/_nodes/usage"; "/_nodes/usage/{metric}"] |}.
#[export] Instance NodesUsagePath_lawful : Lawful NodesUsagePath.
Proof. follow. Qed.

Record PingPath := MkPingPath {  }.
Definition PingPath_Build (p : PingPath) : built := Built "/".
#[export] Instance PingPath_builder : builder PingPath :=
  {| Build := PingPath_Build; fields _ := []; ignored _ := [];
     templates := ["/"] |}.
#[export] Instance PingPath_lawful : Lawful PingPath.
Proof. follow. Qed.

Record PutScriptPath := MkPutScriptPath { PutScriptPath_ID : string; PutScriptPath_Context : string }.
Definition PutScriptPath_Build (p : PutScriptPath) : built :=
  build (required "PutScriptPath.ID" (PutScriptPath_ID p);; writeLit "_scripts";; writeReq (PutScriptPath_ID p);;
   when (isSet (PutScriptPath_Context p)) (writeReq (PutScriptPath_Context p))).
#[export] Instance PutScriptPath_builder : builder PutScriptPath :=
  {| Build := PutScriptPath_Build; fields p := [("id", One (PutScriptPath_ID p)); ("context", One (PutScriptPath_Context p))]; ignored _ := [];
     templates := ["/_scripts/{id}"; "/_scripts/{id}/{context}"] |}.
#[export] Instance PutScriptPath_lawful : Lawful PutScriptPath.
Proof. follow. Qed.

Record RankEvalPath := MkRankEvalPath { RankEvalPath_Indices : list string }.
Definition RankEvalPath_Build (p : RankEvalPath) : built := build (writeSegments (RankEvalPath_Indices p);; writeLit "_rank_eval").
#[export] Instance RankEvalPath_builder : builder RankEvalPath :=
  {| Build := RankEvalPath_Build; fields p := [("index", Many (RankEvalPath_Indices p))]; ignored _ := [];
     templates := ["/_rank_eval"; "/{index}/_rank_eval"] |}.
#[export] Instance RankEvalPath_lawful : Lawful RankEvalPath.
Proof. follow. Qed.

Record ReindexPath := MkReindexPath {  }.
Definition ReindexPath_Build (p : ReindexPath) : built := build (writeLit "_reindex").
#[export] Instance ReindexPath_builder : builder ReindexPath :=
  {| Build := ReindexPath_Build; fields _ := []; ignored _ := [];
     templates := ["/_reindex"] |}.
#[export] Instance ReindexPath_lawful : Lawful ReindexPath.
Proof. follow. Qed.

Record ReindexRethrottlePath := MkReindexRethrottlePath { ReindexRethrottlePath_TaskID : string }.
Definition ReindexRethrottlePath_Build (p : ReindexRethrottlePath) : built :=
  build (required "ReindexRethrottlePath.TaskID" (ReindexRethrottlePath_TaskID p);; writeLit "_reindex";;
   writeReq (ReindexRethrottlePath_TaskID p);; writeLit "_rethrottle").
#[export] Instance ReindexRethrottlePath_builder : builder ReindexRethrottlePath :=
  {| Build := ReindexRethrottlePath_Build; fields p := [("task_id", One (ReindexRethrottlePath_TaskID p))]; ignored _ := [];
     templates := ["/_reindex/{task_id}/_rethrottle"] |}.
#[export] Instance ReindexRethrottlePath_lawful : Lawful ReindexRethrottlePath.
Proof. follow. Qed.

Record RemoteStoreRestorePath := MkRemoteStoreRestorePath {  }.
Definition RemoteStoreRestorePath_Build (p : RemoteStoreRestorePath) : built := build (writeLit "_remotestore";; writeLit "_restore").
#[export] Instance RemoteStoreRestorePath_builder : builder RemoteStoreRestorePath :=
  {| Build := RemoteStoreRestorePath_Build; fields _ := []; ignored _ := [];
     templates := ["/_remotestore/_restore"] |}.
#[export] Instance RemoteStoreRestorePath_lawful : Lawful RemoteStoreRestorePath.
Proof. follow. Qed.

Record RenderSearchTemplatePath := MkRenderSearchTemplatePath { RenderSearchTemplatePath_ID : string }.
Definition RenderSearchTemplatePath_Build (p : RenderSearchTemplatePath) : built :=
  build (writeLit "_render";; writeLit "template";;
   when (isSet (RenderSearchTemplatePath_ID p)) (writeReq (RenderSearchTemplatePath_ID p))).
#[export] Instance RenderSearchTemplatePath_builder : builder RenderSearchTemplatePath :=
  {| Build := RenderSearchTemplatePath_Build; fields p := [("id", One (RenderSearchTemplatePath_ID p))]; ignored _ := [];
     templates := ["/_render/template"; "/_render/template/{id}"] |}.
#[export] Instance RenderSearchTemplatePath_lawful : Lawful RenderSearchTemplatePath.
Proof. follow. Qed.

Record ScriptsPainlessExecutePath := MkScriptsPainlessExecutePath {  }.
Definition ScriptsPainlessExecutePath_Build (p : ScriptsPainlessExecutePath) : built := build (writeLit "_scripts";; writeLit "painless";; writeLit "_execute").
#[export] Instance ScriptsPainlessExecutePath_builder : builder ScriptsPainlessExecutePath :=
  {| Build := ScriptsPainlessExecutePath_Build; fields _ := []; ignored _ := [];
     templates := ["/_scripts/painless/_execute"] |}.
#[export] Instance ScriptsPainlessExecutePath_lawful : Lawful ScriptsPainlessExecutePath.
Proof. follow. Qed.

Record ScrollPath := MkScrollPath { ScrollPath_ScrollID : string }.
Definition ScrollPath_Build (p : ScrollPath) : built :=
  build (writeLit "_search";; writeLit "scroll";; when (isSet (ScrollPath_ScrollID p)) (writeReq (ScrollPath_ScrollID p))).
#[export] Instance ScrollPath_builder : builder ScrollPath :=
  {| Build := ScrollPath_Build; fields p := [("scroll_id", One (ScrollPath_ScrollID p))]; ignored _ := [];
     templates := ["/_search/scroll"; "/_search/scroll/{scroll_id}"] |}.
#[export] Instance ScrollPath_lawful : Lawful ScrollPath.
Proof. follow. Qed.

Record SearchPath := MkSearchPath { SearchPath_Indices : list string }.
Definition SearchPath_Build (p : SearchPath) : built := build (writeSegments (SearchPath_Indices p);; writeLit "_search").
#[export] Instance SearchPath_builder : builder SearchPath :=
  {| Build := SearchPath_Build; fields p := [("index", Many (SearchPath_Indices p))]; ignored _ := [];
     templates := ["/_search"; "/{index}/_search"] |}.
#[export] Instance SearchPath_lawful : Lawful SearchPath.
Proof. follow. Qed.

Record SearchShardsPath := MkSearchShardsPath { SearchShardsPath_Indices : list string }.
Definition SearchShardsPath_Build (p : SearchShardsPath) : built := build (writeSegments (SearchShardsPath_Indices p);; writeLit "_search_shards").
#[export] Instance SearchShardsPath_builder : builder SearchShardsPath :=
  {| Build := SearchShardsPath_Build; fields p := [("index", Many (SearchShardsPath_Indices p))]; ignored _ := [];
     templates := ["/_search_shards"; "/{index}/_search_shards"] |}.
#[export] Instance SearchShardsPath_lawful : Lawful SearchShardsPath.
Proof. follow. Qed.

Record SearchTemplatePath := MkSearchTemplatePath { SearchTemplatePath_Indices : list string }.
Definition SearchTemplatePath_Build (p : SearchTemplatePath) : built := build (writeSegments (SearchTemplatePath_Indices p);; writeLit "_search";; writeLit "template").
#[export] Instance SearchTemplatePath_builder : builder SearchTemplatePath :=
  {| Build := SearchTemplatePath_Build; fields p := [("index", Many (SearchTemplatePath_Indices p))]; ignored _ := [];
     templates := ["/_search/template"; "/{index}/_search/template"] |}.
#[export] Instance SearchTemplatePath_lawful : Lawful SearchTemplatePath.
Proof. follow. Qed.

Record TasksCancelPath := MkTasksCancelPath { TasksCancelPath_TaskID : string }.
Definition TasksCancelPath_Build (p : TasksCancelPath) : built :=
  build (writeLit "_tasks";; when (isSet (TasksCancelPath_TaskID p)) (writeReq (TasksCancelPath_TaskID p));; writeLit "_cancel").
#[export] Instance TasksCancelPath_builder : builder TasksCancelPath :=
  {| Build := TasksCancelPath_Build; fields p := [("task_id", One (TasksCancelPath_TaskID p))]; ignored _ := [];
     templates := ["/_tasks/_cancel"; "/_tasks/{task_id}/_cancel"] |}.
#[export] Instance TasksCancelPath_lawful : Lawful TasksCancelPath.
Proof. follow. Qed.

Record TasksGetPath := MkTasksGetPath { TasksGetPath_TaskID : string }.
Definition TasksGetPath_Build (p : TasksGetPath) : built :=
  build (required "TasksGetPath.TaskID" (TasksGetPath_TaskID p);; writeLit "_tasks";; writeReq (TasksGetPath_TaskID p)).
#[export] Instance TasksGetPath_builder : builder TasksGetPath :=
  {| Build := TasksGetPath_Build; fields p := [("task_id", One (TasksGetPath_TaskID p))]; ignored _ := [];
     templates := ["/_tasks/{task_id}"] |}.
#[export] Instance TasksGetPath_lawful : Lawful TasksGetPath.
Proof. follow. Qed.

Record TasksListPath := MkTasksListPath {  }.
Definition TasksListPath_Build (p : TasksListPath) : built := build (writeLit "_tasks").
#[export] Instance TasksListPath_builder : builder TasksListPath :=
  {| Build := TasksListPath_Build; fields _ := []; ignored _ := [];
     templates := ["/_tasks"] |}.
#[export] Instance TasksListPath_lawful : Lawful TasksListPath.
Proof. follow. Qed.

Record TermvectorsPath := MkTermvectorsPath { TermvectorsPath_Index : string; TermvectorsPath_ID : string }.
Definition TermvectorsPath_Build (p : TermvectorsPath) : built :=
  build (required "TermvectorsPath.Index" (TermvectorsPath_Index p);; writeReq (TermvectorsPath_Index p);; writeLit "_termvectors";;
   when (isSet (TermvectorsPath_ID p)) (writeReq (TermvectorsPath_ID p))).
#[export] Instance TermvectorsPath_builder : builder TermvectorsPath :=
  {| Build := TermvectorsPath_Build; fields p := [("index", One (TermvectorsPath_Index p)); ("id", One (TermvectorsPath_ID p))]; ignored _ := [];
     templates := ["/{index}/_termvectors"; "/{index}/_termvectors/{id}"] |}.
#[export] Instance TermvectorsPath_lawful : Lawful TermvectorsPath.
Proof. follow. Qed.

Record UpdatePath := MkUpdatePath { UpdatePath_Index : string; UpdatePath_ID : string }.
Definition UpdatePath_Build (p : UpdatePath) : built :=
  build (required "UpdatePath.Index" (UpdatePath_Index p);; required "UpdatePath.ID" (UpdatePath_ID p);;
   writeReq (UpdatePath_Index p);; writeLit "_update";; writeReq (UpdatePath_ID p)).
#[export] Instance UpdatePath_builder : builder UpdatePath :=
  {| Build := UpdatePath_Build; fields p := [("index", One (UpdatePath_Index p)); ("id", One (UpdatePath_ID p))]; ignored _ := [];
     templates := ["/{index}/_update/{id}"] |}.
#[export] Instance UpdatePath_lawful : Lawful UpdatePath.
Proof. follow. Qed.

Record UpdateByQueryPath := MkUpdateByQueryPath { UpdateByQueryPath_Indices : list string }.
Definition UpdateByQueryPath_Build (p : UpdateByQueryPath) : built :=
  build (requiredList "UpdateByQueryPath.Indices" (UpdateByQueryPath_Indices p);; writeSegments (UpdateByQueryPath_Indices p);;
   writeLit "_update_by_query").
#[export] Instance UpdateByQueryPath_builder : builder UpdateByQueryPath :=
  {| Build := UpdateByQueryPath_Build; fields p := [("index", Many (UpdateByQueryPath_Indices p))]; ignored _ := [];
     templates := ["/{index}/_update_by_query"] |}.
#[export] Instance UpdateByQueryPath_lawful : Lawful UpdateByQueryPath.
Proof. follow. Qed.

Record UpdateByQueryRethrottlePath := MkUpdateByQueryRethrottlePath { UpdateByQueryRethrottlePath_TaskID : string }.
Definition UpdateByQueryRethrottlePath_Build (p : UpdateByQueryRethrottlePath) : built :=
  build (required "UpdateByQueryRethrottlePath.TaskID" (UpdateByQueryRethrottlePath_TaskID p);; writeLit "_update_by_query";;
   writeReq (UpdateByQueryRethrottlePath_TaskID p);; writeLit "_rethrottle").
#[export] Instance UpdateByQueryRethrottlePath_builder : builder UpdateByQueryRethrottlePath :=
  {| Build := UpdateByQueryRethrottlePath_Build; fields p := [("task_id", One (UpdateByQueryRethrottlePath_TaskID p))]; ignored _ := [];
     templates := ["/_update_by_query/{task_id}/_rethrottle"] |}.
#[export] Instance UpdateByQueryRethrottlePath_lawful : Lawful UpdateByQueryRethrottlePath.
Proof. follow. Qed.

(** All of them. *)
Definition pathsCore : list path_type :=
  [MkPathType "BulkPath" BulkPath _ _; MkPathType "BulkStreamPath" BulkStreamPath _ _;
   MkPathType "CatAliasesPath" CatAliasesPath _ _; MkPathType "CatAllPITSegmentsPath" CatAllPITSegmentsPath _ _;
   MkPathType "CatAllocationPath" CatAllocationPath _ _; MkPathType "CatClusterManagerPath" CatClusterManagerPath _ _;
   MkPathType "CatCountPath" CatCountPath _ _; MkPathType "CatFielddataPath" CatFielddataPath _ _;
   MkPathType "CatHealthPath" CatHealthPath _ _; MkPathType "CatHelpPath" CatHelpPath _ _;
   MkPathType "CatIndicesPath" CatIndicesPath _ _; MkPathType "CatMasterPath" CatMasterPath _ _;
   MkPathType "CatNodeattrsPath" CatNodeattrsPath _ _; MkPathType "CatNodesPath" CatNodesPath _ _;
   MkPathType "CatPendingTasksPath" CatPendingTasksPath _ _; MkPathType "CatPITSegmentsPath" CatPITSegmentsPath _ _;
   MkPathType "CatPluginsPath" CatPluginsPath _ _; MkPathType "CatRecoveryPath" CatRecoveryPath _ _;
   MkPathType "CatRepositoriesPath" CatRepositoriesPath _ _; MkPathType "CatSegmentReplicationPath" CatSegmentReplicationPath _ _;
   MkPathType "CatSegmentsPath" CatSegmentsPath _ _; MkPathType "CatShardsPath" CatShardsPath _ _;
   MkPathType "CatSnapshotsPath" CatSnapshotsPath _ _; MkPathType "CatTasksPath" CatTasksPath _ _;
   MkPathType "CatTemplatesPath" CatTemplatesPath _ _; MkPathType "CatThreadPoolPath" CatThreadPoolPath _ _;
   MkPathType "ClearScrollPath" ClearScrollPath _ _; MkPathType "ClusterAllocationExplainPath" ClusterAllocationExplainPath _ _;
   MkPathType "ClusterDeleteComponentTemplatePath" ClusterDeleteComponentTemplatePath _ _; MkPathType "ClusterDeleteDecommissionAwarenessPath" ClusterDeleteDecommissionAwarenessPath _ _;
   MkPathType "ClusterDeleteVotingConfigExclusionsPath" ClusterDeleteVotingConfigExclusionsPath _ _; MkPathType "ClusterDeleteWeightedRoutingPath" ClusterDeleteWeightedRoutingPath _ _;
   MkPathType "ClusterExistsComponentTemplatePath" ClusterExistsComponentTemplatePath _ _; MkPathType "ClusterGetComponentTemplatePath" ClusterGetComponentTemplatePath _ _;
   MkPathType "ClusterGetDecommissionAwarenessPath" ClusterGetDecommissionAwarenessPath _ _; MkPathType "ClusterGetSettingsPath" ClusterGetSettingsPath _ _;
   MkPathType "ClusterGetWeightedRoutingPath" ClusterGetWeightedRoutingPath _ _; MkPathType "ClusterHealthPath" ClusterHealthPath _ _;
   MkPathType "ClusterPendingTasksPath" ClusterPendingTasksPath _ _; MkPathType "ClusterPostVotingConfigExclusionsPath" ClusterPostVotingConfigExclusionsPath _ _;
   MkPathType "ClusterPutComponentTemplatePath" ClusterPutComponentTemplatePath _ _; MkPathType "ClusterPutDecommissionAwarenessPath" ClusterPutDecommissionAwarenessPath _ _;
   MkPathType "ClusterPutSettingsPath" ClusterPutSettingsPath _ _; MkPathType "ClusterPutWeightedRoutingPath" ClusterPutWeightedRoutingPath _ _;
   MkPathType "ClusterRemoteInfoPath" ClusterRemoteInfoPath _ _; MkPathType "ClusterReroutePath" ClusterReroutePath _ _;
   MkPathType "ClusterStatePath" ClusterStatePath _ _; MkPathType "ClusterStatsPath" ClusterStatsPath _ _;
   MkPathType "CountPath" CountPath _ _; MkPathType "CreatePath" CreatePath _ _;
   MkPathType "CreatePITPath" CreatePITPath _ _; MkPathType "DanglingIndicesDeleteDanglingIndexPath" DanglingIndicesDeleteDanglingIndexPath _ _;
   MkPathType "DanglingIndicesImportDanglingIndexPath" DanglingIndicesImportDanglingIndexPath _ _; MkPathType "DanglingIndicesListDanglingIndicesPath" DanglingIndicesListDanglingIndicesPath _ _;
   MkPathType "DeletePath" DeletePath _ _; MkPathType "DeleteAllPITsPath" DeleteAllPITsPath _ _;
   MkPathType "DeleteByQueryPath" DeleteByQueryPath _ _; MkPathType "DeleteByQueryRethrottlePath" DeleteByQueryRethrottlePath _ _;
   MkPathType "DeletePITPath" DeletePITPath _ _; MkPathType "DeleteScriptPath" DeleteScriptPath _ _;
   MkPathType "ExistsPath" ExistsPath _ _; MkPathType "ExistsSourcePath" ExistsSourcePath _ _;
   MkPathType "ExplainPath" ExplainPath _ _; MkPathType "FieldCapsPath" FieldCapsPath _ _;
   MkPathType "GetPath" GetPath _ _; MkPathType "GetAllPITsPath" GetAllPITsPath _ _;
   MkPathType "GetScriptPath" GetScriptPath _ _; MkPathType "GetScriptContextPath" GetScriptContextPath _ _;
   MkPathType "GetScriptLanguagesPath" GetScriptLanguagesPath _ _; MkPathType "GetSourcePath" GetSourcePath _ _;
   MkPathType "IndexPath" IndexPath _ _; MkPathType "InfoPath" InfoPath _ _;
   MkPathType "MgetPath" MgetPath _ _; MkPathType "MsearchPath" MsearchPath _ _;
   MkPathType "MsearchTemplatePath" MsearchTemplatePath _ _; MkPathType "MtermvectorsPath" MtermvectorsPath _ _;
   MkPathType "NodesHotThreadsPath" NodesHotThreadsPath _ _; MkPathType "NodesInfoPath" NodesInfoPath _ _;
   MkPathType "NodesReloadSecureSettingsPath" NodesReloadSecureSettingsPath _ _; MkPathType "NodesStatsPath" NodesStatsPath _ _;
   MkPathType "NodesUsagePath" NodesUsagePath _ _; MkPathType "PingPath" PingPath _ _;
   MkPathType "PutScriptPath" PutScriptPath _ _; MkPathType "RankEvalPath" RankEvalPath _ _;
   MkPathType "ReindexPath" ReindexPath _ _; MkPathType "ReindexRethrottlePath" ReindexRethrottlePath _ _;
   MkPathType "RemoteStoreRestorePath" RemoteStoreRestorePath _ _; MkPathType "RenderSearchTemplatePath" RenderSearchTemplatePath _ _;
   MkPathType "ScriptsPainlessExecutePath" ScriptsPainlessExecutePath _ _; MkPathType "ScrollPath" ScrollPath _ _;
   MkPathType "SearchPath" SearchPath _ _; MkPathType "SearchShardsPath" SearchShardsPath _ _;
   MkPathType "SearchTemplatePath" SearchTemplatePath _ _; MkPathType "TasksCancelPath" TasksCancelPath _ _;
   MkPathType "TasksGetPath" TasksGetPath _ _; MkPathType "TasksListPath" TasksListPath _ _;
   MkPathType "TermvectorsPath" TermvectorsPath _ _; MkPathType "UpdatePath" UpdatePath _ _;
   MkPathType "UpdateByQueryPath" UpdateByQueryPath _ _; MkPathType "UpdateByQueryRethrottlePath" UpdateByQueryRethrottlePath _ _].
