(* ===== verification/PathsIndices.v ===== *)
(** * Path types: Indices

    The path types of internal/path/builders_gen.go for the operations on indices, snapshots, pipelines and the lifecycle of indices:
    the fields, the Build method, and the path templates that
    opensearch-openapi.yaml has for the operation (less the ones it marks deprecated
    or superseded by another template with the same parameters), with the proof
    that Build follows them. *)

From Stdlib Require Import Ascii String.
From stdpp Require Import base list strings.
From S2P Require Import Paths.
Open Scope string_scope.
Open Scope list_scope.
Open Scope bool_scope.
Open Scope stmt_scope.

Record IndicesAddBlockPath := MkIndicesAddBlockPath { IndicesAddBlockPath_Indices : list string; IndicesAddBlockPath_Block : string }.
Definition IndicesAddBlockPath_Build (p : IndicesAddBlockPath) : built :=
  build (requiredList "IndicesAddBlockPath.Indices" (IndicesAddBlockPath_Indices p);;
   required "IndicesAddBlockPath.Block" (IndicesAddBlockPath_Block p);; writeSegments (IndicesAddBlockPath_Indices p);;
   writeLit "_block";; writeReq (IndicesAddBlockPath_Block p)).
#[export] Instance IndicesAddBlockPath_builder : builder IndicesAddBlockPath :=
  {| Build := IndicesAddBlockPath_Build; fields p := [("index", Many (IndicesAddBlockPath_Indices p)); ("block", One (IndicesAddBlockPath_Block p))]; ignored _ := [];
     templates := ["/{index}/_block/{block}"] |}.
#[export] Instance IndicesAddBlockPath_lawful : Lawful IndicesAddBlockPath.
Proof. follow. Qed.

Record IndicesAnalyzePath := MkIndicesAnalyzePath { IndicesAnalyzePath_Index : string }.
Definition IndicesAnalyzePath_Build (p : IndicesAnalyzePath) : built :=
  build (when (isSet (IndicesAnalyzePath_Index p)) (writeReq (IndicesAnalyzePath_Index p));; writeLit "_analyze").
#[export] Instance IndicesAnalyzePath_builder : builder IndicesAnalyzePath :=
  {| Build := IndicesAnalyzePath_Build; fields p := [("index", One (IndicesAnalyzePath_Index p))]; ignored _ := [];
     templates := ["/_analyze"; "/{index}/_analyze"] |}.
#[export] Instance IndicesAnalyzePath_lawful : Lawful IndicesAnalyzePath.
Proof. follow. Qed.

Record IndicesClearCachePath := MkIndicesClearCachePath { IndicesClearCachePath_Indices : list string }.
Definition IndicesClearCachePath_Build (p : IndicesClearCachePath) : built :=
  build (writeSegments (IndicesClearCachePath_Indices p);; writeLit "_cache";; writeLit "clear").
#[export] Instance IndicesClearCachePath_builder : builder IndicesClearCachePath :=
  {| Build := IndicesClearCachePath_Build; fields p := [("index", Many (IndicesClearCachePath_Indices p))]; ignored _ := [];
     templates := ["/_cache/clear"; "/{index}/_cache/clear"] |}.
#[export] Instance IndicesClearCachePath_lawful : Lawful IndicesClearCachePath.
Proof. follow. Qed.

Record IndicesClonePath := MkIndicesClonePath { IndicesClonePath_Index : string; IndicesClonePath_Target : string }.
Definition IndicesClonePath_Build (p : IndicesClonePath) : built :=
  build (required "IndicesClonePath.Index" (IndicesClonePath_Index p);;
   required "IndicesClonePath.Target" (IndicesClonePath_Target p);; writeReq (IndicesClonePath_Index p);; writeLit "_clone";;
   writeReq (IndicesClonePath_Target p)).
#[export] Instance IndicesClonePath_builder : builder IndicesClonePath :=
  {| Build := IndicesClonePath_Build; fields p := [("index", One (IndicesClonePath_Index p)); ("target", One (IndicesClonePath_Target p))]; ignored _ := [];
     templates := ["/{index}/_clone/{target}"] |}.
#[export] Instance IndicesClonePath_lawful : Lawful IndicesClonePath.
Proof. follow. Qed.

Record IndicesClosePath := MkIndicesClosePath { IndicesClosePath_Indices : list string }.
Definition IndicesClosePath_Build (p : IndicesClosePath) : built :=
  build (requiredList "IndicesClosePath.Indices" (IndicesClosePath_Indices p);; writeSegments (IndicesClosePath_Indices p);;
   writeLit "_close").
#[export] Instance IndicesClosePath_builder : builder IndicesClosePath :=
  {| Build := IndicesClosePath_Build; fields p := [("index", Many (IndicesClosePath_Indices p))]; ignored _ := [];
     templates := ["/{index}/_close"] |}.
#[export] Instance IndicesClosePath_lawful : Lawful IndicesClosePath.
Proof. follow. Qed.

Record IndicesCreatePath := MkIndicesCreatePath { IndicesCreatePath_Index : string }.
Definition IndicesCreatePath_Build (p : IndicesCreatePath) : built :=
  build (required "IndicesCreatePath.Index" (IndicesCreatePath_Index p);; writeReq (IndicesCreatePath_Index p)).
#[export] Instance IndicesCreatePath_builder : builder IndicesCreatePath :=
  {| Build := IndicesCreatePath_Build; fields p := [("index", One (IndicesCreatePath_Index p))]; ignored _ := [];
     templates := ["/{index}"] |}.
#[export] Instance IndicesCreatePath_lawful : Lawful IndicesCreatePath.
Proof. follow. Qed.

Record IndicesCreateDataStreamPath := MkIndicesCreateDataStreamPath { IndicesCreateDataStreamPath_Name : string }.
Definition IndicesCreateDataStreamPath_Build (p : IndicesCreateDataStreamPath) : built :=
  build (required "IndicesCreateDataStreamPath.Name" (IndicesCreateDataStreamPath_Name p);; writeLit "_data_stream";;
   writeReq (IndicesCreateDataStreamPath_Name p)).
#[export] Instance IndicesCreateDataStreamPath_builder : builder IndicesCreateDataStreamPath :=
  {| Build := IndicesCreateDataStreamPath_Build; fields p := [("name", One (IndicesCreateDataStreamPath_Name p))]; ignored _ := [];
     templates := ["/_data_stream/{name}"] |}.
#[export] Instance IndicesCreateDataStreamPath_lawful : Lawful IndicesCreateDataStreamPath.
Proof. follow. Qed.

Record IndicesDataStreamsStatsPath := MkIndicesDataStreamsStatsPath { IndicesDataStreamsStatsPath_Name : list string }.
Definition IndicesDataStreamsStatsPath_Build (p : IndicesDataStreamsStatsPath) : built :=
  build (writeLit "_data_stream";; writeSegments (IndicesDataStreamsStatsPath_Name p);; writeLit "_stats").
#[export] Instance IndicesDataStreamsStatsPath_builder : builder IndicesDataStreamsStatsPath :=
  {| Build := IndicesDataStreamsStatsPath_Build; fields p := [("name", Many (IndicesDataStreamsStatsPath_Name p))]; ignored _ := [];
     templates := ["/_data_stream/_stats"; "/_data_stream/{name}/_stats"] |}.
#[export] Instance IndicesDataStreamsStatsPath_lawful : Lawful IndicesDataStreamsStatsPath.
Proof. follow. Qed.

Record IndicesDeletePath := MkIndicesDeletePath { IndicesDeletePath_Indices : list string }.
Definition IndicesDeletePath_Build (p : IndicesDeletePath) : built :=
  build (requiredList "IndicesDeletePath.Indices" (IndicesDeletePath_Indices p);; writeSegments (IndicesDeletePath_Indices p)).
#[export] Instance IndicesDeletePath_builder : builder IndicesDeletePath :=
  {| Build := IndicesDeletePath_Build; fields p := [("index", Many (IndicesDeletePath_Indices p))]; ignored _ := [];
     templates := ["/{index}"] |}.
#[export] Instance IndicesDeletePath_lawful : Lawful IndicesDeletePath.
Proof. follow. Qed.

Record IndicesDeleteAliasPath := MkIndicesDeleteAliasPath { IndicesDeleteAliasPath_Indices : list string; IndicesDeleteAliasPath_Name : list string }.
Definition IndicesDeleteAliasPath_Build (p : IndicesDeleteAliasPath) : built :=
  build (requiredList "IndicesDeleteAliasPath.Indices" (IndicesDeleteAliasPath_Indices p);;
   requiredList "IndicesDeleteAliasPath.Name" (IndicesDeleteAliasPath_Name p);;
   writeSegments (IndicesDeleteAliasPath_Indices p);; writeLit "_alias";; writeSegments (IndicesDeleteAliasPath_Name p)).
#[export] Instance IndicesDeleteAliasPath_builder : builder IndicesDeleteAliasPath :=
  {| Build := IndicesDeleteAliasPath_Build; fields p := [("index", Many (IndicesDeleteAliasPath_Indices p)); ("name", Many (IndicesDeleteAliasPath_Name p))]; ignored _ := [];
     templates := ["/{index}/_alias/{name}"] |}.
#[export] Instance IndicesDeleteAliasPath_lawful : Lawful IndicesDeleteAliasPath.
Proof. follow. Qed.

Record IndicesDeleteDataStreamPath := MkIndicesDeleteDataStreamPath { IndicesDeleteDataStreamPath_Name : list string }.
Definition IndicesDeleteDataStreamPath_Build (p : IndicesDeleteDataStreamPath) : built :=
  build (requiredList "IndicesDeleteDataStreamPath.Name" (IndicesDeleteDataStreamPath_Name p);; writeLit "_data_stream";;
   writeSegments (IndicesDeleteDataStreamPath_Name p)).
#[export] Instance IndicesDeleteDataStreamPath_builder : builder IndicesDeleteDataStreamPath :=
  {| Build := IndicesDeleteDataStreamPath_Build; fields p := [("name", Many (IndicesDeleteDataStreamPath_Name p))]; ignored _ := [];
     templates := ["/_data_stream/{name}"] |}.
#[export] Instance IndicesDeleteDataStreamPath_lawful : Lawful IndicesDeleteDataStreamPath.
Proof. follow. Qed.

Record IndicesDeleteIndexTemplatePath := MkIndicesDeleteIndexTemplatePath { IndicesDeleteIndexTemplatePath_Name : string }.
Definition IndicesDeleteIndexTemplatePath_Build (p : IndicesDeleteIndexTemplatePath) : built :=
  build (required "IndicesDeleteIndexTemplatePath.Name" (IndicesDeleteIndexTemplatePath_Name p);; writeLit "_index_template";;
   writeReq (IndicesDeleteIndexTemplatePath_Name p)).
#[export] Instance IndicesDeleteIndexTemplatePath_builder : builder IndicesDeleteIndexTemplatePath :=
  {| Build := IndicesDeleteIndexTemplatePath_Build; fields p := [("name", One (IndicesDeleteIndexTemplatePath_Name p))]; ignored _ := [];
     templates := ["/_index_template/{name}"] |}.
#[export] Instance IndicesDeleteIndexTemplatePath_lawful : Lawful IndicesDeleteIndexTemplatePath.
Proof. follow. Qed.

Record IndicesDeleteTemplatePath := MkIndicesDeleteTemplatePath { IndicesDeleteTemplatePath_Name : string }.
Definition IndicesDeleteTemplatePath_Build (p : IndicesDeleteTemplatePath) : built :=
  build (required "IndicesDeleteTemplatePath.Name" (IndicesDeleteTemplatePath_Name p);; writeLit "_template";;
   writeReq (IndicesDeleteTemplatePath_Name p)).
#[export] Instance IndicesDeleteTemplatePath_builder : builder IndicesDeleteTemplatePath :=
  {| Build := IndicesDeleteTemplatePath_Build; fields p := [("name", One (IndicesDeleteTemplatePath_Name p))]; ignored _ := [];
     templates := ["/_template/{name}"] |}.
#[export] Instance IndicesDeleteTemplatePath_lawful : Lawful IndicesDeleteTemplatePath.
Proof. follow. Qed.

Record IndicesExistsPath := MkIndicesExistsPath { IndicesExistsPath_Indices : list string }.
Definition IndicesExistsPath_Build (p : IndicesExistsPath) : built :=
  build (requiredList "IndicesExistsPath.Indices" (IndicesExistsPath_Indices p);; writeSegments (IndicesExistsPath_Indices p)).
#[export] Instance IndicesExistsPath_builder : builder IndicesExistsPath :=
  {| Build := IndicesExistsPath_Build; fields p := [("index", Many (IndicesExistsPath_Indices p))]; ignored _ := [];
     templates := ["/{index}"] |}.
#[export] Instance IndicesExistsPath_lawful : Lawful IndicesExistsPath.
Proof. follow. Qed.

Record IndicesExistsAliasPath := MkIndicesExistsAliasPath { IndicesExistsAliasPath_Indices : list string; IndicesExistsAliasPath_Name : list string }.
Definition IndicesExistsAliasPath_Build (p : IndicesExistsAliasPath) : built :=
  build (requiredList "IndicesExistsAliasPath.Name" (IndicesExistsAliasPath_Name p);;
   writeSegments (IndicesExistsAliasPath_Indices p);; writeLit "_alias";; writeSegments (IndicesExistsAliasPath_Name p)).
#[export] Instance IndicesExistsAliasPath_builder : builder IndicesExistsAliasPath :=
  {| Build := IndicesExistsAliasPath_Build; fields p := [("name", Many (IndicesExistsAliasPath_Name p)); ("index", Many (IndicesExistsAliasPath_Indices p))]; ignored _ := [];
     templates := ["/_alias/{name}"; "/{index}/_alias/{name}"] |}.
#[export] Instance IndicesExistsAliasPath_lawful : Lawful IndicesExistsAliasPath.
Proof. follow. Qed.

Record IndicesExistsIndexTemplatePath := MkIndicesExistsIndexTemplatePath { IndicesExistsIndexTemplatePath_Name : string }.
Definition IndicesExistsIndexTemplatePath_Build (p : IndicesExistsIndexTemplatePath) : built :=
  build (required "IndicesExistsIndexTemplatePath.Name" (IndicesExistsIndexTemplatePath_Name p);; writeLit "_index_template";;
   writeReq (IndicesExistsIndexTemplatePath_Name p)).
#[export] Instance IndicesExistsIndexTemplatePath_builder : builder IndicesExistsIndexTemplatePath :=
  {| Build := IndicesExistsIndexTemplatePath_Build; fields p := [("name", One (IndicesExistsIndexTemplatePath_Name p))]; ignored _ := [];
     templates := ["/_index_template/{name}"] |}.
#[export] Instance IndicesExistsIndexTemplatePath_lawful : Lawful IndicesExistsIndexTemplatePath.
Proof. follow. Qed.

Record IndicesExistsTemplatePath := MkIndicesExistsTemplatePath { IndicesExistsTemplatePath_Name : list string }.
Definition IndicesExistsTemplatePath_Build (p : IndicesExistsTemplatePath) : built :=
  build (requiredList "IndicesExistsTemplatePath.Name" (IndicesExistsTemplatePath_Name p);; writeLit "_template";;
   writeSegments (IndicesExistsTemplatePath_Name p)).
#[export] Instance IndicesExistsTemplatePath_builder : builder IndicesExistsTemplatePath :=
  {| Build := IndicesExistsTemplatePath_Build; fields p := [("name", Many (IndicesExistsTemplatePath_Name p))]; ignored _ := [];
     templates := ["/_template/{name}"] |}.
#[export] Instance IndicesExistsTemplatePath_lawful : Lawful IndicesExistsTemplatePath.
Proof. follow. Qed.

Record IndicesFlushPath := MkIndicesFlushPath { IndicesFlushPath_Indices : list string }.
Definition IndicesFlushPath_Build (p : IndicesFlushPath) : built := build (writeSegments (IndicesFlushPath_Indices p);; writeLit "_flush").
#[export] Instance IndicesFlushPath_builder : builder IndicesFlushPath :=
  {| Build := IndicesFlushPath_Build; fields p := [("index", Many (IndicesFlushPath_Indices p))]; ignored _ := [];
     templates := ["/_flush"; "/{index}/_flush"] |}.
#[export] Instance IndicesFlushPath_lawful : Lawful IndicesFlushPath.
Proof. follow. Qed.

Record IndicesForcemergePath := MkIndicesForcemergePath { IndicesForcemergePath_Indices : list string }.
Definition IndicesForcemergePath_Build (p : IndicesForcemergePath) : built := build (writeSegments (IndicesForcemergePath_Indices p);; writeLit "_forcemerge").
#[export] Instance IndicesForcemergePath_builder : builder IndicesForcemergePath :=
  {| Build := IndicesForcemergePath_Build; fields p := [("index", Many (IndicesForcemergePath_Indices p))]; ignored _ := [];
     templates := ["/_forcemerge"; "/{index}/_forcemerge"] |}.
#[export] Instance IndicesForcemergePath_lawful : Lawful IndicesForcemergePath.
Proof. follow. Qed.

Record IndicesGetPath := MkIndicesGetPath { IndicesGetPath_Indices : list string }.
Definition IndicesGetPath_Build (p : IndicesGetPath) : built :=
  build (requiredList "IndicesGetPath.Indices" (IndicesGetPath_Indices p);; writeSegments (IndicesGetPath_Indices p)).
#[export] Instance IndicesGetPath_builder : builder IndicesGetPath :=
  {| Build := IndicesGetPath_Build; fields p := [("index", Many (IndicesGetPath_Indices p))]; ignored _ := [];
     templates := ["/{index}"] |}.
#[export] Instance IndicesGetPath_lawful : Lawful IndicesGetPath.
Proof. follow. Qed.

Record IndicesGetAliasPath := MkIndicesGetAliasPath { IndicesGetAliasPath_Indices : list string; IndicesGetAliasPath_Name : list string }.
Definition IndicesGetAliasPath_Build (p : IndicesGetAliasPath) : built :=
  build ((if hasNonEmpty (IndicesGetAliasPath_Indices p) && hasNonEmpty (IndicesGetAliasPath_Name p) then writeSegments (IndicesGetAliasPath_Indices p);; writeLit "_alias";; writeSegments (IndicesGetAliasPath_Name p)
    else if hasNonEmpty (IndicesGetAliasPath_Indices p) then writeSegments (IndicesGetAliasPath_Indices p);; writeLit "_alias"
    else if hasNonEmpty (IndicesGetAliasPath_Name p) then writeLit "_alias";; writeSegments (IndicesGetAliasPath_Name p)
    else writeLit "_alias")).
#[export] Instance IndicesGetAliasPath_builder : builder IndicesGetAliasPath :=
  {| Build := IndicesGetAliasPath_Build; fields p := [("name", Many (IndicesGetAliasPath_Name p)); ("index", Many (IndicesGetAliasPath_Indices p))]; ignored _ := [];
     templates := ["/_alias"; "/_alias/{name}"; "/{index}/_alias"; "/{index}/_alias/{name}"] |}.
#[export] Instance IndicesGetAliasPath_lawful : Lawful IndicesGetAliasPath.
Proof. follow. Qed.

Record IndicesGetDataStreamPath := MkIndicesGetDataStreamPath { IndicesGetDataStreamPath_Name : list string }.
Definition IndicesGetDataStreamPath_Build (p : IndicesGetDataStreamPath) : built := build (writeLit "_data_stream";; writeSegments (IndicesGetDataStreamPath_Name p)).
#[export] Instance IndicesGetDataStreamPath_builder : builder IndicesGetDataStreamPath :=
  {| Build := IndicesGetDataStreamPath_Build; fields p := [("name", Many (IndicesGetDataStreamPath_Name p))]; ignored _ := [];
     templates := ["/_data_stream"; "/_data_stream/{name}"] |}.
#[export] Instance IndicesGetDataStreamPath_lawful : Lawful IndicesGetDataStreamPath.
Proof. follow. Qed.

Record IndicesGetFieldMappingPath := MkIndicesGetFieldMappingPath { IndicesGetFieldMappingPath_Indices : list string; IndicesGetFieldMappingPath_Fields : list string }.
Definition IndicesGetFieldMappingPath_Build (p : IndicesGetFieldMappingPath) : built :=
  build (requiredList "IndicesGetFieldMappingPath.Fields" (IndicesGetFieldMappingPath_Fields p);;
   writeSegments (IndicesGetFieldMappingPath_Indices p);; writeLit "_mapping";; writeLit "field";;
   writeSegments (IndicesGetFieldMappingPath_Fields p)).
#[export] Instance IndicesGetFieldMappingPath_builder : builder IndicesGetFieldMappingPath :=
  {| Build := IndicesGetFieldMappingPath_Build; fields p := [("fields", Many (IndicesGetFieldMappingPath_Fields p)); ("index", Many (IndicesGetFieldMappingPath_Indices p))]; ignored _ := [];
     templates := ["/_mapping/field/{fields}"; "/{index}/_mapping/field/{fields}"] |}.
#[export] Instance IndicesGetFieldMappingPath_lawful : Lawful IndicesGetFieldMappingPath.
Proof. follow. Qed.

Record IndicesGetIndexTemplatePath := MkIndicesGetIndexTemplatePath { IndicesGetIndexTemplatePath_Name : string }.
Definition IndicesGetIndexTemplatePath_Build (p : IndicesGetIndexTemplatePath) : built :=
  build (writeLit "_index_template";;
   when (isSet (IndicesGetIndexTemplatePath_Name p)) (writeReq (IndicesGetIndexTemplatePath_Name p))).
#[export] Instance IndicesGetIndexTemplatePath_builder : builder IndicesGetIndexTemplatePath :=
  {| Build := IndicesGetIndexTemplatePath_Build; fields p := [("name", One (IndicesGetIndexTemplatePath_Name p))]; ignored _ := [];
     templates := ["/_index_template"; "/_index_template/{name}"] |}.
#[export] Instance IndicesGetIndexTemplatePath_lawful : Lawful IndicesGetIndexTemplatePath.
Proof. follow. Qed.

Record IndicesGetMappingPath := MkIndicesGetMappingPath { IndicesGetMappingPath_Indices : list string }.
Definition IndicesGetMappingPath_Build (p : IndicesGetMappingPath) : built := build (writeSegments (IndicesGetMappingPath_Indices p);; writeLit "_mapping").
#[export] Instance IndicesGetMappingPath_builder : builder IndicesGetMappingPath :=
  {| Build := IndicesGetMappingPath_Build; fields p := [("index", Many (IndicesGetMappingPath_Indices p))]; ignored _ := [];
     templates := ["/_mapping"; "/{index}/_mapping"] |}.
#[export] Instance IndicesGetMappingPath_lawful : Lawful IndicesGetMappingPath.
Proof. follow. Qed.

Record IndicesGetSettingsPath := MkIndicesGetSettingsPath { IndicesGetSettingsPath_Indices : list string; IndicesGetSettingsPath_Name : list string }.
Definition IndicesGetSettingsPath_Build (p : IndicesGetSettingsPath) : built :=
  build ((if hasNonEmpty (IndicesGetSettingsPath_Indices p) && hasNonEmpty (IndicesGetSettingsPath_Name p) then writeSegments (IndicesGetSettingsPath_Indices p);; writeLit "_settings";; writeSegments (IndicesGetSettingsPath_Name p)
    else if hasNonEmpty (IndicesGetSettingsPath_Indices p) then writeSegments (IndicesGetSettingsPath_Indices p);; writeLit "_settings"
    else if hasNonEmpty (IndicesGetSettingsPath_Name p) then writeLit "_settings";; writeSegments (IndicesGetSettingsPath_Name p)
    else writeLit "_settings")).
#[export] Instance IndicesGetSettingsPath_builder : builder IndicesGetSettingsPath :=
  {| Build := IndicesGetSettingsPath_Build; fields p := [("name", Many (IndicesGetSettingsPath_Name p)); ("index", Many (IndicesGetSettingsPath_Indices p))]; ignored _ := [];
     templates := ["/_settings"; "/_settings/{name}"; "/{index}/_settings"; "/{index}/_settings/{name}"] |}.
#[export] Instance IndicesGetSettingsPath_lawful : Lawful IndicesGetSettingsPath.
Proof. follow. Qed.

Record IndicesGetTemplatePath := MkIndicesGetTemplatePath { IndicesGetTemplatePath_Name : list string }.
Definition IndicesGetTemplatePath_Build (p : IndicesGetTemplatePath) : built := build (writeLit "_template";; writeSegments (IndicesGetTemplatePath_Name p)).
#[export] Instance IndicesGetTemplatePath_builder : builder IndicesGetTemplatePath :=
  {| Build := IndicesGetTemplatePath_Build; fields p := [("name", Many (IndicesGetTemplatePath_Name p))]; ignored _ := [];
     templates := ["/_template"; "/_template/{name}"] |}.
#[export] Instance IndicesGetTemplatePath_lawful : Lawful IndicesGetTemplatePath.
Proof. follow. Qed.

Record IndicesGetUpgradePath := MkIndicesGetUpgradePath { IndicesGetUpgradePath_Indices : list string }.
Definition IndicesGetUpgradePath_Build (p : IndicesGetUpgradePath) : built := build (writeSegments (IndicesGetUpgradePath_Indices p);; writeLit "_upgrade").
#[export] Instance IndicesGetUpgradePath_builder : builder IndicesGetUpgradePath :=
  {| Build := IndicesGetUpgradePath_Build; fields p := [("index", Many (IndicesGetUpgradePath_Indices p))]; ignored _ := [];
     templates := ["/_upgrade"; "/{index}/_upgrade"] |}.
#[export] Instance IndicesGetUpgradePath_lawful : Lawful IndicesGetUpgradePath.
Proof. follow. Qed.

Record IndicesOpenPath := MkIndicesOpenPath { IndicesOpenPath_Indices : list string }.
Definition IndicesOpenPath_Build (p : IndicesOpenPath) : built :=
  build (requiredList "IndicesOpenPath.Indices" (IndicesOpenPath_Indices p);; writeSegments (IndicesOpenPath_Indices p);;
   writeLit "_open").
#[export] Instance IndicesOpenPath_builder : builder IndicesOpenPath :=
  {| Build := IndicesOpenPath_Build; fields p := [("index", Many (IndicesOpenPath_Indices p))]; ignored _ := [];
     templates := ["/{index}/_open"] |}.
#[export] Instance IndicesOpenPath_lawful : Lawful IndicesOpenPath.
Proof. follow. Qed.

Record IndicesPutAliasPath := MkIndicesPutAliasPath { IndicesPutAliasPath_Indices : list string; IndicesPutAliasPath_Name : string }.
Definition IndicesPutAliasPath_Build (p : IndicesPutAliasPath) : built :=
  build ((if hasNonEmpty (IndicesPutAliasPath_Indices p) && isSet (IndicesPutAliasPath_Name p) then writeSegments (IndicesPutAliasPath_Indices p);; writeLit "_alias";; writeReq (IndicesPutAliasPath_Name p)
    else if hasNonEmpty (IndicesPutAliasPath_Indices p) then writeSegments (IndicesPutAliasPath_Indices p);; writeLit "_alias"
    else if isSet (IndicesPutAliasPath_Name p) then writeLit "_alias";; writeReq (IndicesPutAliasPath_Name p)
    else writeLit "_alias")).
#[export] Instance IndicesPutAliasPath_builder : builder IndicesPutAliasPath :=
  {| Build := IndicesPutAliasPath_Build; fields p := [("name", One (IndicesPutAliasPath_Name p)); ("index", Many (IndicesPutAliasPath_Indices p))]; ignored _ := [];
     templates := ["/_alias"; "/_alias/{name}"; "/{index}/_alias"; "/{index}/_alias/{name}"] |}.
#[export] Instance IndicesPutAliasPath_lawful : Lawful IndicesPutAliasPath.
Proof. follow. Qed.

Record IndicesPutIndexTemplatePath := MkIndicesPutIndexTemplatePath { IndicesPutIndexTemplatePath_Name : string }.
Definition IndicesPutIndexTemplatePath_Build (p : IndicesPutIndexTemplatePath) : built :=
  build (required "IndicesPutIndexTemplatePath.Name" (IndicesPutIndexTemplatePath_Name p);; writeLit "_index_template";;
   writeReq (IndicesPutIndexTemplatePath_Name p)).
#[export] Instance IndicesPutIndexTemplatePath_builder : builder IndicesPutIndexTemplatePath :=
  {| Build := IndicesPutIndexTemplatePath_Build; fields p := [("name", One (IndicesPutIndexTemplatePath_Name p))]; ignored _ := [];
     templates := ["/_index_template/{name}"] |}.
#[export] Instance IndicesPutIndexTemplatePath_lawful : Lawful IndicesPutIndexTemplatePath.
Proof. follow. Qed.

Record IndicesPutMappingPath := MkIndicesPutMappingPath { IndicesPutMappingPath_Indices : list string }.
Definition IndicesPutMappingPath_Build (p : IndicesPutMappingPath) : built :=
  build (requiredList "IndicesPutMappingPath.Indices" (IndicesPutMappingPath_Indices p);;
   writeSegments (IndicesPutMappingPath_Indices p);; writeLit "_mapping").
#[export] Instance IndicesPutMappingPath_builder : builder IndicesPutMappingPath :=
  {| Build := IndicesPutMappingPath_Build; fields p := [("index", Many (IndicesPutMappingPath_Indices p))]; ignored _ := [];
     templates := ["/{index}/_mapping"] |}.
#[export] Instance IndicesPutMappingPath_lawful : Lawful IndicesPutMappingPath.
Proof. follow. Qed.

Record IndicesPutSettingsPath := MkIndicesPutSettingsPath { IndicesPutSettingsPath_Indices : list string }.
Definition IndicesPutSettingsPath_Build (p : IndicesPutSettingsPath) : built := build (writeSegments (IndicesPutSettingsPath_Indices p);; writeLit "_settings").
#[export] Instance IndicesPutSettingsPath_builder : builder IndicesPutSettingsPath :=
  {| Build := IndicesPutSettingsPath_Build; fields p := [("index", Many (IndicesPutSettingsPath_Indices p))]; ignored _ := [];
     templates := ["/_settings"; "/{index}/_settings"] |}.
#[export] Instance IndicesPutSettingsPath_lawful : Lawful IndicesPutSettingsPath.
Proof. follow. Qed.

Record IndicesPutTemplatePath := MkIndicesPutTemplatePath { IndicesPutTemplatePath_Name : string }.
Definition IndicesPutTemplatePath_Build (p : IndicesPutTemplatePath) : built :=
  build (required "IndicesPutTemplatePath.Name" (IndicesPutTemplatePath_Name p);; writeLit "_template";;
   writeReq (IndicesPutTemplatePath_Name p)).
#[export] Instance IndicesPutTemplatePath_builder : builder IndicesPutTemplatePath :=
  {| Build := IndicesPutTemplatePath_Build; fields p := [("name", One (IndicesPutTemplatePath_Name p))]; ignored _ := [];
     templates := ["/_template/{name}"] |}.
#[export] Instance IndicesPutTemplatePath_lawful : Lawful IndicesPutTemplatePath.
Proof. follow. Qed.

Record IndicesRecoveryPath := MkIndicesRecoveryPath { IndicesRecoveryPath_Indices : list string }.
Definition IndicesRecoveryPath_Build (p : IndicesRecoveryPath) : built := build (writeSegments (IndicesRecoveryPath_Indices p);; writeLit "_recovery").
#[export] Instance IndicesRecoveryPath_builder : builder IndicesRecoveryPath :=
  {| Build := IndicesRecoveryPath_Build; fields p := [("index", Many (IndicesRecoveryPath_Indices p))]; ignored _ := [];
     templates := ["/_recovery"; "/{index}/_recovery"] |}.
#[export] Instance IndicesRecoveryPath_lawful : Lawful IndicesRecoveryPath.
Proof. follow. Qed.

Record IndicesRefreshPath := MkIndicesRefreshPath { IndicesRefreshPath_Indices : list string }.
Definition IndicesRefreshPath_Build (p : IndicesRefreshPath) : built := build (writeSegments (IndicesRefreshPath_Indices p);; writeLit "_refresh").
#[export] Instance IndicesRefreshPath_builder : builder IndicesRefreshPath :=
  {| Build := IndicesRefreshPath_Build; fields p := [("index", Many (IndicesRefreshPath_Indices p))]; ignored _ := [];
     templates := ["/_refresh"; "/{index}/_refresh"] |}.
#[export] Instance IndicesRefreshPath_lawful : Lawful IndicesRefreshPath.
Proof. follow. Qed.

Record IndicesResolveIndexPath := MkIndicesResolveIndexPath { IndicesResolveIndexPath_Name : list string }.
Definition IndicesResolveIndexPath_Build (p : IndicesResolveIndexPath) : built :=
  build (requiredList "IndicesResolveIndexPath.Name" (IndicesResolveIndexPath_Name p);; writeLit "_resolve";; writeLit "index";;
   writeSegments (IndicesResolveIndexPath_Name p)).
#[export] Instance IndicesResolveIndexPath_builder : builder IndicesResolveIndexPath :=
  {| Build := IndicesResolveIndexPath_Build; fields p := [("name", Many (IndicesResolveIndexPath_Name p))]; ignored _ := [];
     templates := ["/_resolve/index/{name}"] |}.
#[export] Instance IndicesResolveIndexPath_lawful : Lawful IndicesResolveIndexPath.
Proof. follow. Qed.

Record IndicesRolloverPath := MkIndicesRolloverPath { IndicesRolloverPath_Alias : string; IndicesRolloverPath_NewIndex : string }.
Definition IndicesRolloverPath_Build (p : IndicesRolloverPath) : built :=
  build (required "IndicesRolloverPath.Alias" (IndicesRolloverPath_Alias p);; writeReq (IndicesRolloverPath_Alias p);;
   writeLit "_rollover";; when (isSet (IndicesRolloverPath_NewIndex p)) (writeReq (IndicesRolloverPath_NewIndex p))).
#[export] Instance IndicesRolloverPath_builder : builder IndicesRolloverPath :=
  {| Build := IndicesRolloverPath_Build; fields p := [("alias", One (IndicesRolloverPath_Alias p)); ("new_index", One (IndicesRolloverPath_NewIndex p))]; ignored _ := [];
     templates := ["/{alias}/_rollover"; "/{alias}/_rollover/{new_index}"] |}.
#[export] Instance IndicesRolloverPath_lawful : Lawful IndicesRolloverPath.
Proof. follow. Qed.

Record IndicesSegmentsPath := MkIndicesSegmentsPath { IndicesSegmentsPath_Indices : list string }.
Definition IndicesSegmentsPath_Build (p : IndicesSegmentsPath) : built := build (writeSegments (IndicesSegmentsPath_Indices p);; writeLit "_segments").
#[export] Instance IndicesSegmentsPath_builder : builder IndicesSegmentsPath :=
  {| Build := IndicesSegmentsPath_Build; fields p := [("index", Many (IndicesSegmentsPath_Indices p))]; ignored _ := [];
     templates := ["/_segments"; "/{index}/_segments"] |}.
#[export] Instance IndicesSegmentsPath_lawful : Lawful IndicesSegmentsPath.
Proof. follow. Qed.

Record IndicesShardStoresPath := MkIndicesShardStoresPath { IndicesShardStoresPath_Indices : list string }.
Definition IndicesShardStoresPath_Build (p : IndicesShardStoresPath) : built := build (writeSegments (IndicesShardStoresPath_Indices p);; writeLit "_shard_stores").
#[export] Instance IndicesShardStoresPath_builder : builder IndicesShardStoresPath :=
  {| Build := IndicesShardStoresPath_Build; fields p := [("index", Many (IndicesShardStoresPath_Indices p))]; ignored _ := [];
     templates := ["/_shard_stores"; "/{index}/_shard_stores"] |}.
#[export] Instance IndicesShardStoresPath_lawful : Lawful IndicesShardStoresPath.
Proof. follow. Qed.

Record IndicesShrinkPath := MkIndicesShrinkPath { IndicesShrinkPath_Index : string; IndicesShrinkPath_Target : string }.
Definition IndicesShrinkPath_Build (p : IndicesShrinkPath) : built :=
  build (required "IndicesShrinkPath.Index" (IndicesShrinkPath_Index p);;
   required "IndicesShrinkPath.Target" (IndicesShrinkPath_Target p);; writeReq (IndicesShrinkPath_Index p);;
   writeLit "_shrink";; writeReq (IndicesShrinkPath_Target p)).
#[export] Instance IndicesShrinkPath_builder : builder IndicesShrinkPath :=
  {| Build := IndicesShrinkPath_Build; fields p := [("index", One (IndicesShrinkPath_Index p)); ("target", One (IndicesShrinkPath_Target p))]; ignored _ := [];
     templates := ["/{index}/_shrink/{target}"] |}.
#[export] Instance IndicesShrinkPath_lawful : Lawful IndicesShrinkPath.
Proof. follow. Qed.

Record IndicesSimulateIndexTemplatePath := MkIndicesSimulateIndexTemplatePath { IndicesSimulateIndexTemplatePath_Name : string }.
Definition IndicesSimulateIndexTemplatePath_Build (p : IndicesSimulateIndexTemplatePath) : built :=
  build (required "IndicesSimulateIndexTemplatePath.Name" (IndicesSimulateIndexTemplatePath_Name p);; writeLit "_index_template";;
   writeLit "_simulate_index";; writeReq (IndicesSimulateIndexTemplatePath_Name p)).
#[export] Instance IndicesSimulateIndexTemplatePath_builder : builder IndicesSimulateIndexTemplatePath :=
  {| Build := IndicesSimulateIndexTemplatePath_Build; fields p := [("name", One (IndicesSimulateIndexTemplatePath_Name p))]; ignored _ := [];
     templates := ["/_index_template/_simulate_index/{name}"] |}.
#[export] Instance IndicesSimulateIndexTemplatePath_lawful : Lawful IndicesSimulateIndexTemplatePath.
Proof. follow. Qed.

Record IndicesSimulateTemplatePath := MkIndicesSimulateTemplatePath { IndicesSimulateTemplatePath_Name : string }.
Definition IndicesSimulateTemplatePath_Build (p : IndicesSimulateTemplatePath) : built :=
  build (writeLit "_index_template";; writeLit "_simulate";;
   when (isSet (IndicesSimulateTemplatePath_Name p)) (writeReq (IndicesSimulateTemplatePath_Name p))).
#[export] Instance IndicesSimulateTemplatePath_builder : builder IndicesSimulateTemplatePath :=
  {| Build := IndicesSimulateTemplatePath_Build; fields p := [("name", One (IndicesSimulateTemplatePath_Name p))]; ignored _ := [];
     templates := ["/_index_template/_simulate"; "/_index_template/_simulate/{name}"] |}.
#[export] Instance IndicesSimulateTemplatePath_lawful : Lawful IndicesSimulateTemplatePath.
Proof. follow. Qed.

Record IndicesSplitPath := MkIndicesSplitPath { IndicesSplitPath_Index : string; IndicesSplitPath_Target : string }.
Definition IndicesSplitPath_Build (p : IndicesSplitPath) : built :=
  build (required "IndicesSplitPath.Index" (IndicesSplitPath_Index p);;
   required "IndicesSplitPath.Target" (IndicesSplitPath_Target p);; writeReq (IndicesSplitPath_Index p);; writeLit "_split";;
   writeReq (IndicesSplitPath_Target p)).
#[export] Instance IndicesSplitPath_builder : builder IndicesSplitPath :=
  {| Build := IndicesSplitPath_Build; fields p := [("index", One (IndicesSplitPath_Index p)); ("target", One (IndicesSplitPath_Target p))]; ignored _ := [];
     templates := ["/{index}/_split/{target}"] |}.
#[export] Instance IndicesSplitPath_lawful : Lawful IndicesSplitPath.
Proof. follow. Qed.

Record IndicesStatsPath := MkIndicesStatsPath { IndicesStatsPath_Indices : list string; IndicesStatsPath_Metric : list string }.
Definition IndicesStatsPath_Build (p : IndicesStatsPath) : built :=
  build ((if hasNonEmpty (IndicesStatsPath_Indices p) && hasNonEmpty (IndicesStatsPath_Metric p) then writeSegments (IndicesStatsPath_Indices p);; writeLit "_stats";; writeSegments (IndicesStatsPath_Metric p)
    else if hasNonEmpty (IndicesStatsPath_Indices p) then writeSegments (IndicesStatsPath_Indices p);; writeLit "_stats"
    else if hasNonEmpty (IndicesStatsPath_Metric p) then writeLit "_stats";; writeSegments (IndicesStatsPath_Metric p)
    else writeLit "_stats")).
#[export] Instance IndicesStatsPath_builder : builder IndicesStatsPath :=
  {| Build := IndicesStatsPath_Build; fields p := [("metric", Many (IndicesStatsPath_Metric p)); ("index", Many (IndicesStatsPath_Indices p))]; ignored _ := [];
     templates := ["/_stats"; "/_stats/{metric}"; "/{index}/_stats"; "/{index}/_stats/{metric}"] |}.
#[export] Instance IndicesStatsPath_lawful : Lawful IndicesStatsPath.
Proof. follow. Qed.

Record IndicesUpdateAliasesPath := MkIndicesUpdateAliasesPath {  }.
Definition IndicesUpdateAliasesPath_Build (p : IndicesUpdateAliasesPath) : built := build (writeLit "_aliases").
#[export] Instance IndicesUpdateAliasesPath_builder : builder IndicesUpdateAliasesPath :=
  {| Build := IndicesUpdateAliasesPath_Build; fields _ := []; ignored _ := [];
     templates := ["/_aliases"] |}.
#[export] Instance IndicesUpdateAliasesPath_lawful : Lawful IndicesUpdateAliasesPath.
Proof. follow. Qed.

Record IndicesUpgradePath := MkIndicesUpgradePath { IndicesUpgradePath_Indices : list string }.
Definition IndicesUpgradePath_Build (p : IndicesUpgradePath) : built := build (writeSegments (IndicesUpgradePath_Indices p);; writeLit "_upgrade").
#[export] Instance IndicesUpgradePath_builder : builder IndicesUpgradePath :=
  {| Build := IndicesUpgradePath_Build; fields p := [("index", Many (IndicesUpgradePath_Indices p))]; ignored _ := [];
     templates := ["/_upgrade"; "/{index}/_upgrade"] |}.
#[export] Instance IndicesUpgradePath_lawful : Lawful IndicesUpgradePath.
Proof. follow. Qed.

Record IndicesValidateQueryPath := MkIndicesValidateQueryPath { IndicesValidateQueryPath_Indices : list string }.
Definition IndicesValidateQueryPath_Build (p : IndicesValidateQueryPath) : built :=
  build (writeSegments (IndicesValidateQueryPath_Indices p);; writeLit "_validate";; writeLit "query").
#[export] Instance IndicesValidateQueryPath_builder : builder IndicesValidateQueryPath :=
  {| Build := IndicesValidateQueryPath_Build; fields p := [("index", Many (IndicesValidateQueryPath_Indices p))]; ignored _ := [];
     templates := ["/_validate/query"; "/{index}/_validate/query"] |}.
#[export] Instance IndicesValidateQueryPath_lawful : Lawful IndicesValidateQueryPath.
Proof. follow. Qed.

Record IngestDeletePipelinePath := MkIngestDeletePipelinePath { IngestDeletePipelinePath_ID : string }.
Definition IngestDeletePipelinePath_Build (p : IngestDeletePipelinePath) : built :=
  build (required "IngestDeletePipelinePath.ID" (IngestDeletePipelinePath_ID p);; writeLit "_ingest";; writeLit "pipeline";;
   writeReq (IngestDeletePipelinePath_ID p)).
#[export] Instance IngestDeletePipelinePath_builder : builder IngestDeletePipelinePath :=
  {| Build := IngestDeletePipelinePath_Build; fields p := [("id", One (IngestDeletePipelinePath_ID p))]; ignored _ := [];
     templates := ["/_ingest/pipeline/{id}"] |}.
#[export] Instance IngestDeletePipelinePath_lawful : Lawful IngestDeletePipelinePath.
Proof. follow. Qed.

Record IngestGetPipelinePath := MkIngestGetPipelinePath { IngestGetPipelinePath_ID : string }.
Definition IngestGetPipelinePath_Build (p : IngestGetPipelinePath) : built :=
  build (writeLit "_ingest";; writeLit "pipeline";;
   when (isSet (IngestGetPipelinePath_ID p)) (writeReq (IngestGetPipelinePath_ID p))).
#[export] Instance IngestGetPipelinePath_builder : builder IngestGetPipelinePath :=
  {| Build := IngestGetPipelinePath_Build; fields p := [("id", One (IngestGetPipelinePath_ID p))]; ignored _ := [];
     templates := ["/_ingest/pipeline"; "/_ingest/pipeline/{id}"] |}.
#[export] Instance IngestGetPipelinePath_lawful : Lawful IngestGetPipelinePath.
Proof. follow. Qed.

Record IngestProcessorGrokPath := MkIngestProcessorGrokPath {  }.
Definition IngestProcessorGrokPath_Build (p : IngestProcessorGrokPath) : built := build (writeLit "_ingest";; writeLit "processor";; writeLit "grok").
#[export] Instance IngestProcessorGrokPath_builder : builder IngestProcessorGrokPath :=
  {| Build := IngestProcessorGrokPath_Build; fields _ := []; ignored _ := [];
     templates := ["/_ingest/processor/grok"] |}.
#[export] Instance IngestProcessorGrokPath_lawful : Lawful IngestProcessorGrokPath.
Proof. follow. Qed.

Record IngestPutPipelinePath := MkIngestPutPipelinePath { IngestPutPipelinePath_ID : string }.
Definition IngestPutPipelinePath_Build (p : IngestPutPipelinePath) : built :=
  build (required "IngestPutPipelinePath.ID" (IngestPutPipelinePath_ID p);; writeLit "_ingest";; writeLit "pipeline";;
   writeReq (IngestPutPipelinePath_ID p)).
#[export] Instance IngestPutPipelinePath_builder : builder IngestPutPipelinePath :=
  {| Build := IngestPutPipelinePath_Build; fields p := [("id", One (IngestPutPipelinePath_ID p))]; ignored _ := [];
     templates := ["/_ingest/pipeline/{id}"] |}.
#[export] Instance IngestPutPipelinePath_lawful : Lawful IngestPutPipelinePath.
Proof. follow. Qed.

Record IngestSimulatePath := MkIngestSimulatePath { IngestSimulatePath_ID : string }.
Definition IngestSimulatePath_Build (p : IngestSimulatePath) : built :=
  build (writeLit "_ingest";; writeLit "pipeline";; when (isSet (IngestSimulatePath_ID p)) (writeReq (IngestSimulatePath_ID p));;
   writeLit "_simulate").
#[export] Instance IngestSimulatePath_builder : builder IngestSimulatePath :=
  {| Build := IngestSimulatePath_Build; fields p := [("id", One (IngestSimulatePath_ID p))]; ignored _ := [];
     templates := ["/_ingest/pipeline/_simulate"; "/_ingest/pipeline/{id}/_simulate"] |}.
#[export] Instance IngestSimulatePath_lawful : Lawful IngestSimulatePath.
Proof. follow. Qed.

Record IngestionGetStatePath := MkIngestionGetStatePath { IngestionGetStatePath_Index : string }.
Definition IngestionGetStatePath_Build (p : IngestionGetStatePath) : built :=
  build (required "IngestionGetStatePath.Index" (IngestionGetStatePath_Index p);; writeReq (IngestionGetStatePath_Index p);;
   writeLit "ingestion";; writeLit "_state").
#[export] Instance IngestionGetStatePath_builder : builder IngestionGetStatePath :=
  {| Build := IngestionGetStatePath_Build; fields p := [("index", One (IngestionGetStatePath_Index p))]; ignored _ := [];
     templates := ["/{index}/ingestion/_state"] |}.
#[export] Instance IngestionGetStatePath_lawful : Lawful IngestionGetStatePath.
Proof. follow. Qed.

Record IngestionPausePath := MkIngestionPausePath { IngestionPausePath_Index : string }.
Definition IngestionPausePath_Build (p : IngestionPausePath) : built :=
  build (required "IngestionPausePath.Index" (IngestionPausePath_Index p);; writeReq (IngestionPausePath_Index p);;
   writeLit "ingestion";; writeLit "_pause").
#[export] Instance IngestionPausePath_builder : builder IngestionPausePath :=
  {| Build := IngestionPausePath_Build; fields p := [("index", One (IngestionPausePath_Index p))]; ignored _ := [];
     templates := ["/{index}/ingestion/_pause"] |}.
#[export] Instance IngestionPausePath_lawful : Lawful IngestionPausePath.
Proof. follow. Qed.

Record IngestionResumePath := MkIngestionResumePath { IngestionResumePath_Index : string }.
Definition IngestionResumePath_Build (p : IngestionResumePath) : built :=
  build (required "IngestionResumePath.Index" (IngestionResumePath_Index p);; writeReq (IngestionResumePath_Index p);;
   writeLit "ingestion";; writeLit "_resume").
#[export] Instance IngestionResumePath_builder : builder IngestionResumePath :=
  {| Build := IngestionResumePath_Build; fields p := [("index", One (IngestionResumePath_Index p))]; ignored _ := [];
     templates := ["/{index}/ingestion/_resume"] |}.
#[export] Instance IngestionResumePath_lawful : Lawful IngestionResumePath.
Proof. follow. Qed.

Record InsightsTopQueriesPath := MkInsightsTopQueriesPath {  }.
Definition InsightsTopQueriesPath_Build (p : InsightsTopQueriesPath) : built := build (writeLit "_insights";; writeLit "top_queries").
#[export] Instance InsightsTopQueriesPath_builder : builder InsightsTopQueriesPath :=
  {| Build := InsightsTopQueriesPath_Build; fields _ := []; ignored _ := [];
     templates := ["/_insights/top_queries"] |}.
#[export] Instance InsightsTopQueriesPath_lawful : Lawful InsightsTopQueriesPath.
Proof. follow. Qed.

Record ISMAddPolicyPath := MkISMAddPolicyPath { ISMAddPolicyPath_Indices : list string }.
Definition ISMAddPolicyPath_Build (p : ISMAddPolicyPath) : built :=
  build (writeLit "_plugins";; writeLit "_ism";; writeLit "add";; writeSegments (ISMAddPolicyPath_Indices p)).
#[export] Instance ISMAddPolicyPath_builder : builder ISMAddPolicyPath :=
  {| Build := ISMAddPolicyPath_Build; fields p := [("index", Many (ISMAddPolicyPath_Indices p))]; ignored _ := [];
     templates := ["/_plugins/_ism/add"; "/_plugins/_ism/add/{index}"] |}.
#[export] Instance ISMAddPolicyPath_lawful : Lawful ISMAddPolicyPath.
Proof. follow. Qed.

Record ISMChangePolicyPath := MkISMChangePolicyPath { ISMChangePolicyPath_Indices : list string }.
Definition ISMChangePolicyPath_Build (p : ISMChangePolicyPath) : built :=
  build (writeLit "_plugins";; writeLit "_ism";; writeLit "change_policy";; writeSegments (ISMChangePolicyPath_Indices p)).
#[export] Instance ISMChangePolicyPath_builder : builder ISMChangePolicyPath :=
  {| Build := ISMChangePolicyPath_Build; fields p := [("index", Many (ISMChangePolicyPath_Indices p))]; ignored _ := [];
     templates := ["/_plugins/_ism/change_policy"; "/_plugins/_ism/change_policy/{index}"] |}.
#[export] Instance ISMChangePolicyPath_lawful : Lawful ISMChangePolicyPath.
Proof. follow. Qed.

Record ISMDeletePolicyPath := MkISMDeletePolicyPath { ISMDeletePolicyPath_PolicyID : string }.
Definition ISMDeletePolicyPath_Build (p : ISMDeletePolicyPath) : built :=
  build (required "ISMDeletePolicyPath.PolicyID" (ISMDeletePolicyPath_PolicyID p);; writeLit "_plugins";; writeLit "_ism";;
   writeLit "policies";; writeReq (ISMDeletePolicyPath_PolicyID p)).
#[export] Instance ISMDeletePolicyPath_builder : builder ISMDeletePolicyPath :=
  {| Build := ISMDeletePolicyPath_Build; fields p := [("policy_id", One (ISMDeletePolicyPath_PolicyID p))]; ignored _ := [];
     templates := ["/_plugins/_ism/policies/{policy_id}"] |}.
#[export] Instance ISMDeletePolicyPath_lawful : Lawful ISMDeletePolicyPath.
Proof. follow. Qed.

Record ISMExistsPolicyPath := MkISMExistsPolicyPath { ISMExistsPolicyPath_PolicyID : string }.
Definition ISMExistsPolicyPath_Build (p : ISMExistsPolicyPath) : built :=
  build (required "ISMExistsPolicyPath.PolicyID" (ISMExistsPolicyPath_PolicyID p);; writeLit "_plugins";; writeLit "_ism";;
   writeLit "policies";; writeReq (ISMExistsPolicyPath_PolicyID p)).
#[export] Instance ISMExistsPolicyPath_builder : builder ISMExistsPolicyPath :=
  {| Build := ISMExistsPolicyPath_Build; fields p := [("policy_id", One (ISMExistsPolicyPath_PolicyID p))]; ignored _ := [];
     templates := ["/_plugins/_ism/policies/{policy_id}"] |}.
#[export] Instance ISMExistsPolicyPath_lawful : Lawful ISMExistsPolicyPath.
Proof. follow. Qed.

Record ISMExplainPolicyPath := MkISMExplainPolicyPath { ISMExplainPolicyPath_Indices : list string }.
Definition ISMExplainPolicyPath_Build (p : ISMExplainPolicyPath) : built :=
  build (writeLit "_plugins";; writeLit "_ism";; writeLit "explain";; writeSegments (ISMExplainPolicyPath_Indices p)).
#[export] Instance ISMExplainPolicyPath_builder : builder ISMExplainPolicyPath :=
  {| Build := ISMExplainPolicyPath_Build; fields p := [("index", Many (ISMExplainPolicyPath_Indices p))]; ignored _ := [];
     templates := ["/_plugins/_ism/explain"; "/_plugins/_ism/explain/{index}"] |}.
#[export] Instance ISMExplainPolicyPath_lawful : Lawful ISMExplainPolicyPath.
Proof. follow. Qed.

Record ISMGetPoliciesPath := MkISMGetPoliciesPath {  }.
Definition ISMGetPoliciesPath_Build (p : ISMGetPoliciesPath) : built := build (writeLit "_plugins";; writeLit "_ism";; writeLit "policies").
#[export] Instance ISMGetPoliciesPath_builder : builder ISMGetPoliciesPath :=
  {| Build := ISMGetPoliciesPath_Build; fields _ := []; ignored _ := [];
     templates := ["/_plugins/_ism/policies"] |}.
#[export] Instance ISMGetPoliciesPath_lawful : Lawful ISMGetPoliciesPath.
Proof. follow. Qed.

Record ISMGetPolicyPath := MkISMGetPolicyPath { ISMGetPolicyPath_PolicyID : string }.
Definition ISMGetPolicyPath_Build (p : ISMGetPolicyPath) : built :=
  build (required "ISMGetPolicyPath.PolicyID" (ISMGetPolicyPath_PolicyID p);; writeLit "_plugins";; writeLit "_ism";;
   writeLit "policies";; writeReq (ISMGetPolicyPath_PolicyID p)).
#[export] Instance ISMGetPolicyPath_builder : builder ISMGetPolicyPath :=
  {| Build := ISMGetPolicyPath_Build; fields p := [("policy_id", One (ISMGetPolicyPath_PolicyID p))]; ignored _ := [];
     templates := ["/_plugins/_ism/policies/{policy_id}"] |}.
#[export] Instance ISMGetPolicyPath_lawful : Lawful ISMGetPolicyPath.
Proof. follow. Qed.

Record ISMPutPoliciesPath := MkISMPutPoliciesPath {  }.
Definition ISMPutPoliciesPath_Build (p : ISMPutPoliciesPath) : built := build (writeLit "_plugins";; writeLit "_ism";; writeLit "policies").
#[export] Instance ISMPutPoliciesPath_builder : builder ISMPutPoliciesPath :=
  {| Build := ISMPutPoliciesPath_Build; fields _ := []; ignored _ := [];
     templates := ["/_plugins/_ism/policies"] |}.
#[export] Instance ISMPutPoliciesPath_lawful : Lawful ISMPutPoliciesPath.
Proof. follow. Qed.

Record ISMPutPolicyPath := MkISMPutPolicyPath { ISMPutPolicyPath_PolicyID : string }.
Definition ISMPutPolicyPath_Build (p : ISMPutPolicyPath) : built :=
  build (required "ISMPutPolicyPath.PolicyID" (ISMPutPolicyPath_PolicyID p);; writeLit "_plugins";; writeLit "_ism";;
   writeLit "policies";; writeReq (ISMPutPolicyPath_PolicyID p)).
#[export] Instance ISMPutPolicyPath_builder : builder ISMPutPolicyPath :=
  {| Build := ISMPutPolicyPath_Build; fields p := [("policy_id", One (ISMPutPolicyPath_PolicyID p))]; ignored _ := [];
     templates := ["/_plugins/_ism/policies/{policy_id}"] |}.
#[export] Instance ISMPutPolicyPath_lawful : Lawful ISMPutPolicyPath.
Proof. follow. Qed.

Record ISMRefreshSearchAnalyzersPath := MkISMRefreshSearchAnalyzersPath { ISMRefreshSearchAnalyzersPath_Indices : list string }.
Definition ISMRefreshSearchAnalyzersPath_Build (p : ISMRefreshSearchAnalyzersPath) : built :=
  build (requiredList "ISMRefreshSearchAnalyzersPath.Indices" (ISMRefreshSearchAnalyzersPath_Indices p);; writeLit "_plugins";;
   writeLit "_refresh_search_analyzers";; writeSegments (ISMRefreshSearchAnalyzersPath_Indices p)).
#[export] Instance ISMRefreshSearchAnalyzersPath_builder : builder ISMRefreshSearchAnalyzersPath :=
  {| Build := ISMRefreshSearchAnalyzersPath_Build; fields p := [("index", Many (ISMRefreshSearchAnalyzersPath_Indices p))]; ignored _ := [];
     templates := ["/_plugins/_refresh_search_analyzers/{index}"] |}.
#[export] Instance ISMRefreshSearchAnalyzersPath_lawful : Lawful ISMRefreshSearchAnalyzersPath.
Proof. follow. Qed.

Record ISMRemovePolicyPath := MkISMRemovePolicyPath { ISMRemovePolicyPath_Indices : list string }.
Definition ISMRemovePolicyPath_Build (p : ISMRemovePolicyPath) : built :=
  build (writeLit "_plugins";; writeLit "_ism";; writeLit "remove";; writeSegments (ISMRemovePolicyPath_Indices p)).
#[export] Instance ISMRemovePolicyPath_builder : builder ISMRemovePolicyPath :=
  {| Build := ISMRemovePolicyPath_Build; fields p := [("index", Many (ISMRemovePolicyPath_Indices p))]; ignored _ := [];
     templates := ["/_plugins/_ism/remove"; "/_plugins/_ism/remove/{index}"] |}.
#[export] Instance ISMRemovePolicyPath_lawful : Lawful ISMRemovePolicyPath.
Proof. follow. Qed.

Record ISMRetryIndexPath := MkISMRetryIndexPath { ISMRetryIndexPath_Indices : list string }.
Definition ISMRetryIndexPath_Build (p : ISMRetryIndexPath) : built :=
  build (writeLit "_plugins";; writeLit "_ism";; writeLit "retry";; writeSegments (ISMRetryIndexPath_Indices p)).
#[export] Instance ISMRetryIndexPath_builder : builder ISMRetryIndexPath :=
  {| Build := ISMRetryIndexPath_Build; fields p := [("index", Many (ISMRetryIndexPath_Indices p))]; ignored _ := [];
     templates := ["/_plugins/_ism/retry"; "/_plugins/_ism/retry/{index}"] |}.
#[export] Instance ISMRetryIndexPath_lawful : Lawful ISMRetryIndexPath.
Proof. follow. Qed.

Record ListHelpPath := MkListHelpPath {  }.
Definition ListHelpPath_Build (p : ListHelpPath) : built := build (writeLit "_list").
#[export] Instance ListHelpPath_builder : builder ListHelpPath :=
  {| Build := ListHelpPath_Build; fields _ := []; ignored _ := [];
     templates := ["/_list"] |}.
#[export] Instance ListHelpPath_lawful : Lawful ListHelpPath.
Proof. follow. Qed.

Record ListIndicesPath := MkListIndicesPath { ListIndicesPath_Indices : list string }.
Definition ListIndicesPath_Build (p : ListIndicesPath) : built := build (writeLit "_list";; writeLit "indices";; writeSegments (ListIndicesPath_Indices p)).
#[export] Instance ListIndicesPath_builder : builder ListIndicesPath :=
  {| Build := ListIndicesPath_Build; fields p := [("index", Many (ListIndicesPath_Indices p))]; ignored _ := [];
     templates := ["/_list/indices"; "/_list/indices/{index}"] |}.
#[export] Instance ListIndicesPath_lawful : Lawful ListIndicesPath.
Proof. follow. Qed.

Record ListShardsPath := MkListShardsPath { ListShardsPath_Indices : list string }.
Definition ListShardsPath_Build (p : ListShardsPath) : built := build (writeLit "_list";; writeLit "shards";; writeSegments (ListShardsPath_Indices p)).
#[export] Instance ListShardsPath_builder : builder ListShardsPath :=
  {| Build := ListShardsPath_Build; fields p := [("index", Many (ListShardsPath_Indices p))]; ignored _ := [];
     templates := ["/_list/shards"; "/_list/shards/{index}"] |}.
#[export] Instance ListShardsPath_lawful : Lawful ListShardsPath.
Proof. follow. Qed.

Record ReplicationAutofollowStatsPath := MkReplicationAutofollowStatsPath {  }.
Definition ReplicationAutofollowStatsPath_Build (p : ReplicationAutofollowStatsPath) : built :=
  build (writeLit "_plugins";; writeLit "_replication";; writeLit "autofollow_stats").
#[export] Instance ReplicationAutofollowStatsPath_builder : builder ReplicationAutofollowStatsPath :=
  {| Build := ReplicationAutofollowStatsPath_Build; fields _ := []; ignored _ := [];
     templates := ["/_plugins/_replication/autofollow_stats"] |}.
#[export] Instance ReplicationAutofollowStatsPath_lawful : Lawful ReplicationAutofollowStatsPath.
Proof. follow. Qed.

Record ReplicationCreateReplicationRulePath := MkReplicationCreateReplicationRulePath {  }.
Definition ReplicationCreateReplicationRulePath_Build (p : ReplicationCreateReplicationRulePath) : built :=
  build (writeLit "_plugins";; writeLit "_replication";; writeLit "_autofollow").
#[export] Instance ReplicationCreateReplicationRulePath_builder : builder ReplicationCreateReplicationRulePath :=
  {| Build := ReplicationCreateReplicationRulePath_Build; fields _ := []; ignored _ := [];
     templates := ["/_plugins/_replication/_autofollow"] |}.
#[export] Instance ReplicationCreateReplicationRulePath_lawful : Lawful ReplicationCreateReplicationRulePath.
Proof. follow. Qed.

Record ReplicationDeleteReplicationRulePath := MkReplicationDeleteReplicationRulePath {  }.
Definition ReplicationDeleteReplicationRulePath_Build (p : ReplicationDeleteReplicationRulePath) : built :=
  build (writeLit "_plugins";; writeLit "_replication";; writeLit "_autofollow").
#[export] Instance ReplicationDeleteReplicationRulePath_builder : builder ReplicationDeleteReplicationRulePath :=
  {| Build := ReplicationDeleteReplicationRulePath_Build; fields _ := []; ignored _ := [];
     templates := ["/_plugins/_replication/_autofollow"] |}.
#[export] Instance ReplicationDeleteReplicationRulePath_lawful : Lawful ReplicationDeleteReplicationRulePath.
Proof. follow. Qed.

Record ReplicationFollowerStatsPath := MkReplicationFollowerStatsPath {  }.
Definition ReplicationFollowerStatsPath_Build (p : ReplicationFollowerStatsPath) : built :=
  build (writeLit "_plugins";; writeLit "_replication";; writeLit "follower_stats").
#[export] Instance ReplicationFollowerStatsPath_builder : builder ReplicationFollowerStatsPath :=
  {| Build := ReplicationFollowerStatsPath_Build; fields _ := []; ignored _ := [];
     templates := ["/_plugins/_replication/follower_stats"] |}.
#[export] Instance ReplicationFollowerStatsPath_lawful : Lawful ReplicationFollowerStatsPath.
Proof. follow. Qed.

Record ReplicationLeaderStatsPath := MkReplicationLeaderStatsPath {  }.
Definition ReplicationLeaderStatsPath_Build (p : ReplicationLeaderStatsPath) : built := build (writeLit "_plugins";; writeLit "_replication";; writeLit "leader_stats").
#[export] Instance ReplicationLeaderStatsPath_builder : builder ReplicationLeaderStatsPath :=
  {| Build := ReplicationLeaderStatsPath_Build; fields _ := []; ignored _ := [];
     templates := ["/_plugins/_replication/leader_stats"] |}.
#[export] Instance ReplicationLeaderStatsPath_lawful : Lawful ReplicationLeaderStatsPath.
Proof. follow. Qed.

Record ReplicationPausePath := MkReplicationPausePath { ReplicationPausePath_Index : string }.
Definition ReplicationPausePath_Build (p : ReplicationPausePath) : built :=
  build (required "ReplicationPausePath.Index" (ReplicationPausePath_Index p);; writeLit "_plugins";; writeLit "_replication";;
   writeReq (ReplicationPausePath_Index p);; writeLit "_pause").
#[export] Instance ReplicationPausePath_builder : builder ReplicationPausePath :=
  {| Build := ReplicationPausePath_Build; fields p := [("index", One (ReplicationPausePath_Index p))]; ignored _ := [];
     templates := ["/_plugins/_replication/{index}/_pause"] |}.
#[export] Instance ReplicationPausePath_lawful : Lawful ReplicationPausePath.
Proof. follow. Qed.

Record ReplicationResumePath := MkReplicationResumePath { ReplicationResumePath_Index : string }.
Definition ReplicationResumePath_Build (p : ReplicationResumePath) : built :=
  build (required "ReplicationResumePath.Index" (ReplicationResumePath_Index p);; writeLit "_plugins";; writeLit "_replication";;
   writeReq (ReplicationResumePath_Index p);; writeLit "_resume").
#[export] Instance ReplicationResumePath_builder : builder ReplicationResumePath :=
  {| Build := ReplicationResumePath_Build; fields p := [("index", One (ReplicationResumePath_Index p))]; ignored _ := [];
     templates := ["/_plugins/_replication/{index}/_resume"] |}.
#[export] Instance ReplicationResumePath_lawful : Lawful ReplicationResumePath.
Proof. follow. Qed.

Record ReplicationStartPath := MkReplicationStartPath { ReplicationStartPath_Index : string }.
Definition ReplicationStartPath_Build (p : ReplicationStartPath) : built :=
  build (required "ReplicationStartPath.Index" (ReplicationStartPath_Index p);; writeLit "_plugins";; writeLit "_replication";;
   writeReq (ReplicationStartPath_Index p);; writeLit "_start").
#[export] Instance ReplicationStartPath_builder : builder ReplicationStartPath :=
  {| Build := ReplicationStartPath_Build; fields p := [("index", One (ReplicationStartPath_Index p))]; ignored _ := [];
     templates := ["/_plugins/_replication/{index}/_start"] |}.
#[export] Instance ReplicationStartPath_lawful : Lawful ReplicationStartPath.
Proof. follow. Qed.

Record ReplicationStatusPath := MkReplicationStatusPath { ReplicationStatusPath_Index : string }.
Definition ReplicationStatusPath_Build (p : ReplicationStatusPath) : built :=
  build (required "ReplicationStatusPath.Index" (ReplicationStatusPath_Index p);; writeLit "_plugins";; writeLit "_replication";;
   writeReq (ReplicationStatusPath_Index p);; writeLit "_status").
#[export] Instance ReplicationStatusPath_builder : builder ReplicationStatusPath :=
  {| Build := ReplicationStatusPath_Build; fields p := [("index", One (ReplicationStatusPath_Index p))]; ignored _ := [];
     templates := ["/_plugins/_replication/{index}/_status"] |}.
#[export] Instance ReplicationStatusPath_lawful : Lawful ReplicationStatusPath.
Proof. follow. Qed.

Record ReplicationStopPath := MkReplicationStopPath { ReplicationStopPath_Index : string }.
Definition ReplicationStopPath_Build (p : ReplicationStopPath) : built :=
  build (required "ReplicationStopPath.Index" (ReplicationStopPath_Index p);; writeLit "_plugins";; writeLit "_replication";;
   writeReq (ReplicationStopPath_Index p);; writeLit "_stop").
#[export] Instance ReplicationStopPath_builder : builder ReplicationStopPath :=
  {| Build := ReplicationStopPath_Build; fields p := [("index", One (ReplicationStopPath_Index p))]; ignored _ := [];
     templates := ["/_plugins/_replication/{index}/_stop"] |}.
#[export] Instance ReplicationStopPath_lawful : Lawful ReplicationStopPath.
Proof. follow. Qed.

Record ReplicationUpdateSettingsPath := MkReplicationUpdateSettingsPath { ReplicationUpdateSettingsPath_Index : string }.
Definition ReplicationUpdateSettingsPath_Build (p : ReplicationUpdateSettingsPath) : built :=
  build (required "ReplicationUpdateSettingsPath.Index" (ReplicationUpdateSettingsPath_Index p);; writeLit "_plugins";;
   writeLit "_replication";; writeReq (ReplicationUpdateSettingsPath_Index p);; writeLit "_update").
#[export] Instance ReplicationUpdateSettingsPath_builder : builder ReplicationUpdateSettingsPath :=
  {| Build := ReplicationUpdateSettingsPath_Build; fields p := [("index", One (ReplicationUpdateSettingsPath_Index p))]; ignored _ := [];
     templates := ["/_plugins/_replication/{index}/_update"] |}.
#[export] Instance ReplicationUpdateSettingsPath_lawful : Lawful ReplicationUpdateSettingsPath.
Proof. follow. Qed.

Record RollupsDeletePath := MkRollupsDeletePath { RollupsDeletePath_ID : string }.
Definition RollupsDeletePath_Build (p : RollupsDeletePath) : built :=
  build (required "RollupsDeletePath.ID" (RollupsDeletePath_ID p);; writeLit "_plugins";; writeLit "_rollup";; writeLit "jobs";;
   writeReq (RollupsDeletePath_ID p)).
#[export] Instance RollupsDeletePath_builder : builder RollupsDeletePath :=
  {| Build := RollupsDeletePath_Build; fields p := [("id", One (RollupsDeletePath_ID p))]; ignored _ := [];
     templates := ["/_plugins/_rollup/jobs/{id}"] |}.
#[export] Instance RollupsDeletePath_lawful : Lawful RollupsDeletePath.
Proof. follow. Qed.

Record RollupsExplainPath := MkRollupsExplainPath { RollupsExplainPath_ID : string }.
Definition RollupsExplainPath_Build (p : RollupsExplainPath) : built :=
  build (required "RollupsExplainPath.ID" (RollupsExplainPath_ID p);; writeLit "_plugins";; writeLit "_rollup";; writeLit "jobs";;
   writeReq (RollupsExplainPath_ID p);; writeLit "_explain").
#[export] Instance RollupsExplainPath_builder : builder RollupsExplainPath :=
  {| Build := RollupsExplainPath_Build; fields p := [("id", One (RollupsExplainPath_ID p))]; ignored _ := [];
     templates := ["/_plugins/_rollup/jobs/{id}/_explain"] |}.
#[export] Instance RollupsExplainPath_lawful : Lawful RollupsExplainPath.
Proof. follow. Qed.

Record RollupsGetPath := MkRollupsGetPath { RollupsGetPath_ID : string }.
Definition RollupsGetPath_Build (p : RollupsGetPath) : built :=
  build (required "RollupsGetPath.ID" (RollupsGetPath_ID p);; writeLit "_plugins";; writeLit "_rollup";; writeLit "jobs";;
   writeReq (RollupsGetPath_ID p)).
#[export] Instance RollupsGetPath_builder : builder RollupsGetPath :=
  {| Build := RollupsGetPath_Build; fields p := [("id", One (RollupsGetPath_ID p))]; ignored _ := [];
     templates := ["/_plugins/_rollup/jobs/{id}"] |}.
#[export] Instance RollupsGetPath_lawful : Lawful RollupsGetPath.
Proof. follow. Qed.

Record RollupsPutPath := MkRollupsPutPath { RollupsPutPath_ID : string }.
Definition RollupsPutPath_Build (p : RollupsPutPath) : built :=
  build (required "RollupsPutPath.ID" (RollupsPutPath_ID p);; writeLit "_plugins";; writeLit "_rollup";; writeLit "jobs";;
   writeReq (RollupsPutPath_ID p)).
#[export] Instance RollupsPutPath_builder : builder RollupsPutPath :=
  {| Build := RollupsPutPath_Build; fields p := [("id", One (RollupsPutPath_ID p))]; ignored _ := [];
     templates := ["/_plugins/_rollup/jobs/{id}"] |}.
#[export] Instance RollupsPutPath_lawful : Lawful RollupsPutPath.
Proof. follow. Qed.

Record RollupsStartPath := MkRollupsStartPath { RollupsStartPath_ID : string }.
Definition RollupsStartPath_Build (p : RollupsStartPath) : built :=
  build (required "RollupsStartPath.ID" (RollupsStartPath_ID p);; writeLit "_plugins";; writeLit "_rollup";; writeLit "jobs";;
   writeReq (RollupsStartPath_ID p);; writeLit "_start").
#[export] Instance RollupsStartPath_builder : builder RollupsStartPath :=
  {| Build := RollupsStartPath_Build; fields p := [("id", One (RollupsStartPath_ID p))]; ignored _ := [];
     templates := ["/_plugins/_rollup/jobs/{id}/_start"] |}.
#[export] Instance RollupsStartPath_lawful : Lawful RollupsStartPath.
Proof. follow. Qed.

Record RollupsStopPath := MkRollupsStopPath { RollupsStopPath_ID : string }.
Definition RollupsStopPath_Build (p : RollupsStopPath) : built :=
  build (required "RollupsStopPath.ID" (RollupsStopPath_ID p);; writeLit "_plugins";; writeLit "_rollup";; writeLit "jobs";;
   writeReq (RollupsStopPath_ID p);; writeLit "_stop").
#[export] Instance RollupsStopPath_builder : builder RollupsStopPath :=
  {| Build := RollupsStopPath_Build; fields p := [("id", One (RollupsStopPath_ID p))]; ignored _ := [];
     templates := ["/_plugins/_rollup/jobs/{id}/_stop"] |}.
#[export] Instance RollupsStopPath_lawful : Lawful RollupsStopPath.
Proof. follow. Qed.

Record SearchPipelineDeletePath := MkSearchPipelineDeletePath { SearchPipelineDeletePath_ID : string }.
Definition SearchPipelineDeletePath_Build (p : SearchPipelineDeletePath) : built :=
  build (required "SearchPipelineDeletePath.ID" (SearchPipelineDeletePath_ID p);; writeLit "_search";; writeLit "pipeline";;
   writeReq (SearchPipelineDeletePath_ID p)).
#[export] Instance SearchPipelineDeletePath_builder : builder SearchPipelineDeletePath :=
  {| Build := SearchPipelineDeletePath_Build; fields p := [("id", One (SearchPipelineDeletePath_ID p))]; ignored _ := [];
     templates := ["/_search/pipeline/{id}"] |}.
#[export] Instance SearchPipelineDeletePath_lawful : Lawful SearchPipelineDeletePath.
Proof. follow. Qed.

Record SearchPipelineGetPath := MkSearchPipelineGetPath { SearchPipelineGetPath_ID : string }.
Definition SearchPipelineGetPath_Build (p : SearchPipelineGetPath) : built :=
  build (writeLit "_search";; writeLit "pipeline";;
   when (isSet (SearchPipelineGetPath_ID p)) (writeReq (SearchPipelineGetPath_ID p))).
#[export] Instance SearchPipelineGetPath_builder : builder SearchPipelineGetPath :=
  {| Build := SearchPipelineGetPath_Build; fields p := [("id", One (SearchPipelineGetPath_ID p))]; ignored _ := [];
     templates := ["/_search/pipeline"; "/_search/pipeline/{id}"] |}.
#[export] Instance SearchPipelineGetPath_lawful : Lawful SearchPipelineGetPath.
Proof. follow. Qed.

Record SearchPipelinePutPath := MkSearchPipelinePutPath { SearchPipelinePutPath_ID : string }.
Definition SearchPipelinePutPath_Build (p : SearchPipelinePutPath) : built :=
  build (required "SearchPipelinePutPath.ID" (SearchPipelinePutPath_ID p);; writeLit "_search";; writeLit "pipeline";;
   writeReq (SearchPipelinePutPath_ID p)).
#[export] Instance SearchPipelinePutPath_builder : builder SearchPipelinePutPath :=
  {| Build := SearchPipelinePutPath_Build; fields p := [("id", One (SearchPipelinePutPath_ID p))]; ignored _ := [];
     templates := ["/_search/pipeline/{id}"] |}.
#[export] Instance SearchPipelinePutPath_lawful : Lawful SearchPipelinePutPath.
Proof. follow. Qed.

Record SMCreatePolicyPath := MkSMCreatePolicyPath { SMCreatePolicyPath_PolicyName : string }.
Definition SMCreatePolicyPath_Build (p : SMCreatePolicyPath) : built :=
  build (required "SMCreatePolicyPath.PolicyName" (SMCreatePolicyPath_PolicyName p);; writeLit "_plugins";; writeLit "_sm";;
   writeLit "policies";; writeReq (SMCreatePolicyPath_PolicyName p)).
#[export] Instance SMCreatePolicyPath_builder : builder SMCreatePolicyPath :=
  {| Build := SMCreatePolicyPath_Build; fields p := [("policy_name", One (SMCreatePolicyPath_PolicyName p))]; ignored _ := [];
     templates := ["/_plugins/_sm/policies/{policy_name}"] |}.
#[export] Instance SMCreatePolicyPath_lawful : Lawful SMCreatePolicyPath.
Proof. follow. Qed.

Record SMDeletePolicyPath := MkSMDeletePolicyPath { SMDeletePolicyPath_PolicyName : string }.
Definition SMDeletePolicyPath_Build (p : SMDeletePolicyPath) : built :=
  build (required "SMDeletePolicyPath.PolicyName" (SMDeletePolicyPath_PolicyName p);; writeLit "_plugins";; writeLit "_sm";;
   writeLit "policies";; writeReq (SMDeletePolicyPath_PolicyName p)).
#[export] Instance SMDeletePolicyPath_builder : builder SMDeletePolicyPath :=
  {| Build := SMDeletePolicyPath_Build; fields p := [("policy_name", One (SMDeletePolicyPath_PolicyName p))]; ignored _ := [];
     templates := ["/_plugins/_sm/policies/{policy_name}"] |}.
#[export] Instance SMDeletePolicyPath_lawful : Lawful SMDeletePolicyPath.
Proof. follow. Qed.

Record SMExplainPolicyPath := MkSMExplainPolicyPath { SMExplainPolicyPath_PolicyName : string }.
Definition SMExplainPolicyPath_Build (p : SMExplainPolicyPath) : built :=
  build (required "SMExplainPolicyPath.PolicyName" (SMExplainPolicyPath_PolicyName p);; writeLit "_plugins";; writeLit "_sm";;
   writeLit "policies";; writeReq (SMExplainPolicyPath_PolicyName p);; writeLit "_explain").
#[export] Instance SMExplainPolicyPath_builder : builder SMExplainPolicyPath :=
  {| Build := SMExplainPolicyPath_Build; fields p := [("policy_name", One (SMExplainPolicyPath_PolicyName p))]; ignored _ := [];
     templates := ["/_plugins/_sm/policies/{policy_name}/_explain"] |}.
#[export] Instance SMExplainPolicyPath_lawful : Lawful SMExplainPolicyPath.
Proof. follow. Qed.

Record SMGetPoliciesPath := MkSMGetPoliciesPath {  }.
Definition SMGetPoliciesPath_Build (p : SMGetPoliciesPath) : built := build (writeLit "_plugins";; writeLit "_sm";; writeLit "policies").
#[export] Instance SMGetPoliciesPath_builder : builder SMGetPoliciesPath :=
  {| Build := SMGetPoliciesPath_Build; fields _ := []; ignored _ := [];
     templates := ["/_plugins/_sm/policies"] |}.
#[export] Instance SMGetPoliciesPath_lawful : Lawful SMGetPoliciesPath.
Proof. follow. Qed.

Record SMGetPolicyPath := MkSMGetPolicyPath { SMGetPolicyPath_PolicyName : string }.
Definition SMGetPolicyPath_Build (p : SMGetPolicyPath) : built :=
  build (required "SMGetPolicyPath.PolicyName" (SMGetPolicyPath_PolicyName p);; writeLit "_plugins";; writeLit "_sm";;
   writeLit "policies";; writeReq (SMGetPolicyPath_PolicyName p)).
#[export] Instance SMGetPolicyPath_builder : builder SMGetPolicyPath :=
  {| Build := SMGetPolicyPath_Build; fields p := [("policy_name", One (SMGetPolicyPath_PolicyName p))]; ignored _ := [];
     templates := ["/_plugins/_sm/policies/{policy_name}"] |}.
#[export] Instance SMGetPolicyPath_lawful : Lawful SMGetPolicyPath.
Proof. follow. Qed.

Record SMStartPolicyPath := MkSMStartPolicyPath { SMStartPolicyPath_PolicyName : string }.
Definition SMStartPolicyPath_Build (p : SMStartPolicyPath) : built :=
  build (required "SMStartPolicyPath.PolicyName" (SMStartPolicyPath_PolicyName p);; writeLit "_plugins";; writeLit "_sm";;
   writeLit "policies";; writeReq (SMStartPolicyPath_PolicyName p);; writeLit "_start").
#[export] Instance SMStartPolicyPath_builder : builder SMStartPolicyPath :=
  {| Build := SMStartPolicyPath_Build; fields p := [("policy_name", One (SMStartPolicyPath_PolicyName p))]; ignored _ := [];
     templates := ["/_plugins/_sm/policies/{policy_name}/_start"] |}.
#[export] Instance SMStartPolicyPath_lawful : Lawful SMStartPolicyPath.
Proof. follow. Qed.

Record SMStopPolicyPath := MkSMStopPolicyPath { SMStopPolicyPath_PolicyName : string }.
Definition SMStopPolicyPath_Build (p : SMStopPolicyPath) : built :=
  build (required "SMStopPolicyPath.PolicyName" (SMStopPolicyPath_PolicyName p);; writeLit "_plugins";; writeLit "_sm";;
   writeLit "policies";; writeReq (SMStopPolicyPath_PolicyName p);; writeLit "_stop").
#[export] Instance SMStopPolicyPath_builder : builder SMStopPolicyPath :=
  {| Build := SMStopPolicyPath_Build; fields p := [("policy_name", One (SMStopPolicyPath_PolicyName p))]; ignored _ := [];
     templates := ["/_plugins/_sm/policies/{policy_name}/_stop"] |}.
#[export] Instance SMStopPolicyPath_lawful : Lawful SMStopPolicyPath.
Proof. follow. Qed.

Record SMUpdatePolicyPath := MkSMUpdatePolicyPath { SMUpdatePolicyPath_PolicyName : string }.
Definition SMUpdatePolicyPath_Build (p : SMUpdatePolicyPath) : built :=
  build (required "SMUpdatePolicyPath.PolicyName" (SMUpdatePolicyPath_PolicyName p);; writeLit "_plugins";; writeLit "_sm";;
   writeLit "policies";; writeReq (SMUpdatePolicyPath_PolicyName p)).
#[export] Instance SMUpdatePolicyPath_builder : builder SMUpdatePolicyPath :=
  {| Build := SMUpdatePolicyPath_Build; fields p := [("policy_name", One (SMUpdatePolicyPath_PolicyName p))]; ignored _ := [];
     templates := ["/_plugins/_sm/policies/{policy_name}"] |}.
#[export] Instance SMUpdatePolicyPath_lawful : Lawful SMUpdatePolicyPath.
Proof. follow. Qed.

Record SnapshotCleanupRepositoryPath := MkSnapshotCleanupRepositoryPath { SnapshotCleanupRepositoryPath_Repository : string }.
Definition SnapshotCleanupRepositoryPath_Build (p : SnapshotCleanupRepositoryPath) : built :=
  build (required "SnapshotCleanupRepositoryPath.Repository" (SnapshotCleanupRepositoryPath_Repository p);; writeLit "_snapshot";;
   writeReq (SnapshotCleanupRepositoryPath_Repository p);; writeLit "_cleanup").
#[export] Instance SnapshotCleanupRepositoryPath_builder : builder SnapshotCleanupRepositoryPath :=
  {| Build := SnapshotCleanupRepositoryPath_Build; fields p := [("repository", One (SnapshotCleanupRepositoryPath_Repository p))]; ignored _ := [];
     templates := ["/_snapshot/{repository}/_cleanup"] |}.
#[export] Instance SnapshotCleanupRepositoryPath_lawful : Lawful SnapshotCleanupRepositoryPath.
Proof. follow. Qed.

Record SnapshotClonePath := MkSnapshotClonePath { SnapshotClonePath_Repository : string; SnapshotClonePath_Snapshot : string; SnapshotClonePath_TargetSnapshot : string }.
Definition SnapshotClonePath_Build (p : SnapshotClonePath) : built :=
  build (required "SnapshotClonePath.Repository" (SnapshotClonePath_Repository p);;
   required "SnapshotClonePath.Snapshot" (SnapshotClonePath_Snapshot p);;
   required "SnapshotClonePath.TargetSnapshot" (SnapshotClonePath_TargetSnapshot p);; writeLit "_snapshot";;
   writeReq (SnapshotClonePath_Repository p);; writeReq (SnapshotClonePath_Snapshot p);; writeLit "_clone";;
   writeReq (SnapshotClonePath_TargetSnapshot p)).
#[export] Instance SnapshotClonePath_builder : builder SnapshotClonePath :=
  {| Build := SnapshotClonePath_Build; fields p := [("repository", One (SnapshotClonePath_Repository p)); ("snapshot", One (SnapshotClonePath_Snapshot p)); ("target_snapshot", One (SnapshotClonePath_TargetSnapshot p))]; ignored _ := [];
     templates := ["/_snapshot/{repository}/{snapshot}/_clone/{target_snapshot}"] |}.
#[export] Instance SnapshotClonePath_lawful : Lawful SnapshotClonePath.
Proof. follow. Qed.

Record SnapshotCreatePath := MkSnapshotCreatePath { SnapshotCreatePath_Repository : string; SnapshotCreatePath_Snapshot : string }.
Definition SnapshotCreatePath_Build (p : SnapshotCreatePath) : built :=
  build (required "SnapshotCreatePath.Repository" (SnapshotCreatePath_Repository p);;
   required "SnapshotCreatePath.Snapshot" (SnapshotCreatePath_Snapshot p);; writeLit "_snapshot";;
   writeReq (SnapshotCreatePath_Repository p);; writeReq (SnapshotCreatePath_Snapshot p)).
#[export] Instance SnapshotCreatePath_builder : builder SnapshotCreatePath :=
  {| Build := SnapshotCreatePath_Build; fields p := [("repository", One (SnapshotCreatePath_Repository p)); ("snapshot", One (SnapshotCreatePath_Snapshot p))]; ignored _ := [];
     templates := ["/_snapshot/{repository}/{snapshot}"] |}.
#[export] Instance SnapshotCreatePath_lawful : Lawful SnapshotCreatePath.
Proof. follow. Qed.

Record SnapshotCreateRepositoryPath := MkSnapshotCreateRepositoryPath { SnapshotCreateRepositoryPath_Repository : string }.
Definition SnapshotCreateRepositoryPath_Build (p : SnapshotCreateRepositoryPath) : built :=
  build (required "SnapshotCreateRepositoryPath.Repository" (SnapshotCreateRepositoryPath_Repository p);; writeLit "_snapshot";;
   writeReq (SnapshotCreateRepositoryPath_Repository p)).
#[export] Instance SnapshotCreateRepositoryPath_builder : builder SnapshotCreateRepositoryPath :=
  {| Build := SnapshotCreateRepositoryPath_Build; fields p := [("repository", One (SnapshotCreateRepositoryPath_Repository p))]; ignored _ := [];
     templates := ["/_snapshot/{repository}"] |}.
#[export] Instance SnapshotCreateRepositoryPath_lawful : Lawful SnapshotCreateRepositoryPath.
Proof. follow. Qed.

Record SnapshotDeletePath := MkSnapshotDeletePath { SnapshotDeletePath_Repository : string; SnapshotDeletePath_Snapshot : list string }.
Definition SnapshotDeletePath_Build (p : SnapshotDeletePath) : built :=
  build (required "SnapshotDeletePath.Repository" (SnapshotDeletePath_Repository p);;
   requiredList "SnapshotDeletePath.Snapshot" (SnapshotDeletePath_Snapshot p);; writeLit "_snapshot";;
   writeReq (SnapshotDeletePath_Repository p);; writeSegments (SnapshotDeletePath_Snapshot p)).
#[export] Instance SnapshotDeletePath_builder : builder SnapshotDeletePath :=
  {| Build := SnapshotDeletePath_Build; fields p := [("repository", One (SnapshotDeletePath_Repository p)); ("snapshot", Many (SnapshotDeletePath_Snapshot p))]; ignored _ := [];
     templates := ["/_snapshot/{repository}/{snapshot}"] |}.
#[export] Instance SnapshotDeletePath_lawful : Lawful SnapshotDeletePath.
Proof. follow. Qed.

Record SnapshotDeleteRepositoryPath := MkSnapshotDeleteRepositoryPath { SnapshotDeleteRepositoryPath_Repository : list string }.
Definition SnapshotDeleteRepositoryPath_Build (p : SnapshotDeleteRepositoryPath) : built :=
  build (requiredList "SnapshotDeleteRepositoryPath.Repository" (SnapshotDeleteRepositoryPath_Repository p);; writeLit "_snapshot";;
   writeSegments (SnapshotDeleteRepositoryPath_Repository p)).
#[export] Instance SnapshotDeleteRepositoryPath_builder : builder SnapshotDeleteRepositoryPath :=
  {| Build := SnapshotDeleteRepositoryPath_Build; fields p := [("repository", Many (SnapshotDeleteRepositoryPath_Repository p))]; ignored _ := [];
     templates := ["/_snapshot/{repository}"] |}.
#[export] Instance SnapshotDeleteRepositoryPath_lawful : Lawful SnapshotDeleteRepositoryPath.
Proof. follow. Qed.

Record SnapshotGetPath := MkSnapshotGetPath { SnapshotGetPath_Repository : string; SnapshotGetPath_Snapshot : list string }.
Definition SnapshotGetPath_Build (p : SnapshotGetPath) : built :=
  build (required "SnapshotGetPath.Repository" (SnapshotGetPath_Repository p);;
   requiredList "SnapshotGetPath.Snapshot" (SnapshotGetPath_Snapshot p);; writeLit "_snapshot";;
   writeReq (SnapshotGetPath_Repository p);; writeSegments (SnapshotGetPath_Snapshot p)).
#[export] Instance SnapshotGetPath_builder : builder SnapshotGetPath :=
  {| Build := SnapshotGetPath_Build; fields p := [("repository", One (SnapshotGetPath_Repository p)); ("snapshot", Many (SnapshotGetPath_Snapshot p))]; ignored _ := [];
     templates := ["/_snapshot/{repository}/{snapshot}"] |}.
#[export] Instance SnapshotGetPath_lawful : Lawful SnapshotGetPath.
Proof. follow. Qed.

Record SnapshotGetRepositoryPath := MkSnapshotGetRepositoryPath { SnapshotGetRepositoryPath_Repository : list string }.
Definition SnapshotGetRepositoryPath_Build (p : SnapshotGetRepositoryPath) : built :=
  build (writeLit "_snapshot";; writeSegments (SnapshotGetRepositoryPath_Repository p)).
#[export] Instance SnapshotGetRepositoryPath_builder : builder SnapshotGetRepositoryPath :=
  {| Build := SnapshotGetRepositoryPath_Build; fields p := [("repository", Many (SnapshotGetRepositoryPath_Repository p))]; ignored _ := [];
     templates := ["/_snapshot"; "/_snapshot/{repository}"] |}.
#[export] Instance SnapshotGetRepositoryPath_lawful : Lawful SnapshotGetRepositoryPath.
Proof. follow. Qed.

Record SnapshotRestorePath := MkSnapshotRestorePath { SnapshotRestorePath_Repository : string; SnapshotRestorePath_Snapshot : string }.
Definition SnapshotRestorePath_Build (p : SnapshotRestorePath) : built :=
  build (required "SnapshotRestorePath.Repository" (SnapshotRestorePath_Repository p);;
   required "SnapshotRestorePath.Snapshot" (SnapshotRestorePath_Snapshot p);; writeLit "_snapshot";;
   writeReq (SnapshotRestorePath_Repository p);; writeReq (SnapshotRestorePath_Snapshot p);; writeLit "_restore").
#[export] Instance SnapshotRestorePath_builder : builder SnapshotRestorePath :=
  {| Build := SnapshotRestorePath_Build; fields p := [("repository", One (SnapshotRestorePath_Repository p)); ("snapshot", One (SnapshotRestorePath_Snapshot p))]; ignored _ := [];
     templates := ["/_snapshot/{repository}/{snapshot}/_restore"] |}.
#[export] Instance SnapshotRestorePath_lawful : Lawful SnapshotRestorePath.
Proof. follow. Qed.

Record SnapshotStatusPath := MkSnapshotStatusPath { SnapshotStatusPath_Repository : string; SnapshotStatusPath_Snapshot : list string }.
Definition explainSnapshotStatusPath (p : SnapshotStatusPath) : string :=
  if hasNonEmpty (SnapshotStatusPath_Snapshot p) && isEmpty (SnapshotStatusPath_Repository p) then "SnapshotStatusPath.Snapshot requires SnapshotStatusPath.Repository"
  else "SnapshotStatusPath: invalid combination of fields".
Definition SnapshotStatusPath_Build (p : SnapshotStatusPath) : built :=
  build (writeLit "_snapshot";;
   (if isSet (SnapshotStatusPath_Repository p) && hasNonEmpty (SnapshotStatusPath_Snapshot p) then writeReq (SnapshotStatusPath_Repository p);; writeSegments (SnapshotStatusPath_Snapshot p)
    else if isSet (SnapshotStatusPath_Repository p) then writeReq (SnapshotStatusPath_Repository p)
    else when (isSet (SnapshotStatusPath_Repository p) || hasNonEmpty (SnapshotStatusPath_Snapshot p)) (fail (explainSnapshotStatusPath p)));;
   writeLit "_status").
#[export] Instance SnapshotStatusPath_builder : builder SnapshotStatusPath :=
  {| Build := SnapshotStatusPath_Build; fields p := [("repository", One (SnapshotStatusPath_Repository p)); ("snapshot", Many (SnapshotStatusPath_Snapshot p))]; ignored _ := [];
     templates := ["/_snapshot/_status"; "/_snapshot/{repository}/_status"; "/_snapshot/{repository}/{snapshot}/_status"] |}.
#[export] Instance SnapshotStatusPath_lawful : Lawful SnapshotStatusPath.
Proof. follow. Qed.

Record SnapshotVerifyRepositoryPath := MkSnapshotVerifyRepositoryPath { SnapshotVerifyRepositoryPath_Repository : string }.
Definition SnapshotVerifyRepositoryPath_Build (p : SnapshotVerifyRepositoryPath) : built :=
  build (required "SnapshotVerifyRepositoryPath.Repository" (SnapshotVerifyRepositoryPath_Repository p);; writeLit "_snapshot";;
   writeReq (SnapshotVerifyRepositoryPath_Repository p);; writeLit "_verify").
#[export] Instance SnapshotVerifyRepositoryPath_builder : builder SnapshotVerifyRepositoryPath :=
  {| Build := SnapshotVerifyRepositoryPath_Build; fields p := [("repository", One (SnapshotVerifyRepositoryPath_Repository p))]; ignored _ := [];
     templates := ["/_snapshot/{repository}/_verify"] |}.
#[export] Instance SnapshotVerifyRepositoryPath_lawful : Lawful SnapshotVerifyRepositoryPath.
Proof. follow. Qed.

Record TransformsDeletePath := MkTransformsDeletePath { TransformsDeletePath_ID : string }.
Definition TransformsDeletePath_Build (p : TransformsDeletePath) : built :=
  build (required "TransformsDeletePath.ID" (TransformsDeletePath_ID p);; writeLit "_plugins";; writeLit "_transform";;
   writeReq (TransformsDeletePath_ID p)).
#[export] Instance TransformsDeletePath_builder : builder TransformsDeletePath :=
  {| Build := TransformsDeletePath_Build; fields p := [("id", One (TransformsDeletePath_ID p))]; ignored _ := [];
     templates := ["/_plugins/_transform/{id}"] |}.
#[export] Instance TransformsDeletePath_lawful : Lawful TransformsDeletePath.
Proof. follow. Qed.

Record TransformsExplainPath := MkTransformsExplainPath { TransformsExplainPath_ID : string }.
Definition TransformsExplainPath_Build (p : TransformsExplainPath) : built :=
  build (required "TransformsExplainPath.ID" (TransformsExplainPath_ID p);; writeLit "_plugins";; writeLit "_transform";;
   writeReq (TransformsExplainPath_ID p);; writeLit "_explain").
#[export] Instance TransformsExplainPath_builder : builder TransformsExplainPath :=
  {| Build := TransformsExplainPath_Build; fields p := [("id", One (TransformsExplainPath_ID p))]; ignored _ := [];
     templates := ["/_plugins/_transform/{id}/_explain"] |}.
#[export] Instance TransformsExplainPath_lawful : Lawful TransformsExplainPath.
Proof. follow. Qed.

Record TransformsGetPath := MkTransformsGetPath { TransformsGetPath_ID : string }.
Definition TransformsGetPath_Build (p : TransformsGetPath) : built :=
  build (required "TransformsGetPath.ID" (TransformsGetPath_ID p);; writeLit "_plugins";; writeLit "_transform";;
   writeReq (TransformsGetPath_ID p)).
#[export] Instance TransformsGetPath_builder : builder TransformsGetPath :=
  {| Build := TransformsGetPath_Build; fields p := [("id", One (TransformsGetPath_ID p))]; ignored _ := [];
     templates := ["/_plugins/_transform/{id}"] |}.
#[export] Instance TransformsGetPath_lawful : Lawful TransformsGetPath.
Proof. follow. Qed.

Record TransformsPreviewPath := MkTransformsPreviewPath {  }.
Definition TransformsPreviewPath_Build (p : TransformsPreviewPath) : built := build (writeLit "_plugins";; writeLit "_transform";; writeLit "_preview").
#[export] Instance TransformsPreviewPath_builder : builder TransformsPreviewPath :=
  {| Build := TransformsPreviewPath_Build; fields _ := []; ignored _ := [];
     templates := ["/_plugins/_transform/_preview"] |}.
#[export] Instance TransformsPreviewPath_lawful : Lawful TransformsPreviewPath.
Proof. follow. Qed.

Record TransformsPutPath := MkTransformsPutPath { TransformsPutPath_ID : string }.
Definition TransformsPutPath_Build (p : TransformsPutPath) : built :=
  build (required "TransformsPutPath.ID" (TransformsPutPath_ID p);; writeLit "_plugins";; writeLit "_transform";;
   writeReq (TransformsPutPath_ID p)).
#[export] Instance TransformsPutPath_builder : builder TransformsPutPath :=
  {| Build := TransformsPutPath_Build; fields p := [("id", One (TransformsPutPath_ID p))]; ignored _ := [];
     templates := ["/_plugins/_transform/{id}"] |}.
#[export] Instance TransformsPutPath_lawful : Lawful TransformsPutPath.
Proof. follow. Qed.

Record TransformsSearchPath := MkTransformsSearchPath {  }.
Definition TransformsSearchPath_Build (p : TransformsSearchPath) : built := build (writeLit "_plugins";; writeLit "_transform").
#[export] Instance TransformsSearchPath_builder : builder TransformsSearchPath :=
  {| Build := TransformsSearchPath_Build; fields _ := []; ignored _ := [];
     templates := ["/_plugins/_transform"] |}.
#[export] Instance TransformsSearchPath_lawful : Lawful TransformsSearchPath.
Proof. follow. Qed.

Record TransformsStartPath := MkTransformsStartPath { TransformsStartPath_ID : string }.
Definition TransformsStartPath_Build (p : TransformsStartPath) : built :=
  build (required "TransformsStartPath.ID" (TransformsStartPath_ID p);; writeLit "_plugins";; writeLit "_transform";;
   writeReq (TransformsStartPath_ID p);; writeLit "_start").
#[export] Instance TransformsStartPath_builder : builder TransformsStartPath :=
  {| Build := TransformsStartPath_Build; fields p := [("id", One (TransformsStartPath_ID p))]; ignored _ := [];
     templates := ["/_plugins/_transform/{id}/_start"] |}.
#[export] Instance TransformsStartPath_lawful : Lawful TransformsStartPath.
Proof. follow. Qed.

Record TransformsStopPath := MkTransformsStopPath { TransformsStopPath_ID : string }.
Definition TransformsStopPath_Build (p : TransformsStopPath) : built :=
  build (required "TransformsStopPath.ID" (TransformsStopPath_ID p);; writeLit "_plugins";; writeLit "_transform";;
   writeReq (TransformsStopPath_ID p);; writeLit "_stop").
#[export] Instance TransformsStopPath_builder : builder TransformsStopPath :=
  {| Build := TransformsStopPath_Build; fields p := [("id", One (TransformsStopPath_ID p))]; ignored _ := [];
     templates := ["/_plugins/_transform/{id}/_stop"] |}.
#[export] Instance TransformsStopPath_lawful : Lawful TransformsStopPath.
Proof. follow. Qed.

Record WLMCreateQueryGroupPath := MkWLMCreateQueryGroupPath {  }.
Definition WLMCreateQueryGroupPath_Build (p : WLMCreateQueryGroupPath) : built := build (writeLit "_wlm";; writeLit "query_group").
#[export] Instance WLMCreateQueryGroupPath_builder : builder WLMCreateQueryGroupPath :=
  {| Build := WLMCreateQueryGroupPath_Build; fields _ := []; ignored _ := [];
     templates := ["/_wlm/query_group"] |}.
#[export] Instance WLMCreateQueryGroupPath_lawful : Lawful WLMCreateQueryGroupPath.
Proof. follow. Qed.

Record WLMDeleteQueryGroupPath := MkWLMDeleteQueryGroupPath { WLMDeleteQueryGroupPath_Name : string }.
Definition WLMDeleteQueryGroupPath_Build (p : WLMDeleteQueryGroupPath) : built :=
  build (required "WLMDeleteQueryGroupPath.Name" (WLMDeleteQueryGroupPath_Name p);; writeLit "_wlm";; writeLit "query_group";;
   writeReq (WLMDeleteQueryGroupPath_Name p)).
#[export] Instance WLMDeleteQueryGroupPath_builder : builder WLMDeleteQueryGroupPath :=
  {| Build := WLMDeleteQueryGroupPath_Build; fields p := [("name", One (WLMDeleteQueryGroupPath_Name p))]; ignored _ := [];
     templates := ["/_wlm/query_group/{name}"] |}.
#[export] Instance WLMDeleteQueryGroupPath_lawful : Lawful WLMDeleteQueryGroupPath.
Proof. follow. Qed.

Record WLMGetQueryGroupPath := MkWLMGetQueryGroupPath { WLMGetQueryGroupPath_Name : string }.
Definition WLMGetQueryGroupPath_Build (p : WLMGetQueryGroupPath) : built :=
  build (writeLit "_wlm";; writeLit "query_group";;
   when (isSet (WLMGetQueryGroupPath_Name p)) (writeReq (WLMGetQueryGroupPath_Name p))).
#[export] Instance WLMGetQueryGroupPath_builder : builder WLMGetQueryGroupPath :=
  {| Build := WLMGetQueryGroupPath_Build; fields p := [("name", One (WLMGetQueryGroupPath_Name p))]; ignored _ := [];
     templates := ["/_wlm/query_group"; "/_wlm/query_group/{name}"] |}.
#[export] Instance WLMGetQueryGroupPath_lawful : Lawful WLMGetQueryGroupPath.
Proof. follow. Qed.

Record WLMUpdateQueryGroupPath := MkWLMUpdateQueryGroupPath { WLMUpdateQueryGroupPath_Name : string }.
Definition WLMUpdateQueryGroupPath_Build (p : WLMUpdateQueryGroupPath) : built :=
  build (required "WLMUpdateQueryGroupPath.Name" (WLMUpdateQueryGroupPath_Name p);; writeLit "_wlm";; writeLit "query_group";;
   writeReq (WLMUpdateQueryGroupPath_Name p)).
#[export] Instance WLMUpdateQueryGroupPath_builder : builder WLMUpdateQueryGroupPath :=
  {| Build := WLMUpdateQueryGroupPath_Build; fields p := [("name", One (WLMUpdateQueryGroupPath_Name p))]; ignored _ := [];
     templates := ["/_wlm/query_group/{name}"] |}.
#[export] Instance WLMUpdateQueryGroupPath_lawful : Lawful WLMUpdateQueryGroupPath.
Proof. follow. Qed.

(** All of them. *)
Definition pathsIndices : list path_type :=
  [MkPathType "IndicesAddBlockPath" IndicesAddBlockPath _ _; MkPathType "IndicesAnalyzePath" IndicesAnalyzePath _ _;
   MkPathType "IndicesClearCachePath" IndicesClearCachePath _ _; MkPathType "IndicesClonePath" IndicesClonePath _ _;
   MkPathType "IndicesClosePath" IndicesClosePath _ _; MkPathType "IndicesCreatePath" IndicesCreatePath _ _;
   MkPathType "IndicesCreateDataStreamPath" IndicesCreateDataStreamPath _ _; MkPathType "IndicesDataStreamsStatsPath" IndicesDataStreamsStatsPath _ _;
   MkPathType "IndicesDeletePath" IndicesDeletePath _ _; MkPathType "IndicesDeleteAliasPath" IndicesDeleteAliasPath _ _;
   MkPathType "IndicesDeleteDataStreamPath" IndicesDeleteDataStreamPath _ _; MkPathType "IndicesDeleteIndexTemplatePath" IndicesDeleteIndexTemplatePath _ _;
   MkPathType "IndicesDeleteTemplatePath" IndicesDeleteTemplatePath _ _; MkPathType "IndicesExistsPath" IndicesExistsPath _ _;
   MkPathType "IndicesExistsAliasPath" IndicesExistsAliasPath _ _; MkPathType "IndicesExistsIndexTemplatePath" IndicesExistsIndexTemplatePath _ _;
   MkPathType "IndicesExistsTemplatePath" IndicesExistsTemplatePath _ _; MkPathType "IndicesFlushPath" IndicesFlushPath _ _;
   MkPathType "IndicesForcemergePath" IndicesForcemergePath _ _; MkPathType "IndicesGetPath" IndicesGetPath _ _;
   MkPathType "IndicesGetAliasPath" IndicesGetAliasPath _ _; MkPathType "IndicesGetDataStreamPath" IndicesGetDataStreamPath _ _;
   MkPathType "IndicesGetFieldMappingPath" IndicesGetFieldMappingPath _ _; MkPathType "IndicesGetIndexTemplatePath" IndicesGetIndexTemplatePath _ _;
   MkPathType "IndicesGetMappingPath" IndicesGetMappingPath _ _; MkPathType "IndicesGetSettingsPath" IndicesGetSettingsPath _ _;
   MkPathType "IndicesGetTemplatePath" IndicesGetTemplatePath _ _; MkPathType "IndicesGetUpgradePath" IndicesGetUpgradePath _ _;
   MkPathType "IndicesOpenPath" IndicesOpenPath _ _; MkPathType "IndicesPutAliasPath" IndicesPutAliasPath _ _;
   MkPathType "IndicesPutIndexTemplatePath" IndicesPutIndexTemplatePath _ _; MkPathType "IndicesPutMappingPath" IndicesPutMappingPath _ _;
   MkPathType "IndicesPutSettingsPath" IndicesPutSettingsPath _ _; MkPathType "IndicesPutTemplatePath" IndicesPutTemplatePath _ _;
   MkPathType "IndicesRecoveryPath" IndicesRecoveryPath _ _; MkPathType "IndicesRefreshPath" IndicesRefreshPath _ _;
   MkPathType "IndicesResolveIndexPath" IndicesResolveIndexPath _ _; MkPathType "IndicesRolloverPath" IndicesRolloverPath _ _;
   MkPathType "IndicesSegmentsPath" IndicesSegmentsPath _ _; MkPathType "IndicesShardStoresPath" IndicesShardStoresPath _ _;
   MkPathType "IndicesShrinkPath" IndicesShrinkPath _ _; MkPathType "IndicesSimulateIndexTemplatePath" IndicesSimulateIndexTemplatePath _ _;
   MkPathType "IndicesSimulateTemplatePath" IndicesSimulateTemplatePath _ _; MkPathType "IndicesSplitPath" IndicesSplitPath _ _;
   MkPathType "IndicesStatsPath" IndicesStatsPath _ _; MkPathType "IndicesUpdateAliasesPath" IndicesUpdateAliasesPath _ _;
   MkPathType "IndicesUpgradePath" IndicesUpgradePath _ _; MkPathType "IndicesValidateQueryPath" IndicesValidateQueryPath _ _;
   MkPathType "IngestDeletePipelinePath" IngestDeletePipelinePath _ _; MkPathType "IngestGetPipelinePath" IngestGetPipelinePath _ _;
   MkPathType "IngestProcessorGrokPath" IngestProcessorGrokPath _ _; MkPathType "IngestPutPipelinePath" IngestPutPipelinePath _ _;
   MkPathType "IngestSimulatePath" IngestSimulatePath _ _; MkPathType "IngestionGetStatePath" IngestionGetStatePath _ _;
   MkPathType "IngestionPausePath" IngestionPausePath _ _; MkPathType "IngestionResumePath" IngestionResumePath _ _;
   MkPathType "InsightsTopQueriesPath" InsightsTopQueriesPath _ _; MkPathType "ISMAddPolicyPath" ISMAddPolicyPath _ _;
   MkPathType "ISMChangePolicyPath" ISMChangePolicyPath _ _; MkPathType "ISMDeletePolicyPath" ISMDeletePolicyPath _ _;
   MkPathType "ISMExistsPolicyPath" ISMExistsPolicyPath _ _; MkPathType "ISMExplainPolicyPath" ISMExplainPolicyPath _ _;
   MkPathType "ISMGetPoliciesPath" ISMGetPoliciesPath _ _; MkPathType "ISMGetPolicyPath" ISMGetPolicyPath _ _;
   MkPathType "ISMPutPoliciesPath" ISMPutPoliciesPath _ _; MkPathType "ISMPutPolicyPath" ISMPutPolicyPath _ _;
   MkPathType "ISMRefreshSearchAnalyzersPath" ISMRefreshSearchAnalyzersPath _ _; MkPathType "ISMRemovePolicyPath" ISMRemovePolicyPath _ _;
   MkPathType "ISMRetryIndexPath" ISMRetryIndexPath _ _; MkPathType "ListHelpPath" ListHelpPath _ _;
   MkPathType "ListIndicesPath" ListIndicesPath _ _; MkPathType "ListShardsPath" ListShardsPath _ _;
   MkPathType "ReplicationAutofollowStatsPath" ReplicationAutofollowStatsPath _ _; MkPathType "ReplicationCreateReplicationRulePath" ReplicationCreateReplicationRulePath _ _;
   MkPathType "ReplicationDeleteReplicationRulePath" ReplicationDeleteReplicationRulePath _ _; MkPathType "ReplicationFollowerStatsPath" ReplicationFollowerStatsPath _ _;
   MkPathType "ReplicationLeaderStatsPath" ReplicationLeaderStatsPath _ _; MkPathType "ReplicationPausePath" ReplicationPausePath _ _;
   MkPathType "ReplicationResumePath" ReplicationResumePath _ _; MkPathType "ReplicationStartPath" ReplicationStartPath _ _;
   MkPathType "ReplicationStatusPath" ReplicationStatusPath _ _; MkPathType "ReplicationStopPath" ReplicationStopPath _ _;
   MkPathType "ReplicationUpdateSettingsPath" ReplicationUpdateSettingsPath _ _; MkPathType "RollupsDeletePath" RollupsDeletePath _ _;
   MkPathType "RollupsExplainPath" RollupsExplainPath _ _; MkPathType "RollupsGetPath" RollupsGetPath _ _;
   MkPathType "RollupsPutPath" RollupsPutPath _ _; MkPathType "RollupsStartPath" RollupsStartPath _ _;
   MkPathType "RollupsStopPath" RollupsStopPath _ _; MkPathType "SearchPipelineDeletePath" SearchPipelineDeletePath _ _;
   MkPathType "SearchPipelineGetPath" SearchPipelineGetPath _ _; MkPathType "SearchPipelinePutPath" SearchPipelinePutPath _ _;
   MkPathType "SMCreatePolicyPath" SMCreatePolicyPath _ _; MkPathType "SMDeletePolicyPath" SMDeletePolicyPath _ _;
   MkPathType "SMExplainPolicyPath" SMExplainPolicyPath _ _; MkPathType "SMGetPoliciesPath" SMGetPoliciesPath _ _;
   MkPathType "SMGetPolicyPath" SMGetPolicyPath _ _; MkPathType "SMStartPolicyPath" SMStartPolicyPath _ _;
   MkPathType "SMStopPolicyPath" SMStopPolicyPath _ _; MkPathType "SMUpdatePolicyPath" SMUpdatePolicyPath _ _;
   MkPathType "SnapshotCleanupRepositoryPath" SnapshotCleanupRepositoryPath _ _; MkPathType "SnapshotClonePath" SnapshotClonePath _ _;
   MkPathType "SnapshotCreatePath" SnapshotCreatePath _ _; MkPathType "SnapshotCreateRepositoryPath" SnapshotCreateRepositoryPath _ _;
   MkPathType "SnapshotDeletePath" SnapshotDeletePath _ _; MkPathType "SnapshotDeleteRepositoryPath" SnapshotDeleteRepositoryPath _ _;
   MkPathType "SnapshotGetPath" SnapshotGetPath _ _; MkPathType "SnapshotGetRepositoryPath" SnapshotGetRepositoryPath _ _;
   MkPathType "SnapshotRestorePath" SnapshotRestorePath _ _; MkPathType "SnapshotStatusPath" SnapshotStatusPath _ _;
   MkPathType "SnapshotVerifyRepositoryPath" SnapshotVerifyRepositoryPath _ _; MkPathType "TransformsDeletePath" TransformsDeletePath _ _;
   MkPathType "TransformsExplainPath" TransformsExplainPath _ _; MkPathType "TransformsGetPath" TransformsGetPath _ _;
   MkPathType "TransformsPreviewPath" TransformsPreviewPath _ _; MkPathType "TransformsPutPath" TransformsPutPath _ _;
   MkPathType "TransformsSearchPath" TransformsSearchPath _ _; MkPathType "TransformsStartPath" TransformsStartPath _ _;
   MkPathType "TransformsStopPath" TransformsStopPath _ _; MkPathType "WLMCreateQueryGroupPath" WLMCreateQueryGroupPath _ _;
   MkPathType "WLMDeleteQueryGroupPath" WLMDeleteQueryGroupPath _ _; MkPathType "WLMGetQueryGroupPath" WLMGetQueryGroupPath _ _;
   MkPathType "WLMUpdateQueryGroupPath" WLMUpdateQueryGroupPath _ _].
