(* ===== verification/PathsSecurity.v ===== *)
(** * Path types: Security

    The path types of internal/path/builders_gen.go for the security plugins:
    the fields, the Build method, and the path templates that
    opensearch-openapi.yaml has for the operation (less the ones it marks deprecated
    or superseded by another template with the same parameters), with the proof
    that Build follows them. *)

From Stdlib Require Import Ascii String.
From stdpp Require Import base list strings.
From S2P Require Import Paths.
Open Scope string_scope.
Open Scope list_scope.
Open Scope bool_scope.
Open Scope stmt_scope.

Record SecurityAuthinfoPath := MkSecurityAuthinfoPath {  }.
Definition SecurityAuthinfoPath_Build (p : SecurityAuthinfoPath) : built := build (writeLit "_plugins";; writeLit "_security";; writeLit "authinfo").
#[export] Instance SecurityAuthinfoPath_builder : builder SecurityAuthinfoPath :=
  {| Build := SecurityAuthinfoPath_Build; fields _ := []; ignored _ := [];
     templates := ["/_plugins/_security/authinfo"] |}.
#[export] Instance SecurityAuthinfoPath_lawful : Lawful SecurityAuthinfoPath.
Proof. follow. Qed.

Record SecurityAuthtokenPath := MkSecurityAuthtokenPath {  }.
Definition SecurityAuthtokenPath_Build (p : SecurityAuthtokenPath) : built := build (writeLit "_plugins";; writeLit "_security";; writeLit "api";; writeLit "authtoken").
#[export] Instance SecurityAuthtokenPath_builder : builder SecurityAuthtokenPath :=
  {| Build := SecurityAuthtokenPath_Build; fields _ := []; ignored _ := [];
     templates := ["/_plugins/_security/api/authtoken"] |}.
#[export] Instance SecurityAuthtokenPath_lawful : Lawful SecurityAuthtokenPath.
Proof. follow. Qed.

Record SecurityChangePasswordPath := MkSecurityChangePasswordPath {  }.
Definition SecurityChangePasswordPath_Build (p : SecurityChangePasswordPath) : built :=
  build (writeLit "_plugins";; writeLit "_security";; writeLit "api";; writeLit "account").
#[export] Instance SecurityChangePasswordPath_builder : builder SecurityChangePasswordPath :=
  {| Build := SecurityChangePasswordPath_Build; fields _ := []; ignored _ := [];
     templates := ["/_plugins/_security/api/account"] |}.
#[export] Instance SecurityChangePasswordPath_lawful : Lawful SecurityChangePasswordPath.
Proof. follow. Qed.

Record SecurityConfigUpgradeCheckPath := MkSecurityConfigUpgradeCheckPath {  }.
Definition SecurityConfigUpgradeCheckPath_Build (p : SecurityConfigUpgradeCheckPath) : built :=
  build (writeLit "_plugins";; writeLit "_security";; writeLit "api";; writeLit "_upgrade_check").
#[export] Instance SecurityConfigUpgradeCheckPath_builder : builder SecurityConfigUpgradeCheckPath :=
  {| Build := SecurityConfigUpgradeCheckPath_Build; fields _ := []; ignored _ := [];
     templates := ["/_plugins/_security/api/_upgrade_check"] |}.
#[export] Instance SecurityConfigUpgradeCheckPath_lawful : Lawful SecurityConfigUpgradeCheckPath.
Proof. follow. Qed.

Record SecurityConfigUpgradePerformPath := MkSecurityConfigUpgradePerformPath {  }.
Definition SecurityConfigUpgradePerformPath_Build (p : SecurityConfigUpgradePerformPath) : built :=
  build (writeLit "_plugins";; writeLit "_security";; writeLit "api";; writeLit "_upgrade_perform").
#[export] Instance SecurityConfigUpgradePerformPath_builder : builder SecurityConfigUpgradePerformPath :=
  {| Build := SecurityConfigUpgradePerformPath_Build; fields _ := []; ignored _ := [];
     templates := ["/_plugins/_security/api/_upgrade_perform"] |}.
#[export] Instance SecurityConfigUpgradePerformPath_lawful : Lawful SecurityConfigUpgradePerformPath.
Proof. follow. Qed.

Record SecurityCreateActionGroupPath := MkSecurityCreateActionGroupPath { SecurityCreateActionGroupPath_ActionGroup : string }.
Definition SecurityCreateActionGroupPath_Build (p : SecurityCreateActionGroupPath) : built :=
  build (required "SecurityCreateActionGroupPath.ActionGroup" (SecurityCreateActionGroupPath_ActionGroup p);; writeLit "_plugins";;
   writeLit "_security";; writeLit "api";; writeLit "actiongroups";; writeReq (SecurityCreateActionGroupPath_ActionGroup p)).
#[export] Instance SecurityCreateActionGroupPath_builder : builder SecurityCreateActionGroupPath :=
  {| Build := SecurityCreateActionGroupPath_Build; fields p := [("action_group", One (SecurityCreateActionGroupPath_ActionGroup p))]; ignored _ := [];
     templates := ["/_plugins/_security/api/actiongroups/{action_group}"] |}.
#[export] Instance SecurityCreateActionGroupPath_lawful : Lawful SecurityCreateActionGroupPath.
Proof. follow. Qed.

Record SecurityCreateAllowlistPath := MkSecurityCreateAllowlistPath {  }.
Definition SecurityCreateAllowlistPath_Build (p : SecurityCreateAllowlistPath) : built :=
  build (writeLit "_plugins";; writeLit "_security";; writeLit "api";; writeLit "allowlist").
#[export] Instance SecurityCreateAllowlistPath_builder : builder SecurityCreateAllowlistPath :=
  {| Build := SecurityCreateAllowlistPath_Build; fields _ := []; ignored _ := [];
     templates := ["/_plugins/_security/api/allowlist"] |}.
#[export] Instance SecurityCreateAllowlistPath_lawful : Lawful SecurityCreateAllowlistPath.
Proof. follow. Qed.

Record SecurityCreateRolePath := MkSecurityCreateRolePath { SecurityCreateRolePath_Role : string }.
Definition SecurityCreateRolePath_Build (p : SecurityCreateRolePath) : built :=
  build (required "SecurityCreateRolePath.Role" (SecurityCreateRolePath_Role p);; writeLit "_plugins";; writeLit "_security";;
   writeLit "api";; writeLit "roles";; writeReq (SecurityCreateRolePath_Role p)).
#[export] Instance SecurityCreateRolePath_builder : builder SecurityCreateRolePath :=
  {| Build := SecurityCreateRolePath_Build; fields p := [("role", One (SecurityCreateRolePath_Role p))]; ignored _ := [];
     templates := ["/_plugins/_security/api/roles/{role}"] |}.
#[export] Instance SecurityCreateRolePath_lawful : Lawful SecurityCreateRolePath.
Proof. follow. Qed.

Record SecurityCreateRoleMappingPath := MkSecurityCreateRoleMappingPath { SecurityCreateRoleMappingPath_Role : string }.
Definition SecurityCreateRoleMappingPath_Build (p : SecurityCreateRoleMappingPath) : built :=
  build (required "SecurityCreateRoleMappingPath.Role" (SecurityCreateRoleMappingPath_Role p);; writeLit "_plugins";;
   writeLit "_security";; writeLit "api";; writeLit "rolesmapping";; writeReq (SecurityCreateRoleMappingPath_Role p)).
#[export] Instance SecurityCreateRoleMappingPath_builder : builder SecurityCreateRoleMappingPath :=
  {| Build := SecurityCreateRoleMappingPath_Build; fields p := [("role", One (SecurityCreateRoleMappingPath_Role p))]; ignored _ := [];
     templates := ["/_plugins/_security/api/rolesmapping/{role}"] |}.
#[export] Instance SecurityCreateRoleMappingPath_lawful : Lawful SecurityCreateRoleMappingPath.
Proof. follow. Qed.

Record SecurityCreateTenantPath := MkSecurityCreateTenantPath { SecurityCreateTenantPath_Tenant : string }.
Definition SecurityCreateTenantPath_Build (p : SecurityCreateTenantPath) : built :=
  build (required "SecurityCreateTenantPath.Tenant" (SecurityCreateTenantPath_Tenant p);; writeLit "_plugins";; writeLit "_security";;
   writeLit "api";; writeLit "tenants";; writeReq (SecurityCreateTenantPath_Tenant p)).
#[export] Instance SecurityCreateTenantPath_builder : builder SecurityCreateTenantPath :=
  {| Build := SecurityCreateTenantPath_Build; fields p := [("tenant", One (SecurityCreateTenantPath_Tenant p))]; ignored _ := [];
     templates := ["/_plugins/_security/api/tenants/{tenant}"] |}.
#[export] Instance SecurityCreateTenantPath_lawful : Lawful SecurityCreateTenantPath.
Proof. follow. Qed.

Record SecurityCreateUpdateTenancyConfigPath := MkSecurityCreateUpdateTenancyConfigPath {  }.
Definition SecurityCreateUpdateTenancyConfigPath_Build (p : SecurityCreateUpdateTenancyConfigPath) : built :=
  build (writeLit "_plugins";; writeLit "_security";; writeLit "api";; writeLit "tenancy";; writeLit "config").
#[export] Instance SecurityCreateUpdateTenancyConfigPath_builder : builder SecurityCreateUpdateTenancyConfigPath :=
  {| Build := SecurityCreateUpdateTenancyConfigPath_Build; fields _ := []; ignored _ := [];
     templates := ["/_plugins/_security/api/tenancy/config"] |}.
#[export] Instance SecurityCreateUpdateTenancyConfigPath_lawful : Lawful SecurityCreateUpdateTenancyConfigPath.
Proof. follow. Qed.

Record SecurityCreateUserPath := MkSecurityCreateUserPath { SecurityCreateUserPath_Username : string }.
Definition SecurityCreateUserPath_Build (p : SecurityCreateUserPath) : built :=
  build (required "SecurityCreateUserPath.Username" (SecurityCreateUserPath_Username p);; writeLit "_plugins";; writeLit "_security";;
   writeLit "api";; writeLit "internalusers";; writeReq (SecurityCreateUserPath_Username p)).
#[export] Instance SecurityCreateUserPath_builder : builder SecurityCreateUserPath :=
  {| Build := SecurityCreateUserPath_Build; fields p := [("username", One (SecurityCreateUserPath_Username p))]; ignored _ := [];
     templates := ["/_plugins/_security/api/internalusers/{username}"] |}.
#[export] Instance SecurityCreateUserPath_lawful : Lawful SecurityCreateUserPath.
Proof. follow. Qed.

Record SecurityCreateUserLegacyPath := MkSecurityCreateUserLegacyPath { SecurityCreateUserLegacyPath_Username : string }.
Definition SecurityCreateUserLegacyPath_Build (p : SecurityCreateUserLegacyPath) : built :=
  build (required "SecurityCreateUserLegacyPath.Username" (SecurityCreateUserLegacyPath_Username p);; writeLit "_plugins";;
   writeLit "_security";; writeLit "api";; writeLit "user";; writeReq (SecurityCreateUserLegacyPath_Username p)).
#[export] Instance SecurityCreateUserLegacyPath_builder : builder SecurityCreateUserLegacyPath :=
  {| Build := SecurityCreateUserLegacyPath_Build; fields p := [("username", One (SecurityCreateUserLegacyPath_Username p))]; ignored _ := [];
     templates := ["/_plugins/_security/api/user/{username}"] |}.
#[export] Instance SecurityCreateUserLegacyPath_lawful : Lawful SecurityCreateUserLegacyPath.
Proof. follow. Qed.

Record SecurityDeleteActionGroupPath := MkSecurityDeleteActionGroupPath { SecurityDeleteActionGroupPath_ActionGroup : string }.
Definition SecurityDeleteActionGroupPath_Build (p : SecurityDeleteActionGroupPath) : built :=
  build (required "SecurityDeleteActionGroupPath.ActionGroup" (SecurityDeleteActionGroupPath_ActionGroup p);; writeLit "_plugins";;
   writeLit "_security";; writeLit "api";; writeLit "actiongroups";; writeReq (SecurityDeleteActionGroupPath_ActionGroup p)).
#[export] Instance SecurityDeleteActionGroupPath_builder : builder SecurityDeleteActionGroupPath :=
  {| Build := SecurityDeleteActionGroupPath_Build; fields p := [("action_group", One (SecurityDeleteActionGroupPath_ActionGroup p))]; ignored _ := [];
     templates := ["/_plugins/_security/api/actiongroups/{action_group}"] |}.
#[export] Instance SecurityDeleteActionGroupPath_lawful : Lawful SecurityDeleteActionGroupPath.
Proof. follow. Qed.

Record SecurityDeleteDistinguishedNamePath := MkSecurityDeleteDistinguishedNamePath { SecurityDeleteDistinguishedNamePath_ClusterName : string }.
Definition SecurityDeleteDistinguishedNamePath_Build (p : SecurityDeleteDistinguishedNamePath) : built :=
  build (required "SecurityDeleteDistinguishedNamePath.ClusterName" (SecurityDeleteDistinguishedNamePath_ClusterName p);;
   writeLit "_plugins";; writeLit "_security";; writeLit "api";; writeLit "nodesdn";;
   writeReq (SecurityDeleteDistinguishedNamePath_ClusterName p)).
#[export] Instance SecurityDeleteDistinguishedNamePath_builder : builder SecurityDeleteDistinguishedNamePath :=
  {| Build := SecurityDeleteDistinguishedNamePath_Build; fields p := [("cluster_name", One (SecurityDeleteDistinguishedNamePath_ClusterName p))]; ignored _ := [];
     templates := ["/_plugins/_security/api/nodesdn/{cluster_name}"] |}.
#[export] Instance SecurityDeleteDistinguishedNamePath_lawful : Lawful SecurityDeleteDistinguishedNamePath.
Proof. follow. Qed.

Record SecurityDeleteRolePath := MkSecurityDeleteRolePath { SecurityDeleteRolePath_Role : string }.
Definition SecurityDeleteRolePath_Build (p : SecurityDeleteRolePath) : built :=
  build (required "SecurityDeleteRolePath.Role" (SecurityDeleteRolePath_Role p);; writeLit "_plugins";; writeLit "_security";;
   writeLit "api";; writeLit "roles";; writeReq (SecurityDeleteRolePath_Role p)).
#[export] Instance SecurityDeleteRolePath_builder : builder SecurityDeleteRolePath :=
  {| Build := SecurityDeleteRolePath_Build; fields p := [("role", One (SecurityDeleteRolePath_Role p))]; ignored _ := [];
     templates := ["/_plugins/_security/api/roles/{role}"] |}.
#[export] Instance SecurityDeleteRolePath_lawful : Lawful SecurityDeleteRolePath.
Proof. follow. Qed.

Record SecurityDeleteRoleMappingPath := MkSecurityDeleteRoleMappingPath { SecurityDeleteRoleMappingPath_Role : string }.
Definition SecurityDeleteRoleMappingPath_Build (p : SecurityDeleteRoleMappingPath) : built :=
  build (required "SecurityDeleteRoleMappingPath.Role" (SecurityDeleteRoleMappingPath_Role p);; writeLit "_plugins";;
   writeLit "_security";; writeLit "api";; writeLit "rolesmapping";; writeReq (SecurityDeleteRoleMappingPath_Role p)).
#[export] Instance SecurityDeleteRoleMappingPath_builder : builder SecurityDeleteRoleMappingPath :=
  {| Build := SecurityDeleteRoleMappingPath_Build; fields p := [("role", One (SecurityDeleteRoleMappingPath_Role p))]; ignored _ := [];
     templates := ["/_plugins/_security/api/rolesmapping/{role}"] |}.
#[export] Instance SecurityDeleteRoleMappingPath_lawful : Lawful SecurityDeleteRoleMappingPath.
Proof. follow. Qed.

Record SecurityDeleteTenantPath := MkSecurityDeleteTenantPath { SecurityDeleteTenantPath_Tenant : string }.
Definition SecurityDeleteTenantPath_Build (p : SecurityDeleteTenantPath) : built :=
  build (required "SecurityDeleteTenantPath.Tenant" (SecurityDeleteTenantPath_Tenant p);; writeLit "_plugins";; writeLit "_security";;
   writeLit "api";; writeLit "tenants";; writeReq (SecurityDeleteTenantPath_Tenant p)).
#[export] Instance SecurityDeleteTenantPath_builder : builder SecurityDeleteTenantPath :=
  {| Build := SecurityDeleteTenantPath_Build; fields p := [("tenant", One (SecurityDeleteTenantPath_Tenant p))]; ignored _ := [];
     templates := ["/_plugins/_security/api/tenants/{tenant}"] |}.
#[export] Instance SecurityDeleteTenantPath_lawful : Lawful SecurityDeleteTenantPath.
Proof. follow. Qed.

Record SecurityDeleteUserPath := MkSecurityDeleteUserPath { SecurityDeleteUserPath_Username : string }.
Definition SecurityDeleteUserPath_Build (p : SecurityDeleteUserPath) : built :=
  build (required "SecurityDeleteUserPath.Username" (SecurityDeleteUserPath_Username p);; writeLit "_plugins";; writeLit "_security";;
   writeLit "api";; writeLit "internalusers";; writeReq (SecurityDeleteUserPath_Username p)).
#[export] Instance SecurityDeleteUserPath_builder : builder SecurityDeleteUserPath :=
  {| Build := SecurityDeleteUserPath_Build; fields p := [("username", One (SecurityDeleteUserPath_Username p))]; ignored _ := [];
     templates := ["/_plugins/_security/api/internalusers/{username}"] |}.
#[export] Instance SecurityDeleteUserPath_lawful : Lawful SecurityDeleteUserPath.
Proof. follow. Qed.

Record SecurityDeleteUserLegacyPath := MkSecurityDeleteUserLegacyPath { SecurityDeleteUserLegacyPath_Username : string }.
Definition SecurityDeleteUserLegacyPath_Build (p : SecurityDeleteUserLegacyPath) : built :=
  build (required "SecurityDeleteUserLegacyPath.Username" (SecurityDeleteUserLegacyPath_Username p);; writeLit "_plugins";;
   writeLit "_security";; writeLit "api";; writeLit "user";; writeReq (SecurityDeleteUserLegacyPath_Username p)).
#[export] Instance SecurityDeleteUserLegacyPath_builder : builder SecurityDeleteUserLegacyPath :=
  {| Build := SecurityDeleteUserLegacyPath_Build; fields p := [("username", One (SecurityDeleteUserLegacyPath_Username p))]; ignored _ := [];
     templates := ["/_plugins/_security/api/user/{username}"] |}.
#[export] Instance SecurityDeleteUserLegacyPath_lawful : Lawful SecurityDeleteUserLegacyPath.
Proof. follow. Qed.

Record SecurityFlushCachePath := MkSecurityFlushCachePath {  }.
Definition SecurityFlushCachePath_Build (p : SecurityFlushCachePath) : built := build (writeLit "_plugins";; writeLit "_security";; writeLit "api";; writeLit "cache").
#[export] Instance SecurityFlushCachePath_builder : builder SecurityFlushCachePath :=
  {| Build := SecurityFlushCachePath_Build; fields _ := []; ignored _ := [];
     templates := ["/_plugins/_security/api/cache"] |}.
#[export] Instance SecurityFlushCachePath_lawful : Lawful SecurityFlushCachePath.
Proof. follow. Qed.

Record SecurityGenerateOboTokenPath := MkSecurityGenerateOboTokenPath {  }.
Definition SecurityGenerateOboTokenPath_Build (p : SecurityGenerateOboTokenPath) : built :=
  build (writeLit "_plugins";; writeLit "_security";; writeLit "api";; writeLit "generateonbehalfoftoken").
#[export] Instance SecurityGenerateOboTokenPath_builder : builder SecurityGenerateOboTokenPath :=
  {| Build := SecurityGenerateOboTokenPath_Build; fields _ := []; ignored _ := [];
     templates := ["/_plugins/_security/api/generateonbehalfoftoken"] |}.
#[export] Instance SecurityGenerateOboTokenPath_lawful : Lawful SecurityGenerateOboTokenPath.
Proof. follow. Qed.

Record SecurityGenerateUserTokenPath := MkSecurityGenerateUserTokenPath { SecurityGenerateUserTokenPath_Username : string }.
Definition SecurityGenerateUserTokenPath_Build (p : SecurityGenerateUserTokenPath) : built :=
  build (required "SecurityGenerateUserTokenPath.Username" (SecurityGenerateUserTokenPath_Username p);; writeLit "_plugins";;
   writeLit "_security";; writeLit "api";; writeLit "internalusers";; writeReq (SecurityGenerateUserTokenPath_Username p);;
   writeLit "authtoken").
#[export] Instance SecurityGenerateUserTokenPath_builder : builder SecurityGenerateUserTokenPath :=
  {| Build := SecurityGenerateUserTokenPath_Build; fields p := [("username", One (SecurityGenerateUserTokenPath_Username p))]; ignored _ := [];
     templates := ["/_plugins/_security/api/internalusers/{username}/authtoken"] |}.
#[export] Instance SecurityGenerateUserTokenPath_lawful : Lawful SecurityGenerateUserTokenPath.
Proof. follow. Qed.

Record SecurityGenerateUserTokenLegacyPath := MkSecurityGenerateUserTokenLegacyPath { SecurityGenerateUserTokenLegacyPath_Username : string }.
Definition SecurityGenerateUserTokenLegacyPath_Build (p : SecurityGenerateUserTokenLegacyPath) : built :=
  build (required "SecurityGenerateUserTokenLegacyPath.Username" (SecurityGenerateUserTokenLegacyPath_Username p);;
   writeLit "_plugins";; writeLit "_security";; writeLit "api";; writeLit "user";;
   writeReq (SecurityGenerateUserTokenLegacyPath_Username p);; writeLit "authtoken").
#[export] Instance SecurityGenerateUserTokenLegacyPath_builder : builder SecurityGenerateUserTokenLegacyPath :=
  {| Build := SecurityGenerateUserTokenLegacyPath_Build; fields p := [("username", One (SecurityGenerateUserTokenLegacyPath_Username p))]; ignored _ := [];
     templates := ["/_plugins/_security/api/user/{username}/authtoken"] |}.
#[export] Instance SecurityGenerateUserTokenLegacyPath_lawful : Lawful SecurityGenerateUserTokenLegacyPath.
Proof. follow. Qed.

Record SecurityGetAccountDetailsPath := MkSecurityGetAccountDetailsPath {  }.
Definition SecurityGetAccountDetailsPath_Build (p : SecurityGetAccountDetailsPath) : built :=
  build (writeLit "_plugins";; writeLit "_security";; writeLit "api";; writeLit "account").
#[export] Instance SecurityGetAccountDetailsPath_builder : builder SecurityGetAccountDetailsPath :=
  {| Build := SecurityGetAccountDetailsPath_Build; fields _ := []; ignored _ := [];
     templates := ["/_plugins/_security/api/account"] |}.
#[export] Instance SecurityGetAccountDetailsPath_lawful : Lawful SecurityGetAccountDetailsPath.
Proof. follow. Qed.

Record SecurityGetActionGroupPath := MkSecurityGetActionGroupPath { SecurityGetActionGroupPath_ActionGroup : string }.
Definition SecurityGetActionGroupPath_Build (p : SecurityGetActionGroupPath) : built :=
  build (required "SecurityGetActionGroupPath.ActionGroup" (SecurityGetActionGroupPath_ActionGroup p);; writeLit "_plugins";;
   writeLit "_security";; writeLit "api";; writeLit "actiongroups";; writeReq (SecurityGetActionGroupPath_ActionGroup p)).
#[export] Instance SecurityGetActionGroupPath_builder : builder SecurityGetActionGroupPath :=
  {| Build := SecurityGetActionGroupPath_Build; fields p := [("action_group", One (SecurityGetActionGroupPath_ActionGroup p))]; ignored _ := [];
     templates := ["/_plugins/_security/api/actiongroups/{action_group}"] |}.
#[export] Instance SecurityGetActionGroupPath_lawful : Lawful SecurityGetActionGroupPath.
Proof. follow. Qed.

Record SecurityGetActionGroupsPath := MkSecurityGetActionGroupsPath {  }.
Definition SecurityGetActionGroupsPath_Build (p : SecurityGetActionGroupsPath) : built :=
  build (writeLit "_plugins";; writeLit "_security";; writeLit "api";; writeLit "actiongroups").
#[export] Instance SecurityGetActionGroupsPath_builder : builder SecurityGetActionGroupsPath :=
  {| Build := SecurityGetActionGroupsPath_Build; fields _ := []; ignored _ := [];
     templates := ["/_plugins/_security/api/actiongroups"] |}.
#[export] Instance SecurityGetActionGroupsPath_lawful : Lawful SecurityGetActionGroupsPath.
Proof. follow. Qed.

Record SecurityGetAllCertificatesPath := MkSecurityGetAllCertificatesPath {  }.
Definition SecurityGetAllCertificatesPath_Build (p : SecurityGetAllCertificatesPath) : built :=
  build (writeLit "_plugins";; writeLit "_security";; writeLit "api";; writeLit "certificates").
#[export] Instance SecurityGetAllCertificatesPath_builder : builder SecurityGetAllCertificatesPath :=
  {| Build := SecurityGetAllCertificatesPath_Build; fields _ := []; ignored _ := [];
     templates := ["/_plugins/_security/api/certificates"] |}.
#[export] Instance SecurityGetAllCertificatesPath_lawful : Lawful SecurityGetAllCertificatesPath.
Proof. follow. Qed.

Record SecurityGetAllowlistPath := MkSecurityGetAllowlistPath {  }.
Definition SecurityGetAllowlistPath_Build (p : SecurityGetAllowlistPath) : built :=
  build (writeLit "_plugins";; writeLit "_security";; writeLit "api";; writeLit "allowlist").
#[export] Instance SecurityGetAllowlistPath_builder : builder SecurityGetAllowlistPath :=
  {| Build := SecurityGetAllowlistPath_Build; fields _ := []; ignored _ := [];
     templates := ["/_plugins/_security/api/allowlist"] |}.
#[export] Instance SecurityGetAllowlistPath_lawful : Lawful SecurityGetAllowlistPath.
Proof. follow. Qed.

Record SecurityGetAuditConfigurationPath := MkSecurityGetAuditConfigurationPath {  }.
Definition SecurityGetAuditConfigurationPath_Build (p : SecurityGetAuditConfigurationPath) : built :=
  build (writeLit "_plugins";; writeLit "_security";; writeLit "api";; writeLit "audit").
#[export] Instance SecurityGetAuditConfigurationPath_builder : builder SecurityGetAuditConfigurationPath :=
  {| Build := SecurityGetAuditConfigurationPath_Build; fields _ := []; ignored _ := [];
     templates := ["/_plugins/_security/api/audit"] |}.
#[export] Instance SecurityGetAuditConfigurationPath_lawful : Lawful SecurityGetAuditConfigurationPath.
Proof. follow. Qed.

Record SecurityGetCertificatesPath := MkSecurityGetCertificatesPath {  }.
Definition SecurityGetCertificatesPath_Build (p : SecurityGetCertificatesPath) : built :=
  build (writeLit "_plugins";; writeLit "_security";; writeLit "api";; writeLit "ssl";; writeLit "certs").
#[export] Instance SecurityGetCertificatesPath_builder : builder SecurityGetCertificatesPath :=
  {| Build := SecurityGetCertificatesPath_Build; fields _ := []; ignored _ := [];
     templates := ["/_plugins/_security/api/ssl/certs"] |}.
#[export] Instance SecurityGetCertificatesPath_lawful : Lawful SecurityGetCertificatesPath.
Proof. follow. Qed.

Record SecurityGetConfigurationPath := MkSecurityGetConfigurationPath {  }.
Definition SecurityGetConfigurationPath_Build (p : SecurityGetConfigurationPath) : built :=
  build (writeLit "_plugins";; writeLit "_security";; writeLit "api";; writeLit "securityconfig").
#[export] Instance SecurityGetConfigurationPath_builder : builder SecurityGetConfigurationPath :=
  {| Build := SecurityGetConfigurationPath_Build; fields _ := []; ignored _ := [];
     templates := ["/_plugins/_security/api/securityconfig"] |}.
#[export] Instance SecurityGetConfigurationPath_lawful : Lawful SecurityGetConfigurationPath.
Proof. follow. Qed.

Record SecurityGetDashboardsInfoPath := MkSecurityGetDashboardsInfoPath {  }.
Definition SecurityGetDashboardsInfoPath_Build (p : SecurityGetDashboardsInfoPath) : built :=
  build (writeLit "_plugins";; writeLit "_security";; writeLit "dashboardsinfo").
#[export] Instance SecurityGetDashboardsInfoPath_builder : builder SecurityGetDashboardsInfoPath :=
  {| Build := SecurityGetDashboardsInfoPath_Build; fields _ := []; ignored _ := [];
     templates := ["/_plugins/_security/dashboardsinfo"] |}.
#[export] Instance SecurityGetDashboardsInfoPath_lawful : Lawful SecurityGetDashboardsInfoPath.
Proof. follow. Qed.

Record SecurityGetDistinguishedNamePath := MkSecurityGetDistinguishedNamePath { SecurityGetDistinguishedNamePath_ClusterName : string }.
Definition SecurityGetDistinguishedNamePath_Build (p : SecurityGetDistinguishedNamePath) : built :=
  build (required "SecurityGetDistinguishedNamePath.ClusterName" (SecurityGetDistinguishedNamePath_ClusterName p);;
   writeLit "_plugins";; writeLit "_security";; writeLit "api";; writeLit "nodesdn";;
   writeReq (SecurityGetDistinguishedNamePath_ClusterName p)).
#[export] Instance SecurityGetDistinguishedNamePath_builder : builder SecurityGetDistinguishedNamePath :=
  {| Build := SecurityGetDistinguishedNamePath_Build; fields p := [("cluster_name", One (SecurityGetDistinguishedNamePath_ClusterName p))]; ignored _ := [];
     templates := ["/_plugins/_security/api/nodesdn/{cluster_name}"] |}.
#[export] Instance SecurityGetDistinguishedNamePath_lawful : Lawful SecurityGetDistinguishedNamePath.
Proof. follow. Qed.

Record SecurityGetDistinguishedNamesPath := MkSecurityGetDistinguishedNamesPath {  }.
Definition SecurityGetDistinguishedNamesPath_Build (p : SecurityGetDistinguishedNamesPath) : built :=
  build (writeLit "_plugins";; writeLit "_security";; writeLit "api";; writeLit "nodesdn").
#[export] Instance SecurityGetDistinguishedNamesPath_builder : builder SecurityGetDistinguishedNamesPath :=
  {| Build := SecurityGetDistinguishedNamesPath_Build; fields _ := []; ignored _ := [];
     templates := ["/_plugins/_security/api/nodesdn"] |}.
#[export] Instance SecurityGetDistinguishedNamesPath_lawful : Lawful SecurityGetDistinguishedNamesPath.
Proof. follow. Qed.

Record SecurityGetNodeCertificatesPath := MkSecurityGetNodeCertificatesPath { SecurityGetNodeCertificatesPath_NodeID : string }.
Definition SecurityGetNodeCertificatesPath_Build (p : SecurityGetNodeCertificatesPath) : built :=
  build (required "SecurityGetNodeCertificatesPath.NodeID" (SecurityGetNodeCertificatesPath_NodeID p);; writeLit "_plugins";;
   writeLit "_security";; writeLit "api";; writeLit "certificates";; writeReq (SecurityGetNodeCertificatesPath_NodeID p)).
#[export] Instance SecurityGetNodeCertificatesPath_builder : builder SecurityGetNodeCertificatesPath :=
  {| Build := SecurityGetNodeCertificatesPath_Build; fields p := [("node_id", One (SecurityGetNodeCertificatesPath_NodeID p))]; ignored _ := [];
     templates := ["/_plugins/_security/api/certificates/{node_id}"] |}.
#[export] Instance SecurityGetNodeCertificatesPath_lawful : Lawful SecurityGetNodeCertificatesPath.
Proof. follow. Qed.

Record SecurityGetPermissionsInfoPath := MkSecurityGetPermissionsInfoPath {  }.
Definition SecurityGetPermissionsInfoPath_Build (p : SecurityGetPermissionsInfoPath) : built :=
  build (writeLit "_plugins";; writeLit "_security";; writeLit "api";; writeLit "permissionsinfo").
#[export] Instance SecurityGetPermissionsInfoPath_builder : builder SecurityGetPermissionsInfoPath :=
  {| Build := SecurityGetPermissionsInfoPath_Build; fields _ := []; ignored _ := [];
     templates := ["/_plugins/_security/api/permissionsinfo"] |}.
#[export] Instance SecurityGetPermissionsInfoPath_lawful : Lawful SecurityGetPermissionsInfoPath.
Proof. follow. Qed.

Record SecurityGetRolePath := MkSecurityGetRolePath { SecurityGetRolePath_Role : string }.
Definition SecurityGetRolePath_Build (p : SecurityGetRolePath) : built :=
  build (required "SecurityGetRolePath.Role" (SecurityGetRolePath_Role p);; writeLit "_plugins";; writeLit "_security";;
   writeLit "api";; writeLit "roles";; writeReq (SecurityGetRolePath_Role p)).
#[export] Instance SecurityGetRolePath_builder : builder SecurityGetRolePath :=
  {| Build := SecurityGetRolePath_Build; fields p := [("role", One (SecurityGetRolePath_Role p))]; ignored _ := [];
     templates := ["/_plugins/_security/api/roles/{role}"] |}.
#[export] Instance SecurityGetRolePath_lawful : Lawful SecurityGetRolePath.
Proof. follow. Qed.

Record SecurityGetRoleMappingPath := MkSecurityGetRoleMappingPath { SecurityGetRoleMappingPath_Role : string }.
Definition SecurityGetRoleMappingPath_Build (p : SecurityGetRoleMappingPath) : built :=
  build (required "SecurityGetRoleMappingPath.Role" (SecurityGetRoleMappingPath_Role p);; writeLit "_plugins";; writeLit "_security";;
   writeLit "api";; writeLit "rolesmapping";; writeReq (SecurityGetRoleMappingPath_Role p)).
#[export] Instance SecurityGetRoleMappingPath_builder : builder SecurityGetRoleMappingPath :=
  {| Build := SecurityGetRoleMappingPath_Build; fields p := [("role", One (SecurityGetRoleMappingPath_Role p))]; ignored _ := [];
     templates := ["/_plugins/_security/api/rolesmapping/{role}"] |}.
#[export] Instance SecurityGetRoleMappingPath_lawful : Lawful SecurityGetRoleMappingPath.
Proof. follow. Qed.

Record SecurityGetRoleMappingsPath := MkSecurityGetRoleMappingsPath {  }.
Definition SecurityGetRoleMappingsPath_Build (p : SecurityGetRoleMappingsPath) : built :=
  build (writeLit "_plugins";; writeLit "_security";; writeLit "api";; writeLit "rolesmapping").
#[export] Instance SecurityGetRoleMappingsPath_builder : builder SecurityGetRoleMappingsPath :=
  {| Build := SecurityGetRoleMappingsPath_Build; fields _ := []; ignored _ := [];
     templates := ["/_plugins/_security/api/rolesmapping"] |}.
#[export] Instance SecurityGetRoleMappingsPath_lawful : Lawful SecurityGetRoleMappingsPath.
Proof. follow. Qed.

Record SecurityGetRolesPath := MkSecurityGetRolesPath {  }.
Definition SecurityGetRolesPath_Build (p : SecurityGetRolesPath) : built := build (writeLit "_plugins";; writeLit "_security";; writeLit "api";; writeLit "roles").
#[export] Instance SecurityGetRolesPath_builder : builder SecurityGetRolesPath :=
  {| Build := SecurityGetRolesPath_Build; fields _ := []; ignored _ := [];
     templates := ["/_plugins/_security/api/roles"] |}.
#[export] Instance SecurityGetRolesPath_lawful : Lawful SecurityGetRolesPath.
Proof. follow. Qed.

Record SecurityGetSslinfoPath := MkSecurityGetSslinfoPath {  }.
Definition SecurityGetSslinfoPath_Build (p : SecurityGetSslinfoPath) : built := build (writeLit "_opendistro";; writeLit "_security";; writeLit "sslinfo").
#[export] Instance SecurityGetSslinfoPath_builder : builder SecurityGetSslinfoPath :=
  {| Build := SecurityGetSslinfoPath_Build; fields _ := []; ignored _ := [];
     templates := ["/_opendistro/_security/sslinfo"] |}.
#[export] Instance SecurityGetSslinfoPath_lawful : Lawful SecurityGetSslinfoPath.
Proof. follow. Qed.

Record SecurityGetTenancyConfigPath := MkSecurityGetTenancyConfigPath {  }.
Definition SecurityGetTenancyConfigPath_Build (p : SecurityGetTenancyConfigPath) : built :=
  build (writeLit "_plugins";; writeLit "_security";; writeLit "api";; writeLit "tenancy";; writeLit "config").
#[export] Instance SecurityGetTenancyConfigPath_builder : builder SecurityGetTenancyConfigPath :=
  {| Build := SecurityGetTenancyConfigPath_Build; fields _ := []; ignored _ := [];
     templates := ["/_plugins/_security/api/tenancy/config"] |}.
#[export] Instance SecurityGetTenancyConfigPath_lawful : Lawful SecurityGetTenancyConfigPath.
Proof. follow. Qed.

Record SecurityGetTenantPath := MkSecurityGetTenantPath { SecurityGetTenantPath_Tenant : string }.
Definition SecurityGetTenantPath_Build (p : SecurityGetTenantPath) : built :=
  build (required "SecurityGetTenantPath.Tenant" (SecurityGetTenantPath_Tenant p);; writeLit "_plugins";; writeLit "_security";;
   writeLit "api";; writeLit "tenants";; writeReq (SecurityGetTenantPath_Tenant p)).
#[export] Instance SecurityGetTenantPath_builder : builder SecurityGetTenantPath :=
  {| Build := SecurityGetTenantPath_Build; fields p := [("tenant", One (SecurityGetTenantPath_Tenant p))]; ignored _ := [];
     templates := ["/_plugins/_security/api/tenants/{tenant}"] |}.
#[export] Instance SecurityGetTenantPath_lawful : Lawful SecurityGetTenantPath.
Proof. follow. Qed.

Record SecurityGetTenantsPath := MkSecurityGetTenantsPath {  }.
Definition SecurityGetTenantsPath_Build (p : SecurityGetTenantsPath) : built := build (writeLit "_plugins";; writeLit "_security";; writeLit "api";; writeLit "tenants").
#[export] Instance SecurityGetTenantsPath_builder : builder SecurityGetTenantsPath :=
  {| Build := SecurityGetTenantsPath_Build; fields _ := []; ignored _ := [];
     templates := ["/_plugins/_security/api/tenants"] |}.
#[export] Instance SecurityGetTenantsPath_lawful : Lawful SecurityGetTenantsPath.
Proof. follow. Qed.

Record SecurityGetUserPath := MkSecurityGetUserPath { SecurityGetUserPath_Username : string }.
Definition SecurityGetUserPath_Build (p : SecurityGetUserPath) : built :=
  build (required "SecurityGetUserPath.Username" (SecurityGetUserPath_Username p);; writeLit "_plugins";; writeLit "_security";;
   writeLit "api";; writeLit "internalusers";; writeReq (SecurityGetUserPath_Username p)).
#[export] Instance SecurityGetUserPath_builder : builder SecurityGetUserPath :=
  {| Build := SecurityGetUserPath_Build; fields p := [("username", One (SecurityGetUserPath_Username p))]; ignored _ := [];
     templates := ["/_plugins/_security/api/internalusers/{username}"] |}.
#[export] Instance SecurityGetUserPath_lawful : Lawful SecurityGetUserPath.
Proof. follow. Qed.

Record SecurityGetUserLegacyPath := MkSecurityGetUserLegacyPath { SecurityGetUserLegacyPath_Username : string }.
Definition SecurityGetUserLegacyPath_Build (p : SecurityGetUserLegacyPath) : built :=
  build (required "SecurityGetUserLegacyPath.Username" (SecurityGetUserLegacyPath_Username p);; writeLit "_plugins";;
   writeLit "_security";; writeLit "api";; writeLit "user";; writeReq (SecurityGetUserLegacyPath_Username p)).
#[export] Instance SecurityGetUserLegacyPath_builder : builder SecurityGetUserLegacyPath :=
  {| Build := SecurityGetUserLegacyPath_Build; fields p := [("username", One (SecurityGetUserLegacyPath_Username p))]; ignored _ := [];
     templates := ["/_plugins/_security/api/user/{username}"] |}.
#[export] Instance SecurityGetUserLegacyPath_lawful : Lawful SecurityGetUserLegacyPath.
Proof. follow. Qed.

Record SecurityGetUsersPath := MkSecurityGetUsersPath {  }.
Definition SecurityGetUsersPath_Build (p : SecurityGetUsersPath) : built :=
  build (writeLit "_plugins";; writeLit "_security";; writeLit "api";; writeLit "internalusers").
#[export] Instance SecurityGetUsersPath_builder : builder SecurityGetUsersPath :=
  {| Build := SecurityGetUsersPath_Build; fields _ := []; ignored _ := [];
     templates := ["/_plugins/_security/api/internalusers"] |}.
#[export] Instance SecurityGetUsersPath_lawful : Lawful SecurityGetUsersPath.
Proof. follow. Qed.

Record SecurityGetUsersLegacyPath := MkSecurityGetUsersLegacyPath {  }.
Definition SecurityGetUsersLegacyPath_Build (p : SecurityGetUsersLegacyPath) : built :=
  build (writeLit "_plugins";; writeLit "_security";; writeLit "api";; writeLit "user").
#[export] Instance SecurityGetUsersLegacyPath_builder : builder SecurityGetUsersLegacyPath :=
  {| Build := SecurityGetUsersLegacyPath_Build; fields _ := []; ignored _ := [];
     templates := ["/_plugins/_security/api/user"] |}.
#[export] Instance SecurityGetUsersLegacyPath_lawful : Lawful SecurityGetUsersLegacyPath.
Proof. follow. Qed.

Record SecurityHealthPath := MkSecurityHealthPath {  }.
Definition SecurityHealthPath_Build (p : SecurityHealthPath) : built := build (writeLit "_plugins";; writeLit "_security";; writeLit "health").
#[export] Instance SecurityHealthPath_builder : builder SecurityHealthPath :=
  {| Build := SecurityHealthPath_Build; fields _ := []; ignored _ := [];
     templates := ["/_plugins/_security/health"] |}.
#[export] Instance SecurityHealthPath_lawful : Lawful SecurityHealthPath.
Proof. follow. Qed.

Record SecurityMigratePath := MkSecurityMigratePath {  }.
Definition SecurityMigratePath_Build (p : SecurityMigratePath) : built := build (writeLit "_plugins";; writeLit "_security";; writeLit "api";; writeLit "migrate").
#[export] Instance SecurityMigratePath_builder : builder SecurityMigratePath :=
  {| Build := SecurityMigratePath_Build; fields _ := []; ignored _ := [];
     templates := ["/_plugins/_security/api/migrate"] |}.
#[export] Instance SecurityMigratePath_lawful : Lawful SecurityMigratePath.
Proof. follow. Qed.

Record SecurityPatchActionGroupPath := MkSecurityPatchActionGroupPath { SecurityPatchActionGroupPath_ActionGroup : string }.
Definition SecurityPatchActionGroupPath_Build (p : SecurityPatchActionGroupPath) : built :=
  build (required "SecurityPatchActionGroupPath.ActionGroup" (SecurityPatchActionGroupPath_ActionGroup p);; writeLit "_plugins";;
   writeLit "_security";; writeLit "api";; writeLit "actiongroups";; writeReq (SecurityPatchActionGroupPath_ActionGroup p)).
#[export] Instance SecurityPatchActionGroupPath_builder : builder SecurityPatchActionGroupPath :=
  {| Build := SecurityPatchActionGroupPath_Build; fields p := [("action_group", One (SecurityPatchActionGroupPath_ActionGroup p))]; ignored _ := [];
     templates := ["/_plugins/_security/api/actiongroups/{action_group}"] |}.
#[export] Instance SecurityPatchActionGroupPath_lawful : Lawful SecurityPatchActionGroupPath.
Proof. follow. Qed.

Record SecurityPatchActionGroupsPath := MkSecurityPatchActionGroupsPath {  }.
Definition SecurityPatchActionGroupsPath_Build (p : SecurityPatchActionGroupsPath) : built :=
  build (writeLit "_plugins";; writeLit "_security";; writeLit "api";; writeLit "actiongroups").
#[export] Instance SecurityPatchActionGroupsPath_builder : builder SecurityPatchActionGroupsPath :=
  {| Build := SecurityPatchActionGroupsPath_Build; fields _ := []; ignored _ := [];
     templates := ["/_plugins/_security/api/actiongroups"] |}.
#[export] Instance SecurityPatchActionGroupsPath_lawful : Lawful SecurityPatchActionGroupsPath.
Proof. follow. Qed.

Record SecurityPatchAllowlistPath := MkSecurityPatchAllowlistPath {  }.
Definition SecurityPatchAllowlistPath_Build (p : SecurityPatchAllowlistPath) : built :=
  build (writeLit "_plugins";; writeLit "_security";; writeLit "api";; writeLit "allowlist").
#[export] Instance SecurityPatchAllowlistPath_builder : builder SecurityPatchAllowlistPath :=
  {| Build := SecurityPatchAllowlistPath_Build; fields _ := []; ignored _ := [];
     templates := ["/_plugins/_security/api/allowlist"] |}.
#[export] Instance SecurityPatchAllowlistPath_lawful : Lawful SecurityPatchAllowlistPath.
Proof. follow. Qed.

Record SecurityPatchAuditConfigurationPath := MkSecurityPatchAuditConfigurationPath {  }.
Definition SecurityPatchAuditConfigurationPath_Build (p : SecurityPatchAuditConfigurationPath) : built :=
  build (writeLit "_plugins";; writeLit "_security";; writeLit "api";; writeLit "audit").
#[export] Instance SecurityPatchAuditConfigurationPath_builder : builder SecurityPatchAuditConfigurationPath :=
  {| Build := SecurityPatchAuditConfigurationPath_Build; fields _ := []; ignored _ := [];
     templates := ["/_plugins/_security/api/audit"] |}.
#[export] Instance SecurityPatchAuditConfigurationPath_lawful : Lawful SecurityPatchAuditConfigurationPath.
Proof. follow. Qed.

Record SecurityPatchConfigurationPath := MkSecurityPatchConfigurationPath {  }.
Definition SecurityPatchConfigurationPath_Build (p : SecurityPatchConfigurationPath) : built :=
  build (writeLit "_plugins";; writeLit "_security";; writeLit "api";; writeLit "securityconfig").
#[export] Instance SecurityPatchConfigurationPath_builder : builder SecurityPatchConfigurationPath :=
  {| Build := SecurityPatchConfigurationPath_Build; fields _ := []; ignored _ := [];
     templates := ["/_plugins/_security/api/securityconfig"] |}.
#[export] Instance SecurityPatchConfigurationPath_lawful : Lawful SecurityPatchConfigurationPath.
Proof. follow. Qed.

Record SecurityPatchDistinguishedNamePath := MkSecurityPatchDistinguishedNamePath { SecurityPatchDistinguishedNamePath_ClusterName : string }.
Definition SecurityPatchDistinguishedNamePath_Build (p : SecurityPatchDistinguishedNamePath) : built :=
  build (required "SecurityPatchDistinguishedNamePath.ClusterName" (SecurityPatchDistinguishedNamePath_ClusterName p);;
   writeLit "_plugins";; writeLit "_security";; writeLit "api";; writeLit "nodesdn";;
   writeReq (SecurityPatchDistinguishedNamePath_ClusterName p)).
#[export] Instance SecurityPatchDistinguishedNamePath_builder : builder SecurityPatchDistinguishedNamePath :=
  {| Build := SecurityPatchDistinguishedNamePath_Build; fields p := [("cluster_name", One (SecurityPatchDistinguishedNamePath_ClusterName p))]; ignored _ := [];
     templates := ["/_plugins/_security/api/nodesdn/{cluster_name}"] |}.
#[export] Instance SecurityPatchDistinguishedNamePath_lawful : Lawful SecurityPatchDistinguishedNamePath.
Proof. follow. Qed.

Record SecurityPatchDistinguishedNamesPath := MkSecurityPatchDistinguishedNamesPath {  }.
Definition SecurityPatchDistinguishedNamesPath_Build (p : SecurityPatchDistinguishedNamesPath) : built :=
  build (writeLit "_plugins";; writeLit "_security";; writeLit "api";; writeLit "nodesdn").
#[export] Instance SecurityPatchDistinguishedNamesPath_builder : builder SecurityPatchDistinguishedNamesPath :=
  {| Build := SecurityPatchDistinguishedNamesPath_Build; fields _ := []; ignored _ := [];
     templates := ["/_plugins/_security/api/nodesdn"] |}.
#[export] Instance SecurityPatchDistinguishedNamesPath_lawful : Lawful SecurityPatchDistinguishedNamesPath.
Proof. follow. Qed.

Record SecurityPatchRolePath := MkSecurityPatchRolePath { SecurityPatchRolePath_Role : string }.
Definition SecurityPatchRolePath_Build (p : SecurityPatchRolePath) : built :=
  build (required "SecurityPatchRolePath.Role" (SecurityPatchRolePath_Role p);; writeLit "_plugins";; writeLit "_security";;
   writeLit "api";; writeLit "roles";; writeReq (SecurityPatchRolePath_Role p)).
#[export] Instance SecurityPatchRolePath_builder : builder SecurityPatchRolePath :=
  {| Build := SecurityPatchRolePath_Build; fields p := [("role", One (SecurityPatchRolePath_Role p))]; ignored _ := [];
     templates := ["/_plugins/_security/api/roles/{role}"] |}.
#[export] Instance SecurityPatchRolePath_lawful : Lawful SecurityPatchRolePath.
Proof. follow. Qed.

Record SecurityPatchRoleMappingPath := MkSecurityPatchRoleMappingPath { SecurityPatchRoleMappingPath_Role : string }.
Definition SecurityPatchRoleMappingPath_Build (p : SecurityPatchRoleMappingPath) : built :=
  build (required "SecurityPatchRoleMappingPath.Role" (SecurityPatchRoleMappingPath_Role p);; writeLit "_plugins";;
   writeLit "_security";; writeLit "api";; writeLit "rolesmapping";; writeReq (SecurityPatchRoleMappingPath_Role p)).
#[export] Instance SecurityPatchRoleMappingPath_builder : builder SecurityPatchRoleMappingPath :=
  {| Build := SecurityPatchRoleMappingPath_Build; fields p := [("role", One (SecurityPatchRoleMappingPath_Role p))]; ignored _ := [];
     templates := ["/_plugins/_security/api/rolesmapping/{role}"] |}.
#[export] Instance SecurityPatchRoleMappingPath_lawful : Lawful SecurityPatchRoleMappingPath.
Proof. follow. Qed.

Record SecurityPatchRoleMappingsPath := MkSecurityPatchRoleMappingsPath {  }.
Definition SecurityPatchRoleMappingsPath_Build (p : SecurityPatchRoleMappingsPath) : built :=
  build (writeLit "_plugins";; writeLit "_security";; writeLit "api";; writeLit "rolesmapping").
#[export] Instance SecurityPatchRoleMappingsPath_builder : builder SecurityPatchRoleMappingsPath :=
  {| Build := SecurityPatchRoleMappingsPath_Build; fields _ := []; ignored _ := [];
     templates := ["/_plugins/_security/api/rolesmapping"] |}.
#[export] Instance SecurityPatchRoleMappingsPath_lawful : Lawful SecurityPatchRoleMappingsPath.
Proof. follow. Qed.

Record SecurityPatchRolesPath := MkSecurityPatchRolesPath {  }.
Definition SecurityPatchRolesPath_Build (p : SecurityPatchRolesPath) : built := build (writeLit "_plugins";; writeLit "_security";; writeLit "api";; writeLit "roles").
#[export] Instance SecurityPatchRolesPath_builder : builder SecurityPatchRolesPath :=
  {| Build := SecurityPatchRolesPath_Build; fields _ := []; ignored _ := [];
     templates := ["/_plugins/_security/api/roles"] |}.
#[export] Instance SecurityPatchRolesPath_lawful : Lawful SecurityPatchRolesPath.
Proof. follow. Qed.

Record SecurityPatchTenantPath := MkSecurityPatchTenantPath { SecurityPatchTenantPath_Tenant : string }.
Definition SecurityPatchTenantPath_Build (p : SecurityPatchTenantPath) : built :=
  build (required "SecurityPatchTenantPath.Tenant" (SecurityPatchTenantPath_Tenant p);; writeLit "_plugins";; writeLit "_security";;
   writeLit "api";; writeLit "tenants";; writeReq (SecurityPatchTenantPath_Tenant p)).
#[export] Instance SecurityPatchTenantPath_builder : builder SecurityPatchTenantPath :=
  {| Build := SecurityPatchTenantPath_Build; fields p := [("tenant", One (SecurityPatchTenantPath_Tenant p))]; ignored _ := [];
     templates := ["/_plugins/_security/api/tenants/{tenant}"] |}.
#[export] Instance SecurityPatchTenantPath_lawful : Lawful SecurityPatchTenantPath.
Proof. follow. Qed.

Record SecurityPatchTenantsPath := MkSecurityPatchTenantsPath {  }.
Definition SecurityPatchTenantsPath_Build (p : SecurityPatchTenantsPath) : built :=
  build (writeLit "_plugins";; writeLit "_security";; writeLit "api";; writeLit "tenants").
#[export] Instance SecurityPatchTenantsPath_builder : builder SecurityPatchTenantsPath :=
  {| Build := SecurityPatchTenantsPath_Build; fields _ := []; ignored _ := [];
     templates := ["/_plugins/_security/api/tenants"] |}.
#[export] Instance SecurityPatchTenantsPath_lawful : Lawful SecurityPatchTenantsPath.
Proof. follow. Qed.

Record SecurityPatchUserPath := MkSecurityPatchUserPath { SecurityPatchUserPath_Username : string }.
Definition SecurityPatchUserPath_Build (p : SecurityPatchUserPath) : built :=
  build (required "SecurityPatchUserPath.Username" (SecurityPatchUserPath_Username p);; writeLit "_plugins";; writeLit "_security";;
   writeLit "api";; writeLit "internalusers";; writeReq (SecurityPatchUserPath_Username p)).
#[export] Instance SecurityPatchUserPath_builder : builder SecurityPatchUserPath :=
  {| Build := SecurityPatchUserPath_Build; fields p := [("username", One (SecurityPatchUserPath_Username p))]; ignored _ := [];
     templates := ["/_plugins/_security/api/internalusers/{username}"] |}.
#[export] Instance SecurityPatchUserPath_lawful : Lawful SecurityPatchUserPath.
Proof. follow. Qed.

Record SecurityPatchUsersPath := MkSecurityPatchUsersPath {  }.
Definition SecurityPatchUsersPath_Build (p : SecurityPatchUsersPath) : built :=
  build (writeLit "_plugins";; writeLit "_security";; writeLit "api";; writeLit "internalusers").
#[export] Instance SecurityPatchUsersPath_builder : builder SecurityPatchUsersPath :=
  {| Build := SecurityPatchUsersPath_Build; fields _ := []; ignored _ := [];
     templates := ["/_plugins/_security/api/internalusers"] |}.
#[export] Instance SecurityPatchUsersPath_lawful : Lawful SecurityPatchUsersPath.
Proof. follow. Qed.

Record SecurityPostDashboardsInfoPath := MkSecurityPostDashboardsInfoPath {  }.
Definition SecurityPostDashboardsInfoPath_Build (p : SecurityPostDashboardsInfoPath) : built :=
  build (writeLit "_plugins";; writeLit "_security";; writeLit "dashboardsinfo").
#[export] Instance SecurityPostDashboardsInfoPath_builder : builder SecurityPostDashboardsInfoPath :=
  {| Build := SecurityPostDashboardsInfoPath_Build; fields _ := []; ignored _ := [];
     templates := ["/_plugins/_security/dashboardsinfo"] |}.
#[export] Instance SecurityPostDashboardsInfoPath_lawful : Lawful SecurityPostDashboardsInfoPath.
Proof. follow. Qed.

Record SecurityReloadHTTPCertificatesPath := MkSecurityReloadHTTPCertificatesPath {  }.
Definition SecurityReloadHTTPCertificatesPath_Build (p : SecurityReloadHTTPCertificatesPath) : built :=
  build (writeLit "_plugins";; writeLit "_security";; writeLit "api";; writeLit "ssl";; writeLit "http";; writeLit "reloadcerts").
#[export] Instance SecurityReloadHTTPCertificatesPath_builder : builder SecurityReloadHTTPCertificatesPath :=
  {| Build := SecurityReloadHTTPCertificatesPath_Build; fields _ := []; ignored _ := [];
     templates := ["/_plugins/_security/api/ssl/http/reloadcerts"] |}.
#[export] Instance SecurityReloadHTTPCertificatesPath_lawful : Lawful SecurityReloadHTTPCertificatesPath.
Proof. follow. Qed.

Record SecurityReloadTransportCertificatesPath := MkSecurityReloadTransportCertificatesPath {  }.
Definition SecurityReloadTransportCertificatesPath_Build (p : SecurityReloadTransportCertificatesPath) : built :=
  build (writeLit "_plugins";; writeLit "_security";; writeLit "api";; writeLit "ssl";; writeLit "transport";;
   writeLit "reloadcerts").
#[export] Instance SecurityReloadTransportCertificatesPath_builder : builder SecurityReloadTransportCertificatesPath :=
  {| Build := SecurityReloadTransportCertificatesPath_Build; fields _ := []; ignored _ := [];
     templates := ["/_plugins/_security/api/ssl/transport/reloadcerts"] |}.
#[export] Instance SecurityReloadTransportCertificatesPath_lawful : Lawful SecurityReloadTransportCertificatesPath.
Proof. follow. Qed.

Record SecurityTenantInfoPath := MkSecurityTenantInfoPath {  }.
Definition SecurityTenantInfoPath_Build (p : SecurityTenantInfoPath) : built := build (writeLit "_plugins";; writeLit "_security";; writeLit "tenantinfo").
#[export] Instance SecurityTenantInfoPath_builder : builder SecurityTenantInfoPath :=
  {| Build := SecurityTenantInfoPath_Build; fields _ := []; ignored _ := [];
     templates := ["/_plugins/_security/tenantinfo"] |}.
#[export] Instance SecurityTenantInfoPath_lawful : Lawful SecurityTenantInfoPath.
Proof. follow. Qed.

Record SecurityUpdateAuditConfigurationPath := MkSecurityUpdateAuditConfigurationPath {  }.
Definition SecurityUpdateAuditConfigurationPath_Build (p : SecurityUpdateAuditConfigurationPath) : built :=
  build (writeLit "_plugins";; writeLit "_security";; writeLit "api";; writeLit "audit";; writeLit "config").
#[export] Instance SecurityUpdateAuditConfigurationPath_builder : builder SecurityUpdateAuditConfigurationPath :=
  {| Build := SecurityUpdateAuditConfigurationPath_Build; fields _ := []; ignored _ := [];
     templates := ["/_plugins/_security/api/audit/config"] |}.
#[export] Instance SecurityUpdateAuditConfigurationPath_lawful : Lawful SecurityUpdateAuditConfigurationPath.
Proof. follow. Qed.

Record SecurityUpdateConfigurationPath := MkSecurityUpdateConfigurationPath {  }.
Definition SecurityUpdateConfigurationPath_Build (p : SecurityUpdateConfigurationPath) : built :=
  build (writeLit "_plugins";; writeLit "_security";; writeLit "api";; writeLit "securityconfig";; writeLit "config").
#[export] Instance SecurityUpdateConfigurationPath_builder : builder SecurityUpdateConfigurationPath :=
  {| Build := SecurityUpdateConfigurationPath_Build; fields _ := []; ignored _ := [];
     templates := ["/_plugins/_security/api/securityconfig/config"] |}.
#[export] Instance SecurityUpdateConfigurationPath_lawful : Lawful SecurityUpdateConfigurationPath.
Proof. follow. Qed.

Record SecurityUpdateDistinguishedNamePath := MkSecurityUpdateDistinguishedNamePath { SecurityUpdateDistinguishedNamePath_ClusterName : string }.
Definition SecurityUpdateDistinguishedNamePath_Build (p : SecurityUpdateDistinguishedNamePath) : built :=
  build (required "SecurityUpdateDistinguishedNamePath.ClusterName" (SecurityUpdateDistinguishedNamePath_ClusterName p);;
   writeLit "_plugins";; writeLit "_security";; writeLit "api";; writeLit "nodesdn";;
   writeReq (SecurityUpdateDistinguishedNamePath_ClusterName p)).
#[export] Instance SecurityUpdateDistinguishedNamePath_builder : builder SecurityUpdateDistinguishedNamePath :=
  {| Build := SecurityUpdateDistinguishedNamePath_Build; fields p := [("cluster_name", One (SecurityUpdateDistinguishedNamePath_ClusterName p))]; ignored _ := [];
     templates := ["/_plugins/_security/api/nodesdn/{cluster_name}"] |}.
#[export] Instance SecurityUpdateDistinguishedNamePath_lawful : Lawful SecurityUpdateDistinguishedNamePath.
Proof. follow. Qed.

Record SecurityValidatePath := MkSecurityValidatePath {  }.
Definition SecurityValidatePath_Build (p : SecurityValidatePath) : built := build (writeLit "_plugins";; writeLit "_security";; writeLit "api";; writeLit "validate").
#[export] Instance SecurityValidatePath_builder : builder SecurityValidatePath :=
  {| Build := SecurityValidatePath_Build; fields _ := []; ignored _ := [];
     templates := ["/_plugins/_security/api/validate"] |}.
#[export] Instance SecurityValidatePath_lawful : Lawful SecurityValidatePath.
Proof. follow. Qed.

Record SecurityWhoAmIPath := MkSecurityWhoAmIPath {  }.
Definition SecurityWhoAmIPath_Build (p : SecurityWhoAmIPath) : built := build (writeLit "_plugins";; writeLit "_security";; writeLit "whoami").
#[export] Instance SecurityWhoAmIPath_builder : builder SecurityWhoAmIPath :=
  {| Build := SecurityWhoAmIPath_Build; fields _ := []; ignored _ := [];
     templates := ["/_plugins/_security/whoami"] |}.
#[export] Instance SecurityWhoAmIPath_lawful : Lawful SecurityWhoAmIPath.
Proof. follow. Qed.

Record SecurityWhoAmIProtectedPath := MkSecurityWhoAmIProtectedPath {  }.
Definition SecurityWhoAmIProtectedPath_Build (p : SecurityWhoAmIProtectedPath) : built := build (writeLit "_plugins";; writeLit "_security";; writeLit "whoamiprotected").
#[export] Instance SecurityWhoAmIProtectedPath_builder : builder SecurityWhoAmIProtectedPath :=
  {| Build := SecurityWhoAmIProtectedPath_Build; fields _ := []; ignored _ := [];
     templates := ["/_plugins/_security/whoamiprotected"] |}.
#[export] Instance SecurityWhoAmIProtectedPath_lawful : Lawful SecurityWhoAmIProtectedPath.
Proof. follow. Qed.

Record SecurityAnalyticsGetAlertsPath := MkSecurityAnalyticsGetAlertsPath {  }.
Definition SecurityAnalyticsGetAlertsPath_Build (p : SecurityAnalyticsGetAlertsPath) : built :=
  build (writeLit "_plugins";; writeLit "_security_analytics";; writeLit "alerts").
#[export] Instance SecurityAnalyticsGetAlertsPath_builder : builder SecurityAnalyticsGetAlertsPath :=
  {| Build := SecurityAnalyticsGetAlertsPath_Build; fields _ := []; ignored _ := [];
     templates := ["/_plugins/_security_analytics/alerts"] |}.
#[export] Instance SecurityAnalyticsGetAlertsPath_lawful : Lawful SecurityAnalyticsGetAlertsPath.
Proof. follow. Qed.

Record SecurityAnalyticsGetFindingsPath := MkSecurityAnalyticsGetFindingsPath {  }.
Definition SecurityAnalyticsGetFindingsPath_Build (p : SecurityAnalyticsGetFindingsPath) : built :=
  build (writeLit "_plugins";; writeLit "_security_analytics";; writeLit "findings";; writeLit "_search").
#[export] Instance SecurityAnalyticsGetFindingsPath_builder : builder SecurityAnalyticsGetFindingsPath :=
  {| Build := SecurityAnalyticsGetFindingsPath_Build; fields _ := []; ignored _ := [];
     templates := ["/_plugins/_security_analytics/findings/_search"] |}.
#[export] Instance SecurityAnalyticsGetFindingsPath_lawful : Lawful SecurityAnalyticsGetFindingsPath.
Proof. follow. Qed.

Record SecurityAnalyticsSearchFindingCorrelationsPath := MkSecurityAnalyticsSearchFindingCorrelationsPath {  }.
Definition SecurityAnalyticsSearchFindingCorrelationsPath_Build (p : SecurityAnalyticsSearchFindingCorrelationsPath) : built :=
  build (writeLit "_plugins";; writeLit "_security_analytics";; writeLit "findings";; writeLit "correlate").
#[export] Instance SecurityAnalyticsSearchFindingCorrelationsPath_builder : builder SecurityAnalyticsSearchFindingCorrelationsPath :=
  {| Build := SecurityAnalyticsSearchFindingCorrelationsPath_Build; fields _ := []; ignored _ := [];
     templates := ["/_plugins/_security_analytics/findings/correlate"] |}.
#[export] Instance SecurityAnalyticsSearchFindingCorrelationsPath_lawful : Lawful SecurityAnalyticsSearchFindingCorrelationsPath.
Proof. follow. Qed.

(** All of them. *)
Definition pathsSecurity : list path_type :=
  [MkPathType "SecurityAuthinfoPath" SecurityAuthinfoPath _ _; MkPathType "SecurityAuthtokenPath" SecurityAuthtokenPath _ _;
   MkPathType "SecurityChangePasswordPath" SecurityChangePasswordPath _ _; MkPathType "SecurityConfigUpgradeCheckPath" SecurityConfigUpgradeCheckPath _ _;
   MkPathType "SecurityConfigUpgradePerformPath" SecurityConfigUpgradePerformPath _ _; MkPathType "SecurityCreateActionGroupPath" SecurityCreateActionGroupPath _ _;
   MkPathType "SecurityCreateAllowlistPath" SecurityCreateAllowlistPath _ _; MkPathType "SecurityCreateRolePath" SecurityCreateRolePath _ _;
   MkPathType "SecurityCreateRoleMappingPath" SecurityCreateRoleMappingPath _ _; MkPathType "SecurityCreateTenantPath" SecurityCreateTenantPath _ _;
   MkPathType "SecurityCreateUpdateTenancyConfigPath" SecurityCreateUpdateTenancyConfigPath _ _; MkPathType "SecurityCreateUserPath" SecurityCreateUserPath _ _;
   MkPathType "SecurityCreateUserLegacyPath" SecurityCreateUserLegacyPath _ _; MkPathType "SecurityDeleteActionGroupPath" SecurityDeleteActionGroupPath _ _;
   MkPathType "SecurityDeleteDistinguishedNamePath" SecurityDeleteDistinguishedNamePath _ _; MkPathType "SecurityDeleteRolePath" SecurityDeleteRolePath _ _;
   MkPathType "SecurityDeleteRoleMappingPath" SecurityDeleteRoleMappingPath _ _; MkPathType "SecurityDeleteTenantPath" SecurityDeleteTenantPath _ _;
   MkPathType "SecurityDeleteUserPath" SecurityDeleteUserPath _ _; MkPathType "SecurityDeleteUserLegacyPath" SecurityDeleteUserLegacyPath _ _;
   MkPathType "SecurityFlushCachePath" SecurityFlushCachePath _ _; MkPathType "SecurityGenerateOboTokenPath" SecurityGenerateOboTokenPath _ _;
   MkPathType "SecurityGenerateUserTokenPath" SecurityGenerateUserTokenPath _ _; MkPathType "SecurityGenerateUserTokenLegacyPath" SecurityGenerateUserTokenLegacyPath _ _;
   MkPathType "SecurityGetAccountDetailsPath" SecurityGetAccountDetailsPath _ _; MkPathType "SecurityGetActionGroupPath" SecurityGetActionGroupPath _ _;
   MkPathType "SecurityGetActionGroupsPath" SecurityGetActionGroupsPath _ _; MkPathType "SecurityGetAllCertificatesPath" SecurityGetAllCertificatesPath _ _;
   MkPathType "SecurityGetAllowlistPath" SecurityGetAllowlistPath _ _; MkPathType "SecurityGetAuditConfigurationPath" SecurityGetAuditConfigurationPath _ _;
   MkPathType "SecurityGetCertificatesPath" SecurityGetCertificatesPath _ _; MkPathType "SecurityGetConfigurationPath" SecurityGetConfigurationPath _ _;
   MkPathType "SecurityGetDashboardsInfoPath" SecurityGetDashboardsInfoPath _ _; MkPathType "SecurityGetDistinguishedNamePath" SecurityGetDistinguishedNamePath _ _;
   MkPathType "SecurityGetDistinguishedNamesPath" SecurityGetDistinguishedNamesPath _ _; MkPathType "SecurityGetNodeCertificatesPath" SecurityGetNodeCertificatesPath _ _;
   MkPathType "SecurityGetPermissionsInfoPath" SecurityGetPermissionsInfoPath _ _; MkPathType "SecurityGetRolePath" SecurityGetRolePath _ _;
   MkPathType "SecurityGetRoleMappingPath" SecurityGetRoleMappingPath _ _; MkPathType "SecurityGetRoleMappingsPath" SecurityGetRoleMappingsPath _ _;
   MkPathType "SecurityGetRolesPath" SecurityGetRolesPath _ _; MkPathType "SecurityGetSslinfoPath" SecurityGetSslinfoPath _ _;
   MkPathType "SecurityGetTenancyConfigPath" SecurityGetTenancyConfigPath _ _; MkPathType "SecurityGetTenantPath" SecurityGetTenantPath _ _;
   MkPathType "SecurityGetTenantsPath" SecurityGetTenantsPath _ _; MkPathType "SecurityGetUserPath" SecurityGetUserPath _ _;
   MkPathType "SecurityGetUserLegacyPath" SecurityGetUserLegacyPath _ _; MkPathType "SecurityGetUsersPath" SecurityGetUsersPath _ _;
   MkPathType "SecurityGetUsersLegacyPath" SecurityGetUsersLegacyPath _ _; MkPathType "SecurityHealthPath" SecurityHealthPath _ _;
   MkPathType "SecurityMigratePath" SecurityMigratePath _ _; MkPathType "SecurityPatchActionGroupPath" SecurityPatchActionGroupPath _ _;
   MkPathType "SecurityPatchActionGroupsPath" SecurityPatchActionGroupsPath _ _; MkPathType "SecurityPatchAllowlistPath" SecurityPatchAllowlistPath _ _;
   MkPathType "SecurityPatchAuditConfigurationPath" SecurityPatchAuditConfigurationPath _ _; MkPathType "SecurityPatchConfigurationPath" SecurityPatchConfigurationPath _ _;
   MkPathType "SecurityPatchDistinguishedNamePath" SecurityPatchDistinguishedNamePath _ _; MkPathType "SecurityPatchDistinguishedNamesPath" SecurityPatchDistinguishedNamesPath _ _;
   MkPathType "SecurityPatchRolePath" SecurityPatchRolePath _ _; MkPathType "SecurityPatchRoleMappingPath" SecurityPatchRoleMappingPath _ _;
   MkPathType "SecurityPatchRoleMappingsPath" SecurityPatchRoleMappingsPath _ _; MkPathType "SecurityPatchRolesPath" SecurityPatchRolesPath _ _;
   MkPathType "SecurityPatchTenantPath" SecurityPatchTenantPath _ _; MkPathType "SecurityPatchTenantsPath" SecurityPatchTenantsPath _ _;
   MkPathType "SecurityPatchUserPath" SecurityPatchUserPath _ _; MkPathType "SecurityPatchUsersPath" SecurityPatchUsersPath _ _;
   MkPathType "SecurityPostDashboardsInfoPath" SecurityPostDashboardsInfoPath _ _; MkPathType "SecurityReloadHTTPCertificatesPath" SecurityReloadHTTPCertificatesPath _ _;
   MkPathType "SecurityReloadTransportCertificatesPath" SecurityReloadTransportCertificatesPath _ _; MkPathType "SecurityTenantInfoPath" SecurityTenantInfoPath _ _;
   MkPathType "SecurityUpdateAuditConfigurationPath" SecurityUpdateAuditConfigurationPath _ _; MkPathType "SecurityUpdateConfigurationPath" SecurityUpdateConfigurationPath _ _;
   MkPathType "SecurityUpdateDistinguishedNamePath" SecurityUpdateDistinguishedNamePath _ _; MkPathType "SecurityValidatePath" SecurityValidatePath _ _;
   MkPathType "SecurityWhoAmIPath" SecurityWhoAmIPath _ _; MkPathType "SecurityWhoAmIProtectedPath" SecurityWhoAmIProtectedPath _ _;
   MkPathType "SecurityAnalyticsGetAlertsPath" SecurityAnalyticsGetAlertsPath _ _; MkPathType "SecurityAnalyticsGetFindingsPath" SecurityAnalyticsGetFindingsPath _ _;
   MkPathType "SecurityAnalyticsSearchFindingCorrelationsPath" SecurityAnalyticsSearchFindingCorrelationsPath _ _].
