(* ===== verification/PathsML.v ===== *)
(** * Path types: machine learning

    The path types of internal/path/builders_gen.go for the machine learning, neural, k-NN and ranking plugins:
    the fields, the Build method, and the path templates that
    opensearch-openapi.yaml has for the operation (less the ones it marks deprecated
    or superseded by another template with the same parameters), with the proof
    that Build follows them. *)

From Stdlib Require Import Ascii String.
From stdpp Require Import base list strings.
From S2P Require Import Paths.
Open Scope string_scope.
Open Scope list_scope.
Open Scope bool_scope.
Open Scope stmt_scope.

Record FlowFrameworkCreatePath := MkFlowFrameworkCreatePath {  }.
Definition FlowFrameworkCreatePath_Build (p : FlowFrameworkCreatePath) : built := build (writeLit "_plugins";; writeLit "_flow_framework";; writeLit "workflow").
#[export] Instance FlowFrameworkCreatePath_builder : builder FlowFrameworkCreatePath :=
  {| Build := FlowFrameworkCreatePath_Build; fields _ := []; ignored _ := [];
     templates := ["/_plugins/_flow_framework/workflow"] |}.
#[export] Instance FlowFrameworkCreatePath_lawful : Lawful FlowFrameworkCreatePath.
Proof. follow. Qed.

Record FlowFrameworkDeletePath := MkFlowFrameworkDeletePath { FlowFrameworkDeletePath_WorkflowID : string }.
Definition FlowFrameworkDeletePath_Build (p : FlowFrameworkDeletePath) : built :=
  build (required "FlowFrameworkDeletePath.WorkflowID" (FlowFrameworkDeletePath_WorkflowID p);; writeLit "_plugins";;
   writeLit "_flow_framework";; writeLit "workflow";; writeReq (FlowFrameworkDeletePath_WorkflowID p)).
#[export] Instance FlowFrameworkDeletePath_builder : builder FlowFrameworkDeletePath :=
  {| Build := FlowFrameworkDeletePath_Build; fields p := [("workflow_id", One (FlowFrameworkDeletePath_WorkflowID p))]; ignored _ := [];
     templates := ["/_plugins/_flow_framework/workflow/{workflow_id}"] |}.
#[export] Instance FlowFrameworkDeletePath_lawful : Lawful FlowFrameworkDeletePath.
Proof. follow. Qed.

Record FlowFrameworkDeprovisionPath := MkFlowFrameworkDeprovisionPath { FlowFrameworkDeprovisionPath_WorkflowID : string }.
Definition FlowFrameworkDeprovisionPath_Build (p : FlowFrameworkDeprovisionPath) : built :=
  build (required "FlowFrameworkDeprovisionPath.WorkflowID" (FlowFrameworkDeprovisionPath_WorkflowID p);; writeLit "_plugins";;
   writeLit "_flow_framework";; writeLit "workflow";; writeReq (FlowFrameworkDeprovisionPath_WorkflowID p);;
   writeLit "_deprovision").
#[export] Instance FlowFrameworkDeprovisionPath_builder : builder FlowFrameworkDeprovisionPath :=
  {| Build := FlowFrameworkDeprovisionPath_Build; fields p := [("workflow_id", One (FlowFrameworkDeprovisionPath_WorkflowID p))]; ignored _ := [];
     templates := ["/_plugins/_flow_framework/workflow/{workflow_id}/_deprovision"] |}.
#[export] Instance FlowFrameworkDeprovisionPath_lawful : Lawful FlowFrameworkDeprovisionPath.
Proof. follow. Qed.

Record FlowFrameworkGetPath := MkFlowFrameworkGetPath { FlowFrameworkGetPath_WorkflowID : string }.
Definition FlowFrameworkGetPath_Build (p : FlowFrameworkGetPath) : built :=
  build (required "FlowFrameworkGetPath.WorkflowID" (FlowFrameworkGetPath_WorkflowID p);; writeLit "_plugins";;
   writeLit "_flow_framework";; writeLit "workflow";; writeReq (FlowFrameworkGetPath_WorkflowID p)).
#[export] Instance FlowFrameworkGetPath_builder : builder FlowFrameworkGetPath :=
  {| Build := FlowFrameworkGetPath_Build; fields p := [("workflow_id", One (FlowFrameworkGetPath_WorkflowID p))]; ignored _ := [];
     templates := ["/_plugins/_flow_framework/workflow/{workflow_id}"] |}.
#[export] Instance FlowFrameworkGetPath_lawful : Lawful FlowFrameworkGetPath.
Proof. follow. Qed.

Record FlowFrameworkGetStatusPath := MkFlowFrameworkGetStatusPath { FlowFrameworkGetStatusPath_WorkflowID : string }.
Definition FlowFrameworkGetStatusPath_Build (p : FlowFrameworkGetStatusPath) : built :=
  build (required "FlowFrameworkGetStatusPath.WorkflowID" (FlowFrameworkGetStatusPath_WorkflowID p);; writeLit "_plugins";;
   writeLit "_flow_framework";; writeLit "workflow";; writeReq (FlowFrameworkGetStatusPath_WorkflowID p);; writeLit "_status").
#[export] Instance FlowFrameworkGetStatusPath_builder : builder FlowFrameworkGetStatusPath :=
  {| Build := FlowFrameworkGetStatusPath_Build; fields p := [("workflow_id", One (FlowFrameworkGetStatusPath_WorkflowID p))]; ignored _ := [];
     templates := ["/_plugins/_flow_framework/workflow/{workflow_id}/_status"] |}.
#[export] Instance FlowFrameworkGetStatusPath_lawful : Lawful FlowFrameworkGetStatusPath.
Proof. follow. Qed.

Record FlowFrameworkGetStepsPath := MkFlowFrameworkGetStepsPath {  }.
Definition FlowFrameworkGetStepsPath_Build (p : FlowFrameworkGetStepsPath) : built :=
  build (writeLit "_plugins";; writeLit "_flow_framework";; writeLit "workflow";; writeLit "_steps").
#[export] Instance FlowFrameworkGetStepsPath_builder : builder FlowFrameworkGetStepsPath :=
  {| Build := FlowFrameworkGetStepsPath_Build; fields _ := []; ignored _ := [];
     templates := ["/_plugins/_flow_framework/workflow/_steps"] |}.
#[export] Instance FlowFrameworkGetStepsPath_lawful : Lawful FlowFrameworkGetStepsPath.
Proof. follow. Qed.

Record FlowFrameworkProvisionPath := MkFlowFrameworkProvisionPath { FlowFrameworkProvisionPath_WorkflowID : string }.
Definition FlowFrameworkProvisionPath_Build (p : FlowFrameworkProvisionPath) : built :=
  build (required "FlowFrameworkProvisionPath.WorkflowID" (FlowFrameworkProvisionPath_WorkflowID p);; writeLit "_plugins";;
   writeLit "_flow_framework";; writeLit "workflow";; writeReq (FlowFrameworkProvisionPath_WorkflowID p);;
   writeLit "_provision").
#[export] Instance FlowFrameworkProvisionPath_builder : builder FlowFrameworkProvisionPath :=
  {| Build := FlowFrameworkProvisionPath_Build; fields p := [("workflow_id", One (FlowFrameworkProvisionPath_WorkflowID p))]; ignored _ := [];
     templates := ["/_plugins/_flow_framework/workflow/{workflow_id}/_provision"] |}.
#[export] Instance FlowFrameworkProvisionPath_lawful : Lawful FlowFrameworkProvisionPath.
Proof. follow. Qed.

Record FlowFrameworkSearchPath := MkFlowFrameworkSearchPath {  }.
Definition FlowFrameworkSearchPath_Build (p : FlowFrameworkSearchPath) : built :=
  build (writeLit "_plugins";; writeLit "_flow_framework";; writeLit "workflow";; writeLit "_search").
#[export] Instance FlowFrameworkSearchPath_builder : builder FlowFrameworkSearchPath :=
  {| Build := FlowFrameworkSearchPath_Build; fields _ := []; ignored _ := [];
     templates := ["/_plugins/_flow_framework/workflow/_search"] |}.
#[export] Instance FlowFrameworkSearchPath_lawful : Lawful FlowFrameworkSearchPath.
Proof. follow. Qed.

Record FlowFrameworkSearchStatePath := MkFlowFrameworkSearchStatePath {  }.
Definition FlowFrameworkSearchStatePath_Build (p : FlowFrameworkSearchStatePath) : built :=
  build (writeLit "_plugins";; writeLit "_flow_framework";; writeLit "workflow";; writeLit "state";; writeLit "_search").
#[export] Instance FlowFrameworkSearchStatePath_builder : builder FlowFrameworkSearchStatePath :=
  {| Build := FlowFrameworkSearchStatePath_Build; fields _ := []; ignored _ := [];
     templates := ["/_plugins/_flow_framework/workflow/state/_search"] |}.
#[export] Instance FlowFrameworkSearchStatePath_lawful : Lawful FlowFrameworkSearchStatePath.
Proof. follow. Qed.

Record FlowFrameworkUpdatePath := MkFlowFrameworkUpdatePath { FlowFrameworkUpdatePath_WorkflowID : string }.
Definition FlowFrameworkUpdatePath_Build (p : FlowFrameworkUpdatePath) : built :=
  build (required "FlowFrameworkUpdatePath.WorkflowID" (FlowFrameworkUpdatePath_WorkflowID p);; writeLit "_plugins";;
   writeLit "_flow_framework";; writeLit "workflow";; writeReq (FlowFrameworkUpdatePath_WorkflowID p)).
#[export] Instance FlowFrameworkUpdatePath_builder : builder FlowFrameworkUpdatePath :=
  {| Build := FlowFrameworkUpdatePath_Build; fields p := [("workflow_id", One (FlowFrameworkUpdatePath_WorkflowID p))]; ignored _ := [];
     templates := ["/_plugins/_flow_framework/workflow/{workflow_id}"] |}.
#[export] Instance FlowFrameworkUpdatePath_lawful : Lawful FlowFrameworkUpdatePath.
Proof. follow. Qed.

Record KNNDeleteModelPath := MkKNNDeleteModelPath { KNNDeleteModelPath_ModelID : string }.
Definition KNNDeleteModelPath_Build (p : KNNDeleteModelPath) : built :=
  build (required "KNNDeleteModelPath.ModelID" (KNNDeleteModelPath_ModelID p);; writeLit "_plugins";; writeLit "_knn";;
   writeLit "models";; writeReq (KNNDeleteModelPath_ModelID p)).
#[export] Instance KNNDeleteModelPath_builder : builder KNNDeleteModelPath :=
  {| Build := KNNDeleteModelPath_Build; fields p := [("model_id", One (KNNDeleteModelPath_ModelID p))]; ignored _ := [];
     templates := ["/_plugins/_knn/models/{model_id}"] |}.
#[export] Instance KNNDeleteModelPath_lawful : Lawful KNNDeleteModelPath.
Proof. follow. Qed.

Record KNNGetModelPath := MkKNNGetModelPath { KNNGetModelPath_ModelID : string }.
Definition KNNGetModelPath_Build (p : KNNGetModelPath) : built :=
  build (required "KNNGetModelPath.ModelID" (KNNGetModelPath_ModelID p);; writeLit "_plugins";; writeLit "_knn";; writeLit "models";;
   writeReq (KNNGetModelPath_ModelID p)).
#[export] Instance KNNGetModelPath_builder : builder KNNGetModelPath :=
  {| Build := KNNGetModelPath_Build; fields p := [("model_id", One (KNNGetModelPath_ModelID p))]; ignored _ := [];
     templates := ["/_plugins/_knn/models/{model_id}"] |}.
#[export] Instance KNNGetModelPath_lawful : Lawful KNNGetModelPath.
Proof. follow. Qed.

Record KNNSearchModelsPath := MkKNNSearchModelsPath {  }.
Definition KNNSearchModelsPath_Build (p : KNNSearchModelsPath) : built := build (writeLit "_plugins";; writeLit "_knn";; writeLit "models";; writeLit "_search").
#[export] Instance KNNSearchModelsPath_builder : builder KNNSearchModelsPath :=
  {| Build := KNNSearchModelsPath_Build; fields _ := []; ignored _ := [];
     templates := ["/_plugins/_knn/models/_search"] |}.
#[export] Instance KNNSearchModelsPath_lawful : Lawful KNNSearchModelsPath.
Proof. follow. Qed.

Record KNNStatsPath := MkKNNStatsPath { KNNStatsPath_NodeID : list string; KNNStatsPath_Stat : list string }.
Definition KNNStatsPath_Build (p : KNNStatsPath) : built :=
  build (writeLit "_plugins";; writeLit "_knn";;
   (if hasNonEmpty (KNNStatsPath_NodeID p) && hasNonEmpty (KNNStatsPath_Stat p) then writeSegments (KNNStatsPath_NodeID p);; writeLit "stats";; writeSegments (KNNStatsPath_Stat p)
    else if hasNonEmpty (KNNStatsPath_NodeID p) then writeSegments (KNNStatsPath_NodeID p);; writeLit "stats"
    else if hasNonEmpty (KNNStatsPath_Stat p) then writeLit "stats";; writeSegments (KNNStatsPath_Stat p)
    else writeLit "stats")).
#[export] Instance KNNStatsPath_builder : builder KNNStatsPath :=
  {| Build := KNNStatsPath_Build; fields p := [("node_id", Many (KNNStatsPath_NodeID p)); ("stat", Many (KNNStatsPath_Stat p))]; ignored _ := [];
     templates := ["/_plugins/_knn/{node_id}/stats"; "/_plugins/_knn/{node_id}/stats/{stat}"; "/_plugins/_knn/stats"; "/_plugins/_knn/stats/{stat}"] |}.
#[export] Instance KNNStatsPath_lawful : Lawful KNNStatsPath.
Proof. follow. Qed.

Record KNNTrainModelPath := MkKNNTrainModelPath { KNNTrainModelPath_ModelID : string }.
Definition KNNTrainModelPath_Build (p : KNNTrainModelPath) : built :=
  build (writeLit "_plugins";; writeLit "_knn";; writeLit "models";;
   when (isSet (KNNTrainModelPath_ModelID p)) (writeReq (KNNTrainModelPath_ModelID p));; writeLit "_train").
#[export] Instance KNNTrainModelPath_builder : builder KNNTrainModelPath :=
  {| Build := KNNTrainModelPath_Build; fields p := [("model_id", One (KNNTrainModelPath_ModelID p))]; ignored _ := [];
     templates := ["/_plugins/_knn/models/_train"; "/_plugins/_knn/models/{model_id}/_train"] |}.
#[export] Instance KNNTrainModelPath_lawful : Lawful KNNTrainModelPath.
Proof. follow. Qed.

Record KNNWarmupPath := MkKNNWarmupPath { KNNWarmupPath_Indices : list string }.
Definition KNNWarmupPath_Build (p : KNNWarmupPath) : built :=
  build (requiredList "KNNWarmupPath.Indices" (KNNWarmupPath_Indices p);; writeLit "_plugins";; writeLit "_knn";; writeLit "warmup";;
   writeSegments (KNNWarmupPath_Indices p)).
#[export] Instance KNNWarmupPath_builder : builder KNNWarmupPath :=
  {| Build := KNNWarmupPath_Build; fields p := [("index", Many (KNNWarmupPath_Indices p))]; ignored _ := [];
     templates := ["/_plugins/_knn/warmup/{index}"] |}.
#[export] Instance KNNWarmupPath_lawful : Lawful KNNWarmupPath.
Proof. follow. Qed.

Record LTRAddFeaturesToSetPath := MkLTRAddFeaturesToSetPath { LTRAddFeaturesToSetPath_Store : string; LTRAddFeaturesToSetPath_Name : string }.
Definition LTRAddFeaturesToSetPath_Build (p : LTRAddFeaturesToSetPath) : built :=
  build (required "LTRAddFeaturesToSetPath.Name" (LTRAddFeaturesToSetPath_Name p);; writeLit "_ltr";;
   when (isSet (LTRAddFeaturesToSetPath_Store p)) (writeReq (LTRAddFeaturesToSetPath_Store p));; writeLit "_featureset";;
   writeReq (LTRAddFeaturesToSetPath_Name p);; writeLit "_addfeatures").
#[export] Instance LTRAddFeaturesToSetPath_builder : builder LTRAddFeaturesToSetPath :=
  {| Build := LTRAddFeaturesToSetPath_Build; fields p := [("name", One (LTRAddFeaturesToSetPath_Name p)); ("store", One (LTRAddFeaturesToSetPath_Store p))]; ignored _ := [];
     templates := ["/_ltr/_featureset/{name}/_addfeatures"; "/_ltr/{store}/_featureset/{name}/_addfeatures"] |}.
#[export] Instance LTRAddFeaturesToSetPath_lawful : Lawful LTRAddFeaturesToSetPath.
Proof. follow. Qed.

Record LTRAddFeaturesToSetByQueryPath := MkLTRAddFeaturesToSetByQueryPath { LTRAddFeaturesToSetByQueryPath_Store : string; LTRAddFeaturesToSetByQueryPath_Name : string; LTRAddFeaturesToSetByQueryPath_Query : string }.
Definition LTRAddFeaturesToSetByQueryPath_Build (p : LTRAddFeaturesToSetByQueryPath) : built :=
  build (required "LTRAddFeaturesToSetByQueryPath.Name" (LTRAddFeaturesToSetByQueryPath_Name p);;
   required "LTRAddFeaturesToSetByQueryPath.Query" (LTRAddFeaturesToSetByQueryPath_Query p);; writeLit "_ltr";;
   when (isSet (LTRAddFeaturesToSetByQueryPath_Store p)) (writeReq (LTRAddFeaturesToSetByQueryPath_Store p));;
   writeLit "_featureset";; writeReq (LTRAddFeaturesToSetByQueryPath_Name p);; writeLit "_addfeatures";;
   writeReq (LTRAddFeaturesToSetByQueryPath_Query p)).
#[export] Instance LTRAddFeaturesToSetByQueryPath_builder : builder LTRAddFeaturesToSetByQueryPath :=
  {| Build := LTRAddFeaturesToSetByQueryPath_Build; fields p := [("name", One (LTRAddFeaturesToSetByQueryPath_Name p)); ("query", One (LTRAddFeaturesToSetByQueryPath_Query p)); ("store", One (LTRAddFeaturesToSetByQueryPath_Store p))]; ignored _ := [];
     templates := ["/_ltr/_featureset/{name}/_addfeatures/{query}"; "/_ltr/{store}/_featureset/{name}/_addfeatures/{query}"] |}.
#[export] Instance LTRAddFeaturesToSetByQueryPath_lawful : Lawful LTRAddFeaturesToSetByQueryPath.
Proof. follow. Qed.

Record LTRCacheStatsPath := MkLTRCacheStatsPath {  }.
Definition LTRCacheStatsPath_Build (p : LTRCacheStatsPath) : built := build (writeLit "_ltr";; writeLit "_cachestats").
#[export] Instance LTRCacheStatsPath_builder : builder LTRCacheStatsPath :=
  {| Build := LTRCacheStatsPath_Build; fields _ := []; ignored _ := [];
     templates := ["/_ltr/_cachestats"] |}.
#[export] Instance LTRCacheStatsPath_lawful : Lawful LTRCacheStatsPath.
Proof. follow. Qed.

Record LTRClearCachePath := MkLTRClearCachePath { LTRClearCachePath_Store : string }.
Definition LTRClearCachePath_Build (p : LTRClearCachePath) : built :=
  build (writeLit "_ltr";; when (isSet (LTRClearCachePath_Store p)) (writeReq (LTRClearCachePath_Store p));; writeLit "_clearcache").
#[export] Instance LTRClearCachePath_builder : builder LTRClearCachePath :=
  {| Build := LTRClearCachePath_Build; fields p := [("store", One (LTRClearCachePath_Store p))]; ignored _ := [];
     templates := ["/_ltr/_clearcache"; "/_ltr/{store}/_clearcache"] |}.
#[export] Instance LTRClearCachePath_lawful : Lawful LTRClearCachePath.
Proof. follow. Qed.

Record LTRCreateDefaultStorePath := MkLTRCreateDefaultStorePath {  }.
Definition LTRCreateDefaultStorePath_Build (p : LTRCreateDefaultStorePath) : built := build (writeLit "_ltr").
#[export] Instance LTRCreateDefaultStorePath_builder : builder LTRCreateDefaultStorePath :=
  {| Build := LTRCreateDefaultStorePath_Build; fields _ := []; ignored _ := [];
     templates := ["/_ltr"] |}.
#[export] Instance LTRCreateDefaultStorePath_lawful : Lawful LTRCreateDefaultStorePath.
Proof. follow. Qed.

Record LTRCreateFeaturePath := MkLTRCreateFeaturePath { LTRCreateFeaturePath_Store : string; LTRCreateFeaturePath_ID : string }.
Definition LTRCreateFeaturePath_Build (p : LTRCreateFeaturePath) : built :=
  build (required "LTRCreateFeaturePath.ID" (LTRCreateFeaturePath_ID p);; writeLit "_ltr";;
   when (isSet (LTRCreateFeaturePath_Store p)) (writeReq (LTRCreateFeaturePath_Store p));; writeLit "_feature";;
   writeReq (LTRCreateFeaturePath_ID p)).
#[export] Instance LTRCreateFeaturePath_builder : builder LTRCreateFeaturePath :=
  {| Build := LTRCreateFeaturePath_Build; fields p := [("id", One (LTRCreateFeaturePath_ID p)); ("store", One (LTRCreateFeaturePath_Store p))]; ignored _ := [];
     templates := ["/_ltr/_feature/{id}"; "/_ltr/{store}/_feature/{id}"] |}.
#[export] Instance LTRCreateFeaturePath_lawful : Lawful LTRCreateFeaturePath.
Proof. follow. Qed.

Record LTRCreateFeaturesetPath := MkLTRCreateFeaturesetPath { LTRCreateFeaturesetPath_Store : string; LTRCreateFeaturesetPath_ID : string }.
Definition LTRCreateFeaturesetPath_Build (p : LTRCreateFeaturesetPath) : built :=
  build (required "LTRCreateFeaturesetPath.ID" (LTRCreateFeaturesetPath_ID p);; writeLit "_ltr";;
   when (isSet (LTRCreateFeaturesetPath_Store p)) (writeReq (LTRCreateFeaturesetPath_Store p));; writeLit "_featureset";;
   writeReq (LTRCreateFeaturesetPath_ID p)).
#[export] Instance LTRCreateFeaturesetPath_builder : builder LTRCreateFeaturesetPath :=
  {| Build := LTRCreateFeaturesetPath_Build; fields p := [("id", One (LTRCreateFeaturesetPath_ID p)); ("store", One (LTRCreateFeaturesetPath_Store p))]; ignored _ := [];
     templates := ["/_ltr/_featureset/{id}"; "/_ltr/{store}/_featureset/{id}"] |}.
#[export] Instance LTRCreateFeaturesetPath_lawful : Lawful LTRCreateFeaturesetPath.
Proof. follow. Qed.

Record LTRCreateModelPath := MkLTRCreateModelPath { LTRCreateModelPath_Store : string; LTRCreateModelPath_ID : string }.
Definition LTRCreateModelPath_Build (p : LTRCreateModelPath) : built :=
  build (required "LTRCreateModelPath.ID" (LTRCreateModelPath_ID p);; writeLit "_ltr";;
   when (isSet (LTRCreateModelPath_Store p)) (writeReq (LTRCreateModelPath_Store p));; writeLit "_model";;
   writeReq (LTRCreateModelPath_ID p)).
#[export] Instance LTRCreateModelPath_builder : builder LTRCreateModelPath :=
  {| Build := LTRCreateModelPath_Build; fields p := [("id", One (LTRCreateModelPath_ID p)); ("store", One (LTRCreateModelPath_Store p))]; ignored _ := [];
     templates := ["/_ltr/_model/{id}"; "/_ltr/{store}/_model/{id}"] |}.
#[export] Instance LTRCreateModelPath_lawful : Lawful LTRCreateModelPath.
Proof. follow. Qed.

Record LTRCreateModelFromSetPath := MkLTRCreateModelFromSetPath { LTRCreateModelFromSetPath_Store : string; LTRCreateModelFromSetPath_Name : string }.
Definition LTRCreateModelFromSetPath_Build (p : LTRCreateModelFromSetPath) : built :=
  build (required "LTRCreateModelFromSetPath.Name" (LTRCreateModelFromSetPath_Name p);; writeLit "_ltr";;
   when (isSet (LTRCreateModelFromSetPath_Store p)) (writeReq (LTRCreateModelFromSetPath_Store p));; writeLit "_featureset";;
   writeReq (LTRCreateModelFromSetPath_Name p);; writeLit "_createmodel").
#[export] Instance LTRCreateModelFromSetPath_builder : builder LTRCreateModelFromSetPath :=
  {| Build := LTRCreateModelFromSetPath_Build; fields p := [("name", One (LTRCreateModelFromSetPath_Name p)); ("store", One (LTRCreateModelFromSetPath_Store p))]; ignored _ := [];
     templates := ["/_ltr/_featureset/{name}/_createmodel"; "/_ltr/{store}/_featureset/{name}/_createmodel"] |}.
#[export] Instance LTRCreateModelFromSetPath_lawful : Lawful LTRCreateModelFromSetPath.
Proof. follow. Qed.

Record LTRCreateStorePath := MkLTRCreateStorePath { LTRCreateStorePath_Store : string }.
Definition LTRCreateStorePath_Build (p : LTRCreateStorePath) : built :=
  build (required "LTRCreateStorePath.Store" (LTRCreateStorePath_Store p);; writeLit "_ltr";; writeReq (LTRCreateStorePath_Store p)).
#[export] Instance LTRCreateStorePath_builder : builder LTRCreateStorePath :=
  {| Build := LTRCreateStorePath_Build; fields p := [("store", One (LTRCreateStorePath_Store p))]; ignored _ := [];
     templates := ["/_ltr/{store}"] |}.
#[export] Instance LTRCreateStorePath_lawful : Lawful LTRCreateStorePath.
Proof. follow. Qed.

Record LTRDeleteDefaultStorePath := MkLTRDeleteDefaultStorePath {  }.
Definition LTRDeleteDefaultStorePath_Build (p : LTRDeleteDefaultStorePath) : built := build (writeLit "_ltr").
#[export] Instance LTRDeleteDefaultStorePath_builder : builder LTRDeleteDefaultStorePath :=
  {| Build := LTRDeleteDefaultStorePath_Build; fields _ := []; ignored _ := [];
     templates := ["/_ltr"] |}.
#[export] Instance LTRDeleteDefaultStorePath_lawful : Lawful LTRDeleteDefaultStorePath.
Proof. follow. Qed.

Record LTRDeleteFeaturePath := MkLTRDeleteFeaturePath { LTRDeleteFeaturePath_Store : string; LTRDeleteFeaturePath_ID : string }.
Definition LTRDeleteFeaturePath_Build (p : LTRDeleteFeaturePath) : built :=
  build (required "LTRDeleteFeaturePath.ID" (LTRDeleteFeaturePath_ID p);; writeLit "_ltr";;
   when (isSet (LTRDeleteFeaturePath_Store p)) (writeReq (LTRDeleteFeaturePath_Store p));; writeLit "_feature";;
   writeReq (LTRDeleteFeaturePath_ID p)).
#[export] Instance LTRDeleteFeaturePath_builder : builder LTRDeleteFeaturePath :=
  {| Build := LTRDeleteFeaturePath_Build; fields p := [("id", One (LTRDeleteFeaturePath_ID p)); ("store", One (LTRDeleteFeaturePath_Store p))]; ignored _ := [];
     templates := ["/_ltr/_feature/{id}"; "/_ltr/{store}/_feature/{id}"] |}.
#[export] Instance LTRDeleteFeaturePath_lawful : Lawful LTRDeleteFeaturePath.
Proof. follow. Qed.

Record LTRDeleteFeaturesetPath := MkLTRDeleteFeaturesetPath { LTRDeleteFeaturesetPath_Store : string; LTRDeleteFeaturesetPath_ID : string }.
Definition LTRDeleteFeaturesetPath_Build (p : LTRDeleteFeaturesetPath) : built :=
  build (required "LTRDeleteFeaturesetPath.ID" (LTRDeleteFeaturesetPath_ID p);; writeLit "_ltr";;
   when (isSet (LTRDeleteFeaturesetPath_Store p)) (writeReq (LTRDeleteFeaturesetPath_Store p));; writeLit "_featureset";;
   writeReq (LTRDeleteFeaturesetPath_ID p)).
#[export] Instance LTRDeleteFeaturesetPath_builder : builder LTRDeleteFeaturesetPath :=
  {| Build := LTRDeleteFeaturesetPath_Build; fields p := [("id", One (LTRDeleteFeaturesetPath_ID p)); ("store", One (LTRDeleteFeaturesetPath_Store p))]; ignored _ := [];
     templates := ["/_ltr/_featureset/{id}"; "/_ltr/{store}/_featureset/{id}"] |}.
#[export] Instance LTRDeleteFeaturesetPath_lawful : Lawful LTRDeleteFeaturesetPath.
Proof. follow. Qed.

Record LTRDeleteModelPath := MkLTRDeleteModelPath { LTRDeleteModelPath_Store : string; LTRDeleteModelPath_ID : string }.
Definition LTRDeleteModelPath_Build (p : LTRDeleteModelPath) : built :=
  build (required "LTRDeleteModelPath.ID" (LTRDeleteModelPath_ID p);; writeLit "_ltr";;
   when (isSet (LTRDeleteModelPath_Store p)) (writeReq (LTRDeleteModelPath_Store p));; writeLit "_model";;
   writeReq (LTRDeleteModelPath_ID p)).
#[export] Instance LTRDeleteModelPath_builder : builder LTRDeleteModelPath :=
  {| Build := LTRDeleteModelPath_Build; fields p := [("id", One (LTRDeleteModelPath_ID p)); ("store", One (LTRDeleteModelPath_Store p))]; ignored _ := [];
     templates := ["/_ltr/_model/{id}"; "/_ltr/{store}/_model/{id}"] |}.
#[export] Instance LTRDeleteModelPath_lawful : Lawful LTRDeleteModelPath.
Proof. follow. Qed.

Record LTRDeleteStorePath := MkLTRDeleteStorePath { LTRDeleteStorePath_Store : string }.
Definition LTRDeleteStorePath_Build (p : LTRDeleteStorePath) : built :=
  build (required "LTRDeleteStorePath.Store" (LTRDeleteStorePath_Store p);; writeLit "_ltr";; writeReq (LTRDeleteStorePath_Store p)).
#[export] Instance LTRDeleteStorePath_builder : builder LTRDeleteStorePath :=
  {| Build := LTRDeleteStorePath_Build; fields p := [("store", One (LTRDeleteStorePath_Store p))]; ignored _ := [];
     templates := ["/_ltr/{store}"] |}.
#[export] Instance LTRDeleteStorePath_lawful : Lawful LTRDeleteStorePath.
Proof. follow. Qed.

Record LTRGetFeaturePath := MkLTRGetFeaturePath { LTRGetFeaturePath_Store : string; LTRGetFeaturePath_ID : string }.
Definition LTRGetFeaturePath_Build (p : LTRGetFeaturePath) : built :=
  build (required "LTRGetFeaturePath.ID" (LTRGetFeaturePath_ID p);; writeLit "_ltr";;
   when (isSet (LTRGetFeaturePath_Store p)) (writeReq (LTRGetFeaturePath_Store p));; writeLit "_feature";;
   writeReq (LTRGetFeaturePath_ID p)).
#[export] Instance LTRGetFeaturePath_builder : builder LTRGetFeaturePath :=
  {| Build := LTRGetFeaturePath_Build; fields p := [("id", One (LTRGetFeaturePath_ID p)); ("store", One (LTRGetFeaturePath_Store p))]; ignored _ := [];
     templates := ["/_ltr/_feature/{id}"; "/_ltr/{store}/_feature/{id}"] |}.
#[export] Instance LTRGetFeaturePath_lawful : Lawful LTRGetFeaturePath.
Proof. follow. Qed.

Record LTRGetFeaturesetPath := MkLTRGetFeaturesetPath { LTRGetFeaturesetPath_Store : string; LTRGetFeaturesetPath_ID : string }.
Definition LTRGetFeaturesetPath_Build (p : LTRGetFeaturesetPath) : built :=
  build (required "LTRGetFeaturesetPath.ID" (LTRGetFeaturesetPath_ID p);; writeLit "_ltr";;
   when (isSet (LTRGetFeaturesetPath_Store p)) (writeReq (LTRGetFeaturesetPath_Store p));; writeLit "_featureset";;
   writeReq (LTRGetFeaturesetPath_ID p)).
#[export] Instance LTRGetFeaturesetPath_builder : builder LTRGetFeaturesetPath :=
  {| Build := LTRGetFeaturesetPath_Build; fields p := [("id", One (LTRGetFeaturesetPath_ID p)); ("store", One (LTRGetFeaturesetPath_Store p))]; ignored _ := [];
     templates := ["/_ltr/_featureset/{id}"; "/_ltr/{store}/_featureset/{id}"] |}.
#[export] Instance LTRGetFeaturesetPath_lawful : Lawful LTRGetFeaturesetPath.
Proof. follow. Qed.

Record LTRGetModelPath := MkLTRGetModelPath { LTRGetModelPath_Store : string; LTRGetModelPath_ID : string }.
Definition LTRGetModelPath_Build (p : LTRGetModelPath) : built :=
  build (required "LTRGetModelPath.ID" (LTRGetModelPath_ID p);; writeLit "_ltr";;
   when (isSet (LTRGetModelPath_Store p)) (writeReq (LTRGetModelPath_Store p));; writeLit "_model";;
   writeReq (LTRGetModelPath_ID p)).
#[export] Instance LTRGetModelPath_builder : builder LTRGetModelPath :=
  {| Build := LTRGetModelPath_Build; fields p := [("id", One (LTRGetModelPath_ID p)); ("store", One (LTRGetModelPath_Store p))]; ignored _ := [];
     templates := ["/_ltr/_model/{id}"; "/_ltr/{store}/_model/{id}"] |}.
#[export] Instance LTRGetModelPath_lawful : Lawful LTRGetModelPath.
Proof. follow. Qed.

Record LTRGetStorePath := MkLTRGetStorePath { LTRGetStorePath_Store : string }.
Definition LTRGetStorePath_Build (p : LTRGetStorePath) : built :=
  build (required "LTRGetStorePath.Store" (LTRGetStorePath_Store p);; writeLit "_ltr";; writeReq (LTRGetStorePath_Store p)).
#[export] Instance LTRGetStorePath_builder : builder LTRGetStorePath :=
  {| Build := LTRGetStorePath_Build; fields p := [("store", One (LTRGetStorePath_Store p))]; ignored _ := [];
     templates := ["/_ltr/{store}"] |}.
#[export] Instance LTRGetStorePath_lawful : Lawful LTRGetStorePath.
Proof. follow. Qed.

Record LTRListStoresPath := MkLTRListStoresPath {  }.
Definition LTRListStoresPath_Build (p : LTRListStoresPath) : built := build (writeLit "_ltr").
#[export] Instance LTRListStoresPath_builder : builder LTRListStoresPath :=
  {| Build := LTRListStoresPath_Build; fields _ := []; ignored _ := [];
     templates := ["/_ltr"] |}.
#[export] Instance LTRListStoresPath_lawful : Lawful LTRListStoresPath.
Proof. follow. Qed.

Record LTRSearchFeaturesPath := MkLTRSearchFeaturesPath { LTRSearchFeaturesPath_Store : string }.
Definition LTRSearchFeaturesPath_Build (p : LTRSearchFeaturesPath) : built :=
  build (writeLit "_ltr";; when (isSet (LTRSearchFeaturesPath_Store p)) (writeReq (LTRSearchFeaturesPath_Store p));;
   writeLit "_feature").
#[export] Instance LTRSearchFeaturesPath_builder : builder LTRSearchFeaturesPath :=
  {| Build := LTRSearchFeaturesPath_Build; fields p := [("store", One (LTRSearchFeaturesPath_Store p))]; ignored _ := [];
     templates := ["/_ltr/_feature"; "/_ltr/{store}/_feature"] |}.
#[export] Instance LTRSearchFeaturesPath_lawful : Lawful LTRSearchFeaturesPath.
Proof. follow. Qed.

Record LTRSearchFeaturesetsPath := MkLTRSearchFeaturesetsPath { LTRSearchFeaturesetsPath_Store : string }.
Definition LTRSearchFeaturesetsPath_Build (p : LTRSearchFeaturesetsPath) : built :=
  build (writeLit "_ltr";; when (isSet (LTRSearchFeaturesetsPath_Store p)) (writeReq (LTRSearchFeaturesetsPath_Store p));;
   writeLit "_featureset").
#[export] Instance LTRSearchFeaturesetsPath_builder : builder LTRSearchFeaturesetsPath :=
  {| Build := LTRSearchFeaturesetsPath_Build; fields p := [("store", One (LTRSearchFeaturesetsPath_Store p))]; ignored _ := [];
     templates := ["/_ltr/_featureset"; "/_ltr/{store}/_featureset"] |}.
#[export] Instance LTRSearchFeaturesetsPath_lawful : Lawful LTRSearchFeaturesetsPath.
Proof. follow. Qed.

Record LTRSearchModelsPath := MkLTRSearchModelsPath { LTRSearchModelsPath_Store : string }.
Definition LTRSearchModelsPath_Build (p : LTRSearchModelsPath) : built :=
  build (writeLit "_ltr";; when (isSet (LTRSearchModelsPath_Store p)) (writeReq (LTRSearchModelsPath_Store p));; writeLit "_model").
#[export] Instance LTRSearchModelsPath_builder : builder LTRSearchModelsPath :=
  {| Build := LTRSearchModelsPath_Build; fields p := [("store", One (LTRSearchModelsPath_Store p))]; ignored _ := [];
     templates := ["/_ltr/_model"; "/_ltr/{store}/_model"] |}.
#[export] Instance LTRSearchModelsPath_lawful : Lawful LTRSearchModelsPath.
Proof. follow. Qed.

Record LTRStatsPath := MkLTRStatsPath { LTRStatsPath_NodeID : list string; LTRStatsPath_Stat : list string }.
Definition LTRStatsPath_Build (p : LTRStatsPath) : built :=
  build (writeLit "_plugins";; writeLit "_ltr";;
   (if hasNonEmpty (LTRStatsPath_NodeID p) && hasNonEmpty (LTRStatsPath_Stat p) then writeSegments (LTRStatsPath_NodeID p);; writeLit "stats";; writeSegments (LTRStatsPath_Stat p)
    else if hasNonEmpty (LTRStatsPath_NodeID p) then writeSegments (LTRStatsPath_NodeID p);; writeLit "stats"
    else if hasNonEmpty (LTRStatsPath_Stat p) then writeLit "stats";; writeSegments (LTRStatsPath_Stat p)
    else writeLit "stats")).
#[export] Instance LTRStatsPath_builder : builder LTRStatsPath :=
  {| Build := LTRStatsPath_Build; fields p := [("node_id", Many (LTRStatsPath_NodeID p)); ("stat", Many (LTRStatsPath_Stat p))]; ignored _ := [];
     templates := ["/_plugins/_ltr/{node_id}/stats"; "/_plugins/_ltr/{node_id}/stats/{stat}"; "/_plugins/_ltr/stats"; "/_plugins/_ltr/stats/{stat}"] |}.
#[export] Instance LTRStatsPath_lawful : Lawful LTRStatsPath.
Proof. follow. Qed.

Record LTRUpdateFeaturePath := MkLTRUpdateFeaturePath { LTRUpdateFeaturePath_Store : string; LTRUpdateFeaturePath_ID : string }.
Definition LTRUpdateFeaturePath_Build (p : LTRUpdateFeaturePath) : built :=
  build (required "LTRUpdateFeaturePath.ID" (LTRUpdateFeaturePath_ID p);; writeLit "_ltr";;
   when (isSet (LTRUpdateFeaturePath_Store p)) (writeReq (LTRUpdateFeaturePath_Store p));; writeLit "_feature";;
   writeReq (LTRUpdateFeaturePath_ID p)).
#[export] Instance LTRUpdateFeaturePath_builder : builder LTRUpdateFeaturePath :=
  {| Build := LTRUpdateFeaturePath_Build; fields p := [("id", One (LTRUpdateFeaturePath_ID p)); ("store", One (LTRUpdateFeaturePath_Store p))]; ignored _ := [];
     templates := ["/_ltr/_feature/{id}"; "/_ltr/{store}/_feature/{id}"] |}.
#[export] Instance LTRUpdateFeaturePath_lawful : Lawful LTRUpdateFeaturePath.
Proof. follow. Qed.

Record LTRUpdateFeaturesetPath := MkLTRUpdateFeaturesetPath { LTRUpdateFeaturesetPath_Store : string; LTRUpdateFeaturesetPath_ID : string }.
Definition LTRUpdateFeaturesetPath_Build (p : LTRUpdateFeaturesetPath) : built :=
  build (required "LTRUpdateFeaturesetPath.ID" (LTRUpdateFeaturesetPath_ID p);; writeLit "_ltr";;
   when (isSet (LTRUpdateFeaturesetPath_Store p)) (writeReq (LTRUpdateFeaturesetPath_Store p));; writeLit "_featureset";;
   writeReq (LTRUpdateFeaturesetPath_ID p)).
#[export] Instance LTRUpdateFeaturesetPath_builder : builder LTRUpdateFeaturesetPath :=
  {| Build := LTRUpdateFeaturesetPath_Build; fields p := [("id", One (LTRUpdateFeaturesetPath_ID p)); ("store", One (LTRUpdateFeaturesetPath_Store p))]; ignored _ := [];
     templates := ["/_ltr/_featureset/{id}"; "/_ltr/{store}/_featureset/{id}"] |}.
#[export] Instance LTRUpdateFeaturesetPath_lawful : Lawful LTRUpdateFeaturesetPath.
Proof. follow. Qed.

Record MLAddAgenticMemoryPath := MkMLAddAgenticMemoryPath { MLAddAgenticMemoryPath_MemoryContainerID : string }.
Definition MLAddAgenticMemoryPath_Build (p : MLAddAgenticMemoryPath) : built :=
  build (required "MLAddAgenticMemoryPath.MemoryContainerID" (MLAddAgenticMemoryPath_MemoryContainerID p);; writeLit "_plugins";;
   writeLit "_ml";; writeLit "memory_containers";; writeReq (MLAddAgenticMemoryPath_MemoryContainerID p);; writeLit "memories").
#[export] Instance MLAddAgenticMemoryPath_builder : builder MLAddAgenticMemoryPath :=
  {| Build := MLAddAgenticMemoryPath_Build; fields p := [("memory_container_id", One (MLAddAgenticMemoryPath_MemoryContainerID p))]; ignored _ := [];
     templates := ["/_plugins/_ml/memory_containers/{memory_container_id}/memories"] |}.
#[export] Instance MLAddAgenticMemoryPath_lawful : Lawful MLAddAgenticMemoryPath.
Proof. follow. Qed.

Record MLChunkModelPath := MkMLChunkModelPath { MLChunkModelPath_ModelID : string; MLChunkModelPath_ChunkNumber : string }.
Definition MLChunkModelPath_Build (p : MLChunkModelPath) : built :=
  build (required "MLChunkModelPath.ModelID" (MLChunkModelPath_ModelID p);;
   required "MLChunkModelPath.ChunkNumber" (MLChunkModelPath_ChunkNumber p);; writeLit "_plugins";; writeLit "_ml";;
   writeLit "models";; writeReq (MLChunkModelPath_ModelID p);; writeLit "chunk";; writeReq (MLChunkModelPath_ChunkNumber p)).
#[export] Instance MLChunkModelPath_builder : builder MLChunkModelPath :=
  {| Build := MLChunkModelPath_Build; fields p := [("model_id", One (MLChunkModelPath_ModelID p)); ("chunk_number", One (MLChunkModelPath_ChunkNumber p))]; ignored _ := [];
     templates := ["/_plugins/_ml/models/{model_id}/chunk/{chunk_number}"] |}.
#[export] Instance MLChunkModelPath_lawful : Lawful MLChunkModelPath.
Proof. follow. Qed.

Record MLCreateConnectorPath := MkMLCreateConnectorPath {  }.
Definition MLCreateConnectorPath_Build (p : MLCreateConnectorPath) : built := build (writeLit "_plugins";; writeLit "_ml";; writeLit "connectors";; writeLit "_create").
#[export] Instance MLCreateConnectorPath_builder : builder MLCreateConnectorPath :=
  {| Build := MLCreateConnectorPath_Build; fields _ := []; ignored _ := [];
     templates := ["/_plugins/_ml/connectors/_create"] |}.
#[export] Instance MLCreateConnectorPath_lawful : Lawful MLCreateConnectorPath.
Proof. follow. Qed.

Record MLCreateControllerPath := MkMLCreateControllerPath { MLCreateControllerPath_ModelID : string }.
Definition MLCreateControllerPath_Build (p : MLCreateControllerPath) : built :=
  build (required "MLCreateControllerPath.ModelID" (MLCreateControllerPath_ModelID p);; writeLit "_plugins";; writeLit "_ml";;
   writeLit "controllers";; writeReq (MLCreateControllerPath_ModelID p)).
#[export] Instance MLCreateControllerPath_builder : builder MLCreateControllerPath :=
  {| Build := MLCreateControllerPath_Build; fields p := [("model_id", One (MLCreateControllerPath_ModelID p))]; ignored _ := [];
     templates := ["/_plugins/_ml/controllers/{model_id}"] |}.
#[export] Instance MLCreateControllerPath_lawful : Lawful MLCreateControllerPath.
Proof. follow. Qed.

Record MLCreateMemoryPath := MkMLCreateMemoryPath {  }.
Definition MLCreateMemoryPath_Build (p : MLCreateMemoryPath) : built := build (writeLit "_plugins";; writeLit "_ml";; writeLit "memory").
#[export] Instance MLCreateMemoryPath_builder : builder MLCreateMemoryPath :=
  {| Build := MLCreateMemoryPath_Build; fields _ := []; ignored _ := [];
     templates := ["/_plugins/_ml/memory"] |}.
#[export] Instance MLCreateMemoryPath_lawful : Lawful MLCreateMemoryPath.
Proof. follow. Qed.

Record MLCreateMemoryContainerPath := MkMLCreateMemoryContainerPath {  }.
Definition MLCreateMemoryContainerPath_Build (p : MLCreateMemoryContainerPath) : built :=
  build (writeLit "_plugins";; writeLit "_ml";; writeLit "memory_containers";; writeLit "_create").
#[export] Instance MLCreateMemoryContainerPath_builder : builder MLCreateMemoryContainerPath :=
  {| Build := MLCreateMemoryContainerPath_Build; fields _ := []; ignored _ := [];
     templates := ["/_plugins/_ml/memory_containers/_create"] |}.
#[export] Instance MLCreateMemoryContainerPath_lawful : Lawful MLCreateMemoryContainerPath.
Proof. follow. Qed.

Record MLCreateMemoryContainerSessionPath := MkMLCreateMemoryContainerSessionPath { MLCreateMemoryContainerSessionPath_MemoryContainerID : string }.
Definition MLCreateMemoryContainerSessionPath_Build (p : MLCreateMemoryContainerSessionPath) : built :=
  build (required "MLCreateMemoryContainerSessionPath.MemoryContainerID" (MLCreateMemoryContainerSessionPath_MemoryContainerID p);;
   writeLit "_plugins";; writeLit "_ml";; writeLit "memory_containers";;
   writeReq (MLCreateMemoryContainerSessionPath_MemoryContainerID p);; writeLit "memories";; writeLit "sessions").
#[export] Instance MLCreateMemoryContainerSessionPath_builder : builder MLCreateMemoryContainerSessionPath :=
  {| Build := MLCreateMemoryContainerSessionPath_Build; fields p := [("memory_container_id", One (MLCreateMemoryContainerSessionPath_MemoryContainerID p))]; ignored _ := [];
     templates := ["/_plugins/_ml/memory_containers/{memory_container_id}/memories/sessions"] |}.
#[export] Instance MLCreateMemoryContainerSessionPath_lawful : Lawful MLCreateMemoryContainerSessionPath.
Proof. follow. Qed.

Record MLCreateMessagePath := MkMLCreateMessagePath { MLCreateMessagePath_MemoryID : string }.
Definition MLCreateMessagePath_Build (p : MLCreateMessagePath) : built :=
  build (required "MLCreateMessagePath.MemoryID" (MLCreateMessagePath_MemoryID p);; writeLit "_plugins";; writeLit "_ml";;
   writeLit "memory";; writeReq (MLCreateMessagePath_MemoryID p);; writeLit "messages").
#[export] Instance MLCreateMessagePath_builder : builder MLCreateMessagePath :=
  {| Build := MLCreateMessagePath_Build; fields p := [("memory_id", One (MLCreateMessagePath_MemoryID p))]; ignored _ := [];
     templates := ["/_plugins/_ml/memory/{memory_id}/messages"] |}.
#[export] Instance MLCreateMessagePath_lawful : Lawful MLCreateMessagePath.
Proof. follow. Qed.

Record MLCreateModelMetaPath := MkMLCreateModelMetaPath {  }.
Definition MLCreateModelMetaPath_Build (p : MLCreateModelMetaPath) : built := build (writeLit "_plugins";; writeLit "_ml";; writeLit "models";; writeLit "meta").
#[export] Instance MLCreateModelMetaPath_builder : builder MLCreateModelMetaPath :=
  {| Build := MLCreateModelMetaPath_Build; fields _ := []; ignored _ := [];
     templates := ["/_plugins/_ml/models/meta"] |}.
#[export] Instance MLCreateModelMetaPath_lawful : Lawful MLCreateModelMetaPath.
Proof. follow. Qed.

Record MLDeleteAgentPath := MkMLDeleteAgentPath { MLDeleteAgentPath_AgentID : string }.
Definition MLDeleteAgentPath_Build (p : MLDeleteAgentPath) : built :=
  build (required "MLDeleteAgentPath.AgentID" (MLDeleteAgentPath_AgentID p);; writeLit "_plugins";; writeLit "_ml";;
   writeLit "agents";; writeReq (MLDeleteAgentPath_AgentID p)).
#[export] Instance MLDeleteAgentPath_builder : builder MLDeleteAgentPath :=
  {| Build := MLDeleteAgentPath_Build; fields p := [("agent_id", One (MLDeleteAgentPath_AgentID p))]; ignored _ := [];
     templates := ["/_plugins/_ml/agents/{agent_id}"] |}.
#[export] Instance MLDeleteAgentPath_lawful : Lawful MLDeleteAgentPath.
Proof. follow. Qed.

Record MLDeleteAgenticMemoryPath := MkMLDeleteAgenticMemoryPath { MLDeleteAgenticMemoryPath_MemoryContainerID : string; MLDeleteAgenticMemoryPath_Type : string; MLDeleteAgenticMemoryPath_ID : string }.
Definition MLDeleteAgenticMemoryPath_Build (p : MLDeleteAgenticMemoryPath) : built :=
  build (required "MLDeleteAgenticMemoryPath.MemoryContainerID" (MLDeleteAgenticMemoryPath_MemoryContainerID p);;
   required "MLDeleteAgenticMemoryPath.Type" (MLDeleteAgenticMemoryPath_Type p);;
   required "MLDeleteAgenticMemoryPath.ID" (MLDeleteAgenticMemoryPath_ID p);; writeLit "_plugins";; writeLit "_ml";;
   writeLit "memory_containers";; writeReq (MLDeleteAgenticMemoryPath_MemoryContainerID p);; writeLit "memories";;
   writeReq (MLDeleteAgenticMemoryPath_Type p);; writeReq (MLDeleteAgenticMemoryPath_ID p)).
#[export] Instance MLDeleteAgenticMemoryPath_builder : builder MLDeleteAgenticMemoryPath :=
  {| Build := MLDeleteAgenticMemoryPath_Build; fields p := [("memory_container_id", One (MLDeleteAgenticMemoryPath_MemoryContainerID p)); ("type", One (MLDeleteAgenticMemoryPath_Type p)); ("id", One (MLDeleteAgenticMemoryPath_ID p))]; ignored _ := [];
     templates := ["/_plugins/_ml/memory_containers/{memory_container_id}/memories/{type}/{id}"] |}.
#[export] Instance MLDeleteAgenticMemoryPath_lawful : Lawful MLDeleteAgenticMemoryPath.
Proof. follow. Qed.

Record MLDeleteAgenticMemoryQueryPath := MkMLDeleteAgenticMemoryQueryPath { MLDeleteAgenticMemoryQueryPath_MemoryContainerID : string; MLDeleteAgenticMemoryQueryPath_Type : string }.
Definition MLDeleteAgenticMemoryQueryPath_Build (p : MLDeleteAgenticMemoryQueryPath) : built :=
  build (required "MLDeleteAgenticMemoryQueryPath.MemoryContainerID" (MLDeleteAgenticMemoryQueryPath_MemoryContainerID p);;
   required "MLDeleteAgenticMemoryQueryPath.Type" (MLDeleteAgenticMemoryQueryPath_Type p);; writeLit "_plugins";;
   writeLit "_ml";; writeLit "memory_containers";; writeReq (MLDeleteAgenticMemoryQueryPath_MemoryContainerID p);;
   writeLit "memories";; writeReq (MLDeleteAgenticMemoryQueryPath_Type p);; writeLit "_delete_by_query").
#[export] Instance MLDeleteAgenticMemoryQueryPath_builder : builder MLDeleteAgenticMemoryQueryPath :=
  {| Build := MLDeleteAgenticMemoryQueryPath_Build; fields p := [("memory_container_id", One (MLDeleteAgenticMemoryQueryPath_MemoryContainerID p)); ("type", One (MLDeleteAgenticMemoryQueryPath_Type p))]; ignored _ := [];
     templates := ["/_plugins/_ml/memory_containers/{memory_container_id}/memories/{type}/_delete_by_query"] |}.
#[export] Instance MLDeleteAgenticMemoryQueryPath_lawful : Lawful MLDeleteAgenticMemoryQueryPath.
Proof. follow. Qed.

Record MLDeleteConnectorPath := MkMLDeleteConnectorPath { MLDeleteConnectorPath_ConnectorID : string }.
Definition MLDeleteConnectorPath_Build (p : MLDeleteConnectorPath) : built :=
  build (required "MLDeleteConnectorPath.ConnectorID" (MLDeleteConnectorPath_ConnectorID p);; writeLit "_plugins";; writeLit "_ml";;
   writeLit "connectors";; writeReq (MLDeleteConnectorPath_ConnectorID p)).
#[export] Instance MLDeleteConnectorPath_builder : builder MLDeleteConnectorPath :=
  {| Build := MLDeleteConnectorPath_Build; fields p := [("connector_id", One (MLDeleteConnectorPath_ConnectorID p))]; ignored _ := [];
     templates := ["/_plugins/_ml/connectors/{connector_id}"] |}.
#[export] Instance MLDeleteConnectorPath_lawful : Lawful MLDeleteConnectorPath.
Proof. follow. Qed.

Record MLDeleteControllerPath := MkMLDeleteControllerPath { MLDeleteControllerPath_ModelID : string }.
Definition MLDeleteControllerPath_Build (p : MLDeleteControllerPath) : built :=
  build (required "MLDeleteControllerPath.ModelID" (MLDeleteControllerPath_ModelID p);; writeLit "_plugins";; writeLit "_ml";;
   writeLit "controllers";; writeReq (MLDeleteControllerPath_ModelID p)).
#[export] Instance MLDeleteControllerPath_builder : builder MLDeleteControllerPath :=
  {| Build := MLDeleteControllerPath_Build; fields p := [("model_id", One (MLDeleteControllerPath_ModelID p))]; ignored _ := [];
     templates := ["/_plugins/_ml/controllers/{model_id}"] |}.
#[export] Instance MLDeleteControllerPath_lawful : Lawful MLDeleteControllerPath.
Proof. follow. Qed.

Record MLDeleteMemoryPath := MkMLDeleteMemoryPath { MLDeleteMemoryPath_MemoryID : string }.
Definition MLDeleteMemoryPath_Build (p : MLDeleteMemoryPath) : built :=
  build (required "MLDeleteMemoryPath.MemoryID" (MLDeleteMemoryPath_MemoryID p);; writeLit "_plugins";; writeLit "_ml";;
   writeLit "memory";; writeReq (MLDeleteMemoryPath_MemoryID p)).
#[export] Instance MLDeleteMemoryPath_builder : builder MLDeleteMemoryPath :=
  {| Build := MLDeleteMemoryPath_Build; fields p := [("memory_id", One (MLDeleteMemoryPath_MemoryID p))]; ignored _ := [];
     templates := ["/_plugins/_ml/memory/{memory_id}"] |}.
#[export] Instance MLDeleteMemoryPath_lawful : Lawful MLDeleteMemoryPath.
Proof. follow. Qed.

Record MLDeleteMemoryContainerPath := MkMLDeleteMemoryContainerPath { MLDeleteMemoryContainerPath_MemoryContainerID : string }.
Definition MLDeleteMemoryContainerPath_Build (p : MLDeleteMemoryContainerPath) : built :=
  build (required "MLDeleteMemoryContainerPath.MemoryContainerID" (MLDeleteMemoryContainerPath_MemoryContainerID p);;
   writeLit "_plugins";; writeLit "_ml";; writeLit "memory_containers";;
   writeReq (MLDeleteMemoryContainerPath_MemoryContainerID p)).
#[export] Instance MLDeleteMemoryContainerPath_builder : builder MLDeleteMemoryContainerPath :=
  {| Build := MLDeleteMemoryContainerPath_Build; fields p := [("memory_container_id", One (MLDeleteMemoryContainerPath_MemoryContainerID p))]; ignored _ := [];
     templates := ["/_plugins/_ml/memory_containers/{memory_container_id}"] |}.
#[export] Instance MLDeleteMemoryContainerPath_lawful : Lawful MLDeleteMemoryContainerPath.
Proof. follow. Qed.

Record MLDeleteModelPath := MkMLDeleteModelPath { MLDeleteModelPath_ModelID : string }.
Definition MLDeleteModelPath_Build (p : MLDeleteModelPath) : built :=
  build (required "MLDeleteModelPath.ModelID" (MLDeleteModelPath_ModelID p);; writeLit "_plugins";; writeLit "_ml";;
   writeLit "models";; writeReq (MLDeleteModelPath_ModelID p)).
#[export] Instance MLDeleteModelPath_builder : builder MLDeleteModelPath :=
  {| Build := MLDeleteModelPath_Build; fields p := [("model_id", One (MLDeleteModelPath_ModelID p))]; ignored _ := [];
     templates := ["/_plugins/_ml/models/{model_id}"] |}.
#[export] Instance MLDeleteModelPath_lawful : Lawful MLDeleteModelPath.
Proof. follow. Qed.

Record MLDeleteModelGroupPath := MkMLDeleteModelGroupPath { MLDeleteModelGroupPath_ModelGroupID : string }.
Definition MLDeleteModelGroupPath_Build (p : MLDeleteModelGroupPath) : built :=
  build (required "MLDeleteModelGroupPath.ModelGroupID" (MLDeleteModelGroupPath_ModelGroupID p);; writeLit "_plugins";;
   writeLit "_ml";; writeLit "model_groups";; writeReq (MLDeleteModelGroupPath_ModelGroupID p)).
#[export] Instance MLDeleteModelGroupPath_builder : builder MLDeleteModelGroupPath :=
  {| Build := MLDeleteModelGroupPath_Build; fields p := [("model_group_id", One (MLDeleteModelGroupPath_ModelGroupID p))]; ignored _ := [];
     templates := ["/_plugins/_ml/model_groups/{model_group_id}"] |}.
#[export] Instance MLDeleteModelGroupPath_lawful : Lawful MLDeleteModelGroupPath.
Proof. follow. Qed.

Record MLDeleteTaskPath := MkMLDeleteTaskPath { MLDeleteTaskPath_TaskID : string }.
Definition MLDeleteTaskPath_Build (p : MLDeleteTaskPath) : built :=
  build (required "MLDeleteTaskPath.TaskID" (MLDeleteTaskPath_TaskID p);; writeLit "_plugins";; writeLit "_ml";; writeLit "tasks";;
   writeReq (MLDeleteTaskPath_TaskID p)).
#[export] Instance MLDeleteTaskPath_builder : builder MLDeleteTaskPath :=
  {| Build := MLDeleteTaskPath_Build; fields p := [("task_id", One (MLDeleteTaskPath_TaskID p))]; ignored _ := [];
     templates := ["/_plugins/_ml/tasks/{task_id}"] |}.
#[export] Instance MLDeleteTaskPath_lawful : Lawful MLDeleteTaskPath.
Proof. follow. Qed.

Record MLDeployModelPath := MkMLDeployModelPath { MLDeployModelPath_ModelID : string }.
Definition MLDeployModelPath_Build (p : MLDeployModelPath) : built :=
  build (required "MLDeployModelPath.ModelID" (MLDeployModelPath_ModelID p);; writeLit "_plugins";; writeLit "_ml";;
   writeLit "models";; writeReq (MLDeployModelPath_ModelID p);; writeLit "_deploy").
#[export] Instance MLDeployModelPath_builder : builder MLDeployModelPath :=
  {| Build := MLDeployModelPath_Build; fields p := [("model_id", One (MLDeployModelPath_ModelID p))]; ignored _ := [];
     templates := ["/_plugins/_ml/models/{model_id}/_deploy"] |}.
#[export] Instance MLDeployModelPath_lawful : Lawful MLDeployModelPath.
Proof. follow. Qed.

Record MLExecuteAgentPath := MkMLExecuteAgentPath { MLExecuteAgentPath_AgentID : string }.
Definition MLExecuteAgentPath_Build (p : MLExecuteAgentPath) : built :=
  build (required "MLExecuteAgentPath.AgentID" (MLExecuteAgentPath_AgentID p);; writeLit "_plugins";; writeLit "_ml";;
   writeLit "agents";; writeReq (MLExecuteAgentPath_AgentID p);; writeLit "_execute").
#[export] Instance MLExecuteAgentPath_builder : builder MLExecuteAgentPath :=
  {| Build := MLExecuteAgentPath_Build; fields p := [("agent_id", One (MLExecuteAgentPath_AgentID p))]; ignored _ := [];
     templates := ["/_plugins/_ml/agents/{agent_id}/_execute"] |}.
#[export] Instance MLExecuteAgentPath_lawful : Lawful MLExecuteAgentPath.
Proof. follow. Qed.

Record MLExecuteAgentStreamPath := MkMLExecuteAgentStreamPath { MLExecuteAgentStreamPath_AgentID : string }.
Definition MLExecuteAgentStreamPath_Build (p : MLExecuteAgentStreamPath) : built :=
  build (required "MLExecuteAgentStreamPath.AgentID" (MLExecuteAgentStreamPath_AgentID p);; writeLit "_plugins";; writeLit "_ml";;
   writeLit "agents";; writeReq (MLExecuteAgentStreamPath_AgentID p);; writeLit "_execute";; writeLit "stream").
#[export] Instance MLExecuteAgentStreamPath_builder : builder MLExecuteAgentStreamPath :=
  {| Build := MLExecuteAgentStreamPath_Build; fields p := [("agent_id", One (MLExecuteAgentStreamPath_AgentID p))]; ignored _ := [];
     templates := ["/_plugins/_ml/agents/{agent_id}/_execute/stream"] |}.
#[export] Instance MLExecuteAgentStreamPath_lawful : Lawful MLExecuteAgentStreamPath.
Proof. follow. Qed.

Record MLExecuteAlgorithmPath := MkMLExecuteAlgorithmPath { MLExecuteAlgorithmPath_AlgorithmName : string }.
Definition MLExecuteAlgorithmPath_Build (p : MLExecuteAlgorithmPath) : built :=
  build (required "MLExecuteAlgorithmPath.AlgorithmName" (MLExecuteAlgorithmPath_AlgorithmName p);; writeLit "_plugins";;
   writeLit "_ml";; writeLit "_execute";; writeReq (MLExecuteAlgorithmPath_AlgorithmName p)).
#[export] Instance MLExecuteAlgorithmPath_builder : builder MLExecuteAlgorithmPath :=
  {| Build := MLExecuteAlgorithmPath_Build; fields p := [("algorithm_name", One (MLExecuteAlgorithmPath_AlgorithmName p))]; ignored _ := [];
     templates := ["/_plugins/_ml/_execute/{algorithm_name}"] |}.
#[export] Instance MLExecuteAlgorithmPath_lawful : Lawful MLExecuteAlgorithmPath.
Proof. follow. Qed.

Record MLExecuteToolPath := MkMLExecuteToolPath { MLExecuteToolPath_ToolName : string }.
Definition MLExecuteToolPath_Build (p : MLExecuteToolPath) : built :=
  build (required "MLExecuteToolPath.ToolName" (MLExecuteToolPath_ToolName p);; writeLit "_plugins";; writeLit "_ml";;
   writeLit "tools";; writeLit "_execute";; writeReq (MLExecuteToolPath_ToolName p)).
#[export] Instance MLExecuteToolPath_builder : builder MLExecuteToolPath :=
  {| Build := MLExecuteToolPath_Build; fields p := [("tool_name", One (MLExecuteToolPath_ToolName p))]; ignored _ := [];
     templates := ["/_plugins/_ml/tools/_execute/{tool_name}"] |}.
#[export] Instance MLExecuteToolPath_lawful : Lawful MLExecuteToolPath.
Proof. follow. Qed.

Record MLGetAgentPath := MkMLGetAgentPath { MLGetAgentPath_AgentID : string }.
Definition MLGetAgentPath_Build (p : MLGetAgentPath) : built :=
  build (required "MLGetAgentPath.AgentID" (MLGetAgentPath_AgentID p);; writeLit "_plugins";; writeLit "_ml";; writeLit "agents";;
   writeReq (MLGetAgentPath_AgentID p)).
#[export] Instance MLGetAgentPath_builder : builder MLGetAgentPath :=
  {| Build := MLGetAgentPath_Build; fields p := [("agent_id", One (MLGetAgentPath_AgentID p))]; ignored _ := [];
     templates := ["/_plugins/_ml/agents/{agent_id}"] |}.
#[export] Instance MLGetAgentPath_lawful : Lawful MLGetAgentPath.
Proof. follow. Qed.

Record MLGetAgenticMemoryPath := MkMLGetAgenticMemoryPath { MLGetAgenticMemoryPath_MemoryContainerID : string; MLGetAgenticMemoryPath_Type : string; MLGetAgenticMemoryPath_ID : string }.
Definition MLGetAgenticMemoryPath_Build (p : MLGetAgenticMemoryPath) : built :=
  build (required "MLGetAgenticMemoryPath.MemoryContainerID" (MLGetAgenticMemoryPath_MemoryContainerID p);;
   required "MLGetAgenticMemoryPath.Type" (MLGetAgenticMemoryPath_Type p);;
   required "MLGetAgenticMemoryPath.ID" (MLGetAgenticMemoryPath_ID p);; writeLit "_plugins";; writeLit "_ml";;
   writeLit "memory_containers";; writeReq (MLGetAgenticMemoryPath_MemoryContainerID p);; writeLit "memories";;
   writeReq (MLGetAgenticMemoryPath_Type p);; writeReq (MLGetAgenticMemoryPath_ID p)).
#[export] Instance MLGetAgenticMemoryPath_builder : builder MLGetAgenticMemoryPath :=
  {| Build := MLGetAgenticMemoryPath_Build; fields p := [("memory_container_id", One (MLGetAgenticMemoryPath_MemoryContainerID p)); ("type", One (MLGetAgenticMemoryPath_Type p)); ("id", One (MLGetAgenticMemoryPath_ID p))]; ignored _ := [];
     templates := ["/_plugins/_ml/memory_containers/{memory_container_id}/memories/{type}/{id}"] |}.
#[export] Instance MLGetAgenticMemoryPath_lawful : Lawful MLGetAgenticMemoryPath.
Proof. follow. Qed.

Record MLGetAllMemoriesPath := MkMLGetAllMemoriesPath {  }.
Definition MLGetAllMemoriesPath_Build (p : MLGetAllMemoriesPath) : built := build (writeLit "_plugins";; writeLit "_ml";; writeLit "memory").
#[export] Instance MLGetAllMemoriesPath_builder : builder MLGetAllMemoriesPath :=
  {| Build := MLGetAllMemoriesPath_Build; fields _ := []; ignored _ := [];
     templates := ["/_plugins/_ml/memory"] |}.
#[export] Instance MLGetAllMemoriesPath_lawful : Lawful MLGetAllMemoriesPath.
Proof. follow. Qed.

Record MLGetAllMessagesPath := MkMLGetAllMessagesPath { MLGetAllMessagesPath_MemoryID : string }.
Definition MLGetAllMessagesPath_Build (p : MLGetAllMessagesPath) : built :=
  build (required "MLGetAllMessagesPath.MemoryID" (MLGetAllMessagesPath_MemoryID p);; writeLit "_plugins";; writeLit "_ml";;
   writeLit "memory";; writeReq (MLGetAllMessagesPath_MemoryID p);; writeLit "messages").
#[export] Instance MLGetAllMessagesPath_builder : builder MLGetAllMessagesPath :=
  {| Build := MLGetAllMessagesPath_Build; fields p := [("memory_id", One (MLGetAllMessagesPath_MemoryID p))]; ignored _ := [];
     templates := ["/_plugins/_ml/memory/{memory_id}/messages"] |}.
#[export] Instance MLGetAllMessagesPath_lawful : Lawful MLGetAllMessagesPath.
Proof. follow. Qed.

Record MLGetAllToolsPath := MkMLGetAllToolsPath {  }.
Definition MLGetAllToolsPath_Build (p : MLGetAllToolsPath) : built := build (writeLit "_plugins";; writeLit "_ml";; writeLit "tools").
#[export] Instance MLGetAllToolsPath_builder : builder MLGetAllToolsPath :=
  {| Build := MLGetAllToolsPath_Build; fields _ := []; ignored _ := [];
     templates := ["/_plugins/_ml/tools"] |}.
#[export] Instance MLGetAllToolsPath_lawful : Lawful MLGetAllToolsPath.
Proof. follow. Qed.

Record MLGetConnectorPath := MkMLGetConnectorPath { MLGetConnectorPath_ConnectorID : string }.
Definition MLGetConnectorPath_Build (p : MLGetConnectorPath) : built :=
  build (required "MLGetConnectorPath.ConnectorID" (MLGetConnectorPath_ConnectorID p);; writeLit "_plugins";; writeLit "_ml";;
   writeLit "connectors";; writeReq (MLGetConnectorPath_ConnectorID p)).
#[export] Instance MLGetConnectorPath_builder : builder MLGetConnectorPath :=
  {| Build := MLGetConnectorPath_Build; fields p := [("connector_id", One (MLGetConnectorPath_ConnectorID p))]; ignored _ := [];
     templates := ["/_plugins/_ml/connectors/{connector_id}"] |}.
#[export] Instance MLGetConnectorPath_lawful : Lawful MLGetConnectorPath.
Proof. follow. Qed.

Record MLGetControllerPath := MkMLGetControllerPath { MLGetControllerPath_ModelID : string }.
Definition MLGetControllerPath_Build (p : MLGetControllerPath) : built :=
  build (required "MLGetControllerPath.ModelID" (MLGetControllerPath_ModelID p);; writeLit "_plugins";; writeLit "_ml";;
   writeLit "controllers";; writeReq (MLGetControllerPath_ModelID p)).
#[export] Instance MLGetControllerPath_builder : builder MLGetControllerPath :=
  {| Build := MLGetControllerPath_Build; fields p := [("model_id", One (MLGetControllerPath_ModelID p))]; ignored _ := [];
     templates := ["/_plugins/_ml/controllers/{model_id}"] |}.
#[export] Instance MLGetControllerPath_lawful : Lawful MLGetControllerPath.
Proof. follow. Qed.

Record MLGetMemoryPath := MkMLGetMemoryPath { MLGetMemoryPath_MemoryID : string }.
Definition MLGetMemoryPath_Build (p : MLGetMemoryPath) : built :=
  build (required "MLGetMemoryPath.MemoryID" (MLGetMemoryPath_MemoryID p);; writeLit "_plugins";; writeLit "_ml";; writeLit "memory";;
   writeReq (MLGetMemoryPath_MemoryID p)).
#[export] Instance MLGetMemoryPath_builder : builder MLGetMemoryPath :=
  {| Build := MLGetMemoryPath_Build; fields p := [("memory_id", One (MLGetMemoryPath_MemoryID p))]; ignored _ := [];
     templates := ["/_plugins/_ml/memory/{memory_id}"] |}.
#[export] Instance MLGetMemoryPath_lawful : Lawful MLGetMemoryPath.
Proof. follow. Qed.

Record MLGetMemoryContainerPath := MkMLGetMemoryContainerPath { MLGetMemoryContainerPath_MemoryContainerID : string }.
Definition MLGetMemoryContainerPath_Build (p : MLGetMemoryContainerPath) : built :=
  build (required "MLGetMemoryContainerPath.MemoryContainerID" (MLGetMemoryContainerPath_MemoryContainerID p);; writeLit "_plugins";;
   writeLit "_ml";; writeLit "memory_containers";; writeReq (MLGetMemoryContainerPath_MemoryContainerID p)).
#[export] Instance MLGetMemoryContainerPath_builder : builder MLGetMemoryContainerPath :=
  {| Build := MLGetMemoryContainerPath_Build; fields p := [("memory_container_id", One (MLGetMemoryContainerPath_MemoryContainerID p))]; ignored _ := [];
     templates := ["/_plugins/_ml/memory_containers/{memory_container_id}"] |}.
#[export] Instance MLGetMemoryContainerPath_lawful : Lawful MLGetMemoryContainerPath.
Proof. follow. Qed.

Record MLGetMessagePath := MkMLGetMessagePath { MLGetMessagePath_MessageID : string }.
Definition MLGetMessagePath_Build (p : MLGetMessagePath) : built :=
  build (required "MLGetMessagePath.MessageID" (MLGetMessagePath_MessageID p);; writeLit "_plugins";; writeLit "_ml";;
   writeLit "memory";; writeLit "message";; writeReq (MLGetMessagePath_MessageID p)).
#[export] Instance MLGetMessagePath_builder : builder MLGetMessagePath :=
  {| Build := MLGetMessagePath_Build; fields p := [("message_id", One (MLGetMessagePath_MessageID p))]; ignored _ := [];
     templates := ["/_plugins/_ml/memory/message/{message_id}"] |}.
#[export] Instance MLGetMessagePath_lawful : Lawful MLGetMessagePath.
Proof. follow. Qed.

Record MLGetMessageTracesPath := MkMLGetMessageTracesPath { MLGetMessageTracesPath_MessageID : string }.
Definition MLGetMessageTracesPath_Build (p : MLGetMessageTracesPath) : built :=
  build (required "MLGetMessageTracesPath.MessageID" (MLGetMessageTracesPath_MessageID p);; writeLit "_plugins";; writeLit "_ml";;
   writeLit "memory";; writeLit "message";; writeReq (MLGetMessageTracesPath_MessageID p);; writeLit "traces").
#[export] Instance MLGetMessageTracesPath_builder : builder MLGetMessageTracesPath :=
  {| Build := MLGetMessageTracesPath_Build; fields p := [("message_id", One (MLGetMessageTracesPath_MessageID p))]; ignored _ := [];
     templates := ["/_plugins/_ml/memory/message/{message_id}/traces"] |}.
#[export] Instance MLGetMessageTracesPath_lawful : Lawful MLGetMessageTracesPath.
Proof. follow. Qed.

Record MLGetModelPath := MkMLGetModelPath { MLGetModelPath_ModelID : string }.
Definition MLGetModelPath_Build (p : MLGetModelPath) : built :=
  build (required "MLGetModelPath.ModelID" (MLGetModelPath_ModelID p);; writeLit "_plugins";; writeLit "_ml";; writeLit "models";;
   writeReq (MLGetModelPath_ModelID p)).
#[export] Instance MLGetModelPath_builder : builder MLGetModelPath :=
  {| Build := MLGetModelPath_Build; fields p := [("model_id", One (MLGetModelPath_ModelID p))]; ignored _ := [];
     templates := ["/_plugins/_ml/models/{model_id}"] |}.
#[export] Instance MLGetModelPath_lawful : Lawful MLGetModelPath.
Proof. follow. Qed.

Record MLGetModelGroupPath := MkMLGetModelGroupPath { MLGetModelGroupPath_ModelGroupID : string }.
Definition MLGetModelGroupPath_Build (p : MLGetModelGroupPath) : built :=
  build (required "MLGetModelGroupPath.ModelGroupID" (MLGetModelGroupPath_ModelGroupID p);; writeLit "_plugins";; writeLit "_ml";;
   writeLit "model_groups";; writeReq (MLGetModelGroupPath_ModelGroupID p)).
#[export] Instance MLGetModelGroupPath_builder : builder MLGetModelGroupPath :=
  {| Build := MLGetModelGroupPath_Build; fields p := [("model_group_id", One (MLGetModelGroupPath_ModelGroupID p))]; ignored _ := [];
     templates := ["/_plugins/_ml/model_groups/{model_group_id}"] |}.
#[export] Instance MLGetModelGroupPath_lawful : Lawful MLGetModelGroupPath.
Proof. follow. Qed.

Record MLGetProfilePath := MkMLGetProfilePath {  }.
Definition MLGetProfilePath_Build (p : MLGetProfilePath) : built := build (writeLit "_plugins";; writeLit "_ml";; writeLit "profile").
#[export] Instance MLGetProfilePath_builder : builder MLGetProfilePath :=
  {| Build := MLGetProfilePath_Build; fields _ := []; ignored _ := [];
     templates := ["/_plugins/_ml/profile"] |}.
#[export] Instance MLGetProfilePath_lawful : Lawful MLGetProfilePath.
Proof. follow. Qed.

Record MLGetProfileModelsPath := MkMLGetProfileModelsPath { MLGetProfileModelsPath_ModelID : string }.
Definition MLGetProfileModelsPath_Build (p : MLGetProfileModelsPath) : built :=
  build (writeLit "_plugins";; writeLit "_ml";; writeLit "profile";; writeLit "models";;
   when (isSet (MLGetProfileModelsPath_ModelID p)) (writeReq (MLGetProfileModelsPath_ModelID p))).
#[export] Instance MLGetProfileModelsPath_builder : builder MLGetProfileModelsPath :=
  {| Build := MLGetProfileModelsPath_Build; fields p := [("model_id", One (MLGetProfileModelsPath_ModelID p))]; ignored _ := [];
     templates := ["/_plugins/_ml/profile/models"; "/_plugins/_ml/profile/models/{model_id}"] |}.
#[export] Instance MLGetProfileModelsPath_lawful : Lawful MLGetProfileModelsPath.
Proof. follow. Qed.

Record MLGetProfileTasksPath := MkMLGetProfileTasksPath { MLGetProfileTasksPath_TaskID : string }.
Definition MLGetProfileTasksPath_Build (p : MLGetProfileTasksPath) : built :=
  build (writeLit "_plugins";; writeLit "_ml";; writeLit "profile";; writeLit "tasks";;
   when (isSet (MLGetProfileTasksPath_TaskID p)) (writeReq (MLGetProfileTasksPath_TaskID p))).
#[export] Instance MLGetProfileTasksPath_builder : builder MLGetProfileTasksPath :=
  {| Build := MLGetProfileTasksPath_Build; fields p := [("task_id", One (MLGetProfileTasksPath_TaskID p))]; ignored _ := [];
     templates := ["/_plugins/_ml/profile/tasks"; "/_plugins/_ml/profile/tasks/{task_id}"] |}.
#[export] Instance MLGetProfileTasksPath_lawful : Lawful MLGetProfileTasksPath.
Proof. follow. Qed.

Record MLGetStatsPath := MkMLGetStatsPath { MLGetStatsPath_NodeID : string; MLGetStatsPath_Stat : list string }.
Definition MLGetStatsPath_Build (p : MLGetStatsPath) : built :=
  build (writeLit "_plugins";; writeLit "_ml";;
   (if isSet (MLGetStatsPath_NodeID p) && hasNonEmpty (MLGetStatsPath_Stat p) then writeReq (MLGetStatsPath_NodeID p);; writeLit "stats";; writeSegments (MLGetStatsPath_Stat p)
    else if isSet (MLGetStatsPath_NodeID p) then writeReq (MLGetStatsPath_NodeID p);; writeLit "stats"
    else if hasNonEmpty (MLGetStatsPath_Stat p) then writeLit "stats";; writeSegments (MLGetStatsPath_Stat p)
    else writeLit "stats")).
#[export] Instance MLGetStatsPath_builder : builder MLGetStatsPath :=
  {| Build := MLGetStatsPath_Build; fields p := [("node_id", One (MLGetStatsPath_NodeID p)); ("stat", Many (MLGetStatsPath_Stat p))]; ignored _ := [];
     templates := ["/_plugins/_ml/{node_id}/stats"; "/_plugins/_ml/{node_id}/stats/{stat}"; "/_plugins/_ml/stats"; "/_plugins/_ml/stats/{stat}"] |}.
#[export] Instance MLGetStatsPath_lawful : Lawful MLGetStatsPath.
Proof. follow. Qed.

Record MLGetTaskPath := MkMLGetTaskPath { MLGetTaskPath_TaskID : string }.
Definition MLGetTaskPath_Build (p : MLGetTaskPath) : built :=
  build (required "MLGetTaskPath.TaskID" (MLGetTaskPath_TaskID p);; writeLit "_plugins";; writeLit "_ml";; writeLit "tasks";;
   writeReq (MLGetTaskPath_TaskID p)).
#[export] Instance MLGetTaskPath_builder : builder MLGetTaskPath :=
  {| Build := MLGetTaskPath_Build; fields p := [("task_id", One (MLGetTaskPath_TaskID p))]; ignored _ := [];
     templates := ["/_plugins/_ml/tasks/{task_id}"] |}.
#[export] Instance MLGetTaskPath_lawful : Lawful MLGetTaskPath.
Proof. follow. Qed.

Record MLGetToolPath := MkMLGetToolPath { MLGetToolPath_ToolName : string }.
Definition MLGetToolPath_Build (p : MLGetToolPath) : built :=
  build (required "MLGetToolPath.ToolName" (MLGetToolPath_ToolName p);; writeLit "_plugins";; writeLit "_ml";; writeLit "tools";;
   writeReq (MLGetToolPath_ToolName p)).
#[export] Instance MLGetToolPath_builder : builder MLGetToolPath :=
  {| Build := MLGetToolPath_Build; fields p := [("tool_name", One (MLGetToolPath_ToolName p))]; ignored _ := [];
     templates := ["/_plugins/_ml/tools/{tool_name}"] |}.
#[export] Instance MLGetToolPath_lawful : Lawful MLGetToolPath.
Proof. follow. Qed.

Record MLLoadModelPath := MkMLLoadModelPath { MLLoadModelPath_ModelID : string }.
Definition MLLoadModelPath_Build (p : MLLoadModelPath) : built :=
  build (required "MLLoadModelPath.ModelID" (MLLoadModelPath_ModelID p);; writeLit "_plugins";; writeLit "_ml";; writeLit "models";;
   writeReq (MLLoadModelPath_ModelID p);; writeLit "_load").
#[export] Instance MLLoadModelPath_builder : builder MLLoadModelPath :=
  {| Build := MLLoadModelPath_Build; fields p := [("model_id", One (MLLoadModelPath_ModelID p))]; ignored _ := [];
     templates := ["/_plugins/_ml/models/{model_id}/_load"] |}.
#[export] Instance MLLoadModelPath_lawful : Lawful MLLoadModelPath.
Proof. follow. Qed.

Record MLPredictPath := MkMLPredictPath { MLPredictPath_AlgorithmName : string; MLPredictPath_ModelID : string }.
Definition MLPredictPath_Build (p : MLPredictPath) : built :=
  build (required "MLPredictPath.AlgorithmName" (MLPredictPath_AlgorithmName p);;
   required "MLPredictPath.ModelID" (MLPredictPath_ModelID p);; writeLit "_plugins";; writeLit "_ml";; writeLit "_predict";;
   writeReq (MLPredictPath_AlgorithmName p);; writeReq (MLPredictPath_ModelID p)).
#[export] Instance MLPredictPath_builder : builder MLPredictPath :=
  {| Build := MLPredictPath_Build; fields p := [("algorithm_name", One (MLPredictPath_AlgorithmName p)); ("model_id", One (MLPredictPath_ModelID p))]; ignored _ := [];
     templates := ["/_plugins/_ml/_predict/{algorithm_name}/{model_id}"] |}.
#[export] Instance MLPredictPath_lawful : Lawful MLPredictPath.
Proof. follow. Qed.

Record MLPredictModelPath := MkMLPredictModelPath { MLPredictModelPath_ModelID : string }.
Definition MLPredictModelPath_Build (p : MLPredictModelPath) : built :=
  build (required "MLPredictModelPath.ModelID" (MLPredictModelPath_ModelID p);; writeLit "_plugins";; writeLit "_ml";;
   writeLit "models";; writeReq (MLPredictModelPath_ModelID p);; writeLit "_predict").
#[export] Instance MLPredictModelPath_builder : builder MLPredictModelPath :=
  {| Build := MLPredictModelPath_Build; fields p := [("model_id", One (MLPredictModelPath_ModelID p))]; ignored _ := [];
     templates := ["/_plugins/_ml/models/{model_id}/_predict"] |}.
#[export] Instance MLPredictModelPath_lawful : Lawful MLPredictModelPath.
Proof. follow. Qed.

Record MLPredictModelStreamPath := MkMLPredictModelStreamPath { MLPredictModelStreamPath_ModelID : string }.
Definition MLPredictModelStreamPath_Build (p : MLPredictModelStreamPath) : built :=
  build (required "MLPredictModelStreamPath.ModelID" (MLPredictModelStreamPath_ModelID p);; writeLit "_plugins";; writeLit "_ml";;
   writeLit "models";; writeReq (MLPredictModelStreamPath_ModelID p);; writeLit "_predict";; writeLit "stream").
#[export] Instance MLPredictModelStreamPath_builder : builder MLPredictModelStreamPath :=
  {| Build := MLPredictModelStreamPath_Build; fields p := [("model_id", One (MLPredictModelStreamPath_ModelID p))]; ignored _ := [];
     templates := ["/_plugins/_ml/models/{model_id}/_predict/stream"] |}.
#[export] Instance MLPredictModelStreamPath_lawful : Lawful MLPredictModelStreamPath.
Proof. follow. Qed.

Record MLRegisterAgentsPath := MkMLRegisterAgentsPath {  }.
Definition MLRegisterAgentsPath_Build (p : MLRegisterAgentsPath) : built := build (writeLit "_plugins";; writeLit "_ml";; writeLit "agents";; writeLit "_register").
#[export] Instance MLRegisterAgentsPath_builder : builder MLRegisterAgentsPath :=
  {| Build := MLRegisterAgentsPath_Build; fields _ := []; ignored _ := [];
     templates := ["/_plugins/_ml/agents/_register"] |}.
#[export] Instance MLRegisterAgentsPath_lawful : Lawful MLRegisterAgentsPath.
Proof. follow. Qed.

Record MLRegisterModelPath := MkMLRegisterModelPath {  }.
Definition MLRegisterModelPath_Build (p : MLRegisterModelPath) : built := build (writeLit "_plugins";; writeLit "_ml";; writeLit "models";; writeLit "_register").
#[export] Instance MLRegisterModelPath_builder : builder MLRegisterModelPath :=
  {| Build := MLRegisterModelPath_Build; fields _ := []; ignored _ := [];
     templates := ["/_plugins/_ml/models/_register"] |}.
#[export] Instance MLRegisterModelPath_lawful : Lawful MLRegisterModelPath.
Proof. follow. Qed.

Record MLRegisterModelGroupPath := MkMLRegisterModelGroupPath {  }.
Definition MLRegisterModelGroupPath_Build (p : MLRegisterModelGroupPath) : built :=
  build (writeLit "_plugins";; writeLit "_ml";; writeLit "model_groups";; writeLit "_register").
#[export] Instance MLRegisterModelGroupPath_builder : builder MLRegisterModelGroupPath :=
  {| Build := MLRegisterModelGroupPath_Build; fields _ := []; ignored _ := [];
     templates := ["/_plugins/_ml/model_groups/_register"] |}.
#[export] Instance MLRegisterModelGroupPath_lawful : Lawful MLRegisterModelGroupPath.
Proof. follow. Qed.

Record MLRegisterModelMetaPath := MkMLRegisterModelMetaPath {  }.
Definition MLRegisterModelMetaPath_Build (p : MLRegisterModelMetaPath) : built :=
  build (writeLit "_plugins";; writeLit "_ml";; writeLit "models";; writeLit "_register_meta").
#[export] Instance MLRegisterModelMetaPath_builder : builder MLRegisterModelMetaPath :=
  {| Build := MLRegisterModelMetaPath_Build; fields _ := []; ignored _ := [];
     templates := ["/_plugins/_ml/models/_register_meta"] |}.
#[export] Instance MLRegisterModelMetaPath_lawful : Lawful MLRegisterModelMetaPath.
Proof. follow. Qed.

Record MLSearchAgenticMemoryPath := MkMLSearchAgenticMemoryPath { MLSearchAgenticMemoryPath_MemoryContainerID : string; MLSearchAgenticMemoryPath_Type : string }.
Definition MLSearchAgenticMemoryPath_Build (p : MLSearchAgenticMemoryPath) : built :=
  build (required "MLSearchAgenticMemoryPath.MemoryContainerID" (MLSearchAgenticMemoryPath_MemoryContainerID p);;
   required "MLSearchAgenticMemoryPath.Type" (MLSearchAgenticMemoryPath_Type p);; writeLit "_plugins";; writeLit "_ml";;
   writeLit "memory_containers";; writeReq (MLSearchAgenticMemoryPath_MemoryContainerID p);; writeLit "memories";;
   writeReq (MLSearchAgenticMemoryPath_Type p);; writeLit "_search").
#[export] Instance MLSearchAgenticMemoryPath_builder : builder MLSearchAgenticMemoryPath :=
  {| Build := MLSearchAgenticMemoryPath_Build; fields p := [("memory_container_id", One (MLSearchAgenticMemoryPath_MemoryContainerID p)); ("type", One (MLSearchAgenticMemoryPath_Type p))]; ignored _ := [];
     templates := ["/_plugins/_ml/memory_containers/{memory_container_id}/memories/{type}/_search"] |}.
#[export] Instance MLSearchAgenticMemoryPath_lawful : Lawful MLSearchAgenticMemoryPath.
Proof. follow. Qed.

Record MLSearchAgentsPath := MkMLSearchAgentsPath {  }.
Definition MLSearchAgentsPath_Build (p : MLSearchAgentsPath) : built := build (writeLit "_plugins";; writeLit "_ml";; writeLit "agents";; writeLit "_search").
#[export] Instance MLSearchAgentsPath_builder : builder MLSearchAgentsPath :=
  {| Build := MLSearchAgentsPath_Build; fields _ := []; ignored _ := [];
     templates := ["/_plugins/_ml/agents/_search"] |}.
#[export] Instance MLSearchAgentsPath_lawful : Lawful MLSearchAgentsPath.
Proof. follow. Qed.

Record MLSearchConnectorsPath := MkMLSearchConnectorsPath {  }.
Definition MLSearchConnectorsPath_Build (p : MLSearchConnectorsPath) : built := build (writeLit "_plugins";; writeLit "_ml";; writeLit "connectors";; writeLit "_search").
#[export] Instance MLSearchConnectorsPath_builder : builder MLSearchConnectorsPath :=
  {| Build := MLSearchConnectorsPath_Build; fields _ := []; ignored _ := [];
     templates := ["/_plugins/_ml/connectors/_search"] |}.
#[export] Instance MLSearchConnectorsPath_lawful : Lawful MLSearchConnectorsPath.
Proof. follow. Qed.

Record MLSearchMemoryPath := MkMLSearchMemoryPath {  }.
Definition MLSearchMemoryPath_Build (p : MLSearchMemoryPath) : built := build (writeLit "_plugins";; writeLit "_ml";; writeLit "memory";; writeLit "_search").
#[export] Instance MLSearchMemoryPath_builder : builder MLSearchMemoryPath :=
  {| Build := MLSearchMemoryPath_Build; fields _ := []; ignored _ := [];
     templates := ["/_plugins/_ml/memory/_search"] |}.
#[export] Instance MLSearchMemoryPath_lawful : Lawful MLSearchMemoryPath.
Proof. follow. Qed.

Record MLSearchMemoryContainerPath := MkMLSearchMemoryContainerPath {  }.
Definition MLSearchMemoryContainerPath_Build (p : MLSearchMemoryContainerPath) : built :=
  build (writeLit "_plugins";; writeLit "_ml";; writeLit "memory_containers";; writeLit "_search").
#[export] Instance MLSearchMemoryContainerPath_builder : builder MLSearchMemoryContainerPath :=
  {| Build := MLSearchMemoryContainerPath_Build; fields _ := []; ignored _ := [];
     templates := ["/_plugins/_ml/memory_containers/_search"] |}.
#[export] Instance MLSearchMemoryContainerPath_lawful : Lawful MLSearchMemoryContainerPath.
Proof. follow. Qed.

Record MLSearchMessagePath := MkMLSearchMessagePath { MLSearchMessagePath_MemoryID : string }.
Definition MLSearchMessagePath_Build (p : MLSearchMessagePath) : built :=
  build (required "MLSearchMessagePath.MemoryID" (MLSearchMessagePath_MemoryID p);; writeLit "_plugins";; writeLit "_ml";;
   writeLit "memory";; writeReq (MLSearchMessagePath_MemoryID p);; writeLit "_search").
#[export] Instance MLSearchMessagePath_builder : builder MLSearchMessagePath :=
  {| Build := MLSearchMessagePath_Build; fields p := [("memory_id", One (MLSearchMessagePath_MemoryID p))]; ignored _ := [];
     templates := ["/_plugins/_ml/memory/{memory_id}/_search"] |}.
#[export] Instance MLSearchMessagePath_lawful : Lawful MLSearchMessagePath.
Proof. follow. Qed.

Record MLSearchModelGroupPath := MkMLSearchModelGroupPath {  }.
Definition MLSearchModelGroupPath_Build (p : MLSearchModelGroupPath) : built :=
  build (writeLit "_plugins";; writeLit "_ml";; writeLit "model_groups";; writeLit "_search").
#[export] Instance MLSearchModelGroupPath_builder : builder MLSearchModelGroupPath :=
  {| Build := MLSearchModelGroupPath_Build; fields _ := []; ignored _ := [];
     templates := ["/_plugins/_ml/model_groups/_search"] |}.
#[export] Instance MLSearchModelGroupPath_lawful : Lawful MLSearchModelGroupPath.
Proof. follow. Qed.

Record MLSearchModelsPath := MkMLSearchModelsPath {  }.
Definition MLSearchModelsPath_Build (p : MLSearchModelsPath) : built := build (writeLit "_plugins";; writeLit "_ml";; writeLit "models";; writeLit "_search").
#[export] Instance MLSearchModelsPath_builder : builder MLSearchModelsPath :=
  {| Build := MLSearchModelsPath_Build; fields _ := []; ignored _ := [];
     templates := ["/_plugins/_ml/models/_search"] |}.
#[export] Instance MLSearchModelsPath_lawful : Lawful MLSearchModelsPath.
Proof. follow. Qed.

Record MLSearchTasksPath := MkMLSearchTasksPath {  }.
Definition MLSearchTasksPath_Build (p : MLSearchTasksPath) : built := build (writeLit "_plugins";; writeLit "_ml";; writeLit "tasks";; writeLit "_search").
#[export] Instance MLSearchTasksPath_builder : builder MLSearchTasksPath :=
  {| Build := MLSearchTasksPath_Build; fields _ := []; ignored _ := [];
     templates := ["/_plugins/_ml/tasks/_search"] |}.
#[export] Instance MLSearchTasksPath_lawful : Lawful MLSearchTasksPath.
Proof. follow. Qed.

Record MLTrainPath := MkMLTrainPath { MLTrainPath_AlgorithmName : string }.
Definition MLTrainPath_Build (p : MLTrainPath) : built :=
  build (required "MLTrainPath.AlgorithmName" (MLTrainPath_AlgorithmName p);; writeLit "_plugins";; writeLit "_ml";;
   writeLit "_train";; writeReq (MLTrainPath_AlgorithmName p)).
#[export] Instance MLTrainPath_builder : builder MLTrainPath :=
  {| Build := MLTrainPath_Build; fields p := [("algorithm_name", One (MLTrainPath_AlgorithmName p))]; ignored _ := [];
     templates := ["/_plugins/_ml/_train/{algorithm_name}"] |}.
#[export] Instance MLTrainPath_lawful : Lawful MLTrainPath.
Proof. follow. Qed.

Record MLTrainPredictPath := MkMLTrainPredictPath { MLTrainPredictPath_AlgorithmName : string }.
Definition MLTrainPredictPath_Build (p : MLTrainPredictPath) : built :=
  build (required "MLTrainPredictPath.AlgorithmName" (MLTrainPredictPath_AlgorithmName p);; writeLit "_plugins";; writeLit "_ml";;
   writeLit "_train_predict";; writeReq (MLTrainPredictPath_AlgorithmName p)).
#[export] Instance MLTrainPredictPath_builder : builder MLTrainPredictPath :=
  {| Build := MLTrainPredictPath_Build; fields p := [("algorithm_name", One (MLTrainPredictPath_AlgorithmName p))]; ignored _ := [];
     templates := ["/_plugins/_ml/_train_predict/{algorithm_name}"] |}.
#[export] Instance MLTrainPredictPath_lawful : Lawful MLTrainPredictPath.
Proof. follow. Qed.

Record MLUndeployModelPath := MkMLUndeployModelPath { MLUndeployModelPath_ModelID : string }.
Definition MLUndeployModelPath_Build (p : MLUndeployModelPath) : built :=
  build (writeLit "_plugins";; writeLit "_ml";; writeLit "models";;
   when (isSet (MLUndeployModelPath_ModelID p)) (writeReq (MLUndeployModelPath_ModelID p));; writeLit "_undeploy").
#[export] Instance MLUndeployModelPath_builder : builder MLUndeployModelPath :=
  {| Build := MLUndeployModelPath_Build; fields p := [("model_id", One (MLUndeployModelPath_ModelID p))]; ignored _ := [];
     templates := ["/_plugins/_ml/models/_undeploy"; "/_plugins/_ml/models/{model_id}/_undeploy"] |}.
#[export] Instance MLUndeployModelPath_lawful : Lawful MLUndeployModelPath.
Proof. follow. Qed.

Record MLUnloadModelPath := MkMLUnloadModelPath { MLUnloadModelPath_ModelID : string }.
Definition MLUnloadModelPath_Build (p : MLUnloadModelPath) : built :=
  build (writeLit "_plugins";; writeLit "_ml";; writeLit "models";;
   when (isSet (MLUnloadModelPath_ModelID p)) (writeReq (MLUnloadModelPath_ModelID p));; writeLit "_unload").
#[export] Instance MLUnloadModelPath_builder : builder MLUnloadModelPath :=
  {| Build := MLUnloadModelPath_Build; fields p := [("model_id", One (MLUnloadModelPath_ModelID p))]; ignored _ := [];
     templates := ["/_plugins/_ml/models/_unload"; "/_plugins/_ml/models/{model_id}/_unload"] |}.
#[export] Instance MLUnloadModelPath_lawful : Lawful MLUnloadModelPath.
Proof. follow. Qed.

Record MLUpdateAgenticMemoryPath := MkMLUpdateAgenticMemoryPath { MLUpdateAgenticMemoryPath_MemoryContainerID : string; MLUpdateAgenticMemoryPath_Type : string; MLUpdateAgenticMemoryPath_ID : string }.
Definition MLUpdateAgenticMemoryPath_Build (p : MLUpdateAgenticMemoryPath) : built :=
  build (required "MLUpdateAgenticMemoryPath.MemoryContainerID" (MLUpdateAgenticMemoryPath_MemoryContainerID p);;
   required "MLUpdateAgenticMemoryPath.Type" (MLUpdateAgenticMemoryPath_Type p);;
   required "MLUpdateAgenticMemoryPath.ID" (MLUpdateAgenticMemoryPath_ID p);; writeLit "_plugins";; writeLit "_ml";;
   writeLit "memory_containers";; writeReq (MLUpdateAgenticMemoryPath_MemoryContainerID p);; writeLit "memories";;
   writeReq (MLUpdateAgenticMemoryPath_Type p);; writeReq (MLUpdateAgenticMemoryPath_ID p)).
#[export] Instance MLUpdateAgenticMemoryPath_builder : builder MLUpdateAgenticMemoryPath :=
  {| Build := MLUpdateAgenticMemoryPath_Build; fields p := [("memory_container_id", One (MLUpdateAgenticMemoryPath_MemoryContainerID p)); ("type", One (MLUpdateAgenticMemoryPath_Type p)); ("id", One (MLUpdateAgenticMemoryPath_ID p))]; ignored _ := [];
     templates := ["/_plugins/_ml/memory_containers/{memory_container_id}/memories/{type}/{id}"] |}.
#[export] Instance MLUpdateAgenticMemoryPath_lawful : Lawful MLUpdateAgenticMemoryPath.
Proof. follow. Qed.

Record MLUpdateConnectorPath := MkMLUpdateConnectorPath { MLUpdateConnectorPath_ConnectorID : string }.
Definition MLUpdateConnectorPath_Build (p : MLUpdateConnectorPath) : built :=
  build (required "MLUpdateConnectorPath.ConnectorID" (MLUpdateConnectorPath_ConnectorID p);; writeLit "_plugins";; writeLit "_ml";;
   writeLit "connectors";; writeReq (MLUpdateConnectorPath_ConnectorID p)).
#[export] Instance MLUpdateConnectorPath_builder : builder MLUpdateConnectorPath :=
  {| Build := MLUpdateConnectorPath_Build; fields p := [("connector_id", One (MLUpdateConnectorPath_ConnectorID p))]; ignored _ := [];
     templates := ["/_plugins/_ml/connectors/{connector_id}"] |}.
#[export] Instance MLUpdateConnectorPath_lawful : Lawful MLUpdateConnectorPath.
Proof. follow. Qed.

Record MLUpdateControllerPath := MkMLUpdateControllerPath { MLUpdateControllerPath_ModelID : string }.
Definition MLUpdateControllerPath_Build (p : MLUpdateControllerPath) : built :=
  build (required "MLUpdateControllerPath.ModelID" (MLUpdateControllerPath_ModelID p);; writeLit "_plugins";; writeLit "_ml";;
   writeLit "controllers";; writeReq (MLUpdateControllerPath_ModelID p)).
#[export] Instance MLUpdateControllerPath_builder : builder MLUpdateControllerPath :=
  {| Build := MLUpdateControllerPath_Build; fields p := [("model_id", One (MLUpdateControllerPath_ModelID p))]; ignored _ := [];
     templates := ["/_plugins/_ml/controllers/{model_id}"] |}.
#[export] Instance MLUpdateControllerPath_lawful : Lawful MLUpdateControllerPath.
Proof. follow. Qed.

Record MLUpdateMemoryPath := MkMLUpdateMemoryPath { MLUpdateMemoryPath_MemoryID : string }.
Definition MLUpdateMemoryPath_Build (p : MLUpdateMemoryPath) : built :=
  build (required "MLUpdateMemoryPath.MemoryID" (MLUpdateMemoryPath_MemoryID p);; writeLit "_plugins";; writeLit "_ml";;
   writeLit "memory";; writeReq (MLUpdateMemoryPath_MemoryID p)).
#[export] Instance MLUpdateMemoryPath_builder : builder MLUpdateMemoryPath :=
  {| Build := MLUpdateMemoryPath_Build; fields p := [("memory_id", One (MLUpdateMemoryPath_MemoryID p))]; ignored _ := [];
     templates := ["/_plugins/_ml/memory/{memory_id}"] |}.
#[export] Instance MLUpdateMemoryPath_lawful : Lawful MLUpdateMemoryPath.
Proof. follow. Qed.

Record MLUpdateMemoryContainerPath := MkMLUpdateMemoryContainerPath { MLUpdateMemoryContainerPath_MemoryContainerID : string }.
Definition MLUpdateMemoryContainerPath_Build (p : MLUpdateMemoryContainerPath) : built :=
  build (required "MLUpdateMemoryContainerPath.MemoryContainerID" (MLUpdateMemoryContainerPath_MemoryContainerID p);;
   writeLit "_plugins";; writeLit "_ml";; writeLit "memory_containers";;
   writeReq (MLUpdateMemoryContainerPath_MemoryContainerID p)).
#[export] Instance MLUpdateMemoryContainerPath_builder : builder MLUpdateMemoryContainerPath :=
  {| Build := MLUpdateMemoryContainerPath_Build; fields p := [("memory_container_id", One (MLUpdateMemoryContainerPath_MemoryContainerID p))]; ignored _ := [];
     templates := ["/_plugins/_ml/memory_containers/{memory_container_id}"] |}.
#[export] Instance MLUpdateMemoryContainerPath_lawful : Lawful MLUpdateMemoryContainerPath.
Proof. follow. Qed.

Record MLUpdateMessagePath := MkMLUpdateMessagePath { MLUpdateMessagePath_MessageID : string }.
Definition MLUpdateMessagePath_Build (p : MLUpdateMessagePath) : built :=
  build (required "MLUpdateMessagePath.MessageID" (MLUpdateMessagePath_MessageID p);; writeLit "_plugins";; writeLit "_ml";;
   writeLit "memory";; writeLit "message";; writeReq (MLUpdateMessagePath_MessageID p)).
#[export] Instance MLUpdateMessagePath_builder : builder MLUpdateMessagePath :=
  {| Build := MLUpdateMessagePath_Build; fields p := [("message_id", One (MLUpdateMessagePath_MessageID p))]; ignored _ := [];
     templates := ["/_plugins/_ml/memory/message/{message_id}"] |}.
#[export] Instance MLUpdateMessagePath_lawful : Lawful MLUpdateMessagePath.
Proof. follow. Qed.

Record MLUpdateModelPath := MkMLUpdateModelPath { MLUpdateModelPath_ModelID : string }.
Definition MLUpdateModelPath_Build (p : MLUpdateModelPath) : built :=
  build (required "MLUpdateModelPath.ModelID" (MLUpdateModelPath_ModelID p);; writeLit "_plugins";; writeLit "_ml";;
   writeLit "models";; writeReq (MLUpdateModelPath_ModelID p)).
#[export] Instance MLUpdateModelPath_builder : builder MLUpdateModelPath :=
  {| Build := MLUpdateModelPath_Build; fields p := [("model_id", One (MLUpdateModelPath_ModelID p))]; ignored _ := [];
     templates := ["/_plugins/_ml/models/{model_id}"] |}.
#[export] Instance MLUpdateModelPath_lawful : Lawful MLUpdateModelPath.
Proof. follow. Qed.

Record MLUpdateModelGroupPath := MkMLUpdateModelGroupPath { MLUpdateModelGroupPath_ModelGroupID : string }.
Definition MLUpdateModelGroupPath_Build (p : MLUpdateModelGroupPath) : built :=
  build (required "MLUpdateModelGroupPath.ModelGroupID" (MLUpdateModelGroupPath_ModelGroupID p);; writeLit "_plugins";;
   writeLit "_ml";; writeLit "model_groups";; writeReq (MLUpdateModelGroupPath_ModelGroupID p)).
#[export] Instance MLUpdateModelGroupPath_builder : builder MLUpdateModelGroupPath :=
  {| Build := MLUpdateModelGroupPath_Build; fields p := [("model_group_id", One (MLUpdateModelGroupPath_ModelGroupID p))]; ignored _ := [];
     templates := ["/_plugins/_ml/model_groups/{model_group_id}"] |}.
#[export] Instance MLUpdateModelGroupPath_lawful : Lawful MLUpdateModelGroupPath.
Proof. follow. Qed.

Record MLUploadChunkPath := MkMLUploadChunkPath { MLUploadChunkPath_ModelID : string; MLUploadChunkPath_ChunkNumber : string }.
Definition MLUploadChunkPath_Build (p : MLUploadChunkPath) : built :=
  build (required "MLUploadChunkPath.ModelID" (MLUploadChunkPath_ModelID p);;
   required "MLUploadChunkPath.ChunkNumber" (MLUploadChunkPath_ChunkNumber p);; writeLit "_plugins";; writeLit "_ml";;
   writeLit "models";; writeReq (MLUploadChunkPath_ModelID p);; writeLit "upload_chunk";;
   writeReq (MLUploadChunkPath_ChunkNumber p)).
#[export] Instance MLUploadChunkPath_builder : builder MLUploadChunkPath :=
  {| Build := MLUploadChunkPath_Build; fields p := [("model_id", One (MLUploadChunkPath_ModelID p)); ("chunk_number", One (MLUploadChunkPath_ChunkNumber p))]; ignored _ := [];
     templates := ["/_plugins/_ml/models/{model_id}/upload_chunk/{chunk_number}"] |}.
#[export] Instance MLUploadChunkPath_lawful : Lawful MLUploadChunkPath.
Proof. follow. Qed.

Record MLUploadModelPath := MkMLUploadModelPath {  }.
Definition MLUploadModelPath_Build (p : MLUploadModelPath) : built := build (writeLit "_plugins";; writeLit "_ml";; writeLit "models";; writeLit "_upload").
#[export] Instance MLUploadModelPath_builder : builder MLUploadModelPath :=
  {| Build := MLUploadModelPath_Build; fields _ := []; ignored _ := [];
     templates := ["/_plugins/_ml/models/_upload"] |}.
#[export] Instance MLUploadModelPath_lawful : Lawful MLUploadModelPath.
Proof. follow. Qed.

Record NeuralStatsPath := MkNeuralStatsPath { NeuralStatsPath_NodeID : string; NeuralStatsPath_Stat : list string }.
Definition NeuralStatsPath_Build (p : NeuralStatsPath) : built :=
  build (writeLit "_plugins";; writeLit "_neural";;
   (if isSet (NeuralStatsPath_NodeID p) && hasNonEmpty (NeuralStatsPath_Stat p) then writeReq (NeuralStatsPath_NodeID p);; writeLit "stats";; writeSegments (NeuralStatsPath_Stat p)
    else if isSet (NeuralStatsPath_NodeID p) then writeReq (NeuralStatsPath_NodeID p);; writeLit "stats"
    else if hasNonEmpty (NeuralStatsPath_Stat p) then writeLit "stats";; writeSegments (NeuralStatsPath_Stat p)
    else writeLit "stats")).
#[export] Instance NeuralStatsPath_builder : builder NeuralStatsPath :=
  {| Build := NeuralStatsPath_Build; fields p := [("node_id", One (NeuralStatsPath_NodeID p)); ("stat", Many (NeuralStatsPath_Stat p))]; ignored _ := [];
     templates := ["/_plugins/_neural/{node_id}/stats"; "/_plugins/_neural/{node_id}/stats/{stat}"; "/_plugins/_neural/stats"; "/_plugins/_neural/stats/{stat}"] |}.
#[export] Instance NeuralStatsPath_lawful : Lawful NeuralStatsPath.
Proof. follow. Qed.

Record SearchRelevanceDeleteExperimentsPath := MkSearchRelevanceDeleteExperimentsPath { SearchRelevanceDeleteExperimentsPath_ExperimentID : string }.
Definition SearchRelevanceDeleteExperimentsPath_Build (p : SearchRelevanceDeleteExperimentsPath) : built :=
  build (required "SearchRelevanceDeleteExperimentsPath.ExperimentID" (SearchRelevanceDeleteExperimentsPath_ExperimentID p);;
   writeLit "_plugins";; writeLit "_search_relevance";; writeLit "experiments";;
   writeReq (SearchRelevanceDeleteExperimentsPath_ExperimentID p)).
#[export] Instance SearchRelevanceDeleteExperimentsPath_builder : builder SearchRelevanceDeleteExperimentsPath :=
  {| Build := SearchRelevanceDeleteExperimentsPath_Build; fields p := [("experiment_id", One (SearchRelevanceDeleteExperimentsPath_ExperimentID p))]; ignored _ := [];
     templates := ["/_plugins/_search_relevance/experiments/{experiment_id}"] |}.
#[export] Instance SearchRelevanceDeleteExperimentsPath_lawful : Lawful SearchRelevanceDeleteExperimentsPath.
Proof. follow. Qed.

Record SearchRelevanceDeleteJudgmentsPath := MkSearchRelevanceDeleteJudgmentsPath { SearchRelevanceDeleteJudgmentsPath_JudgmentID : string }.
Definition SearchRelevanceDeleteJudgmentsPath_Build (p : SearchRelevanceDeleteJudgmentsPath) : built :=
  build (required "SearchRelevanceDeleteJudgmentsPath.JudgmentID" (SearchRelevanceDeleteJudgmentsPath_JudgmentID p);;
   writeLit "_plugins";; writeLit "_search_relevance";; writeLit "judgments";;
   writeReq (SearchRelevanceDeleteJudgmentsPath_JudgmentID p)).
#[export] Instance SearchRelevanceDeleteJudgmentsPath_builder : builder SearchRelevanceDeleteJudgmentsPath :=
  {| Build := SearchRelevanceDeleteJudgmentsPath_Build; fields p := [("judgment_id", One (SearchRelevanceDeleteJudgmentsPath_JudgmentID p))]; ignored _ := [];
     templates := ["/_plugins/_search_relevance/judgments/{judgment_id}"] |}.
#[export] Instance SearchRelevanceDeleteJudgmentsPath_lawful : Lawful SearchRelevanceDeleteJudgmentsPath.
Proof. follow. Qed.

Record SearchRelevanceDeleteQuerySetsPath := MkSearchRelevanceDeleteQuerySetsPath { SearchRelevanceDeleteQuerySetsPath_QuerySetID : string }.
Definition SearchRelevanceDeleteQuerySetsPath_Build (p : SearchRelevanceDeleteQuerySetsPath) : built :=
  build (required "SearchRelevanceDeleteQuerySetsPath.QuerySetID" (SearchRelevanceDeleteQuerySetsPath_QuerySetID p);;
   writeLit "_plugins";; writeLit "_search_relevance";; writeLit "query_sets";;
   writeReq (SearchRelevanceDeleteQuerySetsPath_QuerySetID p)).
#[export] Instance SearchRelevanceDeleteQuerySetsPath_builder : builder SearchRelevanceDeleteQuerySetsPath :=
  {| Build := SearchRelevanceDeleteQuerySetsPath_Build; fields p := [("query_set_id", One (SearchRelevanceDeleteQuerySetsPath_QuerySetID p))]; ignored _ := [];
     templates := ["/_plugins/_search_relevance/query_sets/{query_set_id}"] |}.
#[export] Instance SearchRelevanceDeleteQuerySetsPath_lawful : Lawful SearchRelevanceDeleteQuerySetsPath.
Proof. follow. Qed.

Record SearchRelevanceDeleteScheduledExperimentsPath := MkSearchRelevanceDeleteScheduledExperimentsPath { SearchRelevanceDeleteScheduledExperimentsPath_ExperimentID : string }.
Definition SearchRelevanceDeleteScheduledExperimentsPath_Build (p : SearchRelevanceDeleteScheduledExperimentsPath) : built :=
  build (required "SearchRelevanceDeleteScheduledExperimentsPath.ExperimentID" (SearchRelevanceDeleteScheduledExperimentsPath_ExperimentID p);;
   writeLit "_plugins";; writeLit "_search_relevance";; writeLit "experiments";; writeLit "schedule";;
   writeReq (SearchRelevanceDeleteScheduledExperimentsPath_ExperimentID p)).
#[export] Instance SearchRelevanceDeleteScheduledExperimentsPath_builder : builder SearchRelevanceDeleteScheduledExperimentsPath :=
  {| Build := SearchRelevanceDeleteScheduledExperimentsPath_Build; fields p := [("experiment_id", One (SearchRelevanceDeleteScheduledExperimentsPath_ExperimentID p))]; ignored _ := [];
     templates := ["/_plugins/_search_relevance/experiments/schedule/{experiment_id}"] |}.
#[export] Instance SearchRelevanceDeleteScheduledExperimentsPath_lawful : Lawful SearchRelevanceDeleteScheduledExperimentsPath.
Proof. follow. Qed.

Record SearchRelevanceDeleteSearchConfigurationsPath := MkSearchRelevanceDeleteSearchConfigurationsPath { SearchRelevanceDeleteSearchConfigurationsPath_SearchConfigurationID : string }.
Definition SearchRelevanceDeleteSearchConfigurationsPath_Build (p : SearchRelevanceDeleteSearchConfigurationsPath) : built :=
  build (required "SearchRelevanceDeleteSearchConfigurationsPath.SearchConfigurationID" (SearchRelevanceDeleteSearchConfigurationsPath_SearchConfigurationID p);;
   writeLit "_plugins";; writeLit "_search_relevance";; writeLit "search_configurations";;
   writeReq (SearchRelevanceDeleteSearchConfigurationsPath_SearchConfigurationID p)).
#[export] Instance SearchRelevanceDeleteSearchConfigurationsPath_builder : builder SearchRelevanceDeleteSearchConfigurationsPath :=
  {| Build := SearchRelevanceDeleteSearchConfigurationsPath_Build; fields p := [("search_configuration_id", One (SearchRelevanceDeleteSearchConfigurationsPath_SearchConfigurationID p))]; ignored _ := [];
     templates := ["/_plugins/_search_relevance/search_configurations/{search_configuration_id}"] |}.
#[export] Instance SearchRelevanceDeleteSearchConfigurationsPath_lawful : Lawful SearchRelevanceDeleteSearchConfigurationsPath.
Proof. follow. Qed.

Record SearchRelevanceGetExperimentsPath := MkSearchRelevanceGetExperimentsPath { SearchRelevanceGetExperimentsPath_ExperimentID : string }.
Definition SearchRelevanceGetExperimentsPath_Build (p : SearchRelevanceGetExperimentsPath) : built :=
  build (writeLit "_plugins";; writeLit "_search_relevance";; writeLit "experiments";;
   when (isSet (SearchRelevanceGetExperimentsPath_ExperimentID p)) (writeReq (SearchRelevanceGetExperimentsPath_ExperimentID p))).
#[export] Instance SearchRelevanceGetExperimentsPath_builder : builder SearchRelevanceGetExperimentsPath :=
  {| Build := SearchRelevanceGetExperimentsPath_Build; fields p := [("experiment_id", One (SearchRelevanceGetExperimentsPath_ExperimentID p))]; ignored _ := [];
     templates := ["/_plugins/_search_relevance/experiments"; "/_plugins/_search_relevance/experiments/{experiment_id}"] |}.
#[export] Instance SearchRelevanceGetExperimentsPath_lawful : Lawful SearchRelevanceGetExperimentsPath.
Proof. follow. Qed.

Record SearchRelevanceGetJudgmentsPath := MkSearchRelevanceGetJudgmentsPath { SearchRelevanceGetJudgmentsPath_JudgmentID : string }.
Definition SearchRelevanceGetJudgmentsPath_Build (p : SearchRelevanceGetJudgmentsPath) : built :=
  build (writeLit "_plugins";; writeLit "_search_relevance";; writeLit "judgments";;
   when (isSet (SearchRelevanceGetJudgmentsPath_JudgmentID p)) (writeReq (SearchRelevanceGetJudgmentsPath_JudgmentID p))).
#[export] Instance SearchRelevanceGetJudgmentsPath_builder : builder SearchRelevanceGetJudgmentsPath :=
  {| Build := SearchRelevanceGetJudgmentsPath_Build; fields p := [("judgment_id", One (SearchRelevanceGetJudgmentsPath_JudgmentID p))]; ignored _ := [];
     templates := ["/_plugins/_search_relevance/judgments"; "/_plugins/_search_relevance/judgments/{judgment_id}"] |}.
#[export] Instance SearchRelevanceGetJudgmentsPath_lawful : Lawful SearchRelevanceGetJudgmentsPath.
Proof. follow. Qed.

Record SearchRelevanceGetNodeStatsPath := MkSearchRelevanceGetNodeStatsPath { SearchRelevanceGetNodeStatsPath_NodeID : string; SearchRelevanceGetNodeStatsPath_Stat : string }.
Definition SearchRelevanceGetNodeStatsPath_Build (p : SearchRelevanceGetNodeStatsPath) : built :=
  build (required "SearchRelevanceGetNodeStatsPath.NodeID" (SearchRelevanceGetNodeStatsPath_NodeID p);; writeLit "_plugins";;
   writeLit "_search_relevance";; writeReq (SearchRelevanceGetNodeStatsPath_NodeID p);; writeLit "stats";;
   when (isSet (SearchRelevanceGetNodeStatsPath_Stat p)) (writeReq (SearchRelevanceGetNodeStatsPath_Stat p))).
#[export] Instance SearchRelevanceGetNodeStatsPath_builder : builder SearchRelevanceGetNodeStatsPath :=
  {| Build := SearchRelevanceGetNodeStatsPath_Build; fields p := [("node_id", One (SearchRelevanceGetNodeStatsPath_NodeID p)); ("stat", One (SearchRelevanceGetNodeStatsPath_Stat p))]; ignored _ := [];
     templates := ["/_plugins/_search_relevance/{node_id}/stats"; "/_plugins/_search_relevance/{node_id}/stats/{stat}"] |}.
#[export] Instance SearchRelevanceGetNodeStatsPath_lawful : Lawful SearchRelevanceGetNodeStatsPath.
Proof. follow. Qed.

Record SearchRelevanceGetQuerySetsPath := MkSearchRelevanceGetQuerySetsPath { SearchRelevanceGetQuerySetsPath_QuerySetID : string }.
Definition SearchRelevanceGetQuerySetsPath_Build (p : SearchRelevanceGetQuerySetsPath) : built :=
  build (writeLit "_plugins";; writeLit "_search_relevance";; writeLit "query_sets";;
   when (isSet (SearchRelevanceGetQuerySetsPath_QuerySetID p)) (writeReq (SearchRelevanceGetQuerySetsPath_QuerySetID p))).
#[export] Instance SearchRelevanceGetQuerySetsPath_builder : builder SearchRelevanceGetQuerySetsPath :=
  {| Build := SearchRelevanceGetQuerySetsPath_Build; fields p := [("query_set_id", One (SearchRelevanceGetQuerySetsPath_QuerySetID p))]; ignored _ := [];
     templates := ["/_plugins/_search_relevance/query_sets"; "/_plugins/_search_relevance/query_sets/{query_set_id}"] |}.
#[export] Instance SearchRelevanceGetQuerySetsPath_lawful : Lawful SearchRelevanceGetQuerySetsPath.
Proof. follow. Qed.

Record SearchRelevanceGetScheduledExperimentsPath := MkSearchRelevanceGetScheduledExperimentsPath { SearchRelevanceGetScheduledExperimentsPath_ExperimentID : string }.
Definition SearchRelevanceGetScheduledExperimentsPath_Build (p : SearchRelevanceGetScheduledExperimentsPath) : built :=
  build (writeLit "_plugins";; writeLit "_search_relevance";; writeLit "experiments";; writeLit "schedule";;
   when (isSet (SearchRelevanceGetScheduledExperimentsPath_ExperimentID p)) (writeReq (SearchRelevanceGetScheduledExperimentsPath_ExperimentID p))).
#[export] Instance SearchRelevanceGetScheduledExperimentsPath_builder : builder SearchRelevanceGetScheduledExperimentsPath :=
  {| Build := SearchRelevanceGetScheduledExperimentsPath_Build; fields p := [("experiment_id", One (SearchRelevanceGetScheduledExperimentsPath_ExperimentID p))]; ignored _ := [];
     templates := ["/_plugins/_search_relevance/experiments/schedule"; "/_plugins/_search_relevance/experiments/schedule/{experiment_id}"] |}.
#[export] Instance SearchRelevanceGetScheduledExperimentsPath_lawful : Lawful SearchRelevanceGetScheduledExperimentsPath.
Proof. follow. Qed.

Record SearchRelevanceGetSearchConfigurationsPath := MkSearchRelevanceGetSearchConfigurationsPath { SearchRelevanceGetSearchConfigurationsPath_SearchConfigurationID : string }.
Definition SearchRelevanceGetSearchConfigurationsPath_Build (p : SearchRelevanceGetSearchConfigurationsPath) : built :=
  build (writeLit "_plugins";; writeLit "_search_relevance";; writeLit "search_configurations";;
   when (isSet (SearchRelevanceGetSearchConfigurationsPath_SearchConfigurationID p)) (writeReq (SearchRelevanceGetSearchConfigurationsPath_SearchConfigurationID p))).
#[export] Instance SearchRelevanceGetSearchConfigurationsPath_builder : builder SearchRelevanceGetSearchConfigurationsPath :=
  {| Build := SearchRelevanceGetSearchConfigurationsPath_Build; fields p := [("search_configuration_id", One (SearchRelevanceGetSearchConfigurationsPath_SearchConfigurationID p))]; ignored _ := [];
     templates := ["/_plugins/_search_relevance/search_configurations"; "/_plugins/_search_relevance/search_configurations/{search_configuration_id}"] |}.
#[export] Instance SearchRelevanceGetSearchConfigurationsPath_lawful : Lawful SearchRelevanceGetSearchConfigurationsPath.
Proof. follow. Qed.

Record SearchRelevanceGetStatsPath := MkSearchRelevanceGetStatsPath { SearchRelevanceGetStatsPath_Stat : string }.
Definition SearchRelevanceGetStatsPath_Build (p : SearchRelevanceGetStatsPath) : built :=
  build (writeLit "_plugins";; writeLit "_search_relevance";; writeLit "stats";;
   when (isSet (SearchRelevanceGetStatsPath_Stat p)) (writeReq (SearchRelevanceGetStatsPath_Stat p))).
#[export] Instance SearchRelevanceGetStatsPath_builder : builder SearchRelevanceGetStatsPath :=
  {| Build := SearchRelevanceGetStatsPath_Build; fields p := [("stat", One (SearchRelevanceGetStatsPath_Stat p))]; ignored _ := [];
     templates := ["/_plugins/_search_relevance/stats"; "/_plugins/_search_relevance/stats/{stat}"] |}.
#[export] Instance SearchRelevanceGetStatsPath_lawful : Lawful SearchRelevanceGetStatsPath.
Proof. follow. Qed.

Record SearchRelevancePostQuerySetsPath := MkSearchRelevancePostQuerySetsPath {  }.
Definition SearchRelevancePostQuerySetsPath_Build (p : SearchRelevancePostQuerySetsPath) : built :=
  build (writeLit "_plugins";; writeLit "_search_relevance";; writeLit "query_sets").
#[export] Instance SearchRelevancePostQuerySetsPath_builder : builder SearchRelevancePostQuerySetsPath :=
  {| Build := SearchRelevancePostQuerySetsPath_Build; fields _ := []; ignored _ := [];
     templates := ["/_plugins/_search_relevance/query_sets"] |}.
#[export] Instance SearchRelevancePostQuerySetsPath_lawful : Lawful SearchRelevancePostQuerySetsPath.
Proof. follow. Qed.

Record SearchRelevancePostScheduledExperimentsPath := MkSearchRelevancePostScheduledExperimentsPath {  }.
Definition SearchRelevancePostScheduledExperimentsPath_Build (p : SearchRelevancePostScheduledExperimentsPath) : built :=
  build (writeLit "_plugins";; writeLit "_search_relevance";; writeLit "experiments";; writeLit "schedule").
#[export] Instance SearchRelevancePostScheduledExperimentsPath_builder : builder SearchRelevancePostScheduledExperimentsPath :=
  {| Build := SearchRelevancePostScheduledExperimentsPath_Build; fields _ := []; ignored _ := [];
     templates := ["/_plugins/_search_relevance/experiments/schedule"] |}.
#[export] Instance SearchRelevancePostScheduledExperimentsPath_lawful : Lawful SearchRelevancePostScheduledExperimentsPath.
Proof. follow. Qed.

Record SearchRelevancePutExperimentsPath := MkSearchRelevancePutExperimentsPath {  }.
Definition SearchRelevancePutExperimentsPath_Build (p : SearchRelevancePutExperimentsPath) : built :=
  build (writeLit "_plugins";; writeLit "_search_relevance";; writeLit "experiments").
#[export] Instance SearchRelevancePutExperimentsPath_builder : builder SearchRelevancePutExperimentsPath :=
  {| Build := SearchRelevancePutExperimentsPath_Build; fields _ := []; ignored _ := [];
     templates := ["/_plugins/_search_relevance/experiments"] |}.
#[export] Instance SearchRelevancePutExperimentsPath_lawful : Lawful SearchRelevancePutExperimentsPath.
Proof. follow. Qed.

Record SearchRelevancePutJudgmentsPath := MkSearchRelevancePutJudgmentsPath {  }.
Definition SearchRelevancePutJudgmentsPath_Build (p : SearchRelevancePutJudgmentsPath) : built :=
  build (writeLit "_plugins";; writeLit "_search_relevance";; writeLit "judgments").
#[export] Instance SearchRelevancePutJudgmentsPath_builder : builder SearchRelevancePutJudgmentsPath :=
  {| Build := SearchRelevancePutJudgmentsPath_Build; fields _ := []; ignored _ := [];
     templates := ["/_plugins/_search_relevance/judgments"] |}.
#[export] Instance SearchRelevancePutJudgmentsPath_lawful : Lawful SearchRelevancePutJudgmentsPath.
Proof. follow. Qed.

Record SearchRelevancePutQuerySetsPath := MkSearchRelevancePutQuerySetsPath {  }.
Definition SearchRelevancePutQuerySetsPath_Build (p : SearchRelevancePutQuerySetsPath) : built :=
  build (writeLit "_plugins";; writeLit "_search_relevance";; writeLit "query_sets").
#[export] Instance SearchRelevancePutQuerySetsPath_builder : builder SearchRelevancePutQuerySetsPath :=
  {| Build := SearchRelevancePutQuerySetsPath_Build; fields _ := []; ignored _ := [];
     templates := ["/_plugins/_search_relevance/query_sets"] |}.
#[export] Instance SearchRelevancePutQuerySetsPath_lawful : Lawful SearchRelevancePutQuerySetsPath.
Proof. follow. Qed.

Record SearchRelevancePutSearchConfigurationsPath := MkSearchRelevancePutSearchConfigurationsPath {  }.
Definition SearchRelevancePutSearchConfigurationsPath_Build (p : SearchRelevancePutSearchConfigurationsPath) : built :=
  build (writeLit "_plugins";; writeLit "_search_relevance";; writeLit "search_configurations").
#[export] Instance SearchRelevancePutSearchConfigurationsPath_builder : builder SearchRelevancePutSearchConfigurationsPath :=
  {| Build := SearchRelevancePutSearchConfigurationsPath_Build; fields _ := []; ignored _ := [];
     templates := ["/_plugins/_search_relevance/search_configurations"] |}.
#[export] Instance SearchRelevancePutSearchConfigurationsPath_lawful : Lawful SearchRelevancePutSearchConfigurationsPath.
Proof. follow. Qed.

(** All of them. *)
Definition pathsML : list path_type :=
  [MkPathType "FlowFrameworkCreatePath" FlowFrameworkCreatePath _ _; MkPathType "FlowFrameworkDeletePath" FlowFrameworkDeletePath _ _;
   MkPathType "FlowFrameworkDeprovisionPath" FlowFrameworkDeprovisionPath _ _; MkPathType "FlowFrameworkGetPath" FlowFrameworkGetPath _ _;
   MkPathType "FlowFrameworkGetStatusPath" FlowFrameworkGetStatusPath _ _; MkPathType "FlowFrameworkGetStepsPath" FlowFrameworkGetStepsPath _ _;
   MkPathType "FlowFrameworkProvisionPath" FlowFrameworkProvisionPath _ _; MkPathType "FlowFrameworkSearchPath" FlowFrameworkSearchPath _ _;
   MkPathType "FlowFrameworkSearchStatePath" FlowFrameworkSearchStatePath _ _; MkPathType "FlowFrameworkUpdatePath" FlowFrameworkUpdatePath _ _;
   MkPathType "KNNDeleteModelPath" KNNDeleteModelPath _ _; MkPathType "KNNGetModelPath" KNNGetModelPath _ _;
   MkPathType "KNNSearchModelsPath" KNNSearchModelsPath _ _; MkPathType "KNNStatsPath" KNNStatsPath _ _;
   MkPathType "KNNTrainModelPath" KNNTrainModelPath _ _; MkPathType "KNNWarmupPath" KNNWarmupPath _ _;
   MkPathType "LTRAddFeaturesToSetPath" LTRAddFeaturesToSetPath _ _; MkPathType "LTRAddFeaturesToSetByQueryPath" LTRAddFeaturesToSetByQueryPath _ _;
   MkPathType "LTRCacheStatsPath" LTRCacheStatsPath _ _; MkPathType "LTRClearCachePath" LTRClearCachePath _ _;
   MkPathType "LTRCreateDefaultStorePath" LTRCreateDefaultStorePath _ _; MkPathType "LTRCreateFeaturePath" LTRCreateFeaturePath _ _;
   MkPathType "LTRCreateFeaturesetPath" LTRCreateFeaturesetPath _ _; MkPathType "LTRCreateModelPath" LTRCreateModelPath _ _;
   MkPathType "LTRCreateModelFromSetPath" LTRCreateModelFromSetPath _ _; MkPathType "LTRCreateStorePath" LTRCreateStorePath _ _;
   MkPathType "LTRDeleteDefaultStorePath" LTRDeleteDefaultStorePath _ _; MkPathType "LTRDeleteFeaturePath" LTRDeleteFeaturePath _ _;
   MkPathType "LTRDeleteFeaturesetPath" LTRDeleteFeaturesetPath _ _; MkPathType "LTRDeleteModelPath" LTRDeleteModelPath _ _;
   MkPathType "LTRDeleteStorePath" LTRDeleteStorePath _ _; MkPathType "LTRGetFeaturePath" LTRGetFeaturePath _ _;
   MkPathType "LTRGetFeaturesetPath" LTRGetFeaturesetPath _ _; MkPathType "LTRGetModelPath" LTRGetModelPath _ _;
   MkPathType "LTRGetStorePath" LTRGetStorePath _ _; MkPathType "LTRListStoresPath" LTRListStoresPath _ _;
   MkPathType "LTRSearchFeaturesPath" LTRSearchFeaturesPath _ _; MkPathType "LTRSearchFeaturesetsPath" LTRSearchFeaturesetsPath _ _;
   MkPathType "LTRSearchModelsPath" LTRSearchModelsPath _ _; MkPathType "LTRStatsPath" LTRStatsPath _ _;
   MkPathType "LTRUpdateFeaturePath" LTRUpdateFeaturePath _ _; MkPathType "LTRUpdateFeaturesetPath" LTRUpdateFeaturesetPath _ _;
   MkPathType "MLAddAgenticMemoryPath" MLAddAgenticMemoryPath _ _; MkPathType "MLChunkModelPath" MLChunkModelPath _ _;
   MkPathType "MLCreateConnectorPath" MLCreateConnectorPath _ _; MkPathType "MLCreateControllerPath" MLCreateControllerPath _ _;
   MkPathType "MLCreateMemoryPath" MLCreateMemoryPath _ _; MkPathType "MLCreateMemoryContainerPath" MLCreateMemoryContainerPath _ _;
   MkPathType "MLCreateMemoryContainerSessionPath" MLCreateMemoryContainerSessionPath _ _; MkPathType "MLCreateMessagePath" MLCreateMessagePath _ _;
   MkPathType "MLCreateModelMetaPath" MLCreateModelMetaPath _ _; MkPathType "MLDeleteAgentPath" MLDeleteAgentPath _ _;
   MkPathType "MLDeleteAgenticMemoryPath" MLDeleteAgenticMemoryPath _ _; MkPathType "MLDeleteAgenticMemoryQueryPath" MLDeleteAgenticMemoryQueryPath _ _;
   MkPathType "MLDeleteConnectorPath" MLDeleteConnectorPath _ _; MkPathType "MLDeleteControllerPath" MLDeleteControllerPath _ _;
   MkPathType "MLDeleteMemoryPath" MLDeleteMemoryPath _ _; MkPathType "MLDeleteMemoryContainerPath" MLDeleteMemoryContainerPath _ _;
   MkPathType "MLDeleteModelPath" MLDeleteModelPath _ _; MkPathType "MLDeleteModelGroupPath" MLDeleteModelGroupPath _ _;
   MkPathType "MLDeleteTaskPath" MLDeleteTaskPath _ _; MkPathType "MLDeployModelPath" MLDeployModelPath _ _;
   MkPathType "MLExecuteAgentPath" MLExecuteAgentPath _ _; MkPathType "MLExecuteAgentStreamPath" MLExecuteAgentStreamPath _ _;
   MkPathType "MLExecuteAlgorithmPath" MLExecuteAlgorithmPath _ _; MkPathType "MLExecuteToolPath" MLExecuteToolPath _ _;
   MkPathType "MLGetAgentPath" MLGetAgentPath _ _; MkPathType "MLGetAgenticMemoryPath" MLGetAgenticMemoryPath _ _;
   MkPathType "MLGetAllMemoriesPath" MLGetAllMemoriesPath _ _; MkPathType "MLGetAllMessagesPath" MLGetAllMessagesPath _ _;
   MkPathType "MLGetAllToolsPath" MLGetAllToolsPath _ _; MkPathType "MLGetConnectorPath" MLGetConnectorPath _ _;
   MkPathType "MLGetControllerPath" MLGetControllerPath _ _; MkPathType "MLGetMemoryPath" MLGetMemoryPath _ _;
   MkPathType "MLGetMemoryContainerPath" MLGetMemoryContainerPath _ _; MkPathType "MLGetMessagePath" MLGetMessagePath _ _;
   MkPathType "MLGetMessageTracesPath" MLGetMessageTracesPath _ _; MkPathType "MLGetModelPath" MLGetModelPath _ _;
   MkPathType "MLGetModelGroupPath" MLGetModelGroupPath _ _; MkPathType "MLGetProfilePath" MLGetProfilePath _ _;
   MkPathType "MLGetProfileModelsPath" MLGetProfileModelsPath _ _; MkPathType "MLGetProfileTasksPath" MLGetProfileTasksPath _ _;
   MkPathType "MLGetStatsPath" MLGetStatsPath _ _; MkPathType "MLGetTaskPath" MLGetTaskPath _ _;
   MkPathType "MLGetToolPath" MLGetToolPath _ _; MkPathType "MLLoadModelPath" MLLoadModelPath _ _;
   MkPathType "MLPredictPath" MLPredictPath _ _; MkPathType "MLPredictModelPath" MLPredictModelPath _ _;
   MkPathType "MLPredictModelStreamPath" MLPredictModelStreamPath _ _; MkPathType "MLRegisterAgentsPath" MLRegisterAgentsPath _ _;
   MkPathType "MLRegisterModelPath" MLRegisterModelPath _ _; MkPathType "MLRegisterModelGroupPath" MLRegisterModelGroupPath _ _;
   MkPathType "MLRegisterModelMetaPath" MLRegisterModelMetaPath _ _; MkPathType "MLSearchAgenticMemoryPath" MLSearchAgenticMemoryPath _ _;
   MkPathType "MLSearchAgentsPath" MLSearchAgentsPath _ _; MkPathType "MLSearchConnectorsPath" MLSearchConnectorsPath _ _;
   MkPathType "MLSearchMemoryPath" MLSearchMemoryPath _ _; MkPathType "MLSearchMemoryContainerPath" MLSearchMemoryContainerPath _ _;
   MkPathType "MLSearchMessagePath" MLSearchMessagePath _ _; MkPathType "MLSearchModelGroupPath" MLSearchModelGroupPath _ _;
   MkPathType "MLSearchModelsPath" MLSearchModelsPath _ _; MkPathType "MLSearchTasksPath" MLSearchTasksPath _ _;
   MkPathType "MLTrainPath" MLTrainPath _ _; MkPathType "MLTrainPredictPath" MLTrainPredictPath _ _;
   MkPathType "MLUndeployModelPath" MLUndeployModelPath _ _; MkPathType "MLUnloadModelPath" MLUnloadModelPath _ _;
   MkPathType "MLUpdateAgenticMemoryPath" MLUpdateAgenticMemoryPath _ _; MkPathType "MLUpdateConnectorPath" MLUpdateConnectorPath _ _;
   MkPathType "MLUpdateControllerPath" MLUpdateControllerPath _ _; MkPathType "MLUpdateMemoryPath" MLUpdateMemoryPath _ _;
   MkPathType "MLUpdateMemoryContainerPath" MLUpdateMemoryContainerPath _ _; MkPathType "MLUpdateMessagePath" MLUpdateMessagePath _ _;
   MkPathType "MLUpdateModelPath" MLUpdateModelPath _ _; MkPathType "MLUpdateModelGroupPath" MLUpdateModelGroupPath _ _;
   MkPathType "MLUploadChunkPath" MLUploadChunkPath _ _; MkPathType "MLUploadModelPath" MLUploadModelPath _ _;
   MkPathType "NeuralStatsPath" NeuralStatsPath _ _; MkPathType "SearchRelevanceDeleteExperimentsPath" SearchRelevanceDeleteExperimentsPath _ _;
   MkPathType "SearchRelevanceDeleteJudgmentsPath" SearchRelevanceDeleteJudgmentsPath _ _; MkPathType "SearchRelevanceDeleteQuerySetsPath" SearchRelevanceDeleteQuerySetsPath _ _;
   MkPathType "SearchRelevanceDeleteScheduledExperimentsPath" SearchRelevanceDeleteScheduledExperimentsPath _ _; MkPathType "SearchRelevanceDeleteSearchConfigurationsPath" SearchRelevanceDeleteSearchConfigurationsPath _ _;
   MkPathType "SearchRelevanceGetExperimentsPath" SearchRelevanceGetExperimentsPath _ _; MkPathType "SearchRelevanceGetJudgmentsPath" SearchRelevanceGetJudgmentsPath _ _;
   MkPathType "SearchRelevanceGetNodeStatsPath" SearchRelevanceGetNodeStatsPath _ _; MkPathType "SearchRelevanceGetQuerySetsPath" SearchRelevanceGetQuerySetsPath _ _;
   MkPathType "SearchRelevanceGetScheduledExperimentsPath" SearchRelevanceGetScheduledExperimentsPath _ _; MkPathType "SearchRelevanceGetSearchConfigurationsPath" SearchRelevanceGetSearchConfigurationsPath _ _;
   MkPathType "SearchRelevanceGetStatsPath" SearchRelevanceGetStatsPath _ _; MkPathType "SearchRelevancePostQuerySetsPath" SearchRelevancePostQuerySetsPath _ _;
   MkPathType "SearchRelevancePostScheduledExperimentsPath" SearchRelevancePostScheduledExperimentsPath _ _; MkPathType "SearchRelevancePutExperimentsPath" SearchRelevancePutExperimentsPath _ _;
   MkPathType "SearchRelevancePutJudgmentsPath" SearchRelevancePutJudgmentsPath _ _; MkPathType "SearchRelevancePutQuerySetsPath" SearchRelevancePutQuerySetsPath _ _;
   MkPathType "SearchRelevancePutSearchConfigurationsPath" SearchRelevancePutSearchConfigurationsPath _ _].
