(* ===== verification/PathsPlugins.v ===== *)
(** * Path types: Plugins

    The path types of internal/path/builders_gen.go for the other plugins:
    the fields, the Build method, and the path templates that
    opensearch-openapi.yaml has for the operation (less the ones it marks deprecated
    or superseded by another template with the same parameters), with the proof
    that Build follows them. *)

From Stdlib Require Import Ascii String.
From stdpp Require Import base list strings.
From S2P Require Import Paths.
Open Scope string_scope.
Open Scope list_scope.
Open Scope bool_scope.
Open Scope stmt_scope.

Record AsynchronousSearchDeletePath := MkAsynchronousSearchDeletePath { AsynchronousSearchDeletePath_ID : string }.
Definition AsynchronousSearchDeletePath_Build (p : AsynchronousSearchDeletePath) : built :=
  build (required "AsynchronousSearchDeletePath.ID" (AsynchronousSearchDeletePath_ID p);; writeLit "_plugins";;
   writeLit "_asynchronous_search";; writeReq (AsynchronousSearchDeletePath_ID p)).
#[export] Instance AsynchronousSearchDeletePath_builder : builder AsynchronousSearchDeletePath :=
  {| Build := AsynchronousSearchDeletePath_Build; fields p := [("id", One (AsynchronousSearchDeletePath_ID p))]; ignored _ := [];
     templates := ["/_plugins/_asynchronous_search/{id}"] |}.
#[export] Instance AsynchronousSearchDeletePath_lawful : Lawful AsynchronousSearchDeletePath.
Proof. follow. Qed.

Record AsynchronousSearchGetPath := MkAsynchronousSearchGetPath { AsynchronousSearchGetPath_ID : string }.
Definition AsynchronousSearchGetPath_Build (p : AsynchronousSearchGetPath) : built :=
  build (required "AsynchronousSearchGetPath.ID" (AsynchronousSearchGetPath_ID p);; writeLit "_plugins";;
   writeLit "_asynchronous_search";; writeReq (AsynchronousSearchGetPath_ID p)).
#[export] Instance AsynchronousSearchGetPath_builder : builder AsynchronousSearchGetPath :=
  {| Build := AsynchronousSearchGetPath_Build; fields p := [("id", One (AsynchronousSearchGetPath_ID p))]; ignored _ := [];
     templates := ["/_plugins/_asynchronous_search/{id}"] |}.
#[export] Instance AsynchronousSearchGetPath_lawful : Lawful AsynchronousSearchGetPath.
Proof. follow. Qed.

Record AsynchronousSearchSearchPath := MkAsynchronousSearchSearchPath {  }.
Definition AsynchronousSearchSearchPath_Build (p : AsynchronousSearchSearchPath) : built := build (writeLit "_plugins";; writeLit "_asynchronous_search").
#[export] Instance AsynchronousSearchSearchPath_builder : builder AsynchronousSearchSearchPath :=
  {| Build := AsynchronousSearchSearchPath_Build; fields _ := []; ignored _ := [];
     templates := ["/_plugins/_asynchronous_search"] |}.
#[export] Instance AsynchronousSearchSearchPath_lawful : Lawful AsynchronousSearchSearchPath.
Proof. follow. Qed.

Record AsynchronousSearchStatsPath := MkAsynchronousSearchStatsPath {  }.
Definition AsynchronousSearchStatsPath_Build (p : AsynchronousSearchStatsPath) : built :=
  build (writeLit "_plugins";; writeLit "_asynchronous_search";; writeLit "stats").
#[export] Instance AsynchronousSearchStatsPath_builder : builder AsynchronousSearchStatsPath :=
  {| Build := AsynchronousSearchStatsPath_Build; fields _ := []; ignored _ := [];
     templates := ["/_plugins/_asynchronous_search/stats"] |}.
#[export] Instance AsynchronousSearchStatsPath_lawful : Lawful AsynchronousSearchStatsPath.
Proof. follow. Qed.

Record GeospatialDeleteIP2GeoDatasourcePath := MkGeospatialDeleteIP2GeoDatasourcePath { GeospatialDeleteIP2GeoDatasourcePath_Name : string }.
Definition GeospatialDeleteIP2GeoDatasourcePath_Build (p : GeospatialDeleteIP2GeoDatasourcePath) : built :=
  build (required "GeospatialDeleteIP2GeoDatasourcePath.Name" (GeospatialDeleteIP2GeoDatasourcePath_Name p);; writeLit "_plugins";;
   writeLit "geospatial";; writeLit "ip2geo";; writeLit "datasource";; writeReq (GeospatialDeleteIP2GeoDatasourcePath_Name p)).
#[export] Instance GeospatialDeleteIP2GeoDatasourcePath_builder : builder GeospatialDeleteIP2GeoDatasourcePath :=
  {| Build := GeospatialDeleteIP2GeoDatasourcePath_Build; fields p := [("name", One (GeospatialDeleteIP2GeoDatasourcePath_Name p))]; ignored _ := [];
     templates := ["/_plugins/geospatial/ip2geo/datasource/{name}"] |}.
#[export] Instance GeospatialDeleteIP2GeoDatasourcePath_lawful : Lawful GeospatialDeleteIP2GeoDatasourcePath.
Proof. follow. Qed.

Record GeospatialGeojsonUploadPostPath := MkGeospatialGeojsonUploadPostPath {  }.
Definition GeospatialGeojsonUploadPostPath_Build (p : GeospatialGeojsonUploadPostPath) : built :=
  build (writeLit "_plugins";; writeLit "geospatial";; writeLit "geojson";; writeLit "_upload").
#[export] Instance GeospatialGeojsonUploadPostPath_builder : builder GeospatialGeojsonUploadPostPath :=
  {| Build := GeospatialGeojsonUploadPostPath_Build; fields _ := []; ignored _ := [];
     templates := ["/_plugins/geospatial/geojson/_upload"] |}.
#[export] Instance GeospatialGeojsonUploadPostPath_lawful : Lawful GeospatialGeojsonUploadPostPath.
Proof. follow. Qed.

Record GeospatialGeojsonUploadPutPath := MkGeospatialGeojsonUploadPutPath {  }.
Definition GeospatialGeojsonUploadPutPath_Build (p : GeospatialGeojsonUploadPutPath) : built :=
  build (writeLit "_plugins";; writeLit "geospatial";; writeLit "geojson";; writeLit "_upload").
#[export] Instance GeospatialGeojsonUploadPutPath_builder : builder GeospatialGeojsonUploadPutPath :=
  {| Build := GeospatialGeojsonUploadPutPath_Build; fields _ := []; ignored _ := [];
     templates := ["/_plugins/geospatial/geojson/_upload"] |}.
#[export] Instance GeospatialGeojsonUploadPutPath_lawful : Lawful GeospatialGeojsonUploadPutPath.
Proof. follow. Qed.

Record GeospatialGetIP2GeoDatasourcePath := MkGeospatialGetIP2GeoDatasourcePath { GeospatialGetIP2GeoDatasourcePath_Name : list string }.
Definition GeospatialGetIP2GeoDatasourcePath_Build (p : GeospatialGetIP2GeoDatasourcePath) : built :=
  build (writeLit "_plugins";; writeLit "geospatial";; writeLit "ip2geo";; writeLit "datasource";;
   writeSegments (GeospatialGetIP2GeoDatasourcePath_Name p)).
#[export] Instance GeospatialGetIP2GeoDatasourcePath_builder : builder GeospatialGetIP2GeoDatasourcePath :=
  {| Build := GeospatialGetIP2GeoDatasourcePath_Build; fields p := [("name", Many (GeospatialGetIP2GeoDatasourcePath_Name p))]; ignored _ := [];
     templates := ["/_plugins/geospatial/ip2geo/datasource"; "/_plugins/geospatial/ip2geo/datasource/{name}"] |}.
#[export] Instance GeospatialGetIP2GeoDatasourcePath_lawful : Lawful GeospatialGetIP2GeoDatasourcePath.
Proof. follow. Qed.

Record GeospatialGetUploadStatsPath := MkGeospatialGetUploadStatsPath {  }.
Definition GeospatialGetUploadStatsPath_Build (p : GeospatialGetUploadStatsPath) : built :=
  build (writeLit "_plugins";; writeLit "geospatial";; writeLit "_upload";; writeLit "stats").
#[export] Instance GeospatialGetUploadStatsPath_builder : builder GeospatialGetUploadStatsPath :=
  {| Build := GeospatialGetUploadStatsPath_Build; fields _ := []; ignored _ := [];
     templates := ["/_plugins/geospatial/_upload/stats"] |}.
#[export] Instance GeospatialGetUploadStatsPath_lawful : Lawful GeospatialGetUploadStatsPath.
Proof. follow. Qed.

Record GeospatialPutIP2GeoDatasourcePath := MkGeospatialPutIP2GeoDatasourcePath { GeospatialPutIP2GeoDatasourcePath_Name : string }.
Definition GeospatialPutIP2GeoDatasourcePath_Build (p : GeospatialPutIP2GeoDatasourcePath) : built :=
  build (required "GeospatialPutIP2GeoDatasourcePath.Name" (GeospatialPutIP2GeoDatasourcePath_Name p);; writeLit "_plugins";;
   writeLit "geospatial";; writeLit "ip2geo";; writeLit "datasource";; writeReq (GeospatialPutIP2GeoDatasourcePath_Name p)).
#[export] Instance GeospatialPutIP2GeoDatasourcePath_builder : builder GeospatialPutIP2GeoDatasourcePath :=
  {| Build := GeospatialPutIP2GeoDatasourcePath_Build; fields p := [("name", One (GeospatialPutIP2GeoDatasourcePath_Name p))]; ignored _ := [];
     templates := ["/_plugins/geospatial/ip2geo/datasource/{name}"] |}.
#[export] Instance GeospatialPutIP2GeoDatasourcePath_lawful : Lawful GeospatialPutIP2GeoDatasourcePath.
Proof. follow. Qed.

Record GeospatialPutIP2GeoDatasourceSettingsPath := MkGeospatialPutIP2GeoDatasourceSettingsPath { GeospatialPutIP2GeoDatasourceSettingsPath_Name : string }.
Definition GeospatialPutIP2GeoDatasourceSettingsPath_Build (p : GeospatialPutIP2GeoDatasourceSettingsPath) : built :=
  build (required "GeospatialPutIP2GeoDatasourceSettingsPath.Name" (GeospatialPutIP2GeoDatasourceSettingsPath_Name p);;
   writeLit "_plugins";; writeLit "geospatial";; writeLit "ip2geo";; writeLit "datasource";;
   writeReq (GeospatialPutIP2GeoDatasourceSettingsPath_Name p);; writeLit "_settings").
#[export] Instance GeospatialPutIP2GeoDatasourceSettingsPath_builder : builder GeospatialPutIP2GeoDatasourceSettingsPath :=
  {| Build := GeospatialPutIP2GeoDatasourceSettingsPath_Build; fields p := [("name", One (GeospatialPutIP2GeoDatasourceSettingsPath_Name p))]; ignored _ := [];
     templates := ["/_plugins/geospatial/ip2geo/datasource/{name}/_settings"] |}.
#[export] Instance GeospatialPutIP2GeoDatasourceSettingsPath_lawful : Lawful GeospatialPutIP2GeoDatasourceSettingsPath.
Proof. follow. Qed.

Record NotificationsCreateConfigPath := MkNotificationsCreateConfigPath {  }.
Definition NotificationsCreateConfigPath_Build (p : NotificationsCreateConfigPath) : built :=
  build (writeLit "_plugins";; writeLit "_notifications";; writeLit "configs").
#[export] Instance NotificationsCreateConfigPath_builder : builder NotificationsCreateConfigPath :=
  {| Build := NotificationsCreateConfigPath_Build; fields _ := []; ignored _ := [];
     templates := ["/_plugins/_notifications/configs"] |}.
#[export] Instance NotificationsCreateConfigPath_lawful : Lawful NotificationsCreateConfigPath.
Proof. follow. Qed.

Record NotificationsDeleteConfigPath := MkNotificationsDeleteConfigPath { NotificationsDeleteConfigPath_ConfigID : string }.
Definition NotificationsDeleteConfigPath_Build (p : NotificationsDeleteConfigPath) : built :=
  build (required "NotificationsDeleteConfigPath.ConfigID" (NotificationsDeleteConfigPath_ConfigID p);; writeLit "_plugins";;
   writeLit "_notifications";; writeLit "configs";; writeReq (NotificationsDeleteConfigPath_ConfigID p)).
#[export] Instance NotificationsDeleteConfigPath_builder : builder NotificationsDeleteConfigPath :=
  {| Build := NotificationsDeleteConfigPath_Build; fields p := [("config_id", One (NotificationsDeleteConfigPath_ConfigID p))]; ignored _ := [];
     templates := ["/_plugins/_notifications/configs/{config_id}"] |}.
#[export] Instance NotificationsDeleteConfigPath_lawful : Lawful NotificationsDeleteConfigPath.
Proof. follow. Qed.

Record NotificationsDeleteConfigsPath := MkNotificationsDeleteConfigsPath {  }.
Definition NotificationsDeleteConfigsPath_Build (p : NotificationsDeleteConfigsPath) : built :=
  build (writeLit "_plugins";; writeLit "_notifications";; writeLit "configs").
#[export] Instance NotificationsDeleteConfigsPath_builder : builder NotificationsDeleteConfigsPath :=
  {| Build := NotificationsDeleteConfigsPath_Build; fields _ := []; ignored _ := [];
     templates := ["/_plugins/_notifications/configs"] |}.
#[export] Instance NotificationsDeleteConfigsPath_lawful : Lawful NotificationsDeleteConfigsPath.
Proof. follow. Qed.

Record NotificationsGetConfigPath := MkNotificationsGetConfigPath { NotificationsGetConfigPath_ConfigID : string }.
Definition NotificationsGetConfigPath_Build (p : NotificationsGetConfigPath) : built :=
  build (required "NotificationsGetConfigPath.ConfigID" (NotificationsGetConfigPath_ConfigID p);; writeLit "_plugins";;
   writeLit "_notifications";; writeLit "configs";; writeReq (NotificationsGetConfigPath_ConfigID p)).
#[export] Instance NotificationsGetConfigPath_builder : builder NotificationsGetConfigPath :=
  {| Build := NotificationsGetConfigPath_Build; fields p := [("config_id", One (NotificationsGetConfigPath_ConfigID p))]; ignored _ := [];
     templates := ["/_plugins/_notifications/configs/{config_id}"] |}.
#[export] Instance NotificationsGetConfigPath_lawful : Lawful NotificationsGetConfigPath.
Proof. follow. Qed.

Record NotificationsGetConfigsPath := MkNotificationsGetConfigsPath {  }.
Definition NotificationsGetConfigsPath_Build (p : NotificationsGetConfigsPath) : built := build (writeLit "_plugins";; writeLit "_notifications";; writeLit "configs").
#[export] Instance NotificationsGetConfigsPath_builder : builder NotificationsGetConfigsPath :=
  {| Build := NotificationsGetConfigsPath_Build; fields _ := []; ignored _ := [];
     templates := ["/_plugins/_notifications/configs"] |}.
#[export] Instance NotificationsGetConfigsPath_lawful : Lawful NotificationsGetConfigsPath.
Proof. follow. Qed.

Record NotificationsListChannelsPath := MkNotificationsListChannelsPath {  }.
Definition NotificationsListChannelsPath_Build (p : NotificationsListChannelsPath) : built :=
  build (writeLit "_plugins";; writeLit "_notifications";; writeLit "channels").
#[export] Instance NotificationsListChannelsPath_builder : builder NotificationsListChannelsPath :=
  {| Build := NotificationsListChannelsPath_Build; fields _ := []; ignored _ := [];
     templates := ["/_plugins/_notifications/channels"] |}.
#[export] Instance NotificationsListChannelsPath_lawful : Lawful NotificationsListChannelsPath.
Proof. follow. Qed.

Record NotificationsListFeaturesPath := MkNotificationsListFeaturesPath {  }.
Definition NotificationsListFeaturesPath_Build (p : NotificationsListFeaturesPath) : built :=
  build (writeLit "_plugins";; writeLit "_notifications";; writeLit "features").
#[export] Instance NotificationsListFeaturesPath_builder : builder NotificationsListFeaturesPath :=
  {| Build := NotificationsListFeaturesPath_Build; fields _ := []; ignored _ := [];
     templates := ["/_plugins/_notifications/features"] |}.
#[export] Instance NotificationsListFeaturesPath_lawful : Lawful NotificationsListFeaturesPath.
Proof. follow. Qed.

Record NotificationsSendTestPath := MkNotificationsSendTestPath { NotificationsSendTestPath_ConfigID : string }.
Definition NotificationsSendTestPath_Build (p : NotificationsSendTestPath) : built :=
  build (required "NotificationsSendTestPath.ConfigID" (NotificationsSendTestPath_ConfigID p);; writeLit "_plugins";;
   writeLit "_notifications";; writeLit "feature";; writeLit "test";; writeReq (NotificationsSendTestPath_ConfigID p)).
#[export] Instance NotificationsSendTestPath_builder : builder NotificationsSendTestPath :=
  {| Build := NotificationsSendTestPath_Build; fields p := [("config_id", One (NotificationsSendTestPath_ConfigID p))]; ignored _ := [];
     templates := ["/_plugins/_notifications/feature/test/{config_id}"] |}.
#[export] Instance NotificationsSendTestPath_lawful : Lawful NotificationsSendTestPath.
Proof. follow. Qed.

Record NotificationsUpdateConfigPath := MkNotificationsUpdateConfigPath { NotificationsUpdateConfigPath_ConfigID : string }.
Definition NotificationsUpdateConfigPath_Build (p : NotificationsUpdateConfigPath) : built :=
  build (required "NotificationsUpdateConfigPath.ConfigID" (NotificationsUpdateConfigPath_ConfigID p);; writeLit "_plugins";;
   writeLit "_notifications";; writeLit "configs";; writeReq (NotificationsUpdateConfigPath_ConfigID p)).
#[export] Instance NotificationsUpdateConfigPath_builder : builder NotificationsUpdateConfigPath :=
  {| Build := NotificationsUpdateConfigPath_Build; fields p := [("config_id", One (NotificationsUpdateConfigPath_ConfigID p))]; ignored _ := [];
     templates := ["/_plugins/_notifications/configs/{config_id}"] |}.
#[export] Instance NotificationsUpdateConfigPath_lawful : Lawful NotificationsUpdateConfigPath.
Proof. follow. Qed.

Record ObservabilityCreateObjectPath := MkObservabilityCreateObjectPath {  }.
Definition ObservabilityCreateObjectPath_Build (p : ObservabilityCreateObjectPath) : built := build (writeLit "_plugins";; writeLit "_observability";; writeLit "object").
#[export] Instance ObservabilityCreateObjectPath_builder : builder ObservabilityCreateObjectPath :=
  {| Build := ObservabilityCreateObjectPath_Build; fields _ := []; ignored _ := [];
     templates := ["/_plugins/_observability/object"] |}.
#[export] Instance ObservabilityCreateObjectPath_lawful : Lawful ObservabilityCreateObjectPath.
Proof. follow. Qed.

Record ObservabilityDeleteObjectPath := MkObservabilityDeleteObjectPath { ObservabilityDeleteObjectPath_ObjectID : string }.
Definition ObservabilityDeleteObjectPath_Build (p : ObservabilityDeleteObjectPath) : built :=
  build (required "ObservabilityDeleteObjectPath.ObjectID" (ObservabilityDeleteObjectPath_ObjectID p);; writeLit "_plugins";;
   writeLit "_observability";; writeLit "object";; writeReq (ObservabilityDeleteObjectPath_ObjectID p)).
#[export] Instance ObservabilityDeleteObjectPath_builder : builder ObservabilityDeleteObjectPath :=
  {| Build := ObservabilityDeleteObjectPath_Build; fields p := [("object_id", One (ObservabilityDeleteObjectPath_ObjectID p))]; ignored _ := [];
     templates := ["/_plugins/_observability/object/{object_id}"] |}.
#[export] Instance ObservabilityDeleteObjectPath_lawful : Lawful ObservabilityDeleteObjectPath.
Proof. follow. Qed.

Record ObservabilityDeleteObjectsPath := MkObservabilityDeleteObjectsPath {  }.
Definition ObservabilityDeleteObjectsPath_Build (p : ObservabilityDeleteObjectsPath) : built :=
  build (writeLit "_plugins";; writeLit "_observability";; writeLit "object").
#[export] Instance ObservabilityDeleteObjectsPath_builder : builder ObservabilityDeleteObjectsPath :=
  {| Build := ObservabilityDeleteObjectsPath_Build; fields _ := []; ignored _ := [];
     templates := ["/_plugins/_observability/object"] |}.
#[export] Instance ObservabilityDeleteObjectsPath_lawful : Lawful ObservabilityDeleteObjectsPath.
Proof. follow. Qed.

Record ObservabilityGetLocalstatsPath := MkObservabilityGetLocalstatsPath {  }.
Definition ObservabilityGetLocalstatsPath_Build (p : ObservabilityGetLocalstatsPath) : built :=
  build (writeLit "_plugins";; writeLit "_observability";; writeLit "_local";; writeLit "stats").
#[export] Instance ObservabilityGetLocalstatsPath_builder : builder ObservabilityGetLocalstatsPath :=
  {| Build := ObservabilityGetLocalstatsPath_Build; fields _ := []; ignored _ := [];
     templates := ["/_plugins/_observability/_local/stats"] |}.
#[export] Instance ObservabilityGetLocalstatsPath_lawful : Lawful ObservabilityGetLocalstatsPath.
Proof. follow. Qed.

Record ObservabilityGetObjectPath := MkObservabilityGetObjectPath { ObservabilityGetObjectPath_ObjectID : string }.
Definition ObservabilityGetObjectPath_Build (p : ObservabilityGetObjectPath) : built :=
  build (required "ObservabilityGetObjectPath.ObjectID" (ObservabilityGetObjectPath_ObjectID p);; writeLit "_plugins";;
   writeLit "_observability";; writeLit "object";; writeReq (ObservabilityGetObjectPath_ObjectID p)).
#[export] Instance ObservabilityGetObjectPath_builder : builder ObservabilityGetObjectPath :=
  {| Build := ObservabilityGetObjectPath_Build; fields p := [("object_id", One (ObservabilityGetObjectPath_ObjectID p))]; ignored _ := [];
     templates := ["/_plugins/_observability/object/{object_id}"] |}.
#[export] Instance ObservabilityGetObjectPath_lawful : Lawful ObservabilityGetObjectPath.
Proof. follow. Qed.

Record ObservabilityListObjectsPath := MkObservabilityListObjectsPath {  }.
Definition ObservabilityListObjectsPath_Build (p : ObservabilityListObjectsPath) : built := build (writeLit "_plugins";; writeLit "_observability";; writeLit "object").
#[export] Instance ObservabilityListObjectsPath_builder : builder ObservabilityListObjectsPath :=
  {| Build := ObservabilityListObjectsPath_Build; fields _ := []; ignored _ := [];
     templates := ["/_plugins/_observability/object"] |}.
#[export] Instance ObservabilityListObjectsPath_lawful : Lawful ObservabilityListObjectsPath.
Proof. follow. Qed.

Record ObservabilityUpdateObjectPath := MkObservabilityUpdateObjectPath { ObservabilityUpdateObjectPath_ObjectID : string }.
Definition ObservabilityUpdateObjectPath_Build (p : ObservabilityUpdateObjectPath) : built :=
  build (required "ObservabilityUpdateObjectPath.ObjectID" (ObservabilityUpdateObjectPath_ObjectID p);; writeLit "_plugins";;
   writeLit "_observability";; writeLit "object";; writeReq (ObservabilityUpdateObjectPath_ObjectID p)).
#[export] Instance ObservabilityUpdateObjectPath_builder : builder ObservabilityUpdateObjectPath :=
  {| Build := ObservabilityUpdateObjectPath_Build; fields p := [("object_id", One (ObservabilityUpdateObjectPath_ObjectID p))]; ignored _ := [];
     templates := ["/_plugins/_observability/object/{object_id}"] |}.
#[export] Instance ObservabilityUpdateObjectPath_lawful : Lawful ObservabilityUpdateObjectPath.
Proof. follow. Qed.

Record PPLExplainPath := MkPPLExplainPath {  }.
Definition PPLExplainPath_Build (p : PPLExplainPath) : built := build (writeLit "_plugins";; writeLit "_ppl";; writeLit "_explain").
#[export] Instance PPLExplainPath_builder : builder PPLExplainPath :=
  {| Build := PPLExplainPath_Build; fields _ := []; ignored _ := [];
     templates := ["/_plugins/_ppl/_explain"] |}.
#[export] Instance PPLExplainPath_lawful : Lawful PPLExplainPath.
Proof. follow. Qed.

Record PPLGetStatsPath := MkPPLGetStatsPath {  }.
Definition PPLGetStatsPath_Build (p : PPLGetStatsPath) : built := build (writeLit "_plugins";; writeLit "_ppl";; writeLit "stats").
#[export] Instance PPLGetStatsPath_builder : builder PPLGetStatsPath :=
  {| Build := PPLGetStatsPath_Build; fields _ := []; ignored _ := [];
     templates := ["/_plugins/_ppl/stats"] |}.
#[export] Instance PPLGetStatsPath_lawful : Lawful PPLGetStatsPath.
Proof. follow. Qed.

Record PPLPostStatsPath := MkPPLPostStatsPath {  }.
Definition PPLPostStatsPath_Build (p : PPLPostStatsPath) : built := build (writeLit "_plugins";; writeLit "_ppl";; writeLit "stats").
#[export] Instance PPLPostStatsPath_builder : builder PPLPostStatsPath :=
  {| Build := PPLPostStatsPath_Build; fields _ := []; ignored _ := [];
     templates := ["/_plugins/_ppl/stats"] |}.
#[export] Instance PPLPostStatsPath_lawful : Lawful PPLPostStatsPath.
Proof. follow. Qed.

Record PPLQueryPath := MkPPLQueryPath {  }.
Definition PPLQueryPath_Build (p : PPLQueryPath) : built := build (writeLit "_plugins";; writeLit "_ppl").
#[export] Instance PPLQueryPath_builder : builder PPLQueryPath :=
  {| Build := PPLQueryPath_Build; fields _ := []; ignored _ := [];
     templates := ["/_plugins/_ppl"] |}.
#[export] Instance PPLQueryPath_lawful : Lawful PPLQueryPath.
Proof. follow. Qed.

Record QueryDatasourceDeletePath := MkQueryDatasourceDeletePath { QueryDatasourceDeletePath_DatasourceName : string }.
Definition QueryDatasourceDeletePath_Build (p : QueryDatasourceDeletePath) : built :=
  build (required "QueryDatasourceDeletePath.DatasourceName" (QueryDatasourceDeletePath_DatasourceName p);; writeLit "_plugins";;
   writeLit "_query";; writeLit "_datasources";; writeReq (QueryDatasourceDeletePath_DatasourceName p)).
#[export] Instance QueryDatasourceDeletePath_builder : builder QueryDatasourceDeletePath :=
  {| Build := QueryDatasourceDeletePath_Build; fields p := [("datasource_name", One (QueryDatasourceDeletePath_DatasourceName p))]; ignored _ := [];
     templates := ["/_plugins/_query/_datasources/{datasource_name}"] |}.
#[export] Instance QueryDatasourceDeletePath_lawful : Lawful QueryDatasourceDeletePath.
Proof. follow. Qed.

Record QueryDatasourceRetrievePath := MkQueryDatasourceRetrievePath { QueryDatasourceRetrievePath_DatasourceName : string }.
Definition QueryDatasourceRetrievePath_Build (p : QueryDatasourceRetrievePath) : built :=
  build (required "QueryDatasourceRetrievePath.DatasourceName" (QueryDatasourceRetrievePath_DatasourceName p);; writeLit "_plugins";;
   writeLit "_query";; writeLit "_datasources";; writeReq (QueryDatasourceRetrievePath_DatasourceName p)).
#[export] Instance QueryDatasourceRetrievePath_builder : builder QueryDatasourceRetrievePath :=
  {| Build := QueryDatasourceRetrievePath_Build; fields p := [("datasource_name", One (QueryDatasourceRetrievePath_DatasourceName p))]; ignored _ := [];
     templates := ["/_plugins/_query/_datasources/{datasource_name}"] |}.
#[export] Instance QueryDatasourceRetrievePath_lawful : Lawful QueryDatasourceRetrievePath.
Proof. follow. Qed.

Record QueryDatasourcesCreatePath := MkQueryDatasourcesCreatePath {  }.
Definition QueryDatasourcesCreatePath_Build (p : QueryDatasourcesCreatePath) : built := build (writeLit "_plugins";; writeLit "_query";; writeLit "_datasources").
#[export] Instance QueryDatasourcesCreatePath_builder : builder QueryDatasourcesCreatePath :=
  {| Build := QueryDatasourcesCreatePath_Build; fields _ := []; ignored _ := [];
     templates := ["/_plugins/_query/_datasources"] |}.
#[export] Instance QueryDatasourcesCreatePath_lawful : Lawful QueryDatasourcesCreatePath.
Proof. follow. Qed.

Record QueryDatasourcesListPath := MkQueryDatasourcesListPath {  }.
Definition QueryDatasourcesListPath_Build (p : QueryDatasourcesListPath) : built := build (writeLit "_plugins";; writeLit "_query";; writeLit "_datasources").
#[export] Instance QueryDatasourcesListPath_builder : builder QueryDatasourcesListPath :=
  {| Build := QueryDatasourcesListPath_Build; fields _ := []; ignored _ := [];
     templates := ["/_plugins/_query/_datasources"] |}.
#[export] Instance QueryDatasourcesListPath_lawful : Lawful QueryDatasourcesListPath.
Proof. follow. Qed.

Record QueryDatasourcesUpdatePath := MkQueryDatasourcesUpdatePath {  }.
Definition QueryDatasourcesUpdatePath_Build (p : QueryDatasourcesUpdatePath) : built := build (writeLit "_plugins";; writeLit "_query";; writeLit "_datasources").
#[export] Instance QueryDatasourcesUpdatePath_builder : builder QueryDatasourcesUpdatePath :=
  {| Build := QueryDatasourcesUpdatePath_Build; fields _ := []; ignored _ := [];
     templates := ["/_plugins/_query/_datasources"] |}.
#[export] Instance QueryDatasourcesUpdatePath_lawful : Lawful QueryDatasourcesUpdatePath.
Proof. follow. Qed.

Record SQLClosePath := MkSQLClosePath {  }.
Definition SQLClosePath_Build (p : SQLClosePath) : built := build (writeLit "_plugins";; writeLit "_sql";; writeLit "close").
#[export] Instance SQLClosePath_builder : builder SQLClosePath :=
  {| Build := SQLClosePath_Build; fields _ := []; ignored _ := [];
     templates := ["/_plugins/_sql/close"] |}.
#[export] Instance SQLClosePath_lawful : Lawful SQLClosePath.
Proof. follow. Qed.

Record SQLExplainPath := MkSQLExplainPath {  }.
Definition SQLExplainPath_Build (p : SQLExplainPath) : built := build (writeLit "_plugins";; writeLit "_sql";; writeLit "_explain").
#[export] Instance SQLExplainPath_builder : builder SQLExplainPath :=
  {| Build := SQLExplainPath_Build; fields _ := []; ignored _ := [];
     templates := ["/_plugins/_sql/_explain"] |}.
#[export] Instance SQLExplainPath_lawful : Lawful SQLExplainPath.
Proof. follow. Qed.

Record SQLGetStatsPath := MkSQLGetStatsPath {  }.
Definition SQLGetStatsPath_Build (p : SQLGetStatsPath) : built := build (writeLit "_plugins";; writeLit "_sql";; writeLit "stats").
#[export] Instance SQLGetStatsPath_builder : builder SQLGetStatsPath :=
  {| Build := SQLGetStatsPath_Build; fields _ := []; ignored _ := [];
     templates := ["/_plugins/_sql/stats"] |}.
#[export] Instance SQLGetStatsPath_lawful : Lawful SQLGetStatsPath.
Proof. follow. Qed.

Record SQLPostStatsPath := MkSQLPostStatsPath {  }.
Definition SQLPostStatsPath_Build (p : SQLPostStatsPath) : built := build (writeLit "_plugins";; writeLit "_sql";; writeLit "stats").
#[export] Instance SQLPostStatsPath_builder : builder SQLPostStatsPath :=
  {| Build := SQLPostStatsPath_Build; fields _ := []; ignored _ := [];
     templates := ["/_plugins/_sql/stats"] |}.
#[export] Instance SQLPostStatsPath_lawful : Lawful SQLPostStatsPath.
Proof. follow. Qed.

Record SQLQueryPath := MkSQLQueryPath {  }.
Definition SQLQueryPath_Build (p : SQLQueryPath) : built := build (writeLit "_plugins";; writeLit "_sql").
#[export] Instance SQLQueryPath_builder : builder SQLQueryPath :=
  {| Build := SQLQueryPath_Build; fields _ := []; ignored _ := [];
     templates := ["/_plugins/_sql"] |}.
#[export] Instance SQLQueryPath_lawful : Lawful SQLQueryPath.
Proof. follow. Qed.

Record SQLSettingsPath := MkSQLSettingsPath {  }.
Definition SQLSettingsPath_Build (p : SQLSettingsPath) : built := build (writeLit "_plugins";; writeLit "_query";; writeLit "settings").
#[export] Instance SQLSettingsPath_builder : builder SQLSettingsPath :=
  {| Build := SQLSettingsPath_Build; fields _ := []; ignored _ := [];
     templates := ["/_plugins/_query/settings"] |}.
#[export] Instance SQLSettingsPath_lawful : Lawful SQLSettingsPath.
Proof. follow. Qed.

Record UBIInitializePath := MkUBIInitializePath {  }.
Definition UBIInitializePath_Build (p : UBIInitializePath) : built := build (writeLit "_plugins";; writeLit "ubi";; writeLit "initialize").
#[export] Instance UBIInitializePath_builder : builder UBIInitializePath :=
  {| Build := UBIInitializePath_Build; fields _ := []; ignored _ := [];
     templates := ["/_plugins/ubi/initialize"] |}.
#[export] Instance UBIInitializePath_lawful : Lawful UBIInitializePath.
Proof. follow. Qed.

(** All of them. *)
Definition pathsPlugins : list path_type :=
  [MkPathType "AsynchronousSearchDeletePath" AsynchronousSearchDeletePath _ _; MkPathType "AsynchronousSearchGetPath" AsynchronousSearchGetPath _ _;
   MkPathType "AsynchronousSearchSearchPath" AsynchronousSearchSearchPath _ _; MkPathType "AsynchronousSearchStatsPath" AsynchronousSearchStatsPath _ _;
   MkPathType "GeospatialDeleteIP2GeoDatasourcePath" GeospatialDeleteIP2GeoDatasourcePath _ _; MkPathType "GeospatialGeojsonUploadPostPath" GeospatialGeojsonUploadPostPath _ _;
   MkPathType "GeospatialGeojsonUploadPutPath" GeospatialGeojsonUploadPutPath _ _; MkPathType "GeospatialGetIP2GeoDatasourcePath" GeospatialGetIP2GeoDatasourcePath _ _;
   MkPathType "GeospatialGetUploadStatsPath" GeospatialGetUploadStatsPath _ _; MkPathType "GeospatialPutIP2GeoDatasourcePath" GeospatialPutIP2GeoDatasourcePath _ _;
   MkPathType "GeospatialPutIP2GeoDatasourceSettingsPath" GeospatialPutIP2GeoDatasourceSettingsPath _ _; MkPathType "NotificationsCreateConfigPath" NotificationsCreateConfigPath _ _;
   MkPathType "NotificationsDeleteConfigPath" NotificationsDeleteConfigPath _ _; MkPathType "NotificationsDeleteConfigsPath" NotificationsDeleteConfigsPath _ _;
   MkPathType "NotificationsGetConfigPath" NotificationsGetConfigPath _ _; MkPathType "NotificationsGetConfigsPath" NotificationsGetConfigsPath _ _;
   MkPathType "NotificationsListChannelsPath" NotificationsListChannelsPath _ _; MkPathType "NotificationsListFeaturesPath" NotificationsListFeaturesPath _ _;
   MkPathType "NotificationsSendTestPath" NotificationsSendTestPath _ _; MkPathType "NotificationsUpdateConfigPath" NotificationsUpdateConfigPath _ _;
   MkPathType "ObservabilityCreateObjectPath" ObservabilityCreateObjectPath _ _; MkPathType "ObservabilityDeleteObjectPath" ObservabilityDeleteObjectPath _ _;
   MkPathType "ObservabilityDeleteObjectsPath" ObservabilityDeleteObjectsPath _ _; MkPathType "ObservabilityGetLocalstatsPath" ObservabilityGetLocalstatsPath _ _;
   MkPathType "ObservabilityGetObjectPath" ObservabilityGetObjectPath _ _; MkPathType "ObservabilityListObjectsPath" ObservabilityListObjectsPath _ _;
   MkPathType "ObservabilityUpdateObjectPath" ObservabilityUpdateObjectPath _ _; MkPathType "PPLExplainPath" PPLExplainPath _ _;
   MkPathType "PPLGetStatsPath" PPLGetStatsPath _ _; MkPathType "PPLPostStatsPath" PPLPostStatsPath _ _;
   MkPathType "PPLQueryPath" PPLQueryPath _ _; MkPathType "QueryDatasourceDeletePath" QueryDatasourceDeletePath _ _;
   MkPathType "QueryDatasourceRetrievePath" QueryDatasourceRetrievePath _ _; MkPathType "QueryDatasourcesCreatePath" QueryDatasourcesCreatePath _ _;
   MkPathType "QueryDatasourcesListPath" QueryDatasourcesListPath _ _; MkPathType "QueryDatasourcesUpdatePath" QueryDatasourcesUpdatePath _ _;
   MkPathType "SQLClosePath" SQLClosePath _ _; MkPathType "SQLExplainPath" SQLExplainPath _ _;
   MkPathType "SQLGetStatsPath" SQLGetStatsPath _ _; MkPathType "SQLPostStatsPath" SQLPostStatsPath _ _;
   MkPathType "SQLQueryPath" SQLQueryPath _ _; MkPathType "SQLSettingsPath" SQLSettingsPath _ _;
   MkPathType "UBIInitializePath" UBIInitializePath _ _].
