(* ===== verification/PathSpec.v ===== *)
(** * What the path builders build

    The path types of PathsCore.v to PathsPlugins.v together: their Build methods
    refine the API description, whatever the fields hold. *)

From Stdlib Require Import Ascii String ZArith Lia.
From stdpp Require Import base list strings sets.
From S2P Require Import Prelude.
From S2P Require Import GoStrings.
From S2P Require Import Paths.
From S2P Require Import PathsCore.
From S2P Require Import PathsIndices.
From S2P Require Import PathsSecurity.
From S2P Require Import PathsML.
From S2P Require Import PathsPlugins.
Open Scope list_scope.

(** The types the package asserts to be builders. *)
Definition path_types : list path_type := pathsCore ++ pathsIndices ++ pathsSecurity ++ pathsML ++ pathsPlugins.

Lemma mem_In x l : mem x l = true <-> In x l.
Proof.
  unfold mem. rewrite existsb_exists. split; [intros (y & Hy & ->%String.eqb_eq); done|]. intros H. exists x. by rewrite String.eqb_refl.
Qed.

Lemma fits_spec names t : fits names t = true <-> (forall x, In x (params t) <-> In x names).
Proof.
  unfold fits. rewrite andb_true_iff, !forallb_forall. setoid_rewrite mem_In. naive_solver.
Qed.

Lemma value_of_given e x : In x (map fst (set_fields e)) -> given (value_of (set_fields e) x) = true.
Proof.
  unfold set_fields. induction e as [|[y f] e IH]; [done|]. cbn [List.filter snd]. destruct (given f) eqn:Hf; [|exact IH].
  cbn [map In fst value_of]. destruct (String.eqb_spec x y) as [->|Hne]; [done|]. intros [->|H]; [done|]. by apply IH.
Qed.

Lemma params_set (e : env) t :
  (forall x, In x (params t) -> In x (map fst (set_fields e))) -> Forall (piece_set (set_fields e)) t.
Proof.
  intros H. apply Forall_forall. intros [v|x] Hin; [done|]. apply value_of_given, H. unfold params.
  apply list_elem_of_In, list_elem_of_omap. by exists (Param x).
Qed.

(** The names of the builders that leave a field out. *)
Definition leaves_out : list string := ["NodesStatsPath"; "ClusterStatsPath"]%string.

Lemma ignored_nothing : Forall (fun b => mem (pt_name b) leaves_out = true \/ forall p : pt_type b, ignored p = []) path_types.
Proof.
  unfold path_types. rewrite !Forall_app. unfold pathsCore, pathsIndices, pathsSecurity, pathsML, pathsPlugins.
  split_and!; repeat (apply Forall_cons_2; [first [right; intros p; reflexivity | left; reflexivity]|]); apply Forall_nil_2.
Qed.

(** What a successful Build instantiates. *)
Lemma built_template (b : path_type) (p : pt_type b) s :
  Build p = Built s ->
  exists t, In t (map parse_template (templates (pt_type b))) /\ (forall x, In x (params t) <-> In x (kept p))
    /\ t <> [] /\ forallb plain_piece t = true /\ Forall (piece_set (set_fields (fields p))) t /\ s = instantiate (set_fields (fields p)) t.
Proof.
  intros Hs. destruct (pt_lawful b) as [Hf Hp]. specialize (Hf p). rewrite Hs in Hf. unfold choose_template in Hf. cbn [success] in Hf.
  destruct (List.find _ _) as [t|] eqn:E; cbn [fmap option_fmap option_map] in Hf; [|done]. injection Hf as ->.
  apply find_some in E as [Ht Hfit]. exists t. pose proof (proj1 (fits_spec _ _) Hfit) as Hx. split; [exact Ht|]. split; [exact Hx|].
  apply in_map_iff in Ht as (u & <- & Hu). rewrite forallb_forall in Hp. specialize (Hp u Hu). apply andb_prop in Hp as [Hpl Hne].
  split; [intros H; by rewrite H in Hne|]. split; [exact Hpl|]. split; [|done]. apply params_set. intros x Hin%Hx.
  unfold kept in Hin. by apply filter_In in Hin as [? _].
Qed.

(** C29: Every path builder implements the API description. For each of the 480 path
    types and all values of its fields, Build succeeds exactly when the fields that
    are set are the parameters of a path the description has for the operation. What
    a server reads back from the result, segment by segment with the percent
    encoding undone, is that path with the values in place of its parameters: no
    value, whatever bytes it has, adds, removes or changes a segment. Two builders,
    of node and of cluster statistics, leave out an index metric that comes with
    nodes but without a metric; no builder leaves out anything else. *)
Theorem builders_implement_description (b : path_type) (p : pt_type b) :
  In b path_types ->
  match Build p with
  | Built s => exists t, In t (map parse_template (templates (pt_type b))) /\ (forall x, In x (params t) <-> In x (kept p))
      /\ decode_path s = Some (map (piece_values (set_fields (fields p))) t)
  | Refused _ => forall t, In t (map parse_template (templates (pt_type b))) -> ~ (forall x, In x (params t) <-> In x (kept p))
  end
  /\ (ignored p <> [] -> In (pt_name b) leaves_out).
Proof.
  intros Hb. destruct (pt_lawful b) as [Hf Hp]. specialize (Hf p). unfold choose_template in Hf. split.
  - destruct (Build p) as [s|what] eqn:Hs; cbn [success] in Hf.
    + destruct (built_template b p s Hs) as (t & Ht & Hx & Hne & Hpl & Hset & ->). exists t. split; [exact Ht|]. split; [exact Hx|].
      by apply decode_instantiate.
    + intros t Ht Hx. destruct (List.find _ _) as [t'|] eqn:E; [done|]. apply (find_none _ _ E) in Ht.
      apply fits_spec in Hx. unfold fits in *. congruence.
  - intros Hig. pose proof (proj1 (Forall_forall _ _) ignored_nothing b) as H. destruct H as [H|H]; [by apply list_elem_of_In|by apply mem_In|by destruct (Hig (H p))].
Qed.

Definition ex_index : string := "logs/../_all?q=1,2".
Definition ex_get : path_type := MkPathType "GetPath" GetPath _ _.
Lemma builders_implement_description_witness :
  In ex_get path_types
  /\ match Build (MkGetPath ex_index "a b") with Built s => s = "/logs%2F..%2F_all%3Fq=1%2C2/_doc/a%20b"%string /\ decode_path s = Some [[ex_index]; ["_doc"]; ["a b"]]%string | Refused _ => False end
  /\ ~ (forall x, In x (params [Param "index"; Lit "_doc"; Param "id"]) <-> In x (kept (MkGetPath ex_index ""))).
Proof.
  assert (Hin : In ex_get path_types) by (unfold path_types; apply in_or_app; left; unfold pathsCore, ex_get; repeat ((left; reflexivity) || right)).
  split; [exact Hin|]. split.
  - destruct (builders_implement_description ex_get (MkGetPath ex_index "a b") Hin) as [H _].
    change (Build (MkGetPath ex_index "a b")) with (Built "/logs%2F..%2F_all%3Fq=1%2C2/_doc/a%20b") in H |- *. cbv iota in H |- *.
    split; [reflexivity|]. destruct H as (t & Ht & Hx & ->). destruct Ht as [<-|[]]. reflexivity.
  - destruct (builders_implement_description ex_get (MkGetPath ex_index "") Hin) as [H _].
    change (Build (MkGetPath ex_index "")) with (Refused "GetPath.ID") in H. cbv iota in H. apply H. left. reflexivity.
Defined.
