(* ===== verification/ReqBuild.v ===== *)
(** * Building HTTP requests

    internal/build/request.go on the paths of the builders: the validation of the
    method, the path in its two forms, the body with its replay function, the
    headers and the query. Then what net/http writes for the request after the
    transport has put its node in front (setReqURL of Stream.v): URL.EscapedPath and
    URL.RequestURI.

    A body is the reader the caller passes with what it holds. The caller's headers
    are the pairs in the order the map is ranged over. *)

From Stdlib Require Import ZArith Lia Ascii String.
From stdpp Require Import base gmap list strings sorting.
From S2P Require Import Prelude.
From S2P Require Import GoStrings.
From S2P Require Import Paths.
From S2P Require Import PathsCore.
From S2P Require Import PathsIndices.
From S2P Require Import PathsSecurity.
From S2P Require Import PathsML.
From S2P Require Import PathsPlugins.
From S2P Require Import PathSpec.
From S2P Require Import Stream.
From S2P Require Import ShardRouting.
Open Scope list_scope.
Open Scope bool_scope.

(** * The request *)

Definition HeaderContentType : string := "Content-Type".
Definition ContentTypeJSON : string := "application/json".

(** io.Reader: nil, the three readers whose contents can be replayed, or another
    one. *)
Inductive reader := NoReader | Buffer (s : string) | BytesReader (s : string) | StringsReader (s : string) | OtherReader (s : string).

Inductive build_error := errMissingMethod | errInvalidMethod | errInvalidPath.

Definition isTokenChar (c : ascii) : bool := alphanumeric c || str_has c "!#$%&'*+-.^_`|~".
(** A byte that begins no rune follows one that is no token. *)
Definition validMethod (method : string) : bool := negb (isEmpty method) && all_bytes isTokenChar method.

(** What the body switch sets: Body, ContentLength and GetBody. *)
Definition body_parts (body : reader) : option string * Z * option (option string) :=
  match body with
  | NoReader => (None, 0, None)
  | Buffer s | BytesReader s | StringsReader s => (Some s, Z.of_nat (String.length s), Some (Some s))
  | OtherReader s => (Some s, 0, None)
  end%Z.

(** url.QueryEscape, and Values.Encode of a map with one value for each key. *)
Fixpoint QueryEscape (s : string) : string :=
  match s with
  | EmptyString => EmptyString
  | String a s =>
    if Ascii.eqb a " " then String "+" (QueryEscape s)
    else if unreserved a then String a (QueryEscape s)
    else String "%" (String (hex_upper (code a / 16)) (String (hex_upper (code a mod 16)) (QueryEscape s)))
  end.
Definition string_le (s t : string) : Prop := String.leb s t = true.
#[export] Instance string_le_dec : RelDecision string_le.
Proof. unfold string_le. intros s t. apply _. Defined.
Definition encode_pair (p : string * string) : string := String.append (QueryEscape p.1) (String "=" (QueryEscape p.2)).
Definition key_le (p q : string * string) : Prop := string_le p.1 q.1.
#[export] Instance key_le_dec : RelDecision key_le.
Proof. unfold key_le. intros p q. apply _. Defined.
Definition sorted_params (params : gmap string string) : list (string * string) := merge_sort key_le (map_to_list params).
Definition Encode (params : gmap string string) : string := String.concat "&" (map encode_pair (sorted_params params)).

(** The header the caller's values are added to. *)
Definition seed_header (body : reader) (headers : list (string * list string)) : gmap string (list string) :=
  match body with
  | NoReader => ∅
  | _ => if existsb (fun p => String.eqb p.1 HeaderContentType) headers then ∅ else {[HeaderContentType := [ContentTypeJSON]]}
  end.
Definition add_values (h : gmap string (list string)) (p : string * list string) : gmap string (list string) :=
  fold_left (fun h v => Header_Add h p.1 v) p.2 h.

(** The request and its ContentLength. *)
Definition Request (method path : string) (body : reader) (params : gmap string string) (headers : list (string * list string))
  : build_error + httpRequest * Z :=
  if isEmpty method then inl errMissingMethod
  else if negb (validMethod method) then inl errInvalidMethod
  else match PathUnescape path with
  | None => inl errInvalidPath
  | Some p =>
    let '(rc, contentLength, getBody) := body_parts body in
    let header := fold_left add_values headers (seed_header body headers) in
    let rawQuery := if decide (params = ∅) then EmptyString else Encode params in
    inr (MkHttpRequest method EmptyString EmptyString p path rawQuery header rc getBody, contentLength)
  end.

(** * What net/http writes *)

(** validEncoded of net/url for a path, and URL.EscapedPath. *)
Definition valid_encoded (s : string) : bool :=
  all_bytes (fun a => str_has a "!$&'()*+,;=:@[]%" || negb (escape_in_path a)) s.
Definition EscapedPath (path rawPath : string) : string :=
  if negb (isEmpty rawPath) && valid_encoded rawPath && bool_decide (PathUnescape rawPath = Some path) then rawPath
  else if String.eqb path "*" then "*" else escape escape_in_path path.
(** URL.RequestURI: the target of the request line. *)
Definition RequestURI (rq : httpRequest) : string :=
  let path := EscapedPath (rq_Path rq) (rq_RawPath rq) in
  let path := if isEmpty path then "/"%string else path in
  if isEmpty (rq_RawQuery rq) then path else String.append path (String "?" (rq_RawQuery rq)).

(** A path that needs no escaping and stands for itself. *)
Definition plain_path (s : string) : bool := valid_encoded s && negb (str_has "%" s).

(** * The path on the wire *)

Lemma path_byte_valid a : path_byte a = true -> str_has a "!$&'()*+,;=:@[]%" || negb (escape_in_path a) = true.
Proof.
  pose proof (byte_fact (fun a => negb (path_byte a) || (str_has a "!$&'()*+,;=:@[]%" || negb (escape_in_path a))) ltac:(vm_compute; reflexivity) a) as H.
  cbv beta in H. by destruct (path_byte a).
Qed.

Lemma EscapedPath_built base s d :
  plain_path base = true -> all_bytes path_byte s = true -> PathUnescape s = Some d -> s <> EmptyString ->
  EscapedPath (String.append base d) (String.append base s) = String.append base s.
Proof.
  unfold plain_path. intros [Hv Hpc%negb_true_iff]%andb_prop Hb Hd Hne. unfold EscapedPath.
  assert (He : isEmpty (String.append base s) = false) by (destruct base, s; done). rewrite He.
  assert (Hval : valid_encoded (String.append base s) = true).
  { unfold valid_encoded in *. rewrite all_bytes_app, Hv. by apply (all_bytes_mono path_byte), Hb; apply path_byte_valid. }
  rewrite Hval. rewrite (PathUnescape_append base s base d) by (by try apply PathUnescape_plain). by rewrite bool_decide_true.
Qed.

Lemma setReqURL_paths u rq :
  rq_Path (setReqURL u rq) = String.append (trimSlashes (u_Path u)) (rq_Path rq)
  /\ (rq_RawPath rq <> EmptyString -> rq_RawPath (setReqURL u rq) = String.append (trimSlashes (u_Path u)) (rq_RawPath rq))
  /\ rq_RawQuery (setReqURL u rq) = rq_RawQuery rq.
Proof.
  unfold setReqURL. destruct (String.eqb_spec (trimSlashes (u_Path u)) "") as [->|Hne]; cbn [rq_url rq_Path rq_RawPath rq_RawQuery]; [done|].
  split_and!; [done| |done]. intros H. by rewrite (proj2 (String.eqb_neq _ _) H).
Qed.

(** * The query *)

Lemma QueryEscape_unescape s : QueryUnescape (QueryEscape s) = Some s.
Proof.
  induction s as [|a s IH]; [done|]. cbn [QueryEscape]. destruct (Ascii.eqb_spec a " ") as [->|Hsp].
  - cbn [QueryUnescape]. change (Ascii.eqb "+" "%") with false. by rewrite IH.
  - destruct (unreserved a) eqn:Hu.
    + cbn [QueryUnescape]. destruct (Ascii.eqb_spec a "%") as [->|_]; [done|]. rewrite IH. cbn [mbind option_bind].
      destruct (Ascii.eqb_spec a "+") as [->|_]; done.
    + cbn [QueryUnescape]. change (Ascii.eqb "%" "%") with true. cbv iota. destruct (hex_pair a) as (-> & -> & Hc & _).
      cbn [mbind option_bind]. rewrite IH. cbn [mbind option_bind]. unfold chr in Hc. by rewrite Hc.
Qed.

Definition query_byte (a : ascii) : bool := unreserved a || str_has a "%+".

Lemma QueryEscape_bytes s : all_bytes query_byte (QueryEscape s) = true.
Proof.
  induction s as [|a s IH]; [done|]. cbn [QueryEscape]. destruct (Ascii.eqb a " "); [by rewrite all_bytes_cons, IH|].
  destruct (unreserved a) eqn:Hu; rewrite !all_bytes_cons, IH, ?andb_true_r; [unfold query_byte; by rewrite Hu|].
  pose proof (byte_fact (fun a => query_byte (hex_upper (code a / 16)) && query_byte (hex_upper (code a mod 16))) ltac:(vm_compute; reflexivity) a) as H.
  cbv beta in H. by rewrite H.
Qed.

Lemma QueryEscape_lacks c s : query_byte c = false -> str_has c (QueryEscape s) = false.
Proof. apply all_bytes_lacks, QueryEscape_bytes. Qed.

Lemma encode_pair_lacks c p : query_byte c = false -> Ascii.eqb c "=" = false -> str_has c (encode_pair p) = false.
Proof. intros H He. unfold encode_pair. by rewrite str_has_app, str_has_cons, He, !QueryEscape_lacks. Qed.

Lemma Split_Encode params : params <> ∅ -> Split "&" (Encode params) = map encode_pair (sorted_params params).
Proof.
  intros Hne. unfold Encode. apply Split_concat.
  - intros H%map_eq_nil. apply Hne, map_to_list_empty_iff, Permutation_nil_r. unfold sorted_params in H. rewrite <- H. symmetry. apply merge_sort_Permutation.
  - apply Forall_fmap, Forall_true. intros p. by apply encode_pair_lacks.
Qed.

Lemma Cut_append c s t : str_has c s = false -> Cut c (String.append s (String c t)) = (s, t, true).
Proof.
  induction s as [|a s IH]; intros H.
  - rewrite append_nil. cbn [Cut]. by rewrite Ascii.eqb_refl.
  - rewrite str_has_cons in H. apply orb_false_iff in H as [H1 H2]. rewrite append_cons. cbn [Cut]. by rewrite Ascii.eqb_sym, H1, (IH H2).
Qed.

Lemma query_pair_encode p : query_pair (encode_pair p) = Some p.
Proof.
  unfold query_pair. assert (He : String.eqb (encode_pair p) "" = false).
  { unfold encode_pair. by destruct (QueryEscape p.1). }
  rewrite He, encode_pair_lacks by done. cbn [orb]. unfold encode_pair. rewrite Cut_append by (by apply QueryEscape_lacks).
  rewrite !QueryEscape_unescape. cbn [mbind option_bind]. by destruct p.
Qed.

Lemma get_pair_encode key l : NoDup (map fst l) -> get_pair key (map encode_pair l) = snd <$> List.find (fun p => String.eqb p.1 key) l.
Proof.
  induction l as [|p l IH]; [done|]. intros [_ Hnd]%NoDup_cons. cbn [map get_pair List.find]. rewrite query_pair_encode. destruct p as [k v]. cbn [fst].
  destruct (String.eqb k key); [done|by apply IH].
Qed.

Lemma find_sorted key params : snd <$> List.find (fun p => String.eqb p.1 key) (sorted_params params) = params !! key.
Proof.
  assert (Hp : sorted_params params ≡ₚ map_to_list params) by apply merge_sort_Permutation.
  destruct (List.find _ _) as [[k v]|] eqn:E.
  - apply find_some in E as [Hin Hk%String.eqb_eq]. cbn [fst] in Hk. subst k. symmetry. cbn [fmap option_fmap option_map snd].
    apply elem_of_map_to_list. rewrite <- Hp. by apply list_elem_of_In.
  - cbn [fmap option_fmap option_map]. symmetry. apply eq_None_not_Some. intros [v Hv]. apply elem_of_map_to_list in Hv. rewrite <- Hp in Hv.
    apply list_elem_of_In in Hv. apply (find_none _ _ E) in Hv. cbn [fst] in Hv. by rewrite String.eqb_refl in Hv.
Qed.

Lemma sorted_keys params : NoDup (map fst (sorted_params params)).
Proof.
  assert (Hp : sorted_params params ≡ₚ map_to_list params) by apply merge_sort_Permutation.
  change (NoDup (fst <$> sorted_params params)). rewrite Hp. apply NoDup_fst_map_to_list.
Qed.

Lemma query_get_Encode key params : params <> ∅ -> query_get key (Encode params) = default "" (params !! key).
Proof.
  intros Hne. unfold query_get. rewrite Split_Encode by done. rewrite get_pair_encode by apply sorted_keys. by rewrite find_sorted.
Qed.

(** * The routing value the transport reads *)

Lemma find_routing l :
  first_routing (map encode_pair l) = QueryEscape <$> (snd <$> List.find (fun p => String.eqb p.1 "routing") l).
Proof.
  induction l as [|[k v] l IH]; [done|]. cbn [map first_routing List.find fst snd].
  destruct (String.eqb_spec k "routing") as [->|Hk].
  - unfold encode_pair. cbn [fst snd]. change (String.append (QueryEscape "routing") (String "=" (QueryEscape v))) with (String.append routingNeedle (QueryEscape v)).
    by rewrite strip_prefix_self.
  - destruct (strip_prefix routingNeedle (encode_pair (k, v))) as [r|] eqn:E; [|exact IH]. exfalso. apply Hk.
    assert (Hc : Cut "=" (encode_pair (k, v)) = (QueryEscape k, QueryEscape v, true)).
    { unfold encode_pair. apply Cut_append. by apply QueryEscape_lacks. }
    rewrite (Cut_prefix "=" "routing" _ r eq_refl E) in Hc. injection Hc as Hk' _ .
    pose proof (QueryEscape_unescape k) as Hu. rewrite <- Hk' in Hu. by injection Hu as <-.
Qed.

(** The value as it is, when it is decoded or has nothing to decode. *)
Definition routing_kept (v : string) : bool := negb (str_has " " v) || str_has "%" (QueryEscape v).

Lemma QueryEscape_plus v : str_has "%" (QueryEscape v) = false -> QueryEscape v = v <-> str_has " " v = false.
Proof.
  induction v as [|a v IH]; [done|]. cbn [QueryEscape]. rewrite (str_has_cons " "), (Ascii.eqb_sym " " a).
  destruct (Ascii.eqb_spec a " ") as [->|Hsp].
  - intros _. by split.
  - destruct (unreserved a); [|done]. rewrite str_has_cons. intros [_ H]%orb_false_iff. rewrite orb_false_l, <- (IH H). split; [by intros [= H']|by intros ->].
Qed.

Lemma Encode_lacks c params : query_byte c = false -> str_has c "&=" = false -> str_has c (Encode params) = false.
Proof.
  intros H1 H2. apply (all_bytes_lacks (fun a => query_byte a || str_has a "&=")); [|by rewrite H1, H2].
  apply all_bytes_concat; [done|]. apply Forall_fmap, Forall_true. intros p. unfold compose, encode_pair. rewrite all_bytes_app, all_bytes_cons.
  assert (H : forall s, all_bytes (fun a => query_byte a || str_has a "&=") (QueryEscape s) = true)
    by (intros s; apply (all_bytes_mono query_byte); [by intros a ->|apply QueryEscape_bytes]).
  by rewrite !H.
Qed.

Lemma extractRouting_Encode params v :
  params !! "routing"%string = Some v -> extractRouting (Encode params) = if routing_kept v then v else QueryEscape v.
Proof.
  intros Hv. assert (Hne : params <> ∅) by (intros ->; done).
  unfold extractRouting. rewrite scan_pairs.
  - rewrite Split_Encode, find_routing, find_sorted, Hv by done. cbn [fmap option_fmap option_map]. unfold routing_kept.
    destruct (String.eqb_spec (QueryEscape v) "") as [E|E].
    + pose proof (QueryEscape_unescape v) as H. rewrite E in H. by injection H as <-.
    + destruct (str_has "%" (QueryEscape v)) eqn:Hp; cbn [negb]; [by rewrite QueryEscape_unescape, orb_true_r|].
      rewrite orb_false_r. destruct (str_has " " v) eqn:Hs; [done|]. by apply QueryEscape_plus.
  - by apply Encode_lacks.
Qed.

Lemma no_routing params : params <> ∅ -> params !! "routing"%string = None -> extractRouting (Encode params) = "".
Proof.
  intros Hne Hv. unfold extractRouting. rewrite scan_pairs.
  - by rewrite Split_Encode, find_routing, find_sorted, Hv.
  - by apply Encode_lacks.
Qed.

(** * Theorems *)

Lemma Request_built method path d body params headers :
  validMethod method = true -> PathUnescape path = Some d ->
  exists rq len, Request method path body params headers = inr (rq, len)
    /\ rq_Method rq = method /\ rq_Path rq = d /\ rq_RawPath rq = path
    /\ rq_RawQuery rq = (if decide (params = ∅) then EmptyString else Encode params)
    /\ (rq_Body rq, len, rq_GetBody rq) = body_parts body
    /\ rq_Header rq = fold_left add_values headers (seed_header body headers).
Proof.
  intros Hm Hd. unfold Request. rewrite Hm, Hd. unfold validMethod in Hm. apply andb_prop in Hm as [He _]. apply negb_true_iff in He. rewrite He.
  cbn [negb]. destruct (body_parts body) as [[rc len] gb]. eexists _, _. split; [reflexivity|]. done.
Qed.

Lemma Encode_nonempty params : params <> ∅ -> isEmpty (Encode params) = false.
Proof.
  intros Hne. pose proof (Split_Encode params Hne) as H. destruct (Encode params); [|done]. cbn [Split] in H.
  destruct (sorted_params params) as [|p l]; [done|]. cbn [map] in H. injection H as H _. unfold encode_pair in H. by destruct (QueryEscape p.1).
Qed.

(** The bytes the caller's reader holds, and whether it is one of the three
    whose contents net/http knows how to replay. *)
Definition contents (body : reader) : option string :=
  match body with NoReader => None | Buffer s | BytesReader s | StringsReader s | OtherReader s => Some s end.
Definition replayable (body : reader) : bool :=
  match body with Buffer _ | BytesReader _ | StringsReader _ => true | NoReader | OtherReader _ => false end.

(** C30: Every request built for a path of the builders reaches the server as it was
    meant. With a valid method build.Request does not fail, and after setReqURL the
    target of the request line is the base path, the path of the builder byte for
    byte (the percent escapes that keep a value inside its segment are neither
    undone nor doubled) and the encoded parameters, when the base path of the
    node's URL needs no escaping; a query parser reads every parameter back from
    the target; the request carries the bytes the caller's reader holds; and when
    that is a Buffer, a bytes.Reader or a strings.Reader the length is theirs and
    GetBody yields the same bytes again, while for any other reader the length is
    unknown and there is no GetBody. *)
Theorem requests_reach_server (b : path_type) (p : pt_type b) (s method : string) (body : reader)
    (params : gmap string string) (headers : list (string * list string)) (u : URL) :
  In b path_types -> Build p = Built s -> validMethod method = true ->
  exists rq len, Request method s body params headers = inr (rq, len)
  /\ rq_Method rq = method
  /\ (plain_path (trimSlashes (u_Path u)) = true ->
      RequestURI (setReqURL u rq)
        = String.append (trimSlashes (u_Path u)) (if decide (params = ∅) then s else String.append s (String "?" (Encode params))))
  /\ (forall key, query_get key (rq_RawQuery (setReqURL u rq)) = default "" (params !! key))
  /\ rq_Body (setReqURL u rq) = contents body
  /\ rq_GetBody (setReqURL u rq) = (if replayable body then Some (contents body) else None)
  /\ len = (if replayable body then Z.of_nat (String.length (default ""%string (contents body))) else 0%Z).
Proof.
  intros _ Hs Hm. destruct (built_template b p s Hs) as (t & _ & _ & Hne & Hpl & Hset & ->).
  set (e := set_fields (fields p)) in *. pose proof (unescape_instantiate e t Hne Hpl Hset) as Hd.
  pose proof (instantiate_bytes e t Hne Hpl Hset) as Hb.
  assert (Hse : instantiate e t <> EmptyString) by (rewrite instantiate_text by done; done).
  destruct (Request_built method _ _ body params headers Hm Hd) as (rq & len & HR & H1 & H2 & H3 & H4 & H5 & _).
  destruct (setReqURL_paths u rq) as (Hu1 & Hu2 & Hu3). rewrite H3 in Hu2. specialize (Hu2 Hse).
  assert (Hbody : rq_Body (setReqURL u rq) = rq_Body rq /\ rq_GetBody (setReqURL u rq) = rq_GetBody rq)
    by (unfold setReqURL; by destruct (String.eqb _ _)).
  exists rq, len. split; [exact HR|]. split; [exact H1|]. split; [|split].
  - intros Hbase. unfold RequestURI. rewrite Hu1, Hu2, Hu3, H2, H4, EscapedPath_built by done.
    assert (He : isEmpty (String.append (trimSlashes (u_Path u)) (instantiate e t)) = false) by (destruct (trimSlashes (u_Path u)), (instantiate e t); done).
    rewrite He. destruct (decide (params = ∅)); [done|]. rewrite Encode_nonempty by done. by rewrite append_assoc.
  - intros key. rewrite Hu3, H4. destruct (decide (params = ∅)) as [->|Hp]; [by rewrite lookup_empty|by apply query_get_Encode].
  - destruct Hbody as [-> ->]. by destruct body; injection H5 as -> -> ->.
Qed.

(** A segment that the transport can find again: no slash, no underscore first. *)
Definition index_like (v : string) : bool := negb (isEmpty v) && negb (str_has "/" v) && negb (starts_underscore v).
Definition id_like (v : string) : bool := negb (isEmpty v) && negb (str_has "/" v) && negb (str_has "?" v).

Lemma extractIndex_built v rest : index_like v = true ->
  extractIndexFromPath (String "/" (String.concat "/" (v :: rest))) = v.
Proof.
  unfold index_like. rewrite !andb_true_iff, !negb_true_iff. intros [[He Hs] Hu]. unfold extractIndexFromPath. cbn [strip_slash].
  change (Ascii.eqb "/" "/") with true. cbv iota. destruct rest as [|w rest].
  - cbn [String.concat]. assert (Hc : Cut "/" v = (v, ""%string, false)).
    { clear He Hu. induction v as [|a v IH]; [done|]. rewrite str_has_cons in Hs. apply orb_false_iff in Hs as [Ha Hs].
      cbn [Cut]. by rewrite Ascii.eqb_sym, Ha, (IH Hs). }
    rewrite Hc, Hu. by destruct v.
  - change (String.concat "/" (v :: w :: rest)) with (String.append v (String "/" (String.concat "/" (w :: rest)))).
    rewrite Cut_append by done. destruct v as [|a v]; [done|]. rewrite append_cons. unfold starts_underscore in *. by rewrite Hu.
Qed.

Lemma cut_any_plain v : str_has "/" v = false -> str_has "?" v = false -> cut_any v = v.
Proof.
  induction v as [|a v IH]; [done|]. rewrite !str_has_cons, !orb_false_iff, (Ascii.eqb_sym "/" a), (Ascii.eqb_sym "?" a). intros [H1 H2] [H3 H4].
  cbn [cut_any]. by rewrite H1, H3, IH.
Qed.

Lemma extractDocument_built v ep d :
  index_like v = true -> In ep documentEndpoints -> id_like d = true ->
  extractDocumentFromPath (String "/" (String.concat "/" [v; ep; d])) = (v, d).
Proof.
  unfold index_like, id_like. rewrite !andb_true_iff, !negb_true_iff. intros [[He Hs] Hu] Hep [[Hde Hds] Hdq].
  assert (Hes : str_has "/" ep = false) by (by repeat (destruct Hep as [<-|Hep]; [reflexivity|])).
  unfold extractDocumentFromPath. cbn [strip_slash]. change (Ascii.eqb "/" "/") with true. cbv iota.
  change (String.concat "/" [v; ep; d]) with (String.append v (String "/" (String.append ep (String "/" d)))).
  rewrite !Cut_append by done. cbn [negb]. rewrite cut_any_plain by done.
  assert (Hx : existsb (String.eqb ep) documentEndpoints = true) by (apply existsb_exists; exists ep; by rewrite String.eqb_refl).
  rewrite Hx. destruct v as [|a v]; [done|]. destruct d as [|c d]; [done|]. rewrite append_cons. unfold starts_underscore in *. by rewrite Hu.
Qed.

(** C31: The transport routes a request of the typed API by what its fields hold. From
    the decoded path of the request the scored routers read the index of a path
    that begins with one (several are joined by commas), and the index and id of a
    path of a document, provided the index does not begin with an underscore and
    neither has a slash (nor the id a question mark); from the query they read the
    routing parameter, exactly when it has no space in it, or has something else in
    it that is percent-escaped: with spaces alone they arrive as plus signs. The
    document paths are those with one of [documentEndpoints] in the middle. *)
Theorem requests_routed (b : path_type) (p : pt_type b) (s method : string) (body : reader)
    (params : gmap string string) (headers : list (string * list string)) (rq : httpRequest) (len : Z) (t : list piece) :
  Build p = Built s -> choose_template (kept p) (map parse_template (templates (pt_type b))) = Some t ->
  Request method s body params headers = inr (rq, len) ->
  let value := decoded_piece (set_fields (fields p)) in
  (forall x rest, t = Param x :: rest -> index_like (value (Param x)) = true -> extractIndexFromPath (rq_Path rq) = value (Param x))
  /\ (forall x ep y, t = [Param x; Lit ep; Param y] -> In ep documentEndpoints ->
      index_like (value (Param x)) = true -> id_like (value (Param y)) = true ->
      extractDocumentFromPath (rq_Path rq) = (value (Param x), value (Param y)))
  /\ (forall v, params !! "routing"%string = Some v ->
      extractRouting (rq_RawQuery rq) = v <-> routing_kept v = true)
  /\ (params !! "routing"%string = None -> extractRouting (rq_RawQuery rq) = "").
Proof.
  intros Hs Ht HR value. destruct (pt_lawful b) as [Hf _]. specialize (Hf p). rewrite Hs, Ht in Hf. injection Hf as Hst.
  destruct (built_template b p s Hs) as (t' & Ht' & Hx & Hne & Hpl & Hset & Hst').
  assert (Hpath : rq_Path rq = decoded_path (set_fields (fields p)) t /\ rq_RawQuery rq = if decide (params = ∅) then EmptyString else Encode params).
  { destruct (pt_lawful b) as [_ Hplain]. rewrite forallb_forall in Hplain.
    assert (Hu : PathUnescape s = Some (decoded_path (set_fields (fields p)) t)).
    { unfold choose_template in Ht. apply find_some in Ht as [Hin Hfit]. apply in_map_iff in Hin as (u & <- & Hin).
      specialize (Hplain u Hin). apply andb_prop in Hplain as [Hp1 Hp2]. rewrite Hst. apply unescape_instantiate; [intros H; by rewrite H in Hp2|done|].
      apply params_set. intros x Hin'%(proj1 (fits_spec _ _) Hfit). unfold kept in Hin'. by apply filter_In in Hin' as [? _]. }
    unfold Request in HR. rewrite Hu in HR. destruct (isEmpty method); [done|]. destruct (negb (validMethod method)); [done|].
    destruct (body_parts body) as [[rc l] gb]. injection HR as <- _. done. }
  destruct Hpath as [-> ->]. unfold decoded_path. split_and!.
  - intros x rest -> Hi. cbn [map]. by apply extractIndex_built.
  - intros x ep y -> Hep Hi Hd. change (map (decoded_piece (set_fields (fields p))) [Param x; Lit ep; Param y]) with [value (Param x); ep; value (Param y)].
    by apply extractDocument_built.
  - intros v Hv. assert (Hp : params <> ∅) by (intros ->; done). destruct (decide (params = ∅)); [done|].
    rewrite (extractRouting_Encode params v Hv). destruct (routing_kept v) eqn:Hk; [done|]. split; [|done]. intros Hq. exfalso.
    unfold routing_kept in Hk. apply orb_false_iff in Hk as [Hk1 Hk2]. apply (proj1 (QueryEscape_plus v Hk2)) in Hq. by rewrite Hq in Hk1.
  - intros Hv. destruct (decide (params = ∅)); [done|by apply no_routing].
Qed.

(** * Witnesses, and where the code departs from its comments *)

Definition ex_path : GetPath := MkGetPath "logs" "2024/01?x".
Definition ex_params : gmap string string := {["routing"%string := "a/b c"%string; "pretty"%string := "true"%string]}.
Definition ex_node (base : string) : URL := MkURL "http" "n1:9200" base None.

Lemma requests_reach_server_witness :
  exists rq len, Request "GET" "/logs/_doc/2024%2F01%3Fx" (StringsReader "{}") ex_params [] = inr (rq, len)
    /\ (rq_Body (setReqURL (ex_node "/os/") rq), rq_GetBody (setReqURL (ex_node "/os/") rq), len) = (Some "{}", Some (Some "{}"), 2%Z)%string
    /\ RequestURI (setReqURL (ex_node "/os/") rq) = "/os/logs/_doc/2024%2F01%3Fx?pretty=true&routing=a%2Fb+c"%string
    /\ query_get "routing" (rq_RawQuery rq) = "a/b c"%string.
Proof.
  assert (Hin : In ex_get path_types) by (unfold path_types; apply in_or_app; left; unfold pathsCore, ex_get; repeat ((left; reflexivity) || right)).
  destruct (requests_reach_server ex_get ex_path "/logs/_doc/2024%2F01%3Fx" "GET" (StringsReader "{}") ex_params [] (ex_node "/os/") Hin) as (rq & len & H1 & _ & H2 & H3 & H4 & H5 & H6);
    [reflexivity|reflexivity|].
  exists rq, len. split; [exact H1|]. split; [by rewrite H4, H5, H6|]. split.
  - rewrite H2 by reflexivity. vm_compute. reflexivity.
  - specialize (H3 "routing"%string). destruct (setReqURL_paths (ex_node "/os/") rq) as (_ & _ & Hq). rewrite Hq in H3. rewrite H3. vm_compute. reflexivity.
Defined.

Definition ex_doc : GetPath := MkGetPath "logs" "7".
Definition ex_request : httpRequest * Z :=
  match Request "GET" "/logs/_doc/7" NoReader ex_params [] with inr r => r | inl _ => (MkHttpRequest "" "" "" "" "" "" ∅ None None, 0%Z) end.

Lemma requests_routed_witness :
  extractDocumentFromPath (rq_Path ex_request.1) = ("logs"%string, "7"%string) /\ extractRouting (rq_RawQuery ex_request.1) = "a/b c"%string.
Proof.
  destruct (requests_routed ex_get ex_doc "/logs/_doc/7" "GET" NoReader ex_params [] ex_request.1 ex_request.2 [Param "index"; Lit "_doc"; Param "id"])
    as (_ & H2 & H3 & _); [reflexivity|reflexivity|vm_compute; reflexivity|].
  split.
  - apply (H2 "index" "_doc" "id")%string; [reflexivity|left; reflexivity|reflexivity|reflexivity].
  - apply (H3 "a/b c"%string); reflexivity.
Defined.

(** A base path with a byte that needs escaping: the escaped form is no longer
    valid, and the slash inside an id becomes a separator. *)
Lemma base_path_unescapes :
  match Request "GET" "/logs/_doc/2024%2F01" NoReader ∅ [] with
  | inr (rq, _) => RequestURI (setReqURL (ex_node "/my base") rq) = "/my%20base/logs/_doc/2024/01"%string
  | inl _ => False end.
Proof. vm_compute. reflexivity. Qed.

(** A segment of two dots stays one. *)
Lemma dot_segment_kept : Build (MkGetPath ".." "..") = Built "/../_doc/..".
Proof. reflexivity. Qed.

(** A lone space in a routing value. *)
Lemma routing_space_lost :
  match Request "GET" "/logs/_doc/7" NoReader {["routing"%string := "a b"%string]} [] with
  | inr (rq, _) => extractRouting (rq_RawQuery rq) = "a+b"%string /\ query_get "routing" (rq_RawQuery rq) = "a b"%string
  | inl _ => False end.
Proof. vm_compute. by split. Qed.

(** A content type under another spelling of its name is added to the default. *)
Lemma content_type_added :
  match Request "POST" "/_bulk" (Buffer "{}") ∅ [("content-type"%string, ["application/x-ndjson"%string])] with
  | inr (rq, _) => rq_Header rq !! HeaderContentType = Some ["application/json"; "application/x-ndjson"]%string
  | inl _ => False end.
Proof. vm_compute. reflexivity. Qed.
