(* ===== verification/ApiRequest.v ===== *)
(** * Requests of the typed API

    What the generated GetRequest methods and parameter encoders of opensearchapi
    and plugins share: internal/params, apiutil.FormatDuration, the statements of a
    [get] method, and the skeleton of GetRequest; then the class [operation] of the
    request types, its laws, and what its instances send.

    A typed body is what json.Marshal answers for it; [None] is an error. The
    caller's headers are the pairs in the order the map is ranged over. *)

From Stdlib Require Import ZArith Lia Ascii String.
From stdpp Require Import base gmap list strings sorting.
From S2P Require Import Prelude.
From S2P Require Import GoStrings.
From S2P Require Import Paths.
From S2P Require Import Stream.
From S2P Require Import ShardRouting.
From S2P Require Import PathSpec.
From S2P Require Import ReqBuild.
Open Scope list_scope.
Open Scope bool_scope.

(** * Parameters *)

(** A parameter and its value, when there is one to send. *)
Definition param : Type := string * option string.

Definition FormatDuration (d : Z) : string :=
  if (d <? 1000000)%Z then String.append (Itoa d) "nanos" else String.append (Itoa (d / 1000000)) "ms".
Definition FormatBool (b : bool) : string := if b then "true" else "false".

(** The guards of the encoders: a pointer that is not nil, a string that is not
    empty, a list that is not empty, a number that is not zero, a set flag. *)
Definition boolPtr (b : option bool) : option string := FormatBool <$> b.
Definition intPtr (n : option Z) : option string := Itoa <$> n.
Definition nonEmpty (s : string) : option string := if isSet s then Some s else None.
Definition joined (l : list string) : option string := match l with [] => None | _ => Some (String.concat "," l) end.
Definition nonZero (n : Z) : option string := if (n =? 0)%Z then None else Some (Itoa n).
Definition duration (d : Z) : option string := if (d =? 0)%Z then None else Some (FormatDuration d).
Definition flag (b : bool) : option string := if b then Some "true"%string else None.

Record TimeoutParams := MkTimeoutParams { Timeout : Z; ClusterManagerTimeout : Z; MasterTimeout : Z }.
Record DebugParams := MkDebugParams {
  Pretty : bool; Human : bool; ErrorTrace : bool; FilterPath : list string; Source : string;
  Format : string; Help : bool; Verbose : bool; SortBy : list string; Columns : list string }.
Definition noTimeout : TimeoutParams := MkTimeoutParams 0 0 0.
Definition noDebug : DebugParams := MkDebugParams false false false [] "" "" false false [] [].

Definition EncodeTimeout (p : TimeoutParams) : list param :=
  [("timeout", duration (Timeout p)); ("cluster_manager_timeout", duration (ClusterManagerTimeout p));
   ("master_timeout", duration (MasterTimeout p))]%string.
Definition EncodeDebug (p : DebugParams) : list param :=
  [("pretty", flag (Pretty p)); ("human", flag (Human p)); ("error_trace", flag (ErrorTrace p));
   ("filter_path", joined (FilterPath p)); ("source", nonEmpty (Source p)); ("format", nonEmpty (Format p));
   ("help", flag (Help p)); ("v", flag (Verbose p)); ("s", joined (SortBy p)); ("h", joined (Columns p))]%string.
(** The format of an operation whose response decodes from one only. *)
Definition defaultFormat (f : string) (p : DebugParams) : list param := [("format"%string, if isEmpty (Format p) then Some f else None)].

(** The map a [get] method makes: its writes in order. *)
Definition set_param (m : gmap string string) (p : param) : gmap string string :=
  match p.2 with Some v => <[p.1 := v]> m | None => m end.
Definition encode_params (l : list param) : gmap string string := fold_left set_param l ∅.

(** * What the fields of a parameter struct say

    A field by its Go type, and the text the server is to read for it: a pointer
    that is nil, an empty string or list, zero and false say nothing. *)
Inductive slot :=
| BoolPtr (b : option bool) | IntPtr (n : option Z) | Text (s : string) | TextList (l : list string)
| Int (n : Z) | Duration (d : Z) | Flag (b : bool).
Definition rendered (v : slot) : option string :=
  match v with
  | BoolPtr (Some true) | Flag true => Some "true"
  | BoolPtr (Some false) => Some "false"
  | IntPtr (Some n) => Some (Itoa n)
  | Text (String a s) => Some (String a s)
  | TextList (x :: l) => Some (String.concat "," (x :: l))
  | Int n => if decide (n = 0%Z) then None else Some (Itoa n)
  | Duration d =>
    if decide (d = 0%Z) then None
    else if decide (1000000 <= d)%Z then Some (String.append (Itoa (d / 1000000)) "ms") else Some (String.append (Itoa d) "nanos")
  | _ => None
  end%string.

(** The Go name of a field names a key when they are the same letters and
    digits, whatever their case; nine operations call their index parameter
    Indices. *)
Definition lower (a : ascii) : ascii :=
  if (65 <=? code a)%Z && (code a <=? 90)%Z then ascii_of_nat (nat_of_ascii a + 32) else a.
Fixpoint squash (s : string) : string :=
  match s with
  | EmptyString => EmptyString
  | String a s => if mem (String a EmptyString) ["_"; "."; "-"]%string then squash s else String (lower a) (squash s)
  end.
Definition names (field key : string) : bool :=
  String.eqb (squash field) (squash key) || (String.eqb field "Indices" && String.eqb key "index").

(** The fields every operation has, with their keys. *)
Definition common_slots (t : TimeoutParams) (d : DebugParams) : list (string * slot) :=
  [("timeout", Duration (Timeout t)); ("cluster_manager_timeout", Duration (ClusterManagerTimeout t));
   ("master_timeout", Duration (MasterTimeout t)); ("pretty", Flag (Pretty d)); ("human", Flag (Human d));
   ("error_trace", Flag (ErrorTrace d)); ("filter_path", TextList (FilterPath d)); ("source", Text (Source d));
   ("format", Text (Format d)); ("help", Flag (Help d)); ("v", Flag (Verbose d)); ("s", TextList (SortBy d));
   ("h", TextList (Columns d))]%string.

Lemma boolPtr_rendered b : boolPtr b = rendered (BoolPtr b).
Proof. by destruct b as [[]|]. Qed.
Lemma intPtr_rendered n : intPtr n = rendered (IntPtr n).
Proof. by destruct n. Qed.
Lemma nonEmpty_rendered s : nonEmpty s = rendered (Text s).
Proof. by destruct s. Qed.
Lemma joined_rendered l : joined l = rendered (TextList l).
Proof. by destruct l. Qed.
Lemma nonZero_rendered n : nonZero n = rendered (Int n).
Proof. unfold nonZero, rendered. by destruct (Z.eqb_spec n 0), (decide (n = 0%Z)). Qed.
Lemma duration_rendered d : duration d = rendered (Duration d).
Proof.
  unfold duration, rendered, FormatDuration. destruct (Z.eqb_spec d 0), (decide (d = 0%Z)); try done.
  destruct (Z.ltb_spec d 1000000), (decide (1000000 <= d)%Z); try done; lia.
Qed.
Lemma flag_rendered b : flag b = rendered (Flag b).
Proof. by destruct b. Qed.

(** * GetRequest *)

Inductive request_error := PathError (what : string) | MarshalError | BuildError (e : build_error).
Definition headers : Type := list (string * list string).

(** The body of a request: a typed body before a reader. *)
Definition json_body (body : option (option string)) (bodyReader : reader) : request_error + reader :=
  match body with
  | Some (Some data) => inr (BytesReader data)
  | Some None => inl MarshalError
  | None => inr bodyReader
  end.
Definition raw_body (body : reader) : request_error + reader := inr body.
Definition no_body : request_error + reader := inr NoReader.

(** Header.Get and Header.Set of the content type, on the caller's map. *)
Definition content_type (h : headers) : string :=
  match List.find (fun p => String.eqb p.1 HeaderContentType) h with Some (_, v :: _) => v | _ => "" end.
Definition ContentTypeNDJSON : string := "application/x-ndjson".
Definition ndjson_headers (h : headers) : headers :=
  if isEmpty (content_type h)
  then List.filter (fun p => negb (String.eqb p.1 HeaderContentType)) h ++ [(HeaderContentType, [ContentTypeNDJSON])]
  else h.

Definition send (method : string) (path : built) (params : gmap string string) (body : request_error + reader) (h : headers)
  : request_error + httpRequest * Z :=
  match path with
  | Refused what => inl (PathError what)
  | Built s =>
    match body with
    | inl e => inl e
    | inr rd => match Request method s rd params h with inl e => inl (BuildError e) | inr r => inr r end
    end
  end.

(** The method of an operation that takes a body with POST only. *)
Definition hasReader (r : reader) : bool := match r with NoReader => false | _ => true end.
Definition method_by_body (body : option (option string)) (bodyReader : reader) : string :=
  if bool_decide (body <> None) || hasReader bodyReader then "POST" else "GET".

Definition method_by_reader (body : reader) : string := if hasReader body then "POST" else "GET".

(** * The class of request types *)

(** [op_own]: the parameters of the operation itself; [op_format]: the
    format sent when the caller sets none; [op_defaults]: the parameters used when
    the caller passes nil. [op_described] and [op_query] are the methods with their
    paths and the query parameters of the operation in the API description.
    [op_slots]: the fields of the operation's own parameter struct, by name. *)
Class operation (R : Type) := {
  op_path : path_type;
  op_P : Type;
  op_fields : R -> pt_type op_path;
  op_params : R -> option op_P;
  op_defaults : option op_P;
  op_timeout : op_P -> TimeoutParams;
  op_debug : op_P -> DebugParams;
  op_format : option string;
  op_own : op_P -> list param;
  op_slots : list (string * (op_P -> slot));
  op_body : R -> request_error + reader;
  op_headers : R -> headers;
  Method : R -> string;
  GetRequest : R -> string -> request_error + httpRequest * Z;
  op_keys : list string;
  op_described : list (string * string);
  op_query : list string }.
Arguments op_path R {_}.
Arguments op_P R {_}.
Arguments op_defaults R {_}.
Arguments op_format R {_}.
Arguments op_keys R {_}.
Arguments op_slots R {_}.
Arguments op_described R {_}.
Arguments op_query R {_}.

Definition get_params `{operation R} (q : op_P R) : list param :=
  EncodeTimeout (op_timeout q) ++ EncodeDebug (op_debug q) ++ (match op_format R with Some f => defaultFormat f (op_debug q) | None => [] end) ++ op_own q.
Definition query_of `{operation R} (r : R) : gmap string string :=
  match op_params r with
  | Some q => encode_params (get_params q)
  | None => match op_defaults R with Some q => encode_params (get_params q) | None => ∅ end
  end.

Definition common_keys : list string :=
  ["timeout"; "cluster_manager_timeout"; "master_timeout"; "pretty"; "human"; "error_trace"; "filter_path"; "source"; "format"; "help"; "v"; "s"; "h"]%string.
Fixpoint distinct (l : list string) : bool := match l with [] => true | x :: l => negb (mem x l) && distinct l end.
Definition described (l : list (string * string)) (m t : string) : bool := existsb (fun p => String.eqb p.1 m && String.eqb p.2 t) l.
(** The operations that send a format the description does not give them. *)
Definition undescribed_format : list string := ["CatHelpPath"; "ListHelpPath"]%string.

Class LawfulOp (R : Type) `{operation R} : Prop := {
  op_request (r : R) (m : string) : GetRequest r m = send m (Build (op_fields r)) (query_of r) (op_body r) (op_headers r);
  op_keys_fixed (q : op_P R) : map fst (op_own q) = op_keys R;
  op_slots_sent (q : op_P R) : Forall2 (fun p f => p.2 = rendered (f.2 q)) (op_own q) (op_slots R);
  op_slots_named : map (fun f => List.filter (names f.1) (op_query R)) (op_slots R) = map (fun k => [k]) (op_keys R);
  op_keys_distinct : distinct (common_keys ++ op_keys R) = true;
  op_keys_described : forallb (fun k => mem k (op_query R)) (op_keys R) && forallb (fun k => mem k (common_keys ++ op_keys R)) (op_query R) = true;
  op_format_described : match op_format R with Some _ => true | None => false end && negb (mem (pt_name (op_path R)) undescribed_format) && negb (mem "format" (op_query R)) = false;
  op_body_errors (r : R) : match op_body r with inl e => e = MarshalError | inr _ => True end;
  op_method_token (r : R) : validMethod (Method r) = true;
  op_methods_described (r : R) : forallb (described (op_described R) (Method r)) (templates (pt_type (op_path R))) = true }.

Arguments op_keys_distinct R {_ _}.
Arguments op_slots_named R {_ _}.
Arguments op_keys_described R {_ _}.
Arguments op_format_described R {_ _}.

Record operation_type := MkOperationType { ot_name : string; ot_req : Type; ot_op :: operation ot_req; ot_lawful :: LawfulOp ot_req }.

Lemma by_body (P : string -> bool) b r : P "POST"%string = true -> P "GET"%string = true -> P (method_by_body b r) = true.
Proof. unfold method_by_body. by destruct (_ || _). Qed.
Lemma by_reader (P : string -> bool) r : P "POST"%string = true -> P "GET"%string = true -> P (method_by_reader r) = true.
Proof. unfold method_by_reader. by destruct (hasReader r). Qed.

Lemma json_body_errors b r : match json_body b r with inl e => e = MarshalError | inr _ => True end.
Proof. by destruct b as [[d|]|]. Qed.

(** Each write of a [get] method against its field. *)
Ltac by_field :=
  lazymatch goal with |- Forall2 ?P ?l ?k => let l := eval hnf in l in let k := eval hnf in k in change (Forall2 P l k) end;
  repeat (apply Forall2_cons_2;
    [ cbn [fst snd];
      lazymatch goal with
      | |- boolPtr _ = _ => apply boolPtr_rendered
      | |- intPtr _ = _ => apply intPtr_rendered
      | |- nonEmpty _ = _ => apply nonEmpty_rendered
      | |- joined _ = _ => apply joined_rendered
      | |- nonZero _ = _ => apply nonZero_rendered
      | |- duration _ = _ => apply duration_rendered
      end | ]);
  apply Forall2_nil_2.

(** The laws of a request type: by its definitions, and by evaluation. *)
Ltac by_method r :=
  first [ vm_compute; reflexivity
        | refine (by_body _ _ _ _ _); vm_compute; reflexivity
        | refine (by_reader _ _ _ _); vm_compute; reflexivity ].
Ltac operate :=
  split;
  [ intros r m; reflexivity | intros q; reflexivity | intros q; by_field | vm_compute; reflexivity | vm_compute; reflexivity | vm_compute; reflexivity | vm_compute; reflexivity
  | intros r; first [exact I | apply json_body_errors]
  | intros r; change (validMethod (Method r)) with ((fun m => validMethod m) (Method r)); by_method r
  | intros r; match goal with |- forallb (described ?d (Method r)) ?l = true => change ((fun m => forallb (described d m) l) (Method r) = true) end; by_method r ].
