(* ===== verification/ApiDocs.v ===== *)
(** * Requests for documents, searches and scripts

    The request types of opensearchapi and plugins for documents, searches and scripts: the parameters
    with their [get], GetRequest, and the method of the client's call, each
    with its instance of [operation] and the part of opensearch-openapi.yaml it is
    compared with. *)

From Stdlib Require Import ZArith Ascii String.
From stdpp Require Import base gmap list strings.
From S2P Require Import Paths.
From S2P Require Import Stream.
From S2P Require Import PathsCore.
From S2P Require Import ReqBuild.
From S2P Require Import ApiRequest.
Open Scope string_scope.
Open Scope list_scope.

Record BulkParams := MkBulkParams { BulkParams_TimeoutParams : TimeoutParams; BulkParams_DebugParams : DebugParams; BulkParams_Source : string; BulkParams_SourceExcludes : list string;
  BulkParams_SourceIncludes : list string; BulkParams_Index : string; BulkParams_Pipeline : string; BulkParams_Refresh : string;
  BulkParams_RequireAlias : option bool; BulkParams_Routing : string; BulkParams_Type : string; BulkParams_WaitForActiveShards : string }.
Definition BulkParams_own (q : BulkParams) : list param :=
  [("_source", nonEmpty (BulkParams_Source q)); ("_source_excludes", joined (BulkParams_SourceExcludes q));
  ("_source_includes", joined (BulkParams_SourceIncludes q)); ("index", nonEmpty (BulkParams_Index q)); ("pipeline", nonEmpty (BulkParams_Pipeline q));
  ("refresh", nonEmpty (BulkParams_Refresh q)); ("require_alias", boolPtr (BulkParams_RequireAlias q)); ("routing", nonEmpty (BulkParams_Routing q));
  ("type", nonEmpty (BulkParams_Type q)); ("wait_for_active_shards", nonEmpty (BulkParams_WaitForActiveShards q))].
Definition BulkParams_slots : list (string * (BulkParams -> slot)) :=
  [("Source", fun q => Text (BulkParams_Source q)); ("SourceExcludes", fun q => TextList (BulkParams_SourceExcludes q));
  ("SourceIncludes", fun q => TextList (BulkParams_SourceIncludes q)); ("Index", fun q => Text (BulkParams_Index q));
  ("Pipeline", fun q => Text (BulkParams_Pipeline q)); ("Refresh", fun q => Text (BulkParams_Refresh q));
  ("RequireAlias", fun q => BoolPtr (BulkParams_RequireAlias q)); ("Routing", fun q => Text (BulkParams_Routing q));
  ("Type", fun q => Text (BulkParams_Type q)); ("WaitForActiveShards", fun q => Text (BulkParams_WaitForActiveShards q))].
Definition BulkParams_get (q : BulkParams) : gmap string string :=
  encode_params (EncodeTimeout (BulkParams_TimeoutParams q) ++ EncodeDebug (BulkParams_DebugParams q) ++ BulkParams_own q).
Record BulkReq := MkBulkReq { BulkReq_Index : string; BulkReq_Body : reader; BulkReq_Header : headers; BulkReq_Params : option BulkParams }.
Definition BulkReq_GetRequest (r : BulkReq) (method : string) : request_error + httpRequest * Z :=
  send method (BulkPath_Build (MkBulkPath (BulkReq_Index r)))
    (match BulkReq_Params r with Some q => BulkParams_get q | None => ∅ end)
    (raw_body (BulkReq_Body r)) (ndjson_headers (BulkReq_Header r)).
Definition Bulk_Method (r : BulkReq) : string := "POST".
#[export] Instance Bulk_operation : operation BulkReq :=
  {| op_path := MkPathType "BulkPath" BulkPath _ _; op_P := BulkParams; op_fields r := MkBulkPath (BulkReq_Index r);
     op_params := BulkReq_Params; op_defaults := None; op_timeout := BulkParams_TimeoutParams; op_debug := BulkParams_DebugParams;
     op_format := None; op_own := BulkParams_own; op_slots := BulkParams_slots;
     op_body r := raw_body (BulkReq_Body r); op_headers r := ndjson_headers (BulkReq_Header r);
     Method := Bulk_Method; GetRequest := BulkReq_GetRequest;
     op_keys := ["_source"; "_source_excludes"; "_source_includes"; "index"; "pipeline"; "refresh"; "require_alias"; "routing"; "type"; "wait_for_active_shards"];
     op_described := [("POST", "/_bulk"); ("PUT", "/_bulk"); ("POST", "/{index}/_bulk"); ("PUT", "/{index}/_bulk")];
     op_query := ["_source"; "_source_excludes"; "_source_includes"; "index"; "pipeline"; "refresh"; "require_alias"; "routing"; "type"; "wait_for_active_shards"] |}.
#[export] Instance Bulk_operates : LawfulOp BulkReq.
Proof. operate. Qed.

Record BulkStreamParams := MkBulkStreamParams { BulkStreamParams_TimeoutParams : TimeoutParams; BulkStreamParams_DebugParams : DebugParams; BulkStreamParams_Source : string;
  BulkStreamParams_SourceExcludes : list string; BulkStreamParams_SourceIncludes : list string; BulkStreamParams_BatchInterval : Z;
  BulkStreamParams_BatchSize : Z; BulkStreamParams_Pipeline : string; BulkStreamParams_Refresh : string; BulkStreamParams_RequireAlias : option bool;
  BulkStreamParams_Routing : list string; BulkStreamParams_Type : string; BulkStreamParams_WaitForActiveShards : string }.
Definition BulkStreamParams_own (q : BulkStreamParams) : list param :=
  [("_source", nonEmpty (BulkStreamParams_Source q)); ("_source_excludes", joined (BulkStreamParams_SourceExcludes q));
  ("_source_includes", joined (BulkStreamParams_SourceIncludes q)); ("batch_interval", duration (BulkStreamParams_BatchInterval q));
  ("batch_size", nonZero (BulkStreamParams_BatchSize q)); ("pipeline", nonEmpty (BulkStreamParams_Pipeline q));
  ("refresh", nonEmpty (BulkStreamParams_Refresh q)); ("require_alias", boolPtr (BulkStreamParams_RequireAlias q));
  ("routing", joined (BulkStreamParams_Routing q)); ("type", nonEmpty (BulkStreamParams_Type q));
  ("wait_for_active_shards", nonEmpty (BulkStreamParams_WaitForActiveShards q))].
Definition BulkStreamParams_slots : list (string * (BulkStreamParams -> slot)) :=
  [("Source", fun q => Text (BulkStreamParams_Source q)); ("SourceExcludes", fun q => TextList (BulkStreamParams_SourceExcludes q));
  ("SourceIncludes", fun q => TextList (BulkStreamParams_SourceIncludes q)); ("BatchInterval", fun q => Duration (BulkStreamParams_BatchInterval q));
  ("BatchSize", fun q => Int (BulkStreamParams_BatchSize q)); ("Pipeline", fun q => Text (BulkStreamParams_Pipeline q));
  ("Refresh", fun q => Text (BulkStreamParams_Refresh q)); ("RequireAlias", fun q => BoolPtr (BulkStreamParams_RequireAlias q));
  ("Routing", fun q => TextList (BulkStreamParams_Routing q)); ("Type", fun q => Text (BulkStreamParams_Type q));
  ("WaitForActiveShards", fun q => Text (BulkStreamParams_WaitForActiveShards q))].
Definition BulkStreamParams_get (q : BulkStreamParams) : gmap string string :=
  encode_params (EncodeTimeout (BulkStreamParams_TimeoutParams q) ++ EncodeDebug (BulkStreamParams_DebugParams q) ++ BulkStreamParams_own q).
Record BulkStreamReq := MkBulkStreamReq { BulkStreamReq_Index : string; BulkStreamReq_Body : reader; BulkStreamReq_Header : headers; BulkStreamReq_Params : option BulkStreamParams }.
Definition BulkStreamReq_GetRequest (r : BulkStreamReq) (method : string) : request_error + httpRequest * Z :=
  send method (BulkStreamPath_Build (MkBulkStreamPath (BulkStreamReq_Index r)))
    (match BulkStreamReq_Params r with Some q => BulkStreamParams_get q | None => ∅ end)
    (raw_body (BulkStreamReq_Body r)) (ndjson_headers (BulkStreamReq_Header r)).
Definition BulkStream_Method (r : BulkStreamReq) : string := "POST".
#[export] Instance BulkStream_operation : operation BulkStreamReq :=
  {| op_path := MkPathType "BulkStreamPath" BulkStreamPath _ _; op_P := BulkStreamParams; op_fields r := MkBulkStreamPath (BulkStreamReq_Index r);
     op_params := BulkStreamReq_Params; op_defaults := None; op_timeout := BulkStreamParams_TimeoutParams; op_debug := BulkStreamParams_DebugParams;
     op_format := None; op_own := BulkStreamParams_own; op_slots := BulkStreamParams_slots;
     op_body r := raw_body (BulkStreamReq_Body r); op_headers r := ndjson_headers (BulkStreamReq_Header r);
     Method := BulkStream_Method; GetRequest := BulkStreamReq_GetRequest;
     op_keys := ["_source"; "_source_excludes"; "_source_includes"; "batch_interval"; "batch_size"; "pipeline"; "refresh"; "require_alias"; "routing"; "type";
        "wait_for_active_shards"];
     op_described := [("POST", "/_bulk/stream"); ("PUT", "/_bulk/stream"); ("POST", "/{index}/_bulk/stream"); ("PUT", "/{index}/_bulk/stream")];
     op_query := ["_source"; "_source_excludes"; "_source_includes"; "batch_interval"; "batch_size"; "pipeline"; "refresh"; "require_alias"; "routing"; "type";
        "wait_for_active_shards"] |}.
#[export] Instance BulkStream_operates : LawfulOp BulkStreamReq.
Proof. operate. Qed.

Record ClearScrollParams := MkClearScrollParams { ClearScrollParams_TimeoutParams : TimeoutParams; ClearScrollParams_DebugParams : DebugParams }.
Definition ClearScrollParams_own (q : ClearScrollParams) : list param :=
  [].
Definition ClearScrollParams_slots : list (string * (ClearScrollParams -> slot)) :=
  [].
Definition ClearScrollParams_get (q : ClearScrollParams) : gmap string string :=
  encode_params (EncodeTimeout (ClearScrollParams_TimeoutParams q) ++ EncodeDebug (ClearScrollParams_DebugParams q) ++ ClearScrollParams_own q).
Record ClearScrollReq := MkClearScrollReq { ClearScrollReq_ScrollID : list string; ClearScrollReq_Body : option (option string); ClearScrollReq_BodyReader : reader;
  ClearScrollReq_Header : headers; ClearScrollReq_Params : option ClearScrollParams }.
Definition ClearScrollReq_GetRequest (r : ClearScrollReq) (method : string) : request_error + httpRequest * Z :=
  send method (ClearScrollPath_Build (MkClearScrollPath (ClearScrollReq_ScrollID r)))
    (match ClearScrollReq_Params r with Some q => ClearScrollParams_get q | None => ∅ end)
    (json_body (ClearScrollReq_Body r) (ClearScrollReq_BodyReader r)) (ClearScrollReq_Header r).
Definition ClearScroll_Method (r : ClearScrollReq) : string := "DELETE".
#[export] Instance ClearScroll_operation : operation ClearScrollReq :=
  {| op_path := MkPathType "ClearScrollPath" ClearScrollPath _ _; op_P := ClearScrollParams; op_fields r := MkClearScrollPath (ClearScrollReq_ScrollID r);
     op_params := ClearScrollReq_Params; op_defaults := None; op_timeout := ClearScrollParams_TimeoutParams; op_debug := ClearScrollParams_DebugParams;
     op_format := None; op_own := ClearScrollParams_own; op_slots := ClearScrollParams_slots;
     op_body r := json_body (ClearScrollReq_Body r) (ClearScrollReq_BodyReader r); op_headers r := ClearScrollReq_Header r;
     Method := ClearScroll_Method; GetRequest := ClearScrollReq_GetRequest;
     op_keys := [];
     op_described := [("DELETE", "/_search/scroll"); ("DELETE", "/_search/scroll/{scroll_id}")];
     op_query := [] |}.
#[export] Instance ClearScroll_operates : LawfulOp ClearScrollReq.
Proof. operate. Qed.

Record CountParams := MkCountParams { CountParams_TimeoutParams : TimeoutParams; CountParams_DebugParams : DebugParams; CountParams_AllowNoIndices : option bool;
  CountParams_AnalyzeWildcard : option bool; CountParams_Analyzer : string; CountParams_DefaultOperator : string; CountParams_Df : string;
  CountParams_ExpandWildcards : list string; CountParams_IgnoreThrottled : option bool; CountParams_IgnoreUnavailable : option bool;
  CountParams_Lenient : option bool; CountParams_MinScore : Z; CountParams_Preference : string; CountParams_Q : string;
  CountParams_Routing : list string; CountParams_TerminateAfter : Z }.
Definition CountParams_own (q : CountParams) : list param :=
  [("allow_no_indices", boolPtr (CountParams_AllowNoIndices q)); ("analyze_wildcard", boolPtr (CountParams_AnalyzeWildcard q));
  ("analyzer", nonEmpty (CountParams_Analyzer q)); ("default_operator", nonEmpty (CountParams_DefaultOperator q)); ("df", nonEmpty (CountParams_Df q));
  ("expand_wildcards", joined (CountParams_ExpandWildcards q)); ("ignore_throttled", boolPtr (CountParams_IgnoreThrottled q));
  ("ignore_unavailable", boolPtr (CountParams_IgnoreUnavailable q)); ("lenient", boolPtr (CountParams_Lenient q));
  ("min_score", nonZero (CountParams_MinScore q)); ("preference", nonEmpty (CountParams_Preference q)); ("q", nonEmpty (CountParams_Q q));
  ("routing", joined (CountParams_Routing q)); ("terminate_after", nonZero (CountParams_TerminateAfter q))].
Definition CountParams_slots : list (string * (CountParams -> slot)) :=
  [("AllowNoIndices", fun q => BoolPtr (CountParams_AllowNoIndices q)); ("AnalyzeWildcard", fun q => BoolPtr (CountParams_AnalyzeWildcard q));
  ("Analyzer", fun q => Text (CountParams_Analyzer q)); ("DefaultOperator", fun q => Text (CountParams_DefaultOperator q));
  ("Df", fun q => Text (CountParams_Df q)); ("ExpandWildcards", fun q => TextList (CountParams_ExpandWildcards q));
  ("IgnoreThrottled", fun q => BoolPtr (CountParams_IgnoreThrottled q)); ("IgnoreUnavailable", fun q => BoolPtr (CountParams_IgnoreUnavailable q));
  ("Lenient", fun q => BoolPtr (CountParams_Lenient q)); ("MinScore", fun q => Int (CountParams_MinScore q));
  ("Preference", fun q => Text (CountParams_Preference q)); ("Q", fun q => Text (CountParams_Q q));
  ("Routing", fun q => TextList (CountParams_Routing q)); ("TerminateAfter", fun q => Int (CountParams_TerminateAfter q))].
Definition CountParams_get (q : CountParams) : gmap string string :=
  encode_params (EncodeTimeout (CountParams_TimeoutParams q) ++ EncodeDebug (CountParams_DebugParams q) ++ CountParams_own q).
Record CountReq := MkCountReq { CountReq_Indices : list string; CountReq_Body : option (option string); CountReq_BodyReader : reader; CountReq_Header : headers;
  CountReq_Params : option CountParams }.
Definition CountReq_GetRequest (r : CountReq) (method : string) : request_error + httpRequest * Z :=
  send method (CountPath_Build (MkCountPath (CountReq_Indices r)))
    (match CountReq_Params r with Some q => CountParams_get q | None => ∅ end)
    (json_body (CountReq_Body r) (CountReq_BodyReader r)) (CountReq_Header r).
Definition Count_Method (r : CountReq) : string := method_by_body (CountReq_Body r) (CountReq_BodyReader r).
#[export] Instance Count_operation : operation CountReq :=
  {| op_path := MkPathType "CountPath" CountPath _ _; op_P := CountParams; op_fields r := MkCountPath (CountReq_Indices r);
     op_params := CountReq_Params; op_defaults := None; op_timeout := CountParams_TimeoutParams; op_debug := CountParams_DebugParams;
     op_format := None; op_own := CountParams_own; op_slots := CountParams_slots;
     op_body r := json_body (CountReq_Body r) (CountReq_BodyReader r); op_headers r := CountReq_Header r;
     Method := Count_Method; GetRequest := CountReq_GetRequest;
     op_keys := ["allow_no_indices"; "analyze_wildcard"; "analyzer"; "default_operator"; "df"; "expand_wildcards"; "ignore_throttled"; "ignore_unavailable";
        "lenient"; "min_score"; "preference"; "q"; "routing"; "terminate_after"];
     op_described := [("GET", "/_count"); ("POST", "/_count"); ("GET", "/{index}/_count"); ("POST", "/{index}/_count")];
     op_query := ["allow_no_indices"; "analyze_wildcard"; "analyzer"; "default_operator"; "df"; "expand_wildcards"; "ignore_throttled"; "ignore_unavailable";
        "lenient"; "min_score"; "preference"; "q"; "routing"; "terminate_after"] |}.
#[export] Instance Count_operates : LawfulOp CountReq.
Proof. operate. Qed.

Record CreateParams := MkCreateParams { CreateParams_TimeoutParams : TimeoutParams; CreateParams_DebugParams : DebugParams; CreateParams_Pipeline : string; CreateParams_Refresh : string;
  CreateParams_Routing : list string; CreateParams_Version : Z; CreateParams_VersionType : string; CreateParams_WaitForActiveShards : string }.
Definition CreateParams_own (q : CreateParams) : list param :=
  [("pipeline", nonEmpty (CreateParams_Pipeline q)); ("refresh", nonEmpty (CreateParams_Refresh q)); ("routing", joined (CreateParams_Routing q));
  ("version", nonZero (CreateParams_Version q)); ("version_type", nonEmpty (CreateParams_VersionType q));
  ("wait_for_active_shards", nonEmpty (CreateParams_WaitForActiveShards q))].
Definition CreateParams_slots : list (string * (CreateParams -> slot)) :=
  [("Pipeline", fun q => Text (CreateParams_Pipeline q)); ("Refresh", fun q => Text (CreateParams_Refresh q));
  ("Routing", fun q => TextList (CreateParams_Routing q)); ("Version", fun q => Int (CreateParams_Version q));
  ("VersionType", fun q => Text (CreateParams_VersionType q)); ("WaitForActiveShards", fun q => Text (CreateParams_WaitForActiveShards q))].
Definition CreateParams_get (q : CreateParams) : gmap string string :=
  encode_params (EncodeTimeout (CreateParams_TimeoutParams q) ++ EncodeDebug (CreateParams_DebugParams q) ++ CreateParams_own q).
Record CreateReq := MkCreateReq { CreateReq_Index : string; CreateReq_ID : string; CreateReq_Body : reader; CreateReq_Header : headers; CreateReq_Params : option CreateParams }.
Definition CreateReq_GetRequest (r : CreateReq) (method : string) : request_error + httpRequest * Z :=
  send method (CreatePath_Build (MkCreatePath (CreateReq_Index r) (CreateReq_ID r)))
    (match CreateReq_Params r with Some q => CreateParams_get q | None => ∅ end)
    (raw_body (CreateReq_Body r)) (CreateReq_Header r).
Definition Create_Method (r : CreateReq) : string := "POST".
#[export] Instance Create_operation : operation CreateReq :=
  {| op_path := MkPathType "CreatePath" CreatePath _ _; op_P := CreateParams; op_fields r := MkCreatePath (CreateReq_Index r) (CreateReq_ID r);
     op_params := CreateReq_Params; op_defaults := None; op_timeout := CreateParams_TimeoutParams; op_debug := CreateParams_DebugParams;
     op_format := None; op_own := CreateParams_own; op_slots := CreateParams_slots;
     op_body r := raw_body (CreateReq_Body r); op_headers r := CreateReq_Header r;
     Method := Create_Method; GetRequest := CreateReq_GetRequest;
     op_keys := ["pipeline"; "refresh"; "routing"; "version"; "version_type"; "wait_for_active_shards"];
     op_described := [("POST", "/{index}/_create/{id}"); ("PUT", "/{index}/_create/{id}")];
     op_query := ["pipeline"; "refresh"; "routing"; "version"; "version_type"; "wait_for_active_shards"] |}.
#[export] Instance Create_operates : LawfulOp CreateReq.
Proof. operate. Qed.

Record CreatePITParams := MkCreatePITParams { CreatePITParams_TimeoutParams : TimeoutParams; CreatePITParams_DebugParams : DebugParams; CreatePITParams_AllowPartialPITCreation : option bool;
  CreatePITParams_ExpandWildcards : list string; CreatePITParams_KeepAlive : Z; CreatePITParams_Preference : string;
  CreatePITParams_Routing : list string }.
Definition CreatePITParams_own (q : CreatePITParams) : list param :=
  [("allow_partial_pit_creation", boolPtr (CreatePITParams_AllowPartialPITCreation q));
  ("expand_wildcards", joined (CreatePITParams_ExpandWildcards q)); ("keep_alive", duration (CreatePITParams_KeepAlive q));
  ("preference", nonEmpty (CreatePITParams_Preference q)); ("routing", joined (CreatePITParams_Routing q))].
Definition CreatePITParams_slots : list (string * (CreatePITParams -> slot)) :=
  [("AllowPartialPITCreation", fun q => BoolPtr (CreatePITParams_AllowPartialPITCreation q));
  ("ExpandWildcards", fun q => TextList (CreatePITParams_ExpandWildcards q)); ("KeepAlive", fun q => Duration (CreatePITParams_KeepAlive q));
  ("Preference", fun q => Text (CreatePITParams_Preference q)); ("Routing", fun q => TextList (CreatePITParams_Routing q))].
Definition CreatePITParams_get (q : CreatePITParams) : gmap string string :=
  encode_params (EncodeTimeout (CreatePITParams_TimeoutParams q) ++ EncodeDebug (CreatePITParams_DebugParams q) ++ CreatePITParams_own q).
Record CreatePITReq := MkCreatePITReq { CreatePITReq_Indices : list string; CreatePITReq_Header : headers; CreatePITReq_Params : option CreatePITParams }.
Definition CreatePITReq_GetRequest (r : CreatePITReq) (method : string) : request_error + httpRequest * Z :=
  send method (CreatePITPath_Build (MkCreatePITPath (CreatePITReq_Indices r)))
    (match CreatePITReq_Params r with Some q => CreatePITParams_get q | None => ∅ end)
    no_body (CreatePITReq_Header r).
Definition CreatePIT_Method (r : CreatePITReq) : string := "POST".
#[export] Instance CreatePIT_operation : operation CreatePITReq :=
  {| op_path := MkPathType "CreatePITPath" CreatePITPath _ _; op_P := CreatePITParams; op_fields r := MkCreatePITPath (CreatePITReq_Indices r);
     op_params := CreatePITReq_Params; op_defaults := None; op_timeout := CreatePITParams_TimeoutParams; op_debug := CreatePITParams_DebugParams;
     op_format := None; op_own := CreatePITParams_own; op_slots := CreatePITParams_slots;
     op_body _ := no_body; op_headers r := CreatePITReq_Header r;
     Method := CreatePIT_Method; GetRequest := CreatePITReq_GetRequest;
     op_keys := ["allow_partial_pit_creation"; "expand_wildcards"; "keep_alive"; "preference"; "routing"];
     op_described := [("POST", "/{index}/_search/point_in_time")];
     op_query := ["allow_partial_pit_creation"; "expand_wildcards"; "keep_alive"; "preference"; "routing"] |}.
#[export] Instance CreatePIT_operates : LawfulOp CreatePITReq.
Proof. operate. Qed.

Record DeleteParams := MkDeleteParams { DeleteParams_TimeoutParams : TimeoutParams; DeleteParams_DebugParams : DebugParams; DeleteParams_IfPrimaryTerm : option Z;
  DeleteParams_IfSeqNo : option Z; DeleteParams_Refresh : string; DeleteParams_Routing : list string; DeleteParams_Version : Z;
  DeleteParams_VersionType : string; DeleteParams_WaitForActiveShards : string }.
Definition DeleteParams_own (q : DeleteParams) : list param :=
  [("if_primary_term", intPtr (DeleteParams_IfPrimaryTerm q)); ("if_seq_no", intPtr (DeleteParams_IfSeqNo q));
  ("refresh", nonEmpty (DeleteParams_Refresh q)); ("routing", joined (DeleteParams_Routing q)); ("version", nonZero (DeleteParams_Version q));
  ("version_type", nonEmpty (DeleteParams_VersionType q)); ("wait_for_active_shards", nonEmpty (DeleteParams_WaitForActiveShards q))].
Definition DeleteParams_slots : list (string * (DeleteParams -> slot)) :=
  [("IfPrimaryTerm", fun q => IntPtr (DeleteParams_IfPrimaryTerm q)); ("IfSeqNo", fun q => IntPtr (DeleteParams_IfSeqNo q));
  ("Refresh", fun q => Text (DeleteParams_Refresh q)); ("Routing", fun q => TextList (DeleteParams_Routing q));
  ("Version", fun q => Int (DeleteParams_Version q)); ("VersionType", fun q => Text (DeleteParams_VersionType q));
  ("WaitForActiveShards", fun q => Text (DeleteParams_WaitForActiveShards q))].
Definition DeleteParams_get (q : DeleteParams) : gmap string string :=
  encode_params (EncodeTimeout (DeleteParams_TimeoutParams q) ++ EncodeDebug (DeleteParams_DebugParams q) ++ DeleteParams_own q).
Record DeleteReq := MkDeleteReq { DeleteReq_Index : string; DeleteReq_ID : string; DeleteReq_Header : headers; DeleteReq_Params : option DeleteParams }.
Definition DeleteReq_GetRequest (r : DeleteReq) (method : string) : request_error + httpRequest * Z :=
  send method (DeletePath_Build (MkDeletePath (DeleteReq_Index r) (DeleteReq_ID r)))
    (match DeleteReq_Params r with Some q => DeleteParams_get q | None => ∅ end)
    no_body (DeleteReq_Header r).
Definition Delete_Method (r : DeleteReq) : string := "DELETE".
#[export] Instance Delete_operation : operation DeleteReq :=
  {| op_path := MkPathType "DeletePath" DeletePath _ _; op_P := DeleteParams; op_fields r := MkDeletePath (DeleteReq_Index r) (DeleteReq_ID r);
     op_params := DeleteReq_Params; op_defaults := None; op_timeout := DeleteParams_TimeoutParams; op_debug := DeleteParams_DebugParams;
     op_format := None; op_own := DeleteParams_own; op_slots := DeleteParams_slots;
     op_body _ := no_body; op_headers r := DeleteReq_Header r;
     Method := Delete_Method; GetRequest := DeleteReq_GetRequest;
     op_keys := ["if_primary_term"; "if_seq_no"; "refresh"; "routing"; "version"; "version_type"; "wait_for_active_shards"];
     op_described := [("DELETE", "/{index}/_doc/{id}")];
     op_query := ["if_primary_term"; "if_seq_no"; "refresh"; "routing"; "version"; "version_type"; "wait_for_active_shards"] |}.
#[export] Instance Delete_operates : LawfulOp DeleteReq.
Proof. operate. Qed.

Record DeleteAllPITsParams := MkDeleteAllPITsParams { DeleteAllPITsParams_TimeoutParams : TimeoutParams; DeleteAllPITsParams_DebugParams : DebugParams }.
Definition DeleteAllPITsParams_own (q : DeleteAllPITsParams) : list param :=
  [].
Definition DeleteAllPITsParams_slots : list (string * (DeleteAllPITsParams -> slot)) :=
  [].
Definition DeleteAllPITsParams_get (q : DeleteAllPITsParams) : gmap string string :=
  encode_params (EncodeTimeout (DeleteAllPITsParams_TimeoutParams q) ++ EncodeDebug (DeleteAllPITsParams_DebugParams q) ++ DeleteAllPITsParams_own q).
Record DeleteAllPITsReq := MkDeleteAllPITsReq { DeleteAllPITsReq_Header : headers; DeleteAllPITsReq_Params : option DeleteAllPITsParams }.
Definition DeleteAllPITsReq_GetRequest (r : DeleteAllPITsReq) (method : string) : request_error + httpRequest * Z :=
  send method (DeleteAllPITsPath_Build (MkDeleteAllPITsPath))
    (match DeleteAllPITsReq_Params r with Some q => DeleteAllPITsParams_get q | None => ∅ end)
    no_body (DeleteAllPITsReq_Header r).
Definition DeleteAllPITs_Method (r : DeleteAllPITsReq) : string := "DELETE".
#[export] Instance DeleteAllPITs_operation : operation DeleteAllPITsReq :=
  {| op_path := MkPathType "DeleteAllPITsPath" DeleteAllPITsPath _ _; op_P := DeleteAllPITsParams; op_fields r := MkDeleteAllPITsPath;
     op_params := DeleteAllPITsReq_Params; op_defaults := None; op_timeout := DeleteAllPITsParams_TimeoutParams; op_debug := DeleteAllPITsParams_DebugParams;
     op_format := None; op_own := DeleteAllPITsParams_own; op_slots := DeleteAllPITsParams_slots;
     op_body _ := no_body; op_headers r := DeleteAllPITsReq_Header r;
     Method := DeleteAllPITs_Method; GetRequest := DeleteAllPITsReq_GetRequest;
     op_keys := [];
     op_described := [("DELETE", "/_search/point_in_time/_all")];
     op_query := [] |}.
#[export] Instance DeleteAllPITs_operates : LawfulOp DeleteAllPITsReq.
Proof. operate. Qed.

Record DeleteByQueryParams := MkDeleteByQueryParams { DeleteByQueryParams_TimeoutParams : TimeoutParams; DeleteByQueryParams_DebugParams : DebugParams; DeleteByQueryParams_Source : string;
  DeleteByQueryParams_SourceExcludes : list string; DeleteByQueryParams_SourceIncludes : list string; DeleteByQueryParams_AllowNoIndices : option bool;
  DeleteByQueryParams_AnalyzeWildcard : option bool; DeleteByQueryParams_Analyzer : string; DeleteByQueryParams_Conflicts : string;
  DeleteByQueryParams_DefaultOperator : string; DeleteByQueryParams_Df : string; DeleteByQueryParams_ExpandWildcards : list string;
  DeleteByQueryParams_From : Z; DeleteByQueryParams_IgnoreUnavailable : option bool; DeleteByQueryParams_Lenient : option bool;
  DeleteByQueryParams_MaxDocs : Z; DeleteByQueryParams_Preference : string; DeleteByQueryParams_Q : string; DeleteByQueryParams_Refresh : string;
  DeleteByQueryParams_RequestCache : option bool; DeleteByQueryParams_RequestsPerSecond : Z; DeleteByQueryParams_Routing : list string;
  DeleteByQueryParams_Scroll : Z; DeleteByQueryParams_ScrollSize : Z; DeleteByQueryParams_SearchTimeout : Z; DeleteByQueryParams_SearchType : string;
  DeleteByQueryParams_Size : Z; DeleteByQueryParams_Slices : string; DeleteByQueryParams_Sort : list string; DeleteByQueryParams_Stats : list string;
  DeleteByQueryParams_TerminateAfter : Z; DeleteByQueryParams_Version : option bool; DeleteByQueryParams_WaitForActiveShards : string;
  DeleteByQueryParams_WaitForCompletion : option bool }.
Definition DeleteByQueryParams_own (q : DeleteByQueryParams) : list param :=
  [("_source", nonEmpty (DeleteByQueryParams_Source q)); ("_source_excludes", joined (DeleteByQueryParams_SourceExcludes q));
  ("_source_includes", joined (DeleteByQueryParams_SourceIncludes q)); ("allow_no_indices", boolPtr (DeleteByQueryParams_AllowNoIndices q));
  ("analyze_wildcard", boolPtr (DeleteByQueryParams_AnalyzeWildcard q)); ("analyzer", nonEmpty (DeleteByQueryParams_Analyzer q));
  ("conflicts", nonEmpty (DeleteByQueryParams_Conflicts q)); ("default_operator", nonEmpty (DeleteByQueryParams_DefaultOperator q));
  ("df", nonEmpty (DeleteByQueryParams_Df q)); ("expand_wildcards", joined (DeleteByQueryParams_ExpandWildcards q));
  ("from", nonZero (DeleteByQueryParams_From q)); ("ignore_unavailable", boolPtr (DeleteByQueryParams_IgnoreUnavailable q));
  ("lenient", boolPtr (DeleteByQueryParams_Lenient q)); ("max_docs", nonZero (DeleteByQueryParams_MaxDocs q));
  ("preference", nonEmpty (DeleteByQueryParams_Preference q)); ("q", nonEmpty (DeleteByQueryParams_Q q));
  ("refresh", nonEmpty (DeleteByQueryParams_Refresh q)); ("request_cache", boolPtr (DeleteByQueryParams_RequestCache q));
  ("requests_per_second", nonZero (DeleteByQueryParams_RequestsPerSecond q)); ("routing", joined (DeleteByQueryParams_Routing q));
  ("scroll", duration (DeleteByQueryParams_Scroll q)); ("scroll_size", nonZero (DeleteByQueryParams_ScrollSize q));
  ("search_timeout", duration (DeleteByQueryParams_SearchTimeout q)); ("search_type", nonEmpty (DeleteByQueryParams_SearchType q));
  ("size", nonZero (DeleteByQueryParams_Size q)); ("slices", nonEmpty (DeleteByQueryParams_Slices q)); ("sort", joined (DeleteByQueryParams_Sort q));
  ("stats", joined (DeleteByQueryParams_Stats q)); ("terminate_after", nonZero (DeleteByQueryParams_TerminateAfter q));
  ("version", boolPtr (DeleteByQueryParams_Version q)); ("wait_for_active_shards", nonEmpty (DeleteByQueryParams_WaitForActiveShards q));
  ("wait_for_completion", boolPtr (DeleteByQueryParams_WaitForCompletion q))].
Definition DeleteByQueryParams_slots : list (string * (DeleteByQueryParams -> slot)) :=
  [("Source", fun q => Text (DeleteByQueryParams_Source q)); ("SourceExcludes", fun q => TextList (DeleteByQueryParams_SourceExcludes q));
  ("SourceIncludes", fun q => TextList (DeleteByQueryParams_SourceIncludes q));
  ("AllowNoIndices", fun q => BoolPtr (DeleteByQueryParams_AllowNoIndices q));
  ("AnalyzeWildcard", fun q => BoolPtr (DeleteByQueryParams_AnalyzeWildcard q)); ("Analyzer", fun q => Text (DeleteByQueryParams_Analyzer q));
  ("Conflicts", fun q => Text (DeleteByQueryParams_Conflicts q)); ("DefaultOperator", fun q => Text (DeleteByQueryParams_DefaultOperator q));
  ("Df", fun q => Text (DeleteByQueryParams_Df q)); ("ExpandWildcards", fun q => TextList (DeleteByQueryParams_ExpandWildcards q));
  ("From", fun q => Int (DeleteByQueryParams_From q)); ("IgnoreUnavailable", fun q => BoolPtr (DeleteByQueryParams_IgnoreUnavailable q));
  ("Lenient", fun q => BoolPtr (DeleteByQueryParams_Lenient q)); ("MaxDocs", fun q => Int (DeleteByQueryParams_MaxDocs q));
  ("Preference", fun q => Text (DeleteByQueryParams_Preference q)); ("Q", fun q => Text (DeleteByQueryParams_Q q));
  ("Refresh", fun q => Text (DeleteByQueryParams_Refresh q)); ("RequestCache", fun q => BoolPtr (DeleteByQueryParams_RequestCache q));
  ("RequestsPerSecond", fun q => Int (DeleteByQueryParams_RequestsPerSecond q)); ("Routing", fun q => TextList (DeleteByQueryParams_Routing q));
  ("Scroll", fun q => Duration (DeleteByQueryParams_Scroll q)); ("ScrollSize", fun q => Int (DeleteByQueryParams_ScrollSize q));
  ("SearchTimeout", fun q => Duration (DeleteByQueryParams_SearchTimeout q)); ("SearchType", fun q => Text (DeleteByQueryParams_SearchType q));
  ("Size", fun q => Int (DeleteByQueryParams_Size q)); ("Slices", fun q => Text (DeleteByQueryParams_Slices q));
  ("Sort", fun q => TextList (DeleteByQueryParams_Sort q)); ("Stats", fun q => TextList (DeleteByQueryParams_Stats q));
  ("TerminateAfter", fun q => Int (DeleteByQueryParams_TerminateAfter q)); ("Version", fun q => BoolPtr (DeleteByQueryParams_Version q));
  ("WaitForActiveShards", fun q => Text (DeleteByQueryParams_WaitForActiveShards q));
  ("WaitForCompletion", fun q => BoolPtr (DeleteByQueryParams_WaitForCompletion q))].
Definition DeleteByQueryParams_get (q : DeleteByQueryParams) : gmap string string :=
  encode_params (EncodeTimeout (DeleteByQueryParams_TimeoutParams q) ++ EncodeDebug (DeleteByQueryParams_DebugParams q) ++ DeleteByQueryParams_own q).
Record DeleteByQueryReq := MkDeleteByQueryReq { DeleteByQueryReq_Indices : list string; DeleteByQueryReq_Body : option (option string); DeleteByQueryReq_BodyReader : reader;
  DeleteByQueryReq_Header : headers; DeleteByQueryReq_Params : option DeleteByQueryParams }.
Definition DeleteByQueryReq_GetRequest (r : DeleteByQueryReq) (method : string) : request_error + httpRequest * Z :=
  send method (DeleteByQueryPath_Build (MkDeleteByQueryPath (DeleteByQueryReq_Indices r)))
    (match DeleteByQueryReq_Params r with Some q => DeleteByQueryParams_get q | None => ∅ end)
    (json_body (DeleteByQueryReq_Body r) (DeleteByQueryReq_BodyReader r)) (DeleteByQueryReq_Header r).
Definition DeleteByQuery_Method (r : DeleteByQueryReq) : string := "POST".
#[export] Instance DeleteByQuery_operation : operation DeleteByQueryReq :=
  {| op_path := MkPathType "DeleteByQueryPath" DeleteByQueryPath _ _; op_P := DeleteByQueryParams; op_fields r := MkDeleteByQueryPath (DeleteByQueryReq_Indices r);
     op_params := DeleteByQueryReq_Params; op_defaults := None; op_timeout := DeleteByQueryParams_TimeoutParams; op_debug := DeleteByQueryParams_DebugParams;
     op_format := None; op_own := DeleteByQueryParams_own; op_slots := DeleteByQueryParams_slots;
     op_body r := json_body (DeleteByQueryReq_Body r) (DeleteByQueryReq_BodyReader r); op_headers r := DeleteByQueryReq_Header r;
     Method := DeleteByQuery_Method; GetRequest := DeleteByQueryReq_GetRequest;
     op_keys := ["_source"; "_source_excludes"; "_source_includes"; "allow_no_indices"; "analyze_wildcard"; "analyzer"; "conflicts"; "default_operator"; "df";
        "expand_wildcards"; "from"; "ignore_unavailable"; "lenient"; "max_docs"; "preference"; "q"; "refresh"; "request_cache"; "requests_per_second";
        "routing"; "scroll"; "scroll_size"; "search_timeout"; "search_type"; "size"; "slices"; "sort"; "stats"; "terminate_after"; "version";
        "wait_for_active_shards"; "wait_for_completion"];
     op_described := [("POST", "/{index}/_delete_by_query")];
     op_query := ["_source"; "_source_excludes"; "_source_includes"; "allow_no_indices"; "analyze_wildcard"; "analyzer"; "conflicts"; "default_operator"; "df";
        "expand_wildcards"; "from"; "ignore_unavailable"; "lenient"; "max_docs"; "preference"; "q"; "refresh"; "request_cache"; "requests_per_second";
        "routing"; "scroll"; "scroll_size"; "search_timeout"; "search_type"; "size"; "slices"; "sort"; "stats"; "terminate_after"; "version";
        "wait_for_active_shards"; "wait_for_completion"] |}.
#[export] Instance DeleteByQuery_operates : LawfulOp DeleteByQueryReq.
Proof. operate. Qed.

Record DeleteByQueryRethrottleParams := MkDeleteByQueryRethrottleParams { DeleteByQueryRethrottleParams_TimeoutParams : TimeoutParams; DeleteByQueryRethrottleParams_DebugParams : DebugParams;
  DeleteByQueryRethrottleParams_RequestsPerSecond : Z }.
Definition DeleteByQueryRethrottleParams_own (q : DeleteByQueryRethrottleParams) : list param :=
  [("requests_per_second", nonZero (DeleteByQueryRethrottleParams_RequestsPerSecond q))].
Definition DeleteByQueryRethrottleParams_slots : list (string * (DeleteByQueryRethrottleParams -> slot)) :=
  [("RequestsPerSecond", fun q => Int (DeleteByQueryRethrottleParams_RequestsPerSecond q))].
Definition DeleteByQueryRethrottleParams_get (q : DeleteByQueryRethrottleParams) : gmap string string :=
  encode_params (EncodeTimeout (DeleteByQueryRethrottleParams_TimeoutParams q) ++ EncodeDebug (DeleteByQueryRethrottleParams_DebugParams q) ++ DeleteByQueryRethrottleParams_own q).
Record DeleteByQueryRethrottleReq := MkDeleteByQueryRethrottleReq { DeleteByQueryRethrottleReq_TaskID : string; DeleteByQueryRethrottleReq_Header : headers;
  DeleteByQueryRethrottleReq_Params : option DeleteByQueryRethrottleParams }.
Definition DeleteByQueryRethrottleReq_GetRequest (r : DeleteByQueryRethrottleReq) (method : string) : request_error + httpRequest * Z :=
  send method (DeleteByQueryRethrottlePath_Build (MkDeleteByQueryRethrottlePath (DeleteByQueryRethrottleReq_TaskID r)))
    (match DeleteByQueryRethrottleReq_Params r with Some q => DeleteByQueryRethrottleParams_get q | None => ∅ end)
    no_body (DeleteByQueryRethrottleReq_Header r).
Definition DeleteByQueryRethrottle_Method (r : DeleteByQueryRethrottleReq) : string := "POST".
#[export] Instance DeleteByQueryRethrottle_operation : operation DeleteByQueryRethrottleReq :=
  {| op_path := MkPathType "DeleteByQueryRethrottlePath" DeleteByQueryRethrottlePath _ _; op_P := DeleteByQueryRethrottleParams; op_fields r := MkDeleteByQueryRethrottlePath (DeleteByQueryRethrottleReq_TaskID r);
     op_params := DeleteByQueryRethrottleReq_Params; op_defaults := None; op_timeout := DeleteByQueryRethrottleParams_TimeoutParams; op_debug := DeleteByQueryRethrottleParams_DebugParams;
     op_format := None; op_own := DeleteByQueryRethrottleParams_own; op_slots := DeleteByQueryRethrottleParams_slots;
     op_body _ := no_body; op_headers r := DeleteByQueryRethrottleReq_Header r;
     Method := DeleteByQueryRethrottle_Method; GetRequest := DeleteByQueryRethrottleReq_GetRequest;
     op_keys := ["requests_per_second"];
     op_described := [("POST", "/_delete_by_query/{task_id}/_rethrottle")];
     op_query := ["requests_per_second"] |}.
#[export] Instance DeleteByQueryRethrottle_operates : LawfulOp DeleteByQueryRethrottleReq.
Proof. operate. Qed.

Record DeletePITParams := MkDeletePITParams { DeletePITParams_TimeoutParams : TimeoutParams; DeletePITParams_DebugParams : DebugParams }.
Definition DeletePITParams_own (q : DeletePITParams) : list param :=
  [].
Definition DeletePITParams_slots : list (string * (DeletePITParams -> slot)) :=
  [].
Definition DeletePITParams_get (q : DeletePITParams) : gmap string string :=
  encode_params (EncodeTimeout (DeletePITParams_TimeoutParams q) ++ EncodeDebug (DeletePITParams_DebugParams q) ++ DeletePITParams_own q).
Record DeletePITReq := MkDeletePITReq { DeletePITReq_Body : option (option string); DeletePITReq_BodyReader : reader; DeletePITReq_Header : headers;
  DeletePITReq_Params : option DeletePITParams }.
Definition DeletePITReq_GetRequest (r : DeletePITReq) (method : string) : request_error + httpRequest * Z :=
  send method (DeletePITPath_Build (MkDeletePITPath))
    (match DeletePITReq_Params r with Some q => DeletePITParams_get q | None => ∅ end)
    (json_body (DeletePITReq_Body r) (DeletePITReq_BodyReader r)) (DeletePITReq_Header r).
Definition DeletePIT_Method (r : DeletePITReq) : string := "DELETE".
#[export] Instance DeletePIT_operation : operation DeletePITReq :=
  {| op_path := MkPathType "DeletePITPath" DeletePITPath _ _; op_P := DeletePITParams; op_fields r := MkDeletePITPath;
     op_params := DeletePITReq_Params; op_defaults := None; op_timeout := DeletePITParams_TimeoutParams; op_debug := DeletePITParams_DebugParams;
     op_format := None; op_own := DeletePITParams_own; op_slots := DeletePITParams_slots;
     op_body r := json_body (DeletePITReq_Body r) (DeletePITReq_BodyReader r); op_headers r := DeletePITReq_Header r;
     Method := DeletePIT_Method; GetRequest := DeletePITReq_GetRequest;
     op_keys := [];
     op_described := [("DELETE", "/_search/point_in_time")];
     op_query := [] |}.
#[export] Instance DeletePIT_operates : LawfulOp DeletePITReq.
Proof. operate. Qed.

Record DeleteScriptParams := MkDeleteScriptParams { DeleteScriptParams_TimeoutParams : TimeoutParams; DeleteScriptParams_DebugParams : DebugParams }.
Definition DeleteScriptParams_own (q : DeleteScriptParams) : list param :=
  [].
Definition DeleteScriptParams_slots : list (string * (DeleteScriptParams -> slot)) :=
  [].
Definition DeleteScriptParams_get (q : DeleteScriptParams) : gmap string string :=
  encode_params (EncodeTimeout (DeleteScriptParams_TimeoutParams q) ++ EncodeDebug (DeleteScriptParams_DebugParams q) ++ DeleteScriptParams_own q).
Record DeleteScriptReq := MkDeleteScriptReq { DeleteScriptReq_ID : string; DeleteScriptReq_Header : headers; DeleteScriptReq_Params : option DeleteScriptParams }.
Definition DeleteScriptReq_GetRequest (r : DeleteScriptReq) (method : string) : request_error + httpRequest * Z :=
  send method (DeleteScriptPath_Build (MkDeleteScriptPath (DeleteScriptReq_ID r)))
    (match DeleteScriptReq_Params r with Some q => DeleteScriptParams_get q | None => ∅ end)
    no_body (DeleteScriptReq_Header r).
Definition DeleteScript_Method (r : DeleteScriptReq) : string := "DELETE".
#[export] Instance DeleteScript_operation : operation DeleteScriptReq :=
  {| op_path := MkPathType "DeleteScriptPath" DeleteScriptPath _ _; op_P := DeleteScriptParams; op_fields r := MkDeleteScriptPath (DeleteScriptReq_ID r);
     op_params := DeleteScriptReq_Params; op_defaults := None; op_timeout := DeleteScriptParams_TimeoutParams; op_debug := DeleteScriptParams_DebugParams;
     op_format := None; op_own := DeleteScriptParams_own; op_slots := DeleteScriptParams_slots;
     op_body _ := no_body; op_headers r := DeleteScriptReq_Header r;
     Method := DeleteScript_Method; GetRequest := DeleteScriptReq_GetRequest;
     op_keys := [];
     op_described := [("DELETE", "/_scripts/{id}")];
     op_query := [] |}.
#[export] Instance DeleteScript_operates : LawfulOp DeleteScriptReq.
Proof. operate. Qed.

Record ExistsParams := MkExistsParams { ExistsParams_TimeoutParams : TimeoutParams; ExistsParams_DebugParams : DebugParams; ExistsParams_Source : string;
  ExistsParams_SourceExcludes : list string; ExistsParams_SourceIncludes : list string; ExistsParams_Preference : string;
  ExistsParams_Realtime : option bool; ExistsParams_Refresh : string; ExistsParams_Routing : list string; ExistsParams_StoredFields : list string;
  ExistsParams_Version : Z; ExistsParams_VersionType : string }.
Definition ExistsParams_own (q : ExistsParams) : list param :=
  [("_source", nonEmpty (ExistsParams_Source q)); ("_source_excludes", joined (ExistsParams_SourceExcludes q));
  ("_source_includes", joined (ExistsParams_SourceIncludes q)); ("preference", nonEmpty (ExistsParams_Preference q));
  ("realtime", boolPtr (ExistsParams_Realtime q)); ("refresh", nonEmpty (ExistsParams_Refresh q)); ("routing", joined (ExistsParams_Routing q));
  ("stored_fields", joined (ExistsParams_StoredFields q)); ("version", nonZero (ExistsParams_Version q));
  ("version_type", nonEmpty (ExistsParams_VersionType q))].
Definition ExistsParams_slots : list (string * (ExistsParams -> slot)) :=
  [("Source", fun q => Text (ExistsParams_Source q)); ("SourceExcludes", fun q => TextList (ExistsParams_SourceExcludes q));
  ("SourceIncludes", fun q => TextList (ExistsParams_SourceIncludes q)); ("Preference", fun q => Text (ExistsParams_Preference q));
  ("Realtime", fun q => BoolPtr (ExistsParams_Realtime q)); ("Refresh", fun q => Text (ExistsParams_Refresh q));
  ("Routing", fun q => TextList (ExistsParams_Routing q)); ("StoredFields", fun q => TextList (ExistsParams_StoredFields q));
  ("Version", fun q => Int (ExistsParams_Version q)); ("VersionType", fun q => Text (ExistsParams_VersionType q))].
Definition ExistsParams_get (q : ExistsParams) : gmap string string :=
  encode_params (EncodeTimeout (ExistsParams_TimeoutParams q) ++ EncodeDebug (ExistsParams_DebugParams q) ++ ExistsParams_own q).
Record ExistsReq := MkExistsReq { ExistsReq_Index : string; ExistsReq_ID : string; ExistsReq_Header : headers; ExistsReq_Params : option ExistsParams }.
Definition ExistsReq_GetRequest (r : ExistsReq) (method : string) : request_error + httpRequest * Z :=
  send method (ExistsPath_Build (MkExistsPath (ExistsReq_Index r) (ExistsReq_ID r)))
    (match ExistsReq_Params r with Some q => ExistsParams_get q | None => ∅ end)
    no_body (ExistsReq_Header r).
Definition Exists_Method (r : ExistsReq) : string := "HEAD".
#[export] Instance Exists_operation : operation ExistsReq :=
  {| op_path := MkPathType "ExistsPath" ExistsPath _ _; op_P := ExistsParams; op_fields r := MkExistsPath (ExistsReq_Index r) (ExistsReq_ID r);
     op_params := ExistsReq_Params; op_defaults := None; op_timeout := ExistsParams_TimeoutParams; op_debug := ExistsParams_DebugParams;
     op_format := None; op_own := ExistsParams_own; op_slots := ExistsParams_slots;
     op_body _ := no_body; op_headers r := ExistsReq_Header r;
     Method := Exists_Method; GetRequest := ExistsReq_GetRequest;
     op_keys := ["_source"; "_source_excludes"; "_source_includes"; "preference"; "realtime"; "refresh"; "routing"; "stored_fields"; "version"; "version_type"];
     op_described := [("HEAD", "/{index}/_doc/{id}")];
     op_query := ["_source"; "_source_excludes"; "_source_includes"; "preference"; "realtime"; "refresh"; "routing"; "stored_fields"; "version"; "version_type"] |}.
#[export] Instance Exists_operates : LawfulOp ExistsReq.
Proof. operate. Qed.

Record ExistsSourceParams := MkExistsSourceParams { ExistsSourceParams_TimeoutParams : TimeoutParams; ExistsSourceParams_DebugParams : DebugParams; ExistsSourceParams_Source : string;
  ExistsSourceParams_SourceExcludes : list string; ExistsSourceParams_SourceIncludes : list string; ExistsSourceParams_Preference : string;
  ExistsSourceParams_Realtime : option bool; ExistsSourceParams_Refresh : string; ExistsSourceParams_Routing : list string;
  ExistsSourceParams_Version : Z; ExistsSourceParams_VersionType : string }.
Definition ExistsSourceParams_own (q : ExistsSourceParams) : list param :=
  [("_source", nonEmpty (ExistsSourceParams_Source q)); ("_source_excludes", joined (ExistsSourceParams_SourceExcludes q));
  ("_source_includes", joined (ExistsSourceParams_SourceIncludes q)); ("preference", nonEmpty (ExistsSourceParams_Preference q));
  ("realtime", boolPtr (ExistsSourceParams_Realtime q)); ("refresh", nonEmpty (ExistsSourceParams_Refresh q));
  ("routing", joined (ExistsSourceParams_Routing q)); ("version", nonZero (ExistsSourceParams_Version q));
  ("version_type", nonEmpty (ExistsSourceParams_VersionType q))].
Definition ExistsSourceParams_slots : list (string * (ExistsSourceParams -> slot)) :=
  [("Source", fun q => Text (ExistsSourceParams_Source q)); ("SourceExcludes", fun q => TextList (ExistsSourceParams_SourceExcludes q));
  ("SourceIncludes", fun q => TextList (ExistsSourceParams_SourceIncludes q)); ("Preference", fun q => Text (ExistsSourceParams_Preference q));
  ("Realtime", fun q => BoolPtr (ExistsSourceParams_Realtime q)); ("Refresh", fun q => Text (ExistsSourceParams_Refresh q));
  ("Routing", fun q => TextList (ExistsSourceParams_Routing q)); ("Version", fun q => Int (ExistsSourceParams_Version q));
  ("VersionType", fun q => Text (ExistsSourceParams_VersionType q))].
Definition ExistsSourceParams_get (q : ExistsSourceParams) : gmap string string :=
  encode_params (EncodeTimeout (ExistsSourceParams_TimeoutParams q) ++ EncodeDebug (ExistsSourceParams_DebugParams q) ++ ExistsSourceParams_own q).
Record ExistsSourceReq := MkExistsSourceReq { ExistsSourceReq_Index : string; ExistsSourceReq_ID : string; ExistsSourceReq_Header : headers; ExistsSourceReq_Params : option ExistsSourceParams }.
Definition ExistsSourceReq_GetRequest (r : ExistsSourceReq) (method : string) : request_error + httpRequest * Z :=
  send method (ExistsSourcePath_Build (MkExistsSourcePath (ExistsSourceReq_Index r) (ExistsSourceReq_ID r)))
    (match ExistsSourceReq_Params r with Some q => ExistsSourceParams_get q | None => ∅ end)
    no_body (ExistsSourceReq_Header r).
Definition ExistsSource_Method (r : ExistsSourceReq) : string := "HEAD".
#[export] Instance ExistsSource_operation : operation ExistsSourceReq :=
  {| op_path := MkPathType "ExistsSourcePath" ExistsSourcePath _ _; op_P := ExistsSourceParams; op_fields r := MkExistsSourcePath (ExistsSourceReq_Index r) (ExistsSourceReq_ID r);
     op_params := ExistsSourceReq_Params; op_defaults := None; op_timeout := ExistsSourceParams_TimeoutParams; op_debug := ExistsSourceParams_DebugParams;
     op_format := None; op_own := ExistsSourceParams_own; op_slots := ExistsSourceParams_slots;
     op_body _ := no_body; op_headers r := ExistsSourceReq_Header r;
     Method := ExistsSource_Method; GetRequest := ExistsSourceReq_GetRequest;
     op_keys := ["_source"; "_source_excludes"; "_source_includes"; "preference"; "realtime"; "refresh"; "routing"; "version"; "version_type"];
     op_described := [("HEAD", "/{index}/_source/{id}")];
     op_query := ["_source"; "_source_excludes"; "_source_includes"; "preference"; "realtime"; "refresh"; "routing"; "version"; "version_type"] |}.
#[export] Instance ExistsSource_operates : LawfulOp ExistsSourceReq.
Proof. operate. Qed.

Record ExplainParams := MkExplainParams { ExplainParams_TimeoutParams : TimeoutParams; ExplainParams_DebugParams : DebugParams; ExplainParams_Source : string;
  ExplainParams_SourceExcludes : list string; ExplainParams_SourceIncludes : list string; ExplainParams_AnalyzeWildcard : option bool;
  ExplainParams_Analyzer : string; ExplainParams_DefaultOperator : string; ExplainParams_Df : string; ExplainParams_Lenient : option bool;
  ExplainParams_Preference : string; ExplainParams_Q : string; ExplainParams_Routing : list string; ExplainParams_StoredFields : list string }.
Definition ExplainParams_own (q : ExplainParams) : list param :=
  [("_source", nonEmpty (ExplainParams_Source q)); ("_source_excludes", joined (ExplainParams_SourceExcludes q));
  ("_source_includes", joined (ExplainParams_SourceIncludes q)); ("analyze_wildcard", boolPtr (ExplainParams_AnalyzeWildcard q));
  ("analyzer", nonEmpty (ExplainParams_Analyzer q)); ("default_operator", nonEmpty (ExplainParams_DefaultOperator q));
  ("df", nonEmpty (ExplainParams_Df q)); ("lenient", boolPtr (ExplainParams_Lenient q)); ("preference", nonEmpty (ExplainParams_Preference q));
  ("q", nonEmpty (ExplainParams_Q q)); ("routing", joined (ExplainParams_Routing q)); ("stored_fields", joined (ExplainParams_StoredFields q))].
Definition ExplainParams_slots : list (string * (ExplainParams -> slot)) :=
  [("Source", fun q => Text (ExplainParams_Source q)); ("SourceExcludes", fun q => TextList (ExplainParams_SourceExcludes q));
  ("SourceIncludes", fun q => TextList (ExplainParams_SourceIncludes q)); ("AnalyzeWildcard", fun q => BoolPtr (ExplainParams_AnalyzeWildcard q));
  ("Analyzer", fun q => Text (ExplainParams_Analyzer q)); ("DefaultOperator", fun q => Text (ExplainParams_DefaultOperator q));
  ("Df", fun q => Text (ExplainParams_Df q)); ("Lenient", fun q => BoolPtr (ExplainParams_Lenient q));
  ("Preference", fun q => Text (ExplainParams_Preference q)); ("Q", fun q => Text (ExplainParams_Q q));
  ("Routing", fun q => TextList (ExplainParams_Routing q)); ("StoredFields", fun q => TextList (ExplainParams_StoredFields q))].
Definition ExplainParams_get (q : ExplainParams) : gmap string string :=
  encode_params (EncodeTimeout (ExplainParams_TimeoutParams q) ++ EncodeDebug (ExplainParams_DebugParams q) ++ ExplainParams_own q).
Record ExplainReq := MkExplainReq { ExplainReq_Index : string; ExplainReq_ID : string; ExplainReq_Body : option (option string); ExplainReq_BodyReader : reader;
  ExplainReq_Header : headers; ExplainReq_Params : option ExplainParams }.
Definition ExplainReq_GetRequest (r : ExplainReq) (method : string) : request_error + httpRequest * Z :=
  send method (ExplainPath_Build (MkExplainPath (ExplainReq_Index r) (ExplainReq_ID r)))
    (match ExplainReq_Params r with Some q => ExplainParams_get q | None => ∅ end)
    (json_body (ExplainReq_Body r) (ExplainReq_BodyReader r)) (ExplainReq_Header r).
Definition Explain_Method (r : ExplainReq) : string := method_by_body (ExplainReq_Body r) (ExplainReq_BodyReader r).
#[export] Instance Explain_operation : operation ExplainReq :=
  {| op_path := MkPathType "ExplainPath" ExplainPath _ _; op_P := ExplainParams; op_fields r := MkExplainPath (ExplainReq_Index r) (ExplainReq_ID r);
     op_params := ExplainReq_Params; op_defaults := None; op_timeout := ExplainParams_TimeoutParams; op_debug := ExplainParams_DebugParams;
     op_format := None; op_own := ExplainParams_own; op_slots := ExplainParams_slots;
     op_body r := json_body (ExplainReq_Body r) (ExplainReq_BodyReader r); op_headers r := ExplainReq_Header r;
     Method := Explain_Method; GetRequest := ExplainReq_GetRequest;
     op_keys := ["_source"; "_source_excludes"; "_source_includes"; "analyze_wildcard"; "analyzer"; "default_operator"; "df"; "lenient"; "preference"; "q"; "routing";
        "stored_fields"];
     op_described := [("GET", "/{index}/_explain/{id}"); ("POST", "/{index}/_explain/{id}")];
     op_query := ["_source"; "_source_excludes"; "_source_includes"; "analyze_wildcard"; "analyzer"; "default_operator"; "df"; "lenient"; "preference"; "q"; "routing";
        "stored_fields"] |}.
#[export] Instance Explain_operates : LawfulOp ExplainReq.
Proof. operate. Qed.

Record FieldCapsParams := MkFieldCapsParams { FieldCapsParams_TimeoutParams : TimeoutParams; FieldCapsParams_DebugParams : DebugParams; FieldCapsParams_AllowNoIndices : option bool;
  FieldCapsParams_ExpandWildcards : list string; FieldCapsParams_Fields : list string; FieldCapsParams_IgnoreUnavailable : option bool;
  FieldCapsParams_IncludeUnmapped : option bool }.
Definition FieldCapsParams_own (q : FieldCapsParams) : list param :=
  [("allow_no_indices", boolPtr (FieldCapsParams_AllowNoIndices q)); ("expand_wildcards", joined (FieldCapsParams_ExpandWildcards q));
  ("fields", joined (FieldCapsParams_Fields q)); ("ignore_unavailable", boolPtr (FieldCapsParams_IgnoreUnavailable q));
  ("include_unmapped", boolPtr (FieldCapsParams_IncludeUnmapped q))].
Definition FieldCapsParams_slots : list (string * (FieldCapsParams -> slot)) :=
  [("AllowNoIndices", fun q => BoolPtr (FieldCapsParams_AllowNoIndices q)); ("ExpandWildcards", fun q => TextList (FieldCapsParams_ExpandWildcards q));
  ("Fields", fun q => TextList (FieldCapsParams_Fields q)); ("IgnoreUnavailable", fun q => BoolPtr (FieldCapsParams_IgnoreUnavailable q));
  ("IncludeUnmapped", fun q => BoolPtr (FieldCapsParams_IncludeUnmapped q))].
Definition FieldCapsParams_get (q : FieldCapsParams) : gmap string string :=
  encode_params (EncodeTimeout (FieldCapsParams_TimeoutParams q) ++ EncodeDebug (FieldCapsParams_DebugParams q) ++ FieldCapsParams_own q).
Record FieldCapsReq := MkFieldCapsReq { FieldCapsReq_Indices : list string; FieldCapsReq_Body : option (option string); FieldCapsReq_BodyReader : reader; FieldCapsReq_Header : headers;
  FieldCapsReq_Params : option FieldCapsParams }.
Definition FieldCapsReq_GetRequest (r : FieldCapsReq) (method : string) : request_error + httpRequest * Z :=
  send method (FieldCapsPath_Build (MkFieldCapsPath (FieldCapsReq_Indices r)))
    (match FieldCapsReq_Params r with Some q => FieldCapsParams_get q | None => ∅ end)
    (json_body (FieldCapsReq_Body r) (FieldCapsReq_BodyReader r)) (FieldCapsReq_Header r).
Definition FieldCaps_Method (r : FieldCapsReq) : string := method_by_body (FieldCapsReq_Body r) (FieldCapsReq_BodyReader r).
#[export] Instance FieldCaps_operation : operation FieldCapsReq :=
  {| op_path := MkPathType "FieldCapsPath" FieldCapsPath _ _; op_P := FieldCapsParams; op_fields r := MkFieldCapsPath (FieldCapsReq_Indices r);
     op_params := FieldCapsReq_Params; op_defaults := None; op_timeout := FieldCapsParams_TimeoutParams; op_debug := FieldCapsParams_DebugParams;
     op_format := None; op_own := FieldCapsParams_own; op_slots := FieldCapsParams_slots;
     op_body r := json_body (FieldCapsReq_Body r) (FieldCapsReq_BodyReader r); op_headers r := FieldCapsReq_Header r;
     Method := FieldCaps_Method; GetRequest := FieldCapsReq_GetRequest;
     op_keys := ["allow_no_indices"; "expand_wildcards"; "fields"; "ignore_unavailable"; "include_unmapped"];
     op_described := [("GET", "/_field_caps"); ("POST", "/_field_caps"); ("GET", "/{index}/_field_caps"); ("POST", "/{index}/_field_caps")];
     op_query := ["allow_no_indices"; "expand_wildcards"; "fields"; "ignore_unavailable"; "include_unmapped"] |}.
#[export] Instance FieldCaps_operates : LawfulOp FieldCapsReq.
Proof. operate. Qed.

Record GetParams := MkGetParams { GetParams_TimeoutParams : TimeoutParams; GetParams_DebugParams : DebugParams; GetParams_Source : string; GetParams_SourceExcludes : list string;
  GetParams_SourceIncludes : list string; GetParams_Preference : string; GetParams_Realtime : option bool; GetParams_Refresh : string;
  GetParams_Routing : list string; GetParams_StoredFields : list string; GetParams_Version : Z; GetParams_VersionType : string }.
Definition GetParams_own (q : GetParams) : list param :=
  [("_source", nonEmpty (GetParams_Source q)); ("_source_excludes", joined (GetParams_SourceExcludes q));
  ("_source_includes", joined (GetParams_SourceIncludes q)); ("preference", nonEmpty (GetParams_Preference q));
  ("realtime", boolPtr (GetParams_Realtime q)); ("refresh", nonEmpty (GetParams_Refresh q)); ("routing", joined (GetParams_Routing q));
  ("stored_fields", joined (GetParams_StoredFields q)); ("version", nonZero (GetParams_Version q)); ("version_type", nonEmpty (GetParams_VersionType q))].
Definition GetParams_slots : list (string * (GetParams -> slot)) :=
  [("Source", fun q => Text (GetParams_Source q)); ("SourceExcludes", fun q => TextList (GetParams_SourceExcludes q));
  ("SourceIncludes", fun q => TextList (GetParams_SourceIncludes q)); ("Preference", fun q => Text (GetParams_Preference q));
  ("Realtime", fun q => BoolPtr (GetParams_Realtime q)); ("Refresh", fun q => Text (GetParams_Refresh q));
  ("Routing", fun q => TextList (GetParams_Routing q)); ("StoredFields", fun q => TextList (GetParams_StoredFields q));
  ("Version", fun q => Int (GetParams_Version q)); ("VersionType", fun q => Text (GetParams_VersionType q))].
Definition GetParams_get (q : GetParams) : gmap string string :=
  encode_params (EncodeTimeout (GetParams_TimeoutParams q) ++ EncodeDebug (GetParams_DebugParams q) ++ GetParams_own q).
Record GetReq := MkGetReq { GetReq_Index : string; GetReq_ID : string; GetReq_Header : headers; GetReq_Params : option GetParams }.
Definition GetReq_GetRequest (r : GetReq) (method : string) : request_error + httpRequest * Z :=
  send method (GetPath_Build (MkGetPath (GetReq_Index r) (GetReq_ID r)))
    (match GetReq_Params r with Some q => GetParams_get q | None => ∅ end)
    no_body (GetReq_Header r).
Definition Get_Method (r : GetReq) : string := "GET".
#[export] Instance Get_operation : operation GetReq :=
  {| op_path := MkPathType "GetPath" GetPath _ _; op_P := GetParams; op_fields r := MkGetPath (GetReq_Index r) (GetReq_ID r);
     op_params := GetReq_Params; op_defaults := None; op_timeout := GetParams_TimeoutParams; op_debug := GetParams_DebugParams;
     op_format := None; op_own := GetParams_own; op_slots := GetParams_slots;
     op_body _ := no_body; op_headers r := GetReq_Header r;
     Method := Get_Method; GetRequest := GetReq_GetRequest;
     op_keys := ["_source"; "_source_excludes"; "_source_includes"; "preference"; "realtime"; "refresh"; "routing"; "stored_fields"; "version"; "version_type"];
     op_described := [("GET", "/{index}/_doc/{id}")];
     op_query := ["_source"; "_source_excludes"; "_source_includes"; "preference"; "realtime"; "refresh"; "routing"; "stored_fields"; "version"; "version_type"] |}.
#[export] Instance Get_operates : LawfulOp GetReq.
Proof. operate. Qed.

Record GetAllPITsParams := MkGetAllPITsParams { GetAllPITsParams_TimeoutParams : TimeoutParams; GetAllPITsParams_DebugParams : DebugParams }.
Definition GetAllPITsParams_own (q : GetAllPITsParams) : list param :=
  [].
Definition GetAllPITsParams_slots : list (string * (GetAllPITsParams -> slot)) :=
  [].
Definition GetAllPITsParams_get (q : GetAllPITsParams) : gmap string string :=
  encode_params (EncodeTimeout (GetAllPITsParams_TimeoutParams q) ++ EncodeDebug (GetAllPITsParams_DebugParams q) ++ GetAllPITsParams_own q).
Record GetAllPITsReq := MkGetAllPITsReq { GetAllPITsReq_Header : headers; GetAllPITsReq_Params : option GetAllPITsParams }.
Definition GetAllPITsReq_GetRequest (r : GetAllPITsReq) (method : string) : request_error + httpRequest * Z :=
  send method (GetAllPITsPath_Build (MkGetAllPITsPath))
    (match GetAllPITsReq_Params r with Some q => GetAllPITsParams_get q | None => ∅ end)
    no_body (GetAllPITsReq_Header r).
Definition GetAllPITs_Method (r : GetAllPITsReq) : string := "GET".
#[export] Instance GetAllPITs_operation : operation GetAllPITsReq :=
  {| op_path := MkPathType "GetAllPITsPath" GetAllPITsPath _ _; op_P := GetAllPITsParams; op_fields r := MkGetAllPITsPath;
     op_params := GetAllPITsReq_Params; op_defaults := None; op_timeout := GetAllPITsParams_TimeoutParams; op_debug := GetAllPITsParams_DebugParams;
     op_format := None; op_own := GetAllPITsParams_own; op_slots := GetAllPITsParams_slots;
     op_body _ := no_body; op_headers r := GetAllPITsReq_Header r;
     Method := GetAllPITs_Method; GetRequest := GetAllPITsReq_GetRequest;
     op_keys := [];
     op_described := [("GET", "/_search/point_in_time/_all")];
     op_query := [] |}.
#[export] Instance GetAllPITs_operates : LawfulOp GetAllPITsReq.
Proof. operate. Qed.

Record GetScriptParams := MkGetScriptParams { GetScriptParams_TimeoutParams : TimeoutParams; GetScriptParams_DebugParams : DebugParams }.
Definition GetScriptParams_own (q : GetScriptParams) : list param :=
  [].
Definition GetScriptParams_slots : list (string * (GetScriptParams -> slot)) :=
  [].
Definition GetScriptParams_get (q : GetScriptParams) : gmap string string :=
  encode_params (EncodeTimeout (GetScriptParams_TimeoutParams q) ++ EncodeDebug (GetScriptParams_DebugParams q) ++ GetScriptParams_own q).
Record GetScriptReq := MkGetScriptReq { GetScriptReq_ID : string; GetScriptReq_Header : headers; GetScriptReq_Params : option GetScriptParams }.
Definition GetScriptReq_GetRequest (r : GetScriptReq) (method : string) : request_error + httpRequest * Z :=
  send method (GetScriptPath_Build (MkGetScriptPath (GetScriptReq_ID r)))
    (match GetScriptReq_Params r with Some q => GetScriptParams_get q | None => ∅ end)
    no_body (GetScriptReq_Header r).
Definition GetScript_Method (r : GetScriptReq) : string := "GET".
#[export] Instance GetScript_operation : operation GetScriptReq :=
  {| op_path := MkPathType "GetScriptPath" GetScriptPath _ _; op_P := GetScriptParams; op_fields r := MkGetScriptPath (GetScriptReq_ID r);
     op_params := GetScriptReq_Params; op_defaults := None; op_timeout := GetScriptParams_TimeoutParams; op_debug := GetScriptParams_DebugParams;
     op_format := None; op_own := GetScriptParams_own; op_slots := GetScriptParams_slots;
     op_body _ := no_body; op_headers r := GetScriptReq_Header r;
     Method := GetScript_Method; GetRequest := GetScriptReq_GetRequest;
     op_keys := [];
     op_described := [("GET", "/_scripts/{id}")];
     op_query := [] |}.
#[export] Instance GetScript_operates : LawfulOp GetScriptReq.
Proof. operate. Qed.

Record GetScriptContextParams := MkGetScriptContextParams { GetScriptContextParams_TimeoutParams : TimeoutParams; GetScriptContextParams_DebugParams : DebugParams }.
Definition GetScriptContextParams_own (q : GetScriptContextParams) : list param :=
  [].
Definition GetScriptContextParams_slots : list (string * (GetScriptContextParams -> slot)) :=
  [].
Definition GetScriptContextParams_get (q : GetScriptContextParams) : gmap string string :=
  encode_params (EncodeTimeout (GetScriptContextParams_TimeoutParams q) ++ EncodeDebug (GetScriptContextParams_DebugParams q) ++ GetScriptContextParams_own q).
Record GetScriptContextReq := MkGetScriptContextReq { GetScriptContextReq_Header : headers; GetScriptContextReq_Params : option GetScriptContextParams }.
Definition GetScriptContextReq_GetRequest (r : GetScriptContextReq) (method : string) : request_error + httpRequest * Z :=
  send method (GetScriptContextPath_Build (MkGetScriptContextPath))
    (match GetScriptContextReq_Params r with Some q => GetScriptContextParams_get q | None => ∅ end)
    no_body (GetScriptContextReq_Header r).
Definition GetScriptContext_Method (r : GetScriptContextReq) : string := "GET".
#[export] Instance GetScriptContext_operation : operation GetScriptContextReq :=
  {| op_path := MkPathType "GetScriptContextPath" GetScriptContextPath _ _; op_P := GetScriptContextParams; op_fields r := MkGetScriptContextPath;
     op_params := GetScriptContextReq_Params; op_defaults := None; op_timeout := GetScriptContextParams_TimeoutParams; op_debug := GetScriptContextParams_DebugParams;
     op_format := None; op_own := GetScriptContextParams_own; op_slots := GetScriptContextParams_slots;
     op_body _ := no_body; op_headers r := GetScriptContextReq_Header r;
     Method := GetScriptContext_Method; GetRequest := GetScriptContextReq_GetRequest;
     op_keys := [];
     op_described := [("GET", "/_script_context")];
     op_query := [] |}.
#[export] Instance GetScriptContext_operates : LawfulOp GetScriptContextReq.
Proof. operate. Qed.

Record GetScriptLanguagesParams := MkGetScriptLanguagesParams { GetScriptLanguagesParams_TimeoutParams : TimeoutParams; GetScriptLanguagesParams_DebugParams : DebugParams }.
Definition GetScriptLanguagesParams_own (q : GetScriptLanguagesParams) : list param :=
  [].
Definition GetScriptLanguagesParams_slots : list (string * (GetScriptLanguagesParams -> slot)) :=
  [].
Definition GetScriptLanguagesParams_get (q : GetScriptLanguagesParams) : gmap string string :=
  encode_params (EncodeTimeout (GetScriptLanguagesParams_TimeoutParams q) ++ EncodeDebug (GetScriptLanguagesParams_DebugParams q) ++ GetScriptLanguagesParams_own q).
Record GetScriptLanguagesReq := MkGetScriptLanguagesReq { GetScriptLanguagesReq_Header : headers; GetScriptLanguagesReq_Params : option GetScriptLanguagesParams }.
Definition GetScriptLanguagesReq_GetRequest (r : GetScriptLanguagesReq) (method : string) : request_error + httpRequest * Z :=
  send method (GetScriptLanguagesPath_Build (MkGetScriptLanguagesPath))
    (match GetScriptLanguagesReq_Params r with Some q => GetScriptLanguagesParams_get q | None => ∅ end)
    no_body (GetScriptLanguagesReq_Header r).
Definition GetScriptLanguages_Method (r : GetScriptLanguagesReq) : string := "GET".
#[export] Instance GetScriptLanguages_operation : operation GetScriptLanguagesReq :=
  {| op_path := MkPathType "GetScriptLanguagesPath" GetScriptLanguagesPath _ _; op_P := GetScriptLanguagesParams; op_fields r := MkGetScriptLanguagesPath;
     op_params := GetScriptLanguagesReq_Params; op_defaults := None; op_timeout := GetScriptLanguagesParams_TimeoutParams; op_debug := GetScriptLanguagesParams_DebugParams;
     op_format := None; op_own := GetScriptLanguagesParams_own; op_slots := GetScriptLanguagesParams_slots;
     op_body _ := no_body; op_headers r := GetScriptLanguagesReq_Header r;
     Method := GetScriptLanguages_Method; GetRequest := GetScriptLanguagesReq_GetRequest;
     op_keys := [];
     op_described := [("GET", "/_script_language")];
     op_query := [] |}.
#[export] Instance GetScriptLanguages_operates : LawfulOp GetScriptLanguagesReq.
Proof. operate. Qed.

Record GetSourceParams := MkGetSourceParams { GetSourceParams_TimeoutParams : TimeoutParams; GetSourceParams_DebugParams : DebugParams; GetSourceParams_Source : string;
  GetSourceParams_SourceExcludes : list string; GetSourceParams_SourceIncludes : list string; GetSourceParams_Preference : string;
  GetSourceParams_Realtime : option bool; GetSourceParams_Refresh : string; GetSourceParams_Routing : list string; GetSourceParams_Version : Z;
  GetSourceParams_VersionType : string }.
Definition GetSourceParams_own (q : GetSourceParams) : list param :=
  [("_source", nonEmpty (GetSourceParams_Source q)); ("_source_excludes", joined (GetSourceParams_SourceExcludes q));
  ("_source_includes", joined (GetSourceParams_SourceIncludes q)); ("preference", nonEmpty (GetSourceParams_Preference q));
  ("realtime", boolPtr (GetSourceParams_Realtime q)); ("refresh", nonEmpty (GetSourceParams_Refresh q));
  ("routing", joined (GetSourceParams_Routing q)); ("version", nonZero (GetSourceParams_Version q));
  ("version_type", nonEmpty (GetSourceParams_VersionType q))].
Definition GetSourceParams_slots : list (string * (GetSourceParams -> slot)) :=
  [("Source", fun q => Text (GetSourceParams_Source q)); ("SourceExcludes", fun q => TextList (GetSourceParams_SourceExcludes q));
  ("SourceIncludes", fun q => TextList (GetSourceParams_SourceIncludes q)); ("Preference", fun q => Text (GetSourceParams_Preference q));
  ("Realtime", fun q => BoolPtr (GetSourceParams_Realtime q)); ("Refresh", fun q => Text (GetSourceParams_Refresh q));
  ("Routing", fun q => TextList (GetSourceParams_Routing q)); ("Version", fun q => Int (GetSourceParams_Version q));
  ("VersionType", fun q => Text (GetSourceParams_VersionType q))].
Definition GetSourceParams_get (q : GetSourceParams) : gmap string string :=
  encode_params (EncodeTimeout (GetSourceParams_TimeoutParams q) ++ EncodeDebug (GetSourceParams_DebugParams q) ++ GetSourceParams_own q).
Record GetSourceReq := MkGetSourceReq { GetSourceReq_Index : string; GetSourceReq_ID : string; GetSourceReq_Header : headers; GetSourceReq_Params : option GetSourceParams }.
Definition GetSourceReq_GetRequest (r : GetSourceReq) (method : string) : request_error + httpRequest * Z :=
  send method (GetSourcePath_Build (MkGetSourcePath (GetSourceReq_Index r) (GetSourceReq_ID r)))
    (match GetSourceReq_Params r with Some q => GetSourceParams_get q | None => ∅ end)
    no_body (GetSourceReq_Header r).
Definition GetSource_Method (r : GetSourceReq) : string := "GET".
#[export] Instance GetSource_operation : operation GetSourceReq :=
  {| op_path := MkPathType "GetSourcePath" GetSourcePath _ _; op_P := GetSourceParams; op_fields r := MkGetSourcePath (GetSourceReq_Index r) (GetSourceReq_ID r);
     op_params := GetSourceReq_Params; op_defaults := None; op_timeout := GetSourceParams_TimeoutParams; op_debug := GetSourceParams_DebugParams;
     op_format := None; op_own := GetSourceParams_own; op_slots := GetSourceParams_slots;
     op_body _ := no_body; op_headers r := GetSourceReq_Header r;
     Method := GetSource_Method; GetRequest := GetSourceReq_GetRequest;
     op_keys := ["_source"; "_source_excludes"; "_source_includes"; "preference"; "realtime"; "refresh"; "routing"; "version"; "version_type"];
     op_described := [("GET", "/{index}/_source/{id}")];
     op_query := ["_source"; "_source_excludes"; "_source_includes"; "preference"; "realtime"; "refresh"; "routing"; "version"; "version_type"] |}.
#[export] Instance GetSource_operates : LawfulOp GetSourceReq.
Proof. operate. Qed.

Record IndexParams := MkIndexParams { IndexParams_TimeoutParams : TimeoutParams; IndexParams_DebugParams : DebugParams; IndexParams_IfPrimaryTerm : option Z;
  IndexParams_IfSeqNo : option Z; IndexParams_OpType : string; IndexParams_Pipeline : string; IndexParams_Refresh : string;
  IndexParams_RequireAlias : option bool; IndexParams_Routing : list string; IndexParams_Version : Z; IndexParams_VersionType : string;
  IndexParams_WaitForActiveShards : string }.
Definition IndexParams_own (q : IndexParams) : list param :=
  [("if_primary_term", intPtr (IndexParams_IfPrimaryTerm q)); ("if_seq_no", intPtr (IndexParams_IfSeqNo q));
  ("op_type", nonEmpty (IndexParams_OpType q)); ("pipeline", nonEmpty (IndexParams_Pipeline q)); ("refresh", nonEmpty (IndexParams_Refresh q));
  ("require_alias", boolPtr (IndexParams_RequireAlias q)); ("routing", joined (IndexParams_Routing q)); ("version", nonZero (IndexParams_Version q));
  ("version_type", nonEmpty (IndexParams_VersionType q)); ("wait_for_active_shards", nonEmpty (IndexParams_WaitForActiveShards q))].
Definition IndexParams_slots : list (string * (IndexParams -> slot)) :=
  [("IfPrimaryTerm", fun q => IntPtr (IndexParams_IfPrimaryTerm q)); ("IfSeqNo", fun q => IntPtr (IndexParams_IfSeqNo q));
  ("OpType", fun q => Text (IndexParams_OpType q)); ("Pipeline", fun q => Text (IndexParams_Pipeline q));
  ("Refresh", fun q => Text (IndexParams_Refresh q)); ("RequireAlias", fun q => BoolPtr (IndexParams_RequireAlias q));
  ("Routing", fun q => TextList (IndexParams_Routing q)); ("Version", fun q => Int (IndexParams_Version q));
  ("VersionType", fun q => Text (IndexParams_VersionType q)); ("WaitForActiveShards", fun q => Text (IndexParams_WaitForActiveShards q))].
Definition IndexParams_get (q : IndexParams) : gmap string string :=
  encode_params (EncodeTimeout (IndexParams_TimeoutParams q) ++ EncodeDebug (IndexParams_DebugParams q) ++ IndexParams_own q).
Record IndexReq := MkIndexReq { IndexReq_Index : string; IndexReq_ID : string; IndexReq_Body : reader; IndexReq_Header : headers; IndexReq_Params : option IndexParams }.
Definition IndexReq_GetRequest (r : IndexReq) (method : string) : request_error + httpRequest * Z :=
  send method (IndexPath_Build (MkIndexPath (IndexReq_Index r) (IndexReq_ID r)))
    (match IndexReq_Params r with Some q => IndexParams_get q | None => ∅ end)
    (raw_body (IndexReq_Body r)) (IndexReq_Header r).
Definition Index_Method (r : IndexReq) : string := "POST".
#[export] Instance Index_operation : operation IndexReq :=
  {| op_path := MkPathType "IndexPath" IndexPath _ _; op_P := IndexParams; op_fields r := MkIndexPath (IndexReq_Index r) (IndexReq_ID r);
     op_params := IndexReq_Params; op_defaults := None; op_timeout := IndexParams_TimeoutParams; op_debug := IndexParams_DebugParams;
     op_format := None; op_own := IndexParams_own; op_slots := IndexParams_slots;
     op_body r := raw_body (IndexReq_Body r); op_headers r := IndexReq_Header r;
     Method := Index_Method; GetRequest := IndexReq_GetRequest;
     op_keys := ["if_primary_term"; "if_seq_no"; "op_type"; "pipeline"; "refresh"; "require_alias"; "routing"; "version"; "version_type"; "wait_for_active_shards"];
     op_described := [("POST", "/{index}/_doc"); ("POST", "/{index}/_doc/{id}"); ("PUT", "/{index}/_doc/{id}")];
     op_query := ["if_primary_term"; "if_seq_no"; "op_type"; "pipeline"; "refresh"; "require_alias"; "routing"; "version"; "version_type"; "wait_for_active_shards"] |}.
#[export] Instance Index_operates : LawfulOp IndexReq.
Proof. operate. Qed.

Record InfoParams := MkInfoParams { InfoParams_TimeoutParams : TimeoutParams; InfoParams_DebugParams : DebugParams }.
Definition InfoParams_own (q : InfoParams) : list param :=
  [].
Definition InfoParams_slots : list (string * (InfoParams -> slot)) :=
  [].
Definition InfoParams_get (q : InfoParams) : gmap string string :=
  encode_params (EncodeTimeout (InfoParams_TimeoutParams q) ++ EncodeDebug (InfoParams_DebugParams q) ++ InfoParams_own q).
Record InfoReq := MkInfoReq { InfoReq_Header : headers; InfoReq_Params : option InfoParams }.
Definition InfoReq_GetRequest (r : InfoReq) (method : string) : request_error + httpRequest * Z :=
  send method (InfoPath_Build (MkInfoPath))
    (match InfoReq_Params r with Some q => InfoParams_get q | None => ∅ end)
    no_body (InfoReq_Header r).
Definition Info_Method (r : InfoReq) : string := "GET".
#[export] Instance Info_operation : operation InfoReq :=
  {| op_path := MkPathType "InfoPath" InfoPath _ _; op_P := InfoParams; op_fields r := MkInfoPath;
     op_params := InfoReq_Params; op_defaults := None; op_timeout := InfoParams_TimeoutParams; op_debug := InfoParams_DebugParams;
     op_format := None; op_own := InfoParams_own; op_slots := InfoParams_slots;
     op_body _ := no_body; op_headers r := InfoReq_Header r;
     Method := Info_Method; GetRequest := InfoReq_GetRequest;
     op_keys := [];
     op_described := [("GET", "/")];
     op_query := [] |}.
#[export] Instance Info_operates : LawfulOp InfoReq.
Proof. operate. Qed.

Record MgetParams := MkMgetParams { MgetParams_TimeoutParams : TimeoutParams; MgetParams_DebugParams : DebugParams; MgetParams_Source : string; MgetParams_SourceExcludes : list string;
  MgetParams_SourceIncludes : list string; MgetParams_Preference : string; MgetParams_Realtime : option bool; MgetParams_Refresh : string;
  MgetParams_Routing : list string; MgetParams_StoredFields : list string }.
Definition MgetParams_own (q : MgetParams) : list param :=
  [("_source", nonEmpty (MgetParams_Source q)); ("_source_excludes", joined (MgetParams_SourceExcludes q));
  ("_source_includes", joined (MgetParams_SourceIncludes q)); ("preference", nonEmpty (MgetParams_Preference q));
  ("realtime", boolPtr (MgetParams_Realtime q)); ("refresh", nonEmpty (MgetParams_Refresh q)); ("routing", joined (MgetParams_Routing q));
  ("stored_fields", joined (MgetParams_StoredFields q))].
Definition MgetParams_slots : list (string * (MgetParams -> slot)) :=
  [("Source", fun q => Text (MgetParams_Source q)); ("SourceExcludes", fun q => TextList (MgetParams_SourceExcludes q));
  ("SourceIncludes", fun q => TextList (MgetParams_SourceIncludes q)); ("Preference", fun q => Text (MgetParams_Preference q));
  ("Realtime", fun q => BoolPtr (MgetParams_Realtime q)); ("Refresh", fun q => Text (MgetParams_Refresh q));
  ("Routing", fun q => TextList (MgetParams_Routing q)); ("StoredFields", fun q => TextList (MgetParams_StoredFields q))].
Definition MgetParams_get (q : MgetParams) : gmap string string :=
  encode_params (EncodeTimeout (MgetParams_TimeoutParams q) ++ EncodeDebug (MgetParams_DebugParams q) ++ MgetParams_own q).
Record MgetReq := MkMgetReq { MgetReq_Index : string; MgetReq_Body : option (option string); MgetReq_BodyReader : reader; MgetReq_Header : headers;
  MgetReq_Params : option MgetParams }.
Definition MgetReq_GetRequest (r : MgetReq) (method : string) : request_error + httpRequest * Z :=
  send method (MgetPath_Build (MkMgetPath (MgetReq_Index r)))
    (match MgetReq_Params r with Some q => MgetParams_get q | None => ∅ end)
    (json_body (MgetReq_Body r) (MgetReq_BodyReader r)) (MgetReq_Header r).
Definition Mget_Method (r : MgetReq) : string := method_by_body (MgetReq_Body r) (MgetReq_BodyReader r).
#[export] Instance Mget_operation : operation MgetReq :=
  {| op_path := MkPathType "MgetPath" MgetPath _ _; op_P := MgetParams; op_fields r := MkMgetPath (MgetReq_Index r);
     op_params := MgetReq_Params; op_defaults := None; op_timeout := MgetParams_TimeoutParams; op_debug := MgetParams_DebugParams;
     op_format := None; op_own := MgetParams_own; op_slots := MgetParams_slots;
     op_body r := json_body (MgetReq_Body r) (MgetReq_BodyReader r); op_headers r := MgetReq_Header r;
     Method := Mget_Method; GetRequest := MgetReq_GetRequest;
     op_keys := ["_source"; "_source_excludes"; "_source_includes"; "preference"; "realtime"; "refresh"; "routing"; "stored_fields"];
     op_described := [("GET", "/_mget"); ("POST", "/_mget"); ("GET", "/{index}/_mget"); ("POST", "/{index}/_mget")];
     op_query := ["_source"; "_source_excludes"; "_source_includes"; "preference"; "realtime"; "refresh"; "routing"; "stored_fields"] |}.
#[export] Instance Mget_operates : LawfulOp MgetReq.
Proof. operate. Qed.

Record MsearchParams := MkMsearchParams { MsearchParams_TimeoutParams : TimeoutParams; MsearchParams_DebugParams : DebugParams; MsearchParams_AllowPartialResults : option bool;
  MsearchParams_CcsMinimizeRoundtrips : option bool; MsearchParams_MaxConcurrentSearches : Z; MsearchParams_MaxConcurrentShardRequests : Z;
  MsearchParams_PreFilterShardSize : Z; MsearchParams_RestTotalHitsAsInt : option bool; MsearchParams_SearchType : string;
  MsearchParams_TypedKeys : option bool }.
Definition MsearchParams_own (q : MsearchParams) : list param :=
  [("allow_partial_results", boolPtr (MsearchParams_AllowPartialResults q));
  ("ccs_minimize_roundtrips", boolPtr (MsearchParams_CcsMinimizeRoundtrips q));
  ("max_concurrent_searches", nonZero (MsearchParams_MaxConcurrentSearches q));
  ("max_concurrent_shard_requests", nonZero (MsearchParams_MaxConcurrentShardRequests q));
  ("pre_filter_shard_size", nonZero (MsearchParams_PreFilterShardSize q)); ("rest_total_hits_as_int", boolPtr (MsearchParams_RestTotalHitsAsInt q));
  ("search_type", nonEmpty (MsearchParams_SearchType q)); ("typed_keys", boolPtr (MsearchParams_TypedKeys q))].
Definition MsearchParams_slots : list (string * (MsearchParams -> slot)) :=
  [("AllowPartialResults", fun q => BoolPtr (MsearchParams_AllowPartialResults q));
  ("CcsMinimizeRoundtrips", fun q => BoolPtr (MsearchParams_CcsMinimizeRoundtrips q));
  ("MaxConcurrentSearches", fun q => Int (MsearchParams_MaxConcurrentSearches q));
  ("MaxConcurrentShardRequests", fun q => Int (MsearchParams_MaxConcurrentShardRequests q));
  ("PreFilterShardSize", fun q => Int (MsearchParams_PreFilterShardSize q));
  ("RestTotalHitsAsInt", fun q => BoolPtr (MsearchParams_RestTotalHitsAsInt q)); ("SearchType", fun q => Text (MsearchParams_SearchType q));
  ("TypedKeys", fun q => BoolPtr (MsearchParams_TypedKeys q))].
Definition MsearchParams_get (q : MsearchParams) : gmap string string :=
  encode_params (EncodeTimeout (MsearchParams_TimeoutParams q) ++ EncodeDebug (MsearchParams_DebugParams q) ++ MsearchParams_own q).
Record MsearchReq := MkMsearchReq { MsearchReq_Indices : list string; MsearchReq_Body : reader; MsearchReq_Header : headers; MsearchReq_Params : option MsearchParams }.
Definition MsearchReq_GetRequest (r : MsearchReq) (method : string) : request_error + httpRequest * Z :=
  send method (MsearchPath_Build (MkMsearchPath (MsearchReq_Indices r)))
    (match MsearchReq_Params r with Some q => MsearchParams_get q | None => ∅ end)
    (raw_body (MsearchReq_Body r)) (ndjson_headers (MsearchReq_Header r)).
Definition Msearch_Method (r : MsearchReq) : string := method_by_reader (MsearchReq_Body r).
#[export] Instance Msearch_operation : operation MsearchReq :=
  {| op_path := MkPathType "MsearchPath" MsearchPath _ _; op_P := MsearchParams; op_fields r := MkMsearchPath (MsearchReq_Indices r);
     op_params := MsearchReq_Params; op_defaults := None; op_timeout := MsearchParams_TimeoutParams; op_debug := MsearchParams_DebugParams;
     op_format := None; op_own := MsearchParams_own; op_slots := MsearchParams_slots;
     op_body r := raw_body (MsearchReq_Body r); op_headers r := ndjson_headers (MsearchReq_Header r);
     Method := Msearch_Method; GetRequest := MsearchReq_GetRequest;
     op_keys := ["allow_partial_results"; "ccs_minimize_roundtrips"; "max_concurrent_searches"; "max_concurrent_shard_requests"; "pre_filter_shard_size";
        "rest_total_hits_as_int"; "search_type"; "typed_keys"];
     op_described := [("GET", "/_msearch"); ("POST", "/_msearch"); ("GET", "/{index}/_msearch"); ("POST", "/{index}/_msearch")];
     op_query := ["allow_partial_results"; "ccs_minimize_roundtrips"; "max_concurrent_searches"; "max_concurrent_shard_requests"; "pre_filter_shard_size";
        "rest_total_hits_as_int"; "search_type"; "typed_keys"] |}.
#[export] Instance Msearch_operates : LawfulOp MsearchReq.
Proof. operate. Qed.

Record MsearchTemplateParams := MkMsearchTemplateParams { MsearchTemplateParams_TimeoutParams : TimeoutParams; MsearchTemplateParams_DebugParams : DebugParams;
  MsearchTemplateParams_CcsMinimizeRoundtrips : option bool; MsearchTemplateParams_MaxConcurrentSearches : Z;
  MsearchTemplateParams_RestTotalHitsAsInt : option bool; MsearchTemplateParams_SearchType : string; MsearchTemplateParams_TypedKeys : option bool }.
Definition MsearchTemplateParams_own (q : MsearchTemplateParams) : list param :=
  [("ccs_minimize_roundtrips", boolPtr (MsearchTemplateParams_CcsMinimizeRoundtrips q));
  ("max_concurrent_searches", nonZero (MsearchTemplateParams_MaxConcurrentSearches q));
  ("rest_total_hits_as_int", boolPtr (MsearchTemplateParams_RestTotalHitsAsInt q)); ("search_type", nonEmpty (MsearchTemplateParams_SearchType q));
  ("typed_keys", boolPtr (MsearchTemplateParams_TypedKeys q))].
Definition MsearchTemplateParams_slots : list (string * (MsearchTemplateParams -> slot)) :=
  [("CcsMinimizeRoundtrips", fun q => BoolPtr (MsearchTemplateParams_CcsMinimizeRoundtrips q));
  ("MaxConcurrentSearches", fun q => Int (MsearchTemplateParams_MaxConcurrentSearches q));
  ("RestTotalHitsAsInt", fun q => BoolPtr (MsearchTemplateParams_RestTotalHitsAsInt q));
  ("SearchType", fun q => Text (MsearchTemplateParams_SearchType q)); ("TypedKeys", fun q => BoolPtr (MsearchTemplateParams_TypedKeys q))].
Definition MsearchTemplateParams_get (q : MsearchTemplateParams) : gmap string string :=
  encode_params (EncodeTimeout (MsearchTemplateParams_TimeoutParams q) ++ EncodeDebug (MsearchTemplateParams_DebugParams q) ++ MsearchTemplateParams_own q).
Record MsearchTemplateReq := MkMsearchTemplateReq { MsearchTemplateReq_Indices : list string; MsearchTemplateReq_Body : reader; MsearchTemplateReq_Header : headers;
  MsearchTemplateReq_Params : option MsearchTemplateParams }.
Definition MsearchTemplateReq_GetRequest (r : MsearchTemplateReq) (method : string) : request_error + httpRequest * Z :=
  send method (MsearchTemplatePath_Build (MkMsearchTemplatePath (MsearchTemplateReq_Indices r)))
    (match MsearchTemplateReq_Params r with Some q => MsearchTemplateParams_get q | None => ∅ end)
    (raw_body (MsearchTemplateReq_Body r)) (ndjson_headers (MsearchTemplateReq_Header r)).
Definition MsearchTemplate_Method (r : MsearchTemplateReq) : string := method_by_reader (MsearchTemplateReq_Body r).
#[export] Instance MsearchTemplate_operation : operation MsearchTemplateReq :=
  {| op_path := MkPathType "MsearchTemplatePath" MsearchTemplatePath _ _; op_P := MsearchTemplateParams; op_fields r := MkMsearchTemplatePath (MsearchTemplateReq_Indices r);
     op_params := MsearchTemplateReq_Params; op_defaults := None; op_timeout := MsearchTemplateParams_TimeoutParams; op_debug := MsearchTemplateParams_DebugParams;
     op_format := None; op_own := MsearchTemplateParams_own; op_slots := MsearchTemplateParams_slots;
     op_body r := raw_body (MsearchTemplateReq_Body r); op_headers r := ndjson_headers (MsearchTemplateReq_Header r);
     Method := MsearchTemplate_Method; GetRequest := MsearchTemplateReq_GetRequest;
     op_keys := ["ccs_minimize_roundtrips"; "max_concurrent_searches"; "rest_total_hits_as_int"; "search_type"; "typed_keys"];
     op_described := [("GET", "/_msearch/template"); ("POST", "/_msearch/template"); ("GET", "/{index}/_msearch/template"); ("POST", "/{index}/_msearch/template")];
     op_query := ["ccs_minimize_roundtrips"; "max_concurrent_searches"; "rest_total_hits_as_int"; "search_type"; "typed_keys"] |}.
#[export] Instance MsearchTemplate_operates : LawfulOp MsearchTemplateReq.
Proof. operate. Qed.

Record MtermvectorsParams := MkMtermvectorsParams { MtermvectorsParams_TimeoutParams : TimeoutParams; MtermvectorsParams_DebugParams : DebugParams; MtermvectorsParams_FieldStatistics : option bool;
  MtermvectorsParams_Fields : list string; MtermvectorsParams_IDs : list string; MtermvectorsParams_Offsets : option bool;
  MtermvectorsParams_Payloads : option bool; MtermvectorsParams_Positions : option bool; MtermvectorsParams_Preference : string;
  MtermvectorsParams_Realtime : option bool; MtermvectorsParams_Routing : list string; MtermvectorsParams_TermStatistics : option bool;
  MtermvectorsParams_Version : Z; MtermvectorsParams_VersionType : string }.
Definition MtermvectorsParams_own (q : MtermvectorsParams) : list param :=
  [("field_statistics", boolPtr (MtermvectorsParams_FieldStatistics q)); ("fields", joined (MtermvectorsParams_Fields q));
  ("ids", joined (MtermvectorsParams_IDs q)); ("offsets", boolPtr (MtermvectorsParams_Offsets q));
  ("payloads", boolPtr (MtermvectorsParams_Payloads q)); ("positions", boolPtr (MtermvectorsParams_Positions q));
  ("preference", nonEmpty (MtermvectorsParams_Preference q)); ("realtime", boolPtr (MtermvectorsParams_Realtime q));
  ("routing", joined (MtermvectorsParams_Routing q)); ("term_statistics", boolPtr (MtermvectorsParams_TermStatistics q));
  ("version", nonZero (MtermvectorsParams_Version q)); ("version_type", nonEmpty (MtermvectorsParams_VersionType q))].
Definition MtermvectorsParams_slots : list (string * (MtermvectorsParams -> slot)) :=
  [("FieldStatistics", fun q => BoolPtr (MtermvectorsParams_FieldStatistics q)); ("Fields", fun q => TextList (MtermvectorsParams_Fields q));
  ("IDs", fun q => TextList (MtermvectorsParams_IDs q)); ("Offsets", fun q => BoolPtr (MtermvectorsParams_Offsets q));
  ("Payloads", fun q => BoolPtr (MtermvectorsParams_Payloads q)); ("Positions", fun q => BoolPtr (MtermvectorsParams_Positions q));
  ("Preference", fun q => Text (MtermvectorsParams_Preference q)); ("Realtime", fun q => BoolPtr (MtermvectorsParams_Realtime q));
  ("Routing", fun q => TextList (MtermvectorsParams_Routing q)); ("TermStatistics", fun q => BoolPtr (MtermvectorsParams_TermStatistics q));
  ("Version", fun q => Int (MtermvectorsParams_Version q)); ("VersionType", fun q => Text (MtermvectorsParams_VersionType q))].
Definition MtermvectorsParams_get (q : MtermvectorsParams) : gmap string string :=
  encode_params (EncodeTimeout (MtermvectorsParams_TimeoutParams q) ++ EncodeDebug (MtermvectorsParams_DebugParams q) ++ MtermvectorsParams_own q).
Record MtermvectorsReq := MkMtermvectorsReq { MtermvectorsReq_Index : string; MtermvectorsReq_Body : option (option string); MtermvectorsReq_BodyReader : reader; MtermvectorsReq_Header : headers;
  MtermvectorsReq_Params : option MtermvectorsParams }.
Definition MtermvectorsReq_GetRequest (r : MtermvectorsReq) (method : string) : request_error + httpRequest * Z :=
  send method (MtermvectorsPath_Build (MkMtermvectorsPath (MtermvectorsReq_Index r)))
    (match MtermvectorsReq_Params r with Some q => MtermvectorsParams_get q | None => ∅ end)
    (json_body (MtermvectorsReq_Body r) (MtermvectorsReq_BodyReader r)) (MtermvectorsReq_Header r).
Definition Mtermvectors_Method (r : MtermvectorsReq) : string := method_by_body (MtermvectorsReq_Body r) (MtermvectorsReq_BodyReader r).
#[export] Instance Mtermvectors_operation : operation MtermvectorsReq :=
  {| op_path := MkPathType "MtermvectorsPath" MtermvectorsPath _ _; op_P := MtermvectorsParams; op_fields r := MkMtermvectorsPath (MtermvectorsReq_Index r);
     op_params := MtermvectorsReq_Params; op_defaults := None; op_timeout := MtermvectorsParams_TimeoutParams; op_debug := MtermvectorsParams_DebugParams;
     op_format := None; op_own := MtermvectorsParams_own; op_slots := MtermvectorsParams_slots;
     op_body r := json_body (MtermvectorsReq_Body r) (MtermvectorsReq_BodyReader r); op_headers r := MtermvectorsReq_Header r;
     Method := Mtermvectors_Method; GetRequest := MtermvectorsReq_GetRequest;
     op_keys := ["field_statistics"; "fields"; "ids"; "offsets"; "payloads"; "positions"; "preference"; "realtime"; "routing"; "term_statistics"; "version";
        "version_type"];
     op_described := [("GET", "/_mtermvectors"); ("POST", "/_mtermvectors"); ("GET", "/{index}/_mtermvectors"); ("POST", "/{index}/_mtermvectors")];
     op_query := ["field_statistics"; "fields"; "ids"; "offsets"; "payloads"; "positions"; "preference"; "realtime"; "routing"; "term_statistics"; "version";
        "version_type"] |}.
#[export] Instance Mtermvectors_operates : LawfulOp MtermvectorsReq.
Proof. operate. Qed.

Record PingParams := MkPingParams { PingParams_TimeoutParams : TimeoutParams; PingParams_DebugParams : DebugParams }.
Definition PingParams_own (q : PingParams) : list param :=
  [].
Definition PingParams_slots : list (string * (PingParams -> slot)) :=
  [].
Definition PingParams_get (q : PingParams) : gmap string string :=
  encode_params (EncodeTimeout (PingParams_TimeoutParams q) ++ EncodeDebug (PingParams_DebugParams q) ++ PingParams_own q).
Record PingReq := MkPingReq { PingReq_Header : headers; PingReq_Params : option PingParams }.
Definition PingReq_GetRequest (r : PingReq) (method : string) : request_error + httpRequest * Z :=
  send method (PingPath_Build (MkPingPath))
    (match PingReq_Params r with Some q => PingParams_get q | None => ∅ end)
    no_body (PingReq_Header r).
Definition Ping_Method (r : PingReq) : string := "HEAD".
#[export] Instance Ping_operation : operation PingReq :=
  {| op_path := MkPathType "PingPath" PingPath _ _; op_P := PingParams; op_fields r := MkPingPath;
     op_params := PingReq_Params; op_defaults := None; op_timeout := PingParams_TimeoutParams; op_debug := PingParams_DebugParams;
     op_format := None; op_own := PingParams_own; op_slots := PingParams_slots;
     op_body _ := no_body; op_headers r := PingReq_Header r;
     Method := Ping_Method; GetRequest := PingReq_GetRequest;
     op_keys := [];
     op_described := [("HEAD", "/")];
     op_query := [] |}.
#[export] Instance Ping_operates : LawfulOp PingReq.
Proof. operate. Qed.

Record PutScriptParams := MkPutScriptParams { PutScriptParams_TimeoutParams : TimeoutParams; PutScriptParams_DebugParams : DebugParams; PutScriptParams_Context : string }.
Definition PutScriptParams_own (q : PutScriptParams) : list param :=
  [("context", nonEmpty (PutScriptParams_Context q))].
Definition PutScriptParams_slots : list (string * (PutScriptParams -> slot)) :=
  [("Context", fun q => Text (PutScriptParams_Context q))].
Definition PutScriptParams_get (q : PutScriptParams) : gmap string string :=
  encode_params (EncodeTimeout (PutScriptParams_TimeoutParams q) ++ EncodeDebug (PutScriptParams_DebugParams q) ++ PutScriptParams_own q).
Record PutScriptReq := MkPutScriptReq { PutScriptReq_ID : string; PutScriptReq_Context : string; PutScriptReq_Body : option (option string); PutScriptReq_BodyReader : reader;
  PutScriptReq_Header : headers; PutScriptReq_Params : option PutScriptParams }.
Definition PutScriptReq_GetRequest (r : PutScriptReq) (method : string) : request_error + httpRequest * Z :=
  send method (PutScriptPath_Build (MkPutScriptPath (PutScriptReq_ID r) (PutScriptReq_Context r)))
    (match PutScriptReq_Params r with Some q => PutScriptParams_get q | None => ∅ end)
    (json_body (PutScriptReq_Body r) (PutScriptReq_BodyReader r)) (PutScriptReq_Header r).
Definition PutScript_Method (r : PutScriptReq) : string := "POST".
#[export] Instance PutScript_operation : operation PutScriptReq :=
  {| op_path := MkPathType "PutScriptPath" PutScriptPath _ _; op_P := PutScriptParams; op_fields r := MkPutScriptPath (PutScriptReq_ID r) (PutScriptReq_Context r);
     op_params := PutScriptReq_Params; op_defaults := None; op_timeout := PutScriptParams_TimeoutParams; op_debug := PutScriptParams_DebugParams;
     op_format := None; op_own := PutScriptParams_own; op_slots := PutScriptParams_slots;
     op_body r := json_body (PutScriptReq_Body r) (PutScriptReq_BodyReader r); op_headers r := PutScriptReq_Header r;
     Method := PutScript_Method; GetRequest := PutScriptReq_GetRequest;
     op_keys := ["context"];
     op_described := [("POST", "/_scripts/{id}"); ("PUT", "/_scripts/{id}"); ("POST", "/_scripts/{id}/{context}"); ("PUT", "/_scripts/{id}/{context}")];
     op_query := ["context"] |}.
#[export] Instance PutScript_operates : LawfulOp PutScriptReq.
Proof. operate. Qed.

Record RankEvalParams := MkRankEvalParams { RankEvalParams_TimeoutParams : TimeoutParams; RankEvalParams_DebugParams : DebugParams; RankEvalParams_AllowNoIndices : option bool;
  RankEvalParams_ExpandWildcards : list string; RankEvalParams_IgnoreUnavailable : option bool; RankEvalParams_SearchType : string }.
Definition RankEvalParams_own (q : RankEvalParams) : list param :=
  [("allow_no_indices", boolPtr (RankEvalParams_AllowNoIndices q)); ("expand_wildcards", joined (RankEvalParams_ExpandWildcards q));
  ("ignore_unavailable", boolPtr (RankEvalParams_IgnoreUnavailable q)); ("search_type", nonEmpty (RankEvalParams_SearchType q))].
Definition RankEvalParams_slots : list (string * (RankEvalParams -> slot)) :=
  [("AllowNoIndices", fun q => BoolPtr (RankEvalParams_AllowNoIndices q)); ("ExpandWildcards", fun q => TextList (RankEvalParams_ExpandWildcards q));
  ("IgnoreUnavailable", fun q => BoolPtr (RankEvalParams_IgnoreUnavailable q)); ("SearchType", fun q => Text (RankEvalParams_SearchType q))].
Definition RankEvalParams_get (q : RankEvalParams) : gmap string string :=
  encode_params (EncodeTimeout (RankEvalParams_TimeoutParams q) ++ EncodeDebug (RankEvalParams_DebugParams q) ++ RankEvalParams_own q).
Record RankEvalReq := MkRankEvalReq { RankEvalReq_Indices : list string; RankEvalReq_Body : option (option string); RankEvalReq_BodyReader : reader; RankEvalReq_Header : headers;
  RankEvalReq_Params : option RankEvalParams }.
Definition RankEvalReq_GetRequest (r : RankEvalReq) (method : string) : request_error + httpRequest * Z :=
  send method (RankEvalPath_Build (MkRankEvalPath (RankEvalReq_Indices r)))
    (match RankEvalReq_Params r with Some q => RankEvalParams_get q | None => ∅ end)
    (json_body (RankEvalReq_Body r) (RankEvalReq_BodyReader r)) (RankEvalReq_Header r).
Definition RankEval_Method (r : RankEvalReq) : string := method_by_body (RankEvalReq_Body r) (RankEvalReq_BodyReader r).
#[export] Instance RankEval_operation : operation RankEvalReq :=
  {| op_path := MkPathType "RankEvalPath" RankEvalPath _ _; op_P := RankEvalParams; op_fields r := MkRankEvalPath (RankEvalReq_Indices r);
     op_params := RankEvalReq_Params; op_defaults := None; op_timeout := RankEvalParams_TimeoutParams; op_debug := RankEvalParams_DebugParams;
     op_format := None; op_own := RankEvalParams_own; op_slots := RankEvalParams_slots;
     op_body r := json_body (RankEvalReq_Body r) (RankEvalReq_BodyReader r); op_headers r := RankEvalReq_Header r;
     Method := RankEval_Method; GetRequest := RankEvalReq_GetRequest;
     op_keys := ["allow_no_indices"; "expand_wildcards"; "ignore_unavailable"; "search_type"];
     op_described := [("GET", "/_rank_eval"); ("POST", "/_rank_eval"); ("GET", "/{index}/_rank_eval"); ("POST", "/{index}/_rank_eval")];
     op_query := ["allow_no_indices"; "expand_wildcards"; "ignore_unavailable"; "search_type"] |}.
#[export] Instance RankEval_operates : LawfulOp RankEvalReq.
Proof. operate. Qed.

Record ReindexParams := MkReindexParams { ReindexParams_TimeoutParams : TimeoutParams; ReindexParams_DebugParams : DebugParams; ReindexParams_MaxDocs : Z; ReindexParams_Refresh : string;
  ReindexParams_RequestsPerSecond : Z; ReindexParams_RequireAlias : option bool; ReindexParams_Scroll : Z; ReindexParams_Slices : string;
  ReindexParams_WaitForActiveShards : string; ReindexParams_WaitForCompletion : option bool }.
Definition ReindexParams_own (q : ReindexParams) : list param :=
  [("max_docs", nonZero (ReindexParams_MaxDocs q)); ("refresh", nonEmpty (ReindexParams_Refresh q));
  ("requests_per_second", nonZero (ReindexParams_RequestsPerSecond q)); ("require_alias", boolPtr (ReindexParams_RequireAlias q));
  ("scroll", duration (ReindexParams_Scroll q)); ("slices", nonEmpty (ReindexParams_Slices q));
  ("wait_for_active_shards", nonEmpty (ReindexParams_WaitForActiveShards q)); ("wait_for_completion", boolPtr (ReindexParams_WaitForCompletion q))].
Definition ReindexParams_slots : list (string * (ReindexParams -> slot)) :=
  [("MaxDocs", fun q => Int (ReindexParams_MaxDocs q)); ("Refresh", fun q => Text (ReindexParams_Refresh q));
  ("RequestsPerSecond", fun q => Int (ReindexParams_RequestsPerSecond q)); ("RequireAlias", fun q => BoolPtr (ReindexParams_RequireAlias q));
  ("Scroll", fun q => Duration (ReindexParams_Scroll q)); ("Slices", fun q => Text (ReindexParams_Slices q));
  ("WaitForActiveShards", fun q => Text (ReindexParams_WaitForActiveShards q));
  ("WaitForCompletion", fun q => BoolPtr (ReindexParams_WaitForCompletion q))].
Definition ReindexParams_get (q : ReindexParams) : gmap string string :=
  encode_params (EncodeTimeout (ReindexParams_TimeoutParams q) ++ EncodeDebug (ReindexParams_DebugParams q) ++ ReindexParams_own q).
Record ReindexReq := MkReindexReq { ReindexReq_Body : option (option string); ReindexReq_BodyReader : reader; ReindexReq_Header : headers; ReindexReq_Params : option ReindexParams }.
Definition ReindexReq_GetRequest (r : ReindexReq) (method : string) : request_error + httpRequest * Z :=
  send method (ReindexPath_Build (MkReindexPath))
    (match ReindexReq_Params r with Some q => ReindexParams_get q | None => ∅ end)
    (json_body (ReindexReq_Body r) (ReindexReq_BodyReader r)) (ReindexReq_Header r).
Definition Reindex_Method (r : ReindexReq) : string := "POST".
#[export] Instance Reindex_operation : operation ReindexReq :=
  {| op_path := MkPathType "ReindexPath" ReindexPath _ _; op_P := ReindexParams; op_fields r := MkReindexPath;
     op_params := ReindexReq_Params; op_defaults := None; op_timeout := ReindexParams_TimeoutParams; op_debug := ReindexParams_DebugParams;
     op_format := None; op_own := ReindexParams_own; op_slots := ReindexParams_slots;
     op_body r := json_body (ReindexReq_Body r) (ReindexReq_BodyReader r); op_headers r := ReindexReq_Header r;
     Method := Reindex_Method; GetRequest := ReindexReq_GetRequest;
     op_keys := ["max_docs"; "refresh"; "requests_per_second"; "require_alias"; "scroll"; "slices"; "wait_for_active_shards"; "wait_for_completion"];
     op_described := [("POST", "/_reindex")];
     op_query := ["max_docs"; "refresh"; "requests_per_second"; "require_alias"; "scroll"; "slices"; "wait_for_active_shards"; "wait_for_completion"] |}.
#[export] Instance Reindex_operates : LawfulOp ReindexReq.
Proof. operate. Qed.

Record ReindexRethrottleParams := MkReindexRethrottleParams { ReindexRethrottleParams_TimeoutParams : TimeoutParams; ReindexRethrottleParams_DebugParams : DebugParams;
  ReindexRethrottleParams_RequestsPerSecond : Z }.
Definition ReindexRethrottleParams_own (q : ReindexRethrottleParams) : list param :=
  [("requests_per_second", nonZero (ReindexRethrottleParams_RequestsPerSecond q))].
Definition ReindexRethrottleParams_slots : list (string * (ReindexRethrottleParams -> slot)) :=
  [("RequestsPerSecond", fun q => Int (ReindexRethrottleParams_RequestsPerSecond q))].
Definition ReindexRethrottleParams_get (q : ReindexRethrottleParams) : gmap string string :=
  encode_params (EncodeTimeout (ReindexRethrottleParams_TimeoutParams q) ++ EncodeDebug (ReindexRethrottleParams_DebugParams q) ++ ReindexRethrottleParams_own q).
Record ReindexRethrottleReq := MkReindexRethrottleReq { ReindexRethrottleReq_TaskID : string; ReindexRethrottleReq_Header : headers; ReindexRethrottleReq_Params : option ReindexRethrottleParams }.
Definition ReindexRethrottleReq_GetRequest (r : ReindexRethrottleReq) (method : string) : request_error + httpRequest * Z :=
  send method (ReindexRethrottlePath_Build (MkReindexRethrottlePath (ReindexRethrottleReq_TaskID r)))
    (match ReindexRethrottleReq_Params r with Some q => ReindexRethrottleParams_get q | None => ∅ end)
    no_body (ReindexRethrottleReq_Header r).
Definition ReindexRethrottle_Method (r : ReindexRethrottleReq) : string := "POST".
#[export] Instance ReindexRethrottle_operation : operation ReindexRethrottleReq :=
  {| op_path := MkPathType "ReindexRethrottlePath" ReindexRethrottlePath _ _; op_P := ReindexRethrottleParams; op_fields r := MkReindexRethrottlePath (ReindexRethrottleReq_TaskID r);
     op_params := ReindexRethrottleReq_Params; op_defaults := None; op_timeout := ReindexRethrottleParams_TimeoutParams; op_debug := ReindexRethrottleParams_DebugParams;
     op_format := None; op_own := ReindexRethrottleParams_own; op_slots := ReindexRethrottleParams_slots;
     op_body _ := no_body; op_headers r := ReindexRethrottleReq_Header r;
     Method := ReindexRethrottle_Method; GetRequest := ReindexRethrottleReq_GetRequest;
     op_keys := ["requests_per_second"];
     op_described := [("POST", "/_reindex/{task_id}/_rethrottle")];
     op_query := ["requests_per_second"] |}.
#[export] Instance ReindexRethrottle_operates : LawfulOp ReindexRethrottleReq.
Proof. operate. Qed.

Record RenderSearchTemplateParams := MkRenderSearchTemplateParams { RenderSearchTemplateParams_TimeoutParams : TimeoutParams; RenderSearchTemplateParams_DebugParams : DebugParams }.
Definition RenderSearchTemplateParams_own (q : RenderSearchTemplateParams) : list param :=
  [].
Definition RenderSearchTemplateParams_slots : list (string * (RenderSearchTemplateParams -> slot)) :=
  [].
Definition RenderSearchTemplateParams_get (q : RenderSearchTemplateParams) : gmap string string :=
  encode_params (EncodeTimeout (RenderSearchTemplateParams_TimeoutParams q) ++ EncodeDebug (RenderSearchTemplateParams_DebugParams q) ++ RenderSearchTemplateParams_own q).
Record RenderSearchTemplateReq := MkRenderSearchTemplateReq { RenderSearchTemplateReq_ID : string; RenderSearchTemplateReq_Body : option (option string); RenderSearchTemplateReq_BodyReader : reader;
  RenderSearchTemplateReq_Header : headers; RenderSearchTemplateReq_Params : option RenderSearchTemplateParams }.
Definition RenderSearchTemplateReq_GetRequest (r : RenderSearchTemplateReq) (method : string) : request_error + httpRequest * Z :=
  send method (RenderSearchTemplatePath_Build (MkRenderSearchTemplatePath (RenderSearchTemplateReq_ID r)))
    (match RenderSearchTemplateReq_Params r with Some q => RenderSearchTemplateParams_get q | None => ∅ end)
    (json_body (RenderSearchTemplateReq_Body r) (RenderSearchTemplateReq_BodyReader r)) (RenderSearchTemplateReq_Header r).
Definition RenderSearchTemplate_Method (r : RenderSearchTemplateReq) : string := method_by_body (RenderSearchTemplateReq_Body r) (RenderSearchTemplateReq_BodyReader r).
#[export] Instance RenderSearchTemplate_operation : operation RenderSearchTemplateReq :=
  {| op_path := MkPathType "RenderSearchTemplatePath" RenderSearchTemplatePath _ _; op_P := RenderSearchTemplateParams; op_fields r := MkRenderSearchTemplatePath (RenderSearchTemplateReq_ID r);
     op_params := RenderSearchTemplateReq_Params; op_defaults := None; op_timeout := RenderSearchTemplateParams_TimeoutParams; op_debug := RenderSearchTemplateParams_DebugParams;
     op_format := None; op_own := RenderSearchTemplateParams_own; op_slots := RenderSearchTemplateParams_slots;
     op_body r := json_body (RenderSearchTemplateReq_Body r) (RenderSearchTemplateReq_BodyReader r); op_headers r := RenderSearchTemplateReq_Header r;
     Method := RenderSearchTemplate_Method; GetRequest := RenderSearchTemplateReq_GetRequest;
     op_keys := [];
     op_described := [("GET", "/_render/template"); ("POST", "/_render/template"); ("GET", "/_render/template/{id}"); ("POST", "/_render/template/{id}")];
     op_query := [] |}.
#[export] Instance RenderSearchTemplate_operates : LawfulOp RenderSearchTemplateReq.
Proof. operate. Qed.

Record ScriptsPainlessExecuteParams := MkScriptsPainlessExecuteParams { ScriptsPainlessExecuteParams_TimeoutParams : TimeoutParams; ScriptsPainlessExecuteParams_DebugParams : DebugParams }.
Definition ScriptsPainlessExecuteParams_own (q : ScriptsPainlessExecuteParams) : list param :=
  [].
Definition ScriptsPainlessExecuteParams_slots : list (string * (ScriptsPainlessExecuteParams -> slot)) :=
  [].
Definition ScriptsPainlessExecuteParams_get (q : ScriptsPainlessExecuteParams) : gmap string string :=
  encode_params (EncodeTimeout (ScriptsPainlessExecuteParams_TimeoutParams q) ++ EncodeDebug (ScriptsPainlessExecuteParams_DebugParams q) ++ ScriptsPainlessExecuteParams_own q).
Record ScriptsPainlessExecuteReq := MkScriptsPainlessExecuteReq { ScriptsPainlessExecuteReq_Body : option (option string); ScriptsPainlessExecuteReq_BodyReader : reader; ScriptsPainlessExecuteReq_Header : headers;
  ScriptsPainlessExecuteReq_Params : option ScriptsPainlessExecuteParams }.
Definition ScriptsPainlessExecuteReq_GetRequest (r : ScriptsPainlessExecuteReq) (method : string) : request_error + httpRequest * Z :=
  send method (ScriptsPainlessExecutePath_Build (MkScriptsPainlessExecutePath))
    (match ScriptsPainlessExecuteReq_Params r with Some q => ScriptsPainlessExecuteParams_get q | None => ∅ end)
    (json_body (ScriptsPainlessExecuteReq_Body r) (ScriptsPainlessExecuteReq_BodyReader r)) (ScriptsPainlessExecuteReq_Header r).
Definition ScriptsPainlessExecute_Method (r : ScriptsPainlessExecuteReq) : string := method_by_body (ScriptsPainlessExecuteReq_Body r) (ScriptsPainlessExecuteReq_BodyReader r).
#[export] Instance ScriptsPainlessExecute_operation : operation ScriptsPainlessExecuteReq :=
  {| op_path := MkPathType "ScriptsPainlessExecutePath" ScriptsPainlessExecutePath _ _; op_P := ScriptsPainlessExecuteParams; op_fields r := MkScriptsPainlessExecutePath;
     op_params := ScriptsPainlessExecuteReq_Params; op_defaults := None; op_timeout := ScriptsPainlessExecuteParams_TimeoutParams; op_debug := ScriptsPainlessExecuteParams_DebugParams;
     op_format := None; op_own := ScriptsPainlessExecuteParams_own; op_slots := ScriptsPainlessExecuteParams_slots;
     op_body r := json_body (ScriptsPainlessExecuteReq_Body r) (ScriptsPainlessExecuteReq_BodyReader r); op_headers r := ScriptsPainlessExecuteReq_Header r;
     Method := ScriptsPainlessExecute_Method; GetRequest := ScriptsPainlessExecuteReq_GetRequest;
     op_keys := [];
     op_described := [("GET", "/_scripts/painless/_execute"); ("POST", "/_scripts/painless/_execute")];
     op_query := [] |}.
#[export] Instance ScriptsPainlessExecute_operates : LawfulOp ScriptsPainlessExecuteReq.
Proof. operate. Qed.

Record ScrollParams := MkScrollParams { ScrollParams_TimeoutParams : TimeoutParams; ScrollParams_DebugParams : DebugParams; ScrollParams_RestTotalHitsAsInt : option bool;
  ScrollParams_Scroll : Z; ScrollParams_ScrollID : string }.
Definition ScrollParams_own (q : ScrollParams) : list param :=
  [("rest_total_hits_as_int", boolPtr (ScrollParams_RestTotalHitsAsInt q)); ("scroll", duration (ScrollParams_Scroll q));
  ("scroll_id", nonEmpty (ScrollParams_ScrollID q))].
Definition ScrollParams_slots : list (string * (ScrollParams -> slot)) :=
  [("RestTotalHitsAsInt", fun q => BoolPtr (ScrollParams_RestTotalHitsAsInt q)); ("Scroll", fun q => Duration (ScrollParams_Scroll q));
  ("ScrollID", fun q => Text (ScrollParams_ScrollID q))].
Definition ScrollParams_get (q : ScrollParams) : gmap string string :=
  encode_params (EncodeTimeout (ScrollParams_TimeoutParams q) ++ EncodeDebug (ScrollParams_DebugParams q) ++ ScrollParams_own q).
Record ScrollReq := MkScrollReq { ScrollReq_ScrollID : string; ScrollReq_Body : option (option string); ScrollReq_BodyReader : reader; ScrollReq_Header : headers;
  ScrollReq_Params : option ScrollParams }.
Definition ScrollReq_GetRequest (r : ScrollReq) (method : string) : request_error + httpRequest * Z :=
  send method (ScrollPath_Build (MkScrollPath (ScrollReq_ScrollID r)))
    (match ScrollReq_Params r with Some q => ScrollParams_get q | None => ∅ end)
    (json_body (ScrollReq_Body r) (ScrollReq_BodyReader r)) (ScrollReq_Header r).
Definition Scroll_Method (r : ScrollReq) : string := method_by_body (ScrollReq_Body r) (ScrollReq_BodyReader r).
#[export] Instance Scroll_operation : operation ScrollReq :=
  {| op_path := MkPathType "ScrollPath" ScrollPath _ _; op_P := ScrollParams; op_fields r := MkScrollPath (ScrollReq_ScrollID r);
     op_params := ScrollReq_Params; op_defaults := None; op_timeout := ScrollParams_TimeoutParams; op_debug := ScrollParams_DebugParams;
     op_format := None; op_own := ScrollParams_own; op_slots := ScrollParams_slots;
     op_body r := json_body (ScrollReq_Body r) (ScrollReq_BodyReader r); op_headers r := ScrollReq_Header r;
     Method := Scroll_Method; GetRequest := ScrollReq_GetRequest;
     op_keys := ["rest_total_hits_as_int"; "scroll"; "scroll_id"];
     op_described := [("GET", "/_search/scroll"); ("POST", "/_search/scroll"); ("GET", "/_search/scroll/{scroll_id}"); ("POST", "/_search/scroll/{scroll_id}")];
     op_query := ["rest_total_hits_as_int"; "scroll"; "scroll_id"] |}.
#[export] Instance Scroll_operates : LawfulOp ScrollReq.
Proof. operate. Qed.

Record SearchParams := MkSearchParams { SearchParams_TimeoutParams : TimeoutParams; SearchParams_DebugParams : DebugParams; SearchParams_Source : string;
  SearchParams_SourceExcludes : list string; SearchParams_SourceIncludes : list string; SearchParams_AllowNoIndices : option bool;
  SearchParams_AllowPartialSearchResults : option bool; SearchParams_AnalyzeWildcard : option bool; SearchParams_Analyzer : string;
  SearchParams_BatchedReduceSize : Z; SearchParams_CancelAfterTimeInterval : Z; SearchParams_CcsMinimizeRoundtrips : option bool;
  SearchParams_DefaultOperator : string; SearchParams_Df : string; SearchParams_DocvalueFields : list string;
  SearchParams_ExpandWildcards : list string; SearchParams_Explain : option bool; SearchParams_From : Z; SearchParams_IgnoreThrottled : option bool;
  SearchParams_IgnoreUnavailable : option bool; SearchParams_IncludeNamedQueriesScore : option bool; SearchParams_Indices : list string;
  SearchParams_Lenient : option bool; SearchParams_MaxConcurrentShardRequests : Z; SearchParams_PhaseTook : option bool;
  SearchParams_PreFilterShardSize : Z; SearchParams_Preference : string; SearchParams_Q : string; SearchParams_RequestCache : option bool;
  SearchParams_RestTotalHitsAsInt : option bool; SearchParams_Routing : list string; SearchParams_Scroll : Z; SearchParams_SearchPipeline : string;
  SearchParams_SearchType : string; SearchParams_SeqNoPrimaryTerm : option bool; SearchParams_Size : option Z; SearchParams_Sort : list string;
  SearchParams_Stats : list string; SearchParams_StoredFields : list string; SearchParams_SuggestField : string; SearchParams_SuggestMode : string;
  SearchParams_SuggestSize : Z; SearchParams_SuggestText : string; SearchParams_TerminateAfter : Z; SearchParams_TrackScores : option bool;
  SearchParams_TrackTotalHits : string; SearchParams_TypedKeys : option bool; SearchParams_VerbosePipeline : option bool;
  SearchParams_Version : option bool }.
Definition SearchParams_own (q : SearchParams) : list param :=
  [("_source", nonEmpty (SearchParams_Source q)); ("_source_excludes", joined (SearchParams_SourceExcludes q));
  ("_source_includes", joined (SearchParams_SourceIncludes q)); ("allow_no_indices", boolPtr (SearchParams_AllowNoIndices q));
  ("allow_partial_search_results", boolPtr (SearchParams_AllowPartialSearchResults q)); ("analyze_wildcard", boolPtr (SearchParams_AnalyzeWildcard q));
  ("analyzer", nonEmpty (SearchParams_Analyzer q)); ("batched_reduce_size", nonZero (SearchParams_BatchedReduceSize q));
  ("cancel_after_time_interval", duration (SearchParams_CancelAfterTimeInterval q));
  ("ccs_minimize_roundtrips", boolPtr (SearchParams_CcsMinimizeRoundtrips q)); ("default_operator", nonEmpty (SearchParams_DefaultOperator q));
  ("df", nonEmpty (SearchParams_Df q)); ("docvalue_fields", joined (SearchParams_DocvalueFields q));
  ("expand_wildcards", joined (SearchParams_ExpandWildcards q)); ("explain", boolPtr (SearchParams_Explain q));
  ("from", nonZero (SearchParams_From q)); ("ignore_throttled", boolPtr (SearchParams_IgnoreThrottled q));
  ("ignore_unavailable", boolPtr (SearchParams_IgnoreUnavailable q));
  ("include_named_queries_score", boolPtr (SearchParams_IncludeNamedQueriesScore q)); ("index", joined (SearchParams_Indices q));
  ("lenient", boolPtr (SearchParams_Lenient q)); ("max_concurrent_shard_requests", nonZero (SearchParams_MaxConcurrentShardRequests q));
  ("phase_took", boolPtr (SearchParams_PhaseTook q)); ("pre_filter_shard_size", nonZero (SearchParams_PreFilterShardSize q));
  ("preference", nonEmpty (SearchParams_Preference q)); ("q", nonEmpty (SearchParams_Q q)); ("request_cache", boolPtr (SearchParams_RequestCache q));
  ("rest_total_hits_as_int", boolPtr (SearchParams_RestTotalHitsAsInt q)); ("routing", joined (SearchParams_Routing q));
  ("scroll", duration (SearchParams_Scroll q)); ("search_pipeline", nonEmpty (SearchParams_SearchPipeline q));
  ("search_type", nonEmpty (SearchParams_SearchType q)); ("seq_no_primary_term", boolPtr (SearchParams_SeqNoPrimaryTerm q));
  ("size", intPtr (SearchParams_Size q)); ("sort", joined (SearchParams_Sort q)); ("stats", joined (SearchParams_Stats q));
  ("stored_fields", joined (SearchParams_StoredFields q)); ("suggest_field", nonEmpty (SearchParams_SuggestField q));
  ("suggest_mode", nonEmpty (SearchParams_SuggestMode q)); ("suggest_size", nonZero (SearchParams_SuggestSize q));
  ("suggest_text", nonEmpty (SearchParams_SuggestText q)); ("terminate_after", nonZero (SearchParams_TerminateAfter q));
  ("track_scores", boolPtr (SearchParams_TrackScores q)); ("track_total_hits", nonEmpty (SearchParams_TrackTotalHits q));
  ("typed_keys", boolPtr (SearchParams_TypedKeys q)); ("verbose_pipeline", boolPtr (SearchParams_VerbosePipeline q));
  ("version", boolPtr (SearchParams_Version q))].
Definition SearchParams_slots : list (string * (SearchParams -> slot)) :=
  [("Source", fun q => Text (SearchParams_Source q)); ("SourceExcludes", fun q => TextList (SearchParams_SourceExcludes q));
  ("SourceIncludes", fun q => TextList (SearchParams_SourceIncludes q)); ("AllowNoIndices", fun q => BoolPtr (SearchParams_AllowNoIndices q));
  ("AllowPartialSearchResults", fun q => BoolPtr (SearchParams_AllowPartialSearchResults q));
  ("AnalyzeWildcard", fun q => BoolPtr (SearchParams_AnalyzeWildcard q)); ("Analyzer", fun q => Text (SearchParams_Analyzer q));
  ("BatchedReduceSize", fun q => Int (SearchParams_BatchedReduceSize q));
  ("CancelAfterTimeInterval", fun q => Duration (SearchParams_CancelAfterTimeInterval q));
  ("CcsMinimizeRoundtrips", fun q => BoolPtr (SearchParams_CcsMinimizeRoundtrips q));
  ("DefaultOperator", fun q => Text (SearchParams_DefaultOperator q)); ("Df", fun q => Text (SearchParams_Df q));
  ("DocvalueFields", fun q => TextList (SearchParams_DocvalueFields q)); ("ExpandWildcards", fun q => TextList (SearchParams_ExpandWildcards q));
  ("Explain", fun q => BoolPtr (SearchParams_Explain q)); ("From", fun q => Int (SearchParams_From q));
  ("IgnoreThrottled", fun q => BoolPtr (SearchParams_IgnoreThrottled q)); ("IgnoreUnavailable", fun q => BoolPtr (SearchParams_IgnoreUnavailable q));
  ("IncludeNamedQueriesScore", fun q => BoolPtr (SearchParams_IncludeNamedQueriesScore q)); ("Indices", fun q => TextList (SearchParams_Indices q));
  ("Lenient", fun q => BoolPtr (SearchParams_Lenient q)); ("MaxConcurrentShardRequests", fun q => Int (SearchParams_MaxConcurrentShardRequests q));
  ("PhaseTook", fun q => BoolPtr (SearchParams_PhaseTook q)); ("PreFilterShardSize", fun q => Int (SearchParams_PreFilterShardSize q));
  ("Preference", fun q => Text (SearchParams_Preference q)); ("Q", fun q => Text (SearchParams_Q q));
  ("RequestCache", fun q => BoolPtr (SearchParams_RequestCache q)); ("RestTotalHitsAsInt", fun q => BoolPtr (SearchParams_RestTotalHitsAsInt q));
  ("Routing", fun q => TextList (SearchParams_Routing q)); ("Scroll", fun q => Duration (SearchParams_Scroll q));
  ("SearchPipeline", fun q => Text (SearchParams_SearchPipeline q)); ("SearchType", fun q => Text (SearchParams_SearchType q));
  ("SeqNoPrimaryTerm", fun q => BoolPtr (SearchParams_SeqNoPrimaryTerm q)); ("Size", fun q => IntPtr (SearchParams_Size q));
  ("Sort", fun q => TextList (SearchParams_Sort q)); ("Stats", fun q => TextList (SearchParams_Stats q));
  ("StoredFields", fun q => TextList (SearchParams_StoredFields q)); ("SuggestField", fun q => Text (SearchParams_SuggestField q));
  ("SuggestMode", fun q => Text (SearchParams_SuggestMode q)); ("SuggestSize", fun q => Int (SearchParams_SuggestSize q));
  ("SuggestText", fun q => Text (SearchParams_SuggestText q)); ("TerminateAfter", fun q => Int (SearchParams_TerminateAfter q));
  ("TrackScores", fun q => BoolPtr (SearchParams_TrackScores q)); ("TrackTotalHits", fun q => Text (SearchParams_TrackTotalHits q));
  ("TypedKeys", fun q => BoolPtr (SearchParams_TypedKeys q)); ("VerbosePipeline", fun q => BoolPtr (SearchParams_VerbosePipeline q));
  ("Version", fun q => BoolPtr (SearchParams_Version q))].
Definition SearchParams_get (q : SearchParams) : gmap string string :=
  encode_params (EncodeTimeout (SearchParams_TimeoutParams q) ++ EncodeDebug (SearchParams_DebugParams q) ++ SearchParams_own q).
Record SearchReq := MkSearchReq { SearchReq_Indices : list string; SearchReq_Body : option (option string); SearchReq_BodyReader : reader; SearchReq_Header : headers;
  SearchReq_Params : option SearchParams }.
Definition SearchReq_GetRequest (r : SearchReq) (method : string) : request_error + httpRequest * Z :=
  send method (SearchPath_Build (MkSearchPath (SearchReq_Indices r)))
    (match SearchReq_Params r with Some q => SearchParams_get q | None => ∅ end)
    (json_body (SearchReq_Body r) (SearchReq_BodyReader r)) (SearchReq_Header r).
Definition Search_Method (r : SearchReq) : string := method_by_body (SearchReq_Body r) (SearchReq_BodyReader r).
#[export] Instance Search_operation : operation SearchReq :=
  {| op_path := MkPathType "SearchPath" SearchPath _ _; op_P := SearchParams; op_fields r := MkSearchPath (SearchReq_Indices r);
     op_params := SearchReq_Params; op_defaults := None; op_timeout := SearchParams_TimeoutParams; op_debug := SearchParams_DebugParams;
     op_format := None; op_own := SearchParams_own; op_slots := SearchParams_slots;
     op_body r := json_body (SearchReq_Body r) (SearchReq_BodyReader r); op_headers r := SearchReq_Header r;
     Method := Search_Method; GetRequest := SearchReq_GetRequest;
     op_keys := ["_source"; "_source_excludes"; "_source_includes"; "allow_no_indices"; "allow_partial_search_results"; "analyze_wildcard"; "analyzer";
        "batched_reduce_size"; "cancel_after_time_interval"; "ccs_minimize_roundtrips"; "default_operator"; "df"; "docvalue_fields"; "expand_wildcards";
        "explain"; "from"; "ignore_throttled"; "ignore_unavailable"; "include_named_queries_score"; "index"; "lenient"; "max_concurrent_shard_requests";
        "phase_took"; "pre_filter_shard_size"; "preference"; "q"; "request_cache"; "rest_total_hits_as_int"; "routing"; "scroll"; "search_pipeline";
        "search_type"; "seq_no_primary_term"; "size"; "sort"; "stats"; "stored_fields"; "suggest_field"; "suggest_mode"; "suggest_size"; "suggest_text";
        "terminate_after"; "track_scores"; "track_total_hits"; "typed_keys"; "verbose_pipeline"; "version"];
     op_described := [("GET", "/_search"); ("POST", "/_search"); ("GET", "/{index}/_search"); ("POST", "/{index}/_search")];
     op_query := ["_source"; "_source_excludes"; "_source_includes"; "allow_no_indices"; "allow_partial_search_results"; "analyze_wildcard"; "analyzer";
        "batched_reduce_size"; "cancel_after_time_interval"; "ccs_minimize_roundtrips"; "default_operator"; "df"; "docvalue_fields"; "expand_wildcards";
        "explain"; "from"; "ignore_throttled"; "ignore_unavailable"; "include_named_queries_score"; "index"; "lenient"; "max_concurrent_shard_requests";
        "phase_took"; "pre_filter_shard_size"; "preference"; "q"; "request_cache"; "rest_total_hits_as_int"; "routing"; "scroll"; "search_pipeline";
        "search_type"; "seq_no_primary_term"; "size"; "sort"; "stats"; "stored_fields"; "suggest_field"; "suggest_mode"; "suggest_size"; "suggest_text";
        "terminate_after"; "track_scores"; "track_total_hits"; "typed_keys"; "verbose_pipeline"; "version"] |}.
#[export] Instance Search_operates : LawfulOp SearchReq.
Proof. operate. Qed.

Record SearchShardsParams := MkSearchShardsParams { SearchShardsParams_TimeoutParams : TimeoutParams; SearchShardsParams_DebugParams : DebugParams; SearchShardsParams_AllowNoIndices : option bool;
  SearchShardsParams_ExpandWildcards : list string; SearchShardsParams_IgnoreUnavailable : option bool; SearchShardsParams_Local : option bool;
  SearchShardsParams_Preference : string; SearchShardsParams_Routing : list string }.
Definition SearchShardsParams_own (q : SearchShardsParams) : list param :=
  [("allow_no_indices", boolPtr (SearchShardsParams_AllowNoIndices q)); ("expand_wildcards", joined (SearchShardsParams_ExpandWildcards q));
  ("ignore_unavailable", boolPtr (SearchShardsParams_IgnoreUnavailable q)); ("local", boolPtr (SearchShardsParams_Local q));
  ("preference", nonEmpty (SearchShardsParams_Preference q)); ("routing", joined (SearchShardsParams_Routing q))].
Definition SearchShardsParams_slots : list (string * (SearchShardsParams -> slot)) :=
  [("AllowNoIndices", fun q => BoolPtr (SearchShardsParams_AllowNoIndices q));
  ("ExpandWildcards", fun q => TextList (SearchShardsParams_ExpandWildcards q));
  ("IgnoreUnavailable", fun q => BoolPtr (SearchShardsParams_IgnoreUnavailable q)); ("Local", fun q => BoolPtr (SearchShardsParams_Local q));
  ("Preference", fun q => Text (SearchShardsParams_Preference q)); ("Routing", fun q => TextList (SearchShardsParams_Routing q))].
Definition SearchShardsParams_get (q : SearchShardsParams) : gmap string string :=
  encode_params (EncodeTimeout (SearchShardsParams_TimeoutParams q) ++ EncodeDebug (SearchShardsParams_DebugParams q) ++ SearchShardsParams_own q).
Record SearchShardsReq := MkSearchShardsReq { SearchShardsReq_Indices : list string; SearchShardsReq_Body : option (option string); SearchShardsReq_BodyReader : reader;
  SearchShardsReq_Header : headers; SearchShardsReq_Params : option SearchShardsParams }.
Definition SearchShardsReq_GetRequest (r : SearchShardsReq) (method : string) : request_error + httpRequest * Z :=
  send method (SearchShardsPath_Build (MkSearchShardsPath (SearchShardsReq_Indices r)))
    (match SearchShardsReq_Params r with Some q => SearchShardsParams_get q | None => ∅ end)
    (json_body (SearchShardsReq_Body r) (SearchShardsReq_BodyReader r)) (SearchShardsReq_Header r).
Definition SearchShards_Method (r : SearchShardsReq) : string := method_by_body (SearchShardsReq_Body r) (SearchShardsReq_BodyReader r).
#[export] Instance SearchShards_operation : operation SearchShardsReq :=
  {| op_path := MkPathType "SearchShardsPath" SearchShardsPath _ _; op_P := SearchShardsParams; op_fields r := MkSearchShardsPath (SearchShardsReq_Indices r);
     op_params := SearchShardsReq_Params; op_defaults := None; op_timeout := SearchShardsParams_TimeoutParams; op_debug := SearchShardsParams_DebugParams;
     op_format := None; op_own := SearchShardsParams_own; op_slots := SearchShardsParams_slots;
     op_body r := json_body (SearchShardsReq_Body r) (SearchShardsReq_BodyReader r); op_headers r := SearchShardsReq_Header r;
     Method := SearchShards_Method; GetRequest := SearchShardsReq_GetRequest;
     op_keys := ["allow_no_indices"; "expand_wildcards"; "ignore_unavailable"; "local"; "preference"; "routing"];
     op_described := [("GET", "/_search_shards"); ("POST", "/_search_shards"); ("GET", "/{index}/_search_shards"); ("POST", "/{index}/_search_shards")];
     op_query := ["allow_no_indices"; "expand_wildcards"; "ignore_unavailable"; "local"; "preference"; "routing"] |}.
#[export] Instance SearchShards_operates : LawfulOp SearchShardsReq.
Proof. operate. Qed.

Record SearchTemplateParams := MkSearchTemplateParams { SearchTemplateParams_TimeoutParams : TimeoutParams; SearchTemplateParams_DebugParams : DebugParams;
  SearchTemplateParams_AllowNoIndices : option bool; SearchTemplateParams_CcsMinimizeRoundtrips : option bool;
  SearchTemplateParams_ExpandWildcards : list string; SearchTemplateParams_Explain : option bool; SearchTemplateParams_IgnoreThrottled : option bool;
  SearchTemplateParams_IgnoreUnavailable : option bool; SearchTemplateParams_PhaseTook : option bool; SearchTemplateParams_Preference : string;
  SearchTemplateParams_Profile : option bool; SearchTemplateParams_RestTotalHitsAsInt : option bool; SearchTemplateParams_Routing : list string;
  SearchTemplateParams_Scroll : Z; SearchTemplateParams_SearchPipeline : string; SearchTemplateParams_SearchType : string;
  SearchTemplateParams_TypedKeys : option bool }.
Definition SearchTemplateParams_own (q : SearchTemplateParams) : list param :=
  [("allow_no_indices", boolPtr (SearchTemplateParams_AllowNoIndices q));
  ("ccs_minimize_roundtrips", boolPtr (SearchTemplateParams_CcsMinimizeRoundtrips q));
  ("expand_wildcards", joined (SearchTemplateParams_ExpandWildcards q)); ("explain", boolPtr (SearchTemplateParams_Explain q));
  ("ignore_throttled", boolPtr (SearchTemplateParams_IgnoreThrottled q)); ("ignore_unavailable", boolPtr (SearchTemplateParams_IgnoreUnavailable q));
  ("phase_took", boolPtr (SearchTemplateParams_PhaseTook q)); ("preference", nonEmpty (SearchTemplateParams_Preference q));
  ("profile", boolPtr (SearchTemplateParams_Profile q)); ("rest_total_hits_as_int", boolPtr (SearchTemplateParams_RestTotalHitsAsInt q));
  ("routing", joined (SearchTemplateParams_Routing q)); ("scroll", duration (SearchTemplateParams_Scroll q));
  ("search_pipeline", nonEmpty (SearchTemplateParams_SearchPipeline q)); ("search_type", nonEmpty (SearchTemplateParams_SearchType q));
  ("typed_keys", boolPtr (SearchTemplateParams_TypedKeys q))].
Definition SearchTemplateParams_slots : list (string * (SearchTemplateParams -> slot)) :=
  [("AllowNoIndices", fun q => BoolPtr (SearchTemplateParams_AllowNoIndices q));
  ("CcsMinimizeRoundtrips", fun q => BoolPtr (SearchTemplateParams_CcsMinimizeRoundtrips q));
  ("ExpandWildcards", fun q => TextList (SearchTemplateParams_ExpandWildcards q)); ("Explain", fun q => BoolPtr (SearchTemplateParams_Explain q));
  ("IgnoreThrottled", fun q => BoolPtr (SearchTemplateParams_IgnoreThrottled q));
  ("IgnoreUnavailable", fun q => BoolPtr (SearchTemplateParams_IgnoreUnavailable q));
  ("PhaseTook", fun q => BoolPtr (SearchTemplateParams_PhaseTook q)); ("Preference", fun q => Text (SearchTemplateParams_Preference q));
  ("Profile", fun q => BoolPtr (SearchTemplateParams_Profile q)); ("RestTotalHitsAsInt", fun q => BoolPtr (SearchTemplateParams_RestTotalHitsAsInt q));
  ("Routing", fun q => TextList (SearchTemplateParams_Routing q)); ("Scroll", fun q => Duration (SearchTemplateParams_Scroll q));
  ("SearchPipeline", fun q => Text (SearchTemplateParams_SearchPipeline q)); ("SearchType", fun q => Text (SearchTemplateParams_SearchType q));
  ("TypedKeys", fun q => BoolPtr (SearchTemplateParams_TypedKeys q))].
Definition SearchTemplateParams_get (q : SearchTemplateParams) : gmap string string :=
  encode_params (EncodeTimeout (SearchTemplateParams_TimeoutParams q) ++ EncodeDebug (SearchTemplateParams_DebugParams q) ++ SearchTemplateParams_own q).
Record SearchTemplateReq := MkSearchTemplateReq { SearchTemplateReq_Indices : list string; SearchTemplateReq_Body : option (option string); SearchTemplateReq_BodyReader : reader;
  SearchTemplateReq_Header : headers; SearchTemplateReq_Params : option SearchTemplateParams }.
Definition SearchTemplateReq_GetRequest (r : SearchTemplateReq) (method : string) : request_error + httpRequest * Z :=
  send method (SearchTemplatePath_Build (MkSearchTemplatePath (SearchTemplateReq_Indices r)))
    (match SearchTemplateReq_Params r with Some q => SearchTemplateParams_get q | None => ∅ end)
    (json_body (SearchTemplateReq_Body r) (SearchTemplateReq_BodyReader r)) (SearchTemplateReq_Header r).
Definition SearchTemplate_Method (r : SearchTemplateReq) : string := method_by_body (SearchTemplateReq_Body r) (SearchTemplateReq_BodyReader r).
#[export] Instance SearchTemplate_operation : operation SearchTemplateReq :=
  {| op_path := MkPathType "SearchTemplatePath" SearchTemplatePath _ _; op_P := SearchTemplateParams; op_fields r := MkSearchTemplatePath (SearchTemplateReq_Indices r);
     op_params := SearchTemplateReq_Params; op_defaults := None; op_timeout := SearchTemplateParams_TimeoutParams; op_debug := SearchTemplateParams_DebugParams;
     op_format := None; op_own := SearchTemplateParams_own; op_slots := SearchTemplateParams_slots;
     op_body r := json_body (SearchTemplateReq_Body r) (SearchTemplateReq_BodyReader r); op_headers r := SearchTemplateReq_Header r;
     Method := SearchTemplate_Method; GetRequest := SearchTemplateReq_GetRequest;
     op_keys := ["allow_no_indices"; "ccs_minimize_roundtrips"; "expand_wildcards"; "explain"; "ignore_throttled"; "ignore_unavailable"; "phase_took"; "preference";
        "profile"; "rest_total_hits_as_int"; "routing"; "scroll"; "search_pipeline"; "search_type"; "typed_keys"];
     op_described := [("GET", "/_search/template"); ("POST", "/_search/template"); ("GET", "/{index}/_search/template"); ("POST", "/{index}/_search/template")];
     op_query := ["allow_no_indices"; "ccs_minimize_roundtrips"; "expand_wildcards"; "explain"; "ignore_throttled"; "ignore_unavailable"; "phase_took"; "preference";
        "profile"; "rest_total_hits_as_int"; "routing"; "scroll"; "search_pipeline"; "search_type"; "typed_keys"] |}.
#[export] Instance SearchTemplate_operates : LawfulOp SearchTemplateReq.
Proof. operate. Qed.

Record TermvectorsParams := MkTermvectorsParams { TermvectorsParams_TimeoutParams : TimeoutParams; TermvectorsParams_DebugParams : DebugParams; TermvectorsParams_FieldStatistics : option bool;
  TermvectorsParams_Fields : list string; TermvectorsParams_Offsets : option bool; TermvectorsParams_Payloads : option bool;
  TermvectorsParams_Positions : option bool; TermvectorsParams_Preference : string; TermvectorsParams_Realtime : option bool;
  TermvectorsParams_Routing : list string; TermvectorsParams_TermStatistics : option bool; TermvectorsParams_Version : Z;
  TermvectorsParams_VersionType : string }.
Definition TermvectorsParams_own (q : TermvectorsParams) : list param :=
  [("field_statistics", boolPtr (TermvectorsParams_FieldStatistics q)); ("fields", joined (TermvectorsParams_Fields q));
  ("offsets", boolPtr (TermvectorsParams_Offsets q)); ("payloads", boolPtr (TermvectorsParams_Payloads q));
  ("positions", boolPtr (TermvectorsParams_Positions q)); ("preference", nonEmpty (TermvectorsParams_Preference q));
  ("realtime", boolPtr (TermvectorsParams_Realtime q)); ("routing", joined (TermvectorsParams_Routing q));
  ("term_statistics", boolPtr (TermvectorsParams_TermStatistics q)); ("version", nonZero (TermvectorsParams_Version q));
  ("version_type", nonEmpty (TermvectorsParams_VersionType q))].
Definition TermvectorsParams_slots : list (string * (TermvectorsParams -> slot)) :=
  [("FieldStatistics", fun q => BoolPtr (TermvectorsParams_FieldStatistics q)); ("Fields", fun q => TextList (TermvectorsParams_Fields q));
  ("Offsets", fun q => BoolPtr (TermvectorsParams_Offsets q)); ("Payloads", fun q => BoolPtr (TermvectorsParams_Payloads q));
  ("Positions", fun q => BoolPtr (TermvectorsParams_Positions q)); ("Preference", fun q => Text (TermvectorsParams_Preference q));
  ("Realtime", fun q => BoolPtr (TermvectorsParams_Realtime q)); ("Routing", fun q => TextList (TermvectorsParams_Routing q));
  ("TermStatistics", fun q => BoolPtr (TermvectorsParams_TermStatistics q)); ("Version", fun q => Int (TermvectorsParams_Version q));
  ("VersionType", fun q => Text (TermvectorsParams_VersionType q))].
Definition TermvectorsParams_get (q : TermvectorsParams) : gmap string string :=
  encode_params (EncodeTimeout (TermvectorsParams_TimeoutParams q) ++ EncodeDebug (TermvectorsParams_DebugParams q) ++ TermvectorsParams_own q).
Record TermvectorsReq := MkTermvectorsReq { TermvectorsReq_Index : string; TermvectorsReq_ID : string; TermvectorsReq_Body : option (option string); TermvectorsReq_BodyReader : reader;
  TermvectorsReq_Header : headers; TermvectorsReq_Params : option TermvectorsParams }.
Definition TermvectorsReq_GetRequest (r : TermvectorsReq) (method : string) : request_error + httpRequest * Z :=
  send method (TermvectorsPath_Build (MkTermvectorsPath (TermvectorsReq_Index r) (TermvectorsReq_ID r)))
    (match TermvectorsReq_Params r with Some q => TermvectorsParams_get q | None => ∅ end)
    (json_body (TermvectorsReq_Body r) (TermvectorsReq_BodyReader r)) (TermvectorsReq_Header r).
Definition Termvectors_Method (r : TermvectorsReq) : string := method_by_body (TermvectorsReq_Body r) (TermvectorsReq_BodyReader r).
#[export] Instance Termvectors_operation : operation TermvectorsReq :=
  {| op_path := MkPathType "TermvectorsPath" TermvectorsPath _ _; op_P := TermvectorsParams; op_fields r := MkTermvectorsPath (TermvectorsReq_Index r) (TermvectorsReq_ID r);
     op_params := TermvectorsReq_Params; op_defaults := None; op_timeout := TermvectorsParams_TimeoutParams; op_debug := TermvectorsParams_DebugParams;
     op_format := None; op_own := TermvectorsParams_own; op_slots := TermvectorsParams_slots;
     op_body r := json_body (TermvectorsReq_Body r) (TermvectorsReq_BodyReader r); op_headers r := TermvectorsReq_Header r;
     Method := Termvectors_Method; GetRequest := TermvectorsReq_GetRequest;
     op_keys := ["field_statistics"; "fields"; "offsets"; "payloads"; "positions"; "preference"; "realtime"; "routing"; "term_statistics"; "version"; "version_type"];
     op_described := [("GET", "/{index}/_termvectors"); ("POST", "/{index}/_termvectors"); ("GET", "/{index}/_termvectors/{id}"); ("POST", "/{index}/_termvectors/{id}")];
     op_query := ["field_statistics"; "fields"; "offsets"; "payloads"; "positions"; "preference"; "realtime"; "routing"; "term_statistics"; "version"; "version_type"] |}.
#[export] Instance Termvectors_operates : LawfulOp TermvectorsReq.
Proof. operate. Qed.

Record UpdateParams := MkUpdateParams { UpdateParams_TimeoutParams : TimeoutParams; UpdateParams_DebugParams : DebugParams; UpdateParams_Source : string;
  UpdateParams_SourceExcludes : list string; UpdateParams_SourceIncludes : list string; UpdateParams_IfPrimaryTerm : option Z;
  UpdateParams_IfSeqNo : option Z; UpdateParams_Lang : string; UpdateParams_Refresh : string; UpdateParams_RequireAlias : option bool;
  UpdateParams_RetryOnConflict : Z; UpdateParams_Routing : list string; UpdateParams_WaitForActiveShards : string }.
Definition UpdateParams_own (q : UpdateParams) : list param :=
  [("_source", nonEmpty (UpdateParams_Source q)); ("_source_excludes", joined (UpdateParams_SourceExcludes q));
  ("_source_includes", joined (UpdateParams_SourceIncludes q)); ("if_primary_term", intPtr (UpdateParams_IfPrimaryTerm q));
  ("if_seq_no", intPtr (UpdateParams_IfSeqNo q)); ("lang", nonEmpty (UpdateParams_Lang q)); ("refresh", nonEmpty (UpdateParams_Refresh q));
  ("require_alias", boolPtr (UpdateParams_RequireAlias q)); ("retry_on_conflict", nonZero (UpdateParams_RetryOnConflict q));
  ("routing", joined (UpdateParams_Routing q)); ("wait_for_active_shards", nonEmpty (UpdateParams_WaitForActiveShards q))].
Definition UpdateParams_slots : list (string * (UpdateParams -> slot)) :=
  [("Source", fun q => Text (UpdateParams_Source q)); ("SourceExcludes", fun q => TextList (UpdateParams_SourceExcludes q));
  ("SourceIncludes", fun q => TextList (UpdateParams_SourceIncludes q)); ("IfPrimaryTerm", fun q => IntPtr (UpdateParams_IfPrimaryTerm q));
  ("IfSeqNo", fun q => IntPtr (UpdateParams_IfSeqNo q)); ("Lang", fun q => Text (UpdateParams_Lang q));
  ("Refresh", fun q => Text (UpdateParams_Refresh q)); ("RequireAlias", fun q => BoolPtr (UpdateParams_RequireAlias q));
  ("RetryOnConflict", fun q => Int (UpdateParams_RetryOnConflict q)); ("Routing", fun q => TextList (UpdateParams_Routing q));
  ("WaitForActiveShards", fun q => Text (UpdateParams_WaitForActiveShards q))].
Definition UpdateParams_get (q : UpdateParams) : gmap string string :=
  encode_params (EncodeTimeout (UpdateParams_TimeoutParams q) ++ EncodeDebug (UpdateParams_DebugParams q) ++ UpdateParams_own q).
Record UpdateReq := MkUpdateReq { UpdateReq_Index : string; UpdateReq_ID : string; UpdateReq_Body : option (option string); UpdateReq_BodyReader : reader; UpdateReq_Header : headers;
  UpdateReq_Params : option UpdateParams }.
Definition UpdateReq_GetRequest (r : UpdateReq) (method : string) : request_error + httpRequest * Z :=
  send method (UpdatePath_Build (MkUpdatePath (UpdateReq_Index r) (UpdateReq_ID r)))
    (match UpdateReq_Params r with Some q => UpdateParams_get q | None => ∅ end)
    (json_body (UpdateReq_Body r) (UpdateReq_BodyReader r)) (UpdateReq_Header r).
Definition Update_Method (r : UpdateReq) : string := "POST".
#[export] Instance Update_operation : operation UpdateReq :=
  {| op_path := MkPathType "UpdatePath" UpdatePath _ _; op_P := UpdateParams; op_fields r := MkUpdatePath (UpdateReq_Index r) (UpdateReq_ID r);
     op_params := UpdateReq_Params; op_defaults := None; op_timeout := UpdateParams_TimeoutParams; op_debug := UpdateParams_DebugParams;
     op_format := None; op_own := UpdateParams_own; op_slots := UpdateParams_slots;
     op_body r := json_body (UpdateReq_Body r) (UpdateReq_BodyReader r); op_headers r := UpdateReq_Header r;
     Method := Update_Method; GetRequest := UpdateReq_GetRequest;
     op_keys := ["_source"; "_source_excludes"; "_source_includes"; "if_primary_term"; "if_seq_no"; "lang"; "refresh"; "require_alias"; "retry_on_conflict";
        "routing"; "wait_for_active_shards"];
     op_described := [("POST", "/{index}/_update/{id}")];
     op_query := ["_source"; "_source_excludes"; "_source_includes"; "if_primary_term"; "if_seq_no"; "lang"; "refresh"; "require_alias"; "retry_on_conflict";
        "routing"; "wait_for_active_shards"] |}.
#[export] Instance Update_operates : LawfulOp UpdateReq.
Proof. operate. Qed.

Record UpdateByQueryParams := MkUpdateByQueryParams { UpdateByQueryParams_TimeoutParams : TimeoutParams; UpdateByQueryParams_DebugParams : DebugParams; UpdateByQueryParams_Source : string;
  UpdateByQueryParams_SourceExcludes : list string; UpdateByQueryParams_SourceIncludes : list string; UpdateByQueryParams_AllowNoIndices : option bool;
  UpdateByQueryParams_AnalyzeWildcard : option bool; UpdateByQueryParams_Analyzer : string; UpdateByQueryParams_Conflicts : string;
  UpdateByQueryParams_DefaultOperator : string; UpdateByQueryParams_Df : string; UpdateByQueryParams_ExpandWildcards : list string;
  UpdateByQueryParams_From : Z; UpdateByQueryParams_IgnoreUnavailable : option bool; UpdateByQueryParams_Lenient : option bool;
  UpdateByQueryParams_MaxDocs : Z; UpdateByQueryParams_Pipeline : string; UpdateByQueryParams_Preference : string; UpdateByQueryParams_Q : string;
  UpdateByQueryParams_Refresh : string; UpdateByQueryParams_RequestCache : option bool; UpdateByQueryParams_RequestsPerSecond : Z;
  UpdateByQueryParams_Routing : list string; UpdateByQueryParams_Scroll : Z; UpdateByQueryParams_ScrollSize : Z; UpdateByQueryParams_SearchTimeout : Z;
  UpdateByQueryParams_SearchType : string; UpdateByQueryParams_Size : Z; UpdateByQueryParams_Slices : string; UpdateByQueryParams_Sort : list string;
  UpdateByQueryParams_Stats : list string; UpdateByQueryParams_TerminateAfter : Z; UpdateByQueryParams_Version : option bool;
  UpdateByQueryParams_WaitForActiveShards : string; UpdateByQueryParams_WaitForCompletion : option bool }.
Definition UpdateByQueryParams_own (q : UpdateByQueryParams) : list param :=
  [("_source", nonEmpty (UpdateByQueryParams_Source q)); ("_source_excludes", joined (UpdateByQueryParams_SourceExcludes q));
  ("_source_includes", joined (UpdateByQueryParams_SourceIncludes q)); ("allow_no_indices", boolPtr (UpdateByQueryParams_AllowNoIndices q));
  ("analyze_wildcard", boolPtr (UpdateByQueryParams_AnalyzeWildcard q)); ("analyzer", nonEmpty (UpdateByQueryParams_Analyzer q));
  ("conflicts", nonEmpty (UpdateByQueryParams_Conflicts q)); ("default_operator", nonEmpty (UpdateByQueryParams_DefaultOperator q));
  ("df", nonEmpty (UpdateByQueryParams_Df q)); ("expand_wildcards", joined (UpdateByQueryParams_ExpandWildcards q));
  ("from", nonZero (UpdateByQueryParams_From q)); ("ignore_unavailable", boolPtr (UpdateByQueryParams_IgnoreUnavailable q));
  ("lenient", boolPtr (UpdateByQueryParams_Lenient q)); ("max_docs", nonZero (UpdateByQueryParams_MaxDocs q));
  ("pipeline", nonEmpty (UpdateByQueryParams_Pipeline q)); ("preference", nonEmpty (UpdateByQueryParams_Preference q));
  ("q", nonEmpty (UpdateByQueryParams_Q q)); ("refresh", nonEmpty (UpdateByQueryParams_Refresh q));
  ("request_cache", boolPtr (UpdateByQueryParams_RequestCache q)); ("requests_per_second", nonZero (UpdateByQueryParams_RequestsPerSecond q));
  ("routing", joined (UpdateByQueryParams_Routing q)); ("scroll", duration (UpdateByQueryParams_Scroll q));
  ("scroll_size", nonZero (UpdateByQueryParams_ScrollSize q)); ("search_timeout", duration (UpdateByQueryParams_SearchTimeout q));
  ("search_type", nonEmpty (UpdateByQueryParams_SearchType q)); ("size", nonZero (UpdateByQueryParams_Size q));
  ("slices", nonEmpty (UpdateByQueryParams_Slices q)); ("sort", joined (UpdateByQueryParams_Sort q)); ("stats", joined (UpdateByQueryParams_Stats q));
  ("terminate_after", nonZero (UpdateByQueryParams_TerminateAfter q)); ("version", boolPtr (UpdateByQueryParams_Version q));
  ("wait_for_active_shards", nonEmpty (UpdateByQueryParams_WaitForActiveShards q));
  ("wait_for_completion", boolPtr (UpdateByQueryParams_WaitForCompletion q))].
Definition UpdateByQueryParams_slots : list (string * (UpdateByQueryParams -> slot)) :=
  [("Source", fun q => Text (UpdateByQueryParams_Source q)); ("SourceExcludes", fun q => TextList (UpdateByQueryParams_SourceExcludes q));
  ("SourceIncludes", fun q => TextList (UpdateByQueryParams_SourceIncludes q));
  ("AllowNoIndices", fun q => BoolPtr (UpdateByQueryParams_AllowNoIndices q));
  ("AnalyzeWildcard", fun q => BoolPtr (UpdateByQueryParams_AnalyzeWildcard q)); ("Analyzer", fun q => Text (UpdateByQueryParams_Analyzer q));
  ("Conflicts", fun q => Text (UpdateByQueryParams_Conflicts q)); ("DefaultOperator", fun q => Text (UpdateByQueryParams_DefaultOperator q));
  ("Df", fun q => Text (UpdateByQueryParams_Df q)); ("ExpandWildcards", fun q => TextList (UpdateByQueryParams_ExpandWildcards q));
  ("From", fun q => Int (UpdateByQueryParams_From q)); ("IgnoreUnavailable", fun q => BoolPtr (UpdateByQueryParams_IgnoreUnavailable q));
  ("Lenient", fun q => BoolPtr (UpdateByQueryParams_Lenient q)); ("MaxDocs", fun q => Int (UpdateByQueryParams_MaxDocs q));
  ("Pipeline", fun q => Text (UpdateByQueryParams_Pipeline q)); ("Preference", fun q => Text (UpdateByQueryParams_Preference q));
  ("Q", fun q => Text (UpdateByQueryParams_Q q)); ("Refresh", fun q => Text (UpdateByQueryParams_Refresh q));
  ("RequestCache", fun q => BoolPtr (UpdateByQueryParams_RequestCache q));
  ("RequestsPerSecond", fun q => Int (UpdateByQueryParams_RequestsPerSecond q)); ("Routing", fun q => TextList (UpdateByQueryParams_Routing q));
  ("Scroll", fun q => Duration (UpdateByQueryParams_Scroll q)); ("ScrollSize", fun q => Int (UpdateByQueryParams_ScrollSize q));
  ("SearchTimeout", fun q => Duration (UpdateByQueryParams_SearchTimeout q)); ("SearchType", fun q => Text (UpdateByQueryParams_SearchType q));
  ("Size", fun q => Int (UpdateByQueryParams_Size q)); ("Slices", fun q => Text (UpdateByQueryParams_Slices q));
  ("Sort", fun q => TextList (UpdateByQueryParams_Sort q)); ("Stats", fun q => TextList (UpdateByQueryParams_Stats q));
  ("TerminateAfter", fun q => Int (UpdateByQueryParams_TerminateAfter q)); ("Version", fun q => BoolPtr (UpdateByQueryParams_Version q));
  ("WaitForActiveShards", fun q => Text (UpdateByQueryParams_WaitForActiveShards q));
  ("WaitForCompletion", fun q => BoolPtr (UpdateByQueryParams_WaitForCompletion q))].
Definition UpdateByQueryParams_get (q : UpdateByQueryParams) : gmap string string :=
  encode_params (EncodeTimeout (UpdateByQueryParams_TimeoutParams q) ++ EncodeDebug (UpdateByQueryParams_DebugParams q) ++ UpdateByQueryParams_own q).
Record UpdateByQueryReq := MkUpdateByQueryReq { UpdateByQueryReq_Indices : list string; UpdateByQueryReq_Body : option (option string); UpdateByQueryReq_BodyReader : reader;
  UpdateByQueryReq_Header : headers; UpdateByQueryReq_Params : option UpdateByQueryParams }.
Definition UpdateByQueryReq_GetRequest (r : UpdateByQueryReq) (method : string) : request_error + httpRequest * Z :=
  send method (UpdateByQueryPath_Build (MkUpdateByQueryPath (UpdateByQueryReq_Indices r)))
    (match UpdateByQueryReq_Params r with Some q => UpdateByQueryParams_get q | None => ∅ end)
    (json_body (UpdateByQueryReq_Body r) (UpdateByQueryReq_BodyReader r)) (UpdateByQueryReq_Header r).
Definition UpdateByQuery_Method (r : UpdateByQueryReq) : string := "POST".
#[export] Instance UpdateByQuery_operation : operation UpdateByQueryReq :=
  {| op_path := MkPathType "UpdateByQueryPath" UpdateByQueryPath _ _; op_P := UpdateByQueryParams; op_fields r := MkUpdateByQueryPath (UpdateByQueryReq_Indices r);
     op_params := UpdateByQueryReq_Params; op_defaults := None; op_timeout := UpdateByQueryParams_TimeoutParams; op_debug := UpdateByQueryParams_DebugParams;
     op_format := None; op_own := UpdateByQueryParams_own; op_slots := UpdateByQueryParams_slots;
     op_body r := json_body (UpdateByQueryReq_Body r) (UpdateByQueryReq_BodyReader r); op_headers r := UpdateByQueryReq_Header r;
     Method := UpdateByQuery_Method; GetRequest := UpdateByQueryReq_GetRequest;
     op_keys := ["_source"; "_source_excludes"; "_source_includes"; "allow_no_indices"; "analyze_wildcard"; "analyzer"; "conflicts"; "default_operator"; "df";
        "expand_wildcards"; "from"; "ignore_unavailable"; "lenient"; "max_docs"; "pipeline"; "preference"; "q"; "refresh"; "request_cache";
        "requests_per_second"; "routing"; "scroll"; "scroll_size"; "search_timeout"; "search_type"; "size"; "slices"; "sort"; "stats"; "terminate_after";
        "version"; "wait_for_active_shards"; "wait_for_completion"];
     op_described := [("POST", "/{index}/_update_by_query")];
     op_query := ["_source"; "_source_excludes"; "_source_includes"; "allow_no_indices"; "analyze_wildcard"; "analyzer"; "conflicts"; "default_operator"; "df";
        "expand_wildcards"; "from"; "ignore_unavailable"; "lenient"; "max_docs"; "pipeline"; "preference"; "q"; "refresh"; "request_cache";
        "requests_per_second"; "routing"; "scroll"; "scroll_size"; "search_timeout"; "search_type"; "size"; "slices"; "sort"; "stats"; "terminate_after";
        "version"; "wait_for_active_shards"; "wait_for_completion"] |}.
#[export] Instance UpdateByQuery_operates : LawfulOp UpdateByQueryReq.
Proof. operate. Qed.

Record UpdateByQueryRethrottleParams := MkUpdateByQueryRethrottleParams { UpdateByQueryRethrottleParams_TimeoutParams : TimeoutParams; UpdateByQueryRethrottleParams_DebugParams : DebugParams;
  UpdateByQueryRethrottleParams_RequestsPerSecond : Z }.
Definition UpdateByQueryRethrottleParams_own (q : UpdateByQueryRethrottleParams) : list param :=
  [("requests_per_second", nonZero (UpdateByQueryRethrottleParams_RequestsPerSecond q))].
Definition UpdateByQueryRethrottleParams_slots : list (string * (UpdateByQueryRethrottleParams -> slot)) :=
  [("RequestsPerSecond", fun q => Int (UpdateByQueryRethrottleParams_RequestsPerSecond q))].
Definition UpdateByQueryRethrottleParams_get (q : UpdateByQueryRethrottleParams) : gmap string string :=
  encode_params (EncodeTimeout (UpdateByQueryRethrottleParams_TimeoutParams q) ++ EncodeDebug (UpdateByQueryRethrottleParams_DebugParams q) ++ UpdateByQueryRethrottleParams_own q).
Record UpdateByQueryRethrottleReq := MkUpdateByQueryRethrottleReq { UpdateByQueryRethrottleReq_TaskID : string; UpdateByQueryRethrottleReq_Header : headers;
  UpdateByQueryRethrottleReq_Params : option UpdateByQueryRethrottleParams }.
Definition UpdateByQueryRethrottleReq_GetRequest (r : UpdateByQueryRethrottleReq) (method : string) : request_error + httpRequest * Z :=
  send method (UpdateByQueryRethrottlePath_Build (MkUpdateByQueryRethrottlePath (UpdateByQueryRethrottleReq_TaskID r)))
    (match UpdateByQueryRethrottleReq_Params r with Some q => UpdateByQueryRethrottleParams_get q | None => ∅ end)
    no_body (UpdateByQueryRethrottleReq_Header r).
Definition UpdateByQueryRethrottle_Method (r : UpdateByQueryRethrottleReq) : string := "POST".
#[export] Instance UpdateByQueryRethrottle_operation : operation UpdateByQueryRethrottleReq :=
  {| op_path := MkPathType "UpdateByQueryRethrottlePath" UpdateByQueryRethrottlePath _ _; op_P := UpdateByQueryRethrottleParams; op_fields r := MkUpdateByQueryRethrottlePath (UpdateByQueryRethrottleReq_TaskID r);
     op_params := UpdateByQueryRethrottleReq_Params; op_defaults := None; op_timeout := UpdateByQueryRethrottleParams_TimeoutParams; op_debug := UpdateByQueryRethrottleParams_DebugParams;
     op_format := None; op_own := UpdateByQueryRethrottleParams_own; op_slots := UpdateByQueryRethrottleParams_slots;
     op_body _ := no_body; op_headers r := UpdateByQueryRethrottleReq_Header r;
     Method := UpdateByQueryRethrottle_Method; GetRequest := UpdateByQueryRethrottleReq_GetRequest;
     op_keys := ["requests_per_second"];
     op_described := [("POST", "/_update_by_query/{task_id}/_rethrottle")];
     op_query := ["requests_per_second"] |}.
#[export] Instance UpdateByQueryRethrottle_operates : LawfulOp UpdateByQueryRethrottleReq.
Proof. operate. Qed.

(** All of them. *)
Definition apiDocs : list operation_type :=
  [MkOperationType "Bulk" BulkReq _ _; MkOperationType "BulkStream" BulkStreamReq _ _;
   MkOperationType "ClearScroll" ClearScrollReq _ _; MkOperationType "Count" CountReq _ _;
   MkOperationType "Create" CreateReq _ _; MkOperationType "CreatePIT" CreatePITReq _ _;
   MkOperationType "Delete" DeleteReq _ _; MkOperationType "DeleteAllPITs" DeleteAllPITsReq _ _;
   MkOperationType "DeleteByQuery" DeleteByQueryReq _ _; MkOperationType "DeleteByQueryRethrottle" DeleteByQueryRethrottleReq _ _;
   MkOperationType "DeletePIT" DeletePITReq _ _; MkOperationType "DeleteScript" DeleteScriptReq _ _;
   MkOperationType "Exists" ExistsReq _ _; MkOperationType "ExistsSource" ExistsSourceReq _ _;
   MkOperationType "Explain" ExplainReq _ _; MkOperationType "FieldCaps" FieldCapsReq _ _;
   MkOperationType "Get" GetReq _ _; MkOperationType "GetAllPITs" GetAllPITsReq _ _;
   MkOperationType "GetScript" GetScriptReq _ _; MkOperationType "GetScriptContext" GetScriptContextReq _ _;
   MkOperationType "GetScriptLanguages" GetScriptLanguagesReq _ _; MkOperationType "GetSource" GetSourceReq _ _;
   MkOperationType "Index" IndexReq _ _; MkOperationType "Info" InfoReq _ _;
   MkOperationType "Mget" MgetReq _ _; MkOperationType "Msearch" MsearchReq _ _;
   MkOperationType "MsearchTemplate" MsearchTemplateReq _ _; MkOperationType "Mtermvectors" MtermvectorsReq _ _;
   MkOperationType "Ping" PingReq _ _; MkOperationType "PutScript" PutScriptReq _ _;
   MkOperationType "RankEval" RankEvalReq _ _; MkOperationType "Reindex" ReindexReq _ _;
   MkOperationType "ReindexRethrottle" ReindexRethrottleReq _ _; MkOperationType "RenderSearchTemplate" RenderSearchTemplateReq _ _;
   MkOperationType "ScriptsPainlessExecute" ScriptsPainlessExecuteReq _ _; MkOperationType "Scroll" ScrollReq _ _;
   MkOperationType "Search" SearchReq _ _; MkOperationType "SearchShards" SearchShardsReq _ _;
   MkOperationType "SearchTemplate" SearchTemplateReq _ _; MkOperationType "Termvectors" TermvectorsReq _ _;
   MkOperationType "Update" UpdateReq _ _; MkOperationType "UpdateByQuery" UpdateByQueryReq _ _;
   MkOperationType "UpdateByQueryRethrottle" UpdateByQueryRethrottleReq _ _].
