(* ===== verification/ApiCluster.v ===== *)
(** * Requests for the cluster, its nodes and tasks, and the cat API

    The request types of opensearchapi and plugins for the cluster, its nodes and tasks, and the cat API: the parameters
    with their [get], GetRequest, and the method of the client's call, each
    with its instance of [operation] and the part of opensearch-openapi.yaml it is
    compared with. *)

From Stdlib Require Import ZArith Ascii String.
From stdpp Require Import base gmap list strings.
From S2P Require Import Paths.
From S2P Require Import Stream.
From S2P Require Import PathsCore.
From S2P Require Import ReqBuild.
From S2P Require Import ApiRequest.
Open Scope string_scope.
Open Scope list_scope.

Record CatAliasesParams := MkCatAliasesParams { CatAliasesParams_TimeoutParams : TimeoutParams; CatAliasesParams_DebugParams : DebugParams; CatAliasesParams_ExpandWildcards : list string;
  CatAliasesParams_Local : option bool }.
Definition CatAliasesParams_own (q : CatAliasesParams) : list param :=
  [("expand_wildcards", joined (CatAliasesParams_ExpandWildcards q)); ("local", boolPtr (CatAliasesParams_Local q))].
Definition CatAliasesParams_slots : list (string * (CatAliasesParams -> slot)) :=
  [("ExpandWildcards", fun q => TextList (CatAliasesParams_ExpandWildcards q)); ("Local", fun q => BoolPtr (CatAliasesParams_Local q))].
Definition CatAliasesParams_get (q : CatAliasesParams) : gmap string string :=
  encode_params (EncodeTimeout (CatAliasesParams_TimeoutParams q) ++ EncodeDebug (CatAliasesParams_DebugParams q) ++ defaultFormat "json" (CatAliasesParams_DebugParams q) ++ CatAliasesParams_own q).
Record CatAliasesReq := MkCatAliasesReq { CatAliasesReq_Name : list string; CatAliasesReq_Header : headers; CatAliasesReq_Params : option CatAliasesParams }.
Definition CatAliasesReq_GetRequest (r : CatAliasesReq) (method : string) : request_error + httpRequest * Z :=
  send method (CatAliasesPath_Build (MkCatAliasesPath (CatAliasesReq_Name r)))
    (match CatAliasesReq_Params r with Some q => CatAliasesParams_get q | None => CatAliasesParams_get (MkCatAliasesParams noTimeout noDebug [] None) end)
    no_body (CatAliasesReq_Header r).
Definition CatAliases_Method (r : CatAliasesReq) : string := "GET".
#[export] Instance CatAliases_operation : operation CatAliasesReq :=
  {| op_path := MkPathType "CatAliasesPath" CatAliasesPath _ _; op_P := CatAliasesParams; op_fields r := MkCatAliasesPath (CatAliasesReq_Name r);
     op_params := CatAliasesReq_Params; op_defaults := Some (MkCatAliasesParams noTimeout noDebug [] None); op_timeout := CatAliasesParams_TimeoutParams; op_debug := CatAliasesParams_DebugParams;
     op_format := Some "json"; op_own := CatAliasesParams_own; op_slots := CatAliasesParams_slots;
     op_body _ := no_body; op_headers r := CatAliasesReq_Header r;
     Method := CatAliases_Method; GetRequest := CatAliasesReq_GetRequest;
     op_keys := ["expand_wildcards"; "local"];
     op_described := [("GET", "/_cat/aliases"); ("GET", "/_cat/aliases/{name}")];
     op_query := ["expand_wildcards"; "format"; "local"] |}.
#[export] Instance CatAliases_operates : LawfulOp CatAliasesReq.
Proof. operate. Qed.

Record CatAllPITSegmentsParams := MkCatAllPITSegmentsParams { CatAllPITSegmentsParams_TimeoutParams : TimeoutParams; CatAllPITSegmentsParams_DebugParams : DebugParams; CatAllPITSegmentsParams_Bytes : string }.
Definition CatAllPITSegmentsParams_own (q : CatAllPITSegmentsParams) : list param :=
  [("bytes", nonEmpty (CatAllPITSegmentsParams_Bytes q))].
Definition CatAllPITSegmentsParams_slots : list (string * (CatAllPITSegmentsParams -> slot)) :=
  [("Bytes", fun q => Text (CatAllPITSegmentsParams_Bytes q))].
Definition CatAllPITSegmentsParams_get (q : CatAllPITSegmentsParams) : gmap string string :=
  encode_params (EncodeTimeout (CatAllPITSegmentsParams_TimeoutParams q) ++ EncodeDebug (CatAllPITSegmentsParams_DebugParams q) ++ defaultFormat "json" (CatAllPITSegmentsParams_DebugParams q) ++ CatAllPITSegmentsParams_own q).
Record CatAllPITSegmentsReq := MkCatAllPITSegmentsReq { CatAllPITSegmentsReq_Header : headers; CatAllPITSegmentsReq_Params : option CatAllPITSegmentsParams }.
Definition CatAllPITSegmentsReq_GetRequest (r : CatAllPITSegmentsReq) (method : string) : request_error + httpRequest * Z :=
  send method (CatAllPITSegmentsPath_Build (MkCatAllPITSegmentsPath))
    (match CatAllPITSegmentsReq_Params r with Some q => CatAllPITSegmentsParams_get q | None => CatAllPITSegmentsParams_get (MkCatAllPITSegmentsParams noTimeout noDebug "") end)
    no_body (CatAllPITSegmentsReq_Header r).
Definition CatAllPITSegments_Method (r : CatAllPITSegmentsReq) : string := "GET".
#[export] Instance CatAllPITSegments_operation : operation CatAllPITSegmentsReq :=
  {| op_path := MkPathType "CatAllPITSegmentsPath" CatAllPITSegmentsPath _ _; op_P := CatAllPITSegmentsParams; op_fields r := MkCatAllPITSegmentsPath;
     op_params := CatAllPITSegmentsReq_Params; op_defaults := Some (MkCatAllPITSegmentsParams noTimeout noDebug ""); op_timeout := CatAllPITSegmentsParams_TimeoutParams; op_debug := CatAllPITSegmentsParams_DebugParams;
     op_format := Some "json"; op_own := CatAllPITSegmentsParams_own; op_slots := CatAllPITSegmentsParams_slots;
     op_body _ := no_body; op_headers r := CatAllPITSegmentsReq_Header r;
     Method := CatAllPITSegments_Method; GetRequest := CatAllPITSegmentsReq_GetRequest;
     op_keys := ["bytes"];
     op_described := [("GET", "/_cat/pit_segments/_all")];
     op_query := ["bytes"; "format"] |}.
#[export] Instance CatAllPITSegments_operates : LawfulOp CatAllPITSegmentsReq.
Proof. operate. Qed.

Record CatAllocationParams := MkCatAllocationParams { CatAllocationParams_TimeoutParams : TimeoutParams; CatAllocationParams_DebugParams : DebugParams; CatAllocationParams_Bytes : string;
  CatAllocationParams_Local : option bool }.
Definition CatAllocationParams_own (q : CatAllocationParams) : list param :=
  [("bytes", nonEmpty (CatAllocationParams_Bytes q)); ("local", boolPtr (CatAllocationParams_Local q))].
Definition CatAllocationParams_slots : list (string * (CatAllocationParams -> slot)) :=
  [("Bytes", fun q => Text (CatAllocationParams_Bytes q)); ("Local", fun q => BoolPtr (CatAllocationParams_Local q))].
Definition CatAllocationParams_get (q : CatAllocationParams) : gmap string string :=
  encode_params (EncodeTimeout (CatAllocationParams_TimeoutParams q) ++ EncodeDebug (CatAllocationParams_DebugParams q) ++ defaultFormat "json" (CatAllocationParams_DebugParams q) ++ CatAllocationParams_own q).
Record CatAllocationReq := MkCatAllocationReq { CatAllocationReq_NodeID : list string; CatAllocationReq_Header : headers; CatAllocationReq_Params : option CatAllocationParams }.
Definition CatAllocationReq_GetRequest (r : CatAllocationReq) (method : string) : request_error + httpRequest * Z :=
  send method (CatAllocationPath_Build (MkCatAllocationPath (CatAllocationReq_NodeID r)))
    (match CatAllocationReq_Params r with Some q => CatAllocationParams_get q | None => CatAllocationParams_get (MkCatAllocationParams noTimeout noDebug "" None) end)
    no_body (CatAllocationReq_Header r).
Definition CatAllocation_Method (r : CatAllocationReq) : string := "GET".
#[export] Instance CatAllocation_operation : operation CatAllocationReq :=
  {| op_path := MkPathType "CatAllocationPath" CatAllocationPath _ _; op_P := CatAllocationParams; op_fields r := MkCatAllocationPath (CatAllocationReq_NodeID r);
     op_params := CatAllocationReq_Params; op_defaults := Some (MkCatAllocationParams noTimeout noDebug "" None); op_timeout := CatAllocationParams_TimeoutParams; op_debug := CatAllocationParams_DebugParams;
     op_format := Some "json"; op_own := CatAllocationParams_own; op_slots := CatAllocationParams_slots;
     op_body _ := no_body; op_headers r := CatAllocationReq_Header r;
     Method := CatAllocation_Method; GetRequest := CatAllocationReq_GetRequest;
     op_keys := ["bytes"; "local"];
     op_described := [("GET", "/_cat/allocation"); ("GET", "/_cat/allocation/{node_id}")];
     op_query := ["bytes"; "format"; "local"] |}.
#[export] Instance CatAllocation_operates : LawfulOp CatAllocationReq.
Proof. operate. Qed.

Record CatClusterManagerParams := MkCatClusterManagerParams { CatClusterManagerParams_TimeoutParams : TimeoutParams; CatClusterManagerParams_DebugParams : DebugParams; CatClusterManagerParams_Local : option bool }.
Definition CatClusterManagerParams_own (q : CatClusterManagerParams) : list param :=
  [("local", boolPtr (CatClusterManagerParams_Local q))].
Definition CatClusterManagerParams_slots : list (string * (CatClusterManagerParams -> slot)) :=
  [("Local", fun q => BoolPtr (CatClusterManagerParams_Local q))].
Definition CatClusterManagerParams_get (q : CatClusterManagerParams) : gmap string string :=
  encode_params (EncodeTimeout (CatClusterManagerParams_TimeoutParams q) ++ EncodeDebug (CatClusterManagerParams_DebugParams q) ++ defaultFormat "json" (CatClusterManagerParams_DebugParams q) ++ CatClusterManagerParams_own q).
Record CatClusterManagerReq := MkCatClusterManagerReq { CatClusterManagerReq_Header : headers; CatClusterManagerReq_Params : option CatClusterManagerParams }.
Definition CatClusterManagerReq_GetRequest (r : CatClusterManagerReq) (method : string) : request_error + httpRequest * Z :=
  send method (CatClusterManagerPath_Build (MkCatClusterManagerPath))
    (match CatClusterManagerReq_Params r with Some q => CatClusterManagerParams_get q | None => CatClusterManagerParams_get (MkCatClusterManagerParams noTimeout noDebug None) end)
    no_body (CatClusterManagerReq_Header r).
Definition CatClusterManager_Method (r : CatClusterManagerReq) : string := "GET".
#[export] Instance CatClusterManager_operation : operation CatClusterManagerReq :=
  {| op_path := MkPathType "CatClusterManagerPath" CatClusterManagerPath _ _; op_P := CatClusterManagerParams; op_fields r := MkCatClusterManagerPath;
     op_params := CatClusterManagerReq_Params; op_defaults := Some (MkCatClusterManagerParams noTimeout noDebug None); op_timeout := CatClusterManagerParams_TimeoutParams; op_debug := CatClusterManagerParams_DebugParams;
     op_format := Some "json"; op_own := CatClusterManagerParams_own; op_slots := CatClusterManagerParams_slots;
     op_body _ := no_body; op_headers r := CatClusterManagerReq_Header r;
     Method := CatClusterManager_Method; GetRequest := CatClusterManagerReq_GetRequest;
     op_keys := ["local"];
     op_described := [("GET", "/_cat/cluster_manager")];
     op_query := ["format"; "local"] |}.
#[export] Instance CatClusterManager_operates : LawfulOp CatClusterManagerReq.
Proof. operate. Qed.

Record CatCountParams := MkCatCountParams { CatCountParams_TimeoutParams : TimeoutParams; CatCountParams_DebugParams : DebugParams }.
Definition CatCountParams_own (q : CatCountParams) : list param :=
  [].
Definition CatCountParams_slots : list (string * (CatCountParams -> slot)) :=
  [].
Definition CatCountParams_get (q : CatCountParams) : gmap string string :=
  encode_params (EncodeTimeout (CatCountParams_TimeoutParams q) ++ EncodeDebug (CatCountParams_DebugParams q) ++ defaultFormat "json" (CatCountParams_DebugParams q) ++ CatCountParams_own q).
Record CatCountReq := MkCatCountReq { CatCountReq_Indices : list string; CatCountReq_Header : headers; CatCountReq_Params : option CatCountParams }.
Definition CatCountReq_GetRequest (r : CatCountReq) (method : string) : request_error + httpRequest * Z :=
  send method (CatCountPath_Build (MkCatCountPath (CatCountReq_Indices r)))
    (match CatCountReq_Params r with Some q => CatCountParams_get q | None => CatCountParams_get (MkCatCountParams noTimeout noDebug) end)
    no_body (CatCountReq_Header r).
Definition CatCount_Method (r : CatCountReq) : string := "GET".
#[export] Instance CatCount_operation : operation CatCountReq :=
  {| op_path := MkPathType "CatCountPath" CatCountPath _ _; op_P := CatCountParams; op_fields r := MkCatCountPath (CatCountReq_Indices r);
     op_params := CatCountReq_Params; op_defaults := Some (MkCatCountParams noTimeout noDebug); op_timeout := CatCountParams_TimeoutParams; op_debug := CatCountParams_DebugParams;
     op_format := Some "json"; op_own := CatCountParams_own; op_slots := CatCountParams_slots;
     op_body _ := no_body; op_headers r := CatCountReq_Header r;
     Method := CatCount_Method; GetRequest := CatCountReq_GetRequest;
     op_keys := [];
     op_described := [("GET", "/_cat/count"); ("GET", "/_cat/count/{index}")];
     op_query := ["format"] |}.
#[export] Instance CatCount_operates : LawfulOp CatCountReq.
Proof. operate. Qed.

Record CatFielddataParams := MkCatFielddataParams { CatFielddataParams_TimeoutParams : TimeoutParams; CatFielddataParams_DebugParams : DebugParams; CatFielddataParams_Bytes : string;
  CatFielddataParams_Fields : list string }.
Definition CatFielddataParams_own (q : CatFielddataParams) : list param :=
  [("bytes", nonEmpty (CatFielddataParams_Bytes q)); ("fields", joined (CatFielddataParams_Fields q))].
Definition CatFielddataParams_slots : list (string * (CatFielddataParams -> slot)) :=
  [("Bytes", fun q => Text (CatFielddataParams_Bytes q)); ("Fields", fun q => TextList (CatFielddataParams_Fields q))].
Definition CatFielddataParams_get (q : CatFielddataParams) : gmap string string :=
  encode_params (EncodeTimeout (CatFielddataParams_TimeoutParams q) ++ EncodeDebug (CatFielddataParams_DebugParams q) ++ defaultFormat "json" (CatFielddataParams_DebugParams q) ++ CatFielddataParams_own q).
Record CatFielddataReq := MkCatFielddataReq { CatFielddataReq_Fields : list string; CatFielddataReq_Header : headers; CatFielddataReq_Params : option CatFielddataParams }.
Definition CatFielddataReq_GetRequest (r : CatFielddataReq) (method : string) : request_error + httpRequest * Z :=
  send method (CatFielddataPath_Build (MkCatFielddataPath (CatFielddataReq_Fields r)))
    (match CatFielddataReq_Params r with Some q => CatFielddataParams_get q | None => CatFielddataParams_get (MkCatFielddataParams noTimeout noDebug "" []) end)
    no_body (CatFielddataReq_Header r).
Definition CatFielddata_Method (r : CatFielddataReq) : string := "GET".
#[export] Instance CatFielddata_operation : operation CatFielddataReq :=
  {| op_path := MkPathType "CatFielddataPath" CatFielddataPath _ _; op_P := CatFielddataParams; op_fields r := MkCatFielddataPath (CatFielddataReq_Fields r);
     op_params := CatFielddataReq_Params; op_defaults := Some (MkCatFielddataParams noTimeout noDebug "" []); op_timeout := CatFielddataParams_TimeoutParams; op_debug := CatFielddataParams_DebugParams;
     op_format := Some "json"; op_own := CatFielddataParams_own; op_slots := CatFielddataParams_slots;
     op_body _ := no_body; op_headers r := CatFielddataReq_Header r;
     Method := CatFielddata_Method; GetRequest := CatFielddataReq_GetRequest;
     op_keys := ["bytes"; "fields"];
     op_described := [("GET", "/_cat/fielddata"); ("GET", "/_cat/fielddata/{fields}")];
     op_query := ["bytes"; "fields"; "format"] |}.
#[export] Instance CatFielddata_operates : LawfulOp CatFielddataReq.
Proof. operate. Qed.

Record CatHealthParams := MkCatHealthParams { CatHealthParams_TimeoutParams : TimeoutParams; CatHealthParams_DebugParams : DebugParams; CatHealthParams_Time : string;
  CatHealthParams_Ts : option bool }.
Definition CatHealthParams_own (q : CatHealthParams) : list param :=
  [("time", nonEmpty (CatHealthParams_Time q)); ("ts", boolPtr (CatHealthParams_Ts q))].
Definition CatHealthParams_slots : list (string * (CatHealthParams -> slot)) :=
  [("Time", fun q => Text (CatHealthParams_Time q)); ("Ts", fun q => BoolPtr (CatHealthParams_Ts q))].
Definition CatHealthParams_get (q : CatHealthParams) : gmap string string :=
  encode_params (EncodeTimeout (CatHealthParams_TimeoutParams q) ++ EncodeDebug (CatHealthParams_DebugParams q) ++ defaultFormat "json" (CatHealthParams_DebugParams q) ++ CatHealthParams_own q).
Record CatHealthReq := MkCatHealthReq { CatHealthReq_Header : headers; CatHealthReq_Params : option CatHealthParams }.
Definition CatHealthReq_GetRequest (r : CatHealthReq) (method : string) : request_error + httpRequest * Z :=
  send method (CatHealthPath_Build (MkCatHealthPath))
    (match CatHealthReq_Params r with Some q => CatHealthParams_get q | None => CatHealthParams_get (MkCatHealthParams noTimeout noDebug "" None) end)
    no_body (CatHealthReq_Header r).
Definition CatHealth_Method (r : CatHealthReq) : string := "GET".
#[export] Instance CatHealth_operation : operation CatHealthReq :=
  {| op_path := MkPathType "CatHealthPath" CatHealthPath _ _; op_P := CatHealthParams; op_fields r := MkCatHealthPath;
     op_params := CatHealthReq_Params; op_defaults := Some (MkCatHealthParams noTimeout noDebug "" None); op_timeout := CatHealthParams_TimeoutParams; op_debug := CatHealthParams_DebugParams;
     op_format := Some "json"; op_own := CatHealthParams_own; op_slots := CatHealthParams_slots;
     op_body _ := no_body; op_headers r := CatHealthReq_Header r;
     Method := CatHealth_Method; GetRequest := CatHealthReq_GetRequest;
     op_keys := ["time"; "ts"];
     op_described := [("GET", "/_cat/health")];
     op_query := ["format"; "time"; "ts"] |}.
#[export] Instance CatHealth_operates : LawfulOp CatHealthReq.
Proof. operate. Qed.

Record CatHelpParams := MkCatHelpParams { CatHelpParams_TimeoutParams : TimeoutParams; CatHelpParams_DebugParams : DebugParams }.
Definition CatHelpParams_own (q : CatHelpParams) : list param :=
  [].
Definition CatHelpParams_slots : list (string * (CatHelpParams -> slot)) :=
  [].
Definition CatHelpParams_get (q : CatHelpParams) : gmap string string :=
  encode_params (EncodeTimeout (CatHelpParams_TimeoutParams q) ++ EncodeDebug (CatHelpParams_DebugParams q) ++ defaultFormat "json" (CatHelpParams_DebugParams q) ++ CatHelpParams_own q).
Record CatHelpReq := MkCatHelpReq { CatHelpReq_Header : headers; CatHelpReq_Params : option CatHelpParams }.
Definition CatHelpReq_GetRequest (r : CatHelpReq) (method : string) : request_error + httpRequest * Z :=
  send method (CatHelpPath_Build (MkCatHelpPath))
    (match CatHelpReq_Params r with Some q => CatHelpParams_get q | None => CatHelpParams_get (MkCatHelpParams noTimeout noDebug) end)
    no_body (CatHelpReq_Header r).
Definition CatHelp_Method (r : CatHelpReq) : string := "GET".
#[export] Instance CatHelp_operation : operation CatHelpReq :=
  {| op_path := MkPathType "CatHelpPath" CatHelpPath _ _; op_P := CatHelpParams; op_fields r := MkCatHelpPath;
     op_params := CatHelpReq_Params; op_defaults := Some (MkCatHelpParams noTimeout noDebug); op_timeout := CatHelpParams_TimeoutParams; op_debug := CatHelpParams_DebugParams;
     op_format := Some "json"; op_own := CatHelpParams_own; op_slots := CatHelpParams_slots;
     op_body _ := no_body; op_headers r := CatHelpReq_Header r;
     Method := CatHelp_Method; GetRequest := CatHelpReq_GetRequest;
     op_keys := [];
     op_described := [("GET", "/_cat")];
     op_query := [] |}.
#[export] Instance CatHelp_operates : LawfulOp CatHelpReq.
Proof. operate. Qed.

Record CatIndicesParams := MkCatIndicesParams { CatIndicesParams_TimeoutParams : TimeoutParams; CatIndicesParams_DebugParams : DebugParams; CatIndicesParams_Bytes : string;
  CatIndicesParams_ExpandWildcards : list string; CatIndicesParams_Health : string; CatIndicesParams_IncludeUnloadedSegments : option bool;
  CatIndicesParams_Local : option bool; CatIndicesParams_Pri : option bool; CatIndicesParams_Time : string }.
Definition CatIndicesParams_own (q : CatIndicesParams) : list param :=
  [("bytes", nonEmpty (CatIndicesParams_Bytes q)); ("expand_wildcards", joined (CatIndicesParams_ExpandWildcards q));
  ("health", nonEmpty (CatIndicesParams_Health q)); ("include_unloaded_segments", boolPtr (CatIndicesParams_IncludeUnloadedSegments q));
  ("local", boolPtr (CatIndicesParams_Local q)); ("pri", boolPtr (CatIndicesParams_Pri q)); ("time", nonEmpty (CatIndicesParams_Time q))].
Definition CatIndicesParams_slots : list (string * (CatIndicesParams -> slot)) :=
  [("Bytes", fun q => Text (CatIndicesParams_Bytes q)); ("ExpandWildcards", fun q => TextList (CatIndicesParams_ExpandWildcards q));
  ("Health", fun q => Text (CatIndicesParams_Health q)); ("IncludeUnloadedSegments", fun q => BoolPtr (CatIndicesParams_IncludeUnloadedSegments q));
  ("Local", fun q => BoolPtr (CatIndicesParams_Local q)); ("Pri", fun q => BoolPtr (CatIndicesParams_Pri q));
  ("Time", fun q => Text (CatIndicesParams_Time q))].
Definition CatIndicesParams_get (q : CatIndicesParams) : gmap string string :=
  encode_params (EncodeTimeout (CatIndicesParams_TimeoutParams q) ++ EncodeDebug (CatIndicesParams_DebugParams q) ++ defaultFormat "json" (CatIndicesParams_DebugParams q) ++ CatIndicesParams_own q).
Record CatIndicesReq := MkCatIndicesReq { CatIndicesReq_Indices : list string; CatIndicesReq_Header : headers; CatIndicesReq_Params : option CatIndicesParams }.
Definition CatIndicesReq_GetRequest (r : CatIndicesReq) (method : string) : request_error + httpRequest * Z :=
  send method (CatIndicesPath_Build (MkCatIndicesPath (CatIndicesReq_Indices r)))
    (match CatIndicesReq_Params r with Some q => CatIndicesParams_get q | None => CatIndicesParams_get (MkCatIndicesParams noTimeout noDebug "" [] "" None None None "") end)
    no_body (CatIndicesReq_Header r).
Definition CatIndices_Method (r : CatIndicesReq) : string := "GET".
#[export] Instance CatIndices_operation : operation CatIndicesReq :=
  {| op_path := MkPathType "CatIndicesPath" CatIndicesPath _ _; op_P := CatIndicesParams; op_fields r := MkCatIndicesPath (CatIndicesReq_Indices r);
     op_params := CatIndicesReq_Params; op_defaults := Some (MkCatIndicesParams noTimeout noDebug "" [] "" None None None ""); op_timeout := CatIndicesParams_TimeoutParams; op_debug := CatIndicesParams_DebugParams;
     op_format := Some "json"; op_own := CatIndicesParams_own; op_slots := CatIndicesParams_slots;
     op_body _ := no_body; op_headers r := CatIndicesReq_Header r;
     Method := CatIndices_Method; GetRequest := CatIndicesReq_GetRequest;
     op_keys := ["bytes"; "expand_wildcards"; "health"; "include_unloaded_segments"; "local"; "pri"; "time"];
     op_described := [("GET", "/_cat/indices"); ("GET", "/_cat/indices/{index}")];
     op_query := ["bytes"; "expand_wildcards"; "format"; "health"; "include_unloaded_segments"; "local"; "pri"; "time"] |}.
#[export] Instance CatIndices_operates : LawfulOp CatIndicesReq.
Proof. operate. Qed.

Record CatMasterParams := MkCatMasterParams { CatMasterParams_TimeoutParams : TimeoutParams; CatMasterParams_DebugParams : DebugParams; CatMasterParams_Local : option bool }.
Definition CatMasterParams_own (q : CatMasterParams) : list param :=
  [("local", boolPtr (CatMasterParams_Local q))].
Definition CatMasterParams_slots : list (string * (CatMasterParams -> slot)) :=
  [("Local", fun q => BoolPtr (CatMasterParams_Local q))].
Definition CatMasterParams_get (q : CatMasterParams) : gmap string string :=
  encode_params (EncodeTimeout (CatMasterParams_TimeoutParams q) ++ EncodeDebug (CatMasterParams_DebugParams q) ++ defaultFormat "json" (CatMasterParams_DebugParams q) ++ CatMasterParams_own q).
Record CatMasterReq := MkCatMasterReq { CatMasterReq_Header : headers; CatMasterReq_Params : option CatMasterParams }.
Definition CatMasterReq_GetRequest (r : CatMasterReq) (method : string) : request_error + httpRequest * Z :=
  send method (CatMasterPath_Build (MkCatMasterPath))
    (match CatMasterReq_Params r with Some q => CatMasterParams_get q | None => CatMasterParams_get (MkCatMasterParams noTimeout noDebug None) end)
    no_body (CatMasterReq_Header r).
Definition CatMaster_Method (r : CatMasterReq) : string := "GET".
#[export] Instance CatMaster_operation : operation CatMasterReq :=
  {| op_path := MkPathType "CatMasterPath" CatMasterPath _ _; op_P := CatMasterParams; op_fields r := MkCatMasterPath;
     op_params := CatMasterReq_Params; op_defaults := Some (MkCatMasterParams noTimeout noDebug None); op_timeout := CatMasterParams_TimeoutParams; op_debug := CatMasterParams_DebugParams;
     op_format := Some "json"; op_own := CatMasterParams_own; op_slots := CatMasterParams_slots;
     op_body _ := no_body; op_headers r := CatMasterReq_Header r;
     Method := CatMaster_Method; GetRequest := CatMasterReq_GetRequest;
     op_keys := ["local"];
     op_described := [("GET", "/_cat/master")];
     op_query := ["format"; "local"] |}.
#[export] Instance CatMaster_operates : LawfulOp CatMasterReq.
Proof. operate. Qed.

Record CatNodeattrsParams := MkCatNodeattrsParams { CatNodeattrsParams_TimeoutParams : TimeoutParams; CatNodeattrsParams_DebugParams : DebugParams; CatNodeattrsParams_Local : option bool }.
Definition CatNodeattrsParams_own (q : CatNodeattrsParams) : list param :=
  [("local", boolPtr (CatNodeattrsParams_Local q))].
Definition CatNodeattrsParams_slots : list (string * (CatNodeattrsParams -> slot)) :=
  [("Local", fun q => BoolPtr (CatNodeattrsParams_Local q))].
Definition CatNodeattrsParams_get (q : CatNodeattrsParams) : gmap string string :=
  encode_params (EncodeTimeout (CatNodeattrsParams_TimeoutParams q) ++ EncodeDebug (CatNodeattrsParams_DebugParams q) ++ defaultFormat "json" (CatNodeattrsParams_DebugParams q) ++ CatNodeattrsParams_own q).
Record CatNodeattrsReq := MkCatNodeattrsReq { CatNodeattrsReq_Header : headers; CatNodeattrsReq_Params : option CatNodeattrsParams }.
Definition CatNodeattrsReq_GetRequest (r : CatNodeattrsReq) (method : string) : request_error + httpRequest * Z :=
  send method (CatNodeattrsPath_Build (MkCatNodeattrsPath))
    (match CatNodeattrsReq_Params r with Some q => CatNodeattrsParams_get q | None => CatNodeattrsParams_get (MkCatNodeattrsParams noTimeout noDebug None) end)
    no_body (CatNodeattrsReq_Header r).
Definition CatNodeattrs_Method (r : CatNodeattrsReq) : string := "GET".
#[export] Instance CatNodeattrs_operation : operation CatNodeattrsReq :=
  {| op_path := MkPathType "CatNodeattrsPath" CatNodeattrsPath _ _; op_P := CatNodeattrsParams; op_fields r := MkCatNodeattrsPath;
     op_params := CatNodeattrsReq_Params; op_defaults := Some (MkCatNodeattrsParams noTimeout noDebug None); op_timeout := CatNodeattrsParams_TimeoutParams; op_debug := CatNodeattrsParams_DebugParams;
     op_format := Some "json"; op_own := CatNodeattrsParams_own; op_slots := CatNodeattrsParams_slots;
     op_body _ := no_body; op_headers r := CatNodeattrsReq_Header r;
     Method := CatNodeattrs_Method; GetRequest := CatNodeattrsReq_GetRequest;
     op_keys := ["local"];
     op_described := [("GET", "/_cat/nodeattrs")];
     op_query := ["format"; "local"] |}.
#[export] Instance CatNodeattrs_operates : LawfulOp CatNodeattrsReq.
Proof. operate. Qed.

Record CatNodesParams := MkCatNodesParams { CatNodesParams_TimeoutParams : TimeoutParams; CatNodesParams_DebugParams : DebugParams; CatNodesParams_Bytes : string;
  CatNodesParams_FullID : string; CatNodesParams_Local : option bool; CatNodesParams_Time : string }.
Definition CatNodesParams_own (q : CatNodesParams) : list param :=
  [("bytes", nonEmpty (CatNodesParams_Bytes q)); ("full_id", nonEmpty (CatNodesParams_FullID q)); ("local", boolPtr (CatNodesParams_Local q));
  ("time", nonEmpty (CatNodesParams_Time q))].
Definition CatNodesParams_slots : list (string * (CatNodesParams -> slot)) :=
  [("Bytes", fun q => Text (CatNodesParams_Bytes q)); ("FullID", fun q => Text (CatNodesParams_FullID q));
  ("Local", fun q => BoolPtr (CatNodesParams_Local q)); ("Time", fun q => Text (CatNodesParams_Time q))].
Definition CatNodesParams_get (q : CatNodesParams) : gmap string string :=
  encode_params (EncodeTimeout (CatNodesParams_TimeoutParams q) ++ EncodeDebug (CatNodesParams_DebugParams q) ++ defaultFormat "json" (CatNodesParams_DebugParams q) ++ CatNodesParams_own q).
Record CatNodesReq := MkCatNodesReq { CatNodesReq_Header : headers; CatNodesReq_Params : option CatNodesParams }.
Definition CatNodesReq_GetRequest (r : CatNodesReq) (method : string) : request_error + httpRequest * Z :=
  send method (CatNodesPath_Build (MkCatNodesPath))
    (match CatNodesReq_Params r with Some q => CatNodesParams_get q | None => CatNodesParams_get (MkCatNodesParams noTimeout noDebug "" "" None "") end)
    no_body (CatNodesReq_Header r).
Definition CatNodes_Method (r : CatNodesReq) : string := "GET".
#[export] Instance CatNodes_operation : operation CatNodesReq :=
  {| op_path := MkPathType "CatNodesPath" CatNodesPath _ _; op_P := CatNodesParams; op_fields r := MkCatNodesPath;
     op_params := CatNodesReq_Params; op_defaults := Some (MkCatNodesParams noTimeout noDebug "" "" None ""); op_timeout := CatNodesParams_TimeoutParams; op_debug := CatNodesParams_DebugParams;
     op_format := Some "json"; op_own := CatNodesParams_own; op_slots := CatNodesParams_slots;
     op_body _ := no_body; op_headers r := CatNodesReq_Header r;
     Method := CatNodes_Method; GetRequest := CatNodesReq_GetRequest;
     op_keys := ["bytes"; "full_id"; "local"; "time"];
     op_described := [("GET", "/_cat/nodes")];
     op_query := ["bytes"; "format"; "full_id"; "local"; "time"] |}.
#[export] Instance CatNodes_operates : LawfulOp CatNodesReq.
Proof. operate. Qed.

Record CatPendingTasksParams := MkCatPendingTasksParams { CatPendingTasksParams_TimeoutParams : TimeoutParams; CatPendingTasksParams_DebugParams : DebugParams; CatPendingTasksParams_Local : option bool;
  CatPendingTasksParams_Time : string }.
Definition CatPendingTasksParams_own (q : CatPendingTasksParams) : list param :=
  [("local", boolPtr (CatPendingTasksParams_Local q)); ("time", nonEmpty (CatPendingTasksParams_Time q))].
Definition CatPendingTasksParams_slots : list (string * (CatPendingTasksParams -> slot)) :=
  [("Local", fun q => BoolPtr (CatPendingTasksParams_Local q)); ("Time", fun q => Text (CatPendingTasksParams_Time q))].
Definition CatPendingTasksParams_get (q : CatPendingTasksParams) : gmap string string :=
  encode_params (EncodeTimeout (CatPendingTasksParams_TimeoutParams q) ++ EncodeDebug (CatPendingTasksParams_DebugParams q) ++ defaultFormat "json" (CatPendingTasksParams_DebugParams q) ++ CatPendingTasksParams_own q).
Record CatPendingTasksReq := MkCatPendingTasksReq { CatPendingTasksReq_Header : headers; CatPendingTasksReq_Params : option CatPendingTasksParams }.
Definition CatPendingTasksReq_GetRequest (r : CatPendingTasksReq) (method : string) : request_error + httpRequest * Z :=
  send method (CatPendingTasksPath_Build (MkCatPendingTasksPath))
    (match CatPendingTasksReq_Params r with Some q => CatPendingTasksParams_get q | None => CatPendingTasksParams_get (MkCatPendingTasksParams noTimeout noDebug None "") end)
    no_body (CatPendingTasksReq_Header r).
Definition CatPendingTasks_Method (r : CatPendingTasksReq) : string := "GET".
#[export] Instance CatPendingTasks_operation : operation CatPendingTasksReq :=
  {| op_path := MkPathType "CatPendingTasksPath" CatPendingTasksPath _ _; op_P := CatPendingTasksParams; op_fields r := MkCatPendingTasksPath;
     op_params := CatPendingTasksReq_Params; op_defaults := Some (MkCatPendingTasksParams noTimeout noDebug None ""); op_timeout := CatPendingTasksParams_TimeoutParams; op_debug := CatPendingTasksParams_DebugParams;
     op_format := Some "json"; op_own := CatPendingTasksParams_own; op_slots := CatPendingTasksParams_slots;
     op_body _ := no_body; op_headers r := CatPendingTasksReq_Header r;
     Method := CatPendingTasks_Method; GetRequest := CatPendingTasksReq_GetRequest;
     op_keys := ["local"; "time"];
     op_described := [("GET", "/_cat/pending_tasks")];
     op_query := ["format"; "local"; "time"] |}.
#[export] Instance CatPendingTasks_operates : LawfulOp CatPendingTasksReq.
Proof. operate. Qed.

Record CatPITSegmentsParams := MkCatPITSegmentsParams { CatPITSegmentsParams_TimeoutParams : TimeoutParams; CatPITSegmentsParams_DebugParams : DebugParams; CatPITSegmentsParams_Bytes : string }.
Definition CatPITSegmentsParams_own (q : CatPITSegmentsParams) : list param :=
  [("bytes", nonEmpty (CatPITSegmentsParams_Bytes q))].
Definition CatPITSegmentsParams_slots : list (string * (CatPITSegmentsParams -> slot)) :=
  [("Bytes", fun q => Text (CatPITSegmentsParams_Bytes q))].
Definition CatPITSegmentsParams_get (q : CatPITSegmentsParams) : gmap string string :=
  encode_params (EncodeTimeout (CatPITSegmentsParams_TimeoutParams q) ++ EncodeDebug (CatPITSegmentsParams_DebugParams q) ++ defaultFormat "json" (CatPITSegmentsParams_DebugParams q) ++ CatPITSegmentsParams_own q).
Record CatPITSegmentsReq := MkCatPITSegmentsReq { CatPITSegmentsReq_Body : option (option string); CatPITSegmentsReq_BodyReader : reader; CatPITSegmentsReq_Header : headers;
  CatPITSegmentsReq_Params : option CatPITSegmentsParams }.
Definition CatPITSegmentsReq_GetRequest (r : CatPITSegmentsReq) (method : string) : request_error + httpRequest * Z :=
  send method (CatPITSegmentsPath_Build (MkCatPITSegmentsPath))
    (match CatPITSegmentsReq_Params r with Some q => CatPITSegmentsParams_get q | None => CatPITSegmentsParams_get (MkCatPITSegmentsParams noTimeout noDebug "") end)
    (json_body (CatPITSegmentsReq_Body r) (CatPITSegmentsReq_BodyReader r)) (CatPITSegmentsReq_Header r).
Definition CatPITSegments_Method (r : CatPITSegmentsReq) : string := "GET".
#[export] Instance CatPITSegments_operation : operation CatPITSegmentsReq :=
  {| op_path := MkPathType "CatPITSegmentsPath" CatPITSegmentsPath _ _; op_P := CatPITSegmentsParams; op_fields r := MkCatPITSegmentsPath;
     op_params := CatPITSegmentsReq_Params; op_defaults := Some (MkCatPITSegmentsParams noTimeout noDebug ""); op_timeout := CatPITSegmentsParams_TimeoutParams; op_debug := CatPITSegmentsParams_DebugParams;
     op_format := Some "json"; op_own := CatPITSegmentsParams_own; op_slots := CatPITSegmentsParams_slots;
     op_body r := json_body (CatPITSegmentsReq_Body r) (CatPITSegmentsReq_BodyReader r); op_headers r := CatPITSegmentsReq_Header r;
     Method := CatPITSegments_Method; GetRequest := CatPITSegmentsReq_GetRequest;
     op_keys := ["bytes"];
     op_described := [("GET", "/_cat/pit_segments")];
     op_query := ["bytes"; "format"] |}.
#[export] Instance CatPITSegments_operates : LawfulOp CatPITSegmentsReq.
Proof. operate. Qed.

Record CatPluginsParams := MkCatPluginsParams { CatPluginsParams_TimeoutParams : TimeoutParams; CatPluginsParams_DebugParams : DebugParams; CatPluginsParams_Local : option bool }.
Definition CatPluginsParams_own (q : CatPluginsParams) : list param :=
  [("local", boolPtr (CatPluginsParams_Local q))].
Definition CatPluginsParams_slots : list (string * (CatPluginsParams -> slot)) :=
  [("Local", fun q => BoolPtr (CatPluginsParams_Local q))].
Definition CatPluginsParams_get (q : CatPluginsParams) : gmap string string :=
  encode_params (EncodeTimeout (CatPluginsParams_TimeoutParams q) ++ EncodeDebug (CatPluginsParams_DebugParams q) ++ defaultFormat "json" (CatPluginsParams_DebugParams q) ++ CatPluginsParams_own q).
Record CatPluginsReq := MkCatPluginsReq { CatPluginsReq_Header : headers; CatPluginsReq_Params : option CatPluginsParams }.
Definition CatPluginsReq_GetRequest (r : CatPluginsReq) (method : string) : request_error + httpRequest * Z :=
  send method (CatPluginsPath_Build (MkCatPluginsPath))
    (match CatPluginsReq_Params r with Some q => CatPluginsParams_get q | None => CatPluginsParams_get (MkCatPluginsParams noTimeout noDebug None) end)
    no_body (CatPluginsReq_Header r).
Definition CatPlugins_Method (r : CatPluginsReq) : string := "GET".
#[export] Instance CatPlugins_operation : operation CatPluginsReq :=
  {| op_path := MkPathType "CatPluginsPath" CatPluginsPath _ _; op_P := CatPluginsParams; op_fields r := MkCatPluginsPath;
     op_params := CatPluginsReq_Params; op_defaults := Some (MkCatPluginsParams noTimeout noDebug None); op_timeout := CatPluginsParams_TimeoutParams; op_debug := CatPluginsParams_DebugParams;
     op_format := Some "json"; op_own := CatPluginsParams_own; op_slots := CatPluginsParams_slots;
     op_body _ := no_body; op_headers r := CatPluginsReq_Header r;
     Method := CatPlugins_Method; GetRequest := CatPluginsReq_GetRequest;
     op_keys := ["local"];
     op_described := [("GET", "/_cat/plugins")];
     op_query := ["format"; "local"] |}.
#[export] Instance CatPlugins_operates : LawfulOp CatPluginsReq.
Proof. operate. Qed.

Record CatRecoveryParams := MkCatRecoveryParams { CatRecoveryParams_TimeoutParams : TimeoutParams; CatRecoveryParams_DebugParams : DebugParams; CatRecoveryParams_ActiveOnly : option bool;
  CatRecoveryParams_Bytes : string; CatRecoveryParams_Detailed : option bool; CatRecoveryParams_Indices : list string; CatRecoveryParams_Time : string }.
Definition CatRecoveryParams_own (q : CatRecoveryParams) : list param :=
  [("active_only", boolPtr (CatRecoveryParams_ActiveOnly q)); ("bytes", nonEmpty (CatRecoveryParams_Bytes q));
  ("detailed", boolPtr (CatRecoveryParams_Detailed q)); ("index", joined (CatRecoveryParams_Indices q)); ("time", nonEmpty (CatRecoveryParams_Time q))].
Definition CatRecoveryParams_slots : list (string * (CatRecoveryParams -> slot)) :=
  [("ActiveOnly", fun q => BoolPtr (CatRecoveryParams_ActiveOnly q)); ("Bytes", fun q => Text (CatRecoveryParams_Bytes q));
  ("Detailed", fun q => BoolPtr (CatRecoveryParams_Detailed q)); ("Indices", fun q => TextList (CatRecoveryParams_Indices q));
  ("Time", fun q => Text (CatRecoveryParams_Time q))].
Definition CatRecoveryParams_get (q : CatRecoveryParams) : gmap string string :=
  encode_params (EncodeTimeout (CatRecoveryParams_TimeoutParams q) ++ EncodeDebug (CatRecoveryParams_DebugParams q) ++ defaultFormat "json" (CatRecoveryParams_DebugParams q) ++ CatRecoveryParams_own q).
Record CatRecoveryReq := MkCatRecoveryReq { CatRecoveryReq_Indices : list string; CatRecoveryReq_Header : headers; CatRecoveryReq_Params : option CatRecoveryParams }.
Definition CatRecoveryReq_GetRequest (r : CatRecoveryReq) (method : string) : request_error + httpRequest * Z :=
  send method (CatRecoveryPath_Build (MkCatRecoveryPath (CatRecoveryReq_Indices r)))
    (match CatRecoveryReq_Params r with Some q => CatRecoveryParams_get q | None => CatRecoveryParams_get (MkCatRecoveryParams noTimeout noDebug None "" None [] "") end)
    no_body (CatRecoveryReq_Header r).
Definition CatRecovery_Method (r : CatRecoveryReq) : string := "GET".
#[export] Instance CatRecovery_operation : operation CatRecoveryReq :=
  {| op_path := MkPathType "CatRecoveryPath" CatRecoveryPath _ _; op_P := CatRecoveryParams; op_fields r := MkCatRecoveryPath (CatRecoveryReq_Indices r);
     op_params := CatRecoveryReq_Params; op_defaults := Some (MkCatRecoveryParams noTimeout noDebug None "" None [] ""); op_timeout := CatRecoveryParams_TimeoutParams; op_debug := CatRecoveryParams_DebugParams;
     op_format := Some "json"; op_own := CatRecoveryParams_own; op_slots := CatRecoveryParams_slots;
     op_body _ := no_body; op_headers r := CatRecoveryReq_Header r;
     Method := CatRecovery_Method; GetRequest := CatRecoveryReq_GetRequest;
     op_keys := ["active_only"; "bytes"; "detailed"; "index"; "time"];
     op_described := [("GET", "/_cat/recovery"); ("GET", "/_cat/recovery/{index}")];
     op_query := ["active_only"; "bytes"; "detailed"; "format"; "index"; "time"] |}.
#[export] Instance CatRecovery_operates : LawfulOp CatRecoveryReq.
Proof. operate. Qed.

Record CatRepositoriesParams := MkCatRepositoriesParams { CatRepositoriesParams_TimeoutParams : TimeoutParams; CatRepositoriesParams_DebugParams : DebugParams; CatRepositoriesParams_Local : option bool }.
Definition CatRepositoriesParams_own (q : CatRepositoriesParams) : list param :=
  [("local", boolPtr (CatRepositoriesParams_Local q))].
Definition CatRepositoriesParams_slots : list (string * (CatRepositoriesParams -> slot)) :=
  [("Local", fun q => BoolPtr (CatRepositoriesParams_Local q))].
Definition CatRepositoriesParams_get (q : CatRepositoriesParams) : gmap string string :=
  encode_params (EncodeTimeout (CatRepositoriesParams_TimeoutParams q) ++ EncodeDebug (CatRepositoriesParams_DebugParams q) ++ defaultFormat "json" (CatRepositoriesParams_DebugParams q) ++ CatRepositoriesParams_own q).
Record CatRepositoriesReq := MkCatRepositoriesReq { CatRepositoriesReq_Header : headers; CatRepositoriesReq_Params : option CatRepositoriesParams }.
Definition CatRepositoriesReq_GetRequest (r : CatRepositoriesReq) (method : string) : request_error + httpRequest * Z :=
  send method (CatRepositoriesPath_Build (MkCatRepositoriesPath))
    (match CatRepositoriesReq_Params r with Some q => CatRepositoriesParams_get q | None => CatRepositoriesParams_get (MkCatRepositoriesParams noTimeout noDebug None) end)
    no_body (CatRepositoriesReq_Header r).
Definition CatRepositories_Method (r : CatRepositoriesReq) : string := "GET".
#[export] Instance CatRepositories_operation : operation CatRepositoriesReq :=
  {| op_path := MkPathType "CatRepositoriesPath" CatRepositoriesPath _ _; op_P := CatRepositoriesParams; op_fields r := MkCatRepositoriesPath;
     op_params := CatRepositoriesReq_Params; op_defaults := Some (MkCatRepositoriesParams noTimeout noDebug None); op_timeout := CatRepositoriesParams_TimeoutParams; op_debug := CatRepositoriesParams_DebugParams;
     op_format := Some "json"; op_own := CatRepositoriesParams_own; op_slots := CatRepositoriesParams_slots;
     op_body _ := no_body; op_headers r := CatRepositoriesReq_Header r;
     Method := CatRepositories_Method; GetRequest := CatRepositoriesReq_GetRequest;
     op_keys := ["local"];
     op_described := [("GET", "/_cat/repositories")];
     op_query := ["format"; "local"] |}.
#[export] Instance CatRepositories_operates : LawfulOp CatRepositoriesReq.
Proof. operate. Qed.

Record CatSegmentReplicationParams := MkCatSegmentReplicationParams { CatSegmentReplicationParams_TimeoutParams : TimeoutParams; CatSegmentReplicationParams_DebugParams : DebugParams;
  CatSegmentReplicationParams_ActiveOnly : option bool; CatSegmentReplicationParams_AllowNoIndices : option bool;
  CatSegmentReplicationParams_Bytes : string; CatSegmentReplicationParams_CompletedOnly : option bool;
  CatSegmentReplicationParams_Detailed : option bool; CatSegmentReplicationParams_ExpandWildcards : list string;
  CatSegmentReplicationParams_IgnoreThrottled : option bool; CatSegmentReplicationParams_IgnoreUnavailable : option bool;
  CatSegmentReplicationParams_Indices : list string; CatSegmentReplicationParams_Shards : list string; CatSegmentReplicationParams_Time : string }.
Definition CatSegmentReplicationParams_own (q : CatSegmentReplicationParams) : list param :=
  [("active_only", boolPtr (CatSegmentReplicationParams_ActiveOnly q)); ("allow_no_indices", boolPtr (CatSegmentReplicationParams_AllowNoIndices q));
  ("bytes", nonEmpty (CatSegmentReplicationParams_Bytes q)); ("completed_only", boolPtr (CatSegmentReplicationParams_CompletedOnly q));
  ("detailed", boolPtr (CatSegmentReplicationParams_Detailed q)); ("expand_wildcards", joined (CatSegmentReplicationParams_ExpandWildcards q));
  ("ignore_throttled", boolPtr (CatSegmentReplicationParams_IgnoreThrottled q));
  ("ignore_unavailable", boolPtr (CatSegmentReplicationParams_IgnoreUnavailable q)); ("index", joined (CatSegmentReplicationParams_Indices q));
  ("shards", joined (CatSegmentReplicationParams_Shards q)); ("time", nonEmpty (CatSegmentReplicationParams_Time q))].
Definition CatSegmentReplicationParams_slots : list (string * (CatSegmentReplicationParams -> slot)) :=
  [("ActiveOnly", fun q => BoolPtr (CatSegmentReplicationParams_ActiveOnly q));
  ("AllowNoIndices", fun q => BoolPtr (CatSegmentReplicationParams_AllowNoIndices q)); ("Bytes", fun q => Text (CatSegmentReplicationParams_Bytes q));
  ("CompletedOnly", fun q => BoolPtr (CatSegmentReplicationParams_CompletedOnly q));
  ("Detailed", fun q => BoolPtr (CatSegmentReplicationParams_Detailed q));
  ("ExpandWildcards", fun q => TextList (CatSegmentReplicationParams_ExpandWildcards q));
  ("IgnoreThrottled", fun q => BoolPtr (CatSegmentReplicationParams_IgnoreThrottled q));
  ("IgnoreUnavailable", fun q => BoolPtr (CatSegmentReplicationParams_IgnoreUnavailable q));
  ("Indices", fun q => TextList (CatSegmentReplicationParams_Indices q)); ("Shards", fun q => TextList (CatSegmentReplicationParams_Shards q));
  ("Time", fun q => Text (CatSegmentReplicationParams_Time q))].
Definition CatSegmentReplicationParams_get (q : CatSegmentReplicationParams) : gmap string string :=
  encode_params (EncodeTimeout (CatSegmentReplicationParams_TimeoutParams q) ++ EncodeDebug (CatSegmentReplicationParams_DebugParams q) ++ defaultFormat "json" (CatSegmentReplicationParams_DebugParams q) ++ CatSegmentReplicationParams_own q).
Record CatSegmentReplicationReq := MkCatSegmentReplicationReq { CatSegmentReplicationReq_Indices : list string; CatSegmentReplicationReq_Header : headers;
  CatSegmentReplicationReq_Params : option CatSegmentReplicationParams }.
Definition CatSegmentReplicationReq_GetRequest (r : CatSegmentReplicationReq) (method : string) : request_error + httpRequest * Z :=
  send method (CatSegmentReplicationPath_Build (MkCatSegmentReplicationPath (CatSegmentReplicationReq_Indices r)))
    (match CatSegmentReplicationReq_Params r with Some q => CatSegmentReplicationParams_get q | None => CatSegmentReplicationParams_get (MkCatSegmentReplicationParams noTimeout noDebug None None "" None None [] None None [] [] "") end)
    no_body (CatSegmentReplicationReq_Header r).
Definition CatSegmentReplication_Method (r : CatSegmentReplicationReq) : string := "GET".
#[export] Instance CatSegmentReplication_operation : operation CatSegmentReplicationReq :=
  {| op_path := MkPathType "CatSegmentReplicationPath" CatSegmentReplicationPath _ _; op_P := CatSegmentReplicationParams; op_fields r := MkCatSegmentReplicationPath (CatSegmentReplicationReq_Indices r);
     op_params := CatSegmentReplicationReq_Params; op_defaults := Some (MkCatSegmentReplicationParams noTimeout noDebug None None "" None None [] None None [] [] ""); op_timeout := CatSegmentReplicationParams_TimeoutParams; op_debug := CatSegmentReplicationParams_DebugParams;
     op_format := Some "json"; op_own := CatSegmentReplicationParams_own; op_slots := CatSegmentReplicationParams_slots;
     op_body _ := no_body; op_headers r := CatSegmentReplicationReq_Header r;
     Method := CatSegmentReplication_Method; GetRequest := CatSegmentReplicationReq_GetRequest;
     op_keys := ["active_only"; "allow_no_indices"; "bytes"; "completed_only"; "detailed"; "expand_wildcards"; "ignore_throttled"; "ignore_unavailable"; "index";
        "shards"; "time"];
     op_described := [("GET", "/_cat/segment_replication"); ("GET", "/_cat/segment_replication/{index}")];
     op_query := ["active_only"; "allow_no_indices"; "bytes"; "completed_only"; "detailed"; "expand_wildcards"; "format"; "ignore_throttled"; "ignore_unavailable";
        "index"; "shards"; "time"] |}.
#[export] Instance CatSegmentReplication_operates : LawfulOp CatSegmentReplicationReq.
Proof. operate. Qed.

Record CatSegmentsParams := MkCatSegmentsParams { CatSegmentsParams_TimeoutParams : TimeoutParams; CatSegmentsParams_DebugParams : DebugParams; CatSegmentsParams_Bytes : string }.
Definition CatSegmentsParams_own (q : CatSegmentsParams) : list param :=
  [("bytes", nonEmpty (CatSegmentsParams_Bytes q))].
Definition CatSegmentsParams_slots : list (string * (CatSegmentsParams -> slot)) :=
  [("Bytes", fun q => Text (CatSegmentsParams_Bytes q))].
Definition CatSegmentsParams_get (q : CatSegmentsParams) : gmap string string :=
  encode_params (EncodeTimeout (CatSegmentsParams_TimeoutParams q) ++ EncodeDebug (CatSegmentsParams_DebugParams q) ++ defaultFormat "json" (CatSegmentsParams_DebugParams q) ++ CatSegmentsParams_own q).
Record CatSegmentsReq := MkCatSegmentsReq { CatSegmentsReq_Indices : list string; CatSegmentsReq_Header : headers; CatSegmentsReq_Params : option CatSegmentsParams }.
Definition CatSegmentsReq_GetRequest (r : CatSegmentsReq) (method : string) : request_error + httpRequest * Z :=
  send method (CatSegmentsPath_Build (MkCatSegmentsPath (CatSegmentsReq_Indices r)))
    (match CatSegmentsReq_Params r with Some q => CatSegmentsParams_get q | None => CatSegmentsParams_get (MkCatSegmentsParams noTimeout noDebug "") end)
    no_body (CatSegmentsReq_Header r).
Definition CatSegments_Method (r : CatSegmentsReq) : string := "GET".
#[export] Instance CatSegments_operation : operation CatSegmentsReq :=
  {| op_path := MkPathType "CatSegmentsPath" CatSegmentsPath _ _; op_P := CatSegmentsParams; op_fields r := MkCatSegmentsPath (CatSegmentsReq_Indices r);
     op_params := CatSegmentsReq_Params; op_defaults := Some (MkCatSegmentsParams noTimeout noDebug ""); op_timeout := CatSegmentsParams_TimeoutParams; op_debug := CatSegmentsParams_DebugParams;
     op_format := Some "json"; op_own := CatSegmentsParams_own; op_slots := CatSegmentsParams_slots;
     op_body _ := no_body; op_headers r := CatSegmentsReq_Header r;
     Method := CatSegments_Method; GetRequest := CatSegmentsReq_GetRequest;
     op_keys := ["bytes"];
     op_described := [("GET", "/_cat/segments"); ("GET", "/_cat/segments/{index}")];
     op_query := ["bytes"; "format"] |}.
#[export] Instance CatSegments_operates : LawfulOp CatSegmentsReq.
Proof. operate. Qed.

Record CatShardsParams := MkCatShardsParams { CatShardsParams_TimeoutParams : TimeoutParams; CatShardsParams_DebugParams : DebugParams; CatShardsParams_Bytes : string;
  CatShardsParams_Local : option bool; CatShardsParams_Time : string }.
Definition CatShardsParams_own (q : CatShardsParams) : list param :=
  [("bytes", nonEmpty (CatShardsParams_Bytes q)); ("local", boolPtr (CatShardsParams_Local q)); ("time", nonEmpty (CatShardsParams_Time q))].
Definition CatShardsParams_slots : list (string * (CatShardsParams -> slot)) :=
  [("Bytes", fun q => Text (CatShardsParams_Bytes q)); ("Local", fun q => BoolPtr (CatShardsParams_Local q));
  ("Time", fun q => Text (CatShardsParams_Time q))].
Definition CatShardsParams_get (q : CatShardsParams) : gmap string string :=
  encode_params (EncodeTimeout (CatShardsParams_TimeoutParams q) ++ EncodeDebug (CatShardsParams_DebugParams q) ++ defaultFormat "json" (CatShardsParams_DebugParams q) ++ CatShardsParams_own q).
Record CatShardsReq := MkCatShardsReq { CatShardsReq_Indices : list string; CatShardsReq_Header : headers; CatShardsReq_Params : option CatShardsParams }.
Definition CatShardsReq_GetRequest (r : CatShardsReq) (method : string) : request_error + httpRequest * Z :=
  send method (CatShardsPath_Build (MkCatShardsPath (CatShardsReq_Indices r)))
    (match CatShardsReq_Params r with Some q => CatShardsParams_get q | None => CatShardsParams_get (MkCatShardsParams noTimeout noDebug "" None "") end)
    no_body (CatShardsReq_Header r).
Definition CatShards_Method (r : CatShardsReq) : string := "GET".
#[export] Instance CatShards_operation : operation CatShardsReq :=
  {| op_path := MkPathType "CatShardsPath" CatShardsPath _ _; op_P := CatShardsParams; op_fields r := MkCatShardsPath (CatShardsReq_Indices r);
     op_params := CatShardsReq_Params; op_defaults := Some (MkCatShardsParams noTimeout noDebug "" None ""); op_timeout := CatShardsParams_TimeoutParams; op_debug := CatShardsParams_DebugParams;
     op_format := Some "json"; op_own := CatShardsParams_own; op_slots := CatShardsParams_slots;
     op_body _ := no_body; op_headers r := CatShardsReq_Header r;
     Method := CatShards_Method; GetRequest := CatShardsReq_GetRequest;
     op_keys := ["bytes"; "local"; "time"];
     op_described := [("GET", "/_cat/shards"); ("GET", "/_cat/shards/{index}")];
     op_query := ["bytes"; "format"; "local"; "time"] |}.
#[export] Instance CatShards_operates : LawfulOp CatShardsReq.
Proof. operate. Qed.

Record CatSnapshotsParams := MkCatSnapshotsParams { CatSnapshotsParams_TimeoutParams : TimeoutParams; CatSnapshotsParams_DebugParams : DebugParams; CatSnapshotsParams_IgnoreUnavailable : option bool;
  CatSnapshotsParams_Repository : list string; CatSnapshotsParams_Time : string }.
Definition CatSnapshotsParams_own (q : CatSnapshotsParams) : list param :=
  [("ignore_unavailable", boolPtr (CatSnapshotsParams_IgnoreUnavailable q)); ("repository", joined (CatSnapshotsParams_Repository q));
  ("time", nonEmpty (CatSnapshotsParams_Time q))].
Definition CatSnapshotsParams_slots : list (string * (CatSnapshotsParams -> slot)) :=
  [("IgnoreUnavailable", fun q => BoolPtr (CatSnapshotsParams_IgnoreUnavailable q));
  ("Repository", fun q => TextList (CatSnapshotsParams_Repository q)); ("Time", fun q => Text (CatSnapshotsParams_Time q))].
Definition CatSnapshotsParams_get (q : CatSnapshotsParams) : gmap string string :=
  encode_params (EncodeTimeout (CatSnapshotsParams_TimeoutParams q) ++ EncodeDebug (CatSnapshotsParams_DebugParams q) ++ defaultFormat "json" (CatSnapshotsParams_DebugParams q) ++ CatSnapshotsParams_own q).
Record CatSnapshotsReq := MkCatSnapshotsReq { CatSnapshotsReq_Repository : list string; CatSnapshotsReq_Header : headers; CatSnapshotsReq_Params : option CatSnapshotsParams }.
Definition CatSnapshotsReq_GetRequest (r : CatSnapshotsReq) (method : string) : request_error + httpRequest * Z :=
  send method (CatSnapshotsPath_Build (MkCatSnapshotsPath (CatSnapshotsReq_Repository r)))
    (match CatSnapshotsReq_Params r with Some q => CatSnapshotsParams_get q | None => CatSnapshotsParams_get (MkCatSnapshotsParams noTimeout noDebug None [] "") end)
    no_body (CatSnapshotsReq_Header r).
Definition CatSnapshots_Method (r : CatSnapshotsReq) : string := "GET".
#[export] Instance CatSnapshots_operation : operation CatSnapshotsReq :=
  {| op_path := MkPathType "CatSnapshotsPath" CatSnapshotsPath _ _; op_P := CatSnapshotsParams; op_fields r := MkCatSnapshotsPath (CatSnapshotsReq_Repository r);
     op_params := CatSnapshotsReq_Params; op_defaults := Some (MkCatSnapshotsParams noTimeout noDebug None [] ""); op_timeout := CatSnapshotsParams_TimeoutParams; op_debug := CatSnapshotsParams_DebugParams;
     op_format := Some "json"; op_own := CatSnapshotsParams_own; op_slots := CatSnapshotsParams_slots;
     op_body _ := no_body; op_headers r := CatSnapshotsReq_Header r;
     Method := CatSnapshots_Method; GetRequest := CatSnapshotsReq_GetRequest;
     op_keys := ["ignore_unavailable"; "repository"; "time"];
     op_described := [("GET", "/_cat/snapshots"); ("GET", "/_cat/snapshots/{repository}")];
     op_query := ["format"; "ignore_unavailable"; "repository"; "time"] |}.
#[export] Instance CatSnapshots_operates : LawfulOp CatSnapshotsReq.
Proof. operate. Qed.

Record CatTasksParams := MkCatTasksParams { CatTasksParams_TimeoutParams : TimeoutParams; CatTasksParams_DebugParams : DebugParams; CatTasksParams_Actions : list string;
  CatTasksParams_Detailed : option bool; CatTasksParams_Nodes : list string; CatTasksParams_ParentTaskID : string; CatTasksParams_Time : string }.
Definition CatTasksParams_own (q : CatTasksParams) : list param :=
  [("actions", joined (CatTasksParams_Actions q)); ("detailed", boolPtr (CatTasksParams_Detailed q)); ("nodes", joined (CatTasksParams_Nodes q));
  ("parent_task_id", nonEmpty (CatTasksParams_ParentTaskID q)); ("time", nonEmpty (CatTasksParams_Time q))].
Definition CatTasksParams_slots : list (string * (CatTasksParams -> slot)) :=
  [("Actions", fun q => TextList (CatTasksParams_Actions q)); ("Detailed", fun q => BoolPtr (CatTasksParams_Detailed q));
  ("Nodes", fun q => TextList (CatTasksParams_Nodes q)); ("ParentTaskID", fun q => Text (CatTasksParams_ParentTaskID q));
  ("Time", fun q => Text (CatTasksParams_Time q))].
Definition CatTasksParams_get (q : CatTasksParams) : gmap string string :=
  encode_params (EncodeTimeout (CatTasksParams_TimeoutParams q) ++ EncodeDebug (CatTasksParams_DebugParams q) ++ defaultFormat "json" (CatTasksParams_DebugParams q) ++ CatTasksParams_own q).
Record CatTasksReq := MkCatTasksReq { CatTasksReq_Header : headers; CatTasksReq_Params : option CatTasksParams }.
Definition CatTasksReq_GetRequest (r : CatTasksReq) (method : string) : request_error + httpRequest * Z :=
  send method (CatTasksPath_Build (MkCatTasksPath))
    (match CatTasksReq_Params r with Some q => CatTasksParams_get q | None => CatTasksParams_get (MkCatTasksParams noTimeout noDebug [] None [] "" "") end)
    no_body (CatTasksReq_Header r).
Definition CatTasks_Method (r : CatTasksReq) : string := "GET".
#[export] Instance CatTasks_operation : operation CatTasksReq :=
  {| op_path := MkPathType "CatTasksPath" CatTasksPath _ _; op_P := CatTasksParams; op_fields r := MkCatTasksPath;
     op_params := CatTasksReq_Params; op_defaults := Some (MkCatTasksParams noTimeout noDebug [] None [] "" ""); op_timeout := CatTasksParams_TimeoutParams; op_debug := CatTasksParams_DebugParams;
     op_format := Some "json"; op_own := CatTasksParams_own; op_slots := CatTasksParams_slots;
     op_body _ := no_body; op_headers r := CatTasksReq_Header r;
     Method := CatTasks_Method; GetRequest := CatTasksReq_GetRequest;
     op_keys := ["actions"; "detailed"; "nodes"; "parent_task_id"; "time"];
     op_described := [("GET", "/_cat/tasks")];
     op_query := ["actions"; "detailed"; "format"; "nodes"; "parent_task_id"; "time"] |}.
#[export] Instance CatTasks_operates : LawfulOp CatTasksReq.
Proof. operate. Qed.

Record CatTemplatesParams := MkCatTemplatesParams { CatTemplatesParams_TimeoutParams : TimeoutParams; CatTemplatesParams_DebugParams : DebugParams; CatTemplatesParams_Local : option bool }.
Definition CatTemplatesParams_own (q : CatTemplatesParams) : list param :=
  [("local", boolPtr (CatTemplatesParams_Local q))].
Definition CatTemplatesParams_slots : list (string * (CatTemplatesParams -> slot)) :=
  [("Local", fun q => BoolPtr (CatTemplatesParams_Local q))].
Definition CatTemplatesParams_get (q : CatTemplatesParams) : gmap string string :=
  encode_params (EncodeTimeout (CatTemplatesParams_TimeoutParams q) ++ EncodeDebug (CatTemplatesParams_DebugParams q) ++ defaultFormat "json" (CatTemplatesParams_DebugParams q) ++ CatTemplatesParams_own q).
Record CatTemplatesReq := MkCatTemplatesReq { CatTemplatesReq_Name : string; CatTemplatesReq_Header : headers; CatTemplatesReq_Params : option CatTemplatesParams }.
Definition CatTemplatesReq_GetRequest (r : CatTemplatesReq) (method : string) : request_error + httpRequest * Z :=
  send method (CatTemplatesPath_Build (MkCatTemplatesPath (CatTemplatesReq_Name r)))
    (match CatTemplatesReq_Params r with Some q => CatTemplatesParams_get q | None => CatTemplatesParams_get (MkCatTemplatesParams noTimeout noDebug None) end)
    no_body (CatTemplatesReq_Header r).
Definition CatTemplates_Method (r : CatTemplatesReq) : string := "GET".
#[export] Instance CatTemplates_operation : operation CatTemplatesReq :=
  {| op_path := MkPathType "CatTemplatesPath" CatTemplatesPath _ _; op_P := CatTemplatesParams; op_fields r := MkCatTemplatesPath (CatTemplatesReq_Name r);
     op_params := CatTemplatesReq_Params; op_defaults := Some (MkCatTemplatesParams noTimeout noDebug None); op_timeout := CatTemplatesParams_TimeoutParams; op_debug := CatTemplatesParams_DebugParams;
     op_format := Some "json"; op_own := CatTemplatesParams_own; op_slots := CatTemplatesParams_slots;
     op_body _ := no_body; op_headers r := CatTemplatesReq_Header r;
     Method := CatTemplates_Method; GetRequest := CatTemplatesReq_GetRequest;
     op_keys := ["local"];
     op_described := [("GET", "/_cat/templates"); ("GET", "/_cat/templates/{name}")];
     op_query := ["format"; "local"] |}.
#[export] Instance CatTemplates_operates : LawfulOp CatTemplatesReq.
Proof. operate. Qed.

Record CatThreadPoolParams := MkCatThreadPoolParams { CatThreadPoolParams_TimeoutParams : TimeoutParams; CatThreadPoolParams_DebugParams : DebugParams; CatThreadPoolParams_Local : option bool;
  CatThreadPoolParams_Size : Z }.
Definition CatThreadPoolParams_own (q : CatThreadPoolParams) : list param :=
  [("local", boolPtr (CatThreadPoolParams_Local q)); ("size", nonZero (CatThreadPoolParams_Size q))].
Definition CatThreadPoolParams_slots : list (string * (CatThreadPoolParams -> slot)) :=
  [("Local", fun q => BoolPtr (CatThreadPoolParams_Local q)); ("Size", fun q => Int (CatThreadPoolParams_Size q))].
Definition CatThreadPoolParams_get (q : CatThreadPoolParams) : gmap string string :=
  encode_params (EncodeTimeout (CatThreadPoolParams_TimeoutParams q) ++ EncodeDebug (CatThreadPoolParams_DebugParams q) ++ defaultFormat "json" (CatThreadPoolParams_DebugParams q) ++ CatThreadPoolParams_own q).
Record CatThreadPoolReq := MkCatThreadPoolReq { CatThreadPoolReq_ThreadPoolPatterns : list string; CatThreadPoolReq_Header : headers; CatThreadPoolReq_Params : option CatThreadPoolParams }.
Definition CatThreadPoolReq_GetRequest (r : CatThreadPoolReq) (method : string) : request_error + httpRequest * Z :=
  send method (CatThreadPoolPath_Build (MkCatThreadPoolPath (CatThreadPoolReq_ThreadPoolPatterns r)))
    (match CatThreadPoolReq_Params r with Some q => CatThreadPoolParams_get q | None => CatThreadPoolParams_get (MkCatThreadPoolParams noTimeout noDebug None 0) end)
    no_body (CatThreadPoolReq_Header r).
Definition CatThreadPool_Method (r : CatThreadPoolReq) : string := "GET".
#[export] Instance CatThreadPool_operation : operation CatThreadPoolReq :=
  {| op_path := MkPathType "CatThreadPoolPath" CatThreadPoolPath _ _; op_P := CatThreadPoolParams; op_fields r := MkCatThreadPoolPath (CatThreadPoolReq_ThreadPoolPatterns r);
     op_params := CatThreadPoolReq_Params; op_defaults := Some (MkCatThreadPoolParams noTimeout noDebug None 0); op_timeout := CatThreadPoolParams_TimeoutParams; op_debug := CatThreadPoolParams_DebugParams;
     op_format := Some "json"; op_own := CatThreadPoolParams_own; op_slots := CatThreadPoolParams_slots;
     op_body _ := no_body; op_headers r := CatThreadPoolReq_Header r;
     Method := CatThreadPool_Method; GetRequest := CatThreadPoolReq_GetRequest;
     op_keys := ["local"; "size"];
     op_described := [("GET", "/_cat/thread_pool"); ("GET", "/_cat/thread_pool/{thread_pool_patterns}")];
     op_query := ["format"; "local"; "size"] |}.
#[export] Instance CatThreadPool_operates : LawfulOp CatThreadPoolReq.
Proof. operate. Qed.

Record ClusterAllocationExplainParams := MkClusterAllocationExplainParams { ClusterAllocationExplainParams_TimeoutParams : TimeoutParams; ClusterAllocationExplainParams_DebugParams : DebugParams;
  ClusterAllocationExplainParams_IncludeDiskInfo : option bool; ClusterAllocationExplainParams_IncludeYesDecisions : option bool }.
Definition ClusterAllocationExplainParams_own (q : ClusterAllocationExplainParams) : list param :=
  [("include_disk_info", boolPtr (ClusterAllocationExplainParams_IncludeDiskInfo q));
  ("include_yes_decisions", boolPtr (ClusterAllocationExplainParams_IncludeYesDecisions q))].
Definition ClusterAllocationExplainParams_slots : list (string * (ClusterAllocationExplainParams -> slot)) :=
  [("IncludeDiskInfo", fun q => BoolPtr (ClusterAllocationExplainParams_IncludeDiskInfo q));
  ("IncludeYesDecisions", fun q => BoolPtr (ClusterAllocationExplainParams_IncludeYesDecisions q))].
Definition ClusterAllocationExplainParams_get (q : ClusterAllocationExplainParams) : gmap string string :=
  encode_params (EncodeTimeout (ClusterAllocationExplainParams_TimeoutParams q) ++ EncodeDebug (ClusterAllocationExplainParams_DebugParams q) ++ ClusterAllocationExplainParams_own q).
Record ClusterAllocationExplainReq := MkClusterAllocationExplainReq { ClusterAllocationExplainReq_Body : option (option string); ClusterAllocationExplainReq_BodyReader : reader;
  ClusterAllocationExplainReq_Header : headers; ClusterAllocationExplainReq_Params : option ClusterAllocationExplainParams }.
Definition ClusterAllocationExplainReq_GetRequest (r : ClusterAllocationExplainReq) (method : string) : request_error + httpRequest * Z :=
  send method (ClusterAllocationExplainPath_Build (MkClusterAllocationExplainPath))
    (match ClusterAllocationExplainReq_Params r with Some q => ClusterAllocationExplainParams_get q | None => ∅ end)
    (json_body (ClusterAllocationExplainReq_Body r) (ClusterAllocationExplainReq_BodyReader r)) (ClusterAllocationExplainReq_Header r).
Definition ClusterAllocationExplain_Method (r : ClusterAllocationExplainReq) : string := method_by_body (ClusterAllocationExplainReq_Body r) (ClusterAllocationExplainReq_BodyReader r).
#[export] Instance ClusterAllocationExplain_operation : operation ClusterAllocationExplainReq :=
  {| op_path := MkPathType "ClusterAllocationExplainPath" ClusterAllocationExplainPath _ _; op_P := ClusterAllocationExplainParams; op_fields r := MkClusterAllocationExplainPath;
     op_params := ClusterAllocationExplainReq_Params; op_defaults := None; op_timeout := ClusterAllocationExplainParams_TimeoutParams; op_debug := ClusterAllocationExplainParams_DebugParams;
     op_format := None; op_own := ClusterAllocationExplainParams_own; op_slots := ClusterAllocationExplainParams_slots;
     op_body r := json_body (ClusterAllocationExplainReq_Body r) (ClusterAllocationExplainReq_BodyReader r); op_headers r := ClusterAllocationExplainReq_Header r;
     Method := ClusterAllocationExplain_Method; GetRequest := ClusterAllocationExplainReq_GetRequest;
     op_keys := ["include_disk_info"; "include_yes_decisions"];
     op_described := [("GET", "/_cluster/allocation/explain"); ("POST", "/_cluster/allocation/explain")];
     op_query := ["include_disk_info"; "include_yes_decisions"] |}.
#[export] Instance ClusterAllocationExplain_operates : LawfulOp ClusterAllocationExplainReq.
Proof. operate. Qed.

Record ClusterDeleteComponentTemplateParams := MkClusterDeleteComponentTemplateParams { ClusterDeleteComponentTemplateParams_TimeoutParams : TimeoutParams; ClusterDeleteComponentTemplateParams_DebugParams : DebugParams }.
Definition ClusterDeleteComponentTemplateParams_own (q : ClusterDeleteComponentTemplateParams) : list param :=
  [].
Definition ClusterDeleteComponentTemplateParams_slots : list (string * (ClusterDeleteComponentTemplateParams -> slot)) :=
  [].
Definition ClusterDeleteComponentTemplateParams_get (q : ClusterDeleteComponentTemplateParams) : gmap string string :=
  encode_params (EncodeTimeout (ClusterDeleteComponentTemplateParams_TimeoutParams q) ++ EncodeDebug (ClusterDeleteComponentTemplateParams_DebugParams q) ++ ClusterDeleteComponentTemplateParams_own q).
Record ClusterDeleteComponentTemplateReq := MkClusterDeleteComponentTemplateReq { ClusterDeleteComponentTemplateReq_Name : string; ClusterDeleteComponentTemplateReq_Header : headers;
  ClusterDeleteComponentTemplateReq_Params : option ClusterDeleteComponentTemplateParams }.
Definition ClusterDeleteComponentTemplateReq_GetRequest (r : ClusterDeleteComponentTemplateReq) (method : string) : request_error + httpRequest * Z :=
  send method (ClusterDeleteComponentTemplatePath_Build (MkClusterDeleteComponentTemplatePath (ClusterDeleteComponentTemplateReq_Name r)))
    (match ClusterDeleteComponentTemplateReq_Params r with Some q => ClusterDeleteComponentTemplateParams_get q | None => ∅ end)
    no_body (ClusterDeleteComponentTemplateReq_Header r).
Definition ClusterDeleteComponentTemplate_Method (r : ClusterDeleteComponentTemplateReq) : string := "DELETE".
#[export] Instance ClusterDeleteComponentTemplate_operation : operation ClusterDeleteComponentTemplateReq :=
  {| op_path := MkPathType "ClusterDeleteComponentTemplatePath" ClusterDeleteComponentTemplatePath _ _; op_P := ClusterDeleteComponentTemplateParams; op_fields r := MkClusterDeleteComponentTemplatePath (ClusterDeleteComponentTemplateReq_Name r);
     op_params := ClusterDeleteComponentTemplateReq_Params; op_defaults := None; op_timeout := ClusterDeleteComponentTemplateParams_TimeoutParams; op_debug := ClusterDeleteComponentTemplateParams_DebugParams;
     op_format := None; op_own := ClusterDeleteComponentTemplateParams_own; op_slots := ClusterDeleteComponentTemplateParams_slots;
     op_body _ := no_body; op_headers r := ClusterDeleteComponentTemplateReq_Header r;
     Method := ClusterDeleteComponentTemplate_Method; GetRequest := ClusterDeleteComponentTemplateReq_GetRequest;
     op_keys := [];
     op_described := [("DELETE", "/_component_template/{name}")];
     op_query := [] |}.
#[export] Instance ClusterDeleteComponentTemplate_operates : LawfulOp ClusterDeleteComponentTemplateReq.
Proof. operate. Qed.

Record ClusterDeleteDecommissionAwarenessParams := MkClusterDeleteDecommissionAwarenessParams { ClusterDeleteDecommissionAwarenessParams_TimeoutParams : TimeoutParams; ClusterDeleteDecommissionAwarenessParams_DebugParams : DebugParams }.
Definition ClusterDeleteDecommissionAwarenessParams_own (q : ClusterDeleteDecommissionAwarenessParams) : list param :=
  [].
Definition ClusterDeleteDecommissionAwarenessParams_slots : list (string * (ClusterDeleteDecommissionAwarenessParams -> slot)) :=
  [].
Definition ClusterDeleteDecommissionAwarenessParams_get (q : ClusterDeleteDecommissionAwarenessParams) : gmap string string :=
  encode_params (EncodeTimeout (ClusterDeleteDecommissionAwarenessParams_TimeoutParams q) ++ EncodeDebug (ClusterDeleteDecommissionAwarenessParams_DebugParams q) ++ ClusterDeleteDecommissionAwarenessParams_own q).
Record ClusterDeleteDecommissionAwarenessReq := MkClusterDeleteDecommissionAwarenessReq { ClusterDeleteDecommissionAwarenessReq_Header : headers; ClusterDeleteDecommissionAwarenessReq_Params : option ClusterDeleteDecommissionAwarenessParams }.
Definition ClusterDeleteDecommissionAwarenessReq_GetRequest (r : ClusterDeleteDecommissionAwarenessReq) (method : string) : request_error + httpRequest * Z :=
  send method (ClusterDeleteDecommissionAwarenessPath_Build (MkClusterDeleteDecommissionAwarenessPath))
    (match ClusterDeleteDecommissionAwarenessReq_Params r with Some q => ClusterDeleteDecommissionAwarenessParams_get q | None => ∅ end)
    no_body (ClusterDeleteDecommissionAwarenessReq_Header r).
Definition ClusterDeleteDecommissionAwareness_Method (r : ClusterDeleteDecommissionAwarenessReq) : string := "DELETE".
#[export] Instance ClusterDeleteDecommissionAwareness_operation : operation ClusterDeleteDecommissionAwarenessReq :=
  {| op_path := MkPathType "ClusterDeleteDecommissionAwarenessPath" ClusterDeleteDecommissionAwarenessPath _ _; op_P := ClusterDeleteDecommissionAwarenessParams; op_fields r := MkClusterDeleteDecommissionAwarenessPath;
     op_params := ClusterDeleteDecommissionAwarenessReq_Params; op_defaults := None; op_timeout := ClusterDeleteDecommissionAwarenessParams_TimeoutParams; op_debug := ClusterDeleteDecommissionAwarenessParams_DebugParams;
     op_format := None; op_own := ClusterDeleteDecommissionAwarenessParams_own; op_slots := ClusterDeleteDecommissionAwarenessParams_slots;
     op_body _ := no_body; op_headers r := ClusterDeleteDecommissionAwarenessReq_Header r;
     Method := ClusterDeleteDecommissionAwareness_Method; GetRequest := ClusterDeleteDecommissionAwarenessReq_GetRequest;
     op_keys := [];
     op_described := [("DELETE", "/_cluster/decommission/awareness")];
     op_query := [] |}.
#[export] Instance ClusterDeleteDecommissionAwareness_operates : LawfulOp ClusterDeleteDecommissionAwarenessReq.
Proof. operate. Qed.

Record ClusterDeleteVotingConfigExclusionsParams := MkClusterDeleteVotingConfigExclusionsParams { ClusterDeleteVotingConfigExclusionsParams_TimeoutParams : TimeoutParams; ClusterDeleteVotingConfigExclusionsParams_DebugParams : DebugParams;
  ClusterDeleteVotingConfigExclusionsParams_WaitForRemoval : option bool }.
Definition ClusterDeleteVotingConfigExclusionsParams_own (q : ClusterDeleteVotingConfigExclusionsParams) : list param :=
  [("wait_for_removal", boolPtr (ClusterDeleteVotingConfigExclusionsParams_WaitForRemoval q))].
Definition ClusterDeleteVotingConfigExclusionsParams_slots : list (string * (ClusterDeleteVotingConfigExclusionsParams -> slot)) :=
  [("WaitForRemoval", fun q => BoolPtr (ClusterDeleteVotingConfigExclusionsParams_WaitForRemoval q))].
Definition ClusterDeleteVotingConfigExclusionsParams_get (q : ClusterDeleteVotingConfigExclusionsParams) : gmap string string :=
  encode_params (EncodeTimeout (ClusterDeleteVotingConfigExclusionsParams_TimeoutParams q) ++ EncodeDebug (ClusterDeleteVotingConfigExclusionsParams_DebugParams q) ++ ClusterDeleteVotingConfigExclusionsParams_own q).
Record ClusterDeleteVotingConfigExclusionsReq := MkClusterDeleteVotingConfigExclusionsReq { ClusterDeleteVotingConfigExclusionsReq_Header : headers;
  ClusterDeleteVotingConfigExclusionsReq_Params : option ClusterDeleteVotingConfigExclusionsParams }.
Definition ClusterDeleteVotingConfigExclusionsReq_GetRequest (r : ClusterDeleteVotingConfigExclusionsReq) (method : string) : request_error + httpRequest * Z :=
  send method (ClusterDeleteVotingConfigExclusionsPath_Build (MkClusterDeleteVotingConfigExclusionsPath))
    (match ClusterDeleteVotingConfigExclusionsReq_Params r with Some q => ClusterDeleteVotingConfigExclusionsParams_get q | None => ∅ end)
    no_body (ClusterDeleteVotingConfigExclusionsReq_Header r).
Definition ClusterDeleteVotingConfigExclusions_Method (r : ClusterDeleteVotingConfigExclusionsReq) : string := "DELETE".
#[export] Instance ClusterDeleteVotingConfigExclusions_operation : operation ClusterDeleteVotingConfigExclusionsReq :=
  {| op_path := MkPathType "ClusterDeleteVotingConfigExclusionsPath" ClusterDeleteVotingConfigExclusionsPath _ _; op_P := ClusterDeleteVotingConfigExclusionsParams; op_fields r := MkClusterDeleteVotingConfigExclusionsPath;
     op_params := ClusterDeleteVotingConfigExclusionsReq_Params; op_defaults := None; op_timeout := ClusterDeleteVotingConfigExclusionsParams_TimeoutParams; op_debug := ClusterDeleteVotingConfigExclusionsParams_DebugParams;
     op_format := None; op_own := ClusterDeleteVotingConfigExclusionsParams_own; op_slots := ClusterDeleteVotingConfigExclusionsParams_slots;
     op_body _ := no_body; op_headers r := ClusterDeleteVotingConfigExclusionsReq_Header r;
     Method := ClusterDeleteVotingConfigExclusions_Method; GetRequest := ClusterDeleteVotingConfigExclusionsReq_GetRequest;
     op_keys := ["wait_for_removal"];
     op_described := [("DELETE", "/_cluster/voting_config_exclusions")];
     op_query := ["wait_for_removal"] |}.
#[export] Instance ClusterDeleteVotingConfigExclusions_operates : LawfulOp ClusterDeleteVotingConfigExclusionsReq.
Proof. operate. Qed.

Record ClusterDeleteWeightedRoutingParams := MkClusterDeleteWeightedRoutingParams { ClusterDeleteWeightedRoutingParams_TimeoutParams : TimeoutParams; ClusterDeleteWeightedRoutingParams_DebugParams : DebugParams }.
Definition ClusterDeleteWeightedRoutingParams_own (q : ClusterDeleteWeightedRoutingParams) : list param :=
  [].
Definition ClusterDeleteWeightedRoutingParams_slots : list (string * (ClusterDeleteWeightedRoutingParams -> slot)) :=
  [].
Definition ClusterDeleteWeightedRoutingParams_get (q : ClusterDeleteWeightedRoutingParams) : gmap string string :=
  encode_params (EncodeTimeout (ClusterDeleteWeightedRoutingParams_TimeoutParams q) ++ EncodeDebug (ClusterDeleteWeightedRoutingParams_DebugParams q) ++ ClusterDeleteWeightedRoutingParams_own q).
Record ClusterDeleteWeightedRoutingReq := MkClusterDeleteWeightedRoutingReq { ClusterDeleteWeightedRoutingReq_Body : option (option string); ClusterDeleteWeightedRoutingReq_BodyReader : reader;
  ClusterDeleteWeightedRoutingReq_Header : headers; ClusterDeleteWeightedRoutingReq_Params : option ClusterDeleteWeightedRoutingParams }.
Definition ClusterDeleteWeightedRoutingReq_GetRequest (r : ClusterDeleteWeightedRoutingReq) (method : string) : request_error + httpRequest * Z :=
  send method (ClusterDeleteWeightedRoutingPath_Build (MkClusterDeleteWeightedRoutingPath))
    (match ClusterDeleteWeightedRoutingReq_Params r with Some q => ClusterDeleteWeightedRoutingParams_get q | None => ∅ end)
    (json_body (ClusterDeleteWeightedRoutingReq_Body r) (ClusterDeleteWeightedRoutingReq_BodyReader r)) (ClusterDeleteWeightedRoutingReq_Header r).
Definition ClusterDeleteWeightedRouting_Method (r : ClusterDeleteWeightedRoutingReq) : string := "DELETE".
#[export] Instance ClusterDeleteWeightedRouting_operation : operation ClusterDeleteWeightedRoutingReq :=
  {| op_path := MkPathType "ClusterDeleteWeightedRoutingPath" ClusterDeleteWeightedRoutingPath _ _; op_P := ClusterDeleteWeightedRoutingParams; op_fields r := MkClusterDeleteWeightedRoutingPath;
     op_params := ClusterDeleteWeightedRoutingReq_Params; op_defaults := None; op_timeout := ClusterDeleteWeightedRoutingParams_TimeoutParams; op_debug := ClusterDeleteWeightedRoutingParams_DebugParams;
     op_format := None; op_own := ClusterDeleteWeightedRoutingParams_own; op_slots := ClusterDeleteWeightedRoutingParams_slots;
     op_body r := json_body (ClusterDeleteWeightedRoutingReq_Body r) (ClusterDeleteWeightedRoutingReq_BodyReader r); op_headers r := ClusterDeleteWeightedRoutingReq_Header r;
     Method := ClusterDeleteWeightedRouting_Method; GetRequest := ClusterDeleteWeightedRoutingReq_GetRequest;
     op_keys := [];
     op_described := [("DELETE", "/_cluster/routing/awareness/weights")];
     op_query := [] |}.
#[export] Instance ClusterDeleteWeightedRouting_operates : LawfulOp ClusterDeleteWeightedRoutingReq.
Proof. operate. Qed.

Record ClusterExistsComponentTemplateParams := MkClusterExistsComponentTemplateParams { ClusterExistsComponentTemplateParams_TimeoutParams : TimeoutParams; ClusterExistsComponentTemplateParams_DebugParams : DebugParams;
  ClusterExistsComponentTemplateParams_Local : option bool }.
Definition ClusterExistsComponentTemplateParams_own (q : ClusterExistsComponentTemplateParams) : list param :=
  [("local", boolPtr (ClusterExistsComponentTemplateParams_Local q))].
Definition ClusterExistsComponentTemplateParams_slots : list (string * (ClusterExistsComponentTemplateParams -> slot)) :=
  [("Local", fun q => BoolPtr (ClusterExistsComponentTemplateParams_Local q))].
Definition ClusterExistsComponentTemplateParams_get (q : ClusterExistsComponentTemplateParams) : gmap string string :=
  encode_params (EncodeTimeout (ClusterExistsComponentTemplateParams_TimeoutParams q) ++ EncodeDebug (ClusterExistsComponentTemplateParams_DebugParams q) ++ ClusterExistsComponentTemplateParams_own q).
Record ClusterExistsComponentTemplateReq := MkClusterExistsComponentTemplateReq { ClusterExistsComponentTemplateReq_Name : string; ClusterExistsComponentTemplateReq_Header : headers;
  ClusterExistsComponentTemplateReq_Params : option ClusterExistsComponentTemplateParams }.
Definition ClusterExistsComponentTemplateReq_GetRequest (r : ClusterExistsComponentTemplateReq) (method : string) : request_error + httpRequest * Z :=
  send method (ClusterExistsComponentTemplatePath_Build (MkClusterExistsComponentTemplatePath (ClusterExistsComponentTemplateReq_Name r)))
    (match ClusterExistsComponentTemplateReq_Params r with Some q => ClusterExistsComponentTemplateParams_get q | None => ∅ end)
    no_body (ClusterExistsComponentTemplateReq_Header r).
Definition ClusterExistsComponentTemplate_Method (r : ClusterExistsComponentTemplateReq) : string := "HEAD".
#[export] Instance ClusterExistsComponentTemplate_operation : operation ClusterExistsComponentTemplateReq :=
  {| op_path := MkPathType "ClusterExistsComponentTemplatePath" ClusterExistsComponentTemplatePath _ _; op_P := ClusterExistsComponentTemplateParams; op_fields r := MkClusterExistsComponentTemplatePath (ClusterExistsComponentTemplateReq_Name r);
     op_params := ClusterExistsComponentTemplateReq_Params; op_defaults := None; op_timeout := ClusterExistsComponentTemplateParams_TimeoutParams; op_debug := ClusterExistsComponentTemplateParams_DebugParams;
     op_format := None; op_own := ClusterExistsComponentTemplateParams_own; op_slots := ClusterExistsComponentTemplateParams_slots;
     op_body _ := no_body; op_headers r := ClusterExistsComponentTemplateReq_Header r;
     Method := ClusterExistsComponentTemplate_Method; GetRequest := ClusterExistsComponentTemplateReq_GetRequest;
     op_keys := ["local"];
     op_described := [("HEAD", "/_component_template/{name}")];
     op_query := ["local"] |}.
#[export] Instance ClusterExistsComponentTemplate_operates : LawfulOp ClusterExistsComponentTemplateReq.
Proof. operate. Qed.

Record ClusterGetComponentTemplateParams := MkClusterGetComponentTemplateParams { ClusterGetComponentTemplateParams_TimeoutParams : TimeoutParams; ClusterGetComponentTemplateParams_DebugParams : DebugParams;
  ClusterGetComponentTemplateParams_FlatSettings : option bool; ClusterGetComponentTemplateParams_Local : option bool }.
Definition ClusterGetComponentTemplateParams_own (q : ClusterGetComponentTemplateParams) : list param :=
  [("flat_settings", boolPtr (ClusterGetComponentTemplateParams_FlatSettings q)); ("local", boolPtr (ClusterGetComponentTemplateParams_Local q))].
Definition ClusterGetComponentTemplateParams_slots : list (string * (ClusterGetComponentTemplateParams -> slot)) :=
  [("FlatSettings", fun q => BoolPtr (ClusterGetComponentTemplateParams_FlatSettings q));
  ("Local", fun q => BoolPtr (ClusterGetComponentTemplateParams_Local q))].
Definition ClusterGetComponentTemplateParams_get (q : ClusterGetComponentTemplateParams) : gmap string string :=
  encode_params (EncodeTimeout (ClusterGetComponentTemplateParams_TimeoutParams q) ++ EncodeDebug (ClusterGetComponentTemplateParams_DebugParams q) ++ ClusterGetComponentTemplateParams_own q).
Record ClusterGetComponentTemplateReq := MkClusterGetComponentTemplateReq { ClusterGetComponentTemplateReq_Name : string; ClusterGetComponentTemplateReq_Header : headers;
  ClusterGetComponentTemplateReq_Params : option ClusterGetComponentTemplateParams }.
Definition ClusterGetComponentTemplateReq_GetRequest (r : ClusterGetComponentTemplateReq) (method : string) : request_error + httpRequest * Z :=
  send method (ClusterGetComponentTemplatePath_Build (MkClusterGetComponentTemplatePath (ClusterGetComponentTemplateReq_Name r)))
    (match ClusterGetComponentTemplateReq_Params r with Some q => ClusterGetComponentTemplateParams_get q | None => ∅ end)
    no_body (ClusterGetComponentTemplateReq_Header r).
Definition ClusterGetComponentTemplate_Method (r : ClusterGetComponentTemplateReq) : string := "GET".
#[export] Instance ClusterGetComponentTemplate_operation : operation ClusterGetComponentTemplateReq :=
  {| op_path := MkPathType "ClusterGetComponentTemplatePath" ClusterGetComponentTemplatePath _ _; op_P := ClusterGetComponentTemplateParams; op_fields r := MkClusterGetComponentTemplatePath (ClusterGetComponentTemplateReq_Name r);
     op_params := ClusterGetComponentTemplateReq_Params; op_defaults := None; op_timeout := ClusterGetComponentTemplateParams_TimeoutParams; op_debug := ClusterGetComponentTemplateParams_DebugParams;
     op_format := None; op_own := ClusterGetComponentTemplateParams_own; op_slots := ClusterGetComponentTemplateParams_slots;
     op_body _ := no_body; op_headers r := ClusterGetComponentTemplateReq_Header r;
     Method := ClusterGetComponentTemplate_Method; GetRequest := ClusterGetComponentTemplateReq_GetRequest;
     op_keys := ["flat_settings"; "local"];
     op_described := [("GET", "/_component_template"); ("GET", "/_component_template/{name}")];
     op_query := ["flat_settings"; "local"] |}.
#[export] Instance ClusterGetComponentTemplate_operates : LawfulOp ClusterGetComponentTemplateReq.
Proof. operate. Qed.

Record ClusterGetDecommissionAwarenessParams := MkClusterGetDecommissionAwarenessParams { ClusterGetDecommissionAwarenessParams_TimeoutParams : TimeoutParams; ClusterGetDecommissionAwarenessParams_DebugParams : DebugParams }.
Definition ClusterGetDecommissionAwarenessParams_own (q : ClusterGetDecommissionAwarenessParams) : list param :=
  [].
Definition ClusterGetDecommissionAwarenessParams_slots : list (string * (ClusterGetDecommissionAwarenessParams -> slot)) :=
  [].
Definition ClusterGetDecommissionAwarenessParams_get (q : ClusterGetDecommissionAwarenessParams) : gmap string string :=
  encode_params (EncodeTimeout (ClusterGetDecommissionAwarenessParams_TimeoutParams q) ++ EncodeDebug (ClusterGetDecommissionAwarenessParams_DebugParams q) ++ ClusterGetDecommissionAwarenessParams_own q).
Record ClusterGetDecommissionAwarenessReq := MkClusterGetDecommissionAwarenessReq { ClusterGetDecommissionAwarenessReq_AwarenessAttributeName : string; ClusterGetDecommissionAwarenessReq_Header : headers;
  ClusterGetDecommissionAwarenessReq_Params : option ClusterGetDecommissionAwarenessParams }.
Definition ClusterGetDecommissionAwarenessReq_GetRequest (r : ClusterGetDecommissionAwarenessReq) (method : string) : request_error + httpRequest * Z :=
  send method (ClusterGetDecommissionAwarenessPath_Build (MkClusterGetDecommissionAwarenessPath (ClusterGetDecommissionAwarenessReq_AwarenessAttributeName r)))
    (match ClusterGetDecommissionAwarenessReq_Params r with Some q => ClusterGetDecommissionAwarenessParams_get q | None => ∅ end)
    no_body (ClusterGetDecommissionAwarenessReq_Header r).
Definition ClusterGetDecommissionAwareness_Method (r : ClusterGetDecommissionAwarenessReq) : string := "GET".
#[export] Instance ClusterGetDecommissionAwareness_operation : operation ClusterGetDecommissionAwarenessReq :=
  {| op_path := MkPathType "ClusterGetDecommissionAwarenessPath" ClusterGetDecommissionAwarenessPath _ _; op_P := ClusterGetDecommissionAwarenessParams; op_fields r := MkClusterGetDecommissionAwarenessPath (ClusterGetDecommissionAwarenessReq_AwarenessAttributeName r);
     op_params := ClusterGetDecommissionAwarenessReq_Params; op_defaults := None; op_timeout := ClusterGetDecommissionAwarenessParams_TimeoutParams; op_debug := ClusterGetDecommissionAwarenessParams_DebugParams;
     op_format := None; op_own := ClusterGetDecommissionAwarenessParams_own; op_slots := ClusterGetDecommissionAwarenessParams_slots;
     op_body _ := no_body; op_headers r := ClusterGetDecommissionAwarenessReq_Header r;
     Method := ClusterGetDecommissionAwareness_Method; GetRequest := ClusterGetDecommissionAwarenessReq_GetRequest;
     op_keys := [];
     op_described := [("GET", "/_cluster/decommission/awareness/{awareness_attribute_name}/_status")];
     op_query := [] |}.
#[export] Instance ClusterGetDecommissionAwareness_operates : LawfulOp ClusterGetDecommissionAwarenessReq.
Proof. operate. Qed.

Record ClusterGetSettingsParams := MkClusterGetSettingsParams { ClusterGetSettingsParams_TimeoutParams : TimeoutParams; ClusterGetSettingsParams_DebugParams : DebugParams;
  ClusterGetSettingsParams_FlatSettings : option bool; ClusterGetSettingsParams_IncludeDefaults : option bool }.
Definition ClusterGetSettingsParams_own (q : ClusterGetSettingsParams) : list param :=
  [("flat_settings", boolPtr (ClusterGetSettingsParams_FlatSettings q)); ("include_defaults", boolPtr (ClusterGetSettingsParams_IncludeDefaults q))].
Definition ClusterGetSettingsParams_slots : list (string * (ClusterGetSettingsParams -> slot)) :=
  [("FlatSettings", fun q => BoolPtr (ClusterGetSettingsParams_FlatSettings q));
  ("IncludeDefaults", fun q => BoolPtr (ClusterGetSettingsParams_IncludeDefaults q))].
Definition ClusterGetSettingsParams_get (q : ClusterGetSettingsParams) : gmap string string :=
  encode_params (EncodeTimeout (ClusterGetSettingsParams_TimeoutParams q) ++ EncodeDebug (ClusterGetSettingsParams_DebugParams q) ++ ClusterGetSettingsParams_own q).
Record ClusterGetSettingsReq := MkClusterGetSettingsReq { ClusterGetSettingsReq_Header : headers; ClusterGetSettingsReq_Params : option ClusterGetSettingsParams }.
Definition ClusterGetSettingsReq_GetRequest (r : ClusterGetSettingsReq) (method : string) : request_error + httpRequest * Z :=
  send method (ClusterGetSettingsPath_Build (MkClusterGetSettingsPath))
    (match ClusterGetSettingsReq_Params r with Some q => ClusterGetSettingsParams_get q | None => ∅ end)
    no_body (ClusterGetSettingsReq_Header r).
Definition ClusterGetSettings_Method (r : ClusterGetSettingsReq) : string := "GET".
#[export] Instance ClusterGetSettings_operation : operation ClusterGetSettingsReq :=
  {| op_path := MkPathType "ClusterGetSettingsPath" ClusterGetSettingsPath _ _; op_P := ClusterGetSettingsParams; op_fields r := MkClusterGetSettingsPath;
     op_params := ClusterGetSettingsReq_Params; op_defaults := None; op_timeout := ClusterGetSettingsParams_TimeoutParams; op_debug := ClusterGetSettingsParams_DebugParams;
     op_format := None; op_own := ClusterGetSettingsParams_own; op_slots := ClusterGetSettingsParams_slots;
     op_body _ := no_body; op_headers r := ClusterGetSettingsReq_Header r;
     Method := ClusterGetSettings_Method; GetRequest := ClusterGetSettingsReq_GetRequest;
     op_keys := ["flat_settings"; "include_defaults"];
     op_described := [("GET", "/_cluster/settings")];
     op_query := ["flat_settings"; "include_defaults"] |}.
#[export] Instance ClusterGetSettings_operates : LawfulOp ClusterGetSettingsReq.
Proof. operate. Qed.

Record ClusterGetWeightedRoutingParams := MkClusterGetWeightedRoutingParams { ClusterGetWeightedRoutingParams_TimeoutParams : TimeoutParams; ClusterGetWeightedRoutingParams_DebugParams : DebugParams }.
Definition ClusterGetWeightedRoutingParams_own (q : ClusterGetWeightedRoutingParams) : list param :=
  [].
Definition ClusterGetWeightedRoutingParams_slots : list (string * (ClusterGetWeightedRoutingParams -> slot)) :=
  [].
Definition ClusterGetWeightedRoutingParams_get (q : ClusterGetWeightedRoutingParams) : gmap string string :=
  encode_params (EncodeTimeout (ClusterGetWeightedRoutingParams_TimeoutParams q) ++ EncodeDebug (ClusterGetWeightedRoutingParams_DebugParams q) ++ ClusterGetWeightedRoutingParams_own q).
Record ClusterGetWeightedRoutingReq := MkClusterGetWeightedRoutingReq { ClusterGetWeightedRoutingReq_Attribute : string; ClusterGetWeightedRoutingReq_Header : headers;
  ClusterGetWeightedRoutingReq_Params : option ClusterGetWeightedRoutingParams }.
Definition ClusterGetWeightedRoutingReq_GetRequest (r : ClusterGetWeightedRoutingReq) (method : string) : request_error + httpRequest * Z :=
  send method (ClusterGetWeightedRoutingPath_Build (MkClusterGetWeightedRoutingPath (ClusterGetWeightedRoutingReq_Attribute r)))
    (match ClusterGetWeightedRoutingReq_Params r with Some q => ClusterGetWeightedRoutingParams_get q | None => ∅ end)
    no_body (ClusterGetWeightedRoutingReq_Header r).
Definition ClusterGetWeightedRouting_Method (r : ClusterGetWeightedRoutingReq) : string := "GET".
#[export] Instance ClusterGetWeightedRouting_operation : operation ClusterGetWeightedRoutingReq :=
  {| op_path := MkPathType "ClusterGetWeightedRoutingPath" ClusterGetWeightedRoutingPath _ _; op_P := ClusterGetWeightedRoutingParams; op_fields r := MkClusterGetWeightedRoutingPath (ClusterGetWeightedRoutingReq_Attribute r);
     op_params := ClusterGetWeightedRoutingReq_Params; op_defaults := None; op_timeout := ClusterGetWeightedRoutingParams_TimeoutParams; op_debug := ClusterGetWeightedRoutingParams_DebugParams;
     op_format := None; op_own := ClusterGetWeightedRoutingParams_own; op_slots := ClusterGetWeightedRoutingParams_slots;
     op_body _ := no_body; op_headers r := ClusterGetWeightedRoutingReq_Header r;
     Method := ClusterGetWeightedRouting_Method; GetRequest := ClusterGetWeightedRoutingReq_GetRequest;
     op_keys := [];
     op_described := [("GET", "/_cluster/routing/awareness/{attribute}/weights")];
     op_query := [] |}.
#[export] Instance ClusterGetWeightedRouting_operates : LawfulOp ClusterGetWeightedRoutingReq.
Proof. operate. Qed.

Record ClusterHealthParams := MkClusterHealthParams { ClusterHealthParams_TimeoutParams : TimeoutParams; ClusterHealthParams_DebugParams : DebugParams; ClusterHealthParams_AwarenessAttribute : string;
  ClusterHealthParams_ExpandWildcards : list string; ClusterHealthParams_Level : string; ClusterHealthParams_Local : option bool;
  ClusterHealthParams_WaitForActiveShards : string; ClusterHealthParams_WaitForEvents : string;
  ClusterHealthParams_WaitForNoInitializingShards : option bool; ClusterHealthParams_WaitForNoRelocatingShards : option bool;
  ClusterHealthParams_WaitForNodes : string; ClusterHealthParams_WaitForStatus : string }.
Definition ClusterHealthParams_own (q : ClusterHealthParams) : list param :=
  [("awareness_attribute", nonEmpty (ClusterHealthParams_AwarenessAttribute q)); ("expand_wildcards", joined (ClusterHealthParams_ExpandWildcards q));
  ("level", nonEmpty (ClusterHealthParams_Level q)); ("local", boolPtr (ClusterHealthParams_Local q));
  ("wait_for_active_shards", nonEmpty (ClusterHealthParams_WaitForActiveShards q));
  ("wait_for_events", nonEmpty (ClusterHealthParams_WaitForEvents q));
  ("wait_for_no_initializing_shards", boolPtr (ClusterHealthParams_WaitForNoInitializingShards q));
  ("wait_for_no_relocating_shards", boolPtr (ClusterHealthParams_WaitForNoRelocatingShards q));
  ("wait_for_nodes", nonEmpty (ClusterHealthParams_WaitForNodes q)); ("wait_for_status", nonEmpty (ClusterHealthParams_WaitForStatus q))].
Definition ClusterHealthParams_slots : list (string * (ClusterHealthParams -> slot)) :=
  [("AwarenessAttribute", fun q => Text (ClusterHealthParams_AwarenessAttribute q));
  ("ExpandWildcards", fun q => TextList (ClusterHealthParams_ExpandWildcards q)); ("Level", fun q => Text (ClusterHealthParams_Level q));
  ("Local", fun q => BoolPtr (ClusterHealthParams_Local q)); ("WaitForActiveShards", fun q => Text (ClusterHealthParams_WaitForActiveShards q));
  ("WaitForEvents", fun q => Text (ClusterHealthParams_WaitForEvents q));
  ("WaitForNoInitializingShards", fun q => BoolPtr (ClusterHealthParams_WaitForNoInitializingShards q));
  ("WaitForNoRelocatingShards", fun q => BoolPtr (ClusterHealthParams_WaitForNoRelocatingShards q));
  ("WaitForNodes", fun q => Text (ClusterHealthParams_WaitForNodes q)); ("WaitForStatus", fun q => Text (ClusterHealthParams_WaitForStatus q))].
Definition ClusterHealthParams_get (q : ClusterHealthParams) : gmap string string :=
  encode_params (EncodeTimeout (ClusterHealthParams_TimeoutParams q) ++ EncodeDebug (ClusterHealthParams_DebugParams q) ++ ClusterHealthParams_own q).
Record ClusterHealthReq := MkClusterHealthReq { ClusterHealthReq_Indices : list string; ClusterHealthReq_Header : headers; ClusterHealthReq_Params : option ClusterHealthParams }.
Definition ClusterHealthReq_GetRequest (r : ClusterHealthReq) (method : string) : request_error + httpRequest * Z :=
  send method (ClusterHealthPath_Build (MkClusterHealthPath (ClusterHealthReq_Indices r)))
    (match ClusterHealthReq_Params r with Some q => ClusterHealthParams_get q | None => ∅ end)
    no_body (ClusterHealthReq_Header r).
Definition ClusterHealth_Method (r : ClusterHealthReq) : string := "GET".
#[export] Instance ClusterHealth_operation : operation ClusterHealthReq :=
  {| op_path := MkPathType "ClusterHealthPath" ClusterHealthPath _ _; op_P := ClusterHealthParams; op_fields r := MkClusterHealthPath (ClusterHealthReq_Indices r);
     op_params := ClusterHealthReq_Params; op_defaults := None; op_timeout := ClusterHealthParams_TimeoutParams; op_debug := ClusterHealthParams_DebugParams;
     op_format := None; op_own := ClusterHealthParams_own; op_slots := ClusterHealthParams_slots;
     op_body _ := no_body; op_headers r := ClusterHealthReq_Header r;
     Method := ClusterHealth_Method; GetRequest := ClusterHealthReq_GetRequest;
     op_keys := ["awareness_attribute"; "expand_wildcards"; "level"; "local"; "wait_for_active_shards"; "wait_for_events"; "wait_for_no_initializing_shards";
        "wait_for_no_relocating_shards"; "wait_for_nodes"; "wait_for_status"];
     op_described := [("GET", "/_cluster/health"); ("GET", "/_cluster/health/{index}")];
     op_query := ["awareness_attribute"; "expand_wildcards"; "level"; "local"; "wait_for_active_shards"; "wait_for_events"; "wait_for_no_initializing_shards";
        "wait_for_no_relocating_shards"; "wait_for_nodes"; "wait_for_status"] |}.
#[export] Instance ClusterHealth_operates : LawfulOp ClusterHealthReq.
Proof. operate. Qed.

Record ClusterPendingTasksParams := MkClusterPendingTasksParams { ClusterPendingTasksParams_TimeoutParams : TimeoutParams; ClusterPendingTasksParams_DebugParams : DebugParams;
  ClusterPendingTasksParams_Local : option bool }.
Definition ClusterPendingTasksParams_own (q : ClusterPendingTasksParams) : list param :=
  [("local", boolPtr (ClusterPendingTasksParams_Local q))].
Definition ClusterPendingTasksParams_slots : list (string * (ClusterPendingTasksParams -> slot)) :=
  [("Local", fun q => BoolPtr (ClusterPendingTasksParams_Local q))].
Definition ClusterPendingTasksParams_get (q : ClusterPendingTasksParams) : gmap string string :=
  encode_params (EncodeTimeout (ClusterPendingTasksParams_TimeoutParams q) ++ EncodeDebug (ClusterPendingTasksParams_DebugParams q) ++ ClusterPendingTasksParams_own q).
Record ClusterPendingTasksReq := MkClusterPendingTasksReq { ClusterPendingTasksReq_Header : headers; ClusterPendingTasksReq_Params : option ClusterPendingTasksParams }.
Definition ClusterPendingTasksReq_GetRequest (r : ClusterPendingTasksReq) (method : string) : request_error + httpRequest * Z :=
  send method (ClusterPendingTasksPath_Build (MkClusterPendingTasksPath))
    (match ClusterPendingTasksReq_Params r with Some q => ClusterPendingTasksParams_get q | None => ∅ end)
    no_body (ClusterPendingTasksReq_Header r).
Definition ClusterPendingTasks_Method (r : ClusterPendingTasksReq) : string := "GET".
#[export] Instance ClusterPendingTasks_operation : operation ClusterPendingTasksReq :=
  {| op_path := MkPathType "ClusterPendingTasksPath" ClusterPendingTasksPath _ _; op_P := ClusterPendingTasksParams; op_fields r := MkClusterPendingTasksPath;
     op_params := ClusterPendingTasksReq_Params; op_defaults := None; op_timeout := ClusterPendingTasksParams_TimeoutParams; op_debug := ClusterPendingTasksParams_DebugParams;
     op_format := None; op_own := ClusterPendingTasksParams_own; op_slots := ClusterPendingTasksParams_slots;
     op_body _ := no_body; op_headers r := ClusterPendingTasksReq_Header r;
     Method := ClusterPendingTasks_Method; GetRequest := ClusterPendingTasksReq_GetRequest;
     op_keys := ["local"];
     op_described := [("GET", "/_cluster/pending_tasks")];
     op_query := ["local"] |}.
#[export] Instance ClusterPendingTasks_operates : LawfulOp ClusterPendingTasksReq.
Proof. operate. Qed.

Record ClusterPostVotingConfigExclusionsParams := MkClusterPostVotingConfigExclusionsParams { ClusterPostVotingConfigExclusionsParams_TimeoutParams : TimeoutParams; ClusterPostVotingConfigExclusionsParams_DebugParams : DebugParams;
  ClusterPostVotingConfigExclusionsParams_NodeIDs : list string; ClusterPostVotingConfigExclusionsParams_NodeNames : list string }.
Definition ClusterPostVotingConfigExclusionsParams_own (q : ClusterPostVotingConfigExclusionsParams) : list param :=
  [("node_ids", joined (ClusterPostVotingConfigExclusionsParams_NodeIDs q)); ("node_names", joined (ClusterPostVotingConfigExclusionsParams_NodeNames q))].
Definition ClusterPostVotingConfigExclusionsParams_slots : list (string * (ClusterPostVotingConfigExclusionsParams -> slot)) :=
  [("NodeIDs", fun q => TextList (ClusterPostVotingConfigExclusionsParams_NodeIDs q));
  ("NodeNames", fun q => TextList (ClusterPostVotingConfigExclusionsParams_NodeNames q))].
Definition ClusterPostVotingConfigExclusionsParams_get (q : ClusterPostVotingConfigExclusionsParams) : gmap string string :=
  encode_params (EncodeTimeout (ClusterPostVotingConfigExclusionsParams_TimeoutParams q) ++ EncodeDebug (ClusterPostVotingConfigExclusionsParams_DebugParams q) ++ ClusterPostVotingConfigExclusionsParams_own q).
Record ClusterPostVotingConfigExclusionsReq := MkClusterPostVotingConfigExclusionsReq { ClusterPostVotingConfigExclusionsReq_Header : headers; ClusterPostVotingConfigExclusionsReq_Params : option ClusterPostVotingConfigExclusionsParams }.
Definition ClusterPostVotingConfigExclusionsReq_GetRequest (r : ClusterPostVotingConfigExclusionsReq) (method : string) : request_error + httpRequest * Z :=
  send method (ClusterPostVotingConfigExclusionsPath_Build (MkClusterPostVotingConfigExclusionsPath))
    (match ClusterPostVotingConfigExclusionsReq_Params r with Some q => ClusterPostVotingConfigExclusionsParams_get q | None => ∅ end)
    no_body (ClusterPostVotingConfigExclusionsReq_Header r).
Definition ClusterPostVotingConfigExclusions_Method (r : ClusterPostVotingConfigExclusionsReq) : string := "POST".
#[export] Instance ClusterPostVotingConfigExclusions_operation : operation ClusterPostVotingConfigExclusionsReq :=
  {| op_path := MkPathType "ClusterPostVotingConfigExclusionsPath" ClusterPostVotingConfigExclusionsPath _ _; op_P := ClusterPostVotingConfigExclusionsParams; op_fields r := MkClusterPostVotingConfigExclusionsPath;
     op_params := ClusterPostVotingConfigExclusionsReq_Params; op_defaults := None; op_timeout := ClusterPostVotingConfigExclusionsParams_TimeoutParams; op_debug := ClusterPostVotingConfigExclusionsParams_DebugParams;
     op_format := None; op_own := ClusterPostVotingConfigExclusionsParams_own; op_slots := ClusterPostVotingConfigExclusionsParams_slots;
     op_body _ := no_body; op_headers r := ClusterPostVotingConfigExclusionsReq_Header r;
     Method := ClusterPostVotingConfigExclusions_Method; GetRequest := ClusterPostVotingConfigExclusionsReq_GetRequest;
     op_keys := ["node_ids"; "node_names"];
     op_described := [("POST", "/_cluster/voting_config_exclusions")];
     op_query := ["node_ids"; "node_names"] |}.
#[export] Instance ClusterPostVotingConfigExclusions_operates : LawfulOp ClusterPostVotingConfigExclusionsReq.
Proof. operate. Qed.

Record ClusterPutComponentTemplateParams := MkClusterPutComponentTemplateParams { ClusterPutComponentTemplateParams_TimeoutParams : TimeoutParams; ClusterPutComponentTemplateParams_DebugParams : DebugParams;
  ClusterPutComponentTemplateParams_Create : option bool }.
Definition ClusterPutComponentTemplateParams_own (q : ClusterPutComponentTemplateParams) : list param :=
  [("create", boolPtr (ClusterPutComponentTemplateParams_Create q))].
Definition ClusterPutComponentTemplateParams_slots : list (string * (ClusterPutComponentTemplateParams -> slot)) :=
  [("Create", fun q => BoolPtr (ClusterPutComponentTemplateParams_Create q))].
Definition ClusterPutComponentTemplateParams_get (q : ClusterPutComponentTemplateParams) : gmap string string :=
  encode_params (EncodeTimeout (ClusterPutComponentTemplateParams_TimeoutParams q) ++ EncodeDebug (ClusterPutComponentTemplateParams_DebugParams q) ++ ClusterPutComponentTemplateParams_own q).
Record ClusterPutComponentTemplateReq := MkClusterPutComponentTemplateReq { ClusterPutComponentTemplateReq_Name : string; ClusterPutComponentTemplateReq_Body : option (option string);
  ClusterPutComponentTemplateReq_BodyReader : reader; ClusterPutComponentTemplateReq_Header : headers;
  ClusterPutComponentTemplateReq_Params : option ClusterPutComponentTemplateParams }.
Definition ClusterPutComponentTemplateReq_GetRequest (r : ClusterPutComponentTemplateReq) (method : string) : request_error + httpRequest * Z :=
  send method (ClusterPutComponentTemplatePath_Build (MkClusterPutComponentTemplatePath (ClusterPutComponentTemplateReq_Name r)))
    (match ClusterPutComponentTemplateReq_Params r with Some q => ClusterPutComponentTemplateParams_get q | None => ∅ end)
    (json_body (ClusterPutComponentTemplateReq_Body r) (ClusterPutComponentTemplateReq_BodyReader r)) (ClusterPutComponentTemplateReq_Header r).
Definition ClusterPutComponentTemplate_Method (r : ClusterPutComponentTemplateReq) : string := "POST".
#[export] Instance ClusterPutComponentTemplate_operation : operation ClusterPutComponentTemplateReq :=
  {| op_path := MkPathType "ClusterPutComponentTemplatePath" ClusterPutComponentTemplatePath _ _; op_P := ClusterPutComponentTemplateParams; op_fields r := MkClusterPutComponentTemplatePath (ClusterPutComponentTemplateReq_Name r);
     op_params := ClusterPutComponentTemplateReq_Params; op_defaults := None; op_timeout := ClusterPutComponentTemplateParams_TimeoutParams; op_debug := ClusterPutComponentTemplateParams_DebugParams;
     op_format := None; op_own := ClusterPutComponentTemplateParams_own; op_slots := ClusterPutComponentTemplateParams_slots;
     op_body r := json_body (ClusterPutComponentTemplateReq_Body r) (ClusterPutComponentTemplateReq_BodyReader r); op_headers r := ClusterPutComponentTemplateReq_Header r;
     Method := ClusterPutComponentTemplate_Method; GetRequest := ClusterPutComponentTemplateReq_GetRequest;
     op_keys := ["create"];
     op_described := [("POST", "/_component_template/{name}"); ("PUT", "/_component_template/{name}")];
     op_query := ["create"] |}.
#[export] Instance ClusterPutComponentTemplate_operates : LawfulOp ClusterPutComponentTemplateReq.
Proof. operate. Qed.

Record ClusterPutDecommissionAwarenessParams := MkClusterPutDecommissionAwarenessParams { ClusterPutDecommissionAwarenessParams_TimeoutParams : TimeoutParams; ClusterPutDecommissionAwarenessParams_DebugParams : DebugParams }.
Definition ClusterPutDecommissionAwarenessParams_own (q : ClusterPutDecommissionAwarenessParams) : list param :=
  [].
Definition ClusterPutDecommissionAwarenessParams_slots : list (string * (ClusterPutDecommissionAwarenessParams -> slot)) :=
  [].
Definition ClusterPutDecommissionAwarenessParams_get (q : ClusterPutDecommissionAwarenessParams) : gmap string string :=
  encode_params (EncodeTimeout (ClusterPutDecommissionAwarenessParams_TimeoutParams q) ++ EncodeDebug (ClusterPutDecommissionAwarenessParams_DebugParams q) ++ ClusterPutDecommissionAwarenessParams_own q).
Record ClusterPutDecommissionAwarenessReq := MkClusterPutDecommissionAwarenessReq { ClusterPutDecommissionAwarenessReq_AwarenessAttributeName : string; ClusterPutDecommissionAwarenessReq_AwarenessAttributeValue : string;
  ClusterPutDecommissionAwarenessReq_Header : headers; ClusterPutDecommissionAwarenessReq_Params : option ClusterPutDecommissionAwarenessParams }.
Definition ClusterPutDecommissionAwarenessReq_GetRequest (r : ClusterPutDecommissionAwarenessReq) (method : string) : request_error + httpRequest * Z :=
  send method (ClusterPutDecommissionAwarenessPath_Build (MkClusterPutDecommissionAwarenessPath (ClusterPutDecommissionAwarenessReq_AwarenessAttributeName r) (ClusterPutDecommissionAwarenessReq_AwarenessAttributeValue r)))
    (match ClusterPutDecommissionAwarenessReq_Params r with Some q => ClusterPutDecommissionAwarenessParams_get q | None => ∅ end)
    no_body (ClusterPutDecommissionAwarenessReq_Header r).
Definition ClusterPutDecommissionAwareness_Method (r : ClusterPutDecommissionAwarenessReq) : string := "PUT".
#[export] Instance ClusterPutDecommissionAwareness_operation : operation ClusterPutDecommissionAwarenessReq :=
  {| op_path := MkPathType "ClusterPutDecommissionAwarenessPath" ClusterPutDecommissionAwarenessPath _ _; op_P := ClusterPutDecommissionAwarenessParams; op_fields r := MkClusterPutDecommissionAwarenessPath (ClusterPutDecommissionAwarenessReq_AwarenessAttributeName r) (ClusterPutDecommissionAwarenessReq_AwarenessAttributeValue r);
     op_params := ClusterPutDecommissionAwarenessReq_Params; op_defaults := None; op_timeout := ClusterPutDecommissionAwarenessParams_TimeoutParams; op_debug := ClusterPutDecommissionAwarenessParams_DebugParams;
     op_format := None; op_own := ClusterPutDecommissionAwarenessParams_own; op_slots := ClusterPutDecommissionAwarenessParams_slots;
     op_body _ := no_body; op_headers r := ClusterPutDecommissionAwarenessReq_Header r;
     Method := ClusterPutDecommissionAwareness_Method; GetRequest := ClusterPutDecommissionAwarenessReq_GetRequest;
     op_keys := [];
     op_described := [("PUT", "/_cluster/decommission/awareness/{awareness_attribute_name}/{awareness_attribute_value}")];
     op_query := [] |}.
#[export] Instance ClusterPutDecommissionAwareness_operates : LawfulOp ClusterPutDecommissionAwarenessReq.
Proof. operate. Qed.

Record ClusterPutSettingsParams := MkClusterPutSettingsParams { ClusterPutSettingsParams_TimeoutParams : TimeoutParams; ClusterPutSettingsParams_DebugParams : DebugParams;
  ClusterPutSettingsParams_FlatSettings : option bool }.
Definition ClusterPutSettingsParams_own (q : ClusterPutSettingsParams) : list param :=
  [("flat_settings", boolPtr (ClusterPutSettingsParams_FlatSettings q))].
Definition ClusterPutSettingsParams_slots : list (string * (ClusterPutSettingsParams -> slot)) :=
  [("FlatSettings", fun q => BoolPtr (ClusterPutSettingsParams_FlatSettings q))].
Definition ClusterPutSettingsParams_get (q : ClusterPutSettingsParams) : gmap string string :=
  encode_params (EncodeTimeout (ClusterPutSettingsParams_TimeoutParams q) ++ EncodeDebug (ClusterPutSettingsParams_DebugParams q) ++ ClusterPutSettingsParams_own q).
Record ClusterPutSettingsReq := MkClusterPutSettingsReq { ClusterPutSettingsReq_Body : option (option string); ClusterPutSettingsReq_BodyReader : reader; ClusterPutSettingsReq_Header : headers;
  ClusterPutSettingsReq_Params : option ClusterPutSettingsParams }.
Definition ClusterPutSettingsReq_GetRequest (r : ClusterPutSettingsReq) (method : string) : request_error + httpRequest * Z :=
  send method (ClusterPutSettingsPath_Build (MkClusterPutSettingsPath))
    (match ClusterPutSettingsReq_Params r with Some q => ClusterPutSettingsParams_get q | None => ∅ end)
    (json_body (ClusterPutSettingsReq_Body r) (ClusterPutSettingsReq_BodyReader r)) (ClusterPutSettingsReq_Header r).
Definition ClusterPutSettings_Method (r : ClusterPutSettingsReq) : string := "PUT".
#[export] Instance ClusterPutSettings_operation : operation ClusterPutSettingsReq :=
  {| op_path := MkPathType "ClusterPutSettingsPath" ClusterPutSettingsPath _ _; op_P := ClusterPutSettingsParams; op_fields r := MkClusterPutSettingsPath;
     op_params := ClusterPutSettingsReq_Params; op_defaults := None; op_timeout := ClusterPutSettingsParams_TimeoutParams; op_debug := ClusterPutSettingsParams_DebugParams;
     op_format := None; op_own := ClusterPutSettingsParams_own; op_slots := ClusterPutSettingsParams_slots;
     op_body r := json_body (ClusterPutSettingsReq_Body r) (ClusterPutSettingsReq_BodyReader r); op_headers r := ClusterPutSettingsReq_Header r;
     Method := ClusterPutSettings_Method; GetRequest := ClusterPutSettingsReq_GetRequest;
     op_keys := ["flat_settings"];
     op_described := [("PUT", "/_cluster/settings")];
     op_query := ["flat_settings"] |}.
#[export] Instance ClusterPutSettings_operates : LawfulOp ClusterPutSettingsReq.
Proof. operate. Qed.

Record ClusterPutWeightedRoutingParams := MkClusterPutWeightedRoutingParams { ClusterPutWeightedRoutingParams_TimeoutParams : TimeoutParams; ClusterPutWeightedRoutingParams_DebugParams : DebugParams }.
Definition ClusterPutWeightedRoutingParams_own (q : ClusterPutWeightedRoutingParams) : list param :=
  [].
Definition ClusterPutWeightedRoutingParams_slots : list (string * (ClusterPutWeightedRoutingParams -> slot)) :=
  [].
Definition ClusterPutWeightedRoutingParams_get (q : ClusterPutWeightedRoutingParams) : gmap string string :=
  encode_params (EncodeTimeout (ClusterPutWeightedRoutingParams_TimeoutParams q) ++ EncodeDebug (ClusterPutWeightedRoutingParams_DebugParams q) ++ ClusterPutWeightedRoutingParams_own q).
Record ClusterPutWeightedRoutingReq := MkClusterPutWeightedRoutingReq { ClusterPutWeightedRoutingReq_Attribute : string; ClusterPutWeightedRoutingReq_Body : option (option string);
  ClusterPutWeightedRoutingReq_BodyReader : reader; ClusterPutWeightedRoutingReq_Header : headers;
  ClusterPutWeightedRoutingReq_Params : option ClusterPutWeightedRoutingParams }.
Definition ClusterPutWeightedRoutingReq_GetRequest (r : ClusterPutWeightedRoutingReq) (method : string) : request_error + httpRequest * Z :=
  send method (ClusterPutWeightedRoutingPath_Build (MkClusterPutWeightedRoutingPath (ClusterPutWeightedRoutingReq_Attribute r)))
    (match ClusterPutWeightedRoutingReq_Params r with Some q => ClusterPutWeightedRoutingParams_get q | None => ∅ end)
    (json_body (ClusterPutWeightedRoutingReq_Body r) (ClusterPutWeightedRoutingReq_BodyReader r)) (ClusterPutWeightedRoutingReq_Header r).
Definition ClusterPutWeightedRouting_Method (r : ClusterPutWeightedRoutingReq) : string := "PUT".
#[export] Instance ClusterPutWeightedRouting_operation : operation ClusterPutWeightedRoutingReq :=
  {| op_path := MkPathType "ClusterPutWeightedRoutingPath" ClusterPutWeightedRoutingPath _ _; op_P := ClusterPutWeightedRoutingParams; op_fields r := MkClusterPutWeightedRoutingPath (ClusterPutWeightedRoutingReq_Attribute r);
     op_params := ClusterPutWeightedRoutingReq_Params; op_defaults := None; op_timeout := ClusterPutWeightedRoutingParams_TimeoutParams; op_debug := ClusterPutWeightedRoutingParams_DebugParams;
     op_format := None; op_own := ClusterPutWeightedRoutingParams_own; op_slots := ClusterPutWeightedRoutingParams_slots;
     op_body r := json_body (ClusterPutWeightedRoutingReq_Body r) (ClusterPutWeightedRoutingReq_BodyReader r); op_headers r := ClusterPutWeightedRoutingReq_Header r;
     Method := ClusterPutWeightedRouting_Method; GetRequest := ClusterPutWeightedRoutingReq_GetRequest;
     op_keys := [];
     op_described := [("PUT", "/_cluster/routing/awareness/{attribute}/weights")];
     op_query := [] |}.
#[export] Instance ClusterPutWeightedRouting_operates : LawfulOp ClusterPutWeightedRoutingReq.
Proof. operate. Qed.

Record ClusterRemoteInfoParams := MkClusterRemoteInfoParams { ClusterRemoteInfoParams_TimeoutParams : TimeoutParams; ClusterRemoteInfoParams_DebugParams : DebugParams }.
Definition ClusterRemoteInfoParams_own (q : ClusterRemoteInfoParams) : list param :=
  [].
Definition ClusterRemoteInfoParams_slots : list (string * (ClusterRemoteInfoParams -> slot)) :=
  [].
Definition ClusterRemoteInfoParams_get (q : ClusterRemoteInfoParams) : gmap string string :=
  encode_params (EncodeTimeout (ClusterRemoteInfoParams_TimeoutParams q) ++ EncodeDebug (ClusterRemoteInfoParams_DebugParams q) ++ ClusterRemoteInfoParams_own q).
Record ClusterRemoteInfoReq := MkClusterRemoteInfoReq { ClusterRemoteInfoReq_Header : headers; ClusterRemoteInfoReq_Params : option ClusterRemoteInfoParams }.
Definition ClusterRemoteInfoReq_GetRequest (r : ClusterRemoteInfoReq) (method : string) : request_error + httpRequest * Z :=
  send method (ClusterRemoteInfoPath_Build (MkClusterRemoteInfoPath))
    (match ClusterRemoteInfoReq_Params r with Some q => ClusterRemoteInfoParams_get q | None => ∅ end)
    no_body (ClusterRemoteInfoReq_Header r).
Definition ClusterRemoteInfo_Method (r : ClusterRemoteInfoReq) : string := "GET".
#[export] Instance ClusterRemoteInfo_operation : operation ClusterRemoteInfoReq :=
  {| op_path := MkPathType "ClusterRemoteInfoPath" ClusterRemoteInfoPath _ _; op_P := ClusterRemoteInfoParams; op_fields r := MkClusterRemoteInfoPath;
     op_params := ClusterRemoteInfoReq_Params; op_defaults := None; op_timeout := ClusterRemoteInfoParams_TimeoutParams; op_debug := ClusterRemoteInfoParams_DebugParams;
     op_format := None; op_own := ClusterRemoteInfoParams_own; op_slots := ClusterRemoteInfoParams_slots;
     op_body _ := no_body; op_headers r := ClusterRemoteInfoReq_Header r;
     Method := ClusterRemoteInfo_Method; GetRequest := ClusterRemoteInfoReq_GetRequest;
     op_keys := [];
     op_described := [("GET", "/_remote/info")];
     op_query := [] |}.
#[export] Instance ClusterRemoteInfo_operates : LawfulOp ClusterRemoteInfoReq.
Proof. operate. Qed.

Record ClusterRerouteParams := MkClusterRerouteParams { ClusterRerouteParams_TimeoutParams : TimeoutParams; ClusterRerouteParams_DebugParams : DebugParams; ClusterRerouteParams_DryRun : option bool;
  ClusterRerouteParams_Explain : option bool; ClusterRerouteParams_Metric : list string; ClusterRerouteParams_RetryFailed : option bool }.
Definition ClusterRerouteParams_own (q : ClusterRerouteParams) : list param :=
  [("dry_run", boolPtr (ClusterRerouteParams_DryRun q)); ("explain", boolPtr (ClusterRerouteParams_Explain q));
  ("metric", joined (ClusterRerouteParams_Metric q)); ("retry_failed", boolPtr (ClusterRerouteParams_RetryFailed q))].
Definition ClusterRerouteParams_slots : list (string * (ClusterRerouteParams -> slot)) :=
  [("DryRun", fun q => BoolPtr (ClusterRerouteParams_DryRun q)); ("Explain", fun q => BoolPtr (ClusterRerouteParams_Explain q));
  ("Metric", fun q => TextList (ClusterRerouteParams_Metric q)); ("RetryFailed", fun q => BoolPtr (ClusterRerouteParams_RetryFailed q))].
Definition ClusterRerouteParams_get (q : ClusterRerouteParams) : gmap string string :=
  encode_params (EncodeTimeout (ClusterRerouteParams_TimeoutParams q) ++ EncodeDebug (ClusterRerouteParams_DebugParams q) ++ ClusterRerouteParams_own q).
Record ClusterRerouteReq := MkClusterRerouteReq { ClusterRerouteReq_Body : option (option string); ClusterRerouteReq_BodyReader : reader; ClusterRerouteReq_Header : headers;
  ClusterRerouteReq_Params : option ClusterRerouteParams }.
Definition ClusterRerouteReq_GetRequest (r : ClusterRerouteReq) (method : string) : request_error + httpRequest * Z :=
  send method (ClusterReroutePath_Build (MkClusterReroutePath))
    (match ClusterRerouteReq_Params r with Some q => ClusterRerouteParams_get q | None => ∅ end)
    (json_body (ClusterRerouteReq_Body r) (ClusterRerouteReq_BodyReader r)) (ClusterRerouteReq_Header r).
Definition ClusterReroute_Method (r : ClusterRerouteReq) : string := "POST".
#[export] Instance ClusterReroute_operation : operation ClusterRerouteReq :=
  {| op_path := MkPathType "ClusterReroutePath" ClusterReroutePath _ _; op_P := ClusterRerouteParams; op_fields r := MkClusterReroutePath;
     op_params := ClusterRerouteReq_Params; op_defaults := None; op_timeout := ClusterRerouteParams_TimeoutParams; op_debug := ClusterRerouteParams_DebugParams;
     op_format := None; op_own := ClusterRerouteParams_own; op_slots := ClusterRerouteParams_slots;
     op_body r := json_body (ClusterRerouteReq_Body r) (ClusterRerouteReq_BodyReader r); op_headers r := ClusterRerouteReq_Header r;
     Method := ClusterReroute_Method; GetRequest := ClusterRerouteReq_GetRequest;
     op_keys := ["dry_run"; "explain"; "metric"; "retry_failed"];
     op_described := [("POST", "/_cluster/reroute")];
     op_query := ["dry_run"; "explain"; "metric"; "retry_failed"] |}.
#[export] Instance ClusterReroute_operates : LawfulOp ClusterRerouteReq.
Proof. operate. Qed.

Record ClusterStateParams := MkClusterStateParams { ClusterStateParams_TimeoutParams : TimeoutParams; ClusterStateParams_DebugParams : DebugParams; ClusterStateParams_AllowNoIndices : option bool;
  ClusterStateParams_ExpandWildcards : list string; ClusterStateParams_FlatSettings : option bool; ClusterStateParams_IgnoreUnavailable : option bool;
  ClusterStateParams_Local : option bool; ClusterStateParams_WaitForMetadataVersion : Z; ClusterStateParams_WaitForTimeout : Z }.
Definition ClusterStateParams_own (q : ClusterStateParams) : list param :=
  [("allow_no_indices", boolPtr (ClusterStateParams_AllowNoIndices q)); ("expand_wildcards", joined (ClusterStateParams_ExpandWildcards q));
  ("flat_settings", boolPtr (ClusterStateParams_FlatSettings q)); ("ignore_unavailable", boolPtr (ClusterStateParams_IgnoreUnavailable q));
  ("local", boolPtr (ClusterStateParams_Local q)); ("wait_for_metadata_version", nonZero (ClusterStateParams_WaitForMetadataVersion q));
  ("wait_for_timeout", duration (ClusterStateParams_WaitForTimeout q))].
Definition ClusterStateParams_slots : list (string * (ClusterStateParams -> slot)) :=
  [("AllowNoIndices", fun q => BoolPtr (ClusterStateParams_AllowNoIndices q));
  ("ExpandWildcards", fun q => TextList (ClusterStateParams_ExpandWildcards q));
  ("FlatSettings", fun q => BoolPtr (ClusterStateParams_FlatSettings q));
  ("IgnoreUnavailable", fun q => BoolPtr (ClusterStateParams_IgnoreUnavailable q)); ("Local", fun q => BoolPtr (ClusterStateParams_Local q));
  ("WaitForMetadataVersion", fun q => Int (ClusterStateParams_WaitForMetadataVersion q));
  ("WaitForTimeout", fun q => Duration (ClusterStateParams_WaitForTimeout q))].
Definition ClusterStateParams_get (q : ClusterStateParams) : gmap string string :=
  encode_params (EncodeTimeout (ClusterStateParams_TimeoutParams q) ++ EncodeDebug (ClusterStateParams_DebugParams q) ++ ClusterStateParams_own q).
Record ClusterStateReq := MkClusterStateReq { ClusterStateReq_Metric : list string; ClusterStateReq_Indices : list string; ClusterStateReq_Header : headers;
  ClusterStateReq_Params : option ClusterStateParams }.
Definition ClusterStateReq_GetRequest (r : ClusterStateReq) (method : string) : request_error + httpRequest * Z :=
  send method (ClusterStatePath_Build (MkClusterStatePath (ClusterStateReq_Metric r) (ClusterStateReq_Indices r)))
    (match ClusterStateReq_Params r with Some q => ClusterStateParams_get q | None => ∅ end)
    no_body (ClusterStateReq_Header r).
Definition ClusterState_Method (r : ClusterStateReq) : string := "GET".
#[export] Instance ClusterState_operation : operation ClusterStateReq :=
  {| op_path := MkPathType "ClusterStatePath" ClusterStatePath _ _; op_P := ClusterStateParams; op_fields r := MkClusterStatePath (ClusterStateReq_Metric r) (ClusterStateReq_Indices r);
     op_params := ClusterStateReq_Params; op_defaults := None; op_timeout := ClusterStateParams_TimeoutParams; op_debug := ClusterStateParams_DebugParams;
     op_format := None; op_own := ClusterStateParams_own; op_slots := ClusterStateParams_slots;
     op_body _ := no_body; op_headers r := ClusterStateReq_Header r;
     Method := ClusterState_Method; GetRequest := ClusterStateReq_GetRequest;
     op_keys := ["allow_no_indices"; "expand_wildcards"; "flat_settings"; "ignore_unavailable"; "local"; "wait_for_metadata_version"; "wait_for_timeout"];
     op_described := [("GET", "/_cluster/state"); ("GET", "/_cluster/state/{metric}"); ("GET", "/_cluster/state/{metric}/{index}")];
     op_query := ["allow_no_indices"; "expand_wildcards"; "flat_settings"; "ignore_unavailable"; "local"; "wait_for_metadata_version"; "wait_for_timeout"] |}.
#[export] Instance ClusterState_operates : LawfulOp ClusterStateReq.
Proof. operate. Qed.

Record ClusterStatsParams := MkClusterStatsParams { ClusterStatsParams_TimeoutParams : TimeoutParams; ClusterStatsParams_DebugParams : DebugParams; ClusterStatsParams_FlatSettings : option bool }.
Definition ClusterStatsParams_own (q : ClusterStatsParams) : list param :=
  [("flat_settings", boolPtr (ClusterStatsParams_FlatSettings q))].
Definition ClusterStatsParams_slots : list (string * (ClusterStatsParams -> slot)) :=
  [("FlatSettings", fun q => BoolPtr (ClusterStatsParams_FlatSettings q))].
Definition ClusterStatsParams_get (q : ClusterStatsParams) : gmap string string :=
  encode_params (EncodeTimeout (ClusterStatsParams_TimeoutParams q) ++ EncodeDebug (ClusterStatsParams_DebugParams q) ++ ClusterStatsParams_own q).
Record ClusterStatsReq := MkClusterStatsReq { ClusterStatsReq_NodeID : list string; ClusterStatsReq_Metric : list string; ClusterStatsReq_IndexMetric : list string;
  ClusterStatsReq_Header : headers; ClusterStatsReq_Params : option ClusterStatsParams }.
Definition ClusterStatsReq_GetRequest (r : ClusterStatsReq) (method : string) : request_error + httpRequest * Z :=
  send method (ClusterStatsPath_Build (MkClusterStatsPath (ClusterStatsReq_Metric r) (ClusterStatsReq_IndexMetric r) (ClusterStatsReq_NodeID r)))
    (match ClusterStatsReq_Params r with Some q => ClusterStatsParams_get q | None => ∅ end)
    no_body (ClusterStatsReq_Header r).
Definition ClusterStats_Method (r : ClusterStatsReq) : string := "GET".
#[export] Instance ClusterStats_operation : operation ClusterStatsReq :=
  {| op_path := MkPathType "ClusterStatsPath" ClusterStatsPath _ _; op_P := ClusterStatsParams; op_fields r := MkClusterStatsPath (ClusterStatsReq_Metric r) (ClusterStatsReq_IndexMetric r) (ClusterStatsReq_NodeID r);
     op_params := ClusterStatsReq_Params; op_defaults := None; op_timeout := ClusterStatsParams_TimeoutParams; op_debug := ClusterStatsParams_DebugParams;
     op_format := None; op_own := ClusterStatsParams_own; op_slots := ClusterStatsParams_slots;
     op_body _ := no_body; op_headers r := ClusterStatsReq_Header r;
     Method := ClusterStats_Method; GetRequest := ClusterStatsReq_GetRequest;
     op_keys := ["flat_settings"];
     op_described := [("GET", "/_cluster/stats"); ("GET", "/_cluster/stats/{metric}/{index_metric}/nodes/{node_id}"); ("GET", "/_cluster/stats/{metric}/nodes/{node_id}");
        ("GET", "/_cluster/stats/nodes/{node_id}")];
     op_query := ["flat_settings"] |}.
#[export] Instance ClusterStats_operates : LawfulOp ClusterStatsReq.
Proof. operate. Qed.

Record DanglingIndicesDeleteDanglingIndexParams := MkDanglingIndicesDeleteDanglingIndexParams { DanglingIndicesDeleteDanglingIndexParams_TimeoutParams : TimeoutParams; DanglingIndicesDeleteDanglingIndexParams_DebugParams : DebugParams;
  DanglingIndicesDeleteDanglingIndexParams_AcceptDataLoss : option bool }.
Definition DanglingIndicesDeleteDanglingIndexParams_own (q : DanglingIndicesDeleteDanglingIndexParams) : list param :=
  [("accept_data_loss", boolPtr (DanglingIndicesDeleteDanglingIndexParams_AcceptDataLoss q))].
Definition DanglingIndicesDeleteDanglingIndexParams_slots : list (string * (DanglingIndicesDeleteDanglingIndexParams -> slot)) :=
  [("AcceptDataLoss", fun q => BoolPtr (DanglingIndicesDeleteDanglingIndexParams_AcceptDataLoss q))].
Definition DanglingIndicesDeleteDanglingIndexParams_get (q : DanglingIndicesDeleteDanglingIndexParams) : gmap string string :=
  encode_params (EncodeTimeout (DanglingIndicesDeleteDanglingIndexParams_TimeoutParams q) ++ EncodeDebug (DanglingIndicesDeleteDanglingIndexParams_DebugParams q) ++ DanglingIndicesDeleteDanglingIndexParams_own q).
Record DanglingIndicesDeleteDanglingIndexReq := MkDanglingIndicesDeleteDanglingIndexReq { DanglingIndicesDeleteDanglingIndexReq_IndexUUID : string; DanglingIndicesDeleteDanglingIndexReq_Header : headers;
  DanglingIndicesDeleteDanglingIndexReq_Params : option DanglingIndicesDeleteDanglingIndexParams }.
Definition DanglingIndicesDeleteDanglingIndexReq_GetRequest (r : DanglingIndicesDeleteDanglingIndexReq) (method : string) : request_error + httpRequest * Z :=
  send method (DanglingIndicesDeleteDanglingIndexPath_Build (MkDanglingIndicesDeleteDanglingIndexPath (DanglingIndicesDeleteDanglingIndexReq_IndexUUID r)))
    (match DanglingIndicesDeleteDanglingIndexReq_Params r with Some q => DanglingIndicesDeleteDanglingIndexParams_get q | None => ∅ end)
    no_body (DanglingIndicesDeleteDanglingIndexReq_Header r).
Definition DanglingIndicesDeleteDanglingIndex_Method (r : DanglingIndicesDeleteDanglingIndexReq) : string := "DELETE".
#[export] Instance DanglingIndicesDeleteDanglingIndex_operation : operation DanglingIndicesDeleteDanglingIndexReq :=
  {| op_path := MkPathType "DanglingIndicesDeleteDanglingIndexPath" DanglingIndicesDeleteDanglingIndexPath _ _; op_P := DanglingIndicesDeleteDanglingIndexParams; op_fields r := MkDanglingIndicesDeleteDanglingIndexPath (DanglingIndicesDeleteDanglingIndexReq_IndexUUID r);
     op_params := DanglingIndicesDeleteDanglingIndexReq_Params; op_defaults := None; op_timeout := DanglingIndicesDeleteDanglingIndexParams_TimeoutParams; op_debug := DanglingIndicesDeleteDanglingIndexParams_DebugParams;
     op_format := None; op_own := DanglingIndicesDeleteDanglingIndexParams_own; op_slots := DanglingIndicesDeleteDanglingIndexParams_slots;
     op_body _ := no_body; op_headers r := DanglingIndicesDeleteDanglingIndexReq_Header r;
     Method := DanglingIndicesDeleteDanglingIndex_Method; GetRequest := DanglingIndicesDeleteDanglingIndexReq_GetRequest;
     op_keys := ["accept_data_loss"];
     op_described := [("DELETE", "/_dangling/{index_uuid}")];
     op_query := ["accept_data_loss"] |}.
#[export] Instance DanglingIndicesDeleteDanglingIndex_operates : LawfulOp DanglingIndicesDeleteDanglingIndexReq.
Proof. operate. Qed.

Record DanglingIndicesImportDanglingIndexParams := MkDanglingIndicesImportDanglingIndexParams { DanglingIndicesImportDanglingIndexParams_TimeoutParams : TimeoutParams; DanglingIndicesImportDanglingIndexParams_DebugParams : DebugParams;
  DanglingIndicesImportDanglingIndexParams_AcceptDataLoss : option bool }.
Definition DanglingIndicesImportDanglingIndexParams_own (q : DanglingIndicesImportDanglingIndexParams) : list param :=
  [("accept_data_loss", boolPtr (DanglingIndicesImportDanglingIndexParams_AcceptDataLoss q))].
Definition DanglingIndicesImportDanglingIndexParams_slots : list (string * (DanglingIndicesImportDanglingIndexParams -> slot)) :=
  [("AcceptDataLoss", fun q => BoolPtr (DanglingIndicesImportDanglingIndexParams_AcceptDataLoss q))].
Definition DanglingIndicesImportDanglingIndexParams_get (q : DanglingIndicesImportDanglingIndexParams) : gmap string string :=
  encode_params (EncodeTimeout (DanglingIndicesImportDanglingIndexParams_TimeoutParams q) ++ EncodeDebug (DanglingIndicesImportDanglingIndexParams_DebugParams q) ++ DanglingIndicesImportDanglingIndexParams_own q).
Record DanglingIndicesImportDanglingIndexReq := MkDanglingIndicesImportDanglingIndexReq { DanglingIndicesImportDanglingIndexReq_IndexUUID : string; DanglingIndicesImportDanglingIndexReq_Header : headers;
  DanglingIndicesImportDanglingIndexReq_Params : option DanglingIndicesImportDanglingIndexParams }.
Definition DanglingIndicesImportDanglingIndexReq_GetRequest (r : DanglingIndicesImportDanglingIndexReq) (method : string) : request_error + httpRequest * Z :=
  send method (DanglingIndicesImportDanglingIndexPath_Build (MkDanglingIndicesImportDanglingIndexPath (DanglingIndicesImportDanglingIndexReq_IndexUUID r)))
    (match DanglingIndicesImportDanglingIndexReq_Params r with Some q => DanglingIndicesImportDanglingIndexParams_get q | None => ∅ end)
    no_body (DanglingIndicesImportDanglingIndexReq_Header r).
Definition DanglingIndicesImportDanglingIndex_Method (r : DanglingIndicesImportDanglingIndexReq) : string := "POST".
#[export] Instance DanglingIndicesImportDanglingIndex_operation : operation DanglingIndicesImportDanglingIndexReq :=
  {| op_path := MkPathType "DanglingIndicesImportDanglingIndexPath" DanglingIndicesImportDanglingIndexPath _ _; op_P := DanglingIndicesImportDanglingIndexParams; op_fields r := MkDanglingIndicesImportDanglingIndexPath (DanglingIndicesImportDanglingIndexReq_IndexUUID r);
     op_params := DanglingIndicesImportDanglingIndexReq_Params; op_defaults := None; op_timeout := DanglingIndicesImportDanglingIndexParams_TimeoutParams; op_debug := DanglingIndicesImportDanglingIndexParams_DebugParams;
     op_format := None; op_own := DanglingIndicesImportDanglingIndexParams_own; op_slots := DanglingIndicesImportDanglingIndexParams_slots;
     op_body _ := no_body; op_headers r := DanglingIndicesImportDanglingIndexReq_Header r;
     Method := DanglingIndicesImportDanglingIndex_Method; GetRequest := DanglingIndicesImportDanglingIndexReq_GetRequest;
     op_keys := ["accept_data_loss"];
     op_described := [("POST", "/_dangling/{index_uuid}")];
     op_query := ["accept_data_loss"] |}.
#[export] Instance DanglingIndicesImportDanglingIndex_operates : LawfulOp DanglingIndicesImportDanglingIndexReq.
Proof. operate. Qed.

Record DanglingIndicesListDanglingIndicesParams := MkDanglingIndicesListDanglingIndicesParams { DanglingIndicesListDanglingIndicesParams_TimeoutParams : TimeoutParams; DanglingIndicesListDanglingIndicesParams_DebugParams : DebugParams }.
Definition DanglingIndicesListDanglingIndicesParams_own (q : DanglingIndicesListDanglingIndicesParams) : list param :=
  [].
Definition DanglingIndicesListDanglingIndicesParams_slots : list (string * (DanglingIndicesListDanglingIndicesParams -> slot)) :=
  [].
Definition DanglingIndicesListDanglingIndicesParams_get (q : DanglingIndicesListDanglingIndicesParams) : gmap string string :=
  encode_params (EncodeTimeout (DanglingIndicesListDanglingIndicesParams_TimeoutParams q) ++ EncodeDebug (DanglingIndicesListDanglingIndicesParams_DebugParams q) ++ DanglingIndicesListDanglingIndicesParams_own q).
Record DanglingIndicesListDanglingIndicesReq := MkDanglingIndicesListDanglingIndicesReq { DanglingIndicesListDanglingIndicesReq_Header : headers; DanglingIndicesListDanglingIndicesReq_Params : option DanglingIndicesListDanglingIndicesParams }.
Definition DanglingIndicesListDanglingIndicesReq_GetRequest (r : DanglingIndicesListDanglingIndicesReq) (method : string) : request_error + httpRequest * Z :=
  send method (DanglingIndicesListDanglingIndicesPath_Build (MkDanglingIndicesListDanglingIndicesPath))
    (match DanglingIndicesListDanglingIndicesReq_Params r with Some q => DanglingIndicesListDanglingIndicesParams_get q | None => ∅ end)
    no_body (DanglingIndicesListDanglingIndicesReq_Header r).
Definition DanglingIndicesListDanglingIndices_Method (r : DanglingIndicesListDanglingIndicesReq) : string := "GET".
#[export] Instance DanglingIndicesListDanglingIndices_operation : operation DanglingIndicesListDanglingIndicesReq :=
  {| op_path := MkPathType "DanglingIndicesListDanglingIndicesPath" DanglingIndicesListDanglingIndicesPath _ _; op_P := DanglingIndicesListDanglingIndicesParams; op_fields r := MkDanglingIndicesListDanglingIndicesPath;
     op_params := DanglingIndicesListDanglingIndicesReq_Params; op_defaults := None; op_timeout := DanglingIndicesListDanglingIndicesParams_TimeoutParams; op_debug := DanglingIndicesListDanglingIndicesParams_DebugParams;
     op_format := None; op_own := DanglingIndicesListDanglingIndicesParams_own; op_slots := DanglingIndicesListDanglingIndicesParams_slots;
     op_body _ := no_body; op_headers r := DanglingIndicesListDanglingIndicesReq_Header r;
     Method := DanglingIndicesListDanglingIndices_Method; GetRequest := DanglingIndicesListDanglingIndicesReq_GetRequest;
     op_keys := [];
     op_described := [("GET", "/_dangling")];
     op_query := [] |}.
#[export] Instance DanglingIndicesListDanglingIndices_operates : LawfulOp DanglingIndicesListDanglingIndicesReq.
Proof. operate. Qed.

Record NodesHotThreadsParams := MkNodesHotThreadsParams { NodesHotThreadsParams_TimeoutParams : TimeoutParams; NodesHotThreadsParams_DebugParams : DebugParams;
  NodesHotThreadsParams_IgnoreIdleThreads : option bool; NodesHotThreadsParams_Interval : Z; NodesHotThreadsParams_Snapshots : Z;
  NodesHotThreadsParams_Threads : Z; NodesHotThreadsParams_Type : string }.
Definition NodesHotThreadsParams_own (q : NodesHotThreadsParams) : list param :=
  [("ignore_idle_threads", boolPtr (NodesHotThreadsParams_IgnoreIdleThreads q)); ("interval", duration (NodesHotThreadsParams_Interval q));
  ("snapshots", nonZero (NodesHotThreadsParams_Snapshots q)); ("threads", nonZero (NodesHotThreadsParams_Threads q));
  ("type", nonEmpty (NodesHotThreadsParams_Type q))].
Definition NodesHotThreadsParams_slots : list (string * (NodesHotThreadsParams -> slot)) :=
  [("IgnoreIdleThreads", fun q => BoolPtr (NodesHotThreadsParams_IgnoreIdleThreads q));
  ("Interval", fun q => Duration (NodesHotThreadsParams_Interval q)); ("Snapshots", fun q => Int (NodesHotThreadsParams_Snapshots q));
  ("Threads", fun q => Int (NodesHotThreadsParams_Threads q)); ("Type", fun q => Text (NodesHotThreadsParams_Type q))].
Definition NodesHotThreadsParams_get (q : NodesHotThreadsParams) : gmap string string :=
  encode_params (EncodeTimeout (NodesHotThreadsParams_TimeoutParams q) ++ EncodeDebug (NodesHotThreadsParams_DebugParams q) ++ NodesHotThreadsParams_own q).
Record NodesHotThreadsReq := MkNodesHotThreadsReq { NodesHotThreadsReq_NodeID : list string; NodesHotThreadsReq_Header : headers; NodesHotThreadsReq_Params : option NodesHotThreadsParams }.
Definition NodesHotThreadsReq_GetRequest (r : NodesHotThreadsReq) (method : string) : request_error + httpRequest * Z :=
  send method (NodesHotThreadsPath_Build (MkNodesHotThreadsPath (NodesHotThreadsReq_NodeID r)))
    (match NodesHotThreadsReq_Params r with Some q => NodesHotThreadsParams_get q | None => ∅ end)
    no_body (NodesHotThreadsReq_Header r).
Definition NodesHotThreads_Method (r : NodesHotThreadsReq) : string := "GET".
#[export] Instance NodesHotThreads_operation : operation NodesHotThreadsReq :=
  {| op_path := MkPathType "NodesHotThreadsPath" NodesHotThreadsPath _ _; op_P := NodesHotThreadsParams; op_fields r := MkNodesHotThreadsPath (NodesHotThreadsReq_NodeID r);
     op_params := NodesHotThreadsReq_Params; op_defaults := None; op_timeout := NodesHotThreadsParams_TimeoutParams; op_debug := NodesHotThreadsParams_DebugParams;
     op_format := None; op_own := NodesHotThreadsParams_own; op_slots := NodesHotThreadsParams_slots;
     op_body _ := no_body; op_headers r := NodesHotThreadsReq_Header r;
     Method := NodesHotThreads_Method; GetRequest := NodesHotThreadsReq_GetRequest;
     op_keys := ["ignore_idle_threads"; "interval"; "snapshots"; "threads"; "type"];
     op_described := [("GET", "/_nodes/{node_id}/hot_threads"); ("GET", "/_nodes/hot_threads")];
     op_query := ["ignore_idle_threads"; "interval"; "snapshots"; "threads"; "type"] |}.
#[export] Instance NodesHotThreads_operates : LawfulOp NodesHotThreadsReq.
Proof. operate. Qed.

Record NodesInfoParams := MkNodesInfoParams { NodesInfoParams_TimeoutParams : TimeoutParams; NodesInfoParams_DebugParams : DebugParams; NodesInfoParams_FlatSettings : option bool }.
Definition NodesInfoParams_own (q : NodesInfoParams) : list param :=
  [("flat_settings", boolPtr (NodesInfoParams_FlatSettings q))].
Definition NodesInfoParams_slots : list (string * (NodesInfoParams -> slot)) :=
  [("FlatSettings", fun q => BoolPtr (NodesInfoParams_FlatSettings q))].
Definition NodesInfoParams_get (q : NodesInfoParams) : gmap string string :=
  encode_params (EncodeTimeout (NodesInfoParams_TimeoutParams q) ++ EncodeDebug (NodesInfoParams_DebugParams q) ++ NodesInfoParams_own q).
Record NodesInfoReq := MkNodesInfoReq { NodesInfoReq_NodeID : list string; NodesInfoReq_Metric : list string; NodesInfoReq_Header : headers; NodesInfoReq_Params : option NodesInfoParams }.
Definition NodesInfoReq_GetRequest (r : NodesInfoReq) (method : string) : request_error + httpRequest * Z :=
  send method (NodesInfoPath_Build (MkNodesInfoPath (NodesInfoReq_NodeID r) (NodesInfoReq_Metric r)))
    (match NodesInfoReq_Params r with Some q => NodesInfoParams_get q | None => ∅ end)
    no_body (NodesInfoReq_Header r).
Definition NodesInfo_Method (r : NodesInfoReq) : string := "GET".
#[export] Instance NodesInfo_operation : operation NodesInfoReq :=
  {| op_path := MkPathType "NodesInfoPath" NodesInfoPath _ _; op_P := NodesInfoParams; op_fields r := MkNodesInfoPath (NodesInfoReq_NodeID r) (NodesInfoReq_Metric r);
     op_params := NodesInfoReq_Params; op_defaults := None; op_timeout := NodesInfoParams_TimeoutParams; op_debug := NodesInfoParams_DebugParams;
     op_format := None; op_own := NodesInfoParams_own; op_slots := NodesInfoParams_slots;
     op_body _ := no_body; op_headers r := NodesInfoReq_Header r;
     Method := NodesInfo_Method; GetRequest := NodesInfoReq_GetRequest;
     op_keys := ["flat_settings"];
     op_described := [("GET", "/_nodes"); ("GET", "/_nodes/{node_id_or_metric}"); ("GET", "/_nodes/{node_id}/{metric}")];
     op_query := ["flat_settings"] |}.
#[export] Instance NodesInfo_operates : LawfulOp NodesInfoReq.
Proof. operate. Qed.

Record NodesReloadSecureSettingsParams := MkNodesReloadSecureSettingsParams { NodesReloadSecureSettingsParams_TimeoutParams : TimeoutParams; NodesReloadSecureSettingsParams_DebugParams : DebugParams }.
Definition NodesReloadSecureSettingsParams_own (q : NodesReloadSecureSettingsParams) : list param :=
  [].
Definition NodesReloadSecureSettingsParams_slots : list (string * (NodesReloadSecureSettingsParams -> slot)) :=
  [].
Definition NodesReloadSecureSettingsParams_get (q : NodesReloadSecureSettingsParams) : gmap string string :=
  encode_params (EncodeTimeout (NodesReloadSecureSettingsParams_TimeoutParams q) ++ EncodeDebug (NodesReloadSecureSettingsParams_DebugParams q) ++ NodesReloadSecureSettingsParams_own q).
Record NodesReloadSecureSettingsReq := MkNodesReloadSecureSettingsReq { NodesReloadSecureSettingsReq_NodeID : list string; NodesReloadSecureSettingsReq_Body : option (option string);
  NodesReloadSecureSettingsReq_BodyReader : reader; NodesReloadSecureSettingsReq_Header : headers;
  NodesReloadSecureSettingsReq_Params : option NodesReloadSecureSettingsParams }.
Definition NodesReloadSecureSettingsReq_GetRequest (r : NodesReloadSecureSettingsReq) (method : string) : request_error + httpRequest * Z :=
  send method (NodesReloadSecureSettingsPath_Build (MkNodesReloadSecureSettingsPath (NodesReloadSecureSettingsReq_NodeID r)))
    (match NodesReloadSecureSettingsReq_Params r with Some q => NodesReloadSecureSettingsParams_get q | None => ∅ end)
    (json_body (NodesReloadSecureSettingsReq_Body r) (NodesReloadSecureSettingsReq_BodyReader r)) (NodesReloadSecureSettingsReq_Header r).
Definition NodesReloadSecureSettings_Method (r : NodesReloadSecureSettingsReq) : string := "POST".
#[export] Instance NodesReloadSecureSettings_operation : operation NodesReloadSecureSettingsReq :=
  {| op_path := MkPathType "NodesReloadSecureSettingsPath" NodesReloadSecureSettingsPath _ _; op_P := NodesReloadSecureSettingsParams; op_fields r := MkNodesReloadSecureSettingsPath (NodesReloadSecureSettingsReq_NodeID r);
     op_params := NodesReloadSecureSettingsReq_Params; op_defaults := None; op_timeout := NodesReloadSecureSettingsParams_TimeoutParams; op_debug := NodesReloadSecureSettingsParams_DebugParams;
     op_format := None; op_own := NodesReloadSecureSettingsParams_own; op_slots := NodesReloadSecureSettingsParams_slots;
     op_body r := json_body (NodesReloadSecureSettingsReq_Body r) (NodesReloadSecureSettingsReq_BodyReader r); op_headers r := NodesReloadSecureSettingsReq_Header r;
     Method := NodesReloadSecureSettings_Method; GetRequest := NodesReloadSecureSettingsReq_GetRequest;
     op_keys := [];
     op_described := [("POST", "/_nodes/{node_id}/reload_secure_settings"); ("POST", "/_nodes/reload_secure_settings")];
     op_query := [] |}.
#[export] Instance NodesReloadSecureSettings_operates : LawfulOp NodesReloadSecureSettingsReq.
Proof. operate. Qed.

Record NodesStatsParams := MkNodesStatsParams { NodesStatsParams_TimeoutParams : TimeoutParams; NodesStatsParams_DebugParams : DebugParams; NodesStatsParams_CompletionFields : list string;
  NodesStatsParams_FielddataFields : list string; NodesStatsParams_Fields : list string; NodesStatsParams_Groups : list string;
  NodesStatsParams_IncludeSegmentFileSizes : option bool; NodesStatsParams_Level : string; NodesStatsParams_Types : list string }.
Definition NodesStatsParams_own (q : NodesStatsParams) : list param :=
  [("completion_fields", joined (NodesStatsParams_CompletionFields q)); ("fielddata_fields", joined (NodesStatsParams_FielddataFields q));
  ("fields", joined (NodesStatsParams_Fields q)); ("groups", joined (NodesStatsParams_Groups q));
  ("include_segment_file_sizes", boolPtr (NodesStatsParams_IncludeSegmentFileSizes q)); ("level", nonEmpty (NodesStatsParams_Level q));
  ("types", joined (NodesStatsParams_Types q))].
Definition NodesStatsParams_slots : list (string * (NodesStatsParams -> slot)) :=
  [("CompletionFields", fun q => TextList (NodesStatsParams_CompletionFields q));
  ("FielddataFields", fun q => TextList (NodesStatsParams_FielddataFields q)); ("Fields", fun q => TextList (NodesStatsParams_Fields q));
  ("Groups", fun q => TextList (NodesStatsParams_Groups q));
  ("IncludeSegmentFileSizes", fun q => BoolPtr (NodesStatsParams_IncludeSegmentFileSizes q)); ("Level", fun q => Text (NodesStatsParams_Level q));
  ("Types", fun q => TextList (NodesStatsParams_Types q))].
Definition NodesStatsParams_get (q : NodesStatsParams) : gmap string string :=
  encode_params (EncodeTimeout (NodesStatsParams_TimeoutParams q) ++ EncodeDebug (NodesStatsParams_DebugParams q) ++ NodesStatsParams_own q).
Record NodesStatsReq := MkNodesStatsReq { NodesStatsReq_Metric : list string; NodesStatsReq_IndexMetric : list string; NodesStatsReq_NodeID : list string; NodesStatsReq_Header : headers;
  NodesStatsReq_Params : option NodesStatsParams }.
Definition NodesStatsReq_GetRequest (r : NodesStatsReq) (method : string) : request_error + httpRequest * Z :=
  send method (NodesStatsPath_Build (MkNodesStatsPath (NodesStatsReq_NodeID r) (NodesStatsReq_Metric r) (NodesStatsReq_IndexMetric r)))
    (match NodesStatsReq_Params r with Some q => NodesStatsParams_get q | None => ∅ end)
    no_body (NodesStatsReq_Header r).
Definition NodesStats_Method (r : NodesStatsReq) : string := "GET".
#[export] Instance NodesStats_operation : operation NodesStatsReq :=
  {| op_path := MkPathType "NodesStatsPath" NodesStatsPath _ _; op_P := NodesStatsParams; op_fields r := MkNodesStatsPath (NodesStatsReq_NodeID r) (NodesStatsReq_Metric r) (NodesStatsReq_IndexMetric r);
     op_params := NodesStatsReq_Params; op_defaults := None; op_timeout := NodesStatsParams_TimeoutParams; op_debug := NodesStatsParams_DebugParams;
     op_format := None; op_own := NodesStatsParams_own; op_slots := NodesStatsParams_slots;
     op_body _ := no_body; op_headers r := NodesStatsReq_Header r;
     Method := NodesStats_Method; GetRequest := NodesStatsReq_GetRequest;
     op_keys := ["completion_fields"; "fielddata_fields"; "fields"; "groups"; "include_segment_file_sizes"; "level"; "types"];
     op_described := [("GET", "/_nodes/{node_id}/stats"); ("GET", "/_nodes/{node_id}/stats/{metric}"); ("GET", "/_nodes/{node_id}/stats/{metric}/{index_metric}");
        ("GET", "/_nodes/stats"); ("GET", "/_nodes/stats/{metric}"); ("GET", "/_nodes/stats/{metric}/{index_metric}")];
     op_query := ["completion_fields"; "fielddata_fields"; "fields"; "groups"; "include_segment_file_sizes"; "level"; "types"] |}.
#[export] Instance NodesStats_operates : LawfulOp NodesStatsReq.
Proof. operate. Qed.

Record NodesUsageParams := MkNodesUsageParams { NodesUsageParams_TimeoutParams : TimeoutParams; NodesUsageParams_DebugParams : DebugParams }.
Definition NodesUsageParams_own (q : NodesUsageParams) : list param :=
  [].
Definition NodesUsageParams_slots : list (string * (NodesUsageParams -> slot)) :=
  [].
Definition NodesUsageParams_get (q : NodesUsageParams) : gmap string string :=
  encode_params (EncodeTimeout (NodesUsageParams_TimeoutParams q) ++ EncodeDebug (NodesUsageParams_DebugParams q) ++ NodesUsageParams_own q).
Record NodesUsageReq := MkNodesUsageReq { NodesUsageReq_Metric : list string; NodesUsageReq_NodeID : list string; NodesUsageReq_Header : headers; NodesUsageReq_Params : option NodesUsageParams }.
Definition NodesUsageReq_GetRequest (r : NodesUsageReq) (method : string) : request_error + httpRequest * Z :=
  send method (NodesUsagePath_Build (MkNodesUsagePath (NodesUsageReq_NodeID r) (NodesUsageReq_Metric r)))
    (match NodesUsageReq_Params r with Some q => NodesUsageParams_get q | None => ∅ end)
    no_body (NodesUsageReq_Header r).
Definition NodesUsage_Method (r : NodesUsageReq) : string := "GET".
#[export] Instance NodesUsage_operation : operation NodesUsageReq :=
  {| op_path := MkPathType "NodesUsagePath" NodesUsagePath _ _; op_P := NodesUsageParams; op_fields r := MkNodesUsagePath (NodesUsageReq_NodeID r) (NodesUsageReq_Metric r);
     op_params := NodesUsageReq_Params; op_defaults := None; op_timeout := NodesUsageParams_TimeoutParams; op_debug := NodesUsageParams_DebugParams;
     op_format := None; op_own := NodesUsageParams_own; op_slots := NodesUsageParams_slots;
     op_body _ := no_body; op_headers r := NodesUsageReq_Header r;
     Method := NodesUsage_Method; GetRequest := NodesUsageReq_GetRequest;
     op_keys := [];
     op_described := [("GET", "/_nodes/{node_id}/usage"); ("GET", "/_nodes/{node_id}/usage/{metric}"); ("GET", "/_nodes/usage"); ("GET", "/_nodes/usage/{metric}")];
     op_query := [] |}.
#[export] Instance NodesUsage_operates : LawfulOp NodesUsageReq.
Proof. operate. Qed.

Record RemoteStoreRestoreParams := MkRemoteStoreRestoreParams { RemoteStoreRestoreParams_TimeoutParams : TimeoutParams; RemoteStoreRestoreParams_DebugParams : DebugParams;
  RemoteStoreRestoreParams_WaitForCompletion : option bool }.
Definition RemoteStoreRestoreParams_own (q : RemoteStoreRestoreParams) : list param :=
  [("wait_for_completion", boolPtr (RemoteStoreRestoreParams_WaitForCompletion q))].
Definition RemoteStoreRestoreParams_slots : list (string * (RemoteStoreRestoreParams -> slot)) :=
  [("WaitForCompletion", fun q => BoolPtr (RemoteStoreRestoreParams_WaitForCompletion q))].
Definition RemoteStoreRestoreParams_get (q : RemoteStoreRestoreParams) : gmap string string :=
  encode_params (EncodeTimeout (RemoteStoreRestoreParams_TimeoutParams q) ++ EncodeDebug (RemoteStoreRestoreParams_DebugParams q) ++ RemoteStoreRestoreParams_own q).
Record RemoteStoreRestoreReq := MkRemoteStoreRestoreReq { RemoteStoreRestoreReq_Body : option (option string); RemoteStoreRestoreReq_BodyReader : reader; RemoteStoreRestoreReq_Header : headers;
  RemoteStoreRestoreReq_Params : option RemoteStoreRestoreParams }.
Definition RemoteStoreRestoreReq_GetRequest (r : RemoteStoreRestoreReq) (method : string) : request_error + httpRequest * Z :=
  send method (RemoteStoreRestorePath_Build (MkRemoteStoreRestorePath))
    (match RemoteStoreRestoreReq_Params r with Some q => RemoteStoreRestoreParams_get q | None => ∅ end)
    (json_body (RemoteStoreRestoreReq_Body r) (RemoteStoreRestoreReq_BodyReader r)) (RemoteStoreRestoreReq_Header r).
Definition RemoteStoreRestore_Method (r : RemoteStoreRestoreReq) : string := "POST".
#[export] Instance RemoteStoreRestore_operation : operation RemoteStoreRestoreReq :=
  {| op_path := MkPathType "RemoteStoreRestorePath" RemoteStoreRestorePath _ _; op_P := RemoteStoreRestoreParams; op_fields r := MkRemoteStoreRestorePath;
     op_params := RemoteStoreRestoreReq_Params; op_defaults := None; op_timeout := RemoteStoreRestoreParams_TimeoutParams; op_debug := RemoteStoreRestoreParams_DebugParams;
     op_format := None; op_own := RemoteStoreRestoreParams_own; op_slots := RemoteStoreRestoreParams_slots;
     op_body r := json_body (RemoteStoreRestoreReq_Body r) (RemoteStoreRestoreReq_BodyReader r); op_headers r := RemoteStoreRestoreReq_Header r;
     Method := RemoteStoreRestore_Method; GetRequest := RemoteStoreRestoreReq_GetRequest;
     op_keys := ["wait_for_completion"];
     op_described := [("POST", "/_remotestore/_restore")];
     op_query := ["wait_for_completion"] |}.
#[export] Instance RemoteStoreRestore_operates : LawfulOp RemoteStoreRestoreReq.
Proof. operate. Qed.

Record TasksCancelParams := MkTasksCancelParams { TasksCancelParams_TimeoutParams : TimeoutParams; TasksCancelParams_DebugParams : DebugParams; TasksCancelParams_Actions : list string;
  TasksCancelParams_Nodes : list string; TasksCancelParams_ParentTaskID : string; TasksCancelParams_WaitForCompletion : option bool }.
Definition TasksCancelParams_own (q : TasksCancelParams) : list param :=
  [("actions", joined (TasksCancelParams_Actions q)); ("nodes", joined (TasksCancelParams_Nodes q));
  ("parent_task_id", nonEmpty (TasksCancelParams_ParentTaskID q)); ("wait_for_completion", boolPtr (TasksCancelParams_WaitForCompletion q))].
Definition TasksCancelParams_slots : list (string * (TasksCancelParams -> slot)) :=
  [("Actions", fun q => TextList (TasksCancelParams_Actions q)); ("Nodes", fun q => TextList (TasksCancelParams_Nodes q));
  ("ParentTaskID", fun q => Text (TasksCancelParams_ParentTaskID q)); ("WaitForCompletion", fun q => BoolPtr (TasksCancelParams_WaitForCompletion q))].
Definition TasksCancelParams_get (q : TasksCancelParams) : gmap string string :=
  encode_params (EncodeTimeout (TasksCancelParams_TimeoutParams q) ++ EncodeDebug (TasksCancelParams_DebugParams q) ++ TasksCancelParams_own q).
Record TasksCancelReq := MkTasksCancelReq { TasksCancelReq_TaskID : string; TasksCancelReq_Header : headers; TasksCancelReq_Params : option TasksCancelParams }.
Definition TasksCancelReq_GetRequest (r : TasksCancelReq) (method : string) : request_error + httpRequest * Z :=
  send method (TasksCancelPath_Build (MkTasksCancelPath (TasksCancelReq_TaskID r)))
    (match TasksCancelReq_Params r with Some q => TasksCancelParams_get q | None => ∅ end)
    no_body (TasksCancelReq_Header r).
Definition TasksCancel_Method (r : TasksCancelReq) : string := "POST".
#[export] Instance TasksCancel_operation : operation TasksCancelReq :=
  {| op_path := MkPathType "TasksCancelPath" TasksCancelPath _ _; op_P := TasksCancelParams; op_fields r := MkTasksCancelPath (TasksCancelReq_TaskID r);
     op_params := TasksCancelReq_Params; op_defaults := None; op_timeout := TasksCancelParams_TimeoutParams; op_debug := TasksCancelParams_DebugParams;
     op_format := None; op_own := TasksCancelParams_own; op_slots := TasksCancelParams_slots;
     op_body _ := no_body; op_headers r := TasksCancelReq_Header r;
     Method := TasksCancel_Method; GetRequest := TasksCancelReq_GetRequest;
     op_keys := ["actions"; "nodes"; "parent_task_id"; "wait_for_completion"];
     op_described := [("POST", "/_tasks/_cancel"); ("POST", "/_tasks/{task_id}/_cancel")];
     op_query := ["actions"; "nodes"; "parent_task_id"; "wait_for_completion"] |}.
#[export] Instance TasksCancel_operates : LawfulOp TasksCancelReq.
Proof. operate. Qed.

Record TasksGetParams := MkTasksGetParams { TasksGetParams_TimeoutParams : TimeoutParams; TasksGetParams_DebugParams : DebugParams; TasksGetParams_WaitForCompletion : option bool }.
Definition TasksGetParams_own (q : TasksGetParams) : list param :=
  [("wait_for_completion", boolPtr (TasksGetParams_WaitForCompletion q))].
Definition TasksGetParams_slots : list (string * (TasksGetParams -> slot)) :=
  [("WaitForCompletion", fun q => BoolPtr (TasksGetParams_WaitForCompletion q))].
Definition TasksGetParams_get (q : TasksGetParams) : gmap string string :=
  encode_params (EncodeTimeout (TasksGetParams_TimeoutParams q) ++ EncodeDebug (TasksGetParams_DebugParams q) ++ TasksGetParams_own q).
Record TasksGetReq := MkTasksGetReq { TasksGetReq_TaskID : string; TasksGetReq_Header : headers; TasksGetReq_Params : option TasksGetParams }.
Definition TasksGetReq_GetRequest (r : TasksGetReq) (method : string) : request_error + httpRequest * Z :=
  send method (TasksGetPath_Build (MkTasksGetPath (TasksGetReq_TaskID r)))
    (match TasksGetReq_Params r with Some q => TasksGetParams_get q | None => ∅ end)
    no_body (TasksGetReq_Header r).
Definition TasksGet_Method (r : TasksGetReq) : string := "GET".
#[export] Instance TasksGet_operation : operation TasksGetReq :=
  {| op_path := MkPathType "TasksGetPath" TasksGetPath _ _; op_P := TasksGetParams; op_fields r := MkTasksGetPath (TasksGetReq_TaskID r);
     op_params := TasksGetReq_Params; op_defaults := None; op_timeout := TasksGetParams_TimeoutParams; op_debug := TasksGetParams_DebugParams;
     op_format := None; op_own := TasksGetParams_own; op_slots := TasksGetParams_slots;
     op_body _ := no_body; op_headers r := TasksGetReq_Header r;
     Method := TasksGet_Method; GetRequest := TasksGetReq_GetRequest;
     op_keys := ["wait_for_completion"];
     op_described := [("GET", "/_tasks/{task_id}")];
     op_query := ["wait_for_completion"] |}.
#[export] Instance TasksGet_operates : LawfulOp TasksGetReq.
Proof. operate. Qed.

Record TasksListParams := MkTasksListParams { TasksListParams_TimeoutParams : TimeoutParams; TasksListParams_DebugParams : DebugParams; TasksListParams_Actions : list string;
  TasksListParams_Detailed : option bool; TasksListParams_GroupBy : string; TasksListParams_Nodes : list string; TasksListParams_ParentTaskID : string;
  TasksListParams_WaitForCompletion : option bool }.
Definition TasksListParams_own (q : TasksListParams) : list param :=
  [("actions", joined (TasksListParams_Actions q)); ("detailed", boolPtr (TasksListParams_Detailed q));
  ("group_by", nonEmpty (TasksListParams_GroupBy q)); ("nodes", joined (TasksListParams_Nodes q));
  ("parent_task_id", nonEmpty (TasksListParams_ParentTaskID q)); ("wait_for_completion", boolPtr (TasksListParams_WaitForCompletion q))].
Definition TasksListParams_slots : list (string * (TasksListParams -> slot)) :=
  [("Actions", fun q => TextList (TasksListParams_Actions q)); ("Detailed", fun q => BoolPtr (TasksListParams_Detailed q));
  ("GroupBy", fun q => Text (TasksListParams_GroupBy q)); ("Nodes", fun q => TextList (TasksListParams_Nodes q));
  ("ParentTaskID", fun q => Text (TasksListParams_ParentTaskID q)); ("WaitForCompletion", fun q => BoolPtr (TasksListParams_WaitForCompletion q))].
Definition TasksListParams_get (q : TasksListParams) : gmap string string :=
  encode_params (EncodeTimeout (TasksListParams_TimeoutParams q) ++ EncodeDebug (TasksListParams_DebugParams q) ++ TasksListParams_own q).
Record TasksListReq := MkTasksListReq { TasksListReq_Header : headers; TasksListReq_Params : option TasksListParams }.
Definition TasksListReq_GetRequest (r : TasksListReq) (method : string) : request_error + httpRequest * Z :=
  send method (TasksListPath_Build (MkTasksListPath))
    (match TasksListReq_Params r with Some q => TasksListParams_get q | None => ∅ end)
    no_body (TasksListReq_Header r).
Definition TasksList_Method (r : TasksListReq) : string := "GET".
#[export] Instance TasksList_operation : operation TasksListReq :=
  {| op_path := MkPathType "TasksListPath" TasksListPath _ _; op_P := TasksListParams; op_fields r := MkTasksListPath;
     op_params := TasksListReq_Params; op_defaults := None; op_timeout := TasksListParams_TimeoutParams; op_debug := TasksListParams_DebugParams;
     op_format := None; op_own := TasksListParams_own; op_slots := TasksListParams_slots;
     op_body _ := no_body; op_headers r := TasksListReq_Header r;
     Method := TasksList_Method; GetRequest := TasksListReq_GetRequest;
     op_keys := ["actions"; "detailed"; "group_by"; "nodes"; "parent_task_id"; "wait_for_completion"];
     op_described := [("GET", "/_tasks")];
     op_query := ["actions"; "detailed"; "group_by"; "nodes"; "parent_task_id"; "wait_for_completion"] |}.
#[export] Instance TasksList_operates : LawfulOp TasksListReq.
Proof. operate. Qed.

(** All of them. *)
Definition apiCluster : list operation_type :=
  [MkOperationType "CatAliases" CatAliasesReq _ _; MkOperationType "CatAllPITSegments" CatAllPITSegmentsReq _ _;
   MkOperationType "CatAllocation" CatAllocationReq _ _; MkOperationType "CatClusterManager" CatClusterManagerReq _ _;
   MkOperationType "CatCount" CatCountReq _ _; MkOperationType "CatFielddata" CatFielddataReq _ _;
   MkOperationType "CatHealth" CatHealthReq _ _; MkOperationType "CatHelp" CatHelpReq _ _;
   MkOperationType "CatIndices" CatIndicesReq _ _; MkOperationType "CatMaster" CatMasterReq _ _;
   MkOperationType "CatNodeattrs" CatNodeattrsReq _ _; MkOperationType "CatNodes" CatNodesReq _ _;
   MkOperationType "CatPendingTasks" CatPendingTasksReq _ _; MkOperationType "CatPITSegments" CatPITSegmentsReq _ _;
   MkOperationType "CatPlugins" CatPluginsReq _ _; MkOperationType "CatRecovery" CatRecoveryReq _ _;
   MkOperationType "CatRepositories" CatRepositoriesReq _ _; MkOperationType "CatSegmentReplication" CatSegmentReplicationReq _ _;
   MkOperationType "CatSegments" CatSegmentsReq _ _; MkOperationType "CatShards" CatShardsReq _ _;
   MkOperationType "CatSnapshots" CatSnapshotsReq _ _; MkOperationType "CatTasks" CatTasksReq _ _;
   MkOperationType "CatTemplates" CatTemplatesReq _ _; MkOperationType "CatThreadPool" CatThreadPoolReq _ _;
   MkOperationType "ClusterAllocationExplain" ClusterAllocationExplainReq _ _; MkOperationType "ClusterDeleteComponentTemplate" ClusterDeleteComponentTemplateReq _ _;
   MkOperationType "ClusterDeleteDecommissionAwareness" ClusterDeleteDecommissionAwarenessReq _ _; MkOperationType "ClusterDeleteVotingConfigExclusions" ClusterDeleteVotingConfigExclusionsReq _ _;
   MkOperationType "ClusterDeleteWeightedRouting" ClusterDeleteWeightedRoutingReq _ _; MkOperationType "ClusterExistsComponentTemplate" ClusterExistsComponentTemplateReq _ _;
   MkOperationType "ClusterGetComponentTemplate" ClusterGetComponentTemplateReq _ _; MkOperationType "ClusterGetDecommissionAwareness" ClusterGetDecommissionAwarenessReq _ _;
   MkOperationType "ClusterGetSettings" ClusterGetSettingsReq _ _; MkOperationType "ClusterGetWeightedRouting" ClusterGetWeightedRoutingReq _ _;
   MkOperationType "ClusterHealth" ClusterHealthReq _ _; MkOperationType "ClusterPendingTasks" ClusterPendingTasksReq _ _;
   MkOperationType "ClusterPostVotingConfigExclusions" ClusterPostVotingConfigExclusionsReq _ _; MkOperationType "ClusterPutComponentTemplate" ClusterPutComponentTemplateReq _ _;
   MkOperationType "ClusterPutDecommissionAwareness" ClusterPutDecommissionAwarenessReq _ _; MkOperationType "ClusterPutSettings" ClusterPutSettingsReq _ _;
   MkOperationType "ClusterPutWeightedRouting" ClusterPutWeightedRoutingReq _ _; MkOperationType "ClusterRemoteInfo" ClusterRemoteInfoReq _ _;
   MkOperationType "ClusterReroute" ClusterRerouteReq _ _; MkOperationType "ClusterState" ClusterStateReq _ _;
   MkOperationType "ClusterStats" ClusterStatsReq _ _; MkOperationType "DanglingIndicesDeleteDanglingIndex" DanglingIndicesDeleteDanglingIndexReq _ _;
   MkOperationType "DanglingIndicesImportDanglingIndex" DanglingIndicesImportDanglingIndexReq _ _; MkOperationType "DanglingIndicesListDanglingIndices" DanglingIndicesListDanglingIndicesReq _ _;
   MkOperationType "NodesHotThreads" NodesHotThreadsReq _ _; MkOperationType "NodesInfo" NodesInfoReq _ _;
   MkOperationType "NodesReloadSecureSettings" NodesReloadSecureSettingsReq _ _; MkOperationType "NodesStats" NodesStatsReq _ _;
   MkOperationType "NodesUsage" NodesUsageReq _ _; MkOperationType "RemoteStoreRestore" RemoteStoreRestoreReq _ _;
   MkOperationType "TasksCancel" TasksCancelReq _ _; MkOperationType "TasksGet" TasksGetReq _ _;
   MkOperationType "TasksList" TasksListReq _ _].
