(* ===== verification/ApiIndices.v ===== *)
(** * Requests for indices and snapshots

    The request types of opensearchapi and plugins for indices and snapshots: the parameters
    with their [get], GetRequest, and the method of the client's call, each
    with its instance of [operation] and the part of opensearch-openapi.yaml it is
    compared with. *)

From Stdlib Require Import ZArith Ascii String.
From stdpp Require Import base gmap list strings.
From S2P Require Import Paths.
From S2P Require Import Stream.
From S2P Require Import PathsIndices.
From S2P Require Import ReqBuild.
From S2P Require Import ApiRequest.
Open Scope string_scope.
Open Scope list_scope.

Record IndicesAddBlockParams := MkIndicesAddBlockParams { IndicesAddBlockParams_TimeoutParams : TimeoutParams; IndicesAddBlockParams_DebugParams : DebugParams;
  IndicesAddBlockParams_AllowNoIndices : option bool; IndicesAddBlockParams_ExpandWildcards : list string;
  IndicesAddBlockParams_IgnoreUnavailable : option bool }.
Definition IndicesAddBlockParams_own (q : IndicesAddBlockParams) : list param :=
  [("allow_no_indices", boolPtr (IndicesAddBlockParams_AllowNoIndices q)); ("expand_wildcards", joined (IndicesAddBlockParams_ExpandWildcards q));
  ("ignore_unavailable", boolPtr (IndicesAddBlockParams_IgnoreUnavailable q))].
Definition IndicesAddBlockParams_slots : list (string * (IndicesAddBlockParams -> slot)) :=
  [("AllowNoIndices", fun q => BoolPtr (IndicesAddBlockParams_AllowNoIndices q));
  ("ExpandWildcards", fun q => TextList (IndicesAddBlockParams_ExpandWildcards q));
  ("IgnoreUnavailable", fun q => BoolPtr (IndicesAddBlockParams_IgnoreUnavailable q))].
Definition IndicesAddBlockParams_get (q : IndicesAddBlockParams) : gmap string string :=
  encode_params (EncodeTimeout (IndicesAddBlockParams_TimeoutParams q) ++ EncodeDebug (IndicesAddBlockParams_DebugParams q) ++ IndicesAddBlockParams_own q).
Record IndicesAddBlockReq := MkIndicesAddBlockReq { IndicesAddBlockReq_Indices : list string; IndicesAddBlockReq_Block : string; IndicesAddBlockReq_Header : headers;
  IndicesAddBlockReq_Params : option IndicesAddBlockParams }.
Definition IndicesAddBlockReq_GetRequest (r : IndicesAddBlockReq) (method : string) : request_error + httpRequest * Z :=
  send method (IndicesAddBlockPath_Build (MkIndicesAddBlockPath (IndicesAddBlockReq_Indices r) (IndicesAddBlockReq_Block r)))
    (match IndicesAddBlockReq_Params r with Some q => IndicesAddBlockParams_get q | None => ∅ end)
    no_body (IndicesAddBlockReq_Header r).
Definition IndicesAddBlock_Method (r : IndicesAddBlockReq) : string := "PUT".
#[export] Instance IndicesAddBlock_operation : operation IndicesAddBlockReq :=
  {| op_path := MkPathType "IndicesAddBlockPath" IndicesAddBlockPath _ _; op_P := IndicesAddBlockParams; op_fields r := MkIndicesAddBlockPath (IndicesAddBlockReq_Indices r) (IndicesAddBlockReq_Block r);
     op_params := IndicesAddBlockReq_Params; op_defaults := None; op_timeout := IndicesAddBlockParams_TimeoutParams; op_debug := IndicesAddBlockParams_DebugParams;
     op_format := None; op_own := IndicesAddBlockParams_own; op_slots := IndicesAddBlockParams_slots;
     op_body _ := no_body; op_headers r := IndicesAddBlockReq_Header r;
     Method := IndicesAddBlock_Method; GetRequest := IndicesAddBlockReq_GetRequest;
     op_keys := ["allow_no_indices"; "expand_wildcards"; "ignore_unavailable"];
     op_described := [("PUT", "/{index}/_block/{block}")];
     op_query := ["allow_no_indices"; "expand_wildcards"; "ignore_unavailable"] |}.
#[export] Instance IndicesAddBlock_operates : LawfulOp IndicesAddBlockReq.
Proof. operate. Qed.

Record IndicesAnalyzeParams := MkIndicesAnalyzeParams { IndicesAnalyzeParams_TimeoutParams : TimeoutParams; IndicesAnalyzeParams_DebugParams : DebugParams; IndicesAnalyzeParams_Index : string }.
Definition IndicesAnalyzeParams_own (q : IndicesAnalyzeParams) : list param :=
  [("index", nonEmpty (IndicesAnalyzeParams_Index q))].
Definition IndicesAnalyzeParams_slots : list (string * (IndicesAnalyzeParams -> slot)) :=
  [("Index", fun q => Text (IndicesAnalyzeParams_Index q))].
Definition IndicesAnalyzeParams_get (q : IndicesAnalyzeParams) : gmap string string :=
  encode_params (EncodeTimeout (IndicesAnalyzeParams_TimeoutParams q) ++ EncodeDebug (IndicesAnalyzeParams_DebugParams q) ++ IndicesAnalyzeParams_own q).
Record IndicesAnalyzeReq := MkIndicesAnalyzeReq { IndicesAnalyzeReq_Index : string; IndicesAnalyzeReq_Body : option (option string); IndicesAnalyzeReq_BodyReader : reader;
  IndicesAnalyzeReq_Header : headers; IndicesAnalyzeReq_Params : option IndicesAnalyzeParams }.
Definition IndicesAnalyzeReq_GetRequest (r : IndicesAnalyzeReq) (method : string) : request_error + httpRequest * Z :=
  send method (IndicesAnalyzePath_Build (MkIndicesAnalyzePath (IndicesAnalyzeReq_Index r)))
    (match IndicesAnalyzeReq_Params r with Some q => IndicesAnalyzeParams_get q | None => ∅ end)
    (json_body (IndicesAnalyzeReq_Body r) (IndicesAnalyzeReq_BodyReader r)) (IndicesAnalyzeReq_Header r).
Definition IndicesAnalyze_Method (r : IndicesAnalyzeReq) : string := method_by_body (IndicesAnalyzeReq_Body r) (IndicesAnalyzeReq_BodyReader r).
#[export] Instance IndicesAnalyze_operation : operation IndicesAnalyzeReq :=
  {| op_path := MkPathType "IndicesAnalyzePath" IndicesAnalyzePath _ _; op_P := IndicesAnalyzeParams; op_fields r := MkIndicesAnalyzePath (IndicesAnalyzeReq_Index r);
     op_params := IndicesAnalyzeReq_Params; op_defaults := None; op_timeout := IndicesAnalyzeParams_TimeoutParams; op_debug := IndicesAnalyzeParams_DebugParams;
     op_format := None; op_own := IndicesAnalyzeParams_own; op_slots := IndicesAnalyzeParams_slots;
     op_body r := json_body (IndicesAnalyzeReq_Body r) (IndicesAnalyzeReq_BodyReader r); op_headers r := IndicesAnalyzeReq_Header r;
     Method := IndicesAnalyze_Method; GetRequest := IndicesAnalyzeReq_GetRequest;
     op_keys := ["index"];
     op_described := [("GET", "/_analyze"); ("POST", "/_analyze"); ("GET", "/{index}/_analyze"); ("POST", "/{index}/_analyze")];
     op_query := ["index"] |}.
#[export] Instance IndicesAnalyze_operates : LawfulOp IndicesAnalyzeReq.
Proof. operate. Qed.

Record IndicesClearCacheParams := MkIndicesClearCacheParams { IndicesClearCacheParams_TimeoutParams : TimeoutParams; IndicesClearCacheParams_DebugParams : DebugParams;
  IndicesClearCacheParams_AllowNoIndices : option bool; IndicesClearCacheParams_ExpandWildcards : list string;
  IndicesClearCacheParams_Fielddata : option bool; IndicesClearCacheParams_Fields : list string; IndicesClearCacheParams_File : option bool;
  IndicesClearCacheParams_IgnoreUnavailable : option bool; IndicesClearCacheParams_Indices : list string; IndicesClearCacheParams_Query : option bool;
  IndicesClearCacheParams_Request : option bool }.
Definition IndicesClearCacheParams_own (q : IndicesClearCacheParams) : list param :=
  [("allow_no_indices", boolPtr (IndicesClearCacheParams_AllowNoIndices q)); ("expand_wildcards", joined (IndicesClearCacheParams_ExpandWildcards q));
  ("fielddata", boolPtr (IndicesClearCacheParams_Fielddata q)); ("fields", joined (IndicesClearCacheParams_Fields q));
  ("file", boolPtr (IndicesClearCacheParams_File q)); ("ignore_unavailable", boolPtr (IndicesClearCacheParams_IgnoreUnavailable q));
  ("index", joined (IndicesClearCacheParams_Indices q)); ("query", boolPtr (IndicesClearCacheParams_Query q));
  ("request", boolPtr (IndicesClearCacheParams_Request q))].
Definition IndicesClearCacheParams_slots : list (string * (IndicesClearCacheParams -> slot)) :=
  [("AllowNoIndices", fun q => BoolPtr (IndicesClearCacheParams_AllowNoIndices q));
  ("ExpandWildcards", fun q => TextList (IndicesClearCacheParams_ExpandWildcards q));
  ("Fielddata", fun q => BoolPtr (IndicesClearCacheParams_Fielddata q)); ("Fields", fun q => TextList (IndicesClearCacheParams_Fields q));
  ("File", fun q => BoolPtr (IndicesClearCacheParams_File q)); ("IgnoreUnavailable", fun q => BoolPtr (IndicesClearCacheParams_IgnoreUnavailable q));
  ("Indices", fun q => TextList (IndicesClearCacheParams_Indices q)); ("Query", fun q => BoolPtr (IndicesClearCacheParams_Query q));
  ("Request", fun q => BoolPtr (IndicesClearCacheParams_Request q))].
Definition IndicesClearCacheParams_get (q : IndicesClearCacheParams) : gmap string string :=
  encode_params (EncodeTimeout (IndicesClearCacheParams_TimeoutParams q) ++ EncodeDebug (IndicesClearCacheParams_DebugParams q) ++ IndicesClearCacheParams_own q).
Record IndicesClearCacheReq := MkIndicesClearCacheReq { IndicesClearCacheReq_Indices : list string; IndicesClearCacheReq_Header : headers; IndicesClearCacheReq_Params : option IndicesClearCacheParams }.
Definition IndicesClearCacheReq_GetRequest (r : IndicesClearCacheReq) (method : string) : request_error + httpRequest * Z :=
  send method (IndicesClearCachePath_Build (MkIndicesClearCachePath (IndicesClearCacheReq_Indices r)))
    (match IndicesClearCacheReq_Params r with Some q => IndicesClearCacheParams_get q | None => ∅ end)
    no_body (IndicesClearCacheReq_Header r).
Definition IndicesClearCache_Method (r : IndicesClearCacheReq) : string := "POST".
#[export] Instance IndicesClearCache_operation : operation IndicesClearCacheReq :=
  {| op_path := MkPathType "IndicesClearCachePath" IndicesClearCachePath _ _; op_P := IndicesClearCacheParams; op_fields r := MkIndicesClearCachePath (IndicesClearCacheReq_Indices r);
     op_params := IndicesClearCacheReq_Params; op_defaults := None; op_timeout := IndicesClearCacheParams_TimeoutParams; op_debug := IndicesClearCacheParams_DebugParams;
     op_format := None; op_own := IndicesClearCacheParams_own; op_slots := IndicesClearCacheParams_slots;
     op_body _ := no_body; op_headers r := IndicesClearCacheReq_Header r;
     Method := IndicesClearCache_Method; GetRequest := IndicesClearCacheReq_GetRequest;
     op_keys := ["allow_no_indices"; "expand_wildcards"; "fielddata"; "fields"; "file"; "ignore_unavailable"; "index"; "query"; "request"];
     op_described := [("POST", "/_cache/clear"); ("POST", "/{index}/_cache/clear")];
     op_query := ["allow_no_indices"; "expand_wildcards"; "fielddata"; "fields"; "file"; "ignore_unavailable"; "index"; "query"; "request"] |}.
#[export] Instance IndicesClearCache_operates : LawfulOp IndicesClearCacheReq.
Proof. operate. Qed.

Record IndicesCloneParams := MkIndicesCloneParams { IndicesCloneParams_TimeoutParams : TimeoutParams; IndicesCloneParams_DebugParams : DebugParams; IndicesCloneParams_TaskExecutionTimeout : Z;
  IndicesCloneParams_WaitForActiveShards : string; IndicesCloneParams_WaitForCompletion : option bool }.
Definition IndicesCloneParams_own (q : IndicesCloneParams) : list param :=
  [("task_execution_timeout", duration (IndicesCloneParams_TaskExecutionTimeout q));
  ("wait_for_active_shards", nonEmpty (IndicesCloneParams_WaitForActiveShards q));
  ("wait_for_completion", boolPtr (IndicesCloneParams_WaitForCompletion q))].
Definition IndicesCloneParams_slots : list (string * (IndicesCloneParams -> slot)) :=
  [("TaskExecutionTimeout", fun q => Duration (IndicesCloneParams_TaskExecutionTimeout q));
  ("WaitForActiveShards", fun q => Text (IndicesCloneParams_WaitForActiveShards q));
  ("WaitForCompletion", fun q => BoolPtr (IndicesCloneParams_WaitForCompletion q))].
Definition IndicesCloneParams_get (q : IndicesCloneParams) : gmap string string :=
  encode_params (EncodeTimeout (IndicesCloneParams_TimeoutParams q) ++ EncodeDebug (IndicesCloneParams_DebugParams q) ++ IndicesCloneParams_own q).
Record IndicesCloneReq := MkIndicesCloneReq { IndicesCloneReq_Index : string; IndicesCloneReq_Target : string; IndicesCloneReq_Body : option (option string); IndicesCloneReq_BodyReader : reader;
  IndicesCloneReq_Header : headers; IndicesCloneReq_Params : option IndicesCloneParams }.
Definition IndicesCloneReq_GetRequest (r : IndicesCloneReq) (method : string) : request_error + httpRequest * Z :=
  send method (IndicesClonePath_Build (MkIndicesClonePath (IndicesCloneReq_Index r) (IndicesCloneReq_Target r)))
    (match IndicesCloneReq_Params r with Some q => IndicesCloneParams_get q | None => ∅ end)
    (json_body (IndicesCloneReq_Body r) (IndicesCloneReq_BodyReader r)) (IndicesCloneReq_Header r).
Definition IndicesClone_Method (r : IndicesCloneReq) : string := "POST".
#[export] Instance IndicesClone_operation : operation IndicesCloneReq :=
  {| op_path := MkPathType "IndicesClonePath" IndicesClonePath _ _; op_P := IndicesCloneParams; op_fields r := MkIndicesClonePath (IndicesCloneReq_Index r) (IndicesCloneReq_Target r);
     op_params := IndicesCloneReq_Params; op_defaults := None; op_timeout := IndicesCloneParams_TimeoutParams; op_debug := IndicesCloneParams_DebugParams;
     op_format := None; op_own := IndicesCloneParams_own; op_slots := IndicesCloneParams_slots;
     op_body r := json_body (IndicesCloneReq_Body r) (IndicesCloneReq_BodyReader r); op_headers r := IndicesCloneReq_Header r;
     Method := IndicesClone_Method; GetRequest := IndicesCloneReq_GetRequest;
     op_keys := ["task_execution_timeout"; "wait_for_active_shards"; "wait_for_completion"];
     op_described := [("POST", "/{index}/_clone/{target}"); ("PUT", "/{index}/_clone/{target}")];
     op_query := ["task_execution_timeout"; "wait_for_active_shards"; "wait_for_completion"] |}.
#[export] Instance IndicesClone_operates : LawfulOp IndicesCloneReq.
Proof. operate. Qed.

Record IndicesCloseParams := MkIndicesCloseParams { IndicesCloseParams_TimeoutParams : TimeoutParams; IndicesCloseParams_DebugParams : DebugParams; IndicesCloseParams_AllowNoIndices : option bool;
  IndicesCloseParams_ExpandWildcards : list string; IndicesCloseParams_IgnoreUnavailable : option bool; IndicesCloseParams_WaitForActiveShards : string }.
Definition IndicesCloseParams_own (q : IndicesCloseParams) : list param :=
  [("allow_no_indices", boolPtr (IndicesCloseParams_AllowNoIndices q)); ("expand_wildcards", joined (IndicesCloseParams_ExpandWildcards q));
  ("ignore_unavailable", boolPtr (IndicesCloseParams_IgnoreUnavailable q));
  ("wait_for_active_shards", nonEmpty (IndicesCloseParams_WaitForActiveShards q))].
Definition IndicesCloseParams_slots : list (string * (IndicesCloseParams -> slot)) :=
  [("AllowNoIndices", fun q => BoolPtr (IndicesCloseParams_AllowNoIndices q));
  ("ExpandWildcards", fun q => TextList (IndicesCloseParams_ExpandWildcards q));
  ("IgnoreUnavailable", fun q => BoolPtr (IndicesCloseParams_IgnoreUnavailable q));
  ("WaitForActiveShards", fun q => Text (IndicesCloseParams_WaitForActiveShards q))].
Definition IndicesCloseParams_get (q : IndicesCloseParams) : gmap string string :=
  encode_params (EncodeTimeout (IndicesCloseParams_TimeoutParams q) ++ EncodeDebug (IndicesCloseParams_DebugParams q) ++ IndicesCloseParams_own q).
Record IndicesCloseReq := MkIndicesCloseReq { IndicesCloseReq_Indices : list string; IndicesCloseReq_Header : headers; IndicesCloseReq_Params : option IndicesCloseParams }.
Definition IndicesCloseReq_GetRequest (r : IndicesCloseReq) (method : string) : request_error + httpRequest * Z :=
  send method (IndicesClosePath_Build (MkIndicesClosePath (IndicesCloseReq_Indices r)))
    (match IndicesCloseReq_Params r with Some q => IndicesCloseParams_get q | None => ∅ end)
    no_body (IndicesCloseReq_Header r).
Definition IndicesClose_Method (r : IndicesCloseReq) : string := "POST".
#[export] Instance IndicesClose_operation : operation IndicesCloseReq :=
  {| op_path := MkPathType "IndicesClosePath" IndicesClosePath _ _; op_P := IndicesCloseParams; op_fields r := MkIndicesClosePath (IndicesCloseReq_Indices r);
     op_params := IndicesCloseReq_Params; op_defaults := None; op_timeout := IndicesCloseParams_TimeoutParams; op_debug := IndicesCloseParams_DebugParams;
     op_format := None; op_own := IndicesCloseParams_own; op_slots := IndicesCloseParams_slots;
     op_body _ := no_body; op_headers r := IndicesCloseReq_Header r;
     Method := IndicesClose_Method; GetRequest := IndicesCloseReq_GetRequest;
     op_keys := ["allow_no_indices"; "expand_wildcards"; "ignore_unavailable"; "wait_for_active_shards"];
     op_described := [("POST", "/{index}/_close")];
     op_query := ["allow_no_indices"; "expand_wildcards"; "ignore_unavailable"; "wait_for_active_shards"] |}.
#[export] Instance IndicesClose_operates : LawfulOp IndicesCloseReq.
Proof. operate. Qed.

Record IndicesCreateParams := MkIndicesCreateParams { IndicesCreateParams_TimeoutParams : TimeoutParams; IndicesCreateParams_DebugParams : DebugParams; IndicesCreateParams_WaitForActiveShards : string }.
Definition IndicesCreateParams_own (q : IndicesCreateParams) : list param :=
  [("wait_for_active_shards", nonEmpty (IndicesCreateParams_WaitForActiveShards q))].
Definition IndicesCreateParams_slots : list (string * (IndicesCreateParams -> slot)) :=
  [("WaitForActiveShards", fun q => Text (IndicesCreateParams_WaitForActiveShards q))].
Definition IndicesCreateParams_get (q : IndicesCreateParams) : gmap string string :=
  encode_params (EncodeTimeout (IndicesCreateParams_TimeoutParams q) ++ EncodeDebug (IndicesCreateParams_DebugParams q) ++ IndicesCreateParams_own q).
Record IndicesCreateReq := MkIndicesCreateReq { IndicesCreateReq_Index : string; IndicesCreateReq_Body : option (option string); IndicesCreateReq_BodyReader : reader;
  IndicesCreateReq_Header : headers; IndicesCreateReq_Params : option IndicesCreateParams }.
Definition IndicesCreateReq_GetRequest (r : IndicesCreateReq) (method : string) : request_error + httpRequest * Z :=
  send method (IndicesCreatePath_Build (MkIndicesCreatePath (IndicesCreateReq_Index r)))
    (match IndicesCreateReq_Params r with Some q => IndicesCreateParams_get q | None => ∅ end)
    (json_body (IndicesCreateReq_Body r) (IndicesCreateReq_BodyReader r)) (IndicesCreateReq_Header r).
Definition IndicesCreate_Method (r : IndicesCreateReq) : string := "PUT".
#[export] Instance IndicesCreate_operation : operation IndicesCreateReq :=
  {| op_path := MkPathType "IndicesCreatePath" IndicesCreatePath _ _; op_P := IndicesCreateParams; op_fields r := MkIndicesCreatePath (IndicesCreateReq_Index r);
     op_params := IndicesCreateReq_Params; op_defaults := None; op_timeout := IndicesCreateParams_TimeoutParams; op_debug := IndicesCreateParams_DebugParams;
     op_format := None; op_own := IndicesCreateParams_own; op_slots := IndicesCreateParams_slots;
     op_body r := json_body (IndicesCreateReq_Body r) (IndicesCreateReq_BodyReader r); op_headers r := IndicesCreateReq_Header r;
     Method := IndicesCreate_Method; GetRequest := IndicesCreateReq_GetRequest;
     op_keys := ["wait_for_active_shards"];
     op_described := [("PUT", "/{index}")];
     op_query := ["wait_for_active_shards"] |}.
#[export] Instance IndicesCreate_operates : LawfulOp IndicesCreateReq.
Proof. operate. Qed.

Record IndicesCreateDataStreamParams := MkIndicesCreateDataStreamParams { IndicesCreateDataStreamParams_TimeoutParams : TimeoutParams; IndicesCreateDataStreamParams_DebugParams : DebugParams }.
Definition IndicesCreateDataStreamParams_own (q : IndicesCreateDataStreamParams) : list param :=
  [].
Definition IndicesCreateDataStreamParams_slots : list (string * (IndicesCreateDataStreamParams -> slot)) :=
  [].
Definition IndicesCreateDataStreamParams_get (q : IndicesCreateDataStreamParams) : gmap string string :=
  encode_params (EncodeTimeout (IndicesCreateDataStreamParams_TimeoutParams q) ++ EncodeDebug (IndicesCreateDataStreamParams_DebugParams q) ++ IndicesCreateDataStreamParams_own q).
Record IndicesCreateDataStreamReq := MkIndicesCreateDataStreamReq { IndicesCreateDataStreamReq_Name : string; IndicesCreateDataStreamReq_Body : reader; IndicesCreateDataStreamReq_Header : headers;
  IndicesCreateDataStreamReq_Params : option IndicesCreateDataStreamParams }.
Definition IndicesCreateDataStreamReq_GetRequest (r : IndicesCreateDataStreamReq) (method : string) : request_error + httpRequest * Z :=
  send method (IndicesCreateDataStreamPath_Build (MkIndicesCreateDataStreamPath (IndicesCreateDataStreamReq_Name r)))
    (match IndicesCreateDataStreamReq_Params r with Some q => IndicesCreateDataStreamParams_get q | None => ∅ end)
    (raw_body (IndicesCreateDataStreamReq_Body r)) (IndicesCreateDataStreamReq_Header r).
Definition IndicesCreateDataStream_Method (r : IndicesCreateDataStreamReq) : string := "PUT".
#[export] Instance IndicesCreateDataStream_operation : operation IndicesCreateDataStreamReq :=
  {| op_path := MkPathType "IndicesCreateDataStreamPath" IndicesCreateDataStreamPath _ _; op_P := IndicesCreateDataStreamParams; op_fields r := MkIndicesCreateDataStreamPath (IndicesCreateDataStreamReq_Name r);
     op_params := IndicesCreateDataStreamReq_Params; op_defaults := None; op_timeout := IndicesCreateDataStreamParams_TimeoutParams; op_debug := IndicesCreateDataStreamParams_DebugParams;
     op_format := None; op_own := IndicesCreateDataStreamParams_own; op_slots := IndicesCreateDataStreamParams_slots;
     op_body r := raw_body (IndicesCreateDataStreamReq_Body r); op_headers r := IndicesCreateDataStreamReq_Header r;
     Method := IndicesCreateDataStream_Method; GetRequest := IndicesCreateDataStreamReq_GetRequest;
     op_keys := [];
     op_described := [("PUT", "/_data_stream/{name}")];
     op_query := [] |}.
#[export] Instance IndicesCreateDataStream_operates : LawfulOp IndicesCreateDataStreamReq.
Proof. operate. Qed.

Record IndicesDataStreamsStatsParams := MkIndicesDataStreamsStatsParams { IndicesDataStreamsStatsParams_TimeoutParams : TimeoutParams; IndicesDataStreamsStatsParams_DebugParams : DebugParams }.
Definition IndicesDataStreamsStatsParams_own (q : IndicesDataStreamsStatsParams) : list param :=
  [].
Definition IndicesDataStreamsStatsParams_slots : list (string * (IndicesDataStreamsStatsParams -> slot)) :=
  [].
Definition IndicesDataStreamsStatsParams_get (q : IndicesDataStreamsStatsParams) : gmap string string :=
  encode_params (EncodeTimeout (IndicesDataStreamsStatsParams_TimeoutParams q) ++ EncodeDebug (IndicesDataStreamsStatsParams_DebugParams q) ++ IndicesDataStreamsStatsParams_own q).
Record IndicesDataStreamsStatsReq := MkIndicesDataStreamsStatsReq { IndicesDataStreamsStatsReq_Name : list string; IndicesDataStreamsStatsReq_Header : headers;
  IndicesDataStreamsStatsReq_Params : option IndicesDataStreamsStatsParams }.
Definition IndicesDataStreamsStatsReq_GetRequest (r : IndicesDataStreamsStatsReq) (method : string) : request_error + httpRequest * Z :=
  send method (IndicesDataStreamsStatsPath_Build (MkIndicesDataStreamsStatsPath (IndicesDataStreamsStatsReq_Name r)))
    (match IndicesDataStreamsStatsReq_Params r with Some q => IndicesDataStreamsStatsParams_get q | None => ∅ end)
    no_body (IndicesDataStreamsStatsReq_Header r).
Definition IndicesDataStreamsStats_Method (r : IndicesDataStreamsStatsReq) : string := "GET".
#[export] Instance IndicesDataStreamsStats_operation : operation IndicesDataStreamsStatsReq :=
  {| op_path := MkPathType "IndicesDataStreamsStatsPath" IndicesDataStreamsStatsPath _ _; op_P := IndicesDataStreamsStatsParams; op_fields r := MkIndicesDataStreamsStatsPath (IndicesDataStreamsStatsReq_Name r);
     op_params := IndicesDataStreamsStatsReq_Params; op_defaults := None; op_timeout := IndicesDataStreamsStatsParams_TimeoutParams; op_debug := IndicesDataStreamsStatsParams_DebugParams;
     op_format := None; op_own := IndicesDataStreamsStatsParams_own; op_slots := IndicesDataStreamsStatsParams_slots;
     op_body _ := no_body; op_headers r := IndicesDataStreamsStatsReq_Header r;
     Method := IndicesDataStreamsStats_Method; GetRequest := IndicesDataStreamsStatsReq_GetRequest;
     op_keys := [];
     op_described := [("GET", "/_data_stream/_stats"); ("GET", "/_data_stream/{name}/_stats")];
     op_query := [] |}.
#[export] Instance IndicesDataStreamsStats_operates : LawfulOp IndicesDataStreamsStatsReq.
Proof. operate. Qed.

Record IndicesDeleteParams := MkIndicesDeleteParams { IndicesDeleteParams_TimeoutParams : TimeoutParams; IndicesDeleteParams_DebugParams : DebugParams; IndicesDeleteParams_AllowNoIndices : option bool;
  IndicesDeleteParams_ExpandWildcards : list string; IndicesDeleteParams_IgnoreUnavailable : option bool }.
Definition IndicesDeleteParams_own (q : IndicesDeleteParams) : list param :=
  [("allow_no_indices", boolPtr (IndicesDeleteParams_AllowNoIndices q)); ("expand_wildcards", joined (IndicesDeleteParams_ExpandWildcards q));
  ("ignore_unavailable", boolPtr (IndicesDeleteParams_IgnoreUnavailable q))].
Definition IndicesDeleteParams_slots : list (string * (IndicesDeleteParams -> slot)) :=
  [("AllowNoIndices", fun q => BoolPtr (IndicesDeleteParams_AllowNoIndices q));
  ("ExpandWildcards", fun q => TextList (IndicesDeleteParams_ExpandWildcards q));
  ("IgnoreUnavailable", fun q => BoolPtr (IndicesDeleteParams_IgnoreUnavailable q))].
Definition IndicesDeleteParams_get (q : IndicesDeleteParams) : gmap string string :=
  encode_params (EncodeTimeout (IndicesDeleteParams_TimeoutParams q) ++ EncodeDebug (IndicesDeleteParams_DebugParams q) ++ IndicesDeleteParams_own q).
Record IndicesDeleteReq := MkIndicesDeleteReq { IndicesDeleteReq_Indices : list string; IndicesDeleteReq_Header : headers; IndicesDeleteReq_Params : option IndicesDeleteParams }.
Definition IndicesDeleteReq_GetRequest (r : IndicesDeleteReq) (method : string) : request_error + httpRequest * Z :=
  send method (IndicesDeletePath_Build (MkIndicesDeletePath (IndicesDeleteReq_Indices r)))
    (match IndicesDeleteReq_Params r with Some q => IndicesDeleteParams_get q | None => ∅ end)
    no_body (IndicesDeleteReq_Header r).
Definition IndicesDelete_Method (r : IndicesDeleteReq) : string := "DELETE".
#[export] Instance IndicesDelete_operation : operation IndicesDeleteReq :=
  {| op_path := MkPathType "IndicesDeletePath" IndicesDeletePath _ _; op_P := IndicesDeleteParams; op_fields r := MkIndicesDeletePath (IndicesDeleteReq_Indices r);
     op_params := IndicesDeleteReq_Params; op_defaults := None; op_timeout := IndicesDeleteParams_TimeoutParams; op_debug := IndicesDeleteParams_DebugParams;
     op_format := None; op_own := IndicesDeleteParams_own; op_slots := IndicesDeleteParams_slots;
     op_body _ := no_body; op_headers r := IndicesDeleteReq_Header r;
     Method := IndicesDelete_Method; GetRequest := IndicesDeleteReq_GetRequest;
     op_keys := ["allow_no_indices"; "expand_wildcards"; "ignore_unavailable"];
     op_described := [("DELETE", "/{index}")];
     op_query := ["allow_no_indices"; "expand_wildcards"; "ignore_unavailable"] |}.
#[export] Instance IndicesDelete_operates : LawfulOp IndicesDeleteReq.
Proof. operate. Qed.

Record IndicesDeleteAliasParams := MkIndicesDeleteAliasParams { IndicesDeleteAliasParams_TimeoutParams : TimeoutParams; IndicesDeleteAliasParams_DebugParams : DebugParams }.
Definition IndicesDeleteAliasParams_own (q : IndicesDeleteAliasParams) : list param :=
  [].
Definition IndicesDeleteAliasParams_slots : list (string * (IndicesDeleteAliasParams -> slot)) :=
  [].
Definition IndicesDeleteAliasParams_get (q : IndicesDeleteAliasParams) : gmap string string :=
  encode_params (EncodeTimeout (IndicesDeleteAliasParams_TimeoutParams q) ++ EncodeDebug (IndicesDeleteAliasParams_DebugParams q) ++ IndicesDeleteAliasParams_own q).
Record IndicesDeleteAliasReq := MkIndicesDeleteAliasReq { IndicesDeleteAliasReq_Indices : list string; IndicesDeleteAliasReq_Name : list string; IndicesDeleteAliasReq_Header : headers;
  IndicesDeleteAliasReq_Params : option IndicesDeleteAliasParams }.
Definition IndicesDeleteAliasReq_GetRequest (r : IndicesDeleteAliasReq) (method : string) : request_error + httpRequest * Z :=
  send method (IndicesDeleteAliasPath_Build (MkIndicesDeleteAliasPath (IndicesDeleteAliasReq_Indices r) (IndicesDeleteAliasReq_Name r)))
    (match IndicesDeleteAliasReq_Params r with Some q => IndicesDeleteAliasParams_get q | None => ∅ end)
    no_body (IndicesDeleteAliasReq_Header r).
Definition IndicesDeleteAlias_Method (r : IndicesDeleteAliasReq) : string := "DELETE".
#[export] Instance IndicesDeleteAlias_operation : operation IndicesDeleteAliasReq :=
  {| op_path := MkPathType "IndicesDeleteAliasPath" IndicesDeleteAliasPath _ _; op_P := IndicesDeleteAliasParams; op_fields r := MkIndicesDeleteAliasPath (IndicesDeleteAliasReq_Indices r) (IndicesDeleteAliasReq_Name r);
     op_params := IndicesDeleteAliasReq_Params; op_defaults := None; op_timeout := IndicesDeleteAliasParams_TimeoutParams; op_debug := IndicesDeleteAliasParams_DebugParams;
     op_format := None; op_own := IndicesDeleteAliasParams_own; op_slots := IndicesDeleteAliasParams_slots;
     op_body _ := no_body; op_headers r := IndicesDeleteAliasReq_Header r;
     Method := IndicesDeleteAlias_Method; GetRequest := IndicesDeleteAliasReq_GetRequest;
     op_keys := [];
     op_described := [("DELETE", "/{index}/_alias/{name}")];
     op_query := [] |}.
#[export] Instance IndicesDeleteAlias_operates : LawfulOp IndicesDeleteAliasReq.
Proof. operate. Qed.

Record IndicesDeleteDataStreamParams := MkIndicesDeleteDataStreamParams { IndicesDeleteDataStreamParams_TimeoutParams : TimeoutParams; IndicesDeleteDataStreamParams_DebugParams : DebugParams }.
Definition IndicesDeleteDataStreamParams_own (q : IndicesDeleteDataStreamParams) : list param :=
  [].
Definition IndicesDeleteDataStreamParams_slots : list (string * (IndicesDeleteDataStreamParams -> slot)) :=
  [].
Definition IndicesDeleteDataStreamParams_get (q : IndicesDeleteDataStreamParams) : gmap string string :=
  encode_params (EncodeTimeout (IndicesDeleteDataStreamParams_TimeoutParams q) ++ EncodeDebug (IndicesDeleteDataStreamParams_DebugParams q) ++ IndicesDeleteDataStreamParams_own q).
Record IndicesDeleteDataStreamReq := MkIndicesDeleteDataStreamReq { IndicesDeleteDataStreamReq_Name : list string; IndicesDeleteDataStreamReq_Header : headers;
  IndicesDeleteDataStreamReq_Params : option IndicesDeleteDataStreamParams }.
Definition IndicesDeleteDataStreamReq_GetRequest (r : IndicesDeleteDataStreamReq) (method : string) : request_error + httpRequest * Z :=
  send method (IndicesDeleteDataStreamPath_Build (MkIndicesDeleteDataStreamPath (IndicesDeleteDataStreamReq_Name r)))
    (match IndicesDeleteDataStreamReq_Params r with Some q => IndicesDeleteDataStreamParams_get q | None => ∅ end)
    no_body (IndicesDeleteDataStreamReq_Header r).
Definition IndicesDeleteDataStream_Method (r : IndicesDeleteDataStreamReq) : string := "DELETE".
#[export] Instance IndicesDeleteDataStream_operation : operation IndicesDeleteDataStreamReq :=
  {| op_path := MkPathType "IndicesDeleteDataStreamPath" IndicesDeleteDataStreamPath _ _; op_P := IndicesDeleteDataStreamParams; op_fields r := MkIndicesDeleteDataStreamPath (IndicesDeleteDataStreamReq_Name r);
     op_params := IndicesDeleteDataStreamReq_Params; op_defaults := None; op_timeout := IndicesDeleteDataStreamParams_TimeoutParams; op_debug := IndicesDeleteDataStreamParams_DebugParams;
     op_format := None; op_own := IndicesDeleteDataStreamParams_own; op_slots := IndicesDeleteDataStreamParams_slots;
     op_body _ := no_body; op_headers r := IndicesDeleteDataStreamReq_Header r;
     Method := IndicesDeleteDataStream_Method; GetRequest := IndicesDeleteDataStreamReq_GetRequest;
     op_keys := [];
     op_described := [("DELETE", "/_data_stream/{name}")];
     op_query := [] |}.
#[export] Instance IndicesDeleteDataStream_operates : LawfulOp IndicesDeleteDataStreamReq.
Proof. operate. Qed.

Record IndicesDeleteIndexTemplateParams := MkIndicesDeleteIndexTemplateParams { IndicesDeleteIndexTemplateParams_TimeoutParams : TimeoutParams; IndicesDeleteIndexTemplateParams_DebugParams : DebugParams }.
Definition IndicesDeleteIndexTemplateParams_own (q : IndicesDeleteIndexTemplateParams) : list param :=
  [].
Definition IndicesDeleteIndexTemplateParams_slots : list (string * (IndicesDeleteIndexTemplateParams -> slot)) :=
  [].
Definition IndicesDeleteIndexTemplateParams_get (q : IndicesDeleteIndexTemplateParams) : gmap string string :=
  encode_params (EncodeTimeout (IndicesDeleteIndexTemplateParams_TimeoutParams q) ++ EncodeDebug (IndicesDeleteIndexTemplateParams_DebugParams q) ++ IndicesDeleteIndexTemplateParams_own q).
Record IndicesDeleteIndexTemplateReq := MkIndicesDeleteIndexTemplateReq { IndicesDeleteIndexTemplateReq_Name : string; IndicesDeleteIndexTemplateReq_Header : headers;
  IndicesDeleteIndexTemplateReq_Params : option IndicesDeleteIndexTemplateParams }.
Definition IndicesDeleteIndexTemplateReq_GetRequest (r : IndicesDeleteIndexTemplateReq) (method : string) : request_error + httpRequest * Z :=
  send method (IndicesDeleteIndexTemplatePath_Build (MkIndicesDeleteIndexTemplatePath (IndicesDeleteIndexTemplateReq_Name r)))
    (match IndicesDeleteIndexTemplateReq_Params r with Some q => IndicesDeleteIndexTemplateParams_get q | None => ∅ end)
    no_body (IndicesDeleteIndexTemplateReq_Header r).
Definition IndicesDeleteIndexTemplate_Method (r : IndicesDeleteIndexTemplateReq) : string := "DELETE".
#[export] Instance IndicesDeleteIndexTemplate_operation : operation IndicesDeleteIndexTemplateReq :=
  {| op_path := MkPathType "IndicesDeleteIndexTemplatePath" IndicesDeleteIndexTemplatePath _ _; op_P := IndicesDeleteIndexTemplateParams; op_fields r := MkIndicesDeleteIndexTemplatePath (IndicesDeleteIndexTemplateReq_Name r);
     op_params := IndicesDeleteIndexTemplateReq_Params; op_defaults := None; op_timeout := IndicesDeleteIndexTemplateParams_TimeoutParams; op_debug := IndicesDeleteIndexTemplateParams_DebugParams;
     op_format := None; op_own := IndicesDeleteIndexTemplateParams_own; op_slots := IndicesDeleteIndexTemplateParams_slots;
     op_body _ := no_body; op_headers r := IndicesDeleteIndexTemplateReq_Header r;
     Method := IndicesDeleteIndexTemplate_Method; GetRequest := IndicesDeleteIndexTemplateReq_GetRequest;
     op_keys := [];
     op_described := [("DELETE", "/_index_template/{name}")];
     op_query := [] |}.
#[export] Instance IndicesDeleteIndexTemplate_operates : LawfulOp IndicesDeleteIndexTemplateReq.
Proof. operate. Qed.

Record IndicesDeleteTemplateParams := MkIndicesDeleteTemplateParams { IndicesDeleteTemplateParams_TimeoutParams : TimeoutParams; IndicesDeleteTemplateParams_DebugParams : DebugParams }.
Definition IndicesDeleteTemplateParams_own (q : IndicesDeleteTemplateParams) : list param :=
  [].
Definition IndicesDeleteTemplateParams_slots : list (string * (IndicesDeleteTemplateParams -> slot)) :=
  [].
Definition IndicesDeleteTemplateParams_get (q : IndicesDeleteTemplateParams) : gmap string string :=
  encode_params (EncodeTimeout (IndicesDeleteTemplateParams_TimeoutParams q) ++ EncodeDebug (IndicesDeleteTemplateParams_DebugParams q) ++ IndicesDeleteTemplateParams_own q).
Record IndicesDeleteTemplateReq := MkIndicesDeleteTemplateReq { IndicesDeleteTemplateReq_Name : string; IndicesDeleteTemplateReq_Header : headers;
  IndicesDeleteTemplateReq_Params : option IndicesDeleteTemplateParams }.
Definition IndicesDeleteTemplateReq_GetRequest (r : IndicesDeleteTemplateReq) (method : string) : request_error + httpRequest * Z :=
  send method (IndicesDeleteTemplatePath_Build (MkIndicesDeleteTemplatePath (IndicesDeleteTemplateReq_Name r)))
    (match IndicesDeleteTemplateReq_Params r with Some q => IndicesDeleteTemplateParams_get q | None => ∅ end)
    no_body (IndicesDeleteTemplateReq_Header r).
Definition IndicesDeleteTemplate_Method (r : IndicesDeleteTemplateReq) : string := "DELETE".
#[export] Instance IndicesDeleteTemplate_operation : operation IndicesDeleteTemplateReq :=
  {| op_path := MkPathType "IndicesDeleteTemplatePath" IndicesDeleteTemplatePath _ _; op_P := IndicesDeleteTemplateParams; op_fields r := MkIndicesDeleteTemplatePath (IndicesDeleteTemplateReq_Name r);
     op_params := IndicesDeleteTemplateReq_Params; op_defaults := None; op_timeout := IndicesDeleteTemplateParams_TimeoutParams; op_debug := IndicesDeleteTemplateParams_DebugParams;
     op_format := None; op_own := IndicesDeleteTemplateParams_own; op_slots := IndicesDeleteTemplateParams_slots;
     op_body _ := no_body; op_headers r := IndicesDeleteTemplateReq_Header r;
     Method := IndicesDeleteTemplate_Method; GetRequest := IndicesDeleteTemplateReq_GetRequest;
     op_keys := [];
     op_described := [("DELETE", "/_template/{name}")];
     op_query := [] |}.
#[export] Instance IndicesDeleteTemplate_operates : LawfulOp IndicesDeleteTemplateReq.
Proof. operate. Qed.

Record IndicesExistsParams := MkIndicesExistsParams { IndicesExistsParams_TimeoutParams : TimeoutParams; IndicesExistsParams_DebugParams : DebugParams; IndicesExistsParams_AllowNoIndices : option bool;
  IndicesExistsParams_ExpandWildcards : list string; IndicesExistsParams_FlatSettings : option bool;
  IndicesExistsParams_IgnoreUnavailable : option bool; IndicesExistsParams_IncludeDefaults : option bool; IndicesExistsParams_Local : option bool }.
Definition IndicesExistsParams_own (q : IndicesExistsParams) : list param :=
  [("allow_no_indices", boolPtr (IndicesExistsParams_AllowNoIndices q)); ("expand_wildcards", joined (IndicesExistsParams_ExpandWildcards q));
  ("flat_settings", boolPtr (IndicesExistsParams_FlatSettings q)); ("ignore_unavailable", boolPtr (IndicesExistsParams_IgnoreUnavailable q));
  ("include_defaults", boolPtr (IndicesExistsParams_IncludeDefaults q)); ("local", boolPtr (IndicesExistsParams_Local q))].
Definition IndicesExistsParams_slots : list (string * (IndicesExistsParams -> slot)) :=
  [("AllowNoIndices", fun q => BoolPtr (IndicesExistsParams_AllowNoIndices q));
  ("ExpandWildcards", fun q => TextList (IndicesExistsParams_ExpandWildcards q));
  ("FlatSettings", fun q => BoolPtr (IndicesExistsParams_FlatSettings q));
  ("IgnoreUnavailable", fun q => BoolPtr (IndicesExistsParams_IgnoreUnavailable q));
  ("IncludeDefaults", fun q => BoolPtr (IndicesExistsParams_IncludeDefaults q)); ("Local", fun q => BoolPtr (IndicesExistsParams_Local q))].
Definition IndicesExistsParams_get (q : IndicesExistsParams) : gmap string string :=
  encode_params (EncodeTimeout (IndicesExistsParams_TimeoutParams q) ++ EncodeDebug (IndicesExistsParams_DebugParams q) ++ IndicesExistsParams_own q).
Record IndicesExistsReq := MkIndicesExistsReq { IndicesExistsReq_Indices : list string; IndicesExistsReq_Header : headers; IndicesExistsReq_Params : option IndicesExistsParams }.
Definition IndicesExistsReq_GetRequest (r : IndicesExistsReq) (method : string) : request_error + httpRequest * Z :=
  send method (IndicesExistsPath_Build (MkIndicesExistsPath (IndicesExistsReq_Indices r)))
    (match IndicesExistsReq_Params r with Some q => IndicesExistsParams_get q | None => ∅ end)
    no_body (IndicesExistsReq_Header r).
Definition IndicesExists_Method (r : IndicesExistsReq) : string := "HEAD".
#[export] Instance IndicesExists_operation : operation IndicesExistsReq :=
  {| op_path := MkPathType "IndicesExistsPath" IndicesExistsPath _ _; op_P := IndicesExistsParams; op_fields r := MkIndicesExistsPath (IndicesExistsReq_Indices r);
     op_params := IndicesExistsReq_Params; op_defaults := None; op_timeout := IndicesExistsParams_TimeoutParams; op_debug := IndicesExistsParams_DebugParams;
     op_format := None; op_own := IndicesExistsParams_own; op_slots := IndicesExistsParams_slots;
     op_body _ := no_body; op_headers r := IndicesExistsReq_Header r;
     Method := IndicesExists_Method; GetRequest := IndicesExistsReq_GetRequest;
     op_keys := ["allow_no_indices"; "expand_wildcards"; "flat_settings"; "ignore_unavailable"; "include_defaults"; "local"];
     op_described := [("HEAD", "/{index}")];
     op_query := ["allow_no_indices"; "expand_wildcards"; "flat_settings"; "ignore_unavailable"; "include_defaults"; "local"] |}.
#[export] Instance IndicesExists_operates : LawfulOp IndicesExistsReq.
Proof. operate. Qed.

Record IndicesExistsAliasParams := MkIndicesExistsAliasParams { IndicesExistsAliasParams_TimeoutParams : TimeoutParams; IndicesExistsAliasParams_DebugParams : DebugParams;
  IndicesExistsAliasParams_AllowNoIndices : option bool; IndicesExistsAliasParams_ExpandWildcards : list string;
  IndicesExistsAliasParams_IgnoreUnavailable : option bool; IndicesExistsAliasParams_Local : option bool }.
Definition IndicesExistsAliasParams_own (q : IndicesExistsAliasParams) : list param :=
  [("allow_no_indices", boolPtr (IndicesExistsAliasParams_AllowNoIndices q)); ("expand_wildcards", joined (IndicesExistsAliasParams_ExpandWildcards q));
  ("ignore_unavailable", boolPtr (IndicesExistsAliasParams_IgnoreUnavailable q)); ("local", boolPtr (IndicesExistsAliasParams_Local q))].
Definition IndicesExistsAliasParams_slots : list (string * (IndicesExistsAliasParams -> slot)) :=
  [("AllowNoIndices", fun q => BoolPtr (IndicesExistsAliasParams_AllowNoIndices q));
  ("ExpandWildcards", fun q => TextList (IndicesExistsAliasParams_ExpandWildcards q));
  ("IgnoreUnavailable", fun q => BoolPtr (IndicesExistsAliasParams_IgnoreUnavailable q)); ("Local", fun q => BoolPtr (IndicesExistsAliasParams_Local q))].
Definition IndicesExistsAliasParams_get (q : IndicesExistsAliasParams) : gmap string string :=
  encode_params (EncodeTimeout (IndicesExistsAliasParams_TimeoutParams q) ++ EncodeDebug (IndicesExistsAliasParams_DebugParams q) ++ IndicesExistsAliasParams_own q).
Record IndicesExistsAliasReq := MkIndicesExistsAliasReq { IndicesExistsAliasReq_Name : list string; IndicesExistsAliasReq_Indices : list string; IndicesExistsAliasReq_Header : headers;
  IndicesExistsAliasReq_Params : option IndicesExistsAliasParams }.
Definition IndicesExistsAliasReq_GetRequest (r : IndicesExistsAliasReq) (method : string) : request_error + httpRequest * Z :=
  send method (IndicesExistsAliasPath_Build (MkIndicesExistsAliasPath (IndicesExistsAliasReq_Indices r) (IndicesExistsAliasReq_Name r)))
    (match IndicesExistsAliasReq_Params r with Some q => IndicesExistsAliasParams_get q | None => ∅ end)
    no_body (IndicesExistsAliasReq_Header r).
Definition IndicesExistsAlias_Method (r : IndicesExistsAliasReq) : string := "HEAD".
#[export] Instance IndicesExistsAlias_operation : operation IndicesExistsAliasReq :=
  {| op_path := MkPathType "IndicesExistsAliasPath" IndicesExistsAliasPath _ _; op_P := IndicesExistsAliasParams; op_fields r := MkIndicesExistsAliasPath (IndicesExistsAliasReq_Indices r) (IndicesExistsAliasReq_Name r);
     op_params := IndicesExistsAliasReq_Params; op_defaults := None; op_timeout := IndicesExistsAliasParams_TimeoutParams; op_debug := IndicesExistsAliasParams_DebugParams;
     op_format := None; op_own := IndicesExistsAliasParams_own; op_slots := IndicesExistsAliasParams_slots;
     op_body _ := no_body; op_headers r := IndicesExistsAliasReq_Header r;
     Method := IndicesExistsAlias_Method; GetRequest := IndicesExistsAliasReq_GetRequest;
     op_keys := ["allow_no_indices"; "expand_wildcards"; "ignore_unavailable"; "local"];
     op_described := [("HEAD", "/_alias/{name}"); ("HEAD", "/{index}/_alias/{name}")];
     op_query := ["allow_no_indices"; "expand_wildcards"; "ignore_unavailable"; "local"] |}.
#[export] Instance IndicesExistsAlias_operates : LawfulOp IndicesExistsAliasReq.
Proof. operate. Qed.

Record IndicesExistsIndexTemplateParams := MkIndicesExistsIndexTemplateParams { IndicesExistsIndexTemplateParams_TimeoutParams : TimeoutParams; IndicesExistsIndexTemplateParams_DebugParams : DebugParams;
  IndicesExistsIndexTemplateParams_FlatSettings : option bool; IndicesExistsIndexTemplateParams_Local : option bool }.
Definition IndicesExistsIndexTemplateParams_own (q : IndicesExistsIndexTemplateParams) : list param :=
  [("flat_settings", boolPtr (IndicesExistsIndexTemplateParams_FlatSettings q)); ("local", boolPtr (IndicesExistsIndexTemplateParams_Local q))].
Definition IndicesExistsIndexTemplateParams_slots : list (string * (IndicesExistsIndexTemplateParams -> slot)) :=
  [("FlatSettings", fun q => BoolPtr (IndicesExistsIndexTemplateParams_FlatSettings q));
  ("Local", fun q => BoolPtr (IndicesExistsIndexTemplateParams_Local q))].
Definition IndicesExistsIndexTemplateParams_get (q : IndicesExistsIndexTemplateParams) : gmap string string :=
  encode_params (EncodeTimeout (IndicesExistsIndexTemplateParams_TimeoutParams q) ++ EncodeDebug (IndicesExistsIndexTemplateParams_DebugParams q) ++ IndicesExistsIndexTemplateParams_own q).
Record IndicesExistsIndexTemplateReq := MkIndicesExistsIndexTemplateReq { IndicesExistsIndexTemplateReq_Name : string; IndicesExistsIndexTemplateReq_Header : headers;
  IndicesExistsIndexTemplateReq_Params : option IndicesExistsIndexTemplateParams }.
Definition IndicesExistsIndexTemplateReq_GetRequest (r : IndicesExistsIndexTemplateReq) (method : string) : request_error + httpRequest * Z :=
  send method (IndicesExistsIndexTemplatePath_Build (MkIndicesExistsIndexTemplatePath (IndicesExistsIndexTemplateReq_Name r)))
    (match IndicesExistsIndexTemplateReq_Params r with Some q => IndicesExistsIndexTemplateParams_get q | None => ∅ end)
    no_body (IndicesExistsIndexTemplateReq_Header r).
Definition IndicesExistsIndexTemplate_Method (r : IndicesExistsIndexTemplateReq) : string := "HEAD".
#[export] Instance IndicesExistsIndexTemplate_operation : operation IndicesExistsIndexTemplateReq :=
  {| op_path := MkPathType "IndicesExistsIndexTemplatePath" IndicesExistsIndexTemplatePath _ _; op_P := IndicesExistsIndexTemplateParams; op_fields r := MkIndicesExistsIndexTemplatePath (IndicesExistsIndexTemplateReq_Name r);
     op_params := IndicesExistsIndexTemplateReq_Params; op_defaults := None; op_timeout := IndicesExistsIndexTemplateParams_TimeoutParams; op_debug := IndicesExistsIndexTemplateParams_DebugParams;
     op_format := None; op_own := IndicesExistsIndexTemplateParams_own; op_slots := IndicesExistsIndexTemplateParams_slots;
     op_body _ := no_body; op_headers r := IndicesExistsIndexTemplateReq_Header r;
     Method := IndicesExistsIndexTemplate_Method; GetRequest := IndicesExistsIndexTemplateReq_GetRequest;
     op_keys := ["flat_settings"; "local"];
     op_described := [("HEAD", "/_index_template/{name}")];
     op_query := ["flat_settings"; "local"] |}.
#[export] Instance IndicesExistsIndexTemplate_operates : LawfulOp IndicesExistsIndexTemplateReq.
Proof. operate. Qed.

Record IndicesExistsTemplateParams := MkIndicesExistsTemplateParams { IndicesExistsTemplateParams_TimeoutParams : TimeoutParams; IndicesExistsTemplateParams_DebugParams : DebugParams;
  IndicesExistsTemplateParams_FlatSettings : option bool; IndicesExistsTemplateParams_Local : option bool }.
Definition IndicesExistsTemplateParams_own (q : IndicesExistsTemplateParams) : list param :=
  [("flat_settings", boolPtr (IndicesExistsTemplateParams_FlatSettings q)); ("local", boolPtr (IndicesExistsTemplateParams_Local q))].
Definition IndicesExistsTemplateParams_slots : list (string * (IndicesExistsTemplateParams -> slot)) :=
  [("FlatSettings", fun q => BoolPtr (IndicesExistsTemplateParams_FlatSettings q)); ("Local", fun q => BoolPtr (IndicesExistsTemplateParams_Local q))].
Definition IndicesExistsTemplateParams_get (q : IndicesExistsTemplateParams) : gmap string string :=
  encode_params (EncodeTimeout (IndicesExistsTemplateParams_TimeoutParams q) ++ EncodeDebug (IndicesExistsTemplateParams_DebugParams q) ++ IndicesExistsTemplateParams_own q).
Record IndicesExistsTemplateReq := MkIndicesExistsTemplateReq { IndicesExistsTemplateReq_Name : list string; IndicesExistsTemplateReq_Header : headers;
  IndicesExistsTemplateReq_Params : option IndicesExistsTemplateParams }.
Definition IndicesExistsTemplateReq_GetRequest (r : IndicesExistsTemplateReq) (method : string) : request_error + httpRequest * Z :=
  send method (IndicesExistsTemplatePath_Build (MkIndicesExistsTemplatePath (IndicesExistsTemplateReq_Name r)))
    (match IndicesExistsTemplateReq_Params r with Some q => IndicesExistsTemplateParams_get q | None => ∅ end)
    no_body (IndicesExistsTemplateReq_Header r).
Definition IndicesExistsTemplate_Method (r : IndicesExistsTemplateReq) : string := "HEAD".
#[export] Instance IndicesExistsTemplate_operation : operation IndicesExistsTemplateReq :=
  {| op_path := MkPathType "IndicesExistsTemplatePath" IndicesExistsTemplatePath _ _; op_P := IndicesExistsTemplateParams; op_fields r := MkIndicesExistsTemplatePath (IndicesExistsTemplateReq_Name r);
     op_params := IndicesExistsTemplateReq_Params; op_defaults := None; op_timeout := IndicesExistsTemplateParams_TimeoutParams; op_debug := IndicesExistsTemplateParams_DebugParams;
     op_format := None; op_own := IndicesExistsTemplateParams_own; op_slots := IndicesExistsTemplateParams_slots;
     op_body _ := no_body; op_headers r := IndicesExistsTemplateReq_Header r;
     Method := IndicesExistsTemplate_Method; GetRequest := IndicesExistsTemplateReq_GetRequest;
     op_keys := ["flat_settings"; "local"];
     op_described := [("HEAD", "/_template/{name}")];
     op_query := ["flat_settings"; "local"] |}.
#[export] Instance IndicesExistsTemplate_operates : LawfulOp IndicesExistsTemplateReq.
Proof. operate. Qed.

Record IndicesFlushParams := MkIndicesFlushParams { IndicesFlushParams_TimeoutParams : TimeoutParams; IndicesFlushParams_DebugParams : DebugParams; IndicesFlushParams_AllowNoIndices : option bool;
  IndicesFlushParams_ExpandWildcards : list string; IndicesFlushParams_Force : option bool; IndicesFlushParams_IgnoreUnavailable : option bool;
  IndicesFlushParams_WaitIfOngoing : option bool }.
Definition IndicesFlushParams_own (q : IndicesFlushParams) : list param :=
  [("allow_no_indices", boolPtr (IndicesFlushParams_AllowNoIndices q)); ("expand_wildcards", joined (IndicesFlushParams_ExpandWildcards q));
  ("force", boolPtr (IndicesFlushParams_Force q)); ("ignore_unavailable", boolPtr (IndicesFlushParams_IgnoreUnavailable q));
  ("wait_if_ongoing", boolPtr (IndicesFlushParams_WaitIfOngoing q))].
Definition IndicesFlushParams_slots : list (string * (IndicesFlushParams -> slot)) :=
  [("AllowNoIndices", fun q => BoolPtr (IndicesFlushParams_AllowNoIndices q));
  ("ExpandWildcards", fun q => TextList (IndicesFlushParams_ExpandWildcards q)); ("Force", fun q => BoolPtr (IndicesFlushParams_Force q));
  ("IgnoreUnavailable", fun q => BoolPtr (IndicesFlushParams_IgnoreUnavailable q));
  ("WaitIfOngoing", fun q => BoolPtr (IndicesFlushParams_WaitIfOngoing q))].
Definition IndicesFlushParams_get (q : IndicesFlushParams) : gmap string string :=
  encode_params (EncodeTimeout (IndicesFlushParams_TimeoutParams q) ++ EncodeDebug (IndicesFlushParams_DebugParams q) ++ IndicesFlushParams_own q).
Record IndicesFlushReq := MkIndicesFlushReq { IndicesFlushReq_Indices : list string; IndicesFlushReq_Header : headers; IndicesFlushReq_Params : option IndicesFlushParams }.
Definition IndicesFlushReq_GetRequest (r : IndicesFlushReq) (method : string) : request_error + httpRequest * Z :=
  send method (IndicesFlushPath_Build (MkIndicesFlushPath (IndicesFlushReq_Indices r)))
    (match IndicesFlushReq_Params r with Some q => IndicesFlushParams_get q | None => ∅ end)
    no_body (IndicesFlushReq_Header r).
Definition IndicesFlush_Method (r : IndicesFlushReq) : string := "GET".
#[export] Instance IndicesFlush_operation : operation IndicesFlushReq :=
  {| op_path := MkPathType "IndicesFlushPath" IndicesFlushPath _ _; op_P := IndicesFlushParams; op_fields r := MkIndicesFlushPath (IndicesFlushReq_Indices r);
     op_params := IndicesFlushReq_Params; op_defaults := None; op_timeout := IndicesFlushParams_TimeoutParams; op_debug := IndicesFlushParams_DebugParams;
     op_format := None; op_own := IndicesFlushParams_own; op_slots := IndicesFlushParams_slots;
     op_body _ := no_body; op_headers r := IndicesFlushReq_Header r;
     Method := IndicesFlush_Method; GetRequest := IndicesFlushReq_GetRequest;
     op_keys := ["allow_no_indices"; "expand_wildcards"; "force"; "ignore_unavailable"; "wait_if_ongoing"];
     op_described := [("GET", "/_flush"); ("POST", "/_flush"); ("GET", "/{index}/_flush"); ("POST", "/{index}/_flush")];
     op_query := ["allow_no_indices"; "expand_wildcards"; "force"; "ignore_unavailable"; "wait_if_ongoing"] |}.
#[export] Instance IndicesFlush_operates : LawfulOp IndicesFlushReq.
Proof. operate. Qed.

Record IndicesForcemergeParams := MkIndicesForcemergeParams { IndicesForcemergeParams_TimeoutParams : TimeoutParams; IndicesForcemergeParams_DebugParams : DebugParams;
  IndicesForcemergeParams_AllowNoIndices : option bool; IndicesForcemergeParams_ExpandWildcards : list string;
  IndicesForcemergeParams_Flush : option bool; IndicesForcemergeParams_IgnoreUnavailable : option bool; IndicesForcemergeParams_MaxNumSegments : Z;
  IndicesForcemergeParams_OnlyExpungeDeletes : option bool; IndicesForcemergeParams_PrimaryOnly : option bool;
  IndicesForcemergeParams_WaitForCompletion : option bool }.
Definition IndicesForcemergeParams_own (q : IndicesForcemergeParams) : list param :=
  [("allow_no_indices", boolPtr (IndicesForcemergeParams_AllowNoIndices q)); ("expand_wildcards", joined (IndicesForcemergeParams_ExpandWildcards q));
  ("flush", boolPtr (IndicesForcemergeParams_Flush q)); ("ignore_unavailable", boolPtr (IndicesForcemergeParams_IgnoreUnavailable q));
  ("max_num_segments", nonZero (IndicesForcemergeParams_MaxNumSegments q));
  ("only_expunge_deletes", boolPtr (IndicesForcemergeParams_OnlyExpungeDeletes q)); ("primary_only", boolPtr (IndicesForcemergeParams_PrimaryOnly q));
  ("wait_for_completion", boolPtr (IndicesForcemergeParams_WaitForCompletion q))].
Definition IndicesForcemergeParams_slots : list (string * (IndicesForcemergeParams -> slot)) :=
  [("AllowNoIndices", fun q => BoolPtr (IndicesForcemergeParams_AllowNoIndices q));
  ("ExpandWildcards", fun q => TextList (IndicesForcemergeParams_ExpandWildcards q)); ("Flush", fun q => BoolPtr (IndicesForcemergeParams_Flush q));
  ("IgnoreUnavailable", fun q => BoolPtr (IndicesForcemergeParams_IgnoreUnavailable q));
  ("MaxNumSegments", fun q => Int (IndicesForcemergeParams_MaxNumSegments q));
  ("OnlyExpungeDeletes", fun q => BoolPtr (IndicesForcemergeParams_OnlyExpungeDeletes q));
  ("PrimaryOnly", fun q => BoolPtr (IndicesForcemergeParams_PrimaryOnly q));
  ("WaitForCompletion", fun q => BoolPtr (IndicesForcemergeParams_WaitForCompletion q))].
Definition IndicesForcemergeParams_get (q : IndicesForcemergeParams) : gmap string string :=
  encode_params (EncodeTimeout (IndicesForcemergeParams_TimeoutParams q) ++ EncodeDebug (IndicesForcemergeParams_DebugParams q) ++ IndicesForcemergeParams_own q).
Record IndicesForcemergeReq := MkIndicesForcemergeReq { IndicesForcemergeReq_Indices : list string; IndicesForcemergeReq_Header : headers; IndicesForcemergeReq_Params : option IndicesForcemergeParams }.
Definition IndicesForcemergeReq_GetRequest (r : IndicesForcemergeReq) (method : string) : request_error + httpRequest * Z :=
  send method (IndicesForcemergePath_Build (MkIndicesForcemergePath (IndicesForcemergeReq_Indices r)))
    (match IndicesForcemergeReq_Params r with Some q => IndicesForcemergeParams_get q | None => ∅ end)
    no_body (IndicesForcemergeReq_Header r).
Definition IndicesForcemerge_Method (r : IndicesForcemergeReq) : string := "POST".
#[export] Instance IndicesForcemerge_operation : operation IndicesForcemergeReq :=
  {| op_path := MkPathType "IndicesForcemergePath" IndicesForcemergePath _ _; op_P := IndicesForcemergeParams; op_fields r := MkIndicesForcemergePath (IndicesForcemergeReq_Indices r);
     op_params := IndicesForcemergeReq_Params; op_defaults := None; op_timeout := IndicesForcemergeParams_TimeoutParams; op_debug := IndicesForcemergeParams_DebugParams;
     op_format := None; op_own := IndicesForcemergeParams_own; op_slots := IndicesForcemergeParams_slots;
     op_body _ := no_body; op_headers r := IndicesForcemergeReq_Header r;
     Method := IndicesForcemerge_Method; GetRequest := IndicesForcemergeReq_GetRequest;
     op_keys := ["allow_no_indices"; "expand_wildcards"; "flush"; "ignore_unavailable"; "max_num_segments"; "only_expunge_deletes"; "primary_only";
        "wait_for_completion"];
     op_described := [("POST", "/_forcemerge"); ("POST", "/{index}/_forcemerge")];
     op_query := ["allow_no_indices"; "expand_wildcards"; "flush"; "ignore_unavailable"; "max_num_segments"; "only_expunge_deletes"; "primary_only";
        "wait_for_completion"] |}.
#[export] Instance IndicesForcemerge_operates : LawfulOp IndicesForcemergeReq.
Proof. operate. Qed.

Record IndicesGetParams := MkIndicesGetParams { IndicesGetParams_TimeoutParams : TimeoutParams; IndicesGetParams_DebugParams : DebugParams; IndicesGetParams_AllowNoIndices : option bool;
  IndicesGetParams_ExpandWildcards : list string; IndicesGetParams_FlatSettings : option bool; IndicesGetParams_IgnoreUnavailable : option bool;
  IndicesGetParams_IncludeDefaults : option bool; IndicesGetParams_Local : option bool }.
Definition IndicesGetParams_own (q : IndicesGetParams) : list param :=
  [("allow_no_indices", boolPtr (IndicesGetParams_AllowNoIndices q)); ("expand_wildcards", joined (IndicesGetParams_ExpandWildcards q));
  ("flat_settings", boolPtr (IndicesGetParams_FlatSettings q)); ("ignore_unavailable", boolPtr (IndicesGetParams_IgnoreUnavailable q));
  ("include_defaults", boolPtr (IndicesGetParams_IncludeDefaults q)); ("local", boolPtr (IndicesGetParams_Local q))].
Definition IndicesGetParams_slots : list (string * (IndicesGetParams -> slot)) :=
  [("AllowNoIndices", fun q => BoolPtr (IndicesGetParams_AllowNoIndices q));
  ("ExpandWildcards", fun q => TextList (IndicesGetParams_ExpandWildcards q)); ("FlatSettings", fun q => BoolPtr (IndicesGetParams_FlatSettings q));
  ("IgnoreUnavailable", fun q => BoolPtr (IndicesGetParams_IgnoreUnavailable q));
  ("IncludeDefaults", fun q => BoolPtr (IndicesGetParams_IncludeDefaults q)); ("Local", fun q => BoolPtr (IndicesGetParams_Local q))].
Definition IndicesGetParams_get (q : IndicesGetParams) : gmap string string :=
  encode_params (EncodeTimeout (IndicesGetParams_TimeoutParams q) ++ EncodeDebug (IndicesGetParams_DebugParams q) ++ IndicesGetParams_own q).
Record IndicesGetReq := MkIndicesGetReq { IndicesGetReq_Indices : list string; IndicesGetReq_Header : headers; IndicesGetReq_Params : option IndicesGetParams }.
Definition IndicesGetReq_GetRequest (r : IndicesGetReq) (method : string) : request_error + httpRequest * Z :=
  send method (IndicesGetPath_Build (MkIndicesGetPath (IndicesGetReq_Indices r)))
    (match IndicesGetReq_Params r with Some q => IndicesGetParams_get q | None => ∅ end)
    no_body (IndicesGetReq_Header r).
Definition IndicesGet_Method (r : IndicesGetReq) : string := "GET".
#[export] Instance IndicesGet_operation : operation IndicesGetReq :=
  {| op_path := MkPathType "IndicesGetPath" IndicesGetPath _ _; op_P := IndicesGetParams; op_fields r := MkIndicesGetPath (IndicesGetReq_Indices r);
     op_params := IndicesGetReq_Params; op_defaults := None; op_timeout := IndicesGetParams_TimeoutParams; op_debug := IndicesGetParams_DebugParams;
     op_format := None; op_own := IndicesGetParams_own; op_slots := IndicesGetParams_slots;
     op_body _ := no_body; op_headers r := IndicesGetReq_Header r;
     Method := IndicesGet_Method; GetRequest := IndicesGetReq_GetRequest;
     op_keys := ["allow_no_indices"; "expand_wildcards"; "flat_settings"; "ignore_unavailable"; "include_defaults"; "local"];
     op_described := [("GET", "/{index}")];
     op_query := ["allow_no_indices"; "expand_wildcards"; "flat_settings"; "ignore_unavailable"; "include_defaults"; "local"] |}.
#[export] Instance IndicesGet_operates : LawfulOp IndicesGetReq.
Proof. operate. Qed.

Record IndicesGetAliasParams := MkIndicesGetAliasParams { IndicesGetAliasParams_TimeoutParams : TimeoutParams; IndicesGetAliasParams_DebugParams : DebugParams;
  IndicesGetAliasParams_AllowNoIndices : option bool; IndicesGetAliasParams_ExpandWildcards : list string;
  IndicesGetAliasParams_IgnoreUnavailable : option bool; IndicesGetAliasParams_Local : option bool }.
Definition IndicesGetAliasParams_own (q : IndicesGetAliasParams) : list param :=
  [("allow_no_indices", boolPtr (IndicesGetAliasParams_AllowNoIndices q)); ("expand_wildcards", joined (IndicesGetAliasParams_ExpandWildcards q));
  ("ignore_unavailable", boolPtr (IndicesGetAliasParams_IgnoreUnavailable q)); ("local", boolPtr (IndicesGetAliasParams_Local q))].
Definition IndicesGetAliasParams_slots : list (string * (IndicesGetAliasParams -> slot)) :=
  [("AllowNoIndices", fun q => BoolPtr (IndicesGetAliasParams_AllowNoIndices q));
  ("ExpandWildcards", fun q => TextList (IndicesGetAliasParams_ExpandWildcards q));
  ("IgnoreUnavailable", fun q => BoolPtr (IndicesGetAliasParams_IgnoreUnavailable q)); ("Local", fun q => BoolPtr (IndicesGetAliasParams_Local q))].
Definition IndicesGetAliasParams_get (q : IndicesGetAliasParams) : gmap string string :=
  encode_params (EncodeTimeout (IndicesGetAliasParams_TimeoutParams q) ++ EncodeDebug (IndicesGetAliasParams_DebugParams q) ++ IndicesGetAliasParams_own q).
Record IndicesGetAliasReq := MkIndicesGetAliasReq { IndicesGetAliasReq_Name : list string; IndicesGetAliasReq_Indices : list string; IndicesGetAliasReq_Header : headers;
  IndicesGetAliasReq_Params : option IndicesGetAliasParams }.
Definition IndicesGetAliasReq_GetRequest (r : IndicesGetAliasReq) (method : string) : request_error + httpRequest * Z :=
  send method (IndicesGetAliasPath_Build (MkIndicesGetAliasPath (IndicesGetAliasReq_Indices r) (IndicesGetAliasReq_Name r)))
    (match IndicesGetAliasReq_Params r with Some q => IndicesGetAliasParams_get q | None => ∅ end)
    no_body (IndicesGetAliasReq_Header r).
Definition IndicesGetAlias_Method (r : IndicesGetAliasReq) : string := "GET".
#[export] Instance IndicesGetAlias_operation : operation IndicesGetAliasReq :=
  {| op_path := MkPathType "IndicesGetAliasPath" IndicesGetAliasPath _ _; op_P := IndicesGetAliasParams; op_fields r := MkIndicesGetAliasPath (IndicesGetAliasReq_Indices r) (IndicesGetAliasReq_Name r);
     op_params := IndicesGetAliasReq_Params; op_defaults := None; op_timeout := IndicesGetAliasParams_TimeoutParams; op_debug := IndicesGetAliasParams_DebugParams;
     op_format := None; op_own := IndicesGetAliasParams_own; op_slots := IndicesGetAliasParams_slots;
     op_body _ := no_body; op_headers r := IndicesGetAliasReq_Header r;
     Method := IndicesGetAlias_Method; GetRequest := IndicesGetAliasReq_GetRequest;
     op_keys := ["allow_no_indices"; "expand_wildcards"; "ignore_unavailable"; "local"];
     op_described := [("GET", "/_alias"); ("GET", "/_alias/{name}"); ("GET", "/{index}/_alias"); ("GET", "/{index}/_alias/{name}")];
     op_query := ["allow_no_indices"; "expand_wildcards"; "ignore_unavailable"; "local"] |}.
#[export] Instance IndicesGetAlias_operates : LawfulOp IndicesGetAliasReq.
Proof. operate. Qed.

Record IndicesGetDataStreamParams := MkIndicesGetDataStreamParams { IndicesGetDataStreamParams_TimeoutParams : TimeoutParams; IndicesGetDataStreamParams_DebugParams : DebugParams }.
Definition IndicesGetDataStreamParams_own (q : IndicesGetDataStreamParams) : list param :=
  [].
Definition IndicesGetDataStreamParams_slots : list (string * (IndicesGetDataStreamParams -> slot)) :=
  [].
Definition IndicesGetDataStreamParams_get (q : IndicesGetDataStreamParams) : gmap string string :=
  encode_params (EncodeTimeout (IndicesGetDataStreamParams_TimeoutParams q) ++ EncodeDebug (IndicesGetDataStreamParams_DebugParams q) ++ IndicesGetDataStreamParams_own q).
Record IndicesGetDataStreamReq := MkIndicesGetDataStreamReq { IndicesGetDataStreamReq_Name : list string; IndicesGetDataStreamReq_Header : headers;
  IndicesGetDataStreamReq_Params : option IndicesGetDataStreamParams }.
Definition IndicesGetDataStreamReq_GetRequest (r : IndicesGetDataStreamReq) (method : string) : request_error + httpRequest * Z :=
  send method (IndicesGetDataStreamPath_Build (MkIndicesGetDataStreamPath (IndicesGetDataStreamReq_Name r)))
    (match IndicesGetDataStreamReq_Params r with Some q => IndicesGetDataStreamParams_get q | None => ∅ end)
    no_body (IndicesGetDataStreamReq_Header r).
Definition IndicesGetDataStream_Method (r : IndicesGetDataStreamReq) : string := "GET".
#[export] Instance IndicesGetDataStream_operation : operation IndicesGetDataStreamReq :=
  {| op_path := MkPathType "IndicesGetDataStreamPath" IndicesGetDataStreamPath _ _; op_P := IndicesGetDataStreamParams; op_fields r := MkIndicesGetDataStreamPath (IndicesGetDataStreamReq_Name r);
     op_params := IndicesGetDataStreamReq_Params; op_defaults := None; op_timeout := IndicesGetDataStreamParams_TimeoutParams; op_debug := IndicesGetDataStreamParams_DebugParams;
     op_format := None; op_own := IndicesGetDataStreamParams_own; op_slots := IndicesGetDataStreamParams_slots;
     op_body _ := no_body; op_headers r := IndicesGetDataStreamReq_Header r;
     Method := IndicesGetDataStream_Method; GetRequest := IndicesGetDataStreamReq_GetRequest;
     op_keys := [];
     op_described := [("GET", "/_data_stream"); ("GET", "/_data_stream/{name}")];
     op_query := [] |}.
#[export] Instance IndicesGetDataStream_operates : LawfulOp IndicesGetDataStreamReq.
Proof. operate. Qed.

Record IndicesGetFieldMappingParams := MkIndicesGetFieldMappingParams { IndicesGetFieldMappingParams_TimeoutParams : TimeoutParams; IndicesGetFieldMappingParams_DebugParams : DebugParams;
  IndicesGetFieldMappingParams_AllowNoIndices : option bool; IndicesGetFieldMappingParams_ExpandWildcards : list string;
  IndicesGetFieldMappingParams_IgnoreUnavailable : option bool; IndicesGetFieldMappingParams_IncludeDefaults : option bool;
  IndicesGetFieldMappingParams_Local : option bool }.
Definition IndicesGetFieldMappingParams_own (q : IndicesGetFieldMappingParams) : list param :=
  [("allow_no_indices", boolPtr (IndicesGetFieldMappingParams_AllowNoIndices q));
  ("expand_wildcards", joined (IndicesGetFieldMappingParams_ExpandWildcards q));
  ("ignore_unavailable", boolPtr (IndicesGetFieldMappingParams_IgnoreUnavailable q));
  ("include_defaults", boolPtr (IndicesGetFieldMappingParams_IncludeDefaults q)); ("local", boolPtr (IndicesGetFieldMappingParams_Local q))].
Definition IndicesGetFieldMappingParams_slots : list (string * (IndicesGetFieldMappingParams -> slot)) :=
  [("AllowNoIndices", fun q => BoolPtr (IndicesGetFieldMappingParams_AllowNoIndices q));
  ("ExpandWildcards", fun q => TextList (IndicesGetFieldMappingParams_ExpandWildcards q));
  ("IgnoreUnavailable", fun q => BoolPtr (IndicesGetFieldMappingParams_IgnoreUnavailable q));
  ("IncludeDefaults", fun q => BoolPtr (IndicesGetFieldMappingParams_IncludeDefaults q));
  ("Local", fun q => BoolPtr (IndicesGetFieldMappingParams_Local q))].
Definition IndicesGetFieldMappingParams_get (q : IndicesGetFieldMappingParams) : gmap string string :=
  encode_params (EncodeTimeout (IndicesGetFieldMappingParams_TimeoutParams q) ++ EncodeDebug (IndicesGetFieldMappingParams_DebugParams q) ++ IndicesGetFieldMappingParams_own q).
Record IndicesGetFieldMappingReq := MkIndicesGetFieldMappingReq { IndicesGetFieldMappingReq_Fields : list string; IndicesGetFieldMappingReq_Indices : list string; IndicesGetFieldMappingReq_Header : headers;
  IndicesGetFieldMappingReq_Params : option IndicesGetFieldMappingParams }.
Definition IndicesGetFieldMappingReq_GetRequest (r : IndicesGetFieldMappingReq) (method : string) : request_error + httpRequest * Z :=
  send method (IndicesGetFieldMappingPath_Build (MkIndicesGetFieldMappingPath (IndicesGetFieldMappingReq_Indices r) (IndicesGetFieldMappingReq_Fields r)))
    (match IndicesGetFieldMappingReq_Params r with Some q => IndicesGetFieldMappingParams_get q | None => ∅ end)
    no_body (IndicesGetFieldMappingReq_Header r).
Definition IndicesGetFieldMapping_Method (r : IndicesGetFieldMappingReq) : string := "GET".
#[export] Instance IndicesGetFieldMapping_operation : operation IndicesGetFieldMappingReq :=
  {| op_path := MkPathType "IndicesGetFieldMappingPath" IndicesGetFieldMappingPath _ _; op_P := IndicesGetFieldMappingParams; op_fields r := MkIndicesGetFieldMappingPath (IndicesGetFieldMappingReq_Indices r) (IndicesGetFieldMappingReq_Fields r);
     op_params := IndicesGetFieldMappingReq_Params; op_defaults := None; op_timeout := IndicesGetFieldMappingParams_TimeoutParams; op_debug := IndicesGetFieldMappingParams_DebugParams;
     op_format := None; op_own := IndicesGetFieldMappingParams_own; op_slots := IndicesGetFieldMappingParams_slots;
     op_body _ := no_body; op_headers r := IndicesGetFieldMappingReq_Header r;
     Method := IndicesGetFieldMapping_Method; GetRequest := IndicesGetFieldMappingReq_GetRequest;
     op_keys := ["allow_no_indices"; "expand_wildcards"; "ignore_unavailable"; "include_defaults"; "local"];
     op_described := [("GET", "/_mapping/field/{fields}"); ("GET", "/{index}/_mapping/field/{fields}")];
     op_query := ["allow_no_indices"; "expand_wildcards"; "ignore_unavailable"; "include_defaults"; "local"] |}.
#[export] Instance IndicesGetFieldMapping_operates : LawfulOp IndicesGetFieldMappingReq.
Proof. operate. Qed.

Record IndicesGetIndexTemplateParams := MkIndicesGetIndexTemplateParams { IndicesGetIndexTemplateParams_TimeoutParams : TimeoutParams; IndicesGetIndexTemplateParams_DebugParams : DebugParams;
  IndicesGetIndexTemplateParams_FlatSettings : option bool; IndicesGetIndexTemplateParams_Local : option bool }.
Definition IndicesGetIndexTemplateParams_own (q : IndicesGetIndexTemplateParams) : list param :=
  [("flat_settings", boolPtr (IndicesGetIndexTemplateParams_FlatSettings q)); ("local", boolPtr (IndicesGetIndexTemplateParams_Local q))].
Definition IndicesGetIndexTemplateParams_slots : list (string * (IndicesGetIndexTemplateParams -> slot)) :=
  [("FlatSettings", fun q => BoolPtr (IndicesGetIndexTemplateParams_FlatSettings q)); ("Local", fun q => BoolPtr (IndicesGetIndexTemplateParams_Local q))].
Definition IndicesGetIndexTemplateParams_get (q : IndicesGetIndexTemplateParams) : gmap string string :=
  encode_params (EncodeTimeout (IndicesGetIndexTemplateParams_TimeoutParams q) ++ EncodeDebug (IndicesGetIndexTemplateParams_DebugParams q) ++ IndicesGetIndexTemplateParams_own q).
Record IndicesGetIndexTemplateReq := MkIndicesGetIndexTemplateReq { IndicesGetIndexTemplateReq_Name : string; IndicesGetIndexTemplateReq_Header : headers;
  IndicesGetIndexTemplateReq_Params : option IndicesGetIndexTemplateParams }.
Definition IndicesGetIndexTemplateReq_GetRequest (r : IndicesGetIndexTemplateReq) (method : string) : request_error + httpRequest * Z :=
  send method (IndicesGetIndexTemplatePath_Build (MkIndicesGetIndexTemplatePath (IndicesGetIndexTemplateReq_Name r)))
    (match IndicesGetIndexTemplateReq_Params r with Some q => IndicesGetIndexTemplateParams_get q | None => ∅ end)
    no_body (IndicesGetIndexTemplateReq_Header r).
Definition IndicesGetIndexTemplate_Method (r : IndicesGetIndexTemplateReq) : string := "GET".
#[export] Instance IndicesGetIndexTemplate_operation : operation IndicesGetIndexTemplateReq :=
  {| op_path := MkPathType "IndicesGetIndexTemplatePath" IndicesGetIndexTemplatePath _ _; op_P := IndicesGetIndexTemplateParams; op_fields r := MkIndicesGetIndexTemplatePath (IndicesGetIndexTemplateReq_Name r);
     op_params := IndicesGetIndexTemplateReq_Params; op_defaults := None; op_timeout := IndicesGetIndexTemplateParams_TimeoutParams; op_debug := IndicesGetIndexTemplateParams_DebugParams;
     op_format := None; op_own := IndicesGetIndexTemplateParams_own; op_slots := IndicesGetIndexTemplateParams_slots;
     op_body _ := no_body; op_headers r := IndicesGetIndexTemplateReq_Header r;
     Method := IndicesGetIndexTemplate_Method; GetRequest := IndicesGetIndexTemplateReq_GetRequest;
     op_keys := ["flat_settings"; "local"];
     op_described := [("GET", "/_index_template"); ("GET", "/_index_template/{name}")];
     op_query := ["flat_settings"; "local"] |}.
#[export] Instance IndicesGetIndexTemplate_operates : LawfulOp IndicesGetIndexTemplateReq.
Proof. operate. Qed.

Record IndicesGetMappingParams := MkIndicesGetMappingParams { IndicesGetMappingParams_TimeoutParams : TimeoutParams; IndicesGetMappingParams_DebugParams : DebugParams;
  IndicesGetMappingParams_AllowNoIndices : option bool; IndicesGetMappingParams_ExpandWildcards : list string;
  IndicesGetMappingParams_IgnoreUnavailable : option bool; IndicesGetMappingParams_Indices : list string; IndicesGetMappingParams_Local : option bool }.
Definition IndicesGetMappingParams_own (q : IndicesGetMappingParams) : list param :=
  [("allow_no_indices", boolPtr (IndicesGetMappingParams_AllowNoIndices q)); ("expand_wildcards", joined (IndicesGetMappingParams_ExpandWildcards q));
  ("ignore_unavailable", boolPtr (IndicesGetMappingParams_IgnoreUnavailable q)); ("index", joined (IndicesGetMappingParams_Indices q));
  ("local", boolPtr (IndicesGetMappingParams_Local q))].
Definition IndicesGetMappingParams_slots : list (string * (IndicesGetMappingParams -> slot)) :=
  [("AllowNoIndices", fun q => BoolPtr (IndicesGetMappingParams_AllowNoIndices q));
  ("ExpandWildcards", fun q => TextList (IndicesGetMappingParams_ExpandWildcards q));
  ("IgnoreUnavailable", fun q => BoolPtr (IndicesGetMappingParams_IgnoreUnavailable q));
  ("Indices", fun q => TextList (IndicesGetMappingParams_Indices q)); ("Local", fun q => BoolPtr (IndicesGetMappingParams_Local q))].
Definition IndicesGetMappingParams_get (q : IndicesGetMappingParams) : gmap string string :=
  encode_params (EncodeTimeout (IndicesGetMappingParams_TimeoutParams q) ++ EncodeDebug (IndicesGetMappingParams_DebugParams q) ++ IndicesGetMappingParams_own q).
Record IndicesGetMappingReq := MkIndicesGetMappingReq { IndicesGetMappingReq_Indices : list string; IndicesGetMappingReq_Header : headers; IndicesGetMappingReq_Params : option IndicesGetMappingParams }.
Definition IndicesGetMappingReq_GetRequest (r : IndicesGetMappingReq) (method : string) : request_error + httpRequest * Z :=
  send method (IndicesGetMappingPath_Build (MkIndicesGetMappingPath (IndicesGetMappingReq_Indices r)))
    (match IndicesGetMappingReq_Params r with Some q => IndicesGetMappingParams_get q | None => ∅ end)
    no_body (IndicesGetMappingReq_Header r).
Definition IndicesGetMapping_Method (r : IndicesGetMappingReq) : string := "GET".
#[export] Instance IndicesGetMapping_operation : operation IndicesGetMappingReq :=
  {| op_path := MkPathType "IndicesGetMappingPath" IndicesGetMappingPath _ _; op_P := IndicesGetMappingParams; op_fields r := MkIndicesGetMappingPath (IndicesGetMappingReq_Indices r);
     op_params := IndicesGetMappingReq_Params; op_defaults := None; op_timeout := IndicesGetMappingParams_TimeoutParams; op_debug := IndicesGetMappingParams_DebugParams;
     op_format := None; op_own := IndicesGetMappingParams_own; op_slots := IndicesGetMappingParams_slots;
     op_body _ := no_body; op_headers r := IndicesGetMappingReq_Header r;
     Method := IndicesGetMapping_Method; GetRequest := IndicesGetMappingReq_GetRequest;
     op_keys := ["allow_no_indices"; "expand_wildcards"; "ignore_unavailable"; "index"; "local"];
     op_described := [("GET", "/_mapping"); ("GET", "/{index}/_mapping")];
     op_query := ["allow_no_indices"; "expand_wildcards"; "ignore_unavailable"; "index"; "local"] |}.
#[export] Instance IndicesGetMapping_operates : LawfulOp IndicesGetMappingReq.
Proof. operate. Qed.

Record IndicesGetSettingsParams := MkIndicesGetSettingsParams { IndicesGetSettingsParams_TimeoutParams : TimeoutParams; IndicesGetSettingsParams_DebugParams : DebugParams;
  IndicesGetSettingsParams_AllowNoIndices : option bool; IndicesGetSettingsParams_ExpandWildcards : list string;
  IndicesGetSettingsParams_FlatSettings : option bool; IndicesGetSettingsParams_IgnoreUnavailable : option bool;
  IndicesGetSettingsParams_IncludeDefaults : option bool; IndicesGetSettingsParams_Local : option bool }.
Definition IndicesGetSettingsParams_own (q : IndicesGetSettingsParams) : list param :=
  [("allow_no_indices", boolPtr (IndicesGetSettingsParams_AllowNoIndices q)); ("expand_wildcards", joined (IndicesGetSettingsParams_ExpandWildcards q));
  ("flat_settings", boolPtr (IndicesGetSettingsParams_FlatSettings q)); ("ignore_unavailable", boolPtr (IndicesGetSettingsParams_IgnoreUnavailable q));
  ("include_defaults", boolPtr (IndicesGetSettingsParams_IncludeDefaults q)); ("local", boolPtr (IndicesGetSettingsParams_Local q))].
Definition IndicesGetSettingsParams_slots : list (string * (IndicesGetSettingsParams -> slot)) :=
  [("AllowNoIndices", fun q => BoolPtr (IndicesGetSettingsParams_AllowNoIndices q));
  ("ExpandWildcards", fun q => TextList (IndicesGetSettingsParams_ExpandWildcards q));
  ("FlatSettings", fun q => BoolPtr (IndicesGetSettingsParams_FlatSettings q));
  ("IgnoreUnavailable", fun q => BoolPtr (IndicesGetSettingsParams_IgnoreUnavailable q));
  ("IncludeDefaults", fun q => BoolPtr (IndicesGetSettingsParams_IncludeDefaults q)); ("Local", fun q => BoolPtr (IndicesGetSettingsParams_Local q))].
Definition IndicesGetSettingsParams_get (q : IndicesGetSettingsParams) : gmap string string :=
  encode_params (EncodeTimeout (IndicesGetSettingsParams_TimeoutParams q) ++ EncodeDebug (IndicesGetSettingsParams_DebugParams q) ++ IndicesGetSettingsParams_own q).
Record IndicesGetSettingsReq := MkIndicesGetSettingsReq { IndicesGetSettingsReq_Name : list string; IndicesGetSettingsReq_Indices : list string; IndicesGetSettingsReq_Header : headers;
  IndicesGetSettingsReq_Params : option IndicesGetSettingsParams }.
Definition IndicesGetSettingsReq_GetRequest (r : IndicesGetSettingsReq) (method : string) : request_error + httpRequest * Z :=
  send method (IndicesGetSettingsPath_Build (MkIndicesGetSettingsPath (IndicesGetSettingsReq_Indices r) (IndicesGetSettingsReq_Name r)))
    (match IndicesGetSettingsReq_Params r with Some q => IndicesGetSettingsParams_get q | None => ∅ end)
    no_body (IndicesGetSettingsReq_Header r).
Definition IndicesGetSettings_Method (r : IndicesGetSettingsReq) : string := "GET".
#[export] Instance IndicesGetSettings_operation : operation IndicesGetSettingsReq :=
  {| op_path := MkPathType "IndicesGetSettingsPath" IndicesGetSettingsPath _ _; op_P := IndicesGetSettingsParams; op_fields r := MkIndicesGetSettingsPath (IndicesGetSettingsReq_Indices r) (IndicesGetSettingsReq_Name r);
     op_params := IndicesGetSettingsReq_Params; op_defaults := None; op_timeout := IndicesGetSettingsParams_TimeoutParams; op_debug := IndicesGetSettingsParams_DebugParams;
     op_format := None; op_own := IndicesGetSettingsParams_own; op_slots := IndicesGetSettingsParams_slots;
     op_body _ := no_body; op_headers r := IndicesGetSettingsReq_Header r;
     Method := IndicesGetSettings_Method; GetRequest := IndicesGetSettingsReq_GetRequest;
     op_keys := ["allow_no_indices"; "expand_wildcards"; "flat_settings"; "ignore_unavailable"; "include_defaults"; "local"];
     op_described := [("GET", "/_settings"); ("GET", "/_settings/{name}"); ("GET", "/{index}/_settings"); ("GET", "/{index}/_settings/{name}")];
     op_query := ["allow_no_indices"; "expand_wildcards"; "flat_settings"; "ignore_unavailable"; "include_defaults"; "local"] |}.
#[export] Instance IndicesGetSettings_operates : LawfulOp IndicesGetSettingsReq.
Proof. operate. Qed.

Record IndicesGetTemplateParams := MkIndicesGetTemplateParams { IndicesGetTemplateParams_TimeoutParams : TimeoutParams; IndicesGetTemplateParams_DebugParams : DebugParams;
  IndicesGetTemplateParams_FlatSettings : option bool; IndicesGetTemplateParams_Local : option bool }.
Definition IndicesGetTemplateParams_own (q : IndicesGetTemplateParams) : list param :=
  [("flat_settings", boolPtr (IndicesGetTemplateParams_FlatSettings q)); ("local", boolPtr (IndicesGetTemplateParams_Local q))].
Definition IndicesGetTemplateParams_slots : list (string * (IndicesGetTemplateParams -> slot)) :=
  [("FlatSettings", fun q => BoolPtr (IndicesGetTemplateParams_FlatSettings q)); ("Local", fun q => BoolPtr (IndicesGetTemplateParams_Local q))].
Definition IndicesGetTemplateParams_get (q : IndicesGetTemplateParams) : gmap string string :=
  encode_params (EncodeTimeout (IndicesGetTemplateParams_TimeoutParams q) ++ EncodeDebug (IndicesGetTemplateParams_DebugParams q) ++ IndicesGetTemplateParams_own q).
Record IndicesGetTemplateReq := MkIndicesGetTemplateReq { IndicesGetTemplateReq_Name : list string; IndicesGetTemplateReq_Header : headers; IndicesGetTemplateReq_Params : option IndicesGetTemplateParams }.
Definition IndicesGetTemplateReq_GetRequest (r : IndicesGetTemplateReq) (method : string) : request_error + httpRequest * Z :=
  send method (IndicesGetTemplatePath_Build (MkIndicesGetTemplatePath (IndicesGetTemplateReq_Name r)))
    (match IndicesGetTemplateReq_Params r with Some q => IndicesGetTemplateParams_get q | None => ∅ end)
    no_body (IndicesGetTemplateReq_Header r).
Definition IndicesGetTemplate_Method (r : IndicesGetTemplateReq) : string := "GET".
#[export] Instance IndicesGetTemplate_operation : operation IndicesGetTemplateReq :=
  {| op_path := MkPathType "IndicesGetTemplatePath" IndicesGetTemplatePath _ _; op_P := IndicesGetTemplateParams; op_fields r := MkIndicesGetTemplatePath (IndicesGetTemplateReq_Name r);
     op_params := IndicesGetTemplateReq_Params; op_defaults := None; op_timeout := IndicesGetTemplateParams_TimeoutParams; op_debug := IndicesGetTemplateParams_DebugParams;
     op_format := None; op_own := IndicesGetTemplateParams_own; op_slots := IndicesGetTemplateParams_slots;
     op_body _ := no_body; op_headers r := IndicesGetTemplateReq_Header r;
     Method := IndicesGetTemplate_Method; GetRequest := IndicesGetTemplateReq_GetRequest;
     op_keys := ["flat_settings"; "local"];
     op_described := [("GET", "/_template"); ("GET", "/_template/{name}")];
     op_query := ["flat_settings"; "local"] |}.
#[export] Instance IndicesGetTemplate_operates : LawfulOp IndicesGetTemplateReq.
Proof. operate. Qed.

Record IndicesGetUpgradeParams := MkIndicesGetUpgradeParams { IndicesGetUpgradeParams_TimeoutParams : TimeoutParams; IndicesGetUpgradeParams_DebugParams : DebugParams;
  IndicesGetUpgradeParams_AllowNoIndices : option bool; IndicesGetUpgradeParams_ExpandWildcards : list string;
  IndicesGetUpgradeParams_IgnoreUnavailable : option bool }.
Definition IndicesGetUpgradeParams_own (q : IndicesGetUpgradeParams) : list param :=
  [("allow_no_indices", boolPtr (IndicesGetUpgradeParams_AllowNoIndices q)); ("expand_wildcards", joined (IndicesGetUpgradeParams_ExpandWildcards q));
  ("ignore_unavailable", boolPtr (IndicesGetUpgradeParams_IgnoreUnavailable q))].
Definition IndicesGetUpgradeParams_slots : list (string * (IndicesGetUpgradeParams -> slot)) :=
  [("AllowNoIndices", fun q => BoolPtr (IndicesGetUpgradeParams_AllowNoIndices q));
  ("ExpandWildcards", fun q => TextList (IndicesGetUpgradeParams_ExpandWildcards q));
  ("IgnoreUnavailable", fun q => BoolPtr (IndicesGetUpgradeParams_IgnoreUnavailable q))].
Definition IndicesGetUpgradeParams_get (q : IndicesGetUpgradeParams) : gmap string string :=
  encode_params (EncodeTimeout (IndicesGetUpgradeParams_TimeoutParams q) ++ EncodeDebug (IndicesGetUpgradeParams_DebugParams q) ++ IndicesGetUpgradeParams_own q).
Record IndicesGetUpgradeReq := MkIndicesGetUpgradeReq { IndicesGetUpgradeReq_Indices : list string; IndicesGetUpgradeReq_Header : headers; IndicesGetUpgradeReq_Params : option IndicesGetUpgradeParams }.
Definition IndicesGetUpgradeReq_GetRequest (r : IndicesGetUpgradeReq) (method : string) : request_error + httpRequest * Z :=
  send method (IndicesGetUpgradePath_Build (MkIndicesGetUpgradePath (IndicesGetUpgradeReq_Indices r)))
    (match IndicesGetUpgradeReq_Params r with Some q => IndicesGetUpgradeParams_get q | None => ∅ end)
    no_body (IndicesGetUpgradeReq_Header r).
Definition IndicesGetUpgrade_Method (r : IndicesGetUpgradeReq) : string := "GET".
#[export] Instance IndicesGetUpgrade_operation : operation IndicesGetUpgradeReq :=
  {| op_path := MkPathType "IndicesGetUpgradePath" IndicesGetUpgradePath _ _; op_P := IndicesGetUpgradeParams; op_fields r := MkIndicesGetUpgradePath (IndicesGetUpgradeReq_Indices r);
     op_params := IndicesGetUpgradeReq_Params; op_defaults := None; op_timeout := IndicesGetUpgradeParams_TimeoutParams; op_debug := IndicesGetUpgradeParams_DebugParams;
     op_format := None; op_own := IndicesGetUpgradeParams_own; op_slots := IndicesGetUpgradeParams_slots;
     op_body _ := no_body; op_headers r := IndicesGetUpgradeReq_Header r;
     Method := IndicesGetUpgrade_Method; GetRequest := IndicesGetUpgradeReq_GetRequest;
     op_keys := ["allow_no_indices"; "expand_wildcards"; "ignore_unavailable"];
     op_described := [("GET", "/_upgrade"); ("GET", "/{index}/_upgrade")];
     op_query := ["allow_no_indices"; "expand_wildcards"; "ignore_unavailable"] |}.
#[export] Instance IndicesGetUpgrade_operates : LawfulOp IndicesGetUpgradeReq.
Proof. operate. Qed.

Record IndicesOpenParams := MkIndicesOpenParams { IndicesOpenParams_TimeoutParams : TimeoutParams; IndicesOpenParams_DebugParams : DebugParams; IndicesOpenParams_AllowNoIndices : option bool;
  IndicesOpenParams_ExpandWildcards : list string; IndicesOpenParams_IgnoreUnavailable : option bool; IndicesOpenParams_TaskExecutionTimeout : Z;
  IndicesOpenParams_WaitForActiveShards : string; IndicesOpenParams_WaitForCompletion : option bool }.
Definition IndicesOpenParams_own (q : IndicesOpenParams) : list param :=
  [("allow_no_indices", boolPtr (IndicesOpenParams_AllowNoIndices q)); ("expand_wildcards", joined (IndicesOpenParams_ExpandWildcards q));
  ("ignore_unavailable", boolPtr (IndicesOpenParams_IgnoreUnavailable q));
  ("task_execution_timeout", duration (IndicesOpenParams_TaskExecutionTimeout q));
  ("wait_for_active_shards", nonEmpty (IndicesOpenParams_WaitForActiveShards q));
  ("wait_for_completion", boolPtr (IndicesOpenParams_WaitForCompletion q))].
Definition IndicesOpenParams_slots : list (string * (IndicesOpenParams -> slot)) :=
  [("AllowNoIndices", fun q => BoolPtr (IndicesOpenParams_AllowNoIndices q));
  ("ExpandWildcards", fun q => TextList (IndicesOpenParams_ExpandWildcards q));
  ("IgnoreUnavailable", fun q => BoolPtr (IndicesOpenParams_IgnoreUnavailable q));
  ("TaskExecutionTimeout", fun q => Duration (IndicesOpenParams_TaskExecutionTimeout q));
  ("WaitForActiveShards", fun q => Text (IndicesOpenParams_WaitForActiveShards q));
  ("WaitForCompletion", fun q => BoolPtr (IndicesOpenParams_WaitForCompletion q))].
Definition IndicesOpenParams_get (q : IndicesOpenParams) : gmap string string :=
  encode_params (EncodeTimeout (IndicesOpenParams_TimeoutParams q) ++ EncodeDebug (IndicesOpenParams_DebugParams q) ++ IndicesOpenParams_own q).
Record IndicesOpenReq := MkIndicesOpenReq { IndicesOpenReq_Indices : list string; IndicesOpenReq_Header : headers; IndicesOpenReq_Params : option IndicesOpenParams }.
Definition IndicesOpenReq_GetRequest (r : IndicesOpenReq) (method : string) : request_error + httpRequest * Z :=
  send method (IndicesOpenPath_Build (MkIndicesOpenPath (IndicesOpenReq_Indices r)))
    (match IndicesOpenReq_Params r with Some q => IndicesOpenParams_get q | None => ∅ end)
    no_body (IndicesOpenReq_Header r).
Definition IndicesOpen_Method (r : IndicesOpenReq) : string := "POST".
#[export] Instance IndicesOpen_operation : operation IndicesOpenReq :=
  {| op_path := MkPathType "IndicesOpenPath" IndicesOpenPath _ _; op_P := IndicesOpenParams; op_fields r := MkIndicesOpenPath (IndicesOpenReq_Indices r);
     op_params := IndicesOpenReq_Params; op_defaults := None; op_timeout := IndicesOpenParams_TimeoutParams; op_debug := IndicesOpenParams_DebugParams;
     op_format := None; op_own := IndicesOpenParams_own; op_slots := IndicesOpenParams_slots;
     op_body _ := no_body; op_headers r := IndicesOpenReq_Header r;
     Method := IndicesOpen_Method; GetRequest := IndicesOpenReq_GetRequest;
     op_keys := ["allow_no_indices"; "expand_wildcards"; "ignore_unavailable"; "task_execution_timeout"; "wait_for_active_shards"; "wait_for_completion"];
     op_described := [("POST", "/{index}/_open")];
     op_query := ["allow_no_indices"; "expand_wildcards"; "ignore_unavailable"; "task_execution_timeout"; "wait_for_active_shards"; "wait_for_completion"] |}.
#[export] Instance IndicesOpen_operates : LawfulOp IndicesOpenReq.
Proof. operate. Qed.

Record IndicesPutAliasParams := MkIndicesPutAliasParams { IndicesPutAliasParams_TimeoutParams : TimeoutParams; IndicesPutAliasParams_DebugParams : DebugParams }.
Definition IndicesPutAliasParams_own (q : IndicesPutAliasParams) : list param :=
  [].
Definition IndicesPutAliasParams_slots : list (string * (IndicesPutAliasParams -> slot)) :=
  [].
Definition IndicesPutAliasParams_get (q : IndicesPutAliasParams) : gmap string string :=
  encode_params (EncodeTimeout (IndicesPutAliasParams_TimeoutParams q) ++ EncodeDebug (IndicesPutAliasParams_DebugParams q) ++ IndicesPutAliasParams_own q).
Record IndicesPutAliasReq := MkIndicesPutAliasReq { IndicesPutAliasReq_Name : string; IndicesPutAliasReq_Indices : list string; IndicesPutAliasReq_Body : option (option string);
  IndicesPutAliasReq_BodyReader : reader; IndicesPutAliasReq_Header : headers; IndicesPutAliasReq_Params : option IndicesPutAliasParams }.
Definition IndicesPutAliasReq_GetRequest (r : IndicesPutAliasReq) (method : string) : request_error + httpRequest * Z :=
  send method (IndicesPutAliasPath_Build (MkIndicesPutAliasPath (IndicesPutAliasReq_Indices r) (IndicesPutAliasReq_Name r)))
    (match IndicesPutAliasReq_Params r with Some q => IndicesPutAliasParams_get q | None => ∅ end)
    (json_body (IndicesPutAliasReq_Body r) (IndicesPutAliasReq_BodyReader r)) (IndicesPutAliasReq_Header r).
Definition IndicesPutAlias_Method (r : IndicesPutAliasReq) : string := "PUT".
#[export] Instance IndicesPutAlias_operation : operation IndicesPutAliasReq :=
  {| op_path := MkPathType "IndicesPutAliasPath" IndicesPutAliasPath _ _; op_P := IndicesPutAliasParams; op_fields r := MkIndicesPutAliasPath (IndicesPutAliasReq_Indices r) (IndicesPutAliasReq_Name r);
     op_params := IndicesPutAliasReq_Params; op_defaults := None; op_timeout := IndicesPutAliasParams_TimeoutParams; op_debug := IndicesPutAliasParams_DebugParams;
     op_format := None; op_own := IndicesPutAliasParams_own; op_slots := IndicesPutAliasParams_slots;
     op_body r := json_body (IndicesPutAliasReq_Body r) (IndicesPutAliasReq_BodyReader r); op_headers r := IndicesPutAliasReq_Header r;
     Method := IndicesPutAlias_Method; GetRequest := IndicesPutAliasReq_GetRequest;
     op_keys := [];
     op_described := [("PUT", "/_alias"); ("POST", "/_alias/{name}"); ("PUT", "/_alias/{name}"); ("PUT", "/{index}/_alias"); ("POST", "/{index}/_alias/{name}");
        ("PUT", "/{index}/_alias/{name}")];
     op_query := [] |}.
#[export] Instance IndicesPutAlias_operates : LawfulOp IndicesPutAliasReq.
Proof. operate. Qed.

Record IndicesPutIndexTemplateParams := MkIndicesPutIndexTemplateParams { IndicesPutIndexTemplateParams_TimeoutParams : TimeoutParams; IndicesPutIndexTemplateParams_DebugParams : DebugParams;
  IndicesPutIndexTemplateParams_Cause : string; IndicesPutIndexTemplateParams_Create : option bool }.
Definition IndicesPutIndexTemplateParams_own (q : IndicesPutIndexTemplateParams) : list param :=
  [("cause", nonEmpty (IndicesPutIndexTemplateParams_Cause q)); ("create", boolPtr (IndicesPutIndexTemplateParams_Create q))].
Definition IndicesPutIndexTemplateParams_slots : list (string * (IndicesPutIndexTemplateParams -> slot)) :=
  [("Cause", fun q => Text (IndicesPutIndexTemplateParams_Cause q)); ("Create", fun q => BoolPtr (IndicesPutIndexTemplateParams_Create q))].
Definition IndicesPutIndexTemplateParams_get (q : IndicesPutIndexTemplateParams) : gmap string string :=
  encode_params (EncodeTimeout (IndicesPutIndexTemplateParams_TimeoutParams q) ++ EncodeDebug (IndicesPutIndexTemplateParams_DebugParams q) ++ IndicesPutIndexTemplateParams_own q).
Record IndicesPutIndexTemplateReq := MkIndicesPutIndexTemplateReq { IndicesPutIndexTemplateReq_Name : string; IndicesPutIndexTemplateReq_Body : option (option string); IndicesPutIndexTemplateReq_BodyReader : reader;
  IndicesPutIndexTemplateReq_Header : headers; IndicesPutIndexTemplateReq_Params : option IndicesPutIndexTemplateParams }.
Definition IndicesPutIndexTemplateReq_GetRequest (r : IndicesPutIndexTemplateReq) (method : string) : request_error + httpRequest * Z :=
  send method (IndicesPutIndexTemplatePath_Build (MkIndicesPutIndexTemplatePath (IndicesPutIndexTemplateReq_Name r)))
    (match IndicesPutIndexTemplateReq_Params r with Some q => IndicesPutIndexTemplateParams_get q | None => ∅ end)
    (json_body (IndicesPutIndexTemplateReq_Body r) (IndicesPutIndexTemplateReq_BodyReader r)) (IndicesPutIndexTemplateReq_Header r).
Definition IndicesPutIndexTemplate_Method (r : IndicesPutIndexTemplateReq) : string := "POST".
#[export] Instance IndicesPutIndexTemplate_operation : operation IndicesPutIndexTemplateReq :=
  {| op_path := MkPathType "IndicesPutIndexTemplatePath" IndicesPutIndexTemplatePath _ _; op_P := IndicesPutIndexTemplateParams; op_fields r := MkIndicesPutIndexTemplatePath (IndicesPutIndexTemplateReq_Name r);
     op_params := IndicesPutIndexTemplateReq_Params; op_defaults := None; op_timeout := IndicesPutIndexTemplateParams_TimeoutParams; op_debug := IndicesPutIndexTemplateParams_DebugParams;
     op_format := None; op_own := IndicesPutIndexTemplateParams_own; op_slots := IndicesPutIndexTemplateParams_slots;
     op_body r := json_body (IndicesPutIndexTemplateReq_Body r) (IndicesPutIndexTemplateReq_BodyReader r); op_headers r := IndicesPutIndexTemplateReq_Header r;
     Method := IndicesPutIndexTemplate_Method; GetRequest := IndicesPutIndexTemplateReq_GetRequest;
     op_keys := ["cause"; "create"];
     op_described := [("POST", "/_index_template/{name}"); ("PUT", "/_index_template/{name}")];
     op_query := ["cause"; "create"] |}.
#[export] Instance IndicesPutIndexTemplate_operates : LawfulOp IndicesPutIndexTemplateReq.
Proof. operate. Qed.

Record IndicesPutMappingParams := MkIndicesPutMappingParams { IndicesPutMappingParams_TimeoutParams : TimeoutParams; IndicesPutMappingParams_DebugParams : DebugParams;
  IndicesPutMappingParams_AllowNoIndices : option bool; IndicesPutMappingParams_ExpandWildcards : list string;
  IndicesPutMappingParams_IgnoreUnavailable : option bool; IndicesPutMappingParams_WriteIndexOnly : option bool }.
Definition IndicesPutMappingParams_own (q : IndicesPutMappingParams) : list param :=
  [("allow_no_indices", boolPtr (IndicesPutMappingParams_AllowNoIndices q)); ("expand_wildcards", joined (IndicesPutMappingParams_ExpandWildcards q));
  ("ignore_unavailable", boolPtr (IndicesPutMappingParams_IgnoreUnavailable q));
  ("write_index_only", boolPtr (IndicesPutMappingParams_WriteIndexOnly q))].
Definition IndicesPutMappingParams_slots : list (string * (IndicesPutMappingParams -> slot)) :=
  [("AllowNoIndices", fun q => BoolPtr (IndicesPutMappingParams_AllowNoIndices q));
  ("ExpandWildcards", fun q => TextList (IndicesPutMappingParams_ExpandWildcards q));
  ("IgnoreUnavailable", fun q => BoolPtr (IndicesPutMappingParams_IgnoreUnavailable q));
  ("WriteIndexOnly", fun q => BoolPtr (IndicesPutMappingParams_WriteIndexOnly q))].
Definition IndicesPutMappingParams_get (q : IndicesPutMappingParams) : gmap string string :=
  encode_params (EncodeTimeout (IndicesPutMappingParams_TimeoutParams q) ++ EncodeDebug (IndicesPutMappingParams_DebugParams q) ++ IndicesPutMappingParams_own q).
Record IndicesPutMappingReq := MkIndicesPutMappingReq { IndicesPutMappingReq_Indices : list string; IndicesPutMappingReq_Body : option (option string); IndicesPutMappingReq_BodyReader : reader;
  IndicesPutMappingReq_Header : headers; IndicesPutMappingReq_Params : option IndicesPutMappingParams }.
Definition IndicesPutMappingReq_GetRequest (r : IndicesPutMappingReq) (method : string) : request_error + httpRequest * Z :=
  send method (IndicesPutMappingPath_Build (MkIndicesPutMappingPath (IndicesPutMappingReq_Indices r)))
    (match IndicesPutMappingReq_Params r with Some q => IndicesPutMappingParams_get q | None => ∅ end)
    (json_body (IndicesPutMappingReq_Body r) (IndicesPutMappingReq_BodyReader r)) (IndicesPutMappingReq_Header r).
Definition IndicesPutMapping_Method (r : IndicesPutMappingReq) : string := "POST".
#[export] Instance IndicesPutMapping_operation : operation IndicesPutMappingReq :=
  {| op_path := MkPathType "IndicesPutMappingPath" IndicesPutMappingPath _ _; op_P := IndicesPutMappingParams; op_fields r := MkIndicesPutMappingPath (IndicesPutMappingReq_Indices r);
     op_params := IndicesPutMappingReq_Params; op_defaults := None; op_timeout := IndicesPutMappingParams_TimeoutParams; op_debug := IndicesPutMappingParams_DebugParams;
     op_format := None; op_own := IndicesPutMappingParams_own; op_slots := IndicesPutMappingParams_slots;
     op_body r := json_body (IndicesPutMappingReq_Body r) (IndicesPutMappingReq_BodyReader r); op_headers r := IndicesPutMappingReq_Header r;
     Method := IndicesPutMapping_Method; GetRequest := IndicesPutMappingReq_GetRequest;
     op_keys := ["allow_no_indices"; "expand_wildcards"; "ignore_unavailable"; "write_index_only"];
     op_described := [("POST", "/{index}/_mapping"); ("PUT", "/{index}/_mapping")];
     op_query := ["allow_no_indices"; "expand_wildcards"; "ignore_unavailable"; "write_index_only"] |}.
#[export] Instance IndicesPutMapping_operates : LawfulOp IndicesPutMappingReq.
Proof. operate. Qed.

Record IndicesPutSettingsParams := MkIndicesPutSettingsParams { IndicesPutSettingsParams_TimeoutParams : TimeoutParams; IndicesPutSettingsParams_DebugParams : DebugParams;
  IndicesPutSettingsParams_AllowNoIndices : option bool; IndicesPutSettingsParams_ExpandWildcards : list string;
  IndicesPutSettingsParams_FlatSettings : option bool; IndicesPutSettingsParams_IgnoreUnavailable : option bool;
  IndicesPutSettingsParams_PreserveExisting : option bool }.
Definition IndicesPutSettingsParams_own (q : IndicesPutSettingsParams) : list param :=
  [("allow_no_indices", boolPtr (IndicesPutSettingsParams_AllowNoIndices q)); ("expand_wildcards", joined (IndicesPutSettingsParams_ExpandWildcards q));
  ("flat_settings", boolPtr (IndicesPutSettingsParams_FlatSettings q)); ("ignore_unavailable", boolPtr (IndicesPutSettingsParams_IgnoreUnavailable q));
  ("preserve_existing", boolPtr (IndicesPutSettingsParams_PreserveExisting q))].
Definition IndicesPutSettingsParams_slots : list (string * (IndicesPutSettingsParams -> slot)) :=
  [("AllowNoIndices", fun q => BoolPtr (IndicesPutSettingsParams_AllowNoIndices q));
  ("ExpandWildcards", fun q => TextList (IndicesPutSettingsParams_ExpandWildcards q));
  ("FlatSettings", fun q => BoolPtr (IndicesPutSettingsParams_FlatSettings q));
  ("IgnoreUnavailable", fun q => BoolPtr (IndicesPutSettingsParams_IgnoreUnavailable q));
  ("PreserveExisting", fun q => BoolPtr (IndicesPutSettingsParams_PreserveExisting q))].
Definition IndicesPutSettingsParams_get (q : IndicesPutSettingsParams) : gmap string string :=
  encode_params (EncodeTimeout (IndicesPutSettingsParams_TimeoutParams q) ++ EncodeDebug (IndicesPutSettingsParams_DebugParams q) ++ IndicesPutSettingsParams_own q).
Record IndicesPutSettingsReq := MkIndicesPutSettingsReq { IndicesPutSettingsReq_Indices : list string; IndicesPutSettingsReq_Body : option (option string); IndicesPutSettingsReq_BodyReader : reader;
  IndicesPutSettingsReq_Header : headers; IndicesPutSettingsReq_Params : option IndicesPutSettingsParams }.
Definition IndicesPutSettingsReq_GetRequest (r : IndicesPutSettingsReq) (method : string) : request_error + httpRequest * Z :=
  send method (IndicesPutSettingsPath_Build (MkIndicesPutSettingsPath (IndicesPutSettingsReq_Indices r)))
    (match IndicesPutSettingsReq_Params r with Some q => IndicesPutSettingsParams_get q | None => ∅ end)
    (json_body (IndicesPutSettingsReq_Body r) (IndicesPutSettingsReq_BodyReader r)) (IndicesPutSettingsReq_Header r).
Definition IndicesPutSettings_Method (r : IndicesPutSettingsReq) : string := "PUT".
#[export] Instance IndicesPutSettings_operation : operation IndicesPutSettingsReq :=
  {| op_path := MkPathType "IndicesPutSettingsPath" IndicesPutSettingsPath _ _; op_P := IndicesPutSettingsParams; op_fields r := MkIndicesPutSettingsPath (IndicesPutSettingsReq_Indices r);
     op_params := IndicesPutSettingsReq_Params; op_defaults := None; op_timeout := IndicesPutSettingsParams_TimeoutParams; op_debug := IndicesPutSettingsParams_DebugParams;
     op_format := None; op_own := IndicesPutSettingsParams_own; op_slots := IndicesPutSettingsParams_slots;
     op_body r := json_body (IndicesPutSettingsReq_Body r) (IndicesPutSettingsReq_BodyReader r); op_headers r := IndicesPutSettingsReq_Header r;
     Method := IndicesPutSettings_Method; GetRequest := IndicesPutSettingsReq_GetRequest;
     op_keys := ["allow_no_indices"; "expand_wildcards"; "flat_settings"; "ignore_unavailable"; "preserve_existing"];
     op_described := [("PUT", "/_settings"); ("PUT", "/{index}/_settings")];
     op_query := ["allow_no_indices"; "expand_wildcards"; "flat_settings"; "ignore_unavailable"; "preserve_existing"] |}.
#[export] Instance IndicesPutSettings_operates : LawfulOp IndicesPutSettingsReq.
Proof. operate. Qed.

Record IndicesPutTemplateParams := MkIndicesPutTemplateParams { IndicesPutTemplateParams_TimeoutParams : TimeoutParams; IndicesPutTemplateParams_DebugParams : DebugParams;
  IndicesPutTemplateParams_Create : option bool; IndicesPutTemplateParams_Order : Z }.
Definition IndicesPutTemplateParams_own (q : IndicesPutTemplateParams) : list param :=
  [("create", boolPtr (IndicesPutTemplateParams_Create q)); ("order", nonZero (IndicesPutTemplateParams_Order q))].
Definition IndicesPutTemplateParams_slots : list (string * (IndicesPutTemplateParams -> slot)) :=
  [("Create", fun q => BoolPtr (IndicesPutTemplateParams_Create q)); ("Order", fun q => Int (IndicesPutTemplateParams_Order q))].
Definition IndicesPutTemplateParams_get (q : IndicesPutTemplateParams) : gmap string string :=
  encode_params (EncodeTimeout (IndicesPutTemplateParams_TimeoutParams q) ++ EncodeDebug (IndicesPutTemplateParams_DebugParams q) ++ IndicesPutTemplateParams_own q).
Record IndicesPutTemplateReq := MkIndicesPutTemplateReq { IndicesPutTemplateReq_Name : string; IndicesPutTemplateReq_Body : option (option string); IndicesPutTemplateReq_BodyReader : reader;
  IndicesPutTemplateReq_Header : headers; IndicesPutTemplateReq_Params : option IndicesPutTemplateParams }.
Definition IndicesPutTemplateReq_GetRequest (r : IndicesPutTemplateReq) (method : string) : request_error + httpRequest * Z :=
  send method (IndicesPutTemplatePath_Build (MkIndicesPutTemplatePath (IndicesPutTemplateReq_Name r)))
    (match IndicesPutTemplateReq_Params r with Some q => IndicesPutTemplateParams_get q | None => ∅ end)
    (json_body (IndicesPutTemplateReq_Body r) (IndicesPutTemplateReq_BodyReader r)) (IndicesPutTemplateReq_Header r).
Definition IndicesPutTemplate_Method (r : IndicesPutTemplateReq) : string := "POST".
#[export] Instance IndicesPutTemplate_operation : operation IndicesPutTemplateReq :=
  {| op_path := MkPathType "IndicesPutTemplatePath" IndicesPutTemplatePath _ _; op_P := IndicesPutTemplateParams; op_fields r := MkIndicesPutTemplatePath (IndicesPutTemplateReq_Name r);
     op_params := IndicesPutTemplateReq_Params; op_defaults := None; op_timeout := IndicesPutTemplateParams_TimeoutParams; op_debug := IndicesPutTemplateParams_DebugParams;
     op_format := None; op_own := IndicesPutTemplateParams_own; op_slots := IndicesPutTemplateParams_slots;
     op_body r := json_body (IndicesPutTemplateReq_Body r) (IndicesPutTemplateReq_BodyReader r); op_headers r := IndicesPutTemplateReq_Header r;
     Method := IndicesPutTemplate_Method; GetRequest := IndicesPutTemplateReq_GetRequest;
     op_keys := ["create"; "order"];
     op_described := [("POST", "/_template/{name}"); ("PUT", "/_template/{name}")];
     op_query := ["create"; "order"] |}.
#[export] Instance IndicesPutTemplate_operates : LawfulOp IndicesPutTemplateReq.
Proof. operate. Qed.

Record IndicesRecoveryParams := MkIndicesRecoveryParams { IndicesRecoveryParams_TimeoutParams : TimeoutParams; IndicesRecoveryParams_DebugParams : DebugParams; IndicesRecoveryParams_ActiveOnly : option bool;
  IndicesRecoveryParams_Detailed : option bool }.
Definition IndicesRecoveryParams_own (q : IndicesRecoveryParams) : list param :=
  [("active_only", boolPtr (IndicesRecoveryParams_ActiveOnly q)); ("detailed", boolPtr (IndicesRecoveryParams_Detailed q))].
Definition IndicesRecoveryParams_slots : list (string * (IndicesRecoveryParams -> slot)) :=
  [("ActiveOnly", fun q => BoolPtr (IndicesRecoveryParams_ActiveOnly q)); ("Detailed", fun q => BoolPtr (IndicesRecoveryParams_Detailed q))].
Definition IndicesRecoveryParams_get (q : IndicesRecoveryParams) : gmap string string :=
  encode_params (EncodeTimeout (IndicesRecoveryParams_TimeoutParams q) ++ EncodeDebug (IndicesRecoveryParams_DebugParams q) ++ IndicesRecoveryParams_own q).
Record IndicesRecoveryReq := MkIndicesRecoveryReq { IndicesRecoveryReq_Indices : list string; IndicesRecoveryReq_Header : headers; IndicesRecoveryReq_Params : option IndicesRecoveryParams }.
Definition IndicesRecoveryReq_GetRequest (r : IndicesRecoveryReq) (method : string) : request_error + httpRequest * Z :=
  send method (IndicesRecoveryPath_Build (MkIndicesRecoveryPath (IndicesRecoveryReq_Indices r)))
    (match IndicesRecoveryReq_Params r with Some q => IndicesRecoveryParams_get q | None => ∅ end)
    no_body (IndicesRecoveryReq_Header r).
Definition IndicesRecovery_Method (r : IndicesRecoveryReq) : string := "GET".
#[export] Instance IndicesRecovery_operation : operation IndicesRecoveryReq :=
  {| op_path := MkPathType "IndicesRecoveryPath" IndicesRecoveryPath _ _; op_P := IndicesRecoveryParams; op_fields r := MkIndicesRecoveryPath (IndicesRecoveryReq_Indices r);
     op_params := IndicesRecoveryReq_Params; op_defaults := None; op_timeout := IndicesRecoveryParams_TimeoutParams; op_debug := IndicesRecoveryParams_DebugParams;
     op_format := None; op_own := IndicesRecoveryParams_own; op_slots := IndicesRecoveryParams_slots;
     op_body _ := no_body; op_headers r := IndicesRecoveryReq_Header r;
     Method := IndicesRecovery_Method; GetRequest := IndicesRecoveryReq_GetRequest;
     op_keys := ["active_only"; "detailed"];
     op_described := [("GET", "/_recovery"); ("GET", "/{index}/_recovery")];
     op_query := ["active_only"; "detailed"] |}.
#[export] Instance IndicesRecovery_operates : LawfulOp IndicesRecoveryReq.
Proof. operate. Qed.

Record IndicesRefreshParams := MkIndicesRefreshParams { IndicesRefreshParams_TimeoutParams : TimeoutParams; IndicesRefreshParams_DebugParams : DebugParams;
  IndicesRefreshParams_AllowNoIndices : option bool; IndicesRefreshParams_ExpandWildcards : list string;
  IndicesRefreshParams_IgnoreUnavailable : option bool }.
Definition IndicesRefreshParams_own (q : IndicesRefreshParams) : list param :=
  [("allow_no_indices", boolPtr (IndicesRefreshParams_AllowNoIndices q)); ("expand_wildcards", joined (IndicesRefreshParams_ExpandWildcards q));
  ("ignore_unavailable", boolPtr (IndicesRefreshParams_IgnoreUnavailable q))].
Definition IndicesRefreshParams_slots : list (string * (IndicesRefreshParams -> slot)) :=
  [("AllowNoIndices", fun q => BoolPtr (IndicesRefreshParams_AllowNoIndices q));
  ("ExpandWildcards", fun q => TextList (IndicesRefreshParams_ExpandWildcards q));
  ("IgnoreUnavailable", fun q => BoolPtr (IndicesRefreshParams_IgnoreUnavailable q))].
Definition IndicesRefreshParams_get (q : IndicesRefreshParams) : gmap string string :=
  encode_params (EncodeTimeout (IndicesRefreshParams_TimeoutParams q) ++ EncodeDebug (IndicesRefreshParams_DebugParams q) ++ IndicesRefreshParams_own q).
Record IndicesRefreshReq := MkIndicesRefreshReq { IndicesRefreshReq_Indices : list string; IndicesRefreshReq_Header : headers; IndicesRefreshReq_Params : option IndicesRefreshParams }.
Definition IndicesRefreshReq_GetRequest (r : IndicesRefreshReq) (method : string) : request_error + httpRequest * Z :=
  send method (IndicesRefreshPath_Build (MkIndicesRefreshPath (IndicesRefreshReq_Indices r)))
    (match IndicesRefreshReq_Params r with Some q => IndicesRefreshParams_get q | None => ∅ end)
    no_body (IndicesRefreshReq_Header r).
Definition IndicesRefresh_Method (r : IndicesRefreshReq) : string := "GET".
#[export] Instance IndicesRefresh_operation : operation IndicesRefreshReq :=
  {| op_path := MkPathType "IndicesRefreshPath" IndicesRefreshPath _ _; op_P := IndicesRefreshParams; op_fields r := MkIndicesRefreshPath (IndicesRefreshReq_Indices r);
     op_params := IndicesRefreshReq_Params; op_defaults := None; op_timeout := IndicesRefreshParams_TimeoutParams; op_debug := IndicesRefreshParams_DebugParams;
     op_format := None; op_own := IndicesRefreshParams_own; op_slots := IndicesRefreshParams_slots;
     op_body _ := no_body; op_headers r := IndicesRefreshReq_Header r;
     Method := IndicesRefresh_Method; GetRequest := IndicesRefreshReq_GetRequest;
     op_keys := ["allow_no_indices"; "expand_wildcards"; "ignore_unavailable"];
     op_described := [("GET", "/_refresh"); ("POST", "/_refresh"); ("GET", "/{index}/_refresh"); ("POST", "/{index}/_refresh")];
     op_query := ["allow_no_indices"; "expand_wildcards"; "ignore_unavailable"] |}.
#[export] Instance IndicesRefresh_operates : LawfulOp IndicesRefreshReq.
Proof. operate. Qed.

Record IndicesResolveIndexParams := MkIndicesResolveIndexParams { IndicesResolveIndexParams_TimeoutParams : TimeoutParams; IndicesResolveIndexParams_DebugParams : DebugParams;
  IndicesResolveIndexParams_ExpandWildcards : list string }.
Definition IndicesResolveIndexParams_own (q : IndicesResolveIndexParams) : list param :=
  [("expand_wildcards", joined (IndicesResolveIndexParams_ExpandWildcards q))].
Definition IndicesResolveIndexParams_slots : list (string * (IndicesResolveIndexParams -> slot)) :=
  [("ExpandWildcards", fun q => TextList (IndicesResolveIndexParams_ExpandWildcards q))].
Definition IndicesResolveIndexParams_get (q : IndicesResolveIndexParams) : gmap string string :=
  encode_params (EncodeTimeout (IndicesResolveIndexParams_TimeoutParams q) ++ EncodeDebug (IndicesResolveIndexParams_DebugParams q) ++ IndicesResolveIndexParams_own q).
Record IndicesResolveIndexReq := MkIndicesResolveIndexReq { IndicesResolveIndexReq_Name : list string; IndicesResolveIndexReq_Header : headers; IndicesResolveIndexReq_Params : option IndicesResolveIndexParams }.
Definition IndicesResolveIndexReq_GetRequest (r : IndicesResolveIndexReq) (method : string) : request_error + httpRequest * Z :=
  send method (IndicesResolveIndexPath_Build (MkIndicesResolveIndexPath (IndicesResolveIndexReq_Name r)))
    (match IndicesResolveIndexReq_Params r with Some q => IndicesResolveIndexParams_get q | None => ∅ end)
    no_body (IndicesResolveIndexReq_Header r).
Definition IndicesResolveIndex_Method (r : IndicesResolveIndexReq) : string := "GET".
#[export] Instance IndicesResolveIndex_operation : operation IndicesResolveIndexReq :=
  {| op_path := MkPathType "IndicesResolveIndexPath" IndicesResolveIndexPath _ _; op_P := IndicesResolveIndexParams; op_fields r := MkIndicesResolveIndexPath (IndicesResolveIndexReq_Name r);
     op_params := IndicesResolveIndexReq_Params; op_defaults := None; op_timeout := IndicesResolveIndexParams_TimeoutParams; op_debug := IndicesResolveIndexParams_DebugParams;
     op_format := None; op_own := IndicesResolveIndexParams_own; op_slots := IndicesResolveIndexParams_slots;
     op_body _ := no_body; op_headers r := IndicesResolveIndexReq_Header r;
     Method := IndicesResolveIndex_Method; GetRequest := IndicesResolveIndexReq_GetRequest;
     op_keys := ["expand_wildcards"];
     op_described := [("GET", "/_resolve/index/{name}")];
     op_query := ["expand_wildcards"] |}.
#[export] Instance IndicesResolveIndex_operates : LawfulOp IndicesResolveIndexReq.
Proof. operate. Qed.

Record IndicesRolloverParams := MkIndicesRolloverParams { IndicesRolloverParams_TimeoutParams : TimeoutParams; IndicesRolloverParams_DebugParams : DebugParams; IndicesRolloverParams_DryRun : option bool;
  IndicesRolloverParams_WaitForActiveShards : string }.
Definition IndicesRolloverParams_own (q : IndicesRolloverParams) : list param :=
  [("dry_run", boolPtr (IndicesRolloverParams_DryRun q)); ("wait_for_active_shards", nonEmpty (IndicesRolloverParams_WaitForActiveShards q))].
Definition IndicesRolloverParams_slots : list (string * (IndicesRolloverParams -> slot)) :=
  [("DryRun", fun q => BoolPtr (IndicesRolloverParams_DryRun q)); ("WaitForActiveShards", fun q => Text (IndicesRolloverParams_WaitForActiveShards q))].
Definition IndicesRolloverParams_get (q : IndicesRolloverParams) : gmap string string :=
  encode_params (EncodeTimeout (IndicesRolloverParams_TimeoutParams q) ++ EncodeDebug (IndicesRolloverParams_DebugParams q) ++ IndicesRolloverParams_own q).
Record IndicesRolloverReq := MkIndicesRolloverReq { IndicesRolloverReq_Alias : string; IndicesRolloverReq_NewIndex : string; IndicesRolloverReq_Body : option (option string);
  IndicesRolloverReq_BodyReader : reader; IndicesRolloverReq_Header : headers; IndicesRolloverReq_Params : option IndicesRolloverParams }.
Definition IndicesRolloverReq_GetRequest (r : IndicesRolloverReq) (method : string) : request_error + httpRequest * Z :=
  send method (IndicesRolloverPath_Build (MkIndicesRolloverPath (IndicesRolloverReq_Alias r) (IndicesRolloverReq_NewIndex r)))
    (match IndicesRolloverReq_Params r with Some q => IndicesRolloverParams_get q | None => ∅ end)
    (json_body (IndicesRolloverReq_Body r) (IndicesRolloverReq_BodyReader r)) (IndicesRolloverReq_Header r).
Definition IndicesRollover_Method (r : IndicesRolloverReq) : string := "POST".
#[export] Instance IndicesRollover_operation : operation IndicesRolloverReq :=
  {| op_path := MkPathType "IndicesRolloverPath" IndicesRolloverPath _ _; op_P := IndicesRolloverParams; op_fields r := MkIndicesRolloverPath (IndicesRolloverReq_Alias r) (IndicesRolloverReq_NewIndex r);
     op_params := IndicesRolloverReq_Params; op_defaults := None; op_timeout := IndicesRolloverParams_TimeoutParams; op_debug := IndicesRolloverParams_DebugParams;
     op_format := None; op_own := IndicesRolloverParams_own; op_slots := IndicesRolloverParams_slots;
     op_body r := json_body (IndicesRolloverReq_Body r) (IndicesRolloverReq_BodyReader r); op_headers r := IndicesRolloverReq_Header r;
     Method := IndicesRollover_Method; GetRequest := IndicesRolloverReq_GetRequest;
     op_keys := ["dry_run"; "wait_for_active_shards"];
     op_described := [("POST", "/{alias}/_rollover"); ("POST", "/{alias}/_rollover/{new_index}")];
     op_query := ["dry_run"; "wait_for_active_shards"] |}.
#[export] Instance IndicesRollover_operates : LawfulOp IndicesRolloverReq.
Proof. operate. Qed.

Record IndicesSegmentsParams := MkIndicesSegmentsParams { IndicesSegmentsParams_TimeoutParams : TimeoutParams; IndicesSegmentsParams_DebugParams : DebugParams;
  IndicesSegmentsParams_AllowNoIndices : option bool; IndicesSegmentsParams_ExpandWildcards : list string;
  IndicesSegmentsParams_IgnoreUnavailable : option bool; IndicesSegmentsParams_Verbose : option bool }.
Definition IndicesSegmentsParams_own (q : IndicesSegmentsParams) : list param :=
  [("allow_no_indices", boolPtr (IndicesSegmentsParams_AllowNoIndices q)); ("expand_wildcards", joined (IndicesSegmentsParams_ExpandWildcards q));
  ("ignore_unavailable", boolPtr (IndicesSegmentsParams_IgnoreUnavailable q)); ("verbose", boolPtr (IndicesSegmentsParams_Verbose q))].
Definition IndicesSegmentsParams_slots : list (string * (IndicesSegmentsParams -> slot)) :=
  [("AllowNoIndices", fun q => BoolPtr (IndicesSegmentsParams_AllowNoIndices q));
  ("ExpandWildcards", fun q => TextList (IndicesSegmentsParams_ExpandWildcards q));
  ("IgnoreUnavailable", fun q => BoolPtr (IndicesSegmentsParams_IgnoreUnavailable q)); ("Verbose", fun q => BoolPtr (IndicesSegmentsParams_Verbose q))].
Definition IndicesSegmentsParams_get (q : IndicesSegmentsParams) : gmap string string :=
  encode_params (EncodeTimeout (IndicesSegmentsParams_TimeoutParams q) ++ EncodeDebug (IndicesSegmentsParams_DebugParams q) ++ IndicesSegmentsParams_own q).
Record IndicesSegmentsReq := MkIndicesSegmentsReq { IndicesSegmentsReq_Indices : list string; IndicesSegmentsReq_Header : headers; IndicesSegmentsReq_Params : option IndicesSegmentsParams }.
Definition IndicesSegmentsReq_GetRequest (r : IndicesSegmentsReq) (method : string) : request_error + httpRequest * Z :=
  send method (IndicesSegmentsPath_Build (MkIndicesSegmentsPath (IndicesSegmentsReq_Indices r)))
    (match IndicesSegmentsReq_Params r with Some q => IndicesSegmentsParams_get q | None => ∅ end)
    no_body (IndicesSegmentsReq_Header r).
Definition IndicesSegments_Method (r : IndicesSegmentsReq) : string := "GET".
#[export] Instance IndicesSegments_operation : operation IndicesSegmentsReq :=
  {| op_path := MkPathType "IndicesSegmentsPath" IndicesSegmentsPath _ _; op_P := IndicesSegmentsParams; op_fields r := MkIndicesSegmentsPath (IndicesSegmentsReq_Indices r);
     op_params := IndicesSegmentsReq_Params; op_defaults := None; op_timeout := IndicesSegmentsParams_TimeoutParams; op_debug := IndicesSegmentsParams_DebugParams;
     op_format := None; op_own := IndicesSegmentsParams_own; op_slots := IndicesSegmentsParams_slots;
     op_body _ := no_body; op_headers r := IndicesSegmentsReq_Header r;
     Method := IndicesSegments_Method; GetRequest := IndicesSegmentsReq_GetRequest;
     op_keys := ["allow_no_indices"; "expand_wildcards"; "ignore_unavailable"; "verbose"];
     op_described := [("GET", "/_segments"); ("GET", "/{index}/_segments")];
     op_query := ["allow_no_indices"; "expand_wildcards"; "ignore_unavailable"; "verbose"] |}.
#[export] Instance IndicesSegments_operates : LawfulOp IndicesSegmentsReq.
Proof. operate. Qed.

Record IndicesShardStoresParams := MkIndicesShardStoresParams { IndicesShardStoresParams_TimeoutParams : TimeoutParams; IndicesShardStoresParams_DebugParams : DebugParams;
  IndicesShardStoresParams_AllowNoIndices : option bool; IndicesShardStoresParams_ExpandWildcards : list string;
  IndicesShardStoresParams_IgnoreUnavailable : option bool; IndicesShardStoresParams_Status : list string }.
Definition IndicesShardStoresParams_own (q : IndicesShardStoresParams) : list param :=
  [("allow_no_indices", boolPtr (IndicesShardStoresParams_AllowNoIndices q)); ("expand_wildcards", joined (IndicesShardStoresParams_ExpandWildcards q));
  ("ignore_unavailable", boolPtr (IndicesShardStoresParams_IgnoreUnavailable q)); ("status", joined (IndicesShardStoresParams_Status q))].
Definition IndicesShardStoresParams_slots : list (string * (IndicesShardStoresParams -> slot)) :=
  [("AllowNoIndices", fun q => BoolPtr (IndicesShardStoresParams_AllowNoIndices q));
  ("ExpandWildcards", fun q => TextList (IndicesShardStoresParams_ExpandWildcards q));
  ("IgnoreUnavailable", fun q => BoolPtr (IndicesShardStoresParams_IgnoreUnavailable q));
  ("Status", fun q => TextList (IndicesShardStoresParams_Status q))].
Definition IndicesShardStoresParams_get (q : IndicesShardStoresParams) : gmap string string :=
  encode_params (EncodeTimeout (IndicesShardStoresParams_TimeoutParams q) ++ EncodeDebug (IndicesShardStoresParams_DebugParams q) ++ IndicesShardStoresParams_own q).
Record IndicesShardStoresReq := MkIndicesShardStoresReq { IndicesShardStoresReq_Indices : list string; IndicesShardStoresReq_Header : headers; IndicesShardStoresReq_Params : option IndicesShardStoresParams }.
Definition IndicesShardStoresReq_GetRequest (r : IndicesShardStoresReq) (method : string) : request_error + httpRequest * Z :=
  send method (IndicesShardStoresPath_Build (MkIndicesShardStoresPath (IndicesShardStoresReq_Indices r)))
    (match IndicesShardStoresReq_Params r with Some q => IndicesShardStoresParams_get q | None => ∅ end)
    no_body (IndicesShardStoresReq_Header r).
Definition IndicesShardStores_Method (r : IndicesShardStoresReq) : string := "GET".
#[export] Instance IndicesShardStores_operation : operation IndicesShardStoresReq :=
  {| op_path := MkPathType "IndicesShardStoresPath" IndicesShardStoresPath _ _; op_P := IndicesShardStoresParams; op_fields r := MkIndicesShardStoresPath (IndicesShardStoresReq_Indices r);
     op_params := IndicesShardStoresReq_Params; op_defaults := None; op_timeout := IndicesShardStoresParams_TimeoutParams; op_debug := IndicesShardStoresParams_DebugParams;
     op_format := None; op_own := IndicesShardStoresParams_own; op_slots := IndicesShardStoresParams_slots;
     op_body _ := no_body; op_headers r := IndicesShardStoresReq_Header r;
     Method := IndicesShardStores_Method; GetRequest := IndicesShardStoresReq_GetRequest;
     op_keys := ["allow_no_indices"; "expand_wildcards"; "ignore_unavailable"; "status"];
     op_described := [("GET", "/_shard_stores"); ("GET", "/{index}/_shard_stores")];
     op_query := ["allow_no_indices"; "expand_wildcards"; "ignore_unavailable"; "status"] |}.
#[export] Instance IndicesShardStores_operates : LawfulOp IndicesShardStoresReq.
Proof. operate. Qed.

Record IndicesShrinkParams := MkIndicesShrinkParams { IndicesShrinkParams_TimeoutParams : TimeoutParams; IndicesShrinkParams_DebugParams : DebugParams; IndicesShrinkParams_CopySettings : option bool;
  IndicesShrinkParams_TaskExecutionTimeout : Z; IndicesShrinkParams_WaitForActiveShards : string; IndicesShrinkParams_WaitForCompletion : option bool }.
Definition IndicesShrinkParams_own (q : IndicesShrinkParams) : list param :=
  [("copy_settings", boolPtr (IndicesShrinkParams_CopySettings q)); ("task_execution_timeout", duration (IndicesShrinkParams_TaskExecutionTimeout q));
  ("wait_for_active_shards", nonEmpty (IndicesShrinkParams_WaitForActiveShards q));
  ("wait_for_completion", boolPtr (IndicesShrinkParams_WaitForCompletion q))].
Definition IndicesShrinkParams_slots : list (string * (IndicesShrinkParams -> slot)) :=
  [("CopySettings", fun q => BoolPtr (IndicesShrinkParams_CopySettings q));
  ("TaskExecutionTimeout", fun q => Duration (IndicesShrinkParams_TaskExecutionTimeout q));
  ("WaitForActiveShards", fun q => Text (IndicesShrinkParams_WaitForActiveShards q));
  ("WaitForCompletion", fun q => BoolPtr (IndicesShrinkParams_WaitForCompletion q))].
Definition IndicesShrinkParams_get (q : IndicesShrinkParams) : gmap string string :=
  encode_params (EncodeTimeout (IndicesShrinkParams_TimeoutParams q) ++ EncodeDebug (IndicesShrinkParams_DebugParams q) ++ IndicesShrinkParams_own q).
Record IndicesShrinkReq := MkIndicesShrinkReq { IndicesShrinkReq_Index : string; IndicesShrinkReq_Target : string; IndicesShrinkReq_Body : option (option string);
  IndicesShrinkReq_BodyReader : reader; IndicesShrinkReq_Header : headers; IndicesShrinkReq_Params : option IndicesShrinkParams }.
Definition IndicesShrinkReq_GetRequest (r : IndicesShrinkReq) (method : string) : request_error + httpRequest * Z :=
  send method (IndicesShrinkPath_Build (MkIndicesShrinkPath (IndicesShrinkReq_Index r) (IndicesShrinkReq_Target r)))
    (match IndicesShrinkReq_Params r with Some q => IndicesShrinkParams_get q | None => ∅ end)
    (json_body (IndicesShrinkReq_Body r) (IndicesShrinkReq_BodyReader r)) (IndicesShrinkReq_Header r).
Definition IndicesShrink_Method (r : IndicesShrinkReq) : string := "POST".
#[export] Instance IndicesShrink_operation : operation IndicesShrinkReq :=
  {| op_path := MkPathType "IndicesShrinkPath" IndicesShrinkPath _ _; op_P := IndicesShrinkParams; op_fields r := MkIndicesShrinkPath (IndicesShrinkReq_Index r) (IndicesShrinkReq_Target r);
     op_params := IndicesShrinkReq_Params; op_defaults := None; op_timeout := IndicesShrinkParams_TimeoutParams; op_debug := IndicesShrinkParams_DebugParams;
     op_format := None; op_own := IndicesShrinkParams_own; op_slots := IndicesShrinkParams_slots;
     op_body r := json_body (IndicesShrinkReq_Body r) (IndicesShrinkReq_BodyReader r); op_headers r := IndicesShrinkReq_Header r;
     Method := IndicesShrink_Method; GetRequest := IndicesShrinkReq_GetRequest;
     op_keys := ["copy_settings"; "task_execution_timeout"; "wait_for_active_shards"; "wait_for_completion"];
     op_described := [("POST", "/{index}/_shrink/{target}"); ("PUT", "/{index}/_shrink/{target}")];
     op_query := ["copy_settings"; "task_execution_timeout"; "wait_for_active_shards"; "wait_for_completion"] |}.
#[export] Instance IndicesShrink_operates : LawfulOp IndicesShrinkReq.
Proof. operate. Qed.

Record IndicesSimulateIndexTemplateParams := MkIndicesSimulateIndexTemplateParams { IndicesSimulateIndexTemplateParams_TimeoutParams : TimeoutParams; IndicesSimulateIndexTemplateParams_DebugParams : DebugParams }.
Definition IndicesSimulateIndexTemplateParams_own (q : IndicesSimulateIndexTemplateParams) : list param :=
  [].
Definition IndicesSimulateIndexTemplateParams_slots : list (string * (IndicesSimulateIndexTemplateParams -> slot)) :=
  [].
Definition IndicesSimulateIndexTemplateParams_get (q : IndicesSimulateIndexTemplateParams) : gmap string string :=
  encode_params (EncodeTimeout (IndicesSimulateIndexTemplateParams_TimeoutParams q) ++ EncodeDebug (IndicesSimulateIndexTemplateParams_DebugParams q) ++ IndicesSimulateIndexTemplateParams_own q).
Record IndicesSimulateIndexTemplateReq := MkIndicesSimulateIndexTemplateReq { IndicesSimulateIndexTemplateReq_Name : string; IndicesSimulateIndexTemplateReq_Body : option (option string);
  IndicesSimulateIndexTemplateReq_BodyReader : reader; IndicesSimulateIndexTemplateReq_Header : headers;
  IndicesSimulateIndexTemplateReq_Params : option IndicesSimulateIndexTemplateParams }.
Definition IndicesSimulateIndexTemplateReq_GetRequest (r : IndicesSimulateIndexTemplateReq) (method : string) : request_error + httpRequest * Z :=
  send method (IndicesSimulateIndexTemplatePath_Build (MkIndicesSimulateIndexTemplatePath (IndicesSimulateIndexTemplateReq_Name r)))
    (match IndicesSimulateIndexTemplateReq_Params r with Some q => IndicesSimulateIndexTemplateParams_get q | None => ∅ end)
    (json_body (IndicesSimulateIndexTemplateReq_Body r) (IndicesSimulateIndexTemplateReq_BodyReader r)) (IndicesSimulateIndexTemplateReq_Header r).
Definition IndicesSimulateIndexTemplate_Method (r : IndicesSimulateIndexTemplateReq) : string := "POST".
#[export] Instance IndicesSimulateIndexTemplate_operation : operation IndicesSimulateIndexTemplateReq :=
  {| op_path := MkPathType "IndicesSimulateIndexTemplatePath" IndicesSimulateIndexTemplatePath _ _; op_P := IndicesSimulateIndexTemplateParams; op_fields r := MkIndicesSimulateIndexTemplatePath (IndicesSimulateIndexTemplateReq_Name r);
     op_params := IndicesSimulateIndexTemplateReq_Params; op_defaults := None; op_timeout := IndicesSimulateIndexTemplateParams_TimeoutParams; op_debug := IndicesSimulateIndexTemplateParams_DebugParams;
     op_format := None; op_own := IndicesSimulateIndexTemplateParams_own; op_slots := IndicesSimulateIndexTemplateParams_slots;
     op_body r := json_body (IndicesSimulateIndexTemplateReq_Body r) (IndicesSimulateIndexTemplateReq_BodyReader r); op_headers r := IndicesSimulateIndexTemplateReq_Header r;
     Method := IndicesSimulateIndexTemplate_Method; GetRequest := IndicesSimulateIndexTemplateReq_GetRequest;
     op_keys := [];
     op_described := [("POST", "/_index_template/_simulate_index/{name}")];
     op_query := [] |}.
#[export] Instance IndicesSimulateIndexTemplate_operates : LawfulOp IndicesSimulateIndexTemplateReq.
Proof. operate. Qed.

Record IndicesSimulateTemplateParams := MkIndicesSimulateTemplateParams { IndicesSimulateTemplateParams_TimeoutParams : TimeoutParams; IndicesSimulateTemplateParams_DebugParams : DebugParams;
  IndicesSimulateTemplateParams_Cause : string; IndicesSimulateTemplateParams_Create : option bool }.
Definition IndicesSimulateTemplateParams_own (q : IndicesSimulateTemplateParams) : list param :=
  [("cause", nonEmpty (IndicesSimulateTemplateParams_Cause q)); ("create", boolPtr (IndicesSimulateTemplateParams_Create q))].
Definition IndicesSimulateTemplateParams_slots : list (string * (IndicesSimulateTemplateParams -> slot)) :=
  [("Cause", fun q => Text (IndicesSimulateTemplateParams_Cause q)); ("Create", fun q => BoolPtr (IndicesSimulateTemplateParams_Create q))].
Definition IndicesSimulateTemplateParams_get (q : IndicesSimulateTemplateParams) : gmap string string :=
  encode_params (EncodeTimeout (IndicesSimulateTemplateParams_TimeoutParams q) ++ EncodeDebug (IndicesSimulateTemplateParams_DebugParams q) ++ IndicesSimulateTemplateParams_own q).
Record IndicesSimulateTemplateReq := MkIndicesSimulateTemplateReq { IndicesSimulateTemplateReq_Name : string; IndicesSimulateTemplateReq_Body : option (option string); IndicesSimulateTemplateReq_BodyReader : reader;
  IndicesSimulateTemplateReq_Header : headers; IndicesSimulateTemplateReq_Params : option IndicesSimulateTemplateParams }.
Definition IndicesSimulateTemplateReq_GetRequest (r : IndicesSimulateTemplateReq) (method : string) : request_error + httpRequest * Z :=
  send method (IndicesSimulateTemplatePath_Build (MkIndicesSimulateTemplatePath (IndicesSimulateTemplateReq_Name r)))
    (match IndicesSimulateTemplateReq_Params r with Some q => IndicesSimulateTemplateParams_get q | None => ∅ end)
    (json_body (IndicesSimulateTemplateReq_Body r) (IndicesSimulateTemplateReq_BodyReader r)) (IndicesSimulateTemplateReq_Header r).
Definition IndicesSimulateTemplate_Method (r : IndicesSimulateTemplateReq) : string := "POST".
#[export] Instance IndicesSimulateTemplate_operation : operation IndicesSimulateTemplateReq :=
  {| op_path := MkPathType "IndicesSimulateTemplatePath" IndicesSimulateTemplatePath _ _; op_P := IndicesSimulateTemplateParams; op_fields r := MkIndicesSimulateTemplatePath (IndicesSimulateTemplateReq_Name r);
     op_params := IndicesSimulateTemplateReq_Params; op_defaults := None; op_timeout := IndicesSimulateTemplateParams_TimeoutParams; op_debug := IndicesSimulateTemplateParams_DebugParams;
     op_format := None; op_own := IndicesSimulateTemplateParams_own; op_slots := IndicesSimulateTemplateParams_slots;
     op_body r := json_body (IndicesSimulateTemplateReq_Body r) (IndicesSimulateTemplateReq_BodyReader r); op_headers r := IndicesSimulateTemplateReq_Header r;
     Method := IndicesSimulateTemplate_Method; GetRequest := IndicesSimulateTemplateReq_GetRequest;
     op_keys := ["cause"; "create"];
     op_described := [("POST", "/_index_template/_simulate"); ("POST", "/_index_template/_simulate/{name}")];
     op_query := ["cause"; "create"] |}.
#[export] Instance IndicesSimulateTemplate_operates : LawfulOp IndicesSimulateTemplateReq.
Proof. operate. Qed.

Record IndicesSplitParams := MkIndicesSplitParams { IndicesSplitParams_TimeoutParams : TimeoutParams; IndicesSplitParams_DebugParams : DebugParams; IndicesSplitParams_CopySettings : option bool;
  IndicesSplitParams_TaskExecutionTimeout : Z; IndicesSplitParams_WaitForActiveShards : string; IndicesSplitParams_WaitForCompletion : option bool }.
Definition IndicesSplitParams_own (q : IndicesSplitParams) : list param :=
  [("copy_settings", boolPtr (IndicesSplitParams_CopySettings q)); ("task_execution_timeout", duration (IndicesSplitParams_TaskExecutionTimeout q));
  ("wait_for_active_shards", nonEmpty (IndicesSplitParams_WaitForActiveShards q));
  ("wait_for_completion", boolPtr (IndicesSplitParams_WaitForCompletion q))].
Definition IndicesSplitParams_slots : list (string * (IndicesSplitParams -> slot)) :=
  [("CopySettings", fun q => BoolPtr (IndicesSplitParams_CopySettings q));
  ("TaskExecutionTimeout", fun q => Duration (IndicesSplitParams_TaskExecutionTimeout q));
  ("WaitForActiveShards", fun q => Text (IndicesSplitParams_WaitForActiveShards q));
  ("WaitForCompletion", fun q => BoolPtr (IndicesSplitParams_WaitForCompletion q))].
Definition IndicesSplitParams_get (q : IndicesSplitParams) : gmap string string :=
  encode_params (EncodeTimeout (IndicesSplitParams_TimeoutParams q) ++ EncodeDebug (IndicesSplitParams_DebugParams q) ++ IndicesSplitParams_own q).
Record IndicesSplitReq := MkIndicesSplitReq { IndicesSplitReq_Index : string; IndicesSplitReq_Target : string; IndicesSplitReq_Body : option (option string); IndicesSplitReq_BodyReader : reader;
  IndicesSplitReq_Header : headers; IndicesSplitReq_Params : option IndicesSplitParams }.
Definition IndicesSplitReq_GetRequest (r : IndicesSplitReq) (method : string) : request_error + httpRequest * Z :=
  send method (IndicesSplitPath_Build (MkIndicesSplitPath (IndicesSplitReq_Index r) (IndicesSplitReq_Target r)))
    (match IndicesSplitReq_Params r with Some q => IndicesSplitParams_get q | None => ∅ end)
    (json_body (IndicesSplitReq_Body r) (IndicesSplitReq_BodyReader r)) (IndicesSplitReq_Header r).
Definition IndicesSplit_Method (r : IndicesSplitReq) : string := "POST".
#[export] Instance IndicesSplit_operation : operation IndicesSplitReq :=
  {| op_path := MkPathType "IndicesSplitPath" IndicesSplitPath _ _; op_P := IndicesSplitParams; op_fields r := MkIndicesSplitPath (IndicesSplitReq_Index r) (IndicesSplitReq_Target r);
     op_params := IndicesSplitReq_Params; op_defaults := None; op_timeout := IndicesSplitParams_TimeoutParams; op_debug := IndicesSplitParams_DebugParams;
     op_format := None; op_own := IndicesSplitParams_own; op_slots := IndicesSplitParams_slots;
     op_body r := json_body (IndicesSplitReq_Body r) (IndicesSplitReq_BodyReader r); op_headers r := IndicesSplitReq_Header r;
     Method := IndicesSplit_Method; GetRequest := IndicesSplitReq_GetRequest;
     op_keys := ["copy_settings"; "task_execution_timeout"; "wait_for_active_shards"; "wait_for_completion"];
     op_described := [("POST", "/{index}/_split/{target}"); ("PUT", "/{index}/_split/{target}")];
     op_query := ["copy_settings"; "task_execution_timeout"; "wait_for_active_shards"; "wait_for_completion"] |}.
#[export] Instance IndicesSplit_operates : LawfulOp IndicesSplitReq.
Proof. operate. Qed.

Record IndicesStatsParams := MkIndicesStatsParams { IndicesStatsParams_TimeoutParams : TimeoutParams; IndicesStatsParams_DebugParams : DebugParams; IndicesStatsParams_CompletionFields : list string;
  IndicesStatsParams_ExpandWildcards : list string; IndicesStatsParams_FielddataFields : list string; IndicesStatsParams_Fields : list string;
  IndicesStatsParams_ForbidClosedIndices : option bool; IndicesStatsParams_Groups : list string;
  IndicesStatsParams_IncludeSegmentFileSizes : option bool; IndicesStatsParams_IncludeUnloadedSegments : option bool; IndicesStatsParams_Level : string }.
Definition IndicesStatsParams_own (q : IndicesStatsParams) : list param :=
  [("completion_fields", joined (IndicesStatsParams_CompletionFields q)); ("expand_wildcards", joined (IndicesStatsParams_ExpandWildcards q));
  ("fielddata_fields", joined (IndicesStatsParams_FielddataFields q)); ("fields", joined (IndicesStatsParams_Fields q));
  ("forbid_closed_indices", boolPtr (IndicesStatsParams_ForbidClosedIndices q)); ("groups", joined (IndicesStatsParams_Groups q));
  ("include_segment_file_sizes", boolPtr (IndicesStatsParams_IncludeSegmentFileSizes q));
  ("include_unloaded_segments", boolPtr (IndicesStatsParams_IncludeUnloadedSegments q)); ("level", nonEmpty (IndicesStatsParams_Level q))].
Definition IndicesStatsParams_slots : list (string * (IndicesStatsParams -> slot)) :=
  [("CompletionFields", fun q => TextList (IndicesStatsParams_CompletionFields q));
  ("ExpandWildcards", fun q => TextList (IndicesStatsParams_ExpandWildcards q));
  ("FielddataFields", fun q => TextList (IndicesStatsParams_FielddataFields q)); ("Fields", fun q => TextList (IndicesStatsParams_Fields q));
  ("ForbidClosedIndices", fun q => BoolPtr (IndicesStatsParams_ForbidClosedIndices q)); ("Groups", fun q => TextList (IndicesStatsParams_Groups q));
  ("IncludeSegmentFileSizes", fun q => BoolPtr (IndicesStatsParams_IncludeSegmentFileSizes q));
  ("IncludeUnloadedSegments", fun q => BoolPtr (IndicesStatsParams_IncludeUnloadedSegments q)); ("Level", fun q => Text (IndicesStatsParams_Level q))].
Definition IndicesStatsParams_get (q : IndicesStatsParams) : gmap string string :=
  encode_params (EncodeTimeout (IndicesStatsParams_TimeoutParams q) ++ EncodeDebug (IndicesStatsParams_DebugParams q) ++ IndicesStatsParams_own q).
Record IndicesStatsReq := MkIndicesStatsReq { IndicesStatsReq_Metric : list string; IndicesStatsReq_Indices : list string; IndicesStatsReq_Header : headers;
  IndicesStatsReq_Params : option IndicesStatsParams }.
Definition IndicesStatsReq_GetRequest (r : IndicesStatsReq) (method : string) : request_error + httpRequest * Z :=
  send method (IndicesStatsPath_Build (MkIndicesStatsPath (IndicesStatsReq_Indices r) (IndicesStatsReq_Metric r)))
    (match IndicesStatsReq_Params r with Some q => IndicesStatsParams_get q | None => ∅ end)
    no_body (IndicesStatsReq_Header r).
Definition IndicesStats_Method (r : IndicesStatsReq) : string := "GET".
#[export] Instance IndicesStats_operation : operation IndicesStatsReq :=
  {| op_path := MkPathType "IndicesStatsPath" IndicesStatsPath _ _; op_P := IndicesStatsParams; op_fields r := MkIndicesStatsPath (IndicesStatsReq_Indices r) (IndicesStatsReq_Metric r);
     op_params := IndicesStatsReq_Params; op_defaults := None; op_timeout := IndicesStatsParams_TimeoutParams; op_debug := IndicesStatsParams_DebugParams;
     op_format := None; op_own := IndicesStatsParams_own; op_slots := IndicesStatsParams_slots;
     op_body _ := no_body; op_headers r := IndicesStatsReq_Header r;
     Method := IndicesStats_Method; GetRequest := IndicesStatsReq_GetRequest;
     op_keys := ["completion_fields"; "expand_wildcards"; "fielddata_fields"; "fields"; "forbid_closed_indices"; "groups"; "include_segment_file_sizes";
        "include_unloaded_segments"; "level"];
     op_described := [("GET", "/_stats"); ("GET", "/_stats/{metric}"); ("GET", "/{index}/_stats"); ("GET", "/{index}/_stats/{metric}")];
     op_query := ["completion_fields"; "expand_wildcards"; "fielddata_fields"; "fields"; "forbid_closed_indices"; "groups"; "include_segment_file_sizes";
        "include_unloaded_segments"; "level"] |}.
#[export] Instance IndicesStats_operates : LawfulOp IndicesStatsReq.
Proof. operate. Qed.

Record IndicesUpdateAliasesParams := MkIndicesUpdateAliasesParams { IndicesUpdateAliasesParams_TimeoutParams : TimeoutParams; IndicesUpdateAliasesParams_DebugParams : DebugParams }.
Definition IndicesUpdateAliasesParams_own (q : IndicesUpdateAliasesParams) : list param :=
  [].
Definition IndicesUpdateAliasesParams_slots : list (string * (IndicesUpdateAliasesParams -> slot)) :=
  [].
Definition IndicesUpdateAliasesParams_get (q : IndicesUpdateAliasesParams) : gmap string string :=
  encode_params (EncodeTimeout (IndicesUpdateAliasesParams_TimeoutParams q) ++ EncodeDebug (IndicesUpdateAliasesParams_DebugParams q) ++ IndicesUpdateAliasesParams_own q).
Record IndicesUpdateAliasesReq := MkIndicesUpdateAliasesReq { IndicesUpdateAliasesReq_Body : option (option string); IndicesUpdateAliasesReq_BodyReader : reader; IndicesUpdateAliasesReq_Header : headers;
  IndicesUpdateAliasesReq_Params : option IndicesUpdateAliasesParams }.
Definition IndicesUpdateAliasesReq_GetRequest (r : IndicesUpdateAliasesReq) (method : string) : request_error + httpRequest * Z :=
  send method (IndicesUpdateAliasesPath_Build (MkIndicesUpdateAliasesPath))
    (match IndicesUpdateAliasesReq_Params r with Some q => IndicesUpdateAliasesParams_get q | None => ∅ end)
    (json_body (IndicesUpdateAliasesReq_Body r) (IndicesUpdateAliasesReq_BodyReader r)) (IndicesUpdateAliasesReq_Header r).
Definition IndicesUpdateAliases_Method (r : IndicesUpdateAliasesReq) : string := "POST".
#[export] Instance IndicesUpdateAliases_operation : operation IndicesUpdateAliasesReq :=
  {| op_path := MkPathType "IndicesUpdateAliasesPath" IndicesUpdateAliasesPath _ _; op_P := IndicesUpdateAliasesParams; op_fields r := MkIndicesUpdateAliasesPath;
     op_params := IndicesUpdateAliasesReq_Params; op_defaults := None; op_timeout := IndicesUpdateAliasesParams_TimeoutParams; op_debug := IndicesUpdateAliasesParams_DebugParams;
     op_format := None; op_own := IndicesUpdateAliasesParams_own; op_slots := IndicesUpdateAliasesParams_slots;
     op_body r := json_body (IndicesUpdateAliasesReq_Body r) (IndicesUpdateAliasesReq_BodyReader r); op_headers r := IndicesUpdateAliasesReq_Header r;
     Method := IndicesUpdateAliases_Method; GetRequest := IndicesUpdateAliasesReq_GetRequest;
     op_keys := [];
     op_described := [("POST", "/_aliases")];
     op_query := [] |}.
#[export] Instance IndicesUpdateAliases_operates : LawfulOp IndicesUpdateAliasesReq.
Proof. operate. Qed.

Record IndicesUpgradeParams := MkIndicesUpgradeParams { IndicesUpgradeParams_TimeoutParams : TimeoutParams; IndicesUpgradeParams_DebugParams : DebugParams;
  IndicesUpgradeParams_AllowNoIndices : option bool; IndicesUpgradeParams_ExpandWildcards : list string;
  IndicesUpgradeParams_IgnoreUnavailable : option bool; IndicesUpgradeParams_OnlyAncientSegments : option bool;
  IndicesUpgradeParams_WaitForCompletion : option bool }.
Definition IndicesUpgradeParams_own (q : IndicesUpgradeParams) : list param :=
  [("allow_no_indices", boolPtr (IndicesUpgradeParams_AllowNoIndices q)); ("expand_wildcards", joined (IndicesUpgradeParams_ExpandWildcards q));
  ("ignore_unavailable", boolPtr (IndicesUpgradeParams_IgnoreUnavailable q));
  ("only_ancient_segments", boolPtr (IndicesUpgradeParams_OnlyAncientSegments q));
  ("wait_for_completion", boolPtr (IndicesUpgradeParams_WaitForCompletion q))].
Definition IndicesUpgradeParams_slots : list (string * (IndicesUpgradeParams -> slot)) :=
  [("AllowNoIndices", fun q => BoolPtr (IndicesUpgradeParams_AllowNoIndices q));
  ("ExpandWildcards", fun q => TextList (IndicesUpgradeParams_ExpandWildcards q));
  ("IgnoreUnavailable", fun q => BoolPtr (IndicesUpgradeParams_IgnoreUnavailable q));
  ("OnlyAncientSegments", fun q => BoolPtr (IndicesUpgradeParams_OnlyAncientSegments q));
  ("WaitForCompletion", fun q => BoolPtr (IndicesUpgradeParams_WaitForCompletion q))].
Definition IndicesUpgradeParams_get (q : IndicesUpgradeParams) : gmap string string :=
  encode_params (EncodeTimeout (IndicesUpgradeParams_TimeoutParams q) ++ EncodeDebug (IndicesUpgradeParams_DebugParams q) ++ IndicesUpgradeParams_own q).
Record IndicesUpgradeReq := MkIndicesUpgradeReq { IndicesUpgradeReq_Indices : list string; IndicesUpgradeReq_Header : headers; IndicesUpgradeReq_Params : option IndicesUpgradeParams }.
Definition IndicesUpgradeReq_GetRequest (r : IndicesUpgradeReq) (method : string) : request_error + httpRequest * Z :=
  send method (IndicesUpgradePath_Build (MkIndicesUpgradePath (IndicesUpgradeReq_Indices r)))
    (match IndicesUpgradeReq_Params r with Some q => IndicesUpgradeParams_get q | None => ∅ end)
    no_body (IndicesUpgradeReq_Header r).
Definition IndicesUpgrade_Method (r : IndicesUpgradeReq) : string := "POST".
#[export] Instance IndicesUpgrade_operation : operation IndicesUpgradeReq :=
  {| op_path := MkPathType "IndicesUpgradePath" IndicesUpgradePath _ _; op_P := IndicesUpgradeParams; op_fields r := MkIndicesUpgradePath (IndicesUpgradeReq_Indices r);
     op_params := IndicesUpgradeReq_Params; op_defaults := None; op_timeout := IndicesUpgradeParams_TimeoutParams; op_debug := IndicesUpgradeParams_DebugParams;
     op_format := None; op_own := IndicesUpgradeParams_own; op_slots := IndicesUpgradeParams_slots;
     op_body _ := no_body; op_headers r := IndicesUpgradeReq_Header r;
     Method := IndicesUpgrade_Method; GetRequest := IndicesUpgradeReq_GetRequest;
     op_keys := ["allow_no_indices"; "expand_wildcards"; "ignore_unavailable"; "only_ancient_segments"; "wait_for_completion"];
     op_described := [("POST", "/_upgrade"); ("POST", "/{index}/_upgrade")];
     op_query := ["allow_no_indices"; "expand_wildcards"; "ignore_unavailable"; "only_ancient_segments"; "wait_for_completion"] |}.
#[export] Instance IndicesUpgrade_operates : LawfulOp IndicesUpgradeReq.
Proof. operate. Qed.

Record IndicesValidateQueryParams := MkIndicesValidateQueryParams { IndicesValidateQueryParams_TimeoutParams : TimeoutParams; IndicesValidateQueryParams_DebugParams : DebugParams;
  IndicesValidateQueryParams_AllShards : option bool; IndicesValidateQueryParams_AllowNoIndices : option bool;
  IndicesValidateQueryParams_AnalyzeWildcard : option bool; IndicesValidateQueryParams_Analyzer : string;
  IndicesValidateQueryParams_DefaultOperator : string; IndicesValidateQueryParams_Df : string;
  IndicesValidateQueryParams_ExpandWildcards : list string; IndicesValidateQueryParams_Explain : option bool;
  IndicesValidateQueryParams_IgnoreUnavailable : option bool; IndicesValidateQueryParams_Lenient : option bool; IndicesValidateQueryParams_Q : string;
  IndicesValidateQueryParams_Rewrite : option bool }.
Definition IndicesValidateQueryParams_own (q : IndicesValidateQueryParams) : list param :=
  [("all_shards", boolPtr (IndicesValidateQueryParams_AllShards q)); ("allow_no_indices", boolPtr (IndicesValidateQueryParams_AllowNoIndices q));
  ("analyze_wildcard", boolPtr (IndicesValidateQueryParams_AnalyzeWildcard q)); ("analyzer", nonEmpty (IndicesValidateQueryParams_Analyzer q));
  ("default_operator", nonEmpty (IndicesValidateQueryParams_DefaultOperator q)); ("df", nonEmpty (IndicesValidateQueryParams_Df q));
  ("expand_wildcards", joined (IndicesValidateQueryParams_ExpandWildcards q)); ("explain", boolPtr (IndicesValidateQueryParams_Explain q));
  ("ignore_unavailable", boolPtr (IndicesValidateQueryParams_IgnoreUnavailable q)); ("lenient", boolPtr (IndicesValidateQueryParams_Lenient q));
  ("q", nonEmpty (IndicesValidateQueryParams_Q q)); ("rewrite", boolPtr (IndicesValidateQueryParams_Rewrite q))].
Definition IndicesValidateQueryParams_slots : list (string * (IndicesValidateQueryParams -> slot)) :=
  [("AllShards", fun q => BoolPtr (IndicesValidateQueryParams_AllShards q));
  ("AllowNoIndices", fun q => BoolPtr (IndicesValidateQueryParams_AllowNoIndices q));
  ("AnalyzeWildcard", fun q => BoolPtr (IndicesValidateQueryParams_AnalyzeWildcard q));
  ("Analyzer", fun q => Text (IndicesValidateQueryParams_Analyzer q));
  ("DefaultOperator", fun q => Text (IndicesValidateQueryParams_DefaultOperator q)); ("Df", fun q => Text (IndicesValidateQueryParams_Df q));
  ("ExpandWildcards", fun q => TextList (IndicesValidateQueryParams_ExpandWildcards q));
  ("Explain", fun q => BoolPtr (IndicesValidateQueryParams_Explain q));
  ("IgnoreUnavailable", fun q => BoolPtr (IndicesValidateQueryParams_IgnoreUnavailable q));
  ("Lenient", fun q => BoolPtr (IndicesValidateQueryParams_Lenient q)); ("Q", fun q => Text (IndicesValidateQueryParams_Q q));
  ("Rewrite", fun q => BoolPtr (IndicesValidateQueryParams_Rewrite q))].
Definition IndicesValidateQueryParams_get (q : IndicesValidateQueryParams) : gmap string string :=
  encode_params (EncodeTimeout (IndicesValidateQueryParams_TimeoutParams q) ++ EncodeDebug (IndicesValidateQueryParams_DebugParams q) ++ IndicesValidateQueryParams_own q).
Record IndicesValidateQueryReq := MkIndicesValidateQueryReq { IndicesValidateQueryReq_Indices : list string; IndicesValidateQueryReq_Body : option (option string); IndicesValidateQueryReq_BodyReader : reader;
  IndicesValidateQueryReq_Header : headers; IndicesValidateQueryReq_Params : option IndicesValidateQueryParams }.
Definition IndicesValidateQueryReq_GetRequest (r : IndicesValidateQueryReq) (method : string) : request_error + httpRequest * Z :=
  send method (IndicesValidateQueryPath_Build (MkIndicesValidateQueryPath (IndicesValidateQueryReq_Indices r)))
    (match IndicesValidateQueryReq_Params r with Some q => IndicesValidateQueryParams_get q | None => ∅ end)
    (json_body (IndicesValidateQueryReq_Body r) (IndicesValidateQueryReq_BodyReader r)) (IndicesValidateQueryReq_Header r).
Definition IndicesValidateQuery_Method (r : IndicesValidateQueryReq) : string := method_by_body (IndicesValidateQueryReq_Body r) (IndicesValidateQueryReq_BodyReader r).
#[export] Instance IndicesValidateQuery_operation : operation IndicesValidateQueryReq :=
  {| op_path := MkPathType "IndicesValidateQueryPath" IndicesValidateQueryPath _ _; op_P := IndicesValidateQueryParams; op_fields r := MkIndicesValidateQueryPath (IndicesValidateQueryReq_Indices r);
     op_params := IndicesValidateQueryReq_Params; op_defaults := None; op_timeout := IndicesValidateQueryParams_TimeoutParams; op_debug := IndicesValidateQueryParams_DebugParams;
     op_format := None; op_own := IndicesValidateQueryParams_own; op_slots := IndicesValidateQueryParams_slots;
     op_body r := json_body (IndicesValidateQueryReq_Body r) (IndicesValidateQueryReq_BodyReader r); op_headers r := IndicesValidateQueryReq_Header r;
     Method := IndicesValidateQuery_Method; GetRequest := IndicesValidateQueryReq_GetRequest;
     op_keys := ["all_shards"; "allow_no_indices"; "analyze_wildcard"; "analyzer"; "default_operator"; "df"; "expand_wildcards"; "explain"; "ignore_unavailable";
        "lenient"; "q"; "rewrite"];
     op_described := [("GET", "/_validate/query"); ("POST", "/_validate/query"); ("GET", "/{index}/_validate/query"); ("POST", "/{index}/_validate/query")];
     op_query := ["all_shards"; "allow_no_indices"; "analyze_wildcard"; "analyzer"; "default_operator"; "df"; "expand_wildcards"; "explain"; "ignore_unavailable";
        "lenient"; "q"; "rewrite"] |}.
#[export] Instance IndicesValidateQuery_operates : LawfulOp IndicesValidateQueryReq.
Proof. operate. Qed.

Record SnapshotCleanupRepositoryParams := MkSnapshotCleanupRepositoryParams { SnapshotCleanupRepositoryParams_TimeoutParams : TimeoutParams; SnapshotCleanupRepositoryParams_DebugParams : DebugParams }.
Definition SnapshotCleanupRepositoryParams_own (q : SnapshotCleanupRepositoryParams) : list param :=
  [].
Definition SnapshotCleanupRepositoryParams_slots : list (string * (SnapshotCleanupRepositoryParams -> slot)) :=
  [].
Definition SnapshotCleanupRepositoryParams_get (q : SnapshotCleanupRepositoryParams) : gmap string string :=
  encode_params (EncodeTimeout (SnapshotCleanupRepositoryParams_TimeoutParams q) ++ EncodeDebug (SnapshotCleanupRepositoryParams_DebugParams q) ++ SnapshotCleanupRepositoryParams_own q).
Record SnapshotCleanupRepositoryReq := MkSnapshotCleanupRepositoryReq { SnapshotCleanupRepositoryReq_Repository : string; SnapshotCleanupRepositoryReq_Header : headers;
  SnapshotCleanupRepositoryReq_Params : option SnapshotCleanupRepositoryParams }.
Definition SnapshotCleanupRepositoryReq_GetRequest (r : SnapshotCleanupRepositoryReq) (method : string) : request_error + httpRequest * Z :=
  send method (SnapshotCleanupRepositoryPath_Build (MkSnapshotCleanupRepositoryPath (SnapshotCleanupRepositoryReq_Repository r)))
    (match SnapshotCleanupRepositoryReq_Params r with Some q => SnapshotCleanupRepositoryParams_get q | None => ∅ end)
    no_body (SnapshotCleanupRepositoryReq_Header r).
Definition SnapshotCleanupRepository_Method (r : SnapshotCleanupRepositoryReq) : string := "POST".
#[export] Instance SnapshotCleanupRepository_operation : operation SnapshotCleanupRepositoryReq :=
  {| op_path := MkPathType "SnapshotCleanupRepositoryPath" SnapshotCleanupRepositoryPath _ _; op_P := SnapshotCleanupRepositoryParams; op_fields r := MkSnapshotCleanupRepositoryPath (SnapshotCleanupRepositoryReq_Repository r);
     op_params := SnapshotCleanupRepositoryReq_Params; op_defaults := None; op_timeout := SnapshotCleanupRepositoryParams_TimeoutParams; op_debug := SnapshotCleanupRepositoryParams_DebugParams;
     op_format := None; op_own := SnapshotCleanupRepositoryParams_own; op_slots := SnapshotCleanupRepositoryParams_slots;
     op_body _ := no_body; op_headers r := SnapshotCleanupRepositoryReq_Header r;
     Method := SnapshotCleanupRepository_Method; GetRequest := SnapshotCleanupRepositoryReq_GetRequest;
     op_keys := [];
     op_described := [("POST", "/_snapshot/{repository}/_cleanup")];
     op_query := [] |}.
#[export] Instance SnapshotCleanupRepository_operates : LawfulOp SnapshotCleanupRepositoryReq.
Proof. operate. Qed.

Record SnapshotCloneParams := MkSnapshotCloneParams { SnapshotCloneParams_TimeoutParams : TimeoutParams; SnapshotCloneParams_DebugParams : DebugParams }.
Definition SnapshotCloneParams_own (q : SnapshotCloneParams) : list param :=
  [].
Definition SnapshotCloneParams_slots : list (string * (SnapshotCloneParams -> slot)) :=
  [].
Definition SnapshotCloneParams_get (q : SnapshotCloneParams) : gmap string string :=
  encode_params (EncodeTimeout (SnapshotCloneParams_TimeoutParams q) ++ EncodeDebug (SnapshotCloneParams_DebugParams q) ++ SnapshotCloneParams_own q).
Record SnapshotCloneReq := MkSnapshotCloneReq { SnapshotCloneReq_Repository : string; SnapshotCloneReq_Snapshot : string; SnapshotCloneReq_TargetSnapshot : string;
  SnapshotCloneReq_Body : option (option string); SnapshotCloneReq_BodyReader : reader; SnapshotCloneReq_Header : headers;
  SnapshotCloneReq_Params : option SnapshotCloneParams }.
Definition SnapshotCloneReq_GetRequest (r : SnapshotCloneReq) (method : string) : request_error + httpRequest * Z :=
  send method (SnapshotClonePath_Build (MkSnapshotClonePath (SnapshotCloneReq_Repository r) (SnapshotCloneReq_Snapshot r) (SnapshotCloneReq_TargetSnapshot r)))
    (match SnapshotCloneReq_Params r with Some q => SnapshotCloneParams_get q | None => ∅ end)
    (json_body (SnapshotCloneReq_Body r) (SnapshotCloneReq_BodyReader r)) (SnapshotCloneReq_Header r).
Definition SnapshotClone_Method (r : SnapshotCloneReq) : string := "PUT".
#[export] Instance SnapshotClone_operation : operation SnapshotCloneReq :=
  {| op_path := MkPathType "SnapshotClonePath" SnapshotClonePath _ _; op_P := SnapshotCloneParams; op_fields r := MkSnapshotClonePath (SnapshotCloneReq_Repository r) (SnapshotCloneReq_Snapshot r) (SnapshotCloneReq_TargetSnapshot r);
     op_params := SnapshotCloneReq_Params; op_defaults := None; op_timeout := SnapshotCloneParams_TimeoutParams; op_debug := SnapshotCloneParams_DebugParams;
     op_format := None; op_own := SnapshotCloneParams_own; op_slots := SnapshotCloneParams_slots;
     op_body r := json_body (SnapshotCloneReq_Body r) (SnapshotCloneReq_BodyReader r); op_headers r := SnapshotCloneReq_Header r;
     Method := SnapshotClone_Method; GetRequest := SnapshotCloneReq_GetRequest;
     op_keys := [];
     op_described := [("PUT", "/_snapshot/{repository}/{snapshot}/_clone/{target_snapshot}")];
     op_query := [] |}.
#[export] Instance SnapshotClone_operates : LawfulOp SnapshotCloneReq.
Proof. operate. Qed.

Record SnapshotCreateParams := MkSnapshotCreateParams { SnapshotCreateParams_TimeoutParams : TimeoutParams; SnapshotCreateParams_DebugParams : DebugParams;
  SnapshotCreateParams_WaitForCompletion : option bool }.
Definition SnapshotCreateParams_own (q : SnapshotCreateParams) : list param :=
  [("wait_for_completion", boolPtr (SnapshotCreateParams_WaitForCompletion q))].
Definition SnapshotCreateParams_slots : list (string * (SnapshotCreateParams -> slot)) :=
  [("WaitForCompletion", fun q => BoolPtr (SnapshotCreateParams_WaitForCompletion q))].
Definition SnapshotCreateParams_get (q : SnapshotCreateParams) : gmap string string :=
  encode_params (EncodeTimeout (SnapshotCreateParams_TimeoutParams q) ++ EncodeDebug (SnapshotCreateParams_DebugParams q) ++ SnapshotCreateParams_own q).
Record SnapshotCreateReq := MkSnapshotCreateReq { SnapshotCreateReq_Repository : string; SnapshotCreateReq_Snapshot : string; SnapshotCreateReq_Body : option (option string);
  SnapshotCreateReq_BodyReader : reader; SnapshotCreateReq_Header : headers; SnapshotCreateReq_Params : option SnapshotCreateParams }.
Definition SnapshotCreateReq_GetRequest (r : SnapshotCreateReq) (method : string) : request_error + httpRequest * Z :=
  send method (SnapshotCreatePath_Build (MkSnapshotCreatePath (SnapshotCreateReq_Repository r) (SnapshotCreateReq_Snapshot r)))
    (match SnapshotCreateReq_Params r with Some q => SnapshotCreateParams_get q | None => ∅ end)
    (json_body (SnapshotCreateReq_Body r) (SnapshotCreateReq_BodyReader r)) (SnapshotCreateReq_Header r).
Definition SnapshotCreate_Method (r : SnapshotCreateReq) : string := "POST".
#[export] Instance SnapshotCreate_operation : operation SnapshotCreateReq :=
  {| op_path := MkPathType "SnapshotCreatePath" SnapshotCreatePath _ _; op_P := SnapshotCreateParams; op_fields r := MkSnapshotCreatePath (SnapshotCreateReq_Repository r) (SnapshotCreateReq_Snapshot r);
     op_params := SnapshotCreateReq_Params; op_defaults := None; op_timeout := SnapshotCreateParams_TimeoutParams; op_debug := SnapshotCreateParams_DebugParams;
     op_format := None; op_own := SnapshotCreateParams_own; op_slots := SnapshotCreateParams_slots;
     op_body r := json_body (SnapshotCreateReq_Body r) (SnapshotCreateReq_BodyReader r); op_headers r := SnapshotCreateReq_Header r;
     Method := SnapshotCreate_Method; GetRequest := SnapshotCreateReq_GetRequest;
     op_keys := ["wait_for_completion"];
     op_described := [("POST", "/_snapshot/{repository}/{snapshot}"); ("PUT", "/_snapshot/{repository}/{snapshot}")];
     op_query := ["wait_for_completion"] |}.
#[export] Instance SnapshotCreate_operates : LawfulOp SnapshotCreateReq.
Proof. operate. Qed.

Record SnapshotCreateRepositoryParams := MkSnapshotCreateRepositoryParams { SnapshotCreateRepositoryParams_TimeoutParams : TimeoutParams; SnapshotCreateRepositoryParams_DebugParams : DebugParams;
  SnapshotCreateRepositoryParams_Verify : option bool }.
Definition SnapshotCreateRepositoryParams_own (q : SnapshotCreateRepositoryParams) : list param :=
  [("verify", boolPtr (SnapshotCreateRepositoryParams_Verify q))].
Definition SnapshotCreateRepositoryParams_slots : list (string * (SnapshotCreateRepositoryParams -> slot)) :=
  [("Verify", fun q => BoolPtr (SnapshotCreateRepositoryParams_Verify q))].
Definition SnapshotCreateRepositoryParams_get (q : SnapshotCreateRepositoryParams) : gmap string string :=
  encode_params (EncodeTimeout (SnapshotCreateRepositoryParams_TimeoutParams q) ++ EncodeDebug (SnapshotCreateRepositoryParams_DebugParams q) ++ SnapshotCreateRepositoryParams_own q).
Record SnapshotCreateRepositoryReq := MkSnapshotCreateRepositoryReq { SnapshotCreateRepositoryReq_Repository : string; SnapshotCreateRepositoryReq_Body : option (option string);
  SnapshotCreateRepositoryReq_BodyReader : reader; SnapshotCreateRepositoryReq_Header : headers;
  SnapshotCreateRepositoryReq_Params : option SnapshotCreateRepositoryParams }.
Definition SnapshotCreateRepositoryReq_GetRequest (r : SnapshotCreateRepositoryReq) (method : string) : request_error + httpRequest * Z :=
  send method (SnapshotCreateRepositoryPath_Build (MkSnapshotCreateRepositoryPath (SnapshotCreateRepositoryReq_Repository r)))
    (match SnapshotCreateRepositoryReq_Params r with Some q => SnapshotCreateRepositoryParams_get q | None => ∅ end)
    (json_body (SnapshotCreateRepositoryReq_Body r) (SnapshotCreateRepositoryReq_BodyReader r)) (SnapshotCreateRepositoryReq_Header r).
Definition SnapshotCreateRepository_Method (r : SnapshotCreateRepositoryReq) : string := "POST".
#[export] Instance SnapshotCreateRepository_operation : operation SnapshotCreateRepositoryReq :=
  {| op_path := MkPathType "SnapshotCreateRepositoryPath" SnapshotCreateRepositoryPath _ _; op_P := SnapshotCreateRepositoryParams; op_fields r := MkSnapshotCreateRepositoryPath (SnapshotCreateRepositoryReq_Repository r);
     op_params := SnapshotCreateRepositoryReq_Params; op_defaults := None; op_timeout := SnapshotCreateRepositoryParams_TimeoutParams; op_debug := SnapshotCreateRepositoryParams_DebugParams;
     op_format := None; op_own := SnapshotCreateRepositoryParams_own; op_slots := SnapshotCreateRepositoryParams_slots;
     op_body r := json_body (SnapshotCreateRepositoryReq_Body r) (SnapshotCreateRepositoryReq_BodyReader r); op_headers r := SnapshotCreateRepositoryReq_Header r;
     Method := SnapshotCreateRepository_Method; GetRequest := SnapshotCreateRepositoryReq_GetRequest;
     op_keys := ["verify"];
     op_described := [("POST", "/_snapshot/{repository}"); ("PUT", "/_snapshot/{repository}")];
     op_query := ["verify"] |}.
#[export] Instance SnapshotCreateRepository_operates : LawfulOp SnapshotCreateRepositoryReq.
Proof. operate. Qed.

Record SnapshotDeleteParams := MkSnapshotDeleteParams { SnapshotDeleteParams_TimeoutParams : TimeoutParams; SnapshotDeleteParams_DebugParams : DebugParams }.
Definition SnapshotDeleteParams_own (q : SnapshotDeleteParams) : list param :=
  [].
Definition SnapshotDeleteParams_slots : list (string * (SnapshotDeleteParams -> slot)) :=
  [].
Definition SnapshotDeleteParams_get (q : SnapshotDeleteParams) : gmap string string :=
  encode_params (EncodeTimeout (SnapshotDeleteParams_TimeoutParams q) ++ EncodeDebug (SnapshotDeleteParams_DebugParams q) ++ SnapshotDeleteParams_own q).
Record SnapshotDeleteReq := MkSnapshotDeleteReq { SnapshotDeleteReq_Repository : string; SnapshotDeleteReq_Snapshot : list string; SnapshotDeleteReq_Header : headers;
  SnapshotDeleteReq_Params : option SnapshotDeleteParams }.
Definition SnapshotDeleteReq_GetRequest (r : SnapshotDeleteReq) (method : string) : request_error + httpRequest * Z :=
  send method (SnapshotDeletePath_Build (MkSnapshotDeletePath (SnapshotDeleteReq_Repository r) (SnapshotDeleteReq_Snapshot r)))
    (match SnapshotDeleteReq_Params r with Some q => SnapshotDeleteParams_get q | None => ∅ end)
    no_body (SnapshotDeleteReq_Header r).
Definition SnapshotDelete_Method (r : SnapshotDeleteReq) : string := "DELETE".
#[export] Instance SnapshotDelete_operation : operation SnapshotDeleteReq :=
  {| op_path := MkPathType "SnapshotDeletePath" SnapshotDeletePath _ _; op_P := SnapshotDeleteParams; op_fields r := MkSnapshotDeletePath (SnapshotDeleteReq_Repository r) (SnapshotDeleteReq_Snapshot r);
     op_params := SnapshotDeleteReq_Params; op_defaults := None; op_timeout := SnapshotDeleteParams_TimeoutParams; op_debug := SnapshotDeleteParams_DebugParams;
     op_format := None; op_own := SnapshotDeleteParams_own; op_slots := SnapshotDeleteParams_slots;
     op_body _ := no_body; op_headers r := SnapshotDeleteReq_Header r;
     Method := SnapshotDelete_Method; GetRequest := SnapshotDeleteReq_GetRequest;
     op_keys := [];
     op_described := [("DELETE", "/_snapshot/{repository}/{snapshot}")];
     op_query := [] |}.
#[export] Instance SnapshotDelete_operates : LawfulOp SnapshotDeleteReq.
Proof. operate. Qed.

Record SnapshotDeleteRepositoryParams := MkSnapshotDeleteRepositoryParams { SnapshotDeleteRepositoryParams_TimeoutParams : TimeoutParams; SnapshotDeleteRepositoryParams_DebugParams : DebugParams }.
Definition SnapshotDeleteRepositoryParams_own (q : SnapshotDeleteRepositoryParams) : list param :=
  [].
Definition SnapshotDeleteRepositoryParams_slots : list (string * (SnapshotDeleteRepositoryParams -> slot)) :=
  [].
Definition SnapshotDeleteRepositoryParams_get (q : SnapshotDeleteRepositoryParams) : gmap string string :=
  encode_params (EncodeTimeout (SnapshotDeleteRepositoryParams_TimeoutParams q) ++ EncodeDebug (SnapshotDeleteRepositoryParams_DebugParams q) ++ SnapshotDeleteRepositoryParams_own q).
Record SnapshotDeleteRepositoryReq := MkSnapshotDeleteRepositoryReq { SnapshotDeleteRepositoryReq_Repository : list string; SnapshotDeleteRepositoryReq_Header : headers;
  SnapshotDeleteRepositoryReq_Params : option SnapshotDeleteRepositoryParams }.
Definition SnapshotDeleteRepositoryReq_GetRequest (r : SnapshotDeleteRepositoryReq) (method : string) : request_error + httpRequest * Z :=
  send method (SnapshotDeleteRepositoryPath_Build (MkSnapshotDeleteRepositoryPath (SnapshotDeleteRepositoryReq_Repository r)))
    (match SnapshotDeleteRepositoryReq_Params r with Some q => SnapshotDeleteRepositoryParams_get q | None => ∅ end)
    no_body (SnapshotDeleteRepositoryReq_Header r).
Definition SnapshotDeleteRepository_Method (r : SnapshotDeleteRepositoryReq) : string := "DELETE".
#[export] Instance SnapshotDeleteRepository_operation : operation SnapshotDeleteRepositoryReq :=
  {| op_path := MkPathType "SnapshotDeleteRepositoryPath" SnapshotDeleteRepositoryPath _ _; op_P := SnapshotDeleteRepositoryParams; op_fields r := MkSnapshotDeleteRepositoryPath (SnapshotDeleteRepositoryReq_Repository r);
     op_params := SnapshotDeleteRepositoryReq_Params; op_defaults := None; op_timeout := SnapshotDeleteRepositoryParams_TimeoutParams; op_debug := SnapshotDeleteRepositoryParams_DebugParams;
     op_format := None; op_own := SnapshotDeleteRepositoryParams_own; op_slots := SnapshotDeleteRepositoryParams_slots;
     op_body _ := no_body; op_headers r := SnapshotDeleteRepositoryReq_Header r;
     Method := SnapshotDeleteRepository_Method; GetRequest := SnapshotDeleteRepositoryReq_GetRequest;
     op_keys := [];
     op_described := [("DELETE", "/_snapshot/{repository}")];
     op_query := [] |}.
#[export] Instance SnapshotDeleteRepository_operates : LawfulOp SnapshotDeleteRepositoryReq.
Proof. operate. Qed.

Record SnapshotGetParams := MkSnapshotGetParams { SnapshotGetParams_TimeoutParams : TimeoutParams; SnapshotGetParams_DebugParams : DebugParams; SnapshotGetParams_IgnoreUnavailable : option bool;
  SnapshotGetParams_Verbose : option bool }.
Definition SnapshotGetParams_own (q : SnapshotGetParams) : list param :=
  [("ignore_unavailable", boolPtr (SnapshotGetParams_IgnoreUnavailable q)); ("verbose", boolPtr (SnapshotGetParams_Verbose q))].
Definition SnapshotGetParams_slots : list (string * (SnapshotGetParams -> slot)) :=
  [("IgnoreUnavailable", fun q => BoolPtr (SnapshotGetParams_IgnoreUnavailable q)); ("Verbose", fun q => BoolPtr (SnapshotGetParams_Verbose q))].
Definition SnapshotGetParams_get (q : SnapshotGetParams) : gmap string string :=
  encode_params (EncodeTimeout (SnapshotGetParams_TimeoutParams q) ++ EncodeDebug (SnapshotGetParams_DebugParams q) ++ SnapshotGetParams_own q).
Record SnapshotGetReq := MkSnapshotGetReq { SnapshotGetReq_Repository : string; SnapshotGetReq_Snapshot : list string; SnapshotGetReq_Header : headers;
  SnapshotGetReq_Params : option SnapshotGetParams }.
Definition SnapshotGetReq_GetRequest (r : SnapshotGetReq) (method : string) : request_error + httpRequest * Z :=
  send method (SnapshotGetPath_Build (MkSnapshotGetPath (SnapshotGetReq_Repository r) (SnapshotGetReq_Snapshot r)))
    (match SnapshotGetReq_Params r with Some q => SnapshotGetParams_get q | None => ∅ end)
    no_body (SnapshotGetReq_Header r).
Definition SnapshotGet_Method (r : SnapshotGetReq) : string := "GET".
#[export] Instance SnapshotGet_operation : operation SnapshotGetReq :=
  {| op_path := MkPathType "SnapshotGetPath" SnapshotGetPath _ _; op_P := SnapshotGetParams; op_fields r := MkSnapshotGetPath (SnapshotGetReq_Repository r) (SnapshotGetReq_Snapshot r);
     op_params := SnapshotGetReq_Params; op_defaults := None; op_timeout := SnapshotGetParams_TimeoutParams; op_debug := SnapshotGetParams_DebugParams;
     op_format := None; op_own := SnapshotGetParams_own; op_slots := SnapshotGetParams_slots;
     op_body _ := no_body; op_headers r := SnapshotGetReq_Header r;
     Method := SnapshotGet_Method; GetRequest := SnapshotGetReq_GetRequest;
     op_keys := ["ignore_unavailable"; "verbose"];
     op_described := [("GET", "/_snapshot/{repository}/{snapshot}")];
     op_query := ["ignore_unavailable"; "verbose"] |}.
#[export] Instance SnapshotGet_operates : LawfulOp SnapshotGetReq.
Proof. operate. Qed.

Record SnapshotGetRepositoryParams := MkSnapshotGetRepositoryParams { SnapshotGetRepositoryParams_TimeoutParams : TimeoutParams; SnapshotGetRepositoryParams_DebugParams : DebugParams;
  SnapshotGetRepositoryParams_Local : option bool }.
Definition SnapshotGetRepositoryParams_own (q : SnapshotGetRepositoryParams) : list param :=
  [("local", boolPtr (SnapshotGetRepositoryParams_Local q))].
Definition SnapshotGetRepositoryParams_slots : list (string * (SnapshotGetRepositoryParams -> slot)) :=
  [("Local", fun q => BoolPtr (SnapshotGetRepositoryParams_Local q))].
Definition SnapshotGetRepositoryParams_get (q : SnapshotGetRepositoryParams) : gmap string string :=
  encode_params (EncodeTimeout (SnapshotGetRepositoryParams_TimeoutParams q) ++ EncodeDebug (SnapshotGetRepositoryParams_DebugParams q) ++ SnapshotGetRepositoryParams_own q).
Record SnapshotGetRepositoryReq := MkSnapshotGetRepositoryReq { SnapshotGetRepositoryReq_Repository : list string; SnapshotGetRepositoryReq_Header : headers;
  SnapshotGetRepositoryReq_Params : option SnapshotGetRepositoryParams }.
Definition SnapshotGetRepositoryReq_GetRequest (r : SnapshotGetRepositoryReq) (method : string) : request_error + httpRequest * Z :=
  send method (SnapshotGetRepositoryPath_Build (MkSnapshotGetRepositoryPath (SnapshotGetRepositoryReq_Repository r)))
    (match SnapshotGetRepositoryReq_Params r with Some q => SnapshotGetRepositoryParams_get q | None => ∅ end)
    no_body (SnapshotGetRepositoryReq_Header r).
Definition SnapshotGetRepository_Method (r : SnapshotGetRepositoryReq) : string := "GET".
#[export] Instance SnapshotGetRepository_operation : operation SnapshotGetRepositoryReq :=
  {| op_path := MkPathType "SnapshotGetRepositoryPath" SnapshotGetRepositoryPath _ _; op_P := SnapshotGetRepositoryParams; op_fields r := MkSnapshotGetRepositoryPath (SnapshotGetRepositoryReq_Repository r);
     op_params := SnapshotGetRepositoryReq_Params; op_defaults := None; op_timeout := SnapshotGetRepositoryParams_TimeoutParams; op_debug := SnapshotGetRepositoryParams_DebugParams;
     op_format := None; op_own := SnapshotGetRepositoryParams_own; op_slots := SnapshotGetRepositoryParams_slots;
     op_body _ := no_body; op_headers r := SnapshotGetRepositoryReq_Header r;
     Method := SnapshotGetRepository_Method; GetRequest := SnapshotGetRepositoryReq_GetRequest;
     op_keys := ["local"];
     op_described := [("GET", "/_snapshot"); ("GET", "/_snapshot/{repository}")];
     op_query := ["local"] |}.
#[export] Instance SnapshotGetRepository_operates : LawfulOp SnapshotGetRepositoryReq.
Proof. operate. Qed.

Record SnapshotRestoreParams := MkSnapshotRestoreParams { SnapshotRestoreParams_TimeoutParams : TimeoutParams; SnapshotRestoreParams_DebugParams : DebugParams;
  SnapshotRestoreParams_WaitForCompletion : option bool }.
Definition SnapshotRestoreParams_own (q : SnapshotRestoreParams) : list param :=
  [("wait_for_completion", boolPtr (SnapshotRestoreParams_WaitForCompletion q))].
Definition SnapshotRestoreParams_slots : list (string * (SnapshotRestoreParams -> slot)) :=
  [("WaitForCompletion", fun q => BoolPtr (SnapshotRestoreParams_WaitForCompletion q))].
Definition SnapshotRestoreParams_get (q : SnapshotRestoreParams) : gmap string string :=
  encode_params (EncodeTimeout (SnapshotRestoreParams_TimeoutParams q) ++ EncodeDebug (SnapshotRestoreParams_DebugParams q) ++ SnapshotRestoreParams_own q).
Record SnapshotRestoreReq := MkSnapshotRestoreReq { SnapshotRestoreReq_Repository : string; SnapshotRestoreReq_Snapshot : string; SnapshotRestoreReq_Body : option (option string);
  SnapshotRestoreReq_BodyReader : reader; SnapshotRestoreReq_Header : headers; SnapshotRestoreReq_Params : option SnapshotRestoreParams }.
Definition SnapshotRestoreReq_GetRequest (r : SnapshotRestoreReq) (method : string) : request_error + httpRequest * Z :=
  send method (SnapshotRestorePath_Build (MkSnapshotRestorePath (SnapshotRestoreReq_Repository r) (SnapshotRestoreReq_Snapshot r)))
    (match SnapshotRestoreReq_Params r with Some q => SnapshotRestoreParams_get q | None => ∅ end)
    (json_body (SnapshotRestoreReq_Body r) (SnapshotRestoreReq_BodyReader r)) (SnapshotRestoreReq_Header r).
Definition SnapshotRestore_Method (r : SnapshotRestoreReq) : string := "POST".
#[export] Instance SnapshotRestore_operation : operation SnapshotRestoreReq :=
  {| op_path := MkPathType "SnapshotRestorePath" SnapshotRestorePath _ _; op_P := SnapshotRestoreParams; op_fields r := MkSnapshotRestorePath (SnapshotRestoreReq_Repository r) (SnapshotRestoreReq_Snapshot r);
     op_params := SnapshotRestoreReq_Params; op_defaults := None; op_timeout := SnapshotRestoreParams_TimeoutParams; op_debug := SnapshotRestoreParams_DebugParams;
     op_format := None; op_own := SnapshotRestoreParams_own; op_slots := SnapshotRestoreParams_slots;
     op_body r := json_body (SnapshotRestoreReq_Body r) (SnapshotRestoreReq_BodyReader r); op_headers r := SnapshotRestoreReq_Header r;
     Method := SnapshotRestore_Method; GetRequest := SnapshotRestoreReq_GetRequest;
     op_keys := ["wait_for_completion"];
     op_described := [("POST", "/_snapshot/{repository}/{snapshot}/_restore")];
     op_query := ["wait_for_completion"] |}.
#[export] Instance SnapshotRestore_operates : LawfulOp SnapshotRestoreReq.
Proof. operate. Qed.

Record SnapshotStatusParams := MkSnapshotStatusParams { SnapshotStatusParams_TimeoutParams : TimeoutParams; SnapshotStatusParams_DebugParams : DebugParams;
  SnapshotStatusParams_IgnoreUnavailable : option bool }.
Definition SnapshotStatusParams_own (q : SnapshotStatusParams) : list param :=
  [("ignore_unavailable", boolPtr (SnapshotStatusParams_IgnoreUnavailable q))].
Definition SnapshotStatusParams_slots : list (string * (SnapshotStatusParams -> slot)) :=
  [("IgnoreUnavailable", fun q => BoolPtr (SnapshotStatusParams_IgnoreUnavailable q))].
Definition SnapshotStatusParams_get (q : SnapshotStatusParams) : gmap string string :=
  encode_params (EncodeTimeout (SnapshotStatusParams_TimeoutParams q) ++ EncodeDebug (SnapshotStatusParams_DebugParams q) ++ SnapshotStatusParams_own q).
Record SnapshotStatusReq := MkSnapshotStatusReq { SnapshotStatusReq_Repository : string; SnapshotStatusReq_Snapshot : list string; SnapshotStatusReq_Header : headers;
  SnapshotStatusReq_Params : option SnapshotStatusParams }.
Definition SnapshotStatusReq_GetRequest (r : SnapshotStatusReq) (method : string) : request_error + httpRequest * Z :=
  send method (SnapshotStatusPath_Build (MkSnapshotStatusPath (SnapshotStatusReq_Repository r) (SnapshotStatusReq_Snapshot r)))
    (match SnapshotStatusReq_Params r with Some q => SnapshotStatusParams_get q | None => ∅ end)
    no_body (SnapshotStatusReq_Header r).
Definition SnapshotStatus_Method (r : SnapshotStatusReq) : string := "GET".
#[export] Instance SnapshotStatus_operation : operation SnapshotStatusReq :=
  {| op_path := MkPathType "SnapshotStatusPath" SnapshotStatusPath _ _; op_P := SnapshotStatusParams; op_fields r := MkSnapshotStatusPath (SnapshotStatusReq_Repository r) (SnapshotStatusReq_Snapshot r);
     op_params := SnapshotStatusReq_Params; op_defaults := None; op_timeout := SnapshotStatusParams_TimeoutParams; op_debug := SnapshotStatusParams_DebugParams;
     op_format := None; op_own := SnapshotStatusParams_own; op_slots := SnapshotStatusParams_slots;
     op_body _ := no_body; op_headers r := SnapshotStatusReq_Header r;
     Method := SnapshotStatus_Method; GetRequest := SnapshotStatusReq_GetRequest;
     op_keys := ["ignore_unavailable"];
     op_described := [("GET", "/_snapshot/_status"); ("GET", "/_snapshot/{repository}/_status"); ("GET", "/_snapshot/{repository}/{snapshot}/_status")];
     op_query := ["ignore_unavailable"] |}.
#[export] Instance SnapshotStatus_operates : LawfulOp SnapshotStatusReq.
Proof. operate. Qed.

Record SnapshotVerifyRepositoryParams := MkSnapshotVerifyRepositoryParams { SnapshotVerifyRepositoryParams_TimeoutParams : TimeoutParams; SnapshotVerifyRepositoryParams_DebugParams : DebugParams }.
Definition SnapshotVerifyRepositoryParams_own (q : SnapshotVerifyRepositoryParams) : list param :=
  [].
Definition SnapshotVerifyRepositoryParams_slots : list (string * (SnapshotVerifyRepositoryParams -> slot)) :=
  [].
Definition SnapshotVerifyRepositoryParams_get (q : SnapshotVerifyRepositoryParams) : gmap string string :=
  encode_params (EncodeTimeout (SnapshotVerifyRepositoryParams_TimeoutParams q) ++ EncodeDebug (SnapshotVerifyRepositoryParams_DebugParams q) ++ SnapshotVerifyRepositoryParams_own q).
Record SnapshotVerifyRepositoryReq := MkSnapshotVerifyRepositoryReq { SnapshotVerifyRepositoryReq_Repository : string; SnapshotVerifyRepositoryReq_Header : headers;
  SnapshotVerifyRepositoryReq_Params : option SnapshotVerifyRepositoryParams }.
Definition SnapshotVerifyRepositoryReq_GetRequest (r : SnapshotVerifyRepositoryReq) (method : string) : request_error + httpRequest * Z :=
  send method (SnapshotVerifyRepositoryPath_Build (MkSnapshotVerifyRepositoryPath (SnapshotVerifyRepositoryReq_Repository r)))
    (match SnapshotVerifyRepositoryReq_Params r with Some q => SnapshotVerifyRepositoryParams_get q | None => ∅ end)
    no_body (SnapshotVerifyRepositoryReq_Header r).
Definition SnapshotVerifyRepository_Method (r : SnapshotVerifyRepositoryReq) : string := "POST".
#[export] Instance SnapshotVerifyRepository_operation : operation SnapshotVerifyRepositoryReq :=
  {| op_path := MkPathType "SnapshotVerifyRepositoryPath" SnapshotVerifyRepositoryPath _ _; op_P := SnapshotVerifyRepositoryParams; op_fields r := MkSnapshotVerifyRepositoryPath (SnapshotVerifyRepositoryReq_Repository r);
     op_params := SnapshotVerifyRepositoryReq_Params; op_defaults := None; op_timeout := SnapshotVerifyRepositoryParams_TimeoutParams; op_debug := SnapshotVerifyRepositoryParams_DebugParams;
     op_format := None; op_own := SnapshotVerifyRepositoryParams_own; op_slots := SnapshotVerifyRepositoryParams_slots;
     op_body _ := no_body; op_headers r := SnapshotVerifyRepositoryReq_Header r;
     Method := SnapshotVerifyRepository_Method; GetRequest := SnapshotVerifyRepositoryReq_GetRequest;
     op_keys := [];
     op_described := [("POST", "/_snapshot/{repository}/_verify")];
     op_query := [] |}.
#[export] Instance SnapshotVerifyRepository_operates : LawfulOp SnapshotVerifyRepositoryReq.
Proof. operate. Qed.

(** All of them. *)
Definition apiIndices : list operation_type :=
  [MkOperationType "IndicesAddBlock" IndicesAddBlockReq _ _; MkOperationType "IndicesAnalyze" IndicesAnalyzeReq _ _;
   MkOperationType "IndicesClearCache" IndicesClearCacheReq _ _; MkOperationType "IndicesClone" IndicesCloneReq _ _;
   MkOperationType "IndicesClose" IndicesCloseReq _ _; MkOperationType "IndicesCreate" IndicesCreateReq _ _;
   MkOperationType "IndicesCreateDataStream" IndicesCreateDataStreamReq _ _; MkOperationType "IndicesDataStreamsStats" IndicesDataStreamsStatsReq _ _;
   MkOperationType "IndicesDelete" IndicesDeleteReq _ _; MkOperationType "IndicesDeleteAlias" IndicesDeleteAliasReq _ _;
   MkOperationType "IndicesDeleteDataStream" IndicesDeleteDataStreamReq _ _; MkOperationType "IndicesDeleteIndexTemplate" IndicesDeleteIndexTemplateReq _ _;
   MkOperationType "IndicesDeleteTemplate" IndicesDeleteTemplateReq _ _; MkOperationType "IndicesExists" IndicesExistsReq _ _;
   MkOperationType "IndicesExistsAlias" IndicesExistsAliasReq _ _; MkOperationType "IndicesExistsIndexTemplate" IndicesExistsIndexTemplateReq _ _;
   MkOperationType "IndicesExistsTemplate" IndicesExistsTemplateReq _ _; MkOperationType "IndicesFlush" IndicesFlushReq _ _;
   MkOperationType "IndicesForcemerge" IndicesForcemergeReq _ _; MkOperationType "IndicesGet" IndicesGetReq _ _;
   MkOperationType "IndicesGetAlias" IndicesGetAliasReq _ _; MkOperationType "IndicesGetDataStream" IndicesGetDataStreamReq _ _;
   MkOperationType "IndicesGetFieldMapping" IndicesGetFieldMappingReq _ _; MkOperationType "IndicesGetIndexTemplate" IndicesGetIndexTemplateReq _ _;
   MkOperationType "IndicesGetMapping" IndicesGetMappingReq _ _; MkOperationType "IndicesGetSettings" IndicesGetSettingsReq _ _;
   MkOperationType "IndicesGetTemplate" IndicesGetTemplateReq _ _; MkOperationType "IndicesGetUpgrade" IndicesGetUpgradeReq _ _;
   MkOperationType "IndicesOpen" IndicesOpenReq _ _; MkOperationType "IndicesPutAlias" IndicesPutAliasReq _ _;
   MkOperationType "IndicesPutIndexTemplate" IndicesPutIndexTemplateReq _ _; MkOperationType "IndicesPutMapping" IndicesPutMappingReq _ _;
   MkOperationType "IndicesPutSettings" IndicesPutSettingsReq _ _; MkOperationType "IndicesPutTemplate" IndicesPutTemplateReq _ _;
   MkOperationType "IndicesRecovery" IndicesRecoveryReq _ _; MkOperationType "IndicesRefresh" IndicesRefreshReq _ _;
   MkOperationType "IndicesResolveIndex" IndicesResolveIndexReq _ _; MkOperationType "IndicesRollover" IndicesRolloverReq _ _;
   MkOperationType "IndicesSegments" IndicesSegmentsReq _ _; MkOperationType "IndicesShardStores" IndicesShardStoresReq _ _;
   MkOperationType "IndicesShrink" IndicesShrinkReq _ _; MkOperationType "IndicesSimulateIndexTemplate" IndicesSimulateIndexTemplateReq _ _;
   MkOperationType "IndicesSimulateTemplate" IndicesSimulateTemplateReq _ _; MkOperationType "IndicesSplit" IndicesSplitReq _ _;
   MkOperationType "IndicesStats" IndicesStatsReq _ _; MkOperationType "IndicesUpdateAliases" IndicesUpdateAliasesReq _ _;
   MkOperationType "IndicesUpgrade" IndicesUpgradeReq _ _; MkOperationType "IndicesValidateQuery" IndicesValidateQueryReq _ _;
   MkOperationType "SnapshotCleanupRepository" SnapshotCleanupRepositoryReq _ _; MkOperationType "SnapshotClone" SnapshotCloneReq _ _;
   MkOperationType "SnapshotCreate" SnapshotCreateReq _ _; MkOperationType "SnapshotCreateRepository" SnapshotCreateRepositoryReq _ _;
   MkOperationType "SnapshotDelete" SnapshotDeleteReq _ _; MkOperationType "SnapshotDeleteRepository" SnapshotDeleteRepositoryReq _ _;
   MkOperationType "SnapshotGet" SnapshotGetReq _ _; MkOperationType "SnapshotGetRepository" SnapshotGetRepositoryReq _ _;
   MkOperationType "SnapshotRestore" SnapshotRestoreReq _ _; MkOperationType "SnapshotStatus" SnapshotStatusReq _ _;
   MkOperationType "SnapshotVerifyRepository" SnapshotVerifyRepositoryReq _ _].
