(* ===== verification/ApiLifecycle.v ===== *)
(** * Requests for pipelines, lists and the plugins that manage indices

    The request types of opensearchapi and plugins for pipelines, lists and the plugins that manage indices: the parameters
    with their [get], GetRequest, and the method of the client's call, each
    with its instance of [operation] and the part of opensearch-openapi.yaml it is
    compared with. *)

From Stdlib Require Import ZArith Ascii String.
From stdpp Require Import base gmap list strings.
From S2P Require Import Paths.
From S2P Require Import Stream.
From S2P Require Import PathsIndices.
From S2P Require Import ReqBuild.
From S2P Require Import ApiRequest.
Open Scope string_scope.
Open Scope list_scope.

Record IngestDeletePipelineParams := MkIngestDeletePipelineParams { IngestDeletePipelineParams_TimeoutParams : TimeoutParams; IngestDeletePipelineParams_DebugParams : DebugParams }.
Definition IngestDeletePipelineParams_own (q : IngestDeletePipelineParams) : list param :=
  [].
Definition IngestDeletePipelineParams_slots : list (string * (IngestDeletePipelineParams -> slot)) :=
  [].
Definition IngestDeletePipelineParams_get (q : IngestDeletePipelineParams) : gmap string string :=
  encode_params (EncodeTimeout (IngestDeletePipelineParams_TimeoutParams q) ++ EncodeDebug (IngestDeletePipelineParams_DebugParams q) ++ IngestDeletePipelineParams_own q).
Record IngestDeletePipelineReq := MkIngestDeletePipelineReq { IngestDeletePipelineReq_ID : string; IngestDeletePipelineReq_Header : headers; IngestDeletePipelineReq_Params : option IngestDeletePipelineParams }.
Definition IngestDeletePipelineReq_GetRequest (r : IngestDeletePipelineReq) (method : string) : request_error + httpRequest * Z :=
  send method (IngestDeletePipelinePath_Build (MkIngestDeletePipelinePath (IngestDeletePipelineReq_ID r)))
    (match IngestDeletePipelineReq_Params r with Some q => IngestDeletePipelineParams_get q | None => ∅ end)
    no_body (IngestDeletePipelineReq_Header r).
Definition IngestDeletePipeline_Method (r : IngestDeletePipelineReq) : string := "DELETE".
#[export] Instance IngestDeletePipeline_operation : operation IngestDeletePipelineReq :=
  {| op_path := MkPathType "IngestDeletePipelinePath" IngestDeletePipelinePath _ _; op_P := IngestDeletePipelineParams; op_fields r := MkIngestDeletePipelinePath (IngestDeletePipelineReq_ID r);
     op_params := IngestDeletePipelineReq_Params; op_defaults := None; op_timeout := IngestDeletePipelineParams_TimeoutParams; op_debug := IngestDeletePipelineParams_DebugParams;
     op_format := None; op_own := IngestDeletePipelineParams_own; op_slots := IngestDeletePipelineParams_slots;
     op_body _ := no_body; op_headers r := IngestDeletePipelineReq_Header r;
     Method := IngestDeletePipeline_Method; GetRequest := IngestDeletePipelineReq_GetRequest;
     op_keys := [];
     op_described := [("DELETE", "/_ingest/pipeline/{id}")];
     op_query := [] |}.
#[export] Instance IngestDeletePipeline_operates : LawfulOp IngestDeletePipelineReq.
Proof. operate. Qed.

Record IngestGetPipelineParams := MkIngestGetPipelineParams { IngestGetPipelineParams_TimeoutParams : TimeoutParams; IngestGetPipelineParams_DebugParams : DebugParams }.
Definition IngestGetPipelineParams_own (q : IngestGetPipelineParams) : list param :=
  [].
Definition IngestGetPipelineParams_slots : list (string * (IngestGetPipelineParams -> slot)) :=
  [].
Definition IngestGetPipelineParams_get (q : IngestGetPipelineParams) : gmap string string :=
  encode_params (EncodeTimeout (IngestGetPipelineParams_TimeoutParams q) ++ EncodeDebug (IngestGetPipelineParams_DebugParams q) ++ IngestGetPipelineParams_own q).
Record IngestGetPipelineReq := MkIngestGetPipelineReq { IngestGetPipelineReq_ID : string; IngestGetPipelineReq_Header : headers; IngestGetPipelineReq_Params : option IngestGetPipelineParams }.
Definition IngestGetPipelineReq_GetRequest (r : IngestGetPipelineReq) (method : string) : request_error + httpRequest * Z :=
  send method (IngestGetPipelinePath_Build (MkIngestGetPipelinePath (IngestGetPipelineReq_ID r)))
    (match IngestGetPipelineReq_Params r with Some q => IngestGetPipelineParams_get q | None => ∅ end)
    no_body (IngestGetPipelineReq_Header r).
Definition IngestGetPipeline_Method (r : IngestGetPipelineReq) : string := "GET".
#[export] Instance IngestGetPipeline_operation : operation IngestGetPipelineReq :=
  {| op_path := MkPathType "IngestGetPipelinePath" IngestGetPipelinePath _ _; op_P := IngestGetPipelineParams; op_fields r := MkIngestGetPipelinePath (IngestGetPipelineReq_ID r);
     op_params := IngestGetPipelineReq_Params; op_defaults := None; op_timeout := IngestGetPipelineParams_TimeoutParams; op_debug := IngestGetPipelineParams_DebugParams;
     op_format := None; op_own := IngestGetPipelineParams_own; op_slots := IngestGetPipelineParams_slots;
     op_body _ := no_body; op_headers r := IngestGetPipelineReq_Header r;
     Method := IngestGetPipeline_Method; GetRequest := IngestGetPipelineReq_GetRequest;
     op_keys := [];
     op_described := [("GET", "/_ingest/pipeline"); ("GET", "/_ingest/pipeline/{id}")];
     op_query := [] |}.
#[export] Instance IngestGetPipeline_operates : LawfulOp IngestGetPipelineReq.
Proof. operate. Qed.

Record IngestProcessorGrokParams := MkIngestProcessorGrokParams { IngestProcessorGrokParams_TimeoutParams : TimeoutParams; IngestProcessorGrokParams_DebugParams : DebugParams }.
Definition IngestProcessorGrokParams_own (q : IngestProcessorGrokParams) : list param :=
  [].
Definition IngestProcessorGrokParams_slots : list (string * (IngestProcessorGrokParams -> slot)) :=
  [].
Definition IngestProcessorGrokParams_get (q : IngestProcessorGrokParams) : gmap string string :=
  encode_params (EncodeTimeout (IngestProcessorGrokParams_TimeoutParams q) ++ EncodeDebug (IngestProcessorGrokParams_DebugParams q) ++ IngestProcessorGrokParams_own q).
Record IngestProcessorGrokReq := MkIngestProcessorGrokReq { IngestProcessorGrokReq_Header : headers; IngestProcessorGrokReq_Params : option IngestProcessorGrokParams }.
Definition IngestProcessorGrokReq_GetRequest (r : IngestProcessorGrokReq) (method : string) : request_error + httpRequest * Z :=
  send method (IngestProcessorGrokPath_Build (MkIngestProcessorGrokPath))
    (match IngestProcessorGrokReq_Params r with Some q => IngestProcessorGrokParams_get q | None => ∅ end)
    no_body (IngestProcessorGrokReq_Header r).
Definition IngestProcessorGrok_Method (r : IngestProcessorGrokReq) : string := "GET".
#[export] Instance IngestProcessorGrok_operation : operation IngestProcessorGrokReq :=
  {| op_path := MkPathType "IngestProcessorGrokPath" IngestProcessorGrokPath _ _; op_P := IngestProcessorGrokParams; op_fields r := MkIngestProcessorGrokPath;
     op_params := IngestProcessorGrokReq_Params; op_defaults := None; op_timeout := IngestProcessorGrokParams_TimeoutParams; op_debug := IngestProcessorGrokParams_DebugParams;
     op_format := None; op_own := IngestProcessorGrokParams_own; op_slots := IngestProcessorGrokParams_slots;
     op_body _ := no_body; op_headers r := IngestProcessorGrokReq_Header r;
     Method := IngestProcessorGrok_Method; GetRequest := IngestProcessorGrokReq_GetRequest;
     op_keys := [];
     op_described := [("GET", "/_ingest/processor/grok")];
     op_query := [] |}.
#[export] Instance IngestProcessorGrok_operates : LawfulOp IngestProcessorGrokReq.
Proof. operate. Qed.

Record IngestPutPipelineParams := MkIngestPutPipelineParams { IngestPutPipelineParams_TimeoutParams : TimeoutParams; IngestPutPipelineParams_DebugParams : DebugParams }.
Definition IngestPutPipelineParams_own (q : IngestPutPipelineParams) : list param :=
  [].
Definition IngestPutPipelineParams_slots : list (string * (IngestPutPipelineParams -> slot)) :=
  [].
Definition IngestPutPipelineParams_get (q : IngestPutPipelineParams) : gmap string string :=
  encode_params (EncodeTimeout (IngestPutPipelineParams_TimeoutParams q) ++ EncodeDebug (IngestPutPipelineParams_DebugParams q) ++ IngestPutPipelineParams_own q).
Record IngestPutPipelineReq := MkIngestPutPipelineReq { IngestPutPipelineReq_ID : string; IngestPutPipelineReq_Body : option (option string); IngestPutPipelineReq_BodyReader : reader;
  IngestPutPipelineReq_Header : headers; IngestPutPipelineReq_Params : option IngestPutPipelineParams }.
Definition IngestPutPipelineReq_GetRequest (r : IngestPutPipelineReq) (method : string) : request_error + httpRequest * Z :=
  send method (IngestPutPipelinePath_Build (MkIngestPutPipelinePath (IngestPutPipelineReq_ID r)))
    (match IngestPutPipelineReq_Params r with Some q => IngestPutPipelineParams_get q | None => ∅ end)
    (json_body (IngestPutPipelineReq_Body r) (IngestPutPipelineReq_BodyReader r)) (IngestPutPipelineReq_Header r).
Definition IngestPutPipeline_Method (r : IngestPutPipelineReq) : string := "PUT".
#[export] Instance IngestPutPipeline_operation : operation IngestPutPipelineReq :=
  {| op_path := MkPathType "IngestPutPipelinePath" IngestPutPipelinePath _ _; op_P := IngestPutPipelineParams; op_fields r := MkIngestPutPipelinePath (IngestPutPipelineReq_ID r);
     op_params := IngestPutPipelineReq_Params; op_defaults := None; op_timeout := IngestPutPipelineParams_TimeoutParams; op_debug := IngestPutPipelineParams_DebugParams;
     op_format := None; op_own := IngestPutPipelineParams_own; op_slots := IngestPutPipelineParams_slots;
     op_body r := json_body (IngestPutPipelineReq_Body r) (IngestPutPipelineReq_BodyReader r); op_headers r := IngestPutPipelineReq_Header r;
     Method := IngestPutPipeline_Method; GetRequest := IngestPutPipelineReq_GetRequest;
     op_keys := [];
     op_described := [("PUT", "/_ingest/pipeline/{id}")];
     op_query := [] |}.
#[export] Instance IngestPutPipeline_operates : LawfulOp IngestPutPipelineReq.
Proof. operate. Qed.

Record IngestSimulateParams := MkIngestSimulateParams { IngestSimulateParams_TimeoutParams : TimeoutParams; IngestSimulateParams_DebugParams : DebugParams; IngestSimulateParams_Verbose : option bool }.
Definition IngestSimulateParams_own (q : IngestSimulateParams) : list param :=
  [("verbose", boolPtr (IngestSimulateParams_Verbose q))].
Definition IngestSimulateParams_slots : list (string * (IngestSimulateParams -> slot)) :=
  [("Verbose", fun q => BoolPtr (IngestSimulateParams_Verbose q))].
Definition IngestSimulateParams_get (q : IngestSimulateParams) : gmap string string :=
  encode_params (EncodeTimeout (IngestSimulateParams_TimeoutParams q) ++ EncodeDebug (IngestSimulateParams_DebugParams q) ++ IngestSimulateParams_own q).
Record IngestSimulateReq := MkIngestSimulateReq { IngestSimulateReq_ID : string; IngestSimulateReq_Body : option (option string); IngestSimulateReq_BodyReader : reader;
  IngestSimulateReq_Header : headers; IngestSimulateReq_Params : option IngestSimulateParams }.
Definition IngestSimulateReq_GetRequest (r : IngestSimulateReq) (method : string) : request_error + httpRequest * Z :=
  send method (IngestSimulatePath_Build (MkIngestSimulatePath (IngestSimulateReq_ID r)))
    (match IngestSimulateReq_Params r with Some q => IngestSimulateParams_get q | None => ∅ end)
    (json_body (IngestSimulateReq_Body r) (IngestSimulateReq_BodyReader r)) (IngestSimulateReq_Header r).
Definition IngestSimulate_Method (r : IngestSimulateReq) : string := method_by_body (IngestSimulateReq_Body r) (IngestSimulateReq_BodyReader r).
#[export] Instance IngestSimulate_operation : operation IngestSimulateReq :=
  {| op_path := MkPathType "IngestSimulatePath" IngestSimulatePath _ _; op_P := IngestSimulateParams; op_fields r := MkIngestSimulatePath (IngestSimulateReq_ID r);
     op_params := IngestSimulateReq_Params; op_defaults := None; op_timeout := IngestSimulateParams_TimeoutParams; op_debug := IngestSimulateParams_DebugParams;
     op_format := None; op_own := IngestSimulateParams_own; op_slots := IngestSimulateParams_slots;
     op_body r := json_body (IngestSimulateReq_Body r) (IngestSimulateReq_BodyReader r); op_headers r := IngestSimulateReq_Header r;
     Method := IngestSimulate_Method; GetRequest := IngestSimulateReq_GetRequest;
     op_keys := ["verbose"];
     op_described := [("GET", "/_ingest/pipeline/_simulate"); ("POST", "/_ingest/pipeline/_simulate"); ("GET", "/_ingest/pipeline/{id}/_simulate");
        ("POST", "/_ingest/pipeline/{id}/_simulate")];
     op_query := ["verbose"] |}.
#[export] Instance IngestSimulate_operates : LawfulOp IngestSimulateReq.
Proof. operate. Qed.

Record IngestionGetStateParams := MkIngestionGetStateParams { IngestionGetStateParams_TimeoutParams : TimeoutParams; IngestionGetStateParams_DebugParams : DebugParams; IngestionGetStateParams_NextToken : string;
  IngestionGetStateParams_Size : Z }.
Definition IngestionGetStateParams_own (q : IngestionGetStateParams) : list param :=
  [("next_token", nonEmpty (IngestionGetStateParams_NextToken q)); ("size", nonZero (IngestionGetStateParams_Size q))].
Definition IngestionGetStateParams_slots : list (string * (IngestionGetStateParams -> slot)) :=
  [("NextToken", fun q => Text (IngestionGetStateParams_NextToken q)); ("Size", fun q => Int (IngestionGetStateParams_Size q))].
Definition IngestionGetStateParams_get (q : IngestionGetStateParams) : gmap string string :=
  encode_params (EncodeTimeout (IngestionGetStateParams_TimeoutParams q) ++ EncodeDebug (IngestionGetStateParams_DebugParams q) ++ IngestionGetStateParams_own q).
Record IngestionGetStateReq := MkIngestionGetStateReq { IngestionGetStateReq_Index : string; IngestionGetStateReq_Header : headers; IngestionGetStateReq_Params : option IngestionGetStateParams }.
Definition IngestionGetStateReq_GetRequest (r : IngestionGetStateReq) (method : string) : request_error + httpRequest * Z :=
  send method (IngestionGetStatePath_Build (MkIngestionGetStatePath (IngestionGetStateReq_Index r)))
    (match IngestionGetStateReq_Params r with Some q => IngestionGetStateParams_get q | None => ∅ end)
    no_body (IngestionGetStateReq_Header r).
Definition IngestionGetState_Method (r : IngestionGetStateReq) : string := "GET".
#[export] Instance IngestionGetState_operation : operation IngestionGetStateReq :=
  {| op_path := MkPathType "IngestionGetStatePath" IngestionGetStatePath _ _; op_P := IngestionGetStateParams; op_fields r := MkIngestionGetStatePath (IngestionGetStateReq_Index r);
     op_params := IngestionGetStateReq_Params; op_defaults := None; op_timeout := IngestionGetStateParams_TimeoutParams; op_debug := IngestionGetStateParams_DebugParams;
     op_format := None; op_own := IngestionGetStateParams_own; op_slots := IngestionGetStateParams_slots;
     op_body _ := no_body; op_headers r := IngestionGetStateReq_Header r;
     Method := IngestionGetState_Method; GetRequest := IngestionGetStateReq_GetRequest;
     op_keys := ["next_token"; "size"];
     op_described := [("GET", "/{index}/ingestion/_state")];
     op_query := ["next_token"; "size"] |}.
#[export] Instance IngestionGetState_operates : LawfulOp IngestionGetStateReq.
Proof. operate. Qed.

Record IngestionPauseParams := MkIngestionPauseParams { IngestionPauseParams_TimeoutParams : TimeoutParams; IngestionPauseParams_DebugParams : DebugParams }.
Definition IngestionPauseParams_own (q : IngestionPauseParams) : list param :=
  [].
Definition IngestionPauseParams_slots : list (string * (IngestionPauseParams -> slot)) :=
  [].
Definition IngestionPauseParams_get (q : IngestionPauseParams) : gmap string string :=
  encode_params (EncodeTimeout (IngestionPauseParams_TimeoutParams q) ++ EncodeDebug (IngestionPauseParams_DebugParams q) ++ IngestionPauseParams_own q).
Record IngestionPauseReq := MkIngestionPauseReq { IngestionPauseReq_Index : string; IngestionPauseReq_Header : headers; IngestionPauseReq_Params : option IngestionPauseParams }.
Definition IngestionPauseReq_GetRequest (r : IngestionPauseReq) (method : string) : request_error + httpRequest * Z :=
  send method (IngestionPausePath_Build (MkIngestionPausePath (IngestionPauseReq_Index r)))
    (match IngestionPauseReq_Params r with Some q => IngestionPauseParams_get q | None => ∅ end)
    no_body (IngestionPauseReq_Header r).
Definition IngestionPause_Method (r : IngestionPauseReq) : string := "POST".
#[export] Instance IngestionPause_operation : operation IngestionPauseReq :=
  {| op_path := MkPathType "IngestionPausePath" IngestionPausePath _ _; op_P := IngestionPauseParams; op_fields r := MkIngestionPausePath (IngestionPauseReq_Index r);
     op_params := IngestionPauseReq_Params; op_defaults := None; op_timeout := IngestionPauseParams_TimeoutParams; op_debug := IngestionPauseParams_DebugParams;
     op_format := None; op_own := IngestionPauseParams_own; op_slots := IngestionPauseParams_slots;
     op_body _ := no_body; op_headers r := IngestionPauseReq_Header r;
     Method := IngestionPause_Method; GetRequest := IngestionPauseReq_GetRequest;
     op_keys := [];
     op_described := [("POST", "/{index}/ingestion/_pause")];
     op_query := [] |}.
#[export] Instance IngestionPause_operates : LawfulOp IngestionPauseReq.
Proof. operate. Qed.

Record IngestionResumeParams := MkIngestionResumeParams { IngestionResumeParams_TimeoutParams : TimeoutParams; IngestionResumeParams_DebugParams : DebugParams }.
Definition IngestionResumeParams_own (q : IngestionResumeParams) : list param :=
  [].
Definition IngestionResumeParams_slots : list (string * (IngestionResumeParams -> slot)) :=
  [].
Definition IngestionResumeParams_get (q : IngestionResumeParams) : gmap string string :=
  encode_params (EncodeTimeout (IngestionResumeParams_TimeoutParams q) ++ EncodeDebug (IngestionResumeParams_DebugParams q) ++ IngestionResumeParams_own q).
Record IngestionResumeReq := MkIngestionResumeReq { IngestionResumeReq_Index : string; IngestionResumeReq_Body : option (option string); IngestionResumeReq_BodyReader : reader;
  IngestionResumeReq_Header : headers; IngestionResumeReq_Params : option IngestionResumeParams }.
Definition IngestionResumeReq_GetRequest (r : IngestionResumeReq) (method : string) : request_error + httpRequest * Z :=
  send method (IngestionResumePath_Build (MkIngestionResumePath (IngestionResumeReq_Index r)))
    (match IngestionResumeReq_Params r with Some q => IngestionResumeParams_get q | None => ∅ end)
    (json_body (IngestionResumeReq_Body r) (IngestionResumeReq_BodyReader r)) (IngestionResumeReq_Header r).
Definition IngestionResume_Method (r : IngestionResumeReq) : string := "POST".
#[export] Instance IngestionResume_operation : operation IngestionResumeReq :=
  {| op_path := MkPathType "IngestionResumePath" IngestionResumePath _ _; op_P := IngestionResumeParams; op_fields r := MkIngestionResumePath (IngestionResumeReq_Index r);
     op_params := IngestionResumeReq_Params; op_defaults := None; op_timeout := IngestionResumeParams_TimeoutParams; op_debug := IngestionResumeParams_DebugParams;
     op_format := None; op_own := IngestionResumeParams_own; op_slots := IngestionResumeParams_slots;
     op_body r := json_body (IngestionResumeReq_Body r) (IngestionResumeReq_BodyReader r); op_headers r := IngestionResumeReq_Header r;
     Method := IngestionResume_Method; GetRequest := IngestionResumeReq_GetRequest;
     op_keys := [];
     op_described := [("POST", "/{index}/ingestion/_resume")];
     op_query := [] |}.
#[export] Instance IngestionResume_operates : LawfulOp IngestionResumeReq.
Proof. operate. Qed.

Record InsightsTopQueriesParams := MkInsightsTopQueriesParams { InsightsTopQueriesParams_TimeoutParams : TimeoutParams; InsightsTopQueriesParams_DebugParams : DebugParams; InsightsTopQueriesParams_Type : string }.
Definition InsightsTopQueriesParams_own (q : InsightsTopQueriesParams) : list param :=
  [("type", nonEmpty (InsightsTopQueriesParams_Type q))].
Definition InsightsTopQueriesParams_slots : list (string * (InsightsTopQueriesParams -> slot)) :=
  [("Type", fun q => Text (InsightsTopQueriesParams_Type q))].
Definition InsightsTopQueriesParams_get (q : InsightsTopQueriesParams) : gmap string string :=
  encode_params (EncodeTimeout (InsightsTopQueriesParams_TimeoutParams q) ++ EncodeDebug (InsightsTopQueriesParams_DebugParams q) ++ InsightsTopQueriesParams_own q).
Record InsightsTopQueriesReq := MkInsightsTopQueriesReq { InsightsTopQueriesReq_Header : headers; InsightsTopQueriesReq_Params : option InsightsTopQueriesParams }.
Definition InsightsTopQueriesReq_GetRequest (r : InsightsTopQueriesReq) (method : string) : request_error + httpRequest * Z :=
  send method (InsightsTopQueriesPath_Build (MkInsightsTopQueriesPath))
    (match InsightsTopQueriesReq_Params r with Some q => InsightsTopQueriesParams_get q | None => ∅ end)
    no_body (InsightsTopQueriesReq_Header r).
Definition InsightsTopQueries_Method (r : InsightsTopQueriesReq) : string := "GET".
#[export] Instance InsightsTopQueries_operation : operation InsightsTopQueriesReq :=
  {| op_path := MkPathType "InsightsTopQueriesPath" InsightsTopQueriesPath _ _; op_P := InsightsTopQueriesParams; op_fields r := MkInsightsTopQueriesPath;
     op_params := InsightsTopQueriesReq_Params; op_defaults := None; op_timeout := InsightsTopQueriesParams_TimeoutParams; op_debug := InsightsTopQueriesParams_DebugParams;
     op_format := None; op_own := InsightsTopQueriesParams_own; op_slots := InsightsTopQueriesParams_slots;
     op_body _ := no_body; op_headers r := InsightsTopQueriesReq_Header r;
     Method := InsightsTopQueries_Method; GetRequest := InsightsTopQueriesReq_GetRequest;
     op_keys := ["type"];
     op_described := [("GET", "/_insights/top_queries")];
     op_query := ["type"] |}.
#[export] Instance InsightsTopQueries_operates : LawfulOp InsightsTopQueriesReq.
Proof. operate. Qed.

Record ISMAddPolicyParams := MkISMAddPolicyParams { ISMAddPolicyParams_TimeoutParams : TimeoutParams; ISMAddPolicyParams_DebugParams : DebugParams; ISMAddPolicyParams_Indices : list string }.
Definition ISMAddPolicyParams_own (q : ISMAddPolicyParams) : list param :=
  [("index", joined (ISMAddPolicyParams_Indices q))].
Definition ISMAddPolicyParams_slots : list (string * (ISMAddPolicyParams -> slot)) :=
  [("Indices", fun q => TextList (ISMAddPolicyParams_Indices q))].
Definition ISMAddPolicyParams_get (q : ISMAddPolicyParams) : gmap string string :=
  encode_params (EncodeTimeout (ISMAddPolicyParams_TimeoutParams q) ++ EncodeDebug (ISMAddPolicyParams_DebugParams q) ++ ISMAddPolicyParams_own q).
Record ISMAddPolicyReq := MkISMAddPolicyReq { ISMAddPolicyReq_Indices : list string; ISMAddPolicyReq_Body : option (option string); ISMAddPolicyReq_BodyReader : reader;
  ISMAddPolicyReq_Header : headers; ISMAddPolicyReq_Params : option ISMAddPolicyParams }.
Definition ISMAddPolicyReq_GetRequest (r : ISMAddPolicyReq) (method : string) : request_error + httpRequest * Z :=
  send method (ISMAddPolicyPath_Build (MkISMAddPolicyPath (ISMAddPolicyReq_Indices r)))
    (match ISMAddPolicyReq_Params r with Some q => ISMAddPolicyParams_get q | None => ∅ end)
    (json_body (ISMAddPolicyReq_Body r) (ISMAddPolicyReq_BodyReader r)) (ISMAddPolicyReq_Header r).
Definition ISMAddPolicy_Method (r : ISMAddPolicyReq) : string := "POST".
#[export] Instance ISMAddPolicy_operation : operation ISMAddPolicyReq :=
  {| op_path := MkPathType "ISMAddPolicyPath" ISMAddPolicyPath _ _; op_P := ISMAddPolicyParams; op_fields r := MkISMAddPolicyPath (ISMAddPolicyReq_Indices r);
     op_params := ISMAddPolicyReq_Params; op_defaults := None; op_timeout := ISMAddPolicyParams_TimeoutParams; op_debug := ISMAddPolicyParams_DebugParams;
     op_format := None; op_own := ISMAddPolicyParams_own; op_slots := ISMAddPolicyParams_slots;
     op_body r := json_body (ISMAddPolicyReq_Body r) (ISMAddPolicyReq_BodyReader r); op_headers r := ISMAddPolicyReq_Header r;
     Method := ISMAddPolicy_Method; GetRequest := ISMAddPolicyReq_GetRequest;
     op_keys := ["index"];
     op_described := [("POST", "/_plugins/_ism/add"); ("POST", "/_plugins/_ism/add/{index}")];
     op_query := ["index"] |}.
#[export] Instance ISMAddPolicy_operates : LawfulOp ISMAddPolicyReq.
Proof. operate. Qed.

Record ISMChangePolicyParams := MkISMChangePolicyParams { ISMChangePolicyParams_TimeoutParams : TimeoutParams; ISMChangePolicyParams_DebugParams : DebugParams; ISMChangePolicyParams_Indices : list string }.
Definition ISMChangePolicyParams_own (q : ISMChangePolicyParams) : list param :=
  [("index", joined (ISMChangePolicyParams_Indices q))].
Definition ISMChangePolicyParams_slots : list (string * (ISMChangePolicyParams -> slot)) :=
  [("Indices", fun q => TextList (ISMChangePolicyParams_Indices q))].
Definition ISMChangePolicyParams_get (q : ISMChangePolicyParams) : gmap string string :=
  encode_params (EncodeTimeout (ISMChangePolicyParams_TimeoutParams q) ++ EncodeDebug (ISMChangePolicyParams_DebugParams q) ++ ISMChangePolicyParams_own q).
Record ISMChangePolicyReq := MkISMChangePolicyReq { ISMChangePolicyReq_Indices : list string; ISMChangePolicyReq_Body : option (option string); ISMChangePolicyReq_BodyReader : reader;
  ISMChangePolicyReq_Header : headers; ISMChangePolicyReq_Params : option ISMChangePolicyParams }.
Definition ISMChangePolicyReq_GetRequest (r : ISMChangePolicyReq) (method : string) : request_error + httpRequest * Z :=
  send method (ISMChangePolicyPath_Build (MkISMChangePolicyPath (ISMChangePolicyReq_Indices r)))
    (match ISMChangePolicyReq_Params r with Some q => ISMChangePolicyParams_get q | None => ∅ end)
    (json_body (ISMChangePolicyReq_Body r) (ISMChangePolicyReq_BodyReader r)) (ISMChangePolicyReq_Header r).
Definition ISMChangePolicy_Method (r : ISMChangePolicyReq) : string := "POST".
#[export] Instance ISMChangePolicy_operation : operation ISMChangePolicyReq :=
  {| op_path := MkPathType "ISMChangePolicyPath" ISMChangePolicyPath _ _; op_P := ISMChangePolicyParams; op_fields r := MkISMChangePolicyPath (ISMChangePolicyReq_Indices r);
     op_params := ISMChangePolicyReq_Params; op_defaults := None; op_timeout := ISMChangePolicyParams_TimeoutParams; op_debug := ISMChangePolicyParams_DebugParams;
     op_format := None; op_own := ISMChangePolicyParams_own; op_slots := ISMChangePolicyParams_slots;
     op_body r := json_body (ISMChangePolicyReq_Body r) (ISMChangePolicyReq_BodyReader r); op_headers r := ISMChangePolicyReq_Header r;
     Method := ISMChangePolicy_Method; GetRequest := ISMChangePolicyReq_GetRequest;
     op_keys := ["index"];
     op_described := [("POST", "/_plugins/_ism/change_policy"); ("POST", "/_plugins/_ism/change_policy/{index}")];
     op_query := ["index"] |}.
#[export] Instance ISMChangePolicy_operates : LawfulOp ISMChangePolicyReq.
Proof. operate. Qed.

Record ISMDeletePolicyParams := MkISMDeletePolicyParams { ISMDeletePolicyParams_TimeoutParams : TimeoutParams; ISMDeletePolicyParams_DebugParams : DebugParams }.
Definition ISMDeletePolicyParams_own (q : ISMDeletePolicyParams) : list param :=
  [].
Definition ISMDeletePolicyParams_slots : list (string * (ISMDeletePolicyParams -> slot)) :=
  [].
Definition ISMDeletePolicyParams_get (q : ISMDeletePolicyParams) : gmap string string :=
  encode_params (EncodeTimeout (ISMDeletePolicyParams_TimeoutParams q) ++ EncodeDebug (ISMDeletePolicyParams_DebugParams q) ++ ISMDeletePolicyParams_own q).
Record ISMDeletePolicyReq := MkISMDeletePolicyReq { ISMDeletePolicyReq_PolicyID : string; ISMDeletePolicyReq_Header : headers; ISMDeletePolicyReq_Params : option ISMDeletePolicyParams }.
Definition ISMDeletePolicyReq_GetRequest (r : ISMDeletePolicyReq) (method : string) : request_error + httpRequest * Z :=
  send method (ISMDeletePolicyPath_Build (MkISMDeletePolicyPath (ISMDeletePolicyReq_PolicyID r)))
    (match ISMDeletePolicyReq_Params r with Some q => ISMDeletePolicyParams_get q | None => ∅ end)
    no_body (ISMDeletePolicyReq_Header r).
Definition ISMDeletePolicy_Method (r : ISMDeletePolicyReq) : string := "DELETE".
#[export] Instance ISMDeletePolicy_operation : operation ISMDeletePolicyReq :=
  {| op_path := MkPathType "ISMDeletePolicyPath" ISMDeletePolicyPath _ _; op_P := ISMDeletePolicyParams; op_fields r := MkISMDeletePolicyPath (ISMDeletePolicyReq_PolicyID r);
     op_params := ISMDeletePolicyReq_Params; op_defaults := None; op_timeout := ISMDeletePolicyParams_TimeoutParams; op_debug := ISMDeletePolicyParams_DebugParams;
     op_format := None; op_own := ISMDeletePolicyParams_own; op_slots := ISMDeletePolicyParams_slots;
     op_body _ := no_body; op_headers r := ISMDeletePolicyReq_Header r;
     Method := ISMDeletePolicy_Method; GetRequest := ISMDeletePolicyReq_GetRequest;
     op_keys := [];
     op_described := [("DELETE", "/_plugins/_ism/policies/{policy_id}")];
     op_query := [] |}.
#[export] Instance ISMDeletePolicy_operates : LawfulOp ISMDeletePolicyReq.
Proof. operate. Qed.

Record ISMExistsPolicyParams := MkISMExistsPolicyParams { ISMExistsPolicyParams_TimeoutParams : TimeoutParams; ISMExistsPolicyParams_DebugParams : DebugParams }.
Definition ISMExistsPolicyParams_own (q : ISMExistsPolicyParams) : list param :=
  [].
Definition ISMExistsPolicyParams_slots : list (string * (ISMExistsPolicyParams -> slot)) :=
  [].
Definition ISMExistsPolicyParams_get (q : ISMExistsPolicyParams) : gmap string string :=
  encode_params (EncodeTimeout (ISMExistsPolicyParams_TimeoutParams q) ++ EncodeDebug (ISMExistsPolicyParams_DebugParams q) ++ ISMExistsPolicyParams_own q).
Record ISMExistsPolicyReq := MkISMExistsPolicyReq { ISMExistsPolicyReq_PolicyID : string; ISMExistsPolicyReq_Header : headers; ISMExistsPolicyReq_Params : option ISMExistsPolicyParams }.
Definition ISMExistsPolicyReq_GetRequest (r : ISMExistsPolicyReq) (method : string) : request_error + httpRequest * Z :=
  send method (ISMExistsPolicyPath_Build (MkISMExistsPolicyPath (ISMExistsPolicyReq_PolicyID r)))
    (match ISMExistsPolicyReq_Params r with Some q => ISMExistsPolicyParams_get q | None => ∅ end)
    no_body (ISMExistsPolicyReq_Header r).
Definition ISMExistsPolicy_Method (r : ISMExistsPolicyReq) : string := "HEAD".
#[export] Instance ISMExistsPolicy_operation : operation ISMExistsPolicyReq :=
  {| op_path := MkPathType "ISMExistsPolicyPath" ISMExistsPolicyPath _ _; op_P := ISMExistsPolicyParams; op_fields r := MkISMExistsPolicyPath (ISMExistsPolicyReq_PolicyID r);
     op_params := ISMExistsPolicyReq_Params; op_defaults := None; op_timeout := ISMExistsPolicyParams_TimeoutParams; op_debug := ISMExistsPolicyParams_DebugParams;
     op_format := None; op_own := ISMExistsPolicyParams_own; op_slots := ISMExistsPolicyParams_slots;
     op_body _ := no_body; op_headers r := ISMExistsPolicyReq_Header r;
     Method := ISMExistsPolicy_Method; GetRequest := ISMExistsPolicyReq_GetRequest;
     op_keys := [];
     op_described := [("HEAD", "/_plugins/_ism/policies/{policy_id}")];
     op_query := [] |}.
#[export] Instance ISMExistsPolicy_operates : LawfulOp ISMExistsPolicyReq.
Proof. operate. Qed.

Record ISMExplainPolicyParams := MkISMExplainPolicyParams { ISMExplainPolicyParams_TimeoutParams : TimeoutParams; ISMExplainPolicyParams_DebugParams : DebugParams }.
Definition ISMExplainPolicyParams_own (q : ISMExplainPolicyParams) : list param :=
  [].
Definition ISMExplainPolicyParams_slots : list (string * (ISMExplainPolicyParams -> slot)) :=
  [].
Definition ISMExplainPolicyParams_get (q : ISMExplainPolicyParams) : gmap string string :=
  encode_params (EncodeTimeout (ISMExplainPolicyParams_TimeoutParams q) ++ EncodeDebug (ISMExplainPolicyParams_DebugParams q) ++ ISMExplainPolicyParams_own q).
Record ISMExplainPolicyReq := MkISMExplainPolicyReq { ISMExplainPolicyReq_Indices : list string; ISMExplainPolicyReq_Body : reader; ISMExplainPolicyReq_Header : headers;
  ISMExplainPolicyReq_Params : option ISMExplainPolicyParams }.
Definition ISMExplainPolicyReq_GetRequest (r : ISMExplainPolicyReq) (method : string) : request_error + httpRequest * Z :=
  send method (ISMExplainPolicyPath_Build (MkISMExplainPolicyPath (ISMExplainPolicyReq_Indices r)))
    (match ISMExplainPolicyReq_Params r with Some q => ISMExplainPolicyParams_get q | None => ∅ end)
    (raw_body (ISMExplainPolicyReq_Body r)) (ISMExplainPolicyReq_Header r).
Definition ISMExplainPolicy_Method (r : ISMExplainPolicyReq) : string := "GET".
#[export] Instance ISMExplainPolicy_operation : operation ISMExplainPolicyReq :=
  {| op_path := MkPathType "ISMExplainPolicyPath" ISMExplainPolicyPath _ _; op_P := ISMExplainPolicyParams; op_fields r := MkISMExplainPolicyPath (ISMExplainPolicyReq_Indices r);
     op_params := ISMExplainPolicyReq_Params; op_defaults := None; op_timeout := ISMExplainPolicyParams_TimeoutParams; op_debug := ISMExplainPolicyParams_DebugParams;
     op_format := None; op_own := ISMExplainPolicyParams_own; op_slots := ISMExplainPolicyParams_slots;
     op_body r := raw_body (ISMExplainPolicyReq_Body r); op_headers r := ISMExplainPolicyReq_Header r;
     Method := ISMExplainPolicy_Method; GetRequest := ISMExplainPolicyReq_GetRequest;
     op_keys := [];
     op_described := [("GET", "/_plugins/_ism/explain"); ("POST", "/_plugins/_ism/explain"); ("GET", "/_plugins/_ism/explain/{index}");
        ("POST", "/_plugins/_ism/explain/{index}")];
     op_query := [] |}.
#[export] Instance ISMExplainPolicy_operates : LawfulOp ISMExplainPolicyReq.
Proof. operate. Qed.

Record ISMGetPoliciesParams := MkISMGetPoliciesParams { ISMGetPoliciesParams_TimeoutParams : TimeoutParams; ISMGetPoliciesParams_DebugParams : DebugParams }.
Definition ISMGetPoliciesParams_own (q : ISMGetPoliciesParams) : list param :=
  [].
Definition ISMGetPoliciesParams_slots : list (string * (ISMGetPoliciesParams -> slot)) :=
  [].
Definition ISMGetPoliciesParams_get (q : ISMGetPoliciesParams) : gmap string string :=
  encode_params (EncodeTimeout (ISMGetPoliciesParams_TimeoutParams q) ++ EncodeDebug (ISMGetPoliciesParams_DebugParams q) ++ ISMGetPoliciesParams_own q).
Record ISMGetPoliciesReq := MkISMGetPoliciesReq { ISMGetPoliciesReq_Header : headers; ISMGetPoliciesReq_Params : option ISMGetPoliciesParams }.
Definition ISMGetPoliciesReq_GetRequest (r : ISMGetPoliciesReq) (method : string) : request_error + httpRequest * Z :=
  send method (ISMGetPoliciesPath_Build (MkISMGetPoliciesPath))
    (match ISMGetPoliciesReq_Params r with Some q => ISMGetPoliciesParams_get q | None => ∅ end)
    no_body (ISMGetPoliciesReq_Header r).
Definition ISMGetPolicies_Method (r : ISMGetPoliciesReq) : string := "GET".
#[export] Instance ISMGetPolicies_operation : operation ISMGetPoliciesReq :=
  {| op_path := MkPathType "ISMGetPoliciesPath" ISMGetPoliciesPath _ _; op_P := ISMGetPoliciesParams; op_fields r := MkISMGetPoliciesPath;
     op_params := ISMGetPoliciesReq_Params; op_defaults := None; op_timeout := ISMGetPoliciesParams_TimeoutParams; op_debug := ISMGetPoliciesParams_DebugParams;
     op_format := None; op_own := ISMGetPoliciesParams_own; op_slots := ISMGetPoliciesParams_slots;
     op_body _ := no_body; op_headers r := ISMGetPoliciesReq_Header r;
     Method := ISMGetPolicies_Method; GetRequest := ISMGetPoliciesReq_GetRequest;
     op_keys := [];
     op_described := [("GET", "/_plugins/_ism/policies")];
     op_query := [] |}.
#[export] Instance ISMGetPolicies_operates : LawfulOp ISMGetPoliciesReq.
Proof. operate. Qed.

Record ISMGetPolicyParams := MkISMGetPolicyParams { ISMGetPolicyParams_TimeoutParams : TimeoutParams; ISMGetPolicyParams_DebugParams : DebugParams }.
Definition ISMGetPolicyParams_own (q : ISMGetPolicyParams) : list param :=
  [].
Definition ISMGetPolicyParams_slots : list (string * (ISMGetPolicyParams -> slot)) :=
  [].
Definition ISMGetPolicyParams_get (q : ISMGetPolicyParams) : gmap string string :=
  encode_params (EncodeTimeout (ISMGetPolicyParams_TimeoutParams q) ++ EncodeDebug (ISMGetPolicyParams_DebugParams q) ++ ISMGetPolicyParams_own q).
Record ISMGetPolicyReq := MkISMGetPolicyReq { ISMGetPolicyReq_PolicyID : string; ISMGetPolicyReq_Header : headers; ISMGetPolicyReq_Params : option ISMGetPolicyParams }.
Definition ISMGetPolicyReq_GetRequest (r : ISMGetPolicyReq) (method : string) : request_error + httpRequest * Z :=
  send method (ISMGetPolicyPath_Build (MkISMGetPolicyPath (ISMGetPolicyReq_PolicyID r)))
    (match ISMGetPolicyReq_Params r with Some q => ISMGetPolicyParams_get q | None => ∅ end)
    no_body (ISMGetPolicyReq_Header r).
Definition ISMGetPolicy_Method (r : ISMGetPolicyReq) : string := "GET".
#[export] Instance ISMGetPolicy_operation : operation ISMGetPolicyReq :=
  {| op_path := MkPathType "ISMGetPolicyPath" ISMGetPolicyPath _ _; op_P := ISMGetPolicyParams; op_fields r := MkISMGetPolicyPath (ISMGetPolicyReq_PolicyID r);
     op_params := ISMGetPolicyReq_Params; op_defaults := None; op_timeout := ISMGetPolicyParams_TimeoutParams; op_debug := ISMGetPolicyParams_DebugParams;
     op_format := None; op_own := ISMGetPolicyParams_own; op_slots := ISMGetPolicyParams_slots;
     op_body _ := no_body; op_headers r := ISMGetPolicyReq_Header r;
     Method := ISMGetPolicy_Method; GetRequest := ISMGetPolicyReq_GetRequest;
     op_keys := [];
     op_described := [("GET", "/_plugins/_ism/policies/{policy_id}")];
     op_query := [] |}.
#[export] Instance ISMGetPolicy_operates : LawfulOp ISMGetPolicyReq.
Proof. operate. Qed.

Record ISMPutPoliciesParams := MkISMPutPoliciesParams { ISMPutPoliciesParams_TimeoutParams : TimeoutParams; ISMPutPoliciesParams_DebugParams : DebugParams; ISMPutPoliciesParams_IfPrimaryTerm : option Z;
  ISMPutPoliciesParams_IfSeqNo : option Z; ISMPutPoliciesParams_PolicyID : string }.
Definition ISMPutPoliciesParams_own (q : ISMPutPoliciesParams) : list param :=
  [("if_primary_term", intPtr (ISMPutPoliciesParams_IfPrimaryTerm q)); ("if_seq_no", intPtr (ISMPutPoliciesParams_IfSeqNo q));
  ("policyID", nonEmpty (ISMPutPoliciesParams_PolicyID q))].
Definition ISMPutPoliciesParams_slots : list (string * (ISMPutPoliciesParams -> slot)) :=
  [("IfPrimaryTerm", fun q => IntPtr (ISMPutPoliciesParams_IfPrimaryTerm q)); ("IfSeqNo", fun q => IntPtr (ISMPutPoliciesParams_IfSeqNo q));
  ("PolicyID", fun q => Text (ISMPutPoliciesParams_PolicyID q))].
Definition ISMPutPoliciesParams_get (q : ISMPutPoliciesParams) : gmap string string :=
  encode_params (EncodeTimeout (ISMPutPoliciesParams_TimeoutParams q) ++ EncodeDebug (ISMPutPoliciesParams_DebugParams q) ++ ISMPutPoliciesParams_own q).
Record ISMPutPoliciesReq := MkISMPutPoliciesReq { ISMPutPoliciesReq_Body : reader; ISMPutPoliciesReq_Header : headers; ISMPutPoliciesReq_Params : option ISMPutPoliciesParams }.
Definition ISMPutPoliciesReq_GetRequest (r : ISMPutPoliciesReq) (method : string) : request_error + httpRequest * Z :=
  send method (ISMPutPoliciesPath_Build (MkISMPutPoliciesPath))
    (match ISMPutPoliciesReq_Params r with Some q => ISMPutPoliciesParams_get q | None => ∅ end)
    (raw_body (ISMPutPoliciesReq_Body r)) (ISMPutPoliciesReq_Header r).
Definition ISMPutPolicies_Method (r : ISMPutPoliciesReq) : string := "PUT".
#[export] Instance ISMPutPolicies_operation : operation ISMPutPoliciesReq :=
  {| op_path := MkPathType "ISMPutPoliciesPath" ISMPutPoliciesPath _ _; op_P := ISMPutPoliciesParams; op_fields r := MkISMPutPoliciesPath;
     op_params := ISMPutPoliciesReq_Params; op_defaults := None; op_timeout := ISMPutPoliciesParams_TimeoutParams; op_debug := ISMPutPoliciesParams_DebugParams;
     op_format := None; op_own := ISMPutPoliciesParams_own; op_slots := ISMPutPoliciesParams_slots;
     op_body r := raw_body (ISMPutPoliciesReq_Body r); op_headers r := ISMPutPoliciesReq_Header r;
     Method := ISMPutPolicies_Method; GetRequest := ISMPutPoliciesReq_GetRequest;
     op_keys := ["if_primary_term"; "if_seq_no"; "policyID"];
     op_described := [("PUT", "/_plugins/_ism/policies")];
     op_query := ["if_primary_term"; "if_seq_no"; "policyID"] |}.
#[export] Instance ISMPutPolicies_operates : LawfulOp ISMPutPoliciesReq.
Proof. operate. Qed.

Record ISMPutPolicyParams := MkISMPutPolicyParams { ISMPutPolicyParams_TimeoutParams : TimeoutParams; ISMPutPolicyParams_DebugParams : DebugParams; ISMPutPolicyParams_IfPrimaryTerm : option Z;
  ISMPutPolicyParams_IfSeqNo : option Z }.
Definition ISMPutPolicyParams_own (q : ISMPutPolicyParams) : list param :=
  [("if_primary_term", intPtr (ISMPutPolicyParams_IfPrimaryTerm q)); ("if_seq_no", intPtr (ISMPutPolicyParams_IfSeqNo q))].
Definition ISMPutPolicyParams_slots : list (string * (ISMPutPolicyParams -> slot)) :=
  [("IfPrimaryTerm", fun q => IntPtr (ISMPutPolicyParams_IfPrimaryTerm q)); ("IfSeqNo", fun q => IntPtr (ISMPutPolicyParams_IfSeqNo q))].
Definition ISMPutPolicyParams_get (q : ISMPutPolicyParams) : gmap string string :=
  encode_params (EncodeTimeout (ISMPutPolicyParams_TimeoutParams q) ++ EncodeDebug (ISMPutPolicyParams_DebugParams q) ++ ISMPutPolicyParams_own q).
Record ISMPutPolicyReq := MkISMPutPolicyReq { ISMPutPolicyReq_PolicyID : string; ISMPutPolicyReq_Body : reader; ISMPutPolicyReq_Header : headers; ISMPutPolicyReq_Params : option ISMPutPolicyParams }.
Definition ISMPutPolicyReq_GetRequest (r : ISMPutPolicyReq) (method : string) : request_error + httpRequest * Z :=
  send method (ISMPutPolicyPath_Build (MkISMPutPolicyPath (ISMPutPolicyReq_PolicyID r)))
    (match ISMPutPolicyReq_Params r with Some q => ISMPutPolicyParams_get q | None => ∅ end)
    (raw_body (ISMPutPolicyReq_Body r)) (ISMPutPolicyReq_Header r).
Definition ISMPutPolicy_Method (r : ISMPutPolicyReq) : string := "PUT".
#[export] Instance ISMPutPolicy_operation : operation ISMPutPolicyReq :=
  {| op_path := MkPathType "ISMPutPolicyPath" ISMPutPolicyPath _ _; op_P := ISMPutPolicyParams; op_fields r := MkISMPutPolicyPath (ISMPutPolicyReq_PolicyID r);
     op_params := ISMPutPolicyReq_Params; op_defaults := None; op_timeout := ISMPutPolicyParams_TimeoutParams; op_debug := ISMPutPolicyParams_DebugParams;
     op_format := None; op_own := ISMPutPolicyParams_own; op_slots := ISMPutPolicyParams_slots;
     op_body r := raw_body (ISMPutPolicyReq_Body r); op_headers r := ISMPutPolicyReq_Header r;
     Method := ISMPutPolicy_Method; GetRequest := ISMPutPolicyReq_GetRequest;
     op_keys := ["if_primary_term"; "if_seq_no"];
     op_described := [("PUT", "/_plugins/_ism/policies/{policy_id}")];
     op_query := ["if_primary_term"; "if_seq_no"] |}.
#[export] Instance ISMPutPolicy_operates : LawfulOp ISMPutPolicyReq.
Proof. operate. Qed.

Record ISMRefreshSearchAnalyzersParams := MkISMRefreshSearchAnalyzersParams { ISMRefreshSearchAnalyzersParams_TimeoutParams : TimeoutParams; ISMRefreshSearchAnalyzersParams_DebugParams : DebugParams }.
Definition ISMRefreshSearchAnalyzersParams_own (q : ISMRefreshSearchAnalyzersParams) : list param :=
  [].
Definition ISMRefreshSearchAnalyzersParams_slots : list (string * (ISMRefreshSearchAnalyzersParams -> slot)) :=
  [].
Definition ISMRefreshSearchAnalyzersParams_get (q : ISMRefreshSearchAnalyzersParams) : gmap string string :=
  encode_params (EncodeTimeout (ISMRefreshSearchAnalyzersParams_TimeoutParams q) ++ EncodeDebug (ISMRefreshSearchAnalyzersParams_DebugParams q) ++ ISMRefreshSearchAnalyzersParams_own q).
Record ISMRefreshSearchAnalyzersReq := MkISMRefreshSearchAnalyzersReq { ISMRefreshSearchAnalyzersReq_Indices : list string; ISMRefreshSearchAnalyzersReq_Header : headers;
  ISMRefreshSearchAnalyzersReq_Params : option ISMRefreshSearchAnalyzersParams }.
Definition ISMRefreshSearchAnalyzersReq_GetRequest (r : ISMRefreshSearchAnalyzersReq) (method : string) : request_error + httpRequest * Z :=
  send method (ISMRefreshSearchAnalyzersPath_Build (MkISMRefreshSearchAnalyzersPath (ISMRefreshSearchAnalyzersReq_Indices r)))
    (match ISMRefreshSearchAnalyzersReq_Params r with Some q => ISMRefreshSearchAnalyzersParams_get q | None => ∅ end)
    no_body (ISMRefreshSearchAnalyzersReq_Header r).
Definition ISMRefreshSearchAnalyzers_Method (r : ISMRefreshSearchAnalyzersReq) : string := "POST".
#[export] Instance ISMRefreshSearchAnalyzers_operation : operation ISMRefreshSearchAnalyzersReq :=
  {| op_path := MkPathType "ISMRefreshSearchAnalyzersPath" ISMRefreshSearchAnalyzersPath _ _; op_P := ISMRefreshSearchAnalyzersParams; op_fields r := MkISMRefreshSearchAnalyzersPath (ISMRefreshSearchAnalyzersReq_Indices r);
     op_params := ISMRefreshSearchAnalyzersReq_Params; op_defaults := None; op_timeout := ISMRefreshSearchAnalyzersParams_TimeoutParams; op_debug := ISMRefreshSearchAnalyzersParams_DebugParams;
     op_format := None; op_own := ISMRefreshSearchAnalyzersParams_own; op_slots := ISMRefreshSearchAnalyzersParams_slots;
     op_body _ := no_body; op_headers r := ISMRefreshSearchAnalyzersReq_Header r;
     Method := ISMRefreshSearchAnalyzers_Method; GetRequest := ISMRefreshSearchAnalyzersReq_GetRequest;
     op_keys := [];
     op_described := [("POST", "/_plugins/_refresh_search_analyzers/{index}")];
     op_query := [] |}.
#[export] Instance ISMRefreshSearchAnalyzers_operates : LawfulOp ISMRefreshSearchAnalyzersReq.
Proof. operate. Qed.

Record ISMRemovePolicyParams := MkISMRemovePolicyParams { ISMRemovePolicyParams_TimeoutParams : TimeoutParams; ISMRemovePolicyParams_DebugParams : DebugParams; ISMRemovePolicyParams_Indices : list string }.
Definition ISMRemovePolicyParams_own (q : ISMRemovePolicyParams) : list param :=
  [("index", joined (ISMRemovePolicyParams_Indices q))].
Definition ISMRemovePolicyParams_slots : list (string * (ISMRemovePolicyParams -> slot)) :=
  [("Indices", fun q => TextList (ISMRemovePolicyParams_Indices q))].
Definition ISMRemovePolicyParams_get (q : ISMRemovePolicyParams) : gmap string string :=
  encode_params (EncodeTimeout (ISMRemovePolicyParams_TimeoutParams q) ++ EncodeDebug (ISMRemovePolicyParams_DebugParams q) ++ ISMRemovePolicyParams_own q).
Record ISMRemovePolicyReq := MkISMRemovePolicyReq { ISMRemovePolicyReq_Indices : list string; ISMRemovePolicyReq_Header : headers; ISMRemovePolicyReq_Params : option ISMRemovePolicyParams }.
Definition ISMRemovePolicyReq_GetRequest (r : ISMRemovePolicyReq) (method : string) : request_error + httpRequest * Z :=
  send method (ISMRemovePolicyPath_Build (MkISMRemovePolicyPath (ISMRemovePolicyReq_Indices r)))
    (match ISMRemovePolicyReq_Params r with Some q => ISMRemovePolicyParams_get q | None => ∅ end)
    no_body (ISMRemovePolicyReq_Header r).
Definition ISMRemovePolicy_Method (r : ISMRemovePolicyReq) : string := "POST".
#[export] Instance ISMRemovePolicy_operation : operation ISMRemovePolicyReq :=
  {| op_path := MkPathType "ISMRemovePolicyPath" ISMRemovePolicyPath _ _; op_P := ISMRemovePolicyParams; op_fields r := MkISMRemovePolicyPath (ISMRemovePolicyReq_Indices r);
     op_params := ISMRemovePolicyReq_Params; op_defaults := None; op_timeout := ISMRemovePolicyParams_TimeoutParams; op_debug := ISMRemovePolicyParams_DebugParams;
     op_format := None; op_own := ISMRemovePolicyParams_own; op_slots := ISMRemovePolicyParams_slots;
     op_body _ := no_body; op_headers r := ISMRemovePolicyReq_Header r;
     Method := ISMRemovePolicy_Method; GetRequest := ISMRemovePolicyReq_GetRequest;
     op_keys := ["index"];
     op_described := [("POST", "/_plugins/_ism/remove"); ("POST", "/_plugins/_ism/remove/{index}")];
     op_query := ["index"] |}.
#[export] Instance ISMRemovePolicy_operates : LawfulOp ISMRemovePolicyReq.
Proof. operate. Qed.

Record ISMRetryIndexParams := MkISMRetryIndexParams { ISMRetryIndexParams_TimeoutParams : TimeoutParams; ISMRetryIndexParams_DebugParams : DebugParams; ISMRetryIndexParams_Indices : list string }.
Definition ISMRetryIndexParams_own (q : ISMRetryIndexParams) : list param :=
  [("index", joined (ISMRetryIndexParams_Indices q))].
Definition ISMRetryIndexParams_slots : list (string * (ISMRetryIndexParams -> slot)) :=
  [("Indices", fun q => TextList (ISMRetryIndexParams_Indices q))].
Definition ISMRetryIndexParams_get (q : ISMRetryIndexParams) : gmap string string :=
  encode_params (EncodeTimeout (ISMRetryIndexParams_TimeoutParams q) ++ EncodeDebug (ISMRetryIndexParams_DebugParams q) ++ ISMRetryIndexParams_own q).
Record ISMRetryIndexReq := MkISMRetryIndexReq { ISMRetryIndexReq_Indices : list string; ISMRetryIndexReq_Body : option (option string); ISMRetryIndexReq_BodyReader : reader;
  ISMRetryIndexReq_Header : headers; ISMRetryIndexReq_Params : option ISMRetryIndexParams }.
Definition ISMRetryIndexReq_GetRequest (r : ISMRetryIndexReq) (method : string) : request_error + httpRequest * Z :=
  send method (ISMRetryIndexPath_Build (MkISMRetryIndexPath (ISMRetryIndexReq_Indices r)))
    (match ISMRetryIndexReq_Params r with Some q => ISMRetryIndexParams_get q | None => ∅ end)
    (json_body (ISMRetryIndexReq_Body r) (ISMRetryIndexReq_BodyReader r)) (ISMRetryIndexReq_Header r).
Definition ISMRetryIndex_Method (r : ISMRetryIndexReq) : string := "POST".
#[export] Instance ISMRetryIndex_operation : operation ISMRetryIndexReq :=
  {| op_path := MkPathType "ISMRetryIndexPath" ISMRetryIndexPath _ _; op_P := ISMRetryIndexParams; op_fields r := MkISMRetryIndexPath (ISMRetryIndexReq_Indices r);
     op_params := ISMRetryIndexReq_Params; op_defaults := None; op_timeout := ISMRetryIndexParams_TimeoutParams; op_debug := ISMRetryIndexParams_DebugParams;
     op_format := None; op_own := ISMRetryIndexParams_own; op_slots := ISMRetryIndexParams_slots;
     op_body r := json_body (ISMRetryIndexReq_Body r) (ISMRetryIndexReq_BodyReader r); op_headers r := ISMRetryIndexReq_Header r;
     Method := ISMRetryIndex_Method; GetRequest := ISMRetryIndexReq_GetRequest;
     op_keys := ["index"];
     op_described := [("POST", "/_plugins/_ism/retry"); ("POST", "/_plugins/_ism/retry/{index}")];
     op_query := ["index"] |}.
#[export] Instance ISMRetryIndex_operates : LawfulOp ISMRetryIndexReq.
Proof. operate. Qed.

Record ListHelpParams := MkListHelpParams { ListHelpParams_TimeoutParams : TimeoutParams; ListHelpParams_DebugParams : DebugParams }.
Definition ListHelpParams_own (q : ListHelpParams) : list param :=
  [].
Definition ListHelpParams_slots : list (string * (ListHelpParams -> slot)) :=
  [].
Definition ListHelpParams_get (q : ListHelpParams) : gmap string string :=
  encode_params (EncodeTimeout (ListHelpParams_TimeoutParams q) ++ EncodeDebug (ListHelpParams_DebugParams q) ++ defaultFormat "json" (ListHelpParams_DebugParams q) ++ ListHelpParams_own q).
Record ListHelpReq := MkListHelpReq { ListHelpReq_Header : headers; ListHelpReq_Params : option ListHelpParams }.
Definition ListHelpReq_GetRequest (r : ListHelpReq) (method : string) : request_error + httpRequest * Z :=
  send method (ListHelpPath_Build (MkListHelpPath))
    (match ListHelpReq_Params r with Some q => ListHelpParams_get q | None => ListHelpParams_get (MkListHelpParams noTimeout noDebug) end)
    no_body (ListHelpReq_Header r).
Definition ListHelp_Method (r : ListHelpReq) : string := "GET".
#[export] Instance ListHelp_operation : operation ListHelpReq :=
  {| op_path := MkPathType "ListHelpPath" ListHelpPath _ _; op_P := ListHelpParams; op_fields r := MkListHelpPath;
     op_params := ListHelpReq_Params; op_defaults := Some (MkListHelpParams noTimeout noDebug); op_timeout := ListHelpParams_TimeoutParams; op_debug := ListHelpParams_DebugParams;
     op_format := Some "json"; op_own := ListHelpParams_own; op_slots := ListHelpParams_slots;
     op_body _ := no_body; op_headers r := ListHelpReq_Header r;
     Method := ListHelp_Method; GetRequest := ListHelpReq_GetRequest;
     op_keys := [];
     op_described := [("GET", "/_list")];
     op_query := [] |}.
#[export] Instance ListHelp_operates : LawfulOp ListHelpReq.
Proof. operate. Qed.

Record ListIndicesParams := MkListIndicesParams { ListIndicesParams_TimeoutParams : TimeoutParams; ListIndicesParams_DebugParams : DebugParams; ListIndicesParams_Bytes : string;
  ListIndicesParams_ExpandWildcards : list string; ListIndicesParams_Health : string; ListIndicesParams_IncludeUnloadedSegments : option bool;
  ListIndicesParams_Local : option bool; ListIndicesParams_NextToken : string; ListIndicesParams_Pri : option bool; ListIndicesParams_Size : Z;
  ListIndicesParams_Sort : string; ListIndicesParams_Time : string }.
Definition ListIndicesParams_own (q : ListIndicesParams) : list param :=
  [("bytes", nonEmpty (ListIndicesParams_Bytes q)); ("expand_wildcards", joined (ListIndicesParams_ExpandWildcards q));
  ("health", nonEmpty (ListIndicesParams_Health q)); ("include_unloaded_segments", boolPtr (ListIndicesParams_IncludeUnloadedSegments q));
  ("local", boolPtr (ListIndicesParams_Local q)); ("next_token", nonEmpty (ListIndicesParams_NextToken q)); ("pri", boolPtr (ListIndicesParams_Pri q));
  ("size", nonZero (ListIndicesParams_Size q)); ("sort", nonEmpty (ListIndicesParams_Sort q)); ("time", nonEmpty (ListIndicesParams_Time q))].
Definition ListIndicesParams_slots : list (string * (ListIndicesParams -> slot)) :=
  [("Bytes", fun q => Text (ListIndicesParams_Bytes q)); ("ExpandWildcards", fun q => TextList (ListIndicesParams_ExpandWildcards q));
  ("Health", fun q => Text (ListIndicesParams_Health q)); ("IncludeUnloadedSegments", fun q => BoolPtr (ListIndicesParams_IncludeUnloadedSegments q));
  ("Local", fun q => BoolPtr (ListIndicesParams_Local q)); ("NextToken", fun q => Text (ListIndicesParams_NextToken q));
  ("Pri", fun q => BoolPtr (ListIndicesParams_Pri q)); ("Size", fun q => Int (ListIndicesParams_Size q));
  ("Sort", fun q => Text (ListIndicesParams_Sort q)); ("Time", fun q => Text (ListIndicesParams_Time q))].
Definition ListIndicesParams_get (q : ListIndicesParams) : gmap string string :=
  encode_params (EncodeTimeout (ListIndicesParams_TimeoutParams q) ++ EncodeDebug (ListIndicesParams_DebugParams q) ++ defaultFormat "json" (ListIndicesParams_DebugParams q) ++ ListIndicesParams_own q).
Record ListIndicesReq := MkListIndicesReq { ListIndicesReq_Indices : list string; ListIndicesReq_Header : headers; ListIndicesReq_Params : option ListIndicesParams }.
Definition ListIndicesReq_GetRequest (r : ListIndicesReq) (method : string) : request_error + httpRequest * Z :=
  send method (ListIndicesPath_Build (MkListIndicesPath (ListIndicesReq_Indices r)))
    (match ListIndicesReq_Params r with Some q => ListIndicesParams_get q | None => ListIndicesParams_get (MkListIndicesParams noTimeout noDebug "" [] "" None None "" None 0 "" "") end)
    no_body (ListIndicesReq_Header r).
Definition ListIndices_Method (r : ListIndicesReq) : string := "GET".
#[export] Instance ListIndices_operation : operation ListIndicesReq :=
  {| op_path := MkPathType "ListIndicesPath" ListIndicesPath _ _; op_P := ListIndicesParams; op_fields r := MkListIndicesPath (ListIndicesReq_Indices r);
     op_params := ListIndicesReq_Params; op_defaults := Some (MkListIndicesParams noTimeout noDebug "" [] "" None None "" None 0 "" ""); op_timeout := ListIndicesParams_TimeoutParams; op_debug := ListIndicesParams_DebugParams;
     op_format := Some "json"; op_own := ListIndicesParams_own; op_slots := ListIndicesParams_slots;
     op_body _ := no_body; op_headers r := ListIndicesReq_Header r;
     Method := ListIndices_Method; GetRequest := ListIndicesReq_GetRequest;
     op_keys := ["bytes"; "expand_wildcards"; "health"; "include_unloaded_segments"; "local"; "next_token"; "pri"; "size"; "sort"; "time"];
     op_described := [("GET", "/_list/indices"); ("GET", "/_list/indices/{index}")];
     op_query := ["bytes"; "expand_wildcards"; "format"; "health"; "include_unloaded_segments"; "local"; "next_token"; "pri"; "size"; "sort"; "time"] |}.
#[export] Instance ListIndices_operates : LawfulOp ListIndicesReq.
Proof. operate. Qed.

Record ListShardsParams := MkListShardsParams { ListShardsParams_TimeoutParams : TimeoutParams; ListShardsParams_DebugParams : DebugParams; ListShardsParams_Bytes : string;
  ListShardsParams_Local : option bool; ListShardsParams_NextToken : string; ListShardsParams_Size : Z; ListShardsParams_Sort : string;
  ListShardsParams_Time : string }.
Definition ListShardsParams_own (q : ListShardsParams) : list param :=
  [("bytes", nonEmpty (ListShardsParams_Bytes q)); ("local", boolPtr (ListShardsParams_Local q));
  ("next_token", nonEmpty (ListShardsParams_NextToken q)); ("size", nonZero (ListShardsParams_Size q)); ("sort", nonEmpty (ListShardsParams_Sort q));
  ("time", nonEmpty (ListShardsParams_Time q))].
Definition ListShardsParams_slots : list (string * (ListShardsParams -> slot)) :=
  [("Bytes", fun q => Text (ListShardsParams_Bytes q)); ("Local", fun q => BoolPtr (ListShardsParams_Local q));
  ("NextToken", fun q => Text (ListShardsParams_NextToken q)); ("Size", fun q => Int (ListShardsParams_Size q));
  ("Sort", fun q => Text (ListShardsParams_Sort q)); ("Time", fun q => Text (ListShardsParams_Time q))].
Definition ListShardsParams_get (q : ListShardsParams) : gmap string string :=
  encode_params (EncodeTimeout (ListShardsParams_TimeoutParams q) ++ EncodeDebug (ListShardsParams_DebugParams q) ++ defaultFormat "json" (ListShardsParams_DebugParams q) ++ ListShardsParams_own q).
Record ListShardsReq := MkListShardsReq { ListShardsReq_Indices : list string; ListShardsReq_Header : headers; ListShardsReq_Params : option ListShardsParams }.
Definition ListShardsReq_GetRequest (r : ListShardsReq) (method : string) : request_error + httpRequest * Z :=
  send method (ListShardsPath_Build (MkListShardsPath (ListShardsReq_Indices r)))
    (match ListShardsReq_Params r with Some q => ListShardsParams_get q | None => ListShardsParams_get (MkListShardsParams noTimeout noDebug "" None "" 0 "" "") end)
    no_body (ListShardsReq_Header r).
Definition ListShards_Method (r : ListShardsReq) : string := "GET".
#[export] Instance ListShards_operation : operation ListShardsReq :=
  {| op_path := MkPathType "ListShardsPath" ListShardsPath _ _; op_P := ListShardsParams; op_fields r := MkListShardsPath (ListShardsReq_Indices r);
     op_params := ListShardsReq_Params; op_defaults := Some (MkListShardsParams noTimeout noDebug "" None "" 0 "" ""); op_timeout := ListShardsParams_TimeoutParams; op_debug := ListShardsParams_DebugParams;
     op_format := Some "json"; op_own := ListShardsParams_own; op_slots := ListShardsParams_slots;
     op_body _ := no_body; op_headers r := ListShardsReq_Header r;
     Method := ListShards_Method; GetRequest := ListShardsReq_GetRequest;
     op_keys := ["bytes"; "local"; "next_token"; "size"; "sort"; "time"];
     op_described := [("GET", "/_list/shards"); ("GET", "/_list/shards/{index}")];
     op_query := ["bytes"; "format"; "local"; "next_token"; "size"; "sort"; "time"] |}.
#[export] Instance ListShards_operates : LawfulOp ListShardsReq.
Proof. operate. Qed.

Record ReplicationAutofollowStatsParams := MkReplicationAutofollowStatsParams { ReplicationAutofollowStatsParams_TimeoutParams : TimeoutParams; ReplicationAutofollowStatsParams_DebugParams : DebugParams }.
Definition ReplicationAutofollowStatsParams_own (q : ReplicationAutofollowStatsParams) : list param :=
  [].
Definition ReplicationAutofollowStatsParams_slots : list (string * (ReplicationAutofollowStatsParams -> slot)) :=
  [].
Definition ReplicationAutofollowStatsParams_get (q : ReplicationAutofollowStatsParams) : gmap string string :=
  encode_params (EncodeTimeout (ReplicationAutofollowStatsParams_TimeoutParams q) ++ EncodeDebug (ReplicationAutofollowStatsParams_DebugParams q) ++ ReplicationAutofollowStatsParams_own q).
Record ReplicationAutofollowStatsReq := MkReplicationAutofollowStatsReq { ReplicationAutofollowStatsReq_Header : headers; ReplicationAutofollowStatsReq_Params : option ReplicationAutofollowStatsParams }.
Definition ReplicationAutofollowStatsReq_GetRequest (r : ReplicationAutofollowStatsReq) (method : string) : request_error + httpRequest * Z :=
  send method (ReplicationAutofollowStatsPath_Build (MkReplicationAutofollowStatsPath))
    (match ReplicationAutofollowStatsReq_Params r with Some q => ReplicationAutofollowStatsParams_get q | None => ∅ end)
    no_body (ReplicationAutofollowStatsReq_Header r).
Definition ReplicationAutofollowStats_Method (r : ReplicationAutofollowStatsReq) : string := "GET".
#[export] Instance ReplicationAutofollowStats_operation : operation ReplicationAutofollowStatsReq :=
  {| op_path := MkPathType "ReplicationAutofollowStatsPath" ReplicationAutofollowStatsPath _ _; op_P := ReplicationAutofollowStatsParams; op_fields r := MkReplicationAutofollowStatsPath;
     op_params := ReplicationAutofollowStatsReq_Params; op_defaults := None; op_timeout := ReplicationAutofollowStatsParams_TimeoutParams; op_debug := ReplicationAutofollowStatsParams_DebugParams;
     op_format := None; op_own := ReplicationAutofollowStatsParams_own; op_slots := ReplicationAutofollowStatsParams_slots;
     op_body _ := no_body; op_headers r := ReplicationAutofollowStatsReq_Header r;
     Method := ReplicationAutofollowStats_Method; GetRequest := ReplicationAutofollowStatsReq_GetRequest;
     op_keys := [];
     op_described := [("GET", "/_plugins/_replication/autofollow_stats")];
     op_query := [] |}.
#[export] Instance ReplicationAutofollowStats_operates : LawfulOp ReplicationAutofollowStatsReq.
Proof. operate. Qed.

Record ReplicationCreateReplicationRuleParams := MkReplicationCreateReplicationRuleParams { ReplicationCreateReplicationRuleParams_TimeoutParams : TimeoutParams; ReplicationCreateReplicationRuleParams_DebugParams : DebugParams }.
Definition ReplicationCreateReplicationRuleParams_own (q : ReplicationCreateReplicationRuleParams) : list param :=
  [].
Definition ReplicationCreateReplicationRuleParams_slots : list (string * (ReplicationCreateReplicationRuleParams -> slot)) :=
  [].
Definition ReplicationCreateReplicationRuleParams_get (q : ReplicationCreateReplicationRuleParams) : gmap string string :=
  encode_params (EncodeTimeout (ReplicationCreateReplicationRuleParams_TimeoutParams q) ++ EncodeDebug (ReplicationCreateReplicationRuleParams_DebugParams q) ++ ReplicationCreateReplicationRuleParams_own q).
Record ReplicationCreateReplicationRuleReq := MkReplicationCreateReplicationRuleReq { ReplicationCreateReplicationRuleReq_Body : option (option string); ReplicationCreateReplicationRuleReq_BodyReader : reader;
  ReplicationCreateReplicationRuleReq_Header : headers; ReplicationCreateReplicationRuleReq_Params : option ReplicationCreateReplicationRuleParams }.
Definition ReplicationCreateReplicationRuleReq_GetRequest (r : ReplicationCreateReplicationRuleReq) (method : string) : request_error + httpRequest * Z :=
  send method (ReplicationCreateReplicationRulePath_Build (MkReplicationCreateReplicationRulePath))
    (match ReplicationCreateReplicationRuleReq_Params r with Some q => ReplicationCreateReplicationRuleParams_get q | None => ∅ end)
    (json_body (ReplicationCreateReplicationRuleReq_Body r) (ReplicationCreateReplicationRuleReq_BodyReader r)) (ReplicationCreateReplicationRuleReq_Header r).
Definition ReplicationCreateReplicationRule_Method (r : ReplicationCreateReplicationRuleReq) : string := "POST".
#[export] Instance ReplicationCreateReplicationRule_operation : operation ReplicationCreateReplicationRuleReq :=
  {| op_path := MkPathType "ReplicationCreateReplicationRulePath" ReplicationCreateReplicationRulePath _ _; op_P := ReplicationCreateReplicationRuleParams; op_fields r := MkReplicationCreateReplicationRulePath;
     op_params := ReplicationCreateReplicationRuleReq_Params; op_defaults := None; op_timeout := ReplicationCreateReplicationRuleParams_TimeoutParams; op_debug := ReplicationCreateReplicationRuleParams_DebugParams;
     op_format := None; op_own := ReplicationCreateReplicationRuleParams_own; op_slots := ReplicationCreateReplicationRuleParams_slots;
     op_body r := json_body (ReplicationCreateReplicationRuleReq_Body r) (ReplicationCreateReplicationRuleReq_BodyReader r); op_headers r := ReplicationCreateReplicationRuleReq_Header r;
     Method := ReplicationCreateReplicationRule_Method; GetRequest := ReplicationCreateReplicationRuleReq_GetRequest;
     op_keys := [];
     op_described := [("POST", "/_plugins/_replication/_autofollow")];
     op_query := [] |}.
#[export] Instance ReplicationCreateReplicationRule_operates : LawfulOp ReplicationCreateReplicationRuleReq.
Proof. operate. Qed.

Record ReplicationDeleteReplicationRuleParams := MkReplicationDeleteReplicationRuleParams { ReplicationDeleteReplicationRuleParams_TimeoutParams : TimeoutParams; ReplicationDeleteReplicationRuleParams_DebugParams : DebugParams }.
Definition ReplicationDeleteReplicationRuleParams_own (q : ReplicationDeleteReplicationRuleParams) : list param :=
  [].
Definition ReplicationDeleteReplicationRuleParams_slots : list (string * (ReplicationDeleteReplicationRuleParams -> slot)) :=
  [].
Definition ReplicationDeleteReplicationRuleParams_get (q : ReplicationDeleteReplicationRuleParams) : gmap string string :=
  encode_params (EncodeTimeout (ReplicationDeleteReplicationRuleParams_TimeoutParams q) ++ EncodeDebug (ReplicationDeleteReplicationRuleParams_DebugParams q) ++ ReplicationDeleteReplicationRuleParams_own q).
Record ReplicationDeleteReplicationRuleReq := MkReplicationDeleteReplicationRuleReq { ReplicationDeleteReplicationRuleReq_Body : option (option string); ReplicationDeleteReplicationRuleReq_BodyReader : reader;
  ReplicationDeleteReplicationRuleReq_Header : headers; ReplicationDeleteReplicationRuleReq_Params : option ReplicationDeleteReplicationRuleParams }.
Definition ReplicationDeleteReplicationRuleReq_GetRequest (r : ReplicationDeleteReplicationRuleReq) (method : string) : request_error + httpRequest * Z :=
  send method (ReplicationDeleteReplicationRulePath_Build (MkReplicationDeleteReplicationRulePath))
    (match ReplicationDeleteReplicationRuleReq_Params r with Some q => ReplicationDeleteReplicationRuleParams_get q | None => ∅ end)
    (json_body (ReplicationDeleteReplicationRuleReq_Body r) (ReplicationDeleteReplicationRuleReq_BodyReader r)) (ReplicationDeleteReplicationRuleReq_Header r).
Definition ReplicationDeleteReplicationRule_Method (r : ReplicationDeleteReplicationRuleReq) : string := "DELETE".
#[export] Instance ReplicationDeleteReplicationRule_operation : operation ReplicationDeleteReplicationRuleReq :=
  {| op_path := MkPathType "ReplicationDeleteReplicationRulePath" ReplicationDeleteReplicationRulePath _ _; op_P := ReplicationDeleteReplicationRuleParams; op_fields r := MkReplicationDeleteReplicationRulePath;
     op_params := ReplicationDeleteReplicationRuleReq_Params; op_defaults := None; op_timeout := ReplicationDeleteReplicationRuleParams_TimeoutParams; op_debug := ReplicationDeleteReplicationRuleParams_DebugParams;
     op_format := None; op_own := ReplicationDeleteReplicationRuleParams_own; op_slots := ReplicationDeleteReplicationRuleParams_slots;
     op_body r := json_body (ReplicationDeleteReplicationRuleReq_Body r) (ReplicationDeleteReplicationRuleReq_BodyReader r); op_headers r := ReplicationDeleteReplicationRuleReq_Header r;
     Method := ReplicationDeleteReplicationRule_Method; GetRequest := ReplicationDeleteReplicationRuleReq_GetRequest;
     op_keys := [];
     op_described := [("DELETE", "/_plugins/_replication/_autofollow")];
     op_query := [] |}.
#[export] Instance ReplicationDeleteReplicationRule_operates : LawfulOp ReplicationDeleteReplicationRuleReq.
Proof. operate. Qed.

Record ReplicationFollowerStatsParams := MkReplicationFollowerStatsParams { ReplicationFollowerStatsParams_TimeoutParams : TimeoutParams; ReplicationFollowerStatsParams_DebugParams : DebugParams }.
Definition ReplicationFollowerStatsParams_own (q : ReplicationFollowerStatsParams) : list param :=
  [].
Definition ReplicationFollowerStatsParams_slots : list (string * (ReplicationFollowerStatsParams -> slot)) :=
  [].
Definition ReplicationFollowerStatsParams_get (q : ReplicationFollowerStatsParams) : gmap string string :=
  encode_params (EncodeTimeout (ReplicationFollowerStatsParams_TimeoutParams q) ++ EncodeDebug (ReplicationFollowerStatsParams_DebugParams q) ++ ReplicationFollowerStatsParams_own q).
Record ReplicationFollowerStatsReq := MkReplicationFollowerStatsReq { ReplicationFollowerStatsReq_Header : headers; ReplicationFollowerStatsReq_Params : option ReplicationFollowerStatsParams }.
Definition ReplicationFollowerStatsReq_GetRequest (r : ReplicationFollowerStatsReq) (method : string) : request_error + httpRequest * Z :=
  send method (ReplicationFollowerStatsPath_Build (MkReplicationFollowerStatsPath))
    (match ReplicationFollowerStatsReq_Params r with Some q => ReplicationFollowerStatsParams_get q | None => ∅ end)
    no_body (ReplicationFollowerStatsReq_Header r).
Definition ReplicationFollowerStats_Method (r : ReplicationFollowerStatsReq) : string := "GET".
#[export] Instance ReplicationFollowerStats_operation : operation ReplicationFollowerStatsReq :=
  {| op_path := MkPathType "ReplicationFollowerStatsPath" ReplicationFollowerStatsPath _ _; op_P := ReplicationFollowerStatsParams; op_fields r := MkReplicationFollowerStatsPath;
     op_params := ReplicationFollowerStatsReq_Params; op_defaults := None; op_timeout := ReplicationFollowerStatsParams_TimeoutParams; op_debug := ReplicationFollowerStatsParams_DebugParams;
     op_format := None; op_own := ReplicationFollowerStatsParams_own; op_slots := ReplicationFollowerStatsParams_slots;
     op_body _ := no_body; op_headers r := ReplicationFollowerStatsReq_Header r;
     Method := ReplicationFollowerStats_Method; GetRequest := ReplicationFollowerStatsReq_GetRequest;
     op_keys := [];
     op_described := [("GET", "/_plugins/_replication/follower_stats")];
     op_query := [] |}.
#[export] Instance ReplicationFollowerStats_operates : LawfulOp ReplicationFollowerStatsReq.
Proof. operate. Qed.

Record ReplicationLeaderStatsParams := MkReplicationLeaderStatsParams { ReplicationLeaderStatsParams_TimeoutParams : TimeoutParams; ReplicationLeaderStatsParams_DebugParams : DebugParams }.
Definition ReplicationLeaderStatsParams_own (q : ReplicationLeaderStatsParams) : list param :=
  [].
Definition ReplicationLeaderStatsParams_slots : list (string * (ReplicationLeaderStatsParams -> slot)) :=
  [].
Definition ReplicationLeaderStatsParams_get (q : ReplicationLeaderStatsParams) : gmap string string :=
  encode_params (EncodeTimeout (ReplicationLeaderStatsParams_TimeoutParams q) ++ EncodeDebug (ReplicationLeaderStatsParams_DebugParams q) ++ ReplicationLeaderStatsParams_own q).
Record ReplicationLeaderStatsReq := MkReplicationLeaderStatsReq { ReplicationLeaderStatsReq_Header : headers; ReplicationLeaderStatsReq_Params : option ReplicationLeaderStatsParams }.
Definition ReplicationLeaderStatsReq_GetRequest (r : ReplicationLeaderStatsReq) (method : string) : request_error + httpRequest * Z :=
  send method (ReplicationLeaderStatsPath_Build (MkReplicationLeaderStatsPath))
    (match ReplicationLeaderStatsReq_Params r with Some q => ReplicationLeaderStatsParams_get q | None => ∅ end)
    no_body (ReplicationLeaderStatsReq_Header r).
Definition ReplicationLeaderStats_Method (r : ReplicationLeaderStatsReq) : string := "GET".
#[export] Instance ReplicationLeaderStats_operation : operation ReplicationLeaderStatsReq :=
  {| op_path := MkPathType "ReplicationLeaderStatsPath" ReplicationLeaderStatsPath _ _; op_P := ReplicationLeaderStatsParams; op_fields r := MkReplicationLeaderStatsPath;
     op_params := ReplicationLeaderStatsReq_Params; op_defaults := None; op_timeout := ReplicationLeaderStatsParams_TimeoutParams; op_debug := ReplicationLeaderStatsParams_DebugParams;
     op_format := None; op_own := ReplicationLeaderStatsParams_own; op_slots := ReplicationLeaderStatsParams_slots;
     op_body _ := no_body; op_headers r := ReplicationLeaderStatsReq_Header r;
     Method := ReplicationLeaderStats_Method; GetRequest := ReplicationLeaderStatsReq_GetRequest;
     op_keys := [];
     op_described := [("GET", "/_plugins/_replication/leader_stats")];
     op_query := [] |}.
#[export] Instance ReplicationLeaderStats_operates : LawfulOp ReplicationLeaderStatsReq.
Proof. operate. Qed.

Record ReplicationPauseParams := MkReplicationPauseParams { ReplicationPauseParams_TimeoutParams : TimeoutParams; ReplicationPauseParams_DebugParams : DebugParams }.
Definition ReplicationPauseParams_own (q : ReplicationPauseParams) : list param :=
  [].
Definition ReplicationPauseParams_slots : list (string * (ReplicationPauseParams -> slot)) :=
  [].
Definition ReplicationPauseParams_get (q : ReplicationPauseParams) : gmap string string :=
  encode_params (EncodeTimeout (ReplicationPauseParams_TimeoutParams q) ++ EncodeDebug (ReplicationPauseParams_DebugParams q) ++ ReplicationPauseParams_own q).
Record ReplicationPauseReq := MkReplicationPauseReq { ReplicationPauseReq_Index : string; ReplicationPauseReq_Body : reader; ReplicationPauseReq_Header : headers;
  ReplicationPauseReq_Params : option ReplicationPauseParams }.
Definition ReplicationPauseReq_GetRequest (r : ReplicationPauseReq) (method : string) : request_error + httpRequest * Z :=
  send method (ReplicationPausePath_Build (MkReplicationPausePath (ReplicationPauseReq_Index r)))
    (match ReplicationPauseReq_Params r with Some q => ReplicationPauseParams_get q | None => ∅ end)
    (raw_body (ReplicationPauseReq_Body r)) (ReplicationPauseReq_Header r).
Definition ReplicationPause_Method (r : ReplicationPauseReq) : string := "POST".
#[export] Instance ReplicationPause_operation : operation ReplicationPauseReq :=
  {| op_path := MkPathType "ReplicationPausePath" ReplicationPausePath _ _; op_P := ReplicationPauseParams; op_fields r := MkReplicationPausePath (ReplicationPauseReq_Index r);
     op_params := ReplicationPauseReq_Params; op_defaults := None; op_timeout := ReplicationPauseParams_TimeoutParams; op_debug := ReplicationPauseParams_DebugParams;
     op_format := None; op_own := ReplicationPauseParams_own; op_slots := ReplicationPauseParams_slots;
     op_body r := raw_body (ReplicationPauseReq_Body r); op_headers r := ReplicationPauseReq_Header r;
     Method := ReplicationPause_Method; GetRequest := ReplicationPauseReq_GetRequest;
     op_keys := [];
     op_described := [("POST", "/_plugins/_replication/{index}/_pause")];
     op_query := [] |}.
#[export] Instance ReplicationPause_operates : LawfulOp ReplicationPauseReq.
Proof. operate. Qed.

Record ReplicationResumeParams := MkReplicationResumeParams { ReplicationResumeParams_TimeoutParams : TimeoutParams; ReplicationResumeParams_DebugParams : DebugParams }.
Definition ReplicationResumeParams_own (q : ReplicationResumeParams) : list param :=
  [].
Definition ReplicationResumeParams_slots : list (string * (ReplicationResumeParams -> slot)) :=
  [].
Definition ReplicationResumeParams_get (q : ReplicationResumeParams) : gmap string string :=
  encode_params (EncodeTimeout (ReplicationResumeParams_TimeoutParams q) ++ EncodeDebug (ReplicationResumeParams_DebugParams q) ++ ReplicationResumeParams_own q).
Record ReplicationResumeReq := MkReplicationResumeReq { ReplicationResumeReq_Index : string; ReplicationResumeReq_Body : reader; ReplicationResumeReq_Header : headers;
  ReplicationResumeReq_Params : option ReplicationResumeParams }.
Definition ReplicationResumeReq_GetRequest (r : ReplicationResumeReq) (method : string) : request_error + httpRequest * Z :=
  send method (ReplicationResumePath_Build (MkReplicationResumePath (ReplicationResumeReq_Index r)))
    (match ReplicationResumeReq_Params r with Some q => ReplicationResumeParams_get q | None => ∅ end)
    (raw_body (ReplicationResumeReq_Body r)) (ReplicationResumeReq_Header r).
Definition ReplicationResume_Method (r : ReplicationResumeReq) : string := "POST".
#[export] Instance ReplicationResume_operation : operation ReplicationResumeReq :=
  {| op_path := MkPathType "ReplicationResumePath" ReplicationResumePath _ _; op_P := ReplicationResumeParams; op_fields r := MkReplicationResumePath (ReplicationResumeReq_Index r);
     op_params := ReplicationResumeReq_Params; op_defaults := None; op_timeout := ReplicationResumeParams_TimeoutParams; op_debug := ReplicationResumeParams_DebugParams;
     op_format := None; op_own := ReplicationResumeParams_own; op_slots := ReplicationResumeParams_slots;
     op_body r := raw_body (ReplicationResumeReq_Body r); op_headers r := ReplicationResumeReq_Header r;
     Method := ReplicationResume_Method; GetRequest := ReplicationResumeReq_GetRequest;
     op_keys := [];
     op_described := [("POST", "/_plugins/_replication/{index}/_resume")];
     op_query := [] |}.
#[export] Instance ReplicationResume_operates : LawfulOp ReplicationResumeReq.
Proof. operate. Qed.

Record ReplicationStartParams := MkReplicationStartParams { ReplicationStartParams_TimeoutParams : TimeoutParams; ReplicationStartParams_DebugParams : DebugParams }.
Definition ReplicationStartParams_own (q : ReplicationStartParams) : list param :=
  [].
Definition ReplicationStartParams_slots : list (string * (ReplicationStartParams -> slot)) :=
  [].
Definition ReplicationStartParams_get (q : ReplicationStartParams) : gmap string string :=
  encode_params (EncodeTimeout (ReplicationStartParams_TimeoutParams q) ++ EncodeDebug (ReplicationStartParams_DebugParams q) ++ ReplicationStartParams_own q).
Record ReplicationStartReq := MkReplicationStartReq { ReplicationStartReq_Index : string; ReplicationStartReq_Body : option (option string); ReplicationStartReq_BodyReader : reader;
  ReplicationStartReq_Header : headers; ReplicationStartReq_Params : option ReplicationStartParams }.
Definition ReplicationStartReq_GetRequest (r : ReplicationStartReq) (method : string) : request_error + httpRequest * Z :=
  send method (ReplicationStartPath_Build (MkReplicationStartPath (ReplicationStartReq_Index r)))
    (match ReplicationStartReq_Params r with Some q => ReplicationStartParams_get q | None => ∅ end)
    (json_body (ReplicationStartReq_Body r) (ReplicationStartReq_BodyReader r)) (ReplicationStartReq_Header r).
Definition ReplicationStart_Method (r : ReplicationStartReq) : string := "PUT".
#[export] Instance ReplicationStart_operation : operation ReplicationStartReq :=
  {| op_path := MkPathType "ReplicationStartPath" ReplicationStartPath _ _; op_P := ReplicationStartParams; op_fields r := MkReplicationStartPath (ReplicationStartReq_Index r);
     op_params := ReplicationStartReq_Params; op_defaults := None; op_timeout := ReplicationStartParams_TimeoutParams; op_debug := ReplicationStartParams_DebugParams;
     op_format := None; op_own := ReplicationStartParams_own; op_slots := ReplicationStartParams_slots;
     op_body r := json_body (ReplicationStartReq_Body r) (ReplicationStartReq_BodyReader r); op_headers r := ReplicationStartReq_Header r;
     Method := ReplicationStart_Method; GetRequest := ReplicationStartReq_GetRequest;
     op_keys := [];
     op_described := [("PUT", "/_plugins/_replication/{index}/_start")];
     op_query := [] |}.
#[export] Instance ReplicationStart_operates : LawfulOp ReplicationStartReq.
Proof. operate. Qed.

Record ReplicationStatusParams := MkReplicationStatusParams { ReplicationStatusParams_TimeoutParams : TimeoutParams; ReplicationStatusParams_DebugParams : DebugParams }.
Definition ReplicationStatusParams_own (q : ReplicationStatusParams) : list param :=
  [].
Definition ReplicationStatusParams_slots : list (string * (ReplicationStatusParams -> slot)) :=
  [].
Definition ReplicationStatusParams_get (q : ReplicationStatusParams) : gmap string string :=
  encode_params (EncodeTimeout (ReplicationStatusParams_TimeoutParams q) ++ EncodeDebug (ReplicationStatusParams_DebugParams q) ++ ReplicationStatusParams_own q).
Record ReplicationStatusReq := MkReplicationStatusReq { ReplicationStatusReq_Index : string; ReplicationStatusReq_Header : headers; ReplicationStatusReq_Params : option ReplicationStatusParams }.
Definition ReplicationStatusReq_GetRequest (r : ReplicationStatusReq) (method : string) : request_error + httpRequest * Z :=
  send method (ReplicationStatusPath_Build (MkReplicationStatusPath (ReplicationStatusReq_Index r)))
    (match ReplicationStatusReq_Params r with Some q => ReplicationStatusParams_get q | None => ∅ end)
    no_body (ReplicationStatusReq_Header r).
Definition ReplicationStatus_Method (r : ReplicationStatusReq) : string := "GET".
#[export] Instance ReplicationStatus_operation : operation ReplicationStatusReq :=
  {| op_path := MkPathType "ReplicationStatusPath" ReplicationStatusPath _ _; op_P := ReplicationStatusParams; op_fields r := MkReplicationStatusPath (ReplicationStatusReq_Index r);
     op_params := ReplicationStatusReq_Params; op_defaults := None; op_timeout := ReplicationStatusParams_TimeoutParams; op_debug := ReplicationStatusParams_DebugParams;
     op_format := None; op_own := ReplicationStatusParams_own; op_slots := ReplicationStatusParams_slots;
     op_body _ := no_body; op_headers r := ReplicationStatusReq_Header r;
     Method := ReplicationStatus_Method; GetRequest := ReplicationStatusReq_GetRequest;
     op_keys := [];
     op_described := [("GET", "/_plugins/_replication/{index}/_status")];
     op_query := [] |}.
#[export] Instance ReplicationStatus_operates : LawfulOp ReplicationStatusReq.
Proof. operate. Qed.

Record ReplicationStopParams := MkReplicationStopParams { ReplicationStopParams_TimeoutParams : TimeoutParams; ReplicationStopParams_DebugParams : DebugParams }.
Definition ReplicationStopParams_own (q : ReplicationStopParams) : list param :=
  [].
Definition ReplicationStopParams_slots : list (string * (ReplicationStopParams -> slot)) :=
  [].
Definition ReplicationStopParams_get (q : ReplicationStopParams) : gmap string string :=
  encode_params (EncodeTimeout (ReplicationStopParams_TimeoutParams q) ++ EncodeDebug (ReplicationStopParams_DebugParams q) ++ ReplicationStopParams_own q).
Record ReplicationStopReq := MkReplicationStopReq { ReplicationStopReq_Index : string; ReplicationStopReq_Body : reader; ReplicationStopReq_Header : headers;
  ReplicationStopReq_Params : option ReplicationStopParams }.
Definition ReplicationStopReq_GetRequest (r : ReplicationStopReq) (method : string) : request_error + httpRequest * Z :=
  send method (ReplicationStopPath_Build (MkReplicationStopPath (ReplicationStopReq_Index r)))
    (match ReplicationStopReq_Params r with Some q => ReplicationStopParams_get q | None => ∅ end)
    (raw_body (ReplicationStopReq_Body r)) (ReplicationStopReq_Header r).
Definition ReplicationStop_Method (r : ReplicationStopReq) : string := "POST".
#[export] Instance ReplicationStop_operation : operation ReplicationStopReq :=
  {| op_path := MkPathType "ReplicationStopPath" ReplicationStopPath _ _; op_P := ReplicationStopParams; op_fields r := MkReplicationStopPath (ReplicationStopReq_Index r);
     op_params := ReplicationStopReq_Params; op_defaults := None; op_timeout := ReplicationStopParams_TimeoutParams; op_debug := ReplicationStopParams_DebugParams;
     op_format := None; op_own := ReplicationStopParams_own; op_slots := ReplicationStopParams_slots;
     op_body r := raw_body (ReplicationStopReq_Body r); op_headers r := ReplicationStopReq_Header r;
     Method := ReplicationStop_Method; GetRequest := ReplicationStopReq_GetRequest;
     op_keys := [];
     op_described := [("POST", "/_plugins/_replication/{index}/_stop")];
     op_query := [] |}.
#[export] Instance ReplicationStop_operates : LawfulOp ReplicationStopReq.
Proof. operate. Qed.

Record ReplicationUpdateSettingsParams := MkReplicationUpdateSettingsParams { ReplicationUpdateSettingsParams_TimeoutParams : TimeoutParams; ReplicationUpdateSettingsParams_DebugParams : DebugParams }.
Definition ReplicationUpdateSettingsParams_own (q : ReplicationUpdateSettingsParams) : list param :=
  [].
Definition ReplicationUpdateSettingsParams_slots : list (string * (ReplicationUpdateSettingsParams -> slot)) :=
  [].
Definition ReplicationUpdateSettingsParams_get (q : ReplicationUpdateSettingsParams) : gmap string string :=
  encode_params (EncodeTimeout (ReplicationUpdateSettingsParams_TimeoutParams q) ++ EncodeDebug (ReplicationUpdateSettingsParams_DebugParams q) ++ ReplicationUpdateSettingsParams_own q).
Record ReplicationUpdateSettingsReq := MkReplicationUpdateSettingsReq { ReplicationUpdateSettingsReq_Index : string; ReplicationUpdateSettingsReq_Body : option (option string);
  ReplicationUpdateSettingsReq_BodyReader : reader; ReplicationUpdateSettingsReq_Header : headers;
  ReplicationUpdateSettingsReq_Params : option ReplicationUpdateSettingsParams }.
Definition ReplicationUpdateSettingsReq_GetRequest (r : ReplicationUpdateSettingsReq) (method : string) : request_error + httpRequest * Z :=
  send method (ReplicationUpdateSettingsPath_Build (MkReplicationUpdateSettingsPath (ReplicationUpdateSettingsReq_Index r)))
    (match ReplicationUpdateSettingsReq_Params r with Some q => ReplicationUpdateSettingsParams_get q | None => ∅ end)
    (json_body (ReplicationUpdateSettingsReq_Body r) (ReplicationUpdateSettingsReq_BodyReader r)) (ReplicationUpdateSettingsReq_Header r).
Definition ReplicationUpdateSettings_Method (r : ReplicationUpdateSettingsReq) : string := "PUT".
#[export] Instance ReplicationUpdateSettings_operation : operation ReplicationUpdateSettingsReq :=
  {| op_path := MkPathType "ReplicationUpdateSettingsPath" ReplicationUpdateSettingsPath _ _; op_P := ReplicationUpdateSettingsParams; op_fields r := MkReplicationUpdateSettingsPath (ReplicationUpdateSettingsReq_Index r);
     op_params := ReplicationUpdateSettingsReq_Params; op_defaults := None; op_timeout := ReplicationUpdateSettingsParams_TimeoutParams; op_debug := ReplicationUpdateSettingsParams_DebugParams;
     op_format := None; op_own := ReplicationUpdateSettingsParams_own; op_slots := ReplicationUpdateSettingsParams_slots;
     op_body r := json_body (ReplicationUpdateSettingsReq_Body r) (ReplicationUpdateSettingsReq_BodyReader r); op_headers r := ReplicationUpdateSettingsReq_Header r;
     Method := ReplicationUpdateSettings_Method; GetRequest := ReplicationUpdateSettingsReq_GetRequest;
     op_keys := [];
     op_described := [("PUT", "/_plugins/_replication/{index}/_update")];
     op_query := [] |}.
#[export] Instance ReplicationUpdateSettings_operates : LawfulOp ReplicationUpdateSettingsReq.
Proof. operate. Qed.

Record RollupsDeleteParams := MkRollupsDeleteParams { RollupsDeleteParams_TimeoutParams : TimeoutParams; RollupsDeleteParams_DebugParams : DebugParams }.
Definition RollupsDeleteParams_own (q : RollupsDeleteParams) : list param :=
  [].
Definition RollupsDeleteParams_slots : list (string * (RollupsDeleteParams -> slot)) :=
  [].
Definition RollupsDeleteParams_get (q : RollupsDeleteParams) : gmap string string :=
  encode_params (EncodeTimeout (RollupsDeleteParams_TimeoutParams q) ++ EncodeDebug (RollupsDeleteParams_DebugParams q) ++ RollupsDeleteParams_own q).
Record RollupsDeleteReq := MkRollupsDeleteReq { RollupsDeleteReq_ID : string; RollupsDeleteReq_Header : headers; RollupsDeleteReq_Params : option RollupsDeleteParams }.
Definition RollupsDeleteReq_GetRequest (r : RollupsDeleteReq) (method : string) : request_error + httpRequest * Z :=
  send method (RollupsDeletePath_Build (MkRollupsDeletePath (RollupsDeleteReq_ID r)))
    (match RollupsDeleteReq_Params r with Some q => RollupsDeleteParams_get q | None => ∅ end)
    no_body (RollupsDeleteReq_Header r).
Definition RollupsDelete_Method (r : RollupsDeleteReq) : string := "DELETE".
#[export] Instance RollupsDelete_operation : operation RollupsDeleteReq :=
  {| op_path := MkPathType "RollupsDeletePath" RollupsDeletePath _ _; op_P := RollupsDeleteParams; op_fields r := MkRollupsDeletePath (RollupsDeleteReq_ID r);
     op_params := RollupsDeleteReq_Params; op_defaults := None; op_timeout := RollupsDeleteParams_TimeoutParams; op_debug := RollupsDeleteParams_DebugParams;
     op_format := None; op_own := RollupsDeleteParams_own; op_slots := RollupsDeleteParams_slots;
     op_body _ := no_body; op_headers r := RollupsDeleteReq_Header r;
     Method := RollupsDelete_Method; GetRequest := RollupsDeleteReq_GetRequest;
     op_keys := [];
     op_described := [("DELETE", "/_plugins/_rollup/jobs/{id}")];
     op_query := [] |}.
#[export] Instance RollupsDelete_operates : LawfulOp RollupsDeleteReq.
Proof. operate. Qed.

Record RollupsExplainParams := MkRollupsExplainParams { RollupsExplainParams_TimeoutParams : TimeoutParams; RollupsExplainParams_DebugParams : DebugParams }.
Definition RollupsExplainParams_own (q : RollupsExplainParams) : list param :=
  [].
Definition RollupsExplainParams_slots : list (string * (RollupsExplainParams -> slot)) :=
  [].
Definition RollupsExplainParams_get (q : RollupsExplainParams) : gmap string string :=
  encode_params (EncodeTimeout (RollupsExplainParams_TimeoutParams q) ++ EncodeDebug (RollupsExplainParams_DebugParams q) ++ RollupsExplainParams_own q).
Record RollupsExplainReq := MkRollupsExplainReq { RollupsExplainReq_ID : string; RollupsExplainReq_Header : headers; RollupsExplainReq_Params : option RollupsExplainParams }.
Definition RollupsExplainReq_GetRequest (r : RollupsExplainReq) (method : string) : request_error + httpRequest * Z :=
  send method (RollupsExplainPath_Build (MkRollupsExplainPath (RollupsExplainReq_ID r)))
    (match RollupsExplainReq_Params r with Some q => RollupsExplainParams_get q | None => ∅ end)
    no_body (RollupsExplainReq_Header r).
Definition RollupsExplain_Method (r : RollupsExplainReq) : string := "GET".
#[export] Instance RollupsExplain_operation : operation RollupsExplainReq :=
  {| op_path := MkPathType "RollupsExplainPath" RollupsExplainPath _ _; op_P := RollupsExplainParams; op_fields r := MkRollupsExplainPath (RollupsExplainReq_ID r);
     op_params := RollupsExplainReq_Params; op_defaults := None; op_timeout := RollupsExplainParams_TimeoutParams; op_debug := RollupsExplainParams_DebugParams;
     op_format := None; op_own := RollupsExplainParams_own; op_slots := RollupsExplainParams_slots;
     op_body _ := no_body; op_headers r := RollupsExplainReq_Header r;
     Method := RollupsExplain_Method; GetRequest := RollupsExplainReq_GetRequest;
     op_keys := [];
     op_described := [("GET", "/_plugins/_rollup/jobs/{id}/_explain")];
     op_query := [] |}.
#[export] Instance RollupsExplain_operates : LawfulOp RollupsExplainReq.
Proof. operate. Qed.

Record RollupsGetParams := MkRollupsGetParams { RollupsGetParams_TimeoutParams : TimeoutParams; RollupsGetParams_DebugParams : DebugParams }.
Definition RollupsGetParams_own (q : RollupsGetParams) : list param :=
  [].
Definition RollupsGetParams_slots : list (string * (RollupsGetParams -> slot)) :=
  [].
Definition RollupsGetParams_get (q : RollupsGetParams) : gmap string string :=
  encode_params (EncodeTimeout (RollupsGetParams_TimeoutParams q) ++ EncodeDebug (RollupsGetParams_DebugParams q) ++ RollupsGetParams_own q).
Record RollupsGetReq := MkRollupsGetReq { RollupsGetReq_ID : string; RollupsGetReq_Header : headers; RollupsGetReq_Params : option RollupsGetParams }.
Definition RollupsGetReq_GetRequest (r : RollupsGetReq) (method : string) : request_error + httpRequest * Z :=
  send method (RollupsGetPath_Build (MkRollupsGetPath (RollupsGetReq_ID r)))
    (match RollupsGetReq_Params r with Some q => RollupsGetParams_get q | None => ∅ end)
    no_body (RollupsGetReq_Header r).
Definition RollupsGet_Method (r : RollupsGetReq) : string := "GET".
#[export] Instance RollupsGet_operation : operation RollupsGetReq :=
  {| op_path := MkPathType "RollupsGetPath" RollupsGetPath _ _; op_P := RollupsGetParams; op_fields r := MkRollupsGetPath (RollupsGetReq_ID r);
     op_params := RollupsGetReq_Params; op_defaults := None; op_timeout := RollupsGetParams_TimeoutParams; op_debug := RollupsGetParams_DebugParams;
     op_format := None; op_own := RollupsGetParams_own; op_slots := RollupsGetParams_slots;
     op_body _ := no_body; op_headers r := RollupsGetReq_Header r;
     Method := RollupsGet_Method; GetRequest := RollupsGetReq_GetRequest;
     op_keys := [];
     op_described := [("GET", "/_plugins/_rollup/jobs/{id}")];
     op_query := [] |}.
#[export] Instance RollupsGet_operates : LawfulOp RollupsGetReq.
Proof. operate. Qed.

Record RollupsPutParams := MkRollupsPutParams { RollupsPutParams_TimeoutParams : TimeoutParams; RollupsPutParams_DebugParams : DebugParams; RollupsPutParams_IfPrimaryTerm : option Z;
  RollupsPutParams_IfSeqNo : option Z }.
Definition RollupsPutParams_own (q : RollupsPutParams) : list param :=
  [("if_primary_term", intPtr (RollupsPutParams_IfPrimaryTerm q)); ("if_seq_no", intPtr (RollupsPutParams_IfSeqNo q))].
Definition RollupsPutParams_slots : list (string * (RollupsPutParams -> slot)) :=
  [("IfPrimaryTerm", fun q => IntPtr (RollupsPutParams_IfPrimaryTerm q)); ("IfSeqNo", fun q => IntPtr (RollupsPutParams_IfSeqNo q))].
Definition RollupsPutParams_get (q : RollupsPutParams) : gmap string string :=
  encode_params (EncodeTimeout (RollupsPutParams_TimeoutParams q) ++ EncodeDebug (RollupsPutParams_DebugParams q) ++ RollupsPutParams_own q).
Record RollupsPutReq := MkRollupsPutReq { RollupsPutReq_ID : string; RollupsPutReq_Body : option (option string); RollupsPutReq_BodyReader : reader; RollupsPutReq_Header : headers;
  RollupsPutReq_Params : option RollupsPutParams }.
Definition RollupsPutReq_GetRequest (r : RollupsPutReq) (method : string) : request_error + httpRequest * Z :=
  send method (RollupsPutPath_Build (MkRollupsPutPath (RollupsPutReq_ID r)))
    (match RollupsPutReq_Params r with Some q => RollupsPutParams_get q | None => ∅ end)
    (json_body (RollupsPutReq_Body r) (RollupsPutReq_BodyReader r)) (RollupsPutReq_Header r).
Definition RollupsPut_Method (r : RollupsPutReq) : string := "PUT".
#[export] Instance RollupsPut_operation : operation RollupsPutReq :=
  {| op_path := MkPathType "RollupsPutPath" RollupsPutPath _ _; op_P := RollupsPutParams; op_fields r := MkRollupsPutPath (RollupsPutReq_ID r);
     op_params := RollupsPutReq_Params; op_defaults := None; op_timeout := RollupsPutParams_TimeoutParams; op_debug := RollupsPutParams_DebugParams;
     op_format := None; op_own := RollupsPutParams_own; op_slots := RollupsPutParams_slots;
     op_body r := json_body (RollupsPutReq_Body r) (RollupsPutReq_BodyReader r); op_headers r := RollupsPutReq_Header r;
     Method := RollupsPut_Method; GetRequest := RollupsPutReq_GetRequest;
     op_keys := ["if_primary_term"; "if_seq_no"];
     op_described := [("PUT", "/_plugins/_rollup/jobs/{id}")];
     op_query := ["if_primary_term"; "if_seq_no"] |}.
#[export] Instance RollupsPut_operates : LawfulOp RollupsPutReq.
Proof. operate. Qed.

Record RollupsStartParams := MkRollupsStartParams { RollupsStartParams_TimeoutParams : TimeoutParams; RollupsStartParams_DebugParams : DebugParams }.
Definition RollupsStartParams_own (q : RollupsStartParams) : list param :=
  [].
Definition RollupsStartParams_slots : list (string * (RollupsStartParams -> slot)) :=
  [].
Definition RollupsStartParams_get (q : RollupsStartParams) : gmap string string :=
  encode_params (EncodeTimeout (RollupsStartParams_TimeoutParams q) ++ EncodeDebug (RollupsStartParams_DebugParams q) ++ RollupsStartParams_own q).
Record RollupsStartReq := MkRollupsStartReq { RollupsStartReq_ID : string; RollupsStartReq_Header : headers; RollupsStartReq_Params : option RollupsStartParams }.
Definition RollupsStartReq_GetRequest (r : RollupsStartReq) (method : string) : request_error + httpRequest * Z :=
  send method (RollupsStartPath_Build (MkRollupsStartPath (RollupsStartReq_ID r)))
    (match RollupsStartReq_Params r with Some q => RollupsStartParams_get q | None => ∅ end)
    no_body (RollupsStartReq_Header r).
Definition RollupsStart_Method (r : RollupsStartReq) : string := "POST".
#[export] Instance RollupsStart_operation : operation RollupsStartReq :=
  {| op_path := MkPathType "RollupsStartPath" RollupsStartPath _ _; op_P := RollupsStartParams; op_fields r := MkRollupsStartPath (RollupsStartReq_ID r);
     op_params := RollupsStartReq_Params; op_defaults := None; op_timeout := RollupsStartParams_TimeoutParams; op_debug := RollupsStartParams_DebugParams;
     op_format := None; op_own := RollupsStartParams_own; op_slots := RollupsStartParams_slots;
     op_body _ := no_body; op_headers r := RollupsStartReq_Header r;
     Method := RollupsStart_Method; GetRequest := RollupsStartReq_GetRequest;
     op_keys := [];
     op_described := [("POST", "/_plugins/_rollup/jobs/{id}/_start")];
     op_query := [] |}.
#[export] Instance RollupsStart_operates : LawfulOp RollupsStartReq.
Proof. operate. Qed.

Record RollupsStopParams := MkRollupsStopParams { RollupsStopParams_TimeoutParams : TimeoutParams; RollupsStopParams_DebugParams : DebugParams }.
Definition RollupsStopParams_own (q : RollupsStopParams) : list param :=
  [].
Definition RollupsStopParams_slots : list (string * (RollupsStopParams -> slot)) :=
  [].
Definition RollupsStopParams_get (q : RollupsStopParams) : gmap string string :=
  encode_params (EncodeTimeout (RollupsStopParams_TimeoutParams q) ++ EncodeDebug (RollupsStopParams_DebugParams q) ++ RollupsStopParams_own q).
Record RollupsStopReq := MkRollupsStopReq { RollupsStopReq_ID : string; RollupsStopReq_Header : headers; RollupsStopReq_Params : option RollupsStopParams }.
Definition RollupsStopReq_GetRequest (r : RollupsStopReq) (method : string) : request_error + httpRequest * Z :=
  send method (RollupsStopPath_Build (MkRollupsStopPath (RollupsStopReq_ID r)))
    (match RollupsStopReq_Params r with Some q => RollupsStopParams_get q | None => ∅ end)
    no_body (RollupsStopReq_Header r).
Definition RollupsStop_Method (r : RollupsStopReq) : string := "POST".
#[export] Instance RollupsStop_operation : operation RollupsStopReq :=
  {| op_path := MkPathType "RollupsStopPath" RollupsStopPath _ _; op_P := RollupsStopParams; op_fields r := MkRollupsStopPath (RollupsStopReq_ID r);
     op_params := RollupsStopReq_Params; op_defaults := None; op_timeout := RollupsStopParams_TimeoutParams; op_debug := RollupsStopParams_DebugParams;
     op_format := None; op_own := RollupsStopParams_own; op_slots := RollupsStopParams_slots;
     op_body _ := no_body; op_headers r := RollupsStopReq_Header r;
     Method := RollupsStop_Method; GetRequest := RollupsStopReq_GetRequest;
     op_keys := [];
     op_described := [("POST", "/_plugins/_rollup/jobs/{id}/_stop")];
     op_query := [] |}.
#[export] Instance RollupsStop_operates : LawfulOp RollupsStopReq.
Proof. operate. Qed.

Record SearchPipelineDeleteParams := MkSearchPipelineDeleteParams { SearchPipelineDeleteParams_TimeoutParams : TimeoutParams; SearchPipelineDeleteParams_DebugParams : DebugParams }.
Definition SearchPipelineDeleteParams_own (q : SearchPipelineDeleteParams) : list param :=
  [].
Definition SearchPipelineDeleteParams_slots : list (string * (SearchPipelineDeleteParams -> slot)) :=
  [].
Definition SearchPipelineDeleteParams_get (q : SearchPipelineDeleteParams) : gmap string string :=
  encode_params (EncodeTimeout (SearchPipelineDeleteParams_TimeoutParams q) ++ EncodeDebug (SearchPipelineDeleteParams_DebugParams q) ++ SearchPipelineDeleteParams_own q).
Record SearchPipelineDeleteReq := MkSearchPipelineDeleteReq { SearchPipelineDeleteReq_ID : string; SearchPipelineDeleteReq_Header : headers; SearchPipelineDeleteReq_Params : option SearchPipelineDeleteParams }.
Definition SearchPipelineDeleteReq_GetRequest (r : SearchPipelineDeleteReq) (method : string) : request_error + httpRequest * Z :=
  send method (SearchPipelineDeletePath_Build (MkSearchPipelineDeletePath (SearchPipelineDeleteReq_ID r)))
    (match SearchPipelineDeleteReq_Params r with Some q => SearchPipelineDeleteParams_get q | None => ∅ end)
    no_body (SearchPipelineDeleteReq_Header r).
Definition SearchPipelineDelete_Method (r : SearchPipelineDeleteReq) : string := "DELETE".
#[export] Instance SearchPipelineDelete_operation : operation SearchPipelineDeleteReq :=
  {| op_path := MkPathType "SearchPipelineDeletePath" SearchPipelineDeletePath _ _; op_P := SearchPipelineDeleteParams; op_fields r := MkSearchPipelineDeletePath (SearchPipelineDeleteReq_ID r);
     op_params := SearchPipelineDeleteReq_Params; op_defaults := None; op_timeout := SearchPipelineDeleteParams_TimeoutParams; op_debug := SearchPipelineDeleteParams_DebugParams;
     op_format := None; op_own := SearchPipelineDeleteParams_own; op_slots := SearchPipelineDeleteParams_slots;
     op_body _ := no_body; op_headers r := SearchPipelineDeleteReq_Header r;
     Method := SearchPipelineDelete_Method; GetRequest := SearchPipelineDeleteReq_GetRequest;
     op_keys := [];
     op_described := [("DELETE", "/_search/pipeline/{id}")];
     op_query := [] |}.
#[export] Instance SearchPipelineDelete_operates : LawfulOp SearchPipelineDeleteReq.
Proof. operate. Qed.

Record SearchPipelineGetParams := MkSearchPipelineGetParams { SearchPipelineGetParams_TimeoutParams : TimeoutParams; SearchPipelineGetParams_DebugParams : DebugParams }.
Definition SearchPipelineGetParams_own (q : SearchPipelineGetParams) : list param :=
  [].
Definition SearchPipelineGetParams_slots : list (string * (SearchPipelineGetParams -> slot)) :=
  [].
Definition SearchPipelineGetParams_get (q : SearchPipelineGetParams) : gmap string string :=
  encode_params (EncodeTimeout (SearchPipelineGetParams_TimeoutParams q) ++ EncodeDebug (SearchPipelineGetParams_DebugParams q) ++ SearchPipelineGetParams_own q).
Record SearchPipelineGetReq := MkSearchPipelineGetReq { SearchPipelineGetReq_ID : string; SearchPipelineGetReq_Header : headers; SearchPipelineGetReq_Params : option SearchPipelineGetParams }.
Definition SearchPipelineGetReq_GetRequest (r : SearchPipelineGetReq) (method : string) : request_error + httpRequest * Z :=
  send method (SearchPipelineGetPath_Build (MkSearchPipelineGetPath (SearchPipelineGetReq_ID r)))
    (match SearchPipelineGetReq_Params r with Some q => SearchPipelineGetParams_get q | None => ∅ end)
    no_body (SearchPipelineGetReq_Header r).
Definition SearchPipelineGet_Method (r : SearchPipelineGetReq) : string := "GET".
#[export] Instance SearchPipelineGet_operation : operation SearchPipelineGetReq :=
  {| op_path := MkPathType "SearchPipelineGetPath" SearchPipelineGetPath _ _; op_P := SearchPipelineGetParams; op_fields r := MkSearchPipelineGetPath (SearchPipelineGetReq_ID r);
     op_params := SearchPipelineGetReq_Params; op_defaults := None; op_timeout := SearchPipelineGetParams_TimeoutParams; op_debug := SearchPipelineGetParams_DebugParams;
     op_format := None; op_own := SearchPipelineGetParams_own; op_slots := SearchPipelineGetParams_slots;
     op_body _ := no_body; op_headers r := SearchPipelineGetReq_Header r;
     Method := SearchPipelineGet_Method; GetRequest := SearchPipelineGetReq_GetRequest;
     op_keys := [];
     op_described := [("GET", "/_search/pipeline"); ("GET", "/_search/pipeline/{id}")];
     op_query := [] |}.
#[export] Instance SearchPipelineGet_operates : LawfulOp SearchPipelineGetReq.
Proof. operate. Qed.

Record SearchPipelinePutParams := MkSearchPipelinePutParams { SearchPipelinePutParams_TimeoutParams : TimeoutParams; SearchPipelinePutParams_DebugParams : DebugParams }.
Definition SearchPipelinePutParams_own (q : SearchPipelinePutParams) : list param :=
  [].
Definition SearchPipelinePutParams_slots : list (string * (SearchPipelinePutParams -> slot)) :=
  [].
Definition SearchPipelinePutParams_get (q : SearchPipelinePutParams) : gmap string string :=
  encode_params (EncodeTimeout (SearchPipelinePutParams_TimeoutParams q) ++ EncodeDebug (SearchPipelinePutParams_DebugParams q) ++ SearchPipelinePutParams_own q).
Record SearchPipelinePutReq := MkSearchPipelinePutReq { SearchPipelinePutReq_ID : string; SearchPipelinePutReq_Body : option (option string); SearchPipelinePutReq_BodyReader : reader;
  SearchPipelinePutReq_Header : headers; SearchPipelinePutReq_Params : option SearchPipelinePutParams }.
Definition SearchPipelinePutReq_GetRequest (r : SearchPipelinePutReq) (method : string) : request_error + httpRequest * Z :=
  send method (SearchPipelinePutPath_Build (MkSearchPipelinePutPath (SearchPipelinePutReq_ID r)))
    (match SearchPipelinePutReq_Params r with Some q => SearchPipelinePutParams_get q | None => ∅ end)
    (json_body (SearchPipelinePutReq_Body r) (SearchPipelinePutReq_BodyReader r)) (SearchPipelinePutReq_Header r).
Definition SearchPipelinePut_Method (r : SearchPipelinePutReq) : string := "PUT".
#[export] Instance SearchPipelinePut_operation : operation SearchPipelinePutReq :=
  {| op_path := MkPathType "SearchPipelinePutPath" SearchPipelinePutPath _ _; op_P := SearchPipelinePutParams; op_fields r := MkSearchPipelinePutPath (SearchPipelinePutReq_ID r);
     op_params := SearchPipelinePutReq_Params; op_defaults := None; op_timeout := SearchPipelinePutParams_TimeoutParams; op_debug := SearchPipelinePutParams_DebugParams;
     op_format := None; op_own := SearchPipelinePutParams_own; op_slots := SearchPipelinePutParams_slots;
     op_body r := json_body (SearchPipelinePutReq_Body r) (SearchPipelinePutReq_BodyReader r); op_headers r := SearchPipelinePutReq_Header r;
     Method := SearchPipelinePut_Method; GetRequest := SearchPipelinePutReq_GetRequest;
     op_keys := [];
     op_described := [("PUT", "/_search/pipeline/{id}")];
     op_query := [] |}.
#[export] Instance SearchPipelinePut_operates : LawfulOp SearchPipelinePutReq.
Proof. operate. Qed.

Record SMCreatePolicyParams := MkSMCreatePolicyParams { SMCreatePolicyParams_TimeoutParams : TimeoutParams; SMCreatePolicyParams_DebugParams : DebugParams }.
Definition SMCreatePolicyParams_own (q : SMCreatePolicyParams) : list param :=
  [].
Definition SMCreatePolicyParams_slots : list (string * (SMCreatePolicyParams -> slot)) :=
  [].
Definition SMCreatePolicyParams_get (q : SMCreatePolicyParams) : gmap string string :=
  encode_params (EncodeTimeout (SMCreatePolicyParams_TimeoutParams q) ++ EncodeDebug (SMCreatePolicyParams_DebugParams q) ++ SMCreatePolicyParams_own q).
Record SMCreatePolicyReq := MkSMCreatePolicyReq { SMCreatePolicyReq_PolicyName : string; SMCreatePolicyReq_Body : option (option string); SMCreatePolicyReq_BodyReader : reader;
  SMCreatePolicyReq_Header : headers; SMCreatePolicyReq_Params : option SMCreatePolicyParams }.
Definition SMCreatePolicyReq_GetRequest (r : SMCreatePolicyReq) (method : string) : request_error + httpRequest * Z :=
  send method (SMCreatePolicyPath_Build (MkSMCreatePolicyPath (SMCreatePolicyReq_PolicyName r)))
    (match SMCreatePolicyReq_Params r with Some q => SMCreatePolicyParams_get q | None => ∅ end)
    (json_body (SMCreatePolicyReq_Body r) (SMCreatePolicyReq_BodyReader r)) (SMCreatePolicyReq_Header r).
Definition SMCreatePolicy_Method (r : SMCreatePolicyReq) : string := "POST".
#[export] Instance SMCreatePolicy_operation : operation SMCreatePolicyReq :=
  {| op_path := MkPathType "SMCreatePolicyPath" SMCreatePolicyPath _ _; op_P := SMCreatePolicyParams; op_fields r := MkSMCreatePolicyPath (SMCreatePolicyReq_PolicyName r);
     op_params := SMCreatePolicyReq_Params; op_defaults := None; op_timeout := SMCreatePolicyParams_TimeoutParams; op_debug := SMCreatePolicyParams_DebugParams;
     op_format := None; op_own := SMCreatePolicyParams_own; op_slots := SMCreatePolicyParams_slots;
     op_body r := json_body (SMCreatePolicyReq_Body r) (SMCreatePolicyReq_BodyReader r); op_headers r := SMCreatePolicyReq_Header r;
     Method := SMCreatePolicy_Method; GetRequest := SMCreatePolicyReq_GetRequest;
     op_keys := [];
     op_described := [("POST", "/_plugins/_sm/policies/{policy_name}")];
     op_query := [] |}.
#[export] Instance SMCreatePolicy_operates : LawfulOp SMCreatePolicyReq.
Proof. operate. Qed.

Record SMDeletePolicyParams := MkSMDeletePolicyParams { SMDeletePolicyParams_TimeoutParams : TimeoutParams; SMDeletePolicyParams_DebugParams : DebugParams }.
Definition SMDeletePolicyParams_own (q : SMDeletePolicyParams) : list param :=
  [].
Definition SMDeletePolicyParams_slots : list (string * (SMDeletePolicyParams -> slot)) :=
  [].
Definition SMDeletePolicyParams_get (q : SMDeletePolicyParams) : gmap string string :=
  encode_params (EncodeTimeout (SMDeletePolicyParams_TimeoutParams q) ++ EncodeDebug (SMDeletePolicyParams_DebugParams q) ++ SMDeletePolicyParams_own q).
Record SMDeletePolicyReq := MkSMDeletePolicyReq { SMDeletePolicyReq_PolicyName : string; SMDeletePolicyReq_Header : headers; SMDeletePolicyReq_Params : option SMDeletePolicyParams }.
Definition SMDeletePolicyReq_GetRequest (r : SMDeletePolicyReq) (method : string) : request_error + httpRequest * Z :=
  send method (SMDeletePolicyPath_Build (MkSMDeletePolicyPath (SMDeletePolicyReq_PolicyName r)))
    (match SMDeletePolicyReq_Params r with Some q => SMDeletePolicyParams_get q | None => ∅ end)
    no_body (SMDeletePolicyReq_Header r).
Definition SMDeletePolicy_Method (r : SMDeletePolicyReq) : string := "DELETE".
#[export] Instance SMDeletePolicy_operation : operation SMDeletePolicyReq :=
  {| op_path := MkPathType "SMDeletePolicyPath" SMDeletePolicyPath _ _; op_P := SMDeletePolicyParams; op_fields r := MkSMDeletePolicyPath (SMDeletePolicyReq_PolicyName r);
     op_params := SMDeletePolicyReq_Params; op_defaults := None; op_timeout := SMDeletePolicyParams_TimeoutParams; op_debug := SMDeletePolicyParams_DebugParams;
     op_format := None; op_own := SMDeletePolicyParams_own; op_slots := SMDeletePolicyParams_slots;
     op_body _ := no_body; op_headers r := SMDeletePolicyReq_Header r;
     Method := SMDeletePolicy_Method; GetRequest := SMDeletePolicyReq_GetRequest;
     op_keys := [];
     op_described := [("DELETE", "/_plugins/_sm/policies/{policy_name}")];
     op_query := [] |}.
#[export] Instance SMDeletePolicy_operates : LawfulOp SMDeletePolicyReq.
Proof. operate. Qed.

Record SMExplainPolicyParams := MkSMExplainPolicyParams { SMExplainPolicyParams_TimeoutParams : TimeoutParams; SMExplainPolicyParams_DebugParams : DebugParams }.
Definition SMExplainPolicyParams_own (q : SMExplainPolicyParams) : list param :=
  [].
Definition SMExplainPolicyParams_slots : list (string * (SMExplainPolicyParams -> slot)) :=
  [].
Definition SMExplainPolicyParams_get (q : SMExplainPolicyParams) : gmap string string :=
  encode_params (EncodeTimeout (SMExplainPolicyParams_TimeoutParams q) ++ EncodeDebug (SMExplainPolicyParams_DebugParams q) ++ SMExplainPolicyParams_own q).
Record SMExplainPolicyReq := MkSMExplainPolicyReq { SMExplainPolicyReq_PolicyName : string; SMExplainPolicyReq_Header : headers; SMExplainPolicyReq_Params : option SMExplainPolicyParams }.
Definition SMExplainPolicyReq_GetRequest (r : SMExplainPolicyReq) (method : string) : request_error + httpRequest * Z :=
  send method (SMExplainPolicyPath_Build (MkSMExplainPolicyPath (SMExplainPolicyReq_PolicyName r)))
    (match SMExplainPolicyReq_Params r with Some q => SMExplainPolicyParams_get q | None => ∅ end)
    no_body (SMExplainPolicyReq_Header r).
Definition SMExplainPolicy_Method (r : SMExplainPolicyReq) : string := "GET".
#[export] Instance SMExplainPolicy_operation : operation SMExplainPolicyReq :=
  {| op_path := MkPathType "SMExplainPolicyPath" SMExplainPolicyPath _ _; op_P := SMExplainPolicyParams; op_fields r := MkSMExplainPolicyPath (SMExplainPolicyReq_PolicyName r);
     op_params := SMExplainPolicyReq_Params; op_defaults := None; op_timeout := SMExplainPolicyParams_TimeoutParams; op_debug := SMExplainPolicyParams_DebugParams;
     op_format := None; op_own := SMExplainPolicyParams_own; op_slots := SMExplainPolicyParams_slots;
     op_body _ := no_body; op_headers r := SMExplainPolicyReq_Header r;
     Method := SMExplainPolicy_Method; GetRequest := SMExplainPolicyReq_GetRequest;
     op_keys := [];
     op_described := [("GET", "/_plugins/_sm/policies/{policy_name}/_explain")];
     op_query := [] |}.
#[export] Instance SMExplainPolicy_operates : LawfulOp SMExplainPolicyReq.
Proof. operate. Qed.

Record SMGetPoliciesParams := MkSMGetPoliciesParams { SMGetPoliciesParams_TimeoutParams : TimeoutParams; SMGetPoliciesParams_DebugParams : DebugParams; SMGetPoliciesParams_From : Z;
  SMGetPoliciesParams_QueryString : string; SMGetPoliciesParams_Size : Z; SMGetPoliciesParams_SortField : string; SMGetPoliciesParams_SortOrder : string }.
Definition SMGetPoliciesParams_own (q : SMGetPoliciesParams) : list param :=
  [("from", nonZero (SMGetPoliciesParams_From q)); ("queryString", nonEmpty (SMGetPoliciesParams_QueryString q));
  ("size", nonZero (SMGetPoliciesParams_Size q)); ("sortField", nonEmpty (SMGetPoliciesParams_SortField q));
  ("sortOrder", nonEmpty (SMGetPoliciesParams_SortOrder q))].
Definition SMGetPoliciesParams_slots : list (string * (SMGetPoliciesParams -> slot)) :=
  [("From", fun q => Int (SMGetPoliciesParams_From q)); ("QueryString", fun q => Text (SMGetPoliciesParams_QueryString q));
  ("Size", fun q => Int (SMGetPoliciesParams_Size q)); ("SortField", fun q => Text (SMGetPoliciesParams_SortField q));
  ("SortOrder", fun q => Text (SMGetPoliciesParams_SortOrder q))].
Definition SMGetPoliciesParams_get (q : SMGetPoliciesParams) : gmap string string :=
  encode_params (EncodeTimeout (SMGetPoliciesParams_TimeoutParams q) ++ EncodeDebug (SMGetPoliciesParams_DebugParams q) ++ SMGetPoliciesParams_own q).
Record SMGetPoliciesReq := MkSMGetPoliciesReq { SMGetPoliciesReq_Header : headers; SMGetPoliciesReq_Params : option SMGetPoliciesParams }.
Definition SMGetPoliciesReq_GetRequest (r : SMGetPoliciesReq) (method : string) : request_error + httpRequest * Z :=
  send method (SMGetPoliciesPath_Build (MkSMGetPoliciesPath))
    (match SMGetPoliciesReq_Params r with Some q => SMGetPoliciesParams_get q | None => ∅ end)
    no_body (SMGetPoliciesReq_Header r).
Definition SMGetPolicies_Method (r : SMGetPoliciesReq) : string := "GET".
#[export] Instance SMGetPolicies_operation : operation SMGetPoliciesReq :=
  {| op_path := MkPathType "SMGetPoliciesPath" SMGetPoliciesPath _ _; op_P := SMGetPoliciesParams; op_fields r := MkSMGetPoliciesPath;
     op_params := SMGetPoliciesReq_Params; op_defaults := None; op_timeout := SMGetPoliciesParams_TimeoutParams; op_debug := SMGetPoliciesParams_DebugParams;
     op_format := None; op_own := SMGetPoliciesParams_own; op_slots := SMGetPoliciesParams_slots;
     op_body _ := no_body; op_headers r := SMGetPoliciesReq_Header r;
     Method := SMGetPolicies_Method; GetRequest := SMGetPoliciesReq_GetRequest;
     op_keys := ["from"; "queryString"; "size"; "sortField"; "sortOrder"];
     op_described := [("GET", "/_plugins/_sm/policies")];
     op_query := ["from"; "queryString"; "size"; "sortField"; "sortOrder"] |}.
#[export] Instance SMGetPolicies_operates : LawfulOp SMGetPoliciesReq.
Proof. operate. Qed.

Record SMGetPolicyParams := MkSMGetPolicyParams { SMGetPolicyParams_TimeoutParams : TimeoutParams; SMGetPolicyParams_DebugParams : DebugParams }.
Definition SMGetPolicyParams_own (q : SMGetPolicyParams) : list param :=
  [].
Definition SMGetPolicyParams_slots : list (string * (SMGetPolicyParams -> slot)) :=
  [].
Definition SMGetPolicyParams_get (q : SMGetPolicyParams) : gmap string string :=
  encode_params (EncodeTimeout (SMGetPolicyParams_TimeoutParams q) ++ EncodeDebug (SMGetPolicyParams_DebugParams q) ++ SMGetPolicyParams_own q).
Record SMGetPolicyReq := MkSMGetPolicyReq { SMGetPolicyReq_PolicyName : string; SMGetPolicyReq_Header : headers; SMGetPolicyReq_Params : option SMGetPolicyParams }.
Definition SMGetPolicyReq_GetRequest (r : SMGetPolicyReq) (method : string) : request_error + httpRequest * Z :=
  send method (SMGetPolicyPath_Build (MkSMGetPolicyPath (SMGetPolicyReq_PolicyName r)))
    (match SMGetPolicyReq_Params r with Some q => SMGetPolicyParams_get q | None => ∅ end)
    no_body (SMGetPolicyReq_Header r).
Definition SMGetPolicy_Method (r : SMGetPolicyReq) : string := "GET".
#[export] Instance SMGetPolicy_operation : operation SMGetPolicyReq :=
  {| op_path := MkPathType "SMGetPolicyPath" SMGetPolicyPath _ _; op_P := SMGetPolicyParams; op_fields r := MkSMGetPolicyPath (SMGetPolicyReq_PolicyName r);
     op_params := SMGetPolicyReq_Params; op_defaults := None; op_timeout := SMGetPolicyParams_TimeoutParams; op_debug := SMGetPolicyParams_DebugParams;
     op_format := None; op_own := SMGetPolicyParams_own; op_slots := SMGetPolicyParams_slots;
     op_body _ := no_body; op_headers r := SMGetPolicyReq_Header r;
     Method := SMGetPolicy_Method; GetRequest := SMGetPolicyReq_GetRequest;
     op_keys := [];
     op_described := [("GET", "/_plugins/_sm/policies/{policy_name}")];
     op_query := [] |}.
#[export] Instance SMGetPolicy_operates : LawfulOp SMGetPolicyReq.
Proof. operate. Qed.

Record SMStartPolicyParams := MkSMStartPolicyParams { SMStartPolicyParams_TimeoutParams : TimeoutParams; SMStartPolicyParams_DebugParams : DebugParams }.
Definition SMStartPolicyParams_own (q : SMStartPolicyParams) : list param :=
  [].
Definition SMStartPolicyParams_slots : list (string * (SMStartPolicyParams -> slot)) :=
  [].
Definition SMStartPolicyParams_get (q : SMStartPolicyParams) : gmap string string :=
  encode_params (EncodeTimeout (SMStartPolicyParams_TimeoutParams q) ++ EncodeDebug (SMStartPolicyParams_DebugParams q) ++ SMStartPolicyParams_own q).
Record SMStartPolicyReq := MkSMStartPolicyReq { SMStartPolicyReq_PolicyName : string; SMStartPolicyReq_Header : headers; SMStartPolicyReq_Params : option SMStartPolicyParams }.
Definition SMStartPolicyReq_GetRequest (r : SMStartPolicyReq) (method : string) : request_error + httpRequest * Z :=
  send method (SMStartPolicyPath_Build (MkSMStartPolicyPath (SMStartPolicyReq_PolicyName r)))
    (match SMStartPolicyReq_Params r with Some q => SMStartPolicyParams_get q | None => ∅ end)
    no_body (SMStartPolicyReq_Header r).
Definition SMStartPolicy_Method (r : SMStartPolicyReq) : string := "POST".
#[export] Instance SMStartPolicy_operation : operation SMStartPolicyReq :=
  {| op_path := MkPathType "SMStartPolicyPath" SMStartPolicyPath _ _; op_P := SMStartPolicyParams; op_fields r := MkSMStartPolicyPath (SMStartPolicyReq_PolicyName r);
     op_params := SMStartPolicyReq_Params; op_defaults := None; op_timeout := SMStartPolicyParams_TimeoutParams; op_debug := SMStartPolicyParams_DebugParams;
     op_format := None; op_own := SMStartPolicyParams_own; op_slots := SMStartPolicyParams_slots;
     op_body _ := no_body; op_headers r := SMStartPolicyReq_Header r;
     Method := SMStartPolicy_Method; GetRequest := SMStartPolicyReq_GetRequest;
     op_keys := [];
     op_described := [("POST", "/_plugins/_sm/policies/{policy_name}/_start")];
     op_query := [] |}.
#[export] Instance SMStartPolicy_operates : LawfulOp SMStartPolicyReq.
Proof. operate. Qed.

Record SMStopPolicyParams := MkSMStopPolicyParams { SMStopPolicyParams_TimeoutParams : TimeoutParams; SMStopPolicyParams_DebugParams : DebugParams }.
Definition SMStopPolicyParams_own (q : SMStopPolicyParams) : list param :=
  [].
Definition SMStopPolicyParams_slots : list (string * (SMStopPolicyParams -> slot)) :=
  [].
Definition SMStopPolicyParams_get (q : SMStopPolicyParams) : gmap string string :=
  encode_params (EncodeTimeout (SMStopPolicyParams_TimeoutParams q) ++ EncodeDebug (SMStopPolicyParams_DebugParams q) ++ SMStopPolicyParams_own q).
Record SMStopPolicyReq := MkSMStopPolicyReq { SMStopPolicyReq_PolicyName : string; SMStopPolicyReq_Header : headers; SMStopPolicyReq_Params : option SMStopPolicyParams }.
Definition SMStopPolicyReq_GetRequest (r : SMStopPolicyReq) (method : string) : request_error + httpRequest * Z :=
  send method (SMStopPolicyPath_Build (MkSMStopPolicyPath (SMStopPolicyReq_PolicyName r)))
    (match SMStopPolicyReq_Params r with Some q => SMStopPolicyParams_get q | None => ∅ end)
    no_body (SMStopPolicyReq_Header r).
Definition SMStopPolicy_Method (r : SMStopPolicyReq) : string := "POST".
#[export] Instance SMStopPolicy_operation : operation SMStopPolicyReq :=
  {| op_path := MkPathType "SMStopPolicyPath" SMStopPolicyPath _ _; op_P := SMStopPolicyParams; op_fields r := MkSMStopPolicyPath (SMStopPolicyReq_PolicyName r);
     op_params := SMStopPolicyReq_Params; op_defaults := None; op_timeout := SMStopPolicyParams_TimeoutParams; op_debug := SMStopPolicyParams_DebugParams;
     op_format := None; op_own := SMStopPolicyParams_own; op_slots := SMStopPolicyParams_slots;
     op_body _ := no_body; op_headers r := SMStopPolicyReq_Header r;
     Method := SMStopPolicy_Method; GetRequest := SMStopPolicyReq_GetRequest;
     op_keys := [];
     op_described := [("POST", "/_plugins/_sm/policies/{policy_name}/_stop")];
     op_query := [] |}.
#[export] Instance SMStopPolicy_operates : LawfulOp SMStopPolicyReq.
Proof. operate. Qed.

Record SMUpdatePolicyParams := MkSMUpdatePolicyParams { SMUpdatePolicyParams_TimeoutParams : TimeoutParams; SMUpdatePolicyParams_DebugParams : DebugParams; SMUpdatePolicyParams_IfPrimaryTerm : option Z;
  SMUpdatePolicyParams_IfSeqNo : option Z }.
Definition SMUpdatePolicyParams_own (q : SMUpdatePolicyParams) : list param :=
  [("if_primary_term", intPtr (SMUpdatePolicyParams_IfPrimaryTerm q)); ("if_seq_no", intPtr (SMUpdatePolicyParams_IfSeqNo q))].
Definition SMUpdatePolicyParams_slots : list (string * (SMUpdatePolicyParams -> slot)) :=
  [("IfPrimaryTerm", fun q => IntPtr (SMUpdatePolicyParams_IfPrimaryTerm q)); ("IfSeqNo", fun q => IntPtr (SMUpdatePolicyParams_IfSeqNo q))].
Definition SMUpdatePolicyParams_get (q : SMUpdatePolicyParams) : gmap string string :=
  encode_params (EncodeTimeout (SMUpdatePolicyParams_TimeoutParams q) ++ EncodeDebug (SMUpdatePolicyParams_DebugParams q) ++ SMUpdatePolicyParams_own q).
Record SMUpdatePolicyReq := MkSMUpdatePolicyReq { SMUpdatePolicyReq_PolicyName : string; SMUpdatePolicyReq_Body : option (option string); SMUpdatePolicyReq_BodyReader : reader;
  SMUpdatePolicyReq_Header : headers; SMUpdatePolicyReq_Params : option SMUpdatePolicyParams }.
Definition SMUpdatePolicyReq_GetRequest (r : SMUpdatePolicyReq) (method : string) : request_error + httpRequest * Z :=
  send method (SMUpdatePolicyPath_Build (MkSMUpdatePolicyPath (SMUpdatePolicyReq_PolicyName r)))
    (match SMUpdatePolicyReq_Params r with Some q => SMUpdatePolicyParams_get q | None => ∅ end)
    (json_body (SMUpdatePolicyReq_Body r) (SMUpdatePolicyReq_BodyReader r)) (SMUpdatePolicyReq_Header r).
Definition SMUpdatePolicy_Method (r : SMUpdatePolicyReq) : string := "PUT".
#[export] Instance SMUpdatePolicy_operation : operation SMUpdatePolicyReq :=
  {| op_path := MkPathType "SMUpdatePolicyPath" SMUpdatePolicyPath _ _; op_P := SMUpdatePolicyParams; op_fields r := MkSMUpdatePolicyPath (SMUpdatePolicyReq_PolicyName r);
     op_params := SMUpdatePolicyReq_Params; op_defaults := None; op_timeout := SMUpdatePolicyParams_TimeoutParams; op_debug := SMUpdatePolicyParams_DebugParams;
     op_format := None; op_own := SMUpdatePolicyParams_own; op_slots := SMUpdatePolicyParams_slots;
     op_body r := json_body (SMUpdatePolicyReq_Body r) (SMUpdatePolicyReq_BodyReader r); op_headers r := SMUpdatePolicyReq_Header r;
     Method := SMUpdatePolicy_Method; GetRequest := SMUpdatePolicyReq_GetRequest;
     op_keys := ["if_primary_term"; "if_seq_no"];
     op_described := [("PUT", "/_plugins/_sm/policies/{policy_name}")];
     op_query := ["if_primary_term"; "if_seq_no"] |}.
#[export] Instance SMUpdatePolicy_operates : LawfulOp SMUpdatePolicyReq.
Proof. operate. Qed.

Record TransformsDeleteParams := MkTransformsDeleteParams { TransformsDeleteParams_TimeoutParams : TimeoutParams; TransformsDeleteParams_DebugParams : DebugParams }.
Definition TransformsDeleteParams_own (q : TransformsDeleteParams) : list param :=
  [].
Definition TransformsDeleteParams_slots : list (string * (TransformsDeleteParams -> slot)) :=
  [].
Definition TransformsDeleteParams_get (q : TransformsDeleteParams) : gmap string string :=
  encode_params (EncodeTimeout (TransformsDeleteParams_TimeoutParams q) ++ EncodeDebug (TransformsDeleteParams_DebugParams q) ++ TransformsDeleteParams_own q).
Record TransformsDeleteReq := MkTransformsDeleteReq { TransformsDeleteReq_ID : string; TransformsDeleteReq_Header : headers; TransformsDeleteReq_Params : option TransformsDeleteParams }.
Definition TransformsDeleteReq_GetRequest (r : TransformsDeleteReq) (method : string) : request_error + httpRequest * Z :=
  send method (TransformsDeletePath_Build (MkTransformsDeletePath (TransformsDeleteReq_ID r)))
    (match TransformsDeleteReq_Params r with Some q => TransformsDeleteParams_get q | None => ∅ end)
    no_body (TransformsDeleteReq_Header r).
Definition TransformsDelete_Method (r : TransformsDeleteReq) : string := "DELETE".
#[export] Instance TransformsDelete_operation : operation TransformsDeleteReq :=
  {| op_path := MkPathType "TransformsDeletePath" TransformsDeletePath _ _; op_P := TransformsDeleteParams; op_fields r := MkTransformsDeletePath (TransformsDeleteReq_ID r);
     op_params := TransformsDeleteReq_Params; op_defaults := None; op_timeout := TransformsDeleteParams_TimeoutParams; op_debug := TransformsDeleteParams_DebugParams;
     op_format := None; op_own := TransformsDeleteParams_own; op_slots := TransformsDeleteParams_slots;
     op_body _ := no_body; op_headers r := TransformsDeleteReq_Header r;
     Method := TransformsDelete_Method; GetRequest := TransformsDeleteReq_GetRequest;
     op_keys := [];
     op_described := [("DELETE", "/_plugins/_transform/{id}")];
     op_query := [] |}.
#[export] Instance TransformsDelete_operates : LawfulOp TransformsDeleteReq.
Proof. operate. Qed.

Record TransformsExplainParams := MkTransformsExplainParams { TransformsExplainParams_TimeoutParams : TimeoutParams; TransformsExplainParams_DebugParams : DebugParams }.
Definition TransformsExplainParams_own (q : TransformsExplainParams) : list param :=
  [].
Definition TransformsExplainParams_slots : list (string * (TransformsExplainParams -> slot)) :=
  [].
Definition TransformsExplainParams_get (q : TransformsExplainParams) : gmap string string :=
  encode_params (EncodeTimeout (TransformsExplainParams_TimeoutParams q) ++ EncodeDebug (TransformsExplainParams_DebugParams q) ++ TransformsExplainParams_own q).
Record TransformsExplainReq := MkTransformsExplainReq { TransformsExplainReq_ID : string; TransformsExplainReq_Header : headers; TransformsExplainReq_Params : option TransformsExplainParams }.
Definition TransformsExplainReq_GetRequest (r : TransformsExplainReq) (method : string) : request_error + httpRequest * Z :=
  send method (TransformsExplainPath_Build (MkTransformsExplainPath (TransformsExplainReq_ID r)))
    (match TransformsExplainReq_Params r with Some q => TransformsExplainParams_get q | None => ∅ end)
    no_body (TransformsExplainReq_Header r).
Definition TransformsExplain_Method (r : TransformsExplainReq) : string := "GET".
#[export] Instance TransformsExplain_operation : operation TransformsExplainReq :=
  {| op_path := MkPathType "TransformsExplainPath" TransformsExplainPath _ _; op_P := TransformsExplainParams; op_fields r := MkTransformsExplainPath (TransformsExplainReq_ID r);
     op_params := TransformsExplainReq_Params; op_defaults := None; op_timeout := TransformsExplainParams_TimeoutParams; op_debug := TransformsExplainParams_DebugParams;
     op_format := None; op_own := TransformsExplainParams_own; op_slots := TransformsExplainParams_slots;
     op_body _ := no_body; op_headers r := TransformsExplainReq_Header r;
     Method := TransformsExplain_Method; GetRequest := TransformsExplainReq_GetRequest;
     op_keys := [];
     op_described := [("GET", "/_plugins/_transform/{id}/_explain")];
     op_query := [] |}.
#[export] Instance TransformsExplain_operates : LawfulOp TransformsExplainReq.
Proof. operate. Qed.

Record TransformsGetParams := MkTransformsGetParams { TransformsGetParams_TimeoutParams : TimeoutParams; TransformsGetParams_DebugParams : DebugParams }.
Definition TransformsGetParams_own (q : TransformsGetParams) : list param :=
  [].
Definition TransformsGetParams_slots : list (string * (TransformsGetParams -> slot)) :=
  [].
Definition TransformsGetParams_get (q : TransformsGetParams) : gmap string string :=
  encode_params (EncodeTimeout (TransformsGetParams_TimeoutParams q) ++ EncodeDebug (TransformsGetParams_DebugParams q) ++ TransformsGetParams_own q).
Record TransformsGetReq := MkTransformsGetReq { TransformsGetReq_ID : string; TransformsGetReq_Header : headers; TransformsGetReq_Params : option TransformsGetParams }.
Definition TransformsGetReq_GetRequest (r : TransformsGetReq) (method : string) : request_error + httpRequest * Z :=
  send method (TransformsGetPath_Build (MkTransformsGetPath (TransformsGetReq_ID r)))
    (match TransformsGetReq_Params r with Some q => TransformsGetParams_get q | None => ∅ end)
    no_body (TransformsGetReq_Header r).
Definition TransformsGet_Method (r : TransformsGetReq) : string := "GET".
#[export] Instance TransformsGet_operation : operation TransformsGetReq :=
  {| op_path := MkPathType "TransformsGetPath" TransformsGetPath _ _; op_P := TransformsGetParams; op_fields r := MkTransformsGetPath (TransformsGetReq_ID r);
     op_params := TransformsGetReq_Params; op_defaults := None; op_timeout := TransformsGetParams_TimeoutParams; op_debug := TransformsGetParams_DebugParams;
     op_format := None; op_own := TransformsGetParams_own; op_slots := TransformsGetParams_slots;
     op_body _ := no_body; op_headers r := TransformsGetReq_Header r;
     Method := TransformsGet_Method; GetRequest := TransformsGetReq_GetRequest;
     op_keys := [];
     op_described := [("GET", "/_plugins/_transform/{id}")];
     op_query := [] |}.
#[export] Instance TransformsGet_operates : LawfulOp TransformsGetReq.
Proof. operate. Qed.

Record TransformsPreviewParams := MkTransformsPreviewParams { TransformsPreviewParams_TimeoutParams : TimeoutParams; TransformsPreviewParams_DebugParams : DebugParams }.
Definition TransformsPreviewParams_own (q : TransformsPreviewParams) : list param :=
  [].
Definition TransformsPreviewParams_slots : list (string * (TransformsPreviewParams -> slot)) :=
  [].
Definition TransformsPreviewParams_get (q : TransformsPreviewParams) : gmap string string :=
  encode_params (EncodeTimeout (TransformsPreviewParams_TimeoutParams q) ++ EncodeDebug (TransformsPreviewParams_DebugParams q) ++ TransformsPreviewParams_own q).
Record TransformsPreviewReq := MkTransformsPreviewReq { TransformsPreviewReq_Body : option (option string); TransformsPreviewReq_BodyReader : reader; TransformsPreviewReq_Header : headers;
  TransformsPreviewReq_Params : option TransformsPreviewParams }.
Definition TransformsPreviewReq_GetRequest (r : TransformsPreviewReq) (method : string) : request_error + httpRequest * Z :=
  send method (TransformsPreviewPath_Build (MkTransformsPreviewPath))
    (match TransformsPreviewReq_Params r with Some q => TransformsPreviewParams_get q | None => ∅ end)
    (json_body (TransformsPreviewReq_Body r) (TransformsPreviewReq_BodyReader r)) (TransformsPreviewReq_Header r).
Definition TransformsPreview_Method (r : TransformsPreviewReq) : string := "POST".
#[export] Instance TransformsPreview_operation : operation TransformsPreviewReq :=
  {| op_path := MkPathType "TransformsPreviewPath" TransformsPreviewPath _ _; op_P := TransformsPreviewParams; op_fields r := MkTransformsPreviewPath;
     op_params := TransformsPreviewReq_Params; op_defaults := None; op_timeout := TransformsPreviewParams_TimeoutParams; op_debug := TransformsPreviewParams_DebugParams;
     op_format := None; op_own := TransformsPreviewParams_own; op_slots := TransformsPreviewParams_slots;
     op_body r := json_body (TransformsPreviewReq_Body r) (TransformsPreviewReq_BodyReader r); op_headers r := TransformsPreviewReq_Header r;
     Method := TransformsPreview_Method; GetRequest := TransformsPreviewReq_GetRequest;
     op_keys := [];
     op_described := [("POST", "/_plugins/_transform/_preview")];
     op_query := [] |}.
#[export] Instance TransformsPreview_operates : LawfulOp TransformsPreviewReq.
Proof. operate. Qed.

Record TransformsPutParams := MkTransformsPutParams { TransformsPutParams_TimeoutParams : TimeoutParams; TransformsPutParams_DebugParams : DebugParams; TransformsPutParams_IfPrimaryTerm : option Z;
  TransformsPutParams_IfSeqNo : option Z }.
Definition TransformsPutParams_own (q : TransformsPutParams) : list param :=
  [("if_primary_term", intPtr (TransformsPutParams_IfPrimaryTerm q)); ("if_seq_no", intPtr (TransformsPutParams_IfSeqNo q))].
Definition TransformsPutParams_slots : list (string * (TransformsPutParams -> slot)) :=
  [("IfPrimaryTerm", fun q => IntPtr (TransformsPutParams_IfPrimaryTerm q)); ("IfSeqNo", fun q => IntPtr (TransformsPutParams_IfSeqNo q))].
Definition TransformsPutParams_get (q : TransformsPutParams) : gmap string string :=
  encode_params (EncodeTimeout (TransformsPutParams_TimeoutParams q) ++ EncodeDebug (TransformsPutParams_DebugParams q) ++ TransformsPutParams_own q).
Record TransformsPutReq := MkTransformsPutReq { TransformsPutReq_ID : string; TransformsPutReq_Body : option (option string); TransformsPutReq_BodyReader : reader;
  TransformsPutReq_Header : headers; TransformsPutReq_Params : option TransformsPutParams }.
Definition TransformsPutReq_GetRequest (r : TransformsPutReq) (method : string) : request_error + httpRequest * Z :=
  send method (TransformsPutPath_Build (MkTransformsPutPath (TransformsPutReq_ID r)))
    (match TransformsPutReq_Params r with Some q => TransformsPutParams_get q | None => ∅ end)
    (json_body (TransformsPutReq_Body r) (TransformsPutReq_BodyReader r)) (TransformsPutReq_Header r).
Definition TransformsPut_Method (r : TransformsPutReq) : string := "PUT".
#[export] Instance TransformsPut_operation : operation TransformsPutReq :=
  {| op_path := MkPathType "TransformsPutPath" TransformsPutPath _ _; op_P := TransformsPutParams; op_fields r := MkTransformsPutPath (TransformsPutReq_ID r);
     op_params := TransformsPutReq_Params; op_defaults := None; op_timeout := TransformsPutParams_TimeoutParams; op_debug := TransformsPutParams_DebugParams;
     op_format := None; op_own := TransformsPutParams_own; op_slots := TransformsPutParams_slots;
     op_body r := json_body (TransformsPutReq_Body r) (TransformsPutReq_BodyReader r); op_headers r := TransformsPutReq_Header r;
     Method := TransformsPut_Method; GetRequest := TransformsPutReq_GetRequest;
     op_keys := ["if_primary_term"; "if_seq_no"];
     op_described := [("PUT", "/_plugins/_transform/{id}")];
     op_query := ["if_primary_term"; "if_seq_no"] |}.
#[export] Instance TransformsPut_operates : LawfulOp TransformsPutReq.
Proof. operate. Qed.

Record TransformsSearchParams := MkTransformsSearchParams { TransformsSearchParams_TimeoutParams : TimeoutParams; TransformsSearchParams_DebugParams : DebugParams; TransformsSearchParams_From : Z;
  TransformsSearchParams_Search : string; TransformsSearchParams_Size : Z; TransformsSearchParams_SortDirection : string;
  TransformsSearchParams_SortField : string }.
Definition TransformsSearchParams_own (q : TransformsSearchParams) : list param :=
  [("from", nonZero (TransformsSearchParams_From q)); ("search", nonEmpty (TransformsSearchParams_Search q));
  ("size", nonZero (TransformsSearchParams_Size q)); ("sortDirection", nonEmpty (TransformsSearchParams_SortDirection q));
  ("sortField", nonEmpty (TransformsSearchParams_SortField q))].
Definition TransformsSearchParams_slots : list (string * (TransformsSearchParams -> slot)) :=
  [("From", fun q => Int (TransformsSearchParams_From q)); ("Search", fun q => Text (TransformsSearchParams_Search q));
  ("Size", fun q => Int (TransformsSearchParams_Size q)); ("SortDirection", fun q => Text (TransformsSearchParams_SortDirection q));
  ("SortField", fun q => Text (TransformsSearchParams_SortField q))].
Definition TransformsSearchParams_get (q : TransformsSearchParams) : gmap string string :=
  encode_params (EncodeTimeout (TransformsSearchParams_TimeoutParams q) ++ EncodeDebug (TransformsSearchParams_DebugParams q) ++ TransformsSearchParams_own q).
Record TransformsSearchReq := MkTransformsSearchReq { TransformsSearchReq_Header : headers; TransformsSearchReq_Params : option TransformsSearchParams }.
Definition TransformsSearchReq_GetRequest (r : TransformsSearchReq) (method : string) : request_error + httpRequest * Z :=
  send method (TransformsSearchPath_Build (MkTransformsSearchPath))
    (match TransformsSearchReq_Params r with Some q => TransformsSearchParams_get q | None => ∅ end)
    no_body (TransformsSearchReq_Header r).
Definition TransformsSearch_Method (r : TransformsSearchReq) : string := "GET".
#[export] Instance TransformsSearch_operation : operation TransformsSearchReq :=
  {| op_path := MkPathType "TransformsSearchPath" TransformsSearchPath _ _; op_P := TransformsSearchParams; op_fields r := MkTransformsSearchPath;
     op_params := TransformsSearchReq_Params; op_defaults := None; op_timeout := TransformsSearchParams_TimeoutParams; op_debug := TransformsSearchParams_DebugParams;
     op_format := None; op_own := TransformsSearchParams_own; op_slots := TransformsSearchParams_slots;
     op_body _ := no_body; op_headers r := TransformsSearchReq_Header r;
     Method := TransformsSearch_Method; GetRequest := TransformsSearchReq_GetRequest;
     op_keys := ["from"; "search"; "size"; "sortDirection"; "sortField"];
     op_described := [("GET", "/_plugins/_transform")];
     op_query := ["from"; "search"; "size"; "sortDirection"; "sortField"] |}.
#[export] Instance TransformsSearch_operates : LawfulOp TransformsSearchReq.
Proof. operate. Qed.

Record TransformsStartParams := MkTransformsStartParams { TransformsStartParams_TimeoutParams : TimeoutParams; TransformsStartParams_DebugParams : DebugParams }.
Definition TransformsStartParams_own (q : TransformsStartParams) : list param :=
  [].
Definition TransformsStartParams_slots : list (string * (TransformsStartParams -> slot)) :=
  [].
Definition TransformsStartParams_get (q : TransformsStartParams) : gmap string string :=
  encode_params (EncodeTimeout (TransformsStartParams_TimeoutParams q) ++ EncodeDebug (TransformsStartParams_DebugParams q) ++ TransformsStartParams_own q).
Record TransformsStartReq := MkTransformsStartReq { TransformsStartReq_ID : string; TransformsStartReq_Header : headers; TransformsStartReq_Params : option TransformsStartParams }.
Definition TransformsStartReq_GetRequest (r : TransformsStartReq) (method : string) : request_error + httpRequest * Z :=
  send method (TransformsStartPath_Build (MkTransformsStartPath (TransformsStartReq_ID r)))
    (match TransformsStartReq_Params r with Some q => TransformsStartParams_get q | None => ∅ end)
    no_body (TransformsStartReq_Header r).
Definition TransformsStart_Method (r : TransformsStartReq) : string := "POST".
#[export] Instance TransformsStart_operation : operation TransformsStartReq :=
  {| op_path := MkPathType "TransformsStartPath" TransformsStartPath _ _; op_P := TransformsStartParams; op_fields r := MkTransformsStartPath (TransformsStartReq_ID r);
     op_params := TransformsStartReq_Params; op_defaults := None; op_timeout := TransformsStartParams_TimeoutParams; op_debug := TransformsStartParams_DebugParams;
     op_format := None; op_own := TransformsStartParams_own; op_slots := TransformsStartParams_slots;
     op_body _ := no_body; op_headers r := TransformsStartReq_Header r;
     Method := TransformsStart_Method; GetRequest := TransformsStartReq_GetRequest;
     op_keys := [];
     op_described := [("POST", "/_plugins/_transform/{id}/_start")];
     op_query := [] |}.
#[export] Instance TransformsStart_operates : LawfulOp TransformsStartReq.
Proof. operate. Qed.

Record TransformsStopParams := MkTransformsStopParams { TransformsStopParams_TimeoutParams : TimeoutParams; TransformsStopParams_DebugParams : DebugParams }.
Definition TransformsStopParams_own (q : TransformsStopParams) : list param :=
  [].
Definition TransformsStopParams_slots : list (string * (TransformsStopParams -> slot)) :=
  [].
Definition TransformsStopParams_get (q : TransformsStopParams) : gmap string string :=
  encode_params (EncodeTimeout (TransformsStopParams_TimeoutParams q) ++ EncodeDebug (TransformsStopParams_DebugParams q) ++ TransformsStopParams_own q).
Record TransformsStopReq := MkTransformsStopReq { TransformsStopReq_ID : string; TransformsStopReq_Header : headers; TransformsStopReq_Params : option TransformsStopParams }.
Definition TransformsStopReq_GetRequest (r : TransformsStopReq) (method : string) : request_error + httpRequest * Z :=
  send method (TransformsStopPath_Build (MkTransformsStopPath (TransformsStopReq_ID r)))
    (match TransformsStopReq_Params r with Some q => TransformsStopParams_get q | None => ∅ end)
    no_body (TransformsStopReq_Header r).
Definition TransformsStop_Method (r : TransformsStopReq) : string := "POST".
#[export] Instance TransformsStop_operation : operation TransformsStopReq :=
  {| op_path := MkPathType "TransformsStopPath" TransformsStopPath _ _; op_P := TransformsStopParams; op_fields r := MkTransformsStopPath (TransformsStopReq_ID r);
     op_params := TransformsStopReq_Params; op_defaults := None; op_timeout := TransformsStopParams_TimeoutParams; op_debug := TransformsStopParams_DebugParams;
     op_format := None; op_own := TransformsStopParams_own; op_slots := TransformsStopParams_slots;
     op_body _ := no_body; op_headers r := TransformsStopReq_Header r;
     Method := TransformsStop_Method; GetRequest := TransformsStopReq_GetRequest;
     op_keys := [];
     op_described := [("POST", "/_plugins/_transform/{id}/_stop")];
     op_query := [] |}.
#[export] Instance TransformsStop_operates : LawfulOp TransformsStopReq.
Proof. operate. Qed.

Record WLMCreateQueryGroupParams := MkWLMCreateQueryGroupParams { WLMCreateQueryGroupParams_TimeoutParams : TimeoutParams; WLMCreateQueryGroupParams_DebugParams : DebugParams }.
Definition WLMCreateQueryGroupParams_own (q : WLMCreateQueryGroupParams) : list param :=
  [].
Definition WLMCreateQueryGroupParams_slots : list (string * (WLMCreateQueryGroupParams -> slot)) :=
  [].
Definition WLMCreateQueryGroupParams_get (q : WLMCreateQueryGroupParams) : gmap string string :=
  encode_params (EncodeTimeout (WLMCreateQueryGroupParams_TimeoutParams q) ++ EncodeDebug (WLMCreateQueryGroupParams_DebugParams q) ++ WLMCreateQueryGroupParams_own q).
Record WLMCreateQueryGroupReq := MkWLMCreateQueryGroupReq { WLMCreateQueryGroupReq_Body : option (option string); WLMCreateQueryGroupReq_BodyReader : reader; WLMCreateQueryGroupReq_Header : headers;
  WLMCreateQueryGroupReq_Params : option WLMCreateQueryGroupParams }.
Definition WLMCreateQueryGroupReq_GetRequest (r : WLMCreateQueryGroupReq) (method : string) : request_error + httpRequest * Z :=
  send method (WLMCreateQueryGroupPath_Build (MkWLMCreateQueryGroupPath))
    (match WLMCreateQueryGroupReq_Params r with Some q => WLMCreateQueryGroupParams_get q | None => ∅ end)
    (json_body (WLMCreateQueryGroupReq_Body r) (WLMCreateQueryGroupReq_BodyReader r)) (WLMCreateQueryGroupReq_Header r).
Definition WLMCreateQueryGroup_Method (r : WLMCreateQueryGroupReq) : string := "PUT".
#[export] Instance WLMCreateQueryGroup_operation : operation WLMCreateQueryGroupReq :=
  {| op_path := MkPathType "WLMCreateQueryGroupPath" WLMCreateQueryGroupPath _ _; op_P := WLMCreateQueryGroupParams; op_fields r := MkWLMCreateQueryGroupPath;
     op_params := WLMCreateQueryGroupReq_Params; op_defaults := None; op_timeout := WLMCreateQueryGroupParams_TimeoutParams; op_debug := WLMCreateQueryGroupParams_DebugParams;
     op_format := None; op_own := WLMCreateQueryGroupParams_own; op_slots := WLMCreateQueryGroupParams_slots;
     op_body r := json_body (WLMCreateQueryGroupReq_Body r) (WLMCreateQueryGroupReq_BodyReader r); op_headers r := WLMCreateQueryGroupReq_Header r;
     Method := WLMCreateQueryGroup_Method; GetRequest := WLMCreateQueryGroupReq_GetRequest;
     op_keys := [];
     op_described := [("PUT", "/_wlm/query_group")];
     op_query := [] |}.
#[export] Instance WLMCreateQueryGroup_operates : LawfulOp WLMCreateQueryGroupReq.
Proof. operate. Qed.

Record WLMDeleteQueryGroupParams := MkWLMDeleteQueryGroupParams { WLMDeleteQueryGroupParams_TimeoutParams : TimeoutParams; WLMDeleteQueryGroupParams_DebugParams : DebugParams }.
Definition WLMDeleteQueryGroupParams_own (q : WLMDeleteQueryGroupParams) : list param :=
  [].
Definition WLMDeleteQueryGroupParams_slots : list (string * (WLMDeleteQueryGroupParams -> slot)) :=
  [].
Definition WLMDeleteQueryGroupParams_get (q : WLMDeleteQueryGroupParams) : gmap string string :=
  encode_params (EncodeTimeout (WLMDeleteQueryGroupParams_TimeoutParams q) ++ EncodeDebug (WLMDeleteQueryGroupParams_DebugParams q) ++ WLMDeleteQueryGroupParams_own q).
Record WLMDeleteQueryGroupReq := MkWLMDeleteQueryGroupReq { WLMDeleteQueryGroupReq_Name : string; WLMDeleteQueryGroupReq_Header : headers; WLMDeleteQueryGroupReq_Params : option WLMDeleteQueryGroupParams }.
Definition WLMDeleteQueryGroupReq_GetRequest (r : WLMDeleteQueryGroupReq) (method : string) : request_error + httpRequest * Z :=
  send method (WLMDeleteQueryGroupPath_Build (MkWLMDeleteQueryGroupPath (WLMDeleteQueryGroupReq_Name r)))
    (match WLMDeleteQueryGroupReq_Params r with Some q => WLMDeleteQueryGroupParams_get q | None => ∅ end)
    no_body (WLMDeleteQueryGroupReq_Header r).
Definition WLMDeleteQueryGroup_Method (r : WLMDeleteQueryGroupReq) : string := "DELETE".
#[export] Instance WLMDeleteQueryGroup_operation : operation WLMDeleteQueryGroupReq :=
  {| op_path := MkPathType "WLMDeleteQueryGroupPath" WLMDeleteQueryGroupPath _ _; op_P := WLMDeleteQueryGroupParams; op_fields r := MkWLMDeleteQueryGroupPath (WLMDeleteQueryGroupReq_Name r);
     op_params := WLMDeleteQueryGroupReq_Params; op_defaults := None; op_timeout := WLMDeleteQueryGroupParams_TimeoutParams; op_debug := WLMDeleteQueryGroupParams_DebugParams;
     op_format := None; op_own := WLMDeleteQueryGroupParams_own; op_slots := WLMDeleteQueryGroupParams_slots;
     op_body _ := no_body; op_headers r := WLMDeleteQueryGroupReq_Header r;
     Method := WLMDeleteQueryGroup_Method; GetRequest := WLMDeleteQueryGroupReq_GetRequest;
     op_keys := [];
     op_described := [("DELETE", "/_wlm/query_group/{name}")];
     op_query := [] |}.
#[export] Instance WLMDeleteQueryGroup_operates : LawfulOp WLMDeleteQueryGroupReq.
Proof. operate. Qed.

Record WLMGetQueryGroupParams := MkWLMGetQueryGroupParams { WLMGetQueryGroupParams_TimeoutParams : TimeoutParams; WLMGetQueryGroupParams_DebugParams : DebugParams }.
Definition WLMGetQueryGroupParams_own (q : WLMGetQueryGroupParams) : list param :=
  [].
Definition WLMGetQueryGroupParams_slots : list (string * (WLMGetQueryGroupParams -> slot)) :=
  [].
Definition WLMGetQueryGroupParams_get (q : WLMGetQueryGroupParams) : gmap string string :=
  encode_params (EncodeTimeout (WLMGetQueryGroupParams_TimeoutParams q) ++ EncodeDebug (WLMGetQueryGroupParams_DebugParams q) ++ WLMGetQueryGroupParams_own q).
Record WLMGetQueryGroupReq := MkWLMGetQueryGroupReq { WLMGetQueryGroupReq_Name : string; WLMGetQueryGroupReq_Header : headers; WLMGetQueryGroupReq_Params : option WLMGetQueryGroupParams }.
Definition WLMGetQueryGroupReq_GetRequest (r : WLMGetQueryGroupReq) (method : string) : request_error + httpRequest * Z :=
  send method (WLMGetQueryGroupPath_Build (MkWLMGetQueryGroupPath (WLMGetQueryGroupReq_Name r)))
    (match WLMGetQueryGroupReq_Params r with Some q => WLMGetQueryGroupParams_get q | None => ∅ end)
    no_body (WLMGetQueryGroupReq_Header r).
Definition WLMGetQueryGroup_Method (r : WLMGetQueryGroupReq) : string := "GET".
#[export] Instance WLMGetQueryGroup_operation : operation WLMGetQueryGroupReq :=
  {| op_path := MkPathType "WLMGetQueryGroupPath" WLMGetQueryGroupPath _ _; op_P := WLMGetQueryGroupParams; op_fields r := MkWLMGetQueryGroupPath (WLMGetQueryGroupReq_Name r);
     op_params := WLMGetQueryGroupReq_Params; op_defaults := None; op_timeout := WLMGetQueryGroupParams_TimeoutParams; op_debug := WLMGetQueryGroupParams_DebugParams;
     op_format := None; op_own := WLMGetQueryGroupParams_own; op_slots := WLMGetQueryGroupParams_slots;
     op_body _ := no_body; op_headers r := WLMGetQueryGroupReq_Header r;
     Method := WLMGetQueryGroup_Method; GetRequest := WLMGetQueryGroupReq_GetRequest;
     op_keys := [];
     op_described := [("GET", "/_wlm/query_group"); ("GET", "/_wlm/query_group/{name}")];
     op_query := [] |}.
#[export] Instance WLMGetQueryGroup_operates : LawfulOp WLMGetQueryGroupReq.
Proof. operate. Qed.

Record WLMUpdateQueryGroupParams := MkWLMUpdateQueryGroupParams { WLMUpdateQueryGroupParams_TimeoutParams : TimeoutParams; WLMUpdateQueryGroupParams_DebugParams : DebugParams }.
Definition WLMUpdateQueryGroupParams_own (q : WLMUpdateQueryGroupParams) : list param :=
  [].
Definition WLMUpdateQueryGroupParams_slots : list (string * (WLMUpdateQueryGroupParams -> slot)) :=
  [].
Definition WLMUpdateQueryGroupParams_get (q : WLMUpdateQueryGroupParams) : gmap string string :=
  encode_params (EncodeTimeout (WLMUpdateQueryGroupParams_TimeoutParams q) ++ EncodeDebug (WLMUpdateQueryGroupParams_DebugParams q) ++ WLMUpdateQueryGroupParams_own q).
Record WLMUpdateQueryGroupReq := MkWLMUpdateQueryGroupReq { WLMUpdateQueryGroupReq_Name : string; WLMUpdateQueryGroupReq_Body : option (option string); WLMUpdateQueryGroupReq_BodyReader : reader;
  WLMUpdateQueryGroupReq_Header : headers; WLMUpdateQueryGroupReq_Params : option WLMUpdateQueryGroupParams }.
Definition WLMUpdateQueryGroupReq_GetRequest (r : WLMUpdateQueryGroupReq) (method : string) : request_error + httpRequest * Z :=
  send method (WLMUpdateQueryGroupPath_Build (MkWLMUpdateQueryGroupPath (WLMUpdateQueryGroupReq_Name r)))
    (match WLMUpdateQueryGroupReq_Params r with Some q => WLMUpdateQueryGroupParams_get q | None => ∅ end)
    (json_body (WLMUpdateQueryGroupReq_Body r) (WLMUpdateQueryGroupReq_BodyReader r)) (WLMUpdateQueryGroupReq_Header r).
Definition WLMUpdateQueryGroup_Method (r : WLMUpdateQueryGroupReq) : string := "PUT".
#[export] Instance WLMUpdateQueryGroup_operation : operation WLMUpdateQueryGroupReq :=
  {| op_path := MkPathType "WLMUpdateQueryGroupPath" WLMUpdateQueryGroupPath _ _; op_P := WLMUpdateQueryGroupParams; op_fields r := MkWLMUpdateQueryGroupPath (WLMUpdateQueryGroupReq_Name r);
     op_params := WLMUpdateQueryGroupReq_Params; op_defaults := None; op_timeout := WLMUpdateQueryGroupParams_TimeoutParams; op_debug := WLMUpdateQueryGroupParams_DebugParams;
     op_format := None; op_own := WLMUpdateQueryGroupParams_own; op_slots := WLMUpdateQueryGroupParams_slots;
     op_body r := json_body (WLMUpdateQueryGroupReq_Body r) (WLMUpdateQueryGroupReq_BodyReader r); op_headers r := WLMUpdateQueryGroupReq_Header r;
     Method := WLMUpdateQueryGroup_Method; GetRequest := WLMUpdateQueryGroupReq_GetRequest;
     op_keys := [];
     op_described := [("PUT", "/_wlm/query_group/{name}")];
     op_query := [] |}.
#[export] Instance WLMUpdateQueryGroup_operates : LawfulOp WLMUpdateQueryGroupReq.
Proof. operate. Qed.

(** All of them. *)
Definition apiLifecycle : list operation_type :=
  [MkOperationType "IngestDeletePipeline" IngestDeletePipelineReq _ _; MkOperationType "IngestGetPipeline" IngestGetPipelineReq _ _;
   MkOperationType "IngestProcessorGrok" IngestProcessorGrokReq _ _; MkOperationType "IngestPutPipeline" IngestPutPipelineReq _ _;
   MkOperationType "IngestSimulate" IngestSimulateReq _ _; MkOperationType "IngestionGetState" IngestionGetStateReq _ _;
   MkOperationType "IngestionPause" IngestionPauseReq _ _; MkOperationType "IngestionResume" IngestionResumeReq _ _;
   MkOperationType "InsightsTopQueries" InsightsTopQueriesReq _ _; MkOperationType "ISMAddPolicy" ISMAddPolicyReq _ _;
   MkOperationType "ISMChangePolicy" ISMChangePolicyReq _ _; MkOperationType "ISMDeletePolicy" ISMDeletePolicyReq _ _;
   MkOperationType "ISMExistsPolicy" ISMExistsPolicyReq _ _; MkOperationType "ISMExplainPolicy" ISMExplainPolicyReq _ _;
   MkOperationType "ISMGetPolicies" ISMGetPoliciesReq _ _; MkOperationType "ISMGetPolicy" ISMGetPolicyReq _ _;
   MkOperationType "ISMPutPolicies" ISMPutPoliciesReq _ _; MkOperationType "ISMPutPolicy" ISMPutPolicyReq _ _;
   MkOperationType "ISMRefreshSearchAnalyzers" ISMRefreshSearchAnalyzersReq _ _; MkOperationType "ISMRemovePolicy" ISMRemovePolicyReq _ _;
   MkOperationType "ISMRetryIndex" ISMRetryIndexReq _ _; MkOperationType "ListHelp" ListHelpReq _ _;
   MkOperationType "ListIndices" ListIndicesReq _ _; MkOperationType "ListShards" ListShardsReq _ _;
   MkOperationType "ReplicationAutofollowStats" ReplicationAutofollowStatsReq _ _; MkOperationType "ReplicationCreateReplicationRule" ReplicationCreateReplicationRuleReq _ _;
   MkOperationType "ReplicationDeleteReplicationRule" ReplicationDeleteReplicationRuleReq _ _; MkOperationType "ReplicationFollowerStats" ReplicationFollowerStatsReq _ _;
   MkOperationType "ReplicationLeaderStats" ReplicationLeaderStatsReq _ _; MkOperationType "ReplicationPause" ReplicationPauseReq _ _;
   MkOperationType "ReplicationResume" ReplicationResumeReq _ _; MkOperationType "ReplicationStart" ReplicationStartReq _ _;
   MkOperationType "ReplicationStatus" ReplicationStatusReq _ _; MkOperationType "ReplicationStop" ReplicationStopReq _ _;
   MkOperationType "ReplicationUpdateSettings" ReplicationUpdateSettingsReq _ _; MkOperationType "RollupsDelete" RollupsDeleteReq _ _;
   MkOperationType "RollupsExplain" RollupsExplainReq _ _; MkOperationType "RollupsGet" RollupsGetReq _ _;
   MkOperationType "RollupsPut" RollupsPutReq _ _; MkOperationType "RollupsStart" RollupsStartReq _ _;
   MkOperationType "RollupsStop" RollupsStopReq _ _; MkOperationType "SearchPipelineDelete" SearchPipelineDeleteReq _ _;
   MkOperationType "SearchPipelineGet" SearchPipelineGetReq _ _; MkOperationType "SearchPipelinePut" SearchPipelinePutReq _ _;
   MkOperationType "SMCreatePolicy" SMCreatePolicyReq _ _; MkOperationType "SMDeletePolicy" SMDeletePolicyReq _ _;
   MkOperationType "SMExplainPolicy" SMExplainPolicyReq _ _; MkOperationType "SMGetPolicies" SMGetPoliciesReq _ _;
   MkOperationType "SMGetPolicy" SMGetPolicyReq _ _; MkOperationType "SMStartPolicy" SMStartPolicyReq _ _;
   MkOperationType "SMStopPolicy" SMStopPolicyReq _ _; MkOperationType "SMUpdatePolicy" SMUpdatePolicyReq _ _;
   MkOperationType "TransformsDelete" TransformsDeleteReq _ _; MkOperationType "TransformsExplain" TransformsExplainReq _ _;
   MkOperationType "TransformsGet" TransformsGetReq _ _; MkOperationType "TransformsPreview" TransformsPreviewReq _ _;
   MkOperationType "TransformsPut" TransformsPutReq _ _; MkOperationType "TransformsSearch" TransformsSearchReq _ _;
   MkOperationType "TransformsStart" TransformsStartReq _ _; MkOperationType "TransformsStop" TransformsStopReq _ _;
   MkOperationType "WLMCreateQueryGroup" WLMCreateQueryGroupReq _ _; MkOperationType "WLMDeleteQueryGroup" WLMDeleteQueryGroupReq _ _;
   MkOperationType "WLMGetQueryGroup" WLMGetQueryGroupReq _ _; MkOperationType "WLMUpdateQueryGroup" WLMUpdateQueryGroupReq _ _].
