(* ===== verification/ApiSecurity.v ===== *)
(** * Requests for the security plugins

    The request types of opensearchapi and plugins for the security plugins: the parameters
    with their [get], GetRequest, and the method of the client's call, each
    with its instance of [operation] and the part of opensearch-openapi.yaml it is
    compared with. *)

From Stdlib Require Import ZArith Ascii String.
From stdpp Require Import base gmap list strings.
From S2P Require Import Paths.
From S2P Require Import Stream.
From S2P Require Import PathsSecurity.
From S2P Require Import ReqBuild.
From S2P Require Import ApiRequest.
Open Scope string_scope.
Open Scope list_scope.

Record SecurityAuthinfoParams := MkSecurityAuthinfoParams { SecurityAuthinfoParams_TimeoutParams : TimeoutParams; SecurityAuthinfoParams_DebugParams : DebugParams; SecurityAuthinfoParams_AuthType : string;
  SecurityAuthinfoParams_Verbose : option bool }.
Definition SecurityAuthinfoParams_own (q : SecurityAuthinfoParams) : list param :=
  [("auth_type", nonEmpty (SecurityAuthinfoParams_AuthType q)); ("verbose", boolPtr (SecurityAuthinfoParams_Verbose q))].
Definition SecurityAuthinfoParams_slots : list (string * (SecurityAuthinfoParams -> slot)) :=
  [("AuthType", fun q => Text (SecurityAuthinfoParams_AuthType q)); ("Verbose", fun q => BoolPtr (SecurityAuthinfoParams_Verbose q))].
Definition SecurityAuthinfoParams_get (q : SecurityAuthinfoParams) : gmap string string :=
  encode_params (EncodeTimeout (SecurityAuthinfoParams_TimeoutParams q) ++ EncodeDebug (SecurityAuthinfoParams_DebugParams q) ++ SecurityAuthinfoParams_own q).
Record SecurityAuthinfoReq := MkSecurityAuthinfoReq { SecurityAuthinfoReq_Header : headers; SecurityAuthinfoReq_Params : option SecurityAuthinfoParams }.
Definition SecurityAuthinfoReq_GetRequest (r : SecurityAuthinfoReq) (method : string) : request_error + httpRequest * Z :=
  send method (SecurityAuthinfoPath_Build (MkSecurityAuthinfoPath))
    (match SecurityAuthinfoReq_Params r with Some q => SecurityAuthinfoParams_get q | None => ∅ end)
    no_body (SecurityAuthinfoReq_Header r).
Definition SecurityAuthinfo_Method (r : SecurityAuthinfoReq) : string := "GET".
#[export] Instance SecurityAuthinfo_operation : operation SecurityAuthinfoReq :=
  {| op_path := MkPathType "SecurityAuthinfoPath" SecurityAuthinfoPath _ _; op_P := SecurityAuthinfoParams; op_fields r := MkSecurityAuthinfoPath;
     op_params := SecurityAuthinfoReq_Params; op_defaults := None; op_timeout := SecurityAuthinfoParams_TimeoutParams; op_debug := SecurityAuthinfoParams_DebugParams;
     op_format := None; op_own := SecurityAuthinfoParams_own; op_slots := SecurityAuthinfoParams_slots;
     op_body _ := no_body; op_headers r := SecurityAuthinfoReq_Header r;
     Method := SecurityAuthinfo_Method; GetRequest := SecurityAuthinfoReq_GetRequest;
     op_keys := ["auth_type"; "verbose"];
     op_described := [("GET", "/_plugins/_security/authinfo"); ("POST", "/_plugins/_security/authinfo")];
     op_query := ["auth_type"; "verbose"] |}.
#[export] Instance SecurityAuthinfo_operates : LawfulOp SecurityAuthinfoReq.
Proof. operate. Qed.

Record SecurityAuthtokenParams := MkSecurityAuthtokenParams { SecurityAuthtokenParams_TimeoutParams : TimeoutParams; SecurityAuthtokenParams_DebugParams : DebugParams }.
Definition SecurityAuthtokenParams_own (q : SecurityAuthtokenParams) : list param :=
  [].
Definition SecurityAuthtokenParams_slots : list (string * (SecurityAuthtokenParams -> slot)) :=
  [].
Definition SecurityAuthtokenParams_get (q : SecurityAuthtokenParams) : gmap string string :=
  encode_params (EncodeTimeout (SecurityAuthtokenParams_TimeoutParams q) ++ EncodeDebug (SecurityAuthtokenParams_DebugParams q) ++ SecurityAuthtokenParams_own q).
Record SecurityAuthtokenReq := MkSecurityAuthtokenReq { SecurityAuthtokenReq_Header : headers; SecurityAuthtokenReq_Params : option SecurityAuthtokenParams }.
Definition SecurityAuthtokenReq_GetRequest (r : SecurityAuthtokenReq) (method : string) : request_error + httpRequest * Z :=
  send method (SecurityAuthtokenPath_Build (MkSecurityAuthtokenPath))
    (match SecurityAuthtokenReq_Params r with Some q => SecurityAuthtokenParams_get q | None => ∅ end)
    no_body (SecurityAuthtokenReq_Header r).
Definition SecurityAuthtoken_Method (r : SecurityAuthtokenReq) : string := "POST".
#[export] Instance SecurityAuthtoken_operation : operation SecurityAuthtokenReq :=
  {| op_path := MkPathType "SecurityAuthtokenPath" SecurityAuthtokenPath _ _; op_P := SecurityAuthtokenParams; op_fields r := MkSecurityAuthtokenPath;
     op_params := SecurityAuthtokenReq_Params; op_defaults := None; op_timeout := SecurityAuthtokenParams_TimeoutParams; op_debug := SecurityAuthtokenParams_DebugParams;
     op_format := None; op_own := SecurityAuthtokenParams_own; op_slots := SecurityAuthtokenParams_slots;
     op_body _ := no_body; op_headers r := SecurityAuthtokenReq_Header r;
     Method := SecurityAuthtoken_Method; GetRequest := SecurityAuthtokenReq_GetRequest;
     op_keys := [];
     op_described := [("POST", "/_plugins/_security/api/authtoken")];
     op_query := [] |}.
#[export] Instance SecurityAuthtoken_operates : LawfulOp SecurityAuthtokenReq.
Proof. operate. Qed.

Record SecurityChangePasswordParams := MkSecurityChangePasswordParams { SecurityChangePasswordParams_TimeoutParams : TimeoutParams; SecurityChangePasswordParams_DebugParams : DebugParams }.
Definition SecurityChangePasswordParams_own (q : SecurityChangePasswordParams) : list param :=
  [].
Definition SecurityChangePasswordParams_slots : list (string * (SecurityChangePasswordParams -> slot)) :=
  [].
Definition SecurityChangePasswordParams_get (q : SecurityChangePasswordParams) : gmap string string :=
  encode_params (EncodeTimeout (SecurityChangePasswordParams_TimeoutParams q) ++ EncodeDebug (SecurityChangePasswordParams_DebugParams q) ++ SecurityChangePasswordParams_own q).
Record SecurityChangePasswordReq := MkSecurityChangePasswordReq { SecurityChangePasswordReq_Body : option (option string); SecurityChangePasswordReq_BodyReader : reader; SecurityChangePasswordReq_Header : headers;
  SecurityChangePasswordReq_Params : option SecurityChangePasswordParams }.
Definition SecurityChangePasswordReq_GetRequest (r : SecurityChangePasswordReq) (method : string) : request_error + httpRequest * Z :=
  send method (SecurityChangePasswordPath_Build (MkSecurityChangePasswordPath))
    (match SecurityChangePasswordReq_Params r with Some q => SecurityChangePasswordParams_get q | None => ∅ end)
    (json_body (SecurityChangePasswordReq_Body r) (SecurityChangePasswordReq_BodyReader r)) (SecurityChangePasswordReq_Header r).
Definition SecurityChangePassword_Method (r : SecurityChangePasswordReq) : string := "PUT".
#[export] Instance SecurityChangePassword_operation : operation SecurityChangePasswordReq :=
  {| op_path := MkPathType "SecurityChangePasswordPath" SecurityChangePasswordPath _ _; op_P := SecurityChangePasswordParams; op_fields r := MkSecurityChangePasswordPath;
     op_params := SecurityChangePasswordReq_Params; op_defaults := None; op_timeout := SecurityChangePasswordParams_TimeoutParams; op_debug := SecurityChangePasswordParams_DebugParams;
     op_format := None; op_own := SecurityChangePasswordParams_own; op_slots := SecurityChangePasswordParams_slots;
     op_body r := json_body (SecurityChangePasswordReq_Body r) (SecurityChangePasswordReq_BodyReader r); op_headers r := SecurityChangePasswordReq_Header r;
     Method := SecurityChangePassword_Method; GetRequest := SecurityChangePasswordReq_GetRequest;
     op_keys := [];
     op_described := [("PUT", "/_plugins/_security/api/account")];
     op_query := [] |}.
#[export] Instance SecurityChangePassword_operates : LawfulOp SecurityChangePasswordReq.
Proof. operate. Qed.

Record SecurityConfigUpgradeCheckParams := MkSecurityConfigUpgradeCheckParams { SecurityConfigUpgradeCheckParams_TimeoutParams : TimeoutParams; SecurityConfigUpgradeCheckParams_DebugParams : DebugParams }.
Definition SecurityConfigUpgradeCheckParams_own (q : SecurityConfigUpgradeCheckParams) : list param :=
  [].
Definition SecurityConfigUpgradeCheckParams_slots : list (string * (SecurityConfigUpgradeCheckParams -> slot)) :=
  [].
Definition SecurityConfigUpgradeCheckParams_get (q : SecurityConfigUpgradeCheckParams) : gmap string string :=
  encode_params (EncodeTimeout (SecurityConfigUpgradeCheckParams_TimeoutParams q) ++ EncodeDebug (SecurityConfigUpgradeCheckParams_DebugParams q) ++ SecurityConfigUpgradeCheckParams_own q).
Record SecurityConfigUpgradeCheckReq := MkSecurityConfigUpgradeCheckReq { SecurityConfigUpgradeCheckReq_Header : headers; SecurityConfigUpgradeCheckReq_Params : option SecurityConfigUpgradeCheckParams }.
Definition SecurityConfigUpgradeCheckReq_GetRequest (r : SecurityConfigUpgradeCheckReq) (method : string) : request_error + httpRequest * Z :=
  send method (SecurityConfigUpgradeCheckPath_Build (MkSecurityConfigUpgradeCheckPath))
    (match SecurityConfigUpgradeCheckReq_Params r with Some q => SecurityConfigUpgradeCheckParams_get q | None => ∅ end)
    no_body (SecurityConfigUpgradeCheckReq_Header r).
Definition SecurityConfigUpgradeCheck_Method (r : SecurityConfigUpgradeCheckReq) : string := "GET".
#[export] Instance SecurityConfigUpgradeCheck_operation : operation SecurityConfigUpgradeCheckReq :=
  {| op_path := MkPathType "SecurityConfigUpgradeCheckPath" SecurityConfigUpgradeCheckPath _ _; op_P := SecurityConfigUpgradeCheckParams; op_fields r := MkSecurityConfigUpgradeCheckPath;
     op_params := SecurityConfigUpgradeCheckReq_Params; op_defaults := None; op_timeout := SecurityConfigUpgradeCheckParams_TimeoutParams; op_debug := SecurityConfigUpgradeCheckParams_DebugParams;
     op_format := None; op_own := SecurityConfigUpgradeCheckParams_own; op_slots := SecurityConfigUpgradeCheckParams_slots;
     op_body _ := no_body; op_headers r := SecurityConfigUpgradeCheckReq_Header r;
     Method := SecurityConfigUpgradeCheck_Method; GetRequest := SecurityConfigUpgradeCheckReq_GetRequest;
     op_keys := [];
     op_described := [("GET", "/_plugins/_security/api/_upgrade_check")];
     op_query := [] |}.
#[export] Instance SecurityConfigUpgradeCheck_operates : LawfulOp SecurityConfigUpgradeCheckReq.
Proof. operate. Qed.

Record SecurityConfigUpgradePerformParams := MkSecurityConfigUpgradePerformParams { SecurityConfigUpgradePerformParams_TimeoutParams : TimeoutParams; SecurityConfigUpgradePerformParams_DebugParams : DebugParams }.
Definition SecurityConfigUpgradePerformParams_own (q : SecurityConfigUpgradePerformParams) : list param :=
  [].
Definition SecurityConfigUpgradePerformParams_slots : list (string * (SecurityConfigUpgradePerformParams -> slot)) :=
  [].
Definition SecurityConfigUpgradePerformParams_get (q : SecurityConfigUpgradePerformParams) : gmap string string :=
  encode_params (EncodeTimeout (SecurityConfigUpgradePerformParams_TimeoutParams q) ++ EncodeDebug (SecurityConfigUpgradePerformParams_DebugParams q) ++ SecurityConfigUpgradePerformParams_own q).
Record SecurityConfigUpgradePerformReq := MkSecurityConfigUpgradePerformReq { SecurityConfigUpgradePerformReq_Body : option (option string); SecurityConfigUpgradePerformReq_BodyReader : reader;
  SecurityConfigUpgradePerformReq_Header : headers; SecurityConfigUpgradePerformReq_Params : option SecurityConfigUpgradePerformParams }.
Definition SecurityConfigUpgradePerformReq_GetRequest (r : SecurityConfigUpgradePerformReq) (method : string) : request_error + httpRequest * Z :=
  send method (SecurityConfigUpgradePerformPath_Build (MkSecurityConfigUpgradePerformPath))
    (match SecurityConfigUpgradePerformReq_Params r with Some q => SecurityConfigUpgradePerformParams_get q | None => ∅ end)
    (json_body (SecurityConfigUpgradePerformReq_Body r) (SecurityConfigUpgradePerformReq_BodyReader r)) (SecurityConfigUpgradePerformReq_Header r).
Definition SecurityConfigUpgradePerform_Method (r : SecurityConfigUpgradePerformReq) : string := "POST".
#[export] Instance SecurityConfigUpgradePerform_operation : operation SecurityConfigUpgradePerformReq :=
  {| op_path := MkPathType "SecurityConfigUpgradePerformPath" SecurityConfigUpgradePerformPath _ _; op_P := SecurityConfigUpgradePerformParams; op_fields r := MkSecurityConfigUpgradePerformPath;
     op_params := SecurityConfigUpgradePerformReq_Params; op_defaults := None; op_timeout := SecurityConfigUpgradePerformParams_TimeoutParams; op_debug := SecurityConfigUpgradePerformParams_DebugParams;
     op_format := None; op_own := SecurityConfigUpgradePerformParams_own; op_slots := SecurityConfigUpgradePerformParams_slots;
     op_body r := json_body (SecurityConfigUpgradePerformReq_Body r) (SecurityConfigUpgradePerformReq_BodyReader r); op_headers r := SecurityConfigUpgradePerformReq_Header r;
     Method := SecurityConfigUpgradePerform_Method; GetRequest := SecurityConfigUpgradePerformReq_GetRequest;
     op_keys := [];
     op_described := [("POST", "/_plugins/_security/api/_upgrade_perform")];
     op_query := [] |}.
#[export] Instance SecurityConfigUpgradePerform_operates : LawfulOp SecurityConfigUpgradePerformReq.
Proof. operate. Qed.

Record SecurityCreateActionGroupParams := MkSecurityCreateActionGroupParams { SecurityCreateActionGroupParams_TimeoutParams : TimeoutParams; SecurityCreateActionGroupParams_DebugParams : DebugParams }.
Definition SecurityCreateActionGroupParams_own (q : SecurityCreateActionGroupParams) : list param :=
  [].
Definition SecurityCreateActionGroupParams_slots : list (string * (SecurityCreateActionGroupParams -> slot)) :=
  [].
Definition SecurityCreateActionGroupParams_get (q : SecurityCreateActionGroupParams) : gmap string string :=
  encode_params (EncodeTimeout (SecurityCreateActionGroupParams_TimeoutParams q) ++ EncodeDebug (SecurityCreateActionGroupParams_DebugParams q) ++ SecurityCreateActionGroupParams_own q).
Record SecurityCreateActionGroupReq := MkSecurityCreateActionGroupReq { SecurityCreateActionGroupReq_ActionGroup : string; SecurityCreateActionGroupReq_Body : option (option string);
  SecurityCreateActionGroupReq_BodyReader : reader; SecurityCreateActionGroupReq_Header : headers;
  SecurityCreateActionGroupReq_Params : option SecurityCreateActionGroupParams }.
Definition SecurityCreateActionGroupReq_GetRequest (r : SecurityCreateActionGroupReq) (method : string) : request_error + httpRequest * Z :=
  send method (SecurityCreateActionGroupPath_Build (MkSecurityCreateActionGroupPath (SecurityCreateActionGroupReq_ActionGroup r)))
    (match SecurityCreateActionGroupReq_Params r with Some q => SecurityCreateActionGroupParams_get q | None => ∅ end)
    (json_body (SecurityCreateActionGroupReq_Body r) (SecurityCreateActionGroupReq_BodyReader r)) (SecurityCreateActionGroupReq_Header r).
Definition SecurityCreateActionGroup_Method (r : SecurityCreateActionGroupReq) : string := "PUT".
#[export] Instance SecurityCreateActionGroup_operation : operation SecurityCreateActionGroupReq :=
  {| op_path := MkPathType "SecurityCreateActionGroupPath" SecurityCreateActionGroupPath _ _; op_P := SecurityCreateActionGroupParams; op_fields r := MkSecurityCreateActionGroupPath (SecurityCreateActionGroupReq_ActionGroup r);
     op_params := SecurityCreateActionGroupReq_Params; op_defaults := None; op_timeout := SecurityCreateActionGroupParams_TimeoutParams; op_debug := SecurityCreateActionGroupParams_DebugParams;
     op_format := None; op_own := SecurityCreateActionGroupParams_own; op_slots := SecurityCreateActionGroupParams_slots;
     op_body r := json_body (SecurityCreateActionGroupReq_Body r) (SecurityCreateActionGroupReq_BodyReader r); op_headers r := SecurityCreateActionGroupReq_Header r;
     Method := SecurityCreateActionGroup_Method; GetRequest := SecurityCreateActionGroupReq_GetRequest;
     op_keys := [];
     op_described := [("PUT", "/_plugins/_security/api/actiongroups/{action_group}")];
     op_query := [] |}.
#[export] Instance SecurityCreateActionGroup_operates : LawfulOp SecurityCreateActionGroupReq.
Proof. operate. Qed.

Record SecurityCreateAllowlistParams := MkSecurityCreateAllowlistParams { SecurityCreateAllowlistParams_TimeoutParams : TimeoutParams; SecurityCreateAllowlistParams_DebugParams : DebugParams }.
Definition SecurityCreateAllowlistParams_own (q : SecurityCreateAllowlistParams) : list param :=
  [].
Definition SecurityCreateAllowlistParams_slots : list (string * (SecurityCreateAllowlistParams -> slot)) :=
  [].
Definition SecurityCreateAllowlistParams_get (q : SecurityCreateAllowlistParams) : gmap string string :=
  encode_params (EncodeTimeout (SecurityCreateAllowlistParams_TimeoutParams q) ++ EncodeDebug (SecurityCreateAllowlistParams_DebugParams q) ++ SecurityCreateAllowlistParams_own q).
Record SecurityCreateAllowlistReq := MkSecurityCreateAllowlistReq { SecurityCreateAllowlistReq_Body : option (option string); SecurityCreateAllowlistReq_BodyReader : reader;
  SecurityCreateAllowlistReq_Header : headers; SecurityCreateAllowlistReq_Params : option SecurityCreateAllowlistParams }.
Definition SecurityCreateAllowlistReq_GetRequest (r : SecurityCreateAllowlistReq) (method : string) : request_error + httpRequest * Z :=
  send method (SecurityCreateAllowlistPath_Build (MkSecurityCreateAllowlistPath))
    (match SecurityCreateAllowlistReq_Params r with Some q => SecurityCreateAllowlistParams_get q | None => ∅ end)
    (json_body (SecurityCreateAllowlistReq_Body r) (SecurityCreateAllowlistReq_BodyReader r)) (SecurityCreateAllowlistReq_Header r).
Definition SecurityCreateAllowlist_Method (r : SecurityCreateAllowlistReq) : string := "PUT".
#[export] Instance SecurityCreateAllowlist_operation : operation SecurityCreateAllowlistReq :=
  {| op_path := MkPathType "SecurityCreateAllowlistPath" SecurityCreateAllowlistPath _ _; op_P := SecurityCreateAllowlistParams; op_fields r := MkSecurityCreateAllowlistPath;
     op_params := SecurityCreateAllowlistReq_Params; op_defaults := None; op_timeout := SecurityCreateAllowlistParams_TimeoutParams; op_debug := SecurityCreateAllowlistParams_DebugParams;
     op_format := None; op_own := SecurityCreateAllowlistParams_own; op_slots := SecurityCreateAllowlistParams_slots;
     op_body r := json_body (SecurityCreateAllowlistReq_Body r) (SecurityCreateAllowlistReq_BodyReader r); op_headers r := SecurityCreateAllowlistReq_Header r;
     Method := SecurityCreateAllowlist_Method; GetRequest := SecurityCreateAllowlistReq_GetRequest;
     op_keys := [];
     op_described := [("PUT", "/_plugins/_security/api/allowlist")];
     op_query := [] |}.
#[export] Instance SecurityCreateAllowlist_operates : LawfulOp SecurityCreateAllowlistReq.
Proof. operate. Qed.

Record SecurityCreateRoleParams := MkSecurityCreateRoleParams { SecurityCreateRoleParams_TimeoutParams : TimeoutParams; SecurityCreateRoleParams_DebugParams : DebugParams }.
Definition SecurityCreateRoleParams_own (q : SecurityCreateRoleParams) : list param :=
  [].
Definition SecurityCreateRoleParams_slots : list (string * (SecurityCreateRoleParams -> slot)) :=
  [].
Definition SecurityCreateRoleParams_get (q : SecurityCreateRoleParams) : gmap string string :=
  encode_params (EncodeTimeout (SecurityCreateRoleParams_TimeoutParams q) ++ EncodeDebug (SecurityCreateRoleParams_DebugParams q) ++ SecurityCreateRoleParams_own q).
Record SecurityCreateRoleReq := MkSecurityCreateRoleReq { SecurityCreateRoleReq_Role : string; SecurityCreateRoleReq_Body : option (option string); SecurityCreateRoleReq_BodyReader : reader;
  SecurityCreateRoleReq_Header : headers; SecurityCreateRoleReq_Params : option SecurityCreateRoleParams }.
Definition SecurityCreateRoleReq_GetRequest (r : SecurityCreateRoleReq) (method : string) : request_error + httpRequest * Z :=
  send method (SecurityCreateRolePath_Build (MkSecurityCreateRolePath (SecurityCreateRoleReq_Role r)))
    (match SecurityCreateRoleReq_Params r with Some q => SecurityCreateRoleParams_get q | None => ∅ end)
    (json_body (SecurityCreateRoleReq_Body r) (SecurityCreateRoleReq_BodyReader r)) (SecurityCreateRoleReq_Header r).
Definition SecurityCreateRole_Method (r : SecurityCreateRoleReq) : string := "PUT".
#[export] Instance SecurityCreateRole_operation : operation SecurityCreateRoleReq :=
  {| op_path := MkPathType "SecurityCreateRolePath" SecurityCreateRolePath _ _; op_P := SecurityCreateRoleParams; op_fields r := MkSecurityCreateRolePath (SecurityCreateRoleReq_Role r);
     op_params := SecurityCreateRoleReq_Params; op_defaults := None; op_timeout := SecurityCreateRoleParams_TimeoutParams; op_debug := SecurityCreateRoleParams_DebugParams;
     op_format := None; op_own := SecurityCreateRoleParams_own; op_slots := SecurityCreateRoleParams_slots;
     op_body r := json_body (SecurityCreateRoleReq_Body r) (SecurityCreateRoleReq_BodyReader r); op_headers r := SecurityCreateRoleReq_Header r;
     Method := SecurityCreateRole_Method; GetRequest := SecurityCreateRoleReq_GetRequest;
     op_keys := [];
     op_described := [("PUT", "/_plugins/_security/api/roles/{role}")];
     op_query := [] |}.
#[export] Instance SecurityCreateRole_operates : LawfulOp SecurityCreateRoleReq.
Proof. operate. Qed.

Record SecurityCreateRoleMappingParams := MkSecurityCreateRoleMappingParams { SecurityCreateRoleMappingParams_TimeoutParams : TimeoutParams; SecurityCreateRoleMappingParams_DebugParams : DebugParams }.
Definition SecurityCreateRoleMappingParams_own (q : SecurityCreateRoleMappingParams) : list param :=
  [].
Definition SecurityCreateRoleMappingParams_slots : list (string * (SecurityCreateRoleMappingParams -> slot)) :=
  [].
Definition SecurityCreateRoleMappingParams_get (q : SecurityCreateRoleMappingParams) : gmap string string :=
  encode_params (EncodeTimeout (SecurityCreateRoleMappingParams_TimeoutParams q) ++ EncodeDebug (SecurityCreateRoleMappingParams_DebugParams q) ++ SecurityCreateRoleMappingParams_own q).
Record SecurityCreateRoleMappingReq := MkSecurityCreateRoleMappingReq { SecurityCreateRoleMappingReq_Role : string; SecurityCreateRoleMappingReq_Body : option (option string);
  SecurityCreateRoleMappingReq_BodyReader : reader; SecurityCreateRoleMappingReq_Header : headers;
  SecurityCreateRoleMappingReq_Params : option SecurityCreateRoleMappingParams }.
Definition SecurityCreateRoleMappingReq_GetRequest (r : SecurityCreateRoleMappingReq) (method : string) : request_error + httpRequest * Z :=
  send method (SecurityCreateRoleMappingPath_Build (MkSecurityCreateRoleMappingPath (SecurityCreateRoleMappingReq_Role r)))
    (match SecurityCreateRoleMappingReq_Params r with Some q => SecurityCreateRoleMappingParams_get q | None => ∅ end)
    (json_body (SecurityCreateRoleMappingReq_Body r) (SecurityCreateRoleMappingReq_BodyReader r)) (SecurityCreateRoleMappingReq_Header r).
Definition SecurityCreateRoleMapping_Method (r : SecurityCreateRoleMappingReq) : string := "PUT".
#[export] Instance SecurityCreateRoleMapping_operation : operation SecurityCreateRoleMappingReq :=
  {| op_path := MkPathType "SecurityCreateRoleMappingPath" SecurityCreateRoleMappingPath _ _; op_P := SecurityCreateRoleMappingParams; op_fields r := MkSecurityCreateRoleMappingPath (SecurityCreateRoleMappingReq_Role r);
     op_params := SecurityCreateRoleMappingReq_Params; op_defaults := None; op_timeout := SecurityCreateRoleMappingParams_TimeoutParams; op_debug := SecurityCreateRoleMappingParams_DebugParams;
     op_format := None; op_own := SecurityCreateRoleMappingParams_own; op_slots := SecurityCreateRoleMappingParams_slots;
     op_body r := json_body (SecurityCreateRoleMappingReq_Body r) (SecurityCreateRoleMappingReq_BodyReader r); op_headers r := SecurityCreateRoleMappingReq_Header r;
     Method := SecurityCreateRoleMapping_Method; GetRequest := SecurityCreateRoleMappingReq_GetRequest;
     op_keys := [];
     op_described := [("PUT", "/_plugins/_security/api/rolesmapping/{role}")];
     op_query := [] |}.
#[export] Instance SecurityCreateRoleMapping_operates : LawfulOp SecurityCreateRoleMappingReq.
Proof. operate. Qed.

Record SecurityCreateTenantParams := MkSecurityCreateTenantParams { SecurityCreateTenantParams_TimeoutParams : TimeoutParams; SecurityCreateTenantParams_DebugParams : DebugParams }.
Definition SecurityCreateTenantParams_own (q : SecurityCreateTenantParams) : list param :=
  [].
Definition SecurityCreateTenantParams_slots : list (string * (SecurityCreateTenantParams -> slot)) :=
  [].
Definition SecurityCreateTenantParams_get (q : SecurityCreateTenantParams) : gmap string string :=
  encode_params (EncodeTimeout (SecurityCreateTenantParams_TimeoutParams q) ++ EncodeDebug (SecurityCreateTenantParams_DebugParams q) ++ SecurityCreateTenantParams_own q).
Record SecurityCreateTenantReq := MkSecurityCreateTenantReq { SecurityCreateTenantReq_Tenant : string; SecurityCreateTenantReq_Body : option (option string); SecurityCreateTenantReq_BodyReader : reader;
  SecurityCreateTenantReq_Header : headers; SecurityCreateTenantReq_Params : option SecurityCreateTenantParams }.
Definition SecurityCreateTenantReq_GetRequest (r : SecurityCreateTenantReq) (method : string) : request_error + httpRequest * Z :=
  send method (SecurityCreateTenantPath_Build (MkSecurityCreateTenantPath (SecurityCreateTenantReq_Tenant r)))
    (match SecurityCreateTenantReq_Params r with Some q => SecurityCreateTenantParams_get q | None => ∅ end)
    (json_body (SecurityCreateTenantReq_Body r) (SecurityCreateTenantReq_BodyReader r)) (SecurityCreateTenantReq_Header r).
Definition SecurityCreateTenant_Method (r : SecurityCreateTenantReq) : string := "PUT".
#[export] Instance SecurityCreateTenant_operation : operation SecurityCreateTenantReq :=
  {| op_path := MkPathType "SecurityCreateTenantPath" SecurityCreateTenantPath _ _; op_P := SecurityCreateTenantParams; op_fields r := MkSecurityCreateTenantPath (SecurityCreateTenantReq_Tenant r);
     op_params := SecurityCreateTenantReq_Params; op_defaults := None; op_timeout := SecurityCreateTenantParams_TimeoutParams; op_debug := SecurityCreateTenantParams_DebugParams;
     op_format := None; op_own := SecurityCreateTenantParams_own; op_slots := SecurityCreateTenantParams_slots;
     op_body r := json_body (SecurityCreateTenantReq_Body r) (SecurityCreateTenantReq_BodyReader r); op_headers r := SecurityCreateTenantReq_Header r;
     Method := SecurityCreateTenant_Method; GetRequest := SecurityCreateTenantReq_GetRequest;
     op_keys := [];
     op_described := [("PUT", "/_plugins/_security/api/tenants/{tenant}")];
     op_query := [] |}.
#[export] Instance SecurityCreateTenant_operates : LawfulOp SecurityCreateTenantReq.
Proof. operate. Qed.

Record SecurityCreateUpdateTenancyConfigParams := MkSecurityCreateUpdateTenancyConfigParams { SecurityCreateUpdateTenancyConfigParams_TimeoutParams : TimeoutParams; SecurityCreateUpdateTenancyConfigParams_DebugParams : DebugParams }.
Definition SecurityCreateUpdateTenancyConfigParams_own (q : SecurityCreateUpdateTenancyConfigParams) : list param :=
  [].
Definition SecurityCreateUpdateTenancyConfigParams_slots : list (string * (SecurityCreateUpdateTenancyConfigParams -> slot)) :=
  [].
Definition SecurityCreateUpdateTenancyConfigParams_get (q : SecurityCreateUpdateTenancyConfigParams) : gmap string string :=
  encode_params (EncodeTimeout (SecurityCreateUpdateTenancyConfigParams_TimeoutParams q) ++ EncodeDebug (SecurityCreateUpdateTenancyConfigParams_DebugParams q) ++ SecurityCreateUpdateTenancyConfigParams_own q).
Record SecurityCreateUpdateTenancyConfigReq := MkSecurityCreateUpdateTenancyConfigReq { SecurityCreateUpdateTenancyConfigReq_Body : option (option string); SecurityCreateUpdateTenancyConfigReq_BodyReader : reader;
  SecurityCreateUpdateTenancyConfigReq_Header : headers; SecurityCreateUpdateTenancyConfigReq_Params : option SecurityCreateUpdateTenancyConfigParams }.
Definition SecurityCreateUpdateTenancyConfigReq_GetRequest (r : SecurityCreateUpdateTenancyConfigReq) (method : string) : request_error + httpRequest * Z :=
  send method (SecurityCreateUpdateTenancyConfigPath_Build (MkSecurityCreateUpdateTenancyConfigPath))
    (match SecurityCreateUpdateTenancyConfigReq_Params r with Some q => SecurityCreateUpdateTenancyConfigParams_get q | None => ∅ end)
    (json_body (SecurityCreateUpdateTenancyConfigReq_Body r) (SecurityCreateUpdateTenancyConfigReq_BodyReader r)) (SecurityCreateUpdateTenancyConfigReq_Header r).
Definition SecurityCreateUpdateTenancyConfig_Method (r : SecurityCreateUpdateTenancyConfigReq) : string := "PUT".
#[export] Instance SecurityCreateUpdateTenancyConfig_operation : operation SecurityCreateUpdateTenancyConfigReq :=
  {| op_path := MkPathType "SecurityCreateUpdateTenancyConfigPath" SecurityCreateUpdateTenancyConfigPath _ _; op_P := SecurityCreateUpdateTenancyConfigParams; op_fields r := MkSecurityCreateUpdateTenancyConfigPath;
     op_params := SecurityCreateUpdateTenancyConfigReq_Params; op_defaults := None; op_timeout := SecurityCreateUpdateTenancyConfigParams_TimeoutParams; op_debug := SecurityCreateUpdateTenancyConfigParams_DebugParams;
     op_format := None; op_own := SecurityCreateUpdateTenancyConfigParams_own; op_slots := SecurityCreateUpdateTenancyConfigParams_slots;
     op_body r := json_body (SecurityCreateUpdateTenancyConfigReq_Body r) (SecurityCreateUpdateTenancyConfigReq_BodyReader r); op_headers r := SecurityCreateUpdateTenancyConfigReq_Header r;
     Method := SecurityCreateUpdateTenancyConfig_Method; GetRequest := SecurityCreateUpdateTenancyConfigReq_GetRequest;
     op_keys := [];
     op_described := [("PUT", "/_plugins/_security/api/tenancy/config")];
     op_query := [] |}.
#[export] Instance SecurityCreateUpdateTenancyConfig_operates : LawfulOp SecurityCreateUpdateTenancyConfigReq.
Proof. operate. Qed.

Record SecurityCreateUserParams := MkSecurityCreateUserParams { SecurityCreateUserParams_TimeoutParams : TimeoutParams; SecurityCreateUserParams_DebugParams : DebugParams }.
Definition SecurityCreateUserParams_own (q : SecurityCreateUserParams) : list param :=
  [].
Definition SecurityCreateUserParams_slots : list (string * (SecurityCreateUserParams -> slot)) :=
  [].
Definition SecurityCreateUserParams_get (q : SecurityCreateUserParams) : gmap string string :=
  encode_params (EncodeTimeout (SecurityCreateUserParams_TimeoutParams q) ++ EncodeDebug (SecurityCreateUserParams_DebugParams q) ++ SecurityCreateUserParams_own q).
Record SecurityCreateUserReq := MkSecurityCreateUserReq { SecurityCreateUserReq_Username : string; SecurityCreateUserReq_Body : option (option string); SecurityCreateUserReq_BodyReader : reader;
  SecurityCreateUserReq_Header : headers; SecurityCreateUserReq_Params : option SecurityCreateUserParams }.
Definition SecurityCreateUserReq_GetRequest (r : SecurityCreateUserReq) (method : string) : request_error + httpRequest * Z :=
  send method (SecurityCreateUserPath_Build (MkSecurityCreateUserPath (SecurityCreateUserReq_Username r)))
    (match SecurityCreateUserReq_Params r with Some q => SecurityCreateUserParams_get q | None => ∅ end)
    (json_body (SecurityCreateUserReq_Body r) (SecurityCreateUserReq_BodyReader r)) (SecurityCreateUserReq_Header r).
Definition SecurityCreateUser_Method (r : SecurityCreateUserReq) : string := "PUT".
#[export] Instance SecurityCreateUser_operation : operation SecurityCreateUserReq :=
  {| op_path := MkPathType "SecurityCreateUserPath" SecurityCreateUserPath _ _; op_P := SecurityCreateUserParams; op_fields r := MkSecurityCreateUserPath (SecurityCreateUserReq_Username r);
     op_params := SecurityCreateUserReq_Params; op_defaults := None; op_timeout := SecurityCreateUserParams_TimeoutParams; op_debug := SecurityCreateUserParams_DebugParams;
     op_format := None; op_own := SecurityCreateUserParams_own; op_slots := SecurityCreateUserParams_slots;
     op_body r := json_body (SecurityCreateUserReq_Body r) (SecurityCreateUserReq_BodyReader r); op_headers r := SecurityCreateUserReq_Header r;
     Method := SecurityCreateUser_Method; GetRequest := SecurityCreateUserReq_GetRequest;
     op_keys := [];
     op_described := [("PUT", "/_plugins/_security/api/internalusers/{username}")];
     op_query := [] |}.
#[export] Instance SecurityCreateUser_operates : LawfulOp SecurityCreateUserReq.
Proof. operate. Qed.

Record SecurityCreateUserLegacyParams := MkSecurityCreateUserLegacyParams { SecurityCreateUserLegacyParams_TimeoutParams : TimeoutParams; SecurityCreateUserLegacyParams_DebugParams : DebugParams }.
Definition SecurityCreateUserLegacyParams_own (q : SecurityCreateUserLegacyParams) : list param :=
  [].
Definition SecurityCreateUserLegacyParams_slots : list (string * (SecurityCreateUserLegacyParams -> slot)) :=
  [].
Definition SecurityCreateUserLegacyParams_get (q : SecurityCreateUserLegacyParams) : gmap string string :=
  encode_params (EncodeTimeout (SecurityCreateUserLegacyParams_TimeoutParams q) ++ EncodeDebug (SecurityCreateUserLegacyParams_DebugParams q) ++ SecurityCreateUserLegacyParams_own q).
Record SecurityCreateUserLegacyReq := MkSecurityCreateUserLegacyReq { SecurityCreateUserLegacyReq_Username : string; SecurityCreateUserLegacyReq_Body : option (option string);
  SecurityCreateUserLegacyReq_BodyReader : reader; SecurityCreateUserLegacyReq_Header : headers;
  SecurityCreateUserLegacyReq_Params : option SecurityCreateUserLegacyParams }.
Definition SecurityCreateUserLegacyReq_GetRequest (r : SecurityCreateUserLegacyReq) (method : string) : request_error + httpRequest * Z :=
  send method (SecurityCreateUserLegacyPath_Build (MkSecurityCreateUserLegacyPath (SecurityCreateUserLegacyReq_Username r)))
    (match SecurityCreateUserLegacyReq_Params r with Some q => SecurityCreateUserLegacyParams_get q | None => ∅ end)
    (json_body (SecurityCreateUserLegacyReq_Body r) (SecurityCreateUserLegacyReq_BodyReader r)) (SecurityCreateUserLegacyReq_Header r).
Definition SecurityCreateUserLegacy_Method (r : SecurityCreateUserLegacyReq) : string := "PUT".
#[export] Instance SecurityCreateUserLegacy_operation : operation SecurityCreateUserLegacyReq :=
  {| op_path := MkPathType "SecurityCreateUserLegacyPath" SecurityCreateUserLegacyPath _ _; op_P := SecurityCreateUserLegacyParams; op_fields r := MkSecurityCreateUserLegacyPath (SecurityCreateUserLegacyReq_Username r);
     op_params := SecurityCreateUserLegacyReq_Params; op_defaults := None; op_timeout := SecurityCreateUserLegacyParams_TimeoutParams; op_debug := SecurityCreateUserLegacyParams_DebugParams;
     op_format := None; op_own := SecurityCreateUserLegacyParams_own; op_slots := SecurityCreateUserLegacyParams_slots;
     op_body r := json_body (SecurityCreateUserLegacyReq_Body r) (SecurityCreateUserLegacyReq_BodyReader r); op_headers r := SecurityCreateUserLegacyReq_Header r;
     Method := SecurityCreateUserLegacy_Method; GetRequest := SecurityCreateUserLegacyReq_GetRequest;
     op_keys := [];
     op_described := [("PUT", "/_plugins/_security/api/user/{username}")];
     op_query := [] |}.
#[export] Instance SecurityCreateUserLegacy_operates : LawfulOp SecurityCreateUserLegacyReq.
Proof. operate. Qed.

Record SecurityDeleteActionGroupParams := MkSecurityDeleteActionGroupParams { SecurityDeleteActionGroupParams_TimeoutParams : TimeoutParams; SecurityDeleteActionGroupParams_DebugParams : DebugParams }.
Definition SecurityDeleteActionGroupParams_own (q : SecurityDeleteActionGroupParams) : list param :=
  [].
Definition SecurityDeleteActionGroupParams_slots : list (string * (SecurityDeleteActionGroupParams -> slot)) :=
  [].
Definition SecurityDeleteActionGroupParams_get (q : SecurityDeleteActionGroupParams) : gmap string string :=
  encode_params (EncodeTimeout (SecurityDeleteActionGroupParams_TimeoutParams q) ++ EncodeDebug (SecurityDeleteActionGroupParams_DebugParams q) ++ SecurityDeleteActionGroupParams_own q).
Record SecurityDeleteActionGroupReq := MkSecurityDeleteActionGroupReq { SecurityDeleteActionGroupReq_ActionGroup : string; SecurityDeleteActionGroupReq_Header : headers;
  SecurityDeleteActionGroupReq_Params : option SecurityDeleteActionGroupParams }.
Definition SecurityDeleteActionGroupReq_GetRequest (r : SecurityDeleteActionGroupReq) (method : string) : request_error + httpRequest * Z :=
  send method (SecurityDeleteActionGroupPath_Build (MkSecurityDeleteActionGroupPath (SecurityDeleteActionGroupReq_ActionGroup r)))
    (match SecurityDeleteActionGroupReq_Params r with Some q => SecurityDeleteActionGroupParams_get q | None => ∅ end)
    no_body (SecurityDeleteActionGroupReq_Header r).
Definition SecurityDeleteActionGroup_Method (r : SecurityDeleteActionGroupReq) : string := "DELETE".
#[export] Instance SecurityDeleteActionGroup_operation : operation SecurityDeleteActionGroupReq :=
  {| op_path := MkPathType "SecurityDeleteActionGroupPath" SecurityDeleteActionGroupPath _ _; op_P := SecurityDeleteActionGroupParams; op_fields r := MkSecurityDeleteActionGroupPath (SecurityDeleteActionGroupReq_ActionGroup r);
     op_params := SecurityDeleteActionGroupReq_Params; op_defaults := None; op_timeout := SecurityDeleteActionGroupParams_TimeoutParams; op_debug := SecurityDeleteActionGroupParams_DebugParams;
     op_format := None; op_own := SecurityDeleteActionGroupParams_own; op_slots := SecurityDeleteActionGroupParams_slots;
     op_body _ := no_body; op_headers r := SecurityDeleteActionGroupReq_Header r;
     Method := SecurityDeleteActionGroup_Method; GetRequest := SecurityDeleteActionGroupReq_GetRequest;
     op_keys := [];
     op_described := [("DELETE", "/_plugins/_security/api/actiongroups/{action_group}")];
     op_query := [] |}.
#[export] Instance SecurityDeleteActionGroup_operates : LawfulOp SecurityDeleteActionGroupReq.
Proof. operate. Qed.

Record SecurityDeleteDistinguishedNameParams := MkSecurityDeleteDistinguishedNameParams { SecurityDeleteDistinguishedNameParams_TimeoutParams : TimeoutParams; SecurityDeleteDistinguishedNameParams_DebugParams : DebugParams }.
Definition SecurityDeleteDistinguishedNameParams_own (q : SecurityDeleteDistinguishedNameParams) : list param :=
  [].
Definition SecurityDeleteDistinguishedNameParams_slots : list (string * (SecurityDeleteDistinguishedNameParams -> slot)) :=
  [].
Definition SecurityDeleteDistinguishedNameParams_get (q : SecurityDeleteDistinguishedNameParams) : gmap string string :=
  encode_params (EncodeTimeout (SecurityDeleteDistinguishedNameParams_TimeoutParams q) ++ EncodeDebug (SecurityDeleteDistinguishedNameParams_DebugParams q) ++ SecurityDeleteDistinguishedNameParams_own q).
Record SecurityDeleteDistinguishedNameReq := MkSecurityDeleteDistinguishedNameReq { SecurityDeleteDistinguishedNameReq_ClusterName : string; SecurityDeleteDistinguishedNameReq_Header : headers;
  SecurityDeleteDistinguishedNameReq_Params : option SecurityDeleteDistinguishedNameParams }.
Definition SecurityDeleteDistinguishedNameReq_GetRequest (r : SecurityDeleteDistinguishedNameReq) (method : string) : request_error + httpRequest * Z :=
  send method (SecurityDeleteDistinguishedNamePath_Build (MkSecurityDeleteDistinguishedNamePath (SecurityDeleteDistinguishedNameReq_ClusterName r)))
    (match SecurityDeleteDistinguishedNameReq_Params r with Some q => SecurityDeleteDistinguishedNameParams_get q | None => ∅ end)
    no_body (SecurityDeleteDistinguishedNameReq_Header r).
Definition SecurityDeleteDistinguishedName_Method (r : SecurityDeleteDistinguishedNameReq) : string := "DELETE".
#[export] Instance SecurityDeleteDistinguishedName_operation : operation SecurityDeleteDistinguishedNameReq :=
  {| op_path := MkPathType "SecurityDeleteDistinguishedNamePath" SecurityDeleteDistinguishedNamePath _ _; op_P := SecurityDeleteDistinguishedNameParams; op_fields r := MkSecurityDeleteDistinguishedNamePath (SecurityDeleteDistinguishedNameReq_ClusterName r);
     op_params := SecurityDeleteDistinguishedNameReq_Params; op_defaults := None; op_timeout := SecurityDeleteDistinguishedNameParams_TimeoutParams; op_debug := SecurityDeleteDistinguishedNameParams_DebugParams;
     op_format := None; op_own := SecurityDeleteDistinguishedNameParams_own; op_slots := SecurityDeleteDistinguishedNameParams_slots;
     op_body _ := no_body; op_headers r := SecurityDeleteDistinguishedNameReq_Header r;
     Method := SecurityDeleteDistinguishedName_Method; GetRequest := SecurityDeleteDistinguishedNameReq_GetRequest;
     op_keys := [];
     op_described := [("DELETE", "/_plugins/_security/api/nodesdn/{cluster_name}")];
     op_query := [] |}.
#[export] Instance SecurityDeleteDistinguishedName_operates : LawfulOp SecurityDeleteDistinguishedNameReq.
Proof. operate. Qed.

Record SecurityDeleteRoleParams := MkSecurityDeleteRoleParams { SecurityDeleteRoleParams_TimeoutParams : TimeoutParams; SecurityDeleteRoleParams_DebugParams : DebugParams }.
Definition SecurityDeleteRoleParams_own (q : SecurityDeleteRoleParams) : list param :=
  [].
Definition SecurityDeleteRoleParams_slots : list (string * (SecurityDeleteRoleParams -> slot)) :=
  [].
Definition SecurityDeleteRoleParams_get (q : SecurityDeleteRoleParams) : gmap string string :=
  encode_params (EncodeTimeout (SecurityDeleteRoleParams_TimeoutParams q) ++ EncodeDebug (SecurityDeleteRoleParams_DebugParams q) ++ SecurityDeleteRoleParams_own q).
Record SecurityDeleteRoleReq := MkSecurityDeleteRoleReq { SecurityDeleteRoleReq_Role : string; SecurityDeleteRoleReq_Header : headers; SecurityDeleteRoleReq_Params : option SecurityDeleteRoleParams }.
Definition SecurityDeleteRoleReq_GetRequest (r : SecurityDeleteRoleReq) (method : string) : request_error + httpRequest * Z :=
  send method (SecurityDeleteRolePath_Build (MkSecurityDeleteRolePath (SecurityDeleteRoleReq_Role r)))
    (match SecurityDeleteRoleReq_Params r with Some q => SecurityDeleteRoleParams_get q | None => ∅ end)
    no_body (SecurityDeleteRoleReq_Header r).
Definition SecurityDeleteRole_Method (r : SecurityDeleteRoleReq) : string := "DELETE".
#[export] Instance SecurityDeleteRole_operation : operation SecurityDeleteRoleReq :=
  {| op_path := MkPathType "SecurityDeleteRolePath" SecurityDeleteRolePath _ _; op_P := SecurityDeleteRoleParams; op_fields r := MkSecurityDeleteRolePath (SecurityDeleteRoleReq_Role r);
     op_params := SecurityDeleteRoleReq_Params; op_defaults := None; op_timeout := SecurityDeleteRoleParams_TimeoutParams; op_debug := SecurityDeleteRoleParams_DebugParams;
     op_format := None; op_own := SecurityDeleteRoleParams_own; op_slots := SecurityDeleteRoleParams_slots;
     op_body _ := no_body; op_headers r := SecurityDeleteRoleReq_Header r;
     Method := SecurityDeleteRole_Method; GetRequest := SecurityDeleteRoleReq_GetRequest;
     op_keys := [];
     op_described := [("DELETE", "/_plugins/_security/api/roles/{role}")];
     op_query := [] |}.
#[export] Instance SecurityDeleteRole_operates : LawfulOp SecurityDeleteRoleReq.
Proof. operate. Qed.

Record SecurityDeleteRoleMappingParams := MkSecurityDeleteRoleMappingParams { SecurityDeleteRoleMappingParams_TimeoutParams : TimeoutParams; SecurityDeleteRoleMappingParams_DebugParams : DebugParams }.
Definition SecurityDeleteRoleMappingParams_own (q : SecurityDeleteRoleMappingParams) : list param :=
  [].
Definition SecurityDeleteRoleMappingParams_slots : list (string * (SecurityDeleteRoleMappingParams -> slot)) :=
  [].
Definition SecurityDeleteRoleMappingParams_get (q : SecurityDeleteRoleMappingParams) : gmap string string :=
  encode_params (EncodeTimeout (SecurityDeleteRoleMappingParams_TimeoutParams q) ++ EncodeDebug (SecurityDeleteRoleMappingParams_DebugParams q) ++ SecurityDeleteRoleMappingParams_own q).
Record SecurityDeleteRoleMappingReq := MkSecurityDeleteRoleMappingReq { SecurityDeleteRoleMappingReq_Role : string; SecurityDeleteRoleMappingReq_Header : headers;
  SecurityDeleteRoleMappingReq_Params : option SecurityDeleteRoleMappingParams }.
Definition SecurityDeleteRoleMappingReq_GetRequest (r : SecurityDeleteRoleMappingReq) (method : string) : request_error + httpRequest * Z :=
  send method (SecurityDeleteRoleMappingPath_Build (MkSecurityDeleteRoleMappingPath (SecurityDeleteRoleMappingReq_Role r)))
    (match SecurityDeleteRoleMappingReq_Params r with Some q => SecurityDeleteRoleMappingParams_get q | None => ∅ end)
    no_body (SecurityDeleteRoleMappingReq_Header r).
Definition SecurityDeleteRoleMapping_Method (r : SecurityDeleteRoleMappingReq) : string := "DELETE".
#[export] Instance SecurityDeleteRoleMapping_operation : operation SecurityDeleteRoleMappingReq :=
  {| op_path := MkPathType "SecurityDeleteRoleMappingPath" SecurityDeleteRoleMappingPath _ _; op_P := SecurityDeleteRoleMappingParams; op_fields r := MkSecurityDeleteRoleMappingPath (SecurityDeleteRoleMappingReq_Role r);
     op_params := SecurityDeleteRoleMappingReq_Params; op_defaults := None; op_timeout := SecurityDeleteRoleMappingParams_TimeoutParams; op_debug := SecurityDeleteRoleMappingParams_DebugParams;
     op_format := None; op_own := SecurityDeleteRoleMappingParams_own; op_slots := SecurityDeleteRoleMappingParams_slots;
     op_body _ := no_body; op_headers r := SecurityDeleteRoleMappingReq_Header r;
     Method := SecurityDeleteRoleMapping_Method; GetRequest := SecurityDeleteRoleMappingReq_GetRequest;
     op_keys := [];
     op_described := [("DELETE", "/_plugins/_security/api/rolesmapping/{role}")];
     op_query := [] |}.
#[export] Instance SecurityDeleteRoleMapping_operates : LawfulOp SecurityDeleteRoleMappingReq.
Proof. operate. Qed.

Record SecurityDeleteTenantParams := MkSecurityDeleteTenantParams { SecurityDeleteTenantParams_TimeoutParams : TimeoutParams; SecurityDeleteTenantParams_DebugParams : DebugParams }.
Definition SecurityDeleteTenantParams_own (q : SecurityDeleteTenantParams) : list param :=
  [].
Definition SecurityDeleteTenantParams_slots : list (string * (SecurityDeleteTenantParams -> slot)) :=
  [].
Definition SecurityDeleteTenantParams_get (q : SecurityDeleteTenantParams) : gmap string string :=
  encode_params (EncodeTimeout (SecurityDeleteTenantParams_TimeoutParams q) ++ EncodeDebug (SecurityDeleteTenantParams_DebugParams q) ++ SecurityDeleteTenantParams_own q).
Record SecurityDeleteTenantReq := MkSecurityDeleteTenantReq { SecurityDeleteTenantReq_Tenant : string; SecurityDeleteTenantReq_Header : headers; SecurityDeleteTenantReq_Params : option SecurityDeleteTenantParams }.
Definition SecurityDeleteTenantReq_GetRequest (r : SecurityDeleteTenantReq) (method : string) : request_error + httpRequest * Z :=
  send method (SecurityDeleteTenantPath_Build (MkSecurityDeleteTenantPath (SecurityDeleteTenantReq_Tenant r)))
    (match SecurityDeleteTenantReq_Params r with Some q => SecurityDeleteTenantParams_get q | None => ∅ end)
    no_body (SecurityDeleteTenantReq_Header r).
Definition SecurityDeleteTenant_Method (r : SecurityDeleteTenantReq) : string := "DELETE".
#[export] Instance SecurityDeleteTenant_operation : operation SecurityDeleteTenantReq :=
  {| op_path := MkPathType "SecurityDeleteTenantPath" SecurityDeleteTenantPath _ _; op_P := SecurityDeleteTenantParams; op_fields r := MkSecurityDeleteTenantPath (SecurityDeleteTenantReq_Tenant r);
     op_params := SecurityDeleteTenantReq_Params; op_defaults := None; op_timeout := SecurityDeleteTenantParams_TimeoutParams; op_debug := SecurityDeleteTenantParams_DebugParams;
     op_format := None; op_own := SecurityDeleteTenantParams_own; op_slots := SecurityDeleteTenantParams_slots;
     op_body _ := no_body; op_headers r := SecurityDeleteTenantReq_Header r;
     Method := SecurityDeleteTenant_Method; GetRequest := SecurityDeleteTenantReq_GetRequest;
     op_keys := [];
     op_described := [("DELETE", "/_plugins/_security/api/tenants/{tenant}")];
     op_query := [] |}.
#[export] Instance SecurityDeleteTenant_operates : LawfulOp SecurityDeleteTenantReq.
Proof. operate. Qed.

Record SecurityDeleteUserParams := MkSecurityDeleteUserParams { SecurityDeleteUserParams_TimeoutParams : TimeoutParams; SecurityDeleteUserParams_DebugParams : DebugParams }.
Definition SecurityDeleteUserParams_own (q : SecurityDeleteUserParams) : list param :=
  [].
Definition SecurityDeleteUserParams_slots : list (string * (SecurityDeleteUserParams -> slot)) :=
  [].
Definition SecurityDeleteUserParams_get (q : SecurityDeleteUserParams) : gmap string string :=
  encode_params (EncodeTimeout (SecurityDeleteUserParams_TimeoutParams q) ++ EncodeDebug (SecurityDeleteUserParams_DebugParams q) ++ SecurityDeleteUserParams_own q).
Record SecurityDeleteUserReq := MkSecurityDeleteUserReq { SecurityDeleteUserReq_Username : string; SecurityDeleteUserReq_Header : headers; SecurityDeleteUserReq_Params : option SecurityDeleteUserParams }.
Definition SecurityDeleteUserReq_GetRequest (r : SecurityDeleteUserReq) (method : string) : request_error + httpRequest * Z :=
  send method (SecurityDeleteUserPath_Build (MkSecurityDeleteUserPath (SecurityDeleteUserReq_Username r)))
    (match SecurityDeleteUserReq_Params r with Some q => SecurityDeleteUserParams_get q | None => ∅ end)
    no_body (SecurityDeleteUserReq_Header r).
Definition SecurityDeleteUser_Method (r : SecurityDeleteUserReq) : string := "DELETE".
#[export] Instance SecurityDeleteUser_operation : operation SecurityDeleteUserReq :=
  {| op_path := MkPathType "SecurityDeleteUserPath" SecurityDeleteUserPath _ _; op_P := SecurityDeleteUserParams; op_fields r := MkSecurityDeleteUserPath (SecurityDeleteUserReq_Username r);
     op_params := SecurityDeleteUserReq_Params; op_defaults := None; op_timeout := SecurityDeleteUserParams_TimeoutParams; op_debug := SecurityDeleteUserParams_DebugParams;
     op_format := None; op_own := SecurityDeleteUserParams_own; op_slots := SecurityDeleteUserParams_slots;
     op_body _ := no_body; op_headers r := SecurityDeleteUserReq_Header r;
     Method := SecurityDeleteUser_Method; GetRequest := SecurityDeleteUserReq_GetRequest;
     op_keys := [];
     op_described := [("DELETE", "/_plugins/_security/api/internalusers/{username}")];
     op_query := [] |}.
#[export] Instance SecurityDeleteUser_operates : LawfulOp SecurityDeleteUserReq.
Proof. operate. Qed.

Record SecurityDeleteUserLegacyParams := MkSecurityDeleteUserLegacyParams { SecurityDeleteUserLegacyParams_TimeoutParams : TimeoutParams; SecurityDeleteUserLegacyParams_DebugParams : DebugParams }.
Definition SecurityDeleteUserLegacyParams_own (q : SecurityDeleteUserLegacyParams) : list param :=
  [].
Definition SecurityDeleteUserLegacyParams_slots : list (string * (SecurityDeleteUserLegacyParams -> slot)) :=
  [].
Definition SecurityDeleteUserLegacyParams_get (q : SecurityDeleteUserLegacyParams) : gmap string string :=
  encode_params (EncodeTimeout (SecurityDeleteUserLegacyParams_TimeoutParams q) ++ EncodeDebug (SecurityDeleteUserLegacyParams_DebugParams q) ++ SecurityDeleteUserLegacyParams_own q).
Record SecurityDeleteUserLegacyReq := MkSecurityDeleteUserLegacyReq { SecurityDeleteUserLegacyReq_Username : string; SecurityDeleteUserLegacyReq_Header : headers;
  SecurityDeleteUserLegacyReq_Params : option SecurityDeleteUserLegacyParams }.
Definition SecurityDeleteUserLegacyReq_GetRequest (r : SecurityDeleteUserLegacyReq) (method : string) : request_error + httpRequest * Z :=
  send method (SecurityDeleteUserLegacyPath_Build (MkSecurityDeleteUserLegacyPath (SecurityDeleteUserLegacyReq_Username r)))
    (match SecurityDeleteUserLegacyReq_Params r with Some q => SecurityDeleteUserLegacyParams_get q | None => ∅ end)
    no_body (SecurityDeleteUserLegacyReq_Header r).
Definition SecurityDeleteUserLegacy_Method (r : SecurityDeleteUserLegacyReq) : string := "DELETE".
#[export] Instance SecurityDeleteUserLegacy_operation : operation SecurityDeleteUserLegacyReq :=
  {| op_path := MkPathType "SecurityDeleteUserLegacyPath" SecurityDeleteUserLegacyPath _ _; op_P := SecurityDeleteUserLegacyParams; op_fields r := MkSecurityDeleteUserLegacyPath (SecurityDeleteUserLegacyReq_Username r);
     op_params := SecurityDeleteUserLegacyReq_Params; op_defaults := None; op_timeout := SecurityDeleteUserLegacyParams_TimeoutParams; op_debug := SecurityDeleteUserLegacyParams_DebugParams;
     op_format := None; op_own := SecurityDeleteUserLegacyParams_own; op_slots := SecurityDeleteUserLegacyParams_slots;
     op_body _ := no_body; op_headers r := SecurityDeleteUserLegacyReq_Header r;
     Method := SecurityDeleteUserLegacy_Method; GetRequest := SecurityDeleteUserLegacyReq_GetRequest;
     op_keys := [];
     op_described := [("DELETE", "/_plugins/_security/api/user/{username}")];
     op_query := [] |}.
#[export] Instance SecurityDeleteUserLegacy_operates : LawfulOp SecurityDeleteUserLegacyReq.
Proof. operate. Qed.

Record SecurityFlushCacheParams := MkSecurityFlushCacheParams { SecurityFlushCacheParams_TimeoutParams : TimeoutParams; SecurityFlushCacheParams_DebugParams : DebugParams }.
Definition SecurityFlushCacheParams_own (q : SecurityFlushCacheParams) : list param :=
  [].
Definition SecurityFlushCacheParams_slots : list (string * (SecurityFlushCacheParams -> slot)) :=
  [].
Definition SecurityFlushCacheParams_get (q : SecurityFlushCacheParams) : gmap string string :=
  encode_params (EncodeTimeout (SecurityFlushCacheParams_TimeoutParams q) ++ EncodeDebug (SecurityFlushCacheParams_DebugParams q) ++ SecurityFlushCacheParams_own q).
Record SecurityFlushCacheReq := MkSecurityFlushCacheReq { SecurityFlushCacheReq_Header : headers; SecurityFlushCacheReq_Params : option SecurityFlushCacheParams }.
Definition SecurityFlushCacheReq_GetRequest (r : SecurityFlushCacheReq) (method : string) : request_error + httpRequest * Z :=
  send method (SecurityFlushCachePath_Build (MkSecurityFlushCachePath))
    (match SecurityFlushCacheReq_Params r with Some q => SecurityFlushCacheParams_get q | None => ∅ end)
    no_body (SecurityFlushCacheReq_Header r).
Definition SecurityFlushCache_Method (r : SecurityFlushCacheReq) : string := "DELETE".
#[export] Instance SecurityFlushCache_operation : operation SecurityFlushCacheReq :=
  {| op_path := MkPathType "SecurityFlushCachePath" SecurityFlushCachePath _ _; op_P := SecurityFlushCacheParams; op_fields r := MkSecurityFlushCachePath;
     op_params := SecurityFlushCacheReq_Params; op_defaults := None; op_timeout := SecurityFlushCacheParams_TimeoutParams; op_debug := SecurityFlushCacheParams_DebugParams;
     op_format := None; op_own := SecurityFlushCacheParams_own; op_slots := SecurityFlushCacheParams_slots;
     op_body _ := no_body; op_headers r := SecurityFlushCacheReq_Header r;
     Method := SecurityFlushCache_Method; GetRequest := SecurityFlushCacheReq_GetRequest;
     op_keys := [];
     op_described := [("DELETE", "/_plugins/_security/api/cache")];
     op_query := [] |}.
#[export] Instance SecurityFlushCache_operates : LawfulOp SecurityFlushCacheReq.
Proof. operate. Qed.

Record SecurityGenerateOboTokenParams := MkSecurityGenerateOboTokenParams { SecurityGenerateOboTokenParams_TimeoutParams : TimeoutParams; SecurityGenerateOboTokenParams_DebugParams : DebugParams }.
Definition SecurityGenerateOboTokenParams_own (q : SecurityGenerateOboTokenParams) : list param :=
  [].
Definition SecurityGenerateOboTokenParams_slots : list (string * (SecurityGenerateOboTokenParams -> slot)) :=
  [].
Definition SecurityGenerateOboTokenParams_get (q : SecurityGenerateOboTokenParams) : gmap string string :=
  encode_params (EncodeTimeout (SecurityGenerateOboTokenParams_TimeoutParams q) ++ EncodeDebug (SecurityGenerateOboTokenParams_DebugParams q) ++ SecurityGenerateOboTokenParams_own q).
Record SecurityGenerateOboTokenReq := MkSecurityGenerateOboTokenReq { SecurityGenerateOboTokenReq_Body : option (option string); SecurityGenerateOboTokenReq_BodyReader : reader;
  SecurityGenerateOboTokenReq_Header : headers; SecurityGenerateOboTokenReq_Params : option SecurityGenerateOboTokenParams }.
Definition SecurityGenerateOboTokenReq_GetRequest (r : SecurityGenerateOboTokenReq) (method : string) : request_error + httpRequest * Z :=
  send method (SecurityGenerateOboTokenPath_Build (MkSecurityGenerateOboTokenPath))
    (match SecurityGenerateOboTokenReq_Params r with Some q => SecurityGenerateOboTokenParams_get q | None => ∅ end)
    (json_body (SecurityGenerateOboTokenReq_Body r) (SecurityGenerateOboTokenReq_BodyReader r)) (SecurityGenerateOboTokenReq_Header r).
Definition SecurityGenerateOboToken_Method (r : SecurityGenerateOboTokenReq) : string := "POST".
#[export] Instance SecurityGenerateOboToken_operation : operation SecurityGenerateOboTokenReq :=
  {| op_path := MkPathType "SecurityGenerateOboTokenPath" SecurityGenerateOboTokenPath _ _; op_P := SecurityGenerateOboTokenParams; op_fields r := MkSecurityGenerateOboTokenPath;
     op_params := SecurityGenerateOboTokenReq_Params; op_defaults := None; op_timeout := SecurityGenerateOboTokenParams_TimeoutParams; op_debug := SecurityGenerateOboTokenParams_DebugParams;
     op_format := None; op_own := SecurityGenerateOboTokenParams_own; op_slots := SecurityGenerateOboTokenParams_slots;
     op_body r := json_body (SecurityGenerateOboTokenReq_Body r) (SecurityGenerateOboTokenReq_BodyReader r); op_headers r := SecurityGenerateOboTokenReq_Header r;
     Method := SecurityGenerateOboToken_Method; GetRequest := SecurityGenerateOboTokenReq_GetRequest;
     op_keys := [];
     op_described := [("POST", "/_plugins/_security/api/generateonbehalfoftoken")];
     op_query := [] |}.
#[export] Instance SecurityGenerateOboToken_operates : LawfulOp SecurityGenerateOboTokenReq.
Proof. operate. Qed.

Record SecurityGenerateUserTokenParams := MkSecurityGenerateUserTokenParams { SecurityGenerateUserTokenParams_TimeoutParams : TimeoutParams; SecurityGenerateUserTokenParams_DebugParams : DebugParams }.
Definition SecurityGenerateUserTokenParams_own (q : SecurityGenerateUserTokenParams) : list param :=
  [].
Definition SecurityGenerateUserTokenParams_slots : list (string * (SecurityGenerateUserTokenParams -> slot)) :=
  [].
Definition SecurityGenerateUserTokenParams_get (q : SecurityGenerateUserTokenParams) : gmap string string :=
  encode_params (EncodeTimeout (SecurityGenerateUserTokenParams_TimeoutParams q) ++ EncodeDebug (SecurityGenerateUserTokenParams_DebugParams q) ++ SecurityGenerateUserTokenParams_own q).
Record SecurityGenerateUserTokenReq := MkSecurityGenerateUserTokenReq { SecurityGenerateUserTokenReq_Username : string; SecurityGenerateUserTokenReq_Header : headers;
  SecurityGenerateUserTokenReq_Params : option SecurityGenerateUserTokenParams }.
Definition SecurityGenerateUserTokenReq_GetRequest (r : SecurityGenerateUserTokenReq) (method : string) : request_error + httpRequest * Z :=
  send method (SecurityGenerateUserTokenPath_Build (MkSecurityGenerateUserTokenPath (SecurityGenerateUserTokenReq_Username r)))
    (match SecurityGenerateUserTokenReq_Params r with Some q => SecurityGenerateUserTokenParams_get q | None => ∅ end)
    no_body (SecurityGenerateUserTokenReq_Header r).
Definition SecurityGenerateUserToken_Method (r : SecurityGenerateUserTokenReq) : string := "POST".
#[export] Instance SecurityGenerateUserToken_operation : operation SecurityGenerateUserTokenReq :=
  {| op_path := MkPathType "SecurityGenerateUserTokenPath" SecurityGenerateUserTokenPath _ _; op_P := SecurityGenerateUserTokenParams; op_fields r := MkSecurityGenerateUserTokenPath (SecurityGenerateUserTokenReq_Username r);
     op_params := SecurityGenerateUserTokenReq_Params; op_defaults := None; op_timeout := SecurityGenerateUserTokenParams_TimeoutParams; op_debug := SecurityGenerateUserTokenParams_DebugParams;
     op_format := None; op_own := SecurityGenerateUserTokenParams_own; op_slots := SecurityGenerateUserTokenParams_slots;
     op_body _ := no_body; op_headers r := SecurityGenerateUserTokenReq_Header r;
     Method := SecurityGenerateUserToken_Method; GetRequest := SecurityGenerateUserTokenReq_GetRequest;
     op_keys := [];
     op_described := [("POST", "/_plugins/_security/api/internalusers/{username}/authtoken")];
     op_query := [] |}.
#[export] Instance SecurityGenerateUserToken_operates : LawfulOp SecurityGenerateUserTokenReq.
Proof. operate. Qed.

Record SecurityGenerateUserTokenLegacyParams := MkSecurityGenerateUserTokenLegacyParams { SecurityGenerateUserTokenLegacyParams_TimeoutParams : TimeoutParams; SecurityGenerateUserTokenLegacyParams_DebugParams : DebugParams }.
Definition SecurityGenerateUserTokenLegacyParams_own (q : SecurityGenerateUserTokenLegacyParams) : list param :=
  [].
Definition SecurityGenerateUserTokenLegacyParams_slots : list (string * (SecurityGenerateUserTokenLegacyParams -> slot)) :=
  [].
Definition SecurityGenerateUserTokenLegacyParams_get (q : SecurityGenerateUserTokenLegacyParams) : gmap string string :=
  encode_params (EncodeTimeout (SecurityGenerateUserTokenLegacyParams_TimeoutParams q) ++ EncodeDebug (SecurityGenerateUserTokenLegacyParams_DebugParams q) ++ SecurityGenerateUserTokenLegacyParams_own q).
Record SecurityGenerateUserTokenLegacyReq := MkSecurityGenerateUserTokenLegacyReq { SecurityGenerateUserTokenLegacyReq_Username : string; SecurityGenerateUserTokenLegacyReq_Header : headers;
  SecurityGenerateUserTokenLegacyReq_Params : option SecurityGenerateUserTokenLegacyParams }.
Definition SecurityGenerateUserTokenLegacyReq_GetRequest (r : SecurityGenerateUserTokenLegacyReq) (method : string) : request_error + httpRequest * Z :=
  send method (SecurityGenerateUserTokenLegacyPath_Build (MkSecurityGenerateUserTokenLegacyPath (SecurityGenerateUserTokenLegacyReq_Username r)))
    (match SecurityGenerateUserTokenLegacyReq_Params r with Some q => SecurityGenerateUserTokenLegacyParams_get q | None => ∅ end)
    no_body (SecurityGenerateUserTokenLegacyReq_Header r).
Definition SecurityGenerateUserTokenLegacy_Method (r : SecurityGenerateUserTokenLegacyReq) : string := "POST".
#[export] Instance SecurityGenerateUserTokenLegacy_operation : operation SecurityGenerateUserTokenLegacyReq :=
  {| op_path := MkPathType "SecurityGenerateUserTokenLegacyPath" SecurityGenerateUserTokenLegacyPath _ _; op_P := SecurityGenerateUserTokenLegacyParams; op_fields r := MkSecurityGenerateUserTokenLegacyPath (SecurityGenerateUserTokenLegacyReq_Username r);
     op_params := SecurityGenerateUserTokenLegacyReq_Params; op_defaults := None; op_timeout := SecurityGenerateUserTokenLegacyParams_TimeoutParams; op_debug := SecurityGenerateUserTokenLegacyParams_DebugParams;
     op_format := None; op_own := SecurityGenerateUserTokenLegacyParams_own; op_slots := SecurityGenerateUserTokenLegacyParams_slots;
     op_body _ := no_body; op_headers r := SecurityGenerateUserTokenLegacyReq_Header r;
     Method := SecurityGenerateUserTokenLegacy_Method; GetRequest := SecurityGenerateUserTokenLegacyReq_GetRequest;
     op_keys := [];
     op_described := [("POST", "/_plugins/_security/api/user/{username}/authtoken")];
     op_query := [] |}.
#[export] Instance SecurityGenerateUserTokenLegacy_operates : LawfulOp SecurityGenerateUserTokenLegacyReq.
Proof. operate. Qed.

Record SecurityGetAccountDetailsParams := MkSecurityGetAccountDetailsParams { SecurityGetAccountDetailsParams_TimeoutParams : TimeoutParams; SecurityGetAccountDetailsParams_DebugParams : DebugParams }.
Definition SecurityGetAccountDetailsParams_own (q : SecurityGetAccountDetailsParams) : list param :=
  [].
Definition SecurityGetAccountDetailsParams_slots : list (string * (SecurityGetAccountDetailsParams -> slot)) :=
  [].
Definition SecurityGetAccountDetailsParams_get (q : SecurityGetAccountDetailsParams) : gmap string string :=
  encode_params (EncodeTimeout (SecurityGetAccountDetailsParams_TimeoutParams q) ++ EncodeDebug (SecurityGetAccountDetailsParams_DebugParams q) ++ SecurityGetAccountDetailsParams_own q).
Record SecurityGetAccountDetailsReq := MkSecurityGetAccountDetailsReq { SecurityGetAccountDetailsReq_Header : headers; SecurityGetAccountDetailsReq_Params : option SecurityGetAccountDetailsParams }.
Definition SecurityGetAccountDetailsReq_GetRequest (r : SecurityGetAccountDetailsReq) (method : string) : request_error + httpRequest * Z :=
  send method (SecurityGetAccountDetailsPath_Build (MkSecurityGetAccountDetailsPath))
    (match SecurityGetAccountDetailsReq_Params r with Some q => SecurityGetAccountDetailsParams_get q | None => ∅ end)
    no_body (SecurityGetAccountDetailsReq_Header r).
Definition SecurityGetAccountDetails_Method (r : SecurityGetAccountDetailsReq) : string := "GET".
#[export] Instance SecurityGetAccountDetails_operation : operation SecurityGetAccountDetailsReq :=
  {| op_path := MkPathType "SecurityGetAccountDetailsPath" SecurityGetAccountDetailsPath _ _; op_P := SecurityGetAccountDetailsParams; op_fields r := MkSecurityGetAccountDetailsPath;
     op_params := SecurityGetAccountDetailsReq_Params; op_defaults := None; op_timeout := SecurityGetAccountDetailsParams_TimeoutParams; op_debug := SecurityGetAccountDetailsParams_DebugParams;
     op_format := None; op_own := SecurityGetAccountDetailsParams_own; op_slots := SecurityGetAccountDetailsParams_slots;
     op_body _ := no_body; op_headers r := SecurityGetAccountDetailsReq_Header r;
     Method := SecurityGetAccountDetails_Method; GetRequest := SecurityGetAccountDetailsReq_GetRequest;
     op_keys := [];
     op_described := [("GET", "/_plugins/_security/api/account")];
     op_query := [] |}.
#[export] Instance SecurityGetAccountDetails_operates : LawfulOp SecurityGetAccountDetailsReq.
Proof. operate. Qed.

Record SecurityGetActionGroupParams := MkSecurityGetActionGroupParams { SecurityGetActionGroupParams_TimeoutParams : TimeoutParams; SecurityGetActionGroupParams_DebugParams : DebugParams }.
Definition SecurityGetActionGroupParams_own (q : SecurityGetActionGroupParams) : list param :=
  [].
Definition SecurityGetActionGroupParams_slots : list (string * (SecurityGetActionGroupParams -> slot)) :=
  [].
Definition SecurityGetActionGroupParams_get (q : SecurityGetActionGroupParams) : gmap string string :=
  encode_params (EncodeTimeout (SecurityGetActionGroupParams_TimeoutParams q) ++ EncodeDebug (SecurityGetActionGroupParams_DebugParams q) ++ SecurityGetActionGroupParams_own q).
Record SecurityGetActionGroupReq := MkSecurityGetActionGroupReq { SecurityGetActionGroupReq_ActionGroup : string; SecurityGetActionGroupReq_Header : headers;
  SecurityGetActionGroupReq_Params : option SecurityGetActionGroupParams }.
Definition SecurityGetActionGroupReq_GetRequest (r : SecurityGetActionGroupReq) (method : string) : request_error + httpRequest * Z :=
  send method (SecurityGetActionGroupPath_Build (MkSecurityGetActionGroupPath (SecurityGetActionGroupReq_ActionGroup r)))
    (match SecurityGetActionGroupReq_Params r with Some q => SecurityGetActionGroupParams_get q | None => ∅ end)
    no_body (SecurityGetActionGroupReq_Header r).
Definition SecurityGetActionGroup_Method (r : SecurityGetActionGroupReq) : string := "GET".
#[export] Instance SecurityGetActionGroup_operation : operation SecurityGetActionGroupReq :=
  {| op_path := MkPathType "SecurityGetActionGroupPath" SecurityGetActionGroupPath _ _; op_P := SecurityGetActionGroupParams; op_fields r := MkSecurityGetActionGroupPath (SecurityGetActionGroupReq_ActionGroup r);
     op_params := SecurityGetActionGroupReq_Params; op_defaults := None; op_timeout := SecurityGetActionGroupParams_TimeoutParams; op_debug := SecurityGetActionGroupParams_DebugParams;
     op_format := None; op_own := SecurityGetActionGroupParams_own; op_slots := SecurityGetActionGroupParams_slots;
     op_body _ := no_body; op_headers r := SecurityGetActionGroupReq_Header r;
     Method := SecurityGetActionGroup_Method; GetRequest := SecurityGetActionGroupReq_GetRequest;
     op_keys := [];
     op_described := [("GET", "/_plugins/_security/api/actiongroups/{action_group}")];
     op_query := [] |}.
#[export] Instance SecurityGetActionGroup_operates : LawfulOp SecurityGetActionGroupReq.
Proof. operate. Qed.

Record SecurityGetActionGroupsParams := MkSecurityGetActionGroupsParams { SecurityGetActionGroupsParams_TimeoutParams : TimeoutParams; SecurityGetActionGroupsParams_DebugParams : DebugParams }.
Definition SecurityGetActionGroupsParams_own (q : SecurityGetActionGroupsParams) : list param :=
  [].
Definition SecurityGetActionGroupsParams_slots : list (string * (SecurityGetActionGroupsParams -> slot)) :=
  [].
Definition SecurityGetActionGroupsParams_get (q : SecurityGetActionGroupsParams) : gmap string string :=
  encode_params (EncodeTimeout (SecurityGetActionGroupsParams_TimeoutParams q) ++ EncodeDebug (SecurityGetActionGroupsParams_DebugParams q) ++ SecurityGetActionGroupsParams_own q).
Record SecurityGetActionGroupsReq := MkSecurityGetActionGroupsReq { SecurityGetActionGroupsReq_Header : headers; SecurityGetActionGroupsReq_Params : option SecurityGetActionGroupsParams }.
Definition SecurityGetActionGroupsReq_GetRequest (r : SecurityGetActionGroupsReq) (method : string) : request_error + httpRequest * Z :=
  send method (SecurityGetActionGroupsPath_Build (MkSecurityGetActionGroupsPath))
    (match SecurityGetActionGroupsReq_Params r with Some q => SecurityGetActionGroupsParams_get q | None => ∅ end)
    no_body (SecurityGetActionGroupsReq_Header r).
Definition SecurityGetActionGroups_Method (r : SecurityGetActionGroupsReq) : string := "GET".
#[export] Instance SecurityGetActionGroups_operation : operation SecurityGetActionGroupsReq :=
  {| op_path := MkPathType "SecurityGetActionGroupsPath" SecurityGetActionGroupsPath _ _; op_P := SecurityGetActionGroupsParams; op_fields r := MkSecurityGetActionGroupsPath;
     op_params := SecurityGetActionGroupsReq_Params; op_defaults := None; op_timeout := SecurityGetActionGroupsParams_TimeoutParams; op_debug := SecurityGetActionGroupsParams_DebugParams;
     op_format := None; op_own := SecurityGetActionGroupsParams_own; op_slots := SecurityGetActionGroupsParams_slots;
     op_body _ := no_body; op_headers r := SecurityGetActionGroupsReq_Header r;
     Method := SecurityGetActionGroups_Method; GetRequest := SecurityGetActionGroupsReq_GetRequest;
     op_keys := [];
     op_described := [("GET", "/_plugins/_security/api/actiongroups")];
     op_query := [] |}.
#[export] Instance SecurityGetActionGroups_operates : LawfulOp SecurityGetActionGroupsReq.
Proof. operate. Qed.

Record SecurityGetAllCertificatesParams := MkSecurityGetAllCertificatesParams { SecurityGetAllCertificatesParams_TimeoutParams : TimeoutParams; SecurityGetAllCertificatesParams_DebugParams : DebugParams;
  SecurityGetAllCertificatesParams_CertType : string }.
Definition SecurityGetAllCertificatesParams_own (q : SecurityGetAllCertificatesParams) : list param :=
  [("cert_type", nonEmpty (SecurityGetAllCertificatesParams_CertType q))].
Definition SecurityGetAllCertificatesParams_slots : list (string * (SecurityGetAllCertificatesParams -> slot)) :=
  [("CertType", fun q => Text (SecurityGetAllCertificatesParams_CertType q))].
Definition SecurityGetAllCertificatesParams_get (q : SecurityGetAllCertificatesParams) : gmap string string :=
  encode_params (EncodeTimeout (SecurityGetAllCertificatesParams_TimeoutParams q) ++ EncodeDebug (SecurityGetAllCertificatesParams_DebugParams q) ++ SecurityGetAllCertificatesParams_own q).
Record SecurityGetAllCertificatesReq := MkSecurityGetAllCertificatesReq { SecurityGetAllCertificatesReq_Header : headers; SecurityGetAllCertificatesReq_Params : option SecurityGetAllCertificatesParams }.
Definition SecurityGetAllCertificatesReq_GetRequest (r : SecurityGetAllCertificatesReq) (method : string) : request_error + httpRequest * Z :=
  send method (SecurityGetAllCertificatesPath_Build (MkSecurityGetAllCertificatesPath))
    (match SecurityGetAllCertificatesReq_Params r with Some q => SecurityGetAllCertificatesParams_get q | None => ∅ end)
    no_body (SecurityGetAllCertificatesReq_Header r).
Definition SecurityGetAllCertificates_Method (r : SecurityGetAllCertificatesReq) : string := "GET".
#[export] Instance SecurityGetAllCertificates_operation : operation SecurityGetAllCertificatesReq :=
  {| op_path := MkPathType "SecurityGetAllCertificatesPath" SecurityGetAllCertificatesPath _ _; op_P := SecurityGetAllCertificatesParams; op_fields r := MkSecurityGetAllCertificatesPath;
     op_params := SecurityGetAllCertificatesReq_Params; op_defaults := None; op_timeout := SecurityGetAllCertificatesParams_TimeoutParams; op_debug := SecurityGetAllCertificatesParams_DebugParams;
     op_format := None; op_own := SecurityGetAllCertificatesParams_own; op_slots := SecurityGetAllCertificatesParams_slots;
     op_body _ := no_body; op_headers r := SecurityGetAllCertificatesReq_Header r;
     Method := SecurityGetAllCertificates_Method; GetRequest := SecurityGetAllCertificatesReq_GetRequest;
     op_keys := ["cert_type"];
     op_described := [("GET", "/_plugins/_security/api/certificates")];
     op_query := ["cert_type"] |}.
#[export] Instance SecurityGetAllCertificates_operates : LawfulOp SecurityGetAllCertificatesReq.
Proof. operate. Qed.

Record SecurityGetAllowlistParams := MkSecurityGetAllowlistParams { SecurityGetAllowlistParams_TimeoutParams : TimeoutParams; SecurityGetAllowlistParams_DebugParams : DebugParams }.
Definition SecurityGetAllowlistParams_own (q : SecurityGetAllowlistParams) : list param :=
  [].
Definition SecurityGetAllowlistParams_slots : list (string * (SecurityGetAllowlistParams -> slot)) :=
  [].
Definition SecurityGetAllowlistParams_get (q : SecurityGetAllowlistParams) : gmap string string :=
  encode_params (EncodeTimeout (SecurityGetAllowlistParams_TimeoutParams q) ++ EncodeDebug (SecurityGetAllowlistParams_DebugParams q) ++ SecurityGetAllowlistParams_own q).
Record SecurityGetAllowlistReq := MkSecurityGetAllowlistReq { SecurityGetAllowlistReq_Header : headers; SecurityGetAllowlistReq_Params : option SecurityGetAllowlistParams }.
Definition SecurityGetAllowlistReq_GetRequest (r : SecurityGetAllowlistReq) (method : string) : request_error + httpRequest * Z :=
  send method (SecurityGetAllowlistPath_Build (MkSecurityGetAllowlistPath))
    (match SecurityGetAllowlistReq_Params r with Some q => SecurityGetAllowlistParams_get q | None => ∅ end)
    no_body (SecurityGetAllowlistReq_Header r).
Definition SecurityGetAllowlist_Method (r : SecurityGetAllowlistReq) : string := "GET".
#[export] Instance SecurityGetAllowlist_operation : operation SecurityGetAllowlistReq :=
  {| op_path := MkPathType "SecurityGetAllowlistPath" SecurityGetAllowlistPath _ _; op_P := SecurityGetAllowlistParams; op_fields r := MkSecurityGetAllowlistPath;
     op_params := SecurityGetAllowlistReq_Params; op_defaults := None; op_timeout := SecurityGetAllowlistParams_TimeoutParams; op_debug := SecurityGetAllowlistParams_DebugParams;
     op_format := None; op_own := SecurityGetAllowlistParams_own; op_slots := SecurityGetAllowlistParams_slots;
     op_body _ := no_body; op_headers r := SecurityGetAllowlistReq_Header r;
     Method := SecurityGetAllowlist_Method; GetRequest := SecurityGetAllowlistReq_GetRequest;
     op_keys := [];
     op_described := [("GET", "/_plugins/_security/api/allowlist")];
     op_query := [] |}.
#[export] Instance SecurityGetAllowlist_operates : LawfulOp SecurityGetAllowlistReq.
Proof. operate. Qed.

Record SecurityGetAuditConfigurationParams := MkSecurityGetAuditConfigurationParams { SecurityGetAuditConfigurationParams_TimeoutParams : TimeoutParams; SecurityGetAuditConfigurationParams_DebugParams : DebugParams }.
Definition SecurityGetAuditConfigurationParams_own (q : SecurityGetAuditConfigurationParams) : list param :=
  [].
Definition SecurityGetAuditConfigurationParams_slots : list (string * (SecurityGetAuditConfigurationParams -> slot)) :=
  [].
Definition SecurityGetAuditConfigurationParams_get (q : SecurityGetAuditConfigurationParams) : gmap string string :=
  encode_params (EncodeTimeout (SecurityGetAuditConfigurationParams_TimeoutParams q) ++ EncodeDebug (SecurityGetAuditConfigurationParams_DebugParams q) ++ SecurityGetAuditConfigurationParams_own q).
Record SecurityGetAuditConfigurationReq := MkSecurityGetAuditConfigurationReq { SecurityGetAuditConfigurationReq_Header : headers; SecurityGetAuditConfigurationReq_Params : option SecurityGetAuditConfigurationParams }.
Definition SecurityGetAuditConfigurationReq_GetRequest (r : SecurityGetAuditConfigurationReq) (method : string) : request_error + httpRequest * Z :=
  send method (SecurityGetAuditConfigurationPath_Build (MkSecurityGetAuditConfigurationPath))
    (match SecurityGetAuditConfigurationReq_Params r with Some q => SecurityGetAuditConfigurationParams_get q | None => ∅ end)
    no_body (SecurityGetAuditConfigurationReq_Header r).
Definition SecurityGetAuditConfiguration_Method (r : SecurityGetAuditConfigurationReq) : string := "GET".
#[export] Instance SecurityGetAuditConfiguration_operation : operation SecurityGetAuditConfigurationReq :=
  {| op_path := MkPathType "SecurityGetAuditConfigurationPath" SecurityGetAuditConfigurationPath _ _; op_P := SecurityGetAuditConfigurationParams; op_fields r := MkSecurityGetAuditConfigurationPath;
     op_params := SecurityGetAuditConfigurationReq_Params; op_defaults := None; op_timeout := SecurityGetAuditConfigurationParams_TimeoutParams; op_debug := SecurityGetAuditConfigurationParams_DebugParams;
     op_format := None; op_own := SecurityGetAuditConfigurationParams_own; op_slots := SecurityGetAuditConfigurationParams_slots;
     op_body _ := no_body; op_headers r := SecurityGetAuditConfigurationReq_Header r;
     Method := SecurityGetAuditConfiguration_Method; GetRequest := SecurityGetAuditConfigurationReq_GetRequest;
     op_keys := [];
     op_described := [("GET", "/_plugins/_security/api/audit")];
     op_query := [] |}.
#[export] Instance SecurityGetAuditConfiguration_operates : LawfulOp SecurityGetAuditConfigurationReq.
Proof. operate. Qed.

Record SecurityGetCertificatesParams := MkSecurityGetCertificatesParams { SecurityGetCertificatesParams_TimeoutParams : TimeoutParams; SecurityGetCertificatesParams_DebugParams : DebugParams }.
Definition SecurityGetCertificatesParams_own (q : SecurityGetCertificatesParams) : list param :=
  [].
Definition SecurityGetCertificatesParams_slots : list (string * (SecurityGetCertificatesParams -> slot)) :=
  [].
Definition SecurityGetCertificatesParams_get (q : SecurityGetCertificatesParams) : gmap string string :=
  encode_params (EncodeTimeout (SecurityGetCertificatesParams_TimeoutParams q) ++ EncodeDebug (SecurityGetCertificatesParams_DebugParams q) ++ SecurityGetCertificatesParams_own q).
Record SecurityGetCertificatesReq := MkSecurityGetCertificatesReq { SecurityGetCertificatesReq_Header : headers; SecurityGetCertificatesReq_Params : option SecurityGetCertificatesParams }.
Definition SecurityGetCertificatesReq_GetRequest (r : SecurityGetCertificatesReq) (method : string) : request_error + httpRequest * Z :=
  send method (SecurityGetCertificatesPath_Build (MkSecurityGetCertificatesPath))
    (match SecurityGetCertificatesReq_Params r with Some q => SecurityGetCertificatesParams_get q | None => ∅ end)
    no_body (SecurityGetCertificatesReq_Header r).
Definition SecurityGetCertificates_Method (r : SecurityGetCertificatesReq) : string := "GET".
#[export] Instance SecurityGetCertificates_operation : operation SecurityGetCertificatesReq :=
  {| op_path := MkPathType "SecurityGetCertificatesPath" SecurityGetCertificatesPath _ _; op_P := SecurityGetCertificatesParams; op_fields r := MkSecurityGetCertificatesPath;
     op_params := SecurityGetCertificatesReq_Params; op_defaults := None; op_timeout := SecurityGetCertificatesParams_TimeoutParams; op_debug := SecurityGetCertificatesParams_DebugParams;
     op_format := None; op_own := SecurityGetCertificatesParams_own; op_slots := SecurityGetCertificatesParams_slots;
     op_body _ := no_body; op_headers r := SecurityGetCertificatesReq_Header r;
     Method := SecurityGetCertificates_Method; GetRequest := SecurityGetCertificatesReq_GetRequest;
     op_keys := [];
     op_described := [("GET", "/_plugins/_security/api/ssl/certs")];
     op_query := [] |}.
#[export] Instance SecurityGetCertificates_operates : LawfulOp SecurityGetCertificatesReq.
Proof. operate. Qed.

Record SecurityGetConfigurationParams := MkSecurityGetConfigurationParams { SecurityGetConfigurationParams_TimeoutParams : TimeoutParams; SecurityGetConfigurationParams_DebugParams : DebugParams }.
Definition SecurityGetConfigurationParams_own (q : SecurityGetConfigurationParams) : list param :=
  [].
Definition SecurityGetConfigurationParams_slots : list (string * (SecurityGetConfigurationParams -> slot)) :=
  [].
Definition SecurityGetConfigurationParams_get (q : SecurityGetConfigurationParams) : gmap string string :=
  encode_params (EncodeTimeout (SecurityGetConfigurationParams_TimeoutParams q) ++ EncodeDebug (SecurityGetConfigurationParams_DebugParams q) ++ SecurityGetConfigurationParams_own q).
Record SecurityGetConfigurationReq := MkSecurityGetConfigurationReq { SecurityGetConfigurationReq_Header : headers; SecurityGetConfigurationReq_Params : option SecurityGetConfigurationParams }.
Definition SecurityGetConfigurationReq_GetRequest (r : SecurityGetConfigurationReq) (method : string) : request_error + httpRequest * Z :=
  send method (SecurityGetConfigurationPath_Build (MkSecurityGetConfigurationPath))
    (match SecurityGetConfigurationReq_Params r with Some q => SecurityGetConfigurationParams_get q | None => ∅ end)
    no_body (SecurityGetConfigurationReq_Header r).
Definition SecurityGetConfiguration_Method (r : SecurityGetConfigurationReq) : string := "GET".
#[export] Instance SecurityGetConfiguration_operation : operation SecurityGetConfigurationReq :=
  {| op_path := MkPathType "SecurityGetConfigurationPath" SecurityGetConfigurationPath _ _; op_P := SecurityGetConfigurationParams; op_fields r := MkSecurityGetConfigurationPath;
     op_params := SecurityGetConfigurationReq_Params; op_defaults := None; op_timeout := SecurityGetConfigurationParams_TimeoutParams; op_debug := SecurityGetConfigurationParams_DebugParams;
     op_format := None; op_own := SecurityGetConfigurationParams_own; op_slots := SecurityGetConfigurationParams_slots;
     op_body _ := no_body; op_headers r := SecurityGetConfigurationReq_Header r;
     Method := SecurityGetConfiguration_Method; GetRequest := SecurityGetConfigurationReq_GetRequest;
     op_keys := [];
     op_described := [("GET", "/_plugins/_security/api/securityconfig")];
     op_query := [] |}.
#[export] Instance SecurityGetConfiguration_operates : LawfulOp SecurityGetConfigurationReq.
Proof. operate. Qed.

Record SecurityGetDashboardsInfoParams := MkSecurityGetDashboardsInfoParams { SecurityGetDashboardsInfoParams_TimeoutParams : TimeoutParams; SecurityGetDashboardsInfoParams_DebugParams : DebugParams }.
Definition SecurityGetDashboardsInfoParams_own (q : SecurityGetDashboardsInfoParams) : list param :=
  [].
Definition SecurityGetDashboardsInfoParams_slots : list (string * (SecurityGetDashboardsInfoParams -> slot)) :=
  [].
Definition SecurityGetDashboardsInfoParams_get (q : SecurityGetDashboardsInfoParams) : gmap string string :=
  encode_params (EncodeTimeout (SecurityGetDashboardsInfoParams_TimeoutParams q) ++ EncodeDebug (SecurityGetDashboardsInfoParams_DebugParams q) ++ SecurityGetDashboardsInfoParams_own q).
Record SecurityGetDashboardsInfoReq := MkSecurityGetDashboardsInfoReq { SecurityGetDashboardsInfoReq_Header : headers; SecurityGetDashboardsInfoReq_Params : option SecurityGetDashboardsInfoParams }.
Definition SecurityGetDashboardsInfoReq_GetRequest (r : SecurityGetDashboardsInfoReq) (method : string) : request_error + httpRequest * Z :=
  send method (SecurityGetDashboardsInfoPath_Build (MkSecurityGetDashboardsInfoPath))
    (match SecurityGetDashboardsInfoReq_Params r with Some q => SecurityGetDashboardsInfoParams_get q | None => ∅ end)
    no_body (SecurityGetDashboardsInfoReq_Header r).
Definition SecurityGetDashboardsInfo_Method (r : SecurityGetDashboardsInfoReq) : string := "GET".
#[export] Instance SecurityGetDashboardsInfo_operation : operation SecurityGetDashboardsInfoReq :=
  {| op_path := MkPathType "SecurityGetDashboardsInfoPath" SecurityGetDashboardsInfoPath _ _; op_P := SecurityGetDashboardsInfoParams; op_fields r := MkSecurityGetDashboardsInfoPath;
     op_params := SecurityGetDashboardsInfoReq_Params; op_defaults := None; op_timeout := SecurityGetDashboardsInfoParams_TimeoutParams; op_debug := SecurityGetDashboardsInfoParams_DebugParams;
     op_format := None; op_own := SecurityGetDashboardsInfoParams_own; op_slots := SecurityGetDashboardsInfoParams_slots;
     op_body _ := no_body; op_headers r := SecurityGetDashboardsInfoReq_Header r;
     Method := SecurityGetDashboardsInfo_Method; GetRequest := SecurityGetDashboardsInfoReq_GetRequest;
     op_keys := [];
     op_described := [("GET", "/_plugins/_security/dashboardsinfo")];
     op_query := [] |}.
#[export] Instance SecurityGetDashboardsInfo_operates : LawfulOp SecurityGetDashboardsInfoReq.
Proof. operate. Qed.

Record SecurityGetDistinguishedNameParams := MkSecurityGetDistinguishedNameParams { SecurityGetDistinguishedNameParams_TimeoutParams : TimeoutParams; SecurityGetDistinguishedNameParams_DebugParams : DebugParams;
  SecurityGetDistinguishedNameParams_ShowAll : option bool }.
Definition SecurityGetDistinguishedNameParams_own (q : SecurityGetDistinguishedNameParams) : list param :=
  [("show_all", boolPtr (SecurityGetDistinguishedNameParams_ShowAll q))].
Definition SecurityGetDistinguishedNameParams_slots : list (string * (SecurityGetDistinguishedNameParams -> slot)) :=
  [("ShowAll", fun q => BoolPtr (SecurityGetDistinguishedNameParams_ShowAll q))].
Definition SecurityGetDistinguishedNameParams_get (q : SecurityGetDistinguishedNameParams) : gmap string string :=
  encode_params (EncodeTimeout (SecurityGetDistinguishedNameParams_TimeoutParams q) ++ EncodeDebug (SecurityGetDistinguishedNameParams_DebugParams q) ++ SecurityGetDistinguishedNameParams_own q).
Record SecurityGetDistinguishedNameReq := MkSecurityGetDistinguishedNameReq { SecurityGetDistinguishedNameReq_ClusterName : string; SecurityGetDistinguishedNameReq_Header : headers;
  SecurityGetDistinguishedNameReq_Params : option SecurityGetDistinguishedNameParams }.
Definition SecurityGetDistinguishedNameReq_GetRequest (r : SecurityGetDistinguishedNameReq) (method : string) : request_error + httpRequest * Z :=
  send method (SecurityGetDistinguishedNamePath_Build (MkSecurityGetDistinguishedNamePath (SecurityGetDistinguishedNameReq_ClusterName r)))
    (match SecurityGetDistinguishedNameReq_Params r with Some q => SecurityGetDistinguishedNameParams_get q | None => ∅ end)
    no_body (SecurityGetDistinguishedNameReq_Header r).
Definition SecurityGetDistinguishedName_Method (r : SecurityGetDistinguishedNameReq) : string := "GET".
#[export] Instance SecurityGetDistinguishedName_operation : operation SecurityGetDistinguishedNameReq :=
  {| op_path := MkPathType "SecurityGetDistinguishedNamePath" SecurityGetDistinguishedNamePath _ _; op_P := SecurityGetDistinguishedNameParams; op_fields r := MkSecurityGetDistinguishedNamePath (SecurityGetDistinguishedNameReq_ClusterName r);
     op_params := SecurityGetDistinguishedNameReq_Params; op_defaults := None; op_timeout := SecurityGetDistinguishedNameParams_TimeoutParams; op_debug := SecurityGetDistinguishedNameParams_DebugParams;
     op_format := None; op_own := SecurityGetDistinguishedNameParams_own; op_slots := SecurityGetDistinguishedNameParams_slots;
     op_body _ := no_body; op_headers r := SecurityGetDistinguishedNameReq_Header r;
     Method := SecurityGetDistinguishedName_Method; GetRequest := SecurityGetDistinguishedNameReq_GetRequest;
     op_keys := ["show_all"];
     op_described := [("GET", "/_plugins/_security/api/nodesdn/{cluster_name}")];
     op_query := ["show_all"] |}.
#[export] Instance SecurityGetDistinguishedName_operates : LawfulOp SecurityGetDistinguishedNameReq.
Proof. operate. Qed.

Record SecurityGetDistinguishedNamesParams := MkSecurityGetDistinguishedNamesParams { SecurityGetDistinguishedNamesParams_TimeoutParams : TimeoutParams; SecurityGetDistinguishedNamesParams_DebugParams : DebugParams;
  SecurityGetDistinguishedNamesParams_ShowAll : option bool }.
Definition SecurityGetDistinguishedNamesParams_own (q : SecurityGetDistinguishedNamesParams) : list param :=
  [("show_all", boolPtr (SecurityGetDistinguishedNamesParams_ShowAll q))].
Definition SecurityGetDistinguishedNamesParams_slots : list (string * (SecurityGetDistinguishedNamesParams -> slot)) :=
  [("ShowAll", fun q => BoolPtr (SecurityGetDistinguishedNamesParams_ShowAll q))].
Definition SecurityGetDistinguishedNamesParams_get (q : SecurityGetDistinguishedNamesParams) : gmap string string :=
  encode_params (EncodeTimeout (SecurityGetDistinguishedNamesParams_TimeoutParams q) ++ EncodeDebug (SecurityGetDistinguishedNamesParams_DebugParams q) ++ SecurityGetDistinguishedNamesParams_own q).
Record SecurityGetDistinguishedNamesReq := MkSecurityGetDistinguishedNamesReq { SecurityGetDistinguishedNamesReq_Header : headers; SecurityGetDistinguishedNamesReq_Params : option SecurityGetDistinguishedNamesParams }.
Definition SecurityGetDistinguishedNamesReq_GetRequest (r : SecurityGetDistinguishedNamesReq) (method : string) : request_error + httpRequest * Z :=
  send method (SecurityGetDistinguishedNamesPath_Build (MkSecurityGetDistinguishedNamesPath))
    (match SecurityGetDistinguishedNamesReq_Params r with Some q => SecurityGetDistinguishedNamesParams_get q | None => ∅ end)
    no_body (SecurityGetDistinguishedNamesReq_Header r).
Definition SecurityGetDistinguishedNames_Method (r : SecurityGetDistinguishedNamesReq) : string := "GET".
#[export] Instance SecurityGetDistinguishedNames_operation : operation SecurityGetDistinguishedNamesReq :=
  {| op_path := MkPathType "SecurityGetDistinguishedNamesPath" SecurityGetDistinguishedNamesPath _ _; op_P := SecurityGetDistinguishedNamesParams; op_fields r := MkSecurityGetDistinguishedNamesPath;
     op_params := SecurityGetDistinguishedNamesReq_Params; op_defaults := None; op_timeout := SecurityGetDistinguishedNamesParams_TimeoutParams; op_debug := SecurityGetDistinguishedNamesParams_DebugParams;
     op_format := None; op_own := SecurityGetDistinguishedNamesParams_own; op_slots := SecurityGetDistinguishedNamesParams_slots;
     op_body _ := no_body; op_headers r := SecurityGetDistinguishedNamesReq_Header r;
     Method := SecurityGetDistinguishedNames_Method; GetRequest := SecurityGetDistinguishedNamesReq_GetRequest;
     op_keys := ["show_all"];
     op_described := [("GET", "/_plugins/_security/api/nodesdn")];
     op_query := ["show_all"] |}.
#[export] Instance SecurityGetDistinguishedNames_operates : LawfulOp SecurityGetDistinguishedNamesReq.
Proof. operate. Qed.

Record SecurityGetNodeCertificatesParams := MkSecurityGetNodeCertificatesParams { SecurityGetNodeCertificatesParams_TimeoutParams : TimeoutParams; SecurityGetNodeCertificatesParams_DebugParams : DebugParams;
  SecurityGetNodeCertificatesParams_CertType : string }.
Definition SecurityGetNodeCertificatesParams_own (q : SecurityGetNodeCertificatesParams) : list param :=
  [("cert_type", nonEmpty (SecurityGetNodeCertificatesParams_CertType q))].
Definition SecurityGetNodeCertificatesParams_slots : list (string * (SecurityGetNodeCertificatesParams -> slot)) :=
  [("CertType", fun q => Text (SecurityGetNodeCertificatesParams_CertType q))].
Definition SecurityGetNodeCertificatesParams_get (q : SecurityGetNodeCertificatesParams) : gmap string string :=
  encode_params (EncodeTimeout (SecurityGetNodeCertificatesParams_TimeoutParams q) ++ EncodeDebug (SecurityGetNodeCertificatesParams_DebugParams q) ++ SecurityGetNodeCertificatesParams_own q).
Record SecurityGetNodeCertificatesReq := MkSecurityGetNodeCertificatesReq { SecurityGetNodeCertificatesReq_NodeID : string; SecurityGetNodeCertificatesReq_Header : headers;
  SecurityGetNodeCertificatesReq_Params : option SecurityGetNodeCertificatesParams }.
Definition SecurityGetNodeCertificatesReq_GetRequest (r : SecurityGetNodeCertificatesReq) (method : string) : request_error + httpRequest * Z :=
  send method (SecurityGetNodeCertificatesPath_Build (MkSecurityGetNodeCertificatesPath (SecurityGetNodeCertificatesReq_NodeID r)))
    (match SecurityGetNodeCertificatesReq_Params r with Some q => SecurityGetNodeCertificatesParams_get q | None => ∅ end)
    no_body (SecurityGetNodeCertificatesReq_Header r).
Definition SecurityGetNodeCertificates_Method (r : SecurityGetNodeCertificatesReq) : string := "GET".
#[export] Instance SecurityGetNodeCertificates_operation : operation SecurityGetNodeCertificatesReq :=
  {| op_path := MkPathType "SecurityGetNodeCertificatesPath" SecurityGetNodeCertificatesPath _ _; op_P := SecurityGetNodeCertificatesParams; op_fields r := MkSecurityGetNodeCertificatesPath (SecurityGetNodeCertificatesReq_NodeID r);
     op_params := SecurityGetNodeCertificatesReq_Params; op_defaults := None; op_timeout := SecurityGetNodeCertificatesParams_TimeoutParams; op_debug := SecurityGetNodeCertificatesParams_DebugParams;
     op_format := None; op_own := SecurityGetNodeCertificatesParams_own; op_slots := SecurityGetNodeCertificatesParams_slots;
     op_body _ := no_body; op_headers r := SecurityGetNodeCertificatesReq_Header r;
     Method := SecurityGetNodeCertificates_Method; GetRequest := SecurityGetNodeCertificatesReq_GetRequest;
     op_keys := ["cert_type"];
     op_described := [("GET", "/_plugins/_security/api/certificates/{node_id}")];
     op_query := ["cert_type"] |}.
#[export] Instance SecurityGetNodeCertificates_operates : LawfulOp SecurityGetNodeCertificatesReq.
Proof. operate. Qed.

Record SecurityGetPermissionsInfoParams := MkSecurityGetPermissionsInfoParams { SecurityGetPermissionsInfoParams_TimeoutParams : TimeoutParams; SecurityGetPermissionsInfoParams_DebugParams : DebugParams }.
Definition SecurityGetPermissionsInfoParams_own (q : SecurityGetPermissionsInfoParams) : list param :=
  [].
Definition SecurityGetPermissionsInfoParams_slots : list (string * (SecurityGetPermissionsInfoParams -> slot)) :=
  [].
Definition SecurityGetPermissionsInfoParams_get (q : SecurityGetPermissionsInfoParams) : gmap string string :=
  encode_params (EncodeTimeout (SecurityGetPermissionsInfoParams_TimeoutParams q) ++ EncodeDebug (SecurityGetPermissionsInfoParams_DebugParams q) ++ SecurityGetPermissionsInfoParams_own q).
Record SecurityGetPermissionsInfoReq := MkSecurityGetPermissionsInfoReq { SecurityGetPermissionsInfoReq_Header : headers; SecurityGetPermissionsInfoReq_Params : option SecurityGetPermissionsInfoParams }.
Definition SecurityGetPermissionsInfoReq_GetRequest (r : SecurityGetPermissionsInfoReq) (method : string) : request_error + httpRequest * Z :=
  send method (SecurityGetPermissionsInfoPath_Build (MkSecurityGetPermissionsInfoPath))
    (match SecurityGetPermissionsInfoReq_Params r with Some q => SecurityGetPermissionsInfoParams_get q | None => ∅ end)
    no_body (SecurityGetPermissionsInfoReq_Header r).
Definition SecurityGetPermissionsInfo_Method (r : SecurityGetPermissionsInfoReq) : string := "GET".
#[export] Instance SecurityGetPermissionsInfo_operation : operation SecurityGetPermissionsInfoReq :=
  {| op_path := MkPathType "SecurityGetPermissionsInfoPath" SecurityGetPermissionsInfoPath _ _; op_P := SecurityGetPermissionsInfoParams; op_fields r := MkSecurityGetPermissionsInfoPath;
     op_params := SecurityGetPermissionsInfoReq_Params; op_defaults := None; op_timeout := SecurityGetPermissionsInfoParams_TimeoutParams; op_debug := SecurityGetPermissionsInfoParams_DebugParams;
     op_format := None; op_own := SecurityGetPermissionsInfoParams_own; op_slots := SecurityGetPermissionsInfoParams_slots;
     op_body _ := no_body; op_headers r := SecurityGetPermissionsInfoReq_Header r;
     Method := SecurityGetPermissionsInfo_Method; GetRequest := SecurityGetPermissionsInfoReq_GetRequest;
     op_keys := [];
     op_described := [("GET", "/_plugins/_security/api/permissionsinfo")];
     op_query := [] |}.
#[export] Instance SecurityGetPermissionsInfo_operates : LawfulOp SecurityGetPermissionsInfoReq.
Proof. operate. Qed.

Record SecurityGetRoleParams := MkSecurityGetRoleParams { SecurityGetRoleParams_TimeoutParams : TimeoutParams; SecurityGetRoleParams_DebugParams : DebugParams }.
Definition SecurityGetRoleParams_own (q : SecurityGetRoleParams) : list param :=
  [].
Definition SecurityGetRoleParams_slots : list (string * (SecurityGetRoleParams -> slot)) :=
  [].
Definition SecurityGetRoleParams_get (q : SecurityGetRoleParams) : gmap string string :=
  encode_params (EncodeTimeout (SecurityGetRoleParams_TimeoutParams q) ++ EncodeDebug (SecurityGetRoleParams_DebugParams q) ++ SecurityGetRoleParams_own q).
Record SecurityGetRoleReq := MkSecurityGetRoleReq { SecurityGetRoleReq_Role : string; SecurityGetRoleReq_Header : headers; SecurityGetRoleReq_Params : option SecurityGetRoleParams }.
Definition SecurityGetRoleReq_GetRequest (r : SecurityGetRoleReq) (method : string) : request_error + httpRequest * Z :=
  send method (SecurityGetRolePath_Build (MkSecurityGetRolePath (SecurityGetRoleReq_Role r)))
    (match SecurityGetRoleReq_Params r with Some q => SecurityGetRoleParams_get q | None => ∅ end)
    no_body (SecurityGetRoleReq_Header r).
Definition SecurityGetRole_Method (r : SecurityGetRoleReq) : string := "GET".
#[export] Instance SecurityGetRole_operation : operation SecurityGetRoleReq :=
  {| op_path := MkPathType "SecurityGetRolePath" SecurityGetRolePath _ _; op_P := SecurityGetRoleParams; op_fields r := MkSecurityGetRolePath (SecurityGetRoleReq_Role r);
     op_params := SecurityGetRoleReq_Params; op_defaults := None; op_timeout := SecurityGetRoleParams_TimeoutParams; op_debug := SecurityGetRoleParams_DebugParams;
     op_format := None; op_own := SecurityGetRoleParams_own; op_slots := SecurityGetRoleParams_slots;
     op_body _ := no_body; op_headers r := SecurityGetRoleReq_Header r;
     Method := SecurityGetRole_Method; GetRequest := SecurityGetRoleReq_GetRequest;
     op_keys := [];
     op_described := [("GET", "/_plugins/_security/api/roles/{role}")];
     op_query := [] |}.
#[export] Instance SecurityGetRole_operates : LawfulOp SecurityGetRoleReq.
Proof. operate. Qed.

Record SecurityGetRoleMappingParams := MkSecurityGetRoleMappingParams { SecurityGetRoleMappingParams_TimeoutParams : TimeoutParams; SecurityGetRoleMappingParams_DebugParams : DebugParams }.
Definition SecurityGetRoleMappingParams_own (q : SecurityGetRoleMappingParams) : list param :=
  [].
Definition SecurityGetRoleMappingParams_slots : list (string * (SecurityGetRoleMappingParams -> slot)) :=
  [].
Definition SecurityGetRoleMappingParams_get (q : SecurityGetRoleMappingParams) : gmap string string :=
  encode_params (EncodeTimeout (SecurityGetRoleMappingParams_TimeoutParams q) ++ EncodeDebug (SecurityGetRoleMappingParams_DebugParams q) ++ SecurityGetRoleMappingParams_own q).
Record SecurityGetRoleMappingReq := MkSecurityGetRoleMappingReq { SecurityGetRoleMappingReq_Role : string; SecurityGetRoleMappingReq_Header : headers;
  SecurityGetRoleMappingReq_Params : option SecurityGetRoleMappingParams }.
Definition SecurityGetRoleMappingReq_GetRequest (r : SecurityGetRoleMappingReq) (method : string) : request_error + httpRequest * Z :=
  send method (SecurityGetRoleMappingPath_Build (MkSecurityGetRoleMappingPath (SecurityGetRoleMappingReq_Role r)))
    (match SecurityGetRoleMappingReq_Params r with Some q => SecurityGetRoleMappingParams_get q | None => ∅ end)
    no_body (SecurityGetRoleMappingReq_Header r).
Definition SecurityGetRoleMapping_Method (r : SecurityGetRoleMappingReq) : string := "GET".
#[export] Instance SecurityGetRoleMapping_operation : operation SecurityGetRoleMappingReq :=
  {| op_path := MkPathType "SecurityGetRoleMappingPath" SecurityGetRoleMappingPath _ _; op_P := SecurityGetRoleMappingParams; op_fields r := MkSecurityGetRoleMappingPath (SecurityGetRoleMappingReq_Role r);
     op_params := SecurityGetRoleMappingReq_Params; op_defaults := None; op_timeout := SecurityGetRoleMappingParams_TimeoutParams; op_debug := SecurityGetRoleMappingParams_DebugParams;
     op_format := None; op_own := SecurityGetRoleMappingParams_own; op_slots := SecurityGetRoleMappingParams_slots;
     op_body _ := no_body; op_headers r := SecurityGetRoleMappingReq_Header r;
     Method := SecurityGetRoleMapping_Method; GetRequest := SecurityGetRoleMappingReq_GetRequest;
     op_keys := [];
     op_described := [("GET", "/_plugins/_security/api/rolesmapping/{role}")];
     op_query := [] |}.
#[export] Instance SecurityGetRoleMapping_operates : LawfulOp SecurityGetRoleMappingReq.
Proof. operate. Qed.

Record SecurityGetRoleMappingsParams := MkSecurityGetRoleMappingsParams { SecurityGetRoleMappingsParams_TimeoutParams : TimeoutParams; SecurityGetRoleMappingsParams_DebugParams : DebugParams }.
Definition SecurityGetRoleMappingsParams_own (q : SecurityGetRoleMappingsParams) : list param :=
  [].
Definition SecurityGetRoleMappingsParams_slots : list (string * (SecurityGetRoleMappingsParams -> slot)) :=
  [].
Definition SecurityGetRoleMappingsParams_get (q : SecurityGetRoleMappingsParams) : gmap string string :=
  encode_params (EncodeTimeout (SecurityGetRoleMappingsParams_TimeoutParams q) ++ EncodeDebug (SecurityGetRoleMappingsParams_DebugParams q) ++ SecurityGetRoleMappingsParams_own q).
Record SecurityGetRoleMappingsReq := MkSecurityGetRoleMappingsReq { SecurityGetRoleMappingsReq_Header : headers; SecurityGetRoleMappingsReq_Params : option SecurityGetRoleMappingsParams }.
Definition SecurityGetRoleMappingsReq_GetRequest (r : SecurityGetRoleMappingsReq) (method : string) : request_error + httpRequest * Z :=
  send method (SecurityGetRoleMappingsPath_Build (MkSecurityGetRoleMappingsPath))
    (match SecurityGetRoleMappingsReq_Params r with Some q => SecurityGetRoleMappingsParams_get q | None => ∅ end)
    no_body (SecurityGetRoleMappingsReq_Header r).
Definition SecurityGetRoleMappings_Method (r : SecurityGetRoleMappingsReq) : string := "GET".
#[export] Instance SecurityGetRoleMappings_operation : operation SecurityGetRoleMappingsReq :=
  {| op_path := MkPathType "SecurityGetRoleMappingsPath" SecurityGetRoleMappingsPath _ _; op_P := SecurityGetRoleMappingsParams; op_fields r := MkSecurityGetRoleMappingsPath;
     op_params := SecurityGetRoleMappingsReq_Params; op_defaults := None; op_timeout := SecurityGetRoleMappingsParams_TimeoutParams; op_debug := SecurityGetRoleMappingsParams_DebugParams;
     op_format := None; op_own := SecurityGetRoleMappingsParams_own; op_slots := SecurityGetRoleMappingsParams_slots;
     op_body _ := no_body; op_headers r := SecurityGetRoleMappingsReq_Header r;
     Method := SecurityGetRoleMappings_Method; GetRequest := SecurityGetRoleMappingsReq_GetRequest;
     op_keys := [];
     op_described := [("GET", "/_plugins/_security/api/rolesmapping")];
     op_query := [] |}.
#[export] Instance SecurityGetRoleMappings_operates : LawfulOp SecurityGetRoleMappingsReq.
Proof. operate. Qed.

Record SecurityGetRolesParams := MkSecurityGetRolesParams { SecurityGetRolesParams_TimeoutParams : TimeoutParams; SecurityGetRolesParams_DebugParams : DebugParams }.
Definition SecurityGetRolesParams_own (q : SecurityGetRolesParams) : list param :=
  [].
Definition SecurityGetRolesParams_slots : list (string * (SecurityGetRolesParams -> slot)) :=
  [].
Definition SecurityGetRolesParams_get (q : SecurityGetRolesParams) : gmap string string :=
  encode_params (EncodeTimeout (SecurityGetRolesParams_TimeoutParams q) ++ EncodeDebug (SecurityGetRolesParams_DebugParams q) ++ SecurityGetRolesParams_own q).
Record SecurityGetRolesReq := MkSecurityGetRolesReq { SecurityGetRolesReq_Header : headers; SecurityGetRolesReq_Params : option SecurityGetRolesParams }.
Definition SecurityGetRolesReq_GetRequest (r : SecurityGetRolesReq) (method : string) : request_error + httpRequest * Z :=
  send method (SecurityGetRolesPath_Build (MkSecurityGetRolesPath))
    (match SecurityGetRolesReq_Params r with Some q => SecurityGetRolesParams_get q | None => ∅ end)
    no_body (SecurityGetRolesReq_Header r).
Definition SecurityGetRoles_Method (r : SecurityGetRolesReq) : string := "GET".
#[export] Instance SecurityGetRoles_operation : operation SecurityGetRolesReq :=
  {| op_path := MkPathType "SecurityGetRolesPath" SecurityGetRolesPath _ _; op_P := SecurityGetRolesParams; op_fields r := MkSecurityGetRolesPath;
     op_params := SecurityGetRolesReq_Params; op_defaults := None; op_timeout := SecurityGetRolesParams_TimeoutParams; op_debug := SecurityGetRolesParams_DebugParams;
     op_format := None; op_own := SecurityGetRolesParams_own; op_slots := SecurityGetRolesParams_slots;
     op_body _ := no_body; op_headers r := SecurityGetRolesReq_Header r;
     Method := SecurityGetRoles_Method; GetRequest := SecurityGetRolesReq_GetRequest;
     op_keys := [];
     op_described := [("GET", "/_plugins/_security/api/roles")];
     op_query := [] |}.
#[export] Instance SecurityGetRoles_operates : LawfulOp SecurityGetRolesReq.
Proof. operate. Qed.

Record SecurityGetSslinfoParams := MkSecurityGetSslinfoParams { SecurityGetSslinfoParams_TimeoutParams : TimeoutParams; SecurityGetSslinfoParams_DebugParams : DebugParams; SecurityGetSslinfoParams_ShowDN : string }.
Definition SecurityGetSslinfoParams_own (q : SecurityGetSslinfoParams) : list param :=
  [("show_dn", nonEmpty (SecurityGetSslinfoParams_ShowDN q))].
Definition SecurityGetSslinfoParams_slots : list (string * (SecurityGetSslinfoParams -> slot)) :=
  [("ShowDN", fun q => Text (SecurityGetSslinfoParams_ShowDN q))].
Definition SecurityGetSslinfoParams_get (q : SecurityGetSslinfoParams) : gmap string string :=
  encode_params (EncodeTimeout (SecurityGetSslinfoParams_TimeoutParams q) ++ EncodeDebug (SecurityGetSslinfoParams_DebugParams q) ++ SecurityGetSslinfoParams_own q).
Record SecurityGetSslinfoReq := MkSecurityGetSslinfoReq { SecurityGetSslinfoReq_Header : headers; SecurityGetSslinfoReq_Params : option SecurityGetSslinfoParams }.
Definition SecurityGetSslinfoReq_GetRequest (r : SecurityGetSslinfoReq) (method : string) : request_error + httpRequest * Z :=
  send method (SecurityGetSslinfoPath_Build (MkSecurityGetSslinfoPath))
    (match SecurityGetSslinfoReq_Params r with Some q => SecurityGetSslinfoParams_get q | None => ∅ end)
    no_body (SecurityGetSslinfoReq_Header r).
Definition SecurityGetSslinfo_Method (r : SecurityGetSslinfoReq) : string := "GET".
#[export] Instance SecurityGetSslinfo_operation : operation SecurityGetSslinfoReq :=
  {| op_path := MkPathType "SecurityGetSslinfoPath" SecurityGetSslinfoPath _ _; op_P := SecurityGetSslinfoParams; op_fields r := MkSecurityGetSslinfoPath;
     op_params := SecurityGetSslinfoReq_Params; op_defaults := None; op_timeout := SecurityGetSslinfoParams_TimeoutParams; op_debug := SecurityGetSslinfoParams_DebugParams;
     op_format := None; op_own := SecurityGetSslinfoParams_own; op_slots := SecurityGetSslinfoParams_slots;
     op_body _ := no_body; op_headers r := SecurityGetSslinfoReq_Header r;
     Method := SecurityGetSslinfo_Method; GetRequest := SecurityGetSslinfoReq_GetRequest;
     op_keys := ["show_dn"];
     op_described := [("GET", "/_opendistro/_security/sslinfo")];
     op_query := ["show_dn"] |}.
#[export] Instance SecurityGetSslinfo_operates : LawfulOp SecurityGetSslinfoReq.
Proof. operate. Qed.

Record SecurityGetTenancyConfigParams := MkSecurityGetTenancyConfigParams { SecurityGetTenancyConfigParams_TimeoutParams : TimeoutParams; SecurityGetTenancyConfigParams_DebugParams : DebugParams }.
Definition SecurityGetTenancyConfigParams_own (q : SecurityGetTenancyConfigParams) : list param :=
  [].
Definition SecurityGetTenancyConfigParams_slots : list (string * (SecurityGetTenancyConfigParams -> slot)) :=
  [].
Definition SecurityGetTenancyConfigParams_get (q : SecurityGetTenancyConfigParams) : gmap string string :=
  encode_params (EncodeTimeout (SecurityGetTenancyConfigParams_TimeoutParams q) ++ EncodeDebug (SecurityGetTenancyConfigParams_DebugParams q) ++ SecurityGetTenancyConfigParams_own q).
Record SecurityGetTenancyConfigReq := MkSecurityGetTenancyConfigReq { SecurityGetTenancyConfigReq_Header : headers; SecurityGetTenancyConfigReq_Params : option SecurityGetTenancyConfigParams }.
Definition SecurityGetTenancyConfigReq_GetRequest (r : SecurityGetTenancyConfigReq) (method : string) : request_error + httpRequest * Z :=
  send method (SecurityGetTenancyConfigPath_Build (MkSecurityGetTenancyConfigPath))
    (match SecurityGetTenancyConfigReq_Params r with Some q => SecurityGetTenancyConfigParams_get q | None => ∅ end)
    no_body (SecurityGetTenancyConfigReq_Header r).
Definition SecurityGetTenancyConfig_Method (r : SecurityGetTenancyConfigReq) : string := "GET".
#[export] Instance SecurityGetTenancyConfig_operation : operation SecurityGetTenancyConfigReq :=
  {| op_path := MkPathType "SecurityGetTenancyConfigPath" SecurityGetTenancyConfigPath _ _; op_P := SecurityGetTenancyConfigParams; op_fields r := MkSecurityGetTenancyConfigPath;
     op_params := SecurityGetTenancyConfigReq_Params; op_defaults := None; op_timeout := SecurityGetTenancyConfigParams_TimeoutParams; op_debug := SecurityGetTenancyConfigParams_DebugParams;
     op_format := None; op_own := SecurityGetTenancyConfigParams_own; op_slots := SecurityGetTenancyConfigParams_slots;
     op_body _ := no_body; op_headers r := SecurityGetTenancyConfigReq_Header r;
     Method := SecurityGetTenancyConfig_Method; GetRequest := SecurityGetTenancyConfigReq_GetRequest;
     op_keys := [];
     op_described := [("GET", "/_plugins/_security/api/tenancy/config")];
     op_query := [] |}.
#[export] Instance SecurityGetTenancyConfig_operates : LawfulOp SecurityGetTenancyConfigReq.
Proof. operate. Qed.

Record SecurityGetTenantParams := MkSecurityGetTenantParams { SecurityGetTenantParams_TimeoutParams : TimeoutParams; SecurityGetTenantParams_DebugParams : DebugParams }.
Definition SecurityGetTenantParams_own (q : SecurityGetTenantParams) : list param :=
  [].
Definition SecurityGetTenantParams_slots : list (string * (SecurityGetTenantParams -> slot)) :=
  [].
Definition SecurityGetTenantParams_get (q : SecurityGetTenantParams) : gmap string string :=
  encode_params (EncodeTimeout (SecurityGetTenantParams_TimeoutParams q) ++ EncodeDebug (SecurityGetTenantParams_DebugParams q) ++ SecurityGetTenantParams_own q).
Record SecurityGetTenantReq := MkSecurityGetTenantReq { SecurityGetTenantReq_Tenant : string; SecurityGetTenantReq_Header : headers; SecurityGetTenantReq_Params : option SecurityGetTenantParams }.
Definition SecurityGetTenantReq_GetRequest (r : SecurityGetTenantReq) (method : string) : request_error + httpRequest * Z :=
  send method (SecurityGetTenantPath_Build (MkSecurityGetTenantPath (SecurityGetTenantReq_Tenant r)))
    (match SecurityGetTenantReq_Params r with Some q => SecurityGetTenantParams_get q | None => ∅ end)
    no_body (SecurityGetTenantReq_Header r).
Definition SecurityGetTenant_Method (r : SecurityGetTenantReq) : string := "GET".
#[export] Instance SecurityGetTenant_operation : operation SecurityGetTenantReq :=
  {| op_path := MkPathType "SecurityGetTenantPath" SecurityGetTenantPath _ _; op_P := SecurityGetTenantParams; op_fields r := MkSecurityGetTenantPath (SecurityGetTenantReq_Tenant r);
     op_params := SecurityGetTenantReq_Params; op_defaults := None; op_timeout := SecurityGetTenantParams_TimeoutParams; op_debug := SecurityGetTenantParams_DebugParams;
     op_format := None; op_own := SecurityGetTenantParams_own; op_slots := SecurityGetTenantParams_slots;
     op_body _ := no_body; op_headers r := SecurityGetTenantReq_Header r;
     Method := SecurityGetTenant_Method; GetRequest := SecurityGetTenantReq_GetRequest;
     op_keys := [];
     op_described := [("GET", "/_plugins/_security/api/tenants/{tenant}")];
     op_query := [] |}.
#[export] Instance SecurityGetTenant_operates : LawfulOp SecurityGetTenantReq.
Proof. operate. Qed.

Record SecurityGetTenantsParams := MkSecurityGetTenantsParams { SecurityGetTenantsParams_TimeoutParams : TimeoutParams; SecurityGetTenantsParams_DebugParams : DebugParams }.
Definition SecurityGetTenantsParams_own (q : SecurityGetTenantsParams) : list param :=
  [].
Definition SecurityGetTenantsParams_slots : list (string * (SecurityGetTenantsParams -> slot)) :=
  [].
Definition SecurityGetTenantsParams_get (q : SecurityGetTenantsParams) : gmap string string :=
  encode_params (EncodeTimeout (SecurityGetTenantsParams_TimeoutParams q) ++ EncodeDebug (SecurityGetTenantsParams_DebugParams q) ++ SecurityGetTenantsParams_own q).
Record SecurityGetTenantsReq := MkSecurityGetTenantsReq { SecurityGetTenantsReq_Header : headers; SecurityGetTenantsReq_Params : option SecurityGetTenantsParams }.
Definition SecurityGetTenantsReq_GetRequest (r : SecurityGetTenantsReq) (method : string) : request_error + httpRequest * Z :=
  send method (SecurityGetTenantsPath_Build (MkSecurityGetTenantsPath))
    (match SecurityGetTenantsReq_Params r with Some q => SecurityGetTenantsParams_get q | None => ∅ end)
    no_body (SecurityGetTenantsReq_Header r).
Definition SecurityGetTenants_Method (r : SecurityGetTenantsReq) : string := "GET".
#[export] Instance SecurityGetTenants_operation : operation SecurityGetTenantsReq :=
  {| op_path := MkPathType "SecurityGetTenantsPath" SecurityGetTenantsPath _ _; op_P := SecurityGetTenantsParams; op_fields r := MkSecurityGetTenantsPath;
     op_params := SecurityGetTenantsReq_Params; op_defaults := None; op_timeout := SecurityGetTenantsParams_TimeoutParams; op_debug := SecurityGetTenantsParams_DebugParams;
     op_format := None; op_own := SecurityGetTenantsParams_own; op_slots := SecurityGetTenantsParams_slots;
     op_body _ := no_body; op_headers r := SecurityGetTenantsReq_Header r;
     Method := SecurityGetTenants_Method; GetRequest := SecurityGetTenantsReq_GetRequest;
     op_keys := [];
     op_described := [("GET", "/_plugins/_security/api/tenants")];
     op_query := [] |}.
#[export] Instance SecurityGetTenants_operates : LawfulOp SecurityGetTenantsReq.
Proof. operate. Qed.

Record SecurityGetUserParams := MkSecurityGetUserParams { SecurityGetUserParams_TimeoutParams : TimeoutParams; SecurityGetUserParams_DebugParams : DebugParams }.
Definition SecurityGetUserParams_own (q : SecurityGetUserParams) : list param :=
  [].
Definition SecurityGetUserParams_slots : list (string * (SecurityGetUserParams -> slot)) :=
  [].
Definition SecurityGetUserParams_get (q : SecurityGetUserParams) : gmap string string :=
  encode_params (EncodeTimeout (SecurityGetUserParams_TimeoutParams q) ++ EncodeDebug (SecurityGetUserParams_DebugParams q) ++ SecurityGetUserParams_own q).
Record SecurityGetUserReq := MkSecurityGetUserReq { SecurityGetUserReq_Username : string; SecurityGetUserReq_Header : headers; SecurityGetUserReq_Params : option SecurityGetUserParams }.
Definition SecurityGetUserReq_GetRequest (r : SecurityGetUserReq) (method : string) : request_error + httpRequest * Z :=
  send method (SecurityGetUserPath_Build (MkSecurityGetUserPath (SecurityGetUserReq_Username r)))
    (match SecurityGetUserReq_Params r with Some q => SecurityGetUserParams_get q | None => ∅ end)
    no_body (SecurityGetUserReq_Header r).
Definition SecurityGetUser_Method (r : SecurityGetUserReq) : string := "GET".
#[export] Instance SecurityGetUser_operation : operation SecurityGetUserReq :=
  {| op_path := MkPathType "SecurityGetUserPath" SecurityGetUserPath _ _; op_P := SecurityGetUserParams; op_fields r := MkSecurityGetUserPath (SecurityGetUserReq_Username r);
     op_params := SecurityGetUserReq_Params; op_defaults := None; op_timeout := SecurityGetUserParams_TimeoutParams; op_debug := SecurityGetUserParams_DebugParams;
     op_format := None; op_own := SecurityGetUserParams_own; op_slots := SecurityGetUserParams_slots;
     op_body _ := no_body; op_headers r := SecurityGetUserReq_Header r;
     Method := SecurityGetUser_Method; GetRequest := SecurityGetUserReq_GetRequest;
     op_keys := [];
     op_described := [("GET", "/_plugins/_security/api/internalusers/{username}")];
     op_query := [] |}.
#[export] Instance SecurityGetUser_operates : LawfulOp SecurityGetUserReq.
Proof. operate. Qed.

Record SecurityGetUserLegacyParams := MkSecurityGetUserLegacyParams { SecurityGetUserLegacyParams_TimeoutParams : TimeoutParams; SecurityGetUserLegacyParams_DebugParams : DebugParams }.
Definition SecurityGetUserLegacyParams_own (q : SecurityGetUserLegacyParams) : list param :=
  [].
Definition SecurityGetUserLegacyParams_slots : list (string * (SecurityGetUserLegacyParams -> slot)) :=
  [].
Definition SecurityGetUserLegacyParams_get (q : SecurityGetUserLegacyParams) : gmap string string :=
  encode_params (EncodeTimeout (SecurityGetUserLegacyParams_TimeoutParams q) ++ EncodeDebug (SecurityGetUserLegacyParams_DebugParams q) ++ SecurityGetUserLegacyParams_own q).
Record SecurityGetUserLegacyReq := MkSecurityGetUserLegacyReq { SecurityGetUserLegacyReq_Username : string; SecurityGetUserLegacyReq_Header : headers;
  SecurityGetUserLegacyReq_Params : option SecurityGetUserLegacyParams }.
Definition SecurityGetUserLegacyReq_GetRequest (r : SecurityGetUserLegacyReq) (method : string) : request_error + httpRequest * Z :=
  send method (SecurityGetUserLegacyPath_Build (MkSecurityGetUserLegacyPath (SecurityGetUserLegacyReq_Username r)))
    (match SecurityGetUserLegacyReq_Params r with Some q => SecurityGetUserLegacyParams_get q | None => ∅ end)
    no_body (SecurityGetUserLegacyReq_Header r).
Definition SecurityGetUserLegacy_Method (r : SecurityGetUserLegacyReq) : string := "GET".
#[export] Instance SecurityGetUserLegacy_operation : operation SecurityGetUserLegacyReq :=
  {| op_path := MkPathType "SecurityGetUserLegacyPath" SecurityGetUserLegacyPath _ _; op_P := SecurityGetUserLegacyParams; op_fields r := MkSecurityGetUserLegacyPath (SecurityGetUserLegacyReq_Username r);
     op_params := SecurityGetUserLegacyReq_Params; op_defaults := None; op_timeout := SecurityGetUserLegacyParams_TimeoutParams; op_debug := SecurityGetUserLegacyParams_DebugParams;
     op_format := None; op_own := SecurityGetUserLegacyParams_own; op_slots := SecurityGetUserLegacyParams_slots;
     op_body _ := no_body; op_headers r := SecurityGetUserLegacyReq_Header r;
     Method := SecurityGetUserLegacy_Method; GetRequest := SecurityGetUserLegacyReq_GetRequest;
     op_keys := [];
     op_described := [("GET", "/_plugins/_security/api/user/{username}")];
     op_query := [] |}.
#[export] Instance SecurityGetUserLegacy_operates : LawfulOp SecurityGetUserLegacyReq.
Proof. operate. Qed.

Record SecurityGetUsersParams := MkSecurityGetUsersParams { SecurityGetUsersParams_TimeoutParams : TimeoutParams; SecurityGetUsersParams_DebugParams : DebugParams }.
Definition SecurityGetUsersParams_own (q : SecurityGetUsersParams) : list param :=
  [].
Definition SecurityGetUsersParams_slots : list (string * (SecurityGetUsersParams -> slot)) :=
  [].
Definition SecurityGetUsersParams_get (q : SecurityGetUsersParams) : gmap string string :=
  encode_params (EncodeTimeout (SecurityGetUsersParams_TimeoutParams q) ++ EncodeDebug (SecurityGetUsersParams_DebugParams q) ++ SecurityGetUsersParams_own q).
Record SecurityGetUsersReq := MkSecurityGetUsersReq { SecurityGetUsersReq_Header : headers; SecurityGetUsersReq_Params : option SecurityGetUsersParams }.
Definition SecurityGetUsersReq_GetRequest (r : SecurityGetUsersReq) (method : string) : request_error + httpRequest * Z :=
  send method (SecurityGetUsersPath_Build (MkSecurityGetUsersPath))
    (match SecurityGetUsersReq_Params r with Some q => SecurityGetUsersParams_get q | None => ∅ end)
    no_body (SecurityGetUsersReq_Header r).
Definition SecurityGetUsers_Method (r : SecurityGetUsersReq) : string := "GET".
#[export] Instance SecurityGetUsers_operation : operation SecurityGetUsersReq :=
  {| op_path := MkPathType "SecurityGetUsersPath" SecurityGetUsersPath _ _; op_P := SecurityGetUsersParams; op_fields r := MkSecurityGetUsersPath;
     op_params := SecurityGetUsersReq_Params; op_defaults := None; op_timeout := SecurityGetUsersParams_TimeoutParams; op_debug := SecurityGetUsersParams_DebugParams;
     op_format := None; op_own := SecurityGetUsersParams_own; op_slots := SecurityGetUsersParams_slots;
     op_body _ := no_body; op_headers r := SecurityGetUsersReq_Header r;
     Method := SecurityGetUsers_Method; GetRequest := SecurityGetUsersReq_GetRequest;
     op_keys := [];
     op_described := [("GET", "/_plugins/_security/api/internalusers")];
     op_query := [] |}.
#[export] Instance SecurityGetUsers_operates : LawfulOp SecurityGetUsersReq.
Proof. operate. Qed.

Record SecurityGetUsersLegacyParams := MkSecurityGetUsersLegacyParams { SecurityGetUsersLegacyParams_TimeoutParams : TimeoutParams; SecurityGetUsersLegacyParams_DebugParams : DebugParams }.
Definition SecurityGetUsersLegacyParams_own (q : SecurityGetUsersLegacyParams) : list param :=
  [].
Definition SecurityGetUsersLegacyParams_slots : list (string * (SecurityGetUsersLegacyParams -> slot)) :=
  [].
Definition SecurityGetUsersLegacyParams_get (q : SecurityGetUsersLegacyParams) : gmap string string :=
  encode_params (EncodeTimeout (SecurityGetUsersLegacyParams_TimeoutParams q) ++ EncodeDebug (SecurityGetUsersLegacyParams_DebugParams q) ++ SecurityGetUsersLegacyParams_own q).
Record SecurityGetUsersLegacyReq := MkSecurityGetUsersLegacyReq { SecurityGetUsersLegacyReq_Header : headers; SecurityGetUsersLegacyReq_Params : option SecurityGetUsersLegacyParams }.
Definition SecurityGetUsersLegacyReq_GetRequest (r : SecurityGetUsersLegacyReq) (method : string) : request_error + httpRequest * Z :=
  send method (SecurityGetUsersLegacyPath_Build (MkSecurityGetUsersLegacyPath))
    (match SecurityGetUsersLegacyReq_Params r with Some q => SecurityGetUsersLegacyParams_get q | None => ∅ end)
    no_body (SecurityGetUsersLegacyReq_Header r).
Definition SecurityGetUsersLegacy_Method (r : SecurityGetUsersLegacyReq) : string := "GET".
#[export] Instance SecurityGetUsersLegacy_operation : operation SecurityGetUsersLegacyReq :=
  {| op_path := MkPathType "SecurityGetUsersLegacyPath" SecurityGetUsersLegacyPath _ _; op_P := SecurityGetUsersLegacyParams; op_fields r := MkSecurityGetUsersLegacyPath;
     op_params := SecurityGetUsersLegacyReq_Params; op_defaults := None; op_timeout := SecurityGetUsersLegacyParams_TimeoutParams; op_debug := SecurityGetUsersLegacyParams_DebugParams;
     op_format := None; op_own := SecurityGetUsersLegacyParams_own; op_slots := SecurityGetUsersLegacyParams_slots;
     op_body _ := no_body; op_headers r := SecurityGetUsersLegacyReq_Header r;
     Method := SecurityGetUsersLegacy_Method; GetRequest := SecurityGetUsersLegacyReq_GetRequest;
     op_keys := [];
     op_described := [("GET", "/_plugins/_security/api/user")];
     op_query := [] |}.
#[export] Instance SecurityGetUsersLegacy_operates : LawfulOp SecurityGetUsersLegacyReq.
Proof. operate. Qed.

Record SecurityHealthParams := MkSecurityHealthParams { SecurityHealthParams_TimeoutParams : TimeoutParams; SecurityHealthParams_DebugParams : DebugParams; SecurityHealthParams_Mode : string }.
Definition SecurityHealthParams_own (q : SecurityHealthParams) : list param :=
  [("mode", nonEmpty (SecurityHealthParams_Mode q))].
Definition SecurityHealthParams_slots : list (string * (SecurityHealthParams -> slot)) :=
  [("Mode", fun q => Text (SecurityHealthParams_Mode q))].
Definition SecurityHealthParams_get (q : SecurityHealthParams) : gmap string string :=
  encode_params (EncodeTimeout (SecurityHealthParams_TimeoutParams q) ++ EncodeDebug (SecurityHealthParams_DebugParams q) ++ SecurityHealthParams_own q).
Record SecurityHealthReq := MkSecurityHealthReq { SecurityHealthReq_Header : headers; SecurityHealthReq_Params : option SecurityHealthParams }.
Definition SecurityHealthReq_GetRequest (r : SecurityHealthReq) (method : string) : request_error + httpRequest * Z :=
  send method (SecurityHealthPath_Build (MkSecurityHealthPath))
    (match SecurityHealthReq_Params r with Some q => SecurityHealthParams_get q | None => ∅ end)
    no_body (SecurityHealthReq_Header r).
Definition SecurityHealth_Method (r : SecurityHealthReq) : string := "GET".
#[export] Instance SecurityHealth_operation : operation SecurityHealthReq :=
  {| op_path := MkPathType "SecurityHealthPath" SecurityHealthPath _ _; op_P := SecurityHealthParams; op_fields r := MkSecurityHealthPath;
     op_params := SecurityHealthReq_Params; op_defaults := None; op_timeout := SecurityHealthParams_TimeoutParams; op_debug := SecurityHealthParams_DebugParams;
     op_format := None; op_own := SecurityHealthParams_own; op_slots := SecurityHealthParams_slots;
     op_body _ := no_body; op_headers r := SecurityHealthReq_Header r;
     Method := SecurityHealth_Method; GetRequest := SecurityHealthReq_GetRequest;
     op_keys := ["mode"];
     op_described := [("GET", "/_plugins/_security/health"); ("POST", "/_plugins/_security/health")];
     op_query := ["mode"] |}.
#[export] Instance SecurityHealth_operates : LawfulOp SecurityHealthReq.
Proof. operate. Qed.

Record SecurityMigrateParams := MkSecurityMigrateParams { SecurityMigrateParams_TimeoutParams : TimeoutParams; SecurityMigrateParams_DebugParams : DebugParams }.
Definition SecurityMigrateParams_own (q : SecurityMigrateParams) : list param :=
  [].
Definition SecurityMigrateParams_slots : list (string * (SecurityMigrateParams -> slot)) :=
  [].
Definition SecurityMigrateParams_get (q : SecurityMigrateParams) : gmap string string :=
  encode_params (EncodeTimeout (SecurityMigrateParams_TimeoutParams q) ++ EncodeDebug (SecurityMigrateParams_DebugParams q) ++ SecurityMigrateParams_own q).
Record SecurityMigrateReq := MkSecurityMigrateReq { SecurityMigrateReq_Header : headers; SecurityMigrateReq_Params : option SecurityMigrateParams }.
Definition SecurityMigrateReq_GetRequest (r : SecurityMigrateReq) (method : string) : request_error + httpRequest * Z :=
  send method (SecurityMigratePath_Build (MkSecurityMigratePath))
    (match SecurityMigrateReq_Params r with Some q => SecurityMigrateParams_get q | None => ∅ end)
    no_body (SecurityMigrateReq_Header r).
Definition SecurityMigrate_Method (r : SecurityMigrateReq) : string := "POST".
#[export] Instance SecurityMigrate_operation : operation SecurityMigrateReq :=
  {| op_path := MkPathType "SecurityMigratePath" SecurityMigratePath _ _; op_P := SecurityMigrateParams; op_fields r := MkSecurityMigratePath;
     op_params := SecurityMigrateReq_Params; op_defaults := None; op_timeout := SecurityMigrateParams_TimeoutParams; op_debug := SecurityMigrateParams_DebugParams;
     op_format := None; op_own := SecurityMigrateParams_own; op_slots := SecurityMigrateParams_slots;
     op_body _ := no_body; op_headers r := SecurityMigrateReq_Header r;
     Method := SecurityMigrate_Method; GetRequest := SecurityMigrateReq_GetRequest;
     op_keys := [];
     op_described := [("POST", "/_plugins/_security/api/migrate")];
     op_query := [] |}.
#[export] Instance SecurityMigrate_operates : LawfulOp SecurityMigrateReq.
Proof. operate. Qed.

Record SecurityPatchActionGroupParams := MkSecurityPatchActionGroupParams { SecurityPatchActionGroupParams_TimeoutParams : TimeoutParams; SecurityPatchActionGroupParams_DebugParams : DebugParams }.
Definition SecurityPatchActionGroupParams_own (q : SecurityPatchActionGroupParams) : list param :=
  [].
Definition SecurityPatchActionGroupParams_slots : list (string * (SecurityPatchActionGroupParams -> slot)) :=
  [].
Definition SecurityPatchActionGroupParams_get (q : SecurityPatchActionGroupParams) : gmap string string :=
  encode_params (EncodeTimeout (SecurityPatchActionGroupParams_TimeoutParams q) ++ EncodeDebug (SecurityPatchActionGroupParams_DebugParams q) ++ SecurityPatchActionGroupParams_own q).
Record SecurityPatchActionGroupReq := MkSecurityPatchActionGroupReq { SecurityPatchActionGroupReq_ActionGroup : string; SecurityPatchActionGroupReq_Body : reader; SecurityPatchActionGroupReq_Header : headers;
  SecurityPatchActionGroupReq_Params : option SecurityPatchActionGroupParams }.
Definition SecurityPatchActionGroupReq_GetRequest (r : SecurityPatchActionGroupReq) (method : string) : request_error + httpRequest * Z :=
  send method (SecurityPatchActionGroupPath_Build (MkSecurityPatchActionGroupPath (SecurityPatchActionGroupReq_ActionGroup r)))
    (match SecurityPatchActionGroupReq_Params r with Some q => SecurityPatchActionGroupParams_get q | None => ∅ end)
    (raw_body (SecurityPatchActionGroupReq_Body r)) (SecurityPatchActionGroupReq_Header r).
Definition SecurityPatchActionGroup_Method (r : SecurityPatchActionGroupReq) : string := "PATCH".
#[export] Instance SecurityPatchActionGroup_operation : operation SecurityPatchActionGroupReq :=
  {| op_path := MkPathType "SecurityPatchActionGroupPath" SecurityPatchActionGroupPath _ _; op_P := SecurityPatchActionGroupParams; op_fields r := MkSecurityPatchActionGroupPath (SecurityPatchActionGroupReq_ActionGroup r);
     op_params := SecurityPatchActionGroupReq_Params; op_defaults := None; op_timeout := SecurityPatchActionGroupParams_TimeoutParams; op_debug := SecurityPatchActionGroupParams_DebugParams;
     op_format := None; op_own := SecurityPatchActionGroupParams_own; op_slots := SecurityPatchActionGroupParams_slots;
     op_body r := raw_body (SecurityPatchActionGroupReq_Body r); op_headers r := SecurityPatchActionGroupReq_Header r;
     Method := SecurityPatchActionGroup_Method; GetRequest := SecurityPatchActionGroupReq_GetRequest;
     op_keys := [];
     op_described := [("PATCH", "/_plugins/_security/api/actiongroups/{action_group}")];
     op_query := [] |}.
#[export] Instance SecurityPatchActionGroup_operates : LawfulOp SecurityPatchActionGroupReq.
Proof. operate. Qed.

Record SecurityPatchActionGroupsParams := MkSecurityPatchActionGroupsParams { SecurityPatchActionGroupsParams_TimeoutParams : TimeoutParams; SecurityPatchActionGroupsParams_DebugParams : DebugParams }.
Definition SecurityPatchActionGroupsParams_own (q : SecurityPatchActionGroupsParams) : list param :=
  [].
Definition SecurityPatchActionGroupsParams_slots : list (string * (SecurityPatchActionGroupsParams -> slot)) :=
  [].
Definition SecurityPatchActionGroupsParams_get (q : SecurityPatchActionGroupsParams) : gmap string string :=
  encode_params (EncodeTimeout (SecurityPatchActionGroupsParams_TimeoutParams q) ++ EncodeDebug (SecurityPatchActionGroupsParams_DebugParams q) ++ SecurityPatchActionGroupsParams_own q).
Record SecurityPatchActionGroupsReq := MkSecurityPatchActionGroupsReq { SecurityPatchActionGroupsReq_Body : reader; SecurityPatchActionGroupsReq_Header : headers;
  SecurityPatchActionGroupsReq_Params : option SecurityPatchActionGroupsParams }.
Definition SecurityPatchActionGroupsReq_GetRequest (r : SecurityPatchActionGroupsReq) (method : string) : request_error + httpRequest * Z :=
  send method (SecurityPatchActionGroupsPath_Build (MkSecurityPatchActionGroupsPath))
    (match SecurityPatchActionGroupsReq_Params r with Some q => SecurityPatchActionGroupsParams_get q | None => ∅ end)
    (raw_body (SecurityPatchActionGroupsReq_Body r)) (SecurityPatchActionGroupsReq_Header r).
Definition SecurityPatchActionGroups_Method (r : SecurityPatchActionGroupsReq) : string := "PATCH".
#[export] Instance SecurityPatchActionGroups_operation : operation SecurityPatchActionGroupsReq :=
  {| op_path := MkPathType "SecurityPatchActionGroupsPath" SecurityPatchActionGroupsPath _ _; op_P := SecurityPatchActionGroupsParams; op_fields r := MkSecurityPatchActionGroupsPath;
     op_params := SecurityPatchActionGroupsReq_Params; op_defaults := None; op_timeout := SecurityPatchActionGroupsParams_TimeoutParams; op_debug := SecurityPatchActionGroupsParams_DebugParams;
     op_format := None; op_own := SecurityPatchActionGroupsParams_own; op_slots := SecurityPatchActionGroupsParams_slots;
     op_body r := raw_body (SecurityPatchActionGroupsReq_Body r); op_headers r := SecurityPatchActionGroupsReq_Header r;
     Method := SecurityPatchActionGroups_Method; GetRequest := SecurityPatchActionGroupsReq_GetRequest;
     op_keys := [];
     op_described := [("PATCH", "/_plugins/_security/api/actiongroups")];
     op_query := [] |}.
#[export] Instance SecurityPatchActionGroups_operates : LawfulOp SecurityPatchActionGroupsReq.
Proof. operate. Qed.

Record SecurityPatchAllowlistParams := MkSecurityPatchAllowlistParams { SecurityPatchAllowlistParams_TimeoutParams : TimeoutParams; SecurityPatchAllowlistParams_DebugParams : DebugParams }.
Definition SecurityPatchAllowlistParams_own (q : SecurityPatchAllowlistParams) : list param :=
  [].
Definition SecurityPatchAllowlistParams_slots : list (string * (SecurityPatchAllowlistParams -> slot)) :=
  [].
Definition SecurityPatchAllowlistParams_get (q : SecurityPatchAllowlistParams) : gmap string string :=
  encode_params (EncodeTimeout (SecurityPatchAllowlistParams_TimeoutParams q) ++ EncodeDebug (SecurityPatchAllowlistParams_DebugParams q) ++ SecurityPatchAllowlistParams_own q).
Record SecurityPatchAllowlistReq := MkSecurityPatchAllowlistReq { SecurityPatchAllowlistReq_Body : reader; SecurityPatchAllowlistReq_Header : headers;
  SecurityPatchAllowlistReq_Params : option SecurityPatchAllowlistParams }.
Definition SecurityPatchAllowlistReq_GetRequest (r : SecurityPatchAllowlistReq) (method : string) : request_error + httpRequest * Z :=
  send method (SecurityPatchAllowlistPath_Build (MkSecurityPatchAllowlistPath))
    (match SecurityPatchAllowlistReq_Params r with Some q => SecurityPatchAllowlistParams_get q | None => ∅ end)
    (raw_body (SecurityPatchAllowlistReq_Body r)) (SecurityPatchAllowlistReq_Header r).
Definition SecurityPatchAllowlist_Method (r : SecurityPatchAllowlistReq) : string := "PATCH".
#[export] Instance SecurityPatchAllowlist_operation : operation SecurityPatchAllowlistReq :=
  {| op_path := MkPathType "SecurityPatchAllowlistPath" SecurityPatchAllowlistPath _ _; op_P := SecurityPatchAllowlistParams; op_fields r := MkSecurityPatchAllowlistPath;
     op_params := SecurityPatchAllowlistReq_Params; op_defaults := None; op_timeout := SecurityPatchAllowlistParams_TimeoutParams; op_debug := SecurityPatchAllowlistParams_DebugParams;
     op_format := None; op_own := SecurityPatchAllowlistParams_own; op_slots := SecurityPatchAllowlistParams_slots;
     op_body r := raw_body (SecurityPatchAllowlistReq_Body r); op_headers r := SecurityPatchAllowlistReq_Header r;
     Method := SecurityPatchAllowlist_Method; GetRequest := SecurityPatchAllowlistReq_GetRequest;
     op_keys := [];
     op_described := [("PATCH", "/_plugins/_security/api/allowlist")];
     op_query := [] |}.
#[export] Instance SecurityPatchAllowlist_operates : LawfulOp SecurityPatchAllowlistReq.
Proof. operate. Qed.

Record SecurityPatchAuditConfigurationParams := MkSecurityPatchAuditConfigurationParams { SecurityPatchAuditConfigurationParams_TimeoutParams : TimeoutParams; SecurityPatchAuditConfigurationParams_DebugParams : DebugParams }.
Definition SecurityPatchAuditConfigurationParams_own (q : SecurityPatchAuditConfigurationParams) : list param :=
  [].
Definition SecurityPatchAuditConfigurationParams_slots : list (string * (SecurityPatchAuditConfigurationParams -> slot)) :=
  [].
Definition SecurityPatchAuditConfigurationParams_get (q : SecurityPatchAuditConfigurationParams) : gmap string string :=
  encode_params (EncodeTimeout (SecurityPatchAuditConfigurationParams_TimeoutParams q) ++ EncodeDebug (SecurityPatchAuditConfigurationParams_DebugParams q) ++ SecurityPatchAuditConfigurationParams_own q).
Record SecurityPatchAuditConfigurationReq := MkSecurityPatchAuditConfigurationReq { SecurityPatchAuditConfigurationReq_Body : reader; SecurityPatchAuditConfigurationReq_Header : headers;
  SecurityPatchAuditConfigurationReq_Params : option SecurityPatchAuditConfigurationParams }.
Definition SecurityPatchAuditConfigurationReq_GetRequest (r : SecurityPatchAuditConfigurationReq) (method : string) : request_error + httpRequest * Z :=
  send method (SecurityPatchAuditConfigurationPath_Build (MkSecurityPatchAuditConfigurationPath))
    (match SecurityPatchAuditConfigurationReq_Params r with Some q => SecurityPatchAuditConfigurationParams_get q | None => ∅ end)
    (raw_body (SecurityPatchAuditConfigurationReq_Body r)) (SecurityPatchAuditConfigurationReq_Header r).
Definition SecurityPatchAuditConfiguration_Method (r : SecurityPatchAuditConfigurationReq) : string := "PATCH".
#[export] Instance SecurityPatchAuditConfiguration_operation : operation SecurityPatchAuditConfigurationReq :=
  {| op_path := MkPathType "SecurityPatchAuditConfigurationPath" SecurityPatchAuditConfigurationPath _ _; op_P := SecurityPatchAuditConfigurationParams; op_fields r := MkSecurityPatchAuditConfigurationPath;
     op_params := SecurityPatchAuditConfigurationReq_Params; op_defaults := None; op_timeout := SecurityPatchAuditConfigurationParams_TimeoutParams; op_debug := SecurityPatchAuditConfigurationParams_DebugParams;
     op_format := None; op_own := SecurityPatchAuditConfigurationParams_own; op_slots := SecurityPatchAuditConfigurationParams_slots;
     op_body r := raw_body (SecurityPatchAuditConfigurationReq_Body r); op_headers r := SecurityPatchAuditConfigurationReq_Header r;
     Method := SecurityPatchAuditConfiguration_Method; GetRequest := SecurityPatchAuditConfigurationReq_GetRequest;
     op_keys := [];
     op_described := [("PATCH", "/_plugins/_security/api/audit")];
     op_query := [] |}.
#[export] Instance SecurityPatchAuditConfiguration_operates : LawfulOp SecurityPatchAuditConfigurationReq.
Proof. operate. Qed.

Record SecurityPatchConfigurationParams := MkSecurityPatchConfigurationParams { SecurityPatchConfigurationParams_TimeoutParams : TimeoutParams; SecurityPatchConfigurationParams_DebugParams : DebugParams }.
Definition SecurityPatchConfigurationParams_own (q : SecurityPatchConfigurationParams) : list param :=
  [].
Definition SecurityPatchConfigurationParams_slots : list (string * (SecurityPatchConfigurationParams -> slot)) :=
  [].
Definition SecurityPatchConfigurationParams_get (q : SecurityPatchConfigurationParams) : gmap string string :=
  encode_params (EncodeTimeout (SecurityPatchConfigurationParams_TimeoutParams q) ++ EncodeDebug (SecurityPatchConfigurationParams_DebugParams q) ++ SecurityPatchConfigurationParams_own q).
Record SecurityPatchConfigurationReq := MkSecurityPatchConfigurationReq { SecurityPatchConfigurationReq_Body : reader; SecurityPatchConfigurationReq_Header : headers;
  SecurityPatchConfigurationReq_Params : option SecurityPatchConfigurationParams }.
Definition SecurityPatchConfigurationReq_GetRequest (r : SecurityPatchConfigurationReq) (method : string) : request_error + httpRequest * Z :=
  send method (SecurityPatchConfigurationPath_Build (MkSecurityPatchConfigurationPath))
    (match SecurityPatchConfigurationReq_Params r with Some q => SecurityPatchConfigurationParams_get q | None => ∅ end)
    (raw_body (SecurityPatchConfigurationReq_Body r)) (SecurityPatchConfigurationReq_Header r).
Definition SecurityPatchConfiguration_Method (r : SecurityPatchConfigurationReq) : string := "PATCH".
#[export] Instance SecurityPatchConfiguration_operation : operation SecurityPatchConfigurationReq :=
  {| op_path := MkPathType "SecurityPatchConfigurationPath" SecurityPatchConfigurationPath _ _; op_P := SecurityPatchConfigurationParams; op_fields r := MkSecurityPatchConfigurationPath;
     op_params := SecurityPatchConfigurationReq_Params; op_defaults := None; op_timeout := SecurityPatchConfigurationParams_TimeoutParams; op_debug := SecurityPatchConfigurationParams_DebugParams;
     op_format := None; op_own := SecurityPatchConfigurationParams_own; op_slots := SecurityPatchConfigurationParams_slots;
     op_body r := raw_body (SecurityPatchConfigurationReq_Body r); op_headers r := SecurityPatchConfigurationReq_Header r;
     Method := SecurityPatchConfiguration_Method; GetRequest := SecurityPatchConfigurationReq_GetRequest;
     op_keys := [];
     op_described := [("PATCH", "/_plugins/_security/api/securityconfig")];
     op_query := [] |}.
#[export] Instance SecurityPatchConfiguration_operates : LawfulOp SecurityPatchConfigurationReq.
Proof. operate. Qed.

Record SecurityPatchDistinguishedNameParams := MkSecurityPatchDistinguishedNameParams { SecurityPatchDistinguishedNameParams_TimeoutParams : TimeoutParams; SecurityPatchDistinguishedNameParams_DebugParams : DebugParams }.
Definition SecurityPatchDistinguishedNameParams_own (q : SecurityPatchDistinguishedNameParams) : list param :=
  [].
Definition SecurityPatchDistinguishedNameParams_slots : list (string * (SecurityPatchDistinguishedNameParams -> slot)) :=
  [].
Definition SecurityPatchDistinguishedNameParams_get (q : SecurityPatchDistinguishedNameParams) : gmap string string :=
  encode_params (EncodeTimeout (SecurityPatchDistinguishedNameParams_TimeoutParams q) ++ EncodeDebug (SecurityPatchDistinguishedNameParams_DebugParams q) ++ SecurityPatchDistinguishedNameParams_own q).
Record SecurityPatchDistinguishedNameReq := MkSecurityPatchDistinguishedNameReq { SecurityPatchDistinguishedNameReq_ClusterName : string; SecurityPatchDistinguishedNameReq_Body : reader;
  SecurityPatchDistinguishedNameReq_Header : headers; SecurityPatchDistinguishedNameReq_Params : option SecurityPatchDistinguishedNameParams }.
Definition SecurityPatchDistinguishedNameReq_GetRequest (r : SecurityPatchDistinguishedNameReq) (method : string) : request_error + httpRequest * Z :=
  send method (SecurityPatchDistinguishedNamePath_Build (MkSecurityPatchDistinguishedNamePath (SecurityPatchDistinguishedNameReq_ClusterName r)))
    (match SecurityPatchDistinguishedNameReq_Params r with Some q => SecurityPatchDistinguishedNameParams_get q | None => ∅ end)
    (raw_body (SecurityPatchDistinguishedNameReq_Body r)) (SecurityPatchDistinguishedNameReq_Header r).
Definition SecurityPatchDistinguishedName_Method (r : SecurityPatchDistinguishedNameReq) : string := "PATCH".
#[export] Instance SecurityPatchDistinguishedName_operation : operation SecurityPatchDistinguishedNameReq :=
  {| op_path := MkPathType "SecurityPatchDistinguishedNamePath" SecurityPatchDistinguishedNamePath _ _; op_P := SecurityPatchDistinguishedNameParams; op_fields r := MkSecurityPatchDistinguishedNamePath (SecurityPatchDistinguishedNameReq_ClusterName r);
     op_params := SecurityPatchDistinguishedNameReq_Params; op_defaults := None; op_timeout := SecurityPatchDistinguishedNameParams_TimeoutParams; op_debug := SecurityPatchDistinguishedNameParams_DebugParams;
     op_format := None; op_own := SecurityPatchDistinguishedNameParams_own; op_slots := SecurityPatchDistinguishedNameParams_slots;
     op_body r := raw_body (SecurityPatchDistinguishedNameReq_Body r); op_headers r := SecurityPatchDistinguishedNameReq_Header r;
     Method := SecurityPatchDistinguishedName_Method; GetRequest := SecurityPatchDistinguishedNameReq_GetRequest;
     op_keys := [];
     op_described := [("PATCH", "/_plugins/_security/api/nodesdn/{cluster_name}")];
     op_query := [] |}.
#[export] Instance SecurityPatchDistinguishedName_operates : LawfulOp SecurityPatchDistinguishedNameReq.
Proof. operate. Qed.

Record SecurityPatchDistinguishedNamesParams := MkSecurityPatchDistinguishedNamesParams { SecurityPatchDistinguishedNamesParams_TimeoutParams : TimeoutParams; SecurityPatchDistinguishedNamesParams_DebugParams : DebugParams }.
Definition SecurityPatchDistinguishedNamesParams_own (q : SecurityPatchDistinguishedNamesParams) : list param :=
  [].
Definition SecurityPatchDistinguishedNamesParams_slots : list (string * (SecurityPatchDistinguishedNamesParams -> slot)) :=
  [].
Definition SecurityPatchDistinguishedNamesParams_get (q : SecurityPatchDistinguishedNamesParams) : gmap string string :=
  encode_params (EncodeTimeout (SecurityPatchDistinguishedNamesParams_TimeoutParams q) ++ EncodeDebug (SecurityPatchDistinguishedNamesParams_DebugParams q) ++ SecurityPatchDistinguishedNamesParams_own q).
Record SecurityPatchDistinguishedNamesReq := MkSecurityPatchDistinguishedNamesReq { SecurityPatchDistinguishedNamesReq_Body : reader; SecurityPatchDistinguishedNamesReq_Header : headers;
  SecurityPatchDistinguishedNamesReq_Params : option SecurityPatchDistinguishedNamesParams }.
Definition SecurityPatchDistinguishedNamesReq_GetRequest (r : SecurityPatchDistinguishedNamesReq) (method : string) : request_error + httpRequest * Z :=
  send method (SecurityPatchDistinguishedNamesPath_Build (MkSecurityPatchDistinguishedNamesPath))
    (match SecurityPatchDistinguishedNamesReq_Params r with Some q => SecurityPatchDistinguishedNamesParams_get q | None => ∅ end)
    (raw_body (SecurityPatchDistinguishedNamesReq_Body r)) (SecurityPatchDistinguishedNamesReq_Header r).
Definition SecurityPatchDistinguishedNames_Method (r : SecurityPatchDistinguishedNamesReq) : string := "PATCH".
#[export] Instance SecurityPatchDistinguishedNames_operation : operation SecurityPatchDistinguishedNamesReq :=
  {| op_path := MkPathType "SecurityPatchDistinguishedNamesPath" SecurityPatchDistinguishedNamesPath _ _; op_P := SecurityPatchDistinguishedNamesParams; op_fields r := MkSecurityPatchDistinguishedNamesPath;
     op_params := SecurityPatchDistinguishedNamesReq_Params; op_defaults := None; op_timeout := SecurityPatchDistinguishedNamesParams_TimeoutParams; op_debug := SecurityPatchDistinguishedNamesParams_DebugParams;
     op_format := None; op_own := SecurityPatchDistinguishedNamesParams_own; op_slots := SecurityPatchDistinguishedNamesParams_slots;
     op_body r := raw_body (SecurityPatchDistinguishedNamesReq_Body r); op_headers r := SecurityPatchDistinguishedNamesReq_Header r;
     Method := SecurityPatchDistinguishedNames_Method; GetRequest := SecurityPatchDistinguishedNamesReq_GetRequest;
     op_keys := [];
     op_described := [("PATCH", "/_plugins/_security/api/nodesdn")];
     op_query := [] |}.
#[export] Instance SecurityPatchDistinguishedNames_operates : LawfulOp SecurityPatchDistinguishedNamesReq.
Proof. operate. Qed.

Record SecurityPatchRoleParams := MkSecurityPatchRoleParams { SecurityPatchRoleParams_TimeoutParams : TimeoutParams; SecurityPatchRoleParams_DebugParams : DebugParams }.
Definition SecurityPatchRoleParams_own (q : SecurityPatchRoleParams) : list param :=
  [].
Definition SecurityPatchRoleParams_slots : list (string * (SecurityPatchRoleParams -> slot)) :=
  [].
Definition SecurityPatchRoleParams_get (q : SecurityPatchRoleParams) : gmap string string :=
  encode_params (EncodeTimeout (SecurityPatchRoleParams_TimeoutParams q) ++ EncodeDebug (SecurityPatchRoleParams_DebugParams q) ++ SecurityPatchRoleParams_own q).
Record SecurityPatchRoleReq := MkSecurityPatchRoleReq { SecurityPatchRoleReq_Role : string; SecurityPatchRoleReq_Body : reader; SecurityPatchRoleReq_Header : headers;
  SecurityPatchRoleReq_Params : option SecurityPatchRoleParams }.
Definition SecurityPatchRoleReq_GetRequest (r : SecurityPatchRoleReq) (method : string) : request_error + httpRequest * Z :=
  send method (SecurityPatchRolePath_Build (MkSecurityPatchRolePath (SecurityPatchRoleReq_Role r)))
    (match SecurityPatchRoleReq_Params r with Some q => SecurityPatchRoleParams_get q | None => ∅ end)
    (raw_body (SecurityPatchRoleReq_Body r)) (SecurityPatchRoleReq_Header r).
Definition SecurityPatchRole_Method (r : SecurityPatchRoleReq) : string := "PATCH".
#[export] Instance SecurityPatchRole_operation : operation SecurityPatchRoleReq :=
  {| op_path := MkPathType "SecurityPatchRolePath" SecurityPatchRolePath _ _; op_P := SecurityPatchRoleParams; op_fields r := MkSecurityPatchRolePath (SecurityPatchRoleReq_Role r);
     op_params := SecurityPatchRoleReq_Params; op_defaults := None; op_timeout := SecurityPatchRoleParams_TimeoutParams; op_debug := SecurityPatchRoleParams_DebugParams;
     op_format := None; op_own := SecurityPatchRoleParams_own; op_slots := SecurityPatchRoleParams_slots;
     op_body r := raw_body (SecurityPatchRoleReq_Body r); op_headers r := SecurityPatchRoleReq_Header r;
     Method := SecurityPatchRole_Method; GetRequest := SecurityPatchRoleReq_GetRequest;
     op_keys := [];
     op_described := [("PATCH", "/_plugins/_security/api/roles/{role}")];
     op_query := [] |}.
#[export] Instance SecurityPatchRole_operates : LawfulOp SecurityPatchRoleReq.
Proof. operate. Qed.

Record SecurityPatchRoleMappingParams := MkSecurityPatchRoleMappingParams { SecurityPatchRoleMappingParams_TimeoutParams : TimeoutParams; SecurityPatchRoleMappingParams_DebugParams : DebugParams }.
Definition SecurityPatchRoleMappingParams_own (q : SecurityPatchRoleMappingParams) : list param :=
  [].
Definition SecurityPatchRoleMappingParams_slots : list (string * (SecurityPatchRoleMappingParams -> slot)) :=
  [].
Definition SecurityPatchRoleMappingParams_get (q : SecurityPatchRoleMappingParams) : gmap string string :=
  encode_params (EncodeTimeout (SecurityPatchRoleMappingParams_TimeoutParams q) ++ EncodeDebug (SecurityPatchRoleMappingParams_DebugParams q) ++ SecurityPatchRoleMappingParams_own q).
Record SecurityPatchRoleMappingReq := MkSecurityPatchRoleMappingReq { SecurityPatchRoleMappingReq_Role : string; SecurityPatchRoleMappingReq_Body : reader; SecurityPatchRoleMappingReq_Header : headers;
  SecurityPatchRoleMappingReq_Params : option SecurityPatchRoleMappingParams }.
Definition SecurityPatchRoleMappingReq_GetRequest (r : SecurityPatchRoleMappingReq) (method : string) : request_error + httpRequest * Z :=
  send method (SecurityPatchRoleMappingPath_Build (MkSecurityPatchRoleMappingPath (SecurityPatchRoleMappingReq_Role r)))
    (match SecurityPatchRoleMappingReq_Params r with Some q => SecurityPatchRoleMappingParams_get q | None => ∅ end)
    (raw_body (SecurityPatchRoleMappingReq_Body r)) (SecurityPatchRoleMappingReq_Header r).
Definition SecurityPatchRoleMapping_Method (r : SecurityPatchRoleMappingReq) : string := "PATCH".
#[export] Instance SecurityPatchRoleMapping_operation : operation SecurityPatchRoleMappingReq :=
  {| op_path := MkPathType "SecurityPatchRoleMappingPath" SecurityPatchRoleMappingPath _ _; op_P := SecurityPatchRoleMappingParams; op_fields r := MkSecurityPatchRoleMappingPath (SecurityPatchRoleMappingReq_Role r);
     op_params := SecurityPatchRoleMappingReq_Params; op_defaults := None; op_timeout := SecurityPatchRoleMappingParams_TimeoutParams; op_debug := SecurityPatchRoleMappingParams_DebugParams;
     op_format := None; op_own := SecurityPatchRoleMappingParams_own; op_slots := SecurityPatchRoleMappingParams_slots;
     op_body r := raw_body (SecurityPatchRoleMappingReq_Body r); op_headers r := SecurityPatchRoleMappingReq_Header r;
     Method := SecurityPatchRoleMapping_Method; GetRequest := SecurityPatchRoleMappingReq_GetRequest;
     op_keys := [];
     op_described := [("PATCH", "/_plugins/_security/api/rolesmapping/{role}")];
     op_query := [] |}.
#[export] Instance SecurityPatchRoleMapping_operates : LawfulOp SecurityPatchRoleMappingReq.
Proof. operate. Qed.

Record SecurityPatchRoleMappingsParams := MkSecurityPatchRoleMappingsParams { SecurityPatchRoleMappingsParams_TimeoutParams : TimeoutParams; SecurityPatchRoleMappingsParams_DebugParams : DebugParams }.
Definition SecurityPatchRoleMappingsParams_own (q : SecurityPatchRoleMappingsParams) : list param :=
  [].
Definition SecurityPatchRoleMappingsParams_slots : list (string * (SecurityPatchRoleMappingsParams -> slot)) :=
  [].
Definition SecurityPatchRoleMappingsParams_get (q : SecurityPatchRoleMappingsParams) : gmap string string :=
  encode_params (EncodeTimeout (SecurityPatchRoleMappingsParams_TimeoutParams q) ++ EncodeDebug (SecurityPatchRoleMappingsParams_DebugParams q) ++ SecurityPatchRoleMappingsParams_own q).
Record SecurityPatchRoleMappingsReq := MkSecurityPatchRoleMappingsReq { SecurityPatchRoleMappingsReq_Body : reader; SecurityPatchRoleMappingsReq_Header : headers;
  SecurityPatchRoleMappingsReq_Params : option SecurityPatchRoleMappingsParams }.
Definition SecurityPatchRoleMappingsReq_GetRequest (r : SecurityPatchRoleMappingsReq) (method : string) : request_error + httpRequest * Z :=
  send method (SecurityPatchRoleMappingsPath_Build (MkSecurityPatchRoleMappingsPath))
    (match SecurityPatchRoleMappingsReq_Params r with Some q => SecurityPatchRoleMappingsParams_get q | None => ∅ end)
    (raw_body (SecurityPatchRoleMappingsReq_Body r)) (SecurityPatchRoleMappingsReq_Header r).
Definition SecurityPatchRoleMappings_Method (r : SecurityPatchRoleMappingsReq) : string := "PATCH".
#[export] Instance SecurityPatchRoleMappings_operation : operation SecurityPatchRoleMappingsReq :=
  {| op_path := MkPathType "SecurityPatchRoleMappingsPath" SecurityPatchRoleMappingsPath _ _; op_P := SecurityPatchRoleMappingsParams; op_fields r := MkSecurityPatchRoleMappingsPath;
     op_params := SecurityPatchRoleMappingsReq_Params; op_defaults := None; op_timeout := SecurityPatchRoleMappingsParams_TimeoutParams; op_debug := SecurityPatchRoleMappingsParams_DebugParams;
     op_format := None; op_own := SecurityPatchRoleMappingsParams_own; op_slots := SecurityPatchRoleMappingsParams_slots;
     op_body r := raw_body (SecurityPatchRoleMappingsReq_Body r); op_headers r := SecurityPatchRoleMappingsReq_Header r;
     Method := SecurityPatchRoleMappings_Method; GetRequest := SecurityPatchRoleMappingsReq_GetRequest;
     op_keys := [];
     op_described := [("PATCH", "/_plugins/_security/api/rolesmapping")];
     op_query := [] |}.
#[export] Instance SecurityPatchRoleMappings_operates : LawfulOp SecurityPatchRoleMappingsReq.
Proof. operate. Qed.

Record SecurityPatchRolesParams := MkSecurityPatchRolesParams { SecurityPatchRolesParams_TimeoutParams : TimeoutParams; SecurityPatchRolesParams_DebugParams : DebugParams }.
Definition SecurityPatchRolesParams_own (q : SecurityPatchRolesParams) : list param :=
  [].
Definition SecurityPatchRolesParams_slots : list (string * (SecurityPatchRolesParams -> slot)) :=
  [].
Definition SecurityPatchRolesParams_get (q : SecurityPatchRolesParams) : gmap string string :=
  encode_params (EncodeTimeout (SecurityPatchRolesParams_TimeoutParams q) ++ EncodeDebug (SecurityPatchRolesParams_DebugParams q) ++ SecurityPatchRolesParams_own q).
Record SecurityPatchRolesReq := MkSecurityPatchRolesReq { SecurityPatchRolesReq_Body : reader; SecurityPatchRolesReq_Header : headers; SecurityPatchRolesReq_Params : option SecurityPatchRolesParams }.
Definition SecurityPatchRolesReq_GetRequest (r : SecurityPatchRolesReq) (method : string) : request_error + httpRequest * Z :=
  send method (SecurityPatchRolesPath_Build (MkSecurityPatchRolesPath))
    (match SecurityPatchRolesReq_Params r with Some q => SecurityPatchRolesParams_get q | None => ∅ end)
    (raw_body (SecurityPatchRolesReq_Body r)) (SecurityPatchRolesReq_Header r).
Definition SecurityPatchRoles_Method (r : SecurityPatchRolesReq) : string := "PATCH".
#[export] Instance SecurityPatchRoles_operation : operation SecurityPatchRolesReq :=
  {| op_path := MkPathType "SecurityPatchRolesPath" SecurityPatchRolesPath _ _; op_P := SecurityPatchRolesParams; op_fields r := MkSecurityPatchRolesPath;
     op_params := SecurityPatchRolesReq_Params; op_defaults := None; op_timeout := SecurityPatchRolesParams_TimeoutParams; op_debug := SecurityPatchRolesParams_DebugParams;
     op_format := None; op_own := SecurityPatchRolesParams_own; op_slots := SecurityPatchRolesParams_slots;
     op_body r := raw_body (SecurityPatchRolesReq_Body r); op_headers r := SecurityPatchRolesReq_Header r;
     Method := SecurityPatchRoles_Method; GetRequest := SecurityPatchRolesReq_GetRequest;
     op_keys := [];
     op_described := [("PATCH", "/_plugins/_security/api/roles")];
     op_query := [] |}.
#[export] Instance SecurityPatchRoles_operates : LawfulOp SecurityPatchRolesReq.
Proof. operate. Qed.

Record SecurityPatchTenantParams := MkSecurityPatchTenantParams { SecurityPatchTenantParams_TimeoutParams : TimeoutParams; SecurityPatchTenantParams_DebugParams : DebugParams }.
Definition SecurityPatchTenantParams_own (q : SecurityPatchTenantParams) : list param :=
  [].
Definition SecurityPatchTenantParams_slots : list (string * (SecurityPatchTenantParams -> slot)) :=
  [].
Definition SecurityPatchTenantParams_get (q : SecurityPatchTenantParams) : gmap string string :=
  encode_params (EncodeTimeout (SecurityPatchTenantParams_TimeoutParams q) ++ EncodeDebug (SecurityPatchTenantParams_DebugParams q) ++ SecurityPatchTenantParams_own q).
Record SecurityPatchTenantReq := MkSecurityPatchTenantReq { SecurityPatchTenantReq_Tenant : string; SecurityPatchTenantReq_Body : reader; SecurityPatchTenantReq_Header : headers;
  SecurityPatchTenantReq_Params : option SecurityPatchTenantParams }.
Definition SecurityPatchTenantReq_GetRequest (r : SecurityPatchTenantReq) (method : string) : request_error + httpRequest * Z :=
  send method (SecurityPatchTenantPath_Build (MkSecurityPatchTenantPath (SecurityPatchTenantReq_Tenant r)))
    (match SecurityPatchTenantReq_Params r with Some q => SecurityPatchTenantParams_get q | None => ∅ end)
    (raw_body (SecurityPatchTenantReq_Body r)) (SecurityPatchTenantReq_Header r).
Definition SecurityPatchTenant_Method (r : SecurityPatchTenantReq) : string := "PATCH".
#[export] Instance SecurityPatchTenant_operation : operation SecurityPatchTenantReq :=
  {| op_path := MkPathType "SecurityPatchTenantPath" SecurityPatchTenantPath _ _; op_P := SecurityPatchTenantParams; op_fields r := MkSecurityPatchTenantPath (SecurityPatchTenantReq_Tenant r);
     op_params := SecurityPatchTenantReq_Params; op_defaults := None; op_timeout := SecurityPatchTenantParams_TimeoutParams; op_debug := SecurityPatchTenantParams_DebugParams;
     op_format := None; op_own := SecurityPatchTenantParams_own; op_slots := SecurityPatchTenantParams_slots;
     op_body r := raw_body (SecurityPatchTenantReq_Body r); op_headers r := SecurityPatchTenantReq_Header r;
     Method := SecurityPatchTenant_Method; GetRequest := SecurityPatchTenantReq_GetRequest;
     op_keys := [];
     op_described := [("PATCH", "/_plugins/_security/api/tenants/{tenant}")];
     op_query := [] |}.
#[export] Instance SecurityPatchTenant_operates : LawfulOp SecurityPatchTenantReq.
Proof. operate. Qed.

Record SecurityPatchTenantsParams := MkSecurityPatchTenantsParams { SecurityPatchTenantsParams_TimeoutParams : TimeoutParams; SecurityPatchTenantsParams_DebugParams : DebugParams }.
Definition SecurityPatchTenantsParams_own (q : SecurityPatchTenantsParams) : list param :=
  [].
Definition SecurityPatchTenantsParams_slots : list (string * (SecurityPatchTenantsParams -> slot)) :=
  [].
Definition SecurityPatchTenantsParams_get (q : SecurityPatchTenantsParams) : gmap string string :=
  encode_params (EncodeTimeout (SecurityPatchTenantsParams_TimeoutParams q) ++ EncodeDebug (SecurityPatchTenantsParams_DebugParams q) ++ SecurityPatchTenantsParams_own q).
Record SecurityPatchTenantsReq := MkSecurityPatchTenantsReq { SecurityPatchTenantsReq_Body : reader; SecurityPatchTenantsReq_Header : headers; SecurityPatchTenantsReq_Params : option SecurityPatchTenantsParams }.
Definition SecurityPatchTenantsReq_GetRequest (r : SecurityPatchTenantsReq) (method : string) : request_error + httpRequest * Z :=
  send method (SecurityPatchTenantsPath_Build (MkSecurityPatchTenantsPath))
    (match SecurityPatchTenantsReq_Params r with Some q => SecurityPatchTenantsParams_get q | None => ∅ end)
    (raw_body (SecurityPatchTenantsReq_Body r)) (SecurityPatchTenantsReq_Header r).
Definition SecurityPatchTenants_Method (r : SecurityPatchTenantsReq) : string := "PATCH".
#[export] Instance SecurityPatchTenants_operation : operation SecurityPatchTenantsReq :=
  {| op_path := MkPathType "SecurityPatchTenantsPath" SecurityPatchTenantsPath _ _; op_P := SecurityPatchTenantsParams; op_fields r := MkSecurityPatchTenantsPath;
     op_params := SecurityPatchTenantsReq_Params; op_defaults := None; op_timeout := SecurityPatchTenantsParams_TimeoutParams; op_debug := SecurityPatchTenantsParams_DebugParams;
     op_format := None; op_own := SecurityPatchTenantsParams_own; op_slots := SecurityPatchTenantsParams_slots;
     op_body r := raw_body (SecurityPatchTenantsReq_Body r); op_headers r := SecurityPatchTenantsReq_Header r;
     Method := SecurityPatchTenants_Method; GetRequest := SecurityPatchTenantsReq_GetRequest;
     op_keys := [];
     op_described := [("PATCH", "/_plugins/_security/api/tenants")];
     op_query := [] |}.
#[export] Instance SecurityPatchTenants_operates : LawfulOp SecurityPatchTenantsReq.
Proof. operate. Qed.

Record SecurityPatchUserParams := MkSecurityPatchUserParams { SecurityPatchUserParams_TimeoutParams : TimeoutParams; SecurityPatchUserParams_DebugParams : DebugParams }.
Definition SecurityPatchUserParams_own (q : SecurityPatchUserParams) : list param :=
  [].
Definition SecurityPatchUserParams_slots : list (string * (SecurityPatchUserParams -> slot)) :=
  [].
Definition SecurityPatchUserParams_get (q : SecurityPatchUserParams) : gmap string string :=
  encode_params (EncodeTimeout (SecurityPatchUserParams_TimeoutParams q) ++ EncodeDebug (SecurityPatchUserParams_DebugParams q) ++ SecurityPatchUserParams_own q).
Record SecurityPatchUserReq := MkSecurityPatchUserReq { SecurityPatchUserReq_Username : string; SecurityPatchUserReq_Body : reader; SecurityPatchUserReq_Header : headers;
  SecurityPatchUserReq_Params : option SecurityPatchUserParams }.
Definition SecurityPatchUserReq_GetRequest (r : SecurityPatchUserReq) (method : string) : request_error + httpRequest * Z :=
  send method (SecurityPatchUserPath_Build (MkSecurityPatchUserPath (SecurityPatchUserReq_Username r)))
    (match SecurityPatchUserReq_Params r with Some q => SecurityPatchUserParams_get q | None => ∅ end)
    (raw_body (SecurityPatchUserReq_Body r)) (SecurityPatchUserReq_Header r).
Definition SecurityPatchUser_Method (r : SecurityPatchUserReq) : string := "PATCH".
#[export] Instance SecurityPatchUser_operation : operation SecurityPatchUserReq :=
  {| op_path := MkPathType "SecurityPatchUserPath" SecurityPatchUserPath _ _; op_P := SecurityPatchUserParams; op_fields r := MkSecurityPatchUserPath (SecurityPatchUserReq_Username r);
     op_params := SecurityPatchUserReq_Params; op_defaults := None; op_timeout := SecurityPatchUserParams_TimeoutParams; op_debug := SecurityPatchUserParams_DebugParams;
     op_format := None; op_own := SecurityPatchUserParams_own; op_slots := SecurityPatchUserParams_slots;
     op_body r := raw_body (SecurityPatchUserReq_Body r); op_headers r := SecurityPatchUserReq_Header r;
     Method := SecurityPatchUser_Method; GetRequest := SecurityPatchUserReq_GetRequest;
     op_keys := [];
     op_described := [("PATCH", "/_plugins/_security/api/internalusers/{username}")];
     op_query := [] |}.
#[export] Instance SecurityPatchUser_operates : LawfulOp SecurityPatchUserReq.
Proof. operate. Qed.

Record SecurityPatchUsersParams := MkSecurityPatchUsersParams { SecurityPatchUsersParams_TimeoutParams : TimeoutParams; SecurityPatchUsersParams_DebugParams : DebugParams }.
Definition SecurityPatchUsersParams_own (q : SecurityPatchUsersParams) : list param :=
  [].
Definition SecurityPatchUsersParams_slots : list (string * (SecurityPatchUsersParams -> slot)) :=
  [].
Definition SecurityPatchUsersParams_get (q : SecurityPatchUsersParams) : gmap string string :=
  encode_params (EncodeTimeout (SecurityPatchUsersParams_TimeoutParams q) ++ EncodeDebug (SecurityPatchUsersParams_DebugParams q) ++ SecurityPatchUsersParams_own q).
Record SecurityPatchUsersReq := MkSecurityPatchUsersReq { SecurityPatchUsersReq_Body : reader; SecurityPatchUsersReq_Header : headers; SecurityPatchUsersReq_Params : option SecurityPatchUsersParams }.
Definition SecurityPatchUsersReq_GetRequest (r : SecurityPatchUsersReq) (method : string) : request_error + httpRequest * Z :=
  send method (SecurityPatchUsersPath_Build (MkSecurityPatchUsersPath))
    (match SecurityPatchUsersReq_Params r with Some q => SecurityPatchUsersParams_get q | None => ∅ end)
    (raw_body (SecurityPatchUsersReq_Body r)) (SecurityPatchUsersReq_Header r).
Definition SecurityPatchUsers_Method (r : SecurityPatchUsersReq) : string := "PATCH".
#[export] Instance SecurityPatchUsers_operation : operation SecurityPatchUsersReq :=
  {| op_path := MkPathType "SecurityPatchUsersPath" SecurityPatchUsersPath _ _; op_P := SecurityPatchUsersParams; op_fields r := MkSecurityPatchUsersPath;
     op_params := SecurityPatchUsersReq_Params; op_defaults := None; op_timeout := SecurityPatchUsersParams_TimeoutParams; op_debug := SecurityPatchUsersParams_DebugParams;
     op_format := None; op_own := SecurityPatchUsersParams_own; op_slots := SecurityPatchUsersParams_slots;
     op_body r := raw_body (SecurityPatchUsersReq_Body r); op_headers r := SecurityPatchUsersReq_Header r;
     Method := SecurityPatchUsers_Method; GetRequest := SecurityPatchUsersReq_GetRequest;
     op_keys := [];
     op_described := [("PATCH", "/_plugins/_security/api/internalusers")];
     op_query := [] |}.
#[export] Instance SecurityPatchUsers_operates : LawfulOp SecurityPatchUsersReq.
Proof. operate. Qed.

Record SecurityPostDashboardsInfoParams := MkSecurityPostDashboardsInfoParams { SecurityPostDashboardsInfoParams_TimeoutParams : TimeoutParams; SecurityPostDashboardsInfoParams_DebugParams : DebugParams }.
Definition SecurityPostDashboardsInfoParams_own (q : SecurityPostDashboardsInfoParams) : list param :=
  [].
Definition SecurityPostDashboardsInfoParams_slots : list (string * (SecurityPostDashboardsInfoParams -> slot)) :=
  [].
Definition SecurityPostDashboardsInfoParams_get (q : SecurityPostDashboardsInfoParams) : gmap string string :=
  encode_params (EncodeTimeout (SecurityPostDashboardsInfoParams_TimeoutParams q) ++ EncodeDebug (SecurityPostDashboardsInfoParams_DebugParams q) ++ SecurityPostDashboardsInfoParams_own q).
Record SecurityPostDashboardsInfoReq := MkSecurityPostDashboardsInfoReq { SecurityPostDashboardsInfoReq_Header : headers; SecurityPostDashboardsInfoReq_Params : option SecurityPostDashboardsInfoParams }.
Definition SecurityPostDashboardsInfoReq_GetRequest (r : SecurityPostDashboardsInfoReq) (method : string) : request_error + httpRequest * Z :=
  send method (SecurityPostDashboardsInfoPath_Build (MkSecurityPostDashboardsInfoPath))
    (match SecurityPostDashboardsInfoReq_Params r with Some q => SecurityPostDashboardsInfoParams_get q | None => ∅ end)
    no_body (SecurityPostDashboardsInfoReq_Header r).
Definition SecurityPostDashboardsInfo_Method (r : SecurityPostDashboardsInfoReq) : string := "POST".
#[export] Instance SecurityPostDashboardsInfo_operation : operation SecurityPostDashboardsInfoReq :=
  {| op_path := MkPathType "SecurityPostDashboardsInfoPath" SecurityPostDashboardsInfoPath _ _; op_P := SecurityPostDashboardsInfoParams; op_fields r := MkSecurityPostDashboardsInfoPath;
     op_params := SecurityPostDashboardsInfoReq_Params; op_defaults := None; op_timeout := SecurityPostDashboardsInfoParams_TimeoutParams; op_debug := SecurityPostDashboardsInfoParams_DebugParams;
     op_format := None; op_own := SecurityPostDashboardsInfoParams_own; op_slots := SecurityPostDashboardsInfoParams_slots;
     op_body _ := no_body; op_headers r := SecurityPostDashboardsInfoReq_Header r;
     Method := SecurityPostDashboardsInfo_Method; GetRequest := SecurityPostDashboardsInfoReq_GetRequest;
     op_keys := [];
     op_described := [("POST", "/_plugins/_security/dashboardsinfo")];
     op_query := [] |}.
#[export] Instance SecurityPostDashboardsInfo_operates : LawfulOp SecurityPostDashboardsInfoReq.
Proof. operate. Qed.

Record SecurityReloadHTTPCertificatesParams := MkSecurityReloadHTTPCertificatesParams { SecurityReloadHTTPCertificatesParams_TimeoutParams : TimeoutParams; SecurityReloadHTTPCertificatesParams_DebugParams : DebugParams }.
Definition SecurityReloadHTTPCertificatesParams_own (q : SecurityReloadHTTPCertificatesParams) : list param :=
  [].
Definition SecurityReloadHTTPCertificatesParams_slots : list (string * (SecurityReloadHTTPCertificatesParams -> slot)) :=
  [].
Definition SecurityReloadHTTPCertificatesParams_get (q : SecurityReloadHTTPCertificatesParams) : gmap string string :=
  encode_params (EncodeTimeout (SecurityReloadHTTPCertificatesParams_TimeoutParams q) ++ EncodeDebug (SecurityReloadHTTPCertificatesParams_DebugParams q) ++ SecurityReloadHTTPCertificatesParams_own q).
Record SecurityReloadHTTPCertificatesReq := MkSecurityReloadHTTPCertificatesReq { SecurityReloadHTTPCertificatesReq_Header : headers; SecurityReloadHTTPCertificatesReq_Params : option SecurityReloadHTTPCertificatesParams }.
Definition SecurityReloadHTTPCertificatesReq_GetRequest (r : SecurityReloadHTTPCertificatesReq) (method : string) : request_error + httpRequest * Z :=
  send method (SecurityReloadHTTPCertificatesPath_Build (MkSecurityReloadHTTPCertificatesPath))
    (match SecurityReloadHTTPCertificatesReq_Params r with Some q => SecurityReloadHTTPCertificatesParams_get q | None => ∅ end)
    no_body (SecurityReloadHTTPCertificatesReq_Header r).
Definition SecurityReloadHTTPCertificates_Method (r : SecurityReloadHTTPCertificatesReq) : string := "PUT".
#[export] Instance SecurityReloadHTTPCertificates_operation : operation SecurityReloadHTTPCertificatesReq :=
  {| op_path := MkPathType "SecurityReloadHTTPCertificatesPath" SecurityReloadHTTPCertificatesPath _ _; op_P := SecurityReloadHTTPCertificatesParams; op_fields r := MkSecurityReloadHTTPCertificatesPath;
     op_params := SecurityReloadHTTPCertificatesReq_Params; op_defaults := None; op_timeout := SecurityReloadHTTPCertificatesParams_TimeoutParams; op_debug := SecurityReloadHTTPCertificatesParams_DebugParams;
     op_format := None; op_own := SecurityReloadHTTPCertificatesParams_own; op_slots := SecurityReloadHTTPCertificatesParams_slots;
     op_body _ := no_body; op_headers r := SecurityReloadHTTPCertificatesReq_Header r;
     Method := SecurityReloadHTTPCertificates_Method; GetRequest := SecurityReloadHTTPCertificatesReq_GetRequest;
     op_keys := [];
     op_described := [("PUT", "/_plugins/_security/api/ssl/http/reloadcerts")];
     op_query := [] |}.
#[export] Instance SecurityReloadHTTPCertificates_operates : LawfulOp SecurityReloadHTTPCertificatesReq.
Proof. operate. Qed.

Record SecurityReloadTransportCertificatesParams := MkSecurityReloadTransportCertificatesParams { SecurityReloadTransportCertificatesParams_TimeoutParams : TimeoutParams; SecurityReloadTransportCertificatesParams_DebugParams : DebugParams }.
Definition SecurityReloadTransportCertificatesParams_own (q : SecurityReloadTransportCertificatesParams) : list param :=
  [].
Definition SecurityReloadTransportCertificatesParams_slots : list (string * (SecurityReloadTransportCertificatesParams -> slot)) :=
  [].
Definition SecurityReloadTransportCertificatesParams_get (q : SecurityReloadTransportCertificatesParams) : gmap string string :=
  encode_params (EncodeTimeout (SecurityReloadTransportCertificatesParams_TimeoutParams q) ++ EncodeDebug (SecurityReloadTransportCertificatesParams_DebugParams q) ++ SecurityReloadTransportCertificatesParams_own q).
Record SecurityReloadTransportCertificatesReq := MkSecurityReloadTransportCertificatesReq { SecurityReloadTransportCertificatesReq_Header : headers;
  SecurityReloadTransportCertificatesReq_Params : option SecurityReloadTransportCertificatesParams }.
Definition SecurityReloadTransportCertificatesReq_GetRequest (r : SecurityReloadTransportCertificatesReq) (method : string) : request_error + httpRequest * Z :=
  send method (SecurityReloadTransportCertificatesPath_Build (MkSecurityReloadTransportCertificatesPath))
    (match SecurityReloadTransportCertificatesReq_Params r with Some q => SecurityReloadTransportCertificatesParams_get q | None => ∅ end)
    no_body (SecurityReloadTransportCertificatesReq_Header r).
Definition SecurityReloadTransportCertificates_Method (r : SecurityReloadTransportCertificatesReq) : string := "PUT".
#[export] Instance SecurityReloadTransportCertificates_operation : operation SecurityReloadTransportCertificatesReq :=
  {| op_path := MkPathType "SecurityReloadTransportCertificatesPath" SecurityReloadTransportCertificatesPath _ _; op_P := SecurityReloadTransportCertificatesParams; op_fields r := MkSecurityReloadTransportCertificatesPath;
     op_params := SecurityReloadTransportCertificatesReq_Params; op_defaults := None; op_timeout := SecurityReloadTransportCertificatesParams_TimeoutParams; op_debug := SecurityReloadTransportCertificatesParams_DebugParams;
     op_format := None; op_own := SecurityReloadTransportCertificatesParams_own; op_slots := SecurityReloadTransportCertificatesParams_slots;
     op_body _ := no_body; op_headers r := SecurityReloadTransportCertificatesReq_Header r;
     Method := SecurityReloadTransportCertificates_Method; GetRequest := SecurityReloadTransportCertificatesReq_GetRequest;
     op_keys := [];
     op_described := [("PUT", "/_plugins/_security/api/ssl/transport/reloadcerts")];
     op_query := [] |}.
#[export] Instance SecurityReloadTransportCertificates_operates : LawfulOp SecurityReloadTransportCertificatesReq.
Proof. operate. Qed.

Record SecurityTenantInfoParams := MkSecurityTenantInfoParams { SecurityTenantInfoParams_TimeoutParams : TimeoutParams; SecurityTenantInfoParams_DebugParams : DebugParams }.
Definition SecurityTenantInfoParams_own (q : SecurityTenantInfoParams) : list param :=
  [].
Definition SecurityTenantInfoParams_slots : list (string * (SecurityTenantInfoParams -> slot)) :=
  [].
Definition SecurityTenantInfoParams_get (q : SecurityTenantInfoParams) : gmap string string :=
  encode_params (EncodeTimeout (SecurityTenantInfoParams_TimeoutParams q) ++ EncodeDebug (SecurityTenantInfoParams_DebugParams q) ++ SecurityTenantInfoParams_own q).
Record SecurityTenantInfoReq := MkSecurityTenantInfoReq { SecurityTenantInfoReq_Header : headers; SecurityTenantInfoReq_Params : option SecurityTenantInfoParams }.
Definition SecurityTenantInfoReq_GetRequest (r : SecurityTenantInfoReq) (method : string) : request_error + httpRequest * Z :=
  send method (SecurityTenantInfoPath_Build (MkSecurityTenantInfoPath))
    (match SecurityTenantInfoReq_Params r with Some q => SecurityTenantInfoParams_get q | None => ∅ end)
    no_body (SecurityTenantInfoReq_Header r).
Definition SecurityTenantInfo_Method (r : SecurityTenantInfoReq) : string := "GET".
#[export] Instance SecurityTenantInfo_operation : operation SecurityTenantInfoReq :=
  {| op_path := MkPathType "SecurityTenantInfoPath" SecurityTenantInfoPath _ _; op_P := SecurityTenantInfoParams; op_fields r := MkSecurityTenantInfoPath;
     op_params := SecurityTenantInfoReq_Params; op_defaults := None; op_timeout := SecurityTenantInfoParams_TimeoutParams; op_debug := SecurityTenantInfoParams_DebugParams;
     op_format := None; op_own := SecurityTenantInfoParams_own; op_slots := SecurityTenantInfoParams_slots;
     op_body _ := no_body; op_headers r := SecurityTenantInfoReq_Header r;
     Method := SecurityTenantInfo_Method; GetRequest := SecurityTenantInfoReq_GetRequest;
     op_keys := [];
     op_described := [("GET", "/_plugins/_security/tenantinfo"); ("POST", "/_plugins/_security/tenantinfo")];
     op_query := [] |}.
#[export] Instance SecurityTenantInfo_operates : LawfulOp SecurityTenantInfoReq.
Proof. operate. Qed.

Record SecurityUpdateAuditConfigurationParams := MkSecurityUpdateAuditConfigurationParams { SecurityUpdateAuditConfigurationParams_TimeoutParams : TimeoutParams; SecurityUpdateAuditConfigurationParams_DebugParams : DebugParams }.
Definition SecurityUpdateAuditConfigurationParams_own (q : SecurityUpdateAuditConfigurationParams) : list param :=
  [].
Definition SecurityUpdateAuditConfigurationParams_slots : list (string * (SecurityUpdateAuditConfigurationParams -> slot)) :=
  [].
Definition SecurityUpdateAuditConfigurationParams_get (q : SecurityUpdateAuditConfigurationParams) : gmap string string :=
  encode_params (EncodeTimeout (SecurityUpdateAuditConfigurationParams_TimeoutParams q) ++ EncodeDebug (SecurityUpdateAuditConfigurationParams_DebugParams q) ++ SecurityUpdateAuditConfigurationParams_own q).
Record SecurityUpdateAuditConfigurationReq := MkSecurityUpdateAuditConfigurationReq { SecurityUpdateAuditConfigurationReq_Body : option (option string); SecurityUpdateAuditConfigurationReq_BodyReader : reader;
  SecurityUpdateAuditConfigurationReq_Header : headers; SecurityUpdateAuditConfigurationReq_Params : option SecurityUpdateAuditConfigurationParams }.
Definition SecurityUpdateAuditConfigurationReq_GetRequest (r : SecurityUpdateAuditConfigurationReq) (method : string) : request_error + httpRequest * Z :=
  send method (SecurityUpdateAuditConfigurationPath_Build (MkSecurityUpdateAuditConfigurationPath))
    (match SecurityUpdateAuditConfigurationReq_Params r with Some q => SecurityUpdateAuditConfigurationParams_get q | None => ∅ end)
    (json_body (SecurityUpdateAuditConfigurationReq_Body r) (SecurityUpdateAuditConfigurationReq_BodyReader r)) (SecurityUpdateAuditConfigurationReq_Header r).
Definition SecurityUpdateAuditConfiguration_Method (r : SecurityUpdateAuditConfigurationReq) : string := "PUT".
#[export] Instance SecurityUpdateAuditConfiguration_operation : operation SecurityUpdateAuditConfigurationReq :=
  {| op_path := MkPathType "SecurityUpdateAuditConfigurationPath" SecurityUpdateAuditConfigurationPath _ _; op_P := SecurityUpdateAuditConfigurationParams; op_fields r := MkSecurityUpdateAuditConfigurationPath;
     op_params := SecurityUpdateAuditConfigurationReq_Params; op_defaults := None; op_timeout := SecurityUpdateAuditConfigurationParams_TimeoutParams; op_debug := SecurityUpdateAuditConfigurationParams_DebugParams;
     op_format := None; op_own := SecurityUpdateAuditConfigurationParams_own; op_slots := SecurityUpdateAuditConfigurationParams_slots;
     op_body r := json_body (SecurityUpdateAuditConfigurationReq_Body r) (SecurityUpdateAuditConfigurationReq_BodyReader r); op_headers r := SecurityUpdateAuditConfigurationReq_Header r;
     Method := SecurityUpdateAuditConfiguration_Method; GetRequest := SecurityUpdateAuditConfigurationReq_GetRequest;
     op_keys := [];
     op_described := [("PUT", "/_plugins/_security/api/audit/config")];
     op_query := [] |}.
#[export] Instance SecurityUpdateAuditConfiguration_operates : LawfulOp SecurityUpdateAuditConfigurationReq.
Proof. operate. Qed.

Record SecurityUpdateConfigurationParams := MkSecurityUpdateConfigurationParams { SecurityUpdateConfigurationParams_TimeoutParams : TimeoutParams; SecurityUpdateConfigurationParams_DebugParams : DebugParams }.
Definition SecurityUpdateConfigurationParams_own (q : SecurityUpdateConfigurationParams) : list param :=
  [].
Definition SecurityUpdateConfigurationParams_slots : list (string * (SecurityUpdateConfigurationParams -> slot)) :=
  [].
Definition SecurityUpdateConfigurationParams_get (q : SecurityUpdateConfigurationParams) : gmap string string :=
  encode_params (EncodeTimeout (SecurityUpdateConfigurationParams_TimeoutParams q) ++ EncodeDebug (SecurityUpdateConfigurationParams_DebugParams q) ++ SecurityUpdateConfigurationParams_own q).
Record SecurityUpdateConfigurationReq := MkSecurityUpdateConfigurationReq { SecurityUpdateConfigurationReq_Body : option (option string); SecurityUpdateConfigurationReq_BodyReader : reader;
  SecurityUpdateConfigurationReq_Header : headers; SecurityUpdateConfigurationReq_Params : option SecurityUpdateConfigurationParams }.
Definition SecurityUpdateConfigurationReq_GetRequest (r : SecurityUpdateConfigurationReq) (method : string) : request_error + httpRequest * Z :=
  send method (SecurityUpdateConfigurationPath_Build (MkSecurityUpdateConfigurationPath))
    (match SecurityUpdateConfigurationReq_Params r with Some q => SecurityUpdateConfigurationParams_get q | None => ∅ end)
    (json_body (SecurityUpdateConfigurationReq_Body r) (SecurityUpdateConfigurationReq_BodyReader r)) (SecurityUpdateConfigurationReq_Header r).
Definition SecurityUpdateConfiguration_Method (r : SecurityUpdateConfigurationReq) : string := "PUT".
#[export] Instance SecurityUpdateConfiguration_operation : operation SecurityUpdateConfigurationReq :=
  {| op_path := MkPathType "SecurityUpdateConfigurationPath" SecurityUpdateConfigurationPath _ _; op_P := SecurityUpdateConfigurationParams; op_fields r := MkSecurityUpdateConfigurationPath;
     op_params := SecurityUpdateConfigurationReq_Params; op_defaults := None; op_timeout := SecurityUpdateConfigurationParams_TimeoutParams; op_debug := SecurityUpdateConfigurationParams_DebugParams;
     op_format := None; op_own := SecurityUpdateConfigurationParams_own; op_slots := SecurityUpdateConfigurationParams_slots;
     op_body r := json_body (SecurityUpdateConfigurationReq_Body r) (SecurityUpdateConfigurationReq_BodyReader r); op_headers r := SecurityUpdateConfigurationReq_Header r;
     Method := SecurityUpdateConfiguration_Method; GetRequest := SecurityUpdateConfigurationReq_GetRequest;
     op_keys := [];
     op_described := [("PUT", "/_plugins/_security/api/securityconfig/config")];
     op_query := [] |}.
#[export] Instance SecurityUpdateConfiguration_operates : LawfulOp SecurityUpdateConfigurationReq.
Proof. operate. Qed.

Record SecurityUpdateDistinguishedNameParams := MkSecurityUpdateDistinguishedNameParams { SecurityUpdateDistinguishedNameParams_TimeoutParams : TimeoutParams; SecurityUpdateDistinguishedNameParams_DebugParams : DebugParams }.
Definition SecurityUpdateDistinguishedNameParams_own (q : SecurityUpdateDistinguishedNameParams) : list param :=
  [].
Definition SecurityUpdateDistinguishedNameParams_slots : list (string * (SecurityUpdateDistinguishedNameParams -> slot)) :=
  [].
Definition SecurityUpdateDistinguishedNameParams_get (q : SecurityUpdateDistinguishedNameParams) : gmap string string :=
  encode_params (EncodeTimeout (SecurityUpdateDistinguishedNameParams_TimeoutParams q) ++ EncodeDebug (SecurityUpdateDistinguishedNameParams_DebugParams q) ++ SecurityUpdateDistinguishedNameParams_own q).
Record SecurityUpdateDistinguishedNameReq := MkSecurityUpdateDistinguishedNameReq { SecurityUpdateDistinguishedNameReq_ClusterName : string; SecurityUpdateDistinguishedNameReq_Body : option (option string);
  SecurityUpdateDistinguishedNameReq_BodyReader : reader; SecurityUpdateDistinguishedNameReq_Header : headers;
  SecurityUpdateDistinguishedNameReq_Params : option SecurityUpdateDistinguishedNameParams }.
Definition SecurityUpdateDistinguishedNameReq_GetRequest (r : SecurityUpdateDistinguishedNameReq) (method : string) : request_error + httpRequest * Z :=
  send method (SecurityUpdateDistinguishedNamePath_Build (MkSecurityUpdateDistinguishedNamePath (SecurityUpdateDistinguishedNameReq_ClusterName r)))
    (match SecurityUpdateDistinguishedNameReq_Params r with Some q => SecurityUpdateDistinguishedNameParams_get q | None => ∅ end)
    (json_body (SecurityUpdateDistinguishedNameReq_Body r) (SecurityUpdateDistinguishedNameReq_BodyReader r)) (SecurityUpdateDistinguishedNameReq_Header r).
Definition SecurityUpdateDistinguishedName_Method (r : SecurityUpdateDistinguishedNameReq) : string := "PUT".
#[export] Instance SecurityUpdateDistinguishedName_operation : operation SecurityUpdateDistinguishedNameReq :=
  {| op_path := MkPathType "SecurityUpdateDistinguishedNamePath" SecurityUpdateDistinguishedNamePath _ _; op_P := SecurityUpdateDistinguishedNameParams; op_fields r := MkSecurityUpdateDistinguishedNamePath (SecurityUpdateDistinguishedNameReq_ClusterName r);
     op_params := SecurityUpdateDistinguishedNameReq_Params; op_defaults := None; op_timeout := SecurityUpdateDistinguishedNameParams_TimeoutParams; op_debug := SecurityUpdateDistinguishedNameParams_DebugParams;
     op_format := None; op_own := SecurityUpdateDistinguishedNameParams_own; op_slots := SecurityUpdateDistinguishedNameParams_slots;
     op_body r := json_body (SecurityUpdateDistinguishedNameReq_Body r) (SecurityUpdateDistinguishedNameReq_BodyReader r); op_headers r := SecurityUpdateDistinguishedNameReq_Header r;
     Method := SecurityUpdateDistinguishedName_Method; GetRequest := SecurityUpdateDistinguishedNameReq_GetRequest;
     op_keys := [];
     op_described := [("PUT", "/_plugins/_security/api/nodesdn/{cluster_name}")];
     op_query := [] |}.
#[export] Instance SecurityUpdateDistinguishedName_operates : LawfulOp SecurityUpdateDistinguishedNameReq.
Proof. operate. Qed.

Record SecurityValidateParams := MkSecurityValidateParams { SecurityValidateParams_TimeoutParams : TimeoutParams; SecurityValidateParams_DebugParams : DebugParams;
  SecurityValidateParams_AcceptInvalid : option bool }.
Definition SecurityValidateParams_own (q : SecurityValidateParams) : list param :=
  [("accept_invalid", boolPtr (SecurityValidateParams_AcceptInvalid q))].
Definition SecurityValidateParams_slots : list (string * (SecurityValidateParams -> slot)) :=
  [("AcceptInvalid", fun q => BoolPtr (SecurityValidateParams_AcceptInvalid q))].
Definition SecurityValidateParams_get (q : SecurityValidateParams) : gmap string string :=
  encode_params (EncodeTimeout (SecurityValidateParams_TimeoutParams q) ++ EncodeDebug (SecurityValidateParams_DebugParams q) ++ SecurityValidateParams_own q).
Record SecurityValidateReq := MkSecurityValidateReq { SecurityValidateReq_Header : headers; SecurityValidateReq_Params : option SecurityValidateParams }.
Definition SecurityValidateReq_GetRequest (r : SecurityValidateReq) (method : string) : request_error + httpRequest * Z :=
  send method (SecurityValidatePath_Build (MkSecurityValidatePath))
    (match SecurityValidateReq_Params r with Some q => SecurityValidateParams_get q | None => ∅ end)
    no_body (SecurityValidateReq_Header r).
Definition SecurityValidate_Method (r : SecurityValidateReq) : string := "GET".
#[export] Instance SecurityValidate_operation : operation SecurityValidateReq :=
  {| op_path := MkPathType "SecurityValidatePath" SecurityValidatePath _ _; op_P := SecurityValidateParams; op_fields r := MkSecurityValidatePath;
     op_params := SecurityValidateReq_Params; op_defaults := None; op_timeout := SecurityValidateParams_TimeoutParams; op_debug := SecurityValidateParams_DebugParams;
     op_format := None; op_own := SecurityValidateParams_own; op_slots := SecurityValidateParams_slots;
     op_body _ := no_body; op_headers r := SecurityValidateReq_Header r;
     Method := SecurityValidate_Method; GetRequest := SecurityValidateReq_GetRequest;
     op_keys := ["accept_invalid"];
     op_described := [("GET", "/_plugins/_security/api/validate")];
     op_query := ["accept_invalid"] |}.
#[export] Instance SecurityValidate_operates : LawfulOp SecurityValidateReq.
Proof. operate. Qed.

Record SecurityWhoAmIParams := MkSecurityWhoAmIParams { SecurityWhoAmIParams_TimeoutParams : TimeoutParams; SecurityWhoAmIParams_DebugParams : DebugParams }.
Definition SecurityWhoAmIParams_own (q : SecurityWhoAmIParams) : list param :=
  [].
Definition SecurityWhoAmIParams_slots : list (string * (SecurityWhoAmIParams -> slot)) :=
  [].
Definition SecurityWhoAmIParams_get (q : SecurityWhoAmIParams) : gmap string string :=
  encode_params (EncodeTimeout (SecurityWhoAmIParams_TimeoutParams q) ++ EncodeDebug (SecurityWhoAmIParams_DebugParams q) ++ SecurityWhoAmIParams_own q).
Record SecurityWhoAmIReq := MkSecurityWhoAmIReq { SecurityWhoAmIReq_Header : headers; SecurityWhoAmIReq_Params : option SecurityWhoAmIParams }.
Definition SecurityWhoAmIReq_GetRequest (r : SecurityWhoAmIReq) (method : string) : request_error + httpRequest * Z :=
  send method (SecurityWhoAmIPath_Build (MkSecurityWhoAmIPath))
    (match SecurityWhoAmIReq_Params r with Some q => SecurityWhoAmIParams_get q | None => ∅ end)
    no_body (SecurityWhoAmIReq_Header r).
Definition SecurityWhoAmI_Method (r : SecurityWhoAmIReq) : string := "GET".
#[export] Instance SecurityWhoAmI_operation : operation SecurityWhoAmIReq :=
  {| op_path := MkPathType "SecurityWhoAmIPath" SecurityWhoAmIPath _ _; op_P := SecurityWhoAmIParams; op_fields r := MkSecurityWhoAmIPath;
     op_params := SecurityWhoAmIReq_Params; op_defaults := None; op_timeout := SecurityWhoAmIParams_TimeoutParams; op_debug := SecurityWhoAmIParams_DebugParams;
     op_format := None; op_own := SecurityWhoAmIParams_own; op_slots := SecurityWhoAmIParams_slots;
     op_body _ := no_body; op_headers r := SecurityWhoAmIReq_Header r;
     Method := SecurityWhoAmI_Method; GetRequest := SecurityWhoAmIReq_GetRequest;
     op_keys := [];
     op_described := [("GET", "/_plugins/_security/whoami"); ("POST", "/_plugins/_security/whoami")];
     op_query := [] |}.
#[export] Instance SecurityWhoAmI_operates : LawfulOp SecurityWhoAmIReq.
Proof. operate. Qed.

Record SecurityWhoAmIProtectedParams := MkSecurityWhoAmIProtectedParams { SecurityWhoAmIProtectedParams_TimeoutParams : TimeoutParams; SecurityWhoAmIProtectedParams_DebugParams : DebugParams }.
Definition SecurityWhoAmIProtectedParams_own (q : SecurityWhoAmIProtectedParams) : list param :=
  [].
Definition SecurityWhoAmIProtectedParams_slots : list (string * (SecurityWhoAmIProtectedParams -> slot)) :=
  [].
Definition SecurityWhoAmIProtectedParams_get (q : SecurityWhoAmIProtectedParams) : gmap string string :=
  encode_params (EncodeTimeout (SecurityWhoAmIProtectedParams_TimeoutParams q) ++ EncodeDebug (SecurityWhoAmIProtectedParams_DebugParams q) ++ SecurityWhoAmIProtectedParams_own q).
Record SecurityWhoAmIProtectedReq := MkSecurityWhoAmIProtectedReq { SecurityWhoAmIProtectedReq_Header : headers; SecurityWhoAmIProtectedReq_Params : option SecurityWhoAmIProtectedParams }.
Definition SecurityWhoAmIProtectedReq_GetRequest (r : SecurityWhoAmIProtectedReq) (method : string) : request_error + httpRequest * Z :=
  send method (SecurityWhoAmIProtectedPath_Build (MkSecurityWhoAmIProtectedPath))
    (match SecurityWhoAmIProtectedReq_Params r with Some q => SecurityWhoAmIProtectedParams_get q | None => ∅ end)
    no_body (SecurityWhoAmIProtectedReq_Header r).
Definition SecurityWhoAmIProtected_Method (r : SecurityWhoAmIProtectedReq) : string := "GET".
#[export] Instance SecurityWhoAmIProtected_operation : operation SecurityWhoAmIProtectedReq :=
  {| op_path := MkPathType "SecurityWhoAmIProtectedPath" SecurityWhoAmIProtectedPath _ _; op_P := SecurityWhoAmIProtectedParams; op_fields r := MkSecurityWhoAmIProtectedPath;
     op_params := SecurityWhoAmIProtectedReq_Params; op_defaults := None; op_timeout := SecurityWhoAmIProtectedParams_TimeoutParams; op_debug := SecurityWhoAmIProtectedParams_DebugParams;
     op_format := None; op_own := SecurityWhoAmIProtectedParams_own; op_slots := SecurityWhoAmIProtectedParams_slots;
     op_body _ := no_body; op_headers r := SecurityWhoAmIProtectedReq_Header r;
     Method := SecurityWhoAmIProtected_Method; GetRequest := SecurityWhoAmIProtectedReq_GetRequest;
     op_keys := [];
     op_described := [("GET", "/_plugins/_security/whoamiprotected")];
     op_query := [] |}.
#[export] Instance SecurityWhoAmIProtected_operates : LawfulOp SecurityWhoAmIProtectedReq.
Proof. operate. Qed.

Record SecurityAnalyticsGetAlertsParams := MkSecurityAnalyticsGetAlertsParams { SecurityAnalyticsGetAlertsParams_TimeoutParams : TimeoutParams; SecurityAnalyticsGetAlertsParams_DebugParams : DebugParams;
  SecurityAnalyticsGetAlertsParams_AlertState : string; SecurityAnalyticsGetAlertsParams_DetectorType : string;
  SecurityAnalyticsGetAlertsParams_DetectorID : string; SecurityAnalyticsGetAlertsParams_EndTime : Z;
  SecurityAnalyticsGetAlertsParams_Missing : string; SecurityAnalyticsGetAlertsParams_SearchString : string;
  SecurityAnalyticsGetAlertsParams_SeverityLevel : string; SecurityAnalyticsGetAlertsParams_Size : Z;
  SecurityAnalyticsGetAlertsParams_SortOrder : string; SecurityAnalyticsGetAlertsParams_SortString : string;
  SecurityAnalyticsGetAlertsParams_StartIndex : Z; SecurityAnalyticsGetAlertsParams_StartTime : Z }.
Definition SecurityAnalyticsGetAlertsParams_own (q : SecurityAnalyticsGetAlertsParams) : list param :=
  [("alertState", nonEmpty (SecurityAnalyticsGetAlertsParams_AlertState q));
  ("detectorType", nonEmpty (SecurityAnalyticsGetAlertsParams_DetectorType q));
  ("detector_id", nonEmpty (SecurityAnalyticsGetAlertsParams_DetectorID q)); ("endTime", nonZero (SecurityAnalyticsGetAlertsParams_EndTime q));
  ("missing", nonEmpty (SecurityAnalyticsGetAlertsParams_Missing q)); ("searchString", nonEmpty (SecurityAnalyticsGetAlertsParams_SearchString q));
  ("severityLevel", nonEmpty (SecurityAnalyticsGetAlertsParams_SeverityLevel q)); ("size", nonZero (SecurityAnalyticsGetAlertsParams_Size q));
  ("sortOrder", nonEmpty (SecurityAnalyticsGetAlertsParams_SortOrder q)); ("sortString", nonEmpty (SecurityAnalyticsGetAlertsParams_SortString q));
  ("startIndex", nonZero (SecurityAnalyticsGetAlertsParams_StartIndex q)); ("startTime", nonZero (SecurityAnalyticsGetAlertsParams_StartTime q))].
Definition SecurityAnalyticsGetAlertsParams_slots : list (string * (SecurityAnalyticsGetAlertsParams -> slot)) :=
  [("AlertState", fun q => Text (SecurityAnalyticsGetAlertsParams_AlertState q));
  ("DetectorType", fun q => Text (SecurityAnalyticsGetAlertsParams_DetectorType q));
  ("DetectorID", fun q => Text (SecurityAnalyticsGetAlertsParams_DetectorID q));
  ("EndTime", fun q => Int (SecurityAnalyticsGetAlertsParams_EndTime q)); ("Missing", fun q => Text (SecurityAnalyticsGetAlertsParams_Missing q));
  ("SearchString", fun q => Text (SecurityAnalyticsGetAlertsParams_SearchString q));
  ("SeverityLevel", fun q => Text (SecurityAnalyticsGetAlertsParams_SeverityLevel q));
  ("Size", fun q => Int (SecurityAnalyticsGetAlertsParams_Size q)); ("SortOrder", fun q => Text (SecurityAnalyticsGetAlertsParams_SortOrder q));
  ("SortString", fun q => Text (SecurityAnalyticsGetAlertsParams_SortString q));
  ("StartIndex", fun q => Int (SecurityAnalyticsGetAlertsParams_StartIndex q));
  ("StartTime", fun q => Int (SecurityAnalyticsGetAlertsParams_StartTime q))].
Definition SecurityAnalyticsGetAlertsParams_get (q : SecurityAnalyticsGetAlertsParams) : gmap string string :=
  encode_params (EncodeTimeout (SecurityAnalyticsGetAlertsParams_TimeoutParams q) ++ EncodeDebug (SecurityAnalyticsGetAlertsParams_DebugParams q) ++ SecurityAnalyticsGetAlertsParams_own q).
Record SecurityAnalyticsGetAlertsReq := MkSecurityAnalyticsGetAlertsReq { SecurityAnalyticsGetAlertsReq_Header : headers; SecurityAnalyticsGetAlertsReq_Params : option SecurityAnalyticsGetAlertsParams }.
Definition SecurityAnalyticsGetAlertsReq_GetRequest (r : SecurityAnalyticsGetAlertsReq) (method : string) : request_error + httpRequest * Z :=
  send method (SecurityAnalyticsGetAlertsPath_Build (MkSecurityAnalyticsGetAlertsPath))
    (match SecurityAnalyticsGetAlertsReq_Params r with Some q => SecurityAnalyticsGetAlertsParams_get q | None => ∅ end)
    no_body (SecurityAnalyticsGetAlertsReq_Header r).
Definition SecurityAnalyticsGetAlerts_Method (r : SecurityAnalyticsGetAlertsReq) : string := "GET".
#[export] Instance SecurityAnalyticsGetAlerts_operation : operation SecurityAnalyticsGetAlertsReq :=
  {| op_path := MkPathType "SecurityAnalyticsGetAlertsPath" SecurityAnalyticsGetAlertsPath _ _; op_P := SecurityAnalyticsGetAlertsParams; op_fields r := MkSecurityAnalyticsGetAlertsPath;
     op_params := SecurityAnalyticsGetAlertsReq_Params; op_defaults := None; op_timeout := SecurityAnalyticsGetAlertsParams_TimeoutParams; op_debug := SecurityAnalyticsGetAlertsParams_DebugParams;
     op_format := None; op_own := SecurityAnalyticsGetAlertsParams_own; op_slots := SecurityAnalyticsGetAlertsParams_slots;
     op_body _ := no_body; op_headers r := SecurityAnalyticsGetAlertsReq_Header r;
     Method := SecurityAnalyticsGetAlerts_Method; GetRequest := SecurityAnalyticsGetAlertsReq_GetRequest;
     op_keys := ["alertState"; "detectorType"; "detector_id"; "endTime"; "missing"; "searchString"; "severityLevel"; "size"; "sortOrder"; "sortString"; "startIndex";
        "startTime"];
     op_described := [("GET", "/_plugins/_security_analytics/alerts")];
     op_query := ["alertState"; "detectorType"; "detector_id"; "endTime"; "missing"; "searchString"; "severityLevel"; "size"; "sortOrder"; "sortString"; "startIndex";
        "startTime"] |}.
#[export] Instance SecurityAnalyticsGetAlerts_operates : LawfulOp SecurityAnalyticsGetAlertsReq.
Proof. operate. Qed.

Record SecurityAnalyticsGetFindingsParams := MkSecurityAnalyticsGetFindingsParams { SecurityAnalyticsGetFindingsParams_TimeoutParams : TimeoutParams; SecurityAnalyticsGetFindingsParams_DebugParams : DebugParams;
  SecurityAnalyticsGetFindingsParams_DetectionType : string; SecurityAnalyticsGetFindingsParams_DetectorType : string;
  SecurityAnalyticsGetFindingsParams_DetectorID : string; SecurityAnalyticsGetFindingsParams_EndTime : string;
  SecurityAnalyticsGetFindingsParams_FindingIds : string; SecurityAnalyticsGetFindingsParams_Missing : string;
  SecurityAnalyticsGetFindingsParams_SearchString : string; SecurityAnalyticsGetFindingsParams_Severity : string;
  SecurityAnalyticsGetFindingsParams_Size : Z; SecurityAnalyticsGetFindingsParams_SortOrder : string;
  SecurityAnalyticsGetFindingsParams_SortString : string; SecurityAnalyticsGetFindingsParams_StartIndex : Z;
  SecurityAnalyticsGetFindingsParams_StartTime : Z }.
Definition SecurityAnalyticsGetFindingsParams_own (q : SecurityAnalyticsGetFindingsParams) : list param :=
  [("detectionType", nonEmpty (SecurityAnalyticsGetFindingsParams_DetectionType q));
  ("detectorType", nonEmpty (SecurityAnalyticsGetFindingsParams_DetectorType q));
  ("detector_id", nonEmpty (SecurityAnalyticsGetFindingsParams_DetectorID q)); ("endTime", nonEmpty (SecurityAnalyticsGetFindingsParams_EndTime q));
  ("findingIds", nonEmpty (SecurityAnalyticsGetFindingsParams_FindingIds q)); ("missing", nonEmpty (SecurityAnalyticsGetFindingsParams_Missing q));
  ("searchString", nonEmpty (SecurityAnalyticsGetFindingsParams_SearchString q));
  ("severity", nonEmpty (SecurityAnalyticsGetFindingsParams_Severity q)); ("size", nonZero (SecurityAnalyticsGetFindingsParams_Size q));
  ("sortOrder", nonEmpty (SecurityAnalyticsGetFindingsParams_SortOrder q)); ("sortString", nonEmpty (SecurityAnalyticsGetFindingsParams_SortString q));
  ("startIndex", nonZero (SecurityAnalyticsGetFindingsParams_StartIndex q)); ("startTime", nonZero (SecurityAnalyticsGetFindingsParams_StartTime q))].
Definition SecurityAnalyticsGetFindingsParams_slots : list (string * (SecurityAnalyticsGetFindingsParams -> slot)) :=
  [("DetectionType", fun q => Text (SecurityAnalyticsGetFindingsParams_DetectionType q));
  ("DetectorType", fun q => Text (SecurityAnalyticsGetFindingsParams_DetectorType q));
  ("DetectorID", fun q => Text (SecurityAnalyticsGetFindingsParams_DetectorID q));
  ("EndTime", fun q => Text (SecurityAnalyticsGetFindingsParams_EndTime q));
  ("FindingIds", fun q => Text (SecurityAnalyticsGetFindingsParams_FindingIds q));
  ("Missing", fun q => Text (SecurityAnalyticsGetFindingsParams_Missing q));
  ("SearchString", fun q => Text (SecurityAnalyticsGetFindingsParams_SearchString q));
  ("Severity", fun q => Text (SecurityAnalyticsGetFindingsParams_Severity q)); ("Size", fun q => Int (SecurityAnalyticsGetFindingsParams_Size q));
  ("SortOrder", fun q => Text (SecurityAnalyticsGetFindingsParams_SortOrder q));
  ("SortString", fun q => Text (SecurityAnalyticsGetFindingsParams_SortString q));
  ("StartIndex", fun q => Int (SecurityAnalyticsGetFindingsParams_StartIndex q));
  ("StartTime", fun q => Int (SecurityAnalyticsGetFindingsParams_StartTime q))].
Definition SecurityAnalyticsGetFindingsParams_get (q : SecurityAnalyticsGetFindingsParams) : gmap string string :=
  encode_params (EncodeTimeout (SecurityAnalyticsGetFindingsParams_TimeoutParams q) ++ EncodeDebug (SecurityAnalyticsGetFindingsParams_DebugParams q) ++ SecurityAnalyticsGetFindingsParams_own q).
Record SecurityAnalyticsGetFindingsReq := MkSecurityAnalyticsGetFindingsReq { SecurityAnalyticsGetFindingsReq_Header : headers; SecurityAnalyticsGetFindingsReq_Params : option SecurityAnalyticsGetFindingsParams }.
Definition SecurityAnalyticsGetFindingsReq_GetRequest (r : SecurityAnalyticsGetFindingsReq) (method : string) : request_error + httpRequest * Z :=
  send method (SecurityAnalyticsGetFindingsPath_Build (MkSecurityAnalyticsGetFindingsPath))
    (match SecurityAnalyticsGetFindingsReq_Params r with Some q => SecurityAnalyticsGetFindingsParams_get q | None => ∅ end)
    no_body (SecurityAnalyticsGetFindingsReq_Header r).
Definition SecurityAnalyticsGetFindings_Method (r : SecurityAnalyticsGetFindingsReq) : string := "GET".
#[export] Instance SecurityAnalyticsGetFindings_operation : operation SecurityAnalyticsGetFindingsReq :=
  {| op_path := MkPathType "SecurityAnalyticsGetFindingsPath" SecurityAnalyticsGetFindingsPath _ _; op_P := SecurityAnalyticsGetFindingsParams; op_fields r := MkSecurityAnalyticsGetFindingsPath;
     op_params := SecurityAnalyticsGetFindingsReq_Params; op_defaults := None; op_timeout := SecurityAnalyticsGetFindingsParams_TimeoutParams; op_debug := SecurityAnalyticsGetFindingsParams_DebugParams;
     op_format := None; op_own := SecurityAnalyticsGetFindingsParams_own; op_slots := SecurityAnalyticsGetFindingsParams_slots;
     op_body _ := no_body; op_headers r := SecurityAnalyticsGetFindingsReq_Header r;
     Method := SecurityAnalyticsGetFindings_Method; GetRequest := SecurityAnalyticsGetFindingsReq_GetRequest;
     op_keys := ["detectionType"; "detectorType"; "detector_id"; "endTime"; "findingIds"; "missing"; "searchString"; "severity"; "size"; "sortOrder"; "sortString";
        "startIndex"; "startTime"];
     op_described := [("GET", "/_plugins/_security_analytics/findings/_search")];
     op_query := ["detectionType"; "detectorType"; "detector_id"; "endTime"; "findingIds"; "missing"; "searchString"; "severity"; "size"; "sortOrder"; "sortString";
        "startIndex"; "startTime"] |}.
#[export] Instance SecurityAnalyticsGetFindings_operates : LawfulOp SecurityAnalyticsGetFindingsReq.
Proof. operate. Qed.

Record SecurityAnalyticsSearchFindingCorrelationsParams := MkSecurityAnalyticsSearchFindingCorrelationsParams { SecurityAnalyticsSearchFindingCorrelationsParams_TimeoutParams : TimeoutParams;
  SecurityAnalyticsSearchFindingCorrelationsParams_DebugParams : DebugParams; SecurityAnalyticsSearchFindingCorrelationsParams_DetectorType : string;
  SecurityAnalyticsSearchFindingCorrelationsParams_Finding : string; SecurityAnalyticsSearchFindingCorrelationsParams_NearbyFindings : Z;
  SecurityAnalyticsSearchFindingCorrelationsParams_TimeWindow : Z }.
Definition SecurityAnalyticsSearchFindingCorrelationsParams_own (q : SecurityAnalyticsSearchFindingCorrelationsParams) : list param :=
  [("detector_type", nonEmpty (SecurityAnalyticsSearchFindingCorrelationsParams_DetectorType q));
  ("finding", nonEmpty (SecurityAnalyticsSearchFindingCorrelationsParams_Finding q));
  ("nearby_findings", nonZero (SecurityAnalyticsSearchFindingCorrelationsParams_NearbyFindings q));
  ("time_window", nonZero (SecurityAnalyticsSearchFindingCorrelationsParams_TimeWindow q))].
Definition SecurityAnalyticsSearchFindingCorrelationsParams_slots : list (string * (SecurityAnalyticsSearchFindingCorrelationsParams -> slot)) :=
  [("DetectorType", fun q => Text (SecurityAnalyticsSearchFindingCorrelationsParams_DetectorType q));
  ("Finding", fun q => Text (SecurityAnalyticsSearchFindingCorrelationsParams_Finding q));
  ("NearbyFindings", fun q => Int (SecurityAnalyticsSearchFindingCorrelationsParams_NearbyFindings q));
  ("TimeWindow", fun q => Int (SecurityAnalyticsSearchFindingCorrelationsParams_TimeWindow q))].
Definition SecurityAnalyticsSearchFindingCorrelationsParams_get (q : SecurityAnalyticsSearchFindingCorrelationsParams) : gmap string string :=
  encode_params (EncodeTimeout (SecurityAnalyticsSearchFindingCorrelationsParams_TimeoutParams q) ++ EncodeDebug (SecurityAnalyticsSearchFindingCorrelationsParams_DebugParams q) ++ SecurityAnalyticsSearchFindingCorrelationsParams_own q).
Record SecurityAnalyticsSearchFindingCorrelationsReq := MkSecurityAnalyticsSearchFindingCorrelationsReq { SecurityAnalyticsSearchFindingCorrelationsReq_Header : headers;
  SecurityAnalyticsSearchFindingCorrelationsReq_Params : option SecurityAnalyticsSearchFindingCorrelationsParams }.
Definition SecurityAnalyticsSearchFindingCorrelationsReq_GetRequest (r : SecurityAnalyticsSearchFindingCorrelationsReq) (method : string) : request_error + httpRequest * Z :=
  send method (SecurityAnalyticsSearchFindingCorrelationsPath_Build (MkSecurityAnalyticsSearchFindingCorrelationsPath))
    (match SecurityAnalyticsSearchFindingCorrelationsReq_Params r with Some q => SecurityAnalyticsSearchFindingCorrelationsParams_get q | None => ∅ end)
    no_body (SecurityAnalyticsSearchFindingCorrelationsReq_Header r).
Definition SecurityAnalyticsSearchFindingCorrelations_Method (r : SecurityAnalyticsSearchFindingCorrelationsReq) : string := "GET".
#[export] Instance SecurityAnalyticsSearchFindingCorrelations_operation : operation SecurityAnalyticsSearchFindingCorrelationsReq :=
  {| op_path := MkPathType "SecurityAnalyticsSearchFindingCorrelationsPath" SecurityAnalyticsSearchFindingCorrelationsPath _ _; op_P := SecurityAnalyticsSearchFindingCorrelationsParams; op_fields r := MkSecurityAnalyticsSearchFindingCorrelationsPath;
     op_params := SecurityAnalyticsSearchFindingCorrelationsReq_Params; op_defaults := None; op_timeout := SecurityAnalyticsSearchFindingCorrelationsParams_TimeoutParams; op_debug := SecurityAnalyticsSearchFindingCorrelationsParams_DebugParams;
     op_format := None; op_own := SecurityAnalyticsSearchFindingCorrelationsParams_own; op_slots := SecurityAnalyticsSearchFindingCorrelationsParams_slots;
     op_body _ := no_body; op_headers r := SecurityAnalyticsSearchFindingCorrelationsReq_Header r;
     Method := SecurityAnalyticsSearchFindingCorrelations_Method; GetRequest := SecurityAnalyticsSearchFindingCorrelationsReq_GetRequest;
     op_keys := ["detector_type"; "finding"; "nearby_findings"; "time_window"];
     op_described := [("GET", "/_plugins/_security_analytics/findings/correlate")];
     op_query := ["detector_type"; "finding"; "nearby_findings"; "time_window"] |}.
#[export] Instance SecurityAnalyticsSearchFindingCorrelations_operates : LawfulOp SecurityAnalyticsSearchFindingCorrelationsReq.
Proof. operate. Qed.

(** All of them. *)
Definition apiSecurity : list operation_type :=
  [MkOperationType "SecurityAuthinfo" SecurityAuthinfoReq _ _; MkOperationType "SecurityAuthtoken" SecurityAuthtokenReq _ _;
   MkOperationType "SecurityChangePassword" SecurityChangePasswordReq _ _; MkOperationType "SecurityConfigUpgradeCheck" SecurityConfigUpgradeCheckReq _ _;
   MkOperationType "SecurityConfigUpgradePerform" SecurityConfigUpgradePerformReq _ _; MkOperationType "SecurityCreateActionGroup" SecurityCreateActionGroupReq _ _;
   MkOperationType "SecurityCreateAllowlist" SecurityCreateAllowlistReq _ _; MkOperationType "SecurityCreateRole" SecurityCreateRoleReq _ _;
   MkOperationType "SecurityCreateRoleMapping" SecurityCreateRoleMappingReq _ _; MkOperationType "SecurityCreateTenant" SecurityCreateTenantReq _ _;
   MkOperationType "SecurityCreateUpdateTenancyConfig" SecurityCreateUpdateTenancyConfigReq _ _; MkOperationType "SecurityCreateUser" SecurityCreateUserReq _ _;
   MkOperationType "SecurityCreateUserLegacy" SecurityCreateUserLegacyReq _ _; MkOperationType "SecurityDeleteActionGroup" SecurityDeleteActionGroupReq _ _;
   MkOperationType "SecurityDeleteDistinguishedName" SecurityDeleteDistinguishedNameReq _ _; MkOperationType "SecurityDeleteRole" SecurityDeleteRoleReq _ _;
   MkOperationType "SecurityDeleteRoleMapping" SecurityDeleteRoleMappingReq _ _; MkOperationType "SecurityDeleteTenant" SecurityDeleteTenantReq _ _;
   MkOperationType "SecurityDeleteUser" SecurityDeleteUserReq _ _; MkOperationType "SecurityDeleteUserLegacy" SecurityDeleteUserLegacyReq _ _;
   MkOperationType "SecurityFlushCache" SecurityFlushCacheReq _ _; MkOperationType "SecurityGenerateOboToken" SecurityGenerateOboTokenReq _ _;
   MkOperationType "SecurityGenerateUserToken" SecurityGenerateUserTokenReq _ _; MkOperationType "SecurityGenerateUserTokenLegacy" SecurityGenerateUserTokenLegacyReq _ _;
   MkOperationType "SecurityGetAccountDetails" SecurityGetAccountDetailsReq _ _; MkOperationType "SecurityGetActionGroup" SecurityGetActionGroupReq _ _;
   MkOperationType "SecurityGetActionGroups" SecurityGetActionGroupsReq _ _; MkOperationType "SecurityGetAllCertificates" SecurityGetAllCertificatesReq _ _;
   MkOperationType "SecurityGetAllowlist" SecurityGetAllowlistReq _ _; MkOperationType "SecurityGetAuditConfiguration" SecurityGetAuditConfigurationReq _ _;
   MkOperationType "SecurityGetCertificates" SecurityGetCertificatesReq _ _; MkOperationType "SecurityGetConfiguration" SecurityGetConfigurationReq _ _;
   MkOperationType "SecurityGetDashboardsInfo" SecurityGetDashboardsInfoReq _ _; MkOperationType "SecurityGetDistinguishedName" SecurityGetDistinguishedNameReq _ _;
   MkOperationType "SecurityGetDistinguishedNames" SecurityGetDistinguishedNamesReq _ _; MkOperationType "SecurityGetNodeCertificates" SecurityGetNodeCertificatesReq _ _;
   MkOperationType "SecurityGetPermissionsInfo" SecurityGetPermissionsInfoReq _ _; MkOperationType "SecurityGetRole" SecurityGetRoleReq _ _;
   MkOperationType "SecurityGetRoleMapping" SecurityGetRoleMappingReq _ _; MkOperationType "SecurityGetRoleMappings" SecurityGetRoleMappingsReq _ _;
   MkOperationType "SecurityGetRoles" SecurityGetRolesReq _ _; MkOperationType "SecurityGetSslinfo" SecurityGetSslinfoReq _ _;
   MkOperationType "SecurityGetTenancyConfig" SecurityGetTenancyConfigReq _ _; MkOperationType "SecurityGetTenant" SecurityGetTenantReq _ _;
   MkOperationType "SecurityGetTenants" SecurityGetTenantsReq _ _; MkOperationType "SecurityGetUser" SecurityGetUserReq _ _;
   MkOperationType "SecurityGetUserLegacy" SecurityGetUserLegacyReq _ _; MkOperationType "SecurityGetUsers" SecurityGetUsersReq _ _;
   MkOperationType "SecurityGetUsersLegacy" SecurityGetUsersLegacyReq _ _; MkOperationType "SecurityHealth" SecurityHealthReq _ _;
   MkOperationType "SecurityMigrate" SecurityMigrateReq _ _; MkOperationType "SecurityPatchActionGroup" SecurityPatchActionGroupReq _ _;
   MkOperationType "SecurityPatchActionGroups" SecurityPatchActionGroupsReq _ _; MkOperationType "SecurityPatchAllowlist" SecurityPatchAllowlistReq _ _;
   MkOperationType "SecurityPatchAuditConfiguration" SecurityPatchAuditConfigurationReq _ _; MkOperationType "SecurityPatchConfiguration" SecurityPatchConfigurationReq _ _;
   MkOperationType "SecurityPatchDistinguishedName" SecurityPatchDistinguishedNameReq _ _; MkOperationType "SecurityPatchDistinguishedNames" SecurityPatchDistinguishedNamesReq _ _;
   MkOperationType "SecurityPatchRole" SecurityPatchRoleReq _ _; MkOperationType "SecurityPatchRoleMapping" SecurityPatchRoleMappingReq _ _;
   MkOperationType "SecurityPatchRoleMappings" SecurityPatchRoleMappingsReq _ _; MkOperationType "SecurityPatchRoles" SecurityPatchRolesReq _ _;
   MkOperationType "SecurityPatchTenant" SecurityPatchTenantReq _ _; MkOperationType "SecurityPatchTenants" SecurityPatchTenantsReq _ _;
   MkOperationType "SecurityPatchUser" SecurityPatchUserReq _ _; MkOperationType "SecurityPatchUsers" SecurityPatchUsersReq _ _;
   MkOperationType "SecurityPostDashboardsInfo" SecurityPostDashboardsInfoReq _ _; MkOperationType "SecurityReloadHTTPCertificates" SecurityReloadHTTPCertificatesReq _ _;
   MkOperationType "SecurityReloadTransportCertificates" SecurityReloadTransportCertificatesReq _ _; MkOperationType "SecurityTenantInfo" SecurityTenantInfoReq _ _;
   MkOperationType "SecurityUpdateAuditConfiguration" SecurityUpdateAuditConfigurationReq _ _; MkOperationType "SecurityUpdateConfiguration" SecurityUpdateConfigurationReq _ _;
   MkOperationType "SecurityUpdateDistinguishedName" SecurityUpdateDistinguishedNameReq _ _; MkOperationType "SecurityValidate" SecurityValidateReq _ _;
   MkOperationType "SecurityWhoAmI" SecurityWhoAmIReq _ _; MkOperationType "SecurityWhoAmIProtected" SecurityWhoAmIProtectedReq _ _;
   MkOperationType "SecurityAnalyticsGetAlerts" SecurityAnalyticsGetAlertsReq _ _; MkOperationType "SecurityAnalyticsGetFindings" SecurityAnalyticsGetFindingsReq _ _;
   MkOperationType "SecurityAnalyticsSearchFindingCorrelations" SecurityAnalyticsSearchFindingCorrelationsReq _ _].
