(* ===== verification/ApiML.v ===== *)
(** * Requests for the machine learning plugin

    The request types of opensearchapi and plugins for the machine learning plugin: the parameters
    with their [get], GetRequest, and the method of the client's call, each
    with its instance of [operation] and the part of opensearch-openapi.yaml it is
    compared with. *)

From Stdlib Require Import ZArith Ascii String.
From stdpp Require Import base gmap list strings.
From S2P Require Import Paths.
From S2P Require Import Stream.
From S2P Require Import PathsML.
From S2P Require Import ReqBuild.
From S2P Require Import ApiRequest.
Open Scope string_scope.
Open Scope list_scope.

Record MLAddAgenticMemoryParams := MkMLAddAgenticMemoryParams { MLAddAgenticMemoryParams_TimeoutParams : TimeoutParams; MLAddAgenticMemoryParams_DebugParams : DebugParams }.
Definition MLAddAgenticMemoryParams_own (q : MLAddAgenticMemoryParams) : list param :=
  [].
Definition MLAddAgenticMemoryParams_slots : list (string * (MLAddAgenticMemoryParams -> slot)) :=
  [].
Definition MLAddAgenticMemoryParams_get (q : MLAddAgenticMemoryParams) : gmap string string :=
  encode_params (EncodeTimeout (MLAddAgenticMemoryParams_TimeoutParams q) ++ EncodeDebug (MLAddAgenticMemoryParams_DebugParams q) ++ MLAddAgenticMemoryParams_own q).
Record MLAddAgenticMemoryReq := MkMLAddAgenticMemoryReq { MLAddAgenticMemoryReq_MemoryContainerID : string; MLAddAgenticMemoryReq_Body : option (option string); MLAddAgenticMemoryReq_BodyReader : reader;
  MLAddAgenticMemoryReq_Header : headers; MLAddAgenticMemoryReq_Params : option MLAddAgenticMemoryParams }.
Definition MLAddAgenticMemoryReq_GetRequest (r : MLAddAgenticMemoryReq) (method : string) : request_error + httpRequest * Z :=
  send method (MLAddAgenticMemoryPath_Build (MkMLAddAgenticMemoryPath (MLAddAgenticMemoryReq_MemoryContainerID r)))
    (match MLAddAgenticMemoryReq_Params r with Some q => MLAddAgenticMemoryParams_get q | None => ∅ end)
    (json_body (MLAddAgenticMemoryReq_Body r) (MLAddAgenticMemoryReq_BodyReader r)) (MLAddAgenticMemoryReq_Header r).
Definition MLAddAgenticMemory_Method (r : MLAddAgenticMemoryReq) : string := "POST".
#[export] Instance MLAddAgenticMemory_operation : operation MLAddAgenticMemoryReq :=
  {| op_path := MkPathType "MLAddAgenticMemoryPath" MLAddAgenticMemoryPath _ _; op_P := MLAddAgenticMemoryParams; op_fields r := MkMLAddAgenticMemoryPath (MLAddAgenticMemoryReq_MemoryContainerID r);
     op_params := MLAddAgenticMemoryReq_Params; op_defaults := None; op_timeout := MLAddAgenticMemoryParams_TimeoutParams; op_debug := MLAddAgenticMemoryParams_DebugParams;
     op_format := None; op_own := MLAddAgenticMemoryParams_own; op_slots := MLAddAgenticMemoryParams_slots;
     op_body r := json_body (MLAddAgenticMemoryReq_Body r) (MLAddAgenticMemoryReq_BodyReader r); op_headers r := MLAddAgenticMemoryReq_Header r;
     Method := MLAddAgenticMemory_Method; GetRequest := MLAddAgenticMemoryReq_GetRequest;
     op_keys := [];
     op_described := [("POST", "/_plugins/_ml/memory_containers/{memory_container_id}/memories")];
     op_query := [] |}.
#[export] Instance MLAddAgenticMemory_operates : LawfulOp MLAddAgenticMemoryReq.
Proof. operate. Qed.

Record MLChunkModelParams := MkMLChunkModelParams { MLChunkModelParams_TimeoutParams : TimeoutParams; MLChunkModelParams_DebugParams : DebugParams }.
Definition MLChunkModelParams_own (q : MLChunkModelParams) : list param :=
  [].
Definition MLChunkModelParams_slots : list (string * (MLChunkModelParams -> slot)) :=
  [].
Definition MLChunkModelParams_get (q : MLChunkModelParams) : gmap string string :=
  encode_params (EncodeTimeout (MLChunkModelParams_TimeoutParams q) ++ EncodeDebug (MLChunkModelParams_DebugParams q) ++ MLChunkModelParams_own q).
Record MLChunkModelReq := MkMLChunkModelReq { MLChunkModelReq_ModelID : string; MLChunkModelReq_ChunkNumber : string; MLChunkModelReq_Body : option (option string);
  MLChunkModelReq_BodyReader : reader; MLChunkModelReq_Header : headers; MLChunkModelReq_Params : option MLChunkModelParams }.
Definition MLChunkModelReq_GetRequest (r : MLChunkModelReq) (method : string) : request_error + httpRequest * Z :=
  send method (MLChunkModelPath_Build (MkMLChunkModelPath (MLChunkModelReq_ModelID r) (MLChunkModelReq_ChunkNumber r)))
    (match MLChunkModelReq_Params r with Some q => MLChunkModelParams_get q | None => ∅ end)
    (json_body (MLChunkModelReq_Body r) (MLChunkModelReq_BodyReader r)) (MLChunkModelReq_Header r).
Definition MLChunkModel_Method (r : MLChunkModelReq) : string := "POST".
#[export] Instance MLChunkModel_operation : operation MLChunkModelReq :=
  {| op_path := MkPathType "MLChunkModelPath" MLChunkModelPath _ _; op_P := MLChunkModelParams; op_fields r := MkMLChunkModelPath (MLChunkModelReq_ModelID r) (MLChunkModelReq_ChunkNumber r);
     op_params := MLChunkModelReq_Params; op_defaults := None; op_timeout := MLChunkModelParams_TimeoutParams; op_debug := MLChunkModelParams_DebugParams;
     op_format := None; op_own := MLChunkModelParams_own; op_slots := MLChunkModelParams_slots;
     op_body r := json_body (MLChunkModelReq_Body r) (MLChunkModelReq_BodyReader r); op_headers r := MLChunkModelReq_Header r;
     Method := MLChunkModel_Method; GetRequest := MLChunkModelReq_GetRequest;
     op_keys := [];
     op_described := [("POST", "/_plugins/_ml/models/{model_id}/chunk/{chunk_number}")];
     op_query := [] |}.
#[export] Instance MLChunkModel_operates : LawfulOp MLChunkModelReq.
Proof. operate. Qed.

Record MLCreateConnectorParams := MkMLCreateConnectorParams { MLCreateConnectorParams_TimeoutParams : TimeoutParams; MLCreateConnectorParams_DebugParams : DebugParams }.
Definition MLCreateConnectorParams_own (q : MLCreateConnectorParams) : list param :=
  [].
Definition MLCreateConnectorParams_slots : list (string * (MLCreateConnectorParams -> slot)) :=
  [].
Definition MLCreateConnectorParams_get (q : MLCreateConnectorParams) : gmap string string :=
  encode_params (EncodeTimeout (MLCreateConnectorParams_TimeoutParams q) ++ EncodeDebug (MLCreateConnectorParams_DebugParams q) ++ MLCreateConnectorParams_own q).
Record MLCreateConnectorReq := MkMLCreateConnectorReq { MLCreateConnectorReq_Body : option (option string); MLCreateConnectorReq_BodyReader : reader; MLCreateConnectorReq_Header : headers;
  MLCreateConnectorReq_Params : option MLCreateConnectorParams }.
Definition MLCreateConnectorReq_GetRequest (r : MLCreateConnectorReq) (method : string) : request_error + httpRequest * Z :=
  send method (MLCreateConnectorPath_Build (MkMLCreateConnectorPath))
    (match MLCreateConnectorReq_Params r with Some q => MLCreateConnectorParams_get q | None => ∅ end)
    (json_body (MLCreateConnectorReq_Body r) (MLCreateConnectorReq_BodyReader r)) (MLCreateConnectorReq_Header r).
Definition MLCreateConnector_Method (r : MLCreateConnectorReq) : string := "POST".
#[export] Instance MLCreateConnector_operation : operation MLCreateConnectorReq :=
  {| op_path := MkPathType "MLCreateConnectorPath" MLCreateConnectorPath _ _; op_P := MLCreateConnectorParams; op_fields r := MkMLCreateConnectorPath;
     op_params := MLCreateConnectorReq_Params; op_defaults := None; op_timeout := MLCreateConnectorParams_TimeoutParams; op_debug := MLCreateConnectorParams_DebugParams;
     op_format := None; op_own := MLCreateConnectorParams_own; op_slots := MLCreateConnectorParams_slots;
     op_body r := json_body (MLCreateConnectorReq_Body r) (MLCreateConnectorReq_BodyReader r); op_headers r := MLCreateConnectorReq_Header r;
     Method := MLCreateConnector_Method; GetRequest := MLCreateConnectorReq_GetRequest;
     op_keys := [];
     op_described := [("POST", "/_plugins/_ml/connectors/_create")];
     op_query := [] |}.
#[export] Instance MLCreateConnector_operates : LawfulOp MLCreateConnectorReq.
Proof. operate. Qed.

Record MLCreateControllerParams := MkMLCreateControllerParams { MLCreateControllerParams_TimeoutParams : TimeoutParams; MLCreateControllerParams_DebugParams : DebugParams }.
Definition MLCreateControllerParams_own (q : MLCreateControllerParams) : list param :=
  [].
Definition MLCreateControllerParams_slots : list (string * (MLCreateControllerParams -> slot)) :=
  [].
Definition MLCreateControllerParams_get (q : MLCreateControllerParams) : gmap string string :=
  encode_params (EncodeTimeout (MLCreateControllerParams_TimeoutParams q) ++ EncodeDebug (MLCreateControllerParams_DebugParams q) ++ MLCreateControllerParams_own q).
Record MLCreateControllerReq := MkMLCreateControllerReq { MLCreateControllerReq_ModelID : string; MLCreateControllerReq_Body : option (option string); MLCreateControllerReq_BodyReader : reader;
  MLCreateControllerReq_Header : headers; MLCreateControllerReq_Params : option MLCreateControllerParams }.
Definition MLCreateControllerReq_GetRequest (r : MLCreateControllerReq) (method : string) : request_error + httpRequest * Z :=
  send method (MLCreateControllerPath_Build (MkMLCreateControllerPath (MLCreateControllerReq_ModelID r)))
    (match MLCreateControllerReq_Params r with Some q => MLCreateControllerParams_get q | None => ∅ end)
    (json_body (MLCreateControllerReq_Body r) (MLCreateControllerReq_BodyReader r)) (MLCreateControllerReq_Header r).
Definition MLCreateController_Method (r : MLCreateControllerReq) : string := "POST".
#[export] Instance MLCreateController_operation : operation MLCreateControllerReq :=
  {| op_path := MkPathType "MLCreateControllerPath" MLCreateControllerPath _ _; op_P := MLCreateControllerParams; op_fields r := MkMLCreateControllerPath (MLCreateControllerReq_ModelID r);
     op_params := MLCreateControllerReq_Params; op_defaults := None; op_timeout := MLCreateControllerParams_TimeoutParams; op_debug := MLCreateControllerParams_DebugParams;
     op_format := None; op_own := MLCreateControllerParams_own; op_slots := MLCreateControllerParams_slots;
     op_body r := json_body (MLCreateControllerReq_Body r) (MLCreateControllerReq_BodyReader r); op_headers r := MLCreateControllerReq_Header r;
     Method := MLCreateController_Method; GetRequest := MLCreateControllerReq_GetRequest;
     op_keys := [];
     op_described := [("POST", "/_plugins/_ml/controllers/{model_id}")];
     op_query := [] |}.
#[export] Instance MLCreateController_operates : LawfulOp MLCreateControllerReq.
Proof. operate. Qed.

Record MLCreateMemoryParams := MkMLCreateMemoryParams { MLCreateMemoryParams_TimeoutParams : TimeoutParams; MLCreateMemoryParams_DebugParams : DebugParams }.
Definition MLCreateMemoryParams_own (q : MLCreateMemoryParams) : list param :=
  [].
Definition MLCreateMemoryParams_slots : list (string * (MLCreateMemoryParams -> slot)) :=
  [].
Definition MLCreateMemoryParams_get (q : MLCreateMemoryParams) : gmap string string :=
  encode_params (EncodeTimeout (MLCreateMemoryParams_TimeoutParams q) ++ EncodeDebug (MLCreateMemoryParams_DebugParams q) ++ MLCreateMemoryParams_own q).
Record MLCreateMemoryReq := MkMLCreateMemoryReq { MLCreateMemoryReq_Body : option (option string); MLCreateMemoryReq_BodyReader : reader; MLCreateMemoryReq_Header : headers;
  MLCreateMemoryReq_Params : option MLCreateMemoryParams }.
Definition MLCreateMemoryReq_GetRequest (r : MLCreateMemoryReq) (method : string) : request_error + httpRequest * Z :=
  send method (MLCreateMemoryPath_Build (MkMLCreateMemoryPath))
    (match MLCreateMemoryReq_Params r with Some q => MLCreateMemoryParams_get q | None => ∅ end)
    (json_body (MLCreateMemoryReq_Body r) (MLCreateMemoryReq_BodyReader r)) (MLCreateMemoryReq_Header r).
Definition MLCreateMemory_Method (r : MLCreateMemoryReq) : string := "POST".
#[export] Instance MLCreateMemory_operation : operation MLCreateMemoryReq :=
  {| op_path := MkPathType "MLCreateMemoryPath" MLCreateMemoryPath _ _; op_P := MLCreateMemoryParams; op_fields r := MkMLCreateMemoryPath;
     op_params := MLCreateMemoryReq_Params; op_defaults := None; op_timeout := MLCreateMemoryParams_TimeoutParams; op_debug := MLCreateMemoryParams_DebugParams;
     op_format := None; op_own := MLCreateMemoryParams_own; op_slots := MLCreateMemoryParams_slots;
     op_body r := json_body (MLCreateMemoryReq_Body r) (MLCreateMemoryReq_BodyReader r); op_headers r := MLCreateMemoryReq_Header r;
     Method := MLCreateMemory_Method; GetRequest := MLCreateMemoryReq_GetRequest;
     op_keys := [];
     op_described := [("POST", "/_plugins/_ml/memory")];
     op_query := [] |}.
#[export] Instance MLCreateMemory_operates : LawfulOp MLCreateMemoryReq.
Proof. operate. Qed.

Record MLCreateMemoryContainerParams := MkMLCreateMemoryContainerParams { MLCreateMemoryContainerParams_TimeoutParams : TimeoutParams; MLCreateMemoryContainerParams_DebugParams : DebugParams }.
Definition MLCreateMemoryContainerParams_own (q : MLCreateMemoryContainerParams) : list param :=
  [].
Definition MLCreateMemoryContainerParams_slots : list (string * (MLCreateMemoryContainerParams -> slot)) :=
  [].
Definition MLCreateMemoryContainerParams_get (q : MLCreateMemoryContainerParams) : gmap string string :=
  encode_params (EncodeTimeout (MLCreateMemoryContainerParams_TimeoutParams q) ++ EncodeDebug (MLCreateMemoryContainerParams_DebugParams q) ++ MLCreateMemoryContainerParams_own q).
Record MLCreateMemoryContainerReq := MkMLCreateMemoryContainerReq { MLCreateMemoryContainerReq_Body : option (option string); MLCreateMemoryContainerReq_BodyReader : reader;
  MLCreateMemoryContainerReq_Header : headers; MLCreateMemoryContainerReq_Params : option MLCreateMemoryContainerParams }.
Definition MLCreateMemoryContainerReq_GetRequest (r : MLCreateMemoryContainerReq) (method : string) : request_error + httpRequest * Z :=
  send method (MLCreateMemoryContainerPath_Build (MkMLCreateMemoryContainerPath))
    (match MLCreateMemoryContainerReq_Params r with Some q => MLCreateMemoryContainerParams_get q | None => ∅ end)
    (json_body (MLCreateMemoryContainerReq_Body r) (MLCreateMemoryContainerReq_BodyReader r)) (MLCreateMemoryContainerReq_Header r).
Definition MLCreateMemoryContainer_Method (r : MLCreateMemoryContainerReq) : string := "POST".
#[export] Instance MLCreateMemoryContainer_operation : operation MLCreateMemoryContainerReq :=
  {| op_path := MkPathType "MLCreateMemoryContainerPath" MLCreateMemoryContainerPath _ _; op_P := MLCreateMemoryContainerParams; op_fields r := MkMLCreateMemoryContainerPath;
     op_params := MLCreateMemoryContainerReq_Params; op_defaults := None; op_timeout := MLCreateMemoryContainerParams_TimeoutParams; op_debug := MLCreateMemoryContainerParams_DebugParams;
     op_format := None; op_own := MLCreateMemoryContainerParams_own; op_slots := MLCreateMemoryContainerParams_slots;
     op_body r := json_body (MLCreateMemoryContainerReq_Body r) (MLCreateMemoryContainerReq_BodyReader r); op_headers r := MLCreateMemoryContainerReq_Header r;
     Method := MLCreateMemoryContainer_Method; GetRequest := MLCreateMemoryContainerReq_GetRequest;
     op_keys := [];
     op_described := [("POST", "/_plugins/_ml/memory_containers/_create")];
     op_query := [] |}.
#[export] Instance MLCreateMemoryContainer_operates : LawfulOp MLCreateMemoryContainerReq.
Proof. operate. Qed.

Record MLCreateMemoryContainerSessionParams := MkMLCreateMemoryContainerSessionParams { MLCreateMemoryContainerSessionParams_TimeoutParams : TimeoutParams; MLCreateMemoryContainerSessionParams_DebugParams : DebugParams }.
Definition MLCreateMemoryContainerSessionParams_own (q : MLCreateMemoryContainerSessionParams) : list param :=
  [].
Definition MLCreateMemoryContainerSessionParams_slots : list (string * (MLCreateMemoryContainerSessionParams -> slot)) :=
  [].
Definition MLCreateMemoryContainerSessionParams_get (q : MLCreateMemoryContainerSessionParams) : gmap string string :=
  encode_params (EncodeTimeout (MLCreateMemoryContainerSessionParams_TimeoutParams q) ++ EncodeDebug (MLCreateMemoryContainerSessionParams_DebugParams q) ++ MLCreateMemoryContainerSessionParams_own q).
Record MLCreateMemoryContainerSessionReq := MkMLCreateMemoryContainerSessionReq { MLCreateMemoryContainerSessionReq_MemoryContainerID : string; MLCreateMemoryContainerSessionReq_Body : option (option string);
  MLCreateMemoryContainerSessionReq_BodyReader : reader; MLCreateMemoryContainerSessionReq_Header : headers;
  MLCreateMemoryContainerSessionReq_Params : option MLCreateMemoryContainerSessionParams }.
Definition MLCreateMemoryContainerSessionReq_GetRequest (r : MLCreateMemoryContainerSessionReq) (method : string) : request_error + httpRequest * Z :=
  send method (MLCreateMemoryContainerSessionPath_Build (MkMLCreateMemoryContainerSessionPath (MLCreateMemoryContainerSessionReq_MemoryContainerID r)))
    (match MLCreateMemoryContainerSessionReq_Params r with Some q => MLCreateMemoryContainerSessionParams_get q | None => ∅ end)
    (json_body (MLCreateMemoryContainerSessionReq_Body r) (MLCreateMemoryContainerSessionReq_BodyReader r)) (MLCreateMemoryContainerSessionReq_Header r).
Definition MLCreateMemoryContainerSession_Method (r : MLCreateMemoryContainerSessionReq) : string := "POST".
#[export] Instance MLCreateMemoryContainerSession_operation : operation MLCreateMemoryContainerSessionReq :=
  {| op_path := MkPathType "MLCreateMemoryContainerSessionPath" MLCreateMemoryContainerSessionPath _ _; op_P := MLCreateMemoryContainerSessionParams; op_fields r := MkMLCreateMemoryContainerSessionPath (MLCreateMemoryContainerSessionReq_MemoryContainerID r);
     op_params := MLCreateMemoryContainerSessionReq_Params; op_defaults := None; op_timeout := MLCreateMemoryContainerSessionParams_TimeoutParams; op_debug := MLCreateMemoryContainerSessionParams_DebugParams;
     op_format := None; op_own := MLCreateMemoryContainerSessionParams_own; op_slots := MLCreateMemoryContainerSessionParams_slots;
     op_body r := json_body (MLCreateMemoryContainerSessionReq_Body r) (MLCreateMemoryContainerSessionReq_BodyReader r); op_headers r := MLCreateMemoryContainerSessionReq_Header r;
     Method := MLCreateMemoryContainerSession_Method; GetRequest := MLCreateMemoryContainerSessionReq_GetRequest;
     op_keys := [];
     op_described := [("POST", "/_plugins/_ml/memory_containers/{memory_container_id}/memories/sessions")];
     op_query := [] |}.
#[export] Instance MLCreateMemoryContainerSession_operates : LawfulOp MLCreateMemoryContainerSessionReq.
Proof. operate. Qed.

Record MLCreateMessageParams := MkMLCreateMessageParams { MLCreateMessageParams_TimeoutParams : TimeoutParams; MLCreateMessageParams_DebugParams : DebugParams }.
Definition MLCreateMessageParams_own (q : MLCreateMessageParams) : list param :=
  [].
Definition MLCreateMessageParams_slots : list (string * (MLCreateMessageParams -> slot)) :=
  [].
Definition MLCreateMessageParams_get (q : MLCreateMessageParams) : gmap string string :=
  encode_params (EncodeTimeout (MLCreateMessageParams_TimeoutParams q) ++ EncodeDebug (MLCreateMessageParams_DebugParams q) ++ MLCreateMessageParams_own q).
Record MLCreateMessageReq := MkMLCreateMessageReq { MLCreateMessageReq_MemoryID : string; MLCreateMessageReq_Body : option (option string); MLCreateMessageReq_BodyReader : reader;
  MLCreateMessageReq_Header : headers; MLCreateMessageReq_Params : option MLCreateMessageParams }.
Definition MLCreateMessageReq_GetRequest (r : MLCreateMessageReq) (method : string) : request_error + httpRequest * Z :=
  send method (MLCreateMessagePath_Build (MkMLCreateMessagePath (MLCreateMessageReq_MemoryID r)))
    (match MLCreateMessageReq_Params r with Some q => MLCreateMessageParams_get q | None => ∅ end)
    (json_body (MLCreateMessageReq_Body r) (MLCreateMessageReq_BodyReader r)) (MLCreateMessageReq_Header r).
Definition MLCreateMessage_Method (r : MLCreateMessageReq) : string := "POST".
#[export] Instance MLCreateMessage_operation : operation MLCreateMessageReq :=
  {| op_path := MkPathType "MLCreateMessagePath" MLCreateMessagePath _ _; op_P := MLCreateMessageParams; op_fields r := MkMLCreateMessagePath (MLCreateMessageReq_MemoryID r);
     op_params := MLCreateMessageReq_Params; op_defaults := None; op_timeout := MLCreateMessageParams_TimeoutParams; op_debug := MLCreateMessageParams_DebugParams;
     op_format := None; op_own := MLCreateMessageParams_own; op_slots := MLCreateMessageParams_slots;
     op_body r := json_body (MLCreateMessageReq_Body r) (MLCreateMessageReq_BodyReader r); op_headers r := MLCreateMessageReq_Header r;
     Method := MLCreateMessage_Method; GetRequest := MLCreateMessageReq_GetRequest;
     op_keys := [];
     op_described := [("POST", "/_plugins/_ml/memory/{memory_id}/messages")];
     op_query := [] |}.
#[export] Instance MLCreateMessage_operates : LawfulOp MLCreateMessageReq.
Proof. operate. Qed.

Record MLCreateModelMetaParams := MkMLCreateModelMetaParams { MLCreateModelMetaParams_TimeoutParams : TimeoutParams; MLCreateModelMetaParams_DebugParams : DebugParams }.
Definition MLCreateModelMetaParams_own (q : MLCreateModelMetaParams) : list param :=
  [].
Definition MLCreateModelMetaParams_slots : list (string * (MLCreateModelMetaParams -> slot)) :=
  [].
Definition MLCreateModelMetaParams_get (q : MLCreateModelMetaParams) : gmap string string :=
  encode_params (EncodeTimeout (MLCreateModelMetaParams_TimeoutParams q) ++ EncodeDebug (MLCreateModelMetaParams_DebugParams q) ++ MLCreateModelMetaParams_own q).
Record MLCreateModelMetaReq := MkMLCreateModelMetaReq { MLCreateModelMetaReq_Body : option (option string); MLCreateModelMetaReq_BodyReader : reader; MLCreateModelMetaReq_Header : headers;
  MLCreateModelMetaReq_Params : option MLCreateModelMetaParams }.
Definition MLCreateModelMetaReq_GetRequest (r : MLCreateModelMetaReq) (method : string) : request_error + httpRequest * Z :=
  send method (MLCreateModelMetaPath_Build (MkMLCreateModelMetaPath))
    (match MLCreateModelMetaReq_Params r with Some q => MLCreateModelMetaParams_get q | None => ∅ end)
    (json_body (MLCreateModelMetaReq_Body r) (MLCreateModelMetaReq_BodyReader r)) (MLCreateModelMetaReq_Header r).
Definition MLCreateModelMeta_Method (r : MLCreateModelMetaReq) : string := "POST".
#[export] Instance MLCreateModelMeta_operation : operation MLCreateModelMetaReq :=
  {| op_path := MkPathType "MLCreateModelMetaPath" MLCreateModelMetaPath _ _; op_P := MLCreateModelMetaParams; op_fields r := MkMLCreateModelMetaPath;
     op_params := MLCreateModelMetaReq_Params; op_defaults := None; op_timeout := MLCreateModelMetaParams_TimeoutParams; op_debug := MLCreateModelMetaParams_DebugParams;
     op_format := None; op_own := MLCreateModelMetaParams_own; op_slots := MLCreateModelMetaParams_slots;
     op_body r := json_body (MLCreateModelMetaReq_Body r) (MLCreateModelMetaReq_BodyReader r); op_headers r := MLCreateModelMetaReq_Header r;
     Method := MLCreateModelMeta_Method; GetRequest := MLCreateModelMetaReq_GetRequest;
     op_keys := [];
     op_described := [("POST", "/_plugins/_ml/models/meta")];
     op_query := [] |}.
#[export] Instance MLCreateModelMeta_operates : LawfulOp MLCreateModelMetaReq.
Proof. operate. Qed.

Record MLDeleteAgentParams := MkMLDeleteAgentParams { MLDeleteAgentParams_TimeoutParams : TimeoutParams; MLDeleteAgentParams_DebugParams : DebugParams }.
Definition MLDeleteAgentParams_own (q : MLDeleteAgentParams) : list param :=
  [].
Definition MLDeleteAgentParams_slots : list (string * (MLDeleteAgentParams -> slot)) :=
  [].
Definition MLDeleteAgentParams_get (q : MLDeleteAgentParams) : gmap string string :=
  encode_params (EncodeTimeout (MLDeleteAgentParams_TimeoutParams q) ++ EncodeDebug (MLDeleteAgentParams_DebugParams q) ++ MLDeleteAgentParams_own q).
Record MLDeleteAgentReq := MkMLDeleteAgentReq { MLDeleteAgentReq_AgentID : string; MLDeleteAgentReq_Header : headers; MLDeleteAgentReq_Params : option MLDeleteAgentParams }.
Definition MLDeleteAgentReq_GetRequest (r : MLDeleteAgentReq) (method : string) : request_error + httpRequest * Z :=
  send method (MLDeleteAgentPath_Build (MkMLDeleteAgentPath (MLDeleteAgentReq_AgentID r)))
    (match MLDeleteAgentReq_Params r with Some q => MLDeleteAgentParams_get q | None => ∅ end)
    no_body (MLDeleteAgentReq_Header r).
Definition MLDeleteAgent_Method (r : MLDeleteAgentReq) : string := "DELETE".
#[export] Instance MLDeleteAgent_operation : operation MLDeleteAgentReq :=
  {| op_path := MkPathType "MLDeleteAgentPath" MLDeleteAgentPath _ _; op_P := MLDeleteAgentParams; op_fields r := MkMLDeleteAgentPath (MLDeleteAgentReq_AgentID r);
     op_params := MLDeleteAgentReq_Params; op_defaults := None; op_timeout := MLDeleteAgentParams_TimeoutParams; op_debug := MLDeleteAgentParams_DebugParams;
     op_format := None; op_own := MLDeleteAgentParams_own; op_slots := MLDeleteAgentParams_slots;
     op_body _ := no_body; op_headers r := MLDeleteAgentReq_Header r;
     Method := MLDeleteAgent_Method; GetRequest := MLDeleteAgentReq_GetRequest;
     op_keys := [];
     op_described := [("DELETE", "/_plugins/_ml/agents/{agent_id}")];
     op_query := [] |}.
#[export] Instance MLDeleteAgent_operates : LawfulOp MLDeleteAgentReq.
Proof. operate. Qed.

Record MLDeleteAgenticMemoryParams := MkMLDeleteAgenticMemoryParams { MLDeleteAgenticMemoryParams_TimeoutParams : TimeoutParams; MLDeleteAgenticMemoryParams_DebugParams : DebugParams }.
Definition MLDeleteAgenticMemoryParams_own (q : MLDeleteAgenticMemoryParams) : list param :=
  [].
Definition MLDeleteAgenticMemoryParams_slots : list (string * (MLDeleteAgenticMemoryParams -> slot)) :=
  [].
Definition MLDeleteAgenticMemoryParams_get (q : MLDeleteAgenticMemoryParams) : gmap string string :=
  encode_params (EncodeTimeout (MLDeleteAgenticMemoryParams_TimeoutParams q) ++ EncodeDebug (MLDeleteAgenticMemoryParams_DebugParams q) ++ MLDeleteAgenticMemoryParams_own q).
Record MLDeleteAgenticMemoryReq := MkMLDeleteAgenticMemoryReq { MLDeleteAgenticMemoryReq_MemoryContainerID : string; MLDeleteAgenticMemoryReq_Type : string; MLDeleteAgenticMemoryReq_ID : string;
  MLDeleteAgenticMemoryReq_Header : headers; MLDeleteAgenticMemoryReq_Params : option MLDeleteAgenticMemoryParams }.
Definition MLDeleteAgenticMemoryReq_GetRequest (r : MLDeleteAgenticMemoryReq) (method : string) : request_error + httpRequest * Z :=
  send method (MLDeleteAgenticMemoryPath_Build (MkMLDeleteAgenticMemoryPath (MLDeleteAgenticMemoryReq_MemoryContainerID r) (MLDeleteAgenticMemoryReq_Type r) (MLDeleteAgenticMemoryReq_ID r)))
    (match MLDeleteAgenticMemoryReq_Params r with Some q => MLDeleteAgenticMemoryParams_get q | None => ∅ end)
    no_body (MLDeleteAgenticMemoryReq_Header r).
Definition MLDeleteAgenticMemory_Method (r : MLDeleteAgenticMemoryReq) : string := "DELETE".
#[export] Instance MLDeleteAgenticMemory_operation : operation MLDeleteAgenticMemoryReq :=
  {| op_path := MkPathType "MLDeleteAgenticMemoryPath" MLDeleteAgenticMemoryPath _ _; op_P := MLDeleteAgenticMemoryParams; op_fields r := MkMLDeleteAgenticMemoryPath (MLDeleteAgenticMemoryReq_MemoryContainerID r) (MLDeleteAgenticMemoryReq_Type r) (MLDeleteAgenticMemoryReq_ID r);
     op_params := MLDeleteAgenticMemoryReq_Params; op_defaults := None; op_timeout := MLDeleteAgenticMemoryParams_TimeoutParams; op_debug := MLDeleteAgenticMemoryParams_DebugParams;
     op_format := None; op_own := MLDeleteAgenticMemoryParams_own; op_slots := MLDeleteAgenticMemoryParams_slots;
     op_body _ := no_body; op_headers r := MLDeleteAgenticMemoryReq_Header r;
     Method := MLDeleteAgenticMemory_Method; GetRequest := MLDeleteAgenticMemoryReq_GetRequest;
     op_keys := [];
     op_described := [("DELETE", "/_plugins/_ml/memory_containers/{memory_container_id}/memories/{type}/{id}")];
     op_query := [] |}.
#[export] Instance MLDeleteAgenticMemory_operates : LawfulOp MLDeleteAgenticMemoryReq.
Proof. operate. Qed.

Record MLDeleteAgenticMemoryQueryParams := MkMLDeleteAgenticMemoryQueryParams { MLDeleteAgenticMemoryQueryParams_TimeoutParams : TimeoutParams; MLDeleteAgenticMemoryQueryParams_DebugParams : DebugParams }.
Definition MLDeleteAgenticMemoryQueryParams_own (q : MLDeleteAgenticMemoryQueryParams) : list param :=
  [].
Definition MLDeleteAgenticMemoryQueryParams_slots : list (string * (MLDeleteAgenticMemoryQueryParams -> slot)) :=
  [].
Definition MLDeleteAgenticMemoryQueryParams_get (q : MLDeleteAgenticMemoryQueryParams) : gmap string string :=
  encode_params (EncodeTimeout (MLDeleteAgenticMemoryQueryParams_TimeoutParams q) ++ EncodeDebug (MLDeleteAgenticMemoryQueryParams_DebugParams q) ++ MLDeleteAgenticMemoryQueryParams_own q).
Record MLDeleteAgenticMemoryQueryReq := MkMLDeleteAgenticMemoryQueryReq { MLDeleteAgenticMemoryQueryReq_MemoryContainerID : string; MLDeleteAgenticMemoryQueryReq_Type : string;
  MLDeleteAgenticMemoryQueryReq_Body : option (option string); MLDeleteAgenticMemoryQueryReq_BodyReader : reader;
  MLDeleteAgenticMemoryQueryReq_Header : headers; MLDeleteAgenticMemoryQueryReq_Params : option MLDeleteAgenticMemoryQueryParams }.
Definition MLDeleteAgenticMemoryQueryReq_GetRequest (r : MLDeleteAgenticMemoryQueryReq) (method : string) : request_error + httpRequest * Z :=
  send method (MLDeleteAgenticMemoryQueryPath_Build (MkMLDeleteAgenticMemoryQueryPath (MLDeleteAgenticMemoryQueryReq_MemoryContainerID r) (MLDeleteAgenticMemoryQueryReq_Type r)))
    (match MLDeleteAgenticMemoryQueryReq_Params r with Some q => MLDeleteAgenticMemoryQueryParams_get q | None => ∅ end)
    (json_body (MLDeleteAgenticMemoryQueryReq_Body r) (MLDeleteAgenticMemoryQueryReq_BodyReader r)) (MLDeleteAgenticMemoryQueryReq_Header r).
Definition MLDeleteAgenticMemoryQuery_Method (r : MLDeleteAgenticMemoryQueryReq) : string := "POST".
#[export] Instance MLDeleteAgenticMemoryQuery_operation : operation MLDeleteAgenticMemoryQueryReq :=
  {| op_path := MkPathType "MLDeleteAgenticMemoryQueryPath" MLDeleteAgenticMemoryQueryPath _ _; op_P := MLDeleteAgenticMemoryQueryParams; op_fields r := MkMLDeleteAgenticMemoryQueryPath (MLDeleteAgenticMemoryQueryReq_MemoryContainerID r) (MLDeleteAgenticMemoryQueryReq_Type r);
     op_params := MLDeleteAgenticMemoryQueryReq_Params; op_defaults := None; op_timeout := MLDeleteAgenticMemoryQueryParams_TimeoutParams; op_debug := MLDeleteAgenticMemoryQueryParams_DebugParams;
     op_format := None; op_own := MLDeleteAgenticMemoryQueryParams_own; op_slots := MLDeleteAgenticMemoryQueryParams_slots;
     op_body r := json_body (MLDeleteAgenticMemoryQueryReq_Body r) (MLDeleteAgenticMemoryQueryReq_BodyReader r); op_headers r := MLDeleteAgenticMemoryQueryReq_Header r;
     Method := MLDeleteAgenticMemoryQuery_Method; GetRequest := MLDeleteAgenticMemoryQueryReq_GetRequest;
     op_keys := [];
     op_described := [("POST", "/_plugins/_ml/memory_containers/{memory_container_id}/memories/{type}/_delete_by_query")];
     op_query := [] |}.
#[export] Instance MLDeleteAgenticMemoryQuery_operates : LawfulOp MLDeleteAgenticMemoryQueryReq.
Proof. operate. Qed.

Record MLDeleteConnectorParams := MkMLDeleteConnectorParams { MLDeleteConnectorParams_TimeoutParams : TimeoutParams; MLDeleteConnectorParams_DebugParams : DebugParams }.
Definition MLDeleteConnectorParams_own (q : MLDeleteConnectorParams) : list param :=
  [].
Definition MLDeleteConnectorParams_slots : list (string * (MLDeleteConnectorParams -> slot)) :=
  [].
Definition MLDeleteConnectorParams_get (q : MLDeleteConnectorParams) : gmap string string :=
  encode_params (EncodeTimeout (MLDeleteConnectorParams_TimeoutParams q) ++ EncodeDebug (MLDeleteConnectorParams_DebugParams q) ++ MLDeleteConnectorParams_own q).
Record MLDeleteConnectorReq := MkMLDeleteConnectorReq { MLDeleteConnectorReq_ConnectorID : string; MLDeleteConnectorReq_Header : headers; MLDeleteConnectorReq_Params : option MLDeleteConnectorParams }.
Definition MLDeleteConnectorReq_GetRequest (r : MLDeleteConnectorReq) (method : string) : request_error + httpRequest * Z :=
  send method (MLDeleteConnectorPath_Build (MkMLDeleteConnectorPath (MLDeleteConnectorReq_ConnectorID r)))
    (match MLDeleteConnectorReq_Params r with Some q => MLDeleteConnectorParams_get q | None => ∅ end)
    no_body (MLDeleteConnectorReq_Header r).
Definition MLDeleteConnector_Method (r : MLDeleteConnectorReq) : string := "DELETE".
#[export] Instance MLDeleteConnector_operation : operation MLDeleteConnectorReq :=
  {| op_path := MkPathType "MLDeleteConnectorPath" MLDeleteConnectorPath _ _; op_P := MLDeleteConnectorParams; op_fields r := MkMLDeleteConnectorPath (MLDeleteConnectorReq_ConnectorID r);
     op_params := MLDeleteConnectorReq_Params; op_defaults := None; op_timeout := MLDeleteConnectorParams_TimeoutParams; op_debug := MLDeleteConnectorParams_DebugParams;
     op_format := None; op_own := MLDeleteConnectorParams_own; op_slots := MLDeleteConnectorParams_slots;
     op_body _ := no_body; op_headers r := MLDeleteConnectorReq_Header r;
     Method := MLDeleteConnector_Method; GetRequest := MLDeleteConnectorReq_GetRequest;
     op_keys := [];
     op_described := [("DELETE", "/_plugins/_ml/connectors/{connector_id}")];
     op_query := [] |}.
#[export] Instance MLDeleteConnector_operates : LawfulOp MLDeleteConnectorReq.
Proof. operate. Qed.

Record MLDeleteControllerParams := MkMLDeleteControllerParams { MLDeleteControllerParams_TimeoutParams : TimeoutParams; MLDeleteControllerParams_DebugParams : DebugParams }.
Definition MLDeleteControllerParams_own (q : MLDeleteControllerParams) : list param :=
  [].
Definition MLDeleteControllerParams_slots : list (string * (MLDeleteControllerParams -> slot)) :=
  [].
Definition MLDeleteControllerParams_get (q : MLDeleteControllerParams) : gmap string string :=
  encode_params (EncodeTimeout (MLDeleteControllerParams_TimeoutParams q) ++ EncodeDebug (MLDeleteControllerParams_DebugParams q) ++ MLDeleteControllerParams_own q).
Record MLDeleteControllerReq := MkMLDeleteControllerReq { MLDeleteControllerReq_ModelID : string; MLDeleteControllerReq_Header : headers; MLDeleteControllerReq_Params : option MLDeleteControllerParams }.
Definition MLDeleteControllerReq_GetRequest (r : MLDeleteControllerReq) (method : string) : request_error + httpRequest * Z :=
  send method (MLDeleteControllerPath_Build (MkMLDeleteControllerPath (MLDeleteControllerReq_ModelID r)))
    (match MLDeleteControllerReq_Params r with Some q => MLDeleteControllerParams_get q | None => ∅ end)
    no_body (MLDeleteControllerReq_Header r).
Definition MLDeleteController_Method (r : MLDeleteControllerReq) : string := "DELETE".
#[export] Instance MLDeleteController_operation : operation MLDeleteControllerReq :=
  {| op_path := MkPathType "MLDeleteControllerPath" MLDeleteControllerPath _ _; op_P := MLDeleteControllerParams; op_fields r := MkMLDeleteControllerPath (MLDeleteControllerReq_ModelID r);
     op_params := MLDeleteControllerReq_Params; op_defaults := None; op_timeout := MLDeleteControllerParams_TimeoutParams; op_debug := MLDeleteControllerParams_DebugParams;
     op_format := None; op_own := MLDeleteControllerParams_own; op_slots := MLDeleteControllerParams_slots;
     op_body _ := no_body; op_headers r := MLDeleteControllerReq_Header r;
     Method := MLDeleteController_Method; GetRequest := MLDeleteControllerReq_GetRequest;
     op_keys := [];
     op_described := [("DELETE", "/_plugins/_ml/controllers/{model_id}")];
     op_query := [] |}.
#[export] Instance MLDeleteController_operates : LawfulOp MLDeleteControllerReq.
Proof. operate. Qed.

Record MLDeleteMemoryParams := MkMLDeleteMemoryParams { MLDeleteMemoryParams_TimeoutParams : TimeoutParams; MLDeleteMemoryParams_DebugParams : DebugParams }.
Definition MLDeleteMemoryParams_own (q : MLDeleteMemoryParams) : list param :=
  [].
Definition MLDeleteMemoryParams_slots : list (string * (MLDeleteMemoryParams -> slot)) :=
  [].
Definition MLDeleteMemoryParams_get (q : MLDeleteMemoryParams) : gmap string string :=
  encode_params (EncodeTimeout (MLDeleteMemoryParams_TimeoutParams q) ++ EncodeDebug (MLDeleteMemoryParams_DebugParams q) ++ MLDeleteMemoryParams_own q).
Record MLDeleteMemoryReq := MkMLDeleteMemoryReq { MLDeleteMemoryReq_MemoryID : string; MLDeleteMemoryReq_Header : headers; MLDeleteMemoryReq_Params : option MLDeleteMemoryParams }.
Definition MLDeleteMemoryReq_GetRequest (r : MLDeleteMemoryReq) (method : string) : request_error + httpRequest * Z :=
  send method (MLDeleteMemoryPath_Build (MkMLDeleteMemoryPath (MLDeleteMemoryReq_MemoryID r)))
    (match MLDeleteMemoryReq_Params r with Some q => MLDeleteMemoryParams_get q | None => ∅ end)
    no_body (MLDeleteMemoryReq_Header r).
Definition MLDeleteMemory_Method (r : MLDeleteMemoryReq) : string := "DELETE".
#[export] Instance MLDeleteMemory_operation : operation MLDeleteMemoryReq :=
  {| op_path := MkPathType "MLDeleteMemoryPath" MLDeleteMemoryPath _ _; op_P := MLDeleteMemoryParams; op_fields r := MkMLDeleteMemoryPath (MLDeleteMemoryReq_MemoryID r);
     op_params := MLDeleteMemoryReq_Params; op_defaults := None; op_timeout := MLDeleteMemoryParams_TimeoutParams; op_debug := MLDeleteMemoryParams_DebugParams;
     op_format := None; op_own := MLDeleteMemoryParams_own; op_slots := MLDeleteMemoryParams_slots;
     op_body _ := no_body; op_headers r := MLDeleteMemoryReq_Header r;
     Method := MLDeleteMemory_Method; GetRequest := MLDeleteMemoryReq_GetRequest;
     op_keys := [];
     op_described := [("DELETE", "/_plugins/_ml/memory/{memory_id}")];
     op_query := [] |}.
#[export] Instance MLDeleteMemory_operates : LawfulOp MLDeleteMemoryReq.
Proof. operate. Qed.

Record MLDeleteMemoryContainerParams := MkMLDeleteMemoryContainerParams { MLDeleteMemoryContainerParams_TimeoutParams : TimeoutParams; MLDeleteMemoryContainerParams_DebugParams : DebugParams;
  MLDeleteMemoryContainerParams_DeleteAllMemories : option bool; MLDeleteMemoryContainerParams_DeleteMemories : list string }.
Definition MLDeleteMemoryContainerParams_own (q : MLDeleteMemoryContainerParams) : list param :=
  [("delete_all_memories", boolPtr (MLDeleteMemoryContainerParams_DeleteAllMemories q));
  ("delete_memories", joined (MLDeleteMemoryContainerParams_DeleteMemories q))].
Definition MLDeleteMemoryContainerParams_slots : list (string * (MLDeleteMemoryContainerParams -> slot)) :=
  [("DeleteAllMemories", fun q => BoolPtr (MLDeleteMemoryContainerParams_DeleteAllMemories q));
  ("DeleteMemories", fun q => TextList (MLDeleteMemoryContainerParams_DeleteMemories q))].
Definition MLDeleteMemoryContainerParams_get (q : MLDeleteMemoryContainerParams) : gmap string string :=
  encode_params (EncodeTimeout (MLDeleteMemoryContainerParams_TimeoutParams q) ++ EncodeDebug (MLDeleteMemoryContainerParams_DebugParams q) ++ MLDeleteMemoryContainerParams_own q).
Record MLDeleteMemoryContainerReq := MkMLDeleteMemoryContainerReq { MLDeleteMemoryContainerReq_MemoryContainerID : string; MLDeleteMemoryContainerReq_Header : headers;
  MLDeleteMemoryContainerReq_Params : option MLDeleteMemoryContainerParams }.
Definition MLDeleteMemoryContainerReq_GetRequest (r : MLDeleteMemoryContainerReq) (method : string) : request_error + httpRequest * Z :=
  send method (MLDeleteMemoryContainerPath_Build (MkMLDeleteMemoryContainerPath (MLDeleteMemoryContainerReq_MemoryContainerID r)))
    (match MLDeleteMemoryContainerReq_Params r with Some q => MLDeleteMemoryContainerParams_get q | None => ∅ end)
    no_body (MLDeleteMemoryContainerReq_Header r).
Definition MLDeleteMemoryContainer_Method (r : MLDeleteMemoryContainerReq) : string := "DELETE".
#[export] Instance MLDeleteMemoryContainer_operation : operation MLDeleteMemoryContainerReq :=
  {| op_path := MkPathType "MLDeleteMemoryContainerPath" MLDeleteMemoryContainerPath _ _; op_P := MLDeleteMemoryContainerParams; op_fields r := MkMLDeleteMemoryContainerPath (MLDeleteMemoryContainerReq_MemoryContainerID r);
     op_params := MLDeleteMemoryContainerReq_Params; op_defaults := None; op_timeout := MLDeleteMemoryContainerParams_TimeoutParams; op_debug := MLDeleteMemoryContainerParams_DebugParams;
     op_format := None; op_own := MLDeleteMemoryContainerParams_own; op_slots := MLDeleteMemoryContainerParams_slots;
     op_body _ := no_body; op_headers r := MLDeleteMemoryContainerReq_Header r;
     Method := MLDeleteMemoryContainer_Method; GetRequest := MLDeleteMemoryContainerReq_GetRequest;
     op_keys := ["delete_all_memories"; "delete_memories"];
     op_described := [("DELETE", "/_plugins/_ml/memory_containers/{memory_container_id}")];
     op_query := ["delete_all_memories"; "delete_memories"] |}.
#[export] Instance MLDeleteMemoryContainer_operates : LawfulOp MLDeleteMemoryContainerReq.
Proof. operate. Qed.

Record MLDeleteModelParams := MkMLDeleteModelParams { MLDeleteModelParams_TimeoutParams : TimeoutParams; MLDeleteModelParams_DebugParams : DebugParams }.
Definition MLDeleteModelParams_own (q : MLDeleteModelParams) : list param :=
  [].
Definition MLDeleteModelParams_slots : list (string * (MLDeleteModelParams -> slot)) :=
  [].
Definition MLDeleteModelParams_get (q : MLDeleteModelParams) : gmap string string :=
  encode_params (EncodeTimeout (MLDeleteModelParams_TimeoutParams q) ++ EncodeDebug (MLDeleteModelParams_DebugParams q) ++ MLDeleteModelParams_own q).
Record MLDeleteModelReq := MkMLDeleteModelReq { MLDeleteModelReq_ModelID : string; MLDeleteModelReq_Header : headers; MLDeleteModelReq_Params : option MLDeleteModelParams }.
Definition MLDeleteModelReq_GetRequest (r : MLDeleteModelReq) (method : string) : request_error + httpRequest * Z :=
  send method (MLDeleteModelPath_Build (MkMLDeleteModelPath (MLDeleteModelReq_ModelID r)))
    (match MLDeleteModelReq_Params r with Some q => MLDeleteModelParams_get q | None => ∅ end)
    no_body (MLDeleteModelReq_Header r).
Definition MLDeleteModel_Method (r : MLDeleteModelReq) : string := "DELETE".
#[export] Instance MLDeleteModel_operation : operation MLDeleteModelReq :=
  {| op_path := MkPathType "MLDeleteModelPath" MLDeleteModelPath _ _; op_P := MLDeleteModelParams; op_fields r := MkMLDeleteModelPath (MLDeleteModelReq_ModelID r);
     op_params := MLDeleteModelReq_Params; op_defaults := None; op_timeout := MLDeleteModelParams_TimeoutParams; op_debug := MLDeleteModelParams_DebugParams;
     op_format := None; op_own := MLDeleteModelParams_own; op_slots := MLDeleteModelParams_slots;
     op_body _ := no_body; op_headers r := MLDeleteModelReq_Header r;
     Method := MLDeleteModel_Method; GetRequest := MLDeleteModelReq_GetRequest;
     op_keys := [];
     op_described := [("DELETE", "/_plugins/_ml/models/{model_id}")];
     op_query := [] |}.
#[export] Instance MLDeleteModel_operates : LawfulOp MLDeleteModelReq.
Proof. operate. Qed.

Record MLDeleteModelGroupParams := MkMLDeleteModelGroupParams { MLDeleteModelGroupParams_TimeoutParams : TimeoutParams; MLDeleteModelGroupParams_DebugParams : DebugParams }.
Definition MLDeleteModelGroupParams_own (q : MLDeleteModelGroupParams) : list param :=
  [].
Definition MLDeleteModelGroupParams_slots : list (string * (MLDeleteModelGroupParams -> slot)) :=
  [].
Definition MLDeleteModelGroupParams_get (q : MLDeleteModelGroupParams) : gmap string string :=
  encode_params (EncodeTimeout (MLDeleteModelGroupParams_TimeoutParams q) ++ EncodeDebug (MLDeleteModelGroupParams_DebugParams q) ++ MLDeleteModelGroupParams_own q).
Record MLDeleteModelGroupReq := MkMLDeleteModelGroupReq { MLDeleteModelGroupReq_ModelGroupID : string; MLDeleteModelGroupReq_Header : headers; MLDeleteModelGroupReq_Params : option MLDeleteModelGroupParams }.
Definition MLDeleteModelGroupReq_GetRequest (r : MLDeleteModelGroupReq) (method : string) : request_error + httpRequest * Z :=
  send method (MLDeleteModelGroupPath_Build (MkMLDeleteModelGroupPath (MLDeleteModelGroupReq_ModelGroupID r)))
    (match MLDeleteModelGroupReq_Params r with Some q => MLDeleteModelGroupParams_get q | None => ∅ end)
    no_body (MLDeleteModelGroupReq_Header r).
Definition MLDeleteModelGroup_Method (r : MLDeleteModelGroupReq) : string := "DELETE".
#[export] Instance MLDeleteModelGroup_operation : operation MLDeleteModelGroupReq :=
  {| op_path := MkPathType "MLDeleteModelGroupPath" MLDeleteModelGroupPath _ _; op_P := MLDeleteModelGroupParams; op_fields r := MkMLDeleteModelGroupPath (MLDeleteModelGroupReq_ModelGroupID r);
     op_params := MLDeleteModelGroupReq_Params; op_defaults := None; op_timeout := MLDeleteModelGroupParams_TimeoutParams; op_debug := MLDeleteModelGroupParams_DebugParams;
     op_format := None; op_own := MLDeleteModelGroupParams_own; op_slots := MLDeleteModelGroupParams_slots;
     op_body _ := no_body; op_headers r := MLDeleteModelGroupReq_Header r;
     Method := MLDeleteModelGroup_Method; GetRequest := MLDeleteModelGroupReq_GetRequest;
     op_keys := [];
     op_described := [("DELETE", "/_plugins/_ml/model_groups/{model_group_id}")];
     op_query := [] |}.
#[export] Instance MLDeleteModelGroup_operates : LawfulOp MLDeleteModelGroupReq.
Proof. operate. Qed.

Record MLDeleteTaskParams := MkMLDeleteTaskParams { MLDeleteTaskParams_TimeoutParams : TimeoutParams; MLDeleteTaskParams_DebugParams : DebugParams }.
Definition MLDeleteTaskParams_own (q : MLDeleteTaskParams) : list param :=
  [].
Definition MLDeleteTaskParams_slots : list (string * (MLDeleteTaskParams -> slot)) :=
  [].
Definition MLDeleteTaskParams_get (q : MLDeleteTaskParams) : gmap string string :=
  encode_params (EncodeTimeout (MLDeleteTaskParams_TimeoutParams q) ++ EncodeDebug (MLDeleteTaskParams_DebugParams q) ++ MLDeleteTaskParams_own q).
Record MLDeleteTaskReq := MkMLDeleteTaskReq { MLDeleteTaskReq_TaskID : string; MLDeleteTaskReq_Header : headers; MLDeleteTaskReq_Params : option MLDeleteTaskParams }.
Definition MLDeleteTaskReq_GetRequest (r : MLDeleteTaskReq) (method : string) : request_error + httpRequest * Z :=
  send method (MLDeleteTaskPath_Build (MkMLDeleteTaskPath (MLDeleteTaskReq_TaskID r)))
    (match MLDeleteTaskReq_Params r with Some q => MLDeleteTaskParams_get q | None => ∅ end)
    no_body (MLDeleteTaskReq_Header r).
Definition MLDeleteTask_Method (r : MLDeleteTaskReq) : string := "DELETE".
#[export] Instance MLDeleteTask_operation : operation MLDeleteTaskReq :=
  {| op_path := MkPathType "MLDeleteTaskPath" MLDeleteTaskPath _ _; op_P := MLDeleteTaskParams; op_fields r := MkMLDeleteTaskPath (MLDeleteTaskReq_TaskID r);
     op_params := MLDeleteTaskReq_Params; op_defaults := None; op_timeout := MLDeleteTaskParams_TimeoutParams; op_debug := MLDeleteTaskParams_DebugParams;
     op_format := None; op_own := MLDeleteTaskParams_own; op_slots := MLDeleteTaskParams_slots;
     op_body _ := no_body; op_headers r := MLDeleteTaskReq_Header r;
     Method := MLDeleteTask_Method; GetRequest := MLDeleteTaskReq_GetRequest;
     op_keys := [];
     op_described := [("DELETE", "/_plugins/_ml/tasks/{task_id}")];
     op_query := [] |}.
#[export] Instance MLDeleteTask_operates : LawfulOp MLDeleteTaskReq.
Proof. operate. Qed.

Record MLDeployModelParams := MkMLDeployModelParams { MLDeployModelParams_TimeoutParams : TimeoutParams; MLDeployModelParams_DebugParams : DebugParams }.
Definition MLDeployModelParams_own (q : MLDeployModelParams) : list param :=
  [].
Definition MLDeployModelParams_slots : list (string * (MLDeployModelParams -> slot)) :=
  [].
Definition MLDeployModelParams_get (q : MLDeployModelParams) : gmap string string :=
  encode_params (EncodeTimeout (MLDeployModelParams_TimeoutParams q) ++ EncodeDebug (MLDeployModelParams_DebugParams q) ++ MLDeployModelParams_own q).
Record MLDeployModelReq := MkMLDeployModelReq { MLDeployModelReq_ModelID : string; MLDeployModelReq_Header : headers; MLDeployModelReq_Params : option MLDeployModelParams }.
Definition MLDeployModelReq_GetRequest (r : MLDeployModelReq) (method : string) : request_error + httpRequest * Z :=
  send method (MLDeployModelPath_Build (MkMLDeployModelPath (MLDeployModelReq_ModelID r)))
    (match MLDeployModelReq_Params r with Some q => MLDeployModelParams_get q | None => ∅ end)
    no_body (MLDeployModelReq_Header r).
Definition MLDeployModel_Method (r : MLDeployModelReq) : string := "POST".
#[export] Instance MLDeployModel_operation : operation MLDeployModelReq :=
  {| op_path := MkPathType "MLDeployModelPath" MLDeployModelPath _ _; op_P := MLDeployModelParams; op_fields r := MkMLDeployModelPath (MLDeployModelReq_ModelID r);
     op_params := MLDeployModelReq_Params; op_defaults := None; op_timeout := MLDeployModelParams_TimeoutParams; op_debug := MLDeployModelParams_DebugParams;
     op_format := None; op_own := MLDeployModelParams_own; op_slots := MLDeployModelParams_slots;
     op_body _ := no_body; op_headers r := MLDeployModelReq_Header r;
     Method := MLDeployModel_Method; GetRequest := MLDeployModelReq_GetRequest;
     op_keys := [];
     op_described := [("POST", "/_plugins/_ml/models/{model_id}/_deploy")];
     op_query := [] |}.
#[export] Instance MLDeployModel_operates : LawfulOp MLDeployModelReq.
Proof. operate. Qed.

Record MLExecuteAgentParams := MkMLExecuteAgentParams { MLExecuteAgentParams_TimeoutParams : TimeoutParams; MLExecuteAgentParams_DebugParams : DebugParams }.
Definition MLExecuteAgentParams_own (q : MLExecuteAgentParams) : list param :=
  [].
Definition MLExecuteAgentParams_slots : list (string * (MLExecuteAgentParams -> slot)) :=
  [].
Definition MLExecuteAgentParams_get (q : MLExecuteAgentParams) : gmap string string :=
  encode_params (EncodeTimeout (MLExecuteAgentParams_TimeoutParams q) ++ EncodeDebug (MLExecuteAgentParams_DebugParams q) ++ MLExecuteAgentParams_own q).
Record MLExecuteAgentReq := MkMLExecuteAgentReq { MLExecuteAgentReq_AgentID : string; MLExecuteAgentReq_Body : option (option string); MLExecuteAgentReq_BodyReader : reader;
  MLExecuteAgentReq_Header : headers; MLExecuteAgentReq_Params : option MLExecuteAgentParams }.
Definition MLExecuteAgentReq_GetRequest (r : MLExecuteAgentReq) (method : string) : request_error + httpRequest * Z :=
  send method (MLExecuteAgentPath_Build (MkMLExecuteAgentPath (MLExecuteAgentReq_AgentID r)))
    (match MLExecuteAgentReq_Params r with Some q => MLExecuteAgentParams_get q | None => ∅ end)
    (json_body (MLExecuteAgentReq_Body r) (MLExecuteAgentReq_BodyReader r)) (MLExecuteAgentReq_Header r).
Definition MLExecuteAgent_Method (r : MLExecuteAgentReq) : string := "POST".
#[export] Instance MLExecuteAgent_operation : operation MLExecuteAgentReq :=
  {| op_path := MkPathType "MLExecuteAgentPath" MLExecuteAgentPath _ _; op_P := MLExecuteAgentParams; op_fields r := MkMLExecuteAgentPath (MLExecuteAgentReq_AgentID r);
     op_params := MLExecuteAgentReq_Params; op_defaults := None; op_timeout := MLExecuteAgentParams_TimeoutParams; op_debug := MLExecuteAgentParams_DebugParams;
     op_format := None; op_own := MLExecuteAgentParams_own; op_slots := MLExecuteAgentParams_slots;
     op_body r := json_body (MLExecuteAgentReq_Body r) (MLExecuteAgentReq_BodyReader r); op_headers r := MLExecuteAgentReq_Header r;
     Method := MLExecuteAgent_Method; GetRequest := MLExecuteAgentReq_GetRequest;
     op_keys := [];
     op_described := [("POST", "/_plugins/_ml/agents/{agent_id}/_execute")];
     op_query := [] |}.
#[export] Instance MLExecuteAgent_operates : LawfulOp MLExecuteAgentReq.
Proof. operate. Qed.

Record MLExecuteAgentStreamParams := MkMLExecuteAgentStreamParams { MLExecuteAgentStreamParams_TimeoutParams : TimeoutParams; MLExecuteAgentStreamParams_DebugParams : DebugParams }.
Definition MLExecuteAgentStreamParams_own (q : MLExecuteAgentStreamParams) : list param :=
  [].
Definition MLExecuteAgentStreamParams_slots : list (string * (MLExecuteAgentStreamParams -> slot)) :=
  [].
Definition MLExecuteAgentStreamParams_get (q : MLExecuteAgentStreamParams) : gmap string string :=
  encode_params (EncodeTimeout (MLExecuteAgentStreamParams_TimeoutParams q) ++ EncodeDebug (MLExecuteAgentStreamParams_DebugParams q) ++ MLExecuteAgentStreamParams_own q).
Record MLExecuteAgentStreamReq := MkMLExecuteAgentStreamReq { MLExecuteAgentStreamReq_AgentID : string; MLExecuteAgentStreamReq_Body : option (option string); MLExecuteAgentStreamReq_BodyReader : reader;
  MLExecuteAgentStreamReq_Header : headers; MLExecuteAgentStreamReq_Params : option MLExecuteAgentStreamParams }.
Definition MLExecuteAgentStreamReq_GetRequest (r : MLExecuteAgentStreamReq) (method : string) : request_error + httpRequest * Z :=
  send method (MLExecuteAgentStreamPath_Build (MkMLExecuteAgentStreamPath (MLExecuteAgentStreamReq_AgentID r)))
    (match MLExecuteAgentStreamReq_Params r with Some q => MLExecuteAgentStreamParams_get q | None => ∅ end)
    (json_body (MLExecuteAgentStreamReq_Body r) (MLExecuteAgentStreamReq_BodyReader r)) (MLExecuteAgentStreamReq_Header r).
Definition MLExecuteAgentStream_Method (r : MLExecuteAgentStreamReq) : string := "POST".
#[export] Instance MLExecuteAgentStream_operation : operation MLExecuteAgentStreamReq :=
  {| op_path := MkPathType "MLExecuteAgentStreamPath" MLExecuteAgentStreamPath _ _; op_P := MLExecuteAgentStreamParams; op_fields r := MkMLExecuteAgentStreamPath (MLExecuteAgentStreamReq_AgentID r);
     op_params := MLExecuteAgentStreamReq_Params; op_defaults := None; op_timeout := MLExecuteAgentStreamParams_TimeoutParams; op_debug := MLExecuteAgentStreamParams_DebugParams;
     op_format := None; op_own := MLExecuteAgentStreamParams_own; op_slots := MLExecuteAgentStreamParams_slots;
     op_body r := json_body (MLExecuteAgentStreamReq_Body r) (MLExecuteAgentStreamReq_BodyReader r); op_headers r := MLExecuteAgentStreamReq_Header r;
     Method := MLExecuteAgentStream_Method; GetRequest := MLExecuteAgentStreamReq_GetRequest;
     op_keys := [];
     op_described := [("POST", "/_plugins/_ml/agents/{agent_id}/_execute/stream")];
     op_query := [] |}.
#[export] Instance MLExecuteAgentStream_operates : LawfulOp MLExecuteAgentStreamReq.
Proof. operate. Qed.

Record MLExecuteAlgorithmParams := MkMLExecuteAlgorithmParams { MLExecuteAlgorithmParams_TimeoutParams : TimeoutParams; MLExecuteAlgorithmParams_DebugParams : DebugParams }.
Definition MLExecuteAlgorithmParams_own (q : MLExecuteAlgorithmParams) : list param :=
  [].
Definition MLExecuteAlgorithmParams_slots : list (string * (MLExecuteAlgorithmParams -> slot)) :=
  [].
Definition MLExecuteAlgorithmParams_get (q : MLExecuteAlgorithmParams) : gmap string string :=
  encode_params (EncodeTimeout (MLExecuteAlgorithmParams_TimeoutParams q) ++ EncodeDebug (MLExecuteAlgorithmParams_DebugParams q) ++ MLExecuteAlgorithmParams_own q).
Record MLExecuteAlgorithmReq := MkMLExecuteAlgorithmReq { MLExecuteAlgorithmReq_AlgorithmName : string; MLExecuteAlgorithmReq_Body : option (option string); MLExecuteAlgorithmReq_BodyReader : reader;
  MLExecuteAlgorithmReq_Header : headers; MLExecuteAlgorithmReq_Params : option MLExecuteAlgorithmParams }.
Definition MLExecuteAlgorithmReq_GetRequest (r : MLExecuteAlgorithmReq) (method : string) : request_error + httpRequest * Z :=
  send method (MLExecuteAlgorithmPath_Build (MkMLExecuteAlgorithmPath (MLExecuteAlgorithmReq_AlgorithmName r)))
    (match MLExecuteAlgorithmReq_Params r with Some q => MLExecuteAlgorithmParams_get q | None => ∅ end)
    (json_body (MLExecuteAlgorithmReq_Body r) (MLExecuteAlgorithmReq_BodyReader r)) (MLExecuteAlgorithmReq_Header r).
Definition MLExecuteAlgorithm_Method (r : MLExecuteAlgorithmReq) : string := "POST".
#[export] Instance MLExecuteAlgorithm_operation : operation MLExecuteAlgorithmReq :=
  {| op_path := MkPathType "MLExecuteAlgorithmPath" MLExecuteAlgorithmPath _ _; op_P := MLExecuteAlgorithmParams; op_fields r := MkMLExecuteAlgorithmPath (MLExecuteAlgorithmReq_AlgorithmName r);
     op_params := MLExecuteAlgorithmReq_Params; op_defaults := None; op_timeout := MLExecuteAlgorithmParams_TimeoutParams; op_debug := MLExecuteAlgorithmParams_DebugParams;
     op_format := None; op_own := MLExecuteAlgorithmParams_own; op_slots := MLExecuteAlgorithmParams_slots;
     op_body r := json_body (MLExecuteAlgorithmReq_Body r) (MLExecuteAlgorithmReq_BodyReader r); op_headers r := MLExecuteAlgorithmReq_Header r;
     Method := MLExecuteAlgorithm_Method; GetRequest := MLExecuteAlgorithmReq_GetRequest;
     op_keys := [];
     op_described := [("POST", "/_plugins/_ml/_execute/{algorithm_name}")];
     op_query := [] |}.
#[export] Instance MLExecuteAlgorithm_operates : LawfulOp MLExecuteAlgorithmReq.
Proof. operate. Qed.

Record MLExecuteToolParams := MkMLExecuteToolParams { MLExecuteToolParams_TimeoutParams : TimeoutParams; MLExecuteToolParams_DebugParams : DebugParams }.
Definition MLExecuteToolParams_own (q : MLExecuteToolParams) : list param :=
  [].
Definition MLExecuteToolParams_slots : list (string * (MLExecuteToolParams -> slot)) :=
  [].
Definition MLExecuteToolParams_get (q : MLExecuteToolParams) : gmap string string :=
  encode_params (EncodeTimeout (MLExecuteToolParams_TimeoutParams q) ++ EncodeDebug (MLExecuteToolParams_DebugParams q) ++ MLExecuteToolParams_own q).
Record MLExecuteToolReq := MkMLExecuteToolReq { MLExecuteToolReq_ToolName : string; MLExecuteToolReq_Body : option (option string); MLExecuteToolReq_BodyReader : reader;
  MLExecuteToolReq_Header : headers; MLExecuteToolReq_Params : option MLExecuteToolParams }.
Definition MLExecuteToolReq_GetRequest (r : MLExecuteToolReq) (method : string) : request_error + httpRequest * Z :=
  send method (MLExecuteToolPath_Build (MkMLExecuteToolPath (MLExecuteToolReq_ToolName r)))
    (match MLExecuteToolReq_Params r with Some q => MLExecuteToolParams_get q | None => ∅ end)
    (json_body (MLExecuteToolReq_Body r) (MLExecuteToolReq_BodyReader r)) (MLExecuteToolReq_Header r).
Definition MLExecuteTool_Method (r : MLExecuteToolReq) : string := "POST".
#[export] Instance MLExecuteTool_operation : operation MLExecuteToolReq :=
  {| op_path := MkPathType "MLExecuteToolPath" MLExecuteToolPath _ _; op_P := MLExecuteToolParams; op_fields r := MkMLExecuteToolPath (MLExecuteToolReq_ToolName r);
     op_params := MLExecuteToolReq_Params; op_defaults := None; op_timeout := MLExecuteToolParams_TimeoutParams; op_debug := MLExecuteToolParams_DebugParams;
     op_format := None; op_own := MLExecuteToolParams_own; op_slots := MLExecuteToolParams_slots;
     op_body r := json_body (MLExecuteToolReq_Body r) (MLExecuteToolReq_BodyReader r); op_headers r := MLExecuteToolReq_Header r;
     Method := MLExecuteTool_Method; GetRequest := MLExecuteToolReq_GetRequest;
     op_keys := [];
     op_described := [("POST", "/_plugins/_ml/tools/_execute/{tool_name}")];
     op_query := [] |}.
#[export] Instance MLExecuteTool_operates : LawfulOp MLExecuteToolReq.
Proof. operate. Qed.

Record MLGetAgentParams := MkMLGetAgentParams { MLGetAgentParams_TimeoutParams : TimeoutParams; MLGetAgentParams_DebugParams : DebugParams }.
Definition MLGetAgentParams_own (q : MLGetAgentParams) : list param :=
  [].
Definition MLGetAgentParams_slots : list (string * (MLGetAgentParams -> slot)) :=
  [].
Definition MLGetAgentParams_get (q : MLGetAgentParams) : gmap string string :=
  encode_params (EncodeTimeout (MLGetAgentParams_TimeoutParams q) ++ EncodeDebug (MLGetAgentParams_DebugParams q) ++ MLGetAgentParams_own q).
Record MLGetAgentReq := MkMLGetAgentReq { MLGetAgentReq_AgentID : string; MLGetAgentReq_Header : headers; MLGetAgentReq_Params : option MLGetAgentParams }.
Definition MLGetAgentReq_GetRequest (r : MLGetAgentReq) (method : string) : request_error + httpRequest * Z :=
  send method (MLGetAgentPath_Build (MkMLGetAgentPath (MLGetAgentReq_AgentID r)))
    (match MLGetAgentReq_Params r with Some q => MLGetAgentParams_get q | None => ∅ end)
    no_body (MLGetAgentReq_Header r).
Definition MLGetAgent_Method (r : MLGetAgentReq) : string := "GET".
#[export] Instance MLGetAgent_operation : operation MLGetAgentReq :=
  {| op_path := MkPathType "MLGetAgentPath" MLGetAgentPath _ _; op_P := MLGetAgentParams; op_fields r := MkMLGetAgentPath (MLGetAgentReq_AgentID r);
     op_params := MLGetAgentReq_Params; op_defaults := None; op_timeout := MLGetAgentParams_TimeoutParams; op_debug := MLGetAgentParams_DebugParams;
     op_format := None; op_own := MLGetAgentParams_own; op_slots := MLGetAgentParams_slots;
     op_body _ := no_body; op_headers r := MLGetAgentReq_Header r;
     Method := MLGetAgent_Method; GetRequest := MLGetAgentReq_GetRequest;
     op_keys := [];
     op_described := [("GET", "/_plugins/_ml/agents/{agent_id}")];
     op_query := [] |}.
#[export] Instance MLGetAgent_operates : LawfulOp MLGetAgentReq.
Proof. operate. Qed.

Record MLGetAgenticMemoryParams := MkMLGetAgenticMemoryParams { MLGetAgenticMemoryParams_TimeoutParams : TimeoutParams; MLGetAgenticMemoryParams_DebugParams : DebugParams }.
Definition MLGetAgenticMemoryParams_own (q : MLGetAgenticMemoryParams) : list param :=
  [].
Definition MLGetAgenticMemoryParams_slots : list (string * (MLGetAgenticMemoryParams -> slot)) :=
  [].
Definition MLGetAgenticMemoryParams_get (q : MLGetAgenticMemoryParams) : gmap string string :=
  encode_params (EncodeTimeout (MLGetAgenticMemoryParams_TimeoutParams q) ++ EncodeDebug (MLGetAgenticMemoryParams_DebugParams q) ++ MLGetAgenticMemoryParams_own q).
Record MLGetAgenticMemoryReq := MkMLGetAgenticMemoryReq { MLGetAgenticMemoryReq_MemoryContainerID : string; MLGetAgenticMemoryReq_Type : string; MLGetAgenticMemoryReq_ID : string;
  MLGetAgenticMemoryReq_Header : headers; MLGetAgenticMemoryReq_Params : option MLGetAgenticMemoryParams }.
Definition MLGetAgenticMemoryReq_GetRequest (r : MLGetAgenticMemoryReq) (method : string) : request_error + httpRequest * Z :=
  send method (MLGetAgenticMemoryPath_Build (MkMLGetAgenticMemoryPath (MLGetAgenticMemoryReq_MemoryContainerID r) (MLGetAgenticMemoryReq_Type r) (MLGetAgenticMemoryReq_ID r)))
    (match MLGetAgenticMemoryReq_Params r with Some q => MLGetAgenticMemoryParams_get q | None => ∅ end)
    no_body (MLGetAgenticMemoryReq_Header r).
Definition MLGetAgenticMemory_Method (r : MLGetAgenticMemoryReq) : string := "GET".
#[export] Instance MLGetAgenticMemory_operation : operation MLGetAgenticMemoryReq :=
  {| op_path := MkPathType "MLGetAgenticMemoryPath" MLGetAgenticMemoryPath _ _; op_P := MLGetAgenticMemoryParams; op_fields r := MkMLGetAgenticMemoryPath (MLGetAgenticMemoryReq_MemoryContainerID r) (MLGetAgenticMemoryReq_Type r) (MLGetAgenticMemoryReq_ID r);
     op_params := MLGetAgenticMemoryReq_Params; op_defaults := None; op_timeout := MLGetAgenticMemoryParams_TimeoutParams; op_debug := MLGetAgenticMemoryParams_DebugParams;
     op_format := None; op_own := MLGetAgenticMemoryParams_own; op_slots := MLGetAgenticMemoryParams_slots;
     op_body _ := no_body; op_headers r := MLGetAgenticMemoryReq_Header r;
     Method := MLGetAgenticMemory_Method; GetRequest := MLGetAgenticMemoryReq_GetRequest;
     op_keys := [];
     op_described := [("GET", "/_plugins/_ml/memory_containers/{memory_container_id}/memories/{type}/{id}")];
     op_query := [] |}.
#[export] Instance MLGetAgenticMemory_operates : LawfulOp MLGetAgenticMemoryReq.
Proof. operate. Qed.

Record MLGetAllMemoriesParams := MkMLGetAllMemoriesParams { MLGetAllMemoriesParams_TimeoutParams : TimeoutParams; MLGetAllMemoriesParams_DebugParams : DebugParams; MLGetAllMemoriesParams_MaxResults : Z;
  MLGetAllMemoriesParams_NextToken : Z }.
Definition MLGetAllMemoriesParams_own (q : MLGetAllMemoriesParams) : list param :=
  [("max_results", nonZero (MLGetAllMemoriesParams_MaxResults q)); ("next_token", nonZero (MLGetAllMemoriesParams_NextToken q))].
Definition MLGetAllMemoriesParams_slots : list (string * (MLGetAllMemoriesParams -> slot)) :=
  [("MaxResults", fun q => Int (MLGetAllMemoriesParams_MaxResults q)); ("NextToken", fun q => Int (MLGetAllMemoriesParams_NextToken q))].
Definition MLGetAllMemoriesParams_get (q : MLGetAllMemoriesParams) : gmap string string :=
  encode_params (EncodeTimeout (MLGetAllMemoriesParams_TimeoutParams q) ++ EncodeDebug (MLGetAllMemoriesParams_DebugParams q) ++ MLGetAllMemoriesParams_own q).
Record MLGetAllMemoriesReq := MkMLGetAllMemoriesReq { MLGetAllMemoriesReq_Header : headers; MLGetAllMemoriesReq_Params : option MLGetAllMemoriesParams }.
Definition MLGetAllMemoriesReq_GetRequest (r : MLGetAllMemoriesReq) (method : string) : request_error + httpRequest * Z :=
  send method (MLGetAllMemoriesPath_Build (MkMLGetAllMemoriesPath))
    (match MLGetAllMemoriesReq_Params r with Some q => MLGetAllMemoriesParams_get q | None => ∅ end)
    no_body (MLGetAllMemoriesReq_Header r).
Definition MLGetAllMemories_Method (r : MLGetAllMemoriesReq) : string := "GET".
#[export] Instance MLGetAllMemories_operation : operation MLGetAllMemoriesReq :=
  {| op_path := MkPathType "MLGetAllMemoriesPath" MLGetAllMemoriesPath _ _; op_P := MLGetAllMemoriesParams; op_fields r := MkMLGetAllMemoriesPath;
     op_params := MLGetAllMemoriesReq_Params; op_defaults := None; op_timeout := MLGetAllMemoriesParams_TimeoutParams; op_debug := MLGetAllMemoriesParams_DebugParams;
     op_format := None; op_own := MLGetAllMemoriesParams_own; op_slots := MLGetAllMemoriesParams_slots;
     op_body _ := no_body; op_headers r := MLGetAllMemoriesReq_Header r;
     Method := MLGetAllMemories_Method; GetRequest := MLGetAllMemoriesReq_GetRequest;
     op_keys := ["max_results"; "next_token"];
     op_described := [("GET", "/_plugins/_ml/memory")];
     op_query := ["max_results"; "next_token"] |}.
#[export] Instance MLGetAllMemories_operates : LawfulOp MLGetAllMemoriesReq.
Proof. operate. Qed.

Record MLGetAllMessagesParams := MkMLGetAllMessagesParams { MLGetAllMessagesParams_TimeoutParams : TimeoutParams; MLGetAllMessagesParams_DebugParams : DebugParams; MLGetAllMessagesParams_MaxResults : Z;
  MLGetAllMessagesParams_NextToken : Z }.
Definition MLGetAllMessagesParams_own (q : MLGetAllMessagesParams) : list param :=
  [("max_results", nonZero (MLGetAllMessagesParams_MaxResults q)); ("next_token", nonZero (MLGetAllMessagesParams_NextToken q))].
Definition MLGetAllMessagesParams_slots : list (string * (MLGetAllMessagesParams -> slot)) :=
  [("MaxResults", fun q => Int (MLGetAllMessagesParams_MaxResults q)); ("NextToken", fun q => Int (MLGetAllMessagesParams_NextToken q))].
Definition MLGetAllMessagesParams_get (q : MLGetAllMessagesParams) : gmap string string :=
  encode_params (EncodeTimeout (MLGetAllMessagesParams_TimeoutParams q) ++ EncodeDebug (MLGetAllMessagesParams_DebugParams q) ++ MLGetAllMessagesParams_own q).
Record MLGetAllMessagesReq := MkMLGetAllMessagesReq { MLGetAllMessagesReq_MemoryID : string; MLGetAllMessagesReq_Header : headers; MLGetAllMessagesReq_Params : option MLGetAllMessagesParams }.
Definition MLGetAllMessagesReq_GetRequest (r : MLGetAllMessagesReq) (method : string) : request_error + httpRequest * Z :=
  send method (MLGetAllMessagesPath_Build (MkMLGetAllMessagesPath (MLGetAllMessagesReq_MemoryID r)))
    (match MLGetAllMessagesReq_Params r with Some q => MLGetAllMessagesParams_get q | None => ∅ end)
    no_body (MLGetAllMessagesReq_Header r).
Definition MLGetAllMessages_Method (r : MLGetAllMessagesReq) : string := "GET".
#[export] Instance MLGetAllMessages_operation : operation MLGetAllMessagesReq :=
  {| op_path := MkPathType "MLGetAllMessagesPath" MLGetAllMessagesPath _ _; op_P := MLGetAllMessagesParams; op_fields r := MkMLGetAllMessagesPath (MLGetAllMessagesReq_MemoryID r);
     op_params := MLGetAllMessagesReq_Params; op_defaults := None; op_timeout := MLGetAllMessagesParams_TimeoutParams; op_debug := MLGetAllMessagesParams_DebugParams;
     op_format := None; op_own := MLGetAllMessagesParams_own; op_slots := MLGetAllMessagesParams_slots;
     op_body _ := no_body; op_headers r := MLGetAllMessagesReq_Header r;
     Method := MLGetAllMessages_Method; GetRequest := MLGetAllMessagesReq_GetRequest;
     op_keys := ["max_results"; "next_token"];
     op_described := [("GET", "/_plugins/_ml/memory/{memory_id}/messages")];
     op_query := ["max_results"; "next_token"] |}.
#[export] Instance MLGetAllMessages_operates : LawfulOp MLGetAllMessagesReq.
Proof. operate. Qed.

Record MLGetAllToolsParams := MkMLGetAllToolsParams { MLGetAllToolsParams_TimeoutParams : TimeoutParams; MLGetAllToolsParams_DebugParams : DebugParams }.
Definition MLGetAllToolsParams_own (q : MLGetAllToolsParams) : list param :=
  [].
Definition MLGetAllToolsParams_slots : list (string * (MLGetAllToolsParams -> slot)) :=
  [].
Definition MLGetAllToolsParams_get (q : MLGetAllToolsParams) : gmap string string :=
  encode_params (EncodeTimeout (MLGetAllToolsParams_TimeoutParams q) ++ EncodeDebug (MLGetAllToolsParams_DebugParams q) ++ MLGetAllToolsParams_own q).
Record MLGetAllToolsReq := MkMLGetAllToolsReq { MLGetAllToolsReq_Header : headers; MLGetAllToolsReq_Params : option MLGetAllToolsParams }.
Definition MLGetAllToolsReq_GetRequest (r : MLGetAllToolsReq) (method : string) : request_error + httpRequest * Z :=
  send method (MLGetAllToolsPath_Build (MkMLGetAllToolsPath))
    (match MLGetAllToolsReq_Params r with Some q => MLGetAllToolsParams_get q | None => ∅ end)
    no_body (MLGetAllToolsReq_Header r).
Definition MLGetAllTools_Method (r : MLGetAllToolsReq) : string := "GET".
#[export] Instance MLGetAllTools_operation : operation MLGetAllToolsReq :=
  {| op_path := MkPathType "MLGetAllToolsPath" MLGetAllToolsPath _ _; op_P := MLGetAllToolsParams; op_fields r := MkMLGetAllToolsPath;
     op_params := MLGetAllToolsReq_Params; op_defaults := None; op_timeout := MLGetAllToolsParams_TimeoutParams; op_debug := MLGetAllToolsParams_DebugParams;
     op_format := None; op_own := MLGetAllToolsParams_own; op_slots := MLGetAllToolsParams_slots;
     op_body _ := no_body; op_headers r := MLGetAllToolsReq_Header r;
     Method := MLGetAllTools_Method; GetRequest := MLGetAllToolsReq_GetRequest;
     op_keys := [];
     op_described := [("GET", "/_plugins/_ml/tools")];
     op_query := [] |}.
#[export] Instance MLGetAllTools_operates : LawfulOp MLGetAllToolsReq.
Proof. operate. Qed.

Record MLGetConnectorParams := MkMLGetConnectorParams { MLGetConnectorParams_TimeoutParams : TimeoutParams; MLGetConnectorParams_DebugParams : DebugParams }.
Definition MLGetConnectorParams_own (q : MLGetConnectorParams) : list param :=
  [].
Definition MLGetConnectorParams_slots : list (string * (MLGetConnectorParams -> slot)) :=
  [].
Definition MLGetConnectorParams_get (q : MLGetConnectorParams) : gmap string string :=
  encode_params (EncodeTimeout (MLGetConnectorParams_TimeoutParams q) ++ EncodeDebug (MLGetConnectorParams_DebugParams q) ++ MLGetConnectorParams_own q).
Record MLGetConnectorReq := MkMLGetConnectorReq { MLGetConnectorReq_ConnectorID : string; MLGetConnectorReq_Header : headers; MLGetConnectorReq_Params : option MLGetConnectorParams }.
Definition MLGetConnectorReq_GetRequest (r : MLGetConnectorReq) (method : string) : request_error + httpRequest * Z :=
  send method (MLGetConnectorPath_Build (MkMLGetConnectorPath (MLGetConnectorReq_ConnectorID r)))
    (match MLGetConnectorReq_Params r with Some q => MLGetConnectorParams_get q | None => ∅ end)
    no_body (MLGetConnectorReq_Header r).
Definition MLGetConnector_Method (r : MLGetConnectorReq) : string := "GET".
#[export] Instance MLGetConnector_operation : operation MLGetConnectorReq :=
  {| op_path := MkPathType "MLGetConnectorPath" MLGetConnectorPath _ _; op_P := MLGetConnectorParams; op_fields r := MkMLGetConnectorPath (MLGetConnectorReq_ConnectorID r);
     op_params := MLGetConnectorReq_Params; op_defaults := None; op_timeout := MLGetConnectorParams_TimeoutParams; op_debug := MLGetConnectorParams_DebugParams;
     op_format := None; op_own := MLGetConnectorParams_own; op_slots := MLGetConnectorParams_slots;
     op_body _ := no_body; op_headers r := MLGetConnectorReq_Header r;
     Method := MLGetConnector_Method; GetRequest := MLGetConnectorReq_GetRequest;
     op_keys := [];
     op_described := [("GET", "/_plugins/_ml/connectors/{connector_id}")];
     op_query := [] |}.
#[export] Instance MLGetConnector_operates : LawfulOp MLGetConnectorReq.
Proof. operate. Qed.

Record MLGetControllerParams := MkMLGetControllerParams { MLGetControllerParams_TimeoutParams : TimeoutParams; MLGetControllerParams_DebugParams : DebugParams }.
Definition MLGetControllerParams_own (q : MLGetControllerParams) : list param :=
  [].
Definition MLGetControllerParams_slots : list (string * (MLGetControllerParams -> slot)) :=
  [].
Definition MLGetControllerParams_get (q : MLGetControllerParams) : gmap string string :=
  encode_params (EncodeTimeout (MLGetControllerParams_TimeoutParams q) ++ EncodeDebug (MLGetControllerParams_DebugParams q) ++ MLGetControllerParams_own q).
Record MLGetControllerReq := MkMLGetControllerReq { MLGetControllerReq_ModelID : string; MLGetControllerReq_Header : headers; MLGetControllerReq_Params : option MLGetControllerParams }.
Definition MLGetControllerReq_GetRequest (r : MLGetControllerReq) (method : string) : request_error + httpRequest * Z :=
  send method (MLGetControllerPath_Build (MkMLGetControllerPath (MLGetControllerReq_ModelID r)))
    (match MLGetControllerReq_Params r with Some q => MLGetControllerParams_get q | None => ∅ end)
    no_body (MLGetControllerReq_Header r).
Definition MLGetController_Method (r : MLGetControllerReq) : string := "GET".
#[export] Instance MLGetController_operation : operation MLGetControllerReq :=
  {| op_path := MkPathType "MLGetControllerPath" MLGetControllerPath _ _; op_P := MLGetControllerParams; op_fields r := MkMLGetControllerPath (MLGetControllerReq_ModelID r);
     op_params := MLGetControllerReq_Params; op_defaults := None; op_timeout := MLGetControllerParams_TimeoutParams; op_debug := MLGetControllerParams_DebugParams;
     op_format := None; op_own := MLGetControllerParams_own; op_slots := MLGetControllerParams_slots;
     op_body _ := no_body; op_headers r := MLGetControllerReq_Header r;
     Method := MLGetController_Method; GetRequest := MLGetControllerReq_GetRequest;
     op_keys := [];
     op_described := [("GET", "/_plugins/_ml/controllers/{model_id}")];
     op_query := [] |}.
#[export] Instance MLGetController_operates : LawfulOp MLGetControllerReq.
Proof. operate. Qed.

Record MLGetMemoryParams := MkMLGetMemoryParams { MLGetMemoryParams_TimeoutParams : TimeoutParams; MLGetMemoryParams_DebugParams : DebugParams }.
Definition MLGetMemoryParams_own (q : MLGetMemoryParams) : list param :=
  [].
Definition MLGetMemoryParams_slots : list (string * (MLGetMemoryParams -> slot)) :=
  [].
Definition MLGetMemoryParams_get (q : MLGetMemoryParams) : gmap string string :=
  encode_params (EncodeTimeout (MLGetMemoryParams_TimeoutParams q) ++ EncodeDebug (MLGetMemoryParams_DebugParams q) ++ MLGetMemoryParams_own q).
Record MLGetMemoryReq := MkMLGetMemoryReq { MLGetMemoryReq_MemoryID : string; MLGetMemoryReq_Header : headers; MLGetMemoryReq_Params : option MLGetMemoryParams }.
Definition MLGetMemoryReq_GetRequest (r : MLGetMemoryReq) (method : string) : request_error + httpRequest * Z :=
  send method (MLGetMemoryPath_Build (MkMLGetMemoryPath (MLGetMemoryReq_MemoryID r)))
    (match MLGetMemoryReq_Params r with Some q => MLGetMemoryParams_get q | None => ∅ end)
    no_body (MLGetMemoryReq_Header r).
Definition MLGetMemory_Method (r : MLGetMemoryReq) : string := "GET".
#[export] Instance MLGetMemory_operation : operation MLGetMemoryReq :=
  {| op_path := MkPathType "MLGetMemoryPath" MLGetMemoryPath _ _; op_P := MLGetMemoryParams; op_fields r := MkMLGetMemoryPath (MLGetMemoryReq_MemoryID r);
     op_params := MLGetMemoryReq_Params; op_defaults := None; op_timeout := MLGetMemoryParams_TimeoutParams; op_debug := MLGetMemoryParams_DebugParams;
     op_format := None; op_own := MLGetMemoryParams_own; op_slots := MLGetMemoryParams_slots;
     op_body _ := no_body; op_headers r := MLGetMemoryReq_Header r;
     Method := MLGetMemory_Method; GetRequest := MLGetMemoryReq_GetRequest;
     op_keys := [];
     op_described := [("GET", "/_plugins/_ml/memory/{memory_id}")];
     op_query := [] |}.
#[export] Instance MLGetMemory_operates : LawfulOp MLGetMemoryReq.
Proof. operate. Qed.

Record MLGetMemoryContainerParams := MkMLGetMemoryContainerParams { MLGetMemoryContainerParams_TimeoutParams : TimeoutParams; MLGetMemoryContainerParams_DebugParams : DebugParams }.
Definition MLGetMemoryContainerParams_own (q : MLGetMemoryContainerParams) : list param :=
  [].
Definition MLGetMemoryContainerParams_slots : list (string * (MLGetMemoryContainerParams -> slot)) :=
  [].
Definition MLGetMemoryContainerParams_get (q : MLGetMemoryContainerParams) : gmap string string :=
  encode_params (EncodeTimeout (MLGetMemoryContainerParams_TimeoutParams q) ++ EncodeDebug (MLGetMemoryContainerParams_DebugParams q) ++ MLGetMemoryContainerParams_own q).
Record MLGetMemoryContainerReq := MkMLGetMemoryContainerReq { MLGetMemoryContainerReq_MemoryContainerID : string; MLGetMemoryContainerReq_Header : headers;
  MLGetMemoryContainerReq_Params : option MLGetMemoryContainerParams }.
Definition MLGetMemoryContainerReq_GetRequest (r : MLGetMemoryContainerReq) (method : string) : request_error + httpRequest * Z :=
  send method (MLGetMemoryContainerPath_Build (MkMLGetMemoryContainerPath (MLGetMemoryContainerReq_MemoryContainerID r)))
    (match MLGetMemoryContainerReq_Params r with Some q => MLGetMemoryContainerParams_get q | None => ∅ end)
    no_body (MLGetMemoryContainerReq_Header r).
Definition MLGetMemoryContainer_Method (r : MLGetMemoryContainerReq) : string := "GET".
#[export] Instance MLGetMemoryContainer_operation : operation MLGetMemoryContainerReq :=
  {| op_path := MkPathType "MLGetMemoryContainerPath" MLGetMemoryContainerPath _ _; op_P := MLGetMemoryContainerParams; op_fields r := MkMLGetMemoryContainerPath (MLGetMemoryContainerReq_MemoryContainerID r);
     op_params := MLGetMemoryContainerReq_Params; op_defaults := None; op_timeout := MLGetMemoryContainerParams_TimeoutParams; op_debug := MLGetMemoryContainerParams_DebugParams;
     op_format := None; op_own := MLGetMemoryContainerParams_own; op_slots := MLGetMemoryContainerParams_slots;
     op_body _ := no_body; op_headers r := MLGetMemoryContainerReq_Header r;
     Method := MLGetMemoryContainer_Method; GetRequest := MLGetMemoryContainerReq_GetRequest;
     op_keys := [];
     op_described := [("GET", "/_plugins/_ml/memory_containers/{memory_container_id}")];
     op_query := [] |}.
#[export] Instance MLGetMemoryContainer_operates : LawfulOp MLGetMemoryContainerReq.
Proof. operate. Qed.

Record MLGetMessageParams := MkMLGetMessageParams { MLGetMessageParams_TimeoutParams : TimeoutParams; MLGetMessageParams_DebugParams : DebugParams }.
Definition MLGetMessageParams_own (q : MLGetMessageParams) : list param :=
  [].
Definition MLGetMessageParams_slots : list (string * (MLGetMessageParams -> slot)) :=
  [].
Definition MLGetMessageParams_get (q : MLGetMessageParams) : gmap string string :=
  encode_params (EncodeTimeout (MLGetMessageParams_TimeoutParams q) ++ EncodeDebug (MLGetMessageParams_DebugParams q) ++ MLGetMessageParams_own q).
Record MLGetMessageReq := MkMLGetMessageReq { MLGetMessageReq_MessageID : string; MLGetMessageReq_Header : headers; MLGetMessageReq_Params : option MLGetMessageParams }.
Definition MLGetMessageReq_GetRequest (r : MLGetMessageReq) (method : string) : request_error + httpRequest * Z :=
  send method (MLGetMessagePath_Build (MkMLGetMessagePath (MLGetMessageReq_MessageID r)))
    (match MLGetMessageReq_Params r with Some q => MLGetMessageParams_get q | None => ∅ end)
    no_body (MLGetMessageReq_Header r).
Definition MLGetMessage_Method (r : MLGetMessageReq) : string := "GET".
#[export] Instance MLGetMessage_operation : operation MLGetMessageReq :=
  {| op_path := MkPathType "MLGetMessagePath" MLGetMessagePath _ _; op_P := MLGetMessageParams; op_fields r := MkMLGetMessagePath (MLGetMessageReq_MessageID r);
     op_params := MLGetMessageReq_Params; op_defaults := None; op_timeout := MLGetMessageParams_TimeoutParams; op_debug := MLGetMessageParams_DebugParams;
     op_format := None; op_own := MLGetMessageParams_own; op_slots := MLGetMessageParams_slots;
     op_body _ := no_body; op_headers r := MLGetMessageReq_Header r;
     Method := MLGetMessage_Method; GetRequest := MLGetMessageReq_GetRequest;
     op_keys := [];
     op_described := [("GET", "/_plugins/_ml/memory/message/{message_id}")];
     op_query := [] |}.
#[export] Instance MLGetMessage_operates : LawfulOp MLGetMessageReq.
Proof. operate. Qed.

Record MLGetMessageTracesParams := MkMLGetMessageTracesParams { MLGetMessageTracesParams_TimeoutParams : TimeoutParams; MLGetMessageTracesParams_DebugParams : DebugParams; MLGetMessageTracesParams_MaxResults : Z;
  MLGetMessageTracesParams_NextToken : Z }.
Definition MLGetMessageTracesParams_own (q : MLGetMessageTracesParams) : list param :=
  [("max_results", nonZero (MLGetMessageTracesParams_MaxResults q)); ("next_token", nonZero (MLGetMessageTracesParams_NextToken q))].
Definition MLGetMessageTracesParams_slots : list (string * (MLGetMessageTracesParams -> slot)) :=
  [("MaxResults", fun q => Int (MLGetMessageTracesParams_MaxResults q)); ("NextToken", fun q => Int (MLGetMessageTracesParams_NextToken q))].
Definition MLGetMessageTracesParams_get (q : MLGetMessageTracesParams) : gmap string string :=
  encode_params (EncodeTimeout (MLGetMessageTracesParams_TimeoutParams q) ++ EncodeDebug (MLGetMessageTracesParams_DebugParams q) ++ MLGetMessageTracesParams_own q).
Record MLGetMessageTracesReq := MkMLGetMessageTracesReq { MLGetMessageTracesReq_MessageID : string; MLGetMessageTracesReq_Header : headers; MLGetMessageTracesReq_Params : option MLGetMessageTracesParams }.
Definition MLGetMessageTracesReq_GetRequest (r : MLGetMessageTracesReq) (method : string) : request_error + httpRequest * Z :=
  send method (MLGetMessageTracesPath_Build (MkMLGetMessageTracesPath (MLGetMessageTracesReq_MessageID r)))
    (match MLGetMessageTracesReq_Params r with Some q => MLGetMessageTracesParams_get q | None => ∅ end)
    no_body (MLGetMessageTracesReq_Header r).
Definition MLGetMessageTraces_Method (r : MLGetMessageTracesReq) : string := "GET".
#[export] Instance MLGetMessageTraces_operation : operation MLGetMessageTracesReq :=
  {| op_path := MkPathType "MLGetMessageTracesPath" MLGetMessageTracesPath _ _; op_P := MLGetMessageTracesParams; op_fields r := MkMLGetMessageTracesPath (MLGetMessageTracesReq_MessageID r);
     op_params := MLGetMessageTracesReq_Params; op_defaults := None; op_timeout := MLGetMessageTracesParams_TimeoutParams; op_debug := MLGetMessageTracesParams_DebugParams;
     op_format := None; op_own := MLGetMessageTracesParams_own; op_slots := MLGetMessageTracesParams_slots;
     op_body _ := no_body; op_headers r := MLGetMessageTracesReq_Header r;
     Method := MLGetMessageTraces_Method; GetRequest := MLGetMessageTracesReq_GetRequest;
     op_keys := ["max_results"; "next_token"];
     op_described := [("GET", "/_plugins/_ml/memory/message/{message_id}/traces")];
     op_query := ["max_results"; "next_token"] |}.
#[export] Instance MLGetMessageTraces_operates : LawfulOp MLGetMessageTracesReq.
Proof. operate. Qed.

Record MLGetModelParams := MkMLGetModelParams { MLGetModelParams_TimeoutParams : TimeoutParams; MLGetModelParams_DebugParams : DebugParams }.
Definition MLGetModelParams_own (q : MLGetModelParams) : list param :=
  [].
Definition MLGetModelParams_slots : list (string * (MLGetModelParams -> slot)) :=
  [].
Definition MLGetModelParams_get (q : MLGetModelParams) : gmap string string :=
  encode_params (EncodeTimeout (MLGetModelParams_TimeoutParams q) ++ EncodeDebug (MLGetModelParams_DebugParams q) ++ MLGetModelParams_own q).
Record MLGetModelReq := MkMLGetModelReq { MLGetModelReq_ModelID : string; MLGetModelReq_Header : headers; MLGetModelReq_Params : option MLGetModelParams }.
Definition MLGetModelReq_GetRequest (r : MLGetModelReq) (method : string) : request_error + httpRequest * Z :=
  send method (MLGetModelPath_Build (MkMLGetModelPath (MLGetModelReq_ModelID r)))
    (match MLGetModelReq_Params r with Some q => MLGetModelParams_get q | None => ∅ end)
    no_body (MLGetModelReq_Header r).
Definition MLGetModel_Method (r : MLGetModelReq) : string := "GET".
#[export] Instance MLGetModel_operation : operation MLGetModelReq :=
  {| op_path := MkPathType "MLGetModelPath" MLGetModelPath _ _; op_P := MLGetModelParams; op_fields r := MkMLGetModelPath (MLGetModelReq_ModelID r);
     op_params := MLGetModelReq_Params; op_defaults := None; op_timeout := MLGetModelParams_TimeoutParams; op_debug := MLGetModelParams_DebugParams;
     op_format := None; op_own := MLGetModelParams_own; op_slots := MLGetModelParams_slots;
     op_body _ := no_body; op_headers r := MLGetModelReq_Header r;
     Method := MLGetModel_Method; GetRequest := MLGetModelReq_GetRequest;
     op_keys := [];
     op_described := [("GET", "/_plugins/_ml/models/{model_id}")];
     op_query := [] |}.
#[export] Instance MLGetModel_operates : LawfulOp MLGetModelReq.
Proof. operate. Qed.

Record MLGetModelGroupParams := MkMLGetModelGroupParams { MLGetModelGroupParams_TimeoutParams : TimeoutParams; MLGetModelGroupParams_DebugParams : DebugParams }.
Definition MLGetModelGroupParams_own (q : MLGetModelGroupParams) : list param :=
  [].
Definition MLGetModelGroupParams_slots : list (string * (MLGetModelGroupParams -> slot)) :=
  [].
Definition MLGetModelGroupParams_get (q : MLGetModelGroupParams) : gmap string string :=
  encode_params (EncodeTimeout (MLGetModelGroupParams_TimeoutParams q) ++ EncodeDebug (MLGetModelGroupParams_DebugParams q) ++ MLGetModelGroupParams_own q).
Record MLGetModelGroupReq := MkMLGetModelGroupReq { MLGetModelGroupReq_ModelGroupID : string; MLGetModelGroupReq_Header : headers; MLGetModelGroupReq_Params : option MLGetModelGroupParams }.
Definition MLGetModelGroupReq_GetRequest (r : MLGetModelGroupReq) (method : string) : request_error + httpRequest * Z :=
  send method (MLGetModelGroupPath_Build (MkMLGetModelGroupPath (MLGetModelGroupReq_ModelGroupID r)))
    (match MLGetModelGroupReq_Params r with Some q => MLGetModelGroupParams_get q | None => ∅ end)
    no_body (MLGetModelGroupReq_Header r).
Definition MLGetModelGroup_Method (r : MLGetModelGroupReq) : string := "GET".
#[export] Instance MLGetModelGroup_operation : operation MLGetModelGroupReq :=
  {| op_path := MkPathType "MLGetModelGroupPath" MLGetModelGroupPath _ _; op_P := MLGetModelGroupParams; op_fields r := MkMLGetModelGroupPath (MLGetModelGroupReq_ModelGroupID r);
     op_params := MLGetModelGroupReq_Params; op_defaults := None; op_timeout := MLGetModelGroupParams_TimeoutParams; op_debug := MLGetModelGroupParams_DebugParams;
     op_format := None; op_own := MLGetModelGroupParams_own; op_slots := MLGetModelGroupParams_slots;
     op_body _ := no_body; op_headers r := MLGetModelGroupReq_Header r;
     Method := MLGetModelGroup_Method; GetRequest := MLGetModelGroupReq_GetRequest;
     op_keys := [];
     op_described := [("GET", "/_plugins/_ml/model_groups/{model_group_id}")];
     op_query := [] |}.
#[export] Instance MLGetModelGroup_operates : LawfulOp MLGetModelGroupReq.
Proof. operate. Qed.

Record MLGetProfileParams := MkMLGetProfileParams { MLGetProfileParams_TimeoutParams : TimeoutParams; MLGetProfileParams_DebugParams : DebugParams }.
Definition MLGetProfileParams_own (q : MLGetProfileParams) : list param :=
  [].
Definition MLGetProfileParams_slots : list (string * (MLGetProfileParams -> slot)) :=
  [].
Definition MLGetProfileParams_get (q : MLGetProfileParams) : gmap string string :=
  encode_params (EncodeTimeout (MLGetProfileParams_TimeoutParams q) ++ EncodeDebug (MLGetProfileParams_DebugParams q) ++ MLGetProfileParams_own q).
Record MLGetProfileReq := MkMLGetProfileReq { MLGetProfileReq_Body : option (option string); MLGetProfileReq_BodyReader : reader; MLGetProfileReq_Header : headers;
  MLGetProfileReq_Params : option MLGetProfileParams }.
Definition MLGetProfileReq_GetRequest (r : MLGetProfileReq) (method : string) : request_error + httpRequest * Z :=
  send method (MLGetProfilePath_Build (MkMLGetProfilePath))
    (match MLGetProfileReq_Params r with Some q => MLGetProfileParams_get q | None => ∅ end)
    (json_body (MLGetProfileReq_Body r) (MLGetProfileReq_BodyReader r)) (MLGetProfileReq_Header r).
Definition MLGetProfile_Method (r : MLGetProfileReq) : string := "GET".
#[export] Instance MLGetProfile_operation : operation MLGetProfileReq :=
  {| op_path := MkPathType "MLGetProfilePath" MLGetProfilePath _ _; op_P := MLGetProfileParams; op_fields r := MkMLGetProfilePath;
     op_params := MLGetProfileReq_Params; op_defaults := None; op_timeout := MLGetProfileParams_TimeoutParams; op_debug := MLGetProfileParams_DebugParams;
     op_format := None; op_own := MLGetProfileParams_own; op_slots := MLGetProfileParams_slots;
     op_body r := json_body (MLGetProfileReq_Body r) (MLGetProfileReq_BodyReader r); op_headers r := MLGetProfileReq_Header r;
     Method := MLGetProfile_Method; GetRequest := MLGetProfileReq_GetRequest;
     op_keys := [];
     op_described := [("GET", "/_plugins/_ml/profile")];
     op_query := [] |}.
#[export] Instance MLGetProfile_operates : LawfulOp MLGetProfileReq.
Proof. operate. Qed.

Record MLGetProfileModelsParams := MkMLGetProfileModelsParams { MLGetProfileModelsParams_TimeoutParams : TimeoutParams; MLGetProfileModelsParams_DebugParams : DebugParams }.
Definition MLGetProfileModelsParams_own (q : MLGetProfileModelsParams) : list param :=
  [].
Definition MLGetProfileModelsParams_slots : list (string * (MLGetProfileModelsParams -> slot)) :=
  [].
Definition MLGetProfileModelsParams_get (q : MLGetProfileModelsParams) : gmap string string :=
  encode_params (EncodeTimeout (MLGetProfileModelsParams_TimeoutParams q) ++ EncodeDebug (MLGetProfileModelsParams_DebugParams q) ++ MLGetProfileModelsParams_own q).
Record MLGetProfileModelsReq := MkMLGetProfileModelsReq { MLGetProfileModelsReq_ModelID : string; MLGetProfileModelsReq_Body : option (option string); MLGetProfileModelsReq_BodyReader : reader;
  MLGetProfileModelsReq_Header : headers; MLGetProfileModelsReq_Params : option MLGetProfileModelsParams }.
Definition MLGetProfileModelsReq_GetRequest (r : MLGetProfileModelsReq) (method : string) : request_error + httpRequest * Z :=
  send method (MLGetProfileModelsPath_Build (MkMLGetProfileModelsPath (MLGetProfileModelsReq_ModelID r)))
    (match MLGetProfileModelsReq_Params r with Some q => MLGetProfileModelsParams_get q | None => ∅ end)
    (json_body (MLGetProfileModelsReq_Body r) (MLGetProfileModelsReq_BodyReader r)) (MLGetProfileModelsReq_Header r).
Definition MLGetProfileModels_Method (r : MLGetProfileModelsReq) : string := "GET".
#[export] Instance MLGetProfileModels_operation : operation MLGetProfileModelsReq :=
  {| op_path := MkPathType "MLGetProfileModelsPath" MLGetProfileModelsPath _ _; op_P := MLGetProfileModelsParams; op_fields r := MkMLGetProfileModelsPath (MLGetProfileModelsReq_ModelID r);
     op_params := MLGetProfileModelsReq_Params; op_defaults := None; op_timeout := MLGetProfileModelsParams_TimeoutParams; op_debug := MLGetProfileModelsParams_DebugParams;
     op_format := None; op_own := MLGetProfileModelsParams_own; op_slots := MLGetProfileModelsParams_slots;
     op_body r := json_body (MLGetProfileModelsReq_Body r) (MLGetProfileModelsReq_BodyReader r); op_headers r := MLGetProfileModelsReq_Header r;
     Method := MLGetProfileModels_Method; GetRequest := MLGetProfileModelsReq_GetRequest;
     op_keys := [];
     op_described := [("GET", "/_plugins/_ml/profile/models"); ("GET", "/_plugins/_ml/profile/models/{model_id}")];
     op_query := [] |}.
#[export] Instance MLGetProfileModels_operates : LawfulOp MLGetProfileModelsReq.
Proof. operate. Qed.

Record MLGetProfileTasksParams := MkMLGetProfileTasksParams { MLGetProfileTasksParams_TimeoutParams : TimeoutParams; MLGetProfileTasksParams_DebugParams : DebugParams }.
Definition MLGetProfileTasksParams_own (q : MLGetProfileTasksParams) : list param :=
  [].
Definition MLGetProfileTasksParams_slots : list (string * (MLGetProfileTasksParams -> slot)) :=
  [].
Definition MLGetProfileTasksParams_get (q : MLGetProfileTasksParams) : gmap string string :=
  encode_params (EncodeTimeout (MLGetProfileTasksParams_TimeoutParams q) ++ EncodeDebug (MLGetProfileTasksParams_DebugParams q) ++ MLGetProfileTasksParams_own q).
Record MLGetProfileTasksReq := MkMLGetProfileTasksReq { MLGetProfileTasksReq_TaskID : string; MLGetProfileTasksReq_Body : option (option string); MLGetProfileTasksReq_BodyReader : reader;
  MLGetProfileTasksReq_Header : headers; MLGetProfileTasksReq_Params : option MLGetProfileTasksParams }.
Definition MLGetProfileTasksReq_GetRequest (r : MLGetProfileTasksReq) (method : string) : request_error + httpRequest * Z :=
  send method (MLGetProfileTasksPath_Build (MkMLGetProfileTasksPath (MLGetProfileTasksReq_TaskID r)))
    (match MLGetProfileTasksReq_Params r with Some q => MLGetProfileTasksParams_get q | None => ∅ end)
    (json_body (MLGetProfileTasksReq_Body r) (MLGetProfileTasksReq_BodyReader r)) (MLGetProfileTasksReq_Header r).
Definition MLGetProfileTasks_Method (r : MLGetProfileTasksReq) : string := "GET".
#[export] Instance MLGetProfileTasks_operation : operation MLGetProfileTasksReq :=
  {| op_path := MkPathType "MLGetProfileTasksPath" MLGetProfileTasksPath _ _; op_P := MLGetProfileTasksParams; op_fields r := MkMLGetProfileTasksPath (MLGetProfileTasksReq_TaskID r);
     op_params := MLGetProfileTasksReq_Params; op_defaults := None; op_timeout := MLGetProfileTasksParams_TimeoutParams; op_debug := MLGetProfileTasksParams_DebugParams;
     op_format := None; op_own := MLGetProfileTasksParams_own; op_slots := MLGetProfileTasksParams_slots;
     op_body r := json_body (MLGetProfileTasksReq_Body r) (MLGetProfileTasksReq_BodyReader r); op_headers r := MLGetProfileTasksReq_Header r;
     Method := MLGetProfileTasks_Method; GetRequest := MLGetProfileTasksReq_GetRequest;
     op_keys := [];
     op_described := [("GET", "/_plugins/_ml/profile/tasks"); ("GET", "/_plugins/_ml/profile/tasks/{task_id}")];
     op_query := [] |}.
#[export] Instance MLGetProfileTasks_operates : LawfulOp MLGetProfileTasksReq.
Proof. operate. Qed.

Record MLGetStatsParams := MkMLGetStatsParams { MLGetStatsParams_TimeoutParams : TimeoutParams; MLGetStatsParams_DebugParams : DebugParams }.
Definition MLGetStatsParams_own (q : MLGetStatsParams) : list param :=
  [].
Definition MLGetStatsParams_slots : list (string * (MLGetStatsParams -> slot)) :=
  [].
Definition MLGetStatsParams_get (q : MLGetStatsParams) : gmap string string :=
  encode_params (EncodeTimeout (MLGetStatsParams_TimeoutParams q) ++ EncodeDebug (MLGetStatsParams_DebugParams q) ++ MLGetStatsParams_own q).
Record MLGetStatsReq := MkMLGetStatsReq { MLGetStatsReq_Stat : list string; MLGetStatsReq_NodeID : string; MLGetStatsReq_Header : headers; MLGetStatsReq_Params : option MLGetStatsParams }.
Definition MLGetStatsReq_GetRequest (r : MLGetStatsReq) (method : string) : request_error + httpRequest * Z :=
  send method (MLGetStatsPath_Build (MkMLGetStatsPath (MLGetStatsReq_NodeID r) (MLGetStatsReq_Stat r)))
    (match MLGetStatsReq_Params r with Some q => MLGetStatsParams_get q | None => ∅ end)
    no_body (MLGetStatsReq_Header r).
Definition MLGetStats_Method (r : MLGetStatsReq) : string := "GET".
#[export] Instance MLGetStats_operation : operation MLGetStatsReq :=
  {| op_path := MkPathType "MLGetStatsPath" MLGetStatsPath _ _; op_P := MLGetStatsParams; op_fields r := MkMLGetStatsPath (MLGetStatsReq_NodeID r) (MLGetStatsReq_Stat r);
     op_params := MLGetStatsReq_Params; op_defaults := None; op_timeout := MLGetStatsParams_TimeoutParams; op_debug := MLGetStatsParams_DebugParams;
     op_format := None; op_own := MLGetStatsParams_own; op_slots := MLGetStatsParams_slots;
     op_body _ := no_body; op_headers r := MLGetStatsReq_Header r;
     Method := MLGetStats_Method; GetRequest := MLGetStatsReq_GetRequest;
     op_keys := [];
     op_described := [("GET", "/_plugins/_ml/{node_id}/stats"); ("GET", "/_plugins/_ml/{node_id}/stats/{stat}"); ("GET", "/_plugins/_ml/stats");
        ("GET", "/_plugins/_ml/stats/{stat}")];
     op_query := [] |}.
#[export] Instance MLGetStats_operates : LawfulOp MLGetStatsReq.
Proof. operate. Qed.

Record MLGetTaskParams := MkMLGetTaskParams { MLGetTaskParams_TimeoutParams : TimeoutParams; MLGetTaskParams_DebugParams : DebugParams }.
Definition MLGetTaskParams_own (q : MLGetTaskParams) : list param :=
  [].
Definition MLGetTaskParams_slots : list (string * (MLGetTaskParams -> slot)) :=
  [].
Definition MLGetTaskParams_get (q : MLGetTaskParams) : gmap string string :=
  encode_params (EncodeTimeout (MLGetTaskParams_TimeoutParams q) ++ EncodeDebug (MLGetTaskParams_DebugParams q) ++ MLGetTaskParams_own q).
Record MLGetTaskReq := MkMLGetTaskReq { MLGetTaskReq_TaskID : string; MLGetTaskReq_Header : headers; MLGetTaskReq_Params : option MLGetTaskParams }.
Definition MLGetTaskReq_GetRequest (r : MLGetTaskReq) (method : string) : request_error + httpRequest * Z :=
  send method (MLGetTaskPath_Build (MkMLGetTaskPath (MLGetTaskReq_TaskID r)))
    (match MLGetTaskReq_Params r with Some q => MLGetTaskParams_get q | None => ∅ end)
    no_body (MLGetTaskReq_Header r).
Definition MLGetTask_Method (r : MLGetTaskReq) : string := "GET".
#[export] Instance MLGetTask_operation : operation MLGetTaskReq :=
  {| op_path := MkPathType "MLGetTaskPath" MLGetTaskPath _ _; op_P := MLGetTaskParams; op_fields r := MkMLGetTaskPath (MLGetTaskReq_TaskID r);
     op_params := MLGetTaskReq_Params; op_defaults := None; op_timeout := MLGetTaskParams_TimeoutParams; op_debug := MLGetTaskParams_DebugParams;
     op_format := None; op_own := MLGetTaskParams_own; op_slots := MLGetTaskParams_slots;
     op_body _ := no_body; op_headers r := MLGetTaskReq_Header r;
     Method := MLGetTask_Method; GetRequest := MLGetTaskReq_GetRequest;
     op_keys := [];
     op_described := [("GET", "/_plugins/_ml/tasks/{task_id}")];
     op_query := [] |}.
#[export] Instance MLGetTask_operates : LawfulOp MLGetTaskReq.
Proof. operate. Qed.

Record MLGetToolParams := MkMLGetToolParams { MLGetToolParams_TimeoutParams : TimeoutParams; MLGetToolParams_DebugParams : DebugParams }.
Definition MLGetToolParams_own (q : MLGetToolParams) : list param :=
  [].
Definition MLGetToolParams_slots : list (string * (MLGetToolParams -> slot)) :=
  [].
Definition MLGetToolParams_get (q : MLGetToolParams) : gmap string string :=
  encode_params (EncodeTimeout (MLGetToolParams_TimeoutParams q) ++ EncodeDebug (MLGetToolParams_DebugParams q) ++ MLGetToolParams_own q).
Record MLGetToolReq := MkMLGetToolReq { MLGetToolReq_ToolName : string; MLGetToolReq_Header : headers; MLGetToolReq_Params : option MLGetToolParams }.
Definition MLGetToolReq_GetRequest (r : MLGetToolReq) (method : string) : request_error + httpRequest * Z :=
  send method (MLGetToolPath_Build (MkMLGetToolPath (MLGetToolReq_ToolName r)))
    (match MLGetToolReq_Params r with Some q => MLGetToolParams_get q | None => ∅ end)
    no_body (MLGetToolReq_Header r).
Definition MLGetTool_Method (r : MLGetToolReq) : string := "GET".
#[export] Instance MLGetTool_operation : operation MLGetToolReq :=
  {| op_path := MkPathType "MLGetToolPath" MLGetToolPath _ _; op_P := MLGetToolParams; op_fields r := MkMLGetToolPath (MLGetToolReq_ToolName r);
     op_params := MLGetToolReq_Params; op_defaults := None; op_timeout := MLGetToolParams_TimeoutParams; op_debug := MLGetToolParams_DebugParams;
     op_format := None; op_own := MLGetToolParams_own; op_slots := MLGetToolParams_slots;
     op_body _ := no_body; op_headers r := MLGetToolReq_Header r;
     Method := MLGetTool_Method; GetRequest := MLGetToolReq_GetRequest;
     op_keys := [];
     op_described := [("GET", "/_plugins/_ml/tools/{tool_name}")];
     op_query := [] |}.
#[export] Instance MLGetTool_operates : LawfulOp MLGetToolReq.
Proof. operate. Qed.

Record MLLoadModelParams := MkMLLoadModelParams { MLLoadModelParams_TimeoutParams : TimeoutParams; MLLoadModelParams_DebugParams : DebugParams }.
Definition MLLoadModelParams_own (q : MLLoadModelParams) : list param :=
  [].
Definition MLLoadModelParams_slots : list (string * (MLLoadModelParams -> slot)) :=
  [].
Definition MLLoadModelParams_get (q : MLLoadModelParams) : gmap string string :=
  encode_params (EncodeTimeout (MLLoadModelParams_TimeoutParams q) ++ EncodeDebug (MLLoadModelParams_DebugParams q) ++ MLLoadModelParams_own q).
Record MLLoadModelReq := MkMLLoadModelReq { MLLoadModelReq_ModelID : string; MLLoadModelReq_Header : headers; MLLoadModelReq_Params : option MLLoadModelParams }.
Definition MLLoadModelReq_GetRequest (r : MLLoadModelReq) (method : string) : request_error + httpRequest * Z :=
  send method (MLLoadModelPath_Build (MkMLLoadModelPath (MLLoadModelReq_ModelID r)))
    (match MLLoadModelReq_Params r with Some q => MLLoadModelParams_get q | None => ∅ end)
    no_body (MLLoadModelReq_Header r).
Definition MLLoadModel_Method (r : MLLoadModelReq) : string := "POST".
#[export] Instance MLLoadModel_operation : operation MLLoadModelReq :=
  {| op_path := MkPathType "MLLoadModelPath" MLLoadModelPath _ _; op_P := MLLoadModelParams; op_fields r := MkMLLoadModelPath (MLLoadModelReq_ModelID r);
     op_params := MLLoadModelReq_Params; op_defaults := None; op_timeout := MLLoadModelParams_TimeoutParams; op_debug := MLLoadModelParams_DebugParams;
     op_format := None; op_own := MLLoadModelParams_own; op_slots := MLLoadModelParams_slots;
     op_body _ := no_body; op_headers r := MLLoadModelReq_Header r;
     Method := MLLoadModel_Method; GetRequest := MLLoadModelReq_GetRequest;
     op_keys := [];
     op_described := [("POST", "/_plugins/_ml/models/{model_id}/_load")];
     op_query := [] |}.
#[export] Instance MLLoadModel_operates : LawfulOp MLLoadModelReq.
Proof. operate. Qed.

Record MLPredictParams := MkMLPredictParams { MLPredictParams_TimeoutParams : TimeoutParams; MLPredictParams_DebugParams : DebugParams }.
Definition MLPredictParams_own (q : MLPredictParams) : list param :=
  [].
Definition MLPredictParams_slots : list (string * (MLPredictParams -> slot)) :=
  [].
Definition MLPredictParams_get (q : MLPredictParams) : gmap string string :=
  encode_params (EncodeTimeout (MLPredictParams_TimeoutParams q) ++ EncodeDebug (MLPredictParams_DebugParams q) ++ MLPredictParams_own q).
Record MLPredictReq := MkMLPredictReq { MLPredictReq_AlgorithmName : string; MLPredictReq_ModelID : string; MLPredictReq_Body : option (option string); MLPredictReq_BodyReader : reader;
  MLPredictReq_Header : headers; MLPredictReq_Params : option MLPredictParams }.
Definition MLPredictReq_GetRequest (r : MLPredictReq) (method : string) : request_error + httpRequest * Z :=
  send method (MLPredictPath_Build (MkMLPredictPath (MLPredictReq_AlgorithmName r) (MLPredictReq_ModelID r)))
    (match MLPredictReq_Params r with Some q => MLPredictParams_get q | None => ∅ end)
    (json_body (MLPredictReq_Body r) (MLPredictReq_BodyReader r)) (MLPredictReq_Header r).
Definition MLPredict_Method (r : MLPredictReq) : string := "POST".
#[export] Instance MLPredict_operation : operation MLPredictReq :=
  {| op_path := MkPathType "MLPredictPath" MLPredictPath _ _; op_P := MLPredictParams; op_fields r := MkMLPredictPath (MLPredictReq_AlgorithmName r) (MLPredictReq_ModelID r);
     op_params := MLPredictReq_Params; op_defaults := None; op_timeout := MLPredictParams_TimeoutParams; op_debug := MLPredictParams_DebugParams;
     op_format := None; op_own := MLPredictParams_own; op_slots := MLPredictParams_slots;
     op_body r := json_body (MLPredictReq_Body r) (MLPredictReq_BodyReader r); op_headers r := MLPredictReq_Header r;
     Method := MLPredict_Method; GetRequest := MLPredictReq_GetRequest;
     op_keys := [];
     op_described := [("POST", "/_plugins/_ml/_predict/{algorithm_name}/{model_id}")];
     op_query := [] |}.
#[export] Instance MLPredict_operates : LawfulOp MLPredictReq.
Proof. operate. Qed.

Record MLPredictModelParams := MkMLPredictModelParams { MLPredictModelParams_TimeoutParams : TimeoutParams; MLPredictModelParams_DebugParams : DebugParams }.
Definition MLPredictModelParams_own (q : MLPredictModelParams) : list param :=
  [].
Definition MLPredictModelParams_slots : list (string * (MLPredictModelParams -> slot)) :=
  [].
Definition MLPredictModelParams_get (q : MLPredictModelParams) : gmap string string :=
  encode_params (EncodeTimeout (MLPredictModelParams_TimeoutParams q) ++ EncodeDebug (MLPredictModelParams_DebugParams q) ++ MLPredictModelParams_own q).
Record MLPredictModelReq := MkMLPredictModelReq { MLPredictModelReq_ModelID : string; MLPredictModelReq_Body : option (option string); MLPredictModelReq_BodyReader : reader;
  MLPredictModelReq_Header : headers; MLPredictModelReq_Params : option MLPredictModelParams }.
Definition MLPredictModelReq_GetRequest (r : MLPredictModelReq) (method : string) : request_error + httpRequest * Z :=
  send method (MLPredictModelPath_Build (MkMLPredictModelPath (MLPredictModelReq_ModelID r)))
    (match MLPredictModelReq_Params r with Some q => MLPredictModelParams_get q | None => ∅ end)
    (json_body (MLPredictModelReq_Body r) (MLPredictModelReq_BodyReader r)) (MLPredictModelReq_Header r).
Definition MLPredictModel_Method (r : MLPredictModelReq) : string := "POST".
#[export] Instance MLPredictModel_operation : operation MLPredictModelReq :=
  {| op_path := MkPathType "MLPredictModelPath" MLPredictModelPath _ _; op_P := MLPredictModelParams; op_fields r := MkMLPredictModelPath (MLPredictModelReq_ModelID r);
     op_params := MLPredictModelReq_Params; op_defaults := None; op_timeout := MLPredictModelParams_TimeoutParams; op_debug := MLPredictModelParams_DebugParams;
     op_format := None; op_own := MLPredictModelParams_own; op_slots := MLPredictModelParams_slots;
     op_body r := json_body (MLPredictModelReq_Body r) (MLPredictModelReq_BodyReader r); op_headers r := MLPredictModelReq_Header r;
     Method := MLPredictModel_Method; GetRequest := MLPredictModelReq_GetRequest;
     op_keys := [];
     op_described := [("POST", "/_plugins/_ml/models/{model_id}/_predict")];
     op_query := [] |}.
#[export] Instance MLPredictModel_operates : LawfulOp MLPredictModelReq.
Proof. operate. Qed.

Record MLPredictModelStreamParams := MkMLPredictModelStreamParams { MLPredictModelStreamParams_TimeoutParams : TimeoutParams; MLPredictModelStreamParams_DebugParams : DebugParams }.
Definition MLPredictModelStreamParams_own (q : MLPredictModelStreamParams) : list param :=
  [].
Definition MLPredictModelStreamParams_slots : list (string * (MLPredictModelStreamParams -> slot)) :=
  [].
Definition MLPredictModelStreamParams_get (q : MLPredictModelStreamParams) : gmap string string :=
  encode_params (EncodeTimeout (MLPredictModelStreamParams_TimeoutParams q) ++ EncodeDebug (MLPredictModelStreamParams_DebugParams q) ++ MLPredictModelStreamParams_own q).
Record MLPredictModelStreamReq := MkMLPredictModelStreamReq { MLPredictModelStreamReq_ModelID : string; MLPredictModelStreamReq_Body : option (option string); MLPredictModelStreamReq_BodyReader : reader;
  MLPredictModelStreamReq_Header : headers; MLPredictModelStreamReq_Params : option MLPredictModelStreamParams }.
Definition MLPredictModelStreamReq_GetRequest (r : MLPredictModelStreamReq) (method : string) : request_error + httpRequest * Z :=
  send method (MLPredictModelStreamPath_Build (MkMLPredictModelStreamPath (MLPredictModelStreamReq_ModelID r)))
    (match MLPredictModelStreamReq_Params r with Some q => MLPredictModelStreamParams_get q | None => ∅ end)
    (json_body (MLPredictModelStreamReq_Body r) (MLPredictModelStreamReq_BodyReader r)) (MLPredictModelStreamReq_Header r).
Definition MLPredictModelStream_Method (r : MLPredictModelStreamReq) : string := "POST".
#[export] Instance MLPredictModelStream_operation : operation MLPredictModelStreamReq :=
  {| op_path := MkPathType "MLPredictModelStreamPath" MLPredictModelStreamPath _ _; op_P := MLPredictModelStreamParams; op_fields r := MkMLPredictModelStreamPath (MLPredictModelStreamReq_ModelID r);
     op_params := MLPredictModelStreamReq_Params; op_defaults := None; op_timeout := MLPredictModelStreamParams_TimeoutParams; op_debug := MLPredictModelStreamParams_DebugParams;
     op_format := None; op_own := MLPredictModelStreamParams_own; op_slots := MLPredictModelStreamParams_slots;
     op_body r := json_body (MLPredictModelStreamReq_Body r) (MLPredictModelStreamReq_BodyReader r); op_headers r := MLPredictModelStreamReq_Header r;
     Method := MLPredictModelStream_Method; GetRequest := MLPredictModelStreamReq_GetRequest;
     op_keys := [];
     op_described := [("POST", "/_plugins/_ml/models/{model_id}/_predict/stream")];
     op_query := [] |}.
#[export] Instance MLPredictModelStream_operates : LawfulOp MLPredictModelStreamReq.
Proof. operate. Qed.

Record MLRegisterAgentsParams := MkMLRegisterAgentsParams { MLRegisterAgentsParams_TimeoutParams : TimeoutParams; MLRegisterAgentsParams_DebugParams : DebugParams }.
Definition MLRegisterAgentsParams_own (q : MLRegisterAgentsParams) : list param :=
  [].
Definition MLRegisterAgentsParams_slots : list (string * (MLRegisterAgentsParams -> slot)) :=
  [].
Definition MLRegisterAgentsParams_get (q : MLRegisterAgentsParams) : gmap string string :=
  encode_params (EncodeTimeout (MLRegisterAgentsParams_TimeoutParams q) ++ EncodeDebug (MLRegisterAgentsParams_DebugParams q) ++ MLRegisterAgentsParams_own q).
Record MLRegisterAgentsReq := MkMLRegisterAgentsReq { MLRegisterAgentsReq_Body : option (option string); MLRegisterAgentsReq_BodyReader : reader; MLRegisterAgentsReq_Header : headers;
  MLRegisterAgentsReq_Params : option MLRegisterAgentsParams }.
Definition MLRegisterAgentsReq_GetRequest (r : MLRegisterAgentsReq) (method : string) : request_error + httpRequest * Z :=
  send method (MLRegisterAgentsPath_Build (MkMLRegisterAgentsPath))
    (match MLRegisterAgentsReq_Params r with Some q => MLRegisterAgentsParams_get q | None => ∅ end)
    (json_body (MLRegisterAgentsReq_Body r) (MLRegisterAgentsReq_BodyReader r)) (MLRegisterAgentsReq_Header r).
Definition MLRegisterAgents_Method (r : MLRegisterAgentsReq) : string := "POST".
#[export] Instance MLRegisterAgents_operation : operation MLRegisterAgentsReq :=
  {| op_path := MkPathType "MLRegisterAgentsPath" MLRegisterAgentsPath _ _; op_P := MLRegisterAgentsParams; op_fields r := MkMLRegisterAgentsPath;
     op_params := MLRegisterAgentsReq_Params; op_defaults := None; op_timeout := MLRegisterAgentsParams_TimeoutParams; op_debug := MLRegisterAgentsParams_DebugParams;
     op_format := None; op_own := MLRegisterAgentsParams_own; op_slots := MLRegisterAgentsParams_slots;
     op_body r := json_body (MLRegisterAgentsReq_Body r) (MLRegisterAgentsReq_BodyReader r); op_headers r := MLRegisterAgentsReq_Header r;
     Method := MLRegisterAgents_Method; GetRequest := MLRegisterAgentsReq_GetRequest;
     op_keys := [];
     op_described := [("POST", "/_plugins/_ml/agents/_register")];
     op_query := [] |}.
#[export] Instance MLRegisterAgents_operates : LawfulOp MLRegisterAgentsReq.
Proof. operate. Qed.

Record MLRegisterModelParams := MkMLRegisterModelParams { MLRegisterModelParams_TimeoutParams : TimeoutParams; MLRegisterModelParams_DebugParams : DebugParams }.
Definition MLRegisterModelParams_own (q : MLRegisterModelParams) : list param :=
  [].
Definition MLRegisterModelParams_slots : list (string * (MLRegisterModelParams -> slot)) :=
  [].
Definition MLRegisterModelParams_get (q : MLRegisterModelParams) : gmap string string :=
  encode_params (EncodeTimeout (MLRegisterModelParams_TimeoutParams q) ++ EncodeDebug (MLRegisterModelParams_DebugParams q) ++ MLRegisterModelParams_own q).
Record MLRegisterModelReq := MkMLRegisterModelReq { MLRegisterModelReq_Body : option (option string); MLRegisterModelReq_BodyReader : reader; MLRegisterModelReq_Header : headers;
  MLRegisterModelReq_Params : option MLRegisterModelParams }.
Definition MLRegisterModelReq_GetRequest (r : MLRegisterModelReq) (method : string) : request_error + httpRequest * Z :=
  send method (MLRegisterModelPath_Build (MkMLRegisterModelPath))
    (match MLRegisterModelReq_Params r with Some q => MLRegisterModelParams_get q | None => ∅ end)
    (json_body (MLRegisterModelReq_Body r) (MLRegisterModelReq_BodyReader r)) (MLRegisterModelReq_Header r).
Definition MLRegisterModel_Method (r : MLRegisterModelReq) : string := "POST".
#[export] Instance MLRegisterModel_operation : operation MLRegisterModelReq :=
  {| op_path := MkPathType "MLRegisterModelPath" MLRegisterModelPath _ _; op_P := MLRegisterModelParams; op_fields r := MkMLRegisterModelPath;
     op_params := MLRegisterModelReq_Params; op_defaults := None; op_timeout := MLRegisterModelParams_TimeoutParams; op_debug := MLRegisterModelParams_DebugParams;
     op_format := None; op_own := MLRegisterModelParams_own; op_slots := MLRegisterModelParams_slots;
     op_body r := json_body (MLRegisterModelReq_Body r) (MLRegisterModelReq_BodyReader r); op_headers r := MLRegisterModelReq_Header r;
     Method := MLRegisterModel_Method; GetRequest := MLRegisterModelReq_GetRequest;
     op_keys := [];
     op_described := [("POST", "/_plugins/_ml/models/_register")];
     op_query := [] |}.
#[export] Instance MLRegisterModel_operates : LawfulOp MLRegisterModelReq.
Proof. operate. Qed.

Record MLRegisterModelGroupParams := MkMLRegisterModelGroupParams { MLRegisterModelGroupParams_TimeoutParams : TimeoutParams; MLRegisterModelGroupParams_DebugParams : DebugParams }.
Definition MLRegisterModelGroupParams_own (q : MLRegisterModelGroupParams) : list param :=
  [].
Definition MLRegisterModelGroupParams_slots : list (string * (MLRegisterModelGroupParams -> slot)) :=
  [].
Definition MLRegisterModelGroupParams_get (q : MLRegisterModelGroupParams) : gmap string string :=
  encode_params (EncodeTimeout (MLRegisterModelGroupParams_TimeoutParams q) ++ EncodeDebug (MLRegisterModelGroupParams_DebugParams q) ++ MLRegisterModelGroupParams_own q).
Record MLRegisterModelGroupReq := MkMLRegisterModelGroupReq { MLRegisterModelGroupReq_Body : option (option string); MLRegisterModelGroupReq_BodyReader : reader; MLRegisterModelGroupReq_Header : headers;
  MLRegisterModelGroupReq_Params : option MLRegisterModelGroupParams }.
Definition MLRegisterModelGroupReq_GetRequest (r : MLRegisterModelGroupReq) (method : string) : request_error + httpRequest * Z :=
  send method (MLRegisterModelGroupPath_Build (MkMLRegisterModelGroupPath))
    (match MLRegisterModelGroupReq_Params r with Some q => MLRegisterModelGroupParams_get q | None => ∅ end)
    (json_body (MLRegisterModelGroupReq_Body r) (MLRegisterModelGroupReq_BodyReader r)) (MLRegisterModelGroupReq_Header r).
Definition MLRegisterModelGroup_Method (r : MLRegisterModelGroupReq) : string := "POST".
#[export] Instance MLRegisterModelGroup_operation : operation MLRegisterModelGroupReq :=
  {| op_path := MkPathType "MLRegisterModelGroupPath" MLRegisterModelGroupPath _ _; op_P := MLRegisterModelGroupParams; op_fields r := MkMLRegisterModelGroupPath;
     op_params := MLRegisterModelGroupReq_Params; op_defaults := None; op_timeout := MLRegisterModelGroupParams_TimeoutParams; op_debug := MLRegisterModelGroupParams_DebugParams;
     op_format := None; op_own := MLRegisterModelGroupParams_own; op_slots := MLRegisterModelGroupParams_slots;
     op_body r := json_body (MLRegisterModelGroupReq_Body r) (MLRegisterModelGroupReq_BodyReader r); op_headers r := MLRegisterModelGroupReq_Header r;
     Method := MLRegisterModelGroup_Method; GetRequest := MLRegisterModelGroupReq_GetRequest;
     op_keys := [];
     op_described := [("POST", "/_plugins/_ml/model_groups/_register")];
     op_query := [] |}.
#[export] Instance MLRegisterModelGroup_operates : LawfulOp MLRegisterModelGroupReq.
Proof. operate. Qed.

Record MLRegisterModelMetaParams := MkMLRegisterModelMetaParams { MLRegisterModelMetaParams_TimeoutParams : TimeoutParams; MLRegisterModelMetaParams_DebugParams : DebugParams }.
Definition MLRegisterModelMetaParams_own (q : MLRegisterModelMetaParams) : list param :=
  [].
Definition MLRegisterModelMetaParams_slots : list (string * (MLRegisterModelMetaParams -> slot)) :=
  [].
Definition MLRegisterModelMetaParams_get (q : MLRegisterModelMetaParams) : gmap string string :=
  encode_params (EncodeTimeout (MLRegisterModelMetaParams_TimeoutParams q) ++ EncodeDebug (MLRegisterModelMetaParams_DebugParams q) ++ MLRegisterModelMetaParams_own q).
Record MLRegisterModelMetaReq := MkMLRegisterModelMetaReq { MLRegisterModelMetaReq_Body : option (option string); MLRegisterModelMetaReq_BodyReader : reader; MLRegisterModelMetaReq_Header : headers;
  MLRegisterModelMetaReq_Params : option MLRegisterModelMetaParams }.
Definition MLRegisterModelMetaReq_GetRequest (r : MLRegisterModelMetaReq) (method : string) : request_error + httpRequest * Z :=
  send method (MLRegisterModelMetaPath_Build (MkMLRegisterModelMetaPath))
    (match MLRegisterModelMetaReq_Params r with Some q => MLRegisterModelMetaParams_get q | None => ∅ end)
    (json_body (MLRegisterModelMetaReq_Body r) (MLRegisterModelMetaReq_BodyReader r)) (MLRegisterModelMetaReq_Header r).
Definition MLRegisterModelMeta_Method (r : MLRegisterModelMetaReq) : string := "POST".
#[export] Instance MLRegisterModelMeta_operation : operation MLRegisterModelMetaReq :=
  {| op_path := MkPathType "MLRegisterModelMetaPath" MLRegisterModelMetaPath _ _; op_P := MLRegisterModelMetaParams; op_fields r := MkMLRegisterModelMetaPath;
     op_params := MLRegisterModelMetaReq_Params; op_defaults := None; op_timeout := MLRegisterModelMetaParams_TimeoutParams; op_debug := MLRegisterModelMetaParams_DebugParams;
     op_format := None; op_own := MLRegisterModelMetaParams_own; op_slots := MLRegisterModelMetaParams_slots;
     op_body r := json_body (MLRegisterModelMetaReq_Body r) (MLRegisterModelMetaReq_BodyReader r); op_headers r := MLRegisterModelMetaReq_Header r;
     Method := MLRegisterModelMeta_Method; GetRequest := MLRegisterModelMetaReq_GetRequest;
     op_keys := [];
     op_described := [("POST", "/_plugins/_ml/models/_register_meta")];
     op_query := [] |}.
#[export] Instance MLRegisterModelMeta_operates : LawfulOp MLRegisterModelMetaReq.
Proof. operate. Qed.

Record MLSearchAgenticMemoryParams := MkMLSearchAgenticMemoryParams { MLSearchAgenticMemoryParams_TimeoutParams : TimeoutParams; MLSearchAgenticMemoryParams_DebugParams : DebugParams }.
Definition MLSearchAgenticMemoryParams_own (q : MLSearchAgenticMemoryParams) : list param :=
  [].
Definition MLSearchAgenticMemoryParams_slots : list (string * (MLSearchAgenticMemoryParams -> slot)) :=
  [].
Definition MLSearchAgenticMemoryParams_get (q : MLSearchAgenticMemoryParams) : gmap string string :=
  encode_params (EncodeTimeout (MLSearchAgenticMemoryParams_TimeoutParams q) ++ EncodeDebug (MLSearchAgenticMemoryParams_DebugParams q) ++ MLSearchAgenticMemoryParams_own q).
Record MLSearchAgenticMemoryReq := MkMLSearchAgenticMemoryReq { MLSearchAgenticMemoryReq_MemoryContainerID : string; MLSearchAgenticMemoryReq_Type : string; MLSearchAgenticMemoryReq_Body : option (option string);
  MLSearchAgenticMemoryReq_BodyReader : reader; MLSearchAgenticMemoryReq_Header : headers;
  MLSearchAgenticMemoryReq_Params : option MLSearchAgenticMemoryParams }.
Definition MLSearchAgenticMemoryReq_GetRequest (r : MLSearchAgenticMemoryReq) (method : string) : request_error + httpRequest * Z :=
  send method (MLSearchAgenticMemoryPath_Build (MkMLSearchAgenticMemoryPath (MLSearchAgenticMemoryReq_MemoryContainerID r) (MLSearchAgenticMemoryReq_Type r)))
    (match MLSearchAgenticMemoryReq_Params r with Some q => MLSearchAgenticMemoryParams_get q | None => ∅ end)
    (json_body (MLSearchAgenticMemoryReq_Body r) (MLSearchAgenticMemoryReq_BodyReader r)) (MLSearchAgenticMemoryReq_Header r).
Definition MLSearchAgenticMemory_Method (r : MLSearchAgenticMemoryReq) : string := "GET".
#[export] Instance MLSearchAgenticMemory_operation : operation MLSearchAgenticMemoryReq :=
  {| op_path := MkPathType "MLSearchAgenticMemoryPath" MLSearchAgenticMemoryPath _ _; op_P := MLSearchAgenticMemoryParams; op_fields r := MkMLSearchAgenticMemoryPath (MLSearchAgenticMemoryReq_MemoryContainerID r) (MLSearchAgenticMemoryReq_Type r);
     op_params := MLSearchAgenticMemoryReq_Params; op_defaults := None; op_timeout := MLSearchAgenticMemoryParams_TimeoutParams; op_debug := MLSearchAgenticMemoryParams_DebugParams;
     op_format := None; op_own := MLSearchAgenticMemoryParams_own; op_slots := MLSearchAgenticMemoryParams_slots;
     op_body r := json_body (MLSearchAgenticMemoryReq_Body r) (MLSearchAgenticMemoryReq_BodyReader r); op_headers r := MLSearchAgenticMemoryReq_Header r;
     Method := MLSearchAgenticMemory_Method; GetRequest := MLSearchAgenticMemoryReq_GetRequest;
     op_keys := [];
     op_described := [("GET", "/_plugins/_ml/memory_containers/{memory_container_id}/memories/{type}/_search")];
     op_query := [] |}.
#[export] Instance MLSearchAgenticMemory_operates : LawfulOp MLSearchAgenticMemoryReq.
Proof. operate. Qed.

Record MLSearchAgentsParams := MkMLSearchAgentsParams { MLSearchAgentsParams_TimeoutParams : TimeoutParams; MLSearchAgentsParams_DebugParams : DebugParams }.
Definition MLSearchAgentsParams_own (q : MLSearchAgentsParams) : list param :=
  [].
Definition MLSearchAgentsParams_slots : list (string * (MLSearchAgentsParams -> slot)) :=
  [].
Definition MLSearchAgentsParams_get (q : MLSearchAgentsParams) : gmap string string :=
  encode_params (EncodeTimeout (MLSearchAgentsParams_TimeoutParams q) ++ EncodeDebug (MLSearchAgentsParams_DebugParams q) ++ MLSearchAgentsParams_own q).
Record MLSearchAgentsReq := MkMLSearchAgentsReq { MLSearchAgentsReq_Body : option (option string); MLSearchAgentsReq_BodyReader : reader; MLSearchAgentsReq_Header : headers;
  MLSearchAgentsReq_Params : option MLSearchAgentsParams }.
Definition MLSearchAgentsReq_GetRequest (r : MLSearchAgentsReq) (method : string) : request_error + httpRequest * Z :=
  send method (MLSearchAgentsPath_Build (MkMLSearchAgentsPath))
    (match MLSearchAgentsReq_Params r with Some q => MLSearchAgentsParams_get q | None => ∅ end)
    (json_body (MLSearchAgentsReq_Body r) (MLSearchAgentsReq_BodyReader r)) (MLSearchAgentsReq_Header r).
Definition MLSearchAgents_Method (r : MLSearchAgentsReq) : string := "GET".
#[export] Instance MLSearchAgents_operation : operation MLSearchAgentsReq :=
  {| op_path := MkPathType "MLSearchAgentsPath" MLSearchAgentsPath _ _; op_P := MLSearchAgentsParams; op_fields r := MkMLSearchAgentsPath;
     op_params := MLSearchAgentsReq_Params; op_defaults := None; op_timeout := MLSearchAgentsParams_TimeoutParams; op_debug := MLSearchAgentsParams_DebugParams;
     op_format := None; op_own := MLSearchAgentsParams_own; op_slots := MLSearchAgentsParams_slots;
     op_body r := json_body (MLSearchAgentsReq_Body r) (MLSearchAgentsReq_BodyReader r); op_headers r := MLSearchAgentsReq_Header r;
     Method := MLSearchAgents_Method; GetRequest := MLSearchAgentsReq_GetRequest;
     op_keys := [];
     op_described := [("GET", "/_plugins/_ml/agents/_search"); ("POST", "/_plugins/_ml/agents/_search")];
     op_query := [] |}.
#[export] Instance MLSearchAgents_operates : LawfulOp MLSearchAgentsReq.
Proof. operate. Qed.

Record MLSearchConnectorsParams := MkMLSearchConnectorsParams { MLSearchConnectorsParams_TimeoutParams : TimeoutParams; MLSearchConnectorsParams_DebugParams : DebugParams }.
Definition MLSearchConnectorsParams_own (q : MLSearchConnectorsParams) : list param :=
  [].
Definition MLSearchConnectorsParams_slots : list (string * (MLSearchConnectorsParams -> slot)) :=
  [].
Definition MLSearchConnectorsParams_get (q : MLSearchConnectorsParams) : gmap string string :=
  encode_params (EncodeTimeout (MLSearchConnectorsParams_TimeoutParams q) ++ EncodeDebug (MLSearchConnectorsParams_DebugParams q) ++ MLSearchConnectorsParams_own q).
Record MLSearchConnectorsReq := MkMLSearchConnectorsReq { MLSearchConnectorsReq_Body : option (option string); MLSearchConnectorsReq_BodyReader : reader; MLSearchConnectorsReq_Header : headers;
  MLSearchConnectorsReq_Params : option MLSearchConnectorsParams }.
Definition MLSearchConnectorsReq_GetRequest (r : MLSearchConnectorsReq) (method : string) : request_error + httpRequest * Z :=
  send method (MLSearchConnectorsPath_Build (MkMLSearchConnectorsPath))
    (match MLSearchConnectorsReq_Params r with Some q => MLSearchConnectorsParams_get q | None => ∅ end)
    (json_body (MLSearchConnectorsReq_Body r) (MLSearchConnectorsReq_BodyReader r)) (MLSearchConnectorsReq_Header r).
Definition MLSearchConnectors_Method (r : MLSearchConnectorsReq) : string := "GET".
#[export] Instance MLSearchConnectors_operation : operation MLSearchConnectorsReq :=
  {| op_path := MkPathType "MLSearchConnectorsPath" MLSearchConnectorsPath _ _; op_P := MLSearchConnectorsParams; op_fields r := MkMLSearchConnectorsPath;
     op_params := MLSearchConnectorsReq_Params; op_defaults := None; op_timeout := MLSearchConnectorsParams_TimeoutParams; op_debug := MLSearchConnectorsParams_DebugParams;
     op_format := None; op_own := MLSearchConnectorsParams_own; op_slots := MLSearchConnectorsParams_slots;
     op_body r := json_body (MLSearchConnectorsReq_Body r) (MLSearchConnectorsReq_BodyReader r); op_headers r := MLSearchConnectorsReq_Header r;
     Method := MLSearchConnectors_Method; GetRequest := MLSearchConnectorsReq_GetRequest;
     op_keys := [];
     op_described := [("GET", "/_plugins/_ml/connectors/_search"); ("POST", "/_plugins/_ml/connectors/_search")];
     op_query := [] |}.
#[export] Instance MLSearchConnectors_operates : LawfulOp MLSearchConnectorsReq.
Proof. operate. Qed.

Record MLSearchMemoryParams := MkMLSearchMemoryParams { MLSearchMemoryParams_TimeoutParams : TimeoutParams; MLSearchMemoryParams_DebugParams : DebugParams }.
Definition MLSearchMemoryParams_own (q : MLSearchMemoryParams) : list param :=
  [].
Definition MLSearchMemoryParams_slots : list (string * (MLSearchMemoryParams -> slot)) :=
  [].
Definition MLSearchMemoryParams_get (q : MLSearchMemoryParams) : gmap string string :=
  encode_params (EncodeTimeout (MLSearchMemoryParams_TimeoutParams q) ++ EncodeDebug (MLSearchMemoryParams_DebugParams q) ++ MLSearchMemoryParams_own q).
Record MLSearchMemoryReq := MkMLSearchMemoryReq { MLSearchMemoryReq_Body : option (option string); MLSearchMemoryReq_BodyReader : reader; MLSearchMemoryReq_Header : headers;
  MLSearchMemoryReq_Params : option MLSearchMemoryParams }.
Definition MLSearchMemoryReq_GetRequest (r : MLSearchMemoryReq) (method : string) : request_error + httpRequest * Z :=
  send method (MLSearchMemoryPath_Build (MkMLSearchMemoryPath))
    (match MLSearchMemoryReq_Params r with Some q => MLSearchMemoryParams_get q | None => ∅ end)
    (json_body (MLSearchMemoryReq_Body r) (MLSearchMemoryReq_BodyReader r)) (MLSearchMemoryReq_Header r).
Definition MLSearchMemory_Method (r : MLSearchMemoryReq) : string := "GET".
#[export] Instance MLSearchMemory_operation : operation MLSearchMemoryReq :=
  {| op_path := MkPathType "MLSearchMemoryPath" MLSearchMemoryPath _ _; op_P := MLSearchMemoryParams; op_fields r := MkMLSearchMemoryPath;
     op_params := MLSearchMemoryReq_Params; op_defaults := None; op_timeout := MLSearchMemoryParams_TimeoutParams; op_debug := MLSearchMemoryParams_DebugParams;
     op_format := None; op_own := MLSearchMemoryParams_own; op_slots := MLSearchMemoryParams_slots;
     op_body r := json_body (MLSearchMemoryReq_Body r) (MLSearchMemoryReq_BodyReader r); op_headers r := MLSearchMemoryReq_Header r;
     Method := MLSearchMemory_Method; GetRequest := MLSearchMemoryReq_GetRequest;
     op_keys := [];
     op_described := [("GET", "/_plugins/_ml/memory/_search"); ("POST", "/_plugins/_ml/memory/_search")];
     op_query := [] |}.
#[export] Instance MLSearchMemory_operates : LawfulOp MLSearchMemoryReq.
Proof. operate. Qed.

Record MLSearchMemoryContainerParams := MkMLSearchMemoryContainerParams { MLSearchMemoryContainerParams_TimeoutParams : TimeoutParams; MLSearchMemoryContainerParams_DebugParams : DebugParams }.
Definition MLSearchMemoryContainerParams_own (q : MLSearchMemoryContainerParams) : list param :=
  [].
Definition MLSearchMemoryContainerParams_slots : list (string * (MLSearchMemoryContainerParams -> slot)) :=
  [].
Definition MLSearchMemoryContainerParams_get (q : MLSearchMemoryContainerParams) : gmap string string :=
  encode_params (EncodeTimeout (MLSearchMemoryContainerParams_TimeoutParams q) ++ EncodeDebug (MLSearchMemoryContainerParams_DebugParams q) ++ MLSearchMemoryContainerParams_own q).
Record MLSearchMemoryContainerReq := MkMLSearchMemoryContainerReq { MLSearchMemoryContainerReq_Body : option (option string); MLSearchMemoryContainerReq_BodyReader : reader;
  MLSearchMemoryContainerReq_Header : headers; MLSearchMemoryContainerReq_Params : option MLSearchMemoryContainerParams }.
Definition MLSearchMemoryContainerReq_GetRequest (r : MLSearchMemoryContainerReq) (method : string) : request_error + httpRequest * Z :=
  send method (MLSearchMemoryContainerPath_Build (MkMLSearchMemoryContainerPath))
    (match MLSearchMemoryContainerReq_Params r with Some q => MLSearchMemoryContainerParams_get q | None => ∅ end)
    (json_body (MLSearchMemoryContainerReq_Body r) (MLSearchMemoryContainerReq_BodyReader r)) (MLSearchMemoryContainerReq_Header r).
Definition MLSearchMemoryContainer_Method (r : MLSearchMemoryContainerReq) : string := "POST".
#[export] Instance MLSearchMemoryContainer_operation : operation MLSearchMemoryContainerReq :=
  {| op_path := MkPathType "MLSearchMemoryContainerPath" MLSearchMemoryContainerPath _ _; op_P := MLSearchMemoryContainerParams; op_fields r := MkMLSearchMemoryContainerPath;
     op_params := MLSearchMemoryContainerReq_Params; op_defaults := None; op_timeout := MLSearchMemoryContainerParams_TimeoutParams; op_debug := MLSearchMemoryContainerParams_DebugParams;
     op_format := None; op_own := MLSearchMemoryContainerParams_own; op_slots := MLSearchMemoryContainerParams_slots;
     op_body r := json_body (MLSearchMemoryContainerReq_Body r) (MLSearchMemoryContainerReq_BodyReader r); op_headers r := MLSearchMemoryContainerReq_Header r;
     Method := MLSearchMemoryContainer_Method; GetRequest := MLSearchMemoryContainerReq_GetRequest;
     op_keys := [];
     op_described := [("GET", "/_plugins/_ml/memory_containers/_search"); ("POST", "/_plugins/_ml/memory_containers/_search")];
     op_query := [] |}.
#[export] Instance MLSearchMemoryContainer_operates : LawfulOp MLSearchMemoryContainerReq.
Proof. operate. Qed.

Record MLSearchMessageParams := MkMLSearchMessageParams { MLSearchMessageParams_TimeoutParams : TimeoutParams; MLSearchMessageParams_DebugParams : DebugParams }.
Definition MLSearchMessageParams_own (q : MLSearchMessageParams) : list param :=
  [].
Definition MLSearchMessageParams_slots : list (string * (MLSearchMessageParams -> slot)) :=
  [].
Definition MLSearchMessageParams_get (q : MLSearchMessageParams) : gmap string string :=
  encode_params (EncodeTimeout (MLSearchMessageParams_TimeoutParams q) ++ EncodeDebug (MLSearchMessageParams_DebugParams q) ++ MLSearchMessageParams_own q).
Record MLSearchMessageReq := MkMLSearchMessageReq { MLSearchMessageReq_MemoryID : string; MLSearchMessageReq_Body : option (option string); MLSearchMessageReq_BodyReader : reader;
  MLSearchMessageReq_Header : headers; MLSearchMessageReq_Params : option MLSearchMessageParams }.
Definition MLSearchMessageReq_GetRequest (r : MLSearchMessageReq) (method : string) : request_error + httpRequest * Z :=
  send method (MLSearchMessagePath_Build (MkMLSearchMessagePath (MLSearchMessageReq_MemoryID r)))
    (match MLSearchMessageReq_Params r with Some q => MLSearchMessageParams_get q | None => ∅ end)
    (json_body (MLSearchMessageReq_Body r) (MLSearchMessageReq_BodyReader r)) (MLSearchMessageReq_Header r).
Definition MLSearchMessage_Method (r : MLSearchMessageReq) : string := "GET".
#[export] Instance MLSearchMessage_operation : operation MLSearchMessageReq :=
  {| op_path := MkPathType "MLSearchMessagePath" MLSearchMessagePath _ _; op_P := MLSearchMessageParams; op_fields r := MkMLSearchMessagePath (MLSearchMessageReq_MemoryID r);
     op_params := MLSearchMessageReq_Params; op_defaults := None; op_timeout := MLSearchMessageParams_TimeoutParams; op_debug := MLSearchMessageParams_DebugParams;
     op_format := None; op_own := MLSearchMessageParams_own; op_slots := MLSearchMessageParams_slots;
     op_body r := json_body (MLSearchMessageReq_Body r) (MLSearchMessageReq_BodyReader r); op_headers r := MLSearchMessageReq_Header r;
     Method := MLSearchMessage_Method; GetRequest := MLSearchMessageReq_GetRequest;
     op_keys := [];
     op_described := [("GET", "/_plugins/_ml/memory/{memory_id}/_search"); ("POST", "/_plugins/_ml/memory/{memory_id}/_search")];
     op_query := [] |}.
#[export] Instance MLSearchMessage_operates : LawfulOp MLSearchMessageReq.
Proof. operate. Qed.

Record MLSearchModelGroupParams := MkMLSearchModelGroupParams { MLSearchModelGroupParams_TimeoutParams : TimeoutParams; MLSearchModelGroupParams_DebugParams : DebugParams }.
Definition MLSearchModelGroupParams_own (q : MLSearchModelGroupParams) : list param :=
  [].
Definition MLSearchModelGroupParams_slots : list (string * (MLSearchModelGroupParams -> slot)) :=
  [].
Definition MLSearchModelGroupParams_get (q : MLSearchModelGroupParams) : gmap string string :=
  encode_params (EncodeTimeout (MLSearchModelGroupParams_TimeoutParams q) ++ EncodeDebug (MLSearchModelGroupParams_DebugParams q) ++ MLSearchModelGroupParams_own q).
Record MLSearchModelGroupReq := MkMLSearchModelGroupReq { MLSearchModelGroupReq_Body : option (option string); MLSearchModelGroupReq_BodyReader : reader; MLSearchModelGroupReq_Header : headers;
  MLSearchModelGroupReq_Params : option MLSearchModelGroupParams }.
Definition MLSearchModelGroupReq_GetRequest (r : MLSearchModelGroupReq) (method : string) : request_error + httpRequest * Z :=
  send method (MLSearchModelGroupPath_Build (MkMLSearchModelGroupPath))
    (match MLSearchModelGroupReq_Params r with Some q => MLSearchModelGroupParams_get q | None => ∅ end)
    (json_body (MLSearchModelGroupReq_Body r) (MLSearchModelGroupReq_BodyReader r)) (MLSearchModelGroupReq_Header r).
Definition MLSearchModelGroup_Method (r : MLSearchModelGroupReq) : string := "GET".
#[export] Instance MLSearchModelGroup_operation : operation MLSearchModelGroupReq :=
  {| op_path := MkPathType "MLSearchModelGroupPath" MLSearchModelGroupPath _ _; op_P := MLSearchModelGroupParams; op_fields r := MkMLSearchModelGroupPath;
     op_params := MLSearchModelGroupReq_Params; op_defaults := None; op_timeout := MLSearchModelGroupParams_TimeoutParams; op_debug := MLSearchModelGroupParams_DebugParams;
     op_format := None; op_own := MLSearchModelGroupParams_own; op_slots := MLSearchModelGroupParams_slots;
     op_body r := json_body (MLSearchModelGroupReq_Body r) (MLSearchModelGroupReq_BodyReader r); op_headers r := MLSearchModelGroupReq_Header r;
     Method := MLSearchModelGroup_Method; GetRequest := MLSearchModelGroupReq_GetRequest;
     op_keys := [];
     op_described := [("GET", "/_plugins/_ml/model_groups/_search"); ("POST", "/_plugins/_ml/model_groups/_search")];
     op_query := [] |}.
#[export] Instance MLSearchModelGroup_operates : LawfulOp MLSearchModelGroupReq.
Proof. operate. Qed.

Record MLSearchModelsParams := MkMLSearchModelsParams { MLSearchModelsParams_TimeoutParams : TimeoutParams; MLSearchModelsParams_DebugParams : DebugParams }.
Definition MLSearchModelsParams_own (q : MLSearchModelsParams) : list param :=
  [].
Definition MLSearchModelsParams_slots : list (string * (MLSearchModelsParams -> slot)) :=
  [].
Definition MLSearchModelsParams_get (q : MLSearchModelsParams) : gmap string string :=
  encode_params (EncodeTimeout (MLSearchModelsParams_TimeoutParams q) ++ EncodeDebug (MLSearchModelsParams_DebugParams q) ++ MLSearchModelsParams_own q).
Record MLSearchModelsReq := MkMLSearchModelsReq { MLSearchModelsReq_Body : option (option string); MLSearchModelsReq_BodyReader : reader; MLSearchModelsReq_Header : headers;
  MLSearchModelsReq_Params : option MLSearchModelsParams }.
Definition MLSearchModelsReq_GetRequest (r : MLSearchModelsReq) (method : string) : request_error + httpRequest * Z :=
  send method (MLSearchModelsPath_Build (MkMLSearchModelsPath))
    (match MLSearchModelsReq_Params r with Some q => MLSearchModelsParams_get q | None => ∅ end)
    (json_body (MLSearchModelsReq_Body r) (MLSearchModelsReq_BodyReader r)) (MLSearchModelsReq_Header r).
Definition MLSearchModels_Method (r : MLSearchModelsReq) : string := "GET".
#[export] Instance MLSearchModels_operation : operation MLSearchModelsReq :=
  {| op_path := MkPathType "MLSearchModelsPath" MLSearchModelsPath _ _; op_P := MLSearchModelsParams; op_fields r := MkMLSearchModelsPath;
     op_params := MLSearchModelsReq_Params; op_defaults := None; op_timeout := MLSearchModelsParams_TimeoutParams; op_debug := MLSearchModelsParams_DebugParams;
     op_format := None; op_own := MLSearchModelsParams_own; op_slots := MLSearchModelsParams_slots;
     op_body r := json_body (MLSearchModelsReq_Body r) (MLSearchModelsReq_BodyReader r); op_headers r := MLSearchModelsReq_Header r;
     Method := MLSearchModels_Method; GetRequest := MLSearchModelsReq_GetRequest;
     op_keys := [];
     op_described := [("GET", "/_plugins/_ml/models/_search"); ("POST", "/_plugins/_ml/models/_search")];
     op_query := [] |}.
#[export] Instance MLSearchModels_operates : LawfulOp MLSearchModelsReq.
Proof. operate. Qed.

Record MLSearchTasksParams := MkMLSearchTasksParams { MLSearchTasksParams_TimeoutParams : TimeoutParams; MLSearchTasksParams_DebugParams : DebugParams }.
Definition MLSearchTasksParams_own (q : MLSearchTasksParams) : list param :=
  [].
Definition MLSearchTasksParams_slots : list (string * (MLSearchTasksParams -> slot)) :=
  [].
Definition MLSearchTasksParams_get (q : MLSearchTasksParams) : gmap string string :=
  encode_params (EncodeTimeout (MLSearchTasksParams_TimeoutParams q) ++ EncodeDebug (MLSearchTasksParams_DebugParams q) ++ MLSearchTasksParams_own q).
Record MLSearchTasksReq := MkMLSearchTasksReq { MLSearchTasksReq_Body : option (option string); MLSearchTasksReq_BodyReader : reader; MLSearchTasksReq_Header : headers;
  MLSearchTasksReq_Params : option MLSearchTasksParams }.
Definition MLSearchTasksReq_GetRequest (r : MLSearchTasksReq) (method : string) : request_error + httpRequest * Z :=
  send method (MLSearchTasksPath_Build (MkMLSearchTasksPath))
    (match MLSearchTasksReq_Params r with Some q => MLSearchTasksParams_get q | None => ∅ end)
    (json_body (MLSearchTasksReq_Body r) (MLSearchTasksReq_BodyReader r)) (MLSearchTasksReq_Header r).
Definition MLSearchTasks_Method (r : MLSearchTasksReq) : string := "GET".
#[export] Instance MLSearchTasks_operation : operation MLSearchTasksReq :=
  {| op_path := MkPathType "MLSearchTasksPath" MLSearchTasksPath _ _; op_P := MLSearchTasksParams; op_fields r := MkMLSearchTasksPath;
     op_params := MLSearchTasksReq_Params; op_defaults := None; op_timeout := MLSearchTasksParams_TimeoutParams; op_debug := MLSearchTasksParams_DebugParams;
     op_format := None; op_own := MLSearchTasksParams_own; op_slots := MLSearchTasksParams_slots;
     op_body r := json_body (MLSearchTasksReq_Body r) (MLSearchTasksReq_BodyReader r); op_headers r := MLSearchTasksReq_Header r;
     Method := MLSearchTasks_Method; GetRequest := MLSearchTasksReq_GetRequest;
     op_keys := [];
     op_described := [("GET", "/_plugins/_ml/tasks/_search"); ("POST", "/_plugins/_ml/tasks/_search")];
     op_query := [] |}.
#[export] Instance MLSearchTasks_operates : LawfulOp MLSearchTasksReq.
Proof. operate. Qed.

Record MLTrainParams := MkMLTrainParams { MLTrainParams_TimeoutParams : TimeoutParams; MLTrainParams_DebugParams : DebugParams }.
Definition MLTrainParams_own (q : MLTrainParams) : list param :=
  [].
Definition MLTrainParams_slots : list (string * (MLTrainParams -> slot)) :=
  [].
Definition MLTrainParams_get (q : MLTrainParams) : gmap string string :=
  encode_params (EncodeTimeout (MLTrainParams_TimeoutParams q) ++ EncodeDebug (MLTrainParams_DebugParams q) ++ MLTrainParams_own q).
Record MLTrainReq := MkMLTrainReq { MLTrainReq_AlgorithmName : string; MLTrainReq_Body : option (option string); MLTrainReq_BodyReader : reader; MLTrainReq_Header : headers;
  MLTrainReq_Params : option MLTrainParams }.
Definition MLTrainReq_GetRequest (r : MLTrainReq) (method : string) : request_error + httpRequest * Z :=
  send method (MLTrainPath_Build (MkMLTrainPath (MLTrainReq_AlgorithmName r)))
    (match MLTrainReq_Params r with Some q => MLTrainParams_get q | None => ∅ end)
    (json_body (MLTrainReq_Body r) (MLTrainReq_BodyReader r)) (MLTrainReq_Header r).
Definition MLTrain_Method (r : MLTrainReq) : string := "POST".
#[export] Instance MLTrain_operation : operation MLTrainReq :=
  {| op_path := MkPathType "MLTrainPath" MLTrainPath _ _; op_P := MLTrainParams; op_fields r := MkMLTrainPath (MLTrainReq_AlgorithmName r);
     op_params := MLTrainReq_Params; op_defaults := None; op_timeout := MLTrainParams_TimeoutParams; op_debug := MLTrainParams_DebugParams;
     op_format := None; op_own := MLTrainParams_own; op_slots := MLTrainParams_slots;
     op_body r := json_body (MLTrainReq_Body r) (MLTrainReq_BodyReader r); op_headers r := MLTrainReq_Header r;
     Method := MLTrain_Method; GetRequest := MLTrainReq_GetRequest;
     op_keys := [];
     op_described := [("POST", "/_plugins/_ml/_train/{algorithm_name}")];
     op_query := [] |}.
#[export] Instance MLTrain_operates : LawfulOp MLTrainReq.
Proof. operate. Qed.

Record MLTrainPredictParams := MkMLTrainPredictParams { MLTrainPredictParams_TimeoutParams : TimeoutParams; MLTrainPredictParams_DebugParams : DebugParams }.
Definition MLTrainPredictParams_own (q : MLTrainPredictParams) : list param :=
  [].
Definition MLTrainPredictParams_slots : list (string * (MLTrainPredictParams -> slot)) :=
  [].
Definition MLTrainPredictParams_get (q : MLTrainPredictParams) : gmap string string :=
  encode_params (EncodeTimeout (MLTrainPredictParams_TimeoutParams q) ++ EncodeDebug (MLTrainPredictParams_DebugParams q) ++ MLTrainPredictParams_own q).
Record MLTrainPredictReq := MkMLTrainPredictReq { MLTrainPredictReq_AlgorithmName : string; MLTrainPredictReq_Body : option (option string); MLTrainPredictReq_BodyReader : reader;
  MLTrainPredictReq_Header : headers; MLTrainPredictReq_Params : option MLTrainPredictParams }.
Definition MLTrainPredictReq_GetRequest (r : MLTrainPredictReq) (method : string) : request_error + httpRequest * Z :=
  send method (MLTrainPredictPath_Build (MkMLTrainPredictPath (MLTrainPredictReq_AlgorithmName r)))
    (match MLTrainPredictReq_Params r with Some q => MLTrainPredictParams_get q | None => ∅ end)
    (json_body (MLTrainPredictReq_Body r) (MLTrainPredictReq_BodyReader r)) (MLTrainPredictReq_Header r).
Definition MLTrainPredict_Method (r : MLTrainPredictReq) : string := "POST".
#[export] Instance MLTrainPredict_operation : operation MLTrainPredictReq :=
  {| op_path := MkPathType "MLTrainPredictPath" MLTrainPredictPath _ _; op_P := MLTrainPredictParams; op_fields r := MkMLTrainPredictPath (MLTrainPredictReq_AlgorithmName r);
     op_params := MLTrainPredictReq_Params; op_defaults := None; op_timeout := MLTrainPredictParams_TimeoutParams; op_debug := MLTrainPredictParams_DebugParams;
     op_format := None; op_own := MLTrainPredictParams_own; op_slots := MLTrainPredictParams_slots;
     op_body r := json_body (MLTrainPredictReq_Body r) (MLTrainPredictReq_BodyReader r); op_headers r := MLTrainPredictReq_Header r;
     Method := MLTrainPredict_Method; GetRequest := MLTrainPredictReq_GetRequest;
     op_keys := [];
     op_described := [("POST", "/_plugins/_ml/_train_predict/{algorithm_name}")];
     op_query := [] |}.
#[export] Instance MLTrainPredict_operates : LawfulOp MLTrainPredictReq.
Proof. operate. Qed.

Record MLUndeployModelParams := MkMLUndeployModelParams { MLUndeployModelParams_TimeoutParams : TimeoutParams; MLUndeployModelParams_DebugParams : DebugParams }.
Definition MLUndeployModelParams_own (q : MLUndeployModelParams) : list param :=
  [].
Definition MLUndeployModelParams_slots : list (string * (MLUndeployModelParams -> slot)) :=
  [].
Definition MLUndeployModelParams_get (q : MLUndeployModelParams) : gmap string string :=
  encode_params (EncodeTimeout (MLUndeployModelParams_TimeoutParams q) ++ EncodeDebug (MLUndeployModelParams_DebugParams q) ++ MLUndeployModelParams_own q).
Record MLUndeployModelReq := MkMLUndeployModelReq { MLUndeployModelReq_ModelID : string; MLUndeployModelReq_Body : option (option string); MLUndeployModelReq_BodyReader : reader;
  MLUndeployModelReq_Header : headers; MLUndeployModelReq_Params : option MLUndeployModelParams }.
Definition MLUndeployModelReq_GetRequest (r : MLUndeployModelReq) (method : string) : request_error + httpRequest * Z :=
  send method (MLUndeployModelPath_Build (MkMLUndeployModelPath (MLUndeployModelReq_ModelID r)))
    (match MLUndeployModelReq_Params r with Some q => MLUndeployModelParams_get q | None => ∅ end)
    (json_body (MLUndeployModelReq_Body r) (MLUndeployModelReq_BodyReader r)) (MLUndeployModelReq_Header r).
Definition MLUndeployModel_Method (r : MLUndeployModelReq) : string := "POST".
#[export] Instance MLUndeployModel_operation : operation MLUndeployModelReq :=
  {| op_path := MkPathType "MLUndeployModelPath" MLUndeployModelPath _ _; op_P := MLUndeployModelParams; op_fields r := MkMLUndeployModelPath (MLUndeployModelReq_ModelID r);
     op_params := MLUndeployModelReq_Params; op_defaults := None; op_timeout := MLUndeployModelParams_TimeoutParams; op_debug := MLUndeployModelParams_DebugParams;
     op_format := None; op_own := MLUndeployModelParams_own; op_slots := MLUndeployModelParams_slots;
     op_body r := json_body (MLUndeployModelReq_Body r) (MLUndeployModelReq_BodyReader r); op_headers r := MLUndeployModelReq_Header r;
     Method := MLUndeployModel_Method; GetRequest := MLUndeployModelReq_GetRequest;
     op_keys := [];
     op_described := [("POST", "/_plugins/_ml/models/_undeploy"); ("POST", "/_plugins/_ml/models/{model_id}/_undeploy")];
     op_query := [] |}.
#[export] Instance MLUndeployModel_operates : LawfulOp MLUndeployModelReq.
Proof. operate. Qed.

Record MLUnloadModelParams := MkMLUnloadModelParams { MLUnloadModelParams_TimeoutParams : TimeoutParams; MLUnloadModelParams_DebugParams : DebugParams }.
Definition MLUnloadModelParams_own (q : MLUnloadModelParams) : list param :=
  [].
Definition MLUnloadModelParams_slots : list (string * (MLUnloadModelParams -> slot)) :=
  [].
Definition MLUnloadModelParams_get (q : MLUnloadModelParams) : gmap string string :=
  encode_params (EncodeTimeout (MLUnloadModelParams_TimeoutParams q) ++ EncodeDebug (MLUnloadModelParams_DebugParams q) ++ MLUnloadModelParams_own q).
Record MLUnloadModelReq := MkMLUnloadModelReq { MLUnloadModelReq_ModelID : string; MLUnloadModelReq_Body : option (option string); MLUnloadModelReq_BodyReader : reader;
  MLUnloadModelReq_Header : headers; MLUnloadModelReq_Params : option MLUnloadModelParams }.
Definition MLUnloadModelReq_GetRequest (r : MLUnloadModelReq) (method : string) : request_error + httpRequest * Z :=
  send method (MLUnloadModelPath_Build (MkMLUnloadModelPath (MLUnloadModelReq_ModelID r)))
    (match MLUnloadModelReq_Params r with Some q => MLUnloadModelParams_get q | None => ∅ end)
    (json_body (MLUnloadModelReq_Body r) (MLUnloadModelReq_BodyReader r)) (MLUnloadModelReq_Header r).
Definition MLUnloadModel_Method (r : MLUnloadModelReq) : string := "POST".
#[export] Instance MLUnloadModel_operation : operation MLUnloadModelReq :=
  {| op_path := MkPathType "MLUnloadModelPath" MLUnloadModelPath _ _; op_P := MLUnloadModelParams; op_fields r := MkMLUnloadModelPath (MLUnloadModelReq_ModelID r);
     op_params := MLUnloadModelReq_Params; op_defaults := None; op_timeout := MLUnloadModelParams_TimeoutParams; op_debug := MLUnloadModelParams_DebugParams;
     op_format := None; op_own := MLUnloadModelParams_own; op_slots := MLUnloadModelParams_slots;
     op_body r := json_body (MLUnloadModelReq_Body r) (MLUnloadModelReq_BodyReader r); op_headers r := MLUnloadModelReq_Header r;
     Method := MLUnloadModel_Method; GetRequest := MLUnloadModelReq_GetRequest;
     op_keys := [];
     op_described := [("POST", "/_plugins/_ml/models/_unload"); ("POST", "/_plugins/_ml/models/{model_id}/_unload")];
     op_query := [] |}.
#[export] Instance MLUnloadModel_operates : LawfulOp MLUnloadModelReq.
Proof. operate. Qed.

Record MLUpdateAgenticMemoryParams := MkMLUpdateAgenticMemoryParams { MLUpdateAgenticMemoryParams_TimeoutParams : TimeoutParams; MLUpdateAgenticMemoryParams_DebugParams : DebugParams }.
Definition MLUpdateAgenticMemoryParams_own (q : MLUpdateAgenticMemoryParams) : list param :=
  [].
Definition MLUpdateAgenticMemoryParams_slots : list (string * (MLUpdateAgenticMemoryParams -> slot)) :=
  [].
Definition MLUpdateAgenticMemoryParams_get (q : MLUpdateAgenticMemoryParams) : gmap string string :=
  encode_params (EncodeTimeout (MLUpdateAgenticMemoryParams_TimeoutParams q) ++ EncodeDebug (MLUpdateAgenticMemoryParams_DebugParams q) ++ MLUpdateAgenticMemoryParams_own q).
Record MLUpdateAgenticMemoryReq := MkMLUpdateAgenticMemoryReq { MLUpdateAgenticMemoryReq_MemoryContainerID : string; MLUpdateAgenticMemoryReq_Type : string; MLUpdateAgenticMemoryReq_ID : string;
  MLUpdateAgenticMemoryReq_Body : option (option string); MLUpdateAgenticMemoryReq_BodyReader : reader; MLUpdateAgenticMemoryReq_Header : headers;
  MLUpdateAgenticMemoryReq_Params : option MLUpdateAgenticMemoryParams }.
Definition MLUpdateAgenticMemoryReq_GetRequest (r : MLUpdateAgenticMemoryReq) (method : string) : request_error + httpRequest * Z :=
  send method (MLUpdateAgenticMemoryPath_Build (MkMLUpdateAgenticMemoryPath (MLUpdateAgenticMemoryReq_MemoryContainerID r) (MLUpdateAgenticMemoryReq_Type r) (MLUpdateAgenticMemoryReq_ID r)))
    (match MLUpdateAgenticMemoryReq_Params r with Some q => MLUpdateAgenticMemoryParams_get q | None => ∅ end)
    (json_body (MLUpdateAgenticMemoryReq_Body r) (MLUpdateAgenticMemoryReq_BodyReader r)) (MLUpdateAgenticMemoryReq_Header r).
Definition MLUpdateAgenticMemory_Method (r : MLUpdateAgenticMemoryReq) : string := "PUT".
#[export] Instance MLUpdateAgenticMemory_operation : operation MLUpdateAgenticMemoryReq :=
  {| op_path := MkPathType "MLUpdateAgenticMemoryPath" MLUpdateAgenticMemoryPath _ _; op_P := MLUpdateAgenticMemoryParams; op_fields r := MkMLUpdateAgenticMemoryPath (MLUpdateAgenticMemoryReq_MemoryContainerID r) (MLUpdateAgenticMemoryReq_Type r) (MLUpdateAgenticMemoryReq_ID r);
     op_params := MLUpdateAgenticMemoryReq_Params; op_defaults := None; op_timeout := MLUpdateAgenticMemoryParams_TimeoutParams; op_debug := MLUpdateAgenticMemoryParams_DebugParams;
     op_format := None; op_own := MLUpdateAgenticMemoryParams_own; op_slots := MLUpdateAgenticMemoryParams_slots;
     op_body r := json_body (MLUpdateAgenticMemoryReq_Body r) (MLUpdateAgenticMemoryReq_BodyReader r); op_headers r := MLUpdateAgenticMemoryReq_Header r;
     Method := MLUpdateAgenticMemory_Method; GetRequest := MLUpdateAgenticMemoryReq_GetRequest;
     op_keys := [];
     op_described := [("PUT", "/_plugins/_ml/memory_containers/{memory_container_id}/memories/{type}/{id}")];
     op_query := [] |}.
#[export] Instance MLUpdateAgenticMemory_operates : LawfulOp MLUpdateAgenticMemoryReq.
Proof. operate. Qed.

Record MLUpdateConnectorParams := MkMLUpdateConnectorParams { MLUpdateConnectorParams_TimeoutParams : TimeoutParams; MLUpdateConnectorParams_DebugParams : DebugParams }.
Definition MLUpdateConnectorParams_own (q : MLUpdateConnectorParams) : list param :=
  [].
Definition MLUpdateConnectorParams_slots : list (string * (MLUpdateConnectorParams -> slot)) :=
  [].
Definition MLUpdateConnectorParams_get (q : MLUpdateConnectorParams) : gmap string string :=
  encode_params (EncodeTimeout (MLUpdateConnectorParams_TimeoutParams q) ++ EncodeDebug (MLUpdateConnectorParams_DebugParams q) ++ MLUpdateConnectorParams_own q).
Record MLUpdateConnectorReq := MkMLUpdateConnectorReq { MLUpdateConnectorReq_ConnectorID : string; MLUpdateConnectorReq_Body : option (option string); MLUpdateConnectorReq_BodyReader : reader;
  MLUpdateConnectorReq_Header : headers; MLUpdateConnectorReq_Params : option MLUpdateConnectorParams }.
Definition MLUpdateConnectorReq_GetRequest (r : MLUpdateConnectorReq) (method : string) : request_error + httpRequest * Z :=
  send method (MLUpdateConnectorPath_Build (MkMLUpdateConnectorPath (MLUpdateConnectorReq_ConnectorID r)))
    (match MLUpdateConnectorReq_Params r with Some q => MLUpdateConnectorParams_get q | None => ∅ end)
    (json_body (MLUpdateConnectorReq_Body r) (MLUpdateConnectorReq_BodyReader r)) (MLUpdateConnectorReq_Header r).
Definition MLUpdateConnector_Method (r : MLUpdateConnectorReq) : string := "PUT".
#[export] Instance MLUpdateConnector_operation : operation MLUpdateConnectorReq :=
  {| op_path := MkPathType "MLUpdateConnectorPath" MLUpdateConnectorPath _ _; op_P := MLUpdateConnectorParams; op_fields r := MkMLUpdateConnectorPath (MLUpdateConnectorReq_ConnectorID r);
     op_params := MLUpdateConnectorReq_Params; op_defaults := None; op_timeout := MLUpdateConnectorParams_TimeoutParams; op_debug := MLUpdateConnectorParams_DebugParams;
     op_format := None; op_own := MLUpdateConnectorParams_own; op_slots := MLUpdateConnectorParams_slots;
     op_body r := json_body (MLUpdateConnectorReq_Body r) (MLUpdateConnectorReq_BodyReader r); op_headers r := MLUpdateConnectorReq_Header r;
     Method := MLUpdateConnector_Method; GetRequest := MLUpdateConnectorReq_GetRequest;
     op_keys := [];
     op_described := [("PUT", "/_plugins/_ml/connectors/{connector_id}")];
     op_query := [] |}.
#[export] Instance MLUpdateConnector_operates : LawfulOp MLUpdateConnectorReq.
Proof. operate. Qed.

Record MLUpdateControllerParams := MkMLUpdateControllerParams { MLUpdateControllerParams_TimeoutParams : TimeoutParams; MLUpdateControllerParams_DebugParams : DebugParams }.
Definition MLUpdateControllerParams_own (q : MLUpdateControllerParams) : list param :=
  [].
Definition MLUpdateControllerParams_slots : list (string * (MLUpdateControllerParams -> slot)) :=
  [].
Definition MLUpdateControllerParams_get (q : MLUpdateControllerParams) : gmap string string :=
  encode_params (EncodeTimeout (MLUpdateControllerParams_TimeoutParams q) ++ EncodeDebug (MLUpdateControllerParams_DebugParams q) ++ MLUpdateControllerParams_own q).
Record MLUpdateControllerReq := MkMLUpdateControllerReq { MLUpdateControllerReq_ModelID : string; MLUpdateControllerReq_Body : option (option string); MLUpdateControllerReq_BodyReader : reader;
  MLUpdateControllerReq_Header : headers; MLUpdateControllerReq_Params : option MLUpdateControllerParams }.
Definition MLUpdateControllerReq_GetRequest (r : MLUpdateControllerReq) (method : string) : request_error + httpRequest * Z :=
  send method (MLUpdateControllerPath_Build (MkMLUpdateControllerPath (MLUpdateControllerReq_ModelID r)))
    (match MLUpdateControllerReq_Params r with Some q => MLUpdateControllerParams_get q | None => ∅ end)
    (json_body (MLUpdateControllerReq_Body r) (MLUpdateControllerReq_BodyReader r)) (MLUpdateControllerReq_Header r).
Definition MLUpdateController_Method (r : MLUpdateControllerReq) : string := "PUT".
#[export] Instance MLUpdateController_operation : operation MLUpdateControllerReq :=
  {| op_path := MkPathType "MLUpdateControllerPath" MLUpdateControllerPath _ _; op_P := MLUpdateControllerParams; op_fields r := MkMLUpdateControllerPath (MLUpdateControllerReq_ModelID r);
     op_params := MLUpdateControllerReq_Params; op_defaults := None; op_timeout := MLUpdateControllerParams_TimeoutParams; op_debug := MLUpdateControllerParams_DebugParams;
     op_format := None; op_own := MLUpdateControllerParams_own; op_slots := MLUpdateControllerParams_slots;
     op_body r := json_body (MLUpdateControllerReq_Body r) (MLUpdateControllerReq_BodyReader r); op_headers r := MLUpdateControllerReq_Header r;
     Method := MLUpdateController_Method; GetRequest := MLUpdateControllerReq_GetRequest;
     op_keys := [];
     op_described := [("PUT", "/_plugins/_ml/controllers/{model_id}")];
     op_query := [] |}.
#[export] Instance MLUpdateController_operates : LawfulOp MLUpdateControllerReq.
Proof. operate. Qed.

Record MLUpdateMemoryParams := MkMLUpdateMemoryParams { MLUpdateMemoryParams_TimeoutParams : TimeoutParams; MLUpdateMemoryParams_DebugParams : DebugParams }.
Definition MLUpdateMemoryParams_own (q : MLUpdateMemoryParams) : list param :=
  [].
Definition MLUpdateMemoryParams_slots : list (string * (MLUpdateMemoryParams -> slot)) :=
  [].
Definition MLUpdateMemoryParams_get (q : MLUpdateMemoryParams) : gmap string string :=
  encode_params (EncodeTimeout (MLUpdateMemoryParams_TimeoutParams q) ++ EncodeDebug (MLUpdateMemoryParams_DebugParams q) ++ MLUpdateMemoryParams_own q).
Record MLUpdateMemoryReq := MkMLUpdateMemoryReq { MLUpdateMemoryReq_MemoryID : string; MLUpdateMemoryReq_Body : option (option string); MLUpdateMemoryReq_BodyReader : reader;
  MLUpdateMemoryReq_Header : headers; MLUpdateMemoryReq_Params : option MLUpdateMemoryParams }.
Definition MLUpdateMemoryReq_GetRequest (r : MLUpdateMemoryReq) (method : string) : request_error + httpRequest * Z :=
  send method (MLUpdateMemoryPath_Build (MkMLUpdateMemoryPath (MLUpdateMemoryReq_MemoryID r)))
    (match MLUpdateMemoryReq_Params r with Some q => MLUpdateMemoryParams_get q | None => ∅ end)
    (json_body (MLUpdateMemoryReq_Body r) (MLUpdateMemoryReq_BodyReader r)) (MLUpdateMemoryReq_Header r).
Definition MLUpdateMemory_Method (r : MLUpdateMemoryReq) : string := "PUT".
#[export] Instance MLUpdateMemory_operation : operation MLUpdateMemoryReq :=
  {| op_path := MkPathType "MLUpdateMemoryPath" MLUpdateMemoryPath _ _; op_P := MLUpdateMemoryParams; op_fields r := MkMLUpdateMemoryPath (MLUpdateMemoryReq_MemoryID r);
     op_params := MLUpdateMemoryReq_Params; op_defaults := None; op_timeout := MLUpdateMemoryParams_TimeoutParams; op_debug := MLUpdateMemoryParams_DebugParams;
     op_format := None; op_own := MLUpdateMemoryParams_own; op_slots := MLUpdateMemoryParams_slots;
     op_body r := json_body (MLUpdateMemoryReq_Body r) (MLUpdateMemoryReq_BodyReader r); op_headers r := MLUpdateMemoryReq_Header r;
     Method := MLUpdateMemory_Method; GetRequest := MLUpdateMemoryReq_GetRequest;
     op_keys := [];
     op_described := [("PUT", "/_plugins/_ml/memory/{memory_id}")];
     op_query := [] |}.
#[export] Instance MLUpdateMemory_operates : LawfulOp MLUpdateMemoryReq.
Proof. operate. Qed.

Record MLUpdateMemoryContainerParams := MkMLUpdateMemoryContainerParams { MLUpdateMemoryContainerParams_TimeoutParams : TimeoutParams; MLUpdateMemoryContainerParams_DebugParams : DebugParams }.
Definition MLUpdateMemoryContainerParams_own (q : MLUpdateMemoryContainerParams) : list param :=
  [].
Definition MLUpdateMemoryContainerParams_slots : list (string * (MLUpdateMemoryContainerParams -> slot)) :=
  [].
Definition MLUpdateMemoryContainerParams_get (q : MLUpdateMemoryContainerParams) : gmap string string :=
  encode_params (EncodeTimeout (MLUpdateMemoryContainerParams_TimeoutParams q) ++ EncodeDebug (MLUpdateMemoryContainerParams_DebugParams q) ++ MLUpdateMemoryContainerParams_own q).
Record MLUpdateMemoryContainerReq := MkMLUpdateMemoryContainerReq { MLUpdateMemoryContainerReq_MemoryContainerID : string; MLUpdateMemoryContainerReq_Body : option (option string);
  MLUpdateMemoryContainerReq_BodyReader : reader; MLUpdateMemoryContainerReq_Header : headers;
  MLUpdateMemoryContainerReq_Params : option MLUpdateMemoryContainerParams }.
Definition MLUpdateMemoryContainerReq_GetRequest (r : MLUpdateMemoryContainerReq) (method : string) : request_error + httpRequest * Z :=
  send method (MLUpdateMemoryContainerPath_Build (MkMLUpdateMemoryContainerPath (MLUpdateMemoryContainerReq_MemoryContainerID r)))
    (match MLUpdateMemoryContainerReq_Params r with Some q => MLUpdateMemoryContainerParams_get q | None => ∅ end)
    (json_body (MLUpdateMemoryContainerReq_Body r) (MLUpdateMemoryContainerReq_BodyReader r)) (MLUpdateMemoryContainerReq_Header r).
Definition MLUpdateMemoryContainer_Method (r : MLUpdateMemoryContainerReq) : string := "PUT".
#[export] Instance MLUpdateMemoryContainer_operation : operation MLUpdateMemoryContainerReq :=
  {| op_path := MkPathType "MLUpdateMemoryContainerPath" MLUpdateMemoryContainerPath _ _; op_P := MLUpdateMemoryContainerParams; op_fields r := MkMLUpdateMemoryContainerPath (MLUpdateMemoryContainerReq_MemoryContainerID r);
     op_params := MLUpdateMemoryContainerReq_Params; op_defaults := None; op_timeout := MLUpdateMemoryContainerParams_TimeoutParams; op_debug := MLUpdateMemoryContainerParams_DebugParams;
     op_format := None; op_own := MLUpdateMemoryContainerParams_own; op_slots := MLUpdateMemoryContainerParams_slots;
     op_body r := json_body (MLUpdateMemoryContainerReq_Body r) (MLUpdateMemoryContainerReq_BodyReader r); op_headers r := MLUpdateMemoryContainerReq_Header r;
     Method := MLUpdateMemoryContainer_Method; GetRequest := MLUpdateMemoryContainerReq_GetRequest;
     op_keys := [];
     op_described := [("PUT", "/_plugins/_ml/memory_containers/{memory_container_id}")];
     op_query := [] |}.
#[export] Instance MLUpdateMemoryContainer_operates : LawfulOp MLUpdateMemoryContainerReq.
Proof. operate. Qed.

Record MLUpdateMessageParams := MkMLUpdateMessageParams { MLUpdateMessageParams_TimeoutParams : TimeoutParams; MLUpdateMessageParams_DebugParams : DebugParams }.
Definition MLUpdateMessageParams_own (q : MLUpdateMessageParams) : list param :=
  [].
Definition MLUpdateMessageParams_slots : list (string * (MLUpdateMessageParams -> slot)) :=
  [].
Definition MLUpdateMessageParams_get (q : MLUpdateMessageParams) : gmap string string :=
  encode_params (EncodeTimeout (MLUpdateMessageParams_TimeoutParams q) ++ EncodeDebug (MLUpdateMessageParams_DebugParams q) ++ MLUpdateMessageParams_own q).
Record MLUpdateMessageReq := MkMLUpdateMessageReq { MLUpdateMessageReq_MessageID : string; MLUpdateMessageReq_Body : option (option string); MLUpdateMessageReq_BodyReader : reader;
  MLUpdateMessageReq_Header : headers; MLUpdateMessageReq_Params : option MLUpdateMessageParams }.
Definition MLUpdateMessageReq_GetRequest (r : MLUpdateMessageReq) (method : string) : request_error + httpRequest * Z :=
  send method (MLUpdateMessagePath_Build (MkMLUpdateMessagePath (MLUpdateMessageReq_MessageID r)))
    (match MLUpdateMessageReq_Params r with Some q => MLUpdateMessageParams_get q | None => ∅ end)
    (json_body (MLUpdateMessageReq_Body r) (MLUpdateMessageReq_BodyReader r)) (MLUpdateMessageReq_Header r).
Definition MLUpdateMessage_Method (r : MLUpdateMessageReq) : string := "PUT".
#[export] Instance MLUpdateMessage_operation : operation MLUpdateMessageReq :=
  {| op_path := MkPathType "MLUpdateMessagePath" MLUpdateMessagePath _ _; op_P := MLUpdateMessageParams; op_fields r := MkMLUpdateMessagePath (MLUpdateMessageReq_MessageID r);
     op_params := MLUpdateMessageReq_Params; op_defaults := None; op_timeout := MLUpdateMessageParams_TimeoutParams; op_debug := MLUpdateMessageParams_DebugParams;
     op_format := None; op_own := MLUpdateMessageParams_own; op_slots := MLUpdateMessageParams_slots;
     op_body r := json_body (MLUpdateMessageReq_Body r) (MLUpdateMessageReq_BodyReader r); op_headers r := MLUpdateMessageReq_Header r;
     Method := MLUpdateMessage_Method; GetRequest := MLUpdateMessageReq_GetRequest;
     op_keys := [];
     op_described := [("PUT", "/_plugins/_ml/memory/message/{message_id}")];
     op_query := [] |}.
#[export] Instance MLUpdateMessage_operates : LawfulOp MLUpdateMessageReq.
Proof. operate. Qed.

Record MLUpdateModelParams := MkMLUpdateModelParams { MLUpdateModelParams_TimeoutParams : TimeoutParams; MLUpdateModelParams_DebugParams : DebugParams }.
Definition MLUpdateModelParams_own (q : MLUpdateModelParams) : list param :=
  [].
Definition MLUpdateModelParams_slots : list (string * (MLUpdateModelParams -> slot)) :=
  [].
Definition MLUpdateModelParams_get (q : MLUpdateModelParams) : gmap string string :=
  encode_params (EncodeTimeout (MLUpdateModelParams_TimeoutParams q) ++ EncodeDebug (MLUpdateModelParams_DebugParams q) ++ MLUpdateModelParams_own q).
Record MLUpdateModelReq := MkMLUpdateModelReq { MLUpdateModelReq_ModelID : string; MLUpdateModelReq_Body : option (option string); MLUpdateModelReq_BodyReader : reader;
  MLUpdateModelReq_Header : headers; MLUpdateModelReq_Params : option MLUpdateModelParams }.
Definition MLUpdateModelReq_GetRequest (r : MLUpdateModelReq) (method : string) : request_error + httpRequest * Z :=
  send method (MLUpdateModelPath_Build (MkMLUpdateModelPath (MLUpdateModelReq_ModelID r)))
    (match MLUpdateModelReq_Params r with Some q => MLUpdateModelParams_get q | None => ∅ end)
    (json_body (MLUpdateModelReq_Body r) (MLUpdateModelReq_BodyReader r)) (MLUpdateModelReq_Header r).
Definition MLUpdateModel_Method (r : MLUpdateModelReq) : string := "PUT".
#[export] Instance MLUpdateModel_operation : operation MLUpdateModelReq :=
  {| op_path := MkPathType "MLUpdateModelPath" MLUpdateModelPath _ _; op_P := MLUpdateModelParams; op_fields r := MkMLUpdateModelPath (MLUpdateModelReq_ModelID r);
     op_params := MLUpdateModelReq_Params; op_defaults := None; op_timeout := MLUpdateModelParams_TimeoutParams; op_debug := MLUpdateModelParams_DebugParams;
     op_format := None; op_own := MLUpdateModelParams_own; op_slots := MLUpdateModelParams_slots;
     op_body r := json_body (MLUpdateModelReq_Body r) (MLUpdateModelReq_BodyReader r); op_headers r := MLUpdateModelReq_Header r;
     Method := MLUpdateModel_Method; GetRequest := MLUpdateModelReq_GetRequest;
     op_keys := [];
     op_described := [("PUT", "/_plugins/_ml/models/{model_id}")];
     op_query := [] |}.
#[export] Instance MLUpdateModel_operates : LawfulOp MLUpdateModelReq.
Proof. operate. Qed.

Record MLUpdateModelGroupParams := MkMLUpdateModelGroupParams { MLUpdateModelGroupParams_TimeoutParams : TimeoutParams; MLUpdateModelGroupParams_DebugParams : DebugParams }.
Definition MLUpdateModelGroupParams_own (q : MLUpdateModelGroupParams) : list param :=
  [].
Definition MLUpdateModelGroupParams_slots : list (string * (MLUpdateModelGroupParams -> slot)) :=
  [].
Definition MLUpdateModelGroupParams_get (q : MLUpdateModelGroupParams) : gmap string string :=
  encode_params (EncodeTimeout (MLUpdateModelGroupParams_TimeoutParams q) ++ EncodeDebug (MLUpdateModelGroupParams_DebugParams q) ++ MLUpdateModelGroupParams_own q).
Record MLUpdateModelGroupReq := MkMLUpdateModelGroupReq { MLUpdateModelGroupReq_ModelGroupID : string; MLUpdateModelGroupReq_Body : option (option string); MLUpdateModelGroupReq_BodyReader : reader;
  MLUpdateModelGroupReq_Header : headers; MLUpdateModelGroupReq_Params : option MLUpdateModelGroupParams }.
Definition MLUpdateModelGroupReq_GetRequest (r : MLUpdateModelGroupReq) (method : string) : request_error + httpRequest * Z :=
  send method (MLUpdateModelGroupPath_Build (MkMLUpdateModelGroupPath (MLUpdateModelGroupReq_ModelGroupID r)))
    (match MLUpdateModelGroupReq_Params r with Some q => MLUpdateModelGroupParams_get q | None => ∅ end)
    (json_body (MLUpdateModelGroupReq_Body r) (MLUpdateModelGroupReq_BodyReader r)) (MLUpdateModelGroupReq_Header r).
Definition MLUpdateModelGroup_Method (r : MLUpdateModelGroupReq) : string := "PUT".
#[export] Instance MLUpdateModelGroup_operation : operation MLUpdateModelGroupReq :=
  {| op_path := MkPathType "MLUpdateModelGroupPath" MLUpdateModelGroupPath _ _; op_P := MLUpdateModelGroupParams; op_fields r := MkMLUpdateModelGroupPath (MLUpdateModelGroupReq_ModelGroupID r);
     op_params := MLUpdateModelGroupReq_Params; op_defaults := None; op_timeout := MLUpdateModelGroupParams_TimeoutParams; op_debug := MLUpdateModelGroupParams_DebugParams;
     op_format := None; op_own := MLUpdateModelGroupParams_own; op_slots := MLUpdateModelGroupParams_slots;
     op_body r := json_body (MLUpdateModelGroupReq_Body r) (MLUpdateModelGroupReq_BodyReader r); op_headers r := MLUpdateModelGroupReq_Header r;
     Method := MLUpdateModelGroup_Method; GetRequest := MLUpdateModelGroupReq_GetRequest;
     op_keys := [];
     op_described := [("PUT", "/_plugins/_ml/model_groups/{model_group_id}")];
     op_query := [] |}.
#[export] Instance MLUpdateModelGroup_operates : LawfulOp MLUpdateModelGroupReq.
Proof. operate. Qed.

Record MLUploadChunkParams := MkMLUploadChunkParams { MLUploadChunkParams_TimeoutParams : TimeoutParams; MLUploadChunkParams_DebugParams : DebugParams }.
Definition MLUploadChunkParams_own (q : MLUploadChunkParams) : list param :=
  [].
Definition MLUploadChunkParams_slots : list (string * (MLUploadChunkParams -> slot)) :=
  [].
Definition MLUploadChunkParams_get (q : MLUploadChunkParams) : gmap string string :=
  encode_params (EncodeTimeout (MLUploadChunkParams_TimeoutParams q) ++ EncodeDebug (MLUploadChunkParams_DebugParams q) ++ MLUploadChunkParams_own q).
Record MLUploadChunkReq := MkMLUploadChunkReq { MLUploadChunkReq_ModelID : string; MLUploadChunkReq_ChunkNumber : string; MLUploadChunkReq_Body : option (option string);
  MLUploadChunkReq_BodyReader : reader; MLUploadChunkReq_Header : headers; MLUploadChunkReq_Params : option MLUploadChunkParams }.
Definition MLUploadChunkReq_GetRequest (r : MLUploadChunkReq) (method : string) : request_error + httpRequest * Z :=
  send method (MLUploadChunkPath_Build (MkMLUploadChunkPath (MLUploadChunkReq_ModelID r) (MLUploadChunkReq_ChunkNumber r)))
    (match MLUploadChunkReq_Params r with Some q => MLUploadChunkParams_get q | None => ∅ end)
    (json_body (MLUploadChunkReq_Body r) (MLUploadChunkReq_BodyReader r)) (MLUploadChunkReq_Header r).
Definition MLUploadChunk_Method (r : MLUploadChunkReq) : string := "POST".
#[export] Instance MLUploadChunk_operation : operation MLUploadChunkReq :=
  {| op_path := MkPathType "MLUploadChunkPath" MLUploadChunkPath _ _; op_P := MLUploadChunkParams; op_fields r := MkMLUploadChunkPath (MLUploadChunkReq_ModelID r) (MLUploadChunkReq_ChunkNumber r);
     op_params := MLUploadChunkReq_Params; op_defaults := None; op_timeout := MLUploadChunkParams_TimeoutParams; op_debug := MLUploadChunkParams_DebugParams;
     op_format := None; op_own := MLUploadChunkParams_own; op_slots := MLUploadChunkParams_slots;
     op_body r := json_body (MLUploadChunkReq_Body r) (MLUploadChunkReq_BodyReader r); op_headers r := MLUploadChunkReq_Header r;
     Method := MLUploadChunk_Method; GetRequest := MLUploadChunkReq_GetRequest;
     op_keys := [];
     op_described := [("POST", "/_plugins/_ml/models/{model_id}/upload_chunk/{chunk_number}")];
     op_query := [] |}.
#[export] Instance MLUploadChunk_operates : LawfulOp MLUploadChunkReq.
Proof. operate. Qed.

Record MLUploadModelParams := MkMLUploadModelParams { MLUploadModelParams_TimeoutParams : TimeoutParams; MLUploadModelParams_DebugParams : DebugParams }.
Definition MLUploadModelParams_own (q : MLUploadModelParams) : list param :=
  [].
Definition MLUploadModelParams_slots : list (string * (MLUploadModelParams -> slot)) :=
  [].
Definition MLUploadModelParams_get (q : MLUploadModelParams) : gmap string string :=
  encode_params (EncodeTimeout (MLUploadModelParams_TimeoutParams q) ++ EncodeDebug (MLUploadModelParams_DebugParams q) ++ MLUploadModelParams_own q).
Record MLUploadModelReq := MkMLUploadModelReq { MLUploadModelReq_Body : option (option string); MLUploadModelReq_BodyReader : reader; MLUploadModelReq_Header : headers;
  MLUploadModelReq_Params : option MLUploadModelParams }.
Definition MLUploadModelReq_GetRequest (r : MLUploadModelReq) (method : string) : request_error + httpRequest * Z :=
  send method (MLUploadModelPath_Build (MkMLUploadModelPath))
    (match MLUploadModelReq_Params r with Some q => MLUploadModelParams_get q | None => ∅ end)
    (json_body (MLUploadModelReq_Body r) (MLUploadModelReq_BodyReader r)) (MLUploadModelReq_Header r).
Definition MLUploadModel_Method (r : MLUploadModelReq) : string := "POST".
#[export] Instance MLUploadModel_operation : operation MLUploadModelReq :=
  {| op_path := MkPathType "MLUploadModelPath" MLUploadModelPath _ _; op_P := MLUploadModelParams; op_fields r := MkMLUploadModelPath;
     op_params := MLUploadModelReq_Params; op_defaults := None; op_timeout := MLUploadModelParams_TimeoutParams; op_debug := MLUploadModelParams_DebugParams;
     op_format := None; op_own := MLUploadModelParams_own; op_slots := MLUploadModelParams_slots;
     op_body r := json_body (MLUploadModelReq_Body r) (MLUploadModelReq_BodyReader r); op_headers r := MLUploadModelReq_Header r;
     Method := MLUploadModel_Method; GetRequest := MLUploadModelReq_GetRequest;
     op_keys := [];
     op_described := [("POST", "/_plugins/_ml/models/_upload")];
     op_query := [] |}.
#[export] Instance MLUploadModel_operates : LawfulOp MLUploadModelReq.
Proof. operate. Qed.

(** All of them. *)
Definition apiML : list operation_type :=
  [MkOperationType "MLAddAgenticMemory" MLAddAgenticMemoryReq _ _; MkOperationType "MLChunkModel" MLChunkModelReq _ _;
   MkOperationType "MLCreateConnector" MLCreateConnectorReq _ _; MkOperationType "MLCreateController" MLCreateControllerReq _ _;
   MkOperationType "MLCreateMemory" MLCreateMemoryReq _ _; MkOperationType "MLCreateMemoryContainer" MLCreateMemoryContainerReq _ _;
   MkOperationType "MLCreateMemoryContainerSession" MLCreateMemoryContainerSessionReq _ _; MkOperationType "MLCreateMessage" MLCreateMessageReq _ _;
   MkOperationType "MLCreateModelMeta" MLCreateModelMetaReq _ _; MkOperationType "MLDeleteAgent" MLDeleteAgentReq _ _;
   MkOperationType "MLDeleteAgenticMemory" MLDeleteAgenticMemoryReq _ _; MkOperationType "MLDeleteAgenticMemoryQuery" MLDeleteAgenticMemoryQueryReq _ _;
   MkOperationType "MLDeleteConnector" MLDeleteConnectorReq _ _; MkOperationType "MLDeleteController" MLDeleteControllerReq _ _;
   MkOperationType "MLDeleteMemory" MLDeleteMemoryReq _ _; MkOperationType "MLDeleteMemoryContainer" MLDeleteMemoryContainerReq _ _;
   MkOperationType "MLDeleteModel" MLDeleteModelReq _ _; MkOperationType "MLDeleteModelGroup" MLDeleteModelGroupReq _ _;
   MkOperationType "MLDeleteTask" MLDeleteTaskReq _ _; MkOperationType "MLDeployModel" MLDeployModelReq _ _;
   MkOperationType "MLExecuteAgent" MLExecuteAgentReq _ _; MkOperationType "MLExecuteAgentStream" MLExecuteAgentStreamReq _ _;
   MkOperationType "MLExecuteAlgorithm" MLExecuteAlgorithmReq _ _; MkOperationType "MLExecuteTool" MLExecuteToolReq _ _;
   MkOperationType "MLGetAgent" MLGetAgentReq _ _; MkOperationType "MLGetAgenticMemory" MLGetAgenticMemoryReq _ _;
   MkOperationType "MLGetAllMemories" MLGetAllMemoriesReq _ _; MkOperationType "MLGetAllMessages" MLGetAllMessagesReq _ _;
   MkOperationType "MLGetAllTools" MLGetAllToolsReq _ _; MkOperationType "MLGetConnector" MLGetConnectorReq _ _;
   MkOperationType "MLGetController" MLGetControllerReq _ _; MkOperationType "MLGetMemory" MLGetMemoryReq _ _;
   MkOperationType "MLGetMemoryContainer" MLGetMemoryContainerReq _ _; MkOperationType "MLGetMessage" MLGetMessageReq _ _;
   MkOperationType "MLGetMessageTraces" MLGetMessageTracesReq _ _; MkOperationType "MLGetModel" MLGetModelReq _ _;
   MkOperationType "MLGetModelGroup" MLGetModelGroupReq _ _; MkOperationType "MLGetProfile" MLGetProfileReq _ _;
   MkOperationType "MLGetProfileModels" MLGetProfileModelsReq _ _; MkOperationType "MLGetProfileTasks" MLGetProfileTasksReq _ _;
   MkOperationType "MLGetStats" MLGetStatsReq _ _; MkOperationType "MLGetTask" MLGetTaskReq _ _;
   MkOperationType "MLGetTool" MLGetToolReq _ _; MkOperationType "MLLoadModel" MLLoadModelReq _ _;
   MkOperationType "MLPredict" MLPredictReq _ _; MkOperationType "MLPredictModel" MLPredictModelReq _ _;
   MkOperationType "MLPredictModelStream" MLPredictModelStreamReq _ _; MkOperationType "MLRegisterAgents" MLRegisterAgentsReq _ _;
   MkOperationType "MLRegisterModel" MLRegisterModelReq _ _; MkOperationType "MLRegisterModelGroup" MLRegisterModelGroupReq _ _;
   MkOperationType "MLRegisterModelMeta" MLRegisterModelMetaReq _ _; MkOperationType "MLSearchAgenticMemory" MLSearchAgenticMemoryReq _ _;
   MkOperationType "MLSearchAgents" MLSearchAgentsReq _ _; MkOperationType "MLSearchConnectors" MLSearchConnectorsReq _ _;
   MkOperationType "MLSearchMemory" MLSearchMemoryReq _ _; MkOperationType "MLSearchMemoryContainer" MLSearchMemoryContainerReq _ _;
   MkOperationType "MLSearchMessage" MLSearchMessageReq _ _; MkOperationType "MLSearchModelGroup" MLSearchModelGroupReq _ _;
   MkOperationType "MLSearchModels" MLSearchModelsReq _ _; MkOperationType "MLSearchTasks" MLSearchTasksReq _ _;
   MkOperationType "MLTrain" MLTrainReq _ _; MkOperationType "MLTrainPredict" MLTrainPredictReq _ _;
   MkOperationType "MLUndeployModel" MLUndeployModelReq _ _; MkOperationType "MLUnloadModel" MLUnloadModelReq _ _;
   MkOperationType "MLUpdateAgenticMemory" MLUpdateAgenticMemoryReq _ _; MkOperationType "MLUpdateConnector" MLUpdateConnectorReq _ _;
   MkOperationType "MLUpdateController" MLUpdateControllerReq _ _; MkOperationType "MLUpdateMemory" MLUpdateMemoryReq _ _;
   MkOperationType "MLUpdateMemoryContainer" MLUpdateMemoryContainerReq _ _; MkOperationType "MLUpdateMessage" MLUpdateMessageReq _ _;
   MkOperationType "MLUpdateModel" MLUpdateModelReq _ _; MkOperationType "MLUpdateModelGroup" MLUpdateModelGroupReq _ _;
   MkOperationType "MLUploadChunk" MLUploadChunkReq _ _; MkOperationType "MLUploadModel" MLUploadModelReq _ _].
