(* ===== verification/ApiRanking.v ===== *)
(** * Requests for the search and ranking plugins

    The request types of opensearchapi and plugins for the search and ranking plugins: the parameters
    with their [get], GetRequest, and the method of the client's call, each
    with its instance of [operation] and the part of opensearch-openapi.yaml it is
    compared with. *)

From Stdlib Require Import ZArith Ascii String.
From stdpp Require Import base gmap list strings.
From S2P Require Import Paths.
From S2P Require Import Stream.
From S2P Require Import PathsML.
From S2P Require Import ReqBuild.
From S2P Require Import ApiRequest.
Open Scope string_scope.
Open Scope list_scope.

Record FlowFrameworkCreateParams := MkFlowFrameworkCreateParams { FlowFrameworkCreateParams_TimeoutParams : TimeoutParams; FlowFrameworkCreateParams_DebugParams : DebugParams;
  FlowFrameworkCreateParams_Provision : option bool; FlowFrameworkCreateParams_Reprovision : option bool;
  FlowFrameworkCreateParams_UpdateFields : option bool; FlowFrameworkCreateParams_UseCase : string; FlowFrameworkCreateParams_Validation : string }.
Definition FlowFrameworkCreateParams_own (q : FlowFrameworkCreateParams) : list param :=
  [("provision", boolPtr (FlowFrameworkCreateParams_Provision q)); ("reprovision", boolPtr (FlowFrameworkCreateParams_Reprovision q));
  ("update_fields", boolPtr (FlowFrameworkCreateParams_UpdateFields q)); ("use_case", nonEmpty (FlowFrameworkCreateParams_UseCase q));
  ("validation", nonEmpty (FlowFrameworkCreateParams_Validation q))].
Definition FlowFrameworkCreateParams_slots : list (string * (FlowFrameworkCreateParams -> slot)) :=
  [("Provision", fun q => BoolPtr (FlowFrameworkCreateParams_Provision q)); ("Reprovision", fun q => BoolPtr (FlowFrameworkCreateParams_Reprovision q));
  ("UpdateFields", fun q => BoolPtr (FlowFrameworkCreateParams_UpdateFields q)); ("UseCase", fun q => Text (FlowFrameworkCreateParams_UseCase q));
  ("Validation", fun q => Text (FlowFrameworkCreateParams_Validation q))].
Definition FlowFrameworkCreateParams_get (q : FlowFrameworkCreateParams) : gmap string string :=
  encode_params (EncodeTimeout (FlowFrameworkCreateParams_TimeoutParams q) ++ EncodeDebug (FlowFrameworkCreateParams_DebugParams q) ++ FlowFrameworkCreateParams_own q).
Record FlowFrameworkCreateReq := MkFlowFrameworkCreateReq { FlowFrameworkCreateReq_Body : option (option string); FlowFrameworkCreateReq_BodyReader : reader; FlowFrameworkCreateReq_Header : headers;
  FlowFrameworkCreateReq_Params : option FlowFrameworkCreateParams }.
Definition FlowFrameworkCreateReq_GetRequest (r : FlowFrameworkCreateReq) (method : string) : request_error + httpRequest * Z :=
  send method (FlowFrameworkCreatePath_Build (MkFlowFrameworkCreatePath))
    (match FlowFrameworkCreateReq_Params r with Some q => FlowFrameworkCreateParams_get q | None => ∅ end)
    (json_body (FlowFrameworkCreateReq_Body r) (FlowFrameworkCreateReq_BodyReader r)) (FlowFrameworkCreateReq_Header r).
Definition FlowFrameworkCreate_Method (r : FlowFrameworkCreateReq) : string := "POST".
#[export] Instance FlowFrameworkCreate_operation : operation FlowFrameworkCreateReq :=
  {| op_path := MkPathType "FlowFrameworkCreatePath" FlowFrameworkCreatePath _ _; op_P := FlowFrameworkCreateParams; op_fields r := MkFlowFrameworkCreatePath;
     op_params := FlowFrameworkCreateReq_Params; op_defaults := None; op_timeout := FlowFrameworkCreateParams_TimeoutParams; op_debug := FlowFrameworkCreateParams_DebugParams;
     op_format := None; op_own := FlowFrameworkCreateParams_own; op_slots := FlowFrameworkCreateParams_slots;
     op_body r := json_body (FlowFrameworkCreateReq_Body r) (FlowFrameworkCreateReq_BodyReader r); op_headers r := FlowFrameworkCreateReq_Header r;
     Method := FlowFrameworkCreate_Method; GetRequest := FlowFrameworkCreateReq_GetRequest;
     op_keys := ["provision"; "reprovision"; "update_fields"; "use_case"; "validation"];
     op_described := [("POST", "/_plugins/_flow_framework/workflow")];
     op_query := ["provision"; "reprovision"; "update_fields"; "use_case"; "validation"] |}.
#[export] Instance FlowFrameworkCreate_operates : LawfulOp FlowFrameworkCreateReq.
Proof. operate. Qed.

Record FlowFrameworkDeleteParams := MkFlowFrameworkDeleteParams { FlowFrameworkDeleteParams_TimeoutParams : TimeoutParams; FlowFrameworkDeleteParams_DebugParams : DebugParams;
  FlowFrameworkDeleteParams_ClearStatus : option bool }.
Definition FlowFrameworkDeleteParams_own (q : FlowFrameworkDeleteParams) : list param :=
  [("clear_status", boolPtr (FlowFrameworkDeleteParams_ClearStatus q))].
Definition FlowFrameworkDeleteParams_slots : list (string * (FlowFrameworkDeleteParams -> slot)) :=
  [("ClearStatus", fun q => BoolPtr (FlowFrameworkDeleteParams_ClearStatus q))].
Definition FlowFrameworkDeleteParams_get (q : FlowFrameworkDeleteParams) : gmap string string :=
  encode_params (EncodeTimeout (FlowFrameworkDeleteParams_TimeoutParams q) ++ EncodeDebug (FlowFrameworkDeleteParams_DebugParams q) ++ FlowFrameworkDeleteParams_own q).
Record FlowFrameworkDeleteReq := MkFlowFrameworkDeleteReq { FlowFrameworkDeleteReq_WorkflowID : string; FlowFrameworkDeleteReq_Header : headers; FlowFrameworkDeleteReq_Params : option FlowFrameworkDeleteParams }.
Definition FlowFrameworkDeleteReq_GetRequest (r : FlowFrameworkDeleteReq) (method : string) : request_error + httpRequest * Z :=
  send method (FlowFrameworkDeletePath_Build (MkFlowFrameworkDeletePath (FlowFrameworkDeleteReq_WorkflowID r)))
    (match FlowFrameworkDeleteReq_Params r with Some q => FlowFrameworkDeleteParams_get q | None => ∅ end)
    no_body (FlowFrameworkDeleteReq_Header r).
Definition FlowFrameworkDelete_Method (r : FlowFrameworkDeleteReq) : string := "DELETE".
#[export] Instance FlowFrameworkDelete_operation : operation FlowFrameworkDeleteReq :=
  {| op_path := MkPathType "FlowFrameworkDeletePath" FlowFrameworkDeletePath _ _; op_P := FlowFrameworkDeleteParams; op_fields r := MkFlowFrameworkDeletePath (FlowFrameworkDeleteReq_WorkflowID r);
     op_params := FlowFrameworkDeleteReq_Params; op_defaults := None; op_timeout := FlowFrameworkDeleteParams_TimeoutParams; op_debug := FlowFrameworkDeleteParams_DebugParams;
     op_format := None; op_own := FlowFrameworkDeleteParams_own; op_slots := FlowFrameworkDeleteParams_slots;
     op_body _ := no_body; op_headers r := FlowFrameworkDeleteReq_Header r;
     Method := FlowFrameworkDelete_Method; GetRequest := FlowFrameworkDeleteReq_GetRequest;
     op_keys := ["clear_status"];
     op_described := [("DELETE", "/_plugins/_flow_framework/workflow/{workflow_id}")];
     op_query := ["clear_status"] |}.
#[export] Instance FlowFrameworkDelete_operates : LawfulOp FlowFrameworkDeleteReq.
Proof. operate. Qed.

Record FlowFrameworkDeprovisionParams := MkFlowFrameworkDeprovisionParams { FlowFrameworkDeprovisionParams_TimeoutParams : TimeoutParams; FlowFrameworkDeprovisionParams_DebugParams : DebugParams;
  FlowFrameworkDeprovisionParams_AllowDelete : string }.
Definition FlowFrameworkDeprovisionParams_own (q : FlowFrameworkDeprovisionParams) : list param :=
  [("allow_delete", nonEmpty (FlowFrameworkDeprovisionParams_AllowDelete q))].
Definition FlowFrameworkDeprovisionParams_slots : list (string * (FlowFrameworkDeprovisionParams -> slot)) :=
  [("AllowDelete", fun q => Text (FlowFrameworkDeprovisionParams_AllowDelete q))].
Definition FlowFrameworkDeprovisionParams_get (q : FlowFrameworkDeprovisionParams) : gmap string string :=
  encode_params (EncodeTimeout (FlowFrameworkDeprovisionParams_TimeoutParams q) ++ EncodeDebug (FlowFrameworkDeprovisionParams_DebugParams q) ++ FlowFrameworkDeprovisionParams_own q).
Record FlowFrameworkDeprovisionReq := MkFlowFrameworkDeprovisionReq { FlowFrameworkDeprovisionReq_WorkflowID : string; FlowFrameworkDeprovisionReq_Header : headers;
  FlowFrameworkDeprovisionReq_Params : option FlowFrameworkDeprovisionParams }.
Definition FlowFrameworkDeprovisionReq_GetRequest (r : FlowFrameworkDeprovisionReq) (method : string) : request_error + httpRequest * Z :=
  send method (FlowFrameworkDeprovisionPath_Build (MkFlowFrameworkDeprovisionPath (FlowFrameworkDeprovisionReq_WorkflowID r)))
    (match FlowFrameworkDeprovisionReq_Params r with Some q => FlowFrameworkDeprovisionParams_get q | None => ∅ end)
    no_body (FlowFrameworkDeprovisionReq_Header r).
Definition FlowFrameworkDeprovision_Method (r : FlowFrameworkDeprovisionReq) : string := "POST".
#[export] Instance FlowFrameworkDeprovision_operation : operation FlowFrameworkDeprovisionReq :=
  {| op_path := MkPathType "FlowFrameworkDeprovisionPath" FlowFrameworkDeprovisionPath _ _; op_P := FlowFrameworkDeprovisionParams; op_fields r := MkFlowFrameworkDeprovisionPath (FlowFrameworkDeprovisionReq_WorkflowID r);
     op_params := FlowFrameworkDeprovisionReq_Params; op_defaults := None; op_timeout := FlowFrameworkDeprovisionParams_TimeoutParams; op_debug := FlowFrameworkDeprovisionParams_DebugParams;
     op_format := None; op_own := FlowFrameworkDeprovisionParams_own; op_slots := FlowFrameworkDeprovisionParams_slots;
     op_body _ := no_body; op_headers r := FlowFrameworkDeprovisionReq_Header r;
     Method := FlowFrameworkDeprovision_Method; GetRequest := FlowFrameworkDeprovisionReq_GetRequest;
     op_keys := ["allow_delete"];
     op_described := [("POST", "/_plugins/_flow_framework/workflow/{workflow_id}/_deprovision")];
     op_query := ["allow_delete"] |}.
#[export] Instance FlowFrameworkDeprovision_operates : LawfulOp FlowFrameworkDeprovisionReq.
Proof. operate. Qed.

Record FlowFrameworkGetParams := MkFlowFrameworkGetParams { FlowFrameworkGetParams_TimeoutParams : TimeoutParams; FlowFrameworkGetParams_DebugParams : DebugParams }.
Definition FlowFrameworkGetParams_own (q : FlowFrameworkGetParams) : list param :=
  [].
Definition FlowFrameworkGetParams_slots : list (string * (FlowFrameworkGetParams -> slot)) :=
  [].
Definition FlowFrameworkGetParams_get (q : FlowFrameworkGetParams) : gmap string string :=
  encode_params (EncodeTimeout (FlowFrameworkGetParams_TimeoutParams q) ++ EncodeDebug (FlowFrameworkGetParams_DebugParams q) ++ FlowFrameworkGetParams_own q).
Record FlowFrameworkGetReq := MkFlowFrameworkGetReq { FlowFrameworkGetReq_WorkflowID : string; FlowFrameworkGetReq_Header : headers; FlowFrameworkGetReq_Params : option FlowFrameworkGetParams }.
Definition FlowFrameworkGetReq_GetRequest (r : FlowFrameworkGetReq) (method : string) : request_error + httpRequest * Z :=
  send method (FlowFrameworkGetPath_Build (MkFlowFrameworkGetPath (FlowFrameworkGetReq_WorkflowID r)))
    (match FlowFrameworkGetReq_Params r with Some q => FlowFrameworkGetParams_get q | None => ∅ end)
    no_body (FlowFrameworkGetReq_Header r).
Definition FlowFrameworkGet_Method (r : FlowFrameworkGetReq) : string := "GET".
#[export] Instance FlowFrameworkGet_operation : operation FlowFrameworkGetReq :=
  {| op_path := MkPathType "FlowFrameworkGetPath" FlowFrameworkGetPath _ _; op_P := FlowFrameworkGetParams; op_fields r := MkFlowFrameworkGetPath (FlowFrameworkGetReq_WorkflowID r);
     op_params := FlowFrameworkGetReq_Params; op_defaults := None; op_timeout := FlowFrameworkGetParams_TimeoutParams; op_debug := FlowFrameworkGetParams_DebugParams;
     op_format := None; op_own := FlowFrameworkGetParams_own; op_slots := FlowFrameworkGetParams_slots;
     op_body _ := no_body; op_headers r := FlowFrameworkGetReq_Header r;
     Method := FlowFrameworkGet_Method; GetRequest := FlowFrameworkGetReq_GetRequest;
     op_keys := [];
     op_described := [("GET", "/_plugins/_flow_framework/workflow/{workflow_id}")];
     op_query := [] |}.
#[export] Instance FlowFrameworkGet_operates : LawfulOp FlowFrameworkGetReq.
Proof. operate. Qed.

Record FlowFrameworkGetStatusParams := MkFlowFrameworkGetStatusParams { FlowFrameworkGetStatusParams_TimeoutParams : TimeoutParams; FlowFrameworkGetStatusParams_DebugParams : DebugParams;
  FlowFrameworkGetStatusParams_All : option bool }.
Definition FlowFrameworkGetStatusParams_own (q : FlowFrameworkGetStatusParams) : list param :=
  [("all", boolPtr (FlowFrameworkGetStatusParams_All q))].
Definition FlowFrameworkGetStatusParams_slots : list (string * (FlowFrameworkGetStatusParams -> slot)) :=
  [("All", fun q => BoolPtr (FlowFrameworkGetStatusParams_All q))].
Definition FlowFrameworkGetStatusParams_get (q : FlowFrameworkGetStatusParams) : gmap string string :=
  encode_params (EncodeTimeout (FlowFrameworkGetStatusParams_TimeoutParams q) ++ EncodeDebug (FlowFrameworkGetStatusParams_DebugParams q) ++ FlowFrameworkGetStatusParams_own q).
Record FlowFrameworkGetStatusReq := MkFlowFrameworkGetStatusReq { FlowFrameworkGetStatusReq_WorkflowID : string; FlowFrameworkGetStatusReq_Header : headers;
  FlowFrameworkGetStatusReq_Params : option FlowFrameworkGetStatusParams }.
Definition FlowFrameworkGetStatusReq_GetRequest (r : FlowFrameworkGetStatusReq) (method : string) : request_error + httpRequest * Z :=
  send method (FlowFrameworkGetStatusPath_Build (MkFlowFrameworkGetStatusPath (FlowFrameworkGetStatusReq_WorkflowID r)))
    (match FlowFrameworkGetStatusReq_Params r with Some q => FlowFrameworkGetStatusParams_get q | None => ∅ end)
    no_body (FlowFrameworkGetStatusReq_Header r).
Definition FlowFrameworkGetStatus_Method (r : FlowFrameworkGetStatusReq) : string := "GET".
#[export] Instance FlowFrameworkGetStatus_operation : operation FlowFrameworkGetStatusReq :=
  {| op_path := MkPathType "FlowFrameworkGetStatusPath" FlowFrameworkGetStatusPath _ _; op_P := FlowFrameworkGetStatusParams; op_fields r := MkFlowFrameworkGetStatusPath (FlowFrameworkGetStatusReq_WorkflowID r);
     op_params := FlowFrameworkGetStatusReq_Params; op_defaults := None; op_timeout := FlowFrameworkGetStatusParams_TimeoutParams; op_debug := FlowFrameworkGetStatusParams_DebugParams;
     op_format := None; op_own := FlowFrameworkGetStatusParams_own; op_slots := FlowFrameworkGetStatusParams_slots;
     op_body _ := no_body; op_headers r := FlowFrameworkGetStatusReq_Header r;
     Method := FlowFrameworkGetStatus_Method; GetRequest := FlowFrameworkGetStatusReq_GetRequest;
     op_keys := ["all"];
     op_described := [("GET", "/_plugins/_flow_framework/workflow/{workflow_id}/_status")];
     op_query := ["all"] |}.
#[export] Instance FlowFrameworkGetStatus_operates : LawfulOp FlowFrameworkGetStatusReq.
Proof. operate. Qed.

Record FlowFrameworkGetStepsParams := MkFlowFrameworkGetStepsParams { FlowFrameworkGetStepsParams_TimeoutParams : TimeoutParams; FlowFrameworkGetStepsParams_DebugParams : DebugParams;
  FlowFrameworkGetStepsParams_WorkflowStep : string }.
Definition FlowFrameworkGetStepsParams_own (q : FlowFrameworkGetStepsParams) : list param :=
  [("workflow_step", nonEmpty (FlowFrameworkGetStepsParams_WorkflowStep q))].
Definition FlowFrameworkGetStepsParams_slots : list (string * (FlowFrameworkGetStepsParams -> slot)) :=
  [("WorkflowStep", fun q => Text (FlowFrameworkGetStepsParams_WorkflowStep q))].
Definition FlowFrameworkGetStepsParams_get (q : FlowFrameworkGetStepsParams) : gmap string string :=
  encode_params (EncodeTimeout (FlowFrameworkGetStepsParams_TimeoutParams q) ++ EncodeDebug (FlowFrameworkGetStepsParams_DebugParams q) ++ FlowFrameworkGetStepsParams_own q).
Record FlowFrameworkGetStepsReq := MkFlowFrameworkGetStepsReq { FlowFrameworkGetStepsReq_Header : headers; FlowFrameworkGetStepsReq_Params : option FlowFrameworkGetStepsParams }.
Definition FlowFrameworkGetStepsReq_GetRequest (r : FlowFrameworkGetStepsReq) (method : string) : request_error + httpRequest * Z :=
  send method (FlowFrameworkGetStepsPath_Build (MkFlowFrameworkGetStepsPath))
    (match FlowFrameworkGetStepsReq_Params r with Some q => FlowFrameworkGetStepsParams_get q | None => ∅ end)
    no_body (FlowFrameworkGetStepsReq_Header r).
Definition FlowFrameworkGetSteps_Method (r : FlowFrameworkGetStepsReq) : string := "GET".
#[export] Instance FlowFrameworkGetSteps_operation : operation FlowFrameworkGetStepsReq :=
  {| op_path := MkPathType "FlowFrameworkGetStepsPath" FlowFrameworkGetStepsPath _ _; op_P := FlowFrameworkGetStepsParams; op_fields r := MkFlowFrameworkGetStepsPath;
     op_params := FlowFrameworkGetStepsReq_Params; op_defaults := None; op_timeout := FlowFrameworkGetStepsParams_TimeoutParams; op_debug := FlowFrameworkGetStepsParams_DebugParams;
     op_format := None; op_own := FlowFrameworkGetStepsParams_own; op_slots := FlowFrameworkGetStepsParams_slots;
     op_body _ := no_body; op_headers r := FlowFrameworkGetStepsReq_Header r;
     Method := FlowFrameworkGetSteps_Method; GetRequest := FlowFrameworkGetStepsReq_GetRequest;
     op_keys := ["workflow_step"];
     op_described := [("GET", "/_plugins/_flow_framework/workflow/_steps")];
     op_query := ["workflow_step"] |}.
#[export] Instance FlowFrameworkGetSteps_operates : LawfulOp FlowFrameworkGetStepsReq.
Proof. operate. Qed.

Record FlowFrameworkProvisionParams := MkFlowFrameworkProvisionParams { FlowFrameworkProvisionParams_TimeoutParams : TimeoutParams; FlowFrameworkProvisionParams_DebugParams : DebugParams }.
Definition FlowFrameworkProvisionParams_own (q : FlowFrameworkProvisionParams) : list param :=
  [].
Definition FlowFrameworkProvisionParams_slots : list (string * (FlowFrameworkProvisionParams -> slot)) :=
  [].
Definition FlowFrameworkProvisionParams_get (q : FlowFrameworkProvisionParams) : gmap string string :=
  encode_params (EncodeTimeout (FlowFrameworkProvisionParams_TimeoutParams q) ++ EncodeDebug (FlowFrameworkProvisionParams_DebugParams q) ++ FlowFrameworkProvisionParams_own q).
Record FlowFrameworkProvisionReq := MkFlowFrameworkProvisionReq { FlowFrameworkProvisionReq_WorkflowID : string; FlowFrameworkProvisionReq_Body : reader; FlowFrameworkProvisionReq_Header : headers;
  FlowFrameworkProvisionReq_Params : option FlowFrameworkProvisionParams }.
Definition FlowFrameworkProvisionReq_GetRequest (r : FlowFrameworkProvisionReq) (method : string) : request_error + httpRequest * Z :=
  send method (FlowFrameworkProvisionPath_Build (MkFlowFrameworkProvisionPath (FlowFrameworkProvisionReq_WorkflowID r)))
    (match FlowFrameworkProvisionReq_Params r with Some q => FlowFrameworkProvisionParams_get q | None => ∅ end)
    (raw_body (FlowFrameworkProvisionReq_Body r)) (FlowFrameworkProvisionReq_Header r).
Definition FlowFrameworkProvision_Method (r : FlowFrameworkProvisionReq) : string := "POST".
#[export] Instance FlowFrameworkProvision_operation : operation FlowFrameworkProvisionReq :=
  {| op_path := MkPathType "FlowFrameworkProvisionPath" FlowFrameworkProvisionPath _ _; op_P := FlowFrameworkProvisionParams; op_fields r := MkFlowFrameworkProvisionPath (FlowFrameworkProvisionReq_WorkflowID r);
     op_params := FlowFrameworkProvisionReq_Params; op_defaults := None; op_timeout := FlowFrameworkProvisionParams_TimeoutParams; op_debug := FlowFrameworkProvisionParams_DebugParams;
     op_format := None; op_own := FlowFrameworkProvisionParams_own; op_slots := FlowFrameworkProvisionParams_slots;
     op_body r := raw_body (FlowFrameworkProvisionReq_Body r); op_headers r := FlowFrameworkProvisionReq_Header r;
     Method := FlowFrameworkProvision_Method; GetRequest := FlowFrameworkProvisionReq_GetRequest;
     op_keys := [];
     op_described := [("POST", "/_plugins/_flow_framework/workflow/{workflow_id}/_provision")];
     op_query := [] |}.
#[export] Instance FlowFrameworkProvision_operates : LawfulOp FlowFrameworkProvisionReq.
Proof. operate. Qed.

Record FlowFrameworkSearchParams := MkFlowFrameworkSearchParams { FlowFrameworkSearchParams_TimeoutParams : TimeoutParams; FlowFrameworkSearchParams_DebugParams : DebugParams }.
Definition FlowFrameworkSearchParams_own (q : FlowFrameworkSearchParams) : list param :=
  [].
Definition FlowFrameworkSearchParams_slots : list (string * (FlowFrameworkSearchParams -> slot)) :=
  [].
Definition FlowFrameworkSearchParams_get (q : FlowFrameworkSearchParams) : gmap string string :=
  encode_params (EncodeTimeout (FlowFrameworkSearchParams_TimeoutParams q) ++ EncodeDebug (FlowFrameworkSearchParams_DebugParams q) ++ FlowFrameworkSearchParams_own q).
Record FlowFrameworkSearchReq := MkFlowFrameworkSearchReq { FlowFrameworkSearchReq_Body : option (option string); FlowFrameworkSearchReq_BodyReader : reader; FlowFrameworkSearchReq_Header : headers;
  FlowFrameworkSearchReq_Params : option FlowFrameworkSearchParams }.
Definition FlowFrameworkSearchReq_GetRequest (r : FlowFrameworkSearchReq) (method : string) : request_error + httpRequest * Z :=
  send method (FlowFrameworkSearchPath_Build (MkFlowFrameworkSearchPath))
    (match FlowFrameworkSearchReq_Params r with Some q => FlowFrameworkSearchParams_get q | None => ∅ end)
    (json_body (FlowFrameworkSearchReq_Body r) (FlowFrameworkSearchReq_BodyReader r)) (FlowFrameworkSearchReq_Header r).
Definition FlowFrameworkSearch_Method (r : FlowFrameworkSearchReq) : string := "POST".
#[export] Instance FlowFrameworkSearch_operation : operation FlowFrameworkSearchReq :=
  {| op_path := MkPathType "FlowFrameworkSearchPath" FlowFrameworkSearchPath _ _; op_P := FlowFrameworkSearchParams; op_fields r := MkFlowFrameworkSearchPath;
     op_params := FlowFrameworkSearchReq_Params; op_defaults := None; op_timeout := FlowFrameworkSearchParams_TimeoutParams; op_debug := FlowFrameworkSearchParams_DebugParams;
     op_format := None; op_own := FlowFrameworkSearchParams_own; op_slots := FlowFrameworkSearchParams_slots;
     op_body r := json_body (FlowFrameworkSearchReq_Body r) (FlowFrameworkSearchReq_BodyReader r); op_headers r := FlowFrameworkSearchReq_Header r;
     Method := FlowFrameworkSearch_Method; GetRequest := FlowFrameworkSearchReq_GetRequest;
     op_keys := [];
     op_described := [("GET", "/_plugins/_flow_framework/workflow/_search"); ("POST", "/_plugins/_flow_framework/workflow/_search")];
     op_query := [] |}.
#[export] Instance FlowFrameworkSearch_operates : LawfulOp FlowFrameworkSearchReq.
Proof. operate. Qed.

Record FlowFrameworkSearchStateParams := MkFlowFrameworkSearchStateParams { FlowFrameworkSearchStateParams_TimeoutParams : TimeoutParams; FlowFrameworkSearchStateParams_DebugParams : DebugParams }.
Definition FlowFrameworkSearchStateParams_own (q : FlowFrameworkSearchStateParams) : list param :=
  [].
Definition FlowFrameworkSearchStateParams_slots : list (string * (FlowFrameworkSearchStateParams -> slot)) :=
  [].
Definition FlowFrameworkSearchStateParams_get (q : FlowFrameworkSearchStateParams) : gmap string string :=
  encode_params (EncodeTimeout (FlowFrameworkSearchStateParams_TimeoutParams q) ++ EncodeDebug (FlowFrameworkSearchStateParams_DebugParams q) ++ FlowFrameworkSearchStateParams_own q).
Record FlowFrameworkSearchStateReq := MkFlowFrameworkSearchStateReq { FlowFrameworkSearchStateReq_Body : option (option string); FlowFrameworkSearchStateReq_BodyReader : reader;
  FlowFrameworkSearchStateReq_Header : headers; FlowFrameworkSearchStateReq_Params : option FlowFrameworkSearchStateParams }.
Definition FlowFrameworkSearchStateReq_GetRequest (r : FlowFrameworkSearchStateReq) (method : string) : request_error + httpRequest * Z :=
  send method (FlowFrameworkSearchStatePath_Build (MkFlowFrameworkSearchStatePath))
    (match FlowFrameworkSearchStateReq_Params r with Some q => FlowFrameworkSearchStateParams_get q | None => ∅ end)
    (json_body (FlowFrameworkSearchStateReq_Body r) (FlowFrameworkSearchStateReq_BodyReader r)) (FlowFrameworkSearchStateReq_Header r).
Definition FlowFrameworkSearchState_Method (r : FlowFrameworkSearchStateReq) : string := "POST".
#[export] Instance FlowFrameworkSearchState_operation : operation FlowFrameworkSearchStateReq :=
  {| op_path := MkPathType "FlowFrameworkSearchStatePath" FlowFrameworkSearchStatePath _ _; op_P := FlowFrameworkSearchStateParams; op_fields r := MkFlowFrameworkSearchStatePath;
     op_params := FlowFrameworkSearchStateReq_Params; op_defaults := None; op_timeout := FlowFrameworkSearchStateParams_TimeoutParams; op_debug := FlowFrameworkSearchStateParams_DebugParams;
     op_format := None; op_own := FlowFrameworkSearchStateParams_own; op_slots := FlowFrameworkSearchStateParams_slots;
     op_body r := json_body (FlowFrameworkSearchStateReq_Body r) (FlowFrameworkSearchStateReq_BodyReader r); op_headers r := FlowFrameworkSearchStateReq_Header r;
     Method := FlowFrameworkSearchState_Method; GetRequest := FlowFrameworkSearchStateReq_GetRequest;
     op_keys := [];
     op_described := [("GET", "/_plugins/_flow_framework/workflow/state/_search"); ("POST", "/_plugins/_flow_framework/workflow/state/_search")];
     op_query := [] |}.
#[export] Instance FlowFrameworkSearchState_operates : LawfulOp FlowFrameworkSearchStateReq.
Proof. operate. Qed.

Record FlowFrameworkUpdateParams := MkFlowFrameworkUpdateParams { FlowFrameworkUpdateParams_TimeoutParams : TimeoutParams; FlowFrameworkUpdateParams_DebugParams : DebugParams;
  FlowFrameworkUpdateParams_Provision : option bool; FlowFrameworkUpdateParams_Reprovision : option bool;
  FlowFrameworkUpdateParams_UpdateFields : option bool; FlowFrameworkUpdateParams_UseCase : string; FlowFrameworkUpdateParams_Validation : string }.
Definition FlowFrameworkUpdateParams_own (q : FlowFrameworkUpdateParams) : list param :=
  [("provision", boolPtr (FlowFrameworkUpdateParams_Provision q)); ("reprovision", boolPtr (FlowFrameworkUpdateParams_Reprovision q));
  ("update_fields", boolPtr (FlowFrameworkUpdateParams_UpdateFields q)); ("use_case", nonEmpty (FlowFrameworkUpdateParams_UseCase q));
  ("validation", nonEmpty (FlowFrameworkUpdateParams_Validation q))].
Definition FlowFrameworkUpdateParams_slots : list (string * (FlowFrameworkUpdateParams -> slot)) :=
  [("Provision", fun q => BoolPtr (FlowFrameworkUpdateParams_Provision q)); ("Reprovision", fun q => BoolPtr (FlowFrameworkUpdateParams_Reprovision q));
  ("UpdateFields", fun q => BoolPtr (FlowFrameworkUpdateParams_UpdateFields q)); ("UseCase", fun q => Text (FlowFrameworkUpdateParams_UseCase q));
  ("Validation", fun q => Text (FlowFrameworkUpdateParams_Validation q))].
Definition FlowFrameworkUpdateParams_get (q : FlowFrameworkUpdateParams) : gmap string string :=
  encode_params (EncodeTimeout (FlowFrameworkUpdateParams_TimeoutParams q) ++ EncodeDebug (FlowFrameworkUpdateParams_DebugParams q) ++ FlowFrameworkUpdateParams_own q).
Record FlowFrameworkUpdateReq := MkFlowFrameworkUpdateReq { FlowFrameworkUpdateReq_WorkflowID : string; FlowFrameworkUpdateReq_Body : option (option string); FlowFrameworkUpdateReq_BodyReader : reader;
  FlowFrameworkUpdateReq_Header : headers; FlowFrameworkUpdateReq_Params : option FlowFrameworkUpdateParams }.
Definition FlowFrameworkUpdateReq_GetRequest (r : FlowFrameworkUpdateReq) (method : string) : request_error + httpRequest * Z :=
  send method (FlowFrameworkUpdatePath_Build (MkFlowFrameworkUpdatePath (FlowFrameworkUpdateReq_WorkflowID r)))
    (match FlowFrameworkUpdateReq_Params r with Some q => FlowFrameworkUpdateParams_get q | None => ∅ end)
    (json_body (FlowFrameworkUpdateReq_Body r) (FlowFrameworkUpdateReq_BodyReader r)) (FlowFrameworkUpdateReq_Header r).
Definition FlowFrameworkUpdate_Method (r : FlowFrameworkUpdateReq) : string := "PUT".
#[export] Instance FlowFrameworkUpdate_operation : operation FlowFrameworkUpdateReq :=
  {| op_path := MkPathType "FlowFrameworkUpdatePath" FlowFrameworkUpdatePath _ _; op_P := FlowFrameworkUpdateParams; op_fields r := MkFlowFrameworkUpdatePath (FlowFrameworkUpdateReq_WorkflowID r);
     op_params := FlowFrameworkUpdateReq_Params; op_defaults := None; op_timeout := FlowFrameworkUpdateParams_TimeoutParams; op_debug := FlowFrameworkUpdateParams_DebugParams;
     op_format := None; op_own := FlowFrameworkUpdateParams_own; op_slots := FlowFrameworkUpdateParams_slots;
     op_body r := json_body (FlowFrameworkUpdateReq_Body r) (FlowFrameworkUpdateReq_BodyReader r); op_headers r := FlowFrameworkUpdateReq_Header r;
     Method := FlowFrameworkUpdate_Method; GetRequest := FlowFrameworkUpdateReq_GetRequest;
     op_keys := ["provision"; "reprovision"; "update_fields"; "use_case"; "validation"];
     op_described := [("PUT", "/_plugins/_flow_framework/workflow/{workflow_id}")];
     op_query := ["provision"; "reprovision"; "update_fields"; "use_case"; "validation"] |}.
#[export] Instance FlowFrameworkUpdate_operates : LawfulOp FlowFrameworkUpdateReq.
Proof. operate. Qed.

Record KNNDeleteModelParams := MkKNNDeleteModelParams { KNNDeleteModelParams_TimeoutParams : TimeoutParams; KNNDeleteModelParams_DebugParams : DebugParams }.
Definition KNNDeleteModelParams_own (q : KNNDeleteModelParams) : list param :=
  [].
Definition KNNDeleteModelParams_slots : list (string * (KNNDeleteModelParams -> slot)) :=
  [].
Definition KNNDeleteModelParams_get (q : KNNDeleteModelParams) : gmap string string :=
  encode_params (EncodeTimeout (KNNDeleteModelParams_TimeoutParams q) ++ EncodeDebug (KNNDeleteModelParams_DebugParams q) ++ KNNDeleteModelParams_own q).
Record KNNDeleteModelReq := MkKNNDeleteModelReq { KNNDeleteModelReq_ModelID : string; KNNDeleteModelReq_Header : headers; KNNDeleteModelReq_Params : option KNNDeleteModelParams }.
Definition KNNDeleteModelReq_GetRequest (r : KNNDeleteModelReq) (method : string) : request_error + httpRequest * Z :=
  send method (KNNDeleteModelPath_Build (MkKNNDeleteModelPath (KNNDeleteModelReq_ModelID r)))
    (match KNNDeleteModelReq_Params r with Some q => KNNDeleteModelParams_get q | None => ∅ end)
    no_body (KNNDeleteModelReq_Header r).
Definition KNNDeleteModel_Method (r : KNNDeleteModelReq) : string := "DELETE".
#[export] Instance KNNDeleteModel_operation : operation KNNDeleteModelReq :=
  {| op_path := MkPathType "KNNDeleteModelPath" KNNDeleteModelPath _ _; op_P := KNNDeleteModelParams; op_fields r := MkKNNDeleteModelPath (KNNDeleteModelReq_ModelID r);
     op_params := KNNDeleteModelReq_Params; op_defaults := None; op_timeout := KNNDeleteModelParams_TimeoutParams; op_debug := KNNDeleteModelParams_DebugParams;
     op_format := None; op_own := KNNDeleteModelParams_own; op_slots := KNNDeleteModelParams_slots;
     op_body _ := no_body; op_headers r := KNNDeleteModelReq_Header r;
     Method := KNNDeleteModel_Method; GetRequest := KNNDeleteModelReq_GetRequest;
     op_keys := [];
     op_described := [("DELETE", "/_plugins/_knn/models/{model_id}")];
     op_query := [] |}.
#[export] Instance KNNDeleteModel_operates : LawfulOp KNNDeleteModelReq.
Proof. operate. Qed.

Record KNNGetModelParams := MkKNNGetModelParams { KNNGetModelParams_TimeoutParams : TimeoutParams; KNNGetModelParams_DebugParams : DebugParams }.
Definition KNNGetModelParams_own (q : KNNGetModelParams) : list param :=
  [].
Definition KNNGetModelParams_slots : list (string * (KNNGetModelParams -> slot)) :=
  [].
Definition KNNGetModelParams_get (q : KNNGetModelParams) : gmap string string :=
  encode_params (EncodeTimeout (KNNGetModelParams_TimeoutParams q) ++ EncodeDebug (KNNGetModelParams_DebugParams q) ++ KNNGetModelParams_own q).
Record KNNGetModelReq := MkKNNGetModelReq { KNNGetModelReq_ModelID : string; KNNGetModelReq_Header : headers; KNNGetModelReq_Params : option KNNGetModelParams }.
Definition KNNGetModelReq_GetRequest (r : KNNGetModelReq) (method : string) : request_error + httpRequest * Z :=
  send method (KNNGetModelPath_Build (MkKNNGetModelPath (KNNGetModelReq_ModelID r)))
    (match KNNGetModelReq_Params r with Some q => KNNGetModelParams_get q | None => ∅ end)
    no_body (KNNGetModelReq_Header r).
Definition KNNGetModel_Method (r : KNNGetModelReq) : string := "GET".
#[export] Instance KNNGetModel_operation : operation KNNGetModelReq :=
  {| op_path := MkPathType "KNNGetModelPath" KNNGetModelPath _ _; op_P := KNNGetModelParams; op_fields r := MkKNNGetModelPath (KNNGetModelReq_ModelID r);
     op_params := KNNGetModelReq_Params; op_defaults := None; op_timeout := KNNGetModelParams_TimeoutParams; op_debug := KNNGetModelParams_DebugParams;
     op_format := None; op_own := KNNGetModelParams_own; op_slots := KNNGetModelParams_slots;
     op_body _ := no_body; op_headers r := KNNGetModelReq_Header r;
     Method := KNNGetModel_Method; GetRequest := KNNGetModelReq_GetRequest;
     op_keys := [];
     op_described := [("GET", "/_plugins/_knn/models/{model_id}")];
     op_query := [] |}.
#[export] Instance KNNGetModel_operates : LawfulOp KNNGetModelReq.
Proof. operate. Qed.

Record KNNSearchModelsParams := MkKNNSearchModelsParams { KNNSearchModelsParams_TimeoutParams : TimeoutParams; KNNSearchModelsParams_DebugParams : DebugParams; KNNSearchModelsParams_Source : list string;
  KNNSearchModelsParams_SourceExcludes : list string; KNNSearchModelsParams_SourceIncludes : list string;
  KNNSearchModelsParams_AllowNoIndices : option bool; KNNSearchModelsParams_AllowPartialSearchResults : option bool;
  KNNSearchModelsParams_AnalyzeWildcard : option bool; KNNSearchModelsParams_Analyzer : string; KNNSearchModelsParams_BatchedReduceSize : Z;
  KNNSearchModelsParams_CcsMinimizeRoundtrips : option bool; KNNSearchModelsParams_DefaultOperator : string; KNNSearchModelsParams_Df : string;
  KNNSearchModelsParams_DocvalueFields : list string; KNNSearchModelsParams_ExpandWildcards : list string; KNNSearchModelsParams_Explain : option bool;
  KNNSearchModelsParams_From : Z; KNNSearchModelsParams_IgnoreThrottled : option bool; KNNSearchModelsParams_IgnoreUnavailable : option bool;
  KNNSearchModelsParams_Lenient : option bool; KNNSearchModelsParams_MaxConcurrentShardRequests : Z; KNNSearchModelsParams_PreFilterShardSize : Z;
  KNNSearchModelsParams_Preference : string; KNNSearchModelsParams_Q : string; KNNSearchModelsParams_RequestCache : option bool;
  KNNSearchModelsParams_RestTotalHitsAsInt : option bool; KNNSearchModelsParams_Routing : list string; KNNSearchModelsParams_Scroll : Z;
  KNNSearchModelsParams_SearchType : string; KNNSearchModelsParams_SeqNoPrimaryTerm : option bool; KNNSearchModelsParams_Size : Z;
  KNNSearchModelsParams_Sort : list string; KNNSearchModelsParams_Stats : list string; KNNSearchModelsParams_StoredFields : list string;
  KNNSearchModelsParams_SuggestField : string; KNNSearchModelsParams_SuggestMode : string; KNNSearchModelsParams_SuggestSize : Z;
  KNNSearchModelsParams_SuggestText : string; KNNSearchModelsParams_TerminateAfter : Z; KNNSearchModelsParams_TrackScores : option bool;
  KNNSearchModelsParams_TrackTotalHits : option bool; KNNSearchModelsParams_TypedKeys : option bool; KNNSearchModelsParams_Version : option bool }.
Definition KNNSearchModelsParams_own (q : KNNSearchModelsParams) : list param :=
  [("_source", joined (KNNSearchModelsParams_Source q)); ("_source_excludes", joined (KNNSearchModelsParams_SourceExcludes q));
  ("_source_includes", joined (KNNSearchModelsParams_SourceIncludes q)); ("allow_no_indices", boolPtr (KNNSearchModelsParams_AllowNoIndices q));
  ("allow_partial_search_results", boolPtr (KNNSearchModelsParams_AllowPartialSearchResults q));
  ("analyze_wildcard", boolPtr (KNNSearchModelsParams_AnalyzeWildcard q)); ("analyzer", nonEmpty (KNNSearchModelsParams_Analyzer q));
  ("batched_reduce_size", nonZero (KNNSearchModelsParams_BatchedReduceSize q));
  ("ccs_minimize_roundtrips", boolPtr (KNNSearchModelsParams_CcsMinimizeRoundtrips q));
  ("default_operator", nonEmpty (KNNSearchModelsParams_DefaultOperator q)); ("df", nonEmpty (KNNSearchModelsParams_Df q));
  ("docvalue_fields", joined (KNNSearchModelsParams_DocvalueFields q)); ("expand_wildcards", joined (KNNSearchModelsParams_ExpandWildcards q));
  ("explain", boolPtr (KNNSearchModelsParams_Explain q)); ("from", nonZero (KNNSearchModelsParams_From q));
  ("ignore_throttled", boolPtr (KNNSearchModelsParams_IgnoreThrottled q)); ("ignore_unavailable", boolPtr (KNNSearchModelsParams_IgnoreUnavailable q));
  ("lenient", boolPtr (KNNSearchModelsParams_Lenient q));
  ("max_concurrent_shard_requests", nonZero (KNNSearchModelsParams_MaxConcurrentShardRequests q));
  ("pre_filter_shard_size", nonZero (KNNSearchModelsParams_PreFilterShardSize q)); ("preference", nonEmpty (KNNSearchModelsParams_Preference q));
  ("q", nonEmpty (KNNSearchModelsParams_Q q)); ("request_cache", boolPtr (KNNSearchModelsParams_RequestCache q));
  ("rest_total_hits_as_int", boolPtr (KNNSearchModelsParams_RestTotalHitsAsInt q)); ("routing", joined (KNNSearchModelsParams_Routing q));
  ("scroll", duration (KNNSearchModelsParams_Scroll q)); ("search_type", nonEmpty (KNNSearchModelsParams_SearchType q));
  ("seq_no_primary_term", boolPtr (KNNSearchModelsParams_SeqNoPrimaryTerm q)); ("size", nonZero (KNNSearchModelsParams_Size q));
  ("sort", joined (KNNSearchModelsParams_Sort q)); ("stats", joined (KNNSearchModelsParams_Stats q));
  ("stored_fields", joined (KNNSearchModelsParams_StoredFields q)); ("suggest_field", nonEmpty (KNNSearchModelsParams_SuggestField q));
  ("suggest_mode", nonEmpty (KNNSearchModelsParams_SuggestMode q)); ("suggest_size", nonZero (KNNSearchModelsParams_SuggestSize q));
  ("suggest_text", nonEmpty (KNNSearchModelsParams_SuggestText q)); ("terminate_after", nonZero (KNNSearchModelsParams_TerminateAfter q));
  ("track_scores", boolPtr (KNNSearchModelsParams_TrackScores q)); ("track_total_hits", boolPtr (KNNSearchModelsParams_TrackTotalHits q));
  ("typed_keys", boolPtr (KNNSearchModelsParams_TypedKeys q)); ("version", boolPtr (KNNSearchModelsParams_Version q))].
Definition KNNSearchModelsParams_slots : list (string * (KNNSearchModelsParams -> slot)) :=
  [("Source", fun q => TextList (KNNSearchModelsParams_Source q)); ("SourceExcludes", fun q => TextList (KNNSearchModelsParams_SourceExcludes q));
  ("SourceIncludes", fun q => TextList (KNNSearchModelsParams_SourceIncludes q));
  ("AllowNoIndices", fun q => BoolPtr (KNNSearchModelsParams_AllowNoIndices q));
  ("AllowPartialSearchResults", fun q => BoolPtr (KNNSearchModelsParams_AllowPartialSearchResults q));
  ("AnalyzeWildcard", fun q => BoolPtr (KNNSearchModelsParams_AnalyzeWildcard q)); ("Analyzer", fun q => Text (KNNSearchModelsParams_Analyzer q));
  ("BatchedReduceSize", fun q => Int (KNNSearchModelsParams_BatchedReduceSize q));
  ("CcsMinimizeRoundtrips", fun q => BoolPtr (KNNSearchModelsParams_CcsMinimizeRoundtrips q));
  ("DefaultOperator", fun q => Text (KNNSearchModelsParams_DefaultOperator q)); ("Df", fun q => Text (KNNSearchModelsParams_Df q));
  ("DocvalueFields", fun q => TextList (KNNSearchModelsParams_DocvalueFields q));
  ("ExpandWildcards", fun q => TextList (KNNSearchModelsParams_ExpandWildcards q)); ("Explain", fun q => BoolPtr (KNNSearchModelsParams_Explain q));
  ("From", fun q => Int (KNNSearchModelsParams_From q)); ("IgnoreThrottled", fun q => BoolPtr (KNNSearchModelsParams_IgnoreThrottled q));
  ("IgnoreUnavailable", fun q => BoolPtr (KNNSearchModelsParams_IgnoreUnavailable q)); ("Lenient", fun q => BoolPtr (KNNSearchModelsParams_Lenient q));
  ("MaxConcurrentShardRequests", fun q => Int (KNNSearchModelsParams_MaxConcurrentShardRequests q));
  ("PreFilterShardSize", fun q => Int (KNNSearchModelsParams_PreFilterShardSize q));
  ("Preference", fun q => Text (KNNSearchModelsParams_Preference q)); ("Q", fun q => Text (KNNSearchModelsParams_Q q));
  ("RequestCache", fun q => BoolPtr (KNNSearchModelsParams_RequestCache q));
  ("RestTotalHitsAsInt", fun q => BoolPtr (KNNSearchModelsParams_RestTotalHitsAsInt q));
  ("Routing", fun q => TextList (KNNSearchModelsParams_Routing q)); ("Scroll", fun q => Duration (KNNSearchModelsParams_Scroll q));
  ("SearchType", fun q => Text (KNNSearchModelsParams_SearchType q));
  ("SeqNoPrimaryTerm", fun q => BoolPtr (KNNSearchModelsParams_SeqNoPrimaryTerm q)); ("Size", fun q => Int (KNNSearchModelsParams_Size q));
  ("Sort", fun q => TextList (KNNSearchModelsParams_Sort q)); ("Stats", fun q => TextList (KNNSearchModelsParams_Stats q));
  ("StoredFields", fun q => TextList (KNNSearchModelsParams_StoredFields q)); ("SuggestField", fun q => Text (KNNSearchModelsParams_SuggestField q));
  ("SuggestMode", fun q => Text (KNNSearchModelsParams_SuggestMode q)); ("SuggestSize", fun q => Int (KNNSearchModelsParams_SuggestSize q));
  ("SuggestText", fun q => Text (KNNSearchModelsParams_SuggestText q)); ("TerminateAfter", fun q => Int (KNNSearchModelsParams_TerminateAfter q));
  ("TrackScores", fun q => BoolPtr (KNNSearchModelsParams_TrackScores q));
  ("TrackTotalHits", fun q => BoolPtr (KNNSearchModelsParams_TrackTotalHits q)); ("TypedKeys", fun q => BoolPtr (KNNSearchModelsParams_TypedKeys q));
  ("Version", fun q => BoolPtr (KNNSearchModelsParams_Version q))].
Definition KNNSearchModelsParams_get (q : KNNSearchModelsParams) : gmap string string :=
  encode_params (EncodeTimeout (KNNSearchModelsParams_TimeoutParams q) ++ EncodeDebug (KNNSearchModelsParams_DebugParams q) ++ KNNSearchModelsParams_own q).
Record KNNSearchModelsReq := MkKNNSearchModelsReq { KNNSearchModelsReq_Body : reader; KNNSearchModelsReq_Header : headers; KNNSearchModelsReq_Params : option KNNSearchModelsParams }.
Definition KNNSearchModelsReq_GetRequest (r : KNNSearchModelsReq) (method : string) : request_error + httpRequest * Z :=
  send method (KNNSearchModelsPath_Build (MkKNNSearchModelsPath))
    (match KNNSearchModelsReq_Params r with Some q => KNNSearchModelsParams_get q | None => ∅ end)
    (raw_body (KNNSearchModelsReq_Body r)) (KNNSearchModelsReq_Header r).
Definition KNNSearchModels_Method (r : KNNSearchModelsReq) : string := "GET".
#[export] Instance KNNSearchModels_operation : operation KNNSearchModelsReq :=
  {| op_path := MkPathType "KNNSearchModelsPath" KNNSearchModelsPath _ _; op_P := KNNSearchModelsParams; op_fields r := MkKNNSearchModelsPath;
     op_params := KNNSearchModelsReq_Params; op_defaults := None; op_timeout := KNNSearchModelsParams_TimeoutParams; op_debug := KNNSearchModelsParams_DebugParams;
     op_format := None; op_own := KNNSearchModelsParams_own; op_slots := KNNSearchModelsParams_slots;
     op_body r := raw_body (KNNSearchModelsReq_Body r); op_headers r := KNNSearchModelsReq_Header r;
     Method := KNNSearchModels_Method; GetRequest := KNNSearchModelsReq_GetRequest;
     op_keys := ["_source"; "_source_excludes"; "_source_includes"; "allow_no_indices"; "allow_partial_search_results"; "analyze_wildcard"; "analyzer";
        "batched_reduce_size"; "ccs_minimize_roundtrips"; "default_operator"; "df"; "docvalue_fields"; "expand_wildcards"; "explain"; "from";
        "ignore_throttled"; "ignore_unavailable"; "lenient"; "max_concurrent_shard_requests"; "pre_filter_shard_size"; "preference"; "q"; "request_cache";
        "rest_total_hits_as_int"; "routing"; "scroll"; "search_type"; "seq_no_primary_term"; "size"; "sort"; "stats"; "stored_fields"; "suggest_field";
        "suggest_mode"; "suggest_size"; "suggest_text"; "terminate_after"; "track_scores"; "track_total_hits"; "typed_keys"; "version"];
     op_described := [("GET", "/_plugins/_knn/models/_search"); ("POST", "/_plugins/_knn/models/_search")];
     op_query := ["_source"; "_source_excludes"; "_source_includes"; "allow_no_indices"; "allow_partial_search_results"; "analyze_wildcard"; "analyzer";
        "batched_reduce_size"; "ccs_minimize_roundtrips"; "default_operator"; "df"; "docvalue_fields"; "expand_wildcards"; "explain"; "from";
        "ignore_throttled"; "ignore_unavailable"; "lenient"; "max_concurrent_shard_requests"; "pre_filter_shard_size"; "preference"; "q"; "request_cache";
        "rest_total_hits_as_int"; "routing"; "scroll"; "search_type"; "seq_no_primary_term"; "size"; "sort"; "stats"; "stored_fields"; "suggest_field";
        "suggest_mode"; "suggest_size"; "suggest_text"; "terminate_after"; "track_scores"; "track_total_hits"; "typed_keys"; "version"] |}.
#[export] Instance KNNSearchModels_operates : LawfulOp KNNSearchModelsReq.
Proof. operate. Qed.

Record KNNStatsParams := MkKNNStatsParams { KNNStatsParams_TimeoutParams : TimeoutParams; KNNStatsParams_DebugParams : DebugParams }.
Definition KNNStatsParams_own (q : KNNStatsParams) : list param :=
  [].
Definition KNNStatsParams_slots : list (string * (KNNStatsParams -> slot)) :=
  [].
Definition KNNStatsParams_get (q : KNNStatsParams) : gmap string string :=
  encode_params (EncodeTimeout (KNNStatsParams_TimeoutParams q) ++ EncodeDebug (KNNStatsParams_DebugParams q) ++ KNNStatsParams_own q).
Record KNNStatsReq := MkKNNStatsReq { KNNStatsReq_Stat : list string; KNNStatsReq_NodeID : list string; KNNStatsReq_Header : headers; KNNStatsReq_Params : option KNNStatsParams }.
Definition KNNStatsReq_GetRequest (r : KNNStatsReq) (method : string) : request_error + httpRequest * Z :=
  send method (KNNStatsPath_Build (MkKNNStatsPath (KNNStatsReq_NodeID r) (KNNStatsReq_Stat r)))
    (match KNNStatsReq_Params r with Some q => KNNStatsParams_get q | None => ∅ end)
    no_body (KNNStatsReq_Header r).
Definition KNNStats_Method (r : KNNStatsReq) : string := "GET".
#[export] Instance KNNStats_operation : operation KNNStatsReq :=
  {| op_path := MkPathType "KNNStatsPath" KNNStatsPath _ _; op_P := KNNStatsParams; op_fields r := MkKNNStatsPath (KNNStatsReq_NodeID r) (KNNStatsReq_Stat r);
     op_params := KNNStatsReq_Params; op_defaults := None; op_timeout := KNNStatsParams_TimeoutParams; op_debug := KNNStatsParams_DebugParams;
     op_format := None; op_own := KNNStatsParams_own; op_slots := KNNStatsParams_slots;
     op_body _ := no_body; op_headers r := KNNStatsReq_Header r;
     Method := KNNStats_Method; GetRequest := KNNStatsReq_GetRequest;
     op_keys := [];
     op_described := [("GET", "/_plugins/_knn/{node_id}/stats"); ("GET", "/_plugins/_knn/{node_id}/stats/{stat}"); ("GET", "/_plugins/_knn/stats");
        ("GET", "/_plugins/_knn/stats/{stat}")];
     op_query := [] |}.
#[export] Instance KNNStats_operates : LawfulOp KNNStatsReq.
Proof. operate. Qed.

Record KNNTrainModelParams := MkKNNTrainModelParams { KNNTrainModelParams_TimeoutParams : TimeoutParams; KNNTrainModelParams_DebugParams : DebugParams; KNNTrainModelParams_Preference : string }.
Definition KNNTrainModelParams_own (q : KNNTrainModelParams) : list param :=
  [("preference", nonEmpty (KNNTrainModelParams_Preference q))].
Definition KNNTrainModelParams_slots : list (string * (KNNTrainModelParams -> slot)) :=
  [("Preference", fun q => Text (KNNTrainModelParams_Preference q))].
Definition KNNTrainModelParams_get (q : KNNTrainModelParams) : gmap string string :=
  encode_params (EncodeTimeout (KNNTrainModelParams_TimeoutParams q) ++ EncodeDebug (KNNTrainModelParams_DebugParams q) ++ KNNTrainModelParams_own q).
Record KNNTrainModelReq := MkKNNTrainModelReq { KNNTrainModelReq_ModelID : string; KNNTrainModelReq_Body : option (option string); KNNTrainModelReq_BodyReader : reader;
  KNNTrainModelReq_Header : headers; KNNTrainModelReq_Params : option KNNTrainModelParams }.
Definition KNNTrainModelReq_GetRequest (r : KNNTrainModelReq) (method : string) : request_error + httpRequest * Z :=
  send method (KNNTrainModelPath_Build (MkKNNTrainModelPath (KNNTrainModelReq_ModelID r)))
    (match KNNTrainModelReq_Params r with Some q => KNNTrainModelParams_get q | None => ∅ end)
    (json_body (KNNTrainModelReq_Body r) (KNNTrainModelReq_BodyReader r)) (KNNTrainModelReq_Header r).
Definition KNNTrainModel_Method (r : KNNTrainModelReq) : string := "POST".
#[export] Instance KNNTrainModel_operation : operation KNNTrainModelReq :=
  {| op_path := MkPathType "KNNTrainModelPath" KNNTrainModelPath _ _; op_P := KNNTrainModelParams; op_fields r := MkKNNTrainModelPath (KNNTrainModelReq_ModelID r);
     op_params := KNNTrainModelReq_Params; op_defaults := None; op_timeout := KNNTrainModelParams_TimeoutParams; op_debug := KNNTrainModelParams_DebugParams;
     op_format := None; op_own := KNNTrainModelParams_own; op_slots := KNNTrainModelParams_slots;
     op_body r := json_body (KNNTrainModelReq_Body r) (KNNTrainModelReq_BodyReader r); op_headers r := KNNTrainModelReq_Header r;
     Method := KNNTrainModel_Method; GetRequest := KNNTrainModelReq_GetRequest;
     op_keys := ["preference"];
     op_described := [("POST", "/_plugins/_knn/models/_train"); ("POST", "/_plugins/_knn/models/{model_id}/_train")];
     op_query := ["preference"] |}.
#[export] Instance KNNTrainModel_operates : LawfulOp KNNTrainModelReq.
Proof. operate. Qed.

Record KNNWarmupParams := MkKNNWarmupParams { KNNWarmupParams_TimeoutParams : TimeoutParams; KNNWarmupParams_DebugParams : DebugParams }.
Definition KNNWarmupParams_own (q : KNNWarmupParams) : list param :=
  [].
Definition KNNWarmupParams_slots : list (string * (KNNWarmupParams -> slot)) :=
  [].
Definition KNNWarmupParams_get (q : KNNWarmupParams) : gmap string string :=
  encode_params (EncodeTimeout (KNNWarmupParams_TimeoutParams q) ++ EncodeDebug (KNNWarmupParams_DebugParams q) ++ KNNWarmupParams_own q).
Record KNNWarmupReq := MkKNNWarmupReq { KNNWarmupReq_Indices : list string; KNNWarmupReq_Header : headers; KNNWarmupReq_Params : option KNNWarmupParams }.
Definition KNNWarmupReq_GetRequest (r : KNNWarmupReq) (method : string) : request_error + httpRequest * Z :=
  send method (KNNWarmupPath_Build (MkKNNWarmupPath (KNNWarmupReq_Indices r)))
    (match KNNWarmupReq_Params r with Some q => KNNWarmupParams_get q | None => ∅ end)
    no_body (KNNWarmupReq_Header r).
Definition KNNWarmup_Method (r : KNNWarmupReq) : string := "GET".
#[export] Instance KNNWarmup_operation : operation KNNWarmupReq :=
  {| op_path := MkPathType "KNNWarmupPath" KNNWarmupPath _ _; op_P := KNNWarmupParams; op_fields r := MkKNNWarmupPath (KNNWarmupReq_Indices r);
     op_params := KNNWarmupReq_Params; op_defaults := None; op_timeout := KNNWarmupParams_TimeoutParams; op_debug := KNNWarmupParams_DebugParams;
     op_format := None; op_own := KNNWarmupParams_own; op_slots := KNNWarmupParams_slots;
     op_body _ := no_body; op_headers r := KNNWarmupReq_Header r;
     Method := KNNWarmup_Method; GetRequest := KNNWarmupReq_GetRequest;
     op_keys := [];
     op_described := [("GET", "/_plugins/_knn/warmup/{index}")];
     op_query := [] |}.
#[export] Instance KNNWarmup_operates : LawfulOp KNNWarmupReq.
Proof. operate. Qed.

Record LTRAddFeaturesToSetParams := MkLTRAddFeaturesToSetParams { LTRAddFeaturesToSetParams_TimeoutParams : TimeoutParams; LTRAddFeaturesToSetParams_DebugParams : DebugParams;
  LTRAddFeaturesToSetParams_Merge : option bool; LTRAddFeaturesToSetParams_Routing : string; LTRAddFeaturesToSetParams_Version : Z }.
Definition LTRAddFeaturesToSetParams_own (q : LTRAddFeaturesToSetParams) : list param :=
  [("merge", boolPtr (LTRAddFeaturesToSetParams_Merge q)); ("routing", nonEmpty (LTRAddFeaturesToSetParams_Routing q));
  ("version", nonZero (LTRAddFeaturesToSetParams_Version q))].
Definition LTRAddFeaturesToSetParams_slots : list (string * (LTRAddFeaturesToSetParams -> slot)) :=
  [("Merge", fun q => BoolPtr (LTRAddFeaturesToSetParams_Merge q)); ("Routing", fun q => Text (LTRAddFeaturesToSetParams_Routing q));
  ("Version", fun q => Int (LTRAddFeaturesToSetParams_Version q))].
Definition LTRAddFeaturesToSetParams_get (q : LTRAddFeaturesToSetParams) : gmap string string :=
  encode_params (EncodeTimeout (LTRAddFeaturesToSetParams_TimeoutParams q) ++ EncodeDebug (LTRAddFeaturesToSetParams_DebugParams q) ++ LTRAddFeaturesToSetParams_own q).
Record LTRAddFeaturesToSetReq := MkLTRAddFeaturesToSetReq { LTRAddFeaturesToSetReq_Name : string; LTRAddFeaturesToSetReq_Store : string; LTRAddFeaturesToSetReq_Body : reader;
  LTRAddFeaturesToSetReq_Header : headers; LTRAddFeaturesToSetReq_Params : option LTRAddFeaturesToSetParams }.
Definition LTRAddFeaturesToSetReq_GetRequest (r : LTRAddFeaturesToSetReq) (method : string) : request_error + httpRequest * Z :=
  send method (LTRAddFeaturesToSetPath_Build (MkLTRAddFeaturesToSetPath (LTRAddFeaturesToSetReq_Store r) (LTRAddFeaturesToSetReq_Name r)))
    (match LTRAddFeaturesToSetReq_Params r with Some q => LTRAddFeaturesToSetParams_get q | None => ∅ end)
    (raw_body (LTRAddFeaturesToSetReq_Body r)) (LTRAddFeaturesToSetReq_Header r).
Definition LTRAddFeaturesToSet_Method (r : LTRAddFeaturesToSetReq) : string := "POST".
#[export] Instance LTRAddFeaturesToSet_operation : operation LTRAddFeaturesToSetReq :=
  {| op_path := MkPathType "LTRAddFeaturesToSetPath" LTRAddFeaturesToSetPath _ _; op_P := LTRAddFeaturesToSetParams; op_fields r := MkLTRAddFeaturesToSetPath (LTRAddFeaturesToSetReq_Store r) (LTRAddFeaturesToSetReq_Name r);
     op_params := LTRAddFeaturesToSetReq_Params; op_defaults := None; op_timeout := LTRAddFeaturesToSetParams_TimeoutParams; op_debug := LTRAddFeaturesToSetParams_DebugParams;
     op_format := None; op_own := LTRAddFeaturesToSetParams_own; op_slots := LTRAddFeaturesToSetParams_slots;
     op_body r := raw_body (LTRAddFeaturesToSetReq_Body r); op_headers r := LTRAddFeaturesToSetReq_Header r;
     Method := LTRAddFeaturesToSet_Method; GetRequest := LTRAddFeaturesToSetReq_GetRequest;
     op_keys := ["merge"; "routing"; "version"];
     op_described := [("POST", "/_ltr/_featureset/{name}/_addfeatures"); ("POST", "/_ltr/{store}/_featureset/{name}/_addfeatures")];
     op_query := ["merge"; "routing"; "version"] |}.
#[export] Instance LTRAddFeaturesToSet_operates : LawfulOp LTRAddFeaturesToSetReq.
Proof. operate. Qed.

Record LTRAddFeaturesToSetByQueryParams := MkLTRAddFeaturesToSetByQueryParams { LTRAddFeaturesToSetByQueryParams_TimeoutParams : TimeoutParams; LTRAddFeaturesToSetByQueryParams_DebugParams : DebugParams;
  LTRAddFeaturesToSetByQueryParams_Merge : option bool; LTRAddFeaturesToSetByQueryParams_Routing : string; LTRAddFeaturesToSetByQueryParams_Version : Z }.
Definition LTRAddFeaturesToSetByQueryParams_own (q : LTRAddFeaturesToSetByQueryParams) : list param :=
  [("merge", boolPtr (LTRAddFeaturesToSetByQueryParams_Merge q)); ("routing", nonEmpty (LTRAddFeaturesToSetByQueryParams_Routing q));
  ("version", nonZero (LTRAddFeaturesToSetByQueryParams_Version q))].
Definition LTRAddFeaturesToSetByQueryParams_slots : list (string * (LTRAddFeaturesToSetByQueryParams -> slot)) :=
  [("Merge", fun q => BoolPtr (LTRAddFeaturesToSetByQueryParams_Merge q)); ("Routing", fun q => Text (LTRAddFeaturesToSetByQueryParams_Routing q));
  ("Version", fun q => Int (LTRAddFeaturesToSetByQueryParams_Version q))].
Definition LTRAddFeaturesToSetByQueryParams_get (q : LTRAddFeaturesToSetByQueryParams) : gmap string string :=
  encode_params (EncodeTimeout (LTRAddFeaturesToSetByQueryParams_TimeoutParams q) ++ EncodeDebug (LTRAddFeaturesToSetByQueryParams_DebugParams q) ++ LTRAddFeaturesToSetByQueryParams_own q).
Record LTRAddFeaturesToSetByQueryReq := MkLTRAddFeaturesToSetByQueryReq { LTRAddFeaturesToSetByQueryReq_Name : string; LTRAddFeaturesToSetByQueryReq_Query : string; LTRAddFeaturesToSetByQueryReq_Store : string;
  LTRAddFeaturesToSetByQueryReq_Header : headers; LTRAddFeaturesToSetByQueryReq_Params : option LTRAddFeaturesToSetByQueryParams }.
Definition LTRAddFeaturesToSetByQueryReq_GetRequest (r : LTRAddFeaturesToSetByQueryReq) (method : string) : request_error + httpRequest * Z :=
  send method (LTRAddFeaturesToSetByQueryPath_Build (MkLTRAddFeaturesToSetByQueryPath (LTRAddFeaturesToSetByQueryReq_Store r) (LTRAddFeaturesToSetByQueryReq_Name r) (LTRAddFeaturesToSetByQueryReq_Query r)))
    (match LTRAddFeaturesToSetByQueryReq_Params r with Some q => LTRAddFeaturesToSetByQueryParams_get q | None => ∅ end)
    no_body (LTRAddFeaturesToSetByQueryReq_Header r).
Definition LTRAddFeaturesToSetByQuery_Method (r : LTRAddFeaturesToSetByQueryReq) : string := "POST".
#[export] Instance LTRAddFeaturesToSetByQuery_operation : operation LTRAddFeaturesToSetByQueryReq :=
  {| op_path := MkPathType "LTRAddFeaturesToSetByQueryPath" LTRAddFeaturesToSetByQueryPath _ _; op_P := LTRAddFeaturesToSetByQueryParams; op_fields r := MkLTRAddFeaturesToSetByQueryPath (LTRAddFeaturesToSetByQueryReq_Store r) (LTRAddFeaturesToSetByQueryReq_Name r) (LTRAddFeaturesToSetByQueryReq_Query r);
     op_params := LTRAddFeaturesToSetByQueryReq_Params; op_defaults := None; op_timeout := LTRAddFeaturesToSetByQueryParams_TimeoutParams; op_debug := LTRAddFeaturesToSetByQueryParams_DebugParams;
     op_format := None; op_own := LTRAddFeaturesToSetByQueryParams_own; op_slots := LTRAddFeaturesToSetByQueryParams_slots;
     op_body _ := no_body; op_headers r := LTRAddFeaturesToSetByQueryReq_Header r;
     Method := LTRAddFeaturesToSetByQuery_Method; GetRequest := LTRAddFeaturesToSetByQueryReq_GetRequest;
     op_keys := ["merge"; "routing"; "version"];
     op_described := [("POST", "/_ltr/_featureset/{name}/_addfeatures/{query}"); ("POST", "/_ltr/{store}/_featureset/{name}/_addfeatures/{query}")];
     op_query := ["merge"; "routing"; "version"] |}.
#[export] Instance LTRAddFeaturesToSetByQuery_operates : LawfulOp LTRAddFeaturesToSetByQueryReq.
Proof. operate. Qed.

Record LTRCacheStatsParams := MkLTRCacheStatsParams { LTRCacheStatsParams_TimeoutParams : TimeoutParams; LTRCacheStatsParams_DebugParams : DebugParams }.
Definition LTRCacheStatsParams_own (q : LTRCacheStatsParams) : list param :=
  [].
Definition LTRCacheStatsParams_slots : list (string * (LTRCacheStatsParams -> slot)) :=
  [].
Definition LTRCacheStatsParams_get (q : LTRCacheStatsParams) : gmap string string :=
  encode_params (EncodeTimeout (LTRCacheStatsParams_TimeoutParams q) ++ EncodeDebug (LTRCacheStatsParams_DebugParams q) ++ LTRCacheStatsParams_own q).
Record LTRCacheStatsReq := MkLTRCacheStatsReq { LTRCacheStatsReq_Header : headers; LTRCacheStatsReq_Params : option LTRCacheStatsParams }.
Definition LTRCacheStatsReq_GetRequest (r : LTRCacheStatsReq) (method : string) : request_error + httpRequest * Z :=
  send method (LTRCacheStatsPath_Build (MkLTRCacheStatsPath))
    (match LTRCacheStatsReq_Params r with Some q => LTRCacheStatsParams_get q | None => ∅ end)
    no_body (LTRCacheStatsReq_Header r).
Definition LTRCacheStats_Method (r : LTRCacheStatsReq) : string := "GET".
#[export] Instance LTRCacheStats_operation : operation LTRCacheStatsReq :=
  {| op_path := MkPathType "LTRCacheStatsPath" LTRCacheStatsPath _ _; op_P := LTRCacheStatsParams; op_fields r := MkLTRCacheStatsPath;
     op_params := LTRCacheStatsReq_Params; op_defaults := None; op_timeout := LTRCacheStatsParams_TimeoutParams; op_debug := LTRCacheStatsParams_DebugParams;
     op_format := None; op_own := LTRCacheStatsParams_own; op_slots := LTRCacheStatsParams_slots;
     op_body _ := no_body; op_headers r := LTRCacheStatsReq_Header r;
     Method := LTRCacheStats_Method; GetRequest := LTRCacheStatsReq_GetRequest;
     op_keys := [];
     op_described := [("GET", "/_ltr/_cachestats")];
     op_query := [] |}.
#[export] Instance LTRCacheStats_operates : LawfulOp LTRCacheStatsReq.
Proof. operate. Qed.

Record LTRClearCacheParams := MkLTRClearCacheParams { LTRClearCacheParams_TimeoutParams : TimeoutParams; LTRClearCacheParams_DebugParams : DebugParams }.
Definition LTRClearCacheParams_own (q : LTRClearCacheParams) : list param :=
  [].
Definition LTRClearCacheParams_slots : list (string * (LTRClearCacheParams -> slot)) :=
  [].
Definition LTRClearCacheParams_get (q : LTRClearCacheParams) : gmap string string :=
  encode_params (EncodeTimeout (LTRClearCacheParams_TimeoutParams q) ++ EncodeDebug (LTRClearCacheParams_DebugParams q) ++ LTRClearCacheParams_own q).
Record LTRClearCacheReq := MkLTRClearCacheReq { LTRClearCacheReq_Store : string; LTRClearCacheReq_Header : headers; LTRClearCacheReq_Params : option LTRClearCacheParams }.
Definition LTRClearCacheReq_GetRequest (r : LTRClearCacheReq) (method : string) : request_error + httpRequest * Z :=
  send method (LTRClearCachePath_Build (MkLTRClearCachePath (LTRClearCacheReq_Store r)))
    (match LTRClearCacheReq_Params r with Some q => LTRClearCacheParams_get q | None => ∅ end)
    no_body (LTRClearCacheReq_Header r).
Definition LTRClearCache_Method (r : LTRClearCacheReq) : string := "POST".
#[export] Instance LTRClearCache_operation : operation LTRClearCacheReq :=
  {| op_path := MkPathType "LTRClearCachePath" LTRClearCachePath _ _; op_P := LTRClearCacheParams; op_fields r := MkLTRClearCachePath (LTRClearCacheReq_Store r);
     op_params := LTRClearCacheReq_Params; op_defaults := None; op_timeout := LTRClearCacheParams_TimeoutParams; op_debug := LTRClearCacheParams_DebugParams;
     op_format := None; op_own := LTRClearCacheParams_own; op_slots := LTRClearCacheParams_slots;
     op_body _ := no_body; op_headers r := LTRClearCacheReq_Header r;
     Method := LTRClearCache_Method; GetRequest := LTRClearCacheReq_GetRequest;
     op_keys := [];
     op_described := [("POST", "/_ltr/_clearcache"); ("POST", "/_ltr/{store}/_clearcache")];
     op_query := [] |}.
#[export] Instance LTRClearCache_operates : LawfulOp LTRClearCacheReq.
Proof. operate. Qed.

Record LTRCreateDefaultStoreParams := MkLTRCreateDefaultStoreParams { LTRCreateDefaultStoreParams_TimeoutParams : TimeoutParams; LTRCreateDefaultStoreParams_DebugParams : DebugParams }.
Definition LTRCreateDefaultStoreParams_own (q : LTRCreateDefaultStoreParams) : list param :=
  [].
Definition LTRCreateDefaultStoreParams_slots : list (string * (LTRCreateDefaultStoreParams -> slot)) :=
  [].
Definition LTRCreateDefaultStoreParams_get (q : LTRCreateDefaultStoreParams) : gmap string string :=
  encode_params (EncodeTimeout (LTRCreateDefaultStoreParams_TimeoutParams q) ++ EncodeDebug (LTRCreateDefaultStoreParams_DebugParams q) ++ LTRCreateDefaultStoreParams_own q).
Record LTRCreateDefaultStoreReq := MkLTRCreateDefaultStoreReq { LTRCreateDefaultStoreReq_Header : headers; LTRCreateDefaultStoreReq_Params : option LTRCreateDefaultStoreParams }.
Definition LTRCreateDefaultStoreReq_GetRequest (r : LTRCreateDefaultStoreReq) (method : string) : request_error + httpRequest * Z :=
  send method (LTRCreateDefaultStorePath_Build (MkLTRCreateDefaultStorePath))
    (match LTRCreateDefaultStoreReq_Params r with Some q => LTRCreateDefaultStoreParams_get q | None => ∅ end)
    no_body (LTRCreateDefaultStoreReq_Header r).
Definition LTRCreateDefaultStore_Method (r : LTRCreateDefaultStoreReq) : string := "PUT".
#[export] Instance LTRCreateDefaultStore_operation : operation LTRCreateDefaultStoreReq :=
  {| op_path := MkPathType "LTRCreateDefaultStorePath" LTRCreateDefaultStorePath _ _; op_P := LTRCreateDefaultStoreParams; op_fields r := MkLTRCreateDefaultStorePath;
     op_params := LTRCreateDefaultStoreReq_Params; op_defaults := None; op_timeout := LTRCreateDefaultStoreParams_TimeoutParams; op_debug := LTRCreateDefaultStoreParams_DebugParams;
     op_format := None; op_own := LTRCreateDefaultStoreParams_own; op_slots := LTRCreateDefaultStoreParams_slots;
     op_body _ := no_body; op_headers r := LTRCreateDefaultStoreReq_Header r;
     Method := LTRCreateDefaultStore_Method; GetRequest := LTRCreateDefaultStoreReq_GetRequest;
     op_keys := [];
     op_described := [("PUT", "/_ltr")];
     op_query := [] |}.
#[export] Instance LTRCreateDefaultStore_operates : LawfulOp LTRCreateDefaultStoreReq.
Proof. operate. Qed.

Record LTRCreateFeatureParams := MkLTRCreateFeatureParams { LTRCreateFeatureParams_TimeoutParams : TimeoutParams; LTRCreateFeatureParams_DebugParams : DebugParams; LTRCreateFeatureParams_Routing : string }.
Definition LTRCreateFeatureParams_own (q : LTRCreateFeatureParams) : list param :=
  [("routing", nonEmpty (LTRCreateFeatureParams_Routing q))].
Definition LTRCreateFeatureParams_slots : list (string * (LTRCreateFeatureParams -> slot)) :=
  [("Routing", fun q => Text (LTRCreateFeatureParams_Routing q))].
Definition LTRCreateFeatureParams_get (q : LTRCreateFeatureParams) : gmap string string :=
  encode_params (EncodeTimeout (LTRCreateFeatureParams_TimeoutParams q) ++ EncodeDebug (LTRCreateFeatureParams_DebugParams q) ++ LTRCreateFeatureParams_own q).
Record LTRCreateFeatureReq := MkLTRCreateFeatureReq { LTRCreateFeatureReq_ID : string; LTRCreateFeatureReq_Store : string; LTRCreateFeatureReq_Body : reader; LTRCreateFeatureReq_Header : headers;
  LTRCreateFeatureReq_Params : option LTRCreateFeatureParams }.
Definition LTRCreateFeatureReq_GetRequest (r : LTRCreateFeatureReq) (method : string) : request_error + httpRequest * Z :=
  send method (LTRCreateFeaturePath_Build (MkLTRCreateFeaturePath (LTRCreateFeatureReq_Store r) (LTRCreateFeatureReq_ID r)))
    (match LTRCreateFeatureReq_Params r with Some q => LTRCreateFeatureParams_get q | None => ∅ end)
    (raw_body (LTRCreateFeatureReq_Body r)) (LTRCreateFeatureReq_Header r).
Definition LTRCreateFeature_Method (r : LTRCreateFeatureReq) : string := "PUT".
#[export] Instance LTRCreateFeature_operation : operation LTRCreateFeatureReq :=
  {| op_path := MkPathType "LTRCreateFeaturePath" LTRCreateFeaturePath _ _; op_P := LTRCreateFeatureParams; op_fields r := MkLTRCreateFeaturePath (LTRCreateFeatureReq_Store r) (LTRCreateFeatureReq_ID r);
     op_params := LTRCreateFeatureReq_Params; op_defaults := None; op_timeout := LTRCreateFeatureParams_TimeoutParams; op_debug := LTRCreateFeatureParams_DebugParams;
     op_format := None; op_own := LTRCreateFeatureParams_own; op_slots := LTRCreateFeatureParams_slots;
     op_body r := raw_body (LTRCreateFeatureReq_Body r); op_headers r := LTRCreateFeatureReq_Header r;
     Method := LTRCreateFeature_Method; GetRequest := LTRCreateFeatureReq_GetRequest;
     op_keys := ["routing"];
     op_described := [("PUT", "/_ltr/_feature/{id}"); ("PUT", "/_ltr/{store}/_feature/{id}")];
     op_query := ["routing"] |}.
#[export] Instance LTRCreateFeature_operates : LawfulOp LTRCreateFeatureReq.
Proof. operate. Qed.

Record LTRCreateFeaturesetParams := MkLTRCreateFeaturesetParams { LTRCreateFeaturesetParams_TimeoutParams : TimeoutParams; LTRCreateFeaturesetParams_DebugParams : DebugParams;
  LTRCreateFeaturesetParams_Routing : string }.
Definition LTRCreateFeaturesetParams_own (q : LTRCreateFeaturesetParams) : list param :=
  [("routing", nonEmpty (LTRCreateFeaturesetParams_Routing q))].
Definition LTRCreateFeaturesetParams_slots : list (string * (LTRCreateFeaturesetParams -> slot)) :=
  [("Routing", fun q => Text (LTRCreateFeaturesetParams_Routing q))].
Definition LTRCreateFeaturesetParams_get (q : LTRCreateFeaturesetParams) : gmap string string :=
  encode_params (EncodeTimeout (LTRCreateFeaturesetParams_TimeoutParams q) ++ EncodeDebug (LTRCreateFeaturesetParams_DebugParams q) ++ LTRCreateFeaturesetParams_own q).
Record LTRCreateFeaturesetReq := MkLTRCreateFeaturesetReq { LTRCreateFeaturesetReq_ID : string; LTRCreateFeaturesetReq_Store : string; LTRCreateFeaturesetReq_Body : reader;
  LTRCreateFeaturesetReq_Header : headers; LTRCreateFeaturesetReq_Params : option LTRCreateFeaturesetParams }.
Definition LTRCreateFeaturesetReq_GetRequest (r : LTRCreateFeaturesetReq) (method : string) : request_error + httpRequest * Z :=
  send method (LTRCreateFeaturesetPath_Build (MkLTRCreateFeaturesetPath (LTRCreateFeaturesetReq_Store r) (LTRCreateFeaturesetReq_ID r)))
    (match LTRCreateFeaturesetReq_Params r with Some q => LTRCreateFeaturesetParams_get q | None => ∅ end)
    (raw_body (LTRCreateFeaturesetReq_Body r)) (LTRCreateFeaturesetReq_Header r).
Definition LTRCreateFeatureset_Method (r : LTRCreateFeaturesetReq) : string := "PUT".
#[export] Instance LTRCreateFeatureset_operation : operation LTRCreateFeaturesetReq :=
  {| op_path := MkPathType "LTRCreateFeaturesetPath" LTRCreateFeaturesetPath _ _; op_P := LTRCreateFeaturesetParams; op_fields r := MkLTRCreateFeaturesetPath (LTRCreateFeaturesetReq_Store r) (LTRCreateFeaturesetReq_ID r);
     op_params := LTRCreateFeaturesetReq_Params; op_defaults := None; op_timeout := LTRCreateFeaturesetParams_TimeoutParams; op_debug := LTRCreateFeaturesetParams_DebugParams;
     op_format := None; op_own := LTRCreateFeaturesetParams_own; op_slots := LTRCreateFeaturesetParams_slots;
     op_body r := raw_body (LTRCreateFeaturesetReq_Body r); op_headers r := LTRCreateFeaturesetReq_Header r;
     Method := LTRCreateFeatureset_Method; GetRequest := LTRCreateFeaturesetReq_GetRequest;
     op_keys := ["routing"];
     op_described := [("PUT", "/_ltr/_featureset/{id}"); ("PUT", "/_ltr/{store}/_featureset/{id}")];
     op_query := ["routing"] |}.
#[export] Instance LTRCreateFeatureset_operates : LawfulOp LTRCreateFeaturesetReq.
Proof. operate. Qed.

Record LTRCreateModelParams := MkLTRCreateModelParams { LTRCreateModelParams_TimeoutParams : TimeoutParams; LTRCreateModelParams_DebugParams : DebugParams; LTRCreateModelParams_Routing : string }.
Definition LTRCreateModelParams_own (q : LTRCreateModelParams) : list param :=
  [("routing", nonEmpty (LTRCreateModelParams_Routing q))].
Definition LTRCreateModelParams_slots : list (string * (LTRCreateModelParams -> slot)) :=
  [("Routing", fun q => Text (LTRCreateModelParams_Routing q))].
Definition LTRCreateModelParams_get (q : LTRCreateModelParams) : gmap string string :=
  encode_params (EncodeTimeout (LTRCreateModelParams_TimeoutParams q) ++ EncodeDebug (LTRCreateModelParams_DebugParams q) ++ LTRCreateModelParams_own q).
Record LTRCreateModelReq := MkLTRCreateModelReq { LTRCreateModelReq_ID : string; LTRCreateModelReq_Store : string; LTRCreateModelReq_Body : reader; LTRCreateModelReq_Header : headers;
  LTRCreateModelReq_Params : option LTRCreateModelParams }.
Definition LTRCreateModelReq_GetRequest (r : LTRCreateModelReq) (method : string) : request_error + httpRequest * Z :=
  send method (LTRCreateModelPath_Build (MkLTRCreateModelPath (LTRCreateModelReq_Store r) (LTRCreateModelReq_ID r)))
    (match LTRCreateModelReq_Params r with Some q => LTRCreateModelParams_get q | None => ∅ end)
    (raw_body (LTRCreateModelReq_Body r)) (LTRCreateModelReq_Header r).
Definition LTRCreateModel_Method (r : LTRCreateModelReq) : string := "PUT".
#[export] Instance LTRCreateModel_operation : operation LTRCreateModelReq :=
  {| op_path := MkPathType "LTRCreateModelPath" LTRCreateModelPath _ _; op_P := LTRCreateModelParams; op_fields r := MkLTRCreateModelPath (LTRCreateModelReq_Store r) (LTRCreateModelReq_ID r);
     op_params := LTRCreateModelReq_Params; op_defaults := None; op_timeout := LTRCreateModelParams_TimeoutParams; op_debug := LTRCreateModelParams_DebugParams;
     op_format := None; op_own := LTRCreateModelParams_own; op_slots := LTRCreateModelParams_slots;
     op_body r := raw_body (LTRCreateModelReq_Body r); op_headers r := LTRCreateModelReq_Header r;
     Method := LTRCreateModel_Method; GetRequest := LTRCreateModelReq_GetRequest;
     op_keys := ["routing"];
     op_described := [("PUT", "/_ltr/_model/{id}"); ("PUT", "/_ltr/{store}/_model/{id}")];
     op_query := ["routing"] |}.
#[export] Instance LTRCreateModel_operates : LawfulOp LTRCreateModelReq.
Proof. operate. Qed.

Record LTRCreateModelFromSetParams := MkLTRCreateModelFromSetParams { LTRCreateModelFromSetParams_TimeoutParams : TimeoutParams; LTRCreateModelFromSetParams_DebugParams : DebugParams;
  LTRCreateModelFromSetParams_Routing : string }.
Definition LTRCreateModelFromSetParams_own (q : LTRCreateModelFromSetParams) : list param :=
  [("routing", nonEmpty (LTRCreateModelFromSetParams_Routing q))].
Definition LTRCreateModelFromSetParams_slots : list (string * (LTRCreateModelFromSetParams -> slot)) :=
  [("Routing", fun q => Text (LTRCreateModelFromSetParams_Routing q))].
Definition LTRCreateModelFromSetParams_get (q : LTRCreateModelFromSetParams) : gmap string string :=
  encode_params (EncodeTimeout (LTRCreateModelFromSetParams_TimeoutParams q) ++ EncodeDebug (LTRCreateModelFromSetParams_DebugParams q) ++ LTRCreateModelFromSetParams_own q).
Record LTRCreateModelFromSetReq := MkLTRCreateModelFromSetReq { LTRCreateModelFromSetReq_Name : string; LTRCreateModelFromSetReq_Store : string; LTRCreateModelFromSetReq_Body : reader;
  LTRCreateModelFromSetReq_Header : headers; LTRCreateModelFromSetReq_Params : option LTRCreateModelFromSetParams }.
Definition LTRCreateModelFromSetReq_GetRequest (r : LTRCreateModelFromSetReq) (method : string) : request_error + httpRequest * Z :=
  send method (LTRCreateModelFromSetPath_Build (MkLTRCreateModelFromSetPath (LTRCreateModelFromSetReq_Store r) (LTRCreateModelFromSetReq_Name r)))
    (match LTRCreateModelFromSetReq_Params r with Some q => LTRCreateModelFromSetParams_get q | None => ∅ end)
    (raw_body (LTRCreateModelFromSetReq_Body r)) (LTRCreateModelFromSetReq_Header r).
Definition LTRCreateModelFromSet_Method (r : LTRCreateModelFromSetReq) : string := "POST".
#[export] Instance LTRCreateModelFromSet_operation : operation LTRCreateModelFromSetReq :=
  {| op_path := MkPathType "LTRCreateModelFromSetPath" LTRCreateModelFromSetPath _ _; op_P := LTRCreateModelFromSetParams; op_fields r := MkLTRCreateModelFromSetPath (LTRCreateModelFromSetReq_Store r) (LTRCreateModelFromSetReq_Name r);
     op_params := LTRCreateModelFromSetReq_Params; op_defaults := None; op_timeout := LTRCreateModelFromSetParams_TimeoutParams; op_debug := LTRCreateModelFromSetParams_DebugParams;
     op_format := None; op_own := LTRCreateModelFromSetParams_own; op_slots := LTRCreateModelFromSetParams_slots;
     op_body r := raw_body (LTRCreateModelFromSetReq_Body r); op_headers r := LTRCreateModelFromSetReq_Header r;
     Method := LTRCreateModelFromSet_Method; GetRequest := LTRCreateModelFromSetReq_GetRequest;
     op_keys := ["routing"];
     op_described := [("POST", "/_ltr/_featureset/{name}/_createmodel"); ("POST", "/_ltr/{store}/_featureset/{name}/_createmodel")];
     op_query := ["routing"] |}.
#[export] Instance LTRCreateModelFromSet_operates : LawfulOp LTRCreateModelFromSetReq.
Proof. operate. Qed.

Record LTRCreateStoreParams := MkLTRCreateStoreParams { LTRCreateStoreParams_TimeoutParams : TimeoutParams; LTRCreateStoreParams_DebugParams : DebugParams }.
Definition LTRCreateStoreParams_own (q : LTRCreateStoreParams) : list param :=
  [].
Definition LTRCreateStoreParams_slots : list (string * (LTRCreateStoreParams -> slot)) :=
  [].
Definition LTRCreateStoreParams_get (q : LTRCreateStoreParams) : gmap string string :=
  encode_params (EncodeTimeout (LTRCreateStoreParams_TimeoutParams q) ++ EncodeDebug (LTRCreateStoreParams_DebugParams q) ++ LTRCreateStoreParams_own q).
Record LTRCreateStoreReq := MkLTRCreateStoreReq { LTRCreateStoreReq_Store : string; LTRCreateStoreReq_Header : headers; LTRCreateStoreReq_Params : option LTRCreateStoreParams }.
Definition LTRCreateStoreReq_GetRequest (r : LTRCreateStoreReq) (method : string) : request_error + httpRequest * Z :=
  send method (LTRCreateStorePath_Build (MkLTRCreateStorePath (LTRCreateStoreReq_Store r)))
    (match LTRCreateStoreReq_Params r with Some q => LTRCreateStoreParams_get q | None => ∅ end)
    no_body (LTRCreateStoreReq_Header r).
Definition LTRCreateStore_Method (r : LTRCreateStoreReq) : string := "PUT".
#[export] Instance LTRCreateStore_operation : operation LTRCreateStoreReq :=
  {| op_path := MkPathType "LTRCreateStorePath" LTRCreateStorePath _ _; op_P := LTRCreateStoreParams; op_fields r := MkLTRCreateStorePath (LTRCreateStoreReq_Store r);
     op_params := LTRCreateStoreReq_Params; op_defaults := None; op_timeout := LTRCreateStoreParams_TimeoutParams; op_debug := LTRCreateStoreParams_DebugParams;
     op_format := None; op_own := LTRCreateStoreParams_own; op_slots := LTRCreateStoreParams_slots;
     op_body _ := no_body; op_headers r := LTRCreateStoreReq_Header r;
     Method := LTRCreateStore_Method; GetRequest := LTRCreateStoreReq_GetRequest;
     op_keys := [];
     op_described := [("PUT", "/_ltr/{store}")];
     op_query := [] |}.
#[export] Instance LTRCreateStore_operates : LawfulOp LTRCreateStoreReq.
Proof. operate. Qed.

Record LTRDeleteDefaultStoreParams := MkLTRDeleteDefaultStoreParams { LTRDeleteDefaultStoreParams_TimeoutParams : TimeoutParams; LTRDeleteDefaultStoreParams_DebugParams : DebugParams }.
Definition LTRDeleteDefaultStoreParams_own (q : LTRDeleteDefaultStoreParams) : list param :=
  [].
Definition LTRDeleteDefaultStoreParams_slots : list (string * (LTRDeleteDefaultStoreParams -> slot)) :=
  [].
Definition LTRDeleteDefaultStoreParams_get (q : LTRDeleteDefaultStoreParams) : gmap string string :=
  encode_params (EncodeTimeout (LTRDeleteDefaultStoreParams_TimeoutParams q) ++ EncodeDebug (LTRDeleteDefaultStoreParams_DebugParams q) ++ LTRDeleteDefaultStoreParams_own q).
Record LTRDeleteDefaultStoreReq := MkLTRDeleteDefaultStoreReq { LTRDeleteDefaultStoreReq_Header : headers; LTRDeleteDefaultStoreReq_Params : option LTRDeleteDefaultStoreParams }.
Definition LTRDeleteDefaultStoreReq_GetRequest (r : LTRDeleteDefaultStoreReq) (method : string) : request_error + httpRequest * Z :=
  send method (LTRDeleteDefaultStorePath_Build (MkLTRDeleteDefaultStorePath))
    (match LTRDeleteDefaultStoreReq_Params r with Some q => LTRDeleteDefaultStoreParams_get q | None => ∅ end)
    no_body (LTRDeleteDefaultStoreReq_Header r).
Definition LTRDeleteDefaultStore_Method (r : LTRDeleteDefaultStoreReq) : string := "DELETE".
#[export] Instance LTRDeleteDefaultStore_operation : operation LTRDeleteDefaultStoreReq :=
  {| op_path := MkPathType "LTRDeleteDefaultStorePath" LTRDeleteDefaultStorePath _ _; op_P := LTRDeleteDefaultStoreParams; op_fields r := MkLTRDeleteDefaultStorePath;
     op_params := LTRDeleteDefaultStoreReq_Params; op_defaults := None; op_timeout := LTRDeleteDefaultStoreParams_TimeoutParams; op_debug := LTRDeleteDefaultStoreParams_DebugParams;
     op_format := None; op_own := LTRDeleteDefaultStoreParams_own; op_slots := LTRDeleteDefaultStoreParams_slots;
     op_body _ := no_body; op_headers r := LTRDeleteDefaultStoreReq_Header r;
     Method := LTRDeleteDefaultStore_Method; GetRequest := LTRDeleteDefaultStoreReq_GetRequest;
     op_keys := [];
     op_described := [("DELETE", "/_ltr")];
     op_query := [] |}.
#[export] Instance LTRDeleteDefaultStore_operates : LawfulOp LTRDeleteDefaultStoreReq.
Proof. operate. Qed.

Record LTRDeleteFeatureParams := MkLTRDeleteFeatureParams { LTRDeleteFeatureParams_TimeoutParams : TimeoutParams; LTRDeleteFeatureParams_DebugParams : DebugParams }.
Definition LTRDeleteFeatureParams_own (q : LTRDeleteFeatureParams) : list param :=
  [].
Definition LTRDeleteFeatureParams_slots : list (string * (LTRDeleteFeatureParams -> slot)) :=
  [].
Definition LTRDeleteFeatureParams_get (q : LTRDeleteFeatureParams) : gmap string string :=
  encode_params (EncodeTimeout (LTRDeleteFeatureParams_TimeoutParams q) ++ EncodeDebug (LTRDeleteFeatureParams_DebugParams q) ++ LTRDeleteFeatureParams_own q).
Record LTRDeleteFeatureReq := MkLTRDeleteFeatureReq { LTRDeleteFeatureReq_ID : string; LTRDeleteFeatureReq_Store : string; LTRDeleteFeatureReq_Header : headers;
  LTRDeleteFeatureReq_Params : option LTRDeleteFeatureParams }.
Definition LTRDeleteFeatureReq_GetRequest (r : LTRDeleteFeatureReq) (method : string) : request_error + httpRequest * Z :=
  send method (LTRDeleteFeaturePath_Build (MkLTRDeleteFeaturePath (LTRDeleteFeatureReq_Store r) (LTRDeleteFeatureReq_ID r)))
    (match LTRDeleteFeatureReq_Params r with Some q => LTRDeleteFeatureParams_get q | None => ∅ end)
    no_body (LTRDeleteFeatureReq_Header r).
Definition LTRDeleteFeature_Method (r : LTRDeleteFeatureReq) : string := "DELETE".
#[export] Instance LTRDeleteFeature_operation : operation LTRDeleteFeatureReq :=
  {| op_path := MkPathType "LTRDeleteFeaturePath" LTRDeleteFeaturePath _ _; op_P := LTRDeleteFeatureParams; op_fields r := MkLTRDeleteFeaturePath (LTRDeleteFeatureReq_Store r) (LTRDeleteFeatureReq_ID r);
     op_params := LTRDeleteFeatureReq_Params; op_defaults := None; op_timeout := LTRDeleteFeatureParams_TimeoutParams; op_debug := LTRDeleteFeatureParams_DebugParams;
     op_format := None; op_own := LTRDeleteFeatureParams_own; op_slots := LTRDeleteFeatureParams_slots;
     op_body _ := no_body; op_headers r := LTRDeleteFeatureReq_Header r;
     Method := LTRDeleteFeature_Method; GetRequest := LTRDeleteFeatureReq_GetRequest;
     op_keys := [];
     op_described := [("DELETE", "/_ltr/_feature/{id}"); ("DELETE", "/_ltr/{store}/_feature/{id}")];
     op_query := [] |}.
#[export] Instance LTRDeleteFeature_operates : LawfulOp LTRDeleteFeatureReq.
Proof. operate. Qed.

Record LTRDeleteFeaturesetParams := MkLTRDeleteFeaturesetParams { LTRDeleteFeaturesetParams_TimeoutParams : TimeoutParams; LTRDeleteFeaturesetParams_DebugParams : DebugParams }.
Definition LTRDeleteFeaturesetParams_own (q : LTRDeleteFeaturesetParams) : list param :=
  [].
Definition LTRDeleteFeaturesetParams_slots : list (string * (LTRDeleteFeaturesetParams -> slot)) :=
  [].
Definition LTRDeleteFeaturesetParams_get (q : LTRDeleteFeaturesetParams) : gmap string string :=
  encode_params (EncodeTimeout (LTRDeleteFeaturesetParams_TimeoutParams q) ++ EncodeDebug (LTRDeleteFeaturesetParams_DebugParams q) ++ LTRDeleteFeaturesetParams_own q).
Record LTRDeleteFeaturesetReq := MkLTRDeleteFeaturesetReq { LTRDeleteFeaturesetReq_ID : string; LTRDeleteFeaturesetReq_Store : string; LTRDeleteFeaturesetReq_Header : headers;
  LTRDeleteFeaturesetReq_Params : option LTRDeleteFeaturesetParams }.
Definition LTRDeleteFeaturesetReq_GetRequest (r : LTRDeleteFeaturesetReq) (method : string) : request_error + httpRequest * Z :=
  send method (LTRDeleteFeaturesetPath_Build (MkLTRDeleteFeaturesetPath (LTRDeleteFeaturesetReq_Store r) (LTRDeleteFeaturesetReq_ID r)))
    (match LTRDeleteFeaturesetReq_Params r with Some q => LTRDeleteFeaturesetParams_get q | None => ∅ end)
    no_body (LTRDeleteFeaturesetReq_Header r).
Definition LTRDeleteFeatureset_Method (r : LTRDeleteFeaturesetReq) : string := "DELETE".
#[export] Instance LTRDeleteFeatureset_operation : operation LTRDeleteFeaturesetReq :=
  {| op_path := MkPathType "LTRDeleteFeaturesetPath" LTRDeleteFeaturesetPath _ _; op_P := LTRDeleteFeaturesetParams; op_fields r := MkLTRDeleteFeaturesetPath (LTRDeleteFeaturesetReq_Store r) (LTRDeleteFeaturesetReq_ID r);
     op_params := LTRDeleteFeaturesetReq_Params; op_defaults := None; op_timeout := LTRDeleteFeaturesetParams_TimeoutParams; op_debug := LTRDeleteFeaturesetParams_DebugParams;
     op_format := None; op_own := LTRDeleteFeaturesetParams_own; op_slots := LTRDeleteFeaturesetParams_slots;
     op_body _ := no_body; op_headers r := LTRDeleteFeaturesetReq_Header r;
     Method := LTRDeleteFeatureset_Method; GetRequest := LTRDeleteFeaturesetReq_GetRequest;
     op_keys := [];
     op_described := [("DELETE", "/_ltr/_featureset/{id}"); ("DELETE", "/_ltr/{store}/_featureset/{id}")];
     op_query := [] |}.
#[export] Instance LTRDeleteFeatureset_operates : LawfulOp LTRDeleteFeaturesetReq.
Proof. operate. Qed.

Record LTRDeleteModelParams := MkLTRDeleteModelParams { LTRDeleteModelParams_TimeoutParams : TimeoutParams; LTRDeleteModelParams_DebugParams : DebugParams }.
Definition LTRDeleteModelParams_own (q : LTRDeleteModelParams) : list param :=
  [].
Definition LTRDeleteModelParams_slots : list (string * (LTRDeleteModelParams -> slot)) :=
  [].
Definition LTRDeleteModelParams_get (q : LTRDeleteModelParams) : gmap string string :=
  encode_params (EncodeTimeout (LTRDeleteModelParams_TimeoutParams q) ++ EncodeDebug (LTRDeleteModelParams_DebugParams q) ++ LTRDeleteModelParams_own q).
Record LTRDeleteModelReq := MkLTRDeleteModelReq { LTRDeleteModelReq_ID : string; LTRDeleteModelReq_Store : string; LTRDeleteModelReq_Header : headers;
  LTRDeleteModelReq_Params : option LTRDeleteModelParams }.
Definition LTRDeleteModelReq_GetRequest (r : LTRDeleteModelReq) (method : string) : request_error + httpRequest * Z :=
  send method (LTRDeleteModelPath_Build (MkLTRDeleteModelPath (LTRDeleteModelReq_Store r) (LTRDeleteModelReq_ID r)))
    (match LTRDeleteModelReq_Params r with Some q => LTRDeleteModelParams_get q | None => ∅ end)
    no_body (LTRDeleteModelReq_Header r).
Definition LTRDeleteModel_Method (r : LTRDeleteModelReq) : string := "DELETE".
#[export] Instance LTRDeleteModel_operation : operation LTRDeleteModelReq :=
  {| op_path := MkPathType "LTRDeleteModelPath" LTRDeleteModelPath _ _; op_P := LTRDeleteModelParams; op_fields r := MkLTRDeleteModelPath (LTRDeleteModelReq_Store r) (LTRDeleteModelReq_ID r);
     op_params := LTRDeleteModelReq_Params; op_defaults := None; op_timeout := LTRDeleteModelParams_TimeoutParams; op_debug := LTRDeleteModelParams_DebugParams;
     op_format := None; op_own := LTRDeleteModelParams_own; op_slots := LTRDeleteModelParams_slots;
     op_body _ := no_body; op_headers r := LTRDeleteModelReq_Header r;
     Method := LTRDeleteModel_Method; GetRequest := LTRDeleteModelReq_GetRequest;
     op_keys := [];
     op_described := [("DELETE", "/_ltr/_model/{id}"); ("DELETE", "/_ltr/{store}/_model/{id}")];
     op_query := [] |}.
#[export] Instance LTRDeleteModel_operates : LawfulOp LTRDeleteModelReq.
Proof. operate. Qed.

Record LTRDeleteStoreParams := MkLTRDeleteStoreParams { LTRDeleteStoreParams_TimeoutParams : TimeoutParams; LTRDeleteStoreParams_DebugParams : DebugParams }.
Definition LTRDeleteStoreParams_own (q : LTRDeleteStoreParams) : list param :=
  [].
Definition LTRDeleteStoreParams_slots : list (string * (LTRDeleteStoreParams -> slot)) :=
  [].
Definition LTRDeleteStoreParams_get (q : LTRDeleteStoreParams) : gmap string string :=
  encode_params (EncodeTimeout (LTRDeleteStoreParams_TimeoutParams q) ++ EncodeDebug (LTRDeleteStoreParams_DebugParams q) ++ LTRDeleteStoreParams_own q).
Record LTRDeleteStoreReq := MkLTRDeleteStoreReq { LTRDeleteStoreReq_Store : string; LTRDeleteStoreReq_Header : headers; LTRDeleteStoreReq_Params : option LTRDeleteStoreParams }.
Definition LTRDeleteStoreReq_GetRequest (r : LTRDeleteStoreReq) (method : string) : request_error + httpRequest * Z :=
  send method (LTRDeleteStorePath_Build (MkLTRDeleteStorePath (LTRDeleteStoreReq_Store r)))
    (match LTRDeleteStoreReq_Params r with Some q => LTRDeleteStoreParams_get q | None => ∅ end)
    no_body (LTRDeleteStoreReq_Header r).
Definition LTRDeleteStore_Method (r : LTRDeleteStoreReq) : string := "DELETE".
#[export] Instance LTRDeleteStore_operation : operation LTRDeleteStoreReq :=
  {| op_path := MkPathType "LTRDeleteStorePath" LTRDeleteStorePath _ _; op_P := LTRDeleteStoreParams; op_fields r := MkLTRDeleteStorePath (LTRDeleteStoreReq_Store r);
     op_params := LTRDeleteStoreReq_Params; op_defaults := None; op_timeout := LTRDeleteStoreParams_TimeoutParams; op_debug := LTRDeleteStoreParams_DebugParams;
     op_format := None; op_own := LTRDeleteStoreParams_own; op_slots := LTRDeleteStoreParams_slots;
     op_body _ := no_body; op_headers r := LTRDeleteStoreReq_Header r;
     Method := LTRDeleteStore_Method; GetRequest := LTRDeleteStoreReq_GetRequest;
     op_keys := [];
     op_described := [("DELETE", "/_ltr/{store}")];
     op_query := [] |}.
#[export] Instance LTRDeleteStore_operates : LawfulOp LTRDeleteStoreReq.
Proof. operate. Qed.

Record LTRGetFeatureParams := MkLTRGetFeatureParams { LTRGetFeatureParams_TimeoutParams : TimeoutParams; LTRGetFeatureParams_DebugParams : DebugParams }.
Definition LTRGetFeatureParams_own (q : LTRGetFeatureParams) : list param :=
  [].
Definition LTRGetFeatureParams_slots : list (string * (LTRGetFeatureParams -> slot)) :=
  [].
Definition LTRGetFeatureParams_get (q : LTRGetFeatureParams) : gmap string string :=
  encode_params (EncodeTimeout (LTRGetFeatureParams_TimeoutParams q) ++ EncodeDebug (LTRGetFeatureParams_DebugParams q) ++ LTRGetFeatureParams_own q).
Record LTRGetFeatureReq := MkLTRGetFeatureReq { LTRGetFeatureReq_ID : string; LTRGetFeatureReq_Store : string; LTRGetFeatureReq_Header : headers; LTRGetFeatureReq_Params : option LTRGetFeatureParams }.
Definition LTRGetFeatureReq_GetRequest (r : LTRGetFeatureReq) (method : string) : request_error + httpRequest * Z :=
  send method (LTRGetFeaturePath_Build (MkLTRGetFeaturePath (LTRGetFeatureReq_Store r) (LTRGetFeatureReq_ID r)))
    (match LTRGetFeatureReq_Params r with Some q => LTRGetFeatureParams_get q | None => ∅ end)
    no_body (LTRGetFeatureReq_Header r).
Definition LTRGetFeature_Method (r : LTRGetFeatureReq) : string := "GET".
#[export] Instance LTRGetFeature_operation : operation LTRGetFeatureReq :=
  {| op_path := MkPathType "LTRGetFeaturePath" LTRGetFeaturePath _ _; op_P := LTRGetFeatureParams; op_fields r := MkLTRGetFeaturePath (LTRGetFeatureReq_Store r) (LTRGetFeatureReq_ID r);
     op_params := LTRGetFeatureReq_Params; op_defaults := None; op_timeout := LTRGetFeatureParams_TimeoutParams; op_debug := LTRGetFeatureParams_DebugParams;
     op_format := None; op_own := LTRGetFeatureParams_own; op_slots := LTRGetFeatureParams_slots;
     op_body _ := no_body; op_headers r := LTRGetFeatureReq_Header r;
     Method := LTRGetFeature_Method; GetRequest := LTRGetFeatureReq_GetRequest;
     op_keys := [];
     op_described := [("GET", "/_ltr/_feature/{id}"); ("GET", "/_ltr/{store}/_feature/{id}")];
     op_query := [] |}.
#[export] Instance LTRGetFeature_operates : LawfulOp LTRGetFeatureReq.
Proof. operate. Qed.

Record LTRGetFeaturesetParams := MkLTRGetFeaturesetParams { LTRGetFeaturesetParams_TimeoutParams : TimeoutParams; LTRGetFeaturesetParams_DebugParams : DebugParams }.
Definition LTRGetFeaturesetParams_own (q : LTRGetFeaturesetParams) : list param :=
  [].
Definition LTRGetFeaturesetParams_slots : list (string * (LTRGetFeaturesetParams -> slot)) :=
  [].
Definition LTRGetFeaturesetParams_get (q : LTRGetFeaturesetParams) : gmap string string :=
  encode_params (EncodeTimeout (LTRGetFeaturesetParams_TimeoutParams q) ++ EncodeDebug (LTRGetFeaturesetParams_DebugParams q) ++ LTRGetFeaturesetParams_own q).
Record LTRGetFeaturesetReq := MkLTRGetFeaturesetReq { LTRGetFeaturesetReq_ID : string; LTRGetFeaturesetReq_Store : string; LTRGetFeaturesetReq_Header : headers;
  LTRGetFeaturesetReq_Params : option LTRGetFeaturesetParams }.
Definition LTRGetFeaturesetReq_GetRequest (r : LTRGetFeaturesetReq) (method : string) : request_error + httpRequest * Z :=
  send method (LTRGetFeaturesetPath_Build (MkLTRGetFeaturesetPath (LTRGetFeaturesetReq_Store r) (LTRGetFeaturesetReq_ID r)))
    (match LTRGetFeaturesetReq_Params r with Some q => LTRGetFeaturesetParams_get q | None => ∅ end)
    no_body (LTRGetFeaturesetReq_Header r).
Definition LTRGetFeatureset_Method (r : LTRGetFeaturesetReq) : string := "GET".
#[export] Instance LTRGetFeatureset_operation : operation LTRGetFeaturesetReq :=
  {| op_path := MkPathType "LTRGetFeaturesetPath" LTRGetFeaturesetPath _ _; op_P := LTRGetFeaturesetParams; op_fields r := MkLTRGetFeaturesetPath (LTRGetFeaturesetReq_Store r) (LTRGetFeaturesetReq_ID r);
     op_params := LTRGetFeaturesetReq_Params; op_defaults := None; op_timeout := LTRGetFeaturesetParams_TimeoutParams; op_debug := LTRGetFeaturesetParams_DebugParams;
     op_format := None; op_own := LTRGetFeaturesetParams_own; op_slots := LTRGetFeaturesetParams_slots;
     op_body _ := no_body; op_headers r := LTRGetFeaturesetReq_Header r;
     Method := LTRGetFeatureset_Method; GetRequest := LTRGetFeaturesetReq_GetRequest;
     op_keys := [];
     op_described := [("GET", "/_ltr/_featureset/{id}"); ("GET", "/_ltr/{store}/_featureset/{id}")];
     op_query := [] |}.
#[export] Instance LTRGetFeatureset_operates : LawfulOp LTRGetFeaturesetReq.
Proof. operate. Qed.

Record LTRGetModelParams := MkLTRGetModelParams { LTRGetModelParams_TimeoutParams : TimeoutParams; LTRGetModelParams_DebugParams : DebugParams }.
Definition LTRGetModelParams_own (q : LTRGetModelParams) : list param :=
  [].
Definition LTRGetModelParams_slots : list (string * (LTRGetModelParams -> slot)) :=
  [].
Definition LTRGetModelParams_get (q : LTRGetModelParams) : gmap string string :=
  encode_params (EncodeTimeout (LTRGetModelParams_TimeoutParams q) ++ EncodeDebug (LTRGetModelParams_DebugParams q) ++ LTRGetModelParams_own q).
Record LTRGetModelReq := MkLTRGetModelReq { LTRGetModelReq_ID : string; LTRGetModelReq_Store : string; LTRGetModelReq_Header : headers; LTRGetModelReq_Params : option LTRGetModelParams }.
Definition LTRGetModelReq_GetRequest (r : LTRGetModelReq) (method : string) : request_error + httpRequest * Z :=
  send method (LTRGetModelPath_Build (MkLTRGetModelPath (LTRGetModelReq_Store r) (LTRGetModelReq_ID r)))
    (match LTRGetModelReq_Params r with Some q => LTRGetModelParams_get q | None => ∅ end)
    no_body (LTRGetModelReq_Header r).
Definition LTRGetModel_Method (r : LTRGetModelReq) : string := "GET".
#[export] Instance LTRGetModel_operation : operation LTRGetModelReq :=
  {| op_path := MkPathType "LTRGetModelPath" LTRGetModelPath _ _; op_P := LTRGetModelParams; op_fields r := MkLTRGetModelPath (LTRGetModelReq_Store r) (LTRGetModelReq_ID r);
     op_params := LTRGetModelReq_Params; op_defaults := None; op_timeout := LTRGetModelParams_TimeoutParams; op_debug := LTRGetModelParams_DebugParams;
     op_format := None; op_own := LTRGetModelParams_own; op_slots := LTRGetModelParams_slots;
     op_body _ := no_body; op_headers r := LTRGetModelReq_Header r;
     Method := LTRGetModel_Method; GetRequest := LTRGetModelReq_GetRequest;
     op_keys := [];
     op_described := [("GET", "/_ltr/_model/{id}"); ("GET", "/_ltr/{store}/_model/{id}")];
     op_query := [] |}.
#[export] Instance LTRGetModel_operates : LawfulOp LTRGetModelReq.
Proof. operate. Qed.

Record LTRGetStoreParams := MkLTRGetStoreParams { LTRGetStoreParams_TimeoutParams : TimeoutParams; LTRGetStoreParams_DebugParams : DebugParams }.
Definition LTRGetStoreParams_own (q : LTRGetStoreParams) : list param :=
  [].
Definition LTRGetStoreParams_slots : list (string * (LTRGetStoreParams -> slot)) :=
  [].
Definition LTRGetStoreParams_get (q : LTRGetStoreParams) : gmap string string :=
  encode_params (EncodeTimeout (LTRGetStoreParams_TimeoutParams q) ++ EncodeDebug (LTRGetStoreParams_DebugParams q) ++ LTRGetStoreParams_own q).
Record LTRGetStoreReq := MkLTRGetStoreReq { LTRGetStoreReq_Store : string; LTRGetStoreReq_Header : headers; LTRGetStoreReq_Params : option LTRGetStoreParams }.
Definition LTRGetStoreReq_GetRequest (r : LTRGetStoreReq) (method : string) : request_error + httpRequest * Z :=
  send method (LTRGetStorePath_Build (MkLTRGetStorePath (LTRGetStoreReq_Store r)))
    (match LTRGetStoreReq_Params r with Some q => LTRGetStoreParams_get q | None => ∅ end)
    no_body (LTRGetStoreReq_Header r).
Definition LTRGetStore_Method (r : LTRGetStoreReq) : string := "GET".
#[export] Instance LTRGetStore_operation : operation LTRGetStoreReq :=
  {| op_path := MkPathType "LTRGetStorePath" LTRGetStorePath _ _; op_P := LTRGetStoreParams; op_fields r := MkLTRGetStorePath (LTRGetStoreReq_Store r);
     op_params := LTRGetStoreReq_Params; op_defaults := None; op_timeout := LTRGetStoreParams_TimeoutParams; op_debug := LTRGetStoreParams_DebugParams;
     op_format := None; op_own := LTRGetStoreParams_own; op_slots := LTRGetStoreParams_slots;
     op_body _ := no_body; op_headers r := LTRGetStoreReq_Header r;
     Method := LTRGetStore_Method; GetRequest := LTRGetStoreReq_GetRequest;
     op_keys := [];
     op_described := [("GET", "/_ltr/{store}")];
     op_query := [] |}.
#[export] Instance LTRGetStore_operates : LawfulOp LTRGetStoreReq.
Proof. operate. Qed.

Record LTRListStoresParams := MkLTRListStoresParams { LTRListStoresParams_TimeoutParams : TimeoutParams; LTRListStoresParams_DebugParams : DebugParams }.
Definition LTRListStoresParams_own (q : LTRListStoresParams) : list param :=
  [].
Definition LTRListStoresParams_slots : list (string * (LTRListStoresParams -> slot)) :=
  [].
Definition LTRListStoresParams_get (q : LTRListStoresParams) : gmap string string :=
  encode_params (EncodeTimeout (LTRListStoresParams_TimeoutParams q) ++ EncodeDebug (LTRListStoresParams_DebugParams q) ++ LTRListStoresParams_own q).
Record LTRListStoresReq := MkLTRListStoresReq { LTRListStoresReq_Header : headers; LTRListStoresReq_Params : option LTRListStoresParams }.
Definition LTRListStoresReq_GetRequest (r : LTRListStoresReq) (method : string) : request_error + httpRequest * Z :=
  send method (LTRListStoresPath_Build (MkLTRListStoresPath))
    (match LTRListStoresReq_Params r with Some q => LTRListStoresParams_get q | None => ∅ end)
    no_body (LTRListStoresReq_Header r).
Definition LTRListStores_Method (r : LTRListStoresReq) : string := "GET".
#[export] Instance LTRListStores_operation : operation LTRListStoresReq :=
  {| op_path := MkPathType "LTRListStoresPath" LTRListStoresPath _ _; op_P := LTRListStoresParams; op_fields r := MkLTRListStoresPath;
     op_params := LTRListStoresReq_Params; op_defaults := None; op_timeout := LTRListStoresParams_TimeoutParams; op_debug := LTRListStoresParams_DebugParams;
     op_format := None; op_own := LTRListStoresParams_own; op_slots := LTRListStoresParams_slots;
     op_body _ := no_body; op_headers r := LTRListStoresReq_Header r;
     Method := LTRListStores_Method; GetRequest := LTRListStoresReq_GetRequest;
     op_keys := [];
     op_described := [("GET", "/_ltr")];
     op_query := [] |}.
#[export] Instance LTRListStores_operates : LawfulOp LTRListStoresReq.
Proof. operate. Qed.

Record LTRSearchFeaturesParams := MkLTRSearchFeaturesParams { LTRSearchFeaturesParams_TimeoutParams : TimeoutParams; LTRSearchFeaturesParams_DebugParams : DebugParams; LTRSearchFeaturesParams_From : Z;
  LTRSearchFeaturesParams_Prefix : string; LTRSearchFeaturesParams_Size : Z }.
Definition LTRSearchFeaturesParams_own (q : LTRSearchFeaturesParams) : list param :=
  [("from", nonZero (LTRSearchFeaturesParams_From q)); ("prefix", nonEmpty (LTRSearchFeaturesParams_Prefix q));
  ("size", nonZero (LTRSearchFeaturesParams_Size q))].
Definition LTRSearchFeaturesParams_slots : list (string * (LTRSearchFeaturesParams -> slot)) :=
  [("From", fun q => Int (LTRSearchFeaturesParams_From q)); ("Prefix", fun q => Text (LTRSearchFeaturesParams_Prefix q));
  ("Size", fun q => Int (LTRSearchFeaturesParams_Size q))].
Definition LTRSearchFeaturesParams_get (q : LTRSearchFeaturesParams) : gmap string string :=
  encode_params (EncodeTimeout (LTRSearchFeaturesParams_TimeoutParams q) ++ EncodeDebug (LTRSearchFeaturesParams_DebugParams q) ++ LTRSearchFeaturesParams_own q).
Record LTRSearchFeaturesReq := MkLTRSearchFeaturesReq { LTRSearchFeaturesReq_Store : string; LTRSearchFeaturesReq_Header : headers; LTRSearchFeaturesReq_Params : option LTRSearchFeaturesParams }.
Definition LTRSearchFeaturesReq_GetRequest (r : LTRSearchFeaturesReq) (method : string) : request_error + httpRequest * Z :=
  send method (LTRSearchFeaturesPath_Build (MkLTRSearchFeaturesPath (LTRSearchFeaturesReq_Store r)))
    (match LTRSearchFeaturesReq_Params r with Some q => LTRSearchFeaturesParams_get q | None => ∅ end)
    no_body (LTRSearchFeaturesReq_Header r).
Definition LTRSearchFeatures_Method (r : LTRSearchFeaturesReq) : string := "GET".
#[export] Instance LTRSearchFeatures_operation : operation LTRSearchFeaturesReq :=
  {| op_path := MkPathType "LTRSearchFeaturesPath" LTRSearchFeaturesPath _ _; op_P := LTRSearchFeaturesParams; op_fields r := MkLTRSearchFeaturesPath (LTRSearchFeaturesReq_Store r);
     op_params := LTRSearchFeaturesReq_Params; op_defaults := None; op_timeout := LTRSearchFeaturesParams_TimeoutParams; op_debug := LTRSearchFeaturesParams_DebugParams;
     op_format := None; op_own := LTRSearchFeaturesParams_own; op_slots := LTRSearchFeaturesParams_slots;
     op_body _ := no_body; op_headers r := LTRSearchFeaturesReq_Header r;
     Method := LTRSearchFeatures_Method; GetRequest := LTRSearchFeaturesReq_GetRequest;
     op_keys := ["from"; "prefix"; "size"];
     op_described := [("GET", "/_ltr/_feature"); ("GET", "/_ltr/{store}/_feature")];
     op_query := ["from"; "prefix"; "size"] |}.
#[export] Instance LTRSearchFeatures_operates : LawfulOp LTRSearchFeaturesReq.
Proof. operate. Qed.

Record LTRSearchFeaturesetsParams := MkLTRSearchFeaturesetsParams { LTRSearchFeaturesetsParams_TimeoutParams : TimeoutParams; LTRSearchFeaturesetsParams_DebugParams : DebugParams; LTRSearchFeaturesetsParams_From : Z;
  LTRSearchFeaturesetsParams_Prefix : string; LTRSearchFeaturesetsParams_Size : Z }.
Definition LTRSearchFeaturesetsParams_own (q : LTRSearchFeaturesetsParams) : list param :=
  [("from", nonZero (LTRSearchFeaturesetsParams_From q)); ("prefix", nonEmpty (LTRSearchFeaturesetsParams_Prefix q));
  ("size", nonZero (LTRSearchFeaturesetsParams_Size q))].
Definition LTRSearchFeaturesetsParams_slots : list (string * (LTRSearchFeaturesetsParams -> slot)) :=
  [("From", fun q => Int (LTRSearchFeaturesetsParams_From q)); ("Prefix", fun q => Text (LTRSearchFeaturesetsParams_Prefix q));
  ("Size", fun q => Int (LTRSearchFeaturesetsParams_Size q))].
Definition LTRSearchFeaturesetsParams_get (q : LTRSearchFeaturesetsParams) : gmap string string :=
  encode_params (EncodeTimeout (LTRSearchFeaturesetsParams_TimeoutParams q) ++ EncodeDebug (LTRSearchFeaturesetsParams_DebugParams q) ++ LTRSearchFeaturesetsParams_own q).
Record LTRSearchFeaturesetsReq := MkLTRSearchFeaturesetsReq { LTRSearchFeaturesetsReq_Store : string; LTRSearchFeaturesetsReq_Header : headers; LTRSearchFeaturesetsReq_Params : option LTRSearchFeaturesetsParams }.
Definition LTRSearchFeaturesetsReq_GetRequest (r : LTRSearchFeaturesetsReq) (method : string) : request_error + httpRequest * Z :=
  send method (LTRSearchFeaturesetsPath_Build (MkLTRSearchFeaturesetsPath (LTRSearchFeaturesetsReq_Store r)))
    (match LTRSearchFeaturesetsReq_Params r with Some q => LTRSearchFeaturesetsParams_get q | None => ∅ end)
    no_body (LTRSearchFeaturesetsReq_Header r).
Definition LTRSearchFeaturesets_Method (r : LTRSearchFeaturesetsReq) : string := "GET".
#[export] Instance LTRSearchFeaturesets_operation : operation LTRSearchFeaturesetsReq :=
  {| op_path := MkPathType "LTRSearchFeaturesetsPath" LTRSearchFeaturesetsPath _ _; op_P := LTRSearchFeaturesetsParams; op_fields r := MkLTRSearchFeaturesetsPath (LTRSearchFeaturesetsReq_Store r);
     op_params := LTRSearchFeaturesetsReq_Params; op_defaults := None; op_timeout := LTRSearchFeaturesetsParams_TimeoutParams; op_debug := LTRSearchFeaturesetsParams_DebugParams;
     op_format := None; op_own := LTRSearchFeaturesetsParams_own; op_slots := LTRSearchFeaturesetsParams_slots;
     op_body _ := no_body; op_headers r := LTRSearchFeaturesetsReq_Header r;
     Method := LTRSearchFeaturesets_Method; GetRequest := LTRSearchFeaturesetsReq_GetRequest;
     op_keys := ["from"; "prefix"; "size"];
     op_described := [("GET", "/_ltr/_featureset"); ("GET", "/_ltr/{store}/_featureset")];
     op_query := ["from"; "prefix"; "size"] |}.
#[export] Instance LTRSearchFeaturesets_operates : LawfulOp LTRSearchFeaturesetsReq.
Proof. operate. Qed.

Record LTRSearchModelsParams := MkLTRSearchModelsParams { LTRSearchModelsParams_TimeoutParams : TimeoutParams; LTRSearchModelsParams_DebugParams : DebugParams; LTRSearchModelsParams_From : Z;
  LTRSearchModelsParams_Prefix : string; LTRSearchModelsParams_Size : Z }.
Definition LTRSearchModelsParams_own (q : LTRSearchModelsParams) : list param :=
  [("from", nonZero (LTRSearchModelsParams_From q)); ("prefix", nonEmpty (LTRSearchModelsParams_Prefix q));
  ("size", nonZero (LTRSearchModelsParams_Size q))].
Definition LTRSearchModelsParams_slots : list (string * (LTRSearchModelsParams -> slot)) :=
  [("From", fun q => Int (LTRSearchModelsParams_From q)); ("Prefix", fun q => Text (LTRSearchModelsParams_Prefix q));
  ("Size", fun q => Int (LTRSearchModelsParams_Size q))].
Definition LTRSearchModelsParams_get (q : LTRSearchModelsParams) : gmap string string :=
  encode_params (EncodeTimeout (LTRSearchModelsParams_TimeoutParams q) ++ EncodeDebug (LTRSearchModelsParams_DebugParams q) ++ LTRSearchModelsParams_own q).
Record LTRSearchModelsReq := MkLTRSearchModelsReq { LTRSearchModelsReq_Store : string; LTRSearchModelsReq_Header : headers; LTRSearchModelsReq_Params : option LTRSearchModelsParams }.
Definition LTRSearchModelsReq_GetRequest (r : LTRSearchModelsReq) (method : string) : request_error + httpRequest * Z :=
  send method (LTRSearchModelsPath_Build (MkLTRSearchModelsPath (LTRSearchModelsReq_Store r)))
    (match LTRSearchModelsReq_Params r with Some q => LTRSearchModelsParams_get q | None => ∅ end)
    no_body (LTRSearchModelsReq_Header r).
Definition LTRSearchModels_Method (r : LTRSearchModelsReq) : string := "GET".
#[export] Instance LTRSearchModels_operation : operation LTRSearchModelsReq :=
  {| op_path := MkPathType "LTRSearchModelsPath" LTRSearchModelsPath _ _; op_P := LTRSearchModelsParams; op_fields r := MkLTRSearchModelsPath (LTRSearchModelsReq_Store r);
     op_params := LTRSearchModelsReq_Params; op_defaults := None; op_timeout := LTRSearchModelsParams_TimeoutParams; op_debug := LTRSearchModelsParams_DebugParams;
     op_format := None; op_own := LTRSearchModelsParams_own; op_slots := LTRSearchModelsParams_slots;
     op_body _ := no_body; op_headers r := LTRSearchModelsReq_Header r;
     Method := LTRSearchModels_Method; GetRequest := LTRSearchModelsReq_GetRequest;
     op_keys := ["from"; "prefix"; "size"];
     op_described := [("GET", "/_ltr/_model"); ("GET", "/_ltr/{store}/_model")];
     op_query := ["from"; "prefix"; "size"] |}.
#[export] Instance LTRSearchModels_operates : LawfulOp LTRSearchModelsReq.
Proof. operate. Qed.

Record LTRStatsParams := MkLTRStatsParams { LTRStatsParams_TimeoutParams : TimeoutParams; LTRStatsParams_DebugParams : DebugParams }.
Definition LTRStatsParams_own (q : LTRStatsParams) : list param :=
  [].
Definition LTRStatsParams_slots : list (string * (LTRStatsParams -> slot)) :=
  [].
Definition LTRStatsParams_get (q : LTRStatsParams) : gmap string string :=
  encode_params (EncodeTimeout (LTRStatsParams_TimeoutParams q) ++ EncodeDebug (LTRStatsParams_DebugParams q) ++ LTRStatsParams_own q).
Record LTRStatsReq := MkLTRStatsReq { LTRStatsReq_Stat : list string; LTRStatsReq_NodeID : list string; LTRStatsReq_Header : headers; LTRStatsReq_Params : option LTRStatsParams }.
Definition LTRStatsReq_GetRequest (r : LTRStatsReq) (method : string) : request_error + httpRequest * Z :=
  send method (LTRStatsPath_Build (MkLTRStatsPath (LTRStatsReq_NodeID r) (LTRStatsReq_Stat r)))
    (match LTRStatsReq_Params r with Some q => LTRStatsParams_get q | None => ∅ end)
    no_body (LTRStatsReq_Header r).
Definition LTRStats_Method (r : LTRStatsReq) : string := "GET".
#[export] Instance LTRStats_operation : operation LTRStatsReq :=
  {| op_path := MkPathType "LTRStatsPath" LTRStatsPath _ _; op_P := LTRStatsParams; op_fields r := MkLTRStatsPath (LTRStatsReq_NodeID r) (LTRStatsReq_Stat r);
     op_params := LTRStatsReq_Params; op_defaults := None; op_timeout := LTRStatsParams_TimeoutParams; op_debug := LTRStatsParams_DebugParams;
     op_format := None; op_own := LTRStatsParams_own; op_slots := LTRStatsParams_slots;
     op_body _ := no_body; op_headers r := LTRStatsReq_Header r;
     Method := LTRStats_Method; GetRequest := LTRStatsReq_GetRequest;
     op_keys := [];
     op_described := [("GET", "/_plugins/_ltr/{node_id}/stats"); ("GET", "/_plugins/_ltr/{node_id}/stats/{stat}"); ("GET", "/_plugins/_ltr/stats");
        ("GET", "/_plugins/_ltr/stats/{stat}")];
     op_query := [] |}.
#[export] Instance LTRStats_operates : LawfulOp LTRStatsReq.
Proof. operate. Qed.

Record LTRUpdateFeatureParams := MkLTRUpdateFeatureParams { LTRUpdateFeatureParams_TimeoutParams : TimeoutParams; LTRUpdateFeatureParams_DebugParams : DebugParams; LTRUpdateFeatureParams_Routing : string }.
Definition LTRUpdateFeatureParams_own (q : LTRUpdateFeatureParams) : list param :=
  [("routing", nonEmpty (LTRUpdateFeatureParams_Routing q))].
Definition LTRUpdateFeatureParams_slots : list (string * (LTRUpdateFeatureParams -> slot)) :=
  [("Routing", fun q => Text (LTRUpdateFeatureParams_Routing q))].
Definition LTRUpdateFeatureParams_get (q : LTRUpdateFeatureParams) : gmap string string :=
  encode_params (EncodeTimeout (LTRUpdateFeatureParams_TimeoutParams q) ++ EncodeDebug (LTRUpdateFeatureParams_DebugParams q) ++ LTRUpdateFeatureParams_own q).
Record LTRUpdateFeatureReq := MkLTRUpdateFeatureReq { LTRUpdateFeatureReq_ID : string; LTRUpdateFeatureReq_Store : string; LTRUpdateFeatureReq_Body : reader; LTRUpdateFeatureReq_Header : headers;
  LTRUpdateFeatureReq_Params : option LTRUpdateFeatureParams }.
Definition LTRUpdateFeatureReq_GetRequest (r : LTRUpdateFeatureReq) (method : string) : request_error + httpRequest * Z :=
  send method (LTRUpdateFeaturePath_Build (MkLTRUpdateFeaturePath (LTRUpdateFeatureReq_Store r) (LTRUpdateFeatureReq_ID r)))
    (match LTRUpdateFeatureReq_Params r with Some q => LTRUpdateFeatureParams_get q | None => ∅ end)
    (raw_body (LTRUpdateFeatureReq_Body r)) (LTRUpdateFeatureReq_Header r).
Definition LTRUpdateFeature_Method (r : LTRUpdateFeatureReq) : string := "POST".
#[export] Instance LTRUpdateFeature_operation : operation LTRUpdateFeatureReq :=
  {| op_path := MkPathType "LTRUpdateFeaturePath" LTRUpdateFeaturePath _ _; op_P := LTRUpdateFeatureParams; op_fields r := MkLTRUpdateFeaturePath (LTRUpdateFeatureReq_Store r) (LTRUpdateFeatureReq_ID r);
     op_params := LTRUpdateFeatureReq_Params; op_defaults := None; op_timeout := LTRUpdateFeatureParams_TimeoutParams; op_debug := LTRUpdateFeatureParams_DebugParams;
     op_format := None; op_own := LTRUpdateFeatureParams_own; op_slots := LTRUpdateFeatureParams_slots;
     op_body r := raw_body (LTRUpdateFeatureReq_Body r); op_headers r := LTRUpdateFeatureReq_Header r;
     Method := LTRUpdateFeature_Method; GetRequest := LTRUpdateFeatureReq_GetRequest;
     op_keys := ["routing"];
     op_described := [("POST", "/_ltr/_feature/{id}"); ("POST", "/_ltr/{store}/_feature/{id}")];
     op_query := ["routing"] |}.
#[export] Instance LTRUpdateFeature_operates : LawfulOp LTRUpdateFeatureReq.
Proof. operate. Qed.

Record LTRUpdateFeaturesetParams := MkLTRUpdateFeaturesetParams { LTRUpdateFeaturesetParams_TimeoutParams : TimeoutParams; LTRUpdateFeaturesetParams_DebugParams : DebugParams;
  LTRUpdateFeaturesetParams_Routing : string }.
Definition LTRUpdateFeaturesetParams_own (q : LTRUpdateFeaturesetParams) : list param :=
  [("routing", nonEmpty (LTRUpdateFeaturesetParams_Routing q))].
Definition LTRUpdateFeaturesetParams_slots : list (string * (LTRUpdateFeaturesetParams -> slot)) :=
  [("Routing", fun q => Text (LTRUpdateFeaturesetParams_Routing q))].
Definition LTRUpdateFeaturesetParams_get (q : LTRUpdateFeaturesetParams) : gmap string string :=
  encode_params (EncodeTimeout (LTRUpdateFeaturesetParams_TimeoutParams q) ++ EncodeDebug (LTRUpdateFeaturesetParams_DebugParams q) ++ LTRUpdateFeaturesetParams_own q).
Record LTRUpdateFeaturesetReq := MkLTRUpdateFeaturesetReq { LTRUpdateFeaturesetReq_ID : string; LTRUpdateFeaturesetReq_Store : string; LTRUpdateFeaturesetReq_Body : reader;
  LTRUpdateFeaturesetReq_Header : headers; LTRUpdateFeaturesetReq_Params : option LTRUpdateFeaturesetParams }.
Definition LTRUpdateFeaturesetReq_GetRequest (r : LTRUpdateFeaturesetReq) (method : string) : request_error + httpRequest * Z :=
  send method (LTRUpdateFeaturesetPath_Build (MkLTRUpdateFeaturesetPath (LTRUpdateFeaturesetReq_Store r) (LTRUpdateFeaturesetReq_ID r)))
    (match LTRUpdateFeaturesetReq_Params r with Some q => LTRUpdateFeaturesetParams_get q | None => ∅ end)
    (raw_body (LTRUpdateFeaturesetReq_Body r)) (LTRUpdateFeaturesetReq_Header r).
Definition LTRUpdateFeatureset_Method (r : LTRUpdateFeaturesetReq) : string := "POST".
#[export] Instance LTRUpdateFeatureset_operation : operation LTRUpdateFeaturesetReq :=
  {| op_path := MkPathType "LTRUpdateFeaturesetPath" LTRUpdateFeaturesetPath _ _; op_P := LTRUpdateFeaturesetParams; op_fields r := MkLTRUpdateFeaturesetPath (LTRUpdateFeaturesetReq_Store r) (LTRUpdateFeaturesetReq_ID r);
     op_params := LTRUpdateFeaturesetReq_Params; op_defaults := None; op_timeout := LTRUpdateFeaturesetParams_TimeoutParams; op_debug := LTRUpdateFeaturesetParams_DebugParams;
     op_format := None; op_own := LTRUpdateFeaturesetParams_own; op_slots := LTRUpdateFeaturesetParams_slots;
     op_body r := raw_body (LTRUpdateFeaturesetReq_Body r); op_headers r := LTRUpdateFeaturesetReq_Header r;
     Method := LTRUpdateFeatureset_Method; GetRequest := LTRUpdateFeaturesetReq_GetRequest;
     op_keys := ["routing"];
     op_described := [("POST", "/_ltr/_featureset/{id}"); ("POST", "/_ltr/{store}/_featureset/{id}")];
     op_query := ["routing"] |}.
#[export] Instance LTRUpdateFeatureset_operates : LawfulOp LTRUpdateFeaturesetReq.
Proof. operate. Qed.

Record NeuralStatsParams := MkNeuralStatsParams { NeuralStatsParams_TimeoutParams : TimeoutParams; NeuralStatsParams_DebugParams : DebugParams; NeuralStatsParams_FlatStatPaths : option bool;
  NeuralStatsParams_IncludeAllNodes : option bool; NeuralStatsParams_IncludeIndividualNodes : option bool; NeuralStatsParams_IncludeInfo : option bool;
  NeuralStatsParams_IncludeMetadata : option bool }.
Definition NeuralStatsParams_own (q : NeuralStatsParams) : list param :=
  [("flat_stat_paths", boolPtr (NeuralStatsParams_FlatStatPaths q)); ("include_all_nodes", boolPtr (NeuralStatsParams_IncludeAllNodes q));
  ("include_individual_nodes", boolPtr (NeuralStatsParams_IncludeIndividualNodes q)); ("include_info", boolPtr (NeuralStatsParams_IncludeInfo q));
  ("include_metadata", boolPtr (NeuralStatsParams_IncludeMetadata q))].
Definition NeuralStatsParams_slots : list (string * (NeuralStatsParams -> slot)) :=
  [("FlatStatPaths", fun q => BoolPtr (NeuralStatsParams_FlatStatPaths q)); ("IncludeAllNodes", fun q => BoolPtr (NeuralStatsParams_IncludeAllNodes q));
  ("IncludeIndividualNodes", fun q => BoolPtr (NeuralStatsParams_IncludeIndividualNodes q));
  ("IncludeInfo", fun q => BoolPtr (NeuralStatsParams_IncludeInfo q)); ("IncludeMetadata", fun q => BoolPtr (NeuralStatsParams_IncludeMetadata q))].
Definition NeuralStatsParams_get (q : NeuralStatsParams) : gmap string string :=
  encode_params (EncodeTimeout (NeuralStatsParams_TimeoutParams q) ++ EncodeDebug (NeuralStatsParams_DebugParams q) ++ NeuralStatsParams_own q).
Record NeuralStatsReq := MkNeuralStatsReq { NeuralStatsReq_Stat : list string; NeuralStatsReq_NodeID : string; NeuralStatsReq_Header : headers; NeuralStatsReq_Params : option NeuralStatsParams }.
Definition NeuralStatsReq_GetRequest (r : NeuralStatsReq) (method : string) : request_error + httpRequest * Z :=
  send method (NeuralStatsPath_Build (MkNeuralStatsPath (NeuralStatsReq_NodeID r) (NeuralStatsReq_Stat r)))
    (match NeuralStatsReq_Params r with Some q => NeuralStatsParams_get q | None => ∅ end)
    no_body (NeuralStatsReq_Header r).
Definition NeuralStats_Method (r : NeuralStatsReq) : string := "GET".
#[export] Instance NeuralStats_operation : operation NeuralStatsReq :=
  {| op_path := MkPathType "NeuralStatsPath" NeuralStatsPath _ _; op_P := NeuralStatsParams; op_fields r := MkNeuralStatsPath (NeuralStatsReq_NodeID r) (NeuralStatsReq_Stat r);
     op_params := NeuralStatsReq_Params; op_defaults := None; op_timeout := NeuralStatsParams_TimeoutParams; op_debug := NeuralStatsParams_DebugParams;
     op_format := None; op_own := NeuralStatsParams_own; op_slots := NeuralStatsParams_slots;
     op_body _ := no_body; op_headers r := NeuralStatsReq_Header r;
     Method := NeuralStats_Method; GetRequest := NeuralStatsReq_GetRequest;
     op_keys := ["flat_stat_paths"; "include_all_nodes"; "include_individual_nodes"; "include_info"; "include_metadata"];
     op_described := [("GET", "/_plugins/_neural/{node_id}/stats"); ("GET", "/_plugins/_neural/{node_id}/stats/{stat}"); ("GET", "/_plugins/_neural/stats");
        ("GET", "/_plugins/_neural/stats/{stat}")];
     op_query := ["flat_stat_paths"; "include_all_nodes"; "include_individual_nodes"; "include_info"; "include_metadata"] |}.
#[export] Instance NeuralStats_operates : LawfulOp NeuralStatsReq.
Proof. operate. Qed.

Record SearchRelevanceDeleteExperimentsParams := MkSearchRelevanceDeleteExperimentsParams { SearchRelevanceDeleteExperimentsParams_TimeoutParams : TimeoutParams; SearchRelevanceDeleteExperimentsParams_DebugParams : DebugParams }.
Definition SearchRelevanceDeleteExperimentsParams_own (q : SearchRelevanceDeleteExperimentsParams) : list param :=
  [].
Definition SearchRelevanceDeleteExperimentsParams_slots : list (string * (SearchRelevanceDeleteExperimentsParams -> slot)) :=
  [].
Definition SearchRelevanceDeleteExperimentsParams_get (q : SearchRelevanceDeleteExperimentsParams) : gmap string string :=
  encode_params (EncodeTimeout (SearchRelevanceDeleteExperimentsParams_TimeoutParams q) ++ EncodeDebug (SearchRelevanceDeleteExperimentsParams_DebugParams q) ++ SearchRelevanceDeleteExperimentsParams_own q).
Record SearchRelevanceDeleteExperimentsReq := MkSearchRelevanceDeleteExperimentsReq { SearchRelevanceDeleteExperimentsReq_ExperimentID : string; SearchRelevanceDeleteExperimentsReq_Header : headers;
  SearchRelevanceDeleteExperimentsReq_Params : option SearchRelevanceDeleteExperimentsParams }.
Definition SearchRelevanceDeleteExperimentsReq_GetRequest (r : SearchRelevanceDeleteExperimentsReq) (method : string) : request_error + httpRequest * Z :=
  send method (SearchRelevanceDeleteExperimentsPath_Build (MkSearchRelevanceDeleteExperimentsPath (SearchRelevanceDeleteExperimentsReq_ExperimentID r)))
    (match SearchRelevanceDeleteExperimentsReq_Params r with Some q => SearchRelevanceDeleteExperimentsParams_get q | None => ∅ end)
    no_body (SearchRelevanceDeleteExperimentsReq_Header r).
Definition SearchRelevanceDeleteExperiments_Method (r : SearchRelevanceDeleteExperimentsReq) : string := "DELETE".
#[export] Instance SearchRelevanceDeleteExperiments_operation : operation SearchRelevanceDeleteExperimentsReq :=
  {| op_path := MkPathType "SearchRelevanceDeleteExperimentsPath" SearchRelevanceDeleteExperimentsPath _ _; op_P := SearchRelevanceDeleteExperimentsParams; op_fields r := MkSearchRelevanceDeleteExperimentsPath (SearchRelevanceDeleteExperimentsReq_ExperimentID r);
     op_params := SearchRelevanceDeleteExperimentsReq_Params; op_defaults := None; op_timeout := SearchRelevanceDeleteExperimentsParams_TimeoutParams; op_debug := SearchRelevanceDeleteExperimentsParams_DebugParams;
     op_format := None; op_own := SearchRelevanceDeleteExperimentsParams_own; op_slots := SearchRelevanceDeleteExperimentsParams_slots;
     op_body _ := no_body; op_headers r := SearchRelevanceDeleteExperimentsReq_Header r;
     Method := SearchRelevanceDeleteExperiments_Method; GetRequest := SearchRelevanceDeleteExperimentsReq_GetRequest;
     op_keys := [];
     op_described := [("DELETE", "/_plugins/_search_relevance/experiments/{experiment_id}")];
     op_query := [] |}.
#[export] Instance SearchRelevanceDeleteExperiments_operates : LawfulOp SearchRelevanceDeleteExperimentsReq.
Proof. operate. Qed.

Record SearchRelevanceDeleteJudgmentsParams := MkSearchRelevanceDeleteJudgmentsParams { SearchRelevanceDeleteJudgmentsParams_TimeoutParams : TimeoutParams; SearchRelevanceDeleteJudgmentsParams_DebugParams : DebugParams }.
Definition SearchRelevanceDeleteJudgmentsParams_own (q : SearchRelevanceDeleteJudgmentsParams) : list param :=
  [].
Definition SearchRelevanceDeleteJudgmentsParams_slots : list (string * (SearchRelevanceDeleteJudgmentsParams -> slot)) :=
  [].
Definition SearchRelevanceDeleteJudgmentsParams_get (q : SearchRelevanceDeleteJudgmentsParams) : gmap string string :=
  encode_params (EncodeTimeout (SearchRelevanceDeleteJudgmentsParams_TimeoutParams q) ++ EncodeDebug (SearchRelevanceDeleteJudgmentsParams_DebugParams q) ++ SearchRelevanceDeleteJudgmentsParams_own q).
Record SearchRelevanceDeleteJudgmentsReq := MkSearchRelevanceDeleteJudgmentsReq { SearchRelevanceDeleteJudgmentsReq_JudgmentID : string; SearchRelevanceDeleteJudgmentsReq_Header : headers;
  SearchRelevanceDeleteJudgmentsReq_Params : option SearchRelevanceDeleteJudgmentsParams }.
Definition SearchRelevanceDeleteJudgmentsReq_GetRequest (r : SearchRelevanceDeleteJudgmentsReq) (method : string) : request_error + httpRequest * Z :=
  send method (SearchRelevanceDeleteJudgmentsPath_Build (MkSearchRelevanceDeleteJudgmentsPath (SearchRelevanceDeleteJudgmentsReq_JudgmentID r)))
    (match SearchRelevanceDeleteJudgmentsReq_Params r with Some q => SearchRelevanceDeleteJudgmentsParams_get q | None => ∅ end)
    no_body (SearchRelevanceDeleteJudgmentsReq_Header r).
Definition SearchRelevanceDeleteJudgments_Method (r : SearchRelevanceDeleteJudgmentsReq) : string := "DELETE".
#[export] Instance SearchRelevanceDeleteJudgments_operation : operation SearchRelevanceDeleteJudgmentsReq :=
  {| op_path := MkPathType "SearchRelevanceDeleteJudgmentsPath" SearchRelevanceDeleteJudgmentsPath _ _; op_P := SearchRelevanceDeleteJudgmentsParams; op_fields r := MkSearchRelevanceDeleteJudgmentsPath (SearchRelevanceDeleteJudgmentsReq_JudgmentID r);
     op_params := SearchRelevanceDeleteJudgmentsReq_Params; op_defaults := None; op_timeout := SearchRelevanceDeleteJudgmentsParams_TimeoutParams; op_debug := SearchRelevanceDeleteJudgmentsParams_DebugParams;
     op_format := None; op_own := SearchRelevanceDeleteJudgmentsParams_own; op_slots := SearchRelevanceDeleteJudgmentsParams_slots;
     op_body _ := no_body; op_headers r := SearchRelevanceDeleteJudgmentsReq_Header r;
     Method := SearchRelevanceDeleteJudgments_Method; GetRequest := SearchRelevanceDeleteJudgmentsReq_GetRequest;
     op_keys := [];
     op_described := [("DELETE", "/_plugins/_search_relevance/judgments/{judgment_id}")];
     op_query := [] |}.
#[export] Instance SearchRelevanceDeleteJudgments_operates : LawfulOp SearchRelevanceDeleteJudgmentsReq.
Proof. operate. Qed.

Record SearchRelevanceDeleteQuerySetsParams := MkSearchRelevanceDeleteQuerySetsParams { SearchRelevanceDeleteQuerySetsParams_TimeoutParams : TimeoutParams; SearchRelevanceDeleteQuerySetsParams_DebugParams : DebugParams }.
Definition SearchRelevanceDeleteQuerySetsParams_own (q : SearchRelevanceDeleteQuerySetsParams) : list param :=
  [].
Definition SearchRelevanceDeleteQuerySetsParams_slots : list (string * (SearchRelevanceDeleteQuerySetsParams -> slot)) :=
  [].
Definition SearchRelevanceDeleteQuerySetsParams_get (q : SearchRelevanceDeleteQuerySetsParams) : gmap string string :=
  encode_params (EncodeTimeout (SearchRelevanceDeleteQuerySetsParams_TimeoutParams q) ++ EncodeDebug (SearchRelevanceDeleteQuerySetsParams_DebugParams q) ++ SearchRelevanceDeleteQuerySetsParams_own q).
Record SearchRelevanceDeleteQuerySetsReq := MkSearchRelevanceDeleteQuerySetsReq { SearchRelevanceDeleteQuerySetsReq_QuerySetID : string; SearchRelevanceDeleteQuerySetsReq_Header : headers;
  SearchRelevanceDeleteQuerySetsReq_Params : option SearchRelevanceDeleteQuerySetsParams }.
Definition SearchRelevanceDeleteQuerySetsReq_GetRequest (r : SearchRelevanceDeleteQuerySetsReq) (method : string) : request_error + httpRequest * Z :=
  send method (SearchRelevanceDeleteQuerySetsPath_Build (MkSearchRelevanceDeleteQuerySetsPath (SearchRelevanceDeleteQuerySetsReq_QuerySetID r)))
    (match SearchRelevanceDeleteQuerySetsReq_Params r with Some q => SearchRelevanceDeleteQuerySetsParams_get q | None => ∅ end)
    no_body (SearchRelevanceDeleteQuerySetsReq_Header r).
Definition SearchRelevanceDeleteQuerySets_Method (r : SearchRelevanceDeleteQuerySetsReq) : string := "DELETE".
#[export] Instance SearchRelevanceDeleteQuerySets_operation : operation SearchRelevanceDeleteQuerySetsReq :=
  {| op_path := MkPathType "SearchRelevanceDeleteQuerySetsPath" SearchRelevanceDeleteQuerySetsPath _ _; op_P := SearchRelevanceDeleteQuerySetsParams; op_fields r := MkSearchRelevanceDeleteQuerySetsPath (SearchRelevanceDeleteQuerySetsReq_QuerySetID r);
     op_params := SearchRelevanceDeleteQuerySetsReq_Params; op_defaults := None; op_timeout := SearchRelevanceDeleteQuerySetsParams_TimeoutParams; op_debug := SearchRelevanceDeleteQuerySetsParams_DebugParams;
     op_format := None; op_own := SearchRelevanceDeleteQuerySetsParams_own; op_slots := SearchRelevanceDeleteQuerySetsParams_slots;
     op_body _ := no_body; op_headers r := SearchRelevanceDeleteQuerySetsReq_Header r;
     Method := SearchRelevanceDeleteQuerySets_Method; GetRequest := SearchRelevanceDeleteQuerySetsReq_GetRequest;
     op_keys := [];
     op_described := [("DELETE", "/_plugins/_search_relevance/query_sets/{query_set_id}")];
     op_query := [] |}.
#[export] Instance SearchRelevanceDeleteQuerySets_operates : LawfulOp SearchRelevanceDeleteQuerySetsReq.
Proof. operate. Qed.

Record SearchRelevanceDeleteScheduledExperimentsParams := MkSearchRelevanceDeleteScheduledExperimentsParams { SearchRelevanceDeleteScheduledExperimentsParams_TimeoutParams : TimeoutParams;
  SearchRelevanceDeleteScheduledExperimentsParams_DebugParams : DebugParams }.
Definition SearchRelevanceDeleteScheduledExperimentsParams_own (q : SearchRelevanceDeleteScheduledExperimentsParams) : list param :=
  [].
Definition SearchRelevanceDeleteScheduledExperimentsParams_slots : list (string * (SearchRelevanceDeleteScheduledExperimentsParams -> slot)) :=
  [].
Definition SearchRelevanceDeleteScheduledExperimentsParams_get (q : SearchRelevanceDeleteScheduledExperimentsParams) : gmap string string :=
  encode_params (EncodeTimeout (SearchRelevanceDeleteScheduledExperimentsParams_TimeoutParams q) ++ EncodeDebug (SearchRelevanceDeleteScheduledExperimentsParams_DebugParams q) ++ SearchRelevanceDeleteScheduledExperimentsParams_own q).
Record SearchRelevanceDeleteScheduledExperimentsReq := MkSearchRelevanceDeleteScheduledExperimentsReq { SearchRelevanceDeleteScheduledExperimentsReq_ExperimentID : string; SearchRelevanceDeleteScheduledExperimentsReq_Header : headers;
  SearchRelevanceDeleteScheduledExperimentsReq_Params : option SearchRelevanceDeleteScheduledExperimentsParams }.
Definition SearchRelevanceDeleteScheduledExperimentsReq_GetRequest (r : SearchRelevanceDeleteScheduledExperimentsReq) (method : string) : request_error + httpRequest * Z :=
  send method (SearchRelevanceDeleteScheduledExperimentsPath_Build (MkSearchRelevanceDeleteScheduledExperimentsPath (SearchRelevanceDeleteScheduledExperimentsReq_ExperimentID r)))
    (match SearchRelevanceDeleteScheduledExperimentsReq_Params r with Some q => SearchRelevanceDeleteScheduledExperimentsParams_get q | None => ∅ end)
    no_body (SearchRelevanceDeleteScheduledExperimentsReq_Header r).
Definition SearchRelevanceDeleteScheduledExperiments_Method (r : SearchRelevanceDeleteScheduledExperimentsReq) : string := "DELETE".
#[export] Instance SearchRelevanceDeleteScheduledExperiments_operation : operation SearchRelevanceDeleteScheduledExperimentsReq :=
  {| op_path := MkPathType "SearchRelevanceDeleteScheduledExperimentsPath" SearchRelevanceDeleteScheduledExperimentsPath _ _; op_P := SearchRelevanceDeleteScheduledExperimentsParams; op_fields r := MkSearchRelevanceDeleteScheduledExperimentsPath (SearchRelevanceDeleteScheduledExperimentsReq_ExperimentID r);
     op_params := SearchRelevanceDeleteScheduledExperimentsReq_Params; op_defaults := None; op_timeout := SearchRelevanceDeleteScheduledExperimentsParams_TimeoutParams; op_debug := SearchRelevanceDeleteScheduledExperimentsParams_DebugParams;
     op_format := None; op_own := SearchRelevanceDeleteScheduledExperimentsParams_own; op_slots := SearchRelevanceDeleteScheduledExperimentsParams_slots;
     op_body _ := no_body; op_headers r := SearchRelevanceDeleteScheduledExperimentsReq_Header r;
     Method := SearchRelevanceDeleteScheduledExperiments_Method; GetRequest := SearchRelevanceDeleteScheduledExperimentsReq_GetRequest;
     op_keys := [];
     op_described := [("DELETE", "/_plugins/_search_relevance/experiments/schedule/{experiment_id}")];
     op_query := [] |}.
#[export] Instance SearchRelevanceDeleteScheduledExperiments_operates : LawfulOp SearchRelevanceDeleteScheduledExperimentsReq.
Proof. operate. Qed.

Record SearchRelevanceDeleteSearchConfigurationsParams := MkSearchRelevanceDeleteSearchConfigurationsParams { SearchRelevanceDeleteSearchConfigurationsParams_TimeoutParams : TimeoutParams;
  SearchRelevanceDeleteSearchConfigurationsParams_DebugParams : DebugParams }.
Definition SearchRelevanceDeleteSearchConfigurationsParams_own (q : SearchRelevanceDeleteSearchConfigurationsParams) : list param :=
  [].
Definition SearchRelevanceDeleteSearchConfigurationsParams_slots : list (string * (SearchRelevanceDeleteSearchConfigurationsParams -> slot)) :=
  [].
Definition SearchRelevanceDeleteSearchConfigurationsParams_get (q : SearchRelevanceDeleteSearchConfigurationsParams) : gmap string string :=
  encode_params (EncodeTimeout (SearchRelevanceDeleteSearchConfigurationsParams_TimeoutParams q) ++ EncodeDebug (SearchRelevanceDeleteSearchConfigurationsParams_DebugParams q) ++ SearchRelevanceDeleteSearchConfigurationsParams_own q).
Record SearchRelevanceDeleteSearchConfigurationsReq := MkSearchRelevanceDeleteSearchConfigurationsReq { SearchRelevanceDeleteSearchConfigurationsReq_SearchConfigurationID : string; SearchRelevanceDeleteSearchConfigurationsReq_Header : headers;
  SearchRelevanceDeleteSearchConfigurationsReq_Params : option SearchRelevanceDeleteSearchConfigurationsParams }.
Definition SearchRelevanceDeleteSearchConfigurationsReq_GetRequest (r : SearchRelevanceDeleteSearchConfigurationsReq) (method : string) : request_error + httpRequest * Z :=
  send method (SearchRelevanceDeleteSearchConfigurationsPath_Build (MkSearchRelevanceDeleteSearchConfigurationsPath (SearchRelevanceDeleteSearchConfigurationsReq_SearchConfigurationID r)))
    (match SearchRelevanceDeleteSearchConfigurationsReq_Params r with Some q => SearchRelevanceDeleteSearchConfigurationsParams_get q | None => ∅ end)
    no_body (SearchRelevanceDeleteSearchConfigurationsReq_Header r).
Definition SearchRelevanceDeleteSearchConfigurations_Method (r : SearchRelevanceDeleteSearchConfigurationsReq) : string := "DELETE".
#[export] Instance SearchRelevanceDeleteSearchConfigurations_operation : operation SearchRelevanceDeleteSearchConfigurationsReq :=
  {| op_path := MkPathType "SearchRelevanceDeleteSearchConfigurationsPath" SearchRelevanceDeleteSearchConfigurationsPath _ _; op_P := SearchRelevanceDeleteSearchConfigurationsParams; op_fields r := MkSearchRelevanceDeleteSearchConfigurationsPath (SearchRelevanceDeleteSearchConfigurationsReq_SearchConfigurationID r);
     op_params := SearchRelevanceDeleteSearchConfigurationsReq_Params; op_defaults := None; op_timeout := SearchRelevanceDeleteSearchConfigurationsParams_TimeoutParams; op_debug := SearchRelevanceDeleteSearchConfigurationsParams_DebugParams;
     op_format := None; op_own := SearchRelevanceDeleteSearchConfigurationsParams_own; op_slots := SearchRelevanceDeleteSearchConfigurationsParams_slots;
     op_body _ := no_body; op_headers r := SearchRelevanceDeleteSearchConfigurationsReq_Header r;
     Method := SearchRelevanceDeleteSearchConfigurations_Method; GetRequest := SearchRelevanceDeleteSearchConfigurationsReq_GetRequest;
     op_keys := [];
     op_described := [("DELETE", "/_plugins/_search_relevance/search_configurations/{search_configuration_id}")];
     op_query := [] |}.
#[export] Instance SearchRelevanceDeleteSearchConfigurations_operates : LawfulOp SearchRelevanceDeleteSearchConfigurationsReq.
Proof. operate. Qed.

Record SearchRelevanceGetExperimentsParams := MkSearchRelevanceGetExperimentsParams { SearchRelevanceGetExperimentsParams_TimeoutParams : TimeoutParams; SearchRelevanceGetExperimentsParams_DebugParams : DebugParams }.
Definition SearchRelevanceGetExperimentsParams_own (q : SearchRelevanceGetExperimentsParams) : list param :=
  [].
Definition SearchRelevanceGetExperimentsParams_slots : list (string * (SearchRelevanceGetExperimentsParams -> slot)) :=
  [].
Definition SearchRelevanceGetExperimentsParams_get (q : SearchRelevanceGetExperimentsParams) : gmap string string :=
  encode_params (EncodeTimeout (SearchRelevanceGetExperimentsParams_TimeoutParams q) ++ EncodeDebug (SearchRelevanceGetExperimentsParams_DebugParams q) ++ SearchRelevanceGetExperimentsParams_own q).
Record SearchRelevanceGetExperimentsReq := MkSearchRelevanceGetExperimentsReq { SearchRelevanceGetExperimentsReq_ExperimentID : string; SearchRelevanceGetExperimentsReq_Header : headers;
  SearchRelevanceGetExperimentsReq_Params : option SearchRelevanceGetExperimentsParams }.
Definition SearchRelevanceGetExperimentsReq_GetRequest (r : SearchRelevanceGetExperimentsReq) (method : string) : request_error + httpRequest * Z :=
  send method (SearchRelevanceGetExperimentsPath_Build (MkSearchRelevanceGetExperimentsPath (SearchRelevanceGetExperimentsReq_ExperimentID r)))
    (match SearchRelevanceGetExperimentsReq_Params r with Some q => SearchRelevanceGetExperimentsParams_get q | None => ∅ end)
    no_body (SearchRelevanceGetExperimentsReq_Header r).
Definition SearchRelevanceGetExperiments_Method (r : SearchRelevanceGetExperimentsReq) : string := "GET".
#[export] Instance SearchRelevanceGetExperiments_operation : operation SearchRelevanceGetExperimentsReq :=
  {| op_path := MkPathType "SearchRelevanceGetExperimentsPath" SearchRelevanceGetExperimentsPath _ _; op_P := SearchRelevanceGetExperimentsParams; op_fields r := MkSearchRelevanceGetExperimentsPath (SearchRelevanceGetExperimentsReq_ExperimentID r);
     op_params := SearchRelevanceGetExperimentsReq_Params; op_defaults := None; op_timeout := SearchRelevanceGetExperimentsParams_TimeoutParams; op_debug := SearchRelevanceGetExperimentsParams_DebugParams;
     op_format := None; op_own := SearchRelevanceGetExperimentsParams_own; op_slots := SearchRelevanceGetExperimentsParams_slots;
     op_body _ := no_body; op_headers r := SearchRelevanceGetExperimentsReq_Header r;
     Method := SearchRelevanceGetExperiments_Method; GetRequest := SearchRelevanceGetExperimentsReq_GetRequest;
     op_keys := [];
     op_described := [("GET", "/_plugins/_search_relevance/experiments"); ("GET", "/_plugins/_search_relevance/experiments/{experiment_id}")];
     op_query := [] |}.
#[export] Instance SearchRelevanceGetExperiments_operates : LawfulOp SearchRelevanceGetExperimentsReq.
Proof. operate. Qed.

Record SearchRelevanceGetJudgmentsParams := MkSearchRelevanceGetJudgmentsParams { SearchRelevanceGetJudgmentsParams_TimeoutParams : TimeoutParams; SearchRelevanceGetJudgmentsParams_DebugParams : DebugParams }.
Definition SearchRelevanceGetJudgmentsParams_own (q : SearchRelevanceGetJudgmentsParams) : list param :=
  [].
Definition SearchRelevanceGetJudgmentsParams_slots : list (string * (SearchRelevanceGetJudgmentsParams -> slot)) :=
  [].
Definition SearchRelevanceGetJudgmentsParams_get (q : SearchRelevanceGetJudgmentsParams) : gmap string string :=
  encode_params (EncodeTimeout (SearchRelevanceGetJudgmentsParams_TimeoutParams q) ++ EncodeDebug (SearchRelevanceGetJudgmentsParams_DebugParams q) ++ SearchRelevanceGetJudgmentsParams_own q).
Record SearchRelevanceGetJudgmentsReq := MkSearchRelevanceGetJudgmentsReq { SearchRelevanceGetJudgmentsReq_JudgmentID : string; SearchRelevanceGetJudgmentsReq_Header : headers;
  SearchRelevanceGetJudgmentsReq_Params : option SearchRelevanceGetJudgmentsParams }.
Definition SearchRelevanceGetJudgmentsReq_GetRequest (r : SearchRelevanceGetJudgmentsReq) (method : string) : request_error + httpRequest * Z :=
  send method (SearchRelevanceGetJudgmentsPath_Build (MkSearchRelevanceGetJudgmentsPath (SearchRelevanceGetJudgmentsReq_JudgmentID r)))
    (match SearchRelevanceGetJudgmentsReq_Params r with Some q => SearchRelevanceGetJudgmentsParams_get q | None => ∅ end)
    no_body (SearchRelevanceGetJudgmentsReq_Header r).
Definition SearchRelevanceGetJudgments_Method (r : SearchRelevanceGetJudgmentsReq) : string := "GET".
#[export] Instance SearchRelevanceGetJudgments_operation : operation SearchRelevanceGetJudgmentsReq :=
  {| op_path := MkPathType "SearchRelevanceGetJudgmentsPath" SearchRelevanceGetJudgmentsPath _ _; op_P := SearchRelevanceGetJudgmentsParams; op_fields r := MkSearchRelevanceGetJudgmentsPath (SearchRelevanceGetJudgmentsReq_JudgmentID r);
     op_params := SearchRelevanceGetJudgmentsReq_Params; op_defaults := None; op_timeout := SearchRelevanceGetJudgmentsParams_TimeoutParams; op_debug := SearchRelevanceGetJudgmentsParams_DebugParams;
     op_format := None; op_own := SearchRelevanceGetJudgmentsParams_own; op_slots := SearchRelevanceGetJudgmentsParams_slots;
     op_body _ := no_body; op_headers r := SearchRelevanceGetJudgmentsReq_Header r;
     Method := SearchRelevanceGetJudgments_Method; GetRequest := SearchRelevanceGetJudgmentsReq_GetRequest;
     op_keys := [];
     op_described := [("GET", "/_plugins/_search_relevance/judgments"); ("GET", "/_plugins/_search_relevance/judgments/{judgment_id}")];
     op_query := [] |}.
#[export] Instance SearchRelevanceGetJudgments_operates : LawfulOp SearchRelevanceGetJudgmentsReq.
Proof. operate. Qed.

Record SearchRelevanceGetNodeStatsParams := MkSearchRelevanceGetNodeStatsParams { SearchRelevanceGetNodeStatsParams_TimeoutParams : TimeoutParams; SearchRelevanceGetNodeStatsParams_DebugParams : DebugParams;
  SearchRelevanceGetNodeStatsParams_FlatStatPaths : string; SearchRelevanceGetNodeStatsParams_IncludeAllNodes : string;
  SearchRelevanceGetNodeStatsParams_IncludeIndividualNodes : string; SearchRelevanceGetNodeStatsParams_IncludeInfo : string;
  SearchRelevanceGetNodeStatsParams_IncludeMetadata : string }.
Definition SearchRelevanceGetNodeStatsParams_own (q : SearchRelevanceGetNodeStatsParams) : list param :=
  [("flat_stat_paths", nonEmpty (SearchRelevanceGetNodeStatsParams_FlatStatPaths q));
  ("include_all_nodes", nonEmpty (SearchRelevanceGetNodeStatsParams_IncludeAllNodes q));
  ("include_individual_nodes", nonEmpty (SearchRelevanceGetNodeStatsParams_IncludeIndividualNodes q));
  ("include_info", nonEmpty (SearchRelevanceGetNodeStatsParams_IncludeInfo q));
  ("include_metadata", nonEmpty (SearchRelevanceGetNodeStatsParams_IncludeMetadata q))].
Definition SearchRelevanceGetNodeStatsParams_slots : list (string * (SearchRelevanceGetNodeStatsParams -> slot)) :=
  [("FlatStatPaths", fun q => Text (SearchRelevanceGetNodeStatsParams_FlatStatPaths q));
  ("IncludeAllNodes", fun q => Text (SearchRelevanceGetNodeStatsParams_IncludeAllNodes q));
  ("IncludeIndividualNodes", fun q => Text (SearchRelevanceGetNodeStatsParams_IncludeIndividualNodes q));
  ("IncludeInfo", fun q => Text (SearchRelevanceGetNodeStatsParams_IncludeInfo q));
  ("IncludeMetadata", fun q => Text (SearchRelevanceGetNodeStatsParams_IncludeMetadata q))].
Definition SearchRelevanceGetNodeStatsParams_get (q : SearchRelevanceGetNodeStatsParams) : gmap string string :=
  encode_params (EncodeTimeout (SearchRelevanceGetNodeStatsParams_TimeoutParams q) ++ EncodeDebug (SearchRelevanceGetNodeStatsParams_DebugParams q) ++ SearchRelevanceGetNodeStatsParams_own q).
Record SearchRelevanceGetNodeStatsReq := MkSearchRelevanceGetNodeStatsReq { SearchRelevanceGetNodeStatsReq_NodeID : string; SearchRelevanceGetNodeStatsReq_Stat : string; SearchRelevanceGetNodeStatsReq_Header : headers;
  SearchRelevanceGetNodeStatsReq_Params : option SearchRelevanceGetNodeStatsParams }.
Definition SearchRelevanceGetNodeStatsReq_GetRequest (r : SearchRelevanceGetNodeStatsReq) (method : string) : request_error + httpRequest * Z :=
  send method (SearchRelevanceGetNodeStatsPath_Build (MkSearchRelevanceGetNodeStatsPath (SearchRelevanceGetNodeStatsReq_NodeID r) (SearchRelevanceGetNodeStatsReq_Stat r)))
    (match SearchRelevanceGetNodeStatsReq_Params r with Some q => SearchRelevanceGetNodeStatsParams_get q | None => ∅ end)
    no_body (SearchRelevanceGetNodeStatsReq_Header r).
Definition SearchRelevanceGetNodeStats_Method (r : SearchRelevanceGetNodeStatsReq) : string := "GET".
#[export] Instance SearchRelevanceGetNodeStats_operation : operation SearchRelevanceGetNodeStatsReq :=
  {| op_path := MkPathType "SearchRelevanceGetNodeStatsPath" SearchRelevanceGetNodeStatsPath _ _; op_P := SearchRelevanceGetNodeStatsParams; op_fields r := MkSearchRelevanceGetNodeStatsPath (SearchRelevanceGetNodeStatsReq_NodeID r) (SearchRelevanceGetNodeStatsReq_Stat r);
     op_params := SearchRelevanceGetNodeStatsReq_Params; op_defaults := None; op_timeout := SearchRelevanceGetNodeStatsParams_TimeoutParams; op_debug := SearchRelevanceGetNodeStatsParams_DebugParams;
     op_format := None; op_own := SearchRelevanceGetNodeStatsParams_own; op_slots := SearchRelevanceGetNodeStatsParams_slots;
     op_body _ := no_body; op_headers r := SearchRelevanceGetNodeStatsReq_Header r;
     Method := SearchRelevanceGetNodeStats_Method; GetRequest := SearchRelevanceGetNodeStatsReq_GetRequest;
     op_keys := ["flat_stat_paths"; "include_all_nodes"; "include_individual_nodes"; "include_info"; "include_metadata"];
     op_described := [("GET", "/_plugins/_search_relevance/{node_id}/stats"); ("GET", "/_plugins/_search_relevance/{node_id}/stats/{stat}")];
     op_query := ["flat_stat_paths"; "include_all_nodes"; "include_individual_nodes"; "include_info"; "include_metadata"] |}.
#[export] Instance SearchRelevanceGetNodeStats_operates : LawfulOp SearchRelevanceGetNodeStatsReq.
Proof. operate. Qed.

Record SearchRelevanceGetQuerySetsParams := MkSearchRelevanceGetQuerySetsParams { SearchRelevanceGetQuerySetsParams_TimeoutParams : TimeoutParams; SearchRelevanceGetQuerySetsParams_DebugParams : DebugParams }.
Definition SearchRelevanceGetQuerySetsParams_own (q : SearchRelevanceGetQuerySetsParams) : list param :=
  [].
Definition SearchRelevanceGetQuerySetsParams_slots : list (string * (SearchRelevanceGetQuerySetsParams -> slot)) :=
  [].
Definition SearchRelevanceGetQuerySetsParams_get (q : SearchRelevanceGetQuerySetsParams) : gmap string string :=
  encode_params (EncodeTimeout (SearchRelevanceGetQuerySetsParams_TimeoutParams q) ++ EncodeDebug (SearchRelevanceGetQuerySetsParams_DebugParams q) ++ SearchRelevanceGetQuerySetsParams_own q).
Record SearchRelevanceGetQuerySetsReq := MkSearchRelevanceGetQuerySetsReq { SearchRelevanceGetQuerySetsReq_QuerySetID : string; SearchRelevanceGetQuerySetsReq_Header : headers;
  SearchRelevanceGetQuerySetsReq_Params : option SearchRelevanceGetQuerySetsParams }.
Definition SearchRelevanceGetQuerySetsReq_GetRequest (r : SearchRelevanceGetQuerySetsReq) (method : string) : request_error + httpRequest * Z :=
  send method (SearchRelevanceGetQuerySetsPath_Build (MkSearchRelevanceGetQuerySetsPath (SearchRelevanceGetQuerySetsReq_QuerySetID r)))
    (match SearchRelevanceGetQuerySetsReq_Params r with Some q => SearchRelevanceGetQuerySetsParams_get q | None => ∅ end)
    no_body (SearchRelevanceGetQuerySetsReq_Header r).
Definition SearchRelevanceGetQuerySets_Method (r : SearchRelevanceGetQuerySetsReq) : string := "GET".
#[export] Instance SearchRelevanceGetQuerySets_operation : operation SearchRelevanceGetQuerySetsReq :=
  {| op_path := MkPathType "SearchRelevanceGetQuerySetsPath" SearchRelevanceGetQuerySetsPath _ _; op_P := SearchRelevanceGetQuerySetsParams; op_fields r := MkSearchRelevanceGetQuerySetsPath (SearchRelevanceGetQuerySetsReq_QuerySetID r);
     op_params := SearchRelevanceGetQuerySetsReq_Params; op_defaults := None; op_timeout := SearchRelevanceGetQuerySetsParams_TimeoutParams; op_debug := SearchRelevanceGetQuerySetsParams_DebugParams;
     op_format := None; op_own := SearchRelevanceGetQuerySetsParams_own; op_slots := SearchRelevanceGetQuerySetsParams_slots;
     op_body _ := no_body; op_headers r := SearchRelevanceGetQuerySetsReq_Header r;
     Method := SearchRelevanceGetQuerySets_Method; GetRequest := SearchRelevanceGetQuerySetsReq_GetRequest;
     op_keys := [];
     op_described := [("GET", "/_plugins/_search_relevance/query_sets"); ("GET", "/_plugins/_search_relevance/query_sets/{query_set_id}")];
     op_query := [] |}.
#[export] Instance SearchRelevanceGetQuerySets_operates : LawfulOp SearchRelevanceGetQuerySetsReq.
Proof. operate. Qed.

Record SearchRelevanceGetScheduledExperimentsParams := MkSearchRelevanceGetScheduledExperimentsParams { SearchRelevanceGetScheduledExperimentsParams_TimeoutParams : TimeoutParams; SearchRelevanceGetScheduledExperimentsParams_DebugParams : DebugParams }.
Definition SearchRelevanceGetScheduledExperimentsParams_own (q : SearchRelevanceGetScheduledExperimentsParams) : list param :=
  [].
Definition SearchRelevanceGetScheduledExperimentsParams_slots : list (string * (SearchRelevanceGetScheduledExperimentsParams -> slot)) :=
  [].
Definition SearchRelevanceGetScheduledExperimentsParams_get (q : SearchRelevanceGetScheduledExperimentsParams) : gmap string string :=
  encode_params (EncodeTimeout (SearchRelevanceGetScheduledExperimentsParams_TimeoutParams q) ++ EncodeDebug (SearchRelevanceGetScheduledExperimentsParams_DebugParams q) ++ SearchRelevanceGetScheduledExperimentsParams_own q).
Record SearchRelevanceGetScheduledExperimentsReq := MkSearchRelevanceGetScheduledExperimentsReq { SearchRelevanceGetScheduledExperimentsReq_ExperimentID : string; SearchRelevanceGetScheduledExperimentsReq_Header : headers;
  SearchRelevanceGetScheduledExperimentsReq_Params : option SearchRelevanceGetScheduledExperimentsParams }.
Definition SearchRelevanceGetScheduledExperimentsReq_GetRequest (r : SearchRelevanceGetScheduledExperimentsReq) (method : string) : request_error + httpRequest * Z :=
  send method (SearchRelevanceGetScheduledExperimentsPath_Build (MkSearchRelevanceGetScheduledExperimentsPath (SearchRelevanceGetScheduledExperimentsReq_ExperimentID r)))
    (match SearchRelevanceGetScheduledExperimentsReq_Params r with Some q => SearchRelevanceGetScheduledExperimentsParams_get q | None => ∅ end)
    no_body (SearchRelevanceGetScheduledExperimentsReq_Header r).
Definition SearchRelevanceGetScheduledExperiments_Method (r : SearchRelevanceGetScheduledExperimentsReq) : string := "GET".
#[export] Instance SearchRelevanceGetScheduledExperiments_operation : operation SearchRelevanceGetScheduledExperimentsReq :=
  {| op_path := MkPathType "SearchRelevanceGetScheduledExperimentsPath" SearchRelevanceGetScheduledExperimentsPath _ _; op_P := SearchRelevanceGetScheduledExperimentsParams; op_fields r := MkSearchRelevanceGetScheduledExperimentsPath (SearchRelevanceGetScheduledExperimentsReq_ExperimentID r);
     op_params := SearchRelevanceGetScheduledExperimentsReq_Params; op_defaults := None; op_timeout := SearchRelevanceGetScheduledExperimentsParams_TimeoutParams; op_debug := SearchRelevanceGetScheduledExperimentsParams_DebugParams;
     op_format := None; op_own := SearchRelevanceGetScheduledExperimentsParams_own; op_slots := SearchRelevanceGetScheduledExperimentsParams_slots;
     op_body _ := no_body; op_headers r := SearchRelevanceGetScheduledExperimentsReq_Header r;
     Method := SearchRelevanceGetScheduledExperiments_Method; GetRequest := SearchRelevanceGetScheduledExperimentsReq_GetRequest;
     op_keys := [];
     op_described := [("GET", "/_plugins/_search_relevance/experiments/schedule"); ("GET", "/_plugins/_search_relevance/experiments/schedule/{experiment_id}")];
     op_query := [] |}.
#[export] Instance SearchRelevanceGetScheduledExperiments_operates : LawfulOp SearchRelevanceGetScheduledExperimentsReq.
Proof. operate. Qed.

Record SearchRelevanceGetSearchConfigurationsParams := MkSearchRelevanceGetSearchConfigurationsParams { SearchRelevanceGetSearchConfigurationsParams_TimeoutParams : TimeoutParams; SearchRelevanceGetSearchConfigurationsParams_DebugParams : DebugParams }.
Definition SearchRelevanceGetSearchConfigurationsParams_own (q : SearchRelevanceGetSearchConfigurationsParams) : list param :=
  [].
Definition SearchRelevanceGetSearchConfigurationsParams_slots : list (string * (SearchRelevanceGetSearchConfigurationsParams -> slot)) :=
  [].
Definition SearchRelevanceGetSearchConfigurationsParams_get (q : SearchRelevanceGetSearchConfigurationsParams) : gmap string string :=
  encode_params (EncodeTimeout (SearchRelevanceGetSearchConfigurationsParams_TimeoutParams q) ++ EncodeDebug (SearchRelevanceGetSearchConfigurationsParams_DebugParams q) ++ SearchRelevanceGetSearchConfigurationsParams_own q).
Record SearchRelevanceGetSearchConfigurationsReq := MkSearchRelevanceGetSearchConfigurationsReq { SearchRelevanceGetSearchConfigurationsReq_SearchConfigurationID : string; SearchRelevanceGetSearchConfigurationsReq_Header : headers;
  SearchRelevanceGetSearchConfigurationsReq_Params : option SearchRelevanceGetSearchConfigurationsParams }.
Definition SearchRelevanceGetSearchConfigurationsReq_GetRequest (r : SearchRelevanceGetSearchConfigurationsReq) (method : string) : request_error + httpRequest * Z :=
  send method (SearchRelevanceGetSearchConfigurationsPath_Build (MkSearchRelevanceGetSearchConfigurationsPath (SearchRelevanceGetSearchConfigurationsReq_SearchConfigurationID r)))
    (match SearchRelevanceGetSearchConfigurationsReq_Params r with Some q => SearchRelevanceGetSearchConfigurationsParams_get q | None => ∅ end)
    no_body (SearchRelevanceGetSearchConfigurationsReq_Header r).
Definition SearchRelevanceGetSearchConfigurations_Method (r : SearchRelevanceGetSearchConfigurationsReq) : string := "GET".
#[export] Instance SearchRelevanceGetSearchConfigurations_operation : operation SearchRelevanceGetSearchConfigurationsReq :=
  {| op_path := MkPathType "SearchRelevanceGetSearchConfigurationsPath" SearchRelevanceGetSearchConfigurationsPath _ _; op_P := SearchRelevanceGetSearchConfigurationsParams; op_fields r := MkSearchRelevanceGetSearchConfigurationsPath (SearchRelevanceGetSearchConfigurationsReq_SearchConfigurationID r);
     op_params := SearchRelevanceGetSearchConfigurationsReq_Params; op_defaults := None; op_timeout := SearchRelevanceGetSearchConfigurationsParams_TimeoutParams; op_debug := SearchRelevanceGetSearchConfigurationsParams_DebugParams;
     op_format := None; op_own := SearchRelevanceGetSearchConfigurationsParams_own; op_slots := SearchRelevanceGetSearchConfigurationsParams_slots;
     op_body _ := no_body; op_headers r := SearchRelevanceGetSearchConfigurationsReq_Header r;
     Method := SearchRelevanceGetSearchConfigurations_Method; GetRequest := SearchRelevanceGetSearchConfigurationsReq_GetRequest;
     op_keys := [];
     op_described := [("GET", "/_plugins/_search_relevance/search_configurations"); ("GET", "/_plugins/_search_relevance/search_configurations/{search_configuration_id}")];
     op_query := [] |}.
#[export] Instance SearchRelevanceGetSearchConfigurations_operates : LawfulOp SearchRelevanceGetSearchConfigurationsReq.
Proof. operate. Qed.

Record SearchRelevanceGetStatsParams := MkSearchRelevanceGetStatsParams { SearchRelevanceGetStatsParams_TimeoutParams : TimeoutParams; SearchRelevanceGetStatsParams_DebugParams : DebugParams;
  SearchRelevanceGetStatsParams_FlatStatPaths : string; SearchRelevanceGetStatsParams_IncludeAllNodes : string;
  SearchRelevanceGetStatsParams_IncludeIndividualNodes : string; SearchRelevanceGetStatsParams_IncludeInfo : string;
  SearchRelevanceGetStatsParams_IncludeMetadata : string }.
Definition SearchRelevanceGetStatsParams_own (q : SearchRelevanceGetStatsParams) : list param :=
  [("flat_stat_paths", nonEmpty (SearchRelevanceGetStatsParams_FlatStatPaths q));
  ("include_all_nodes", nonEmpty (SearchRelevanceGetStatsParams_IncludeAllNodes q));
  ("include_individual_nodes", nonEmpty (SearchRelevanceGetStatsParams_IncludeIndividualNodes q));
  ("include_info", nonEmpty (SearchRelevanceGetStatsParams_IncludeInfo q));
  ("include_metadata", nonEmpty (SearchRelevanceGetStatsParams_IncludeMetadata q))].
Definition SearchRelevanceGetStatsParams_slots : list (string * (SearchRelevanceGetStatsParams -> slot)) :=
  [("FlatStatPaths", fun q => Text (SearchRelevanceGetStatsParams_FlatStatPaths q));
  ("IncludeAllNodes", fun q => Text (SearchRelevanceGetStatsParams_IncludeAllNodes q));
  ("IncludeIndividualNodes", fun q => Text (SearchRelevanceGetStatsParams_IncludeIndividualNodes q));
  ("IncludeInfo", fun q => Text (SearchRelevanceGetStatsParams_IncludeInfo q));
  ("IncludeMetadata", fun q => Text (SearchRelevanceGetStatsParams_IncludeMetadata q))].
Definition SearchRelevanceGetStatsParams_get (q : SearchRelevanceGetStatsParams) : gmap string string :=
  encode_params (EncodeTimeout (SearchRelevanceGetStatsParams_TimeoutParams q) ++ EncodeDebug (SearchRelevanceGetStatsParams_DebugParams q) ++ SearchRelevanceGetStatsParams_own q).
Record SearchRelevanceGetStatsReq := MkSearchRelevanceGetStatsReq { SearchRelevanceGetStatsReq_Stat : string; SearchRelevanceGetStatsReq_Header : headers;
  SearchRelevanceGetStatsReq_Params : option SearchRelevanceGetStatsParams }.
Definition SearchRelevanceGetStatsReq_GetRequest (r : SearchRelevanceGetStatsReq) (method : string) : request_error + httpRequest * Z :=
  send method (SearchRelevanceGetStatsPath_Build (MkSearchRelevanceGetStatsPath (SearchRelevanceGetStatsReq_Stat r)))
    (match SearchRelevanceGetStatsReq_Params r with Some q => SearchRelevanceGetStatsParams_get q | None => ∅ end)
    no_body (SearchRelevanceGetStatsReq_Header r).
Definition SearchRelevanceGetStats_Method (r : SearchRelevanceGetStatsReq) : string := "GET".
#[export] Instance SearchRelevanceGetStats_operation : operation SearchRelevanceGetStatsReq :=
  {| op_path := MkPathType "SearchRelevanceGetStatsPath" SearchRelevanceGetStatsPath _ _; op_P := SearchRelevanceGetStatsParams; op_fields r := MkSearchRelevanceGetStatsPath (SearchRelevanceGetStatsReq_Stat r);
     op_params := SearchRelevanceGetStatsReq_Params; op_defaults := None; op_timeout := SearchRelevanceGetStatsParams_TimeoutParams; op_debug := SearchRelevanceGetStatsParams_DebugParams;
     op_format := None; op_own := SearchRelevanceGetStatsParams_own; op_slots := SearchRelevanceGetStatsParams_slots;
     op_body _ := no_body; op_headers r := SearchRelevanceGetStatsReq_Header r;
     Method := SearchRelevanceGetStats_Method; GetRequest := SearchRelevanceGetStatsReq_GetRequest;
     op_keys := ["flat_stat_paths"; "include_all_nodes"; "include_individual_nodes"; "include_info"; "include_metadata"];
     op_described := [("GET", "/_plugins/_search_relevance/stats"); ("GET", "/_plugins/_search_relevance/stats/{stat}")];
     op_query := ["flat_stat_paths"; "include_all_nodes"; "include_individual_nodes"; "include_info"; "include_metadata"] |}.
#[export] Instance SearchRelevanceGetStats_operates : LawfulOp SearchRelevanceGetStatsReq.
Proof. operate. Qed.

Record SearchRelevancePostQuerySetsParams := MkSearchRelevancePostQuerySetsParams { SearchRelevancePostQuerySetsParams_TimeoutParams : TimeoutParams; SearchRelevancePostQuerySetsParams_DebugParams : DebugParams }.
Definition SearchRelevancePostQuerySetsParams_own (q : SearchRelevancePostQuerySetsParams) : list param :=
  [].
Definition SearchRelevancePostQuerySetsParams_slots : list (string * (SearchRelevancePostQuerySetsParams -> slot)) :=
  [].
Definition SearchRelevancePostQuerySetsParams_get (q : SearchRelevancePostQuerySetsParams) : gmap string string :=
  encode_params (EncodeTimeout (SearchRelevancePostQuerySetsParams_TimeoutParams q) ++ EncodeDebug (SearchRelevancePostQuerySetsParams_DebugParams q) ++ SearchRelevancePostQuerySetsParams_own q).
Record SearchRelevancePostQuerySetsReq := MkSearchRelevancePostQuerySetsReq { SearchRelevancePostQuerySetsReq_Body : option (option string); SearchRelevancePostQuerySetsReq_BodyReader : reader;
  SearchRelevancePostQuerySetsReq_Header : headers; SearchRelevancePostQuerySetsReq_Params : option SearchRelevancePostQuerySetsParams }.
Definition SearchRelevancePostQuerySetsReq_GetRequest (r : SearchRelevancePostQuerySetsReq) (method : string) : request_error + httpRequest * Z :=
  send method (SearchRelevancePostQuerySetsPath_Build (MkSearchRelevancePostQuerySetsPath))
    (match SearchRelevancePostQuerySetsReq_Params r with Some q => SearchRelevancePostQuerySetsParams_get q | None => ∅ end)
    (json_body (SearchRelevancePostQuerySetsReq_Body r) (SearchRelevancePostQuerySetsReq_BodyReader r)) (SearchRelevancePostQuerySetsReq_Header r).
Definition SearchRelevancePostQuerySets_Method (r : SearchRelevancePostQuerySetsReq) : string := "POST".
#[export] Instance SearchRelevancePostQuerySets_operation : operation SearchRelevancePostQuerySetsReq :=
  {| op_path := MkPathType "SearchRelevancePostQuerySetsPath" SearchRelevancePostQuerySetsPath _ _; op_P := SearchRelevancePostQuerySetsParams; op_fields r := MkSearchRelevancePostQuerySetsPath;
     op_params := SearchRelevancePostQuerySetsReq_Params; op_defaults := None; op_timeout := SearchRelevancePostQuerySetsParams_TimeoutParams; op_debug := SearchRelevancePostQuerySetsParams_DebugParams;
     op_format := None; op_own := SearchRelevancePostQuerySetsParams_own; op_slots := SearchRelevancePostQuerySetsParams_slots;
     op_body r := json_body (SearchRelevancePostQuerySetsReq_Body r) (SearchRelevancePostQuerySetsReq_BodyReader r); op_headers r := SearchRelevancePostQuerySetsReq_Header r;
     Method := SearchRelevancePostQuerySets_Method; GetRequest := SearchRelevancePostQuerySetsReq_GetRequest;
     op_keys := [];
     op_described := [("POST", "/_plugins/_search_relevance/query_sets")];
     op_query := [] |}.
#[export] Instance SearchRelevancePostQuerySets_operates : LawfulOp SearchRelevancePostQuerySetsReq.
Proof. operate. Qed.

Record SearchRelevancePostScheduledExperimentsParams := MkSearchRelevancePostScheduledExperimentsParams { SearchRelevancePostScheduledExperimentsParams_TimeoutParams : TimeoutParams; SearchRelevancePostScheduledExperimentsParams_DebugParams : DebugParams }.
Definition SearchRelevancePostScheduledExperimentsParams_own (q : SearchRelevancePostScheduledExperimentsParams) : list param :=
  [].
Definition SearchRelevancePostScheduledExperimentsParams_slots : list (string * (SearchRelevancePostScheduledExperimentsParams -> slot)) :=
  [].
Definition SearchRelevancePostScheduledExperimentsParams_get (q : SearchRelevancePostScheduledExperimentsParams) : gmap string string :=
  encode_params (EncodeTimeout (SearchRelevancePostScheduledExperimentsParams_TimeoutParams q) ++ EncodeDebug (SearchRelevancePostScheduledExperimentsParams_DebugParams q) ++ SearchRelevancePostScheduledExperimentsParams_own q).
Record SearchRelevancePostScheduledExperimentsReq := MkSearchRelevancePostScheduledExperimentsReq { SearchRelevancePostScheduledExperimentsReq_Body : option (option string); SearchRelevancePostScheduledExperimentsReq_BodyReader : reader;
  SearchRelevancePostScheduledExperimentsReq_Header : headers;
  SearchRelevancePostScheduledExperimentsReq_Params : option SearchRelevancePostScheduledExperimentsParams }.
Definition SearchRelevancePostScheduledExperimentsReq_GetRequest (r : SearchRelevancePostScheduledExperimentsReq) (method : string) : request_error + httpRequest * Z :=
  send method (SearchRelevancePostScheduledExperimentsPath_Build (MkSearchRelevancePostScheduledExperimentsPath))
    (match SearchRelevancePostScheduledExperimentsReq_Params r with Some q => SearchRelevancePostScheduledExperimentsParams_get q | None => ∅ end)
    (json_body (SearchRelevancePostScheduledExperimentsReq_Body r) (SearchRelevancePostScheduledExperimentsReq_BodyReader r)) (SearchRelevancePostScheduledExperimentsReq_Header r).
Definition SearchRelevancePostScheduledExperiments_Method (r : SearchRelevancePostScheduledExperimentsReq) : string := "POST".
#[export] Instance SearchRelevancePostScheduledExperiments_operation : operation SearchRelevancePostScheduledExperimentsReq :=
  {| op_path := MkPathType "SearchRelevancePostScheduledExperimentsPath" SearchRelevancePostScheduledExperimentsPath _ _; op_P := SearchRelevancePostScheduledExperimentsParams; op_fields r := MkSearchRelevancePostScheduledExperimentsPath;
     op_params := SearchRelevancePostScheduledExperimentsReq_Params; op_defaults := None; op_timeout := SearchRelevancePostScheduledExperimentsParams_TimeoutParams; op_debug := SearchRelevancePostScheduledExperimentsParams_DebugParams;
     op_format := None; op_own := SearchRelevancePostScheduledExperimentsParams_own; op_slots := SearchRelevancePostScheduledExperimentsParams_slots;
     op_body r := json_body (SearchRelevancePostScheduledExperimentsReq_Body r) (SearchRelevancePostScheduledExperimentsReq_BodyReader r); op_headers r := SearchRelevancePostScheduledExperimentsReq_Header r;
     Method := SearchRelevancePostScheduledExperiments_Method; GetRequest := SearchRelevancePostScheduledExperimentsReq_GetRequest;
     op_keys := [];
     op_described := [("POST", "/_plugins/_search_relevance/experiments/schedule")];
     op_query := [] |}.
#[export] Instance SearchRelevancePostScheduledExperiments_operates : LawfulOp SearchRelevancePostScheduledExperimentsReq.
Proof. operate. Qed.

Record SearchRelevancePutExperimentsParams := MkSearchRelevancePutExperimentsParams { SearchRelevancePutExperimentsParams_TimeoutParams : TimeoutParams; SearchRelevancePutExperimentsParams_DebugParams : DebugParams }.
Definition SearchRelevancePutExperimentsParams_own (q : SearchRelevancePutExperimentsParams) : list param :=
  [].
Definition SearchRelevancePutExperimentsParams_slots : list (string * (SearchRelevancePutExperimentsParams -> slot)) :=
  [].
Definition SearchRelevancePutExperimentsParams_get (q : SearchRelevancePutExperimentsParams) : gmap string string :=
  encode_params (EncodeTimeout (SearchRelevancePutExperimentsParams_TimeoutParams q) ++ EncodeDebug (SearchRelevancePutExperimentsParams_DebugParams q) ++ SearchRelevancePutExperimentsParams_own q).
Record SearchRelevancePutExperimentsReq := MkSearchRelevancePutExperimentsReq { SearchRelevancePutExperimentsReq_Body : reader; SearchRelevancePutExperimentsReq_Header : headers;
  SearchRelevancePutExperimentsReq_Params : option SearchRelevancePutExperimentsParams }.
Definition SearchRelevancePutExperimentsReq_GetRequest (r : SearchRelevancePutExperimentsReq) (method : string) : request_error + httpRequest * Z :=
  send method (SearchRelevancePutExperimentsPath_Build (MkSearchRelevancePutExperimentsPath))
    (match SearchRelevancePutExperimentsReq_Params r with Some q => SearchRelevancePutExperimentsParams_get q | None => ∅ end)
    (raw_body (SearchRelevancePutExperimentsReq_Body r)) (SearchRelevancePutExperimentsReq_Header r).
Definition SearchRelevancePutExperiments_Method (r : SearchRelevancePutExperimentsReq) : string := "PUT".
#[export] Instance SearchRelevancePutExperiments_operation : operation SearchRelevancePutExperimentsReq :=
  {| op_path := MkPathType "SearchRelevancePutExperimentsPath" SearchRelevancePutExperimentsPath _ _; op_P := SearchRelevancePutExperimentsParams; op_fields r := MkSearchRelevancePutExperimentsPath;
     op_params := SearchRelevancePutExperimentsReq_Params; op_defaults := None; op_timeout := SearchRelevancePutExperimentsParams_TimeoutParams; op_debug := SearchRelevancePutExperimentsParams_DebugParams;
     op_format := None; op_own := SearchRelevancePutExperimentsParams_own; op_slots := SearchRelevancePutExperimentsParams_slots;
     op_body r := raw_body (SearchRelevancePutExperimentsReq_Body r); op_headers r := SearchRelevancePutExperimentsReq_Header r;
     Method := SearchRelevancePutExperiments_Method; GetRequest := SearchRelevancePutExperimentsReq_GetRequest;
     op_keys := [];
     op_described := [("PUT", "/_plugins/_search_relevance/experiments")];
     op_query := [] |}.
#[export] Instance SearchRelevancePutExperiments_operates : LawfulOp SearchRelevancePutExperimentsReq.
Proof. operate. Qed.

Record SearchRelevancePutJudgmentsParams := MkSearchRelevancePutJudgmentsParams { SearchRelevancePutJudgmentsParams_TimeoutParams : TimeoutParams; SearchRelevancePutJudgmentsParams_DebugParams : DebugParams }.
Definition SearchRelevancePutJudgmentsParams_own (q : SearchRelevancePutJudgmentsParams) : list param :=
  [].
Definition SearchRelevancePutJudgmentsParams_slots : list (string * (SearchRelevancePutJudgmentsParams -> slot)) :=
  [].
Definition SearchRelevancePutJudgmentsParams_get (q : SearchRelevancePutJudgmentsParams) : gmap string string :=
  encode_params (EncodeTimeout (SearchRelevancePutJudgmentsParams_TimeoutParams q) ++ EncodeDebug (SearchRelevancePutJudgmentsParams_DebugParams q) ++ SearchRelevancePutJudgmentsParams_own q).
Record SearchRelevancePutJudgmentsReq := MkSearchRelevancePutJudgmentsReq { SearchRelevancePutJudgmentsReq_Body : reader; SearchRelevancePutJudgmentsReq_Header : headers;
  SearchRelevancePutJudgmentsReq_Params : option SearchRelevancePutJudgmentsParams }.
Definition SearchRelevancePutJudgmentsReq_GetRequest (r : SearchRelevancePutJudgmentsReq) (method : string) : request_error + httpRequest * Z :=
  send method (SearchRelevancePutJudgmentsPath_Build (MkSearchRelevancePutJudgmentsPath))
    (match SearchRelevancePutJudgmentsReq_Params r with Some q => SearchRelevancePutJudgmentsParams_get q | None => ∅ end)
    (raw_body (SearchRelevancePutJudgmentsReq_Body r)) (SearchRelevancePutJudgmentsReq_Header r).
Definition SearchRelevancePutJudgments_Method (r : SearchRelevancePutJudgmentsReq) : string := "PUT".
#[export] Instance SearchRelevancePutJudgments_operation : operation SearchRelevancePutJudgmentsReq :=
  {| op_path := MkPathType "SearchRelevancePutJudgmentsPath" SearchRelevancePutJudgmentsPath _ _; op_P := SearchRelevancePutJudgmentsParams; op_fields r := MkSearchRelevancePutJudgmentsPath;
     op_params := SearchRelevancePutJudgmentsReq_Params; op_defaults := None; op_timeout := SearchRelevancePutJudgmentsParams_TimeoutParams; op_debug := SearchRelevancePutJudgmentsParams_DebugParams;
     op_format := None; op_own := SearchRelevancePutJudgmentsParams_own; op_slots := SearchRelevancePutJudgmentsParams_slots;
     op_body r := raw_body (SearchRelevancePutJudgmentsReq_Body r); op_headers r := SearchRelevancePutJudgmentsReq_Header r;
     Method := SearchRelevancePutJudgments_Method; GetRequest := SearchRelevancePutJudgmentsReq_GetRequest;
     op_keys := [];
     op_described := [("PUT", "/_plugins/_search_relevance/judgments")];
     op_query := [] |}.
#[export] Instance SearchRelevancePutJudgments_operates : LawfulOp SearchRelevancePutJudgmentsReq.
Proof. operate. Qed.

Record SearchRelevancePutQuerySetsParams := MkSearchRelevancePutQuerySetsParams { SearchRelevancePutQuerySetsParams_TimeoutParams : TimeoutParams; SearchRelevancePutQuerySetsParams_DebugParams : DebugParams }.
Definition SearchRelevancePutQuerySetsParams_own (q : SearchRelevancePutQuerySetsParams) : list param :=
  [].
Definition SearchRelevancePutQuerySetsParams_slots : list (string * (SearchRelevancePutQuerySetsParams -> slot)) :=
  [].
Definition SearchRelevancePutQuerySetsParams_get (q : SearchRelevancePutQuerySetsParams) : gmap string string :=
  encode_params (EncodeTimeout (SearchRelevancePutQuerySetsParams_TimeoutParams q) ++ EncodeDebug (SearchRelevancePutQuerySetsParams_DebugParams q) ++ SearchRelevancePutQuerySetsParams_own q).
Record SearchRelevancePutQuerySetsReq := MkSearchRelevancePutQuerySetsReq { SearchRelevancePutQuerySetsReq_Body : option (option string); SearchRelevancePutQuerySetsReq_BodyReader : reader;
  SearchRelevancePutQuerySetsReq_Header : headers; SearchRelevancePutQuerySetsReq_Params : option SearchRelevancePutQuerySetsParams }.
Definition SearchRelevancePutQuerySetsReq_GetRequest (r : SearchRelevancePutQuerySetsReq) (method : string) : request_error + httpRequest * Z :=
  send method (SearchRelevancePutQuerySetsPath_Build (MkSearchRelevancePutQuerySetsPath))
    (match SearchRelevancePutQuerySetsReq_Params r with Some q => SearchRelevancePutQuerySetsParams_get q | None => ∅ end)
    (json_body (SearchRelevancePutQuerySetsReq_Body r) (SearchRelevancePutQuerySetsReq_BodyReader r)) (SearchRelevancePutQuerySetsReq_Header r).
Definition SearchRelevancePutQuerySets_Method (r : SearchRelevancePutQuerySetsReq) : string := "PUT".
#[export] Instance SearchRelevancePutQuerySets_operation : operation SearchRelevancePutQuerySetsReq :=
  {| op_path := MkPathType "SearchRelevancePutQuerySetsPath" SearchRelevancePutQuerySetsPath _ _; op_P := SearchRelevancePutQuerySetsParams; op_fields r := MkSearchRelevancePutQuerySetsPath;
     op_params := SearchRelevancePutQuerySetsReq_Params; op_defaults := None; op_timeout := SearchRelevancePutQuerySetsParams_TimeoutParams; op_debug := SearchRelevancePutQuerySetsParams_DebugParams;
     op_format := None; op_own := SearchRelevancePutQuerySetsParams_own; op_slots := SearchRelevancePutQuerySetsParams_slots;
     op_body r := json_body (SearchRelevancePutQuerySetsReq_Body r) (SearchRelevancePutQuerySetsReq_BodyReader r); op_headers r := SearchRelevancePutQuerySetsReq_Header r;
     Method := SearchRelevancePutQuerySets_Method; GetRequest := SearchRelevancePutQuerySetsReq_GetRequest;
     op_keys := [];
     op_described := [("PUT", "/_plugins/_search_relevance/query_sets")];
     op_query := [] |}.
#[export] Instance SearchRelevancePutQuerySets_operates : LawfulOp SearchRelevancePutQuerySetsReq.
Proof. operate. Qed.

Record SearchRelevancePutSearchConfigurationsParams := MkSearchRelevancePutSearchConfigurationsParams { SearchRelevancePutSearchConfigurationsParams_TimeoutParams : TimeoutParams; SearchRelevancePutSearchConfigurationsParams_DebugParams : DebugParams }.
Definition SearchRelevancePutSearchConfigurationsParams_own (q : SearchRelevancePutSearchConfigurationsParams) : list param :=
  [].
Definition SearchRelevancePutSearchConfigurationsParams_slots : list (string * (SearchRelevancePutSearchConfigurationsParams -> slot)) :=
  [].
Definition SearchRelevancePutSearchConfigurationsParams_get (q : SearchRelevancePutSearchConfigurationsParams) : gmap string string :=
  encode_params (EncodeTimeout (SearchRelevancePutSearchConfigurationsParams_TimeoutParams q) ++ EncodeDebug (SearchRelevancePutSearchConfigurationsParams_DebugParams q) ++ SearchRelevancePutSearchConfigurationsParams_own q).
Record SearchRelevancePutSearchConfigurationsReq := MkSearchRelevancePutSearchConfigurationsReq { SearchRelevancePutSearchConfigurationsReq_Body : option (option string); SearchRelevancePutSearchConfigurationsReq_BodyReader : reader;
  SearchRelevancePutSearchConfigurationsReq_Header : headers;
  SearchRelevancePutSearchConfigurationsReq_Params : option SearchRelevancePutSearchConfigurationsParams }.
Definition SearchRelevancePutSearchConfigurationsReq_GetRequest (r : SearchRelevancePutSearchConfigurationsReq) (method : string) : request_error + httpRequest * Z :=
  send method (SearchRelevancePutSearchConfigurationsPath_Build (MkSearchRelevancePutSearchConfigurationsPath))
    (match SearchRelevancePutSearchConfigurationsReq_Params r with Some q => SearchRelevancePutSearchConfigurationsParams_get q | None => ∅ end)
    (json_body (SearchRelevancePutSearchConfigurationsReq_Body r) (SearchRelevancePutSearchConfigurationsReq_BodyReader r)) (SearchRelevancePutSearchConfigurationsReq_Header r).
Definition SearchRelevancePutSearchConfigurations_Method (r : SearchRelevancePutSearchConfigurationsReq) : string := "PUT".
#[export] Instance SearchRelevancePutSearchConfigurations_operation : operation SearchRelevancePutSearchConfigurationsReq :=
  {| op_path := MkPathType "SearchRelevancePutSearchConfigurationsPath" SearchRelevancePutSearchConfigurationsPath _ _; op_P := SearchRelevancePutSearchConfigurationsParams; op_fields r := MkSearchRelevancePutSearchConfigurationsPath;
     op_params := SearchRelevancePutSearchConfigurationsReq_Params; op_defaults := None; op_timeout := SearchRelevancePutSearchConfigurationsParams_TimeoutParams; op_debug := SearchRelevancePutSearchConfigurationsParams_DebugParams;
     op_format := None; op_own := SearchRelevancePutSearchConfigurationsParams_own; op_slots := SearchRelevancePutSearchConfigurationsParams_slots;
     op_body r := json_body (SearchRelevancePutSearchConfigurationsReq_Body r) (SearchRelevancePutSearchConfigurationsReq_BodyReader r); op_headers r := SearchRelevancePutSearchConfigurationsReq_Header r;
     Method := SearchRelevancePutSearchConfigurations_Method; GetRequest := SearchRelevancePutSearchConfigurationsReq_GetRequest;
     op_keys := [];
     op_described := [("PUT", "/_plugins/_search_relevance/search_configurations")];
     op_query := [] |}.
#[export] Instance SearchRelevancePutSearchConfigurations_operates : LawfulOp SearchRelevancePutSearchConfigurationsReq.
Proof. operate. Qed.

(** All of them. *)
Definition apiRanking : list operation_type :=
  [MkOperationType "FlowFrameworkCreate" FlowFrameworkCreateReq _ _; MkOperationType "FlowFrameworkDelete" FlowFrameworkDeleteReq _ _;
   MkOperationType "FlowFrameworkDeprovision" FlowFrameworkDeprovisionReq _ _; MkOperationType "FlowFrameworkGet" FlowFrameworkGetReq _ _;
   MkOperationType "FlowFrameworkGetStatus" FlowFrameworkGetStatusReq _ _; MkOperationType "FlowFrameworkGetSteps" FlowFrameworkGetStepsReq _ _;
   MkOperationType "FlowFrameworkProvision" FlowFrameworkProvisionReq _ _; MkOperationType "FlowFrameworkSearch" FlowFrameworkSearchReq _ _;
   MkOperationType "FlowFrameworkSearchState" FlowFrameworkSearchStateReq _ _; MkOperationType "FlowFrameworkUpdate" FlowFrameworkUpdateReq _ _;
   MkOperationType "KNNDeleteModel" KNNDeleteModelReq _ _; MkOperationType "KNNGetModel" KNNGetModelReq _ _;
   MkOperationType "KNNSearchModels" KNNSearchModelsReq _ _; MkOperationType "KNNStats" KNNStatsReq _ _;
   MkOperationType "KNNTrainModel" KNNTrainModelReq _ _; MkOperationType "KNNWarmup" KNNWarmupReq _ _;
   MkOperationType "LTRAddFeaturesToSet" LTRAddFeaturesToSetReq _ _; MkOperationType "LTRAddFeaturesToSetByQuery" LTRAddFeaturesToSetByQueryReq _ _;
   MkOperationType "LTRCacheStats" LTRCacheStatsReq _ _; MkOperationType "LTRClearCache" LTRClearCacheReq _ _;
   MkOperationType "LTRCreateDefaultStore" LTRCreateDefaultStoreReq _ _; MkOperationType "LTRCreateFeature" LTRCreateFeatureReq _ _;
   MkOperationType "LTRCreateFeatureset" LTRCreateFeaturesetReq _ _; MkOperationType "LTRCreateModel" LTRCreateModelReq _ _;
   MkOperationType "LTRCreateModelFromSet" LTRCreateModelFromSetReq _ _; MkOperationType "LTRCreateStore" LTRCreateStoreReq _ _;
   MkOperationType "LTRDeleteDefaultStore" LTRDeleteDefaultStoreReq _ _; MkOperationType "LTRDeleteFeature" LTRDeleteFeatureReq _ _;
   MkOperationType "LTRDeleteFeatureset" LTRDeleteFeaturesetReq _ _; MkOperationType "LTRDeleteModel" LTRDeleteModelReq _ _;
   MkOperationType "LTRDeleteStore" LTRDeleteStoreReq _ _; MkOperationType "LTRGetFeature" LTRGetFeatureReq _ _;
   MkOperationType "LTRGetFeatureset" LTRGetFeaturesetReq _ _; MkOperationType "LTRGetModel" LTRGetModelReq _ _;
   MkOperationType "LTRGetStore" LTRGetStoreReq _ _; MkOperationType "LTRListStores" LTRListStoresReq _ _;
   MkOperationType "LTRSearchFeatures" LTRSearchFeaturesReq _ _; MkOperationType "LTRSearchFeaturesets" LTRSearchFeaturesetsReq _ _;
   MkOperationType "LTRSearchModels" LTRSearchModelsReq _ _; MkOperationType "LTRStats" LTRStatsReq _ _;
   MkOperationType "LTRUpdateFeature" LTRUpdateFeatureReq _ _; MkOperationType "LTRUpdateFeatureset" LTRUpdateFeaturesetReq _ _;
   MkOperationType "NeuralStats" NeuralStatsReq _ _; MkOperationType "SearchRelevanceDeleteExperiments" SearchRelevanceDeleteExperimentsReq _ _;
   MkOperationType "SearchRelevanceDeleteJudgments" SearchRelevanceDeleteJudgmentsReq _ _; MkOperationType "SearchRelevanceDeleteQuerySets" SearchRelevanceDeleteQuerySetsReq _ _;
   MkOperationType "SearchRelevanceDeleteScheduledExperiments" SearchRelevanceDeleteScheduledExperimentsReq _ _; MkOperationType "SearchRelevanceDeleteSearchConfigurations" SearchRelevanceDeleteSearchConfigurationsReq _ _;
   MkOperationType "SearchRelevanceGetExperiments" SearchRelevanceGetExperimentsReq _ _; MkOperationType "SearchRelevanceGetJudgments" SearchRelevanceGetJudgmentsReq _ _;
   MkOperationType "SearchRelevanceGetNodeStats" SearchRelevanceGetNodeStatsReq _ _; MkOperationType "SearchRelevanceGetQuerySets" SearchRelevanceGetQuerySetsReq _ _;
   MkOperationType "SearchRelevanceGetScheduledExperiments" SearchRelevanceGetScheduledExperimentsReq _ _; MkOperationType "SearchRelevanceGetSearchConfigurations" SearchRelevanceGetSearchConfigurationsReq _ _;
   MkOperationType "SearchRelevanceGetStats" SearchRelevanceGetStatsReq _ _; MkOperationType "SearchRelevancePostQuerySets" SearchRelevancePostQuerySetsReq _ _;
   MkOperationType "SearchRelevancePostScheduledExperiments" SearchRelevancePostScheduledExperimentsReq _ _; MkOperationType "SearchRelevancePutExperiments" SearchRelevancePutExperimentsReq _ _;
   MkOperationType "SearchRelevancePutJudgments" SearchRelevancePutJudgmentsReq _ _; MkOperationType "SearchRelevancePutQuerySets" SearchRelevancePutQuerySetsReq _ _;
   MkOperationType "SearchRelevancePutSearchConfigurations" SearchRelevancePutSearchConfigurationsReq _ _].
