(* ===== verification/ApiPlugins.v ===== *)
(** * Requests for the other plugins

    The request types of opensearchapi and plugins for the other plugins: the parameters
    with their [get], GetRequest, and the method of the client's call, each
    with its instance of [operation] and the part of opensearch-openapi.yaml it is
    compared with. *)

From Stdlib Require Import ZArith Ascii String.
From stdpp Require Import base gmap list strings.
From S2P Require Import Paths.
From S2P Require Import Stream.
From S2P Require Import PathsPlugins.
From S2P Require Import ReqBuild.
From S2P Require Import ApiRequest.
Open Scope string_scope.
Open Scope list_scope.

Record AsynchronousSearchDeleteParams := MkAsynchronousSearchDeleteParams { AsynchronousSearchDeleteParams_TimeoutParams : TimeoutParams; AsynchronousSearchDeleteParams_DebugParams : DebugParams }.
Definition AsynchronousSearchDeleteParams_own (q : AsynchronousSearchDeleteParams) : list param :=
  [].
Definition AsynchronousSearchDeleteParams_slots : list (string * (AsynchronousSearchDeleteParams -> slot)) :=
  [].
Definition AsynchronousSearchDeleteParams_get (q : AsynchronousSearchDeleteParams) : gmap string string :=
  encode_params (EncodeTimeout (AsynchronousSearchDeleteParams_TimeoutParams q) ++ EncodeDebug (AsynchronousSearchDeleteParams_DebugParams q) ++ AsynchronousSearchDeleteParams_own q).
Record AsynchronousSearchDeleteReq := MkAsynchronousSearchDeleteReq { AsynchronousSearchDeleteReq_ID : string; AsynchronousSearchDeleteReq_Header : headers;
  AsynchronousSearchDeleteReq_Params : option AsynchronousSearchDeleteParams }.
Definition AsynchronousSearchDeleteReq_GetRequest (r : AsynchronousSearchDeleteReq) (method : string) : request_error + httpRequest * Z :=
  send method (AsynchronousSearchDeletePath_Build (MkAsynchronousSearchDeletePath (AsynchronousSearchDeleteReq_ID r)))
    (match AsynchronousSearchDeleteReq_Params r with Some q => AsynchronousSearchDeleteParams_get q | None => ∅ end)
    no_body (AsynchronousSearchDeleteReq_Header r).
Definition AsynchronousSearchDelete_Method (r : AsynchronousSearchDeleteReq) : string := "DELETE".
#[export] Instance AsynchronousSearchDelete_operation : operation AsynchronousSearchDeleteReq :=
  {| op_path := MkPathType "AsynchronousSearchDeletePath" AsynchronousSearchDeletePath _ _; op_P := AsynchronousSearchDeleteParams; op_fields r := MkAsynchronousSearchDeletePath (AsynchronousSearchDeleteReq_ID r);
     op_params := AsynchronousSearchDeleteReq_Params; op_defaults := None; op_timeout := AsynchronousSearchDeleteParams_TimeoutParams; op_debug := AsynchronousSearchDeleteParams_DebugParams;
     op_format := None; op_own := AsynchronousSearchDeleteParams_own; op_slots := AsynchronousSearchDeleteParams_slots;
     op_body _ := no_body; op_headers r := AsynchronousSearchDeleteReq_Header r;
     Method := AsynchronousSearchDelete_Method; GetRequest := AsynchronousSearchDeleteReq_GetRequest;
     op_keys := [];
     op_described := [("DELETE", "/_plugins/_asynchronous_search/{id}")];
     op_query := [] |}.
#[export] Instance AsynchronousSearchDelete_operates : LawfulOp AsynchronousSearchDeleteReq.
Proof. operate. Qed.

Record AsynchronousSearchGetParams := MkAsynchronousSearchGetParams { AsynchronousSearchGetParams_TimeoutParams : TimeoutParams; AsynchronousSearchGetParams_DebugParams : DebugParams }.
Definition AsynchronousSearchGetParams_own (q : AsynchronousSearchGetParams) : list param :=
  [].
Definition AsynchronousSearchGetParams_slots : list (string * (AsynchronousSearchGetParams -> slot)) :=
  [].
Definition AsynchronousSearchGetParams_get (q : AsynchronousSearchGetParams) : gmap string string :=
  encode_params (EncodeTimeout (AsynchronousSearchGetParams_TimeoutParams q) ++ EncodeDebug (AsynchronousSearchGetParams_DebugParams q) ++ AsynchronousSearchGetParams_own q).
Record AsynchronousSearchGetReq := MkAsynchronousSearchGetReq { AsynchronousSearchGetReq_ID : string; AsynchronousSearchGetReq_Header : headers; AsynchronousSearchGetReq_Params : option AsynchronousSearchGetParams }.
Definition AsynchronousSearchGetReq_GetRequest (r : AsynchronousSearchGetReq) (method : string) : request_error + httpRequest * Z :=
  send method (AsynchronousSearchGetPath_Build (MkAsynchronousSearchGetPath (AsynchronousSearchGetReq_ID r)))
    (match AsynchronousSearchGetReq_Params r with Some q => AsynchronousSearchGetParams_get q | None => ∅ end)
    no_body (AsynchronousSearchGetReq_Header r).
Definition AsynchronousSearchGet_Method (r : AsynchronousSearchGetReq) : string := "GET".
#[export] Instance AsynchronousSearchGet_operation : operation AsynchronousSearchGetReq :=
  {| op_path := MkPathType "AsynchronousSearchGetPath" AsynchronousSearchGetPath _ _; op_P := AsynchronousSearchGetParams; op_fields r := MkAsynchronousSearchGetPath (AsynchronousSearchGetReq_ID r);
     op_params := AsynchronousSearchGetReq_Params; op_defaults := None; op_timeout := AsynchronousSearchGetParams_TimeoutParams; op_debug := AsynchronousSearchGetParams_DebugParams;
     op_format := None; op_own := AsynchronousSearchGetParams_own; op_slots := AsynchronousSearchGetParams_slots;
     op_body _ := no_body; op_headers r := AsynchronousSearchGetReq_Header r;
     Method := AsynchronousSearchGet_Method; GetRequest := AsynchronousSearchGetReq_GetRequest;
     op_keys := [];
     op_described := [("GET", "/_plugins/_asynchronous_search/{id}")];
     op_query := [] |}.
#[export] Instance AsynchronousSearchGet_operates : LawfulOp AsynchronousSearchGetReq.
Proof. operate. Qed.

Record AsynchronousSearchSearchParams := MkAsynchronousSearchSearchParams { AsynchronousSearchSearchParams_TimeoutParams : TimeoutParams; AsynchronousSearchSearchParams_DebugParams : DebugParams;
  AsynchronousSearchSearchParams_Index : string; AsynchronousSearchSearchParams_KeepAlive : string;
  AsynchronousSearchSearchParams_KeepOnCompletion : option bool; AsynchronousSearchSearchParams_WaitForCompletionTimeout : string }.
Definition AsynchronousSearchSearchParams_own (q : AsynchronousSearchSearchParams) : list param :=
  [("index", nonEmpty (AsynchronousSearchSearchParams_Index q)); ("keep_alive", nonEmpty (AsynchronousSearchSearchParams_KeepAlive q));
  ("keep_on_completion", boolPtr (AsynchronousSearchSearchParams_KeepOnCompletion q));
  ("wait_for_completion_timeout", nonEmpty (AsynchronousSearchSearchParams_WaitForCompletionTimeout q))].
Definition AsynchronousSearchSearchParams_slots : list (string * (AsynchronousSearchSearchParams -> slot)) :=
  [("Index", fun q => Text (AsynchronousSearchSearchParams_Index q)); ("KeepAlive", fun q => Text (AsynchronousSearchSearchParams_KeepAlive q));
  ("KeepOnCompletion", fun q => BoolPtr (AsynchronousSearchSearchParams_KeepOnCompletion q));
  ("WaitForCompletionTimeout", fun q => Text (AsynchronousSearchSearchParams_WaitForCompletionTimeout q))].
Definition AsynchronousSearchSearchParams_get (q : AsynchronousSearchSearchParams) : gmap string string :=
  encode_params (EncodeTimeout (AsynchronousSearchSearchParams_TimeoutParams q) ++ EncodeDebug (AsynchronousSearchSearchParams_DebugParams q) ++ AsynchronousSearchSearchParams_own q).
Record AsynchronousSearchSearchReq := MkAsynchronousSearchSearchReq { AsynchronousSearchSearchReq_Body : option (option string); AsynchronousSearchSearchReq_BodyReader : reader;
  AsynchronousSearchSearchReq_Header : headers; AsynchronousSearchSearchReq_Params : option AsynchronousSearchSearchParams }.
Definition AsynchronousSearchSearchReq_GetRequest (r : AsynchronousSearchSearchReq) (method : string) : request_error + httpRequest * Z :=
  send method (AsynchronousSearchSearchPath_Build (MkAsynchronousSearchSearchPath))
    (match AsynchronousSearchSearchReq_Params r with Some q => AsynchronousSearchSearchParams_get q | None => ∅ end)
    (json_body (AsynchronousSearchSearchReq_Body r) (AsynchronousSearchSearchReq_BodyReader r)) (AsynchronousSearchSearchReq_Header r).
Definition AsynchronousSearchSearch_Method (r : AsynchronousSearchSearchReq) : string := "POST".
#[export] Instance AsynchronousSearchSearch_operation : operation AsynchronousSearchSearchReq :=
  {| op_path := MkPathType "AsynchronousSearchSearchPath" AsynchronousSearchSearchPath _ _; op_P := AsynchronousSearchSearchParams; op_fields r := MkAsynchronousSearchSearchPath;
     op_params := AsynchronousSearchSearchReq_Params; op_defaults := None; op_timeout := AsynchronousSearchSearchParams_TimeoutParams; op_debug := AsynchronousSearchSearchParams_DebugParams;
     op_format := None; op_own := AsynchronousSearchSearchParams_own; op_slots := AsynchronousSearchSearchParams_slots;
     op_body r := json_body (AsynchronousSearchSearchReq_Body r) (AsynchronousSearchSearchReq_BodyReader r); op_headers r := AsynchronousSearchSearchReq_Header r;
     Method := AsynchronousSearchSearch_Method; GetRequest := AsynchronousSearchSearchReq_GetRequest;
     op_keys := ["index"; "keep_alive"; "keep_on_completion"; "wait_for_completion_timeout"];
     op_described := [("POST", "/_plugins/_asynchronous_search")];
     op_query := ["index"; "keep_alive"; "keep_on_completion"; "wait_for_completion_timeout"] |}.
#[export] Instance AsynchronousSearchSearch_operates : LawfulOp AsynchronousSearchSearchReq.
Proof. operate. Qed.

Record AsynchronousSearchStatsParams := MkAsynchronousSearchStatsParams { AsynchronousSearchStatsParams_TimeoutParams : TimeoutParams; AsynchronousSearchStatsParams_DebugParams : DebugParams }.
Definition AsynchronousSearchStatsParams_own (q : AsynchronousSearchStatsParams) : list param :=
  [].
Definition AsynchronousSearchStatsParams_slots : list (string * (AsynchronousSearchStatsParams -> slot)) :=
  [].
Definition AsynchronousSearchStatsParams_get (q : AsynchronousSearchStatsParams) : gmap string string :=
  encode_params (EncodeTimeout (AsynchronousSearchStatsParams_TimeoutParams q) ++ EncodeDebug (AsynchronousSearchStatsParams_DebugParams q) ++ AsynchronousSearchStatsParams_own q).
Record AsynchronousSearchStatsReq := MkAsynchronousSearchStatsReq { AsynchronousSearchStatsReq_Header : headers; AsynchronousSearchStatsReq_Params : option AsynchronousSearchStatsParams }.
Definition AsynchronousSearchStatsReq_GetRequest (r : AsynchronousSearchStatsReq) (method : string) : request_error + httpRequest * Z :=
  send method (AsynchronousSearchStatsPath_Build (MkAsynchronousSearchStatsPath))
    (match AsynchronousSearchStatsReq_Params r with Some q => AsynchronousSearchStatsParams_get q | None => ∅ end)
    no_body (AsynchronousSearchStatsReq_Header r).
Definition AsynchronousSearchStats_Method (r : AsynchronousSearchStatsReq) : string := "GET".
#[export] Instance AsynchronousSearchStats_operation : operation AsynchronousSearchStatsReq :=
  {| op_path := MkPathType "AsynchronousSearchStatsPath" AsynchronousSearchStatsPath _ _; op_P := AsynchronousSearchStatsParams; op_fields r := MkAsynchronousSearchStatsPath;
     op_params := AsynchronousSearchStatsReq_Params; op_defaults := None; op_timeout := AsynchronousSearchStatsParams_TimeoutParams; op_debug := AsynchronousSearchStatsParams_DebugParams;
     op_format := None; op_own := AsynchronousSearchStatsParams_own; op_slots := AsynchronousSearchStatsParams_slots;
     op_body _ := no_body; op_headers r := AsynchronousSearchStatsReq_Header r;
     Method := AsynchronousSearchStats_Method; GetRequest := AsynchronousSearchStatsReq_GetRequest;
     op_keys := [];
     op_described := [("GET", "/_plugins/_asynchronous_search/stats")];
     op_query := [] |}.
#[export] Instance AsynchronousSearchStats_operates : LawfulOp AsynchronousSearchStatsReq.
Proof. operate. Qed.

Record GeospatialDeleteIP2GeoDatasourceParams := MkGeospatialDeleteIP2GeoDatasourceParams { GeospatialDeleteIP2GeoDatasourceParams_TimeoutParams : TimeoutParams; GeospatialDeleteIP2GeoDatasourceParams_DebugParams : DebugParams }.
Definition GeospatialDeleteIP2GeoDatasourceParams_own (q : GeospatialDeleteIP2GeoDatasourceParams) : list param :=
  [].
Definition GeospatialDeleteIP2GeoDatasourceParams_slots : list (string * (GeospatialDeleteIP2GeoDatasourceParams -> slot)) :=
  [].
Definition GeospatialDeleteIP2GeoDatasourceParams_get (q : GeospatialDeleteIP2GeoDatasourceParams) : gmap string string :=
  encode_params (EncodeTimeout (GeospatialDeleteIP2GeoDatasourceParams_TimeoutParams q) ++ EncodeDebug (GeospatialDeleteIP2GeoDatasourceParams_DebugParams q) ++ GeospatialDeleteIP2GeoDatasourceParams_own q).
Record GeospatialDeleteIP2GeoDatasourceReq := MkGeospatialDeleteIP2GeoDatasourceReq { GeospatialDeleteIP2GeoDatasourceReq_Name : string; GeospatialDeleteIP2GeoDatasourceReq_Header : headers;
  GeospatialDeleteIP2GeoDatasourceReq_Params : option GeospatialDeleteIP2GeoDatasourceParams }.
Definition GeospatialDeleteIP2GeoDatasourceReq_GetRequest (r : GeospatialDeleteIP2GeoDatasourceReq) (method : string) : request_error + httpRequest * Z :=
  send method (GeospatialDeleteIP2GeoDatasourcePath_Build (MkGeospatialDeleteIP2GeoDatasourcePath (GeospatialDeleteIP2GeoDatasourceReq_Name r)))
    (match GeospatialDeleteIP2GeoDatasourceReq_Params r with Some q => GeospatialDeleteIP2GeoDatasourceParams_get q | None => ∅ end)
    no_body (GeospatialDeleteIP2GeoDatasourceReq_Header r).
Definition GeospatialDeleteIP2GeoDatasource_Method (r : GeospatialDeleteIP2GeoDatasourceReq) : string := "DELETE".
#[export] Instance GeospatialDeleteIP2GeoDatasource_operation : operation GeospatialDeleteIP2GeoDatasourceReq :=
  {| op_path := MkPathType "GeospatialDeleteIP2GeoDatasourcePath" GeospatialDeleteIP2GeoDatasourcePath _ _; op_P := GeospatialDeleteIP2GeoDatasourceParams; op_fields r := MkGeospatialDeleteIP2GeoDatasourcePath (GeospatialDeleteIP2GeoDatasourceReq_Name r);
     op_params := GeospatialDeleteIP2GeoDatasourceReq_Params; op_defaults := None; op_timeout := GeospatialDeleteIP2GeoDatasourceParams_TimeoutParams; op_debug := GeospatialDeleteIP2GeoDatasourceParams_DebugParams;
     op_format := None; op_own := GeospatialDeleteIP2GeoDatasourceParams_own; op_slots := GeospatialDeleteIP2GeoDatasourceParams_slots;
     op_body _ := no_body; op_headers r := GeospatialDeleteIP2GeoDatasourceReq_Header r;
     Method := GeospatialDeleteIP2GeoDatasource_Method; GetRequest := GeospatialDeleteIP2GeoDatasourceReq_GetRequest;
     op_keys := [];
     op_described := [("DELETE", "/_plugins/geospatial/ip2geo/datasource/{name}")];
     op_query := [] |}.
#[export] Instance GeospatialDeleteIP2GeoDatasource_operates : LawfulOp GeospatialDeleteIP2GeoDatasourceReq.
Proof. operate. Qed.

Record GeospatialGeojsonUploadPostParams := MkGeospatialGeojsonUploadPostParams { GeospatialGeojsonUploadPostParams_TimeoutParams : TimeoutParams; GeospatialGeojsonUploadPostParams_DebugParams : DebugParams }.
Definition GeospatialGeojsonUploadPostParams_own (q : GeospatialGeojsonUploadPostParams) : list param :=
  [].
Definition GeospatialGeojsonUploadPostParams_slots : list (string * (GeospatialGeojsonUploadPostParams -> slot)) :=
  [].
Definition GeospatialGeojsonUploadPostParams_get (q : GeospatialGeojsonUploadPostParams) : gmap string string :=
  encode_params (EncodeTimeout (GeospatialGeojsonUploadPostParams_TimeoutParams q) ++ EncodeDebug (GeospatialGeojsonUploadPostParams_DebugParams q) ++ GeospatialGeojsonUploadPostParams_own q).
Record GeospatialGeojsonUploadPostReq := MkGeospatialGeojsonUploadPostReq { GeospatialGeojsonUploadPostReq_Body : option (option string); GeospatialGeojsonUploadPostReq_BodyReader : reader;
  GeospatialGeojsonUploadPostReq_Header : headers; GeospatialGeojsonUploadPostReq_Params : option GeospatialGeojsonUploadPostParams }.
Definition GeospatialGeojsonUploadPostReq_GetRequest (r : GeospatialGeojsonUploadPostReq) (method : string) : request_error + httpRequest * Z :=
  send method (GeospatialGeojsonUploadPostPath_Build (MkGeospatialGeojsonUploadPostPath))
    (match GeospatialGeojsonUploadPostReq_Params r with Some q => GeospatialGeojsonUploadPostParams_get q | None => ∅ end)
    (json_body (GeospatialGeojsonUploadPostReq_Body r) (GeospatialGeojsonUploadPostReq_BodyReader r)) (GeospatialGeojsonUploadPostReq_Header r).
Definition GeospatialGeojsonUploadPost_Method (r : GeospatialGeojsonUploadPostReq) : string := "POST".
#[export] Instance GeospatialGeojsonUploadPost_operation : operation GeospatialGeojsonUploadPostReq :=
  {| op_path := MkPathType "GeospatialGeojsonUploadPostPath" GeospatialGeojsonUploadPostPath _ _; op_P := GeospatialGeojsonUploadPostParams; op_fields r := MkGeospatialGeojsonUploadPostPath;
     op_params := GeospatialGeojsonUploadPostReq_Params; op_defaults := None; op_timeout := GeospatialGeojsonUploadPostParams_TimeoutParams; op_debug := GeospatialGeojsonUploadPostParams_DebugParams;
     op_format := None; op_own := GeospatialGeojsonUploadPostParams_own; op_slots := GeospatialGeojsonUploadPostParams_slots;
     op_body r := json_body (GeospatialGeojsonUploadPostReq_Body r) (GeospatialGeojsonUploadPostReq_BodyReader r); op_headers r := GeospatialGeojsonUploadPostReq_Header r;
     Method := GeospatialGeojsonUploadPost_Method; GetRequest := GeospatialGeojsonUploadPostReq_GetRequest;
     op_keys := [];
     op_described := [("POST", "/_plugins/geospatial/geojson/_upload")];
     op_query := [] |}.
#[export] Instance GeospatialGeojsonUploadPost_operates : LawfulOp GeospatialGeojsonUploadPostReq.
Proof. operate. Qed.

Record GeospatialGeojsonUploadPutParams := MkGeospatialGeojsonUploadPutParams { GeospatialGeojsonUploadPutParams_TimeoutParams : TimeoutParams; GeospatialGeojsonUploadPutParams_DebugParams : DebugParams }.
Definition GeospatialGeojsonUploadPutParams_own (q : GeospatialGeojsonUploadPutParams) : list param :=
  [].
Definition GeospatialGeojsonUploadPutParams_slots : list (string * (GeospatialGeojsonUploadPutParams -> slot)) :=
  [].
Definition GeospatialGeojsonUploadPutParams_get (q : GeospatialGeojsonUploadPutParams) : gmap string string :=
  encode_params (EncodeTimeout (GeospatialGeojsonUploadPutParams_TimeoutParams q) ++ EncodeDebug (GeospatialGeojsonUploadPutParams_DebugParams q) ++ GeospatialGeojsonUploadPutParams_own q).
Record GeospatialGeojsonUploadPutReq := MkGeospatialGeojsonUploadPutReq { GeospatialGeojsonUploadPutReq_Body : option (option string); GeospatialGeojsonUploadPutReq_BodyReader : reader;
  GeospatialGeojsonUploadPutReq_Header : headers; GeospatialGeojsonUploadPutReq_Params : option GeospatialGeojsonUploadPutParams }.
Definition GeospatialGeojsonUploadPutReq_GetRequest (r : GeospatialGeojsonUploadPutReq) (method : string) : request_error + httpRequest * Z :=
  send method (GeospatialGeojsonUploadPutPath_Build (MkGeospatialGeojsonUploadPutPath))
    (match GeospatialGeojsonUploadPutReq_Params r with Some q => GeospatialGeojsonUploadPutParams_get q | None => ∅ end)
    (json_body (GeospatialGeojsonUploadPutReq_Body r) (GeospatialGeojsonUploadPutReq_BodyReader r)) (GeospatialGeojsonUploadPutReq_Header r).
Definition GeospatialGeojsonUploadPut_Method (r : GeospatialGeojsonUploadPutReq) : string := "PUT".
#[export] Instance GeospatialGeojsonUploadPut_operation : operation GeospatialGeojsonUploadPutReq :=
  {| op_path := MkPathType "GeospatialGeojsonUploadPutPath" GeospatialGeojsonUploadPutPath _ _; op_P := GeospatialGeojsonUploadPutParams; op_fields r := MkGeospatialGeojsonUploadPutPath;
     op_params := GeospatialGeojsonUploadPutReq_Params; op_defaults := None; op_timeout := GeospatialGeojsonUploadPutParams_TimeoutParams; op_debug := GeospatialGeojsonUploadPutParams_DebugParams;
     op_format := None; op_own := GeospatialGeojsonUploadPutParams_own; op_slots := GeospatialGeojsonUploadPutParams_slots;
     op_body r := json_body (GeospatialGeojsonUploadPutReq_Body r) (GeospatialGeojsonUploadPutReq_BodyReader r); op_headers r := GeospatialGeojsonUploadPutReq_Header r;
     Method := GeospatialGeojsonUploadPut_Method; GetRequest := GeospatialGeojsonUploadPutReq_GetRequest;
     op_keys := [];
     op_described := [("PUT", "/_plugins/geospatial/geojson/_upload")];
     op_query := [] |}.
#[export] Instance GeospatialGeojsonUploadPut_operates : LawfulOp GeospatialGeojsonUploadPutReq.
Proof. operate. Qed.

Record GeospatialGetIP2GeoDatasourceParams := MkGeospatialGetIP2GeoDatasourceParams { GeospatialGetIP2GeoDatasourceParams_TimeoutParams : TimeoutParams; GeospatialGetIP2GeoDatasourceParams_DebugParams : DebugParams }.
Definition GeospatialGetIP2GeoDatasourceParams_own (q : GeospatialGetIP2GeoDatasourceParams) : list param :=
  [].
Definition GeospatialGetIP2GeoDatasourceParams_slots : list (string * (GeospatialGetIP2GeoDatasourceParams -> slot)) :=
  [].
Definition GeospatialGetIP2GeoDatasourceParams_get (q : GeospatialGetIP2GeoDatasourceParams) : gmap string string :=
  encode_params (EncodeTimeout (GeospatialGetIP2GeoDatasourceParams_TimeoutParams q) ++ EncodeDebug (GeospatialGetIP2GeoDatasourceParams_DebugParams q) ++ GeospatialGetIP2GeoDatasourceParams_own q).
Record GeospatialGetIP2GeoDatasourceReq := MkGeospatialGetIP2GeoDatasourceReq { GeospatialGetIP2GeoDatasourceReq_Name : list string; GeospatialGetIP2GeoDatasourceReq_Header : headers;
  GeospatialGetIP2GeoDatasourceReq_Params : option GeospatialGetIP2GeoDatasourceParams }.
Definition GeospatialGetIP2GeoDatasourceReq_GetRequest (r : GeospatialGetIP2GeoDatasourceReq) (method : string) : request_error + httpRequest * Z :=
  send method (GeospatialGetIP2GeoDatasourcePath_Build (MkGeospatialGetIP2GeoDatasourcePath (GeospatialGetIP2GeoDatasourceReq_Name r)))
    (match GeospatialGetIP2GeoDatasourceReq_Params r with Some q => GeospatialGetIP2GeoDatasourceParams_get q | None => ∅ end)
    no_body (GeospatialGetIP2GeoDatasourceReq_Header r).
Definition GeospatialGetIP2GeoDatasource_Method (r : GeospatialGetIP2GeoDatasourceReq) : string := "GET".
#[export] Instance GeospatialGetIP2GeoDatasource_operation : operation GeospatialGetIP2GeoDatasourceReq :=
  {| op_path := MkPathType "GeospatialGetIP2GeoDatasourcePath" GeospatialGetIP2GeoDatasourcePath _ _; op_P := GeospatialGetIP2GeoDatasourceParams; op_fields r := MkGeospatialGetIP2GeoDatasourcePath (GeospatialGetIP2GeoDatasourceReq_Name r);
     op_params := GeospatialGetIP2GeoDatasourceReq_Params; op_defaults := None; op_timeout := GeospatialGetIP2GeoDatasourceParams_TimeoutParams; op_debug := GeospatialGetIP2GeoDatasourceParams_DebugParams;
     op_format := None; op_own := GeospatialGetIP2GeoDatasourceParams_own; op_slots := GeospatialGetIP2GeoDatasourceParams_slots;
     op_body _ := no_body; op_headers r := GeospatialGetIP2GeoDatasourceReq_Header r;
     Method := GeospatialGetIP2GeoDatasource_Method; GetRequest := GeospatialGetIP2GeoDatasourceReq_GetRequest;
     op_keys := [];
     op_described := [("GET", "/_plugins/geospatial/ip2geo/datasource"); ("GET", "/_plugins/geospatial/ip2geo/datasource/{name}")];
     op_query := [] |}.
#[export] Instance GeospatialGetIP2GeoDatasource_operates : LawfulOp GeospatialGetIP2GeoDatasourceReq.
Proof. operate. Qed.

Record GeospatialGetUploadStatsParams := MkGeospatialGetUploadStatsParams { GeospatialGetUploadStatsParams_TimeoutParams : TimeoutParams; GeospatialGetUploadStatsParams_DebugParams : DebugParams }.
Definition GeospatialGetUploadStatsParams_own (q : GeospatialGetUploadStatsParams) : list param :=
  [].
Definition GeospatialGetUploadStatsParams_slots : list (string * (GeospatialGetUploadStatsParams -> slot)) :=
  [].
Definition GeospatialGetUploadStatsParams_get (q : GeospatialGetUploadStatsParams) : gmap string string :=
  encode_params (EncodeTimeout (GeospatialGetUploadStatsParams_TimeoutParams q) ++ EncodeDebug (GeospatialGetUploadStatsParams_DebugParams q) ++ GeospatialGetUploadStatsParams_own q).
Record GeospatialGetUploadStatsReq := MkGeospatialGetUploadStatsReq { GeospatialGetUploadStatsReq_Header : headers; GeospatialGetUploadStatsReq_Params : option GeospatialGetUploadStatsParams }.
Definition GeospatialGetUploadStatsReq_GetRequest (r : GeospatialGetUploadStatsReq) (method : string) : request_error + httpRequest * Z :=
  send method (GeospatialGetUploadStatsPath_Build (MkGeospatialGetUploadStatsPath))
    (match GeospatialGetUploadStatsReq_Params r with Some q => GeospatialGetUploadStatsParams_get q | None => ∅ end)
    no_body (GeospatialGetUploadStatsReq_Header r).
Definition GeospatialGetUploadStats_Method (r : GeospatialGetUploadStatsReq) : string := "GET".
#[export] Instance GeospatialGetUploadStats_operation : operation GeospatialGetUploadStatsReq :=
  {| op_path := MkPathType "GeospatialGetUploadStatsPath" GeospatialGetUploadStatsPath _ _; op_P := GeospatialGetUploadStatsParams; op_fields r := MkGeospatialGetUploadStatsPath;
     op_params := GeospatialGetUploadStatsReq_Params; op_defaults := None; op_timeout := GeospatialGetUploadStatsParams_TimeoutParams; op_debug := GeospatialGetUploadStatsParams_DebugParams;
     op_format := None; op_own := GeospatialGetUploadStatsParams_own; op_slots := GeospatialGetUploadStatsParams_slots;
     op_body _ := no_body; op_headers r := GeospatialGetUploadStatsReq_Header r;
     Method := GeospatialGetUploadStats_Method; GetRequest := GeospatialGetUploadStatsReq_GetRequest;
     op_keys := [];
     op_described := [("GET", "/_plugins/geospatial/_upload/stats")];
     op_query := [] |}.
#[export] Instance GeospatialGetUploadStats_operates : LawfulOp GeospatialGetUploadStatsReq.
Proof. operate. Qed.

Record GeospatialPutIP2GeoDatasourceParams := MkGeospatialPutIP2GeoDatasourceParams { GeospatialPutIP2GeoDatasourceParams_TimeoutParams : TimeoutParams; GeospatialPutIP2GeoDatasourceParams_DebugParams : DebugParams }.
Definition GeospatialPutIP2GeoDatasourceParams_own (q : GeospatialPutIP2GeoDatasourceParams) : list param :=
  [].
Definition GeospatialPutIP2GeoDatasourceParams_slots : list (string * (GeospatialPutIP2GeoDatasourceParams -> slot)) :=
  [].
Definition GeospatialPutIP2GeoDatasourceParams_get (q : GeospatialPutIP2GeoDatasourceParams) : gmap string string :=
  encode_params (EncodeTimeout (GeospatialPutIP2GeoDatasourceParams_TimeoutParams q) ++ EncodeDebug (GeospatialPutIP2GeoDatasourceParams_DebugParams q) ++ GeospatialPutIP2GeoDatasourceParams_own q).
Record GeospatialPutIP2GeoDatasourceReq := MkGeospatialPutIP2GeoDatasourceReq { GeospatialPutIP2GeoDatasourceReq_Name : string; GeospatialPutIP2GeoDatasourceReq_Body : option (option string);
  GeospatialPutIP2GeoDatasourceReq_BodyReader : reader; GeospatialPutIP2GeoDatasourceReq_Header : headers;
  GeospatialPutIP2GeoDatasourceReq_Params : option GeospatialPutIP2GeoDatasourceParams }.
Definition GeospatialPutIP2GeoDatasourceReq_GetRequest (r : GeospatialPutIP2GeoDatasourceReq) (method : string) : request_error + httpRequest * Z :=
  send method (GeospatialPutIP2GeoDatasourcePath_Build (MkGeospatialPutIP2GeoDatasourcePath (GeospatialPutIP2GeoDatasourceReq_Name r)))
    (match GeospatialPutIP2GeoDatasourceReq_Params r with Some q => GeospatialPutIP2GeoDatasourceParams_get q | None => ∅ end)
    (json_body (GeospatialPutIP2GeoDatasourceReq_Body r) (GeospatialPutIP2GeoDatasourceReq_BodyReader r)) (GeospatialPutIP2GeoDatasourceReq_Header r).
Definition GeospatialPutIP2GeoDatasource_Method (r : GeospatialPutIP2GeoDatasourceReq) : string := "PUT".
#[export] Instance GeospatialPutIP2GeoDatasource_operation : operation GeospatialPutIP2GeoDatasourceReq :=
  {| op_path := MkPathType "GeospatialPutIP2GeoDatasourcePath" GeospatialPutIP2GeoDatasourcePath _ _; op_P := GeospatialPutIP2GeoDatasourceParams; op_fields r := MkGeospatialPutIP2GeoDatasourcePath (GeospatialPutIP2GeoDatasourceReq_Name r);
     op_params := GeospatialPutIP2GeoDatasourceReq_Params; op_defaults := None; op_timeout := GeospatialPutIP2GeoDatasourceParams_TimeoutParams; op_debug := GeospatialPutIP2GeoDatasourceParams_DebugParams;
     op_format := None; op_own := GeospatialPutIP2GeoDatasourceParams_own; op_slots := GeospatialPutIP2GeoDatasourceParams_slots;
     op_body r := json_body (GeospatialPutIP2GeoDatasourceReq_Body r) (GeospatialPutIP2GeoDatasourceReq_BodyReader r); op_headers r := GeospatialPutIP2GeoDatasourceReq_Header r;
     Method := GeospatialPutIP2GeoDatasource_Method; GetRequest := GeospatialPutIP2GeoDatasourceReq_GetRequest;
     op_keys := [];
     op_described := [("PUT", "/_plugins/geospatial/ip2geo/datasource/{name}")];
     op_query := [] |}.
#[export] Instance GeospatialPutIP2GeoDatasource_operates : LawfulOp GeospatialPutIP2GeoDatasourceReq.
Proof. operate. Qed.

Record GeospatialPutIP2GeoDatasourceSettingsParams := MkGeospatialPutIP2GeoDatasourceSettingsParams { GeospatialPutIP2GeoDatasourceSettingsParams_TimeoutParams : TimeoutParams; GeospatialPutIP2GeoDatasourceSettingsParams_DebugParams : DebugParams }.
Definition GeospatialPutIP2GeoDatasourceSettingsParams_own (q : GeospatialPutIP2GeoDatasourceSettingsParams) : list param :=
  [].
Definition GeospatialPutIP2GeoDatasourceSettingsParams_slots : list (string * (GeospatialPutIP2GeoDatasourceSettingsParams -> slot)) :=
  [].
Definition GeospatialPutIP2GeoDatasourceSettingsParams_get (q : GeospatialPutIP2GeoDatasourceSettingsParams) : gmap string string :=
  encode_params (EncodeTimeout (GeospatialPutIP2GeoDatasourceSettingsParams_TimeoutParams q) ++ EncodeDebug (GeospatialPutIP2GeoDatasourceSettingsParams_DebugParams q) ++ GeospatialPutIP2GeoDatasourceSettingsParams_own q).
Record GeospatialPutIP2GeoDatasourceSettingsReq := MkGeospatialPutIP2GeoDatasourceSettingsReq { GeospatialPutIP2GeoDatasourceSettingsReq_Name : string; GeospatialPutIP2GeoDatasourceSettingsReq_Body : option (option string);
  GeospatialPutIP2GeoDatasourceSettingsReq_BodyReader : reader; GeospatialPutIP2GeoDatasourceSettingsReq_Header : headers;
  GeospatialPutIP2GeoDatasourceSettingsReq_Params : option GeospatialPutIP2GeoDatasourceSettingsParams }.
Definition GeospatialPutIP2GeoDatasourceSettingsReq_GetRequest (r : GeospatialPutIP2GeoDatasourceSettingsReq) (method : string) : request_error + httpRequest * Z :=
  send method (GeospatialPutIP2GeoDatasourceSettingsPath_Build (MkGeospatialPutIP2GeoDatasourceSettingsPath (GeospatialPutIP2GeoDatasourceSettingsReq_Name r)))
    (match GeospatialPutIP2GeoDatasourceSettingsReq_Params r with Some q => GeospatialPutIP2GeoDatasourceSettingsParams_get q | None => ∅ end)
    (json_body (GeospatialPutIP2GeoDatasourceSettingsReq_Body r) (GeospatialPutIP2GeoDatasourceSettingsReq_BodyReader r)) (GeospatialPutIP2GeoDatasourceSettingsReq_Header r).
Definition GeospatialPutIP2GeoDatasourceSettings_Method (r : GeospatialPutIP2GeoDatasourceSettingsReq) : string := "PUT".
#[export] Instance GeospatialPutIP2GeoDatasourceSettings_operation : operation GeospatialPutIP2GeoDatasourceSettingsReq :=
  {| op_path := MkPathType "GeospatialPutIP2GeoDatasourceSettingsPath" GeospatialPutIP2GeoDatasourceSettingsPath _ _; op_P := GeospatialPutIP2GeoDatasourceSettingsParams; op_fields r := MkGeospatialPutIP2GeoDatasourceSettingsPath (GeospatialPutIP2GeoDatasourceSettingsReq_Name r);
     op_params := GeospatialPutIP2GeoDatasourceSettingsReq_Params; op_defaults := None; op_timeout := GeospatialPutIP2GeoDatasourceSettingsParams_TimeoutParams; op_debug := GeospatialPutIP2GeoDatasourceSettingsParams_DebugParams;
     op_format := None; op_own := GeospatialPutIP2GeoDatasourceSettingsParams_own; op_slots := GeospatialPutIP2GeoDatasourceSettingsParams_slots;
     op_body r := json_body (GeospatialPutIP2GeoDatasourceSettingsReq_Body r) (GeospatialPutIP2GeoDatasourceSettingsReq_BodyReader r); op_headers r := GeospatialPutIP2GeoDatasourceSettingsReq_Header r;
     Method := GeospatialPutIP2GeoDatasourceSettings_Method; GetRequest := GeospatialPutIP2GeoDatasourceSettingsReq_GetRequest;
     op_keys := [];
     op_described := [("PUT", "/_plugins/geospatial/ip2geo/datasource/{name}/_settings")];
     op_query := [] |}.
#[export] Instance GeospatialPutIP2GeoDatasourceSettings_operates : LawfulOp GeospatialPutIP2GeoDatasourceSettingsReq.
Proof. operate. Qed.

Record NotificationsCreateConfigParams := MkNotificationsCreateConfigParams { NotificationsCreateConfigParams_TimeoutParams : TimeoutParams; NotificationsCreateConfigParams_DebugParams : DebugParams }.
Definition NotificationsCreateConfigParams_own (q : NotificationsCreateConfigParams) : list param :=
  [].
Definition NotificationsCreateConfigParams_slots : list (string * (NotificationsCreateConfigParams -> slot)) :=
  [].
Definition NotificationsCreateConfigParams_get (q : NotificationsCreateConfigParams) : gmap string string :=
  encode_params (EncodeTimeout (NotificationsCreateConfigParams_TimeoutParams q) ++ EncodeDebug (NotificationsCreateConfigParams_DebugParams q) ++ NotificationsCreateConfigParams_own q).
Record NotificationsCreateConfigReq := MkNotificationsCreateConfigReq { NotificationsCreateConfigReq_Body : option (option string); NotificationsCreateConfigReq_BodyReader : reader;
  NotificationsCreateConfigReq_Header : headers; NotificationsCreateConfigReq_Params : option NotificationsCreateConfigParams }.
Definition NotificationsCreateConfigReq_GetRequest (r : NotificationsCreateConfigReq) (method : string) : request_error + httpRequest * Z :=
  send method (NotificationsCreateConfigPath_Build (MkNotificationsCreateConfigPath))
    (match NotificationsCreateConfigReq_Params r with Some q => NotificationsCreateConfigParams_get q | None => ∅ end)
    (json_body (NotificationsCreateConfigReq_Body r) (NotificationsCreateConfigReq_BodyReader r)) (NotificationsCreateConfigReq_Header r).
Definition NotificationsCreateConfig_Method (r : NotificationsCreateConfigReq) : string := "POST".
#[export] Instance NotificationsCreateConfig_operation : operation NotificationsCreateConfigReq :=
  {| op_path := MkPathType "NotificationsCreateConfigPath" NotificationsCreateConfigPath _ _; op_P := NotificationsCreateConfigParams; op_fields r := MkNotificationsCreateConfigPath;
     op_params := NotificationsCreateConfigReq_Params; op_defaults := None; op_timeout := NotificationsCreateConfigParams_TimeoutParams; op_debug := NotificationsCreateConfigParams_DebugParams;
     op_format := None; op_own := NotificationsCreateConfigParams_own; op_slots := NotificationsCreateConfigParams_slots;
     op_body r := json_body (NotificationsCreateConfigReq_Body r) (NotificationsCreateConfigReq_BodyReader r); op_headers r := NotificationsCreateConfigReq_Header r;
     Method := NotificationsCreateConfig_Method; GetRequest := NotificationsCreateConfigReq_GetRequest;
     op_keys := [];
     op_described := [("POST", "/_plugins/_notifications/configs")];
     op_query := [] |}.
#[export] Instance NotificationsCreateConfig_operates : LawfulOp NotificationsCreateConfigReq.
Proof. operate. Qed.

Record NotificationsDeleteConfigParams := MkNotificationsDeleteConfigParams { NotificationsDeleteConfigParams_TimeoutParams : TimeoutParams; NotificationsDeleteConfigParams_DebugParams : DebugParams }.
Definition NotificationsDeleteConfigParams_own (q : NotificationsDeleteConfigParams) : list param :=
  [].
Definition NotificationsDeleteConfigParams_slots : list (string * (NotificationsDeleteConfigParams -> slot)) :=
  [].
Definition NotificationsDeleteConfigParams_get (q : NotificationsDeleteConfigParams) : gmap string string :=
  encode_params (EncodeTimeout (NotificationsDeleteConfigParams_TimeoutParams q) ++ EncodeDebug (NotificationsDeleteConfigParams_DebugParams q) ++ NotificationsDeleteConfigParams_own q).
Record NotificationsDeleteConfigReq := MkNotificationsDeleteConfigReq { NotificationsDeleteConfigReq_ConfigID : string; NotificationsDeleteConfigReq_Header : headers;
  NotificationsDeleteConfigReq_Params : option NotificationsDeleteConfigParams }.
Definition NotificationsDeleteConfigReq_GetRequest (r : NotificationsDeleteConfigReq) (method : string) : request_error + httpRequest * Z :=
  send method (NotificationsDeleteConfigPath_Build (MkNotificationsDeleteConfigPath (NotificationsDeleteConfigReq_ConfigID r)))
    (match NotificationsDeleteConfigReq_Params r with Some q => NotificationsDeleteConfigParams_get q | None => ∅ end)
    no_body (NotificationsDeleteConfigReq_Header r).
Definition NotificationsDeleteConfig_Method (r : NotificationsDeleteConfigReq) : string := "DELETE".
#[export] Instance NotificationsDeleteConfig_operation : operation NotificationsDeleteConfigReq :=
  {| op_path := MkPathType "NotificationsDeleteConfigPath" NotificationsDeleteConfigPath _ _; op_P := NotificationsDeleteConfigParams; op_fields r := MkNotificationsDeleteConfigPath (NotificationsDeleteConfigReq_ConfigID r);
     op_params := NotificationsDeleteConfigReq_Params; op_defaults := None; op_timeout := NotificationsDeleteConfigParams_TimeoutParams; op_debug := NotificationsDeleteConfigParams_DebugParams;
     op_format := None; op_own := NotificationsDeleteConfigParams_own; op_slots := NotificationsDeleteConfigParams_slots;
     op_body _ := no_body; op_headers r := NotificationsDeleteConfigReq_Header r;
     Method := NotificationsDeleteConfig_Method; GetRequest := NotificationsDeleteConfigReq_GetRequest;
     op_keys := [];
     op_described := [("DELETE", "/_plugins/_notifications/configs/{config_id}")];
     op_query := [] |}.
#[export] Instance NotificationsDeleteConfig_operates : LawfulOp NotificationsDeleteConfigReq.
Proof. operate. Qed.

Record NotificationsDeleteConfigsParams := MkNotificationsDeleteConfigsParams { NotificationsDeleteConfigsParams_TimeoutParams : TimeoutParams; NotificationsDeleteConfigsParams_DebugParams : DebugParams;
  NotificationsDeleteConfigsParams_ConfigID : string; NotificationsDeleteConfigsParams_ConfigIDList : string }.
Definition NotificationsDeleteConfigsParams_own (q : NotificationsDeleteConfigsParams) : list param :=
  [("config_id", nonEmpty (NotificationsDeleteConfigsParams_ConfigID q)); ("config_id_list", nonEmpty (NotificationsDeleteConfigsParams_ConfigIDList q))].
Definition NotificationsDeleteConfigsParams_slots : list (string * (NotificationsDeleteConfigsParams -> slot)) :=
  [("ConfigID", fun q => Text (NotificationsDeleteConfigsParams_ConfigID q));
  ("ConfigIDList", fun q => Text (NotificationsDeleteConfigsParams_ConfigIDList q))].
Definition NotificationsDeleteConfigsParams_get (q : NotificationsDeleteConfigsParams) : gmap string string :=
  encode_params (EncodeTimeout (NotificationsDeleteConfigsParams_TimeoutParams q) ++ EncodeDebug (NotificationsDeleteConfigsParams_DebugParams q) ++ NotificationsDeleteConfigsParams_own q).
Record NotificationsDeleteConfigsReq := MkNotificationsDeleteConfigsReq { NotificationsDeleteConfigsReq_Header : headers; NotificationsDeleteConfigsReq_Params : option NotificationsDeleteConfigsParams }.
Definition NotificationsDeleteConfigsReq_GetRequest (r : NotificationsDeleteConfigsReq) (method : string) : request_error + httpRequest * Z :=
  send method (NotificationsDeleteConfigsPath_Build (MkNotificationsDeleteConfigsPath))
    (match NotificationsDeleteConfigsReq_Params r with Some q => NotificationsDeleteConfigsParams_get q | None => ∅ end)
    no_body (NotificationsDeleteConfigsReq_Header r).
Definition NotificationsDeleteConfigs_Method (r : NotificationsDeleteConfigsReq) : string := "DELETE".
#[export] Instance NotificationsDeleteConfigs_operation : operation NotificationsDeleteConfigsReq :=
  {| op_path := MkPathType "NotificationsDeleteConfigsPath" NotificationsDeleteConfigsPath _ _; op_P := NotificationsDeleteConfigsParams; op_fields r := MkNotificationsDeleteConfigsPath;
     op_params := NotificationsDeleteConfigsReq_Params; op_defaults := None; op_timeout := NotificationsDeleteConfigsParams_TimeoutParams; op_debug := NotificationsDeleteConfigsParams_DebugParams;
     op_format := None; op_own := NotificationsDeleteConfigsParams_own; op_slots := NotificationsDeleteConfigsParams_slots;
     op_body _ := no_body; op_headers r := NotificationsDeleteConfigsReq_Header r;
     Method := NotificationsDeleteConfigs_Method; GetRequest := NotificationsDeleteConfigsReq_GetRequest;
     op_keys := ["config_id"; "config_id_list"];
     op_described := [("DELETE", "/_plugins/_notifications/configs")];
     op_query := ["config_id"; "config_id_list"] |}.
#[export] Instance NotificationsDeleteConfigs_operates : LawfulOp NotificationsDeleteConfigsReq.
Proof. operate. Qed.

Record NotificationsGetConfigParams := MkNotificationsGetConfigParams { NotificationsGetConfigParams_TimeoutParams : TimeoutParams; NotificationsGetConfigParams_DebugParams : DebugParams }.
Definition NotificationsGetConfigParams_own (q : NotificationsGetConfigParams) : list param :=
  [].
Definition NotificationsGetConfigParams_slots : list (string * (NotificationsGetConfigParams -> slot)) :=
  [].
Definition NotificationsGetConfigParams_get (q : NotificationsGetConfigParams) : gmap string string :=
  encode_params (EncodeTimeout (NotificationsGetConfigParams_TimeoutParams q) ++ EncodeDebug (NotificationsGetConfigParams_DebugParams q) ++ NotificationsGetConfigParams_own q).
Record NotificationsGetConfigReq := MkNotificationsGetConfigReq { NotificationsGetConfigReq_ConfigID : string; NotificationsGetConfigReq_Header : headers;
  NotificationsGetConfigReq_Params : option NotificationsGetConfigParams }.
Definition NotificationsGetConfigReq_GetRequest (r : NotificationsGetConfigReq) (method : string) : request_error + httpRequest * Z :=
  send method (NotificationsGetConfigPath_Build (MkNotificationsGetConfigPath (NotificationsGetConfigReq_ConfigID r)))
    (match NotificationsGetConfigReq_Params r with Some q => NotificationsGetConfigParams_get q | None => ∅ end)
    no_body (NotificationsGetConfigReq_Header r).
Definition NotificationsGetConfig_Method (r : NotificationsGetConfigReq) : string := "GET".
#[export] Instance NotificationsGetConfig_operation : operation NotificationsGetConfigReq :=
  {| op_path := MkPathType "NotificationsGetConfigPath" NotificationsGetConfigPath _ _; op_P := NotificationsGetConfigParams; op_fields r := MkNotificationsGetConfigPath (NotificationsGetConfigReq_ConfigID r);
     op_params := NotificationsGetConfigReq_Params; op_defaults := None; op_timeout := NotificationsGetConfigParams_TimeoutParams; op_debug := NotificationsGetConfigParams_DebugParams;
     op_format := None; op_own := NotificationsGetConfigParams_own; op_slots := NotificationsGetConfigParams_slots;
     op_body _ := no_body; op_headers r := NotificationsGetConfigReq_Header r;
     Method := NotificationsGetConfig_Method; GetRequest := NotificationsGetConfigReq_GetRequest;
     op_keys := [];
     op_described := [("GET", "/_plugins/_notifications/configs/{config_id}")];
     op_query := [] |}.
#[export] Instance NotificationsGetConfig_operates : LawfulOp NotificationsGetConfigReq.
Proof. operate. Qed.

Record NotificationsGetConfigsParams := MkNotificationsGetConfigsParams { NotificationsGetConfigsParams_TimeoutParams : TimeoutParams; NotificationsGetConfigsParams_DebugParams : DebugParams;
  NotificationsGetConfigsParams_ChimeURL : string; NotificationsGetConfigsParams_ChimeURLKeyword : string;
  NotificationsGetConfigsParams_ConfigID : string; NotificationsGetConfigsParams_ConfigIDList : list string;
  NotificationsGetConfigsParams_ConfigType : string; NotificationsGetConfigsParams_CreatedTimeMs : Z;
  NotificationsGetConfigsParams_Description : string; NotificationsGetConfigsParams_DescriptionKeyword : string;
  NotificationsGetConfigsParams_EmailEmailAccountID : string; NotificationsGetConfigsParams_EmailEmailGroupIDList : string;
  NotificationsGetConfigsParams_EmailRecipientListRecipient : string; NotificationsGetConfigsParams_EmailRecipientListRecipientKeyword : string;
  NotificationsGetConfigsParams_EmailGroupRecipientListRecipient : string;
  NotificationsGetConfigsParams_EmailGroupRecipientListRecipientKeyword : string; NotificationsGetConfigsParams_IsEnabled : option bool;
  NotificationsGetConfigsParams_LastUpdatedTimeMs : Z; NotificationsGetConfigsParams_MicrosoftTeamsURL : string;
  NotificationsGetConfigsParams_MicrosoftTeamsURLKeyword : string; NotificationsGetConfigsParams_Name : string;
  NotificationsGetConfigsParams_NameKeyword : string; NotificationsGetConfigsParams_Query : string;
  NotificationsGetConfigsParams_SESAccountFromAddress : string; NotificationsGetConfigsParams_SESAccountFromAddressKeyword : string;
  NotificationsGetConfigsParams_SESAccountRegion : string; NotificationsGetConfigsParams_SESAccountRoleARN : string;
  NotificationsGetConfigsParams_SESAccountRoleARNKeyword : string; NotificationsGetConfigsParams_SlackURL : string;
  NotificationsGetConfigsParams_SlackURLKeyword : string; NotificationsGetConfigsParams_SMTPAccountFromAddress : string;
  NotificationsGetConfigsParams_SMTPAccountFromAddressKeyword : string; NotificationsGetConfigsParams_SMTPAccountHost : string;
  NotificationsGetConfigsParams_SMTPAccountHostKeyword : string; NotificationsGetConfigsParams_SMTPAccountMethod : string;
  NotificationsGetConfigsParams_SNSRoleARN : string; NotificationsGetConfigsParams_SNSRoleARNKeyword : string;
  NotificationsGetConfigsParams_SNSTopicARN : string; NotificationsGetConfigsParams_SNSTopicARNKeyword : string;
  NotificationsGetConfigsParams_TextQuery : string; NotificationsGetConfigsParams_WebhookURL : string;
  NotificationsGetConfigsParams_WebhookURLKeyword : string }.
Definition NotificationsGetConfigsParams_own (q : NotificationsGetConfigsParams) : list param :=
  [("chime.url", nonEmpty (NotificationsGetConfigsParams_ChimeURL q));
  ("chime.url.keyword", nonEmpty (NotificationsGetConfigsParams_ChimeURLKeyword q));
  ("config_id", nonEmpty (NotificationsGetConfigsParams_ConfigID q)); ("config_id_list", joined (NotificationsGetConfigsParams_ConfigIDList q));
  ("config_type", nonEmpty (NotificationsGetConfigsParams_ConfigType q)); ("created_time_ms", nonZero (NotificationsGetConfigsParams_CreatedTimeMs q));
  ("description", nonEmpty (NotificationsGetConfigsParams_Description q));
  ("description.keyword", nonEmpty (NotificationsGetConfigsParams_DescriptionKeyword q));
  ("email.email_account_id", nonEmpty (NotificationsGetConfigsParams_EmailEmailAccountID q));
  ("email.email_group_id_list", nonEmpty (NotificationsGetConfigsParams_EmailEmailGroupIDList q));
  ("email.recipient_list.recipient", nonEmpty (NotificationsGetConfigsParams_EmailRecipientListRecipient q));
  ("email.recipient_list.recipient.keyword", nonEmpty (NotificationsGetConfigsParams_EmailRecipientListRecipientKeyword q));
  ("email_group.recipient_list.recipient", nonEmpty (NotificationsGetConfigsParams_EmailGroupRecipientListRecipient q));
  ("email_group.recipient_list.recipient.keyword", nonEmpty (NotificationsGetConfigsParams_EmailGroupRecipientListRecipientKeyword q));
  ("is_enabled", boolPtr (NotificationsGetConfigsParams_IsEnabled q));
  ("last_updated_time_ms", nonZero (NotificationsGetConfigsParams_LastUpdatedTimeMs q));
  ("microsoft_teams.url", nonEmpty (NotificationsGetConfigsParams_MicrosoftTeamsURL q));
  ("microsoft_teams.url.keyword", nonEmpty (NotificationsGetConfigsParams_MicrosoftTeamsURLKeyword q));
  ("name", nonEmpty (NotificationsGetConfigsParams_Name q)); ("name.keyword", nonEmpty (NotificationsGetConfigsParams_NameKeyword q));
  ("query", nonEmpty (NotificationsGetConfigsParams_Query q));
  ("ses_account.from_address", nonEmpty (NotificationsGetConfigsParams_SESAccountFromAddress q));
  ("ses_account.from_address.keyword", nonEmpty (NotificationsGetConfigsParams_SESAccountFromAddressKeyword q));
  ("ses_account.region", nonEmpty (NotificationsGetConfigsParams_SESAccountRegion q));
  ("ses_account.role_arn", nonEmpty (NotificationsGetConfigsParams_SESAccountRoleARN q));
  ("ses_account.role_arn.keyword", nonEmpty (NotificationsGetConfigsParams_SESAccountRoleARNKeyword q));
  ("slack.url", nonEmpty (NotificationsGetConfigsParams_SlackURL q));
  ("slack.url.keyword", nonEmpty (NotificationsGetConfigsParams_SlackURLKeyword q));
  ("smtp_account.from_address", nonEmpty (NotificationsGetConfigsParams_SMTPAccountFromAddress q));
  ("smtp_account.from_address.keyword", nonEmpty (NotificationsGetConfigsParams_SMTPAccountFromAddressKeyword q));
  ("smtp_account.host", nonEmpty (NotificationsGetConfigsParams_SMTPAccountHost q));
  ("smtp_account.host.keyword", nonEmpty (NotificationsGetConfigsParams_SMTPAccountHostKeyword q));
  ("smtp_account.method", nonEmpty (NotificationsGetConfigsParams_SMTPAccountMethod q));
  ("sns.role_arn", nonEmpty (NotificationsGetConfigsParams_SNSRoleARN q));
  ("sns.role_arn.keyword", nonEmpty (NotificationsGetConfigsParams_SNSRoleARNKeyword q));
  ("sns.topic_arn", nonEmpty (NotificationsGetConfigsParams_SNSTopicARN q));
  ("sns.topic_arn.keyword", nonEmpty (NotificationsGetConfigsParams_SNSTopicARNKeyword q));
  ("text_query", nonEmpty (NotificationsGetConfigsParams_TextQuery q)); ("webhook.url", nonEmpty (NotificationsGetConfigsParams_WebhookURL q));
  ("webhook.url.keyword", nonEmpty (NotificationsGetConfigsParams_WebhookURLKeyword q))].
Definition NotificationsGetConfigsParams_slots : list (string * (NotificationsGetConfigsParams -> slot)) :=
  [("ChimeURL", fun q => Text (NotificationsGetConfigsParams_ChimeURL q));
  ("ChimeURLKeyword", fun q => Text (NotificationsGetConfigsParams_ChimeURLKeyword q));
  ("ConfigID", fun q => Text (NotificationsGetConfigsParams_ConfigID q));
  ("ConfigIDList", fun q => TextList (NotificationsGetConfigsParams_ConfigIDList q));
  ("ConfigType", fun q => Text (NotificationsGetConfigsParams_ConfigType q));
  ("CreatedTimeMs", fun q => Int (NotificationsGetConfigsParams_CreatedTimeMs q));
  ("Description", fun q => Text (NotificationsGetConfigsParams_Description q));
  ("DescriptionKeyword", fun q => Text (NotificationsGetConfigsParams_DescriptionKeyword q));
  ("EmailEmailAccountID", fun q => Text (NotificationsGetConfigsParams_EmailEmailAccountID q));
  ("EmailEmailGroupIDList", fun q => Text (NotificationsGetConfigsParams_EmailEmailGroupIDList q));
  ("EmailRecipientListRecipient", fun q => Text (NotificationsGetConfigsParams_EmailRecipientListRecipient q));
  ("EmailRecipientListRecipientKeyword", fun q => Text (NotificationsGetConfigsParams_EmailRecipientListRecipientKeyword q));
  ("EmailGroupRecipientListRecipient", fun q => Text (NotificationsGetConfigsParams_EmailGroupRecipientListRecipient q));
  ("EmailGroupRecipientListRecipientKeyword", fun q => Text (NotificationsGetConfigsParams_EmailGroupRecipientListRecipientKeyword q));
  ("IsEnabled", fun q => BoolPtr (NotificationsGetConfigsParams_IsEnabled q));
  ("LastUpdatedTimeMs", fun q => Int (NotificationsGetConfigsParams_LastUpdatedTimeMs q));
  ("MicrosoftTeamsURL", fun q => Text (NotificationsGetConfigsParams_MicrosoftTeamsURL q));
  ("MicrosoftTeamsURLKeyword", fun q => Text (NotificationsGetConfigsParams_MicrosoftTeamsURLKeyword q));
  ("Name", fun q => Text (NotificationsGetConfigsParams_Name q)); ("NameKeyword", fun q => Text (NotificationsGetConfigsParams_NameKeyword q));
  ("Query", fun q => Text (NotificationsGetConfigsParams_Query q));
  ("SESAccountFromAddress", fun q => Text (NotificationsGetConfigsParams_SESAccountFromAddress q));
  ("SESAccountFromAddressKeyword", fun q => Text (NotificationsGetConfigsParams_SESAccountFromAddressKeyword q));
  ("SESAccountRegion", fun q => Text (NotificationsGetConfigsParams_SESAccountRegion q));
  ("SESAccountRoleARN", fun q => Text (NotificationsGetConfigsParams_SESAccountRoleARN q));
  ("SESAccountRoleARNKeyword", fun q => Text (NotificationsGetConfigsParams_SESAccountRoleARNKeyword q));
  ("SlackURL", fun q => Text (NotificationsGetConfigsParams_SlackURL q));
  ("SlackURLKeyword", fun q => Text (NotificationsGetConfigsParams_SlackURLKeyword q));
  ("SMTPAccountFromAddress", fun q => Text (NotificationsGetConfigsParams_SMTPAccountFromAddress q));
  ("SMTPAccountFromAddressKeyword", fun q => Text (NotificationsGetConfigsParams_SMTPAccountFromAddressKeyword q));
  ("SMTPAccountHost", fun q => Text (NotificationsGetConfigsParams_SMTPAccountHost q));
  ("SMTPAccountHostKeyword", fun q => Text (NotificationsGetConfigsParams_SMTPAccountHostKeyword q));
  ("SMTPAccountMethod", fun q => Text (NotificationsGetConfigsParams_SMTPAccountMethod q));
  ("SNSRoleARN", fun q => Text (NotificationsGetConfigsParams_SNSRoleARN q));
  ("SNSRoleARNKeyword", fun q => Text (NotificationsGetConfigsParams_SNSRoleARNKeyword q));
  ("SNSTopicARN", fun q => Text (NotificationsGetConfigsParams_SNSTopicARN q));
  ("SNSTopicARNKeyword", fun q => Text (NotificationsGetConfigsParams_SNSTopicARNKeyword q));
  ("TextQuery", fun q => Text (NotificationsGetConfigsParams_TextQuery q)); ("WebhookURL", fun q => Text (NotificationsGetConfigsParams_WebhookURL q));
  ("WebhookURLKeyword", fun q => Text (NotificationsGetConfigsParams_WebhookURLKeyword q))].
Definition NotificationsGetConfigsParams_get (q : NotificationsGetConfigsParams) : gmap string string :=
  encode_params (EncodeTimeout (NotificationsGetConfigsParams_TimeoutParams q) ++ EncodeDebug (NotificationsGetConfigsParams_DebugParams q) ++ NotificationsGetConfigsParams_own q).
Record NotificationsGetConfigsReq := MkNotificationsGetConfigsReq { NotificationsGetConfigsReq_Body : option (option string); NotificationsGetConfigsReq_BodyReader : reader;
  NotificationsGetConfigsReq_Header : headers; NotificationsGetConfigsReq_Params : option NotificationsGetConfigsParams }.
Definition NotificationsGetConfigsReq_GetRequest (r : NotificationsGetConfigsReq) (method : string) : request_error + httpRequest * Z :=
  send method (NotificationsGetConfigsPath_Build (MkNotificationsGetConfigsPath))
    (match NotificationsGetConfigsReq_Params r with Some q => NotificationsGetConfigsParams_get q | None => ∅ end)
    (json_body (NotificationsGetConfigsReq_Body r) (NotificationsGetConfigsReq_BodyReader r)) (NotificationsGetConfigsReq_Header r).
Definition NotificationsGetConfigs_Method (r : NotificationsGetConfigsReq) : string := "GET".
#[export] Instance NotificationsGetConfigs_operation : operation NotificationsGetConfigsReq :=
  {| op_path := MkPathType "NotificationsGetConfigsPath" NotificationsGetConfigsPath _ _; op_P := NotificationsGetConfigsParams; op_fields r := MkNotificationsGetConfigsPath;
     op_params := NotificationsGetConfigsReq_Params; op_defaults := None; op_timeout := NotificationsGetConfigsParams_TimeoutParams; op_debug := NotificationsGetConfigsParams_DebugParams;
     op_format := None; op_own := NotificationsGetConfigsParams_own; op_slots := NotificationsGetConfigsParams_slots;
     op_body r := json_body (NotificationsGetConfigsReq_Body r) (NotificationsGetConfigsReq_BodyReader r); op_headers r := NotificationsGetConfigsReq_Header r;
     Method := NotificationsGetConfigs_Method; GetRequest := NotificationsGetConfigsReq_GetRequest;
     op_keys := ["chime.url"; "chime.url.keyword"; "config_id"; "config_id_list"; "config_type"; "created_time_ms"; "description"; "description.keyword";
        "email.email_account_id"; "email.email_group_id_list"; "email.recipient_list.recipient"; "email.recipient_list.recipient.keyword";
        "email_group.recipient_list.recipient"; "email_group.recipient_list.recipient.keyword"; "is_enabled"; "last_updated_time_ms"; "microsoft_teams.url";
        "microsoft_teams.url.keyword"; "name"; "name.keyword"; "query"; "ses_account.from_address"; "ses_account.from_address.keyword"; "ses_account.region";
        "ses_account.role_arn"; "ses_account.role_arn.keyword"; "slack.url"; "slack.url.keyword"; "smtp_account.from_address";
        "smtp_account.from_address.keyword"; "smtp_account.host"; "smtp_account.host.keyword"; "smtp_account.method"; "sns.role_arn"; "sns.role_arn.keyword";
        "sns.topic_arn"; "sns.topic_arn.keyword"; "text_query"; "webhook.url"; "webhook.url.keyword"];
     op_described := [("GET", "/_plugins/_notifications/configs")];
     op_query := ["chime.url"; "chime.url.keyword"; "config_id"; "config_id_list"; "config_type"; "created_time_ms"; "description"; "description.keyword";
        "email.email_account_id"; "email.email_group_id_list"; "email.recipient_list.recipient"; "email.recipient_list.recipient.keyword";
        "email_group.recipient_list.recipient"; "email_group.recipient_list.recipient.keyword"; "is_enabled"; "last_updated_time_ms"; "microsoft_teams.url";
        "microsoft_teams.url.keyword"; "name"; "name.keyword"; "query"; "ses_account.from_address"; "ses_account.from_address.keyword"; "ses_account.region";
        "ses_account.role_arn"; "ses_account.role_arn.keyword"; "slack.url"; "slack.url.keyword"; "smtp_account.from_address";
        "smtp_account.from_address.keyword"; "smtp_account.host"; "smtp_account.host.keyword"; "smtp_account.method"; "sns.role_arn"; "sns.role_arn.keyword";
        "sns.topic_arn"; "sns.topic_arn.keyword"; "text_query"; "webhook.url"; "webhook.url.keyword"] |}.
#[export] Instance NotificationsGetConfigs_operates : LawfulOp NotificationsGetConfigsReq.
Proof. operate. Qed.

Record NotificationsListChannelsParams := MkNotificationsListChannelsParams { NotificationsListChannelsParams_TimeoutParams : TimeoutParams; NotificationsListChannelsParams_DebugParams : DebugParams }.
Definition NotificationsListChannelsParams_own (q : NotificationsListChannelsParams) : list param :=
  [].
Definition NotificationsListChannelsParams_slots : list (string * (NotificationsListChannelsParams -> slot)) :=
  [].
Definition NotificationsListChannelsParams_get (q : NotificationsListChannelsParams) : gmap string string :=
  encode_params (EncodeTimeout (NotificationsListChannelsParams_TimeoutParams q) ++ EncodeDebug (NotificationsListChannelsParams_DebugParams q) ++ NotificationsListChannelsParams_own q).
Record NotificationsListChannelsReq := MkNotificationsListChannelsReq { NotificationsListChannelsReq_Header : headers; NotificationsListChannelsReq_Params : option NotificationsListChannelsParams }.
Definition NotificationsListChannelsReq_GetRequest (r : NotificationsListChannelsReq) (method : string) : request_error + httpRequest * Z :=
  send method (NotificationsListChannelsPath_Build (MkNotificationsListChannelsPath))
    (match NotificationsListChannelsReq_Params r with Some q => NotificationsListChannelsParams_get q | None => ∅ end)
    no_body (NotificationsListChannelsReq_Header r).
Definition NotificationsListChannels_Method (r : NotificationsListChannelsReq) : string := "GET".
#[export] Instance NotificationsListChannels_operation : operation NotificationsListChannelsReq :=
  {| op_path := MkPathType "NotificationsListChannelsPath" NotificationsListChannelsPath _ _; op_P := NotificationsListChannelsParams; op_fields r := MkNotificationsListChannelsPath;
     op_params := NotificationsListChannelsReq_Params; op_defaults := None; op_timeout := NotificationsListChannelsParams_TimeoutParams; op_debug := NotificationsListChannelsParams_DebugParams;
     op_format := None; op_own := NotificationsListChannelsParams_own; op_slots := NotificationsListChannelsParams_slots;
     op_body _ := no_body; op_headers r := NotificationsListChannelsReq_Header r;
     Method := NotificationsListChannels_Method; GetRequest := NotificationsListChannelsReq_GetRequest;
     op_keys := [];
     op_described := [("GET", "/_plugins/_notifications/channels")];
     op_query := [] |}.
#[export] Instance NotificationsListChannels_operates : LawfulOp NotificationsListChannelsReq.
Proof. operate. Qed.

Record NotificationsListFeaturesParams := MkNotificationsListFeaturesParams { NotificationsListFeaturesParams_TimeoutParams : TimeoutParams; NotificationsListFeaturesParams_DebugParams : DebugParams }.
Definition NotificationsListFeaturesParams_own (q : NotificationsListFeaturesParams) : list param :=
  [].
Definition NotificationsListFeaturesParams_slots : list (string * (NotificationsListFeaturesParams -> slot)) :=
  [].
Definition NotificationsListFeaturesParams_get (q : NotificationsListFeaturesParams) : gmap string string :=
  encode_params (EncodeTimeout (NotificationsListFeaturesParams_TimeoutParams q) ++ EncodeDebug (NotificationsListFeaturesParams_DebugParams q) ++ NotificationsListFeaturesParams_own q).
Record NotificationsListFeaturesReq := MkNotificationsListFeaturesReq { NotificationsListFeaturesReq_Header : headers; NotificationsListFeaturesReq_Params : option NotificationsListFeaturesParams }.
Definition NotificationsListFeaturesReq_GetRequest (r : NotificationsListFeaturesReq) (method : string) : request_error + httpRequest * Z :=
  send method (NotificationsListFeaturesPath_Build (MkNotificationsListFeaturesPath))
    (match NotificationsListFeaturesReq_Params r with Some q => NotificationsListFeaturesParams_get q | None => ∅ end)
    no_body (NotificationsListFeaturesReq_Header r).
Definition NotificationsListFeatures_Method (r : NotificationsListFeaturesReq) : string := "GET".
#[export] Instance NotificationsListFeatures_operation : operation NotificationsListFeaturesReq :=
  {| op_path := MkPathType "NotificationsListFeaturesPath" NotificationsListFeaturesPath _ _; op_P := NotificationsListFeaturesParams; op_fields r := MkNotificationsListFeaturesPath;
     op_params := NotificationsListFeaturesReq_Params; op_defaults := None; op_timeout := NotificationsListFeaturesParams_TimeoutParams; op_debug := NotificationsListFeaturesParams_DebugParams;
     op_format := None; op_own := NotificationsListFeaturesParams_own; op_slots := NotificationsListFeaturesParams_slots;
     op_body _ := no_body; op_headers r := NotificationsListFeaturesReq_Header r;
     Method := NotificationsListFeatures_Method; GetRequest := NotificationsListFeaturesReq_GetRequest;
     op_keys := [];
     op_described := [("GET", "/_plugins/_notifications/features")];
     op_query := [] |}.
#[export] Instance NotificationsListFeatures_operates : LawfulOp NotificationsListFeaturesReq.
Proof. operate. Qed.

Record NotificationsSendTestParams := MkNotificationsSendTestParams { NotificationsSendTestParams_TimeoutParams : TimeoutParams; NotificationsSendTestParams_DebugParams : DebugParams }.
Definition NotificationsSendTestParams_own (q : NotificationsSendTestParams) : list param :=
  [].
Definition NotificationsSendTestParams_slots : list (string * (NotificationsSendTestParams -> slot)) :=
  [].
Definition NotificationsSendTestParams_get (q : NotificationsSendTestParams) : gmap string string :=
  encode_params (EncodeTimeout (NotificationsSendTestParams_TimeoutParams q) ++ EncodeDebug (NotificationsSendTestParams_DebugParams q) ++ NotificationsSendTestParams_own q).
Record NotificationsSendTestReq := MkNotificationsSendTestReq { NotificationsSendTestReq_ConfigID : string; NotificationsSendTestReq_Header : headers;
  NotificationsSendTestReq_Params : option NotificationsSendTestParams }.
Definition NotificationsSendTestReq_GetRequest (r : NotificationsSendTestReq) (method : string) : request_error + httpRequest * Z :=
  send method (NotificationsSendTestPath_Build (MkNotificationsSendTestPath (NotificationsSendTestReq_ConfigID r)))
    (match NotificationsSendTestReq_Params r with Some q => NotificationsSendTestParams_get q | None => ∅ end)
    no_body (NotificationsSendTestReq_Header r).
Definition NotificationsSendTest_Method (r : NotificationsSendTestReq) : string := "POST".
#[export] Instance NotificationsSendTest_operation : operation NotificationsSendTestReq :=
  {| op_path := MkPathType "NotificationsSendTestPath" NotificationsSendTestPath _ _; op_P := NotificationsSendTestParams; op_fields r := MkNotificationsSendTestPath (NotificationsSendTestReq_ConfigID r);
     op_params := NotificationsSendTestReq_Params; op_defaults := None; op_timeout := NotificationsSendTestParams_TimeoutParams; op_debug := NotificationsSendTestParams_DebugParams;
     op_format := None; op_own := NotificationsSendTestParams_own; op_slots := NotificationsSendTestParams_slots;
     op_body _ := no_body; op_headers r := NotificationsSendTestReq_Header r;
     Method := NotificationsSendTest_Method; GetRequest := NotificationsSendTestReq_GetRequest;
     op_keys := [];
     op_described := [("GET", "/_plugins/_notifications/feature/test/{config_id}"); ("POST", "/_plugins/_notifications/feature/test/{config_id}")];
     op_query := [] |}.
#[export] Instance NotificationsSendTest_operates : LawfulOp NotificationsSendTestReq.
Proof. operate. Qed.

Record NotificationsUpdateConfigParams := MkNotificationsUpdateConfigParams { NotificationsUpdateConfigParams_TimeoutParams : TimeoutParams; NotificationsUpdateConfigParams_DebugParams : DebugParams }.
Definition NotificationsUpdateConfigParams_own (q : NotificationsUpdateConfigParams) : list param :=
  [].
Definition NotificationsUpdateConfigParams_slots : list (string * (NotificationsUpdateConfigParams -> slot)) :=
  [].
Definition NotificationsUpdateConfigParams_get (q : NotificationsUpdateConfigParams) : gmap string string :=
  encode_params (EncodeTimeout (NotificationsUpdateConfigParams_TimeoutParams q) ++ EncodeDebug (NotificationsUpdateConfigParams_DebugParams q) ++ NotificationsUpdateConfigParams_own q).
Record NotificationsUpdateConfigReq := MkNotificationsUpdateConfigReq { NotificationsUpdateConfigReq_ConfigID : string; NotificationsUpdateConfigReq_Body : option (option string);
  NotificationsUpdateConfigReq_BodyReader : reader; NotificationsUpdateConfigReq_Header : headers;
  NotificationsUpdateConfigReq_Params : option NotificationsUpdateConfigParams }.
Definition NotificationsUpdateConfigReq_GetRequest (r : NotificationsUpdateConfigReq) (method : string) : request_error + httpRequest * Z :=
  send method (NotificationsUpdateConfigPath_Build (MkNotificationsUpdateConfigPath (NotificationsUpdateConfigReq_ConfigID r)))
    (match NotificationsUpdateConfigReq_Params r with Some q => NotificationsUpdateConfigParams_get q | None => ∅ end)
    (json_body (NotificationsUpdateConfigReq_Body r) (NotificationsUpdateConfigReq_BodyReader r)) (NotificationsUpdateConfigReq_Header r).
Definition NotificationsUpdateConfig_Method (r : NotificationsUpdateConfigReq) : string := "PUT".
#[export] Instance NotificationsUpdateConfig_operation : operation NotificationsUpdateConfigReq :=
  {| op_path := MkPathType "NotificationsUpdateConfigPath" NotificationsUpdateConfigPath _ _; op_P := NotificationsUpdateConfigParams; op_fields r := MkNotificationsUpdateConfigPath (NotificationsUpdateConfigReq_ConfigID r);
     op_params := NotificationsUpdateConfigReq_Params; op_defaults := None; op_timeout := NotificationsUpdateConfigParams_TimeoutParams; op_debug := NotificationsUpdateConfigParams_DebugParams;
     op_format := None; op_own := NotificationsUpdateConfigParams_own; op_slots := NotificationsUpdateConfigParams_slots;
     op_body r := json_body (NotificationsUpdateConfigReq_Body r) (NotificationsUpdateConfigReq_BodyReader r); op_headers r := NotificationsUpdateConfigReq_Header r;
     Method := NotificationsUpdateConfig_Method; GetRequest := NotificationsUpdateConfigReq_GetRequest;
     op_keys := [];
     op_described := [("PUT", "/_plugins/_notifications/configs/{config_id}")];
     op_query := [] |}.
#[export] Instance NotificationsUpdateConfig_operates : LawfulOp NotificationsUpdateConfigReq.
Proof. operate. Qed.

Record ObservabilityCreateObjectParams := MkObservabilityCreateObjectParams { ObservabilityCreateObjectParams_TimeoutParams : TimeoutParams; ObservabilityCreateObjectParams_DebugParams : DebugParams }.
Definition ObservabilityCreateObjectParams_own (q : ObservabilityCreateObjectParams) : list param :=
  [].
Definition ObservabilityCreateObjectParams_slots : list (string * (ObservabilityCreateObjectParams -> slot)) :=
  [].
Definition ObservabilityCreateObjectParams_get (q : ObservabilityCreateObjectParams) : gmap string string :=
  encode_params (EncodeTimeout (ObservabilityCreateObjectParams_TimeoutParams q) ++ EncodeDebug (ObservabilityCreateObjectParams_DebugParams q) ++ ObservabilityCreateObjectParams_own q).
Record ObservabilityCreateObjectReq := MkObservabilityCreateObjectReq { ObservabilityCreateObjectReq_Body : option (option string); ObservabilityCreateObjectReq_BodyReader : reader;
  ObservabilityCreateObjectReq_Header : headers; ObservabilityCreateObjectReq_Params : option ObservabilityCreateObjectParams }.
Definition ObservabilityCreateObjectReq_GetRequest (r : ObservabilityCreateObjectReq) (method : string) : request_error + httpRequest * Z :=
  send method (ObservabilityCreateObjectPath_Build (MkObservabilityCreateObjectPath))
    (match ObservabilityCreateObjectReq_Params r with Some q => ObservabilityCreateObjectParams_get q | None => ∅ end)
    (json_body (ObservabilityCreateObjectReq_Body r) (ObservabilityCreateObjectReq_BodyReader r)) (ObservabilityCreateObjectReq_Header r).
Definition ObservabilityCreateObject_Method (r : ObservabilityCreateObjectReq) : string := "POST".
#[export] Instance ObservabilityCreateObject_operation : operation ObservabilityCreateObjectReq :=
  {| op_path := MkPathType "ObservabilityCreateObjectPath" ObservabilityCreateObjectPath _ _; op_P := ObservabilityCreateObjectParams; op_fields r := MkObservabilityCreateObjectPath;
     op_params := ObservabilityCreateObjectReq_Params; op_defaults := None; op_timeout := ObservabilityCreateObjectParams_TimeoutParams; op_debug := ObservabilityCreateObjectParams_DebugParams;
     op_format := None; op_own := ObservabilityCreateObjectParams_own; op_slots := ObservabilityCreateObjectParams_slots;
     op_body r := json_body (ObservabilityCreateObjectReq_Body r) (ObservabilityCreateObjectReq_BodyReader r); op_headers r := ObservabilityCreateObjectReq_Header r;
     Method := ObservabilityCreateObject_Method; GetRequest := ObservabilityCreateObjectReq_GetRequest;
     op_keys := [];
     op_described := [("POST", "/_plugins/_observability/object")];
     op_query := [] |}.
#[export] Instance ObservabilityCreateObject_operates : LawfulOp ObservabilityCreateObjectReq.
Proof. operate. Qed.

Record ObservabilityDeleteObjectParams := MkObservabilityDeleteObjectParams { ObservabilityDeleteObjectParams_TimeoutParams : TimeoutParams; ObservabilityDeleteObjectParams_DebugParams : DebugParams }.
Definition ObservabilityDeleteObjectParams_own (q : ObservabilityDeleteObjectParams) : list param :=
  [].
Definition ObservabilityDeleteObjectParams_slots : list (string * (ObservabilityDeleteObjectParams -> slot)) :=
  [].
Definition ObservabilityDeleteObjectParams_get (q : ObservabilityDeleteObjectParams) : gmap string string :=
  encode_params (EncodeTimeout (ObservabilityDeleteObjectParams_TimeoutParams q) ++ EncodeDebug (ObservabilityDeleteObjectParams_DebugParams q) ++ ObservabilityDeleteObjectParams_own q).
Record ObservabilityDeleteObjectReq := MkObservabilityDeleteObjectReq { ObservabilityDeleteObjectReq_ObjectID : string; ObservabilityDeleteObjectReq_Header : headers;
  ObservabilityDeleteObjectReq_Params : option ObservabilityDeleteObjectParams }.
Definition ObservabilityDeleteObjectReq_GetRequest (r : ObservabilityDeleteObjectReq) (method : string) : request_error + httpRequest * Z :=
  send method (ObservabilityDeleteObjectPath_Build (MkObservabilityDeleteObjectPath (ObservabilityDeleteObjectReq_ObjectID r)))
    (match ObservabilityDeleteObjectReq_Params r with Some q => ObservabilityDeleteObjectParams_get q | None => ∅ end)
    no_body (ObservabilityDeleteObjectReq_Header r).
Definition ObservabilityDeleteObject_Method (r : ObservabilityDeleteObjectReq) : string := "DELETE".
#[export] Instance ObservabilityDeleteObject_operation : operation ObservabilityDeleteObjectReq :=
  {| op_path := MkPathType "ObservabilityDeleteObjectPath" ObservabilityDeleteObjectPath _ _; op_P := ObservabilityDeleteObjectParams; op_fields r := MkObservabilityDeleteObjectPath (ObservabilityDeleteObjectReq_ObjectID r);
     op_params := ObservabilityDeleteObjectReq_Params; op_defaults := None; op_timeout := ObservabilityDeleteObjectParams_TimeoutParams; op_debug := ObservabilityDeleteObjectParams_DebugParams;
     op_format := None; op_own := ObservabilityDeleteObjectParams_own; op_slots := ObservabilityDeleteObjectParams_slots;
     op_body _ := no_body; op_headers r := ObservabilityDeleteObjectReq_Header r;
     Method := ObservabilityDeleteObject_Method; GetRequest := ObservabilityDeleteObjectReq_GetRequest;
     op_keys := [];
     op_described := [("DELETE", "/_plugins/_observability/object/{object_id}")];
     op_query := [] |}.
#[export] Instance ObservabilityDeleteObject_operates : LawfulOp ObservabilityDeleteObjectReq.
Proof. operate. Qed.

Record ObservabilityDeleteObjectsParams := MkObservabilityDeleteObjectsParams { ObservabilityDeleteObjectsParams_TimeoutParams : TimeoutParams; ObservabilityDeleteObjectsParams_DebugParams : DebugParams;
  ObservabilityDeleteObjectsParams_ObjectId : string; ObservabilityDeleteObjectsParams_ObjectIdList : string }.
Definition ObservabilityDeleteObjectsParams_own (q : ObservabilityDeleteObjectsParams) : list param :=
  [("objectId", nonEmpty (ObservabilityDeleteObjectsParams_ObjectId q)); ("objectIdList", nonEmpty (ObservabilityDeleteObjectsParams_ObjectIdList q))].
Definition ObservabilityDeleteObjectsParams_slots : list (string * (ObservabilityDeleteObjectsParams -> slot)) :=
  [("ObjectId", fun q => Text (ObservabilityDeleteObjectsParams_ObjectId q));
  ("ObjectIdList", fun q => Text (ObservabilityDeleteObjectsParams_ObjectIdList q))].
Definition ObservabilityDeleteObjectsParams_get (q : ObservabilityDeleteObjectsParams) : gmap string string :=
  encode_params (EncodeTimeout (ObservabilityDeleteObjectsParams_TimeoutParams q) ++ EncodeDebug (ObservabilityDeleteObjectsParams_DebugParams q) ++ ObservabilityDeleteObjectsParams_own q).
Record ObservabilityDeleteObjectsReq := MkObservabilityDeleteObjectsReq { ObservabilityDeleteObjectsReq_Header : headers; ObservabilityDeleteObjectsReq_Params : option ObservabilityDeleteObjectsParams }.
Definition ObservabilityDeleteObjectsReq_GetRequest (r : ObservabilityDeleteObjectsReq) (method : string) : request_error + httpRequest * Z :=
  send method (ObservabilityDeleteObjectsPath_Build (MkObservabilityDeleteObjectsPath))
    (match ObservabilityDeleteObjectsReq_Params r with Some q => ObservabilityDeleteObjectsParams_get q | None => ∅ end)
    no_body (ObservabilityDeleteObjectsReq_Header r).
Definition ObservabilityDeleteObjects_Method (r : ObservabilityDeleteObjectsReq) : string := "DELETE".
#[export] Instance ObservabilityDeleteObjects_operation : operation ObservabilityDeleteObjectsReq :=
  {| op_path := MkPathType "ObservabilityDeleteObjectsPath" ObservabilityDeleteObjectsPath _ _; op_P := ObservabilityDeleteObjectsParams; op_fields r := MkObservabilityDeleteObjectsPath;
     op_params := ObservabilityDeleteObjectsReq_Params; op_defaults := None; op_timeout := ObservabilityDeleteObjectsParams_TimeoutParams; op_debug := ObservabilityDeleteObjectsParams_DebugParams;
     op_format := None; op_own := ObservabilityDeleteObjectsParams_own; op_slots := ObservabilityDeleteObjectsParams_slots;
     op_body _ := no_body; op_headers r := ObservabilityDeleteObjectsReq_Header r;
     Method := ObservabilityDeleteObjects_Method; GetRequest := ObservabilityDeleteObjectsReq_GetRequest;
     op_keys := ["objectId"; "objectIdList"];
     op_described := [("DELETE", "/_plugins/_observability/object")];
     op_query := ["objectId"; "objectIdList"] |}.
#[export] Instance ObservabilityDeleteObjects_operates : LawfulOp ObservabilityDeleteObjectsReq.
Proof. operate. Qed.

Record ObservabilityGetLocalstatsParams := MkObservabilityGetLocalstatsParams { ObservabilityGetLocalstatsParams_TimeoutParams : TimeoutParams; ObservabilityGetLocalstatsParams_DebugParams : DebugParams }.
Definition ObservabilityGetLocalstatsParams_own (q : ObservabilityGetLocalstatsParams) : list param :=
  [].
Definition ObservabilityGetLocalstatsParams_slots : list (string * (ObservabilityGetLocalstatsParams -> slot)) :=
  [].
Definition ObservabilityGetLocalstatsParams_get (q : ObservabilityGetLocalstatsParams) : gmap string string :=
  encode_params (EncodeTimeout (ObservabilityGetLocalstatsParams_TimeoutParams q) ++ EncodeDebug (ObservabilityGetLocalstatsParams_DebugParams q) ++ ObservabilityGetLocalstatsParams_own q).
Record ObservabilityGetLocalstatsReq := MkObservabilityGetLocalstatsReq { ObservabilityGetLocalstatsReq_Header : headers; ObservabilityGetLocalstatsReq_Params : option ObservabilityGetLocalstatsParams }.
Definition ObservabilityGetLocalstatsReq_GetRequest (r : ObservabilityGetLocalstatsReq) (method : string) : request_error + httpRequest * Z :=
  send method (ObservabilityGetLocalstatsPath_Build (MkObservabilityGetLocalstatsPath))
    (match ObservabilityGetLocalstatsReq_Params r with Some q => ObservabilityGetLocalstatsParams_get q | None => ∅ end)
    no_body (ObservabilityGetLocalstatsReq_Header r).
Definition ObservabilityGetLocalstats_Method (r : ObservabilityGetLocalstatsReq) : string := "GET".
#[export] Instance ObservabilityGetLocalstats_operation : operation ObservabilityGetLocalstatsReq :=
  {| op_path := MkPathType "ObservabilityGetLocalstatsPath" ObservabilityGetLocalstatsPath _ _; op_P := ObservabilityGetLocalstatsParams; op_fields r := MkObservabilityGetLocalstatsPath;
     op_params := ObservabilityGetLocalstatsReq_Params; op_defaults := None; op_timeout := ObservabilityGetLocalstatsParams_TimeoutParams; op_debug := ObservabilityGetLocalstatsParams_DebugParams;
     op_format := None; op_own := ObservabilityGetLocalstatsParams_own; op_slots := ObservabilityGetLocalstatsParams_slots;
     op_body _ := no_body; op_headers r := ObservabilityGetLocalstatsReq_Header r;
     Method := ObservabilityGetLocalstats_Method; GetRequest := ObservabilityGetLocalstatsReq_GetRequest;
     op_keys := [];
     op_described := [("GET", "/_plugins/_observability/_local/stats")];
     op_query := [] |}.
#[export] Instance ObservabilityGetLocalstats_operates : LawfulOp ObservabilityGetLocalstatsReq.
Proof. operate. Qed.

Record ObservabilityGetObjectParams := MkObservabilityGetObjectParams { ObservabilityGetObjectParams_TimeoutParams : TimeoutParams; ObservabilityGetObjectParams_DebugParams : DebugParams }.
Definition ObservabilityGetObjectParams_own (q : ObservabilityGetObjectParams) : list param :=
  [].
Definition ObservabilityGetObjectParams_slots : list (string * (ObservabilityGetObjectParams -> slot)) :=
  [].
Definition ObservabilityGetObjectParams_get (q : ObservabilityGetObjectParams) : gmap string string :=
  encode_params (EncodeTimeout (ObservabilityGetObjectParams_TimeoutParams q) ++ EncodeDebug (ObservabilityGetObjectParams_DebugParams q) ++ ObservabilityGetObjectParams_own q).
Record ObservabilityGetObjectReq := MkObservabilityGetObjectReq { ObservabilityGetObjectReq_ObjectID : string; ObservabilityGetObjectReq_Header : headers;
  ObservabilityGetObjectReq_Params : option ObservabilityGetObjectParams }.
Definition ObservabilityGetObjectReq_GetRequest (r : ObservabilityGetObjectReq) (method : string) : request_error + httpRequest * Z :=
  send method (ObservabilityGetObjectPath_Build (MkObservabilityGetObjectPath (ObservabilityGetObjectReq_ObjectID r)))
    (match ObservabilityGetObjectReq_Params r with Some q => ObservabilityGetObjectParams_get q | None => ∅ end)
    no_body (ObservabilityGetObjectReq_Header r).
Definition ObservabilityGetObject_Method (r : ObservabilityGetObjectReq) : string := "GET".
#[export] Instance ObservabilityGetObject_operation : operation ObservabilityGetObjectReq :=
  {| op_path := MkPathType "ObservabilityGetObjectPath" ObservabilityGetObjectPath _ _; op_P := ObservabilityGetObjectParams; op_fields r := MkObservabilityGetObjectPath (ObservabilityGetObjectReq_ObjectID r);
     op_params := ObservabilityGetObjectReq_Params; op_defaults := None; op_timeout := ObservabilityGetObjectParams_TimeoutParams; op_debug := ObservabilityGetObjectParams_DebugParams;
     op_format := None; op_own := ObservabilityGetObjectParams_own; op_slots := ObservabilityGetObjectParams_slots;
     op_body _ := no_body; op_headers r := ObservabilityGetObjectReq_Header r;
     Method := ObservabilityGetObject_Method; GetRequest := ObservabilityGetObjectReq_GetRequest;
     op_keys := [];
     op_described := [("GET", "/_plugins/_observability/object/{object_id}")];
     op_query := [] |}.
#[export] Instance ObservabilityGetObject_operates : LawfulOp ObservabilityGetObjectReq.
Proof. operate. Qed.

Record ObservabilityListObjectsParams := MkObservabilityListObjectsParams { ObservabilityListObjectsParams_TimeoutParams : TimeoutParams; ObservabilityListObjectsParams_DebugParams : DebugParams }.
Definition ObservabilityListObjectsParams_own (q : ObservabilityListObjectsParams) : list param :=
  [].
Definition ObservabilityListObjectsParams_slots : list (string * (ObservabilityListObjectsParams -> slot)) :=
  [].
Definition ObservabilityListObjectsParams_get (q : ObservabilityListObjectsParams) : gmap string string :=
  encode_params (EncodeTimeout (ObservabilityListObjectsParams_TimeoutParams q) ++ EncodeDebug (ObservabilityListObjectsParams_DebugParams q) ++ ObservabilityListObjectsParams_own q).
Record ObservabilityListObjectsReq := MkObservabilityListObjectsReq { ObservabilityListObjectsReq_Header : headers; ObservabilityListObjectsReq_Params : option ObservabilityListObjectsParams }.
Definition ObservabilityListObjectsReq_GetRequest (r : ObservabilityListObjectsReq) (method : string) : request_error + httpRequest * Z :=
  send method (ObservabilityListObjectsPath_Build (MkObservabilityListObjectsPath))
    (match ObservabilityListObjectsReq_Params r with Some q => ObservabilityListObjectsParams_get q | None => ∅ end)
    no_body (ObservabilityListObjectsReq_Header r).
Definition ObservabilityListObjects_Method (r : ObservabilityListObjectsReq) : string := "GET".
#[export] Instance ObservabilityListObjects_operation : operation ObservabilityListObjectsReq :=
  {| op_path := MkPathType "ObservabilityListObjectsPath" ObservabilityListObjectsPath _ _; op_P := ObservabilityListObjectsParams; op_fields r := MkObservabilityListObjectsPath;
     op_params := ObservabilityListObjectsReq_Params; op_defaults := None; op_timeout := ObservabilityListObjectsParams_TimeoutParams; op_debug := ObservabilityListObjectsParams_DebugParams;
     op_format := None; op_own := ObservabilityListObjectsParams_own; op_slots := ObservabilityListObjectsParams_slots;
     op_body _ := no_body; op_headers r := ObservabilityListObjectsReq_Header r;
     Method := ObservabilityListObjects_Method; GetRequest := ObservabilityListObjectsReq_GetRequest;
     op_keys := [];
     op_described := [("GET", "/_plugins/_observability/object")];
     op_query := [] |}.
#[export] Instance ObservabilityListObjects_operates : LawfulOp ObservabilityListObjectsReq.
Proof. operate. Qed.

Record ObservabilityUpdateObjectParams := MkObservabilityUpdateObjectParams { ObservabilityUpdateObjectParams_TimeoutParams : TimeoutParams; ObservabilityUpdateObjectParams_DebugParams : DebugParams }.
Definition ObservabilityUpdateObjectParams_own (q : ObservabilityUpdateObjectParams) : list param :=
  [].
Definition ObservabilityUpdateObjectParams_slots : list (string * (ObservabilityUpdateObjectParams -> slot)) :=
  [].
Definition ObservabilityUpdateObjectParams_get (q : ObservabilityUpdateObjectParams) : gmap string string :=
  encode_params (EncodeTimeout (ObservabilityUpdateObjectParams_TimeoutParams q) ++ EncodeDebug (ObservabilityUpdateObjectParams_DebugParams q) ++ ObservabilityUpdateObjectParams_own q).
Record ObservabilityUpdateObjectReq := MkObservabilityUpdateObjectReq { ObservabilityUpdateObjectReq_ObjectID : string; ObservabilityUpdateObjectReq_Body : option (option string);
  ObservabilityUpdateObjectReq_BodyReader : reader; ObservabilityUpdateObjectReq_Header : headers;
  ObservabilityUpdateObjectReq_Params : option ObservabilityUpdateObjectParams }.
Definition ObservabilityUpdateObjectReq_GetRequest (r : ObservabilityUpdateObjectReq) (method : string) : request_error + httpRequest * Z :=
  send method (ObservabilityUpdateObjectPath_Build (MkObservabilityUpdateObjectPath (ObservabilityUpdateObjectReq_ObjectID r)))
    (match ObservabilityUpdateObjectReq_Params r with Some q => ObservabilityUpdateObjectParams_get q | None => ∅ end)
    (json_body (ObservabilityUpdateObjectReq_Body r) (ObservabilityUpdateObjectReq_BodyReader r)) (ObservabilityUpdateObjectReq_Header r).
Definition ObservabilityUpdateObject_Method (r : ObservabilityUpdateObjectReq) : string := "PUT".
#[export] Instance ObservabilityUpdateObject_operation : operation ObservabilityUpdateObjectReq :=
  {| op_path := MkPathType "ObservabilityUpdateObjectPath" ObservabilityUpdateObjectPath _ _; op_P := ObservabilityUpdateObjectParams; op_fields r := MkObservabilityUpdateObjectPath (ObservabilityUpdateObjectReq_ObjectID r);
     op_params := ObservabilityUpdateObjectReq_Params; op_defaults := None; op_timeout := ObservabilityUpdateObjectParams_TimeoutParams; op_debug := ObservabilityUpdateObjectParams_DebugParams;
     op_format := None; op_own := ObservabilityUpdateObjectParams_own; op_slots := ObservabilityUpdateObjectParams_slots;
     op_body r := json_body (ObservabilityUpdateObjectReq_Body r) (ObservabilityUpdateObjectReq_BodyReader r); op_headers r := ObservabilityUpdateObjectReq_Header r;
     Method := ObservabilityUpdateObject_Method; GetRequest := ObservabilityUpdateObjectReq_GetRequest;
     op_keys := [];
     op_described := [("PUT", "/_plugins/_observability/object/{object_id}")];
     op_query := [] |}.
#[export] Instance ObservabilityUpdateObject_operates : LawfulOp ObservabilityUpdateObjectReq.
Proof. operate. Qed.

Record PPLExplainParams := MkPPLExplainParams { PPLExplainParams_TimeoutParams : TimeoutParams; PPLExplainParams_DebugParams : DebugParams; PPLExplainParams_Sanitize : option bool }.
Definition PPLExplainParams_own (q : PPLExplainParams) : list param :=
  [("sanitize", boolPtr (PPLExplainParams_Sanitize q))].
Definition PPLExplainParams_slots : list (string * (PPLExplainParams -> slot)) :=
  [("Sanitize", fun q => BoolPtr (PPLExplainParams_Sanitize q))].
Definition PPLExplainParams_get (q : PPLExplainParams) : gmap string string :=
  encode_params (EncodeTimeout (PPLExplainParams_TimeoutParams q) ++ EncodeDebug (PPLExplainParams_DebugParams q) ++ defaultFormat "json" (PPLExplainParams_DebugParams q) ++ PPLExplainParams_own q).
Record PPLExplainReq := MkPPLExplainReq { PPLExplainReq_Body : option (option string); PPLExplainReq_BodyReader : reader; PPLExplainReq_Header : headers;
  PPLExplainReq_Params : option PPLExplainParams }.
Definition PPLExplainReq_GetRequest (r : PPLExplainReq) (method : string) : request_error + httpRequest * Z :=
  send method (PPLExplainPath_Build (MkPPLExplainPath))
    (match PPLExplainReq_Params r with Some q => PPLExplainParams_get q | None => PPLExplainParams_get (MkPPLExplainParams noTimeout noDebug None) end)
    (json_body (PPLExplainReq_Body r) (PPLExplainReq_BodyReader r)) (PPLExplainReq_Header r).
Definition PPLExplain_Method (r : PPLExplainReq) : string := "POST".
#[export] Instance PPLExplain_operation : operation PPLExplainReq :=
  {| op_path := MkPathType "PPLExplainPath" PPLExplainPath _ _; op_P := PPLExplainParams; op_fields r := MkPPLExplainPath;
     op_params := PPLExplainReq_Params; op_defaults := Some (MkPPLExplainParams noTimeout noDebug None); op_timeout := PPLExplainParams_TimeoutParams; op_debug := PPLExplainParams_DebugParams;
     op_format := Some "json"; op_own := PPLExplainParams_own; op_slots := PPLExplainParams_slots;
     op_body r := json_body (PPLExplainReq_Body r) (PPLExplainReq_BodyReader r); op_headers r := PPLExplainReq_Header r;
     Method := PPLExplain_Method; GetRequest := PPLExplainReq_GetRequest;
     op_keys := ["sanitize"];
     op_described := [("POST", "/_plugins/_ppl/_explain")];
     op_query := ["format"; "sanitize"] |}.
#[export] Instance PPLExplain_operates : LawfulOp PPLExplainReq.
Proof. operate. Qed.

Record PPLGetStatsParams := MkPPLGetStatsParams { PPLGetStatsParams_TimeoutParams : TimeoutParams; PPLGetStatsParams_DebugParams : DebugParams; PPLGetStatsParams_Sanitize : option bool }.
Definition PPLGetStatsParams_own (q : PPLGetStatsParams) : list param :=
  [("sanitize", boolPtr (PPLGetStatsParams_Sanitize q))].
Definition PPLGetStatsParams_slots : list (string * (PPLGetStatsParams -> slot)) :=
  [("Sanitize", fun q => BoolPtr (PPLGetStatsParams_Sanitize q))].
Definition PPLGetStatsParams_get (q : PPLGetStatsParams) : gmap string string :=
  encode_params (EncodeTimeout (PPLGetStatsParams_TimeoutParams q) ++ EncodeDebug (PPLGetStatsParams_DebugParams q) ++ defaultFormat "jdbc" (PPLGetStatsParams_DebugParams q) ++ PPLGetStatsParams_own q).
Record PPLGetStatsReq := MkPPLGetStatsReq { PPLGetStatsReq_Header : headers; PPLGetStatsReq_Params : option PPLGetStatsParams }.
Definition PPLGetStatsReq_GetRequest (r : PPLGetStatsReq) (method : string) : request_error + httpRequest * Z :=
  send method (PPLGetStatsPath_Build (MkPPLGetStatsPath))
    (match PPLGetStatsReq_Params r with Some q => PPLGetStatsParams_get q | None => PPLGetStatsParams_get (MkPPLGetStatsParams noTimeout noDebug None) end)
    no_body (PPLGetStatsReq_Header r).
Definition PPLGetStats_Method (r : PPLGetStatsReq) : string := "GET".
#[export] Instance PPLGetStats_operation : operation PPLGetStatsReq :=
  {| op_path := MkPathType "PPLGetStatsPath" PPLGetStatsPath _ _; op_P := PPLGetStatsParams; op_fields r := MkPPLGetStatsPath;
     op_params := PPLGetStatsReq_Params; op_defaults := Some (MkPPLGetStatsParams noTimeout noDebug None); op_timeout := PPLGetStatsParams_TimeoutParams; op_debug := PPLGetStatsParams_DebugParams;
     op_format := Some "jdbc"; op_own := PPLGetStatsParams_own; op_slots := PPLGetStatsParams_slots;
     op_body _ := no_body; op_headers r := PPLGetStatsReq_Header r;
     Method := PPLGetStats_Method; GetRequest := PPLGetStatsReq_GetRequest;
     op_keys := ["sanitize"];
     op_described := [("GET", "/_plugins/_ppl/stats")];
     op_query := ["format"; "sanitize"] |}.
#[export] Instance PPLGetStats_operates : LawfulOp PPLGetStatsReq.
Proof. operate. Qed.

Record PPLPostStatsParams := MkPPLPostStatsParams { PPLPostStatsParams_TimeoutParams : TimeoutParams; PPLPostStatsParams_DebugParams : DebugParams; PPLPostStatsParams_Sanitize : option bool }.
Definition PPLPostStatsParams_own (q : PPLPostStatsParams) : list param :=
  [("sanitize", boolPtr (PPLPostStatsParams_Sanitize q))].
Definition PPLPostStatsParams_slots : list (string * (PPLPostStatsParams -> slot)) :=
  [("Sanitize", fun q => BoolPtr (PPLPostStatsParams_Sanitize q))].
Definition PPLPostStatsParams_get (q : PPLPostStatsParams) : gmap string string :=
  encode_params (EncodeTimeout (PPLPostStatsParams_TimeoutParams q) ++ EncodeDebug (PPLPostStatsParams_DebugParams q) ++ defaultFormat "jdbc" (PPLPostStatsParams_DebugParams q) ++ PPLPostStatsParams_own q).
Record PPLPostStatsReq := MkPPLPostStatsReq { PPLPostStatsReq_Header : headers; PPLPostStatsReq_Params : option PPLPostStatsParams }.
Definition PPLPostStatsReq_GetRequest (r : PPLPostStatsReq) (method : string) : request_error + httpRequest * Z :=
  send method (PPLPostStatsPath_Build (MkPPLPostStatsPath))
    (match PPLPostStatsReq_Params r with Some q => PPLPostStatsParams_get q | None => PPLPostStatsParams_get (MkPPLPostStatsParams noTimeout noDebug None) end)
    no_body (PPLPostStatsReq_Header r).
Definition PPLPostStats_Method (r : PPLPostStatsReq) : string := "POST".
#[export] Instance PPLPostStats_operation : operation PPLPostStatsReq :=
  {| op_path := MkPathType "PPLPostStatsPath" PPLPostStatsPath _ _; op_P := PPLPostStatsParams; op_fields r := MkPPLPostStatsPath;
     op_params := PPLPostStatsReq_Params; op_defaults := Some (MkPPLPostStatsParams noTimeout noDebug None); op_timeout := PPLPostStatsParams_TimeoutParams; op_debug := PPLPostStatsParams_DebugParams;
     op_format := Some "jdbc"; op_own := PPLPostStatsParams_own; op_slots := PPLPostStatsParams_slots;
     op_body _ := no_body; op_headers r := PPLPostStatsReq_Header r;
     Method := PPLPostStats_Method; GetRequest := PPLPostStatsReq_GetRequest;
     op_keys := ["sanitize"];
     op_described := [("POST", "/_plugins/_ppl/stats")];
     op_query := ["format"; "sanitize"] |}.
#[export] Instance PPLPostStats_operates : LawfulOp PPLPostStatsReq.
Proof. operate. Qed.

Record PPLQueryParams := MkPPLQueryParams { PPLQueryParams_TimeoutParams : TimeoutParams; PPLQueryParams_DebugParams : DebugParams; PPLQueryParams_Sanitize : option bool }.
Definition PPLQueryParams_own (q : PPLQueryParams) : list param :=
  [("sanitize", boolPtr (PPLQueryParams_Sanitize q))].
Definition PPLQueryParams_slots : list (string * (PPLQueryParams -> slot)) :=
  [("Sanitize", fun q => BoolPtr (PPLQueryParams_Sanitize q))].
Definition PPLQueryParams_get (q : PPLQueryParams) : gmap string string :=
  encode_params (EncodeTimeout (PPLQueryParams_TimeoutParams q) ++ EncodeDebug (PPLQueryParams_DebugParams q) ++ defaultFormat "jdbc" (PPLQueryParams_DebugParams q) ++ PPLQueryParams_own q).
Record PPLQueryReq := MkPPLQueryReq { PPLQueryReq_Body : option (option string); PPLQueryReq_BodyReader : reader; PPLQueryReq_Header : headers; PPLQueryReq_Params : option PPLQueryParams }.
Definition PPLQueryReq_GetRequest (r : PPLQueryReq) (method : string) : request_error + httpRequest * Z :=
  send method (PPLQueryPath_Build (MkPPLQueryPath))
    (match PPLQueryReq_Params r with Some q => PPLQueryParams_get q | None => PPLQueryParams_get (MkPPLQueryParams noTimeout noDebug None) end)
    (json_body (PPLQueryReq_Body r) (PPLQueryReq_BodyReader r)) (PPLQueryReq_Header r).
Definition PPLQuery_Method (r : PPLQueryReq) : string := "POST".
#[export] Instance PPLQuery_operation : operation PPLQueryReq :=
  {| op_path := MkPathType "PPLQueryPath" PPLQueryPath _ _; op_P := PPLQueryParams; op_fields r := MkPPLQueryPath;
     op_params := PPLQueryReq_Params; op_defaults := Some (MkPPLQueryParams noTimeout noDebug None); op_timeout := PPLQueryParams_TimeoutParams; op_debug := PPLQueryParams_DebugParams;
     op_format := Some "jdbc"; op_own := PPLQueryParams_own; op_slots := PPLQueryParams_slots;
     op_body r := json_body (PPLQueryReq_Body r) (PPLQueryReq_BodyReader r); op_headers r := PPLQueryReq_Header r;
     Method := PPLQuery_Method; GetRequest := PPLQueryReq_GetRequest;
     op_keys := ["sanitize"];
     op_described := [("POST", "/_plugins/_ppl")];
     op_query := ["format"; "sanitize"] |}.
#[export] Instance PPLQuery_operates : LawfulOp PPLQueryReq.
Proof. operate. Qed.

Record QueryDatasourceDeleteParams := MkQueryDatasourceDeleteParams { QueryDatasourceDeleteParams_TimeoutParams : TimeoutParams; QueryDatasourceDeleteParams_DebugParams : DebugParams }.
Definition QueryDatasourceDeleteParams_own (q : QueryDatasourceDeleteParams) : list param :=
  [].
Definition QueryDatasourceDeleteParams_slots : list (string * (QueryDatasourceDeleteParams -> slot)) :=
  [].
Definition QueryDatasourceDeleteParams_get (q : QueryDatasourceDeleteParams) : gmap string string :=
  encode_params (EncodeTimeout (QueryDatasourceDeleteParams_TimeoutParams q) ++ EncodeDebug (QueryDatasourceDeleteParams_DebugParams q) ++ QueryDatasourceDeleteParams_own q).
Record QueryDatasourceDeleteReq := MkQueryDatasourceDeleteReq { QueryDatasourceDeleteReq_DatasourceName : string; QueryDatasourceDeleteReq_Header : headers;
  QueryDatasourceDeleteReq_Params : option QueryDatasourceDeleteParams }.
Definition QueryDatasourceDeleteReq_GetRequest (r : QueryDatasourceDeleteReq) (method : string) : request_error + httpRequest * Z :=
  send method (QueryDatasourceDeletePath_Build (MkQueryDatasourceDeletePath (QueryDatasourceDeleteReq_DatasourceName r)))
    (match QueryDatasourceDeleteReq_Params r with Some q => QueryDatasourceDeleteParams_get q | None => ∅ end)
    no_body (QueryDatasourceDeleteReq_Header r).
Definition QueryDatasourceDelete_Method (r : QueryDatasourceDeleteReq) : string := "DELETE".
#[export] Instance QueryDatasourceDelete_operation : operation QueryDatasourceDeleteReq :=
  {| op_path := MkPathType "QueryDatasourceDeletePath" QueryDatasourceDeletePath _ _; op_P := QueryDatasourceDeleteParams; op_fields r := MkQueryDatasourceDeletePath (QueryDatasourceDeleteReq_DatasourceName r);
     op_params := QueryDatasourceDeleteReq_Params; op_defaults := None; op_timeout := QueryDatasourceDeleteParams_TimeoutParams; op_debug := QueryDatasourceDeleteParams_DebugParams;
     op_format := None; op_own := QueryDatasourceDeleteParams_own; op_slots := QueryDatasourceDeleteParams_slots;
     op_body _ := no_body; op_headers r := QueryDatasourceDeleteReq_Header r;
     Method := QueryDatasourceDelete_Method; GetRequest := QueryDatasourceDeleteReq_GetRequest;
     op_keys := [];
     op_described := [("DELETE", "/_plugins/_query/_datasources/{datasource_name}")];
     op_query := [] |}.
#[export] Instance QueryDatasourceDelete_operates : LawfulOp QueryDatasourceDeleteReq.
Proof. operate. Qed.

Record QueryDatasourceRetrieveParams := MkQueryDatasourceRetrieveParams { QueryDatasourceRetrieveParams_TimeoutParams : TimeoutParams; QueryDatasourceRetrieveParams_DebugParams : DebugParams }.
Definition QueryDatasourceRetrieveParams_own (q : QueryDatasourceRetrieveParams) : list param :=
  [].
Definition QueryDatasourceRetrieveParams_slots : list (string * (QueryDatasourceRetrieveParams -> slot)) :=
  [].
Definition QueryDatasourceRetrieveParams_get (q : QueryDatasourceRetrieveParams) : gmap string string :=
  encode_params (EncodeTimeout (QueryDatasourceRetrieveParams_TimeoutParams q) ++ EncodeDebug (QueryDatasourceRetrieveParams_DebugParams q) ++ QueryDatasourceRetrieveParams_own q).
Record QueryDatasourceRetrieveReq := MkQueryDatasourceRetrieveReq { QueryDatasourceRetrieveReq_DatasourceName : string; QueryDatasourceRetrieveReq_Header : headers;
  QueryDatasourceRetrieveReq_Params : option QueryDatasourceRetrieveParams }.
Definition QueryDatasourceRetrieveReq_GetRequest (r : QueryDatasourceRetrieveReq) (method : string) : request_error + httpRequest * Z :=
  send method (QueryDatasourceRetrievePath_Build (MkQueryDatasourceRetrievePath (QueryDatasourceRetrieveReq_DatasourceName r)))
    (match QueryDatasourceRetrieveReq_Params r with Some q => QueryDatasourceRetrieveParams_get q | None => ∅ end)
    no_body (QueryDatasourceRetrieveReq_Header r).
Definition QueryDatasourceRetrieve_Method (r : QueryDatasourceRetrieveReq) : string := "GET".
#[export] Instance QueryDatasourceRetrieve_operation : operation QueryDatasourceRetrieveReq :=
  {| op_path := MkPathType "QueryDatasourceRetrievePath" QueryDatasourceRetrievePath _ _; op_P := QueryDatasourceRetrieveParams; op_fields r := MkQueryDatasourceRetrievePath (QueryDatasourceRetrieveReq_DatasourceName r);
     op_params := QueryDatasourceRetrieveReq_Params; op_defaults := None; op_timeout := QueryDatasourceRetrieveParams_TimeoutParams; op_debug := QueryDatasourceRetrieveParams_DebugParams;
     op_format := None; op_own := QueryDatasourceRetrieveParams_own; op_slots := QueryDatasourceRetrieveParams_slots;
     op_body _ := no_body; op_headers r := QueryDatasourceRetrieveReq_Header r;
     Method := QueryDatasourceRetrieve_Method; GetRequest := QueryDatasourceRetrieveReq_GetRequest;
     op_keys := [];
     op_described := [("GET", "/_plugins/_query/_datasources/{datasource_name}")];
     op_query := [] |}.
#[export] Instance QueryDatasourceRetrieve_operates : LawfulOp QueryDatasourceRetrieveReq.
Proof. operate. Qed.

Record QueryDatasourcesCreateParams := MkQueryDatasourcesCreateParams { QueryDatasourcesCreateParams_TimeoutParams : TimeoutParams; QueryDatasourcesCreateParams_DebugParams : DebugParams }.
Definition QueryDatasourcesCreateParams_own (q : QueryDatasourcesCreateParams) : list param :=
  [].
Definition QueryDatasourcesCreateParams_slots : list (string * (QueryDatasourcesCreateParams -> slot)) :=
  [].
Definition QueryDatasourcesCreateParams_get (q : QueryDatasourcesCreateParams) : gmap string string :=
  encode_params (EncodeTimeout (QueryDatasourcesCreateParams_TimeoutParams q) ++ EncodeDebug (QueryDatasourcesCreateParams_DebugParams q) ++ QueryDatasourcesCreateParams_own q).
Record QueryDatasourcesCreateReq := MkQueryDatasourcesCreateReq { QueryDatasourcesCreateReq_Body : option (option string); QueryDatasourcesCreateReq_BodyReader : reader; QueryDatasourcesCreateReq_Header : headers;
  QueryDatasourcesCreateReq_Params : option QueryDatasourcesCreateParams }.
Definition QueryDatasourcesCreateReq_GetRequest (r : QueryDatasourcesCreateReq) (method : string) : request_error + httpRequest * Z :=
  send method (QueryDatasourcesCreatePath_Build (MkQueryDatasourcesCreatePath))
    (match QueryDatasourcesCreateReq_Params r with Some q => QueryDatasourcesCreateParams_get q | None => ∅ end)
    (json_body (QueryDatasourcesCreateReq_Body r) (QueryDatasourcesCreateReq_BodyReader r)) (QueryDatasourcesCreateReq_Header r).
Definition QueryDatasourcesCreate_Method (r : QueryDatasourcesCreateReq) : string := "POST".
#[export] Instance QueryDatasourcesCreate_operation : operation QueryDatasourcesCreateReq :=
  {| op_path := MkPathType "QueryDatasourcesCreatePath" QueryDatasourcesCreatePath _ _; op_P := QueryDatasourcesCreateParams; op_fields r := MkQueryDatasourcesCreatePath;
     op_params := QueryDatasourcesCreateReq_Params; op_defaults := None; op_timeout := QueryDatasourcesCreateParams_TimeoutParams; op_debug := QueryDatasourcesCreateParams_DebugParams;
     op_format := None; op_own := QueryDatasourcesCreateParams_own; op_slots := QueryDatasourcesCreateParams_slots;
     op_body r := json_body (QueryDatasourcesCreateReq_Body r) (QueryDatasourcesCreateReq_BodyReader r); op_headers r := QueryDatasourcesCreateReq_Header r;
     Method := QueryDatasourcesCreate_Method; GetRequest := QueryDatasourcesCreateReq_GetRequest;
     op_keys := [];
     op_described := [("POST", "/_plugins/_query/_datasources")];
     op_query := [] |}.
#[export] Instance QueryDatasourcesCreate_operates : LawfulOp QueryDatasourcesCreateReq.
Proof. operate. Qed.

Record QueryDatasourcesListParams := MkQueryDatasourcesListParams { QueryDatasourcesListParams_TimeoutParams : TimeoutParams; QueryDatasourcesListParams_DebugParams : DebugParams }.
Definition QueryDatasourcesListParams_own (q : QueryDatasourcesListParams) : list param :=
  [].
Definition QueryDatasourcesListParams_slots : list (string * (QueryDatasourcesListParams -> slot)) :=
  [].
Definition QueryDatasourcesListParams_get (q : QueryDatasourcesListParams) : gmap string string :=
  encode_params (EncodeTimeout (QueryDatasourcesListParams_TimeoutParams q) ++ EncodeDebug (QueryDatasourcesListParams_DebugParams q) ++ QueryDatasourcesListParams_own q).
Record QueryDatasourcesListReq := MkQueryDatasourcesListReq { QueryDatasourcesListReq_Header : headers; QueryDatasourcesListReq_Params : option QueryDatasourcesListParams }.
Definition QueryDatasourcesListReq_GetRequest (r : QueryDatasourcesListReq) (method : string) : request_error + httpRequest * Z :=
  send method (QueryDatasourcesListPath_Build (MkQueryDatasourcesListPath))
    (match QueryDatasourcesListReq_Params r with Some q => QueryDatasourcesListParams_get q | None => ∅ end)
    no_body (QueryDatasourcesListReq_Header r).
Definition QueryDatasourcesList_Method (r : QueryDatasourcesListReq) : string := "GET".
#[export] Instance QueryDatasourcesList_operation : operation QueryDatasourcesListReq :=
  {| op_path := MkPathType "QueryDatasourcesListPath" QueryDatasourcesListPath _ _; op_P := QueryDatasourcesListParams; op_fields r := MkQueryDatasourcesListPath;
     op_params := QueryDatasourcesListReq_Params; op_defaults := None; op_timeout := QueryDatasourcesListParams_TimeoutParams; op_debug := QueryDatasourcesListParams_DebugParams;
     op_format := None; op_own := QueryDatasourcesListParams_own; op_slots := QueryDatasourcesListParams_slots;
     op_body _ := no_body; op_headers r := QueryDatasourcesListReq_Header r;
     Method := QueryDatasourcesList_Method; GetRequest := QueryDatasourcesListReq_GetRequest;
     op_keys := [];
     op_described := [("GET", "/_plugins/_query/_datasources")];
     op_query := [] |}.
#[export] Instance QueryDatasourcesList_operates : LawfulOp QueryDatasourcesListReq.
Proof. operate. Qed.

Record QueryDatasourcesUpdateParams := MkQueryDatasourcesUpdateParams { QueryDatasourcesUpdateParams_TimeoutParams : TimeoutParams; QueryDatasourcesUpdateParams_DebugParams : DebugParams }.
Definition QueryDatasourcesUpdateParams_own (q : QueryDatasourcesUpdateParams) : list param :=
  [].
Definition QueryDatasourcesUpdateParams_slots : list (string * (QueryDatasourcesUpdateParams -> slot)) :=
  [].
Definition QueryDatasourcesUpdateParams_get (q : QueryDatasourcesUpdateParams) : gmap string string :=
  encode_params (EncodeTimeout (QueryDatasourcesUpdateParams_TimeoutParams q) ++ EncodeDebug (QueryDatasourcesUpdateParams_DebugParams q) ++ QueryDatasourcesUpdateParams_own q).
Record QueryDatasourcesUpdateReq := MkQueryDatasourcesUpdateReq { QueryDatasourcesUpdateReq_Body : option (option string); QueryDatasourcesUpdateReq_BodyReader : reader; QueryDatasourcesUpdateReq_Header : headers;
  QueryDatasourcesUpdateReq_Params : option QueryDatasourcesUpdateParams }.
Definition QueryDatasourcesUpdateReq_GetRequest (r : QueryDatasourcesUpdateReq) (method : string) : request_error + httpRequest * Z :=
  send method (QueryDatasourcesUpdatePath_Build (MkQueryDatasourcesUpdatePath))
    (match QueryDatasourcesUpdateReq_Params r with Some q => QueryDatasourcesUpdateParams_get q | None => ∅ end)
    (json_body (QueryDatasourcesUpdateReq_Body r) (QueryDatasourcesUpdateReq_BodyReader r)) (QueryDatasourcesUpdateReq_Header r).
Definition QueryDatasourcesUpdate_Method (r : QueryDatasourcesUpdateReq) : string := "PUT".
#[export] Instance QueryDatasourcesUpdate_operation : operation QueryDatasourcesUpdateReq :=
  {| op_path := MkPathType "QueryDatasourcesUpdatePath" QueryDatasourcesUpdatePath _ _; op_P := QueryDatasourcesUpdateParams; op_fields r := MkQueryDatasourcesUpdatePath;
     op_params := QueryDatasourcesUpdateReq_Params; op_defaults := None; op_timeout := QueryDatasourcesUpdateParams_TimeoutParams; op_debug := QueryDatasourcesUpdateParams_DebugParams;
     op_format := None; op_own := QueryDatasourcesUpdateParams_own; op_slots := QueryDatasourcesUpdateParams_slots;
     op_body r := json_body (QueryDatasourcesUpdateReq_Body r) (QueryDatasourcesUpdateReq_BodyReader r); op_headers r := QueryDatasourcesUpdateReq_Header r;
     Method := QueryDatasourcesUpdate_Method; GetRequest := QueryDatasourcesUpdateReq_GetRequest;
     op_keys := [];
     op_described := [("PUT", "/_plugins/_query/_datasources")];
     op_query := [] |}.
#[export] Instance QueryDatasourcesUpdate_operates : LawfulOp QueryDatasourcesUpdateReq.
Proof. operate. Qed.

Record SQLCloseParams := MkSQLCloseParams { SQLCloseParams_TimeoutParams : TimeoutParams; SQLCloseParams_DebugParams : DebugParams; SQLCloseParams_Sanitize : option bool }.
Definition SQLCloseParams_own (q : SQLCloseParams) : list param :=
  [("sanitize", boolPtr (SQLCloseParams_Sanitize q))].
Definition SQLCloseParams_slots : list (string * (SQLCloseParams -> slot)) :=
  [("Sanitize", fun q => BoolPtr (SQLCloseParams_Sanitize q))].
Definition SQLCloseParams_get (q : SQLCloseParams) : gmap string string :=
  encode_params (EncodeTimeout (SQLCloseParams_TimeoutParams q) ++ EncodeDebug (SQLCloseParams_DebugParams q) ++ defaultFormat "jdbc" (SQLCloseParams_DebugParams q) ++ SQLCloseParams_own q).
Record SQLCloseReq := MkSQLCloseReq { SQLCloseReq_Body : option (option string); SQLCloseReq_BodyReader : reader; SQLCloseReq_Header : headers; SQLCloseReq_Params : option SQLCloseParams }.
Definition SQLCloseReq_GetRequest (r : SQLCloseReq) (method : string) : request_error + httpRequest * Z :=
  send method (SQLClosePath_Build (MkSQLClosePath))
    (match SQLCloseReq_Params r with Some q => SQLCloseParams_get q | None => SQLCloseParams_get (MkSQLCloseParams noTimeout noDebug None) end)
    (json_body (SQLCloseReq_Body r) (SQLCloseReq_BodyReader r)) (SQLCloseReq_Header r).
Definition SQLClose_Method (r : SQLCloseReq) : string := "POST".
#[export] Instance SQLClose_operation : operation SQLCloseReq :=
  {| op_path := MkPathType "SQLClosePath" SQLClosePath _ _; op_P := SQLCloseParams; op_fields r := MkSQLClosePath;
     op_params := SQLCloseReq_Params; op_defaults := Some (MkSQLCloseParams noTimeout noDebug None); op_timeout := SQLCloseParams_TimeoutParams; op_debug := SQLCloseParams_DebugParams;
     op_format := Some "jdbc"; op_own := SQLCloseParams_own; op_slots := SQLCloseParams_slots;
     op_body r := json_body (SQLCloseReq_Body r) (SQLCloseReq_BodyReader r); op_headers r := SQLCloseReq_Header r;
     Method := SQLClose_Method; GetRequest := SQLCloseReq_GetRequest;
     op_keys := ["sanitize"];
     op_described := [("POST", "/_plugins/_sql/close")];
     op_query := ["format"; "sanitize"] |}.
#[export] Instance SQLClose_operates : LawfulOp SQLCloseReq.
Proof. operate. Qed.

Record SQLExplainParams := MkSQLExplainParams { SQLExplainParams_TimeoutParams : TimeoutParams; SQLExplainParams_DebugParams : DebugParams; SQLExplainParams_Sanitize : option bool }.
Definition SQLExplainParams_own (q : SQLExplainParams) : list param :=
  [("sanitize", boolPtr (SQLExplainParams_Sanitize q))].
Definition SQLExplainParams_slots : list (string * (SQLExplainParams -> slot)) :=
  [("Sanitize", fun q => BoolPtr (SQLExplainParams_Sanitize q))].
Definition SQLExplainParams_get (q : SQLExplainParams) : gmap string string :=
  encode_params (EncodeTimeout (SQLExplainParams_TimeoutParams q) ++ EncodeDebug (SQLExplainParams_DebugParams q) ++ defaultFormat "json" (SQLExplainParams_DebugParams q) ++ SQLExplainParams_own q).
Record SQLExplainReq := MkSQLExplainReq { SQLExplainReq_Body : option (option string); SQLExplainReq_BodyReader : reader; SQLExplainReq_Header : headers;
  SQLExplainReq_Params : option SQLExplainParams }.
Definition SQLExplainReq_GetRequest (r : SQLExplainReq) (method : string) : request_error + httpRequest * Z :=
  send method (SQLExplainPath_Build (MkSQLExplainPath))
    (match SQLExplainReq_Params r with Some q => SQLExplainParams_get q | None => SQLExplainParams_get (MkSQLExplainParams noTimeout noDebug None) end)
    (json_body (SQLExplainReq_Body r) (SQLExplainReq_BodyReader r)) (SQLExplainReq_Header r).
Definition SQLExplain_Method (r : SQLExplainReq) : string := "POST".
#[export] Instance SQLExplain_operation : operation SQLExplainReq :=
  {| op_path := MkPathType "SQLExplainPath" SQLExplainPath _ _; op_P := SQLExplainParams; op_fields r := MkSQLExplainPath;
     op_params := SQLExplainReq_Params; op_defaults := Some (MkSQLExplainParams noTimeout noDebug None); op_timeout := SQLExplainParams_TimeoutParams; op_debug := SQLExplainParams_DebugParams;
     op_format := Some "json"; op_own := SQLExplainParams_own; op_slots := SQLExplainParams_slots;
     op_body r := json_body (SQLExplainReq_Body r) (SQLExplainReq_BodyReader r); op_headers r := SQLExplainReq_Header r;
     Method := SQLExplain_Method; GetRequest := SQLExplainReq_GetRequest;
     op_keys := ["sanitize"];
     op_described := [("POST", "/_plugins/_sql/_explain")];
     op_query := ["format"; "sanitize"] |}.
#[export] Instance SQLExplain_operates : LawfulOp SQLExplainReq.
Proof. operate. Qed.

Record SQLGetStatsParams := MkSQLGetStatsParams { SQLGetStatsParams_TimeoutParams : TimeoutParams; SQLGetStatsParams_DebugParams : DebugParams; SQLGetStatsParams_Sanitize : option bool }.
Definition SQLGetStatsParams_own (q : SQLGetStatsParams) : list param :=
  [("sanitize", boolPtr (SQLGetStatsParams_Sanitize q))].
Definition SQLGetStatsParams_slots : list (string * (SQLGetStatsParams -> slot)) :=
  [("Sanitize", fun q => BoolPtr (SQLGetStatsParams_Sanitize q))].
Definition SQLGetStatsParams_get (q : SQLGetStatsParams) : gmap string string :=
  encode_params (EncodeTimeout (SQLGetStatsParams_TimeoutParams q) ++ EncodeDebug (SQLGetStatsParams_DebugParams q) ++ defaultFormat "jdbc" (SQLGetStatsParams_DebugParams q) ++ SQLGetStatsParams_own q).
Record SQLGetStatsReq := MkSQLGetStatsReq { SQLGetStatsReq_Header : headers; SQLGetStatsReq_Params : option SQLGetStatsParams }.
Definition SQLGetStatsReq_GetRequest (r : SQLGetStatsReq) (method : string) : request_error + httpRequest * Z :=
  send method (SQLGetStatsPath_Build (MkSQLGetStatsPath))
    (match SQLGetStatsReq_Params r with Some q => SQLGetStatsParams_get q | None => SQLGetStatsParams_get (MkSQLGetStatsParams noTimeout noDebug None) end)
    no_body (SQLGetStatsReq_Header r).
Definition SQLGetStats_Method (r : SQLGetStatsReq) : string := "GET".
#[export] Instance SQLGetStats_operation : operation SQLGetStatsReq :=
  {| op_path := MkPathType "SQLGetStatsPath" SQLGetStatsPath _ _; op_P := SQLGetStatsParams; op_fields r := MkSQLGetStatsPath;
     op_params := SQLGetStatsReq_Params; op_defaults := Some (MkSQLGetStatsParams noTimeout noDebug None); op_timeout := SQLGetStatsParams_TimeoutParams; op_debug := SQLGetStatsParams_DebugParams;
     op_format := Some "jdbc"; op_own := SQLGetStatsParams_own; op_slots := SQLGetStatsParams_slots;
     op_body _ := no_body; op_headers r := SQLGetStatsReq_Header r;
     Method := SQLGetStats_Method; GetRequest := SQLGetStatsReq_GetRequest;
     op_keys := ["sanitize"];
     op_described := [("GET", "/_plugins/_sql/stats")];
     op_query := ["format"; "sanitize"] |}.
#[export] Instance SQLGetStats_operates : LawfulOp SQLGetStatsReq.
Proof. operate. Qed.

Record SQLPostStatsParams := MkSQLPostStatsParams { SQLPostStatsParams_TimeoutParams : TimeoutParams; SQLPostStatsParams_DebugParams : DebugParams; SQLPostStatsParams_Sanitize : option bool }.
Definition SQLPostStatsParams_own (q : SQLPostStatsParams) : list param :=
  [("sanitize", boolPtr (SQLPostStatsParams_Sanitize q))].
Definition SQLPostStatsParams_slots : list (string * (SQLPostStatsParams -> slot)) :=
  [("Sanitize", fun q => BoolPtr (SQLPostStatsParams_Sanitize q))].
Definition SQLPostStatsParams_get (q : SQLPostStatsParams) : gmap string string :=
  encode_params (EncodeTimeout (SQLPostStatsParams_TimeoutParams q) ++ EncodeDebug (SQLPostStatsParams_DebugParams q) ++ defaultFormat "jdbc" (SQLPostStatsParams_DebugParams q) ++ SQLPostStatsParams_own q).
Record SQLPostStatsReq := MkSQLPostStatsReq { SQLPostStatsReq_Header : headers; SQLPostStatsReq_Params : option SQLPostStatsParams }.
Definition SQLPostStatsReq_GetRequest (r : SQLPostStatsReq) (method : string) : request_error + httpRequest * Z :=
  send method (SQLPostStatsPath_Build (MkSQLPostStatsPath))
    (match SQLPostStatsReq_Params r with Some q => SQLPostStatsParams_get q | None => SQLPostStatsParams_get (MkSQLPostStatsParams noTimeout noDebug None) end)
    no_body (SQLPostStatsReq_Header r).
Definition SQLPostStats_Method (r : SQLPostStatsReq) : string := "POST".
#[export] Instance SQLPostStats_operation : operation SQLPostStatsReq :=
  {| op_path := MkPathType "SQLPostStatsPath" SQLPostStatsPath _ _; op_P := SQLPostStatsParams; op_fields r := MkSQLPostStatsPath;
     op_params := SQLPostStatsReq_Params; op_defaults := Some (MkSQLPostStatsParams noTimeout noDebug None); op_timeout := SQLPostStatsParams_TimeoutParams; op_debug := SQLPostStatsParams_DebugParams;
     op_format := Some "jdbc"; op_own := SQLPostStatsParams_own; op_slots := SQLPostStatsParams_slots;
     op_body _ := no_body; op_headers r := SQLPostStatsReq_Header r;
     Method := SQLPostStats_Method; GetRequest := SQLPostStatsReq_GetRequest;
     op_keys := ["sanitize"];
     op_described := [("POST", "/_plugins/_sql/stats")];
     op_query := ["format"; "sanitize"] |}.
#[export] Instance SQLPostStats_operates : LawfulOp SQLPostStatsReq.
Proof. operate. Qed.

Record SQLQueryParams := MkSQLQueryParams { SQLQueryParams_TimeoutParams : TimeoutParams; SQLQueryParams_DebugParams : DebugParams; SQLQueryParams_Sanitize : option bool }.
Definition SQLQueryParams_own (q : SQLQueryParams) : list param :=
  [("sanitize", boolPtr (SQLQueryParams_Sanitize q))].
Definition SQLQueryParams_slots : list (string * (SQLQueryParams -> slot)) :=
  [("Sanitize", fun q => BoolPtr (SQLQueryParams_Sanitize q))].
Definition SQLQueryParams_get (q : SQLQueryParams) : gmap string string :=
  encode_params (EncodeTimeout (SQLQueryParams_TimeoutParams q) ++ EncodeDebug (SQLQueryParams_DebugParams q) ++ defaultFormat "jdbc" (SQLQueryParams_DebugParams q) ++ SQLQueryParams_own q).
Record SQLQueryReq := MkSQLQueryReq { SQLQueryReq_Body : option (option string); SQLQueryReq_BodyReader : reader; SQLQueryReq_Header : headers; SQLQueryReq_Params : option SQLQueryParams }.
Definition SQLQueryReq_GetRequest (r : SQLQueryReq) (method : string) : request_error + httpRequest * Z :=
  send method (SQLQueryPath_Build (MkSQLQueryPath))
    (match SQLQueryReq_Params r with Some q => SQLQueryParams_get q | None => SQLQueryParams_get (MkSQLQueryParams noTimeout noDebug None) end)
    (json_body (SQLQueryReq_Body r) (SQLQueryReq_BodyReader r)) (SQLQueryReq_Header r).
Definition SQLQuery_Method (r : SQLQueryReq) : string := "POST".
#[export] Instance SQLQuery_operation : operation SQLQueryReq :=
  {| op_path := MkPathType "SQLQueryPath" SQLQueryPath _ _; op_P := SQLQueryParams; op_fields r := MkSQLQueryPath;
     op_params := SQLQueryReq_Params; op_defaults := Some (MkSQLQueryParams noTimeout noDebug None); op_timeout := SQLQueryParams_TimeoutParams; op_debug := SQLQueryParams_DebugParams;
     op_format := Some "jdbc"; op_own := SQLQueryParams_own; op_slots := SQLQueryParams_slots;
     op_body r := json_body (SQLQueryReq_Body r) (SQLQueryReq_BodyReader r); op_headers r := SQLQueryReq_Header r;
     Method := SQLQuery_Method; GetRequest := SQLQueryReq_GetRequest;
     op_keys := ["sanitize"];
     op_described := [("POST", "/_plugins/_sql")];
     op_query := ["format"; "sanitize"] |}.
#[export] Instance SQLQuery_operates : LawfulOp SQLQueryReq.
Proof. operate. Qed.

Record SQLSettingsParams := MkSQLSettingsParams { SQLSettingsParams_TimeoutParams : TimeoutParams; SQLSettingsParams_DebugParams : DebugParams }.
Definition SQLSettingsParams_own (q : SQLSettingsParams) : list param :=
  [].
Definition SQLSettingsParams_slots : list (string * (SQLSettingsParams -> slot)) :=
  [].
Definition SQLSettingsParams_get (q : SQLSettingsParams) : gmap string string :=
  encode_params (EncodeTimeout (SQLSettingsParams_TimeoutParams q) ++ EncodeDebug (SQLSettingsParams_DebugParams q) ++ defaultFormat "jdbc" (SQLSettingsParams_DebugParams q) ++ SQLSettingsParams_own q).
Record SQLSettingsReq := MkSQLSettingsReq { SQLSettingsReq_Body : reader; SQLSettingsReq_Header : headers; SQLSettingsReq_Params : option SQLSettingsParams }.
Definition SQLSettingsReq_GetRequest (r : SQLSettingsReq) (method : string) : request_error + httpRequest * Z :=
  send method (SQLSettingsPath_Build (MkSQLSettingsPath))
    (match SQLSettingsReq_Params r with Some q => SQLSettingsParams_get q | None => SQLSettingsParams_get (MkSQLSettingsParams noTimeout noDebug) end)
    (raw_body (SQLSettingsReq_Body r)) (SQLSettingsReq_Header r).
Definition SQLSettings_Method (r : SQLSettingsReq) : string := "PUT".
#[export] Instance SQLSettings_operation : operation SQLSettingsReq :=
  {| op_path := MkPathType "SQLSettingsPath" SQLSettingsPath _ _; op_P := SQLSettingsParams; op_fields r := MkSQLSettingsPath;
     op_params := SQLSettingsReq_Params; op_defaults := Some (MkSQLSettingsParams noTimeout noDebug); op_timeout := SQLSettingsParams_TimeoutParams; op_debug := SQLSettingsParams_DebugParams;
     op_format := Some "jdbc"; op_own := SQLSettingsParams_own; op_slots := SQLSettingsParams_slots;
     op_body r := raw_body (SQLSettingsReq_Body r); op_headers r := SQLSettingsReq_Header r;
     Method := SQLSettings_Method; GetRequest := SQLSettingsReq_GetRequest;
     op_keys := [];
     op_described := [("PUT", "/_plugins/_query/settings")];
     op_query := ["format"] |}.
#[export] Instance SQLSettings_operates : LawfulOp SQLSettingsReq.
Proof. operate. Qed.

Record UBIInitializeParams := MkUBIInitializeParams { UBIInitializeParams_TimeoutParams : TimeoutParams; UBIInitializeParams_DebugParams : DebugParams }.
Definition UBIInitializeParams_own (q : UBIInitializeParams) : list param :=
  [].
Definition UBIInitializeParams_slots : list (string * (UBIInitializeParams -> slot)) :=
  [].
Definition UBIInitializeParams_get (q : UBIInitializeParams) : gmap string string :=
  encode_params (EncodeTimeout (UBIInitializeParams_TimeoutParams q) ++ EncodeDebug (UBIInitializeParams_DebugParams q) ++ UBIInitializeParams_own q).
Record UBIInitializeReq := MkUBIInitializeReq { UBIInitializeReq_Header : headers; UBIInitializeReq_Params : option UBIInitializeParams }.
Definition UBIInitializeReq_GetRequest (r : UBIInitializeReq) (method : string) : request_error + httpRequest * Z :=
  send method (UBIInitializePath_Build (MkUBIInitializePath))
    (match UBIInitializeReq_Params r with Some q => UBIInitializeParams_get q | None => ∅ end)
    no_body (UBIInitializeReq_Header r).
Definition UBIInitialize_Method (r : UBIInitializeReq) : string := "POST".
#[export] Instance UBIInitialize_operation : operation UBIInitializeReq :=
  {| op_path := MkPathType "UBIInitializePath" UBIInitializePath _ _; op_P := UBIInitializeParams; op_fields r := MkUBIInitializePath;
     op_params := UBIInitializeReq_Params; op_defaults := None; op_timeout := UBIInitializeParams_TimeoutParams; op_debug := UBIInitializeParams_DebugParams;
     op_format := None; op_own := UBIInitializeParams_own; op_slots := UBIInitializeParams_slots;
     op_body _ := no_body; op_headers r := UBIInitializeReq_Header r;
     Method := UBIInitialize_Method; GetRequest := UBIInitializeReq_GetRequest;
     op_keys := [];
     op_described := [("POST", "/_plugins/ubi/initialize")];
     op_query := [] |}.
#[export] Instance UBIInitialize_operates : LawfulOp UBIInitializeReq.
Proof. operate. Qed.

(** All of them. *)
Definition apiPlugins : list operation_type :=
  [MkOperationType "AsynchronousSearchDelete" AsynchronousSearchDeleteReq _ _; MkOperationType "AsynchronousSearchGet" AsynchronousSearchGetReq _ _;
   MkOperationType "AsynchronousSearchSearch" AsynchronousSearchSearchReq _ _; MkOperationType "AsynchronousSearchStats" AsynchronousSearchStatsReq _ _;
   MkOperationType "GeospatialDeleteIP2GeoDatasource" GeospatialDeleteIP2GeoDatasourceReq _ _; MkOperationType "GeospatialGeojsonUploadPost" GeospatialGeojsonUploadPostReq _ _;
   MkOperationType "GeospatialGeojsonUploadPut" GeospatialGeojsonUploadPutReq _ _; MkOperationType "GeospatialGetIP2GeoDatasource" GeospatialGetIP2GeoDatasourceReq _ _;
   MkOperationType "GeospatialGetUploadStats" GeospatialGetUploadStatsReq _ _; MkOperationType "GeospatialPutIP2GeoDatasource" GeospatialPutIP2GeoDatasourceReq _ _;
   MkOperationType "GeospatialPutIP2GeoDatasourceSettings" GeospatialPutIP2GeoDatasourceSettingsReq _ _; MkOperationType "NotificationsCreateConfig" NotificationsCreateConfigReq _ _;
   MkOperationType "NotificationsDeleteConfig" NotificationsDeleteConfigReq _ _; MkOperationType "NotificationsDeleteConfigs" NotificationsDeleteConfigsReq _ _;
   MkOperationType "NotificationsGetConfig" NotificationsGetConfigReq _ _; MkOperationType "NotificationsGetConfigs" NotificationsGetConfigsReq _ _;
   MkOperationType "NotificationsListChannels" NotificationsListChannelsReq _ _; MkOperationType "NotificationsListFeatures" NotificationsListFeaturesReq _ _;
   MkOperationType "NotificationsSendTest" NotificationsSendTestReq _ _; MkOperationType "NotificationsUpdateConfig" NotificationsUpdateConfigReq _ _;
   MkOperationType "ObservabilityCreateObject" ObservabilityCreateObjectReq _ _; MkOperationType "ObservabilityDeleteObject" ObservabilityDeleteObjectReq _ _;
   MkOperationType "ObservabilityDeleteObjects" ObservabilityDeleteObjectsReq _ _; MkOperationType "ObservabilityGetLocalstats" ObservabilityGetLocalstatsReq _ _;
   MkOperationType "ObservabilityGetObject" ObservabilityGetObjectReq _ _; MkOperationType "ObservabilityListObjects" ObservabilityListObjectsReq _ _;
   MkOperationType "ObservabilityUpdateObject" ObservabilityUpdateObjectReq _ _; MkOperationType "PPLExplain" PPLExplainReq _ _;
   MkOperationType "PPLGetStats" PPLGetStatsReq _ _; MkOperationType "PPLPostStats" PPLPostStatsReq _ _;
   MkOperationType "PPLQuery" PPLQueryReq _ _; MkOperationType "QueryDatasourceDelete" QueryDatasourceDeleteReq _ _;
   MkOperationType "QueryDatasourceRetrieve" QueryDatasourceRetrieveReq _ _; MkOperationType "QueryDatasourcesCreate" QueryDatasourcesCreateReq _ _;
   MkOperationType "QueryDatasourcesList" QueryDatasourcesListReq _ _; MkOperationType "QueryDatasourcesUpdate" QueryDatasourcesUpdateReq _ _;
   MkOperationType "SQLClose" SQLCloseReq _ _; MkOperationType "SQLExplain" SQLExplainReq _ _;
   MkOperationType "SQLGetStats" SQLGetStatsReq _ _; MkOperationType "SQLPostStats" SQLPostStatsReq _ _;
   MkOperationType "SQLQuery" SQLQueryReq _ _; MkOperationType "SQLSettings" SQLSettingsReq _ _;
   MkOperationType "UBIInitialize" UBIInitializeReq _ _].
