(* ===== verification/ApiSpec.v ===== *)
(** * What the typed API sends

    The request types of ApiDocs.v to ApiPlugins.v together, against the API
    description: methods, paths, query parameters and errors. *)

From Stdlib Require Import ZArith Lia Ascii String.
From stdpp Require Import base gmap list strings sorting.
From S2P Require Import Prelude.
From S2P Require Import GoStrings.
From S2P Require Import Paths.
From S2P Require Import Stream.
From S2P Require Import ShardRouting.
From S2P Require Import PathsCore.
From S2P Require Import PathSpec.
From S2P Require Import ReqBuild.
From S2P Require Import ApiRequest.
From S2P Require Import ApiDocs.
From S2P Require Import ApiCluster.
From S2P Require Import ApiIndices.
From S2P Require Import ApiLifecycle.
From S2P Require Import ApiSecurity.
From S2P Require Import ApiML.
From S2P Require Import ApiRanking.
From S2P Require Import ApiPlugins.
Open Scope list_scope.

Definition operations : list operation_type :=
  apiDocs ++ apiCluster ++ apiIndices ++ apiLifecycle ++ apiSecurity ++ apiML ++ apiRanking ++ apiPlugins.

(** * The map of parameters *)

(** No parameter is written with two values. *)
Definition unambiguous (l : list param) : Prop := forall k v v', (k, Some v) ∈ l -> (k, Some v') ∈ l -> v = v'.

Lemma encode_snoc l p : encode_params (l ++ [p]) = set_param (encode_params l) p.
Proof. unfold encode_params. by rewrite fold_left_app. Qed.

Lemma encode_lookup l k v : unambiguous l -> encode_params l !! k = Some v <-> (k, Some v) ∈ l.
Proof.
  induction l as [|[k' o] l IH] using rev_ind; intros Hu.
  - split; [done|]. intros []%elem_of_nil.
  - rewrite encode_snoc, elem_of_app, list_elem_of_singleton. unfold set_param. cbn [fst snd].
    assert (Hl : unambiguous l) by (intros x y z Hy Hz; apply (Hu x); apply elem_of_app; by left). specialize (IH Hl).
    destruct o as [v'|]; [|naive_solver]. destruct (decide (k = k')) as [->|Hne].
    + rewrite lookup_insert_eq. split; [intros [= ->]; by right|]. intros [Hin|[= ->]]; [|done]. f_equal. symmetry. apply (Hu k'); set_solver.
    + rewrite lookup_insert_ne by done. naive_solver.
Qed.

Lemma distinct_NoDup l : distinct l = true -> NoDup l.
Proof.
  induction l as [|x l IH]; [constructor|]. cbn [distinct]. intros [Hx Hl]%andb_prop. apply NoDup_cons. split; [|by apply IH].
  intros Hin. apply negb_true_iff in Hx. apply list_elem_of_In, mem_In in Hin. congruence.
Qed.

Lemma NoDup_unambiguous (l : list param) : NoDup (map fst l) -> unambiguous l.
Proof.
  intros Hnd k v v' Hv Hv'. apply list_elem_of_lookup in Hv as [i Hi], Hv' as [j Hj].
  assert (i = j) as ->.
  { apply (NoDup_lookup (map fst l) i j k Hnd); rewrite list_lookup_fmap; [by rewrite Hi|by rewrite Hj]. }
  rewrite Hi in Hj. by injection Hj.
Qed.

Lemma common_written t d : map fst (EncodeTimeout t ++ EncodeDebug d) = common_keys.
Proof. reflexivity. Qed.

Lemma get_params_unambiguous `{LawfulOp R} (q : op_P R) : unambiguous (get_params q).
Proof.
  pose proof (distinct_NoDup _ (op_keys_distinct R)) as Hnd. rewrite <- (op_keys_fixed q), <- (common_written (op_timeout q) (op_debug q)), <- map_app in Hnd.
  pose proof (NoDup_unambiguous _ Hnd) as Hu. unfold get_params. rewrite <- app_assoc in Hu. destruct (op_format R) as [f|]; [|exact Hu].
  assert (Hf : forall v, ("format"%string, Some v) ∈ EncodeTimeout (op_timeout q) ++ EncodeDebug (op_debug q) ++ op_own q -> isEmpty (Format (op_debug q)) = false).
  { intros v Hv. unfold unambiguous in Hu. assert (Hin : ("format"%string, nonEmpty (Format (op_debug q))) ∈ EncodeTimeout (op_timeout q) ++ EncodeDebug (op_debug q) ++ op_own q)
      by (unfold EncodeDebug; set_solver).
    apply list_elem_of_lookup in Hv as [i Hi], Hin as [j Hj].
    assert (i = j) as ->.
    { rewrite <- app_assoc in Hnd. apply (NoDup_lookup _ i j "format"%string Hnd); rewrite list_lookup_fmap; [by rewrite Hi|by rewrite Hj]. }
    rewrite Hi in Hj. injection Hj as Hj. unfold nonEmpty, isSet in Hj. by destruct (isEmpty (Format (op_debug q))). }
  assert (Hcase : forall k v, (k, Some v) ∈ EncodeTimeout (op_timeout q) ++ EncodeDebug (op_debug q) ++ defaultFormat f (op_debug q) ++ op_own q ->
    (k, Some v) ∈ EncodeTimeout (op_timeout q) ++ EncodeDebug (op_debug q) ++ op_own q \/ (k = "format"%string /\ v = f /\ isEmpty (Format (op_debug q)) = true)).
  { intros k v. unfold defaultFormat. rewrite !elem_of_app, list_elem_of_singleton.
    intros [Hin|[Hin|[[= -> Hin]|Hin]]]; [by left; left|by left; right; left| |by left; right; right].
    destruct (isEmpty (Format (op_debug q))); [|done]. injection Hin as ->. by right. }
  intros k v v' [Hv|(-> & -> & He)]%Hcase [Hv'|(Hk & -> & He')]%Hcase.
  - by apply (Hu k).
  - subst k. apply Hf in Hv. congruence.
  - apply Hf in Hv'. congruence.
  - done.
Qed.

Lemma get_params_keys `{LawfulOp R} (q : op_P R) k v : (k, v) ∈ get_params q -> In k common_keys \/ In k (op_keys R).
Proof.
  intros Hin. apply list_elem_of_In in Hin. unfold get_params in Hin. rewrite app_assoc, in_app_iff in Hin.
  destruct Hin as [Hin|Hin].
  - left. rewrite <- (common_written (op_timeout q) (op_debug q)). by apply (in_map fst) in Hin.
  - rewrite in_app_iff in Hin. destruct Hin as [Hin|Hin].
    + left. destruct (op_format R) as [f|]; [|done]. destruct Hin as [[= <- _]|[]]. apply mem_In. reflexivity.
    + right. rewrite <- (op_keys_fixed q). by apply (in_map fst) in Hin.
Qed.

(** ** What the map holds *)

Definition base_params `{operation R} (q : op_P R) : list param := EncodeTimeout (op_timeout q) ++ EncodeDebug (op_debug q) ++ op_own q.

Lemma common_keys_slots t d : map fst (common_slots t d) = common_keys.
Proof. reflexivity. Qed.

Lemma base_NoDup `{LawfulOp R} (q : op_P R) : NoDup (map fst (base_params q)).
Proof.
  unfold base_params. rewrite app_assoc, map_app, common_written, op_keys_fixed. apply distinct_NoDup, (op_keys_distinct R).
Qed.

Lemma base_unique `{LawfulOp R} (q : op_P R) k v v' : (k, v) ∈ base_params q -> (k, v') ∈ base_params q -> v = v'.
Proof.
  intros Hv Hv'. apply list_elem_of_lookup in Hv as [i Hi], Hv' as [j Hj].
  assert (i = j) as -> by (apply (NoDup_lookup _ i j k (base_NoDup q)); rewrite list_lookup_fmap; [by rewrite Hi | by rewrite Hj]).
  rewrite Hi in Hj. by injection Hj.
Qed.

Lemma get_params_base `{LawfulOp R} (q : op_P R) k v :
  k <> "format"%string -> (k, v) ∈ get_params q <-> (k, v) ∈ base_params q.
Proof.
  intros Hk. unfold get_params, base_params. rewrite !elem_of_app. destruct (op_format R) as [f|]; [|rewrite elem_of_nil; tauto].
  unfold defaultFormat. rewrite list_elem_of_singleton. split; [|tauto]. intros [?|[?|[[= -> _]|?]]]; tauto.
Qed.

Lemma base_value `{LawfulOp R} (q : op_P R) k v :
  k <> "format"%string -> (k, v) ∈ base_params q -> encode_params (get_params q) !! k = v.
Proof.
  intros Hk Hin. pose proof (fun x => encode_lookup (get_params q) k x (get_params_unambiguous q)) as He. destruct v as [v|].
  - apply He. by apply get_params_base.
  - destruct (encode_params (get_params q) !! k) as [v|]; [|done]. specialize (proj1 (He v) eq_refl) as Hv.
    apply (get_params_base q k _ Hk) in Hv. by pose proof (base_unique q k _ _ Hin Hv).
Qed.

Lemma own_key `{LawfulOp R} (q : op_P R) k v : (k, v) ∈ op_own q -> In k (op_keys R) /\ k <> "format"%string.
Proof.
  intros Hin. assert (Hk : In k (op_keys R)) by (rewrite <- (op_keys_fixed q); apply list_elem_of_In in Hin; by apply (in_map fst) in Hin).
  split; [done|]. intros ->. pose proof (distinct_NoDup _ (op_keys_distinct R)) as Hnd. apply NoDup_app in Hnd as (_ & Hd & _).
  apply (Hd "format"%string); [|by apply list_elem_of_In]. apply list_elem_of_In, mem_In. reflexivity.
Qed.

Lemma own_value `{LawfulOp R} (q : op_P R) k v : (k, v) ∈ op_own q -> encode_params (get_params q) !! k = v.
Proof. intros Hin. apply base_value; [by eapply own_key|]. unfold base_params. rewrite !elem_of_app. tauto. Qed.

Lemma common_value `{LawfulOp R} (q : op_P R) k v :
  In (k, v) (common_slots (op_timeout q) (op_debug q)) -> k <> "format"%string -> encode_params (get_params q) !! k = rendered v.
Proof.
  intros Hin Hk. apply base_value; [done|]. unfold base_params. rewrite app_assoc, elem_of_app. left.
  assert (Hs : EncodeTimeout (op_timeout q) ++ EncodeDebug (op_debug q) = map (fun p => (p.1, rendered p.2)) (common_slots (op_timeout q) (op_debug q))).
  { unfold EncodeTimeout, EncodeDebug, common_slots. cbn [map fst snd app].
    by rewrite !duration_rendered, !flag_rendered, !joined_rendered, !nonEmpty_rendered. }
  rewrite Hs. apply list_elem_of_In, in_map_iff. by exists (k, v).
Qed.

Lemma format_value `{LawfulOp R} (q : op_P R) :
  default "" (encode_params (get_params q) !! "format"%string) = default (default "" (op_format R)) (rendered (Text (Format (op_debug q)))).
Proof.
  pose proof (fun x => encode_lookup (get_params q) "format" x (get_params_unambiguous q)) as He.
  assert (Hb : ("format"%string, nonEmpty (Format (op_debug q))) ∈ base_params q).
  { unfold base_params, EncodeDebug. rewrite !elem_of_app. right. left. apply list_elem_of_In. cbn. tauto. }
  assert (Hg : ("format"%string, nonEmpty (Format (op_debug q))) ∈ get_params q).
  { unfold get_params, EncodeDebug. rewrite !elem_of_app. right. left. apply list_elem_of_In. cbn. tauto. }
  rewrite nonEmpty_rendered in Hb, Hg. destruct (rendered (Text (Format (op_debug q)))) as [v|] eqn:E; cbn [default].
  { by apply He in Hg as ->. }
  assert (Hempty : isEmpty (Format (op_debug q)) = true) by (by destruct (Format (op_debug q))).
  destruct (op_format R) as [f|] eqn:Ef; cbn [default].
  - assert (Hf : ("format"%string, Some f) ∈ get_params q).
    { unfold get_params. rewrite Ef. unfold defaultFormat. rewrite Hempty, !elem_of_app, list_elem_of_singleton. tauto. }
    by apply He in Hf as ->.
  - destruct (encode_params (get_params q) !! "format"%string) as [v|]; [|done]. specialize (proj1 (He v) eq_refl) as Hv.
    assert (Hv' : ("format"%string, Some v) ∈ base_params q) by (unfold get_params in Hv; by rewrite Ef in Hv).
    by pose proof (base_unique q _ _ _ Hb Hv').
Qed.

Lemma described_keys `{LawfulOp R} k : (In k (op_keys R) -> In k (op_query R)) /\ (In k (op_query R) -> In k common_keys \/ In k (op_keys R)).
Proof.
  pose proof (op_keys_described R) as Hd. apply andb_prop in Hd as [H1 H2]. rewrite !forallb_forall in *. split.
  - intros Hk. apply mem_In, H1, Hk.
  - intros Hk. specialize (H2 k Hk). apply mem_In, in_app_iff in H2. exact H2.
Qed.

Lemma no_value `{LawfulOp R} (q : op_P R) k : ~ In k (op_query R) -> ~ In k common_keys -> encode_params (get_params q) !! k = None.
Proof.
  intros H1 H2. destruct (encode_params (get_params q) !! k) as [v|] eqn:E; [|done].
  apply (encode_lookup _ _ _ (get_params_unambiguous q)) in E. apply get_params_keys in E as [?|?]; [done|].
  by destruct H1; apply described_keys.
Qed.

Lemma format_described `{LawfulOp R} :
  op_format R <> None -> In "format"%string (op_query R) \/ In (pt_name (op_path R)) undescribed_format.
Proof.
  intros Hf. pose proof (op_format_described R) as Hd. destruct (op_format R); [|done].
  destruct (mem "format" _) eqn:E1; [left; by apply mem_In|]. destruct (mem _ undescribed_format) eqn:E2; [right; by apply mem_In|done].
Qed.

(** ** Fields and keys *)

(** The field at a place of the struct names the key at that place of the
    encoder, and no other key of the description. *)
Lemma slot_key `{LawfulOp R} i f get :
  op_slots R !! i = Some (f, get) ->
  exists k, op_keys R !! i = Some k /\ In k (op_query R) /\ names f k = true /\ forall k', In k' (op_query R) -> names f k' = true -> k' = k.
Proof.
  intros Hi. pose proof (f_equal (fun l => l !! i) (op_slots_named R)) as Hn. rewrite !list_lookup_fmap, Hi in Hn. cbn [fmap option_fmap option_map] in Hn.
  destruct (op_keys R !! i) as [k|]; [|done]. injection Hn as Hn. cbn [fst] in Hn. exists k. split; [done|].
  assert (Hk : In k (List.filter (names f) (op_query R))) by (rewrite Hn; by left). apply filter_In in Hk as [H1 H2].
  split; [done|]. split; [done|]. intros k' H3 H4. assert (Hk' : In k' (List.filter (names f) (op_query R))) by (by apply filter_In).
  rewrite Hn in Hk'. by destruct Hk' as [<-|[]].
Qed.

Lemma slot_written `{LawfulOp R} (q : op_P R) f get :
  In (f, get) (op_slots R) ->
  exists k, (k, rendered (get q)) ∈ op_own q /\ forall k', In k' (op_query R) -> names f k' = true -> k' = k.
Proof.
  intros Hs. apply list_elem_of_In, list_elem_of_lookup in Hs as [i Hi]. destruct (slot_key i f get Hi) as (k & Hk & _ & _ & Hu).
  exists k. split; [|done]. destruct (Forall2_lookup_r _ _ _ _ _ (op_slots_sent q) Hi) as ([k0 v] & Hp & Hv). cbn [fst snd] in Hv. subst v.
  rewrite <- (op_keys_fixed q), list_lookup_fmap, Hp in Hk. injection Hk as <-. apply list_elem_of_lookup. eauto.
Qed.

Lemma slot_named `{LawfulOp R} f get : In (f, get) (op_slots R) -> exists k, In k (op_query R) /\ names f k = true.
Proof.
  intros Hs. apply list_elem_of_In, list_elem_of_lookup in Hs as [i Hi]. destruct (slot_key i f get Hi) as (k & _ & H1 & H2 & _). eauto.
Qed.

Lemma key_slot `{LawfulOp R} k :
  In k (op_query R) -> In k common_keys \/ exists f get, In (f, get) (op_slots R) /\ names f k = true.
Proof.
  intros [?|Hk]%described_keys; [by left|]. right. apply list_elem_of_In, list_elem_of_lookup in Hk as [i Hi].
  assert (Hl : length (op_slots R) = length (op_keys R)).
  { pose proof (f_equal length (op_slots_named R)) as Hl. by rewrite !length_map in Hl. }
  destruct (op_slots R !! i) as [[f get]|] eqn:E.
  - exists f, get. split; [by eapply list_elem_of_In, list_elem_of_lookup_2|].
    destruct (slot_key i f get E) as (k' & Hk' & _ & Hn & _). rewrite Hi in Hk'. by injection Hk' as <-.
  - apply lookup_ge_None in E. apply lookup_lt_Some in Hi. lia.
Qed.

(** The query of a request that was built. *)
Lemma Request_query method s body h m rq len :
  match Request method s body m h with inl e => inl (BuildError e) | inr x => inr x end = (inr (rq, len) : request_error + _) ->
  forall k, query_get k (rq_RawQuery rq) = default "" (m !! k).
Proof.
  intros HR k. assert (HR' : Request method s body m h = inr (rq, len)) by (destruct (Request _ _ _ _ _); [done|congruence]).
  unfold Request in HR'. destruct (isEmpty method); [done|]. destruct (negb (validMethod method)); [done|]. destruct (PathUnescape s) as [d|]; [|done].
  destruct (body_parts body) as [[rc l] gb]. injection HR' as <- _. cbn [rq_RawQuery].
  destruct (decide (m = ∅)) as [->|Hne]; [by rewrite lookup_empty|by apply query_get_Encode].
Qed.

(** * Theorems *)

(** C32: The typed API follows the description of the server's API. For each of the 480
    request types, all values of its fields and a node whose base path needs no
    escaping: the request has a method that the description has for a path of the
    operation, that path has exactly the fields that are set as its parameters, the
    server reads it back with the values in place, and it arrives under the base path
    with its query. Otherwise there is no request, and either no path of the
    operation has these fields or the body has no JSON form; the request is never
    refused for its method or its path. *)
Theorem api_follows_description (o : operation_type) (r : ot_req o) (u : URL) :
  In o operations -> plain_path (trimSlashes (u_Path u)) = true ->
  match GetRequest r (Method r) with
  | inr (rq, len) => exists t, In t (templates (pt_type (op_path (ot_req o)))) /\ described (op_described (ot_req o)) (Method r) t = true
      /\ (forall x, In x (params (parse_template t)) <-> In x (kept (op_fields r)))
      /\ decode_path (rq_RawPath rq) = Some (map (piece_values (set_fields (fields (op_fields r)))) (parse_template t))
      /\ rq_Method rq = Method r
      /\ RequestURI (setReqURL u rq) = String.append (trimSlashes (u_Path u))
           (if decide (query_of r = ∅) then rq_RawPath rq else String.append (rq_RawPath rq) (String "?" (Encode (query_of r))))
      /\ inr (rq_Body rq, len, rq_GetBody rq) = (match op_body r with inr body => inr (body_parts body) | inl e => inl e end : request_error + _)
  | inl (PathError _) => forall t, In t (templates (pt_type (op_path (ot_req o)))) -> ~ (forall x, In x (params (parse_template t)) <-> In x (kept (op_fields r)))
  | inl MarshalError => op_body r = inl MarshalError
  | inl (BuildError _) => False
  end.
Proof.
  intros _ Hbase. rewrite op_request. unfold send. destruct (Build (op_fields r)) as [s|what] eqn:Hb.
  - destruct (op_body r) as [e|body] eqn:Hbody; [|].
    { pose proof (op_body_errors r) as He. rewrite Hbody in He. by subst e. }
    destruct (built_template (op_path (ot_req o)) (op_fields r) s Hb) as (t & Ht & Hx & Hne & Hpl & Hset & Hs).
    set (e := set_fields (fields (op_fields r))) in *.
    assert (Hd : PathUnescape s = Some (decoded_path e t)) by (rewrite Hs; by apply unescape_instantiate).
    destruct (Request_built (Method r) s _ body (query_of r) (op_headers r) (op_method_token r) Hd) as (rq & len & -> & H1 & H2 & H3 & H4 & H5 & _).
    apply in_map_iff in Ht as (u' & <- & Ht). exists u'. split; [exact Ht|]. split.
    { pose proof (op_methods_described r) as Hm. rewrite forallb_forall in Hm. by apply Hm. }
    split; [exact Hx|]. split; [rewrite H3, Hs; by apply decode_instantiate|]. split; [exact H1|]. split.
    + destruct (setReqURL_paths u rq) as (Hu1 & Hu2 & Hu3). unfold RequestURI.
      assert (Hse : s <> EmptyString) by (rewrite Hs, instantiate_text by done; done).
      rewrite H3 in Hu2. rewrite Hu1, (Hu2 Hse), Hu3, H2, H3, H4.
      rewrite EscapedPath_built; [|done|rewrite Hs; by apply instantiate_bytes|done|done].
      assert (He : isEmpty (String.append (trimSlashes (u_Path u)) s) = false) by (destruct (trimSlashes (u_Path u)), s; done).
      rewrite He. destruct (decide (query_of r = ∅)); [done|]. rewrite Encode_nonempty by done. by rewrite append_assoc.
    + by rewrite H5.
  - intros t Ht Hx. destruct (pt_lawful (op_path (ot_req o))) as [Hf _]. specialize (Hf (op_fields r)). rewrite Hb in Hf. cbn [success] in Hf. unfold choose_template in Hf.
    destruct (List.find _ _) as [t'|] eqn:E; [done|]. apply (in_map parse_template) in Ht. apply (find_none _ _ E) in Ht.
    apply fits_spec in Hx. unfold fits in *. congruence.
Qed.

(** C33: The query of a typed request is what its parameter struct says. For each of the
    480 request types and all values of the struct, what a query parser finds under a
    query parameter of the operation in the API description is the value of the field
    with that name, written as its Go type asks for: true and false, decimal numbers,
    text, lists joined by commas, durations in milliseconds or, below one, in
    nanoseconds; nothing for a nil pointer, an empty text or list, and zero. Each
    field has its parameter and each parameter its field. The thirteen fields that
    all operations share are found under their keys in the same way whenever they
    are set, also by operations whose description has no such parameter; only the
    format, when it is not set, is that of the operation, if it has one, which is so
    for operations with a format parameter and for the two help operations. There is
    nothing under any other key. *)
Theorem api_sends_parameters (o : operation_type) (r : ot_req o) (q : op_P (ot_req o)) (method : string) (rq : httpRequest) (len : Z) :
  In o operations -> op_params r = Some q -> GetRequest r method = inr (rq, len) ->
  let found k := query_get k (rq_RawQuery rq) in
  let common := common_slots (op_timeout q) (op_debug q) in
  (forall f get k, In (f, get) (op_slots (ot_req o)) -> In k (op_query (ot_req o)) -> names f k = true ->
     found k = default "" (rendered (get q)))
  /\ (forall f get, In (f, get) (op_slots (ot_req o)) -> exists k, In k (op_query (ot_req o)) /\ names f k = true)
  /\ (forall k, In k (op_query (ot_req o)) -> In k (map fst common) \/ exists f get, In (f, get) (op_slots (ot_req o)) /\ names f k = true)
  /\ (forall k v, In (k, v) common -> k <> "format"%string -> found k = default "" (rendered v))
  /\ found "format"%string = default (default "" (op_format (ot_req o))) (rendered (Text (Format (op_debug q))))
  /\ (op_format (ot_req o) <> None -> In "format"%string (op_query (ot_req o)) \/ In (pt_name (op_path (ot_req o))) undescribed_format)
  /\ (forall k, ~ In k (op_query (ot_req o)) -> ~ In k (map fst common) -> found k = "").
Proof.
  intros _ Hq HG found common. rewrite op_request in HG.
  assert (Hquery : forall k, found k = default "" (encode_params (get_params q) !! k)).
  { intros k. unfold found, send, query_of in *. rewrite Hq in HG. destruct (Build (op_fields r)) as [s|]; [|done]. destruct (op_body r) as [|body]; [done|].
    by apply (Request_query method s body (op_headers r) (encode_params (get_params q)) rq len). }
  split_and!.
  - intros f get k Hs Hk Hn. rewrite Hquery. destruct (slot_written q f get Hs) as (k' & Hin & Hnames).
    assert (k = k') as -> by (apply (Hnames k Hk Hn)). by rewrite (own_value q k' _ Hin).
  - intros f get Hs. apply (slot_named f get Hs).
  - intros k Hk. unfold common. rewrite common_keys_slots. apply key_slot, Hk.
  - intros k v Hin Hk. rewrite Hquery. by rewrite (common_value q k v Hin Hk).
  - rewrite Hquery. apply format_value.
  - apply format_described.
  - intros k H1 H2. rewrite Hquery. unfold common in H2. rewrite common_keys_slots in H2. by rewrite (no_value q k H1 H2).
Qed.

(** * Witnesses *)

Definition ex_get_params : GetParams :=
  MkGetParams noTimeout (MkDebugParams true false false [] "" "" false false [] []) "" [] ["title"; "body"]%string "" (Some false) "" ["a/b"%string] [] 0 "".
Definition ex_get_req : GetReq := MkGetReq "logs" "2024/01" [] (Some ex_get_params).
Definition ex_operation : operation_type := MkOperationType "Get" GetReq _ _.
Definition ex_search_req : SearchReq := MkSearchReq ["logs"; ""; "a,b"]%string (Some (Some "{}"%string)) NoReader [] None.

Definition ex_sent : httpRequest * Z :=
  match GetRequest ex_get_req "GET" with inr r => r | inl _ => (MkHttpRequest "" "" "" "" "" "" ∅ None None, 0%Z) end.

Lemma api_follows_description_witness :
  In ex_operation operations /\ GetRequest ex_get_req (Method ex_get_req) = inr ex_sent
  /\ RequestURI (setReqURL (ex_node "/os") ex_sent.1)
      = "/os/logs/_doc/2024%2F01?_source_includes=title%2Cbody&pretty=true&realtime=false&routing=a%2Fb"%string.
Proof.
  assert (Hin : In ex_operation operations)
    by (unfold operations; apply in_or_app; left; unfold apiDocs, ex_operation; repeat ((left; reflexivity) || right)).
  assert (E : GetRequest ex_get_req (Method ex_get_req) = inr ex_sent) by (vm_compute; reflexivity).
  split; [exact Hin|]. split; [exact E|].
  pose proof (api_follows_description ex_operation ex_get_req (ex_node "/os") Hin ltac:(vm_compute; reflexivity)) as H.
  change (@GetRequest (ot_req ex_operation) (ot_op ex_operation)) with (@GetRequest GetReq Get_operation) in H.
  change (@Method (ot_req ex_operation) (ot_op ex_operation)) with (@Method GetReq Get_operation) in H.
  rewrite E in H. rewrite (surjective_pairing ex_sent) in H. destruct H as (t & _ & _ & _ & _ & _ & H & _). rewrite H. vm_compute. reflexivity.
Defined.

Lemma api_sends_parameters_witness :
  query_get "routing" (rq_RawQuery ex_sent.1) = "a/b"%string /\ query_get "_source_includes" (rq_RawQuery ex_sent.1) = "title,body"%string
  /\ query_get "pretty" (rq_RawQuery ex_sent.1) = "true"%string /\ query_get "from" (rq_RawQuery ex_sent.1) = ""%string.
Proof.
  assert (Hin : In ex_operation operations)
    by (unfold operations; apply in_or_app; left; unfold apiDocs, ex_operation; repeat ((left; reflexivity) || right)).
  destruct (api_sends_parameters ex_operation ex_get_req ex_get_params "GET" ex_sent.1 ex_sent.2 Hin eq_refl ltac:(vm_compute; reflexivity))
    as (H1 & _ & _ & H4 & _ & _ & H7).
  split; [|split; [|split]].
  - apply (H1 "Routing"%string (fun q => TextList (GetParams_Routing q))); [|apply mem_In; vm_compute; reflexivity|vm_compute; reflexivity].
    change (In ("Routing"%string, fun q => TextList (GetParams_Routing q)) GetParams_slots). unfold GetParams_slots. repeat ((left; reflexivity) || right).
  - apply (H1 "SourceIncludes"%string (fun q => TextList (GetParams_SourceIncludes q))); [|apply mem_In; vm_compute; reflexivity|vm_compute; reflexivity].
    change (In ("SourceIncludes"%string, fun q => TextList (GetParams_SourceIncludes q)) GetParams_slots). unfold GetParams_slots. repeat ((left; reflexivity) || right).
  - apply (H4 "pretty"%string (Flag true)); [|discriminate]. unfold common_slots. do 3 right. left. reflexivity.
  - apply H7; intros Hk%mem_In; vm_compute in Hk; discriminate.
Defined.

(** A body makes a search a POST; the empty index name is left out and a comma in
    one does not separate. *)
Lemma search_post : Method ex_search_req = "POST"%string
  /\ match GetRequest ex_search_req "POST" with inr (rq, _) => rq_RawPath rq = "/logs,a%2Cb/_search"%string | inl _ => False end.
Proof. vm_compute. by split. Qed.
