(* ===== verification/Json.v ===== *)
(** * Reading JSON

    What the program uses of encoding/json: the grammar of a text, with the
    bytes of each member kept for RawMessage, and the decoding into struct fields
    of type string, int and any. A number is kept as its literal. The nesting is
    bounded as in encoding/json. *)

From Stdlib Require Import Ascii String.
From stdpp Require Import base list strings.
From Stdlib Require Import ZArith Lia.
From S2P Require Import Prelude.
From S2P Require Import GoStrings.
From S2P Require Import ShardHash.
Open Scope list_scope.
Open Scope Z_scope.

(** * Values *)

#[local] Unset Elimination Schemes.
Inductive json :=
| JNull
| JBool (b : bool)
| JNum (literal : gostring)
| JStr (s : gostring)
| JArr (l : list json)
| JObj (ms : list (gostring * (gostring * json))).
#[local] Set Elimination Schemes.

(** * The scanner *)

Definition is_space (b : Z) : bool := (b =? 32) || (b =? 9) || (b =? 10) || (b =? 13).
Definition is_digit (b : Z) : bool := (48 <=? b) && (b <=? 57).

Fixpoint skip_ws (s : gostring) : gostring := match s with b :: r => if is_space b then skip_ws r else s | [] => [] end.

(** The rest after one given byte, and after given bytes. *)
Definition eat (c : Z) (s : gostring) : option gostring := match s with b :: r => if b =? c then Some r else None | [] => None end.
Fixpoint eat_all (w s : gostring) : option gostring := match w with [] => Some s | c :: w' => r ← eat c s; eat_all w' r end.

Fixpoint span_digits (s : gostring) : gostring * gostring :=
  match s with
  | b :: r => if is_digit b then let '(d, r') := span_digits r in (b :: d, r') else ([], s)
  | [] => ([], [])
  end.
Definition digits_at (s : gostring) : option (gostring * gostring) :=
  match span_digits s with ([], _) => None | dr => Some dr end.

(** The digits before the point, the fraction and the exponent. *)
Definition int_part (s : gostring) : option (gostring * gostring) :=
  match eat 48 s with Some r => Some ([48], r) | None => digits_at s end.
Definition frac_part (s : gostring) : option (gostring * gostring) :=
  match eat 46 s with Some r => '(d, r') ← digits_at r; Some (46 :: d, r') | None => Some ([], s) end.
Definition exp_part (s : gostring) : option (gostring * gostring) :=
  match s with
  | e :: r =>
    if (e =? 101) || (e =? 69) then
      let '(sign, r) := match r with c :: r' => if (c =? 43) || (c =? 45) then ([c], r') else ([], r) | [] => ([], r) end in
      '(d, r') ← digits_at r; Some (e :: sign ++ d, r')
    else Some ([], s)
  | [] => Some ([], s)
  end.

Definition number (s : gostring) : option (gostring * gostring) :=
  let '(sign, s1) := match eat 45 s with Some r => ([45], r) | None => ([], s) end in
  '(int, s2) ← int_part s1;
  '(frac, s3) ← frac_part s2;
  '(exp, s4) ← exp_part s3;
  Some (sign ++ int ++ frac ++ exp, s4).

Definition hex_byte (b : Z) : option Z := hex_digit (chr b).
Definition getu4 (s : gostring) : option Z :=
  match s with
  | 92 :: 117 :: a :: b :: c :: d :: _ =>
    a ← hex_byte a; b ← hex_byte b; c ← hex_byte c; d ← hex_byte d; Some (((a * 16 + b) * 16 + c) * 16 + d)
  | _ => None
  end.

(** utf8.AppendRune. *)
Definition utf8 (r : Z) : gostring :=
  if r <? 0x80 then [r]
  else if r <? 0x800 then [0xC0 + Z.shiftr r 6; 0x80 + Z.land r 63]
  else if (0xD800 <=? r) && (r <=? 0xDFFF) then [0xEF; 0xBF; 0xBD]
  else if r <? 0x10000 then [0xE0 + Z.shiftr r 12; 0x80 + Z.land (Z.shiftr r 6) 63; 0x80 + Z.land r 63]
  else [0xF0 + Z.shiftr r 18; 0x80 + Z.land (Z.shiftr r 12) 63; 0x80 + Z.land (Z.shiftr r 6) 63; 0x80 + Z.land r 63].

(** The rune of an escape sequence and its width, surrogate pairs joined. *)
Definition escaped_rune (s : gostring) : option (Z * nat) :=
  r ← getu4 s;
  if (0xD800 <=? r) && (r <=? 0xDFFF) then
    match getu4 (drop 6 s) with
    | Some r1 =>
      if (r <=? 0xDBFF) && (0xDC00 <=? r1) && (r1 <=? 0xDFFF)
      then Some ((r - 0xD800) * 1024 + (r1 - 0xDC00) + 0x10000, 12%nat) else Some (RuneError, 6%nat)
    | None => Some (RuneError, 6%nat)
    end
  else Some (r, 6%nat).

Definition simple_escape (c : Z) : option Z :=
  if (c =? 34) || (c =? 92) || (c =? 47) then Some c
  else if c =? 98 then Some 8 else if c =? 102 then Some 12 else if c =? 110 then Some 10
  else if c =? 114 then Some 13 else if c =? 116 then Some 9 else None.

(** The rest of a string after its opening quote: its value and what follows. *)
Fixpoint quoted (fuel : nat) (s : gostring) : option (gostring * gostring) :=
  match fuel, s with
  | S f, b :: r =>
    if b =? 34 then Some ([], r)
    else if b <? 32 then None
    else if b =? 92 then
      match r with
      | c :: r1 =>
        if c =? 117 then '(c, w) ← escaped_rune s; '(v, r') ← quoted f (drop w s); Some (utf8 c ++ v, r')
        else c ← simple_escape c; '(v, r') ← quoted f r1; Some (c :: v, r')
      | [] => None
      end
    else let '(c, w) := decode_rune b r in '(v, r') ← quoted f (drop w s); Some (utf8 c ++ v, r')
  | _, _ => None
  end.
Definition string_at (s : gostring) : option (gostring * gostring) :=
  r ← eat 34 s; quoted (length r) r.

Definition maxNestingDepth : Z := 10000.

Definition literal_at (s : gostring) : option (json * gostring) :=
  match eat_all (lit "null") s, eat_all (lit "true") s, eat_all (lit "false") s, eat 34 s with
  | Some r, _, _, _ => Some (JNull, r)
  | _, Some r, _, _ => Some (JBool true, r)
  | _, _, Some r, _ => Some (JBool false, r)
  | _, _, _, Some _ => '(v, r) ← string_at s; Some (JStr v, r)
  | _, _, _, _ => '(n, r) ← number s; Some (JNum n, r)
  end.

(** The bytes a value was read from. *)
Definition read_bytes (s rest : gostring) : gostring := take (length s - length rest) s.

(** A value, the elements of an array after its bracket or a comma, and the
    members of an object likewise. *)
Fixpoint value (fuel : nat) (depth : Z) (s : gostring) : option (json * gostring) :=
  match fuel with
  | O => None
  | S f =>
    match eat 91 s, eat 123 s with
    | Some r, _ =>
      if depth <? maxNestingDepth then
        match eat 93 (skip_ws r) with
        | Some r' => Some (JArr [], r')
        | None => '(l, r') ← elements f (depth + 1) (skip_ws r); Some (JArr l, r')
        end
      else None
    | _, Some r =>
      if depth <? maxNestingDepth then
        match eat 125 (skip_ws r) with
        | Some r' => Some (JObj [], r')
        | None => '(ms, r') ← members f (depth + 1) (skip_ws r); Some (JObj ms, r')
        end
      else None
    | None, None => literal_at s
    end
  end
with elements (fuel : nat) (depth : Z) (s : gostring) : option (list json * gostring) :=
  match fuel with
  | O => None
  | S f =>
    '(v, r) ← value f depth s;
    match eat 93 (skip_ws r), eat 44 (skip_ws r) with
    | Some r', _ => Some ([v], r')
    | _, Some r' => '(l, r'') ← elements f depth (skip_ws r'); Some (v :: l, r'')
    | _, _ => None
    end
  end
with members (fuel : nat) (depth : Z) (s : gostring) : option (list (gostring * (gostring * json)) * gostring) :=
  match fuel with
  | O => None
  | S f =>
    '(k, r) ← string_at s;
    r1 ← eat 58 (skip_ws r);
    let s1 := skip_ws r1 in
    '(v, r2) ← value f depth s1;
    let m := (k, (read_bytes s1 r2, v)) in
    match eat 125 (skip_ws r2), eat 44 (skip_ws r2) with
    | Some r', _ => Some ([m], r')
    | _, Some r' => '(ms, r'') ← members f depth (skip_ws r'); Some (m :: ms, r'')
    | _, _ => None
    end
  end.

(** The value of a whole text; the fuel is twice its bytes. *)
Definition parse (s : gostring) : option json :=
  '(v, r) ← value (S (2 * length s)) 0 (skip_ws s);
  match skip_ws r with [] => Some v | _ => None end.

(** * Decoding *)

(** What encoding/json reports: a text out of the grammar, or a value a field
    cannot hold. *)
Inductive json_error := SyntaxError | UnmarshalTypeError.

(** A decoder leaves what it decoded and the first error. *)
Definition decoder (A : Type) : Type := json -> A -> A * option json_error.
Definition saveError (a b : option json_error) : option json_error := match a with Some _ => a | None => b end.

Definition d_string : decoder gostring := fun v old =>
  match v with JNull => (old, None) | JStr s => (s, None) | _ => (old, Some UnmarshalTypeError) end.

(** ParseInt of a literal: no fraction, no exponent, in the range of int. *)
Definition d_int : decoder Z := fun v old =>
  match v with
  | JNull => (old, None)
  | JNum n => match Atoi (bytes n) with Some z => (z, None) | None => (old, Some UnmarshalTypeError) end
  | _ => (old, Some UnmarshalTypeError)
  end.

Definition digits_value (ds : gostring) : Z := fold_left (fun a d => a * 10 + (d - 48)) ds 0.

(** The exponent after its mark, zero without one. *)
Definition exponent (s : gostring) : Z :=
  match s with
  | [] => 0
  | _ :: r => match eat 45 r with Some ds => - digits_value ds | None => digits_value (default r (eat 43 r)) end
  end.

(** ParseFloat fails on a literal that rounds beyond the largest float64. *)
Definition num_overflows (n : gostring) : bool :=
  let '(int, r) := span_digits (default n (eat 45 n)) in
  let '(frac, r) := match eat 46 r with Some r' => span_digits r' | None => ([], r) end in
  let e := exponent r - Z.of_nat (length frac) in
  let m := digits_value (int ++ frac) in
  if 0 <=? e then 2 ^ 1024 - 2 ^ 970 <=? m * 10 ^ e else (2 ^ 1024 - 2 ^ 970) * 10 ^ (- e) <=? m.

(** Whether an [any] can hold the value: all its numbers fit float64. *)
Fixpoint holds_any (v : json) : bool :=
  match v with
  | JNum n => negb (num_overflows n)
  | JArr l => (fix go l := match l with [] => true | x :: l' => holds_any x && go l' end) l
  | JObj ms => (fix go ms := match ms with [] => true | (_, (_, x)) :: ms' => holds_any x && go ms' end) ms
  | _ => true
  end.

(** An [any] is nil or the value. *)
Definition d_any : decoder (option json) := fun v old =>
  match v with
  | JNull => (None, None)
  | JNum n => if num_overflows n then (old, Some UnmarshalTypeError) else (Some v, None)
  | _ => (Some v, if holds_any v then None else Some UnmarshalTypeError)
  end.

(** Member names match a field exactly, or else without regard to case: the
    long s and the Kelvin sign fold to ASCII letters. *)
Fixpoint fold_key (k : gostring) : gostring :=
  match k with
  | 197 :: 191 :: r => 83 :: fold_key r
  | 226 :: ((132 :: ((170 :: r) as r2)) as r1) => 75 :: fold_key r
  | c :: r => (if (97 <=? c) && (c <=? 122) then c - 32 else c) :: fold_key r
  | [] => []
  end.

Definition field_of {A} (fields : list (string * A)) (k : gostring) : option A :=
  match List.find (fun f => bool_decide (lit f.1 = k)) fields with
  | Some f => Some f.2
  | None => snd <$> List.find (fun f => bool_decide (fold_key (lit f.1) = fold_key k)) fields
  end.

(** A field decodes from the bytes of a member and their value. *)
Definition field_decoder (A : Type) : Type := gostring -> decoder A.

Definition d_member {A} (fields : list (string * field_decoder A)) (st : A * option json_error)
    (m : gostring * (gostring * json)) : A * option json_error :=
  match field_of fields m.1 with
  | Some d => let '(a, e) := d m.2.1 m.2.2 st.1 in (a, saveError st.2 e)
  | None => st
  end.

Definition d_struct {A} (fields : list (string * field_decoder A)) : decoder A := fun v old =>
  match v with
  | JNull => (old, None)
  | JObj ms => foldl (d_member fields) (old, None) ms
  | _ => (old, Some UnmarshalTypeError)
  end.

(** A field of a record, by its reader and writer. *)
Definition into {A B} (get : A -> B) (set : B -> A -> A) (d : decoder B) : field_decoder A := fun _ v a =>
  let '(b, e) := d v (get a) in (set b a, e).
Definition raw_into {A} (set : gostring -> A -> A) : field_decoder A := fun raw _ a => (set raw a, None).

(** json.Unmarshal: the syntax of the whole text is checked first. *)
Definition Unmarshal {A} (d : decoder A) (data : gostring) (a : A) : A * option json_error :=
  match parse data with
  | None => (a, Some SyntaxError)
  | Some v => d v a
  end.

(** * The fuel of the scanner is enough *)

Lemma skip_ws_length s : (length (skip_ws s) <= length s)%nat.
Proof. induction s as [|b s IH]; simpl; [lia|]. destruct (is_space b); simpl; lia. Qed.

Lemma eat_length c s r : eat c s = Some r -> (length r < length s)%nat.
Proof. unfold eat. destruct s; [done|]. case_match; [|done]. intros [= <-]. simpl. lia. Qed.

Lemma eat_all_length w s r : eat_all w s = Some r -> (length r + length w <= length s)%nat.
Proof.
  revert s. induction w as [|c w IH]; simpl; intros s; [intros [= <-]; lia|].
  intros (s' & Hs%eat_length & Hr%IH)%bind_Some. lia.
Qed.

Lemma span_digits_length s : (length (span_digits s).2 + length (span_digits s).1 = length s)%nat.
Proof. induction s as [|b s IH]; simpl; [done|]. destruct (is_digit b); simpl; [|lia]. destruct (span_digits s). simpl in *. lia. Qed.

Lemma digits_at_length s d r : digits_at s = Some (d, r) -> (length r < length s)%nat.
Proof.
  unfold digits_at. pose proof (span_digits_length s). destruct (span_digits s) as [ds r']. destruct ds; [done|].
  intros [= <- <-]. simpl in *. lia.
Qed.

Lemma int_part_length s d r : int_part s = Some (d, r) -> (length r < length s)%nat.
Proof. unfold int_part. destruct (eat 48 s) eqn:E; [intros [= <- <-]; by apply eat_length in E|apply digits_at_length]. Qed.

Lemma frac_part_length s d r : frac_part s = Some (d, r) -> (length r <= length s)%nat.
Proof.
  unfold frac_part. destruct (eat 46 s) eqn:E; [|intros [= <- <-]; done]. apply eat_length in E.
  intros ([d' r'] & Hd%digits_at_length & [= <- <-])%bind_Some. lia.
Qed.

Lemma exp_part_length s d r : exp_part s = Some (d, r) -> (length r <= length s)%nat.
Proof.
  unfold exp_part. destruct s as [|e s]; [intros [= <- <-]; done|]. destruct (_ || _); [|intros [= <- <-]; done].
  destruct (match s with [] => _ | _ => _ end) as [sign s'] eqn:E.
  assert (length s' <= length s)%nat by (repeat (case_match; simplify_eq); simpl; lia).
  intros ([d' r'] & Hd%digits_at_length & [= <- <-])%bind_Some. simpl. lia.
Qed.

Lemma number_length s d r : number s = Some (d, r) -> (length r < length s)%nat.
Proof.
  unfold number. destruct (match eat 45 s with Some _ => _ | None => _ end) as [sign s1] eqn:E1.
  assert (length s1 <= length s)%nat by (destruct (eat 45 s) eqn:E; injection E1 as <- <-; [apply eat_length in E; lia | done]).
  intros ([int s2] & H2%int_part_length & ([frac s3] & H3%frac_part_length & ([exp s4] & H4%exp_part_length & [= <- <-])%bind_Some)%bind_Some)%bind_Some.
  lia.
Qed.

Lemma quoted_length fuel s v r : quoted fuel s = Some (v, r) -> (length r < length s)%nat.
Proof.
  revert s v r. induction fuel as [|f IH]; intros s v r; [done|]. destruct s as [|b s]; [done|]. cbn [quoted].
  assert (forall w c, ('(v', r') ← quoted f (drop w s); Some (c ++ v', r')) = Some (v, r) -> (length r < length (b :: s))%nat) as Hq.
  { intros w c ([v' r'] & Hq%IH & [= <- <-])%bind_Some. rewrite length_drop in Hq. simpl. lia. }
  assert (forall w c, ('(v', r') ← quoted f (drop w (b :: s)); Some (c ++ v', r')) = Some (v, r) -> (length r < length (b :: s))%nat) as Hr.
  { intros w c ([v' r'] & Hr%IH & [= <- <-])%bind_Some. rewrite length_drop in Hr. simpl in *. lia. }
  destruct (b =? 34); [intros [= <- <-]; simpl; lia|]. destruct (b <? 32); [done|]. destruct (b =? 92).
  - destruct s as [|c s]; [done|]. destruct (c =? 117).
    + intros ([c' w] & _ & H)%bind_Some. exact (Hr _ _ H).
    + intros (x & _ & H)%bind_Some. exact (Hq 1%nat [x] H).
  - destruct (decode_rune b s) as [c w]. apply Hr.
Qed.

Lemma string_at_length s v r : string_at s = Some (v, r) -> (length r < length s)%nat.
Proof. unfold string_at. intros (s' & Hs%eat_length & Hq%quoted_length)%bind_Some. lia. Qed.

Lemma literal_at_length s v r : literal_at s = Some (v, r) -> (length r < length s)%nat.
Proof.
  unfold literal_at.
  destruct (eat_all (lit "null") s) eqn:E1; [intros [= <- <-]; apply eat_all_length in E1; simpl in *; lia|].
  destruct (eat_all (lit "true") s) eqn:E2; [intros [= <- <-]; apply eat_all_length in E2; simpl in *; lia|].
  destruct (eat_all (lit "false") s) eqn:E3; [intros [= <- <-]; apply eat_all_length in E3; simpl in *; lia|].
  destruct (eat 34 s); intros ([x r'] & Hx & [= <- <-])%bind_Some; [by apply string_at_length in Hx | by apply number_length in Hx].
Qed.

Lemma scanner_length f :
  (forall d s v r, value f d s = Some (v, r) -> (length r < length s)%nat) /\
  (forall d s v r, elements f d s = Some (v, r) -> (length r < length s)%nat) /\
  (forall d s v r, members f d s = Some (v, r) -> (length r < length s)%nat).
Proof.
  induction f as [|f (IHv & IHe & IHm)]; [done|]. split_and!; intros d s v r; cbn [value elements members].
  - destruct (eat 91 s) as [r0|] eqn:E; [|destruct (eat 123 s) as [r0|] eqn:E'].
    + apply eat_length in E. destruct (d <? _); [|done]. pose proof (skip_ws_length r0).
      destruct (eat 93 _) eqn:E2; [intros [= <- <-]; apply eat_length in E2; lia|].
      intros ([l r'] & Hl%IHe & [= <- <-])%bind_Some. lia.
    + apply eat_length in E'. destruct (d <? _); [|done]. pose proof (skip_ws_length r0).
      destruct (eat 125 _) eqn:E2; [intros [= <- <-]; apply eat_length in E2; lia|].
      intros ([l r'] & Hl%IHm & [= <- <-])%bind_Some. lia.
    + apply literal_at_length.
  - intros ([x r1] & Hx%IHv & H)%bind_Some. pose proof (skip_ws_length r1).
    destruct (eat 93 _) eqn:E1; [injection H as <- <-; apply eat_length in E1; lia|].
    destruct (eat 44 _) as [r2|] eqn:E2; [|done]. apply eat_length in E2. pose proof (skip_ws_length r2).
    apply bind_Some in H as ([l r'] & Hl%IHe & [= <- <-]). lia.
  - intros ([k r1] & Hk%string_at_length & (r2 & E%eat_length & ([x r3] & Hx%IHv & H)%bind_Some)%bind_Some)%bind_Some.
    pose proof (skip_ws_length r1). pose proof (skip_ws_length r2). pose proof (skip_ws_length r3).
    destruct (eat 125 _) eqn:E1; [injection H as <- <-; apply eat_length in E1; lia|].
    destruct (eat 44 _) as [r4|] eqn:E2; [|done]. apply eat_length in E2. pose proof (skip_ws_length r4).
    apply bind_Some in H as ([l r'] & Hl%IHm & [= <- <-]). lia.
Qed.

Lemma eat_skip_length c s r : eat c (skip_ws s) = Some r -> (length (skip_ws r) < length s)%nat.
Proof. intros H%eat_length. pose proof (skip_ws_length s). pose proof (skip_ws_length r). lia. Qed.

(** Each piece takes bytes, so more fuel changes nothing. *)
Lemma scanner_enough f :
  (forall g d s, (2 * length s < f)%nat -> (2 * length s < g)%nat -> value f d s = value g d s) /\
  (forall g d s, (2 * length s + 1 < f)%nat -> (2 * length s + 1 < g)%nat -> elements f d s = elements g d s) /\
  (forall g d s, (2 * length s < f)%nat -> (2 * length s < g)%nat -> members f d s = members g d s).
Proof.
  induction f as [|f (IHv & IHe & IHm)]; [split_and!; intros; lia|].
  split_and!; intros [|g] d s Hf Hg; try lia; cbn [value elements members].
  - destruct (eat 91 s) as [r0|] eqn:E; [|destruct (eat 123 s) as [r0|] eqn:E'; [|done]]; (destruct (d <? _); [|done]).
    + apply eat_length in E. pose proof (skip_ws_length r0). rewrite (IHe g) by lia. done.
    + apply eat_length in E'. pose proof (skip_ws_length r0). rewrite (IHm g) by lia. done.
  - rewrite (IHv g) by lia. destruct (value g d s) as [[x r1]|] eqn:Ev; [|done]. simpl.
    apply (proj1 (scanner_length g)) in Ev. destruct (eat 93 _); [done|]. destruct (eat 44 _) as [r2|] eqn:E2; [|done].
    apply eat_skip_length in E2. rewrite (IHe g) by lia. done.
  - destruct (string_at s) as [[k r1]|] eqn:Ek; [|done]. apply string_at_length in Ek. simpl.
    destruct (eat 58 _) as [r2|] eqn:E; [|done]. apply eat_skip_length in E. simpl. rewrite (IHv g) by lia.
    destruct (value g d _) as [[x r3]|] eqn:Ev; [|done]. apply (proj1 (scanner_length g)) in Ev. simpl.
    destruct (eat 125 _); [done|]. destruct (eat 44 _) as [r4|] eqn:E4; [|done].
    apply eat_skip_length in E4. rewrite (IHm g) by lia. done.
Qed.

(** The text is read whatever the fuel, once there is enough of it. *)
Lemma parse_fuel f s : (2 * length s < f)%nat ->
  parse s = '(v, r) ← value f 0 (skip_ws s); match skip_ws r with [] => Some v | _ => None end.
Proof.
  intros Hf. unfold parse. pose proof (skip_ws_length s). rewrite (proj1 (scanner_enough f) (S (2 * length s))) by lia. done.
Qed.
