(* ===== verification/JsonPrint.v ===== *)
(** * Writing JSON and reading it back

    The text of a JSON value as a server writes it, compact, with strings in
    UTF-8; and that Json.v reads such a text as the value. *)

From Stdlib Require Import Ascii String.
From stdpp Require Import base list strings.
From Stdlib Require Import ZArith Lia.
From S2P Require Import Prelude.
From S2P Require Import GoStrings.
From S2P Require Import ShardHash.
From S2P Require Import ShardRouting.
From S2P Require Import Json.
Open Scope list_scope.
Open Scope Z_scope.

(** * Strings *)

(** Unicode scalar values. *)
Definition scalar (r : Z) : Prop := 0 <= r < 0xD800 \/ 0xE000 <= r < 0x110000.
Definition valid_utf8 (s : gostring) : Prop := exists rs, Forall scalar rs /\ s = rs ≫= utf8.

Definition hex_lower (d : Z) : Z := if d <? 10 then 48 + d else 87 + d.
Definition escape_byte (b : Z) : gostring :=
  if (b =? 34) || (b =? 92) then [92; b]
  else if b <? 32 then [92; 117; 48; 48; hex_lower (b / 16); hex_lower (b mod 16)]
  else [b].
Definition escape (s : gostring) : gostring := s ≫= escape_byte.
Definition quote (s : gostring) : gostring := 34 :: escape s ++ [34].

Lemma join_bits a b n : 0 <= n -> 0 <= b < 2 ^ n -> Z.lor (Z.shiftl a n) b = a * 2 ^ n + b.
Proof. intros Hn Hb. rewrite Z.lor_comm, lor_shiftl_add by done. lia. Qed.

Lemma low_bits hi a n k : 0 <= n -> hi = k * 2 ^ n -> 0 <= a < 2 ^ n -> Z.land (hi + a) (Z.ones n) = a.
Proof. intros Hn -> Ha. rewrite Z.land_ones by done. rewrite Z.add_comm, Z.mod_add by lia. by apply Z.mod_small. Qed.

Ltac zdivs := Z.to_euclidean_division_equations; lia.

Lemma decode2 a b rest : 2 <= a < 32 -> 0 <= b < 64 -> decode_rune (0xC0 + a) ((0x80 + b) :: rest) = (a * 64 + b, 2%nat).
Proof.
  intros Ha Hb. unfold decode_rune, is_cont.
  repeat match goal with |- context [?x =? ?y] => destruct (Z.eqb_spec x y); [lia|] end.
  repeat match goal with |- context [?x <? ?y] => destruct (Z.ltb_spec x y); [lia|] end. cbn [fst snd].
  rewrite !(proj2 (Z.leb_le _ _)) by lia. cbn [negb andb].
  change 0x1F with (Z.ones 5). change 0x3F with (Z.ones 6).
  rewrite (low_bits 0xC0 a 5 6), (low_bits 0x80 b 6 2), join_bits by lia. done.
Qed.

Lemma decode3 a b c rest : 0 <= a < 16 -> 0 <= b < 64 -> 0 <= c < 64 -> (a = 0 -> 32 <= b) -> (a = 13 -> b < 32) ->
  decode_rune (0xE0 + a) ((0x80 + b) :: (0x80 + c) :: rest) = ((a * 64 + b) * 64 + c, 3%nat).
Proof.
  intros Ha Hb Hc H0 Hd. unfold decode_rune.
  replace (0xE0 + a <? 0x80) with false by lia. cbv beta iota zeta.
  match goal with |- context [is_cont (fst ?p) (snd ?p) (0x80 + b)] => assert (is_cont (fst p) (snd p) (0x80 + b) = true) as -> end.
  { unfold is_cont. repeat (case_match; cbn [fst snd]); lia. }
  replace ((0xC2 <=? 0xE0 + a) && (0xE0 + a <=? 0xDF)) with false by lia.
  replace (is_cont 0x80 0xBF (0x80 + c)) with true by (unfold is_cont; lia).
  replace ((0xE0 <=? 0xE0 + a) && (0xE0 + a <=? 0xEF)) with true by lia. cbn [negb].
  change 0x0F with (Z.ones 4). change 0x3F with (Z.ones 6).
  rewrite (low_bits 0xE0 a 4 14), (low_bits 0x80 b 6 2), (low_bits 0x80 c 6 2) by lia.
  rewrite <- (Z.lor_assoc (Z.shiftl a 12)), (join_bits b c 6), join_bits by lia. f_equal. lia.
Qed.

Lemma decode4 a b c d rest : 0 <= a < 5 -> 0 <= b < 64 -> 0 <= c < 64 -> 0 <= d < 64 -> (a = 0 -> 16 <= b) -> (a = 4 -> b < 16) ->
  decode_rune (0xF0 + a) ((0x80 + b) :: (0x80 + c) :: (0x80 + d) :: rest) = (((a * 64 + b) * 64 + c) * 64 + d, 4%nat).
Proof.
  intros Ha Hb Hc Hd H0 H4. unfold decode_rune.
  replace (0xF0 + a <? 0x80) with false by lia. cbv beta iota zeta.
  match goal with |- context [is_cont (fst ?p) (snd ?p) (0x80 + b)] => assert (is_cont (fst p) (snd p) (0x80 + b) = true) as -> end.
  { unfold is_cont. repeat (case_match; cbn [fst snd]); lia. }
  replace ((0xC2 <=? 0xF0 + a) && (0xF0 + a <=? 0xDF)) with false by lia.
  replace ((0xE0 <=? 0xF0 + a) && (0xF0 + a <=? 0xEF)) with false by lia.
  replace (is_cont 0x80 0xBF (0x80 + c)) with true by (unfold is_cont; lia).
  replace (is_cont 0x80 0xBF (0x80 + d)) with true by (unfold is_cont; lia).
  replace ((0xF0 <=? 0xF0 + a) && (0xF0 + a <=? 0xF4)) with true by lia. cbn [negb].
  change 0x07 with (Z.ones 3). change 0x3F with (Z.ones 6).
  rewrite (low_bits 0xF0 a 3 30), (low_bits 0x80 b 6 2), (low_bits 0x80 c 6 2), (low_bits 0x80 d 6 2) by lia.
  rewrite <- !Z.lor_assoc, (join_bits c d 6), (join_bits b _ 12), join_bits by lia. f_equal. lia.
Qed.

Lemma utf8_decode r : scalar r -> 0x80 <= r ->
  exists b tl, utf8 r = b :: tl /\ 128 <= b /\ Forall (fun c => 128 <= c) tl /\
    forall rest, decode_rune b (tl ++ rest) = (r, length (utf8 r)).
Proof.
  intros Hs Hr. unfold utf8. rewrite !Z.shiftr_div_pow2 by lia. change 63 with (Z.ones 6). rewrite !Z.land_ones by lia.
  change (2 ^ 6) with 64. change (2 ^ 12) with 4096. change (2 ^ 18) with 262144.
  assert (0 <= r < 0x110000) by (unfold scalar in Hs; lia).
  replace (r <? 0x80) with false by lia.
  destruct (Z.ltb_spec r 0x800); [|replace ((0xD800 <=? r) && (r <=? 0xDFFF)) with false by (unfold scalar in Hs; lia);
    destruct (Z.ltb_spec r 0x10000)].
  - eexists _, [_]. split; [done|]. split; [zdivs|]. split; [repeat constructor; zdivs|]. intros rest.
    cbn [app]. rewrite decode2 by zdivs. f_equal; zdivs.
  - eexists _, [_; _]. split; [done|]. split; [zdivs|]. split; [repeat constructor; zdivs|]. intros rest.
    cbn [app]. rewrite decode3 by (unfold scalar in Hs; zdivs). f_equal; zdivs.
  - eexists _, [_; _; _]. split; [done|]. split; [zdivs|]. split; [repeat constructor; zdivs|]. intros rest.
    cbn [app]. rewrite decode4 by zdivs. f_equal; zdivs.
Qed.

Lemma utf8_ascii r : 0 <= r < 0x80 -> utf8 r = [r].
Proof. intros Hr. unfold utf8. by replace (r <? 0x80) with true by lia. Qed.

Lemma escape_high s : Forall (fun b => 128 <= b) s -> escape s = s.
Proof.
  induction 1 as [|b s Hb _ IH]; [done|]. unfold escape. rewrite bind_cons. fold (escape s). rewrite IH. unfold escape_byte.
  replace ((b =? 34) || (b =? 92)) with false by lia. by replace (b <? 32) with false by lia.
Qed.

Lemma escape_app s t : escape (s ++ t) = escape s ++ escape t.
Proof. apply bind_app. Qed.

Lemma hex_byte_lower d : 0 <= d < 16 -> hex_byte (hex_lower d) = Some d.
Proof.
  intros Hd. assert (forallb (fun n => bool_decide (hex_byte (hex_lower (Z.of_nat n)) = Some (Z.of_nat n))) (seq 0 16) = true) as H by reflexivity.
  rewrite forallb_forall in H. specialize (H (Z.to_nat d)). rewrite bool_decide_eq_true, Z2Nat.id in H by lia.
  apply H, in_seq. lia.
Qed.

(** What the scanner makes of the text of one rune. *)
Lemma quoted_rune f r rest v tl : scalar r -> quoted f rest = Some (v, tl) ->
  quoted (S f) (escape (utf8 r) ++ rest) = Some (utf8 r ++ v, tl).
Proof.
  intros Hs Hq. destruct (Z_lt_le_dec r 0x80) as [Hr|Hr].
  - assert (0 <= r) by (unfold scalar in Hs; lia). rewrite utf8_ascii by lia. unfold escape. rewrite bind_singleton || (cbn [mbind list_bind]; rewrite app_nil_r).
    unfold escape_byte. destruct ((r =? 34) || (r =? 92)) eqn:E1; [|destruct (Z.ltb_spec r 32)].
    + cbn [app quoted]. change (92 =? 34) with false. change (92 <? 32) with false. change (92 =? 92) with true. cbv iota.
      replace (r =? 117) with false by lia. unfold simple_escape. replace ((r =? 34) || (r =? 92) || (r =? 47)) with true by (rewrite E1; done).
      simpl. by rewrite Hq.
    + cbn [app quoted]. change (92 =? 34) with false. change (92 <? 32) with false. change (92 =? 92) with true. change (117 =? 117) with true. cbv iota.
      unfold escaped_rune, getu4. rewrite !hex_byte_lower by zdivs. change (hex_byte 48) with (Some 0). cbn [mbind option_bind].
      replace (((0 * 16 + 0) * 16 + r / 16) * 16 + r mod 16) with r by zdivs.
      replace ((0xD800 <=? r) && (r <=? 0xDFFF)) with false by lia. cbn [mbind option_bind]; simpl (drop 6 _). rewrite drop_0, Hq. cbn. by rewrite utf8_ascii by lia.
    + cbn [app quoted]. replace (r =? 34) with false by lia. replace (r <? 32) with false by lia. replace (r =? 92) with false by lia.
      unfold decode_rune. replace (r <? 128) with true by lia. simpl (drop 1 _). rewrite ?drop_0, Hq. cbn. by rewrite utf8_ascii by lia.
  - destruct (utf8_decode r Hs Hr) as (b & s & E & Hb & Hs' & Hd). rewrite escape_high by (rewrite E; by constructor). rewrite E.
    cbn [app quoted]. replace (b =? 34) with false by lia. replace (b <? 32) with false by lia. replace (b =? 92) with false by lia.
    rewrite Hd, E. replace (drop (length (b :: s)) (b :: s ++ rest)) with rest by (symmetry; apply (drop_app_length (b :: s))).
    by rewrite Hq.
Qed.

Lemma quoted_text rs : Forall scalar rs -> forall f rest, (length rs < f)%nat ->
  quoted f (escape (rs ≫= utf8) ++ 34 :: rest) = Some (rs ≫= utf8, rest).
Proof.
  induction 1 as [|r rs Hr _ IH]; intros f rest Hf; (destruct f as [|f]; [simpl in Hf; lia|]).
  - done.
  - rewrite bind_cons, escape_app, <- app_assoc. apply quoted_rune; [done|]. apply IH. simpl in Hf. lia.
Qed.

Lemma runes_length rs : (length rs <= length (escape (rs ≫= utf8)))%nat.
Proof.
  induction rs as [|r rs IH]; [done|]. rewrite bind_cons, escape_app, length_app. simpl.
  enough (1 <= length (escape (utf8 r)))%nat by lia.
  assert (exists b l, utf8 r = b :: l) as (b & l & ->) by (unfold utf8; repeat case_match; eauto).
  unfold escape. rewrite bind_cons, length_app. unfold escape_byte. repeat case_match; simpl; lia.
Qed.

Lemma string_at_quote s rest : valid_utf8 s -> string_at (quote s ++ rest) = Some (s, rest).
Proof.
  intros (rs & Hrs & ->). unfold string_at, quote. cbn [app eat]. change (34 =? 34) with true. cbn [mbind option_bind].
  rewrite <- app_assoc. apply quoted_text; [done|]. pose proof (runes_length rs). rewrite length_app. simpl. lia.
Qed.

(** * Numbers *)

(** What strconv.Itoa writes for a number that is not negative. *)
Definition decimal (n : gostring) (z : Z) : Prop :=
  Forall (fun b => is_digit b = true) n /\ n <> [] /\ (head n = Some 48 -> n = [48]) /\ digits_value n = z.

Lemma is_digit_range d : 0 <= d < 10 -> is_digit (48 + d) = true.
Proof. unfold is_digit. lia. Qed.

Lemma digits_fuel_decimal f : forall n acc, 0 <= n < 10 ^ Z.of_nat f -> exists ds,
  lit (digits_fuel f n acc) = ds ++ lit acc /\ (f <> O -> decimal ds n).
Proof.
  induction f as [|f IH]; intros n acc Hn; [exists []; by split|]. cbn [digits_fuel].
  set (a := String (ascii_of_nat (Z.to_nat (48 + n mod 10))) acc).
  assert (lit a = [48 + n mod 10] ++ lit acc) as Ha.
  { unfold a, lit. cbn [list_ascii_of_string map app]. f_equal.
    assert (0 <= n mod 10 < 10) by (apply Z.mod_pos_bound; lia). rewrite nat_ascii_embedding by lia. lia. }
  assert (0 <= n mod 10 < 10) by (apply Z.mod_pos_bound; lia).
  destruct (Z.ltb_spec n 10) as [Hlt|Hge].
  - exists [48 + n mod 10]. split; [done|]. intros _. rewrite Z.mod_small by lia. unfold decimal. split_and!; try done.
    + repeat constructor. apply is_digit_range. lia.
    + cbn. intros [= E]. by rewrite E.
    + unfold digits_value. cbn. lia.
  - assert (0 <= n / 10 < 10 ^ Z.of_nat f) as Hd by (rewrite Nat2Z.inj_succ, Z.pow_succ_r in Hn by lia; zdivs).
    destruct (IH (n / 10) a Hd) as (ds & E & Hds). exists (ds ++ [48 + n mod 10]). split; [by rewrite E, Ha, <- app_assoc|]. intros _.
    assert (f <> O) as Hf by (intros ->; simpl in Hd; zdivs). destruct (Hds Hf) as (H1 & H2 & H3 & H4). unfold decimal. split_and!.
    + apply Forall_app. split; [done|]. repeat constructor. apply is_digit_range. lia.
    + by destruct ds.
    + intros Hh. exfalso. destruct ds as [|b ds]; [done|]. simpl in Hh. rewrite H3 in H4 by done. cbn in H4. zdivs.
    + unfold digits_value in *. rewrite fold_left_app, H4. cbn. zdivs.
Qed.

Lemma Itoa_decimal z : 0 <= z < 2 ^ 63 -> decimal (lit (Itoa z)) z.
Proof.
  intros Hz. unfold Itoa. replace (z <? 0) with false by lia.
  destruct (digits_fuel_decimal 20 z "") as (ds & E & Hd); [lia|]. rewrite E, app_nil_r. by apply Hd.
Qed.

Lemma span_digits_app ds rest :
  Forall (fun b => is_digit b = true) ds -> (forall b r, rest = b :: r -> is_digit b = false) -> span_digits (ds ++ rest) = (ds, rest).
Proof.
  intros Hds Hr. induction Hds as [|b ds Hb _ IH]; cbn [app span_digits].
  - destruct rest as [|b r]; [done|]. simpl. by rewrite (Hr b r).
  - by rewrite Hb, IH.
Qed.

(** A text that goes on with no byte of a number. *)
Definition number_ends (rest : gostring) : Prop :=
  forall b r, rest = b :: r -> is_digit b = false /\ b <> 46 /\ b <> 101 /\ b <> 69.

Lemma number_decimal n z rest : decimal n z -> number_ends rest -> number (n ++ rest) = Some (n, rest).
Proof.
  intros (H1 & H2 & H3 & _) Hr. unfold number. destruct n as [|b n]; [done|]. inversion H1 as [|? ? Hb Hn]; subst.
  assert (span_digits (n ++ rest) = (n, rest)) as Hsp by (apply span_digits_app; [done|]; intros; by eapply Hr).
  assert (int_part ((b :: n) ++ rest) = Some (b :: n, rest)) as Hi.
  { unfold int_part. cbn [app eat]. destruct (Z.eqb_spec b 48) as [->|Hb0]; [by injection (H3 eq_refl) as ->|].
    unfold digits_at. cbn [span_digits]. by rewrite Hb, Hsp. }
  cbn [app eat] in *. unfold is_digit in Hb. replace (b =? 45) with false by lia. rewrite Hi. cbn [mbind option_bind].
  assert (frac_part rest = Some ([], rest)) as ->.
  { unfold frac_part, eat. destruct rest as [|c r]; [done|]. destruct (Hr c r eq_refl) as (_ & Hc & _). by replace (c =? 46) with false by lia. }
  cbn [mbind option_bind]. assert (exp_part rest = Some ([], rest)) as ->.
  { unfold exp_part. destruct rest as [|c r]; [done|]. destruct (Hr c r eq_refl) as (_ & _ & Hc & Hc'). by replace ((c =? 101) || (c =? 69)) with false by lia. }
  cbn [mbind option_bind]. by rewrite !app_nil_r.
Qed.

Lemma Atoi_decimal n z : decimal n z -> z < 2 ^ 63 -> Atoi (bytes n) = Some z.
Proof.
  intros (H1 & H2 & _ & H4) Hz.
  assert (forall l acc, Forall (fun b => is_digit b = true) l -> atoi_digits acc (bytes l) = Some (fold_left (fun a d => a * 10 + (d - 48)) l acc)) as Hf.
  { intros l. induction l as [|b l IH]; intros acc; [done|]. intros [Hb Hl]%Forall_cons. unfold is_digit in Hb. cbn [bytes map].
    unfold bytes in *. cbn [map string_of_list_ascii atoi_digits]. unfold digit. rewrite nat_ascii_embedding, Z2Nat.id by lia.
    replace ((0 <=? b - 48) && (b - 48 <=? 9)) with true by lia. cbn [mbind option_bind]. rewrite IH by done. done. }
  destruct n as [|b n]; [done|]. apply Forall_cons in H1 as [Hb Hn]. pose proof Hb as Hb'. unfold is_digit in Hb.
  unfold Atoi, bytes. cbn [map string_of_list_ascii].
  assert (forall c, code c <> b -> Ascii.eqb (ascii_of_nat (Z.to_nat b)) c = false) as Hc.
  { intros c Hc. apply Ascii.eqb_neq. intros <-. apply Hc. unfold code. rewrite nat_ascii_embedding; lia. }
  rewrite (Hc "-"%char), (Hc "+"%char) by (vm_compute; lia). cbn iota.
  fold (bytes n). change (String _ (bytes n)) with (bytes (b :: n)). rewrite decide_False by done.
  rewrite Hf by (by constructor). cbn [mbind option_bind]. unfold digits_value in H4. rewrite H4.
  assert (0 <= z); [|by replace ((- 2 ^ 63 <=? z) && (z <? 2 ^ 63)) with true by lia].
  rewrite <- H4. clear - Hb' Hn. assert (forall l acc, Forall (fun b => is_digit b = true) l -> 0 <= acc -> 0 <= fold_left (fun a d => a * 10 + (d - 48)) l acc) as Hp.
  { intros l. induction l as [|c l IH]; intros acc; [done|]. intros [Hc Hl]%Forall_cons Ha. simpl. apply IH; [done|]. unfold is_digit in Hc. lia. }
  apply Hp; [by constructor | lia].
Qed.

(** * Values *)

Definition join_commas (l : list gostring) : gostring :=
  match l with [] => [] | x :: l' => x ++ (l' ≫= fun y => 44 :: y) end.

Fixpoint print (v : json) : gostring :=
  match v with
  | JNull => lit "null"
  | JBool true => lit "true"
  | JBool false => lit "false"
  | JNum n => n
  | JStr s => quote s
  | JArr l => 91 :: join_commas (map print l) ++ [93]
  | JObj ms => 123 :: join_commas (map (fun m => quote m.1 ++ 58 :: print m.2.2) ms) ++ [125]
  end.

(** A member with the bytes its value is written in. *)
Definition member (k : string) (v : json) : gostring * (gostring * json) := (lit k, (print v, v)).

(** Values a server can write: strings in UTF-8, integers in decimal, members
    with their bytes, and at most [d] levels of arrays and objects. *)
Inductive writable : Z -> json -> Prop :=
| w_null d : writable d JNull
| w_bool d b : writable d (JBool b)
| w_num d n z : decimal n z -> writable d (JNum n)
| w_str d s : valid_utf8 s -> writable d (JStr s)
| w_arr d l : 0 < d -> Forall (writable (d - 1)) l -> writable d (JArr l)
| w_obj d ms : 0 < d -> Forall (fun m => valid_utf8 m.1 /\ m.2.1 = print m.2.2 /\ writable (d - 1) m.2.2) ms -> writable d (JObj ms).

(** What may follow a value: the end, a comma or a closing bracket. *)
Definition ends (rest : gostring) : Prop := rest = [] \/ exists b r, rest = b :: r /\ (b = 44 \/ b = 93 \/ b = 125).

Lemma ends_number rest : ends rest -> number_ends rest.
Proof. intros [->|(b & r & -> & Hb)] c r' [= <- <-]. unfold is_digit. lia. Qed.

Lemma skip_ws_cons b r : is_space b = false -> skip_ws (b :: r) = b :: r.
Proof. simpl. by intros ->. Qed.

Definition starts (s : gostring) : Prop := exists b r, s = b :: r /\ is_space b = false /\ b <> 93 /\ b <> 125.

Lemma print_starts d v rest : writable d v -> starts (print v ++ rest).
Proof.
  unfold starts. destruct 1 as [|d []|d n z (H1 & H2 & _)| | |].
  4: { destruct n as [|b n]; [done|]. apply Forall_cons in H1 as [Hb _]. unfold is_digit in Hb. unfold is_space. eexists _, _; split; [done|lia]. }
  all: eexists _, _; split; [reflexivity | done].
Qed.

Lemma starts_facts s : starts s -> skip_ws s = s /\ eat 93 s = None /\ eat 125 s = None.
Proof.
  intros (b & r & -> & Hb & H1 & H2). simpl. rewrite Hb. replace (b =? 93) with false by lia. by replace (b =? 125) with false by lia.
Qed.

Lemma eat_hit c r : eat c (c :: r) = Some r.
Proof. unfold eat. by rewrite Z.eqb_refl. Qed.

Lemma eat_miss c b r : b <> c -> eat c (b :: r) = None.
Proof. unfold eat. by intros ->%Z.eqb_neq. Qed.

Lemma join_commas_cons x y l : join_commas (x :: y :: l) = x ++ 44 :: join_commas (y :: l).
Proof. done. Qed.

Lemma literal_number n z rest : decimal n z -> ends rest ->
  eat 91 (n ++ rest) = None /\ eat 123 (n ++ rest) = None /\ literal_at (n ++ rest) = Some (JNum n, rest).
Proof.
  intros Hn He. pose proof (number_decimal n z rest Hn (ends_number rest He)) as E. destruct Hn as (H1 & H2 & _).
  destruct n as [|b n]; [done|]. apply Forall_cons in H1 as [Hb _]. unfold is_digit in Hb. cbn [app] in *.
  assert (forall c, (c < 48 \/ 57 < c) -> eat c (b :: n ++ rest) = None) as Hc by (intros c Hc; unfold eat; by replace (b =? c) with false by lia).
  split; [apply Hc; lia|]. split; [apply Hc; lia|]. unfold literal_at.
  assert (forall c w, (c < 48 \/ 57 < c) -> eat_all (c :: w) (b :: n ++ rest) = None) as Hw by (intros c w Hw; cbn [eat_all]; by rewrite Hc).
  change (lit "null") with (110 :: lit "ull"). change (lit "true") with (116 :: lit "rue"). change (lit "false") with (102 :: lit "alse").
  rewrite !Hw, Hc by lia. cbn [mbind option_bind]. by rewrite E.
Qed.

(** How a value is read from its text: what the induction needs of it. *)
Definition reads (v : json) : Prop := forall (f : nat) (depth d : Z) (rest : gostring),
  writable d v -> ends rest -> depth + d <= maxNestingDepth -> (2 * length (print v ++ rest) < f)%nat ->
  value f depth (print v ++ rest) = Some (v, rest).

Lemma elements_text l : l <> [] -> Forall reads l -> forall (f : nat) (depth d : Z) (rest : gostring),
  Forall (writable d) l -> depth + d <= maxNestingDepth ->
  (2 * length (join_commas (map print l) ++ 93%Z :: rest) + 1 < f)%nat ->
  elements f depth (join_commas (map print l) ++ 93 :: rest) = Some (l, rest).
Proof.
  induction l as [|v l IH]; [done|]. intros _ [Hv Hl]%Forall_cons f depth d rest [Wv Wl]%Forall_cons Hd Hf.
  destruct f as [|f]; [lia|]. cbn [elements]. destruct l as [|w l].
  - cbn [map join_commas mbind list_bind] in *. rewrite app_nil_r in *.
    rewrite (Hv f depth d (93 :: rest)); [cbn [mbind option_bind]; by rewrite !skip_ws_cons, eat_hit|done|right; eexists _, _; split; [done|lia]|done|lia].
  - cbn [map] in *. rewrite join_commas_cons, <- app_assoc in *. cbn [app] in *.
    set (more := join_commas (print w :: map print l) ++ 93 :: rest) in *.
    assert (length (print v ++ 44%Z :: more) = length (print v) + S (length more))%nat as El by (rewrite length_app; simpl; lia).
    rewrite (Hv f depth d); [|done|right; eexists _, _; split; [done|lia]|done|lia]. cbn [mbind option_bind].
    rewrite !skip_ws_cons, eat_miss, eat_hit by done.
    assert (starts more) as (Hs & _)%starts_facts.
    { unfold more, join_commas. rewrite <- app_assoc. apply (print_starts d). by apply Forall_cons in Wl as [? _]. }
    rewrite Hs. unfold more.
    rewrite (IH ltac:(done) Hl f depth d rest Wl Hd); [done|]. fold more. lia.
Qed.

Definition print_member (m : gostring * (gostring * json)) : gostring := quote m.1 ++ 58 :: print m.2.2.
Definition wf_member (d : Z) (m : gostring * (gostring * json)) : Prop :=
  valid_utf8 m.1 /\ m.2.1 = print m.2.2 /\ writable d m.2.2.

Lemma member_starts d m rest : wf_member d m -> starts (print_member m ++ rest).
Proof. intros _. unfold print_member, quote. eexists _, _. split; [reflexivity|done]. Qed.

Lemma member_text m f depth d rest : reads m.2.2 -> wf_member d m -> ends rest -> depth + d <= maxNestingDepth ->
  (2 * length (print_member m ++ rest) < f)%nat ->
  string_at (print_member m ++ rest) = Some (m.1, 58 :: print m.2.2 ++ rest) /\
  value f depth (skip_ws (print m.2.2 ++ rest)) = Some (m.2.2, rest) /\
  read_bytes (skip_ws (print m.2.2 ++ rest)) rest = m.2.1.
Proof.
  intros Hr (Hk & Hb & Hw) He Hd Hf. unfold print_member in *. rewrite <- app_assoc in *. cbn [app] in *.
  rewrite length_app in Hf. simpl in Hf. split; [by apply string_at_quote|].
  destruct (starts_facts _ (print_starts d _ rest Hw)) as (-> & _ & _). split; [apply (Hr f depth d); [done|done|done|lia]|].
  unfold read_bytes. rewrite length_app, Hb. replace (_ - _)%nat with (length (print m.2.2)) by lia. apply take_app_length.
Qed.

Lemma members_text ms : ms <> [] -> Forall (fun m => reads m.2.2) ms -> forall (f : nat) (depth d : Z) (rest : gostring),
  Forall (wf_member d) ms -> depth + d <= maxNestingDepth ->
  (2 * length (join_commas (map print_member ms) ++ 125%Z :: rest) + 1 < f)%nat ->
  members f depth (join_commas (map print_member ms) ++ 125 :: rest) = Some (ms, rest).
Proof.
  induction ms as [|m ms IH]; [done|]. intros _ [Hv Hl]%Forall_cons f depth d rest [Wv Wl]%Forall_cons Hd Hf.
  destruct f as [|f]; [lia|]. cbn [members]. destruct ms as [|w ms].
  - cbn [map join_commas mbind list_bind] in *. rewrite app_nil_r in *.
    destruct (member_text m f depth d (125 :: rest) Hv Wv) as (-> & Hval & Hraw); [right; eexists _, _; split; [done|lia]|done|lia|].
    cbn [mbind option_bind]. rewrite skip_ws_cons, eat_hit by done. cbn [mbind option_bind].
    rewrite Hval. cbn [mbind option_bind]. rewrite Hraw, !skip_ws_cons, eat_hit by done. by destruct m as [k [raw v]].
  - cbn [map] in *. rewrite join_commas_cons, <- app_assoc in *. cbn [app] in *.
    set (more := join_commas (print_member w :: map print_member ms) ++ 125 :: rest) in *.
    assert (length (print_member m ++ 44%Z :: more) = length (print_member m) + S (length more))%nat as El by (rewrite length_app; simpl; lia).
    destruct (member_text m f depth d (44 :: more) Hv Wv) as (-> & Hval & Hraw); [right; eexists _, _; split; [done|lia]|done|lia|].
    cbn [mbind option_bind]. rewrite skip_ws_cons, eat_hit by done. cbn [mbind option_bind].
    rewrite Hval. cbn [mbind option_bind]. rewrite Hraw, !skip_ws_cons, eat_miss, eat_hit by done.
    assert (starts more) as (Hs & _)%starts_facts.
    { unfold more, join_commas. rewrite <- app_assoc. apply (member_starts d). by apply Forall_cons in Wl as [? _]. }
    rewrite Hs. unfold more.
    rewrite (IH ltac:(done) Hl f depth d rest Wl Hd); [by destruct m as [k [raw v]]|]. fold more. lia.
Qed.

Section Induction.
Variable P : json -> Prop.
Hypothesis null_case : P JNull.
Hypothesis bool_case : forall b, P (JBool b).
Hypothesis num_case : forall n, P (JNum n).
Hypothesis str_case : forall s, P (JStr s).
Hypothesis arr_case : forall l, Forall P l -> P (JArr l).
Hypothesis obj_case : forall ms, Forall (fun m => P m.2.2) ms -> P (JObj ms).

Fixpoint json_ind (v : json) : P v :=
  match v with
  | JNull => null_case
  | JBool b => bool_case b
  | JNum n => num_case n
  | JStr s => str_case s
  | JArr l => arr_case l ((fix go l : Forall P l :=
      match l with [] => Forall_nil_2 P | x :: l' => Forall_cons_2 P x l' (json_ind x) (go l') end) l)
  | JObj ms => obj_case ms ((fix go ms : Forall (fun m => P m.2.2) ms :=
      match ms with [] => Forall_nil_2 _ | (k, (raw, x)) :: ms' => Forall_cons_2 _ (k, (raw, x)) ms' (json_ind x) (go ms') end) ms)
  end.
End Induction.

Lemma print_obj ms : print (JObj ms) = 123 :: join_commas (map print_member ms) ++ [125].
Proof. reflexivity. Qed.

(** A value is read back from its text. *)
Lemma value_text v : reads v.
Proof.
  induction v as [| b | n | s | l IH | ms IH]; intros f depth d rest Hw He Hd Hf; (destruct f as [|f]; [lia|]).
  - reflexivity.
  - destruct b; reflexivity.
  - inversion Hw as [| |? ? z Hn| | |]; subst. destruct (literal_number n z rest Hn He) as (E1 & E2 & E3). cbn [print value].
    by rewrite E1, E2.
  - inversion Hw as [| | |? ? Hs| |]; subst. cbn [print value]. change (quote s ++ rest) with (34 :: (escape s ++ [34]) ++ rest).
    rewrite !eat_miss by done. unfold literal_at.
    change (34 :: (escape s ++ [34]) ++ rest) with (quote s ++ rest). rewrite string_at_quote by done. reflexivity.
  - inversion Hw as [| | | |? ? Hp Hl|]; subst. cbn [print] in *. cbn [app value]. rewrite eat_hit. cbn [app length] in Hf.
    replace (depth <? maxNestingDepth) with true by lia. rewrite <- app_assoc in *. destruct l as [|x l].
    + cbn [map join_commas app]. by rewrite skip_ws_cons, eat_hit.
    + assert (starts (join_commas (map print (x :: l)) ++ [93] ++ rest)) as (-> & -> & _)%starts_facts.
      { cbn [map]. unfold join_commas. rewrite <- app_assoc. apply (print_starts (d - 1)). by apply Forall_cons in Hl as [? _]. }
      cbn [app] in *. by rewrite (elements_text (x :: l) ltac:(done) IH f (depth + 1) (d - 1) rest Hl) by lia.
  - inversion Hw as [| | | | |? ? Hp Hl]; subst. rewrite print_obj in *. cbn [app value]. rewrite eat_miss, eat_hit by done. cbn [app length] in Hf.
    replace (depth <? maxNestingDepth) with true by lia. rewrite <- app_assoc in *. destruct ms as [|x ms].
    + cbn [map join_commas app]. by rewrite skip_ws_cons, eat_hit.
    + assert (starts (join_commas (map print_member (x :: ms)) ++ [125] ++ rest)) as (-> & _ & ->)%starts_facts.
      { cbn [map]. unfold join_commas. rewrite <- app_assoc. apply (member_starts (d - 1)). by apply Forall_cons in Hl as [? _]. }
      cbn [app] in *. by rewrite (members_text (x :: ms) ltac:(done) IH f (depth + 1) (d - 1) rest Hl) by lia.
Qed.

(** A text that is written is read. *)
Lemma parse_print v : writable maxNestingDepth v -> parse (print v) = Some v.
Proof.
  intros Hw. unfold parse. destruct (starts_facts _ (print_starts _ v [] Hw)) as (E & _). rewrite app_nil_r in E. rewrite E.
  pose proof (value_text v (S (2 * length (print v))) 0 maxNestingDepth [] Hw) as Hv. rewrite app_nil_r in Hv.
  rewrite Hv; [done|by left|lia|lia].
Qed.

Lemma writable_mono d e v : d <= e -> writable d v -> writable e v.
Proof.
  revert d e. induction v as [| b | n | s | l IH | ms IH]; intros d e Hde Hw; inversion Hw as [| | | |? ? Hp Hl|? ? Hp Hl]; subst; econstructor; eauto; try lia.
  - rewrite Forall_forall in *. intros x Hx. apply (IH x Hx (d - 1)); [lia | by apply Hl].
  - rewrite Forall_forall in *. intros x Hx. destruct (Hl x Hx) as (H1 & H2 & H3). split_and!; [done..|]. apply (IH x Hx (d - 1)); [lia | done].
Qed.

(** The bytes UnmarshalJSON gets of a written text are all of it. *)
Lemma print_value_bytes v : writable maxNestingDepth v ->
  exists r, value (S (2 * length (print v))) 0 (skip_ws (print v)) = Some (v, r) /\ read_bytes (skip_ws (print v)) r = print v.
Proof.
  intros Hw. destruct (starts_facts _ (print_starts _ v [] Hw)) as (E & _). rewrite app_nil_r in E. rewrite E.
  pose proof (value_text v (S (2 * length (print v))) 0 maxNestingDepth [] Hw) as Hv. rewrite app_nil_r in Hv.
  exists []. rewrite Hv; [|by left|lia|lia]. split; [done|]. unfold read_bytes. apply take_ge. simpl. lia.
Qed.
