(* ===== verification/Errors.v ===== *)
(** * Errors

    Go errors as trees: a leaf, a node that wraps one error (Unwrap() error) or
    one that wraps several (Unwrap() []error), with errors.As and errors.Is as
    their walk. The leaves are the error types of error.go and of
    opensearchapi/errors.go, and whatever else reaches them. *)

From Stdlib Require Import Ascii String.
From stdpp Require Import base list strings.
From Stdlib Require Import ZArith Lia.
From S2P Require Import Prelude.
From S2P Require Import GoStrings.
From S2P Require Import ShardHash.
From S2P Require Import ShardRouting.
From S2P Require Import BulkIndexer.
From S2P Require Import Json.
Open Scope list_scope.
Open Scope Z_scope.

(** * Trees of errors *)

Section Tree.
Context {L W N : Type}.

#[local] Unset Elimination Schemes.
Inductive tree :=
| Leaf (l : L)
| Wrap (w : W) (e : tree)
| Multi (n : N) (es : list tree).
#[local] Set Elimination Schemes.

Section Ind.
Variable P : tree -> Prop.
Hypothesis leaf_case : forall l, P (Leaf l).
Hypothesis wrap_case : forall w e, P e -> P (Wrap w e).
Hypothesis multi_case : forall n es, Forall P es -> P (Multi n es).

Fixpoint tree_ind (e : tree) : P e :=
  match e with
  | Leaf l => leaf_case l
  | Wrap w e => wrap_case w e (tree_ind e)
  | Multi n es => multi_case n es ((fix go es : Forall P es :=
      match es with [] => Forall_nil_2 P | e :: es' => Forall_cons_2 P e es' (tree_ind e) (go es') end) es)
  end.
End Ind.

(** errors.As: the first error in the order of the walk that the target takes. *)
Fixpoint As {A} (f : tree -> option A) (e : tree) : option A :=
  match f e with
  | Some a => Some a
  | None =>
    match e with
    | Leaf _ => None
    | Wrap _ e' => As f e'
    | Multi _ es => (fix go es := match es with [] => None | x :: es' => match As f x with Some a => Some a | None => go es' end end) es
    end
  end.

(** The errors of a tree in the order of the walk. *)
Fixpoint walk (e : tree) : list tree :=
  e :: match e with
  | Leaf _ => []
  | Wrap _ e' => walk e'
  | Multi _ es => (fix go es := match es with [] => [] | x :: es' => walk x ++ go es' end) es
  end.

Definition first_of {A B} (f : A -> option B) (l : list A) : option B := head (omap f l).

Lemma first_of_app {A B} (f : A -> option B) l k :
  first_of f (l ++ k) = match first_of f l with Some b => Some b | None => first_of f k end.
Proof. unfold first_of. rewrite omap_app. destruct (omap f l); done. Qed.

Lemma first_of_Some {A B} (f : A -> option B) l b : first_of f l = Some b -> exists x, x ∈ l /\ f x = Some b.
Proof.
  unfold first_of. intros H. assert (b ∈ omap f l) as Hb by (destruct (omap f l); simplify_eq/=; by left).
  apply list_elem_of_omap in Hb as (x & Hx & Hf). eauto.
Qed.

Lemma first_of_None {A B} (f : A -> option B) l : first_of f l = None <-> forall x, x ∈ l -> f x = None.
Proof.
  unfold first_of. split.
  - intros H x Hx. destruct (f x) as [b|] eqn:E; [|done]. exfalso.
    assert (b ∈ omap f l) as Hb by (apply list_elem_of_omap; eauto). destruct (omap f l); [by apply elem_of_nil in Hb | done].
  - intros H. destruct (omap f l) as [|b k] eqn:E; [done|]. exfalso.
    assert (b ∈ omap f l) as Hb by (rewrite E; left). apply list_elem_of_omap in Hb as (x & Hx & Hf). by rewrite (H x Hx) in Hf.
Qed.

Lemma walk_multi n es : walk (Multi n es) = Multi n es :: es ≫= walk.
Proof. reflexivity. Qed.

(** errors.As is the first match of the walk. *)
Lemma As_walk {A} (f : tree -> option A) e : As f e = first_of f (walk e).
Proof.
  induction e as [l|w e IH|n es IH].
  - unfold first_of. simpl. by destruct (f _).
  - unfold first_of in *. simpl. destruct (f _); [done|exact IH].
  - rewrite walk_multi. unfold first_of at 1. simpl. destruct (f (Multi n es)); [done|].
    change (head _) with (first_of f (es ≫= walk)). induction IH as [|x es Hx _ IHes]; [done|].
    rewrite bind_cons, first_of_app, <- Hx. destruct (As f x); [done|]. exact IHes.
Qed.

Lemma walk_self e : e ∈ walk e.
Proof. destruct e; left. Qed.

Lemma As_self {A} (f : tree -> option A) e a : f e = Some a -> As f e = Some a.
Proof. destruct e; simpl; by intros ->. Qed.

Lemma As_wrap {A} (f : tree -> option A) w e : f (Wrap w e) = None -> As f (Wrap w e) = As f e.
Proof. simpl. by intros ->. Qed.

Lemma As_multi {A} (f : tree -> option A) n es : f (Multi n es) = None -> As f (Multi n es) = first_of (As f) es.
Proof.
  simpl. intros ->. unfold first_of. induction es as [|x es IH]; [done|]. simpl. destruct (As f x); [done|]. exact IH.
Qed.
End Tree.
Arguments tree : clear implicits.
#[export] Hint Resolve walk_self : core.

(** * The error types *)

(** error.go. *)
Record RootCause := MkRootCause { rc_Type : gostring; rc_Reason : gostring; rc_Index : gostring; rc_IndexUUID : gostring }.
#[local] Unset Elimination Schemes.
Inductive CausedBy := MkCausedBy (Type_ Reason : gostring) (next : option CausedBy).
#[local] Set Elimination Schemes.
Record Err := MkErr {
  er_RootCause : list RootCause;
  er_Type : gostring;
  er_Reason : gostring;
  er_CausedBy : option CausedBy;
  er_Index : gostring;
  er_IndexUUID : gostring }.

(** opensearchapi/errors.go; of a failure of a shard and of a bulk item the
    members that are read. *)
Record ShardSearchFailure := MkShardSearchFailure { sf_Index : option string; sf_Node : option string; sf_Reason : ErrorCause; sf_Shard : Z }.
Record ErrorRespBase := MkErrorRespBase { eb_Error : ErrorCause; eb_Status : Z }.
Record MultiSearchItemFailure := MkMultiSearchItemFailure { mf_Index : Z; mf_ErrorRespBase : ErrorRespBase }.

(** The variables errors are compared with. *)
Inductive sentinel :=
| ErrUnexpectedEmptyBody | ErrReadBody | ErrJSONUnmarshalBody | ErrUnknownOpensearchError | ErrResponseBodyRead.
#[export] Instance sentinel_eq : EqDecision sentinel.
Proof. solve_decision. Defined.

Inductive leaf :=
| Sentinel (s : sentinel)
| AnError (e : gostring)
| AStringError (e : gostring) (status : Z)
| AReasonError (reason status : gostring)
| AMessageError (message status : gostring)
| AStructError (e : Err) (status : Z)
| AJsonError (e : json_error)
| APartialBulkError (FailedItems : list BulkRespItem) (SucceededCount : Z)
| APartialSearchError (FailedShards TotalShards : Z) (Failures : list ShardSearchFailure)
| AMultiSearchItemError (Items : list MultiSearchItemFailure) (SucceededCount : Z)
| AShardFailureError (Operation : string) (FailedShards TotalShards : Z)
| AUnionBranchError (Union Want Got : string)
| AText (text : string).

(** fmt.Errorf with one wrapped error, and a UnionBranchError with a cause. *)
Inductive wrapper := Errorf (text : string) | UnionBranchError (Union Want : string).

(** fmt.Errorf with several, errors.Join, and the errors of an operation. *)
Inductive several := ErrorfAll (text : string) | joinError | MSearchErrors | MSearchTemplateErrors.

Definition error : Type := tree leaf wrapper several.

(** errors.Is for a variable. *)
Definition is_sentinel (s : sentinel) (e : error) : option unit :=
  match e with Leaf (Sentinel s') => if decide (s = s') then Some tt else None | _ => None end.
Definition Is (s : sentinel) (e : error) : bool := match As (is_sentinel s) e with Some _ => true | None => false end.

(** errors.Join drops the nil errors. *)
Definition Join (es : list (option error)) : option error :=
  match omap id es with [] => None | es => Some (Multi joinError es) end.

(** * Texts *)

Section Text.
(** The texts of encoding/json. *)
Context (json_text : json_error -> string).

Definition pieces (l : list string) : string := String.concat "" l.

Definition sentinel_text (s : sentinel) : string :=
  match s with
  | ErrUnexpectedEmptyBody => "body is unexpectedly empty"
  | ErrReadBody => "failed to read body"
  | ErrJSONUnmarshalBody => "failed to json unmarshal body"
  | ErrUnknownOpensearchError => "opensearch error response could not be parsed as error"
  | ErrResponseBodyRead => "error reading response body"
  end.

(** CausedBy.String, and a list of causes under the verb for strings. *)
Fixpoint CausedBy_String (c : CausedBy) : string :=
  match c with
  | MkCausedBy t r None => pieces ["{type: "; bytes t; ", reason: "; bytes r; "}"]
  | MkCausedBy t r (Some c') => pieces ["{type: "; bytes t; ", reason: "; bytes r; ", caused_by: "; CausedBy_String c'; "}"]
  end.
Definition RootCause_String (c : RootCause) : string :=
  pieces ["{"; bytes (rc_Type c); " "; bytes (rc_Reason c); " "; bytes (rc_Index c); " "; bytes (rc_IndexUUID c); "}"].

Definition StructError_Error (e : Err) (status : Z) : string :=
  String.append
    (pieces ["status: "; Itoa status; ", type: "; bytes (er_Type e); ", reason: "; bytes (er_Reason e); ", root_cause: [";
             String.concat " " (map RootCause_String (er_RootCause e)); "]"])
    match er_CausedBy e with Some c => String.append ", caused_by: " (CausedBy_String c) | None => "" end.

Definition leaf_text (l : leaf) : string :=
  match l with
  | Sentinel s => sentinel_text s
  | AnError e => String.append "error: " (bytes e)
  | AStringError e status => pieces ["status: "; Itoa status; ", error: "; bytes e]
  | AReasonError reason status => pieces ["status: "; bytes status; ", reason: "; bytes reason]
  | AMessageError message status => pieces ["status: "; bytes status; ", message: "; bytes message]
  | AStructError e status => StructError_Error e status
  | AJsonError e => json_text e
  | APartialBulkError failed succeeded =>
    let n := Z.of_nat (length failed) in pieces ["bulk operation partially failed: "; Itoa n; "/"; Itoa (wrap64 (succeeded + n)); " items failed"]
  | APartialSearchError failed total _ => pieces ["search partially failed: "; Itoa failed; "/"; Itoa total; " shards failed"]
  | AMultiSearchItemError items succeeded =>
    let n := Z.of_nat (length items) in
    pieces ["multi-search partially failed: "; Itoa n; "/"; Itoa (wrap64 (succeeded + n)); " sub-queries failed"]
  | AShardFailureError op failed total => pieces [op; " had shard failures: "; Itoa failed; "/"; Itoa total; " shards failed"]
  | AUnionBranchError union want got => pieces [union; ": holds branch "; got; ", not "; want]
  | AText t => t
  end.

Definition formatPerOpErrors (op : string) (texts : list string) : string :=
  pieces [op; " partial failures: "; String.concat "; " texts].

(** The Error method. *)
Fixpoint Error (e : error) : string :=
  match e with
  | Leaf l => leaf_text l
  | Wrap (Errorf text) _ => text
  | Wrap (UnionBranchError union want) e' => pieces [union; ": payload is not branch "; want; ": "; Error e']
  | Multi n es =>
    let texts := map Error es in
    match n with
    | ErrorfAll text => text
    | joinError => String.concat (String (ascii_of_nat 10) "") texts
    | MSearchErrors => formatPerOpErrors "msearch" texts
    | MSearchTemplateErrors => formatPerOpErrors "msearch_template" texts
    end
  end.
End Text.
