(* ===== verification/Client.v ===== *)
(** * The client

    response.go, error.go, Execute of opensearch.go and [request] of
    opensearchapi/api.go: a request is sent through the transport, its response
    buffered and decoded, and an error response turned into an error value.

    The transport is the interface opensearchtransport.Interface, a computation
    over its own state; Stream.v implements it. Decoding into the caller's type
    is an argument, as is strconv.Quote, which only shapes a text. *)

From Stdlib Require Import Ascii String.
From stdpp Require Import base gmap list strings.
From Stdlib Require Import ZArith Lia.
From S2P Require Import Prelude.
From S2P Require Import GoStrings.
From S2P Require Import ShardHash.
From S2P Require Import ShardRouting.
From S2P Require Import BulkIndexer.
From S2P Require Import Json.
From S2P Require Import Errors.
From S2P Require Import Stream.
Open Scope list_scope.
Open Scope bool_scope.
Open Scope Z_scope.

(** * Responses *)

(** What is left to read of a body, and the error at its end. *)
Definition body : Type := gostring * option error.

(** An [http.Response]; the body may be nil. *)
Record http_response := MkHttp {
  hp_StatusCode : Z;
  hp_Header : gmap string (list string);
  hp_Body : option body }.

(** Response. [rp_render] is the cache behind its pointer: nil, empty, or loaded.
    The reader of the body and the cache are shared by the copies of a value:
    an operation on a copy gives the new state of both. *)
Record Response := MkResponse {
  rp_StatusCode : Z;
  rp_Header : gmap string (list string);
  rp_Body : option body;
  rp_rawBody : option gostring;
  rp_render : option (option body) }.

Definition NewResponse (statusCode : Z) (b : option body) (header : gmap string (list string)) : Response :=
  MkResponse statusCode header b None (Some None).

Definition set_Body (r : Response) (b : option body) : Response :=
  MkResponse (rp_StatusCode r) (rp_Header r) b (rp_rawBody r) (rp_render r).
Definition set_render (r : Response) (c : option (option body)) : Response :=
  MkResponse (rp_StatusCode r) (rp_Header r) (rp_Body r) (rp_rawBody r) c.
Definition set_rawBody (r : Response) (b : option gostring) : Response :=
  MkResponse (rp_StatusCode r) (rp_Header r) (rp_Body r) b (rp_render r).

(** io.ReadAll takes all there is; the error stays at the end. *)
Definition drained (b : body) : body := ([], b.2).

Definition RawBody (r : Response) : option gostring := rp_rawBody r.
Definition HijackBody (r : Response) : option gostring * Response := (rp_rawBody r, set_rawBody r None).

Definition httpStatusCodeThreshold : Z := 299.
Definition IsError (r : Response) : bool := httpStatusCodeThreshold <? rp_StatusCode r.

(** http.StatusText. *)
Definition status_texts : list (Z * string) := [
  (100, "Continue"); (101, "Switching Protocols"); (102, "Processing"); (103, "Early Hints");
  (200, "OK"); (201, "Created"); (202, "Accepted"); (203, "Non-Authoritative Information"); (204, "No Content");
  (205, "Reset Content"); (206, "Partial Content"); (207, "Multi-Status"); (208, "Already Reported"); (226, "IM Used");
  (300, "Multiple Choices"); (301, "Moved Permanently"); (302, "Found"); (303, "See Other"); (304, "Not Modified");
  (305, "Use Proxy"); (307, "Temporary Redirect"); (308, "Permanent Redirect");
  (400, "Bad Request"); (401, "Unauthorized"); (402, "Payment Required"); (403, "Forbidden"); (404, "Not Found");
  (405, "Method Not Allowed"); (406, "Not Acceptable"); (407, "Proxy Authentication Required"); (408, "Request Timeout");
  (409, "Conflict"); (410, "Gone"); (411, "Length Required"); (412, "Precondition Failed");
  (413, "Request Entity Too Large"); (414, "Request URI Too Long"); (415, "Unsupported Media Type");
  (416, "Requested Range Not Satisfiable"); (417, "Expectation Failed"); (418, "I'm a teapot");
  (421, "Misdirected Request"); (422, "Unprocessable Entity"); (423, "Locked"); (424, "Failed Dependency");
  (425, "Too Early"); (426, "Upgrade Required"); (428, "Precondition Required"); (429, "Too Many Requests");
  (431, "Request Header Fields Too Large"); (451, "Unavailable For Legal Reasons");
  (500, "Internal Server Error"); (501, "Not Implemented"); (502, "Bad Gateway"); (503, "Service Unavailable");
  (504, "Gateway Timeout"); (505, "HTTP Version Not Supported"); (506, "Variant Also Negotiates");
  (507, "Insufficient Storage"); (508, "Loop Detected"); (510, "Not Extended"); (511, "Network Authentication Required")].
Definition StatusText (code : Z) : string :=
  match List.find (fun e => e.1 =? code) status_texts with Some e => e.2 | None => ""%string end.

Definition Status (r : Response) : string :=
  let status := StatusText (rp_StatusCode r) in
  pieces ["["; Itoa (rp_StatusCode r); " "; if decide (status = ""%string) then "<nil>" else status; "]"]%string.

(** The bytes String renders; [None] without a body. *)
Definition renderedBody (r : Response) : option body * Response :=
  match rp_rawBody r, rp_render r, rp_Body r with
  | Some raw, _, _ => (Some (raw, None), r)
  | None, Some (Some c), _ => (Some c, r)
  | None, _, None => (None, r)
  | None, c, Some b => (Some b, set_render (set_Body r (Some (drained b))) ((fun _ => Some b) <$> c))
  end.

(** * Decoding error responses *)

Definition no_RootCause : RootCause := MkRootCause [] [] [] [].
Definition d_RootCause : decoder RootCause := d_struct [
  ("type", into rc_Type (fun v c => MkRootCause v (rc_Reason c) (rc_Index c) (rc_IndexUUID c)) d_string);
  ("reason", into rc_Reason (fun v c => MkRootCause (rc_Type c) v (rc_Index c) (rc_IndexUUID c)) d_string);
  ("index", into rc_Index (fun v c => MkRootCause (rc_Type c) (rc_Reason c) v (rc_IndexUUID c)) d_string);
  ("index_uuid", into rc_IndexUUID (fun v c => MkRootCause (rc_Type c) (rc_Reason c) (rc_Index c) v) d_string)]%string.

(** A slice: its elements decode into those it had. *)
Fixpoint d_elements {A} (zero : A) (d : decoder A) (l : list json) (old : list A) : list A * option json_error :=
  match l with
  | [] => ([], None)
  | v :: l' =>
    let '(a, e) := d v (default zero (head old)) in
    let '(as_, e') := d_elements zero d l' (tail old) in (a :: as_, saveError e e')
  end.
Definition d_list {A} (zero : A) (d : decoder A) : decoder (list A) := fun v old =>
  match v with JNull => ([], None) | JArr l => d_elements zero d l old | _ => (old, Some UnmarshalTypeError) end.

Definition cb_Type (c : CausedBy) : gostring := let '(MkCausedBy t _ _) := c in t.
Definition cb_Reason (c : CausedBy) : gostring := let '(MkCausedBy _ r _) := c in r.
Definition cb_CausedBy (c : CausedBy) : option CausedBy := let '(MkCausedBy _ _ n) := c in n.
Definition no_CausedBy : CausedBy := MkCausedBy [] [] None.

(** The fields of CausedBy, given the decoder of the nested cause. *)
Definition causedBy_fields (nested : decoder (option CausedBy)) : list (string * field_decoder CausedBy) := [
  ("type", into cb_Type (fun v c => MkCausedBy v (cb_Reason c) (cb_CausedBy c)) d_string);
  ("reason", into cb_Reason (fun v c => MkCausedBy (cb_Type c) v (cb_CausedBy c)) d_string);
  ("caused_by", into cb_CausedBy (fun v c => MkCausedBy (cb_Type c) (cb_Reason c) v) nested)]%string.

(** A pointer to a cause: null clears it, otherwise it is allocated when nil. *)
Fixpoint d_CausedBy (v : json) (old : option CausedBy) : option CausedBy * option json_error :=
  match v with
  | JNull => (None, None)
  | JObj ms =>
    let '(c, e) := (fix go ms (st : CausedBy * option json_error) :=
      match ms with
      | [] => st
      | (k, (raw, x)) :: ms' => go ms' (d_member (causedBy_fields (fun _ => d_CausedBy x)) st (k, (raw, x)))
      end) ms (default no_CausedBy old, None) in
    (Some c, e)
  | _ => (Some (default no_CausedBy old), Some UnmarshalTypeError)
  end.

Definition no_Err : Err := MkErr [] [] [] None [] [].
Definition Err_fields : list (string * field_decoder Err) := [
  ("root_cause", into er_RootCause (fun v e => MkErr v (er_Type e) (er_Reason e) (er_CausedBy e) (er_Index e) (er_IndexUUID e)) (d_list no_RootCause d_RootCause));
  ("type", into er_Type (fun v e => MkErr (er_RootCause e) v (er_Reason e) (er_CausedBy e) (er_Index e) (er_IndexUUID e)) d_string);
  ("reason", into er_Reason (fun v e => MkErr (er_RootCause e) (er_Type e) v (er_CausedBy e) (er_Index e) (er_IndexUUID e)) d_string);
  ("caused_by", into er_CausedBy (fun v e => MkErr (er_RootCause e) (er_Type e) (er_Reason e) v (er_Index e) (er_IndexUUID e)) d_CausedBy);
  ("index", into er_Index (fun v e => MkErr (er_RootCause e) (er_Type e) (er_Reason e) (er_CausedBy e) v (er_IndexUUID e)) d_string);
  ("index_uuid", into er_IndexUUID (fun v e => MkErr (er_RootCause e) (er_Type e) (er_Reason e) (er_CausedBy e) (er_Index e) v) d_string)]%string.
Definition d_Err : decoder Err := d_struct Err_fields.

(** Two fields of a struct, as a pair. *)
Definition pair_fields {A B} (k l : string) (da : decoder A) (db : decoder B) : list (string * field_decoder (A * B)) :=
  [(k, into fst (fun v p => (v, p.2)) da); (l, into snd (fun v p => (p.1, v)) db)].
Definition d_pair {A B} (k l : string) (da : decoder A) (db : decoder B) : decoder (A * B) := d_struct (pair_fields k l da db).

(** The members ParseError tests. *)
Record testResp := MkTestResp { tr_Status : option json; tr_Error : option json; tr_Message : option json; tr_Reason : option json }.
Definition testResp_fields : list (string * field_decoder testResp) := [
  ("status", into tr_Status (fun v t => MkTestResp v (tr_Error t) (tr_Message t) (tr_Reason t)) d_any);
  ("error", into tr_Error (fun v t => MkTestResp (tr_Status t) v (tr_Message t) (tr_Reason t)) d_any);
  ("message", into tr_Message (fun v t => MkTestResp (tr_Status t) (tr_Error t) v (tr_Reason t)) d_any);
  ("reason", into tr_Reason (fun v t => MkTestResp (tr_Status t) (tr_Error t) (tr_Message t) v) d_any)]%string.
Definition d_testResp : decoder testResp := d_struct testResp_fields.

Section Texts.
Context (json_text : json_error -> string) (Quote : gostring -> string).
Notation Error := (Error json_text).

Definition json_failure (e : option json_error) : option error := (fun e => Leaf (AJsonError e)) <$> e.

(** StructError.UnmarshalJSON. *)
Definition StructError_UnmarshalJSON (b : gostring) : (Err * Z) * option error :=
  let '((raw, status), e) := Unmarshal (d_struct [("error", raw_into (fun v p => (v, p.2))); ("status", into snd (fun v p => (p.1, v)) d_int)]%string) b ([], 0) in
  match e with
  | Some e => ((no_Err, 0), Some (Leaf (AJsonError e)))
  | None =>
    let '(osErr, e) := Unmarshal d_Err raw no_Err in
    match e with
    | Some _ => ((no_Err, 0), Some (Leaf (AStringError raw status)))
    | None =>
      if (status =? 0) || (bool_decide (er_Type osErr = []) && bool_decide (er_Reason osErr = [])) then
        ((no_Err, 0), Some (Wrap (Errorf (pieces [sentinel_text ErrUnknownOpensearchError; ": "; bytes b])) (Leaf (Sentinel ErrUnknownOpensearchError))))
      else ((osErr, status), None)
    end
  end.

(** The bytes of the value of a text, as UnmarshalJSON gets them. *)
Definition value_bytes (data : gostring) : gostring :=
  match value (S (2 * length data)) 0 (skip_ws data) with Some (_, r) => read_bytes (skip_ws data) r | None => [] end.

(** parseError, for what decoding left and the error it gave. *)
Definition parseError (data : gostring) (errStruct : leaf) (e : option error) : error :=
  match e with
  | Some err => Multi (ErrorfAll (pieces [sentinel_text ErrJSONUnmarshalBody; ": "; Error err; ": "; bytes data])) [Leaf (Sentinel ErrJSONUnmarshalBody); err]
  | None => Leaf errStruct
  end.

Definition is_float (v : option json) : bool := match v with Some (JNum _) => true | _ => false end.
Definition is_string (v : option json) : bool := match v with Some (JStr _) => true | _ => false end.
Definition is_map (v : option json) : bool := match v with Some (JObj _) => true | _ => false end.
Definition is_nil (v : option json) : bool := match v with None => true | _ => false end.

(** The error of a text that is JSON. *)
Definition classify (statusCode : Z) (data : gostring) (t : testResp) : error :=
  if is_float (tr_Status t) && is_string (tr_Error t) then
    let '(p, e) := Unmarshal (d_pair "error" "status" d_string d_int) data ([], 0) in
    parseError data (AStringError p.1 p.2) (json_failure e)
  else if is_float (tr_Status t) && is_map (tr_Error t) then
    let '(p, e) := StructError_UnmarshalJSON (value_bytes data) in parseError data (AStructError p.1 p.2) e
  else if is_string (tr_Status t) && is_string (tr_Message t) then
    let '(p, e) := Unmarshal (d_pair "message" "status" d_string d_string) data ([], []) in
    parseError data (AMessageError p.1 p.2) (json_failure e)
  else if is_string (tr_Status t) && is_string (tr_Reason t) then
    let '(p, e) := Unmarshal (d_pair "reason" "status" d_string d_string) data ([], []) in
    parseError data (AReasonError p.1 p.2) (json_failure e)
  else if is_nil (tr_Status t) && is_nil (tr_Message t) && is_nil (tr_Reason t) && negb (is_nil (tr_Error t)) then
    let '(v, e) := Unmarshal (d_struct [("error"%string, into id (fun v _ => v) d_string)]) data [] in
    parseError data (AnError v) (json_failure e)
  else Leaf (AStringError data statusCode).

(** ParseError: the error, and the response with its body restored. *)
Definition ParseError (resp : Response) : error * Response :=
  match rp_Body resp with
  | None => (Wrap (Errorf (pieces [sentinel_text ErrUnexpectedEmptyBody; ", status: "; Status resp])) (Leaf (Sentinel ErrUnexpectedEmptyBody)), resp)
  | Some (data, Some err) =>
    (Multi (ErrorfAll (pieces [sentinel_text ErrReadBody; ": "; Error err])) [Leaf (Sentinel ErrReadBody); err], set_Body resp (Some (data, None)))
  | Some (data, None) =>
    let resp := set_Body resp (Some (data, None)) in
    let '(t, e) := Unmarshal d_testResp data (MkTestResp None None None None) in
    match e with
    | Some _ =>
      (Wrap (Errorf (pieces [sentinel_text ErrJSONUnmarshalBody; ", status: "; Itoa (rp_StatusCode resp); ", body: "; Quote data])) (Leaf (Sentinel ErrJSONUnmarshalBody)), resp)
    | None => (classify (rp_StatusCode resp) data t, resp)
    end
  end.

(** Response.String and the response after it. *)
Definition Response_String (r : Response) : string * Response :=
  let '(b, r') := renderedBody r in
  (match b with
   | None => Status r
   | Some (_, Some err) => pieces [Status r; " <error reading response body: "; Error err; ">"]
   | Some (data, None) => pieces [Status r; " "; bytes data]
   end%string, r').

(** * Sending *)

Section Transport.
Context {St : Type} (transport : httpRequest -> M St (option http_response * option error)).
(** The caller's type, and what decoding a text into a value of it leaves. *)
Context {T : Type} (unmarshal : gostring -> T -> T * option error).

(** The request is built, or its GetRequest failed; the result is the
    response, the error, and what the data pointer points to. *)
Definition Execute (built : error + httpRequest) (dataPointer : option T) : M St (option Response * option error * option T) :=
  match built with
  | inl err => ret (None, Some err, dataPointer)
  | inr httpReq =>
    let* '(resp, err) := transport httpReq in
    match resp with
    | None => ret (None, err, dataPointer)
    | Some resp =>
      let response := MkResponse (hp_StatusCode resp) (hp_Header resp) (hp_Body resp) None (Some None) in
      let status := Itoa (hp_StatusCode resp) in
      match err, hp_Body resp with
      | Some err, _ =>
        ret (Some response,
          Some (if Is Errors.ErrResponseBodyRead err
                then Multi (ErrorfAll (pieces [sentinel_text ErrReadBody; ", status: "; status; ", err: "; Error err])) [Leaf (Sentinel ErrReadBody); err]
                else Wrap (Errorf (pieces ["status: "; status; ", err: "; Error err])) err), dataPointer)
      | None, None => ret (Some response, None, dataPointer)
      | None, Some (data, Some rerr) =>
        ret (Some (set_Body response (Some (drained (data, Some rerr)))),
          Some (Multi (ErrorfAll (pieces [sentinel_text ErrReadBody; ", status: "; status; ", err: "; Error rerr])) [Leaf (Sentinel ErrReadBody); rerr]), dataPointer)
      | None, Some (data, None) =>
        let response := set_Body (set_rawBody response (Some data)) (Some (data, None)) in
        match dataPointer with
        | Some d =>
          if IsError response then ret (Some response, None, dataPointer)
          else
            let '(d', e) := unmarshal data d in
            ret (Some response,
              (fun e => Multi (ErrorfAll (pieces [sentinel_text ErrJSONUnmarshalBody; ", status: "; status; ", body: "; bytes data; ", err: "; Error e]))
                              [Leaf (Sentinel ErrJSONUnmarshalBody); e]) <$> e, Some d')
        | None => ret (Some response, None, dataPointer)
        end
      end
    end
  end.

(** [request] of opensearchapi. *)
Definition request (built : error + httpRequest) (dataPointer : option T) : M St (option Response * option error * option T) :=
  let* '(resp, err, data) := Execute built dataPointer in
  match err, resp with
  | Some err, _ => ret (None, Some err, data)
  | None, None => panic
  | None, Some resp =>
    if IsError resp then
      match dataPointer with
      | Some _ => let '(e, resp) := ParseError resp in ret (Some resp, Some e, data)
      | None => ret (Some resp, Some (Leaf (AText (String.append "status: " (Status resp)))), data)
      end
    else ret (Some resp, None, data)
  end.
End Transport.
End Texts.
