(* ===== verification/ClientSpec.v ===== *)
(** * What the client makes of a response

    The error bodies a server writes are read back as the error values they
    stand for; the outcomes of Execute and of [request]. *)

From Stdlib Require Import Ascii String.
From stdpp Require Import base gmap list strings.
From Stdlib Require Import ZArith Lia.
From S2P Require Import Prelude.
From S2P Require Import GoStrings.
From S2P Require Import ShardHash.
From S2P Require Import ShardRouting.
From S2P Require Import BulkIndexer.
From S2P Require Import Json.
From S2P Require Import JsonPrint.
From S2P Require Import Errors.
From S2P Require Import Stream.
From S2P Require Import Client.
Open Scope list_scope.
Open Scope bool_scope.
Open Scope Z_scope.

(** * Error bodies *)

Definition text_member (k : string) (s : gostring) : gostring * (gostring * json) := member k (JStr s).
Definition filled_member (k : string) (s : gostring) : list (gostring * (gostring * json)) :=
  match s with [] => [] | _ => [text_member k s] end.

Definition RootCause_json (c : RootCause) : json :=
  JObj (text_member "type" (rc_Type c) :: text_member "reason" (rc_Reason c) ::
        filled_member "index" (rc_Index c) ++ filled_member "index_uuid" (rc_IndexUUID c)).

Fixpoint CausedBy_json (c : CausedBy) : json :=
  match c with
  | MkCausedBy t r n =>
    JObj (text_member "type" t :: text_member "reason" r ::
          match n with Some c' => [member "caused_by" (CausedBy_json c')] | None => [] end)
  end.

Definition Err_members (e : Err) : list (gostring * (gostring * json)) :=
  member "root_cause" (JArr (map RootCause_json (er_RootCause e))) :: text_member "type" (er_Type e) :: text_member "reason" (er_Reason e) ::
  match er_CausedBy e with Some c => [member "caused_by" (CausedBy_json c)] | None => [] end ++
  filled_member "index" (er_Index e) ++ filled_member "index_uuid" (er_IndexUUID e).

(** Members of other names, with values an [any] can hold. *)
Definition foreign (names : list string) (m : gostring * (gostring * json)) : Prop :=
  Forall (fun n => fold_key (lit n) <> fold_key m.1) names /\ holds_any m.2.2 = true.

Lemma foreign_field {A} names (fields : list (string * A)) m :
  foreign names m -> (forall f, f ∈ fields -> f.1 ∈ names) -> field_of fields m.1 = None.
Proof.
  intros [Hm _] Hf. rewrite Forall_forall in Hm. unfold field_of.
  destruct (List.find (fun f => bool_decide (lit f.1 = m.1)) fields) as [f|] eqn:E1.
  - apply find_some in E1 as [Hin E1%bool_decide_eq_true]. exfalso. apply (Hm f.1); [apply Hf, list_elem_of_In, Hin | by rewrite E1].
  - destruct (List.find (fun f => bool_decide (fold_key (lit f.1) = fold_key m.1)) fields) as [f|] eqn:E2; [|reflexivity]. apply find_some in E2 as [Hin E2%bool_decide_eq_true].
    exfalso. apply (Hm f.1); [apply Hf, list_elem_of_In, Hin | done].
Qed.

Lemma foreign_members {A} names (fields : list (string * field_decoder A)) ms st :
  Forall (foreign names) ms -> (forall f, f ∈ fields -> f.1 ∈ names) -> foldl (d_member fields) st ms = st.
Proof.
  intros Hms Hf. induction Hms as [|m ms Hm _ IH]; [done|]. cbn [foldl]. unfold d_member at 2. by rewrite (foreign_field names).
Qed.

Lemma d_member_known {A} (fields : list (string * field_decoder A)) k v d st :
  field_of fields (lit k) = Some d ->
  d_member fields st (member k v) = let '(a, e) := d (print v) v st.1 in (a, saveError st.2 e).
Proof. intros H. unfold d_member, member. cbn [fst snd]. by rewrite H. Qed.

Lemma foldl_known {A} (fields : list (string * field_decoder A)) k v d st ms :
  field_of fields (lit k) = Some d ->
  foldl (d_member fields) st (member k v :: ms) =
  foldl (d_member fields) (let '(a, e) := d (print v) v st.1 in (a, saveError st.2 e)) ms.
Proof. intros H. cbn [foldl]. by rewrite (d_member_known _ _ _ d). Qed.

Lemma d_RootCause_json c : d_RootCause (RootCause_json c) no_RootCause = (c, None).
Proof. destruct c as [t r [|i1 i] [|u1 u]]; reflexivity. Qed.

Lemma d_RootCauses l : d_list no_RootCause d_RootCause (JArr (map RootCause_json l)) [] = (l, None).
Proof.
  cbn [d_list]. induction l as [|c l IH]; [done|]. cbn [map d_elements head default tail]. rewrite d_RootCause_json.
  change (tail []) with (@nil RootCause). by rewrite IH.
Qed.

Lemma d_CausedBy_json c : d_CausedBy (CausedBy_json c) None = (Some c, None).
Proof.
  revert c. fix IH 1. intros [t r [c|]]; [|reflexivity]. specialize (IH c).
  cbn [CausedBy_json]. simpl.
  change (d_member _ (d_member _ (no_CausedBy, None) _) _) with (MkCausedBy t r None, @None json_error).
  change (lit "caused_by", _) with (member "caused_by" (CausedBy_json c)).
  rewrite (d_member_known _ _ _ (into cb_CausedBy (fun v c => MkCausedBy (cb_Type c) (cb_Reason c) v) (fun _ => d_CausedBy (CausedBy_json c)))) by reflexivity.
  unfold into. cbn [fst snd cb_CausedBy]. rewrite IH. reflexivity.
Qed.

Definition Err_names : list string := ["root_cause"; "type"; "reason"; "caused_by"; "index"; "index_uuid"]%string.
Definition answer_names : list string := ["status"; "error"; "message"; "reason"]%string.

Lemma d_Err_json e extra :
  Forall (foreign Err_names) extra -> d_Err (JObj (Err_members e ++ extra)) no_Err = (e, None).
Proof.
  intros Hx. unfold d_Err, d_struct. rewrite foldl_app.
  assert (foldl (d_member Err_fields) (no_Err, None) (Err_members e) = (e, None)) as ->.
  { destruct e as [rc t r cb ix iu]. unfold Err_members. cbn [er_RootCause er_Type er_Reason er_CausedBy er_Index er_IndexUUID].
    cbn [foldl]. erewrite d_member_known by reflexivity. unfold into at 1. cbn [fst snd er_RootCause no_Err]. rewrite d_RootCauses. cbn [saveError].
    destruct cb as [cb|].
    - cbn [app]. cbn [foldl].
      change (d_member Err_fields (d_member Err_fields _ (text_member "type" t)) (text_member "reason" r)) with (MkErr rc t r None [] [], @None json_error).
      erewrite d_member_known by reflexivity. unfold into at 1. cbn [fst snd er_CausedBy]. rewrite d_CausedBy_json. cbn [saveError].
      destruct ix, iu; reflexivity.
    - destruct ix, iu; reflexivity. }
  apply (foreign_members Err_names); [done|]. intros f Hf.
  enough (Forall (fun f => f.1 ∈ Err_names) Err_fields) as Hall by (rewrite Forall_forall in Hall; by apply Hall).
  repeat (constructor; [simpl; set_solver|]); constructor.
Qed.

Lemma holds_members ms : holds_any (JObj ms) = forallb (fun m => holds_any m.2.2) ms.
Proof. cbn. induction ms as [|[k [raw x]] ms IH]; [done|]. cbn. by rewrite IH. Qed.

Lemma holds_filled k s : forallb (fun m => holds_any m.2.2) (filled_member k s) = true.
Proof. by destruct s. Qed.

Lemma holds_CausedBy c : holds_any (CausedBy_json c) = true.
Proof. revert c. fix IH 1. intros [t r [c|]]; [|done]. simpl. by rewrite IH. Qed.

Lemma holds_RootCauses l : holds_any (JArr (map RootCause_json l)) = true.
Proof.
  cbn [holds_any]. induction l as [|c l IH]; [done|]. cbn [map]. rewrite IH, andb_true_r. unfold RootCause_json.
  rewrite holds_members. cbn [forallb snd text_member member holds_any]. by rewrite forallb_app, !holds_filled.
Qed.

Lemma holds_Err e extra : Forall (foreign Err_names) extra -> holds_any (JObj (Err_members e ++ extra)) = true.
Proof.
  intros Hx. rewrite holds_members, forallb_app. apply andb_true_intro. split.
  - unfold Err_members. cbn [forallb snd text_member member]. rewrite holds_RootCauses, !forallb_app, !holds_filled.
    destruct (er_CausedBy e); [cbn [forallb snd member]; by rewrite holds_CausedBy | done].
  - apply forallb_forall. intros m Hm. rewrite Forall_forall in Hx. apply list_elem_of_In, Hx in Hm. apply Hm.
Qed.

Lemma no_overflow n z : decimal n z -> z < 2 ^ 63 -> num_overflows n = false.
Proof.
  intros (H1 & H2 & _ & H4) Hz. unfold num_overflows.
  assert (eat 45 n = None) as ->.
  { destruct n as [|b n]; [done|]. apply Forall_cons in H1 as [Hb _]. unfold is_digit in Hb. apply eat_miss. lia. }
  cbn [default]. rewrite <- (app_nil_r n) at 1. rewrite span_digits_app by done. cbn [eat exponent length]. rewrite app_nil_r, H4.
  change (0 <=? 0 - Z.of_nat 0) with true. cbv iota. change (10 ^ (0 - Z.of_nat 0)) with 1. apply Z.leb_gt.
  assert (2 ^ 63 <= 2 ^ 1024 - 2 ^ 970) by (vm_compute; done). lia.
Qed.

(** The bodies of error responses, in the shapes the server has, and the error
    each stands for; other members may follow. *)
Inductive error_body : json -> leaf -> Prop :=
| body_struct e status errExtra extra :
    0 < status < 2 ^ 63 -> er_Type e <> [] \/ er_Reason e <> [] ->
    Forall (foreign Err_names) errExtra -> Forall (foreign answer_names) extra ->
    error_body (JObj (member "error" (JObj (Err_members e ++ errExtra)) :: member "status" (JNum (lit (Itoa status))) :: extra)) (AStructError e status)
| body_string e status extra :
    0 <= status < 2 ^ 63 -> Forall (foreign answer_names) extra ->
    error_body (JObj (text_member "error" e :: member "status" (JNum (lit (Itoa status))) :: extra)) (AStringError e status)
| body_message message status extra :
    Forall (foreign answer_names) extra ->
    error_body (JObj (text_member "status" status :: text_member "message" message :: extra)) (AMessageError message status)
| body_reason reason status extra :
    Forall (foreign answer_names) extra ->
    error_body (JObj (text_member "status" status :: text_member "reason" reason :: extra)) (AReasonError reason status)
| body_error e extra :
    Forall (foreign answer_names) extra -> error_body (JObj (text_member "error" e :: extra)) (AnError e).

Lemma foreign_answer {A} (fields : list (string * field_decoder A)) extra st :
  Forall (foreign answer_names) extra -> forallb (fun f => bool_decide (f.1 ∈ answer_names)) fields = true ->
  foldl (d_member fields) st extra = st.
Proof.
  intros Hx Hf. apply (foreign_members answer_names); [done|]. intros f Hin. rewrite forallb_forall in Hf.
  apply list_elem_of_In, Hf, bool_decide_eq_true in Hin. done.
Qed.

Lemma Unmarshal_print {A} (d : decoder A) v a : writable maxNestingDepth v -> Unmarshal d (print v) a = d v a.
Proof. intros Hw. unfold Unmarshal. by rewrite parse_print. Qed.

Lemma d_int_Itoa z old : 0 <= z < 2 ^ 63 -> d_int (JNum (lit (Itoa z))) old = (z, None).
Proof. intros Hz. unfold d_int. by rewrite (Atoi_decimal _ z) by first [by apply Itoa_decimal | lia]. Qed.

Lemma d_any_Itoa z old : 0 <= z < 2 ^ 63 -> d_any (JNum (lit (Itoa z))) old = (Some (JNum (lit (Itoa z))), None).
Proof. intros Hz. unfold d_any. by rewrite (no_overflow _ z) by first [by apply Itoa_decimal | lia]. Qed.

Lemma value_bytes_print v : writable maxNestingDepth v -> value_bytes (print v) = print v.
Proof. intros Hw. destruct (print_value_bytes v Hw) as (r & E & Hr). unfold value_bytes. by rewrite E. Qed.

Lemma d_any_Err e extra old :
  Forall (foreign Err_names) extra -> d_any (JObj (Err_members e ++ extra)) old = (Some (JObj (Err_members e ++ extra)), None).
Proof. intros Hx. unfold d_any. by rewrite holds_Err. Qed.

Section Parse.
Context (json_text : json_error -> string) (Quote : gostring -> string).

Lemma struct_error_read e status errExtra extra :
  let v := JObj (member "error" (JObj (Err_members e ++ errExtra)) :: member "status" (JNum (lit (Itoa status))) :: extra) in
  writable maxNestingDepth v -> 0 < status < 2 ^ 63 -> er_Type e <> [] \/ er_Reason e <> [] ->
  Forall (foreign Err_names) errExtra -> Forall (foreign answer_names) extra ->
  StructError_UnmarshalJSON (print v) = ((e, status), None).
Proof.
  intros v Hw Hs He Hx Hx'. unfold StructError_UnmarshalJSON. rewrite Unmarshal_print by done. unfold v, d_struct.
  erewrite foldl_known by reflexivity. unfold raw_into. cbn [fst snd saveError].
  erewrite foldl_known by reflexivity. unfold into. cbn [fst snd]. rewrite d_int_Itoa by lia. cbn [saveError].
  rewrite foreign_answer by done.
  assert (writable maxNestingDepth (JObj (Err_members e ++ errExtra))) as Hw'.
  { unfold v in Hw. inversion Hw as [| | | | |? ? Hd Hms]; subst. apply Forall_cons in Hms as [(_ & _ & Hm) _].
    apply (writable_mono (maxNestingDepth - 1)); [lia | exact Hm]. }
  rewrite Unmarshal_print, d_Err_json by done. replace (status =? 0) with false by lia. cbn [orb].
  destruct (bool_decide (er_Type e = [])) eqn:E1; [|done]. destruct (bool_decide (er_Reason e = [])) eqn:E2; [|done].
  apply bool_decide_eq_true in E1, E2. by destruct He.
Qed.

Lemma testResp_read v l : error_body v l -> writable maxNestingDepth v ->
  exists t, Unmarshal d_testResp (print v) (MkTestResp None None None None) = (t, None) /\
    forall code, classify json_text code (print v) t = Leaf l.
Proof.
  intros Hb Hw. rewrite Unmarshal_print by done. unfold d_testResp, d_struct.
  destruct Hb as [e status errExtra extra Hs He Hx Hx'|e status extra Hs Hx'|message status extra Hx'|reason status extra Hx'|e extra Hx'].
  - unfold text_member. erewrite foldl_known by reflexivity. unfold into at 1. cbn [fst snd]. rewrite d_any_Err by done. cbn [saveError].
    erewrite foldl_known by reflexivity. unfold into at 1. cbn [fst snd]. rewrite d_any_Itoa by lia. cbn [saveError].
    rewrite foreign_answer by done. eexists. split; [done|]. intros code. unfold classify. cbn [tr_Status tr_Error is_float is_string is_map andb].
    rewrite value_bytes_print, struct_error_read by done. done.
  - unfold text_member. erewrite foldl_known by reflexivity. unfold into at 1. cbn [fst snd d_any holds_any saveError].
    erewrite foldl_known by reflexivity. unfold into at 1. cbn [fst snd]. rewrite d_any_Itoa by lia. cbn [saveError].
    rewrite foreign_answer by done. eexists. split; [done|]. intros code. unfold classify. cbn [tr_Status tr_Error is_float is_string is_map andb].
    rewrite Unmarshal_print by done. unfold d_pair, d_struct, text_member. erewrite foldl_known by reflexivity.
    unfold into at 1. cbn [fst snd d_string saveError]. erewrite foldl_known by reflexivity. unfold into at 1. cbn [fst snd].
    rewrite d_int_Itoa by lia. cbn [saveError]. rewrite foreign_answer by done. done.
  - exists (MkTestResp (Some (JStr status)) None (Some (JStr message)) None).
    cbn [foldl]. rewrite foreign_answer by done. split; [reflexivity|]. intros code. unfold classify. cbn [tr_Status tr_Error tr_Message is_float is_string is_map andb].
    rewrite Unmarshal_print by done. unfold d_pair, d_struct. cbn [foldl]. rewrite foreign_answer by done. reflexivity.
  - exists (MkTestResp (Some (JStr status)) None None (Some (JStr reason))).
    cbn [foldl]. rewrite foreign_answer by done. split; [reflexivity|]. intros code. unfold classify. cbn [tr_Status tr_Error tr_Message tr_Reason is_float is_string is_map andb].
    rewrite Unmarshal_print by done. unfold d_pair, d_struct. cbn [foldl]. rewrite foreign_answer by done. reflexivity.
  - exists (MkTestResp None (Some (JStr e)) None None).
    cbn [foldl]. rewrite foreign_answer by done. split; [reflexivity|]. intros code. unfold classify. cbn [tr_Status tr_Error tr_Message tr_Reason is_float is_string is_map is_nil negb andb].
    rewrite Unmarshal_print by done. unfold d_struct. cbn [foldl]. rewrite foreign_answer by done. reflexivity.
Qed.
End Parse.

(** * ParseError *)

Section Theorems.
Context (json_text : json_error -> string) (Quote : gostring -> string).
Notation ParseError := (ParseError json_text Quote).

Lemma set_Body_same r b : rp_Body r = b -> set_Body r b = r.
Proof. by destruct r; intros <-. Qed.

Lemma ParseError_restores resp data rerr : rp_Body resp = Some (data, rerr) -> (ParseError resp).2 = set_Body resp (Some (data, None)).
Proof. intros Hb. unfold Client.ParseError. rewrite Hb. destruct rerr; [done|]. by destruct (Unmarshal d_testResp data _) as [t [e|]]. Qed.

(** C34: ParseError reads back every error body a server writes: the text of an error
    with its causes, of a string, of a message, of a reason or of a bare error is the
    error value it was written from, with other members ignored. The body can be read
    again afterwards, whatever it held, and a body that is no JSON is reported as that. *)
Theorem error_bodies_read (resp : Response) (data : gostring) (rerr : option error) :
  rp_Body resp = Some (data, rerr) ->
  (ParseError resp).2 = set_Body resp (Some (data, None)) /\
  (rerr = None ->
    (forall v l, error_body v l -> writable maxNestingDepth v -> data = print v -> (ParseError resp).1 = Leaf l) /\
    (parse data = None -> Is ErrJSONUnmarshalBody (ParseError resp).1 = true)).
Proof.
  intros Hb. split; [by eapply ParseError_restores|]. intros ->. unfold Client.ParseError. rewrite Hb.
  destruct (Unmarshal d_testResp data _) as [t e] eqn:E. split.
  - intros v l Hv Hw ->. destruct (testResp_read json_text v l Hv Hw) as (t' & Ht & Hc). rewrite Ht in E. injection E as <- <-. apply Hc.
  - intros Hp. unfold Unmarshal in E. rewrite Hp in E. injection E as <- <-. reflexivity.
Qed.
End Theorems.

Definition ex_text (e : json_error) : string := match e with SyntaxError => "syntax" | UnmarshalTypeError => "type" end.
Definition ex_err : Err :=
  MkErr [MkRootCause (lit "parsing_exception") (lit "bad [query]") (lit "logs") []] (lit "parsing_exception") (34 :: 10 :: utf8 0xE9 ++ utf8 0x1F600)
    (Some (MkCausedBy (lit "io") (lit "closed") (Some (MkCausedBy (lit "eof") [] None)))) (lit "logs") [].
Definition ex_body : json :=
  JObj (member "error" (JObj (Err_members ex_err ++ [member "line" (JNum (lit (Itoa 3)))])) :: member "status" (JNum (lit (Itoa 400))) ::
        [member "took" (JNum (lit (Itoa 12)))]).
Definition ex_response : Response := NewResponse 400 (Some (print ex_body, None)) ∅.

Lemma ascii_utf8 s : forallb (fun b => (0 <=? b) && (b <? 128)) s = true -> valid_utf8 s.
Proof.
  intros H. exists s. rewrite forallb_forall in H. split.
  - apply Forall_forall. intros b Hb%list_elem_of_In%H. unfold scalar. lia.
  - induction s as [|b s IH]; [done|]. rewrite bind_cons, utf8_ascii by (specialize (H b (or_introl eq_refl)); lia).
    cbn [app]. f_equal. apply IH. intros x Hx. apply H. by right.
Qed.

Ltac writable_value :=
  repeat first
    [ apply w_obj; [done|] | apply w_arr; [done|] | apply w_str | eapply w_num; apply Itoa_decimal; lia
    | apply Forall_nil_2 | apply Forall_cons_2 | split | reflexivity | apply ascii_utf8; reflexivity ].

Lemma error_bodies_read_witness :
  rp_Body ex_response = Some (print ex_body, None) /\
  (ParseError ex_text (fun _ => ""%string) ex_response).1 = Leaf (AStructError ex_err 400).
Proof.
  split; [reflexivity|].
  destruct (error_bodies_read ex_text (fun _ => ""%string) ex_response (print ex_body) None eq_refl) as [_ H].
  apply (proj1 (H eq_refl) ex_body); [| |reflexivity].
  - apply body_struct; [lia | by left | | ]; repeat constructor; vm_compute; congruence.
  - unfold ex_body, ex_err, Err_members. cbn [er_RootCause er_Type er_Reason er_CausedBy er_Index er_IndexUUID map app filled_member].
    writable_value. exists [34; 10; 0xE9; 0x1F600]. split; [|reflexivity]. repeat constructor; unfold scalar; lia.
Defined.
