(* ===== verification/ApiErrors.v ===== *)
(** * Partial failures

    opensearchapi/errors.go, the error mask of a Client (api.go), and what the
    generated code does with a response: an operation collects the partial
    failures of its response that the mask does not suppress and returns them
    as one error beside the response. The class [partial_response] is what the
    generated code gives for a response type; ApiPartial.v has its instances. *)

From Stdlib Require Import Ascii String SpecFloat.
From stdpp Require Import base gmap list strings pretty.
From Stdlib Require Import ZArith Lia.
From S2P Require Import Prelude.
From S2P Require Import GoStrings.
From S2P Require Import Float.
From S2P Require Import ShardHash.
From S2P Require Import ShardRouting.
From S2P Require Import ErrMask.
From S2P Require Import BulkIndexer.
From S2P Require Import Json.
From S2P Require Import Errors.
From S2P Require Import Stream.
From S2P Require Import Client.
Open Scope list_scope.
Open Scope bool_scope.
Open Scope Z_scope.

(** * errors.go *)

Definition OperationIndex : string := "index".
Definition OperationCreate : string := "create".
Definition OperationUpdate : string := "update".
Definition OperationDelete : string := "delete".

(** PartialFailureError: the types that have the method IsPartial. *)
Definition partial_leaf (l : leaf) : bool :=
  match l with APartialBulkError _ _ | APartialSearchError _ _ _ | AMultiSearchItemError _ _ | AShardFailureError _ _ _ => true | _ => false end.
Definition partial_target (e : error) : option error :=
  match e with
  | Leaf l => if partial_leaf l then Some e else None
  | Multi MSearchErrors _ | Multi MSearchTemplateErrors _ => Some e
  | _ => None
  end.
Definition IsPartialFailure (err : option error) : bool :=
  match err with Some e => match As partial_target e with Some _ => true | None => false end | None => false end.

(** interface{ Unwrap() []error }. *)
Definition multi_target (e : error) : option (list error) := match e with Multi _ es => Some es | _ => None end.

Definition partialSubErrors (err : error) : list error :=
  if IsPartialFailure (Some err) then match As multi_target err with Some es => es | None => [err] end else [err].

Definition Errors (err : option error) : list error := match err with None => [] | Some e => partialSubErrors e end.

Definition ToleratePartialFailures (err : option error) : option error := if IsPartialFailure err then None else err.

(** collapsePerOpErrors; without a wrapper errors.Join makes one. *)
Definition collapsePerOpErrors (errs : list error) (wrap : option (list error -> error)) : option error :=
  match errs with
  | [] => None
  | [e] => Some e
  | _ => match wrap with Some w => Some (w errs) | None => Join (map Some errs) end
  end.

Definition bulk_target (e : error) : option (Z * Z) :=
  match e with Leaf (APartialBulkError failed succeeded) => Some (succeeded, wrap64 (succeeded + Z.of_nat (length failed))) | _ => None end.
Definition search_target (e : error) : option (Z * Z) :=
  match e with Leaf (APartialSearchError failed total _) => Some (wrap64 (total - failed), total) | _ => None end.
Definition shard_target (e : error) : option (Z * Z) :=
  match e with Leaf (AShardFailureError _ failed total) => Some (wrap64 (total - failed), total) | _ => None end.
Definition msearch_target (e : error) : option (Z * Z) :=
  match e with Leaf (AMultiSearchItemError items succeeded) => Some (succeeded, wrap64 (succeeded + Z.of_nat (length items))) | _ => None end.

(** The succeeded and total counts of one category; [None] where ok is false. *)
Definition partialSuccessCounts (err : error) : option (Z * Z) :=
  match As bulk_target err, As search_target err, As shard_target err, As msearch_target err with
  | Some c, _, _, _ => Some c
  | _, Some c, _, _ => Some c
  | _, _, Some c, _ => Some c
  | _, _, _, o => o
  end.

(** The verb %.1f: the exact value rounded to tenths, halves to even. *)
Definition tenths (m : positive) (e : Z) : Z :=
  if 0 <=? e then Zpos m * 10 * 2 ^ e
  else
    let d := 2 ^ (- e) in let q := Zpos m * 10 / d in let r := Zpos m * 10 mod d in
    if (2 * r >? d) || ((2 * r =? d) && Z.odd q) then q + 1 else q.
Definition format_1f (x : f64) : string :=
  match x with
  | S754_nan => "NaN"
  | S754_infinity s => if s then "-Inf" else "+Inf"
  | S754_zero s => if s then "-0.0" else "0.0"
  | S754_finite s m e => let t := tenths m e in pieces [if s then "-" else ""; pretty (t / 10); "."; pretty (t mod 10)]
  end%string.

(** A category whose rate is below the threshold: its counts. *)
Definition below (threshold : f64) (c : Z * Z) : bool := f64_ltb (f64_ratio c.1 c.2) threshold.

(** The loop over the sub-errors, from the current one on: [inl] is a return. *)
Fixpoint rate_loop (err : error) (threshold : f64) (subs : list error) (matched : bool) : option error + bool :=
  match subs with
  | [] => inr matched
  | sub :: subs' =>
    match partialSuccessCounts sub with
    | None => rate_loop err threshold subs' matched
    | Some c =>
      if c.2 =? 0 then inl (Some err)
      else if below threshold c then
        inl (Some (Wrap (Errorf (pieces [Itoa c.1; "/"; Itoa c.2; " succeeded ("; format_1f (f64_mul (f64_ratio c.1 c.2) (f64_of_Z 100)); "%) below threshold ";
                                         format_1f (f64_mul threshold (f64_of_Z 100)); "%"]%string)) err))
      else rate_loop err threshold subs' true
    end
  end.

Definition RequireSuccessRate (err : option error) (threshold : f64) : option error :=
  match err with
  | None => None
  | Some e =>
    match rate_loop e threshold (partialSubErrors e) false with
    | inl r => r
    | inr matched => if matched then None else err
    end
  end.

(** * The error mask of a client *)

(** The cells the Clients of a program share; a Client is its cell. *)
Notation cells := (gmap nat Z).

Definition newErrMask (m : Z) (h : cells) : nat * cells := let l := base.fresh (dom h) in (l, <[l := m]> h).
Definition errorMask (c : nat) (h : cells) : option Z := h !! c.
Definition Clone (c : nat) (h : cells) : option (nat * cells) := m ← errorMask c h; Some (newErrMask m h).

(** The compare-and-swap of SetErrorMask. The mask of the conflict is loaded
    afterwards, from the cells as they are then. *)
Definition set_mask (c : nat) (prev next : Z) (h : cells) : option (bool * cells) :=
  m ← errorMask c h; Some (if m =? prev then (true, <[c := next]> h) else (false, h)).
Record ErrorMaskConflictError := MkConflict { ce_Expected : Z; ce_Actual : Z }.
Definition SetErrorMask (c : nat) (prev next : Z) (others : cells -> cells) (h : cells) : option (option ErrorMaskConflictError * cells) :=
  '(ok, h) ← set_mask c prev next h;
  if ok : bool then Some (None, h) else let h := others h in m ← errorMask c h; Some (Some (MkConflict prev m), h).

(** * Responses with partial failures *)

Record ShardStatistics := MkShardStatistics { ss_Failed : Z; ss_Failures : list ShardSearchFailure; ss_Total : Z }.

(** The failures of an envelope of shards, as search and broadcast operations
    report them, and as writes do. *)
Definition envelope_failures (s : ShardStatistics) : option error :=
  if ss_Failed s =? 0 then None else Some (Leaf (APartialSearchError (ss_Failed s) (ss_Total s) (ss_Failures s))).
Definition write_failures (operation : string) (s : ShardStatistics) : option error :=
  if ss_Failed s =? 0 then None else Some (Leaf (AShardFailureError operation (ss_Failed s) (ss_Total s))).

(** The loop over the items of a bulk response and their four operations. *)
Definition bulk_result (st : list BulkRespItem * Z) (v : option BulkRespItem) : list BulkRespItem * Z :=
  match v with
  | None => st
  | Some v => match br_Error v with Some _ => (st.1 ++ [v], st.2) | None => (st.1, st.2 + 1) end
  end.
Definition bulk_operations (i : BulkItem) : list (option BulkRespItem) := [bk_Create i; bk_Delete i; bk_Index i; bk_Update i].
Definition bulk_item_failures (r : BulkResp) : option error :=
  if negb (bp_Errors r) then None
  else
    let '(failed, succeeded) := foldl (fun st i => foldl bulk_result st (bulk_operations i)) ([], 0) (bp_Items r) in
    match failed with [] => None | _ => Some (Leaf (APartialBulkError failed succeeded)) end.

(** A sub-response of a multi-search: the branch of the union that was decoded. *)
Inductive MSearchRespItem := UnknownItem | MultiSearchItem (shards : ShardStatistics) | ErrorItem (e : ErrorRespBase).

Definition add_shards (st : Z * Z * list ShardSearchFailure) (i : MSearchRespItem) : Z * Z * list ShardSearchFailure :=
  match i with
  | MultiSearchItem s => (wrap64 (st.1.1 + ss_Total s), wrap64 (st.1.2 + ss_Failed s), st.2 ++ ss_Failures s)
  | _ => st
  end.
Definition msearch_shard_failures (items : list MSearchRespItem) : option error :=
  let '(total, failed, failures) := foldl add_shards (0, 0, []) items in
  if failed =? 0 then None else Some (Leaf (APartialSearchError failed total failures)).

Definition add_item (st : list MultiSearchItemFailure * Z) (p : nat * MSearchRespItem) : list MultiSearchItemFailure * Z :=
  match p.2 with ErrorItem e => (st.1 ++ [MkMultiSearchItemFailure (Z.of_nat p.1) e], st.2) | _ => (st.1, st.2 + 1) end.
Definition msearch_item_failures (items : list MSearchRespItem) : option error :=
  let '(failed, succeeded) := foldl add_item ([], 0) (imap pair items) in
  match failed with [] => None | _ => Some (Leaf (AMultiSearchItemError failed succeeded)) end.

(** What is generated for a response type: its categories, each with the bit
    that masks it, and the type that wraps several. *)
Class partial_response (R : Type) := {
  categories_of : R -> list (Z * option error);
  wrap_several : option (list error -> error) }.

(** PartialFailures: a category is looked at when its bit is not set. *)
Definition PartialFailures {R} `{!partial_response R} (r : R) (mask : Z) : list error :=
  categories_of r ≫= fun c => if Has mask c.1 then [] else match c.2 with Some e => [e] | None => [] end.

(** The end of a method: [err] is the error of [request], [mask] the client's
    mask when the response is there. *)
Definition finish {R} `{!partial_response R} (err : option error) (data : R) (mask : Z) : R * option error :=
  match err with
  | Some e => (data, Some e)
  | None => (data, collapsePerOpErrors (PartialFailures data mask) wrap_several)
  end.

(** What the categories of a response type are: each has a bit of the mask
    (the bits differ) and reports its own kind of error. *)
Definition reported_bits : list Z := [BulkItems; SearchShards; WriteShards; BroadcastShards; MultiSearchItems].
Definition wraps_partial (w : option (list error -> error)) : Prop :=
  match w with None => True | Some f => f = Multi MSearchErrors \/ f = Multi MSearchTemplateErrors end.
Class lawful_response (R : Type) `{!partial_response R} : Prop := {
  law_bits : forall r, NoDup (map fst (categories_of r)) /\ Forall (fun c => c.1 ∈ reported_bits) (categories_of r);
  law_errors : forall r c e, c ∈ categories_of r -> c.2 = Some e -> exists l, e = Leaf l /\ partial_leaf l = true;
  law_wrap : wraps_partial wrap_several }.

(** * What a response reports

    The documented reports of a response, each under the bit of errmask.go that
    masks it: the shards of a search, of a broadcast or of a write, the results
    of a bulk request, and the shards and the failed sub-queries of a
    multi-search. *)

Inductive report :=
  | ShardsReport (envelope : option ShardStatistics)
  | WriteReport (operation : string) (envelope : ShardStatistics)
  | BulkReport (errors : bool) (items : list BulkItem)
  | SubShardsReport (items : list MSearchRespItem)
  | SubQueriesReport (items : list MSearchRespItem).

(** The results of a bulk request: those of each item, by operation. *)
Definition item_results (i : BulkItem) : list BulkRespItem :=
  option_list (bk_Create i) ++ option_list (bk_Delete i) ++ option_list (bk_Index i) ++ option_list (bk_Update i).
Definition bulk_results (items : list BulkItem) : list BulkRespItem := mjoin (item_results <$> items).
Definition failed_result (v : BulkRespItem) : Prop := br_Error v <> None.
#[export] Instance failed_result_dec v : Decision (failed_result v).
Proof. unfold failed_result. apply _. Defined.

(** The envelopes of the sub-queries that were answered. *)
Definition sub_envelopes (items : list MSearchRespItem) : list ShardStatistics :=
  omap (fun i => match i with MultiSearchItem s => Some s | _ => None end) items.
Definition int_sum (l : list Z) : Z := wrap64 (foldr Z.add 0 l).

(** The failed sub-queries, each with its position. *)
Definition failed_items (items : list MSearchRespItem) : list MultiSearchItemFailure :=
  omap (fun p => match p.2 with ErrorItem e => Some (MkMultiSearchItemFailure (Z.of_nat p.1) e) | _ => None end) (imap pair items).

(** The error of a report; none when nothing in it failed. *)
Definition report_error (d : report) : option error :=
  match d with
  | ShardsReport None => None
  | ShardsReport (Some s) =>
    if decide (ss_Failed s = 0) then None else Some (Leaf (APartialSearchError (ss_Failed s) (ss_Total s) (ss_Failures s)))
  | WriteReport operation s =>
    if decide (ss_Failed s = 0) then None else Some (Leaf (AShardFailureError operation (ss_Failed s) (ss_Total s)))
  | BulkReport errors items =>
    if decide (errors = true /\ Exists failed_result (bulk_results items)) then
      Some (Leaf (APartialBulkError (filter failed_result (bulk_results items))
                    (Z.of_nat (length (filter (fun v => ~ failed_result v) (bulk_results items))))))
    else None
  | SubShardsReport items =>
    let l := sub_envelopes items in
    if decide (int_sum (ss_Failed <$> l) = 0) then None
    else Some (Leaf (APartialSearchError (int_sum (ss_Failed <$> l)) (int_sum (ss_Total <$> l)) (mjoin (ss_Failures <$> l))))
  | SubQueriesReport items =>
    if decide (failed_items items = []) then None
    else Some (Leaf (AMultiSearchItemError (failed_items items) (Z.of_nat (length items) - Z.of_nat (length (failed_items items)))))
  end.

(** What succeeded of a report and how much there was, as ints. *)
Definition report_counts (d : report) : Z * Z :=
  match d with
  | ShardsReport None => (0, 0)
  | ShardsReport (Some s) | WriteReport _ s => (wrap64 (ss_Total s - ss_Failed s), ss_Total s)
  | BulkReport _ items =>
    (Z.of_nat (length (filter (fun v => ~ failed_result v) (bulk_results items))), wrap64 (Z.of_nat (length (bulk_results items))))
  | SubShardsReport items =>
    let l := sub_envelopes items in (wrap64 (int_sum (ss_Total <$> l) - int_sum (ss_Failed <$> l)), int_sum (ss_Total <$> l))
  | SubQueriesReport items =>
    (Z.of_nat (length items) - Z.of_nat (length (failed_items items)), wrap64 (Z.of_nat (length items)))
  end.

(** The documented reports of a response type, and that its categories are these. *)
Class documented_response (R : Type) `{!partial_response R} := {
  documented : R -> list (Z * report);
  law_documented : forall r, categories_of r = (fun d => (d.1, report_error d.2)) <$> documented r }.

(** * The code reports them *)

Lemma filter_partition_length {A} (P : A -> Prop) `{forall x, Decision (P x)} (l : list A) :
  (length (filter P l) + length (filter (fun x => ~ P x) l) = length l)%nat.
Proof. induction l as [|x l IH]; [done|]. rewrite !filter_cons. repeat case_decide; try tauto; simpl; lia. Qed.

Lemma item_results_eq i : omap id (bulk_operations i) = item_results i.
Proof. unfold bulk_operations, item_results. by destruct (bk_Create i), (bk_Delete i), (bk_Index i), (bk_Update i). Qed.

Lemma bulk_result_fold l st :
  foldl bulk_result st l =
  (st.1 ++ filter failed_result (omap id l), st.2 + Z.of_nat (length (filter (fun v => ~ failed_result v) (omap id l)))).
Proof.
  revert st. induction l as [|[v|] l IH]; intros [f n]; cbn [foldl bulk_result omap list_omap id].
  - cbn. by rewrite app_nil_r, Z.add_0_r.
  - change (list_omap _ _ id l) with (omap id l) in *. rewrite !filter_cons. destruct (decide (failed_result v)) as [Hf|Hf].
    + rewrite decide_False by tauto. unfold failed_result in Hf. destruct (br_Error v); [|done]. rewrite IH. cbn [fst snd].
      by rewrite <- app_assoc.
    + rewrite decide_True by done. unfold failed_result in Hf. destruct (br_Error v); [by destruct Hf|]. rewrite IH. cbn [fst snd length].
      f_equal. lia.
  - apply IH.
Qed.

Lemma bulk_failures_fold l st :
  foldl (fun st i => foldl bulk_result st (bulk_operations i)) st l =
  (st.1 ++ filter failed_result (bulk_results l), st.2 + Z.of_nat (length (filter (fun v => ~ failed_result v) (bulk_results l)))).
Proof.
  revert st. induction l as [|i l IH]; intros st; cbn [foldl].
  - cbn. rewrite app_nil_r, Z.add_0_r. by destruct st.
  - rewrite IH, bulk_result_fold, item_results_eq. change (bulk_results (i :: l)) with (item_results i ++ bulk_results l). rewrite !filter_app, length_app.
    cbn [fst snd]. rewrite <- app_assoc. f_equal. lia.
Qed.

Lemma bulk_reports errors items : bulk_item_failures (MkBulkResp errors items) = report_error (BulkReport errors items).
Proof.
  unfold bulk_item_failures, report_error. cbn [bp_Errors bp_Items]. destruct errors; [|by rewrite decide_False by (by intros [? _])].
  cbn [negb]. rewrite bulk_failures_fold. cbn [fst snd app]. rewrite Z.add_0_l. case_decide as Hd.
  - destruct (filter failed_result (bulk_results items)) eqn:E; [|done]. destruct Hd as [_ Hd]. apply Exists_exists in Hd as (x & Hx & Hf).
    assert (x ∈ filter failed_result (bulk_results items)) as H by (by apply list_elem_of_filter). rewrite E in H. by apply elem_of_nil in H.
  - destruct (filter failed_result (bulk_results items)) as [|x l] eqn:E; [done|]. destruct Hd. split; [done|]. apply Exists_exists. exists x.
    apply and_comm, (list_elem_of_filter failed_result). rewrite E. left.
Qed.

Lemma BulkResp_reports r : bulk_item_failures r = report_error (BulkReport (bp_Errors r) (bp_Items r)).
Proof. destruct r. apply bulk_reports. Qed.

Lemma envelope_reports s : envelope_failures s = report_error (ShardsReport (Some s)).
Proof. unfold envelope_failures, report_error. destruct (Z.eqb_spec (ss_Failed s) 0); by case_decide. Qed.

Lemma write_reports o s : write_failures o s = report_error (WriteReport o s).
Proof. unfold write_failures, report_error. destruct (Z.eqb_spec (ss_Failed s) 0); by case_decide. Qed.

Lemma wrap64_add_l a b : wrap64 (wrap64 a + b) = wrap64 (a + b).
Proof.
  unfold wrap64. f_equal. replace ((a + 2 ^ 63) mod 2 ^ 64 - 2 ^ 63 + b + 2 ^ 63) with ((a + 2 ^ 63) mod 2 ^ 64 + b) by ring.
  rewrite Z.add_mod_idemp_l by lia. f_equal. ring.
Qed.

Lemma add_shards_fold items t f l :
  foldl add_shards (wrap64 t, wrap64 f, l) items =
  (wrap64 (t + foldr Z.add 0 (ss_Total <$> sub_envelopes items)), wrap64 (f + foldr Z.add 0 (ss_Failed <$> sub_envelopes items)),
   l ++ mjoin (ss_Failures <$> sub_envelopes items)).
Proof.
  revert t f l. induction items as [|i items IH]; intros t f l; cbn [foldl].
  - cbn. by rewrite !Z.add_0_r, app_nil_r.
  - destruct i as [|s|e]; cbn [add_shards fst snd]; try apply IH. rewrite !wrap64_add_l, IH.
    change (sub_envelopes (MultiSearchItem s :: items)) with (s :: sub_envelopes items). cbn [fmap list_fmap foldr mjoin list_join].
    by rewrite !Z.add_assoc, app_assoc.
Qed.

Lemma sub_shards_reports items : msearch_shard_failures items = report_error (SubShardsReport items).
Proof.
  unfold msearch_shard_failures, report_error. change (0, 0, []) with (wrap64 0, wrap64 0, @nil ShardSearchFailure).
  rewrite add_shards_fold, !Z.add_0_l. cbn [app]. unfold int_sum. case_decide as Hd.
  - by rewrite (proj2 (Z.eqb_eq _ _) Hd).
  - by rewrite (proj2 (Z.eqb_neq _ _) Hd).
Qed.

Lemma failed_items_length items : (length (failed_items items) <= length items)%nat.
Proof.
  unfold failed_items. rewrite <- (length_imap pair items). set (f := fun p : nat * MSearchRespItem => _).
  induction (imap pair items) as [|x k IH]; cbn; [done|]. destruct (f x); cbn; unfold omap in *; lia.
Qed.

Lemma add_item_fold l st :
  foldl add_item st l =
  (st.1 ++ omap (fun p => match p.2 with ErrorItem e => Some (MkMultiSearchItemFailure (Z.of_nat p.1) e) | _ => None end) l,
   st.2 + (Z.of_nat (length l) - Z.of_nat (length (omap (fun p => match p.2 with ErrorItem e => Some (MkMultiSearchItemFailure (Z.of_nat p.1) e) | _ => None end) l)))).
Proof.
  revert st. induction l as [|[i x] l IH]; intros [a b]; cbn [foldl].
  - cbn. by rewrite app_nil_r, Z.add_0_r.
  - rewrite IH. unfold add_item. destruct x; cbn [snd fst omap list_omap length]; f_equal; unfold omap in *; try lia.
    by rewrite <- app_assoc.
Qed.

Lemma sub_queries_reports items : msearch_item_failures items = report_error (SubQueriesReport items).
Proof.
  unfold msearch_item_failures, report_error. rewrite add_item_fold. cbn [fst snd app]. fold (failed_items items).
  rewrite length_imap, Z.add_0_l. by destruct (failed_items items).
Qed.

Lemma failed_items_spec items i e :
  MkMultiSearchItemFailure (Z.of_nat i) e ∈ failed_items items <-> items !! i = Some (ErrorItem e).
Proof.
  unfold failed_items. rewrite list_elem_of_omap. split.
  - intros ([j x] & Hin & Hx). apply list_elem_of_lookup in Hin as [k Hk]. rewrite list_lookup_imap_Some in Hk.
    destruct Hk as (y & Hy & [= -> ->]). cbn in Hx. destruct y; try done. injection Hx as Hi ->. by assert (k = i) as <- by lia.
  - intros Hi. exists (i, ErrorItem e). split; [|done]. apply list_elem_of_lookup. exists i. apply list_lookup_imap_Some. eauto.
Qed.

(** The error of a report is one of the partial failures, with its counts. *)
Lemma report_error_leaf d e : report_error d = Some e -> exists l, e = Leaf l /\ partial_leaf l = true.
Proof. unfold report_error. destruct d as [[s|]| | | |]; try case_decide; intros [= <-]; eauto. Qed.

Lemma report_error_counts d e : report_error d = Some e -> partialSuccessCounts e = Some (report_counts d).
Proof.
  unfold report_error. destruct d as [[s|]|o s|b items|items|items]; try case_decide; intros [= <-]; try done;
    cbn [partialSuccessCounts As bulk_target search_target shard_target msearch_target report_counts].
  - do 3 f_equal. rewrite <- Nat2Z.inj_add. f_equal. rewrite Nat.add_comm. apply filter_partition_length.
  - do 3 f_equal. lia.
Qed.

Create HintDb reports.
#[export] Hint Resolve BulkResp_reports bulk_reports envelope_reports write_reports sub_shards_reports sub_queries_reports : reports.
