(* ===== verification/ApiPartial.v ===== *)
(** * The responses with partial failures

    The response types of opensearchapi that report partial failures, each with
    the fields the failures are read from, its categories, the reports errmask.go
    documents for it, and its instances of the classes of ApiErrors.v. *)

From Stdlib Require Import Ascii String.
From stdpp Require Import base list strings.
From Stdlib Require Import ZArith Lia.
From S2P Require Import Prelude.
From S2P Require Import ErrMask.
From S2P Require Import BulkIndexer.
From S2P Require Import Errors.
From S2P Require Import ApiErrors.
Open Scope list_scope.
Open Scope Z_scope.

(** An envelope that may be missing. *)
Definition optional_failures (s : option ShardStatistics) : option error := s ≫= envelope_failures.

(** The laws hold by the shape of the failures. *)
Lemma envelope_partial s e : envelope_failures s = Some e -> exists l, e = Leaf l /\ partial_leaf l = true.
Proof. unfold envelope_failures. case_match; [done|]. intros [= <-]. by eexists. Qed.

Lemma write_partial o s e : write_failures o s = Some e -> exists l, e = Leaf l /\ partial_leaf l = true.
Proof. unfold write_failures. case_match; [done|]. intros [= <-]. by eexists. Qed.

Lemma optional_partial s e : optional_failures s = Some e -> exists l, e = Leaf l /\ partial_leaf l = true.
Proof. destruct s; [apply envelope_partial | done]. Qed.

Lemma bulk_partial r e : bulk_item_failures r = Some e -> exists l, e = Leaf l /\ partial_leaf l = true.
Proof. unfold bulk_item_failures. repeat case_match; try done. intros [= <-]. by eexists. Qed.

Lemma msearch_shards_partial l e : msearch_shard_failures l = Some e -> exists l, e = Leaf l /\ partial_leaf l = true.
Proof. unfold msearch_shard_failures. repeat case_match; try done. intros [= <-]. by eexists. Qed.

Lemma msearch_items_partial l e : msearch_item_failures l = Some e -> exists l, e = Leaf l /\ partial_leaf l = true.
Proof. unfold msearch_item_failures. repeat case_match; try done. intros [= <-]. by eexists. Qed.

#[export] Hint Resolve envelope_partial write_partial optional_partial bulk_partial msearch_shards_partial msearch_items_partial : partial.

Lemma one_category {A} (c x : Z * option A) : c ∈ [x] -> c = x.
Proof. by intros ->%list_elem_of_singleton. Qed.

Lemma two_categories {A} (c x y : Z * option A) : c ∈ [x; y] -> c = x \/ c = y.
Proof. intros [-> | ->%list_elem_of_singleton]%elem_of_cons; auto. Qed.

Ltac lawful :=
  split;
  [ intros r; split; [apply (bool_decide_unpack _); vm_compute; exact I | repeat (apply Forall_cons_2; [apply (bool_decide_unpack _); vm_compute; exact I|]); apply Forall_nil_2]
  | intros r c e Hc He;
    first [apply one_category in Hc as -> | apply two_categories in Hc as [-> | ->]]; cbn [snd] in He; eauto with partial
  | cbn; auto ].

(** The categories are the documented reports. *)
Lemma optional_reports s : optional_failures s = report_error (ShardsReport s).
Proof. destruct s; [apply envelope_reports | done]. Qed.
#[export] Hint Resolve optional_reports : reports.

Lemma one_report b e d : e = report_error d -> [(b, e)] = (fun d : Z * report => (d.1, report_error d.2)) <$> [(b, d)].
Proof. by intros ->. Qed.

Lemma two_reports b e d b' e' d' : e = report_error d -> e' = report_error d' ->
  [(b, e); (b', e')] = (fun d : Z * report => (d.1, report_error d.2)) <$> [(b, d); (b', d')].
Proof. by intros -> ->. Qed.

Ltac documents := first [refine (one_report _ _ _ _) | refine (two_reports _ _ _ _ _ _ _ _)]; auto with reports.


(** BulkResp: the record of BulkIndexer.v. *)
Definition BulkResp_PartialFailures (r : BulkResp) : list (Z * option error) :=
  [(BulkItems, bulk_item_failures r)].
#[export] Instance BulkResp_partial : partial_response BulkResp := {| categories_of := BulkResp_PartialFailures; wrap_several := None |}.
#[export] Instance BulkResp_lawful : lawful_response BulkResp.
Proof. lawful. Qed.
Definition BulkResp_documented (r : BulkResp) : list (Z * report) :=
  [(BulkItems, BulkReport (bp_Errors r) (bp_Items r))].
Lemma BulkResp_documents (r : BulkResp) : categories_of r = (fun d => (d.1, report_error d.2)) <$> BulkResp_documented r.
Proof. documents. Qed.
#[export] Instance BulkResp_described : documented_response BulkResp := {| documented := BulkResp_documented; law_documented := BulkResp_documents |}.

Record BulkStreamResp := MkBulkStreamResp { BulkStreamResp_Errors : bool; BulkStreamResp_Items : list BulkItem }.
Definition BulkStreamResp_PartialFailures (r : BulkStreamResp) : list (Z * option error) :=
  [(BulkItems, bulk_item_failures (MkBulkResp (BulkStreamResp_Errors r) (BulkStreamResp_Items r)))].
#[export] Instance BulkStreamResp_partial : partial_response BulkStreamResp := {| categories_of := BulkStreamResp_PartialFailures; wrap_several := None |}.
#[export] Instance BulkStreamResp_lawful : lawful_response BulkStreamResp.
Proof. lawful. Qed.
Definition BulkStreamResp_documented (r : BulkStreamResp) : list (Z * report) :=
  [(BulkItems, BulkReport (BulkStreamResp_Errors r) (BulkStreamResp_Items r))].
Lemma BulkStreamResp_documents (r : BulkStreamResp) : categories_of r = (fun d => (d.1, report_error d.2)) <$> BulkStreamResp_documented r.
Proof. documents. Qed.
#[export] Instance BulkStreamResp_described : documented_response BulkStreamResp := {| documented := BulkStreamResp_documented; law_documented := BulkStreamResp_documents |}.

Record CountResp := MkCountResp { CountResp_Shards : ShardStatistics }.
Definition CountResp_PartialFailures (r : CountResp) : list (Z * option error) :=
  [(SearchShards, envelope_failures (CountResp_Shards r))].
#[export] Instance CountResp_partial : partial_response CountResp := {| categories_of := CountResp_PartialFailures; wrap_several := None |}.
#[export] Instance CountResp_lawful : lawful_response CountResp.
Proof. lawful. Qed.
Definition CountResp_documented (r : CountResp) : list (Z * report) :=
  [(SearchShards, ShardsReport (Some (CountResp_Shards r)))].
Lemma CountResp_documents (r : CountResp) : categories_of r = (fun d => (d.1, report_error d.2)) <$> CountResp_documented r.
Proof. documents. Qed.
#[export] Instance CountResp_described : documented_response CountResp := {| documented := CountResp_documented; law_documented := CountResp_documents |}.

Record CreateResp := MkCreateResp { CreateResp_Shards : ShardStatistics }.
Definition CreateResp_PartialFailures (r : CreateResp) : list (Z * option error) :=
  [(WriteShards, write_failures OperationCreate (CreateResp_Shards r))].
#[export] Instance CreateResp_partial : partial_response CreateResp := {| categories_of := CreateResp_PartialFailures; wrap_several := None |}.
#[export] Instance CreateResp_lawful : lawful_response CreateResp.
Proof. lawful. Qed.
Definition CreateResp_documented (r : CreateResp) : list (Z * report) :=
  [(WriteShards, WriteReport "create" (CreateResp_Shards r))].
Lemma CreateResp_documents (r : CreateResp) : categories_of r = (fun d => (d.1, report_error d.2)) <$> CreateResp_documented r.
Proof. documents. Qed.
#[export] Instance CreateResp_described : documented_response CreateResp := {| documented := CreateResp_documented; law_documented := CreateResp_documents |}.

Record CreatePITResp := MkCreatePITResp { CreatePITResp_Shards : option ShardStatistics }.
Definition CreatePITResp_PartialFailures (r : CreatePITResp) : list (Z * option error) :=
  [(SearchShards, optional_failures (CreatePITResp_Shards r))].
#[export] Instance CreatePITResp_partial : partial_response CreatePITResp := {| categories_of := CreatePITResp_PartialFailures; wrap_several := None |}.
#[export] Instance CreatePITResp_lawful : lawful_response CreatePITResp.
Proof. lawful. Qed.
Definition CreatePITResp_documented (r : CreatePITResp) : list (Z * report) :=
  [(SearchShards, ShardsReport (CreatePITResp_Shards r))].
Lemma CreatePITResp_documents (r : CreatePITResp) : categories_of r = (fun d => (d.1, report_error d.2)) <$> CreatePITResp_documented r.
Proof. documents. Qed.
#[export] Instance CreatePITResp_described : documented_response CreatePITResp := {| documented := CreatePITResp_documented; law_documented := CreatePITResp_documents |}.

Record DeleteResp := MkDeleteResp { DeleteResp_Shards : ShardStatistics }.
Definition DeleteResp_PartialFailures (r : DeleteResp) : list (Z * option error) :=
  [(WriteShards, write_failures OperationDelete (DeleteResp_Shards r))].
#[export] Instance DeleteResp_partial : partial_response DeleteResp := {| categories_of := DeleteResp_PartialFailures; wrap_several := None |}.
#[export] Instance DeleteResp_lawful : lawful_response DeleteResp.
Proof. lawful. Qed.
Definition DeleteResp_documented (r : DeleteResp) : list (Z * report) :=
  [(WriteShards, WriteReport "delete" (DeleteResp_Shards r))].
Lemma DeleteResp_documents (r : DeleteResp) : categories_of r = (fun d => (d.1, report_error d.2)) <$> DeleteResp_documented r.
Proof. documents. Qed.
#[export] Instance DeleteResp_described : documented_response DeleteResp := {| documented := DeleteResp_documented; law_documented := DeleteResp_documents |}.

Record IndexResp := MkIndexResp { IndexResp_Shards : ShardStatistics }.
Definition IndexResp_PartialFailures (r : IndexResp) : list (Z * option error) :=
  [(WriteShards, write_failures OperationIndex (IndexResp_Shards r))].
#[export] Instance IndexResp_partial : partial_response IndexResp := {| categories_of := IndexResp_PartialFailures; wrap_several := None |}.
#[export] Instance IndexResp_lawful : lawful_response IndexResp.
Proof. lawful. Qed.
Definition IndexResp_documented (r : IndexResp) : list (Z * report) :=
  [(WriteShards, WriteReport "index" (IndexResp_Shards r))].
Lemma IndexResp_documents (r : IndexResp) : categories_of r = (fun d => (d.1, report_error d.2)) <$> IndexResp_documented r.
Proof. documents. Qed.
#[export] Instance IndexResp_described : documented_response IndexResp := {| documented := IndexResp_documented; law_documented := IndexResp_documents |}.

Record IndicesClearCacheResp := MkIndicesClearCacheResp { IndicesClearCacheResp_Shards : ShardStatistics }.
Definition IndicesClearCacheResp_PartialFailures (r : IndicesClearCacheResp) : list (Z * option error) :=
  [(BroadcastShards, envelope_failures (IndicesClearCacheResp_Shards r))].
#[export] Instance IndicesClearCacheResp_partial : partial_response IndicesClearCacheResp := {| categories_of := IndicesClearCacheResp_PartialFailures; wrap_several := None |}.
#[export] Instance IndicesClearCacheResp_lawful : lawful_response IndicesClearCacheResp.
Proof. lawful. Qed.
Definition IndicesClearCacheResp_documented (r : IndicesClearCacheResp) : list (Z * report) :=
  [(BroadcastShards, ShardsReport (Some (IndicesClearCacheResp_Shards r)))].
Lemma IndicesClearCacheResp_documents (r : IndicesClearCacheResp) : categories_of r = (fun d => (d.1, report_error d.2)) <$> IndicesClearCacheResp_documented r.
Proof. documents. Qed.
#[export] Instance IndicesClearCacheResp_described : documented_response IndicesClearCacheResp := {| documented := IndicesClearCacheResp_documented; law_documented := IndicesClearCacheResp_documents |}.

Record IndicesDataStreamsStatsResp := MkIndicesDataStreamsStatsResp { IndicesDataStreamsStatsResp_Shards : ShardStatistics }.
Definition IndicesDataStreamsStatsResp_PartialFailures (r : IndicesDataStreamsStatsResp) : list (Z * option error) :=
  [(BroadcastShards, envelope_failures (IndicesDataStreamsStatsResp_Shards r))].
#[export] Instance IndicesDataStreamsStatsResp_partial : partial_response IndicesDataStreamsStatsResp := {| categories_of := IndicesDataStreamsStatsResp_PartialFailures; wrap_several := None |}.
#[export] Instance IndicesDataStreamsStatsResp_lawful : lawful_response IndicesDataStreamsStatsResp.
Proof. lawful. Qed.
Definition IndicesDataStreamsStatsResp_documented (r : IndicesDataStreamsStatsResp) : list (Z * report) :=
  [(BroadcastShards, ShardsReport (Some (IndicesDataStreamsStatsResp_Shards r)))].
Lemma IndicesDataStreamsStatsResp_documents (r : IndicesDataStreamsStatsResp) : categories_of r = (fun d => (d.1, report_error d.2)) <$> IndicesDataStreamsStatsResp_documented r.
Proof. documents. Qed.
#[export] Instance IndicesDataStreamsStatsResp_described : documented_response IndicesDataStreamsStatsResp := {| documented := IndicesDataStreamsStatsResp_documented; law_documented := IndicesDataStreamsStatsResp_documents |}.

Record IndicesFlushResp := MkIndicesFlushResp { IndicesFlushResp_Shards : ShardStatistics }.
Definition IndicesFlushResp_PartialFailures (r : IndicesFlushResp) : list (Z * option error) :=
  [(BroadcastShards, envelope_failures (IndicesFlushResp_Shards r))].
#[export] Instance IndicesFlushResp_partial : partial_response IndicesFlushResp := {| categories_of := IndicesFlushResp_PartialFailures; wrap_several := None |}.
#[export] Instance IndicesFlushResp_lawful : lawful_response IndicesFlushResp.
Proof. lawful. Qed.
Definition IndicesFlushResp_documented (r : IndicesFlushResp) : list (Z * report) :=
  [(BroadcastShards, ShardsReport (Some (IndicesFlushResp_Shards r)))].
Lemma IndicesFlushResp_documents (r : IndicesFlushResp) : categories_of r = (fun d => (d.1, report_error d.2)) <$> IndicesFlushResp_documented r.
Proof. documents. Qed.
#[export] Instance IndicesFlushResp_described : documented_response IndicesFlushResp := {| documented := IndicesFlushResp_documented; law_documented := IndicesFlushResp_documents |}.

Record IndicesForceMergeResp := MkIndicesForceMergeResp { IndicesForceMergeResp_Shards : ShardStatistics }.
Definition IndicesForceMergeResp_PartialFailures (r : IndicesForceMergeResp) : list (Z * option error) :=
  [(BroadcastShards, envelope_failures (IndicesForceMergeResp_Shards r))].
#[export] Instance IndicesForceMergeResp_partial : partial_response IndicesForceMergeResp := {| categories_of := IndicesForceMergeResp_PartialFailures; wrap_several := None |}.
#[export] Instance IndicesForceMergeResp_lawful : lawful_response IndicesForceMergeResp.
Proof. lawful. Qed.
Definition IndicesForceMergeResp_documented (r : IndicesForceMergeResp) : list (Z * report) :=
  [(BroadcastShards, ShardsReport (Some (IndicesForceMergeResp_Shards r)))].
Lemma IndicesForceMergeResp_documents (r : IndicesForceMergeResp) : categories_of r = (fun d => (d.1, report_error d.2)) <$> IndicesForceMergeResp_documented r.
Proof. documents. Qed.
#[export] Instance IndicesForceMergeResp_described : documented_response IndicesForceMergeResp := {| documented := IndicesForceMergeResp_documented; law_documented := IndicesForceMergeResp_documents |}.

Record IndicesRefreshResp := MkIndicesRefreshResp { IndicesRefreshResp_Shards : ShardStatistics }.
Definition IndicesRefreshResp_PartialFailures (r : IndicesRefreshResp) : list (Z * option error) :=
  [(BroadcastShards, envelope_failures (IndicesRefreshResp_Shards r))].
#[export] Instance IndicesRefreshResp_partial : partial_response IndicesRefreshResp := {| categories_of := IndicesRefreshResp_PartialFailures; wrap_several := None |}.
#[export] Instance IndicesRefreshResp_lawful : lawful_response IndicesRefreshResp.
Proof. lawful. Qed.
Definition IndicesRefreshResp_documented (r : IndicesRefreshResp) : list (Z * report) :=
  [(BroadcastShards, ShardsReport (Some (IndicesRefreshResp_Shards r)))].
Lemma IndicesRefreshResp_documents (r : IndicesRefreshResp) : categories_of r = (fun d => (d.1, report_error d.2)) <$> IndicesRefreshResp_documented r.
Proof. documents. Qed.
#[export] Instance IndicesRefreshResp_described : documented_response IndicesRefreshResp := {| documented := IndicesRefreshResp_documented; law_documented := IndicesRefreshResp_documents |}.

Record IndicesSegmentsResp := MkIndicesSegmentsResp { IndicesSegmentsResp_Shards : ShardStatistics }.
Definition IndicesSegmentsResp_PartialFailures (r : IndicesSegmentsResp) : list (Z * option error) :=
  [(BroadcastShards, envelope_failures (IndicesSegmentsResp_Shards r))].
#[export] Instance IndicesSegmentsResp_partial : partial_response IndicesSegmentsResp := {| categories_of := IndicesSegmentsResp_PartialFailures; wrap_several := None |}.
#[export] Instance IndicesSegmentsResp_lawful : lawful_response IndicesSegmentsResp.
Proof. lawful. Qed.
Definition IndicesSegmentsResp_documented (r : IndicesSegmentsResp) : list (Z * report) :=
  [(BroadcastShards, ShardsReport (Some (IndicesSegmentsResp_Shards r)))].
Lemma IndicesSegmentsResp_documents (r : IndicesSegmentsResp) : categories_of r = (fun d => (d.1, report_error d.2)) <$> IndicesSegmentsResp_documented r.
Proof. documents. Qed.
#[export] Instance IndicesSegmentsResp_described : documented_response IndicesSegmentsResp := {| documented := IndicesSegmentsResp_documented; law_documented := IndicesSegmentsResp_documents |}.

Record IndicesStatsResp := MkIndicesStatsResp { IndicesStatsResp_Shards : ShardStatistics }.
Definition IndicesStatsResp_PartialFailures (r : IndicesStatsResp) : list (Z * option error) :=
  [(BroadcastShards, envelope_failures (IndicesStatsResp_Shards r))].
#[export] Instance IndicesStatsResp_partial : partial_response IndicesStatsResp := {| categories_of := IndicesStatsResp_PartialFailures; wrap_several := None |}.
#[export] Instance IndicesStatsResp_lawful : lawful_response IndicesStatsResp.
Proof. lawful. Qed.
Definition IndicesStatsResp_documented (r : IndicesStatsResp) : list (Z * report) :=
  [(BroadcastShards, ShardsReport (Some (IndicesStatsResp_Shards r)))].
Lemma IndicesStatsResp_documents (r : IndicesStatsResp) : categories_of r = (fun d => (d.1, report_error d.2)) <$> IndicesStatsResp_documented r.
Proof. documents. Qed.
#[export] Instance IndicesStatsResp_described : documented_response IndicesStatsResp := {| documented := IndicesStatsResp_documented; law_documented := IndicesStatsResp_documents |}.

Record IndicesUpgradeResp := MkIndicesUpgradeResp { IndicesUpgradeResp_Shards : ShardStatistics }.
Definition IndicesUpgradeResp_PartialFailures (r : IndicesUpgradeResp) : list (Z * option error) :=
  [(BroadcastShards, envelope_failures (IndicesUpgradeResp_Shards r))].
#[export] Instance IndicesUpgradeResp_partial : partial_response IndicesUpgradeResp := {| categories_of := IndicesUpgradeResp_PartialFailures; wrap_several := None |}.
#[export] Instance IndicesUpgradeResp_lawful : lawful_response IndicesUpgradeResp.
Proof. lawful. Qed.
Definition IndicesUpgradeResp_documented (r : IndicesUpgradeResp) : list (Z * report) :=
  [(BroadcastShards, ShardsReport (Some (IndicesUpgradeResp_Shards r)))].
Lemma IndicesUpgradeResp_documents (r : IndicesUpgradeResp) : categories_of r = (fun d => (d.1, report_error d.2)) <$> IndicesUpgradeResp_documented r.
Proof. documents. Qed.
#[export] Instance IndicesUpgradeResp_described : documented_response IndicesUpgradeResp := {| documented := IndicesUpgradeResp_documented; law_documented := IndicesUpgradeResp_documents |}.

Record IndicesValidateQueryResp := MkIndicesValidateQueryResp { IndicesValidateQueryResp_Shards : option ShardStatistics }.
Definition IndicesValidateQueryResp_PartialFailures (r : IndicesValidateQueryResp) : list (Z * option error) :=
  [(BroadcastShards, optional_failures (IndicesValidateQueryResp_Shards r))].
#[export] Instance IndicesValidateQueryResp_partial : partial_response IndicesValidateQueryResp := {| categories_of := IndicesValidateQueryResp_PartialFailures; wrap_several := None |}.
#[export] Instance IndicesValidateQueryResp_lawful : lawful_response IndicesValidateQueryResp.
Proof. lawful. Qed.
Definition IndicesValidateQueryResp_documented (r : IndicesValidateQueryResp) : list (Z * report) :=
  [(BroadcastShards, ShardsReport (IndicesValidateQueryResp_Shards r))].
Lemma IndicesValidateQueryResp_documents (r : IndicesValidateQueryResp) : categories_of r = (fun d => (d.1, report_error d.2)) <$> IndicesValidateQueryResp_documented r.
Proof. documents. Qed.
#[export] Instance IndicesValidateQueryResp_described : documented_response IndicesValidateQueryResp := {| documented := IndicesValidateQueryResp_documented; law_documented := IndicesValidateQueryResp_documents |}.

Record MSearchResp := MkMSearchResp { MSearchResp_Responses : list MSearchRespItem }.
Definition MSearchResp_PartialFailures (r : MSearchResp) : list (Z * option error) :=
  [(SearchShards, msearch_shard_failures (MSearchResp_Responses r)); (MultiSearchItems, msearch_item_failures (MSearchResp_Responses r))].
#[export] Instance MSearchResp_partial : partial_response MSearchResp := {| categories_of := MSearchResp_PartialFailures; wrap_several := Some (Multi MSearchErrors) |}.
#[export] Instance MSearchResp_lawful : lawful_response MSearchResp.
Proof. lawful. Qed.
Definition MSearchResp_documented (r : MSearchResp) : list (Z * report) :=
  [(SearchShards, SubShardsReport (MSearchResp_Responses r)); (MultiSearchItems, SubQueriesReport (MSearchResp_Responses r))].
Lemma MSearchResp_documents (r : MSearchResp) : categories_of r = (fun d => (d.1, report_error d.2)) <$> MSearchResp_documented r.
Proof. documents. Qed.
#[export] Instance MSearchResp_described : documented_response MSearchResp := {| documented := MSearchResp_documented; law_documented := MSearchResp_documents |}.

Record MSearchTemplateResp := MkMSearchTemplateResp { MSearchTemplateResp_Responses : list MSearchRespItem }.
Definition MSearchTemplateResp_PartialFailures (r : MSearchTemplateResp) : list (Z * option error) :=
  [(SearchShards, msearch_shard_failures (MSearchTemplateResp_Responses r)); (MultiSearchItems, msearch_item_failures (MSearchTemplateResp_Responses r))].
#[export] Instance MSearchTemplateResp_partial : partial_response MSearchTemplateResp := {| categories_of := MSearchTemplateResp_PartialFailures; wrap_several := Some (Multi MSearchTemplateErrors) |}.
#[export] Instance MSearchTemplateResp_lawful : lawful_response MSearchTemplateResp.
Proof. lawful. Qed.
Definition MSearchTemplateResp_documented (r : MSearchTemplateResp) : list (Z * report) :=
  [(SearchShards, SubShardsReport (MSearchTemplateResp_Responses r)); (MultiSearchItems, SubQueriesReport (MSearchTemplateResp_Responses r))].
Lemma MSearchTemplateResp_documents (r : MSearchTemplateResp) : categories_of r = (fun d => (d.1, report_error d.2)) <$> MSearchTemplateResp_documented r.
Proof. documents. Qed.
#[export] Instance MSearchTemplateResp_described : documented_response MSearchTemplateResp := {| documented := MSearchTemplateResp_documented; law_documented := MSearchTemplateResp_documents |}.

Record ScrollResp := MkScrollResp { ScrollResp_Shards : ShardStatistics }.
Definition ScrollResp_PartialFailures (r : ScrollResp) : list (Z * option error) :=
  [(SearchShards, envelope_failures (ScrollResp_Shards r))].
#[export] Instance ScrollResp_partial : partial_response ScrollResp := {| categories_of := ScrollResp_PartialFailures; wrap_several := None |}.
#[export] Instance ScrollResp_lawful : lawful_response ScrollResp.
Proof. lawful. Qed.
Definition ScrollResp_documented (r : ScrollResp) : list (Z * report) :=
  [(SearchShards, ShardsReport (Some (ScrollResp_Shards r)))].
Lemma ScrollResp_documents (r : ScrollResp) : categories_of r = (fun d => (d.1, report_error d.2)) <$> ScrollResp_documented r.
Proof. documents. Qed.
#[export] Instance ScrollResp_described : documented_response ScrollResp := {| documented := ScrollResp_documented; law_documented := ScrollResp_documents |}.

Record SearchResp := MkSearchResp { SearchResp_Shards : ShardStatistics }.
Definition SearchResp_PartialFailures (r : SearchResp) : list (Z * option error) :=
  [(SearchShards, envelope_failures (SearchResp_Shards r))].
#[export] Instance SearchResp_partial : partial_response SearchResp := {| categories_of := SearchResp_PartialFailures; wrap_several := None |}.
#[export] Instance SearchResp_lawful : lawful_response SearchResp.
Proof. lawful. Qed.
Definition SearchResp_documented (r : SearchResp) : list (Z * report) :=
  [(SearchShards, ShardsReport (Some (SearchResp_Shards r)))].
Lemma SearchResp_documents (r : SearchResp) : categories_of r = (fun d => (d.1, report_error d.2)) <$> SearchResp_documented r.
Proof. documents. Qed.
#[export] Instance SearchResp_described : documented_response SearchResp := {| documented := SearchResp_documented; law_documented := SearchResp_documents |}.

Record SearchTemplateResp := MkSearchTemplateResp { SearchTemplateResp_Shards : ShardStatistics }.
Definition SearchTemplateResp_PartialFailures (r : SearchTemplateResp) : list (Z * option error) :=
  [(SearchShards, envelope_failures (SearchTemplateResp_Shards r))].
#[export] Instance SearchTemplateResp_partial : partial_response SearchTemplateResp := {| categories_of := SearchTemplateResp_PartialFailures; wrap_several := None |}.
#[export] Instance SearchTemplateResp_lawful : lawful_response SearchTemplateResp.
Proof. lawful. Qed.
Definition SearchTemplateResp_documented (r : SearchTemplateResp) : list (Z * report) :=
  [(SearchShards, ShardsReport (Some (SearchTemplateResp_Shards r)))].
Lemma SearchTemplateResp_documents (r : SearchTemplateResp) : categories_of r = (fun d => (d.1, report_error d.2)) <$> SearchTemplateResp_documented r.
Proof. documents. Qed.
#[export] Instance SearchTemplateResp_described : documented_response SearchTemplateResp := {| documented := SearchTemplateResp_documented; law_documented := SearchTemplateResp_documents |}.

Record UpdateResp := MkUpdateResp { UpdateResp_Shards : ShardStatistics }.
Definition UpdateResp_PartialFailures (r : UpdateResp) : list (Z * option error) :=
  [(WriteShards, write_failures OperationUpdate (UpdateResp_Shards r))].
#[export] Instance UpdateResp_partial : partial_response UpdateResp := {| categories_of := UpdateResp_PartialFailures; wrap_several := None |}.
#[export] Instance UpdateResp_lawful : lawful_response UpdateResp.
Proof. lawful. Qed.
Definition UpdateResp_documented (r : UpdateResp) : list (Z * report) :=
  [(WriteShards, WriteReport "update" (UpdateResp_Shards r))].
Lemma UpdateResp_documents (r : UpdateResp) : categories_of r = (fun d => (d.1, report_error d.2)) <$> UpdateResp_documented r.
Proof. documents. Qed.
#[export] Instance UpdateResp_described : documented_response UpdateResp := {| documented := UpdateResp_documented; law_documented := UpdateResp_documents |}.
