(* ===== verification/ApiErrSpec.v ===== *)
(** * What the partial failures of a call promise

    The error of a call carries exactly the failures of its response that the
    mask lets through; the helpers of errors.go on it; and the outcome of a
    whole call, from the transport on. *)

From Stdlib Require Import Ascii String SpecFloat.
From stdpp Require Import base gmap list strings.
From Stdlib Require Import ZArith Lia.
From S2P Require Import Prelude.
From S2P Require Import GoStrings.
From S2P Require Import Float.
From S2P Require Import ShardHash.
From S2P Require Import ErrMask.
From S2P Require Import BulkIndexer.
From S2P Require Import Json.
From S2P Require Import Errors.
From S2P Require Import Stream.
From S2P Require Import Client.
From S2P Require Import ClientSpec.
From S2P Require Import ApiErrors.
From S2P Require Import ApiPartial.
Open Scope list_scope.
Open Scope bool_scope.
Open Scope Z_scope.

(** * Errors that are one category *)

Definition category (e : error) : Prop := exists l, e = Leaf l /\ partial_leaf l = true.

Lemma category_partial e : category e -> partial_target e = Some e.
Proof. intros (l & -> & Hl). simpl. by rewrite Hl. Qed.

Lemma PartialFailures_categories {R} `{!partial_response R} `{!lawful_response R} (r : R) mask :
  Forall category (PartialFailures r mask).
Proof.
  apply Forall_forall. intros e. unfold PartialFailures. rewrite list_elem_of_bind. intros (c & He & Hc).
  destruct (Has mask c.1); [by apply elem_of_nil in He|]. destruct c.2 as [e'|] eqn:E; [|by apply elem_of_nil in He].
  apply list_elem_of_singleton in He as ->. exact (law_errors r c e' Hc E).
Qed.

(** The documented reports whose bit the mask does not have, and the failures
    they carry, in order. *)
Definition unsuppressed {R} `{!partial_response R} `{!documented_response R} (r : R) (mask : Z) : list report :=
  snd <$> filter (fun d => Z.land mask d.1 = 0) (documented r).
Definition reported {R} `{!partial_response R} `{!documented_response R} (r : R) (mask : Z) : list error :=
  omap report_error (unsuppressed r mask).

Lemma reported_bit b : b ∈ reported_bits -> exists k, 0 <= k /\ b = Z.shiftl 1 k.
Proof.
  unfold reported_bits. rewrite !elem_of_cons, elem_of_nil. intros [Hb | [Hb | [Hb | [Hb | [Hb | []]]]]];
    subst b; [exists 0 | exists 1 | exists 2 | exists 3 | exists 7]; split; (lia || reflexivity).
Qed.

Lemma Has_land b mask : b ∈ reported_bits -> Has mask b = false <-> Z.land mask b = 0.
Proof.
  intros (k & Hk & ->)%reported_bit. rewrite Has_bit, Z.shiftl_1_l by done. split; intros H.
  - apply Z.bits_inj'. intros i Hi. rewrite Z.land_spec, Z.bits_0, Z.pow2_bits_eqb by done.
    destruct (Z.eqb_spec k i) as [<-|]; [by rewrite H | apply andb_false_r].
  - apply (f_equal (fun z => Z.testbit z k)) in H. by rewrite Z.land_spec, Z.pow2_bits_true, andb_true_r, Z.bits_0 in H.
Qed.

Lemma PartialFailures_reported {R} `{!partial_response R} `{!lawful_response R} `{!documented_response R} (r : R) mask :
  PartialFailures r mask = reported r mask.
Proof.
  unfold PartialFailures, reported, unsuppressed. destruct (law_bits r) as [_ Hb]. rewrite law_documented in *.
  induction (documented r) as [|d l IH]; [done|]. apply Forall_cons in Hb as [Hd Hb]. rewrite fmap_cons, bind_cons, (IH Hb), filter_cons.
  cbn [fst snd] in *. pose proof (Has_land _ mask Hd) as H. destruct (Has mask d.1).
  - by rewrite decide_False by (intros E; by apply H in E).
  - rewrite decide_True by (by apply H). cbn [fmap list_fmap omap list_omap]. by destruct (report_error d.2).
Qed.

(** * The error of a call *)

Lemma first_of_single {A B} (f : A -> option B) x l b : f x = Some b -> first_of f (x :: l) = Some b.
Proof. unfold first_of. simpl. by intros ->. Qed.

(** The error several categories collapse to. *)
Lemma collapse_cases errs w : wraps_partial w ->
  collapsePerOpErrors errs w =
  match errs with
  | [] => None
  | [e] => Some e
  | _ => Some (Multi (match w with None => joinError | Some f => match f [] with Multi n _ => n | _ => joinError end end) errs)
  end.
Proof.
  intros Hw. destruct errs as [|e [|e' errs]]; [done|done|]. cbn [collapsePerOpErrors]. destruct w as [f|].
  - destruct Hw as [-> | ->]; done.
  - unfold Join.
    assert (forall l : list error, omap id (map Some l) = l) as E by (induction l as [|x l IH]; [done|]; cbn; f_equal; exact IH).
    by rewrite E.
Qed.

Lemma IsPartial_category e : category e -> IsPartialFailure (Some e) = true.
Proof. intros He. unfold IsPartialFailure. by rewrite (As_self _ _ _ (category_partial e He)). Qed.

Lemma IsPartial_multi n errs : Forall category errs -> errs <> [] -> IsPartialFailure (Some (Multi n errs)) = true.
Proof.
  intros Hc Hne. unfold IsPartialFailure. destruct (partial_target (Multi n errs)) as [x|] eqn:E; [by rewrite (As_self _ _ _ E)|].
  rewrite As_multi by done. destruct errs as [|e errs]; [done|]. apply Forall_cons in Hc as [He _].
  by rewrite (first_of_single _ _ _ e) by apply As_self, category_partial, He.
Qed.

Lemma collapse_partial errs w : wraps_partial w -> Forall category errs ->
  IsPartialFailure (collapsePerOpErrors errs w) = negb (bool_decide (errs = [])).
Proof.
  intros Hw Hc. rewrite collapse_cases by done. destruct errs as [|e [|e' errs]]; [done| |].
  - apply Forall_cons in Hc as [He _]. by apply IsPartial_category.
  - by rewrite IsPartial_multi.
Qed.

Lemma category_no_multi e : category e -> As multi_target e = None.
Proof. by intros (l & -> & _). Qed.

(** The sub-errors of the collapsed error are the categories. *)
Lemma Errors_collapse errs w : wraps_partial w -> Forall category errs -> Errors (collapsePerOpErrors errs w) = errs.
Proof.
  intros Hw Hc. rewrite collapse_cases by done. destruct errs as [|e [|e' errs]]; [done| |]; cbn [Errors]; unfold partialSubErrors.
  - apply Forall_cons in Hc as [He _]. by rewrite category_no_multi, IsPartial_category.
  - by rewrite IsPartial_multi.
Qed.

(** A rate that clears a threshold. *)
Definition clears (threshold : f64) (c : Z * Z) : Prop := c.2 <> 0 /\ f64_ltb (f64_ratio c.1 c.2) threshold = false.

Lemma rate_loop_reports err t ds m :
  match rate_loop err t (omap report_error ds) m with
  | inr m' => m' = m || negb (bool_decide (omap report_error ds = [])) /\
      Forall (fun d => report_error d <> None -> clears t (report_counts d)) ds
  | inl r => Exists (fun d => report_error d <> None /\ ~ clears t (report_counts d)) ds /\
      exists e', r = Some e' /\ (e' = err \/ exists text, e' = Wrap (Errorf text) err)
  end.
Proof.
  revert m. induction ds as [|d ds IH]; intros m; cbn [omap list_omap].
  - split; [by rewrite orb_false_r|done].
  - change (list_omap _ _ report_error ds) with (omap report_error ds). destruct (report_error d) as [e|] eqn:E; cycle 1.
    { specialize (IH m). destruct (rate_loop err t (omap report_error ds) m).
      - destruct IH as [HE Hr]. split; [by right | done].
      - destruct IH as [-> HF]. split; [done|]. constructor; [by rewrite E | done]. }
    cbn [rate_loop]. rewrite (report_error_counts d e E). destruct (Z.eqb_spec (report_counts d).2 0) as [Hz|Hz].
    { split; [left; rewrite E; split; [done | by intros [? _]]|]. eexists. split; [done|]. by left. }
    unfold below. destruct (f64_ltb _ t) eqn:Hb.
    { split; [left; rewrite E; split; [done | intros [_ H]; congruence]|]. eexists. split; [done|]. right. by eexists. }
    specialize (IH true). destruct (rate_loop err t (omap report_error ds) true) as [r|m'].
    + destruct IH as [HE Hr]. split; [by right | done].
    + destruct IH as [-> HF]. split; [by rewrite orb_true_r|]. by constructor.
Qed.

(** A target that knows no error of fmt.Errorf. *)
Definition concrete {A} (f : error -> option A) : Prop := forall text e, f (Wrap (Errorf text) e) = None.

(** A bit of no category masks nothing. *)
Lemma unreported_bit {R} `{!partial_response R} `{!lawful_response R} (r : R) m k :
  0 <= k -> Z.shiftl 1 k ∉ reported_bits -> PartialFailures r (Z.lor m (Z.shiftl 1 k)) = PartialFailures r m.
Proof.
  intros Hk Hb. unfold PartialFailures. destruct (law_bits r) as [_ Hbits]. induction Hbits as [|c l Hc _ IH]; [done|].
  rewrite !bind_cons, IH. do 2 f_equal.
  destruct (reported_bit _ Hc) as (j & Hj & E).
  rewrite E, !Has_bit, Z.lor_spec by done. rewrite Z.shiftl_1_l, Z.pow2_bits_eqb by done.
  destruct (Z.eqb_spec k j) as [->|]; [by rewrite E in Hc|]. by rewrite orb_false_r.
Qed.

(** * Calls *)

Definition no_partial (e : error) : Prop := As partial_target e = None.

Lemma no_partial_all (n : several) es : partial_target (Multi n es) = None -> Forall no_partial es -> no_partial (Multi n es).
Proof.
  intros Hn Hes. unfold no_partial. rewrite As_multi by done. apply first_of_None. rewrite Forall_forall in Hes. exact Hes.
Qed.

Lemma no_partial_wrap w e : no_partial e -> no_partial (Wrap w e).
Proof. intros He. unfold no_partial. by rewrite As_wrap. Qed.

Lemma no_partial_false e : no_partial e -> IsPartialFailure (Some e) = false.
Proof. unfold no_partial, IsPartialFailure. by intros ->. Qed.

Lemma no_partial_with text s e : no_partial e -> no_partial (Multi (ErrorfAll text) [Leaf (Sentinel s); e]).
Proof. intros He. apply no_partial_all; [done|]. repeat constructor. exact He. Qed.

#[local] Hint Resolve no_partial_wrap no_partial_with : core.
#[local] Hint Extern 1 (no_partial (Leaf _)) => reflexivity : core.

Section Calls.
Context (json_text : json_error -> string) (Quote : gostring -> string).
Notation ParseError := (ParseError json_text Quote).

Lemma parseError_plain data l e :
  partial_leaf l = false -> (forall x, e = Some x -> no_partial x) -> no_partial (parseError json_text data l e).
Proof. intros Hl He. unfold parseError. destruct e as [x|]; [auto|]. unfold no_partial. simpl. by rewrite Hl. Qed.

Lemma StructError_plain b x : (StructError_UnmarshalJSON b).2 = Some x -> no_partial x.
Proof.
  unfold StructError_UnmarshalJSON. destruct (Unmarshal _ b _) as [[raw status] [e|]]; [intros [= <-]; auto|].
  destruct (Unmarshal d_Err raw no_Err) as [osErr [e|]]; [intros [= <-]; auto|].
  destruct (_ || _); [intros [= <-]; auto | done].
Qed.

Lemma json_failure_plain e x : json_failure e = Some x -> no_partial x.
Proof. destruct e; [intros [= <-]; auto | done]. Qed.

Lemma classify_plain code data t : no_partial (classify json_text code data t).
Proof.
  unfold classify.
  repeat match goal with |- no_partial (if ?b then _ else _) => destruct b end; auto;
    match goal with |- no_partial (let '(p, e) := ?d in _) => destruct d as [p e] eqn:E end;
    apply parseError_plain; try done; intros x Hx; try by apply (json_failure_plain e).
  apply (StructError_plain (value_bytes data)). by rewrite E.
Qed.

Lemma ParseError_plain resp :
  (forall b x, rp_Body resp = Some (b, Some x) -> no_partial x) -> no_partial (ParseError resp).1.
Proof.
  intros Hb. unfold Client.ParseError. destruct (rp_Body resp) as [[data [x|]]|]; cbn [fst]; eauto.
  destruct (Unmarshal d_testResp data _) as [t [e|]]; cbn [fst]; auto. apply classify_plain.
Qed.

Section Method.
Context {St : Type} (transport : httpRequest -> M St (option http_response * option error)).
Context {R : Type} `{!partial_response R} `{!lawful_response R} `{!documented_response R} (unmarshal : gostring -> R -> R * option error).

(** The transport returns, with a response or an error. *)
Definition transport_returns : Prop := forall rq s, exists s' resp err,
  transport rq s = Some (s', (resp, err)) /\ (resp = None -> err <> None).

(** None of the errors from below is a partial failure: those of the transport,
    of a body, and of decoding. *)
Definition plain_errors : Prop :=
  (forall rq s s' resp err, transport rq s = Some (s', (resp, err)) ->
     (forall x, err = Some x -> no_partial x) /\
     (forall h b x, resp = Some h -> hp_Body h = Some (b, Some x) -> no_partial x)) /\
  (forall b d d' x, unmarshal b d = (d', Some x) -> no_partial x).

(** What [request] found when it reports no error: a whole response, decoded. *)
Definition delivered (r : option Response) (data0 data : R) : Prop := exists resp,
  r = Some resp /\ rp_StatusCode resp <= 299 /\
  match rp_rawBody resp with
  | Some b => rp_Body resp = Some (b, None) /\ unmarshal b data0 = (data, None)
  | None => rp_Body resp = None /\ data = data0
  end.

Lemma request_outcome (built : error + httpRequest) (data0 : R) (s : St) :
  transport_returns -> plain_errors -> (forall x, built = inl x -> no_partial x) ->
  exists s' r e data, request json_text Quote transport unmarshal built (Some data0) s = Some (s', (r, e, Some data)) /\
    (forall x, e = Some x -> no_partial x) /\
    (e = None -> delivered r data0 data) /\
    (forall resp, r = Some resp -> IsError resp = true -> data = data0 /\ e = Some (ParseError resp).1 /\ (ParseError resp).2 = resp).
Proof.
  intros Ht [Hp Hu] Hb. unfold request, Execute, bind, ret. destruct built as [x|rq].
  { eexists _, _, _, _. split; [reflexivity|]. split; [intros y [= <-]; auto|]. done. }
  destruct (Ht rq s) as (s1 & resp & err & E & Hn). rewrite E. destruct (Hp _ _ _ _ _ E) as [Hp1 Hp2].
  destruct resp as [h|]; cycle 1.
  { destruct err as [x|]; [|by destruct (Hn eq_refl)]. eexists _, _, _, _. split; [reflexivity|]. split; [intros y [= <-]; auto|]. done. }
  destruct err as [x|].
  { eexists _, _, _, _. split; [reflexivity|]. split; [|done]. intros y [= <-]. specialize (Hp1 x eq_refl).
    destruct (Is _ x); auto. }
  destruct (hp_Body h) as [[b [x|]]|] eqn:Eb.
  - eexists _, _, _, _. split; [reflexivity|]. split; [|done]. intros y [= <-]. specialize (Hp2 h b x eq_refl Eb). auto.
  - set (resp := set_Body _ (Some (b, None))). destruct (IsError resp) eqn:Ei.
    + pose proof (ParseError_restores json_text Quote resp b None eq_refl) as Hr. change (set_Body resp _) with resp in Hr.
      pose proof (ParseError_plain resp) as Hy. destruct (ParseError resp) as [y resp'] eqn:Ep. cbn [fst snd] in *. subst resp'. rewrite Ei.
      eexists _, _, _, _. split; [reflexivity|]. split; [intros x [= <-]; apply Hy; cbn; congruence|]. split; [done|].
      intros r' [= <-] _. by rewrite Ep.
    + destruct (unmarshal b data0) as [d [x|]] eqn:Eu.
      * eexists _, _, _, _. split; [reflexivity|]. split; [intros y [= <-]; eauto|]. done.
      * cbn [option_map fmap option_fmap]. rewrite Ei. eexists _, _, _, _. split; [reflexivity|]. split; [done|].
        split; [|by intros r' [= <-]; rewrite Ei]. intros _. exists resp. unfold IsError, httpStatusCodeThreshold in Ei. apply Z.ltb_ge in Ei.
        split_and!; done.
  - set (resp := MkResponse _ _ _ _ _). destruct (IsError resp) eqn:Ei.
    + destruct (ParseError resp) as [y resp'] eqn:Ep. assert (resp' = resp) as -> by (unfold Client.ParseError in Ep; simpl in Ep; by injection Ep).
      pose proof (ParseError_plain resp) as Hy. rewrite Ep in Hy.
      eexists _, _, _, _. split; [reflexivity|]. split; [intros x [= <-]; apply Hy; cbn; congruence|]. split; [done|].
      intros r' [= <-] _. by rewrite Ep.
    + eexists _, _, _, _. split; [reflexivity|]. split; [done|]. split; [|by intros r' [= <-]; rewrite Ei].
      intros _. exists resp. unfold IsError, httpStatusCodeThreshold in Ei. apply Z.ltb_ge in Ei. split_and!; done.
Qed.

(** C35: A call of an operation with partial failures returns, over any transport that
    returns: its error carries, in order, exactly the failures in the documented reports of
    the response (the shards of a search, a broadcast or a write, the results of a bulk
    request, the shards and the failed sub-queries of a multi-search) whose bit the mask does
    not have; it is a partial failure just when there are such failures and nothing else went
    wrong, and then the response was whole, of a success status and decoded without an error;
    an error response leaves the caller's value alone and gives the error of ParseError. *)
Theorem calls_report (built : error + httpRequest) (data0 : R) (mask : Z) (s : St) :
  transport_returns -> plain_errors -> (forall x, built = inl x -> no_partial x) ->
  exists s' r e data err,
    request json_text Quote transport unmarshal built (Some data0) s = Some (s', (r, e, Some data)) /\
    finish e data mask = (data, err) /\
    (err = None <-> e = None /\ reported data mask = []) /\
    (e = None -> Errors err = reported data mask /\ delivered r data0 data) /\
    (IsPartialFailure err = true <-> e = None /\ reported data mask <> []) /\
    (forall resp, r = Some resp -> IsError resp = true -> data = data0 /\ err = Some (ParseError resp).1).
Proof.
  intros Ht Hp Hb. destruct (request_outcome built data0 s Ht Hp Hb) as (s' & r & e & data & E & Hplain & Hdel & Href).
  pose proof (PartialFailures_categories data mask) as Hc. rewrite PartialFailures_reported in Hc.
  pose proof (law_wrap : wraps_partial (wrap_several (R := R))) as Hw.
  exists s', r, e, data, (finish e data mask).2. split; [done|].
  destruct e as [x|]; cbn [finish snd].
  - specialize (Hplain x eq_refl). split; [done|]. split; [split; [done|by intros [? _]]|]. split; [done|].
    split; [by rewrite (no_partial_false x Hplain); split; [|by intros [? _]]|].
    intros resp Hr Hi. destruct (Href resp Hr Hi) as (? & ? & _). done.
  - rewrite PartialFailures_reported. split; [done|].
    pose proof (collapse_partial _ _ Hw Hc) as Hpart. pose proof (Errors_collapse _ _ Hw Hc) as Herr.
    split.
    { rewrite collapse_cases by done. destruct (reported data mask) as [|x [|y l]]; split; try done; by intros [_ ?]. }
    split; [by auto|]. split.
    { rewrite Hpart. destruct (reported data mask); [rewrite bool_decide_true by done|rewrite bool_decide_false by done]; cbn; split; try done; by intros [_ ?]. }
    intros resp Hr Hi. destruct (Href resp Hr Hi) as (_ & ? & _). done.
Qed.
End Method.
End Calls.

(** C36: The helpers of errors.go on the error of a call: Errors gives back the failures of
    the reports the mask lets through, ToleratePartialFailures drops it, and
    RequireSuccessRate drops it just when in each of those reports with failures something
    was counted and what succeeded of it (shards, results, sub-queries) divided by all of it
    is not below the threshold; what RequireSuccessRate returns instead still holds all that
    the error held. *)
Theorem success_rates {R} `{!partial_response R} `{!lawful_response R} `{!documented_response R} (r : R) (mask : Z) (threshold : f64) :
  let err := collapsePerOpErrors (PartialFailures r mask) wrap_several in
  Errors err = reported r mask /\
  ToleratePartialFailures err = None /\
  (RequireSuccessRate err threshold = None <->
     Forall (fun d => report_error d <> None ->
               let '(succeeded, total) := report_counts d in total <> 0 /\ f64_ltb (f64_ratio succeeded total) threshold = false)
       (unsuppressed r mask)) /\
  (forall e, RequireSuccessRate err threshold = Some e ->
     IsPartialFailure (Some e) = true /\ forall A (f : error -> option A), concrete f -> exists e0, err = Some e0 /\ As f e = As f e0).
Proof.
  intros err. rewrite (Forall_iff _ _ (fun d => report_error d <> None -> clears threshold (report_counts d)))
    by (intros d; unfold clears; by destruct (report_counts d)).
  pose proof (PartialFailures_categories r mask) as Hc. subst err. rewrite PartialFailures_reported in *. set (errs := reported r mask) in *.
  pose proof (law_wrap : wraps_partial (wrap_several (R := R))) as Hw. pose proof (collapse_partial errs _ Hw Hc) as Hp.
  pose proof (Errors_collapse errs _ Hw Hc) as He. split; [done|].
  pose proof (fun e0 => rate_loop_reports e0 threshold (unsuppressed r mask) false) as Hl. fold (reported r mask) in Hl. fold errs in Hl.
  destruct (collapsePerOpErrors errs wrap_several) as [e0|] eqn:E.
  2: { split; [done|]. cbn in He. split; [|done]. split; [intros _|done]. specialize (Hl (Leaf (AText ""))). rewrite <- He in Hl. apply Hl. }
  assert (errs <> []) as Hne by (intros H; by rewrite H in E).
  rewrite bool_decide_false in Hp by done. split; [unfold ToleratePartialFailures; by rewrite Hp|].
  cbn [RequireSuccessRate]. cbn in He. rewrite He. specialize (Hl e0).
  destruct (rate_loop e0 threshold errs false) as [x|m].
  - destruct Hl as (HE & e' & -> & He'). split.
    + split; [done|]. intros HF. apply Exists_exists in HE as (d & Hin & HE & HN). rewrite Forall_forall in HF. destruct (HN (HF d Hin HE)).
    + intros e [= <-]. destruct He' as [-> | [text ->]]; [split; [done|]; intros; by exists e0|].
      split; [exact Hp|]. intros A f Hf. exists e0. split; [done|]. apply As_wrap, Hf.
  - destruct Hl as [-> HF]. rewrite bool_decide_false by done. cbn [orb negb]. split; done.
Qed.

(** * A multi-search with a failed shard and a failed sub-query *)

Definition ex_failure : ShardSearchFailure := MkShardSearchFailure (Some "logs"%string) None (MkErrorCause "timeout" "slow") 2.
Definition ex_msearch : MSearchResp :=
  MkMSearchResp [MultiSearchItem (MkShardStatistics 1 [ex_failure] 5); ErrorItem (MkErrorRespBase (MkErrorCause "parsing_exception" "bad") 400);
                 MultiSearchItem (MkShardStatistics 0 [] 5)].
Definition ex_zero : MSearchResp := MkMSearchResp [].
Definition ex_http : http_response := MkHttp 200 ∅ (Some (lit "{}", None)).
Definition ex_transport : httpRequest -> M unit (option http_response * option error) := fun _ s => Some (s, (Some ex_http, None)).
Definition ex_unmarshal : gostring -> MSearchResp -> MSearchResp * option error := fun _ _ => (ex_msearch, None).
Definition ex_rq : httpRequest := MkHttpRequest "POST" "" "" "/_msearch" "" "" ∅ None None.

Lemma calls_report_witness :
  exists s' r e data err,
    request ex_text (fun _ => ""%string) ex_transport ex_unmarshal (inr ex_rq) (Some ex_zero) tt = Some (s', (r, e, Some data)) /\
    finish e data Empty = (data, err) /\
    Errors err = [Leaf (APartialSearchError 1 10 [ex_failure]);
                  Leaf (AMultiSearchItemError [MkMultiSearchItemFailure 1 (MkErrorRespBase (MkErrorCause "parsing_exception" "bad") 400)] 2)].
Proof.
  destruct (calls_report ex_text (fun _ => ""%string) ex_transport ex_unmarshal (inr ex_rq) ex_zero Empty tt) as (s' & r & e & data & err & E & F & _ & H & _).
  - intros rq s. eexists _, _, _. split; [reflexivity|done].
  - split; [|done]. intros rq s s' resp err [= <- <- <-]. split; [done|]. intros h b x [= <-]. done.
  - done.
  - exists s', r, e, data, err. split; [done|]. split; [done|]. cbn in E. injection E as <- <- <- <-.
    rewrite (proj1 (H eq_refl)). reflexivity.
Defined.

(** With a mask that lets both categories through, a threshold of nine tenths
    asks it of the shards and of the sub-queries. *)
Definition nine_tenths : f64 := f64_ratio 9 10.
Definition half : f64 := f64_ratio 1 2.

Example msearch_rates :
  IsPartialFailure (RequireSuccessRate (collapsePerOpErrors (PartialFailures ex_msearch Empty) wrap_several) nine_tenths) = true /\
  RequireSuccessRate (collapsePerOpErrors (PartialFailures ex_msearch Empty) wrap_several) half = None /\
  RequireSuccessRate (collapsePerOpErrors (PartialFailures ex_msearch ErrMask.MultiSearchItems) wrap_several) nine_tenths = None.
Proof. vm_compute. done. Qed.

(** * Remarks *)

(** A join with another error counts as a partial failure and is dropped. *)
Lemma joined_error_dropped text e : category e -> ToleratePartialFailures (Join [Some (Leaf (AText text)); Some e]) = None.
Proof.
  intros He. unfold ToleratePartialFailures, IsPartialFailure, Join. cbn [omap list_omap id]. rewrite As_multi by done.
  unfold first_of. cbn [omap list_omap As partial_target partial_leaf]. by rewrite (As_self _ _ _ (category_partial e He)).
Qed.

(** A sub-response that is null counts as a sub-query that succeeded. *)
Example null_item_succeeds e :
  msearch_item_failures [UnknownItem; ErrorItem e] = Some (Leaf (AMultiSearchItemError [MkMultiSearchItemFailure 1 e] 1)).
Proof. reflexivity. Qed.

(** The mask a conflict names may be the expected one. *)
Lemma conflict_names_expected c prev next m (h : cells) :
  h !! c = Some m -> m <> prev ->
  SetErrorMask c prev next (fun h => <[c := prev]> h) h = Some (Some (MkConflict prev prev), <[c := prev]> h).
Proof.
  intros Hm Hne. unfold SetErrorMask, set_mask, errorMask. rewrite Hm. cbn [mbind option_bind].
  rewrite (proj2 (Z.eqb_neq m prev)) by done. cbv beta iota zeta. by rewrite lookup_insert_eq.
Qed.

(** Updates of a mask, in whatever order they come, are never lost: each that
    succeeds found the mask the one before it left. *)
Fixpoint set_masks (c : nat) (l : list (Z * Z)) (h : cells) : option (list (Z * Z) * cells) :=
  match l with
  | [] => Some ([], h)
  | (prev, next) :: l' => '(ok, h) ← set_mask c prev next h; '(done_, h) ← set_masks c l' h;
    Some (if ok : bool then (prev, next) :: done_ else done_, h)
  end.
Fixpoint chain (m : Z) (l : list (Z * Z)) : option Z :=
  match l with [] => Some m | (prev, next) :: l' => if m =? prev then chain next l' else None end.

Lemma mask_updates_chain c l h m done_ h' :
  h !! c = Some m -> set_masks c l h = Some (done_, h') -> chain m done_ = h' !! c.
Proof.
  revert h m done_. induction l as [|[prev next] l IH]; intros h m d Hm; cbn [set_masks]; [intros [= <- <-]; by rewrite Hm|].
  unfold set_mask, errorMask. rewrite Hm. cbn [mbind option_bind]. destruct (Z.eqb_spec m prev) as [->|Hne].
  - intros ([d1 h1] & H1 & [= <- <-])%bind_Some. cbn [chain]. rewrite Z.eqb_refl. apply (IH (<[c := next]> h)); [by rewrite lookup_insert_eq|done].
  - intros ([d1 h1] & H1 & [= <- <-])%bind_Some. by apply (IH h).
Qed.

(** A clone has a cell of its own, with the mask of the moment. *)
Lemma clone_independent c (h : cells) c' h' prev next ok h'' :
  Clone c h = Some (c', h') -> set_mask c' prev next h' = Some (ok, h'') -> h' !! c' = h !! c /\ h'' !! c = h !! c.
Proof.
  unfold Clone, newErrMask, errorMask. intros (m & Hm & E)%bind_Some. cbv zeta in E. injection E as <- <-.
  assert (base.fresh (dom h) <> c) as Hf.
  { intros E. apply (is_fresh (dom h)). rewrite E. by apply elem_of_dom. }
  unfold set_mask, errorMask. rewrite lookup_insert_eq. cbn [mbind option_bind].
  destruct (m =? prev); intros [= <- <-]; (split; [done|]); by rewrite ?lookup_insert_ne by done.
Qed.

Lemma success_rates_witness :
  RequireSuccessRate (collapsePerOpErrors (PartialFailures ex_msearch Empty) wrap_several) half = None.
Proof.
  destruct (success_rates ex_msearch Empty half) as (_ & _ & H & _). apply H.
  unfold unsuppressed. cbn. repeat (apply Forall_cons_2; [intros _; split; [discriminate | vm_compute; reflexivity]|]). apply Forall_nil_2.
Defined.
