(* ===== verification/ClientConfig.v ===== *)
(** * The configuration of a client

    opensearch.go: the addresses and credentials a client starts from, and
    the key under which [NewDefaultClient] shares a transport. The key is the
    hash of a stream of fields; two configurations with one stream agree in all
    that the transport is made of. *)

From Stdlib Require Import Ascii String.
From stdpp Require Import base gmap list strings sorting.
From Stdlib Require Import ZArith Lia.
From S2P Require Import Prelude.
From S2P Require Import GoStrings.
From S2P Require Import Rendezvous.
From S2P Require Import KeyHash.
Open Scope list_scope.
Open Scope bool_scope.
Open Scope Z_scope.

(** Config. Durations and ints are Z; a float64 is the uint64 of its bits. Of a
    field with behaviour (an interface or a function) there is whether it is set. *)
Record Config := MkClientConf {
  Addresses : list string;
  Username : string;
  Password : string;
  Header : gmap string (list string);
  Signer : bool;
  CACert : list Z;
  InsecureSkipVerify : bool;
  RetryOnStatus : list Z;
  DisableRetry : bool;
  EnableRetryOnTimeout : bool;
  MaxRetries : Z;
  RequestTimeout : Z;
  DNSCacheRefresh : Z;
  DNSDialTimeout : Z;
  DNSKeepAlive : Z;
  DNSTimeout : Z;
  CompressRequestBody : bool;
  DiscoverNodesOnStart : option bool;
  DiscoverNodesInterval : Z;
  VerifyDeadAfter : Z;
  HealthCheckTimeout : Z;
  HealthCheckMaxRetries : Z;
  HealthCheckJitter : Z;
  ResurrectTimeoutInitial : Z;
  ResurrectTimeoutMax : Z;
  ResurrectTimeoutFactorCutoff : Z;
  MinimumResurrectTimeout : Z;
  JitterScale : Z;
  MaxRetryClusterHealth : Z;
  HealthCheckRequestModifier : bool;
  EnableDebugLogger : bool;
  ActiveListCap : Z;
  StandbyRotationInterval : Z;
  StandbyRotationCount : Z;
  StandbyPromotionChecks : Z;
  RetryBackoff : bool;
  Transport : bool;
  Logger : bool;
  Selector : bool;
  Router : bool;
  Observer : bool;
  OperationClassifier : bool;
  ShardCostConfig : string;
  Context_ : bool;
  ConnectionPoolFunc : bool;
  AddressResolver : bool;
  MaxAddressResolvers : Z;
  AddressResolverRunner : bool }.

(** addrsFromEnvironment, for the value of the variable. *)
Definition addrsFromEnvironment (env : option string) : list string :=
  match env with
  | Some v => if decide (v = ""%string) then [] else map TrimSpace (Split "," v)
  | None => []
  end.

(** extractCredentialsFromURLs: the user of each URL is its name and, when
    there is one, its password. The new user name and password. *)
Definition extractCredentialsFromURLs (username password : string) (users : list (option (string * option string))) : string * string :=
  match users with
  | [] => (username, password)
  | _ =>
    if negb (String.eqb username "") && negb (String.eqb password "") then (username, password)
    else match omap id users with
         | (u, pw) :: _ =>
           (if String.eqb username "" then u else username,
            if String.eqb password "" then match pw with Some p => p | None => password end else password)
         | [] => (username, password)
         end
  end.

(** * configKey *)

Definition configKeyFieldSep : string := String (ascii_of_nat 0) "".

(** Whether a field that cannot be compared is set. *)
Definition not_cacheable (c : Config) : bool :=
  Transport c || Logger c || Selector c || Router c || Observer c || Signer c || OperationClassifier c ||
  ConnectionPoolFunc c || AddressResolver c || AddressResolverRunner c || RetryBackoff c ||
  HealthCheckRequestModifier c || Context_ c.

Definition str (s : string) : field := FString (lit s).
Definition sort_strings (l : list string) : list string := merge_sort String.le l.

Definition header_fields (h : gmap string (list string)) : list field :=
  sort_strings (map fst (map_to_list h)) ≫= fun k =>
    let vals := sort_strings (default [] (h !! k)) in
    str k :: FInt (Z.of_nat (length vals)) :: map str vals.

Definition discover_field (d : option bool) : field := match d with Some b => FBool b | None => FInt (-1) end.
(** int64(math.Float64bits(f)). *)
Definition float_field (bits : Z) : field := FInt (wrap64 bits).

Definition option_fields (c : Config) : list field := [
  FBool (DisableRetry c); FBool (EnableRetryOnTimeout c); FInt (MaxRetries c); FInt (RequestTimeout c);
  FInt (DNSCacheRefresh c); FInt (DNSDialTimeout c); FInt (DNSKeepAlive c); FInt (DNSTimeout c);
  FBool (CompressRequestBody c); discover_field (DiscoverNodesOnStart c);
  FInt (DiscoverNodesInterval c); FInt (VerifyDeadAfter c); FInt (HealthCheckTimeout c); FInt (HealthCheckMaxRetries c);
  FInt (ResurrectTimeoutInitial c); FInt (ResurrectTimeoutMax c); FInt (ResurrectTimeoutFactorCutoff c);
  FInt (MinimumResurrectTimeout c); FInt (MaxRetryClusterHealth c); FInt (ActiveListCap c);
  FInt (StandbyRotationInterval c); FInt (StandbyRotationCount c); FInt (StandbyPromotionChecks c);
  FInt (MaxAddressResolvers c); FBool (EnableDebugLogger c); str (ShardCostConfig c);
  float_field (HealthCheckJitter c); float_field (JitterScale c)].

Definition config_fields (c : Config) : list field :=
  map str (Addresses c) ++ [str configKeyFieldSep; str (Username c); str (Password c)] ++ header_fields (Header c) ++
  [str configKeyFieldSep; FBytes (CACert c); FBool (InsecureSkipVerify c); FInt (Z.of_nat (length (RetryOnStatus c)))] ++
  map FInt (RetryOnStatus c) ++ option_fields c.

Definition configKey (c : Config) : option Z :=
  if not_cacheable c then None else Some (kb_Key (foldl kb_write NewKeyBuilder (config_fields c))).

(** cachedDefault.Key: without addresses those of the environment count. *)
Definition set_Addresses (c : Config) (v : list string) : Config :=
  MkClientConf v (Username c) (Password c) (Header c) (Signer c) (CACert c) (InsecureSkipVerify c) (RetryOnStatus c) (DisableRetry c)
    (EnableRetryOnTimeout c) (MaxRetries c) (RequestTimeout c) (DNSCacheRefresh c) (DNSDialTimeout c) (DNSKeepAlive c) (DNSTimeout c)
    (CompressRequestBody c) (DiscoverNodesOnStart c) (DiscoverNodesInterval c) (VerifyDeadAfter c) (HealthCheckTimeout c)
    (HealthCheckMaxRetries c) (HealthCheckJitter c) (ResurrectTimeoutInitial c) (ResurrectTimeoutMax c) (ResurrectTimeoutFactorCutoff c)
    (MinimumResurrectTimeout c) (JitterScale c) (MaxRetryClusterHealth c) (HealthCheckRequestModifier c) (EnableDebugLogger c)
    (ActiveListCap c) (StandbyRotationInterval c) (StandbyRotationCount c) (StandbyPromotionChecks c) (RetryBackoff c) (Transport c)
    (Logger c) (Selector c) (Router c) (Observer c) (OperationClassifier c) (ShardCostConfig c) (Context_ c) (ConnectionPoolFunc c)
    (AddressResolver c) (MaxAddressResolvers c) (AddressResolverRunner c).
Definition default_key (c : Config) (env : option string) : option Z :=
  configKey (match Addresses c with [] => set_Addresses c (addrsFromEnvironment env) | _ => c end).

(** * Streams that are equal *)

Definition stream (c : Config) : list Z := concat (map encode (config_fields c)).

(** The values of a header up to their order. *)
Definition header_same (h1 h2 : gmap string (list string)) : Prop :=
  forall k, option_Forall2 Permutation (h1 !! k) (h2 !! k).

Definition set_Header (c : Config) (v : gmap string (list string)) : Config :=
  MkClientConf (Addresses c) (Username c) (Password c) v (Signer c) (CACert c) (InsecureSkipVerify c) (RetryOnStatus c) (DisableRetry c)
    (EnableRetryOnTimeout c) (MaxRetries c) (RequestTimeout c) (DNSCacheRefresh c) (DNSDialTimeout c) (DNSKeepAlive c) (DNSTimeout c)
    (CompressRequestBody c) (DiscoverNodesOnStart c) (DiscoverNodesInterval c) (VerifyDeadAfter c) (HealthCheckTimeout c)
    (HealthCheckMaxRetries c) (HealthCheckJitter c) (ResurrectTimeoutInitial c) (ResurrectTimeoutMax c) (ResurrectTimeoutFactorCutoff c)
    (MinimumResurrectTimeout c) (JitterScale c) (MaxRetryClusterHealth c) (HealthCheckRequestModifier c) (EnableDebugLogger c)
    (ActiveListCap c) (StandbyRotationInterval c) (StandbyRotationCount c) (StandbyPromotionChecks c) (RetryBackoff c) (Transport c)
    (Logger c) (Selector c) (Router c) (Observer c) (OperationClassifier c) (ShardCostConfig c) (Context_ c) (ConnectionPoolFunc c)
    (AddressResolver c) (MaxAddressResolvers c) (AddressResolverRunner c).

(** One configuration: every field of the record, the headers up to the order of
    their values. *)
Definition same_config (c1 c2 : Config) : Prop :=
  header_same (Header c1) (Header c2) /\ set_Header c1 ∅ = set_Header c2 ∅.

(** A field that cannot be compared by value is set: a function, an interface, a
    context or a transport. *)
Definition uncomparable (c : Config) : Prop :=
  Signer c = true \/ HealthCheckRequestModifier c = true \/ RetryBackoff c = true \/ Transport c = true \/ Logger c = true \/
  Selector c = true \/ Router c = true \/ Observer c = true \/ OperationClassifier c = true \/ Context_ c = true \/
  ConnectionPoolFunc c = true \/ AddressResolver c = true \/ AddressResolverRunner c = true.

(** What Go's types and the use of the separator allow. *)
Definition plain_string (s : string) : Prop := s <> configKeyFieldSep.
Definition float_bits (z : Z) : Prop := 0 <= z < 2 ^ 64.
Record config_ok (c : Config) : Prop := {
  ok_fields : Forall field_ok (config_fields c);
  ok_floats : float_bits (HealthCheckJitter c) /\ float_bits (JitterScale c);
  ok_addresses : Forall plain_string (Addresses c);
  ok_header : forall k, is_Some (Header c !! k) -> plain_string k }.

#[local] Notation bytes_of l := (concat (map encode l)).

Lemma encode_step f g l k :
  field_ok f -> field_ok g -> kind_of f = kind_of g -> encode f ++ l = encode g ++ k -> f = g /\ l = k.
Proof.
  intros Hf Hg Hk H. pose proof (decode_encode f l Hf) as E. rewrite H, Hk, decode_encode in E by done. by injection E as -> ->.
Qed.

Lemma fields_step f g l k :
  Forall field_ok (f :: l) -> Forall field_ok (g :: k) -> kind_of f = kind_of g -> bytes_of (f :: l) = bytes_of (g :: k) ->
  f = g /\ bytes_of l = bytes_of k /\ Forall field_ok l /\ Forall field_ok k.
Proof.
  intros [Hf Hl]%Forall_cons [Hg Hk]%Forall_cons Hkind H. cbn [map concat] in H. by destruct (encode_step f g _ _ Hf Hg Hkind H) as [-> ->].
Qed.

Lemma str_inj s t : str s = str t -> s = t.
Proof. unfold str. intros [= H]. by apply lit_inj. Qed.

(** A list that a separator ends, and one whose length is known. *)
Lemma strings_until l1 : forall l2 r1 r2, Forall plain_string l1 -> Forall plain_string l2 ->
  Forall field_ok (map str l1 ++ str configKeyFieldSep :: r1) -> Forall field_ok (map str l2 ++ str configKeyFieldSep :: r2) ->
  bytes_of (map str l1 ++ str configKeyFieldSep :: r1) = bytes_of (map str l2 ++ str configKeyFieldSep :: r2) ->
  l1 = l2 /\ bytes_of r1 = bytes_of r2 /\ Forall field_ok r1 /\ Forall field_ok r2.
Proof.
  induction l1 as [|x l1 IH]; intros [|y l2] r1 r2 H1 H2 O1 O2 H; cbn [map app] in *;
    destruct (fields_step _ _ _ _ O1 O2 eq_refl H) as (E & H' & O1' & O2'); apply str_inj in E.
  - done.
  - apply Forall_cons in H2 as [Hy _]. by destruct Hy.
  - apply Forall_cons in H1 as [Hx _]. by destruct Hx.
  - apply Forall_cons in H1 as [_ H1], H2 as [_ H2]. destruct (IH l2 r1 r2 H1 H2 O1' O2' H') as (-> & ?). by subst.
Qed.

Lemma known_length {A} (mk : A -> field) (l1 : list A) : (forall x y, kind_of (mk x) = kind_of (mk y)) -> (forall x y, mk x = mk y -> x = y) ->
  forall l2 r1 r2, length l1 = length l2 ->
  Forall field_ok (map mk l1 ++ r1) -> Forall field_ok (map mk l2 ++ r2) ->
  bytes_of (map mk l1 ++ r1) = bytes_of (map mk l2 ++ r2) ->
  l1 = l2 /\ bytes_of r1 = bytes_of r2 /\ Forall field_ok r1 /\ Forall field_ok r2.
Proof.
  intros Hk Hi. induction l1 as [|x l1 IH]; intros [|y l2] r1 r2 Hl O1 O2 H; try done. cbn [map app] in *.
  destruct (fields_step _ _ _ _ O1 O2 (Hk x y) H) as (E & H' & O1' & O2'). apply Hi in E as ->. injection Hl as Hl.
  destruct (IH l2 r1 r2 Hl O1' O2' H') as (-> & ?). done.
Qed.

Definition header_entry (h : gmap string (list string)) (k : string) : list field :=
  str k :: FInt (Z.of_nat (length (sort_strings (default [] (h !! k))))) :: map str (sort_strings (default [] (h !! k))).

Lemma entries_until h1 h2 ks1 : forall ks2 r1 r2, Forall plain_string ks1 -> Forall plain_string ks2 ->
  Forall field_ok ((ks1 ≫= header_entry h1) ++ str configKeyFieldSep :: r1) -> Forall field_ok ((ks2 ≫= header_entry h2) ++ str configKeyFieldSep :: r2) ->
  bytes_of ((ks1 ≫= header_entry h1) ++ str configKeyFieldSep :: r1) = bytes_of ((ks2 ≫= header_entry h2) ++ str configKeyFieldSep :: r2) ->
  ks1 = ks2 /\ Forall (fun k => sort_strings (default [] (h1 !! k)) = sort_strings (default [] (h2 !! k))) ks1 /\
  bytes_of r1 = bytes_of r2 /\ Forall field_ok r1 /\ Forall field_ok r2.
Proof.
  induction ks1 as [|x ks1 IH]; intros [|y ks2] r1 r2 H1 H2 O1 O2 H; rewrite ?bind_cons in *; cbn [mbind list_bind] in *;
    rewrite <- ?app_assoc in *; cbn [app] in *; change (@list_bind _ _ ?f ?l) with (l ≫= f) in *.
  - destruct (fields_step _ _ _ _ O1 O2 eq_refl H) as (_ & ? & ? & ?). done.
  - exfalso. destruct (fields_step _ _ _ _ O1 O2 eq_refl H) as (E & _). apply str_inj in E. apply Forall_cons in H2 as [Hy _]. by destruct Hy.
  - exfalso. destruct (fields_step _ _ _ _ O1 O2 eq_refl H) as (E & _). apply str_inj in E. apply Forall_cons in H1 as [Hx _]. by destruct Hx.
  - unfold header_entry at 1 in O1. unfold header_entry at 1 in O2. unfold header_entry at 1 3 in H. cbn [app] in *.
    destruct (fields_step _ _ _ _ O1 O2 eq_refl H) as (E & Ha & Oa & Ob). apply str_inj in E as <-.
    destruct (fields_step _ _ _ _ Oa Ob eq_refl Ha) as (E & Hb & Oc & Od). injection E as E. apply Nat2Z.inj in E.
    destruct (known_length str _ ltac:(done) str_inj _ _ _ E Oc Od Hb) as (Ev & Hr & Oe & Of).
    apply Forall_cons in H1 as [_ H1], H2 as [_ H2]. destruct (IH ks2 r1 r2 H1 H2 Oe Of Hr) as (-> & Hks & ?). split; [done|].
    split; [by constructor|done].
Qed.

Lemma sort_strings_Permutation l : sort_strings l ≡ₚ l.
Proof. apply merge_sort_Permutation. Qed.

Lemma sort_strings_same l k : l ≡ₚ k -> sort_strings l = sort_strings k.
Proof.
  intros H. apply (StronglySorted_unique String.le); [| |by rewrite !sort_strings_Permutation].
  all: apply StronglySorted_merge_sort; apply _.
Qed.

Definition header_keys (h : gmap string (list string)) : list string := sort_strings (map fst (map_to_list h)).

Lemma elem_of_header_keys h k : k ∈ header_keys h <-> is_Some (h !! k).
Proof.
  unfold header_keys. rewrite sort_strings_Permutation. change (map fst ?l) with (fst <$> l). rewrite list_elem_of_fmap. split.
  - intros ([k' v] & -> & Hin%elem_of_map_to_list). by exists v.
  - intros [v Hv]. exists (k, v). split; [done|]. by apply elem_of_map_to_list.
Qed.

Lemma header_keys_same h1 h2 : header_same h1 h2 -> header_keys h1 = header_keys h2.
Proof.
  intros H. apply sort_strings_same. apply NoDup_Permutation; [apply NoDup_fst_map_to_list..|]. intros k.
  rewrite <- (sort_strings_Permutation (map fst (map_to_list h1))), <- (sort_strings_Permutation (map fst (map_to_list h2))).
  fold (header_keys h1) (header_keys h2). rewrite !elem_of_header_keys.
  specialize (H k). destruct H; split; intros [? ?]; eauto; done.
Qed.

(** A bool is written as an int; nothing is lost where the kinds are known, or
    the int is the -1 of an unset flag. *)
Definition as_int (f : field) : field := match f with FBool v => FInt (if v then 1 else 0) | _ => f end.

Lemma encode_as_int f : encode (as_int f) = encode f.
Proof. destruct f as [| | |[]]; reflexivity. Qed.

Lemma bytes_as_int l : bytes_of (map as_int l) = bytes_of l.
Proof. rewrite map_map. f_equal. apply map_ext. apply encode_as_int. Qed.

Lemma as_int_ok l : Forall field_ok l -> Forall field_ok (map as_int l).
Proof. intros H. apply Forall_fmap. eapply Forall_impl; [exact H|]. intros [| | |[]]; cbn; unfold int64_range; auto; lia. Qed.

Lemma fields_known l : forall k, map kind_of l = map kind_of k -> Forall field_ok l -> Forall field_ok k -> bytes_of l = bytes_of k -> l = k.
Proof.
  induction l as [|f l IH]; intros [|g k] Hk O1 O2 H; try done. injection Hk as Hf Hk.
  destruct (fields_step _ _ _ _ O1 O2 Hf H) as (-> & H' & ? & ?). f_equal. by apply IH.
Qed.

Lemma as_int_cons f g l k : (as_int f = as_int g -> f = g) -> (map as_int l = map as_int k -> l = k) ->
  map as_int (f :: l) = map as_int (g :: k) -> f :: l = g :: k.
Proof. intros Hf Hl [= H1 H2]. by rewrite (Hf H1), (Hl H2). Qed.

Lemma as_int_bool a b : as_int (FBool a) = as_int (FBool b) -> FBool a = FBool b.
Proof. by destruct a, b. Qed.

Lemma as_int_discover a b : as_int (discover_field a) = as_int (discover_field b) -> discover_field a = discover_field b.
Proof. by destruct a as [[]|], b as [[]|]. Qed.

Lemma option_fields_same c1 c2 : Forall field_ok (option_fields c1) -> Forall field_ok (option_fields c2) ->
  bytes_of (option_fields c1) = bytes_of (option_fields c2) -> option_fields c1 = option_fields c2.
Proof.
  intros O1 O2 H. rewrite <- bytes_as_int, <- (bytes_as_int (option_fields c2)) in H.
  apply fields_known in H; [|unfold option_fields, discover_field; by destruct (DiscoverNodesOnStart c1), (DiscoverNodesOnStart c2) | by apply as_int_ok..].
  revert H. unfold option_fields. repeat (apply as_int_cons; [first [apply as_int_bool | apply as_int_discover | done]|]). done.
Qed.

(** Two configurations whose streams agree. *)
Lemma stream_groups c1 c2 : config_ok c1 -> config_ok c2 -> stream c1 = stream c2 ->
  Addresses c1 = Addresses c2 /\ Username c1 = Username c2 /\ Password c1 = Password c2 /\ header_same (Header c1) (Header c2) /\
  CACert c1 = CACert c2 /\ InsecureSkipVerify c1 = InsecureSkipVerify c2 /\ RetryOnStatus c1 = RetryOnStatus c2 /\
  option_fields c1 = option_fields c2.
Proof.
  intros [O1 _ A1 K1] [O2 _ A2 K2] H. unfold stream, config_fields in *.
  destruct (strings_until _ _ _ _ A1 A2 O1 O2 H) as (Ea & H1 & P1 & P2). clear H O1 O2.
  destruct (fields_step _ _ _ _ P1 P2 eq_refl H1) as (Eu & H2 & Q1 & Q2). apply str_inj in Eu. clear H1 P1 P2.
  destruct (fields_step _ _ _ _ Q1 Q2 eq_refl H2) as (Ep & H3 & P1 & P2). apply str_inj in Ep. clear H2 Q1 Q2.
  assert (forall c, (forall k, is_Some (Header c !! k) -> plain_string k) -> Forall plain_string (header_keys (Header c))) as Hk.
  { intros c Hc. apply Forall_forall. intros k Hk%elem_of_header_keys. by apply Hc. }
  destruct (entries_until (Header c1) (Header c2) _ _ _ _ (Hk c1 K1) (Hk c2 K2) P1 P2 H3) as (Ek & Ev & H4 & Q1 & Q2). clear H3 P1 P2.
  destruct (fields_step _ _ _ _ Q1 Q2 eq_refl H4) as (Ec & H5 & P1 & P2). injection Ec as Ec. clear H4 Q1 Q2.
  destruct (fields_step _ _ _ _ P1 P2 eq_refl H5) as (Ei & H6 & Q1 & Q2). injection Ei as Ei. clear H5 P1 P2.
  destruct (fields_step _ _ _ _ Q1 Q2 eq_refl H6) as (En & H7 & P1 & P2). injection En as En. apply Nat2Z.inj in En. clear H6 Q1 Q2.
  destruct (known_length FInt _ ltac:(done) ltac:(congruence) _ _ _ En P1 P2 H7) as (Er & H8 & Q1 & Q2). clear H7 P1 P2.
  split_and!; try done.
  - intros k. destruct (Header c1 !! k) as [v1|] eqn:E1.
    + assert (k ∈ header_keys (Header c1)) as Hin by (by apply elem_of_header_keys).
      rewrite Forall_forall in Ev. pose proof (Ev k Hin) as Hs. rewrite E1 in Hs. rewrite Ek in Hin. apply elem_of_header_keys in Hin as [v2 E2].
      rewrite E2 in *. constructor. change (default [] (Some ?v)) with v in Hs. by rewrite <- (sort_strings_Permutation v1), Hs, sort_strings_Permutation.
    + destruct (Header c2 !! k) as [v2|] eqn:E2; [|constructor]. exfalso.
      assert (k ∈ header_keys (Header c2)) as Hin by (by apply elem_of_header_keys). rewrite <- Ek in Hin.
      apply elem_of_header_keys in Hin as [v Hv]. congruence.
  - exact (option_fields_same c1 c2 Q1 Q2 H8).
Qed.

Lemma header_fields_same h1 h2 : header_same h1 h2 -> header_fields h1 = header_fields h2.
Proof.
  intros H. unfold header_fields. fold (header_keys h1) (header_keys h2). rewrite (header_keys_same h1 h2 H).
  induction (header_keys h2) as [|k l IH]; [done|]. rewrite !bind_cons, IH. f_equal.
  assert (sort_strings (default [] (h1 !! k)) = sort_strings (default [] (h2 !! k))) as ->; [|done].
  apply sort_strings_same. specialize (H k). destruct H; done.
Qed.

Lemma float_field_inj x y : float_bits x -> float_bits y -> float_field x = float_field y -> x = y.
Proof.
  unfold float_bits, float_field. intros Hx Hy [= H]. apply (f_equal u64) in H. rewrite !u64_wrap64 in H. unfold u64 in H.
  rewrite !Z.mod_small in H by done. done.
Qed.

Lemma discover_field_inj a b : discover_field a = discover_field b -> a = b.
Proof. destruct a, b; simpl; congruence. Qed.

Lemma not_cacheable_spec c : not_cacheable c = true <-> uncomparable c.
Proof. unfold not_cacheable, uncomparable. rewrite !orb_true_iff. tauto. Qed.

Lemma comparable c : ~ uncomparable c ->
  (Signer c = false /\ HealthCheckRequestModifier c = false /\ RetryBackoff c = false /\ Transport c = false /\ Logger c = false) /\
  (Selector c = false /\ Router c = false /\ Observer c = false /\ OperationClassifier c = false /\ Context_ c = false) /\
  ConnectionPoolFunc c = false /\ AddressResolver c = false /\ AddressResolverRunner c = false.
Proof. rewrite <- not_cacheable_spec, not_true_iff_false. unfold not_cacheable. rewrite !orb_false_iff. tauto. Qed.

(** The fields of a record that can be compared are all in the stream. *)
Lemma stream_same c1 c2 : config_ok c1 -> config_ok c2 -> ~ uncomparable c1 -> ~ uncomparable c2 -> stream c1 = stream c2 -> same_config c1 c2.
Proof.
  intros O1 O2 N1 N2 H. destruct (stream_groups c1 c2 O1 O2 H) as (Ea & Eu & Ep & Eh & Ec & Ei & Er & Eo). split; [done|].
  destruct (ok_floats _ O1) as [F1 F2], (ok_floats _ O2) as [F3 F4]. clear O1 O2 H Eh.
  apply comparable in N1, N2.
  destruct c1, c2. cbn in *. unfold option_fields, str in Eo. cbn -[lit] in Eo. injection Eo as. unfold set_Header. cbn.
  repeat match goal with
         | H : discover_field _ = discover_field _ |- _ => apply discover_field_inj in H
         | H : lit _ = lit _ |- _ => apply lit_inj in H
         | H : wrap64 _ = wrap64 _ |- _ => apply (f_equal FInt) in H; apply float_field_inj in H; [|done..]
         end.
  destruct_and!. by subst.
Qed.

Lemma same_config_fields c1 c2 : same_config c1 c2 -> config_fields c1 = config_fields c2 /\ not_cacheable c1 = not_cacheable c2.
Proof.
  intros [Hh Hs]. destruct c1, c2. unfold set_Header in Hs. cbn in *. injection Hs as. subst. split; [|done].
  unfold config_fields. cbn. by rewrite (header_fields_same _ _ Hh).
Qed.

(** C37: The key of the cache of default clients stands for the configuration. There is
    no key just when one of the thirteen fields that cannot be compared is set; otherwise the
    key is the FNV-1a hash of a stream of fields, and two configurations write one stream
    exactly when they agree in every field, the headers up to the order of a header's values;
    such configurations have one key. For values of Go's types, and addresses and header
    names other than the separator, a lone NUL. *)
Theorem client_key_faithful (c1 c2 : Config) :
  config_ok c1 -> config_ok c2 ->
  (configKey c1 = None <-> uncomparable c1) /\
  (~ uncomparable c1 -> configKey c1 = Some (wrap64 (hash_Write offset64 (stream c1)))) /\
  (~ uncomparable c1 -> ~ uncomparable c2 -> (stream c1 = stream c2 <-> same_config c1 c2)) /\
  (same_config c1 c2 -> configKey c1 = configKey c2).
Proof.
  intros O1 O2. split_and!.
  - rewrite <- not_cacheable_spec. unfold configKey. by destruct (not_cacheable c1).
  - rewrite <- not_cacheable_spec. intros Hn%not_true_is_false. unfold configKey. rewrite Hn. do 2 f_equal. unfold kb_Key. f_equal. apply kb_writes.
  - intros N1 N2. split; [by apply stream_same|]. intros [Hf _]%same_config_fields. unfold stream. by rewrite Hf.
  - intros [Hf Hn]%same_config_fields. unfold configKey. by rewrite Hn, Hf.
Qed.

Definition ex_config (user : string) (accept : list string) : Config :=
  MkClientConf ["http://n1:9200"; "http://n2:9200"]%string user "s3cret" {["Accept"%string := accept]} false [1; 2; 3] false [502; 503] false false 3 0 0 0 0 0
    false None 0 0 0 0 0 0 0 0 0 0 0 false false 0 0 0 0 false false false false false false false "" false false false 0 false.

Lemma client_key_faithful_witness :
  (configKey (ex_config "admin" ["a"; "b"]) = configKey (ex_config "admin" ["b"; "a"]) /\
   configKey (ex_config "admin" ["a"; "b"]) <> None /\
   stream (ex_config "admin" ["a"; "b"]) <> stream (ex_config "guest" ["a"; "b"]))%string.
Proof.
  assert (forall u l, u = "admin"%string \/ u = "guest"%string -> l = ["a"; "b"]%string \/ l = ["b"; "a"]%string -> config_ok (ex_config u l)) as Hok.
  { intros u l Hu Hl. constructor.
    - destruct Hu as [-> | ->], Hl as [-> | ->]; vm_compute config_fields; repeat constructor; vm_compute; congruence.
    - split; split; vm_compute; congruence.
    - repeat constructor; discriminate.
    - intros k [v Hv]. cbn in Hv. apply lookup_singleton_Some in Hv as [<- _]. discriminate. }
  assert (forall u l, ~ uncomparable (ex_config u l)) as Hc by (intros u l H; unfold uncomparable in H; cbn in H; intuition discriminate).
  split_and!.
  - apply client_key_faithful; [auto..|]. split; [|reflexivity]. intros k. cbn.
    destruct (decide (k = "Accept"%string)) as [->|Hne]; [rewrite !lookup_singleton_eq; constructor; apply perm_swap|].
    rewrite !lookup_singleton_ne by done. constructor.
  - intros H. apply (client_key_faithful _ (ex_config "admin" ["a"; "b"])) in H; [|auto..]. by apply Hc in H.
  - intros H. apply client_key_faithful in H; [|auto..]. destruct H as [_ H]. discriminate.
Defined.
