(* ===== verification/Unions.v ===== *)
(** * Unions

    The generated union types of opensearchapi and the plugins: a value of one of
    several Go types, read from JSON by the first byte of the text, by a named
    discriminator, by the keys that are present, by trial, or when it is asked
    for. A union type is described by its branches and by how UnmarshalJSON picks
    one; its methods, which the generator writes out for every type alike, are
    defined once on the descriptions. The probes of internal/build/union.go are
    here with the pool their maps come from.

    A Go type is its name. What encoding/json does with the type of a branch, its
    zero value and the assignment of a field are arguments. *)

From Stdlib Require Import Ascii String.
From stdpp Require Import base gmap list strings.
From Stdlib Require Import ZArith Lia.
From S2P Require Import Prelude.
From S2P Require Import GoStrings.
From S2P Require Import ShardHash.
From S2P Require Import Json.
From S2P Require Import Errors.
Open Scope list_scope.
Open Scope bool_scope.
Open Scope Z_scope.

Definition gotype : Type := string.

(** * The probes *)

(** A map[string]json.RawMessage; a nil map is empty. *)
Definition raw_fields : Type := gmap gostring gostring.

Definition maxPooledKeySetSize : Z := 32.

(** json.Unmarshal into such a map adds the members to it. *)
Definition d_raw_fields : decoder raw_fields := fun v old =>
  match v with
  | JNull => (∅, None)
  | JObj ms => (foldl (fun m kv => <[kv.1 := kv.2.1]> m) old ms, None)
  | _ => (old, Some UnmarshalTypeError)
  end.

(** What goes back to the pool: nothing when the map has grown. *)
Definition recycled (fields : raw_fields) : option raw_fields :=
  if maxPooledKeySetSize <? Z.of_nat (size fields) then None else Some ∅.

(** The functions of union.go take the map the pool gave and leave what they
    put back. *)
Definition HasJSONKeys (fields : raw_fields) (data : gostring) (keys : list string) : bool * option raw_fields :=
  match keys with
  | [] => (true, Some fields)
  | _ =>
    let '(fields, err) := Unmarshal d_raw_fields data fields in
    (match err with
     | Some _ => false
     | None => forallb (fun k => bool_decide (is_Some (fields !! lit k))) keys
     end, recycled fields)
  end.

Definition JSONDiscriminator (fields : raw_fields) (data : gostring) (key : string) : (gostring * bool * option json_error) * option raw_fields :=
  let '(fields, err) := Unmarshal d_raw_fields data fields in
  (match err with
   | Some e => ([], false, Some e)
   | None =>
     match fields !! lit key with
     | None => ([], false, None)
     | Some raw =>
       match Unmarshal d_string raw [] with
       | (_, Some e) => ([], true, Some e)
       | (value, None) => (value, true, None)
       end
     end
   end, recycled fields).

(** Every map of the pool is empty, so the answers do not depend on it. *)
Lemma pool_stays_empty fields data keys : fields = ∅ ->
  (forall m, (HasJSONKeys fields data keys).2 = Some m -> m = ∅) /\
  (forall k m, (JSONDiscriminator fields data k).2 = Some m -> m = ∅).
Proof.
  intros ->. split.
  - intros m. destruct keys as [|k keys]; simpl; [by intros [= <-]|].
    destruct (Unmarshal _ _ _) as [fs e]. unfold recycled; simpl. case_match; by intros [= <-].
  - intros k m. unfold JSONDiscriminator. destruct (Unmarshal _ _ _) as [fs e]. unfold recycled; simpl. case_match; by intros [= <-].
Qed.

Definition has_keys (data : gostring) (keys : list string) : bool := (HasJSONKeys ∅ data keys).1.
Definition discriminator (data : gostring) (key : string) : gostring * bool * option json_error := (JSONDiscriminator ∅ data key).1.

(** * Descriptions *)

(** The classes of JSON texts a first byte tells apart. *)
Inductive token := TString | TNumber | TBool | TArray | TObject.
#[export] Instance token_eq : EqDecision token.
Proof. solve_decision. Defined.

Definition begins (c : token) (b : Z) : bool :=
  match c with
  | TString => b =? 34
  | TNumber => (48 <=? b) && (b <=? 57) || (b =? 45)
  | TBool => (b =? 116) || (b =? 102)
  | TArray => b =? 91
  | TObject => b =? 123
  end.
Definition starts_with (c : token) (data : gostring) : bool := match data with b :: _ => begins c b | [] => false end.

(** A branch: the name of its accessor, its type, and the field the constructor
    sets with the value it is set to. *)
Record branch := MkBranch { br_name : string; br_type : gotype; br_field : option (string * string) }.
Notation "n :- t" := (MkBranch n t None) (at level 60, no associativity).
Notation "n :- t 'sets' f := x" := (MkBranch n t (Some (f, x))) (at level 60, no associativity, f at level 9, x at level 9).

(** A case of UnmarshalJSON: the branch it sets and the type it decodes into. *)
Record target := MkTarget { tg_name : string; tg_type : gotype }.
Notation "n ::> t" := (MkTarget n t) (at level 50, no associativity).

Inductive decoding :=
| ByToken (cases : list (token * target))
| ByName (key : string) (default_value : option string) (cases : list (string * target))
| ByProbe (probes : list (string * target)) (primary : target) (primary_fields : list string)
| ByTrial (keyed : list (list string * target)) (permissive : list target).

Record typed_union := MkTyped { tu_name : string; tu_branches : list branch; tu_decoding : decoding }.

(** The branches of a union whose branch the request selects: the keys its
    accessor asks for. *)
Record requested_branch := MkRequested { rb_name : string; rb_type : gotype; rb_keys : list string }.
Record requested_union := MkReqUnion { ru_name : string; ru_branches : list requested_branch }.

(** * Methods *)

Section Methods.
Context {V : Type} (zero : gotype -> V) (set_field : string -> string -> V -> V).
(** json.Unmarshal into a new variable of a type, and json.Marshal. *)
Context (unmarshal : gotype -> gostring -> V * option error) (marshal : gotype -> V -> error + gostring).
Context (Quote : gostring -> string).

(** The value is a pointer to a value of its type; no type stands for the zero
    of the enumeration. *)
Record union := MkUnion { u_typ : option string; u_raw : gostring; u_value : option (gotype * V) }.

Definition zero_union : union := MkUnion None [] None.
Definition Type_String (typ : option string) : string := default "unknown"%string typ.
Definition SetRaw (raw : gostring) (u : union) : union := MkUnion None raw None.

Definition UnionBranchError_ (d : typed_union) (b : branch) (u : union) : error :=
  Leaf (AUnionBranchError (tu_name d) (br_name b) (Type_String (u_typ u))).

(** The accessor of a branch. *)
Definition accessor (d : typed_union) (b : branch) (u : union) : V * option error :=
  match u_value u with
  | Some (t, v) => if decide (t = br_type b) then (v, None) else (zero (br_type b), Some (UnionBranchError_ d b u))
  | None => (zero (br_type b), Some (UnionBranchError_ d b u))
  end.

(** New...From. *)
Definition constructed (b : branch) (v : V) : V := match br_field b with Some (f, x) => set_field f x v | None => v end.
Definition construct (b : branch) (v : V) : union := MkUnion (Some (br_name b)) [] (Some (br_type b, constructed b v)).

Definition NullJSON : gostring := lit "null".
Definition MarshalJSON (u : union) : error + gostring :=
  match u_value u with
  | Some (t, v) => marshal t v
  | None => inr (match u_raw u with [] => NullJSON | raw => raw end)
  end.

(** ** UnmarshalJSON *)

Definition reset (data : gostring) (u : union) : union := MkUnion None data None.
Definition store (t : target) (v : V) (u : union) : union := MkUnion (Some (tg_name t)) (u_raw u) (Some (tg_type t, v)).

(** Decode into a target, and give its error to the caller. *)
Definition decode_into (t : target) (data : gostring) (u : union) : union * option error :=
  match unmarshal (tg_type t) data with
  | (v, None) => (store t v u, None)
  | (_, Some e) => (u, Some e)
  end.

Definition by_token (name : string) (cases : list (token * target)) (data : gostring) (u : union) : union * option error :=
  match List.find (fun c => starts_with c.1 data) cases with
  | Some c => decode_into c.2 data u
  | None => (u, Some (Leaf (AText (pieces [name; ": unexpected JSON token: "; bytes (take 1 data)]))))
  end.

Definition by_name (name key : string) (default_value : option string) (cases : list (string * target)) (data : gostring) (u : union) : union * option error :=
  match discriminator data key with
  | (_, _, Some e) => (u, Some (Wrap (Errorf (pieces [name; ": reading "; key; " discriminator"])) (Leaf (AJsonError e))))
  | (value, present, None) =>
    match (if present then Some value else lit <$> default_value) with
    | None => (u, Some (Leaf (AText (pieces [name; ": payload has no "; key; " discriminator: "; bytes (take 64 data)]))))
    | Some value =>
      match List.find (fun c => bool_decide (lit c.1 = value)) cases with
      | Some c => decode_into c.2 data u
      | None => (u, Some (Leaf (AText (pieces [name; ": unknown "; key; " discriminator "; Quote value]))))
      end
    end
  end.

(** The bytes a probe field of the merged struct ends up with: those of the last
    member encoding/json matches with it. *)
Definition probe_bytes (probes primary_fields : list string) (key : string) (data : gostring) : gostring :=
  match parse data with
  | Some (JObj ms) =>
    foldl (fun raw m => if bool_decide (field_of (map (fun n => (n, n)) (primary_fields ++ probes)) m.1 = Some key) then m.2.1 else raw) [] ms
  | _ => []
  end.
Definition probed (probes primary_fields : list string) (key : string) (data : gostring) : bool :=
  bool_decide (probe_bytes probes primary_fields key data <> []).

(** No probe has the name of a field of the primary branch, so decoding the
    merged struct decodes the primary. *)
Definition by_probe (probes : list (string * target)) (primary : target) (primary_fields : list string) (data : gostring) (u : union) : union * option error :=
  match unmarshal (tg_type primary) data with
  | (_, Some e) => (u, Some e)
  | (m, None) =>
    match List.find (fun p => probed (map fst probes) primary_fields p.1 data) probes with
    | Some p => decode_into p.2 data u
    | None => (store primary m u, None)
    end
  end.

(** The first target that decodes; the errors are dropped. *)
Definition attempt_decode (t : target) (data : gostring) : option V :=
  match unmarshal (tg_type t) data with (v, None) => Some v | _ => None end.
Fixpoint try_each (ts : list target) (data : gostring) : option (target * V) :=
  match ts with
  | [] => None
  | t :: ts' => match attempt_decode t data with Some v => Some (t, v) | None => try_each ts' data end
  end.

Definition by_trial (name : string) (keyed : list (list string * target)) (permissive : list target) (data : gostring) (u : union) : union * option error :=
  match try_each (snd <$> filter (fun k => has_keys data k.1 = true) keyed) data with
  | Some (t, v) => (store t v u, None)
  | None =>
    match try_each permissive data with
    | Some (t, v) => (store t v u, None)
    | None => (u, Some (Leaf (AText (pieces [name; ": no branch matched JSON: "; bytes (take 64 data)]))))
    end
  end.

Definition UnmarshalJSON (d : typed_union) (data : gostring) (u : union) : union * option error :=
  let u := reset data u in
  if bool_decide (data = []) || bool_decide (data = NullJSON) then (u, None)
  else
    match tu_decoding d with
    | ByToken cases => by_token (tu_name d) cases data u
    | ByName key default_value cases => by_name (tu_name d) key default_value cases data u
    | ByProbe probes primary fields => by_probe probes primary fields data u
    | ByTrial keyed permissive => by_trial (tu_name d) keyed permissive data u
    end.

(** ** Unions the request selects *)

Record held := MkHeld { h_raw : gostring; h_value : option (gotype * V) }.
Definition zero_held : held := MkHeld [] None.
Definition SetRaw_held (raw : gostring) (u : held) : held := MkHeld raw None.
Definition UnmarshalJSON_held (data : gostring) (u : held) : held * option error := (MkHeld data None, None).
Definition MarshalJSON_held (u : held) : error + gostring := MarshalJSON (MkUnion None (h_raw u) (h_value u)).
Definition IsZero (u : held) : bool := match h_value u, h_raw u with None, [] => true | _, _ => false end.
Definition construct_held (b : requested_branch) (v : V) : held := MkHeld [] (Some (rb_type b, v)).

Definition lacks_text (keys : list string) : string :=
  pieces ["payload lacks required "%string; (if 1 <? Z.of_nat (length keys) then "properties"%string else "property"%string); " ["%string; String.concat " " (map (fun k => Quote (lit k)) keys); "]"%string].

(** As<Branch>: the stored value of the type, or else the bytes decoded. *)
Definition AsBranch (d : requested_union) (b : requested_branch) (u : held) : V * option error :=
  let wrap e := Some (Wrap (UnionBranchError (ru_name d) (rb_name b)) e) in
  let decoded :=
    match h_raw u with
    | [] => (zero (rb_type b), None)
    | raw =>
      if has_keys raw (rb_keys b) then
        match unmarshal (rb_type b) raw with (v, None) => (v, None) | (v, Some e) => (v, wrap e) end
      else (zero (rb_type b), wrap (Leaf (AText (lacks_text (rb_keys b)))))
    end in
  match h_value u with
  | Some (t, v) => if decide (t = rb_type b) then (v, None) else decoded
  | None => decoded
  end.
End Methods.
Arguments union : clear implicits.
Arguments held : clear implicits.
