(* ===== verification/UnionsMarked.v ===== *)
(** * Unions whose payload tells the branch

    The unions whose branches the first byte of the text tells apart, and those
    whose payload names its branch. The branches and the cases of the long ones
    are in several lists. *)

From Stdlib Require Import Ascii String.
From stdpp Require Import base gmap list strings.
From S2P Require Import Prelude.
From S2P Require Import Json.
From S2P Require Import Unions.
Open Scope string_scope.
Open Scope list_scope.

Definition ClusterAllocationExplainClusterInfoShardSizesValue : typed_union := MkTyped "ClusterAllocationExplainClusterInfoShardSizesValue"
  ["Int64" :- "int64"; "String" :- "string"]
  (ByToken [(TNumber, "Int64" ::> "int64"); (TString, "String" ::> "string")]).

Definition IndicesAnalyzeTextTo : typed_union := MkTyped "IndicesAnalyzeTextTo"
  ["String" :- "string"; "Array" :- "[]string"]
  (ByToken [(TString, "String" ::> "string"); (TArray, "Array" ::> "[]string")]).

Definition IndicesPutMappingBodyDynamicTemplates : typed_union := MkTyped "IndicesPutMappingBodyDynamicTemplates"
  ["Map" :- "map[string]json.RawMessage"; "Array" :- "[]map[string]CommonMappingDynamicTemplate"]
  (ByToken [(TObject, "Map" ::> "map[string]json.RawMessage"); (TArray, "Array" ::> "[]map[string]CommonMappingDynamicTemplate")]).

Definition IndicesSegmentsIndexSegmentShardsValue : typed_union := MkTyped "IndicesSegmentsIndexSegmentShardsValue"
  ["Array" :- "[]IndicesSegmentsShardsSegment"; "ShardsSegment" :- "IndicesSegmentsShardsSegment"]
  (ByToken [(TArray, "Array" ::> "[]IndicesSegmentsShardsSegment"); (TObject, "ShardsSegment" ::> "IndicesSegmentsShardsSegment")]).

Definition IndicesUpdateAliasesAddActionAliases : typed_union := MkTyped "IndicesUpdateAliasesAddActionAliases"
  ["String" :- "string"; "Array" :- "[]string"]
  (ByToken [(TString, "String" ::> "string"); (TArray, "Array" ::> "[]string")]).

Definition IndicesUpdateAliasesRemoveActionAliases : typed_union := MkTyped "IndicesUpdateAliasesRemoveActionAliases"
  ["String" :- "string"; "Array" :- "[]string"]
  (ByToken [(TString, "String" ::> "string"); (TArray, "Array" ::> "[]string")]).

Definition NodesInfoNodeSettingsHTTPType : typed_union := MkTyped "NodesInfoNodeSettingsHTTPType"
  ["String" :- "string"; "NodeInfoSettingsHTTPTypeConfig" :- "NodesInfoNodeSettingsHTTPTypeConfig"]
  (ByToken [(TString, "String" ::> "string"); (TObject, "NodeInfoSettingsHTTPTypeConfig" ::> "NodesInfoNodeSettingsHTTPTypeConfig")]).

Definition NodesInfoNodeSettingsTransportType : typed_union := MkTyped "NodesInfoNodeSettingsTransportType"
  ["String" :- "string"; "NodeInfoSettingsTransportTypeConfig" :- "NodesInfoNodeSettingsTransportTypeConfig"]
  (ByToken [(TString, "String" ::> "string"); (TObject, "NodeInfoSettingsTransportTypeConfig" ::> "NodesInfoNodeSettingsTransportTypeConfig")]).

Definition NodesInfoNodeTotalIndexingBuffer : typed_union := MkTyped "NodesInfoNodeTotalIndexingBuffer"
  ["Int64" :- "int64"; "String" :- "string"]
  (ByToken [(TNumber, "Int64" ::> "int64"); (TString, "String" ::> "string")]).

Definition NodesInfoNodeTotalIndexingBufferInBytes : typed_union := MkTyped "NodesInfoNodeTotalIndexingBufferInBytes"
  ["String" :- "string"; "Int64" :- "int64"]
  (ByToken [(TString, "String" ::> "string"); (TNumber, "Int64" ::> "int64")]).

Definition NodesStatsIP : typed_union := MkTyped "NodesStatsIP"
  ["String" :- "string"; "Array" :- "[]string"]
  (ByToken [(TString, "String" ::> "string"); (TArray, "Array" ::> "[]string")]).

Definition SearchBodyRescore : typed_union := MkTyped "SearchBodyRescore"
  ["Rescore" :- "SearchRescore"; "Array" :- "[]SearchRescore"]
  (ByToken [(TObject, "Rescore" ::> "SearchRescore"); (TArray, "Array" ::> "[]SearchRescore")]).

Definition StringOrStringArray : typed_union := MkTyped "StringOrStringArray"
  ["String" :- "string"; "Array" :- "[]string"]
  (ByToken [(TString, "String" ::> "string"); (TArray, "Array" ::> "[]string")]).

Definition CommonAggregationsMultiBucketAggregateBaseBuckets : typed_union := MkTyped "CommonAggregationsMultiBucketAggregateBaseBuckets"
  ["Map" :- "map[string]json.RawMessage"; "Array" :- "[]json.RawMessage"]
  (ByToken [(TObject, "Map" ::> "map[string]json.RawMessage"); (TArray, "Array" ::> "[]json.RawMessage")]).

Definition CommonAggregationsAdjacencyMatrixAggregateBuckets : typed_union := MkTyped "CommonAggregationsAdjacencyMatrixAggregateBuckets"
  ["Map" :- "map[string]json.RawMessage"; "Array" :- "[]CommonAggregationsAdjacencyMatrixBucket"]
  (ByToken [(TObject, "Map" ::> "map[string]json.RawMessage"); (TArray, "Array" ::> "[]CommonAggregationsAdjacencyMatrixBucket")]).

Definition CommonAggregationsDateHistogramAggregateBuckets : typed_union := MkTyped "CommonAggregationsDateHistogramAggregateBuckets"
  ["Map" :- "map[string]json.RawMessage"; "Array" :- "[]CommonAggregationsDateHistogramBucket"]
  (ByToken [(TObject, "Map" ::> "map[string]json.RawMessage"); (TArray, "Array" ::> "[]CommonAggregationsDateHistogramBucket")]).

Definition FieldValue : typed_union := MkTyped "FieldValue"
  ["Bool" :- "bool"; "Float64" :- "float64"; "String" :- "string"]
  (ByToken [(TBool, "Bool" ::> "bool"); (TNumber, "Float64" ::> "float64"); (TString, "String" ::> "string")]).

Definition CommonAggregationsMultiBucketAggregateBaseCompositeBucketBuckets : typed_union := MkTyped "CommonAggregationsMultiBucketAggregateBaseCompositeBucketBuckets"
  ["Map" :- "map[string]json.RawMessage"; "Array" :- "[]CommonAggregationsCompositeBucket"]
  (ByToken [(TObject, "Map" ::> "map[string]json.RawMessage"); (TArray, "Array" ::> "[]CommonAggregationsCompositeBucket")]).

Definition CommonAggregationsMultiBucketAggregateBaseRangeBucketBuckets : typed_union := MkTyped "CommonAggregationsMultiBucketAggregateBaseRangeBucketBuckets"
  ["Map" :- "map[string]json.RawMessage"; "Array" :- "[]CommonAggregationsRangeBucket"]
  (ByToken [(TObject, "Map" ::> "map[string]json.RawMessage"); (TArray, "Array" ::> "[]CommonAggregationsRangeBucket")]).

Definition CommonAggregationsFiltersAggregateBuckets : typed_union := MkTyped "CommonAggregationsFiltersAggregateBuckets"
  ["Map" :- "map[string]json.RawMessage"; "Array" :- "[]CommonAggregationsMultiBucketBase"]
  (ByToken [(TObject, "Map" ::> "map[string]json.RawMessage"); (TArray, "Array" ::> "[]CommonAggregationsMultiBucketBase")]).

Definition CommonAggregationsGeoHashGridAggregateBuckets : typed_union := MkTyped "CommonAggregationsGeoHashGridAggregateBuckets"
  ["Map" :- "map[string]json.RawMessage"; "Array" :- "[]CommonAggregationsGeoHashGridBucket"]
  (ByToken [(TObject, "Map" ::> "map[string]json.RawMessage"); (TArray, "Array" ::> "[]CommonAggregationsGeoHashGridBucket")]).

Definition CommonAggregationsGeoTileGridAggregateBuckets : typed_union := MkTyped "CommonAggregationsGeoTileGridAggregateBuckets"
  ["Map" :- "map[string]json.RawMessage"; "Array" :- "[]CommonAggregationsGeoTileGridBucket"]
  (ByToken [(TObject, "Map" ::> "map[string]json.RawMessage"); (TArray, "Array" ::> "[]CommonAggregationsGeoTileGridBucket")]).

Definition CommonAggregationsKeyedPercentilesValue : typed_union := MkTyped "CommonAggregationsKeyedPercentilesValue"
  ["Float64" :- "float64"; "String" :- "string"]
  (ByToken [(TNumber, "Float64" ::> "float64"); (TString, "String" ::> "string")]).

Definition CommonAggregationsPercentiles : typed_union := MkTyped "CommonAggregationsPercentiles"
  ["Map" :- "map[string]CommonAggregationsKeyedPercentilesValue"; "Array" :- "[]CommonAggregationsArrayPercentilesItem"]
  (ByToken [
    (TObject, "Map" ::> "map[string]CommonAggregationsKeyedPercentilesValue");
    (TArray, "Array" ::> "[]CommonAggregationsArrayPercentilesItem")]).

Definition CommonAggregationsHistogramAggregateBuckets : typed_union := MkTyped "CommonAggregationsHistogramAggregateBuckets"
  ["Map" :- "map[string]json.RawMessage"; "Array" :- "[]CommonAggregationsHistogramBucket"]
  (ByToken [(TObject, "Map" ::> "map[string]json.RawMessage"); (TArray, "Array" ::> "[]CommonAggregationsHistogramBucket")]).

Definition CommonAggregationsIPRangeAggregateBuckets : typed_union := MkTyped "CommonAggregationsIPRangeAggregateBuckets"
  ["Map" :- "map[string]json.RawMessage"; "Array" :- "[]CommonAggregationsIPRangeBucket"]
  (ByToken [(TObject, "Map" ::> "map[string]json.RawMessage"); (TArray, "Array" ::> "[]CommonAggregationsIPRangeBucket")]).

Definition CommonAggregationsLongRareTermsAggregateBuckets : typed_union := MkTyped "CommonAggregationsLongRareTermsAggregateBuckets"
  ["Map" :- "map[string]json.RawMessage"; "Array" :- "[]CommonAggregationsLongRareTermsBucket"]
  (ByToken [(TObject, "Map" ::> "map[string]json.RawMessage"); (TArray, "Array" ::> "[]CommonAggregationsLongRareTermsBucket")]).

Definition CommonAggregationsLongTermsBucketKey : typed_union := MkTyped "CommonAggregationsLongTermsBucketKey"
  ["Int64" :- "int64"; "String" :- "string"]
  (ByToken [(TNumber, "Int64" ::> "int64"); (TString, "String" ::> "string")]).

Definition CommonAggregationsMultiTermsAggregateBuckets : typed_union := MkTyped "CommonAggregationsMultiTermsAggregateBuckets"
  ["Map" :- "map[string]json.RawMessage"; "Array" :- "[]CommonAggregationsMultiTermsBucket"]
  (ByToken [(TObject, "Map" ::> "map[string]json.RawMessage"); (TArray, "Array" ::> "[]CommonAggregationsMultiTermsBucket")]).

Definition CommonAggregationsSignificantLongTermsAggregateBuckets : typed_union := MkTyped "CommonAggregationsSignificantLongTermsAggregateBuckets"
  ["Map" :- "map[string]json.RawMessage"; "Array" :- "[]CommonAggregationsSignificantLongTermsBucket"]
  (ByToken [(TObject, "Map" ::> "map[string]json.RawMessage"); (TArray, "Array" ::> "[]CommonAggregationsSignificantLongTermsBucket")]).

Definition CommonAggregationsSignificantStringTermsAggregateBuckets : typed_union := MkTyped "CommonAggregationsSignificantStringTermsAggregateBuckets"
  ["Map" :- "map[string]json.RawMessage"; "Array" :- "[]CommonAggregationsSignificantStringTermsBucket"]
  (ByToken [(TObject, "Map" ::> "map[string]json.RawMessage"); (TArray, "Array" ::> "[]CommonAggregationsSignificantStringTermsBucket")]).

Definition CommonAggregationsStringRareTermsAggregateBuckets : typed_union := MkTyped "CommonAggregationsStringRareTermsAggregateBuckets"
  ["Map" :- "map[string]json.RawMessage"; "Array" :- "[]CommonAggregationsStringRareTermsBucket"]
  (ByToken [(TObject, "Map" ::> "map[string]json.RawMessage"); (TArray, "Array" ::> "[]CommonAggregationsStringRareTermsBucket")]).

Definition SearchHitMatchedQueries : typed_union := MkTyped "SearchHitMatchedQueries"
  ["Array" :- "[]string"; "Map" :- "map[string]json.RawMessage"]
  (ByToken [(TArray, "Array" ::> "[]string"); (TObject, "Map" ::> "map[string]json.RawMessage")]).

Definition SearchHitsMetadataTotal : typed_union := MkTyped "SearchHitsMetadataTotal"
  ["TotalHits" :- "SearchTotalHits"; "Int64" :- "int64"]
  (ByToken [(TObject, "TotalHits" ::> "SearchTotalHits"); (TNumber, "Int64" ::> "int64")]).

Definition CommonAggregationsUnmappedRareTermsAggregateBuckets : typed_union := MkTyped "CommonAggregationsUnmappedRareTermsAggregateBuckets"
  ["Map" :- "map[string]json.RawMessage"; "Array" :- "[]Void"]
  (ByToken [(TObject, "Map" ::> "map[string]json.RawMessage"); (TArray, "Array" ::> "[]Void")]).

Definition CommonAggregationsUnmappedSignificantTermsAggregateBuckets : typed_union := MkTyped "CommonAggregationsUnmappedSignificantTermsAggregateBuckets"
  ["Map" :- "map[string]json.RawMessage"; "Array" :- "[]Void"]
  (ByToken [(TObject, "Map" ::> "map[string]json.RawMessage"); (TArray, "Array" ::> "[]Void")]).

Definition CommonAggregationsVariableWidthHistogramAggregateBuckets : typed_union := MkTyped "CommonAggregationsVariableWidthHistogramAggregateBuckets"
  ["Map" :- "map[string]json.RawMessage"; "Array" :- "[]CommonAggregationsVariableWidthHistogramBucket"]
  (ByToken [(TObject, "Map" ::> "map[string]json.RawMessage"); (TArray, "Array" ::> "[]CommonAggregationsVariableWidthHistogramBucket")]).

Definition SearchContext : typed_union := MkTyped "SearchContext"
  ["String" :- "string"; "Location" :- "GeoLocation"]
  (ByToken [(TString, "String" ::> "string"); (TObject, "Location" ::> "GeoLocation")]).

Definition SearchCompletionSuggestOptions : typed_union := MkTyped "SearchCompletionSuggestOptions"
  ["Text" :- "SearchCompletionSuggestOption"; "Array" :- "[]SearchCompletionSuggestOption"]
  (ByToken [(TObject, "Text" ::> "SearchCompletionSuggestOption"); (TArray, "Array" ::> "[]SearchCompletionSuggestOption")]).

Definition SearchSuggestCompletionOptions : typed_union := MkTyped "SearchSuggestCompletionOptions"
  ["Text" :- "SearchCompletionSuggestOption"; "Array" :- "[]SearchCompletionSuggestOption"]
  (ByToken [(TObject, "Text" ::> "SearchCompletionSuggestOption"); (TArray, "Array" ::> "[]SearchCompletionSuggestOption")]).

Definition SearchPhraseSuggestOptions : typed_union := MkTyped "SearchPhraseSuggestOptions"
  ["PhraseSuggestOption" :- "SearchPhraseSuggestOption"; "Array" :- "[]SearchPhraseSuggestOption"]
  (ByToken [(TObject, "PhraseSuggestOption" ::> "SearchPhraseSuggestOption"); (TArray, "Array" ::> "[]SearchPhraseSuggestOption")]).

Definition SearchTermSuggestOptions : typed_union := MkTyped "SearchTermSuggestOptions"
  ["TermSuggestOption" :- "SearchTermSuggestOption"; "Array" :- "[]SearchTermSuggestOption"]
  (ByToken [(TObject, "TermSuggestOption" ::> "SearchTermSuggestOption"); (TArray, "Array" ::> "[]SearchTermSuggestOption")]).

Definition StringifiedEpochTimeUnitSeconds : typed_union := MkTyped "StringifiedEpochTimeUnitSeconds"
  ["Int64" :- "int64"; "String" :- "string"]
  (ByToken [(TNumber, "Int64" ::> "int64"); (TString, "String" ::> "string")]).

Definition StringifiedEpochTimeUnitMillis : typed_union := MkTyped "StringifiedEpochTimeUnitMillis"
  ["Int64" :- "int64"; "String" :- "string"]
  (ByToken [(TNumber, "Int64" ::> "int64"); (TString, "String" ::> "string")]).

Definition CommonQueryDSLBoolQueryFilter : typed_union := MkTyped "CommonQueryDSLBoolQueryFilter"
  ["QueryContainer" :- "CommonQueryDSLQueryContainer"; "Array" :- "[]CommonQueryDSLQueryContainer"]
  (ByToken [(TObject, "QueryContainer" ::> "CommonQueryDSLQueryContainer"); (TArray, "Array" ::> "[]CommonQueryDSLQueryContainer")]).

Definition MinimumShouldMatch : typed_union := MkTyped "MinimumShouldMatch"
  ["Int" :- "int"; "String" :- "string"]
  (ByToken [(TNumber, "Int" ::> "int"); (TString, "String" ::> "string")]).

Definition CommonQueryDSLBoolQueryMust : typed_union := MkTyped "CommonQueryDSLBoolQueryMust"
  ["QueryContainer" :- "CommonQueryDSLQueryContainer"; "Array" :- "[]CommonQueryDSLQueryContainer"]
  (ByToken [(TObject, "QueryContainer" ::> "CommonQueryDSLQueryContainer"); (TArray, "Array" ::> "[]CommonQueryDSLQueryContainer")]).

Definition CommonQueryDSLBoolQueryMustNot : typed_union := MkTyped "CommonQueryDSLBoolQueryMustNot"
  ["QueryContainer" :- "CommonQueryDSLQueryContainer"; "Array" :- "[]CommonQueryDSLQueryContainer"]
  (ByToken [(TObject, "QueryContainer" ::> "CommonQueryDSLQueryContainer"); (TArray, "Array" ::> "[]CommonQueryDSLQueryContainer")]).

Definition CommonQueryDSLBoolQueryShould : typed_union := MkTyped "CommonQueryDSLBoolQueryShould"
  ["QueryContainer" :- "CommonQueryDSLQueryContainer"; "Array" :- "[]CommonQueryDSLQueryContainer"]
  (ByToken [(TObject, "QueryContainer" ::> "CommonQueryDSLQueryContainer"); (TArray, "Array" ::> "[]CommonQueryDSLQueryContainer")]).

Definition CommonQueryDSLCommonTermsQuery : typed_union := MkTyped "CommonQueryDSLCommonTermsQuery"
  ["String" :- "string"; "Query" :- "CommonQueryDSLCommonTermsQueryQuery"]
  (ByToken [(TString, "String" ::> "string"); (TObject, "Query" ::> "CommonQueryDSLCommonTermsQueryQuery")]).

Definition CommonQueryDSLSpanTermQuery : typed_union := MkTyped "CommonQueryDSLSpanTermQuery"
  ["String" :- "string"; "Value" :- "CommonQueryDSLSpanTermQueryValue"]
  (ByToken [(TString, "String" ::> "string"); (TObject, "Value" ::> "CommonQueryDSLSpanTermQueryValue")]).

Definition CommonQueryDSLRandomScoreFunctionSeed : typed_union := MkTyped "CommonQueryDSLRandomScoreFunctionSeed"
  ["Int64" :- "int64"; "String" :- "string"]
  (ByToken [(TNumber, "Int64" ::> "int64"); (TString, "String" ::> "string")]).

Definition InlineScript : typed_union := MkTyped "InlineScript"
  ["String" :- "string"; "Source" :- "InlineScriptSource"]
  (ByToken [(TString, "String" ::> "string"); (TObject, "Source" ::> "InlineScriptSource")]).

Definition SearchSourceFilter : typed_union := MkTyped "SearchSourceFilter"
  ["String" :- "string"; "ExcludesIncludes" :- "SearchSourceFilterExcludesIncludes"]
  (ByToken [(TString, "String" ::> "string"); (TObject, "ExcludesIncludes" ::> "SearchSourceFilterExcludesIncludes")]).

Definition SearchSourceConfig : typed_union := MkTyped "SearchSourceConfig"
  ["Bool" :- "bool"; "Filter" :- "SearchSourceFilter"]
  (ByToken [(TBool, "Bool" ::> "bool"); (TObject, "Filter" ::> "SearchSourceFilter")]).

Definition SearchFieldCollapseInnerHits : typed_union := MkTyped "SearchFieldCollapseInnerHits"
  ["InnerHits" :- "SearchInnerHits"; "Array" :- "[]SearchInnerHits"]
  (ByToken [(TObject, "InnerHits" ::> "SearchInnerHits"); (TArray, "Array" ::> "[]SearchInnerHits")]).

Definition CommonQueryDSLFieldAndFormat : typed_union := MkTyped "CommonQueryDSLFieldAndFormat"
  ["String" :- "string"; "Field" :- "CommonQueryDSLFieldAndFormatField"]
  (ByToken [(TString, "String" ::> "string"); (TObject, "Field" ::> "CommonQueryDSLFieldAndFormatField")]).

Definition SearchHighlightFields : typed_union := MkTyped "SearchHighlightFields"
  ["Map" :- "map[string]json.RawMessage"; "Array" :- "[]map[string]SearchHighlightField"]
  (ByToken [(TObject, "Map" ::> "map[string]json.RawMessage"); (TArray, "Array" ::> "[]map[string]SearchHighlightField")]).

Definition Sort : typed_union := MkTyped "Sort"
  ["SortCombinations" :- "SortCombinations"; "Array" :- "[]SortCombinations"]
  (ByToken [(TObject, "SortCombinations" ::> "SortCombinations"); (TArray, "Array" ::> "[]SortCombinations")]).

Definition CommonQueryDSLKNNQueryRescore : typed_union := MkTyped "CommonQueryDSLKNNQueryRescore"
  ["Bool" :- "bool"; "Context" :- "CommonQueryDSLRescoreContext"]
  (ByToken [(TBool, "Bool" ::> "bool"); (TObject, "Context" ::> "CommonQueryDSLRescoreContext")]).

Definition CommonQueryDSLMatchBoolPrefixQuery : typed_union := MkTyped "CommonQueryDSLMatchBoolPrefixQuery"
  ["String" :- "string"; "Query" :- "CommonQueryDSLMatchBoolPrefixQueryQuery"]
  (ByToken [(TString, "String" ::> "string"); (TObject, "Query" ::> "CommonQueryDSLMatchBoolPrefixQueryQuery")]).

Definition CommonQueryDSLMatchPhraseQuery : typed_union := MkTyped "CommonQueryDSLMatchPhraseQuery"
  ["String" :- "string"; "Query" :- "CommonQueryDSLMatchPhraseQueryQuery"]
  (ByToken [(TString, "String" ::> "string"); (TObject, "Query" ::> "CommonQueryDSLMatchPhraseQueryQuery")]).

Definition CommonQueryDSLMatchPhrasePrefixQuery : typed_union := MkTyped "CommonQueryDSLMatchPhrasePrefixQuery"
  ["String" :- "string"; "Query" :- "CommonQueryDSLMatchPhrasePrefixQueryQuery"]
  (ByToken [(TString, "String" ::> "string"); (TObject, "Query" ::> "CommonQueryDSLMatchPhrasePrefixQueryQuery")]).

Definition CommonQueryDSLLike : typed_union := MkTyped "CommonQueryDSLLike"
  ["String" :- "string"; "LikeDocument" :- "CommonQueryDSLLikeDocument"]
  (ByToken [(TString, "String" ::> "string"); (TObject, "LikeDocument" ::> "CommonQueryDSLLikeDocument")]).

Definition CommonQueryDSLMoreLikeThisQueryLike : typed_union := MkTyped "CommonQueryDSLMoreLikeThisQueryLike"
  ["Like" :- "CommonQueryDSLLike"; "Array" :- "[]CommonQueryDSLLike"]
  (ByToken [(TObject, "Like" ::> "CommonQueryDSLLike"); (TArray, "Array" ::> "[]CommonQueryDSLLike")]).

Definition CommonAnalysisStopWords : typed_union := MkTyped "CommonAnalysisStopWords"
  ["String" :- "string"; "Array" :- "[]string"]
  (ByToken [(TString, "String" ::> "string"); (TArray, "Array" ::> "[]string")]).

Definition CommonQueryDSLMoreLikeThisQueryUnlike : typed_union := MkTyped "CommonQueryDSLMoreLikeThisQueryUnlike"
  ["Like" :- "CommonQueryDSLLike"; "Array" :- "[]CommonQueryDSLLike"]
  (ByToken [(TObject, "Like" ::> "CommonQueryDSLLike"); (TArray, "Array" ::> "[]CommonQueryDSLLike")]).

Definition CommonQueryDSLPrefixQuery : typed_union := MkTyped "CommonQueryDSLPrefixQuery"
  ["String" :- "string"; "Value" :- "CommonQueryDSLPrefixQueryValue"]
  (ByToken [(TString, "String" ::> "string"); (TObject, "Value" ::> "CommonQueryDSLPrefixQueryValue")]).

Definition CommonQueryDSLNumberRangeQueryFrom : typed_union := MkTyped "CommonQueryDSLNumberRangeQueryFrom"
  ["Float64" :- "float64"; "String" :- "string"]
  (ByToken [(TNumber, "Float64" ::> "float64"); (TString, "String" ::> "string")]).

Definition CommonQueryDSLNumberRangeQueryTo : typed_union := MkTyped "CommonQueryDSLNumberRangeQueryTo"
  ["Float64" :- "float64"; "String" :- "string"]
  (ByToken [(TNumber, "Float64" ::> "float64"); (TString, "String" ::> "string")]).

Definition CommonQueryDSLRegexpQuery : typed_union := MkTyped "CommonQueryDSLRegexpQuery"
  ["String" :- "string"; "Value" :- "CommonQueryDSLRegexpQueryValue"]
  (ByToken [(TString, "String" ::> "string"); (TObject, "Value" ::> "CommonQueryDSLRegexpQueryValue")]).

Definition CommonQueryDSLWildcardQuery : typed_union := MkTyped "CommonQueryDSLWildcardQuery"
  ["String" :- "string"; "Object1" :- "CommonQueryDSLWildcardQueryObject1"]
  (ByToken [(TString, "String" ::> "string"); (TObject, "Object1" ::> "CommonQueryDSLWildcardQueryObject1")]).

Definition CommonMappingDynamic : typed_union := MkTyped "CommonMappingDynamic"
  ["String" :- "string"; "Bool" :- "bool"]
  (ByToken [(TString, "String" ::> "string"); (TBool, "Bool" ::> "bool")]).

Definition CommonMappingJoinPropertyRelationsValue : typed_union := MkTyped "CommonMappingJoinPropertyRelationsValue"
  ["String" :- "string"; "Array" :- "[]string"]
  (ByToken [(TString, "String" ::> "string"); (TArray, "Array" ::> "[]string")]).

Definition CommonMappingSuggestContextPrecision : typed_union := MkTyped "CommonMappingSuggestContextPrecision"
  ["Float64" :- "float64"; "String" :- "string"]
  (ByToken [(TNumber, "Float64" ::> "float64"); (TString, "String" ::> "string")]).

Definition XYLocation : typed_union := MkTyped "XYLocation"
  ["Cartesian" :- "XYCartesianCoordinates"; "Array" :- "[]float64"; "String" :- "string"]
  (ByToken [(TObject, "Cartesian" ::> "XYCartesianCoordinates"); (TArray, "Array" ::> "[]float64"); (TString, "String" ::> "string")]).

Definition CommonMappingSemanticPropertyChunking : typed_union := MkTyped "CommonMappingSemanticPropertyChunking"
  ["Bool" :- "bool"; "Array" :- "[]CommonMappingSemanticChunkingStrategy"]
  (ByToken [(TBool, "Bool" ::> "bool"); (TArray, "Array" ::> "[]CommonMappingSemanticChunkingStrategy")]).

Definition CommonAnalysisCharFilter : typed_union := MkTyped "CommonAnalysisCharFilter"
  ["String" :- "string"; "CharFilterDefinition" :- "CommonAnalysisCharFilterDefinition"]
  (ByToken [(TString, "String" ::> "string"); (TObject, "CharFilterDefinition" ::> "CommonAnalysisCharFilterDefinition")]).

Definition CommonAnalysisTokenFilter : typed_union := MkTyped "CommonAnalysisTokenFilter"
  ["String" :- "string"; "TokenFilterDefinition" :- "CommonAnalysisTokenFilterDefinition"]
  (ByToken [(TString, "String" ::> "string"); (TObject, "TokenFilterDefinition" ::> "CommonAnalysisTokenFilterDefinition")]).

Definition CommonAnalysisTokenizer : typed_union := MkTyped "CommonAnalysisTokenizer"
  ["String" :- "string"; "TokenizerDefinition" :- "CommonAnalysisTokenizerDefinition"]
  (ByToken [(TString, "String" ::> "string"); (TObject, "TokenizerDefinition" ::> "CommonAnalysisTokenizerDefinition")]).

Definition IndicesIndexingPressureMemoryLimit : typed_union := MkTyped "IndicesIndexingPressureMemoryLimit"
  ["String" :- "string"; "Int64" :- "int64"]
  (ByToken [(TString, "String" ::> "string"); (TNumber, "Int64" ::> "int64")]).

Definition IndicesIndexSettingsMergePolicy : typed_union := MkTyped "IndicesIndexSettingsMergePolicy"
  ["String" :- "string"; "TieredPolicyConfig" :- "IndicesIndexSettingsMergeTieredPolicy"]
  (ByToken [(TString, "String" ::> "string"); (TObject, "TieredPolicyConfig" ::> "IndicesIndexSettingsMergeTieredPolicy")]).

Definition IndicesIndexSegmentSortMissing : typed_union := MkTyped "IndicesIndexSegmentSortMissing"
  ["String" :- "string"; "Array" :- "[]string"]
  (ByToken [(TString, "String" ::> "string"); (TArray, "Array" ::> "[]string")]).

Definition IndicesIndexSegmentSortMode : typed_union := MkTyped "IndicesIndexSegmentSortMode"
  ["String" :- "string"; "Array" :- "[]string"]
  (ByToken [(TString, "String" ::> "string"); (TArray, "Array" ::> "[]string")]).

Definition IndicesIndexSegmentSortOrder : typed_union := MkTyped "IndicesIndexSegmentSortOrder"
  ["String" :- "string"; "Array" :- "[]string"]
  (ByToken [(TString, "String" ::> "string"); (TArray, "Array" ::> "[]string")]).

Definition TasksTaskInfos : typed_union := MkTyped "TasksTaskInfos"
  ["Array" :- "[]TasksTaskInfo"; "Map" :- "map[string]json.RawMessage"]
  (ByToken [(TArray, "Array" ::> "[]TasksTaskInfo"); (TObject, "Map" ::> "map[string]json.RawMessage")]).

Definition StringifiedVersionNumber : typed_union := MkTyped "StringifiedVersionNumber"
  ["Int64" :- "int64"; "String" :- "string"]
  (ByToken [(TNumber, "Int64" ::> "int64"); (TString, "String" ::> "string")]).

Definition SearchTrackHits : typed_union := MkTyped "SearchTrackHits"
  ["Bool" :- "bool"; "Int" :- "int"]
  (ByToken [(TBool, "Bool" ::> "bool"); (TNumber, "Int" ::> "int")]).

Definition ISMPolicyTemplate : typed_union := MkTyped "ISMPolicyTemplate"
  ["ISMTemplate" :- "ISMTemplate"; "Array" :- "[]ISMTemplate"]
  (ByToken [(TObject, "ISMTemplate" ::> "ISMTemplate"); (TArray, "Array" ::> "[]ISMTemplate")]).

Definition SearchResultJSONValueSuggestValueItemCompletionOptions : typed_union := MkTyped "SearchResultJSONValueSuggestValueItemCompletionOptions"
  [
    "Source" :- "SearchResultJSONValueSuggestValueItemCompletionOptionsSource";
    "Array" :- "[]SearchResultJSONValueSuggestValueItemCompletionOptionsItem"]
  (ByToken [
    (TObject, "Source" ::> "SearchResultJSONValueSuggestValueItemCompletionOptionsSource");
    (TArray, "Array" ::> "[]SearchResultJSONValueSuggestValueItemCompletionOptionsItem")]).

Definition NodeIDs : typed_union := MkTyped "NodeIDs"
  ["String" :- "string"; "Array" :- "[]string"]
  (ByToken [(TString, "String" ::> "string"); (TArray, "Array" ::> "[]string")]).

Definition MLSourceCreateTime : typed_union := MkTyped "MLSourceCreateTime"
  ["String" :- "string"; "Int64" :- "int64"]
  (ByToken [(TString, "String" ::> "string"); (TNumber, "Int64" ::> "int64")]).

Definition NeuralStatMetadataValue : typed_union := MkTyped "NeuralStatMetadataValue"
  ["Int" :- "int"; "String" :- "string"]
  (ByToken [(TNumber, "Int" ::> "int"); (TString, "String" ::> "string")]).

Definition NeuralTimestampedEventCounterStat : typed_union := MkTyped "NeuralTimestampedEventCounterStat"
  ["Int" :- "int"; "StatType" :- "NeuralTimestampedEventCounterStatStatType"]
  (ByToken [(TNumber, "Int" ::> "int"); (TObject, "StatType" ::> "NeuralTimestampedEventCounterStatStatType")]).

Definition NeuralInfoStringStat : typed_union := MkTyped "NeuralInfoStringStat"
  ["String" :- "string"; "StatType" :- "NeuralInfoStringStatStatType"]
  (ByToken [(TString, "String" ::> "string"); (TObject, "StatType" ::> "NeuralInfoStringStatStatType")]).

Definition NeuralInfoCounterStat : typed_union := MkTyped "NeuralInfoCounterStat"
  ["Int" :- "int"; "StatType" :- "NeuralInfoCounterStatStatType"]
  (ByToken [(TNumber, "Int" ::> "int"); (TObject, "StatType" ::> "NeuralInfoCounterStatStatType")]).

Definition RollupsIntervalCron : typed_union := MkTyped "RollupsIntervalCron"
  ["Array" :- "[]RollupsCron"; "Cron" :- "RollupsCron"]
  (ByToken [(TArray, "Array" ::> "[]RollupsCron"); (TObject, "Cron" ::> "RollupsCron")]).

Definition SQLPPLEnabled : typed_union := MkTyped "SQLPPLEnabled"
  ["Bool" :- "bool"; "String" :- "string"]
  (ByToken [(TBool, "Bool" ::> "bool"); (TString, "String" ::> "string")]).

Definition SQLPluginsQuerySizeLimit : typed_union := MkTyped "SQLPluginsQuerySizeLimit"
  ["String" :- "string"; "Int" :- "int"]
  (ByToken [(TString, "String" ::> "string"); (TNumber, "Int" ::> "int")]).

Definition SQLEnabled : typed_union := MkTyped "SQLEnabled"
  ["Bool" :- "bool"; "String" :- "string"]
  (ByToken [(TBool, "Bool" ::> "bool"); (TString, "String" ::> "string")]).

Definition SQLSlowlog : typed_union := MkTyped "SQLSlowlog"
  ["Int" :- "int"; "String" :- "string"]
  (ByToken [(TNumber, "Int" ::> "int"); (TString, "String" ::> "string")]).

Definition ScrollIDs : typed_union := MkTyped "ScrollIDs"
  ["String" :- "string"; "Array" :- "[]string"]
  (ByToken [(TString, "String" ::> "string"); (TArray, "Array" ::> "[]string")]).

Definition FlowFrameworkCommonSearchStateRespResourcesCreated : typed_union := MkTyped "FlowFrameworkCommonSearchStateRespResourcesCreated"
  ["ResourcesCreated" :- "FlowFrameworkCommonResourcesCreated"; "Array" :- "[]FlowFrameworkCommonResourcesCreated"]
  (ByToken [(TObject, "ResourcesCreated" ::> "FlowFrameworkCommonResourcesCreated"); (TArray, "Array" ::> "[]FlowFrameworkCommonResourcesCreated")]).

Definition token_unions : list typed_union := [
  ClusterAllocationExplainClusterInfoShardSizesValue;
  IndicesAnalyzeTextTo;
  IndicesPutMappingBodyDynamicTemplates;
  IndicesSegmentsIndexSegmentShardsValue;
  IndicesUpdateAliasesAddActionAliases;
  IndicesUpdateAliasesRemoveActionAliases;
  NodesInfoNodeSettingsHTTPType;
  NodesInfoNodeSettingsTransportType;
  NodesInfoNodeTotalIndexingBuffer;
  NodesInfoNodeTotalIndexingBufferInBytes;
  NodesStatsIP;
  SearchBodyRescore;
  StringOrStringArray;
  CommonAggregationsMultiBucketAggregateBaseBuckets;
  CommonAggregationsAdjacencyMatrixAggregateBuckets;
  CommonAggregationsDateHistogramAggregateBuckets;
  FieldValue;
  CommonAggregationsMultiBucketAggregateBaseCompositeBucketBuckets;
  CommonAggregationsMultiBucketAggregateBaseRangeBucketBuckets;
  CommonAggregationsFiltersAggregateBuckets;
  CommonAggregationsGeoHashGridAggregateBuckets;
  CommonAggregationsGeoTileGridAggregateBuckets;
  CommonAggregationsKeyedPercentilesValue;
  CommonAggregationsPercentiles;
  CommonAggregationsHistogramAggregateBuckets;
  CommonAggregationsIPRangeAggregateBuckets;
  CommonAggregationsLongRareTermsAggregateBuckets;
  CommonAggregationsLongTermsBucketKey;
  CommonAggregationsMultiTermsAggregateBuckets;
  CommonAggregationsSignificantLongTermsAggregateBuckets;
  CommonAggregationsSignificantStringTermsAggregateBuckets;
  CommonAggregationsStringRareTermsAggregateBuckets;
  SearchHitMatchedQueries;
  SearchHitsMetadataTotal;
  CommonAggregationsUnmappedRareTermsAggregateBuckets;
  CommonAggregationsUnmappedSignificantTermsAggregateBuckets;
  CommonAggregationsVariableWidthHistogramAggregateBuckets;
  SearchContext;
  SearchCompletionSuggestOptions;
  SearchSuggestCompletionOptions;
  SearchPhraseSuggestOptions;
  SearchTermSuggestOptions;
  StringifiedEpochTimeUnitSeconds;
  StringifiedEpochTimeUnitMillis;
  CommonQueryDSLBoolQueryFilter;
  MinimumShouldMatch;
  CommonQueryDSLBoolQueryMust;
  CommonQueryDSLBoolQueryMustNot;
  CommonQueryDSLBoolQueryShould;
  CommonQueryDSLCommonTermsQuery;
  CommonQueryDSLSpanTermQuery;
  CommonQueryDSLRandomScoreFunctionSeed;
  InlineScript;
  SearchSourceFilter;
  SearchSourceConfig;
  SearchFieldCollapseInnerHits;
  CommonQueryDSLFieldAndFormat;
  SearchHighlightFields;
  Sort;
  CommonQueryDSLKNNQueryRescore;
  CommonQueryDSLMatchBoolPrefixQuery;
  CommonQueryDSLMatchPhraseQuery;
  CommonQueryDSLMatchPhrasePrefixQuery;
  CommonQueryDSLLike;
  CommonQueryDSLMoreLikeThisQueryLike;
  CommonAnalysisStopWords;
  CommonQueryDSLMoreLikeThisQueryUnlike;
  CommonQueryDSLPrefixQuery;
  CommonQueryDSLNumberRangeQueryFrom;
  CommonQueryDSLNumberRangeQueryTo;
  CommonQueryDSLRegexpQuery;
  CommonQueryDSLWildcardQuery;
  CommonMappingDynamic;
  CommonMappingJoinPropertyRelationsValue;
  CommonMappingSuggestContextPrecision;
  XYLocation;
  CommonMappingSemanticPropertyChunking;
  CommonAnalysisCharFilter;
  CommonAnalysisTokenFilter;
  CommonAnalysisTokenizer;
  IndicesIndexingPressureMemoryLimit;
  IndicesIndexSettingsMergePolicy;
  IndicesIndexSegmentSortMissing;
  IndicesIndexSegmentSortMode;
  IndicesIndexSegmentSortOrder;
  TasksTaskInfos;
  StringifiedVersionNumber;
  SearchTrackHits;
  ISMPolicyTemplate;
  SearchResultJSONValueSuggestValueItemCompletionOptions;
  NodeIDs;
  MLSourceCreateTime;
  NeuralStatMetadataValue;
  NeuralTimestampedEventCounterStat;
  NeuralInfoStringStat;
  NeuralInfoCounterStat;
  RollupsIntervalCron;
  SQLPPLEnabled;
  SQLPluginsQuerySizeLimit;
  SQLEnabled;
  SQLSlowlog;
  ScrollIDs;
  FlowFrameworkCommonSearchStateRespResourcesCreated].

Definition ClusterRemoteInfoCluster : typed_union := MkTyped "ClusterRemoteInfoCluster"
  [
    "ClusterRemoteSniffInfo" :- "ClusterRemoteInfoClusterRemoteSniffInfo" sets "Mode" := "sniff";
    "ClusterRemoteProxyInfo" :- "ClusterRemoteInfoClusterRemoteProxyInfo" sets "Mode" := "proxy"]
  (ByName "mode" None [
    ("sniff", "ClusterRemoteSniffInfo" ::> "ClusterRemoteInfoClusterRemoteSniffInfo");
    ("proxy", "ClusterRemoteProxyInfo" ::> "ClusterRemoteInfoClusterRemoteProxyInfo")]).

Definition CommonMappingProperty_branches1 : list branch := [
  "BinaryProperty" :- "CommonMappingBinaryProperty";
  "BooleanProperty" :- "CommonMappingBooleanProperty" sets "Type" := "boolean";
  "JoinProperty" :- "CommonMappingJoinProperty" sets "Type" := "join";
  "KeywordProperty" :- "CommonMappingKeywordProperty" sets "Type" := "keyword";
  "MatchOnlyTextProperty" :- "CommonMappingMatchOnlyTextProperty";
  "PercolatorProperty" :- "CommonMappingPercolatorProperty" sets "Type" := "percolator"].
Definition CommonMappingProperty_branches2 : list branch := [
  "RankFeatureProperty" :- "CommonMappingRankFeatureProperty" sets "Type" := "rank_feature";
  "RankFeaturesProperty" :- "CommonMappingRankFeaturesProperty" sets "Type" := "rank_features";
  "SearchAsYouTypeProperty" :- "CommonMappingSearchAsYouTypeProperty" sets "Type" := "search_as_you_type";
  "TextProperty" :- "CommonMappingTextProperty" sets "Type" := "text";
  "VersionProperty" :- "CommonMappingVersionProperty" sets "Type" := "version";
  "WildcardProperty" :- "CommonMappingWildcardProperty" sets "Type" := "wildcard"].
Definition CommonMappingProperty_branches3 : list branch := [
  "DateNanosProperty" :- "CommonMappingDateNanosProperty" sets "Type" := "date_nanos";
  "DateProperty" :- "CommonMappingDateProperty" sets "Type" := "date";
  "AggregateMetricDoubleProperty" :- "CommonMappingAggregateMetricDoubleProperty" sets "Type" := "aggregate_metric_double";
  "FlatObjectProperty" :- "CommonMappingFlatObjectProperty" sets "Type" := "flat_object";
  "NestedProperty" :- "CommonMappingNestedProperty" sets "Type" := "nested";
  "ObjectProperty" :- "CommonMappingObjectProperty"].
Definition CommonMappingProperty_branches4 : list branch := [
  "CompletionProperty" :- "CommonMappingCompletionProperty" sets "Type" := "completion";
  "ConstantKeywordProperty" :- "CommonMappingConstantKeywordProperty" sets "Type" := "constant_keyword";
  "FieldAliasProperty" :- "CommonMappingFieldAliasProperty" sets "Type" := "alias";
  "HistogramProperty" :- "CommonMappingHistogramProperty" sets "Type" := "histogram";
  "IPProperty" :- "CommonMappingIPProperty" sets "Type" := "ip";
  "Murmur3HashProperty" :- "CommonMappingMurmur3HashProperty" sets "Type" := "murmur3"].
Definition CommonMappingProperty_branches5 : list branch := [
  "TokenCountProperty" :- "CommonMappingTokenCountProperty" sets "Type" := "token_count";
  "GeoPointProperty" :- "CommonMappingGeoPointProperty" sets "Type" := "geo_point";
  "GeoShapeProperty" :- "CommonMappingGeoShapeProperty" sets "Type" := "geo_shape";
  "XYPointProperty" :- "CommonMappingXYPointProperty" sets "Type" := "xy_point";
  "XYShapeProperty" :- "CommonMappingXYShapeProperty" sets "Type" := "xy_shape";
  "ByteNumberProperty" :- "CommonMappingByteNumberProperty" sets "Type" := "byte"].
Definition CommonMappingProperty_branches6 : list branch := [
  "DoubleNumberProperty" :- "CommonMappingDoubleNumberProperty" sets "Type" := "double";
  "FloatNumberProperty" :- "CommonMappingFloatNumberProperty" sets "Type" := "float";
  "HalfFloatNumberProperty" :- "CommonMappingHalfFloatNumberProperty" sets "Type" := "half_float";
  "IntegerNumberProperty" :- "CommonMappingIntegerNumberProperty" sets "Type" := "integer";
  "LongNumberProperty" :- "CommonMappingLongNumberProperty" sets "Type" := "long";
  "ScaledFloatNumberProperty" :- "CommonMappingScaledFloatNumberProperty" sets "Type" := "scaled_float"].
Definition CommonMappingProperty_branches7 : list branch := [
  "SemanticProperty" :- "CommonMappingSemanticProperty" sets "Type" := "semantic";
  "ShortNumberProperty" :- "CommonMappingShortNumberProperty" sets "Type" := "short";
  "UnsignedLongNumberProperty" :- "CommonMappingUnsignedLongNumberProperty" sets "Type" := "unsigned_long";
  "DateRangeProperty" :- "CommonMappingDateRangeProperty" sets "Type" := "date_range";
  "DoubleRangeProperty" :- "CommonMappingDoubleRangeProperty" sets "Type" := "double_range";
  "FloatRangeProperty" :- "CommonMappingFloatRangeProperty" sets "Type" := "float_range"].
Definition CommonMappingProperty_branches8 : list branch := [
  "IntegerRangeProperty" :- "CommonMappingIntegerRangeProperty" sets "Type" := "integer_range";
  "IPRangeProperty" :- "CommonMappingIPRangeProperty" sets "Type" := "ip_range";
  "LongRangeProperty" :- "CommonMappingLongRangeProperty" sets "Type" := "long_range";
  "KNNVectorProperty" :- "CommonMappingKNNVectorProperty" sets "Type" := "knn_vector";
  "ICUCollationKeywordProperty" :- "CommonMappingICUCollationKeywordProperty" sets "Type" := "icu_collation_keyword"].
Definition CommonMappingProperty_cases1 : list (string * target) := [
  ("binary", "BinaryProperty" ::> "CommonMappingBinaryProperty");
  ("boolean", "BooleanProperty" ::> "CommonMappingBooleanProperty");
  ("join", "JoinProperty" ::> "CommonMappingJoinProperty");
  ("keyword", "KeywordProperty" ::> "CommonMappingKeywordProperty");
  ("match_only_text", "MatchOnlyTextProperty" ::> "CommonMappingMatchOnlyTextProperty");
  ("percolator", "PercolatorProperty" ::> "CommonMappingPercolatorProperty");
  ("rank_feature", "RankFeatureProperty" ::> "CommonMappingRankFeatureProperty");
  ("rank_features", "RankFeaturesProperty" ::> "CommonMappingRankFeaturesProperty");
  ("search_as_you_type", "SearchAsYouTypeProperty" ::> "CommonMappingSearchAsYouTypeProperty");
  ("text", "TextProperty" ::> "CommonMappingTextProperty");
  ("version", "VersionProperty" ::> "CommonMappingVersionProperty");
  ("wildcard", "WildcardProperty" ::> "CommonMappingWildcardProperty");
  ("date_nanos", "DateNanosProperty" ::> "CommonMappingDateNanosProperty");
  ("date", "DateProperty" ::> "CommonMappingDateProperty");
  ("aggregate_metric_double", "AggregateMetricDoubleProperty" ::> "CommonMappingAggregateMetricDoubleProperty");
  ("flat_object", "FlatObjectProperty" ::> "CommonMappingFlatObjectProperty");
  ("nested", "NestedProperty" ::> "CommonMappingNestedProperty");
  ("object", "ObjectProperty" ::> "CommonMappingObjectProperty");
  ("completion", "CompletionProperty" ::> "CommonMappingCompletionProperty");
  ("constant_keyword", "ConstantKeywordProperty" ::> "CommonMappingConstantKeywordProperty");
  ("alias", "FieldAliasProperty" ::> "CommonMappingFieldAliasProperty")].
Definition CommonMappingProperty_cases2 : list (string * target) := [
  ("histogram", "HistogramProperty" ::> "CommonMappingHistogramProperty");
  ("ip", "IPProperty" ::> "CommonMappingIPProperty");
  ("murmur3", "Murmur3HashProperty" ::> "CommonMappingMurmur3HashProperty");
  ("token_count", "TokenCountProperty" ::> "CommonMappingTokenCountProperty");
  ("geo_point", "GeoPointProperty" ::> "CommonMappingGeoPointProperty");
  ("geo_shape", "GeoShapeProperty" ::> "CommonMappingGeoShapeProperty");
  ("xy_point", "XYPointProperty" ::> "CommonMappingXYPointProperty");
  ("xy_shape", "XYShapeProperty" ::> "CommonMappingXYShapeProperty");
  ("byte", "ByteNumberProperty" ::> "CommonMappingByteNumberProperty");
  ("double", "DoubleNumberProperty" ::> "CommonMappingDoubleNumberProperty");
  ("float", "FloatNumberProperty" ::> "CommonMappingFloatNumberProperty");
  ("half_float", "HalfFloatNumberProperty" ::> "CommonMappingHalfFloatNumberProperty");
  ("integer", "IntegerNumberProperty" ::> "CommonMappingIntegerNumberProperty");
  ("long", "LongNumberProperty" ::> "CommonMappingLongNumberProperty");
  ("scaled_float", "ScaledFloatNumberProperty" ::> "CommonMappingScaledFloatNumberProperty");
  ("semantic", "SemanticProperty" ::> "CommonMappingSemanticProperty");
  ("short", "ShortNumberProperty" ::> "CommonMappingShortNumberProperty");
  ("unsigned_long", "UnsignedLongNumberProperty" ::> "CommonMappingUnsignedLongNumberProperty");
  ("date_range", "DateRangeProperty" ::> "CommonMappingDateRangeProperty");
  ("double_range", "DoubleRangeProperty" ::> "CommonMappingDoubleRangeProperty");
  ("float_range", "FloatRangeProperty" ::> "CommonMappingFloatRangeProperty")].
Definition CommonMappingProperty_cases3 : list (string * target) := [
  ("integer_range", "IntegerRangeProperty" ::> "CommonMappingIntegerRangeProperty");
  ("ip_range", "IPRangeProperty" ::> "CommonMappingIPRangeProperty");
  ("long_range", "LongRangeProperty" ::> "CommonMappingLongRangeProperty");
  ("knn_vector", "KNNVectorProperty" ::> "CommonMappingKNNVectorProperty");
  ("icu_collation_keyword", "ICUCollationKeywordProperty" ::> "CommonMappingICUCollationKeywordProperty")].
Definition CommonMappingProperty : typed_union := MkTyped "CommonMappingProperty"
  (CommonMappingProperty_branches1 ++ CommonMappingProperty_branches2 ++ CommonMappingProperty_branches3 ++ CommonMappingProperty_branches4 ++ CommonMappingProperty_branches5 ++ CommonMappingProperty_branches6 ++ CommonMappingProperty_branches7 ++ CommonMappingProperty_branches8)
  (ByName "type" (Some "object") (CommonMappingProperty_cases1 ++ CommonMappingProperty_cases2 ++ CommonMappingProperty_cases3)).

Definition CommonAnalysisAnalyzer_branches1 : list branch := [
  "CustomAnalyzer" :- "CommonAnalysisCustomAnalyzer" sets "Type" := "custom";
  "FingerprintAnalyzer" :- "CommonAnalysisFingerprintAnalyzer" sets "Type" := "fingerprint";
  "KeywordAnalyzer" :- "CommonAnalysisKeywordAnalyzer" sets "Type" := "keyword";
  "LanguageAnalyzer" :- "CommonAnalysisLanguageAnalyzer" sets "Type" := "language";
  "NoriAnalyzer" :- "CommonAnalysisNoriAnalyzer" sets "Type" := "nori";
  "PatternAnalyzer" :- "CommonAnalysisPatternAnalyzer" sets "Type" := "pattern"].
Definition CommonAnalysisAnalyzer_branches2 : list branch := [
  "SimpleAnalyzer" :- "CommonAnalysisSimpleAnalyzer" sets "Type" := "simple";
  "StandardAnalyzer" :- "CommonAnalysisStandardAnalyzer" sets "Type" := "standard";
  "StopAnalyzer" :- "CommonAnalysisStopAnalyzer" sets "Type" := "stop";
  "WhitespaceAnalyzer" :- "CommonAnalysisWhitespaceAnalyzer" sets "Type" := "whitespace";
  "ICUAnalyzer" :- "CommonAnalysisICUAnalyzer" sets "Type" := "icu_analyzer";
  "KuromojiAnalyzer" :- "CommonAnalysisKuromojiAnalyzer" sets "Type" := "kuromoji"].
Definition CommonAnalysisAnalyzer_branches3 : list branch := [
  "SnowballAnalyzer" :- "CommonAnalysisSnowballAnalyzer" sets "Type" := "snowball";
  "DutchAnalyzer" :- "CommonAnalysisDutchAnalyzer" sets "Type" := "dutch";
  "SmartcnAnalyzer" :- "CommonAnalysisSmartcnAnalyzer";
  "CJKAnalyzer" :- "CommonAnalysisCJKAnalyzer";
  "PhoneAnalyzer" :- "CommonAnalysisPhoneAnalyzer" sets "Type" := "phone";
  "PhoneSearchAnalyzer" :- "CommonAnalysisPhoneSearchAnalyzer" sets "Type" := "phone-search"].
Definition CommonAnalysisAnalyzer_cases1 : list (string * target) := [
  ("custom", "CustomAnalyzer" ::> "CommonAnalysisCustomAnalyzer");
  ("fingerprint", "FingerprintAnalyzer" ::> "CommonAnalysisFingerprintAnalyzer");
  ("keyword", "KeywordAnalyzer" ::> "CommonAnalysisKeywordAnalyzer");
  ("language", "LanguageAnalyzer" ::> "CommonAnalysisLanguageAnalyzer");
  ("nori", "NoriAnalyzer" ::> "CommonAnalysisNoriAnalyzer");
  ("pattern", "PatternAnalyzer" ::> "CommonAnalysisPatternAnalyzer");
  ("simple", "SimpleAnalyzer" ::> "CommonAnalysisSimpleAnalyzer");
  ("standard", "StandardAnalyzer" ::> "CommonAnalysisStandardAnalyzer");
  ("stop", "StopAnalyzer" ::> "CommonAnalysisStopAnalyzer");
  ("whitespace", "WhitespaceAnalyzer" ::> "CommonAnalysisWhitespaceAnalyzer");
  ("icu_analyzer", "ICUAnalyzer" ::> "CommonAnalysisICUAnalyzer");
  ("kuromoji", "KuromojiAnalyzer" ::> "CommonAnalysisKuromojiAnalyzer");
  ("snowball", "SnowballAnalyzer" ::> "CommonAnalysisSnowballAnalyzer");
  ("dutch", "DutchAnalyzer" ::> "CommonAnalysisDutchAnalyzer");
  ("smartcn", "SmartcnAnalyzer" ::> "CommonAnalysisSmartcnAnalyzer");
  ("cjk", "CJKAnalyzer" ::> "CommonAnalysisCJKAnalyzer");
  ("phone", "PhoneAnalyzer" ::> "CommonAnalysisPhoneAnalyzer");
  ("phone-search", "PhoneSearchAnalyzer" ::> "CommonAnalysisPhoneSearchAnalyzer")].
Definition CommonAnalysisAnalyzer : typed_union := MkTyped "CommonAnalysisAnalyzer"
  (CommonAnalysisAnalyzer_branches1 ++ CommonAnalysisAnalyzer_branches2 ++ CommonAnalysisAnalyzer_branches3)
  (ByName "type" None (CommonAnalysisAnalyzer_cases1)).

Definition CommonAnalysisCharFilterDefinition_branches1 : list branch := [
  "HTMLStripCharFilter" :- "CommonAnalysisHTMLStripCharFilter" sets "Type" := "html_strip";
  "MappingCharFilter" :- "CommonAnalysisMappingCharFilter" sets "Type" := "mapping";
  "PatternReplaceCharFilter" :- "CommonAnalysisPatternReplaceCharFilter" sets "Type" := "pattern_replace";
  "ICUNormalizationCharFilter" :- "CommonAnalysisICUNormalizationCharFilter" sets "Type" := "icu_normalizer";
  "KuromojiIterationMarkCharFilter" :- "CommonAnalysisKuromojiIterationMarkCharFilter" sets "Type" := "kuromoji_iteration_mark"].
Definition CommonAnalysisCharFilterDefinition_cases1 : list (string * target) := [
  ("html_strip", "HTMLStripCharFilter" ::> "CommonAnalysisHTMLStripCharFilter");
  ("mapping", "MappingCharFilter" ::> "CommonAnalysisMappingCharFilter");
  ("pattern_replace", "PatternReplaceCharFilter" ::> "CommonAnalysisPatternReplaceCharFilter");
  ("icu_normalizer", "ICUNormalizationCharFilter" ::> "CommonAnalysisICUNormalizationCharFilter");
  ("kuromoji_iteration_mark", "KuromojiIterationMarkCharFilter" ::> "CommonAnalysisKuromojiIterationMarkCharFilter")].
Definition CommonAnalysisCharFilterDefinition : typed_union := MkTyped "CommonAnalysisCharFilterDefinition"
  (CommonAnalysisCharFilterDefinition_branches1)
  (ByName "type" None (CommonAnalysisCharFilterDefinition_cases1)).

Definition CommonAnalysisTokenFilterDefinition_branches1 : list branch := [
  "AsciiFoldingTokenFilter" :- "CommonAnalysisAsciiFoldingTokenFilter" sets "Type" := "asciifolding";
  "CommonGramsTokenFilter" :- "CommonAnalysisCommonGramsTokenFilter" sets "Type" := "common_grams";
  "ConditionTokenFilter" :- "CommonAnalysisConditionTokenFilter" sets "Type" := "condition";
  "DelimitedPayloadTokenFilter" :- "CommonAnalysisDelimitedPayloadTokenFilter" sets "Type" := "delimited_payload";
  "EdgeNGramTokenFilter" :- "CommonAnalysisEdgeNGramTokenFilter" sets "Type" := "edge_ngram";
  "ElisionTokenFilter" :- "CommonAnalysisElisionTokenFilter" sets "Type" := "elision"].
Definition CommonAnalysisTokenFilterDefinition_branches2 : list branch := [
  "FingerprintTokenFilter" :- "CommonAnalysisFingerprintTokenFilter" sets "Type" := "fingerprint";
  "HunspellTokenFilter" :- "CommonAnalysisHunspellTokenFilter" sets "Type" := "hunspell";
  "HyphenationDecompounderTokenFilter" :- "CommonAnalysisHyphenationDecompounderTokenFilter" sets "Type" := "hyphenation_decompounder";
  "KeepTypesTokenFilter" :- "CommonAnalysisKeepTypesTokenFilter" sets "Type" := "keep_types";
  "KeepWordsTokenFilter" :- "CommonAnalysisKeepWordsTokenFilter" sets "Type" := "keep";
  "KeywordMarkerTokenFilter" :- "CommonAnalysisKeywordMarkerTokenFilter" sets "Type" := "keyword_marker"].
Definition CommonAnalysisTokenFilterDefinition_branches3 : list branch := [
  "KStemTokenFilter" :- "CommonAnalysisKStemTokenFilter" sets "Type" := "kstem";
  "LengthTokenFilter" :- "CommonAnalysisLengthTokenFilter" sets "Type" := "length";
  "LimitTokenCountTokenFilter" :- "CommonAnalysisLimitTokenCountTokenFilter" sets "Type" := "limit";
  "LowercaseTokenFilter" :- "CommonAnalysisLowercaseTokenFilter" sets "Type" := "lowercase";
  "MultiplexerTokenFilter" :- "CommonAnalysisMultiplexerTokenFilter" sets "Type" := "multiplexer";
  "NGramTokenFilter" :- "CommonAnalysisNGramTokenFilter" sets "Type" := "ngram"].
Definition CommonAnalysisTokenFilterDefinition_branches4 : list branch := [
  "NoriPartOfSpeechTokenFilter" :- "CommonAnalysisNoriPartOfSpeechTokenFilter" sets "Type" := "nori_part_of_speech";
  "PatternCaptureTokenFilter" :- "CommonAnalysisPatternCaptureTokenFilter" sets "Type" := "pattern_capture";
  "PatternReplaceTokenFilter" :- "CommonAnalysisPatternReplaceTokenFilter" sets "Type" := "pattern_replace";
  "PersianStemTokenFilter" :- "CommonAnalysisPersianStemTokenFilter" sets "Type" := "persian_stem";
  "PorterStemTokenFilter" :- "CommonAnalysisPorterStemTokenFilter" sets "Type" := "porter_stem";
  "PredicateTokenFilter" :- "CommonAnalysisPredicateTokenFilter" sets "Type" := "predicate_token_filter"].
Definition CommonAnalysisTokenFilterDefinition_branches5 : list branch := [
  "RemoveDuplicatesTokenFilter" :- "CommonAnalysisRemoveDuplicatesTokenFilter" sets "Type" := "remove_duplicates";
  "ReverseTokenFilter" :- "CommonAnalysisReverseTokenFilter" sets "Type" := "reverse";
  "ShingleTokenFilter" :- "CommonAnalysisShingleTokenFilter" sets "Type" := "shingle";
  "SnowballTokenFilter" :- "CommonAnalysisSnowballTokenFilter" sets "Type" := "snowball";
  "StemmerOverrideTokenFilter" :- "CommonAnalysisStemmerOverrideTokenFilter" sets "Type" := "stemmer_override";
  "StemmerTokenFilter" :- "CommonAnalysisStemmerTokenFilter" sets "Type" := "stemmer"].
Definition CommonAnalysisTokenFilterDefinition_branches6 : list branch := [
  "StopTokenFilter" :- "CommonAnalysisStopTokenFilter" sets "Type" := "stop";
  "SynonymGraphTokenFilter" :- "CommonAnalysisSynonymGraphTokenFilter" sets "Type" := "synonym_graph";
  "SynonymTokenFilter" :- "CommonAnalysisSynonymTokenFilter" sets "Type" := "synonym";
  "TrimTokenFilter" :- "CommonAnalysisTrimTokenFilter" sets "Type" := "trim";
  "TruncateTokenFilter" :- "CommonAnalysisTruncateTokenFilter" sets "Type" := "truncate";
  "UniqueTokenFilter" :- "CommonAnalysisUniqueTokenFilter" sets "Type" := "unique"].
Definition CommonAnalysisTokenFilterDefinition_branches7 : list branch := [
  "UppercaseTokenFilter" :- "CommonAnalysisUppercaseTokenFilter" sets "Type" := "uppercase";
  "WordDelimiterGraphTokenFilter" :- "CommonAnalysisWordDelimiterGraphTokenFilter" sets "Type" := "word_delimiter_graph";
  "WordDelimiterTokenFilter" :- "CommonAnalysisWordDelimiterTokenFilter" sets "Type" := "word_delimiter";
  "KuromojiStemmerTokenFilter" :- "CommonAnalysisKuromojiStemmerTokenFilter" sets "Type" := "kuromoji_stemmer";
  "KuromojiReadingFormTokenFilter" :- "CommonAnalysisKuromojiReadingFormTokenFilter" sets "Type" := "kuromoji_readingform";
  "KuromojiPartOfSpeechTokenFilter" :- "CommonAnalysisKuromojiPartOfSpeechTokenFilter" sets "Type" := "kuromoji_part_of_speech"].
Definition CommonAnalysisTokenFilterDefinition_branches8 : list branch := [
  "ICUTokenizer" :- "CommonAnalysisICUTokenizer" sets "Type" := "icu_tokenizer";
  "ICUCollationTokenFilter" :- "CommonAnalysisICUCollationTokenFilter" sets "Type" := "icu_collation";
  "ICUFoldingTokenFilter" :- "CommonAnalysisICUFoldingTokenFilter" sets "Type" := "icu_folding";
  "ICUNormalizationTokenFilter" :- "CommonAnalysisICUNormalizationTokenFilter" sets "Type" := "icu_normalizer";
  "ICUTransformTokenFilter" :- "CommonAnalysisICUTransformTokenFilter" sets "Type" := "icu_transform";
  "PhoneticTokenFilter" :- "CommonAnalysisPhoneticTokenFilter" sets "Type" := "phonetic"].
Definition CommonAnalysisTokenFilterDefinition_branches9 : list branch := [
  "DictionaryDecompounderTokenFilter" :- "CommonAnalysisDictionaryDecompounderTokenFilter" sets "Type" := "dictionary_decompounder";
  "SmartcnStopTokenFilter" :- "CommonAnalysisSmartcnStopTokenFilter" sets "Type" := "smartcn_stop"].
Definition CommonAnalysisTokenFilterDefinition_cases1 : list (string * target) := [
  ("asciifolding", "AsciiFoldingTokenFilter" ::> "CommonAnalysisAsciiFoldingTokenFilter");
  ("common_grams", "CommonGramsTokenFilter" ::> "CommonAnalysisCommonGramsTokenFilter");
  ("condition", "ConditionTokenFilter" ::> "CommonAnalysisConditionTokenFilter");
  ("delimited_payload", "DelimitedPayloadTokenFilter" ::> "CommonAnalysisDelimitedPayloadTokenFilter");
  ("edge_ngram", "EdgeNGramTokenFilter" ::> "CommonAnalysisEdgeNGramTokenFilter");
  ("elision", "ElisionTokenFilter" ::> "CommonAnalysisElisionTokenFilter");
  ("fingerprint", "FingerprintTokenFilter" ::> "CommonAnalysisFingerprintTokenFilter");
  ("hunspell", "HunspellTokenFilter" ::> "CommonAnalysisHunspellTokenFilter");
  ("hyphenation_decompounder", "HyphenationDecompounderTokenFilter" ::> "CommonAnalysisHyphenationDecompounderTokenFilter");
  ("keep_types", "KeepTypesTokenFilter" ::> "CommonAnalysisKeepTypesTokenFilter");
  ("keep", "KeepWordsTokenFilter" ::> "CommonAnalysisKeepWordsTokenFilter");
  ("keyword_marker", "KeywordMarkerTokenFilter" ::> "CommonAnalysisKeywordMarkerTokenFilter");
  ("kstem", "KStemTokenFilter" ::> "CommonAnalysisKStemTokenFilter");
  ("length", "LengthTokenFilter" ::> "CommonAnalysisLengthTokenFilter");
  ("limit", "LimitTokenCountTokenFilter" ::> "CommonAnalysisLimitTokenCountTokenFilter");
  ("lowercase", "LowercaseTokenFilter" ::> "CommonAnalysisLowercaseTokenFilter");
  ("multiplexer", "MultiplexerTokenFilter" ::> "CommonAnalysisMultiplexerTokenFilter");
  ("ngram", "NGramTokenFilter" ::> "CommonAnalysisNGramTokenFilter");
  ("nori_part_of_speech", "NoriPartOfSpeechTokenFilter" ::> "CommonAnalysisNoriPartOfSpeechTokenFilter");
  ("pattern_capture", "PatternCaptureTokenFilter" ::> "CommonAnalysisPatternCaptureTokenFilter");
  ("pattern_replace", "PatternReplaceTokenFilter" ::> "CommonAnalysisPatternReplaceTokenFilter")].
Definition CommonAnalysisTokenFilterDefinition_cases2 : list (string * target) := [
  ("persian_stem", "PersianStemTokenFilter" ::> "CommonAnalysisPersianStemTokenFilter");
  ("porter_stem", "PorterStemTokenFilter" ::> "CommonAnalysisPorterStemTokenFilter");
  ("predicate_token_filter", "PredicateTokenFilter" ::> "CommonAnalysisPredicateTokenFilter");
  ("remove_duplicates", "RemoveDuplicatesTokenFilter" ::> "CommonAnalysisRemoveDuplicatesTokenFilter");
  ("reverse", "ReverseTokenFilter" ::> "CommonAnalysisReverseTokenFilter");
  ("shingle", "ShingleTokenFilter" ::> "CommonAnalysisShingleTokenFilter");
  ("snowball", "SnowballTokenFilter" ::> "CommonAnalysisSnowballTokenFilter");
  ("stemmer_override", "StemmerOverrideTokenFilter" ::> "CommonAnalysisStemmerOverrideTokenFilter");
  ("stemmer", "StemmerTokenFilter" ::> "CommonAnalysisStemmerTokenFilter");
  ("stop", "StopTokenFilter" ::> "CommonAnalysisStopTokenFilter");
  ("synonym_graph", "SynonymGraphTokenFilter" ::> "CommonAnalysisSynonymGraphTokenFilter");
  ("synonym", "SynonymTokenFilter" ::> "CommonAnalysisSynonymTokenFilter");
  ("trim", "TrimTokenFilter" ::> "CommonAnalysisTrimTokenFilter");
  ("truncate", "TruncateTokenFilter" ::> "CommonAnalysisTruncateTokenFilter");
  ("unique", "UniqueTokenFilter" ::> "CommonAnalysisUniqueTokenFilter");
  ("uppercase", "UppercaseTokenFilter" ::> "CommonAnalysisUppercaseTokenFilter");
  ("word_delimiter_graph", "WordDelimiterGraphTokenFilter" ::> "CommonAnalysisWordDelimiterGraphTokenFilter");
  ("word_delimiter", "WordDelimiterTokenFilter" ::> "CommonAnalysisWordDelimiterTokenFilter");
  ("kuromoji_stemmer", "KuromojiStemmerTokenFilter" ::> "CommonAnalysisKuromojiStemmerTokenFilter");
  ("kuromoji_readingform", "KuromojiReadingFormTokenFilter" ::> "CommonAnalysisKuromojiReadingFormTokenFilter");
  ("kuromoji_part_of_speech", "KuromojiPartOfSpeechTokenFilter" ::> "CommonAnalysisKuromojiPartOfSpeechTokenFilter")].
Definition CommonAnalysisTokenFilterDefinition_cases3 : list (string * target) := [
  ("icu_tokenizer", "ICUTokenizer" ::> "CommonAnalysisICUTokenizer");
  ("icu_collation", "ICUCollationTokenFilter" ::> "CommonAnalysisICUCollationTokenFilter");
  ("icu_folding", "ICUFoldingTokenFilter" ::> "CommonAnalysisICUFoldingTokenFilter");
  ("icu_normalizer", "ICUNormalizationTokenFilter" ::> "CommonAnalysisICUNormalizationTokenFilter");
  ("icu_transform", "ICUTransformTokenFilter" ::> "CommonAnalysisICUTransformTokenFilter");
  ("phonetic", "PhoneticTokenFilter" ::> "CommonAnalysisPhoneticTokenFilter");
  ("dictionary_decompounder", "DictionaryDecompounderTokenFilter" ::> "CommonAnalysisDictionaryDecompounderTokenFilter");
  ("smartcn_stop", "SmartcnStopTokenFilter" ::> "CommonAnalysisSmartcnStopTokenFilter")].
Definition CommonAnalysisTokenFilterDefinition : typed_union := MkTyped "CommonAnalysisTokenFilterDefinition"
  (CommonAnalysisTokenFilterDefinition_branches1 ++ CommonAnalysisTokenFilterDefinition_branches2 ++ CommonAnalysisTokenFilterDefinition_branches3 ++ CommonAnalysisTokenFilterDefinition_branches4 ++ CommonAnalysisTokenFilterDefinition_branches5 ++ CommonAnalysisTokenFilterDefinition_branches6 ++ CommonAnalysisTokenFilterDefinition_branches7 ++ CommonAnalysisTokenFilterDefinition_branches8 ++ CommonAnalysisTokenFilterDefinition_branches9)
  (ByName "type" None (CommonAnalysisTokenFilterDefinition_cases1 ++ CommonAnalysisTokenFilterDefinition_cases2 ++ CommonAnalysisTokenFilterDefinition_cases3)).

Definition CommonAnalysisNormalizer : typed_union := MkTyped "CommonAnalysisNormalizer"
  [
    "LowercaseNormalizer" :- "CommonAnalysisLowercaseNormalizer" sets "Type" := "lowercase";
    "CustomNormalizer" :- "CommonAnalysisCustomNormalizer" sets "Type" := "custom"]
  (ByName "type" None [
    ("lowercase", "LowercaseNormalizer" ::> "CommonAnalysisLowercaseNormalizer");
    ("custom", "CustomNormalizer" ::> "CommonAnalysisCustomNormalizer")]).

Definition CommonAnalysisTokenizerDefinition_branches1 : list branch := [
  "CharGroupTokenizer" :- "CommonAnalysisCharGroupTokenizer" sets "Type" := "char_group";
  "EdgeNGramTokenizer" :- "CommonAnalysisEdgeNGramTokenizer" sets "Type" := "edge_ngram";
  "KeywordTokenizer" :- "CommonAnalysisKeywordTokenizer" sets "Type" := "keyword";
  "LetterTokenizer" :- "CommonAnalysisLetterTokenizer" sets "Type" := "letter";
  "LowercaseTokenizer" :- "CommonAnalysisLowercaseTokenizer" sets "Type" := "lowercase";
  "NGramTokenizer" :- "CommonAnalysisNGramTokenizer" sets "Type" := "ngram"].
Definition CommonAnalysisTokenizerDefinition_branches2 : list branch := [
  "NoriTokenizer" :- "CommonAnalysisNoriTokenizer" sets "Type" := "nori_tokenizer";
  "PathHierarchyTokenizer" :- "CommonAnalysisPathHierarchyTokenizer" sets "Type" := "path_hierarchy";
  "StandardTokenizer" :- "CommonAnalysisStandardTokenizer" sets "Type" := "standard";
  "UAXEmailURLTokenizer" :- "CommonAnalysisUAXEmailURLTokenizer" sets "Type" := "uax_url_email";
  "WhitespaceTokenizer" :- "CommonAnalysisWhitespaceTokenizer" sets "Type" := "whitespace";
  "KuromojiTokenizer" :- "CommonAnalysisKuromojiTokenizer" sets "Type" := "kuromoji_tokenizer"].
Definition CommonAnalysisTokenizerDefinition_branches3 : list branch := [
  "PatternTokenizer" :- "CommonAnalysisPatternTokenizer" sets "Type" := "pattern";
  "SimplePatternTokenizer" :- "CommonAnalysisSimplePatternTokenizer" sets "Type" := "simple_pattern";
  "SimplePatternSplitTokenizer" :- "CommonAnalysisSimplePatternSplitTokenizer" sets "Type" := "simple_pattern_split";
  "ICUTokenizer" :- "CommonAnalysisICUTokenizer" sets "Type" := "icu_tokenizer";
  "SmartcnTokenizer" :- "CommonAnalysisSmartcnTokenizer" sets "Type" := "smartcn_tokenizer"].
Definition CommonAnalysisTokenizerDefinition_cases1 : list (string * target) := [
  ("char_group", "CharGroupTokenizer" ::> "CommonAnalysisCharGroupTokenizer");
  ("edge_ngram", "EdgeNGramTokenizer" ::> "CommonAnalysisEdgeNGramTokenizer");
  ("keyword", "KeywordTokenizer" ::> "CommonAnalysisKeywordTokenizer");
  ("letter", "LetterTokenizer" ::> "CommonAnalysisLetterTokenizer");
  ("lowercase", "LowercaseTokenizer" ::> "CommonAnalysisLowercaseTokenizer");
  ("ngram", "NGramTokenizer" ::> "CommonAnalysisNGramTokenizer");
  ("nori_tokenizer", "NoriTokenizer" ::> "CommonAnalysisNoriTokenizer");
  ("path_hierarchy", "PathHierarchyTokenizer" ::> "CommonAnalysisPathHierarchyTokenizer");
  ("standard", "StandardTokenizer" ::> "CommonAnalysisStandardTokenizer");
  ("uax_url_email", "UAXEmailURLTokenizer" ::> "CommonAnalysisUAXEmailURLTokenizer");
  ("whitespace", "WhitespaceTokenizer" ::> "CommonAnalysisWhitespaceTokenizer");
  ("kuromoji_tokenizer", "KuromojiTokenizer" ::> "CommonAnalysisKuromojiTokenizer");
  ("pattern", "PatternTokenizer" ::> "CommonAnalysisPatternTokenizer");
  ("simple_pattern", "SimplePatternTokenizer" ::> "CommonAnalysisSimplePatternTokenizer");
  ("simple_pattern_split", "SimplePatternSplitTokenizer" ::> "CommonAnalysisSimplePatternSplitTokenizer");
  ("icu_tokenizer", "ICUTokenizer" ::> "CommonAnalysisICUTokenizer");
  ("smartcn_tokenizer", "SmartcnTokenizer" ::> "CommonAnalysisSmartcnTokenizer")].
Definition CommonAnalysisTokenizerDefinition : typed_union := MkTyped "CommonAnalysisTokenizerDefinition"
  (CommonAnalysisTokenizerDefinition_branches1 ++ CommonAnalysisTokenizerDefinition_branches2 ++ CommonAnalysisTokenizerDefinition_branches3)
  (ByName "type" None (CommonAnalysisTokenizerDefinition_cases1)).

Definition named_unions : list typed_union := [
  ClusterRemoteInfoCluster;
  CommonMappingProperty;
  CommonAnalysisAnalyzer;
  CommonAnalysisCharFilterDefinition;
  CommonAnalysisTokenFilterDefinition;
  CommonAnalysisNormalizer;
  CommonAnalysisTokenizerDefinition].
