(* ===== verification/UnionsTried.v ===== *)
(** * Unions read by their keys, by trial or on request

    The unions whose payload does not name its branch: a decode with probes for
    the keys that tell the branches apart, one attempt after another, or the
    branch the caller asks for. *)

From Stdlib Require Import Ascii String.
From stdpp Require Import base gmap list strings.
From S2P Require Import Prelude.
From S2P Require Import Json.
From S2P Require Import Unions.
Open Scope string_scope.
Open Scope list_scope.

Definition DeleteByQueryRespBody : typed_union := MkTyped "DeleteByQueryRespBody"
  ["BulkByScrollRespBase" :- "BulkByScrollRespBase"; "Task" :- "DeleteByQueryRespBodyTask"]
  (ByProbe [("batches", "BulkByScrollRespBase" ::> "BulkByScrollRespBase")] ("Task" ::> "DeleteByQueryRespBodyTask")
    ["task"]).

Definition IndicesOpenRespBody : typed_union := MkTyped "IndicesOpenRespBody"
  ["Task" :- "IndicesOpenRespBodyTask"; "Acknowledged" :- "IndicesOpenRespBodyAcknowledged"]
  (ByProbe [("acknowledged", "Acknowledged" ::> "IndicesOpenRespBodyAcknowledged")] ("Task" ::> "IndicesOpenRespBodyTask")
    ["task"]).

Definition MGetRespItem : typed_union := MkTyped "MGetRespItem"
  ["GetResult" :- "GetResult"; "MultiGetError" :- "MGetMultiGetError"]
  (ByProbe [("error", "MultiGetError" ::> "MGetMultiGetError")] ("GetResult" ::> "GetResult")
    ["_id"; "_index"; "_primary_term"; "_routing"; "_seq_no"; "_source"; "_type"; "_version"; "fields"; "found"]).

Definition MSearchRespItem : typed_union := MkTyped "MSearchRespItem"
  ["MultiSearchItem" :- "MSearchMultiSearchItem"; "ErrorRespBase" :- "ErrorRespBase"]
  (ByProbe [("error", "ErrorRespBase" ::> "ErrorRespBase")] ("MultiSearchItem" ::> "MSearchMultiSearchItem")
    ["_clusters"; "_scroll_id"; "_shards"; "aggregations"; "hits"; "num_reduce_phases"; "phase_took"; "pit_id"; "processor_results"; "profile"; "suggest"; "terminated_early"; "timed_out"; "took"; "status"]).

Definition NodesReloadSecureSettingsNodeReloadResult : typed_union := MkTyped "NodesReloadSecureSettingsNodeReloadResult"
  ["NodeReloadResponse" :- "NodesReloadSecureSettingsNodeReloadResponse"; "NodeReloadError" :- "NodesReloadSecureSettingsNodeReloadError"]
  (ByProbe [("reload_exception", "NodeReloadError" ::> "NodesReloadSecureSettingsNodeReloadError")] ("NodeReloadResponse" ::> "NodesReloadSecureSettingsNodeReloadResponse")
    ["name"]).

Definition ReindexRespBody : typed_union := MkTyped "ReindexRespBody"
  ["BulkByScrollRespBase" :- "BulkByScrollRespBase"; "Task" :- "ReindexRespBodyTask"]
  (ByProbe [("batches", "BulkByScrollRespBase" ::> "BulkByScrollRespBase")] ("Task" ::> "ReindexRespBodyTask")
    ["task"]).

Definition GeoLocation : typed_union := MkTyped "GeoLocation"
  ["Latlon" :- "LatLonGeoLocation"; "Geohash" :- "GeoHashLocation"; "Array" :- "[]float64"; "String" :- "string"]
  (ByTrial [(["lat"; "lon"], "Latlon" ::> "LatLonGeoLocation"); (["geohash"], "Geohash" ::> "GeoHashLocation")]
    ["Array" ::> "[]float64"; "String" ::> "string"]).

Definition GeoBounds : typed_union := MkTyped "GeoBounds"
  ["Coords" :- "CoordsGeoBounds"; "Tlbr" :- "TopLeftBottomRightGeoBounds"; "Trbl" :- "TopRightBottomLeftGeoBounds"; "WKT" :- "WKTGeoBounds"]
  (ByProbe [
    ("bottom_right", "Tlbr" ::> "TopLeftBottomRightGeoBounds");
    ("bottom_left", "Trbl" ::> "TopRightBottomLeftGeoBounds");
    ("wkt", "WKT" ::> "WKTGeoBounds")] ("Coords" ::> "CoordsGeoBounds")
    ["bottom"; "left"; "right"; "top"]).

Definition CommonQueryDSLDistanceFeatureQuery : typed_union := MkTyped "CommonQueryDSLDistanceFeatureQuery"
  ["Object0" :- "CommonQueryDSLDistanceFeatureQueryObject0"; "Object1" :- "CommonQueryDSLDistanceFeatureQueryObject1"]
  (ByTrial [
    (["field"; "origin"; "pivot"], "Object0" ::> "CommonQueryDSLDistanceFeatureQueryObject0");
    (["field"; "origin"; "pivot"], "Object1" ::> "CommonQueryDSLDistanceFeatureQueryObject1")]
    []).

Definition Script : typed_union := MkTyped "Script"
  ["Inline" :- "InlineScript"; "Stored" :- "StoredScriptID"]
  (ByTrial [(["id"], "Stored" ::> "StoredScriptID")]
    ["Inline" ::> "InlineScript"]).

Definition SortCombinations : typed_union := MkTyped "SortCombinations"
  ["String" :- "string"; "StringMap" :- "map[string]string"; "FieldSortMap" :- "map[string]FieldSort"; "Options" :- "SortOptions"]
  (ByTrial []
    ["String" ::> "string"; "StringMap" ::> "map[string]string"; "FieldSortMap" ::> "map[string]FieldSort"; "Options" ::> "SortOptions"]).

Definition SegmentReplicationStats : typed_union := MkTyped "SegmentReplicationStats"
  ["Object1" :- "SegmentReplicationStatsObject1"; "Object0" :- "SegmentReplicationStatsObject0"]
  (ByTrial [
    (["max_bytes_behind"; "max_replication_lag"; "total_bytes_behind"], "Object1" ::> "SegmentReplicationStatsObject1");
    (["max_bytes_behind"; "max_replication_lag"; "total_bytes_behind"], "Object0" ::> "SegmentReplicationStatsObject0")]
    []).

Definition BulkByScrollTaskStatusOrException : typed_union := MkTyped "BulkByScrollTaskStatusOrException"
  ["BulkByScrollTaskStatus" :- "BulkByScrollTaskStatus"; "Exception" :- "ErrorCause"]
  (ByProbe [("type", "Exception" ::> "ErrorCause")] ("BulkByScrollTaskStatus" ::> "BulkByScrollTaskStatus")
    ["batches"; "canceled"; "created"; "deleted"; "noops"; "requests_per_second"; "retries"; "slice_id"; "slices"; "throttled"; "throttled_millis"; "throttled_until"; "throttled_until_millis"; "total"; "updated"; "version_conflicts"]).

Definition BulkByScrollFailure : typed_union := MkTyped "BulkByScrollFailure"
  ["BulkItemRespFailure" :- "BulkItemRespFailure"; "ScrollableHitSourceSearchFailure" :- "ScrollableHitSourceSearchFailure"]
  (ByProbe [("reason", "ScrollableHitSourceSearchFailure" ::> "ScrollableHitSourceSearchFailure")] ("BulkItemRespFailure" ::> "BulkItemRespFailure")
    ["cause"; "id"; "index"; "status"]).

Definition TasksStatus : typed_union := MkTyped "TasksStatus"
  [
    "ReplicationTaskStatus" :- "TasksReplicationTaskStatus";
    "BulkByScrollTaskStatus" :- "BulkByScrollTaskStatus";
    "PersistentTaskStatus" :- "TasksPersistentTaskStatus";
    "Map" :- "map[string]json.RawMessage"]
  (ByTrial [
    (["phase"], "ReplicationTaskStatus" ::> "TasksReplicationTaskStatus");
    (["batches"; "deleted"; "noops"; "requests_per_second"; "retries"; "throttled_millis"; "throttled_until_millis"; "total"; "version_conflicts"], "BulkByScrollTaskStatus" ::> "BulkByScrollTaskStatus");
    (["state"], "PersistentTaskStatus" ::> "TasksPersistentTaskStatus")]
    ["Map" ::> "map[string]json.RawMessage"]).

Definition MLExecuteAlgorithmResponse : typed_union := MkTyped "MLExecuteAlgorithmResponse"
  ["ExecuteLocalSampleCalculatorResponse" :- "MLExecuteLocalSampleCalculatorResponse"; "Results" :- "MLExecuteAlgorithmRespResults"]
  (ByTrial []
    ["ExecuteLocalSampleCalculatorResponse" ::> "MLExecuteLocalSampleCalculatorResponse"; "Results" ::> "MLExecuteAlgorithmRespResults"]).

Definition NeuralStats : typed_union := MkTyped "NeuralStats"
  ["NestedNeuralStats" :- "NeuralNestedStats"; "FlatNeuralStats" :- "NeuralFlatStats"]
  (ByTrial []
    ["NestedNeuralStats" ::> "NeuralNestedStats"; "FlatNeuralStats" ::> "NeuralFlatStats"]).

Definition SearchPipelinePhaseResultsProcessor : typed_union := MkTyped "SearchPipelinePhaseResultsProcessor"
  [
    "NormalizationProcessor" :- "SearchPipelinePhaseResultsProcessorNormalizationProcessor";
    "ScoreRankerProcessor" :- "SearchPipelinePhaseResultsProcessorScoreRankerProcessor"]
  (ByProbe [("score-ranker-processor", "ScoreRankerProcessor" ::> "SearchPipelinePhaseResultsProcessorScoreRankerProcessor")] ("NormalizationProcessor" ::> "SearchPipelinePhaseResultsProcessorNormalizationProcessor")
    ["normalization-processor"]).

Definition SearchPipelineRequestProcessor_branches1 : list branch := [
  "AgenticQueryTranslator" :- "SearchPipelineRequestProcessorAgenticQueryTranslator";
  "FilterQuery" :- "SearchPipelineRequestProcessorFilterQuery";
  "NeuralQueryEnricher" :- "SearchPipelineRequestProcessorNeuralQueryEnricher";
  "Script" :- "SearchPipelineRequestProcessorScript";
  "Oversample" :- "SearchPipelineRequestProcessorOversample"].
Definition SearchPipelineRequestProcessor : typed_union := MkTyped "SearchPipelineRequestProcessor"
  (SearchPipelineRequestProcessor_branches1)
  (ByProbe [
    ("filter_query", "FilterQuery" ::> "SearchPipelineRequestProcessorFilterQuery");
    ("neural_query_enricher", "NeuralQueryEnricher" ::> "SearchPipelineRequestProcessorNeuralQueryEnricher");
    ("script", "Script" ::> "SearchPipelineRequestProcessorScript");
    ("oversample", "Oversample" ::> "SearchPipelineRequestProcessorOversample")] ("AgenticQueryTranslator" ::> "SearchPipelineRequestProcessorAgenticQueryTranslator")
    ["agentic_query_translator"]).

Definition SearchPipelineRespProcessor_branches1 : list branch := [
  "AgenticContext" :- "SearchPipelineRespProcessorAgenticContext";
  "PersonalizeSearchRanking" :- "SearchPipelineRespProcessorPersonalizeSearchRanking";
  "RetrievalAugmentedGeneration" :- "SearchPipelineRespProcessorRetrievalAugmentedGeneration";
  "RenameField" :- "SearchPipelineRespProcessorRenameField";
  "Rerank" :- "SearchPipelineRespProcessorRerank";
  "Collapse" :- "SearchPipelineRespProcessorCollapse";
  "TruncateHits" :- "SearchPipelineRespProcessorTruncateHits"].
Definition SearchPipelineRespProcessor_branches2 : list branch := [
  "Sort" :- "SearchPipelineRespProcessorSort";
  "Split" :- "SearchPipelineRespProcessorSplit"].
Definition SearchPipelineRespProcessor : typed_union := MkTyped "SearchPipelineRespProcessor"
  (SearchPipelineRespProcessor_branches1 ++ SearchPipelineRespProcessor_branches2)
  (ByProbe [
    ("personalize_search_ranking", "PersonalizeSearchRanking" ::> "SearchPipelineRespProcessorPersonalizeSearchRanking");
    ("retrieval_augmented_generation", "RetrievalAugmentedGeneration" ::> "SearchPipelineRespProcessorRetrievalAugmentedGeneration");
    ("rename_field", "RenameField" ::> "SearchPipelineRespProcessorRenameField");
    ("rerank", "Rerank" ::> "SearchPipelineRespProcessorRerank");
    ("collapse", "Collapse" ::> "SearchPipelineRespProcessorCollapse");
    ("truncate_hits", "TruncateHits" ::> "SearchPipelineRespProcessorTruncateHits");
    ("sort", "Sort" ::> "SearchPipelineRespProcessorSort");
    ("split", "Split" ::> "SearchPipelineRespProcessorSplit")] ("AgenticContext" ::> "SearchPipelineRespProcessorAgenticContext")
    ["agentic_context"]).

Definition WLMQueryGroupRespResourceLimits : typed_union := MkTyped "WLMQueryGroupRespResourceLimits"
  ["Memory" :- "WLMQueryGroupRespResourceLimitsMemory"; "CPU" :- "WLMQueryGroupRespResourceLimitsCPU"]
  (ByTrial [(["memory"], "Memory" ::> "WLMQueryGroupRespResourceLimitsMemory"); (["cpu"], "CPU" ::> "WLMQueryGroupRespResourceLimitsCPU")]
    []).

Definition GeospatialGeoShapes_branches1 : list branch := [
  "Point" :- "GeospatialPoint";
  "MultiPoint" :- "GeospatialMultiPoint";
  "LineString" :- "GeospatialLineString";
  "MultiLineString" :- "GeospatialMultiLineString";
  "Polygon" :- "GeospatialPolygon";
  "MultiPolygon" :- "GeospatialMultiPolygon";
  "Array" :- "[][]float64"].
Definition GeospatialGeoShapes : typed_union := MkTyped "GeospatialGeoShapes"
  (GeospatialGeoShapes_branches1)
  (ByTrial [
    (["coordinates"; "type"], "Point" ::> "GeospatialPoint");
    (["coordinates"; "type"], "MultiPoint" ::> "GeospatialMultiPoint");
    (["coordinates"; "type"], "LineString" ::> "GeospatialLineString");
    (["coordinates"; "type"], "MultiLineString" ::> "GeospatialMultiLineString");
    (["coordinates"; "type"], "Polygon" ::> "GeospatialPolygon");
    (["coordinates"; "type"], "MultiPolygon" ::> "GeospatialMultiPolygon")]
    ["Array" ::> "[][]float64"]).

Definition GeospatialGeometry : typed_union := MkTyped "GeospatialGeometry"
  ["GeoShapes" :- "GeospatialGeoShapes"; "GeometryCollection" :- "GeospatialGeometryCollection"]
  (ByTrial [(["geometries"; "type"], "GeometryCollection" ::> "GeospatialGeometryCollection")]
    ["GeoShapes" ::> "GeospatialGeoShapes"]).

Definition WLMQueryGroupCreateResourceLimits : typed_union := MkTyped "WLMQueryGroupCreateResourceLimits"
  ["Memory" :- "WLMQueryGroupCreateResourceLimitsMemory"; "CPU" :- "WLMQueryGroupCreateResourceLimitsCPU"]
  (ByTrial [(["memory"], "Memory" ::> "WLMQueryGroupCreateResourceLimitsMemory"); (["cpu"], "CPU" ::> "WLMQueryGroupCreateResourceLimitsCPU")]
    []).

Definition UpdateByQueryRespBody : typed_union := MkTyped "UpdateByQueryRespBody"
  ["BulkByScrollRespBase" :- "BulkByScrollRespBase"; "Task" :- "UpdateByQueryRespBodyTask"]
  (ByProbe [("batches", "BulkByScrollRespBase" ::> "BulkByScrollRespBase")] ("Task" ::> "UpdateByQueryRespBodyTask")
    ["task"]).

Definition FlowFrameworkGetStatusRespBody : typed_union := MkTyped "FlowFrameworkGetStatusRespBody"
  [
    "WorkFlowStatusFullResponse" :- "FlowFrameworkCommonWorkFlowStatusFullResponse";
    "WorkFlowStatusDefaultResponse" :- "FlowFrameworkCommonWorkFlowStatusDefaultResponse"]
  (ByTrial []
    [
    "WorkFlowStatusFullResponse" ::> "FlowFrameworkCommonWorkFlowStatusFullResponse";
    "WorkFlowStatusDefaultResponse" ::> "FlowFrameworkCommonWorkFlowStatusDefaultResponse"]).

Definition SearchRelevancePutExperimentsBody : typed_union := MkTyped "SearchRelevancePutExperimentsBody"
  [
    "PutHybridOptimizerExperimentRequest" :- "opensearchapi.SearchRelevancePutHybridOptimizerExperimentRequest";
    "PutPointwiseExperimentRequest" :- "opensearchapi.SearchRelevancePutPointwiseExperimentRequest";
    "PutPairwiseExperimentRequest" :- "opensearchapi.SearchRelevancePutPairwiseExperimentRequest"]
  (ByTrial []
    [
    "PutHybridOptimizerExperimentRequest" ::> "opensearchapi.SearchRelevancePutHybridOptimizerExperimentRequest";
    "PutPointwiseExperimentRequest" ::> "opensearchapi.SearchRelevancePutPointwiseExperimentRequest";
    "PutPairwiseExperimentRequest" ::> "opensearchapi.SearchRelevancePutPairwiseExperimentRequest"]).

Definition SearchRelevancePutJudgmentsBody : typed_union := MkTyped "SearchRelevancePutJudgmentsBody"
  [
    "PutLLMJudgmentsRequest" :- "opensearchapi.SearchRelevancePutLLMJudgmentsRequest";
    "PutUBIJudgmentsRequest" :- "opensearchapi.SearchRelevancePutUBIJudgmentsRequest";
    "PutImportJudgmentsRequest" :- "opensearchapi.SearchRelevancePutImportJudgmentsRequest"]
  (ByTrial []
    [
    "PutLLMJudgmentsRequest" ::> "opensearchapi.SearchRelevancePutLLMJudgmentsRequest";
    "PutUBIJudgmentsRequest" ::> "opensearchapi.SearchRelevancePutUBIJudgmentsRequest";
    "PutImportJudgmentsRequest" ::> "opensearchapi.SearchRelevancePutImportJudgmentsRequest"]).

Definition SQLSettingsBody : typed_union := MkTyped "SQLSettingsBody"
  ["SQLSettingsPlain" :- "opensearchapi.SQLSettingsPlain"; "SQLSettings" :- "opensearchapi.SQLSettings"]
  (ByTrial []
    ["SQLSettingsPlain" ::> "opensearchapi.SQLSettingsPlain"; "SQLSettings" ::> "opensearchapi.SQLSettings"]).

Definition tried_unions : list typed_union := [
  DeleteByQueryRespBody;
  IndicesOpenRespBody;
  MGetRespItem;
  MSearchRespItem;
  NodesReloadSecureSettingsNodeReloadResult;
  ReindexRespBody;
  GeoLocation;
  GeoBounds;
  CommonQueryDSLDistanceFeatureQuery;
  Script;
  SortCombinations;
  SegmentReplicationStats;
  BulkByScrollTaskStatusOrException;
  BulkByScrollFailure;
  TasksStatus;
  MLExecuteAlgorithmResponse;
  NeuralStats;
  SearchPipelinePhaseResultsProcessor;
  SearchPipelineRequestProcessor;
  SearchPipelineRespProcessor;
  WLMQueryGroupRespResourceLimits;
  GeospatialGeoShapes;
  GeospatialGeometry;
  WLMQueryGroupCreateResourceLimits;
  UpdateByQueryRespBody;
  FlowFrameworkGetStatusRespBody;
  SearchRelevancePutExperimentsBody;
  SearchRelevancePutJudgmentsBody;
  SQLSettingsBody].

Definition CommonAggregationsAggregate_branches1 : list requested_branch := [
  MkRequested "AdjacencyMatrix" "CommonAggregationsAdjacencyMatrixAggregate" ["buckets"];
  MkRequested "AutoDateHistogram" "CommonAggregationsAutoDateHistogramAggregate" ["buckets"; "interval"];
  MkRequested "Avg" "CommonAggregationsSingleMetricAggregateBase" ["value"]].
Definition CommonAggregationsAggregate_branches2 : list requested_branch := [
  MkRequested "BoxPlot" "CommonAggregationsBoxPlotAggregate" ["lower"; "max"; "min"; "q1"; "q2"; "q3"; "upper"];
  MkRequested "BucketMetricValue" "CommonAggregationsBucketMetricValueAggregate" ["value"; "keys"];
  MkRequested "Cardinality" "CommonAggregationsCardinalityAggregate" ["value"]].
Definition CommonAggregationsAggregate_branches3 : list requested_branch := [
  MkRequested "Children" "CommonAggregationsSingleBucketAggregateBase" ["doc_count"];
  MkRequested "Composite" "CommonAggregationsCompositeAggregate" ["buckets"];
  MkRequested "DateHistogram" "CommonAggregationsDateHistogramAggregate" ["buckets"]].
Definition CommonAggregationsAggregate_branches4 : list requested_branch := [
  MkRequested "DateRange" "CommonAggregationsMultiBucketAggregateBaseRangeBucket" ["buckets"];
  MkRequested "Derivative" "CommonAggregationsDerivativeAggregate" ["value"];
  MkRequested "DTerms" "CommonAggregationsDoubleTermsAggregate" ["buckets"]].
Definition CommonAggregationsAggregate_branches5 : list requested_branch := [
  MkRequested "ExtendedStats" "CommonAggregationsExtendedStatsAggregateBase" ["avg"; "count"; "max"; "min"; "sum"; "std_deviation"; "std_deviation_population"; "std_deviation_sampling"; "sum_of_squares"; "variance"; "variance_population"; "variance_sampling"];
  MkRequested "ExtendedStatsBucket" "CommonAggregationsExtendedStatsAggregateBase" ["avg"; "count"; "max"; "min"; "sum"; "std_deviation"; "std_deviation_population"; "std_deviation_sampling"; "sum_of_squares"; "variance"; "variance_population"; "variance_sampling"];
  MkRequested "Filter" "CommonAggregationsSingleBucketAggregateBase" ["doc_count"]].
Definition CommonAggregationsAggregate_branches6 : list requested_branch := [
  MkRequested "Filters" "CommonAggregationsFiltersAggregate" ["buckets"];
  MkRequested "GeoBounds" "CommonAggregationsGeoBoundsAggregate" [];
  MkRequested "GeoCentroid" "CommonAggregationsGeoCentroidAggregate" ["count"]].
Definition CommonAggregationsAggregate_branches7 : list requested_branch := [
  MkRequested "GeoDistance" "CommonAggregationsMultiBucketAggregateBaseRangeBucket" ["buckets"];
  MkRequested "GeohashGrid" "CommonAggregationsGeoHashGridAggregate" ["buckets"];
  MkRequested "GeotileGrid" "CommonAggregationsGeoTileGridAggregate" ["buckets"]].
Definition CommonAggregationsAggregate_branches8 : list requested_branch := [
  MkRequested "Global" "CommonAggregationsSingleBucketAggregateBase" ["doc_count"];
  MkRequested "HDRPercentiles" "CommonAggregationsPercentilesAggregateBase" ["values"];
  MkRequested "HDRPercentileRanks" "CommonAggregationsPercentilesAggregateBase" ["values"]].
Definition CommonAggregationsAggregate_branches9 : list requested_branch := [
  MkRequested "Histogram" "CommonAggregationsHistogramAggregate" ["buckets"];
  MkRequested "IPRange" "CommonAggregationsIPRangeAggregate" ["buckets"];
  MkRequested "LRareTerms" "CommonAggregationsLongRareTermsAggregate" ["buckets"]].
Definition CommonAggregationsAggregate_branches10 : list requested_branch := [
  MkRequested "LTerms" "CommonAggregationsLongTermsAggregate" ["buckets"];
  MkRequested "MatrixStats" "CommonAggregationsMatrixStatsAggregate" ["doc_count"];
  MkRequested "Max" "CommonAggregationsSingleMetricAggregateBase" ["value"]].
Definition CommonAggregationsAggregate_branches11 : list requested_branch := [
  MkRequested "MedianAbsoluteDeviation" "CommonAggregationsSingleMetricAggregateBase" ["value"];
  MkRequested "Min" "CommonAggregationsSingleMetricAggregateBase" ["value"];
  MkRequested "Missing" "CommonAggregationsSingleBucketAggregateBase" ["doc_count"]].
Definition CommonAggregationsAggregate_branches12 : list requested_branch := [
  MkRequested "MultiTerms" "CommonAggregationsMultiTermsAggregate" ["buckets"];
  MkRequested "Nested" "CommonAggregationsSingleBucketAggregateBase" ["doc_count"];
  MkRequested "Parent" "CommonAggregationsSingleBucketAggregateBase" ["doc_count"]].
Definition CommonAggregationsAggregate_branches13 : list requested_branch := [
  MkRequested "PercentilesBucket" "CommonAggregationsPercentilesAggregateBase" ["values"];
  MkRequested "Range" "CommonAggregationsMultiBucketAggregateBaseRangeBucket" ["buckets"];
  MkRequested "Rate" "CommonAggregationsRateAggregate" ["value"]].
Definition CommonAggregationsAggregate_branches14 : list requested_branch := [
  MkRequested "ReverseNested" "CommonAggregationsSingleBucketAggregateBase" ["doc_count"];
  MkRequested "Sampler" "CommonAggregationsSingleBucketAggregateBase" ["doc_count"];
  MkRequested "ScriptedMetric" "CommonAggregationsScriptedMetricAggregate" ["value"]].
Definition CommonAggregationsAggregate_branches15 : list requested_branch := [
  MkRequested "SigLTerms" "CommonAggregationsSignificantLongTermsAggregate" ["buckets"];
  MkRequested "SigSTerms" "CommonAggregationsSignificantStringTermsAggregate" ["buckets"];
  MkRequested "SimpleLongValue" "CommonAggregationsCumulativeCardinalityAggregate" ["value"]].
Definition CommonAggregationsAggregate_branches16 : list requested_branch := [
  MkRequested "SimpleValue" "CommonAggregationsSingleMetricAggregateBase" ["value"];
  MkRequested "Stats" "CommonAggregationsStatsAggregateBase" ["avg"; "count"; "max"; "min"; "sum"];
  MkRequested "StatsBucket" "CommonAggregationsStatsAggregateBase" ["avg"; "count"; "max"; "min"; "sum"]].
Definition CommonAggregationsAggregate_branches17 : list requested_branch := [
  MkRequested "SRareTerms" "CommonAggregationsStringRareTermsAggregate" ["buckets"];
  MkRequested "STerms" "CommonAggregationsStringTermsAggregate" ["buckets"];
  MkRequested "Sum" "CommonAggregationsSingleMetricAggregateBase" ["value"]].
Definition CommonAggregationsAggregate_branches18 : list requested_branch := [
  MkRequested "TDigestPercentiles" "CommonAggregationsPercentilesAggregateBase" ["values"];
  MkRequested "TDigestPercentileRanks" "CommonAggregationsPercentilesAggregateBase" ["values"];
  MkRequested "TTest" "CommonAggregationsTTestAggregate" ["value"]].
Definition CommonAggregationsAggregate_branches19 : list requested_branch := [
  MkRequested "TopHits" "CommonAggregationsTopHitsAggregate" ["hits"];
  MkRequested "ULTerms" "CommonAggregationsUnsignedLongTermsAggregate" ["buckets"];
  MkRequested "UMRareTerms" "CommonAggregationsUnmappedRareTermsAggregate" ["buckets"]].
Definition CommonAggregationsAggregate_branches20 : list requested_branch := [
  MkRequested "UMSigTerms" "CommonAggregationsUnmappedSignificantTermsAggregate" ["buckets"];
  MkRequested "UMTerms" "CommonAggregationsUnmappedTermsAggregate" ["buckets"];
  MkRequested "ValueCount" "CommonAggregationsSingleMetricAggregateBase" ["value"]].
Definition CommonAggregationsAggregate_branches21 : list requested_branch := [
  MkRequested "VariableWidthHistogram" "CommonAggregationsVariableWidthHistogramAggregate" ["buckets"];
  MkRequested "WeightedAvg" "CommonAggregationsSingleMetricAggregateBase" ["value"]].
Definition CommonAggregationsAggregate : requested_union := MkReqUnion "CommonAggregationsAggregate"
  (CommonAggregationsAggregate_branches1 ++ CommonAggregationsAggregate_branches2 ++ CommonAggregationsAggregate_branches3 ++ CommonAggregationsAggregate_branches4 ++ CommonAggregationsAggregate_branches5 ++ CommonAggregationsAggregate_branches6 ++ CommonAggregationsAggregate_branches7 ++ CommonAggregationsAggregate_branches8 ++ CommonAggregationsAggregate_branches9 ++ CommonAggregationsAggregate_branches10 ++ CommonAggregationsAggregate_branches11 ++ CommonAggregationsAggregate_branches12 ++ CommonAggregationsAggregate_branches13 ++ CommonAggregationsAggregate_branches14 ++ CommonAggregationsAggregate_branches15 ++ CommonAggregationsAggregate_branches16 ++ CommonAggregationsAggregate_branches17 ++ CommonAggregationsAggregate_branches18 ++ CommonAggregationsAggregate_branches19 ++ CommonAggregationsAggregate_branches20 ++ CommonAggregationsAggregate_branches21).

Definition SearchSuggest : requested_union := MkReqUnion "SearchSuggest"
  [
    MkRequested "Completion" "SearchSuggestCompletion" ["length"; "offset"; "text"; "options"];
    MkRequested "Phrase" "SearchPhraseSuggest" ["length"; "offset"; "text"; "options"];
    MkRequested "Term" "SearchTermSuggest" ["length"; "offset"; "text"; "options"]].

Definition CommonQueryDSLFuzzyQuery : requested_union := MkReqUnion "CommonQueryDSLFuzzyQuery"
  [MkRequested "FieldValue" "FieldValue" []; MkRequested "Value" "CommonQueryDSLFuzzyQueryValue" ["value"]].

Definition CommonQueryDSLMatchQuery : requested_union := MkReqUnion "CommonQueryDSLMatchQuery"
  [MkRequested "FieldValue" "FieldValue" []; MkRequested "Query" "CommonQueryDSLMatchQueryQuery" ["query"]].

Definition CommonQueryDSLRangeQuery : requested_union := MkReqUnion "CommonQueryDSLRangeQuery"
  [MkRequested "NumberRangeQuery" "CommonQueryDSLNumberRangeQuery" []; MkRequested "DateRangeQuery" "CommonQueryDSLDateRangeQuery" []].

Definition CommonQueryDSLTermQuery : requested_union := MkReqUnion "CommonQueryDSLTermQuery"
  [MkRequested "FieldValue" "FieldValue" []; MkRequested "Value" "CommonQueryDSLTermQueryValue" ["value"]].

Definition SearchResultJSONValueSuggestValueItem : requested_union := MkReqUnion "SearchResultJSONValueSuggestValueItem"
  [
    MkRequested "Completion" "SearchResultJSONValueSuggestValueItemCompletion" [];
    MkRequested "Phrase" "SearchPhraseSuggest" ["length"; "offset"; "text"; "options"];
    MkRequested "Term" "SearchTermSuggest" ["length"; "offset"; "text"; "options"]].

Definition requested_unions : list requested_union := [
  CommonAggregationsAggregate;
  SearchSuggest;
  CommonQueryDSLFuzzyQuery;
  CommonQueryDSLMatchQuery;
  CommonQueryDSLRangeQuery;
  CommonQueryDSLTermQuery;
  SearchResultJSONValueSuggestValueItem].
