(* ===== verification/UnionSpec.v ===== *)
(** * What the unions promise

    A union holds one branch or none, and only the accessor of that branch gives
    a value; UnmarshalJSON stores the one branch the payload selects; what a
    constructor made is read back as the same branch. The descriptions of all the
    unions are checked once for what the proofs need of them. *)

From Stdlib Require Import Ascii String.
From stdpp Require Import base gmap list strings.
From Stdlib Require Import ZArith Lia.
From S2P Require Import Prelude.
From S2P Require Import GoStrings.
From S2P Require Import ShardHash.
From S2P Require Import Json.
From S2P Require Import Errors.
From S2P Require Import Unions.
From S2P Require Import UnionsMarked.
From S2P Require Import UnionsTried.
Open Scope list_scope.
Open Scope bool_scope.
Open Scope Z_scope.

Definition typed_unions : list typed_union := token_unions ++ named_unions ++ tried_unions.

(** * What the descriptions satisfy *)

Definition targets (d : decoding) : list target :=
  match d with
  | ByToken cases => snd <$> cases
  | ByName _ _ cases => snd <$> cases
  | ByProbe probes primary _ => primary :: (snd <$> probes)
  | ByTrial keyed permissive => (snd <$> keyed) ++ permissive
  end.

(** The class of the texts a Go type encodes to, by its name: the named types of
    the unions are structs. *)
Definition class_of (t : gotype) : token :=
  if bool_decide (t = "string"%string) then TString
  else if bool_decide (t = "bool"%string) then TBool
  else if bool_decide (t ∈ ["int"; "int64"; "float32"; "float64"]%string) then TNumber
  else match t with String "["%char _ => TArray | _ => TObject end.

Definition same_branch (t : target) (b : branch) : bool :=
  bool_decide (br_name b = tg_name t) && bool_decide (br_type b = tg_type t).

Definition decoding_fits (d : decoding) : bool :=
  match d with
  | ByToken cases => bool_decide (NoDup (fst <$> cases)) && forallb (fun c => bool_decide (class_of (tg_type c.2) = c.1)) cases
  | ByName _ dv cases =>
    bool_decide (NoDup (fst <$> cases)) && match dv with Some x => bool_decide (x ∈ (fst <$> cases)) | None => true end &&
    negb (bool_decide (EmptyString ∈ (fst <$> cases)))
  | ByProbe probes _ fields =>
    bool_decide (NoDup ((fun p => fold_key (lit p.1)) <$> probes)) &&
    forallb (fun p => forallb (fun f => negb (bool_decide (fold_key (lit p.1) = fold_key (lit f)))) fields) probes
  | ByTrial _ _ => true
  end.

(** A constructor sets the discriminator its case asks for. *)
Definition field_fits (d : decoding) (b : branch) : bool :=
  match d, br_field b with
  | ByName _ _ cases, Some (_, x) => existsb (fun c => bool_decide (c.1 = x) && same_branch c.2 b) cases
  | _, _ => true
  end.

Definition covered (d : decoding) (b : branch) : bool := existsb (fun t => same_branch t b) (targets d).

Definition well_described (d : typed_union) : bool :=
  bool_decide (NoDup (br_name <$> tu_branches d)) && bool_decide (NoDup (br_type <$> tu_branches d)) &&
  forallb (fun t => existsb (same_branch t) (tu_branches d)) (targets (tu_decoding d)) &&
  forallb (covered (tu_decoding d)) (tu_branches d) &&
  decoding_fits (tu_decoding d) && forallb (field_fits (tu_decoding d)) (tu_branches d).

Lemma all_well_described : forallb well_described typed_unions = true.
Proof. vm_compute. reflexivity. Qed.

Record described (d : typed_union) : Prop := {
  names_differ : NoDup (br_name <$> tu_branches d);
  types_differ : NoDup (br_type <$> tu_branches d);
  targets_known : forall t, t ∈ targets (tu_decoding d) -> exists b, b ∈ tu_branches d /\ br_name b = tg_name t /\ br_type b = tg_type t;
  branches_covered : forall b, b ∈ tu_branches d -> MkTarget (br_name b) (br_type b) ∈ targets (tu_decoding d);
  fits : decoding_fits (tu_decoding d) = true;
  fields_fit : forall b, b ∈ tu_branches d -> field_fits (tu_decoding d) b = true }.

Lemma same_branch_spec t b : same_branch t b = true -> br_name b = tg_name t /\ br_type b = tg_type t.
Proof. unfold same_branch. intros [?%bool_decide_eq_true ?%bool_decide_eq_true]%andb_true_iff. done. Qed.

Lemma union_described d : d ∈ typed_unions -> described d.
Proof.
  intros Hd. pose proof all_well_described as H. rewrite forallb_forall in H.
  specialize (H d (proj1 (list_elem_of_In _ _) Hd)). unfold well_described in H. rewrite !andb_true_iff in H.
  destruct H as [[[[[Hn%bool_decide_eq_true Ht%bool_decide_eq_true] Hk] Hc] Hf] Hff].
  rewrite forallb_forall in Hk, Hc, Hff. split; try done.
  - intros t Hin. specialize (Hk t (proj1 (list_elem_of_In _ _) Hin)). apply existsb_exists in Hk as (b & Hb & Hs).
    exists b. split; [by apply list_elem_of_In | by apply same_branch_spec].
  - intros b Hb. specialize (Hc b (proj1 (list_elem_of_In _ _) Hb)). apply existsb_exists in Hc as (t & Hin & [-> ->]%same_branch_spec).
    apply list_elem_of_In in Hin. by destruct t.
  - intros b Hb. apply Hff. by apply list_elem_of_In.
Qed.

Lemma first_in_list {A} (f : A -> bool) l : 
  (exists pre x post, l = pre ++ x :: post /\ Forall (fun y => f y = false) pre /\ f x = true /\ List.find f l = Some x) \/
  Forall (fun y => f y = false) l /\ List.find f l = None.
Proof.
  induction l as [|y l IH]; [by right|]. simpl. destruct (f y) eqn:E.
  - left. exists [], y, l. done.
  - destruct IH as [(pre & x & post & -> & Hp & Hx & Hf) | [Hp Hf]]; [left | right; auto].
    exists (y :: pre), x, post. repeat split; auto.
Qed.

(** In a list without two members that satisfy a predicate, the order does not
    matter. *)
Lemma find_unique {A} (f : A -> bool) l x : x ∈ l -> f x = true -> (forall y, y ∈ l -> f y = true -> y = x) -> List.find f l = Some x.
Proof.
  intros Hx Hf Hu. destruct (first_in_list f l) as [(pre & y & post & -> & _ & Hy & ->) | [Hn _]].
  - f_equal. apply Hu; [|done]. apply elem_of_app. right. left.
  - rewrite Forall_forall in Hn. by rewrite (Hn x Hx) in Hf.
Qed.

(** The first element with a property is one. *)
Lemma first_unique {A} (P : A -> Prop) pre pre' x x' post post' : pre ++ x :: post = pre' ++ x' :: post' ->
  Forall (fun y => ~ P y) pre -> Forall (fun y => ~ P y) pre' -> P x -> P x' -> x = x'.
Proof.
  intros E Hp. revert pre' E. induction Hp as [|y pre Hy _ IH]; intros [|y' pre'] E Hp' Hx Hx'; cbn [app] in E; injection E as E1 E2.
  - done.
  - apply Forall_cons in Hp' as [? _]. by subst y'.
  - by subst y.
  - apply Forall_cons in Hp' as [_ Hp']. eauto.
Qed.

Lemma keyed_unique {K A} (l : list (K * A)) k a b : NoDup (fst <$> l) -> (k, a) ∈ l -> (k, b) ∈ l -> a = b.
Proof.
  induction l as [|[k' c] l IH]; simpl; [by intros _ ?%elem_of_nil|].
  intros [Hk Hd]%NoDup_cons [E|Ha]%elem_of_cons [E'|Hb]%elem_of_cons; simplify_eq; auto; exfalso; apply Hk, list_elem_of_fmap; by eexists (_, _).
Qed.

(** * What a payload says *)

(** The classes of texts by their first byte: a quote, a minus or a digit, the t
    or f of a boolean, a bracket, a brace. *)
Definition opens (c : token) (b : Z) : Prop :=
  match c with
  | TString => b = 34
  | TNumber => b = 45 \/ 48 <= b <= 57
  | TBool => b = 116 \/ b = 102
  | TArray => b = 91
  | TObject => b = 123
  end.
Definition first_byte (c : token) (data : gostring) : Prop := exists b rest, data = b :: rest /\ opens c b.

Lemma starts_with_spec c data : starts_with c data = true <-> first_byte c data.
Proof.
  unfold starts_with, first_byte. destruct data as [|b s]; [split; [done | by intros (? & ? & ? & _)]|]. split.
  - intros H. exists b, s. split; [done|]. destruct c; simpl in *; lia.
  - intros (b' & s' & [= <- <-] & H). destruct c; simpl in *; lia.
Qed.

Lemma first_byte_one c c' data : first_byte c data -> first_byte c' data -> c = c'.
Proof. intros (b & r & -> & H) (b' & r' & [= <- <-] & H'). destruct c, c'; simpl in *; done || lia. Qed.

(** The class of a JSON value. *)
Definition kind (v : json) : option token :=
  match v with
  | JNull => None
  | JBool _ => Some TBool
  | JNum _ => Some TNumber
  | JStr _ => Some TString
  | JArr _ => Some TArray
  | JObj _ => Some TObject
  end.

Lemma eat_first c s r : eat c s = Some r -> s = c :: r.
Proof. unfold eat. destruct s as [|b s]; [done|]. destruct (Z.eqb_spec b c); [|done]. by intros [= <-]; subst. Qed.

Lemma eat_all_first c w s r : eat_all (c :: w) s = Some r -> exists s', s = c :: s'.
Proof. simpl. intros (s' & ->%eat_first & _)%bind_Some. eauto. Qed.

Lemma number_first s n r : number s = Some (n, r) -> first_byte TNumber s.
Proof.
  unfold number. destruct (eat 45 s) as [s'|] eqn:E; [apply eat_first in E as ->; intros _; exists 45, s'; split; [done | by left]|].
  intros ([d s2] & Hi & _)%bind_Some. unfold int_part in Hi. destruct (eat 48 s) as [s'|] eqn:E0.
  - apply eat_first in E0 as ->. exists 48, s'. split; [done|]. simpl. lia.
  - unfold digits_at in Hi. destruct s as [|b s]; [done|]. simpl in Hi. destruct (is_digit b) eqn:Hb; [|done].
    exists b, s. split; [done|]. unfold is_digit in Hb. simpl. lia.
Qed.

Lemma literal_first s v r c : literal_at s = Some (v, r) -> kind v = Some c -> first_byte c s.
Proof.
  unfold literal_at. destruct (eat_all (lit "null") s) as [x|] eqn:E1; [by intros [= <- <-]|].
  destruct (eat_all (lit "true") s) as [x|] eqn:E2.
  { apply eat_all_first in E2 as [s' ->]. intros [= <- <-] [= <-]. eexists _, _. split; [done | by left]. }
  destruct (eat_all (lit "false") s) as [x|] eqn:E3.
  { apply eat_all_first in E3 as [s' ->]. intros [= <- <-] [= <-]. eexists _, _. split; [done | by right]. }
  destruct (eat 34 s) as [x|] eqn:E4; intros ([a b] & H & [= <- <-])%bind_Some [= <-].
  - apply eat_first in E4 as ->. by eexists _, _.
  - by apply number_first in H.
Qed.

Lemma value_first f d s v r c : value f d s = Some (v, r) -> kind v = Some c -> first_byte c s.
Proof.
  destruct f as [|f]; [done|]. cbn [value]. destruct (eat 91 s) as [r0|] eqn:E; [|destruct (eat 123 s) as [r0|] eqn:E'].
  - apply eat_first in E as ->. destruct (d <? _); [|done]. intros H Hk. assert (exists k, v = JArr k) as [k ->].
    { destruct (eat 93 _); [injection H as <- _; eauto|]. apply bind_Some in H as ([k x] & _ & [= <- _]). eauto. }
    injection Hk as <-. by eexists _, _.
  - apply eat_first in E' as ->. destruct (d <? _); [|done]. intros H Hk. assert (exists k, v = JObj k) as [k ->].
    { destruct (eat 125 _); [injection H as <- _; eauto|]. apply bind_Some in H as ([k x] & _ & [= <- _]). eauto. }
    injection Hk as <-. by eexists _, _.
  - apply literal_first.
Qed.

(** A text without leading space begins as its value does. *)
Lemma parse_first data v c : parse data = Some v -> skip_ws data = data -> kind v = Some c -> first_byte c data.
Proof.
  unfold parse. intros ([v' r] & Hv & H)%bind_Some Hs. rewrite Hs in Hv. destruct (skip_ws r); [|done]. injection H as ->. by eapply value_first.
Qed.

(** The members of an object have bytes. *)
Lemma members_bytes f : forall d s ms r, members f d s = Some (ms, r) -> Forall (fun m : gostring * (gostring * json) => m.2.1 <> []) ms.
Proof.
  induction f as [|f IH]; [done|]. intros d s ms r. cbn [members].
  intros ([k r1] & _ & (r2 & _ & ([v r3] & Hv & H)%bind_Some)%bind_Some)%bind_Some. apply (proj1 (scanner_length f)) in Hv.
  assert (read_bytes (skip_ws r2) r3 <> []) as Hne.
  { unfold read_bytes. intros E%(f_equal length). rewrite length_take in E. simpl in E. lia. }
  destruct (eat 125 _); [injection H as <- <-; by repeat constructor|]. destruct (eat 44 _); [|done].
  apply bind_Some in H as ([ms' r'] & Hms%IH & [= <- <-]). by constructor.
Qed.

Lemma parsed_bytes data ms : parse data = Some (JObj ms) -> Forall (fun m : gostring * (gostring * json) => m.2.1 <> []) ms.
Proof.
  unfold parse. intros ([v r] & Hv & H)%bind_Some. destruct (skip_ws r); [|done]. injection H as ->. cbn [value] in Hv.
  destruct (eat 91 _) as [r0|].
  { destruct (0 <? _); [|done]. destruct (eat 93 _); [done|]. by apply bind_Some in Hv as ([? ?] & _ & [=]). }
  destruct (eat 123 _) as [r0|].
  - destruct (0 <? _); [|done]. destruct (eat 125 _); [injection Hv as <- _; constructor|].
    apply bind_Some in Hv as ([ms' x] & Hms%members_bytes & [= -> _]). done.
  - unfold literal_at in Hv. repeat (case_match; [done|]). by repeat case_match; apply bind_Some in Hv as ([? ?] & _ & [=]).
Qed.

(** An object with a member of a name; with a string under it, the last of that
    name; and a text without one, an object or null. *)
Definition carries (data : gostring) (key : string) : Prop := exists ms, parse data = Some (JObj ms) /\ lit key ∈ ms.*1.
Definition last_member (data : gostring) (key : string) (raw : gostring) : Prop := exists pre v post,
  parse data = Some (JObj (pre ++ (lit key, (raw, v)) :: post)) /\ lit key ∉ post.*1.
Definition string_under (data : gostring) (key x : string) : Prop := exists raw, last_member data key raw /\ parse raw = Some (JStr (lit x)).
Definition lacks (data : gostring) (key : string) : Prop :=
  (exists ms, parse data = Some (JObj ms) /\ lit key ∉ ms.*1) \/ parse data = Some JNull.

(** An object with a member that fills a field: its name, letter case aside. *)
Definition fills (data : gostring) (field : string) : Prop := exists ms m,
  parse data = Some (JObj ms) /\ m ∈ ms /\ fold_key m.1 = fold_key (lit field).

(** The map of a text keeps the last member of a name. *)
Definition add_member (m : gmap gostring gostring) (kv : gostring * (gostring * json)) : gmap gostring gostring := <[kv.1 := kv.2.1]> m.

Lemma kept_member ms k raw :
  foldl add_member ∅ ms !! k = Some raw <-> exists pre v post, ms = pre ++ (k, (raw, v)) :: post /\ k ∉ post.*1.
Proof.
  induction ms as [|[k' [raw' v']] ms IH] using rev_ind.
  { cbn [foldl]. rewrite lookup_empty. split; [done | by intros ([] & ? & ? & ? & _)]. }
  rewrite foldl_app. cbn [foldl]. unfold add_member at 1. cbn [fst snd]. destruct (decide (k' = k)) as [->|Hne].
  - rewrite lookup_insert_eq. split.
    + intros [= <-]. exists ms, v', []. split; [done | apply not_elem_of_nil].
    + intros (pre & v & post & E & Hp). destruct post as [|x post _] using rev_ind; [by apply app_inj_tail in E as [_ [= <- _]]|].
      rewrite app_comm_cons, app_assoc in E. apply app_inj_tail in E as [_ <-]. destruct Hp. rewrite fmap_app. apply elem_of_app. right. left.
  - rewrite lookup_insert_ne, IH by done. split.
    + intros (pre & v & post & -> & Hp). exists pre, v, (post ++ [(k', (raw', v'))]). split; [by rewrite <- app_assoc|].
      rewrite fmap_app, elem_of_app; cbn [fmap list_fmap fst]; rewrite list_elem_of_singleton. by intros [|].
    + intros (pre & v & post & E & Hp). destruct post as [|x post _] using rev_ind; [by apply app_inj_tail in E as [_ [= ]]|].
      rewrite app_comm_cons, app_assoc in E. apply app_inj_tail in E as [-> <-]. exists pre, v, post. split; [done|].
      rewrite fmap_app, elem_of_app in Hp. tauto.
Qed.

Lemma no_member ms k : foldl add_member ∅ ms !! k = None <-> k ∉ ms.*1.
Proof.
  induction ms as [|[k' [raw v]] ms IH] using rev_ind; [split; [intros _; apply not_elem_of_nil | intros _; apply lookup_empty]|].
  rewrite foldl_app, fmap_app, elem_of_app. cbn [foldl fmap list_fmap fst]. unfold add_member at 1. cbn [fst snd].
  rewrite list_elem_of_singleton. destruct (decide (k' = k)) as [->|Hne].
  - rewrite lookup_insert_eq. split; [done | tauto].
  - rewrite lookup_insert_ne, IH by done. split; [intros ? [?|?]; congruence | tauto].
Qed.

(** HasJSONKeys: every key is there. *)
Lemma has_keys_spec data keys : has_keys data keys = true <-> Forall (carries data) keys.
Proof.
  unfold has_keys, HasJSONKeys. destruct keys as [|k0 keys]; [split; [constructor | done]|].
  unfold Unmarshal, d_raw_fields. set (ks := k0 :: keys).
  destruct (parse data) as [v|] eqn:E; [|split; [done | intros [(ms & Hms & _) _]%Forall_cons; congruence]].
  destruct v as [| | | | |ms]; try (split; [done | intros [(ms & Hms & _) _]%Forall_cons; congruence]). cbn [fst].
  change (foldl _ ∅ ms) with (foldl add_member ∅ ms).
  assert (forall k, bool_decide (is_Some (foldl add_member ∅ ms !! lit k)) = true <-> carries data k) as Hk.
  { intros k. rewrite bool_decide_eq_true. destruct (foldl add_member ∅ ms !! lit k) as [raw|] eqn:El.
    - split; [intros _ | done]. apply kept_member in El as (pre & v & post & -> & _). eexists. split; [exact E|].
      rewrite fmap_app. apply elem_of_app. right. left.
    - apply no_member in El. split; [by intros [? ?]|]. intros (ms' & Hms' & Hin). rewrite E in Hms'. by injection Hms' as <-. }
  rewrite forallb_forall, Forall_forall. split; intros H k Hin; apply Hk, H; by apply list_elem_of_In.
Qed.

(** JSONDiscriminator: the string that is the last member of the name; a text
    without the name is told apart from all that is no string. *)
Lemma discriminator_spec data key w p :
  discriminator data key = (w, p, None) <->
  p = true /\ (exists raw, last_member data key raw /\ (parse raw = Some (JStr w) \/ parse raw = Some JNull /\ w = [])) \/
  p = false /\ w = [] /\ lacks data key.
Proof.
  unfold discriminator, JSONDiscriminator, Unmarshal, d_raw_fields, last_member, lacks.
  destruct (parse data) as [v|] eqn:E; [|split; [done | naive_solver]].
  destruct v as [| | | | |ms]; try (split; [done | naive_solver]); cbn [fst].
  - split; [intros [= <- <-]; by right; auto | naive_solver].
  - destruct (foldl _ ∅ ms !! lit key) as [raw|] eqn:El.
    + change (foldl add_member ∅ ms !! lit key = Some raw) in El. pose proof El as El'. apply kept_member in El' as (pre & v & post & -> & Hp). assert (forall raw', (exists pre' v' post',
        Some (JObj (pre ++ (lit key, (raw, v)) :: post)) = Some (JObj (pre' ++ (lit key, (raw', v')) :: post')) /\ lit key ∉ post'.*1) -> raw' = raw) as Hu.
      { intros raw' (pre' & v' & post' & [= Heq] & Hp'). assert (foldl add_member ∅ (pre ++ (lit key, (raw, v)) :: post) !! lit key = Some raw') as H.
        { apply kept_member. eauto. } congruence. }
      split.
      * intros H. left. split; [destruct (parse raw) as [[]|]; simpl in H; congruence|]. exists raw. split; [eauto 10|].
        destruct (parse raw) as [[]|]; simpl in H; simplify_eq; auto.
      * intros [(-> & raw' & Hl & Hr) | (_ & _ & [(ms & [= <-] & Hn) | ?])]; [|by apply no_member in Hn; congruence | done].
        apply Hu in Hl as ->. by destruct Hr as [-> | [-> ->]].
    + change (foldl add_member ∅ ms !! lit key = None) in El. split.
      * intros [= <- <-]. right. split_and!; [done..|]. left. exists ms. split; [done|]. by apply no_member.
      * intros [(_ & raw & (pre & v & post & [= ->] & Hp) & _) | (-> & -> & _)]; [|done].
        assert (foldl add_member ∅ (pre ++ (lit key, (raw, v)) :: post) !! lit key = Some raw) as H by (apply kept_member; eauto). congruence.
Qed.

(** A probe is present when some member fills its field. *)
Lemma probe_field probes fields k key : k ∈ probes -> NoDup ((fun p => fold_key (lit p)) <$> probes) ->
  Forall (fun p => Forall (fun f => fold_key (lit p) <> fold_key (lit f)) fields) probes ->
  field_of (map (fun n => (n, n)) (fields ++ probes)) key = Some k <-> fold_key key = fold_key (lit k).
Proof.
  intros Hk Hnd Hf. assert (forall n, n ∈ fields ++ probes -> fold_key (lit n) = fold_key (lit k) -> n = k) as Hone.
  { intros n [Hn|Hn]%elem_of_app E.
    - rewrite Forall_forall in Hf. specialize (Hf k Hk). rewrite Forall_forall in Hf. by destruct (Hf n Hn).
    - apply list_elem_of_lookup in Hn as [i Hi]. apply list_elem_of_lookup in Hk as [j Hj]. assert (i = j) as ->; [|congruence].
      apply (NoDup_lookup _ i j (fold_key (lit n)) Hnd); rewrite list_lookup_fmap, ?Hi, ?Hj; simpl; congruence. }
  assert (k ∈ fields ++ probes) as Hin by (apply elem_of_app; by right).
  assert (forall P l, List.find P (map (fun n : string => (n, n)) l) = (fun n => (n, n)) <$> List.find (fun n => P (n, n)) l) as Hmap.
  { intros P l. induction l as [|n l IH]; [done|]. simpl. by destruct (P (n, n)). }
  unfold field_of. rewrite !Hmap. cbn [fst].
  destruct (List.find (fun n => bool_decide (lit n = key)) (fields ++ probes)) as [n|] eqn:E1; cbn [fmap option_fmap option_map snd].
  { apply find_some in E1 as [Hn%list_elem_of_In <-%bool_decide_eq_true]. split; [by intros [= ->] | by intros ->%(Hone n Hn)]. }
  destruct (List.find (fun n => bool_decide (fold_key (lit n) = fold_key key)) (fields ++ probes)) as [n|] eqn:E2; cbn [fmap option_fmap option_map snd].
  - apply find_some in E2 as [Hn%list_elem_of_In E2%bool_decide_eq_true]. split; [by intros [= ->]|].
    intros E. rewrite E in E2. by rewrite (Hone n Hn E2).
  - split; [done|]. intros E. pose proof (find_none _ _ E2 k (proj1 (list_elem_of_In _ _) Hin)) as H. simpl in H.
    by apply bool_decide_eq_false in H.
Qed.

Lemma kept_bytes (f : gostring -> bool) ms raw :
  Forall (fun m : gostring * (gostring * json) => m.2.1 <> []) ms ->
  foldl (fun (raw : gostring) m => if f m.1 then m.2.1 else raw) raw ms <> [] <-> raw <> [] \/ Exists (fun m => f m.1 = true) ms.
Proof.
  intros Hms. revert raw. induction Hms as [|m ms Hm _ IH]; intros raw; simpl; [rewrite Exists_nil; tauto|].
  rewrite IH, Exists_cons. destruct (f m.1); [tauto|]. intuition congruence.
Qed.

Lemma probed_spec probes fields k data : k ∈ probes -> NoDup ((fun p => fold_key (lit p)) <$> probes) ->
  Forall (fun p => Forall (fun f => fold_key (lit p) <> fold_key (lit f)) fields) probes ->
  probed probes fields k data = true <-> fills data k.
Proof.
  intros Hk Hnd Hf. unfold probed, probe_bytes, fills. rewrite bool_decide_eq_true.
  destruct (parse data) as [v|] eqn:E; [|split; [done | naive_solver]]. destruct v as [| | | | |ms]; try (split; [done | naive_solver]).
  pose (hit := fun n => bool_decide (field_of (map (fun n => (n, n)) (fields ++ probes)) n = Some k)).
  etrans; [apply (kept_bytes hit); by eapply parsed_bytes|]. unfold hit.
  rewrite Exists_exists. split.
  - intros [?|(m & Hm & Hk'%bool_decide_eq_true)]; [done|]. apply probe_field in Hk'; eauto.
  - intros (ms' & m & [= <-] & Hm & Hk'). right. exists m. split; [done|]. by apply bool_decide_eq_true, probe_field.
Qed.

Section Unions.
Context {V : Type} (zero : gotype -> V) (set_field : string -> string -> V -> V).
Context (unmarshal : gotype -> gostring -> V * option error) (marshal : gotype -> V -> error + gostring).
Context (Quote : gostring -> string).
Implicit Types (d : typed_union) (b : branch) (t : target) (u : union V) (data : gostring).

Notation UnmarshalJSON := (UnmarshalJSON unmarshal Quote).
Notation accessor := (accessor zero).
Notation construct := (construct set_field).
Notation constructed := (constructed set_field).
Notation MarshalJSON := (MarshalJSON marshal).
Notation reset := (@reset V).

Definition decodes t data : Prop := exists v, unmarshal (tg_type t) data = (v, None).

Lemma decode_into_hit t data u v : unmarshal (tg_type t) data = (v, None) -> decode_into unmarshal t data u = (store t v u, None).
Proof. unfold decode_into. by intros ->. Qed.

(** * The outcome of a decode *)

(** Either no branch is set and there is an error, or a target is set with what
    its type decoded. *)
Definition decoded (dec : decoding) data u (r : union V * option error) : Prop :=
  (exists e, r = (u, Some e)) \/
  (exists t v, t ∈ targets dec /\ unmarshal (tg_type t) data = (v, None) /\ r = (store t v u, None)).

Lemma decode_into_decoded dec t data u : t ∈ targets dec -> decoded dec data u (decode_into unmarshal t data u).
Proof. intros Ht. unfold decode_into. destruct (unmarshal _ _) as [v [e|]] eqn:E; [left | right]; eauto 6. Qed.

Lemma try_each_app ts ts' data :
  try_each unmarshal (ts ++ ts') data = match try_each unmarshal ts data with Some r => Some r | None => try_each unmarshal ts' data end.
Proof. induction ts as [|t ts IH]; simpl; [done|]. by destruct (attempt_decode unmarshal t data). Qed.

(** The attempts in order, each with the keys it asks for. *)
Definition attempts (keyed : list (list string * target)) (permissive : list target) : list (list string * target) :=
  keyed ++ (pair [] <$> permissive).

(** An attempt that stores its branch: its keys are there and its type decodes. *)
Definition succeeds data (a : list string * target) : Prop := Forall (carries data) a.1 /\ decodes a.2 data.

Lemma attempts_targets keyed permissive a : a ∈ attempts keyed permissive -> a.2 ∈ (snd <$> keyed) ++ permissive.
Proof.
  unfold attempts. rewrite !elem_of_app. intros [Ha|(t & -> & Ht)%list_elem_of_fmap]; [left; by apply list_elem_of_fmap_2 | by right].
Qed.

Lemma by_trial_attempts name keyed permissive data u :
  by_trial unmarshal name keyed permissive data u =
  match try_each unmarshal (snd <$> filter (fun k => has_keys data k.1 = true) (attempts keyed permissive)) data with
  | Some (t, v) => (store t v u, None)
  | None => (u, Some (Leaf (AText (pieces [name; ": no branch matched JSON: "; bytes (take 64 data)]%string))))
  end.
Proof.
  assert (snd <$> filter (fun k : list string * target => has_keys data k.1 = true) (pair [] <$> permissive) = permissive) as E.
  { induction permissive as [|t l IH]; [done|]. rewrite fmap_cons, filter_cons, decide_True by done. rewrite fmap_cons, IH. done. }
  unfold by_trial, attempts. rewrite filter_app, fmap_app, try_each_app, E. by destruct (try_each _ (snd <$> _) data) as [[t v]|].
Qed.

(** The first attempt that succeeds is the one whose branch is stored. *)
Lemma try_attempts l data :
  match try_each unmarshal (snd <$> filter (fun k => has_keys data k.1 = true) l) data with
  | Some (t, v) => exists pre ks post, l = pre ++ (ks, t) :: post /\ Forall (fun a => ~ succeeds data a) pre /\
      Forall (carries data) ks /\ unmarshal (tg_type t) data = (v, None)
  | None => Forall (fun a => ~ succeeds data a) l
  end.
Proof.
  induction l as [|[ks t] l IH]; [by constructor|]. rewrite filter_cons. cbn [fst].
  destruct (try_each _ (snd <$> filter _ l) data) as [[t' v]|] eqn:El.
  - destruct IH as (pre & ks' & post & -> & Hp & Hk & Hv).
    assert (~ succeeds data (ks, t) -> exists pre0 ks0 post0, (ks, t) :: pre ++ (ks', t') :: post = pre0 ++ (ks0, t') :: post0 /\
      Forall (fun a => ~ succeeds data a) pre0 /\ Forall (carries data) ks0 /\ unmarshal (tg_type t') data = (v, None)) as Hskip.
    { intros Hn. exists ((ks, t) :: pre), ks', post. split; [done|]. split; [by constructor | done]. }
    case_decide as Hh; cbn [fmap list_fmap snd try_each].
    + unfold attempt_decode. destruct (unmarshal (tg_type t) data) as [w [e|]] eqn:E.
      * rewrite El. apply Hskip. intros [_ [x Hx]]. simpl in Hx. congruence.
      * exists [], ks, (pre ++ (ks', t') :: post). rewrite has_keys_spec in Hh. by split_and!.
    + rewrite El. apply Hskip. intros [Hk' _]. by apply Hh, has_keys_spec.
  - case_decide as Hh; cbn [fmap list_fmap snd try_each].
    + unfold attempt_decode. destruct (unmarshal (tg_type t) data) as [w [e|]] eqn:E.
      * rewrite El. constructor; [|done]. intros [_ [x Hx]]. simpl in Hx. congruence.
      * exists [], ks, l. rewrite has_keys_spec in Hh. by split_and!.
    + rewrite El. constructor; [|done]. intros [Hk' _]. by apply Hh, has_keys_spec.
Qed.

Lemma UnmarshalJSON_decoded d data u : data <> [] -> data <> NullJSON -> decoded (tu_decoding d) data (reset data u) (UnmarshalJSON d data u).
Proof.
  intros Hd Hn. unfold Unions.UnmarshalJSON. rewrite !bool_decide_eq_false_2 by done. simpl.
  destruct (tu_decoding d) as [cases|key dv cases|probes primary fields|keyed permissive].
  - unfold by_token. destruct (List.find _ cases) as [c|] eqn:E; [|left; eauto].
    apply find_some in E as [Hc _]. apply decode_into_decoded. apply list_elem_of_fmap_2. by apply list_elem_of_In.
  - unfold by_name. destruct (discriminator data key) as [[v p] [e|]]; [left; eauto|].
    destruct (if p then _ else _) as [w|]; [|left; eauto].
    destruct (List.find _ cases) as [c|] eqn:E; [|left; eauto].
    apply find_some in E as [Hc _]. apply decode_into_decoded. apply list_elem_of_fmap_2. by apply list_elem_of_In.
  - unfold by_probe. destruct (unmarshal (tg_type primary) data) as [m [e|]] eqn:Em; [left; eauto|].
    destruct (List.find _ probes) as [p|] eqn:E.
    + apply find_some in E as [Hc _]. apply decode_into_decoded. simpl. right. apply list_elem_of_fmap_2. by apply list_elem_of_In.
    + right. exists primary, m. repeat split; [left | done].
  - rewrite by_trial_attempts. pose proof (try_attempts (attempts keyed permissive) data) as H.
    destruct (try_each _ _ data) as [[t v]|]; [right | left; eauto]. destruct H as (pre & ks & post & Ht & _ & _ & Hv).
    exists t, v. split_and!; [|done|done]. apply (attempts_targets keyed permissive (ks, t)). rewrite Ht. apply elem_of_app. right. left.
Qed.

(** * One branch or none *)

Definition empty_union d u : Prop :=
  u_typ u = None /\ u_value u = None /\
  forall b, b ∈ tu_branches d -> accessor d b u = (zero (br_type b), Some (Leaf (AUnionBranchError (tu_name d) (br_name b) "unknown"))).
Definition holds_branch d u b v : Prop :=
  b ∈ tu_branches d /\ u_typ u = Some (br_name b) /\ u_value u = Some (br_type b, v) /\ accessor d b u = (v, None) /\
  forall b', b' ∈ tu_branches d -> b' <> b ->
    accessor d b' u = (zero (br_type b'), Some (Leaf (AUnionBranchError (tu_name d) (br_name b') (br_name b)))).

(** The unions a program can make: the zero value, and what the constructors and
    the methods that change it leave. *)
Inductive reaches d : union V -> Prop :=
| reach_zero : reaches d zero_union
| reach_construct b v : b ∈ tu_branches d -> reaches d (construct b v)
| reach_raw u raw : reaches d u -> reaches d (SetRaw raw u)
| reach_unmarshal u data : reaches d u -> reaches d (UnmarshalJSON d data u).1.

Lemma none_empty d raw : empty_union d (MkUnion None raw None).
Proof. repeat split; auto. Qed.

Lemma some_holds d b v raw : described d -> b ∈ tu_branches d -> holds_branch d (MkUnion (Some (br_name b)) raw (Some (br_type b, v))) b v.
Proof.
  intros Hd Hb. unfold holds_branch, Unions.accessor; simpl. repeat split; auto; [by rewrite decide_True|].
  intros b' Hb' Hne. rewrite decide_False; [done|]. intros Heq. apply Hne.
  pose proof (types_differ d Hd) as Hnd. apply list_elem_of_lookup in Hb as [i Hi]. apply list_elem_of_lookup in Hb' as [j Hj].
  assert (i = j) as ->; [|by simplify_eq].
  apply (NoDup_lookup _ i j (br_type b) Hnd); rewrite list_lookup_fmap, ?Hi, ?Hj; simpl; by rewrite ?Heq.
Qed.

Lemma store_holds d t v raw : described d -> t ∈ targets (tu_decoding d) -> exists b, holds_branch d (MkUnion (Some (tg_name t)) raw (Some (tg_type t, v))) b v.
Proof. intros Hd Ht. destruct (targets_known d Hd t Ht) as (b & Hb & <- & <-). exists b. by apply some_holds. Qed.

(** C38: a union of any of the 139 generated types that tell their branch, however
    it was made, holds one of its branches or none: then the accessor of the
    branch held returns its value and every other accessor an error that names the
    branch asked for and the one held ("unknown" when there is none), with the
    zero of its type. So Type, the value and the accessors never disagree, also
    after a failed or repeated decode. The seven types whose branch the request
    selects keep no record of it and are not among these. *)
Theorem unions_hold_one_branch d u : d ∈ typed_unions -> reaches d u ->
  empty_union d u \/ exists b v, holds_branch d u b v.
Proof.
  intros Hd%union_described H. induction H as [|b v Hb|u raw _ _|u data _ _].
  - left. apply none_empty.
  - right. exists b, (constructed b v). by apply some_holds.
  - left. apply none_empty.
  - destruct (decide (data = [] \/ data = NullJSON)) as [He|[Hne Hnn]%Decidable.not_or].
    + left. unfold Unions.UnmarshalJSON. destruct He as [-> | ->]; apply none_empty.
    + destruct (UnmarshalJSON_decoded d data u Hne Hnn) as [[e ->] | (t & v & Ht & _ & ->)]; simpl; [left; apply none_empty | right].
      destruct (store_holds d t v data Hd Ht) as [b Hb]. by exists b, v.
Qed.

(** * The branch a payload selects *)

(** The string under the discriminator, or its default when there is none. *)
Definition announced data (key : string) (default_value : option string) (x : string) : Prop :=
  string_under data key x \/ lacks data key /\ default_value = Some x.

Inductive selects d data : target -> Prop :=
| selects_token cases c t : tu_decoding d = ByToken cases ->
    (c, t) ∈ cases -> first_byte c data -> selects d data t
| selects_name key dv cases x t : tu_decoding d = ByName key dv cases ->
    (x, t) ∈ cases -> announced data key dv x -> selects d data t
| selects_probe probes primary fields k t pre post : tu_decoding d = ByProbe probes primary fields ->
    decodes primary data -> probes = pre ++ (k, t) :: post ->
    Forall (fun p => ~ fills data p.1) pre -> fills data k -> selects d data t
| selects_primary probes primary fields : tu_decoding d = ByProbe probes primary fields ->
    decodes primary data -> Forall (fun p => ~ fills data p.1) probes -> selects d data primary
| selects_tried keyed permissive pre ks t post : tu_decoding d = ByTrial keyed permissive ->
    attempts keyed permissive = pre ++ (ks, t) :: post -> Forall (fun a => ~ succeeds data a) pre -> succeeds data (ks, t) ->
    selects d data t.

Lemma starts_token cases c t data : NoDup (fst <$> cases) -> (c, t) ∈ cases -> first_byte c data ->
  List.find (fun c => starts_with c.1 data) cases = Some (c, t).
Proof.
  intros Hnd Hin Hs. apply find_unique; [done | by apply starts_with_spec|]. intros [c' t'] Hin' Hs'%starts_with_spec. simpl in Hs'.
  pose proof (first_byte_one _ _ _ Hs Hs') as <-. f_equal. by eapply keyed_unique.
Qed.

Lemma case_named (cases : list (string * target)) x t : NoDup (fst <$> cases) -> (x, t) ∈ cases ->
  List.find (fun c => bool_decide (lit c.1 = lit x)) cases = Some (x, t).
Proof.
  intros Hnd Hin. apply find_unique; [done | by apply bool_decide_eq_true|]. intros [x' t'] Hin' Hx%bool_decide_eq_true.
  simpl in Hx. apply lit_inj in Hx as ->. f_equal. by eapply keyed_unique.
Qed.

Lemma by_name_announced name key dv cases x data u : announced data key dv x ->
  by_name unmarshal Quote name key dv cases data u =
  match List.find (fun c => bool_decide (lit c.1 = lit x)) cases with
  | Some c => decode_into unmarshal c.2 data u
  | None => (u, Some (Leaf (AText (pieces [name; ": unknown "; key; " discriminator "; Quote (lit x)]%string))))
  end.
Proof.
  unfold by_name. intros [(raw & Hl & Hr) | [Hl ->]].
  - by rewrite (proj2 (discriminator_spec data key (lit x) true)) by (left; eauto).
  - by rewrite (proj2 (discriminator_spec data key [] false)) by (right; auto).
Qed.

(** The probes of a description, and what it takes for one to be present. *)
Lemma probes_fit probes primary fields : decoding_fits (ByProbe probes primary fields) = true ->
  forall data p, p ∈ probes -> probed (map fst probes) fields p.1 data = true <-> fills data p.1.
Proof.
  simpl. intros [Hnd%bool_decide_eq_true Hf]%andb_true_iff data p Hp. apply probed_spec.
  - change (map fst probes) with (fst <$> probes). by apply list_elem_of_fmap_2.
  - change (map fst probes) with (fst <$> probes). by rewrite <- list_fmap_compose.
  - apply Forall_forall. intros n (q & -> & Hq)%list_elem_of_fmap. rewrite forallb_forall in Hf. specialize (Hf q (proj1 (list_elem_of_In _ _) Hq)).
    rewrite forallb_forall in Hf. apply Forall_forall. intros f Hin%list_elem_of_In. specialize (Hf f Hin).
    by apply negb_true_iff, bool_decide_eq_false in Hf.
Qed.

Lemma absent_probes probes primary fields l data : decoding_fits (ByProbe probes primary fields) = true -> l ⊆ probes ->
  Forall (fun p => probed (map fst probes) fields p.1 data = false) l <-> Forall (fun p => ~ fills data p.1) l.
Proof.
  intros Hf Hl. rewrite !Forall_forall. split; intros H p Hp; specialize (H p Hp).
  - rewrite <- (probes_fit probes primary fields Hf data p (Hl p Hp)), H. done.
  - apply not_true_is_false. by rewrite (probes_fit probes primary fields Hf data p (Hl p Hp)).
Qed.

Lemma probe_found {A} (f : A -> bool) l pre x post : l = pre ++ x :: post -> Forall (fun y => f y = false) pre -> f x = true -> List.find f l = Some x.
Proof. intros ->. induction 1 as [|y pre Hy _ IH]; simpl; [by intros -> | intros Hx; rewrite Hy; auto]. Qed.

Lemma probe_missed {A} (f : A -> bool) l : Forall (fun y => f y = false) l -> List.find f l = None.
Proof. induction 1 as [|y l Hy _ IH]; simpl; [done | by rewrite Hy]. Qed.

Lemma selected_stored d data u t v : described d -> data <> [] -> data <> NullJSON ->
  selects d data t -> unmarshal (tg_type t) data = (v, None) -> UnmarshalJSON d data u = (store t v (reset data u), None).
Proof.
  intros Hd Hne Hnn Hs Hv. unfold Unions.UnmarshalJSON. rewrite !bool_decide_eq_false_2 by done. simpl.
  pose proof (fits d Hd) as Hf.
  destruct Hs as [cases c t E Hin Hst | key dv cases x t E Hin Ha | probes primary fields k t pre post E [m Hm] Hp Hpre Hk
                 | probes primary fields E [m Hm] Hp | keyed permissive pre ks t post E Ht Hpre [Hk _]]; rewrite E in *.
  - apply andb_true_iff in Hf as [Hnd%bool_decide_eq_true _]. unfold by_token. rewrite (starts_token cases c t data) by done.
    by apply decode_into_hit.
  - apply andb_true_iff in Hf as [[Hnd%bool_decide_eq_true _]%andb_true_iff _]. rewrite (by_name_announced _ _ _ _ x) by done.
    rewrite (case_named cases x t) by done. by apply decode_into_hit.
  - unfold by_probe. rewrite Hm. assert ((k, t) ∈ probes) as Hin by (rewrite Hp; apply elem_of_app; right; left).
    rewrite (probe_found _ probes pre (k, t) post); [by apply decode_into_hit | done | |].
    + apply (absent_probes probes primary fields pre data Hf); [|done]. intros q Hq. rewrite Hp. apply elem_of_app. by left.
    + by apply (probes_fit probes primary fields Hf data (k, t)).
  - unfold by_probe. rewrite Hm, probe_missed; [congruence|]. by apply (absent_probes probes primary fields probes data Hf).
  - rewrite by_trial_attempts. pose proof (try_attempts (attempts keyed permissive) data) as H. rewrite Ht in H.
    assert (succeeds data (ks, t)) as Hs by (split; [done | by exists v]). rewrite Ht.
    destruct (try_each _ _ data) as [[t' v']|].
    + destruct H as (pre' & ks' & post' & E' & Hpre' & Hk' & Hv'). assert (succeeds data (ks', t')) as Hs' by (split; [done | by exists v']).
      pose proof (first_unique (succeeds data) pre pre' (ks, t) (ks', t') post post' E' Hpre Hpre' Hs Hs') as [= -> ->]. congruence.
    + apply Forall_app in H as [_ [H _]%Forall_cons]. done.
Qed.

(** What is stored was selected. *)
Lemma stored_selected d data u r : described d -> data <> [] -> data <> NullJSON -> UnmarshalJSON d data u = (r, None) ->
  exists t v, selects d data t /\ unmarshal (tg_type t) data = (v, None) /\ r = store t v (reset data u).
Proof.
  intros Hd Hne Hnn. pose proof (fits d Hd) as Hf. unfold Unions.UnmarshalJSON. rewrite !bool_decide_eq_false_2 by done. simpl.
  assert (forall t, decode_into unmarshal t data (reset data u) = (r, None) -> exists v, unmarshal (tg_type t) data = (v, None) /\ r = store t v (reset data u)) as Hdi.
  { intros t. unfold decode_into. destruct (unmarshal _ _) as [v [e|]]; intros [= <-]. eauto. }
  destruct (tu_decoding d) as [cases|key dv cases|probes primary fields|keyed permissive] eqn:E.
  - unfold by_token. destruct (List.find _ cases) as [[c t]|] eqn:Ef; [|done]. apply find_some in Ef as [Hin%list_elem_of_In Hs%starts_with_spec].
    intros (v & Hv & ->)%Hdi. exists t, v. split; [by eapply selects_token | done].
  - unfold by_name. destruct (discriminator data key) as [[w p] [e|]] eqn:Ed; [done|].
    destruct (if p then _ else _) as [y|] eqn:Ey; [|done]. destruct (List.find _ cases) as [[x t]|] eqn:Ef; [|done].
    apply find_some in Ef as [Hin%list_elem_of_In Hx%bool_decide_eq_true]. simpl in Hx. subst y. intros (v & Hv & ->)%Hdi. exists t, v.
    split; [eapply selects_name; [done | exact Hin |] | done].
    apply discriminator_spec in Ed as [(-> & raw & Hl & Hr) | (-> & -> & Hl)]; simplify_eq.
    + destruct Hr as [Hr | [_ Hr]]; [left; by exists raw|]. exfalso. simpl in Hf. apply andb_true_iff in Hf as [_ Hn0].
      apply negb_true_iff, bool_decide_eq_false in Hn0. destruct Hn0. assert (x = EmptyString) as <- by (by apply lit_inj).
      apply list_elem_of_fmap. by exists (x, t).
    + right. split; [done|]. destruct dv as [z|]; simplify_eq/=. f_equal. by apply lit_inj.
  - unfold by_probe. destruct (unmarshal (tg_type primary) data) as [m [e|]] eqn:Em; [done|].
    destruct (first_in_list (fun p => probed (map fst probes) fields p.1 data) probes) as [(pre & [k t] & post & Hp & Hpre & Hk & ->) | [Hp ->]].
    + intros (v & Hv & ->)%Hdi. exists t, v. split; [|done]. assert ((k, t) ∈ probes) as Hin by (rewrite Hp; apply elem_of_app; right; left).
      eapply selects_probe; [done | by exists m | exact Hp | |].
      * apply (absent_probes probes primary fields pre data Hf); [|done]. intros q Hq. rewrite Hp. apply elem_of_app. by left.
      * by apply (probes_fit probes primary fields Hf data (k, t)).
    + intros [= <-]. exists primary, m. split; [|done]. eapply selects_primary; [done | by exists m|].
      by apply (absent_probes probes primary fields probes data Hf).
  - rewrite by_trial_attempts. pose proof (try_attempts (attempts keyed permissive) data) as H. destruct (try_each _ _ data) as [[t v]|]; [|done].
    destruct H as (pre & ks & post & Ht & Hpre & Hk & Hv). intros [= <-]. exists t, v. split; [|done].
    eapply selects_tried; [done | exact Ht | done | by split; [|exists v]].
Qed.

(** C39: UnmarshalJSON of each of the 139 union types that tell their branch stores
    exactly the branch the payload selects, with what the type of the branch
    decodes: the branch whose class of texts the first byte opens; the branch of
    the string that is the last member of the discriminator's name, or of its
    default when an object has no such member; the first branch whose probe some
    member fills or else the primary, when the primary decodes; or the first,
    of those tried, whose keys are all members and whose type decodes. When no
    branch is selected, or the selected one does not decode, the union keeps the
    bytes, holds no branch and there is an error; an empty text and null leave it
    empty without one. *)
Theorem unions_decode_selected d data u : d ∈ typed_unions ->
  (data = [] \/ data = NullJSON -> UnmarshalJSON d data u = (MkUnion None data None, None)) /\
  (data <> [] -> data <> NullJSON ->
   (forall r, UnmarshalJSON d data u = (r, None) <->
      exists t v, selects d data t /\ unmarshal (tg_type t) data = (v, None) /\ r = MkUnion (Some (tg_name t)) data (Some (tg_type t, v))) /\
   (forall r e, UnmarshalJSON d data u = (r, Some e) -> r = MkUnion None data None)).
Proof.
  intros Hd%union_described. split.
  - intros He. unfold Unions.UnmarshalJSON. by destruct He as [-> | ->].
  - intros Hne Hnn. split.
    + intros r. split; [by apply (stored_selected d data u r Hd)|]. intros (t & v & Hs & Hv & ->). by apply selected_stored.
    + intros r e He. destruct (UnmarshalJSON_decoded d data u Hne Hnn) as [[e' Hr] | (t & v & _ & _ & Hr)]; rewrite Hr in He; by simplify_eq.
Qed.

(** * Constructors and the wire *)

(** What the text of a branch says of it: its class, or the discriminator the
    constructor set. *)
Definition announces d b data : Prop :=
  match tu_decoding d, br_field b with
  | ByToken _, _ => first_byte (class_of (br_type b)) data
  | ByName key _ _, Some (_, x) => string_under data key x
  | _, _ => False
  end.

Lemma announces_selects d b data : described d -> b ∈ tu_branches d -> announces d b data -> selects d data (MkTarget (br_name b) (br_type b)).
Proof.
  intros Hd Hb. pose proof (fits d Hd) as Hf. pose proof (branches_covered d Hd b Hb) as Hc. pose proof (fields_fit d Hd b Hb) as Hff.
  unfold announces, field_fits, covered in *. destruct (tu_decoding d) as [cases|key dv cases|probes primary fields|keyed permissive] eqn:E; [..|done|done].
  - intros Hs. simpl in Hf, Hc. apply andb_true_iff in Hf as [_ Hf]. rewrite forallb_forall in Hf.
    apply list_elem_of_fmap in Hc as ([c t] & Ht & Hin). simpl in Ht. subst t.
    specialize (Hf _ (proj1 (list_elem_of_In _ _) Hin)). apply bool_decide_eq_true in Hf. simpl in Hf. subst c. by eapply selects_token.
  - destruct (br_field b) as [[f x]|]; [|done]. intros Hs.
    apply existsb_exists in Hff as ([x' t] & Hin%list_elem_of_In & [Hx%bool_decide_eq_true [Hn Ht]%same_branch_spec]%andb_true_iff).
    simpl in *. subst x'. destruct t as [n ty]. simpl in *. subst. eapply selects_name; [done | exact Hin | by left].
Qed.

Lemma announces_text d b data : announces d b data -> data <> [] /\ data <> NullJSON.
Proof.
  unfold announces. destruct (tu_decoding d); [| |done|done].
  - intros (c & rest & Hs & Ho). split; intros ->; [done|]. vm_compute in Hs. injection Hs as <- _. destruct (class_of (br_type b)); simpl in Ho; lia.
  - destruct (br_field b) as [[f x]|]; [|done]. intros (raw & (pre & v & post & Hp & _) & _). split; intros ->; by vm_compute in Hp.
Qed.

(** What encoding/json does with the type of a branch: the text of the value has
    no space in front and is a JSON value of the class of its type (nil slices and
    maps are not); a field that was set to a string is written under its name. *)
Definition writes d b data : Prop :=
  match tu_decoding d, br_field b with
  | ByToken _, _ => exists v, parse data = Some v /\ skip_ws data = data /\ kind v = Some (class_of (br_type b))
  | ByName key _ _, Some (f, x) => forall w, marshal (br_type b) (set_field f x w) = inr data -> string_under data key x
  | _, _ => False
  end.

Lemma constructed_announces d b v data : writes d b data -> marshal (br_type b) (constructed b v) = inr data -> announces d b data.
Proof.
  unfold writes, announces, Unions.constructed. destruct (tu_decoding d), (br_field b) as [[f x]|]; try done.
  1, 2: intros (w & Hp & Hs & Hk) _; by apply (parse_first data w).
  intros H. apply H.
Qed.

(** C40: a union made by a constructor of a type read by its first byte, or by a
    discriminator the constructor sets, is written and read back as the same
    branch with the same value, whatever the union that reads it held; the
    branches and cases of each of the 110 types were checked to agree. Of
    encoding/json it needs that the type of the branch reads back what it wrote,
    that the text is a JSON value of the kind the type has (a string, a number, a
    boolean, an array, an object) without space in front, and that a field that
    was set is written under its name. *)
Theorem unions_round_trip d b v data u : d ∈ typed_unions -> b ∈ tu_branches d ->
  marshal (br_type b) (constructed b v) = inr data ->
  unmarshal (br_type b) data = (constructed b v, None) ->
  writes d b data ->
  MarshalJSON (construct b v) = inr data /\
  UnmarshalJSON d data u = (MkUnion (Some (br_name b)) data (Some (br_type b, constructed b v)), None) /\
  accessor d b (UnmarshalJSON d data u).1 = (constructed b v, None).
Proof.
  intros Hd%union_described Hb Hm Hu Hw. split; [done|].
  pose proof (constructed_announces d b v data Hw Hm) as Ha. destruct (announces_text d b data Ha) as [Hne Hnn].
  rewrite (selected_stored d data u (MkTarget (br_name b) (br_type b)) (constructed b v)) by eauto using announces_selects.
  split; [done|]. unfold Unions.accessor. simpl. by rewrite decide_True.
Qed.
End Unions.

(** * Unions the request selects *)

Section Requested.
Context {V : Type} (zero : gotype -> V) (set_field : string -> string -> V -> V).
Context (unmarshal : gotype -> gostring -> V * option error) (marshal : gotype -> V -> error + gostring) (Quote : gostring -> string).

(** The branch asked for is what the bytes decode to, when they have its keys;
    every failure is a UnionBranchError of the branch asked for. *)
Lemma requested_answer (d : requested_union) (b : requested_branch) data : data <> [] ->
  (forall v, AsBranch zero unmarshal Quote d b (MkHeld data None) = (v, None) <->
     has_keys data (rb_keys b) = true /\ unmarshal (rb_type b) data = (v, None)) /\
  (forall v e, AsBranch zero unmarshal Quote d b (MkHeld data None) = (v, Some e) ->
     exists e', e = Wrap (UnionBranchError (ru_name d) (rb_name b)) e').
Proof.
  intros Hd. unfold AsBranch. simpl. destruct data as [|c s]; [done|]. destruct (has_keys (c :: s) (rb_keys b)).
  - destruct (unmarshal (rb_type b) (c :: s)) as [w [e|]]; split; intros; split_and?; simplify_eq; naive_solver.
  - split; [intros v; split; [done | by intros [? _]] | naive_solver].
Qed.

(** What a constructor made is asked for by its own branch. *)
Lemma requested_constructed (d : requested_union) (b : requested_branch) v :
  AsBranch zero unmarshal Quote d b (construct_held b v) = (v, None) /\ MarshalJSON_held marshal (construct_held b v) = marshal (rb_type b) v.
Proof. unfold AsBranch. simpl. by rewrite decide_True. Qed.

(** A constructed union asked for a branch of another type gives the zero value
    and no error, and IsZero does not tell. *)
Lemma other_branch_silent (d : requested_union) (b b' : requested_branch) v : rb_type b <> rb_type b' ->
  AsBranch zero unmarshal Quote d b' (construct_held b v) = (zero (rb_type b'), None) /\ IsZero (construct_held b v) = false.
Proof. intros Hne. unfold AsBranch. simpl. by rewrite decide_False. Qed.

(** * Constructors that leave the discriminator out *)

Definition unset_branches (d : typed_union) : list string :=
  match tu_decoding d with
  | ByName _ _ _ => br_name <$> filter (fun b => br_field b = None) (tu_branches d)
  | _ => []
  end.

(** Of the branches that are read by their discriminator, the constructors of
    these five do not set it. *)
Lemma unset_discriminators : filter (fun p => p.2 <> []) (map (fun d => (tu_name d, unset_branches d)) typed_unions) =
  [("CommonMappingProperty", ["BinaryProperty"; "MatchOnlyTextProperty"; "ObjectProperty"]);
   ("CommonAnalysisAnalyzer", ["SmartcnAnalyzer"; "CJKAnalyzer"])]%string.
Proof. vm_compute. reflexivity. Qed.

(** The field of a BinaryProperty or MatchOnlyTextProperty the constructor left
    empty is written as such, and the text is refused when it is read back. *)
Lemma empty_discriminator_refused data u : string_under data "type" EmptyString ->
  (UnmarshalJSON unmarshal Quote CommonMappingProperty data u).2 =
  Some (Leaf (AText (pieces ["CommonMappingProperty"; ": unknown "; "type"; " discriminator "; Quote []]%string))).
Proof.
  intros Hs. assert (data <> [] /\ data <> NullJSON) as [Hne Hnn].
  { destruct Hs as (raw & (pre & v & post & Hp & _) & _). split; intros ->; by vm_compute in Hp. }
  unfold UnmarshalJSON. rewrite !bool_decide_eq_false_2 by done. simpl. rewrite (by_name_announced _ _ _ _ _ _ EmptyString) by by left.
  reflexivity.
Qed.

(** Without a discriminator the default branch, or an error, is what is read:
    a SmartcnAnalyzer or a CJKAnalyzer whose Type is nil is not read back. *)
Lemma missing_discriminator_refused data u v : data <> [] -> data <> NullJSON -> discriminator data "type" = (v, false, None) ->
  (UnmarshalJSON unmarshal Quote CommonAnalysisAnalyzer data u).2 =
  Some (Leaf (AText (pieces ["CommonAnalysisAnalyzer"; ": payload has no "; "type"; " discriminator: "; bytes (take 64 data)]%string))).
Proof.
  intros Hne Hnn Hd. unfold UnmarshalJSON. rewrite !bool_decide_eq_false_2 by done. simpl. unfold by_name. by rewrite Hd.
Qed.

(** A branch that is tried hides those after it that decode no more than it
    does, once its keys are there. *)
Lemma trial_shadowed (d : typed_union) keyed permissive data pre ks t mid ks' t' post : tu_decoding d = ByTrial keyed permissive ->
  attempts keyed permissive = pre ++ (ks, t) :: mid ++ (ks', t') :: post -> NoDup (snd <$> attempts keyed permissive) ->
  Forall (carries data) ks -> (decodes unmarshal t' data -> decodes unmarshal t data) -> ~ selects unmarshal d data t'.
Proof.
  intros E Ht Hnd Hk Himp Hs. inversion Hs as [| | | |keyed' permissive' pre' ks0 t0 post' E' Ht' Hpre [_ Hdec]]; simplify_eq; try congruence.
  rewrite E in E'. simplify_eq. rewrite Ht in Ht'. simpl in Hdec.
  assert ((ks, t) ∈ pre') as Hin.
  { rewrite Ht in Hnd. clear -Hnd Ht'. revert pre' Ht'. induction pre as [|x pre IH]; intros [|y pre'] Ht'; simplify_eq/=.
    - apply NoDup_cons in Hnd as [Hn _]. destruct Hn. rewrite fmap_app. apply elem_of_app. right. left.
    - left.
    - apply NoDup_cons in Hnd as [Hn _]. destruct Hn. rewrite fmap_app, fmap_cons, fmap_app, fmap_cons. simpl.
      rewrite elem_of_app, elem_of_cons, elem_of_app, elem_of_cons. auto.
    - right. apply NoDup_cons in Hnd as [_ Hnd]. by apply IH. }
  rewrite Forall_forall in Hpre. apply (Hpre _ Hin). split; [done | by apply Himp].
Qed.
End Requested.

(** * Examples *)

(** Values are texts; a text decodes when it is of the class of the type. *)
Definition ex_zero (t : gotype) : gostring := [].
Definition ex_unmarshal (t : gotype) (data : gostring) : gostring * option error :=
  match parse data with
  | Some _ => if starts_with (class_of t) data then (data, None) else ([], Some (Leaf (AJsonError UnmarshalTypeError)))
  | None => ([], Some (Leaf (AJsonError SyntaxError)))
  end.
Definition dq : gostring := [34].
Definition ex_set (f x : string) (v : gostring) : gostring := lit "{" ++ dq ++ lit "type" ++ dq ++ lit ":" ++ dq ++ lit x ++ dq ++ lit "}".
Definition ex_marshal (t : gotype) (v : gostring) : error + gostring := inr v.
Definition ex_quote (s : gostring) : string := bytes s.
Definition ex_text : gostring := dq ++ lit "my-index" ++ dq.
Definition ex_keyword : branch := "KeywordProperty" :- "CommonMappingKeywordProperty" sets "Type" := "keyword".
Definition ex_object : gostring := ex_set "Type" "keyword" [].

Lemma listed_strings : StringOrStringArray ∈ typed_unions.
Proof. apply (list_elem_of_lookup_2 _ 12). reflexivity. Defined.
Lemma listed_property : CommonMappingProperty ∈ typed_unions.
Proof. apply (list_elem_of_lookup_2 _ 104). reflexivity. Defined.
Lemma keyword_branch : ex_keyword ∈ tu_branches CommonMappingProperty.
Proof. apply (list_elem_of_lookup_2 _ 3). reflexivity. Defined.

Notation ex_read d data u := (UnmarshalJSON ex_unmarshal ex_quote d data u).

Lemma unions_hold_one_branch_witness :
  exists b v, holds_branch ex_zero StringOrStringArray (ex_read StringOrStringArray ex_text zero_union).1 b v.
Proof.
  destruct (unions_hold_one_branch ex_zero ex_set ex_unmarshal ex_quote StringOrStringArray (ex_read StringOrStringArray ex_text zero_union).1
    listed_strings (reach_unmarshal _ _ _ _ _ ex_text (reach_zero _ _ _ _))) as [(H & _) | H].
  - exfalso. vm_compute in H. discriminate H.
  - exact H.
Defined.

Lemma unions_decode_selected_witness : exists t v,
  selects ex_unmarshal CommonMappingProperty ex_object t /\ ex_unmarshal (tg_type t) ex_object = (v, None) /\
  (ex_read CommonMappingProperty ex_object zero_union).1 = MkUnion (Some (tg_name t)) ex_object (Some (tg_type t, v)).
Proof.
  pose proof (unions_decode_selected ex_unmarshal ex_quote CommonMappingProperty ex_object zero_union listed_property) as [_ H].
  destruct H as [H _]; [discriminate | vm_compute; discriminate|]. apply H. vm_compute. reflexivity.
Defined.

Lemma unions_round_trip_witness :
  MarshalJSON ex_marshal (construct ex_set ex_keyword []) = inr ex_object /\
  accessor ex_zero CommonMappingProperty ex_keyword (ex_read CommonMappingProperty ex_object zero_union).1 = (ex_object, None).
Proof.
  destruct (unions_round_trip ex_zero ex_set ex_unmarshal ex_marshal ex_quote CommonMappingProperty ex_keyword [] ex_object zero_union
    listed_property keyword_branch) as (Hm & _ & Ha); [reflexivity | vm_compute; reflexivity | |].
  - intros w _. exists (dq ++ lit "keyword" ++ dq). split; [|vm_compute; reflexivity].
    exists [], (JStr (lit "keyword")), []. split; [vm_compute; reflexivity | apply not_elem_of_nil].
  - split; [exact Hm | exact Ha].
Defined.
